(* ===== verification/_CoqProject ===== *)
-Q . S2P
Prelude.v
Pointwise.v
Fifo.v
RingBuffer.v
IsacArith.v
IsacInterval.v
IsacDecode.v
IsacSearch.v
IsacRoundTrip.v
IsacTables.v
IsacClients.v
IsacFrame.v
Ilbc.v
SplInl.v
SplVector.v
SplCorrelation.v
G711.v
VadSp.v
SplResample.v
VadBands.v
VadCore.v
RtpWire.v
RtpExtMap.v
RtpHeader.v
RtpSender.v
RtpRoundTrip.v
RtpSession.v
RtpRtx.v
RtpUpdate.v
Vp8Descriptor.v
Vp8Aggregator.v
Vp8Packetizer.v
Vp8Balanced.v
Vp8Session.v
FecBursty.v
FecRandom1.v
FecRandom2.v
FecRandom3.v
FecTables.v
FecMasks.v
FecPacket.v
FecEncode.v
FecRecover.v
FecReceive.v
FecSession.v
FecDecode.v
FecBurst.v
FecErrors.v
FecStream.v
Red.v
RtpHistory.v
RtpKept.v
Pacer.v
PacerQueue.v
PacerDrain.v
RedSender.v
RedReceive.v
VieReceive.v
RedStream.v
RedSession.v
RedVideo.v
RedErrors.v
RtpResend.v
SenderNet.v
Nack.v
NackVideo.v
RtpPadding.v
PacedVideo.v
RtcpParser.v
RtcpSafe.v
StdMap.v
RtcpSender.v
RtcpSteps.v
RtcpBlocks.v
RtcpBuild.v
RtcpLists.v
RtcpReports.v
RtcpPacket.v
RtcpRoundTrip.v
