(* ===== verification/Prelude.v ===== *)
(** * A verified model of the codecs and packets of the Collaboration repository

    The repository is a voice and video collaboration client: Java user
    interfaces around a copy of the WebRTC engine, [src/webrtc_backup].  This library
    models two parts of that engine as Rocq functions and proves them correct: the
    audio core in C (codecs, signal processing and the buffers between them), and
    the packet layer in C++ (RTP headers, the VP8 payload format, forward error
    correction, retransmission and pacing), which takes a coded frame apart into packets,
    sends them and puts it together again.  File names below
    are relative to [src/webrtc_backup].

    ** Conventions

    A C integer is a [Z]; where the type is narrower than the arithmetic the
    wrap-around is written out ([u8] to [s32], this file).  Results that C leaves
    undefined on signed overflow are wrapped, as the targets of the build do;
    the bounds theorems say where this does not happen.  Arrays are lists, every
    access is checked: [Stuck] (or [None] from a whole function) is an access
    outside an array.  The monad [flow] carries early returns.  Loops are
    recursions on the number of iterations ([for_up]) or take fuel and are stuck
    when it runs out; every theorem about such a function states its result, so
    the fuel is enough.

    ** Files, in dependency order

    - Prelude: the integers, the monad, checked array and block accesses, counted
      loops with their invariant rule, lemmas on lists and bit fields.
    - Pointwise: arrays element by element: what a store, a block copy and a loop leave
      at each index.
    - Fifo, RingBuffer: [modules/audio_processing/utility/ring_buffer.c].  Fifo is
      the interface of a byte FIFO (a class of operations and a class of laws) and
      a client theorem proved against it; RingBuffer models every operation on
      the bytes of the buffer, proves the representation invariant [rb_ok], the
      effect of each operation on the unread [content], and the instance.
    - IsacArith: the arithmetic coder of iSAC fixed point,
      [modules/audio_coding/codecs/isac/fix/source]: [arith_routines.c]
      (WebRtcIsacfix_EncTerminate) and [arith_routines_hist.c] (the encoder and the two
      decoders).  State: the records [Bitstr_enc] and [Bitstr_dec], and the local
      variables of the loops, [EncLocal] and [DecLocal].
    - IsacInterval: the specification, an interval coder over unbounded integers,
      and the refinement: the encoder's bytes, carry propagation included, are the
      low end of the interval.  IsacDecode: the decoders in step with it.
      IsacSearch: the table searches on any value of a damaged stream.
      IsacRoundTrip: whole calls and whole streams; decoding returns what was
      encoded, with either decoder, and what happens when the stream is full.
    - IsacTables, IsacClients, IsacFrame: the tables ([lpc_tables.c],
      [pitch_gain_tables.c], [pitch_lag_tables.c], [spectrum_ar_model_tables.c])
      and the functions of [entropy_coding.c] that code the frame length, the bandwidth,
      the pitch gains and lags, the LPC indices, the reflection coefficients and
      the gain.  The class [InSync] is the contract of an encoding and a decoding
      function; every pair is an instance, and a frame of any sequence of them
      round trips.
    - Ilbc: [modules/audio_coding/codecs/ilbc/pack_bits.c] and [unpack_bits.c], as
      tables of the terms and moves in the order of the statements.
    - SplInl, SplVector, SplCorrelation: [common_audio/signal_processing]: saturation,
      norms, divisions and the square root; extrema, copies and scalings of
      vectors; energies, correlations and the random generator.
    - G711: [modules/audio_coding/codecs/g711] and [pcm16b].
    - VadSp, SplResample, VadBands, VadCore: the voice activity detector,
      [common_audio/vad] (the instance is the record [VadInstT]), with the path of the
      resampler that brings 48 kHz frames to 8 kHz.  VadSp: minimum tracking and
      downsampling; VadBands: band energies and Gaussian probabilities; VadCore: the
      decision, the model updates, the frame functions and the interface.
    - RtpWire, RtpExtMap, RtpHeader: [modules/rtp_rtcp/source]: network byte order and
      wrapping numbers; the map of header extensions ([rtp_header_extension.cc]); the
      header parser ([rtp_utility.cc], [rtp_header_parser.cc]).  RtpSender: the headers
      that [rtp_sender.cc] writes and rewrites, with the record [RTPSender] as state.
    - RtpRoundTrip, RtpSession, RtpRtx, RtpUpdate: what the parser gets from built
      headers; the step relation [sender_step] of all calls on a sender and its
      invariant [sender_state]; [distinct_step] for a user who registers no type twice,
      who also keeps the types distinct ([sender_inv]); retransmitted packets; headers
      rewritten before sending.
    - Vp8Descriptor: the VP8 payload descriptor, written ([rtp_format_vp8.cc]) and parsed
      ([rtp_utility.cc], [rtp_receiver_video.cc]).  Vp8Aggregator:
      [vp8_partition_aggregator.cc], with the ways to put partitions into packets
      ([grouping]) as the specification of its tree search.  Vp8Packetizer, Vp8Balanced:
      the three modes of RtpFormatVp8.  Vp8Session: NextPacket until the last packet,
      and SendVP8 of [rtp_sender_video.cc] over the class [VideoSender] of what sends a
      packet and its laws [VideoTransport]: what sending may do to the sender's state.
    - FecBursty, FecRandom1 to FecRandom3: the tables of [fec_private_tables_bursty.h] and
      [fec_private_tables_random.h]; FecTables: what every mask in them satisfies
      ([mask_ok]).  FecMasks: [forward_error_correction_internal.cc].  FecPacket,
      FecEncode: the sender's half of [forward_error_correction.cc], against a packet of
      error correction as a sum of packets, byte by byte ([fec_of]).  FecRecover,
      FecReceive: the receiver's half; its state is the list of known packets and the
      record [FecDecoder].  FecSession: the invariant [fec_inv] of both lists and
      [decoder_step], what a user may do.  FecDecode, FecBurst: a frame through encoder,
      losses and decoder; [derivable] is what follows from the packets that arrived.
      FecErrors: packets that the receiver does not survive.  FecStream: the receiver
      that decodes after every packet has what one call for all of them gives ([steady]).
    - Red: [producer_fec.cc], the RED packet and the state of the producer,
      [ProducerFec].  RedSender: SendVideoPacket of [rtp_sender_video.cc] and SendToNetwork
      of [rtp_sender.cc] over the class [Network] (packet history, pacer, transport), as an
      instance of [VideoSender].  RedReceive: [fec_receiver_impl.cc], with a callback that
      may change the state.  VieReceive: the path of a packet through
      [video_engine/vie_receiver.cc] over the class [RtpReceiver].
    - RedStream: what such a receiver hands on while packets arrive ([handed_on]).
      RedSession: what SendVP8 with error correction puts on the wire ([wire_of]).  RedVideo:
      both together, a frame from SendVP8 to the RTP receiver of the other side.
      RedErrors: a RED packet in a RED packet.
    - RtpHistory: [rtp_packet_history.cc], the packets that a sender keeps; RtpKept: the list
      of kept packets as its specification.
    - Pacer: [modules/pacing/paced_sender.cc], over the class [Callback] of what it calls
      and of the calls of other threads meanwhile.  PacerQueue: three queues as its
      specification, and the log of a run ([logged], [pacer_run]).  PacerDrain: what a
      callback that takes every packet gets, and how long a packet waits.
    - RtpResend: retransmission and padding of [rtp_sender.cc] and the entry points of
      [rtp_rtcp_impl.cc], over [Network].  SenderNet: the history and the pacer as instances
      of [Network].  Nack: OnReceivedNACK against [resends] on the list of kept packets.
      NackVideo: a frame from SendVP8 with a history and the requests of its receiver.
      RtpPadding: what padding puts on the wire.  PacedVideo: a frame from SendVP8 through a
      pacer and its turns, with the module as the pacer's [Callback].
    - RtcpParser: [rtcp_utility.cc], the parser of RTCP packets, the union it reports and
      the iterator over packets.  RtcpSafe: the invariant of the parser ([good]) and what it
      does with any packet.
    - StdMap: [std::map].  RtcpSender: [rtcp_sender.cc], the record [RTCPSender], the functions
      that build the blocks of a compound packet, PrepareRTCP and SendRTCP; what the sender
      asks others is the record [Surroundings].
    - RtcpSteps, RtcpBlocks: the blocks as data ([Block]), their bytes ([block_bytes]) and
      reports ([block_reports]), and that the parser gives these reports for these bytes.
      RtcpBuild, RtcpLists, RtcpReports: that every builder writes the bytes of its block
      ([appends]).  RtcpPacket: the blocks that a packet has ([sent_blocks]).  RtcpRoundTrip:
      from the sender to the reports.

    ** What the theorems show

    - Round trips: frame_round_trip, entropy_round_trip, unpack_pack,
      g711_stream_round_trip, BuildRTPheader_parsed, rtx_round_trip,
      fetch_all_delivered (a frame through packets in every mode), rtcp_round_trip (a compound
      packet of the RTCP sender gives the parser the blocks that were asked for),
      RecoverPacket_GenerateFEC (a lost packet from its packet of error correction).
    - From end to end: frame_survives_burst and frame_survives_one_loss (SendVP8 with error
      correction, a network that loses, repeats and reorders packets, and InsertRTPPacket
      for each that arrives: the RTP receiver gets the frame and nothing else);
      frame_survives_request (a lossy network, and OnReceivedNACK for what is missing);
      paced_frame_sent (the pacer holds a frame and sends all of it in a bounded number of turns).
      They are about senders without header extensions, and with error correction about
      frames protected one by one whose numbers do not wrap, as the receiver discards
      packets of error correction at the wrap; paced_frame_sent needs that the field
      time_last_send_us_, which a new pacer leaves unset, is not above the clock.
    - Arrival: SendVP8_received (a frame that is sent is received, through both headers).
      The exception here and in the theorems from end to end is a key frame whose first
      packet has fewer than ten bytes of it ([short_key_frame]): the receiver refuses that
      packet.
    - Recovery of single frames:
      the lemmas burst_recovered and single_loss_recovered (a frame is repaired after a burst
      of losses and after any one loss).
    - Repair: DecodeFEC_frame_closure (the decoder gives exactly what follows from the
      packets that arrived), GeneratePacketMasks_protects (every packet is protected).
    - Refinement: EncHistMulti_refines (the encoder implements the interval coder),
      ring_buffer_fifo_order (the ring buffer implements the FIFO, any sequence of
      reads and writes, wrapping included), history_refines (the arrays of the packet
      history implement a bounded list), pacer_refines_queues (the pacer implements three
      queues, whatever other threads call).
    - Optimal choices: FindOptimalConfiguration_optimal (the branch and bound search
      equals the search of all ways), CalcNumberOfFragments_optimal.
    - Behaviour on every input: one_step_outcomes for a decoder's
      search, frame_result and frame_encode_total for the encoder, Parse_safe,
      RTPPayloadParser_Parse_safe and rtcp_parse_safe for the parsers,
      GeneratePackets_tiles and
      GeneratePacketsBalancedAggregates_tiles for the packetizer.
    - Where the code goes wrong: the lemma flush_overrun_reachable (the flush of a full
      stream stores one word past the array), duplicate_type_hangs, updates_miss_csrcs,
      received_fec_overruns, red_in_red (calls that nest without end), base_layer_not_resent
      (the default settings keep the base layer from being sent again).
    - Sessions: session_answers (any sequence of calls on the voice activity
      detector is answered as documented, by the invariant [vad_ok]; it stays within its
      arrays but for one element that WebRtcVad_FindMinimum reads past them and that plays
      no part); sender_invariant (any calls on an RTP sender); decoder_sessions (any use of
      a decoder of error correction with numbers within half of their range).
    - Functional results: updates_parsed, nack_answered, and, as lemmas of their files, the
      effects of the single operations on which these rest, among them hangover_bursts,
      FindMinimum_entries, pack_unpack, g711_quantisation, overdue_sends (what waits too long
      in the pacer is sent), AutoCorrelation_exact, SqrtFloor_sqrt, rc_quantiser_cell,
      searches_agree, bisect_outcomes, move_clamps_and_undoes, pcm16b_round_trip and Parse_overread.

    ** Bounds and fuel

    The linear decoder search gets the size of its table as fuel, the bisection
    17 halvings for tables of at most [2 ^ 16] entries, the unrolled sums one more
    iteration than elements, the loop over frame lengths one more than lengths; the
    stream of an iSAC frame has the 200 words of STREAM_MAXW16_60MS.  The loop over
    received header extensions gets one turn for each byte, that over written ones
    one for each id; the loops of the packetizer get one turn for each byte or
    partition, and the search one level for each partition.  The search for packets to
    recover gets [(n + 1) * (n + 1)] turns for [n] packets of error correction: between
    two packets that are removed it passes each at most once.  The RTCP parser gets a turn for
    each byte, where every turn takes four; the RTCP sender needs at most nine of ten turns to
    count the bytes of a picture ID below [2 ^ 63], and tries 64 exponents of a rate, as the
    code does.  The calls of a receiver nest: its fuel bounds
    their depth and the turns of the loop over recovered packets, and 49 is enough for the
    at most 48 packets of that list; while packets are protected, the loop of SendVideoPacket
    gets a turn for each packet of error correction.  The loop of the pacer gets a turn for
    each queued packet, which is enough when no calls arrive meanwhile, and that over padding
    one for each packet of padding; the loop over redundant packets takes fuel.  Table facts are computed by [vm_compute] over whole tables.

    ** Not modelled

    The rest of iSAC (spectrum coefficients and the logistic coder, filters,
    bandwidth estimation), the iLBC analysis, G.722, comfort noise and the other
    resamplers are fixed-point C still to be modelled; of the packet layer, the RTCP
    receiver, the bounding sets of [tmmbr_help.cc] (the sender takes the answer as an
    argument), the statistics and the RTP receiver behind InsertRTPPacket.  The floating-point code (iSAC
    main, echo and noise control), the assembly variants, the rest of the C++ engine
    (threads, sockets and devices) and the Java clients are outside the reach of
    this library.  The optional [encData] copies of [entropy_coding.c], and
    WebRtc_FreeBuffer, which only returns memory, have no definitions. *)
From stdpp Require Export prelude.
From Stdlib Require Export ZArith Lia.
Local Open Scope Z_scope.

(** ** Fixed-width C integers

    A C integer is a [Z]; a conversion to (or an arithmetic result stored in)
    a narrower type is written out with one of the wrapping functions below. *)

Definition u8 (z : Z) : Z := z mod 256.
Definition u16 (z : Z) : Z := z mod 65536.
Definition u32 (z : Z) : Z := z mod 4294967296.
Definition s8 (z : Z) : Z := (z + 128) mod 256 - 128.
Definition s16 (z : Z) : Z := (z + 32768) mod 65536 - 32768.
Definition s32 (z : Z) : Z := (z + 2147483648) mod 4294967296 - 2147483648.

Definition is_u8 (z : Z) : Prop := 0 <= z < 256.
Definition is_u16 (z : Z) : Prop := 0 <= z < 65536.
Definition is_u32 (z : Z) : Prop := 0 <= z < 4294967296.
Definition is_s16 (z : Z) : Prop := -32768 <= z < 32768.
Definition is_s32 (z : Z) : Prop := -2147483648 <= z < 2147483648.

#[export] Instance is_u8_dec z : Decision (is_u8 z).
Proof. unfold is_u8. apply _. Defined.
#[export] Instance is_u16_dec z : Decision (is_u16 z).
Proof. unfold is_u16. apply _. Defined.
#[export] Instance is_u32_dec z : Decision (is_u32 z).
Proof. unfold is_u32. apply _. Defined.
#[export] Instance is_s16_dec z : Decision (is_s16 z).
Proof. unfold is_s16. apply _. Defined.
#[export] Instance is_s32_dec z : Decision (is_s32 z).
Proof. unfold is_s32. apply _. Defined.

(** Arithmetic automation: [zdm] turns every quotient and remainder by a
    constant into its defining inequalities; [cint] also opens the wrapping
    functions and the range predicates. *)
Ltac zdm := Z.div_mod_to_equations; lia.
Ltac cunf := unfold u8, u16, u32, s8, s16, s32, is_u8, is_u16, is_u32, is_s16, is_s32 in *.
Ltac cint := cunf; zdm.

(** Case analysis on the integer comparisons of the goal, innermost first. *)
Ltac zcase_on a b d :=
  lazymatch a with
  | context [if _ then _ else _] => fail
  | _ => lazymatch b with context [if _ then _ else _] => fail | _ => d end
  end.
Ltac zcase :=
  match goal with
  | |- context [Z.ltb ?a ?b] => zcase_on a b ltac:(destruct (Z.ltb_spec a b))
  | |- context [Z.leb ?a ?b] => zcase_on a b ltac:(destruct (Z.leb_spec a b))
  | |- context [Z.eqb ?a ?b] => zcase_on a b ltac:(destruct (Z.eqb_spec a b))
  end.
Ltac zcases := repeat zcase.

Lemma u8_id z : is_u8 z -> u8 z = z.
Proof. apply Z.mod_small. Qed.
Lemma u16_id z : is_u16 z -> u16 z = z.
Proof. apply Z.mod_small. Qed.
Lemma u32_id z : is_u32 z -> u32 z = z.
Proof. apply Z.mod_small. Qed.
Lemma s16_id z : is_s16 z -> s16 z = z.
Proof. cint. Qed.
Lemma s32_id z : is_s32 z -> s32 z = z.
Proof. cint. Qed.
Lemma u8_range z : is_u8 (u8 z).
Proof. cint. Qed.
Lemma u16_range z : is_u16 (u16 z).
Proof. cint. Qed.
Lemma u32_range z : is_u32 (u32 z).
Proof. cint. Qed.
Lemma s16_range z : is_s16 (s16 z).
Proof. cint. Qed.
Lemma s32_range z : is_s32 (s32 z).
Proof. cint. Qed.

Create HintDb cint.
#[export] Hint Resolve u8_range u16_range u32_range s16_range s32_range : cint.
Create Rewrite HintDb cint_rw.
#[export] Hint Rewrite u8_id u16_id u32_id s16_id s32_id using (cunf; lia) : cint_rw.

(** ** Control flow of C bodies

    [Cont a] goes on with [a]; [Ret r] is an early [return]; [Stuck] is an
    access outside an array, which C leaves undefined. *)
Inductive flow (R A : Type) : Type :=
| Cont (a : A)
| Ret (r : R)
| Stuck.
Arguments Cont {R A} a.
Arguments Ret {R A} r.
Arguments Stuck {R A}.

Definition flow_bind {R A B : Type} (m : flow R A) (k : A -> flow R B) : flow R B :=
  match m with
  | Cont a => k a
  | Ret r => Ret r
  | Stuck => Stuck
  end.

(** A whole body: falling off the end and returning early are both results. *)
Definition run_flow {R : Type} (m : flow R R) : option R :=
  match m with
  | Cont r | Ret r => Some r
  | Stuck => None
  end.

(** A call: the callee's result, returned early or not, is a value. *)
Definition call {R A : Type} (m : flow A A) : flow R A :=
  match m with
  | Cont a | Ret a => Cont a
  | Stuck => Stuck
  end.

Declare Scope c_scope.
Delimit Scope c_scope with c.
Notation "'let!' x := m 'in' k" := (flow_bind m (fun x => k))
  (at level 10, x pattern, m at level 100, k at level 200) : c_scope.
Global Open Scope c_scope.

(** Array accesses, checked. *)
Definition rd {R A : Type} (l : list A) (i : Z) : flow R A :=
  if i <? 0 then Stuck
  else match l !! Z.to_nat i with Some v => Cont v | None => Stuck end.

Definition wr {R A : Type} (l : list A) (i : Z) (v : A) : flow R (list A) :=
  if (0 <=? i) && (i <? Z.of_nat (length l)) then Cont (<[Z.to_nat i := v]> l) else Stuck.

Definition Zlen {A : Type} (l : list A) : Z := Z.of_nat (length l).

(** Prefixes and suffixes at an integer offset. *)
Definition ztake {A : Type} (n : Z) (l : list A) : list A := take (Z.to_nat n) l.
Definition zdrop {A : Type} (n : Z) (l : list A) : list A := drop (Z.to_nat n) l.

(** [memcpy]: [blk_get] is the bytes read, [blk_put] the bytes stored. *)
Definition blk_get {R A : Type} (l : list A) (off n : Z) : flow R (list A) :=
  if (0 <=? off) && (0 <=? n) && (off + n <=? Zlen l)
  then Cont (ztake n (zdrop off l)) else Stuck.

Definition blk_put {R A : Type} (l : list A) (off : Z) (src : list A) : flow R (list A) :=
  if (0 <=? off) && (off + Zlen src <=? Zlen l)
  then Cont (ztake off l ++ src ++ zdrop (off + Zlen src) l) else Stuck.

(** ** Lemmas on arrays *)

Lemma rd_Cont {R A} (l : list A) i v :
  0 <= i -> l !! Z.to_nat i = Some v -> rd (R := R) l i = Cont v.
Proof. intros Hi Hl. unfold rd. rewrite Hl. by destruct (Z.ltb_spec i 0); [lia|]. Qed.

Lemma wr_Cont {R A} (l : list A) i v :
  0 <= i < Zlen l -> wr (R := R) l i v = Cont (<[Z.to_nat i := v]> l).
Proof.
  unfold Zlen, wr. intros Hi.
  destruct (Z.leb_spec 0 i), (Z.ltb_spec i (Z.of_nat (length l))); simpl; lia || done.
Qed.

Lemma blk_get_Cont {R A} (l : list A) off n :
  0 <= off -> 0 <= n -> off + n <= Zlen l ->
  blk_get (R := R) l off n = Cont (ztake n (zdrop off l)).
Proof.
  intros. unfold blk_get.
  destruct (Z.leb_spec 0 off), (Z.leb_spec 0 n), (Z.leb_spec (off + n) (Zlen l));
    simpl; lia || done.
Qed.

Lemma blk_put_Cont {R A} (l : list A) off src :
  0 <= off -> off + Zlen src <= Zlen l ->
  blk_put (R := R) l off src = Cont (ztake off l ++ src ++ zdrop (off + Zlen src) l).
Proof.
  intros. unfold blk_put.
  destruct (Z.leb_spec 0 off), (Z.leb_spec (off + Zlen src) (Zlen l)); simpl; lia || done.
Qed.

Section zlists.
Context {A : Type}.
Implicit Types l k : list A.

Lemma Zlen_app l k : Zlen (l ++ k) = Zlen l + Zlen k.
Proof. unfold Zlen. rewrite length_app. lia. Qed.
Lemma Zlen_nil : Zlen ([] : list A) = 0.
Proof. done. Qed.
Lemma Zlen_cons x l : Zlen (x :: l) = 1 + Zlen l.
Proof. unfold Zlen. simpl. lia. Qed.
Lemma Zlen_nonneg l : 0 <= Zlen l.
Proof. unfold Zlen. lia. Qed.
Lemma Zlen_insert l i x : Zlen (<[i := x]> l) = Zlen l.
Proof. unfold Zlen. by rewrite length_insert. Qed.
Lemma Zlen_ztake l n : 0 <= n <= Zlen l -> Zlen (ztake n l) = n.
Proof. unfold Zlen, ztake. intros. rewrite length_take. lia. Qed.
Lemma Zlen_zdrop l n : 0 <= n <= Zlen l -> Zlen (zdrop n l) = Zlen l - n.
Proof. unfold Zlen, zdrop. intros. rewrite length_drop. lia. Qed.
Lemma Zlen_replicate n (x : A) : 0 <= n -> Zlen (replicate (Z.to_nat n) x) = n.
Proof. unfold Zlen. intros. rewrite length_replicate. lia. Qed.

Lemma ztake_zdrop n l : ztake n l ++ zdrop n l = l.
Proof. apply take_drop. Qed.
Lemma ztake_0 n l : n <= 0 -> ztake n l = [].
Proof. intros. unfold ztake. replace (Z.to_nat n) with 0%nat by lia. done. Qed.
Lemma zdrop_0 n l : n <= 0 -> zdrop n l = l.
Proof. intros. unfold zdrop. replace (Z.to_nat n) with 0%nat by lia. done. Qed.
Lemma ztake_all n l : Zlen l <= n -> ztake n l = l.
Proof. unfold Zlen, ztake. intros. apply take_ge. lia. Qed.
Lemma zdrop_all n l : Zlen l <= n -> zdrop n l = [].
Proof. unfold Zlen, zdrop. intros. apply drop_ge. lia. Qed.
Lemma ztake_app_le l k n : n <= Zlen l -> ztake n (l ++ k) = ztake n l.
Proof. unfold Zlen, ztake. intros. apply take_app_le. lia. Qed.
Lemma ztake_app_ge l k n : Zlen l <= n -> ztake n (l ++ k) = l ++ ztake (n - Zlen l) k.
Proof.
    unfold Zlen, ztake. intros. rewrite take_app_ge by lia. do 2 f_equal. lia.
Qed.
Lemma zdrop_app_le l k n : n <= Zlen l -> zdrop n (l ++ k) = zdrop n l ++ k.
Proof. unfold Zlen, zdrop. intros. apply drop_app_le. lia. Qed.
Lemma zdrop_app_ge l k n : Zlen l <= n -> zdrop n (l ++ k) = zdrop (n - Zlen l) k.
Proof. unfold Zlen, zdrop. intros. rewrite drop_app_ge by lia. f_equal. lia. Qed.
Lemma zdrop_zdrop n m l : 0 <= n -> 0 <= m -> zdrop n (zdrop m l) = zdrop (m + n) l.
Proof. unfold zdrop. intros. rewrite drop_drop. f_equal. lia. Qed.
Lemma ztake_ztake n m l : 0 <= n <= m -> ztake n (ztake m l) = ztake n l.
Proof. unfold ztake. intros. rewrite take_take. f_equal. lia. Qed.
Lemma zdrop_ztake n m l :
    0 <= n <= m -> zdrop n (ztake m l) = ztake (m - n) (zdrop n l).
Proof. unfold zdrop, ztake. intros. rewrite skipn_firstn_comm. f_equal. lia. Qed.
Lemma ztake_plus n m l :
    0 <= n -> 0 <= m -> ztake (n + m) l = ztake n l ++ ztake m (zdrop n l).
Proof.
    unfold ztake, zdrop. intros. rewrite Z2Nat.inj_add by lia.
    rewrite <- (take_drop (Z.to_nat n) l) at 1.
    destruct (decide (Z.to_nat n <= length l)%nat) as [H1|H1].
    - rewrite take_app_ge; rewrite length_take; [|lia]. do 2 f_equal. lia.
    - rewrite (drop_ge l) by lia. rewrite take_nil, !app_nil_r, take_ge; [done|].
      rewrite length_take. lia.
Qed.

Lemma ztake_snoc `{!Inhabited A} n l :
    0 <= n < Zlen l -> ztake (n + 1) l = ztake n l ++ [l !!! Z.to_nat n].
Proof.
    unfold ztake, Zlen. intros Hn. rewrite Z2Nat.inj_add, Nat.add_1_r by lia.
    apply take_S_r, list_lookup_lookup_total_lt. lia.
Qed.
End zlists.

(** ** Bit fields as quotients and remainders *)

Lemma land_field z n k :
  0 <= n -> 0 <= k -> Z.land z (Z.shiftl (Z.ones n) k) = (z / 2 ^ k) mod 2 ^ n * 2 ^ k.
Proof.
  intros Hn Hk. rewrite <- Z.shiftr_div_pow2, <- Z.land_ones, <- Z.shiftl_mul_pow2 by lia.
  apply Z.bits_inj'. intros i Hi. rewrite Z.land_spec, !Z.shiftl_spec, Z.land_spec by lia.
  destruct (Z.ltb_spec i k).
  - rewrite (Z.testbit_neg_r (Z.ones n)) by lia. by rewrite !andb_false_r.
  - rewrite Z.shiftr_spec by lia. do 2 f_equal. lia.
Qed.

Lemma lor_disjoint a b : Z.land a b = 0 -> Z.lor a b = a + b.
Proof. intros H. rewrite <- Z.lxor_lor by done. by rewrite Z.add_nocarry_lxor. Qed.

(** The low part of an [or] below the high part's lowest bit. *)
Lemma lor_high_low a b k : 0 <= k -> 0 <= b < 2 ^ k -> Z.lor (a * 2 ^ k) b = a * 2 ^ k + b.
Proof.
  intros Hk Hb. apply lor_disjoint. apply Z.bits_inj'. intros i Hi.
  rewrite Z.land_spec, Z.bits_0, <- Z.shiftl_mul_pow2, Z.shiftl_spec by lia.
  destruct (Z.ltb_spec i k).
  - by rewrite (Z.testbit_neg_r a) by lia.
  - rewrite <- (Z.mod_small b (2 ^ k)), Z.mod_pow2_bits_high by lia. apply andb_false_r.
Qed.

(** Total reads, for specifications. *)
Lemma rd_total {R A} `{!Inhabited A} (l : list A) i :
  0 <= i < Zlen l -> rd (R := R) l i = Cont (l !!! Z.to_nat i).
Proof.
  unfold Zlen. intros Hi. apply rd_Cont; [lia|]. apply list_lookup_lookup_total_lt. lia.
Qed.

Lemma Forall_total (P : Z -> Prop) (l : list Z) i :
  Forall P l -> (i < length l)%nat -> P (l !!! i).
Proof.
  intros H Hi. eapply Forall_lookup_1; [done|]. by apply list_lookup_lookup_total_lt.
Qed.

(** ** Counted loops

    [for (i = i0; n iterations; i++) body], with the rule that proves that the
    loop ends in a state of its invariant. *)
Fixpoint for_up {R St : Type} (n : nat) (i : Z) (body : Z -> St -> flow R St) (s : St)
  : flow R St :=
  match n with
  | O => Cont s
  | S n => let! s := body i s in for_up n (i + 1) body s
  end.

Lemma for_up_inv {R St} (P : Z -> St -> Prop) (body : Z -> St -> flow R St) n i s :
  P i s ->
  (forall j s, i <= j < i + Z.of_nat n -> P j s ->
     exists s', body j s = Cont s' /\ P (j + 1) s') ->
  exists s', for_up n i body s = Cont s' /\ P (i + Z.of_nat n) s'.
Proof.
  revert i s. induction n as [|n IH]; intros i s H0 Hs; cbn [for_up].
  - exists s. split; [done|]. by replace (i + Z.of_nat 0) with i by lia.
  - destruct (Hs i s ltac:(lia) H0) as (s1 & -> & H1). cbn [flow_bind].
    destruct (IH (i + 1) s1 H1) as (s2 & H2 & HP).
    + intros j s' Hj. apply Hs. lia.
    + exists s2. split; [done|]. by replace (i + Z.of_nat (S n)) with (i + 1 + Z.of_nat n) by lia.
Qed.

(** An array whose first [j] elements are those of [h], and one more of them. *)
Lemma wr_next {R A} (h : Z -> A) (out : list A) j :
  0 <= j < Zlen out ->
  wr (R := R) ((h <$> seqZ 0 j) ++ zdrop j out) j (h j)
  = Cont ((h <$> seqZ 0 (j + 1)) ++ zdrop (j + 1) out).
Proof.
  intros Hj.
  assert (Hl : Zlen (h <$> seqZ 0 j) = j)
    by (unfold Zlen; rewrite length_fmap, length_seqZ; lia).
  assert (Hd : Zlen (zdrop j out) = Zlen out - j) by (apply Zlen_zdrop; lia).
  rewrite wr_Cont by (rewrite Zlen_app; lia).
  unfold Zlen in Hl. rewrite insert_app_r_alt by lia.
  replace (Z.to_nat j - length (h <$> seqZ 0 j))%nat with 0%nat by lia.
  rewrite seqZ_app, fmap_app by lia. rewrite <- app_assoc. do 2 f_equal.
  rewrite <- (zdrop_zdrop 1 j out) by lia.
  destruct (zdrop j out) as [|x l]; [rewrite Zlen_nil in Hd; lia|]. done.
Qed.

(** A loop that stores one element per iteration, in order. *)
Lemma for_up_store {R A} (h : Z -> A) (body : Z -> list A -> flow R (list A)) n out :
  0 <= n <= Zlen out ->
  (forall j o, 0 <= j < n -> Zlen o = Zlen out -> body j o = wr o j (h j)) ->
  for_up (Z.to_nat n) 0 body out = Cont ((h <$> seqZ 0 n) ++ zdrop n out).
Proof.
  intros Hn Hb.
  destruct (for_up_inv (fun j o => o = (h <$> seqZ 0 j) ++ zdrop j out) body (Z.to_nat n) 0 out)
    as (o & -> & ->).
  - rewrite zdrop_0 by lia. done.
  - intros j o Hj ->. eexists. split; [|reflexivity]. rewrite Hb; [apply wr_next; lia|lia|].
    rewrite Zlen_app, Zlen_zdrop by lia. unfold Zlen at 1. rewrite length_fmap, length_seqZ. lia.
  - by rewrite Z2Nat.id by lia.
Qed.

Lemma fmap_seqZ_ztake {A B} `{!Inhabited A} (f : A -> B) (l : list A) n :
  0 <= n <= Zlen l -> (fun j => f (l !!! Z.to_nat j)) <$> seqZ 0 n = f <$> ztake n l.
Proof.
  unfold Zlen. intros Hn. apply list_eq. intros i. rewrite !list_lookup_fmap. unfold ztake.
  destruct (decide (Z.of_nat i < n)) as [Hi|Hi].
  - rewrite lookup_seqZ_lt by done. rewrite lookup_take_lt by lia.
    rewrite (list_lookup_lookup_total_lt l i) by lia. cbn [fmap option_fmap option_map].
    by rewrite Z.add_0_l, Nat2Z.id.
  - rewrite lookup_seqZ_ge by lia. by rewrite lookup_take_ge by lia.
Qed.

(** A loop that maps an input array into an output array. *)
Lemma for_up_map {R A B} `{!Inhabited A} (f : A -> B) (inp : list A) (out : list B) n :
  0 <= n <= Zlen inp -> n <= Zlen out ->
  for_up (R := R) (Z.to_nat n) 0 (fun j o => let! x := rd inp j in wr o j (f x)) out
  = Cont ((f <$> ztake n inp) ++ zdrop n out).
Proof.
  intros Hi Ho. rewrite <- fmap_seqZ_ztake by done.
  apply (for_up_store (fun j => f (inp !!! Z.to_nat j))); [lia|].
  intros j o Hj _. by rewrite rd_total by lia.
Qed.

Lemma for_up_ext {R St} (f g : Z -> St -> flow R St) n i s :
  (forall j s, i <= j < i + Z.of_nat n -> f j s = g j s) -> for_up n i f s = for_up n i g s.
Proof.
  revert i s. induction n as [|n IH]; intros i s H; cbn [for_up]; [done|].
  rewrite H by lia. destruct (g i s); [|done|done]. cbn [flow_bind]. apply IH.
  intros j s' Hj. apply H. lia.
Qed.

Lemma flow_bind_ext {R A B} (m : flow R A) (f g : A -> flow R B) :
  (forall a, f a = g a) -> flow_bind m f = flow_bind m g.
Proof. intros H. by destruct m; cbn [flow_bind]. Qed.

Lemma flow_bind_assoc {R A B C} (m : flow R A) (f : A -> flow R B) (g : B -> flow R C) :
  flow_bind (flow_bind m f) g = flow_bind m (fun x => flow_bind (f x) g).
Proof. by destruct m. Qed.

(** A fact of a small range by computation. *)
Lemma seqZ_check (P : Z -> bool) n x :
  forallb P (seqZ 0 n) = true -> 0 <= x < n -> P x = true.
Proof.
  intros H Hx. rewrite forallb_forall in H. apply H, list_elem_of_In, elem_of_seqZ. lia.
Qed.

(** ** Totality

    [gives] and the tactics that walk through a body: every array access is in
    bounds, and the lengths are kept. *)

(** A computation that gives a result with a property. *)
Definition gives {R A : Type} (m : flow R A) (P : A -> Prop) : Prop := exists a, m = Cont a /\ P a.

Lemma gives_bind {R A B} (m : flow R A) (k : A -> flow R B) (P : A -> Prop) (Q : B -> Prop) :
  gives m P -> (forall a, P a -> gives (k a) Q) -> gives (flow_bind m k) Q.
Proof. intros (a & -> & Ha) Hk. apply Hk, Ha. Qed.

Lemma gives_Cont {R A} (a : A) (P : A -> Prop) : P a -> gives (R := R) (Cont a) P.
Proof. intros. by exists a. Qed.

Lemma gives_rd {R} (l : list Z) i (P : Z -> Prop) :
  0 <= i < Zlen l -> (forall x, P x) -> gives (R := R) (rd l i) P.
Proof. intros. rewrite rd_total by done. by apply gives_Cont. Qed.

Lemma gives_wr {R} (l : list Z) i v :
  0 <= i < Zlen l -> gives (R := R) (wr l i v) (fun l' => Zlen l' = Zlen l).
Proof. intros. rewrite wr_Cont by done. apply gives_Cont, Zlen_insert. Qed.

Lemma gives_for {R St} (P : St -> Prop) (body : Z -> St -> flow R St) n i s :
  P s -> (forall j s, i <= j < i + Z.of_nat n -> P s -> gives (body j s) P) ->
  gives (for_up n i body s) P.
Proof. intros H0 Hs. destruct (for_up_inv (fun _ => P) body n i s) as (s' & ? & ?); [done|done|].
  by exists s'.
Qed.

Lemma gives_weaken {R A} (m : flow R A) (P Q : A -> Prop) :
  gives m P -> (forall a, P a -> Q a) -> gives m Q.
Proof. intros (a & -> & Ha) H. exists a. auto. Qed.

(** Steps through a body: reads, writes and the lengths they keep. *)
Ltac glen := simpl in *; repeat match goal with H : _ /\ _ |- _ => destruct H end; try lia.
Ltac gread := eapply gives_bind; [apply (gives_rd _ _ (fun _ => True)); [glen|done]|intros ? _].
Ltac gwrite := eapply gives_bind; [apply gives_wr; glen|intros ? ?].
