(* ===== verification/Pointwise.v ===== *)
(** * Arrays by their elements

    [zat] is the element at an integer index.  The rules give the elements of an
    array after a store, a block copy and a loop that changes one element per turn. *)
From S2P Require Import Prelude.
Local Open Scope Z_scope.

Definition zat {A : Type} `{Inhabited A} (l : list A) (j : Z) : A := l !!! Z.to_nat j.

(** [j] is one of the [n] indices from [a]. *)
Definition in_span (a n j : Z) : bool := (a <=? j) && (j <? a + n).

Lemma in_span_spec a n j : BoolSpec (a <= j < a + n) (~ a <= j < a + n) (in_span a n j).
Proof.
  unfold in_span. destruct (Z.leb_spec a j), (Z.ltb_spec j (a + n)); constructor; lia.
Qed.

Section pointwise.
Context {A : Type} {HA : Inhabited A}.
Implicit Types l k : list A.

Lemma list_eq_zat l k :
  Zlen l = Zlen k -> (forall j, 0 <= j < Zlen l -> zat l j = zat k j) -> l = k.
Proof.
  unfold Zlen, zat. intros Hl Hj. apply list_eq_same_length with (length l); [lia|done|].
  intros i x y Hi Hx Hy. apply list_lookup_total_correct in Hx, Hy. subst.
  specialize (Hj (Z.of_nat i)). rewrite Nat2Z.id in Hj. apply Hj. lia.
Qed.

Lemma rd_zat {R} l i : 0 <= i < Zlen l -> rd (R := R) l i = Cont (zat l i).
Proof. apply rd_total. Qed.

Lemma zat_insert l i v j :
  0 <= i < Zlen l -> 0 <= j ->
  zat (<[Z.to_nat i := v]> l) j = if j =? i then v else zat l j.
Proof.
  unfold zat, Zlen. intros Hi Hj. destruct (Z.eqb_spec j i) as [->|Hn].
  - apply list_lookup_total_insert_eq. lia.
  - apply list_lookup_total_insert_ne. lia.
Qed.

Lemma zat_app l k j :
  0 <= j -> zat (l ++ k) j = if j <? Zlen l then zat l j else zat k (j - Zlen l).
Proof.
  unfold zat, Zlen. intros Hj. destruct (Z.ltb_spec j (Z.of_nat (length l))).
  - apply lookup_total_app_l. lia.
  - rewrite lookup_total_app_r by lia. f_equal. lia.
Qed.

Lemma zat_ztake l n j : 0 <= j < n -> zat (ztake n l) j = zat l j.
Proof. unfold zat, ztake. intros Hj. apply lookup_total_take_lt. lia. Qed.

Lemma zat_zdrop l n j : 0 <= n -> 0 <= j -> zat (zdrop n l) j = zat l (n + j).
Proof.
  unfold zat, zdrop. intros. rewrite lookup_total_drop. f_equal. lia.
Qed.

Lemma zat_replicate n (x : A) j : 0 <= j < n -> zat (replicate (Z.to_nat n) x) j = x.
Proof. unfold zat. intros. apply lookup_total_replicate_2. lia. Qed.

Lemma zat_fmap_seqZ (f : Z -> A) n j : 0 <= j < n -> zat (f <$> seqZ 0 n) j = f j.
Proof.
  unfold zat. intros Hj. apply list_lookup_total_correct. rewrite list_lookup_fmap.
  rewrite lookup_seqZ_lt by lia. cbn. f_equal. f_equal. lia.
Qed.

Lemma Zlen_fmap_seqZ (f : Z -> A) n : 0 <= n -> Zlen (f <$> seqZ 0 n) = n.
Proof. intros. unfold Zlen. rewrite length_fmap, length_seqZ. lia. Qed.

Lemma zat_ext_fmap_seqZ (f : Z -> A) l n :
  0 <= n -> Zlen l = n -> (forall j, 0 <= j < n -> zat l j = f j) -> l = f <$> seqZ 0 n.
Proof.
  intros Hn Hl Hj. apply list_eq_zat; [by rewrite Zlen_fmap_seqZ|].
  intros j Hjn. rewrite zat_fmap_seqZ by lia. apply Hj. lia.
Qed.

(** ** What stores and copies leave *)

Lemma gives_wr_at {R} l i v :
  0 <= i < Zlen l ->
  gives (R := R) (wr l i v)
    (fun k => Zlen k = Zlen l /\ forall j, 0 <= j -> zat k j = if j =? i then v else zat l j).
Proof.
  intros. rewrite wr_Cont by done. apply gives_Cont. split; [apply Zlen_insert|].
  intros. by apply zat_insert.
Qed.

Lemma gives_get_at {R} l off n :
  0 <= off -> 0 <= n -> off + n <= Zlen l ->
  gives (R := R) (blk_get l off n)
    (fun k => Zlen k = n /\ forall j, 0 <= j < n -> zat k j = zat l (off + j)).
Proof.
  intros. rewrite blk_get_Cont by done. apply gives_Cont. split.
  - rewrite Zlen_ztake; [done|]. rewrite Zlen_zdrop; lia.
  - intros j Hj. rewrite zat_ztake by lia. apply zat_zdrop; lia.
Qed.

Lemma gives_put_at {R} l off k :
  0 <= off -> off + Zlen k <= Zlen l ->
  gives (R := R) (blk_put l off k)
    (fun l' => Zlen l' = Zlen l /\
       forall j, 0 <= j -> zat l' j = if in_span off (Zlen k) j then zat k (j - off) else zat l j).
Proof.
  intros H0 H1. pose proof (Zlen_nonneg k). rewrite blk_put_Cont by done. apply gives_Cont. split.
  - rewrite !Zlen_app, Zlen_ztake, Zlen_zdrop by lia. lia.
  - intros j Hj. rewrite zat_app by lia. rewrite Zlen_ztake by lia.
    destruct (Z.ltb_spec j off).
    + rewrite zat_ztake by lia. destruct (in_span_spec off (Zlen k) j); [lia|done].
    + rewrite zat_app by lia. destruct (Z.ltb_spec (j - off) (Zlen k)).
      * destruct (in_span_spec off (Zlen k) j); [done|lia].
      * rewrite zat_zdrop by lia. destruct (in_span_spec off (Zlen k) j); [lia|]. f_equal. lia.
Qed.

(** A copy of a part of another array. *)
Lemma gives_copy_at {R} l off src soff n :
  0 <= off -> 0 <= soff -> 0 <= n -> off + n <= Zlen l -> soff + n <= Zlen src ->
  gives (R := R) (let! k := blk_get src soff n in blk_put l off k)
    (fun l' => Zlen l' = Zlen l /\
       forall j, 0 <= j -> zat l' j = if in_span off n j then zat src (soff + (j - off)) else zat l j).
Proof.
  intros. eapply gives_bind; [by apply gives_get_at|]. intros k [Hk Hkj].
  eapply gives_weaken; [apply gives_put_at; lia|]. intros l' [Hl' Hj']. split; [done|].
  intros j Hj. rewrite Hj' by done. rewrite Hk. destruct (in_span_spec off n j); [|done].
  apply Hkj. lia.
Qed.

(** A loop whose turn [j] replaces element [j] by a function of it. *)
Lemma gives_for_at {R} (g : Z -> A -> A) (body : Z -> list A -> flow R (list A)) a n l :
  0 <= a -> 0 <= n -> a + n <= Zlen l ->
  (forall j k, a <= j < a + n -> Zlen k = Zlen l -> body j k = wr k j (g j (zat k j))) ->
  gives (for_up (Z.to_nat n) a body l)
    (fun l' => Zlen l' = Zlen l /\
       forall j, 0 <= j -> zat l' j = if in_span a n j then g j (zat l j) else zat l j).
Proof.
  intros Ha Hn Hl Hb.
  destruct (for_up_inv (fun i k => Zlen k = Zlen l /\
       forall j, 0 <= j -> zat k j = if in_span a (i - a) j then g j (zat l j) else zat l j)
       body (Z.to_nat n) a l) as (l' & -> & Hl' & Hj').
  - split; [done|]. intros j Hj. destruct (in_span_spec a (a - a) j); [lia|done].
  - intros i k Hi [Hk Hkj]. rewrite Hb by lia.
    destruct (gives_wr_at (R := R) k i (g i (zat k i))) as (k' & -> & Hk' & Hkj'); [lia|].
    exists k'. split; [done|]. split; [lia|]. intros j Hj. rewrite Hkj' by done.
    destruct (Z.eqb_spec j i) as [->|].
    + rewrite Hkj by done. destruct (in_span_spec a (i - a) i); [lia|].
      destruct (in_span_spec a (i + 1 - a) i); [done|lia].
    + rewrite Hkj by done.
      destruct (in_span_spec a (i - a) j), (in_span_spec a (i + 1 - a) j); done || lia.
  - exists l'. split; [done|]. split; [done|]. intros j Hj. rewrite Hj' by done.
    destruct (in_span_spec a (a + Z.of_nat (Z.to_nat n) - a) j), (in_span_spec a n j); done || lia.
Qed.

(** A loop whose turn [j] runs [f j] on element [j] and stores the result. *)
Lemma gives_for_each {R} (f : Z -> A -> flow R A) (Q : Z -> A -> A -> Prop) n l :
  0 <= n <= Zlen l ->
  (forall j, 0 <= j < n -> gives (f j (zat l j)) (Q j (zat l j))) ->
  gives (for_up (Z.to_nat n) 0 (fun j k => let! x := rd k j in let! y := f j x in wr k j y) l)
    (fun l' => Zlen l' = Zlen l
       /\ (forall j, 0 <= j < n -> Q j (zat l j) (zat l' j))
       /\ (forall j, n <= j -> zat l' j = zat l j)).
Proof.
  intros Hn Hf.
  destruct (for_up_inv (fun i k => Zlen k = Zlen l
      /\ (forall j, 0 <= j < i -> Q j (zat l j) (zat k j)) /\ (forall j, i <= j -> zat k j = zat l j))
    (fun j k => let! x := rd k j in let! y := f j x in wr k j y) (Z.to_nat n) 0 l)
    as (l' & -> & Hl' & Hq & Ho).
  - split; [done|]. split; [lia|done].
  - intros i k Hi (Hk & Hq & Ho). rewrite rd_zat by lia. cbn [flow_bind]. rewrite Ho by lia.
    destruct (Hf i ltac:(lia)) as (y & -> & Hy). cbn [flow_bind].
    destruct (gives_wr_at (R := R) k i y) as (k' & -> & Hk' & Hj); [lia|].
    exists k'. split; [done|]. split; [lia|]. split.
    + intros j Hj'. rewrite Hj by lia. destruct (Z.eqb_spec j i) as [->|]; [done|]. apply Hq. lia.
    + intros j Hj'. rewrite Hj by lia. destruct (Z.eqb_spec j i); [lia|]. apply Ho. lia.
  - exists l'. split; [done|]. rewrite Z2Nat.id in Hq, Ho by lia. done.
Qed.
End pointwise.
