(* ===== verification/Fifo.v ===== *)
(** * The interface of a byte FIFO, and a client

    What the audio modules rely on when they talk to each other through a
    buffer of fixed-size elements: [ByteFifo] is the operations, its laws say
    that a write appends what was accepted and a read removes what was
    delivered.  [fifo_trace_law] is proved once against the interface;
    RingBuffer.v gives the instance. *)
From S2P Require Import Prelude.
Local Open Scope Z_scope.

Class ByteFifo (S : Type) : Type := {
  bf_inv : S -> Prop;
  bf_unit : S -> Z;
  bf_content : S -> list Z;
  bf_put : S -> list Z -> Z -> option (Z * S);
  bf_get : S -> Z -> option (Z * list Z * S)
}.

(** A request is legal when the count is a [size_t] and the source block holds
    that many elements. *)
Definition legal_put {S} `{ByteFifo S} (s : S) (src : list Z) (count : Z) : Prop :=
  0 <= count < 4294967296 /\ count * bf_unit s <= Zlen src.

Class ByteFifoLaws (S : Type) `{ByteFifo S} : Prop := {
  bf_put_law s src count :
    bf_inv s -> legal_put s src count ->
    exists n s', bf_put s src count = Some (n, s') /\ 0 <= n <= count /\
      bf_inv s' /\ bf_unit s' = bf_unit s /\
      bf_content s' = bf_content s ++ ztake (n * bf_unit s) src;
  bf_get_law s count :
    bf_inv s -> 0 <= count < 4294967296 ->
    exists n bytes s', bf_get s count = Some (n, bytes, s') /\ 0 <= n <= count /\
      bf_inv s' /\ bf_unit s' = bf_unit s /\
      bf_content s = bytes ++ bf_content s' /\ Zlen bytes = n * bf_unit s
}.

Inductive fifo_op : Type :=
| Put (src : list Z) (count : Z)
| Get (count : Z).

Definition legal_op (unit : Z) (o : fifo_op) : Prop :=
  match o with
  | Put src count => 0 <= count < 4294967296 /\ count * unit <= Zlen src
  | Get count => 0 <= count < 4294967296
  end.

Section client.
Context {S : Type} `{ByteFifo S}.

  (** Run a sequence of requests; the result is the final state, the bytes
      accepted and the bytes delivered. *)
Fixpoint fifo_run (ops : list fifo_op) (s : S) : option (S * list Z * list Z) :=
    match ops with
    | [] => Some (s, [], [])
    | Put src count :: ops =>
        '(n, s') ← bf_put s src count;
        '(s'', acc, del) ← fifo_run ops s';
        Some (s'', ztake (n * bf_unit s) src ++ acc, del)
    | Get count :: ops =>
        '(n, bytes, s') ← bf_get s count;
        '(s'', acc, del) ← fifo_run ops s';
        Some (s'', acc, bytes ++ del)
    end.

Lemma fifo_trace_law `{!ByteFifoLaws S} ops s :
    bf_inv s -> Forall (legal_op (bf_unit s)) ops ->
    exists s' acc del, fifo_run ops s = Some (s', acc, del) /\
      bf_inv s' /\ bf_content s ++ acc = del ++ bf_content s'.
Proof.
    revert s. induction ops as [|[src count|count] ops IH]; intros s Hs Hops.
    - exists s, [], []. split; [done|]. split; [done|]. by rewrite app_nil_r.
    - apply Forall_cons in Hops as [Ho Hops].
      destruct (bf_put_law s src count Hs Ho) as (n & s' & Hput & _ & Hs' & Hu & Hc).
      rewrite <- Hu in Hops. destruct (IH s' Hs' Hops) as (s'' & acc & del & Hrun & Hs'' & Heq).
      exists s'', (ztake (n * bf_unit s) src ++ acc), del. cbn. rewrite Hput. cbn.
      rewrite Hrun. split; [done|]. split; [done|]. by rewrite app_assoc, <- Hc.
    - apply Forall_cons in Hops as [Ho Hops].
      destruct (bf_get_law s count Hs Ho) as (n & bytes & s' & Hget & _ & Hs' & Hu & Hc & _).
      rewrite <- Hu in Hops. destruct (IH s' Hs' Hops) as (s'' & acc & del & Hrun & Hs'' & Heq).
      exists s'', acc, (bytes ++ del). cbn. rewrite Hget. cbn.
      rewrite Hrun. split; [done|]. split; [done|]. by rewrite Hc, <- !app_assoc, Heq.
Qed.
End client.
