(* ===== verification/RingBuffer.v ===== *)
(** * The ring buffer of the audio-processing modules

    Models [src/webrtc_backup/modules/audio_processing/utility/ring_buffer.c].
    A handle is an [option RingBuffer] ([None] is the NULL pointer), the
    [char* data] block is the list of its bytes, [size_t] is the 32-bit one of
    the Android targets the repository builds for, and [int] is 32 bits. *)
From S2P Require Import Prelude Fifo.
Local Open Scope Z_scope.

Inductive Wrap : Type := SAME_WRAP | DIFF_WRAP.

Record RingBuffer : Type := mkRingBuffer {
  read_pos : Z;
  write_pos : Z;
  element_count : Z;
  element_size : Z;
  rw_wrap : Wrap;
  data : list Z
}.

Definition size_t (z : Z) : Z := u32 z.

(** ** Operations *)

(** [malloc] either fails or gives a block of arbitrary contents: [m_self] is
    the fresh struct, [m_data n] the fresh block of [n] bytes. *)
Definition WebRtc_CreateBuffer (m_self : option RingBuffer) (m_data : Z -> option (list Z))
    (element_count element_size : Z) : option RingBuffer :=
  if (element_count =? 0) || (element_size =? 0) then None
  else match m_self with
  | None => None
  | Some self =>
      match m_data (size_t (element_count * element_size)) with
      | None => None
      | Some block =>
          Some (mkRingBuffer (read_pos self) (write_pos self)
                  element_count element_size (rw_wrap self) block)
      end
  end.

Definition WebRtc_InitBuffer (self : option RingBuffer) : flow (Z * option RingBuffer) (Z * option RingBuffer) :=
  match self with
  | None => Ret (-1, None)
  | Some b =>
      let! d := blk_put (data b) 0
                  (replicate (Z.to_nat (size_t (element_count b * element_size b))) 0) in
      Cont (0, Some (mkRingBuffer 0 0 (element_count b) (element_size b) SAME_WRAP d))
  end.

Definition WebRtc_available_read (self : option RingBuffer) : Z :=
  match self with
  | None => 0
  | Some b =>
      match rw_wrap b with
      | SAME_WRAP => size_t (write_pos b - read_pos b)
      | DIFF_WRAP => size_t (size_t (element_count b - read_pos b) + write_pos b)
      end
  end.

Definition WebRtc_available_write (self : option RingBuffer) : Z :=
  match self with
  | None => 0
  | Some b => size_t (element_count b - WebRtc_available_read self)
  end.

(** The four output parameters of GetBufferReadRegions: offsets into
    [buf->data], [None] for NULL. *)
Record Regions : Type := mkRegions {
  data_ptr_1 : Z;
  data_ptr_bytes_1 : Z;
  data_ptr_2 : option Z;
  data_ptr_bytes_2 : Z
}.

Definition GetBufferReadRegions (buf : RingBuffer) (count : Z) : Z * Regions :=
  let readable_elements := WebRtc_available_read (Some buf) in
  let read_elements := if readable_elements <? count then readable_elements else count in
  let margin := size_t (element_count buf - read_pos buf) in
  let start := size_t (read_pos buf * element_size buf) in
  (read_elements,
   if margin <? read_elements
   then mkRegions start (size_t (margin * element_size buf))
          (Some 0) (size_t (size_t (read_elements - margin) * element_size buf))
   else mkRegions start (size_t (read_elements * element_size buf)) None 0).

Definition WebRtc_MoveReadPtr (self : option RingBuffer) (count : Z) : Z * option RingBuffer :=
  match self with
  | None => (0, None)
  | Some b =>
      let free_elements := s32 (WebRtc_available_write self) in
      let readable_elements := s32 (WebRtc_available_read self) in
      let count := if readable_elements <? count then readable_elements else count in
      let count := if count <? s32 (- free_elements) then s32 (- free_elements) else count in
      let pos := s32 (s32 (read_pos b) + count) in
      let '(pos, w) := if s32 (element_count b) <? pos
                       then (s32 (pos - s32 (element_count b)), SAME_WRAP)
                       else (pos, rw_wrap b) in
      let '(pos, w) := if pos <? 0
                       then (s32 (pos + s32 (element_count b)), DIFF_WRAP)
                       else (pos, w) in
      (count, Some (mkRingBuffer (size_t pos) (write_pos b) (element_count b)
                      (element_size b) w (data b)))
  end.

(** Where [*data_ptr] points after a read: into the buffer or at the caller's
    [data]. *)
Inductive Location : Type := In_buffer (off : Z) | In_data.

Record ReadResult : Type := mkReadResult {
  rr_count : Z;
  rr_self : option RingBuffer;
  rr_data : option (list Z);
  rr_ptr : option Location
}.

(** The copying part of a read: to the caller's block when the region wraps or
    when no pointer into the buffer was asked for. *)
Definition copy_regions {R : Type} (b : RingBuffer) (r : Regions) (want_ptr : bool)
    (d : list Z) : flow R (list Z * Location) :=
  if 0 <? data_ptr_bytes_2 r then
    let! part1 := blk_get (data b) (data_ptr_1 r) (data_ptr_bytes_1 r) in
    let! d := blk_put d 0 part1 in
    let! part2 := blk_get (data b) (default 0 (data_ptr_2 r)) (data_ptr_bytes_2 r) in
    let! d := blk_put d (data_ptr_bytes_1 r) part2 in
    Cont (d, In_data)
  else if want_ptr then Cont (d, In_buffer (data_ptr_1 r))
  else
    let! part1 := blk_get (data b) (data_ptr_1 r) (data_ptr_bytes_1 r) in
    let! d := blk_put d 0 part1 in
    Cont (d, In_buffer (data_ptr_1 r)).

(** [want_ptr] is [data_ptr != NULL]; [dst] is the caller's block [data]. *)
Definition WebRtc_ReadBuffer (self : option RingBuffer) (want_ptr : bool)
    (dst : option (list Z)) (count : Z) : flow ReadResult ReadResult :=
  match self, dst with
  | None, _ => Ret (mkReadResult 0 None dst None)
  | _, None => Ret (mkReadResult 0 self None None)
  | Some b, Some d =>
      let '(read_count, r) := GetBufferReadRegions b count in
      let! (d, src) := copy_regions b r want_ptr d in
      let self := snd (WebRtc_MoveReadPtr self (s32 read_count)) in
      Cont (mkReadResult read_count self (Some d) (if want_ptr then Some src else None))
  end.

Definition WebRtc_WriteBuffer (self : option RingBuffer) (src : option (list Z)) (count : Z)
    : flow (Z * option RingBuffer) (Z * option RingBuffer) :=
  match self, src with
  | None, _ => Ret (0, None)
  | _, None => Ret (0, self)
  | Some b, Some s =>
      let free_elements := WebRtc_available_write self in
      let write_elements := if free_elements <? count then free_elements else count in
      let n := write_elements in
      let margin := size_t (element_count b - write_pos b) in
      let es := element_size b in
      let! (d, wpos, n, w) :=
        if margin <? write_elements then
          let! part := blk_get s 0 (size_t (margin * es)) in
          let! d := blk_put (data b) (size_t (write_pos b * es)) part in
          Cont (d, 0, size_t (n - margin), DIFF_WRAP)
        else Cont (data b, write_pos b, n, rw_wrap b) in
      let! part := blk_get s (size_t (size_t (write_elements - n) * es)) (size_t (n * es)) in
      let! d := blk_put d (size_t (wpos * es)) part in
      Cont (write_elements,
            Some (mkRingBuffer (read_pos b) (size_t (wpos + n)) (element_count b) es w d))
  end.

(** ** Invariant and abstract state

    The abstract state of a buffer is its bytes in write order, oldest first
    ([ring]), and how many elements at the end of it are unread ([fill]). *)
Record rb_ok (b : RingBuffer) : Prop := {
  ok_size : 0 < element_size b;
  ok_count : 0 < element_count b < 1073741824;
  ok_bytes : element_count b * element_size b < 4294967296;
  ok_data : Zlen (data b) = element_count b * element_size b;
  ok_pos : match rw_wrap b with
           | SAME_WRAP => 0 <= read_pos b <= write_pos b /\ write_pos b <= element_count b
           | DIFF_WRAP => 0 <= write_pos b <= read_pos b /\ read_pos b <= element_count b
           end
}.

Definition fill (b : RingBuffer) : Z :=
  match rw_wrap b with
  | SAME_WRAP => write_pos b - read_pos b
  | DIFF_WRAP => element_count b - read_pos b + write_pos b
  end.

Definition ring (b : RingBuffer) : list Z :=
  zdrop (write_pos b * element_size b) (data b) ++
  ztake (write_pos b * element_size b) (data b).

(** The unread bytes, oldest first. *)
Definition content (b : RingBuffer) : list Z :=
  zdrop ((element_count b - fill b) * element_size b) (ring b).

(** The bytes the caller finds behind the data pointer of a read. *)
Definition rr_bytes (es : Z) (r : ReadResult) : list Z :=
  let n := rr_count r * es in
  match rr_ptr r, rr_self r, rr_data r with
  | Some (In_buffer off), Some b, _ => ztake n (zdrop off (data b))
  | _, _, Some d => ztake n d
  | _, _, _ => []
  end.

Lemma fill_range b : rb_ok b -> 0 <= fill b <= element_count b.
Proof. intros [? ? ? ? Hp]. unfold fill. destruct (rw_wrap b); lia. Qed.

Lemma scaled_le n m es : 0 < es -> n <= m -> n * es <= m * es.
Proof. nia. Qed.

Lemma rb_pos_range b :
  rb_ok b -> 0 <= read_pos b <= element_count b /\ 0 <= write_pos b <= element_count b.
Proof. intros [? ? ? ? Hp]. destruct (rw_wrap b); lia. Qed.

Lemma Zlen_ring b : rb_ok b -> Zlen (ring b) = element_count b * element_size b.
Proof.
  intros Hb. pose proof (rb_pos_range b Hb) as [_ Hw]. destruct Hb as [Hs Hc Hl Hd _].
  pose proof (scaled_le _ _ _ Hs (proj1 Hw)). pose proof (scaled_le _ _ _ Hs (proj2 Hw)).
  unfold ring. rewrite Zlen_app, Zlen_zdrop, Zlen_ztake; lia.
Qed.

Lemma Zlen_content b : rb_ok b -> Zlen (content b) = fill b * element_size b.
Proof.
  intros Hb. pose proof (fill_range b Hb). pose proof (Zlen_ring b Hb) as Hr.
  destruct Hb as [Hs Hc Hl Hd _].
  unfold content. rewrite Zlen_zdrop, Hr; nia.
Qed.

Lemma size_t_id z : 0 <= z < 4294967296 -> size_t z = z.
Proof. apply u32_id. Qed.

Lemma available_read_fill b : rb_ok b -> WebRtc_available_read (Some b) = fill b.
Proof.
  intros Hb. pose proof (fill_range b Hb) as Hf. destruct Hb as [Hs Hc _ _ Hp].
  unfold WebRtc_available_read, fill in *.
  destruct (rw_wrap b); rewrite ?(size_t_id (_ - _)); rewrite ?size_t_id; lia.
Qed.

Lemma available_write_free b :
  rb_ok b -> WebRtc_available_write (Some b) = element_count b - fill b.
Proof.
  intros Hb. pose proof (fill_range b Hb). unfold WebRtc_available_write.
  rewrite available_read_fill by done. destruct Hb. rewrite size_t_id; lia.
Qed.

(** The elements a move is clamped to. *)
Definition clamp_move (b : RingBuffer) (k : Z) : Z :=
  Z.max (- (element_count b - fill b)) (Z.min k (fill b)).

Lemma s32_id' z : -2147483648 <= z < 2147483648 -> s32 z = z.
Proof. apply s32_id. Qed.

Lemma MoveReadPtr_spec b k :
  rb_ok b -> is_s32 k ->
  exists b', WebRtc_MoveReadPtr (Some b) k = (clamp_move b k, Some b') /\
    rb_ok b' /\ data b' = data b /\ write_pos b' = write_pos b /\
    element_count b' = element_count b /\ element_size b' = element_size b /\
    fill b' = fill b - clamp_move b k.
Proof.
  intros Hb Hk. pose proof (fill_range b Hb) as Hf.
  unfold WebRtc_MoveReadPtr.
  rewrite available_write_free, available_read_fill by done.
  destruct Hb as [Hs Hc Hl Hd Hp]. unfold is_s32 in Hk.
  rewrite !(s32_id' (_ - _)), !(s32_id' (fill b)), !(s32_id' (- _)) by lia.
  set (k' := if _ <? - _ then _ else _).
  assert (Hk' : k' = clamp_move b k).
  { unfold k', clamp_move. zcases; lia. }
  clearbody k'. subst k'. unfold clamp_move in *.
  set (m := Z.max _ _) in *.
  assert (Hm : - (element_count b - fill b) <= m <= fill b) by lia. clearbody m.
  assert (Hrp : 0 <= read_pos b <= element_count b) by (destruct (rw_wrap b); lia).
  rewrite (s32_id' (read_pos b)), (s32_id' (element_count b)) by lia.
  rewrite (s32_id' (read_pos b + m)) by lia.
  unfold fill in *.
  destruct (Z.ltb_spec (element_count b) (read_pos b + m)) as [Hw|Hw].
  - rewrite (s32_id' (_ - _)) by lia.
    destruct (Z.ltb_spec (read_pos b + m - element_count b) 0); [lia|].
    eexists; split; [done|]. simpl. rewrite size_t_id by lia.
    destruct (rw_wrap b); repeat split; simpl; lia.
  - destruct (Z.ltb_spec (read_pos b + m) 0) as [Hn|Hn].
    + rewrite (s32_id' (_ + _)) by lia.
      eexists; split; [done|]. simpl. rewrite size_t_id by lia.
      destruct (rw_wrap b); repeat split; simpl; lia.
    + eexists; split; [done|]. simpl. rewrite size_t_id by lia.
      destruct (rw_wrap b) eqn:E; repeat split; simpl; lia.
Qed.

(** *** Contents under the two wrap states *)

Lemma content_same b :
  rb_ok b -> rw_wrap b = SAME_WRAP ->
  content b = ztake (fill b * element_size b) (zdrop (read_pos b * element_size b) (data b)).
Proof.
  intros Hb E. pose proof (rb_pos_range b Hb) as [Hr Hw]. destruct Hb as [Hs Hc Hl Hd Hp].
  rewrite E in Hp. unfold content, ring, fill. rewrite E.
  destruct Hp as [[Hp0 Hp1] Hp2].
  pose proof (scaled_le _ _ _ Hs Hp0). pose proof (scaled_le _ _ _ Hs Hp1).
  pose proof (scaled_le _ _ _ Hs Hp2).
  rewrite zdrop_app_ge; rewrite Zlen_zdrop by nia; [|nia].
  rewrite zdrop_ztake by nia.
  replace ((element_count b - (write_pos b - read_pos b)) * element_size b -
    (Zlen (data b) - write_pos b * element_size b))
    with (read_pos b * element_size b) by lia.
  f_equal. lia.
Qed.

Lemma content_diff b :
  rb_ok b -> rw_wrap b = DIFF_WRAP ->
  content b = zdrop (read_pos b * element_size b) (data b) ++
              ztake (write_pos b * element_size b) (data b).
Proof.
  intros Hb E. pose proof (rb_pos_range b Hb) as [Hr Hw]. destruct Hb as [Hs Hc Hl Hd Hp].
  rewrite E in Hp. unfold content, ring, fill. rewrite E.
  destruct Hp as [[Hp0 Hp1] Hp2].
  pose proof (scaled_le _ _ _ Hs Hp0). pose proof (scaled_le _ _ _ Hs Hp1).
  pose proof (scaled_le _ _ _ Hs Hp2).
  rewrite zdrop_app_le; [|rewrite Zlen_zdrop; nia].
  rewrite zdrop_zdrop by nia. do 2 f_equal. lia.
Qed.

Lemma ring_frame b b' :
  data b' = data b -> write_pos b' = write_pos b -> element_size b' = element_size b ->
  ring b' = ring b.
Proof. intros H1 H2 H3. unfold ring. by rewrite H1, H2, H3. Qed.

Lemma content_move b b' :
  rb_ok b -> data b' = data b -> write_pos b' = write_pos b ->
  element_count b' = element_count b -> element_size b' = element_size b ->
  0 <= fill b' <= fill b ->
  content b' = zdrop ((fill b - fill b') * element_size b) (content b).
Proof.
  intros Hb Hd Hw Hc Hs Hf. pose proof (fill_range b Hb). pose proof (ok_size b Hb).
  unfold content. rewrite (ring_frame b b') by done. rewrite Hc, Hs.
  rewrite zdrop_zdrop by nia. f_equal. lia.
Qed.

(** *** Reading *)

Lemma read_regions_spec b count :
  rb_ok b -> 0 <= count ->
  let n := Z.min (fill b) count in
  let es := element_size b in
  exists r, GetBufferReadRegions b count = (n, r) /\
    0 <= data_ptr_1 r /\
    0 <= data_ptr_bytes_1 r /\ data_ptr_1 r + data_ptr_bytes_1 r <= Zlen (data b) /\
    0 <= data_ptr_bytes_2 r <= Zlen (data b) /\
    default 0 (data_ptr_2 r) = 0 /\
    data_ptr_bytes_1 r + data_ptr_bytes_2 r = n * es /\
    ztake (data_ptr_bytes_1 r) (zdrop (data_ptr_1 r) (data b)) ++
      ztake (data_ptr_bytes_2 r) (data b) = ztake (n * es) (content b).
Proof.
  intros Hb Hcnt n es. pose proof (fill_range b Hb) as Hf.
  pose proof (rb_pos_range b Hb) as [Hr Hw].
  unfold GetBufferReadRegions. rewrite available_read_fill by done.
  replace (if fill b <? count then fill b else count) with n by (unfold n; zcases; lia).
  assert (Hn : 0 <= n <= fill b) by lia. clearbody n.
  pose proof (ok_size b Hb) as Hs. pose proof (ok_count b Hb) as Hc.
  pose proof (ok_bytes b Hb) as Hl. pose proof (ok_data b Hb) as Hd.
  fold es in Hs, Hl, Hd |- *.
  pose proof (scaled_le _ _ es Hs (proj1 Hr)). pose proof (scaled_le _ _ es Hs (proj2 Hr)).
  pose proof (scaled_le _ _ es Hs (proj1 Hn)). pose proof (scaled_le _ _ es Hs (proj2 Hn)).
  pose proof (scaled_le _ _ es Hs (proj2 Hf)).
  rewrite (size_t_id (element_count b - read_pos b)) by lia.
  rewrite (size_t_id (read_pos b * es)) by lia.
  eexists; split; [reflexivity|].
  destruct (Z.ltb_spec (element_count b - read_pos b) n) as [Hm|Hm];
    cbn [data_ptr_1 data_ptr_bytes_1 data_ptr_2 data_ptr_bytes_2 default].
  - pose proof (scaled_le (element_count b - read_pos b) n es Hs ltac:(lia)).
    assert (E : rw_wrap b = DIFF_WRAP).
    { destruct (rw_wrap b) eqn:E; [|done]. unfold fill in *. rewrite E in *.
      destruct Hb as [? ? ? ? Hp]. rewrite E in Hp. lia. }
    assert (Hfill : fill b = element_count b - read_pos b + write_pos b)
      by (unfold fill; by rewrite E).
    rewrite (size_t_id (n - _)), Z.mul_sub_distr_r, !size_t_id by lia.
    repeat split; try lia.
    rewrite content_diff by done. fold es.
    rewrite ztake_app_ge; rewrite Zlen_zdrop by lia; [|lia].
    rewrite ztake_all by (rewrite Zlen_zdrop; lia).
    f_equal. pose proof (scaled_le n (fill b) es Hs ltac:(lia)).
    assert (fill b * es = element_count b * es - read_pos b * es + write_pos b * es)
      by (rewrite Hfill; ring).
    rewrite ztake_ztake by lia. f_equal. lia.
  - pose proof (scaled_le n (element_count b - read_pos b) es Hs ltac:(lia)).
    rewrite size_t_id by lia. repeat split; try lia.
    rewrite (ztake_0 0) by lia. rewrite app_nil_r.
    destruct (rw_wrap b) eqn:E.
    + rewrite content_same by done. fold es. by rewrite ztake_ztake by lia.
    + rewrite content_diff by done. fold es. rewrite ztake_app_le; [done|].
      rewrite Zlen_zdrop; lia.
Qed.

Lemma blk_put_front {R} (d src : list Z) :
  Zlen src <= Zlen d ->
  blk_put (R := R) d 0 src = Cont (src ++ zdrop (Zlen src) d).
Proof.
  intros. pose proof (Zlen_nonneg src). rewrite blk_put_Cont by lia.
  by rewrite (ztake_0 0), Z.add_0_l by lia.
Qed.

(** Two consecutive copies to the front of [d] are one. *)
Lemma blk_put_next {R} (d p1 p2 : list Z) :
  Zlen p1 + Zlen p2 <= Zlen d ->
  blk_put (R := R) (p1 ++ zdrop (Zlen p1) d) (Zlen p1) p2
  = Cont ((p1 ++ p2) ++ zdrop (Zlen p1 + Zlen p2) d).
Proof.
  intros. pose proof (Zlen_nonneg p1). pose proof (Zlen_nonneg p2).
  rewrite blk_put_Cont; [|lia|rewrite Zlen_app, Zlen_zdrop; lia].
  rewrite ztake_app_le, ztake_all by lia.
  rewrite zdrop_app_ge, zdrop_zdrop by lia. rewrite <- app_assoc. do 4 f_equal. lia.
Qed.

(** The copying part of a read, whatever the wrap. *)
Lemma read_copy_spec {R} b want_ptr d count :
  rb_ok b -> 0 <= count ->
  let n := Z.min (fill b) count in
  let N := n * element_size b in
  N <= Zlen d ->
  exists r d' src, GetBufferReadRegions b count = (n, r) /\
    copy_regions (R := R) b r want_ptr d = Cont (d', src) /\
    zdrop N d' = zdrop N d /\
    (if want_ptr then match src with
       | In_buffer off => ztake N (zdrop off (data b))
       | In_data => ztake N d' end
     else ztake N d') = ztake N (content b).
Proof.
  intros Hb Hcnt n N Hdst.
  destruct (read_regions_spec b count Hb Hcnt)
    as (r & Hreg & Hp1 & Hb1 & Hin & Hb2 & Hp2 & Hsum & Hcat).
  fold n in Hreg, Hsum, Hcat. fold N in Hsum, Hcat.
  set (p1 := ztake (data_ptr_bytes_1 r) (zdrop (data_ptr_1 r) (data b))) in *.
  set (p2 := ztake (data_ptr_bytes_2 r) (data b)) in *.
  assert (Hl1 : Zlen p1 = data_ptr_bytes_1 r)
    by (unfold p1; rewrite Zlen_ztake; rewrite ?Zlen_zdrop; lia).
  assert (Hl2 : Zlen p2 = data_ptr_bytes_2 r) by (unfold p2; rewrite Zlen_ztake; lia).
  assert (Hl : Zlen (p1 ++ p2) = N) by (rewrite Zlen_app; lia).
  exists r. unfold copy_regions. rewrite (blk_get_Cont (data b) (data_ptr_1 r)) by lia. fold p1. cbn [flow_bind].
  rewrite blk_put_front by lia. cbn [flow_bind].
  destruct (Z.ltb_spec 0 (data_ptr_bytes_2 r)) as [H2|H2].
  - rewrite Hp2, blk_get_Cont, (zdrop_0 0) by lia. fold p2. cbn [flow_bind].
    rewrite <- Hl1, blk_put_next by lia. cbn [flow_bind].
    do 2 eexists. do 2 (split; [done|]).
    rewrite <- Zlen_app, Hl, zdrop_app_ge, Hl, Z.sub_diag, zdrop_0 by lia.
    rewrite ztake_app_le, ztake_all by lia. by destruct want_ptr.
  - assert (Hp2' : p2 = []) by (unfold p2; apply ztake_0; lia).
    rewrite Hp2', app_nil_r in Hcat, Hl.
    destruct want_ptr; do 2 eexists; (split; [done|]); (split; [done|]).
    + split; [done|]. rewrite <- Hcat. unfold p1. f_equal. lia.
    + rewrite Hl, zdrop_app_ge, Hl, Z.sub_diag, zdrop_0 by lia.
      by rewrite ztake_app_le, ztake_all by lia.
Qed.

Lemma ReadBuffer_content b want_ptr d count :
  rb_ok b -> 0 <= count < 4294967296 ->
  let n := Z.min (fill b) count in
  n * element_size b <= Zlen d ->
  exists r b' d', WebRtc_ReadBuffer (Some b) want_ptr (Some d) count = Cont r /\
    rr_count r = n /\ rr_self r = Some b' /\ rr_data r = Some d' /\
    rb_ok b' /\ fill b' = fill b - n /\
    element_count b' = element_count b /\ element_size b' = element_size b /\
    content b' = zdrop (n * element_size b) (content b) /\
    rr_bytes (element_size b) r = ztake (n * element_size b) (content b) /\
    zdrop (n * element_size b) d' = zdrop (n * element_size b) d.
Proof.
  intros Hb Hcnt n Hdst.
  pose proof (fill_range b Hb) as Hf. pose proof (ok_count b Hb) as Hc.
  destruct (read_copy_spec (R := ReadResult) b want_ptr d count Hb ltac:(lia) Hdst)
    as (r & d' & src & Hreg & Hcopy & Hrest & Hbytes). fold n in Hreg, Hrest, Hbytes.
  destruct (MoveReadPtr_spec b n Hb) as (b' & Hmv & Hb' & Hd' & Hw' & Hc' & Hs' & Hf');
    [unfold is_s32; lia|].
  replace (clamp_move b n) with n in * by (unfold clamp_move; lia).
  unfold WebRtc_ReadBuffer. rewrite Hreg, Hcopy. cbn [flow_bind].
  rewrite s32_id', Hmv by lia.
  do 3 eexists. split; [reflexivity|]. cbn [rr_count rr_self rr_data].
  repeat (split; [done|]). split.
  { rewrite (content_move b b') by (done || lia). do 2 f_equal. lia. }
  split; [|done]. unfold rr_bytes. cbn. rewrite Hd'. rewrite <- Hbytes.
  destruct want_ptr, src; done.
Qed.

(** *** Writing *)

Lemma blk_put_length {R} (l : list Z) off src l' :
  blk_put (R := R) l off src = Cont l' -> Zlen l' = Zlen l.
Proof.
  unfold blk_put. destruct (Z.leb_spec 0 off), (Z.leb_spec (off + Zlen src) (Zlen l));
    simpl; intros [= <-].
  pose proof (Zlen_nonneg src). rewrite !Zlen_app, Zlen_ztake, Zlen_zdrop; lia.
Qed.

(** Overwriting [p] at position [w] of a circular block drops the oldest bytes
    and appends [p]: the straight case and the case that goes round the end. *)
Lemma ring_write_straight (d p : list Z) w :
  0 <= w -> w + Zlen p <= Zlen d ->
  let d' := ztake w d ++ p ++ zdrop (w + Zlen p) d in
  zdrop (w + Zlen p) d' ++ ztake (w + Zlen p) d' =
  zdrop (Zlen p) (zdrop w d ++ ztake w d) ++ p.
Proof.
  intros Hw Hl d'. pose proof (Zlen_nonneg p).
  assert (Hq : Zlen (ztake w d ++ p) = w + Zlen p) by (rewrite Zlen_app, Zlen_ztake; lia).
  assert (Hd' : d' = (ztake w d ++ p) ++ zdrop (w + Zlen p) d)
    by (unfold d'; by rewrite app_assoc).
  rewrite Hd', zdrop_app_ge, ztake_app_le, (ztake_all _ (_ ++ p)), Hq by lia.
  rewrite (zdrop_0 (_ - _)) by lia.
  rewrite (zdrop_app_le (zdrop w d)) by (rewrite Zlen_zdrop; lia).
  rewrite zdrop_zdrop by lia. by rewrite app_assoc.
Qed.

Lemma ring_write_around (d p1 p2 : list Z) w :
  0 <= w -> w + Zlen p1 = Zlen d -> Zlen p2 <= w ->
  let d' := p2 ++ zdrop (Zlen p2) (ztake w d ++ p1) in
  zdrop (Zlen p2) d' ++ ztake (Zlen p2) d' =
  zdrop (Zlen p1 + Zlen p2) (zdrop w d ++ ztake w d) ++ p1 ++ p2.
Proof.
  intros Hw H1 H2 d'. subst d'.
  pose proof (Zlen_nonneg p1). pose proof (Zlen_nonneg p2).
  assert (Zlen (ztake w d) = w) by (rewrite Zlen_ztake; lia).
  rewrite (zdrop_app_ge p2), (ztake_app_le p2), (ztake_all _ p2), Z.sub_diag by lia.
  rewrite (zdrop_0 0) by lia.
  rewrite (zdrop_app_le (ztake w d)) by lia.
  rewrite (zdrop_app_ge (zdrop w d)) by (rewrite Zlen_zdrop; lia).
  rewrite Zlen_zdrop by lia. rewrite <- app_assoc. do 2 f_equal. lia.
Qed.

(** A write of [n] elements, by the position of the write pointer. *)
Definition write_post (b b' : RingBuffer) (s : list Z) (n : Z) : Prop :=
  rb_ok b' /\ fill b' = fill b + n /\ read_pos b' = read_pos b /\
  element_count b' = element_count b /\ element_size b' = element_size b /\
  ring b' = zdrop (n * element_size b) (ring b) ++ ztake (n * element_size b) s.

Lemma write_straight b s n :
  rb_ok b -> 0 <= n <= element_count b - fill b -> n <= element_count b - write_pos b ->
  n * element_size b <= Zlen s ->
  let p := ztake (n * element_size b) s in
  let w := write_pos b * element_size b in
  write_post b (mkRingBuffer (read_pos b) (write_pos b + n) (element_count b) (element_size b)
      (rw_wrap b) (ztake w (data b) ++ p ++ zdrop (w + Zlen p) (data b))) s n.
Proof.
  intros [Hs Hc Hl Hd Hp] Hn Hm Hsrc p w. unfold fill in Hn.
  assert (Hw : 0 <= write_pos b) by (destruct (rw_wrap b); lia).
  pose proof (scaled_le _ _ _ Hs Hw). pose proof (scaled_le _ _ _ Hs (proj1 Hn)).
  pose proof (scaled_le _ _ _ Hs Hm).
  assert (Hpl : Zlen p = n * element_size b) by (unfold p; rewrite Zlen_ztake; lia).
  unfold write_post, fill. cbn.
  split; [|split; [destruct (rw_wrap b); lia|split; [done|split; [done|split; [done|]]]]].
  - split; cbn; try lia; [|destruct (rw_wrap b); lia].
    rewrite !Zlen_app, Zlen_ztake, Zlen_zdrop; lia.
  - unfold ring. cbn. rewrite Z.mul_add_distr_r. fold p w. rewrite <- Hpl.
    apply ring_write_straight; lia.
Qed.

Lemma write_around b s n :
  rb_ok b -> 0 <= n <= element_count b - fill b -> element_count b - write_pos b < n ->
  n * element_size b <= Zlen s ->
  let M := element_count b - write_pos b in
  let p1 := ztake (M * element_size b) s in
  let p2 := ztake ((n - M) * element_size b) (zdrop (M * element_size b) s) in
  rw_wrap b = SAME_WRAP /\
  write_post b (mkRingBuffer (read_pos b) (n - M) (element_count b) (element_size b)
      DIFF_WRAP
      (p2 ++ zdrop (Zlen p2) (ztake (write_pos b * element_size b) (data b) ++ p1))) s n.
Proof.
  intros [Hs Hc Hl Hd Hp] Hn Hm Hsrc M p1 p2. unfold fill in Hn.
  assert (E : rw_wrap b = SAME_WRAP) by (destruct (rw_wrap b); [done|lia]).
  rewrite E in Hp, Hn. split; [done|].
  assert (HM : 0 <= M) by lia. assert (HnM : 0 <= n - M <= read_pos b) by lia.
  pose proof (scaled_le _ _ _ Hs HM). pose proof (scaled_le _ _ _ Hs (proj1 HnM)).
  pose proof (scaled_le _ _ _ Hs (proj2 HnM)).
  pose proof (scaled_le 0 (write_pos b) _ Hs ltac:(lia)).
  pose proof (scaled_le (read_pos b) (write_pos b) _ Hs ltac:(lia)).
  assert (HMt : M * element_size b = Zlen (data b) - write_pos b * element_size b)
    by (unfold M; lia).
  assert (Hsum : n * element_size b = M * element_size b + (n - M) * element_size b) by ring.
  assert (Hp1 : Zlen p1 = M * element_size b) by (unfold p1; rewrite Zlen_ztake; lia).
  assert (Hp2 : Zlen p2 = (n - M) * element_size b)
    by (unfold p2; rewrite Zlen_ztake; rewrite ?Zlen_zdrop; lia).
  unfold write_post, fill. cbn. rewrite E.
  split; [|split; [lia|split; [done|split; [done|split; [done|]]]]].
  - split; cbn; try lia.
    rewrite Zlen_app, Zlen_zdrop; rewrite !Zlen_app, ?Zlen_ztake; lia.
  - unfold ring. cbn. rewrite <- Hp2.
    rewrite (ring_write_around (data b) p1 p2 (write_pos b * element_size b)) by lia.
    rewrite Hsum, (ztake_plus (M * _)) by lia. do 2 f_equal. lia.
Qed.

Lemma WriteBuffer_ring b s count :
  rb_ok b -> 0 <= count < 4294967296 ->
  let n := Z.min (element_count b - fill b) count in
  n * element_size b <= Zlen s ->
  exists b', WebRtc_WriteBuffer (Some b) (Some s) count = Cont (n, Some b') /\
    write_post b b' s n.
Proof.
  intros Hb Hcnt n Hsrc. pose proof (fill_range b Hb) as Hf.
  pose proof (rb_pos_range b Hb) as [Hr Hw].
  unfold WebRtc_WriteBuffer. rewrite available_write_free by done.
  replace (if _ <? count then _ else count) with n by (unfold n; zcases; lia).
  assert (Hn : 0 <= n <= element_count b - fill b) by lia. clearbody n. clear Hcnt count.
  pose proof (write_straight b s n Hb Hn) as Hstr.
  pose proof (write_around b s n Hb Hn) as Har. cbv zeta in Hstr, Har.
  destruct Hb as [Hs Hc Hl Hd Hp].
  pose proof (scaled_le _ _ _ Hs (proj1 Hw)). pose proof (scaled_le _ _ _ Hs (proj2 Hw)).
  pose proof (scaled_le _ _ _ Hs (proj1 Hn)). unfold fill in Hn.
  rewrite (size_t_id (element_count b - write_pos b)), (size_t_id (write_pos b * _)) by lia.
  set (M := element_count b - write_pos b) in *.
  assert (HM : M * element_size b = Zlen (data b) - write_pos b * element_size b)
    by (unfold M; lia).
  destruct (Z.ltb_spec M n) as [Hm|Hm]; cbn [flow_bind].
  - destruct (Har Hm Hsrc) as [E Hpost]. clear Hstr Har. rewrite E in Hp, Hn.
    pose proof (scaled_le (n - M) (write_pos b) _ Hs ltac:(lia)).
    pose proof (scaled_le M n _ Hs ltac:(lia)). pose proof (scaled_le 0 (n - M) _ Hs ltac:(lia)).
    rewrite (size_t_id (M * _)), blk_get_Cont, (zdrop_0 0) by lia. cbn [flow_bind].
    set (p1 := ztake (M * element_size b) s) in *.
    assert (Hp1 : Zlen p1 = M * element_size b) by (unfold p1; rewrite Zlen_ztake; lia).
    rewrite blk_put_Cont by lia. cbn [flow_bind].
    rewrite (size_t_id (n - M)) by lia. replace (n - (n - M)) with M by lia.
    rewrite (size_t_id M), (size_t_id (M * _)), (size_t_id ((n - M) * _)) by lia.
    rewrite blk_get_Cont by lia. cbn [flow_bind].
    rewrite (zdrop_all (_ + Zlen p1)), app_nil_r, Z.mul_0_l, (size_t_id 0) by lia.
    rewrite blk_put_front; rewrite Zlen_ztake by (rewrite ?Zlen_zdrop; lia);
      [|rewrite Zlen_app, Zlen_ztake; lia].
    rewrite Zlen_ztake in Hpost by (rewrite Zlen_zdrop; lia).
    cbn [flow_bind]. rewrite Z.add_0_l, (size_t_id (n - M)) by lia. eauto.
  - specialize (Hstr Hm Hsrc). clear Har.
    pose proof (scaled_le n M _ Hs Hm).
    rewrite Z.sub_diag, (size_t_id 0), Z.mul_0_l, (size_t_id 0), (size_t_id (n * _)) by lia.
    rewrite blk_get_Cont, (zdrop_0 0) by lia. cbn [flow_bind].
    rewrite (size_t_id (write_pos b * _)), blk_put_Cont by (rewrite ?Zlen_ztake; lia).
    cbn [flow_bind]. rewrite (size_t_id (write_pos b + n)) by lia. eauto.
Qed.

Lemma content_write b b' s n :
  rb_ok b -> 0 <= n <= element_count b - fill b -> write_post b b' s n ->
  content b' = content b ++ ztake (n * element_size b) s.
Proof.
  intros Hb Hn (Hb' & Hf' & _ & Hc & Hs & Hring).
  pose proof (fill_range b Hb) as Hf. pose proof (ok_size b Hb) as Hes.
  unfold content. rewrite Hring, Hc, Hs, Hf'.
  pose proof (scaled_le (n) (element_count b - fill b) _ Hes ltac:(lia)).
  pose proof (scaled_le 0 n _ Hes ltac:(lia)).
  pose proof (scaled_le 0 (fill b) _ Hes ltac:(lia)).
  rewrite zdrop_app_le; rewrite ?Zlen_zdrop, ?Zlen_ring by (rewrite ?Zlen_ring; done || lia);
    [|lia].
  rewrite zdrop_zdrop by lia. do 2 f_equal. lia.
Qed.

(** ** The ring buffer as a FIFO *)

#[export] Instance ring_buffer_fifo : ByteFifo RingBuffer := {
  bf_inv := rb_ok;
  bf_unit := element_size;
  bf_content := content;
  bf_put b src count :=
    match run_flow (WebRtc_WriteBuffer (Some b) (Some src) count) with
    | Some (n, Some b') => Some (n, b')
    | _ => None
    end;
  bf_get b count :=
    let dst := replicate (Z.to_nat (WebRtc_available_read (Some b) * element_size b)) 0 in
    match run_flow (WebRtc_ReadBuffer (Some b) false (Some dst) count) with
    | Some r =>
        match rr_self r with
        | Some b' => Some (rr_count r, rr_bytes (element_size b) r, b')
        | None => None
        end
    | None => None
    end
}.

#[export] Instance ring_buffer_fifo_laws : ByteFifoLaws RingBuffer.
Proof.
  split; cbn [bf_inv bf_unit bf_content bf_put bf_get ring_buffer_fifo].
  - intros b src count Hb [Hcnt Hsrc]. cbn [bf_unit ring_buffer_fifo] in Hsrc.
    pose proof (ok_size b Hb). pose proof (fill_range b Hb).
    assert (Z.min (element_count b - fill b) count * element_size b <= count * element_size b)
      by (apply scaled_le; lia).
    destruct (WriteBuffer_ring b src count Hb Hcnt ltac:(lia)) as (b' & Hrun & Hpost).
    rewrite Hrun. cbn [run_flow]. do 2 eexists. split; [reflexivity|].
    split; [lia|]. split; [apply Hpost|]. split; [apply Hpost|].
    apply content_write; (done || lia).
  - intros b count Hb Hcnt.
    pose proof (ok_size b Hb). pose proof (fill_range b Hb).
    rewrite available_read_fill by done.
    pose proof (scaled_le 0 (fill b) _ (ok_size b Hb) ltac:(lia)).
    pose proof (scaled_le (Z.min (fill b) count) (fill b) _ (ok_size b Hb) ltac:(lia)).
    destruct (ReadBuffer_content b false
                (replicate (Z.to_nat (fill b * element_size b)) 0) count Hb Hcnt)
      as (r & b' & d' & Hrun & Hn & Hself & _ & Hb' & Hf' & Hc' & Hs' & Hcont & Hbytes & _).
    { rewrite Zlen_replicate; lia. }
    rewrite Hrun. cbn [run_flow]. rewrite Hself. do 3 eexists. split; [reflexivity|].
    rewrite Hn, Hbytes, Hcont. pose proof (Zlen_content b Hb).
    pose proof (scaled_le 0 (Z.min (fill b) count) _ (ok_size b Hb) ltac:(lia)).
    repeat (split; [done || lia|]). split; [by rewrite ztake_zdrop|].
    rewrite Zlen_ztake; lia.
Qed.

(** ** Properties *)

(** A write of [count] elements accepts as many as there is room for,
    stores nothing outside the block, and appends exactly the accepted bytes to
    the unread contents, whether or not the write wraps round the end. *)
Theorem write_appends b src count :
  rb_ok b -> 0 <= count < 4294967296 ->
  let n := Z.min (WebRtc_available_write (Some b)) count in
  n * element_size b <= Zlen src ->
  exists b', WebRtc_WriteBuffer (Some b) (Some src) count = Cont (n, Some b') /\
    rb_ok b' /\
    content b' = content b ++ ztake (n * element_size b) src /\
    WebRtc_available_read (Some b') = WebRtc_available_read (Some b) + n.
Proof.
  intros Hb Hcnt n Hsrc. unfold n in *. rewrite available_write_free in * by done.
  pose proof (fill_range b Hb).
  destruct (WriteBuffer_ring b src count Hb Hcnt Hsrc) as (b' & Hrun & Hpost).
  exists b'. rewrite Hrun. split; [done|]. split; [apply Hpost|].
  split; [apply content_write; (done || lia)|].
  rewrite !available_read_fill by (done || apply Hpost). apply Hpost.
Qed.

(** A read of [count] elements delivers the oldest unread elements, as many
    as there are, through the returned pointer or the caller's block; it removes
    exactly these, and does not touch the caller's block beyond them. *)
Theorem read_removes b want_ptr dst count :
  rb_ok b -> 0 <= count < 4294967296 ->
  let n := Z.min (WebRtc_available_read (Some b)) count in
  n * element_size b <= Zlen dst ->
  exists r b' dst', WebRtc_ReadBuffer (Some b) want_ptr (Some dst) count = Cont r /\
    rr_count r = n /\ rr_self r = Some b' /\ rr_data r = Some dst' /\ rb_ok b' /\
    rr_bytes (element_size b) r ++ content b' = content b /\
    rr_bytes (element_size b) r = ztake (n * element_size b) (content b) /\
    zdrop (n * element_size b) dst' = zdrop (n * element_size b) dst.
Proof.
  intros Hb Hcnt n Hdst. unfold n in *. rewrite available_read_fill in * by done.
  destruct (ReadBuffer_content b want_ptr dst count Hb Hcnt Hdst)
    as (r & b' & d' & Hrun & Hn & Hself & Hd & Hb' & Hf' & Hc' & Hs' & Hcont & Hbytes & Hrest).
  exists r, b', d'. repeat (split; [done|]). rewrite Hcont, Hbytes.
  split; [apply ztake_zdrop|]. done.
Qed.

(** Moving the read pointer by [k] moves it by [k] clamped to the room on
    either side; forwards drops the oldest unread elements, backwards makes the
    elements read before unread again, and moving back undoes the move. *)
Theorem move_clamps_and_undoes b k :
  rb_ok b -> is_s32 k ->
  let m := Z.max (- WebRtc_available_write (Some b))
             (Z.min k (WebRtc_available_read (Some b))) in
  exists b' b'', WebRtc_MoveReadPtr (Some b) k = (m, Some b') /\ rb_ok b' /\
    WebRtc_available_read (Some b') = WebRtc_available_read (Some b) - m /\
    WebRtc_available_write (Some b') = WebRtc_available_write (Some b) + m /\
    (0 <= m -> content b' = zdrop (m * element_size b) (content b)) /\
    (m <= 0 -> content b = zdrop (- m * element_size b) (content b')) /\
    WebRtc_MoveReadPtr (Some b') (- m) = (- m, Some b'') /\ content b'' = content b.
Proof.
  intros Hb Hk m. pose proof (fill_range b Hb). pose proof (ok_count b Hb).
  destruct (MoveReadPtr_spec b k Hb Hk) as (b' & Hmv & Hb' & Hd & Hw & Hc & Hs & Hf).
  assert (Hm : clamp_move b k = m).
  { unfold m. by rewrite available_write_free, available_read_fill by done. }
  assert (Hmr : - (element_count b - fill b) <= m <= fill b)
    by (rewrite <- Hm; unfold clamp_move; lia).
  rewrite Hm in *. clearbody m.
  destruct (MoveReadPtr_spec b' (- m) Hb' ltac:(unfold is_s32; lia))
    as (b'' & Hmv' & Hb'' & Hd' & Hw' & Hc' & Hs' & Hf').
  assert (Hm' : clamp_move b' (- m) = - m) by (unfold clamp_move; lia).
  rewrite Hm' in *.
  exists b', b''. rewrite !available_write_free, !available_read_fill by done.
  split; [done|]. split; [done|]. split; [lia|]. split; [lia|].
  split; [|split; [|split; [done|]]].
  - intros Hp. rewrite (content_move b b') by (done || lia). do 2 f_equal. lia.
  - intros Hp. rewrite (content_move b' b) by (congruence || done || lia).
    rewrite Hs. do 2 f_equal. lia.
  - unfold content. rewrite (ring_frame b b'') by congruence.
    replace (fill b'') with (fill b) by lia. by rewrite Hc', Hs', Hc, Hs.
Qed.

(** C38: over any sequence of legal writes and reads, no call faults, and the
    bytes initially unread followed by those accepted are the bytes delivered
    followed by those still unread: nothing is lost, duplicated or reordered. *)
Theorem ring_buffer_fifo_order b ops :
  rb_ok b -> Forall (legal_op (element_size b)) ops ->
  exists b' acc del, fifo_run ops b = Some (b', acc, del) /\
    rb_ok b' /\ content b ++ acc = del ++ content b'.
Proof. exact (fifo_trace_law ops b). Qed.

(** Creating and initialising a buffer refuses zero sizes and failed
    allocations, and otherwise gives a well-formed empty buffer of the requested
    capacity, whatever the fresh memory held. *)
Theorem create_init_empty m_self m_data count size :
  0 <= size -> 0 <= count < 1073741824 -> count * size < 4294967296 ->
  (forall n blk, 0 <= n -> m_data n = Some blk -> Zlen blk = n) ->
  match WebRtc_CreateBuffer m_self m_data count size with
  | None => count = 0 \/ size = 0 \/ m_self = None \/ m_data (count * size) = None
  | Some b => exists b', WebRtc_InitBuffer (Some b) = Cont (0, Some b') /\ rb_ok b' /\
      content b' = [] /\ data b' = replicate (Z.to_nat (count * size)) 0 /\
      WebRtc_available_write (Some b') = count
  end.
Proof.
  intros Hs Hc Hl Hm. unfold WebRtc_CreateBuffer.
  destruct (Z.eqb_spec count 0) as [?|Hc0]; [by left|].
  destruct (Z.eqb_spec size 0) as [?|Hs0]; [by right; left|]. cbn [orb].
  destruct m_self as [g|]; [|by do 2 right; left].
  rewrite (size_t_id (count * size)) by nia.
  destruct (m_data (count * size)) as [blk|] eqn:E; [|by do 3 right].
  apply Hm in E; [|nia]. unfold WebRtc_InitBuffer. cbn [data element_count element_size].
  rewrite (size_t_id (count * size)) by nia.
  rewrite blk_put_front; rewrite Zlen_replicate by nia; [|lia]. cbn [flow_bind].
  rewrite zdrop_all, app_nil_r by lia.
  set (b' := mkRingBuffer _ _ _ _ _ _).
  assert (Hb' : rb_ok b').
  { split; cbn; try lia. rewrite Zlen_replicate; nia. }
  exists b'. split; [done|]. split; [done|]. split; [|split; [done|]].
  - apply length_zero_iff_nil. pose proof (Zlen_content b' Hb') as Hlen.
    unfold Zlen in Hlen. cbn in Hlen. lia.
  - rewrite available_write_free by done. cbn. lia.
Qed.

(** ** Witnesses: a buffer of four two-byte elements, written round its end *)

Definition ex_garbage : RingBuffer := mkRingBuffer 77 99 0 0 DIFF_WRAP [].
Definition ex_malloc (n : Z) : option (list Z) := Some (replicate (Z.to_nat n) 205).
Definition ex_buffer : RingBuffer := mkRingBuffer 3 2 4 2 DIFF_WRAP [9; 10; 11; 12; 5; 6; 7; 8].

Lemma ex_buffer_ok : rb_ok ex_buffer.
Proof. split; cbv; intuition congruence. Qed.

Lemma write_appends_witness :
  exists b', WebRtc_WriteBuffer (Some ex_buffer) (Some [1; 2; 3; 4]) 2 = Cont (1, Some b') /\
    rb_ok b' /\ content b' = [7; 8; 9; 10; 11; 12; 1; 2] /\
    WebRtc_available_read (Some b') = 4.
Proof. apply (write_appends ex_buffer [1; 2; 3; 4] 2 ex_buffer_ok); cbv; intuition congruence. Defined.

Lemma read_removes_witness :
  exists r b' dst', WebRtc_ReadBuffer (Some ex_buffer) true (Some [0; 0; 0; 0; 0; 0]) 2 = Cont r /\
    rr_count r = 2 /\ rr_self r = Some b' /\ rr_data r = Some dst' /\ rb_ok b' /\
    rr_bytes 2 r ++ content b' = [7; 8; 9; 10; 11; 12] /\
    rr_bytes 2 r = [7; 8; 9; 10] /\ zdrop 4 dst' = [0; 0].
Proof.
  apply (read_removes ex_buffer true [0; 0; 0; 0; 0; 0] 2 ex_buffer_ok);
    cbv; intuition congruence.
Defined.

Lemma move_clamps_and_undoes_witness :
  exists b' b'', WebRtc_MoveReadPtr (Some ex_buffer) (-5) = (-1, Some b') /\ rb_ok b' /\
    WebRtc_available_read (Some b') = 4 /\ WebRtc_available_write (Some b') = 0 /\
    (0 <= -1 -> content b' = zdrop (-2) (content ex_buffer)) /\
    (-1 <= 0 -> content ex_buffer = zdrop 2 (content b')) /\
    WebRtc_MoveReadPtr (Some b') 1 = (1, Some b'') /\ content b'' = content ex_buffer.
Proof. apply (move_clamps_and_undoes ex_buffer (-5) ex_buffer_ok). unfold is_s32. lia. Defined.

Lemma ring_buffer_fifo_order_witness :
  exists b' acc del,
    fifo_run [Put [1; 2; 3; 4] 2; Get 3; Put [21; 22] 1; Get 4] ex_buffer = Some (b', acc, del) /\
    rb_ok b' /\ content ex_buffer ++ acc = del ++ content b'.
Proof.
  apply (ring_buffer_fifo_order ex_buffer _ ex_buffer_ok).
  repeat constructor; cbv; congruence.
Defined.

Lemma create_init_empty_witness :
  match WebRtc_CreateBuffer (Some ex_garbage) ex_malloc 4 2 with
  | None => 4 = 0 \/ 2 = 0 \/ Some ex_garbage = None \/ ex_malloc (4 * 2) = None
  | Some b => exists b', WebRtc_InitBuffer (Some b) = Cont (0, Some b') /\ rb_ok b' /\
      content b' = [] /\ data b' = replicate (Z.to_nat (4 * 2)) 0 /\
      WebRtc_available_write (Some b') = 4
  end.
Proof.
  apply (create_init_empty (Some ex_garbage) ex_malloc 4 2); try lia.
  intros n blk Hn [= <-]. by apply Zlen_replicate.
Defined.
