(* ===== verification/IsacArith.v ===== *)
(** * The iSAC fixed-point arithmetic coder: encoder and histogram decoders

    Models, under [src/webrtc_backup/modules/audio_coding/codecs/isac/fix/source],
    [arith_routines.c] (WebRtcIsacfix_EncTerminate) and [arith_routines_hist.c]
    (WebRtcIsacfix_EncHistMulti, WebRtcIsacfix_DecHistBisectMulti,
    WebRtcIsacfix_DecHistOneStepMulti) over the bit stream structs of [structs.h].

    A pointer into [stream] is its word index; every access is checked, so
    [Stuck] is a read or a write outside the array. *)
From S2P Require Import Prelude.
Local Open Scope Z_scope.

Definition STREAM_MAXW16_60MS : Z := 200.
Definition ISAC_DISALLOWED_BITSTREAM_LENGTH : Z := 6440.

Record Bitstr_enc : Type := mkBitstr_enc {
  enc_stream : list Z;
  enc_W_upper : Z;
  enc_streamval : Z;
  enc_stream_index : Z;
  enc_full : Z
}.

Record Bitstr_dec : Type := mkBitstr_dec {
  dec_stream : list Z;
  dec_W_upper : Z;
  dec_streamval : Z;
  dec_stream_index : Z;
  dec_full : Z;
  dec_stream_size : Z
}.

(** [W_tmp = W_upper_MSB * c + ((W_upper_LSB * c) >> 16)] in 32-bit unsigned
    arithmetic: the interval [W] scaled by the table entry [c]. *)
Definition scale (W c : Z) : Z :=
  let W_upper_LSB := Z.land W 65535 in
  let W_upper_MSB := Z.shiftr W 16 in
  u32 (u32 (W_upper_MSB * c) + Z.shiftr (u32 (W_upper_LSB * c)) 16).

(** ** Encoder *)

(** The variables the encoder loops work on: [stream], [streamPtr], and
    [streamData->full], [streamData->streamval], [W_upper]. *)
Record EncLocal : Type := mkEncLocal {
  l_stream : list Z;
  l_ptr : Z;
  l_full : Z;
  l_sv : Z;
  l_W : Z
}.

(** [while ( !(++(x*--ptr)) );] with [x*] a dereference: add one to the word
    before [p], and go on backwards while the sum wraps to zero. *)
Fixpoint carry_back {R : Type} (p : nat) (st : list Z) : flow R (list Z) :=
  match p with
  | O => Stuck
  | S p' =>
      let! v := rd st (Z.of_nat p') in
      let negCarry := u16 (v + 1) in
      let! st := wr st (Z.of_nat p') negCarry in
      if negCarry =? 0 then carry_back p' st else Cont st
  end.

Definition propagate_carry {R : Type} (st : list Z) (streamPtrCarry full : Z)
    : flow R (list Z) :=
  if full =? 0 then
    let! v := rd st streamPtrCarry in
    let negCarry := u16 (v + 256) in
    let! st := wr st streamPtrCarry negCarry in
    if negCarry =? 0 then carry_back (Z.to_nat streamPtrCarry) st else Cont st
  else carry_back (Z.to_nat streamPtrCarry) st.

(** Store the most significant byte of [sv] at the write position. *)
Definition put_byte {R : Type} (st : list Z) (ptr full sv : Z)
    : flow R (list Z * Z * Z) :=
  if full =? 0 then
    let! v := rd st ptr in
    let! st := wr st ptr (u16 (v + u16 (Z.shiftr sv 24))) in
    Cont (st, ptr + 1, 1)
  else
    let! st := wr st ptr (u16 (u32 (Z.shiftl (Z.shiftr sv 24) 8))) in
    Cont (st, ptr, 0).

(** [while ( !(W_upper & 0xFF000000) )]: an iteration either advances the
    pointer or clears [full], so the word limit is reached within [2 * 201]
    iterations even for an interval that never grows. *)
Definition renorm_fuel : nat := 402.

Fixpoint enc_renorm (fuel : nat) (l : EncLocal) : flow (Z * EncLocal) EncLocal :=
  match fuel with
  | O => Stuck
  | S fuel =>
      if Z.land (l_W l) 4278190080 =? 0 then
        let W := u32 (Z.shiftl (l_W l) 8) in
        let! (st, ptr, full) := put_byte (l_stream l) (l_ptr l) (l_full l) (l_sv l) in
        if STREAM_MAXW16_60MS - 1 <? ptr then
          Ret (- ISAC_DISALLOWED_BITSTREAM_LENGTH, mkEncLocal st ptr full (l_sv l) W)
        else enc_renorm fuel (mkEncLocal st ptr full (u32 (Z.shiftl (l_sv l) 8)) W)
      else Cont l
  end.

(** One symbol with cumulative frequencies [cdfLo], [cdfHi]. *)
Definition enc_symbol (cdfLo cdfHi : Z) (l : EncLocal) : flow (Z * EncLocal) EncLocal :=
  let W_lower := u32 (scale (l_W l) cdfLo + 1) in
  let W_upper := u32 (scale (l_W l) cdfHi - W_lower) in
  let streamval := u32 (l_sv l + W_lower) in
  let! st := if streamval <? W_lower
             then propagate_carry (l_stream l) (l_ptr l) (l_full l)
             else Cont (l_stream l) in
  enc_renorm renorm_fuel (mkEncLocal st (l_ptr l) (l_full l) streamval W_upper).

Fixpoint enc_hist_loop (k : nat) (data : list Z) (cdf : list (list Z)) (l : EncLocal)
    : flow (Z * EncLocal) EncLocal :=
  match k with
  | O => Cont l
  | S k =>
      match data, cdf with
      | d :: data, c :: cdf =>
          let! cdfLo := rd c (u32 d) in
          let! cdfHi := rd c (u32 d + 1) in
          let! l := enc_symbol cdfLo cdfHi l in
          enc_hist_loop k data cdf l
      | _, _ => Stuck
      end
  end.

Definition enc_load (e : Bitstr_enc) : EncLocal :=
  mkEncLocal (enc_stream e) (enc_stream_index e) (enc_full e) (enc_streamval e) (enc_W_upper e).

(** A body that ran to its end stores the index and the interval back; an early
    return leaves these two as they were. *)
Definition enc_store (e : Bitstr_enc) (m : flow (Z * EncLocal) EncLocal)
    : flow (Z * Bitstr_enc) (Z * Bitstr_enc) :=
  match m with
  | Cont l => Cont (0, mkBitstr_enc (l_stream l) (l_W l) (l_sv l) (u16 (l_ptr l)) (l_full l))
  | Ret (code, l) =>
      Ret (code, mkBitstr_enc (l_stream l) (enc_W_upper e) (l_sv l) (enc_stream_index e) (l_full l))
  | Stuck => Stuck
  end.

Definition WebRtcIsacfix_EncHistMulti (streamData : Bitstr_enc) (data : list Z)
    (cdf : list (list Z)) (lenData : Z) : flow (Z * Bitstr_enc) (Z * Bitstr_enc) :=
  enc_store streamData (enc_hist_loop (Z.to_nat lenData) data cdf (enc_load streamData)).

(** Store the two most significant bytes of [sv] when flushing. *)
Definition put_two_bytes {R : Type} (st : list Z) (ptr full sv : Z) : flow R (list Z) :=
  if full =? 0 then
    let! v := rd st ptr in
    let! st := wr st ptr (Z.lor v (u16 (Z.shiftr sv 24))) in
    wr st (ptr + 1) (Z.land (u16 (Z.shiftr sv 8)) 65280)
  else wr st ptr (u16 (Z.shiftr sv 16)).

Definition WebRtcIsacfix_EncTerminate (streamData : Bitstr_enc)
    : flow (Z * Bitstr_enc) (Z * Bitstr_enc) :=
  let finish st ptr full sv :=
    Cont (s16 (Z.shiftl ptr 1 + (if full =? 0 then 1 else 0)),
          mkBitstr_enc st (enc_W_upper streamData) sv (enc_stream_index streamData) full) in
  let streamPtr := enc_stream_index streamData in
  let full := enc_full streamData in
  if 33554431 <? enc_W_upper streamData then
    let sv := u32 (enc_streamval streamData + 16777216) in
    let! st := if sv <? 16777216
               then propagate_carry (enc_stream streamData) streamPtr full
               else Cont (enc_stream streamData) in
    let! (st, streamPtr, full) := put_byte st streamPtr full sv in
    finish st streamPtr full sv
  else
    let sv := u32 (enc_streamval streamData + 65536) in
    let! st := if sv <? 65536
               then propagate_carry (enc_stream streamData) streamPtr full
               else Cont (enc_stream streamData) in
    let! st := put_two_bytes st streamPtr full sv in
    finish st (streamPtr + 1) full sv.

(** ** Decoder *)

Record DecLocal : Type := mkDecLocal {
  d_ptr : Z;
  d_full : Z;
  d_sv : Z;
  d_W : Z
}.

(** Error returns carry the code, the locals and the symbols stored so far. *)
Definition DecRet : Type := Z * DecLocal * list Z.

Definition get_byte {R : Type} (stream : list Z) (d : DecLocal) : flow R DecLocal :=
  let! w := rd stream (d_ptr d) in
  let sv := u32 (Z.shiftl (d_sv d) 8) in
  if d_full d =? 0
  then Cont (mkDecLocal (d_ptr d + 1) 1 (Z.lor sv (Z.land w 255)) (d_W d))
  else Cont (mkDecLocal (d_ptr d) 0 (Z.lor sv (Z.shiftr w 8)) (d_W d)).

(** An iteration reads the stream, and two of them advance the pointer, so an
    interval that never grows ends outside the array before the fuel is out. *)
Fixpoint dec_renorm {R : Type} (fuel : nat) (stream : list Z) (d : DecLocal) : flow R DecLocal :=
  match fuel with
  | O => Stuck
  | S fuel =>
      if Z.land (d_W d) 4278190080 =? 0 then
        let! d := get_byte stream d in
        dec_renorm fuel stream (mkDecLocal (d_ptr d) (d_full d) (d_sv d) (u32 (Z.shiftl (d_W d) 8)))
      else Cont d
  end.

Definition dec_fuel (stream : list Z) : nat := 2 * length stream + 3.

(** The tail both decoders share: shift the interval to start at zero, subtract
    from [streamval], renormalise. *)
Definition dec_update {R : Type} (stream : list Z) (W_lower W_upper : Z) (d : DecLocal)
    : flow R DecLocal :=
  let W_lower := u32 (W_lower + 1) in
  dec_renorm (dec_fuel stream) stream
    (mkDecLocal (d_ptr d) (d_full d) (u32 (d_sv d - W_lower)) (u32 (W_upper - W_lower))).

(** First call for a stream: load [streamval] from the first two words. *)
Definition dec_load {R : Type} (s : Bitstr_dec) : flow R DecLocal :=
  if dec_stream_index s =? 0 then
    let! w0 := rd (dec_stream s) 0 in
    let! w1 := rd (dec_stream s) 1 in
    Cont (mkDecLocal 2 (dec_full s) (Z.lor (u32 (Z.shiftl w0 16)) w1) (dec_W_upper s))
  else Cont (mkDecLocal (dec_stream_index s) (dec_full s) (dec_streamval s) (dec_W_upper s)).

(** The result of a decoding call: the return value, the struct and the decoded
    symbols.  An error return has only [full] written back. *)
Definition dec_store (s : Bitstr_dec) (m : flow DecRet (DecLocal * list Z))
    : flow (Z * Bitstr_dec * list Z) (Z * Bitstr_dec * list Z) :=
  match m with
  | Cont (d, data) =>
      let stream_index := u16 (d_ptr d) in
      let nfull := if d_full d =? 0 then 1 else 0 in
      let code := if 33554431 <? d_W d then s16 (stream_index * 2 - 3 + nfull)
                  else s16 (stream_index * 2 - 2 + nfull) in
      Cont (code,
            mkBitstr_dec (dec_stream s) (d_W d) (d_sv d) stream_index (d_full d) (dec_stream_size s),
            data)
  | Ret (code, d, data) =>
      Ret (code,
           mkBitstr_dec (dec_stream s) (dec_W_upper s) (dec_streamval s) (dec_stream_index s)
             (d_full d) (dec_stream_size s),
           data)
  | Stuck => Stuck
  end.

(** *** One-step search *)

(** Upwards from entry [p], whose scaled value [W_tmp] is below [sv]. *)
Fixpoint search_up {R : Type} (fuel : nat) (err : R) (c : list Z) (W sv p W_tmp : Z)
    : flow R (Z * Z * Z) :=
  match fuel with
  | O => Stuck
  | S fuel =>
      let W_lower := W_tmp in
      let! c0 := rd c p in
      if c0 =? 65535 then Ret err
      else
        let p := p + 1 in
        let! cp := rd c p in
        let W_tmp := scale W cp in
        if sv <=? W_tmp then Cont (p - 1, W_lower, W_tmp)
        else search_up fuel err c W sv p W_tmp
  end.

(** Downwards from entry [p], whose scaled value [W_tmp] is at least [sv]. *)
Fixpoint search_down {R : Type} (fuel : nat) (err : R) (c : list Z) (W sv p W_tmp : Z)
    : flow R (Z * Z * Z) :=
  match fuel with
  | O => Stuck
  | S fuel =>
      let W_upper := W_tmp in
      let p := p - 1 in
      if p <? 0 then Ret err
      else
        let! cp := rd c p in
        let W_tmp := scale W cp in
        if W_tmp <? sv then Cont (p, W_tmp, W_upper)
        else search_down fuel err c W sv p W_tmp
  end.

(** The symbol, [W_lower] and [W_upper] found from entry [init]. *)
Definition search_one_step {R : Type} (err : R) (c : list Z) (init W sv : Z)
    : flow R (Z * Z * Z) :=
  let! c0 := rd c init in
  let W_tmp := scale W c0 in
  if W_tmp <? sv then search_up (S (length c)) err c W sv init W_tmp
  else search_down (S (length c)) err c W sv init W_tmp.

Fixpoint dec_one_step_loop (k : nat) (stream : list Z) (cdf : list (list Z))
    (initIndex : list Z) (data : list Z) (d : DecLocal) : flow DecRet (DecLocal * list Z) :=
  match k with
  | O => Cont (d, data)
  | S k =>
      match cdf, initIndex with
      | c :: cdf, init :: initIndex =>
          let! (sym, W_lower, W_upper) :=
            search_one_step (-3, d, data) c init (d_W d) (d_sv d) in
          let! d := dec_update stream W_lower W_upper d in
          dec_one_step_loop k stream cdf initIndex (data ++ [s16 sym]) d
      | _, _ => Stuck
      end
  end.

Definition WebRtcIsacfix_DecHistOneStepMulti (streamData : Bitstr_dec) (cdf : list (list Z))
    (initIndex : list Z) (lenData : Z)
    : flow (Z * Bitstr_dec * list Z) (Z * Bitstr_dec * list Z) :=
  if dec_W_upper streamData =? 0 then Ret (-2, streamData, [])
  else
    dec_store streamData
      (let! d := dec_load streamData in
       dec_one_step_loop (Z.to_nat lenData) (dec_stream streamData) cdf initIndex [] d).

(** *** Bisection *)

(** [for ( ;; )] of the bisection: the entry reached, its scaled value, and the
    interval bounds met on the way ([W_lower] keeps its value from the symbol
    before until it is set). *)
Fixpoint bisect {R : Type} (fuel : nat) (c : list Z) (W sv p sizeTmp W_lower W_upper : Z)
    : flow R (Z * Z * Z * Z) :=
  match fuel with
  | O => Stuck
  | S fuel =>
      let! cp := rd c p in
      let W_tmp := scale W cp in
      let sizeTmp := Z.shiftr sizeTmp 1 in
      if sizeTmp =? 0 then Cont (p, W_tmp, W_lower, W_upper)
      else if W_tmp <? sv then bisect fuel c W sv (p + sizeTmp) sizeTmp W_tmp W_upper
      else bisect fuel c W sv (p - sizeTmp) sizeTmp W_lower W_tmp
  end.

(** Sixteen halvings end any 16-bit size. *)
Definition search_bisect {R : Type} (c : list Z) (size W sv W_lower : Z) : flow R (Z * Z * Z) :=
  let sizeTmp := s16 (Z.shiftr size 1) in
  let! (p, W_tmp, W_lower, W_upper) := bisect 17 c W sv (sizeTmp - 1) sizeTmp W_lower W in
  if W_tmp <? sv then Cont (p, W_tmp, W_upper) else Cont (p - 1, W_lower, W_tmp).

Fixpoint dec_bisect_loop (k : nat) (stream : list Z) (cdf : list (list Z))
    (cdfSize : list Z) (data : list Z) (W_lower : Z) (d : DecLocal)
    : flow DecRet (DecLocal * list Z) :=
  match k with
  | O => Cont (d, data)
  | S k =>
      match cdf, cdfSize with
      | c :: cdf, size :: cdfSize =>
          let! (sym, W_lower, W_upper) := search_bisect c size (d_W d) (d_sv d) W_lower in
          let! d := dec_update stream W_lower W_upper d in
          let data := data ++ [s16 sym] in
          if d_W d =? 0 then Ret (-2, d, data)
          else dec_bisect_loop k stream cdf cdfSize data (u32 (W_lower + 1)) d
      | _, _ => Stuck
      end
  end.

Definition WebRtcIsacfix_DecHistBisectMulti (streamData : Bitstr_dec) (cdf : list (list Z))
    (cdfSize : list Z) (lenData : Z)
    : flow (Z * Bitstr_dec * list Z) (Z * Bitstr_dec * list Z) :=
  if dec_W_upper streamData =? 0 then Ret (-2, streamData, [])
  else
    dec_store streamData
      (let! d := dec_load streamData in
       dec_bisect_loop (Z.to_nat lenData) (dec_stream streamData) cdf cdfSize [] 0 d).
