(* ===== verification/IsacInterval.v ===== *)
(** * The interval coder the iSAC encoder implements

    An abstract machine over unbounded integers: the bytes written so far and
    the pending 32 bits are one number, the low end of the current interval.
    The concrete encoder of IsacArith.v refines it (carries included), and a
    decoder is in step with it.  This file holds the machine, the number a word
    stream stands for, and the refinement of the encoder. *)
From S2P Require Import Prelude IsacArith.
Local Open Scope Z_scope.

(** ** Word streams as numbers *)

(** The first [p] words, most significant first. *)
Fixpoint wval (st : list Z) (p : nat) : Z :=
  match p with
  | O => 0
  | S p => wval st p * 65536 + st !!! p
  end.

(** The bytes before write position [(ptr, full)]: [full = 0] means that the
    first byte of word [ptr] is before the position too. *)
Definition pval (st : list Z) (ptr full : Z) : Z :=
  if full =? 0
  then wval st (Z.to_nat ptr) * 256 + (st !!! Z.to_nat ptr) / 256
  else wval st (Z.to_nat ptr).

Definition next_ptr (ptr full : Z) : Z := if full =? 0 then ptr + 1 else ptr.
Definition next_full (full : Z) : Z := if full =? 0 then 1 else 0.

(** Number of bytes before the position. *)
Definition bpos (ptr full : Z) : Z := 2 * ptr + (if full =? 0 then 1 else 0).

Definition byte_at (st : list Z) (ptr full : Z) : Z :=
  if full =? 0 then (st !!! Z.to_nat ptr) mod 256 else (st !!! Z.to_nat ptr) / 256.

Lemma bpos_next ptr full : bpos (next_ptr ptr full) (next_full full) = bpos ptr full + 1.
Proof. unfold bpos, next_ptr, next_full. zcases; lia. Qed.

Lemma wval_nonneg st p : Forall is_u16 st -> (p <= length st)%nat -> 0 <= wval st p.
Proof.
  intros Hst. induction p as [|p IH]; cbn [wval]; intros Hp; [done|].
  pose proof (Forall_total _ _ p Hst ltac:(lia)) as Hw. unfold is_u16 in Hw. lia.
Qed.

Lemma wval_ext st st' p :
  (forall j, (j < p)%nat -> st' !!! j = st !!! j) -> wval st' p = wval st p.
Proof.
  induction p as [|p IH]; cbn; intros H; [done|]. rewrite IH, H; [done|lia|].
  intros j Hj. apply H. lia.
Qed.

Lemma wval_insert_ge st i v p : (p <= i)%nat -> wval (<[i := v]> st) p = wval st p.
Proof.
  intros H. apply wval_ext. intros j Hj. apply list_lookup_total_insert_ne. lia.
Qed.

(** One byte further. *)
Lemma pval_next st ptr full :
  Forall is_u16 st -> 0 <= ptr < Zlen st -> full = 0 \/ full = 1 ->
  pval st (next_ptr ptr full) (next_full full) = pval st ptr full * 256 + byte_at st ptr full.
Proof.
  intros Hst Hp [->| ->]; unfold pval, next_ptr, next_full, byte_at; cbn [Z.eqb];
    [|done].
  replace (Z.to_nat (ptr + 1)) with (S (Z.to_nat ptr)) by lia. cbn [wval].
  set (w := st !!! Z.to_nat ptr). set (a := wval st (Z.to_nat ptr)). zdm.
Qed.

Lemma byte_at_range st ptr full :
  Forall is_u16 st -> 0 <= ptr < Zlen st -> 0 <= byte_at st ptr full < 256.
Proof.
  intros Hst Hp. unfold byte_at.
  pose proof (Forall_total _ _ (Z.to_nat ptr) Hst) as Hw. unfold Zlen, is_u16 in *.
  specialize (Hw ltac:(lia)). destruct (full =? 0); zdm.
Qed.

(** ** The abstract machine *)

Record interval : Type := mkInterval {
  i_ptr : Z;
  i_full : Z;
  i_low : Z;
  i_W : Z
}.

Definition i_next (a : interval) : interval :=
  mkInterval (next_ptr (i_ptr a) (i_full a)) (next_full (i_full a)) (i_low a * 256) (i_W a * 256).

Definition i_narrow (lo hi : Z) (a : interval) : interval :=
  mkInterval (i_ptr a) (i_full a)
    (i_low a + i_W a * lo / 65536 + 1)
    (i_W a * hi / 65536 - i_W a * lo / 65536 - 1).

Fixpoint i_renorm (n : nat) (a : interval) : interval :=
  match n with
  | O => a
  | S n => if i_W a <? 16777216 then i_renorm n (i_next a) else a
  end.

Definition i_symbol (lo hi : Z) (a : interval) : interval := i_renorm 3 (i_narrow lo hi a).

Fixpoint i_symbols (ps : list (Z * Z)) (a : interval) : interval :=
  match ps with
  | [] => a
  | (lo, hi) :: ps => i_symbols ps (i_symbol lo hi a)
  end.

Definition i_pos (a : interval) : Z := bpos (i_ptr a) (i_full a).

Definition i_start : interval := mkInterval 0 1 0 4294967295.

Lemma i_pos_next a : i_pos (i_next a) = i_pos a + 1.
Proof. apply bpos_next. Qed.

Lemma i_pos_renorm n a : i_pos a <= i_pos (i_renorm n a).
Proof.
  revert a. induction n as [|n IH]; intros a; cbn; [lia|].
  destruct (_ <? _); [|lia]. etransitivity; [|apply IH]. rewrite i_pos_next. lia.
Qed.

Lemma i_pos_symbol lo hi a : i_pos a <= i_pos (i_symbol lo hi a).
Proof. apply (i_pos_renorm 3 (i_narrow lo hi a)). Qed.

Lemma i_pos_symbols ps a : i_pos a <= i_pos (i_symbols ps a).
Proof.
  revert a. induction ps as [|[lo hi] ps IH]; intros a; cbn; [lia|].
  etransitivity; [|apply IH]. apply i_pos_symbol.
Qed.

Definition good_pair (p : Z * Z) : Prop := 0 <= p.1 < p.2 /\ p.2 < 65536.

(** ** The scaled cumulative frequency *)

Lemma land_ones16 z : Z.land z 65535 = z mod 65536.
Proof. change 65535 with (Z.ones 16). by rewrite Z.land_ones. Qed.

Lemma scale_eq W c : is_u32 W -> is_u16 c -> scale W c = W * c / 65536.
Proof.
  intros HW Hc. unfold scale. rewrite land_ones16, !Z.shiftr_div_pow2 by lia.
  change (2 ^ 16) with 65536.
  assert (Hq : W = 65536 * (W / 65536) + W mod 65536) by zdm.
  assert (0 <= W / 65536 < 65536) by cint. assert (0 <= W mod 65536 < 65536) by zdm.
  set (q := W / 65536) in *. set (r := W mod 65536) in *. clearbody q r. subst W.
  unfold is_u32, is_u16 in *.
  assert (Hb : 0 <= r * c / 65536 <= c)
    by (split; [apply Z.div_pos; nia | apply Z.div_le_upper_bound; nia]).
  rewrite (u32_id (q * c)), (u32_id (r * c)), u32_id by (unfold is_u32; nia).
  replace ((65536 * q + r) * c) with (q * c * 65536 + r * c) by ring.
  by rewrite Z.div_add_l by lia.
Qed.

(** Distinct entries scale to values at least 255 apart. *)
Lemma scale_gap W lo hi :
  16777216 <= W -> 0 <= lo < hi -> W * lo / 65536 + 256 <= W * hi / 65536.
Proof.
  intros HW H. apply Z.div_le_lower_bound; [lia|].
  pose proof (Z.mul_div_le (W * lo) 65536 ltac:(lia)). nia.
Qed.

Lemma scale_mono W lo hi :
  0 <= W -> lo <= hi -> W * lo / 65536 <= W * hi / 65536.
Proof. intros HW H. apply Z.div_le_mono; nia. Qed.

Lemma scale_range W c : 0 <= W -> is_u16 c -> 0 <= W * c / 65536 <= W.
Proof.
  intros HW Hc. unfold is_u16 in Hc. split; [apply Z.div_pos; nia|].
  apply Z.div_le_upper_bound; nia.
Qed.

(** ** The encoder refines the machine *)

Definition l_pval (l : EncLocal) : Z := pval (l_stream l) (l_ptr l) (l_full l).

(** The low end of the interval: bytes written, then the pending 32 bits. *)
Definition l_abs (l : EncLocal) : interval :=
  mkInterval (l_ptr l) (l_full l) (l_pval l * 4294967296 + l_sv l) (l_W l).

(** A stream and position the encoder may write at: when half a word is
    written its other half is still zero. *)
Record stream_ok (st : list Z) (ptr full : Z) : Prop := {
  so_len : Zlen st = STREAM_MAXW16_60MS;
  so_words : Forall is_u16 st;
  so_ptr : 0 <= ptr < STREAM_MAXW16_60MS;
  so_full : full = 0 \/ full = 1;
  so_low : full = 0 -> (st !!! Z.to_nat ptr) mod 256 = 0
}.

(** Between symbols: the interval is wide, and it ends below the largest number
    of its length, so that a carry never runs off the front of the stream. *)
Record enc_ok (l : EncLocal) : Prop := {
  eo_stream : stream_ok (l_stream l) (l_ptr l) (l_full l);
  eo_sv : is_u32 (l_sv l);
  eo_W : 16777216 <= l_W l < 4294967296;
  eo_top : i_low (l_abs l) + l_W l < 256 ^ (i_pos (l_abs l) + 4)
}.

(** Before renormalisation the interval may be narrow. *)
Record enc_mid (l : EncLocal) : Prop := {
  em_stream : stream_ok (l_stream l) (l_ptr l) (l_full l);
  em_sv : is_u32 (l_sv l);
  em_W : 0 < l_W l < 4294967296;
  em_top : i_low (l_abs l) + l_W l < 256 ^ (i_pos (l_abs l) + 4)
}.

Lemma stream_ok_nat st ptr full :
  stream_ok st ptr full -> (Z.to_nat ptr < length st)%nat.
Proof. intros [Hl _ Hp _ _]. unfold Zlen, STREAM_MAXW16_60MS in *. lia. Qed.

Lemma stream_ok_word st ptr full :
  stream_ok st ptr full -> is_u16 (st !!! Z.to_nat ptr).
Proof. intros H. apply Forall_total; [apply H|]. by eapply stream_ok_nat. Qed.

Lemma top_zero W : is_u32 W -> (Z.land W 4278190080 =? 0) = (W <? 16777216).
Proof.
  intros HW. change 4278190080 with (Z.shiftl (Z.ones 8) 24).
  rewrite land_field by lia. change (2 ^ 24) with 16777216. change (2 ^ 8) with 256.
  unfold is_u32 in HW. zcases; zdm.
Qed.

Lemma pow65536 p : 0 <= p -> 65536 ^ p = 256 ^ (2 * p).
Proof. intros. rewrite Z.pow_mul_r by lia. done. Qed.

Lemma pow65536_S p : 65536 ^ Z.of_nat (S p) = 65536 * 65536 ^ Z.of_nat p.
Proof. rewrite Nat2Z.inj_succ, Z.pow_succ_r; lia. Qed.

(** Adding one to the number before word [p]. *)
Lemma carry_back_spec {R} p st :
  Forall is_u16 st -> (p <= length st)%nat -> wval st p + 1 < 65536 ^ Z.of_nat p ->
  exists st', carry_back (R := R) p st = Cont st' /\ length st' = length st /\
    Forall is_u16 st' /\ wval st' p = wval st p + 1 /\
    (forall j, (p <= j)%nat -> st' !!! j = st !!! j).
Proof.
  revert st. induction p as [|p IH]; intros st Hst Hp Hv; [cbn in Hv; lia|].
  pose proof (Forall_total _ _ p Hst ltac:(lia)) as Hw.
  cbn [carry_back]. rewrite rd_total by (unfold Zlen; lia). cbn [flow_bind].
  rewrite Nat2Z.id, wr_Cont, Nat2Z.id by (unfold Zlen; lia). cbn [flow_bind].
  cbn [wval] in Hv |- *. rewrite pow65536_S in Hv.
  set (v := st !!! p) in *.
  assert (Hst1 : Forall is_u16 (<[p:=u16 (v + 1)]> st))
    by (apply Forall_insert; [done | apply u16_range]).
  assert (Hp1 : <[p:=u16 (v + 1)]> st !!! p = u16 (v + 1))
    by (apply list_lookup_total_insert_eq; lia).
  destruct (Z.eqb_spec (u16 (v + 1)) 0) as [E|E].
  - destruct (IH (<[p:=u16 (v + 1)]> st) Hst1) as (st' & Hrun & Hlen & Hw' & Hval & Hrest).
    { rewrite length_insert; lia. }
    { rewrite wval_insert_ge by lia. unfold u16, is_u16 in *. zdm. }
    exists st'. rewrite Hrun, Hlen, length_insert. do 3 (split; [done|]). split.
    + rewrite Hval, Hrest, Hp1, E, wval_insert_ge by lia. unfold u16, is_u16 in *. zdm.
    + intros j Hj. rewrite Hrest by lia. apply list_lookup_total_insert_ne. lia.
  - eexists; split; [done|]. rewrite length_insert. do 2 (split; [done|]). split.
    + rewrite Hp1, wval_insert_ge by lia. unfold u16, is_u16 in *. zdm.
    + intros j Hj. apply list_lookup_total_insert_ne. lia.
Qed.

Lemma propagate_carry_spec {R} st ptr full :
  stream_ok st ptr full -> pval st ptr full + 1 < 256 ^ bpos ptr full ->
  exists st', propagate_carry (R := R) st ptr full = Cont st' /\
    stream_ok st' ptr full /\ pval st' ptr full = pval st ptr full + 1.
Proof.
  intros Hok Hv. pose proof (stream_ok_nat _ _ _ Hok) as Hn.
  pose proof (stream_ok_word _ _ _ Hok) as Hw. destruct Hok as [Hl Hst Hp Hf Hlow].
  set (p := Z.to_nat ptr) in *.
  assert (Hpp : Z.of_nat p = ptr) by lia.
  unfold propagate_carry, pval, bpos in *. fold p in Hv |- *.
  destruct Hf as [->| ->]; cbn [Z.eqb] in *.
  - specialize (Hlow eq_refl). set (v := st !!! p) in *.
    rewrite rd_total by lia. cbn [flow_bind]. fold p v.
    rewrite wr_Cont by lia. cbn [flow_bind]. fold p.
    assert (Hst1 : Forall is_u16 (<[p:=u16 (v + 256)]> st))
      by (apply Forall_insert; [done | apply u16_range]).
    assert (Hp1 : <[p:=u16 (v + 256)]> st !!! p = u16 (v + 256))
      by (apply list_lookup_total_insert_eq; lia).
    rewrite Z.pow_add_r, <- pow65536, <- Hpp in Hv by lia. change (256 ^ 1) with 256 in Hv.
    destruct (Z.eqb_spec (u16 (v + 256)) 0) as [E|E].
    + destruct (carry_back_spec (R := R) p (<[p:=u16 (v + 256)]> st) Hst1)
        as (st' & Hrun & Hlen & Hw' & Hval & Hrest).
      { rewrite length_insert; lia. }
      { rewrite wval_insert_ge by lia. unfold u16, is_u16 in *. zdm. }
      exists st'. split; [done|]. rewrite Hval, Hrest, Hp1, E, wval_insert_ge by lia. split.
      * split; try done; [unfold Zlen in *; rewrite Hlen, length_insert; lia|by left|].
        intros _. fold p. rewrite Hrest, Hp1, E by lia. done.
      * unfold u16, is_u16 in *. zdm.
    + eexists; split; [done|]. rewrite Hp1, wval_insert_ge by lia. split.
      * split; try done; [by rewrite Zlen_insert|by left|].
        intros _. fold p. rewrite Hp1. unfold u16, is_u16 in *. zdm.
      * unfold u16, is_u16 in *. zdm.
  - rewrite Z.add_0_r, <- pow65536, <- Hpp in Hv by lia.
    destruct (carry_back_spec (R := R) p st Hst ltac:(lia) Hv)
      as (st' & Hrun & Hlen & Hw' & Hval & Hrest).
    exists st'. split; [done|]. split; [|done].
    split; try done; [unfold Zlen in *; rewrite Hlen; lia|by right].
Qed.

(** Storing a byte: the number grows by it, and everything stays legal unless
    the last word was filled. *)
Lemma put_byte_spec {R} st ptr full sv :
  stream_ok st ptr full -> is_u32 sv ->
  exists st', put_byte (R := R) st ptr full sv = Cont (st', next_ptr ptr full, next_full full) /\
    Zlen st' = STREAM_MAXW16_60MS /\ Forall is_u16 st' /\
    (next_full full = 0 -> (st' !!! Z.to_nat (next_ptr ptr full)) mod 256 = 0) /\
    pval st' (next_ptr ptr full) (next_full full) = pval st ptr full * 256 + sv / 16777216.
Proof.
  intros Hok Hsv. pose proof (stream_ok_nat _ _ _ Hok) as Hn.
  pose proof (stream_ok_word _ _ _ Hok) as Hw. destruct Hok as [Hl Hst Hp Hf Hlow].
  set (p := Z.to_nat ptr) in *. unfold put_byte, next_ptr, next_full, pval.
  rewrite Z.shiftr_div_pow2 by lia. change (2 ^ 24) with 16777216.
  assert (Hb : 0 <= sv / 16777216 < 256) by (unfold is_u32 in Hsv; zdm).
  set (b := sv / 16777216) in *. clearbody b.
  destruct Hf as [->| ->]; cbn [Z.eqb].
  - specialize (Hlow eq_refl). rewrite rd_total by lia. cbn [flow_bind]. fold p.
    rewrite wr_Cont by lia. cbn [flow_bind]. fold p. eexists; split; [done|].
    replace (Z.to_nat (ptr + 1)) with (S p) by lia. cbn [wval].
    rewrite Zlen_insert, list_lookup_total_insert_eq, wval_insert_ge by lia.
    split; [done|]. split; [apply Forall_insert; [done | apply u16_range]|].
    split; [done|]. fold p. rewrite (u16_id b) by (unfold is_u16; lia).
    rewrite u16_id; unfold is_u16 in *; zdm.
  - rewrite Z.shiftl_mul_pow2 by lia. change (2 ^ 8) with 256.
    rewrite (u32_id (b * 256)), (u16_id (b * 256)) by (cunf; lia).
    rewrite wr_Cont by lia. cbn [flow_bind]. fold p. eexists; split; [done|].
    rewrite Zlen_insert, list_lookup_total_insert_eq, wval_insert_ge by lia. fold p.
    split; [done|]. split; [apply Forall_insert; [done | unfold is_u16; lia]|].
    split; [intros _; zdm|]. zdm.
Qed.

Definition enc_refines (m : flow (Z * EncLocal) EncLocal) (a : interval) : Prop :=
  (exists l', m = Cont l' /\ enc_ok l' /\ l_abs l' = a) \/
  (exists l', m = Ret (- ISAC_DISALLOWED_BITSTREAM_LENGTH, l')).

Lemma enc_renorm_spec n fuel l :
  enc_mid l -> 16777216 <= l_W l * 256 ^ Z.of_nat n -> (n < fuel)%nat ->
  enc_refines (enc_renorm fuel l) (i_renorm n (l_abs l)).
Proof.
  revert fuel l. induction n as [|n IH]; intros [|fuel] l Hm HW Hfuel; try lia.
  { left. exists l. cbn [enc_renorm i_renorm]. destruct Hm as [Hs Hsv Hw Ht].
    rewrite top_zero by (unfold is_u32; lia).
    rewrite Z.pow_0_r in HW. destruct (Z.ltb_spec (l_W l) 16777216); [lia|].
    split; [done|]. split; [|done]. split; (done || lia). }
  destruct Hm as [Hs Hsv Hw Ht]. cbn [enc_renorm i_renorm].
  rewrite top_zero by (unfold is_u32; lia). cbn [i_W l_abs].
  destruct (Z.ltb_spec (l_W l) 16777216) as [Hlt|Hge].
  2: { left. exists l. split; [done|]. split; [|done]. split; (done || lia). }
  destruct (put_byte_spec (R := Z * EncLocal) _ _ _ _ Hs Hsv)
    as (st' & Hput & Hlen & Hw' & Hlow' & Hval). rewrite Hput. cbn [flow_bind].
  destruct (Z.ltb_spec (STREAM_MAXW16_60MS - 1) (next_ptr (l_ptr l) (l_full l))) as [Hmax|Hmax].
  { right. by eexists. }
  rewrite !Z.shiftl_mul_pow2 by lia. change (2 ^ 8) with 256.
  rewrite (u32_id (l_W l * 256)) by (unfold is_u32; lia).
  set (l1 := mkEncLocal _ _ _ _ _).
  assert (Hnf : next_full (l_full l) = 0 \/ next_full (l_full l) = 1)
    by (unfold next_full; destruct (_ =? 0); auto).
  assert (Habs : l_abs l1 = i_next (l_abs l)).
  { unfold l_abs, i_next, l_pval. cbn. rewrite Hval. f_equal. unfold u32, is_u32 in *. zdm. }
  change (mkInterval _ _ _ _) with (l_abs l). rewrite <- Habs. apply IH; [|cbn|lia].
  - split; cbn.
    + split; try done. pose proof (so_ptr _ _ _ Hs).
      unfold next_ptr in *. destruct (_ =? 0); lia.
    + apply u32_range.
    + lia.
    + change (i_low (l_abs l1) + l_W l * 256 < 256 ^ (i_pos (l_abs l1) + 4)).
      rewrite Habs, i_pos_next.
      replace (i_pos (l_abs l) + 1 + 4) with (Z.succ (i_pos (l_abs l) + 4)) by lia.
      rewrite Z.pow_succ_r; [cbn [i_low i_next]; lia|].
      pose proof (so_ptr _ _ _ Hs). unfold i_pos, bpos. cbn. destruct (_ =? 0); lia.
  - rewrite Nat2Z.inj_succ, Z.pow_succ_r in HW by lia. lia.
Qed.

Lemma i_pos_nonneg l : stream_ok (l_stream l) (l_ptr l) (l_full l) -> 0 <= i_pos (l_abs l).
Proof.
  intros H. pose proof (so_ptr _ _ _ H). unfold i_pos, bpos. cbn. destruct (_ =? 0); lia.
Qed.

(** A carry is due exactly when the 32-bit sum wrapped. *)
Lemma carry_spec {R} l x :
  stream_ok (l_stream l) (l_ptr l) (l_full l) -> is_u32 (l_sv l) -> is_u32 x ->
  i_low (l_abs l) + x < 256 ^ (i_pos (l_abs l) + 4) ->
  let sv' := u32 (l_sv l + x) in
  exists st', (if sv' <? x then propagate_carry (l_stream l) (l_ptr l) (l_full l)
               else Cont (R := R) (l_stream l)) = Cont st' /\
    stream_ok st' (l_ptr l) (l_full l) /\
    pval st' (l_ptr l) (l_full l) * 4294967296 + sv' = i_low (l_abs l) + x.
Proof.
  intros Hs Hsv Hx Htop sv'. pose proof (i_pos_nonneg l Hs) as Hpos.
  rewrite Z.pow_add_r in Htop by lia. change (256 ^ 4) with 4294967296 in Htop.
  unfold l_abs, l_pval in *. cbn [i_low i_ptr i_full i_pos] in *.
  change (i_pos _) with (bpos (l_ptr l) (l_full l)) in *.
  destruct (Z.ltb_spec sv' x) as [Hc|Hc]; unfold sv' in *; unfold u32, is_u32 in Hc, Hsv, Hx.
  - destruct (propagate_carry_spec (R := R) _ _ _ Hs) as (st' & Hrun & Hok & Hv); [zdm|].
    exists st'. rewrite Hv. split; [done|]. split; [done|]. unfold u32. zdm.
  - eexists. split; [done|]. split; [done|]. unfold u32. zdm.
Qed.

Lemma enc_symbol_spec lo hi l :
  enc_ok l -> good_pair (lo, hi) ->
  enc_refines (enc_symbol lo hi l) (i_symbol lo hi (l_abs l)).
Proof.
  intros [Hs Hsv HW Htop] [Hlo Hhi]. cbn in Hlo, Hhi. unfold enc_symbol.
  rewrite !scale_eq by (cunf; lia).
  pose proof (scale_gap (l_W l) lo hi ltac:(lia) Hlo) as Hgap.
  pose proof (scale_range (l_W l) lo ltac:(lia) ltac:(unfold is_u16; lia)) as Hrl.
  pose proof (scale_range (l_W l) hi ltac:(lia) ltac:(unfold is_u16; lia)) as Hrh.
  set (Wl := l_W l * lo / 65536) in *. set (Wh := l_W l * hi / 65536) in *.
  rewrite (u32_id (Wl + 1)), (u32_id (Wh - _)) by (unfold is_u32; lia).
  destruct (carry_spec (R := Z * EncLocal) l (Wl + 1) Hs Hsv) as (st' & Hrun & Hok & Hlow);
    [unfold is_u32; lia|lia|].
  rewrite Hrun. cbn [flow_bind].
  set (l1 := mkEncLocal _ _ _ _ _).
  assert (Habs : l_abs l1 = i_narrow lo hi (l_abs l)).
  { unfold l_abs at 1, l_pval, i_narrow. cbn [l_ptr l_full l_stream l_sv l_W l1].
    rewrite Hlow. cbn [i_ptr i_full i_low i_W l_abs]. fold Wl Wh. f_equal; lia. }
  unfold i_symbol. rewrite <- Habs. apply enc_renorm_spec.
  - split; cbn [l_stream l_ptr l_full l_sv l_W l1]; [done|apply u32_range|lia|].
    rewrite Habs. unfold i_narrow, i_pos. cbn [i_low i_ptr i_full i_W l_abs].
    fold Wl Wh. unfold i_pos in Htop. cbn [i_ptr i_full i_low l_abs] in *. lia.
  - cbn [l_W l1]. change (Z.of_nat 3) with 3. change (256 ^ 3) with 16777216. lia.
  - unfold renorm_fuel. lia.
Qed.

(** The table entries a data vector selects. *)
Fixpoint hist_pairs (data : list Z) (cdf : list (list Z)) : list (Z * Z) :=
  match data, cdf with
  | d :: data, c :: cdf =>
      (c !!! Z.to_nat d, c !!! Z.to_nat (d + 1)) :: hist_pairs data cdf
  | _, _ => []
  end.

(** A usable table: 16-bit entries that never decrease (several tables are
    padded at the end with copies of the last entry). *)
Definition cdf_ok (c : list Z) : Prop :=
  Forall is_u16 c /\
  forall i j : nat, (i <= j < length c)%nat -> c !!! i <= c !!! j.

(** A symbol the table has an interval for. *)
Record sym_ok (d : Z) (c : list Z) : Prop := {
  sy_cdf : cdf_ok c;
  sy_range : 0 <= d < 32768;
  sy_len : d + 1 < Zlen c;
  sy_pos : c !!! Z.to_nat d < c !!! Z.to_nat (d + 1)
}.

Lemma sym_ok_entry d c (i : nat) : sym_ok d c -> (i < length c)%nat -> is_u16 (c !!! i).
Proof. intros [[Hc _] _ _ _] Hi. by apply Forall_total. Qed.

Lemma sym_ok_pair d c : sym_ok d c -> good_pair (c !!! Z.to_nat d, c !!! Z.to_nat (d + 1)).
Proof.
  intros H. pose proof H as [_ H0 H1 Hlt]. unfold Zlen in H1.
  pose proof (sym_ok_entry _ _ (Z.to_nat d) H ltac:(lia)).
  pose proof (sym_ok_entry _ _ (Z.to_nat (d + 1)) H ltac:(lia)).
  unfold is_u16 in *. split; cbn; lia.
Qed.

Lemma enc_hist_loop_spec data cdf l :
  enc_ok l -> Forall2 sym_ok data cdf ->
  enc_refines (enc_hist_loop (length data) data cdf l)
    (i_symbols (hist_pairs data cdf) (l_abs l)).
Proof.
  intros Hl H. revert l Hl.
  induction H as [|d c data cdf Hd _ IH]; intros l Hl;
    cbn [length enc_hist_loop hist_pairs i_symbols].
  { left. by exists l. }
  pose proof (sym_ok_pair _ _ Hd) as Hgood.
  destruct Hd as [_ H0 H1 _].
  rewrite (u32_id d) by (unfold is_u32; lia).
  rewrite !rd_total by lia. cbn [flow_bind].
  destruct (enc_symbol_spec _ _ _ Hl Hgood) as [(l' & Hrun & Hok & Habs)|(l' & Hrun)];
    rewrite Hrun; cbn [flow_bind].
  - rewrite <- Habs. by apply IH.
  - right. by eexists.
Qed.
