(* ===== verification/IsacDecode.v ===== *)
(** * The iSAC decoders in step with the interval coder

    The abstract machine of IsacInterval.v seen from a decoder: the decoder's
    [streamval] is the distance from the low end of the interval to the number
    its stream spells, four bytes ahead of the machine's position.  If the stream
    lies in the final interval it lies in every earlier one, so the searches
    find the encoded symbols. *)
From S2P Require Import Prelude IsacArith IsacInterval.
Local Open Scope Z_scope.

(** ** Streams byte by byte *)

Definition stream_byte (st : list Z) (i : Z) : Z :=
  if Z.even i then (st !!! Z.to_nat (i / 2)) / 256 else (st !!! Z.to_nat (i / 2)) mod 256.

Fixpoint bval (st : list Z) (n : nat) : Z :=
  match n with
  | O => 0
  | S n => bval st n * 256 + stream_byte st (Z.of_nat n)
  end.

Lemma stream_byte_even st p :
  0 <= p -> stream_byte st (2 * p) = (st !!! Z.to_nat p) / 256.
Proof.
  intros. unfold stream_byte. rewrite Z.even_mul. cbn [Z.even orb].
  by replace (2 * p / 2) with p by zdm.
Qed.

Lemma stream_byte_odd st p :
  0 <= p -> stream_byte st (2 * p + 1) = (st !!! Z.to_nat p) mod 256.
Proof.
  intros. unfold stream_byte.
  rewrite Z.add_1_r, Z.even_succ, Z.odd_mul. cbn [Z.odd andb].
  by replace (Z.succ (2 * p) / 2) with p by zdm.
Qed.

Lemma byte_at_stream_byte st ptr full :
  0 <= ptr -> byte_at st ptr full = stream_byte st (bpos ptr full).
Proof.
  intros. unfold byte_at, bpos. destruct (full =? 0).
  - by rewrite stream_byte_odd.
  - by rewrite Z.add_0_r, stream_byte_even.
Qed.

Lemma wval_bval st p : wval st p = bval st (2 * p).
Proof.
  induction p as [|p IH]; [done|]. replace (2 * S p)%nat with (S (S (2 * p))) by lia.
  cbn [wval bval]. rewrite IH.
  replace (Z.of_nat (S (2 * p))) with (2 * Z.of_nat p + 1) by lia.
  replace (Z.of_nat (2 * p)) with (2 * Z.of_nat p) by lia.
  rewrite stream_byte_odd, stream_byte_even, Nat2Z.id by lia.
  set (w := st !!! p). zdm.
Qed.

Lemma pval_bval st ptr full :
  0 <= ptr -> pval st ptr full = bval st (Z.to_nat (bpos ptr full)).
Proof.
  intros H. unfold pval, bpos. rewrite wval_bval. destruct (full =? 0).
  - replace (Z.to_nat (2 * ptr + 1)) with (S (2 * Z.to_nat ptr)) by lia. cbn [bval].
    replace (Z.of_nat (2 * Z.to_nat ptr)) with (2 * ptr) by lia.
    by rewrite stream_byte_even.
  - f_equal. lia.
Qed.

Lemma bval_ext st st' n :
  (forall i, 0 <= i < Z.of_nat n -> stream_byte st' i = stream_byte st i) ->
  bval st' n = bval st n.
Proof.
  induction n as [|n IH]; intros H; [done|]. cbn [bval].
  rewrite IH, H; [done|lia|]. intros i Hi. apply H. lia.
Qed.

(** More bytes refine the number without leaving its last unit. *)
Lemma bval_extend st k m :
  (forall i, 0 <= i < Z.of_nat (k + m) -> is_u8 (stream_byte st i)) ->
  bval st k * 256 ^ Z.of_nat m <= bval st (k + m) < (bval st k + 1) * 256 ^ Z.of_nat m.
Proof.
  induction m as [|m IH]; intros H.
  { rewrite Nat.add_0_r. change (256 ^ Z.of_nat 0) with 1. lia. }
  rewrite Nat.add_succ_r, Nat2Z.inj_succ, Z.pow_succ_r by lia. cbn [bval].
  specialize (H (Z.of_nat (k + m)) ltac:(lia)) as Hb. unfold is_u8 in Hb.
  assert (IH' := IH ltac:(intros; apply H; lia)). lia.
Qed.

Lemma stream_byte_u8 st i :
  Forall is_u16 st -> 0 <= i < 2 * Zlen st -> is_u8 (stream_byte st i).
Proof.
  unfold stream_byte, Zlen. intros Hst Hi.
  pose proof (Forall_total _ _ (Z.to_nat (i / 2)) Hst ltac:(zdm)) as Hw.
  unfold is_u16, is_u8 in *. destruct (Z.even i); zdm.
Qed.

(** ** The decoder's view of an interval *)

Definition rest (S : list Z) (a : interval) : Z := pval S (i_ptr a + 2) (i_full a) - i_low a.

Definition contains (S : list Z) (a : interval) : Prop := 0 <= rest S a <= i_W a.

(** The locals of a decoder in step with [a]. *)
Definition d_of (S : list Z) (a : interval) : DecLocal :=
  mkDecLocal (i_ptr a + 2) (i_full a) (rest S a) (i_W a).

Record iv_ok (a : interval) : Prop := {
  iv_ptr : 0 <= i_ptr a;
  iv_full : i_full a = 0 \/ i_full a = 1;
  iv_W : 0 < i_W a < 4294967296
}.

(** The bytes a decoder in step with [a] has read are in the stream. *)
Definition in_stream (S : list Z) (a : interval) : Prop := i_pos a + 4 <= 2 * Zlen S.

Lemma iv_ok_next a : iv_ok a -> i_W a < 16777216 -> iv_ok (i_next a).
Proof.
  intros [H1 H2 H3] HW. split; cbn; unfold next_ptr, next_full.
  - destruct (_ =? 0); lia.
  - destruct (_ =? 0); auto.
  - lia.
Qed.

Lemma rest_next S a :
  Forall is_u16 S -> iv_ok a -> in_stream S (i_next a) ->
  rest S (i_next a) = rest S a * 256 + byte_at S (i_ptr a + 2) (i_full a) /\
  0 <= i_ptr a + 2 < Zlen S.
Proof.
  intros HS [H1 H2 H3] Hin. unfold in_stream in Hin. rewrite i_pos_next in Hin.
  unfold i_pos, bpos in Hin.
  assert (Hp : 0 <= i_ptr a + 2 < Zlen S) by (destruct (_ =? 0); lia).
  split; [|done]. unfold rest. cbn [i_ptr i_full i_low i_next].
  rewrite Z.mul_sub_distr_r.
  replace (next_ptr (i_ptr a) (i_full a) + 2) with (next_ptr (i_ptr a + 2) (i_full a))
    by (unfold next_ptr; destruct (_ =? 0); lia).
  rewrite pval_next by done. lia.
Qed.

Lemma contains_next S a :
  Forall is_u16 S -> iv_ok a -> in_stream S (i_next a) ->
  contains S (i_next a) -> contains S a.
Proof.
  intros HS Ha Hin. destruct (rest_next S a HS Ha Hin) as [Hr Hp].
  unfold contains. rewrite Hr. cbn [i_W i_next].
  pose proof (byte_at_range S _ (i_full a) HS Hp). lia.
Qed.

Lemma get_byte_sync {R} S a :
  Forall is_u16 S -> iv_ok a -> in_stream S (i_next a) -> contains S (i_next a) ->
  i_W a < 16777216 ->
  get_byte (R := R) S (d_of S a) =
    Cont (mkDecLocal (i_ptr (i_next a) + 2) (i_full (i_next a)) (rest S (i_next a)) (i_W a)).
Proof.
  intros HS Ha Hin Hc HW. destruct (rest_next S a HS Ha Hin) as [Hr Hp].
  pose proof (contains_next S a HS Ha Hin Hc) as Hc'. unfold contains in Hc, Hc'.
  pose proof (byte_at_range S _ (i_full a) HS Hp) as Hb.
  unfold get_byte. cbn [d_ptr d_full d_sv d_W d_of]. rewrite rd_total by done. cbn [flow_bind].
  rewrite Z.shiftl_mul_pow2 by lia. change (2 ^ 8) with 256. rewrite u32_id by (unfold is_u32; lia).
  unfold byte_at in *. cbn [i_ptr i_full i_next]. unfold next_ptr, next_full.
  change 255 with (Z.ones 8). rewrite Z.land_ones, Z.shiftr_div_pow2 by lia.
  rewrite Hr. revert Hb. change (2 ^ 8) with 256. change 256 with (2 ^ 8).
  destruct (i_full a =? 0); intros Hb; rewrite lor_high_low by lia; [|done].
  do 2 f_equal. lia.
Qed.

Lemma in_stream_le S a b : i_pos a <= i_pos b -> in_stream S b -> in_stream S a.
Proof. unfold in_stream. lia. Qed.

(** Renormalising the decoder is renormalising the machine. *)
Lemma dec_renorm_sync {R} n fuel S a :
  Forall is_u16 S -> iv_ok a -> in_stream S (i_renorm n a) -> contains S (i_renorm n a) ->
  16777216 <= i_W a * 256 ^ Z.of_nat n -> (n < fuel)%nat ->
  dec_renorm (R := R) fuel S (d_of S a) = Cont (d_of S (i_renorm n a)) /\ contains S a.
Proof.
  intros HS. revert fuel a. induction n as [|n IH]; intros [|fuel] a Ha Hin Hc HW Hf; try lia;
    cbn [dec_renorm i_renorm] in *; cbn [d_W d_of];
    rewrite top_zero by (destruct Ha; unfold is_u32; lia).
  - rewrite Z.mul_1_r in HW. by destruct (Z.ltb_spec (i_W a) 16777216); [lia|].
  - destruct (Z.ltb_spec (i_W a) 16777216) as [Hlt|Hge]; [|done].
    assert (Hin' : in_stream S (i_next a)) by (eapply in_stream_le; [apply i_pos_renorm|done]).
    rewrite Nat2Z.inj_succ, Z.pow_succ_r in HW by lia.
    destruct (IH fuel (i_next a)) as [Hrun Hc']; try done.
    { by apply iv_ok_next. }
    { cbn [i_W i_next]. lia. }
    { lia. }
    split; [|by eapply contains_next]. rewrite get_byte_sync by done. cbn [flow_bind d_ptr d_full d_sv d_W].
    rewrite Z.shiftl_mul_pow2 by lia. change (2 ^ 8) with 256.
    rewrite u32_id by (destruct Ha; unfold is_u32; lia). exact Hrun.
Qed.

(** ** Symbols *)

(** Between symbols. *)
Record iv_wide (a : interval) : Prop := {
  iw_ok :> iv_ok a;
  iw_W : 16777216 <= i_W a
}.

Lemma iv_renorm_wide n a :
  iv_ok a -> 16777216 <= i_W a * 256 ^ Z.of_nat n -> iv_wide (i_renorm n a).
Proof.
  revert a. induction n as [|n IH]; intros a Ha HW; cbn [i_renorm].
  { split; [done|]. change (256 ^ Z.of_nat 0) with 1 in HW. lia. }
  destruct (Z.ltb_spec (i_W a) 16777216) as [Hlt|Hge]; [|by split].
  rewrite Nat2Z.inj_succ, Z.pow_succ_r in HW by lia.
  apply IH; [by apply iv_ok_next | cbn [i_W i_next]; lia].
Qed.

Lemma iv_narrow_ok lo hi a :
  iv_wide a -> good_pair (lo, hi) ->
  iv_ok (i_narrow lo hi a) /\ 255 <= i_W (i_narrow lo hi a).
Proof.
  intros [[H1 H2 H3] H4] [Hlo Hhi]. cbn [fst snd] in *.
  pose proof (scale_gap (i_W a) lo hi H4 Hlo).
  pose proof (scale_range (i_W a) lo ltac:(lia) ltac:(unfold is_u16; lia)).
  pose proof (scale_range (i_W a) hi ltac:(lia) ltac:(unfold is_u16; lia)).
  split; [split|]; cbn [i_ptr i_full i_W i_narrow]; (done || lia).
Qed.

Lemma iv_symbol_wide lo hi a : iv_wide a -> good_pair (lo, hi) -> iv_wide (i_symbol lo hi a).
Proof.
  intros Ha Hp. destruct (iv_narrow_ok lo hi a Ha Hp) as [Hok HW].
  apply iv_renorm_wide; [done|]. change (256 ^ Z.of_nat 3) with 16777216. lia.
Qed.

(** If the stream lies in the interval after a symbol, it lies in the symbol's
    share of the interval before, and the decoder's tail leads to the next
    interval. *)
Lemma symbol_sync {R} lo hi S a :
  Forall is_u16 S -> iv_wide a -> good_pair (lo, hi) ->
  in_stream S (i_symbol lo hi a) -> contains S (i_symbol lo hi a) ->
  i_W a * lo / 65536 < rest S a <= i_W a * hi / 65536 /\ contains S a /\
  dec_update (R := R) S (i_W a * lo / 65536) (i_W a * hi / 65536) (d_of S a) =
    Cont (d_of S (i_symbol lo hi a)).
Proof.
  intros HS Ha Hp Hin Hc. destruct (iv_narrow_ok lo hi a Ha Hp) as [Hok HW].
  pose proof Ha as [[_ _ HWa] _]. destruct Hp as [Hlo Hhi]. cbn [fst snd] in *.
  destruct (dec_renorm_sync (R := R) 3 (dec_fuel S) S (i_narrow lo hi a)) as [Hrun Hc']; try done.
  { change (256 ^ Z.of_nat 3) with 16777216. lia. }
  { unfold dec_fuel, in_stream in *.
    assert (1 <= Zlen S); [|unfold Zlen in *; lia].
    destruct (iv_renorm_wide 3 _ Hok) as [[Hptr _ _] _].
    { change (256 ^ Z.of_nat 3) with 16777216. lia. }
    unfold i_symbol, i_pos, bpos in Hin. destruct (_ =? 0); lia. }
  assert (Hrest : rest S (i_narrow lo hi a) = rest S a - (i_W a * lo / 65536 + 1))
    by (unfold rest; cbn [i_ptr i_full i_low i_narrow]; lia).
  pose proof (scale_range (i_W a) lo ltac:(lia) ltac:(unfold is_u16; lia)).
  pose proof (scale_range (i_W a) hi ltac:(lia) ltac:(unfold is_u16; lia)).
  unfold contains in *. rewrite Hrest in Hc'. cbn [i_W i_narrow] in Hc', HW.
  split; [lia|]. split; [lia|].
  unfold dec_update. cbn [d_ptr d_full d_sv d_W d_of].
  rewrite (u32_id (_ + 1)), !u32_id by (unfold is_u32; lia).
  rewrite <- Hrest. etransitivity; [|exact Hrun]. unfold d_of. cbn [i_ptr i_full i_W i_narrow].
  do 2 f_equal. lia.
Qed.

Lemma contains_symbols ps S a :
  Forall is_u16 S -> iv_wide a -> Forall good_pair ps ->
  in_stream S (i_symbols ps a) -> contains S (i_symbols ps a) ->
  contains S a /\ in_stream S a /\ iv_wide (i_symbols ps a).
Proof.
  intros HS Ha Hps. revert a Ha. induction Hps as [|[lo hi] ps Hp _ IH]; intros a Ha Hin Hc; [done|].
  cbn [i_symbols] in *. pose proof (iv_symbol_wide lo hi a Ha Hp) as Ha'.
  destruct (IH _ Ha' Hin Hc) as (Hc' & Hin' & Hw). split; [|split; [|done]].
  - by eapply (symbol_sync (R := unit)).
  - eapply in_stream_le; [apply i_pos_symbol|done].
Qed.

(** ** Searches *)

Section search.
Context (c : list Z) (W sv d : Z).
Hypothesis Hsym : sym_ok d c.
Hypothesis HW : is_u32 W.
Hypothesis Hsv : W * c !!! Z.to_nat d / 65536 < sv <= W * c !!! Z.to_nat (d + 1) / 65536.

Lemma scale_entry p : 0 <= p < Zlen c -> scale W (c !!! Z.to_nat p) = W * c !!! Z.to_nat p / 65536.
Proof.
  unfold Zlen. intros Hp. apply scale_eq; [done|]. apply (sym_ok_entry d); [done|lia].
Qed.

(** The comparison every search step makes. *)
Lemma search_test p :
  0 <= p < Zlen c -> (scale W (c !!! Z.to_nat p) <? sv) = (p <=? d).
Proof using All.
  intros Hp. rewrite scale_entry by done. unfold is_u32 in HW.
  destruct Hsym as [[_ Hmono] H0 H1 _]. unfold Zlen in *.
  destruct (Z.leb_spec p d) as [Hle|Hgt].
  - apply Z.ltb_lt.
    pose proof (scale_mono W _ _ ltac:(lia) (Hmono (Z.to_nat p) (Z.to_nat d) ltac:(lia))). lia.
  - apply Z.ltb_ge.
    pose proof (scale_mono W _ _ ltac:(lia) (Hmono (Z.to_nat (d + 1)) (Z.to_nat p) ltac:(lia))). lia.
Qed.

Lemma search_up_spec {R} (err : R) fuel p :
  0 <= p <= d -> d - p < Z.of_nat fuel ->
  search_up fuel err c W sv p (scale W (c !!! Z.to_nat p)) =
    Cont (d, scale W (c !!! Z.to_nat d), scale W (c !!! Z.to_nat (d + 1))).
Proof using All.
  destruct Hsym as [[Hu Hmono] H0 H1 Hlt].
  revert p. induction fuel as [|fuel IH]; intros p Hp Hf; [lia|].
  cbn [search_up]. rewrite rd_total by lia. cbn [flow_bind].
  assert (Hne : (c !!! Z.to_nat p =? 65535) = false).
  { apply Z.eqb_neq. unfold Zlen in *.
    pose proof (Hmono (Z.to_nat p) (Z.to_nat d) ltac:(lia)).
    pose proof (Forall_total _ _ (Z.to_nat (d + 1)) Hu ltac:(lia)) as Hb. unfold is_u16 in Hb. lia. }
  rewrite Hne, rd_total by lia. cbn [flow_bind].
  rewrite Z.leb_antisym, search_test by lia.
  destruct (Z.leb_spec (p + 1) d); cbn [negb].
  - apply IH; lia.
  - assert (p = d) as -> by lia. do 3 f_equal. lia.
Qed.

Lemma search_down_spec {R} (err : R) fuel p :
  d < p < Zlen c -> p - d <= Z.of_nat fuel ->
  search_down fuel err c W sv p (scale W (c !!! Z.to_nat p)) =
    Cont (d, scale W (c !!! Z.to_nat d), scale W (c !!! Z.to_nat (d + 1))).
Proof using All.
  destruct Hsym as [_ H0 H1 _].
  revert p. induction fuel as [|fuel IH]; intros p Hp Hf; [lia|].
  cbn [search_down]. destruct (Z.ltb_spec (p - 1) 0); [lia|].
  rewrite rd_total by lia. cbn [flow_bind]. rewrite search_test by lia.
  destruct (Z.leb_spec (p - 1) d).
  - assert (p = d + 1) as -> by lia. do 3 f_equal; repeat f_equal; lia.
  - apply IH; lia.
Qed.

Lemma search_one_step_spec {R} (err : R) init :
  0 <= init < Zlen c ->
  search_one_step err c init W sv =
    Cont (d, scale W (c !!! Z.to_nat d), scale W (c !!! Z.to_nat (d + 1))).
Proof using All.
  intros Hi. unfold search_one_step. rewrite rd_total by lia. cbn [flow_bind].
  rewrite search_test by lia. destruct Hsym as [_ H0 H1 _]. unfold Zlen in *.
  destruct (Z.leb_spec init d); [apply search_up_spec|apply search_down_spec]; unfold Zlen; lia.
Qed.

End search.

(** *** Bisection

    All the bisection learns about the table is the comparison, so [d] may also be
    [-1] (the value is below the table) or the last index (above it). *)
Section bisect.
Context (c : list Z) (W sv d : Z).
Hypothesis Htest : forall p, 0 <= p < Zlen c -> (scale W (c !!! Z.to_nat p) <? sv) = (p <=? d).

(** The scaled entry [q]; past either end, the bound passed in. *)
Definition bound_at (q other : Z) : Z :=
  if (0 <=? q) && (q <? Zlen c) then scale W (c !!! Z.to_nat q) else other.

Lemma bound_at_in q other :
  0 <= q < Zlen c -> bound_at q other = scale W (c !!! Z.to_nat q).
Proof using Type.
  intros Hq. unfold bound_at. destruct (Z.leb_spec 0 q), (Z.ltb_spec q (Zlen c)); lia || done.
Qed.

(** The state of the bisection with step [2 ^ k]: the symbol is within the step
    of entry [p], and the bounds are those at the step. *)
Lemma bisect_spec {R} k fuel p L U :
  -1 <= p - 2 ^ Z.of_nat k <= d -> d < p + 2 ^ Z.of_nat k <= Zlen c -> (k < fuel)%nat ->
  exists p',
    bisect (R := R) fuel c W sv p (2 ^ Z.of_nat k)
      (bound_at (p - 2 ^ Z.of_nat k) L) (bound_at (p + 2 ^ Z.of_nat k) U) =
      Cont (p', scale W (c !!! Z.to_nat p'), bound_at (p' - 1) L, bound_at (p' + 1) U) /\
    -1 <= p' - 1 <= d /\ d < p' + 1 <= Zlen c.
Proof using All.
  revert fuel p. induction k as [|k IH]; intros [|fuel] p Hlo Hhi Hf; try lia; cbn [bisect].
  - change (2 ^ Z.of_nat 0) with 1 in *. rewrite rd_total by lia. cbn [flow_bind].
    exists p. by split_and!; try lia.
  - rewrite Nat2Z.inj_succ, Z.pow_succ_r in * by lia.
    set (h := 2 ^ Z.of_nat k) in *. assert (0 < h) by (unfold h; lia).
    rewrite rd_total by lia. cbn [flow_bind]. rewrite Z.shiftr_div_pow2 by lia. change (2 ^ 1) with 2.
    rewrite (Z.mul_comm 2), Z.div_mul by lia. destruct (Z.eqb_spec h 0); [lia|].
    rewrite Htest by lia. destruct (Z.leb_spec p d).
    + rewrite <- (bound_at_in p L) by lia.
      destruct (IH fuel (p + h)) as (p' & Hrun & H1 & H2); try lia.
      exists p'. split; [|by split]. rewrite <- Hrun. do 2 f_equal; lia.
    + rewrite <- (bound_at_in p U) by lia.
      destruct (IH fuel (p - h)) as (p' & Hrun & H1 & H2); try lia.
      exists p'. split; [|by split]. rewrite <- Hrun. do 2 f_equal; lia.
Qed.

Lemma search_bisect_any {R} k W_lower :
  (1 <= k <= 15)%nat -> Zlen c = 2 ^ Z.of_nat k - 1 -> -1 <= d < Zlen c ->
  search_bisect (R := R) c (2 ^ Z.of_nat k) W sv W_lower =
    Cont (d, bound_at d W_lower, bound_at (d + 1) W).
Proof using All.
  intros Hk Hlen Hd. destruct k as [|k]; [lia|].
  rewrite Nat2Z.inj_succ, Z.pow_succ_r in * by lia. unfold search_bisect.
  rewrite Z.shiftr_div_pow2, (Z.mul_comm 2), Z.div_mul by lia.
  assert (2 ^ Z.of_nat k <= 2 ^ 14) by (apply Z.pow_le_mono_r; lia).
  assert (0 < 2 ^ Z.of_nat k) by lia. set (h := 2 ^ Z.of_nat k) in *.
  rewrite s16_id by (unfold is_s16; lia).
  assert (HL : W_lower = bound_at (h - 1 - h) W_lower)
    by (unfold bound_at; destruct (Z.leb_spec 0 (h - 1 - h)); [lia|done]).
  assert (HU : W = bound_at (h - 1 + h) W)
    by (unfold bound_at; destruct (Z.ltb_spec (h - 1 + h) (Zlen c)); [lia|by rewrite andb_false_r]).
  destruct (bisect_spec (R := R) k 17 (h - 1) W_lower W) as (p & Hrun & Hp1 & Hp2);
    try (unfold h in *; lia).
  fold h in Hrun. rewrite <- HL, <- HU in Hrun. rewrite Hrun. cbn [flow_bind]. rewrite Htest by lia.
  destruct (Z.leb_spec p d).
  - assert (p = d) as -> by lia. by rewrite (bound_at_in d) by lia.
  - assert (p = d + 1) as -> by lia. rewrite (bound_at_in (d + 1)) by lia.
    by replace (d + 1 - 1) with d by lia.
Qed.
End bisect.

Lemma search_bisect_spec {R} c W sv d k W_lower :
  sym_ok d c -> is_u32 W ->
  W * c !!! Z.to_nat d / 65536 < sv <= W * c !!! Z.to_nat (d + 1) / 65536 ->
  (1 <= k <= 15)%nat -> Zlen c = 2 ^ Z.of_nat k - 1 ->
  search_bisect (R := R) c (2 ^ Z.of_nat k) W sv W_lower =
    Cont (d, scale W (c !!! Z.to_nat d), scale W (c !!! Z.to_nat (d + 1))).
Proof.
  intros Hsym HW Hsv Hk Hlen. pose proof Hsym as [_ H0 H1 _].
  rewrite (search_bisect_any c W sv d) by (done || lia || by apply search_test).
  by rewrite !bound_at_in by lia.
Qed.
