(* ===== verification/IsacSearch.v ===== *)
(** * The table searches on any stream value

    IsacDecode.v follows the searches where the stream was encoded with the same
    table.  Here the value is arbitrary, as in a damaged or hostile packet: the
    searches stay inside the table, and each value has one documented outcome. *)
From S2P Require Import Prelude IsacArith IsacInterval IsacDecode.
Local Open Scope Z_scope.

(** A table as the program ships it: it ends with 65535. *)
Definition full_cdf (c : list Z) : Prop :=
  cdf_ok c /\ 2 <= Zlen c <= 32768 /\ c !!! Z.to_nat (Zlen c - 1) = 65535.

(** The scaled value of entry [p]. *)
Definition entry (c : list Z) (W p : Z) : Z := scale W (c !!! Z.to_nat p).

Section search.
Context (c : list Z) (W sv : Z).
Hypothesis Hc : full_cdf c.
Hypothesis HW : is_u32 W.

Lemma entry_eq p : 0 <= p < Zlen c -> entry c W p = W * c !!! Z.to_nat p / 65536.
Proof using Hc HW.
  destruct Hc as [[Hu _] _]. unfold Zlen, entry. intros Hp. apply scale_eq; [done|].
  apply Forall_total; [done|lia].
Qed.

Lemma entry_mono p q : 0 <= p <= q -> q < Zlen c -> entry c W p <= entry c W q.
Proof using Hc HW.
  intros Hp Hq. rewrite !entry_eq by lia. destruct Hc as [[_ Hm] _]. unfold Zlen, is_u32 in *.
  apply scale_mono; [lia|]. apply Hm. lia.
Qed.

(** A value between the ends belongs to a symbol. *)
Lemma find_symbol (n : nat) :
  Z.of_nat n < Zlen c -> entry c W 0 < sv <= entry c W (Z.of_nat n) ->
  exists d, 0 <= d < Z.of_nat n /\ entry c W d < sv <= entry c W (d + 1).
Proof using Hc HW.
  induction n as [|n IH]; intros Hn Hsv; [change (Z.of_nat 0) with 0 in Hsv; lia|].
  destruct (Z.lt_ge_cases (entry c W (Z.of_nat n)) sv) as [Hlt|Hge].
  - exists (Z.of_nat n). replace (Z.of_nat n + 1) with (Z.of_nat (S n)) by lia. lia.
  - destruct IH as (d & Hd & Hs); [lia|lia|]. exists d. split; [lia|done].
Qed.

(** ... and the table has an interval for it. *)
Lemma found_sym d :
  0 <= d < Zlen c - 1 -> entry c W d < sv <= entry c W (d + 1) ->
  sym_ok d c /\ W * c !!! Z.to_nat d / 65536 < sv <= W * c !!! Z.to_nat (d + 1) / 65536.
Proof using Hc HW.
  intros Hd Hs. rewrite !entry_eq in Hs by lia. split; [|done].
  destruct Hc as [Hok [Hlen _]]. split; [done|lia|lia|].
  destruct (Z.lt_ge_cases (c !!! Z.to_nat d) (c !!! Z.to_nat (d + 1))) as [|Hge]; [done|].
  pose proof (scale_mono W _ _ ltac:(unfold is_u32 in HW; lia) Hge). lia.
Qed.

(** Past the end: up to the first 65535. *)
Lemma search_up_err {R} (err : R) fuel p x :
  entry c W (Zlen c - 1) < sv -> 0 <= p < Zlen c -> Zlen c - p <= Z.of_nat fuel ->
  search_up fuel err c W sv p x = Ret err.
Proof using Hc HW.
  intros Hsv. destruct Hc as (_ & Hlen & Hlast).
  revert p x. induction fuel as [|fuel IH]; intros p x Hp Hf; [lia|].
  cbn [search_up]. rewrite rd_total by lia. cbn [flow_bind].
  destruct (Z.eqb_spec (c !!! Z.to_nat p) 65535) as [E|E]; [done|].
  assert (p <> Zlen c - 1) by (intros ->; done).
  rewrite rd_total by lia. cbn [flow_bind].
  pose proof (entry_mono (p + 1) (Zlen c - 1) ltac:(lia) ltac:(lia)) as Hm. unfold entry in *.
  destruct (Z.leb_spec sv (scale W (c !!! Z.to_nat (p + 1)))); [lia|].
  apply IH; lia.
Qed.

(** Before the start: down to the front. *)
Lemma search_down_err {R} (err : R) fuel p x :
  sv <= entry c W 0 -> 0 <= p < Zlen c -> p < Z.of_nat fuel ->
  search_down fuel err c W sv p x = Ret err.
Proof using Hc HW.
  intros Hsv. revert p x. induction fuel as [|fuel IH]; intros p x Hp Hf; [lia|].
  cbn [search_down]. destruct (Z.ltb_spec (p - 1) 0); [done|].
  rewrite rd_total by lia. cbn [flow_bind].
  pose proof (entry_mono 0 (p - 1) ltac:(lia) ltac:(lia)) as Hm. unfold entry in *.
  destruct (Z.ltb_spec (scale W (c !!! Z.to_nat (p - 1))) sv); [lia|]. apply IH; lia.
Qed.

Lemma test_below p : sv <= entry c W 0 -> 0 <= p < Zlen c -> (entry c W p <? sv) = (p <=? -1).
Proof using Hc HW.
  intros Hsv Hp. pose proof (entry_mono 0 p ltac:(lia) ltac:(lia)).
  destruct (Z.ltb_spec (entry c W p) sv), (Z.leb_spec p (-1)); lia.
Qed.

Lemma test_above p :
  entry c W (Zlen c - 1) < sv -> 0 <= p < Zlen c -> (entry c W p <? sv) = (p <=? Zlen c - 1).
Proof using Hc HW.
  intros Hsv Hp. pose proof (entry_mono p (Zlen c - 1) ltac:(lia) ltac:(lia)).
  destruct (Z.ltb_spec (entry c W p) sv), (Z.leb_spec p (Zlen c - 1)); lia.
Qed.

Lemma search_one_step_any {R} (err : R) init :
  0 <= init < Zlen c ->
  (search_one_step err c init W sv = Ret err /\
   (sv <= entry c W 0 \/ entry c W (Zlen c - 1) < sv)) \/
  exists d, 0 <= d < Zlen c - 1 /\ entry c W d < sv <= entry c W (d + 1) /\
    search_one_step err c init W sv = Cont (d, entry c W d, entry c W (d + 1)).
Proof using Hc HW.
  intros Hi. unfold search_one_step. rewrite rd_total by lia. cbn [flow_bind].
  destruct (Z.le_gt_cases sv (entry c W 0)) as [Hlo|Hlo];
    [|destruct (Z.lt_ge_cases (entry c W (Zlen c - 1)) sv) as [Hhi|Hhi]].
  - left. split; [|by left].
    pose proof (entry_mono 0 init ltac:(lia) ltac:(lia)) as Hm. unfold entry in *.
    destruct (Z.ltb_spec (scale W (c !!! Z.to_nat init)) sv); [lia|].
    apply search_down_err; unfold Zlen in *; (done || lia).
  - left. split; [|by right].
    pose proof (entry_mono init (Zlen c - 1) ltac:(lia) ltac:(lia)) as Hm. unfold entry in *.
    destruct (Z.ltb_spec (scale W (c !!! Z.to_nat init)) sv); [|lia].
    apply search_up_err; unfold Zlen in *; (done || lia).
  - right. destruct Hc as (_ & Hlen & _).
    destruct (find_symbol (Z.to_nat (Zlen c - 1))) as (d & Hd & Hs);
      rewrite ?Z2Nat.id in * by lia; [lia|lia|].
    exists d. split; [done|]. split; [done|].
    destruct (found_sym d) as [Hsym Hs']; [lia|done|].
    pose proof (search_one_step_spec c W sv d Hsym HW Hs' err init Hi) as Hrun.
    unfold search_one_step in Hrun. rewrite rd_total in Hrun by lia. exact Hrun.
Qed.

Lemma search_bisect_cases {R} k W_lower :
  (2 <= k <= 15)%nat -> Zlen c = 2 ^ Z.of_nat k - 1 ->
  (sv <= entry c W 0 /\
   search_bisect (R := R) c (2 ^ Z.of_nat k) W sv W_lower = Cont (-1, W_lower, entry c W 0)) \/
  (entry c W (Zlen c - 1) < sv /\
   search_bisect (R := R) c (2 ^ Z.of_nat k) W sv W_lower =
     Cont (Zlen c - 1, entry c W (Zlen c - 1), W)) \/
  exists d, 0 <= d < Zlen c - 1 /\ entry c W d < sv <= entry c W (d + 1) /\
    search_bisect (R := R) c (2 ^ Z.of_nat k) W sv W_lower =
      Cont (d, entry c W d, entry c W (d + 1)).
Proof using Hc HW.
  intros Hk Hlen. pose proof Hc as (_ & Hl & _).
  destruct (Z.le_gt_cases sv (entry c W 0)) as [Hlo|Hlo];
    [|destruct (Z.lt_ge_cases (entry c W (Zlen c - 1)) sv) as [Hhi|Hhi]].
  - left. split; [done|]. rewrite (search_bisect_any c W sv (-1)); try lia.
    + by rewrite (bound_at_in c W (-1 + 1)) by lia.
    + intros p Hp. by apply test_below.
  - right; left. split; [done|]. rewrite (search_bisect_any c W sv (Zlen c - 1)); try lia.
    + rewrite bound_at_in by lia. unfold bound_at.
      destruct (Z.ltb_spec (Zlen c - 1 + 1) (Zlen c)); [lia|]. by rewrite andb_false_r.
    + intros p Hp. by apply test_above.
  - right; right.
    destruct (find_symbol (Z.to_nat (Zlen c - 1))) as (d & Hd & Hs);
      rewrite ?Z2Nat.id in * by lia; [lia|lia|].
    exists d. split; [done|]. split; [done|].
    destruct (found_sym d) as [Hsym Hs']; [lia|done|]. apply search_bisect_spec; (done || lia).
Qed.
End search.

(** C36: The one-step search is safe and total on any stream value: it never reads
    outside a shipped table, it returns the error exactly for a value outside the
    table's range, and otherwise the symbol whose interval holds the value. *)
Theorem one_step_outcomes {R} (err : R) c init W sv :
  full_cdf c -> is_u32 W -> 0 <= init < Zlen c ->
  (search_one_step err c init W sv = Ret err /\
   (sv <= entry c W 0 \/ entry c W (Zlen c - 1) < sv)) \/
  exists d, 0 <= d < Zlen c - 1 /\ entry c W d < sv <= entry c W (d + 1) /\
    search_one_step err c init W sv = Cont (d, entry c W d, entry c W (d + 1)).
Proof. intros Hc HW Hi. by apply search_one_step_any. Qed.

(** The bisection is safe and total on any stream value too, for a table of
    [2 ^ k - 1] entries: no read outside the table, and below or above the table's
    range it returns the symbols -1 or [2 ^ k - 2] its callers test for. *)
Theorem bisect_outcomes {R} c k W sv W_lower :
  full_cdf c -> is_u32 W -> (2 <= k <= 15)%nat -> Zlen c = 2 ^ Z.of_nat k - 1 ->
  (sv <= entry c W 0 /\
   search_bisect (R := R) c (2 ^ Z.of_nat k) W sv W_lower = Cont (-1, W_lower, entry c W 0)) \/
  (entry c W (Zlen c - 1) < sv /\
   search_bisect (R := R) c (2 ^ Z.of_nat k) W sv W_lower =
     Cont (2 ^ Z.of_nat k - 2, entry c W (Zlen c - 1), W)) \/
  exists d, 0 <= d < Zlen c - 1 /\ entry c W d < sv <= entry c W (d + 1) /\
    search_bisect (R := R) c (2 ^ Z.of_nat k) W sv W_lower =
      Cont (d, entry c W d, entry c W (d + 1)).
Proof.
  intros Hc HW Hk Hl. replace (2 ^ Z.of_nat k - 2) with (Zlen c - 1) by lia.
  by apply search_bisect_cases.
Qed.

(** Within a table's range the two decoders' searches are the same function,
    whatever entry the one starts from and whatever bound the other inherits. *)
Theorem searches_agree {R} (err : R) c k init W sv W_lower :
  full_cdf c -> is_u32 W -> (2 <= k <= 15)%nat -> Zlen c = 2 ^ Z.of_nat k - 1 ->
  0 <= init < Zlen c -> entry c W 0 < sv <= entry c W (Zlen c - 1) ->
  search_one_step err c init W sv = search_bisect c (2 ^ Z.of_nat k) W sv W_lower.
Proof.
  intros Hc HW Hk Hl Hi Hsv. pose proof Hc as (_ & Hlen & _).
  destruct (find_symbol c W sv Hc HW (Z.to_nat (Zlen c - 1))) as (d & Hd & Hs);
    rewrite ?Z2Nat.id in * by lia; [lia|done|].
  destruct (found_sym c W sv Hc HW d) as [Hsym Hs']; [lia|done|].
  rewrite (search_one_step_spec c W sv d), (search_bisect_spec c W sv d); (done || lia).
Qed.

Definition ex_table : list Z := [0; 100; 65535].

Lemma ex_table_ok : full_cdf ex_table.
Proof.
  split; [|done]. split; [by repeat constructor|].
  intros [|[|[|i]]] [|[|[|j]]]; cbn; lia.
Qed.

Lemma one_step_outcomes_witness :
  full_cdf ex_table /\
  ((search_one_step 7 ex_table 1 4294967295 4294967295 = Ret 7 /\
    (4294967295 <= entry ex_table 4294967295 0 \/
     entry ex_table 4294967295 (Zlen ex_table - 1) < 4294967295)) \/
   exists d, 0 <= d < Zlen ex_table - 1 /\
     entry ex_table 4294967295 d < 4294967295 <= entry ex_table 4294967295 (d + 1) /\
     search_one_step 7 ex_table 1 4294967295 4294967295 =
       Cont (d, entry ex_table 4294967295 d, entry ex_table 4294967295 (d + 1))).
Proof.
  split; [apply ex_table_ok|]. by apply (one_step_outcomes 7 ex_table 1); [apply ex_table_ok|..].
Defined.

Lemma bisect_outcomes_witness :
  full_cdf ex_table /\
  ((0 <= entry ex_table 4294967295 0 /\
    search_bisect (R := Z) ex_table 4 4294967295 0 5 = Cont (-1, 5, entry ex_table 4294967295 0)) \/
   (entry ex_table 4294967295 (Zlen ex_table - 1) < 0 /\
    search_bisect (R := Z) ex_table 4 4294967295 0 5 =
      Cont (2, entry ex_table 4294967295 (Zlen ex_table - 1), 4294967295)) \/
   exists d, 0 <= d < Zlen ex_table - 1 /\
     entry ex_table 4294967295 d < 0 <= entry ex_table 4294967295 (d + 1) /\
     search_bisect (R := Z) ex_table 4 4294967295 0 5 =
       Cont (d, entry ex_table 4294967295 d, entry ex_table 4294967295 (d + 1))).
Proof.
  split; [apply ex_table_ok|].
  apply (bisect_outcomes ex_table 2 4294967295 0 5); [apply ex_table_ok|done|lia|done].
Defined.

Lemma searches_agree_witness :
  full_cdf ex_table /\
  search_one_step 7 ex_table 2 4294967295 5000000 =
    search_bisect ex_table 4 4294967295 5000000 9.
Proof.
  split; [apply ex_table_ok|].
  apply (searches_agree 7 ex_table 2 2); [apply ex_table_ok|done|lia|done|done|done].
Defined.
