(* ===== verification/IsacRoundTrip.v ===== *)
(** * The iSAC entropy coder: what is encoded is what is decoded

    The whole-call theorems for the arithmetic coder: the decoding loops follow
    the interval coder, the encoder calls produce its intervals, and the flushed
    stream lies in the last one.  The drivers [encode_all] and [decode_all] string
    the calls together as the bit stream clients do: any number of EncHistMulti
    calls and a final EncTerminate; the same tables read by either decoder. *)
From S2P Require Import Prelude IsacArith IsacInterval IsacDecode.
Local Open Scope Z_scope.

(** [encode.c], start of a frame: the encoder's stream is reset, not cleared. *)
Definition enc_reset (stream : list Z) : Bitstr_enc := mkBitstr_enc stream 4294967295 0 0 1.

(** [decode.c], start of a frame. *)
Definition dec_reset (stream : list Z) (stream_size : Z) : Bitstr_dec :=
  mkBitstr_dec stream 4294967295 0 0 1 stream_size.

(** How a part of the bit stream is searched for on decoding. *)
Inductive search : Type :=
| OneStep (initIndex : list Z)
| Bisect (cdfSize : list Z).

Definition dec_call (s : Bitstr_dec) (cdf : list (list Z)) (how : search)
    : flow (Z * Bitstr_dec * list Z) (Z * Bitstr_dec * list Z) :=
  match how with
  | OneStep initIndex => WebRtcIsacfix_DecHistOneStepMulti s cdf initIndex (Zlen cdf)
  | Bisect cdfSize => WebRtcIsacfix_DecHistBisectMulti s cdf cdfSize (Zlen cdf)
  end.

(** A frame: the parts one after the other until a call fails, then the flush. *)
Fixpoint encode_all (parts : list (list Z * list (list Z))) (e : Bitstr_enc)
    : option (Z * Bitstr_enc) :=
  match parts with
  | [] => run_flow (WebRtcIsacfix_EncTerminate e)
  | (data, cdf) :: parts =>
      match run_flow (WebRtcIsacfix_EncHistMulti e data cdf (Zlen data)) with
      | Some (status, e) => if status <? 0 then Some (status, e) else encode_all parts e
      | None => None
      end
  end.

(** The decoded parts and the value the last call returned. *)
Fixpoint decode_all (parts : list (list (list Z) * search)) (len : Z) (s : Bitstr_dec)
    : option (Z * list (list Z)) :=
  match parts with
  | [] => Some (len, [])
  | (cdf, how) :: parts =>
      match run_flow (dec_call s cdf how) with
      | Some (err, s, data) =>
          if err <? 0 then Some (err, [data])
          else match decode_all parts err s with
               | Some (len, datas) => Some (len, data :: datas)
               | None => None
               end
      | None => None
      end
  end.

(** ** Decoding loops *)

Definition init_ok (c : list Z) (init : Z) : Prop := 0 <= init < Zlen c.

(** A table the bisection can search: [2 ^ k - 1] entries, with size [2 ^ k]. *)
Definition size_ok (c : list Z) (size : Z) : Prop :=
  exists k : nat, (1 <= k <= 15)%nat /\ size = 2 ^ Z.of_nat k /\ Zlen c = 2 ^ Z.of_nat k - 1.

Definition search_ok (cdf : list (list Z)) (how : search) : Prop :=
  match how with
  | OneStep initIndex => Forall2 init_ok cdf initIndex
  | Bisect cdfSize => Forall2 size_ok cdf cdfSize
  end.

Lemma hist_pairs_good data cdf :
  Forall2 sym_ok data cdf -> Forall good_pair (hist_pairs data cdf).
Proof. induction 1; cbn; constructor; [by apply sym_ok_pair|done]. Qed.

(** What decoding one symbol needs to know. *)
Record symbol_facts (S : list Z) (a : interval) (d : Z) (c : list Z) (a' : interval) : Prop := {
  sf_W : is_u32 (i_W a);
  sf_rest : i_W a * c !!! Z.to_nat d / 65536 < rest S a <=
            i_W a * c !!! Z.to_nat (d + 1) / 65536;
  sf_update : forall R, dec_update (R := R) S (scale (i_W a) (c !!! Z.to_nat d))
                (scale (i_W a) (c !!! Z.to_nat (d + 1))) (d_of S a) = Cont (d_of S a');
  sf_wide : iv_wide a'
}.

Lemma symbol_step S a d c ps :
  let a' := i_symbol (c !!! Z.to_nat d) (c !!! Z.to_nat (d + 1)) a in
  Forall is_u16 S -> iv_wide a -> sym_ok d c -> Forall good_pair ps ->
  in_stream S (i_symbols ps a') -> contains S (i_symbols ps a') ->
  symbol_facts S a d c a'.
Proof.
  intros a' HS Ha Hd Hps Hin Hc. pose proof (sym_ok_pair _ _ Hd) as Hp.
  pose proof (iv_symbol_wide _ _ _ Ha Hp) as Hw.
  destruct (contains_symbols ps S a' HS Hw Hps Hin Hc) as (Hc' & Hin' & _).
  assert (HW : is_u32 (i_W a)) by (destruct Ha as [[_ _ ?] _]; unfold is_u32; lia).
  pose proof Hd as [_ H0 H1 _].
  split; try done.
  - by eapply (symbol_sync (R := unit)).
  - intros R. rewrite !(scale_entry c (i_W a) d) by (done || lia).
    by eapply (symbol_sync (R := R)).
Qed.

Lemma dec_one_step_loop_spec S data cdf init acc a :
  Forall is_u16 S -> iv_wide a -> Forall2 sym_ok data cdf -> Forall2 init_ok cdf init ->
  let a' := i_symbols (hist_pairs data cdf) a in
  in_stream S a' -> contains S a' ->
  dec_one_step_loop (length cdf) S cdf init acc (d_of S a) = Cont (d_of S a', acc ++ data).
Proof.
  intros HS Ha H. revert init acc a Ha.
  induction H as [|d c data cdf Hd H IH]; intros [|i init] acc a Ha Hi; inversion_clear Hi;
    cbn [hist_pairs i_symbols]; intros Hin Hc; cbn [length dec_one_step_loop].
  { by rewrite app_nil_r. }
  destruct (symbol_step S a d c _ HS Ha Hd (hist_pairs_good _ _ H) Hin Hc) as [HW Hr Hu Hw].
  cbn [d_W d_sv d_of].
  rewrite (search_one_step_spec c (i_W a) (rest S a) d) by done. cbn [flow_bind].
  rewrite Hu. cbn [flow_bind].
  rewrite s16_id by (destruct Hd; unfold is_s16; lia).
  rewrite IH by done. by rewrite <- app_assoc.
Qed.

Lemma dec_bisect_loop_spec S data cdf size acc W_lower a :
  Forall is_u16 S -> iv_wide a -> Forall2 sym_ok data cdf -> Forall2 size_ok cdf size ->
  let a' := i_symbols (hist_pairs data cdf) a in
  in_stream S a' -> contains S a' ->
  dec_bisect_loop (length cdf) S cdf size acc W_lower (d_of S a) = Cont (d_of S a', acc ++ data).
Proof.
  intros HS Ha H. revert size acc W_lower a Ha.
  induction H as [|d c data cdf Hd H IH]; intros [|z size] acc W_lower a Ha Hi;
    inversion_clear Hi as [|? ? ? ? Hz Hi'];
    cbn [hist_pairs i_symbols]; intros Hin Hc; cbn [length dec_bisect_loop].
  { by rewrite app_nil_r. }
  destruct (symbol_step S a d c _ HS Ha Hd (hist_pairs_good _ _ H) Hin Hc) as [HW Hr Hu Hw].
  destruct Hz as (k & Hk & -> & Hlen). cbn [d_W d_sv d_of].
  rewrite (search_bisect_spec c (i_W a) (rest S a) d) by done. cbn [flow_bind].
  rewrite Hu. cbn [flow_bind d_W d_of].
  destruct (Z.eqb_spec (i_W (i_symbol (c !!! Z.to_nat d) (c !!! Z.to_nat (d + 1)) a)) 0);
    [destruct Hw; lia|].
  rewrite s16_id by (destruct Hd; unfold is_s16; lia).
  rewrite IH by done. by rewrite <- app_assoc.
Qed.

(** ** Decoding calls *)

(** Bytes a stream flushed in interval [a] has: one after the position if the
    interval is wide, two otherwise. *)
Definition flush_len (a : interval) : Z := i_pos a + (if 33554431 <? i_W a then 1 else 2).

(** A decoder struct in step with [a]. *)
Record dec_ready (S : list Z) (a : interval) (s : Bitstr_dec) : Prop := {
  dr_stream : dec_stream s = S;
  dr_W : dec_W_upper s = i_W a;
  dr_load : forall R, dec_load (R := R) s = Cont (d_of S a)
}.

Lemma dec_ready_reset S size :
  Forall is_u16 S -> 2 <= Zlen S -> dec_ready S i_start (dec_reset S size).
Proof.
  intros HS Hlen. split; [done|done|]. intros R. unfold dec_load. cbn [dec_reset dec_stream_index
    dec_stream dec_full dec_W_upper Z.eqb].
  rewrite !rd_total by lia. cbn [flow_bind]. unfold Zlen in Hlen.
  pose proof (Forall_total _ _ 0 HS ltac:(lia)) as H0.
  pose proof (Forall_total _ _ 1 HS ltac:(lia)) as H1. unfold is_u16 in *.
  change (Z.to_nat 0) with 0%nat. change (Z.to_nat 1) with 1%nat.
  rewrite Z.shiftl_mul_pow2 by lia. rewrite u32_id by (unfold is_u32; lia).
  rewrite lor_high_low by lia.
  unfold d_of, rest, pval. cbn [i_start i_ptr i_full i_low i_W Z.eqb].
  change (Z.to_nat (0 + 2)) with 2%nat. cbn [wval]. do 2 f_equal. lia.
Qed.

(** A decoding loop that follows the machine, stored back. *)
Lemma dec_store_ready S a s data :
  iv_wide a -> i_ptr a < STREAM_MAXW16_60MS -> dec_stream s = S ->
  exists s', dec_store s (Cont (d_of S a, data)) = Cont (flush_len a, s', data) /\
    dec_ready S a s'.
Proof.
  intros [[Hp Hf HW] HW'] Hptr HS. unfold STREAM_MAXW16_60MS in Hptr. unfold dec_store.
  cbn [d_ptr d_full d_sv d_W d_of].
  rewrite (u16_id (i_ptr a + 2)) by (unfold is_u16; lia).
  match goal with |- context [Cont (?c, _, _) = _] => assert (Hcode : c = flush_len a) end.
  { unfold flush_len, i_pos, bpos.
    destruct (_ <? _), (_ =? 0); rewrite s16_id by (unfold is_s16; lia); lia. }
  rewrite Hcode. eexists; split; [done|].
  split; [done|done|]. intros R. unfold dec_load. cbn.
    destruct (Z.eqb_spec (i_ptr a + 2) 0); [lia|done].
Qed.

Lemma dec_call_spec S a s data cdf how :
  Forall is_u16 S -> iv_wide a -> dec_ready S a s ->
  Forall2 sym_ok data cdf -> search_ok cdf how ->
  let a' := i_symbols (hist_pairs data cdf) a in
  in_stream S a' -> contains S a' -> i_ptr a' < STREAM_MAXW16_60MS ->
  exists s', dec_call s cdf how = Cont (flush_len a', s', data) /\ dec_ready S a' s'.
Proof.
  intros HS Ha [Hs HW Hload] Hd Hhow a' Hin Hc Hptr.
  destruct (contains_symbols _ S a HS Ha (hist_pairs_good _ _ Hd) Hin Hc) as (_ & _ & Hw).
  assert (Hne : (dec_W_upper s =? 0) = false)
    by (rewrite HW; apply Z.eqb_neq; destruct Ha; lia).
  destruct how as [init|size]; cbn [dec_call search_ok] in *.
  - unfold WebRtcIsacfix_DecHistOneStepMulti. rewrite Hne, Hload, Hs. cbn [flow_bind].
    unfold Zlen. rewrite Nat2Z.id, (dec_one_step_loop_spec S data) by done.
    by apply dec_store_ready.
  - unfold WebRtcIsacfix_DecHistBisectMulti. rewrite Hne, Hload, Hs. cbn [flow_bind].
    unfold Zlen. rewrite Nat2Z.id, (dec_bisect_loop_spec S data) by done.
    by apply dec_store_ready.
Qed.

(** ** Encoding calls *)

(** An encoder struct that stands for interval [a]. *)
Record enc_at (a : interval) (e : Bitstr_enc) : Prop := {
  ea_ok : enc_ok (enc_load e);
  ea_abs : l_abs (enc_load e) = a
}.

Lemma enc_at_reset st :
  Zlen st = STREAM_MAXW16_60MS -> Forall is_u16 st -> enc_at i_start (enc_reset st).
Proof.
  intros Hl Hst. split; [|done]. split; cbn; try done.
  split; try done. by right.
Qed.

Lemma enc_at_wide a e : enc_at a e -> iv_wide a /\ 0 <= i_ptr a < STREAM_MAXW16_60MS.
Proof.
  intros [[Hs _ HW _] <-]. destruct Hs as [_ _ Hp Hf _].
  split; [split; [split|]|]; cbn in *; (done || lia).
Qed.

Lemma enc_multi_spec e a data cdf :
  enc_at a e -> Forall2 sym_ok data cdf ->
  (exists e', WebRtcIsacfix_EncHistMulti e data cdf (Zlen data) = Cont (0, e') /\
     enc_at (i_symbols (hist_pairs data cdf) a) e') \/
  (exists e', WebRtcIsacfix_EncHistMulti e data cdf (Zlen data) =
     Ret (- ISAC_DISALLOWED_BITSTREAM_LENGTH, e')).
Proof.
  intros [Hok <-] Hd. unfold WebRtcIsacfix_EncHistMulti, Zlen. rewrite Nat2Z.id.
  destruct (enc_hist_loop_spec data cdf (enc_load e) Hok Hd) as [(l & Hrun & Hl & Habs)|(l & Hrun)];
    rewrite Hrun; cbn [enc_store].
  - left. eexists; split; [done|]. destruct l as [st ptr full sv W].
    pose proof (so_ptr _ _ _ (eo_stream _ Hl)) as Hp. cbn in Hp. unfold STREAM_MAXW16_60MS in Hp.
    split; unfold enc_load; cbn; rewrite u16_id by (unfold is_u16; lia); done.
  - right. by eexists.
Qed.

(** ** The flush *)

Lemma put_two_bytes_spec {R} st ptr full sv :
  stream_ok st ptr full -> is_u32 sv -> bpos ptr full + 2 <= 2 * STREAM_MAXW16_60MS ->
  exists st', put_two_bytes (R := R) st ptr full sv = Cont st' /\
    Zlen st' = STREAM_MAXW16_60MS /\ Forall is_u16 st' /\
    pval st' (ptr + 1) full = pval st ptr full * 65536 + sv / 65536.
Proof.
  intros Hok Hsv Hpos. pose proof (stream_ok_nat _ _ _ Hok) as Hn.
  pose proof (stream_ok_word _ _ _ Hok) as Hw. destruct Hok as [Hl Hst Hp Hf Hlow].
  unfold put_two_bytes, pval, bpos, is_u32, is_u16 in *.
  replace (Z.to_nat (ptr + 1)) with (S (Z.to_nat ptr)) by lia. cbn [wval].
  rewrite !Z.shiftr_div_pow2 by lia.
  change (2 ^ 24) with 16777216. change (2 ^ 16) with 65536. change (2 ^ 8) with 256.
  set (p := Z.to_nat ptr) in *.
  destruct Hf as [->| ->]; cbn [Z.eqb] in *.
  - specialize (Hlow eq_refl). rewrite rd_total by lia. cbn [flow_bind]. fold p.
    set (v := st !!! p) in *.
    assert (Hor : Z.lor v (u16 (sv / 16777216)) = v + sv / 16777216).
    { rewrite u16_id by (unfold is_u16; zdm). replace v with (v / 256 * 2 ^ 8) by zdm.
      apply lor_high_low; [lia|zdm]. }
    assert (Hand : Z.land (u16 (sv / 256)) 65280 = sv / 65536 mod 256 * 256).
    { change 65280 with (Z.shiftl (Z.ones 8) 8). rewrite land_field by lia.
      change (2 ^ 8) with 256. unfold u16. zdm. }
    rewrite Hor, Hand, wr_Cont by lia. cbn [flow_bind]. fold p.
    rewrite wr_Cont by (rewrite Zlen_insert; lia).
    replace (Z.to_nat (ptr + 1)) with (S p) by lia.
    eexists; split; [done|]. rewrite !Zlen_insert. split; [done|]. split.
    { repeat apply Forall_insert; try done; unfold is_u16; zdm. }
    rewrite list_lookup_total_insert_eq, list_lookup_total_insert_ne,
      list_lookup_total_insert_eq, !wval_insert_ge
      by (rewrite ?length_insert; unfold Zlen, STREAM_MAXW16_60MS in *; lia).
    fold v. zdm.
  - rewrite wr_Cont by lia. fold p. rewrite u16_id by (unfold is_u16; zdm).
    eexists; split; [done|]. rewrite Zlen_insert. split; [done|]. split.
    { apply Forall_insert; [done|unfold is_u16; zdm]. }
    rewrite list_lookup_total_insert_eq, wval_insert_ge by lia. lia.
Qed.

Definition flush_unit (a : interval) : Z := if 33554431 <? i_W a then 16777216 else 65536.

Lemma flush_len_pos a : 0 <= i_ptr a -> 0 < flush_len a <= i_pos a + 2.
Proof. unfold flush_len, i_pos, bpos. intros. zcases; lia. Qed.

(** The returned length is the byte position reached. *)
Lemma flush_code p f :
  0 <= p -> bpos p f <= 2 * STREAM_MAXW16_60MS ->
  s16 (Z.shiftl p 1 + (if f =? 0 then 1 else 0)) = bpos p f.
Proof.
  unfold bpos, STREAM_MAXW16_60MS. intros Hp Hb. rewrite Z.shiftl_mul_pow2 by lia.
  change (2 ^ 1) with 2. rewrite s16_id; unfold is_s16; zcases; lia.
Qed.

(** [EncTerminate] wrote [n] bytes: they spell the number [v]. *)
Definition flushed (e : Bitstr_enc) (n v : Z) : Prop :=
  exists e', WebRtcIsacfix_EncTerminate e = Cont (n, e') /\
    Zlen (enc_stream e') = STREAM_MAXW16_60MS /\ Forall is_u16 (enc_stream e') /\
    bval (enc_stream e') (Z.to_nat n) = v.

Lemma terminate_wide e :
  let a := l_abs (enc_load e) in
  enc_ok (enc_load e) -> 33554431 < enc_W_upper e -> i_pos a + 1 <= 2 * STREAM_MAXW16_60MS ->
  flushed e (i_pos a + 1) ((i_low a + 16777216) / 16777216).
Proof.
  intros a [Hs Hsv HW Htop] Hwide Hlen. pose proof (so_ptr _ _ _ Hs) as Hptr. cbn in Hptr, HW.
  destruct (carry_spec (R := Z * Bitstr_enc) (enc_load e) 16777216 Hs Hsv) as
    (st & Hrun & Hok & Hlow); [done|cbn in Htop; cbn; lia|].
  cbn [enc_load l_stream l_ptr l_full l_sv] in *. fold a in Hlow.
  destruct (put_byte_spec (R := Z * Bitstr_enc) _ _ _ _ Hok (u32_range (enc_streamval e + 16777216)))
    as (st' & Hput & Hl & Hu & _ & Hval).
  unfold i_pos in *. change (i_ptr a) with (enc_stream_index e) in *.
  change (i_full a) with (enc_full e) in *. rewrite <- bpos_next in *.
  assert (Hp : 0 <= next_ptr (enc_stream_index e) (enc_full e))
    by (unfold next_ptr; destruct (_ =? 0); lia).
  unfold flushed, WebRtcIsacfix_EncTerminate.
  destruct (Z.ltb_spec 33554431 (enc_W_upper e)); [|lia].
  rewrite Hrun. cbn [flow_bind]. rewrite Hput. cbn [flow_bind].
  rewrite flush_code by done. eexists; split; [done|]. do 2 (split; [done|]).
  cbn [enc_stream]. rewrite <- pval_bval, Hval, <- Hlow by done. zdm.
Qed.

Lemma terminate_narrow e :
  let a := l_abs (enc_load e) in
  enc_ok (enc_load e) -> enc_W_upper e <= 33554431 -> i_pos a + 2 <= 2 * STREAM_MAXW16_60MS ->
  flushed e (i_pos a + 2) ((i_low a + 65536) / 65536).
Proof.
  intros a [Hs Hsv HW Htop] Hwide Hlen. pose proof (so_ptr _ _ _ Hs) as Hptr. cbn in Hptr, HW.
  destruct (carry_spec (R := Z * Bitstr_enc) (enc_load e) 65536 Hs Hsv) as
    (st & Hrun & Hok & Hlow); [done|cbn in Htop; cbn; lia|].
  cbn [enc_load l_stream l_ptr l_full l_sv] in *. fold a in Hlow.
  unfold i_pos in *. change (i_ptr a) with (enc_stream_index e) in *.
  change (i_full a) with (enc_full e) in *.
  destruct (put_two_bytes_spec (R := Z * Bitstr_enc) _ _ _ _ Hok
    (u32_range (enc_streamval e + 65536)) Hlen) as (st' & Hput & Hl & Hu & Hval).
  assert (Hb : bpos (enc_stream_index e) (enc_full e) + 2 = bpos (enc_stream_index e + 1) (enc_full e))
    by (unfold bpos; lia).
  rewrite Hb in *. unfold flushed, WebRtcIsacfix_EncTerminate.
  destruct (Z.ltb_spec 33554431 (enc_W_upper e)); [lia|].
  rewrite Hrun. cbn [flow_bind]. rewrite Hput. cbn [flow_bind].
  rewrite flush_code by (done || lia). eexists; split; [done|]. do 2 (split; [done|]).
  cbn [enc_stream]. rewrite <- pval_bval, Hval, <- Hlow by lia. zdm.
Qed.

(** The flushed bytes spell the first multiple of the unit above the low end. *)
Lemma terminate_spec a e :
  enc_at a e -> flush_len a <= 2 * STREAM_MAXW16_60MS ->
  flushed e (flush_len a) ((i_low a + flush_unit a) / flush_unit a).
Proof.
  intros [Hok <-]. unfold flush_len, flush_unit. cbn [i_W l_abs].
  change (l_W (enc_load e)) with (enc_W_upper e).
  destruct (Z.ltb_spec 33554431 (enc_W_upper e)); intros Hlen;
    [by apply terminate_wide|by apply terminate_narrow].
Qed.

(** One byte short of room for the flush, the second byte is stored past the
    end of the array. *)
Lemma terminate_stuck a e :
  enc_at a e -> 2 * STREAM_MAXW16_60MS < flush_len a -> WebRtcIsacfix_EncTerminate e = Stuck.
Proof.
  intros [[Hs Hsv HW Htop] <-]. unfold flush_len, i_pos, bpos. cbn [i_W i_ptr i_full l_abs].
  pose proof (so_ptr _ _ _ Hs) as Hptr. cbn in Hptr, HW.
  change (l_W (enc_load e)) with (enc_W_upper e). cbn [enc_load l_ptr l_full].
  destruct (carry_spec (R := Z * Bitstr_enc) (enc_load e) 65536 Hs Hsv) as
    (st & Hrun & Hok & _); [done|cbn in Htop; cbn; lia|].
  cbn [enc_load l_stream l_ptr l_full l_sv] in *. unfold STREAM_MAXW16_60MS in *.
  unfold WebRtcIsacfix_EncTerminate.
  destruct (Z.ltb_spec 33554431 (enc_W_upper e)); [zcases; lia|]. intros Hlen.
  assert (Hend : enc_full e = 0 /\ enc_stream_index e = 199) by (revert Hlen; zcases; lia).
  destruct Hend as [Hf Hp]. rewrite Hrun. cbn [flow_bind].
  unfold put_two_bytes. rewrite Hf, Hp in *. cbn [Z.eqb].
  rewrite rd_total by (rewrite (so_len _ _ _ Hok); done). cbn [flow_bind].
  rewrite wr_Cont by (rewrite (so_len _ _ _ Hok); done). cbn [flow_bind].
  unfold wr. rewrite length_insert. pose proof (so_len _ _ _ Hok) as Hl.
  unfold Zlen, STREAM_MAXW16_60MS in Hl. rewrite Hl. done.
Qed.

(** ** Deciding the preconditions on tables *)

Fixpoint increasing (l : list Z) : bool :=
  match l with
  | x :: (y :: _) as l' => (x <=? y) && increasing l'
  | _ => true
  end.

Lemma increasing_le l (i j : nat) :
  increasing l = true -> (i <= j < length l)%nat -> l !!! i <= l !!! j.
Proof.
  revert i j. induction l as [|x l IH]; intros i j Hl Hij; [cbn in Hij; lia|].
  destruct l as [|y l]; [cbn in Hij; replace i with j by lia; lia|].
  cbn [increasing] in Hl. apply andb_true_iff in Hl as [Hxy%Z.leb_le Hl].
  destruct i as [|i], j as [|j]; try lia; try (apply (IH i j Hl); cbn in *; lia).
  change ((x :: y :: l) !!! 0%nat) with x. change ((x :: y :: l) !!! S j) with ((y :: l) !!! j).
  pose proof (IH 0%nat j Hl ltac:(cbn in *; lia)) as H.
  change ((y :: l) !!! 0%nat) with y in H. lia.
Qed.

Definition cdf_okb (c : list Z) : bool :=
  forallb (fun x => (0 <=? x) && (x <? 65536)) c && increasing c.

Lemma cdf_okb_spec c : cdf_okb c = true -> cdf_ok c.
Proof.
  unfold cdf_okb. intros [Hf Hi]%andb_true_iff. split.
  - apply Forall_forall. intros x Hx. rewrite forallb_forall in Hf.
    apply list_elem_of_In in Hx. specialize (Hf x Hx). unfold is_u16. lia.
  - intros i j. by apply increasing_le.
Qed.

Definition sym_okb (d : Z) (c : list Z) : bool :=
  cdf_okb c && (0 <=? d) && (d <? 32768) && (d + 1 <? Zlen c) &&
  (c !!! Z.to_nat d <? c !!! Z.to_nat (d + 1)).

Lemma sym_okb_spec d c : sym_okb d c = true -> sym_ok d c.
Proof.
  unfold sym_okb. intros H. do 4 apply andb_true_iff in H as [H ?].
  split; [by apply cdf_okb_spec|lia..].
Qed.

Fixpoint forall2b {A B : Type} (f : A -> B -> bool) (l : list A) (k : list B) : bool :=
  match l, k with
  | [], [] => true
  | x :: l, y :: k => f x y && forall2b f l k
  | _, _ => false
  end.

Lemma forall2b_spec {A B} (f : A -> B -> bool) (P : A -> B -> Prop) l k :
  (forall x y, f x y = true -> P x y) -> forall2b f l k = true -> Forall2 P l k.
Proof.
  intros Hf. revert k. induction l as [|x l IH]; intros [|y k] H; try done; constructor;
    apply andb_true_iff in H as [H1 H2]; auto.
Qed.

(** Every symbol below [n] has an interval in the table. *)
Definition covers (c : list Z) (n : Z) : bool :=
  cdf_okb c && (n <=? 32768) && (n <? Zlen c) &&
  forallb (fun d => c !!! d <? c !!! S d) (seq 0 (Z.to_nat n)).

Lemma covers_sym c n d : covers c n = true -> 0 <= d < n -> sym_ok d c.
Proof.
  unfold covers. intros H Hd. apply andb_true_iff in H as [H Hpos].
  apply andb_true_iff in H as [H Hlen]. apply andb_true_iff in H as [Hc Hn].
  split; [by apply cdf_okb_spec|lia|lia|]. rewrite forallb_forall in Hpos.
  specialize (Hpos (Z.to_nat d) ltac:(apply in_seq; lia)). apply Z.ltb_lt in Hpos.
  by replace (Z.to_nat (d + 1)) with (S (Z.to_nat d)) by lia.
Qed.

(** ** Whole frames *)

Definition part : Type := list Z * list (list Z).
Definition part_ok (p : part) : Prop := Forall2 sym_ok p.1 p.2.

Lemma parts_okb_spec (parts : list part) :
  forallb (fun p => forall2b sym_okb p.1 p.2) parts = true -> Forall part_ok parts.
Proof.
  intros H. apply Forall_forall. intros p Hp. rewrite forallb_forall in H.
  apply (forall2b_spec sym_okb); [apply sym_okb_spec|]. by apply H, list_elem_of_In.
Qed.

(** The interval a sequence of parts ends in. *)
Fixpoint i_parts (parts : list part) (a : interval) : interval :=
  match parts with
  | [] => a
  | p :: parts => i_parts parts (i_symbols (hist_pairs p.1 p.2) a)
  end.

Lemma iv_symbols_wide ps a : iv_wide a -> Forall good_pair ps -> iv_wide (i_symbols ps a).
Proof.
  intros Ha H. revert a Ha. induction H as [|[lo hi] ps Hp _ IH]; intros a Ha; [done|].
  cbn [i_symbols]. by apply IH, iv_symbol_wide.
Qed.

Lemma iv_parts_wide parts a : iv_wide a -> Forall part_ok parts -> iv_wide (i_parts parts a).
Proof.
  intros Ha H. revert a Ha. induction H as [|p parts Hp _ IH]; intros a Ha; [done|].
  cbn [i_parts]. by apply IH, iv_symbols_wide; [|apply hist_pairs_good].
Qed.

Lemma i_pos_parts parts a : i_pos a <= i_pos (i_parts parts a).
Proof.
  revert a. induction parts as [|p parts IH]; intros a; cbn [i_parts]; [lia|].
  etransitivity; [apply i_pos_symbols|apply IH].
Qed.

Lemma contains_parts parts S a :
  Forall is_u16 S -> iv_wide a -> Forall part_ok parts ->
  in_stream S (i_parts parts a) -> contains S (i_parts parts a) ->
  contains S a /\ in_stream S a.
Proof.
  intros HS Ha H. revert a Ha. induction H as [|p parts Hp _ IH]; intros a Ha Hin Hc; [done|].
  cbn [i_parts] in *. pose proof (hist_pairs_good _ _ Hp) as Hg.
  destruct (IH _ (iv_symbols_wide _ _ Ha Hg) Hin Hc) as [Hc' Hin'].
  by destruct (contains_symbols _ S a HS Ha Hg Hin' Hc') as (? & ? & _).
Qed.

Lemma i_pos_ptr a : i_pos a < 2 * STREAM_MAXW16_60MS -> i_ptr a < STREAM_MAXW16_60MS.
Proof. unfold i_pos, bpos, STREAM_MAXW16_60MS. destruct (_ =? 0); lia. Qed.

Lemma decode_all_spec S parts hows len a s :
  Forall is_u16 S -> iv_wide a -> dec_ready S a s ->
  Forall part_ok parts -> Forall2 (fun p how => search_ok p.2 how) parts hows ->
  let a' := i_parts parts a in
  in_stream S a' -> contains S a' -> i_pos a' < 2 * STREAM_MAXW16_60MS ->
  decode_all (zip (map snd parts) hows) len s =
    Some (if parts is [] then len else flush_len a', map fst parts).
Proof.
  intros HS Ha Hr Hp. revert hows len a s Ha Hr.
  induction Hp as [|[data cdf] parts Hd Hp IH]; intros [|how hows] len a s Ha Hr Hh;
    inversion_clear Hh; cbn [i_parts fst snd] in *; intros Hin Hc Hpos; [done|].
  cbn [map zip_with zip fst snd decode_all].
  pose proof (hist_pairs_good _ _ Hd) as Hg. cbn [fst snd] in Hg.
  pose proof (iv_symbols_wide _ _ Ha Hg) as Hw.
  destruct (contains_parts parts S _ HS Hw Hp Hin Hc) as [Hc' Hin'].
  pose proof (i_pos_parts parts (i_symbols (hist_pairs data cdf) a)) as Hle.
  destruct (dec_call_spec S a s data cdf how HS Ha Hr Hd) as (s' & Hrun & Hr'); try done.
  { apply i_pos_ptr. lia. }
  rewrite Hrun. cbn [run_flow].
  pose proof (flush_len_pos _ (iv_ptr _ (iw_ok _ Hw))).
  destruct (Z.ltb_spec (flush_len (i_symbols (hist_pairs data cdf) a)) 0); [lia|].
  rewrite (IH hows _ _ s' Hw Hr') by done. by destruct parts.
Qed.

Lemma encode_all_spec parts a e :
  enc_at a e -> Forall part_ok parts ->
  (exists e', encode_all parts e = Some (- ISAC_DISALLOWED_BITSTREAM_LENGTH, e')) \/
  (exists e1, encode_all parts e = run_flow (WebRtcIsacfix_EncTerminate e1) /\
     enc_at (i_parts parts a) e1).
Proof.
  intros He H. revert a e He.
  induction H as [|[data cdf] parts Hd _ IH]; intros a e He; cbn [encode_all i_parts fst snd].
  { right. by exists e. }
  destruct (enc_multi_spec e a data cdf He Hd) as [(e' & Hrun & He')|(e' & Hrun)];
    rewrite Hrun; cbn [run_flow].
  - destruct (Z.ltb_spec 0 0); [lia|]. by apply IH.
  - left. by exists e'.
Qed.

(** A stream that starts with the flushed bytes lies in the final interval. *)
Lemma contains_flushed S a :
  Forall is_u16 S -> iv_wide a -> in_stream S a ->
  bval S (Z.to_nat (flush_len a)) = (i_low a + flush_unit a) / flush_unit a ->
  contains S a.
Proof.
  intros HS [[Hp Hf HW] HW'] Hin Hv. unfold contains, rest, in_stream in *.
  rewrite pval_bval by lia.
  assert (Hpos : Z.to_nat (bpos (i_ptr a + 2) (i_full a)) = (Z.to_nat (i_pos a) + 4)%nat)
    by (unfold i_pos, bpos; destruct (_ =? 0); lia).
  assert (H0 : 0 <= i_pos a) by (unfold i_pos, bpos; destruct (_ =? 0); lia).
  rewrite Hpos. unfold flush_len, flush_unit in *.
  assert (Hu8 : forall i, 0 <= i < i_pos a + 4 -> is_u8 (stream_byte S i))
    by (intros; apply stream_byte_u8; [done|lia]).
  destruct (Z.ltb_spec 33554431 (i_W a)).
  - pose proof (bval_extend S (Z.to_nat (i_pos a + 1)) 3 ltac:(intros; apply Hu8; lia)) as Hb.
    rewrite Hv in Hb. change (256 ^ Z.of_nat 3) with 16777216 in Hb.
    replace (Z.to_nat (i_pos a + 1) + 3)%nat with (Z.to_nat (i_pos a) + 4)%nat in Hb by lia. zdm.
  - pose proof (bval_extend S (Z.to_nat (i_pos a + 2)) 2 ltac:(intros; apply Hu8; lia)) as Hb.
    rewrite Hv in Hb. change (256 ^ Z.of_nat 2) with 65536 in Hb.
    replace (Z.to_nat (i_pos a + 2) + 2)%nat with (Z.to_nat (i_pos a) + 4)%nat in Hb by lia. zdm.
Qed.

Lemma iv_start : iv_wide i_start.
Proof. split; [split; [done|by right|done]|done]. Qed.

(** What a decoder needs of a buffer that starts with the flushed bytes. *)
Lemma flushed_contains a e n e' S :
  enc_at a e -> run_flow (WebRtcIsacfix_EncTerminate e) = Some (n, e') ->
  Forall is_u16 S -> n + 3 <= 2 * Zlen S ->
  (forall i, 0 <= i < n -> stream_byte S i = stream_byte (enc_stream e') i) ->
  n = flush_len a /\ in_stream S a /\ contains S a /\
  i_pos a < 2 * STREAM_MAXW16_60MS /\ 2 <= Zlen S.
Proof.
  intros He Hterm HS Hlen Hsame. destruct (enc_at_wide _ _ He) as [Hw Hptr].
  destruct (decide (flush_len a <= 2 * STREAM_MAXW16_60MS)) as [Hfit|Hfit].
  2: { rewrite (terminate_stuck a) in Hterm by (done || lia). done. }
  destruct (terminate_spec a e He Hfit) as (e2 & Hrun & _ & _ & Hval).
  rewrite Hrun in Hterm. injection Hterm as <- <-.
  assert (Hpos : i_pos a + 1 <= flush_len a) by (unfold flush_len; zcases; lia).
  assert (Hin : in_stream S a) by (unfold in_stream; lia).
  split; [done|]. split; [done|]. split; [|pose proof (flush_len_pos a ltac:(lia)); lia].
  apply (contains_flushed S a); try done. rewrite <- Hval. apply bval_ext.
  intros i Hi. apply Hsame. lia.
Qed.

(** C11: The entropy coder is lossless.  A frame made of any number of
    EncHistMulti calls and the flush, decoded part by part (each by the one-step
    or by the bisecting decoder) from any buffer that starts with the [n] bytes
    the flush reported, gives back every symbol, and the last call returns
    exactly [n]: the bytes after the frame do not matter. *)
Theorem entropy_round_trip st parts hows n e S size :
  Zlen st = STREAM_MAXW16_60MS -> Forall is_u16 st ->
  parts <> [] -> Forall part_ok parts -> Forall2 (fun p how => search_ok p.2 how) parts hows ->
  encode_all parts (enc_reset st) = Some (n, e) -> 0 <= n ->
  Forall is_u16 S -> n + 3 <= 2 * Zlen S ->
  (forall i, 0 <= i < n -> stream_byte S i = stream_byte (enc_stream e) i) ->
  decode_all (zip (map snd parts) hows) 0 (dec_reset S size) = Some (n, map fst parts).
Proof.
  intros Hl Hst Hne Hp Hh Henc Hn HS Hlen Hsame.
  destruct (encode_all_spec parts i_start _ (enc_at_reset st Hl Hst) Hp)
    as [(e' & Hrun)|(e1 & Hrun & He1)]; rewrite Hrun in Henc.
  { injection Henc as <- _. by destruct Hn. }
  destruct (flushed_contains _ _ _ _ S He1 Henc HS Hlen Hsame) as (-> & Hin & Hc & Hpos & Hl2).
  rewrite (decode_all_spec S parts hows 0 i_start); try done.
  - destruct parts; done.
  - apply iv_start.
  - by apply dec_ready_reset.
Qed.

(** C12: EncHistMulti implements the interval coder.  On any struct that stands
    for an interval it returns 0 and leaves a struct that stands for the interval
    the symbols narrow to, or it returns the length error; it never touches
    anything outside the stream, however far a carry runs. *)
Theorem EncHistMulti_refines a e data cdf :
  enc_at a e -> Forall2 sym_ok data cdf ->
  (exists e', WebRtcIsacfix_EncHistMulti e data cdf (Zlen data) = Cont (0, e') /\
     enc_at (i_symbols (hist_pairs data cdf) a) e') \/
  (exists e', WebRtcIsacfix_EncHistMulti e data cdf (Zlen data) =
     Ret (- ISAC_DISALLOWED_BITSTREAM_LENGTH, e')).
Proof. apply enc_multi_spec. Qed.

(** C13: A frame ends in one of three ways: the length error of a part; a flush of
    [flush_len] bytes, at most the 400 the stream has, into a legal stream; or, when
    the flush needs a 401st byte, a store behind the array. *)
Theorem frame_result st parts :
  Zlen st = STREAM_MAXW16_60MS -> Forall is_u16 st -> Forall part_ok parts ->
  let a := i_parts parts i_start in
  (exists e, encode_all parts (enc_reset st) = Some (- ISAC_DISALLOWED_BITSTREAM_LENGTH, e)) \/
  (0 < flush_len a <= 400 /\
   exists e, encode_all parts (enc_reset st) = Some (flush_len a, e) /\
     Zlen (enc_stream e) = STREAM_MAXW16_60MS /\ Forall is_u16 (enc_stream e)) \/
  (flush_len a = 401 /\ encode_all parts (enc_reset st) = None).
Proof.
  intros Hl Hst Hp a.
  destruct (encode_all_spec parts i_start _ (enc_at_reset st Hl Hst) Hp)
    as [(e & Hrun)|(e & Hrun & He)]; [left; by exists e|right]. rewrite Hrun. fold a in He.
  destruct (enc_at_wide _ _ He) as [Hw Hptr]. pose proof (flush_len_pos a ltac:(lia)) as Hpos.
  destruct (decide (flush_len a <= 2 * STREAM_MAXW16_60MS)) as [Hfit|Hfit].
  - left. destruct (terminate_spec a e He Hfit) as (e' & Hterm & Hl' & Hu & _).
    split; [unfold STREAM_MAXW16_60MS in Hfit; lia|]. rewrite Hterm. by exists e'.
  - right. rewrite (terminate_stuck a) by (done || lia). split; [|done].
    unfold i_pos, bpos, STREAM_MAXW16_60MS in *. destruct (_ =? 0); lia.
Qed.

Lemma reset_stream_ok :
  Zlen (replicate 200 0) = STREAM_MAXW16_60MS /\ Forall is_u16 (replicate 200 0).
Proof. split; [done|]. by apply Forall_replicate. Qed.

(** Tables and parts for the witnesses below. *)
Definition ex_cdf : list Z := [0; 256; 65535].
Definition ex_cdf_wide : list Z := [0; 300; 65535].
Definition ex_parts : list part :=
  [([1; 0; 1; 1; 0], replicate 5 ex_cdf); ([0; 0; 1], replicate 3 ex_cdf_wide)].
Definition ex_search : list search := [OneStep [0; 2; 1; 0; 1]; Bisect [4; 4; 4]].
Definition ex_long : list part := [(replicate 399 0, replicate 399 ex_cdf); ([0], [ex_cdf_wide])].

Lemma ex_parts_ok : Forall part_ok ex_parts.
Proof. by apply parts_okb_spec; vm_compute. Qed.

Lemma ex_search_ok : Forall2 (fun p how => search_ok p.2 how) ex_parts ex_search.
Proof.
  assert (size_ok ex_cdf_wide 4) by (exists 2%nat; split; [lia|done]).
  assert (forall i, 0 <= i < 3 -> init_ok ex_cdf i) by done.
  repeat apply Forall2_cons_2; try apply Forall2_nil_2; cbn;
    repeat apply Forall2_cons_2; try apply Forall2_nil_2; auto with lia.
Qed.

Lemma ex_long_ok : Forall part_ok ex_long.
Proof. by apply parts_okb_spec; vm_compute. Qed.

(** The flush can really run over the end: two calls encode 400 symbols of
    ordinary tables without an error, and then EncTerminate stores a word behind
    the 200 of the stream. *)
Theorem flush_overrun_reachable :
  Forall part_ok ex_long /\
  exists e1 e2,
    WebRtcIsacfix_EncHistMulti (enc_reset (replicate 200 0)) (replicate 399 0)
      (replicate 399 ex_cdf) 399 = Cont (0, e1) /\
    WebRtcIsacfix_EncHistMulti e1 [0] [ex_cdf_wide] 1 = Cont (0, e2) /\
    WebRtcIsacfix_EncTerminate e2 = Stuck.
Proof.
  split; [apply ex_long_ok|].
  eexists _, _. split; [vm_compute; reflexivity|].
  split; [vm_compute; reflexivity|]. vm_compute. reflexivity.
Qed.

Lemma entropy_round_trip_witness :
  exists n e,
    encode_all ex_parts (enc_reset (replicate 200 0)) = Some (n, e) /\ 0 <= n /\
    decode_all (zip (map snd ex_parts) ex_search) 0 (dec_reset (enc_stream e) 200) =
      Some (n, map fst ex_parts).
Proof.
  destruct reset_stream_ok as [Hl Hu].
  eexists _, _. split; [vm_compute; reflexivity|]. split; [done|].
  eapply (entropy_round_trip (replicate 200 0)).
  - exact Hl.
  - exact Hu.
  - discriminate.
  - apply ex_parts_ok.
  - apply ex_search_ok.
  - vm_compute. reflexivity.
  - done.
  - apply (bool_decide_unpack _). vm_compute. exact I.
  - done.
  - reflexivity.
Defined.

Lemma EncHistMulti_refines_witness :
  enc_at i_start (enc_reset (replicate 200 0)) /\
  ((exists e', WebRtcIsacfix_EncHistMulti (enc_reset (replicate 200 0)) [1; 0] [ex_cdf; ex_cdf]
       (Zlen [1; 0]) = Cont (0, e') /\
     enc_at (i_symbols (hist_pairs [1; 0] [ex_cdf; ex_cdf]) i_start) e') \/
   (exists e', WebRtcIsacfix_EncHistMulti (enc_reset (replicate 200 0)) [1; 0] [ex_cdf; ex_cdf]
       (Zlen [1; 0]) = Ret (- ISAC_DISALLOWED_BITSTREAM_LENGTH, e'))).
Proof.
  destruct reset_stream_ok as [Hl Hu]. split; [by apply enc_at_reset|].
  apply (EncHistMulti_refines i_start).
  - by apply enc_at_reset.
  - by apply (forall2b_spec sym_okb _ _ _ sym_okb_spec).
Defined.

Lemma frame_result_witness :
  Forall part_ok ex_long /\
  let a := i_parts ex_long i_start in
  (exists e, encode_all ex_long (enc_reset (replicate 200 0)) =
     Some (- ISAC_DISALLOWED_BITSTREAM_LENGTH, e)) \/
  (0 < flush_len a <= 400 /\
   exists e, encode_all ex_long (enc_reset (replicate 200 0)) = Some (flush_len a, e) /\
     Zlen (enc_stream e) = STREAM_MAXW16_60MS /\ Forall is_u16 (enc_stream e)) \/
  (flush_len a = 401 /\ encode_all ex_long (enc_reset (replicate 200 0)) = None).
Proof.
  destruct reset_stream_ok as [Hl Hu]. split; [apply ex_long_ok|].
  by apply frame_result; [..|apply ex_long_ok].
Defined.
