(* ===== verification/IsacClients.v ===== *)
(** * The parameters of an iSAC frame

    Models, in [entropy_coding.c], the functions that quantise a parameter and put
    it in the bit stream and those that read it back: frame length, bandwidth,
    pitch gains, pitch lags, the LPC indices, reflection coefficients and the
    squared gain.  The optional [encData] copies (for a second stream at another
    rate) are left out: they do not influence the stream. *)
From S2P Require Import Prelude IsacArith IsacTables.
Local Open Scope Z_scope.

Definition ISAC_DISALLOWED_FRAME_MODE_ENCODER : Z := 6430.
Definition ISAC_DISALLOWED_FRAME_MODE_DECODER : Z := 6630.
Definition ISAC_RANGE_ERROR_DECODE_FRAME_LENGTH : Z := 6640.
Definition ISAC_RANGE_ERROR_DECODE_BANDWIDTH : Z := 6650.
Definition ISAC_RANGE_ERROR_DECODE_PITCH_GAIN : Z := 6660.
Definition ISAC_RANGE_ERROR_DECODE_PITCH_LAG : Z := 6670.

(** Results: return value, the parameter (as the function leaves it) and the
    struct.  Nothing returns early from a caller. *)
Definition enc_result : Type := flow Empty_set (Z * list Z * Bitstr_enc).
Definition dec_result : Type := flow Empty_set (Z * list Z * Bitstr_dec).

(** ** Frame length and bandwidth *)

Definition kFrameLenCdf : list Z := [0; 21845; 43690; 65535].
Definition kFrameLenCdfPtr : list (list Z) := [kFrameLenCdf].
Definition kFrameLenInitIndex : list Z := [1].
Definition kBwCdf : list Z :=
  [0; 2731; 5461; 8192; 10923; 13653; 16384; 19114; 21845; 24576; 27306; 30037;
   32768; 35498; 38229; 40959; 43690; 46421; 49151; 51882; 54613; 57343; 60074;
   62804; 65535].
Definition kBwCdfPtr : list (list Z) := [kBwCdf].
Definition kBwInitIndex : list Z := [7].

Definition WebRtcIsacfix_EncodeFrameLen (framesamples : Z) (streamdata : Bitstr_enc)
    : enc_result :=
  let frame_mode := if framesamples =? 480 then 1 else if framesamples =? 960 then 2 else 0 in
  if frame_mode =? 0 then Cont (- ISAC_DISALLOWED_FRAME_MODE_ENCODER, [framesamples], streamdata)
  else
    let! (status, streamdata) :=
      call (WebRtcIsacfix_EncHistMulti streamdata [frame_mode] kFrameLenCdfPtr 1) in
    Cont (status, [framesamples], streamdata).

(** The result list is [framesamples] when it is assigned, and empty otherwise. *)
Definition WebRtcIsacfix_DecodeFrameLen (streamdata : Bitstr_dec) : dec_result :=
  let! (err, streamdata, data) :=
    call (WebRtcIsacfix_DecHistOneStepMulti streamdata kFrameLenCdfPtr kFrameLenInitIndex 1) in
  if err <? 0 then Cont (- ISAC_RANGE_ERROR_DECODE_FRAME_LENGTH, [], streamdata)
  else
    let! frame_mode := rd data 0 in
    if frame_mode =? 1 then Cont (err, [480], streamdata)
    else if frame_mode =? 2 then Cont (err, [960], streamdata)
    else Cont (- ISAC_DISALLOWED_FRAME_MODE_DECODER, [], streamdata).

Definition WebRtcIsacfix_EncodeReceiveBandwidth (BWno : Z) (streamdata : Bitstr_enc)
    : enc_result :=
  let! (status, streamdata) := call (WebRtcIsacfix_EncHistMulti streamdata [BWno] kBwCdfPtr 1) in
  Cont (status, [BWno], streamdata).

Definition WebRtcIsacfix_DecodeSendBandwidth (streamdata : Bitstr_dec) : dec_result :=
  let! (err, streamdata, data) :=
    call (WebRtcIsacfix_DecHistOneStepMulti streamdata kBwCdfPtr kBwInitIndex 1) in
  if err <? 0 then Cont (- ISAC_RANGE_ERROR_DECODE_BANDWIDTH, [], streamdata)
  else let! BWno := rd data 0 in Cont (err, [BWno], streamdata).

(** ** Scalar quantiser search *)

(** [while (x > bound[index + 1]) index++;] *)
Fixpoint quant_up {R : Type} (fuel : nat) (bound : list Z) (x index : Z) : flow R Z :=
  match fuel with
  | O => Stuck
  | S fuel =>
      let! b := rd bound (index + 1) in
      if b <? x then quant_up fuel bound x (index + 1) else Cont index
  end.

(** [while (x < bound[--index]) ;] *)
Fixpoint quant_down {R : Type} (fuel : nat) (bound : list Z) (x index : Z) : flow R Z :=
  match fuel with
  | O => Stuck
  | S fuel =>
      let index := index - 1 in
      let! b := rd bound index in
      if x <? b then quant_down fuel bound x index else Cont index
  end.

(** Each step moves one entry, so the table's length is enough fuel. *)
Definition quant_index {R : Type} (bound : list Z) (init x : Z) : flow R Z :=
  let! b := rd bound init in
  if b <? x then quant_up (length bound) bound x init
  else quant_down (S (length bound)) bound x init.

(** ** Reflection coefficients and squared gain *)

(** Indices and reconstructed values, coefficient by coefficient. *)
Fixpoint rc_quantize {R : Type} (inits : list Z) (levs : list (list Z)) (RCQ15 : list Z)
    : flow R (list Z * list Z) :=
  match inits, levs, RCQ15 with
  | init :: inits, lev :: levs, x :: RCQ15 =>
      let! index := quant_index WebRtcIsacfix_kRcBound init x in
      let! y := rd lev index in
      let! (indices, ys) := rc_quantize inits levs RCQ15 in
      Cont (index :: indices, y :: ys)
  | [], [], RCQ15 => Cont ([], RCQ15)
  | _, _, _ => Stuck
  end.

Definition AR_ORDER : Z := 6.

Definition WebRtcIsacfix_EncodeRcCoef (RCQ15 : list Z) (streamdata : Bitstr_enc) : enc_result :=
  let! (index, RCQ15) := rc_quantize WebRtcIsacfix_kRcInitInd WebRtcIsacfix_kRcLevPtr RCQ15 in
  let! (status, streamdata) :=
    call (WebRtcIsacfix_EncHistMulti streamdata index WebRtcIsacfix_kRcCdfPtr AR_ORDER) in
  Cont (status, RCQ15, streamdata).

(** [out[k] = *(tab[k] + index[k])] for every [k]. *)
Fixpoint levels_of {R : Type} (tabs : list (list Z)) (index : list Z) : flow R (list Z) :=
  match tabs, index with
  | t :: tabs, i :: index =>
      let! y := rd t i in
      let! ys := levels_of tabs index in
      Cont (y :: ys)
  | [], _ => Cont []
  | _, _ => Stuck
  end.

Definition WebRtcIsacfix_DecodeRcCoef (streamdata : Bitstr_dec) : dec_result :=
  let! (err, streamdata, index) :=
    call (WebRtcIsacfix_DecHistOneStepMulti streamdata WebRtcIsacfix_kRcCdfPtr
            WebRtcIsacfix_kRcInitInd AR_ORDER) in
  if err <? 0 then Cont (err, [], streamdata)
  else
    let! RCQ15 := levels_of WebRtcIsacfix_kRcLevPtr index in
    Cont (0, RCQ15, streamdata).

Definition WebRtcIsacfix_EncodeGain2 (gainQ10 : Z) (streamdata : Bitstr_enc) : enc_result :=
  let! init := rd WebRtcIsacfix_kGainInitInd 0 in
  let! index := quant_index WebRtcIsacfix_kGain2Bound init gainQ10 in
  let! gainQ10 := rd WebRtcIsacfix_kGain2Lev index in
  let! (status, streamdata) :=
    call (WebRtcIsacfix_EncHistMulti streamdata [index] WebRtcIsacfix_kGainPtr 1) in
  Cont (status, [gainQ10], streamdata).

Definition WebRtcIsacfix_DecodeGain2 (streamdata : Bitstr_dec) : dec_result :=
  let! (err, streamdata, data) :=
    call (WebRtcIsacfix_DecHistOneStepMulti streamdata WebRtcIsacfix_kGainPtr
            WebRtcIsacfix_kGainInitInd 1) in
  if err <? 0 then Cont (err, [], streamdata)
  else
    let! index := rd data 0 in
    let! gainQ10 := rd WebRtcIsacfix_kGain2Lev index in
    Cont (0, [gainQ10], streamdata).

(** ** Pitch gains *)

Definition PITCH_SUBFRAMES : Z := 4.

(** [sum += (row[j] * x[j]) >> shift], in 32 bits. *)
Fixpoint transform {R : Type} (row x : list Z) (shift acc : Z) : flow R Z :=
  match row, x with
  | t :: row, v :: x => transform row x shift (s32 (acc + Z.shiftr (t * v) shift))
  | [], _ => Cont acc
  | _, _ => Stuck
  end.

(** Clamped to the table's limits and shifted to start at zero. *)
Definition limit_index (index lower upper : Z) : Z :=
  let index := if index <? lower then lower else if upper <? index then upper else index in
  s16 (index - lower).

Definition kPitchGains : list (list Z) :=
  [WebRtcIsacfix_kPitchGain1; WebRtcIsacfix_kPitchGain2;
   WebRtcIsacfix_kPitchGain3; WebRtcIsacfix_kPitchGain4].

Definition gain_index {R : Type} (SQ15 : list Z) (k : Z) : flow R Z :=
  let! row := rd WebRtcIsacfix_kTransform k in
  let! CQ17 := transform row SQ15 10 0 in
  let! lower := rd WebRtcIsacfix_kLowerlimiGain k in
  let! upper := rd WebRtcIsacfix_kUpperlimitGain k in
  Cont (limit_index (s16 (Z.shiftr (s32 (CQ17 + 8192)) 14)) lower upper).

Definition WebRtcIsacfix_EncodePitchGain (PitchGains_Q12 : list Z) (streamdata : Bitstr_enc)
    : enc_result :=
  let SQ15 := map (fun g => s16 (Z.shiftr (g * 33) 2)) PitchGains_Q12 in
  let! index0 := gain_index SQ15 0 in
  let! index1 := gain_index SQ15 1 in
  let! index2 := gain_index SQ15 2 in
  let! mult0 := rd WebRtcIsacfix_kMultsGain 0 in
  let! mult1 := rd WebRtcIsacfix_kMultsGain 1 in
  let index_comb := s16 (mult0 * index0 + mult1 * index1 + index2) in
  let! PitchGains_Q12 := levels_of kPitchGains (replicate 4 index_comb) in
  let! (status, streamdata) :=
    call (WebRtcIsacfix_EncHistMulti streamdata [index_comb] [WebRtcIsacfix_kPitchGainCdf] 1) in
  Cont (if status <? 0 then status else 0, PitchGains_Q12, streamdata).

Definition WebRtcIsacfix_DecodePitchGain (streamdata : Bitstr_dec) : dec_result :=
  let! (err, streamdata, data) :=
    call (WebRtcIsacfix_DecHistBisectMulti streamdata [WebRtcIsacfix_kPitchGainCdf]
            WebRtcIsacfix_kCdfTableSizeGain 1) in
  if err <? 0 then Cont (- ISAC_RANGE_ERROR_DECODE_PITCH_GAIN, [], streamdata)
  else
    let! index_comb := rd data 0 in
    if (index_comb <? 0) || (144 <=? index_comb)
    then Cont (- ISAC_RANGE_ERROR_DECODE_PITCH_GAIN, [], streamdata)
    else
      let! PitchGains_Q12 := levels_of kPitchGains (replicate 4 index_comb) in
      Cont (0, PitchGains_Q12, streamdata).

(** ** Pitch lags *)

(** The tables chosen by the mean pitch gain ("voicing classification"). *)
Record lag_tables : Type := mkLagTables {
  shft : Z;
  lag_cdf : list (list Z);
  lag_cdf_size : list Z;
  mean_val2Q10 : list Z;
  mean_val4Q10 : list Z;
  lower_limit : list Z;
  upper_limit : list Z;
  init_index : list Z
}.

Definition lag_lo : lag_tables :=
  mkLagTables (-1) WebRtcIsacfix_kPitchLagPtrLo WebRtcIsacfix_kPitchLagSizeLo
    WebRtcIsacfix_kMeanLag2Lo WebRtcIsacfix_kMeanLag4Lo
    WebRtcIsacfix_kLowerLimitLo WebRtcIsacfix_kUpperLimitLo WebRtcIsacfix_kInitIndLo.
Definition lag_mid : lag_tables :=
  mkLagTables 0 WebRtcIsacfix_kPitchLagPtrMid WebRtcIsacfix_kPitchLagSizeMid
    WebRtcIsacfix_kMeanLag2Mid WebRtcIsacfix_kMeanLag4Mid
    WebRtcIsacfix_kLowerLimitMid WebRtcIsacfix_kUpperLimitMid WebRtcIsacfix_kInitIndMid.
Definition lag_hi : lag_tables :=
  mkLagTables 1 WebRtcIsacfix_kPitchLagPtrHi WebRtcIsacfix_kPitchLagSizeHi
    WebRtcIsacfix_kMeanLag2Hi WebRtcIsacfix_kMeanLag4Hi
    WebRtcIsacfix_kLowerLimitHi WebRtcIsacfix_kUpperLimitHi WebRtcIsacfix_kInitIndHi.

Definition voicing (PitchGain_Q12 : list Z) : lag_tables :=
  let meangainQ12 := Z.shiftr (foldl (fun acc g => s32 (acc + g)) 0 (take 4 PitchGain_Q12)) 2 in
  if meangainQ12 <=? 819 then lag_lo else if meangainQ12 <=? 1638 then lag_mid else lag_hi.

(** [WEBRTC_SPL_SHIFT_W32] *)
Definition SHIFT_W32 (x c : Z) : Z :=
  if 0 <=? c then s32 (Z.shiftl x c) else Z.shiftr x (- c).

(** [WEBRTC_SPL_MUL_16_32_RSFT11] *)
Definition MUL_16_32_RSFT11 (a b : Z) : Z :=
  s32 (s32 (Z.shiftl (a * s16 (Z.shiftr b 16)) 5) +
       Z.shiftr (s32 (Z.shiftr (a * u16 b) 1 + 512)) 10).

(** One mean value's share of the lags. *)
Definition add_mean (row : list Z) (CQ10 : Z) (lags : list Z) : list Z :=
  zip_with (fun t lag => s16 (lag + s16 (Z.shiftr (Z.shiftr (t * s16 CQ10) 10) 5))) row lags.

(** The inverse transform, the same text in the encoder and the decoder. *)
Definition unquantize_lags {R : Type} (t : lag_tables) (index : list Z) : flow R (list Z) :=
  let! i0 := rd index 0 in
  let! i1 := rd index 1 in
  let! i3 := rd index 3 in
  let! low := rd (lower_limit t) 0 in
  let CQ11 := SHIFT_W32 (i0 + low) (11 - shft t) in
  let! row0 := rd WebRtcIsacfix_kTransform 0 in
  let! row1 := rd WebRtcIsacfix_kTransform 1 in
  let! row3 := rd WebRtcIsacfix_kTransform 3 in
  let lags := map (fun c => s16 (Z.shiftr (MUL_16_32_RSFT11 c CQ11) 5)) row0 in
  let! m2 := rd (mean_val2Q10 t) i1 in
  let! m4 := rd (mean_val4Q10 t) i3 in
  Cont (add_mean row3 m4 (add_mean row1 m2 lags)).

Definition lag_index {R : Type} (t : lag_tables) (PitchLagsQ7 : list Z) (k : Z) : flow R Z :=
  let! row := rd WebRtcIsacfix_kTransform k in
  let! CQ17 := transform row PitchLagsQ7 2 0 in
  let CQ17 := SHIFT_W32 CQ17 (shft t) in
  let! lower := rd (lower_limit t) k in
  let! upper := rd (upper_limit t) k in
  Cont (limit_index (s16 (Z.shiftr (s32 (CQ17 + 65536)) 17)) lower upper).

Definition WebRtcIsacfix_EncodePitchLag (PitchLagsQ7 PitchGain_Q12 : list Z)
    (streamdata : Bitstr_enc) : enc_result :=
  let t := voicing PitchGain_Q12 in
  let! i0 := lag_index t PitchLagsQ7 0 in
  let! i1 := lag_index t PitchLagsQ7 1 in
  let! i2 := lag_index t PitchLagsQ7 2 in
  let! i3 := lag_index t PitchLagsQ7 3 in
  let index := [i0; i1; i2; i3] in
  let! PitchLagsQ7 := unquantize_lags t index in
  let! (status, streamdata) :=
    call (WebRtcIsacfix_EncHistMulti streamdata index (lag_cdf t) PITCH_SUBFRAMES) in
  Cont (status, PitchLagsQ7, streamdata).

Definition WebRtcIsacfix_DecodePitchLag (PitchGain_Q12 : list Z) (streamdata : Bitstr_dec)
    : dec_result :=
  let t := voicing PitchGain_Q12 in
  let! (err, streamdata, index0) :=
    call (WebRtcIsacfix_DecHistBisectMulti streamdata (lag_cdf t) (lag_cdf_size t) 1) in
  if err <? 0 then Cont (- ISAC_RANGE_ERROR_DECODE_PITCH_LAG, [], streamdata)
  else
    let! i0 := rd index0 0 in
    if i0 <? 0 then Cont (- ISAC_RANGE_ERROR_DECODE_PITCH_LAG, [], streamdata)
    else
      let! (err, streamdata, index123) :=
        call (WebRtcIsacfix_DecHistOneStepMulti streamdata (drop 1 (lag_cdf t)) (init_index t) 3) in
      if err <? 0 then Cont (- ISAC_RANGE_ERROR_DECODE_PITCH_LAG, [], streamdata)
      else
        let! PitchLags_Q7 := unquantize_lags t (i0 :: index123) in
        Cont (0, PitchLags_Q7, streamdata).

(** ** LPC indices

    The entropy coded part of the LPC functions: the indices after quantisation
    are limited and coded with model 0 (EstCodeLpcCoef), and read back with the
    model the stream names (WebRtcIsacfix_DecodeLpcCoef).  The transforms before and
    after are not modelled. *)

(** [if (index < 0) index = 0; else if (index > max) index = max;] *)
Definition limit_max (index max : Z) : Z :=
  if index <? 0 then 0 else if max <? index then max else index.

(** [levels[of + offset[k] + index[k]]] for every [k]. *)
Fixpoint lpc_levels {R : Type} (levels : list Z) (ofs : Z) (offset index : list Z)
    : flow R (list Z) :=
  match offset, index with
  | o :: offset, i :: index =>
      let! y := rd levels (ofs + o + i) in
      let! ys := lpc_levels levels ofs offset index in
      Cont (y :: ys)
  | [], _ => Cont []
  | _, _ => Stuck
  end.

Definition shape_levels {R : Type} (model : Z) (index : list Z) : flow R (list Z) :=
  let! ofs := rd WebRtcIsacfix_kOfLevelsShape model in
  let! offset := rd WebRtcIsacfix_kOffsetShape model in
  lpc_levels WebRtcIsacfix_kLevelsShapeQ10 ofs offset index.

Definition gain_levels {R : Type} (model : Z) (index : list Z) : flow R (list Z) :=
  let! ofs := rd WebRtcIsacfix_kOfLevelsGain model in
  let! offset := rd WebRtcIsacfix_kOffsetGain model in
  lpc_levels WebRtcIsacfix_kLevelsGainQ17 ofs offset index.

Definition KLT_ORDER_GAIN : Z := 12.
Definition KLT_ORDER_SHAPE : Z := 108.

(** The levels are those the encoder goes on with: shape, then gain. *)
Definition lpc_encode (index_sQQ index_gQQ : list Z) (streamdata : Bitstr_enc) : enc_result :=
  let index_sQQ := zip_with limit_max index_sQQ WebRtcIsacfix_kMaxIndShape in
  let index_gQQ := zip_with limit_max index_gQQ WebRtcIsacfix_kMaxIndGain in
  let! shape_cdf := rd WebRtcIsacfix_kCdfShapePtr 0 in
  let! gain_cdf := rd WebRtcIsacfix_kCdfGainPtr 0 in
  let! shape := shape_levels 0 index_sQQ in
  let! gain := gain_levels 0 index_gQQ in
  let! (status, streamdata) :=
    call (WebRtcIsacfix_EncHistMulti streamdata [0] WebRtcIsacfix_kModelCdfPtr 1) in
  if status <? 0 then Cont (status, shape ++ gain, streamdata) else
  let! (status, streamdata) :=
    call (WebRtcIsacfix_EncHistMulti streamdata index_sQQ shape_cdf KLT_ORDER_SHAPE) in
  if status <? 0 then Cont (status, shape ++ gain, streamdata) else
  let! (status, streamdata) :=
    call (WebRtcIsacfix_EncHistMulti streamdata index_gQQ gain_cdf KLT_ORDER_GAIN) in
  Cont (status, shape ++ gain, streamdata).

Definition lpc_decode (streamdata : Bitstr_dec) : dec_result :=
  let! (err, streamdata, data) :=
    call (WebRtcIsacfix_DecHistOneStepMulti streamdata WebRtcIsacfix_kModelCdfPtr
            WebRtcIsacfix_kModelInitIndex 1) in
  if err <? 0 then Cont (err, [], streamdata) else
  let! model := rd data 0 in
  let! shape_cdf := rd WebRtcIsacfix_kCdfShapePtr model in
  let! shape_init := rd WebRtcIsacfix_kInitIndexShape model in
  let! (err, streamdata, index_QQ) :=
    call (WebRtcIsacfix_DecHistOneStepMulti streamdata shape_cdf shape_init KLT_ORDER_SHAPE) in
  if err <? 0 then Cont (err, [], streamdata) else
  let! shape := shape_levels model index_QQ in
  let! gain_cdf := rd WebRtcIsacfix_kCdfGainPtr model in
  let! gain_init := rd WebRtcIsacfix_kInitIndexGain model in
  let! (err, streamdata, index_QQ) :=
    call (WebRtcIsacfix_DecHistOneStepMulti streamdata gain_cdf gain_init KLT_ORDER_GAIN) in
  if err <? 0 then Cont (err, [], streamdata) else
  let! gain := gain_levels model index_QQ in
  Cont (0, shape ++ gain, streamdata).
