(* ===== verification/IsacFrame.v ===== *)
(** * Encoder and decoder agree on every frame parameter

    The interface [InSync] says what an encoding function and a decoding function
    of IsacClients.v promise each other; each pair is an instance, and a frame of
    any sequence of parameters is decoded to what its encoder went on with. *)
From S2P Require Import Prelude IsacArith IsacInterval IsacDecode IsacRoundTrip IsacTables IsacClients.
Local Open Scope Z_scope.

(** ** The interface *)

(** [enc] puts symbols in the stream that [dec] turns into [v], the value the
    encoding side holds afterwards. *)
Class InSync (enc : Bitstr_enc -> enc_result) (dec : Bitstr_dec -> dec_result) (v : list Z)
    : Prop := in_sync : exists parts,
  Forall part_ok parts /\
  (forall a e, enc_at a e ->
     (exists e', enc e = Cont (0, v, e') /\ enc_at (i_parts parts a) e') \/
     (exists e', enc e = Cont (- ISAC_DISALLOWED_BITSTREAM_LENGTH, v, e'))) /\
  (forall S a s, Forall is_u16 S -> iv_wide a -> dec_ready S a s ->
     let a' := i_parts parts a in
     in_stream S a' -> contains S a' -> i_pos a' < 2 * STREAM_MAXW16_60MS ->
     exists err s', 0 <= err /\ dec s = Cont (err, v, s') /\ dec_ready S a' s').

(** ** Calls *)

Lemma enc_hist_call a e data cdf n :
  enc_at a e -> Forall2 sym_ok data cdf -> n = Zlen data ->
  (exists e', call (R := Empty_set) (WebRtcIsacfix_EncHistMulti e data cdf n) = Cont (0, e') /\
     enc_at (i_symbols (hist_pairs data cdf) a) e') \/
  (exists e', call (R := Empty_set) (WebRtcIsacfix_EncHistMulti e data cdf n) =
     Cont (- ISAC_DISALLOWED_BITSTREAM_LENGTH, e')).
Proof.
  intros He Hd ->. destruct (enc_multi_spec e a data cdf He Hd) as [(e' & -> & H)|(e' & ->)];
    [left|right]; by exists e'.
Qed.

Section decoding.
Context (S : list Z) (a : interval) (s : Bitstr_dec) (data : list Z) (cdf : list (list Z)).
Hypothesis HS : Forall is_u16 S.
Hypothesis Ha : iv_wide a.
Hypothesis Hs : dec_ready S a s.
Hypothesis Hd : Forall2 sym_ok data cdf.
Let a' := i_symbols (hist_pairs data cdf) a.
Hypothesis Hin : in_stream S a'.
Hypothesis Hc : contains S a'.
Hypothesis Hpos : i_pos a' < 2 * STREAM_MAXW16_60MS.

Lemma call_code : 0 <= flush_len a'.
Proof using Ha Hd.
  destruct (iv_symbols_wide _ a Ha (hist_pairs_good _ _ Hd)) as [[Hp _ _] _].
  pose proof (flush_len_pos a' Hp). lia.
Qed.

Lemma one_step_call init n :
  Forall2 init_ok cdf init -> n = Zlen cdf ->
  exists err s', 0 <= err /\
    call (R := Empty_set) (WebRtcIsacfix_DecHistOneStepMulti s cdf init n) = Cont (err, s', data) /\
    dec_ready S a' s'.
Proof using All.
  intros Hi ->.
  destruct (dec_call_spec S a s data cdf (OneStep init) HS Ha Hs Hd Hi Hin Hc) as (s' & Hrun & Hr).
  { by apply i_pos_ptr. }
  cbn [dec_call] in Hrun. rewrite Hrun. exists (flush_len a'), s'. split; [apply call_code|done].
Qed.

Lemma bisect_call size n :
  Forall2 size_ok cdf size -> n = Zlen cdf ->
  exists err s', 0 <= err /\
    call (R := Empty_set) (WebRtcIsacfix_DecHistBisectMulti s cdf size n) = Cont (err, s', data) /\
    dec_ready S a' s'.
Proof using All.
  intros Hi ->.
  destruct (dec_call_spec S a s data cdf (Bisect size) HS Ha Hs Hd Hi Hin Hc) as (s' & Hrun & Hr).
  { by apply i_pos_ptr. }
  cbn [dec_call] in Hrun. rewrite Hrun. exists (flush_len a'), s'. split; [apply call_code|done].
Qed.
End decoding.

Lemma nonneg_code err : 0 <= err -> (err <? 0) = false.
Proof. intros. by apply Z.ltb_ge. Qed.

(** One symbol, one table, the one-step decoder. *)
Lemma single_sym d c n : covers c n = true -> 0 <= d < n -> Forall2 sym_ok [d] [c].
Proof. intros Hc Hd. constructor; [by eapply covers_sym|constructor]. Qed.

(** Indices below the sizes their tables cover. *)
Lemma covers_syms index cdf ns :
  Forall2 (fun i n => 0 <= i < n) index ns -> forall2b covers cdf ns = true ->
  Forall2 sym_ok index cdf.
Proof.
  intros H. revert cdf. induction H as [|i n index ns Hi _ IH]; intros [|c cdf] Hb; try done.
  apply andb_true_iff in Hb as [Hc Hb]. constructor; [by eapply covers_sym|by apply IH].
Qed.

(** ** Frame length and bandwidth *)

#[export] Instance frame_len_in_sync n :
  n = 480 \/ n = 960 ->
  InSync (WebRtcIsacfix_EncodeFrameLen n) WebRtcIsacfix_DecodeFrameLen [n].
Proof.
  intros Hn. set (m := if n =? 480 then 1 else 2).
  assert (Hsym : Forall2 sym_ok [m] kFrameLenCdfPtr).
  { apply (single_sym _ _ 3); [reflexivity|]. unfold m. destruct (_ =? _); lia. }
  exists [([m], kFrameLenCdfPtr)]. split; [by constructor|]. split.
  - intros a e He. unfold WebRtcIsacfix_EncodeFrameLen.
    replace (if n =? 480 then 1 else if n =? 960 then 2 else 0) with m
      by (unfold m; destruct Hn as [-> | ->]; done).
    replace (m =? 0) with false by (unfold m; by destruct (n =? 480)).
    destruct (enc_hist_call a e [m] kFrameLenCdfPtr 1 He Hsym eq_refl) as [(e' & -> & H)|(e' & ->)];
      [left|right]; by exists e'.
  - intros S a s HS Ha Hs a' Hin Hc Hpos.
    destruct (one_step_call S a s [m] _ HS Ha Hs Hsym Hin Hc Hpos kFrameLenInitIndex 1)
      as (err & s' & Herr & Hrun & Hr); [by constructor|done|].
    exists err, s'. split; [done|]. split; [|done].
    unfold WebRtcIsacfix_DecodeFrameLen. rewrite Hrun. cbn [flow_bind].
    rewrite nonneg_code by done. cbn [flow_bind rd]. unfold m. by destruct Hn as [-> | ->].
Qed.

#[export] Instance bandwidth_in_sync b :
  0 <= b < 24 ->
  InSync (WebRtcIsacfix_EncodeReceiveBandwidth b) WebRtcIsacfix_DecodeSendBandwidth [b].
Proof.
  intros Hb. assert (Hsym : Forall2 sym_ok [b] kBwCdfPtr) by by apply (single_sym _ _ 24).
  exists [([b], kBwCdfPtr)]. split; [by constructor|]. split.
  - intros a e He. unfold WebRtcIsacfix_EncodeReceiveBandwidth.
    destruct (enc_hist_call a e [b] kBwCdfPtr 1 He Hsym eq_refl) as [(e' & -> & H)|(e' & ->)];
      [left|right]; by exists e'.
  - intros S a s HS Ha Hs a' Hin Hc Hpos.
    destruct (one_step_call S a s [b] _ HS Ha Hs Hsym Hin Hc Hpos kBwInitIndex 1)
      as (err & s' & Herr & Hrun & Hr); [by constructor|done|].
    exists err, s'. split; [done|]. split; [|done].
    unfold WebRtcIsacfix_DecodeSendBandwidth. rewrite Hrun. cbn [flow_bind].
    by rewrite nonneg_code by done.
Qed.

(** ** Scalar quantisers *)

Section quantiser.
Context (bound : list Z) (x n : Z).
Hypothesis Hlen : Zlen bound = n + 1.
Hypothesis Hx : bound !!! 0%nat <= x <= bound !!! Z.to_nat n.

Lemma quant_up_spec {R} fuel index :
  0 <= index < n -> n - index <= Z.of_nat fuel -> bound !!! Z.to_nat index < x ->
  exists i, quant_up (R := R) fuel bound x index = Cont i /\ 0 <= i < n /\
    bound !!! Z.to_nat i <= x <= bound !!! Z.to_nat (i + 1).
Proof using All.
  revert index. induction fuel as [|fuel IH]; intros index Hi Hf Hlt; [lia|].
  cbn [quant_up]. rewrite rd_total by lia. cbn [flow_bind].
  destruct (Z.ltb_spec (bound !!! Z.to_nat (index + 1)) x) as [Hb|Hb].
  - apply IH; [|lia|done]. assert (index + 1 <> n) by (intros E; rewrite E in Hb; lia). lia.
  - exists index. split; [done|]. split; lia.
Qed.

Lemma quant_down_spec {R} fuel index :
  0 < index <= n -> index <= Z.of_nat fuel -> x <= bound !!! Z.to_nat index ->
  exists i, quant_down (R := R) fuel bound x index = Cont i /\ 0 <= i < n /\
    bound !!! Z.to_nat i <= x <= bound !!! Z.to_nat (i + 1).
Proof using All.
  revert index. induction fuel as [|fuel IH]; intros index Hi Hf Hle; [lia|].
  cbn [quant_down]. rewrite rd_total by lia. cbn [flow_bind].
  destruct (Z.ltb_spec x (bound !!! Z.to_nat (index - 1))) as [Hb|Hb].
  - apply IH; [|lia|lia]. assert (index - 1 <> 0) by (intros E; rewrite E in Hb; change (Z.to_nat 0) with 0%nat in Hb; lia).
    lia.
  - exists (index - 1). split; [done|]. replace (index - 1 + 1) with index by lia. split; lia.
Qed.

(** The search finds a cell that holds the value, from any start inside. *)
Lemma quant_index_spec {R} init :
  0 < init < n ->
  exists i, quant_index (R := R) bound init x = Cont i /\ 0 <= i < n /\
    bound !!! Z.to_nat i <= x <= bound !!! Z.to_nat (i + 1).
Proof using All.
  intros Hi. unfold quant_index. rewrite rd_total by lia. cbn [flow_bind].
  destruct (Z.ltb_spec (bound !!! Z.to_nat init) x) as [Hb|Hb].
  - apply quant_up_spec; unfold Zlen in *; lia.
  - apply quant_down_spec; unfold Zlen in *; lia.
Qed.
End quantiser.

(** ** Squared gain and reflection coefficients *)

Lemma gain2_in_sync g :
  0 <= g < 2147483648 ->
  exists v, InSync (WebRtcIsacfix_EncodeGain2 g) WebRtcIsacfix_DecodeGain2 v.
Proof.
  intros Hg.
  destruct (quant_index_spec WebRtcIsacfix_kGain2Bound g 18 eq_refl) with (R := Empty_set) (init := 11)
    as (i & Hi & Hr & _); [change (0 <= g <= 2147483647); lia|lia|].
  assert (Hsym : Forall2 sym_ok [i] WebRtcIsacfix_kGainPtr) by by apply (single_sym _ _ 18).
  assert (Hlev : rd (R := Empty_set) WebRtcIsacfix_kGain2Lev i =
                 Cont (WebRtcIsacfix_kGain2Lev !!! Z.to_nat i)) by by apply rd_total.
  exists [WebRtcIsacfix_kGain2Lev !!! Z.to_nat i], [([i], WebRtcIsacfix_kGainPtr)].
  split; [by constructor|]. split.
  - intros a e He. unfold WebRtcIsacfix_EncodeGain2.
    change (rd WebRtcIsacfix_kGainInitInd 0) with (Cont (R := Empty_set) 11). cbn [flow_bind].
    rewrite Hi. cbn [flow_bind]. rewrite Hlev. cbn [flow_bind].
    destruct (enc_hist_call a e [i] WebRtcIsacfix_kGainPtr 1 He Hsym eq_refl)
      as [(e' & -> & H)|(e' & ->)]; [left|right]; by exists e'.
  - intros S a s HS Ha Hs a' Hin Hc Hpos.
    destruct (one_step_call S a s [i] _ HS Ha Hs Hsym Hin Hc Hpos WebRtcIsacfix_kGainInitInd 1)
      as (err & s' & Herr & Hrun & Hr'); [by constructor|done|].
    exists 0, s'. split; [done|]. split; [|done].
    unfold WebRtcIsacfix_DecodeGain2. rewrite Hrun. cbn [flow_bind].
    rewrite nonneg_code by done. change (rd [i] 0) with (Cont (R := Empty_set) i).
    cbn [flow_bind]. by rewrite Hlev.
Qed.

(** The quantised values are the levels of the indices. *)
Lemma rc_quantize_spec inits levs xs :
  Forall is_s16 xs -> Forall2 (fun init lev => 0 < init < 11 /\ Zlen lev = 11) inits levs ->
  length xs = length inits ->
  exists index ys, rc_quantize (R := Empty_set) inits levs xs = Cont (index, ys) /\
    levels_of (R := Empty_set) levs index = Cont ys /\
    Forall2 (fun i n => 0 <= i < n) index (replicate (length inits) 11).
Proof.
  intros Hxs H. revert xs Hxs. induction H as [|init lev inits levs [Hi Hl] _ IH];
    intros [|x xs] Hxs Hlen; try done.
  { exists [], []. by repeat split. }
  apply Forall_cons in Hxs as [Hx Hxs]. injection Hlen as Hlen.
  destruct (IH xs Hxs Hlen) as (index & ys & Hrun & Hlev & Hall).
  destruct (quant_index_spec WebRtcIsacfix_kRcBound x 11 eq_refl) with (R := Empty_set) (init := init)
    as (i & Hq & Hr & _); [change (-32768 <= x <= 32767); unfold is_s16 in Hx; lia|done|].
  exists (i :: index), (lev !!! Z.to_nat i :: ys). cbn [rc_quantize levels_of].
  rewrite Hq. cbn [flow_bind]. rewrite rd_total by lia. cbn [flow_bind].
  rewrite Hrun, Hlev. cbn [flow_bind]. split; [done|]. split; [done|]. by constructor.
Qed.

Lemma rc_in_sync rc :
  Forall is_s16 rc -> length rc = 6%nat ->
  exists v, InSync (WebRtcIsacfix_EncodeRcCoef rc) WebRtcIsacfix_DecodeRcCoef v.
Proof.
  intros Hs16 Hlen.
  destruct (rc_quantize_spec WebRtcIsacfix_kRcInitInd WebRtcIsacfix_kRcLevPtr rc Hs16)
    as (index & ys & Hq & Hlev & Hall); [by repeat constructor|done|].
  assert (Hsym : Forall2 sym_ok index WebRtcIsacfix_kRcCdfPtr)
    by by apply (covers_syms _ _ (replicate 6 11)).
  assert (Hn : AR_ORDER = Zlen index) by (unfold Zlen; by rewrite (Forall2_length _ _ _ Hall)).
  exists ys, [(index, WebRtcIsacfix_kRcCdfPtr)]. split; [by constructor|]. split.
  - intros a e He. unfold WebRtcIsacfix_EncodeRcCoef. rewrite Hq. cbn [flow_bind].
    destruct (enc_hist_call a e index WebRtcIsacfix_kRcCdfPtr AR_ORDER He Hsym Hn)
      as [(e' & -> & H)|(e' & ->)]; [left|right]; by exists e'.
  - intros S a s HS Ha Hs a' Hin Hc Hpos.
    destruct (one_step_call S a s index _ HS Ha Hs Hsym Hin Hc Hpos WebRtcIsacfix_kRcInitInd AR_ORDER)
      as (err & s' & Herr & Hrun & Hr'); [by repeat constructor|done|].
    exists 0, s'. split; [done|]. split; [|done].
    unfold WebRtcIsacfix_DecodeRcCoef. rewrite Hrun. cbn [flow_bind].
    rewrite nonneg_code by done. by rewrite Hlev.
Qed.

(** ** Pitch gains *)

Lemma limit_index_range i lower upper :
  -32768 <= lower <= upper -> upper - lower < 32768 ->
  0 <= limit_index i lower upper <= upper - lower.
Proof. intros. unfold limit_index. zcases; rewrite s16_id; unfold is_s16; lia. Qed.

Lemma transform_total {R} row x shift acc :
  (length row <= length x)%nat -> exists y, transform (R := R) row x shift acc = Cont y.
Proof.
  revert x acc. induction row as [|t row IH]; intros [|v x] acc Hl; cbn in *; try lia; eauto with lia.
Qed.

(** A checked read that evaluates. *)
Ltac step_rd :=
  match goal with
  | |- context [rd ?l ?i] =>
      let v := eval vm_compute in (rd (R := Empty_set) l i) in
      lazymatch v with Cont _ => change (rd l i) with v; cbn [flow_bind] end
  end.

Lemma gain_index_range g k lower upper row :
  length g = 4%nat -> length row = 4%nat ->
  rd (R := Empty_set) WebRtcIsacfix_kTransform k = Cont row ->
  rd (R := Empty_set) WebRtcIsacfix_kLowerlimiGain k = Cont lower ->
  rd (R := Empty_set) WebRtcIsacfix_kUpperlimitGain k = Cont upper ->
  -32768 <= lower <= upper -> upper - lower < 32768 ->
  exists i, gain_index (R := Empty_set) g k = Cont i /\ 0 <= i <= upper - lower.
Proof.
  intros Hg Hrow Ht Hl Hu H1 H2. unfold gain_index. rewrite Ht. cbn [flow_bind].
  destruct (transform_total (R := Empty_set) row g 10 0) as [y ->]; [lia|]. cbn [flow_bind].
  rewrite Hl, Hu. cbn [flow_bind]. eexists; split; [done|]. by apply limit_index_range.
Qed.

Lemma pitch_gain_levels i :
  0 <= i < 144 ->
  exists v, levels_of (R := Empty_set) kPitchGains (replicate 4 i) = Cont v.
Proof.
  intros Hi. cbn [levels_of kPitchGains replicate].
  rewrite !rd_total by done. eexists; reflexivity.
Qed.

Lemma pitch_gain_in_sync g :
  length g = 4%nat ->
  exists v, InSync (WebRtcIsacfix_EncodePitchGain g) WebRtcIsacfix_DecodePitchGain v.
Proof.
  intros Hg. set (sq := map (fun g => s16 (Z.shiftr (g * 33) 2)) g).
  assert (Hsq : length sq = 4%nat) by (unfold sq; by rewrite length_map).
  destruct (gain_index_range sq 0 (-7) 0 [-2048; -2048; -2048; -2048]) as (i0 & H0 & R0); try done.
  destruct (gain_index_range sq 1 (-2) 3 [2748; 916; -916; -2748]) as (i1 & H1 & R1); try done.
  destruct (gain_index_range sq 2 (-1) 1 [2048; -2048; -2048; 2048]) as (i2 & H2 & R2); try done.
  set (i := s16 (18 * i0 + 3 * i1 + i2)).
  assert (Hi : 0 <= i < 144) by (unfold i; rewrite s16_id by (unfold is_s16; lia); lia).
  destruct (pitch_gain_levels i Hi) as [v Hv].
  assert (Hsym : Forall2 sym_ok [i] [WebRtcIsacfix_kPitchGainCdf])
    by by apply (single_sym _ _ 144).
  exists v, [([i], [WebRtcIsacfix_kPitchGainCdf])]. split; [by constructor|]. split.
  - intros a e He. unfold WebRtcIsacfix_EncodePitchGain. fold sq.
    rewrite H0, H1, H2. cbn [flow_bind]. repeat step_rd. fold i. rewrite Hv. cbn [flow_bind].
    destruct (enc_hist_call a e [i] [WebRtcIsacfix_kPitchGainCdf] 1 He Hsym eq_refl)
      as [(e' & -> & H)|(e' & ->)]; [left|right]; by exists e'.
  - intros S a s HS Ha Hs a' Hin Hc Hpos.
    destruct (bisect_call S a s [i] _ HS Ha Hs Hsym Hin Hc Hpos WebRtcIsacfix_kCdfTableSizeGain 1)
      as (err & s' & Herr & Hrun & Hr'); [|done|].
    { constructor; [|constructor]. exists 8%nat. split; [lia|done]. }
    exists 0, s'. split; [done|]. split; [|done].
    unfold WebRtcIsacfix_DecodePitchGain. rewrite Hrun. cbn [flow_bind].
    rewrite nonneg_code by done. change (rd [i] 0) with (Cont (R := Empty_set) i).
    cbn [flow_bind]. destruct (Z.ltb_spec i 0), (Z.leb_spec 144 i); try lia. cbn [orb].
    by rewrite Hv.
Qed.

(** ** Pitch lags *)

(** Number of values index [k] can take. *)
Definition lag_count (t : lag_tables) (k : nat) : Z :=
  upper_limit t !!! k - lower_limit t !!! k + 1.

(** The tables of one voicing class fit together. *)
Record lag_wf (t : lag_tables) : Prop := {
  lw_lower : Zlen (lower_limit t) = 4;
  lw_upper : Zlen (upper_limit t) = 4;
  lw_range : Forall (fun k => -32768 <= lower_limit t !!! k /\ 1 <= lag_count t k <= 32768) (seq 0 4);
  lw_covers : forall2b covers (lag_cdf t) (map (lag_count t) (seq 0 4)) = true;
  lw_mean2 : lag_count t 1 <= Zlen (mean_val2Q10 t);
  lw_mean4 : lag_count t 3 <= Zlen (mean_val4Q10 t);
  lw_size : Forall2 size_ok (take 1 (lag_cdf t)) (lag_cdf_size t);
  lw_init : Forall2 init_ok (drop 1 (lag_cdf t)) (init_index t)
}.

Ltac lag_wf_solve k :=
  split; try done; cbn; repeat constructor; try done; exists k; split; [lia|done].

Lemma lag_lo_wf : lag_wf lag_lo.
Proof. lag_wf_solve 7%nat. Qed.
Lemma lag_mid_wf : lag_wf lag_mid.
Proof. lag_wf_solve 8%nat. Qed.
Lemma lag_hi_wf : lag_wf lag_hi.
Proof. lag_wf_solve 9%nat. Qed.

Lemma voicing_wf g : lag_wf (voicing g).
Proof.
  unfold voicing. destruct (_ <=? _); [apply lag_lo_wf|].
  destruct (_ <=? _); [apply lag_mid_wf|apply lag_hi_wf].
Qed.

Lemma lag_index_range t lags (k : nat) :
  lag_wf t -> length lags = 4%nat -> (k < 4)%nat ->
  exists i, lag_index (R := Empty_set) t lags (Z.of_nat k) = Cont i /\ 0 <= i < lag_count t k.
Proof.
  intros Hw Hl Hk. unfold lag_index.
  assert (Hrow : exists row, rd (R := Empty_set) WebRtcIsacfix_kTransform (Z.of_nat k) = Cont row /\
            length row = 4%nat).
  { destruct k as [|[|[|[|k]]]]; try lia; eexists; done. }
  destruct Hrow as (row & -> & Hrow). cbn [flow_bind].
  destruct (transform_total (R := Empty_set) row lags 2 0) as [y ->]; [lia|]. cbn [flow_bind].
  pose proof (lw_lower t Hw). pose proof (lw_upper t Hw).
  rewrite !rd_total by lia. cbn [flow_bind]. rewrite !Nat2Z.id. eexists; split; [done|].
  pose proof (lw_range t Hw) as Hr. rewrite Forall_forall in Hr.
  specialize (Hr k ltac:(apply list_elem_of_In, in_seq; lia)). unfold lag_count in *.
  match goal with |- 0 <= limit_index ?i ?l ?u < _ => pose proof (limit_index_range i l u) end. lia.
Qed.

Lemma unquantize_lags_total t i0 i1 i2 i3 :
  lag_wf t -> 0 <= i1 < lag_count t 1 -> 0 <= i3 < lag_count t 3 ->
  exists v, unquantize_lags (R := Empty_set) t [i0; i1; i2; i3] = Cont v.
Proof.
  intros Hw H1 H3. unfold unquantize_lags.
  pose proof (lw_lower t Hw). pose proof (lw_mean2 t Hw). pose proof (lw_mean4 t Hw).
  repeat step_rd. rewrite (rd_total (lower_limit t)) by lia. cbn [flow_bind]. repeat step_rd.
  rewrite (rd_total (mean_val2Q10 t)) by lia. cbn [flow_bind].
  rewrite (rd_total (mean_val4Q10 t)) by lia. cbn [flow_bind]. by eexists.
Qed.

(** A call for one symbol only looks at the first table. *)
Lemma bisect_first s c cs size :
  WebRtcIsacfix_DecHistBisectMulti s (c :: cs) size 1 = WebRtcIsacfix_DecHistBisectMulti s [c] size 1.
Proof. done. Qed.

Lemma pitch_lag_in_sync lags g :
  length lags = 4%nat ->
  exists v, InSync (WebRtcIsacfix_EncodePitchLag lags g) (WebRtcIsacfix_DecodePitchLag g) v.
Proof.
  intros Hl. set (t := voicing g). pose proof (voicing_wf g) as Hw. fold t in Hw.
  destruct (lag_index_range t lags 0 Hw Hl) as (i0 & H0 & R0); [lia|].
  destruct (lag_index_range t lags 1 Hw Hl) as (i1 & H1 & R1); [lia|].
  destruct (lag_index_range t lags 2 Hw Hl) as (i2 & H2 & R2); [lia|].
  destruct (lag_index_range t lags 3 Hw Hl) as (i3 & H3 & R3); [lia|].
  destruct (unquantize_lags_total t i0 i1 i2 i3 Hw R1 R3) as [v Hv].
  assert (Hsym : Forall2 sym_ok [i0; i1; i2; i3] (lag_cdf t)).
  { apply (covers_syms _ _ _) with (2 := lw_covers t Hw).
    cbn [map seq]. repeat (constructor; [assumption|]). constructor. }
  inversion Hsym as [|? c0 ? cs Hs0 Hs Hx Hcdf]; subst. symmetry in Hcdf.
  assert (Hs1 : Forall2 sym_ok [i0] [c0]) by by constructor.
  exists v, [([i0], [c0]); ([i1; i2; i3], cs)]. split.
  { constructor; [done|by constructor]. }
  split.
  - intros a e He. unfold WebRtcIsacfix_EncodePitchLag. fold t.
    change (Z.of_nat 0) with 0 in H0. change (Z.of_nat 1) with 1 in H1.
    change (Z.of_nat 2) with 2 in H2. change (Z.of_nat 3) with 3 in H3.
    rewrite H0, H1, H2, H3. cbn [flow_bind]. rewrite Hv. cbn [flow_bind].
    destruct (enc_hist_call a e _ _ PITCH_SUBFRAMES He Hsym eq_refl) as [(e' & -> & H)|(e' & ->)];
      [left|right]; exists e'; [|done]. split; [done|]. by rewrite Hcdf in H.
  - intros S a s HS Ha Hs' a' Hin Hc Hpos.
    pose proof (iv_symbols_wide _ a Ha (hist_pairs_good _ _ Hs1)) as Hw1.
    pose proof (hist_pairs_good _ _ Hs) as Hg. cbn [i_parts fst snd] in a'.
    destruct (contains_symbols _ S _ HS Hw1 Hg Hin Hc) as (Hc1 & Hin1 & _).
    pose proof (i_pos_symbols (hist_pairs [i1; i2; i3] cs) (i_symbols (hist_pairs [i0] [c0]) a)) as Hle.
    fold a' in Hle. pose proof (lw_size t Hw) as Hsz. pose proof (lw_init t Hw) as Hin0.
    rewrite Hcdf in Hsz, Hin0. cbn [take drop] in Hsz, Hin0.
    destruct (bisect_call S a s [i0] [c0] HS Ha Hs' Hs1 Hin1 Hc1
      ltac:(lia) (lag_cdf_size t) 1 Hsz eq_refl) as (err & s1 & Herr & Hrun & Hr1).
    destruct (one_step_call S _ s1 [i1; i2; i3] cs HS Hw1 Hr1 Hs Hin Hc Hpos (init_index t) 3 Hin0)
      as (err' & s2 & Herr' & Hrun' & Hr2).
    { unfold Zlen. by rewrite <- (Forall2_length _ _ _ Hs). }
    exists 0, s2. split; [done|]. split; [|done].
    unfold WebRtcIsacfix_DecodePitchLag. fold t. rewrite Hcdf.
    rewrite bisect_first, Hrun. cbn [flow_bind]. rewrite nonneg_code by done.
    change (rd [i0] 0) with (Cont (R := Empty_set) i0). cbn [flow_bind].
    rewrite nonneg_code by lia. change (drop 1 (c0 :: cs)) with cs. rewrite Hrun'. cbn [flow_bind].
    rewrite nonneg_code by done. by rewrite Hv.
Qed.

(** ** LPC indices *)

Lemma limit_all index maxs :
  length index = length maxs -> Forall (fun m => 0 <= m) maxs ->
  Forall2 (fun i n => 0 <= i < n) (zip_with limit_max index maxs) (map (Z.add 1) maxs).
Proof.
  revert maxs. induction index as [|i index IH]; intros [|m maxs] Hl Hm; try done; cbn.
  apply Forall_cons in Hm as [Hm Hms]. injection Hl as Hl.
  constructor; [unfold limit_max; zcases; lia|by apply IH].
Qed.

Definition levels_fit (levels : list Z) (ofs : Z) (offset ns : list Z) : bool :=
  forall2b (fun o n => (0 <=? ofs + o) && (ofs + o + n <=? Zlen levels)) offset ns.

Lemma lpc_levels_total {R} levels ofs offset index ns :
  Forall2 (fun i n => 0 <= i < n) index ns -> levels_fit levels ofs offset ns = true ->
  exists ys, lpc_levels (R := R) levels ofs offset index = Cont ys.
Proof.
  intros H. revert offset. induction H as [|i n index ns Hi _ IH]; intros [|o offset] Hb; try done.
  { by eexists. }
  unfold levels_fit in Hb. cbn [forall2b] in Hb. apply andb_true_iff in Hb as [Hb1 Hb].
  apply andb_true_iff in Hb1 as [Ho Hn]. cbn [lpc_levels].
  rewrite rd_total by lia. cbn [flow_bind]. destruct (IH offset Hb) as [ys ->]. by eexists.
Qed.

(** The order of one model's tables fits together. *)
Definition model_ok (model : nat) (cdf : list (list (list Z))) (init : list (list Z))
    (levels ofs : list Z) (offset : list (list Z)) : bool :=
  let ns := map (fun c => Zlen c - 1) (cdf !!! model) in
  forall2b covers (cdf !!! model) ns &&
  forall2b (fun c i => (0 <=? i) && (i <? Zlen c)) (cdf !!! model) (init !!! model) &&
  levels_fit levels (ofs !!! model) (offset !!! model) ns.

Definition shape_model_ok (model : nat) : bool :=
  model_ok model WebRtcIsacfix_kCdfShapePtr WebRtcIsacfix_kInitIndexShape
    WebRtcIsacfix_kLevelsShapeQ10 WebRtcIsacfix_kOfLevelsShape WebRtcIsacfix_kOffsetShape.
Definition gain_model_ok (model : nat) : bool :=
  model_ok model WebRtcIsacfix_kCdfGainPtr WebRtcIsacfix_kInitIndexGain
    WebRtcIsacfix_kLevelsGainQ17 WebRtcIsacfix_kOfLevelsGain WebRtcIsacfix_kOffsetGain.

Lemma shape_models : forallb shape_model_ok [0; 1; 2]%nat = true.
Proof. vm_compute. reflexivity. Qed.
Lemma gain_models : forallb gain_model_ok [0; 1; 2]%nat = true.
Proof. vm_compute. reflexivity. Qed.

(** What one table set promises about indices its tables can decode. *)
Lemma model_ok_spec model cdf init levels ofs offset index :
  model_ok model cdf init levels ofs offset = true ->
  Forall2 (fun i n => 0 <= i < n) index (map (fun c => Zlen c - 1) (cdf !!! model)) ->
  Forall2 sym_ok index (cdf !!! model) /\ Forall2 init_ok (cdf !!! model) (init !!! model) /\
  exists ys, lpc_levels (R := Empty_set) levels (ofs !!! model) (offset !!! model) index = Cont ys.
Proof.
  unfold model_ok. intros H Hi. apply andb_true_iff in H as [H Hfit].
  apply andb_true_iff in H as [Hcov Hinit]. split; [by eapply covers_syms|]. split.
  - eapply forall2b_spec; [|done]. cbn. intros c i Hb. unfold init_ok. lia.
  - by eapply lpc_levels_total.
Qed.

Lemma shape_levels_eq m index :
  (m < 3)%nat ->
  shape_levels (R := Empty_set) (Z.of_nat m) index =
    lpc_levels WebRtcIsacfix_kLevelsShapeQ10 (WebRtcIsacfix_kOfLevelsShape !!! m)
      (WebRtcIsacfix_kOffsetShape !!! m) index.
Proof. intros Hm. destruct m as [|[|[|m]]]; [done..|lia]. Qed.

Lemma gain_levels_eq m index :
  (m < 3)%nat ->
  gain_levels (R := Empty_set) (Z.of_nat m) index =
    lpc_levels WebRtcIsacfix_kLevelsGainQ17 (WebRtcIsacfix_kOfLevelsGain !!! m)
      (WebRtcIsacfix_kOffsetGain !!! m) index.
Proof. intros Hm. destruct m as [|[|[|m]]]; [done..|lia]. Qed.

Lemma max_shape_counts :
  map (Z.add 1) WebRtcIsacfix_kMaxIndShape = map (fun c => Zlen c - 1) (WebRtcIsacfix_kCdfShapePtr !!! 0%nat).
Proof. vm_compute. reflexivity. Qed.

Lemma max_gain_counts :
  map (Z.add 1) WebRtcIsacfix_kMaxIndGain = map (fun c => Zlen c - 1) (WebRtcIsacfix_kCdfGainPtr !!! 0%nat).
Proof. vm_compute. reflexivity. Qed.

Lemma max_nonneg :
  Forall (fun m => 0 <= m) WebRtcIsacfix_kMaxIndShape /\
  Forall (fun m => 0 <= m) WebRtcIsacfix_kMaxIndGain.
Proof. split; apply (bool_decide_unpack _); vm_compute; exact I. Qed.

Lemma shape_indices index :
  length index = 108%nat ->
  let lim := zip_with limit_max index WebRtcIsacfix_kMaxIndShape in
  Forall2 sym_ok lim (WebRtcIsacfix_kCdfShapePtr !!! 0%nat) /\
  Forall2 init_ok (WebRtcIsacfix_kCdfShapePtr !!! 0%nat) (WebRtcIsacfix_kInitIndexShape !!! 0%nat) /\
  Zlen lim = KLT_ORDER_SHAPE /\
  exists ys, shape_levels (R := Empty_set) 0 lim = Cont ys.
Proof.
  intros Hl lim. destruct max_nonneg as [Hm _].
  pose proof (limit_all index WebRtcIsacfix_kMaxIndShape Hl Hm) as Hlim. rewrite max_shape_counts in Hlim. fold lim in Hlim.
  pose proof (eq_refl : shape_model_ok 0 = true) as Hok.
  destruct (model_ok_spec _ _ _ _ _ _ lim Hok Hlim) as (Hs & Hi & Hy).
  split; [done|]. split; [done|]. split.
  - unfold Zlen. rewrite (Forall2_length _ _ _ Hs). reflexivity.
  - change 0 with (Z.of_nat 0). rewrite shape_levels_eq by lia. exact Hy.
Qed.

Lemma gain_indices index :
  length index = 12%nat ->
  let lim := zip_with limit_max index WebRtcIsacfix_kMaxIndGain in
  Forall2 sym_ok lim (WebRtcIsacfix_kCdfGainPtr !!! 0%nat) /\
  Forall2 init_ok (WebRtcIsacfix_kCdfGainPtr !!! 0%nat) (WebRtcIsacfix_kInitIndexGain !!! 0%nat) /\
  Zlen lim = KLT_ORDER_GAIN /\
  exists ys, gain_levels (R := Empty_set) 0 lim = Cont ys.
Proof.
  intros Hl lim. destruct max_nonneg as [_ Hm].
  pose proof (limit_all index WebRtcIsacfix_kMaxIndGain Hl Hm) as Hlim. rewrite max_gain_counts in Hlim. fold lim in Hlim.
  pose proof (eq_refl : gain_model_ok 0 = true) as Hok.
  destruct (model_ok_spec _ _ _ _ _ _ lim Hok Hlim) as (Hs & Hi & Hy).
  split; [done|]. split; [done|]. split.
  - unfold Zlen. rewrite (Forall2_length _ _ _ Hs). reflexivity.
  - change 0 with (Z.of_nat 0). rewrite gain_levels_eq by lia. exact Hy.
Qed.

Lemma model_sym : Forall2 sym_ok [0] WebRtcIsacfix_kModelCdfPtr.
Proof. by apply (single_sym _ _ 3). Qed.

Ltac rd_first :=
  match goal with
  | |- context [rd ?l 0] =>
      change (rd l 0) with (Cont (R := Empty_set) (l !!! 0%nat)); cbn [flow_bind]
  end.

Section lpc.
Context (index_s index_g : list Z).
Hypothesis Hls : length index_s = 108%nat.
Hypothesis Hlg : length index_g = 12%nat.

Let lim_s := zip_with limit_max index_s WebRtcIsacfix_kMaxIndShape.
Let lim_g := zip_with limit_max index_g WebRtcIsacfix_kMaxIndGain.

Definition lpc_parts : list part :=
  [([0], WebRtcIsacfix_kModelCdfPtr); (lim_s, WebRtcIsacfix_kCdfShapePtr !!! 0%nat);
   (lim_g, WebRtcIsacfix_kCdfGainPtr !!! 0%nat)].

Lemma lpc_parts_ok : Forall part_ok lpc_parts.
Proof using All.
  destruct (shape_indices index_s Hls) as (Hs & _). destruct (gain_indices index_g Hlg) as (Hg & _).
  repeat apply Forall_cons_2; try apply Forall_nil_2; [apply model_sym|done|done].
Qed.

Lemma lpc_encode_spec ys zs a e :
  shape_levels (R := Empty_set) 0 lim_s = Cont ys -> gain_levels (R := Empty_set) 0 lim_g = Cont zs ->
  enc_at a e ->
  (exists e', lpc_encode index_s index_g e = Cont (0, ys ++ zs, e') /\
     enc_at (i_parts lpc_parts a) e') \/
  (exists e', lpc_encode index_s index_g e =
     Cont (- ISAC_DISALLOWED_BITSTREAM_LENGTH, ys ++ zs, e')).
Proof using All.
  intros Hy Hz He.
  destruct (shape_indices index_s Hls) as (Hs & _ & Hns & _).
  destruct (gain_indices index_g Hlg) as (Hg & _ & Hng & _).
  fold lim_s in Hs, Hns. fold lim_g in Hg, Hng.
  unfold lpc_encode. fold lim_s lim_g. do 2 rd_first.
  rewrite Hy. cbn [flow_bind]. rewrite Hz. cbn [flow_bind].
  destruct (enc_hist_call a e [0] _ 1 He model_sym eq_refl) as [(e1 & -> & H1)|(e1 & ->)];
    [|right; by exists e1]. cbn [flow_bind Z.ltb Z.compare].
  destruct (enc_hist_call _ e1 lim_s _ KLT_ORDER_SHAPE H1 Hs (eq_sym Hns)) as [(e2 & -> & H2)|(e2 & ->)];
    [|right; by exists e2]. cbn [flow_bind Z.ltb Z.compare].
  destruct (enc_hist_call _ e2 lim_g _ KLT_ORDER_GAIN H2 Hg (eq_sym Hng)) as [(e3 & -> & H3)|(e3 & ->)];
    [|right; by exists e3]. left. by exists e3.
Qed.

Lemma lpc_decode_spec ys zs S a s :
  shape_levels (R := Empty_set) 0 lim_s = Cont ys -> gain_levels (R := Empty_set) 0 lim_g = Cont zs ->
  Forall is_u16 S -> iv_wide a -> dec_ready S a s ->
  let a' := i_parts lpc_parts a in
  in_stream S a' -> contains S a' -> i_pos a' < 2 * STREAM_MAXW16_60MS ->
  exists err s', 0 <= err /\ lpc_decode s = Cont (err, ys ++ zs, s') /\ dec_ready S a' s'.
Proof using All.
  intros Hy Hz HS Ha Hs0 a' Hin Hc Hpos.
  destruct (shape_indices index_s Hls) as (Hs & His & _).
  destruct (gain_indices index_g Hlg) as (Hg & Hig & _).
  fold lim_s in Hs. fold lim_g in Hg.
  set (cs := WebRtcIsacfix_kCdfShapePtr !!! 0%nat) in *.
  set (cg := WebRtcIsacfix_kCdfGainPtr !!! 0%nat) in *.
  set (a1 := i_symbols (hist_pairs [0] WebRtcIsacfix_kModelCdfPtr) a).
  set (a2 := i_symbols (hist_pairs lim_s cs) a1).
  change a' with (i_symbols (hist_pairs lim_g cg) a2) in *.
  assert (Hw1 : iv_wide a1) by exact (iv_symbols_wide _ _ Ha (hist_pairs_good _ _ model_sym)).
  assert (Hw2 : iv_wide a2) by exact (iv_symbols_wide _ _ Hw1 (hist_pairs_good _ _ Hs)).
  destruct (contains_symbols _ S a2 HS Hw2 (hist_pairs_good _ _ Hg) Hin Hc) as (Hc2 & Hin2 & _).
  destruct (contains_symbols _ S a1 HS Hw1 (hist_pairs_good _ _ Hs) Hin2 Hc2) as (Hc1 & Hin1 & _).
  pose proof (i_pos_symbols (hist_pairs lim_g cg) a2) as Hp2.
  pose proof (i_pos_symbols (hist_pairs lim_s cs) a1) as Hp1. fold a2 in Hp1.
  destruct (one_step_call S a s [0] _ HS Ha Hs0 model_sym Hin1 Hc1 ltac:(fold a1; lia)
    WebRtcIsacfix_kModelInitIndex 1) as (e1 & s1 & He1 & Hr1 & Hd1); [by constructor|done|].
  destruct (one_step_call S a1 s1 lim_s cs HS Hw1 Hd1 Hs Hin2 Hc2 ltac:(fold a2; lia)
    _ KLT_ORDER_SHAPE His eq_refl) as (e2 & s2 & He2 & Hr2 & Hd2).
  destruct (one_step_call S a2 s2 lim_g cg HS Hw2 Hd2 Hg Hin Hc Hpos
    _ KLT_ORDER_GAIN Hig eq_refl) as (e3 & s3 & He3 & Hr3 & Hd3).
  exists 0, s3. split; [done|]. split; [|done]. unfold lpc_decode.
  rewrite Hr1. cbn [flow_bind]. rewrite nonneg_code by done.
  change (rd [0] 0) with (Cont (R := Empty_set) 0). cbn [flow_bind].
  do 2 rd_first. fold cs cg.
  rewrite Hr2. cbn [flow_bind]. rewrite nonneg_code by done. rewrite Hy. cbn [flow_bind].
  do 2 rd_first. fold cs cg.
  rewrite Hr3. cbn [flow_bind]. rewrite nonneg_code by done. by rewrite Hz.
Qed.

Lemma lpc_in_sync : exists v, InSync (lpc_encode index_s index_g) lpc_decode v.
Proof using All.
  destruct (shape_indices index_s Hls) as (_ & _ & _ & ys & Hy).
  destruct (gain_indices index_g Hlg) as (_ & _ & _ & zs & Hz).
  exists (ys ++ zs), lpc_parts. split; [apply lpc_parts_ok|]. split.
  - intros a e. by apply lpc_encode_spec.
  - intros S a s. by apply lpc_decode_spec.
Qed.
End lpc.

(** ** Frames *)

(** What an encoder is given for one parameter. *)
Inductive item : Type :=
| FrameLen (framesamples : Z)
| Bandwidth (BWno : Z)
| PitchGain (PitchGains_Q12 : list Z)
| PitchLag (PitchLags_Q7 : list Z)
| LpcIndices (index_s index_g : list Z)
| RcCoef (RCQ15 : list Z)
| Gain2 (gainQ10 : Z).

Inductive kind : Type := KFrameLen | KBandwidth | KPitchGain | KPitchLag | KLpc | KRcCoef | KGain2.

Definition kind_of (it : item) : kind :=
  match it with
  | FrameLen _ => KFrameLen
  | Bandwidth _ => KBandwidth
  | PitchGain _ => KPitchGain
  | PitchLag _ => KPitchLag
  | LpcIndices _ _ => KLpc
  | RcCoef _ => KRcCoef
  | Gain2 _ => KGain2
  end.

(** The pitch lag functions take the pitch gains as last quantised. *)
Definition enc_item (gains : list Z) (it : item) : Bitstr_enc -> enc_result :=
  match it with
  | FrameLen n => WebRtcIsacfix_EncodeFrameLen n
  | Bandwidth b => WebRtcIsacfix_EncodeReceiveBandwidth b
  | PitchGain g => WebRtcIsacfix_EncodePitchGain g
  | PitchLag l => WebRtcIsacfix_EncodePitchLag l gains
  | LpcIndices s g => lpc_encode s g
  | RcCoef r => WebRtcIsacfix_EncodeRcCoef r
  | Gain2 g => WebRtcIsacfix_EncodeGain2 g
  end.

Definition dec_item (gains : list Z) (k : kind) : Bitstr_dec -> dec_result :=
  match k with
  | KFrameLen => WebRtcIsacfix_DecodeFrameLen
  | KBandwidth => WebRtcIsacfix_DecodeSendBandwidth
  | KPitchGain => WebRtcIsacfix_DecodePitchGain
  | KPitchLag => WebRtcIsacfix_DecodePitchLag gains
  | KLpc => lpc_decode
  | KRcCoef => WebRtcIsacfix_DecodeRcCoef
  | KGain2 => WebRtcIsacfix_DecodeGain2
  end.

Definition next_gains (k : kind) (v gains : list Z) : list Z :=
  match k with KPitchGain => v | _ => gains end.

Fixpoint enc_frame (gains : list Z) (items : list item) (e : Bitstr_enc)
    : flow Empty_set (Z * list (list Z) * Bitstr_enc) :=
  match items with
  | [] => Cont (0, [], e)
  | it :: items =>
      let! (status, v, e) := enc_item gains it e in
      if status <? 0 then Cont (status, [v], e)
      else
        let! (status, vs, e) := enc_frame (next_gains (kind_of it) v gains) items e in
        Cont (status, v :: vs, e)
  end.

Fixpoint dec_frame (gains : list Z) (kinds : list kind) (s : Bitstr_dec)
    : flow Empty_set (Z * list (list Z) * Bitstr_dec) :=
  match kinds with
  | [] => Cont (0, [], s)
  | k :: kinds =>
      let! (err, v, s) := dec_item gains k s in
      if err <? 0 then Cont (err, [v], s)
      else
        let! (err, vs, s) := dec_frame (next_gains k v gains) kinds s in
        Cont (err, v :: vs, s)
  end.

(** What the functions ask of their arguments. *)
Definition item_ok (it : item) : Prop :=
  match it with
  | FrameLen n => n = 480 \/ n = 960
  | Bandwidth b => 0 <= b < 24
  | PitchGain g => length g = 4%nat
  | PitchLag l => length l = 4%nat
  | LpcIndices s g => length s = 108%nat /\ length g = 12%nat
  | RcCoef r => Forall is_s16 r /\ length r = 6%nat
  | Gain2 g => 0 <= g < 2147483648
  end.

Lemma item_in_sync gains it :
  item_ok it -> exists v, InSync (enc_item gains it) (dec_item gains (kind_of it)) v.
Proof.
  destruct it; cbn [item_ok enc_item dec_item kind_of].
  - intros H. eexists. by apply frame_len_in_sync.
  - intros H. eexists. by apply bandwidth_in_sync.
  - apply pitch_gain_in_sync.
  - apply pitch_lag_in_sync.
  - intros [H1 H2]. by apply lpc_in_sync.
  - intros [H1 H2]. by apply rc_in_sync.
  - apply gain2_in_sync.
Qed.

(** A frame behaves like one codec again. *)
Lemma frame_law gains items :
  Forall item_ok items -> exists vs parts,
  Forall part_ok parts /\
  (forall a e, enc_at a e ->
     (exists e', enc_frame gains items e = Cont (0, vs, e') /\ enc_at (i_parts parts a) e') \/
     (exists vs' e', enc_frame gains items e =
        Cont (- ISAC_DISALLOWED_BITSTREAM_LENGTH, vs', e'))) /\
  (forall S a s, Forall is_u16 S -> iv_wide a -> dec_ready S a s ->
     let a' := i_parts parts a in
     in_stream S a' -> contains S a' -> i_pos a' < 2 * STREAM_MAXW16_60MS ->
     exists s', dec_frame gains (map kind_of items) s = Cont (0, vs, s') /\ dec_ready S a' s').
Proof.
  intros H. revert gains. induction H as [|it items Hit _ IH]; intros gains.
  { exists [], []. split; [done|]. split; [intros a e He; left; by exists e|].
    intros S a s HS Ha Hs a' _ _ _. by exists s. }
  destruct (item_in_sync gains it Hit) as (v & parts & Hp & Henc & Hdec).
  destruct (IH (next_gains (kind_of it) v gains)) as (vs & parts' & Hp' & Henc' & Hdec').
  assert (Happ : forall a, i_parts (parts ++ parts') a = i_parts parts' (i_parts parts a))
    by (clear; induction parts as [|p parts IHp]; intros a; cbn; [done|apply IHp]).
  exists (v :: vs), (parts ++ parts'). split; [by apply Forall_app|]. split.
  - intros a e He. rewrite Happ. cbn [enc_frame].
    destruct (Henc a e He) as [(e1 & -> & H1)|(e1 & ->)]; cbn [flow_bind];
      [|right; by eexists _, _].
    change (0 <? 0) with false.
    destruct (Henc' _ _ H1) as [(e2 & -> & H2)|(vs' & e2 & ->)]; cbn [flow_bind];
      [left|right]; by eauto.
  - intros S a s HS Ha Hs a' Hin Hc Hpos. unfold a' in *. rewrite Happ in *.
    assert (Hw1 : iv_wide (i_parts parts a)) by by apply iv_parts_wide.
    destruct (contains_parts parts' S _ HS Hw1 Hp' Hin Hc) as [Hc1 Hin1].
    pose proof (i_pos_parts parts' (i_parts parts a)) as Hle.
    destruct (Hdec S a s HS Ha Hs Hin1 Hc1 ltac:(lia)) as (err & s1 & Herr & Hrun & Hs1).
    destruct (Hdec' S _ s1 HS Hw1 Hs1 Hin Hc Hpos) as (s2 & Hrun2 & Hs2).
    exists s2. split; [|done]. cbn [map dec_frame]. rewrite Hrun. cbn [flow_bind].
    rewrite nonneg_code by done. by rewrite Hrun2.
Qed.

(** C10: Encoder and decoder of a frame stay in step.  For any sequence of frame
    parameters the encoding functions accept, if all of them and the flush succeed
    with [n] bytes, then decoding any buffer that starts with these bytes succeeds
    and yields, parameter by parameter, the quantised values the encoder went on
    with (pitch lags with the tables the pitch gains select). *)
Theorem frame_round_trip gains items st vs e n e' S size :
  Zlen st = STREAM_MAXW16_60MS -> Forall is_u16 st -> Forall item_ok items ->
  enc_frame gains items (enc_reset st) = Cont (0, vs, e) ->
  run_flow (WebRtcIsacfix_EncTerminate e) = Some (n, e') ->
  Forall is_u16 S -> n + 3 <= 2 * Zlen S ->
  (forall i, 0 <= i < n -> stream_byte S i = stream_byte (enc_stream e') i) ->
  exists s, dec_frame gains (map kind_of items) (dec_reset S size) = Cont (0, vs, s).
Proof.
  intros Hl Hst Hok Henc Hterm HS Hlen Hsame.
  destruct (frame_law gains items Hok) as (vs' & parts & Hp & Hlaw & Hdec).
  destruct (Hlaw i_start _ (enc_at_reset st Hl Hst)) as [(e1 & Hrun & He1)|(vs1 & e1 & Hrun)];
    rewrite Hrun in Henc; [|done]. injection Henc as -> ->.
  destruct (flushed_contains _ _ _ _ S He1 Hterm HS Hlen Hsame) as (_ & Hin & Hc & Hpos & Hl2).
  destruct (Hdec S i_start (dec_reset S size) HS iv_start) as (s & Hrun' & _); try done.
  { by apply dec_ready_reset. }
  by exists s.
Qed.

(** C14: Encoding acceptable frame parameters either succeeds or reports that the
    stream is full; no table is read and no stream word written out of range. *)
Theorem frame_encode_total gains items st :
  Zlen st = STREAM_MAXW16_60MS -> Forall is_u16 st -> Forall item_ok items ->
  exists status vs e, enc_frame gains items (enc_reset st) = Cont (status, vs, e) /\
    (status = 0 \/ status = - ISAC_DISALLOWED_BITSTREAM_LENGTH).
Proof.
  intros Hl Hst Hok. destruct (frame_law gains items Hok) as (vs & parts & _ & Hlaw & _).
  destruct (Hlaw i_start _ (enc_at_reset st Hl Hst)) as [(e & -> & _)|(vs' & e & ->)]; eauto 6.
Qed.

(** Whatever the stream holds, an index the LPC tables of any of the three
    models can decode selects a level inside the level tables. *)
Theorem lpc_levels_in_range (m : nat) index_s index_g :
  (m < 3)%nat ->
  Forall2 (fun i c => 0 <= i < Zlen c - 1) index_s (WebRtcIsacfix_kCdfShapePtr !!! m) ->
  Forall2 (fun i c => 0 <= i < Zlen c - 1) index_g (WebRtcIsacfix_kCdfGainPtr !!! m) ->
  (exists ys, shape_levels (R := Empty_set) (Z.of_nat m) index_s = Cont ys) /\
  (exists ys, gain_levels (R := Empty_set) (Z.of_nat m) index_g = Cont ys).
Proof.
  intros Hm Hs Hg. rewrite shape_levels_eq, gain_levels_eq by done.
  assert (Hin : In m [0; 1; 2]%nat) by (destruct m as [|[|[|m]]]; cbn; auto; lia).
  pose proof shape_models as H1. pose proof gain_models as H2.
  rewrite forallb_forall in H1, H2. specialize (H1 m Hin). specialize (H2 m Hin).
  split.
  - apply (model_ok_spec _ _ _ _ _ _ _ H1). by apply Forall2_fmap_r.
  - apply (model_ok_spec _ _ _ _ _ _ _ H2). by apply Forall2_fmap_r.
Qed.

(** The scalar quantiser of the reflection coefficients finds the cell of its
    argument: for every 16-bit value the search ends at an index from 0 to 10
    whose decision bounds enclose the value, from any inner start. *)
Theorem rc_quantiser_cell x init :
  is_s16 x -> 0 < init < 11 ->
  exists i, quant_index (R := Empty_set) WebRtcIsacfix_kRcBound init x = Cont i /\ 0 <= i < 11 /\
    WebRtcIsacfix_kRcBound !!! Z.to_nat i <= x <= WebRtcIsacfix_kRcBound !!! Z.to_nat (i + 1).
Proof.
  intros Hx Hi. apply (quant_index_spec WebRtcIsacfix_kRcBound x 11); [done| |done].
  change (-32768 <= x <= 32767). unfold is_s16 in Hx. lia.
Qed.

(** The reconstruction levels of the fourth transform coefficient for small pitch
    gains: nine are declared and used, eight are given, so the last one is zero,
    between the levels 38 and 1977, where its neighbours ask for about 8000. *)
Lemma lag_lo_last_level_zero :
  lag_count lag_lo 3 = 9 /\ Zlen (mean_val4Q10 lag_lo) = 9 /\
  mean_val4Q10 lag_lo !!! 7%nat = 6059 /\ mean_val4Q10 lag_lo !!! 8%nat = 0 /\
  increasing (mean_val2Q10 lag_lo) && increasing (mean_val2Q10 lag_mid) &&
  increasing (mean_val2Q10 lag_hi) && increasing (mean_val4Q10 lag_mid) &&
  increasing (mean_val4Q10 lag_hi) = true /\
  increasing (mean_val4Q10 lag_lo) = false.
Proof. by vm_compute. Qed.

Definition ex_items : list item :=
  [FrameLen 960; Bandwidth 17; PitchGain [1000; 1200; 1400; 1300];
   PitchLag [7000; 7100; 7200; 6900]; LpcIndices (replicate 108 3) (replicate 12 6);
   RcCoef [-32768; 32767; 0; 5; 500; -9000]; Gain2 123456].

Lemma ex_items_ok : Forall item_ok ex_items.
Proof.
  repeat apply Forall_cons_2; try apply Forall_nil_2; cbn; auto with lia.
  split; [|done]. apply (bool_decide_unpack _). vm_compute. exact I.
Qed.

Lemma frame_round_trip_witness :
  exists vs e n e' s,
    enc_frame [] ex_items (enc_reset (replicate 200 0)) = Cont (0, vs, e) /\
    run_flow (WebRtcIsacfix_EncTerminate e) = Some (n, e') /\
    dec_frame [] (map kind_of ex_items) (dec_reset (enc_stream e') 200) = Cont (0, vs, s).
Proof.
  destruct reset_stream_ok as [Hl Hu].
  destruct (enc_frame [] ex_items (enc_reset (replicate 200 0))) as [[[status vs] e]| |] eqn:Henc;
    [|vm_compute in Henc; discriminate..].
  assert (status = 0) as -> by (vm_compute in Henc; congruence).
  destruct (run_flow (WebRtcIsacfix_EncTerminate e)) as [[n e']|] eqn:Hterm.
  2: { vm_compute in Henc. injection Henc as <- <-. vm_compute in Hterm. discriminate. }
  assert (Hn : n + 3 <= 2 * Zlen (enc_stream e') /\ Forall is_u16 (enc_stream e')).
  { vm_compute in Henc. injection Henc as <- <-. vm_compute in Hterm. injection Hterm as <- <-.
    split; [done|]. apply (bool_decide_unpack _). vm_compute. exact I. }
  destruct (frame_round_trip [] ex_items (replicate 200 0) vs e n e' (enc_stream e') 200 Hl Hu
    ex_items_ok Henc Hterm (proj2 Hn) (proj1 Hn) (fun _ _ => eq_refl)) as [s Hs].
  exists vs, e, n, e', s. split; [reflexivity|]. split; [exact Hterm|exact Hs].
Defined.

Lemma frame_encode_total_witness :
  Forall item_ok ex_items /\
  exists status vs e, enc_frame [] ex_items (enc_reset (replicate 200 0)) = Cont (status, vs, e) /\
    (status = 0 \/ status = - ISAC_DISALLOWED_BITSTREAM_LENGTH).
Proof.
  destruct reset_stream_ok as [Hl Hu]. split; [apply ex_items_ok|].
  exact (frame_encode_total [] ex_items _ Hl Hu ex_items_ok).
Defined.

Lemma lpc_levels_in_range_witness :
  (exists ys, shape_levels (R := Empty_set) (Z.of_nat 2) (replicate 108 0) = Cont ys) /\
  (exists ys, gain_levels (R := Empty_set) (Z.of_nat 2) (replicate 12 6) = Cont ys).
Proof.
  apply (lpc_levels_in_range 2); [lia| |];
    apply (forall2b_spec (fun i c => (0 <=? i) && (i <? Zlen c - 1))); (done || (intros; lia)).
Defined.

Lemma rc_quantiser_cell_witness :
  is_s16 (-32768) /\
  exists i, quant_index (R := Empty_set) WebRtcIsacfix_kRcBound 5 (-32768) = Cont i /\ 0 <= i < 11 /\
    WebRtcIsacfix_kRcBound !!! Z.to_nat i <= -32768 <= WebRtcIsacfix_kRcBound !!! Z.to_nat (i + 1).
Proof. split; [done|]. apply (rc_quantiser_cell (-32768) 5); done. Defined.
