(* ===== verification/Ilbc.v ===== *)
(** * iLBC bit stream packing

    Models [WebRtcIlbcfix_PackBits] (pack_bits.c) and [WebRtcIlbcfix_UnpackBits]
    (unpack_bits.c) of [src/webrtc_backup/modules/audio_coding/codecs/ilbc].  Each C
    statement [word |= (field & mask) >> r << l] is a [term] and each
    [field |= ((word >> r << l) & mask) << s] a [move], in the order of the
    source, one list per 16-bit word; what the lists do is given by [pack_word] and
    [run_moves]. *)
From S2P Require Import Prelude.
Local Open Scope Z_scope.

(** ** The parameters, [iLBC_bits] *)

Record iLBC_bits : Type := mk_iLBC_bits {
  lsf : list Z;
  cb_index : list Z;
  gain_index : list Z;
  idxForMax : Z;
  state_first : Z;
  idxVec : list Z;
  startIdx : Z
}.

(** One 16-bit member of the struct ([firstbits] is used by neither function). *)
Inductive field : Type :=
| Lsf (i : nat)
| Cb (i : nat)
| Gain (i : nat)
| IdxForMax
| StateFirst
| IdxVec (i : nat)
| StartIdx.

#[export] Instance field_eq_dec : EqDecision field.
Proof. solve_decision. Defined.

Definition get (b : iLBC_bits) (f : field) : Z :=
  match f with
  | Lsf i => lsf b !!! i
  | Cb i => cb_index b !!! i
  | Gain i => gain_index b !!! i
  | IdxForMax => idxForMax b
  | StateFirst => state_first b
  | IdxVec i => idxVec b !!! i
  | StartIdx => startIdx b
  end.

Definition set (b : iLBC_bits) (f : field) (v : Z) : iLBC_bits :=
  match f with
  | Lsf i => mk_iLBC_bits (<[i := v]> (lsf b)) (cb_index b) (gain_index b) (idxForMax b)
               (state_first b) (idxVec b) (startIdx b)
  | Cb i => mk_iLBC_bits (lsf b) (<[i := v]> (cb_index b)) (gain_index b) (idxForMax b)
               (state_first b) (idxVec b) (startIdx b)
  | Gain i => mk_iLBC_bits (lsf b) (cb_index b) (<[i := v]> (gain_index b)) (idxForMax b)
               (state_first b) (idxVec b) (startIdx b)
  | IdxForMax => mk_iLBC_bits (lsf b) (cb_index b) (gain_index b) v
               (state_first b) (idxVec b) (startIdx b)
  | StateFirst => mk_iLBC_bits (lsf b) (cb_index b) (gain_index b) (idxForMax b)
               v (idxVec b) (startIdx b)
  | IdxVec i => mk_iLBC_bits (lsf b) (cb_index b) (gain_index b) (idxForMax b)
               (state_first b) (<[i := v]> (idxVec b)) (startIdx b)
  | StartIdx => mk_iLBC_bits (lsf b) (cb_index b) (gain_index b) (idxForMax b)
               (state_first b) (idxVec b) v
  end.

(** ** Packing *)

(** [T f mask r l]: [((f & mask) >> r) << l]; mask 65535 where the source has none. *)
Inductive term : Type := T (f : field) (mask r l : Z).

Definition term_val (b : iLBC_bits) (t : term) : Z :=
  match t with T f mask r l => Z.shiftl (Z.shiftr (Z.land (get b f) mask) r) l end.

(** The word assembled by a run of [|=] on a [uint16_t]. *)
Definition pack_word (b : iLBC_bits) (ts : list term) : Z :=
  u16 (foldr (fun t w => Z.lor (term_val b t) w) 0 ts).

(** [for (i = 15; ...; i--) w |= ((idx & 4) >> 2) << i], [n] indices from [from] on. *)
Definition high_bits (from n : nat) : list term :=
  map (fun j => T (IdxVec (from + j)) 4 2 (15 - Z.of_nat j)) (seq 0 n).

(** [for (i = 14; i >= 0; i -= 2) w |= (idx & 3) << i]. *)
Definition low_bits (from : nat) : list term :=
  map (fun j => T (IdxVec (from + j)) 3 0 (14 - 2 * Z.of_nat j)) (seq 0 8).


Definition pack_class1_20 : list (list term) :=
  [[T (Lsf 0) 65535 0 10; T (Lsf 1) 65535 0 3; T (Lsf 2) 112 4 0];
   [T (Lsf 2) 15 0 12; T StartIdx 65535 0 10; T StateFirst 65535 0 9; T IdxForMax 65535 0 3;
    T (Cb 0) 112 4 0];
   [T (Cb 0) 14 0 12; T (Gain 0) 24 0 8; T (Gain 1) 8 0 7; T (Cb 3) 254 0 2; T (Gain 3) 16 2 0;
    T (Gain 4) 8 2 0; T (Gain 6) 16 4 0]].

Definition pack_class1_30 : list (list term) :=
  [[T (Lsf 0) 65535 0 10; T (Lsf 1) 65535 0 3; T (Lsf 2) 112 4 0];
   [T (Lsf 2) 15 0 12; T (Lsf 3) 65535 0 6; T (Lsf 4) 126 1 0];
   [T (Lsf 4) 1 0 15; T (Lsf 5) 65535 0 8; T StartIdx 65535 0 5; T StateFirst 65535 0 4;
    T IdxForMax 60 2 0];
   [T IdxForMax 3 0 14; T (Cb 0) 120 0 7; T (Gain 0) 16 0 5; T (Gain 1) 8 0 5;
    T (Cb 3) 252 0 0; T (Gain 3) 16 3 0; T (Gain 4) 8 3 0]].

Definition pack_class2_head : list (list term) :=
  [high_bits 0 16; high_bits 16 16; high_bits 32 16].

Definition pack_class2_20 : list (list term) :=
  [high_bits 48 9 ++
   [T (Gain 1) 4 0 4; T (Gain 3) 12 0 2; T (Gain 4) 4 0 1; T (Gain 6) 8 1 0; T (Gain 7) 12 2 0]].

Definition pack_class2_30 : list (list term) :=
  [high_bits 48 10 ++
   [T (Cb 0) 6 0 3; T (Gain 0) 8 0 0; T (Gain 1) 4 0 0; T (Cb 3) 2 0 0; T (Cb 6) 128 7 0];
   [T (Cb 6) 126 0 9; T (Cb 9) 254 0 2; T (Cb 12) 224 5 0];
   [T (Cb 12) 30 0 11; T (Gain 3) 12 0 8; T (Gain 4) 6 0 7; T (Gain 6) 24 0 3;
    T (Gain 7) 12 0 2; T (Gain 9) 16 1 0; T (Gain 10) 8 1 0; T (Gain 12) 16 3 0;
    T (Gain 13) 8 3 0]].

Definition pack_class3_head : list (list term) :=
  map (fun k => low_bits (8 * k)) (seq 0 7).

Definition pack_class3_20 : list (list term) :=
  [[T (IdxVec 56) 3 0 14; T (Cb 0) 1 0 13; T (Cb 1) 65535 0 6; T (Cb 2) 126 1 0];
   [T (Cb 2) 1 0 15; T (Gain 0) 7 0 12; T (Gain 1) 3 0 10; T (Gain 2) 65535 0 7;
    T (Cb 3) 1 0 6; T (Cb 4) 126 1 0];
   [T (Cb 4) 1 0 15; T (Cb 5) 65535 0 8; T (Cb 6) 65535 0 0];
   [T (Cb 7) 65535 0 8; T (Cb 8) 65535 0 0];
   [T (Gain 3) 3 0 14; T (Gain 4) 3 0 12; T (Gain 5) 65535 0 9; T (Gain 6) 7 0 6;
    T (Gain 7) 3 0 4; T (Gain 8) 65535 0 1]].

Definition pack_class3_30 : list (list term) :=
  [[T (IdxVec 56) 3 0 14; T (IdxVec 57) 3 0 12; T (Cb 0) 1 0 11; T (Cb 1) 65535 0 4;
    T (Cb 2) 120 3 0];
   [T (Cb 2) 7 0 13; T (Gain 0) 7 0 10; T (Gain 1) 3 0 8; T (Gain 2) 7 0 5; T (Cb 3) 1 0 4;
    T (Cb 4) 120 3 0];
   [T (Cb 4) 7 0 13; T (Cb 5) 65535 0 6; T (Cb 6) 1 0 5; T (Cb 7) 248 3 0];
   [T (Cb 7) 7 0 13; T (Cb 8) 65535 0 5; T (Cb 9) 1 0 4; T (Cb 10) 240 4 0];
   [T (Cb 10) 15 0 12; T (Cb 11) 65535 0 4; T (Cb 12) 1 0 3; T (Cb 13) 224 5 0];
   [T (Cb 13) 31 0 11; T (Cb 14) 65535 0 3; T (Gain 3) 3 0 1; T (Gain 4) 1 0 0];
   [T (Gain 5) 65535 0 13; T (Gain 6) 7 0 10; T (Gain 7) 3 0 8; T (Gain 8) 65535 0 5;
    T (Gain 9) 15 0 1; T (Gain 10) 4 2 0];
   [T (Gain 10) 3 0 14; T (Gain 11) 65535 0 11; T (Gain 12) 15 0 7; T (Gain 13) 7 0 4;
    T (Gain 14) 65535 0 1]].

Definition pack_terms (mode : Z) : list (list term) :=
  if mode =? 20
  then pack_class1_20 ++ pack_class2_head ++ pack_class2_20 ++ pack_class3_head ++ pack_class3_20
  else pack_class1_30 ++ pack_class2_head ++ pack_class2_30 ++ pack_class3_head ++ pack_class3_30.

Definition WebRtcIlbcfix_PackBits (enc_bits : iLBC_bits) (mode : Z) : list Z :=
  map (pack_word enc_bits) (pack_terms mode).

(** ** Unpacking *)

(** [SetBits f r l mask s]: [f = (((w >> r) << l) & mask) << s]; [OrBits]: [f |= ...]. *)
Inductive move : Type :=
| SetBits (f : field) (r l mask s : Z)
| OrBits (f : field) (r l mask s : Z).

Definition move_val (w r l mask s : Z) : Z :=
  Z.shiftl (Z.land (Z.shiftl (Z.shiftr w r) l) mask) s.

Definition run_move (w : Z) (b : iLBC_bits) (m : move) : iLBC_bits :=
  match m with
  | SetBits f r l mask s => set b f (s16 (move_val w r l mask s))
  | OrBits f r l mask s => set b f (s16 (Z.lor (get b f) (move_val w r l mask s)))
  end.

(** The moves of each word in turn; reading past the stream is [Stuck]. *)
Fixpoint run_moves {R : Type} (ws : list Z) (mss : list (list move)) (b : iLBC_bits)
    : flow R iLBC_bits :=
  match mss, ws with
  | [], _ => Cont b
  | ms :: mss, w :: ws => run_moves ws mss (foldl (run_move w) b ms)
  | _ :: _, [] => Stuck
  end.

Definition high_moves (from n : nat) : list move :=
  map (fun j => SetBits (IdxVec (from + j)) (15 - Z.of_nat j) 2 4 0) (seq 0 n).

Definition low_moves (from : nat) : list move :=
  map (fun j => OrBits (IdxVec (from + j)) (14 - 2 * Z.of_nat j) 0 3 0) (seq 0 8).

Definition unpack_class1_20 : list (list move) :=
  [[SetBits (Lsf 0) 10 0 65535 0; SetBits (Lsf 1) 3 0 127 0; SetBits (Lsf 2) 0 0 7 4];
   [OrBits (Lsf 2) 12 0 15 0; SetBits StartIdx 10 0 3 0; SetBits StateFirst 9 0 1 0;
    SetBits IdxForMax 3 0 63 0; SetBits (Cb 0) 0 0 7 4];
   [OrBits (Cb 0) 12 0 14 0; SetBits (Gain 0) 8 0 24 0; SetBits (Gain 1) 7 0 8 0;
    SetBits (Cb 3) 2 0 254 0; SetBits (Gain 3) 0 2 16 0; SetBits (Gain 4) 0 2 8 0;
    SetBits (Gain 6) 0 4 16 0]].

Definition unpack_class1_30 : list (list move) :=
  [[SetBits (Lsf 0) 10 0 65535 0; SetBits (Lsf 1) 3 0 127 0; SetBits (Lsf 2) 0 0 7 4];
   [OrBits (Lsf 2) 12 0 15 0; SetBits (Lsf 3) 6 0 63 0; SetBits (Lsf 4) 0 1 126 0];
   [OrBits (Lsf 4) 15 0 1 0; SetBits (Lsf 5) 8 0 127 0; SetBits StartIdx 5 0 7 0;
    SetBits StateFirst 4 0 1 0; SetBits IdxForMax 0 2 60 0];
   [OrBits IdxForMax 14 0 3 0; SetBits (Cb 0) 7 0 120 0; SetBits (Gain 0) 5 0 16 0;
    SetBits (Gain 1) 5 0 8 0; SetBits (Cb 3) 0 0 252 0; SetBits (Gain 3) 0 3 16 0;
    SetBits (Gain 4) 0 3 8 0]].

Definition unpack_class2_head : list (list move) :=
  [high_moves 0 16; high_moves 16 16; high_moves 32 16].

Definition unpack_class2_20 : list (list move) :=
  [high_moves 48 9 ++
   [OrBits (Gain 1) 4 0 4 0; OrBits (Gain 3) 2 0 12 0; OrBits (Gain 4) 1 0 4 0;
    OrBits (Gain 6) 0 1 8 0; SetBits (Gain 7) 0 2 12 0]].

Definition unpack_class2_30 : list (list move) :=
  [high_moves 48 10 ++
   [OrBits (Cb 0) 3 0 6 0; OrBits (Gain 0) 0 0 8 0; OrBits (Gain 1) 0 0 4 0;
    OrBits (Cb 3) 0 0 2 0; SetBits (Cb 6) 0 7 128 0];
   [OrBits (Cb 6) 9 0 126 0; SetBits (Cb 9) 2 0 254 0; SetBits (Cb 12) 0 5 224 0];
   [OrBits (Cb 12) 11 0 30 0; OrBits (Gain 3) 8 0 12 0; OrBits (Gain 4) 7 0 6 0;
    SetBits (Gain 6) 3 0 24 0; SetBits (Gain 7) 2 0 12 0; SetBits (Gain 9) 0 1 16 0;
    SetBits (Gain 10) 0 1 8 0; SetBits (Gain 12) 0 3 16 0; SetBits (Gain 13) 0 3 8 0]].

Definition unpack_class3_head : list (list move) :=
  map (fun k => low_moves (8 * k)) (seq 0 7).

Definition unpack_class3_20 : list (list move) :=
  [[OrBits (IdxVec 56) 14 0 3 0; OrBits (Cb 0) 13 0 1 0; SetBits (Cb 1) 6 0 127 0;
    SetBits (Cb 2) 0 1 126 0];
   [OrBits (Cb 2) 15 0 1 0; OrBits (Gain 0) 12 0 7 0; OrBits (Gain 1) 10 0 3 0;
    SetBits (Gain 2) 7 0 7 0; OrBits (Cb 3) 6 0 1 0; SetBits (Cb 4) 0 1 126 0];
   [OrBits (Cb 4) 15 0 1 0; SetBits (Cb 5) 8 0 127 0; SetBits (Cb 6) 0 0 255 0];
   [SetBits (Cb 7) 8 0 65535 0; SetBits (Cb 8) 0 0 255 0];
   [OrBits (Gain 3) 14 0 3 0; OrBits (Gain 4) 12 0 3 0; SetBits (Gain 5) 9 0 7 0;
    OrBits (Gain 6) 6 0 7 0; OrBits (Gain 7) 4 0 3 0; SetBits (Gain 8) 1 0 7 0]].

Definition unpack_class3_30 : list (list move) :=
  [[OrBits (IdxVec 56) 14 0 3 0; OrBits (IdxVec 57) 12 0 3 0; OrBits (Cb 0) 11 0 1 0;
    SetBits (Cb 1) 4 0 127 0; SetBits (Cb 2) 0 3 120 0];
   [OrBits (Cb 2) 13 0 7 0; OrBits (Gain 0) 10 0 7 0; OrBits (Gain 1) 8 0 3 0;
    SetBits (Gain 2) 5 0 7 0; OrBits (Cb 3) 4 0 1 0; SetBits (Cb 4) 0 3 120 0];
   [OrBits (Cb 4) 13 0 7 0; SetBits (Cb 5) 6 0 127 0; OrBits (Cb 6) 5 0 1 0;
    SetBits (Cb 7) 0 3 248 0];
   [OrBits (Cb 7) 13 0 7 0; SetBits (Cb 8) 5 0 255 0; OrBits (Cb 9) 4 0 1 0;
    SetBits (Cb 10) 0 4 240 0];
   [OrBits (Cb 10) 12 0 15 0; SetBits (Cb 11) 4 0 255 0; OrBits (Cb 12) 3 0 1 0;
    SetBits (Cb 13) 0 5 224 0];
   [OrBits (Cb 13) 11 0 31 0; SetBits (Cb 14) 3 0 255 0; OrBits (Gain 3) 1 0 3 0;
    OrBits (Gain 4) 0 0 1 0];
   [SetBits (Gain 5) 13 0 7 0; OrBits (Gain 6) 10 0 7 0; OrBits (Gain 7) 8 0 3 0;
    SetBits (Gain 8) 5 0 7 0; OrBits (Gain 9) 1 0 15 0; OrBits (Gain 10) 0 2 4 0];
   [OrBits (Gain 10) 14 0 3 0; SetBits (Gain 11) 11 0 7 0; OrBits (Gain 12) 7 0 15 0;
    OrBits (Gain 13) 4 0 7 0; SetBits (Gain 14) 1 0 7 0]].

Definition unpack_moves (mode : Z) : list (list move) :=
  if mode =? 20
  then unpack_class1_20 ++ unpack_class2_head ++ unpack_class2_20 ++ unpack_class3_head ++
       unpack_class3_20
  else unpack_class1_30 ++ unpack_class2_head ++ unpack_class2_30 ++ unpack_class3_head ++
       unpack_class3_30.

(** The struct as filled in, and the "empty frame" indicator: the last bit. *)
Definition WebRtcIlbcfix_UnpackBits {R : Type} (bitstream : list Z) (enc_bits : iLBC_bits)
    (mode : Z) : flow R (Z * iLBC_bits) :=
  let! enc_bits := run_moves bitstream (unpack_moves mode) enc_bits in
  let! last := rd bitstream (Zlen (unpack_moves mode) - 1) in
  Cont (if Z.land last 1 =? 1 then 1 else 0, enc_bits).

(** ** Bits of packed words *)

Definition src : Type := field * Z.

(** The parameter bit that bit [p] of a term shows. *)
Definition term_src (p : Z) (t : term) : option src :=
  match t with
  | T f mask r l => if (l <=? p) && Z.testbit mask (p - l + r) then Some (f, p - l + r) else None
  end.

Definition term_ok (t : term) : bool := match t with T _ _ r l => (0 <=? r) && (0 <=? l) end.

Definition word_srcs (ts : list term) (p : Z) : list src :=
  if (0 <=? p) && (p <? 16) then omap (term_src p) ts else [].

Definition src_bit (b : iLBC_bits) (x : src) : bool := Z.testbit (get b x.1) x.2.

Lemma term_val_bit b t p :
  term_ok t = true -> 0 <= p ->
  Z.testbit (term_val b t) p = match term_src p t with Some x => src_bit b x | None => false end.
Proof.
  destruct t as [f mask r l]. unfold term_ok. intros [Hr Hl]%andb_true_iff Hp.
  cbn [term_val term_src]. rewrite Z.shiftl_spec by lia. destruct (Z.leb_spec l p) as [Hle|Hgt].
  - rewrite Z.shiftr_spec, Z.land_spec by lia. cbn [andb].
    destruct (Z.testbit mask (p - l + r)); [by rewrite andb_true_r|by rewrite andb_false_r].
  - cbn [andb]. by rewrite Z.testbit_neg_r by lia.
Qed.

Lemma testbit_u16 z p : 0 <= p -> Z.testbit (u16 z) p = (p <? 16) && Z.testbit z p.
Proof.
  intros Hp. unfold u16. change 65536 with (2 ^ 16). destruct (Z.ltb_spec p 16).
  - by rewrite Z.mod_pow2_bits_low by lia.
  - by rewrite Z.mod_pow2_bits_high by lia.
Qed.

Lemma pack_word_bit b ts p :
  forallb term_ok ts = true ->
  Z.testbit (pack_word b ts) p = existsb (src_bit b) (word_srcs ts p).
Proof.
  intros Hok. unfold word_srcs. destruct (Z.leb_spec 0 p) as [Hp|Hp].
  2: { by rewrite Z.testbit_neg_r by lia. }
  unfold pack_word. rewrite testbit_u16 by done. destruct (Z.ltb_spec p 16); [cbn [andb]|done].
  induction ts as [|t ts IH]; [apply Z.bits_0|].
  cbn [forallb] in Hok. apply andb_true_iff in Hok as [Ht Hts].
  cbn [foldr omap list_omap]. rewrite Z.lor_spec, IH, term_val_bit by done.
  by destruct (term_src p t).
Qed.

(** ** Bits of unpacked parameters *)

Definition dest (m : move) : field := match m with SetBits f _ _ _ _ | OrBits f _ _ _ _ => f end.

(** The word bit that bit [i] of a move shows. *)
Definition move_src (i : Z) (m : move) : option Z :=
  match m with
  | SetBits _ r l mask s | OrBits _ r l mask s =>
      if (s <=? i) && Z.testbit mask (i - s) && (l <=? i - s) then Some (i - s - l + r) else None
  end.

Definition move_ok (m : move) : bool :=
  match m with SetBits _ r l _ s | OrBits _ r l _ s => (0 <=? r) && (0 <=? l) && (0 <=? s) end.

Definition moved_bit (i w : Z) (m : move) : bool :=
  match move_src i m with Some q => Z.testbit w q | None => false end.

Definition move_value (w : Z) (m : move) : Z :=
  match m with SetBits _ r l mask s | OrBits _ r l mask s => move_val w r l mask s end.

Lemma move_val_bit w m i :
  move_ok m = true -> 0 <= i -> Z.testbit (move_value w m) i = moved_bit i w m.
Proof.
  intros Hok Hi. assert (H : exists r l mask s, move_value w m = move_val w r l mask s /\
    move_src i m = (if (s <=? i) && Z.testbit mask (i - s) && (l <=? i - s)
                    then Some (i - s - l + r) else None) /\ 0 <= r /\ 0 <= l /\ 0 <= s).
  { destruct m as [f r l mask s|f r l mask s]; exists r, l, mask, s;
      (split; [done|]); (split; [done|]); unfold move_ok in Hok; lia. }
  destruct H as (r & l & mask & s & -> & Hsrc & Hr & Hl & Hs). unfold moved_bit. rewrite Hsrc.
  unfold move_val. rewrite Z.shiftl_spec by lia. destruct (Z.leb_spec s i) as [Hle|Hgt].
  2: { cbn [andb]. by rewrite Z.testbit_neg_r by lia. }
  rewrite Z.land_spec, Z.shiftl_spec by lia. cbn [andb].
  destruct (Z.testbit mask (i - s)); [|by rewrite andb_false_r]. rewrite andb_true_r. cbn [andb].
  destruct (Z.leb_spec l (i - s)).
  - by rewrite Z.shiftr_spec by lia.
  - by rewrite Z.testbit_neg_r by lia.
Qed.

Lemma testbit_s16 z i : 0 <= i < 16 -> Z.testbit (s16 z) i = Z.testbit z i.
Proof.
  intros Hi. rewrite <- (Z.mod_pow2_bits_low (s16 z) 16), <- (Z.mod_pow2_bits_low z 16) by lia.
  f_equal. change (2 ^ 16) with 65536. unfold s16. zdm.
Qed.

Lemma s16_eq_bits x y :
  is_s16 x -> is_s16 y -> (forall i, 0 <= i < 16 -> Z.testbit x i = Z.testbit y i) -> x = y.
Proof.
  intros Hx Hy Hb. assert (Hm : x mod 2 ^ 16 = y mod 2 ^ 16).
  { apply Z.bits_inj'. intros i Hi. destruct (Z.lt_ge_cases i 16).
    - by rewrite !Z.mod_pow2_bits_low, Hb by lia.
    - by rewrite !Z.mod_pow2_bits_high by lia. }
  change (2 ^ 16) with 65536 in Hm. unfold is_s16 in *. zdm.
Qed.

(** ** The struct as a store *)

(** The members the struct has ([defines.h]). *)
Definition in_layout (f : field) : bool :=
  match f with
  | Lsf i => (i <? 6)%nat
  | Cb i | Gain i => (i <? 15)%nat
  | IdxVec i => (i <? 58)%nat
  | _ => true
  end.

Record bits_wf (b : iLBC_bits) : Prop := {
  bw_lsf : length (lsf b) = 6%nat;
  bw_cb : length (cb_index b) = 15%nat;
  bw_gain : length (gain_index b) = 15%nat;
  bw_idx : length (idxVec b) = 58%nat
}.

Lemma set_wf b f v : bits_wf b -> bits_wf (set b f v).
Proof. intros [H1 H2 H3 H4]. destruct f; split; cbn; rewrite ?length_insert; done. Qed.

Lemma get_set_eq b f v : bits_wf b -> in_layout f = true -> get (set b f v) f = v.
Proof.
  intros [H1 H2 H3 H4]. destruct f; try done; cbn [in_layout]; intros Hi%Nat.ltb_lt;
    apply list_lookup_total_insert_eq; cbn; lia.
Qed.

Lemma get_set_ne b f g v : f <> g -> get (set b f v) g = get b g.
Proof.
  intros Hne. destruct f, g; cbn; try done;
    apply list_lookup_total_insert_ne; intros ->; by apply Hne.
Qed.

(** ** The moves as one sequence *)

(** Every move with the number of the word it reads. *)
Fixpoint moves_from (k : nat) (mss : list (list move)) : list (nat * move) :=
  match mss with
  | [] => []
  | ms :: mss => map (pair k) ms ++ moves_from (S k) mss
  end.

Definition step (ws : list Z) (b : iLBC_bits) (km : nat * move) : iLBC_bits :=
  run_move (ws !!! km.1) b km.2.

Lemma run_moves_seq {R} ws mss k b :
  (k + length mss <= length ws)%nat ->
  run_moves (R := R) (drop k ws) mss b = Cont (foldl (step ws) b (moves_from k mss)).
Proof.
  revert k b. induction mss as [|ms mss IH]; intros k b Hl; [by destruct (drop k ws)|].
  cbn [length] in Hl. destruct (lookup_lt_is_Some_2 ws k) as [w Hw]; [lia|].
  rewrite (drop_S ws w k Hw). cbn [run_moves moves_from]. rewrite IH by lia.
  rewrite foldl_app. do 2 f_equal. apply list_lookup_total_correct in Hw.
  clear -Hw. revert b. induction ms as [|m ms IH]; intros b; cbn; [done|].
  unfold step at 2. cbn. rewrite Hw. apply IH.
Qed.

(** What a sequence of moves leaves in bit [i] of [f]. *)
Definition bit_step (ws : list Z) (f : field) (i : Z) (acc : bool) (km : nat * move) : bool :=
  if decide (dest km.2 = f) then
    match km.2 with
    | SetBits _ _ _ _ _ => moved_bit i (ws !!! km.1) km.2
    | OrBits _ _ _ _ _ => acc || moved_bit i (ws !!! km.1) km.2
    end
  else acc.

Definition km_ok (km : nat * move) : bool := move_ok km.2 && in_layout (dest km.2).

Lemma step_bit ws b km f i :
  bits_wf b -> km_ok km = true -> 0 <= i < 16 ->
  Z.testbit (get (step ws b km) f) i = bit_step ws f i (Z.testbit (get b f) i) km.
Proof.
  destruct km as [k m]. unfold km_ok, bit_step, step. cbn [fst snd].
  intros Hb [Hm Hl]%andb_true_iff Hi.
  destruct (decide (dest m = f)) as [<-|Hne].
  - pose proof (move_val_bit (ws !!! k) m i Hm ltac:(lia)) as Hv.
    destruct m; cbn [run_move dest move_value] in *; rewrite get_set_eq, testbit_s16 by done; [done|].
    by rewrite Z.lor_spec, Hv.
  - destruct m; cbn [run_move dest] in *; by rewrite get_set_ne.
Qed.

Lemma step_wf ws b km : bits_wf b -> bits_wf (step ws b km).
Proof. destruct km as [k m]. destruct m; cbn; apply set_wf. Qed.

Lemma steps_bit ws kms b f i :
  bits_wf b -> forallb km_ok kms = true -> 0 <= i < 16 ->
  Z.testbit (get (foldl (step ws) b kms) f) i = foldl (bit_step ws f i) (Z.testbit (get b f) i) kms.
Proof.
  revert b. induction kms as [|km kms IH]; intros b Hb Hok Hi; [done|].
  cbn [forallb] in Hok. apply andb_true_iff in Hok as [Hkm Hok]. cbn [foldl].
  rewrite IH by (done || by apply step_wf). by rewrite step_bit.
Qed.

(** Only 16-bit values are stored. *)
Lemma steps_s16 ws kms b f :
  bits_wf b -> forallb km_ok kms = true ->
  is_s16 (get b f) \/ existsb (fun km => bool_decide (dest km.2 = f)) kms = true ->
  is_s16 (get (foldl (step ws) b kms) f).
Proof.
  revert b. induction kms as [|km kms IH]; intros b Hb Hok Hh; [by destruct Hh|].
  cbn [forallb] in Hok. apply andb_true_iff in Hok as [Hkm Hok]. cbn [foldl].
  apply IH; [by apply step_wf|done|]. unfold km_ok in Hkm. apply andb_true_iff in Hkm as [Hm Hl].
  destruct km as [k m]. cbn [fst snd existsb] in *.
  destruct (decide (dest m = f)) as [<-|Hne].
  - left. destruct m; cbn [step run_move dest fst snd] in *;
      rewrite get_set_eq by done; apply s16_range.
  - rewrite bool_decide_eq_false_2 in Hh by done. destruct Hh as [Hh|Hh]; [left|by right].
    destruct m; cbn [step run_move dest fst snd] in *; by rewrite get_set_ne.
Qed.

(** ** Where a bit comes from *)

(** The word bits that make up bit [i] of [f]; [None] if an old value shows through. *)
Definition collect_step (f : field) (i : Z) (acc : option (list (nat * Z))) (km : nat * move)
    : option (list (nat * Z)) :=
  if decide (dest km.2 = f) then
    let new := match move_src i km.2 with Some q => [(km.1, q)] | None => [] end in
    match km.2 with
    | SetBits _ _ _ _ _ => Some new
    | OrBits _ _ _ _ _ => match acc with Some l => Some (l ++ new) | None => None end
    end
  else acc.

Definition collect (f : field) (i : Z) (kms : list (nat * move)) : option (list (nat * Z)) :=
  foldl (collect_step f i) None kms.

Definition word_bit (ws : list Z) (x : nat * Z) : bool := Z.testbit (ws !!! x.1) x.2.

Lemma collect_sound ws f i kms l acc :
  collect f i kms = Some l ->
  foldl (bit_step ws f i) acc kms = existsb (word_bit ws) l.
Proof.
  unfold collect.
  assert (H : forall o, match o with Some l0 => acc = existsb (word_bit ws) l0 | None => True end ->
    foldl (collect_step f i) o kms = Some l ->
    foldl (bit_step ws f i) acc kms = existsb (word_bit ws) l); [|by apply H].
  revert acc. induction kms as [|[k m] kms IH]; intros acc o Ho; cbn [foldl].
  { by intros ->. }
  apply IH. clear IH. unfold bit_step, collect_step, moved_bit. cbn [fst snd].
  destruct (decide (dest m = f)); [|done]. destruct m; cbn.
  - destruct (_ && _); cbn; [by rewrite orb_false_r|done].
  - destruct o as [lo|]; [|done]. rewrite existsb_app, Ho.
    destruct (_ && _); cbn; by rewrite ?orb_false_r.
Qed.

(** ** The layout, checked bit by bit *)

(** The parameters a frame carries, and their widths in bits. *)
Definition fields (mode : Z) : list field :=
  let n := if mode =? 20 then 9%nat else 15%nat in
  map Lsf (seq 0 (if mode =? 20 then 3 else 6)) ++ map Cb (seq 0 n) ++ map Gain (seq 0 n) ++
  [IdxForMax; StateFirst; StartIdx] ++ map IdxVec (seq 0 (if mode =? 20 then 57 else 58)).

Definition width (mode : Z) (f : field) : Z :=
  match f with
  | Lsf i => nth i [6; 7; 7; 6; 7; 7] 0
  | Cb i => nth i [7; 7; 7; 8; 7; 7; 8; 8; 8; 8; 8; 8; 8; 8; 8] 0
  | Gain i => nth (i mod 3) [5; 4; 3] 0
  | IdxForMax => 6
  | StateFirst => 1
  | IdxVec _ => 3
  | StartIdx => if mode =? 20 then 2 else 3
  end.

Definition in_range (mode : Z) (b : iLBC_bits) : Prop :=
  Forall (fun f => 0 <= get b f < 2 ^ width mode f) (fields mode).

Definition all_moves (mode : Z) : list (nat * move) := moves_from 0 (unpack_moves mode).

(** Sources of a packed bit, without the parameter bits that are zero by range. *)
Definition live_srcs (mode : Z) (k : nat) (p : Z) : list src :=
  filter (fun x => x.2 < width mode x.1) (word_srcs (pack_terms mode !!! k) p).

Definition bits16 : list Z := map Z.of_nat (seq 0 16).

Definition moves_okb (mode : Z) : bool :=
  forallb km_ok (all_moves mode) && forallb (forallb term_ok) (pack_terms mode) &&
  (length (pack_terms mode) =? length (unpack_moves mode))%nat.

(** Every word bit shows parameters of the frame only. *)
Definition srcs_okb (mode : Z) : bool :=
  forallb (fun k => forallb (fun p => forallb (fun x => bool_decide (x.1 ∈ fields mode))
    (word_srcs (pack_terms mode !!! k) p)) bits16) (seq 0 (length (pack_terms mode))).

(** Unpacking a packed bit gives that bit of the same parameter. *)
Definition unpack_pack_okb (mode : Z) : bool :=
  forallb (fun f =>
    existsb (fun km => bool_decide (dest km.2 = f)) (all_moves mode) &&
    forallb (fun i =>
      match collect f i (all_moves mode) with
      | Some l =>
          forallb (fun x => x.1 <? length (pack_terms mode))%nat l &&
          bool_decide (flat_map (fun x => live_srcs mode x.1 x.2) l =
                       (if i <? width mode f then [(f, i)] else []))
      | None => false
      end) bits16) (fields mode).

(** The word bits behind a parameter bit; a word the frame has not if there are none. *)
Definition back_srcs (mode : Z) (x : src) : list (nat * Z) :=
  match collect x.1 x.2 (all_moves mode) with
  | Some l => filter (fun y => 0 <= y.2 < 16) l
  | None => [(length (pack_terms mode), 0)]
  end.

(** Packing an unpacked bit gives that bit of the same word, all but the last. *)
Definition pack_unpack_okb (mode : Z) : bool :=
  let n := length (pack_terms mode) in
  forallb (fun k => forallb (fun p =>
    bool_decide
      (flat_map (back_srcs mode) (word_srcs (pack_terms mode !!! k) p) =
       (if (k =? n - 1)%nat && (p =? 0) then [] else [(k, p)]))) bits16) (seq 0 n) &&
  forallb (fun k => forallb (fun p => forallb (fun x => (0 <=? x.2) && (x.2 <? 16))
    (word_srcs (pack_terms mode !!! k) p)) bits16) (seq 0 n).

Example layout_20 :
  moves_okb 20 && srcs_okb 20 && unpack_pack_okb 20 && pack_unpack_okb 20 = true.
Proof. vm_compute. reflexivity. Qed.
Example layout_30 :
  moves_okb 30 && srcs_okb 30 && unpack_pack_okb 30 && pack_unpack_okb 30 = true.
Proof. vm_compute. reflexivity. Qed.

Lemma layout_ok mode :
  mode = 20 \/ mode = 30 ->
  moves_okb mode = true /\ srcs_okb mode = true /\ unpack_pack_okb mode = true /\
  pack_unpack_okb mode = true.
Proof.
  intros Hm. assert (H : moves_okb mode && srcs_okb mode && unpack_pack_okb mode &&
    pack_unpack_okb mode = true) by (destruct Hm as [-> | ->]; [apply layout_20|apply layout_30]).
  do 3 apply andb_true_iff in H as [H ?]. done.
Qed.

Lemma forallb_In {A} (f : A -> bool) l x : forallb f l = true -> x ∈ l -> f x = true.
Proof. intros H Hx. rewrite forallb_forall in H. by apply H, list_elem_of_In. Qed.

Lemma bits16_elem i : 0 <= i < 16 -> i ∈ bits16.
Proof.
  intros Hi. unfold bits16. apply list_elem_of_fmap. exists (Z.to_nat i). split; [lia|].
  apply list_elem_of_In, in_seq. lia.
Qed.

Lemma seq_elem k n : (k < n)%nat -> k ∈ seq 0 n.
Proof. intros. apply list_elem_of_In, in_seq. lia. Qed.

Lemma live_word_bits ws l :
  Forall is_u16 ws ->
  existsb (word_bit ws) (filter (fun y => 0 <= y.2 < 16) l) = existsb (word_bit ws) l.
Proof.
  intros Hu. induction l as [|[k q] l IH]; [done|]. rewrite filter_cons. cbn [existsb fst snd].
  rewrite <- IH. destruct (decide (0 <= q < 16)) as [|Hq]; [done|].
  replace (word_bit ws (k, q)) with false; [done|]. unfold word_bit. cbn [fst snd]. symmetry.
  destruct (Z.lt_ge_cases q 0); [by apply Z.testbit_neg_r|].
  destruct (Nat.lt_ge_cases k (length ws)) as [Hk|Hk].
  - pose proof (Forall_total _ _ _ Hu Hk) as Hw. unfold is_u16 in Hw.
    rewrite <- (Z.mod_small (ws !!! k) (2 ^ 16)) by done. apply Z.mod_pow2_bits_high. lia.
  - rewrite list_lookup_total_alt, lookup_ge_None_2 by done. cbn.
    change 1 with (1 mod 2 ^ 16). apply Z.mod_pow2_bits_high. lia.
Qed.

Section layout.
Context (mode : Z).
Hypothesis Hmode : mode = 20 \/ mode = 30.
Let n := length (pack_terms mode).

Lemma moves_facts :
  forallb km_ok (all_moves mode) = true /\ forallb (forallb term_ok) (pack_terms mode) = true /\
  length (unpack_moves mode) = n.
Proof using Hmode.
  destruct (layout_ok mode Hmode) as (H & _). unfold moves_okb in H.
  apply andb_true_iff in H as [H Hl%Nat.eqb_eq]. apply andb_true_iff in H as [H1 H2].
  split; [done|]. split; [done|]. by unfold n.
Qed.

Lemma n_pos : (0 < n)%nat.
Proof using Hmode. unfold n. destruct Hmode as [-> | ->]; cbn; lia. Qed.

Lemma width_bound f : 0 <= width mode f <= 8.
Proof using Hmode.
  destruct f as [i|i|i| | |i|]; unfold width; try lia; try (destruct (mode =? 20); lia).
  - do 6 (destruct i as [|i]; [cbn; lia|]). destruct i; cbn; lia.
  - do 15 (destruct i as [|i]; [cbn; lia|]). destruct i; cbn; lia.
  - generalize (i mod 3)%nat as j. intros j.
    do 3 (destruct j as [|j]; [cbn; lia|]). destruct j; cbn; lia.
Qed.

Lemma pack_word_bit_at b k p :
  (k < n)%nat ->
  Z.testbit (WebRtcIlbcfix_PackBits b mode !!! k) p =
    existsb (src_bit b) (word_srcs (pack_terms mode !!! k) p).
Proof using Hmode.
  intros Hk. unfold WebRtcIlbcfix_PackBits.
  destruct (lookup_lt_is_Some_2 (pack_terms mode) k Hk) as [ts Hts].
  rewrite (list_lookup_total_correct (pack_terms mode) k ts Hts).
  rewrite (list_lookup_total_correct (map _ _) k (pack_word b ts))
    by by rewrite list_lookup_fmap, Hts.
  apply pack_word_bit. destruct moves_facts as (_ & H & _). apply (forallb_In _ _ _ H).
  by eapply list_elem_of_lookup_2.
Qed.

Lemma pack_length b : length (WebRtcIlbcfix_PackBits b mode) = n.
Proof using Type. apply length_map. Qed.

(** Bits beyond a parameter's width are zero. *)
Lemma src_bits_live b k p :
  in_range mode b -> (k < n)%nat ->
  existsb (src_bit b) (word_srcs (pack_terms mode !!! k) p) =
  existsb (src_bit b) (live_srcs mode k p).
Proof using Hmode.
  intros Hr Hk. unfold live_srcs.
  assert (Hel : Forall (fun x => x.1 ∈ fields mode) (word_srcs (pack_terms mode !!! k) p)).
  { unfold word_srcs. destruct (Z.leb_spec 0 p), (Z.ltb_spec p 16); try constructor. cbn [andb].
    destruct (layout_ok mode Hmode) as (_ & Hs & _). unfold srcs_okb in Hs.
    pose proof (forallb_In _ _ k Hs (seq_elem k n Hk)) as Hs1. cbn beta in Hs1.
    pose proof (forallb_In _ _ p Hs1 (bits16_elem p ltac:(lia))) as Hs2. cbn beta in Hs2.
    unfold word_srcs in Hs2. destruct (Z.leb_spec 0 p), (Z.ltb_spec p 16); try lia. cbn [andb] in Hs2.
    apply Forall_forall. intros x Hx. pose proof (forallb_In _ _ x Hs2 Hx) as Hb.
    by apply bool_decide_eq_true in Hb. }
  induction Hel as [|[f j] l Hf _ IH]; [done|]. rewrite filter_cons. cbn [existsb]. rewrite IH.
  cbn [fst snd]. destruct (decide (j < width mode f)) as [|Hge]; [done|].
  replace (src_bit b (f, j)) with false; [done|]. unfold src_bit. cbn [fst snd] in *.
  unfold in_range in Hr. rewrite Forall_forall in Hr. specialize (Hr f Hf).
  pose proof (width_bound f). symmetry. rewrite <- (Z.mod_small _ _ Hr).
  apply Z.mod_pow2_bits_high. lia.
Qed.

(** One bit of an unpacked frame. *)
Lemma unpacked_bit ws b0 f i l :
  length ws = n -> bits_wf b0 -> collect f i (all_moves mode) = Some l -> 0 <= i < 16 ->
  Z.testbit (get (foldl (step ws) b0 (all_moves mode)) f) i = existsb (word_bit ws) l.
Proof using Hmode.
  intros Hl Hb Hc Hi. destruct moves_facts as (Hok & _).
  rewrite steps_bit by done. by apply collect_sound.
Qed.

Lemma unpack_runs {R} ws b0 :
  length ws = n ->
  WebRtcIlbcfix_UnpackBits (R := R) ws b0 mode =
    Cont (ws !!! (n - 1)%nat mod 2, foldl (step ws) b0 (all_moves mode)).
Proof using Hmode.
  intros Hl. destruct moves_facts as (_ & _ & Hn). pose proof n_pos as H0.
  unfold WebRtcIlbcfix_UnpackBits. change ws with (drop 0 ws) at 1.
  rewrite run_moves_seq by lia. cbn [flow_bind]. rewrite rd_total by (unfold Zlen; lia).
  cbn [flow_bind]. unfold Zlen. rewrite Hn.
  replace (Z.to_nat (Z.of_nat n - 1)) with (n - 1)%nat by lia.
  assert (H1 : forall z, Z.land z 1 = z mod 2) by (intros z; by apply (Z.land_ones z 1)).
  rewrite H1. unfold all_moves. do 2 f_equal. destruct (Z.eqb_spec (ws !!! (n - 1)%nat mod 2) 1); zdm.
Qed.

Lemma existsb_flat_map {A B} (g : A -> list B) (h : B -> bool) l :
  existsb h (flat_map g l) = existsb (fun x => existsb h (g x)) l.
Proof. induction l as [|x l IH]; cbn; [done|]. by rewrite existsb_app, IH. Qed.

Lemma existsb_ext_elem {A} (g h : A -> bool) l :
  (forall x, x ∈ l -> g x = h x) -> existsb g l = existsb h l.
Proof.
  induction l as [|x l IH]; intros H; cbn; [done|].
  rewrite (H x), IH; [done| |]; intros; [apply H; by right|by left].
Qed.

Lemma unpack_pack_bit b b0 f i :
  bits_wf b0 -> in_range mode b -> f ∈ fields mode -> 0 <= i < 16 ->
  Z.testbit (get (foldl (step (WebRtcIlbcfix_PackBits b mode)) b0 (all_moves mode)) f) i =
  Z.testbit (get b f) i.
Proof using Hmode.
  intros Hb0 Hr Hf Hi. destruct (layout_ok mode Hmode) as (_ & _ & Hup & _).
  unfold unpack_pack_okb in Hup. pose proof (forallb_In _ _ f Hup Hf) as H. cbn beta in H.
  apply andb_true_iff in H as [_ H]. pose proof (forallb_In _ _ i H (bits16_elem i Hi)) as H2.
  cbn beta in H2. destruct (collect f i (all_moves mode)) as [l|] eqn:Hc; [|done].
  apply andb_true_iff in H2 as [Hks Hsrc%bool_decide_eq_true].
  rewrite (unpacked_bit _ _ _ _ l) by (done || apply pack_length).
  rewrite (existsb_ext_elem _ (fun x => existsb (src_bit b) (live_srcs mode x.1 x.2))).
  - rewrite <- existsb_flat_map. fold n. unfold live_srcs in *. rewrite Hsrc.
    unfold in_range in Hr. rewrite Forall_forall in Hr. specialize (Hr f Hf).
    destruct (Z.ltb_spec i (width mode f)); cbn; [by rewrite orb_false_r|].
    symmetry. rewrite <- (Z.mod_small _ _ Hr). apply Z.mod_pow2_bits_high.
    pose proof (width_bound f). lia.
  - intros [k p] Hx. pose proof (forallb_In _ _ _ Hks Hx) as Hk. cbn beta in Hk.
    cbn [fst snd] in *. apply Nat.ltb_lt in Hk. unfold word_bit. cbn [fst snd].
    rewrite pack_word_bit_at by done. by apply src_bits_live.
Qed.

Lemma pack_unpack_bit ws b0 k p :
  Forall is_u16 ws -> length ws = n -> bits_wf b0 -> (k < n)%nat -> 0 <= p < 16 ->
  let b := foldl (step ws) b0 (all_moves mode) in
  Z.testbit (WebRtcIlbcfix_PackBits b mode !!! k) p =
  if (k =? n - 1)%nat && (p =? 0) then false else Z.testbit (ws !!! k) p.
Proof using Hmode.
  intros Hu Hl Hb0 Hk Hp b. destruct (layout_ok mode Hmode) as (_ & _ & _ & Hpu).
  unfold pack_unpack_okb in Hpu. fold n in Hpu. apply andb_true_iff in Hpu as [H1 H2].
  pose proof (forallb_In _ _ p (forallb_In _ _ k H1 (seq_elem k n Hk)) (bits16_elem p Hp)) as Hsrc.
  pose proof (forallb_In _ _ p (forallb_In _ _ k H2 (seq_elem k n Hk)) (bits16_elem p Hp)) as Hrng.
  cbn beta in Hsrc, Hrng. apply bool_decide_eq_true in Hsrc.
  rewrite pack_word_bit_at by done.
  rewrite (existsb_ext_elem _ (fun x => existsb (word_bit ws) (back_srcs mode x))).
  - rewrite <- existsb_flat_map, Hsrc. destruct (_ && _); cbn; [done|by rewrite orb_false_r].
  - intros [f j] Hx. pose proof (forallb_In _ _ _ Hrng Hx) as Hj. cbn beta in Hj.
    cbn [fst snd] in Hj. apply andb_true_iff in Hj as [Hj1%Z.leb_le Hj2%Z.ltb_lt].
    unfold src_bit, back_srcs. cbn [fst snd].
    destruct (collect f j (all_moves mode)) as [l|] eqn:Hc.
    + rewrite live_word_bits by done. by apply unpacked_bit.
    + exfalso. assert (Hin : (n, 0) ∈ flat_map (back_srcs mode) (word_srcs (pack_terms mode !!! k) p)).
      { apply list_elem_of_In, in_flat_map. exists (f, j). split; [by apply list_elem_of_In|].
        unfold back_srcs. cbn [fst snd]. rewrite Hc. by left. }
      rewrite Hsrc in Hin. destruct (_ && _); [by apply not_elem_of_nil in Hin|].
      apply list_elem_of_singleton in Hin. injection Hin as Hn _. lia.
Qed.
End layout.

(** C39: Packing is lossless.  For parameters within their bit widths, unpacking the
    packed words recovers every parameter of the frame and reports a non-empty
    frame, whatever the target struct held before, in 20 ms and in 30 ms mode. *)
Theorem unpack_pack mode b b0 :
  mode = 20 \/ mode = 30 -> bits_wf b -> bits_wf b0 -> in_range mode b ->
  exists b', WebRtcIlbcfix_UnpackBits (R := Empty_set) (WebRtcIlbcfix_PackBits b mode) b0 mode =
      Cont (0, b') /\
    Forall (fun f => get b' f = get b f) (fields mode).
Proof.
  intros Hm Hb Hb0 Hr. rewrite unpack_runs by (done || by apply pack_length).
  eexists; split.
  - do 3 f_equal. pose proof (n_pos mode Hm). rewrite <- Z.bit0_mod, pack_word_bit_at by (done || lia).
    destruct Hm as [-> | ->]; reflexivity.
  - apply Forall_forall. intros f Hf. pose proof (layout_ok mode Hm) as (_ & _ & Hup & _).
    pose proof (forallb_In _ _ f Hup Hf) as H. cbn beta in H. apply andb_true_iff in H as [Hhit _].
    destruct (moves_facts mode Hm) as (Hok & _ & _).
    apply s16_eq_bits.
    + apply steps_s16; [done|done|by right].
    + unfold in_range in Hr. rewrite Forall_forall in Hr. specialize (Hr f Hf).
      pose proof (width_bound mode Hm f). assert (2 ^ width mode f <= 2 ^ 8) by (apply Z.pow_le_mono_r; lia).
      unfold is_s16. lia.
    + intros i Hi. by apply unpack_pack_bit.
Qed.

(** Unpacking keeps every bit.  For any words, unpacking succeeds, the returned
    indicator is the last bit of the last word ("empty frame"), and packing the
    parameters again gives the same words with that bit cleared. *)
Theorem pack_unpack mode ws b0 :
  mode = 20 \/ mode = 30 -> Forall is_u16 ws -> length ws = (if mode =? 20 then 19%nat else 25%nat) ->
  bits_wf b0 ->
  exists flag b', WebRtcIlbcfix_UnpackBits (R := Empty_set) ws b0 mode = Cont (flag, b') /\
    flag = ws !!! (length ws - 1)%nat mod 2 /\
    WebRtcIlbcfix_PackBits b' mode =
      <[(length ws - 1)%nat := ws !!! (length ws - 1)%nat - flag]> ws.
Proof.
  intros Hm Hu Hl Hb0. assert (Hn : length ws = length (pack_terms mode)).
  { rewrite Hl. by destruct Hm as [-> | ->]. }
  rewrite unpack_runs by done. eexists _, _. split; [done|]. rewrite Hn. split; [done|].
  pose proof (n_pos mode Hm) as Hpos. set (n := length (pack_terms mode)) in *.
  assert (Hlen : forall b, length (WebRtcIlbcfix_PackBits b mode) = n) by (intros; apply length_map).
  apply (list_eq_same_length _ _ n); [by rewrite length_insert|done|].
  intros k x y Hk Hx Hy. apply list_lookup_total_correct in Hx, Hy. subst x y.
  apply Z.bits_inj'. intros p Hp0.
  assert (Hw : is_u16 (ws !!! (n - 1)%nat)) by (apply Forall_total; [done|lia]).
  destruct (Z.lt_ge_cases p 16) as [Hp|Hp].
  - rewrite pack_unpack_bit by (done || lia). fold n.
    destruct (Nat.eqb_spec k (n - 1)) as [->|Hne].
    + rewrite list_lookup_total_insert_eq by lia. cbn [andb].
      set (w := ws !!! (n - 1)%nat).
      replace (w - w mod 2) with (2 * (w / 2)) by zdm.
      destruct (Z.eqb_spec p 0) as [->|Hp1]; [by rewrite Z.testbit_even_0|].
      replace p with (Z.succ (p - 1)) by lia.
      by rewrite Z.testbit_even_succ, Z.div2_bits by lia.
    + by rewrite list_lookup_total_insert_ne by lia.
  - rewrite pack_word_bit_at by (done || lia). unfold word_srcs.
    destruct (Z.ltb_spec p 16); [lia|]. rewrite andb_false_r. cbn [existsb].
    assert (Hv : is_u16 (<[(n - 1)%nat := ws !!! (n - 1)%nat - ws !!! (n - 1)%nat mod 2]> ws !!! k)).
    { apply Forall_total; [|rewrite length_insert; lia].
      apply Forall_insert; [done|]. unfold is_u16 in *. zdm. }
    symmetry. unfold is_u16 in Hv. rewrite <- (Z.mod_small _ (2 ^ 16) Hv).
    by apply Z.mod_pow2_bits_high.
Qed.

Definition ex_bits : iLBC_bits :=
  mk_iLBC_bits [63; 127; 1; 5; 100; 64] (map Z.of_nat (seq 50 15))
    [31; 15; 7; 16; 8; 4; 1; 2; 3; 30; 9; 5; 12; 14; 6] 42 1
    (map (fun i => Z.of_nat (i mod 8)) (seq 0 58)) 2.

Lemma unpack_pack_witness :
  in_range 30 ex_bits /\
  exists b', WebRtcIlbcfix_UnpackBits (R := Empty_set) (WebRtcIlbcfix_PackBits ex_bits 30) ex_bits 30 =
      Cont (0, b') /\
    Forall (fun f => get b' f = get ex_bits f) (fields 30).
Proof.
  assert (Hr : in_range 30 ex_bits) by (apply (bool_decide_unpack _); vm_compute; exact I).
  split; [exact Hr|]. apply unpack_pack; [by right|by split|by split|exact Hr].
Defined.

Lemma pack_unpack_witness :
  exists flag b', WebRtcIlbcfix_UnpackBits (R := Empty_set) (replicate 19 65535) ex_bits 20 =
      Cont (flag, b') /\
    flag = 1 /\ WebRtcIlbcfix_PackBits b' 20 = <[18%nat := 65535 - flag]> (replicate 19 65535).
Proof.
  apply (pack_unpack 20 (replicate 19 65535) ex_bits);
    [by left|by apply Forall_replicate|done|by split].
Defined.
