(* ===== verification/SplInl.v ===== *)
(** * Integer primitives of the signal processing library

    Models [spl_inl.h], [division_operations.c] (except WebRtcSpl_DivW32HiLow) and
    [spl_sqrt_floor.c] of [src/webrtc_backup/common_audio/signal_processing], the
    generic C versions.  Signed results that C leaves undefined on overflow are
    wrapped, as two's complement machines do. *)
From S2P Require Import Prelude.
Local Open Scope Z_scope.

(** ** Saturation *)

Definition WebRtcSpl_SatW32ToW16 (value32 : Z) : Z :=
  if 32767 <? value32 then 32767 else if value32 <? -32768 then -32768 else s16 value32.

Definition WebRtcSpl_AddSatW16 (a b : Z) : Z := WebRtcSpl_SatW32ToW16 (a + b).
Definition WebRtcSpl_SubSatW16 (var1 var2 : Z) : Z := WebRtcSpl_SatW32ToW16 (var1 - var2).

Definition WebRtcSpl_AddSatW32 (l_var1 l_var2 : Z) : Z :=
  let l_sum := s32 (l_var1 + l_var2) in
  if l_var1 <? 0 then
    if (l_var2 <? 0) && (0 <=? l_sum) then -2147483648 else l_sum
  else
    if (0 <? l_var2) && (l_sum <? 0) then 2147483647 else l_sum.

Definition WebRtcSpl_SubSatW32 (l_var1 l_var2 : Z) : Z :=
  let l_diff := s32 (l_var1 - l_var2) in
  if l_var1 <? 0 then
    if (0 <? l_var2) && (0 <? l_diff) then -2147483648 else l_diff
  else
    if (l_var2 <? 0) && (l_diff <? 0) then 2147483647 else l_diff.

(** ** Bit counts *)

(** [if (!(mask & v))]. *)
Definition none_of (mask v : Z) : bool := Z.land mask v =? 0.

Definition WebRtcSpl_GetSizeInBits (n : Z) : Z :=
  let bits := if none_of 4294901760 n then 0 else 16 in
  let bits := if none_of 65280 (Z.shiftr n bits) then bits else bits + 8 in
  let bits := if none_of 240 (Z.shiftr n bits) then bits else bits + 4 in
  let bits := if none_of 12 (Z.shiftr n bits) then bits else bits + 2 in
  let bits := if none_of 2 (Z.shiftr n bits) then bits else bits + 1 in
  if none_of 1 (Z.shiftr n bits) then bits else bits + 1.

Definition WebRtcSpl_NormW32 (a : Z) : Z :=
  if a =? 0 then 0
  else
    let a := if a <? 0 then Z.lnot a else a in
    let zeros := if none_of 4294934528 a then 16 else 0 in
    let zeros := if none_of 4286578688 (u32 (Z.shiftl a zeros)) then zeros + 8 else zeros in
    let zeros := if none_of 4160749568 (u32 (Z.shiftl a zeros)) then zeros + 4 else zeros in
    let zeros := if none_of 3758096384 (u32 (Z.shiftl a zeros)) then zeros + 2 else zeros in
    if none_of 3221225472 (u32 (Z.shiftl a zeros)) then zeros + 1 else zeros.

Definition WebRtcSpl_NormU32 (a : Z) : Z :=
  if a =? 0 then 0
  else
    let zeros := if none_of 4294901760 a then 16 else 0 in
    let zeros := if none_of 4278190080 (u32 (Z.shiftl a zeros)) then zeros + 8 else zeros in
    let zeros := if none_of 4026531840 (u32 (Z.shiftl a zeros)) then zeros + 4 else zeros in
    let zeros := if none_of 3221225472 (u32 (Z.shiftl a zeros)) then zeros + 2 else zeros in
    if none_of 2147483648 (u32 (Z.shiftl a zeros)) then zeros + 1 else zeros.

Definition WebRtcSpl_NormW16 (a : Z) : Z :=
  if a =? 0 then 0
  else
    let a := if a <? 0 then Z.lnot a else a in
    let zeros := if none_of 65408 a then 8 else 0 in
    let zeros := if none_of 63488 (Z.shiftl a zeros) then zeros + 4 else zeros in
    let zeros := if none_of 57344 (Z.shiftl a zeros) then zeros + 2 else zeros in
    if none_of 49152 (Z.shiftl a zeros) then zeros + 1 else zeros.

Definition WebRtc_MulAccumW16 (a b c : Z) : Z := s32 (a * b + c).

(** ** Division *)

Definition WebRtcSpl_DivU32U16 (num den : Z) : Z :=
  if den =? 0 then 4294967295 else u32 (num / den).

Definition WebRtcSpl_DivW32W16 (num den : Z) : Z :=
  if den =? 0 then 2147483647 else s32 (Z.quot num den).

Definition WebRtcSpl_DivW32W16ResW16 (num den : Z) : Z :=
  if den =? 0 then 32767 else s16 (Z.quot num den).

(** [while (k--)]: one quotient bit per iteration. *)
Fixpoint div_loop (k : nat) (L_num L_den div : Z) : Z :=
  match k with
  | O => div
  | S k =>
      let div := s32 (Z.shiftl div 1) in
      let L_num := s32 (Z.shiftl L_num 1) in
      if L_den <=? L_num then div_loop k (s32 (L_num - L_den)) L_den (s32 (div + 1))
      else div_loop k L_num L_den div
  end.

Definition WebRtcSpl_DivResultInQ31 (num den : Z) : Z :=
  if num =? 0 then 0
  else
    let L_num := if num <? 0 then s32 (- num) else num in
    let L_den := if den <? 0 then s32 (- den) else den in
    let change_sign := (if num <? 0 then 1 else 0) + (if den <? 0 then 1 else 0) in
    let div := div_loop 31 L_num L_den 0 in
    if change_sign =? 1 then s32 (- div) else div.

(** ** Square root *)

(** [WEBRTC_SPL_SQRT_ITER(N)] for [N = k - 1] down to 0. *)
Fixpoint sqrt_iter (k : nat) (value root : Z) : Z :=
  match k with
  | O => root
  | S N =>
      let try1 := s32 (root + Z.shiftl 1 (Z.of_nat N)) in
      let shifted := s32 (Z.shiftl try1 (Z.of_nat N)) in
      if shifted <=? value
      then sqrt_iter N (s32 (value - shifted)) (Z.lor root (Z.shiftl 2 (Z.of_nat N)))
      else sqrt_iter N value root
  end.

Definition WebRtcSpl_SqrtFloor (value : Z) : Z := Z.shiftr (sqrt_iter 16 value 0) 1.

(** ** Lemmas *)

Definition clamp (lo hi x : Z) : Z := Z.max lo (Z.min hi x).

Lemma SatW32ToW16_clamp x : WebRtcSpl_SatW32ToW16 x = clamp (-32768) 32767 x.
Proof.
  unfold WebRtcSpl_SatW32ToW16, clamp. zcases; try lia. rewrite s16_id; unfold is_s16; lia.
Qed.

(** A mask of the high bits from [k] on tests for values from [2 ^ k] on. *)
Lemma none_of_high n k v :
  0 <= n -> 0 <= k -> 0 <= v < 2 ^ (n + k) ->
  none_of (Z.shiftl (Z.ones n) k) v = (v <? 2 ^ k).
Proof.
  intros Hn Hk Hv. unfold none_of. rewrite Z.land_comm, land_field by lia.
  assert (0 < 2 ^ k) by lia. rewrite Z.pow_add_r in Hv by lia.
  assert (Hq : 0 <= v / 2 ^ k < 2 ^ n)
    by (split; [apply Z.div_pos; lia|apply Z.div_lt_upper_bound; lia]).
  rewrite Z.mod_small by done.
  destruct (Z.ltb_spec v (2 ^ k)).
  - rewrite Z.div_small by lia. done.
  - apply Z.eqb_neq. assert (1 <= v / 2 ^ k) by (apply Z.div_le_lower_bound; lia). lia.
Qed.

Ltac mask n k := rewrite <- (none_of_high n k); [reflexivity|lia|lia|].

Lemma none_of_32_15 v : is_u32 v -> none_of 4294934528 v = (v <? 2 ^ 15).
Proof. intros. mask 17 15. exact H. Qed.
Lemma none_of_32_16 v : is_u32 v -> none_of 4294901760 v = (v <? 2 ^ 16).
Proof. intros. mask 16 16. exact H. Qed.
Lemma none_of_32_23 v : is_u32 v -> none_of 4286578688 v = (v <? 2 ^ 23).
Proof. intros. mask 9 23. exact H. Qed.
Lemma none_of_32_24 v : is_u32 v -> none_of 4278190080 v = (v <? 2 ^ 24).
Proof. intros. mask 8 24. exact H. Qed.
Lemma none_of_32_27 v : is_u32 v -> none_of 4160749568 v = (v <? 2 ^ 27).
Proof. intros. mask 5 27. exact H. Qed.
Lemma none_of_32_28 v : is_u32 v -> none_of 4026531840 v = (v <? 2 ^ 28).
Proof. intros. mask 4 28. exact H. Qed.
Lemma none_of_32_29 v : is_u32 v -> none_of 3758096384 v = (v <? 2 ^ 29).
Proof. intros. mask 3 29. exact H. Qed.
Lemma none_of_32_30 v : is_u32 v -> none_of 3221225472 v = (v <? 2 ^ 30).
Proof. intros. mask 2 30. exact H. Qed.
Lemma none_of_32_31 v : is_u32 v -> none_of 2147483648 v = (v <? 2 ^ 31).
Proof. intros. mask 1 31. exact H. Qed.

Lemma none_of_16_7 v : is_u16 v -> none_of 65408 v = (v <? 2 ^ 7).
Proof. intros. mask 9 7. exact H. Qed.
Lemma none_of_16_8 v : is_u16 v -> none_of 65280 v = (v <? 2 ^ 8).
Proof. intros. mask 8 8. exact H. Qed.
Lemma none_of_16_11 v : is_u16 v -> none_of 63488 v = (v <? 2 ^ 11).
Proof. intros. mask 5 11. exact H. Qed.
Lemma none_of_16_13 v : is_u16 v -> none_of 57344 v = (v <? 2 ^ 13).
Proof. intros. mask 3 13. exact H. Qed.
Lemma none_of_16_14 v : is_u16 v -> none_of 49152 v = (v <? 2 ^ 14).
Proof. intros. mask 2 14. exact H. Qed.

Lemma none_of_8_4 v : 0 <= v < 256 -> none_of 240 v = (v <? 2 ^ 4).
Proof. intros. mask 4 4. exact H. Qed.
Lemma none_of_4_2 v : 0 <= v < 16 -> none_of 12 v = (v <? 2 ^ 2).
Proof. intros. mask 2 2. exact H. Qed.
Lemma none_of_2_1 v : 0 <= v < 4 -> none_of 2 v = (v <? 2 ^ 1).
Proof. intros. mask 1 1. exact H. Qed.
Lemma none_of_1_0 v : 0 <= v < 2 -> none_of 1 v = (v <? 2 ^ 0).
Proof. intros. mask 1 0. exact H. Qed.

Create Rewrite HintDb masks.
#[export] Hint Rewrite none_of_32_15 none_of_32_16 none_of_32_23 none_of_32_24 none_of_32_27
  none_of_32_28 none_of_32_29 none_of_32_30 none_of_32_31 none_of_16_7 none_of_16_8
  none_of_16_11 none_of_16_13 none_of_16_14 none_of_8_4 none_of_4_2 none_of_2_1 none_of_1_0
  using (cunf; lia) : masks.

(** A number that satisfies a downward closed property and whose successor
    does not bounds exactly the numbers with the property. *)
Lemma greatest_iff (P : Z -> Prop) n :
  0 <= n -> P n -> ~ P (n + 1) -> (forall m m', 0 <= m <= m' -> P m' -> P m) ->
  forall m, 0 <= m -> P m <-> m <= n.
Proof.
  intros Hn H1 H2 Hmono m Hm. split; intros H.
  - destruct (Z.le_gt_cases m n); [done|]. destruct H2. apply (Hmono _ m); [lia|done].
  - by apply (Hmono m n).
Qed.

(** One step of the search for the leading bit of a [w]-bit number: [z] counts
    the zeros found, and at most [2 * k - 1] are left before the step. *)
Lemma norm_step w k z b (t : bool) :
  0 <= z -> 1 <= k -> 2 * k <= w + 1 -> 1 <= b -> t = (b * 2 ^ z <? 2 ^ (w - k)) ->
  2 ^ (w - 2 * k) <= b * 2 ^ z < 2 ^ w ->
  0 <= (if t then z + k else z) /\
  2 ^ (w - k) <= b * 2 ^ (if t then z + k else z) < 2 ^ w.
Proof.
  intros Hz Hk Hw Hb -> Hv. destruct (Z.ltb_spec (b * 2 ^ z) (2 ^ (w - k))); cbv iota; [|by destruct Hv].
  split; [lia|]. rewrite Z.pow_add_r, Z.mul_assoc by lia.
  assert (Hw1 : 2 ^ w = 2 ^ (w - k) * 2 ^ k) by (rewrite <- Z.pow_add_r by lia; f_equal; lia).
  destruct (Z.eq_dec (2 * k) (w + 1)) as [He|He].
  - assert (1 <= b * 2 ^ z) by nia. replace (w - k) with (k - 1) in * by lia.
    assert (2 ^ (k - 1) <= 2 ^ k) by (apply Z.pow_le_mono_r; lia). nia.
  - assert (2 ^ (w - k) = 2 ^ (w - 2 * k) * 2 ^ k)
      by (rewrite <- Z.pow_add_r by lia; f_equal; lia). nia.
Qed.

Lemma shl_u32 b z : 0 <= z -> 0 <= b -> b * 2 ^ z < 2 ^ 32 -> u32 (Z.shiftl b z) = b * 2 ^ z.
Proof. intros. rewrite Z.shiftl_mul_pow2 by lia. apply u32_id. unfold is_u32. lia. Qed.

Ltac mask_test b :=
  rewrite ?shl_u32, ?Z.shiftl_mul_pow2, ?Z.mul_1_r by lia;
  autorewrite with masks; reflexivity.
Ltac norm_next w k b :=
  match goal with
  | |- context [if ?t then ?z + k else ?z] =>
      let z' := fresh "z" in let Hz := fresh "Hz" in let Hb := fresh "Hb" in
      assert (Hz := norm_step w k z b t);
      destruct Hz as [Hz Hb];
      [lia|lia|lia|lia|mask_test b|simpl Z.sub; simpl Z.mul; lia|];
      revert Hz Hb; generalize (if t then z + k else z); intros z' Hz Hb
  end.

Lemma NormW32_pos b (z := WebRtcSpl_NormW32 b) :
  0 < b < 2 ^ 31 -> 0 <= z /\ 2 ^ 30 <= b * 2 ^ z < 2 ^ 31.
Proof.
  intros H. subst z. unfold WebRtcSpl_NormW32.
  destruct (Z.eqb_spec b 0); [lia|]. destruct (Z.ltb_spec b 0); [lia|]. cbn zeta.
  change (if none_of 4294934528 b then 16 else 0)
    with (if none_of 4294934528 b then 0 + 16 else 0).
  norm_next 31 16 b. norm_next 31 8 b. norm_next 31 4 b. norm_next 31 2 b. norm_next 31 1 b.
  done.
Qed.

Lemma NormU32_pos b (z := WebRtcSpl_NormU32 b) :
  0 < b < 2 ^ 32 -> 0 <= z /\ 2 ^ 31 <= b * 2 ^ z < 2 ^ 32.
Proof.
  intros H. subst z. unfold WebRtcSpl_NormU32. destruct (Z.eqb_spec b 0); [lia|]. cbn zeta.
  change (if none_of 4294901760 b then 16 else 0)
    with (if none_of 4294901760 b then 0 + 16 else 0).
  norm_next 32 16 b. norm_next 32 8 b. norm_next 32 4 b. norm_next 32 2 b. norm_next 32 1 b.
  done.
Qed.

Lemma NormW16_pos b (z := WebRtcSpl_NormW16 b) :
  0 < b < 2 ^ 15 -> 0 <= z /\ 2 ^ 14 <= b * 2 ^ z < 2 ^ 15.
Proof.
  intros H. subst z. unfold WebRtcSpl_NormW16.
  destruct (Z.eqb_spec b 0); [lia|]. destruct (Z.ltb_spec b 0); [lia|]. cbn zeta.
  change (if none_of 65408 b then 8 else 0) with (if none_of 65408 b then 0 + 8 else 0).
  norm_next 15 8 b. norm_next 15 4 b. norm_next 15 2 b. norm_next 15 1 b.
  done.
Qed.

(** One step of the search for the size of [n]. *)
Lemma size_step k z n (t : bool) :
  0 <= z -> 0 <= k -> t = (n / 2 ^ z <? 2 ^ k) -> 1 <= n / 2 ^ z < 2 ^ (k + k) ->
  0 <= (if t then z else z + k) /\ 1 <= n / 2 ^ (if t then z else z + k) < 2 ^ k.
Proof.
  intros Hz Hk -> Hv. destruct (Z.ltb_spec (n / 2 ^ z) (2 ^ k)); cbv iota.
  - split; [done|]. split; [apply Hv|done].
  - split; [lia|]. rewrite Z.pow_add_r, <- Z.div_div by lia.
    rewrite Z.pow_add_r in Hv by lia. split.
    + apply Z.div_le_lower_bound; lia.
    + apply Z.div_lt_upper_bound; lia.
Qed.

Ltac size_next k n :=
  match goal with
  | |- context [if ?t then ?z else ?z + k] =>
      let z' := fresh "z" in let Hz := fresh "Hz" in let Hb := fresh "Hb" in
      assert (Hz := size_step k z n t);
      destruct Hz as [Hz Hb];
      [lia|lia|rewrite ?Z.shiftr_div_pow2, ?Z.div_1_r by lia;
               autorewrite with masks; reflexivity
      |rewrite ?Z.div_1_r; simpl Z.add; lia|];
      revert Hz Hb; generalize (if t then z else z + k); intros z' Hz Hb
  end.

Lemma GetSizeInBits_pos n (r := WebRtcSpl_GetSizeInBits n) :
  0 < n < 2 ^ 32 -> 1 <= r /\ 2 ^ (r - 1) <= n < 2 ^ r.
Proof.
  intros H. subst r. unfold WebRtcSpl_GetSizeInBits. cbn zeta.
  change (if none_of 4294901760 n then 0 else 16)
    with (if none_of 4294901760 n then 0 else 0 + 16).
  size_next 16 n. size_next 8 n. size_next 4 n. size_next 2 n. size_next 1 n.
  replace (none_of 1 (Z.shiftr n z3)) with false.
  2:{ rewrite Z.shiftr_div_pow2 by lia. replace (n / 2 ^ z3) with 1 by lia. reflexivity. }
  split; [lia|]. replace (z3 + 1 - 1) with z3 by lia. rewrite Z.pow_add_r by lia.
  assert (n / 2 ^ z3 = 1) by lia. assert (0 < 2 ^ z3) by lia. 
  generalize dependent (2 ^ z3). intros p. intros. zdm.
Qed.

Lemma pow_split n m : 0 <= m <= n -> 2 ^ n = 2 ^ (n - m) * 2 ^ m.
Proof. intros. rewrite <- Z.pow_add_r by lia. f_equal. lia. Qed.

Lemma pow_mono n m : 0 <= n <= m -> 2 ^ n <= 2 ^ m.
Proof. intros. apply Z.pow_le_mono_r; lia. Qed.

Lemma pow_pos n : 0 <= n -> 0 < 2 ^ n.
Proof. intros. apply Z.pow_pos_nonneg; lia. Qed.

(** The shifts that keep a number below [2 ^ w], from the leading bit. *)
Lemma shifts_below w b z m :
  0 <= z -> 1 <= w -> 2 ^ (w - 1) <= b * 2 ^ z < 2 ^ w -> 0 <= m -> b * 2 ^ m < 2 ^ w <-> m <= z.
Proof.
  intros Hz Hw Hb Hm. assert (Hw1 := pow_split w 1 ltac:(lia)). rewrite Z.pow_1_r in Hw1.
  assert (0 < 2 ^ z) by (apply pow_pos; lia). assert (0 < 2 ^ (w - 1)) by (apply pow_pos; lia).
  revert m Hm. apply greatest_iff; [done|lia| |].
  - rewrite Z.pow_add_r, Z.pow_1_r by lia. nia.
  - intros m m' Hm ?. assert (2 ^ m <= 2 ^ m') by (apply pow_mono; lia).
    assert (0 < b) by nia. nia.
Qed.

(** The same for a negative number and its complement [b]. *)
Lemma shifts_above w b z m :
  0 <= z -> 1 <= w -> 1 <= b -> 2 ^ (w - 1) <= b * 2 ^ z < 2 ^ w -> 0 <= m ->
  (b + 1) * 2 ^ m <= 2 ^ w <-> m <= z.
Proof.
  intros Hz Hw Hb1 Hb Hm. assert (Hw1 := pow_split w 1 ltac:(lia)). rewrite Z.pow_1_r in Hw1.
  assert (0 < 2 ^ z) by (apply pow_pos; lia). assert (0 < 2 ^ (w - 1)) by (apply pow_pos; lia).
  revert m Hm. apply greatest_iff; [done| | |].
  - destruct (Z.le_gt_cases z w); [|assert (2 ^ w <= 2 ^ z) by (apply pow_mono; lia); nia].
    assert (Hwz := pow_split w z ltac:(lia)).
    assert (b < 2 ^ (w - z)) by (apply (Z.mul_lt_mono_pos_r (2 ^ z)); lia). nia.
  - rewrite Z.pow_add_r, Z.pow_1_r by lia. nia.
  - intros m m' Hm ?. assert (2 ^ m <= 2 ^ m') by (apply pow_mono; lia). nia.
Qed.

Lemma NormW32_neg a : a < -1 -> WebRtcSpl_NormW32 a = WebRtcSpl_NormW32 (Z.lnot a).
Proof.
  intros H. assert (Z.lnot a = -a - 1) as E by (unfold Z.lnot; lia). unfold WebRtcSpl_NormW32.
  destruct (Z.eqb_spec a 0), (Z.ltb_spec a 0), (Z.eqb_spec (Z.lnot a) 0),
    (Z.ltb_spec (Z.lnot a) 0); done || lia.
Qed.

Lemma NormW16_neg a : a < -1 -> WebRtcSpl_NormW16 a = WebRtcSpl_NormW16 (Z.lnot a).
Proof.
  intros H. assert (Z.lnot a = -a - 1) as E by (unfold Z.lnot; lia). unfold WebRtcSpl_NormW16.
  destruct (Z.eqb_spec a 0), (Z.ltb_spec a 0), (Z.eqb_spec (Z.lnot a) 0),
    (Z.ltb_spec (Z.lnot a) 0); done || lia.
Qed.

(** A signed [w + 1]-bit number other than zero. *)
Lemma signed_shifts (f : Z -> Z) w a m :
  1 <= w -> f (-1) = w -> (forall x, x < -1 -> f x = f (Z.lnot x)) ->
  (forall b, 0 < b < 2 ^ w -> 0 <= f b /\ 2 ^ (w - 1) <= b * 2 ^ f b < 2 ^ w) ->
  - 2 ^ w <= a < 2 ^ w -> a <> 0 -> 0 <= m -> - 2 ^ w <= a * 2 ^ m < 2 ^ w <-> m <= f a.
Proof.
  intros Hw Hm1 Hneg Hpos Ha Hz Hm. assert (0 < 2 ^ m) by (apply pow_pos; lia).
  destruct (Z.lt_trichotomy a (-1)) as [H1|[->|H1]].
  - rewrite Hneg by done. assert (Z.lnot a = -a - 1) as E by (unfold Z.lnot; lia). rewrite E.
    destruct (Hpos (-a - 1)) as [? Hb]; [lia|].
    rewrite <- (shifts_above w (-a - 1) _ m) by (done || lia).
    assert (0 < 2 ^ w) by (apply pow_pos; lia). assert (a * 2 ^ m < 0) by nia.
    replace (-a - 1 + 1) with (- a) by lia. lia.
  - rewrite Hm1. split; intros H2.
    + apply (Z.pow_le_mono_r_iff 2); lia.
    + apply (Z.pow_le_mono_r_iff 2) in H2; lia.
  - destruct (Hpos a) as [? Hb]; [lia|]. rewrite <- (shifts_below w a _ m) by (done || lia).
    assert (0 < a * 2 ^ m) by nia. assert (0 < 2 ^ w) by (apply pow_pos; lia). lia.
Qed.

Lemma NormW32_shifts a m :
  is_s32 a -> a <> 0 -> 0 <= m -> is_s32 (a * 2 ^ m) <-> m <= WebRtcSpl_NormW32 a.
Proof.
  intros Ha. apply (signed_shifts _ 31); [done|done|apply NormW32_neg|apply NormW32_pos|apply Ha].
Qed.

Lemma NormW16_shifts a m :
  is_s16 a -> a <> 0 -> 0 <= m -> is_s16 (a * 2 ^ m) <-> m <= WebRtcSpl_NormW16 a.
Proof.
  intros Ha. apply (signed_shifts _ 15); [done|done|apply NormW16_neg|apply NormW16_pos|apply Ha].
Qed.

Lemma NormU32_shifts a m :
  is_u32 a -> a <> 0 -> 0 <= m -> is_u32 (a * 2 ^ m) <-> m <= WebRtcSpl_NormU32 a.
Proof.
  intros Ha Hz Hm. destruct (NormU32_pos a) as [? Hb]; [unfold is_u32 in *; lia|].
  rewrite <- (shifts_below 32 a _ m) by (done || lia). assert (0 < 2 ^ m) by (apply pow_pos; lia).
  unfold is_u32 in *. nia.
Qed.

Lemma GetSizeInBits_below n m :
  is_u32 n -> 0 <= m -> n < 2 ^ m <-> WebRtcSpl_GetSizeInBits n <= m.
Proof.
  intros Hn Hm. destruct (Z.eq_dec n 0) as [->|].
  - change (WebRtcSpl_GetSizeInBits 0) with 0. assert (0 < 2 ^ m) by (apply pow_pos; lia). lia.
  - destruct (GetSizeInBits_pos n) as [? Hb]; [unfold is_u32 in *; lia|]. split; intros.
    + destruct (Z.le_gt_cases (WebRtcSpl_GetSizeInBits n) m); [done|].
      assert (2 ^ m <= 2 ^ (WebRtcSpl_GetSizeInBits n - 1)) by (apply pow_mono; lia). lia.
    + assert (2 ^ (WebRtcSpl_GetSizeInBits n) <= 2 ^ m) by (apply pow_mono; lia). lia.
Qed.

Lemma clamp_id lo hi x : lo <= x <= hi -> clamp lo hi x = x.
Proof. unfold clamp. lia. Qed.

(** The comparison of one iteration does not overflow. *)
Lemma sqrt_try_range q p :
  0 <= q -> 0 < p <= 32768 -> q * (p * 2) <= 46340 -> q = 0 \/ p <= 16384 ->
  0 <= (4 * q + 1) * p <= 109064 /\ 0 <= (4 * q + 1) * p * p < 2 ^ 31.
Proof.
  intros Hq Hp Hqp Hc. replace ((4 * q + 1) * p) with (2 * (q * (p * 2)) + p) by ring.
  assert (0 <= q * (p * 2)) by nia. destruct Hc as [->|Hc]; [nia|]. split; nia.
Qed.

(** [root |= 2 << N] sets a bit above which the doubled root is a multiple. *)
Lemma sqrt_or q N : Z.lor (2 * (q * (2 ^ Z.of_nat N * 2))) (2 * 2 ^ Z.of_nat N)
  = 2 * ((2 * q + 1) * 2 ^ Z.of_nat N).
Proof.
  replace (2 * (q * (2 ^ Z.of_nat N * 2))) with (q * 2 ^ (Z.of_nat N + 2))
    by (rewrite Z.pow_add_r by lia; ring).
  rewrite lor_high_low; rewrite ?Z.pow_add_r by lia; [ring|lia|].
  assert (0 < 2 ^ Z.of_nat N) by (apply pow_pos; lia). lia.
Qed.

(** The iteration for bit [N]: the root [q * 2 ^ k] found so far is kept
    doubled, and [value] is what remains of [v]. *)
Lemma sqrt_iter_spec k q v :
  (k <= 16)%nat -> 0 <= q -> 0 <= v < 2 ^ 31 ->
  (q * 2 ^ Z.of_nat k) ^ 2 <= v < ((q + 1) * 2 ^ Z.of_nat k) ^ 2 ->
  sqrt_iter k (v - (q * 2 ^ Z.of_nat k) ^ 2) (2 * (q * 2 ^ Z.of_nat k)) = 2 * Z.sqrt v.
Proof.
  intros Hk Hq Hv. revert q Hq. induction k as [|N IH]; intros q Hq Hr; cbn [sqrt_iter].
  - change (2 ^ Z.of_nat 0) with 1 in *. rewrite !Z.mul_1_r in *.
    f_equal. symmetry. apply Z.sqrt_unique. unfold Z.succ. lia.
  - assert (HN : Z.of_nat (S N) = Z.of_nat N + 1) by lia.
    rewrite HN, Z.pow_add_r, Z.pow_1_r in * by lia.
    rewrite !Z.shiftl_mul_pow2, Z.mul_1_l by lia. rewrite sqrt_or.
    assert (Hp : 0 < 2 ^ Z.of_nat N <= 2 ^ 15) by
      (split; [apply pow_pos; lia|apply pow_mono; lia]).
    assert (Hp1 : N = 15%nat \/ 2 ^ Z.of_nat N <= 2 ^ 14) by
      (destruct (decide (N = 15%nat)); [by left|right; apply pow_mono; lia]).
    assert (Hp2 : N = 15%nat -> 2 ^ Z.of_nat N = 2 ^ 15) by (by intros ->).
    set (p := 2 ^ Z.of_nat N) in *. clearbody p.
    assert (Hq1 : q * (p * 2) <= 46340) by nia.
    destruct (sqrt_try_range q p) as [Ht1 Ht2]; [done|lia|done|nia|].
    replace (2 * (q * (p * 2)) + p) with ((4 * q + 1) * p) by ring.
    rewrite (s32_id ((4 * q + 1) * p)), (s32_id (_ * p)) by (unfold is_s32; lia).
    zcase.
    + rewrite s32_id by (unfold is_s32; lia).
      rewrite <- (IH ltac:(lia) (2 * q + 1)); [f_equal; ring|lia|]. 
      split; [|replace (_ ^ 2) with (((q + 1) * (p * 2)) ^ 2) by ring; lia].
      replace (_ ^ 2) with ((q * (p * 2)) ^ 2 + (4 * q + 1) * p * p) by ring. lia.
    + rewrite <- (IH ltac:(lia) (2 * q)); [f_equal; ring|lia|].
      split; [replace (_ ^ 2) with ((q * (p * 2)) ^ 2) by ring; lia|].
      replace (_ ^ 2) with ((q * (p * 2)) ^ 2 + (4 * q + 1) * p * p) by ring. lia.
Qed.

(** A negative value passes no comparison. *)
Lemma sqrt_iter_neg k v : (k <= 16)%nat -> v < 0 -> sqrt_iter k v 0 = 0.
Proof.
  intros Hk Hv. induction k as [|N IH]; cbn [sqrt_iter]; [done|].
  rewrite !Z.shiftl_mul_pow2, Z.add_0_l, !Z.mul_1_l by lia.
  assert (Hp : 0 < 2 ^ Z.of_nat N <= 2 ^ 15) by
      (split; [apply pow_pos; lia|apply pow_mono; lia]).
  rewrite (s32_id (2 ^ _)), s32_id by (unfold is_s32; nia).
  destruct (Z.leb_spec (2 ^ Z.of_nat N * 2 ^ Z.of_nat N) v); [nia|]. apply IH. lia.
Qed.

(** The quotient bits: with [L_num] below the denominator, [k] more bits. *)
Lemma div_loop_spec k n d acc :
  0 <= n < d -> d <= 2 ^ 30 -> 0 <= acc -> acc * 2 ^ Z.of_nat k + 2 ^ Z.of_nat k <= 2 ^ 31 ->
  div_loop k n d acc = acc * 2 ^ Z.of_nat k + n * 2 ^ Z.of_nat k / d.
Proof.
  intros Hn Hd. revert n acc Hn. induction k as [|k IH]; intros n acc Hn Ha Hb; cbn [div_loop].
  - change (2 ^ Z.of_nat 0) with 1. rewrite !Z.mul_1_r, Z.div_small by done. lia.
  - assert (Hk : Z.of_nat (S k) = Z.of_nat k + 1) by lia.
    rewrite Hk, Z.pow_add_r, Z.pow_1_r in * by lia.
    assert (Hp : 0 < 2 ^ Z.of_nat k) by (apply pow_pos; lia).
    rewrite !Z.shiftl_mul_pow2, Z.pow_1_r by lia.
    set (p := 2 ^ Z.of_nat k) in *. clearbody p.
    assert (acc * 2 + 2 <= 2 ^ 31) by nia.
    rewrite (s32_id (acc * 2)), (s32_id (n * 2)) by (unfold is_s32; lia).
    zcase.
    + rewrite (s32_id (n * 2 - d)), (s32_id (_ + 1)) by (unfold is_s32; lia).
      rewrite IH by lia.
      replace (n * (p * 2)) with ((n * 2 - d) * p + p * d) by ring.
      rewrite Z.div_add by lia. ring.
    + rewrite IH by lia. replace (n * (p * 2)) with (n * 2 * p) by ring. ring.
Qed.

(** ** Properties *)

(** The square root of any 32-bit value is its integer square root, zero for a
    negative value; the root is the largest integer whose square does not
    exceed the value, and no step of the approximation overflows. *)
Theorem SqrtFloor_sqrt value :
  is_s32 value ->
  WebRtcSpl_SqrtFloor value = Z.sqrt value /\
  (0 <= value ->
   WebRtcSpl_SqrtFloor value * WebRtcSpl_SqrtFloor value <= value <
   (WebRtcSpl_SqrtFloor value + 1) * (WebRtcSpl_SqrtFloor value + 1)).
Proof.
  intros Hv. assert (E : WebRtcSpl_SqrtFloor value = Z.sqrt value).
  - unfold WebRtcSpl_SqrtFloor. destruct (Z.lt_ge_cases value 0) as [H|H].
    + rewrite sqrt_iter_neg, Z.sqrt_neg by lia. done.
    + assert (Hs := sqrt_iter_spec 16 0 value). change (0 * _) with 0 in Hs.
      change (2 * 0) with 0 in Hs. change (0 ^ 2) with 0 in Hs. rewrite Z.sub_0_r in Hs.
      change (((0 + 1) * 2 ^ Z.of_nat 16) ^ 2) with (2 ^ 32) in Hs. unfold is_s32 in Hv.
      rewrite Hs, Z.shiftr_div_pow2, Z.mul_comm, Z.div_mul by lia. done.
  - split; [done|]. intros H. rewrite E. apply Z.sqrt_spec. done.
Qed.

Lemma SqrtFloor_sqrt_witness : WebRtcSpl_SqrtFloor 2147395600 = 46340.
Proof. apply (SqrtFloor_sqrt 2147395600). split; vm_compute; congruence. Defined.

(** The norm of a non-zero number is the largest left shift that keeps it
    within its type, for signed 32-bit, signed 16-bit and unsigned 32-bit
    numbers; a shift overflows exactly when it is larger than the norm. *)
Theorem norm_largest_shift a m :
  a <> 0 -> 0 <= m ->
  (is_s32 a -> is_s32 (a * 2 ^ m) <-> m <= WebRtcSpl_NormW32 a) /\
  (is_s16 a -> is_s16 (a * 2 ^ m) <-> m <= WebRtcSpl_NormW16 a) /\
  (is_u32 a -> is_u32 (a * 2 ^ m) <-> m <= WebRtcSpl_NormU32 a).
Proof.
  intros. split; [|split]; intros.
  - by apply NormW32_shifts.
  - by apply NormW16_shifts.
  - by apply NormU32_shifts.
Qed.

Lemma norm_largest_shift_witness :
  is_s32 (-5 * 2 ^ 28) /\ ~ is_s32 (-5 * 2 ^ 29) /\ WebRtcSpl_NormW32 (-5) = 28.
Proof.
  split; [|split].
  - apply (proj1 (norm_largest_shift (-5) 28 ltac:(done) ltac:(done)));
      [split; vm_compute; congruence|vm_compute; congruence].
  - intros H. apply (proj1 (norm_largest_shift (-5) 29 ltac:(done) ltac:(done))) in H;
      [revert H; vm_compute; congruence|split; vm_compute; congruence].
  - reflexivity.
Defined.

(** The size in bits of a 32-bit number is the least [m] with the number
    below [2 ^ m]. *)
Theorem GetSizeInBits_least n m :
  is_u32 n -> 0 <= m -> n < 2 ^ m <-> WebRtcSpl_GetSizeInBits n <= m.
Proof. apply GetSizeInBits_below. Qed.

Lemma GetSizeInBits_least_witness : 640 < 2 ^ 10 <-> WebRtcSpl_GetSizeInBits 640 <= 10.
Proof. apply (GetSizeInBits_least 640 10); [split|]; vm_compute; congruence. Defined.

(** The saturating operations return the exact result clamped to the range of
    the type, although the sums and differences in 32 bits wrap first. *)
Theorem saturating_clamp a b :
  (is_s16 a -> is_s16 b ->
   WebRtcSpl_AddSatW16 a b = clamp (-32768) 32767 (a + b) /\
   WebRtcSpl_SubSatW16 a b = clamp (-32768) 32767 (a - b)) /\
  (is_s32 a -> is_s32 b ->
   WebRtcSpl_AddSatW32 a b = clamp (-2147483648) 2147483647 (a + b) /\
   WebRtcSpl_SubSatW32 a b = clamp (-2147483648) 2147483647 (a - b)).
Proof.
  split; intros Ha Hb; split; try apply SatW32ToW16_clamp;
    unfold WebRtcSpl_AddSatW32, WebRtcSpl_SubSatW32, clamp; cbn zeta; cunf;
    zcases; simpl; zdm.
Qed.

Lemma saturating_clamp_witness :
  WebRtcSpl_AddSatW16 30000 30000 = 32767 /\
  WebRtcSpl_SubSatW32 (-2147483648) 2147483647 = -2147483648.
Proof.
  split.
  - rewrite (proj1 (proj1 (saturating_clamp 30000 30000) ltac:(split; vm_compute; congruence)
      ltac:(split; vm_compute; congruence))). reflexivity.
  - rewrite (proj2 (proj2 (saturating_clamp (-2147483648) 2147483647)
      ltac:(split; vm_compute; congruence) ltac:(split; vm_compute; congruence))). reflexivity.
Defined.

(** For a numerator smaller in magnitude than the denominator, and a
    denominator of magnitude at most [2 ^ 30], the bit by bit division gives
    the quotient in Q31, truncated towards zero, with the sign of the exact
    quotient. *)
Theorem DivResultInQ31_quot num den :
  Z.abs num < Z.abs den <= 2 ^ 30 ->
  WebRtcSpl_DivResultInQ31 num den = Z.quot (num * 2 ^ 31) den.
Proof.
  intros H. unfold WebRtcSpl_DivResultInQ31.
  destruct (Z.eqb_spec num 0) as [->|Hn]; [by rewrite Z.quot_0_l by lia|].
  assert (En : (if num <? 0 then s32 (- num) else num) = Z.abs num)
    by (zcase; [rewrite s32_id by (unfold is_s32; lia)|]; lia).
  assert (Ed : (if den <? 0 then s32 (- den) else den) = Z.abs den)
    by (zcase; [rewrite s32_id by (unfold is_s32; lia)|]; lia).
  rewrite En, Ed. cbn zeta. rewrite div_loop_spec by (simpl; lia).
  change (Z.of_nat 31) with 31. rewrite Z.mul_0_l, Z.add_0_l.
  assert (0 <= Z.abs num * 2 ^ 31 / Z.abs den < 2 ^ 31)
    by (split; [apply Z.div_pos|apply Z.div_lt_upper_bound]; lia).
  rewrite s32_id by (unfold is_s32; lia).
  rewrite Z.quot_div, Z.sgn_mul, Z.abs_mul by lia. change (Z.abs (2 ^ 31)) with (2 ^ 31).
  change (Z.sgn (2 ^ 31)) with 1.
  destruct (Z.ltb_spec num 0), (Z.ltb_spec den 0); simpl;
    rewrite ?(Z.sgn_neg num), ?(Z.sgn_pos num), ?(Z.sgn_neg den), ?(Z.sgn_pos den) by lia; lia.
Qed.

Lemma DivResultInQ31_quot_witness : WebRtcSpl_DivResultInQ31 (-3) 7 = -920350134.
Proof. rewrite (DivResultInQ31_quot (-3) 7); [reflexivity|]. split; vm_compute; congruence. Defined.
