(* ===== verification/SplVector.v ===== *)
(** * Vector operations of the signal processing library

    Models [min_max_operations.c] (the generic C versions), [copy_set_operations.c]
    and [vector_scaling_operations.c] of
    [src/webrtc_backup/common_audio/signal_processing].  A pointer parameter that the
    code compares with NULL is an option; a pointer that is written through is
    the array it points to, returned updated.  The functions that read one
    array and write another do so element by element, in order, so the model
    with two arrays also describes calls in place. *)
From S2P Require Import Prelude SplInl.
Local Open Scope Z_scope.

Definition WEBRTC_SPL_WORD16_MAX : Z := 32767.
Definition WEBRTC_SPL_WORD16_MIN : Z := -32768.
Definition WEBRTC_SPL_WORD32_MAX : Z := 2147483647.
Definition WEBRTC_SPL_WORD32_MIN : Z := -2147483648.

(** ** Minimum and maximum *)

Module MinMax.
(** [if (vector == NULL || length <= 0) return r;] *)
Definition guard {A : Type} (vector : option (list Z)) (length : Z) (r : A)
  (body : list Z -> flow A A) : option A :=
  match vector with
  | None => Some r
  | Some v => if length <=? 0 then Some r else run_flow (body v)
  end.

(** The loop that keeps the best value: [key] is what the loop computes from an
    element, [better] its comparison with the best value so far. *)
Definition scan_value {R : Type} (key : Z -> Z) (better : Z -> Z -> bool)
  (vector : list Z) (length init : Z) : flow R Z :=
  for_up (Z.to_nat length) 0 (fun i best =>
    let! x := rd vector i in
    Cont (if better (key x) best then key x else best)) init.

(** The loop that also keeps the index of the best value. *)
Definition scan_index {R : Type} (key : Z -> Z) (better : Z -> Z -> bool)
  (vector : list Z) (length init : Z) : flow R (Z * Z) :=
  for_up (Z.to_nat length) 0 (fun i '(best, index) =>
    let! x := rd vector i in
    Cont (if better (key x) best then (key x, i) else (best, index))) (init, 0).

Definition gt (a b : Z) : bool := b <? a.
Definition lt (a b : Z) : bool := a <? b.
Definition same (x : Z) : Z := x.

(** [abs] of an [int]; the absolute value of the least one wraps to itself, and
    is stored in a [uint32_t]. *)
Definition abs_int (x : Z) : Z := s32 (Z.abs x).
Definition abs_u32 (x : Z) : Z := u32 (s32 (Z.abs x)).

Definition WebRtcSpl_MaxAbsValueW16C (vector : option (list Z)) (length : Z) : option Z :=
  guard vector length (-1) (fun v =>
    let! maximum := scan_value abs_int gt v length 0 in
    let maximum := if WEBRTC_SPL_WORD16_MAX <? maximum then WEBRTC_SPL_WORD16_MAX
                   else maximum in
    Cont (s16 maximum)).

Definition WebRtcSpl_MaxAbsValueW32C (vector : option (list Z)) (length : Z) : option Z :=
  guard vector length (-1) (fun v =>
    let! maximum := scan_value abs_u32 gt v length 0 in
    let maximum := if maximum <? WEBRTC_SPL_WORD32_MAX then maximum
                   else WEBRTC_SPL_WORD32_MAX in
    Cont (s32 maximum)).

Definition WebRtcSpl_MaxValueW16C (vector : option (list Z)) (length : Z) : option Z :=
  guard vector length WEBRTC_SPL_WORD16_MIN (fun v =>
    scan_value same gt v length WEBRTC_SPL_WORD16_MIN).

Definition WebRtcSpl_MaxValueW32C (vector : option (list Z)) (length : Z) : option Z :=
  guard vector length WEBRTC_SPL_WORD32_MIN (fun v =>
    scan_value same gt v length WEBRTC_SPL_WORD32_MIN).

Definition WebRtcSpl_MinValueW16C (vector : option (list Z)) (length : Z) : option Z :=
  guard vector length WEBRTC_SPL_WORD16_MAX (fun v =>
    scan_value same lt v length WEBRTC_SPL_WORD16_MAX).

Definition WebRtcSpl_MinValueW32C (vector : option (list Z)) (length : Z) : option Z :=
  guard vector length WEBRTC_SPL_WORD32_MAX (fun v =>
    scan_value same lt v length WEBRTC_SPL_WORD32_MAX).

Definition WebRtcSpl_MaxAbsIndexW16 (vector : option (list Z)) (length : Z) : option Z :=
  guard vector length (-1) (fun v =>
    let! (_, index) := scan_index abs_int gt v length 0 in Cont index).

Definition WebRtcSpl_MaxIndexW16 (vector : option (list Z)) (length : Z) : option Z :=
  guard vector length (-1) (fun v =>
    let! (_, index) := scan_index same gt v length WEBRTC_SPL_WORD16_MIN in Cont index).

Definition WebRtcSpl_MaxIndexW32 (vector : option (list Z)) (length : Z) : option Z :=
  guard vector length (-1) (fun v =>
    let! (_, index) := scan_index same gt v length WEBRTC_SPL_WORD32_MIN in Cont index).

Definition WebRtcSpl_MinIndexW16 (vector : option (list Z)) (length : Z) : option Z :=
  guard vector length (-1) (fun v =>
    let! (_, index) := scan_index same lt v length WEBRTC_SPL_WORD16_MAX in Cont index).

Definition WebRtcSpl_MinIndexW32 (vector : option (list Z)) (length : Z) : option Z :=
  guard vector length (-1) (fun v =>
    let! (_, index) := scan_index same lt v length WEBRTC_SPL_WORD32_MAX in Cont index).

(** ** The loops find the first best element

    [rank] orders the keys: a larger rank is a better key. *)
Section scan.
Context (key : Z -> Z) (better : Z -> Z -> bool) (rank : Z -> Z).
Context (better_rank : forall a b, better a b = (rank b <? rank a)).
Context (rank_inj : forall a b, rank a = rank b -> a = b).

Definition at_ (v : list Z) (i : Z) : Z := key (v !!! Z.to_nat i).

(** [index] is the first position of a best key among the first [n] elements. *)
Definition first_best (v : list Z) (n index : Z) : Prop :=
  0 <= index < n /\
  (forall k, 0 <= k < n -> rank (at_ v k) <= rank (at_ v index)) /\
  (forall k, 0 <= k < index -> rank (at_ v k) < rank (at_ v index)).

(** The state after [n] elements: nothing beat the initial value yet, or the best
    value is that of the first best element. *)
Definition scanned (v : list Z) (init n : Z) (s : Z * Z) : Prop :=
  (s = (init, 0) /\ forall k, 0 <= k < n -> at_ v k = init) \/
  (first_best v n s.2 /\ s.1 = at_ v s.2).

Lemma scan_index_spec {R} v init n :
  0 <= n <= Zlen v -> (forall k, 0 <= k < n -> rank init <= rank (at_ v k)) ->
  exists s, scan_index (R := R) key better v n init = Cont s /\ scanned v init n s.
Proof.
  intros Hn Hinit. unfold scan_index.
  destruct (for_up_inv (R := R) (fun i s => scanned v init i s)
    (fun i '(best, index) => let! x := rd v i in
       Cont (if better (key x) best then (key x, i) else (best, index)))
    (Z.to_nat n) 0 (init, 0)) as (s & Hs & HP).
  - left. split; [done|]. lia.
  - intros j [best index] Hj HP. rewrite rd_total by lia. cbn [flow_bind].
    eexists. split; [reflexivity|]. fold (at_ v j). rewrite better_rank.
    specialize (Hinit j ltac:(lia)).
    destruct (Z.ltb_spec (rank best) (rank (at_ v j))) as [Hlt|Hge].
    + right. split; [|done]. simpl. destruct HP as [[[= -> ->] Hall]|[(Hi & Hmax & _) Hb]].
      * split; [lia|]. split; intros k Hk; [|rewrite Hall by lia; done].
        destruct (Z.eq_dec k j) as [->|]; [done|]. rewrite Hall by lia. lia.
      * simpl in *. subst best. split; [lia|]. split; intros k Hk.
        -- destruct (Z.eq_dec k j) as [->|]; [done|]. specialize (Hmax k ltac:(lia)). lia.
        -- specialize (Hmax k ltac:(lia)). lia.
    + destruct HP as [[[= -> ->] Hall]|[(Hi & Hmax & Hfst) Hb]].
      * left. split; [done|]. intros k Hk. destruct (Z.eq_dec k j) as [->|].
        -- apply rank_inj. lia.
        -- apply Hall. lia.
      * right. simpl in *. subst best. split; [|done]. split; [lia|]. split; [|done].
        intros k Hk. destruct (Z.eq_dec k j) as [->|]; [done|]. apply Hmax. lia.
  - rewrite Hs. exists s. split; [done|]. by replace n with (0 + Z.of_nat (Z.to_nat n)) by lia.
Qed.

Lemma scanned_first_best v init n s :
  0 < n -> scanned v init n s -> first_best v n s.2 /\ s.1 = at_ v s.2.
Proof.
  intros Hn [[-> Hall]|H]; [|done]. simpl. rewrite Hall by lia. split; [|done].
  split; [lia|]. split; intros k Hk; [rewrite !Hall by lia; done|lia].
Qed.

(** The value loop is the index loop without the index. *)
Lemma scan_value_index {R} v n init :
  scan_value (R := R) key better v n init =
  (let! (best, _) := scan_index key better v n init in Cont best).
Proof.
  unfold scan_value, scan_index. generalize (Z.to_nat n). intros m.
  generalize 0 at 1 2. intros i. generalize 0. revert i init.
  induction m as [|m IH]; intros i init index; cbn [for_up flow_bind]; [done|].
  destruct (rd v i); cbn [flow_bind]; [|done|done].
  destruct (better (key a) init); apply IH.
Qed.
End scan.

Lemma first_best_key key key' rank v n i :
  (forall k, 0 <= k < n -> key (v !!! Z.to_nat k) = key' (v !!! Z.to_nat k)) ->
  first_best key rank v n i -> first_best key' rank v n i.
Proof.
  intros E (Hi & Hmax & Hfst). unfold first_best, at_ in *. split; [done|].
  split; intros k Hk; rewrite <- !E by lia; [by apply Hmax|by apply Hfst].
Qed.

Lemma guard_pos {A} v length (r : A) body :
  0 < length -> guard (Some v) length r body = run_flow (body v).
Proof. intros. unfold guard. by destruct (Z.leb_spec length 0); [lia|]. Qed.

Lemma gt_rank a b : gt a b = (b <? a).
Proof. done. Qed.
Lemma lt_rank a b : lt a b = (- b <? - a).
Proof. unfold lt. destruct (Z.ltb_spec a b), (Z.ltb_spec (- b) (- a)); lia || done. Qed.

(** The scan of a non-empty vector, read off as a first best element. *)
Lemma scan_first_best {R} key better rank v n init :
  (forall a b, better a b = (rank b <? rank a)) -> (forall a b, rank a = rank b -> a = b) ->
  0 < n <= Zlen v -> (forall k, 0 <= k < n -> rank init <= rank (key (v !!! Z.to_nat k))) ->
  exists i, scan_index (R := R) key better v n init = Cont (key (v !!! Z.to_nat i), i) /\
            scan_value (R := R) key better v n init = Cont (key (v !!! Z.to_nat i)) /\
            first_best key rank v n i.
Proof.
  intros Hb Hinj Hn Hinit.
  destruct (scan_index_spec (R := R) key better rank Hb Hinj v init n) as ([b i] & Hs & HP);
    [lia|done|].
  apply scanned_first_best in HP as [HP E]; [|lia]. simpl in E. subst b.
  exists i. rewrite scan_value_index, Hs. done.
Qed.

Lemma is_s16_at v k : Forall is_s16 v -> 0 <= k < Zlen v -> is_s16 (v !!! Z.to_nat k).
Proof. intros H Hk. apply Forall_total; [done|]. unfold Zlen in Hk. lia. Qed.
Lemma is_s32_at v k : Forall is_s32 v -> 0 <= k < Zlen v -> is_s32 (v !!! Z.to_nat k).
Proof. intros H Hk. apply Forall_total; [done|]. unfold Zlen in Hk. lia. Qed.

Lemma abs_int_s16 x : is_s16 x -> abs_int x = Z.abs x.
Proof. intros. unfold abs_int. rewrite s32_id; [done|]. cunf. lia. Qed.
Lemma abs_u32_s32 x : is_s32 x -> abs_u32 x = Z.abs x.
Proof. intros. unfold abs_u32. cint. Qed.

Ltac scan better_lemma rk :=
  cbv beta;
  lazymatch goal with
  | |- context [scan_index (R := ?R) ?key ?better ?v ?n ?init] =>
      destruct (scan_first_best (R := R) key better rk v n init)
        as (i & Hi & Hv & Hbest); [intros; apply better_lemma|unfold same; intros; lia|lia| |]
  | |- context [scan_value (R := ?R) ?key ?better ?v ?n ?init] =>
      destruct (scan_first_best (R := R) key better rk v n init)
        as (i & Hi & Hv & Hbest); [intros; apply better_lemma|unfold same; intros; lia|lia| |]
  end.

(** Every scan of the file starts from a value no element is worse than. *)
Ltac from_worst lem :=
  let k := fresh "k" in let Hk := fresh "Hk" in let Hx := fresh "Hx" in
  intros k Hk; assert (Hx := lem _ k ltac:(eassumption) ltac:(lia));
  unfold same, WEBRTC_SPL_WORD16_MAX, WEBRTC_SPL_WORD16_MIN,
    WEBRTC_SPL_WORD32_MAX, WEBRTC_SPL_WORD32_MIN;
  rewrite ?abs_int_s16, ?abs_u32_s32 by done; cunf; lia.

(** The largest magnitude, capped at the largest number of the type. *)
Lemma MaxAbsValueW16C_spec v length :
  0 < length <= Zlen v -> Forall is_s16 v ->
  exists i, first_best Z.abs same v length i /\
            WebRtcSpl_MaxAbsValueW16C (Some v) length
            = Some (Z.min 32767 (Z.abs (v !!! Z.to_nat i))).
Proof.
  intros Hn Hall. unfold WebRtcSpl_MaxAbsValueW16C. rewrite guard_pos by lia. scan gt_rank same.
  { from_worst is_s16_at. } exists i. split.
  - revert Hbest. apply first_best_key. intros. apply abs_int_s16, is_s16_at; [done|lia].
  - rewrite Hv. cbn [flow_bind run_flow]. unfold first_best in Hbest.
    assert (Hx := is_s16_at v i Hall ltac:(lia)). rewrite abs_int_s16 by done.
    f_equal. unfold WEBRTC_SPL_WORD16_MAX. zcase; [|rewrite s16_id by (cunf; lia)]; cint.
Qed.

(** Each index function returns the first position of a largest (smallest,
    largest in magnitude) element of a non-empty vector. *)
Theorem index_of_extremum v length :
  0 < length <= Zlen v ->
  (Forall is_s16 v ->
   (exists i, WebRtcSpl_MaxIndexW16 (Some v) length = Some i /\ first_best same same v length i) /\
   (exists i, WebRtcSpl_MinIndexW16 (Some v) length = Some i /\ first_best same Z.opp v length i) /\
   (exists i, WebRtcSpl_MaxAbsIndexW16 (Some v) length = Some i /\
              first_best Z.abs same v length i)) /\
  (Forall is_s32 v ->
   (exists i, WebRtcSpl_MaxIndexW32 (Some v) length = Some i /\ first_best same same v length i) /\
   (exists i, WebRtcSpl_MinIndexW32 (Some v) length = Some i /\ first_best same Z.opp v length i)).
Proof.
  intros Hn. split; intros Hall; split; [|split| |].
  - unfold WebRtcSpl_MaxIndexW16. rewrite guard_pos by lia. scan gt_rank same.
    { from_worst is_s16_at. } exists i. by rewrite Hi.
  - unfold WebRtcSpl_MinIndexW16. rewrite guard_pos by lia. scan lt_rank Z.opp.
    { from_worst is_s16_at. } exists i. by rewrite Hi.
  - unfold WebRtcSpl_MaxAbsIndexW16. rewrite guard_pos by lia. scan gt_rank same.
    { from_worst is_s16_at. } exists i. rewrite Hi. split; [done|].
    revert Hbest. apply first_best_key. intros. apply abs_int_s16, is_s16_at; [done|lia].
  - unfold WebRtcSpl_MaxIndexW32. rewrite guard_pos by lia. scan gt_rank same.
    { from_worst is_s32_at. } exists i. by rewrite Hi.
  - unfold WebRtcSpl_MinIndexW32. rewrite guard_pos by lia. scan lt_rank Z.opp.
    { from_worst is_s32_at. } exists i. by rewrite Hi.
Qed.

Lemma index_of_extremum_witness :
  WebRtcSpl_MinIndexW16 (Some [3; -7; 5; -7; 7]) 5 = Some 1 /\
  WebRtcSpl_MaxAbsIndexW16 (Some [3; -7; 5; -7; 7]) 5 = Some 1.
Proof.
  destruct (proj1 (index_of_extremum [3; -7; 5; -7; 7] 5 ltac:(split; vm_compute; congruence))
    ltac:(repeat (constructor; [split; vm_compute; congruence|]); constructor))
    as (_ & (i & Hi & _) & (j & Hj & _)).
  rewrite Hi, Hj. revert Hi Hj. vm_compute. intros [= <-] [= <-]. done.
Defined.

(** Each value function returns the extremum of a non-empty vector, attained
    at some element; the largest magnitude is capped at the largest number of
    the type, so the magnitude of the least number is one too small. *)
Theorem value_of_extremum v length :
  0 < length <= Zlen v ->
  (Forall is_s16 v ->
   (exists i, first_best same same v length i /\
              WebRtcSpl_MaxValueW16C (Some v) length = Some (v !!! Z.to_nat i)) /\
   (exists i, first_best same Z.opp v length i /\
              WebRtcSpl_MinValueW16C (Some v) length = Some (v !!! Z.to_nat i)) /\
   (exists i, first_best Z.abs same v length i /\
              WebRtcSpl_MaxAbsValueW16C (Some v) length =
                Some (Z.min 32767 (Z.abs (v !!! Z.to_nat i))))) /\
  (Forall is_s32 v ->
   (exists i, first_best same same v length i /\
              WebRtcSpl_MaxValueW32C (Some v) length = Some (v !!! Z.to_nat i)) /\
   (exists i, first_best same Z.opp v length i /\
              WebRtcSpl_MinValueW32C (Some v) length = Some (v !!! Z.to_nat i)) /\
   (exists i, first_best Z.abs same v length i /\
              WebRtcSpl_MaxAbsValueW32C (Some v) length =
                Some (Z.min 2147483647 (Z.abs (v !!! Z.to_nat i))))).
Proof.
  intros Hn. split; intros Hall; split; [|split| |split].
  - unfold WebRtcSpl_MaxValueW16C. rewrite guard_pos by lia. scan gt_rank same.
    { from_worst is_s16_at. } exists i. by rewrite Hv.
  - unfold WebRtcSpl_MinValueW16C. rewrite guard_pos by lia. scan lt_rank Z.opp.
    { from_worst is_s16_at. } exists i. by rewrite Hv.
  - by apply MaxAbsValueW16C_spec.
  - unfold WebRtcSpl_MaxValueW32C. rewrite guard_pos by lia. scan gt_rank same.
    { from_worst is_s32_at. } exists i. by rewrite Hv.
  - unfold WebRtcSpl_MinValueW32C. rewrite guard_pos by lia. scan lt_rank Z.opp.
    { from_worst is_s32_at. } exists i. by rewrite Hv.
  - unfold WebRtcSpl_MaxAbsValueW32C. rewrite guard_pos by lia. scan gt_rank same.
    { from_worst is_s32_at. } exists i. split.
    + revert Hbest. apply first_best_key. intros. apply abs_u32_s32, is_s32_at; [done|lia].
    + rewrite Hv. cbn [flow_bind run_flow]. unfold first_best in Hbest.
      assert (Hx := is_s32_at v i Hall ltac:(lia)). rewrite abs_u32_s32 by done.
      f_equal. unfold WEBRTC_SPL_WORD32_MAX. zcase; rewrite s32_id by (cunf; lia); lia.
Qed.

Lemma value_of_extremum_witness : WebRtcSpl_MaxAbsValueW16C (Some [3; -32768; 5]) 3 = Some 32767.
Proof.
  destruct (proj1 (value_of_extremum [3; -32768; 5] 3 ltac:(split; vm_compute; congruence))
    ltac:(repeat (constructor; [split; vm_compute; congruence|]); constructor))
    as (_ & _ & (i & _ & Hi)).
  rewrite Hi. revert Hi. vm_compute. intros [= <-]. done.
Defined.
End MinMax.

(** ** Setting and copying *)

Module CopySet.
(** [for (j = length; j > 0; j--) *arrptr++ = set_value;] *)
Definition WebRtcSpl_MemSetW16 (ptr : list Z) (set_value length : Z) : option (list Z) :=
  run_flow (for_up (Z.to_nat length) 0 (fun j a => wr a j set_value) ptr).

Definition WebRtcSpl_MemSetW32 (ptr : list Z) (set_value length : Z) : option (list Z) :=
  run_flow (for_up (Z.to_nat length) 0 (fun j a => wr a j set_value) ptr).

(** [destPtr] starts at [dest + at_] and moves down. *)
Definition WebRtcSpl_MemCpyReversedOrder (dest : list Z) (at_ : Z) (source : list Z)
  (length : Z) : option (list Z) :=
  run_flow (for_up (Z.to_nat length) 0 (fun j d =>
    let! x := rd source j in wr d (at_ - j) x) dest).

Definition WebRtcSpl_CopyFromEndW16 (vector_in : list Z) (length samples : Z)
  (vector_out : list Z) : option (Z * list Z) :=
  run_flow (
    let! bytes := blk_get vector_in (length - samples) samples in
    let! vector_out := blk_put vector_out 0 bytes in
    Cont (samples, vector_out)).

Definition WebRtcSpl_ZerosArrayW16 (vector : list Z) (length : Z) : option (Z * list Z) :=
  v ← WebRtcSpl_MemSetW16 vector 0 length; Some (length, v).

Definition WebRtcSpl_ZerosArrayW32 (vector : list Z) (length : Z) : option (Z * list Z) :=
  v ← WebRtcSpl_MemSetW32 vector 0 length; Some (length, v).

Definition WebRtcSpl_OnesArrayW16 (vector : list Z) (length : Z) : option (Z * list Z) :=
  run_flow (let! v := for_up (Z.to_nat length) 0 (fun i a => wr a i 1) vector in
            Cont (length, v)).

Definition WebRtcSpl_OnesArrayW32 (vector : list Z) (length : Z) : option (Z * list Z) :=
  run_flow (let! v := for_up (Z.to_nat length) 0 (fun i a => wr a i 1) vector in
            Cont (length, v)).

Lemma fill_loop {R} (x : Z) n (a : list Z) :
  0 <= n <= Zlen a ->
  for_up (R := R) (Z.to_nat n) 0 (fun j a => wr a j x) a
  = Cont (replicate (Z.to_nat n) x ++ zdrop n a).
Proof.
  intros Hn. rewrite (for_up_store (fun _ => x)) by done. do 2 f_equal.
  apply list_eq. intros i. rewrite list_lookup_fmap.
  destruct (decide (Z.of_nat i < n)) as [Hi|Hi].
  - rewrite lookup_seqZ_lt, lookup_replicate_2 by lia. done.
  - rewrite lookup_seqZ_ge by lia. symmetry. apply lookup_replicate_None. lia.
Qed.

(** The reversed copy fills its target from the end. *)
Lemma reverse_loop {R} (dest source : list Z) at_ n :
  0 <= n <= Zlen source -> n - 1 <= at_ < Zlen dest ->
  for_up (R := R) (Z.to_nat n) 0 (fun j d => let! x := rd source j in wr d (at_ - j) x) dest
  = Cont (ztake (at_ + 1 - n) dest ++ reverse (ztake n source) ++ zdrop (at_ + 1) dest).
Proof.
  intros Hn Hat.
  destruct (for_up_inv (R := R) (fun j d =>
      d = ztake (at_ + 1 - j) dest ++ reverse (ztake j source) ++ zdrop (at_ + 1) dest)
    (fun j d => let! x := rd source j in wr d (at_ - j) x) (Z.to_nat n) 0 dest) as (d & -> & ->).
  - rewrite (ztake_0 0) by lia. cbn [app reverse rev_append]. rewrite Z.sub_0_r.
    symmetry. apply ztake_zdrop.
  - intros j d Hj ->. rewrite rd_total by lia. cbn [flow_bind].
    assert (Hl : Zlen (ztake (at_ + 1 - j) dest) = at_ + 1 - j) by (apply Zlen_ztake; lia).
    rewrite wr_Cont by (rewrite Zlen_app; pose proof (Zlen_nonneg
      (reverse (ztake j source) ++ zdrop (at_ + 1) dest)); lia).
    eexists. split; [reflexivity|].
    replace (at_ + 1 - j) with (at_ - j + 1) in * by lia.
    rewrite (ztake_plus (at_ - j) 1), (ztake_plus j 1), reverse_app by lia.
    replace (at_ + 1 - (j + 1)) with (at_ - j) by lia.
    assert (Hl1 : length (ztake (at_ - j) dest) = Z.to_nat (at_ - j)).
    { assert (H := Zlen_ztake dest (at_ - j) ltac:(lia)). unfold Zlen in H. lia. }
    assert (Hd : Zlen (zdrop (at_ - j) dest) = Zlen dest - (at_ - j)) by (apply Zlen_zdrop; lia).
    assert (Hs : Zlen (zdrop j source) = Zlen source - j) by (apply Zlen_zdrop; lia).
    assert (Hx : zdrop j source = (source !!! Z.to_nat j) :: zdrop (j + 1) source).
    { unfold zdrop. rewrite Z2Nat.inj_add, Nat.add_1_r by lia. apply drop_S.
      apply list_lookup_lookup_total_lt. unfold Zlen in *. lia. }
    rewrite Hx. destruct (zdrop (at_ - j) dest) as [|y l]; [rewrite Zlen_nil in Hd; lia|].
    cbn [ztake Z.to_nat Pos.to_nat Pos.iter_op take]. rewrite <- !app_assoc.
    rewrite insert_app_r_alt by lia.
    replace (Z.to_nat (at_ - j) - length (ztake (at_ - j) dest))%nat with 0%nat by lia. done.
  - by rewrite Z2Nat.id by lia.
Qed.

(** The reversed copy stores the first [length] elements of the source,
    reversed, in the [length] places that end at the pointer, and nothing else. *)
Theorem MemCpyReversedOrder_reverse dest at_ source length :
  0 <= length <= Zlen source -> length - 1 <= at_ < Zlen dest ->
  WebRtcSpl_MemCpyReversedOrder dest at_ source length =
  Some (ztake (at_ + 1 - length) dest ++ reverse (ztake length source) ++ zdrop (at_ + 1) dest).
Proof. intros. unfold WebRtcSpl_MemCpyReversedOrder. by rewrite reverse_loop. Qed.

Lemma MemCpyReversedOrder_reverse_witness :
  WebRtcSpl_MemCpyReversedOrder [0; 0; 0; 0; 9] 3 [1; 2; 3; 4] 3 = Some [0; 3; 2; 1; 9].
Proof.
  rewrite (MemCpyReversedOrder_reverse [0; 0; 0; 0; 9] 3 [1; 2; 3; 4] 3);
    [reflexivity|split; vm_compute; congruence|split; vm_compute; congruence].
Defined.

(** The set functions overwrite exactly the first [length] elements, and
    WebRtcSpl_CopyFromEndW16 copies exactly the last [samples] of the first [length]
    elements of its input to the front of the output. *)
Theorem set_and_copy v w x length samples :
  0 <= length <= Zlen v -> 0 <= samples <= length -> samples <= Zlen w ->
  WebRtcSpl_MemSetW16 v x length = Some (replicate (Z.to_nat length) x ++ zdrop length v) /\
  WebRtcSpl_MemSetW32 v x length = Some (replicate (Z.to_nat length) x ++ zdrop length v) /\
  WebRtcSpl_ZerosArrayW16 v length
    = Some (length, replicate (Z.to_nat length) 0 ++ zdrop length v) /\
  WebRtcSpl_ZerosArrayW32 v length
    = Some (length, replicate (Z.to_nat length) 0 ++ zdrop length v) /\
  WebRtcSpl_OnesArrayW16 v length
    = Some (length, replicate (Z.to_nat length) 1 ++ zdrop length v) /\
  WebRtcSpl_OnesArrayW32 v length
    = Some (length, replicate (Z.to_nat length) 1 ++ zdrop length v) /\
  WebRtcSpl_CopyFromEndW16 v length samples w
    = Some (samples, ztake samples (zdrop (length - samples) v) ++ zdrop samples w).
Proof.
  intros Hn Hs Hw.
  unfold WebRtcSpl_ZerosArrayW16, WebRtcSpl_ZerosArrayW32, WebRtcSpl_MemSetW16, WebRtcSpl_MemSetW32,
    WebRtcSpl_OnesArrayW16, WebRtcSpl_OnesArrayW32, WebRtcSpl_CopyFromEndW16.
  rewrite !fill_loop by done. do 6 (split; [reflexivity|]).
  rewrite blk_get_Cont by lia. cbn [flow_bind].
  assert (Hb : Zlen (ztake samples (zdrop (length - samples) v)) = samples)
    by (apply Zlen_ztake; rewrite Zlen_zdrop; lia).
  rewrite blk_put_Cont by lia. cbn [flow_bind run_flow].
  rewrite Hb, ztake_0 by lia. by rewrite Z.add_0_l.
Qed.

Lemma set_and_copy_witness :
  WebRtcSpl_CopyFromEndW16 [1; 2; 3; 4; 5] 4 2 [0; 0; 0] = Some (2, [3; 4; 0]).
Proof.
  destruct (set_and_copy [1; 2; 3; 4; 5] [0; 0; 0] 0 4 2) as (_ & _ & _ & _ & _ & _ & H);
    [split; vm_compute; congruence|split; vm_compute; congruence|vm_compute; congruence|].
  rewrite H. reflexivity.
Defined.
End CopySet.

(** ** Shifting and scaling *)

Module Scaling.
(** The loops that store a function of each element of the input. *)
Definition map_loop {R : Type} (f : Z -> Z) (inp out : list Z) (length : Z) : flow R (list Z) :=
  for_up (Z.to_nat length) 0 (fun i o => let! x := rd inp i in wr o i (f x)) out.

Definition WebRtcSpl_VectorBitShiftW16 (res : list Z) (length : Z) (inp : list Z)
  (right_shifts : Z) : option (list Z) :=
  run_flow (
    if 0 <? right_shifts then map_loop (fun x => s16 (Z.shiftr x right_shifts)) inp res length
    else map_loop (fun x => s16 (Z.shiftl x (- right_shifts))) inp res length).

Definition WebRtcSpl_VectorBitShiftW32 (out_vector : list Z) (vector_length : Z)
  (in_vector : list Z) (right_shifts : Z) : option (list Z) :=
  run_flow (
    if 0 <? right_shifts
    then map_loop (fun x => s32 (Z.shiftr x right_shifts)) in_vector out_vector vector_length
    else map_loop (fun x => s32 (Z.shiftl x (- right_shifts))) in_vector out_vector vector_length).

Definition WebRtcSpl_VectorBitShiftW32ToW16 (out : list Z) (length : Z) (inp : list Z)
  (right_shifts : Z) : option (list Z) :=
  run_flow (
    if 0 <=? right_shifts then
      map_loop (fun x => WebRtcSpl_SatW32ToW16 (s32 (Z.shiftr x right_shifts))) inp out length
    else
      let left_shifts := s16 (- right_shifts) in
      map_loop (fun x => WebRtcSpl_SatW32ToW16 (s32 (Z.shiftl x left_shifts))) inp out length).

(** [WEBRTC_SPL_MUL_16_16_RSFT]; a product of two [int16_t] fits in 32 bits. *)
Definition WEBRTC_SPL_MUL_16_16_RSFT (a b c : Z) : Z := Z.shiftr (s16 a * s16 b) c.

Definition WebRtcSpl_ScaleVector (in_vector out_vector : list Z)
  (gain in_vector_length right_shifts : Z) : option (list Z) :=
  run_flow (map_loop (fun x => s16 (WEBRTC_SPL_MUL_16_16_RSFT x gain right_shifts))
              in_vector out_vector in_vector_length).

Definition WebRtcSpl_ScaleVectorWithSat (in_vector out_vector : list Z)
  (gain in_vector_length right_shifts : Z) : option (list Z) :=
  run_flow (map_loop
    (fun x => WebRtcSpl_SatW32ToW16 (WEBRTC_SPL_MUL_16_16_RSFT x gain right_shifts))
    in_vector out_vector in_vector_length).

(** The loops over two inputs. *)
Definition map2_loop {R : Type} (f : Z -> Z -> Z) (in1 in2 out : list Z) (length : Z)
  : flow R (list Z) :=
  for_up (Z.to_nat length) 0 (fun i o =>
    let! x := rd in1 i in let! y := rd in2 i in wr o i (f x y)) out.

Definition WebRtcSpl_ScaleAndAddVectors (in1 : list Z) (gain1 shift1 : Z) (in2 : list Z)
  (gain2 shift2 : Z) (out : list Z) (vector_length : Z) : option (list Z) :=
  run_flow (map2_loop (fun x y =>
    s16 (s16 (WEBRTC_SPL_MUL_16_16_RSFT gain1 x shift1)
         + s16 (WEBRTC_SPL_MUL_16_16_RSFT gain2 y shift2))) in1 in2 out vector_length).

(** NULL vectors, an empty length or a negative shift: -1 and no change. *)
Definition WebRtcSpl_ScaleAndAddVectorsWithRoundC (in_vector1 : option (list Z))
  (in_vector1_scale : Z) (in_vector2 : option (list Z)) (in_vector2_scale right_shifts : Z)
  (out_vector : option (list Z)) (length : Z) : option (Z * option (list Z)) :=
  let round_value := Z.shiftr (s32 (Z.shiftl 1 right_shifts)) 1 in
  match in_vector1, in_vector2, out_vector with
  | Some v1, Some v2, Some out =>
      if (length <=? 0) || (right_shifts <? 0) then Some (-1, out_vector)
      else
        run_flow (
          let! out := map2_loop (fun x y =>
            s16 (Z.shiftr (s32 (s16 x * s16 in_vector1_scale + s16 y * s16 in_vector2_scale
                                + round_value)) right_shifts)) v1 v2 out length in
          Cont (0, Some out))
  | _, _, _ => Some (-1, out_vector)
  end.

Lemma map_loop_spec {R} f inp out n :
  0 <= n <= Zlen inp -> n <= Zlen out ->
  map_loop (R := R) f inp out n = Cont ((f <$> ztake n inp) ++ zdrop n out).
Proof. apply for_up_map. Qed.

Lemma zip_with_seqZ (f : Z -> Z -> Z) (a b : list Z) n :
  0 <= n <= Zlen a -> n <= Zlen b ->
  (fun j => f (a !!! Z.to_nat j) (b !!! Z.to_nat j)) <$> seqZ 0 n
  = zip_with f (ztake n a) (ztake n b).
Proof.
  unfold Zlen. intros Ha Hb. apply list_eq. intros i.
  rewrite list_lookup_fmap, lookup_zip_with. unfold ztake.
  destruct (decide (Z.of_nat i < n)) as [Hi|Hi].
  - rewrite lookup_seqZ_lt, !lookup_take_lt by lia.
    rewrite (list_lookup_lookup_total_lt a i), (list_lookup_lookup_total_lt b i) by lia.
    cbn [fmap option_fmap option_map mbind option_bind]. rewrite Z.add_0_l, Nat2Z.id. done.
  - rewrite lookup_seqZ_ge by lia. by rewrite (lookup_take_ge a) by lia.
Qed.

Lemma map2_loop_spec {R} f a b out n :
  0 <= n <= Zlen a -> n <= Zlen b -> n <= Zlen out ->
  map2_loop (R := R) f a b out n = Cont (zip_with f (ztake n a) (ztake n b) ++ zdrop n out).
Proof.
  intros. unfold map2_loop. rewrite <- zip_with_seqZ by done.
  apply (for_up_store (fun j => f (a !!! Z.to_nat j) (b !!! Z.to_nat j))); [lia|].
  intros j o Hj _. by rewrite !rd_total by lia.
Qed.

Lemma map_ext_Forall (P : Z -> Prop) (f g : Z -> Z) l n :
  (forall x, P x -> f x = g x) -> Forall P l -> f <$> ztake n l = g <$> ztake n l.
Proof.
  intros E H. apply list_fmap_ext. intros i x Hx. apply E.
  eapply Forall_lookup_1; [|exact Hx]. unfold ztake. by apply Forall_take.
Qed.

Lemma mul_s16_range x y : is_s16 x -> is_s16 y -> - 2 ^ 30 < x * y <= 2 ^ 30.
Proof. unfold is_s16. nia. Qed.

(** A right shift brings a number closer to zero, rounding down. *)
Lemma shiftr_range x k lo hi :
  0 <= k -> lo <= 0 <= hi -> lo <= x <= hi -> lo <= Z.shiftr x k <= hi.
Proof.
  intros Hk Hb Hx. rewrite Z.shiftr_div_pow2 by done.
  assert (0 < 2 ^ k) by (apply pow_pos; lia). split.
  - apply Z.div_le_lower_bound; nia.
  - apply Z.lt_succ_r, Z.div_lt_upper_bound; nia.
Qed.

(** With enough room in the vectors, WebRtcSpl_ScaleVectorWithSat stores each product,
    shifted down, clamped to 16 bits, and WebRtcSpl_VectorBitShiftW32ToW16 each
    32-bit element shifted down and clamped; shifting up is exact and clamped as
    long as the shifted elements fit in 32 bits. *)
Theorem scaling_saturates inp out gain length shifts :
  0 <= length <= Zlen inp -> length <= Zlen out -> 0 <= shifts < 32 ->
  (is_s16 gain -> Forall is_s16 inp ->
   WebRtcSpl_ScaleVectorWithSat inp out gain length shifts =
   Some (((fun x => clamp (-32768) 32767 (x * gain / 2 ^ shifts)) <$> ztake length inp)
         ++ zdrop length out)) /\
  (Forall is_s32 inp ->
   WebRtcSpl_VectorBitShiftW32ToW16 out length inp shifts =
   Some (((fun x => clamp (-32768) 32767 (x / 2 ^ shifts)) <$> ztake length inp)
         ++ zdrop length out)) /\
  (0 < shifts -> Forall (fun x => is_s32 (x * 2 ^ shifts)) inp ->
   WebRtcSpl_VectorBitShiftW32ToW16 out length inp (- shifts) =
   Some (((fun x => clamp (-32768) 32767 (x * 2 ^ shifts)) <$> ztake length inp)
         ++ zdrop length out)).
Proof.
  intros Hi Ho Hs.
  unfold WebRtcSpl_ScaleVectorWithSat, WebRtcSpl_VectorBitShiftW32ToW16.
  split; [|split].
  - intros Hg Hall. rewrite map_loop_spec by done. cbn [run_flow]. do 2 f_equal.
    apply (map_ext_Forall is_s16); [|done]. intros x Hx. rewrite SatW32ToW16_clamp.
    unfold WEBRTC_SPL_MUL_16_16_RSFT. by rewrite !s16_id, Z.shiftr_div_pow2 by (done || lia).
  - intros Hall. destruct (Z.leb_spec 0 shifts); [|lia]. rewrite map_loop_spec by done.
    cbn [run_flow]. do 2 f_equal. apply (map_ext_Forall is_s32); [|done]. intros x Hx.
    assert (Hr : -2147483648 <= Z.shiftr x shifts <= 2147483647)
      by (apply shiftr_range; unfold is_s32 in Hx; lia).
    rewrite SatW32ToW16_clamp, s32_id, Z.shiftr_div_pow2 by (unfold is_s32; lia). done.
  - intros Hp Hall. destruct (Z.leb_spec 0 (- shifts)); [lia|]. rewrite map_loop_spec by done.
    cbn [run_flow]. do 2 f_equal.
    apply (map_ext_Forall (fun x => is_s32 (x * 2 ^ shifts))); [|done]. intros x Hx.
    rewrite SatW32ToW16_clamp, Z.opp_involutive, s16_id, Z.shiftl_mul_pow2 by (cunf; lia).
    by rewrite s32_id by done.
Qed.

Lemma scaling_saturates_witness :
  WebRtcSpl_ScaleVectorWithSat [20000; -20000; 3] [0; 0; 0] 8 3 2 = Some [32767; -32768; 6].
Proof.
  rewrite (proj1 (scaling_saturates [20000; -20000; 3] [0; 0; 0] 8 3 2
    ltac:(split; vm_compute; congruence) ltac:(vm_compute; congruence)
    ltac:(split; vm_compute; congruence)));
    [reflexivity|split; vm_compute; congruence|].
  repeat (constructor; [split; vm_compute; congruence|]); constructor.
Defined.

(** The rounding sum of two scaled vectors is, for each element, the exact sum
    rounded to nearest and wrapped to 16 bits, whenever the sum of the scaled
    elements stays below [2 ^ 30]; the arguments the code refuses give -1 and
    leave the output unchanged. *)
Theorem ScaleAndAddVectorsWithRound_rounds v1 v2 out scale1 scale2 shifts length :
  0 < length <= Zlen v1 -> length <= Zlen v2 -> length <= Zlen out -> 0 < shifts <= 30 ->
  is_s16 scale1 -> is_s16 scale2 -> Forall is_s16 v1 -> Forall is_s16 v2 ->
  (forall i, 0 <= i < length ->
     Z.abs (v1 !!! Z.to_nat i * scale1 + v2 !!! Z.to_nat i * scale2) < 2 ^ 30) ->
  WebRtcSpl_ScaleAndAddVectorsWithRoundC (Some v1) scale1 (Some v2) scale2 shifts (Some out) length
  = Some (0, Some (((fun i => s16 ((v1 !!! Z.to_nat i * scale1 + v2 !!! Z.to_nat i * scale2
                                    + 2 ^ (shifts - 1)) / 2 ^ shifts)) <$> seqZ 0 length)
                   ++ zdrop length out)) /\
  (forall o1 o2 oo n, o1 = None \/ o2 = None \/ oo = None \/ n <= 0 ->
     WebRtcSpl_ScaleAndAddVectorsWithRoundC o1 scale1 o2 scale2 shifts oo n = Some (-1, oo)).
Proof.
  intros H1 H2 Ho Hs Hs1 Hs2 Hv1 Hv2 Hb. split.
  - unfold WebRtcSpl_ScaleAndAddVectorsWithRoundC.
    destruct (Z.leb_spec length 0), (Z.ltb_spec shifts 0); try lia. cbn [orb].
    assert (Hp : 2 ^ shifts = 2 * 2 ^ (shifts - 1))
      by (rewrite <- Z.pow_succ_r by lia; f_equal; lia).
    assert (0 < 2 ^ (shifts - 1) <= 2 ^ 29) by (split; [apply pow_pos; lia|apply pow_mono; lia]).
    rewrite Z.shiftl_mul_pow2, Z.mul_1_l, s32_id, Z.shiftr_div_pow2 by (unfold is_s32; lia).
    replace (2 ^ shifts / 2 ^ 1) with (2 ^ (shifts - 1))
      by (rewrite Hp; change (2 ^ 1) with 2; rewrite Z.mul_comm, Z.div_mul; lia).
    unfold map2_loop.
    rewrite (for_up_store (fun i => s16 ((v1 !!! Z.to_nat i * scale1 + v2 !!! Z.to_nat i * scale2
                                    + 2 ^ (shifts - 1)) / 2 ^ shifts))); [done|lia|].
    intros j o Hj _. rewrite !rd_total by lia. cbn [flow_bind]. f_equal.
    specialize (Hb j ltac:(lia)).
    assert (is_s16 (v1 !!! Z.to_nat j)) by (apply MinMax.is_s16_at; [done|lia]).
    assert (is_s16 (v2 !!! Z.to_nat j)) by (apply MinMax.is_s16_at; [done|lia]).
    rewrite (s16_id (v1 !!! _)), (s16_id (v2 !!! _)), (s16_id scale1), (s16_id scale2) by done.
    rewrite s32_id, Z.shiftr_div_pow2 by (unfold is_s32; lia). done.
  - intros o1 o2 oo n Hn. unfold WebRtcSpl_ScaleAndAddVectorsWithRoundC.
    destruct o1, o2, oo; try done. destruct (Z.leb_spec n 0); [done|].
    destruct Hn as [?|[?|[?|?]]]; done || lia.
Qed.

Lemma ScaleAndAddVectorsWithRound_rounds_witness :
  WebRtcSpl_ScaleAndAddVectorsWithRoundC (Some [5; -5]) 3 (Some [2; 1]) 4 2 (Some [0; 0]) 2
  = Some (0, Some [6; -3]).
Proof.
  rewrite (proj1 (ScaleAndAddVectorsWithRound_rounds [5; -5] [2; 1] [0; 0] 3 4 2 2
    ltac:(split; vm_compute; congruence) ltac:(vm_compute; congruence)
    ltac:(vm_compute; congruence) ltac:(split; vm_compute; congruence)
    ltac:(split; vm_compute; congruence) ltac:(split; vm_compute; congruence)
    ltac:(repeat (constructor; [split; vm_compute; congruence|]); constructor)
    ltac:(repeat (constructor; [split; vm_compute; congruence|]); constructor)
    ltac:(intros i Hi; assert (i = 0 \/ i = 1) as [-> | ->] by lia; reflexivity))).
  reflexivity.
Defined.
End Scaling.
