(* ===== verification/SplCorrelation.v ===== *)
(** * Energies, correlations and pseudo-random vectors

    Models [get_scaling_square.c], [energy.c], [dot_product_with_scale.c],
    [auto_correlation.c], [cross_correlation.c] (the C version) and
    [randomization_functions.c] of
    [src/webrtc_backup/common_audio/signal_processing].  The loops written with
    [while] conditions take a number of iterations as fuel and are stuck when
    it runs out; the theorems give results, so the fuel is enough.  A shift count
    is meant to be between 0 and 31, as C leaves the others undefined. *)
From S2P Require Import Prelude SplInl SplVector.
Local Open Scope Z_scope.

(** ** Scaling *)

(** [sabs = ( *sptr > 0 ? *sptr++ : -*sptr++)], stored in an [int16_t]. *)
Definition sabs (x : Z) : Z := if 0 <? x then x else s16 (- x).

Definition largest_sabs {R : Type} (in_vector : list Z) (looptimes : Z) : flow R Z :=
  for_up (Z.to_nat looptimes) 0 (fun i smax =>
    let! x := rd in_vector i in
    Cont (if smax <? sabs x then sabs x else smax)) (-1).

(** The number of bits to drop from each product. *)
Definition scaling_of (t nbits : Z) : Z := if nbits <? t then 0 else nbits - t.

Definition WebRtcSpl_GetScalingSquare {R : Type} (in_vector : list Z)
  (in_vector_length times : Z) : flow R Z :=
  let nbits := WebRtcSpl_GetSizeInBits (u32 times) in
  let! smax := largest_sabs in_vector in_vector_length in
  let t := WebRtcSpl_NormW32 (smax * smax) in
  if smax =? 0 then Cont 0 else Cont (scaling_of t nbits).

(** ** Energy *)

Definition WebRtcSpl_Energy (vector : list Z) (vector_length : Z) : option (Z * Z) :=
  run_flow (
    let! scaling := WebRtcSpl_GetScalingSquare vector vector_length vector_length in
    let! en := for_up (Z.to_nat vector_length) 0 (fun i en =>
      let! x := rd vector i in
      Cont (s32 (en + Scaling.WEBRTC_SPL_MUL_16_16_RSFT x x scaling))) 0 in
    Cont (en, scaling)).

(** ** Products of two vectors *)

(** [sum += (v1[i] * v2[k]) >> scaling]; the product of two [int16_t] fits in
    an [int]. *)
Definition mac {R : Type} (v1 v2 : list Z) (scaling i k sum : Z) : flow R Z :=
  let! x := rd v1 i in
  let! y := rd v2 k in
  Cont (s32 (sum + Z.shiftr (x * y) scaling)).

(** [for (; j < n - 3; j += 4)], with the second vector read at an offset. *)
Fixpoint unrolled {R : Type} (fuel : nat) (v1 v2 : list Z) (off scaling n j sum : Z)
  : flow R (Z * Z) :=
  match fuel with
  | O => Stuck
  | S fuel =>
      if j <? n - 3 then
        let! sum := mac v1 v2 scaling (j + 0) (off + j + 0) sum in
        let! sum := mac v1 v2 scaling (j + 1) (off + j + 1) sum in
        let! sum := mac v1 v2 scaling (j + 2) (off + j + 2) sum in
        let! sum := mac v1 v2 scaling (j + 3) (off + j + 3) sum in
        unrolled fuel v1 v2 off scaling n (j + 4) sum
      else Cont (j, sum)
  end.

(** [for (; j < n; j++)]. *)
Fixpoint leftover {R : Type} (fuel : nat) (v1 v2 : list Z) (off scaling n j sum : Z)
  : flow R Z :=
  match fuel with
  | O => Stuck
  | S fuel =>
      if j <? n then
        let! sum := mac v1 v2 scaling j (off + j) sum in
        leftover fuel v1 v2 off scaling n (j + 1) sum
      else Cont sum
  end.

(** One more iteration of fuel than elements, for the failing test. *)
Definition product_sum {R : Type} (v1 v2 : list Z) (off scaling n : Z) : flow R Z :=
  let! (j, sum) := unrolled (S (Z.to_nat n)) v1 v2 off scaling n 0 0 in
  leftover (S (Z.to_nat n)) v1 v2 off scaling n j sum.

Definition WebRtcSpl_DotProductWithScale (vector1 vector2 : list Z) (length scaling : Z)
  : option Z := run_flow (product_sum vector1 vector2 0 scaling length).

(** The result, [result] and [*scale]; [scale] is kept when the call is refused. *)
Definition WebRtcSpl_AutoCorrelation (in_vector : list Z) (in_vector_length order : Z)
  (result : list Z) (scale : Z) : option (Z * list Z * Z) :=
  if in_vector_length <? order then Some (-1, result, scale)
  else
    let order := if order <? 0 then in_vector_length else order in
    smax ← MinMax.WebRtcSpl_MaxAbsValueW16C (Some in_vector) in_vector_length;
    let scaling :=
      if smax =? 0 then 0
      else scaling_of (WebRtcSpl_NormW32 (smax * smax))
             (WebRtcSpl_GetSizeInBits (u32 in_vector_length)) in
    run_flow (
      let! result := for_up (Z.to_nat (order + 1)) 0 (fun i result =>
        let! sum := product_sum in_vector in_vector i scaling (in_vector_length - i) in
        wr result i sum) result in
      Cont (order + 1, result, scaling)).

Definition WebRtcSpl_CrossCorrelationC (cross_correlation seq1 seq2 : list Z)
  (dim_seq dim_cross_correlation right_shifts step_seq2 : Z) : option (list Z) :=
  run_flow (for_up (Z.to_nat dim_cross_correlation) 0 (fun i cross =>
    let! cross := wr cross i 0 in
    for_up (Z.to_nat dim_seq) 0 (fun j cross =>
      let! sum := rd cross i in
      let! sum := mac seq1 seq2 right_shifts j (step_seq2 * i + j) sum in
      wr cross i sum) cross) cross_correlation).

(** ** Random numbers *)

Definition kMaxSeedUsed : Z := 2147483648.

(** The updated seed, which is also the result. *)
Definition IncreaseSeed (seed : Z) : Z := Z.land (u32 (seed * 69069 + 1)) (kMaxSeedUsed - 1).

Definition kRandNTable : list Z := [
  9178; (-7260); 40; 10189; 4894; (-3531); (-13779); 14764; (-4008); (-8884); (-8990); 1008;
  7368; 5184; 3251; (-5817); (-9786); 5963; 1770; 8066; (-7135); 10772; (-2298); 1361; 6484;
  2241; (-8633); 792; 199; (-3344); 6553; (-10079); (-15040); 95; 11608; (-12469); 14161;
  (-4176); 2476; 6403; 13685; (-16005); 6646; 2239; 10916; (-3004); (-602); (-3141); 2142;
  14144; (-5829); 5305; 8209; 4713; 2697; (-5112); 16092; (-1210); (-2891); (-6631); (-5360);
  (-11878); (-6781); (-2739); (-6392); 536; 10923; 10872; 5059; (-4748); (-7770); 5477; 38;
  (-1025); (-2892); 1638; 6304; 14375; (-11028); 1553; (-1565); 10762; (-393); 4040; 5257;
  12310; 6554; (-4799); 4899; (-6354); 1603; (-1048); (-2220); 8247; (-186); (-8944); (-12004);
  2332; 4801; (-4933); 6371; 131; 8614; (-5927); (-8287); (-22760); 4033; (-15162); 3385; 3246;
  3153; (-5250); 3766; 784; 6494; (-62); 3531; (-1582); 15572; 662; (-3952); (-330); (-3196);
  669; 7236; (-2678); (-6569); 23319; (-8645); (-741); 14830; (-15976); 4903; 315; (-11342);
  10311; 1858; (-7777); 2145; 5436; 5677; (-113); (-10033); 826; (-1353); 17210; 7768; 986;
  (-1471); 8291; (-4982); 8207; (-14911); (-6255); (-2449); (-11881); (-7059); (-11703);
  (-4338); 8025; 7538; (-2823); (-12490); 9470; (-1613); (-2529); (-10092); (-7807); 9480;
  6970; (-12844); 5123; 3532; 4816; 4803; (-8455); (-5045); 14032; (-4378); (-1643); 5756;
  (-11041); (-2732); (-16618); (-6430); (-18375); (-3320); 6098; 5131; (-4269); (-8840); 2482;
  (-7048); 1547; (-21890); (-6505); (-7414); (-424); (-11722); 7955; 1653; (-17299); 1823; 473;
  (-9232); 3337; 1111; 873; 4018; (-8982); 9889; 3531; (-11763); (-3799); 7373; (-4539); 3231;
  7054; (-8537); 7616; 6244; 16635; 447; (-2915); 13967; 705; (-2669); (-1520); (-1771);
  (-16188); 5956; 5117; 6371; (-9936); (-1448); 2480; 5128; 7550; (-8130); 5236; 8213; (-6443);
  7707; (-1950); (-13811); 7218; 7031; (-3883); 67; 5731; (-2874); 13480; (-3743); 9298;
  (-3280); 3552; (-4425); (-18); (-3785); (-9988); (-5357); 5477; (-11794); 2117; 1416;
  (-9935); 3376; 802; (-5079); (-8243); 12652; 66; 3653; (-2368); 6781; (-21895); (-7227);
  2487; 7839; (-385); 6646; (-7016); (-4658); 5531; (-1705); 834; 129; 3694; (-1343); 2238;
  (-22640); (-6417); (-11139); 11301; (-2945); (-3494); (-5626); 185; (-3615); (-2041);
  (-7972); (-3106); (-60); (-23497); (-1566); 17064; 3519; 2518; 304; (-6805); (-10269); 2105;
  1936; (-426); (-736); (-8122); (-1467); 4238; (-6939); (-13309); 360; 7402; (-7970); 12576;
  3287; 12194; (-6289); (-16006); 9171; 4042; (-9193); 9123; (-2512); 6388; (-4734); (-8739);
  1028; (-5406); (-1696); 5889; (-666); (-4736); 4971; 3565; 9362; (-6292); 3876; (-3652);
  (-19666); 7523; (-4061); 391; (-11773); 7502; (-3763); 4929; (-9478); 13278; 2805; 4496;
  7814; 16419; 12455; (-14773); 2127; (-2746); 3763; 4847; 3698; 6978; 4751; (-6957); (-3581);
  (-45); 6252; 1513; (-4797); (-7925); 11270; 16188; (-2359); (-5269); 9376; (-10777); 7262;
  20031; (-6515); (-2208); (-5353); 8085; (-1341); (-1303); 7333; 5576; 3625; 5763; (-7931);
  9833; (-3371); (-10305); 6534; (-13539); (-9971); 997; 8464; (-4064); (-1495); 1857; 13624;
  5458; 9490; (-11086); (-4524); 12022; (-550); (-198); 408; (-8455); (-7068); 10289; 9712;
  (-3366); 9028; (-7621); (-5243); 2362; 6909; 4672; (-4933); (-1799); 4709; (-4563); (-62);
  (-566); 1624; (-7010); 14730; (-17791); (-3697); (-2344); (-1741); 7099; (-9509); (-6855);
  (-1989); 3495; (-2289); 2031; 12784; 891; 14189; (-3963); (-5683); 421; (-12575); 1724;
  (-12682); (-5970); (-8169); 3143; (-1824); (-5488); (-5130); 8536; 12799; 794; 5738; 3459;
  (-11689); (-258); (-3738); (-3775); (-8742); 2333; 8312; (-9383); 10331; 13119; 8398; 10644;
  (-19433); (-6446); (-16277); (-11793); 16284; 9345; 15222; 15834; 2009; (-7349); 130;
  (-14547); 338; (-5998); 3337; 21492; 2406; 7703; (-951); 11196; (-564); 3406; 2217; 4806;
  2374; (-5797); 11839; 8940; (-11874); 18213; 2855; 10492].

(** The result and the updated seed. *)
Definition WebRtcSpl_RandU (seed : Z) : Z * Z :=
  let seed := IncreaseSeed seed in (s16 (Z.shiftr seed 16), seed).

Definition WebRtcSpl_RandN {R : Type} (seed : Z) : flow R (Z * Z) :=
  let seed := IncreaseSeed seed in
  let! x := rd kRandNTable (Z.shiftr seed 23) in Cont (x, seed).

Definition WebRtcSpl_RandUArray (vector : list Z) (vector_length seed : Z)
  : option (Z * list Z * Z) :=
  run_flow (
    let! (vector, seed) := for_up (Z.to_nat vector_length) 0 (fun i '(vector, seed) =>
      let '(x, seed) := WebRtcSpl_RandU seed in
      let! vector := wr vector i x in
      Cont (vector, seed)) (vector, seed) in
    Cont (vector_length, vector, seed)).

(** ** Sums *)

Fixpoint zsum (f : Z -> Z) (n : nat) : Z :=
  match n with
  | O => 0
  | S n => zsum f n + f (Z.of_nat n)
  end.

Lemma zsum_bound f n lo hi :
  (forall k, 0 <= k < Z.of_nat n -> lo <= f k <= hi) ->
  Z.of_nat n * lo <= zsum f n <= Z.of_nat n * hi.
Proof.
  induction n as [|n IH]; intros H; cbn [zsum]; [lia|].
  specialize (IH ltac:(intros; apply H; lia)). specialize (H (Z.of_nat n) ltac:(lia)). lia.
Qed.

Lemma zsum_ext f g n :
  (forall k, 0 <= k < Z.of_nat n -> f k = g k) -> zsum f n = zsum g n.
Proof.
  induction n as [|n IH]; intros H; cbn [zsum]; [done|].
  rewrite IH by (intros; apply H; lia). by rewrite H by lia.
Qed.

Lemma s32_add_l x y : s32 (s32 x + y) = s32 (x + y).
Proof. cint. Qed.

(** ** The unrolled loop is the sum of the scaled products *)

Definition product (v1 v2 : list Z) (off scaling k : Z) : Z :=
  Z.shiftr (v1 !!! Z.to_nat k * v2 !!! Z.to_nat (off + k)) scaling.

Section products.
Context (v1 v2 : list Z) (off scaling n : Z).
Context (H1 : 0 <= n <= Zlen v1) (H2 : 0 <= off /\ off + n <= Zlen v2).
Abbreviation f := (product v1 v2 off scaling).

Lemma mac_step {R} j :
  0 <= j < n ->
  mac (R := R) v1 v2 scaling j (off + j) (s32 (zsum f (Z.to_nat j)))
  = Cont (s32 (zsum f (Z.to_nat (j + 1)))).
Proof.
  intros Hj. unfold mac. rewrite !rd_total by lia. cbn [flow_bind].
  rewrite s32_add_l. replace (Z.to_nat (j + 1)) with (S (Z.to_nat j)) by lia.
  cbn [zsum]. by rewrite Z2Nat.id by lia.
Qed.

Lemma unrolled_spec {R} fuel j :
  0 <= j <= n -> n - j < Z.of_nat fuel ->
  exists j', unrolled (R := R) fuel v1 v2 off scaling n j (s32 (zsum f (Z.to_nat j)))
             = Cont (j', s32 (zsum f (Z.to_nat j'))) /\ j <= j' <= n.
Proof.
  revert j. induction fuel as [|fuel IH]; intros j Hj Hf; [lia|]. cbn [unrolled].
  destruct (Z.ltb_spec j (n - 3)).
  - rewrite !Z.add_0_r, mac_step by lia. cbn [flow_bind].
    rewrite <- (Z.add_assoc off j 1), mac_step by lia. cbn [flow_bind].
    replace (j + 1 + 1) with (j + 2) by lia. rewrite <- (Z.add_assoc off j 2), mac_step by lia.
    cbn [flow_bind].
    replace (j + 2 + 1) with (j + 3) by lia. rewrite <- (Z.add_assoc off j 3), mac_step by lia.
    cbn [flow_bind]. replace (j + 3 + 1) with (j + 4) by lia.
    destruct (IH (j + 4)) as (j' & -> & Hj'); [lia|lia|]. exists j'. split; [done|lia].
  - exists j. split; [done|lia].
Qed.

Lemma leftover_spec {R} fuel j :
  0 <= j <= n -> n - j < Z.of_nat fuel ->
  leftover (R := R) fuel v1 v2 off scaling n j (s32 (zsum f (Z.to_nat j)))
  = Cont (s32 (zsum f (Z.to_nat n))).
Proof.
  revert j. induction fuel as [|fuel IH]; intros j Hj Hf; [lia|]. cbn [leftover].
  destruct (Z.ltb_spec j n).
  - rewrite mac_step by lia. cbn [flow_bind]. apply IH; lia.
  - by replace j with n by lia.
Qed.

Lemma product_sum_spec {R} :
  product_sum (R := R) v1 v2 off scaling n = Cont (s32 (zsum f (Z.to_nat n))).
Proof.
  unfold product_sum. change 0 with (s32 (zsum f (Z.to_nat 0))) at 2.
  destruct (unrolled_spec (R := R) (S (Z.to_nat n)) 0) as (j & -> & Hj); [lia|lia|].
  cbn [flow_bind]. apply leftover_spec; lia.
Qed.
End products.

(** ** The scaling keeps the sum within 32 bits *)

(** A product below [2 ^ (31 - t)], scaled for [t] and [nbits], is small enough for
    [2 ^ nbits - 1] of them. *)
Lemma scaled_term p t nbits :
  0 <= t <= 31 -> 0 <= nbits <= 31 -> - 2 ^ (31 - t) <= p <= 2 ^ (31 - t) ->
  - 2 ^ (31 - nbits) <= Z.shiftr p (scaling_of t nbits) <= 2 ^ (31 - nbits).
Proof.
  intros Ht Hn Hp. unfold scaling_of. destruct (Z.ltb_spec nbits t).
  - rewrite Z.shiftr_0_r. assert (2 ^ (31 - t) <= 2 ^ (31 - nbits)) by (apply pow_mono; lia). lia.
  - rewrite Z.shiftr_div_pow2 by lia.
    rewrite (pow_split (31 - t) (nbits - t)) in Hp by lia.
    replace (31 - t - (nbits - t)) with (31 - nbits) in Hp by lia.
    assert (0 < 2 ^ (nbits - t)) by (apply pow_pos; lia).
    assert (0 < 2 ^ (31 - nbits)) by (apply pow_pos; lia). split.
    + apply Z.div_le_lower_bound; lia.
    + apply Z.lt_succ_r, Z.div_lt_upper_bound; lia.
Qed.

Lemma scaled_sum f t nbits n :
  (forall k, 0 <= k < Z.of_nat n -> - 2 ^ (31 - t) <= f k <= 2 ^ (31 - t)) ->
  0 <= t <= 31 -> 0 <= nbits <= 31 -> Z.of_nat n < 2 ^ nbits ->
  is_s32 (zsum (fun k => Z.shiftr (f k) (scaling_of t nbits)) n).
Proof.
  intros Hf Ht Hb Hn.
  assert (Hs := zsum_bound (fun k => Z.shiftr (f k) (scaling_of t nbits)) n
    (- 2 ^ (31 - nbits)) (2 ^ (31 - nbits))).
  specialize (Hs ltac:(intros; apply scaled_term; auto)).
  assert (Hp := pow_split 31 nbits ltac:(lia)). change (2 ^ 31) with 2147483648 in Hp.
  assert (0 < 2 ^ (31 - nbits)) by (apply pow_pos; lia). unfold is_s32. nia.
Qed.

(** The number of bits and the norm that the two functions compute. *)
Lemma nbits_spec n :
  0 <= n < 2147483648 -> 0 <= WebRtcSpl_GetSizeInBits (u32 n) <= 31 /\
                         n < 2 ^ WebRtcSpl_GetSizeInBits (u32 n).
Proof.
  intros Hn. rewrite u32_id by (unfold is_u32; lia).
  assert (H0 : 0 <= WebRtcSpl_GetSizeInBits n).
  { destruct (Z.eq_dec n 0) as [->|]; [by vm_compute|].
    destruct (GetSizeInBits_pos n); [lia|lia]. }
  split; [split; [done|]|].
  - apply GetSizeInBits_below; [unfold is_u32; lia|lia|]. change (2 ^ 31) with 2147483648. lia.
  - apply GetSizeInBits_below; [unfold is_u32; lia|lia|lia].
Qed.

Lemma norm_square m (t := WebRtcSpl_NormW32 (m * m)) :
  0 < m < 32768 -> 0 <= t <= 31 /\ m * m < 2 ^ (31 - t) /\ (m = 32767 -> t = 1).
Proof.
  intros Hm. subst t. destruct (NormW32_pos (m * m)) as [Ht Hb]; [nia|].
  set (t := WebRtcSpl_NormW32 (m * m)) in *. assert (t <= 31).
  { destruct (Z.le_gt_cases t 31); [done|]. assert (2 ^ 32 <= 2 ^ t) by (apply pow_mono; lia). nia. }
  split; [lia|]. split; [|by intros ->].
  assert (0 < 2 ^ t) by (apply pow_pos; lia). rewrite (pow_split 31 t) in Hb by lia. nia.
Qed.

Lemma abs_square_bound x m : Z.abs x <= m -> 0 <= x * x <= m * m.
Proof. intros. rewrite <- (Z.abs_square x). nia. Qed.

Lemma abs_product_bound x y m : Z.abs x <= m -> Z.abs y <= m -> - (m * m) <= x * y <= m * m.
Proof.
  intros Hx Hy. assert (Z.abs (x * y) <= m * m); [|lia].
  rewrite Z.abs_mul. apply Z.mul_le_mono_nonneg; lia.
Qed.

Lemma zsum_zero f n : (forall k, 0 <= k < Z.of_nat n -> f k = 0) -> zsum f n = 0.
Proof.
  intros H. assert (Hb := zsum_bound f n 0 0). specialize (Hb ltac:(intros; rewrite H by done; lia)).
  lia.
Qed.

(** The scaling that the largest magnitude [m] of a vector selects. *)
Definition scaling_for (m n : Z) : Z :=
  if m =? 0 then 0 else scaling_of (WebRtcSpl_NormW32 (m * m)) (WebRtcSpl_GetSizeInBits (u32 n)).

(** It keeps every sum of at most [n] products of elements within 32 bits, even
    for elements of magnitude 32768 if the magnitude was capped. *)
Lemma scaling_for_sum p m n n' :
  0 <= m < 32768 -> 0 <= n < 2147483648 -> 0 <= n' <= n ->
  (forall k, 0 <= k < n' ->
     - (m * m) <= p k <= m * m \/ m = 32767 /\ - 2 ^ 30 <= p k <= 2 ^ 30) ->
  is_s32 (zsum (fun k => Z.shiftr (p k) (scaling_for m n)) (Z.to_nat n')).
Proof.
  intros Hm Hn Hn' Hp. unfold scaling_for. destruct (Z.eqb_spec m 0) as [->|Hm0].
  - rewrite zsum_zero; [by vm_compute|].
    intros k Hk. rewrite Z.shiftr_0_r. specialize (Hp k ltac:(lia)). lia.
  - destruct (nbits_spec n Hn) as [Hb1 Hb2]. destruct (norm_square m ltac:(lia)) as (Ht & Hmm & Hcap).
    apply scaled_sum; [|done|done|lia]. intros k Hk. specialize (Hp k ltac:(lia)).
    destruct Hp as [|[-> ?]]; [lia|]. rewrite Hcap by done. done.
Qed.

(** ** The energy *)

Lemma largest_sabs_spec {R} v n :
  0 < n <= Zlen v -> Forall (fun x => -32768 < x < 32768) v ->
  exists m, largest_sabs (R := R) v n = Cont m /\ 0 <= m < 32768 /\
            forall k, 0 <= k < n -> Z.abs (v !!! Z.to_nat k) <= m.
Proof.
  intros Hn Hv. unfold largest_sabs.
  destruct (for_up_inv (R := R) (fun j m => -1 <= m < 32768 /\
      forall k, 0 <= k < j -> Z.abs (v !!! Z.to_nat k) <= m)
    (fun i smax => let! x := rd v i in Cont (if smax <? sabs x then sabs x else smax))
    (Z.to_nat n) 0 (-1)) as (m & Hm & Hr & Hall).
  - split; [lia|]. lia.
  - intros j m Hj [Hr Hall]. rewrite rd_total by lia. cbn [flow_bind]. eexists. split; [reflexivity|].
    assert (Hx := Forall_total _ v (Z.to_nat j) Hv ltac:(unfold Zlen in *; lia)). simpl in Hx.
    assert (Ex : sabs (v !!! Z.to_nat j) = Z.abs (v !!! Z.to_nat j)).
    { unfold sabs. zcase; [lia|]. rewrite s16_id by (unfold is_s16; lia). lia. }
    rewrite Ex. zcase; (split; [lia|]); intros k Hk;
      (destruct (Z.eq_dec k j) as [->|]; [lia|specialize (Hall k ltac:(lia)); lia]).
  - rewrite Hm. exists m. split; [done|]. rewrite Z2Nat.id in Hall by lia.
    split; [|intros k Hk; apply Hall; lia]. specialize (Hall 0 ltac:(lia)). lia.
Qed.

Lemma energy_loop {R} v s n :
  0 <= n <= Zlen v -> Forall is_s16 v ->
  for_up (R := R) (Z.to_nat n) 0 (fun i en =>
    let! x := rd v i in Cont (s32 (en + Scaling.WEBRTC_SPL_MUL_16_16_RSFT x x s))) 0
  = Cont (s32 (zsum (fun k => Z.shiftr (v !!! Z.to_nat k * v !!! Z.to_nat k) s) (Z.to_nat n))).
Proof.
  intros Hn Hv.
  destruct (for_up_inv (R := R) (fun j en =>
      en = s32 (zsum (fun k => Z.shiftr (v !!! Z.to_nat k * v !!! Z.to_nat k) s) (Z.to_nat j)))
    (fun i en => let! x := rd v i in Cont (s32 (en + Scaling.WEBRTC_SPL_MUL_16_16_RSFT x x s)))
    (Z.to_nat n) 0 0) as (en & -> & ->).
  - reflexivity.
  - intros j en Hj ->. rewrite rd_total by lia. cbn [flow_bind]. eexists. split; [reflexivity|].
    unfold Scaling.WEBRTC_SPL_MUL_16_16_RSFT.
    rewrite !s16_id by (apply MinMax.is_s16_at; [done|lia]). rewrite s32_add_l.
    replace (Z.to_nat (j + 1)) with (S (Z.to_nat j)) by lia. cbn [zsum].
    by rewrite Z2Nat.id by lia.
  - by rewrite Z.add_0_l, Z2Nat.id by lia.
Qed.

(** The energy of a vector without the value -32768 is the exact sum of its
    scaled squares, a non-negative 32-bit number: no addition overflows. *)
Theorem Energy_exact v n :
  0 < n <= Zlen v -> n < 2147483648 -> Forall (fun x => -32768 < x < 32768) v ->
  exists scaling en, WebRtcSpl_Energy v n = Some (en, scaling) /\
    0 <= scaling <= 31 /\ 0 <= en < 2147483648 /\
    en = zsum (fun k => Z.shiftr (v !!! Z.to_nat k * v !!! Z.to_nat k) scaling) (Z.to_nat n).
Proof.
  intros Hn Hn32 Hv. unfold WebRtcSpl_Energy, WebRtcSpl_GetScalingSquare.
  destruct (largest_sabs_spec (R := Z * Z) v n Hn Hv) as (m & -> & Hm & Hall). cbn [flow_bind].
  assert (E : (if m =? 0 then Cont 0 else
      Cont (scaling_of (WebRtcSpl_NormW32 (m * m)) (WebRtcSpl_GetSizeInBits (u32 n))))
      = Cont (R := Z * Z) (scaling_for m n)) by (unfold scaling_for; by destruct (m =? 0)).
  rewrite E. cbn [flow_bind].
  rewrite energy_loop; [|lia|by eapply Forall_impl; [exact Hv|]; unfold is_s16; simpl; lia].
  cbn [flow_bind run_flow].
  assert (Hsum := scaling_for_sum (fun k => v !!! Z.to_nat k * v !!! Z.to_nat k) m n n
    Hm ltac:(lia) ltac:(lia)).
  specialize (Hsum ltac:(intros k Hk; left; specialize (abs_square_bound _ _ (Hall k Hk)); lia)).
  assert (Hs : 0 <= scaling_for m n <= 31).
  { unfold scaling_for, scaling_of. destruct (Z.eqb_spec m 0); [lia|].
    destruct (nbits_spec n ltac:(lia)). destruct (norm_square m ltac:(lia)). zcase; lia. }
  eexists _, _. split; [reflexivity|]. split; [done|]. rewrite s32_id by done. split; [|done].
  split; [|unfold is_s32 in Hsum; lia].
  assert (Hpos := zsum_bound (fun k => Z.shiftr (v !!! Z.to_nat k * v !!! Z.to_nat k)
    (scaling_for m n)) (Z.to_nat n) 0 (2 ^ 30)).
  apply Z.le_trans with (Z.of_nat (Z.to_nat n) * 0); [lia|]. apply Hpos. intros k Hk.
  assert (Hsq := abs_square_bound _ _ (Hall k ltac:(lia))).
  apply Scaling.shiftr_range; [lia|lia|]. nia.
Qed.

Lemma Energy_exact_witness : exists s e, WebRtcSpl_Energy [30000; -32767; 5] 3 = Some (e, s) /\ 0 <= s.
Proof.
  destruct (Energy_exact [30000; -32767; 5] 3 ltac:(split; vm_compute; congruence)
    ltac:(vm_compute; congruence)
    ltac:(repeat (constructor; [split; vm_compute; congruence|]); constructor))
    as (s & e & H & Hs & _).
  exists s, e. split; [exact H|exact (proj1 Hs)].
Defined.

(** The value -32768 is not seen by the choice of the scaling, because its
    negation in 16 bits is itself: for two such samples no bit is dropped and
    the energy, [2 ^ 31], overflows to the least 32-bit number. *)
Theorem Energy_overflow :
  WebRtcSpl_GetScalingSquare (R := Z) [-32768; -32768] 2 2 = Cont 0 /\
  zsum (fun k => Z.shiftr ([-32768; -32768] !!! Z.to_nat k * [-32768; -32768] !!! Z.to_nat k) 0) 2
    = 2 ^ 31 /\
  WebRtcSpl_Energy [-32768; -32768] 2 = Some (-2147483648, 0).
Proof. vm_compute. done. Qed.

(** ** The correlations *)

(** The unrolled dot product is the sum of the scaled products of the first
    [length] pairs of elements, wrapped to 32 bits, and thus the exact sum
    whenever that fits; a length that is not positive gives zero. *)
Theorem DotProductWithScale_sum vector1 vector2 length scaling :
  length <= Zlen vector1 -> length <= Zlen vector2 ->
  WebRtcSpl_DotProductWithScale vector1 vector2 length scaling =
  Some (s32 (zsum (fun k => Z.shiftr (vector1 !!! Z.to_nat k * vector2 !!! Z.to_nat k) scaling)
               (Z.to_nat length))).
Proof.
  intros H1 H2. unfold WebRtcSpl_DotProductWithScale. destruct (Z.le_gt_cases 0 length).
  - rewrite product_sum_spec by lia. reflexivity.
  - unfold product_sum. replace (Z.to_nat length) with 0%nat by lia. cbn [unrolled].
    destruct (Z.ltb_spec 0 (length - 3)); [lia|]. cbn [flow_bind leftover].
    destruct (Z.ltb_spec 0 length); [lia|]. reflexivity.
Qed.

Lemma DotProductWithScale_sum_witness :
  WebRtcSpl_DotProductWithScale [1; 2; 3; 4; 5; 6] [6; 5; 4; 3; 2; 1] 6 1 = Some 28.
Proof.
  rewrite (DotProductWithScale_sum [1; 2; 3; 4; 5; 6] [6; 5; 4; 3; 2; 1] 6 1);
    [reflexivity|vm_compute; congruence|vm_compute; congruence].
Defined.

(** The autocorrelation of any vector of 16-bit samples, including -32768,
    stores for each lag up to the order the exact sum of the scaled products:
    no addition overflows.  A negative order stands for the length of the
    vector, and an order above the length is refused without effect. *)
Theorem AutoCorrelation_exact v n order result scale0 :
  0 < n <= Zlen v -> n < 2147483648 -> Forall is_s16 v ->
  (n < order -> WebRtcSpl_AutoCorrelation v n order result scale0 = Some (-1, result, scale0)) /\
  (let ord := if order <? 0 then n else order in
   order <= n -> ord + 1 <= Zlen result ->
   exists scale,
     let corr i := zsum (product v v i scale) (Z.to_nat (n - i)) in
     WebRtcSpl_AutoCorrelation v n order result scale0
       = Some (ord + 1, (corr <$> seqZ 0 (ord + 1)) ++ zdrop (ord + 1) result, scale) /\
     forall i, 0 <= i <= ord -> is_s32 (corr i)).
Proof.
  intros Hn Hn32 Hv. split.
  { intros Ho. unfold WebRtcSpl_AutoCorrelation. by destruct (Z.ltb_spec n order); [|lia]. }
  intros ord Ho Hr. unfold WebRtcSpl_AutoCorrelation. destruct (Z.ltb_spec n order); [lia|].
  fold ord. cbn zeta. assert (Hord : 0 <= ord <= n) by (subst ord; zcase; lia). clearbody ord.
  destruct (MinMax.MaxAbsValueW16C_spec v n Hn Hv) as (b & (Hb & Hmax & _) & ->).
  set (m := Z.min 32767 (Z.abs (v !!! Z.to_nat b))). cbn [mbind option_bind].
  fold (scaling_for m n). exists (scaling_for m n).
  assert (Hall : forall k, 0 <= k < n ->
    Z.abs (v !!! Z.to_nat k) <= Z.abs (v !!! Z.to_nat b)) by exact Hmax.
  assert (Hmr : 0 <= m < 32768) by lia.
  assert (Hs : forall i, 0 <= i <= ord ->
    is_s32 (zsum (product v v i (scaling_for m n)) (Z.to_nat (n - i)))).
  { intros i Hi.
    apply (scaling_for_sum (fun k => v !!! Z.to_nat k * v !!! Z.to_nat (i + k)) m n);
      [done|lia|lia|]. intros k Hk.
    assert (Hp := abs_product_bound _ _ _ (Hall k ltac:(lia)) (Hall (i + k) ltac:(lia))).
    assert (Hx := MinMax.is_s16_at v b Hv ltac:(lia)). unfold is_s16 in Hx.
    destruct (Z.le_gt_cases (Z.abs (v !!! Z.to_nat b)) 32767).
    - left. subst m. rewrite Z.min_r by lia. exact Hp.
    - right. split; [lia|]. nia. }
  split; [|exact Hs].
  rewrite (for_up_store (fun i => zsum (product v v i (scaling_for m n)) (Z.to_nat (n - i))));
    [done|lia|].
  intros j o Hj _. rewrite product_sum_spec by lia. cbn [flow_bind].
  by rewrite s32_id by (apply Hs; lia).
Qed.

Lemma AutoCorrelation_exact_witness :
  exists r s, WebRtcSpl_AutoCorrelation [-32768; -32768; 7] 3 1 [0; 0; 0] 9 = Some (2, r, s).
Proof.
  destruct (proj2 (AutoCorrelation_exact [-32768; -32768; 7] 3 1 [0; 0; 0] 9
    ltac:(split; vm_compute; congruence) ltac:(vm_compute; congruence)
    ltac:(repeat (constructor; [split; vm_compute; congruence|]); constructor))
    ltac:(vm_compute; congruence) ltac:(vm_compute; congruence)) as (s & H & _).
  eexists _, s. exact H.
Defined.

(** Each cross correlation is the wrapped sum of the shifted products at its
    offset, read from the second sequence every [step_seq2] elements. *)
Theorem CrossCorrelation_sums cross seq1 seq2 dim_seq dim shifts step :
  0 <= dim_seq <= Zlen seq1 -> 0 <= dim <= Zlen cross ->
  (forall i, 0 <= i < dim -> 0 <= step * i /\ step * i + dim_seq <= Zlen seq2) ->
  WebRtcSpl_CrossCorrelationC cross seq1 seq2 dim_seq dim shifts step =
  Some (((fun i => s32 (zsum (product seq1 seq2 (step * i) shifts) (Z.to_nat dim_seq)))
          <$> seqZ 0 dim) ++ zdrop dim cross).
Proof.
  intros Hs Hd Hstep. unfold WebRtcSpl_CrossCorrelationC.
  rewrite (for_up_store (fun i => s32 (zsum (product seq1 seq2 (step * i) shifts)
    (Z.to_nat dim_seq)))); [done|done|].
  intros i o Hi Ho. specialize (Hstep i Hi). rewrite !wr_Cont by lia. cbn [flow_bind].
  set (f := product seq1 seq2 (step * i) shifts).
  match goal with |- for_up _ _ ?body _ = _ =>
    destruct (for_up_inv (fun j o' => o' = <[Z.to_nat i := s32 (zsum f (Z.to_nat j))]> o)
      body (Z.to_nat dim_seq) 0 (<[Z.to_nat i := 0]> o)) as (o' & -> & ->) end.
  - reflexivity.
  - intros j o' Hj ->. eexists. split; [|reflexivity].
    rewrite (rd_Cont _ _ (s32 (zsum f (Z.to_nat j)))); [|lia|].
    + cbn [flow_bind]. unfold f. rewrite (mac_step _ _ _ _ dim_seq) by lia. cbn [flow_bind].
      rewrite wr_Cont by (rewrite Zlen_insert; lia). by rewrite list_insert_insert_eq.
    + apply list_lookup_insert_eq. unfold Zlen in *. lia.
  - by rewrite Z.add_0_l, Z2Nat.id by lia.
Qed.

Lemma CrossCorrelation_sums_witness :
  WebRtcSpl_CrossCorrelationC [0; 0; 0] [1; 2] [3; 4; 5] 2 2 0 1 = Some [11; 14; 0].
Proof.
  rewrite (CrossCorrelation_sums [0; 0; 0] [1; 2] [3; 4; 5] 2 2 0 1);
    [reflexivity|split; vm_compute; congruence|split; vm_compute; congruence|].
  intros i Hi. assert (i = 0 \/ i = 1) as [-> | ->] by lia; split; vm_compute; congruence.
Defined.

(** ** The generator *)

Lemma IncreaseSeed_mod seed : IncreaseSeed seed = (seed * 69069 + 1) mod 2147483648.
Proof.
  unfold IncreaseSeed, kMaxSeedUsed. change (2147483648 - 1) with (Z.ones 31).
  rewrite Z.land_ones by lia. unfold u32. change (2 ^ 31) with 2147483648. zdm.
Qed.

(** 69069 is invertible modulo [2 ^ 31]. *)
Lemma IncreaseSeed_inverse seed :
  0 <= seed < 2147483648 -> (IncreaseSeed seed - 1) * 635610885 mod 2147483648 = seed.
Proof.
  intros Hs. rewrite IncreaseSeed_mod, (Z.mod_eq (seed * 69069 + 1)) by lia.
  set (q := (seed * 69069 + 1) / 2147483648).
  replace ((seed * 69069 + 1 - 2147483648 * q - 1) * 635610885)
    with (seed + (seed * 20443 - q * 635610885) * 2147483648) by ring.
  rewrite Z.mod_add by lia. by apply Z.mod_small.
Qed.

(** On seeds below [2 ^ 31] the generator steps to such a seed and never
    brings two seeds together; its uniform values are the non-negative 16-bit
    numbers, and its normal values are read from the first 256 entries of the
    table of 512. *)
Theorem random_generator seed seed' :
  0 <= seed < 2147483648 -> 0 <= seed' < 2147483648 ->
  0 <= IncreaseSeed seed < 2147483648 /\
  (IncreaseSeed seed = IncreaseSeed seed' -> seed = seed') /\
  (0 <= (WebRtcSpl_RandU seed).1 < 32768) /\
  (exists i x, 0 <= i < 256 /\ kRandNTable !! Z.to_nat i = Some x /\ length kRandNTable = 512%nat /\
               WebRtcSpl_RandN (R := Z) seed = Cont (x, IncreaseSeed seed)).
Proof.
  intros Hs Hs'.
  assert (Hr : 0 <= IncreaseSeed seed < 2147483648) by (rewrite IncreaseSeed_mod; zdm).
  split; [done|]. split; [|split].
  - intros E. rewrite <- (IncreaseSeed_inverse seed), E by done. by apply IncreaseSeed_inverse.
  - unfold WebRtcSpl_RandU. cbn [fst]. rewrite Z.shiftr_div_pow2 by lia.
    change (2 ^ 16) with 65536. cint.
  - exists (Z.shiftr (IncreaseSeed seed) 23). unfold WebRtcSpl_RandN.
    assert (Hi : 0 <= Z.shiftr (IncreaseSeed seed) 23 < 256)
      by (rewrite Z.shiftr_div_pow2 by lia; change (2 ^ 23) with 8388608; zdm).
    assert (Hl : Zlen kRandNTable = 512) by reflexivity.
    rewrite rd_total by lia. eexists. split; [done|]. split; [|split; [reflexivity|reflexivity]].
    apply list_lookup_lookup_total_lt. unfold Zlen in Hl. lia.
Qed.

Lemma random_generator_witness : 0 <= IncreaseSeed 2147483647 < 2147483648.
Proof.
  apply (random_generator 2147483647 0); split; vm_compute; congruence.
Defined.

(** The array function fills exactly the first elements, each from the seed
    that the element before it left. *)
Theorem RandUArray_stream vector n seed :
  0 <= n <= Zlen vector ->
  WebRtcSpl_RandUArray vector n seed =
  Some (n, ((fun i => (WebRtcSpl_RandU (Nat.iter (Z.to_nat i) IncreaseSeed seed)).1) <$> seqZ 0 n)
           ++ zdrop n vector, Nat.iter (Z.to_nat n) IncreaseSeed seed).
Proof.
  intros Hn. unfold WebRtcSpl_RandUArray.
  set (h := fun i => (WebRtcSpl_RandU (Nat.iter (Z.to_nat i) IncreaseSeed seed)).1).
  match goal with |- context [for_up _ _ ?body ?s0] =>
    destruct (for_up_inv (fun j s => s = ((h <$> seqZ 0 j) ++ zdrop j vector,
      Nat.iter (Z.to_nat j) IncreaseSeed seed)) body (Z.to_nat n) 0 s0) as (s & -> & ->) end.
  - by rewrite zdrop_0 by lia.
  - intros j s Hj ->. cbv beta iota zeta delta [WebRtcSpl_RandU].
    change (s16 (Z.shiftr (IncreaseSeed (Nat.iter (Z.to_nat j) IncreaseSeed seed)) 16)) with (h j).
    rewrite (wr_next h) by lia. cbn [flow_bind]. eexists. split; [reflexivity|].
    by replace (Z.to_nat (j + 1)) with (S (Z.to_nat j)) by lia.
  - by rewrite Z.add_0_l, Z2Nat.id by lia.
Qed.

Lemma RandUArray_stream_witness :
  WebRtcSpl_RandUArray [0; 0; 7] 2 777 = Some (2, [818; 2175; 7], 142585919).
Proof. rewrite (RandUArray_stream [0; 0; 7] 2 777); [reflexivity|split; vm_compute; congruence]. Defined.
