(* ===== verification/G711.v ===== *)
(** * G.711 and linear PCM

    Models, under [src/webrtc_backup/modules/audio_coding/codecs], the A-law and
    mu-law companding of [g711/g711.h] (the portable versions of the bit searches),
    the transcoding tables of [g711/g711.c], the little-endian versions of the
    codec functions of [g711/g711_interface.c], and [pcm16b/pcm16b.c].  The state
    pointers, which the functions discard, are left out.  One word of an encoded
    G.711 stream holds two codes. *)
From S2P Require Import Prelude SplInl.
Local Open Scope Z_scope.

(** ** Bit searches *)

(** [if (bits & mask) { bits &= mask; i += n; }] on the pair of [bits] and [i]. *)
Definition narrow (mask n : Z) (s : Z * Z) : Z * Z :=
  if none_of mask s.1 then s else (Z.land s.1 mask, s.2 + n).

Definition top_bit (bits : Z) : Z :=
  if bits =? 0 then -1
  else (narrow 2863311530 1 (narrow 3435973836 2 (narrow 4042322160 4
         (narrow 4278255360 8 (narrow 4294901760 16 (bits, 0)))))).2.

Definition bottom_bit (bits : Z) : Z :=
  if bits =? 0 then -1
  else (narrow 1431655765 (-1) (narrow 858993459 (-2) (narrow 252645135 (-4)
         (narrow 16711935 (-8) (narrow 65535 (-16) (bits, 32)))))).2.

(** ** Companding *)

Definition ULAW_BIAS : Z := 132.
Definition ALAW_AMI_MASK : Z := 85.

Definition linear_to_ulaw (linear : Z) : Z :=
  let '(linear, mask) :=
    if linear <? 0 then (ULAW_BIAS - linear - 1, 127) else (ULAW_BIAS + linear, 255) in
  let seg := top_bit (Z.lor linear 255) - 7 in
  if 8 <=? seg then u8 (Z.lxor 127 mask)
  else u8 (Z.lxor (Z.lor (Z.shiftl seg 4) (Z.land (Z.shiftr linear (seg + 3)) 15)) mask).

Definition ulaw_to_linear (ulaw : Z) : Z :=
  let ulaw := u8 (Z.lnot ulaw) in
  let t := Z.shiftl (Z.shiftl (Z.land ulaw 15) 3 + ULAW_BIAS) (Z.shiftr (Z.land ulaw 112) 4) in
  s16 (if none_of 128 ulaw then t - ULAW_BIAS else ULAW_BIAS - t).

Definition linear_to_alaw (linear : Z) : Z :=
  let '(linear, mask) :=
    if 0 <=? linear then (linear, Z.lor ALAW_AMI_MASK 128) else (- linear - 1, ALAW_AMI_MASK) in
  let seg := top_bit (Z.lor linear 255) - 7 in
  if 8 <=? seg then
    if 0 <=? linear then u8 (Z.lxor 127 mask) else u8 (Z.lxor 0 mask)
  else
    u8 (Z.lxor (Z.lor (Z.shiftl seg 4)
                  (Z.land (Z.shiftr linear (if seg =? 0 then 4 else seg + 3)) 15)) mask).

Definition alaw_to_linear (alaw : Z) : Z :=
  let alaw := u8 (Z.lxor alaw ALAW_AMI_MASK) in
  let i := Z.shiftl (Z.land alaw 15) 4 in
  let seg := Z.shiftr (Z.land alaw 112) 4 in
  let i := if seg =? 0 then i + 8 else Z.shiftl (i + 264) (seg - 1) in
  s16 (if none_of 128 alaw then - i else i).

(** ** Transcoding *)

Definition ulaw_to_alaw_table : list Z := [
  42; 43; 40; 41; 46; 47; 44; 45; 34; 35; 32; 33; 38; 39; 36; 37; 58; 59; 56; 57; 62; 63;
  60; 61; 50; 51; 48; 49; 54; 55; 52; 53; 10; 11; 8; 9; 14; 15; 12; 13; 2; 3; 0; 1; 6; 7;
  4; 26; 27; 24; 25; 30; 31; 28; 29; 18; 19; 16; 17; 22; 23; 20; 21; 106; 104; 105; 110;
  111; 108; 109; 98; 99; 96; 97; 102; 103; 100; 101; 122; 120; 126; 127; 124; 125; 114;
  115; 112; 113; 118; 119; 116; 117; 75; 73; 79; 77; 66; 67; 64; 65; 70; 71; 68; 69; 90;
  91; 88; 89; 94; 95; 92; 93; 82; 82; 83; 83; 80; 80; 81; 81; 86; 86; 87; 87; 84; 84; 85;
  85; 170; 171; 168; 169; 174; 175; 172; 173; 162; 163; 160; 161; 166; 167; 164; 165; 186;
  187; 184; 185; 190; 191; 188; 189; 178; 179; 176; 177; 182; 183; 180; 181; 138; 139; 136;
  137; 142; 143; 140; 141; 130; 131; 128; 129; 134; 135; 132; 154; 155; 152; 153; 158; 159;
  156; 157; 146; 147; 144; 145; 150; 151; 148; 149; 234; 232; 233; 238; 239; 236; 237; 226;
  227; 224; 225; 230; 231; 228; 229; 250; 248; 254; 255; 252; 253; 242; 243; 240; 241; 246;
  247; 244; 245; 203; 201; 207; 205; 194; 195; 192; 193; 198; 199; 196; 197; 218; 219; 216;
  217; 222; 223; 220; 221; 210; 210; 211; 211; 208; 208; 209; 209; 214; 214; 215; 215; 212;
  212; 213; 213].

Definition alaw_to_ulaw_table : list Z := [
  42; 43; 40; 41; 46; 47; 44; 45; 34; 35; 32; 33; 38; 39; 36; 37; 57; 58; 55; 56; 61; 62;
  59; 60; 49; 50; 47; 48; 53; 54; 51; 52; 10; 11; 8; 9; 14; 15; 12; 13; 2; 3; 0; 1; 6; 7;
  4; 5; 26; 27; 24; 25; 30; 31; 28; 29; 18; 19; 16; 17; 22; 23; 20; 21; 98; 99; 96; 97;
  102; 103; 100; 101; 93; 93; 92; 92; 95; 95; 94; 94; 116; 118; 112; 114; 124; 126; 120;
  122; 106; 107; 104; 105; 110; 111; 108; 109; 72; 73; 70; 71; 76; 77; 74; 75; 64; 65; 63;
  63; 68; 69; 66; 67; 86; 87; 84; 85; 90; 91; 88; 89; 79; 79; 78; 78; 82; 83; 80; 81; 170;
  171; 168; 169; 174; 175; 172; 173; 162; 163; 160; 161; 166; 167; 164; 165; 185; 186; 183;
  184; 189; 190; 187; 188; 177; 178; 175; 176; 181; 182; 179; 180; 138; 139; 136; 137; 142;
  143; 140; 141; 130; 131; 128; 129; 134; 135; 132; 133; 154; 155; 152; 153; 158; 159; 156;
  157; 146; 147; 144; 145; 150; 151; 148; 149; 226; 227; 224; 225; 230; 231; 228; 229; 221;
  221; 220; 220; 223; 223; 222; 222; 244; 246; 240; 242; 252; 254; 248; 250; 234; 235; 232;
  233; 238; 239; 236; 237; 200; 201; 198; 199; 204; 205; 202; 203; 192; 193; 191; 191; 196;
  197; 194; 195; 214; 215; 212; 213; 218; 219; 216; 217; 207; 207; 206; 206; 210; 211; 208;
  209].

Definition alaw_to_ulaw {R : Type} (alaw : Z) : flow R Z := rd alaw_to_ulaw_table alaw.
Definition ulaw_to_alaw {R : Type} (ulaw : Z) : flow R Z := rd ulaw_to_alaw_table ulaw.

(** ** The codec functions *)

(** One iteration of an encoder: the even sample starts a word, the odd one fills
    its upper byte. *)
Definition put_code {R : Type} (n tempVal : Z) (encoded : list Z) : flow R (list Z) :=
  if Z.land n 1 =? 1 then
    let! w := rd encoded (Z.shiftr n 1) in
    wr encoded (Z.shiftr n 1) (s16 (Z.lor w (Z.shiftl tempVal 8)))
  else wr encoded (Z.shiftr n 1) (s16 tempVal).

Definition WebRtcG711_EncodeA (speechIn : list Z) (len : Z) (encoded : list Z)
  : option (Z * list Z) :=
  if len <? 0 then Some (-1, encoded)
  else run_flow (
    let! encoded := for_up (Z.to_nat len) 0 (fun n encoded =>
      let! x := rd speechIn n in put_code n (u16 (linear_to_alaw x)) encoded) encoded in
    Cont (len, encoded)).

Definition WebRtcG711_EncodeU (speechIn : list Z) (len : Z) (encoded : list Z)
  : option (Z * list Z) :=
  if len <? 0 then Some (-1, encoded)
  else run_flow (
    let! encoded := for_up (Z.to_nat len) 0 (fun n encoded =>
      let! x := rd speechIn n in put_code n (u16 (linear_to_ulaw x)) encoded) encoded in
    Cont (len, encoded)).

(** The code of sample [n], as a [uint16_t]. *)
Definition get_code {R : Type} (n : Z) (encoded : list Z) : flow R Z :=
  let! w := rd encoded (Z.shiftr n 1) in
  Cont (u16 (if Z.land n 1 =? 1 then Z.shiftr w 8 else Z.land w 255)).

(** The result, [decoded] and [*speechType]; a negative length touches neither. *)
Definition WebRtcG711_DecodeA (encoded : list Z) (len : Z) (decoded : list Z)
  (speechType : Z) : option (Z * list Z * Z) :=
  if len <? 0 then Some (-1, decoded, speechType)
  else run_flow (
    let! decoded := for_up (Z.to_nat len) 0 (fun n decoded =>
      let! tempVal := get_code n encoded in
      wr decoded n (alaw_to_linear (u8 tempVal))) decoded in
    Cont (len, decoded, 1)).

Definition WebRtcG711_DecodeU (encoded : list Z) (len : Z) (decoded : list Z)
  (speechType : Z) : option (Z * list Z * Z) :=
  if len <? 0 then Some (-1, decoded, speechType)
  else run_flow (
    let! decoded := for_up (Z.to_nat len) 0 (fun n decoded =>
      let! tempVal := get_code n encoded in
      wr decoded n (ulaw_to_linear (u8 tempVal))) decoded in
    Cont (len, decoded, 1)).

Definition WebRtcG711_DurationEst (payload_length_bytes : Z) : Z := payload_length_bytes.

(** ** Linear PCM *)

Definition HIGHEND : Z := 65280.
Definition LOWEND : Z := 255.

Definition swap_encode (x : Z) : Z :=
  s16 (Z.lor (Z.shiftr (u16 x) 8) (Z.land (Z.shiftl (u16 x) 8) 65280)).
Definition swap_decode (x : Z) : Z :=
  s16 (Z.lor (Z.shiftr (u16 x) 8) (Z.shiftl (u16 (Z.land x 255)) 8)).

Definition WebRtcPcm16b_EncodeW16 (speechIn16b : list Z) (len : Z) (speechOut16b : list Z)
  : option (Z * list Z) :=
  run_flow (
    let! out := for_up (Z.to_nat len) 0 (fun i out =>
      let! x := rd speechIn16b i in wr out i (swap_encode x)) speechOut16b in
    Cont (s16 (Z.shiftl len 1), out)).

Definition WebRtcPcm16b_DecodeW16 (speechIn16b : list Z) (len : Z) (speechOut16b : list Z)
  : option (Z * list Z * Z) :=
  let samples := Z.shiftr len 1 in
  run_flow (
    let! out := for_up (Z.to_nat samples) 0 (fun i out =>
      let! x := rd speechIn16b i in wr out i (swap_decode x)) speechOut16b in
    Cont (Z.shiftr len 1, out, 1)).

Definition WebRtcPcm16b_Encode (speech16b : list Z) (len : Z) (speech8b : list Z)
  : option (Z * list Z) :=
  let samples := s16 (len * 2) in
  run_flow (
    let! out := for_up (Z.to_nat len) 0 (fun pos out =>
      let! x := rd speech16b pos in
      let short1 := s16 (Z.land HIGHEND x) in
      let short2 := s16 (Z.land LOWEND x) in
      let short1 := Z.shiftr short1 8 in
      let! out := wr out (pos * 2) (u8 short1) in
      wr out (pos * 2 + 1) (u8 short2)) speech8b in
    Cont (samples, out)).

Definition WebRtcPcm16b_Decode (speech8b : list Z) (len : Z) (speech16b : list Z)
  : option (Z * list Z) :=
  let samples := Z.shiftr len 1 in
  run_flow (
    let! out := for_up (Z.to_nat samples) 0 (fun pos out =>
      let! b0 := rd speech8b (pos * 2) in
      let shortval := s16 b0 in
      let shortval := s16 (Z.land (Z.shiftl shortval 8) HIGHEND) in
      let! b1 := rd speech8b (pos * 2 + 1) in
      let shortval := s16 (Z.lor shortval (Z.land b1 LOWEND)) in
      wr out pos shortval) speech16b in
    Cont (samples, out)).

(** ** The highest bit *)

(** What a mask whose upper [k] of every [2 * k] bits are set keeps of a
    [2 * k]-bit number shifted to a boundary. *)
Lemma narrow_land mask k i c :
  0 < k -> 0 <= i -> 0 <= c < 2 ^ (k + k) ->
  Z.land (Z.shiftr mask i) (Z.ones (k + k)) = Z.shiftl (Z.ones k) k ->
  Z.land (c * 2 ^ i) mask = c / 2 ^ k * 2 ^ k * 2 ^ i.
Proof.
  intros Hk Hi Hc Hm.
  assert (E : Z.land (c * 2 ^ i) mask = Z.land c (Z.shiftr mask i) * 2 ^ i).
  { rewrite <- !Z.shiftl_mul_pow2 by lia. apply Z.bits_inj'. intros n Hn.
    rewrite Z.land_spec, !Z.shiftl_spec, Z.land_spec by lia.
    destruct (Z.ltb_spec n i).
    - by rewrite !Z.testbit_neg_r by lia.
    - rewrite Z.shiftr_spec by lia. do 2 f_equal. lia. }
  rewrite E. f_equal.
  rewrite <- (Z.mod_small c (2 ^ (k + k))) at 1 by done.
  rewrite <- Z.land_ones, <- Z.land_assoc, (Z.land_comm (Z.ones _)), Hm, land_field by lia.
  f_equal. apply Z.mod_small. rewrite Z.pow_add_r in Hc by lia.
  split; [apply Z.div_pos; lia|apply Z.div_lt_upper_bound; lia].
Qed.

(** One step keeps [bits] the part of [x] from bit [i] on. *)
Definition at_bit (x k : Z) (s : Z * Z) : Prop :=
  0 <= s.2 /\ s.1 = x / 2 ^ s.2 * 2 ^ s.2 /\ 1 <= x / 2 ^ s.2 < 2 ^ k.

Lemma narrow_step mask k x s :
  0 < k -> at_bit x (k + k) s ->
  Z.land (Z.shiftr mask s.2) (Z.ones (k + k)) = Z.shiftl (Z.ones k) k ->
  at_bit x k (narrow mask k s) /\ (narrow mask k s = s \/ (narrow mask k s).2 = s.2 + k).
Proof.
  destruct s as [bits i]. unfold at_bit, narrow. cbn [fst snd]. intros Hk (Hi & -> & Hx) Hm.
  assert (E := narrow_land mask k i (x / 2 ^ i) Hk Hi ltac:(lia) Hm).
  unfold none_of. rewrite (Z.land_comm mask), E.
  assert (0 < 2 ^ i) by (apply pow_pos; lia). assert (0 < 2 ^ k) by (apply pow_pos; lia).
  assert (Hq : 0 <= x / 2 ^ i / 2 ^ k) by (apply Z.div_pos; lia).
  destruct (Z.eqb_spec (x / 2 ^ i / 2 ^ k * 2 ^ k * 2 ^ i) 0) as [Hz|Hz]; cbn [fst snd].
  - split; [|by left]. split; [done|]. split; [done|]. split; [lia|].
    assert (x / 2 ^ i / 2 ^ k = 0) by nia. apply Z.div_small_iff in H1; lia.
  - split; [|by right]. rewrite Z.pow_add_r, <- Z.div_div by lia.
    split; [lia|]. split; [ring|]. split; [nia|].
    apply Z.div_lt_upper_bound; [done|]. rewrite <- Z.pow_add_r by lia. apply Hx.
Qed.

Ltac narrow_next k x :=
  match goal with
  | |- context [narrow ?m k ?s] =>
      let H := fresh "H" in let Hor := fresh "Hor" in
      assert (H := narrow_step m k x s); destruct H as [H Hor];
      [lia|assumption| |
       let s' := fresh "s" in set (s' := narrow m k s) in *; clearbody s']
  end.

Lemma top_bit_log2 x : 0 < x < 2 ^ 32 -> top_bit x = Z.log2 x.
Proof.
  intros Hx. unfold top_bit. destruct (Z.eqb_spec x 0); [lia|].
  assert (H0 : at_bit x (16 + 16) (x, 0)).
  { split; [done|]. cbn [fst snd]. change (2 ^ 0) with 1. rewrite Z.div_1_r.
    change (16 + 16) with 32. lia. }
  narrow_next 16 x; [reflexivity|].
  assert (Hs : s.2 = 0 \/ s.2 = 16) by (destruct Hor as [-> | ->]; simpl; lia).
  narrow_next 8 x; [destruct Hs as [E|E]; rewrite E; reflexivity|].
  assert (Hs0 : exists a, s0.2 = 8 * a /\ 0 <= a < 4).
  { destruct Hor0 as [-> | ->], Hs as [-> | ->];
      [exists 0|exists 2|exists 1|exists 3]; lia. }
  clear Hs Hor Hor0. destruct Hs0 as (a & Ha & Hr).
  narrow_next 4 x; [rewrite Ha; assert (a = 0 \/ a = 1 \/ a = 2 \/ a = 3) as Hc by lia;
                    by destruct Hc as [-> | [-> | [-> | ->]]]|].
  assert (Hs1 : exists b, s1.2 = 4 * b /\ 0 <= b < 8)
    by (destruct Hor as [-> | ->]; [exists (2 * a)|exists (2 * a + 1)]; lia).
  clear Hor Ha Hr. destruct Hs1 as (b & Hb & Hr).
  narrow_next 2 x; [rewrite Hb; assert (Hc : In b [0;1;2;3;4;5;6;7]) by (simpl; lia);
                    simpl in Hc; by repeat destruct Hc as [<-|Hc]|].
  assert (Hs2 : exists d, s2.2 = 2 * d /\ 0 <= d < 16)
    by (destruct Hor as [-> | ->]; [exists (2 * b)|exists (2 * b + 1)]; lia).
  clear Hor Hb Hr. destruct Hs2 as (d & Hd & Hr).
  narrow_next 1 x; [rewrite Hd; assert (Hc : In d [0;1;2;3;4;5;6;7;8;9;10;11;12;13;14;15])
                    by (simpl; lia); simpl in Hc; by repeat destruct Hc as [<-|Hc]|].
  match goal with H : at_bit x 1 s3 |- _ => destruct H as (Hs & _ & Hx1) end. symmetry. apply Z.log2_unique; [done|].
  assert (0 < 2 ^ s3.2) by (apply pow_pos; lia). assert (x / 2 ^ s3.2 = 1) as Hq by lia.
  rewrite Z.pow_succ_r by done. pose proof (Z.div_mod x (2 ^ s3.2)).
  pose proof (Z.mod_pos_bound x (2 ^ s3.2)). nia.
Qed.

(** The code's [bottom_bit] gives one more than the position of the lowest bit. *)
Lemma bottom_bit_powers :
  forallb (fun k => bottom_bit (2 ^ k) =? k + 1) (seqZ 0 32) = true.
Proof. vm_compute. reflexivity. Qed.

(** ** Quantisation *)

(** The segment number: values below 256 are in segment 0. *)
Lemma segment x :
  0 <= x < 2 ^ 16 ->
  exists s, top_bit (Z.lor x 255) - 7 = s /\ 0 <= s <= 8 /\
            (s = 0 -> x < 256) /\ (0 < s -> 2 ^ (s + 7) <= x) /\ x < 2 ^ (s + 8).
Proof.
  intros Hx. rewrite top_bit_log2.
  - rewrite Z.log2_lor by lia. change (Z.log2 255) with 7. eexists. split; [reflexivity|].
    destruct (Z.lt_ge_cases x 256) as [H|H].
    + assert (Z.log2 x <= 7).
      { destruct (Z.eq_dec x 0) as [->|]; [by vm_compute|]. apply Z.lt_succ_r, Z.log2_lt_pow2; lia. }
      rewrite Z.max_r by lia. cbn. lia.
    + assert (8 <= Z.log2 x) by (apply Z.log2_le_pow2; lia).
      assert (Z.log2 x < 16) by (apply Z.log2_lt_pow2; lia).
      rewrite Z.max_l by lia. destruct (Z.log2_spec x) as [Hl Hu]; [lia|].
      replace (Z.log2 x - 7 + 7) with (Z.log2 x) by lia.
      replace (Z.log2 x - 7 + 8) with (Z.succ (Z.log2 x)) by lia. lia.
  - split.
    + assert (0 <= Z.lor x 255) by (apply Z.lor_nonneg; lia).
      destruct (Z.eq_dec (Z.lor x 255) 0) as [E|]; [|lia]. apply Z.lor_eq_0_iff in E. lia.
    + apply Z.log2_lt_cancel. rewrite Z.log2_lor by lia. change (Z.log2 255) with 7.
      change (Z.log2 (2 ^ 32)) with 32.
      assert (Z.log2 x < 16); [|lia].
      destruct (Z.eq_dec x 0) as [->|]; [by vm_compute|]. apply Z.log2_lt_pow2; lia.
Qed.

Definition bytes : list Z := seqZ 0 256.

Lemma bytes_elem b : 0 <= b < 256 -> b ∈ bytes.
Proof. intros. apply elem_of_seqZ. lia. Qed.

Lemma bytes_check (P : Z -> bool) b : forallb P bytes = true -> 0 <= b < 256 -> P b = true.
Proof. intros H Hb. rewrite forallb_forall in H. apply H, list_elem_of_In, bytes_elem, Hb. Qed.

(** The code of segment [s] with quantisation bits [m], and its value. *)
Definition ucode (s m mask : Z) : Z := u8 (Z.lxor (Z.lor (Z.shiftl s 4) m) mask).

Definition pairs : list (Z * Z) := flat_map (fun s => (fun m => (s, m)) <$> seqZ 0 16) (seqZ 0 8).

Lemma pairs_check (P : Z -> Z -> bool) s m :
  forallb (fun p => P p.1 p.2) pairs = true -> 0 <= s < 8 -> 0 <= m < 16 -> P s m = true.
Proof.
  intros H Hs Hm. rewrite forallb_forall in H. apply (H (s, m)).
  apply in_flat_map. exists s. split; [apply list_elem_of_In, elem_of_seqZ; lia|].
  apply list_elem_of_In, list_elem_of_fmap. exists m. split; [done|]. apply elem_of_seqZ. lia.
Qed.

Lemma ulaw_codes s m :
  0 <= s < 8 -> 0 <= m < 16 ->
  ulaw_to_linear (ucode s m 255) = (8 * m + 132) * 2 ^ s - 132 /\
  ulaw_to_linear (ucode s m 127) = 132 - (8 * m + 132) * 2 ^ s.
Proof.
  intros Hs Hm. assert (H := pairs_check (fun s m =>
    (ulaw_to_linear (ucode s m 255) =? (8 * m + 132) * 2 ^ s - 132) &&
    (ulaw_to_linear (ucode s m 127) =? 132 - (8 * m + 132) * 2 ^ s)) s m).
  specialize (H ltac:(vm_compute; reflexivity) Hs Hm). apply andb_true_iff in H as [H1 H2].
  apply Z.eqb_eq in H1, H2. done.
Qed.

Lemma alaw_codes s m :
  0 <= s < 8 -> 0 <= m < 16 ->
  alaw_to_linear (ucode s m 213) =
    (if s =? 0 then 16 * m + 8 else (16 * m + 264) * 2 ^ (s - 1)) /\
  alaw_to_linear (ucode s m 85) = - (if s =? 0 then 16 * m + 8 else (16 * m + 264) * 2 ^ (s - 1)).
Proof.
  intros Hs Hm. assert (H := pairs_check (fun s m =>
    (alaw_to_linear (ucode s m 213) =?
      (if s =? 0 then 16 * m + 8 else (16 * m + 264) * 2 ^ (s - 1))) &&
    (alaw_to_linear (ucode s m 85) =?
      - (if s =? 0 then 16 * m + 8 else (16 * m + 264) * 2 ^ (s - 1)))) s m).
  specialize (H ltac:(vm_compute; reflexivity) Hs Hm). apply andb_true_iff in H as [H1 H2].
  apply Z.eqb_eq in H1, H2. done.
Qed.

Lemma nibble x k : 0 <= k -> Z.land (Z.shiftr x k) 15 = (x / 2 ^ k) mod 16.
Proof. intros. rewrite Z.shiftr_div_pow2 by lia. by rewrite (Z.land_ones _ 4). Qed.

(** The quantisation bits of a value in the upper half of [32 * d]. *)
Lemma upper_nibble x d :
  0 < d -> 16 * d <= x < 32 * d -> 0 <= (x / d) mod 16 < 16 /\
  d * ((x / d) mod 16) + 16 * d <= x < d * ((x / d) mod 16) + 17 * d.
Proof.
  intros Hd Hx. assert (H : 16 <= x / d < 32)
    by (split; [apply Z.div_le_lower_bound|apply Z.div_lt_upper_bound]; lia).
  replace ((x / d) mod 16) with (x / d - 16) by zdm.
  pose proof (Z.div_mod x d ltac:(lia)). pose proof (Z.mod_pos_bound x d Hd). lia.
Qed.

(** The value of the code that a biased magnitude [x] gets in mu-law. *)
Lemma ulaw_level x s (m := Z.land (Z.shiftr x (s + 3)) 15) :
  132 <= x -> 0 <= s -> (0 < s -> 2 ^ (s + 7) <= x) -> x < 2 ^ (s + 8) ->
  0 <= m < 16 /\
  - 2 ^ (s + 2) <= x - (8 * m + 132) * 2 ^ s < 2 ^ (s + 2) /\ 32 * 2 ^ (s + 2) <= x.
Proof.
  intros Hx Hs Hlo Hhi. subst m. rewrite nibble by lia.
  assert (Hp : 0 < 2 ^ s) by (apply pow_pos; lia).
  assert (H0 : 2 ^ (s + 7) <= x).
  { destruct (Z.eq_dec s 0) as [->|]; [change (2 ^ (0 + 7)) with 128; lia|apply Hlo; lia]. }
  rewrite !Z.pow_add_r in * by lia.
  change (2 ^ 2) with 4. change (2 ^ 3) with 8. change (2 ^ 7) with 128 in *.
  change (2 ^ 8) with 256 in *.
  destruct (upper_nibble x (2 ^ s * 8)) as [Hm Hr]; [lia|lia|]. split; [done|]. split; nia.
Qed.

(** The value of the code that a magnitude [x] gets in A-law. *)
Lemma alaw_level x s (m := Z.land (Z.shiftr x (if s =? 0 then 4 else s + 3)) 15) :
  0 <= x -> 0 <= s -> (0 < s -> 2 ^ (s + 7) <= x) -> x < 2 ^ (s + 8) ->
  let y := if s =? 0 then 16 * m + 8 else (16 * m + 264) * 2 ^ (s - 1) in
  0 <= m < 16 /\
  if s =? 0 then -8 <= x - y < 8 else - 2 ^ (s + 2) <= x - y < 2 ^ (s + 2) /\ 32 * 2 ^ (s + 2) <= x.
Proof.
  intros Hx Hs Hlo Hhi. subst m. cbn zeta. destruct (Z.eqb_spec s 0) as [->|Hs0].
  - rewrite nibble by lia. change (2 ^ 4) with 16. change (2 ^ (0 + 8)) with 256 in Hhi. zdm.
  - rewrite nibble by lia. assert (Hp : 0 < 2 ^ (s - 1)) by (apply pow_pos; lia).
    specialize (Hlo ltac:(lia)).
    replace (s + 2) with (s - 1 + 3) by lia. replace (s + 3) with (s - 1 + 4) by lia.
    replace (s + 7) with (s - 1 + 8) in Hlo by lia. replace (s + 8) with (s - 1 + 9) in Hhi by lia.
    rewrite !Z.pow_add_r in * by lia. change (2 ^ 3) with 8. change (2 ^ 4) with 16.
    change (2 ^ 8) with 256 in *. change (2 ^ 9) with 512 in *.
    destruct (upper_nibble x (2 ^ (s - 1) * 16)) as [Hm Hr]; [lia|lia|]. split; [done|]. split; nia.
Qed.

Lemma ulaw_error x :
  is_s16 x -> 32 * Z.abs (ulaw_to_linear (linear_to_ulaw x) - x) <= Z.abs x + 132.
Proof.
  intros Hx. unfold linear_to_ulaw, ULAW_BIAS, is_s16 in *.
  set (M := if x <? 0 then 132 - x - 1 else 132 + x).
  set (mask := if x <? 0 then 127 else 255).
  assert (E : (if x <? 0 then (132 - x - 1, 127) else (132 + x, 255)) = (M, mask))
    by (subst M mask; by destruct (x <? 0)).
  rewrite E. assert (HM : 132 <= M < 32900) by (subst M; zcase; lia).
  destruct (segment M) as (s & -> & Hs & _ & Hlo & Hhi); [lia|].
  destruct (Z.leb_spec 8 s).
  - assert (s = 8) as -> by lia. specialize (Hlo ltac:(lia)). change (2 ^ (8 + 7)) with 32768 in Hlo.
    subst M mask. destruct (Z.ltb_spec x 0).
    + change (ulaw_to_linear (u8 (Z.lxor 127 127))) with (-32124). lia.
    + change (ulaw_to_linear (u8 (Z.lxor 127 255))) with 32124. lia.
  - destruct (ulaw_level M s) as (Hm & He & Hb); [lia|lia|done|done|].
    set (m := Z.land (Z.shiftr M (s + 3)) 15) in *. fold (ucode s m mask).
    destruct (ulaw_codes s m) as [Hp Hn]; [lia|lia|].
    subst mask M. destruct (Z.ltb_spec x 0); rewrite ?Hp, ?Hn; lia.
Qed.

Lemma alaw_error x :
  is_s16 x -> 32 * Z.abs (alaw_to_linear (linear_to_alaw x) - x) <= Z.max 256 (Z.abs x).
Proof.
  intros Hx. unfold linear_to_alaw, is_s16 in *.
  change (Z.lor ALAW_AMI_MASK 128) with 213. change ALAW_AMI_MASK with 85.
  set (M := if 0 <=? x then x else - x - 1).
  set (mask := if 0 <=? x then 213 else 85).
  assert (E : (if 0 <=? x then (x, 213) else (- x - 1, 85)) = (M, mask))
    by (subst M mask; by destruct (0 <=? x)).
  rewrite E. assert (HM : 0 <= M < 32768) by (subst M; zcase; lia).
  destruct (segment M) as (s & -> & Hs & _ & Hlo & Hhi); [lia|].
  destruct (Z.leb_spec 8 s).
  { assert (s = 8) as -> by lia. specialize (Hlo ltac:(lia)). change (2 ^ (8 + 7)) with 32768 in Hlo. lia. }
  destruct (alaw_level M s) as (Hm & He); [lia|lia|done|done|].
  set (m := Z.land (Z.shiftr M (if s =? 0 then 4 else s + 3)) 15) in *. fold (ucode s m mask).
  destruct (alaw_codes s m) as [Hp Hn]; [lia|lia|].
  subst mask M. destruct (Z.leb_spec 0 x); rewrite ?Hp, ?Hn; destruct (s =? 0); lia.
Qed.

(** ** The stream of codes *)

(** The code at position [j] of a stream of words. *)
Definition code_at (e : list Z) (j : Z) : Z :=
  if Z.odd j then u8 (Z.shiftr (e !!! Z.to_nat (j / 2)) 8) else u8 (e !!! Z.to_nat (j / 2)).

Lemma land_1_odd n : 0 <= n -> (Z.land n 1 =? 1) = Z.odd n.
Proof.
  intros. change (Z.land n 1) with (Z.land n (Z.ones 1)). rewrite Z.land_ones by lia.
  change (2 ^ 1) with 2.
  rewrite Zmod_odd. by destruct (Z.odd n).
Qed.

Lemma shiftr_1_half n : Z.shiftr n 1 = n / 2.
Proof. by rewrite Z.shiftr_div_pow2 by lia. Qed.

Lemma word_bytes c0 c1 (w := s16 (Z.lor c0 (Z.shiftl c1 8))) :
  0 <= c0 < 256 -> 0 <= c1 < 256 -> u8 w = c0 /\ u8 (Z.shiftr w 8) = c1.
Proof.
  intros H0 H1. subst w.
  rewrite Z.lor_comm, Z.shiftl_mul_pow2, lor_high_low, Z.shiftr_div_pow2 by lia.
  change (2 ^ 8) with 256. cint.
Qed.

(** What the encoder has written after [n] samples: their codes, and an upper byte
    of zero in the word begun by an even sample. *)
Definition codes_written (code : Z -> Z) (speech : list Z) (len : nat) (n : Z) (e : list Z) : Prop :=
  length e = len /\
  (forall j, 0 <= j < n -> code_at e j = code (speech !!! Z.to_nat j)) /\
  (Z.odd n = true -> e !!! Z.to_nat (n / 2) = code (speech !!! Z.to_nat (n - 1))).

Section stream.
Context (code : Z -> Z) (code_byte : forall x, 0 <= code x < 256).
Context (speech encoded : list Z) (len : Z).
Context (Hlen : 0 <= len <= Zlen speech) (Henc : (len + 1) / 2 <= Zlen encoded).

Lemma total_insert_eq (e : list Z) i x : (i < length e)%nat -> <[i := x]> e !!! i = x.
Proof. intros. apply list_lookup_total_insert_eq. done. Qed.
Lemma total_insert_ne (e : list Z) i j x : i <> j -> <[i := x]> e !!! j = e !!! j.
Proof. intros. apply list_lookup_total_insert_ne. done. Qed.

Lemma put_code_step {R} n e :
  0 <= n < len -> codes_written code speech (length encoded) n e ->
  exists e', put_code (R := R) n (u16 (code (speech !!! Z.to_nat n))) e = Cont e' /\
             codes_written code speech (length encoded) (n + 1) e'.
Proof using code_byte Henc.
  intros Hn (Hl & Hc & Ho). unfold put_code. rewrite land_1_odd, shiftr_1_half by lia.
  set (c := code (speech !!! Z.to_nat n)). assert (Hcb : 0 <= c < 256) by apply code_byte.
  rewrite u16_id by (unfold is_u16; lia).
  assert (Hi : 0 <= n / 2 < Zlen e) by (unfold Zlen in *; rewrite Hl; zdm).
  destruct (Z.odd n) eqn:Hodd.
  - rewrite rd_total by done. cbn [flow_bind]. rewrite wr_Cont by done. eexists. split; [reflexivity|].
    rewrite Ho by done. set (c0 := code (speech !!! Z.to_nat (n - 1))).
    destruct (word_bytes c0 c) as [Hw0 Hw1]; [apply code_byte|done|].
    assert (Hn2 : n = 2 * (n / 2) + 1).
    { pose proof (Zmod_odd n) as Hm. rewrite Hodd in Hm. zdm. }
    split; [by rewrite length_insert|]. split.
    + intros j Hj. unfold code_at. destruct (Z.eq_dec (j / 2) (n / 2)) as [E|E].
      * rewrite E, total_insert_eq by (unfold Zlen in Hi; lia).
        destruct (Z.eq_dec j n) as [->|Hne]; [by rewrite Hodd|].
        assert (j = n - 1) as -> by zdm.
        rewrite Z.odd_sub, Hodd. cbn. exact Hw0.
      * rewrite total_insert_ne by (zdm). apply Hc. assert (j <> n) by (intros ->; done). lia.
    + rewrite Z.odd_add, Hodd. done.
  - rewrite wr_Cont by done. eexists. split; [reflexivity|].
    rewrite s16_id by (unfold is_s16; lia).
    assert (Hn2 : n = 2 * (n / 2)).
    { pose proof (Zmod_odd n) as Hm. rewrite Hodd in Hm. zdm. }
    split; [by rewrite length_insert|]. split.
    + intros j Hj. unfold code_at. destruct (Z.eq_dec j n) as [->|Hne].
      * rewrite Hodd, total_insert_eq by (unfold Zlen in Hi; lia). apply u8_id. done.
      * rewrite total_insert_ne by zdm. apply Hc. lia.
    + intros _. replace ((n + 1) / 2) with (n / 2) by zdm.
      rewrite total_insert_eq by (unfold Zlen in Hi; lia). by rewrite Z.add_simpl_r.
Qed.

Lemma encode_loop {R} :
  exists e, for_up (R := R) (Z.to_nat len) 0 (fun n encoded =>
      let! x := rd speech n in put_code n (u16 (code x)) encoded) encoded = Cont e /\
    codes_written code speech (length encoded) len e.
Proof using code_byte Henc Hlen.
  destruct (for_up_inv (R := R) (codes_written code speech (length encoded))
    (fun n encoded => let! x := rd speech n in put_code n (u16 (code x)) encoded)
    (Z.to_nat len) 0 encoded) as (e & He & Hw).
  - split; [done|]. split; [lia|done].
  - intros j e Hj He. rewrite rd_total by lia. cbn [flow_bind]. apply put_code_step; [lia|done].
  - exists e. split; [done|]. by replace len with (0 + Z.of_nat (Z.to_nat len)) by lia.
Qed.

Lemma get_code_at {R} e n :
  0 <= n < len -> (len + 1) / 2 <= Zlen e ->
  exists w, get_code (R := R) n e = Cont w /\ u8 w = code_at e n.
Proof using Type.
  intros Hn He. unfold get_code, code_at. rewrite land_1_odd, shiftr_1_half by lia.
  rewrite rd_total by zdm. cbn [flow_bind]. eexists. split; [reflexivity|].
  change 255 with (Z.ones 8). rewrite Z.land_ones by lia. change (2 ^ 8) with 256.
  destruct (Z.odd n); unfold u8, u16; zdm.
Qed.

Lemma decode_loop {R} (linear : Z -> Z) e decoded :
  codes_written code speech (length encoded) len e -> len <= Zlen decoded ->
  for_up (R := R) (Z.to_nat len) 0 (fun n decoded =>
      let! tempVal := get_code n e in wr decoded n (linear (u8 tempVal))) decoded
  = Cont (((fun x => linear (code x)) <$> ztake len speech) ++ zdrop len decoded).
Proof using Henc Hlen.
  intros (Hl & Hc & _) Hd. rewrite <- fmap_seqZ_ztake by done.
  apply (for_up_store (fun j => linear (code (speech !!! Z.to_nat j)))); [lia|].
  intros j o Hj _. destruct (get_code_at (R := R) e j) as (w & -> & Hw);
    [done|unfold Zlen in *; rewrite Hl; done|].
  cbn [flow_bind]. rewrite Hw. by rewrite Hc by done.
Qed.
End stream.

Lemma linear_to_ulaw_byte x : 0 <= linear_to_ulaw x < 256.
Proof.
  unfold linear_to_ulaw. destruct (if x <? 0 then _ else _) as [l m].
  destruct (8 <=? _); apply u8_range.
Qed.

Lemma linear_to_alaw_byte x : 0 <= linear_to_alaw x < 256.
Proof.
  unfold linear_to_alaw. destruct (if 0 <=? x then _ else _) as [l m].
  destruct (8 <=? _); [destruct (0 <=? l)|]; apply u8_range.
Qed.

(** ** Properties of G.711 *)

(** C40: decoding the stream of an encoded vector stores for each sample the value
    of its code, in both laws; the encoders return the number of samples and put
    the code of sample [j] in byte [j] of the stream; each of the four functions refuses
    a negative length by -1, without effect. *)
Theorem g711_stream_round_trip speech encoded decoded len st :
  0 <= len <= Zlen speech -> (len + 1) / 2 <= Zlen encoded -> len <= Zlen decoded ->
  (exists e, WebRtcG711_EncodeA speech len encoded = Some (len, e) /\
     (forall j, 0 <= j < len -> code_at e j = linear_to_alaw (speech !!! Z.to_nat j)) /\
     WebRtcG711_DecodeA e len decoded st = Some (len,
       ((fun x => alaw_to_linear (linear_to_alaw x)) <$> ztake len speech) ++ zdrop len decoded, 1)) /\
  (exists e, WebRtcG711_EncodeU speech len encoded = Some (len, e) /\
     (forall j, 0 <= j < len -> code_at e j = linear_to_ulaw (speech !!! Z.to_nat j)) /\
     WebRtcG711_DecodeU e len decoded st = Some (len,
       ((fun x => ulaw_to_linear (linear_to_ulaw x)) <$> ztake len speech) ++ zdrop len decoded, 1)) /\
  (forall n, n < 0 -> WebRtcG711_EncodeA speech n encoded = Some (-1, encoded) /\
                      WebRtcG711_EncodeU speech n encoded = Some (-1, encoded) /\
                      WebRtcG711_DecodeA encoded n decoded st = Some (-1, decoded, st) /\
                      WebRtcG711_DecodeU encoded n decoded st = Some (-1, decoded, st)).
Proof.
  intros Hs He Hd.
  unfold WebRtcG711_EncodeA, WebRtcG711_DecodeA, WebRtcG711_EncodeU, WebRtcG711_DecodeU.
  destruct (Z.ltb_spec len 0); [lia|]. split; [|split].
  - destruct (encode_loop (R := Z * list Z) linear_to_alaw linear_to_alaw_byte speech encoded len
      Hs He) as (e & -> & Hw). exists e. split; [done|]. split; [apply Hw|].
    by rewrite (decode_loop _ _ encoded _ Hs He alaw_to_linear e decoded Hw Hd).
  - destruct (encode_loop (R := Z * list Z) linear_to_ulaw linear_to_ulaw_byte speech encoded len
      Hs He) as (e & -> & Hw). exists e. split; [done|]. split; [apply Hw|].
    by rewrite (decode_loop _ _ encoded _ Hs He ulaw_to_linear e decoded Hw Hd).
  - intros n Hn. by destruct (Z.ltb_spec n 0); [|lia].
Qed.

Lemma g711_stream_round_trip_witness :
  exists e, WebRtcG711_EncodeA [1000; -32768; 3] 3 [0; 0] = Some (3, e).
Proof.
  destruct (g711_stream_round_trip [1000; -32768; 3] [0; 0] [0; 0; 0] 3 0
    ltac:(split; vm_compute; congruence) ltac:(vm_compute; congruence)
    ltac:(vm_compute; congruence)) as ((e & He & _) & _).
  exists e. exact He.
Defined.

(** Quantisation: the value of a sample's code is within a thirty-second of the
    sample (of the biased sample in mu-law, of at least 256 in A-law), over the
    whole 16-bit range including the values that mu-law clips. *)
Theorem g711_quantisation x :
  is_s16 x ->
  32 * Z.abs (ulaw_to_linear (linear_to_ulaw x) - x) <= Z.abs x + 132 /\
  32 * Z.abs (alaw_to_linear (linear_to_alaw x) - x) <= Z.max 256 (Z.abs x).
Proof. intros. split; [by apply ulaw_error|by apply alaw_error]. Qed.

Lemma g711_quantisation_witness : 32 * Z.abs (ulaw_to_linear (linear_to_ulaw (-32768)) + 32768) <= 32900.
Proof. apply (g711_quantisation (-32768)). split; vm_compute; congruence. Defined.

(** What the next theorem says of one code, as a computation. *)
Definition code_okb (c : Z) : bool :=
  let u := alaw_to_ulaw_table !!! Z.to_nat c in let a := ulaw_to_alaw_table !!! Z.to_nat c in
  (linear_to_alaw (alaw_to_linear c) =? c) &&
  ((linear_to_ulaw (ulaw_to_linear c) =? (if c =? 127 then 255 else c)) &&
  ((16 * Z.abs (ulaw_to_linear u - alaw_to_linear c) <=? Z.abs (alaw_to_linear c)) &&
  ((alaw_to_ulaw_table !!! Z.to_nat (Z.lxor c 128) =? Z.lxor u 128) &&
  ((16 * Z.abs (alaw_to_linear a - ulaw_to_linear c) <=? Z.abs (ulaw_to_linear c) + 128) &&
  ((ulaw_to_alaw_table !!! Z.to_nat (Z.lxor c 128) =? Z.lxor a 128) &&
   ((0 <=? Z.lxor c 128) && (Z.lxor c 128 <? 256))))))).

Lemma codes_ok : forallb code_okb bytes = true.
Proof. vm_compute. reflexivity. Qed.

(** Every code is the code of its own value, except the negative zero of mu-law,
    which becomes the positive zero; and the transcoding tables keep the sign and
    change the value by at most a sixteenth (of at least 128). *)
Theorem g711_codes c :
  0 <= c < 256 ->
  linear_to_alaw (alaw_to_linear c) = c /\
  linear_to_ulaw (ulaw_to_linear c) = (if c =? 127 then 255 else c) /\
  (exists u, alaw_to_ulaw (R := Z) c = Cont u /\
     16 * Z.abs (ulaw_to_linear u - alaw_to_linear c) <= Z.abs (alaw_to_linear c) /\
     alaw_to_ulaw (R := Z) (Z.lxor c 128) = Cont (Z.lxor u 128)) /\
  (exists a, ulaw_to_alaw (R := Z) c = Cont a /\
     16 * Z.abs (alaw_to_linear a - ulaw_to_linear c) <= Z.abs (ulaw_to_linear c) + 128 /\
     ulaw_to_alaw (R := Z) (Z.lxor c 128) = Cont (Z.lxor a 128)).
Proof.
  intros Hc.
  assert (H := bytes_check code_okb c codes_ok Hc). unfold code_okb in H. cbv zeta in H.
  do 7 (apply andb_true_iff in H as [? H]).
  repeat match goal with
  | E : (_ =? _) = true |- _ => apply Z.eqb_eq in E
  | E : (_ <=? _) = true |- _ => apply Z.leb_le in E
  | E : (_ <? _) = true |- _ => apply Z.ltb_lt in E
  end.
  assert (L1 : Zlen alaw_to_ulaw_table = 256) by reflexivity.
  assert (L2 : Zlen ulaw_to_alaw_table = 256) by reflexivity.
  unfold alaw_to_ulaw, ulaw_to_alaw. rewrite !rd_total by lia.
  split; [done|]. split; [done|]. split.
  - eexists. split; [reflexivity|]. split; [done|]. by f_equal.
  - eexists. split; [reflexivity|]. split; [done|]. by f_equal.
Qed.

Lemma g711_codes_witness : linear_to_alaw (alaw_to_linear 213) = 213.
Proof. apply (g711_codes 213). split; vm_compute; congruence. Defined.

(** ** Linear PCM *)

Lemma swap_encode_val x : swap_encode x = s16 (x mod 256 * 256 + u16 x / 256).
Proof.
  unfold swap_encode. rewrite Z.lor_comm, (land_field _ 8 8) by lia.
  rewrite Z.shiftl_mul_pow2, Z.shiftr_div_pow2 by lia.
  change (2 ^ 8) with 256. rewrite Z.div_mul by lia.
  rewrite (lor_high_low _ _ 8); [|lia|change (2 ^ 8) with 256; cint].
  change (2 ^ 8) with 256. f_equal. cint.
Qed.

Lemma swap_decode_val x : swap_decode x = s16 (x mod 256 * 256 + u16 x / 256).
Proof.
  unfold swap_decode. change 255 with (Z.ones 8). rewrite Z.land_ones by lia.
  rewrite Z.lor_comm, Z.shiftl_mul_pow2, Z.shiftr_div_pow2 by lia.
  rewrite lor_high_low; [|lia|change (2 ^ 8) with 256; cint].
  change (2 ^ 8) with 256. f_equal. cint.
Qed.

Lemma swap_swap x : is_s16 x -> swap_decode (swap_encode x) = x.
Proof. intros. rewrite swap_decode_val, swap_encode_val. cint. Qed.

(** The two bytes of a sample, the high one first. *)
Definition be_bytes (x : Z) : list Z := [u8 (x / 256); u8 x].

Lemma encode_bytes x :
  is_s16 x -> u8 (Z.shiftr (s16 (Z.land HIGHEND x)) 8) = u8 (x / 256) /\
              u8 (s16 (Z.land LOWEND x)) = u8 x.
Proof.
  intros Hx. unfold HIGHEND, LOWEND.
  rewrite Z.land_comm, (land_field _ 8 8), Z.shiftr_div_pow2 by lia.
  rewrite (Z.land_comm 255), (Z.land_ones _ 8) by lia. change (2 ^ 8) with 256.
  split; cint.
Qed.

Lemma decode_bytes x :
  is_s16 x ->
  s16 (Z.lor (s16 (Z.land (Z.shiftl (s16 (u8 (x / 256))) 8) HIGHEND)) (Z.land (u8 x) LOWEND)) = x.
Proof.
  intros Hx. unfold HIGHEND, LOWEND. rewrite (land_field _ 8 8), (Z.land_ones _ 8) by lia.
  rewrite Z.shiftl_mul_pow2 by lia. change (2 ^ 8) with 256. rewrite Z.div_mul by lia.
  rewrite (s16_id (u8 _)) by cint.
  replace (s16 (u8 (x / 256) mod 256 * 256)) with (s8 (x / 256) * 256) by (unfold s8; cint).
  rewrite (lor_high_low _ _ 8) by (change (2 ^ 8) with 256; cint).
  unfold s8. change (2 ^ 8) with 256. cint.
Qed.

Definition be_stream (xs : list Z) : list Z := flat_map be_bytes xs.

Lemma Zlen_be_stream xs : Zlen (be_stream xs) = 2 * Zlen xs.
Proof.
  induction xs as [|x xs IH]; [done|]. unfold be_stream in *. cbn [flat_map be_bytes app].
  rewrite !Zlen_cons, IH. lia.
Qed.

Lemma be_stream_app xs ys : be_stream (xs ++ ys) = be_stream xs ++ be_stream ys.
Proof. apply flat_map_app. Qed.

Lemma two_stores {R} (l : list Z) (a b : Z) (out : list Z) p :
  Zlen l = p -> p + 2 <= Zlen out ->
  (let! o := wr (R := R) (l ++ zdrop p out) p a in wr o (p + 1) b)
  = Cont (l ++ [a; b] ++ zdrop (p + 2) out).
Proof.
  intros Hl Ho. pose proof (Zlen_nonneg l).
  assert (Hd : Zlen (zdrop p out) = Zlen out - p) by (apply Zlen_zdrop; lia).
  rewrite <- (zdrop_zdrop 2 p out) by lia.
  destruct (zdrop p out) as [|x [|y r]]; rewrite ?Zlen_nil, ?Zlen_cons, ?Zlen_nil in Hd; try lia.
  assert (E0 : Z.to_nat p = length l) by (unfold Zlen in Hl; lia).
  rewrite wr_Cont by (rewrite Zlen_app, !Zlen_cons; pose proof (Zlen_nonneg r); lia).
  cbn [flow_bind].
  rewrite wr_Cont by (rewrite Zlen_insert, Zlen_app, !Zlen_cons; pose proof (Zlen_nonneg r); lia).
  replace (Z.to_nat (p + 1)) with (length l + 1)%nat by lia. rewrite E0.
  rewrite insert_app_r_alt, Nat.sub_diag by lia.
  rewrite insert_app_r_alt by lia. by replace (length l + 1 - length l)%nat with 1%nat by lia.
Qed.

Lemma pcm_encode_loop {R} speech out len :
  0 <= len <= Zlen speech -> 2 * len <= Zlen out -> Forall is_s16 speech ->
  for_up (R := R) (Z.to_nat len) 0 (fun pos out =>
      let! x := rd speech pos in
      let short1 := s16 (Z.land HIGHEND x) in
      let short2 := s16 (Z.land LOWEND x) in
      let short1 := Z.shiftr short1 8 in
      let! out := wr out (pos * 2) (u8 short1) in
      wr out (pos * 2 + 1) (u8 short2)) out
  = Cont (be_stream (ztake len speech) ++ zdrop (2 * len) out).
Proof.
  intros Hl Ho Hs.
  match goal with |- for_up _ _ ?body _ = _ =>
    destruct (for_up_inv (fun j o => o = be_stream (ztake j speech) ++ zdrop (2 * j) out)
      body (Z.to_nat len) 0 out) as (o & -> & ->) end.
  - rewrite ztake_0, zdrop_0 by lia. done.
  - intros j o Hj ->. eexists. split; [|reflexivity]. rewrite rd_total by lia. cbn [flow_bind].
    destruct (encode_bytes (speech !!! Z.to_nat j)) as [-> ->].
    { apply Forall_total; [done|]. unfold Zlen in *. lia. }
    replace (j * 2) with (2 * j) by lia.
    rewrite two_stores; [|rewrite Zlen_be_stream, Zlen_ztake by lia; done|lia].
    rewrite ztake_snoc, be_stream_app by lia. rewrite <- app_assoc.
    by replace (2 * (j + 1)) with (2 * j + 2) by lia.
  - by rewrite Z.add_0_l, Z2Nat.id by lia.
Qed.

(** Sample [j] of a big-endian stream. *)
Lemma be_stream_lookup (xs rest : list Z) j :
  0 <= j < Zlen xs ->
  (be_stream xs ++ rest) !!! Z.to_nat (j * 2) = u8 (xs !!! Z.to_nat j / 256) /\
  (be_stream xs ++ rest) !!! Z.to_nat (j * 2 + 1) = u8 (xs !!! Z.to_nat j).
Proof.
  revert j. induction xs as [|x xs IH]; intros j Hj; [unfold Zlen in Hj; simpl in Hj; lia|].
  rewrite Zlen_cons in Hj. destruct (Z.eq_dec j 0) as [->|]; [done|].
  destruct (IH (j - 1) ltac:(lia)) as [H1 H2].
  replace (Z.to_nat (j * 2)) with (S (S (Z.to_nat ((j - 1) * 2)))) by lia.
  replace (Z.to_nat (j * 2 + 1)) with (S (S (Z.to_nat ((j - 1) * 2 + 1)))) by lia.
  replace (Z.to_nat j) with (S (Z.to_nat (j - 1))) by lia. split; [exact H1|exact H2].
Qed.

(** Both linear PCM formats round trip: the byte stream is the samples in
    big-endian order, decoding gives the samples back, and the returned sizes
    are the bytes and the samples as long as twice the length fits in 16 bits. *)
Theorem pcm16b_round_trip speech out8 out16 back len :
  0 <= len <= Zlen speech -> len < 16384 -> Forall is_s16 speech ->
  2 * len <= Zlen out8 -> len <= Zlen out16 -> len <= Zlen back ->
  (exists e, WebRtcPcm16b_Encode speech len out8 = Some (2 * len, e) /\
     e = be_stream (ztake len speech) ++ zdrop (2 * len) out8 /\
     WebRtcPcm16b_Decode e (2 * len) back = Some (len, ztake len speech ++ zdrop len back)) /\
  (exists e, WebRtcPcm16b_EncodeW16 speech len out16 = Some (2 * len, e) /\
     WebRtcPcm16b_DecodeW16 e (2 * len) back
       = Some (len, ztake len speech ++ zdrop len back, 1)).
Proof.
  intros Hl Hl14 Hs H8 H16 Hb.
  assert (Hh : Z.shiftr (2 * len) 1 = len) by (rewrite shiftr_1_half; zdm).
  assert (Hx : forall j, 0 <= j < len -> is_s16 (speech !!! Z.to_nat j)).
  { intros j Hj. apply Forall_total; [done|]. unfold Zlen in *. lia. }
  assert (Hid : (fun j => speech !!! Z.to_nat j) <$> seqZ 0 len = ztake len speech)
    by (transitivity (id <$> ztake len speech);
        [by apply (fmap_seqZ_ztake id)|apply list_fmap_id]).
  assert (Hz : Zlen (ztake len speech) = len) by (by apply Zlen_ztake).
  split.
  - eexists. split; [|split; [reflexivity|]].
    + unfold WebRtcPcm16b_Encode. rewrite pcm_encode_loop by done. cbn [flow_bind run_flow].
      rewrite s16_id by (unfold is_s16; lia). by rewrite Z.mul_comm.
    + unfold WebRtcPcm16b_Decode. rewrite Hh. cbn zeta.
      rewrite (for_up_store (fun j => speech !!! Z.to_nat j));
        [by rewrite Hid|lia|]. intros j o Hj _.
      assert (HL : Zlen (be_stream (ztake len speech) ++ zdrop (2 * len) out8) = Zlen out8)
        by (rewrite Zlen_app, Zlen_be_stream, Hz, Zlen_zdrop by lia; lia).
      destruct (be_stream_lookup (ztake len speech) (zdrop (2 * len) out8) j ltac:(lia)) as [E1 E2].
      rewrite !rd_total by lia. cbn [flow_bind]. rewrite E1, E2.
      replace (ztake len speech !!! Z.to_nat j) with (speech !!! Z.to_nat j)
        by (unfold ztake; rewrite lookup_total_take_lt by lia; done).
      by rewrite decode_bytes by auto.
  - eexists. split.
    + unfold WebRtcPcm16b_EncodeW16. rewrite (for_up_map swap_encode) by done.
      cbn [flow_bind run_flow]. rewrite Z.shiftl_mul_pow2, s16_id by (unfold is_s16; lia).
      by rewrite Z.mul_comm.
    + unfold WebRtcPcm16b_DecodeW16. rewrite Hh. cbn zeta.
      rewrite (for_up_map swap_decode); [|rewrite Zlen_app; unfold Zlen at 1;
        rewrite length_fmap; fold (Zlen (ztake len speech)); rewrite Hz;
        pose proof (Zlen_nonneg (zdrop len out16)); lia|done].
      cbn [flow_bind run_flow]. do 4 f_equal.
      rewrite ztake_app_le, ztake_all; [|unfold Zlen; rewrite length_fmap;
        fold (Zlen (ztake len speech)); lia|unfold Zlen; rewrite length_fmap;
        fold (Zlen (ztake len speech)); lia].
      rewrite <- list_fmap_compose. rewrite <- (list_fmap_id (ztake len speech)) at 2.
      apply list_fmap_ext. intros i x Hi. apply swap_swap.
      eapply Forall_lookup_1; [|exact Hi]. by apply Forall_take.
Qed.

Lemma pcm16b_round_trip_witness :
  exists e, WebRtcPcm16b_Encode [-2; 258] 2 [0; 0; 0; 0; 7] = Some (4, e).
Proof.
  destruct (pcm16b_round_trip [-2; 258] [0; 0; 0; 0; 7] [0; 0] [0; 0] 2
    ltac:(split; vm_compute; congruence) ltac:(vm_compute; congruence)
    ltac:(repeat (constructor; [split; vm_compute; congruence|]); constructor)
    ltac:(vm_compute; congruence) ltac:(vm_compute; congruence) ltac:(vm_compute; congruence))
    as ((e & He & _) & _).
  exists e. exact He.
Defined.
