(* ===== verification/VadSp.v ===== *)
(** * Voice activity detection: state, minimum tracking and downsampling

    Models the instance of [vad_core.h] and the two functions of [vad_sp.c] in
    [src/webrtc_backup/common_audio/vad].

    WebRtcVad_FindMinimum works on the 16 entries of a channel through pointers
    into two arrays of all channels.  Its shift of older entries reads one place
    beyond the channel: for the last channel that is beyond the array, and the
    model takes what is found there as a parameter, [None] for C's undefined
    behaviour.  What is read is overwritten at once, so it does not matter. *)
From S2P Require Import Prelude SplInl SplVector.
Local Open Scope Z_scope.

Definition kNumChannels : Z := 6.
Definition kNumGaussians : Z := 2.
Definition kTableSize : Z := kNumChannels * kNumGaussians.
Definition kMinEnergy : Z := 10.

Record State48khzTo8khz : Type := mkState48khzTo8khz {
  S_48_24 : list Z;
  S_24_24 : list Z;
  S_24_16 : list Z;
  S_16_8 : list Z
}.

Record VadInstT : Type := mkVadInstT {
  vad : Z;
  downsampling_filter_states : list Z;
  state_48_to_8 : State48khzTo8khz;
  noise_means : list Z;
  speech_means : list Z;
  noise_stds : list Z;
  speech_stds : list Z;
  frame_counter : Z;
  over_hang : Z;
  num_of_speech : Z;
  index_vector : list Z;
  low_value_vector : list Z;
  mean_value : list Z;
  upper_state : list Z;
  lower_state : list Z;
  hp_filter_state : list Z;
  over_hang_max_1 : list Z;
  over_hang_max_2 : list Z;
  individual : list Z;
  total : list Z;
  init_flag : Z
}.

(** The fields that the minimum tracking writes. *)
Definition set_minimum (s : VadInstT) (iv lv mv : list Z) : VadInstT :=
  mkVadInstT (vad s) (downsampling_filter_states s) (state_48_to_8 s) (noise_means s)
    (speech_means s) (noise_stds s) (speech_stds s) (frame_counter s) (over_hang s)
    (num_of_speech s) iv lv mv (upper_state s) (lower_state s) (hp_filter_state s)
    (over_hang_max_1 s) (over_hang_max_2 s) (individual s) (total s) (init_flag s).

(** ** Minimum tracking *)

Definition kSmoothingDown : Z := 6553.
Definition kSmoothingUp : Z := 32439.

(** [p[j]] for a pointer [p] to the 16 places [w] of a channel; [next] is what
    follows them. *)
Definition rd16 {R : Type} (w : list Z) (next : flow R Z) (j : Z) : flow R Z :=
  if j =? 16 then next else rd w j.

(** [for (j = i; j < 16; j++) { values[j] = values[j + 1]; age[j] = age[j + 1]; }] *)
Definition shift_down {R : Type} (next_v next_a : flow R Z) (i : Z) (s : list Z * list Z)
  : flow R (list Z * list Z) :=
  for_up (Z.to_nat (16 - i)) i (fun j '(values, age) =>
    let! v := rd16 values next_v (j + 1) in
    let! values := wr values j v in
    let! a := rd16 age next_a (j + 1) in
    let! age := wr age j a in
    Cont (values, age)) s.

(** The entries get older, and the oldest are removed. *)
Definition update_ages {R : Type} (next_v next_a : flow R Z) (s : list Z * list Z)
  : flow R (list Z * list Z) :=
  for_up 16 0 (fun i '(values, age) =>
    let! a := rd age i in
    if negb (a =? 100) then
      let! age := wr age i (s16 (a + 1)) in
      Cont (values, age)
    else
      let! (values, age) := shift_down next_v next_a i (values, age) in
      let! age := wr age 15 101 in
      let! values := wr values 15 10000 in
      Cont (values, age)) s.

(** [if (feature_value < smallest_values[i])]. *)
Definition below {R A : Type} (feature_value : Z) (values : list Z) (i : Z)
  (yes no : flow R A) : flow R A :=
  let! v := rd values i in if feature_value <? v then yes else no.

Definition find_position {R : Type} (f : Z) (values : list Z) : flow R Z :=
  let lt := below f values in
  lt 7
    (lt 3
       (lt 1 (lt 0 (Cont 0) (Cont 1)) (lt 2 (Cont 2) (Cont 3)))
       (lt 5 (lt 4 (Cont 4) (Cont 5)) (lt 6 (Cont 6) (Cont 7))))
    (lt 15
       (lt 11
          (lt 9 (lt 8 (Cont 8) (Cont 9)) (lt 10 (Cont 10) (Cont 11)))
          (lt 13 (lt 12 (Cont 12) (Cont 13)) (lt 14 (Cont 14) (Cont 15))))
       (Cont (-1))).

(** [for (i = 15; i > position; i--)], then the new entry. *)
Definition insert_entry {R : Type} (f position : Z) (s : list Z * list Z)
  : flow R (list Z * list Z) :=
  if -1 <? position then
    let! (values, age) := for_up (Z.to_nat (15 - position)) 0 (fun n '(values, age) =>
      let i := 15 - n in
      let! v := rd values (i - 1) in
      let! values := wr values i v in
      let! a := rd age (i - 1) in
      let! age := wr age i a in
      Cont (values, age)) s in
    let! values := wr values position f in
    let! age := wr age position 1 in
    Cont (values, age)
  else Cont s.

Definition current_median {R : Type} (frame_counter : Z) (values : list Z) : flow R Z :=
  if 2 <? frame_counter then rd values 2
  else if 0 <? frame_counter then rd values 0
  else Cont 1600.

Definition smooth (frame_counter median mean : Z) : Z :=
  let alpha := if 0 <? frame_counter
               then if median <? mean then kSmoothingDown else kSmoothingUp
               else 0 in
  let tmp32 := s32 (s16 (alpha + 1) * s16 mean) in
  let tmp32 := s32 (tmp32 + s16 (WEBRTC_SPL_WORD16_MAX - alpha) * s16 median) in
  let tmp32 := s32 (tmp32 + 16384) in
  s16 (Z.shiftr tmp32 15).

(** What the place [offset + 16] of an array holds, [beyond] past its end. *)
Definition next_place {R : Type} (arr : list Z) (offset : Z) (beyond : option Z) : flow R Z :=
  if offset + 16 <? Zlen arr then rd arr (offset + 16)
  else match beyond with Some x => Cont x | None => Stuck end.

(** [beyond] is the element after the end of index_vector and low_value_vector, which the
    code reads for the last channel; with [None] the read has no value. *)
Definition WebRtcVad_FindMinimum {R : Type} (beyond : option Z) (self : VadInstT)
  (feature_value channel : Z) : flow R (Z * VadInstT) :=
  let offset := Z.shiftl channel 4 in
  let! age := blk_get (index_vector self) offset 16 in
  let! values := blk_get (low_value_vector self) offset 16 in
  let! (values, age) :=
    update_ages (next_place (low_value_vector self) offset beyond)
      (next_place (index_vector self) offset beyond) (values, age) in
  let! position := find_position feature_value values in
  let! (values, age) := insert_entry feature_value position (values, age) in
  let! median := current_median (frame_counter self) values in
  let! mean := rd (mean_value self) channel in
  let mean := smooth (frame_counter self) median mean in
  let! iv := blk_put (index_vector self) offset age in
  let! lv := blk_put (low_value_vector self) offset values in
  let! mv := wr (mean_value self) channel mean in
  Cont (mean, set_minimum self iv lv mv).

(** ** Downsampling *)

Definition kAllPassCoefsQ13 : list Z := [5243; 1392].

(** One output sample from two input samples, and the two filter states. *)
Definition downsample_step (x y s1 s2 : Z) : Z * Z * Z :=
  let t1 := s16 (Z.shiftr s1 1
                 + Scaling.WEBRTC_SPL_MUL_16_16_RSFT (kAllPassCoefsQ13 !!! 0%nat) x 14) in
  let s1 := s32 (x - Scaling.WEBRTC_SPL_MUL_16_16_RSFT (kAllPassCoefsQ13 !!! 0%nat) t1 12) in
  let t2 := s16 (Z.shiftr s2 1
                 + Scaling.WEBRTC_SPL_MUL_16_16_RSFT (kAllPassCoefsQ13 !!! 1%nat) y 14) in
  let s2 := s32 (y - Scaling.WEBRTC_SPL_MUL_16_16_RSFT (kAllPassCoefsQ13 !!! 1%nat) t2 12) in
  (s16 (t1 + t2), s1, s2).

(** [signal_out] and the updated [filter_state]; the state pointer is a place in an
    array. *)
Definition WebRtcVad_Downsampling {R : Type} (signal_in signal_out : list Z)
  (filter_state : list Z) (at_ in_length : Z) : flow R (list Z * list Z) :=
  let half_length := Z.shiftr in_length 1 in
  let! s1 := rd filter_state at_ in
  let! s2 := rd filter_state (at_ + 1) in
  let! (out, s1, s2) := for_up (Z.to_nat half_length) 0 (fun n '(out, s1, s2) =>
    let! x := rd signal_in (2 * n) in
    let! y := rd signal_in (2 * n + 1) in
    let '(o, s1, s2) := downsample_step x y s1 s2 in
    let! out := wr out n o in
    Cont (out, s1, s2)) (signal_out, s1, s2) in
  let! filter_state := wr filter_state at_ s1 in
  let! filter_state := wr filter_state (at_ + 1) s2 in
  Cont (out, filter_state).

(** ** The reference: a list of entries

    An entry is a value and its age.  [expire] goes through the entries: one whose
    age is 100 is dropped, and the entry that moves into its place is passed over
    without getting older. *)
Definition empty_entry : Z * Z := (10000, 101).

Fixpoint expire (n : nat) (l : list (Z * Z)) : list (Z * Z) :=
  match n, l with
  | S n, e :: r =>
      if e.2 =? 100 then
        match r ++ [empty_entry] with
        | e' :: l' => e' :: expire n l'
        | [] => []
        end
      else (e.1, s16 (e.2 + 1)) :: expire n r
  | _, _ => l
  end.

(** Insertion behind the entries that are not larger. *)
Fixpoint ins (x : Z * Z) (l : list (Z * Z)) : list (Z * Z) :=
  match l with
  | [] => [x]
  | y :: r => if x.1 <? y.1 then x :: l else y :: ins x r
  end.

(** The values are in order, from [lo] on. *)
Fixpoint sorted_from (lo : Z) (l : list (Z * Z)) : Prop :=
  match l with
  | [] => True
  | e :: r => lo <= e.1 /\ sorted_from e.1 r
  end.

Definition sorted (l : list (Z * Z)) : Prop :=
  match l with [] => True | e :: r => sorted_from e.1 r end.

Definition small (l : list (Z * Z)) : Prop := Forall (fun e => e.1 <= 10000) l.

Lemma sorted_from_weaken lo lo' l : lo <= lo' -> sorted_from lo' l -> sorted_from lo l.
Proof. destruct l; simpl; [done|]. intros ? [? ?]. split; [lia|done]. Qed.

Lemma sorted_from_sorted lo l : sorted_from lo l -> sorted l.
Proof. destruct l; simpl; [done|]. by intros [_ ?]. Qed.

Lemma sorted_from_snoc lo l e :
  lo <= e.1 -> Forall (fun x => x.1 <= e.1) l -> sorted_from lo l -> sorted_from lo (l ++ [e]).
Proof.
  revert lo. induction l as [|x l IH]; intros lo Hlo Hall; simpl; [done|].
  apply Forall_cons in Hall as [Hx Hall]. intros [? ?]. split; [done|]. by apply IH.
Qed.

Lemma expire_length n l : length (expire n l) = length l.
Proof.
  revert l. induction n as [|n IH]; intros l; [done|]. destruct l as [|e r]; [done|]. cbn [expire].
  destruct (e.2 =? 100); [|simpl; by rewrite IH].
  destruct (r ++ [empty_entry]) as [|e' l'] eqn:E; [by destruct r|].
  apply (f_equal length) in E. rewrite length_app in E. simpl in *. rewrite IH. lia.
Qed.

Lemma expire_small n l : small l -> small (expire n l).
Proof.
  revert l. induction n as [|n IH]; intros l Hl; [done|]. destruct l as [|e r]; [done|].
  apply Forall_cons in Hl as [He Hr]. cbn [expire]. destruct (e.2 =? 100).
  - assert (Hs : small (r ++ [empty_entry]))
      by (apply Forall_app; split; [done|]; constructor; [simpl; lia|constructor]).
    destruct (r ++ [empty_entry]); [done|]. apply Forall_cons in Hs as [? ?].
    constructor; [done|]. by apply IH.
  - constructor; [done|]. by apply IH.
Qed.

Lemma expire_sorted_from n l lo :
  lo <= 10000 -> small l -> sorted_from lo l -> sorted_from lo (expire n l).
Proof.
  revert l lo. induction n as [|n IH]; intros l lo Hlo Hsm Hl; [done|].
  destruct l as [|e r]; [done|]. apply Forall_cons in Hsm as [He Hr]. destruct Hl as [Hle Hl].
  cbn [expire]. destruct (e.2 =? 100).
  - assert (Hs : sorted_from lo (r ++ [empty_entry])).
    { apply sorted_from_snoc; [done|done|]. by apply (sorted_from_weaken lo e.1). }
    assert (Hs2 : small (r ++ [empty_entry]))
      by (apply Forall_app; split; [done|]; constructor; [simpl; lia|constructor]).
    destruct (r ++ [empty_entry]) as [|e' l']; [done|]. destruct Hs as [? ?].
    apply Forall_cons in Hs2 as [? ?]. split; [done|]. by apply IH.
  - split; [done|]. simpl. by apply IH.
Qed.

Lemma expire_sorted n l : small l -> sorted l -> sorted (expire n l).
Proof.
  intros Hs Hl. destruct l as [|e r]; [by destruct n|].
  apply (sorted_from_sorted e.1), expire_sorted_from; [by apply Forall_cons in Hs as [? _]|done|].
  split; [done|exact Hl].
Qed.

Lemma ins_sorted_from x l lo : lo <= x.1 -> sorted_from lo l -> sorted_from lo (ins x l).
Proof.
  revert lo. induction l as [|y r IH]; intros lo Hlo; cbn [ins sorted_from]; [done|].
  intros [? ?]. destruct (Z.ltb_spec x.1 y.1); cbn [sorted_from].
  - split; [done|]. split; [lia|done].
  - split; [done|]. by apply IH.
Qed.

Lemma ins_sorted x l : sorted l -> sorted (ins x l).
Proof.
  intros Hl. destruct l as [|y r]; [done|]. cbn [ins].
  destruct (Z.ltb_spec x.1 y.1); cbn [sorted sorted_from]; [split; [lia|done]|].
  by apply ins_sorted_from.
Qed.

Lemma take_sorted_from n l lo : sorted_from lo l -> sorted_from lo (take n l).
Proof.
  revert n lo. induction l as [|y r IH]; intros n lo; destruct n; cbn; try done.
  intros [? ?]. split; [done|]. by apply IH.
Qed.

Lemma take_sorted n l : sorted l -> sorted (take n l).
Proof.
  destruct l as [|y r], n; cbn; try done. apply take_sorted_from.
Qed.

Lemma ins_small x l : x.1 <= 10000 -> small l -> small (ins x l).
Proof.
  intros Hx. induction 1 as [|y r Hy Hr IH]; cbn [ins]; [by constructor|].
  destruct (x.1 <? y.1); repeat constructor; done.
Qed.

(** ** The loops on a channel are the reference *)

Ltac sixteen l :=
  do 16 (let x := fresh "e" in destruct l as [|x l]; [done|]); destruct l; [|done].

Lemma shift_down_spec {R} l nv na i :
  length l = 16%nat -> 0 <= i < 16 ->
  shift_down (R := R) (Cont nv) (Cont na) i (l.*1, l.*2) =
  Cont ((take (Z.to_nat i) l ++ drop (S (Z.to_nat i)) l ++ [(nv, na)]).*1,
        (take (Z.to_nat i) l ++ drop (S (Z.to_nat i)) l ++ [(nv, na)]).*2).
Proof.
  intros Hl Hi. sixteen l.
  assert (Hc : In i [0;1;2;3;4;5;6;7;8;9;10;11;12;13;14;15]) by (simpl; lia).
  simpl in Hc. repeat destruct Hc as [<-|Hc]; [vm_compute; reflexivity..|done].
Qed.

Lemma fst_snoc (l : list (Z * Z)) e : (l ++ [e]).*1 = l.*1 ++ [e.1].
Proof. by rewrite fmap_app. Qed.
Lemma snd_snoc (l : list (Z * Z)) e : (l ++ [e]).*2 = l.*2 ++ [e.2].
Proof. by rewrite fmap_app. Qed.

Lemma update_ages_spec {R} l nv na :
  length l = 16%nat ->
  update_ages (R := R) (Cont nv) (Cont na) (l.*1, l.*2)
  = Cont ((expire 16 l).*1, (expire 16 l).*2).
Proof.
  intros Hl. unfold update_ages. remember (expire 16 l) as ref eqn:Href.
  match goal with |- for_up _ _ ?body _ = _ =>
    destruct (for_up_inv (fun i s => exists pre rest,
      Z.of_nat (length pre) = i /\ (length pre + length rest = 16)%nat /\
      s = ((pre ++ rest).*1, (pre ++ rest).*2) /\
      pre ++ expire (length rest) rest = ref) body 16 0 (l.*1, l.*2))
      as (s & -> & (pre & rest & Hpre & Hlen & -> & <-)) end.
  - exists [], l. rewrite Hl. split; [done|]. split; [done|]. by rewrite Href.
  - clear Href. intros i s Hi (pre & rest & Hpre & Hlen & -> & He).
    destruct rest as [|e r]; [simpl in Hlen; lia|].
    assert (Hi2 : Z.to_nat i = length pre) by lia.
    assert (Ea : (pre ++ e :: r).*2 !! Z.to_nat i = Some e.2).
    { rewrite fmap_app, lookup_app_r by (rewrite length_fmap; lia).
      rewrite length_fmap, Hi2, Nat.sub_diag. done. }
    rewrite (rd_Cont _ _ e.2) by (done || lia). cbn [flow_bind].
    cbn [length expire] in He. destruct (Z.eqb_spec e.2 100) as [E|E]; cbn [negb].
    + rewrite shift_down_spec by (rewrite ?length_app; simpl in *; lia). cbn [flow_bind].
      rewrite Hi2, take_app_length.
      replace (drop (S (length pre)) (pre ++ e :: r)) with r
        by (rewrite drop_app_ge by lia; by replace (S (length pre) - length pre)%nat with 1%nat by lia).
      rewrite app_assoc, !fmap_app. cbn [fmap list_fmap].
      assert (Hl15 : length (pre ++ r) = 15%nat) by (rewrite length_app; simpl in Hlen; lia).
      rewrite wr_Cont by (unfold Zlen; rewrite length_app, <- fmap_app, length_fmap; simpl; lia).
      cbn [flow_bind].
      rewrite wr_Cont by (unfold Zlen; rewrite length_app, <- fmap_app, length_fmap; simpl; lia).
      eexists. split; [reflexivity|].
      rewrite <- !fmap_app, !insert_app_r_alt by (rewrite length_fmap; lia).
      rewrite !length_fmap, Hl15. cbn.
      destruct (r ++ [empty_entry]) as [|e' l'] eqn:Er; [by destruct r|].
      exists (pre ++ [e']), l'.
      assert (Hlr := f_equal length Er). rewrite length_app in Hlr. simpl in Hlr, Hlen.
      rewrite length_app. simpl. split; [lia|]. split; [lia|]. split.
      * rewrite <- app_assoc. cbn [app]. rewrite <- Er, app_assoc.
        exact (f_equal2 pair (eq_sym (fst_snoc (pre ++ r) empty_entry))
                 (eq_sym (snd_snoc (pre ++ r) empty_entry))).
      * rewrite <- app_assoc. simpl. replace (length l') with (length r) by lia. exact He.
    + rewrite wr_Cont by (unfold Zlen; rewrite length_fmap, length_app; simpl; lia).
      eexists. split; [reflexivity|]. exists (pre ++ [(e.1, s16 (e.2 + 1))]), r.
      rewrite length_app. simpl in *. split; [lia|]. split; [lia|]. split.
      * rewrite <- app_assoc. cbn [app].
        rewrite !fmap_app, insert_app_r_alt by (rewrite length_fmap; lia).
        rewrite length_fmap, Hi2, Nat.sub_diag. done.
      * by rewrite <- app_assoc.
  - destruct rest; [|simpl in Hlen; lia]. by rewrite !app_nil_r.
Qed.

(** The place of a value in a sorted channel. *)
Definition place_of (f : Z) (l : list (Z * Z)) (p : Z) : Prop :=
  (p = -1 /\ Forall (fun e => e.1 <= f) l) \/
  (0 <= p < 16 /\ Forall (fun e => e.1 <= f) (take (Z.to_nat p) l) /\
   exists e r, drop (Z.to_nat p) l = e :: r /\ f < e.1).

Lemma find_position_spec {R} f l :
  length l = 16%nat -> sorted l ->
  exists p, find_position (R := R) f l.*1 = Cont p /\ place_of f l p.
Proof.
  intros Hl Hs. sixteen l. cbn [sorted sorted_from] in Hs. destruct_and!.
  unfold find_position, below. cbn [fmap list_fmap].
  repeat match goal with
  | |- context [rd ?v ?i] => 
      let x := eval vm_compute in (v !! Z.to_nat i) in
      match x with Some ?y => rewrite (rd_Cont v i y) by (done || reflexivity) end
  end.
  cbn [flow_bind].
  repeat match goal with
  | |- context [match ?e with (a, _) => a end] => change (match e with (a, _) => a end) with e.1
  end.
  repeat match goal with |- context [f <? ?v] => destruct (Z.ltb_spec f v) end;
    (eexists; split; [reflexivity|]);
    first [ left; split; [reflexivity|]; repeat (constructor; [cbv beta; lia|]); constructor
          | right; split; [lia|]; split;
            [cbn [Z.to_nat Pos.to_nat Pos.iter_op Nat.add take];
             repeat (constructor; [cbv beta; lia|]); constructor
            |eexists _, _; split; [reflexivity|]; lia] ].
Qed.

Lemma ins_place x l p :
  place_of x.1 l p -> p <> -1 ->
  ins x l = take (Z.to_nat p) l ++ x :: drop (Z.to_nat p) l.
Proof.
  intros [[-> _]|(Hp & Hall & e & r & Hd & Hlt)] Hne; [done|]. clear Hp Hne.
  revert l Hall Hd. induction (Z.to_nat p) as [|n IH]; intros l Hall Hd.
  - rewrite drop_0 in Hd. subst l. rewrite take_0, drop_0. cbn [ins app]. by destruct (Z.ltb_spec x.1 e.1); [|lia].
  - destruct l as [|y l]; [done|]. cbn [take drop] in *. apply Forall_cons in Hall as [Hy Hall].
    cbn [ins]. destruct (Z.ltb_spec x.1 y.1); [lia|]. simpl. f_equal. by apply IH.
Qed.

Lemma ins_last x l : Forall (fun e => e.1 <= x.1) l -> ins x l = l ++ [x].
Proof.
  induction 1 as [|y l Hy Hl IH]; cbn [ins]; [done|].
  destruct (Z.ltb_spec x.1 y.1); [lia|]. by rewrite IH.
Qed.

Lemma insert_entry_spec {R} f l p :
  length l = 16%nat -> place_of f l p ->
  insert_entry (R := R) f p (l.*1, l.*2)
  = Cont ((take 16 (ins (f, 1) l)).*1, (take 16 (ins (f, 1) l)).*2).
Proof.
  intros Hl Hp. destruct (Z.eq_dec p (-1)) as [->|Hne].
  - destruct Hp as [[_ Hall]|[? _]]; [|lia]. rewrite ins_last by exact Hall.
    rewrite take_app_le, take_ge by lia. reflexivity.
  - rewrite (ins_place (f, 1) l p) by done.
    destruct Hp as [[? _]|[Hp _]]; [done|]. sixteen l.
    assert (Hc : In p [0;1;2;3;4;5;6;7;8;9;10;11;12;13;14;15]) by (simpl; lia).
    simpl in Hc. repeat destruct Hc as [<-|Hc]; [vm_compute; reflexivity..|done].
Qed.

(** ** A call *)

(** The entries of a channel. *)
Definition entries (s : VadInstT) (c : Z) : list (Z * Z) :=
  zip (ztake 16 (zdrop (16 * c) (low_value_vector s))) (ztake 16 (zdrop (16 * c) (index_vector s))).

Record minimum_ok (s : VadInstT) : Prop := {
  ok_index : Zlen (index_vector s) = 96;
  ok_low : Zlen (low_value_vector s) = 96;
  ok_mean : Zlen (mean_value s) = 6;
  ok_sorted : forall c, 0 <= c < 6 -> sorted (entries s c);
  ok_small : forall c, 0 <= c < 6 -> small (entries s c)
}.

Lemma zip_parts (a b : list Z) : length a = length b -> (zip a b).*1 = a /\ (zip a b).*2 = b.
Proof. intros H. split; [apply fst_zip|apply snd_zip]; lia. Qed.

(** Storing a channel changes its own entries only. *)
Lemma window_put (arr w : list Z) c c' :
  Zlen arr = 96 -> Zlen w = 16 -> 0 <= c < 6 -> 0 <= c' < 6 ->
  ztake 16 (zdrop (16 * c') (ztake (16 * c) arr ++ w ++ zdrop (16 * c + 16) arr)) =
  if c' =? c then w else ztake 16 (zdrop (16 * c') arr).
Proof.
  intros Ha Hw Hc Hc'. assert (H1 : Zlen (ztake (16 * c) arr) = 16 * c) by (apply Zlen_ztake; lia).
  destruct (Z.eqb_spec c' c) as [->|Hne].
  - rewrite zdrop_app_ge, H1, zdrop_0 by lia. rewrite ztake_app_le, ztake_all by lia. done.
  - destruct (Z.lt_ge_cases c' c).
    + rewrite zdrop_app_le by lia. rewrite ztake_app_le by (rewrite Zlen_zdrop; lia).
      rewrite zdrop_ztake by lia. by rewrite ztake_ztake by lia.
    + rewrite zdrop_app_ge, H1 by lia. rewrite zdrop_app_ge, Hw by lia.
      rewrite zdrop_zdrop by lia. do 2 f_equal. lia.
Qed.

Lemma entries_parts s c :
  minimum_ok s -> 0 <= c < 6 ->
  (entries s c).*1 = ztake 16 (zdrop (16 * c) (low_value_vector s)) /\
  (entries s c).*2 = ztake 16 (zdrop (16 * c) (index_vector s)) /\
  length (entries s c) = 16%nat.
Proof.
  intros [Hi Hv _ _ _] Hc.
  assert (L1 : Zlen (ztake 16 (zdrop (16 * c) (low_value_vector s))) = 16)
    by (apply Zlen_ztake; rewrite Zlen_zdrop; lia).
  assert (L2 : Zlen (ztake 16 (zdrop (16 * c) (index_vector s))) = 16)
    by (apply Zlen_ztake; rewrite Zlen_zdrop; lia).
  unfold Zlen in L1, L2. unfold entries.
  split; [apply fst_zip; lia|]. split; [apply snd_zip; lia|]. rewrite length_zip_with. lia.
Qed.

Lemma next_place_Cont {R} arr off x :
  0 <= off -> exists v, next_place (R := R) arr off (Some x) = Cont v.
Proof.
  intros. unfold next_place. destruct (Z.ltb_spec (off + 16) (Zlen arr)); [|by exists x].
  rewrite rd_total by lia. by eexists.
Qed.

Lemma current_median_Cont {R} n (l : list (Z * Z)) :
  length l = 16%nat -> exists m, current_median (R := R) n l.*1 = Cont m.
Proof.
  intros Hl. assert (HL : Zlen l.*1 = 16) by (unfold Zlen; rewrite length_fmap; lia).
  unfold current_median. repeat case_match; rewrite ?rd_total by lia; by eexists.
Qed.

Lemma ins_length x l : length (ins x l) = S (length l).
Proof. induction l as [|y l IH]; cbn [ins]; [done|]. case_match; simpl; [done|]. by rewrite IH. Qed.

(** The new entries of the channel. *)
Definition tracked (f : Z) (l : list (Z * Z)) : list (Z * Z) := take 16 (ins (f, 1) (expire 16 l)).

Lemma tracked_length f l : length l = 16%nat -> length (tracked f l) = 16%nat.
Proof. intros. unfold tracked. rewrite length_take, ins_length, expire_length. lia. Qed.

Lemma tracked_ok f l : f <= 10000 -> sorted l -> small l -> sorted (tracked f l) /\ small (tracked f l).
Proof.
  intros. unfold tracked. split.
  - by apply take_sorted, ins_sorted, expire_sorted.
  - apply Forall_take, ins_small; [done|]. by apply expire_small.
Qed.

(** The three loops together. *)
Lemma tracking_loops {R} l f nv na :
  length l = 16%nat -> sorted l -> small l ->
  (let! (values, age) := update_ages (R := R) (Cont nv) (Cont na) (l.*1, l.*2) in
   let! position := find_position f values in
   insert_entry f position (values, age)) = Cont ((tracked f l).*1, (tracked f l).*2).
Proof.
  intros Hl Hs Hsm. rewrite update_ages_spec by done. cbn [flow_bind].
  assert (He : length (expire 16 l) = 16%nat) by (by rewrite expire_length).
  destruct (find_position_spec (R := R) f (expire 16 l)) as (p & -> & Hp);
    [done|by apply expire_sorted|]. cbn [flow_bind].
  by rewrite insert_entry_spec.
Qed.

Lemma FindMinimum_spec {R} s f c :
  minimum_ok s -> 0 <= c < 6 -> f <= 10000 ->
  let l := tracked f (entries s c) in
  exists median s',
    current_median (R := R) (frame_counter s) l.*1 = Cont median /\
    (forall x, WebRtcVad_FindMinimum (R := R) (Some x) s f c
               = Cont (smooth (frame_counter s) median (mean_value s !!! Z.to_nat c), s')) /\
    entries s' c = l /\
    (forall c', 0 <= c' < 6 -> c' <> c -> entries s' c' = entries s c') /\
    minimum_ok s' /\
    s' = set_minimum s (index_vector s') (low_value_vector s') (mean_value s').
Proof.
  intros Hok Hc Hf l. destruct (entries_parts s c Hok Hc) as (Ev & Ea & Hl).
  destruct Hok as [Hi Hv Hm Hs Hsm].
  destruct (tracked_ok f (entries s c) Hf (Hs c Hc) (Hsm c Hc)) as [Hts Htsm]. fold l in Hts, Htsm.
  assert (Hll : length l = 16%nat) by (by apply tracked_length).
  destruct (current_median_Cont (R := R) (frame_counter s) l Hll) as (median & Hmed).
  set (mean := smooth (frame_counter s) median (mean_value s !!! Z.to_nat c)).
  set (iv := ztake (16 * c) (index_vector s) ++ l.*2 ++ zdrop (16 * c + 16) (index_vector s)).
  set (lv := ztake (16 * c) (low_value_vector s) ++ l.*1
             ++ zdrop (16 * c + 16) (low_value_vector s)).
  assert (L2 : Zlen l.*2 = 16) by (unfold Zlen; rewrite length_fmap; lia).
  assert (L1 : Zlen l.*1 = 16) by (unfold Zlen; rewrite length_fmap; lia).
  exists median, (set_minimum s iv lv (<[Z.to_nat c := mean]> (mean_value s))).
  split; [exact Hmed|]. split.
  { intros x. unfold WebRtcVad_FindMinimum. rewrite Z.shiftl_mul_pow2 by lia.
    change (2 ^ 4) with 16. rewrite (Z.mul_comm c 16).
    rewrite !blk_get_Cont by lia. cbn [flow_bind]. rewrite <- Ev, <- Ea.
    destruct (next_place_Cont (R := R) (low_value_vector s) (16 * c) x) as (nv & ->); [lia|].
    destruct (next_place_Cont (R := R) (index_vector s) (16 * c) x) as (na & ->); [lia|].
    assert (Ht := tracking_loops (R := R) (entries s c) f nv na Hl (Hs c Hc) (Hsm c Hc)).
    destruct (update_ages (Cont nv) (Cont na) ((entries s c).*1, (entries s c).*2))
      as [[values age]| |]; [|discriminate|discriminate]. cbn [flow_bind] in *.
    destruct (find_position f values) as [p| |]; [|discriminate|discriminate].
    cbn [flow_bind] in *. rewrite Ht. cbn [flow_bind]. fold l. rewrite Hmed. cbn [flow_bind].
    rewrite rd_total by lia. cbn [flow_bind]. fold mean.
    rewrite !blk_put_Cont by lia. cbn [flow_bind]. rewrite wr_Cont by lia. cbn [flow_bind].
    rewrite L1, L2. reflexivity. }
  assert (Hiv : Zlen iv = 96).
  { unfold iv. rewrite !Zlen_app, Zlen_ztake, Zlen_zdrop by lia. lia. }
  assert (Hlv : Zlen lv = 96).
  { unfold lv. rewrite !Zlen_app, Zlen_ztake, Zlen_zdrop by lia. lia. }
  assert (Hent : forall c', 0 <= c' < 6 ->
    entries (set_minimum s iv lv (<[Z.to_nat c := mean]> (mean_value s))) c'
    = if c' =? c then l else entries s c').
  { intros c' Hc'. unfold entries. cbn [low_value_vector index_vector set_minimum].
    unfold iv, lv. rewrite !window_put by lia. destruct (c' =? c); [|done]. apply zip_fst_snd. }
  split; [by rewrite Hent, Z.eqb_refl|]. split.
  { intros c' Hc' Hne. rewrite Hent by done. by destruct (Z.eqb_spec c' c). }
  split; [|reflexivity].
  split; [done|done|by cbn; rewrite Zlen_insert| |].
  - intros c' Hc'. rewrite Hent by done. destruct (c' =? c); [done|by apply Hs].
  - intros c' Hc'. rewrite Hent by done. destruct (c' =? c); [done|by apply Hsm].
Qed.

(** The minimum tracking of a channel, on a state whose channels are sorted: the
    entries become the first 16 of the aged entries with the feature inserted
    in order, the other channels stay, all channels stay sorted, the result is
    the smoothed median, and what lies beyond the array plays no part. *)
Theorem FindMinimum_entries {R} s f c :
  minimum_ok s -> 0 <= c < 6 -> f <= 10000 ->
  let l := tracked f (entries s c) in
  exists median s',
    current_median (R := R) (frame_counter s) l.*1 = Cont median /\
    (forall x, WebRtcVad_FindMinimum (R := R) (Some x) s f c
               = Cont (smooth (frame_counter s) median (mean_value s !!! Z.to_nat c), s')) /\
    entries s' c = l /\
    (forall c', 0 <= c' < 6 -> c' <> c -> entries s' c' = entries s c') /\
    minimum_ok s' /\
    s' = set_minimum s (index_vector s') (low_value_vector s') (mean_value s').
Proof. apply FindMinimum_spec. Qed.


(** An instance whose channels hold the initial entries. *)
Definition initial_minimum : VadInstT :=
  mkVadInstT 1 [] (mkState48khzTo8khz [] [] [] []) [] [] [] [] 0 0 0 (replicate 96 0)
    (replicate 96 10000) (replicate 6 1600) [] [] [] [] [] [] [] 0.

Lemma initial_minimum_ok s :
  index_vector s = replicate 96 0 -> low_value_vector s = replicate 96 10000 ->
  Zlen (mean_value s) = 6 -> minimum_ok s.
Proof.
  intros Hi Hl Hm.
  assert (He : forall c, 0 <= c < 6 -> entries s c = replicate 16 (10000, 0)).
  { intros c Hc. unfold entries. rewrite Hi, Hl.
    assert (In c [0;1;2;3;4;5]) as Hin by (simpl; lia).
    simpl in Hin. repeat destruct Hin as [<-|Hin]; [vm_compute; reflexivity..|done]. }
  split; [by rewrite Hi|by rewrite Hl|done| |].
  - intros c Hc. rewrite He by done. vm_compute. repeat split; congruence.
  - intros c Hc. rewrite He by done. repeat (constructor; [cbn; lia|]). constructor.
Qed.

Lemma FindMinimum_entries_witness :
  exists m s', WebRtcVad_FindMinimum (R := Z) (Some 0) initial_minimum 500 5 = Cont (m, s').
Proof.
  destruct (FindMinimum_entries (R := Z) initial_minimum 500 5
    ltac:(apply initial_minimum_ok; reflexivity) ltac:(split; vm_compute; congruence)
    ltac:(vm_compute; congruence)) as (md & s' & _ & H & _).
  eexists _, s'. exact (H 0).
Defined.

(** The smoothed minimum lies between the old mean and the new median, for all
    16-bit values: no product, sum or conversion wraps. *)
Theorem smooth_between n median mean :
  is_s16 median -> is_s16 mean ->
  Z.min median mean <= smooth n median mean <= Z.max median mean.
Proof.
  intros Hmed Hmean. unfold smooth. set (alpha := if 0 <? n then _ else 0).
  assert (Ha : 0 <= alpha <= 32439)
    by (subst alpha; unfold kSmoothingDown, kSmoothingUp; repeat case_match; lia).
  clearbody alpha. unfold WEBRTC_SPL_WORD16_MAX. cbn zeta.
  rewrite (s16_id (alpha + 1)), (s16_id (32767 - alpha)), (s16_id mean), (s16_id median)
    by (unfold is_s16 in *; lia).
  set (lo := Z.min median mean). set (hi := Z.max median mean).
  assert (H1 : lo * (alpha + 1) <= (alpha + 1) * mean <= hi * (alpha + 1)) by (subst lo hi; nia).
  assert (H2 : lo * (32767 - alpha) <= (32767 - alpha) * median <= hi * (32767 - alpha))
    by (subst lo hi; nia).
  assert (Hlo : -32768 <= lo) by (unfold is_s16 in *; lia).
  assert (Hhi : hi < 32768) by (unfold is_s16 in *; lia).
  assert (Hlh : lo <= hi) by lia. clearbody lo hi.
  rewrite (s32_id ((alpha + 1) * mean)) by (unfold is_s32; nia).
  rewrite (s32_id (_ + _ * median)) by (unfold is_s32; nia).
  rewrite s32_id, Z.shiftr_div_pow2 by (unfold is_s32; nia). change (2 ^ 15) with 32768.
  assert (Hq : lo <= ((alpha + 1) * mean + (32767 - alpha) * median + 16384) / 32768 <= hi).
  { split; [apply Z.div_le_lower_bound; lia|apply Z.lt_succ_r, Z.div_lt_upper_bound; lia]. }
  rewrite s16_id by (unfold is_s16; lia). exact Hq.
Qed.

Lemma smooth_between_witness : 300 <= smooth 5 300 1600 <= 1600.
Proof. apply (smooth_between 5 300 1600); split; vm_compute; congruence. Defined.

(** ** The place beyond the array *)

(** [n] frames with the same feature on one channel, with C's undefined read. *)
Fixpoint frames {R : Type} (n : nat) (s : VadInstT) (f c : Z) : flow R VadInstT :=
  match n with
  | O => Cont s
  | S n => let! (_, s) := WebRtcVad_FindMinimum None s f c in frames n s f c
  end.

(** From the initial entries a constant feature on the last channel runs for 100
    frames; in the next frame the first entries reach the age limit, and their
    removal reads the element after the end of both arrays. *)
Theorem FindMinimum_overread :
  (exists s, frames (R := Z) 100 initial_minimum 500 5 = Cont s) /\
  frames (R := Z) 101 initial_minimum 500 5 = Stuck /\
  (exists s, frames (R := Z) 101 initial_minimum 500 4 = Cont s).
Proof.
  split; [|split].
  - eexists. vm_compute. reflexivity.
  - vm_compute. reflexivity.
  - eexists. vm_compute. reflexivity.
Qed.

(** What lies beyond the arrays is read, but only to be overwritten: [alike] reads give
    the same result. *)
Definition alike {R : Type} (m m' : flow R Z) : Prop :=
  match m, m' with Cont _, Cont _ | Stuck, Stuck => True | _, _ => False end.

Lemma for_up_snoc {R St} (body : Z -> St -> flow R St) n i s :
  for_up (S n) i body s = let! s := for_up n i body s in body (i + Z.of_nat n) s.
Proof.
  revert i s. induction n as [|n IH]; intros i s.
  - cbn [for_up flow_bind]. rewrite Z.add_0_r. by destruct (body i s).
  - change (for_up (S (S n)) i body s) with (let! s := body i s in for_up (S n) (i + 1) body s).
    change (for_up (S n) i body s) with (let! s := body i s in for_up n (i + 1) body s).
    rewrite flow_bind_assoc. apply flow_bind_ext. intros s'. rewrite IH.
    apply flow_bind_ext. intros s''. f_equal. lia.
Qed.

(** The last entries are the reads' and then the empty entry. *)
Lemma last_places {R} (nv na nv' na' : flow R Z) (values age : list Z) :
  alike nv nv' -> alike na na' ->
  (let! v := nv in let! values := wr values 15 v in
   let! a := na in let! age := wr age 15 a in
   let! age := wr age 15 101 in let! values := wr values 15 10000 in Cont (values, age))
  = (let! v := nv' in let! values := wr values 15 v in
     let! a := na' in let! age := wr age 15 a in
     let! age := wr age 15 101 in let! values := wr values 15 10000 in Cont (R := R) (values, age)).
Proof.
  destruct nv as [v| |], nv' as [v'| |]; try done. destruct na as [a| |], na' as [a'| |]; intros _ ?; try done.
  - unfold wr. destruct (_ && _) eqn:E1; [|done]. cbn [flow_bind]. destruct (_ && (15 <? Z.of_nat (length age))) eqn:E2; [|done].
    cbn [flow_bind]. rewrite !length_insert, E1, E2. cbn [flow_bind]. by rewrite !list_insert_insert_eq.
  - unfold wr. by destruct (_ && _).
Qed.

Lemma shift_down_alike {R} (nv na nv' na' : flow R Z) i s :
  0 <= i < 16 -> alike nv nv' -> alike na na' ->
  (let! (values, age) := shift_down nv na i s in
   let! age := wr age 15 101 in let! values := wr values 15 10000 in Cont (values, age))
  = (let! (values, age) := shift_down nv' na' i s in
     let! age := wr age 15 101 in let! values := wr values 15 10000 in Cont (R := R) (values, age)).
Proof.
  intros Hi Hv Ha. unfold shift_down. replace (Z.to_nat (16 - i)) with (S (Z.to_nat (15 - i))) by lia.
  rewrite !for_up_snoc, !flow_bind_assoc. rewrite Z2Nat.id by lia. replace (i + (15 - i)) with 15 by lia.
  rewrite (for_up_ext _ (fun j '(values, age) =>
    let! v := rd16 values nv' (j + 1) in let! values := wr values j v in
    let! a := rd16 age na' (j + 1) in let! age := wr age j a in Cont (values, age))).
  - apply flow_bind_ext. intros [values age]. unfold rd16. cbn [Z.add Z.eqb Pos.add Pos.eqb Pos.succ].
    assert (K := last_places nv na nv' na' values age Hv Ha).
    rewrite !flow_bind_assoc. etrans; [etrans; [|exact K]|]; apply flow_bind_ext; intros ?;
      rewrite !flow_bind_assoc; apply flow_bind_ext; intros ?;
      rewrite !flow_bind_assoc; apply flow_bind_ext; intros ?;
      rewrite !flow_bind_assoc; by apply flow_bind_ext; intros ?.
  - intros j [values age] Hj. unfold rd16. by rewrite (proj2 (Z.eqb_neq (j + 1) 16)) by lia.
Qed.

Lemma update_ages_alike {R} (nv na nv' na' : flow R Z) s :
  alike nv nv' -> alike na na' -> update_ages nv na s = update_ages nv' na' s.
Proof.
  intros Hv Ha. unfold update_ages. apply for_up_ext. intros i [values age] Hi. apply flow_bind_ext. intros a.
  destruct (negb _); [done|]. by apply shift_down_alike.
Qed.

Lemma next_place_alike {R} arr offset x y :
  alike (R := R) (next_place arr offset (Some x)) (next_place arr offset (Some y)).
Proof. unfold next_place, rd. destruct (_ <? Zlen arr); [|done]. destruct (_ <? 0); [done|]. by destruct (arr !! _). Qed.

(** The value beyond the array plays no part, on any instance. *)
Lemma FindMinimum_beyond {R} x y s f c :
  WebRtcVad_FindMinimum (R := R) (Some x) s f c = WebRtcVad_FindMinimum (Some y) s f c.
Proof.
  unfold WebRtcVad_FindMinimum. cbv zeta. apply flow_bind_ext. intros age. apply flow_bind_ext. intros values.
  by rewrite (update_ages_alike _ _ (next_place (low_value_vector s) (Z.shiftl c 4) (Some y))
    (next_place (index_vector s) (Z.shiftl c 4) (Some y))) by apply next_place_alike.
Qed.

(** A run that does not read beyond the arrays gives what every run gives. *)
Definition or_stuck {R A : Type} (m m' : flow R A) : Prop := m = Stuck \/ m = m'.

Lemma or_stuck_bind {R A B} (m m' : flow R A) (k k' : A -> flow R B) :
  or_stuck m m' -> (forall a, or_stuck (k a) (k' a)) -> or_stuck (flow_bind m k) (flow_bind m' k').
Proof. intros [->| ->] H; [by left|]. destruct m' as [a|r|]; [apply H|by right|by left]. Qed.

Lemma or_stuck_for {R St} (body body' : Z -> St -> flow R St) n i s :
  (forall j s, or_stuck (body j s) (body' j s)) -> or_stuck (for_up n i body s) (for_up n i body' s).
Proof.
  intros H. revert i s. induction n as [|n IH]; intros i s; [by right|]. cbn [for_up].
  apply or_stuck_bind; [apply H|]. intros s'. apply IH.
Qed.

Lemma FindMinimum_or_stuck {R} x s f c :
  or_stuck (WebRtcVad_FindMinimum (R := R) None s f c) (WebRtcVad_FindMinimum (Some x) s f c).
Proof.
  assert (Hn : forall arr offset, or_stuck (R := R) (next_place arr offset None) (next_place arr offset (Some x)))
    by (intros arr offset; unfold next_place; destruct (_ <? _); [by right|by left]).
  assert (Hr : forall w (next next' : flow R Z) j, or_stuck next next' -> or_stuck (rd16 w next j) (rd16 w next' j))
    by (intros w next next' j H; unfold rd16; destruct (j =? 16); [done|by right]).
  unfold WebRtcVad_FindMinimum. cbv zeta. apply or_stuck_bind; [by right|]. intros age.
  apply or_stuck_bind; [by right|]. intros values. apply or_stuck_bind; [|by right].
  apply or_stuck_for. intros i [v a]. apply or_stuck_bind; [by right|]. intros a0. destruct (negb _); [by right|].
  apply or_stuck_bind; [|by right]. apply or_stuck_for. intros j [v' a'].
  apply or_stuck_bind; [by apply Hr|]. intros ?. apply or_stuck_bind; [by right|]. intros ?.
  apply or_stuck_bind; [by apply Hr|]. intros ?. by right.
Qed.

(** ** Downsampling *)

Lemma Downsampling_total {R} inp out fs at_ n :
  0 <= n -> n <= Zlen inp -> n / 2 <= Zlen out -> 0 <= at_ -> at_ + 2 <= Zlen fs ->
  exists out' fs', WebRtcVad_Downsampling (R := R) inp out fs at_ n = Cont (out', fs') /\
    Zlen out' = Zlen out /\ Zlen fs' = Zlen fs.
Proof.
  intros Hn Hi Ho Ha Hf. unfold WebRtcVad_Downsampling.
  rewrite !rd_total by lia. cbn [flow_bind]. rewrite Z.shiftr_div_pow2 by lia.
  change (2 ^ 1) with 2.
  match goal with |- context [for_up _ _ ?body ?s0] =>
    destruct (for_up_inv (fun j s => Zlen s.1.1 = Zlen out) body (Z.to_nat (n / 2)) 0 s0)
      as ([[o s1] s2] & -> & Hl) end.
  - done.
  - intros j [[o s1] s2] Hj Hl. cbn [fst] in Hl.
    rewrite !rd_total by zdm. cbn [flow_bind].
    destruct (downsample_step _ _ s1 s2) as [[x s1'] s2']. rewrite wr_Cont by lia.
    cbn [flow_bind]. eexists. split; [reflexivity|]. cbn [fst]. by rewrite Zlen_insert.
  - cbn [fst] in Hl. cbn [flow_bind]. rewrite wr_Cont by lia. cbn [flow_bind].
    rewrite wr_Cont by (rewrite Zlen_insert; lia). cbn [flow_bind].
    eexists _, _. split; [reflexivity|]. split; [done|]. by rewrite !Zlen_insert.
Qed.
