(* ===== verification/SplResample.v ===== *)
(** * Resampling from 48 kHz to 8 kHz

    Models the path of WebRtcSpl_Resample48khzTo8khz: that function and its reset in
    [resample_48khz.c], WebRtcSpl_Resample48khzTo32khz in [resample_fractional.c], and
    the three half-band filters it uses in [resample_by_2_internal.c], of
    [src/webrtc_backup/common_audio/signal_processing].

    The stages share one work area [tmpmem], whose parts overlap; pointers into
    it are offsets.  Filter states are arrays, and an all-pass section works on
    four places of one from a base on. *)
From S2P Require Import Prelude SplInl SplVector VadSp.
Local Open Scope Z_scope.

Definition kResampleAllpass0 : Z * Z * Z := (821, 6110, 12382).
Definition kResampleAllpass1 : Z * Z * Z := (3050, 9368, 15063).
Definition kCoefficients48To32_0 : list Z := [778; -2050; 1087; 23285; 12903; -3783; 441; 222].
Definition kCoefficients48To32_1 : list Z := [222; 441; -3783; 12903; 23285; 1087; -2050; 778].

(** [diff = diff >> 14; if (diff < 0) diff += 1;] *)
Definition truncate14 (diff : Z) : Z :=
  let diff := Z.shiftr diff 14 in if diff <? 0 then diff + 1 else diff.

(** The section on the four values of its state. *)
Definition section (c : Z * Z * Z) (tmp0 s0 s1 s2 s3 : Z) : Z * Z * Z * Z :=
  let '(c0, c1, c2) := c in
  let diff := Z.shiftr (s32 (s32 (tmp0 - s1) + 8192)) 14 in
  let tmp1 := s32 (s0 + s32 (diff * c0)) in
  let diff := truncate14 (s32 (tmp1 - s2)) in
  let tmp0' := s32 (s1 + s32 (diff * c1)) in
  let diff := truncate14 (s32 (tmp0' - s3)) in
  (tmp0, tmp1, tmp0', s32 (s2 + s32 (diff * c2))).

(** The section of a state array from a base on; the result is [state[base + 3]]. *)
Definition allpass {R : Type} (c : Z * Z * Z) (state : list Z) (base tmp0 : Z)
  : flow R (Z * list Z) :=
  let! s0 := rd state base in
  let! s1 := rd state (base + 1) in
  let! s2 := rd state (base + 2) in
  let! s3 := rd state (base + 3) in
  let '(t0, t1, t2, t3) := section c tmp0 s0 s1 s2 s3 in
  let! state := wr state base t0 in
  let! state := wr state (base + 1) t1 in
  let! state := wr state (base + 2) t2 in
  let! state := wr state (base + 3) t3 in
  Cont (t3, state).

(** An [int16_t] sample as the filters take it. *)
Definition widen (x : Z) : Z := s32 (s32 (Z.shiftl x 15) + 16384).

(** ** The half-band filters *)

(** [out] is [mem] from an offset. *)
Definition WebRtcSpl_DownBy2ShortToInt {R : Type} (inp : list Z) (len : Z) (mem : list Z)
  (out : Z) (state : list Z) : flow R (list Z * list Z) :=
  let len := Z.shiftr len 1 in
  let! (mem, state) := for_up (Z.to_nat len) 0 (fun i '(mem, state) =>
    let! x := rd inp (2 * i) in
    let! (s3, state) := allpass kResampleAllpass1 state 0 (widen x) in
    let! mem := wr mem (out + i) (Z.shiftr s3 1) in
    Cont (mem, state)) (mem, state) in
  for_up (Z.to_nat len) 0 (fun i '(mem, state) =>
    let! x := rd inp (2 * i + 1) in
    let! (s7, state) := allpass kResampleAllpass0 state 4 (widen x) in
    let! y := rd mem (out + i) in
    let! mem := wr mem (out + i) (s32 (y + Z.shiftr s7 1)) in
    Cont (mem, state)) (mem, state).

(** [in] and [out] are [mem] from their offsets. *)
Definition WebRtcSpl_LPBy2IntToInt {R : Type} (mem : list Z) (inp len out : Z)
  (state : list Z) : flow R (list Z * list Z) :=
  let len := Z.shiftr len 1 in
  let! tmp0 := rd state 12 in
  let! (mem, state, _) := for_up (Z.to_nat len) 0 (fun i '(mem, state, tmp0) =>
    let! (s3, state) := allpass kResampleAllpass1 state 0 tmp0 in
    let! mem := wr mem (out + 2 * i) (Z.shiftr s3 1) in
    let! tmp0 := rd mem (inp + 1 + 2 * i) in
    Cont (mem, state, tmp0)) (mem, state, tmp0) in
  let! (mem, state) := for_up (Z.to_nat len) 0 (fun i '(mem, state) =>
    let! x := rd mem (inp + 2 * i) in
    let! (s7, state) := allpass kResampleAllpass0 state 4 x in
    let! y := rd mem (out + 2 * i) in
    let! mem := wr mem (out + 2 * i) (Z.shiftr (s32 (y + Z.shiftr s7 1)) 15) in
    Cont (mem, state)) (mem, state) in
  let! (mem, state) := for_up (Z.to_nat len) 0 (fun i '(mem, state) =>
    let! x := rd mem (inp + 2 * i) in
    let! (s11, state) := allpass kResampleAllpass1 state 8 x in
    let! mem := wr mem (out + 1 + 2 * i) (Z.shiftr s11 1) in
    Cont (mem, state)) (mem, state) in
  for_up (Z.to_nat len) 0 (fun i '(mem, state) =>
    let! x := rd mem (inp + 1 + 2 * i) in
    let! (s15, state) := allpass kResampleAllpass0 state 12 x in
    let! y := rd mem (out + 1 + 2 * i) in
    let! mem := wr mem (out + 1 + 2 * i) (Z.shiftr (s32 (y + Z.shiftr s15 1)) 15) in
    Cont (mem, state)) (mem, state).

(** [in] is [mem] from its start; the last loop takes two samples at a time. *)
Definition WebRtcSpl_DownBy2IntToShort {R : Type} (mem : list Z) (len : Z) (out : list Z)
  (out_off : Z) (state : list Z) : flow R (list Z * list Z * list Z) :=
  let len := Z.shiftr len 1 in
  let! (mem, state) := for_up (Z.to_nat len) 0 (fun i '(mem, state) =>
    let! x := rd mem (2 * i) in
    let! (s3, state) := allpass kResampleAllpass1 state 0 x in
    let! mem := wr mem (2 * i) (Z.shiftr s3 1) in
    Cont (mem, state)) (mem, state) in
  let! (mem, state) := for_up (Z.to_nat len) 0 (fun i '(mem, state) =>
    let! x := rd mem (1 + 2 * i) in
    let! (s7, state) := allpass kResampleAllpass0 state 4 x in
    let! mem := wr mem (1 + 2 * i) (Z.shiftr s7 1) in
    Cont (mem, state)) (mem, state) in
  let! out := for_up (Z.to_nat ((len + 1) / 2)) 0 (fun h out =>
    let i := 2 * h in
    let! a := rd mem (2 * i) in
    let! b := rd mem (2 * i + 1) in
    let! c := rd mem (2 * i + 2) in
    let! d := rd mem (2 * i + 3) in
    let! out := wr out (out_off + i) (WebRtcSpl_SatW32ToW16 (Z.shiftr (s32 (a + b)) 15)) in
    wr out (out_off + i + 1) (WebRtcSpl_SatW32ToW16 (Z.shiftr (s32 (c + d)) 15))) out in
  Cont (mem, out, state).

(** ** The fractional stage *)

(** [1 << 14] plus the eight products, each sum wrapped. *)
Definition taps {R : Type} (coefs : list Z) (mem : list Z) (inp : Z) : flow R Z :=
  for_up 8 0 (fun k tmp =>
    let! c := rd coefs k in
    let! x := rd mem (inp + k) in
    Cont (s32 (tmp + s32 (c * x)))) 16384.

Definition WebRtcSpl_Resample48khzTo32khz {R : Type} (mem : list Z) (inp out K : Z)
  : flow R (list Z) :=
  for_up (Z.to_nat K) 0 (fun m mem =>
    let! t := taps kCoefficients48To32_0 mem (inp + 3 * m) in
    let! mem := wr mem (out + 2 * m) t in
    let! t := taps kCoefficients48To32_1 mem (inp + 3 * m + 1) in
    wr mem (out + 2 * m + 1) t) mem.

(** ** The resampler *)

(** [in] and [out] are arrays from an offset; [tmpmem] is returned too. *)
Definition WebRtcSpl_Resample48khzTo8khz {R : Type} (inp out : list Z) (out_off : Z)
  (state : State48khzTo8khz) (tmpmem : list Z)
  : flow R (list Z * State48khzTo8khz * list Z) :=
  let! (tmpmem, st1) := WebRtcSpl_DownBy2ShortToInt inp 480 tmpmem 256 (S_48_24 state) in
  let! (tmpmem, st2) := WebRtcSpl_LPBy2IntToInt tmpmem 256 240 16 (S_24_24 state) in
  let! old := blk_get (S_24_16 state) 0 8 in
  let! tmpmem := blk_put tmpmem 8 old in
  let! new := blk_get tmpmem 248 8 in
  let! st3 := blk_put (S_24_16 state) 0 new in
  let! tmpmem := WebRtcSpl_Resample48khzTo32khz tmpmem 8 0 80 in
  let! (tmpmem, out, st4) := WebRtcSpl_DownBy2IntToShort tmpmem 160 out out_off (S_16_8 state) in
  Cont (out, mkState48khzTo8khz st1 st2 st3 st4, tmpmem).

Definition WebRtcSpl_ResetResample48khzTo8khz : State48khzTo8khz :=
  mkState48khzTo8khz (replicate 8 0) (replicate 16 0) (replicate 8 0) (replicate 8 0).

(** ** Every access is inside its array *)

Lemma gives_allpass {R} c state base tmp0 :
  0 <= base -> base + 4 <= Zlen state ->
  gives (R := R) (allpass c state base tmp0) (fun r => Zlen r.2 = Zlen state).
Proof.
  intros. unfold allpass. do 4 gread.
  destruct (section c tmp0 _ _ _ _) as [[[t0 t1] t2] t3]. do 4 gwrite.
  apply gives_Cont. glen.
Qed.

(** The lengths of a pair of arrays, as an invariant. *)
Definition lens2 (a b : Z) (r : list Z * list Z) : Prop := Zlen r.1 = a /\ Zlen r.2 = b.

Ltac gpass := eapply gives_bind; [apply gives_allpass; glen|intros [? ?] ?].
Ltac gdone := apply gives_Cont; unfold lens2; glen.

Lemma gives_DownBy2ShortToInt {R} inp len mem out state :
  0 <= len -> len <= Zlen inp -> 0 <= out -> out + len / 2 <= Zlen mem -> 8 <= Zlen state ->
  gives (R := R) (WebRtcSpl_DownBy2ShortToInt inp len mem out state)
    (lens2 (Zlen mem) (Zlen state)).
Proof.
  intros Hl Hi Ho Hm Hs. unfold WebRtcSpl_DownBy2ShortToInt.
  rewrite Z.shiftr_div_pow2 by lia. change (2 ^ 1) with 2. cbn zeta.
  assert (Hlen : 0 <= len / 2 /\ 2 * (len / 2) <= len) by zdm.
  generalize dependent (len / 2). intros h Hm Hh. eapply gives_bind.
  { apply (gives_for (lens2 (Zlen mem) (Zlen state))); [done|].
    intros i [m s] Hj [Hm1 Hs1]. cbn [fst snd] in Hm1, Hs1. gread. gpass. gwrite. gdone. }
  intros [m s] [Hm1 Hs1]. cbn [fst snd] in Hm1, Hs1.
  apply (gives_for (lens2 (Zlen mem) (Zlen state))); [done|].
  intros i [m' s'] Hj [Hm2 Hs2]. cbn [fst snd] in Hm2, Hs2. gread. gpass. gread. gwrite. gdone.
Qed.

Lemma gives_LPBy2IntToInt {R} mem inp len out state :
  0 <= len -> 0 <= inp -> inp + len <= Zlen mem -> 0 <= out -> out + len <= Zlen mem ->
  16 <= Zlen state ->
  gives (R := R) (WebRtcSpl_LPBy2IntToInt mem inp len out state) (lens2 (Zlen mem) (Zlen state)).
Proof.
  intros Hl Hi Him Ho Hom Hs. unfold WebRtcSpl_LPBy2IntToInt.
  rewrite Z.shiftr_div_pow2 by lia. change (2 ^ 1) with 2. cbn zeta.
  assert (Hlen : 0 <= len / 2 /\ 2 * (len / 2) <= len) by zdm.
  generalize dependent (len / 2). intros h Hh. gread. eapply gives_bind.
  { apply (gives_for (fun r => lens2 (Zlen mem) (Zlen state) r.1)); [done|].
    intros i [[m s] t] Hj [Hm1 Hs1]. cbn [fst snd] in Hm1, Hs1. gpass. gwrite. gread. gdone. }
  intros [[m s] t] [Hm1 Hs1]. cbn [fst snd] in Hm1, Hs1. eapply gives_bind.
  { apply (gives_for (lens2 (Zlen mem) (Zlen state))); [done|].
    intros i [m' s'] Hj [Hm2 Hs2]. cbn [fst snd] in Hm2, Hs2. gread. gpass. gread. gwrite. gdone. }
  clear Hm1 Hs1 m s. intros [m s] [Hm1 Hs1]. cbn [fst snd] in Hm1, Hs1. eapply gives_bind.
  { apply (gives_for (lens2 (Zlen mem) (Zlen state))); [done|].
    intros i [m' s'] Hj [Hm2 Hs2]. cbn [fst snd] in Hm2, Hs2. gread. gpass. gwrite. gdone. }
  clear Hm1 Hs1 m s. intros [m s] [Hm1 Hs1]. cbn [fst snd] in Hm1, Hs1.
  apply (gives_for (lens2 (Zlen mem) (Zlen state))); [done|].
  intros i [m' s'] Hj [Hm2 Hs2]. cbn [fst snd] in Hm2, Hs2. gread. gpass. gread. gwrite. gdone.
Qed.

Lemma gives_DownBy2IntToShort {R} mem len out off state :
  0 <= len -> len mod 4 = 0 -> len <= Zlen mem -> 0 <= off -> off + len / 2 <= Zlen out ->
  8 <= Zlen state ->
  gives (R := R) (WebRtcSpl_DownBy2IntToShort mem len out off state)
    (fun r => Zlen r.1.1 = Zlen mem /\ Zlen r.1.2 = Zlen out /\ Zlen r.2 = Zlen state).
Proof.
  intros Hl H4 Hm Ho Hout Hs. unfold WebRtcSpl_DownBy2IntToShort.
  rewrite Z.shiftr_div_pow2 by lia. change (2 ^ 1) with 2. cbn zeta.
  assert (Hq : exists q, len = 4 * q) by (exists (len / 4); zdm). destruct Hq as (q & ->).
  replace (4 * q / 2) with (2 * q) in * by zdm. replace ((2 * q + 1) / 2) with q by zdm.
  eapply gives_bind.
  { apply (gives_for (lens2 (Zlen mem) (Zlen state))); [done|].
    intros i [m' s'] Hj [Hm2 Hs2]. cbn [fst snd] in Hm2, Hs2. gread. gpass. gwrite. gdone. }
  intros [m s] [Hm1 Hs1]. cbn [fst snd] in Hm1, Hs1. eapply gives_bind.
  { apply (gives_for (lens2 (Zlen mem) (Zlen state))); [done|].
    intros i [m' s'] Hj [Hm2 Hs2]. cbn [fst snd] in Hm2, Hs2. gread. gpass. gwrite. gdone. }
  clear Hm1 Hs1 m s. intros [m s] [Hm1 Hs1]. cbn [fst snd] in Hm1, Hs1. eapply gives_bind.
  { apply (gives_for (fun o => Zlen o = Zlen out)); [done|].
    intros h o Hj Hlo. do 4 gread. gwrite. eapply gives_weaken; [apply gives_wr; glen|]. glen. }
  intros o Hlo. apply gives_Cont. glen.
Qed.

Lemma gives_taps {R} coefs mem inp :
  Zlen coefs = 8 -> 0 <= inp -> inp + 8 <= Zlen mem ->
  gives (R := R) (taps coefs mem inp) (fun _ => True).
Proof.
  intros. unfold taps. apply (gives_for (fun _ => True)); [done|]. intros j t Hj _.
  do 2 gread. by apply gives_Cont.
Qed.

Lemma gives_Resample48khzTo32khz {R} mem inp out K :
  0 <= K -> 0 <= inp -> inp + 3 * K + 6 <= Zlen mem -> 0 <= out -> out + 2 * K <= Zlen mem ->
  gives (R := R) (WebRtcSpl_Resample48khzTo32khz mem inp out K) (fun m => Zlen m = Zlen mem).
Proof.
  intros. unfold WebRtcSpl_Resample48khzTo32khz.
  apply (gives_for (fun m => Zlen m = Zlen mem)); [done|]. intros j m Hj Hm.
  eapply gives_bind; [apply gives_taps; [reflexivity|glen|glen]|intros t _]. gwrite.
  eapply gives_bind; [apply gives_taps; [reflexivity|glen|glen]|intros t' _].
  eapply gives_weaken; [apply gives_wr; glen|]. glen.
Qed.

(** The sizes of the filter states. *)
Definition state_48_ok (s : State48khzTo8khz) : Prop :=
  Zlen (S_48_24 s) = 8 /\ Zlen (S_24_24 s) = 16 /\ Zlen (S_24_16 s) = 8 /\ Zlen (S_16_8 s) = 8.

Lemma gives_Resample48khzTo8khz {R} inp out off state tmpmem :
  480 <= Zlen inp -> 0 <= off -> off + 80 <= Zlen out -> state_48_ok state -> Zlen tmpmem = 736 ->
  gives (R := R) (WebRtcSpl_Resample48khzTo8khz inp out off state tmpmem)
    (fun r => Zlen r.1.1 = Zlen out /\ state_48_ok r.1.2 /\ Zlen r.2 = 736).
Proof.
  intros Hi Ho Hout (H1 & H2 & H3 & H4) Ht. unfold WebRtcSpl_Resample48khzTo8khz.
  eapply gives_bind; [apply gives_DownBy2ShortToInt; [lia|lia|lia|change (480 / 2) with 240; lia|lia]|].
  intros [t1 st1] [L1 L2]. cbn [fst snd] in L1, L2.
  eapply gives_bind; [apply gives_LPBy2IntToInt; lia|].
  intros [t2 st2] [L3 L4]. cbn [fst snd] in L3, L4.
  rewrite blk_get_Cont by lia. cbn [flow_bind].
  assert (Lo : Zlen (ztake 8 (zdrop 0 (S_24_16 state))) = 8)
    by (rewrite zdrop_0 by lia; apply Zlen_ztake; lia).
  rewrite blk_put_Cont by lia. cbn [flow_bind]. rewrite Lo.
  set (t3 := ztake 8 t2 ++ ztake 8 (zdrop 0 (S_24_16 state)) ++ zdrop (8 + 8) t2).
  assert (L5 : Zlen t3 = 736) by (unfold t3; rewrite !Zlen_app, Lo, Zlen_ztake, Zlen_zdrop; lia).
  rewrite blk_get_Cont by lia. cbn [flow_bind].
  assert (Ln : Zlen (ztake 8 (zdrop 248 t3)) = 8) by (apply Zlen_ztake; rewrite Zlen_zdrop; lia).
  rewrite blk_put_Cont by lia. cbn [flow_bind]. rewrite Ln.
  eapply gives_bind; [apply gives_Resample48khzTo32khz; lia|]. cbv beta. intros t4 L6.
  eapply gives_bind;
    [apply gives_DownBy2IntToShort; [lia|reflexivity|lia|lia|change (160 / 2) with 80; lia|lia]|].
  intros [[t5 o] st4] (L7 & L8 & L9). cbn [fst snd] in L7, L8, L9. apply gives_Cont.
  cbn [fst snd]. split; [done|]. split; [|lia].
  unfold state_48_ok. cbn [S_48_24 S_24_24 S_24_16 S_16_8]. split; [lia|]. split; [lia|].
  split; [|lia]. rewrite !Zlen_app, Ln, Zlen_ztake, Zlen_zdrop by lia. lia.
Qed.

(** The result depends on the first 480 samples only. *)
Lemma Resample48khzTo8khz_prefix {R} inp inp' out off state tmpmem :
  480 <= Zlen inp -> 480 <= Zlen inp' -> ztake 480 inp = ztake 480 inp' ->
  WebRtcSpl_Resample48khzTo8khz (R := R) inp out off state tmpmem =
  WebRtcSpl_Resample48khzTo8khz inp' out off state tmpmem.
Proof.
  intros H H' E. unfold WebRtcSpl_Resample48khzTo8khz.
  assert (Er : forall j, 0 <= j < 480 -> rd (R := R) inp j = rd inp' j).
  { intros j Hj. rewrite !rd_total by lia. f_equal.
    assert (Ej := f_equal (fun l => l !!! Z.to_nat j) E). unfold ztake in Ej. cbn beta in Ej.
    by rewrite !lookup_total_take_lt in Ej by lia. }
  assert (Ed : WebRtcSpl_DownBy2ShortToInt (R := R) inp 480 tmpmem 256 (S_48_24 state)
             = WebRtcSpl_DownBy2ShortToInt inp' 480 tmpmem 256 (S_48_24 state)).
  { unfold WebRtcSpl_DownBy2ShortToInt. change (Z.to_nat (Z.shiftr 480 1)) with 240%nat.
    cbn zeta. erewrite for_up_ext.
    - apply flow_bind_ext. intros [m s]. apply for_up_ext. intros j [m' s'] Hj. rewrite Er by lia.
      reflexivity.
    - intros j [m s] Hj. cbn beta iota. rewrite Er by lia. reflexivity. }
  by rewrite Ed.
Qed.
