(* ===== verification/VadBands.v ===== *)
(** * Voice activity detection: band energies and Gaussian probabilities

    Models [vad_filterbank.c] and [vad_gmm.c] of [src/webrtc_backup/common_audio/vad].
    The temporary arrays of WebRtcVad_CalculateFeatures start with arbitrary
    contents in C; here they start with zeros, and every element read was
    written before. *)
From S2P Require Import Prelude SplInl SplVector SplCorrelation VadSp.
Local Open Scope Z_scope.

Abbreviation MUL_16_16 a b := (s16 a * s16 b).
Abbreviation MUL_RSFT := Scaling.WEBRTC_SPL_MUL_16_16_RSFT.

(** ** Filters *)

Definition kLogConst : Z := 24660.
Definition kLogEnergyIntPart : Z := 14336.
Definition kHpZeroCoefs : list Z := [6631; -13262; 6631].
Definition kHpPoleCoefs : list Z := [16384; -7756; 5620].
Definition kAllPassCoefsQ15 : list Z := [20972; 5571].
Definition kOffsetVector : list Z := [368; 368; 272; 176; 176; 176].

(** One sample: the filter state is the last two inputs and the last two outputs. *)
Definition hp_step (x : Z) (st : Z * Z * Z * Z) : Z * Z * Z * Z :=
  let '(f0, f1, f2, f3) := st in
  let tmp32 := MUL_16_16 (kHpZeroCoefs !!! 0%nat) x in
  let tmp32 := s32 (tmp32 + MUL_16_16 (kHpZeroCoefs !!! 1%nat) f0) in
  let tmp32 := s32 (tmp32 + MUL_16_16 (kHpZeroCoefs !!! 2%nat) f1) in
  let tmp32 := s32 (tmp32 - MUL_16_16 (kHpPoleCoefs !!! 1%nat) f2) in
  let tmp32 := s32 (tmp32 - MUL_16_16 (kHpPoleCoefs !!! 2%nat) f3) in
  (x, f0, s16 (Z.shiftr tmp32 14), f2).

(** [data_out] and the updated [filter_state]. *)
Definition HighPassFilter {R : Type} (data_in : list Z) (data_length : Z)
  (filter_state data_out : list Z) : flow R (list Z * list Z) :=
  let! f0 := rd filter_state 0 in
  let! f1 := rd filter_state 1 in
  let! f2 := rd filter_state 2 in
  let! f3 := rd filter_state 3 in
  let! (out, st) := for_up (Z.to_nat data_length) 0 (fun i '(out, st) =>
    let! x := rd data_in i in
    let st := hp_step x st in
    let '(_, _, f2, _) := st in
    let! out := wr out i f2 in
    Cont (out, st)) (data_out, (f0, f1, f2, f3)) in
  let '(f0, f1, f2, f3) := st in
  let! fs := wr filter_state 0 f0 in
  let! fs := wr fs 1 f1 in
  let! fs := wr fs 2 f2 in
  let! fs := wr fs 3 f3 in
  Cont (out, fs).

(** [data_in] from an offset, every second sample. *)
Definition AllPassFilter {R : Type} (data_in : list Z) (off data_length filter_coefficient : Z)
  (filter_state : Z) (data_out : list Z) : flow R (list Z * Z) :=
  let state32 := s32 (Z.shiftl filter_state 16) in
  let! (out, state32) := for_up (Z.to_nat data_length) 0 (fun i '(out, state32) =>
    let! x := rd data_in (off + 2 * i) in
    let tmp32 := s32 (state32 + MUL_16_16 filter_coefficient x) in
    let tmp16 := s16 (Z.shiftr tmp32 16) in
    let! out := wr out i tmp16 in
    let state32 := s32 (Z.shiftl x 14) in
    let state32 := s32 (state32 - MUL_16_16 filter_coefficient tmp16) in
    Cont (out, s32 (Z.shiftl state32 1))) (data_out, state32) in
  Cont (out, s16 (Z.shiftr state32 16)).

(** The two filters of a band; [upper_state] and [lower_state] are indexed by the
    band.  Returns the high and the low half and the two state arrays. *)
Definition SplitFilter {R : Type} (data_in : list Z) (data_length band : Z)
  (upper_state lower_state hp_data_out lp_data_out : list Z)
  : flow R (list Z * list Z * list Z * list Z) :=
  let half_length := Z.shiftr data_length 1 in
  let! u := rd upper_state band in
  let! (hp, u) := AllPassFilter data_in 0 half_length (kAllPassCoefsQ15 !!! 0%nat) u hp_data_out in
  let! upper_state := wr upper_state band u in
  let! l := rd lower_state band in
  let! (lp, l) := AllPassFilter data_in 1 half_length (kAllPassCoefsQ15 !!! 1%nat) l lp_data_out in
  let! lower_state := wr lower_state band l in
  let! (hp, lp) := for_up (Z.to_nat half_length) 0 (fun i '(hp, lp) =>
    let! tmp_out := rd hp i in
    let! y := rd lp i in
    let! hp := wr hp i (s16 (tmp_out - y)) in
    let! lp := wr lp i (s16 (y + tmp_out)) in
    Cont (hp, lp)) (hp, lp) in
  Cont (hp, lp, upper_state, lower_state).

(** ** The energy of a band in dB *)

(** The energy normalised to 15 bits and its total number of right shifts. *)
Definition normalise (energy tot_rshifts : Z) : Z * Z :=
  let normalizing_rshifts := 17 - WebRtcSpl_NormU32 energy in
  let tot_rshifts := tot_rshifts + normalizing_rshifts in
  let energy := if normalizing_rshifts <? 0 then u32 (Z.shiftl energy (- normalizing_rshifts))
                else Z.shiftr energy normalizing_rshifts in
  (energy, tot_rshifts).

(** [log_energy] of a normalised energy, before the offset. *)
Definition log_of (energy tot_rshifts : Z) : Z :=
  let log2_energy := s16 (kLogEnergyIntPart + s16 (Z.shiftr (Z.land energy 16383) 4)) in
  let log_energy := s16 (MUL_RSFT kLogConst log2_energy 19 + MUL_RSFT tot_rshifts kLogConst 9) in
  if log_energy <? 0 then 0 else log_energy.

(** [total_energy] and [log_energy]. *)
Definition LogOfEnergy {R : Type} (data_in : list Z) (data_length offset total_energy : Z)
  : flow R (Z * Z) :=
  match WebRtcSpl_Energy data_in data_length with
  | None => Stuck
  | Some (en, tot_rshifts) =>
      let energy := u32 en in
      if negb (energy =? 0) then
        let '(energy, tot_rshifts) := normalise energy tot_rshifts in
        let log_energy := s16 (log_of energy tot_rshifts + offset) in
        let total_energy :=
          if total_energy <=? kMinEnergy then
            if 0 <=? tot_rshifts then s16 (total_energy + (kMinEnergy + 1))
            else s16 (total_energy + s16 (Z.shiftr energy (- tot_rshifts)))
          else total_energy in
        Cont (total_energy, log_energy)
      else Cont (total_energy, offset)
  end.

(** The filter fields of the instance. *)
Definition set_filters (s : VadInstT) (us ls hs : list Z) : VadInstT :=
  mkVadInstT (vad s) (downsampling_filter_states s) (state_48_to_8 s) (noise_means s)
    (speech_means s) (noise_stds s) (speech_stds s) (frame_counter s) (over_hang s)
    (num_of_speech s) (index_vector s) (low_value_vector s) (mean_value s) us ls hs
    (over_hang_max_1 s) (over_hang_max_2 s) (individual s) (total s) (init_flag s).

Definition zeros (n : nat) : list Z := replicate n 0.

(** The total energy, the features and the instance. *)
Definition WebRtcVad_CalculateFeatures {R : Type} (self : VadInstT) (data_in : list Z)
  (data_length : Z) : flow R (Z * list Z * VadInstT) :=
  let half_data_length := Z.shiftr data_length 1 in
  let length := half_data_length in
  let us := upper_state self in
  let ls := lower_state self in
  let! (hp_120, lp_120, us, ls) :=
    SplitFilter data_in data_length 0 us ls (zeros 120) (zeros 120) in
  let! (hp_60, lp_60, us, ls) := SplitFilter hp_120 length 1 us ls (zeros 60) (zeros 60) in
  let length := Z.shiftr length 1 in
  let! (te, feature5) := LogOfEnergy hp_60 length (kOffsetVector !!! 5%nat) 0 in
  let! (te, feature4) := LogOfEnergy lp_60 length (kOffsetVector !!! 4%nat) te in
  let length := half_data_length in
  let! (hp_60, lp_60, us, ls) := SplitFilter lp_120 length 2 us ls hp_60 lp_60 in
  let length := Z.shiftr length 1 in
  let! (te, feature3) := LogOfEnergy hp_60 length (kOffsetVector !!! 3%nat) te in
  let! (hp_120, lp_120, us, ls) := SplitFilter lp_60 length 3 us ls hp_120 lp_120 in
  let length := Z.shiftr length 1 in
  let! (te, feature2) := LogOfEnergy hp_120 length (kOffsetVector !!! 2%nat) te in
  let! (hp_60, lp_60, us, ls) := SplitFilter lp_120 length 4 us ls hp_60 lp_60 in
  let length := Z.shiftr length 1 in
  let! (te, feature1) := LogOfEnergy hp_60 length (kOffsetVector !!! 1%nat) te in
  let! (hp_120, hs) := HighPassFilter lp_60 length (hp_filter_state self) hp_120 in
  let! (te, feature0) := LogOfEnergy hp_120 length (kOffsetVector !!! 0%nat) te in
  Cont (te, [feature0; feature1; feature2; feature3; feature4; feature5],
        set_filters self us ls hs).

(** ** Gaussian probabilities *)

Definition kCompVar : Z := 22005.
Definition kLog2Exp : Z := 5909.

(** [exp_value] for the exponent [tmp32], when that is small enough. *)
Definition exp_of (tmp32 : Z) : Z :=
  let tmp16 := s16 (MUL_RSFT kLog2Exp (s16 tmp32) 12) in
  let tmp16 := s16 (- tmp16) in
  let exp_value := Z.lor 1024 (Z.land tmp16 1023) in
  let tmp16 := s16 (Z.lxor tmp16 65535) in
  let tmp16 := s16 (Z.shiftr tmp16 10) in
  let tmp16 := s16 (tmp16 + 1) in
  s16 (Z.shiftr exp_value tmp16).

(** The probability and [*delta]. *)
Definition WebRtcVad_GaussianProbability (input mean std : Z) : Z * Z :=
  let tmp32 := 131072 + Z.shiftr std 1 in
  let inv_std := s16 (WebRtcSpl_DivW32W16 tmp32 std) in
  let tmp16 := Z.shiftr inv_std 2 in
  let inv_std2 := s16 (MUL_RSFT tmp16 tmp16 2) in
  let tmp16 := s16 (Z.shiftl input 3) in
  let tmp16 := s16 (tmp16 - mean) in
  let delta := s16 (MUL_RSFT inv_std2 tmp16 10) in
  let tmp32 := MUL_RSFT delta tmp16 9 in
  let exp_value := if tmp32 <? kCompVar then exp_of tmp32 else 0 in
  (MUL_16_16 inv_std exp_value, delta).

(** ** Totality and the range of the features *)

Lemma gives_HighPassFilter {R} inp n fs out :
  0 <= n <= Zlen inp -> n <= Zlen out -> 4 <= Zlen fs ->
  gives (R := R) (HighPassFilter inp n fs out) (fun r => Zlen r.1 = Zlen out /\ Zlen r.2 = Zlen fs).
Proof.
  intros Hi Ho Hf. unfold HighPassFilter. do 4 gread. eapply gives_bind.
  { apply (gives_for (fun r => Zlen r.1 = Zlen out)); [done|].
    intros i [o st] Hj Hl. cbn [fst] in Hl. gread. destruct (hp_step _ st) as [[[g0 g1] g2] g3].
    gwrite. apply gives_Cont. glen. }
  intros [o [[[f0 f1] f2] f3]] Hl. cbn [fst] in Hl. do 4 gwrite. apply gives_Cont. glen.
Qed.

Lemma gives_AllPassFilter {R} inp off n c st out :
  0 <= off -> 0 <= n -> off + 2 * n - 1 <= Zlen inp -> n <= Zlen out ->
  gives (R := R) (AllPassFilter inp off n c st out) (fun r => Zlen r.1 = Zlen out).
Proof.
  intros. unfold AllPassFilter. eapply gives_bind.
  { apply (gives_for (fun r => Zlen r.1 = Zlen out)); [done|].
    intros i [o s] Hj Hl. cbn [fst] in Hl. gread. gwrite. apply gives_Cont. glen. }
  intros [o s] Hl. cbn [fst] in Hl. apply gives_Cont. done.
Qed.

(** The four lengths of a split. *)
Definition lens4 (a b c d : Z) (r : list Z * list Z * list Z * list Z) : Prop :=
  Zlen r.1.1.1 = a /\ Zlen r.1.1.2 = b /\ Zlen r.1.2 = c /\ Zlen r.2 = d.

Lemma gives_SplitFilter {R} inp n band us ls hp lp :
  0 <= n -> n <= Zlen inp -> 0 <= band < 5 -> Zlen us = 5 -> Zlen ls = 5 ->
  n / 2 <= Zlen hp -> n / 2 <= Zlen lp ->
  gives (R := R) (SplitFilter inp n band us ls hp lp) (lens4 (Zlen hp) (Zlen lp) 5 5).
Proof.
  intros Hn Hi Hb Hu Hls Hh Hl. unfold SplitFilter.
  rewrite Z.shiftr_div_pow2 by lia. change (2 ^ 1) with 2. cbn zeta.
  assert (Hlen : 0 <= n / 2 /\ 2 * (n / 2) <= n) by zdm.
  generalize dependent (n / 2). intros h Hh Hl Hhn. gread.
  eapply gives_bind; [apply gives_AllPassFilter; lia|]. intros [hp1 u1] Lh. cbn [fst] in Lh.
  gwrite. gread. eapply gives_bind; [apply gives_AllPassFilter; lia|].
  intros [lp1 l1] Ll. cbn [fst] in Ll. gwrite. eapply gives_bind.
  { apply (gives_for (fun r => Zlen r.1 = Zlen hp /\ Zlen r.2 = Zlen lp)); [done|].
    intros i [o1 o2] Hj [La Lb]. cbn [fst snd] in La, Lb. gread. gread. gwrite. gwrite.
    apply gives_Cont. glen. }
  intros [o1 o2] [La Lb]. cbn [fst snd] in La, Lb. apply gives_Cont. unfold lens4. glen.
Qed.

(** Whatever the argument, the counts are those of a search over 32 bits. *)
Lemma NormW32_any a : 0 <= WebRtcSpl_NormW32 a <= 31.
Proof.
  unfold WebRtcSpl_NormW32. destruct (a =? 0); [lia|]. cbn zeta.
  generalize (if a <? 0 then Z.lnot a else a). intros b.
  repeat match goal with |- context [if none_of ?m ?x then _ else _] =>
    lazymatch x with context [if _ then _ else _] => fail | _ => destruct (none_of m x) end end; lia.
Qed.

Lemma NormU32_any a : 0 <= WebRtcSpl_NormU32 a <= 31.
Proof.
  unfold WebRtcSpl_NormU32. destruct (a =? 0); [lia|]. cbn zeta.
  repeat match goal with |- context [if none_of ?m ?x then _ else _] =>
    lazymatch x with context [if _ then _ else _] => fail | _ => destruct (none_of m x) end end; lia.
Qed.

Lemma GetSizeInBits_any a : 0 <= WebRtcSpl_GetSizeInBits a <= 32.
Proof.
  unfold WebRtcSpl_GetSizeInBits. cbn zeta.
  repeat match goal with |- context [if none_of ?m ?x then _ else _] =>
    lazymatch x with context [if _ then _ else _] => fail | _ => destruct (none_of m x) end end; lia.
Qed.

Lemma Energy_total v n :
  0 <= n <= Zlen v -> exists en s, WebRtcSpl_Energy v n = Some (en, s) /\
    0 <= s <= WebRtcSpl_GetSizeInBits (u32 n).
Proof.
  intros Hn. unfold WebRtcSpl_Energy, WebRtcSpl_GetScalingSquare.
  assert (H1 : gives (R := Z * Z) (largest_sabs v n) (fun _ => True)).
  { unfold largest_sabs. apply (gives_for (fun _ => True)); [done|]. intros j m Hj _. gread.
    by apply gives_Cont. }
  destruct H1 as (m & -> & _). cbn [flow_bind].
  assert (Hs : exists s, (if m =? 0 then Cont 0 else Cont (scaling_of (WebRtcSpl_NormW32 (m * m))
      (WebRtcSpl_GetSizeInBits (u32 n)))) = Cont (R := Z * Z) s /\
      0 <= s <= WebRtcSpl_GetSizeInBits (u32 n)).
  { pose proof (NormW32_any (m * m)). pose proof (GetSizeInBits_any (u32 n)).
    destruct (m =? 0); eexists; (split; [reflexivity|]); [lia|].
    unfold scaling_of. zcase; lia. }
  destruct Hs as (s & -> & Hs). cbn [flow_bind].
  match goal with |- context [for_up ?n ?i ?body ?s0] =>
    assert (H2 : gives (for_up n i body s0) (fun _ => True)) end.
  { apply (gives_for (fun _ => True)); [done|]. intros j e Hj _. gread. by apply gives_Cont. }
  destruct H2 as (e & -> & _). eexists _, s. split; [reflexivity|done].
Qed.

(** The logarithm of a normalised energy. *)
Lemma log_of_range energy rs : -64 <= rs <= 23 -> 0 <= log_of energy rs <= 1829.
Proof.
  intros Hr. unfold log_of.
  assert (Hl : 0 <= Z.land energy 16383 < 16384).
  { change 16383 with (Z.ones 14). rewrite Z.land_ones by lia. change 16384 with (2 ^ 14).
    apply Z.mod_pos_bound. lia. }
  rewrite Z.shiftr_div_pow2 by lia. change (2 ^ 4) with 16.
  assert (Hq : 0 <= Z.land energy 16383 / 16 < 1024) by zdm.
  rewrite (s16_id (_ / 16)) by (unfold is_s16; lia). unfold kLogEnergyIntPart.
  rewrite (s16_id (14336 + _)) by (unfold is_s16; lia).
  unfold MUL_RSFT, kLogConst. unfold Scaling.WEBRTC_SPL_MUL_16_16_RSFT.
  rewrite (s16_id 24660), (s16_id rs), (s16_id (14336 + _)) by (unfold is_s16; lia).
  rewrite !Z.shiftr_div_pow2 by lia. change (2 ^ 19) with 524288. change (2 ^ 9) with 512.
  set (q := Z.land energy 16383 / 16) in *. clearbody q.
  rewrite s16_id by (unfold is_s16; zdm). zcase; zdm.
Qed.

Lemma gives_LogOfEnergy {R} v n offset te :
  0 < n <= Zlen v -> n < 64 -> 0 <= offset <= 368 ->
  gives (R := R) (LogOfEnergy v n offset te) (fun r => 0 <= r.2 <= 2197).
Proof.
  intros Hn H64 Ho. unfold LogOfEnergy.
  destruct (Energy_total v n ltac:(lia)) as (en & s & -> & Hs).
  assert (Hbits : WebRtcSpl_GetSizeInBits (u32 n) <= 6).
  { rewrite u32_id by (unfold is_u32; lia).
    apply GetSizeInBits_below; [unfold is_u32; lia|lia|]. change (2 ^ 6) with 64. lia. }
  destruct (u32 en =? 0); cbn [negb]; [apply gives_Cont; simpl; lia|].
  unfold normalise. pose proof (NormU32_any (u32 en)) as Hnu. cbn zeta. cbv iota beta.
  apply gives_Cont. cbn [snd].
  set (e := if 17 - _ <? 0 then _ else _).
  pose proof (log_of_range e (s + (17 - WebRtcSpl_NormU32 (u32 en))) ltac:(lia)).
  rewrite s16_id by (unfold is_s16; lia). lia.
Qed.

(** The sizes of the filter states of the bands. *)
Definition bands_ok (s : VadInstT) : Prop :=
  Zlen (upper_state s) = 5 /\ Zlen (lower_state s) = 5 /\ Zlen (hp_filter_state s) = 4.

Lemma Zlen_zeros n : Zlen (zeros n) = Z.of_nat n.
Proof. unfold Zlen, zeros. by rewrite length_replicate. Qed.

Ltac gsplit :=
  eapply gives_bind;
  [apply gives_SplitFilter; [lia|rewrite ?Zlen_zeros; lia|lia|lia|lia
                            |rewrite ?Zlen_zeros; zdm|rewrite ?Zlen_zeros; zdm]
  |let hp := fresh "hp" in let lp := fresh "lp" in let us := fresh "us" in
   let ls := fresh "ls" in
   intros [[[hp lp] us] ls] (? & ? & ? & ?); cbn [fst snd] in *; rewrite ?Zlen_zeros in *].
Ltac glog :=
  eapply gives_bind;
  [apply gives_LogOfEnergy; [lia|lia|vm_compute; split; congruence]
  |let te := fresh "te" in let f := fresh "f" in intros [te f] ?; cbn [fst snd] in *].

(** What the features of a frame are and what they leave. *)
Definition features_of (s : VadInstT) (r : Z * list Z * VadInstT) : Prop :=
  length r.1.2 = 6%nat /\ Forall (fun f => 0 <= f <= 2197) r.1.2 /\ bands_ok r.2 /\
  r.2 = set_filters s (upper_state r.2) (lower_state r.2) (hp_filter_state r.2).

Lemma gives_CalculateFeatures {R} s audio n :
  bands_ok s -> (n = 80 \/ n = 160 \/ n = 240) -> n <= Zlen audio ->
  gives (R := R) (WebRtcVad_CalculateFeatures s audio n) (features_of s).
Proof.
  intros (Hu & Hl & Hh) Hn Ha. unfold WebRtcVad_CalculateFeatures.
  assert (Hq : exists q, n = 16 * q /\ 5 <= q <= 15)
    by (destruct Hn as [->|[->| ->]]; [exists 5|exists 10|exists 15]; lia).
  clear Hn. destruct Hq as (q & -> & Hq). cbn zeta.
  assert (E8 : Z.shiftr (16 * q) 1 = 8 * q) by (rewrite Z.shiftr_div_pow2 by lia; zdm).
  assert (E4 : Z.shiftr (8 * q) 1 = 4 * q) by (rewrite Z.shiftr_div_pow2 by lia; zdm).
  assert (E2 : Z.shiftr (4 * q) 1 = 2 * q) by (rewrite Z.shiftr_div_pow2 by lia; zdm).
  assert (E1 : Z.shiftr (2 * q) 1 = q) by (rewrite Z.shiftr_div_pow2 by lia; zdm).
  rewrite E8, E4, E2, E1.
  gsplit. gsplit. glog. glog. gsplit. glog. gsplit. glog. gsplit. glog.
  eapply gives_bind; [apply gives_HighPassFilter; lia|].
  intros [out hs] [? ?]. cbn [fst snd] in *. glog.
  apply gives_Cont. split; [done|]. cbn [fst snd].
  split; [repeat (constructor; [lia|]); constructor|]. split; [|done].
  unfold bands_ok. cbn. lia.
Qed.
