(* ===== verification/VadCore.v ===== *)
(** * Voice activity detection: the decision and its state

    Models [vad_core.c] and [webrtc_vad.c] of [src/webrtc_backup/common_audio/vad].  A
    handle is an [option VadInstT]; [beyond] is what WebRtcVad_FindMinimum finds past
    its arrays (see VadSp).  The local arrays of the frame functions start with
    zeros; what is read of them was written before. *)
From S2P Require Import Prelude SplInl SplVector SplCorrelation VadSp SplResample VadBands.
Local Open Scope Z_scope.

(** ** Tables *)

Definition kSpectrumWeight : list Z := [6; 8; 10; 12; 14; 16].
Definition kNoiseUpdateConst : Z := 655.
Definition kSpeechUpdateConst : Z := 6554.
Definition kBackEta : Z := 154.
Definition kMinimumDifference : list Z := [544; 544; 576; 576; 576; 576].
Definition kMaximumSpeech : list Z := [11392; 11392; 11520; 11520; 11520; 11520].
Definition kMinimumMean : list Z := [640; 768].
Definition kMaximumNoise : list Z := [9216; 9088; 8960; 8832; 8704; 8576].
Definition kNoiseDataWeights : list Z := [34; 62; 72; 66; 53; 25; 94; 66; 56; 62; 75; 103].
Definition kSpeechDataWeights : list Z := [48; 82; 45; 87; 50; 47; 80; 46; 83; 41; 78; 81].
Definition kNoiseDataMeans : list Z :=
  [6738; 4892; 7065; 6715; 6771; 3369; 7646; 3863; 7820; 7266; 5020; 4362].
Definition kSpeechDataMeans : list Z :=
  [8306; 10085; 10078; 11823; 11843; 6309; 9473; 9571; 10879; 7581; 8180; 7483].
Definition kNoiseDataStds : list Z :=
  [378; 1064; 493; 582; 688; 593; 474; 697; 475; 688; 421; 455].
Definition kSpeechDataStds : list Z :=
  [555; 505; 567; 524; 585; 1231; 509; 828; 492; 1540; 1079; 850].
Definition kMaxSpeechFrames : Z := 6.
Definition kMinStd : Z := 384.
Definition kDefaultMode : Z := 0.
Definition kInitCheck : Z := 42.

Definition kOverHangMax1Q : list Z := [8; 4; 3].
Definition kOverHangMax2Q : list Z := [14; 7; 5].
Definition kLocalThresholdQ : list Z := [24; 21; 24].
Definition kGlobalThresholdQ : list Z := [57; 48; 57].
Definition kOverHangMax1LBR : list Z := [8; 4; 3].
Definition kOverHangMax2LBR : list Z := [14; 7; 5].
Definition kLocalThresholdLBR : list Z := [37; 32; 37].
Definition kGlobalThresholdLBR : list Z := [100; 80; 100].
Definition kOverHangMax1AGG : list Z := [6; 3; 2].
Definition kOverHangMax2AGG : list Z := [9; 5; 3].
Definition kLocalThresholdAGG : list Z := [82; 78; 82].
Definition kGlobalThresholdAGG : list Z := [285; 260; 285].
Definition kOverHangMax1VAG : list Z := [6; 3; 2].
Definition kOverHangMax2VAG : list Z := [9; 5; 3].
Definition kLocalThresholdVAG : list Z := [94; 94; 94].
Definition kGlobalThresholdVAG : list Z := [1100; 1050; 1100].

(** ** Field updates *)

Definition set_models (s : VadInstT) (nm sm ns ss : list Z) : VadInstT :=
  mkVadInstT (vad s) (downsampling_filter_states s) (state_48_to_8 s) nm sm ns ss
    (frame_counter s) (over_hang s) (num_of_speech s) (index_vector s) (low_value_vector s)
    (mean_value s) (upper_state s) (lower_state s) (hp_filter_state s)
    (over_hang_max_1 s) (over_hang_max_2 s) (individual s) (total s) (init_flag s).

Definition set_counters (s : VadInstT) (v fc oh ns : Z) : VadInstT :=
  mkVadInstT v (downsampling_filter_states s) (state_48_to_8 s) (noise_means s)
    (speech_means s) (noise_stds s) (speech_stds s) fc oh ns (index_vector s)
    (low_value_vector s) (mean_value s) (upper_state s) (lower_state s) (hp_filter_state s)
    (over_hang_max_1 s) (over_hang_max_2 s) (individual s) (total s) (init_flag s).

Definition set_mode_tables (s : VadInstT) (m1 m2 ind tot : list Z) : VadInstT :=
  mkVadInstT (vad s) (downsampling_filter_states s) (state_48_to_8 s) (noise_means s)
    (speech_means s) (noise_stds s) (speech_stds s) (frame_counter s) (over_hang s)
    (num_of_speech s) (index_vector s) (low_value_vector s) (mean_value s) (upper_state s)
    (lower_state s) (hp_filter_state s) m1 m2 ind tot (init_flag s).

Definition set_downsampling (s : VadInstT) (ds : list Z) : VadInstT :=
  mkVadInstT (vad s) ds (state_48_to_8 s) (noise_means s) (speech_means s) (noise_stds s)
    (speech_stds s) (frame_counter s) (over_hang s) (num_of_speech s) (index_vector s)
    (low_value_vector s) (mean_value s) (upper_state s) (lower_state s) (hp_filter_state s)
    (over_hang_max_1 s) (over_hang_max_2 s) (individual s) (total s) (init_flag s).

Definition set_48 (s : VadInstT) (st : State48khzTo8khz) : VadInstT :=
  mkVadInstT (vad s) (downsampling_filter_states s) st (noise_means s) (speech_means s)
    (noise_stds s) (speech_stds s) (frame_counter s) (over_hang s) (num_of_speech s)
    (index_vector s) (low_value_vector s) (mean_value s) (upper_state s) (lower_state s)
    (hp_filter_state s) (over_hang_max_1 s) (over_hang_max_2 s) (individual s) (total s)
    (init_flag s).

Definition set_init_flag (s : VadInstT) (f : Z) : VadInstT :=
  mkVadInstT (vad s) (downsampling_filter_states s) (state_48_to_8 s) (noise_means s)
    (speech_means s) (noise_stds s) (speech_stds s) (frame_counter s) (over_hang s)
    (num_of_speech s) (index_vector s) (low_value_vector s) (mean_value s) (upper_state s)
    (lower_state s) (hp_filter_state s) (over_hang_max_1 s) (over_hang_max_2 s)
    (individual s) (total s) f.

(** ** Likelihoods *)

(** [data[k * kNumChannels] += offset], and the weighted sum. *)
Definition WeightedAverage {R : Type} (data : list Z) (channel offset : Z) (weights : list Z)
  : flow R (Z * list Z) :=
  for_up 2 0 (fun k '(weighted_average, data) =>
    let! x := rd data (channel + k * kNumChannels) in
    let x := s16 (x + offset) in
    let! data := wr data (channel + k * kNumChannels) x in
    let! w := rd weights (channel + k * kNumChannels) in
    Cont (s32 (weighted_average + x * w), data)) (0, data).

(** What the first pass leaves for the second. *)
Record Likelihoods : Type := mkLikelihoods {
  deltaN : list Z;
  deltaS : list Z;
  ngprvec : list Z;
  sgprvec : list Z;
  sum_log_likelihood_ratios : Z;
  vadflag : Z
}.

(** The two Gaussians of a channel under one hypothesis: the test value, the first
    probability and the deltas. *)
Definition mixture {R : Type} (feature channel : Z) (means stds weights delta : list Z)
  : flow R (Z * Z * list Z) :=
  let! (h_test, probability, delta) := for_up 2 0 (fun k '(h_test, probability, delta) =>
    let gaussian := channel + k * kNumChannels in
    let! m := rd means gaussian in
    let! s := rd stds gaussian in
    let '(tmp1_s32, d) := WebRtcVad_GaussianProbability feature m s in
    let! delta := wr delta gaussian d in
    let! w := rd weights gaussian in
    let p := s32 (w * tmp1_s32) in
    Cont (s32 (h_test + p), probability ++ [p], delta)) (0, [], delta) in
  let! p0 := rd probability 0 in
  Cont (h_test, p0, delta).

(** The shifts that normalise a test value. *)
Definition shifts_of (h_test : Z) : Z := if h_test =? 0 then 31 else WebRtcSpl_NormW32 h_test.

(** The conditional probability of the first Gaussian, in Q14. *)
Definition conditional (p0 h : Z) : Z :=
  s16 (WebRtcSpl_DivW32W16 (s32 (Z.shiftl (Z.land p0 4294963200) 2)) h).

Definition channel_likelihood {R : Type} (self : VadInstT) (features : list Z)
  (individualTest channel : Z) (l : Likelihoods) : flow R Likelihoods :=
  let! feature := rd features channel in
  let! (h0_test, n0, dN) :=
    mixture feature channel (noise_means self) (noise_stds self) kNoiseDataWeights (deltaN l) in
  let! (h1_test, s0, dS) :=
    mixture feature channel (speech_means self) (speech_stds self) kSpeechDataWeights (deltaS l) in
  let log_likelihood_ratio := s16 (shifts_of h0_test - shifts_of h1_test) in
  let! weight := rd kSpectrumWeight channel in
  let sum := s32 (sum_log_likelihood_ratios l + log_likelihood_ratio * weight) in
  let flag := if individualTest <? Z.shiftl log_likelihood_ratio 2 then 1 else vadflag l in
  let h0 := s16 (Z.shiftr h0_test 12) in
  let! ng :=
    if 0 <? h0 then
      let! ng := wr (ngprvec l) channel (conditional n0 h0) in
      wr ng (channel + kNumChannels) (s16 (16384 - conditional n0 h0))
    else wr (ngprvec l) channel 16384 in
  let h1 := s16 (Z.shiftr h1_test 12) in
  let! sg :=
    if 0 <? h1 then
      let! sg := wr (sgprvec l) channel (conditional s0 h1) in
      wr sg (channel + kNumChannels) (s16 (16384 - conditional s0 h1))
    else Cont (sgprvec l) in
  Cont (mkLikelihoods dN dS ng sg sum flag).

(** ** The update of the models *)

(** The quotient of the update steps, its sign kept apart. *)
Definition signed_div (x den : Z) : Z :=
  if 0 <? x then s16 (WebRtcSpl_DivW32W16 x den)
  else s16 (- s16 (WebRtcSpl_DivW32W16 (s32 (- x)) den)).

(** The new noise mean of a Gaussian. *)
Definition next_noise_mean (speech : bool) (nmk ng dN feature_minimum tmp1_s16 k channel : Z) : Z :=
  let nmk2 :=
    if speech then nmk
    else let delt := s16 (MUL_RSFT ng dN 11) in
         s16 (nmk + s16 (MUL_RSFT delt kNoiseUpdateConst 22)) in
  let ndelt := s16 (Z.shiftl feature_minimum 4 - tmp1_s16) in
  let nmk3 := s16 (nmk2 + s16 (MUL_RSFT ndelt kBackEta 9)) in
  let tmp_s16 := s16 (Z.shiftl (k + 5) 7) in
  let nmk3 := if nmk3 <? tmp_s16 then tmp_s16 else nmk3 in
  let tmp_s16 := s16 (Z.shiftl (72 + k - channel) 7) in
  if tmp_s16 <? nmk3 then tmp_s16 else nmk3.

(** The new speech mean of a Gaussian. *)
Definition next_speech_mean (smk sg dS minimum_mean maxspe : Z) : Z :=
  let delt := s16 (MUL_RSFT sg dS 11) in
  let tmp_s16 := s16 (MUL_RSFT delt kSpeechUpdateConst 21) in
  let smk2 := s16 (smk + Z.shiftr (tmp_s16 + 1) 1) in
  let maxmu := s16 (maxspe + 640) in
  let smk2 := if smk2 <? minimum_mean then minimum_mean else smk2 in
  if maxmu <? smk2 then maxmu else smk2.

(** The new speech deviation; [smk] is the mean before the update. *)
Definition next_speech_std (ssk smk sg dS feature : Z) : Z :=
  let tmp_s16 := s16 (Z.shiftr (smk + 4) 3) in
  let tmp_s16 := s16 (feature - tmp_s16) in
  let tmp1_s32 := MUL_RSFT dS tmp_s16 3 in
  let tmp2_s32 := s32 (tmp1_s32 - 4096) in
  let tmp_s16 := Z.shiftr sg 2 in
  let tmp1_s32 := s32 (tmp_s16 * tmp2_s32) in
  let tmp2_s32 := Z.shiftr tmp1_s32 4 in
  let tmp_s16 := signed_div tmp2_s32 (s16 (ssk * 10)) in
  let tmp_s16 := s16 (tmp_s16 + 128) in
  let ssk := s16 (ssk + Z.shiftr tmp_s16 8) in
  if ssk <? kMinStd then kMinStd else ssk.

(** The new noise deviation; [nmk] is the mean before the update. *)
Definition next_noise_std (nsk nmk ng dN feature : Z) : Z :=
  let tmp_s16 := s16 (feature - Z.shiftr nmk 3) in
  let tmp1_s32 := s32 (MUL_RSFT dN tmp_s16 3 - 4096) in
  let tmp_s16 := s16 (Z.shiftr (ng + 2) 2) in
  let tmp2_s32 := s32 (tmp_s16 * tmp1_s32) in
  let tmp1_s32 := Z.shiftr tmp2_s32 14 in
  let tmp_s16 := signed_div tmp1_s32 nsk in
  let tmp_s16 := s16 (tmp_s16 + 32) in
  let nsk := s16 (nsk + Z.shiftr tmp_s16 6) in
  if nsk <? kMinStd then kMinStd else nsk.

(** One Gaussian of a channel. *)
Definition update_gaussian {R : Type} (l : Likelihoods) (speech : bool)
  (feature feature_minimum tmp1_s16 maxspe channel k : Z) (self : VadInstT) : flow R VadInstT :=
  let gaussian := channel + k * kNumChannels in
  let! nmk := rd (noise_means self) gaussian in
  let! smk := rd (speech_means self) gaussian in
  let! nsk := rd (noise_stds self) gaussian in
  let! ssk := rd (speech_stds self) gaussian in
  let! ng := rd (ngprvec l) gaussian in
  let! dN := rd (deltaN l) gaussian in
  let! nm := wr (noise_means self) gaussian
               (next_noise_mean speech nmk ng dN feature_minimum tmp1_s16 k channel) in
  if speech then
    let! sg := rd (sgprvec l) gaussian in
    let! dS := rd (deltaS l) gaussian in
    let! minimum_mean := rd kMinimumMean k in
    let! sm := wr (speech_means self) gaussian (next_speech_mean smk sg dS minimum_mean maxspe) in
    let! ss := wr (speech_stds self) gaussian (next_speech_std ssk smk sg dS feature) in
    Cont (set_models self nm sm (noise_stds self) ss)
  else
    let! ns := wr (noise_stds self) gaussian (next_noise_std nsk nmk ng dN feature) in
    Cont (set_models self nm (speech_means self) ns (speech_stds self)).

(** [for (k ...) means[channel + k * kNumChannels] -= d]. *)
Definition lower_means {R : Type} (means : list Z) (channel d : Z) : flow R (list Z) :=
  for_up 2 0 (fun k m =>
    let! x := rd m (channel + k * kNumChannels) in
    wr m (channel + k * kNumChannels) (s16 (x - d))) means.

(** The models of a channel are kept apart and within their limits; the result is
    also the new [maxspe]. *)
Definition separate_models {R : Type} (channel : Z) (self : VadInstT) : flow R (Z * VadInstT) :=
  let! (noise_global_mean, nm) := WeightedAverage (noise_means self) channel 0 kNoiseDataWeights in
  let! (speech_global_mean, sm) := WeightedAverage (speech_means self) channel 0 kSpeechDataWeights in
  let diff := s16 (s16 (Z.shiftr speech_global_mean 9) - s16 (Z.shiftr noise_global_mean 9)) in
  let! minimum_difference := rd kMinimumDifference channel in
  let! (noise_global_mean, speech_global_mean, nm, sm) :=
    if diff <? minimum_difference then
      let tmp_s16 := s16 (minimum_difference - diff) in
      let tmp1_s16 := s16 (MUL_RSFT 13 tmp_s16 2) in
      let tmp2_s16 := s16 (MUL_RSFT 3 tmp_s16 2) in
      let! (sgm, sm) := WeightedAverage sm channel tmp1_s16 kSpeechDataWeights in
      let! (ngm, nm) := WeightedAverage nm channel (s16 (- tmp2_s16)) kNoiseDataWeights in
      Cont (ngm, sgm, nm, sm)
    else Cont (noise_global_mean, speech_global_mean, nm, sm) in
  let! maxspe := rd kMaximumSpeech channel in
  let tmp2_s16 := s16 (Z.shiftr speech_global_mean 7) in
  let! sm := if maxspe <? tmp2_s16 then lower_means sm channel (s16 (tmp2_s16 - maxspe))
             else Cont sm in
  let! maximum_noise := rd kMaximumNoise channel in
  let tmp2_s16 := s16 (Z.shiftr noise_global_mean 7) in
  let! nm := if maximum_noise <? tmp2_s16 then lower_means nm channel (s16 (tmp2_s16 - maximum_noise))
             else Cont nm in
  Cont (maxspe, set_models self nm sm (noise_stds self) (speech_stds self)).

Definition update_channel {R : Type} (beyond : option Z) (l : Likelihoods) (speech : bool)
  (features : list Z) (channel : Z) (st : Z * VadInstT) : flow R (Z * VadInstT) :=
  let '(maxspe, self) := st in
  let! feature := rd features channel in
  let! (feature_minimum, self) := WebRtcVad_FindMinimum beyond self feature channel in
  let! (noise_global_mean, nm) := WeightedAverage (noise_means self) channel 0 kNoiseDataWeights in
  let self := set_models self nm (speech_means self) (noise_stds self) (speech_stds self) in
  let tmp1_s16 := s16 (Z.shiftr noise_global_mean 6) in
  let! self := for_up 2 0 (fun k self =>
    update_gaussian l speech feature feature_minimum tmp1_s16 maxspe channel k self) self in
  separate_models channel self.

(** ** The decision *)

(** Hysteresis: the returned decision and the two counters. *)
Definition hangover (overhead1 overhead2 flag over_hang num_of_speech : Z) : Z * Z * Z :=
  if flag =? 0 then
    if 0 <? over_hang then (s16 (2 + over_hang), s16 (over_hang - 1), 0)
    else (flag, over_hang, 0)
  else
    let num_of_speech := s16 (num_of_speech + 1) in
    if kMaxSpeechFrames <? num_of_speech then (flag, overhead2, kMaxSpeechFrames)
    else (flag, overhead1, num_of_speech).

Definition no_likelihoods : Likelihoods :=
  mkLikelihoods (zeros 12) (zeros 12) (zeros 12) (zeros 12) 0 0.

Definition GmmProbability {R : Type} (beyond : option Z) (self : VadInstT) (features : list Z)
  (total_power frame_length : Z) : flow R (Z * VadInstT) :=
  let idx := if frame_length =? 80 then 0 else if frame_length =? 160 then 1 else 2 in
  let! overhead1 := rd (over_hang_max_1 self) idx in
  let! overhead2 := rd (over_hang_max_2 self) idx in
  let! individualTest := rd (individual self) idx in
  let! totalTest := rd (total self) idx in
  let! (flag, self) :=
    if kMinEnergy <? total_power then
      let! l := for_up 6 0 (fun channel l =>
        channel_likelihood self features individualTest channel l) no_likelihoods in
      let flag := Z.lor (vadflag l)
                    (if totalTest <=? sum_log_likelihood_ratios l then 1 else 0) in
      let! (_, self) := for_up 6 0 (fun channel st =>
        update_channel beyond l (negb (flag =? 0)) features channel st) (12800, self) in
      Cont (flag, set_counters self (vad self) (s32 (frame_counter self + 1)) (over_hang self)
                    (num_of_speech self))
    else Cont (0, self) in
  let '(flag, oh, ns) := hangover overhead1 overhead2 flag (over_hang self) (num_of_speech self) in
  Cont (flag, set_counters self (vad self) (frame_counter self) oh ns).

(** ** Frames *)

Definition WebRtcVad_CalcVad8khz {R : Type} (beyond : option Z) (inst : VadInstT)
  (speech_frame : list Z) (frame_length : Z) : flow R (Z * VadInstT) :=
  let! (total_power, feature_vector, inst) :=
    WebRtcVad_CalculateFeatures inst speech_frame frame_length in
  let! (v, inst) := GmmProbability beyond inst feature_vector total_power frame_length in
  Cont (v, set_counters inst v (frame_counter inst) (over_hang inst) (num_of_speech inst)).

Definition WebRtcVad_CalcVad16khz {R : Type} (beyond : option Z) (inst : VadInstT)
  (speech_frame : list Z) (frame_length : Z) : flow R (Z * VadInstT) :=
  let! (speechNB, ds) :=
    WebRtcVad_Downsampling speech_frame (zeros 240) (downsampling_filter_states inst) 0
      frame_length in
  let inst := set_downsampling inst ds in
  let len := Z.shiftr frame_length 1 in
  WebRtcVad_CalcVad8khz beyond inst speechNB len.

Definition WebRtcVad_CalcVad32khz {R : Type} (beyond : option Z) (inst : VadInstT)
  (speech_frame : list Z) (frame_length : Z) : flow R (Z * VadInstT) :=
  let! (speechWB, ds) :=
    WebRtcVad_Downsampling speech_frame (zeros 480) (downsampling_filter_states inst) 2
      frame_length in
  let len := Z.shiftr frame_length 1 in
  let! (speechNB, ds) := WebRtcVad_Downsampling speechWB (zeros 240) ds 0 len in
  let inst := set_downsampling inst ds in
  let len := Z.shiftr len 1 in
  WebRtcVad_CalcVad8khz beyond inst speechNB len.

(** Every 10 ms block is resampled from the start of [speech_frame]. *)
Definition WebRtcVad_CalcVad48khz {R : Type} (beyond : option Z) (inst : VadInstT)
  (speech_frame : list Z) (frame_length : Z) : flow R (Z * VadInstT) :=
  let num_10ms_frames := Z.quot frame_length 480 in
  let! (speech_nb, st, _) :=
    for_up (Z.to_nat num_10ms_frames) 0 (fun i '(nb, st, tmp_mem) =>
      WebRtcSpl_Resample48khzTo8khz speech_frame nb (i * 80) st tmp_mem)
      (zeros 240, state_48_to_8 inst, zeros 736) in
  let inst := set_48 inst st in
  WebRtcVad_CalcVad8khz beyond inst speech_nb (Z.quot frame_length 6).

(** ** Modes and initialisation *)

Definition WebRtcVad_set_mode_core (self : VadInstT) (mode : Z) : Z * VadInstT :=
  if mode =? 0 then
    (0, set_mode_tables self kOverHangMax1Q kOverHangMax2Q kLocalThresholdQ kGlobalThresholdQ)
  else if mode =? 1 then
    (0, set_mode_tables self kOverHangMax1LBR kOverHangMax2LBR kLocalThresholdLBR
          kGlobalThresholdLBR)
  else if mode =? 2 then
    (0, set_mode_tables self kOverHangMax1AGG kOverHangMax2AGG kLocalThresholdAGG
          kGlobalThresholdAGG)
  else if mode =? 3 then
    (0, set_mode_tables self kOverHangMax1VAG kOverHangMax2VAG kLocalThresholdVAG
          kGlobalThresholdVAG)
  else (-1, self).

(** Every field is written before the mode is set. *)
Definition WebRtcVad_InitCore (self : option VadInstT) : Z * option VadInstT :=
  match self with
  | None => (-1, None)
  | Some s =>
      let s := mkVadInstT 1 (zeros 4) WebRtcSpl_ResetResample48khzTo8khz kNoiseDataMeans
                 kSpeechDataMeans kNoiseDataStds kSpeechDataStds 0 0 0 (replicate 96 0)
                 (replicate 96 10000) (replicate 6 1600) (zeros 5) (zeros 5) (zeros 4)
                 (over_hang_max_1 s) (over_hang_max_2 s) (individual s) (total s) (init_flag s) in
      let '(r, s) := WebRtcVad_set_mode_core s kDefaultMode in
      if negb (r =? 0) then (-1, Some s)
      else (0, Some (set_init_flag s kInitCheck))
  end.

(** ** The interface *)

(** [m] is the block that malloc returns. *)
Definition WebRtcVad_Create (handle_is_null : bool) (m : option VadInstT) : Z * option VadInstT :=
  if handle_is_null then (-1, None)
  else match m with
       | None => (-1, None)
       | Some self => (0, Some (set_init_flag self 0))
       end.

Definition WebRtcVad_Init (handle : option VadInstT) : Z * option VadInstT :=
  WebRtcVad_InitCore handle.

Definition WebRtcVad_set_mode (handle : option VadInstT) (mode : Z) : Z * option VadInstT :=
  match handle with
  | None => (-1, None)
  | Some self =>
      if negb (init_flag self =? kInitCheck) then (-1, handle)
      else let '(r, self) := WebRtcVad_set_mode_core self mode in (r, Some self)
  end.

Definition kValidRates : list Z := [8000; 16000; 32000; 48000].
Definition kMaxFrameLengthMs : Z := 30.

(** [for (valid_length_ms = 10; valid_length_ms <= kMaxFrameLengthMs; ... += 10)]. *)
Fixpoint length_loop (fuel : nat) (rate frame_length valid_length_ms : Z) : Z :=
  match fuel with
  | O => -1
  | S fuel =>
      if valid_length_ms <=? kMaxFrameLengthMs then
        let valid_length := Z.quot rate 1000 * valid_length_ms in
        if frame_length =? valid_length then 0
        else length_loop fuel rate frame_length (valid_length_ms + 10)
      else -1
  end.

Fixpoint rate_loop (rates : list Z) (rate frame_length : Z) : Z :=
  match rates with
  | [] => -1
  | r :: rates =>
      if r =? rate then length_loop 4 r frame_length 10 else rate_loop rates rate frame_length
  end.

Definition WebRtcVad_ValidRateAndFrameLength (rate frame_length : Z) : Z :=
  rate_loop kValidRates rate frame_length.

Definition WebRtcVad_Process {R : Type} (beyond : option Z) (handle : option VadInstT) (fs : Z)
  (audio_frame : option (list Z)) (frame_length : Z) : flow R (Z * option VadInstT) :=
  match handle, audio_frame with
  | None, _ => Cont (-1, None)
  | Some self, None => Cont (-1, handle)
  | Some self, Some audio =>
      if negb (init_flag self =? kInitCheck) then Cont (-1, handle)
      else if negb (WebRtcVad_ValidRateAndFrameLength fs frame_length =? 0)
      then Cont (-1, handle)
      else
        let! (v, self) :=
          if fs =? 48000 then WebRtcVad_CalcVad48khz beyond self audio frame_length
          else if fs =? 32000 then WebRtcVad_CalcVad32khz beyond self audio frame_length
          else if fs =? 16000 then WebRtcVad_CalcVad16khz beyond self audio frame_length
          else if fs =? 8000 then WebRtcVad_CalcVad8khz beyond self audio frame_length
          else Cont (-1, self) in
        Cont (if 0 <? v then 1 else v, Some self)
  end.

(** ** The invariant *)

Definition stds_ok (l : list Z) : Prop := Zlen l = 12 /\ Forall (fun x => 378 <= x < 32768) l.
Definition hang_ok (l : list Z) : Prop := Zlen l = 3 /\ Forall (fun x => 0 <= x <= 14) l.

Record vad_ok (s : VadInstT) : Prop := {
  v_nm : Zlen (noise_means s) = 12;
  v_sm : Zlen (speech_means s) = 12;
  v_ns : stds_ok (noise_stds s);
  v_ss : stds_ok (speech_stds s);
  v_min : minimum_ok s;
  v_bands : bands_ok s;
  v_48 : state_48_ok (state_48_to_8 s);
  v_ds : Zlen (downsampling_filter_states s) = 4;
  v_hang1 : hang_ok (over_hang_max_1 s);
  v_hang2 : hang_ok (over_hang_max_2 s);
  v_individual : Zlen (individual s) = 3;
  v_total : Zlen (total s) = 3;
  v_over_hang : 0 <= over_hang s <= 14;
  v_speech : 0 <= num_of_speech s <= 6;
  v_init : init_flag s = kInitCheck
}.

Lemma minimum_ok_fields s s' :
  index_vector s' = index_vector s -> low_value_vector s' = low_value_vector s ->
  mean_value s' = mean_value s -> minimum_ok s -> minimum_ok s'.
Proof.
  intros Ei El Em [H1 H2 H3 H4 H5].
  assert (Ee : forall c, entries s' c = entries s c)
    by (intros c; unfold entries; by rewrite Ei, El).
  split; [by rewrite Ei|by rewrite El|by rewrite Em| |]; intros c Hc; rewrite Ee; auto.
Qed.

Lemma vad_ok_models s nm sm ns ss :
  vad_ok s -> Zlen nm = 12 -> Zlen sm = 12 -> stds_ok ns -> stds_ok ss ->
  vad_ok (set_models s nm sm ns ss).
Proof.
  intros [] ? ? ? ?. split; try assumption. by apply (minimum_ok_fields s).
Qed.

Lemma vad_ok_counters s v fc oh ns :
  vad_ok s -> 0 <= oh <= 14 -> 0 <= ns <= 6 -> vad_ok (set_counters s v fc oh ns).
Proof. intros [] ? ?. split; try assumption. by apply (minimum_ok_fields s). Qed.

Lemma vad_ok_minimum s s' :
  vad_ok s -> minimum_ok s' ->
  s' = set_minimum s (index_vector s') (low_value_vector s') (mean_value s') -> vad_ok s'.
Proof.
  intros [] Hm E. rewrite E in *. split; try assumption.
Qed.

Lemma vad_ok_bands s s' :
  vad_ok s -> bands_ok s' ->
  s' = set_filters s (upper_state s') (lower_state s') (hp_filter_state s') -> vad_ok s'.
Proof.
  intros [] Hb E. rewrite E in *. split; try assumption. by apply (minimum_ok_fields s).
Qed.

Lemma vad_ok_downsampling s ds : vad_ok s -> Zlen ds = 4 -> vad_ok (set_downsampling s ds).
Proof. intros [] ?. split; try assumption. by apply (minimum_ok_fields s). Qed.

Lemma vad_ok_48 s st : vad_ok s -> state_48_ok st -> vad_ok (set_48 s st).
Proof. intros [] ?. split; try assumption. by apply (minimum_ok_fields s). Qed.

Lemma vad_ok_modes s m1 m2 ind tot :
  vad_ok s -> hang_ok m1 -> hang_ok m2 -> Zlen ind = 3 -> Zlen tot = 3 ->
  vad_ok (set_mode_tables s m1 m2 ind tot).
Proof. intros [] ? ? ? ?. split; try assumption. by apply (minimum_ok_fields s). Qed.

(** ** The first pass *)

Lemma gives_mixture {R} f c means stds weights delta :
  0 <= c < 6 -> Zlen means = 12 -> Zlen stds = 12 -> Zlen weights = 12 -> Zlen delta = 12 ->
  gives (R := R) (mixture f c means stds weights delta) (fun r => Zlen r.2 = 12).
Proof.
  intros. unfold mixture. cbn [for_up]. unfold kNumChannels.
  rewrite !flow_bind_assoc. gread. rewrite !flow_bind_assoc. gread.
  destruct (WebRtcVad_GaussianProbability f _ _) as [p d].
  rewrite !flow_bind_assoc. gwrite. rewrite !flow_bind_assoc. gread.
  cbn [flow_bind]. rewrite !flow_bind_assoc. gread. rewrite !flow_bind_assoc. gread.
  destruct (WebRtcVad_GaussianProbability f _ _) as [p' d'].
  rewrite !flow_bind_assoc. gwrite. rewrite !flow_bind_assoc. gread.
  cbn [flow_bind app].
  eapply gives_bind; [by apply (gives_rd _ 0 (fun _ => True))|intros p0 _].
  apply gives_Cont. glen.
Qed.

Definition likelihoods_ok (l : Likelihoods) : Prop :=
  Zlen (deltaN l) = 12 /\ Zlen (deltaS l) = 12 /\ Zlen (ngprvec l) = 12 /\
  Zlen (sgprvec l) = 12 /\ (vadflag l = 0 \/ vadflag l = 1).

Lemma gives_channel_likelihood {R} s features it c l :
  vad_ok s -> length features = 6%nat -> 0 <= c < 6 -> likelihoods_ok l ->
  gives (R := R) (channel_likelihood s features it c l) likelihoods_ok.
Proof.
  intros Hs Hf Hc (H1 & H2 & H3 & H4 & H5). destruct Hs as [? ? [? _] [? _] _ _ _ _ _ _ _ _ _ _ _].
  assert (Hf6 : Zlen features = 6) by (unfold Zlen; lia).
  unfold channel_likelihood. gread.
  eapply gives_bind; [apply gives_mixture; (lia || reflexivity)|].
  intros [[h0 n0] dN] L0. cbn [snd] in L0.
  eapply gives_bind; [apply gives_mixture; (lia || reflexivity)|].
  intros [[h1 s0] dS] L1. cbn [snd] in L1.
  eapply gives_bind; [apply (gives_rd kSpectrumWeight c (fun _ => True));
    [change (Zlen kSpectrumWeight) with 6; lia|done]|intros w _].
  eapply (gives_bind _ _ (fun ng => Zlen ng = 12)).
  { unfold kNumChannels. destruct (0 <? _); [gwrite|];
      (eapply gives_weaken; [apply gives_wr; glen|]; glen). }
  intros ng Lg. cbn beta in Lg. eapply (gives_bind _ _ (fun sg => Zlen sg = 12)).
  { unfold kNumChannels. destruct (0 <? _); [gwrite|by apply gives_Cont].
    eapply gives_weaken; [apply gives_wr; glen|]; glen. }
  intros sg Lsg. apply gives_Cont. unfold likelihoods_ok. cbn.
  repeat split; try lia. destruct (it <? _); [by right|done].
Qed.

(** ** The second pass *)

Lemma gives_WeightedAverage {R} data c off w :
  0 <= c < 6 -> Zlen data = 12 -> Zlen w = 12 ->
  gives (R := R) (WeightedAverage data c off w) (fun r => Zlen r.2 = 12).
Proof.
  intros. unfold WeightedAverage, kNumChannels.
  apply (gives_for (fun r => Zlen r.2 = 12)); [done|].
  intros k [a d] Hk Hd. cbn [snd] in Hd. gread. gwrite. gread. apply gives_Cont. glen.
Qed.

Lemma next_speech_std_range ssk smk sg dS f : 384 <= next_speech_std ssk smk sg dS f < 32768.
Proof.
  unfold next_speech_std, kMinStd. cbn zeta.
  match goal with |- context [s16 ?x] => idtac end.
  set (x := s16 (ssk + _)). assert (Hx : is_s16 x) by apply s16_range. unfold is_s16 in Hx.
  clearbody x. zcase; lia.
Qed.

Lemma next_noise_std_range nsk nmk ng dN f : 384 <= next_noise_std nsk nmk ng dN f < 32768.
Proof.
  unfold next_noise_std, kMinStd. cbn zeta.
  set (x := s16 (nsk + _)). assert (Hx : is_s16 x) by apply s16_range. unfold is_s16 in Hx.
  clearbody x. zcase; lia.
Qed.

Lemma gives_wr_std {R} l i x :
  stds_ok l -> 0 <= i < 12 -> 384 <= x < 32768 -> gives (R := R) (wr l i x) stds_ok.
Proof.
  intros [Hl Hall] Hi Hx. rewrite wr_Cont by lia. apply gives_Cont. split.
  - by rewrite Zlen_insert.
  - apply Forall_insert; [done|]. lia.
Qed.

Lemma gives_update_gaussian {R} l sp f fm t ms c k s :
  vad_ok s -> likelihoods_ok l -> 0 <= c < 6 -> 0 <= k < 2 ->
  gives (R := R) (update_gaussian l sp f fm t ms c k s) vad_ok.
Proof.
  intros Hs (H1 & H2 & H3 & H4 & _) Hc Hk. assert (Hs' := Hs).
  destruct Hs as [? ? [? ?] [? ?] _ _ _ _ _ _ _ _ _ _ _].
  unfold update_gaussian, kNumChannels. do 6 gread. gwrite.
  destruct sp.
  - gread. gread. eapply gives_bind; [apply (gives_rd kMinimumMean k (fun _ => True));
      [change (Zlen kMinimumMean) with 2; lia|done]|intros mm _].
    gwrite. eapply gives_bind; [apply gives_wr_std; [done|lia|apply next_speech_std_range]|].
    intros ss Hss. apply gives_Cont. apply vad_ok_models; [done|glen|glen|done|done].
  - eapply gives_bind; [apply gives_wr_std; [done|lia|apply next_noise_std_range]|].
    intros ns Hns. apply gives_Cont. apply vad_ok_models; [done|glen|glen|done|done].
Qed.

Lemma gives_lower_means {R} m c d :
  0 <= c < 6 -> Zlen m = 12 -> gives (R := R) (lower_means m c d) (fun m' => Zlen m' = 12).
Proof.
  intros. unfold lower_means, kNumChannels. apply (gives_for (fun m' => Zlen m' = 12)); [done|].
  intros k m' Hk Hm. gread. eapply gives_weaken; [apply gives_wr; glen|]; glen.
Qed.

Lemma gives_separate_models {R} c s :
  vad_ok s -> 0 <= c < 6 -> gives (R := R) (separate_models c s) (fun r => vad_ok r.2).
Proof.
  intros Hs Hc. assert (Hs' := Hs). destruct Hs as [? ? ? ? _ _ _ _ _ _ _ _ _ _ _].
  unfold separate_models.
  eapply gives_bind; [apply gives_WeightedAverage; (done || reflexivity)|]. intros [a nm] L1. cbn [snd] in L1.
  eapply gives_bind; [apply gives_WeightedAverage; (done || reflexivity)|]. intros [b sm] L2. cbn [snd] in L2.
  eapply gives_bind; [apply (gives_rd kMinimumDifference c (fun _ => True));
    [change (Zlen kMinimumDifference) with 6; lia|done]|intros md _].
  eapply (gives_bind _ _ (fun r => Zlen r.1.2 = 12 /\ Zlen r.2 = 12)).
  { destruct (_ <? md); [|by apply gives_Cont].
    eapply gives_bind; [apply gives_WeightedAverage; (done || reflexivity)|]. intros [b2 sm2] L4.
    eapply gives_bind; [apply gives_WeightedAverage; (done || reflexivity)|]. intros [a2 nm2] L3.
    by apply gives_Cont. }
  clear L1 L2 nm sm a b. intros [[[a b] nm] sm] [L1 L2]. cbn [fst snd] in L1, L2.
  eapply gives_bind; [apply (gives_rd kMaximumSpeech c (fun _ => True));
    [change (Zlen kMaximumSpeech) with 6; lia|done]|intros mxs _].
  eapply (gives_bind _ _ (fun m => Zlen m = 12)).
  { destruct (mxs <? _); [by apply gives_lower_means|by apply gives_Cont]. }
  intros sm' L3. cbn beta in L3.
  eapply gives_bind; [apply (gives_rd kMaximumNoise c (fun _ => True));
    [change (Zlen kMaximumNoise) with 6; lia|done]|intros mxn _].
  eapply (gives_bind _ _ (fun m => Zlen m = 12)).
  { destruct (mxn <? _); [by apply gives_lower_means|by apply gives_Cont]. }
  intros nm' L4. apply gives_Cont. by apply vad_ok_models.
Qed.

Lemma gives_update_channel {R} x l sp features c ms s :
  vad_ok s -> likelihoods_ok l -> 0 <= c < 6 ->
  length features = 6%nat -> Forall (fun f => 0 <= f <= 2197) features ->
  gives (R := R) (update_channel (Some x) l sp features c (ms, s)) (fun r => vad_ok r.2).
Proof.
  intros Hs Hl Hc Hf Hall. unfold update_channel.
  assert (Hf6 : Zlen features = 6) by (unfold Zlen; lia).
  rewrite rd_total by lia. cbn [flow_bind].
  set (f := features !!! Z.to_nat c).
  assert (Hfr : 0 <= f <= 2197).
  { apply (Forall_lookup_1 _ _ (Z.to_nat c) f Hall). apply list_lookup_lookup_total_lt. lia. }
  clearbody f. assert (Hfm : f <= 10000) by lia.
  destruct (FindMinimum_spec (R := R) s f c (v_min s Hs) Hc Hfm)
    as (med & s' & _ & E & _ & _ & Hm & Hs').
  rewrite E. cbn [flow_bind].
  assert (Hok : vad_ok s') by (by apply (vad_ok_minimum s)).
  eapply gives_bind; [apply gives_WeightedAverage; [done|apply Hok|reflexivity]|].
  intros [ngm nm] Ln. cbn [snd] in Ln.
  eapply (gives_bind _ _ vad_ok).
  { apply gives_for.
    - apply vad_ok_models; [done|done|apply Hok..].
    - intros k s2 Hk Hs2. apply gives_update_gaussian; [done|done|lia|lia]. }
  intros s3 Hs3. by apply gives_separate_models.
Qed.

(** ** The decision *)

(** What the hysteresis gives and keeps. *)
Lemma hangover_ok o1 o2 flag oh ns :
  0 <= o1 <= 14 -> 0 <= o2 <= 14 -> (flag = 0 \/ flag = 1) -> 0 <= oh <= 14 -> 0 <= ns <= 6 ->
  let '(v, oh', ns') := hangover o1 o2 flag oh ns in
  (v = 0 \/ v = 1 \/ 3 <= v <= 16) /\ 0 <= oh' <= 14 /\ 0 <= ns' <= 6 /\
  (v = 0 <-> flag = 0 /\ oh = 0).
Proof.
  intros. unfold hangover, kMaxSpeechFrames.
  repeat (rewrite s16_id by (unfold is_s16; lia)).
  destruct (Z.eqb_spec flag 0), (Z.ltb_spec 0 oh), (Z.ltb_spec 6 (ns + 1)); lia.
Qed.

(** The flag of a frame: no speech, speech, or hangover. *)
Definition decision_ok (r : Z * VadInstT) : Prop :=
  (r.1 = 0 \/ r.1 = 1 \/ 3 <= r.1 <= 16) /\ vad_ok r.2.

Lemma hang_ok_lookup l i : hang_ok l -> 0 <= i < 3 -> 0 <= l !!! Z.to_nat i <= 14.
Proof.
  intros [Hl Hall] Hi. unfold Zlen in Hl. apply (Forall_lookup_1 _ _ (Z.to_nat i) _ Hall).
  apply list_lookup_lookup_total_lt. lia.
Qed.

Lemma no_likelihoods_ok : likelihoods_ok no_likelihoods.
Proof. repeat split. by left. Qed.

Lemma gives_GmmProbability {R} x s features tp n :
  vad_ok s -> length features = 6%nat -> Forall (fun f => 0 <= f <= 2197) features ->
  gives (R := R) (GmmProbability (Some x) s features tp n) decision_ok.
Proof.
  intros Hs Hf Hall. unfold GmmProbability.
  set (idx := if n =? 80 then 0 else _).
  assert (Hi : 0 <= idx < 3) by (subst idx; repeat case_match; lia). clearbody idx.
  rewrite !(rd_total _ idx) by (destruct Hs as [? ? ? ? ? ? ? ? [? ?] [? ?] ? ? ? ? ?]; lia).
  cbn [flow_bind].
  assert (H1 := hang_ok_lookup _ idx (v_hang1 s Hs) Hi).
  assert (H2 := hang_ok_lookup _ idx (v_hang2 s Hs) Hi).
  eapply (gives_bind _ _ (fun r => (r.1 = 0 \/ r.1 = 1) /\ vad_ok r.2)).
  - destruct (kMinEnergy <? tp); [|by apply gives_Cont; split; [left|]].
    eapply (gives_bind _ _ likelihoods_ok).
    { apply gives_for; [apply no_likelihoods_ok|]. intros c l Hc Hl.
      apply gives_channel_likelihood; [done|done|lia|done]. }
    intros l Hl. eapply (gives_bind _ _ (fun r => vad_ok r.2)).
    { apply (gives_for (fun r : Z * VadInstT => vad_ok r.2)); [done|]. intros c [ms s'] Hc Hs'.
      apply gives_update_channel; [done|done|lia|done|done]. }
    intros [ms s'] Hs'. cbn [snd] in Hs'. apply gives_Cont. split.
    + destruct Hl as (_ & _ & _ & _ & [-> | ->]); cbn [fst]; case_match; auto.
    + apply vad_ok_counters; [done|apply Hs'|apply Hs'].
  - intros [flag s'] [Hfl Hs']. cbn [fst snd] in Hfl, Hs'.
    assert (Hh := hangover_ok _ _ flag (over_hang s') (num_of_speech s') H1 H2 Hfl
      (v_over_hang s' Hs') (v_speech s' Hs')).
    destruct (hangover _ _ _ _ _) as [[v oh] ns]. destruct Hh as (Hv & Ho & Hn & _).
    apply gives_Cont. split; [exact Hv|]. by apply vad_ok_counters.
Qed.

(** ** Frames *)

Lemma gives_CalcVad8khz {R} x s audio n :
  vad_ok s -> (n = 80 \/ n = 160 \/ n = 240) -> n <= Zlen audio ->
  gives (R := R) (WebRtcVad_CalcVad8khz (Some x) s audio n) decision_ok.
Proof.
  intros Hs Hn Ha. unfold WebRtcVad_CalcVad8khz.
  eapply gives_bind; [apply gives_CalculateFeatures; [apply Hs|done|done]|].
  intros [[te fv] s'] (Hl & Hall & Hb & Hs'). cbn [fst snd] in *.
  assert (Hok : vad_ok s') by (by apply (vad_ok_bands s)).
  eapply gives_bind; [by apply gives_GmmProbability|]. intros [v s2] [Hv Hs2]. cbn [fst snd] in *.
  apply gives_Cont. split; [exact Hv|]. apply vad_ok_counters; [done|apply Hs2|apply Hs2].
Qed.

Lemma gives_Downsampling {R} inp out fs at_ n :
  0 <= n -> n <= Zlen inp -> n / 2 <= Zlen out -> 0 <= at_ -> at_ + 2 <= Zlen fs ->
  gives (R := R) (WebRtcVad_Downsampling inp out fs at_ n)
    (fun r => Zlen r.1 = Zlen out /\ Zlen r.2 = Zlen fs).
Proof.
  intros. destruct (Downsampling_total (R := R) inp out fs at_ n)
    as (o & f & -> & ?); [done..|]. by apply gives_Cont.
Qed.

Lemma gives_CalcVad16khz {R} x s audio n :
  vad_ok s -> (n = 160 \/ n = 320 \/ n = 480) -> n <= Zlen audio ->
  gives (R := R) (WebRtcVad_CalcVad16khz (Some x) s audio n) decision_ok.
Proof.
  intros Hs Hn Ha. unfold WebRtcVad_CalcVad16khz. assert (Hd := v_ds s Hs).
  eapply gives_bind; [apply gives_Downsampling; rewrite ?Zlen_zeros; zdm|].
  intros [nb ds] [L1 L2]. cbn [fst snd] in L1, L2. rewrite Zlen_zeros in L1.
  rewrite Z.shiftr_div_pow2 by lia. change (2 ^ 1) with 2.
  apply gives_CalcVad8khz; [apply vad_ok_downsampling; [done|lia]|zdm|zdm].
Qed.

Lemma gives_CalcVad32khz {R} x s audio n :
  vad_ok s -> (n = 320 \/ n = 640 \/ n = 960) -> n <= Zlen audio ->
  gives (R := R) (WebRtcVad_CalcVad32khz (Some x) s audio n) decision_ok.
Proof.
  intros Hs Hn Ha. unfold WebRtcVad_CalcVad32khz. assert (Hd := v_ds s Hs).
  eapply gives_bind; [apply gives_Downsampling; rewrite ?Zlen_zeros; zdm|].
  intros [wb ds] [L1 L2]. cbn [fst snd] in L1, L2. rewrite Zlen_zeros in L1. cbn zeta.
  rewrite !Z.shiftr_div_pow2 by lia. change (2 ^ 1) with 2.
  eapply gives_bind; [apply gives_Downsampling; rewrite ?Zlen_zeros; zdm|].
  intros [nb ds'] [L3 L4]. cbn [fst snd] in L3, L4. rewrite Zlen_zeros in L3.
  apply gives_CalcVad8khz; [apply vad_ok_downsampling; [done|lia]|zdm|zdm].
Qed.

Lemma gives_CalcVad48khz {R} x s audio n :
  vad_ok s -> (n = 480 \/ n = 960 \/ n = 1440) -> n <= Zlen audio ->
  gives (R := R) (WebRtcVad_CalcVad48khz (Some x) s audio n) decision_ok.
Proof.
  intros Hs Hn Ha. unfold WebRtcVad_CalcVad48khz.
  assert (Hq : 1 <= Z.quot n 480 <= 3 /\ Z.quot n 6 = 80 * Z.quot n 480)
    by (destruct Hn as [->|[->| ->]]; vm_compute; repeat split; congruence).
  destruct Hq as [Hq E6]. cbn zeta.
  eapply gives_bind.
  { apply (gives_for (fun r : list Z * State48khzTo8khz * list Z =>
      Zlen r.1.1 = 240 /\ state_48_ok r.1.2 /\ Zlen r.2 = 736)).
    - split; [reflexivity|]. split; [apply Hs|reflexivity].
    - intros i [[nb st] tmp] Hi (L1 & L2 & L3). cbn [fst snd] in L1, L2, L3.
      eapply gives_weaken; [apply gives_Resample48khzTo8khz; [lia|lia|lia|done|done]|].
      intros r (? & ? & ?). split; [lia|]. done. }
  intros [[nb st] tmp] (L1 & L2 & _). cbn [fst snd] in L1, L2.
  apply gives_CalcVad8khz; [by apply vad_ok_48|lia|lia].
Qed.

(** ** The interface *)

Lemma hang_ok_check l :
  (Zlen l =? 3) && forallb (fun x => (0 <=? x) && (x <=? 14)) l = true -> hang_ok l.
Proof.
  intros [H1 H2]%andb_prop. split; [lia|]. apply Forall_forall. intros x Hx.
  rewrite forallb_forall in H2. specialize (H2 x (proj1 (list_elem_of_In _ _) Hx)). lia.
Qed.

Lemma stds_ok_check l :
  (Zlen l =? 12) && forallb (fun x => (378 <=? x) && (x <? 32768)) l = true -> stds_ok l.
Proof.
  intros [H1 H2]%andb_prop. split; [lia|]. apply Forall_forall. intros x Hx.
  rewrite forallb_forall in H2. specialize (H2 x (proj1 (list_elem_of_In _ _) Hx)). lia.
Qed.

(** The modes. *)
Definition is_mode (m : Z) : bool := (0 <=? m) && (m <=? 3).

Lemma set_mode_core_spec s m :
  vad_ok s ->
  (WebRtcVad_set_mode_core s m).1 = (if is_mode m then 0 else -1) /\
  vad_ok (WebRtcVad_set_mode_core s m).2.
Proof.
  intros Hs. unfold WebRtcVad_set_mode_core, is_mode.
  destruct (Z.eqb_spec m 0) as [->|]; [|destruct (Z.eqb_spec m 1) as [->|];
    [|destruct (Z.eqb_spec m 2) as [->|]; [|destruct (Z.eqb_spec m 3) as [->|]]]];
    try (split; [reflexivity|]; apply vad_ok_modes;
         [done|by apply hang_ok_check|by apply hang_ok_check|reflexivity|reflexivity]).
  split; [|done]. cbn [fst]. destruct (Z.leb_spec 0 m), (Z.leb_spec m 3); [lia|done..].
Qed.

(** Initialisation needs nothing of what the memory held. *)
Lemma InitCore_spec s :
  exists s', WebRtcVad_InitCore (Some s) = (0, Some s') /\ vad_ok s' /\
             frame_counter s' = 0 /\ over_hang s' = 0 /\ num_of_speech s' = 0.
Proof.
  eexists. split; [reflexivity|]. split; [|done].
  split; try reflexivity; try (by apply hang_ok_check); try (by apply stds_ok_check);
    try (by repeat split); try (split; vm_compute; congruence).
  by apply initial_minimum_ok.
Qed.

(** The frames that the interface accepts: 10, 20 or 30 ms at four rates. *)
Definition valid_frame (fs n : Z) : Prop :=
  (fs = 8000 \/ fs = 16000 \/ fs = 32000 \/ fs = 48000) /\
  exists ms, (ms = 10 \/ ms = 20 \/ ms = 30) /\ n = fs / 1000 * ms.

Lemma length_loop_spec r n :
  length_loop 4 r n 10 =
  let q := Z.quot r 1000 in
  if (n =? q * 10) || (n =? q * 20) || (n =? q * 30) then 0 else -1.
Proof.
  change (length_loop 4 r n 10) with
    (if n =? Z.quot r 1000 * 10 then 0 else if n =? Z.quot r 1000 * 20 then 0
     else if n =? Z.quot r 1000 * 30 then 0 else -1).
  cbv zeta. by repeat destruct (n =? _).
Qed.

Lemma ValidRateAndFrameLength_spec fs n :
  (valid_frame fs n /\ WebRtcVad_ValidRateAndFrameLength fs n = 0) \/
  (~ valid_frame fs n /\ WebRtcVad_ValidRateAndFrameLength fs n = -1).
Proof.
  assert (Hr : forall r, (r = 8000 \/ r = 16000 \/ r = 32000 \/ r = 48000) ->
    (valid_frame r n /\ length_loop 4 r n 10 = 0) \/ (~ valid_frame r n /\ length_loop 4 r n 10 = -1)).
  { intros r Hr. rewrite length_loop_spec. cbv zeta. rewrite Z.quot_div_nonneg by lia.
    destruct (Z.eqb_spec n (r / 1000 * 10)); [left; split; [split; [done|exists 10; auto]|done]|].
    destruct (Z.eqb_spec n (r / 1000 * 20)); [left; split; [split; [done|exists 20; auto]|done]|].
    destruct (Z.eqb_spec n (r / 1000 * 30)); [left; split; [split; [done|exists 30; auto]|done]|].
    right. split; [|done]. intros [_ (ms & [->|[->| ->]] & ?)]; done. }
  unfold WebRtcVad_ValidRateAndFrameLength, kValidRates. cbn [rate_loop].
  destruct (Z.eqb_spec 8000 fs) as [<-|]; [apply Hr; auto|].
  destruct (Z.eqb_spec 16000 fs) as [<-|]; [apply Hr; auto|].
  destruct (Z.eqb_spec 32000 fs) as [<-|]; [apply Hr; auto|].
  destruct (Z.eqb_spec 48000 fs) as [<-|]; [apply Hr; auto|].
  right. split; [|done]. intros [H _]. lia.
Qed.

(** A frame on an initialised instance. *)
Lemma Process_spec {R} x s fs audio n :
  vad_ok s -> (valid_frame fs n -> n <= Zlen audio) ->
  exists v s',
    WebRtcVad_Process (R := R) (Some x) (Some s) fs (Some audio) n = Cont (v, Some s') /\ vad_ok s' /\
    ((valid_frame fs n /\ (v = 0 \/ v = 1)) \/ (~ valid_frame fs n /\ v = -1 /\ s' = s)).
Proof.
  intros Hs Ha. unfold WebRtcVad_Process. rewrite (v_init s Hs), Z.eqb_refl. cbn [negb].
  destruct (ValidRateAndFrameLength_spec fs n) as [[Hv ->]|[Hv ->]]; cbn [Z.eqb negb];
    [|exists (-1), s; split; [reflexivity|]; auto].
  specialize (Ha Hv).
  set (m := if fs =? 48000 then _ else _).
  assert (Hm : gives m decision_ok).
  { subst m. destruct Hv as [[->|[->|[->| ->]]] (ms & Hms & Hn)]; cbn [Z.eqb Pos.eqb].
    - apply gives_CalcVad8khz; [done|zdm|done].
    - apply gives_CalcVad16khz; [done|zdm|done].
    - apply gives_CalcVad32khz; [done|zdm|done].
    - apply gives_CalcVad48khz; [done|zdm|done]. }
  destruct Hm as ([v s'] & -> & Hv' & Hs'). cbn [fst snd flow_bind] in *.
  exists (if 0 <? v then 1 else v), s'. split; [reflexivity|]. split; [done|].
  left. split; [done|]. destruct (Z.ltb_spec 0 v); lia.
Qed.

(** ** Sessions *)

(** What a client calls after WebRtcVad_Init. *)
Inductive call : Type :=
| SetMode (mode : Z)
| Frame (fs : Z) (audio : list Z) (frame_length : Z).

Definition do_call {R : Type} (beyond : option Z) (c : call) (h : option VadInstT)
  : flow R (Z * option VadInstT) :=
  match c with
  | SetMode m => Cont (WebRtcVad_set_mode h m)
  | Frame fs audio n => WebRtcVad_Process beyond h fs (Some audio) n
  end.

(** The answers to a sequence of calls. *)
Fixpoint session {R : Type} (beyond : option Z) (calls : list call) (h : option VadInstT)
  : flow R (list Z) :=
  match calls with
  | [] => Cont []
  | c :: calls =>
      let! (v, h) := do_call beyond c h in
      let! vs := session beyond calls h in
      Cont (v :: vs)
  end.

(** The audio of an accepted frame is long enough. *)
Definition supplied (c : call) : Prop :=
  match c with SetMode _ => True | Frame fs audio n => valid_frame fs n -> n <= Zlen audio end.

(** The answers that the interface documents. *)
Definition answer (c : call) (v : Z) : Prop :=
  match c with
  | SetMode m => v = if is_mode m then 0 else -1
  | Frame fs _ n => (valid_frame fs n /\ (v = 0 \/ v = 1)) \/ (~ valid_frame fs n /\ v = -1)
  end.

Lemma do_call_spec {R} x c s :
  vad_ok s -> supplied c ->
  exists v s', do_call (R := R) (Some x) c (Some s) = Cont (v, Some s') /\ vad_ok s' /\ answer c v.
Proof.
  intros Hs Hc. destruct c as [m|fs audio n]; cbn [do_call supplied answer] in *.
  - unfold WebRtcVad_set_mode. rewrite (v_init s Hs), Z.eqb_refl. cbn [negb].
    destruct (set_mode_core_spec s m Hs) as [Hr Hs'].
    destruct (WebRtcVad_set_mode_core s m) as [r s']. cbn [fst snd] in *. exists r, s'. auto.
  - destruct (Process_spec (R := R) x s fs audio n Hs Hc) as (v & s' & E & Hs' & Hv).
    exists v, s'. split; [exact E|]. split; [done|]. tauto.
Qed.

(** *** What lies beyond the arrays of the minimum tracking

    [rel] compares the runs with two values beyond; it is equality for two values, and
    [or_stuck] when one run has none. *)
Section beyond.
Variables o1 o2 : option Z.
Variable rel : forall R A : Type, flow R A -> flow R A -> Prop.
Hypothesis rel_refl : forall R A (m : flow R A), rel R A m m.
Hypothesis rel_bind : forall R A B (m m' : flow R A) (k k' : A -> flow R B),
  rel R A m m' -> (forall a, rel R B (k a) (k' a)) -> rel R B (flow_bind m k) (flow_bind m' k').
Hypothesis rel_minimum : forall R s f c,
  rel R (Z * VadInstT) (WebRtcVad_FindMinimum o1 s f c) (WebRtcVad_FindMinimum o2 s f c).

Lemma rel_for {R St} (body body' : Z -> St -> flow R St) n i s :
  (forall j s, rel R St (body j s) (body' j s)) -> rel R St (for_up n i body s) (for_up n i body' s).
Proof.
  intros H. revert i s. induction n as [|n IH]; intros i s; [apply rel_refl|]. cbn [for_up].
  apply rel_bind; [apply H|]. intros s'. apply IH.
Qed.

Lemma rel_update_channel {R} l speech features channel st :
  rel R _ (update_channel o1 l speech features channel st) (update_channel o2 l speech features channel st).
Proof.
  destruct st as [maxspe self]. unfold update_channel. apply rel_bind; [apply rel_refl|]. intros feature.
  apply rel_bind; [apply rel_minimum|]. intros [fm self']. apply rel_refl.
Qed.

Lemma rel_GmmProbability {R} self features power n :
  rel R _ (GmmProbability o1 self features power n) (GmmProbability o2 self features power n).
Proof.
  unfold GmmProbability. cbv zeta. do 4 (apply rel_bind; [apply rel_refl|]; intros ?).
  apply rel_bind; [|intros [flag self']; apply rel_refl]. destruct (_ <? power); [|apply rel_refl].
  apply rel_bind; [apply rel_refl|]. intros l. apply rel_bind; [|intros [m self']; apply rel_refl].
  apply rel_for. intros j st. apply rel_update_channel.
Qed.

Lemma rel_CalcVad8khz {R} s audio n :
  rel R _ (WebRtcVad_CalcVad8khz o1 s audio n) (WebRtcVad_CalcVad8khz o2 s audio n).
Proof.
  unfold WebRtcVad_CalcVad8khz. apply rel_bind; [apply rel_refl|]. intros [[power features] s'].
  apply rel_bind; [apply rel_GmmProbability|]. intros [v s'']. apply rel_refl.
Qed.

Lemma rel_Process {R} h fs audio n :
  rel R _ (WebRtcVad_Process o1 h fs audio n) (WebRtcVad_Process o2 h fs audio n).
Proof.
  unfold WebRtcVad_Process. destruct h as [self|]; [|apply rel_refl]. destruct audio as [audio|]; [|apply rel_refl].
  destruct (negb _); [apply rel_refl|]. destruct (negb _); [apply rel_refl|].
  apply rel_bind; [|intros [v s']; apply rel_refl].
  destruct (fs =? 48000); [|destruct (fs =? 32000); [|destruct (fs =? 16000);
    [|destruct (fs =? 8000); [apply rel_CalcVad8khz|apply rel_refl]]]].
  - unfold WebRtcVad_CalcVad48khz. cbv zeta. apply rel_bind; [apply rel_refl|]. intros [[nb st] tmp]. apply rel_CalcVad8khz.
  - unfold WebRtcVad_CalcVad32khz. cbv zeta. apply rel_bind; [apply rel_refl|]. intros [wb ds].
    apply rel_bind; [apply rel_refl|]. intros [nb ds']. apply rel_CalcVad8khz.
  - unfold WebRtcVad_CalcVad16khz. cbv zeta. apply rel_bind; [apply rel_refl|]. intros [nb ds]. apply rel_CalcVad8khz.
Qed.

Lemma rel_session {R} calls h : rel R _ (session o1 calls h) (session o2 calls h).
Proof.
  revert h. induction calls as [|c calls IH]; intros h; [apply rel_refl|]. cbn [session].
  apply rel_bind; [destruct c; [apply rel_refl|apply rel_Process]|]. intros [v h'].
  apply rel_bind; [apply IH|]. intros vs. apply rel_refl.
Qed.
End beyond.

Lemma session_beyond {R} x y calls h : session (R := R) (Some x) calls h = session (Some y) calls h.
Proof.
  assert (H := rel_session (Some x) (Some y) (fun R A (m m' : flow R A) => m = m')). cbv beta in H.
  apply H; clear H.
  - done.
  - intros R' A B m m' k k' -> H. by apply flow_bind_ext.
  - intros R' s f c. apply FindMinimum_beyond.
Qed.

Lemma session_or_stuck {R} x calls h : or_stuck (session (R := R) None calls h) (session (Some x) calls h).
Proof.
  assert (H := rel_session None (Some x) (fun R A (m m' : flow R A) => or_stuck m m')). cbv beta in H.
  apply H; clear H.
  - by right.
  - intros R' A B m m' k k'. apply or_stuck_bind.
  - intros R' s f c. apply FindMinimum_or_stuck.
Qed.

Lemma session_spec {R} x calls s0 :
  vad_ok s0 -> Forall supplied calls ->
  exists vs, session (R := R) (Some x) calls (Some s0) = Cont vs /\ Forall2 answer calls vs.
Proof.
  intros H0 Hc. revert s0 H0. induction Hc as [|c calls Hc _ IH]; intros s0 H0; [by exists []|].
  destruct (do_call_spec (R := R) x c s0 H0 Hc) as (v & s1 & E & H1 & Hv).
  destruct (IH s1 H1) as (vs & E' & Hvs). exists (v :: vs). cbn [session]. rewrite E. cbn [flow_bind].
  rewrite E'. auto.
Qed.

(** C37: after WebRtcVad_Init, on any memory that WebRtcVad_Create gave, every sequence of
    mode changes and frames is answered as documented: a mode 0 to 3 by 0 and another by
    -1, a frame of 10, 20 or 30 ms at 8, 16, 32 or 48 kHz by 0 or 1 and another by -1.
    Every array access is within its array but one: WebRtcVad_FindMinimum reads the
    element after the end of index_vector and of low_value_vector when an entry of the last
    channel expires ([FindMinimum_overread]).  The answers are the same whatever value [x]
    is read there; a run in which that read counts as undefined ([None]) has these answers
    too, unless it gets to the read and stops there. *)
Theorem session_answers {R} s calls :
  Forall supplied calls ->
  exists s0 vs,
    WebRtcVad_Init (Some s) = (0, Some s0) /\ Forall2 answer calls vs /\
    (forall x, session (R := R) (Some x) calls (Some s0) = Cont vs) /\
    (session (R := R) None calls (Some s0) = Cont vs \/ session (R := R) None calls (Some s0) = Stuck).
Proof.
  intros Hc. destruct (InitCore_spec s) as (s0 & E0 & H0 & _).
  destruct (session_spec (R := R) 0 calls s0 H0 Hc) as (vs & E & Hvs). exists s0, vs. do 2 (split; [done|]).
  split; [intros x; by rewrite (session_beyond x 0)|].
  destruct (session_or_stuck (R := R) 0 calls (Some s0)) as [->| ->]; [by right|by left].
Qed.

(** A tone, as 16-bit samples. *)
Definition tone (n : nat) : list Z := map (fun i => (Z.of_nat i * 37) mod 8000 - 4000) (seq 0 n).

Lemma session_answers_witness :
  exists s0 vs, WebRtcVad_Init (Some initial_minimum) = (0, Some s0) /\ length vs = 4%nat /\
    forall x, session (R := Z) (Some x) [SetMode 3; SetMode 4; Frame 8000 (tone 80) 80; Frame 8000 (tone 81) 81]
      (Some s0) = Cont vs.
Proof.
  destruct (session_answers (R := Z) initial_minimum
    [SetMode 3; SetMode 4; Frame 8000 (tone 80) 80; Frame 8000 (tone 81) 81]) as (s0 & vs & H1 & H2 & H3 & _).
  - repeat (apply Forall_cons; split; [cbn [supplied]; try done; intros _; vm_compute; congruence|]).
    by apply Forall_nil.
  - exists s0, vs. split; [exact H1|]. split; [symmetry; apply (Forall2_length _ _ _ H2)|exact H3].
Defined.

(** ** Hangover *)

(** The decisions for a sequence of frame flags, and the counters after it. *)
Fixpoint hangovers (o1 o2 : Z) (flags : list Z) (oh ns : Z) : list Z * Z * Z :=
  match flags with
  | [] => ([], oh, ns)
  | f :: flags =>
      let '(v, oh, ns) := hangover o1 o2 f oh ns in
      let '(vs, oh, ns) := hangovers o1 o2 flags oh ns in
      (v :: vs, oh, ns)
  end.

Lemma hangovers_app o1 o2 a b oh ns :
  hangovers o1 o2 (a ++ b) oh ns =
  let '(va, oh, ns) := hangovers o1 o2 a oh ns in
  let '(vb, oh, ns) := hangovers o1 o2 b oh ns in (va ++ vb, oh, ns).
Proof.
  revert oh ns. induction a as [|f a IH]; intros oh ns; cbn [hangovers app].
  - by destruct (hangovers o1 o2 b oh ns) as [[? ?] ?].
  - destruct (hangover o1 o2 f oh ns) as [[v oh1] ns1]. rewrite IH.
    destruct (hangovers o1 o2 a oh1 ns1) as [[va oh2] ns2].
    by destruct (hangovers o1 o2 b oh2 ns2) as [[vb oh3] ns3].
Qed.

(** A run of speech frames. *)
Lemma hangovers_speech o1 o2 k oh ns :
  0 <= ns <= 6 ->
  hangovers o1 o2 (replicate (S k) 1) oh ns =
  (replicate (S k) 1, if ns + Z.of_nat (S k) <=? 6 then o1 else o2, Z.min 6 (ns + Z.of_nat (S k))).
Proof.
  revert oh ns. induction k as [|k IH]; intros oh ns Hn.
  - cbn [replicate hangovers]. change (Z.of_nat 1) with 1.
    unfold hangover, kMaxSpeechFrames. cbn [Z.eqb]. rewrite s16_id by (unfold is_s16; lia).
    destruct (Z.ltb_spec 6 (ns + 1)), (Z.leb_spec (ns + 1) 6); try lia; f_equal; lia.
  - change (replicate (S (S k)) 1) with (1 :: replicate (S k) 1). cbn [hangovers].
    unfold hangover at 1, kMaxSpeechFrames. cbn [Z.eqb]. rewrite s16_id by (unfold is_s16; lia).
    destruct (Z.ltb_spec 6 (ns + 1)); rewrite IH by lia; zcases; try lia; f_equal; lia.
Qed.

(** A run of silent frames. *)
Definition fading (h : Z) (m : nat) : list Z :=
  map (fun i => if Z.of_nat i <? h then 2 + (h - Z.of_nat i) else 0) (seq 0 m).

Lemma fading_S h m : fading h (S m) = (if 0 <? h then 2 + h else 0) :: fading (Z.max 0 (h - 1)) m.
Proof.
  unfold fading. cbn [seq map]. f_equal; [zcases; lia|].
  rewrite <- seq_shift, map_map. apply map_ext. intros i. zcases; lia.
Qed.

Lemma hangovers_silence o1 o2 m oh ns :
  0 <= oh <= 14 ->
  (hangovers o1 o2 (replicate m 0) oh ns).1.1 = fading oh m.
Proof.
  revert oh ns. induction m as [|m IH]; intros oh ns Ho; [done|].
  rewrite fading_S. change (replicate (S m) 0) with (0 :: replicate m 0). cbn [hangovers].
  unfold hangover. cbn [Z.eqb]. destruct (Z.ltb_spec 0 oh).
  - rewrite !s16_id by (unfold is_s16; lia). specialize (IH (oh - 1) 0 ltac:(lia)).
    destruct (hangovers o1 o2 (replicate m 0) (oh - 1) 0) as [[vs ?] ?]. cbn in *.
    rewrite IH. do 2 f_equal. lia.
  - specialize (IH oh 0 Ho). destruct (hangovers o1 o2 (replicate m 0) oh 0) as [[vs ?] ?].
    cbn in *. rewrite IH. do 2 f_equal. lia.
Qed.

(** After silence, [k] frames of speech are reported as speech, and the silence
    after them stays active for [o1] frames if the burst had at most 6 frames and
    for [o2] frames if it was longer, with decisions that count down to 3; then the
    decision is 0. *)
Theorem hangover_bursts o1 o2 oh k m :
  0 <= o1 <= 14 -> 0 <= o2 <= 14 ->
  (hangovers o1 o2 (replicate (S k) 1 ++ replicate m 0) oh 0).1.1 =
  replicate (S k) 1 ++ fading (if Z.of_nat (S k) <=? 6 then o1 else o2) m.
Proof.
  intros H1 H2. rewrite hangovers_app, hangovers_speech by lia. rewrite Z.add_0_l.
  set (h := if _ <=? 6 then o1 else o2).
  assert (Hh : 0 <= h <= 14) by (subst h; case_match; lia).
  assert (Hs := hangovers_silence o1 o2 m h (Z.min 6 (Z.of_nat (S k))) Hh).
  destruct (hangovers o1 o2 (replicate m 0) h _) as [[vs ?] ?]. cbn in *. by rewrite Hs.
Qed.

Lemma hangover_bursts_witness :
  (hangovers 8 14 (replicate 2 1 ++ replicate 10 0) 0 0).1.1
  = [1; 1; 10; 9; 8; 7; 6; 5; 4; 3; 0; 0].
Proof. rewrite (hangover_bursts 8 14 0 1 10); [reflexivity|lia|lia]. Defined.

(** ** 48 kHz *)

(** At 48 kHz a frame of 20 or 30 ms is judged by its first 10 ms: samples after
    the first 480 do not change the decision or the state. *)
Theorem CalcVad48khz_first_block {R} beyond s a b n :
  480 <= Zlen a -> 480 <= Zlen b -> ztake 480 a = ztake 480 b ->
  WebRtcVad_CalcVad48khz (R := R) beyond s a n = WebRtcVad_CalcVad48khz beyond s b n.
Proof.
  intros Ha Hb E. unfold WebRtcVad_CalcVad48khz. cbv zeta. f_equal.
  apply for_up_ext. intros i [[nb st] tmp] _. by apply Resample48khzTo8khz_prefix.
Qed.

Lemma CalcVad48khz_first_block_witness :
  WebRtcVad_CalcVad48khz (R := Z) (Some 0) initial_minimum (tone 480 ++ zeros 480) 960 =
  WebRtcVad_CalcVad48khz (Some 0) initial_minimum (tone 480 ++ replicate 480 1000) 960.
Proof.
  apply (CalcVad48khz_first_block (Some 0) initial_minimum (tone 480 ++ zeros 480)
           (tone 480 ++ replicate 480 1000) 960); vm_compute; congruence || reflexivity.
Defined.
