(* ===== verification/RtpWire.v ===== *)
(** * Network byte order and wrapping sequence numbers

    Models the byte order functions of [modules/rtp_rtcp/source/rtp_utility.cc] (the
    little-endian branches) and the comparisons of
    [modules/interface/module_common_types.h].  A pointer into a buffer is the
    buffer and an offset. *)
From S2P Require Import Prelude.
Local Open Scope Z_scope.

(** A 64-bit signed integer. *)
Definition s64 (z : Z) : Z := (z + 2 ^ 63) mod 2 ^ 64 - 2 ^ 63.

(** Sizes of [modules/rtp_rtcp/interface/rtp_rtcp_defines.h]. *)
Definition IP_PACKET_SIZE : Z := 1500.
Definition kRtpHeaderSize : Z := 12.

(** ** Byte order *)

Definition AssignUWord32ToBuffer {R : Type} (dataBuffer : list Z) (p value : Z)
  : flow R (list Z) :=
  let! dataBuffer := wr dataBuffer p (u8 (Z.shiftr value 24)) in
  let! dataBuffer := wr dataBuffer (p + 1) (u8 (Z.shiftr value 16)) in
  let! dataBuffer := wr dataBuffer (p + 2) (u8 (Z.shiftr value 8)) in
  wr dataBuffer (p + 3) (u8 value).

Definition AssignUWord24ToBuffer {R : Type} (dataBuffer : list Z) (p value : Z)
  : flow R (list Z) :=
  let! dataBuffer := wr dataBuffer p (u8 (Z.shiftr value 16)) in
  let! dataBuffer := wr dataBuffer (p + 1) (u8 (Z.shiftr value 8)) in
  wr dataBuffer (p + 2) (u8 value).

Definition AssignUWord16ToBuffer {R : Type} (dataBuffer : list Z) (p value : Z)
  : flow R (list Z) :=
  let! dataBuffer := wr dataBuffer p (u8 (Z.shiftr value 8)) in
  wr dataBuffer (p + 1) (u8 value).

Definition BufferToUWord16 {R : Type} (dataBuffer : list Z) (p : Z) : flow R Z :=
  let! b0 := rd dataBuffer p in
  let! b1 := rd dataBuffer (p + 1) in
  Cont (u16 (Z.shiftl b0 8 + b1)).

Definition BufferToUWord24 {R : Type} (dataBuffer : list Z) (p : Z) : flow R Z :=
  let! b0 := rd dataBuffer p in
  let! b1 := rd dataBuffer (p + 1) in
  let! b2 := rd dataBuffer (p + 2) in
  Cont (u32 (Z.shiftl b0 16 + Z.shiftl b1 8 + b2)).

Definition BufferToUWord32 {R : Type} (dataBuffer : list Z) (p : Z) : flow R Z :=
  let! b0 := rd dataBuffer p in
  let! b1 := rd dataBuffer (p + 1) in
  let! b2 := rd dataBuffer (p + 2) in
  let! b3 := rd dataBuffer (p + 3) in
  Cont (u32 (Z.shiftl b0 24 + Z.shiftl b1 16 + Z.shiftl b2 8 + b3)).

(** ** Sequence numbers and timestamps *)

Definition IsNewerSequenceNumber (sequence_number prev_sequence_number : Z) : bool :=
  negb (sequence_number =? prev_sequence_number) &&
  (u16 (sequence_number - prev_sequence_number) <? 32768).

Definition IsNewerTimestamp (timestamp prev_timestamp : Z) : bool :=
  negb (timestamp =? prev_timestamp) &&
  (u32 (timestamp - prev_timestamp) <? 2147483648).

Definition LatestSequenceNumber (sequence_number1 sequence_number2 : Z) : Z :=
  if IsNewerSequenceNumber sequence_number1 sequence_number2
  then sequence_number1 else sequence_number2.

Definition LatestTimestamp (timestamp1 timestamp2 : Z) : Z :=
  if IsNewerTimestamp timestamp1 timestamp2 then timestamp1 else timestamp2.

(** ** The bytes of a number *)

Definition be16 (v : Z) : list Z := [u8 (Z.shiftr v 8); u8 v].
Definition be24 (v : Z) : list Z := [u8 (Z.shiftr v 16); u8 (Z.shiftr v 8); u8 v].
Definition be32 (v : Z) : list Z :=
  [u8 (Z.shiftr v 24); u8 (Z.shiftr v 16); u8 (Z.shiftr v 8); u8 v].

(** A store of bytes at an offset. *)
Definition put (buf : list Z) (p : Z) (bs : list Z) : list Z :=
  ztake p buf ++ bs ++ zdrop (p + Zlen bs) buf.

Lemma Zlen_put buf p bs : 0 <= p -> p + Zlen bs <= Zlen buf -> Zlen (put buf p bs) = Zlen buf.
Proof.
  intros. assert (Hb := Zlen_nonneg bs). unfold put.
  rewrite !Zlen_app, Zlen_ztake, Zlen_zdrop by lia. lia.
Qed.

Lemma put_one {R} buf p x :
  0 <= p < Zlen buf -> wr (R := R) buf p x = Cont (put buf p [x]).
Proof.
  intros Hp. rewrite wr_Cont by done. unfold put. rewrite insert_take_drop by (unfold Zlen in Hp; lia).
  change (Zlen [x]) with 1. unfold ztake, zdrop. cbn [app]. by replace (S (Z.to_nat p)) with (Z.to_nat (p + 1)) by lia.
Qed.

Lemma put_put buf p a b :
  0 <= p -> p + Zlen a + Zlen b <= Zlen buf -> put (put buf p a) (p + Zlen a) b = put buf p (a ++ b).
Proof.
  intros. assert (Ha := Zlen_nonneg a). assert (Hb := Zlen_nonneg b). unfold put.
  assert (Ht : Zlen (ztake p buf) = p) by (apply Zlen_ztake; lia).
  rewrite ztake_app_ge by lia. rewrite Ht. rewrite ztake_app_le by lia.
  rewrite (ztake_all _ a) by lia. rewrite zdrop_app_ge by lia. rewrite Ht.
  rewrite zdrop_app_ge by lia. rewrite zdrop_zdrop by lia. rewrite Zlen_app, <- !app_assoc.
  do 4 f_equal. lia.
Qed.

Lemma put_step {R} buf p a x q :
  0 <= p -> q = p + Zlen a -> q < Zlen buf ->
  wr (R := R) (put buf p a) q x = Cont (put buf p (a ++ [x])).
Proof.
  intros H0 -> Hq. assert (Ha := Zlen_nonneg a).
  rewrite put_one by (rewrite Zlen_put; lia). f_equal. apply put_put; [done|].
  change (Zlen [x]) with 1. lia.
Qed.

(** What follows the bytes of a store is part of it as well. *)
Lemma put_extend buf p a n :
  0 <= p -> 0 <= n -> p + Zlen a + n <= Zlen buf ->
  put buf p a = put buf p (a ++ ztake n (zdrop (p + Zlen a) buf)).
Proof.
  intros. assert (Ha := Zlen_nonneg a). unfold put. f_equal. rewrite <- app_assoc. f_equal.
  rewrite Zlen_app, Zlen_ztake by (rewrite Zlen_zdrop; lia).
  rewrite Z.add_assoc, <- (zdrop_zdrop n (p + Zlen a)) by lia. by rewrite ztake_zdrop.
Qed.

(** A store within the bytes of a store. *)
Lemma put_inside buf p a b b' c q :
  0 <= p -> q = p + Zlen a -> Zlen b' = Zlen b -> p + Zlen a + Zlen b + Zlen c <= Zlen buf ->
  put (put buf p (a ++ b ++ c)) q b' = put buf p (a ++ b' ++ c).
Proof.
  intros H0 -> Hb Hl. assert (Ha := Zlen_nonneg a). assert (Hb0 := Zlen_nonneg b).
  assert (Hc0 := Zlen_nonneg c). unfold put.
  assert (Ht : Zlen (ztake p buf) = p) by (apply Zlen_ztake; lia).
  rewrite ztake_app_ge, Ht by lia. rewrite <- !app_assoc. f_equal.
  rewrite ztake_app_le by lia. rewrite ztake_all by lia. f_equal. f_equal.
  rewrite zdrop_app_ge, Ht by lia. rewrite zdrop_app_ge by lia. rewrite zdrop_app_ge by lia.
  rewrite zdrop_0 by lia. rewrite !Zlen_app. by rewrite Hb.
Qed.

(** Reading an element that a decomposition of the array shows. *)
Lemma rd_app {R A} (a b : list A) x p :
  p = Zlen a -> rd (R := R) (a ++ x :: b) p = Cont x.
Proof.
  unfold Zlen. intros ->. apply rd_Cont; [lia|]. rewrite Nat2Z.id.
  rewrite lookup_app_r by lia. by rewrite Nat.sub_diag.
Qed.

Lemma rd_app_at {R A} (a : list A) k j :
  0 <= j -> rd (R := R) (a ++ k) (Zlen a + j) = rd k j.
Proof.
  intros Hj. unfold rd, Zlen. destruct (Z.ltb_spec (Z.of_nat (length a) + j) 0); [lia|].
  destruct (Z.ltb_spec j 0); [lia|]. rewrite lookup_app_r by lia. do 2 f_equal.
  replace (Z.to_nat (Z.of_nat (length a) + j) - length a)%nat with (Z.to_nat j) by lia. done.
Qed.

Lemma rd_put {R} buf p bs q x :
  0 <= p -> p <= Zlen buf -> 0 <= q - p -> bs !! Z.to_nat (q - p) = Some x ->
  rd (R := R) (put buf p bs) q = Cont x.
Proof.
  intros Hp Hl Hq Hx. unfold put. assert (Ht : Zlen (ztake p buf) = p) by (apply Zlen_ztake; lia).
  replace q with (Zlen (ztake p buf) + (q - p)) by lia. rewrite rd_app_at by lia.
  apply rd_Cont; [lia|]. by apply lookup_app_l_Some.
Qed.

Lemma put_0 buf bs : put buf 0 bs = bs ++ zdrop (Zlen bs) buf.
Proof. unfold put. rewrite ztake_0 by lia. done. Qed.

Lemma AssignUWord32_put {R} buf p v :
  0 <= p -> p + 4 <= Zlen buf -> AssignUWord32ToBuffer (R := R) buf p v = Cont (put buf p (be32 v)).
Proof.
  intros. unfold AssignUWord32ToBuffer. rewrite put_one by lia. cbn [flow_bind].
  rewrite put_step by (done || (unfold Zlen in *; simpl; lia)). cbn [flow_bind app].
  rewrite put_step by (done || (unfold Zlen in *; simpl; lia)). cbn [flow_bind app].
  by rewrite put_step by (done || (unfold Zlen in *; simpl; lia)).
Qed.

Lemma AssignUWord24_put {R} buf p v :
  0 <= p -> p + 3 <= Zlen buf -> AssignUWord24ToBuffer (R := R) buf p v = Cont (put buf p (be24 v)).
Proof.
  intros. unfold AssignUWord24ToBuffer. rewrite put_one by lia. cbn [flow_bind].
  rewrite put_step by (done || (unfold Zlen in *; simpl; lia)). cbn [flow_bind app].
  by rewrite put_step by (done || (unfold Zlen in *; simpl; lia)).
Qed.

Lemma AssignUWord16_put {R} buf p v :
  0 <= p -> p + 2 <= Zlen buf -> AssignUWord16ToBuffer (R := R) buf p v = Cont (put buf p (be16 v)).
Proof.
  intros. unfold AssignUWord16ToBuffer. rewrite put_one by lia. cbn [flow_bind].
  by rewrite put_step by (done || (unfold Zlen in *; simpl; lia)).
Qed.

(** The stores one after another. *)
Lemma Zlen_be16 v : Zlen (be16 v) = 2. Proof. reflexivity. Qed.
Lemma Zlen_be24 v : Zlen (be24 v) = 3. Proof. reflexivity. Qed.
Lemma Zlen_be32 v : Zlen (be32 v) = 4. Proof. reflexivity. Qed.

(** Lengths of lists of bytes, which are not negative. *)
Ltac zlen :=
  rewrite ?(@Zlen_app Z), ?Zlen_be16, ?Zlen_be24, ?Zlen_be32, ?(@Zlen_cons Z), ?(@Zlen_nil Z) in *;
  repeat match goal with
  | |- context [Zlen ?l] =>
      lazymatch goal with H : 0 <= Zlen l |- _ => fail | _ => pose proof (Zlen_nonneg l) end
  | _ : context [Zlen ?l] |- _ =>
      lazymatch goal with H : 0 <= Zlen l |- _ => fail | _ => pose proof (Zlen_nonneg l) end
  end; lia.

Lemma AssignUWord16_step {R} buf p a q v :
  0 <= p -> q = p + Zlen a -> q + 2 <= Zlen buf ->
  AssignUWord16ToBuffer (R := R) (put buf p a) q v = Cont (put buf p (a ++ be16 v)).
Proof.
  intros H0 -> Hq. pose proof (Zlen_nonneg a).
  rewrite AssignUWord16_put by (rewrite ?Zlen_put by lia; lia).
  by rewrite put_put by zlen.
Qed.

Lemma AssignUWord24_step {R} buf p a q v :
  0 <= p -> q = p + Zlen a -> q + 3 <= Zlen buf ->
  AssignUWord24ToBuffer (R := R) (put buf p a) q v = Cont (put buf p (a ++ be24 v)).
Proof.
  intros H0 -> Hq. pose proof (Zlen_nonneg a).
  rewrite AssignUWord24_put by (rewrite ?Zlen_put by lia; lia).
  by rewrite put_put by zlen.
Qed.

Lemma AssignUWord32_step {R} buf p a q v :
  0 <= p -> q = p + Zlen a -> q + 4 <= Zlen buf ->
  AssignUWord32ToBuffer (R := R) (put buf p a) q v = Cont (put buf p (a ++ be32 v)).
Proof.
  intros H0 -> Hq. pose proof (Zlen_nonneg a).
  rewrite AssignUWord32_put by (rewrite ?Zlen_put by lia; lia).
  by rewrite put_put by zlen.
Qed.

Lemma bytes32 v :
  Z.shiftl (u8 (Z.shiftr v 24)) 24 + Z.shiftl (u8 (Z.shiftr v 16)) 16
  + Z.shiftl (u8 (Z.shiftr v 8)) 8 + u8 v = u32 v.
Proof. rewrite !Z.shiftr_div_pow2, !Z.shiftl_mul_pow2 by lia. unfold u8, u32. zdm. Qed.

Lemma bytes24 v :
  Z.shiftl (u8 (Z.shiftr v 16)) 16 + Z.shiftl (u8 (Z.shiftr v 8)) 8 + u8 v = v mod 2 ^ 24.
Proof. rewrite !Z.shiftr_div_pow2, !Z.shiftl_mul_pow2 by lia. unfold u8. zdm. Qed.

Lemma bytes16 v : Z.shiftl (u8 (Z.shiftr v 8)) 8 + u8 v = u16 v.
Proof. rewrite !Z.shiftr_div_pow2, !Z.shiftl_mul_pow2 by lia. unfold u8, u16. zdm. Qed.

(** Reading back the bytes of a number. *)
Lemma Word16_be {R} a v r p :
  p = Zlen a -> BufferToUWord16 (R := R) (a ++ be16 v ++ r) p = Cont (u16 v).
Proof.
  intros ->. unfold BufferToUWord16. rewrite <- (Z.add_0_r (Zlen a)) at 1.
  rewrite !rd_app_at by lia.
  change (Cont (R := R) (u16 (Z.shiftl (u8 (Z.shiftr v 8)) 8 + u8 v)) = Cont (u16 v)). rewrite bytes16. by rewrite u16_id by apply u16_range.
Qed.

Lemma Word24_be {R} a v r p :
  p = Zlen a -> BufferToUWord24 (R := R) (a ++ be24 v ++ r) p = Cont (v mod 2 ^ 24).
Proof.
  intros ->. unfold BufferToUWord24. rewrite <- (Z.add_0_r (Zlen a)) at 1.
  rewrite !rd_app_at by lia.
  change (Cont (R := R) (u32 (Z.shiftl (u8 (Z.shiftr v 16)) 16 + Z.shiftl (u8 (Z.shiftr v 8)) 8 + u8 v))
    = Cont (v mod 2 ^ 24)). rewrite bytes24. by rewrite u32_id by (unfold is_u32; zdm).
Qed.

Lemma Word32_be {R} a v r p :
  p = Zlen a -> BufferToUWord32 (R := R) (a ++ be32 v ++ r) p = Cont (u32 v).
Proof.
  intros ->. unfold BufferToUWord32. rewrite <- (Z.add_0_r (Zlen a)) at 1.
  rewrite !rd_app_at by lia.
  change (Cont (R := R) (u32 (Z.shiftl (u8 (Z.shiftr v 24)) 24 + Z.shiftl (u8 (Z.shiftr v 16)) 16
    + Z.shiftl (u8 (Z.shiftr v 8)) 8 + u8 v)) = Cont (u32 v)). rewrite bytes32. by rewrite u32_id by apply u32_range.
Qed.

(** ** Copies of parts *)

Lemma blk_get_app {R} (a b c : list Z) off n :
  off = Zlen a -> n = Zlen b -> blk_get (R := R) (a ++ b ++ c) off n = Cont b.
Proof.
  intros -> ->. assert (Ha := Zlen_nonneg a). assert (Hb := Zlen_nonneg b). assert (Hc := Zlen_nonneg c).
  rewrite blk_get_Cont by (rewrite ?Zlen_app; lia). f_equal.
  rewrite zdrop_app_ge, Z.sub_diag, zdrop_0 by lia. by rewrite ztake_app_le, ztake_all by lia.
Qed.

Lemma blk_get_front {R} (b c : list Z) n :
  n = Zlen b -> blk_get (R := R) (b ++ c) 0 n = Cont b.
Proof. by apply (blk_get_app []). Qed.

Lemma blk_put_put {R} (buf src : list Z) p :
  0 <= p -> p + Zlen src <= Zlen buf -> blk_put (R := R) buf p src = Cont (put buf p src).
Proof. apply blk_put_Cont. Qed.

Lemma blk_put_step {R} (buf a b : list Z) p q :
  0 <= p -> q = p + Zlen a -> q + Zlen b <= Zlen buf ->
  blk_put (R := R) (put buf p a) q b = Cont (put buf p (a ++ b)).
Proof.
  intros H0 -> Hq. assert (Ha := Zlen_nonneg a). assert (Hb := Zlen_nonneg b).
  rewrite blk_put_put by (rewrite ?Zlen_put; lia). by rewrite put_put by lia.
Qed.

(** ** The order of wrapping numbers *)

(** For numbers less than half of the range apart the comparison is the order of
    the numbers before they were wrapped. *)
Lemma IsNewerSequenceNumber_window a b :
  Z.abs (a - b) < 32768 -> IsNewerSequenceNumber (u16 a) (u16 b) = (b <? a).
Proof.
  intros H. unfold IsNewerSequenceNumber. 
  destruct (Z.eqb_spec (u16 a) (u16 b)), (Z.ltb_spec (u16 (u16 a - u16 b)) 32768), (Z.ltb_spec b a);
    cbn [negb andb]; try done; unfold u16 in *; zdm.
Qed.

Lemma IsNewerTimestamp_window a b :
  Z.abs (a - b) < 2147483648 -> IsNewerTimestamp (u32 a) (u32 b) = (b <? a).
Proof.
  intros H. unfold IsNewerTimestamp.
  destruct (Z.eqb_spec (u32 a) (u32 b)), (Z.ltb_spec (u32 (u32 a - u32 b)) 2147483648),
    (Z.ltb_spec b a); cbn [negb andb]; try done; unfold u32 in *; zdm.
Qed.
