(* ===== verification/RtpExtMap.v ===== *)
(** * The RTP header extension map

    Models [modules/rtp_rtcp/source/rtp_header_extension.h] and
    [rtp_header_extension.cc].  The [std::map] from ids to extensions is the list of
    its pairs in the order of the ids, the order in which it is walked. *)
From S2P Require Import Prelude.
Local Open Scope Z_scope.

Inductive RTPExtensionType : Type :=
| kRtpExtensionNone
| kRtpExtensionTransmissionTimeOffset
| kRtpExtensionAudioLevel
| kRtpExtensionAbsoluteSendTime.

#[export] Instance RTPExtensionType_eq_dec : EqDecision RTPExtensionType.
Proof. solve_decision. Defined.

Definition kRtpOneByteHeaderExtensionId : Z := 48862.
Definition kRtpOneByteHeaderLength : Z := 4.
Definition kTransmissionTimeOffsetLength : Z := 4.
Definition kAudioLevelLength : Z := 4.
Definition kAbsoluteSendTimeLength : Z := 4.

Record HeaderExtension : Type := mkHeaderExtension { ext_type : RTPExtensionType; ext_length : Z }.

(** The constructor; its assertion is off. *)
Definition new_HeaderExtension (extension_type : RTPExtensionType) : HeaderExtension :=
  mkHeaderExtension extension_type
    match extension_type with
    | kRtpExtensionTransmissionTimeOffset => kTransmissionTimeOffsetLength
    | kRtpExtensionAudioLevel => kAudioLevelLength
    | kRtpExtensionAbsoluteSendTime => kAbsoluteSendTimeLength
    | kRtpExtensionNone => 0
    end.

Definition ExtensionMap : Type := list (Z * HeaderExtension).

(** ** The map *)

Fixpoint map_find (m : ExtensionMap) (id : Z) : option HeaderExtension :=
  match m with
  | [] => None
  | (i, e) :: m => if i =? id then Some e else map_find m id
  end.

Fixpoint map_insert (m : ExtensionMap) (id : Z) (e : HeaderExtension) : ExtensionMap :=
  match m with
  | [] => [(id, e)]
  | (i, e') :: m' =>
      if id <? i then (id, e) :: m
      else if id =? i then (i, e) :: m'
      else (i, e') :: map_insert m' id e
  end.

Fixpoint map_erase (m : ExtensionMap) (id : Z) : ExtensionMap :=
  match m with
  | [] => []
  | (i, e) :: m => if i =? id then m else (i, e) :: map_erase m id
  end.

(** The pairs after an id. *)
Fixpoint map_after (m : ExtensionMap) (id : Z) : ExtensionMap :=
  match m with
  | [] => []
  | (i, e) :: m => if i =? id then m else map_after m id
  end.

(** ** Operations *)

Definition Erase (m : ExtensionMap) : ExtensionMap := [].

Definition Register (m : ExtensionMap) (type : RTPExtensionType) (id : Z) : Z * ExtensionMap :=
  if (id <? 1) || (14 <? id) then (-1, m)
  else
    match map_find m id with
    | Some e => if decide (ext_type e = type) then (0, m) else (-1, m)
    | None => (0, map_insert m id (new_HeaderExtension type))
    end.

(** [GetId]: the result [None] is -1, and [*id] is then not written. *)
Fixpoint GetId (m : ExtensionMap) (type : RTPExtensionType) : option Z :=
  match m with
  | [] => None
  | (id, e) :: m => if decide (ext_type e = type) then Some id else GetId m type
  end.

Definition Deregister (m : ExtensionMap) (type : RTPExtensionType) : Z * ExtensionMap :=
  match GetId m type with
  | None => (0, m)
  | Some id => (0, map_erase m id)
  end.

Fixpoint IsRegistered (m : ExtensionMap) (type : RTPExtensionType) : bool :=
  match m with
  | [] => false
  | (_, e) :: m => if decide (ext_type e = type) then true else IsRegistered m type
  end.

Definition GetType (m : ExtensionMap) (id : Z) : option RTPExtensionType :=
  match map_find m id with
  | None => None
  | Some e => Some (ext_type e)
  end.

Fixpoint sum_lengths (m : ExtensionMap) (length : Z) : Z :=
  match m with
  | [] => length
  | (_, e) :: m => sum_lengths m (u16 (length + ext_length e))
  end.

Definition GetTotalLengthInBytes (m : ExtensionMap) : Z :=
  let length := sum_lengths m 0 in
  if 0 <? length then u16 (length + kRtpOneByteHeaderLength) else length.

(** The walk to the block of a type. *)
Fixpoint length_until (m : ExtensionMap) (type : RTPExtensionType) (length : Z) : Z :=
  match m with
  | [] => length
  | (_, e) :: m =>
      if decide (ext_type e = type) then length
      else length_until m type (u16 (length + ext_length e))
  end.

Definition GetLengthUntilBlockStartInBytes (m : ExtensionMap) (type : RTPExtensionType) : Z :=
  match GetId m type with
  | None => -1
  | Some _ => length_until m type kRtpOneByteHeaderLength
  end.

Definition Size (m : ExtensionMap) : Z := Zlen m.

Definition First (m : ExtensionMap) : RTPExtensionType :=
  match m with
  | [] => kRtpExtensionNone
  | (_, e) :: _ => ext_type e
  end.

Definition Next (m : ExtensionMap) (type : RTPExtensionType) : RTPExtensionType :=
  match GetId m type with
  | None => kRtpExtensionNone
  | Some id =>
      match map_find m id with
      | None => kRtpExtensionNone
      | Some _ => First (map_after m id)
      end
  end.

(** [map] gets every pair of [m]. *)
Fixpoint GetCopy (m map : ExtensionMap) : ExtensionMap :=
  match m with
  | [] => map
  | (id, e) :: m => GetCopy m (Register map (ext_type e) id).2
  end.

(** ** The invariant of a map *)

(** The ids increase from a bound on, and each extension is as constructed. *)
Fixpoint map_from (lo : Z) (m : ExtensionMap) : Prop :=
  match m with
  | [] => True
  | (i, e) :: m => lo < i <= 14 /\ e = new_HeaderExtension (ext_type e) /\ map_from i m
  end.

Definition map_ok (m : ExtensionMap) : Prop := map_from 0 m.

Definition types (m : ExtensionMap) : list RTPExtensionType := (fun p => ext_type p.2) <$> m.

(** Proper types, each registered once; Register does not see to this. *)
Definition types_ok (m : ExtensionMap) : Prop :=
  NoDup (types m) /\ kRtpExtensionNone ∉ types m.

Lemma map_from_weaken lo lo' m : lo' <= lo -> map_from lo m -> map_from lo' m.
Proof. destruct m as [|[i e] m]; [done|]. simpl. intuition lia. Qed.

Lemma map_find_from lo m i : map_from lo m -> i <= lo -> map_find m i = None.
Proof.
  revert lo. induction m as [|[j e] m IH]; intros lo; [done|]. simpl. intros (Hj & _ & Hm) Hi.
  destruct (Z.eqb_spec j i); [lia|]. apply (IH j); [done|lia].
Qed.

Lemma map_insert_from lo m i type :
  map_from lo m -> lo < i <= 14 -> map_from lo (map_insert m i (new_HeaderExtension type)).
Proof.
  revert lo. induction m as [|[j e] m IH]; intros lo; simpl.
  - intros _ Hi. by destruct type.
  - intros (Hj & He & Hm) Hi. destruct (Z.ltb_spec i j).
    + simpl. split; [lia|]. split; [by destruct type|]. split; [lia|done].
    + destruct (Z.eqb_spec i j).
      * simpl. split; [lia|]. split; [by destruct type|done].
      * simpl. split; [lia|]. split; [done|]. apply IH; [done|lia].
Qed.

Lemma map_find_insert m i j e :
  map_find (map_insert m i e) j = if i =? j then Some e else map_find m j.
Proof.
  induction m as [|[k e'] m IH]; simpl; [done|]. destruct (Z.ltb_spec i k); [done|].
  destruct (Z.eqb_spec i k) as [->|]; simpl; [by destruct (k =? j)|]. rewrite IH.
  destruct (Z.eqb_spec k j), (Z.eqb_spec i j); done || lia.
Qed.

Lemma map_erase_from lo m i : map_from lo m -> map_from lo (map_erase m i).
Proof.
  revert lo. induction m as [|[j e] m IH]; intros lo; [done|]. simpl. intros (Hj & He & Hm).
  destruct (Z.eqb_spec j i); [|simpl; auto]. apply (map_from_weaken j); [lia|done].
Qed.

Lemma map_find_erase lo m i j :
  map_from lo m -> map_find (map_erase m i) j = if i =? j then None else map_find m j.
Proof.
  revert lo. induction m as [|[k e] m IH]; intros lo; simpl; [by destruct (i =? j)|].
  intros (Hk & _ & Hm). destruct (Z.eqb_spec k i) as [->|]; simpl.
  - destruct (Z.eqb_spec i j) as [->|]; [|done]. apply (map_find_from j); [done|lia].
  - rewrite (IH k) by done. destruct (Z.eqb_spec k j), (Z.eqb_spec i j); done || lia.
Qed.

Lemma Register_ok m type id : map_ok m -> map_ok (Register m type id).2.
Proof.
  intros Hm. unfold Register. destruct (_ || _) eqn:E; [done|].
  destruct (map_find m id); [by destruct (decide _)|]. apply map_insert_from; [done|].
  apply orb_false_elim in E as [E1 E2]. lia.
Qed.

Lemma Deregister_ok m type : map_ok m -> map_ok (Deregister m type).2.
Proof.
  intros Hm. unfold Deregister. destruct (GetId m type); [|done]. by apply map_erase_from.
Qed.

Lemma GetId_find m type id : GetId m type = Some id -> map_ok m -> GetType m id = Some type.
Proof.
  unfold map_ok, GetType. generalize 0 as lo. induction m as [|[i e] m IH]; intros lo; simpl; [done|].
  destruct (decide (ext_type e = type)) as [<-|].
  - intros [= ->]. by rewrite Z.eqb_refl.
  - intros E (Hi & _ & Hm). specialize (IH i E Hm). destruct (Z.eqb_spec i id) as [->|]; [|done].
    by rewrite (map_find_from id) in IH by (done || lia).
Qed.

Lemma GetId_None m type : GetId m type = None <-> IsRegistered m type = false.
Proof.
  induction m as [|[i e] m IH]; simpl; [done|]. by destruct (decide _).
Qed.

Lemma IsRegistered_types m type : IsRegistered m type = true <-> type ∈ types m.
Proof.
  unfold types. induction m as [|[i e] m IH]; simpl; [by rewrite elem_of_nil|].
  rewrite elem_of_cons. destruct (decide (ext_type e = type)) as [<-|Hne]; [by split; [left|]|].
  rewrite IH. split; [by right|]. by intros [->|].
Qed.

(** ** The walk by First and Next *)

Lemma map_from_elem lo m i e :
  map_from lo m -> (i, e) ∈ m -> lo < i <= 14 /\ e = new_HeaderExtension (ext_type e).
Proof.
  revert lo. induction m as [|[j e'] m IH]; intros lo; simpl; [by rewrite elem_of_nil|].
  rewrite elem_of_cons. intros (Hj & He & Hm) [[= -> ->]|Hin]; [done|].
  destruct (IH j Hm Hin). split; [lia|done].
Qed.

Lemma map_from_prefix lo a b : map_from lo (a ++ b) -> map_from lo a.
Proof.
  revert lo. induction a as [|[i e] a IH]; intros lo; [done|]. simpl. intros (? & ? & Hm).
  split; [done|]. split; [done|]. by apply IH.
Qed.

(** A pair in the middle has the largest id so far. *)
Lemma map_from_middle lo j e' pre i e m :
  map_from lo ((j, e') :: pre ++ (i, e) :: m) -> j < i.
Proof.
  simpl. intros (_ & _ & Hm). apply (map_from_elem j _ i e) in Hm; [lia|].
  rewrite elem_of_app, elem_of_cons. auto.
Qed.

Lemma map_after_app pre i e m lo :
  map_from lo (pre ++ (i, e) :: m) -> map_after (pre ++ (i, e) :: m) i = m.
Proof.
  revert lo. induction pre as [|[j e'] pre IH]; intros lo; [simpl; by rewrite Z.eqb_refl|].
  intros Hm. assert (Hji := map_from_middle _ _ _ _ _ _ _ Hm). simpl in *.
  destruct (Z.eqb_spec j i); [lia|]. apply (IH j), Hm.
Qed.

Lemma GetId_app pre i e m :
  NoDup (types (pre ++ (i, e) :: m)) -> GetId (pre ++ (i, e) :: m) (ext_type e) = Some i.
Proof.
  unfold types. induction pre as [|[j e'] pre IH]; simpl; [by rewrite decide_True|].
  intros [Hn Hd]%NoDup_cons. destruct (decide (ext_type e' = ext_type e)) as [Ee|]; [|by apply IH].
  destruct Hn. rewrite Ee, fmap_app. simpl. rewrite elem_of_app, elem_of_cons. auto.
Qed.

Lemma map_find_app pre i e m lo :
  map_from lo (pre ++ (i, e) :: m) -> map_find (pre ++ (i, e) :: m) i = Some e.
Proof.
  revert lo. induction pre as [|[j e'] pre IH]; intros lo; [simpl; by rewrite Z.eqb_refl|].
  intros Hm. assert (Hji := map_from_middle _ _ _ _ _ _ _ Hm). simpl in *.
  destruct (Z.eqb_spec j i); [lia|]. apply (IH j), Hm.
Qed.

(** With each type registered once, Next goes to the following pair. *)
Lemma Next_app pre i e m :
  map_ok (pre ++ (i, e) :: m) -> NoDup (types (pre ++ (i, e) :: m)) ->
  Next (pre ++ (i, e) :: m) (ext_type e) = First m.
Proof.
  intros Hm Hd. unfold Next. rewrite GetId_app by done. rewrite (map_find_app _ _ _ _ 0) by done.
  by rewrite (map_after_app _ _ _ _ 0).
Qed.

(** A copy into an empty map is the map. *)
Lemma map_insert_snoc lo m i e :
  map_from lo (m ++ [(i, e)]) -> map_insert m i e = m ++ [(i, e)] /\ map_find m i = None.
Proof.
  revert lo. induction m as [|[j e'] m IH]; intros lo; [done|].
  intros Hm. assert (Hji := map_from_middle _ _ _ _ _ _ _ Hm). simpl in *.
  destruct (IH j) as [-> ->]; [apply Hm|].
  destruct (Z.ltb_spec i j), (Z.eqb_spec i j), (Z.eqb_spec j i); lia || done.
Qed.

Lemma GetCopy_app m acc : map_ok (acc ++ m) -> GetCopy m acc = acc ++ m.
Proof.
  revert acc. induction m as [|[i e] m IH]; intros acc Hm; cbn [GetCopy]; [by rewrite app_nil_r|].
  replace (acc ++ (i, e) :: m) with ((acc ++ [(i, e)]) ++ m) in * by (by rewrite <- app_assoc).
  assert (Hp := map_from_prefix _ _ _ Hm).
  destruct (map_insert_snoc 0 acc i e Hp) as [Ein Efi].
  destruct (map_from_elem _ _ i e Hp) as [Hi Ee]; [rewrite elem_of_app, elem_of_cons; auto|].
  unfold Register. rewrite Efi, <- Ee, Ein.
  destruct (Z.ltb_spec i 1), (Z.ltb_spec 14 i); try lia. cbn [orb snd]. by apply IH.
Qed.

Lemma GetCopy_empty m : map_ok m -> GetCopy m [] = m.
Proof. apply (GetCopy_app m []). Qed.
