(* ===== verification/RtpHeader.v ===== *)
(** * The RTP header parser

    Models [RtpUtility::RtpHeaderParser] of [modules/rtp_rtcp/source/rtp_utility.cc]
    and its wrapper in [rtp_header_parser.cc], with the structures of
    [common_types.h].  A packet is the list of its bytes; a read past its end is
    [Stuck].  The header is an in-out parameter, so a refused packet can leave a
    partly filled header. *)
From S2P Require Import Prelude RtpWire RtpExtMap.
Local Open Scope Z_scope.

Record RTPHeaderExtension : Type := mkRTPHeaderExtension {
  hasTransmissionTimeOffset : bool;
  transmissionTimeOffset : Z;
  hasAbsoluteSendTime : bool;
  absoluteSendTime : Z;
  hasAudioLevel : bool;
  audioLevel : Z
}.

Record RTPHeader : Type := mkRTPHeader {
  markerBit : bool;
  payloadType : Z;
  sequenceNumber : Z;
  timestamp : Z;
  ssrc : Z;
  numCSRCs : Z;
  arrOfCSRCs : list Z;
  paddingLength : Z;
  headerLength : Z;
  payload_type_frequency : Z;
  extension : RTPHeaderExtension
}.

Definition no_extension : RTPHeaderExtension := mkRTPHeaderExtension false 0 false 0 false 0.

(** The constructor. *)
Definition new_RTPHeader : RTPHeader :=
  mkRTPHeader false 0 0 0 0 0 (replicate 15 0) 0 0 0 no_extension.

Definition set_length (h : RTPHeader) (n : Z) (e : RTPHeaderExtension) : RTPHeader :=
  mkRTPHeader (markerBit h) (payloadType h) (sequenceNumber h) (timestamp h) (ssrc h)
    (numCSRCs h) (arrOfCSRCs h) (paddingLength h) n (payload_type_frequency h) e.

Definition kRtcpExpectedVersion : Z := 2.
Definition kRtcpMinHeaderLength : Z := 4.
Definition kRtcpMinParseLength : Z := 8.
Definition kRtpExpectedVersion : Z := 2.
Definition kRtpMinParseLength : Z := 12.

(** A bit of a byte as a flag. *)
Definition flag (b mask : Z) : bool := negb (Z.land b mask =? 0).

(** ** RTCP *)

Definition RTCP {R : Type} (pkt : list Z) : flow R bool :=
  if Zlen pkt <? kRtcpMinHeaderLength then Cont false
  else
    let! b0 := rd pkt 0 in
    if negb (Z.shiftr b0 6 =? kRtcpExpectedVersion) then Cont false
    else
      let! payloadType := rd pkt 1 in
      Cont ((payloadType =? 192) || (payloadType =? 195)
            || ((200 <=? payloadType) && (payloadType <=? 207))).

Definition ParseRtcp {R : Type} (pkt : list Z) (header : RTPHeader) : flow R (bool * RTPHeader) :=
  if Zlen pkt <? kRtcpMinParseLength then Cont (false, header)
  else
    let! b0 := rd pkt 0 in
    if negb (Z.shiftr b0 6 =? kRtcpExpectedVersion) then Cont (false, header)
    else
      let! PT := rd pkt 1 in
      let! len := BufferToUWord16 pkt 2 in
      let! SSRC := BufferToUWord32 pkt 4 in
      Cont (true, mkRTPHeader (markerBit header) PT (sequenceNumber header) (timestamp header)
                    SSRC (numCSRCs header) (arrOfCSRCs header) (paddingLength header)
                    (u16 (4 + Z.shiftl len 2)) (payload_type_frequency header)
                    (extension header)).

(** ** Header extensions *)

(** The number of zero bytes from [ptr] on, in a byte. *)
Fixpoint padding_loop {R : Type} (n : nat) (pkt : list Z) (ptr num_zero_bytes : Z) : flow R Z :=
  match n with
  | O => Cont num_zero_bytes
  | S n =>
      let! x := rd pkt ptr in
      if negb (x =? 0) then Cont num_zero_bytes
      else padding_loop n pkt (ptr + 1) (u8 (num_zero_bytes + 1))
  end.

Definition ParsePaddingBytes {R : Type} (pkt : list Z) (extension_end ptr : Z) : flow R Z :=
  padding_loop (Z.to_nat (extension_end - ptr)) pkt ptr 0.

(** The block of a known type: [None] when its length is wrong or the type is not
    implemented, which ends the parsing. *)
Definition parse_block {R : Type} (pkt : list Z) (type : RTPExtensionType) (len ptr : Z)
  (e : RTPHeaderExtension) : flow R (option RTPHeaderExtension) :=
  match type with
  | kRtpExtensionTransmissionTimeOffset =>
      if negb (len =? 2) then Cont None
      else
        let! x := BufferToUWord24 pkt ptr in
        let x := if flag x 8388608 then s32 (Z.lor x 4278190080) else x in
        Cont (Some (mkRTPHeaderExtension true x (hasAbsoluteSendTime e) (absoluteSendTime e)
                      (hasAudioLevel e) (audioLevel e)))
  | kRtpExtensionAudioLevel =>
      if negb (len =? 0) then Cont None
      else
        let! x := rd pkt ptr in
        Cont (Some (mkRTPHeaderExtension (hasTransmissionTimeOffset e) (transmissionTimeOffset e)
                      (hasAbsoluteSendTime e) (absoluteSendTime e) true x))
  | kRtpExtensionAbsoluteSendTime =>
      if negb (len =? 2) then Cont None
      else
        let! x := BufferToUWord24 pkt ptr in
        Cont (Some (mkRTPHeaderExtension (hasTransmissionTimeOffset e) (transmissionTimeOffset e)
                      true x (hasAudioLevel e) (audioLevel e)))
  | kRtpExtensionNone => Cont None
  end.

(** One turn of the loop: the extension, and the new [ptr] unless parsing ends. *)
Definition parse_element {R : Type} (pkt : list Z) (map : ExtensionMap) (extension_end ptr : Z)
  (e : RTPHeaderExtension) : flow R (RTPHeaderExtension * option Z) :=
  let! b := rd pkt ptr in
  let id := Z.shiftr (Z.land b 240) 4 in
  let len := Z.land b 15 in
  let ptr := ptr + 1 in
  if id =? 15 then Cont (e, None)
  else
    let! e' := match GetType map id with
               | None => Cont (Some e)
               | Some type => parse_block pkt type len ptr e
               end in
    match e' with
    | None => Cont (e, None)
    | Some e =>
        let ptr := ptr + (len + 1) in
        let! num_bytes := ParsePaddingBytes pkt extension_end ptr in
        Cont (e, Some (ptr + num_bytes))
    end.

(** [while (ptrRTPDataExtensionEnd - ptr > 0)]; every turn moves [ptr]. *)
Fixpoint extension_loop {R : Type} (fuel : nat) (pkt : list Z) (map : ExtensionMap)
  (extension_end ptr : Z) (e : RTPHeaderExtension) : flow R RTPHeaderExtension :=
  match fuel with
  | O => Stuck
  | S fuel =>
      if 0 <? extension_end - ptr then
        let! (e, next) := parse_element pkt map extension_end ptr e in
        match next with
        | None => Cont e
        | Some ptr => extension_loop fuel pkt map extension_end ptr e
        end
      else Cont e
  end.

Definition ParseOneByteExtensionHeader {R : Type} (pkt : list Z) (map : option ExtensionMap)
  (extension_end ptr : Z) (e : RTPHeaderExtension) : flow R RTPHeaderExtension :=
  match map with
  | None => Cont e
  | Some map => extension_loop (S (Z.to_nat (extension_end - ptr))) pkt map extension_end ptr e
  end.

(** ** Parse *)

Definition parse_csrcs {R : Type} (pkt : list Z) (CC : Z) (arr : list Z) : flow R (list Z) :=
  for_up (Z.to_nat CC) 0 (fun i arr =>
    let! CSRC := BufferToUWord32 pkt (12 + 4 * i) in
    wr arr i CSRC) arr.

(** The part of the extension; [h] has the fixed part and the CSRCs. *)
Definition parse_extension {R : Type} (pkt : list Z) (map : option ExtensionMap) (h : RTPHeader)
  : flow R (bool * RTPHeader) :=
  let ptr := headerLength h in
  let remain := Zlen pkt - ptr in
  if remain <? 4 then Cont (false, h)
  else
    let h := set_length h (u16 (headerLength h + 4)) (extension h) in
    let! definedByProfile := BufferToUWord16 pkt ptr in
    let! XLen := BufferToUWord16 pkt (ptr + 2) in
    let XLen := u16 (XLen * 4) in
    let ptr := ptr + 4 in
    if remain <? 4 + XLen then Cont (false, h)
    else
      let! e :=
        if definedByProfile =? kRtpOneByteHeaderExtensionId
        then ParseOneByteExtensionHeader pkt map (ptr + XLen) ptr (extension h)
        else Cont (extension h) in
      Cont (true, set_length h (u16 (headerLength h + XLen)) e).

Definition Parse {R : Type} (pkt : list Z) (map : option ExtensionMap) (header : RTPHeader)
  : flow R (bool * RTPHeader) :=
  let length := Zlen pkt in
  if length <? kRtpMinParseLength then Cont (false, header)
  else
    let! b0 := rd pkt 0 in
    let V := Z.shiftr b0 6 in
    let P := flag b0 32 in
    let X := flag b0 16 in
    let CC := Z.land b0 15 in
    let! b1 := rd pkt 1 in
    let M := flag b1 128 in
    let PT := Z.land b1 127 in
    let! sequenceNumber := BufferToUWord16 pkt 2 in
    let! RTPTimestamp := BufferToUWord32 pkt 4 in
    let! SSRC := BufferToUWord32 pkt 8 in
    if negb (V =? kRtpExpectedVersion) then Cont (false, header)
    else
      let CSRCocts := CC * 4 in
      if length <? 12 + CSRCocts then Cont (false, header)
      else
        let! last := rd pkt (length - 1) in
        let! csrcs := parse_csrcs pkt CC (arrOfCSRCs header) in
        let h := mkRTPHeader M PT sequenceNumber RTPTimestamp SSRC CC csrcs
                   (if P then last else 0) (12 + CSRCocts) (payload_type_frequency header)
                   no_extension in
        if X then parse_extension pkt map h else Cont (true, h).

(** ** The wrapper

    The header is zeroed, and the parser gets a copy of the map. *)

Definition IsRtcp {R : Type} (packet : list Z) : flow R bool := RTCP packet.

Definition RtpHeaderParserImpl_Parse {R : Type} (map : ExtensionMap) (packet : list Z)
  : flow R (bool * RTPHeader) :=
  Parse packet (Some (GetCopy map [])) new_RTPHeader.

Definition RegisterRtpHeaderExtension (map : ExtensionMap) (type : RTPExtensionType) (id : Z)
  : bool * ExtensionMap :=
  let '(r, map) := Register map type id in (r =? 0, map).

Definition DeregisterRtpHeaderExtension (map : ExtensionMap) (type : RTPExtensionType)
  : bool * ExtensionMap :=
  let '(r, map) := Deregister map type in (r =? 0, map).

(** ** The loop ends *)

Lemma padding_loop_range {R} n pkt ptr k :
  0 <= k < 256 -> gives (R := R) (padding_loop n pkt ptr k) (fun r => 0 <= r < 256) \/
                  padding_loop (R := R) n pkt ptr k = Stuck.
Proof.
  revert ptr k. induction n as [|n IH]; intros ptr k Hk; cbn [padding_loop]; [left; by apply gives_Cont|].
  destruct (rd pkt ptr) as [x|r|] eqn:E; cbn [flow_bind]; [|exfalso|by right].
  - destruct (negb _); [left; by apply gives_Cont|]. apply IH, u8_range.
  - revert E. unfold rd. by repeat case_match.
Qed.

(** The callee's loops have no early return of their own. *)
Lemma parse_element_next {R} pkt map end_ ptr e e' q :
  parse_element (R := R) pkt map end_ ptr e = Cont (e', Some q) -> ptr < q.
Proof.
  unfold parse_element. destruct (rd pkt ptr) as [b|r|]; [|done|done]. cbn [flow_bind].
  destruct (_ =? 15); [done|].
  destruct (match GetType map _ with Some _ => _ | None => _ end) as [[e1|]|r|]; try done. cbn [flow_bind].
  unfold ParsePaddingBytes.
  assert (Hb : 0 <= Z.land b 15) by (change 15 with (Z.ones 4); rewrite Z.land_ones by lia; apply Z.mod_pos_bound; lia).
  destruct (padding_loop_range (R := R) (Z.to_nat (end_ - (ptr + 1 + (Z.land b 15 + 1)))) pkt
    (ptr + 1 + (Z.land b 15 + 1)) 0 ltac:(lia)) as [(n & -> & Hn)| ->]; [|done].
  cbn [flow_bind]. intros [= _ <-]. lia.
Qed.

Lemma extension_loop_fuel {R} n m pkt map end_ ptr e :
  Z.max 0 (end_ - ptr) < Z.of_nat n -> Z.max 0 (end_ - ptr) < Z.of_nat m ->
  extension_loop (R := R) n pkt map end_ ptr e = extension_loop m pkt map end_ ptr e.
Proof.
  revert m ptr e. induction n as [|n IH]; intros [|m] ptr e Hn Hm; try lia. cbn [extension_loop].
  destruct (Z.ltb_spec 0 (end_ - ptr)); [|done].
  destruct (parse_element pkt map end_ ptr e) as [[e' [q|]]|r|] eqn:E; try done. cbn [flow_bind].
  apply parse_element_next in E. apply IH; lia.
Qed.

(** ** Reads stay near the packet *)

Definition bytes (l : list Z) : Prop := Forall is_u8 l.

Lemma bytes_at l i : bytes l -> 0 <= i < Zlen l -> is_u8 (l !!! Z.to_nat i).
Proof. unfold Zlen. intros H Hi. apply Forall_total; [done|lia]. Qed.

Lemma gives_byte {R} pkt i :
  bytes pkt -> 0 <= i < Zlen pkt -> gives (R := R) (rd pkt i) is_u8.
Proof. intros H Hi. rewrite rd_total by done. apply gives_Cont. by apply bytes_at. Qed.

Ltac gbyte := eapply gives_bind; [apply gives_byte; [assumption|lia]|intros ? ?].

Lemma gives_Word16 {R} pkt p :
  bytes pkt -> 0 <= p -> p + 2 <= Zlen pkt -> gives (R := R) (BufferToUWord16 pkt p) is_u16.
Proof. intros. unfold BufferToUWord16. do 2 gbyte. apply gives_Cont, u16_range. Qed.

Lemma gives_Word24 {R} pkt p :
  bytes pkt -> 0 <= p -> p + 3 <= Zlen pkt ->
  gives (R := R) (BufferToUWord24 pkt p) (fun v => 0 <= v < 2 ^ 24).
Proof.
  intros. unfold BufferToUWord24. do 3 gbyte. apply gives_Cont. unfold is_u8 in *.
  rewrite !Z.shiftl_mul_pow2 by lia. rewrite u32_id by (unfold is_u32; lia). lia.
Qed.

Lemma gives_Word32 {R} pkt p :
  bytes pkt -> 0 <= p -> p + 4 <= Zlen pkt -> gives (R := R) (BufferToUWord32 pkt p) is_u32.
Proof. intros. unfold BufferToUWord32. do 4 gbyte. apply gives_Cont, u32_range. Qed.

(** The values of an extension fit their fields. *)
Definition extension_ok (e : RTPHeaderExtension) : Prop :=
  - 2 ^ 23 <= transmissionTimeOffset e < 2 ^ 23 /\ 0 <= absoluteSendTime e < 2 ^ 24 /\
  is_u8 (audioLevel e).

Lemma sign_24 x :
  0 <= x < 2 ^ 24 ->
  (if flag x 8388608 then s32 (Z.lor x 4278190080) else x) = (x + 2 ^ 23) mod 2 ^ 24 - 2 ^ 23.
Proof.
  intros Hx. unfold flag. change 8388608 with (Z.shiftl (Z.ones 1) 23). rewrite land_field by lia.
  change (2 ^ 1) with 2. change (2 ^ 23) with 8388608 in *. change (2 ^ 24) with 16777216 in *.
  destruct (Z.eqb_spec ((x / 8388608) mod 2 * 8388608) 0) as [E|E]; cbn [negb]; [zdm|].
  change 4278190080 with (255 * 2 ^ 24). rewrite Z.lor_comm, lor_high_low by (change (2 ^ 24) with 16777216; lia).
  unfold s32. zdm.
Qed.

Lemma gives_parse_block {R} pkt type len ptr e :
  bytes pkt -> extension_ok e -> 0 <= ptr -> ptr + 3 <= Zlen pkt ->
  gives (R := R) (parse_block pkt type len ptr e)
    (fun r => match r with Some e' => extension_ok e' | None => True end).
Proof.
  intros Hb (H1 & H2 & H3) Hp Hl. unfold parse_block, extension_ok.
  destruct type; [by apply gives_Cont| | |]; (destruct (negb _); [by apply gives_Cont|]).
  - eapply gives_bind; [by apply gives_Word24|]. intros x Hx. apply gives_Cont. cbn.
    rewrite sign_24 by done. change (2 ^ 23) with 8388608 in *. change (2 ^ 24) with 16777216 in *.
    split; [zdm|done].
  - eapply gives_bind; [apply gives_byte; [done|lia]|]. intros x Hx. apply gives_Cont. cbn. auto.
  - eapply gives_bind; [by apply gives_Word24|]. intros x Hx. apply gives_Cont. cbn. auto.
Qed.

Lemma gives_padding {R} n pkt ptr k :
  0 <= ptr -> ptr + Z.of_nat n <= Zlen pkt -> 0 <= k < 256 ->
  gives (R := R) (padding_loop n pkt ptr k) (fun r => 0 <= r < 256).
Proof.
  revert ptr k. induction n as [|n IH]; intros ptr k Hp Hn Hk; cbn [padding_loop]; [by apply gives_Cont|].
  rewrite rd_total by lia. cbn [flow_bind]. destruct (negb _); [by apply gives_Cont|].
  apply IH; [lia|lia|apply u8_range].
Qed.

Lemma gives_ParsePaddingBytes {R} pkt end_ ptr :
  0 <= ptr -> end_ <= Zlen pkt ->
  gives (R := R) (ParsePaddingBytes pkt end_ ptr) (fun r => 0 <= r < 256).
Proof.
  intros. unfold ParsePaddingBytes. destruct (Z.lt_ge_cases end_ ptr).
  - replace (Z.to_nat (end_ - ptr)) with 0%nat by lia. by apply gives_Cont.
  - apply gives_padding; lia.
Qed.

Lemma land_15 b : 0 <= Z.land b 15 < 16.
Proof. change 15 with (Z.ones 4). rewrite Z.land_ones by lia. apply Z.mod_pos_bound. lia. Qed.

(** With three bytes after the extension every read is inside the packet. *)
Lemma gives_extension_loop {R} n pkt map end_ ptr e :
  bytes pkt -> extension_ok e -> 0 <= ptr -> end_ + 3 <= Zlen pkt ->
  Z.max 0 (end_ - ptr) < Z.of_nat n ->
  gives (R := R) (extension_loop n pkt map end_ ptr e) extension_ok.
Proof.
  intros Hb. revert ptr e. induction n as [|n IH]; intros ptr e He Hp Hend Hn; [lia|].
  cbn [extension_loop]. destruct (Z.ltb_spec 0 (end_ - ptr)); [|by apply gives_Cont].
  unfold parse_element. rewrite flow_bind_assoc. gbyte. assert (H15 := land_15 a).
  destruct (_ =? 15); [by apply gives_Cont|].
  rewrite flow_bind_assoc. eapply (gives_bind (match GetType map _ with Some _ => _ | None => _ end) _
    (fun r => match r with Some e' => extension_ok e' | None => True end)).
  { destruct (GetType map _); [|by apply gives_Cont]. apply gives_parse_block; [done|done|lia|lia]. }
  intros [e'|] He'; [|by apply gives_Cont].
  rewrite flow_bind_assoc. eapply gives_bind; [apply gives_ParsePaddingBytes; lia|]. intros k Hk. cbn beta in Hk.
  cbn [flow_bind]. apply IH; [done|lia|lia|lia].
Qed.

(** ** Whole packets *)

(** The fields of an accepted header, for a packet of [n] bytes. *)
Definition header_ok (n : Z) (h : RTPHeader) : Prop :=
  0 <= payloadType h < 128 /\ is_u16 (sequenceNumber h) /\ is_u32 (timestamp h) /\
  is_u32 (ssrc h) /\ 0 <= numCSRCs h <= 15 /\ Zlen (arrOfCSRCs h) = 15 /\
  is_u8 (paddingLength h) /\ 12 + 4 * numCSRCs h <= headerLength h <= n /\
  extension_ok (extension h).

Definition word16_at (pkt : list Z) (p : Z) : Z :=
  u16 (Z.shiftl (pkt !!! Z.to_nat p) 8 + pkt !!! Z.to_nat (p + 1)).

(** Where the header extension ends, by its length field. *)
Definition extension_end (pkt : list Z) : Z :=
  let CC := Z.land (pkt !!! 0%nat) 15 in
  16 + 4 * CC + u16 (word16_at pkt (14 + 4 * CC) * 4).

Lemma Word16_at {R} pkt p :
  0 <= p -> p + 2 <= Zlen pkt -> BufferToUWord16 (R := R) pkt p = Cont (word16_at pkt p).
Proof. intros. unfold BufferToUWord16. by rewrite !rd_total by lia. Qed.

Lemma no_extension_ok : extension_ok no_extension.
Proof. repeat split; vm_compute; congruence. Qed.

Lemma gives_parse_csrcs {R} pkt CC arr :
  bytes pkt -> 0 <= CC <= 15 -> 12 + 4 * CC <= Zlen pkt -> Zlen arr = 15 ->
  gives (R := R) (parse_csrcs pkt CC arr) (fun r => Zlen r = 15).
Proof.
  intros Hb Hc Hl Ha. unfold parse_csrcs. apply (gives_for (fun r => Zlen r = 15)); [done|].
  intros i r Hi Hr. eapply gives_bind; [apply gives_Word32; [done|lia|lia]|]. intros c _.
  eapply gives_weaken; [apply gives_wr; lia|]. intros r' E. cbn in E. lia.
Qed.

Lemma gives_parse_extension {R} pkt map h :
  bytes pkt -> Zlen pkt < 65536 -> headerLength h = 12 + 4 * numCSRCs h ->
  numCSRCs h = Z.land (pkt !!! 0%nat) 15 -> headerLength h <= Zlen pkt ->
  header_ok (Zlen pkt) h ->
  extension_end pkt + 3 <= Zlen pkt \/ Zlen pkt < extension_end pkt ->
  gives (R := R) (parse_extension pkt map h)
    (fun r => r.1 = true -> header_ok (Zlen pkt) r.2).
Proof.
  intros Hb H64 Hh Hcc Hle Hok Hend. unfold parse_extension.
  destruct (Z.ltb_spec (Zlen pkt - headerLength h) 4); [by apply gives_Cont|].
  assert (Hok' := Hok). destruct Hok' as (_ & _ & _ & _ & Hc & _ & _ & _ & He).
  rewrite !Word16_at by lia. cbn [flow_bind].
  assert (EX : extension_end pkt
               = headerLength h + 4 + u16 (word16_at pkt (headerLength h + 2) * 4)).
  { unfold extension_end. rewrite <- Hcc, Hh. rewrite !(Z.add_comm _ 4). 
    replace (12 + 4 * numCSRCs h + 2) with (14 + 4 * numCSRCs h) by lia. lia. }
  set (X := u16 (word16_at pkt (headerLength h + 2) * 4)) in *.
  assert (HX : is_u16 X) by apply u16_range. unfold is_u16 in HX. clearbody X.
  destruct (Z.ltb_spec (Zlen pkt - headerLength h) (4 + X)); [by apply gives_Cont|].
  eapply (gives_bind _ _ extension_ok).
  { destruct (_ =? kRtpOneByteHeaderExtensionId); [|by apply gives_Cont].
    unfold ParseOneByteExtensionHeader. destruct map as [map|]; [|by apply gives_Cont].
    apply gives_extension_loop; [done|done|lia|lia|lia]. }
  intros e Hee. apply gives_Cont. intros _. cbn [snd]. unfold header_ok in *. cbn in *.
  rewrite (u16_id (headerLength h + 4)) by (unfold is_u16; lia).
  rewrite u16_id by (unfold is_u16; lia). destruct Hok as (? & ? & ? & ? & ? & ? & ? & ? & _).
  split_and!; try assumption; lia.
Qed.

Lemma Parse_spec {R} pkt map h :
  bytes pkt -> Zlen pkt < 65536 -> Zlen (arrOfCSRCs h) = 15 ->
  (flag (pkt !!! 0%nat) 16 = true ->
   extension_end pkt + 3 <= Zlen pkt \/ Zlen pkt < extension_end pkt) ->
  gives (R := R) (Parse pkt map h) (fun r => r.1 = true -> header_ok (Zlen pkt) r.2).
Proof.
  intros Hb H64 Harr Hend. unfold Parse, kRtpMinParseLength.
  destruct (Z.ltb_spec (Zlen pkt) 12); [by apply gives_Cont|].
  rewrite (rd_total pkt 0) by lia. cbn [flow_bind]. change (Z.to_nat 0) with 0%nat.
  eapply gives_bind; [apply gives_byte; [done|lia]|]. intros b1 Hb1.
  eapply gives_bind; [apply gives_Word16; [done|lia|lia]|]. intros sn Hsn.
  eapply gives_bind; [apply gives_Word32; [done|lia|lia]|]. intros ts Hts.
  eapply gives_bind; [apply gives_Word32; [done|lia|lia]|]. intros sc Hsc.
  destruct (negb _); [by apply gives_Cont|].
  set (CC := Z.land (pkt !!! 0%nat) 15). assert (HCC : 0 <= CC < 16) by apply land_15.
  destruct (Z.ltb_spec (Zlen pkt) (12 + CC * 4)); [by apply gives_Cont|].
  eapply gives_bind; [apply gives_byte; [done|lia]|]. intros last Hlast.
  eapply gives_bind; [apply gives_parse_csrcs; [done|lia|lia|done]|]. intros arr Ha. cbn beta in Ha.
  assert (Hpt : 0 <= Z.land b1 127 < 128)
    by (change 127 with (Z.ones 7); rewrite Z.land_ones by lia; apply Z.mod_pos_bound; lia).
  match goal with |- context [parse_extension _ _ ?x] => set (h' := x) end.
  assert (Hok : header_ok (Zlen pkt) h').
  { unfold header_ok. subst h'. cbn. split_and!; try assumption; try lia; try apply no_extension_ok.
    destruct (flag _ 32); unfold is_u8 in *; lia. }
  destruct (flag (pkt !!! 0%nat) 16) eqn:EX; [|by apply gives_Cont].
  apply gives_parse_extension; try done; try (subst h'; cbn; lia).
Qed.

(** C28: parsing any packet below 64 kB, with any extension map, reads only inside the
    packet and ends, unless the header extension ends within the last three bytes
    of the packet; an accepted header has every field in its range and a length
    between the fixed part with its CSRCs and the packet. *)
Theorem Parse_safe {R} pkt map h :
  bytes pkt -> Zlen pkt < 65536 -> Zlen (arrOfCSRCs h) = 15 ->
  (flag (pkt !!! 0%nat) 16 = true ->
   extension_end pkt + 3 <= Zlen pkt \/ Zlen pkt < extension_end pkt) ->
  exists ok h', Parse (R := R) pkt map h = Cont (ok, h') /\
    (ok = true -> header_ok (Zlen pkt) h').
Proof.
  intros Hb H64 Ha Hend. destruct (Parse_spec (R := R) pkt map h Hb H64 Ha Hend) as ([ok h'] & E & Hr).
  by exists ok, h'.
Qed.

(** A packet with an extension of two words and four bytes of payload. *)
Definition ex_packet : list Z :=
  [144; 100; 0; 7; 0; 0; 3; 232; 0; 0; 0; 9; 190; 222; 0; 2; 18; 1; 2; 3; 33; 9; 0; 0; 1; 2; 3; 4].

Lemma bytes_okb l : forallb (fun x => (0 <=? x) && (x <? 256)) l = true -> bytes l.
Proof.
  intros H. apply Forall_forall. intros x Hx. rewrite forallb_forall in H.
  specialize (H x (proj1 (list_elem_of_In _ _) Hx)). unfold is_u8. lia.
Qed.

Lemma Parse_safe_witness :
  exists ok h', Parse (R := Z) ex_packet None new_RTPHeader = Cont (ok, h') /\
    (ok = true -> header_ok 28 h').
Proof.
  apply (Parse_safe (R := Z) ex_packet None new_RTPHeader);
    [by apply bytes_okb|reflexivity|reflexivity|].
  intros _. left. vm_compute. congruence.
Defined.

(** The guard that is missing: an accepted-looking packet of 20 bytes whose last
    byte announces an extension of a registered type makes the parser read past
    its end. *)
Theorem Parse_overread :
  let pkt := [144; 100; 0; 7; 0; 0; 3; 232; 0; 0; 0; 9; 190; 222; 0; 1; 0; 0; 0; 18] in
  let map := (Register [] kRtpExtensionTransmissionTimeOffset 1).2 in
  extension_end pkt = Zlen pkt /\
  Parse (R := Z) pkt (Some map) new_RTPHeader = Stuck /\
  (exists r, Parse (R := Z) (pkt ++ [0; 0; 0]) (Some map) new_RTPHeader = Cont r).
Proof. split; [reflexivity|]. split; [reflexivity|]. eexists. vm_compute. reflexivity. Qed.

(** The loop over header extensions ends: whatever the bytes and the map, any
    number of turns above the number of bytes gives the same result, so the
    bound of the model never cuts it short. *)
Theorem extension_loop_terminates {R} n pkt map end_ ptr e :
  Z.max 0 (end_ - ptr) < Z.of_nat n ->
  ParseOneByteExtensionHeader (R := R) pkt (Some map) end_ ptr e
  = extension_loop n pkt map end_ ptr e.
Proof. intros Hn. cbn [ParseOneByteExtensionHeader]. apply extension_loop_fuel; lia. Qed.

Lemma extension_loop_terminates_witness :
  exists e, extension_loop (R := Z) 1000 ex_packet (Register [] kRtpExtensionTransmissionTimeOffset 1).2
    24 16 no_extension = Cont e /\ transmissionTimeOffset e = 66051.
Proof.
  rewrite <- (extension_loop_terminates (R := Z) 1000 ex_packet
    (Register [] kRtpExtensionTransmissionTimeOffset 1).2 24 16 no_extension ltac:(vm_compute; reflexivity)).
  eexists. split; vm_compute; reflexivity.
Defined.
