(* ===== verification/RtpSender.v ===== *)
(** * The RTP sender's headers

    Models the functions of [modules/rtp_rtcp/source/rtp_sender.cc] that write and
    rewrite headers: CreateRTPHeader with its extension blocks, BuildRTPheader, the
    three Update functions, BuildPaddingPacket, BuildRtxPacket, and the receiver's
    RestoreOriginalPacket of [rtp_payload_registry.cc].  The state is the part of
    RTPSender that they use.  The clock and the random numbers are arguments. *)
From S2P Require Import Prelude RtpWire RtpExtMap RtpHeader.
Local Open Scope Z_scope.

Definition kRtpCsrcSize : Z := 15.
Definition kRtpMarkerBitMask : Z := 128.
Definition kMaxPaddingLength : Z := 224.
Definition kRtxHeaderSize : Z := 2.

Definition MAX_INIT_RTP_SEQ_NUMBER : Z := 32767.

Record RTPSender : Type := mkRTPSender {
  rtp_header_extension_map_ : ExtensionMap;
  transmission_time_offset_ : Z;
  absolute_send_time_ : Z;
  start_timestamp_forced_ : bool;
  start_timestamp_ : Z;
  sequence_number_forced_ : bool;
  sequence_number_ : Z;
  ssrc_forced_ : bool;
  ssrc_ : Z;
  timestamp_ : Z;
  capture_time_ms_ : Z;
  last_timestamp_time_ms_ : Z;
  media_has_been_sent_ : bool;
  last_packet_marker_bit_ : bool;
  num_csrcs_ : Z;
  csrcs_ : list Z;
  include_csrcs_ : bool;
  ssrc_rtx_ : Z;
  sequence_number_rtx_ : Z;
  payload_type_rtx_ : Z
}.

(** The constructor: the two SSRCs of the database, then two random numbers. *)
Definition new_RTPSender (ssrc ssrc_rtx rand1 rand2 : Z) : RTPSender :=
  mkRTPSender [] 0 0 false 0 false (Z.land (u16 (rand2 + 1)) 32767) false ssrc 0 0 0 false false
    0 (replicate 15 0) true ssrc_rtx (Z.land (u16 (rand1 + 1)) 32767) (-1).

(** ** Setters *)

Definition set_extensions (self : RTPSender) (m : ExtensionMap) (off abs : Z) : RTPSender :=
  mkRTPSender m off abs (start_timestamp_forced_ self) (start_timestamp_ self)
    (sequence_number_forced_ self) (sequence_number_ self) (ssrc_forced_ self) (ssrc_ self)
    (timestamp_ self) (capture_time_ms_ self) (last_timestamp_time_ms_ self)
    (media_has_been_sent_ self) (last_packet_marker_bit_ self) (num_csrcs_ self) (csrcs_ self)
    (include_csrcs_ self) (ssrc_rtx_ self) (sequence_number_rtx_ self) (payload_type_rtx_ self).

Definition set_start (self : RTPSender) (forced : bool) (start : Z) : RTPSender :=
  mkRTPSender (rtp_header_extension_map_ self) (transmission_time_offset_ self)
    (absolute_send_time_ self) forced start
    (sequence_number_forced_ self) (sequence_number_ self) (ssrc_forced_ self) (ssrc_ self)
    (timestamp_ self) (capture_time_ms_ self) (last_timestamp_time_ms_ self)
    (media_has_been_sent_ self) (last_packet_marker_bit_ self) (num_csrcs_ self) (csrcs_ self)
    (include_csrcs_ self) (ssrc_rtx_ self) (sequence_number_rtx_ self) (payload_type_rtx_ self).

Definition set_sequence (self : RTPSender) (forced : bool) (sn : Z) : RTPSender :=
  mkRTPSender (rtp_header_extension_map_ self) (transmission_time_offset_ self)
    (absolute_send_time_ self) (start_timestamp_forced_ self) (start_timestamp_ self)
    forced sn (ssrc_forced_ self) (ssrc_ self)
    (timestamp_ self) (capture_time_ms_ self) (last_timestamp_time_ms_ self)
    (media_has_been_sent_ self) (last_packet_marker_bit_ self) (num_csrcs_ self) (csrcs_ self)
    (include_csrcs_ self) (ssrc_rtx_ self) (sequence_number_rtx_ self) (payload_type_rtx_ self).

Definition set_ssrc (self : RTPSender) (forced : bool) (ssrc : Z) : RTPSender :=
  mkRTPSender (rtp_header_extension_map_ self) (transmission_time_offset_ self)
    (absolute_send_time_ self) (start_timestamp_forced_ self) (start_timestamp_ self)
    (sequence_number_forced_ self) (sequence_number_ self) forced ssrc
    (timestamp_ self) (capture_time_ms_ self) (last_timestamp_time_ms_ self)
    (media_has_been_sent_ self) (last_packet_marker_bit_ self) (num_csrcs_ self) (csrcs_ self)
    (include_csrcs_ self) (ssrc_rtx_ self) (sequence_number_rtx_ self) (payload_type_rtx_ self).

(** Timestamp and times, and the flags of what was sent. *)
Definition set_times (self : RTPSender) (ts cap last : Z) (media marker : bool) : RTPSender :=
  mkRTPSender (rtp_header_extension_map_ self) (transmission_time_offset_ self)
    (absolute_send_time_ self) (start_timestamp_forced_ self) (start_timestamp_ self)
    (sequence_number_forced_ self) (sequence_number_ self) (ssrc_forced_ self) (ssrc_ self)
    ts cap last media marker (num_csrcs_ self) (csrcs_ self)
    (include_csrcs_ self) (ssrc_rtx_ self) (sequence_number_rtx_ self) (payload_type_rtx_ self).

Definition set_csrcs (self : RTPSender) (n : Z) (arr : list Z) (include : bool) : RTPSender :=
  mkRTPSender (rtp_header_extension_map_ self) (transmission_time_offset_ self)
    (absolute_send_time_ self) (start_timestamp_forced_ self) (start_timestamp_ self)
    (sequence_number_forced_ self) (sequence_number_ self) (ssrc_forced_ self) (ssrc_ self)
    (timestamp_ self) (capture_time_ms_ self) (last_timestamp_time_ms_ self)
    (media_has_been_sent_ self) (last_packet_marker_bit_ self) n arr include
    (ssrc_rtx_ self) (sequence_number_rtx_ self) (payload_type_rtx_ self).

Definition set_rtx (self : RTPSender) (ssrc sn pt : Z) : RTPSender :=
  mkRTPSender (rtp_header_extension_map_ self) (transmission_time_offset_ self)
    (absolute_send_time_ self) (start_timestamp_forced_ self) (start_timestamp_ self)
    (sequence_number_forced_ self) (sequence_number_ self) (ssrc_forced_ self) (ssrc_ self)
    (timestamp_ self) (capture_time_ms_ self) (last_timestamp_time_ms_ self)
    (media_has_been_sent_ self) (last_packet_marker_bit_ self) (num_csrcs_ self) (csrcs_ self)
    (include_csrcs_ self) ssrc sn pt.

Definition SetTransmissionTimeOffset (self : RTPSender) (transmission_time_offset : Z)
  : Z * RTPSender :=
  if (8388607 <? transmission_time_offset) || (transmission_time_offset <? -8388607)
  then (-1, self)
  else (0, set_extensions self (rtp_header_extension_map_ self) transmission_time_offset
             (absolute_send_time_ self)).

Definition SetAbsoluteSendTime (self : RTPSender) (absolute_send_time : Z) : Z * RTPSender :=
  if 16777215 <? absolute_send_time then (-1, self)
  else (0, set_extensions self (rtp_header_extension_map_ self) (transmission_time_offset_ self)
             absolute_send_time).

Definition SenderRegister (self : RTPSender) (type : RTPExtensionType) (id : Z) : Z * RTPSender :=
  let '(r, m) := Register (rtp_header_extension_map_ self) type id in
  (r, set_extensions self m (transmission_time_offset_ self) (absolute_send_time_ self)).

Definition SenderDeregister (self : RTPSender) (type : RTPExtensionType) : Z * RTPSender :=
  let '(r, m) := Deregister (rtp_header_extension_map_ self) type in
  (r, set_extensions self m (transmission_time_offset_ self) (absolute_send_time_ self)).

Definition RtpHeaderExtensionTotalLength (self : RTPSender) : Z :=
  GetTotalLengthInBytes (rtp_header_extension_map_ self).

Definition RTPHeaderLength (self : RTPSender) : Z :=
  let rtp_header_length := 12 in
  let rtp_header_length :=
    if include_csrcs_ self then u16 (rtp_header_length + 4 * num_csrcs_ self)
    else rtp_header_length in
  u16 (rtp_header_length + RtpHeaderExtensionTotalLength self).

Definition SetRtxSsrc (self : RTPSender) (ssrc : Z) : RTPSender :=
  set_rtx self ssrc (sequence_number_rtx_ self) (payload_type_rtx_ self).

Definition SetRtxPayloadType (self : RTPSender) (payload_type : Z) : RTPSender :=
  set_rtx self (ssrc_rtx_ self) (sequence_number_rtx_ self) payload_type.

Definition IncrementSequenceNumber (self : RTPSender) : Z * RTPSender :=
  (sequence_number_ self,
   set_sequence self (sequence_number_forced_ self) (u16 (sequence_number_ self + 1))).

Definition SetStartTimestamp (self : RTPSender) (timestamp : Z) (force : bool) : RTPSender :=
  if force then set_start self true timestamp
  else if negb (start_timestamp_forced_ self) then set_start self false timestamp
  else self.

(** A random sequence number, from [rand()]. *)
Definition random_sequence (rand RAND_MAX : Z) : Z :=
  u16 (rand / (RAND_MAX / MAX_INIT_RTP_SEQ_NUMBER)).

(** [created] is the database's new SSRC. *)
Definition GenerateNewSSRC (self : RTPSender) (created : Z) : Z * RTPSender :=
  if ssrc_forced_ self then (0, self)
  else (created, set_ssrc self false created).

Definition SetSSRC (self : RTPSender) (ssrc rand RAND_MAX : Z) : RTPSender :=
  if (ssrc_ self =? ssrc) && ssrc_forced_ self then self
  else
    let self := set_ssrc self true ssrc in
    if negb (sequence_number_forced_ self)
    then set_sequence self false (random_sequence rand RAND_MAX) else self.

Definition SetSequenceNumber (self : RTPSender) (seq : Z) : RTPSender := set_sequence self true seq.

(** [RTPtime] is the clock at the payload's frequency. *)
Definition SetSendingStatus (self : RTPSender) (enabled : bool) (RTPtime created rand RAND_MAX : Z)
  : RTPSender :=
  if enabled then SetStartTimestamp self RTPtime false
  else
    let self := if negb (ssrc_forced_ self) then set_ssrc self false created else self in
    if negb (sequence_number_forced_ self) && negb (ssrc_forced_ self)
    then set_sequence self false (random_sequence rand RAND_MAX) else self.

Definition SetCSRCStatus (self : RTPSender) (include : bool) : RTPSender :=
  set_csrcs self (num_csrcs_ self) (csrcs_ self) include.

(** The assertion on the length is off. *)
Definition SetCSRCs {R : Type} (self : RTPSender) (arr_of_csrc : list Z) (arr_length : Z)
  : flow R RTPSender :=
  let! arr := for_up (Z.to_nat arr_length) 0 (fun i arr =>
    let! c := rd arr_of_csrc i in wr arr i c) (csrcs_ self) in
  Cont (set_csrcs self arr_length arr (include_csrcs_ self)).

Definition CSRCs {R : Type} (self : RTPSender) (arr_of_csrc : list Z) : flow R (Z * list Z) :=
  let! arr := for_up (Z.to_nat (Z.min (num_csrcs_ self) kRtpCsrcSize)) 0 (fun i arr =>
    let! c := rd (csrcs_ self) i in wr arr i c) arr_of_csrc in
  Cont (num_csrcs_ self, arr).

Record RtpState : Type := mkRtpState {
  state_sequence_number : Z;
  state_start_timestamp : Z;
  state_timestamp : Z;
  state_capture_time_ms : Z;
  state_last_timestamp_time_ms : Z;
  state_media_has_been_sent : bool
}.

Definition SetRtpState (self : RTPSender) (rtp_state : RtpState) : RTPSender :=
  let self := SetStartTimestamp self (state_start_timestamp rtp_state) true in
  let self := set_sequence self true (state_sequence_number rtp_state) in
  set_times self (state_timestamp rtp_state) (state_capture_time_ms rtp_state)
    (state_last_timestamp_time_ms rtp_state) (state_media_has_been_sent rtp_state)
    (last_packet_marker_bit_ self).

Definition GetRtpState (self : RTPSender) : RtpState :=
  mkRtpState (sequence_number_ self) (start_timestamp_ self) (timestamp_ self)
    (capture_time_ms_ self) (last_timestamp_time_ms_ self) (media_has_been_sent_ self).

Definition SetRtxRtpState (self : RTPSender) (rtp_state : RtpState) : RTPSender :=
  set_rtx self (ssrc_rtx_ self) (state_sequence_number rtp_state) (payload_type_rtx_ self).

(** The other fields are the constructor's. *)
Definition GetRtxRtpState (self : RTPSender) : RtpState :=
  mkRtpState (sequence_number_rtx_ self) (start_timestamp_ self) 0 (-1) (-1) false.

(** ** Extension blocks

    Each returns the length it added and the buffer. *)

Definition BuildTransmissionTimeOffsetExtension {R : Type} (self : RTPSender) (buf : list Z)
  (p : Z) : flow R (Z * list Z) :=
  match GetId (rtp_header_extension_map_ self) kRtpExtensionTransmissionTimeOffset with
  | None => Cont (0, buf)
  | Some id =>
      let! buf := wr buf p (u8 (Z.shiftl id 4 + 2)) in
      let! buf := AssignUWord24ToBuffer buf (p + 1) (u32 (transmission_time_offset_ self)) in
      Cont (kTransmissionTimeOffsetLength, buf)
  end.

Definition BuildAudioLevelExtension {R : Type} (self : RTPSender) (buf : list Z) (p : Z)
  : flow R (Z * list Z) :=
  match GetId (rtp_header_extension_map_ self) kRtpExtensionAudioLevel with
  | None => Cont (0, buf)
  | Some id =>
      let! buf := wr buf p (u8 (Z.shiftl id 4 + 0)) in
      let! buf := wr buf (p + 1) 128 in
      let! buf := wr buf (p + 2) 0 in
      let! buf := wr buf (p + 3) 0 in
      Cont (kAudioLevelLength, buf)
  end.

Definition BuildAbsoluteSendTimeExtension {R : Type} (self : RTPSender) (buf : list Z) (p : Z)
  : flow R (Z * list Z) :=
  match GetId (rtp_header_extension_map_ self) kRtpExtensionAbsoluteSendTime with
  | None => Cont (0, buf)
  | Some id =>
      let! buf := wr buf p (u8 (Z.shiftl id 4 + 2)) in
      let! buf := AssignUWord24ToBuffer buf (p + 1) (absolute_send_time_ self) in
      Cont (kAbsoluteSendTimeLength, buf)
  end.

(** [while (type != kRtpExtensionNone)]: every turn writes a block, so the fuel of
    BuildRTPHeaderExtension lasts until the buffer is left. *)
Fixpoint blocks_loop {R : Type} (fuel : nat) (self : RTPSender) (p : Z)
  (type : RTPExtensionType) (total_block_length : Z) (buf : list Z) : flow R (Z * list Z) :=
  match fuel with
  | O => Stuck
  | S fuel =>
      if decide (type = kRtpExtensionNone) then Cont (total_block_length, buf)
      else
        let at_ := p + kRtpOneByteHeaderLength + total_block_length in
        let! (block_length, buf) :=
          match type with
          | kRtpExtensionTransmissionTimeOffset =>
              BuildTransmissionTimeOffsetExtension self buf at_
          | kRtpExtensionAudioLevel => BuildAudioLevelExtension self buf at_
          | kRtpExtensionAbsoluteSendTime => BuildAbsoluteSendTimeExtension self buf at_
          | kRtpExtensionNone => Cont (0, buf)
          end in
        blocks_loop fuel self p (Next (rtp_header_extension_map_ self) type)
          (u16 (total_block_length + block_length)) buf
  end.

Definition BuildRTPHeaderExtension {R : Type} (self : RTPSender) (buf : list Z) (p : Z)
  : flow R (Z * list Z) :=
  let map := rtp_header_extension_map_ self in
  if Size map <=? 0 then Cont (0, buf)
  else
    let! buf := AssignUWord16ToBuffer buf p kRtpOneByteHeaderExtensionId in
    let! (total_block_length, buf) :=
      blocks_loop (S (length buf)) self p (First map) 0 buf in
    if total_block_length =? 0 then Cont (0, buf)
    else
      let! buf := AssignUWord16ToBuffer buf (p + 2) (total_block_length / 4) in
      Cont (u16 (kRtpOneByteHeaderLength + total_block_length), buf).

(** ** The header *)

(** The result is the length and the buffer; [csrcs] is read for [num_csrcs]. *)
Definition CreateRTPHeader {R : Type} (self : RTPSender) (header : list Z) (payload_type ssrc : Z)
  (marker_bit : bool) (timestamp sequence_number : Z) (csrcs : list Z) (num_csrcs : Z)
  : flow R (Z * list Z) :=
  let! header := wr header 0 128 in
  let! header := wr header 1 (u8 payload_type) in
  let! header :=
    if marker_bit then
      let! x := rd header 1 in wr header 1 (Z.lor x kRtpMarkerBitMask)
    else Cont header in
  let! header := AssignUWord16ToBuffer header 2 sequence_number in
  let! header := AssignUWord32ToBuffer header 4 timestamp in
  let! header := AssignUWord32ToBuffer header 8 ssrc in
  if (0 <? num_csrcs) && (kRtpCsrcSize <? num_csrcs) then Cont (-1, header)
  else
    let! (rtp_header_length, header) :=
      if 0 <? num_csrcs then
        let! header := for_up (Z.to_nat num_csrcs) 0 (fun i header =>
          let! c := rd csrcs i in
          AssignUWord32ToBuffer header (12 + 4 * i) c) header in
        let! x := rd header 0 in
        let! header := wr header 0 (Z.lor (Z.land x 240) num_csrcs) in
        Cont (12 + 4 * num_csrcs, header)
      else Cont (12, header) in
    let! (len, header) := BuildRTPHeaderExtension self header rtp_header_length in
    if 0 <? len then
      let! x := rd header 0 in
      let! header := wr header 0 (Z.lor x 16) in
      Cont (rtp_header_length + len, header)
    else Cont (rtp_header_length, header).

(** [now_ms] is the clock; [inc_sequence_number] has no use in the code. *)
Definition BuildRTPheader {R : Type} (self : RTPSender) (now_ms : Z) (data_buffer : list Z)
  (payload_type : Z) (marker_bit : bool) (capture_timestamp capture_time_ms : Z)
  (timestamp_provided inc_sequence_number : bool) : flow R (Z * list Z * RTPSender) :=
  let ts := if timestamp_provided then u32 (start_timestamp_ self + capture_timestamp)
            else u32 (timestamp_ self + 1) in
  let sequence_number := sequence_number_ self in
  let self := set_times self ts capture_time_ms now_ms (media_has_been_sent_ self) marker_bit in
  let self := set_sequence self (sequence_number_forced_ self) (u16 (sequence_number + 1)) in
  let csrcs_length := if include_csrcs_ self then num_csrcs_ self else 0 in
  let! (len, buf) := CreateRTPHeader self data_buffer payload_type (ssrc_ self) marker_bit
                       (timestamp_ self) sequence_number (csrcs_ self) csrcs_length in
  Cont (len, buf, self).

(** ** Rewriting a packet *)

(** The common part of the Update functions: where the block of a type starts, if
    the packet has it with the header byte [low]. *)
Definition find_block {R : Type} (self : RTPSender) (packet : list Z) (rtp_packet_length : Z)
  (rtp_header : RTPHeader) (type : RTPExtensionType) (low : Z) : flow R (option Z) :=
  match GetId (rtp_header_extension_map_ self) type with
  | None => Cont None
  | Some id =>
      let extension_block_pos :=
        GetLengthUntilBlockStartInBytes (rtp_header_extension_map_ self) type in
      if extension_block_pos <? 0 then Cont None
      else
        let block_pos := 12 + numCSRCs rtp_header + extension_block_pos in
        if (rtp_packet_length <? block_pos + 4) || (headerLength rtp_header <? block_pos + 4)
        then Cont None
        else
          let! b0 := rd packet (12 + numCSRCs rtp_header) in
          let! found :=
            if b0 =? 190 then
              let! b1 := rd packet (12 + numCSRCs rtp_header + 1) in Cont (b1 =? 222)
            else Cont false in
          if negb found then Cont None
          else
            let first_block_byte := u8 (Z.shiftl id 4 + low) in
            let! b := rd packet block_pos in
            if negb (b =? first_block_byte) then Cont None else Cont (Some block_pos)
  end.

Definition UpdateTransmissionTimeOffset {R : Type} (self : RTPSender) (packet : list Z)
  (rtp_packet_length : Z) (rtp_header : RTPHeader) (time_diff_ms : Z) : flow R (list Z) :=
  let! pos := find_block self packet rtp_packet_length rtp_header
                kRtpExtensionTransmissionTimeOffset 2 in
  match pos with
  | None => Cont packet
  | Some block_pos => AssignUWord24ToBuffer packet (block_pos + 1) (u32 (time_diff_ms * 90))
  end.

Definition UpdateAudioLevel {R : Type} (self : RTPSender) (packet : list Z)
  (rtp_packet_length : Z) (rtp_header : RTPHeader) (is_voiced : bool) (dBov : Z)
  : flow R (bool * list Z) :=
  let! pos := find_block self packet rtp_packet_length rtp_header kRtpExtensionAudioLevel 0 in
  match pos with
  | None => Cont (false, packet)
  | Some block_pos =>
      let! packet := wr packet (block_pos + 1)
                       (u8 ((if is_voiced then 128 else 0) + Z.land dBov 127)) in
      Cont (true, packet)
  end.

Definition UpdateAbsoluteSendTime {R : Type} (self : RTPSender) (packet : list Z)
  (rtp_packet_length : Z) (rtp_header : RTPHeader) (now_ms : Z) : flow R (list Z) :=
  let! pos := find_block self packet rtp_packet_length rtp_header
                kRtpExtensionAbsoluteSendTime 2 in
  match pos with
  | None => Cont packet
  | Some block_pos =>
      AssignUWord24ToBuffer packet (block_pos + 1)
        (Z.land (Z.quot (s64 (Z.shiftl now_ms 18)) 1000) 16777215)
  end.

(** ** Padding *)

(** [rand] gives the bytes of the random words. *)
Definition BuildPaddingPacket {R : Type} (packet : list Z) (header_length bytes : Z)
  (rand : Z -> list Z) : flow R (Z * list Z) :=
  let padding_bytes_in_packet :=
    if bytes <? kMaxPaddingLength then bytes else kMaxPaddingLength in
  let! x := rd packet 0 in
  let! packet := wr packet 0 (Z.lor x 32) in
  let! packet := for_up (Z.to_nat (Z.shiftr padding_bytes_in_packet 2)) 0 (fun j packet =>
    blk_put packet (header_length + 4 * j) (rand j)) packet in
  let! packet := wr packet (header_length + padding_bytes_in_packet - 1)
                   (u8 padding_bytes_in_packet) in
  Cont (padding_bytes_in_packet, packet).

(** ** Retransmission on the RTX stream *)

(** The packet is the first [length] bytes of [buffer]. *)
Definition BuildRtxPacket {R : Type} (self : RTPSender) (buffer : list Z) (length : Z)
  (buffer_rtx : list Z) : flow R (Z * list Z * RTPSender) :=
  let! (_, rtp_header) := Parse (ztake length buffer) None new_RTPHeader in
  let! head := blk_get buffer 0 (headerLength rtp_header) in
  let! rtx := blk_put buffer_rtx 0 head in
  let! rtx :=
    if negb (payload_type_rtx_ self =? -1) then
      let! rtx := wr rtx 1 (u8 (payload_type_rtx_ self)) in
      if markerBit rtp_header then
        let! x := rd rtx 1 in wr rtx 1 (Z.lor x kRtpMarkerBitMask)
      else Cont rtx
    else Cont rtx in
  let! rtx := AssignUWord16ToBuffer rtx 2 (sequence_number_rtx_ self) in
  let self := set_rtx self (ssrc_rtx_ self) (u16 (sequence_number_rtx_ self + 1))
                (payload_type_rtx_ self) in
  let! rtx := AssignUWord32ToBuffer rtx 8 (ssrc_rtx_ self) in
  let! rtx := AssignUWord16ToBuffer rtx (headerLength rtp_header) (sequenceNumber rtp_header) in
  let! body := blk_get buffer (headerLength rtp_header) (length - headerLength rtp_header) in
  let! rtx := blk_put rtx (headerLength rtp_header + 2) body in
  Cont (u16 (length + 2), rtx, self).

(** The payload types that the receiver's registry knows. *)
Record RTPPayloadRegistry : Type := mkRTPPayloadRegistry {
  registry_payload_type_rtx_ : Z;
  incoming_payload_type_ : Z
}.

(** The result, the restored packet's buffer and the new length. *)
Definition RestoreOriginalPacket {R : Type} (reg : RTPPayloadRegistry) (restored packet : list Z)
  (packet_length original_ssrc : Z) (header : RTPHeader) : flow R (bool * list Z * Z) :=
  if packet_length <? kRtxHeaderSize + headerLength header
  then Cont (false, restored, packet_length)
  else
    let! original_sequence_number := BufferToUWord16 packet (headerLength header) in
    let! head := blk_get packet 0 (headerLength header) in
    let! restored := blk_put restored 0 head in
    let! body := blk_get packet (headerLength header + kRtxHeaderSize)
                   (packet_length - headerLength header - kRtxHeaderSize) in
    let! restored := blk_put restored (headerLength header) body in
    let packet_length := packet_length - kRtxHeaderSize in
    let! restored := AssignUWord16ToBuffer restored 2 original_sequence_number in
    let! restored := AssignUWord32ToBuffer restored 8 original_ssrc in
    if negb (registry_payload_type_rtx_ reg =? -1) then
      if (payloadType header =? registry_payload_type_rtx_ reg)
         && negb (incoming_payload_type_ reg =? -1)
      then
        let! restored := wr restored 1 (u8 (incoming_payload_type_ reg)) in
        if markerBit header then
          let! x := rd restored 1 in
          let! restored := wr restored 1 (Z.lor x kRtpMarkerBitMask) in
          Cont (true, restored, packet_length)
        else Cont (true, restored, packet_length)
      else Cont (false, restored, packet_length)
    else Cont (true, restored, packet_length).

(** ** What CreateRTPHeader writes *)

(** The block of a pair of the map. *)
Definition block (self : RTPSender) (p : Z * HeaderExtension) : list Z :=
  match ext_type p.2 with
  | kRtpExtensionTransmissionTimeOffset =>
      u8 (Z.shiftl p.1 4 + 2) :: be24 (u32 (transmission_time_offset_ self))
  | kRtpExtensionAudioLevel => [u8 (Z.shiftl p.1 4 + 0); 128; 0; 0]
  | kRtpExtensionAbsoluteSendTime => u8 (Z.shiftl p.1 4 + 2) :: be24 (absolute_send_time_ self)
  | kRtpExtensionNone => []
  end.

Definition blocks (self : RTPSender) (m : ExtensionMap) : list Z := mjoin (block self <$> m).

Lemma block_length self p : ext_type p.2 <> kRtpExtensionNone -> Zlen (block self p) = 4.
Proof. unfold block. by destruct (ext_type p.2). Qed.

Lemma blocks_cons self p m : blocks self (p :: m) = block self p ++ blocks self m.
Proof. reflexivity. Qed.

Lemma blocks_length self m : kRtpExtensionNone ∉ types m -> Zlen (blocks self m) = 4 * Zlen m.
Proof.
  unfold types. induction m as [|p m IH]; [done|]. rewrite blocks_cons. cbn [fmap list_fmap].
  rewrite not_elem_of_cons. intros [Hp Hm].
  rewrite Zlen_app, block_length, (IH Hm), Zlen_cons by done. lia.
Qed.

Lemma blocks_app self a b : blocks self (a ++ b) = blocks self a ++ blocks self b.
Proof. unfold blocks. rewrite fmap_app. apply join_app. Qed.

(** The distinct proper types are at most three. *)
Lemma types_ok_length m : types_ok m -> Zlen m <= 3.
Proof.
  intros [Hd Hn]. unfold Zlen. rewrite <- (length_fmap (fun p => ext_type p.2) m). fold (types m).
  enough ((length (types m) <= length [kRtpExtensionTransmissionTimeOffset; kRtpExtensionAudioLevel;
    kRtpExtensionAbsoluteSendTime])%nat) by (simpl in *; lia).
  apply submseteq_length, NoDup_submseteq; [done|]. intros [] Hin; [done|rewrite !elem_of_cons; tauto..].
Qed.

(** One turn of the loop stores the block of its pair. *)
Lemma build_block {R} self pre i e m buf p h :
  rtp_header_extension_map_ self = pre ++ (i, e) :: m -> types_ok (pre ++ (i, e) :: m) ->
  0 <= p -> p + Zlen h + 4 <= Zlen buf ->
  match ext_type e with
  | kRtpExtensionTransmissionTimeOffset =>
      BuildTransmissionTimeOffsetExtension (R := R) self (put buf p h) (p + Zlen h)
  | kRtpExtensionAudioLevel => BuildAudioLevelExtension self (put buf p h) (p + Zlen h)
  | kRtpExtensionAbsoluteSendTime => BuildAbsoluteSendTimeExtension self (put buf p h) (p + Zlen h)
  | kRtpExtensionNone => Cont (0, put buf p h)
  end = Cont (4, put buf p (h ++ block self (i, e))).
Proof.
  intros Em [Hd Hn] Hp Hl. assert (Hh := Zlen_nonneg h).
  assert (Hid := GetId_app pre i e m Hd). unfold block. cbn [fst snd].
  destruct (ext_type e) eqn:Ee.
  - exfalso. apply Hn. unfold types. rewrite fmap_app, elem_of_app. cbn. rewrite elem_of_cons. auto.
  - unfold BuildTransmissionTimeOffsetExtension. rewrite Em, Hid. rewrite put_step by (done || lia).
    cbn [flow_bind]. rewrite AssignUWord24_step by (done || zlen). by rewrite <- app_assoc.
  - unfold BuildAudioLevelExtension. rewrite Em, Hid.
    do 4 (rewrite put_step by (done || zlen); cbn [flow_bind]). by rewrite <- !app_assoc.
  - unfold BuildAbsoluteSendTimeExtension. rewrite Em, Hid. rewrite put_step by (done || lia).
    cbn [flow_bind]. rewrite AssignUWord24_step by (done || zlen). by rewrite <- app_assoc.
Qed.

Lemma blocks_loop_spec {R} self buf p h m pre n :
  rtp_header_extension_map_ self = pre ++ m -> map_ok (pre ++ m) -> types_ok (pre ++ m) ->
  0 <= p -> Zlen h = 4 -> p + 4 + 4 * Zlen (pre ++ m) <= Zlen buf -> Zlen m < Z.of_nat n ->
  blocks_loop (R := R) n self p (First m) (4 * Zlen pre) (put buf p (h ++ blocks self pre))
  = Cont (4 * Zlen (pre ++ m), put buf p (h ++ blocks self (pre ++ m))).
Proof.
  revert pre n. induction m as [|[i e] m IH]; intros pre n Em Hok Hty Hp Hh Hl Hn;
    (destruct n as [|n]; [rewrite ?Zlen_cons, ?Zlen_nil in Hn; try (assert (H0 := Zlen_nonneg m)); lia|]); cbn [blocks_loop First].
  - rewrite app_nil_r. by rewrite decide_True.
  - assert (Hne : ext_type e <> kRtpExtensionNone).
    { intros E. apply Hty. unfold types. rewrite fmap_app, elem_of_app. cbn. rewrite elem_of_cons. auto. }
    assert (Hpre : kRtpExtensionNone ∉ types pre).
    { intros E. apply Hty. unfold types in *. rewrite fmap_app, elem_of_app. auto. }
    rewrite decide_False by done.
    assert (Hb := blocks_length self pre Hpre). assert (H3 := types_ok_length _ Hty).
    rewrite Zlen_app, Zlen_cons in Hl. rewrite Zlen_app, Zlen_cons in H3. rewrite Zlen_cons in Hn.
    assert (H0 := Zlen_nonneg m). assert (H1 := Zlen_nonneg pre).
    unfold kRtpOneByteHeaderLength. replace (p + 4 + 4 * Zlen pre) with (p + Zlen (h ++ blocks self pre))
      by (rewrite Zlen_app; lia).
    rewrite (build_block self pre i e m) by (done || (rewrite Zlen_app; lia)). cbn [flow_bind].
    rewrite Em. rewrite Next_app by (done || apply Hty).
    rewrite u16_id by (unfold is_u16; lia). rewrite <- app_assoc.
    replace (4 * Zlen pre + 4) with (4 * Zlen (pre ++ [(i, e)]))
      by (rewrite Zlen_app, Zlen_cons, Zlen_nil; lia).
    replace (pre ++ (i, e) :: m) with ((pre ++ [(i, e)]) ++ m) in * by (by rewrite <- app_assoc).
    rewrite <- IH with (n := n); try done.
    + rewrite blocks_app. do 3 f_equal. unfold blocks. cbn. by rewrite app_nil_r.
    + rewrite !Zlen_app, Zlen_cons, Zlen_nil. lia.
    + lia.
Qed.

(** The extension of the header. *)
Definition extension_bytes (self : RTPSender) : list Z :=
  match rtp_header_extension_map_ self with
  | [] => []
  | m => be16 kRtpOneByteHeaderExtensionId ++ be16 (Zlen m) ++ blocks self m
  end.

Lemma BuildRTPHeaderExtension_spec {R} self buf p a :
  map_ok (rtp_header_extension_map_ self) -> types_ok (rtp_header_extension_map_ self) ->
  0 <= p -> p + Zlen a + 16 <= Zlen buf ->
  BuildRTPHeaderExtension (R := R) self (put buf p a) (p + Zlen a)
  = Cont (Zlen (extension_bytes self), put buf p (a ++ extension_bytes self)).
Proof.
  intros Hok Hty Hp Hl. assert (Ha := Zlen_nonneg a). unfold BuildRTPHeaderExtension, extension_bytes, Size.
  destruct (rtp_header_extension_map_ self) as [|q m] eqn:Em; [by rewrite app_nil_r|].
  assert (H3 := types_ok_length _ Hty). assert (H1 : 1 <= Zlen (q :: m)) by (rewrite Zlen_cons; assert (H := Zlen_nonneg m); lia).
  destruct (Z.leb_spec (Zlen (q :: m)) 0); [lia|].
  assert (Hb := blocks_length self (q :: m) (proj2 Hty)).
  assert (HL : Zlen (put buf p a) = Zlen buf) by (apply Zlen_put; lia).
  rewrite AssignUWord16_put by lia. cbn [flow_bind].
  rewrite (put_extend (put buf p a) (p + Zlen a) _ 2) by (rewrite ?HL; zlen).
  set (w := ztake 2 _). assert (Hw : Zlen w = 2).
  { subst w. apply Zlen_ztake. rewrite Zlen_zdrop; rewrite ?HL; zlen. }
  clearbody w. set (h := be16 kRtpOneByteHeaderExtensionId ++ w).
  assert (Hh : Zlen h = 4) by (subst h; rewrite Zlen_app, Hw; reflexivity).
  assert (Hloop := blocks_loop_spec (R := R) self (put buf p a) (p + Zlen a) h (q :: m) []
    (S (length (put (put buf p a) (p + Zlen a) h)))).
  assert (Hlen : Zlen (put (put buf p a) (p + Zlen a) h) = Zlen buf) by (rewrite Zlen_put; lia).
  change (4 * Zlen []) with 0 in Hloop. change (blocks self []) with (@nil Z) in Hloop.
  rewrite app_nil_r in Hloop. cbn [app] in Hloop.
  rewrite Hloop; clear Hloop; try done; try lia; [|unfold Zlen in *; lia].
  cbn [flow_bind]. destruct (Z.eqb_spec (4 * Zlen (q :: m)) 0); [lia|].
  subst h. rewrite <- app_assoc.
  rewrite AssignUWord16_put by (rewrite ?Zlen_put; rewrite ?HL; rewrite ?Zlen_app, ?Hw, ?Hb, ?Zlen_be16; lia).
  cbn [flow_bind].
  rewrite (put_inside (put buf p a) (p + Zlen a))
    by (rewrite ?HL, ?Hw, ?Hb, ?Zlen_be16; lia || reflexivity).
  rewrite put_put by (rewrite ?Zlen_app, ?Hb, ?Zlen_be16; lia).
  rewrite Z.mul_comm, Z.div_mul by lia.
  rewrite u16_id by (unfold is_u16, kRtpOneByteHeaderLength; lia).
  f_equal. f_equal. rewrite !Zlen_app, Hb, !Zlen_be16. unfold kRtpOneByteHeaderLength. lia.
Qed.
