(* ===== verification/RtpRoundTrip.v ===== *)
(** * What the sender writes, the parser reads

    The bytes that CreateRTPHeader stores, and the header that RtpHeaderParser gets
    back from them; the retransmission of a packet on the RTX stream and its
    restoration by the receiver. *)
From S2P Require Import Prelude RtpWire RtpExtMap RtpHeader RtpSender.
Local Open Scope Z_scope.

Definition has_ext (self : RTPSender) : bool :=
  match rtp_header_extension_map_ self with [] => false | _ => true end.

(** The first two bytes, and the others of the fixed part. *)
Definition first_bytes (num_csrcs : Z) (x : bool) (payload_type : Z) (marker_bit : bool) : list Z :=
  [128 + num_csrcs + (if x then 16 else 0);
   if marker_bit then Z.lor (u8 payload_type) kRtpMarkerBitMask else u8 payload_type].

Definition fixed_bytes (ssrc timestamp sequence_number : Z) : list Z :=
  be16 sequence_number ++ be32 timestamp ++ be32 ssrc.

Definition csrc_bytes (csrcs : list Z) : list Z := mjoin (be32 <$> csrcs).

Definition header_bytes (self : RTPSender) (payload_type ssrc : Z) (marker_bit : bool)
  (timestamp sequence_number : Z) (csrcs : list Z) : list Z :=
  first_bytes (Zlen csrcs) (has_ext self) payload_type marker_bit ++
  fixed_bytes ssrc timestamp sequence_number ++ csrc_bytes csrcs ++ extension_bytes self.

Lemma csrc_bytes_length cs : Zlen (csrc_bytes cs) = 4 * Zlen cs.
Proof.
  induction cs as [|c cs IH]; [done|]. change (csrc_bytes (c :: cs)) with (be32 c ++ csrc_bytes cs).
  zlen.
Qed.

Lemma csrc_bytes_snoc cs c : csrc_bytes (cs ++ [c]) = csrc_bytes cs ++ be32 c.
Proof. unfold csrc_bytes. rewrite fmap_app, join_app. cbn. done. Qed.

Lemma extension_bytes_length self :
  types_ok (rtp_header_extension_map_ self) ->
  Zlen (extension_bytes self) = (if has_ext self then 4 + 4 * Zlen (rtp_header_extension_map_ self) else 0).
Proof.
  intros Hty. unfold extension_bytes, has_ext.
  destruct (rtp_header_extension_map_ self) as [|p m] eqn:E; [done|]. rewrite <- E in *.
  rewrite !Zlen_app, blocks_length by apply Hty. rewrite !Zlen_be16. lia.
Qed.

Lemma fixed_bytes_length ssrc ts sn : Zlen (fixed_bytes ssrc ts sn) = 10.
Proof. reflexivity. Qed.

Lemma first_byte_lor n : 0 <= n < 16 ->
  Z.lor (Z.land 128 240) n = 128 + n /\ Z.lor (128 + n) 16 = 128 + n + 16.
Proof.
  intros Hn. change (Z.land 128 240) with (8 * 2 ^ 4). rewrite lor_high_low by lia. split; [done|].
  change 128 with (8 * 2 ^ 4). rewrite <- lor_high_low by lia. rewrite <- Z.lor_assoc, (Z.lor_comm n), Z.lor_assoc.
  change (Z.lor (8 * 2 ^ 4) 16) with (9 * 2 ^ 4). rewrite !lor_high_low by lia. lia.
Qed.

(** Rewriting the first bytes of what was written. *)
Lemma rd_put_0 {R} buf x bs : rd (R := R) (put buf 0 (x :: bs)) 0 = Cont x.
Proof. apply rd_put; [lia|apply Zlen_nonneg|lia|done]. Qed.

Lemma wr_put_0 {R} buf x y bs :
  1 + Zlen bs <= Zlen buf -> wr (R := R) (put buf 0 (x :: bs)) 0 y = Cont (put buf 0 (y :: bs)).
Proof.
  intros Hl. assert (Hb := Zlen_nonneg bs). rewrite put_one by (rewrite Zlen_put; rewrite ?Zlen_cons; lia).
  done.
Qed.

Lemma csrc_loop {R} header a csrcs n :
  Zlen a = 12 -> 0 <= n <= Zlen csrcs -> 12 + 4 * n <= Zlen header ->
  for_up (R := R) (Z.to_nat n) 0 (fun i header =>
    let! c := rd csrcs i in AssignUWord32ToBuffer header (12 + 4 * i) c) (put header 0 a)
  = Cont (put header 0 (a ++ csrc_bytes (ztake n csrcs))).
Proof.
  intros Ha Hn Hl.
  destruct (for_up_inv (R := R) (fun i h => h = put header 0 (a ++ csrc_bytes (ztake i csrcs)))
    (fun i header => let! c := rd csrcs i in AssignUWord32ToBuffer header (12 + 4 * i) c)
    (Z.to_nat n) 0 (put header 0 a)) as (h & -> & ->).
  - rewrite ztake_0 by lia. cbn. by rewrite app_nil_r.
  - intros i h Hi ->. rewrite rd_total by lia. cbn [flow_bind]. eexists. split; [|reflexivity].
    assert (Ht : Zlen (ztake i csrcs) = i) by (apply Zlen_ztake; lia).
    rewrite AssignUWord32_step by (rewrite ?Zlen_app, ?csrc_bytes_length, ?Ha, ?Ht; lia).
    rewrite <- app_assoc, <- csrc_bytes_snoc. do 4 f_equal.
    by rewrite ztake_snoc by lia.
  - by rewrite Z2Nat.id by lia.
Qed.

(** CreateRTPHeader writes the bytes of the header and returns their number. *)
Lemma CreateRTPHeader_spec {R} self header payload_type ssrc marker_bit ts sn csrcs n :
  map_ok (rtp_header_extension_map_ self) -> types_ok (rtp_header_extension_map_ self) ->
  0 <= n <= 15 -> n <= Zlen csrcs -> 28 + 4 * n <= Zlen header ->
  CreateRTPHeader (R := R) self header payload_type ssrc marker_bit ts sn csrcs n
  = let bs := header_bytes self payload_type ssrc marker_bit ts sn (ztake n csrcs) in
    Cont (Zlen bs, put header 0 bs).
Proof.
  intros Hok Hty Hn Hc Hl. unfold CreateRTPHeader, kRtpCsrcSize.
  rewrite put_one by lia. cbn [flow_bind].
  rewrite put_step by (done || zlen). cbn [flow_bind app].
  replace (if marker_bit then _ else _) with (Cont (R := R)
    (put header 0 [128; if marker_bit then Z.lor (u8 payload_type) kRtpMarkerBitMask else u8 payload_type])).
  2: { destruct marker_bit; [|done].
       rewrite (rd_put header 0 _ 1 (u8 payload_type)) by (done || lia). cbn [flow_bind].
       rewrite put_one by (rewrite Zlen_put; zlen). done. }
  set (b1 := if marker_bit then _ else _). cbn [flow_bind].
  rewrite AssignUWord16_step by (done || zlen). cbn [flow_bind].
  rewrite AssignUWord32_step by (done || zlen). cbn [flow_bind].
  rewrite AssignUWord32_step by (done || zlen). cbn [flow_bind].
  rewrite (proj2 (Z.ltb_ge 15 n)), andb_false_r by lia.
  rewrite <- !app_assoc. change (be16 sn ++ be32 ts ++ be32 ssrc) with (fixed_bytes ssrc ts sn).
  change ([128; b1] ++ fixed_bytes ssrc ts sn) with (128 :: b1 :: fixed_bytes ssrc ts sn).
  destruct (first_byte_lor n) as [E1 E2]; [lia|].
  assert (Hz : Zlen (ztake n csrcs) = n) by (apply Zlen_ztake; lia).
  assert (Hcl := csrc_bytes_length (ztake n csrcs)).
  assert (Hfl := fixed_bytes_length ssrc ts sn).
  set (tail := b1 :: fixed_bytes ssrc ts sn ++ csrc_bytes (ztake n csrcs)).
  assert (Htl : Zlen tail = 11 + 4 * n) by (subst tail; rewrite Zlen_cons, Zlen_app; lia).
  replace (if 0 <? n then _ else _) with (Cont (R := R) (12 + 4 * n, put header 0 (128 + n :: tail))).
  2: { destruct (Z.ltb_spec 0 n).
       - rewrite csrc_loop by (done || lia). cbn [flow_bind app]. fold tail.
         rewrite rd_put_0. cbn [flow_bind]. rewrite wr_put_0 by lia. cbn [flow_bind]. by rewrite E1.
       - subst tail. rewrite (ztake_0 n) by lia. replace n with 0 by lia.
         change (csrc_bytes []) with (@nil Z). by rewrite app_nil_r. }
  cbn [flow_bind]. replace (12 + 4 * n) with (0 + Zlen (128 + n :: tail)) by zlen.
  rewrite BuildRTPHeaderExtension_spec by (done || zlen). cbn [flow_bind].
  assert (Hel := extension_bytes_length self Hty). assert (H3 := types_ok_length _ Hty).
  unfold header_bytes, first_bytes. rewrite Hz. fold b1. cbn zeta.
  replace ([128 + n + (if has_ext self then 16 else 0); b1] ++ fixed_bytes ssrc ts sn ++
    csrc_bytes (ztake n csrcs) ++ extension_bytes self)
    with ((128 + n + (if has_ext self then 16 else 0)) :: tail ++ extension_bytes self)
    by (subst tail; cbn [app]; by rewrite <- !app_assoc).
  clearbody tail. assert (Hm := Zlen_nonneg (rtp_header_extension_map_ self)).
  destruct (has_ext self).
  - destruct (Z.ltb_spec 0 (Zlen (extension_bytes self))); [|lia].
    cbn [app]. rewrite rd_put_0. cbn [flow_bind]. rewrite wr_put_0 by (rewrite Zlen_app; lia). cbn [flow_bind].
    rewrite E2. do 2 f_equal. rewrite !Zlen_cons, Zlen_app. lia.
  - destruct (Z.ltb_spec 0 (Zlen (extension_bytes self))); [lia|].
    rewrite Z.add_0_r. do 2 f_equal. rewrite !Zlen_cons, Zlen_app. lia.
Qed.

(** ** Parsing the blocks *)

(** What the block of a pair sets in the parsed extension. *)
Definition add_block (self : RTPSender) (e : RTPHeaderExtension) (p : Z * HeaderExtension)
  : RTPHeaderExtension :=
  match ext_type p.2 with
  | kRtpExtensionTransmissionTimeOffset =>
      mkRTPHeaderExtension true (transmission_time_offset_ self) (hasAbsoluteSendTime e)
        (absoluteSendTime e) (hasAudioLevel e) (audioLevel e)
  | kRtpExtensionAudioLevel =>
      mkRTPHeaderExtension (hasTransmissionTimeOffset e) (transmissionTimeOffset e)
        (hasAbsoluteSendTime e) (absoluteSendTime e) true 128
  | kRtpExtensionAbsoluteSendTime =>
      mkRTPHeaderExtension (hasTransmissionTimeOffset e) (transmissionTimeOffset e)
        true (absolute_send_time_ self) (hasAudioLevel e) (audioLevel e)
  | kRtpExtensionNone => e
  end.

(** The values that the setters let through. *)
Definition sender_ok (self : RTPSender) : Prop :=
  map_ok (rtp_header_extension_map_ self) /\ types_ok (rtp_header_extension_map_ self) /\
  - 8388607 <= transmission_time_offset_ self <= 8388607 /\
  0 <= absolute_send_time_ self <= 16777215.

Lemma block_byte i low : 0 < i <= 14 -> low = 0 \/ low = 2 ->
  u8 (Z.shiftl i 4 + low) <> 0 /\
  Z.shiftr (Z.land (u8 (Z.shiftl i 4 + low)) 240) 4 = i /\
  Z.land (u8 (Z.shiftl i 4 + low)) 15 = low.
Proof.
  intros Hi Hl.
  assert (i = 1 \/ i = 2 \/ i = 3 \/ i = 4 \/ i = 5 \/ i = 6 \/ i = 7 \/ i = 8 \/ i = 9 \/ i = 10
    \/ i = 11 \/ i = 12 \/ i = 13 \/ i = 14) by lia.
  destruct_or?; subst; vm_compute; split_and!; congruence.
Qed.

(** The padding after a block ends at the next block, which is not zero. *)
Lemma padding_stops {R} self a m rest end_ p :
  map_ok m -> kRtpExtensionNone ∉ types m -> p = Zlen a -> end_ = p + 4 * Zlen m ->
  ParsePaddingBytes (R := R) (a ++ blocks self m ++ rest) end_ p = Cont 0 /\
  forall k, 0 <= k -> padding_loop (R := R) (Z.to_nat (end_ - p)) (a ++ blocks self m ++ rest) p k = Cont k.
Proof.
  intros Hok Hn -> ->.
  assert (forall k, 0 <= k -> padding_loop (R := R) (Z.to_nat (Zlen a + 4 * Zlen m - Zlen a))
    (a ++ blocks self m ++ rest) (Zlen a) k = Cont k) as H; [|split; [by apply H|done]].
  intros k Hk. destruct m as [|[i e] m].
  - change (4 * Zlen []) with 0. by replace (Zlen a + 0 - Zlen a) with 0 by lia.
  - assert (Hm := Zlen_nonneg m). rewrite Zlen_cons.
    replace (Z.to_nat _) with (S (Z.to_nat (3 + 4 * Zlen m))) by lia. cbn [padding_loop].
    destruct Hok as (Hi & _ & _). unfold types in Hn. cbn in Hn. apply not_elem_of_cons in Hn as [Hn _].
    rewrite blocks_cons. unfold block. cbn [fst snd].
    destruct (ext_type e); [done| | |]; cbn [app]; rewrite rd_app by done; cbn [flow_bind].
    + destruct (Z.eqb_spec (u8 (Z.shiftl i 4 + 2)) 0); [|done]. by destruct (block_byte i 2) as [? _]; [lia|auto|].
    + destruct (Z.eqb_spec (u8 (Z.shiftl i 4 + 0)) 0); [|done]. by destruct (block_byte i 0) as [? _]; [lia|auto|].
    + destruct (Z.eqb_spec (u8 (Z.shiftl i 4 + 2)) 0); [|done]. by destruct (block_byte i 2) as [? _]; [lia|auto|].
Qed.

Lemma offset_back x : - 8388607 <= x <= 8388607 ->
  (if flag (u32 x mod 2 ^ 24) 8388608 then s32 (Z.lor (u32 x mod 2 ^ 24) 4278190080)
   else u32 x mod 2 ^ 24) = x.
Proof.
  intros Hx. rewrite sign_24 by zdm. change (2 ^ 23) with 8388608. change (2 ^ 24) with 16777216.
  unfold u32. zdm.
Qed.

Lemma parse_element_block {R} self map a i x m rest end_ p e :
  sender_ok self -> GetType map i = Some (ext_type x) -> map_ok ((i, x) :: m) ->
  kRtpExtensionNone ∉ types ((i, x) :: m) -> p = Zlen a -> end_ = p + 4 + 4 * Zlen m ->
  parse_element (R := R) (a ++ blocks self ((i, x) :: m) ++ rest) map end_ p e
  = Cont (add_block self e (i, x), Some (p + 4)).
Proof.
  intros (_ & _ & Hoff & Habs) Ht (Hi & _ & Hm) Hn -> ->.
  assert (Hok : map_ok m) by (eapply map_from_weaken; [|exact Hm]; lia). clear Hm.
  unfold types in Hn. cbn in Hn. apply not_elem_of_cons in Hn as [Hx Hn].
  assert (Hm := Zlen_nonneg m). unfold parse_element, add_block. rewrite blocks_cons, <- (app_assoc _ _ rest). unfold block. cbn [fst snd].
  destruct (block_byte i 2) as (_ & Ei & El); [lia|auto|].
  destruct (block_byte i 0) as (_ & Ei0 & El0); [lia|auto|].
  destruct (ext_type x); [done| | |]; cbn [app]; rewrite rd_app by done; cbn [flow_bind].
  - rewrite Ei, El. destruct (Z.eqb_spec i 15); [lia|]. rewrite Ht. unfold parse_block. cbn [negb Z.eqb Pos.eqb].
    set (b := u8 _). replace (a ++ b :: be24 (u32 (transmission_time_offset_ self)) ++ blocks self m ++ rest)
      with ((a ++ [b]) ++ be24 (u32 (transmission_time_offset_ self)) ++ blocks self m ++ rest) by (by rewrite <- app_assoc).
    rewrite Word24_be by zlen. cbn [flow_bind]. rewrite offset_back by done.
    rewrite app_assoc. destruct (padding_stops (R := R) self ((a ++ [b]) ++ be24 (u32 (transmission_time_offset_ self))) m rest
      (Zlen a + 4 + 4 * Zlen m) (Zlen a + 1 + (2 + 1))) as [-> _]; try done; [zlen|zlen|].
    cbn [flow_bind]. do 3 f_equal. lia.
  - rewrite Ei0, El0. destruct (Z.eqb_spec i 15); [lia|]. rewrite Ht. unfold parse_block. cbn [negb Z.eqb].
    set (b := u8 _). rewrite (rd_app_at a (b :: _) 1) by lia.
    change (rd (R := R) (b :: 128 :: 0 :: 0 :: blocks self m ++ rest) 1) with (Cont (R := R) 128). cbn [flow_bind].
    change (b :: 128 :: 0 :: 0 :: blocks self m ++ rest) with ([b; 128; 0; 0] ++ blocks self m ++ rest).
    rewrite (app_assoc a).
    destruct (padding_stops (R := R) self (a ++ [b; 128; 0; 0]) m rest
      (Zlen a + 4 + 4 * Zlen m) (Zlen a + 4)) as [_ Hp]; try done; [zlen|].
    unfold ParsePaddingBytes.
    replace (Z.to_nat (Zlen a + 4 + 4 * Zlen m - (Zlen a + 1 + (0 + 1))))
      with (S (S (Z.to_nat (Zlen a + 4 + 4 * Zlen m - (Zlen a + 4))))) by lia.
    cbn [padding_loop].
    rewrite <- (app_assoc a). replace (Zlen a + 1 + (0 + 1)) with (Zlen a + 2) by lia.
    replace (Zlen a + 2 + 1) with (Zlen a + 3) by lia. rewrite !(rd_app_at a) by lia.
    change (rd (R := R) ([b; 128; 0; 0] ++ blocks self m ++ rest) 2) with (Cont (R := R) 0).
    change (rd (R := R) ([b; 128; 0; 0] ++ blocks self m ++ rest) 3) with (Cont (R := R) 0).
    cbn [flow_bind negb Z.eqb]. replace (Zlen a + 3 + 1) with (Zlen a + 4) by lia.
    rewrite (app_assoc a), Hp by (apply u8_range). cbn [flow_bind]. do 3 f_equal. change (u8 (u8 (0 + 1) + 1)) with 2. lia.
  - rewrite Ei, El. destruct (Z.eqb_spec i 15); [lia|]. rewrite Ht. unfold parse_block. cbn [negb Z.eqb Pos.eqb].
    set (b := u8 _). replace (a ++ b :: be24 (absolute_send_time_ self) ++ blocks self m ++ rest)
      with ((a ++ [b]) ++ be24 (absolute_send_time_ self) ++ blocks self m ++ rest) by (by rewrite <- app_assoc).
    rewrite Word24_be by zlen. cbn [flow_bind]. rewrite (Z.mod_small (absolute_send_time_ self)) by lia.
    rewrite app_assoc. destruct (padding_stops (R := R) self ((a ++ [b]) ++ be24 (absolute_send_time_ self)) m rest
      (Zlen a + 4 + 4 * Zlen m) (Zlen a + 1 + (2 + 1))) as [-> _]; try done; [zlen|zlen|].
    cbn [flow_bind]. do 3 f_equal. lia.
Qed.

Lemma extension_loop_blocks {R} self pre m a rest end_ p e n :
  sender_ok self -> rtp_header_extension_map_ self = pre ++ m -> p = Zlen a ->
  end_ = p + 4 * Zlen m -> 4 * Zlen m < Z.of_nat n ->
  extension_loop (R := R) n (a ++ blocks self m ++ rest) (rtp_header_extension_map_ self) end_ p e
  = Cont (foldl (add_block self) e m).
Proof.
  intros Hok. revert pre a p e n. induction m as [|[i x] m IH]; intros pre a p e n Em -> -> Hn.
  - change (4 * Zlen []) with 0 in *. destruct n; [lia|]. cbn [extension_loop foldl].
    by replace (Zlen a + 0 - Zlen a) with 0 by lia.
  - rewrite (Zlen_cons (i, x) m) in *. assert (Hm := Zlen_nonneg m). destruct n; [lia|].
    cbn [extension_loop foldl]. destruct (Z.ltb_spec 0 (Zlen a + 4 * (1 + Zlen m) - Zlen a)); [|lia].
    assert (Hok' := Hok). destruct Hok' as (Hmap & [Hd Hty] & _).
    rewrite Em in Hmap, Hd, Hty.
    assert (Hs : exists lo, 0 <= lo /\ map_from lo ((i, x) :: m)).
    { revert Hmap. unfold map_ok. assert (H0 : 0 <= 0) by lia. revert H0. generalize 0 at 2 3 as lo.
      clear. induction pre as [|[j y] pre IH]; intros lo H0 H; [by exists lo|].
      destruct H as (? & _ & H). apply (IH j); [lia|done]. }
    destruct Hs as (lo & H0 & Hlo).
    rewrite (parse_element_block self _ a i x m rest _ _ e Hok); try done.
    + cbn [flow_bind]. rewrite blocks_cons, <- app_assoc, app_assoc.
      assert (Hb : Zlen (block self (i, x)) = 4).
      { apply block_length. intros E. apply Hty. unfold types. rewrite fmap_app, elem_of_app. cbn.
        rewrite elem_of_cons. auto. }
      apply (IH (pre ++ [(i, x)])); [by rewrite <- app_assoc|rewrite Zlen_app; lia|lia|lia].
    + rewrite Em. unfold GetType. by rewrite (map_find_app _ _ _ _ 0).
    + by eapply map_from_weaken.
    + intros E. apply Hty. unfold types in *. rewrite fmap_app, elem_of_app. auto.
    + lia.
Qed.

(** The extension that the sender's state describes. *)
Definition sent_extension (self : RTPSender) : RTPHeaderExtension :=
  let reg := IsRegistered (rtp_header_extension_map_ self) in
  mkRTPHeaderExtension
    (reg kRtpExtensionTransmissionTimeOffset)
    (if reg kRtpExtensionTransmissionTimeOffset then transmission_time_offset_ self else 0)
    (reg kRtpExtensionAbsoluteSendTime)
    (if reg kRtpExtensionAbsoluteSendTime then absolute_send_time_ self else 0)
    (reg kRtpExtensionAudioLevel)
    (if reg kRtpExtensionAudioLevel then 128 else 0).

Lemma foldl_add_block self m e :
  foldl (add_block self) e m =
  let reg := IsRegistered m in
  mkRTPHeaderExtension
    (reg kRtpExtensionTransmissionTimeOffset || hasTransmissionTimeOffset e)
    (if reg kRtpExtensionTransmissionTimeOffset then transmission_time_offset_ self
     else transmissionTimeOffset e)
    (reg kRtpExtensionAbsoluteSendTime || hasAbsoluteSendTime e)
    (if reg kRtpExtensionAbsoluteSendTime then absolute_send_time_ self else absoluteSendTime e)
    (reg kRtpExtensionAudioLevel || hasAudioLevel e)
    (if reg kRtpExtensionAudioLevel then 128 else audioLevel e).
Proof.
  revert e. induction m as [|[i x] m IH]; intros e; [by destruct e|]. cbn [foldl]. rewrite IH.
  cbn zeta. unfold add_block. cbn [snd IsRegistered].
  destruct (ext_type x); cbn -[IsRegistered];
    repeat (rewrite decide_True by done || rewrite decide_False by done); cbn;
    f_equal; repeat case_match; rewrite ?orb_true_r; done.
Qed.

Lemma parse_blocks {R} self a rest end_ p :
  sender_ok self -> p = Zlen a -> end_ = p + 4 * Zlen (rtp_header_extension_map_ self) ->
  ParseOneByteExtensionHeader (R := R) (a ++ blocks self (rtp_header_extension_map_ self) ++ rest)
    (Some (rtp_header_extension_map_ self)) end_ p no_extension
  = Cont (sent_extension self).
Proof.
  intros Hok Hp He. cbn [ParseOneByteExtensionHeader].
  assert (H0 := Zlen_nonneg (rtp_header_extension_map_ self)).
  rewrite (extension_loop_blocks self []) by (done || lia).
  rewrite foldl_add_block. unfold sent_extension. cbn. by rewrite !orb_false_r.
Qed.

(** ** The CSRCs *)

Lemma parse_csrcs_back {R} a cs rest arr n :
  Zlen a = 12 -> Forall is_u32 cs -> n = Zlen cs -> n <= Zlen arr ->
  parse_csrcs (R := R) (a ++ csrc_bytes cs ++ rest) n arr = Cont (cs ++ zdrop n arr).
Proof.
  intros Ha Hc -> Hn. unfold parse_csrcs. assert (H0 := Zlen_nonneg cs).
  rewrite (for_up_store (fun j => id (cs !!! Z.to_nat j))).
  - rewrite (fmap_seqZ_ztake id) by lia. rewrite list_fmap_id. by rewrite ztake_all by lia.
  - lia.
  - intros j o Hj _.
    assert (E : cs = ztake j cs ++ (cs !!! Z.to_nat j) :: zdrop (j + 1) cs).
    { rewrite <- (ztake_zdrop (j + 1) cs) at 1. rewrite ztake_snoc by lia. by rewrite <- app_assoc. }
    assert (Hz : Zlen (ztake j cs) = j) by (apply Zlen_ztake; lia).
    replace (csrc_bytes cs) with (csrc_bytes (ztake j cs) ++ be32 (cs !!! Z.to_nat j) ++ csrc_bytes (zdrop (j + 1) cs)).
    2: { rewrite E at 4. unfold csrc_bytes. rewrite fmap_app, join_app. done. }
    rewrite <- !app_assoc, (app_assoc a).
    rewrite Word32_be by (rewrite Zlen_app, csrc_bytes_length; lia). cbn [flow_bind].
    unfold id. rewrite u32_id; [done|]. apply Forall_total; [done|]. unfold Zlen in *. lia.
Qed.

(** ** The whole header *)

Lemma first_byte_back n (x : bool) :
  0 <= n < 16 ->
  let b := 128 + n + (if x then 16 else 0) in
  Z.shiftr b 6 = 2 /\ flag b 32 = false /\ flag b 16 = x /\ Z.land b 15 = n.
Proof.
  intros Hn b.
  assert (H := seqZ_check (fun n => let b := 128 + n + (if x then 16 else 0) in
    (Z.shiftr b 6 =? 2) && negb (flag b 32) && eqb (flag b 16) x && (Z.land b 15 =? n)) 16 n
    ltac:(destruct x; vm_compute; reflexivity) Hn).
  cbn beta zeta in H. fold b in H. rewrite !andb_true_iff, eqb_true_iff, negb_true_iff in H.
  destruct H as [[[H1 H2] H3] H4]. split_and!; done || lia.
Qed.

Lemma second_byte_back pt (m : bool) :
  0 <= pt < 128 ->
  let b := if m then Z.lor (u8 pt) kRtpMarkerBitMask else u8 pt in
  flag b 128 = m /\ Z.land b 127 = pt.
Proof.
  intros Hp b.
  assert (H := seqZ_check (fun pt => let b := if m then Z.lor (u8 pt) kRtpMarkerBitMask else u8 pt in
    eqb (flag b 128) m && (Z.land b 127 =? pt)) 128 pt ltac:(destruct m; vm_compute; reflexivity) Hp).
  cbn beta zeta in H. fold b in H. rewrite !andb_true_iff, eqb_true_iff in H.
  destruct H as [H1 H2]. split; done || lia.
Qed.

Lemma header_bytes_length self pt sc mk ts sn cs :
  types_ok (rtp_header_extension_map_ self) ->
  Zlen (header_bytes self pt sc mk ts sn cs)
  = 12 + 4 * Zlen cs + (if has_ext self then 4 + 4 * Zlen (rtp_header_extension_map_ self) else 0).
Proof.
  intros Hty. unfold header_bytes. rewrite !Zlen_app, csrc_bytes_length, extension_bytes_length by done.
  rewrite fixed_bytes_length. change (Zlen (first_bytes _ _ _ _)) with 2. lia.
Qed.

Lemma parse_extension_back {R} self a rest h :
  sender_ok self -> has_ext self = true -> Zlen a = headerLength h -> 12 <= headerLength h <= 72 ->
  extension h = no_extension ->
  parse_extension (R := R) (a ++ extension_bytes self ++ rest) (Some (rtp_header_extension_map_ self)) h
  = Cont (true, set_length h (headerLength h + Zlen (extension_bytes self)) (sent_extension self)).
Proof.
  intros Hok Hx Ha Hh He. assert (Hok' := Hok). destruct Hok' as (Hmap & Hty & _).
  assert (Hel := extension_bytes_length self Hty). rewrite Hx in Hel.
  assert (H3 := types_ok_length _ Hty). assert (H0 := Zlen_nonneg (rtp_header_extension_map_ self)).
  assert (Hr := Zlen_nonneg rest). unfold parse_extension. rewrite Hel, !Zlen_app, Ha, Hel.
  destruct (Z.ltb_spec (headerLength h + (4 + 4 * Zlen (rtp_header_extension_map_ self) + Zlen rest) - headerLength h) 4); [lia|].
  unfold extension_bytes. unfold has_ext in Hx. destruct (rtp_header_extension_map_ self) as [|q m] eqn:Em; [done|].
  rewrite <- Em in *. clear q m Em Hx.
  rewrite <- !app_assoc. rewrite Word16_be by done. cbn [flow_bind].
  rewrite (app_assoc a). rewrite Word16_be by (rewrite Zlen_app, Zlen_be16; lia). cbn [flow_bind].
  rewrite (u16_id (Zlen (rtp_header_extension_map_ self))) by (unfold is_u16; lia). rewrite (u16_id (Zlen (rtp_header_extension_map_ self) * 4)) by (unfold is_u16; lia).
  destruct (Z.ltb_spec (headerLength h + (4 + 4 * Zlen (rtp_header_extension_map_ self) + Zlen rest) - headerLength h) (4 + Zlen (rtp_header_extension_map_ self) * 4)); [lia|].
  change (u16 kRtpOneByteHeaderExtensionId =? kRtpOneByteHeaderExtensionId) with true. cbn iota.
  rewrite (app_assoc (a ++ be16 _)). cbn [set_length extension]. rewrite He.
  rewrite parse_blocks by (done || (rewrite ?Zlen_app, ?Zlen_be16; lia)). cbn [flow_bind].
  cbn [set_length headerLength]. rewrite !u16_id by (unfold is_u16; rewrite ?u16_id by (unfold is_u16; lia); lia).
  unfold set_length. cbn. do 2 f_equal. f_equal. lia.
Qed.

Definition parsed_header (self : RTPSender) (pt sc : Z) (mk : bool) (ts sn : Z) (cs : list Z) : RTPHeader :=
  mkRTPHeader mk pt sn ts sc (Zlen cs) (cs ++ replicate (15 - length cs) 0) 0
    (Zlen (header_bytes self pt sc mk ts sn cs)) 0 (sent_extension self).

Lemma Parse_header_bytes {R} self pt sc mk ts sn cs rest :
  sender_ok self -> 0 <= pt < 128 -> is_u32 sc -> is_u32 ts -> is_u16 sn ->
  Forall is_u32 cs -> Zlen cs <= 15 ->
  Parse (R := R) (header_bytes self pt sc mk ts sn cs ++ rest) (Some (rtp_header_extension_map_ self)) new_RTPHeader
  = Cont (true, parsed_header self pt sc mk ts sn cs).
Proof.
  intros Hok Hpt Hsc Hts Hsn Hcs Hn. assert (Hty := proj1 (proj2 Hok)).
  assert (Hl := header_bytes_length self pt sc mk ts sn cs Hty).
  assert (H0 := Zlen_nonneg (rtp_header_extension_map_ self)). assert (Hc0 := Zlen_nonneg cs).
  assert (Hr := Zlen_nonneg rest).
  assert (HL : 12 + 4 * Zlen cs <= Zlen (header_bytes self pt sc mk ts sn cs ++ rest))
    by (rewrite Zlen_app; destruct (has_ext self); lia).
  unfold Parse, kRtpMinParseLength.
  destruct (Z.ltb_spec (Zlen (header_bytes self pt sc mk ts sn cs ++ rest)) 12); [lia|].
  destruct (first_byte_back (Zlen cs) (has_ext self)) as (E1 & E2 & E3 & E4); [lia|].
  destruct (second_byte_back pt mk Hpt) as (E5 & E6).
  set (pkt := header_bytes self pt sc mk ts sn cs ++ rest) in *.
  set (b0 := 128 + Zlen cs + (if has_ext self then 16 else 0)) in *.
  set (b1 := if mk then _ else _) in *.
  assert (D : pkt = [b0; b1] ++ be16 sn ++ be32 ts ++ be32 sc ++ csrc_bytes cs ++ extension_bytes self ++ rest)
    by (subst pkt; unfold header_bytes, fixed_bytes; by rewrite <- !app_assoc).
  assert (R0 : rd (R := R) pkt 0 = Cont b0) by (by rewrite D).
  assert (R1 : rd (R := R) pkt 1 = Cont b1) by (by rewrite D).
  assert (R2 : BufferToUWord16 (R := R) pkt 2 = Cont sn)
    by (rewrite D, Word16_be by done; by rewrite u16_id).
  assert (R4 : BufferToUWord32 (R := R) pkt 4 = Cont ts)
    by (rewrite D, (app_assoc [_; _]), Word32_be by done; by rewrite u32_id).
  assert (R8 : BufferToUWord32 (R := R) pkt 8 = Cont sc)
    by (rewrite D, (app_assoc [_; _]), (app_assoc (_ ++ _)), Word32_be by done; by rewrite u32_id).
  assert (D2 : pkt = ([b0; b1] ++ fixed_bytes sc ts sn) ++ csrc_bytes cs ++ extension_bytes self ++ rest)
    by (rewrite D; unfold fixed_bytes; by rewrite <- !app_assoc).
  rewrite R0. cbn [flow_bind]. rewrite R1. cbn [flow_bind]. rewrite R2. cbn [flow_bind].
  rewrite R4. cbn [flow_bind]. rewrite R8. cbn [flow_bind].
  rewrite E1, E2, E3, E4, E5, E6. change (negb (2 =? kRtpExpectedVersion)) with false. cbn iota.
  destruct (Z.ltb_spec (Zlen pkt) (12 + Zlen cs * 4)); [lia|].
  rewrite (rd_total pkt (Zlen pkt - 1)) by lia. cbn [flow_bind].
  rewrite D2 at 1. rewrite parse_csrcs_back by (done || (change (Zlen (arrOfCSRCs new_RTPHeader)) with 15; lia)).
  cbn [flow_bind]. unfold parsed_header. rewrite Hl. clearbody b0 b1.
  assert (EA : zdrop (Zlen cs) (arrOfCSRCs new_RTPHeader) = replicate (15 - length cs) 0).
  { unfold zdrop, Zlen. rewrite Nat2Z.id. cbn [arrOfCSRCs new_RTPHeader]. by rewrite drop_replicate. }
  rewrite EA. change (payload_type_frequency new_RTPHeader) with 0.
  destruct (has_ext self) eqn:Hx.
  - rewrite D2, app_assoc. rewrite parse_extension_back; try done;
      [|cbn [headerLength]; rewrite Zlen_app, csrc_bytes_length;
       change (Zlen ([b0; b1] ++ _)) with 12; lia|cbn [headerLength]; lia].
    unfold set_length. cbn. do 3 f_equal. rewrite extension_bytes_length by done. rewrite Hx. lia.
  - unfold sent_extension. unfold has_ext in Hx. destruct (rtp_header_extension_map_ self); [|done].
    cbn. do 3 f_equal. lia.
Qed.
