(* ===== verification/RtpSession.v ===== *)
(** * The life of an RTP sender

    The calls that change the sender's state as a step relation, the invariant of
    the states that they reach, and what holds of every header built in such a
    state. *)
From S2P Require Import Prelude RtpWire RtpExtMap RtpHeader RtpSender RtpRoundTrip.
Local Open Scope Z_scope.

(** ** The invariant *)

Record sender_inv (self : RTPSender) : Prop := {
  inv_sender : sender_ok self;
  inv_sequence : is_u16 (sequence_number_ self);
  inv_ssrc : is_u32 (ssrc_ self);
  inv_start : is_u32 (start_timestamp_ self);
  inv_timestamp : is_u32 (timestamp_ self);
  inv_num_csrcs : 0 <= num_csrcs_ self <= 15;
  inv_csrcs_length : Zlen (csrcs_ self) = 15;
  inv_csrcs : Forall is_u32 (csrcs_ self);
  inv_ssrc_rtx : is_u32 (ssrc_rtx_ self);
  inv_sequence_rtx : is_u16 (sequence_number_rtx_ self)
}.

(** What holds of the state whichever extensions are registered: of [sender_inv]
    everything but that their types are distinct. *)
Record sender_state (self : RTPSender) : Prop := {
  state_map : map_ok (rtp_header_extension_map_ self);
  state_offset : - 8388607 <= transmission_time_offset_ self <= 8388607;
  state_abs : 0 <= absolute_send_time_ self <= 16777215;
  state_sequence : is_u16 (sequence_number_ self);
  state_ssrc : is_u32 (ssrc_ self);
  state_start : is_u32 (start_timestamp_ self);
  state_time : is_u32 (timestamp_ self);
  state_num_csrcs : 0 <= num_csrcs_ self <= 15;
  state_csrcs_length : Zlen (csrcs_ self) = 15;
  state_csrcs : Forall is_u32 (csrcs_ self);
  state_ssrc_rtx : is_u32 (ssrc_rtx_ self);
  state_sequence_rtx : is_u16 (sequence_number_rtx_ self)
}.

Lemma sender_inv_state self :
  sender_inv self <-> sender_state self /\ types_ok (rtp_header_extension_map_ self).
Proof.
  split; [intros [(Hm & Ht & Ho & Ha) ? ? ? ? ? ? ? ? ?]; split; [by split|done]|].
  intros [[] Ht]. by split.
Qed.

(** ** The steps

    Arguments have their C types.  [may_register] says which calls of Register the
    user makes, by the map, the type and the id. *)
Section steps.
Variable may_register : ExtensionMap -> RTPExtensionType -> Z -> Prop.

Inductive step_with : RTPSender -> RTPSender -> Prop :=
| step_offset self off :
    step_with self (SetTransmissionTimeOffset self off).2
| step_abs self abs : is_u32 abs ->
    step_with self (SetAbsoluteSendTime self abs).2
| step_register self type id :
    may_register (rtp_header_extension_map_ self) type id ->
    step_with self (SenderRegister self type id).2
| step_deregister self type :
    step_with self (SenderDeregister self type).2
| step_rtx_ssrc self ssrc : is_u32 ssrc -> step_with self (SetRtxSsrc self ssrc)
| step_rtx_payload self pt : step_with self (SetRtxPayloadType self pt)
| step_increment self : step_with self (IncrementSequenceNumber self).2
| step_start self ts force : is_u32 ts -> step_with self (SetStartTimestamp self ts force)
| step_new_ssrc self created : is_u32 created -> step_with self (GenerateNewSSRC self created).2
| step_ssrc self ssrc rand RAND_MAX : is_u32 ssrc ->
    step_with self (SetSSRC self ssrc rand RAND_MAX)
| step_sequence self seq : is_u16 seq -> step_with self (SetSequenceNumber self seq)
| step_sending self enabled t created rand RAND_MAX : is_u32 t -> is_u32 created ->
    step_with self (SetSendingStatus self enabled t created rand RAND_MAX)
| step_csrc_status self include : step_with self (SetCSRCStatus self include)
| step_csrcs self arr n self' : 0 <= n <= 15 -> n <= Zlen arr -> Forall is_u32 arr ->
    SetCSRCs (R := unit) self arr n = Cont self' -> step_with self self'
| step_state self st :
    is_u16 (state_sequence_number st) -> is_u32 (state_start_timestamp st) ->
    is_u32 (state_timestamp st) -> step_with self (SetRtpState self st)
| step_rtx_state self st : is_u16 (state_sequence_number st) ->
    step_with self (SetRtxRtpState self st)
| step_header self now buf pt marker cap cap_ms provided inc len buf' self' :
    BuildRTPheader (R := unit) self now buf pt marker cap cap_ms provided inc
    = Cont (len, buf', self') -> step_with self self'
| step_rtx self buf length rtx len rtx' self' :
    BuildRtxPacket (R := unit) self buf length rtx = Cont (len, rtx', self') ->
    step_with self self'.
End steps.

(** Every call with every argument. *)
Definition sender_step : RTPSender -> RTPSender -> Prop := step_with (fun _ _ _ => True).

(** A proper type that no other id has: Register itself does not see to this. *)
Definition new_type (m : ExtensionMap) (type : RTPExtensionType) (id : Z) : Prop :=
  type <> kRtpExtensionNone /\ forall i, GetId m type = Some i -> i = id.

(** The calls of a user who registers such types only. *)
Definition distinct_step : RTPSender -> RTPSender -> Prop := step_with new_type.

(** ** The types of the map *)

Lemma types_insert m i e :
  map_find m i = None -> types (map_insert m i e) ≡ₚ ext_type e :: types m.
Proof.
  unfold types. induction m as [|[j x] m IH]; cbn; [done|]. destruct (Z.eqb_spec j i); [done|].
  intros H. destruct (Z.ltb_spec i j); [done|]. destruct (Z.eqb_spec i j); [lia|]. cbn.
  rewrite IH by done. apply Permutation_swap.
Qed.

Lemma types_erase m i : sublist (types (map_erase m i)) (types m).
Proof.
  unfold types. induction m as [|[j x] m IH]; cbn; [done|].
  destruct (j =? i); [by apply sublist_cons|by apply sublist_skip].
Qed.

Lemma Register_types m type id :
  types_ok m -> type <> kRtpExtensionNone -> (forall i, GetId m type = Some i -> i = id) ->
  types_ok (Register m type id).2.
Proof.
  intros [Hd Hn] Ht Hi. unfold Register. destruct (_ || _); [done|].
  destruct (map_find m id) as [x|] eqn:E; [by destruct (decide _)|].
  destruct (GetId m type) as [i|] eqn:G.
  - rewrite (Hi i eq_refl) in G. exfalso. revert E G. clear. induction m as [|[j x] m IH]; cbn; [done|].
    destruct (Z.eqb_spec j id); [done|]. intros E. destruct (decide _); [by intros [= ->]|by apply IH].
  - apply GetId_None in G.
    assert (Hf : type ∉ types m) by (rewrite <- IsRegistered_types; by rewrite G).
    unfold types_ok. cbn [snd]. rewrite types_insert by done. change (ext_type (new_HeaderExtension type)) with type.
    split; [by apply NoDup_cons|]. rewrite elem_of_cons. by intros [?|?].
Qed.

Lemma Deregister_types m type : types_ok m -> types_ok (Deregister m type).2.
Proof.
  intros [Hd Hn]. unfold Deregister. destruct (GetId m type) as [i|]; [|done]. cbn [snd].
  split; [eapply sublist_NoDup; [|apply types_erase]; done|].
  intros E. apply Hn. eapply elem_of_submseteq; [exact E|apply sublist_submseteq, types_erase].
Qed.

Lemma new_RTPSender_inv ssrc ssrc_rtx rand1 rand2 :
  is_u32 ssrc -> is_u32 ssrc_rtx -> sender_inv (new_RTPSender ssrc ssrc_rtx rand1 rand2).
Proof.
  intros H1 H2.
  assert (H : forall x, is_u16 (Z.land x 32767)).
  { intros x. change 32767 with (Z.ones 15). rewrite Z.land_ones by lia. unfold is_u16. zdm. }
  assert (Hs : sender_ok (new_RTPSender ssrc ssrc_rtx rand1 rand2)).
  { unfold sender_ok, types_ok. split_and!; cbn; first [lia|constructor|apply not_elem_of_nil]. }
  split; try done; try apply H. by repeat constructor.
Qed.

Lemma set_csrcs_arrays (arr : list Z) n (csrcs : list Z) :
  0 <= n <= Zlen csrcs -> n <= Zlen arr ->
  for_up (R := unit) (Z.to_nat n) 0 (fun i o => let! c := rd arr i in wr o i c) csrcs
  = Cont (ztake n arr ++ zdrop n csrcs).
Proof. intros H1 H2. rewrite (for_up_map id) by lia. by rewrite list_fmap_id. Qed.

Lemma BuildRTPheader_state {R} self now buf pt marker cap cap_ms provided inc len buf' self' :
  BuildRTPheader (R := R) self now buf pt marker cap cap_ms provided inc = Cont (len, buf', self') ->
  self' = set_sequence (set_times self
    (if provided then u32 (start_timestamp_ self + cap) else u32 (timestamp_ self + 1)) cap_ms now
    (media_has_been_sent_ self) marker) (sequence_number_forced_ self) (u16 (sequence_number_ self + 1)).
Proof.
  unfold BuildRTPheader. cbn zeta.
  destruct (CreateRTPHeader _ _ _ _ _ _ _ _ _) as [[]|r|]; [|done|done]. cbn [flow_bind]. by intros [= _ _ <-].
Qed.

Lemma flow_bind_Cont {R A B} (m : flow R A) (k : A -> flow R B) b :
  flow_bind m k = Cont b -> exists a, m = Cont a /\ k a = Cont b.
Proof. destruct m as [a|r|]; [|done|done]. cbn. by exists a. Qed.

Lemma BuildRtxPacket_state {R} self buf length rtx len rtx' self' :
  BuildRtxPacket (R := R) self buf length rtx = Cont (len, rtx', self') ->
  self' = set_rtx self (ssrc_rtx_ self) (u16 (sequence_number_rtx_ self + 1)) (payload_type_rtx_ self).
Proof.
  unfold BuildRtxPacket. intros H.
  repeat (apply flow_bind_Cont in H as (? & _ & H); try (destruct_and?; case_match)).
  all: by simplify_eq.
Qed.

Lemma step_keeps_state P self self' : step_with P self self' -> sender_state self -> sender_state self'.
Proof.
  intros Hs [Hm Ho Ha H1 H2 H3 H4 H5 H6 H7 H8 H9]. destruct Hs.
  - unfold SetTransmissionTimeOffset. destruct (_ || _) eqn:E; cbn [snd]; split; try done.
    apply orb_false_iff in E as [E1 E2]. cbn. lia.
  - unfold SetAbsoluteSendTime. destruct (Z.ltb_spec 16777215 abs); cbn [snd]; split; try done.
    cbn. unfold is_u32 in *. lia.
  - unfold SenderRegister. assert (K1 := Register_ok (rtp_header_extension_map_ self) type id Hm).
    destruct (Register _ _ _) as [r m]. cbn [snd] in *. by split.
  - unfold SenderDeregister. assert (K1 := Deregister_ok (rtp_header_extension_map_ self) type Hm).
    destruct (Deregister _ _) as [r m]. cbn [snd] in *. by split.
  - by split.
  - by split.
  - split; try done. apply u16_range.
  - unfold SetStartTimestamp. by repeat case_match; split.
  - unfold GenerateNewSSRC. by case_match; split.
  - unfold SetSSRC. case_match; [by split|]. cbn. case_match; split; try done. apply u16_range.
  - by split.
  - unfold SetSendingStatus, SetStartTimestamp. destruct enabled; [by repeat case_match; split|].
    destruct (ssrc_forced_ self) eqn:Ef, (sequence_number_forced_ self) eqn:Es; cbn;
      rewrite ?Es, ?Ef; cbn; split; try done; apply u16_range.
  - by split.
  - match goal with H : SetCSRCs _ _ _ = _ |- _ => revert H end. unfold SetCSRCs.
    rewrite set_csrcs_arrays by lia. cbn [flow_bind]. intros [= <-]. split; try done; cbn.
    + rewrite Zlen_app, Zlen_ztake, Zlen_zdrop by lia. lia.
    + apply Forall_app. split; [by apply Forall_take|by apply Forall_drop].
  - by split.
  - by split.
  - apply BuildRTPheader_state in H as ->. split; try done; cbn.
    + apply u16_range.
    + destruct provided; apply u32_range.
  - apply BuildRtxPacket_state in H as ->. split; try done. apply u16_range.
Qed.

(** Calls other than Register and Deregister leave the map as it is. *)
Lemma step_keeps_types self self' :
  distinct_step self self' -> types_ok (rtp_header_extension_map_ self) ->
  types_ok (rtp_header_extension_map_ self').
Proof.
  intros Hs Ht. destruct Hs as [| |self type id [Hn Hi]| | | | | | | | | | | | | | |].
  3:{ assert (K := Register_types _ _ _ Ht Hn Hi). unfold SenderRegister. by destruct (Register _ _ _). }
  3:{ assert (K := Deregister_types _ type Ht). unfold SenderDeregister. by destruct (Deregister _ _). }
  15:{ by apply BuildRTPheader_state in H as ->. }
  15:{ by apply BuildRtxPacket_state in H as ->. }
  12:{ match goal with H : SetCSRCs _ _ _ = _ |- _ => revert H end. unfold SetCSRCs.
    intros (csrcs & _ & E)%flow_bind_Cont. by injection E as <-. }
  all: unfold SetTransmissionTimeOffset, SetAbsoluteSendTime, SetRtxSsrc, SetRtxPayloadType, IncrementSequenceNumber,
    SetSendingStatus, SetStartTimestamp, GenerateNewSSRC, SetSSRC, SetSequenceNumber, SetCSRCStatus, SetRtpState, SetRtxRtpState.
  all: by repeat case_match.
Qed.

Lemma step_keeps self self' : distinct_step self self' -> sender_inv self -> sender_inv self'.
Proof.
  intros Hs [H1 H2]%sender_inv_state. apply sender_inv_state.
  split; [by eapply step_keeps_state|by eapply step_keeps_types].
Qed.

(** ** Header lengths *)

Lemma sum_lengths_blocks lo m k :
  map_from lo m -> kRtpExtensionNone ∉ types m -> 0 <= k -> k + 4 * Zlen m < 65536 ->
  sum_lengths m k = k + 4 * Zlen m.
Proof.
  unfold types. revert lo k. induction m as [|[i e] m IH]; intros lo k; cbn [sum_lengths].
  - intros _ _ _ _. change (Zlen []) with 0. lia.
  - intros (_ & He & Hm) Hn H0 Hk. cbn in Hn. apply not_elem_of_cons in Hn as [Hn Hn'].
    rewrite (Zlen_cons (i, e)) in *. assert (Hz := Zlen_nonneg m).
    assert (El : ext_length e = 4) by (rewrite He; cbn; by destruct (ext_type e)).
    rewrite El, u16_id by (unfold is_u16; lia). rewrite (IH i) by (done || lia). lia.
Qed.

Lemma GetTotalLengthInBytes_blocks m :
  map_ok m -> types_ok m ->
  GetTotalLengthInBytes m = match m with [] => 0 | _ => 4 + 4 * Zlen m end.
Proof.
  intros Hm Ht. assert (H3 := types_ok_length m Ht). unfold GetTotalLengthInBytes.
  rewrite (sum_lengths_blocks 0) by (done || apply Ht || lia).
  destruct m as [|p m]; [done|]. rewrite Zlen_cons in *. assert (H0 := Zlen_nonneg m).
  destruct (Z.ltb_spec 0 (0 + 4 * (1 + Zlen m))); [|lia].
  rewrite u16_id by (unfold is_u16, kRtpOneByteHeaderLength; lia). unfold kRtpOneByteHeaderLength. lia.
Qed.

(** A sender with two extensions, two CSRCs and a sent header. *)
Definition ex_sender : RTPSender :=
  let s := new_RTPSender 77 88 5 32767 in
  let s := (SenderRegister s kRtpExtensionAbsoluteSendTime 3).2 in
  let s := (SenderRegister s kRtpExtensionTransmissionTimeOffset 1).2 in
  let s := (SetTransmissionTimeOffset s (-5)).2 in
  match SetCSRCs (R := unit) s [10; 20] 2 with Cont s => s | _ => s end.

Lemma ex_sender_reachable P :
  P [] kRtpExtensionAbsoluteSendTime 3 ->
  P [(3, new_HeaderExtension kRtpExtensionAbsoluteSendTime)] kRtpExtensionTransmissionTimeOffset 1 ->
  rtc (step_with P) (new_RTPSender 77 88 5 32767) ex_sender.
Proof.
  intros H1 H2.
  eapply rtc_l; [by apply (step_register P _ kRtpExtensionAbsoluteSendTime 3)|].
  eapply rtc_l; [by apply (step_register P _ kRtpExtensionTransmissionTimeOffset 1)|].
  eapply rtc_l; [apply (step_offset P _ (-5))|].
  eapply rtc_l; [apply (step_csrcs P _ [10; 20] 2); [lia|vm_compute; congruence| |reflexivity]|apply rtc_refl].
  repeat constructor; lia.
Qed.

Lemma reachable_state P self self' : sender_state self -> rtc (step_with P) self self' -> sender_state self'.
Proof. intros Hi Hs. induction Hs as [|self self1 self2 H1 _ IH]; [done|]. by apply IH, (step_keeps_state P self). Qed.

Lemma reachable_inv self self' : sender_inv self -> rtc distinct_step self self' -> sender_inv self'.
Proof. intros Hi Hs. induction Hs as [|self self1 self2 H1 _ IH]; [done|]. by apply IH, (step_keeps self). Qed.

Lemma ex_sender_inv : sender_inv ex_sender.
Proof.
  apply (reachable_inv (new_RTPSender 77 88 5 32767)); [|by apply ex_sender_reachable].
  apply new_RTPSender_inv; unfold is_u32; lia.
Qed.

(** ** The bytes of a built header *)

Definition sent_csrcs (self : RTPSender) : list Z :=
  ztake (if include_csrcs_ self then num_csrcs_ self else 0) (csrcs_ self).

Definition sent_timestamp (self : RTPSender) (cap : Z) (provided : bool) : Z :=
  if provided then u32 (start_timestamp_ self + cap) else u32 (timestamp_ self + 1).

Definition after_header (self : RTPSender) (now : Z) (marker : bool) (cap cap_ms : Z)
  (provided : bool) : RTPSender :=
  set_sequence (set_times self (sent_timestamp self cap provided) cap_ms now
    (media_has_been_sent_ self) marker) (sequence_number_forced_ self) (u16 (sequence_number_ self + 1)).

Definition built_header (self : RTPSender) (pt : Z) (marker : bool) (cap : Z) (provided : bool)
  : list Z :=
  header_bytes self pt (ssrc_ self) marker (sent_timestamp self cap provided)
    (sequence_number_ self) (sent_csrcs self).

Lemma sent_csrcs_length self :
  sender_inv self -> Zlen (sent_csrcs self) = (if include_csrcs_ self then num_csrcs_ self else 0).
Proof.
  intros H. unfold sent_csrcs. apply Zlen_ztake. assert (H1 := inv_num_csrcs self H).
  assert (H2 := inv_csrcs_length self H). destruct (include_csrcs_ self); lia.
Qed.

Lemma built_header_length self pt marker cap provided :
  sender_inv self -> Zlen (built_header self pt marker cap provided) = RTPHeaderLength self /\
  RTPHeaderLength self <= 88.
Proof.
  intros Hi. destruct (inv_sender self Hi) as (Hm & Ht & _). assert (H3 := types_ok_length _ Ht).
  assert (H15 := inv_num_csrcs self Hi). unfold built_header.
  rewrite header_bytes_length, sent_csrcs_length by done.
  unfold RTPHeaderLength, RtpHeaderExtensionTotalLength. rewrite GetTotalLengthInBytes_blocks by done.
  assert (H0 := Zlen_nonneg (rtp_header_extension_map_ self)). unfold has_ext.
  set (k := match rtp_header_extension_map_ self with [] => 0 | _ => _ end).
  assert (Hk : k = (if match rtp_header_extension_map_ self with [] => false | _ => true end
                    then 4 + 4 * Zlen (rtp_header_extension_map_ self) else 0) /\ 0 <= k <= 16)
    by (subst k; destruct (rtp_header_extension_map_ self); (split; [done|lia])).
  destruct Hk as [<- Hk]. clearbody k.
  destruct (include_csrcs_ self); rewrite ?(u16_id (12 + _)) by (unfold is_u16; lia);
    rewrite ?u16_id by (unfold is_u16; lia); lia.
Qed.

Lemma BuildRTPheader_bytes {R} self now buf pt marker cap cap_ms provided inc :
  sender_inv self -> 88 <= Zlen buf ->
  BuildRTPheader (R := R) self now buf pt marker cap cap_ms provided inc
  = Cont (RTPHeaderLength self, put buf 0 (built_header self pt marker cap provided),
          after_header self now marker cap cap_ms provided).
Proof.
  intros Hi Hb. destruct (inv_sender self Hi) as (Hm & Ht & _).
  destruct (built_header_length self pt marker cap provided Hi) as [<- _].
  assert (H1 := inv_num_csrcs self Hi). assert (H2 := inv_csrcs_length self Hi).
  assert (K := CreateRTPHeader_spec (R := R) (after_header self now marker cap cap_ms provided) buf pt
    (ssrc_ self) marker (sent_timestamp self cap provided) (sequence_number_ self) (csrcs_ self)
    (if include_csrcs_ self then num_csrcs_ self else 0) Hm Ht).
  match goal with |- _ = ?r => change (flow_bind (CreateRTPHeader (R := R) (after_header self now marker cap cap_ms provided) buf pt
    (ssrc_ self) marker (sent_timestamp self cap provided) (sequence_number_ self) (csrcs_ self)
    (if include_csrcs_ self then num_csrcs_ self else 0))
    (fun '(len, buf) => Cont (len, buf, after_header self now marker cap cap_ms provided)) = r) end.
  by rewrite K by (destruct (include_csrcs_ self); lia).
Qed.

Lemma built_header_parsed {R} self pt marker cap provided payload :
  sender_inv self -> 0 <= pt < 128 ->
  RtpHeaderParserImpl_Parse (R := R) (rtp_header_extension_map_ self)
    (built_header self pt marker cap provided ++ payload)
  = Cont (true, parsed_header self pt (ssrc_ self) marker (sent_timestamp self cap provided)
                  (sequence_number_ self) (sent_csrcs self)).
Proof.
  intros Hi Hpt. destruct (inv_sender self Hi) as (Hm & _). unfold RtpHeaderParserImpl_Parse.
  rewrite GetCopy_empty by done. assert (H15 := inv_num_csrcs self Hi).
  apply Parse_header_bytes; [apply Hi|done|apply Hi| |apply Hi|apply Forall_take, Hi|].
  - unfold sent_timestamp. destruct provided; apply u32_range.
  - rewrite sent_csrcs_length by done. destruct (include_csrcs_ self); lia.
Qed.

(** ** The theorems *)

(** C27: the invariant of the sender: whatever calls are made, with any arguments, in any
    order and any number, among them headers and retransmissions, the extension map
    stays sorted with distinct ids and the lengths of their types, the extension values
    fit their fields, the CSRC list fits its array, and numbers stay in their widths.
    The types of the map stay distinct and proper for a user who never registers
    kRtpExtensionNone or a type that another id has; Register accepts both
    ([duplicate_type_hangs]). *)
Theorem sender_invariant self self' :
  sender_state self ->
  (rtc sender_step self self' -> sender_state self') /\
  (types_ok (rtp_header_extension_map_ self) -> rtc distinct_step self self' ->
   types_ok (rtp_header_extension_map_ self')).
Proof.
  intros Hi. split; [by apply reachable_state|]. intros Ht Hs.
  by apply (reachable_inv self self') in Hs as [_ ?]%sender_inv_state; [|apply sender_inv_state].
Qed.

Lemma sender_invariant_witness :
  sender_state ex_sender /\ types_ok (rtp_header_extension_map_ ex_sender) /\ num_csrcs_ ex_sender = 2 /\
  types (rtp_header_extension_map_ ex_sender)
  = [kRtpExtensionTransmissionTimeOffset; kRtpExtensionAbsoluteSendTime].
Proof.
  assert (H : sender_inv (new_RTPSender 77 88 5 32767)) by (apply new_RTPSender_inv; unfold is_u32; lia).
  apply sender_inv_state in H as [Hs Ht]. destruct (sender_invariant _ ex_sender Hs) as [K1 K2].
  split; [apply K1; by apply ex_sender_reachable|]. split; [|split; reflexivity].
  apply K2; [done|]. by apply ex_sender_reachable.
Defined.

(** C25: what the sender writes the receiver reads.  After any calls on a new sender that
    leave extensions of distinct proper types in its map (Register also accepts a type
    under a second id, and then no header is ever built: [duplicate_type_hangs]),
    BuildRTPheader succeeds in a buffer of 88 bytes or more and returns the length
    that RTPHeaderLength announced; the receiver's parser, with the sender's
    extension map, gets back from the packet, whatever the payload, the marker,
    payload type, sequence number, timestamp, SSRC, CSRCs and all extensions; the
    next sequence number is one more. *)
Theorem BuildRTPheader_parsed {R} ssrc0 ssrc_rtx0 rand1 rand2 self now buf pt marker cap cap_ms
    provided inc payload :
  is_u32 ssrc0 -> is_u32 ssrc_rtx0 -> rtc sender_step (new_RTPSender ssrc0 ssrc_rtx0 rand1 rand2) self ->
  types_ok (rtp_header_extension_map_ self) -> 0 <= pt < 128 -> 88 <= Zlen buf ->
  exists buf' self' h,
    BuildRTPheader (R := R) self now buf pt marker cap cap_ms provided inc
    = Cont (RTPHeaderLength self, buf', self') /\
    Zlen buf' = Zlen buf /\
    sequence_number_ self' = u16 (sequence_number_ self + 1) /\
    RtpHeaderParserImpl_Parse (R := R) (rtp_header_extension_map_ self)
      (ztake (RTPHeaderLength self) buf' ++ payload) = Cont (true, h) /\
    markerBit h = marker /\ payloadType h = pt /\ sequenceNumber h = sequence_number_ self /\
    timestamp h = timestamp_ self' /\ ssrc h = ssrc_ self /\
    numCSRCs h = (if include_csrcs_ self then num_csrcs_ self else 0) /\
    ztake (numCSRCs h) (arrOfCSRCs h) = ztake (numCSRCs h) (csrcs_ self) /\
    paddingLength h = 0 /\ headerLength h = RTPHeaderLength self /\
    extension h = sent_extension self.
Proof.
  intros Hs1 Hs2 Hreach Htypes Hpt Hbuf. assert (Hi := new_RTPSender_inv ssrc0 ssrc_rtx0 rand1 rand2 Hs1 Hs2).
  assert (Hinv : sender_inv self).
  { apply sender_inv_state in Hi as [Hi _]. apply sender_inv_state. split; [by eapply reachable_state|done]. }
  destruct (built_header_length self pt marker cap provided Hinv) as [HL Hle].
  assert (Hc := sent_csrcs_length self Hinv).
  do 3 eexists. split; [by apply BuildRTPheader_bytes|]. split; [by rewrite Zlen_put by lia|].
  split; [done|]. split.
  { rewrite put_0, ztake_app_le, ztake_all by lia. by apply built_header_parsed. }
  split_and!; try done.
  cbn [parsed_header numCSRCs arrOfCSRCs]. rewrite ztake_app_le, ztake_all by lia. by rewrite Hc.
Qed.

Lemma BuildRTPheader_parsed_witness :
  RTPHeaderLength ex_sender = 32 /\
  exists buf' self' h,
    BuildRTPheader (R := unit) ex_sender 0 (replicate 100 0) 96 true 5 0 true true
    = Cont (32, buf', self') /\ Zlen buf' = 100 /\ sequence_number_ self' = 1 /\
    RtpHeaderParserImpl_Parse (R := unit) (rtp_header_extension_map_ ex_sender)
      (ztake 32 buf' ++ [1; 2; 3]) = Cont (true, h) /\
    markerBit h = true /\ payloadType h = 96 /\ sequenceNumber h = 0 /\
    timestamp h = timestamp_ self' /\ ssrc h = 77 /\ numCSRCs h = 2 /\
    ztake (numCSRCs h) (arrOfCSRCs h) = ztake (numCSRCs h) (csrcs_ ex_sender) /\
    paddingLength h = 0 /\ headerLength h = 32 /\ extension h = sent_extension ex_sender.
Proof.
  split; [reflexivity|].
  apply (BuildRTPheader_parsed (R := unit) 77 88 5 32767 ex_sender 0 (replicate 100 0) 96 true 5 0
    true true [1; 2; 3]);
    [unfold is_u32; lia|unfold is_u32; lia|by apply ex_sender_reachable|apply ex_sender_inv|lia|vm_compute; congruence].
Defined.

(** C31: the check that is missing in Register: the same type is accepted under a
    second id, and then the loop of BuildRTPHeaderExtension has no end, for any
    buffer and any number of turns, because Next finds the first id again. *)
Theorem duplicate_type_hangs {R} self buf p n :
  let r1 := Register [] kRtpExtensionTransmissionTimeOffset 1 in
  let r2 := Register r1.2 kRtpExtensionTransmissionTimeOffset 2 in
  r1.1 = 0 /\ r2.1 = 0 /\
  blocks_loop (R := R) n (set_extensions self r2.2 0 0) p (First r2.2) 0 buf = Stuck.
Proof.
  cbn zeta. split; [done|]. split; [done|].
  change (First _) with kRtpExtensionTransmissionTimeOffset.
  match goal with |- blocks_loop _ ?s _ _ _ _ = _ => set (self' := s) end.
  generalize 0 as t. revert buf.
  induction n as [|n IH]; intros buf t; [done|]. cbn [blocks_loop].
  rewrite decide_False by done.
  destruct (BuildTransmissionTimeOffsetExtension _ buf _) as [[k buf']|r|] eqn:E; cbn [flow_bind]; [apply IH| |done].
  exfalso. unfold BuildTransmissionTimeOffsetExtension, AssignUWord24ToBuffer, wr in E.
  subst self'. cbn in E. repeat (case_match; simplify_eq/=).
Qed.
