(* ===== verification/RtpRtx.v ===== *)
(** * Retransmission on the RTX stream

    BuildRtxPacket wraps a packet for the RTX stream, and the receiver's
    RestoreOriginalPacket unwraps it: the round trip for every well-formed packet. *)
From S2P Require Import Prelude RtpWire RtpExtMap RtpHeader RtpSender.
Local Open Scope Z_scope.

(** ** Parsing without an extension map *)

Definition header_length (pkt : list Z) : Z :=
  if flag (pkt !!! 0%nat) 16 then extension_end pkt else 12 + 4 * Z.land (pkt !!! 0%nat) 15.

(** A packet that the parser accepts. *)
Definition well_formed (pkt : list Z) : Prop :=
  bytes pkt /\ Zlen pkt < 65536 /\ Z.shiftr (pkt !!! 0%nat) 6 = 2 /\
  12 <= header_length pkt <= Zlen pkt.

Lemma header_length_bounds pkt :
  12 + 4 * Z.land (pkt !!! 0%nat) 15 <= header_length pkt /\
  (flag (pkt !!! 0%nat) 16 = true -> 16 + 4 * Z.land (pkt !!! 0%nat) 15 <= header_length pkt).
Proof.
  unfold header_length, extension_end. assert (H := u16_range (word16_at pkt (14 + 4 * Z.land (pkt !!! 0%nat) 15) * 4)).
  unfold is_u16 in H. destruct (flag _ _); split; try done; lia.
Qed.

Definition word32_at (pkt : list Z) (p : Z) : Z :=
  u32 (Z.shiftl (pkt !!! Z.to_nat p) 24 + Z.shiftl (pkt !!! Z.to_nat (p + 1)) 16
       + Z.shiftl (pkt !!! Z.to_nat (p + 2)) 8 + pkt !!! Z.to_nat (p + 3)).

Lemma Word32_at {R} pkt p :
  0 <= p -> p + 4 <= Zlen pkt -> BufferToUWord32 (R := R) pkt p = Cont (word32_at pkt p).
Proof. intros. unfold BufferToUWord32. by rewrite !rd_total by lia. Qed.

Lemma Parse_None {R} pkt h :
  well_formed pkt -> Zlen (arrOfCSRCs h) = 15 ->
  exists h', Parse (R := R) pkt None h = Cont (true, h') /\
    headerLength h' = header_length pkt /\ markerBit h' = flag (pkt !!! 1%nat) 128 /\
    payloadType h' = Z.land (pkt !!! 1%nat) 127 /\ sequenceNumber h' = word16_at pkt 2 /\
    ssrc h' = word32_at pkt 8.
Proof.
  intros (Hb & H64 & HV & Hh) Ha. destruct (header_length_bounds pkt) as [H1 H2].
  set (CC := Z.land (pkt !!! 0%nat) 15) in *. assert (HCC : 0 <= CC < 16) by apply land_15.
  unfold Parse, kRtpMinParseLength. destruct (Z.ltb_spec (Zlen pkt) 12); [lia|].
  rewrite !rd_total by lia. cbn [flow_bind]. change (Z.to_nat 0) with 0%nat. change (Z.to_nat 1) with 1%nat.
  rewrite Word16_at by lia. cbn [flow_bind]. rewrite !Word32_at by lia. cbn [flow_bind].
  rewrite HV. change (negb (2 =? kRtpExpectedVersion)) with false. cbn iota. fold CC.
  destruct (Z.ltb_spec (Zlen pkt) (12 + CC * 4)); [lia|].
  cbn [flow_bind].
  destruct (gives_parse_csrcs (R := R) pkt CC (arrOfCSRCs h)) as (arr & -> & _); [done|lia|lia|done|].
  cbn [flow_bind]. unfold header_length, extension_end in *. fold CC in H1, H2, Hh |- *.
  destruct (flag (pkt !!! 0%nat) 16); [|eexists; split; [reflexivity|]; cbn; split_and!; done || lia].
  specialize (H2 eq_refl). unfold parse_extension. cbn [headerLength extension].
  destruct (Z.ltb_spec (Zlen pkt - (12 + CC * 4)) 4); [lia|].
  rewrite !Word16_at by lia. cbn [flow_bind].
  replace (12 + CC * 4 + 2) with (14 + 4 * CC) by lia.
  set (X := u16 (word16_at pkt (14 + 4 * CC) * 4)) in *. clearbody X.
  destruct (Z.ltb_spec (Zlen pkt - (12 + CC * 4)) (4 + X)); [lia|].
  exists (mkRTPHeader (flag (pkt !!! 1%nat) 128) (Z.land (pkt !!! 1%nat) 127) (word16_at pkt 2)
    (word32_at pkt 4) (word32_at pkt 8) CC arr
    (if flag (pkt !!! 0%nat) 32 then pkt !!! Z.to_nat (Zlen pkt - 1) else 0)
    (16 + 4 * CC + X) (payload_type_frequency h) no_extension).
  split; [|by cbn].
  replace (if _ =? kRtpOneByteHeaderExtensionId then _ else _) with (Cont (R := R) no_extension)
    by (by destruct (_ =? kRtpOneByteHeaderExtensionId)).
  cbn [flow_bind]. unfold set_length. cbn. do 3 f_equal.
  rewrite (u16_id (12 + CC * 4 + 4)) by (unfold is_u16; lia). rewrite u16_id by (unfold is_u16; lia). lia.
Qed.

(** ** The parts of a packet *)

Lemma bytes_be16 a b : is_u8 a -> is_u8 b -> be16 (u16 (Z.shiftl a 8 + b)) = [a; b].
Proof.
  unfold is_u8, be16. intros. rewrite Z.shiftl_mul_pow2, Z.shiftr_div_pow2 by lia. unfold u8, u16.
  f_equal; [|f_equal]; zdm.
Qed.

Lemma bytes_be32 a b c d : is_u8 a -> is_u8 b -> is_u8 c -> is_u8 d ->
  be32 (u32 (Z.shiftl a 24 + Z.shiftl b 16 + Z.shiftl c 8 + d)) = [a; b; c; d].
Proof.
  unfold is_u8, be32. intros. rewrite !Z.shiftl_mul_pow2, !Z.shiftr_div_pow2 by lia. unfold u8, u32.
  f_equal; [|f_equal; [|f_equal; [|f_equal]]]; zdm.
Qed.

(** A packet by the fields that a retransmission changes. *)
Definition packet (b0 b1 sn : Z) (ts : list Z) (sc : Z) (rest : list Z) : list Z :=
  [b0; b1] ++ be16 sn ++ ts ++ be32 sc ++ rest.

Lemma packet_split pkt :
  bytes pkt -> 12 <= Zlen pkt ->
  exists ts rest, Zlen ts = 4 /\ bytes ts /\ bytes rest /\
    pkt = packet (pkt !!! 0%nat) (pkt !!! 1%nat) (word16_at pkt 2) ts (word32_at pkt 8) rest.
Proof.
  intros Hb Hl. exists (ztake 4 (zdrop 4 pkt)), (zdrop 12 pkt).
  split; [apply Zlen_ztake; rewrite Zlen_zdrop; lia|].
  split; [by apply Forall_take, Forall_drop|]. split; [by apply Forall_drop|].
  do 12 (destruct pkt as [|? pkt]; [exfalso; vm_compute in Hl; congruence|]).
  unfold bytes in *. rewrite !Forall_cons in Hb. destruct_and!.
  unfold packet, word16_at, word32_at. rewrite bytes_be16, bytes_be32 by done. done.
Qed.

(** ** The round trip *)

Lemma packet_length b0 b1 sn ts sc rest :
  Zlen ts = 4 -> Zlen (packet b0 b1 sn ts sc rest) = 12 + Zlen rest.
Proof. intros H. unfold packet. rewrite !Zlen_app, H. change (Zlen [_; _]) with 2. rewrite Zlen_be16, Zlen_be32. lia. Qed.

Lemma packet_app b0 b1 sn ts sc a b : packet b0 b1 sn ts sc (a ++ b) = packet b0 b1 sn ts sc a ++ b.
Proof. unfold packet. by rewrite <- !app_assoc. Qed.

(** Rewriting a field of a stored packet. *)
Lemma put_packet_sn {R} buf b0 b1 sn sn' ts sc rest :
  Zlen ts = 4 -> 12 + Zlen rest <= Zlen buf ->
  AssignUWord16ToBuffer (R := R) (put buf 0 (packet b0 b1 sn ts sc rest)) 2 sn'
  = Cont (put buf 0 (packet b0 b1 sn' ts sc rest)).
Proof.
  intros Ht Hl. assert (Hr := Zlen_nonneg rest).
  assert (HL := packet_length b0 b1 sn ts sc rest Ht).
  rewrite AssignUWord16_put by (rewrite ?Zlen_put; lia). apply f_equal. unfold packet.
  apply put_inside; [lia|done|done|]. rewrite !Zlen_app, Ht. change (Zlen [_; _]) with 2.
  rewrite Zlen_be16, Zlen_be32. lia.
Qed.

Lemma put_packet_ssrc {R} buf b0 b1 sn ts sc sc' rest :
  Zlen ts = 4 -> 12 + Zlen rest <= Zlen buf ->
  AssignUWord32ToBuffer (R := R) (put buf 0 (packet b0 b1 sn ts sc rest)) 8 sc'
  = Cont (put buf 0 (packet b0 b1 sn ts sc' rest)).
Proof.
  intros Ht Hl. assert (Hr := Zlen_nonneg rest).
  assert (HL := packet_length b0 b1 sn ts sc rest Ht).
  rewrite AssignUWord32_put by (rewrite ?Zlen_put; lia). apply f_equal. unfold packet.
  rewrite (app_assoc (be16 sn)), (app_assoc [_; _]). rewrite (put_inside buf 0 _ _ (be32 sc')).
  - by rewrite <- !app_assoc.
  - lia.
  - rewrite !Zlen_app, Ht. done.
  - done.
  - rewrite !Zlen_app, Ht. change (Zlen [_; _]) with 2. rewrite Zlen_be16, Zlen_be32. lia.
Qed.

Lemma put_packet_b1 {R} buf b0 b1 b1' sn ts sc rest :
  Zlen ts = 4 -> 12 + Zlen rest <= Zlen buf ->
  wr (R := R) (put buf 0 (packet b0 b1 sn ts sc rest)) 1 b1' = Cont (put buf 0 (packet b0 b1' sn ts sc rest)).
Proof.
  intros Ht Hl. assert (Hr := Zlen_nonneg rest).
  assert (HL := packet_length b0 b1 sn ts sc rest Ht).
  rewrite put_one by (rewrite ?Zlen_put; lia). apply f_equal.
  apply (put_inside buf 0 [b0] [b1] [b1'] _ 1); [lia|done|done|].
  unfold packet in HL. rewrite !Zlen_app in *. change (Zlen [_; _]) with 2 in HL. change (Zlen [_]) with 1. lia.
Qed.

Lemma rd_packet_b1 {R} buf b0 b1 sn ts sc rest :
  rd (R := R) (put buf 0 (packet b0 b1 sn ts sc rest)) 1 = Cont b1.
Proof. apply rd_put; [lia|apply Zlen_nonneg|lia|done]. Qed.

(** The payload type byte, with the marker bit. *)
Definition payload_byte (pt : Z) (marker : bool) (b1 : Z) : Z :=
  if pt =? -1 then b1 else if marker then Z.lor (u8 pt) kRtpMarkerBitMask else u8 pt.

Lemma BuildRtxPacket_spec {R} self b0 b1 sn ts sc hd body tail rtx length :
  let pkt := packet b0 b1 sn ts sc (hd ++ body) in
  Zlen ts = 4 -> is_u16 sn -> length = Zlen pkt -> well_formed pkt -> header_length pkt = 12 + Zlen hd ->
  length + 2 <= Zlen rtx ->
  BuildRtxPacket (R := R) self (pkt ++ tail) length rtx
  = Cont (u16 (length + 2),
          put rtx 0 (packet b0 (payload_byte (payload_type_rtx_ self) (flag b1 128) b1)
            (sequence_number_rtx_ self) ts (ssrc_rtx_ self) (hd ++ be16 sn ++ body)),
          set_rtx self (ssrc_rtx_ self) (u16 (sequence_number_rtx_ self + 1)) (payload_type_rtx_ self)).
Proof.
  intros pkt Ht Hsn -> Hw Hh Hl. assert (HL := packet_length b0 b1 sn ts sc (hd ++ body) Ht). fold pkt in HL.
  rewrite Zlen_app in HL. assert (H0 := Zlen_nonneg hd). assert (H1 := Zlen_nonneg body).
  unfold BuildRtxPacket. rewrite ztake_app_le, ztake_all by lia.
  destruct (Parse_None (R := R) pkt new_RTPHeader Hw) as (h & -> & Eh & Em & _ & Es & _); [reflexivity|].
  cbn [flow_bind]. rewrite Eh, Hh.
  change (pkt !!! 1%nat) with b1 in Em. rewrite Em.
  assert (Esn : sequenceNumber h = sn).
  { rewrite Es. change (u16 (Z.shiftl (u8 (Z.shiftr sn 8)) 8 + u8 sn) = sn).
    rewrite bytes16. by rewrite !u16_id by (done || apply u16_range). }
  rewrite Esn. assert (Hd := packet_length b0 b1 sn ts sc hd Ht).
  assert (Ep : pkt = packet b0 b1 sn ts sc hd ++ body) by (subst pkt; apply packet_app).
  rewrite Ep at 1. rewrite <- app_assoc. rewrite blk_get_front by (done || lia). cbn [flow_bind].
  rewrite blk_put_put by lia. cbn [flow_bind].
  set (rtx1 := put rtx 0 (packet b0 b1 sn ts sc hd)).
  replace (if negb (payload_type_rtx_ self =? -1) then _ else _)
    with (Cont (R := R) (put rtx 0 (packet b0 (payload_byte (payload_type_rtx_ self) (flag b1 128) b1) sn ts sc hd))).
  2: { unfold payload_byte. destruct (payload_type_rtx_ self =? -1); [done|]. cbn [negb]. subst rtx1.
       rewrite put_packet_b1 by (done || lia). cbn [flow_bind]. destruct (flag b1 128); [|done].
       rewrite rd_packet_b1. cbn [flow_bind]. by rewrite put_packet_b1 by (done || lia). }
  cbn [flow_bind]. rewrite put_packet_sn by (done || lia). cbn [flow_bind].
  rewrite put_packet_ssrc by (done || lia). cbn [flow_bind].
  rewrite AssignUWord16_step by (rewrite ?packet_length; done || lia). cbn [flow_bind].
  rewrite Ep at 1. rewrite <- app_assoc. rewrite (blk_get_app (packet b0 b1 sn ts sc hd)) by (done || lia).
  cbn [flow_bind]. rewrite blk_put_step by (rewrite ?Zlen_app, ?packet_length, ?Zlen_be16; done || lia).
  cbn [flow_bind]. rewrite <- app_assoc, <- packet_app. done.
Qed.

Lemma packet_hd b0 b1 sn ts sc hd r j :
  Zlen ts = 4 -> 0 <= j < Zlen hd ->
  packet b0 b1 sn ts sc (hd ++ r) !!! Z.to_nat (12 + j) = hd !!! Z.to_nat j.
Proof.
  intros Ht Hj. rewrite (packet_app _ _ _ _ _ hd).
  assert (E : packet b0 b1 sn ts sc hd = packet b0 b1 sn ts sc [] ++ hd) by (by rewrite <- packet_app).
  assert (HL := packet_length b0 b1 sn ts sc [] Ht). change (Zlen []) with 0 in HL. unfold Zlen in *.
  rewrite E, <- app_assoc. rewrite lookup_total_app_r by lia. rewrite lookup_total_app_l by lia.
  f_equal. lia.
Qed.

(** The length of the header depends on the first byte and the bytes after the
    fixed part. *)
Lemma header_length_packet b0 b1 sn ts sc b1' sn' ts' sc' hd r r' :
  Zlen ts = 4 -> Zlen ts' = 4 -> header_length (packet b0 b1 sn ts sc (hd ++ r)) = 12 + Zlen hd ->
  header_length (packet b0 b1' sn' ts' sc' (hd ++ r')) = 12 + Zlen hd.
Proof.
  intros Ht Ht' H. rewrite <- H. assert (Hb := header_length_bounds (packet b0 b1 sn ts sc (hd ++ r))).
  rewrite H in Hb. destruct Hb as [_ H2]. unfold header_length, extension_end in *.
  change (packet b0 b1 sn ts sc (hd ++ r) !!! 0%nat) with b0 in *.
  change (packet b0 b1' sn' ts' sc' (hd ++ r') !!! 0%nat) with b0 in *.
  assert (Hc := land_15 b0). destruct (flag b0 16); [|done]. specialize (H2 eq_refl).
  unfold word16_at. replace (14 + 4 * Z.land b0 15) with (12 + (2 + 4 * Z.land b0 15)) by lia.
  set (c := Z.land b0 15) in *. clearbody c. rewrite <- (Z.add_assoc 12). rewrite !packet_hd by (done || lia). done.
Qed.

Lemma bytes_packet b0 b1 sn ts sc rest :
  is_u8 b0 -> is_u8 b1 -> bytes ts -> bytes rest -> bytes (packet b0 b1 sn ts sc rest).
Proof.
  intros H0 H1 Hts Hr. unfold packet, bytes. rewrite !Forall_app. unfold be16, be32.
  split_and!; try done; repeat (apply Forall_cons; split); try done; try apply u8_range; by apply Forall_nil.
Qed.

Lemma well_formed_packet b0 b1 sn ts sc b1' sn' sc' hd r r' :
  Zlen ts = 4 -> well_formed (packet b0 b1 sn ts sc (hd ++ r)) ->
  header_length (packet b0 b1 sn ts sc (hd ++ r)) = 12 + Zlen hd ->
  is_u8 b1' -> bytes r' -> 12 + Zlen hd + Zlen r' < 65536 ->
  well_formed (packet b0 b1' sn' ts sc' (hd ++ r')).
Proof.
  intros Ht (Hb & H64 & HV & Hh) Hl H1 Hr' Hl'. unfold well_formed.
  rewrite (header_length_packet b0 b1 sn ts sc b1' sn' ts sc' hd r r') by done.
  rewrite packet_length by done. rewrite Zlen_app.
  assert (H0 := Zlen_nonneg hd). assert (Hr0 := Zlen_nonneg r').
  split_and!; try lia; try done.
  unfold bytes, packet in Hb. rewrite !Forall_app in Hb. destruct Hb as ([? _]%Forall_cons & _ & ? & _ & ? & _).
  apply bytes_packet; try done. by apply Forall_app.
Qed.

(** The payload type byte of the RTX packet, and the restored one. *)
Lemma payload_byte_back b1 pt :
  is_u8 b1 -> pt = -1 \/ 0 <= pt < 128 ->
  let b1' := payload_byte pt (flag b1 128) b1 in
  is_u8 b1' /\ flag b1' 128 = flag b1 128 /\ (0 <= pt -> Z.land b1' 127 = pt) /\
  payload_byte (Z.land b1 127) (flag b1 128) b1' = b1.
Proof.
  intros Hb Hpt.
  assert (Hlo : 0 <= Z.land b1 127 < 128)
    by (change 127 with (Z.ones 7); rewrite Z.land_ones by lia; apply Z.mod_pos_bound; lia).
  assert (Hb1 : payload_byte (Z.land b1 127) (flag b1 128) 0 = b1).
  { assert (H := seqZ_check (fun b1 => payload_byte (Z.land b1 127) (flag b1 128) 0 =? b1) 256 b1
      ltac:(vm_compute; reflexivity) Hb). cbn beta in H. lia. }
  assert (H : forall x m, 0 <= x < 128 -> let b := payload_byte x m 0 in
    is_u8 b /\ flag b 128 = m /\ Z.land b 127 = x).
  { intros x m Hx. assert (H := seqZ_check (fun x => let b := payload_byte x m 0 in
      (0 <=? b) && (b <? 256) && eqb (flag b 128) m && (Z.land b 127 =? x)) 128 x
      ltac:(destruct m; vm_compute; reflexivity) Hx). cbn beta zeta in H.
    rewrite !andb_true_iff, eqb_true_iff in H. unfold is_u8. destruct H as [[[? ?] ?] ?]. split_and!; done || lia. }
  assert (Hi : forall x m a b, 0 <= x -> payload_byte x m a = payload_byte x m b).
  { intros x m a b Hx. unfold payload_byte. by destruct (Z.eqb_spec x (-1)); [lia|]. }
  cbn zeta. destruct Hpt as [->|Hpt].
  - change (payload_byte (-1) (flag b1 128) b1) with b1. split; [done|]. split; [done|]. split; [lia|].
    rewrite <- Hb1 at 4. by rewrite (Hi _ _ _ 0) by lia.
  - rewrite (Hi pt _ b1 0) by lia. destruct (H pt (flag b1 128) Hpt) as (? & ? & ?).
    split; [done|]. split; [done|]. split; [done|]. rewrite <- Hb1 at 4. by rewrite (Hi _ _ _ 0) by lia.
Qed.

Lemma RestoreOriginalPacket_spec {R} reg restored b0 b1 snr ts scr hd sn body h sc n :
  let pkt := packet b0 b1 snr ts scr (hd ++ be16 sn ++ body) in
  Zlen ts = 4 -> is_u16 sn -> n = Zlen pkt -> headerLength h = 12 + Zlen hd ->
  n - 2 <= Zlen restored ->
  (registry_payload_type_rtx_ reg = -1 \/
   payloadType h = registry_payload_type_rtx_ reg /\ 0 <= incoming_payload_type_ reg) ->
  RestoreOriginalPacket (R := R) reg restored pkt n sc h
  = Cont (true, put restored 0 (packet b0
      (if registry_payload_type_rtx_ reg =? -1 then b1
       else payload_byte (incoming_payload_type_ reg) (markerBit h) b1) sn ts sc (hd ++ body)), n - 2).
Proof.
  intros pkt Ht Hsn -> Eh Hl Hreg. assert (H0 := Zlen_nonneg hd). assert (H1 := Zlen_nonneg body).
  assert (HL := packet_length b0 b1 snr ts scr (hd ++ be16 sn ++ body) Ht). fold pkt in HL.
  rewrite !Zlen_app, Zlen_be16 in HL.
  assert (Hd := packet_length b0 b1 snr ts scr hd Ht).
  assert (Ep : pkt = packet b0 b1 snr ts scr hd ++ be16 sn ++ body) by (subst pkt; apply packet_app).
  unfold RestoreOriginalPacket, kRtxHeaderSize. rewrite Eh.
  destruct (Z.ltb_spec (Zlen pkt) (2 + (12 + Zlen hd))); [lia|].
  rewrite HL. clearbody pkt. subst pkt. rewrite Word16_be by lia. cbn [flow_bind]. rewrite (u16_id sn Hsn).
  rewrite blk_get_front by lia. cbn [flow_bind]. rewrite blk_put_put by lia. cbn [flow_bind].
  rewrite <- (app_nil_r body) at 1. rewrite (app_assoc _ (be16 sn)).
  rewrite blk_get_app by (rewrite ?Zlen_app, ?Zlen_be16; lia). cbn [flow_bind].
  rewrite blk_put_step by lia. cbn [flow_bind]. rewrite <- packet_app.
  rewrite put_packet_sn by (done || (rewrite ?Zlen_app; lia)). cbn [flow_bind].
  rewrite put_packet_ssrc by (done || (rewrite ?Zlen_app; lia)). cbn [flow_bind].
  destruct Hreg as [->|[-> Hi]]; [done|].
  destruct (Z.eqb_spec (registry_payload_type_rtx_ reg) (-1)); [done|].
  rewrite Z.eqb_refl. destruct (Z.eqb_spec (incoming_payload_type_ reg) (-1)); [lia|]. cbn [negb andb].
  rewrite put_packet_b1 by (done || (rewrite ?Zlen_app; lia)). cbn [flow_bind].
  unfold payload_byte. destruct (Z.eqb_spec (incoming_payload_type_ reg) (-1)); [lia|].
  destruct (markerBit h); [|done].
  rewrite rd_packet_b1. cbn [flow_bind]. by rewrite put_packet_b1 by (done || (rewrite ?Zlen_app; lia)).
Qed.

Lemma word32_packet b0 b1 sn ts sc rest :
  Zlen ts = 4 -> word32_at (packet b0 b1 sn ts sc rest) 8 = u32 sc.
Proof.
  unfold Zlen. intros H. do 5 (destruct ts as [|? ts]; try (simpl in H; lia)).
  change (u32 (Z.shiftl (u8 (Z.shiftr sc 24)) 24 + Z.shiftl (u8 (Z.shiftr sc 16)) 16
    + Z.shiftl (u8 (Z.shiftr sc 8)) 8 + u8 sc) = u32 sc).
  rewrite bytes32. by rewrite u32_id by apply u32_range.
Qed.

(** The parts of a well-formed packet: the fields, the rest of the header and the
    body. *)
Lemma packet_parts pkt :
  well_formed pkt ->
  exists ts hd body,
    pkt = packet (pkt !!! 0%nat) (pkt !!! 1%nat) (word16_at pkt 2) ts (word32_at pkt 8) (hd ++ body) /\
    Zlen ts = 4 /\ header_length pkt = 12 + Zlen hd /\ Zlen hd + Zlen body = Zlen pkt - 12 /\
    bytes body /\ is_u8 (pkt !!! 1%nat) /\ is_u16 (word16_at pkt 2).
Proof.
  intros (Hb & _ & _ & Hh). destruct (packet_split pkt) as (ts & rest & Hts & _ & Hbr & E); [done|lia|].
  assert (HL := f_equal Zlen E). rewrite packet_length in HL by done.
  exists ts, (ztake (header_length pkt - 12) rest), (zdrop (header_length pkt - 12) rest).
  rewrite ztake_zdrop, Zlen_ztake, Zlen_zdrop by lia.
  split; [done|]. split; [done|]. split; [lia|]. split; [lia|]. split; [by apply Forall_drop|].
  split; [apply (bytes_at _ 1); [done|lia]|apply u16_range].
Qed.

(** C26: what BuildRtxPacket wraps RestoreOriginalPacket unwraps: for every packet that
    the parser accepts, the RTX packet has two bytes more, is accepted again, with
    the RTX stream's SSRC, sequence number and payload type, and the receiver gets
    back the packet byte by byte, when it knows the payload types of both streams
    and the SSRC of the media stream.  The RTX sequence number goes on by one. *)
Theorem rtx_round_trip {R} self reg buffer length rtx restored :
  0 <= length <= Zlen buffer -> well_formed (ztake length buffer) -> length + 2 < 65536 ->
  length + 2 <= Zlen rtx -> length <= Zlen restored -> is_u16 (sequence_number_rtx_ self) ->
  registry_payload_type_rtx_ reg = payload_type_rtx_ self ->
  payload_type_rtx_ self = -1 \/ 0 <= payload_type_rtx_ self < 128 /\
    incoming_payload_type_ reg = Z.land (ztake length buffer !!! 1%nat) 127 ->
  exists rtx' h restored',
    BuildRtxPacket (R := R) self buffer length rtx
    = Cont (length + 2, rtx', SetRtxRtpState self
        (mkRtpState (u16 (sequence_number_rtx_ self + 1)) 0 0 0 0 false)) /\
    Parse (R := R) (ztake (length + 2) rtx') None new_RTPHeader = Cont (true, h) /\
    sequenceNumber h = sequence_number_rtx_ self /\ ssrc h = u32 (ssrc_rtx_ self) /\
    (0 <= payload_type_rtx_ self -> payloadType h = payload_type_rtx_ self) /\
    RestoreOriginalPacket (R := R) reg restored (ztake (length + 2) rtx') (length + 2)
      (word32_at (ztake length buffer) 8) h = Cont (true, restored', length) /\
    ztake length restored' = ztake length buffer.
Proof.
  intros Hlen Hw H64 Hrtx Hres Hsn Hreg Hpt.
  assert (HL : Zlen (ztake length buffer) = length) by (apply Zlen_ztake; lia).
  destruct (packet_parts _ Hw) as (ts & hd & body & E & Hts & Hhl & Hsum & Hbd & Hb1 & Hs).
  set (b0 := ztake length buffer !!! 0%nat) in *. set (b1 := ztake length buffer !!! 1%nat) in *.
  set (sn := word16_at _ 2) in *. set (sc := word32_at _ 8) in *. clearbody b0 b1 sn sc.
  rewrite HL in Hsum. rewrite E in Hhl, Hw, HL.
  assert (H0 := Zlen_nonneg hd). assert (H1 := Zlen_nonneg body).
  destruct (payload_byte_back b1 (payload_type_rtx_ self) Hb1) as (Q1 & Q2 & Q3 & Q4); [lia|].
  set (b1' := payload_byte (payload_type_rtx_ self) (flag b1 128) b1) in *.
  set (R1 := packet b0 b1' (sequence_number_rtx_ self) ts (ssrc_rtx_ self) (hd ++ be16 sn ++ body)).
  assert (HR1 : Zlen R1 = length + 2).
  { subst R1. rewrite packet_length, !Zlen_app, Zlen_be16 by done. lia. }
  assert (HwR : well_formed R1).
  { subst R1. eapply well_formed_packet; [done|exact Hw|exact Hhl|done| |].
    - apply Forall_app. split; [|done]. unfold be16. repeat (apply Forall_cons; split); try apply u8_range; by apply Forall_nil.
    - rewrite Zlen_app, Zlen_be16. lia. }
  destruct (Parse_None (R := R) R1 new_RTPHeader HwR) as (h & Eh & Hhh & Hm & Hp & Hsq & Hss); [reflexivity|].
  change (R1 !!! 1%nat) with b1' in Hm, Hp.
  assert (ER : ztake (length + 2) (put rtx 0 R1) = R1).
  { rewrite put_0, ztake_app_le, ztake_all by lia. done. }
  exists (put rtx 0 R1), h, (put restored 0 (packet b0 b1 sn ts sc (hd ++ body))).
  rewrite ER, Eh. split; [|split; [done|]].
  { rewrite <- (ztake_zdrop length buffer), E.
    rewrite BuildRtxPacket_spec by (done || lia). fold b1' R1. rewrite u16_id by (unfold is_u16; lia). done. }
  split.
  { rewrite Hsq. change (u16 (Z.shiftl (u8 (Z.shiftr (sequence_number_rtx_ self) 8)) 8 + u8 (sequence_number_rtx_ self))
      = sequence_number_rtx_ self). rewrite bytes16. by rewrite !u16_id by (done || apply u16_range). }
  split; [rewrite Hss; by apply word32_packet|].
  split; [intros Hge; rewrite Hp; by apply Q3|].
  split.
  { subst R1. rewrite (RestoreOriginalPacket_spec reg restored b0 b1' _ ts _ hd sn body h sc (length + 2)).
    - do 3 f_equal; [|lia]. do 2 f_equal. rewrite Hreg, Hm, Q2.
      destruct (Z.eqb_spec (payload_type_rtx_ self) (-1)) as [Em1|]; [subst b1'; by rewrite Em1|].
      destruct Hpt as [?|[_ ->]]; [lia|]. exact Q4.
    - done.
    - done.
    - done.
    - rewrite Hhh. eapply header_length_packet; [exact Hts|done|exact Hhl].
    - lia.
    - rewrite Hreg. destruct Hpt as [Hpt|[Hpt Hi]]; [by left|right]. rewrite Hp, Q3 by lia. split; [done|].
      rewrite Hi. apply Z.land_nonneg. right. lia. }
  rewrite put_0, ztake_app_le, ztake_all by lia. done.
Qed.

(** A packet of payload type 96, sent as 97 on the RTX stream. *)
Lemma rtx_round_trip_witness :
  let self := SetRtxPayloadType (new_RTPSender 9 5 700 1) 97 in
  let pkt := [144; 224; 0; 7; 0; 0; 3; 232; 0; 0; 0; 9; 190; 222; 0; 1; 18; 1; 2; 3; 33; 9; 0; 0] in
  exists rtx' h restored',
    BuildRtxPacket (R := unit) self pkt 24 (replicate 40 0)
    = Cont (26, rtx', SetRtxRtpState self (mkRtpState 702 0 0 0 0 false)) /\
    Parse (R := unit) (ztake 26 rtx') None new_RTPHeader = Cont (true, h) /\
    sequenceNumber h = 701 /\ ssrc h = 5 /\ (0 <= 97 -> payloadType h = 97) /\
    RestoreOriginalPacket (R := unit) (mkRTPPayloadRegistry 97 96) (replicate 30 1) (ztake 26 rtx') 26 9 h
    = Cont (true, restored', 24) /\ ztake 24 restored' = pkt.
Proof.
  apply (rtx_round_trip (R := unit) (SetRtxPayloadType (new_RTPSender 9 5 700 1) 97)
    (mkRTPPayloadRegistry 97 96)
    [144; 224; 0; 7; 0; 0; 3; 232; 0; 0; 0; 9; 190; 222; 0; 1; 18; 1; 2; 3; 33; 9; 0; 0] 24
    (replicate 40 0) (replicate 30 1)).
  - vm_compute. split; congruence.
  - split; [by apply bytes_okb|]. split; [done|]. split; [done|]. vm_compute. split; congruence.
  - lia.
  - vm_compute. congruence.
  - vm_compute. congruence.
  - split; vm_compute; congruence.
  - done.
  - right. split; [split; vm_compute; congruence|reflexivity].
Defined.
