(* ===== verification/RtpUpdate.v ===== *)
(** * Rewriting extensions in built packets

    The Update functions find the block of an extension in a packet and store a new
    value: on a packet without CSRCs the result is the packet that the sender would
    have built with that value.  With CSRCs they look in the wrong place. *)
From S2P Require Import Prelude RtpWire RtpExtMap RtpHeader RtpSender RtpRoundTrip RtpSession.
Local Open Scope Z_scope.

Lemma put_app (a b b' c : list Z) p :
  p = Zlen a -> Zlen b' = Zlen b -> put (a ++ b ++ c) p b' = a ++ b' ++ c.
Proof.
  intros -> Hb. unfold put. rewrite ztake_app_le, ztake_all by lia. f_equal. f_equal.
  assert (H0 := Zlen_nonneg b'). rewrite zdrop_app_ge by lia. rewrite zdrop_app_ge by lia.
  by rewrite zdrop_0 by lia.
Qed.

(** ** Where a block starts *)

Lemma length_until_app lo pre i e m k :
  map_from lo (pre ++ (i, e) :: m) -> NoDup (types (pre ++ (i, e) :: m)) ->
  kRtpExtensionNone ∉ types (pre ++ (i, e) :: m) -> 0 <= k -> k + 4 * Zlen pre < 65536 ->
  length_until (pre ++ (i, e) :: m) (ext_type e) k = k + 4 * Zlen pre.
Proof.
  unfold types. revert lo k. induction pre as [|[j x] pre IH]; intros lo k; cbn.
  - intros. rewrite decide_True by done. change (Zlen []) with 0. lia.
  - intros (_ & Hx & Hm) [Hj Hd]%NoDup_cons Hn H0 Hk. apply not_elem_of_cons in Hn as [Hn Hn'].
    rewrite decide_False.
    2: { intros E. apply Hj. rewrite E, fmap_app, elem_of_app. cbn. rewrite elem_of_cons. auto. }
    rewrite (Zlen_cons (j, x)) in *. assert (Hz := Zlen_nonneg pre).
    assert (El : ext_length x = 4) by (rewrite Hx; cbn; by destruct (ext_type x)).
    rewrite El, u16_id by (unfold is_u16; lia). rewrite (IH j) by (done || lia). lia.
Qed.

Lemma GetLengthUntilBlockStartInBytes_app pre i e m :
  map_ok (pre ++ (i, e) :: m) -> types_ok (pre ++ (i, e) :: m) ->
  GetLengthUntilBlockStartInBytes (pre ++ (i, e) :: m) (ext_type e) = 4 + 4 * Zlen pre.
Proof.
  intros Hm Ht. assert (H3 := types_ok_length _ Ht). destruct Ht as [Hd Hn].
  rewrite Zlen_app, Zlen_cons in H3. assert (H0 := Zlen_nonneg pre). assert (H1 := Zlen_nonneg m).
  unfold GetLengthUntilBlockStartInBytes. rewrite GetId_app by done.
  unfold kRtpOneByteHeaderLength. by rewrite (length_until_app 0) by (done || lia).
Qed.

(** ** Where it is in a packet *)

Definition block_low (type : RTPExtensionType) : Z :=
  match type with kRtpExtensionAudioLevel => 0 | _ => 2 end.

(** The first sixteen bytes of a packet without CSRCs. *)
Definition ext_prefix (pt sc : Z) (mk : bool) (ts sn n : Z) : list Z :=
  first_bytes 0 true pt mk ++ fixed_bytes sc ts sn ++ be16 kRtpOneByteHeaderExtensionId ++ be16 n.

Lemma header_bytes_blocks self pt sc mk ts sn p m :
  rtp_header_extension_map_ self = p :: m ->
  header_bytes self pt sc mk ts sn []
  = ext_prefix pt sc mk ts sn (Zlen (p :: m)) ++ blocks self (p :: m).
Proof.
  intros E. unfold header_bytes, has_ext, extension_bytes, ext_prefix. rewrite E.
  change (Zlen []) with 0. change (csrc_bytes []) with (@nil Z). cbn [app].
  rewrite <- !app_assoc. done.
Qed.

Lemma block_head self i e :
  ext_type e <> kRtpExtensionNone ->
  exists r, Zlen r = 3 /\ block self (i, e) = u8 (Z.shiftl i 4 + block_low (ext_type e)) :: r.
Proof.
  unfold block. cbn [fst snd]. destruct (ext_type e); intros H; [done| | |]; eexists; (split; [|reflexivity]); done.
Qed.

(** The Update functions find the block of a registered extension. *)
Lemma find_block_found {R} self pt sc mk ts sn payload h pre i e m :
  map_ok (rtp_header_extension_map_ self) -> types_ok (rtp_header_extension_map_ self) ->
  rtp_header_extension_map_ self = pre ++ (i, e) :: m ->
  numCSRCs h = 0 -> headerLength h = Zlen (header_bytes self pt sc mk ts sn []) ->
  let pkt := header_bytes self pt sc mk ts sn [] ++ payload in
  find_block (R := R) self pkt (Zlen pkt) h (ext_type e) (block_low (ext_type e))
  = Cont (Some (16 + 4 * Zlen pre)).
Proof.
  intros Hm Ht Em Hc Hh pkt. assert (H3 := types_ok_length _ Ht).
  assert (HL := header_bytes_length self pt sc mk ts sn [] Ht). rewrite <- Hh in HL.
  change (Zlen []) with 0 in HL. unfold has_ext in HL.
  assert (Hne : exists p l, rtp_header_extension_map_ self = p :: l)
    by (rewrite Em; destruct pre; eauto).
  destruct Hne as (p & l & Epl). rewrite Epl in HL at 1.
  assert (E : pkt = ext_prefix pt sc mk ts sn (Zlen (p :: l)) ++ blocks self pre ++ block self (i, e)
                    ++ blocks self m ++ payload).
  { subst pkt. rewrite (header_bytes_blocks self pt sc mk ts sn p l Epl), <- Epl, Em, blocks_app, blocks_cons.
    by rewrite <- !app_assoc. }
  assert (Hpkt : headerLength h <= Zlen pkt) by (subst pkt; rewrite Zlen_app, <- Hh; assert (H0 := Zlen_nonneg payload); lia).
  rewrite Em in H3, HL, Ht, Hm. rewrite Zlen_app, Zlen_cons in H3, HL.
  assert (H0 := Zlen_nonneg pre). assert (H1 := Zlen_nonneg m).
  assert (Hpre : Zlen (blocks self pre) = 4 * Zlen pre).
  { apply blocks_length. intros Hin. apply Ht. unfold types in *. rewrite fmap_app, elem_of_app. auto. }
  assert (He : ext_type e <> kRtpExtensionNone).
  { intros Ee. apply Ht. unfold types. rewrite fmap_app, elem_of_app. cbn. rewrite elem_of_cons. auto. }
  destruct (block_head self i e He) as (r & Hr & Eb).
  assert (Hid := GetId_app pre i e m (proj1 Ht)).
  unfold find_block. rewrite Em, Hid, GetLengthUntilBlockStartInBytes_app by done.
  destruct (Z.ltb_spec (4 + 4 * Zlen pre) 0); [lia|]. rewrite Hc.
  replace (12 + 0 + (4 + 4 * Zlen pre)) with (16 + 4 * Zlen pre) by lia.
  destruct (Z.ltb_spec (Zlen pkt) (16 + 4 * Zlen pre + 4)); [lia|].
  destruct (Z.ltb_spec (headerLength h) (16 + 4 * Zlen pre + 4)); [lia|]. cbn [orb].
  rewrite E. change (12 + 0) with 12. change (12 + 1) with 13.
  change (rd (R := R) (ext_prefix pt sc mk ts sn (Zlen (p :: l)) ++ _) 12) with (Cont (R := R) 190).
  change (rd (R := R) (ext_prefix pt sc mk ts sn (Zlen (p :: l)) ++ _) 13) with (Cont (R := R) 222).
  cbn [flow_bind Z.eqb Pos.eqb negb]. rewrite Eb, app_assoc. cbn [app].
  rewrite rd_app by (rewrite Zlen_app, Hpre; reflexivity). cbn [flow_bind].
  by rewrite Z.eqb_refl.
Qed.

(** ** Storing a value *)

Lemma blocks_ext self self' m :
  (forall p, p ∈ m -> block self' p = block self p) -> blocks self' m = blocks self m.
Proof.
  induction m as [|p m IH]; intros H; [done|]. rewrite !blocks_cons. rewrite H by (rewrite elem_of_cons; auto).
  rewrite IH; [done|]. intros q Hq. apply H. rewrite elem_of_cons. auto.
Qed.

(** A sender with another value of one extension. *)
Definition same_but (type : RTPExtensionType) (self self' : RTPSender) : Prop :=
  rtp_header_extension_map_ self' = rtp_header_extension_map_ self /\
  forall p, ext_type p.2 <> type -> block self' p = block self p.

Lemma store_block {R} self self' pt sc mk ts sn payload pre i e m v :
  types_ok (rtp_header_extension_map_ self) ->
  rtp_header_extension_map_ self = pre ++ (i, e) :: m ->
  same_but (ext_type e) self self' ->
  block self (i, e) = u8 (Z.shiftl i 4 + 2) :: ztake 3 (zdrop 1 (block self (i, e))) ->
  block self' (i, e) = u8 (Z.shiftl i 4 + 2) :: be24 v ->
  AssignUWord24ToBuffer (R := R) (header_bytes self pt sc mk ts sn [] ++ payload) (16 + 4 * Zlen pre + 1) v
  = Cont (header_bytes self' pt sc mk ts sn [] ++ payload).
Proof.
  intros Ht Em [Em' Hsame] Hb Hb'.
  assert (Hne : exists p l, pre ++ (i, e) :: m = p :: l) by (destruct pre; cbn; eauto).
  destruct Hne as (p & l & Epl). rewrite Em in Ht, Em'.
  rewrite !(header_bytes_blocks _ pt sc mk ts sn p l) by congruence. rewrite <- Epl.
  destruct Ht as [Hd Hn]. unfold types in Hd, Hn. rewrite fmap_app in Hd, Hn. cbn in Hd, Hn.
  apply NoDup_app in Hd as (_ & Hd1 & Hd2). apply NoDup_cons in Hd2 as [Hd2 _].
  assert (Ha : blocks self' pre = blocks self pre).
  { apply blocks_ext. intros q Hq. apply Hsame. intros E. apply (Hd1 (ext_type q.2)); [|rewrite E, elem_of_cons; auto].
    apply list_elem_of_fmap. eauto. }
  assert (Hc : blocks self' m = blocks self m).
  { apply blocks_ext. intros q Hq. apply Hsame. intros E. apply Hd2. rewrite <- E. apply list_elem_of_fmap. eauto. }
  assert (Hpre : Zlen (blocks self pre) = 4 * Zlen pre).
  { apply blocks_length. intros Hin. apply Hn. rewrite elem_of_app. auto. }
  rewrite !blocks_app, !blocks_cons, Ha, Hc, Hb, Hb'.
  assert (He : ext_type e <> kRtpExtensionNone) by (intros E; apply Hn; rewrite elem_of_app, elem_of_cons, E; auto).
  assert (Hbl := block_length self (i, e) He).
  set (b := u8 _). set (r := ztake 3 _). assert (Hr : Zlen r = 3).
  { subst r. apply Zlen_ztake. rewrite Zlen_zdrop; lia. }
  clearbody r. set (A := ext_prefix pt sc mk ts sn _).
  assert (HA : Zlen A = 16) by done. clearbody A b.
  replace ((A ++ blocks self pre ++ (b :: r) ++ blocks self m) ++ payload)
    with ((A ++ blocks self pre ++ [b]) ++ r ++ blocks self m ++ payload) by (by rewrite <- !app_assoc).
  assert (H0 := Zlen_nonneg (blocks self m)). assert (H1 := Zlen_nonneg payload). assert (H2 := Zlen_nonneg pre).
  rewrite AssignUWord24_put by (rewrite ?Zlen_app, ?HA, ?Hpre, ?Hr; change (Zlen [b]) with 1; lia).
  rewrite put_app by (rewrite ?Zlen_app, ?HA, ?Hpre, ?Hr, ?Zlen_be24; change (Zlen [b]) with 1; lia).
  by rewrite <- !app_assoc.
Qed.

Lemma GetId_split m type i :
  GetId m type = Some i -> exists pre e m', m = pre ++ (i, e) :: m' /\ ext_type e = type.
Proof.
  induction m as [|[j x] m IH]; cbn; [done|]. destruct (decide _) as [E|].
  - intros [= ->]. by exists [], x, m.
  - intros H. destruct (IH H) as (pre & e & m' & -> & ?). by exists ((j, x) :: pre), e, m'.
Qed.

Definition with_offset (self : RTPSender) (off : Z) : RTPSender :=
  set_extensions self (rtp_header_extension_map_ self) off (absolute_send_time_ self).

Definition with_send_time (self : RTPSender) (abs : Z) : RTPSender :=
  set_extensions self (rtp_header_extension_map_ self) (transmission_time_offset_ self) abs.

Lemma header_bytes_no_block self self' pt sc mk ts sn cs type :
  GetId (rtp_header_extension_map_ self) type = None -> same_but type self self' ->
  header_bytes self' pt sc mk ts sn cs = header_bytes self pt sc mk ts sn cs.
Proof.
  intros Hn [Em Hs]. unfold header_bytes, has_ext, extension_bytes. rewrite Em.
  assert (E : blocks self' (rtp_header_extension_map_ self) = blocks self (rtp_header_extension_map_ self)).
  { apply blocks_ext. intros q Hq. apply Hs. intros Et.
    apply GetId_None in Hn. apply not_true_iff_false in Hn. apply Hn.
    rewrite IsRegistered_types. unfold types. rewrite <- Et. apply list_elem_of_fmap. eauto. }
  destruct (rtp_header_extension_map_ self); [done|]. by rewrite E.
Qed.

Lemma UpdateTransmissionTimeOffset_bytes {R} self pt sc mk ts sn payload h diff :
  map_ok (rtp_header_extension_map_ self) -> types_ok (rtp_header_extension_map_ self) ->
  numCSRCs h = 0 -> headerLength h = Zlen (header_bytes self pt sc mk ts sn []) ->
  let pkt := header_bytes self pt sc mk ts sn [] ++ payload in
  UpdateTransmissionTimeOffset (R := R) self pkt (Zlen pkt) h diff
  = Cont (header_bytes (with_offset self (diff * 90)) pt sc mk ts sn [] ++ payload).
Proof.
  intros Hm Ht Hc Hh pkt. unfold UpdateTransmissionTimeOffset.
  assert (Hs : same_but kRtpExtensionTransmissionTimeOffset self (with_offset self (diff * 90)))
    by (split; [done|]; intros [i e]; unfold block; by destruct (ext_type _)).
  destruct (GetId (rtp_header_extension_map_ self) kRtpExtensionTransmissionTimeOffset) as [i|] eqn:Eg.
  - destruct (GetId_split _ _ _ Eg) as (pre & e & m & Em & Et).
    assert (K := find_block_found (R := R) self pt sc mk ts sn payload h pre i e m Hm Ht Em Hc Hh).
    rewrite Et in K. cbn [block_low] in K. fold pkt in K. rewrite K. cbn [flow_bind].
    apply store_block with (i := i) (e := e) (m := m); try done; try (by rewrite Et);
      unfold block; cbn [fst snd]; by rewrite Et.
  - unfold find_block. rewrite Eg. cbn [flow_bind]. by rewrite (header_bytes_no_block _ _ _ _ _ _ _ _ _ Eg Hs).
Qed.

Definition abs_send_time (now_ms : Z) : Z := Z.land (Z.quot (s64 (Z.shiftl now_ms 18)) 1000) 16777215.

Lemma UpdateAbsoluteSendTime_bytes {R} self pt sc mk ts sn payload h now :
  map_ok (rtp_header_extension_map_ self) -> types_ok (rtp_header_extension_map_ self) ->
  numCSRCs h = 0 -> headerLength h = Zlen (header_bytes self pt sc mk ts sn []) ->
  let pkt := header_bytes self pt sc mk ts sn [] ++ payload in
  UpdateAbsoluteSendTime (R := R) self pkt (Zlen pkt) h now
  = Cont (header_bytes (with_send_time self (abs_send_time now)) pt sc mk ts sn [] ++ payload).
Proof.
  intros Hm Ht Hc Hh pkt. unfold UpdateAbsoluteSendTime.
  assert (Hs : same_but kRtpExtensionAbsoluteSendTime self (with_send_time self (abs_send_time now)))
    by (split; [done|]; intros [i e]; unfold block; by destruct (ext_type _)).
  destruct (GetId (rtp_header_extension_map_ self) kRtpExtensionAbsoluteSendTime) as [i|] eqn:Eg.
  - destruct (GetId_split _ _ _ Eg) as (pre & e & m & Em & Et).
    assert (K := find_block_found (R := R) self pt sc mk ts sn payload h pre i e m Hm Ht Em Hc Hh).
    rewrite Et in K. cbn [block_low] in K. fold pkt in K. rewrite K. cbn [flow_bind].
    apply store_block with (i := i) (e := e) (m := m); try done; try (by rewrite Et);
      unfold block; cbn [fst snd]; by rewrite Et.
  - unfold find_block. rewrite Eg. cbn [flow_bind]. by rewrite (header_bytes_no_block _ _ _ _ _ _ _ _ _ Eg Hs).
Qed.

(** ** The theorems *)

Lemma abs_send_time_range now : 0 <= abs_send_time now <= 16777215.
Proof.
  unfold abs_send_time. change 16777215 with (Z.ones 24). rewrite Z.land_ones by lia.
  assert (H := Z.mod_pos_bound (Z.quot (s64 (Z.shiftl now 18)) 1000) (2 ^ 24) ltac:(lia)).
  change (Z.ones 24) with 16777215. change (2 ^ 24) with 16777216 in *. lia.
Qed.

Lemma headerLength_no_csrcs self self' pt sc mk ts sn :
  types_ok (rtp_header_extension_map_ self) ->
  rtp_header_extension_map_ self' = rtp_header_extension_map_ self ->
  Zlen (header_bytes self' pt sc mk ts sn []) = Zlen (header_bytes self pt sc mk ts sn []).
Proof.
  intros Ht E. rewrite !header_bytes_length by (rewrite ?E; done). unfold has_ext. by rewrite E.
Qed.

(** C30: the two rewritings before a packet is sent, the transmission time offset and
    the absolute send time, reach the receiver: on a built packet without CSRCs they
    change the registered extensions to the new values and nothing else of the
    header, whichever extensions are registered and in whatever order. *)
Theorem updates_parsed {R} self now buf pt marker cap cap_ms provided inc payload diff sent :
  sender_inv self -> (if include_csrcs_ self then num_csrcs_ self else 0) = 0 ->
  0 <= pt < 128 -> 88 <= Zlen buf -> - 8388607 <= diff * 90 <= 8388607 ->
  exists buf' self' h pkt1 pkt2,
    BuildRTPheader (R := R) self now buf pt marker cap cap_ms provided inc
    = Cont (RTPHeaderLength self, buf', self') /\
    let pkt := ztake (RTPHeaderLength self) buf' ++ payload in
    RtpHeaderParserImpl_Parse (R := R) (rtp_header_extension_map_ self) pkt = Cont (true, h) /\
    UpdateTransmissionTimeOffset (R := R) self' pkt (Zlen pkt) h diff = Cont pkt1 /\
    UpdateAbsoluteSendTime (R := R) self' pkt1 (Zlen pkt1) h sent = Cont pkt2 /\
    RtpHeaderParserImpl_Parse (R := R) (rtp_header_extension_map_ self) pkt2
    = Cont (true, set_length h (headerLength h)
        (sent_extension (with_send_time (with_offset self (diff * 90)) (abs_send_time sent)))) /\
    zdrop (RTPHeaderLength self) pkt2 = payload.
Proof.
  intros Hi Hn Hpt Hb Hd. destruct (inv_sender self Hi) as (Hm & Ht & Ho & Ha).
  destruct (built_header_length self pt marker cap provided Hi) as [HL Hle].
  assert (Hcs : sent_csrcs self = []) by (unfold sent_csrcs; rewrite Hn; by apply ztake_0).
  assert (HP := built_header_parsed (R := R) self pt marker cap provided payload Hi Hpt).
  unfold built_header in *. rewrite Hcs in *.
  set (ts := sent_timestamp self cap provided) in *. set (sn := sequence_number_ self) in *.
  set (sc := ssrc_ self) in *. assert (Hts : is_u32 ts) by (subst ts; destruct provided; apply u32_range).
  set (self1 := with_offset self (diff * 90)).
  set (self2 := with_send_time self1 (abs_send_time sent)).
  set (h := parsed_header self pt sc marker ts sn []) in *.
  assert (L1 := headerLength_no_csrcs self self1 pt sc marker ts sn Ht eq_refl).
  assert (L2 := headerLength_no_csrcs self self2 pt sc marker ts sn Ht eq_refl).
  exists (put buf 0 (header_bytes self pt sc marker ts sn [])),
    (after_header self now marker cap cap_ms provided), h,
    (header_bytes self1 pt sc marker ts sn [] ++ payload),
    (header_bytes self2 pt sc marker ts sn [] ++ payload).
  split; [|cbn zeta].
  { rewrite (BuildRTPheader_bytes self now buf pt marker cap cap_ms provided inc Hi Hb).
    unfold built_header. by rewrite Hcs. }
  assert (E : ztake (RTPHeaderLength self) (put buf 0 (header_bytes self pt sc marker ts sn []))
              = header_bytes self pt sc marker ts sn []).
  { rewrite put_0, ztake_app_le, ztake_all by lia. done. }
  rewrite E. split; [done|]. split.
  { by apply (UpdateTransmissionTimeOffset_bytes self). }
  split.
  { apply (UpdateAbsoluteSendTime_bytes self1); done. }
  split; [|rewrite zdrop_app_ge by lia; by rewrite zdrop_0 by lia].
  unfold RtpHeaderParserImpl_Parse. rewrite GetCopy_empty by done.
  change (rtp_header_extension_map_ self) with (rtp_header_extension_map_ self2).
  assert (Hok2 : sender_ok self2)
    by (exact (conj Hm (conj Ht (conj Hd (abs_send_time_range sent))))).
  rewrite Parse_header_bytes; try done; [|apply Hi|apply Hi].
  unfold parsed_header, set_length. cbn -[header_bytes sent_extension]. by rewrite L2.
Qed.

Lemma updates_parsed_witness :
  exists buf' self' h pkt1 pkt2,
    BuildRTPheader (R := unit) (SetCSRCStatus ex_sender false) 0 (replicate 100 0) 96 true 5 0 true true
    = Cont (24, buf', self') /\
    let pkt := ztake 24 buf' ++ [1; 2; 3] in
    RtpHeaderParserImpl_Parse (R := unit) (rtp_header_extension_map_ ex_sender) pkt = Cont (true, h) /\
    UpdateTransmissionTimeOffset (R := unit) self' pkt (Zlen pkt) h 7 = Cont pkt1 /\
    UpdateAbsoluteSendTime (R := unit) self' pkt1 (Zlen pkt1) h 1000 = Cont pkt2 /\
    RtpHeaderParserImpl_Parse (R := unit) (rtp_header_extension_map_ ex_sender) pkt2
    = Cont (true, set_length h (headerLength h) (mkRTPHeaderExtension true 630 true 262144 false 0)) /\
    zdrop 24 pkt2 = [1; 2; 3].
Proof.
  apply (updates_parsed (R := unit) (SetCSRCStatus ex_sender false) 0 (replicate 100 0) 96 true 5 0
    true true [1; 2; 3] 7 1000); [|reflexivity|lia|vm_compute; congruence|lia].
  apply (step_keeps ex_sender); [apply step_csrc_status|apply ex_sender_inv].
Defined.

(** ** Packets with CSRCs *)

(** The bytes in which the Update functions look for the start of the extension: bytes
    [n] and [n + 1] of a list of [n] CSRCs. *)
Definition looks_like_extension (csrcs : list Z) : bool :=
  (csrc_bytes csrcs !!! Z.to_nat (Zlen csrcs) =? 190) && (csrc_bytes csrcs !!! Z.to_nat (Zlen csrcs + 1) =? 222).

Lemma find_block_csrcs {R} self self' pt sc mk ts sn cs payload h type low :
  0 < Zlen cs -> numCSRCs h = Zlen cs -> looks_like_extension cs = false ->
  let pkt := header_bytes self pt sc mk ts sn cs ++ payload in
  find_block (R := R) self' pkt (Zlen pkt) h type low = Cont None.
Proof.
  intros Hn Hc Hl pkt. unfold find_block. rewrite Hc.
  destruct (GetId _ _); [|done]. destruct (_ <? 0); [done|]. destruct (_ || _); [done|].
  assert (Hb : forall j, 0 <= j < 4 * Zlen cs -> rd (R := R) pkt (12 + j) = Cont (csrc_bytes cs !!! Z.to_nat j)).
  { intros j Hj. assert (HL := csrc_bytes_length cs). unfold pkt, header_bytes. rewrite !app_assoc.
    rewrite <- (app_assoc _ (extension_bytes self)), <- (app_assoc _ (csrc_bytes cs)).
    change 12 with (Zlen (first_bytes (Zlen cs) (has_ext self) pt mk ++ fixed_bytes sc ts sn)).
    rewrite rd_app_at by lia. apply rd_Cont; [lia|]. apply lookup_app_l_Some, list_lookup_lookup_total_lt.
    unfold Zlen in *. lia. }
  rewrite <- (Z.add_assoc 12), !Hb by lia. cbn [flow_bind].
  unfold looks_like_extension in Hl. destruct (_ =? 190); [|done]. cbn [andb] in Hl. cbn [flow_bind]. by rewrite Hl.
Qed.

(** C32: with CSRCs the Update functions look for the extension at [12 + numCSRCs]
    instead of [12 + 4 * numCSRCs], which is inside the list of CSRCs.  Unless the list has
    the bytes 0xBE and 0xDE there ([looks_like_extension]), every packet that a sender
    builds with CSRCs, whatever extensions are registered and whatever values are to be
    written, keeps its old values: UpdateTransmissionTimeOffset and UpdateAbsoluteSendTime
    leave it as it is, and UpdateAudioLevel also returns false. *)
Theorem updates_miss_csrcs {R} self now buf pt marker cap cap_ms provided inc payload diff is_voiced dBov sent :
  sender_inv self -> include_csrcs_ self = true -> 0 < num_csrcs_ self ->
  looks_like_extension (sent_csrcs self) = false -> 0 <= pt < 128 -> 88 <= Zlen buf ->
  exists buf' self' h,
    BuildRTPheader (R := R) self now buf pt marker cap cap_ms provided inc
    = Cont (RTPHeaderLength self, buf', self') /\
    let pkt := ztake (RTPHeaderLength self) buf' ++ payload in
    RtpHeaderParserImpl_Parse (R := R) (rtp_header_extension_map_ self) pkt = Cont (true, h) /\
    numCSRCs h = num_csrcs_ self /\ extension h = sent_extension self /\
    UpdateTransmissionTimeOffset (R := R) self' pkt (Zlen pkt) h diff = Cont pkt /\
    UpdateAudioLevel (R := R) self' pkt (Zlen pkt) h is_voiced dBov = Cont (false, pkt) /\
    UpdateAbsoluteSendTime (R := R) self' pkt (Zlen pkt) h sent = Cont pkt.
Proof.
  intros Hi Hinc Hn Hlook Hpt Hb. destruct (built_header_length self pt marker cap provided Hi) as [HL Hle].
  assert (Hcs : Zlen (sent_csrcs self) = num_csrcs_ self) by (by rewrite sent_csrcs_length, Hinc).
  assert (HP := built_header_parsed (R := R) self pt marker cap provided payload Hi Hpt).
  assert (K := BuildRTPheader_bytes (R := R) self now buf pt marker cap cap_ms provided inc Hi Hb).
  do 3 eexists. split; [exact K|]. cbn zeta.
  rewrite put_0, ztake_app_le, ztake_all by lia. split; [exact HP|]. split; [done|]. split; [done|].
  assert (F : forall type low, find_block (R := R) (after_header self now marker cap cap_ms provided)
    (built_header self pt marker cap provided ++ payload) (Zlen (built_header self pt marker cap provided ++ payload))
    (parsed_header self pt (ssrc_ self) marker (sent_timestamp self cap provided) (sequence_number_ self) (sent_csrcs self))
    type low = Cont None).
  { intros type low. apply find_block_csrcs; [lia|done|done]. }
  unfold UpdateTransmissionTimeOffset, UpdateAudioLevel, UpdateAbsoluteSendTime. by rewrite !F.
Qed.

Lemma updates_miss_csrcs_witness :
  exists buf' self' h,
    BuildRTPheader (R := unit) ex_sender 0 (replicate 100 0) 96 true 5 0 true true = Cont (32, buf', self') /\
    let pkt := ztake 32 buf' ++ [1; 2; 3] in
    RtpHeaderParserImpl_Parse (R := unit) (rtp_header_extension_map_ ex_sender) pkt = Cont (true, h) /\
    numCSRCs h = 2 /\ extension h = sent_extension ex_sender /\
    UpdateTransmissionTimeOffset (R := unit) self' pkt (Zlen pkt) h 7 = Cont pkt /\
    UpdateAudioLevel (R := unit) self' pkt (Zlen pkt) h true 3 = Cont (false, pkt) /\
    UpdateAbsoluteSendTime (R := unit) self' pkt (Zlen pkt) h 1000 = Cont pkt.
Proof.
  apply (updates_miss_csrcs (R := unit) ex_sender 0 (replicate 100 0) 96 true 5 0 true true [1; 2; 3] 7 true 3 1000);
    [apply ex_sender_inv|reflexivity|reflexivity|vm_compute; reflexivity|lia|vm_compute; congruence].
Defined.
