(* ===== verification/Vp8Descriptor.v ===== *)
(** * The VP8 payload descriptor

    Models the writing side of [modules/rtp_rtcp/source/rtp_format_vp8.cc]
    (WriteHeaderAndPayload and what it calls), the payload parser of
    [rtp_utility.cc] and ReceiveVp8Codec of [rtp_receiver_video.cc].  A pointer into
    a buffer is the buffer and an offset. *)
From S2P Require Import Prelude RtpWire RtpExtMap RtpHeader.
Local Open Scope Z_scope.

Definition kNoPictureId : Z := -1.
Definition kNoTl0PicIdx : Z := -1.
Definition kNoTemporalIdx : Z := 255.
Definition kNoKeyIdx : Z := -1.

Record RTPVideoHeaderVP8 : Type := mkRTPVideoHeaderVP8 {
  nonReference : bool;
  pictureId : Z;
  tl0PicIdx : Z;
  temporalIdx : Z;
  layerSync : bool;
  keyIdx : Z;
  partitionId : Z;
  beginningOfPartition : bool
}.

Definition InitRTPVideoHeaderVP8 : RTPVideoHeaderVP8 :=
  mkRTPVideoHeaderVP8 false kNoPictureId kNoTl0PicIdx kNoTemporalIdx false kNoKeyIdx 0 false.

Definition kXBit : Z := 128.
Definition kNBit : Z := 32.
Definition kSBit : Z := 16.
Definition kPartIdField : Z := 15.
Definition kKeyIdxField : Z := 31.
Definition kIBit : Z := 128.
Definition kLBit : Z := 64.
Definition kTBit : Z := 32.
Definition kKBit : Z := 16.
Definition kYBit : Z := 32.
Definition vp8_fixed_payload_descriptor_bytes_ : Z := 1.

Record InfoStruct : Type := mkInfoStruct {
  payload_start_pos : Z;
  info_size : Z;
  first_fragment : bool;
  first_partition_ix : Z
}.

(** ** Fields present, and their lengths *)

Definition PictureIdLength (hdr : RTPVideoHeaderVP8) : Z :=
  if pictureId hdr =? kNoPictureId then 0
  else if pictureId hdr <=? 127 then 1
  else 2.

Definition PictureIdPresent (hdr : RTPVideoHeaderVP8) : bool := 0 <? PictureIdLength hdr.
Definition TIDFieldPresent (hdr : RTPVideoHeaderVP8) : bool := negb (temporalIdx hdr =? kNoTemporalIdx).
Definition KeyIdxFieldPresent (hdr : RTPVideoHeaderVP8) : bool := negb (keyIdx hdr =? kNoKeyIdx).
Definition TL0PicIdxFieldPresent (hdr : RTPVideoHeaderVP8) : bool := negb (tl0PicIdx hdr =? kNoTl0PicIdx).

Definition XFieldPresent (hdr : RTPVideoHeaderVP8) : bool :=
  TIDFieldPresent hdr || TL0PicIdxFieldPresent hdr || PictureIdPresent hdr || KeyIdxFieldPresent hdr.

Definition PayloadDescriptorExtraLength (hdr : RTPVideoHeaderVP8) : Z :=
  let length_bytes := PictureIdLength hdr in
  let length_bytes := if TL0PicIdxFieldPresent hdr then length_bytes + 1 else length_bytes in
  let length_bytes := if TIDFieldPresent hdr || KeyIdxFieldPresent hdr then length_bytes + 1
                      else length_bytes in
  if 0 <? length_bytes then length_bytes + 1 else length_bytes.

(** ** Writing

    The result [None] is -1; then the buffer is as the earlier fields left it, and
    it is not used. *)

Definition WritePictureID {R : Type} (hdr : RTPVideoHeaderVP8) (buffer : list Z)
  (p buffer_length : Z) : flow R (option Z * list Z) :=
  let pic_id := u16 (pictureId hdr) in
  let picture_id_len := PictureIdLength hdr in
  if buffer_length <? picture_id_len then Cont (None, buffer)
  else if picture_id_len =? 2 then
    let! buffer := wr buffer p (Z.lor 128 (Z.land (Z.shiftr pic_id 8) 127)) in
    let! buffer := wr buffer (p + 1) (Z.land pic_id 255) in
    Cont (Some picture_id_len, buffer)
  else if picture_id_len =? 1 then
    let! buffer := wr buffer p (Z.land pic_id 127) in
    Cont (Some picture_id_len, buffer)
  else Cont (Some picture_id_len, buffer).

(** Setting bits of a byte. *)
Definition set_bits {R : Type} (buffer : list Z) (p bits : Z) : flow R (list Z) :=
  let! x := rd buffer p in wr buffer p (Z.lor x bits).

(** The three field writers get and return the extension length. *)
Definition WritePictureIDFields {R : Type} (hdr : RTPVideoHeaderVP8) (buffer : list Z)
  (buffer_length extension_length : Z) : flow R (option Z * list Z) :=
  let! buffer := set_bits buffer vp8_fixed_payload_descriptor_bytes_ kIBit in
  let! (pic_id_length, buffer) :=
    WritePictureID hdr buffer (vp8_fixed_payload_descriptor_bytes_ + extension_length)
      (buffer_length - vp8_fixed_payload_descriptor_bytes_ - extension_length) in
  match pic_id_length with
  | None => Cont (None, buffer)
  | Some n => Cont (Some (extension_length + n), buffer)
  end.

Definition WriteTl0PicIdxFields {R : Type} (hdr : RTPVideoHeaderVP8) (buffer : list Z)
  (buffer_length extension_length : Z) : flow R (option Z * list Z) :=
  if buffer_length <? vp8_fixed_payload_descriptor_bytes_ + extension_length + 1
  then Cont (None, buffer)
  else
    let! buffer := set_bits buffer vp8_fixed_payload_descriptor_bytes_ kLBit in
    let! buffer := wr buffer (vp8_fixed_payload_descriptor_bytes_ + extension_length)
                     (u8 (tl0PicIdx hdr)) in
    Cont (Some (extension_length + 1), buffer).

Definition WriteTIDAndKeyIdxFields {R : Type} (hdr : RTPVideoHeaderVP8) (buffer : list Z)
  (buffer_length extension_length : Z) : flow R (option Z * list Z) :=
  if buffer_length <? vp8_fixed_payload_descriptor_bytes_ + extension_length + 1
  then Cont (None, buffer)
  else
    let data_field := vp8_fixed_payload_descriptor_bytes_ + extension_length in
    let! buffer := wr buffer data_field 0 in
    let! buffer :=
      if TIDFieldPresent hdr then
        let! buffer := set_bits buffer vp8_fixed_payload_descriptor_bytes_ kTBit in
        let! buffer := set_bits buffer data_field (u8 (Z.shiftl (temporalIdx hdr) 6)) in
        set_bits buffer data_field (if layerSync hdr then kYBit else 0)
      else Cont buffer in
    let! buffer :=
      if KeyIdxFieldPresent hdr then
        let! buffer := set_bits buffer vp8_fixed_payload_descriptor_bytes_ kKBit in
        set_bits buffer data_field (Z.land (keyIdx hdr) kKeyIdxField)
      else Cont buffer in
    Cont (Some (extension_length + 1), buffer).

Definition WriteExtensionFields {R : Type} (hdr : RTPVideoHeaderVP8) (buffer : list Z)
  (buffer_length : Z) : flow R (option Z * list Z) :=
  if XFieldPresent hdr then
    let! buffer := wr buffer vp8_fixed_payload_descriptor_bytes_ 0 in
    let! (n, buffer) :=
      if PictureIdPresent hdr then WritePictureIDFields hdr buffer buffer_length 1
      else Cont (Some 1, buffer) in
    match n with
    | None => Cont (None, buffer)
    | Some n =>
        let! (n, buffer) :=
          if TL0PicIdxFieldPresent hdr then WriteTl0PicIdxFields hdr buffer buffer_length n
          else Cont (Some n, buffer) in
        match n with
        | None => Cont (None, buffer)
        | Some n =>
            if TIDFieldPresent hdr || KeyIdxFieldPresent hdr
            then WriteTIDAndKeyIdxFields hdr buffer buffer_length n
            else Cont (Some n, buffer)
        end
    end
  else Cont (Some 0, buffer).

(** The caller does not look at the error: the length -1 then goes into the place of
    the payload and the result. *)
Definition WriteHeaderAndPayload {R : Type} (hdr : RTPVideoHeaderVP8) (payload_data : list Z)
  (packet_info : InfoStruct) (buffer : list Z) (buffer_length : Z) : flow R (Z * list Z) :=
  let! buffer := wr buffer 0 0 in
  let! buffer := if XFieldPresent hdr then set_bits buffer 0 kXBit else Cont buffer in
  let! buffer := if nonReference hdr then set_bits buffer 0 kNBit else Cont buffer in
  let! buffer := if first_fragment packet_info then set_bits buffer 0 kSBit else Cont buffer in
  let! buffer := set_bits buffer 0 (Z.land (first_partition_ix packet_info) kPartIdField) in
  let! (n, buffer) := WriteExtensionFields hdr buffer buffer_length in
  let extension_length := match n with Some n => n | None => -1 end in
  let! src := blk_get payload_data (payload_start_pos packet_info) (info_size packet_info) in
  let! buffer := blk_put buffer (vp8_fixed_payload_descriptor_bytes_ + extension_length) src in
  Cont (info_size packet_info + vp8_fixed_payload_descriptor_bytes_ + extension_length, buffer).

(** ** Parsing *)

Inductive FrameTypes : Type := kIFrame | kPFrame.
#[export] Instance FrameTypes_eq_dec : EqDecision FrameTypes.
Proof. solve_decision. Defined.

Inductive RtpVideoCodecTypes : Type := kRtpVideoNone | kRtpVideoGeneric | kRtpVideoVp8 | kRtpVideoH264.

Record RTPPayloadVP8 : Type := mkRTPPayloadVP8 {
  nonReferenceFrame : bool;
  payload_beginningOfPartition : bool;
  partitionID : Z;
  hasPictureID : bool;
  hasTl0PicIdx : bool;
  hasTID : bool;
  hasKeyIdx : bool;
  pictureID : Z;
  payload_tl0PicIdx : Z;
  tID : Z;
  payload_layerSync : bool;
  payload_keyIdx : Z;
  frameWidth : Z;
  frameHeight : Z;
  data : Z;
  dataLength : Z
}.

(** [info] is the union's one member; [data] is an offset into the packet. *)
Record RTPPayload : Type := mkRTPPayload {
  frameType : FrameTypes;
  info : RTPPayloadVP8
}.

(** The fields that SetType leaves alone have the values of [v]. *)
Definition SetType (videoType : RtpVideoCodecTypes) (v : RTPPayloadVP8) : RTPPayloadVP8 :=
  match videoType with
  | kRtpVideoVp8 =>
      mkRTPPayloadVP8 false false 0 false false false false (-1) (-1) (-1) false
        (payload_keyIdx v) 0 0 (data v) (dataLength v)
  | _ => v
  end.

Definition set_first_byte (v : RTPPayloadVP8) (b : Z) : RTPPayloadVP8 :=
  mkRTPPayloadVP8 (flag b 32) (flag b 16) (Z.land b 15) (hasPictureID v) (hasTl0PicIdx v)
    (hasTID v) (hasKeyIdx v) (pictureID v) (payload_tl0PicIdx v) (tID v) (payload_layerSync v)
    (payload_keyIdx v) (frameWidth v) (frameHeight v) (data v) (dataLength v).

Definition set_x_byte (v : RTPPayloadVP8) (b : Z) : RTPPayloadVP8 :=
  mkRTPPayloadVP8 (nonReferenceFrame v) (payload_beginningOfPartition v) (partitionID v)
    (flag b 128) (flag b 64) (flag b 32) (flag b 16) (pictureID v) (payload_tl0PicIdx v) (tID v)
    (payload_layerSync v) (payload_keyIdx v) (frameWidth v) (frameHeight v) (data v) (dataLength v).

Definition set_fields (v : RTPPayloadVP8) (pic tl0 tid : Z) (sync : bool) (key : Z) : RTPPayloadVP8 :=
  mkRTPPayloadVP8 (nonReferenceFrame v) (payload_beginningOfPartition v) (partitionID v)
    (hasPictureID v) (hasTl0PicIdx v) (hasTID v) (hasKeyIdx v) pic tl0 tid sync key
    (frameWidth v) (frameHeight v) (data v) (dataLength v).

Definition set_frame (v : RTPPayloadVP8) (w h p n : Z) : RTPPayloadVP8 :=
  mkRTPPayloadVP8 (nonReferenceFrame v) (payload_beginningOfPartition v) (partitionID v)
    (hasPictureID v) (hasTl0PicIdx v) (hasTID v) (hasKeyIdx v) (pictureID v) (payload_tl0PicIdx v)
    (tID v) (payload_layerSync v) (payload_keyIdx v) w h p n.

(** [*dataPtr], [*dataLength] and [*parsedBytes] are a triple. *)
Definition ParseVP8PictureID {R : Type} (pkt : list Z) (v : RTPPayloadVP8) (st : Z * Z * Z)
  : flow R (Z * RTPPayloadVP8 * (Z * Z * Z)) :=
  let '(p, len, parsed) := st in
  if len <=? 0 then Cont (-1, v, st)
  else
    let! b := rd pkt p in
    let pic := Z.land b 127 in
    let v := set_fields v pic (payload_tl0PicIdx v) (tID v) (payload_layerSync v) (payload_keyIdx v) in
    if flag b 128 then
      let '(p, parsed, len) := (p + 1, parsed + 1, len - 1) in
      if len <=? 0 then Cont (-1, v, (p, len, parsed))
      else
        let! b := rd pkt p in
        let v := set_fields v (Z.shiftl pic 8 + b) (payload_tl0PicIdx v) (tID v)
                   (payload_layerSync v) (payload_keyIdx v) in
        Cont (0, v, (p + 1, len - 1, parsed + 1))
    else Cont (0, v, (p + 1, len - 1, parsed + 1)).

Definition ParseVP8Tl0PicIdx {R : Type} (pkt : list Z) (v : RTPPayloadVP8) (st : Z * Z * Z)
  : flow R (Z * RTPPayloadVP8 * (Z * Z * Z)) :=
  let '(p, len, parsed) := st in
  if len <=? 0 then Cont (-1, v, st)
  else
    let! b := rd pkt p in
    let v := set_fields v (pictureID v) b (tID v) (payload_layerSync v) (payload_keyIdx v) in
    Cont (0, v, (p + 1, len - 1, parsed + 1)).

Definition ParseVP8TIDAndKeyIdx {R : Type} (pkt : list Z) (v : RTPPayloadVP8) (st : Z * Z * Z)
  : flow R (Z * RTPPayloadVP8 * (Z * Z * Z)) :=
  let '(p, len, parsed) := st in
  if len <=? 0 then Cont (-1, v, st)
  else
    let! b := rd pkt p in
    let v := if hasTID v
             then set_fields v (pictureID v) (payload_tl0PicIdx v) (Z.land (Z.shiftr b 6) 3)
                    (flag b 32) (payload_keyIdx v)
             else v in
    let v := if hasKeyIdx v
             then set_fields v (pictureID v) (payload_tl0PicIdx v) (tID v) (payload_layerSync v)
                    (Z.land b 31)
             else v in
    Cont (0, v, (p + 1, len - 1, parsed + 1)).

(** The parsed bytes, or -1. *)
Definition ParseVP8Extension {R : Type} (pkt : list Z) (v : RTPPayloadVP8) (p len : Z)
  : flow R (Z * RTPPayloadVP8) :=
  if len <=? 0 then Cont (-1, v)
  else
    let! b := rd pkt p in
    let v := set_x_byte v b in
    let st := (p + 1, len - 1, 1) in
    let! (r, v, st) := if hasPictureID v then ParseVP8PictureID pkt v st else Cont (0, v, st) in
    if negb (r =? 0) then Cont (-1, v)
    else
      let! (r, v, st) := if hasTl0PicIdx v then ParseVP8Tl0PicIdx pkt v st else Cont (0, v, st) in
      if negb (r =? 0) then Cont (-1, v)
      else
        let! (r, v, st) :=
          if hasTID v || hasKeyIdx v then ParseVP8TIDAndKeyIdx pkt v st else Cont (0, v, st) in
        if negb (r =? 0) then Cont (-1, v) else Cont (st.2, v).

Definition ParseVP8FrameSize {R : Type} (pkt : list Z) (parsed : RTPPayload) (p len : Z)
  : flow R (Z * RTPPayload) :=
  if negb (if decide (frameType parsed = kIFrame) then true else false) then Cont (0, parsed)
  else if len <? 10 then Cont (-1, parsed)
  else
    let! b7 := rd pkt (p + 7) in
    let! b6 := rd pkt (p + 6) in
    let! b9 := rd pkt (p + 9) in
    let! b8 := rd pkt (p + 8) in
    let v := info parsed in
    Cont (0, mkRTPPayload (frameType parsed)
               (set_frame v (Z.land (Z.shiftl b7 8 + b6) 16383) (Z.land (Z.shiftl b9 8 + b8) 16383)
                  (data v) (dataLength v))).

(** The packet is [_dataPtr] with [_dataLength] bytes. *)
Definition ParseVP8 {R : Type} (pkt : list Z) (parsed : RTPPayload) : flow R (bool * RTPPayload) :=
  let len := Zlen pkt in
  let! b := rd pkt 0 in
  let extension := flag b 128 in
  let v := set_first_byte (info parsed) b in
  let parsed := mkRTPPayload (frameType parsed) v in
  if 8 <? partitionID v then Cont (false, parsed)
  else
    let '(p, len) := (1, len - 1) in
    let! (parsedBytes, v) := if extension then ParseVP8Extension pkt v p len else Cont (0, v) in
    let parsed := mkRTPPayload (frameType parsed) v in
    if parsedBytes <? 0 then Cont (false, parsed)
    else
      let '(p, len) := (p + parsedBytes, len - parsedBytes) in
      if len <=? 0 then Cont (false, parsed)
      else
        let! frame :=
          if payload_beginningOfPartition v && (partitionID v =? 0) then
            let! b := rd pkt p in Cont (if flag b 1 then kPFrame else kIFrame)
          else Cont kPFrame in
        let! (r, parsed) := ParseVP8FrameSize pkt (mkRTPPayload frame v) p len in
        if negb (r =? 0) then Cont (false, parsed)
        else
          let v := info parsed in
          Cont (true, mkRTPPayload (frameType parsed)
                        (set_frame v (frameWidth v) (frameHeight v) p (u16 len))).

Definition ParseGeneric (parsed : RTPPayload) : bool * RTPPayload := (false, parsed).

Definition RTPPayloadParser_Parse {R : Type} (videoType : RtpVideoCodecTypes) (pkt : list Z)
  (parsed : RTPPayload) : flow R (bool * RTPPayload) :=
  let parsed := mkRTPPayload (frameType parsed) (SetType videoType (info parsed)) in
  match videoType with
  | kRtpVideoGeneric => Cont (ParseGeneric parsed)
  | kRtpVideoVp8 => ParseVP8 pkt parsed
  | _ => Cont (false, parsed)
  end.

(** ** The receiver *)

(** What ReceiveVp8Codec hands to its callback. *)
Record Delivered : Type := mkDelivered {
  delivered_frame : FrameTypes;
  isFirstPacket : bool;
  delivered_header : RTPVideoHeaderVP8;
  width : Z;
  height : Z;
  delivered_data : list Z
}.

(** [fresh] is the memory of the parsed packet, [callback] what the callback
    returns. *)
Definition ReceiveVp8Codec {R : Type} (payload_data : list Z) (fresh : RTPPayload)
  (callback : Delivered -> Z) : flow R (Z * option Delivered) :=
  let! (ok, parsed) := RTPPayloadParser_Parse kRtpVideoVp8 payload_data fresh in
  if negb ok then Cont (-1, None)
  else
    let from := info parsed in
    if dataLength from =? 0 then Cont (0, None)
    else
      let header :=
        mkRTPVideoHeaderVP8 (nonReferenceFrame from)
          (if hasPictureID from then s16 (pictureID from) else kNoPictureId)
          (if hasTl0PicIdx from then s16 (payload_tl0PicIdx from) else kNoTl0PicIdx)
          (if hasTID from then u8 (tID from) else kNoTemporalIdx)
          (if hasTID from then payload_layerSync from else false)
          (if hasKeyIdx from then payload_keyIdx from else kNoKeyIdx)
          (partitionID from) (payload_beginningOfPartition from) in
      let! bytes := blk_get payload_data (data from) (dataLength from) in
      let d := mkDelivered (frameType parsed)
                 (payload_beginningOfPartition from && (partitionID from =? 0)) header
                 (u16 (frameWidth from)) (u16 (frameHeight from)) bytes in
      Cont (if negb (callback d =? 0) then -1 else 0, Some d).

(** ** The bytes of a descriptor *)

Lemma PictureIdPresent_eq hdr : PictureIdPresent hdr = negb (pictureId hdr =? kNoPictureId).
Proof. unfold PictureIdPresent, PictureIdLength. by destruct (pictureId hdr =? kNoPictureId), (pictureId hdr <=? 127). Qed.

Record vp8_ok (hdr : RTPVideoHeaderVP8) : Prop := {
  ok_picture : pictureId hdr = kNoPictureId \/ 0 <= pictureId hdr < 32768;
  ok_tl0 : tl0PicIdx hdr = kNoTl0PicIdx \/ 0 <= tl0PicIdx hdr < 256;
  ok_temporal : temporalIdx hdr = kNoTemporalIdx /\ layerSync hdr = false \/ 0 <= temporalIdx hdr < 4;
  ok_key : keyIdx hdr = kNoKeyIdx \/ 0 <= keyIdx hdr < 32
}.

Definition pic_bytes (hdr : RTPVideoHeaderVP8) : list Z :=
  if PictureIdPresent hdr then
    if pictureId hdr <=? 127 then [Z.land (u16 (pictureId hdr)) 127]
    else [Z.lor 128 (Z.land (Z.shiftr (u16 (pictureId hdr)) 8) 127); Z.land (u16 (pictureId hdr)) 255]
  else [].

Definition tl0_bytes (hdr : RTPVideoHeaderVP8) : list Z :=
  if TL0PicIdxFieldPresent hdr then [u8 (tl0PicIdx hdr)] else [].

Definition tid_bits (hdr : RTPVideoHeaderVP8) : Z :=
  if TIDFieldPresent hdr
  then Z.lor (u8 (Z.shiftl (temporalIdx hdr) 6)) (if layerSync hdr then kYBit else 0) else 0.

Definition tk_bytes (hdr : RTPVideoHeaderVP8) : list Z :=
  if TIDFieldPresent hdr || KeyIdxFieldPresent hdr
  then [Z.lor (tid_bits hdr) (if KeyIdxFieldPresent hdr then Z.land (keyIdx hdr) kKeyIdxField else 0)]
  else [].

Definition x_byte (hdr : RTPVideoHeaderVP8) : Z :=
  (if PictureIdPresent hdr then 128 else 0) + (if TL0PicIdxFieldPresent hdr then 64 else 0)
  + (if TIDFieldPresent hdr then 32 else 0) + (if KeyIdxFieldPresent hdr then 16 else 0).

Definition first_byte (hdr : RTPVideoHeaderVP8) (i : InfoStruct) : Z :=
  (if XFieldPresent hdr then 128 else 0) + (if nonReference hdr then 32 else 0)
  + (if first_fragment i then 16 else 0) + Z.land (first_partition_ix i) kPartIdField.

Definition descriptor (hdr : RTPVideoHeaderVP8) (i : InfoStruct) : list Z :=
  first_byte hdr i ::
  if XFieldPresent hdr then x_byte hdr :: pic_bytes hdr ++ tl0_bytes hdr ++ tk_bytes hdr else [].

Lemma descriptor_length hdr i :
  vp8_ok hdr -> Zlen (descriptor hdr i) = vp8_fixed_payload_descriptor_bytes_ + PayloadDescriptorExtraLength hdr.
Proof.
  intros [Hp _ _ _]. unfold descriptor, PayloadDescriptorExtraLength, PictureIdLength, pic_bytes, tl0_bytes,
    tk_bytes, XFieldPresent in *. rewrite !PictureIdPresent_eq. unfold kNoPictureId in *.
  destruct (pictureId hdr =? -1), (TL0PicIdxFieldPresent hdr), (TIDFieldPresent hdr), (KeyIdxFieldPresent hdr);
    cbn [negb orb app Z.ltb Z.compare]; try reflexivity; destruct (pictureId hdr <=? 127); reflexivity.
Qed.

(** ** Writing *)

Lemma set_bits_put {R} buffer l k x bits :
  l !! k = Some x -> Zlen l <= Zlen buffer ->
  set_bits (R := R) (put buffer 0 l) (Z.of_nat k) bits = Cont (put buffer 0 (<[k := Z.lor x bits]> l)).
Proof.
  intros Hx Hl. assert (Hk := lookup_lt_Some _ _ _ Hx). unfold set_bits.
  rewrite (rd_put buffer 0 l (Z.of_nat k) x) by (rewrite ?Z.sub_0_r, ?Nat2Z.id; done || lia || apply Zlen_nonneg).
  cbn [flow_bind]. rewrite wr_Cont by (rewrite Zlen_put by lia; unfold Zlen in *; lia).
  rewrite !put_0, Nat2Z.id, Zlen_insert. f_equal. apply insert_app_l. lia.
Qed.

Lemma set_bits_0 {R} buffer x l bits :
  1 + Zlen l <= Zlen buffer ->
  set_bits (R := R) (put buffer 0 (x :: l)) 0 bits = Cont (put buffer 0 (Z.lor x bits :: l)).
Proof. intros H. apply (set_bits_put buffer (x :: l) 0); [done|by rewrite Zlen_cons]. Qed.

Lemma set_bits_1 {R} buffer x y l bits :
  2 + Zlen l <= Zlen buffer ->
  set_bits (R := R) (put buffer 0 (x :: y :: l)) vp8_fixed_payload_descriptor_bytes_ bits
  = Cont (put buffer 0 (x :: Z.lor y bits :: l)).
Proof. intros H. apply (set_bits_put buffer (x :: y :: l) 1); [done|rewrite !Zlen_cons; lia]. Qed.

Lemma set_bits_last {R} buffer l x bits p :
  p = Zlen l -> 1 + Zlen l <= Zlen buffer ->
  set_bits (R := R) (put buffer 0 (l ++ [x])) p bits = Cont (put buffer 0 (l ++ [Z.lor x bits])).
Proof.
  intros -> H. unfold Zlen at 1.
  rewrite (set_bits_put buffer (l ++ [x]) (length l) x).
  - do 2 f_equal. rewrite insert_app_r_alt, Nat.sub_diag by lia. done.
  - rewrite lookup_app_r, Nat.sub_diag by lia. done.
  - rewrite Zlen_app. change (Zlen [x]) with 1. lia.
Qed.

Lemma wr_next_byte {R} buffer l p x :
  p = Zlen l -> 1 + Zlen l <= Zlen buffer ->
  wr (R := R) (put buffer 0 l) p x = Cont (put buffer 0 (l ++ [x])).
Proof. intros -> H. apply put_step; lia. Qed.

Lemma WritePictureIDFields_spec {R} hdr buffer L b0 x :
  vp8_ok hdr -> PictureIdPresent hdr = true -> 2 + Zlen (pic_bytes hdr) <= L <= Zlen buffer ->
  WritePictureIDFields (R := R) hdr (put buffer 0 [b0; x]) L 1
  = Cont (Some (1 + Zlen (pic_bytes hdr)), put buffer 0 (b0 :: Z.lor x 128 :: pic_bytes hdr)).
Proof.
  intros [Hp _ _ _] Hi HL. unfold WritePictureIDFields, WritePictureID, PictureIdLength.
  assert (H0 := Zlen_nonneg (pic_bytes hdr)). unfold pic_bytes in *. rewrite Hi in *.
  assert (Hne : (pictureId hdr =? kNoPictureId) = false) by (rewrite PictureIdPresent_eq in Hi; by destruct (_ =? _)).
  rewrite set_bits_1 by (rewrite Zlen_nil; lia). cbn [flow_bind]. unfold kNoPictureId in Hne. unfold kNoPictureId. rewrite Hne.
  unfold vp8_fixed_payload_descriptor_bytes_. change kIBit with 128.
  destruct (pictureId hdr <=? 127).
  - change (Zlen [_]) with 1 in *. destruct (Z.ltb_spec (L - 1 - 1) 1); [lia|]. cbn [Z.eqb Pos.eqb].
    rewrite wr_next_byte by (done || (rewrite ?Zlen_cons, ?Zlen_nil; lia)). done.
  - change (Zlen [_; _]) with 2 in *. destruct (Z.ltb_spec (L - 1 - 1) 2); [lia|]. cbn [Z.eqb Pos.eqb].
    rewrite wr_next_byte by (done || (rewrite ?Zlen_cons, ?Zlen_nil; lia)). cbn [flow_bind].
    rewrite wr_next_byte by (done || (rewrite ?Zlen_app, ?Zlen_cons, ?Zlen_nil; lia)). done.
Qed.

Lemma WriteTl0PicIdxFields_spec {R} hdr buffer L b0 x r n :
  n = 1 + Zlen r -> 2 + n <= L <= Zlen buffer ->
  WriteTl0PicIdxFields (R := R) hdr (put buffer 0 (b0 :: x :: r)) L n
  = Cont (Some (n + 1), put buffer 0 (b0 :: Z.lor x 64 :: r ++ [u8 (tl0PicIdx hdr)])).
Proof.
  intros -> HL. assert (H0 := Zlen_nonneg r). unfold WriteTl0PicIdxFields, vp8_fixed_payload_descriptor_bytes_.
  destruct (Z.ltb_spec L (1 + (1 + Zlen r) + 1)); [lia|].
  rewrite (set_bits_1 buffer b0 x r) by lia. cbn [flow_bind].
  by rewrite wr_next_byte by (rewrite !Zlen_cons; lia).
Qed.

Lemma WriteTIDAndKeyIdxFields_spec {R} hdr buffer L b0 x r n :
  n = 1 + Zlen r -> 2 + n <= L <= Zlen buffer -> TIDFieldPresent hdr || KeyIdxFieldPresent hdr = true ->
  WriteTIDAndKeyIdxFields (R := R) hdr (put buffer 0 (b0 :: x :: r)) L n
  = Cont (Some (n + 1), put buffer 0
      (b0 :: Z.lor (Z.lor x (if TIDFieldPresent hdr then 32 else 0)) (if KeyIdxFieldPresent hdr then 16 else 0)
       :: r ++ tk_bytes hdr)).
Proof.
  intros -> HL Hp. assert (H0 := Zlen_nonneg r).
  unfold WriteTIDAndKeyIdxFields, tk_bytes, tid_bits, vp8_fixed_payload_descriptor_bytes_. rewrite Hp.
  destruct (Z.ltb_spec L (1 + (1 + Zlen r) + 1)); [lia|].
  rewrite wr_next_byte by (rewrite !Zlen_cons; lia). cbn [flow_bind].
  assert (Hs1 : forall y l b, Zlen l = 1 + Zlen r ->
    set_bits (R := R) (put buffer 0 (b0 :: y :: l)) 1 b = Cont (put buffer 0 (b0 :: Z.lor y b :: l)))
    by (intros y l b Hl; apply set_bits_1; lia).
  assert (Hs2 : forall y z b, set_bits (R := R) (put buffer 0 ((b0 :: y :: r) ++ [z])) (1 + (1 + Zlen r)) b
    = Cont (put buffer 0 ((b0 :: y :: r) ++ [Z.lor z b])))
    by (intros y z b; apply set_bits_last; rewrite ?Zlen_cons; lia).
  assert (Hr : forall z, Zlen (r ++ [z]) = 1 + Zlen r)
    by (intros z; rewrite Zlen_app; change (Zlen [z]) with 1; lia).
  cbn [app] in *. change kTBit with 32. change kKBit with 16.
  destruct (TIDFieldPresent hdr).
  - rewrite Hs1 by apply Hr. cbn [flow_bind]. rewrite Hs2. cbn [flow_bind]. rewrite Hs2. cbn [flow_bind].
    destruct (KeyIdxFieldPresent hdr).
    + rewrite Hs1 by apply Hr. cbn [flow_bind]. rewrite Hs2. done.
    + by rewrite !Z.lor_0_r.
  - destruct (KeyIdxFieldPresent hdr); [|done]. cbn [flow_bind].
    rewrite Hs1 by apply Hr. cbn [flow_bind]. rewrite Hs2. cbn [flow_bind]. by rewrite Z.lor_0_r.
Qed.

Lemma x_byte_lor (i l t k : bool) :
  Z.lor (Z.lor (Z.lor (Z.lor 0 (if i then 128 else 0)) (if l then 64 else 0)) (if t then 32 else 0))
    (if k then 16 else 0)
  = (if i then 128 else 0) + (if l then 64 else 0) + (if t then 32 else 0) + (if k then 16 else 0).
Proof. by destruct i, l, t, k. Qed.

Lemma WriteExtensionFields_spec {R} hdr buffer L b0 :
  vp8_ok hdr -> 1 + PayloadDescriptorExtraLength hdr <= L <= Zlen buffer ->
  WriteExtensionFields (R := R) hdr (put buffer 0 [b0]) L
  = Cont (Some (PayloadDescriptorExtraLength hdr), put buffer 0 (b0 ::
      if XFieldPresent hdr then x_byte hdr :: pic_bytes hdr ++ tl0_bytes hdr ++ tk_bytes hdr else [])).
Proof.
  intros Hok HL. assert (Hd := descriptor_length hdr (mkInfoStruct 0 0 false 0) Hok).
  unfold descriptor in Hd. rewrite Zlen_cons in Hd. unfold vp8_fixed_payload_descriptor_bytes_ in Hd.
  unfold WriteExtensionFields. destruct (XFieldPresent hdr) eqn:HX.
  2: { rewrite Zlen_nil in Hd. by replace (PayloadDescriptorExtraLength hdr) with 0 by lia. }
  rewrite Zlen_cons, !Zlen_app in Hd.
  assert (H1 := Zlen_nonneg (pic_bytes hdr)). assert (H2 := Zlen_nonneg (tl0_bytes hdr)).
  assert (H3 := Zlen_nonneg (tk_bytes hdr)).
  rewrite wr_next_byte by (done || (rewrite ?Zlen_cons, ?Zlen_nil; lia)). cbn [flow_bind app].
  replace (if PictureIdPresent hdr then _ else _) with (Cont (R := R) (Some (1 + Zlen (pic_bytes hdr)),
    put buffer 0 (b0 :: Z.lor 0 (if PictureIdPresent hdr then 128 else 0) :: pic_bytes hdr))).
  2: { destruct (PictureIdPresent hdr) eqn:E; [by rewrite WritePictureIDFields_spec by (done || lia)|].
       unfold pic_bytes. by rewrite E. }
  cbn [flow_bind].
  replace (if TL0PicIdxFieldPresent hdr then _ else _)
    with (Cont (R := R) (Some (1 + Zlen (pic_bytes hdr) + Zlen (tl0_bytes hdr)),
    put buffer 0 (b0 :: Z.lor (Z.lor 0 (if PictureIdPresent hdr then 128 else 0))
      (if TL0PicIdxFieldPresent hdr then 64 else 0) :: pic_bytes hdr ++ tl0_bytes hdr))).
  2: { unfold tl0_bytes in *. destruct (TL0PicIdxFieldPresent hdr).
       - change (Zlen [_]) with 1 in *. by rewrite WriteTl0PicIdxFields_spec by (done || lia).
       - rewrite app_nil_r, Z.lor_0_r, Zlen_nil. by rewrite Z.add_0_r. }
  cbn [flow_bind]. unfold x_byte. rewrite <- x_byte_lor.
  destruct (TIDFieldPresent hdr || KeyIdxFieldPresent hdr) eqn:E.
  - assert (Ht : Zlen (tk_bytes hdr) = 1) by (unfold tk_bytes; by rewrite E).
    rewrite WriteTIDAndKeyIdxFields_spec by (done || (rewrite ?Zlen_app; lia)).
    rewrite <- app_assoc. do 3 f_equal. lia.
  - assert (Ht : tk_bytes hdr = []) by (unfold tk_bytes; by rewrite E). rewrite Ht, Zlen_nil in Hd.
    apply orb_false_iff in E as [-> ->]. rewrite Ht, !Z.lor_0_r, app_nil_r. do 3 f_equal. lia.
Qed.

Lemma first_byte_lor4 (x n s : bool) ix : 0 <= ix ->
  Z.lor (Z.lor (Z.lor (Z.lor 0 (if x then 128 else 0)) (if n then 32 else 0)) (if s then 16 else 0))
    (Z.land ix 15)
  = (if x then 128 else 0) + (if n then 32 else 0) + (if s then 16 else 0) + Z.land ix 15.
Proof.
  intros H. assert (H15 := land_15 ix).
  assert (E := seqZ_check (fun k => Z.lor (Z.lor (Z.lor (Z.lor 0 (if x then 128 else 0)) (if n then 32 else 0)) (if s then 16 else 0)) k
    =? (if x then 128 else 0) + (if n then 32 else 0) + (if s then 16 else 0) + k) 16 (Z.land ix 15)
    ltac:(destruct x, n, s; vm_compute; reflexivity) H15). cbn beta in E. lia.
Qed.

Lemma WriteHeaderAndPayload_spec {R} hdr payload i buffer L :
  vp8_ok hdr -> 0 <= payload_start_pos i -> 0 <= info_size i ->
  payload_start_pos i + info_size i <= Zlen payload -> 0 <= first_partition_ix i ->
  1 + PayloadDescriptorExtraLength hdr + info_size i <= L <= Zlen buffer ->
  WriteHeaderAndPayload (R := R) hdr payload i buffer L
  = let bs := descriptor hdr i ++ ztake (info_size i) (zdrop (payload_start_pos i) payload) in
    Cont (Zlen bs, put buffer 0 bs).
Proof.
  intros Hok Hs Hz Hp Hx HL. assert (Hd := descriptor_length hdr i Hok). unfold vp8_fixed_payload_descriptor_bytes_ in Hd.
  assert (He : 0 <= PayloadDescriptorExtraLength hdr)
    by (unfold descriptor in Hd; rewrite Zlen_cons in Hd; match goal with H : 1 + Zlen ?l = _ |- _ => assert (K := Zlen_nonneg l) end; lia).
  unfold WriteHeaderAndPayload. rewrite put_one by lia. cbn [flow_bind].
  assert (Hb : forall (b : bool) x k, (if b then set_bits (R := R) (put buffer 0 [x]) 0 k else Cont (put buffer 0 [x]))
    = Cont (put buffer 0 [Z.lor x (if b then k else 0)])).
  { intros b x k. destruct b; [by rewrite set_bits_0 by (rewrite Zlen_nil; lia)|by rewrite Z.lor_0_r]. }
  rewrite !Hb. cbn [flow_bind]. rewrite Hb. cbn [flow_bind]. rewrite Hb. cbn [flow_bind].
  rewrite set_bits_0 by (rewrite Zlen_nil; lia). cbn [flow_bind].
  rewrite first_byte_lor4 by done. rewrite WriteExtensionFields_spec by (done || lia). cbn [flow_bind].
  rewrite blk_get_Cont by lia. cbn [flow_bind].
  assert (Hsz : Zlen (ztake (info_size i) (zdrop (payload_start_pos i) payload)) = info_size i)
    by (apply Zlen_ztake; rewrite Zlen_zdrop; lia).
  change (put buffer 0 (_ :: if XFieldPresent hdr then _ else [])) with (put buffer 0 (descriptor hdr i)).
  rewrite blk_put_step by (unfold vp8_fixed_payload_descriptor_bytes_; rewrite ?Hsz; lia).
  cbn [flow_bind]. cbn zeta. rewrite Zlen_app, Hd, Hsz. unfold vp8_fixed_payload_descriptor_bytes_. do 2 f_equal. lia.
Qed.

(** ** Parsing back *)

Lemma pic_back id : 127 < id < 32768 ->
  let b := Z.lor 128 (Z.land (Z.shiftr (u16 id) 8) 127) in
  flag b 128 = true /\ Z.shiftl (Z.land b 127) 8 + Z.land (u16 id) 255 = id.
Proof.
  intros Hid. cbn zeta. rewrite u16_id by (unfold is_u16; lia).
  assert (H := seqZ_check (fun h => let b := Z.lor 128 (Z.land h 127) in
    flag b 128 && (Z.land b 127 =? h)) 128 (Z.shiftr id 8) ltac:(vm_compute; reflexivity)).
  cbn beta zeta in H. rewrite Z.shiftr_div_pow2 in * by lia.
  assert (Hr : 0 <= id / 2 ^ 8 < 128) by (change (2 ^ 8) with 256; zdm).
  specialize (H Hr). apply andb_true_iff in H as [H1 H2]. split; [done|].
  replace (Z.land (Z.lor 128 (Z.land (id / 2 ^ 8) 127)) 127) with (id / 2 ^ 8) by lia.
  change 255 with (Z.ones 8). rewrite Z.land_ones, Z.shiftl_mul_pow2 by lia. change (2 ^ 8) with 256. zdm.
Qed.

Lemma pic_back_short id : 0 <= id <= 127 ->
  flag (Z.land (u16 id) 127) 128 = false /\ Z.land (Z.land (u16 id) 127) 127 = id.
Proof.
  intros H. assert (E := seqZ_check (fun id => negb (flag (Z.land (u16 id) 127) 128)
    && (Z.land (Z.land (u16 id) 127) 127 =? id)) 128 id ltac:(vm_compute; reflexivity) ltac:(lia)).
  cbn beta in E. rewrite andb_true_iff, negb_true_iff in E. destruct E. split; [done|lia].
Qed.

Lemma ParseVP8PictureID_back {R} hdr pre rest v k :
  vp8_ok hdr -> PictureIdPresent hdr = true ->
  ParseVP8PictureID (R := R) (pre ++ pic_bytes hdr ++ rest) v (Zlen pre, Zlen (pic_bytes hdr) + Zlen rest, k)
  = Cont (0, set_fields v (pictureId hdr) (payload_tl0PicIdx v) (tID v) (payload_layerSync v) (payload_keyIdx v),
          (Zlen pre + Zlen (pic_bytes hdr), Zlen rest, k + Zlen (pic_bytes hdr))).
Proof.
  intros [Hp _ _ _] Hi. assert (H0 := Zlen_nonneg rest). unfold pic_bytes, ParseVP8PictureID. rewrite Hi.
  rewrite PictureIdPresent_eq in Hi. destruct (Z.eqb_spec (pictureId hdr) kNoPictureId); [done|].
  destruct (Z.leb_spec (pictureId hdr) 127).
  - change (Zlen [_]) with 1. destruct (Z.leb_spec (1 + Zlen rest) 0); [lia|].
    cbn [app]. rewrite rd_app by done. cbn [flow_bind]. destruct (pic_back_short (pictureId hdr)) as [-> ->]; [lia|].
    by replace (1 + Zlen rest - 1) with (Zlen rest) by lia.
  - change (Zlen [_; _]) with 2. destruct (Z.leb_spec (2 + Zlen rest) 0); [lia|].
    cbn [app]. rewrite rd_app by done. cbn [flow_bind]. destruct (pic_back (pictureId hdr)) as [E1 E2]; [lia|].
    rewrite E1. destruct (Z.leb_spec (2 + Zlen rest - 1) 0); [lia|].
    match goal with |- context [rd (pre ++ ?a :: ?b :: rest) _] =>
      change (pre ++ a :: b :: rest) with (pre ++ [a] ++ b :: rest); rewrite (app_assoc pre [a]) end.
    rewrite rd_app by (rewrite Zlen_app; done). cbn [flow_bind]. unfold set_fields at 1.
    rewrite E2. unfold set_fields. cbn -[Z.add Z.sub]. replace (2 + Zlen rest - 1 - 1) with (Zlen rest) by lia.
    replace (Zlen pre + 1 + 1) with (Zlen pre + 2) by lia. by replace (k + 1 + 1) with (k + 2) by lia.
Qed.

Lemma ParseVP8Tl0PicIdx_back {R} hdr pre rest v k :
  vp8_ok hdr -> TL0PicIdxFieldPresent hdr = true ->
  ParseVP8Tl0PicIdx (R := R) (pre ++ tl0_bytes hdr ++ rest) v (Zlen pre, Zlen (tl0_bytes hdr) + Zlen rest, k)
  = Cont (0, set_fields v (pictureID v) (tl0PicIdx hdr) (tID v) (payload_layerSync v) (payload_keyIdx v),
          (Zlen pre + Zlen (tl0_bytes hdr), Zlen rest, k + Zlen (tl0_bytes hdr))).
Proof.
  intros [_ Ht _ _] Hi. assert (H0 := Zlen_nonneg rest). unfold tl0_bytes, ParseVP8Tl0PicIdx. rewrite Hi.
  unfold TL0PicIdxFieldPresent in Hi. destruct (Z.eqb_spec (tl0PicIdx hdr) kNoTl0PicIdx); [done|].
  change (Zlen [_]) with 1. destruct (Z.leb_spec (1 + Zlen rest) 0); [lia|].
  cbn [app]. rewrite rd_app by done. cbn [flow_bind]. rewrite u8_id by (unfold is_u8; lia).
  by replace (1 + Zlen rest - 1) with (Zlen rest) by lia.
Qed.

Lemma tk_back t (s : bool) key : 0 <= t < 4 -> 0 <= key < 32 ->
  let b := Z.lor (Z.lor (u8 (Z.shiftl t 6)) (if s then kYBit else 0)) (Z.land key kKeyIdxField) in
  Z.land (Z.shiftr b 6) 3 = t /\ flag b 32 = s /\ Z.land b 31 = key.
Proof.
  intros Ht Hk. assert (E := seqZ_check (fun n => let t := n / 32 in let key := n mod 32 in
    let b := Z.lor (Z.lor (u8 (Z.shiftl t 6)) (if s then kYBit else 0)) (Z.land key kKeyIdxField) in
    (Z.land (Z.shiftr b 6) 3 =? t) && eqb (flag b 32) s && (Z.land b 31 =? key)) 128 (t * 32 + key)
    ltac:(destruct s; vm_compute; reflexivity) ltac:(lia)).
  cbn beta zeta in E. replace ((t * 32 + key) / 32) with t in E by zdm.
  replace ((t * 32 + key) mod 32) with key in E by zdm.
  rewrite !andb_true_iff, eqb_true_iff in E. destruct E as [[? ?] ?]. split_and!; done || lia.
Qed.

Lemma ParseVP8TIDAndKeyIdx_back {R} hdr pre rest v k :
  vp8_ok hdr -> TIDFieldPresent hdr || KeyIdxFieldPresent hdr = true ->
  hasTID v = TIDFieldPresent hdr -> hasKeyIdx v = KeyIdxFieldPresent hdr ->
  ParseVP8TIDAndKeyIdx (R := R) (pre ++ tk_bytes hdr ++ rest) v (Zlen pre, Zlen (tk_bytes hdr) + Zlen rest, k)
  = Cont (0, set_fields v (pictureID v) (payload_tl0PicIdx v)
            (if TIDFieldPresent hdr then temporalIdx hdr else tID v)
            (if TIDFieldPresent hdr then layerSync hdr else payload_layerSync v)
            (if KeyIdxFieldPresent hdr then keyIdx hdr else payload_keyIdx v),
          (Zlen pre + Zlen (tk_bytes hdr), Zlen rest, k + Zlen (tk_bytes hdr))).
Proof.
  intros [_ _ Ht Hk] Hi Hht Hhk. assert (H0 := Zlen_nonneg rest).
  unfold tk_bytes, tid_bits, ParseVP8TIDAndKeyIdx. rewrite Hi.
  change (Zlen [_]) with 1. destruct (Z.leb_spec (1 + Zlen rest) 0); [lia|].
  cbn [app]. rewrite rd_app by done. cbn [flow_bind]. rewrite Hht.
  unfold TIDFieldPresent, KeyIdxFieldPresent in *.
  destruct (Z.eqb_spec (temporalIdx hdr) kNoTemporalIdx), (Z.eqb_spec (keyIdx hdr) kNoKeyIdx); cbn [negb] in *;
    try done.
  - destruct (tk_back 0 false (keyIdx hdr)) as (_ & _ & E); [lia|lia|]. change (Z.lor (u8 (Z.shiftl 0 6)) 0) with 0 in E.
    rewrite Hhk, E. by replace (1 + Zlen rest - 1) with (Zlen rest) by lia.
  - destruct (tk_back (temporalIdx hdr) (layerSync hdr) 0) as (E1 & E2 & _); [lia|lia|].
    change (Z.land 0 kKeyIdxField) with 0 in *. rewrite E1, E2.
    unfold set_fields. cbn [hasKeyIdx]. rewrite Hhk. by replace (1 + Zlen rest - 1) with (Zlen rest) by lia.
  - destruct (tk_back (temporalIdx hdr) (layerSync hdr) (keyIdx hdr)) as (E1 & E2 & E3); [lia|lia|].
    rewrite E1, E2, E3. unfold set_fields. cbn [hasKeyIdx]. rewrite Hhk. cbn. by replace (1 + Zlen rest - 1) with (Zlen rest) by lia.
Qed.

Lemma x_byte_back hdr :
  flag (x_byte hdr) 128 = PictureIdPresent hdr /\ flag (x_byte hdr) 64 = TL0PicIdxFieldPresent hdr /\
  flag (x_byte hdr) 32 = TIDFieldPresent hdr /\ flag (x_byte hdr) 16 = KeyIdxFieldPresent hdr.
Proof.
  unfold x_byte. by destruct (PictureIdPresent hdr), (TL0PicIdxFieldPresent hdr), (TIDFieldPresent hdr),
    (KeyIdxFieldPresent hdr).
Qed.

Lemma vp8_first_byte_back hdr i :
  0 <= first_partition_ix i < 16 ->
  flag (first_byte hdr i) 128 = XFieldPresent hdr /\ flag (first_byte hdr i) 32 = nonReference hdr /\
  flag (first_byte hdr i) 16 = first_fragment i /\ Z.land (first_byte hdr i) 15 = first_partition_ix i.
Proof.
  intros Hx. unfold first_byte. change kPartIdField with (Z.ones 4). rewrite Z.land_ones by lia.
  rewrite Z.mod_small by (change (2 ^ 4) with 16; lia).
  assert (E := seqZ_check (fun ix => let b := (if XFieldPresent hdr then 128 else 0) + (if nonReference hdr then 32 else 0)
    + (if first_fragment i then 16 else 0) + ix in
    eqb (flag b 128) (XFieldPresent hdr) && eqb (flag b 32) (nonReference hdr) && eqb (flag b 16) (first_fragment i)
    && (Z.land b 15 =? ix)) 16 (first_partition_ix i)
    ltac:(destruct (XFieldPresent hdr), (nonReference hdr), (first_fragment i); vm_compute; reflexivity) Hx).
  cbn beta zeta in E. rewrite !andb_true_iff, !eqb_true_iff in E. destruct E as [[[? ?] ?] ?]. split_and!; done || lia.
Qed.

Lemma set_fields_id v :
  set_fields v (pictureID v) (payload_tl0PicIdx v) (tID v) (payload_layerSync v) (payload_keyIdx v) = v.
Proof. by destruct v. Qed.

(** The three optional fields, present or not. *)
Lemma pic_opt {R} hdr pre rest v p len k :
  vp8_ok hdr -> p = Zlen pre -> len = Zlen (pic_bytes hdr) + Zlen rest -> hasPictureID v = PictureIdPresent hdr ->
  (if hasPictureID v then ParseVP8PictureID (R := R) (pre ++ pic_bytes hdr ++ rest) v (p, len, k)
   else Cont (0, v, (p, len, k)))
  = Cont (0, set_fields v (if PictureIdPresent hdr then pictureId hdr else pictureID v)
            (payload_tl0PicIdx v) (tID v) (payload_layerSync v) (payload_keyIdx v),
          (p + Zlen (pic_bytes hdr), Zlen rest, k + Zlen (pic_bytes hdr))).
Proof.
  intros Hok -> -> ->. destruct (PictureIdPresent hdr) eqn:E; [by apply ParseVP8PictureID_back|].
  unfold pic_bytes. rewrite E, set_fields_id, (@Zlen_nil Z). by rewrite !Z.add_0_r.
Qed.

Lemma tl0_opt {R} hdr pre rest v p len k :
  vp8_ok hdr -> p = Zlen pre -> len = Zlen (tl0_bytes hdr) + Zlen rest -> hasTl0PicIdx v = TL0PicIdxFieldPresent hdr ->
  (if hasTl0PicIdx v then ParseVP8Tl0PicIdx (R := R) (pre ++ tl0_bytes hdr ++ rest) v (p, len, k)
   else Cont (0, v, (p, len, k)))
  = Cont (0, set_fields v (pictureID v)
            (if TL0PicIdxFieldPresent hdr then tl0PicIdx hdr else payload_tl0PicIdx v)
            (tID v) (payload_layerSync v) (payload_keyIdx v),
          (p + Zlen (tl0_bytes hdr), Zlen rest, k + Zlen (tl0_bytes hdr))).
Proof.
  intros Hok -> -> ->. destruct (TL0PicIdxFieldPresent hdr) eqn:E; [by apply ParseVP8Tl0PicIdx_back|].
  unfold tl0_bytes. rewrite E, set_fields_id, (@Zlen_nil Z). by rewrite !Z.add_0_r.
Qed.

Lemma tk_opt {R} hdr pre rest v p len k :
  vp8_ok hdr -> p = Zlen pre -> len = Zlen (tk_bytes hdr) + Zlen rest ->
  hasTID v = TIDFieldPresent hdr -> hasKeyIdx v = KeyIdxFieldPresent hdr ->
  (if hasTID v || hasKeyIdx v then ParseVP8TIDAndKeyIdx (R := R) (pre ++ tk_bytes hdr ++ rest) v (p, len, k)
   else Cont (0, v, (p, len, k)))
  = Cont (0, set_fields v (pictureID v) (payload_tl0PicIdx v)
            (if TIDFieldPresent hdr then temporalIdx hdr else tID v)
            (if TIDFieldPresent hdr then layerSync hdr else payload_layerSync v)
            (if KeyIdxFieldPresent hdr then keyIdx hdr else payload_keyIdx v),
          (p + Zlen (tk_bytes hdr), Zlen rest, k + Zlen (tk_bytes hdr))).
Proof.
  intros Hok -> -> Ht Hk.
  destruct (hasTID v || hasKeyIdx v) eqn:E; rewrite Ht, Hk in E; [by apply ParseVP8TIDAndKeyIdx_back|].
  unfold tk_bytes. rewrite E. apply orb_false_iff in E as [-> ->]. rewrite set_fields_id, (@Zlen_nil Z). by rewrite !Z.add_0_r.
Qed.

(** The fields after a parsed extension. *)
Definition ext_fields (hdr : RTPVideoHeaderVP8) (v : RTPPayloadVP8) : RTPPayloadVP8 :=
  set_fields (set_x_byte v (x_byte hdr))
    (if PictureIdPresent hdr then pictureId hdr else pictureID v)
    (if TL0PicIdxFieldPresent hdr then tl0PicIdx hdr else payload_tl0PicIdx v)
    (if TIDFieldPresent hdr then temporalIdx hdr else tID v)
    (if TIDFieldPresent hdr then layerSync hdr else payload_layerSync v)
    (if KeyIdxFieldPresent hdr then keyIdx hdr else payload_keyIdx v).

Lemma ParseVP8Extension_back {R} hdr b0 rest v n :
  vp8_ok hdr ->
  let ext := x_byte hdr :: pic_bytes hdr ++ tl0_bytes hdr ++ tk_bytes hdr in
  n = Zlen ext + Zlen rest ->
  ParseVP8Extension (R := R) (b0 :: ext ++ rest) v 1 n = Cont (Zlen ext, ext_fields hdr v).
Proof.
  intros Hok ext ->. subst ext. rewrite Zlen_cons, !Zlen_app. assert (H0 := Zlen_nonneg rest).
  assert (H1 := Zlen_nonneg (pic_bytes hdr)). assert (H2 := Zlen_nonneg (tl0_bytes hdr)).
  assert (H3 := Zlen_nonneg (tk_bytes hdr)). unfold ParseVP8Extension.
  destruct (Z.leb_spec (1 + (Zlen (pic_bytes hdr) + (Zlen (tl0_bytes hdr) + Zlen (tk_bytes hdr))) + Zlen rest) 0); [lia|].
  change (rd (R := R) (b0 :: (x_byte hdr :: pic_bytes hdr ++ tl0_bytes hdr ++ tk_bytes hdr) ++ rest) 1)
    with (Cont (R := R) (x_byte hdr)). cbn [flow_bind].
  destruct (x_byte_back hdr) as (E1 & E2 & E3 & E4).
  assert (Ep : b0 :: (x_byte hdr :: pic_bytes hdr ++ tl0_bytes hdr ++ tk_bytes hdr) ++ rest
    = [b0; x_byte hdr] ++ pic_bytes hdr ++ tl0_bytes hdr ++ tk_bytes hdr ++ rest)
    by (cbn [app]; by rewrite <- !app_assoc).
  rewrite Ep.
  rewrite pic_opt by (done || (rewrite ?Zlen_app; reflexivity || lia)). cbn [flow_bind Z.eqb negb].
  rewrite (app_assoc [_; _]).
  rewrite tl0_opt by (done || (rewrite ?Zlen_app; change (Zlen [b0; x_byte hdr]) with 2; lia)). cbn [flow_bind Z.eqb negb].
  rewrite (app_assoc ([_; _] ++ _)).
  rewrite tk_opt by (done || (rewrite ?Zlen_app; change (Zlen [b0; x_byte hdr]) with 2; lia)). cbn [flow_bind Z.eqb negb snd].
  unfold ext_fields, set_fields. cbn -[Z.add Zlen x_byte]. do 2 f_equal. lia.
Qed.

(** ** What the receiver gets *)

Definition is_key_packet (i : InfoStruct) (slice : list Z) : bool :=
  first_fragment i && (first_partition_ix i =? 0) && negb (flag (slice !!! 0%nat) 1).

Lemma land_14_u16 x : u16 (Z.land x 16383) = Z.land x 16383.
Proof.
  change 16383 with (Z.ones 14). rewrite Z.land_ones by lia.
  assert (H := Z.mod_pos_bound x (2 ^ 14) ltac:(lia)). change (2 ^ 14) with 16384 in *.
  apply u16_id. unfold is_u16. lia.
Qed.

(** The receiver's header from the parsed fields. *)
Definition header_of (from : RTPPayloadVP8) : RTPVideoHeaderVP8 :=
  mkRTPVideoHeaderVP8 (nonReferenceFrame from)
    (if hasPictureID from then s16 (pictureID from) else kNoPictureId)
    (if hasTl0PicIdx from then s16 (payload_tl0PicIdx from) else kNoTl0PicIdx)
    (if hasTID from then u8 (tID from) else kNoTemporalIdx)
    (if hasTID from then payload_layerSync from else false)
    (if hasKeyIdx from then payload_keyIdx from else kNoKeyIdx)
    (partitionID from) (payload_beginningOfPartition from).

(** What is parsed from a descriptor. *)
Definition parsed_fields (hdr : RTPVideoHeaderVP8) (i : InfoStruct) (v : RTPPayloadVP8) : RTPPayloadVP8 :=
  let v := set_first_byte v (first_byte hdr i) in
  if XFieldPresent hdr then ext_fields hdr v else v.

Lemma header_of_parsed hdr i v w h p n :
  vp8_ok hdr -> 0 <= first_partition_ix i < 16 ->
  header_of (set_frame (parsed_fields hdr i (SetType kRtpVideoVp8 v)) w h p n)
  = mkRTPVideoHeaderVP8 (nonReference hdr) (pictureId hdr) (tl0PicIdx hdr) (temporalIdx hdr)
       (layerSync hdr) (keyIdx hdr) (first_partition_ix i) (first_fragment i).
Proof.
  intros [O1 O2 O3 O4] Hx. destruct (vp8_first_byte_back hdr i Hx) as (_ & F2 & F3 & F4).
  destruct (x_byte_back hdr) as (E1 & E2 & E3 & E4).
  assert (A : header_of (set_frame (parsed_fields hdr i (SetType kRtpVideoVp8 v)) w h p n)
    = mkRTPVideoHeaderVP8 (nonReference hdr)
        (if PictureIdPresent hdr then s16 (pictureId hdr) else kNoPictureId)
        (if TL0PicIdxFieldPresent hdr then s16 (tl0PicIdx hdr) else kNoTl0PicIdx)
        (if TIDFieldPresent hdr then u8 (temporalIdx hdr) else kNoTemporalIdx)
        (if TIDFieldPresent hdr then layerSync hdr else false)
        (if KeyIdxFieldPresent hdr then keyIdx hdr else kNoKeyIdx) (first_partition_ix i) (first_fragment i)).
  { unfold parsed_fields. destruct (XFieldPresent hdr) eqn:HX; unfold header_of; cbn -[x_byte first_byte flag s16 u8 Z.land].
    - rewrite E1, E2, E3, E4, F2, F3, F4. f_equal; by repeat case_match.
    - rewrite F2, F3, F4. unfold XFieldPresent in HX. rewrite !orb_false_iff in HX.
      destruct HX as [[[-> ->] ->] ->]. done. }
  rewrite A, PictureIdPresent_eq. unfold TL0PicIdxFieldPresent, TIDFieldPresent, KeyIdxFieldPresent.
  unfold kNoPictureId, kNoTl0PicIdx, kNoTemporalIdx, kNoKeyIdx in *.
  f_equal.
  - destruct (Z.eqb_spec (pictureId hdr) (-1)); [done|]. apply s16_id. unfold is_s16. lia.
  - destruct (Z.eqb_spec (tl0PicIdx hdr) (-1)); [done|]. apply s16_id. unfold is_s16. lia.
  - destruct (Z.eqb_spec (temporalIdx hdr) 255); [done|]. apply u8_id. unfold is_u8. lia.
  - destruct (Z.eqb_spec (temporalIdx hdr) 255) as [E|]; [|done]. cbn [negb]. destruct O3 as [[_ ->]|?]; [done|lia].
  - by destruct (Z.eqb_spec (keyIdx hdr) (-1)).
Qed.

Definition width_of (i : InfoStruct) (slice : list Z) : Z :=
  if is_key_packet i slice then Z.land (Z.shiftl (slice !!! 7%nat) 8 + slice !!! 6%nat) 16383 else 0.

Definition height_of (i : InfoStruct) (slice : list Z) : Z :=
  if is_key_packet i slice then Z.land (Z.shiftl (slice !!! 9%nat) 8 + slice !!! 8%nat) 16383 else 0.

Definition delivery (hdr : RTPVideoHeaderVP8) (i : InfoStruct) (slice : list Z) : Delivered :=
  mkDelivered (if is_key_packet i slice then kIFrame else kPFrame) (first_fragment i && (first_partition_ix i =? 0))
    (mkRTPVideoHeaderVP8 (nonReference hdr) (pictureId hdr) (tl0PicIdx hdr) (temporalIdx hdr)
       (layerSync hdr) (keyIdx hdr) (first_partition_ix i) (first_fragment i))
    (width_of i slice) (height_of i slice) slice.

(** The last part of the parser, from the payload on. *)
Lemma frame_written {R} (l : list Z) i slice v p :
  p = Zlen l -> 0 < Zlen slice -> partitionID v = first_partition_ix i ->
  payload_beginningOfPartition v = first_fragment i -> frameWidth v = 0 -> frameHeight v = 0 ->
  (let! frame :=
     if payload_beginningOfPartition v && (partitionID v =? 0) then
       let! b := rd (l ++ slice) p in Cont (if flag b 1 then kPFrame else kIFrame)
     else Cont kPFrame in
   ParseVP8FrameSize (R := R) (l ++ slice) (mkRTPPayload frame v) p (Zlen slice))
  = Cont (if is_key_packet i slice && (Zlen slice <? 10) then (-1, mkRTPPayload kIFrame v)
          else (0, mkRTPPayload (if is_key_packet i slice then kIFrame else kPFrame)
                 (set_frame v (width_of i slice) (height_of i slice) (data v) (dataLength v)))).
Proof.
  intros -> Hs Hp Hb Hw Hh. unfold width_of, height_of, is_key_packet, ParseVP8FrameSize. rewrite Hp, Hb.
  assert (Hrd : forall k, 0 <= k < Zlen slice -> rd (R := R) (l ++ slice) (Zlen l + k) = Cont (slice !!! Z.to_nat k))
    by (intros k Hk; rewrite rd_app_at by lia; by rewrite rd_total by lia).
  assert (Hsf : set_frame v 0 0 (data v) (dataLength v) = v)
    by (unfold set_frame; rewrite <- Hw at 1; rewrite <- Hh at 1; by destruct v).
  destruct (first_fragment i && (first_partition_ix i =? 0)); cbn [flow_bind andb frameType].
  2: { rewrite decide_False by done. cbn [negb]. by rewrite Hsf. }
  rewrite <- (Z.add_0_r (Zlen l)) at 1. rewrite Hrd by lia. cbn [flow_bind]. change (Z.to_nat 0) with 0%nat.
  destruct (flag (slice !!! 0%nat) 1); cbn [negb andb].
  - rewrite decide_False by done. cbn [negb]. by rewrite Hsf.
  - rewrite decide_True by done. cbn [negb]. destruct (Z.ltb_spec (Zlen slice) 10); [done|].
    rewrite !Hrd by lia. done.
Qed.

Lemma ParseVP8_written {R} hdr i slice frame v0 :
  vp8_ok hdr -> 0 <= first_partition_ix i <= 8 -> 0 < Zlen slice -> Zlen slice < 65536 ->
  let v := SetType kRtpVideoVp8 v0 in
  let parsed := parsed_fields hdr i v in
  ParseVP8 (R := R) (descriptor hdr i ++ slice) (mkRTPPayload frame v)
  = Cont (if is_key_packet i slice && (Zlen slice <? 10) then (false, mkRTPPayload kIFrame parsed)
          else (true, mkRTPPayload (if is_key_packet i slice then kIFrame else kPFrame)
                 (set_frame parsed (width_of i slice) (height_of i slice)
                    (Zlen (descriptor hdr i)) (Zlen slice)))).
Proof.
  intros Hok Hx Hs H64 v parsed. unfold ParseVP8. cbn [info frameType]. rewrite Zlen_app.
  set (ext := if XFieldPresent hdr then x_byte hdr :: pic_bytes hdr ++ tl0_bytes hdr ++ tk_bytes hdr else []).
  assert (Ed : descriptor hdr i = first_byte hdr i :: ext) by done.
  assert (Hel : Zlen (descriptor hdr i) = 1 + Zlen ext) by (by rewrite Ed, Zlen_cons).
  assert (He0 := Zlen_nonneg ext). rewrite Hel.
  assert (R0 : rd (R := R) (descriptor hdr i ++ slice) 0 = Cont (first_byte hdr i)) by done.
  rewrite R0. cbn [flow_bind].
  destruct (vp8_first_byte_back hdr i) as (F1 & F2 & F3 & F4); [lia|].
  set (v1 := set_first_byte v (first_byte hdr i)).
  assert (Hp : partitionID v1 = first_partition_ix i) by done.
  rewrite Hp. destruct (Z.ltb_spec 8 (first_partition_ix i)); [lia|]. rewrite F1.
  match goal with |- flow_bind ?m _ = _ => replace m with (Cont (R := R) (Zlen ext, parsed)) end.
  2: { subst parsed. unfold parsed_fields. fold v1. rewrite Ed. unfold ext in *. destruct (XFieldPresent hdr); [|done].
       rewrite <- app_comm_cons. rewrite ParseVP8Extension_back by (done || lia). done. }
  cbn [flow_bind]. destruct (Z.ltb_spec (Zlen ext) 0); [lia|].
  replace (1 + Zlen ext + Zlen slice - 1 - Zlen ext) with (Zlen slice) by lia.
  destruct (Z.leb_spec (Zlen slice) 0); [lia|].
  assert (Hf : partitionID parsed = first_partition_ix i /\ payload_beginningOfPartition parsed = first_fragment i
    /\ frameWidth parsed = 0 /\ frameHeight parsed = 0)
    by (subst parsed; unfold parsed_fields; fold v1; by destruct (XFieldPresent hdr)).
  destruct Hf as (P1 & P2 & P3 & P4).
  assert (K := frame_written (R := R) (descriptor hdr i) i slice parsed (1 + Zlen ext) ltac:(lia) Hs P1 P2 P3 P4).
  rewrite <- flow_bind_assoc, K. cbn [flow_bind].
  destruct (is_key_packet i slice && (Zlen slice <? 10)); [done|]. cbn [Z.eqb negb].
  by rewrite (u16_id (Zlen slice)) by (unfold is_u16; lia).
Qed.

Lemma frame_sizes_u16 i slice : u16 (width_of i slice) = width_of i slice /\ u16 (height_of i slice) = height_of i slice.
Proof. unfold width_of, height_of. destruct (is_key_packet i slice); split; done || apply land_14_u16. Qed.

(** The parser, the conversion and the callback on a written packet. *)
Lemma ReceiveVp8Codec_written {R} hdr i slice fresh callback :
  vp8_ok hdr -> 0 <= first_partition_ix i <= 8 -> 0 < Zlen slice < 65536 ->
  ReceiveVp8Codec (R := R) (descriptor hdr i ++ slice) fresh callback
  = Cont (if is_key_packet i slice && (Zlen slice <? 10) then (-1, None)
          else let d := delivery hdr i slice in (if negb (callback d =? 0) then -1 else 0, Some d)).
Proof.
  intros Hok Hx Hs. unfold ReceiveVp8Codec, RTPPayloadParser_Parse.
  rewrite ParseVP8_written by (done || lia). cbn [flow_bind].
  destruct (is_key_packet i slice && (Zlen slice <? 10)); [done|]. cbn [negb info].
  set (parsed := parsed_fields hdr i (SetType kRtpVideoVp8 (info fresh))).
  set (from := set_frame parsed (width_of i slice) (height_of i slice) (Zlen (descriptor hdr i)) (Zlen slice)).
  change (dataLength from) with (Zlen slice). change (data from) with (Zlen (descriptor hdr i)).
  change (frameWidth from) with (width_of i slice). change (frameHeight from) with (height_of i slice).
  destruct (Z.eqb_spec (Zlen slice) 0); [lia|].
  rewrite <- (app_nil_r slice) at 1. rewrite blk_get_app by done. cbn [flow_bind].
  change (mkRTPVideoHeaderVP8 (nonReferenceFrame from) _ _ _ _ _ _ _) with (header_of from).
  subst from parsed. rewrite header_of_parsed by (done || lia).
  destruct (frame_sizes_u16 i slice) as [-> ->].
  assert (Hf : payload_beginningOfPartition (parsed_fields hdr i (SetType kRtpVideoVp8 (info fresh))) = first_fragment i
    /\ partitionID (parsed_fields hdr i (SetType kRtpVideoVp8 (info fresh))) = first_partition_ix i).
  { destruct (vp8_first_byte_back hdr i) as (_ & _ & F3 & F4); [lia|].
    unfold parsed_fields. destruct (XFieldPresent hdr); cbn -[first_byte flag Z.land]; by rewrite F3, F4. }
  destruct Hf as [P1 P2]. cbn [set_frame payload_beginningOfPartition partitionID]. by rewrite P1, P2.
Qed.

(** ** The parser on any bytes *)

(** A position in a packet: the offset, what is left, and the bytes of the extension
    that are parsed. *)
Definition within (pkt : list Z) (st : Z * Z * Z) : Prop :=
  let '(p, len, parsed) := st in p = 1 + parsed /\ p + len = Zlen pkt /\ 0 <= len /\ 1 <= parsed.

(** The optional fields are read inside the packet. *)
Definition reads_within (pkt : list Z) {R : Type} (m : flow R (Z * RTPPayloadVP8 * (Z * Z * Z))) : Prop :=
  gives m (fun res => within pkt res.2).

Lemma gives_field {R} pkt p len parsed (k : Z -> flow R (Z * RTPPayloadVP8 * (Z * Z * Z))) v :
  within pkt (p, len, parsed) ->
  (forall b, 0 < len -> within pkt (p + 1, len - 1, parsed + 1) -> reads_within pkt (k b)) ->
  reads_within pkt (if len <=? 0 then Cont (-1, v, (p, len, parsed)) else let! b := rd pkt p in k b).
Proof.
  intros Hw Hk. destruct (Z.leb_spec len 0); [by apply gives_Cont|]. destruct Hw as (W1 & W2 & W3 & W4).
  rewrite rd_total by lia. cbn [flow_bind]. apply Hk; [lia|]. unfold within. lia.
Qed.

Lemma ParseVP8PictureID_within {R} pkt v st : within pkt st -> reads_within pkt (ParseVP8PictureID (R := R) pkt v st).
Proof.
  destruct st as [[p len] parsed]. intros Hw. unfold ParseVP8PictureID. apply gives_field; [done|].
  intros b H Hw'. destruct (flag b 128); [|by apply gives_Cont].
  apply gives_field; [done|]. intros c H' Hw''. by apply gives_Cont.
Qed.

Lemma ParseVP8Tl0PicIdx_within {R} pkt v st : within pkt st -> reads_within pkt (ParseVP8Tl0PicIdx (R := R) pkt v st).
Proof.
  destruct st as [[p len] parsed]. intros Hw. unfold ParseVP8Tl0PicIdx. apply gives_field; [done|].
  intros b H Hw'. by apply gives_Cont.
Qed.

Lemma ParseVP8TIDAndKeyIdx_within {R} pkt v st :
  within pkt st -> reads_within pkt (ParseVP8TIDAndKeyIdx (R := R) pkt v st).
Proof.
  destruct st as [[p len] parsed]. intros Hw. unfold ParseVP8TIDAndKeyIdx. apply gives_field; [done|].
  intros b H Hw'. by apply gives_Cont.
Qed.

Lemma optional_within {R} pkt (c : bool) v st (m : flow R (Z * RTPPayloadVP8 * (Z * Z * Z))) :
  within pkt st -> reads_within pkt m -> reads_within pkt (if c then m else Cont (0, v, st)).
Proof. intros Hw Hm. destruct c; [done|by apply gives_Cont]. Qed.

Lemma ParseVP8Extension_within {R} pkt v len :
  1 + len = Zlen pkt ->
  gives (ParseVP8Extension (R := R) pkt v 1 len) (fun res => res.1 = -1 \/ 0 <= res.1 <= len).
Proof.
  intros Hl. unfold ParseVP8Extension. destruct (Z.leb_spec len 0); [apply gives_Cont; by left|].
  rewrite rd_total by lia. cbn [flow_bind].
  assert (W : within pkt (1 + 1, len - 1, 1)) by (unfold within; lia).
  eapply gives_bind; [apply optional_within; [exact W|by apply ParseVP8PictureID_within]|].
  intros [[r1 v1] st1] W1. cbn [snd] in W1. destruct (negb (r1 =? 0)); [apply gives_Cont; by left|].
  eapply gives_bind; [apply optional_within; [exact W1|by apply ParseVP8Tl0PicIdx_within]|].
  intros [[r2 v2] st2] W2. cbn [snd] in W2. destruct (negb (r2 =? 0)); [apply gives_Cont; by left|].
  eapply gives_bind; [apply optional_within; [exact W2|by apply ParseVP8TIDAndKeyIdx_within]|].
  intros [[r3 v3] [[p3 len3] k3]] W3. cbn [snd] in W3. destruct (negb (r3 =? 0)); [apply gives_Cont; by left|].
  apply gives_Cont. right. cbn. unfold within in W3. lia.
Qed.

Lemma ParseVP8FrameSize_within {R} pkt parsed p len :
  0 <= p -> p + len = Zlen pkt -> gives (ParseVP8FrameSize (R := R) pkt parsed p len) (fun _ => True).
Proof.
  intros Hp Hl. unfold ParseVP8FrameSize. destruct (negb _); [by apply gives_Cont|].
  destruct (Z.ltb_spec len 10); [by apply gives_Cont|]. rewrite !rd_total by lia. by apply gives_Cont.
Qed.

Definition rest_of_packet (pkt : list Z) (res : bool * RTPPayload) : Prop :=
  res.1 = true -> 1 <= data (info res.2) /\ 0 < dataLength (info res.2) /\
                  data (info res.2) + dataLength (info res.2) = Zlen pkt.

Lemma ParseVP8_within {R} pkt parsed :
  0 < Zlen pkt < 65536 -> gives (ParseVP8 (R := R) pkt parsed) (rest_of_packet pkt).
Proof.
  intros Hp. unfold ParseVP8. rewrite rd_total by lia. cbn [flow_bind].
  destruct (8 <? _); [by apply gives_Cont|].
  eapply (gives_bind _ _ (fun res => res.1 = -1 \/ 0 <= res.1 <= Zlen pkt - 1)).
  { destruct (flag _ 128); [apply ParseVP8Extension_within; lia|apply gives_Cont; right; cbn; lia]. }
  intros [k v] Hk. cbn [fst] in Hk. destruct (Z.ltb_spec k 0); [by apply gives_Cont|].
  destruct (Z.leb_spec (Zlen pkt - 1 - k) 0); [by apply gives_Cont|].
  eapply (gives_bind _ _ (fun _ => True)).
  { destruct (_ && _); [|by apply gives_Cont]. rewrite rd_total by lia. by apply gives_Cont. }
  intros frame _. eapply gives_bind; [apply ParseVP8FrameSize_within; lia|].
  intros [r parsed'] _. destruct (negb (r =? 0)); [by apply gives_Cont|]. apply gives_Cont.
  intros _. cbn. rewrite u16_id by (unfold is_u16; lia). lia.
Qed.

(** C29: whatever the bytes of a payload, if there is one, the VP8 parser reads only
    inside it and ends; what it takes as the frame's data is the rest of the payload
    and has bytes. *)
Theorem RTPPayloadParser_Parse_safe {R} pkt fresh :
  0 < Zlen pkt < 65536 ->
  exists ok parsed, RTPPayloadParser_Parse (R := R) kRtpVideoVp8 pkt fresh = Cont (ok, parsed) /\
    (ok = true -> 1 <= data (info parsed) /\ 0 < dataLength (info parsed) /\
                  data (info parsed) + dataLength (info parsed) = Zlen pkt).
Proof.
  intros Hp. destruct (ParseVP8_within (R := R) pkt
    (mkRTPPayload (frameType fresh) (SetType kRtpVideoVp8 (info fresh))) Hp) as ([ok parsed] & E & H).
  by exists ok, parsed.
Qed.

Lemma RTPPayloadParser_Parse_safe_witness :
  let fresh := mkRTPPayload kPFrame (mkRTPPayloadVP8 false false 0 false false false false 0 0 0 false 0 0 0 0 0) in
  exists ok parsed, RTPPayloadParser_Parse (R := Z) kRtpVideoVp8 [128; 240; 129] fresh = Cont (ok, parsed) /\
    (ok = true -> 1 <= data (info parsed) /\ 0 < dataLength (info parsed) /\
                  data (info parsed) + dataLength (info parsed) = 3).
Proof. intros fresh. apply (RTPPayloadParser_Parse_safe [128; 240; 129] fresh). vm_compute. done. Defined.

(** The first byte of a payload without bytes. *)
Lemma ParseVP8_empty {R} parsed : ParseVP8 (R := R) [] parsed = Stuck.
Proof. done. Qed.
