(* ===== verification/Vp8Aggregator.v ===== *)
(** * The VP8 partition aggregator

    Models [modules/rtp_rtcp/source/vp8_partition_aggregator.cc]: the search tree
    over the ways to put consecutive partitions into packets, its branch and bound
    search, and the number of fragments of a large partition.  Sizes are [int]s;
    the sum of the sizes of a frame is below [2 ^ 31], so no addition wraps. *)
From S2P Require Import Prelude.
Local Open Scope Z_scope.

Definition INT_MAX : Z := 2147483647.

(** ** The tree

    [size_vector_] is the rest of the sizes, so its length is [num_partitions_].
    The children of a node are made when they are visited. *)
Inductive PartitionTreeNode : Type := mkPartitionTreeNode {
  parent_ : option PartitionTreeNode;
  this_size_ : Z;
  size_vector_ : list Z;
  max_parent_size_ : Z;
  min_parent_size_ : Z;
  packet_start_ : bool
}.

Definition CreateRootNode {R : Type} (size_vector : list Z) : flow R PartitionTreeNode :=
  match size_vector with
  | [] => Stuck
  | s :: rest => Cont (mkPartitionTreeNode None s rest 0 INT_MAX true)
  end.

(** A node is a left child exactly when it does not start a packet. *)
Fixpoint NumPackets (node : PartitionTreeNode) : Z :=
  match parent_ node with
  | None => 1
  | Some p => if packet_start_ node then 1 + NumPackets p else NumPackets p
  end.

Definition Cost (node : PartitionTreeNode) (penalty : Z) : Z :=
  let cost :=
    match size_vector_ node with
    | [] => Z.max (max_parent_size_ node) (this_size_ node)
            - Z.min (min_parent_size_ node) (this_size_ node)
    | _ => Z.max (max_parent_size_ node) (this_size_ node) - min_parent_size_ node
    end in
  cost + NumPackets node * penalty.

(** The left and the right child, if there are. *)
Definition CreateChildren (node : PartitionTreeNode) (max_size : Z)
  : option PartitionTreeNode * option PartitionTreeNode :=
  match size_vector_ node with
  | [] => (None, None)
  | s :: rest =>
      (if this_size_ node + s <=? max_size
       then Some (mkPartitionTreeNode (Some node) (this_size_ node + s) rest
                    (max_parent_size_ node) (min_parent_size_ node) false)
       else None,
       if 0 <? this_size_ node
       then Some (mkPartitionTreeNode (Some node) s rest
                    (Z.max (max_parent_size_ node) (this_size_ node))
                    (Z.min (min_parent_size_ node) (this_size_ node)) true)
       else None)
  end.

(** Every level takes a size from the vector, which bounds the depth. *)
Fixpoint optimal_node (depth : nat) (node : PartitionTreeNode) (max_size penalty : Z)
  : PartitionTreeNode :=
  match depth with
  | O => node
  | S depth =>
      match CreateChildren node max_size with
      | (None, None) => node
      | (None, Some rchild) => optimal_node depth rchild max_size penalty
      | (Some lchild, None) => optimal_node depth lchild max_size penalty
      | (Some lchild, Some rchild) =>
          let '(first, second) :=
            if Cost lchild penalty <=? Cost rchild penalty then (lchild, rchild) else (rchild, lchild) in
          let first := optimal_node depth first max_size penalty in
          if Cost second penalty <=? Cost first penalty then
            let second := optimal_node depth second max_size penalty in
            if Cost second penalty <? Cost first penalty then second else first
          else first
      end
  end.

Definition GetOptimalNode (node : PartitionTreeNode) (max_size penalty : Z) : PartitionTreeNode :=
  optimal_node (length (size_vector_ node)) node max_size penalty.

(** ** The aggregator *)

Definition SetPriorMinMax (root : PartitionTreeNode) (min_size max_size : Z) : PartitionTreeNode :=
  mkPartitionTreeNode (parent_ root) (this_size_ root) (size_vector_ root) max_size min_size
    (packet_start_ root).

(** The loop from the last partition to the first. *)
Fixpoint config_loop {R : Type} (n : nat) (temp_node : option PartitionTreeNode)
  (packet_index : Z) (config_vector : list Z) : flow R (list Z) :=
  match n with
  | O => Cont config_vector
  | S n =>
      match temp_node with
      | None => Stuck
      | Some node =>
          config_loop n (parent_ node)
            (if packet_start_ node then packet_index - 1 else packet_index)
            (packet_index :: config_vector)
      end
  end.

Definition FindOptimalConfiguration {R : Type} (root : PartitionTreeNode) (num_partitions : nat)
  (max_size penalty : Z) : flow R (list Z) :=
  let opt := GetOptimalNode root max_size penalty in
  config_loop num_partitions (Some opt) (NumPackets opt - 1) [].

(** The sizes of the partitions at the front that go into packet [c], added up,
    and what follows. *)
Fixpoint same_packet (c : Z) (config sizes : list Z) : Z * (list Z * list Z) :=
  match config, sizes with
  | c' :: config', s :: sizes' =>
      if c =? c' then
        let '(t, rest) := same_packet c config' sizes' in (s + t, rest)
      else (0, (config, sizes))
  | _, _ => (0, (config, sizes))
  end.

Fixpoint min_max_loop (n : nat) (config sizes : list Z) (min_size max_size : Z) : Z * Z :=
  match n, config with
  | S n, c :: _ =>
      let '(this_size, (config, sizes)) := same_packet c config sizes in
      min_max_loop n config sizes
        (if this_size <? min_size then this_size else min_size)
        (if max_size <? this_size then this_size else max_size)
  | _, _ => (min_size, max_size)
  end.

Definition CalcMinMax (config sizes : list Z) (min_size max_size : Z) : Z * Z :=
  let min_size := if min_size <? 0 then INT_MAX else min_size in
  let max_size := if max_size <? 0 then 0 else max_size in
  min_max_loop (length config) config sizes min_size max_size.

(** Division of [int]s. *)
Definition int_div {R : Type} (a b : Z) : flow R Z := if b =? 0 then Stuck else Cont (Z.quot a b).

Definition CalcNumberOfFragments {R : Type}
  (large_partition_size max_payload_size penalty min_size max_size : Z) : flow R Z :=
  let! min_number_of_fragments :=
    int_div (large_partition_size + max_payload_size - 1) max_payload_size in
  if (min_size <? 0) || (max_size <? 0) then Cont min_number_of_fragments
  else
    let! max_number_of_fragments := int_div (large_partition_size + min_size - 1) min_size in
    let! (num_fragments, _) :=
      for_up (Z.to_nat (max_number_of_fragments - min_number_of_fragments + 1))
        min_number_of_fragments (fun n '(num_fragments, best_cost) =>
          let! fragment_size := int_div (large_partition_size + n - 1) n in
          let cost :=
            if fragment_size <? min_size then min_size - fragment_size + n * penalty
            else if max_size <? fragment_size then fragment_size - max_size + n * penalty
            else n * penalty in
          Cont (if (fragment_size <=? max_payload_size) && (cost <? best_cost)
                then (n, cost) else (num_fragments, best_cost)))
        (-1, INT_MAX) in
    Cont num_fragments.

(** ** Ways to aggregate

    A way to put the sizes into packets: the packets but the last, and the last. *)

Definition total (g : list Z) : Z := foldr Z.add 0 g.

(** No packet is empty, none is too large, and only the last may have no bytes. *)
Record grouping (max_size : Z) (sizes : list Z) (cl : list (list Z)) (g : list Z) : Prop := mkGrouping {
  grouping_all : concat cl ++ g = sizes;
  grouping_front : Forall (fun p => p <> [] /\ 0 < total p <= max_size) cl;
  grouping_last : g <> [] /\ total g <= max_size
}.

(** The spread of the sizes of the packets, the earlier ones included, and the
    penalty for their number. *)
Definition grouping_cost (prior_min prior_max penalty : Z) (gs : list (list Z)) : Z :=
  foldl Z.max prior_max (total <$> gs) - foldl Z.min prior_min (total <$> gs) + Zlen gs * penalty.

(** The packet of every partition. *)
Fixpoint number (k : Z) (gs : list (list Z)) : list Z :=
  match gs with
  | [] => []
  | g :: gs => replicate (length g) k ++ number (k + 1) gs
  end.

Lemma total_app a b : total (a ++ b) = total a + total b.
Proof. unfold total. induction a as [|x a IH]; simpl; lia. Qed.

Lemma total_cons x l : total (x :: l) = x + total l.
Proof. done. Qed.

Lemma total_nonneg g : Forall (fun s => 0 <= s) g -> 0 <= total g.
Proof. unfold total. induction 1; simpl; lia. Qed.

Lemma number_app k a b : number k (a ++ b) = number k a ++ number (k + Zlen a) b.
Proof.
  revert k. induction a as [|g a IH]; intros k; simpl; [by rewrite Z.add_0_r|].
  rewrite IH, <- app_assoc, Zlen_cons. by replace (k + 1 + Zlen a) with (k + (1 + Zlen a)) by lia.
Qed.

Lemma number_grow k cl g s : number k (cl ++ [g ++ [s]]) = number k (cl ++ [g]) ++ [k + Zlen cl].
Proof.
  rewrite !number_app. simpl. rewrite !app_nil_r, length_app. simpl.
  by rewrite replicate_add, <- app_assoc.
Qed.

Lemma number_length k gs : length (number k gs) = length (concat gs).
Proof. revert k. induction gs; intros k; simpl; [done|]. rewrite !length_app, length_replicate. by f_equal. Qed.

(** ** The tree and the ways to aggregate *)

(** The packet of every partition so far, from the parents. *)
Fixpoint config_of (node : PartitionTreeNode) : list Z :=
  match parent_ node with
  | None => [0]
  | Some p => config_of p ++ [NumPackets node - 1]
  end.

(** The left and the right child. *)
Definition continued (node : PartitionTreeNode) (s : Z) (rest : list Z) : PartitionTreeNode :=
  mkPartitionTreeNode (Some node) (this_size_ node + s) rest
    (max_parent_size_ node) (min_parent_size_ node) false.

Definition started (node : PartitionTreeNode) (s : Z) (rest : list Z) : PartitionTreeNode :=
  mkPartitionTreeNode (Some node) s rest
    (Z.max (max_parent_size_ node) (this_size_ node)) (Z.min (min_parent_size_ node) (this_size_ node)) true.

Lemma NumPackets_continued node s rest : NumPackets (continued node s rest) = NumPackets node.
Proof. done. Qed.
Lemma NumPackets_started node s rest : NumPackets (started node s rest) = 1 + NumPackets node.
Proof. done. Qed.
Lemma config_continued node s rest :
  config_of (continued node s rest) = config_of node ++ [NumPackets node - 1].
Proof. done. Qed.
Lemma config_started node s rest :
  config_of (started node s rest) = config_of node ++ [1 + NumPackets node - 1].
Proof. done. Qed.

Definition child (max_size : Z) (node c : PartitionTreeNode) : Prop :=
  (CreateChildren node max_size).1 = Some c \/ (CreateChildren node max_size).2 = Some c.

Inductive below (max_size : Z) : PartitionTreeNode -> PartitionTreeNode -> Prop :=
  | below_here node : below max_size node node
  | below_child node c m : child max_size node c -> below max_size c m -> below max_size node m.

Definition solution (node : PartitionTreeNode) : Prop := size_vector_ node = [].

Definition sizes_ok (max_size : Z) (sizes : list Z) : Prop := Forall (fun s => 0 <= s <= max_size) sizes.

Lemma child_cases max_size node c :
  child max_size node c ->
  exists s rest, size_vector_ node = s :: rest /\
    ((this_size_ node + s <= max_size /\ c = continued node s rest)
     \/ (0 < this_size_ node /\ c = started node s rest)).
Proof.
  unfold child, CreateChildren. destruct (size_vector_ node) as [|s rest]; intros H; [by destruct H|].
  exists s, rest. split; [done|]. destruct (Z.leb_spec (this_size_ node + s) max_size);
    destruct (Z.ltb_spec 0 (this_size_ node)); simpl in H; destruct H as [H|H]; simplify_eq; tauto.
Qed.

Lemma left_child max_size node s rest :
  size_vector_ node = s :: rest -> this_size_ node + s <= max_size ->
  child max_size node (continued node s rest).
Proof.
  intros E H. left. unfold CreateChildren. rewrite E. by destruct (Z.leb_spec (this_size_ node + s) max_size); [|lia].
Qed.

Lemma right_child max_size node s rest :
  size_vector_ node = s :: rest -> 0 < this_size_ node ->
  child max_size node (started node s rest).
Proof.
  intros E H. right. unfold CreateChildren. rewrite E. by destruct (Z.ltb_spec 0 (this_size_ node)); [|lia].
Qed.

Lemma child_sizes max_size node c :
  child max_size node c -> sizes_ok max_size (size_vector_ node) ->
  sizes_ok max_size (size_vector_ c) /\ length (size_vector_ node) = S (length (size_vector_ c)).
Proof.
  intros (s & rest & E & H)%child_cases Hs. rewrite E in *. inversion Hs.
  destruct H as [[_ ->]|[_ ->]]; done.
Qed.

(** The cost of a node bounds the cost of what is below it. *)
Lemma child_cost max_size node c penalty :
  child max_size node c -> sizes_ok max_size (size_vector_ node) -> 0 <= penalty ->
  Cost node penalty <= Cost c penalty.
Proof.
  intros (s & rest & E & H)%child_cases Hs Hp. rewrite E in Hs. inversion Hs; subst.
  unfold Cost. rewrite E. destruct H as [[? ->]|[? ->]]; simpl size_vector_; simpl this_size_; simpl max_parent_size_; simpl min_parent_size_.
  - rewrite NumPackets_continued. destruct rest; lia.
  - rewrite NumPackets_started, Z.mul_add_distr_r. destruct rest; lia.
Qed.

Lemma below_cost max_size node m penalty :
  below max_size node m -> sizes_ok max_size (size_vector_ node) -> 0 <= penalty ->
  Cost node penalty <= Cost m penalty.
Proof.
  induction 1 as [|node c m Hc Hb IH]; intros Hs Hp; [lia|].
  assert (K := child_cost _ _ _ penalty Hc Hs Hp). destruct (child_sizes _ _ _ Hc Hs) as [Hs' _].
  specialize (IH Hs' Hp). lia.
Qed.

Lemma below_leaf max_size node m : below max_size node m -> solution node -> m = node.
Proof.
  intros Hb Hn. destruct Hb as [|node c m Hc]; [done|].
  apply child_cases in Hc as (s & rest & E & _). unfold solution in Hn. by rewrite E in Hn.
Qed.

Lemma below_split max_size node m :
  below max_size node m -> solution m -> ~ solution node ->
  exists c, child max_size node c /\ below max_size c m.
Proof. intros Hb Hm Hn. destruct Hb as [|node c m]; [done|]. by exists c. Qed.

(** What the search promises below a node. *)
Definition best (max_size penalty : Z) (node opt : PartitionTreeNode) : Prop :=
  below max_size node opt /\ solution opt /\
  forall leaf, below max_size node leaf -> solution leaf -> Cost opt penalty <= Cost leaf penalty.

(** The branch and bound step. *)
Lemma best_both max_size penalty node (first second fopt sopt : PartitionTreeNode) :
  0 <= penalty -> ~ solution node ->
  (forall c, child max_size node c <-> c = first \/ c = second) ->
  sizes_ok max_size (size_vector_ second) ->
  best max_size penalty first fopt -> best max_size penalty second sopt ->
  best max_size penalty node
    (if Cost second penalty <=? Cost fopt penalty then
       if Cost sopt penalty <? Cost fopt penalty then sopt else fopt
     else fopt).
Proof.
  intros Hp Hn Hc Hs (F1 & F2 & F3) (S1 & S2 & S3).
  assert (H : forall leaf, below max_size node leaf -> solution leaf ->
    Cost fopt penalty <= Cost leaf penalty \/ Cost sopt penalty <= Cost leaf penalty).
  { intros leaf Hb Hl. destruct (below_split _ _ _ Hb Hl Hn) as (c & [->| ->]%Hc & Hb'); [left|right]; auto. }
  assert (Hf : below max_size node fopt) by (eapply below_child; [apply Hc; by left|done]).
  assert (Hso : below max_size node sopt) by (eapply below_child; [apply Hc; by right|done]).
  assert (K := below_cost _ _ _ penalty S1 Hs Hp).
  destruct (Z.leb_spec (Cost second penalty) (Cost fopt penalty)).
  - destruct (Z.ltb_spec (Cost sopt penalty) (Cost fopt penalty)); split_and!; try done;
      intros leaf Hb Hl; destruct (H leaf Hb Hl); lia.
  - split_and!; try done. intros leaf Hb Hl. destruct (H leaf Hb Hl); lia.
Qed.

Lemma best_only max_size penalty node c opt :
  ~ solution node -> (forall d, child max_size node d <-> d = c) ->
  best max_size penalty c opt -> best max_size penalty node opt.
Proof.
  intros Hn Hc (B1 & B2 & B3). split_and!; [|done|].
  - eapply below_child; [by apply Hc|done].
  - intros leaf Hb Hl. destruct (below_split _ _ _ Hb Hl Hn) as (d & ->%Hc & Hb'). auto.
Qed.

Lemma optimal_best depth node max_size penalty :
  0 <= penalty -> sizes_ok max_size (size_vector_ node) -> depth = length (size_vector_ node) ->
  best max_size penalty node (optimal_node depth node max_size penalty).
Proof.
  revert node. induction depth as [|depth IH]; intros node Hp Hs Hd; simpl.
  { apply eq_sym, nil_length_inv in Hd. split_and!; [constructor|done|].
    intros leaf Hb _. by rewrite (below_leaf _ _ _ Hb Hd). }
  destruct (size_vector_ node) as [|s rest] eqn:E; [done|]. inversion Hs as [|? ? Hs1 Hs2]; subst.
  assert (Hn : ~ solution node) by (unfold solution; by rewrite E).
  assert (Hc : forall c, child max_size node c -> best max_size penalty c (optimal_node depth c max_size penalty)
    /\ sizes_ok max_size (size_vector_ c)).
  { intros c Hc. rewrite <- E in Hs. destruct (child_sizes _ _ _ Hc) as [H1 H2]; [by rewrite E in *|].
    rewrite E in *. split; [|done]. apply IH; simpl in *; done || lia. }
  unfold child in Hc. destruct (CreateChildren node max_size) as [[l|] [r|]] eqn:Ec; simpl in Hc.
  - destruct (Hc l) as [L1 L2]; [by left|]. destruct (Hc r) as [R1 R2]; [by right|].
    assert (Hch : forall c, child max_size node c <-> c = l \/ c = r)
      by (intros c; unfold child; rewrite Ec; simpl; split; intros [H|H]; simplify_eq; auto).
    destruct (Cost l penalty <=? Cost r penalty); [by apply (best_both _ _ _ l r)|].
    apply (best_both _ _ _ r l); try done. intros c. rewrite Hch. tauto.
  - apply (best_only _ _ _ l); [done| |apply Hc; by left].
    intros c. unfold child. rewrite Ec. simpl. split; [intros [H|H]; by simplify_eq|intros ->; auto].
  - apply (best_only _ _ _ r); [done| |apply Hc; by right].
    intros c. unfold child. rewrite Ec. simpl. split; [intros [H|H]; by simplify_eq|intros ->; auto].
  - exfalso. unfold CreateChildren in Ec. rewrite E in Ec.
    destruct (Z.leb_spec (this_size_ node + s) max_size); [done|].
    destruct (Z.ltb_spec 0 (this_size_ node)); [done|lia].
Qed.

(** ** Nodes are ways to aggregate a front of the sizes *)

Section node.
Context (max_size prior_min prior_max : Z) (sizes : list Z).

(** The root, after SetPriorMinMax. *)
Definition root_at (node : PartitionTreeNode) : Prop :=
  exists s rest, sizes = s :: rest /\
    node = mkPartitionTreeNode None s rest prior_max prior_min true.

Record at_node (node : PartitionTreeNode) (cl : list (list Z)) (g : list Z) : Prop := mkAtNode {
  at_sizes : concat cl ++ g ++ size_vector_ node = sizes;
  at_front : Forall (fun p => p <> [] /\ 0 < total p <= max_size) cl;
  at_last : g <> [] /\ total g <= max_size;
  at_this : this_size_ node = total g;
  at_max : max_parent_size_ node = foldl Z.max prior_max (total <$> cl);
  at_min : min_parent_size_ node = foldl Z.min prior_min (total <$> cl);
  at_packets : NumPackets node = Zlen cl + 1;
  at_config : config_of node = number 0 (cl ++ [g])
}.

Lemma at_root node : root_at node -> sizes_ok max_size sizes -> at_node node [] [default 0 (head sizes)].
Proof.
  intros (s & rest & E & ->) Hs. rewrite E in *. inversion Hs; subst.
  split; simpl; try done; [split; [done|]|]; unfold total; simpl; lia.
Qed.

Lemma at_left node cl g s rest :
  at_node node cl g -> size_vector_ node = s :: rest -> this_size_ node + s <= max_size ->
  at_node (continued node s rest) cl (g ++ [s]).
Proof.
  intros [A1 A2 A3 A4 A5 A6 A7 A8] E H.
  assert (Ht : total (g ++ [s]) = this_size_ node + s) by (rewrite total_app, A4; unfold total; simpl; lia).
  split; simpl size_vector_; simpl this_size_; simpl max_parent_size_; simpl min_parent_size_; try done.
  - rewrite <- A1, E. by rewrite <- app_assoc.
  - split; [by destruct g|lia].
  - rewrite config_continued, A8, number_grow, A7. do 2 f_equal. lia.
Qed.

Lemma at_right node cl g s rest :
  at_node node cl g -> size_vector_ node = s :: rest -> 0 < this_size_ node -> s <= max_size ->
  at_node (started node s rest)
    (cl ++ [g]) [s].
Proof.
  intros [A1 A2 A3 A4 A5 A6 A7 A8] E H Hs.
  split; simpl size_vector_; simpl this_size_; simpl max_parent_size_; simpl min_parent_size_.
  - rewrite <- A1, E, concat_app. simpl. by rewrite app_nil_r, <- app_assoc.
  - apply Forall_app. split; [done|]. constructor; [|constructor]. destruct A3. split; [done|lia].
  - split; [done|]. unfold total; simpl; lia.
  - unfold total; simpl; lia.
  - rewrite fmap_app, foldl_app. simpl. by rewrite A5, A4.
  - rewrite fmap_app, foldl_app. simpl. by rewrite A6, A4.
  - rewrite NumPackets_started, A7, Zlen_app. change (Zlen [g]) with 1. lia.
  - rewrite config_started, A8, (number_app 0 (cl ++ [g])), A7, Zlen_app. simpl.
    change (Zlen [g]) with 1. do 2 f_equal. lia.
Qed.

Lemma at_cost leaf cl g penalty :
  at_node leaf cl g -> solution leaf -> Cost leaf penalty = grouping_cost prior_min prior_max penalty (cl ++ [g]).
Proof.
  intros [A1 A2 A3 A4 A5 A6 A7 A8] E. unfold Cost, grouping_cost. rewrite E, A4, A5, A6, A7.
  rewrite fmap_app, !foldl_app, Zlen_app. done.
Qed.

(** Everything below a node is a way to aggregate. *)
Lemma below_at node m cl g :
  below max_size node m -> sizes_ok max_size (size_vector_ node) -> at_node node cl g ->
  exists cl' g', at_node m cl' g'.
Proof.
  intros Hb. revert cl g. induction Hb as [node|node c m Hc Hb IH]; intros cl g Hs Ha; [by eauto|].
  destruct (child_sizes _ _ _ Hc Hs) as [Hs' _].
  apply child_cases in Hc as (s & rest & E & [[H ->]|[H ->]]).
  - eapply IH; [done|]. by apply at_left.
  - eapply IH; [done|]. apply at_right; try done. rewrite E in Hs. inversion Hs; lia.
Qed.

(** Every way to aggregate that agrees with a node is below it. *)
Lemma at_below node cl g cl' g' :
  at_node node cl g -> sizes_ok max_size (size_vector_ node) -> grouping max_size sizes cl' g' ->
  (cl' = cl /\ g' = g ++ size_vector_ node \/ exists h t, cl' = cl ++ (g ++ h) :: t) ->
  exists leaf, below max_size node leaf /\ solution leaf /\ at_node leaf cl' g'.
Proof.
  remember (length (size_vector_ node)) as n eqn:Hn. revert node cl g Hn.
  induction n as [|n IH]; intros node cl g Hn Ha Hs Hg Hext.
  - apply eq_sym, nil_length_inv in Hn. exists node. split_and!; [constructor|done|].
    destruct Hext as [[-> ->]|(h & t & ->)]; [by rewrite Hn, app_nil_r|]. exfalso.
    destruct Ha as [A1 _ _ _ _ _ _ _], Hg as [G1 _ [G3 _]]. rewrite <- G1, Hn, concat_app in A1. simpl in A1.
    rewrite <- !app_assoc, app_nil_r in A1. apply app_inv_head in A1. rewrite <- (app_nil_r g) in A1 at 1.
    apply app_inv_head in A1. symmetry in A1. apply app_eq_nil in A1 as [_ [_ A1]%app_eq_nil]. done.
  - destruct (size_vector_ node) as [|s rest] eqn:E; [done|]. simpl in Hn.
    inversion Hs as [|? ? Hs1 Hs2]; subst.
    assert (Hrest : 0 <= total rest) by (apply total_nonneg; eapply Forall_impl; [done|]; simpl; lia).
    assert (step : forall c cl1 g1, child max_size node c -> at_node c cl1 g1 -> size_vector_ c = rest ->
      (cl' = cl1 /\ g' = g1 ++ rest \/ (exists h t, cl' = cl1 ++ (g1 ++ h) :: t)) ->
      exists leaf, below max_size node leaf /\ solution leaf /\ at_node leaf cl' g').
    { intros c cl1 g1 Hc Hat Ec H. rewrite <- Ec in *.
      destruct (IH c cl1 g1) as (leaf & L1 & L2 & L3); try done; [by simplify_eq|].
      exists leaf. split; [by eapply below_child|done]. }
    assert (Hl : total g + s <= max_size ->
      child max_size node (continued node s rest) /\ at_node (continued node s rest) cl (g ++ [s])).
    { intros H. split; [apply (left_child _ _ _ _ E)|apply (at_left _ _ _ _ _ Ha E)]; rewrite (at_this _ _ _ Ha); lia. }
    destruct Hg as [G1 G2 [G3 G4]]. destruct Hext as [[-> ->]|(h & t & ->)].
    + rewrite total_app, total_cons in G4.
      destruct Hl as [Hl1 Hl2]; [lia|]. eapply step; [apply Hl1|apply Hl2|done|].
      left. split; [done|]. by rewrite <- app_assoc.
    + apply Forall_app in G2 as [G2 G5]. inversion G5 as [|? ? [G6 G7] G8]; subst.
      assert (A1 := at_sizes _ _ _ Ha). rewrite <- G1, E, concat_app in A1. simpl in A1.
      rewrite <- !app_assoc in A1. apply app_inv_head, app_inv_head in A1.
      destruct h as [|s' h].
      * rewrite app_nil_r in *. eapply step; [apply (right_child _ _ _ _ E)|apply (at_right _ _ _ _ _ Ha E)|done|];
          rewrite ?(at_this _ _ _ Ha); try lia.
        destruct t as [|p t]; simpl in A1; [by left; rewrite <- A1|].
        right. inversion G8 as [|? ? [G9 _] _]; subst. destruct p as [|p0 p]; [done|].
        simpl in A1. injection A1 as -> _. exists p, t. by rewrite <- app_assoc.
      * simpl in A1. injection A1 as -> A1.
        assert (Hh : 0 <= total h).
        { apply total_nonneg. rewrite A1 in Hs2. apply Forall_app in Hs2 as [Hs2 _].
          eapply Forall_impl; [done|]. simpl; lia. }
        rewrite total_app, total_cons in G7.
        destruct Hl as [Hl1 Hl2]; [lia|]. eapply step; [apply Hl1|apply Hl2|done|].
        right. exists h, t. by rewrite <- app_assoc.
Qed.
End node.

(** ** The configuration *)

Lemma config_loop_of {R} (node : PartitionTreeNode) acc :
  config_loop (R := R) (length (config_of node)) (Some node) (NumPackets node - 1) acc
  = Cont (config_of node ++ acc).
Proof.
  remember (length (config_of node)) as n eqn:Hn. revert node acc Hn.
  induction n as [|n IH]; intros node acc Hn.
  - destruct node as [[p|] ? ? ? ? ?]; simpl in Hn; rewrite ?length_app in Hn; simpl in Hn; lia.
  - destruct node as [[p|] ts sv mx mn ps]; simpl in Hn.
    + rewrite length_app in Hn. simpl in Hn. cbn [config_loop parent_ packet_start_].
      set (node := mkPartitionTreeNode (Some p) ts sv mx mn ps).
      assert (E : (if ps then NumPackets node - 1 - 1 else NumPackets node - 1) = NumPackets p - 1)
        by (subst node; cbn [NumPackets parent_ packet_start_]; destruct ps; lia).
      rewrite E, (IH p) by lia. change (config_of node) with (config_of p ++ [NumPackets node - 1]).
      by rewrite <- app_assoc.
    + injection Hn as ->. done.
Qed.

Lemma number_config_length k cl g sizes :
  concat cl ++ g = sizes -> length (number k (cl ++ [g])) = length sizes.
Proof. intros <-. rewrite number_length, concat_app. simpl. by rewrite app_nil_r. Qed.

(** The configuration is a way to aggregate, and none costs less. *)
Lemma FindOptimalConfiguration_best {R} root max_size penalty prior_min prior_max sizes :
  root_at prior_min prior_max sizes root -> sizes_ok max_size sizes -> 0 <= penalty ->
  exists cl g, grouping max_size sizes cl g /\
    FindOptimalConfiguration (R := R) root (length sizes) max_size penalty = Cont (number 0 (cl ++ [g])) /\
    forall cl' g', grouping max_size sizes cl' g' ->
      grouping_cost prior_min prior_max penalty (cl ++ [g])
      <= grouping_cost prior_min prior_max penalty (cl' ++ [g']).
Proof.
  intros Hr Hs Hp. assert (Ha := at_root max_size _ _ _ _ Hr Hs).
  assert (Hss : sizes_ok max_size (size_vector_ root)).
  { destruct Hr as (s & rest & -> & ->). by inversion Hs. }
  destruct (optimal_best _ _ _ _ Hp Hss eq_refl) as (B1 & B2 & B3).
  fold (GetOptimalNode root max_size penalty) in *. set (opt := GetOptimalNode root max_size penalty) in *.
  destruct (below_at _ _ _ _ _ _ _ _ B1 Hss Ha) as (cl & g & Ho).
  assert (Hgs : concat cl ++ g = sizes).
  { assert (A1 := at_sizes _ _ _ _ _ _ _ Ho). rewrite B2, app_nil_r in A1. done. }
  exists cl, g. split_and!.
  - by destruct Ho.
  - unfold FindOptimalConfiguration. fold opt.
    replace (length sizes) with (length (config_of opt)).
    + rewrite config_loop_of. by rewrite app_nil_r, (at_config _ _ _ _ _ _ _ Ho).
    + rewrite (at_config _ _ _ _ _ _ _ Ho). by apply number_config_length.
  - intros cl' g' Hg. assert (Hext : exists leaf, below max_size root leaf /\ solution leaf
      /\ at_node max_size prior_min prior_max sizes leaf cl' g').
    { eapply at_below; [done|done|done|]. destruct Hr as (s & rest & E & ->). rewrite E. simpl.
      destruct Hg as [G1 G2 _]. rewrite E in G1. destruct cl' as [|p t]; simpl in G1; [by left|].
      right. inversion G2 as [|? ? [G _] _]; subst. destruct p as [|p0 p]; [done|]. simpl in G1.
      injection G1 as -> _. by exists p, t. }
    destruct Hext as (leaf & L1 & L2 & L3). rewrite <- (at_cost _ _ _ _ _ _ _ penalty L3 L2).
    rewrite <- (at_cost _ _ _ _ _ _ _ penalty Ho B2). auto.
Qed.

(** ** The smallest and the largest packet *)

Lemma same_packet_number k g gs :
  Forall (fun p => p <> []) gs ->
  same_packet k (replicate (length g) k ++ number (k + 1) gs) (g ++ concat gs)
  = (total g, (number (k + 1) gs, concat gs)).
Proof.
  intros Hgs. induction g as [|s g IH]; simpl.
  - destruct gs as [|p gs]; [done|]. inversion Hgs; subst. destruct p as [|s p]; [done|]. simpl.
    by destruct (Z.eqb_spec k (k + 1)); [lia|].
  - rewrite Z.eqb_refl, IH. done.
Qed.

Lemma min_max_number n k gs mn mx :
  Forall (fun p => p <> []) gs -> (length gs <= n)%nat ->
  min_max_loop n (number k gs) (concat gs) mn mx
  = (foldl Z.min mn (total <$> gs), foldl Z.max mx (total <$> gs)).
Proof.
  intros Hgs. revert n k mn mx. induction Hgs as [|g gs Hg Hgs IH]; intros n k mn mx Hn; [by destruct n|].
  simpl in Hn. destruct n as [|n]; [lia|]. simpl number. simpl concat.
  destruct g as [|s g]; [done|].
  change (replicate (length (s :: g)) k ++ number (k + 1) gs) with (k :: (replicate (length g) k ++ number (k + 1) gs)).
  cbn [min_max_loop].
  change (k :: replicate (length g) k ++ number (k + 1) gs) with (replicate (length (s :: g)) k ++ number (k + 1) gs).
  rewrite same_packet_number by done. rewrite IH by lia. simpl. f_equal; f_equal; zcases; lia.
Qed.

Lemma CalcMinMax_number gs mn mx :
  Forall (fun p => p <> []) gs ->
  CalcMinMax (number 0 gs) (concat gs) mn mx
  = (foldl Z.min (if mn <? 0 then INT_MAX else mn) (total <$> gs),
     foldl Z.max (if mx <? 0 then 0 else mx) (total <$> gs)).
Proof.
  intros H. unfold CalcMinMax. apply min_max_number; [done|]. rewrite number_length.
  induction H as [|g gs Hg H IH]; simpl; [lia|]. rewrite length_app. destruct g; [done|]. simpl. lia.
Qed.

(** ** Fragments of a large partition *)

(** Rounding up. *)
Definition ceil_div (a b : Z) : Z := Z.quot (a + b - 1) b.

Lemma ceil_div_spec a b : 0 < a -> 0 < b -> (ceil_div a b - 1) * b < a <= ceil_div a b * b.
Proof.
  intros Ha Hb. unfold ceil_div. rewrite Z.quot_div_nonneg by lia.
  assert (H := Z.div_mod (a + b - 1) b ltac:(lia)). assert (K := Z.mod_pos_bound (a + b - 1) b ltac:(lia)). nia.
Qed.

Lemma ceil_div_le a b k : 0 < a -> 0 < b -> ceil_div a b <= k <-> a <= k * b.
Proof. intros Ha Hb. assert (H := ceil_div_spec a b Ha Hb). split; intros; nia. Qed.

Lemma int_div_Cont {R} a b : b <> 0 -> int_div (R := R) (a + b - 1) b = Cont (ceil_div a b).
Proof. intros H. unfold int_div. by destruct (Z.eqb_spec b 0). Qed.

(** The fragments fit, and none is empty. *)
Definition fragments_fit (size max_payload n : Z) : Prop :=
  1 <= n /\ ceil_div size n <= max_payload /\ (n - 1) * ceil_div size n < size.

Definition fragments_cost (size penalty min_size max_size n : Z) : Z :=
  let fragment := ceil_div size n in
  (if fragment <? min_size then min_size - fragment
   else if max_size <? fragment then fragment - max_size
   else 0) + n * penalty.

Lemma fewest_fit size max_payload :
  0 < size -> 0 < max_payload -> fragments_fit size max_payload (ceil_div size max_payload).
Proof.
  intros Hs Hm. set (n := ceil_div size max_payload).
  assert (H := ceil_div_spec size max_payload Hs Hm). fold n in H. assert (Hn : 1 <= n) by nia.
  assert (K := ceil_div_spec size n Hs ltac:(lia)).
  assert (L : ceil_div size n <= max_payload) by (apply ceil_div_le; lia).
  split_and!; try lia. nia.
Qed.

(** A cheapest number has no empty fragment: with one fewer of the same size the
    cost is lower. *)
Lemma cheapest_fit size max_payload penalty min_size max_size n :
  0 < size -> 0 < max_payload -> 0 <= penalty -> 1 <= n -> ceil_div size n <= max_payload ->
  (forall m, ceil_div size max_payload <= m < n -> ceil_div size m <= max_payload ->
    fragments_cost size penalty min_size max_size n < fragments_cost size penalty min_size max_size m) ->
  fragments_fit size max_payload n.
Proof.
  intros Hs Hm Hp Hn Hf Hb. split_and!; try done.
  destruct (Z.lt_ge_cases ((n - 1) * ceil_div size n) size) as [|H]; [done|]. exfalso.
  assert (K := ceil_div_spec size n Hs ltac:(lia)). assert (Hn2 : 2 <= n) by nia.
  assert (K' := ceil_div_spec size (n - 1) Hs ltac:(lia)).
  assert (E : ceil_div size (n - 1) = ceil_div size n).
  { assert (ceil_div size (n - 1) <= ceil_div size n) by (apply ceil_div_le; lia).
    assert (ceil_div size n <= ceil_div size (n - 1)) by (apply ceil_div_le; nia). lia. }
  specialize (Hb (n - 1)). unfold fragments_cost in Hb. rewrite E in Hb.
  assert (ceil_div size max_payload <= n - 1) by (apply ceil_div_le; nia).
  specialize (Hb ltac:(lia) ltac:(lia)). repeat case_match; lia.
Qed.

(** The loop keeps the first of the cheapest numbers that fit. *)
Definition cheapest (size max_payload : Z) (cost : Z -> Z) (lo i : Z) (st : Z * Z) : Prop :=
  let '(num, best_cost) := st in
  lo <= num < i /\ best_cost = cost num /\ ceil_div size num <= max_payload /\
  forall m, lo <= m < i -> ceil_div size m <= max_payload ->
    cost num <= cost m /\ (m < num -> cost num < cost m).

Definition fragments_step (size max_payload : Z) (cost : Z -> Z) (n : Z) (st : Z * Z) : Z * Z :=
  let '(num, best_cost) := st in
  if (ceil_div size n <=? max_payload) && (cost n <? best_cost) then (n, cost n) else (num, best_cost).

Lemma cheapest_step size max_payload cost lo i st :
  lo <= i -> cheapest size max_payload cost lo i st ->
  cheapest size max_payload cost lo (i + 1) (fragments_step size max_payload cost i st).
Proof.
  destruct st as [num best_cost]. intros Hi (C1 & C2 & C3 & C4). unfold fragments_step.
  destruct (Z.leb_spec (ceil_div size i) max_payload), (Z.ltb_spec (cost i) best_cost); simpl;
    (split_and!; simpl; try lia; intros m Hm Hc;
     destruct (Z.eq_dec m i) as [->|Hne]; [try lia|]);
    try (destruct (C4 m ltac:(lia) Hc); lia).
Qed.

Lemma CalcNumberOfFragments_steps {R} size max_payload penalty min_size max_size :
  0 < size -> 0 < max_payload -> 0 < min_size -> 0 <= max_size ->
  let cost := fragments_cost size penalty min_size max_size in
  let lo := ceil_div size max_payload in
  CalcNumberOfFragments (R := R) size max_payload penalty min_size max_size
  = let! (num_fragments, _) := for_up (Z.to_nat (ceil_div size min_size - lo + 1)) lo
      (fun n st => Cont (fragments_step size max_payload cost n st)) (-1, INT_MAX) in
    Cont num_fragments.
Proof.
  intros Hs Hm Hmn Hmx cost lo. unfold CalcNumberOfFragments. rewrite int_div_Cont by lia. cbn [flow_bind].
  fold lo. destruct (Z.ltb_spec min_size 0), (Z.ltb_spec max_size 0); try lia. cbn [orb].
  rewrite int_div_Cont by lia. cbn [flow_bind].
  assert (Hlo : 1 <= lo) by (subst lo; assert (H1 := ceil_div_spec size max_payload Hs Hm); nia).
  erewrite for_up_ext; [done|]. intros j [num best] Hj. rewrite int_div_Cont by lia. cbn [flow_bind].
  assert (E : (if ceil_div size j <? min_size then min_size - ceil_div size j + j * penalty
     else if max_size <? ceil_div size j then ceil_div size j - max_size + j * penalty else j * penalty) = cost j)
    by (subst cost; unfold fragments_cost; repeat case_match; lia).
  rewrite E. unfold fragments_step. simpl. by destruct (_ && _).
Qed.

(** The number of fragments of a large partition: the fragments fit, none is
    empty, and no number that fits is cheaper. *)
Lemma CalcNumberOfFragments_cheapest {R} size max_payload penalty min_size max_size :
  0 < size -> 0 < min_size <= max_payload -> 0 <= max_size -> 0 <= penalty ->
  min_size + size + size * penalty < INT_MAX ->
  exists n, CalcNumberOfFragments (R := R) size max_payload penalty min_size max_size = Cont n /\
    fragments_fit size max_payload n /\
    forall m, ceil_div size max_payload <= m <= ceil_div size min_size -> ceil_div size m <= max_payload ->
      fragments_cost size penalty min_size max_size n <= fragments_cost size penalty min_size max_size m.
Proof.
  intros Hs Hmn Hmx Hp Hb. rewrite CalcNumberOfFragments_steps by lia.
  set (cost := fragments_cost size penalty min_size max_size). set (lo := ceil_div size max_payload).
  destruct (fewest_fit size max_payload Hs ltac:(lia)) as (F1 & F2 & _). fold lo in F1, F2.
  assert (Hhi : lo <= ceil_div size min_size).
  { apply ceil_div_le; [lia..|]. assert (K := ceil_div_spec size min_size Hs ltac:(lia)). nia. }
  assert (Hc : cost lo < INT_MAX).
  { assert (H := ceil_div_spec size lo Hs ltac:(lia)).
    assert (K := ceil_div_spec size max_payload Hs ltac:(lia)). fold lo in K.
    assert (lo <= size) by nia. assert (ceil_div size lo <= size) by (apply ceil_div_le; nia).
    assert (0 <= ceil_div size lo) by nia. assert (lo * penalty <= size * penalty) by nia. subst cost. unfold fragments_cost. repeat case_match; lia. }
  replace (Z.to_nat (ceil_div size min_size - lo + 1)) with (S (Z.to_nat (ceil_div size min_size - lo))) by lia.
  cbn [for_up flow_bind].
  assert (E : fragments_step size max_payload cost lo (-1, INT_MAX) = (lo, cost lo)).
  { unfold fragments_step. simpl. destruct (Z.leb_spec (ceil_div size lo) max_payload); [|lia].
    by destruct (Z.ltb_spec (cost lo) INT_MAX); [|lia]. }
  rewrite E.
  destruct (for_up_inv (R := R) (cheapest size max_payload cost lo)
    (fun n st => Cont (fragments_step size max_payload cost n st))
    (Z.to_nat (ceil_div size min_size - lo)) (lo + 1) (lo, cost lo)) as ([n c] & -> & HP).
  - split_and!; simpl; try lia. intros m Hm _. replace m with lo by lia. lia.
  - intros j st Hj Hst. eexists. split; [done|]. apply cheapest_step; [lia|done].
  - cbn [flow_bind]. destruct HP as (C1 & _ & C3 & C4). simpl in *. exists n. split_and!; [done| |].
    + apply (cheapest_fit _ _ penalty min_size max_size); try lia. intros m Hm Hf. fold lo in Hm.
      destruct (C4 m ltac:(lia) Hf) as [_ C]. apply C. lia.
    + intros m Hm Hf. destruct (C4 m ltac:(lia) Hf) as [C _]. done.
Qed.

Lemma CalcNumberOfFragments_fewest {R} size max_payload penalty min_size max_size :
  0 < size -> 0 < max_payload -> min_size < 0 \/ max_size < 0 ->
  CalcNumberOfFragments (R := R) size max_payload penalty min_size max_size
  = Cont (ceil_div size max_payload).
Proof.
  intros Hs Hm H. unfold CalcNumberOfFragments. rewrite int_div_Cont by lia. cbn [flow_bind].
  by destruct (Z.ltb_spec min_size 0), (Z.ltb_spec max_size 0); [..|lia].
Qed.

(** ** Claims *)

(** The root for the sizes of a set of partitions, with the earlier bounds when
    there are. *)
Definition prepared_root {R : Type} (sizes : list Z) (prior : option (Z * Z)) : flow R PartitionTreeNode :=
  let! root := CreateRootNode sizes in
  Cont (match prior with
        | Some (min_size, max_size) => SetPriorMinMax root min_size max_size
        | None => root
        end).

Lemma prepared_root_at {R} sizes prior :
  sizes <> [] ->
  exists root, prepared_root (R := R) sizes prior = Cont root /\
    root_at (default (INT_MAX, 0) prior).1 (default (INT_MAX, 0) prior).2 sizes root.
Proof.
  intros H. destruct sizes as [|s rest]; [done|].
  destruct prior as [[mn mx]|]; eexists; (split; [done|]); by exists s, rest.
Qed.

(** C20: the configuration the branch and bound search finds puts the partitions, in
    order, into packets that are not too large and not empty, and no other such way
    to aggregate them has a lower cost: the spread of the packet sizes, the sizes of
    the earlier packets included, plus the penalty for every packet.  So cutting the
    search off loses nothing.  Costs are unbounded integers here: the code computes them
    in int, so this is about sizes and penalties whose costs fit one. *)
Theorem FindOptimalConfiguration_optimal {R} sizes prior max_size penalty :
  sizes <> [] -> sizes_ok max_size sizes -> 0 <= penalty ->
  let '(prior_min, prior_max) := default (INT_MAX, 0) prior in
  exists root cl g,
    prepared_root (R := R) sizes prior = Cont root /\
    grouping max_size sizes cl g /\
    FindOptimalConfiguration (R := R) root (length sizes) max_size penalty = Cont (number 0 (cl ++ [g])) /\
    forall cl' g', grouping max_size sizes cl' g' ->
      grouping_cost prior_min prior_max penalty (cl ++ [g])
      <= grouping_cost prior_min prior_max penalty (cl' ++ [g']).
Proof.
  intros H Hs Hp. destruct (prepared_root_at (R := R) sizes prior H) as (root & Hr & Ha).
  destruct (default (INT_MAX, 0) prior) as [mn mx].
  destruct (FindOptimalConfiguration_best (R := R) _ _ _ _ _ _ Ha Hs Hp) as (cl & g & B1 & B2 & B3).
  by exists root, cl, g.
Qed.

Lemma FindOptimalConfiguration_optimal_witness :
  exists root cl g,
    prepared_root (R := Z) [300; 200; 900; 100; 0] (Some (400, 600)) = Cont root /\
    grouping 1000 [300; 200; 900; 100; 0] cl g /\
    FindOptimalConfiguration (R := Z) root 5 1000 20 = Cont (number 0 (cl ++ [g])) /\
    forall cl' g', grouping 1000 [300; 200; 900; 100; 0] cl' g' ->
      grouping_cost 400 600 20 (cl ++ [g]) <= grouping_cost 400 600 20 (cl' ++ [g']).
Proof.
  apply (FindOptimalConfiguration_optimal [300; 200; 900; 100; 0] (Some (400, 600)) 1000 20);
    [done| |lia]. unfold sizes_ok. repeat constructor; lia.
Defined.

Example FindOptimalConfiguration_example :
  (let! root := prepared_root [300; 200; 900; 100; 0] None in
   FindOptimalConfiguration root 5 1000 20) = Cont (R := Z) [0; 0; 1; 1; 1].
Proof. reflexivity. Qed.

(** C24: the number of fragments of a large partition, with the bounds of the
    aggregates: the fragments fit the payload, all have bytes, and no number of
    fragments that fit has a lower cost. *)
Theorem CalcNumberOfFragments_optimal {R} size max_payload penalty min_size max_size :
  0 < size -> 0 < min_size <= max_payload -> 0 <= max_size -> 0 <= penalty ->
  min_size + size + size * penalty < INT_MAX ->
  exists n, CalcNumberOfFragments (R := R) size max_payload penalty min_size max_size = Cont n /\
    fragments_fit size max_payload n /\
    forall m, ceil_div size max_payload <= m <= ceil_div size min_size -> ceil_div size m <= max_payload ->
      fragments_cost size penalty min_size max_size n <= fragments_cost size penalty min_size max_size m.
Proof. intros. by apply CalcNumberOfFragments_cheapest. Qed.

Lemma CalcNumberOfFragments_optimal_witness :
  exists n, CalcNumberOfFragments (R := Z) 5000 1400 10 700 900 = Cont n /\
    fragments_fit 5000 1400 n /\
    forall m, ceil_div 5000 1400 <= m <= ceil_div 5000 700 -> ceil_div 5000 m <= 1400 ->
      fragments_cost 5000 10 700 900 n <= fragments_cost 5000 10 700 900 m.
Proof. apply (CalcNumberOfFragments_optimal 5000 1400 10 700 900); unfold INT_MAX; lia. Defined.

(** An aggregate without bytes makes the number of fragments a division by zero. *)
Lemma CalcNumberOfFragments_zero {R} size max_payload penalty max_size :
  0 < max_payload -> 0 <= max_size ->
  CalcNumberOfFragments (R := R) size max_payload penalty 0 max_size = Stuck.
Proof.
  intros Hm Hx. unfold CalcNumberOfFragments. rewrite int_div_Cont by lia. cbn [flow_bind].
  by destruct (Z.ltb_spec max_size 0); [lia|].
Qed.
