(* ===== verification/Vp8Packetizer.v ===== *)
(** * The VP8 packetizer

    Models RtpFormatVp8 of [modules/rtp_rtcp/source/rtp_format_vp8.cc]: how a frame is
    cut into packets in its three modes, and how the packets are fetched. *)
From S2P Require Import Prelude RtpWire RtpHeader Vp8Descriptor Vp8Aggregator.
Local Open Scope Z_scope.

Inductive VP8PacketizerMode : Type := kStrict | kAggregate | kEqualSize.

Inductive AggregationMode : Type := kAggrNone | kAggrPartitions | kAggrFragments.
#[export] Instance AggregationMode_eq_dec : EqDecision AggregationMode.
Proof. solve_decision. Defined.

Definition aggr_modes_ (mode : VP8PacketizerMode) : AggregationMode :=
  match mode with kStrict => kAggrNone | kAggregate => kAggrPartitions | kEqualSize => kAggrFragments end.
Definition balance_modes_ (mode : VP8PacketizerMode) : bool := true.
Definition separate_first_modes_ (mode : VP8PacketizerMode) : bool :=
  match mode with kStrict => true | _ => false end.

(** The offsets and lengths of the partitions; [num_partitions_] is their number. *)
Record RtpFormatVp8 : Type := mkRtpFormatVp8 {
  payload_data_ : list Z;
  payload_size_ : Z;
  aggr_mode_ : AggregationMode;
  balance_ : bool;
  separate_first_ : bool;
  hdr_info_ : RTPVideoHeaderVP8;
  fragmentationOffset : list Z;
  fragmentationLength : list Z;
  num_partitions_ : Z;
  max_payload_len_ : Z;
  packets_ : list InfoStruct;
  packets_calculated_ : bool
}.

Definition new_RtpFormatVp8 (payload_data : list Z) (payload_size : Z) (hdr_info : RTPVideoHeaderVP8)
  (max_payload_len : Z) (offsets lengths : list Z) (mode : VP8PacketizerMode) : RtpFormatVp8 :=
  mkRtpFormatVp8 payload_data payload_size (aggr_modes_ mode) (balance_modes_ mode)
    (separate_first_modes_ mode) hdr_info offsets lengths (Zlen lengths) max_payload_len [] false.

(** The constructor without fragmentation. *)
Definition new_RtpFormatVp8_whole (payload_data : list Z) (payload_size : Z)
  (hdr_info : RTPVideoHeaderVP8) (max_payload_len : Z) : RtpFormatVp8 :=
  mkRtpFormatVp8 payload_data payload_size (aggr_modes_ kEqualSize) (balance_modes_ kEqualSize)
    (separate_first_modes_ kEqualSize) hdr_info [0] [payload_size] 1 max_payload_len [] false.

Definition set_packets (self : RtpFormatVp8) (packets : list InfoStruct) (calculated : bool)
  : RtpFormatVp8 :=
  mkRtpFormatVp8 (payload_data_ self) (payload_size_ self) (aggr_mode_ self) (balance_ self)
    (separate_first_ self) (hdr_info_ self) (fragmentationOffset self) (fragmentationLength self)
    (num_partitions_ self) (max_payload_len_ self) packets calculated.

Definition QueuePacket (packets : list InfoStruct) (start_pos packet_size first_partition_in_packet : Z)
  (start_on_new_fragment : bool) : list InfoStruct :=
  packets ++ [mkInfoStruct start_pos packet_size start_on_new_fragment first_partition_in_packet].

(** ** Sizes

    The division of [double]s, rounded by adding one half, is exact for [int]s: the
    quotient is either an odd multiple of one half or farther from every such
    multiple than the rounding error. *)
Definition CalcNextSize (self : RtpFormatVp8) (max_payload_len remaining_bytes : Z)
  (split_payload : bool) : Z :=
  if (max_payload_len =? 0) || (remaining_bytes =? 0) then 0
  else if negb split_payload then
    if remaining_bytes <=? max_payload_len then remaining_bytes else 0
  else if balance_ self then
    let num_frags := Z.quot remaining_bytes max_payload_len + 1 in
    Z.quot (2 * remaining_bytes + num_frags) (2 * num_frags)
  else if remaining_bytes <=? max_payload_len then remaining_bytes else max_payload_len.

(** ** GeneratePackets *)

(** The bytes, the room and the rest of the partition, its index, and whether it
    may be split. *)
Record FillState : Type := mkFillState {
  packet_bytes : Z;
  rem_payload_len : Z;
  remaining_in_partition : Z;
  part_ix : Z;
  split_payload : bool
}.

(** Every turn that does not end the loop makes the room smaller. *)
Fixpoint fill_packet {R : Type} (fuel : nat) (self : RtpFormatVp8)
  (beginning start_on_new_fragment : bool) (st : FillState) : flow R FillState :=
  match fuel with
  | O => Stuck
  | S fuel =>
      let next_size := CalcNextSize self (rem_payload_len st) (remaining_in_partition st)
                         (split_payload st) in
      if next_size =? 0 then Cont st
      else
        let st := mkFillState (packet_bytes st + next_size) (rem_payload_len st - next_size)
                    (remaining_in_partition st - next_size) (part_ix st) (split_payload st) in
        if (remaining_in_partition st =? 0) && negb (beginning && separate_first_ self) then
          if (part_ix st + 1 <? num_partitions_ self)
             && ((if decide (aggr_mode_ self = kAggrFragments) then true else false)
                 || ((if decide (aggr_mode_ self = kAggrPartitions) then true else false)
                     && start_on_new_fragment))
          then
            let! len := rd (fragmentationLength self) (part_ix st + 1) in
            fill_packet fuel self beginning start_on_new_fragment
              (mkFillState (packet_bytes st) (rem_payload_len st) (s32 len) (part_ix st + 1)
                 (if decide (aggr_mode_ self = kAggrFragments) then true else false))
          else fill_packet fuel self beginning start_on_new_fragment st
        else if balance_ self && (0 <? remaining_in_partition st) then Cont st
        else fill_packet fuel self beginning start_on_new_fragment st
  end.

(** A turn sends bytes or passes an empty partition. *)
Fixpoint generate_loop {R : Type} (fuel : nat) (self : RtpFormatVp8) (total_bytes_processed : Z)
  (start_on_new_fragment beginning : bool) (ix : Z) (packets : list InfoStruct)
  : flow R (list InfoStruct) :=
  match fuel with
  | O => Stuck
  | S fuel =>
      if total_bytes_processed <? payload_size_ self then
        let! off := rd (fragmentationOffset self) ix in
        let! len := rd (fragmentationLength self) ix in
        let remaining := s32 (off - total_bytes_processed + len) in
        let room := max_payload_len_ self
                    - (vp8_fixed_payload_descriptor_bytes_ + PayloadDescriptorExtraLength (hdr_info_ self)) in
        let! st := fill_packet (S (Z.to_nat room)) self beginning start_on_new_fragment
                     (mkFillState 0 room remaining ix true) in
        let next_ix := if remaining_in_partition st =? 0 then part_ix st + 1 else part_ix st in
        generate_loop fuel self (total_bytes_processed + packet_bytes st)
          (remaining_in_partition st =? 0) false next_ix
          (QueuePacket packets total_bytes_processed (packet_bytes st) ix start_on_new_fragment)
      else Cont packets
  end.

Definition too_short (self : RtpFormatVp8) : bool :=
  max_payload_len_ self
  <? vp8_fixed_payload_descriptor_bytes_ + PayloadDescriptorExtraLength (hdr_info_ self) + 1.

Definition GeneratePackets {R : Type} (self : RtpFormatVp8) : flow R (Z * RtpFormatVp8) :=
  if too_short self then Cont (-1, self)
  else
    let! packets := generate_loop (S (Z.to_nat (payload_size_ self) + length (fragmentationLength self)))
                      self 0 true true 0 (packets_ self) in
    Cont (0, set_packets self packets true).

(** ** GeneratePacketsBalancedAggregates *)

(** The end of a set of small partitions. *)
Fixpoint last_small {R : Type} (fuel : nat) (self : RtpFormatVp8) (max_payload_len last_in_set : Z)
  : flow R Z :=
  match fuel with
  | O => Stuck
  | S fuel =>
      if last_in_set + 1 <? num_partitions_ self then
        let! len := rd (fragmentationLength self) (last_in_set + 1) in
        if len <? max_payload_len then last_small fuel self max_payload_len (last_in_set + 1)
        else Cont last_in_set
      else Cont last_in_set
  end.

Fixpoint aggregate_loop {R : Type} (fuel : nat) (self : RtpFormatVp8) (max_payload_len overhead : Z)
  (first_in_set num_aggregate_packets : Z) (partition_vec : list Z) (min_size max_size : Z)
  : flow R (list Z * Z * Z) :=
  match fuel with
  | O => Stuck
  | S fuel =>
      if first_in_set <? num_partitions_ self then
        let! len := rd (fragmentationLength self) first_in_set in
        if len <? max_payload_len then
          let! last_in_set := last_small (length (fragmentationLength self)) self max_payload_len
                                first_in_set in
          let n := last_in_set - first_in_set + 1 in
          let! sizes := blk_get (fragmentationLength self) first_in_set n in
          let sizes := s32 <$> sizes in
          let! root := CreateRootNode sizes in
          let root := if (0 <=? min_size) && (0 <=? max_size)
                      then SetPriorMinMax root min_size max_size else root in
          let! config := FindOptimalConfiguration root (Z.to_nat n) max_payload_len overhead in
          let '(min_size, max_size) := CalcMinMax config sizes min_size max_size in
          let! partition_vec :=
            blk_put partition_vec first_in_set ((fun c => num_aggregate_packets + c) <$> config) in
          let! back := rd config (Zlen config - 1) in
          aggregate_loop fuel self max_payload_len overhead (last_in_set + 1)
            (num_aggregate_packets + (back + 1)) partition_vec min_size max_size
        else
          aggregate_loop fuel self max_payload_len overhead (first_in_set + 1)
            num_aggregate_packets partition_vec min_size max_size
      else Cont (partition_vec, min_size, max_size)
  end.

Definition AggregateSmallPartitions {R : Type} (self : RtpFormatVp8) : flow R (list Z * Z * Z) :=
  let overhead := vp8_fixed_payload_descriptor_bytes_ + PayloadDescriptorExtraLength (hdr_info_ self) in
  let max_payload_len := max_payload_len_ self - overhead in
  aggregate_loop (S (length (fragmentationLength self))) self max_payload_len overhead 0 0
    (replicate (Z.to_nat (num_partitions_ self)) (-1)) (-1) (-1).

(** The fragments of a large partition. *)
Definition split_partition {R : Type} (ix num_fragments packet_bytes : Z)
  (st : Z * Z * (Z * Z) * list InfoStruct) : flow R (Z * Z * (Z * Z) * list InfoStruct) :=
  for_up (Z.to_nat num_fragments) 0 (fun n '(total, remaining, (min_size, max_size), packets) =>
    let this_packet_bytes := if packet_bytes <? remaining then packet_bytes else remaining in
    Cont (total + this_packet_bytes, remaining - this_packet_bytes,
          (if this_packet_bytes <? min_size then this_packet_bytes else min_size,
           if max_size <? this_packet_bytes then this_packet_bytes else max_size),
          QueuePacket packets total this_packet_bytes ix (n =? 0))) st.

(** The partitions of one aggregate: their bytes, and the index after them. *)
Fixpoint collect_aggregate {R : Type} (fuel : nat) (self : RtpFormatVp8) (partition_decision : list Z)
  (aggregation_index ix this_packet_bytes : Z) : flow R (Z * Z) :=
  match fuel with
  | O => Stuck
  | S fuel =>
      if ix <? Zlen partition_decision then
        let! d := rd partition_decision ix in
        if d =? aggregation_index then
          let! len := rd (fragmentationLength self) ix in
          collect_aggregate fuel self partition_decision aggregation_index (ix + 1)
            (s32 (this_packet_bytes + len))
        else Cont (this_packet_bytes, ix)
      else Cont (this_packet_bytes, ix)
  end.

Fixpoint balanced_loop {R : Type} (fuel : nat) (self : RtpFormatVp8) (partition_decision : list Z)
  (overhead max_payload_len : Z) (ix total_bytes_processed min_size max_size : Z)
  (packets : list InfoStruct) : flow R (list InfoStruct) :=
  match fuel with
  | O => Stuck
  | S fuel =>
      if ix <? num_partitions_ self then
        let! d := rd partition_decision ix in
        if d =? -1 then
          let! len := rd (fragmentationLength self) ix in
          let remaining_partition := s32 len in
          let! num_fragments := CalcNumberOfFragments remaining_partition max_payload_len overhead
                                  min_size max_size in
          let! packet_bytes := int_div (remaining_partition + num_fragments - 1) num_fragments in
          let! (total, remaining, (min_size, max_size), packets) :=
            split_partition ix num_fragments packet_bytes
              (total_bytes_processed, remaining_partition, (min_size, max_size), packets) in
          balanced_loop fuel self partition_decision overhead max_payload_len (ix + 1) total
            min_size max_size packets
        else
          let! (this_packet_bytes, next_ix) :=
            collect_aggregate (S (length partition_decision)) self partition_decision d ix 0 in
          balanced_loop fuel self partition_decision overhead max_payload_len next_ix
            (total_bytes_processed + this_packet_bytes) min_size max_size
            (QueuePacket packets total_bytes_processed this_packet_bytes ix true)
      else Cont packets
  end.

Definition GeneratePacketsBalancedAggregates {R : Type} (self : RtpFormatVp8)
  : flow R (Z * RtpFormatVp8) :=
  if too_short self then Cont (-1, self)
  else
    let overhead := vp8_fixed_payload_descriptor_bytes_ + PayloadDescriptorExtraLength (hdr_info_ self) in
    let max_payload_len := max_payload_len_ self - overhead in
    let! (partition_decision, min_size, max_size) := AggregateSmallPartitions self in
    let! packets := balanced_loop (S (length (fragmentationLength self))) self partition_decision
                      overhead max_payload_len 0 0 min_size max_size (packets_ self) in
    Cont (0, set_packets self packets true).

(** ** NextPacket *)

(** The result with the buffer, the bytes to send and whether the packet is the
    last; those two are [None] where the code does not set them. *)
Definition NextPacket {R : Type} (self : RtpFormatVp8) (buffer : list Z)
  : flow R (Z * list Z * option Z * option bool * RtpFormatVp8) :=
  let! (ret, self) :=
    if negb (packets_calculated_ self) then
      if (if decide (aggr_mode_ self = kAggrPartitions) then true else false) && balance_ self
      then GeneratePacketsBalancedAggregates self
      else GeneratePackets self
    else Cont (0, self) in
  if ret <? 0 then Cont (ret, buffer, None, None, self)
  else
    match packets_ self with
    | [] => Cont (-1, buffer, None, None, self)
    | packet_info :: rest =>
        let self := set_packets self rest (packets_calculated_ self) in
        let! (bytes_to_send, buffer) :=
          WriteHeaderAndPayload (hdr_info_ self) (payload_data_ self) packet_info buffer
            (max_payload_len_ self) in
        if bytes_to_send <? 0 then Cont (-1, buffer, Some bytes_to_send, None, self)
        else Cont (first_partition_ix packet_info, buffer, Some bytes_to_send,
                   Some (match rest with [] => true | _ => false end), self)
    end.

(** ** Frames and their packets *)

(** The room of a packet for its payload. *)
Definition overhead_of (self : RtpFormatVp8) : Z :=
  vp8_fixed_payload_descriptor_bytes_ + PayloadDescriptorExtraLength (hdr_info_ self).
Definition room_of (self : RtpFormatVp8) : Z := max_payload_len_ self - overhead_of self.

(** Where partition [ix] starts. *)
Definition part_start (self : RtpFormatVp8) (ix : Z) : Z := total (ztake ix (fragmentationLength self)).

(** The partitions follow each other, none is empty, and they are the payload. *)
Record frame_ok (self : RtpFormatVp8) : Prop := mkFrameOk {
  frame_count : num_partitions_ self = Zlen (fragmentationLength self);
  frame_offsets : fragmentationOffset self = part_start self <$> seqZ 0 (num_partitions_ self);
  frame_lengths : Forall (fun s => 0 < s) (fragmentationLength self);
  frame_size : payload_size_ self = total (fragmentationLength self);
  frame_data : payload_size_ self = Zlen (payload_data_ self);
  frame_int : payload_size_ self < 2147483648;
  frame_room : 1 <= room_of self
}.

(** The packets take the bytes from [a] to [b] in order. *)
Fixpoint tiles (a : Z) (packets : list InfoStruct) (b : Z) : Prop :=
  match packets with
  | [] => a = b
  | p :: packets => payload_start_pos p = a /\ tiles (a + info_size p) packets b
  end.

(** With partitions of two bytes and more the packets say exactly when they start a
    partition. *)
Definition roomy (self : RtpFormatVp8) : Prop :=
  2 <= room_of self /\ Forall (fun s => 2 <= s) (fragmentationLength self).

Record packet_ok (self : RtpFormatVp8) (p : InfoStruct) : Prop := mkPacketOk {
  packet_fits : 0 < info_size p <= room_of self;
  packet_part : 0 <= first_partition_ix p < num_partitions_ self;
  packet_inside : part_start self (first_partition_ix p) <= payload_start_pos p
                  < part_start self (first_partition_ix p + 1);
  packet_flag : first_fragment p = true -> payload_start_pos p = part_start self (first_partition_ix p);
  packet_flag_back : roomy self -> payload_start_pos p = part_start self (first_partition_ix p) ->
    first_fragment p = true
}.

Lemma tiles_app a ps qs b c : tiles a ps b -> tiles b qs c -> tiles a (ps ++ qs) c.
Proof. revert a. induction ps as [|p ps IH]; simpl; intros a H1 H2; [by subst|]. destruct H1 as [H1 H3]. split; [done|]. by apply IH. Qed.

Section frame.
Context (self : RtpFormatVp8) (Hok : frame_ok self).

Lemma part_start_0 : part_start self 0 = 0.
Proof. done. Qed.

Lemma part_start_S ix :
  0 <= ix < num_partitions_ self -> part_start self (ix + 1) = part_start self ix + fragmentationLength self !!! Z.to_nat ix.
Proof.
  intros H. rewrite (frame_count _ Hok) in H. unfold part_start.
  rewrite ztake_snoc by lia. rewrite total_app. unfold total at 2. simpl. lia.
Qed.

Lemma part_start_end : part_start self (num_partitions_ self) = payload_size_ self.
Proof.
  unfold part_start. rewrite (frame_count _ Hok), ztake_all by lia. by rewrite (frame_size _ Hok).
Qed.

Lemma lens_pos ix : 0 <= ix < num_partitions_ self -> 0 < fragmentationLength self !!! Z.to_nat ix.
Proof.
  intros H. apply (Forall_total (fun s => 0 < s)); [apply (frame_lengths _ Hok)|].
  rewrite (frame_count _ Hok) in H. unfold Zlen in H. lia.
Qed.

Lemma part_start_mono i j : 0 <= i -> i <= j <= num_partitions_ self -> part_start self i <= part_start self j.
Proof.
  intros Hi Hj. replace j with (i + Z.of_nat (Z.to_nat (j - i))) by lia.
  assert (Hk : Z.of_nat (Z.to_nat (j - i)) <= num_partitions_ self - i) by lia. revert Hk.
  induction (Z.to_nat (j - i)) as [|k IH]; intros Hk; [by rewrite Z.add_0_r|].
  replace (i + Z.of_nat (S k)) with (i + Z.of_nat k + 1) by lia.
  rewrite part_start_S by lia. assert (H := lens_pos (i + Z.of_nat k) ltac:(lia)). specialize (IH ltac:(lia)). lia.
Qed.

Lemma part_start_range ix : 0 <= ix <= num_partitions_ self -> 0 <= part_start self ix <= payload_size_ self.
Proof.
  intros H. rewrite <- part_start_0, <- part_start_end. split; apply part_start_mono; lia.
Qed.

Lemma len_range ix : 0 <= ix < num_partitions_ self -> is_s32 (fragmentationLength self !!! Z.to_nat ix).
Proof.
  intros H. assert (A := lens_pos _ H). assert (B := part_start_S _ H).
  assert (C := part_start_range ix ltac:(lia)). assert (D := part_start_range (ix + 1) ltac:(lia)).
  assert (E := frame_int _ Hok). unfold is_s32. lia.
Qed.

Lemma rd_len {R} ix :
  0 <= ix < num_partitions_ self -> rd (R := R) (fragmentationLength self) ix = Cont (fragmentationLength self !!! Z.to_nat ix).
Proof. intros H. rewrite (frame_count _ Hok) in H. by rewrite rd_total by lia. Qed.

Lemma rd_off {R} ix :
  0 <= ix < num_partitions_ self -> rd (R := R) (fragmentationOffset self) ix = Cont (part_start self ix).
Proof.
  intros H. apply rd_Cont; [lia|]. rewrite (frame_offsets _ Hok), list_lookup_fmap.
  rewrite (proj2 (lookup_seqZ 0 _ _ (0 + Z.of_nat (Z.to_nat ix)))) by lia. simpl. f_equal. f_equal. lia.
Qed.

(** ** Sizes of the parts of a partition *)

Lemma CalcNextSize_balanced room rem :
  balance_ self = true -> 0 < room -> 0 < rem ->
  let n := CalcNextSize self room rem true in
  1 <= n <= room /\ n <= rem /\ (n = rem -> rem < room \/ rem = 1 /\ room = 1).
Proof.
  intros Hb Hr Hm. cbv zeta. unfold CalcNextSize. rewrite Hb. cbn [negb].
  destruct (Z.eqb_spec room 0), (Z.eqb_spec rem 0); try lia. cbn [orb].
  rewrite (Z.quot_div_nonneg rem room) by lia. set (f := rem / room + 1).
  assert (Hf : (f - 1) * room <= rem < f * room /\ 1 <= f).
  { subst f. assert (K := Z.div_mod rem room ltac:(lia)). assert (L := Z.mod_pos_bound rem room ltac:(lia)).
    assert (M := Z.div_pos rem room ltac:(lia) ltac:(lia)). nia. }
  clearbody f. rewrite Z.quot_div_nonneg by lia.
  set (q := (2 * rem + f) / (2 * f)). assert (Hn : 2 * f * q <= 2 * rem + f < 2 * f * (q + 1)).
  { subst q. assert (K := Z.div_mod (2 * rem + f) (2 * f) ltac:(lia)).
    assert (L := Z.mod_pos_bound (2 * rem + f) (2 * f) ltac:(lia)). nia. }
  clearbody q. assert (f - 1 <= rem) by nia. assert (1 <= q) by nia. assert (q <= room) by nia.
  assert (q <= rem) by nia. split_and!; try done. intros ->.
  destruct (Z.lt_ge_cases rem room) as [|Hge]; [by left|right].
  assert (2 <= f) by nia. assert (rem = 1) by nia. lia.
Qed.

(** ** Filling a packet

    The packet from [start], first partition [ix], as far as it is filled. *)
Record filled (start ix : Z) (st : FillState) : Prop := mkFilled {
  filled_part : ix <= part_ix st < num_partitions_ self;
  filled_rem : remaining_in_partition st = part_start self (part_ix st + 1) - (start + packet_bytes st);
  filled_in : part_start self (part_ix st) <= start + packet_bytes st <= part_start self (part_ix st + 1);
  filled_room : rem_payload_len st = room_of self - packet_bytes st;
  filled_bytes : 0 <= packet_bytes st <= room_of self;
  filled_split : split_payload st = true;
  filled_one : aggr_mode_ self = kAggrNone -> part_ix st = ix
}.

(** Before a turn of the loop. *)
Definition turn_ready (start : Z) (st : FillState) : Prop :=
  (packet_bytes st = 0 -> 0 < remaining_in_partition st /\ 0 < rem_payload_len st) /\
  (packet_bytes st = 0 \/ start + packet_bytes st = part_start self (part_ix st) \/ remaining_in_partition st = 0) /\
  (roomy self -> remaining_in_partition st = 0 \/ 0 < rem_payload_len st).

(** When the loop ends. *)
Definition packet_full (start ix : Z) (st : FillState) : Prop :=
  filled start ix st /\ 0 < packet_bytes st /\
  (roomy self -> remaining_in_partition st = 0 \/ part_start self (part_ix st) < start + packet_bytes st).

Definition take_bytes (st : FillState) (n : Z) : FillState :=
  mkFillState (packet_bytes st + n) (rem_payload_len st - n)
    (remaining_in_partition st - n) (part_ix st) true.

Definition next_partition (st : FillState) : FillState :=
  mkFillState (packet_bytes st) (rem_payload_len st) (fragmentationLength self !!! Z.to_nat (part_ix st + 1))
    (part_ix st + 1) true.

Lemma take_filled start ix st n :
  filled start ix st -> 0 <= n <= remaining_in_partition st -> n <= rem_payload_len st ->
  filled start ix (take_bytes st n).
Proof.
  intros [F1 F2 F3 F4 F5 F6 F7] H1 H2. unfold take_bytes.
  split; cbn [part_ix packet_bytes rem_payload_len remaining_in_partition split_payload]; done || lia.
Qed.

Lemma next_filled start ix st :
  filled start ix st -> 0 <= ix -> remaining_in_partition st = 0 -> part_ix st + 1 < num_partitions_ self ->
  aggr_mode_ self = kAggrFragments -> filled start ix (next_partition st).
Proof.
  intros [F1 F2 F3 F4 F5 F6 F7] Hix H1 H2 Ha. unfold next_partition.
  assert (H3 := part_start_S (part_ix st + 1) ltac:(lia)). assert (H4 := lens_pos (part_ix st + 1) ltac:(lia)).
  split; cbn [part_ix packet_bytes rem_payload_len remaining_in_partition split_payload]; try done || lia.
  rewrite Ha. done.
Qed.

Lemma part_two ix : roomy self -> 0 <= ix < num_partitions_ self -> 2 <= fragmentationLength self !!! Z.to_nat ix.
Proof.
  intros [_ H] Hi. apply (Forall_total (fun s => 2 <= s)); [done|]. rewrite (frame_count _ Hok) in Hi.
  unfold Zlen in Hi. lia.
Qed.

(** A turn that takes the rest of a partition leaves room, partitions of one byte
    apart. *)
Lemma rest_leaves_room start ix st :
  roomy self -> filled start ix st -> 0 <= ix -> turn_ready start st ->
  ~ (remaining_in_partition st = 1 /\ rem_payload_len st = 1).
Proof.
  intros Hr [F1 F2 F3 F4 F5 F6 F7] Hix (T1 & T2 & T3) [H1 H2].
  assert (A := part_start_S (part_ix st) ltac:(lia)). assert (B := part_two (part_ix st) Hr ltac:(lia)).
  destruct Hr as [Hr _]. lia.
Qed.

Lemma fill_packet_full {R} fuel beginning flag start ix st :
  balance_ self = true -> aggr_mode_ self <> kAggrPartitions -> 0 <= ix ->
  filled start ix st -> turn_ready start st -> rem_payload_len st < Z.of_nat fuel ->
  exists st', fill_packet (R := R) fuel self beginning flag st = Cont st' /\ packet_full start ix st'.
Proof.
  intros Hb Ha Hix. revert st. induction fuel as [|fuel IH]; intros st Hf Ht Hfuel.
  { destruct Hf. lia. }
  cbn [fill_packet]. assert (Hf' := Hf). destruct Hf' as [F1 F2 F3 F4 F5 F6 F7].
  assert (Ht' := Ht). destruct Ht' as (T1 & T2 & T3). rewrite F6.
  destruct (Z.eq_dec (remaining_in_partition st) 0) as [Hz|Hz].
  { unfold CalcNextSize. rewrite Hz, Z.eqb_refl, orb_true_r. simpl.
    exists st. split; [done|]. split; [done|]. split; [lia|]. by left. }
  destruct (Z.eq_dec (rem_payload_len st) 0) as [Hz'|Hz'].
  { unfold CalcNextSize. rewrite Hz'. simpl. exists st. split; [done|]. split; [done|]. split; [lia|].
    intros Hr. specialize (T3 Hr). lia. }
  assert (Hn := CalcNextSize_balanced (rem_payload_len st) (remaining_in_partition st) Hb ltac:(lia) ltac:(lia)).
  cbv zeta in Hn. set (n := CalcNextSize self _ _ true) in *. clearbody n. destruct Hn as (N1 & N2 & N3).
  destruct (Z.eqb_spec n 0); [lia|]. fold (take_bytes st n).
  assert (Hf1 := take_filled start ix st n Hf ltac:(lia) ltac:(lia)).
  assert (Hrest : roomy self -> n = remaining_in_partition st -> 0 < rem_payload_len st - n).
  { intros Hr E. destruct (N3 E) as [|Hc]; [lia|]. exfalso.
    by apply (rest_leaves_room start ix st). }
  assert (Hready : remaining_in_partition (take_bytes st n) = 0 -> turn_ready start (take_bytes st n))
    by (intros E; unfold turn_ready; simpl in *; split_and!; [lia|auto|intros Hr; by left]).
  assert (Hgo : remaining_in_partition (take_bytes st n) = 0 ->
    exists st', fill_packet (R := R) fuel self beginning flag (take_bytes st n) = Cont st' /\ packet_full start ix st').
  { intros E. apply IH; [done|by apply Hready|simpl; lia]. }
  destruct (Z.eqb_spec (remaining_in_partition (take_bytes st n)) 0) as [E|E]; cbn [andb].
  - simpl in E. destruct (negb (beginning && separate_first_ self)).
    + change (part_ix (take_bytes st n)) with (part_ix st).
      destruct (Z.ltb_spec (part_ix st + 1) (num_partitions_ self)) as [Hl|]; [|by apply Hgo]. cbn [andb].
      destruct (decide (aggr_mode_ self = kAggrFragments)) as [Hag|Hag].
      * cbn [orb]. rewrite rd_len by lia. cbn [flow_bind].
        rewrite s32_id by (apply len_range; lia). 
        match goal with |- context [fill_packet fuel self beginning flag ?s] =>
          change s with (next_partition (take_bytes st n)) end.
        apply IH; [apply next_filled; simpl; done || lia| |simpl; lia].
        assert (L := lens_pos (part_ix st + 1) ltac:(lia)). unfold turn_ready. simpl. split_and!; [lia| |].
        -- right. left. lia.
        -- intros Hr. right. apply Hrest; [done|lia].
      * rewrite decide_False by done. cbn [orb andb]. by apply Hgo.
    + destruct (Z.ltb_spec 0 (remaining_in_partition (take_bytes st n))); [simpl in *; lia|].
      rewrite andb_false_r. by apply Hgo.
  - destruct (Z.ltb_spec 0 (remaining_in_partition (take_bytes st n))); [|simpl in *; lia].
    rewrite Hb. cbn [andb]. exists (take_bytes st n). split; [done|]. split; [done|].
    simpl. split; [lia|]. intros _. right. lia.
Qed.

(** ** All packets *)

(** Where a packet may start: in partition [ix], with the flag that says whether
    at its start. *)
Definition at_pos (pos ix : Z) (flag : bool) : Prop :=
  pos = payload_size_ self \/
  (0 <= ix < num_partitions_ self /\ part_start self ix <= pos < part_start self (ix + 1) /\
   (flag = true -> pos = part_start self ix) /\
   (roomy self -> pos = part_start self ix -> flag = true)).

Lemma at_pos_next pos ix st :
  0 <= ix -> packet_full pos ix st ->
  at_pos (pos + packet_bytes st)
    (if remaining_in_partition st =? 0 then part_ix st + 1 else part_ix st)
    (remaining_in_partition st =? 0).
Proof.
  intros Hix ([F1 F2 F3 F4 F5 F6 F7] & H1 & H2). unfold at_pos.
  destruct (Z.eqb_spec (remaining_in_partition st) 0) as [E|E].
  - destruct (Z.eq_dec (part_ix st + 1) (num_partitions_ self)) as [Ee|Ee].
    + left. rewrite <- part_start_end, <- Ee. lia.
    + right. assert (A := part_start_S (part_ix st + 1) ltac:(lia)).
      assert (B := lens_pos (part_ix st + 1) ltac:(lia)). split_and!; lia || (intros; lia || done).
  - right. split; [lia|]. split; [lia|]. split; [done|]. intros Hr Hp. destruct (H2 Hr); lia.
Qed.

(** Packets of one partition each. *)
Definition in_one (p : InfoStruct) : Prop :=
  payload_start_pos p + info_size p <= part_start self (first_partition_ix p + 1).

Definition packets_good (a : Z) (ps : list InfoStruct) (b : Z) : Prop :=
  tiles a ps b /\ Forall (packet_ok self) ps /\ (aggr_mode_ self = kAggrNone -> Forall in_one ps).

Lemma fill_ready {R} beginning pos ix flag :
  balance_ self = true -> aggr_mode_ self <> kAggrPartitions -> at_pos pos ix flag -> pos < payload_size_ self ->
  exists st, fill_packet (R := R) (S (Z.to_nat (room_of self))) self beginning flag
      (mkFillState 0 (room_of self) (part_start self (ix + 1) - pos) ix true) = Cont st /\
    packet_full pos ix st /\
    packet_ok self (mkInfoStruct pos (packet_bytes st) flag ix) /\
    (aggr_mode_ self = kAggrNone -> in_one (mkInfoStruct pos (packet_bytes st) flag ix)).
Proof.
  intros Hb Ha [->|(P1 & P2 & P3 & P4)] Hp; [lia|]. assert (Hr := frame_room _ Hok).
  destruct (fill_packet_full (R := R) (S (Z.to_nat (room_of self))) beginning flag pos ix
    (mkFillState 0 (room_of self) (part_start self (ix + 1) - pos) ix true)) as (st & E & Hst);
    try done; try lia.
  - split; simpl; try done || lia.
  - unfold turn_ready; simpl; split_and!; lia.
  - simpl. lia.
  - exists st. split; [done|]. split; [done|]. destruct Hst as ([F1 F2 F3 F4 F5 F6 F7] & H1 & _).
    split; [by split; simpl; try done; lia|]. intros Hn. unfold in_one. simpl. rewrite (F7 Hn) in *. lia.
Qed.

Lemma generate_loop_good {R} fuel pos flag beginning ix packets :
  balance_ self = true -> aggr_mode_ self <> kAggrPartitions ->
  at_pos pos ix flag -> 0 <= pos <= payload_size_ self -> payload_size_ self - pos < Z.of_nat fuel ->
  exists ps, generate_loop (R := R) fuel self pos flag beginning ix packets = Cont (packets ++ ps) /\
    packets_good pos ps (payload_size_ self) /\
    (forall p, head ps = Some p -> first_fragment p = flag /\ first_partition_ix p = ix).
Proof.
  intros Hb Ha. revert pos flag beginning ix packets.
  induction fuel as [|fuel IH]; intros pos flag beginning ix packets Hat Hpos Hfuel; [lia|].
  cbn [generate_loop]. destruct (Z.ltb_spec pos (payload_size_ self)) as [Hlt|Hge].
  2: { exists []. rewrite app_nil_r. split; [done|]. split; [|done]. split_and!; [simpl; lia|done|done]. }
  destruct (fill_ready (R := R) beginning pos ix flag Hb Ha Hat Hlt) as (st & E & Hfull & Hp & Hone).
  destruct Hat as [|(P1 & P2 & _ & _)]; [lia|].
  rewrite rd_off, rd_len by lia. cbn [flow_bind].
  assert (Hs := part_start_S ix P1). assert (He := part_start_range (ix + 1) ltac:(lia)).
  rewrite s32_id by (assert (I := frame_int _ Hok); unfold is_s32; lia).
  replace (part_start self ix - pos + fragmentationLength self !!! Z.to_nat ix)
    with (part_start self (ix + 1) - pos) by lia.
  fold (overhead_of self). fold (room_of self). rewrite E. cbn [flow_bind].
  assert (Hnext := at_pos_next pos ix st ltac:(lia) Hfull).
  destruct Hfull as ([F1 F2 F3 F4 F5 F6 F7] & F8 & _).
  assert (Hend := part_start_range (part_ix st + 1) ltac:(lia)).
  destruct (IH _ (remaining_in_partition st =? 0) false
    (if remaining_in_partition st =? 0 then part_ix st + 1 else part_ix st)
    (QueuePacket packets pos (packet_bytes st) ix flag) Hnext) as (ps & E' & (G1 & G2 & G3) & _); [lia..|].
  rewrite E'. unfold QueuePacket. rewrite <- app_assoc. eexists. split; [done|].
  split; [|by intros p [= <-]]. split_and!; [done|by constructor|]. intros Hn. constructor; auto.
Qed.
End frame.

(** The packets of a mode without aggregation of whole partitions. *)
Lemma GeneratePackets_good {R} self :
  frame_ok self -> balance_ self = true -> aggr_mode_ self <> kAggrPartitions -> packets_ self = [] ->
  exists ps, GeneratePackets (R := R) self = Cont (0, set_packets self ps true) /\
    packets_good self 0 ps (payload_size_ self) /\
    (forall p, head ps = Some p -> first_fragment p = true /\ first_partition_ix p = 0).
Proof.
  intros Hok Hb Ha Hp. unfold GeneratePackets.
  assert (Hs : too_short self = false).
  { unfold too_short. assert (H := frame_room _ Hok). unfold room_of, overhead_of in H.
    apply Z.ltb_ge. lia. }
  rewrite Hs, Hp. assert (H0 : 0 <= payload_size_ self) by (rewrite (frame_data _ Hok); apply Zlen_nonneg).
  destruct (generate_loop_good self Hok (R := R)
    (S (Z.to_nat (payload_size_ self) + length (fragmentationLength self))) 0 true true 0 []) as (ps & E & G & Gh);
    try done; try lia.
  - destruct (Z.eq_dec (num_partitions_ self) 0) as [E|E].
    + left. rewrite <- (part_start_end self Hok), E. done.
    + right. assert (Hc := frame_count _ Hok). assert (Hn := Zlen_nonneg (fragmentationLength self)).
      assert (A := part_start_S self Hok 0 ltac:(lia)). assert (B := lens_pos self Hok 0 ltac:(lia)).
      rewrite part_start_0 in *. split_and!; lia || done.
  - rewrite E. cbn [flow_bind]. by exists ps.
Qed.

(** ** Claims *)

(** C21: without aggregation of whole partitions (the strict and the equal size mode)
    GeneratePackets ends with success, and its packets are the bytes of the frame in
    order without gap or overlap.  Every packet has bytes and fits, is marked with
    the partition that it starts in, and is flagged as a start only where a
    partition starts; in a frame without partitions and rooms of one byte all starts
    are flagged.  In the strict mode no packet has bytes of two partitions. *)
Theorem GeneratePackets_tiles {R} self :
  frame_ok self -> balance_ self = true -> aggr_mode_ self <> kAggrPartitions -> packets_ self = [] ->
  exists ps, GeneratePackets (R := R) self = Cont (0, set_packets self ps true) /\
    tiles 0 ps (payload_size_ self) /\ Forall (packet_ok self) ps /\
    (aggr_mode_ self = kAggrNone -> Forall (in_one self) ps).
Proof.
  intros Hok Hb Ha Hp. destruct (GeneratePackets_good (R := R) self Hok Hb Ha Hp) as (ps & E & (G1 & G2 & G3) & _).
  by exists ps.
Qed.

Lemma frame_ok_intro self :
  num_partitions_ self = Zlen (fragmentationLength self) ->
  fragmentationOffset self = part_start self <$> seqZ 0 (num_partitions_ self) ->
  forallb (fun s => 0 <? s) (fragmentationLength self) = true ->
  (payload_size_ self =? total (fragmentationLength self)) = true ->
  (payload_size_ self =? Zlen (payload_data_ self)) = true ->
  (payload_size_ self <? 2147483648) && (1 <=? room_of self) = true -> frame_ok self.
Proof.
  intros H1 H2 H3 H4 H5 H6. rewrite andb_true_iff in H6. destruct H6 as [H6 H7].
  split; try done; try lia. apply Forall_forall. intros s Hs. rewrite forallb_forall in H3.
  assert (K := H3 s ltac:(by apply list_elem_of_In)). lia.
Qed.

Definition ex_header : RTPVideoHeaderVP8 := mkRTPVideoHeaderVP8 false 300 17 2 true 5 0 false.

Definition ex_strict : RtpFormatVp8 :=
  new_RtpFormatVp8 (replicate 60 7) 60 ex_header 30 [0; 25; 28] [25; 3; 32] kStrict.

Lemma GeneratePackets_tiles_witness :
  exists ps, GeneratePackets (R := Z) ex_strict = Cont (0, set_packets ex_strict ps true) /\
    tiles 0 ps 60 /\ Forall (packet_ok ex_strict) ps /\
    (aggr_mode_ ex_strict = kAggrNone -> Forall (in_one ex_strict) ps).
Proof. apply (GeneratePackets_tiles ex_strict); [by apply frame_ok_intro|done|done|done]. Defined.

(** The start of a partition that is not flagged: the partition before has one byte,
    and it takes the last of the room. *)
Definition ex_unflagged : RtpFormatVp8 :=
  new_RtpFormatVp8 (replicate 20 7) 20 InitRTPVideoHeaderVP8 11 [0; 9; 10] [9; 1; 10] kEqualSize.

Example start_not_flagged :
  GeneratePackets (R := Z) ex_unflagged
  = Cont (0, set_packets ex_unflagged
      [mkInfoStruct 0 10 true 0; mkInfoStruct 10 5 false 2; mkInfoStruct 15 5 false 2] true).
Proof. vm_compute. reflexivity. Qed.
