(* ===== verification/Vp8Balanced.v ===== *)
(** * Packets with balanced aggregates

    What the aggregate mode of [modules/rtp_rtcp/source/rtp_format_vp8.cc] produces:
    AggregateSmallPartitions decides which small partitions share a packet,
    GeneratePacketsBalancedAggregates cuts the large ones. *)
From S2P Require Import Prelude RtpWire Vp8Descriptor Vp8Aggregator Vp8Packetizer.
Local Open Scope Z_scope.

(** ** Decisions

    A frame as aggregates of small partitions and large partitions. *)
Inductive chunk : Type := Aggregate (g : list Z) | Large (s : Z).

Definition chunk_sizes (c : chunk) : list Z := match c with Aggregate g => g | Large s => [s] end.
Definition flat (cs : list chunk) : list Z := concat (chunk_sizes <$> cs).

(** The vector of decisions, and the number of the next aggregate. *)
Fixpoint decisions (k : Z) (cs : list chunk) : list Z :=
  match cs with
  | [] => []
  | Aggregate g :: cs => replicate (length g) k ++ decisions (k + 1) cs
  | Large _ :: cs => -1 :: decisions k cs
  end.

Fixpoint next_number (k : Z) (cs : list chunk) : Z :=
  match cs with
  | [] => k
  | Aggregate _ :: cs => next_number (k + 1) cs
  | Large _ :: cs => next_number k cs
  end.

Definition chunk_ok (room : Z) (c : chunk) : Prop :=
  match c with
  | Aggregate g => g <> [] /\ 0 < total g <= room
  | Large s => room <= s
  end.

Lemma flat_app a b : flat (a ++ b) = flat a ++ flat b.
Proof. unfold flat. by rewrite fmap_app, concat_app. Qed.

Lemma flat_aggregates gs : flat (Aggregate <$> gs) = concat gs.
Proof. unfold flat. by rewrite <- list_fmap_compose, list_fmap_id. Qed.

Lemma decisions_app k a b : decisions k (a ++ b) = decisions k a ++ decisions (next_number k a) b.
Proof.
  revert k. induction a as [|[g|s] a IH]; intros k; simpl; [done| |by rewrite IH].
  by rewrite IH, app_assoc.
Qed.

Lemma next_number_app k a b : next_number k (a ++ b) = next_number (next_number k a) b.
Proof. revert k. by induction a as [|[g|s] a IH]; intros k; simpl. Qed.

Lemma decisions_aggregates k gs : decisions k (Aggregate <$> gs) = number k gs.
Proof. revert k. induction gs as [|g gs IH]; intros k; simpl; [done|by rewrite IH]. Qed.

Lemma next_number_aggregates k gs : next_number k (Aggregate <$> gs) = k + Zlen gs.
Proof.
  revert k. induction gs as [|g gs IH]; intros k; simpl; [by rewrite Z.add_0_r|].
  rewrite IH, Zlen_cons. lia.
Qed.

Lemma decisions_length k cs : length (decisions k cs) = length (flat cs).
Proof.
  revert k. induction cs as [|[g|s] cs IH]; intros k; simpl; [done| |].
  - rewrite length_app, length_replicate, IH. unfold flat. simpl. by rewrite length_app.
  - rewrite IH. done.
Qed.

Lemma number_shift k gs : (fun c => k + c) <$> number 0 gs = number k gs.
Proof.
  assert (H : forall j, (fun c => k + c) <$> number j gs = number (k + j) gs).
  { induction gs as [|g gs IH]; intros j; simpl; [done|]. rewrite fmap_app, fmap_replicate, IH.
    by rewrite Z.add_assoc. }
  rewrite H. by rewrite Z.add_0_r.
Qed.

Lemma rd_number_last {R} cl g :
  g <> [] -> rd (R := R) (number 0 (cl ++ [g])) (Zlen (number 0 (cl ++ [g])) - 1) = Cont (Zlen cl).
Proof.
  intros Hg. destruct (exists_last Hg) as (h & s & ->). rewrite number_grow, rd_app.
  - by rewrite Z.add_0_l.
  - rewrite Zlen_app. change (Zlen [0 + Zlen cl]) with 1. lia.
Qed.

(** ** Bounds of the packet sizes *)

Definition bounds_ok (room min_size max_size : Z) : Prop :=
  min_size < 0 \/ 0 < min_size <= room /\ 0 <= max_size.

Lemma foldl_min_bounds l a room :
  Forall (fun t => 0 < t <= room) l -> l <> [] -> 0 < a -> 0 < foldl Z.min a l <= room.
Proof.
  intros Hl Hn Ha. destruct (exists_last Hn) as (l' & t & ->). apply Forall_app in Hl as [Hl' Ht].
  inversion Ht; subst. rewrite foldl_app. simpl. assert (0 < foldl Z.min a l'); [|lia].
  clear Hn Ht. revert a Ha. induction Hl' as [|x l' Hx _ IH]; simpl; intros a Ha; [done|]. apply IH. lia.
Qed.

Lemma foldl_max_le l a : a <= foldl Z.max a l.
Proof. revert a. induction l as [|x l IH]; simpl; intros a; [lia|]. specialize (IH (Z.max a x)). lia. Qed.

Lemma CalcMinMax_bounds gs room mn mx :
  Forall (fun p => p <> [] /\ 0 < total p <= room) gs -> gs <> [] -> bounds_ok room mn mx ->
  let '(mn', mx') := CalcMinMax (number 0 gs) (concat gs) mn mx in bounds_ok room mn' mx'.
Proof.
  intros Hg Hn Hb. rewrite CalcMinMax_number by (eapply Forall_impl; [done|]; by intros p []).
  right. split.
  - apply foldl_min_bounds; [apply Forall_fmap; eapply Forall_impl; [done|]; by intros p []|by destruct gs|].
    unfold INT_MAX. destruct (Z.ltb_spec mn 0); destruct Hb; lia.
  - etrans; [|apply foldl_max_le]. destruct (Z.ltb_spec mx 0); lia.
Qed.

Section balanced.
Context (self : RtpFormatVp8) (Hok : frame_ok self).

Lemma PayloadDescriptorExtraLength_nonneg hdr : 0 <= PayloadDescriptorExtraLength hdr.
Proof.
  unfold PayloadDescriptorExtraLength, PictureIdLength. repeat case_match; lia.
Qed.

Lemma overhead_pos : 1 <= overhead_of self.
Proof.
  assert (H := PayloadDescriptorExtraLength_nonneg (hdr_info_ self)).
  unfold overhead_of, vp8_fixed_payload_descriptor_bytes_. lia.
Qed.

Lemma last_small_spec {R} fuel room first :
  0 <= first < num_partitions_ self -> fragmentationLength self !!! Z.to_nat first < room ->
  num_partitions_ self - first <= Z.of_nat fuel ->
  exists last, last_small (R := R) fuel self room first = Cont last /\
    first <= last < num_partitions_ self /\
    forall i, first <= i <= last -> fragmentationLength self !!! Z.to_nat i < room.
Proof.
  revert first. induction fuel as [|fuel IH]; intros first Hf Hs Hfuel; [lia|]. cbn [last_small].
  assert (Hstop : exists last, (Cont (R := R) first) = Cont last /\ first <= last < num_partitions_ self /\
    forall i, first <= i <= last -> fragmentationLength self !!! Z.to_nat i < room).
  { exists first. split_and!; try done; try lia. intros i Hi. by replace i with first by lia. }
  destruct (Z.ltb_spec (first + 1) (num_partitions_ self)); [|done].
  rewrite (rd_len self Hok) by lia. cbn [flow_bind].
  destruct (Z.ltb_spec (fragmentationLength self !!! Z.to_nat (first + 1)) room); [|done].
  destruct (IH (first + 1)) as (last & -> & L1 & L2); [lia|done|lia|].
  exists last. split_and!; try done; try lia. intros i Hi.
  destruct (Z.eq_dec i first) as [->|]; [done|]. apply L2. lia.
Qed.

(** A set of small partitions. *)
Definition small_set (first last : Z) : list Z :=
  ztake (last - first + 1) (zdrop first (fragmentationLength self)).

Lemma small_set_total first last i :
  0 <= first -> first <= last < num_partitions_ self -> 0 <= i <= last - first ->
  small_set first last !!! Z.to_nat i = fragmentationLength self !!! Z.to_nat (first + i).
Proof.
  intros H0 H1 H2. rewrite (frame_count _ Hok) in H1. unfold small_set, ztake, zdrop.
  apply list_lookup_total_correct. rewrite lookup_take by lia. rewrite lookup_drop.
  replace (Z.to_nat first + Z.to_nat i)%nat with (Z.to_nat (first + i)) by lia.
  rewrite decide_True by lia. apply list_lookup_lookup_total_lt. unfold Zlen in H1. lia.
Qed.

Lemma Zlen_small_set first last :
  0 <= first -> first <= last < num_partitions_ self -> Zlen (small_set first last) = last - first + 1.
Proof.
  intros H0 H1. rewrite (frame_count _ Hok) in H1. unfold small_set.
  rewrite Zlen_ztake; [done|]. rewrite Zlen_zdrop by lia. lia.
Qed.

Lemma small_set_sizes first last :
  0 <= first -> first <= last < num_partitions_ self ->
  (forall i, first <= i <= last -> fragmentationLength self !!! Z.to_nat i < room_of self) ->
  Forall (fun s => 0 < s < room_of self /\ is_s32 s) (small_set first last).
Proof.
  intros H0 H1 H2. apply Forall_lookup. intros i s Hi.
  assert (Hl := lookup_lt_Some _ _ _ Hi). assert (Hz := Zlen_small_set first last H0 H1). unfold Zlen in Hz.
  apply list_lookup_total_correct in Hi as <-.
  assert (E := small_set_total first last (Z.of_nat i) H0 H1 ltac:(lia)). rewrite Nat2Z.id in E. rewrite E.
  assert (A := lens_pos self Hok (first + Z.of_nat i) ltac:(lia)).
  assert (B := len_range self Hok (first + Z.of_nat i) ltac:(lia)).
  split; [|done]. split; [done|]. apply H2. lia.
Qed.

Lemma total_pos l : Forall (fun s => 0 < s) l -> l <> [] -> 0 < total l.
Proof.
  intros Hl Hn. destruct Hl as [|x l Hx Hl]; [done|]. rewrite total_cons.
  assert (0 <= total l); [|lia]. apply total_nonneg. eapply Forall_impl; [done|]. simpl. lia.
Qed.

(** A grouping of sizes with bytes has no packet without bytes. *)
Lemma grouping_good room sizes cl g :
  grouping room sizes cl g -> Forall (fun s => 0 < s) sizes ->
  Forall (fun p => p <> [] /\ 0 < total p <= room) (cl ++ [g]).
Proof.
  intros [G1 G2 [G3 G4]] Hs. apply Forall_app. split; [done|]. constructor; [|done].
  split; [done|]. split; [|done]. apply total_pos; [|done]. rewrite <- G1 in Hs.
  by apply Forall_app in Hs as [_ ?].
Qed.

(** The aggregates of a set. *)
Lemma aggregate_set {R} sizes mn mx :
  sizes <> [] -> Forall (fun s => 0 < s < room_of self /\ is_s32 s) sizes ->
  bounds_ok (room_of self) mn mx ->
  exists root gs mn' mx', CreateRootNode (R := R) sizes = Cont root /\ gs <> [] /\ concat gs = sizes /\
    Forall (fun p => p <> [] /\ 0 < total p <= room_of self) gs /\
    FindOptimalConfiguration (R := R)
      (if (0 <=? mn) && (0 <=? mx) then SetPriorMinMax root mn mx else root)
      (length sizes) (room_of self) (overhead_of self) = Cont (number 0 gs) /\
    CalcMinMax (number 0 gs) sizes mn mx = (mn', mx') /\ bounds_ok (room_of self) mn' mx' /\
    rd (R := R) (number 0 gs) (Zlen (number 0 gs) - 1) = Cont (Zlen gs - 1).
Proof.
  intros Hn Hs Hb. assert (Hov := overhead_pos).
  assert (Hpos : Forall (fun s => 0 < s) sizes) by (eapply Forall_impl; [done|]; simpl; lia).
  assert (Hso : sizes_ok (room_of self) sizes) by (eapply Forall_impl; [exact Hs|]; simpl; lia).
  set (prior := if (0 <=? mn) && (0 <=? mx) then Some (mn, mx) else None).
  destruct (prepared_root_at (R := R) sizes prior Hn) as (root & Hr & Ha).
  destruct (FindOptimalConfiguration_best (R := R) root (room_of self) (overhead_of self) _ _ sizes Ha Hso ltac:(lia)) as (cl & g & G & HF & _).
  assert (Hg := grouping_good _ _ _ _ G Hpos).
  assert (Hc : concat (cl ++ [g]) = sizes)
    by (rewrite concat_app; simpl; rewrite app_nil_r; apply G).
  assert (Hb' := CalcMinMax_bounds (cl ++ [g]) _ mn mx Hg ltac:(by destruct cl) Hb). rewrite Hc in Hb'.
  destruct (CalcMinMax (number 0 (cl ++ [g])) sizes mn mx) as [mn' mx'] eqn:E.
  unfold prepared_root in Hr. destruct (CreateRootNode (R := R) sizes) as [root0| |] eqn:Er; try done.
  cbn [flow_bind] in Hr. exists root0, (cl ++ [g]), mn', mx'. split_and!; try done.
  - by destruct cl.
  - injection Hr as <-. subst prior. by destruct ((0 <=? mn) && (0 <=? mx)).
  - rewrite rd_number_last by apply G. rewrite Zlen_app. change (Zlen [g]) with 1. f_equal. lia.
Qed.

(** The vector after the partitions before [f]. *)
Definition decided (cs : list chunk) (f : Z) : list Z :=
  decisions 0 cs ++ replicate (Z.to_nat (num_partitions_ self - f)) (-1).

Lemma put_decided {R} cs f f' gs :
  0 <= f -> f' <= num_partitions_ self -> flat cs = ztake f (fragmentationLength self) ->
  Zlen (concat gs) = f' - f ->
  blk_put (R := R) (decided cs f) f (number (next_number 0 cs) gs)
  = Cont (decided (cs ++ (Aggregate <$> gs)) f').
Proof.
  intros Hf Hf' Hflat Hn. assert (H0 := Zlen_nonneg (concat gs)).
  assert (Hdl : Zlen (decisions 0 cs) = f).
  { unfold Zlen. rewrite decisions_length, Hflat. fold (Zlen (ztake f (fragmentationLength self))).
    rewrite (frame_count _ Hok) in Hf'. rewrite Zlen_ztake; lia. }
  assert (Hnl : Zlen (number (next_number 0 cs) gs) = f' - f)
    by (unfold Zlen; rewrite number_length; exact Hn).
  rewrite blk_put_Cont; [|lia|unfold decided; rewrite Zlen_app, Hdl, Zlen_replicate by lia; lia].
  f_equal. unfold decided. rewrite decisions_app, decisions_aggregates.
  rewrite ztake_app_le, ztake_all by lia. rewrite zdrop_app_ge by lia.
  rewrite <- app_assoc. do 2 f_equal. rewrite Hdl, Hnl. unfold zdrop. rewrite drop_replicate.
  f_equal. lia.
Qed.

Lemma aggregate_loop_decided {R} fuel cs f mn mx :
  0 <= f <= num_partitions_ self -> flat cs = ztake f (fragmentationLength self) ->
  Forall (chunk_ok (room_of self)) cs -> bounds_ok (room_of self) mn mx ->
  num_partitions_ self - f < Z.of_nat fuel ->
  exists cs' mn' mx',
    aggregate_loop (R := R) fuel self (room_of self) (overhead_of self) f (next_number 0 cs)
      (decided cs f) mn mx = Cont (decisions 0 cs', mn', mx') /\
    flat cs' = fragmentationLength self /\ Forall (chunk_ok (room_of self)) cs' /\
    bounds_ok (room_of self) mn' mx'.
Proof.
  revert cs f mn mx. induction fuel as [|fuel IH]; intros cs f mn mx Hf Hflat Hcs Hb Hfuel; [lia|].
  cbn [aggregate_loop]. assert (Hnum := frame_count _ Hok).
  destruct (Z.ltb_spec f (num_partitions_ self)) as [Hlt|Hge].
  2: { exists cs, mn, mx. replace f with (num_partitions_ self) in * by lia. unfold decided.
       rewrite Z.sub_diag, app_nil_r. split_and!; try done. by rewrite Hflat, Hnum, ztake_all. }
  rewrite (rd_len self Hok) by lia. cbn [flow_bind].
  destruct (Z.ltb_spec (fragmentationLength self !!! Z.to_nat f) (room_of self)) as [Hsm|Hlg].
  - destruct (last_small_spec (R := R) (length (fragmentationLength self)) (room_of self) f)
      as (last & El & L1 & L2); [lia|done|unfold Zlen in Hnum; lia|].
    set (n := last - f + 1) in *. assert (Hz := Zlen_small_set f last ltac:(lia) ltac:(lia)). fold n in Hz.
    assert (Hset := small_set_sizes f last ltac:(lia) ltac:(lia) L2).
    destruct (aggregate_set (R := R) (small_set f last) mn mx) as
      (root & gs & mn' & mx' & A1 & A2 & A3 & A4 & A5 & A6 & A7 & A8); [|done|done|].
    { intros E. rewrite E in Hz. change (Zlen []) with 0 in Hz. lia. }
    assert (Hget : blk_get (R := R) (fragmentationLength self) f n = Cont (small_set f last))
      by (rewrite blk_get_Cont by lia; done).
    assert (Hid : s32 <$> small_set f last = small_set f last).
    { rewrite <- (list_fmap_id (small_set f last)) at 2. apply list_fmap_ext. intros i s Hi.
      apply s32_id. by apply (Forall_lookup_1 _ _ _ _ Hset) in Hi as [_ ?]. }
    rewrite El. cbn [flow_bind]. fold n. rewrite Hget. cbn [flow_bind]. rewrite Hid, A1. cbn [flow_bind].
    replace (Z.to_nat n) with (length (small_set f last)) by (unfold Zlen in Hz; lia).
    rewrite A5. cbn [flow_bind]. rewrite A6, number_shift.
    rewrite (put_decided cs f (last + 1)) by (done || unfold n in *; rewrite ?A3; lia).
    cbn [flow_bind]. rewrite A8. cbn [flow_bind].
    replace (next_number 0 cs + (Zlen gs - 1 + 1)) with (next_number 0 (cs ++ (Aggregate <$> gs)))
      by (rewrite next_number_app, next_number_aggregates; lia).
    apply IH; try done; try lia.
    + rewrite flat_app, flat_aggregates, A3, Hflat. unfold small_set. rewrite <- ztake_plus by lia.
      f_equal. lia.
    + apply Forall_app. split; [done|]. by apply Forall_fmap.
  - assert (Hdec : decided cs f = decided (cs ++ [Large (fragmentationLength self !!! Z.to_nat f)]) (f + 1)).
    { unfold decided. rewrite decisions_app, <- app_assoc. f_equal. simpl.
      replace (Z.to_nat (num_partitions_ self - f)) with (S (Z.to_nat (num_partitions_ self - (f + 1)))) by lia.
      done. }
    rewrite Hdec. replace (next_number 0 cs) with
      (next_number 0 (cs ++ [Large (fragmentationLength self !!! Z.to_nat f)])) by (by rewrite next_number_app).
    apply IH; try done; try lia.
    + rewrite flat_app, Hflat. unfold flat. simpl. rewrite ztake_snoc by lia. done.
    + apply Forall_app. split; [done|]. by repeat constructor.
Qed.

(** ** The packets *)

(** In one partition, or some whole partitions. *)
Definition one_or_whole (p : InfoStruct) : Prop :=
  in_one self p \/
  first_fragment p = true /\ exists j, 0 <= j <= num_partitions_ self /\
    payload_start_pos p + info_size p = part_start self j.

Definition balanced_good (a : Z) (ps : list InfoStruct) (b : Z) : Prop :=
  tiles a ps b /\ Forall (packet_ok self) ps /\ Forall one_or_whole ps.

Lemma balanced_good_app a ps b qs c :
  balanced_good a ps b -> balanced_good b qs c -> balanced_good a (ps ++ qs) c.
Proof.
  intros (A1 & A2 & A3) (B1 & B2 & B3).
  split; [by eapply tiles_app|]. split; apply Forall_app; done.
Qed.

Lemma balanced_good_one a p b :
  payload_start_pos p = a -> a + info_size p = b -> packet_ok self p -> one_or_whole p -> balanced_good a [p] b.
Proof. intros <- <- H1 H2. split; [done|]. split; by apply Forall_singleton. Qed.

(** The bytes of the first fragments. *)
Definition sent (size bytes n : Z) : Z := Z.min (n * bytes) size.

Definition fragments_inv (ix size bytes : Z) (packets : list InfoStruct) (n : Z)
  (st : Z * Z * (Z * Z) * list InfoStruct) : Prop :=
  let '(tot, remaining, (mn, mx), packets') := st in
  tot = part_start self ix + sent size bytes n /\ remaining = size - sent size bytes n /\
  bounds_ok (room_of self) mn mx /\
  exists ps, packets' = packets ++ ps /\ balanced_good (part_start self ix) ps tot.

Lemma bounds_fragment mn mx b :
  bounds_ok (room_of self) mn mx -> 0 < b <= room_of self ->
  bounds_ok (room_of self) (if b <? mn then b else mn) (if mx <? b then b else mx).
Proof. unfold bounds_ok. intros H Hb. destruct (Z.ltb_spec b mn), (Z.ltb_spec mx b); lia. Qed.

Lemma split_partition_good {R} ix n mn mx packets :
  0 <= ix < num_partitions_ self ->
  let size := fragmentationLength self !!! Z.to_nat ix in
  fragments_fit size (room_of self) n -> bounds_ok (room_of self) mn mx ->
  exists ps mn' mx',
    split_partition (R := R) ix n (ceil_div size n) (part_start self ix, size, (mn, mx), packets)
      = Cont (part_start self (ix + 1), 0, (mn', mx'), packets ++ ps) /\
    bounds_ok (room_of self) mn' mx' /\
    balanced_good (part_start self ix) ps (part_start self (ix + 1)).
Proof.
  intros Hix size (F1 & F2 & F3) Hb. assert (Hsz := lens_pos self Hok ix Hix). fold size in Hsz.
  assert (HS := part_start_S self Hok ix Hix). fold size in HS.
  assert (Hc := ceil_div_spec size n Hsz ltac:(lia)).
  set (bytes := ceil_div size n) in *. assert (Hbytes : 0 < bytes) by nia.
  assert (Hdone : sent size bytes n = size) by (unfold sent; lia). clearbody bytes size.
  unfold split_partition.
  match goal with |- context [for_up _ 0 ?b ?s] =>
    destruct (for_up_inv (fragments_inv ix size bytes packets) b (Z.to_nat n) 0 s) as (st & E & Hst) end.
  - unfold fragments_inv, sent. rewrite Z.mul_0_l, Z.min_l by lia.
    split_and!; try lia; [done|]. exists []. rewrite app_nil_r. split; [done|]. split; [simpl; lia|done].
  - intros j [[[tot rem] [mn' mx']] pk] Hj (I1 & I2 & I3 & ps & -> & I4). eexists. split; [done|].
    assert (Hlt : j * bytes < size) by nia.
    assert (Esent : sent size bytes j = j * bytes) by (unfold sent; lia).
    set (b := if bytes <? rem then bytes else rem).
    assert (Hbb : 0 < b <= room_of self /\ sent size bytes (j + 1) = sent size bytes j + b).
    { subst b. unfold sent in *. destruct (Z.ltb_spec bytes rem); lia. }
    destruct Hbb as [B1 B2]. clearbody b. unfold fragments_inv. split; [lia|]. split; [lia|].
    split; [by apply bounds_fragment|].
    exists (ps ++ [mkInfoStruct tot b (j =? 0) ix]). split; [by rewrite app_assoc|].
    eapply balanced_good_app; [done|]. apply balanced_good_one; [done|done| |].
    + split; simpl; try done; lia.
    + left. unfold in_one. simpl. assert (sent size bytes (j + 1) <= size) by (unfold sent; lia). lia.
  - rewrite E. destruct st as [[[tot rem] [mn' mx']] pk]. destruct Hst as (I1 & I2 & I3 & ps & -> & I4).
    rewrite Z.add_0_l, Z2Nat.id, Hdone in I1, I2 by lia. exists ps, mn', mx'.
    replace tot with (part_start self (ix + 1)) in * by lia. replace rem with 0 by lia. done.
Qed.

(** The partitions of an aggregate. *)
Lemma collect_aggregate_sum {R} fuel k g pre rest before after acc ix :
  ix = Zlen pre ->
  (forall d, head rest = Some d -> d <> k) -> Zlen before = Zlen pre ->
  fragmentationLength self = before ++ g ++ after ->
  Forall (fun s => 0 < s) g -> 0 <= acc -> acc + total g < 2147483648 ->
  Z.of_nat (length g) < Z.of_nat fuel ->
  collect_aggregate (R := R) fuel self (pre ++ replicate (length g) k ++ rest) k ix acc
  = Cont (acc + total g, ix + Zlen g).
Proof.
  intros ->. revert g pre before acc. induction fuel as [|fuel IH];
    intros g pre before acc Hhd Hl Hlens Hg Hacc Hmax Hf; [lia|].
  cbn [collect_aggregate]. destruct g as [|s g].
  - rewrite (@Zlen_nil Z), Z.add_0_r. simpl. rewrite !Z.add_0_r.
    destruct rest as [|d rest]; [by rewrite app_nil_r, Z.ltb_irrefl|].
    rewrite rd_app by done. cbn [flow_bind]. destruct (Z.ltb_spec (Zlen pre) (Zlen (pre ++ d :: rest))); [|done].
    destruct (Z.eqb_spec d k) as [->|]; [|done]. by destruct (Hhd k eq_refl).
  - inversion Hg; subst. rewrite total_cons in *.
    assert (H0 : 0 <= total g) by (apply total_nonneg; eapply Forall_impl; [done|]; simpl; lia).
    simpl (replicate _ _). rewrite !Zlen_cons.
    destruct (Z.ltb_spec (Zlen pre) (Zlen (pre ++ (k :: replicate (length g) k) ++ rest))) as [_|Hge].
    2: { rewrite Zlen_app in Hge. simpl in Hge. rewrite Zlen_cons in Hge.
         assert (A := Zlen_nonneg (replicate (length g) k ++ rest)). lia. }
    simpl. rewrite rd_app by done. cbn [flow_bind]. rewrite Z.eqb_refl, Hlens. simpl.
    rewrite rd_app by lia. cbn [flow_bind]. rewrite s32_id by (unfold is_s32; lia).
    replace (Zlen pre + 1) with (Zlen (pre ++ [k])) by (by rewrite Zlen_app).
    replace (pre ++ k :: replicate (length g) k ++ rest)
      with ((pre ++ [k]) ++ replicate (length g) k ++ rest) by (by rewrite <- app_assoc).
    rewrite (IH g (pre ++ [k]) (before ++ [s]) (acc + s)); try done; try lia.
    + rewrite Zlen_app. change (Zlen [k]) with 1. do 2 f_equal; lia.
    + rewrite !Zlen_app. change (Zlen [s]) with 1. change (Zlen [k]) with 1. lia.
    + rewrite <- app_assoc. exact Hlens.
    + simpl in Hf. lia.
Qed.

(** No cost of a number of fragments leaves the [int]s. *)
Definition costs_fit : Prop :=
  room_of self + payload_size_ self + payload_size_ self * overhead_of self < INT_MAX.

Lemma fragments_number {R} s mn mx :
  costs_fit -> 0 < s <= payload_size_ self -> bounds_ok (room_of self) mn mx ->
  exists n, CalcNumberOfFragments (R := R) s (room_of self) (overhead_of self) mn mx = Cont n /\
    fragments_fit s (room_of self) n.
Proof.
  intros Hc Hs Hb. assert (Hr := frame_room self Hok). assert (Ho := overhead_pos). destruct Hb as [Hb|[Hb1 Hb2]].
  - exists (ceil_div s (room_of self)). split; [apply CalcNumberOfFragments_fewest; lia|].
    apply fewest_fit; lia.
  - destruct (CalcNumberOfFragments_cheapest (R := R) s (room_of self) (overhead_of self) mn mx)
      as (n & E & H & _); try lia; [|by exists n].
    unfold costs_fit in Hc. nia.
Qed.

Lemma next_number_ge k cs : k <= next_number k cs.
Proof. revert k. induction cs as [|[g|s] cs IH]; intros k; simpl; [lia| |apply IH]. specialize (IH (k + 1)). lia. Qed.

Lemma decisions_head room k cs d :
  0 <= k -> Forall (chunk_ok room) cs -> head (decisions (k + 1) cs) = Some d -> d <> k.
Proof.
  intros Hk Hcs. destruct cs as [|[g|s] cs]; simpl; [done| |intros [= <-]; lia].
  inversion Hcs as [|? ? Hg _]; subst. destruct Hg as [Hg _]. destruct g as [|x g]; [done|]. simpl. intros [= <-]. lia.
Qed.

Lemma chunk_start cs cs' :
  flat (cs ++ cs') = fragmentationLength self -> part_start self (Zlen (flat cs)) = total (flat cs).
Proof. intros H. unfold part_start. rewrite <- H, flat_app, ztake_app_le, ztake_all by lia. done. Qed.

Lemma flat_snoc cs c : flat (cs ++ [c]) = flat cs ++ chunk_sizes c.
Proof. rewrite flat_app. unfold flat at 2. simpl. by rewrite app_nil_r. Qed.

Lemma aggregate_packet cs1 g cs2 :
  flat (cs1 ++ Aggregate g :: cs2) = fragmentationLength self -> chunk_ok (room_of self) (Aggregate g) ->
  let ix := Zlen (flat cs1) in
  let p := mkInfoStruct (part_start self ix) (total g) true ix in
  packet_ok self p /\ one_or_whole p /\
  part_start self ix + total g = part_start self (Zlen (flat (cs1 ++ [Aggregate g]))) /\
  ix + Zlen g = Zlen (flat (cs1 ++ [Aggregate g])) /\ Zlen (flat (cs1 ++ [Aggregate g])) <= num_partitions_ self.
Proof.
  intros Hflat [Hg1 Hg2] ix p. assert (Hnum := frame_count self Hok). rewrite <- Hflat in Hnum.
  assert (Hn : Zlen (flat (cs1 ++ [Aggregate g])) = ix + Zlen g) by (by rewrite flat_snoc, Zlen_app).
  rewrite (cons_middle _ cs1), app_assoc, flat_app, Zlen_app, Hn in Hnum.
  assert (H0 := Zlen_nonneg (flat cs2)). assert (H1 := Zlen_nonneg (flat cs1)). fold ix in H1.
  assert (H2 : 0 < Zlen g) by (destruct g; [done|]; rewrite Zlen_cons; assert (K := Zlen_nonneg g); lia).
  assert (HS := part_start_S self Hok ix ltac:(lia)). assert (HP := lens_pos self Hok ix ltac:(lia)).
  assert (E : part_start self ix + total g = part_start self (Zlen (flat (cs1 ++ [Aggregate g])))).
  { subst ix. rewrite (chunk_start cs1 _ Hflat), (chunk_start (cs1 ++ [Aggregate g]) cs2)
      by (by rewrite <- app_assoc). by rewrite flat_snoc, total_app. }
  split; [split; simpl; done || lia|]. split; [|lia].
  right. split; [done|]. exists (Zlen (flat (cs1 ++ [Aggregate g]))). split; [lia|]. exact E.
Qed.

(** What a turn of the loop does with a chunk. *)
Definition turn_good {R : Type} (fuel : nat) (cs1 : list chunk) (c : chunk) (cs2 : list chunk)
  (mn mx : Z) (packets : list InfoStruct) : Prop :=
  let ds := decisions 0 (cs1 ++ c :: cs2) in
  let ix := Zlen (flat cs1) in
  let ix' := Zlen (flat (cs1 ++ [c])) in
  exists ps mn' mx',
    balanced_loop (R := R) (S fuel) self ds (overhead_of self) (room_of self) ix (part_start self ix) mn mx packets
    = balanced_loop fuel self ds (overhead_of self) (room_of self) ix' (part_start self ix') mn' mx' (packets ++ ps) /\
    bounds_ok (room_of self) mn' mx' /\ balanced_good (part_start self ix) ps (part_start self ix').

Lemma chunk_count cs1 c cs2 :
  flat (cs1 ++ c :: cs2) = fragmentationLength self ->
  0 <= Zlen (flat cs1) /\ Zlen (flat cs1) + Zlen (chunk_sizes c) <= num_partitions_ self.
Proof.
  intros Hflat. assert (Hnum := frame_count self Hok).
  rewrite <- Hflat, (cons_middle _ cs1), app_assoc, flat_app, flat_snoc, !Zlen_app in Hnum.
  assert (H1 := Zlen_nonneg (flat cs1)). assert (H2 := Zlen_nonneg (flat cs2)). lia.
Qed.

Lemma decisions_at cs : Zlen (flat cs) = Zlen (decisions 0 cs).
Proof. unfold Zlen. by rewrite decisions_length. Qed.

Lemma aggregate_turn {R} fuel cs1 g cs2 mn mx packets :
  flat (cs1 ++ Aggregate g :: cs2) = fragmentationLength self -> chunk_ok (room_of self) (Aggregate g) ->
  Forall (chunk_ok (room_of self)) cs2 -> bounds_ok (room_of self) mn mx ->
  turn_good (R := R) fuel cs1 (Aggregate g) cs2 mn mx packets.
Proof.
  intros Hflat Hc Hok2 Hb. unfold turn_good. cbn [balanced_loop].
  destruct (aggregate_packet cs1 g cs2 Hflat Hc) as (P1 & P2 & P3 & P4 & P5). destruct Hc as [Hg1 Hg2].
  destruct (chunk_count cs1 (Aggregate g) cs2 Hflat) as [H1 H2]. cbn [chunk_sizes] in H2.
  assert (Hk := next_number_ge 0 cs1). assert (Hl1 := decisions_at cs1).
  assert (Hgl : 0 < Zlen g) by (destruct g; [done|]; rewrite Zlen_cons; assert (K := Zlen_nonneg g); lia).
  destruct (Z.ltb_spec (Zlen (flat cs1)) (num_partitions_ self)); [|lia].
  rewrite decisions_app. simpl (decisions _ (_ :: _)).
  assert (Hrd : rd (R := R) (decisions 0 cs1 ++ replicate (length g) (next_number 0 cs1) ++
    decisions (next_number 0 cs1 + 1) cs2) (Zlen (flat cs1)) = Cont (next_number 0 cs1))
    by (destruct g; [done|]; simpl; by apply rd_app).
  rewrite Hrd. cbn [flow_bind]. destruct (Z.eqb_spec (next_number 0 cs1) (-1)); [lia|].
  assert (Hpos := frame_lengths self Hok).
  assert (Hlens : fragmentationLength self = flat cs1 ++ g ++ flat cs2)
    by (rewrite <- Hflat, flat_app; done).
  assert (HPR := part_start_range self Hok (Zlen (flat cs1) + Zlen g) ltac:(lia)).
  assert (HPR0 := part_start_range self Hok (Zlen (flat cs1)) ltac:(lia)). assert (HI := frame_int self Hok).
  rewrite P4, <- P3 in HPR. assert (Hhd := decisions_head (room_of self) (next_number 0 cs1) cs2).
  assert (Hgp : Forall (fun s => 0 < s) g) by (rewrite Hlens, !Forall_app in Hpos; tauto).
  rewrite (collect_aggregate_sum _ _ g _ _ (flat cs1) (flat cs2));
    [|done|by intros d; apply Hhd|lia|done|done|lia|lia|rewrite !length_app, length_replicate; lia].
  cbn [flow_bind]. rewrite Z.add_0_l, P4, P3. eexists _, mn, mx. split; [done|]. split; [done|].
  by apply balanced_good_one.
Qed.

Lemma large_turn {R} fuel cs1 s cs2 mn mx packets :
  costs_fit -> flat (cs1 ++ Large s :: cs2) = fragmentationLength self -> bounds_ok (room_of self) mn mx ->
  turn_good (R := R) fuel cs1 (Large s) cs2 mn mx packets.
Proof.
  intros Hcost Hflat Hb. unfold turn_good. cbn [balanced_loop].
  destruct (chunk_count cs1 (Large s) cs2 Hflat) as [H1 H2]. cbn [chunk_sizes] in H2. change (Zlen [s]) with 1 in H2.
  assert (Hl1 := decisions_at cs1). destruct (Z.ltb_spec (Zlen (flat cs1)) (num_partitions_ self)); [|lia].
  rewrite decisions_app. simpl (decisions _ (_ :: _)). rewrite rd_app by done. cbn [flow_bind].
  rewrite Z.eqb_refl. rewrite (rd_len self Hok) by lia. cbn [flow_bind].
  assert (Hs : fragmentationLength self !!! Z.to_nat (Zlen (flat cs1)) = s).
  { rewrite <- Hflat, flat_app. unfold Zlen. rewrite Nat2Z.id.
    by rewrite lookup_total_app_r, Nat.sub_diag by lia. }
  assert (Hlp := lens_pos self Hok (Zlen (flat cs1)) ltac:(lia)).
  assert (HS := part_start_S self Hok (Zlen (flat cs1)) ltac:(lia)).
  assert (HR0 := part_start_range self Hok (Zlen (flat cs1)) ltac:(lia)).
  assert (HR1 := part_start_range self Hok (Zlen (flat cs1) + 1) ltac:(lia)).
  rewrite s32_id by (apply len_range; done || lia). rewrite Hs in *.
  destruct (fragments_number (R := R) s mn mx Hcost ltac:(lia) Hb) as (n & -> & Hn). cbn [flow_bind].
  rewrite int_div_Cont by (destruct Hn; lia). cbn [flow_bind].
  destruct (split_partition_good (R := R) (Zlen (flat cs1)) n mn mx packets) as (ps1 & mn' & mx' & E1 & B1 & G1);
    [lia|by rewrite Hs|done|]. rewrite Hs in E1. rewrite E1. cbn [flow_bind].
  replace (Zlen (flat cs1) + 1) with (Zlen (flat (cs1 ++ [Large s]))) in * by (by rewrite flat_snoc, Zlen_app).
  by exists ps1, mn', mx'.
Qed.

Lemma balanced_loop_good {R} cs2 cs1 fuel mn mx packets :
  costs_fit -> flat (cs1 ++ cs2) = fragmentationLength self ->
  Forall (chunk_ok (room_of self)) cs2 -> bounds_ok (room_of self) mn mx -> (length cs2 < fuel)%nat ->
  exists ps, balanced_loop (R := R) fuel self (decisions 0 (cs1 ++ cs2)) (overhead_of self) (room_of self)
      (Zlen (flat cs1)) (part_start self (Zlen (flat cs1))) mn mx packets = Cont (packets ++ ps) /\
    balanced_good (part_start self (Zlen (flat cs1))) ps (payload_size_ self).
Proof.
  intros Hcost. revert cs1 fuel mn mx packets.
  induction cs2 as [|c cs2 IH]; intros cs1 fuel mn mx packets Hflat Hok2 Hb Hfuel;
    (destruct fuel as [|fuel]; [simpl in Hfuel; lia|]).
  { cbn [balanced_loop]. rewrite app_nil_r in Hflat. rewrite Hflat, <- (frame_count self Hok), Z.ltb_irrefl.
    exists []. rewrite app_nil_r. split; [done|]. rewrite (part_start_end self Hok).
    by split; [|split; constructor]. }
  inversion Hok2 as [|? ? Hc Hok3]; subst. simpl in Hfuel.
  assert (Ht : turn_good (R := R) fuel cs1 c cs2 mn mx packets)
    by (destruct c; [by apply aggregate_turn|by apply large_turn]).
  destruct Ht as (ps1 & mn' & mx' & E1 & B1 & G1). rewrite E1.
  rewrite (cons_middle _ cs1), app_assoc in Hflat |- *.
  destruct (IH (cs1 ++ [c]) fuel mn' mx' (packets ++ ps1)) as (ps2 & E2 & G2); [done|done|done|lia|].
  rewrite E2, <- app_assoc. eexists. split; [done|]. by eapply balanced_good_app.
Qed.

Lemma chunks_length room cs : Forall (chunk_ok room) cs -> (length cs <= length (flat cs))%nat.
Proof.
  induction 1 as [|c cs Hc _ IH]; [done|].
  change (flat (c :: cs)) with (chunk_sizes c ++ flat cs). rewrite length_app.
  destruct c as [g|s]; simpl; [|lia]. destruct Hc as [Hg _]. destruct g; [done|]. simpl. lia.
Qed.

(** All packets of the aggregate mode. *)
Lemma GeneratePacketsBalancedAggregates_good {R} :
  costs_fit -> packets_ self = [] ->
  exists ps, GeneratePacketsBalancedAggregates (R := R) self = Cont (0, set_packets self ps true) /\
    balanced_good 0 ps (payload_size_ self).
Proof.
  intros Hc Hp. unfold GeneratePacketsBalancedAggregates, AggregateSmallPartitions.
  assert (Hs : too_short self = false).
  { unfold too_short. assert (H := frame_room _ Hok). unfold room_of, overhead_of in H. apply Z.ltb_ge. lia. }
  rewrite Hs, Hp. fold (overhead_of self). fold (room_of self).
  assert (Hn := frame_count self Hok). assert (H0 := Zlen_nonneg (fragmentationLength self)).
  destruct (aggregate_loop_decided (R := R) (S (length (fragmentationLength self))) [] 0 (-1) (-1))
    as (cs & mn & mx & E & C1 & C2 & C3); [lia|done|done|by left|unfold Zlen in Hn; lia|].
  unfold decided in E. change (next_number 0 []) with 0 in E.
  rewrite Z.sub_0_r, app_nil_l in E. rewrite E. cbn [flow_bind].
  destruct (balanced_loop_good (R := R) cs [] (S (length (fragmentationLength self))) mn mx [])
    as (ps & E' & G); try done.
  { rewrite <- C1. assert (K := chunks_length _ _ C2). lia. }
  change (Zlen (flat [])) with 0 in E', G. rewrite part_start_0 in E', G. rewrite app_nil_l in E'. rewrite E'. cbn [flow_bind]. by exists ps.
Qed.
End balanced.

(** ** Claims *)

(** C22: in the aggregate mode GeneratePacketsBalancedAggregates ends with success, and
    its packets are the bytes of the frame in order without gap or overlap.  Every
    packet has bytes and fits, is marked with the partition that it starts in, is
    flagged as a start only where a partition starts, and holds either a part of one
    partition or some whole partitions.  The bound keeps the costs of the numbers of
    fragments within the [int]s. *)
Theorem GeneratePacketsBalancedAggregates_tiles {R} self :
  frame_ok self -> costs_fit self -> packets_ self = [] ->
  exists ps, GeneratePacketsBalancedAggregates (R := R) self = Cont (0, set_packets self ps true) /\
    tiles 0 ps (payload_size_ self) /\ Forall (packet_ok self) ps /\ Forall (one_or_whole self) ps.
Proof. intros. by apply GeneratePacketsBalancedAggregates_good. Qed.

Definition ex_aggregate : RtpFormatVp8 :=
  new_RtpFormatVp8 (replicate 150 7) 150 ex_header 30 [0; 10; 14; 100; 105] [10; 4; 86; 5; 45] kAggregate.

Lemma GeneratePacketsBalancedAggregates_tiles_witness :
  exists ps, GeneratePacketsBalancedAggregates (R := Z) ex_aggregate = Cont (0, set_packets ex_aggregate ps true) /\
    tiles 0 ps 150 /\ Forall (packet_ok ex_aggregate) ps /\ Forall (one_or_whole ex_aggregate) ps.
Proof.
  apply (GeneratePacketsBalancedAggregates_tiles ex_aggregate); [by apply frame_ok_intro| |done].
  vm_compute. reflexivity.
Defined.

Example balanced_example :
  GeneratePacketsBalancedAggregates (R := Z) ex_aggregate
  = Cont (0, set_packets ex_aggregate
      [mkInfoStruct 0 14 true 0;
       mkInfoStruct 14 22 true 2; mkInfoStruct 36 22 false 2; mkInfoStruct 58 22 false 2;
       mkInfoStruct 80 20 false 2; mkInfoStruct 100 5 true 3;
       mkInfoStruct 105 23 true 4; mkInfoStruct 128 22 false 4] true).
Proof. vm_compute. reflexivity. Qed.

(** A set of small partitions without bytes, then a large one. *)
Example empty_partition_divides_by_zero :
  GeneratePacketsBalancedAggregates (R := Z)
    (new_RtpFormatVp8 (replicate 50 7) 50 ex_header 30 [0; 0] [0; 50] kAggregate) = Stuck.
Proof. vm_compute. reflexivity. Qed.
