(* ===== verification/Vp8Session.v ===== *)
(** * Sending and receiving a VP8 frame

    RTPSenderVideo::SendVP8 of [modules/rtp_rtcp/source/rtp_sender_video.cc] with the
    packetizer and the header builder, and the receiver's header parser and payload
    parser on what it sends. *)
From S2P Require Import Prelude RtpWire RtpExtMap RtpHeader RtpSender RtpRoundTrip RtpSession Vp8Descriptor Vp8Aggregator Vp8Packetizer Vp8Balanced.
Local Open Scope Z_scope.

Inductive StorageType : Type := kDontStore | kDontRetransmit | kAllowRetransmission.

#[export] Instance StorageType_eq_dec : EqDecision StorageType.
Proof. solve_decision. Defined.

Definition kRetransmitBaseLayer : Z := 2.
Definition kRetransmitHigherLayers : Z := 4.

(** The arguments of a call of SendVideoPacket. *)
Record VideoPacket : Type := mkVideoPacket {
  call_buffer : list Z;
  call_payload_length : Z;
  call_header_length : Z;
  call_storage : StorageType;
  call_protect : bool
}.

Definition vp8_storage (retransmissionSettings : Z) (hdr : RTPVideoHeaderVP8) : StorageType :=
  if (temporalIdx hdr =? 0) && (Z.land retransmissionSettings kRetransmitBaseLayer =? 0)
  then kDontRetransmit
  else if negb (temporalIdx hdr =? kNoTemporalIdx)
          && (Z.land retransmissionSettings kRetransmitHigherLayers =? 0)
  then kDontRetransmit
  else kAllowRetransmission.

Definition vp8_protect (hdr : RTPVideoHeaderVP8) : bool :=
  (temporalIdx hdr =? 0) || (temporalIdx hdr =? kNoTemporalIdx).

(** SendVideoPacket, with the state that it keeps besides the sender's. *)
Class VideoSender : Type := {
  video : Type;
  SendVideoPacket : forall {R : Type}, RTPSender -> video -> VideoPacket -> flow R (Z * RTPSender * video)
}.

(** What SendVideoPacket may do to the sender's state: it takes sequence numbers for
    packets of error correction and notes that media was sent; the rest stays. *)
Record same_transport (self0 self : RTPSender) : Prop := mkSameTransport {
  tr_inv : sender_inv self;
  tr_map : rtp_header_extension_map_ self = rtp_header_extension_map_ self0;
  tr_ssrc : ssrc_ self = ssrc_ self0;
  tr_start : start_timestamp_ self = start_timestamp_ self0;
  tr_include : include_csrcs_ self = include_csrcs_ self0;
  tr_num : num_csrcs_ self = num_csrcs_ self0;
  tr_csrcs : csrcs_ self = csrcs_ self0
}.

Class VideoTransport (VS : VideoSender) : Type := {
  video_ok : video -> Prop;
  SendVideoPacket_returns R self v pkt :
    sender_inv self -> video_ok v ->
    exists ret self' v', SendVideoPacket (R := R) self v pkt = Cont (ret, self', v')
      /\ same_transport self self' /\ video_ok v'
}.

(** Without error correction, when the network takes every packet. *)
#[export] Instance plain_sender : VideoSender := {|
  video := unit;
  SendVideoPacket _ self v _ := Cont (0, self, v)
|}.
#[export] Instance plain_transport : VideoTransport plain_sender.
Proof.
  refine {| video_ok _ := True |}. intros R self v pkt Hi _. exists 0, self, v. split; [done|]. by split.
Defined.

Section send.
Context `{VideoSender}.

(** The loop over the packets; the first turn plans them, so their number is at most
    that of the bytes. *)
Fixpoint send_loop {R : Type} (fuel : nat) (self : RTPSender) (v : video) (packetizer : RtpFormatVp8)
  (now_ms payloadType captureTimeStamp capture_time_ms rtpHeaderLength : Z)
  (storage : StorageType) (protect : bool) (sent : list VideoPacket)
  : flow R (Z * RTPSender * video * list VideoPacket) :=
  match fuel with
  | O => Stuck
  | S fuel =>
      let dataBuffer := replicate (Z.to_nat IP_PACKET_SIZE) 0 in
      let! (packetStartPartition, payload, bytes, last, packetizer) :=
        NextPacket packetizer (zdrop rtpHeaderLength dataBuffer) in
      let dataBuffer := ztake rtpHeaderLength dataBuffer ++ payload in
      if packetStartPartition <? 0 then Cont (-1, self, v, sent)
      else
        let payloadBytesInPacket := default 0 bytes in
        let last := default false last in
        let! (_, dataBuffer, self) :=
          BuildRTPheader self now_ms dataBuffer payloadType last captureTimeStamp capture_time_ms
            true true in
        let pkt := mkVideoPacket dataBuffer (u16 payloadBytesInPacket) rtpHeaderLength storage protect in
        let! (_, self, v) := SendVideoPacket self v pkt in
        let sent := sent ++ [pkt] in
        if last then Cont (0, self, v, sent)
        else send_loop fuel self v packetizer now_ms payloadType captureTimeStamp capture_time_ms
               rtpHeaderLength storage protect sent
  end.

(** [maxPayloadLengthVP8] is MaxDataPayloadLength of the sender. *)
Definition SendVP8 {R : Type} (self : RTPSender) (v : video) (retransmissionSettings maxPayloadLengthVP8 now_ms : Z)
  (payloadType captureTimeStamp capture_time_ms : Z) (payloadData : list Z) (payloadSize : Z)
  (hdr : RTPVideoHeaderVP8) : flow R (Z * RTPSender * video * list VideoPacket) :=
  let rtpHeaderLength := u16 (RTPHeaderLength self) in
  let payloadBytesToSend := s32 payloadSize in
  let packetizer := new_RtpFormatVp8_whole payloadData payloadBytesToSend hdr maxPayloadLengthVP8 in
  send_loop (S (Z.to_nat payloadBytesToSend)) self v packetizer now_ms payloadType captureTimeStamp
    capture_time_ms rtpHeaderLength (vp8_storage retransmissionSettings hdr) (vp8_protect hdr) [].
End send.

(** ** Fetching the packets of a frame *)

(** Every call of NextPacket with a new buffer, until the last packet. *)
Fixpoint fetch_all {R : Type} (fuel : nat) (self : RtpFormatVp8) (size : Z) : flow R (list (list Z)) :=
  match fuel with
  | O => Stuck
  | S fuel =>
      let! (ix, buffer, bytes, last, self) := NextPacket self (replicate (Z.to_nat size) 0) in
      if ix <? 0 then Cont []
      else
        let payload := ztake (default 0 bytes) buffer in
        if default false last then Cont [payload]
        else let! rest := fetch_all fuel self size in Cont (payload :: rest)
  end.

Definition slice_of (self : RtpFormatVp8) (p : InfoStruct) : list Z :=
  ztake (info_size p) (zdrop (payload_start_pos p) (payload_data_ self)).

Definition payload_of (self : RtpFormatVp8) (p : InfoStruct) : list Z :=
  descriptor (hdr_info_ self) p ++ slice_of self p.

(** A packetizer that has its packets, with those that are left. *)
Record ready (self : RtpFormatVp8) (ps : list InfoStruct) (a : Z) : Prop := mkReady {
  ready_frame : frame_ok self;
  ready_header : vp8_ok (hdr_info_ self);
  ready_packets : packets_ self = ps;
  ready_calculated : packets_calculated_ self = true;
  ready_tiles : tiles a ps (payload_size_ self);
  ready_start : 0 <= a;
  ready_ok : Forall (packet_ok self) ps
}.

Lemma tiles_end a ps b : tiles a ps b -> Forall (fun p => 0 < info_size p) ps -> a <= b.
Proof.
  revert a. induction ps as [|p ps IH]; simpl; intros a H Hp; [lia|].
  destruct H as [_ H]. inversion Hp as [|? ? Hp1 Hp2]; subst. specialize (IH _ H Hp2). lia.
Qed.

Lemma packets_positive self ps : Forall (packet_ok self) ps -> Forall (fun p => 0 < info_size p) ps.
Proof. intros H. eapply Forall_impl; [exact H|]. intros p [Hp _ _ _ _]. lia. Qed.

Lemma ready_head self p ps a :
  ready self (p :: ps) a ->
  payload_start_pos p = a /\ packet_ok self p /\ Zlen (slice_of self p) = info_size p /\
  a + info_size p <= Zlen (payload_data_ self) /\ 0 <= Zlen (descriptor (hdr_info_ self) p) <= overhead_of self /\
  ready (set_packets self ps true) ps (a + info_size p).
Proof.
  intros [F H E C [T1 T2] S K]. inversion K as [|? ? K1 K2]; subst.
  assert (Hend := tiles_end _ _ _ T2 (packets_positive _ _ K2)). rewrite (frame_data _ F) in Hend.
  assert (Hp := packet_fits _ _ K1). split; [done|]. split; [done|]. split; [|split; [lia|split]].
  - unfold slice_of. apply Zlen_ztake. rewrite Zlen_zdrop by lia. lia.
  - rewrite descriptor_length by done. unfold overhead_of.
    assert (D := PayloadDescriptorExtraLength_nonneg (hdr_info_ self)).
    unfold vp8_fixed_payload_descriptor_bytes_. lia.
  - split; try done; [by destruct F|lia|]. eapply Forall_impl; [exact K2|]. by intros q [? ? ? ? ?].
Qed.

Lemma NextPacket_pop {R} self p ps a buffer :
  ready self (p :: ps) a -> max_payload_len_ self <= Zlen buffer ->
  NextPacket (R := R) self buffer
  = Cont (first_partition_ix p, put buffer 0 (payload_of self p), Some (Zlen (payload_of self p)),
          Some (match ps with [] => true | _ => false end), set_packets self ps true).
Proof.
  intros Hr Hb. destruct (ready_head _ _ _ _ Hr) as (P1 & P2 & P3 & P4 & P5 & _).
  destruct Hr as [F H E C _ S _]. unfold NextPacket. rewrite C. cbn [negb flow_bind].
  rewrite E. destruct (packet_part _ _ P2) as [Q1 Q2]. assert (Q3 := packet_fits _ _ P2).
  unfold room_of, overhead_of, vp8_fixed_payload_descriptor_bytes_ in Q3.
  cbn [set_packets hdr_info_ payload_data_ max_payload_len_].
  rewrite WriteHeaderAndPayload_spec by (done || lia). cbn [flow_bind].
  fold (slice_of self p). fold (payload_of self p).
  assert (Hl := Zlen_nonneg (payload_of self p)). destruct (Z.ltb_spec 0 0); [lia|].
  destruct (Z.ltb_spec (Zlen (payload_of self p)) 0); [lia|]. by rewrite C.
Qed.

(** The first call plans the packets. *)
Lemma NextPacket_plan {R} self ps buffer :
  packets_calculated_ self = false ->
  (if (if decide (aggr_mode_ self = kAggrPartitions) then true else false) && balance_ self
   then GeneratePacketsBalancedAggregates (R := R) self else GeneratePackets self)
  = Cont (0, set_packets self ps true) ->
  NextPacket (R := R) self buffer = NextPacket (set_packets self ps true) buffer.
Proof.
  intros C E. unfold NextPacket at 1. rewrite C. cbn [negb]. rewrite E. done.
Qed.

Lemma ztake_front {A} (a b : list A) n : n = Zlen a -> ztake n (a ++ b) = a.
Proof. intros ->. by rewrite ztake_app_le, ztake_all by lia. Qed.

Lemma fetch_ready {R} fuel self p ps a size :
  ready self (p :: ps) a -> max_payload_len_ self <= size -> (length ps < fuel)%nat ->
  fetch_all (R := R) fuel self size = Cont (payload_of self <$> p :: ps).
Proof.
  revert self p ps a. induction fuel as [|fuel IH]; intros self p ps a Hr Hm Hf; [lia|].
  destruct (ready_head _ _ _ _ Hr) as (P1 & P2 & P3 & P4 & P5 & P6).
  destruct (packet_part _ _ P2) as [Q1 _]. assert (Q2 := packet_fits _ _ P2).
  assert (Hl : Zlen (payload_of self p) <= max_payload_len_ self)
    by (unfold payload_of; rewrite Zlen_app, P3; unfold room_of in Q2; lia).
  assert (H0 := Zlen_nonneg (payload_of self p)). cbn [fetch_all].
  rewrite (NextPacket_pop self p ps a) by (done || rewrite Zlen_replicate; lia). cbn [flow_bind from_option id].
  destruct (Z.ltb_spec (first_partition_ix p) 0); [lia|].
  assert (Hput : ztake (Zlen (payload_of self p)) (put (replicate (Z.to_nat size) 0) 0 (payload_of self p)) = payload_of self p)
    by (rewrite put_0; by apply ztake_front).
  rewrite Hput. destruct ps as [|q ps]; [done|].
  rewrite (IH (set_packets self (q :: ps) true) q ps _ P6) by (done || simpl in *; lia). done.
Qed.

(** ** What the receiver gets *)

(** ReceiveVp8Codec refuses a key frame's first packet with fewer than ten bytes of the
    frame: it returns -1 and hands nothing over. *)
Definition short_key (d : Delivered) : bool :=
  (if decide (delivered_frame d = kIFrame) then true else false) && (Zlen (delivered_data d) <? 10).

(** What the receiver makes of a payload written for [d], the refused case included. *)
Definition received_as (payload : list Z) (d : Delivered) : Prop :=
  forall (R : Type) fresh callback,
    ReceiveVp8Codec (R := R) payload fresh callback
    = Cont (if short_key d then (-1, None) else (if negb (callback d =? 0) then -1 else 0, Some d)).

(** The receiver takes [d] from the payload and hands it over. *)
Definition delivered_as (payload : list Z) (d : Delivered) : Prop :=
  forall (R : Type) fresh callback,
    ReceiveVp8Codec (R := R) payload fresh callback
    = Cont (if negb (callback d =? 0) then -1 else 0, Some d).

Lemma received_delivered payload d : short_key d = false -> received_as payload d -> delivered_as payload d.
Proof. intros Hd Hr R fresh callback. by rewrite Hr, Hd. Qed.

Lemma all_delivered_as payloads ds :
  existsb short_key ds = false -> Forall2 received_as payloads ds -> Forall2 delivered_as payloads ds.
Proof.
  intros Hs H. induction H as [|payload d payloads ds Hd H IH]; [constructor|].
  apply orb_false_iff in Hs as [Hs1 Hs2]. constructor; [by apply received_delivered|by apply IH].
Qed.

Definition same_header (hdr h : RTPVideoHeaderVP8) : Prop :=
  nonReference h = nonReference hdr /\ pictureId h = pictureId hdr /\ tl0PicIdx h = tl0PicIdx hdr /\
  temporalIdx h = temporalIdx hdr /\ layerSync h = layerSync hdr /\ keyIdx h = keyIdx hdr.

Definition delivery_of (self : RtpFormatVp8) (p : InfoStruct) : Delivered :=
  delivery (hdr_info_ self) p (slice_of self p).

Lemma short_key_delivery hdr i slice :
  short_key (delivery hdr i slice) = is_key_packet i slice && (Zlen slice <? 10).
Proof. unfold short_key, delivery. simpl. by destruct (is_key_packet i slice). Qed.

Lemma payload_received self p ps a :
  ready self (p :: ps) a -> num_partitions_ self <= 9 -> max_payload_len_ self < 65536 ->
  received_as (payload_of self p) (delivery_of self p).
Proof.
  intros Hr Hn Hm R fresh callback. destruct (ready_head _ _ _ _ Hr) as (_ & P2 & P3 & _ & P5 & _).
  assert (Q1 := packet_part _ _ P2). assert (Q2 := packet_fits _ _ P2). unfold room_of in Q2.
  unfold payload_of. rewrite ReceiveVp8Codec_written; [|apply Hr|lia|lia].
  fold (delivery_of self p). unfold delivery_of at 2. by rewrite short_key_delivery.
Qed.

Lemma ready_received self ps a :
  ready self ps a -> num_partitions_ self <= 9 -> max_payload_len_ self < 65536 ->
  Forall2 received_as (payload_of self <$> ps) (delivery_of self <$> ps) /\
  concat (delivered_data <$> (delivery_of self <$> ps)) = zdrop a (payload_data_ self) /\
  Forall (fun d => same_header (hdr_info_ self) (delivered_header d)) (delivery_of self <$> ps) /\
  Forall (fun payload => Zlen payload <= max_payload_len_ self) (payload_of self <$> ps).
Proof.
  intros Hr Hn Hm. revert self a Hr Hn Hm. induction ps as [|p ps IH]; intros self a Hr Hn Hm.
  - destruct Hr as [F _ _ _ T _ _]. simpl in T. rewrite T, (frame_data _ F), zdrop_all by lia.
    split; [constructor|]. split; [done|]. split; constructor.
  - destruct (ready_head _ _ _ _ Hr) as (P1 & P2 & P3 & P4 & P5 & P6).
    destruct (IH (set_packets self ps true) _ P6 Hn Hm) as (I1 & I2 & I3 & I4).
    assert (Q2 := packet_fits _ _ P2). unfold room_of in Q2. split_and!.
    + constructor; [by eapply payload_received|exact I1].
    + rewrite !fmap_cons. simpl concat. etrans; [apply f_equal; exact I2|].
      cbn [delivery_of delivery delivered_data payload_data_ set_packets]. unfold slice_of. rewrite P1.
      replace (zdrop (a + info_size p) (payload_data_ self))
        with (zdrop (info_size p) (zdrop a (payload_data_ self)))
        by (rewrite zdrop_zdrop by (destruct Hr; lia); reflexivity).
      apply ztake_zdrop.
    + constructor; [by unfold same_header|exact I3].
    + constructor; [unfold payload_of; rewrite Zlen_app; lia|exact I4].
Qed.

Lemma tiles_count a ps b :
  tiles a ps b -> Forall (fun p => 0 < info_size p) ps -> Z.of_nat (length ps) <= b - a.
Proof.
  revert a. induction ps as [|p ps IH]; simpl; intros a H Hp; [lia|].
  destruct H as [_ H]. inversion Hp as [|? ? Hp1 Hp2]; subst. specialize (IH _ H Hp2). lia.
Qed.

(** A packetizer before the first call, in any mode. *)
Record fresh_frame (self : RtpFormatVp8) : Prop := mkFresh {
  fresh_frame_ok : frame_ok self;
  fresh_header : vp8_ok (hdr_info_ self);
  fresh_packets : packets_ self = [];
  fresh_not_calculated : packets_calculated_ self = false;
  fresh_balance : balance_ self = true;
  fresh_costs : aggr_mode_ self = kAggrPartitions -> costs_fit self;
  fresh_bytes : 0 < payload_size_ self
}.

Lemma fresh_ready {R} self :
  fresh_frame self ->
  exists p ps, ready (set_packets self (p :: ps) true) (p :: ps) 0 /\
    Z.of_nat (length (p :: ps)) <= payload_size_ self /\
    (forall buffer, NextPacket (R := R) self buffer = NextPacket (set_packets self (p :: ps) true) buffer) /\
    (aggr_mode_ self <> kAggrPartitions -> first_fragment p = true /\ first_partition_ix p = 0) /\
    (aggr_mode_ self <> kAggrPartitions -> GeneratePackets (R := R) self = Cont (0, set_packets self (p :: ps) true)).
Proof.
  intros [F H E C B K N].
  assert (Hplan : exists ps,
    (if (if decide (aggr_mode_ self = kAggrPartitions) then true else false) && balance_ self
     then GeneratePacketsBalancedAggregates (R := R) self else GeneratePackets self)
    = Cont (0, set_packets self ps true) /\ tiles 0 ps (payload_size_ self) /\ Forall (packet_ok self) ps /\
    (aggr_mode_ self <> kAggrPartitions -> forall p, head ps = Some p -> first_fragment p = true /\ first_partition_ix p = 0)).
  { rewrite B, andb_true_r. destruct (decide (aggr_mode_ self = kAggrPartitions)) as [Ha|Ha].
    - destruct (GeneratePacketsBalancedAggregates_good (R := R) self F (K Ha) E) as (ps & -> & T1 & T2 & _). by exists ps.
    - destruct (GeneratePackets_good (R := R) self F B Ha E) as (ps & -> & (T1 & T2 & _) & Th). by exists ps. }
  destruct Hplan as (ps & Hp & T1 & T2 & T3). destruct ps as [|p ps]; [simpl in T1; lia|].
  exists p, ps. split.
  - split; try done; [by destruct F|]. eapply Forall_impl; [exact T2|]. by intros q [? ? ? ? ?].
  - split; [|split; [|split]].
    + assert (L := tiles_count _ _ _ T1 (packets_positive _ _ T2)). lia.
    + intros buffer. by apply NextPacket_plan.
    + intros Ha. by apply T3.
    + intros Ha. rewrite decide_False in Hp by done. exact Hp.
Qed.

(** C23: a frame is the same after its trip through packets, in every mode of the
    packetizer: fetching until the last packet gives payloads within the limit; the
    receiver's parser takes from each, whatever the callback, the header that was
    set and a part of the frame, and the parts in order are the frame.  Only a key
    frame whose first packet has fewer than ten bytes of the frame loses that packet. *)
Theorem fetch_all_delivered {R} self size :
  fresh_frame self -> num_partitions_ self <= 9 -> max_payload_len_ self < 65536 ->
  max_payload_len_ self <= size ->
  exists payloads ds,
    fetch_all (R := R) (S (Z.to_nat (payload_size_ self))) self size = Cont payloads /\
    Forall (fun payload => Zlen payload <= max_payload_len_ self) payloads /\
    Forall2 received_as payloads ds /\
    Forall (fun d => same_header (hdr_info_ self) (delivered_header d)) ds /\
    concat (delivered_data <$> ds) = payload_data_ self.
Proof.
  intros Hf Hn Hm Hs. destruct (fresh_ready (R := R) self Hf) as (p & ps & Hr & Hl & Hnext & _).
  destruct (ready_received _ _ _ Hr Hn Hm) as (I1 & I2 & I3 & I4).
  exists (payload_of (set_packets self (p :: ps) true) <$> p :: ps), (delivery_of (set_packets self (p :: ps) true) <$> p :: ps).
  split_and!; try done.
  assert (E : fetch_all (R := R) (S (Z.to_nat (payload_size_ self))) self size
    = fetch_all (S (Z.to_nat (payload_size_ self))) (set_packets self (p :: ps) true) size)
    by (cbn [fetch_all]; by rewrite Hnext).
  rewrite E. apply (fetch_ready _ _ _ _ 0); [done|done|simpl in Hl; lia].
Qed.

Lemma fetch_all_delivered_witness :
  exists payloads ds,
    fetch_all (R := Z) 151 ex_aggregate 40 = Cont payloads /\
    Forall (fun payload => Zlen payload <= 30) payloads /\
    Forall2 received_as payloads ds /\
    Forall (fun d => same_header ex_header (delivered_header d)) ds /\
    concat (delivered_data <$> ds) = replicate 150 7.
Proof.
  apply (fetch_all_delivered ex_aggregate 40); [|done..].
  split; try done; [by apply frame_ok_intro|].
  split; simpl; unfold kNoPictureId, kNoTl0PicIdx, kNoTemporalIdx, kNoKeyIdx; lia.
Defined.

(** ** The sender *)

(** What stays of the sender's state while a frame is sent. *)
Local Abbreviation same_sender := same_transport.

Lemma same_length self0 self : same_sender self0 self -> RTPHeaderLength self = RTPHeaderLength self0.
Proof.
  intros [_ E1 _ _ E2 E3 _]. unfold RTPHeaderLength, RtpHeaderExtensionTotalLength. by rewrite E1, E2, E3.
Qed.

(** The bytes of the packet that goes to the network. *)
Definition packet_bytes (pkt : VideoPacket) : list Z :=
  ztake (call_header_length pkt + call_payload_length pkt) (call_buffer pkt).

(** The receiver gets the header and the delivery from a packet. *)
Definition video_received (map : ExtensionMap) (pkt : VideoPacket) (r : RTPHeader * Delivered) : Prop :=
  (forall R, RtpHeaderParserImpl_Parse (R := R) map (packet_bytes pkt) = Cont (true, r.1)) /\
  headerLength r.1 = call_header_length pkt /\ paddingLength r.1 = 0 /\
  received_as (zdrop (headerLength r.1) (packet_bytes pkt)) r.2.

(** The receiver gets the header, and the depacketizer hands the delivery over. *)
Definition video_delivered (map : ExtensionMap) (pkt : VideoPacket) (r : RTPHeader * Delivered) : Prop :=
  (forall R, RtpHeaderParserImpl_Parse (R := R) map (packet_bytes pkt) = Cont (true, r.1)) /\
  headerLength r.1 = call_header_length pkt /\ paddingLength r.1 = 0 /\
  delivered_as (zdrop (headerLength r.1) (packet_bytes pkt)) r.2.

Lemma all_video_delivered map pkts l :
  existsb short_key l.*2 = false -> Forall2 (video_received map) pkts l -> Forall2 (video_delivered map) pkts l.
Proof.
  intros Hs H. induction H as [|pkt r pkts l (H1 & H2 & H3 & H4) H IH]; [constructor|].
  apply orb_false_iff in Hs as [Hs1 Hs2]. constructor; [|by apply IH].
  split; [done|]. split; [done|]. split; [done|]. by apply received_delivered.
Qed.

Definition frame_header (self : RTPSender) (payloadType captureTimeStamp : Z) (h : RTPHeader) : Prop :=
  RtpHeader.payloadType h = payloadType /\ ssrc h = ssrc_ self /\
  timestamp h = u32 (start_timestamp_ self + captureTimeStamp).

Section send.
Context `{VideoSender}.

Lemma after_header_same self0 self now marker cap cap_ms :
  same_sender self0 self -> same_sender self0 (after_header self now marker cap cap_ms true).
Proof.
  intros [E0 E1 E2 E3 E4 E5 E6].
  assert (Hi : sender_inv (after_header self now marker cap cap_ms true)).
  { eapply step_keeps; [|exact E0]. eapply (step_header _ self now (replicate 88 0) 0).
    by apply (BuildRTPheader_bytes (R := unit) self now (replicate 88 0) 0 marker cap cap_ms true true). }
  by split.
Qed.

Lemma same_transport_trans a b c : same_transport a b -> same_transport b c -> same_transport a c.
Proof. intros [A0 A1 A2 A3 A4 A5 A6] [B0 B1 B2 B3 B4 B5 B6]. split; congruence. Qed.

(** The buffer of a packet, before and after the header. *)
Lemma buffer_bytes {R} self now payload pt marker cap cap_ms :
  sender_inv self -> Zlen payload <= IP_PACKET_SIZE - RTPHeaderLength self ->
  let hl := RTPHeaderLength self in
  let zeros := replicate (Z.to_nat IP_PACKET_SIZE) 0 in
  exists tail,
    BuildRTPheader (R := R) self now (ztake hl zeros ++ put (zdrop hl zeros) 0 payload) pt marker cap cap_ms true true
    = Cont (hl, built_header self pt marker cap true ++ payload ++ tail,
            after_header self now marker cap cap_ms true).
Proof.
  intros Hi Hp hl zeros. destruct (built_header_length self pt marker cap true Hi) as [HL Hle]. fold hl in HL, Hle, Hp.
  assert (H0 := Zlen_nonneg (built_header self pt marker cap true)). assert (H1 := Zlen_nonneg payload).
  assert (Hz : Zlen zeros = 1500) by done. unfold IP_PACKET_SIZE in Hp.
  exists (zdrop (Zlen payload) (zdrop hl zeros)).
  rewrite BuildRTPheader_bytes; [|done|].
  - do 2 f_equal. f_equal. rewrite !put_0. fold hl. rewrite HL.
    rewrite zdrop_app_ge by (rewrite Zlen_ztake; lia). rewrite Zlen_ztake, Z.sub_diag by lia. by rewrite zdrop_0 by lia.
  - rewrite Zlen_app, Zlen_put, Zlen_ztake, !Zlen_zdrop by (rewrite ?Zlen_zdrop; lia). lia.
Qed.

Lemma packet_received self map pt marker cap payload tail d storage protect :
  sender_inv self -> rtp_header_extension_map_ self = map -> 0 <= pt < 128 -> Zlen payload < 65536 ->
  received_as payload d ->
  exists h,
    video_received map (mkVideoPacket (built_header self pt marker cap true ++ payload ++ tail)
      (u16 (Zlen payload)) (RTPHeaderLength self) storage protect) (h, d) /\
    frame_header self pt cap h /\ markerBit h = marker.
Proof.
  intros Hi <- Hpt Hp Hd. destruct (built_header_length self pt marker cap true Hi) as [HL Hle].
  assert (H1 := Zlen_nonneg payload).
  exists (parsed_header self pt (ssrc_ self) marker (sent_timestamp self cap true)
    (sequence_number_ self) (sent_csrcs self)). split; [|done].
  set (pkt := mkVideoPacket _ _ _ _ _).
  assert (Eb : packet_bytes pkt = built_header self pt marker cap true ++ payload).
  { unfold packet_bytes. cbn [pkt call_header_length call_payload_length call_buffer].
    rewrite u16_id by (unfold is_u16; lia). rewrite app_assoc. apply ztake_front. rewrite Zlen_app. lia. }
  assert (El : headerLength (parsed_header self pt (ssrc_ self) marker (sent_timestamp self cap true)
    (sequence_number_ self) (sent_csrcs self)) = RTPHeaderLength self) by exact HL.
  unfold video_received. cbn [fst snd]. rewrite Eb, El. split; [|split; [done|split; [done|]]].
  - intros R. by apply built_header_parsed.
  - by rewrite zdrop_app_ge, HL, Z.sub_diag, zdrop_0 by lia.
Qed.

(** What holds of the calls so far, the sender and the state besides it, if every call
    keeps it; [n] is the number of packets. *)
Definition call_keeps (Inv : list VideoPacket -> RTPSender -> video -> Prop) (self0 : RTPSender)
  (n : nat) (limit pt now cap cap_ms : Z) (storage : StorageType) (protect : bool) : Prop :=
  forall R sent self v payload tail,
    Inv sent self v -> Zlen payload <= limit -> (length sent < n)%nat ->
    let marker := bool_decide (S (length sent) = n) in
    let pkt := mkVideoPacket (built_header self pt marker cap true ++ payload ++ tail) (u16 (Zlen payload))
                 (RTPHeaderLength self0) storage protect in
    exists ret self2 v2,
      SendVideoPacket (R := R) (after_header self now marker cap cap_ms true) v pkt = Cont (ret, self2, v2)
      /\ Inv (sent ++ [pkt]) self2 v2.

Lemma send_loop_received {R} Inv n limit fuel self0 self v pk p ps a now pt cap cap_ms storage protect sent :
  (forall sent self v, Inv sent self v -> same_sender self0 self) ->
  call_keeps Inv self0 n limit pt now cap cap_ms storage protect ->
  Inv sent self v -> n = (length sent + length (p :: ps))%nat ->
  0 <= pt < 128 -> ready pk (p :: ps) a -> num_partitions_ pk <= 9 -> max_payload_len_ pk <= limit ->
  RTPHeaderLength self0 + limit <= IP_PACKET_SIZE -> (length ps < fuel)%nat ->
  exists self' v' pkts l,
    send_loop (R := R) fuel self v pk now pt cap cap_ms (RTPHeaderLength self0) storage protect sent
    = Cont (0, self', v', sent ++ pkts) /\ Inv (sent ++ pkts) self' v' /\
    Forall2 (video_received (rtp_header_extension_map_ self0)) pkts l /\
    l.*2 = (delivery_of pk <$> p :: ps) /\
    Forall (frame_header self0 pt cap) l.*1 /\
    (markerBit <$> l.*1) = replicate (length ps) false ++ [true].
Proof.
  intros Hsame Hkeep.
  revert self v pk p ps a sent. induction fuel as [|fuel IH]; intros self v pk p ps a sent Hinv Hcount Hpt Hr Hn Hlim Hl Hf; [lia|].
  assert (Hs := Hsame _ _ _ Hinv).
  destruct (ready_head _ _ _ _ Hr) as (P1 & P2 & P3 & P4 & P5 & P6).
  destruct (packet_part _ _ P2) as [Q1 _]. assert (Q2 := packet_fits _ _ P2). unfold room_of in Q2.
  assert (Hlen := same_length _ _ Hs). assert (Hi := tr_inv _ _ Hs).
  destruct (built_header_length self pt true cap true Hi) as [HL Hle].
  assert (H0 := Zlen_nonneg (built_header self pt true cap true)). unfold IP_PACKET_SIZE in Hl.
  assert (Hpl : Zlen (payload_of pk p) <= max_payload_len_ pk) by (unfold payload_of; rewrite Zlen_app; lia).
  cbn [send_loop]. rewrite (NextPacket_pop pk p ps a);
    [|done|rewrite Zlen_zdrop by (change (Zlen (replicate _ 0)) with 1500; lia);
           change (Zlen (replicate _ 0)) with 1500; lia].
  cbn [flow_bind from_option id]. destruct (Z.ltb_spec (first_partition_ix p) 0); [lia|].
  set (marker := match ps with [] => true | _ => false end). rewrite <- Hlen.
  destruct (buffer_bytes (R := R) self now (payload_of pk p) pt marker cap cap_ms Hi) as (tail & E);
    [unfold IP_PACKET_SIZE; lia|]. cbv zeta in E. rewrite E. cbn [flow_bind].
  destruct (packet_received self (rtp_header_extension_map_ self0) pt marker cap (payload_of pk p) tail
    (delivery_of pk p) storage protect) as (h & V1 & V2 & V3); try done; [apply Hs|lia|eapply payload_received; done || lia|].
  set (pkt := mkVideoPacket _ _ _ _ _) in *.
  destruct (Hkeep R sent self v (payload_of pk p) tail Hinv ltac:(lia) ltac:(simpl in Hcount; lia)) as (ret & self2 & v2 & Esend & Hinv2).
  replace (bool_decide (S (length sent) = n)) with marker in *
    by (subst n marker; destruct ps; simpl; symmetry; [apply bool_decide_eq_true|apply bool_decide_eq_false]; lia).
  rewrite <- Hlen in Esend, Hinv2. fold pkt in Esend, Hinv2. rewrite Esend. cbn [flow_bind].
  assert (V4 : frame_header self0 pt cap h).
  { destruct V2 as (A1 & A2 & A3). unfold frame_header. by rewrite <- (tr_ssrc _ _ Hs), <- (tr_start _ _ Hs). }
  destruct ps as [|q ps]; subst marker; cbn [andb].
  - exists self2, v2, [pkt], [(h, delivery_of pk p)]. split; [done|]. split; [done|].
    split; [constructor; [done|constructor]|]. split; [done|].
    split; [by constructor|].
    simpl. by rewrite V3.
  - destruct (IH self2 v2 (set_packets pk (q :: ps) true) q ps _ (sent ++ [pkt]) Hinv2
      ltac:(rewrite length_app; simpl in *; lia) Hpt P6 Hn Hlim Hl)
      as (self' & v' & pkts & l & I1 & I0 & I2 & I3 & I4 & I5); [simpl in *; lia|].
    rewrite Hlen, I1. rewrite <- app_assoc in I0 |- *.
    exists self', v', (pkt :: pkts), ((h, delivery_of pk p) :: l).
    split; [done|]. split; [done|]. split; [by constructor|]. split; [rewrite fmap_cons, I3; done|]. split; [by constructor|].
    rewrite !fmap_cons, I5. simpl. by rewrite V3.
Qed.
End send.

Lemma new_whole_frame payload hdr max_payload_len :
  0 < Zlen payload < 2147483648 -> vp8_ok hdr -> PayloadDescriptorExtraLength hdr + 2 <= max_payload_len ->
  fresh_frame (new_RtpFormatVp8_whole payload (Zlen payload) hdr max_payload_len).
Proof.
  intros Hp Hh Hm. set (pk := new_RtpFormatVp8_whole _ _ _ _).
  assert (Hroom : room_of pk = max_payload_len - (1 + PayloadDescriptorExtraLength hdr)) by done.
  assert (Hsize : payload_size_ pk = Zlen payload) by done.
  split; try done; [|rewrite Hsize; lia].
  split; try done; rewrite ?Hsize; try lia.
  - repeat constructor. lia.
  - unfold total. change (fragmentationLength pk) with [Zlen payload]. simpl foldr. lia.
Qed.

(** The number of packets of a frame. *)
Definition frame_packets (R : Type) (payload : list Z) (hdr : RTPVideoHeaderVP8) (max_payload_len : Z) : nat :=
  match GeneratePackets (R := R) (new_RtpFormatVp8_whole payload (Zlen payload) hdr max_payload_len) with
  | Cont (_, pk) => length (packets_ pk)
  | _ => O
  end.

(** The frame has a packet that the receiver refuses: the first of a key frame, with fewer
    than ten bytes of it. *)
Definition short_key_frame (R : Type) (payload : list Z) (hdr : RTPVideoHeaderVP8) (max_payload_len : Z) : bool :=
  match GeneratePackets (R := R) (new_RtpFormatVp8_whole payload (Zlen payload) hdr max_payload_len) with
  | Cont (_, pk) => existsb short_key (delivery_of pk <$> packets_ pk)
  | _ => false
  end.

(** The sender does not see to it: a key frame of 15 bytes in packets of 8 and 7 bytes. *)
Example short_key_frame_example :
  short_key_frame unit (replicate 15 0) ex_header 19 = true
  /\ frame_packets unit (replicate 15 0) ex_header 19 = 2%nat
  /\ short_key_frame unit (replicate 15 0) ex_header 40 = false.
Proof. split; [|split]; vm_compute; reflexivity. Qed.

(** A frame takes a number of packets, and what every call keeps holds at the end. *)
Lemma SendVP8_runs {R} `{VideoSender} self retransmissionSettings maxPayloadLengthVP8
    now_ms payloadType captureTimeStamp capture_time_ms payloadData hdr :
  sender_inv self -> 0 <= payloadType < 128 -> vp8_ok hdr -> 0 < Zlen payloadData < 2147483648 ->
  PayloadDescriptorExtraLength hdr + 2 <= maxPayloadLengthVP8 ->
  RTPHeaderLength self + maxPayloadLengthVP8 <= IP_PACKET_SIZE ->
  let n := frame_packets R payloadData hdr maxPayloadLengthVP8 in
  (0 < n)%nat /\ forall Inv v,
    (forall sent self' v, Inv sent self' v -> same_transport self self') ->
    call_keeps Inv self n maxPayloadLengthVP8 payloadType now_ms captureTimeStamp capture_time_ms
      (vp8_storage retransmissionSettings hdr) (vp8_protect hdr) ->
    Inv [] self v ->
    exists self' v' pkts l,
      SendVP8 (R := R) self v retransmissionSettings maxPayloadLengthVP8 now_ms payloadType captureTimeStamp
        capture_time_ms payloadData (Zlen payloadData) hdr = Cont (0, self', v', pkts) /\
      Inv pkts self' v' /\ length pkts = n /\
      Forall2 (video_received (rtp_header_extension_map_ self)) pkts l /\
      Forall (frame_header self payloadType captureTimeStamp) l.*1 /\
      (markerBit <$> l.*1) = replicate (length l - 1) false ++ [true] /\
      Forall (fun d => same_header hdr (delivered_header d)) l.*2 /\
      concat (delivered_data <$> l.*2) = payloadData /\
      existsb short_key l.*2 = short_key_frame R payloadData hdr maxPayloadLengthVP8.
Proof.
  intros Hi Hpt Hh Hp Hm Hl n.
  set (pk := new_RtpFormatVp8_whole payloadData (Zlen payloadData) hdr maxPayloadLengthVP8).
  destruct (fresh_ready (R := R) pk (new_whole_frame _ _ _ Hp Hh Hm)) as (p & ps & Hr & Hc & Hnext & _ & Hgen).
  assert (En : n = length (p :: ps)) by (unfold n, frame_packets; fold pk; by rewrite Hgen).
  assert (Esk : short_key_frame R payloadData hdr maxPayloadLengthVP8
    = existsb short_key (delivery_of (set_packets pk (p :: ps) true) <$> p :: ps))
    by (unfold short_key_frame; fold pk; by rewrite Hgen).
  clearbody n. subst n.
  destruct (built_header_length self 0 true 0 true Hi) as [HL Hle].
  assert (H0 := Zlen_nonneg (built_header self 0 true 0 true)). unfold IP_PACKET_SIZE in Hl.
  split; [simpl; lia|]. intros Inv v Hsame Hkeep Hinv.
  destruct (send_loop_received (R := R) Inv (length (p :: ps)) maxPayloadLengthVP8 (S (Z.to_nat (Zlen payloadData)))
    self self v (set_packets pk (p :: ps) true)
    p ps 0 now_ms payloadType captureTimeStamp capture_time_ms (vp8_storage retransmissionSettings hdr)
    (vp8_protect hdr) []) as (self' & v' & pkts & l & I1 & I0 & I2 & I3 & I4 & I5);
    [done|done|done|done|done|done|simpl; lia|simpl; lia|unfold IP_PACKET_SIZE; lia|simpl in Hc; lia|].
  destruct (ready_received _ _ _ Hr) as (_ & J2 & J3 & _); [simpl; lia|simpl; lia|].
  assert (I6 : length l = length (p :: ps)) by (apply (f_equal length) in I3; by rewrite !length_fmap in I3).
  exists self', v', pkts, l. split; [|split; [done|split]].
  - unfold SendVP8. rewrite u16_id by (unfold is_u16; lia). rewrite s32_id by (unfold is_s32; lia).
    fold pk. rewrite app_nil_l in I1. rewrite <- I1. cbn [send_loop]. by rewrite Hnext.
  - rewrite <- I6. eapply Forall2_length, I2.
  - split; [done|]. split; [done|]. split; [|by rewrite I3, Esk].
    rewrite I5, I6. do 2 f_equal. simpl. lia.
Qed.

(** C19: a frame that SendVP8 sends arrives.  Whatever the transport does within its
    interface, SendVP8 ends with success, and from every packet it hands over the
    receiver's RTP parser gets the payload type, the SSRC and the capture time of the
    frame; the marker is set on the last packet and on no other.  The payloads in order
    are the frame with its VP8 header, and ReceiveVp8Codec hands every one of them over,
    except the first packet of a key frame when it has fewer than ten bytes of the frame:
    that one it refuses ([received_as]), so a frame with such a packet
    ([short_key_frame]) does not arrive. *)
Theorem SendVP8_received {R} `{VideoTransport} self v retransmissionSettings maxPayloadLengthVP8
    now_ms payloadType captureTimeStamp capture_time_ms payloadData hdr :
  sender_inv self -> video_ok v -> 0 <= payloadType < 128 -> vp8_ok hdr -> 0 < Zlen payloadData < 2147483648 ->
  PayloadDescriptorExtraLength hdr + 2 <= maxPayloadLengthVP8 ->
  RTPHeaderLength self + maxPayloadLengthVP8 <= IP_PACKET_SIZE ->
  exists self' v' pkts l,
    SendVP8 (R := R) self v retransmissionSettings maxPayloadLengthVP8 now_ms payloadType captureTimeStamp
      capture_time_ms payloadData (Zlen payloadData) hdr = Cont (0, self', v', pkts) /\
    (short_key_frame R payloadData hdr maxPayloadLengthVP8 = false ->
     Forall2 (video_delivered (rtp_header_extension_map_ self)) pkts l) /\
    Forall2 (video_received (rtp_header_extension_map_ self)) pkts l /\
    Forall (frame_header self payloadType captureTimeStamp) l.*1 /\
    (markerBit <$> l.*1) = replicate (length l - 1) false ++ [true] /\
    Forall (fun d => same_header hdr (delivered_header d)) l.*2 /\
    concat (delivered_data <$> l.*2) = payloadData.
Proof.
  intros Hi Hv Hpt Hh Hp Hm Hl.
  destruct (SendVP8_runs (R := R) self retransmissionSettings maxPayloadLengthVP8 now_ms payloadType
    captureTimeStamp capture_time_ms payloadData hdr) as (_ & Hrun); [done..|].
  destruct (Hrun (fun _ self' v => same_transport self self' /\ video_ok v) v)
    as (self' & v' & pkts & l & E & _ & _ & Hr & Hf & Hmk & Hhd & Hcat & Hsk); [by intros ? ? ? [? ?]| |split; [by split|done]|
      exists self', v', pkts, l; split_and!; try done; intros Hno; apply all_video_delivered; [by rewrite Hsk|done]].
  intros R' sent self1 v1 payload tail [Hs Hv1] _ _. cbv zeta.
  match goal with |- context [SendVideoPacket ?s v1 ?p] =>
    destruct (SendVideoPacket_returns R' s v1 p) as (ret & self2 & v2 & E2 & Hs2 & Hv2) end;
    [apply (after_header_same self), Hs|done|].
  exists ret, self2, v2. split; [done|]. split; [|done].
  eapply same_transport_trans; [by apply after_header_same|done].
Qed.

Lemma SendVP8_received_witness :
  exists self' v' pkts l,
    SendVP8 (H := plain_sender) (R := unit) ex_sender tt 2 40 0 96 5 0 (replicate 150 7) 150 ex_header = Cont (0, self', v', pkts) /\
    Forall2 (video_delivered (rtp_header_extension_map_ ex_sender)) pkts l /\
    Forall (frame_header ex_sender 96 5) l.*1 /\
    (markerBit <$> l.*1) = replicate (length l - 1) false ++ [true] /\
    Forall (fun d => same_header ex_header (delivered_header d)) l.*2 /\
    concat (delivered_data <$> l.*2) = replicate 150 7.
Proof.
  destruct (SendVP8_received (R := unit) (VS := plain_sender) ex_sender tt 2 40 0 96 5 0 (replicate 150 7) ex_header)
    as (self' & v' & pkts & l & E & Hd & _ & H); [| |done| | |done|done|].
  - apply ex_sender_inv.
  - done.
  - split; simpl; unfold kNoPictureId, kNoTl0PicIdx, kNoTemporalIdx, kNoKeyIdx; lia.
  - done.
  - exists self', v', pkts, l. split; [exact E|]. split; [apply Hd; vm_compute; reflexivity|exact H].
Defined.
