(* ===== verification/FecBursty.v ===== *)
(** * The packet masks against bursts of losses

    The arrays of [modules/rtp_rtcp/source/fec_private_tables_bursty.h]: for [k] media packets
    and [m] FEC packets, [m] rows of two bytes, one for each FEC packet; the first bit
    of a row is for the first media packet. *)
From S2P Require Import Prelude.
Local Open Scope Z_scope.

Definition kMaskBursty1_1 : list Z :=
  [0x80; 0x00].

Definition kMaskBursty2_1 : list Z :=
  [0xc0; 0x00].

Definition kMaskBursty2_2 : list Z :=
  [0x80; 0x00; 0xc0; 0x00].

Definition kMaskBursty3_1 : list Z :=
  [0xe0; 0x00].

Definition kMaskBursty3_2 : list Z :=
  [0xc0; 0x00; 0xa0; 0x00].

Definition kMaskBursty3_3 : list Z :=
  [0x80; 0x00; 0xc0; 0x00; 0x60; 0x00].

Definition kMaskBursty4_1 : list Z :=
  [0xf0; 0x00].

Definition kMaskBursty4_2 : list Z :=
  [0xa0; 0x00; 0xd0; 0x00].

Definition kMaskBursty4_3 : list Z :=
  [0xc0; 0x00; 0x60; 0x00; 0x90; 0x00].

Definition kMaskBursty4_4 : list Z :=
  [0x80; 0x00; 0xc0; 0x00; 0x60; 0x00; 0x30; 0x00].

Definition kMaskBursty5_1 : list Z :=
  [0xf8; 0x00].

Definition kMaskBursty5_2 : list Z :=
  [0xd0; 0x00; 0xa8; 0x00].

Definition kMaskBursty5_3 : list Z :=
  [0x70; 0x00; 0x90; 0x00; 0xc8; 0x00].

Definition kMaskBursty5_4 : list Z :=
  [0xc0; 0x00; 0x60; 0x00; 0x30; 0x00; 0x88; 0x00].

Definition kMaskBursty5_5 : list Z :=
  [0x80; 0x00; 0xc0; 0x00; 0x60; 0x00; 0x30; 0x00; 0x18; 0x00].

Definition kMaskBursty6_1 : list Z :=
  [0xfc; 0x00].

Definition kMaskBursty6_2 : list Z :=
  [0xa8; 0x00; 0xd4; 0x00].

Definition kMaskBursty6_3 : list Z :=
  [0x94; 0x00; 0xc8; 0x00; 0x64; 0x00].

Definition kMaskBursty6_4 : list Z :=
  [0x60; 0x00; 0x38; 0x00; 0x88; 0x00; 0xc4; 0x00].

Definition kMaskBursty6_5 : list Z :=
  [0xc0; 0x00; 0x60; 0x00; 0x30; 0x00; 0x18; 0x00; 0x84; 0x00].

Definition kMaskBursty6_6 : list Z :=
  [0x80; 0x00; 0xc0; 0x00; 0x60; 0x00; 0x30; 0x00; 0x18; 0x00; 0x0c; 0x00].

Definition kMaskBursty7_1 : list Z :=
  [0xfe; 0x00].

Definition kMaskBursty7_2 : list Z :=
  [0xd4; 0x00; 0xaa; 0x00].

Definition kMaskBursty7_3 : list Z :=
  [0xc8; 0x00; 0x74; 0x00; 0x92; 0x00].

Definition kMaskBursty7_4 : list Z :=
  [0x38; 0x00; 0x8a; 0x00; 0xc4; 0x00; 0x62; 0x00].

Definition kMaskBursty7_5 : list Z :=
  [0x60; 0x00; 0x30; 0x00; 0x1c; 0x00; 0x84; 0x00; 0xc2; 0x00].

Definition kMaskBursty7_6 : list Z :=
  [0xc0; 0x00; 0x60; 0x00; 0x30; 0x00; 0x18; 0x00; 0x0c; 0x00; 0x82; 0x00].

Definition kMaskBursty7_7 : list Z :=
  [0x80; 0x00; 0xc0; 0x00; 0x60; 0x00; 0x30; 0x00; 0x18; 0x00; 0x0c; 0x00; 0x06; 0x00].

Definition kMaskBursty8_1 : list Z :=
  [0xff; 0x00].

Definition kMaskBursty8_2 : list Z :=
  [0xaa; 0x00; 0xd5; 0x00].

Definition kMaskBursty8_3 : list Z :=
  [0x74; 0x00; 0x92; 0x00; 0xc9; 0x00].

Definition kMaskBursty8_4 : list Z :=
  [0x8a; 0x00; 0xc5; 0x00; 0x62; 0x00; 0x31; 0x00].

Definition kMaskBursty8_5 : list Z :=
  [0x30; 0x00; 0x1c; 0x00; 0x85; 0x00; 0xc2; 0x00; 0x61; 0x00].

Definition kMaskBursty8_6 : list Z :=
  [0x60; 0x00; 0x30; 0x00; 0x18; 0x00; 0x0e; 0x00; 0x82; 0x00; 0xc1; 0x00].

Definition kMaskBursty8_7 : list Z :=
  [0xc0; 0x00; 0x60; 0x00; 0x30; 0x00; 0x18; 0x00; 0x0c; 0x00; 0x06; 0x00; 0x81; 0x00].

Definition kMaskBursty8_8 : list Z :=
  [0x80; 0x00; 0xc0; 0x00; 0x60; 0x00; 0x30; 0x00; 0x18; 0x00; 0x0c; 0x00; 0x06; 0x00; 0x03; 0x00].

Definition kMaskBursty9_1 : list Z :=
  [0xff; 0x80].

Definition kMaskBursty9_2 : list Z :=
  [0xd5; 0x00; 0xaa; 0x80].

Definition kMaskBursty9_3 : list Z :=
  [0x92; 0x00; 0xc9; 0x00; 0x74; 0x80].

Definition kMaskBursty9_4 : list Z :=
  [0xc5; 0x00; 0x62; 0x00; 0x39; 0x00; 0x8a; 0x80].

Definition kMaskBursty9_5 : list Z :=
  [0x1c; 0x00; 0x85; 0x00; 0xc2; 0x80; 0x61; 0x00; 0x30; 0x80].

Definition kMaskBursty9_6 : list Z :=
  [0x30; 0x00; 0x18; 0x00; 0x0e; 0x00; 0x82; 0x80; 0xc1; 0x00; 0x60; 0x80].

Definition kMaskBursty9_7 : list Z :=
  [0x60; 0x00; 0x30; 0x00; 0x18; 0x00; 0x0c; 0x00; 0x07; 0x00; 0x81; 0x00; 0xc0; 0x80].

Definition kMaskBursty9_8 : list Z :=
  [0xc0; 0x00; 0x60; 0x00; 0x30; 0x00; 0x18; 0x00; 0x0c; 0x00; 0x06; 0x00; 0x03; 0x00; 0x80; 0x80].

Definition kMaskBursty9_9 : list Z :=
  [0x80; 0x00; 0xc0; 0x00; 0x60; 0x00; 0x30; 0x00; 0x18; 0x00; 0x0c; 0x00; 0x06; 0x00; 0x03; 0x00;
   0x01; 0x80].

Definition kMaskBursty10_1 : list Z :=
  [0xff; 0xc0].

Definition kMaskBursty10_2 : list Z :=
  [0xaa; 0x80; 0xd5; 0x40].

Definition kMaskBursty10_3 : list Z :=
  [0xc9; 0x00; 0x74; 0x80; 0x92; 0x40].

Definition kMaskBursty10_4 : list Z :=
  [0x62; 0x00; 0x39; 0x00; 0x8a; 0x80; 0xc5; 0x40].

Definition kMaskBursty10_5 : list Z :=
  [0x85; 0x00; 0xc2; 0x80; 0x61; 0x40; 0x30; 0x80; 0x18; 0x40].

Definition kMaskBursty10_6 : list Z :=
  [0x18; 0x00; 0x0e; 0x00; 0x82; 0x80; 0xc1; 0x40; 0x60; 0x80; 0x30; 0x40].

Definition kMaskBursty10_7 : list Z :=
  [0x30; 0x00; 0x18; 0x00; 0x0c; 0x00; 0x07; 0x00; 0x81; 0x40; 0xc0; 0x80; 0x60; 0x40].

Definition kMaskBursty10_8 : list Z :=
  [0x60; 0x00; 0x30; 0x00; 0x18; 0x00; 0x0c; 0x00; 0x06; 0x00; 0x03; 0x00; 0x80; 0x80; 0xc0; 0x40].

Definition kMaskBursty10_9 : list Z :=
  [0xc0; 0x00; 0x60; 0x00; 0x30; 0x00; 0x18; 0x00; 0x0c; 0x00; 0x06; 0x00; 0x03; 0x00; 0x01; 0x80;
   0x80; 0x40].

Definition kMaskBursty10_10 : list Z :=
  [0x80; 0x00; 0xc0; 0x00; 0x60; 0x00; 0x30; 0x00; 0x18; 0x00; 0x0c; 0x00; 0x06; 0x00; 0x03; 0x00;
   0x01; 0x80; 0x00; 0xc0].

Definition kMaskBursty11_1 : list Z :=
  [0xff; 0xe0].

Definition kMaskBursty11_2 : list Z :=
  [0xd5; 0x40; 0xaa; 0xa0].

Definition kMaskBursty11_3 : list Z :=
  [0x74; 0x80; 0x92; 0x40; 0xc9; 0x20].

Definition kMaskBursty11_4 : list Z :=
  [0x39; 0x00; 0x8a; 0x80; 0xc5; 0x40; 0x62; 0x20].

Definition kMaskBursty11_5 : list Z :=
  [0xc2; 0xc0; 0x61; 0x00; 0x30; 0xa0; 0x1c; 0x40; 0x85; 0x20].

Definition kMaskBursty11_6 : list Z :=
  [0x0e; 0x00; 0x82; 0x80; 0xc1; 0x40; 0x60; 0xa0; 0x30; 0x40; 0x18; 0x20].

Definition kMaskBursty11_7 : list Z :=
  [0x18; 0x00; 0x0c; 0x00; 0x07; 0x00; 0x81; 0x40; 0xc0; 0xa0; 0x60; 0x40; 0x30; 0x20].

Definition kMaskBursty11_8 : list Z :=
  [0x30; 0x00; 0x18; 0x00; 0x0c; 0x00; 0x06; 0x00; 0x03; 0x40; 0x80; 0xa0; 0xc0; 0x40; 0x60; 0x20].

Definition kMaskBursty11_9 : list Z :=
  [0x60; 0x00; 0x30; 0x00; 0x18; 0x00; 0x0c; 0x00; 0x06; 0x00; 0x03; 0x00; 0x01; 0x80; 0x80; 0x40;
   0xc0; 0x20].

Definition kMaskBursty11_10 : list Z :=
  [0xc0; 0x00; 0x60; 0x00; 0x30; 0x00; 0x18; 0x00; 0x0c; 0x00; 0x06; 0x00; 0x03; 0x00; 0x01; 0x80;
   0x00; 0xc0; 0x80; 0x20].

Definition kMaskBursty11_11 : list Z :=
  [0x80; 0x00; 0xc0; 0x00; 0x60; 0x00; 0x30; 0x00; 0x18; 0x00; 0x0c; 0x00; 0x06; 0x00; 0x03; 0x00;
   0x01; 0x80; 0x00; 0xc0; 0x00; 0x60].

Definition kMaskBursty12_1 : list Z :=
  [0xff; 0xf0].

Definition kMaskBursty12_2 : list Z :=
  [0xaa; 0xa0; 0xd5; 0x50].

Definition kMaskBursty12_3 : list Z :=
  [0x92; 0x40; 0xc9; 0x20; 0x74; 0x90].

Definition kMaskBursty12_4 : list Z :=
  [0x8a; 0x80; 0xc5; 0x40; 0x62; 0x20; 0x39; 0x10].

Definition kMaskBursty12_5 : list Z :=
  [0x61; 0x00; 0x30; 0xa0; 0x1c; 0x50; 0x85; 0x20; 0xc2; 0x90].

Definition kMaskBursty12_6 : list Z :=
  [0x82; 0x90; 0xc1; 0x40; 0x60; 0xa0; 0x30; 0x50; 0x18; 0x20; 0x0c; 0x10].

Definition kMaskBursty12_7 : list Z :=
  [0x0c; 0x00; 0x07; 0x00; 0x81; 0x40; 0xc0; 0xa0; 0x60; 0x50; 0x30; 0x20; 0x18; 0x10].

Definition kMaskBursty12_8 : list Z :=
  [0x18; 0x00; 0x0c; 0x00; 0x06; 0x00; 0x03; 0x00; 0x80; 0xa0; 0xc0; 0x50; 0x60; 0x20; 0x30; 0x10].

Definition kMaskBursty12_9 : list Z :=
  [0x30; 0x00; 0x18; 0x00; 0x0c; 0x00; 0x06; 0x00; 0x03; 0x00; 0x01; 0x80; 0x80; 0x50; 0xc0; 0x20;
   0x60; 0x10].

Definition kMaskBursty12_10 : list Z :=
  [0x60; 0x00; 0x30; 0x00; 0x18; 0x00; 0x0c; 0x00; 0x06; 0x00; 0x03; 0x00; 0x01; 0x80; 0x00; 0xc0;
   0x80; 0x20; 0xc0; 0x10].

Definition kMaskBursty12_11 : list Z :=
  [0xc0; 0x00; 0x60; 0x00; 0x30; 0x00; 0x18; 0x00; 0x0c; 0x00; 0x06; 0x00; 0x03; 0x00; 0x01; 0x80;
   0x00; 0xc0; 0x00; 0x60; 0x80; 0x10].

Definition kMaskBursty12_12 : list Z :=
  [0x80; 0x00; 0xc0; 0x00; 0x60; 0x00; 0x30; 0x00; 0x18; 0x00; 0x0c; 0x00; 0x06; 0x00; 0x03; 0x00;
   0x01; 0x80; 0x00; 0xc0; 0x00; 0x60; 0x00; 0x30].

Definition kPacketMaskBursty1 : list (list Z) :=
  [kMaskBursty1_1].

Definition kPacketMaskBursty2 : list (list Z) :=
  [kMaskBursty2_1; kMaskBursty2_2].

Definition kPacketMaskBursty3 : list (list Z) :=
  [kMaskBursty3_1; kMaskBursty3_2; kMaskBursty3_3].

Definition kPacketMaskBursty4 : list (list Z) :=
  [kMaskBursty4_1; kMaskBursty4_2; kMaskBursty4_3; kMaskBursty4_4].

Definition kPacketMaskBursty5 : list (list Z) :=
  [kMaskBursty5_1; kMaskBursty5_2; kMaskBursty5_3; kMaskBursty5_4; kMaskBursty5_5].

Definition kPacketMaskBursty6 : list (list Z) :=
  [kMaskBursty6_1; kMaskBursty6_2; kMaskBursty6_3; kMaskBursty6_4; kMaskBursty6_5;
   kMaskBursty6_6].

Definition kPacketMaskBursty7 : list (list Z) :=
  [kMaskBursty7_1; kMaskBursty7_2; kMaskBursty7_3; kMaskBursty7_4; kMaskBursty7_5;
   kMaskBursty7_6; kMaskBursty7_7].

Definition kPacketMaskBursty8 : list (list Z) :=
  [kMaskBursty8_1; kMaskBursty8_2; kMaskBursty8_3; kMaskBursty8_4; kMaskBursty8_5;
   kMaskBursty8_6; kMaskBursty8_7; kMaskBursty8_8].

Definition kPacketMaskBursty9 : list (list Z) :=
  [kMaskBursty9_1; kMaskBursty9_2; kMaskBursty9_3; kMaskBursty9_4; kMaskBursty9_5;
   kMaskBursty9_6; kMaskBursty9_7; kMaskBursty9_8; kMaskBursty9_9].

Definition kPacketMaskBursty10 : list (list Z) :=
  [kMaskBursty10_1; kMaskBursty10_2; kMaskBursty10_3; kMaskBursty10_4; kMaskBursty10_5;
   kMaskBursty10_6; kMaskBursty10_7; kMaskBursty10_8; kMaskBursty10_9; kMaskBursty10_10].

Definition kPacketMaskBursty11 : list (list Z) :=
  [kMaskBursty11_1; kMaskBursty11_2; kMaskBursty11_3; kMaskBursty11_4; kMaskBursty11_5;
   kMaskBursty11_6; kMaskBursty11_7; kMaskBursty11_8; kMaskBursty11_9; kMaskBursty11_10;
   kMaskBursty11_11].

Definition kPacketMaskBursty12 : list (list Z) :=
  [kMaskBursty12_1; kMaskBursty12_2; kMaskBursty12_3; kMaskBursty12_4; kMaskBursty12_5;
   kMaskBursty12_6; kMaskBursty12_7; kMaskBursty12_8; kMaskBursty12_9; kMaskBursty12_10;
   kMaskBursty12_11; kMaskBursty12_12].

Definition kPacketMaskBurstyTbl : list (list (list Z)) :=
  [kPacketMaskBursty1; kPacketMaskBursty2; kPacketMaskBursty3; kPacketMaskBursty4;
   kPacketMaskBursty5; kPacketMaskBursty6; kPacketMaskBursty7; kPacketMaskBursty8;
   kPacketMaskBursty9; kPacketMaskBursty10; kPacketMaskBursty11; kPacketMaskBursty12].
