(* ===== verification/FecRandom1.v ===== *)
(** * The packet masks against random losses, part 1

    Part 1 of the arrays of [modules/rtp_rtcp/source/fec_private_tables_random.h], for 1 to 33
    media packets: two bytes a row up to 16 packets, six bytes above. *)
From S2P Require Import Prelude.
Local Open Scope Z_scope.

Definition kMaskRandom1_1 : list Z :=
  [0x80; 0x00].

Definition kMaskRandom2_1 : list Z :=
  [0xc0; 0x00].

Definition kMaskRandom2_2 : list Z :=
  [0xc0; 0x00; 0x80; 0x00].

Definition kMaskRandom3_1 : list Z :=
  [0xe0; 0x00].

Definition kMaskRandom3_2 : list Z :=
  [0xc0; 0x00; 0xa0; 0x00].

Definition kMaskRandom3_3 : list Z :=
  [0xc0; 0x00; 0xa0; 0x00; 0x60; 0x00].

Definition kMaskRandom4_1 : list Z :=
  [0xf0; 0x00].

Definition kMaskRandom4_2 : list Z :=
  [0xc0; 0x00; 0xb0; 0x00].

Definition kMaskRandom4_3 : list Z :=
  [0xc0; 0x00; 0xb0; 0x00; 0x60; 0x00].

Definition kMaskRandom4_4 : list Z :=
  [0xc0; 0x00; 0xa0; 0x00; 0x30; 0x00; 0x50; 0x00].

Definition kMaskRandom5_1 : list Z :=
  [0xf8; 0x00].

Definition kMaskRandom5_2 : list Z :=
  [0xa8; 0x00; 0xd0; 0x00].

Definition kMaskRandom5_3 : list Z :=
  [0xb0; 0x00; 0xc8; 0x00; 0x50; 0x00].

Definition kMaskRandom5_4 : list Z :=
  [0xc8; 0x00; 0xb0; 0x00; 0x50; 0x00; 0x28; 0x00].

Definition kMaskRandom5_5 : list Z :=
  [0xc0; 0x00; 0x30; 0x00; 0x18; 0x00; 0xa0; 0x00; 0x48; 0x00].

Definition kMaskRandom6_1 : list Z :=
  [0xfc; 0x00].

Definition kMaskRandom6_2 : list Z :=
  [0xa8; 0x00; 0xd4; 0x00].

Definition kMaskRandom6_3 : list Z :=
  [0xd0; 0x00; 0x68; 0x00; 0xa4; 0x00].

Definition kMaskRandom6_4 : list Z :=
  [0xa8; 0x00; 0x58; 0x00; 0x64; 0x00; 0x94; 0x00].

Definition kMaskRandom6_5 : list Z :=
  [0xa8; 0x00; 0x84; 0x00; 0x64; 0x00; 0x90; 0x00; 0x58; 0x00].

Definition kMaskRandom6_6 : list Z :=
  [0x98; 0x00; 0x64; 0x00; 0x50; 0x00; 0x14; 0x00; 0xa8; 0x00; 0xe0; 0x00].

Definition kMaskRandom7_1 : list Z :=
  [0xfe; 0x00].

Definition kMaskRandom7_2 : list Z :=
  [0xd4; 0x00; 0xaa; 0x00].

Definition kMaskRandom7_3 : list Z :=
  [0xd0; 0x00; 0xaa; 0x00; 0x64; 0x00].

Definition kMaskRandom7_4 : list Z :=
  [0xd0; 0x00; 0xaa; 0x00; 0x64; 0x00; 0x1c; 0x00].

Definition kMaskRandom7_5 : list Z :=
  [0x0c; 0x00; 0xb0; 0x00; 0x1a; 0x00; 0xc4; 0x00; 0x62; 0x00].

Definition kMaskRandom7_6 : list Z :=
  [0x8c; 0x00; 0x4a; 0x00; 0x64; 0x00; 0xd0; 0x00; 0xa0; 0x00; 0x32; 0x00].

Definition kMaskRandom7_7 : list Z :=
  [0x4a; 0x00; 0x94; 0x00; 0x1a; 0x00; 0xc4; 0x00; 0x28; 0x00; 0xc2; 0x00; 0x34; 0x00].

Definition kMaskRandom8_1 : list Z :=
  [0xff; 0x00].

Definition kMaskRandom8_2 : list Z :=
  [0xaa; 0x00; 0xd5; 0x00].

Definition kMaskRandom8_3 : list Z :=
  [0xc5; 0x00; 0x92; 0x00; 0x6a; 0x00].

Definition kMaskRandom8_4 : list Z :=
  [0x45; 0x00; 0xb4; 0x00; 0x6a; 0x00; 0x89; 0x00].

Definition kMaskRandom8_5 : list Z :=
  [0x8c; 0x00; 0x92; 0x00; 0x2b; 0x00; 0x51; 0x00; 0x64; 0x00].

Definition kMaskRandom8_6 : list Z :=
  [0xa1; 0x00; 0x52; 0x00; 0x91; 0x00; 0x2a; 0x00; 0xc4; 0x00; 0x4c; 0x00].

Definition kMaskRandom8_7 : list Z :=
  [0x15; 0x00; 0xc2; 0x00; 0x25; 0x00; 0x62; 0x00; 0x58; 0x00; 0x8c; 0x00; 0xa3; 0x00].

Definition kMaskRandom8_8 : list Z :=
  [0x25; 0x00; 0x8a; 0x00; 0x91; 0x00; 0x68; 0x00; 0x32; 0x00; 0x43; 0x00; 0xc4; 0x00; 0x1c; 0x00].

Definition kMaskRandom9_1 : list Z :=
  [0xff; 0x80].

Definition kMaskRandom9_2 : list Z :=
  [0xaa; 0x80; 0xd5; 0x00].

Definition kMaskRandom9_3 : list Z :=
  [0xa5; 0x00; 0xc8; 0x00; 0x52; 0x80].

Definition kMaskRandom9_4 : list Z :=
  [0xa2; 0x00; 0xc9; 0x00; 0x52; 0x80; 0x24; 0x80].

Definition kMaskRandom9_5 : list Z :=
  [0x8c; 0x00; 0x25; 0x00; 0x92; 0x80; 0x41; 0x80; 0x58; 0x00].

Definition kMaskRandom9_6 : list Z :=
  [0x84; 0x80; 0x27; 0x00; 0x51; 0x80; 0x1a; 0x00; 0x68; 0x00; 0x89; 0x00].

Definition kMaskRandom9_7 : list Z :=
  [0x8c; 0x00; 0x47; 0x00; 0x81; 0x80; 0x12; 0x80; 0x58; 0x00; 0x28; 0x80; 0xb4; 0x00].

Definition kMaskRandom9_8 : list Z :=
  [0x2c; 0x00; 0x91; 0x00; 0x40; 0x80; 0x06; 0x80; 0xc8; 0x00; 0x45; 0x00; 0x30; 0x80; 0xa2; 0x00].

Definition kMaskRandom9_9 : list Z :=
  [0x4c; 0x00; 0x62; 0x00; 0x91; 0x00; 0x42; 0x80; 0xa4; 0x00; 0x13; 0x00; 0x30; 0x80; 0x88; 0x80;
   0x09; 0x00].

Definition kMaskRandom10_1 : list Z :=
  [0xff; 0xc0].

Definition kMaskRandom10_2 : list Z :=
  [0xaa; 0x80; 0xd5; 0x40].

Definition kMaskRandom10_3 : list Z :=
  [0xa4; 0x40; 0xc9; 0x00; 0x52; 0x80].

Definition kMaskRandom10_4 : list Z :=
  [0xca; 0x00; 0x32; 0x80; 0xa1; 0x40; 0x55; 0x00].

Definition kMaskRandom10_5 : list Z :=
  [0xca; 0x00; 0x32; 0x80; 0xa1; 0x40; 0x55; 0x00; 0x08; 0xc0].

Definition kMaskRandom10_6 : list Z :=
  [0x0e; 0x00; 0x33; 0x00; 0x10; 0xc0; 0x45; 0x40; 0x88; 0x80; 0xe0; 0x00].

Definition kMaskRandom10_7 : list Z :=
  [0x46; 0x00; 0x33; 0x00; 0x80; 0xc0; 0x0c; 0x40; 0x28; 0x80; 0x94; 0x00; 0xc1; 0x00].

Definition kMaskRandom10_8 : list Z :=
  [0x2c; 0x00; 0x81; 0x80; 0xa0; 0x40; 0x05; 0x40; 0x18; 0x80; 0xc2; 0x00; 0x22; 0x80; 0x50; 0x40].

Definition kMaskRandom10_9 : list Z :=
  [0x4c; 0x00; 0x23; 0x00; 0x88; 0xc0; 0x21; 0x40; 0x52; 0x80; 0x94; 0x00; 0x26; 0x00; 0x48; 0x40;
   0x91; 0x80].

Definition kMaskRandom10_10 : list Z :=
  [0x4c; 0x00; 0x51; 0x00; 0xa0; 0x40; 0x04; 0xc0; 0x03; 0x80; 0x86; 0x00; 0x29; 0x00; 0x42; 0x40;
   0x98; 0x00; 0x30; 0x80].

Definition kMaskRandom11_1 : list Z :=
  [0xff; 0xe0].

Definition kMaskRandom11_2 : list Z :=
  [0xec; 0xc0; 0x9b; 0xa0].

Definition kMaskRandom11_3 : list Z :=
  [0xca; 0xc0; 0xf1; 0x40; 0xb6; 0x20].

Definition kMaskRandom11_4 : list Z :=
  [0xc4; 0xc0; 0x31; 0x60; 0x4b; 0x20; 0x2c; 0xa0].

Definition kMaskRandom11_5 : list Z :=
  [0x86; 0x80; 0x23; 0x20; 0x16; 0x20; 0x4c; 0x20; 0x41; 0xc0].

Definition kMaskRandom11_6 : list Z :=
  [0x64; 0x40; 0x51; 0x40; 0x0c; 0xa0; 0xa1; 0x20; 0x12; 0xa0; 0x8a; 0x40].

Definition kMaskRandom11_7 : list Z :=
  [0x46; 0x40; 0x33; 0x20; 0x91; 0x80; 0xa4; 0x20; 0x50; 0xa0; 0x84; 0xc0; 0x09; 0x60].

Definition kMaskRandom11_8 : list Z :=
  [0x0c; 0x80; 0x80; 0x60; 0xa0; 0x80; 0x05; 0x40; 0x43; 0x00; 0x1a; 0x00; 0x60; 0x20; 0x14; 0x20].

Definition kMaskRandom11_9 : list Z :=
  [0x46; 0x40; 0x62; 0x60; 0x8c; 0x00; 0x01; 0x60; 0x07; 0x80; 0xa0; 0x80; 0x18; 0xa0; 0x91; 0x00;
   0x78; 0x00].

Definition kMaskRandom11_10 : list Z :=
  [0x64; 0x40; 0x51; 0x40; 0xa9; 0x00; 0x04; 0xc0; 0xd0; 0x00; 0x82; 0x40; 0x21; 0x20; 0x0c; 0x20;
   0x4a; 0x00; 0x12; 0xa0].

Definition kMaskRandom11_11 : list Z :=
  [0x46; 0x40; 0x33; 0x20; 0x99; 0x00; 0x05; 0x80; 0x80; 0xa0; 0x84; 0x40; 0x40; 0x60; 0x0a; 0x80;
   0x68; 0x00; 0x10; 0x20; 0x30; 0x40].

Definition kMaskRandom12_1 : list Z :=
  [0xff; 0xf0].

Definition kMaskRandom12_2 : list Z :=
  [0xec; 0xc0; 0x93; 0xb0].

Definition kMaskRandom12_3 : list Z :=
  [0x9b; 0x80; 0x4f; 0x10; 0x3c; 0x60].

Definition kMaskRandom12_4 : list Z :=
  [0x8b; 0x20; 0x14; 0xb0; 0x22; 0xd0; 0x45; 0x50].

Definition kMaskRandom12_5 : list Z :=
  [0x53; 0x60; 0x64; 0x20; 0x0c; 0xc0; 0x82; 0xa0; 0x09; 0x30].

Definition kMaskRandom12_6 : list Z :=
  [0x51; 0x40; 0xc5; 0x10; 0x21; 0x80; 0x12; 0x30; 0x08; 0xe0; 0x2e; 0x00].

Definition kMaskRandom12_7 : list Z :=
  [0x53; 0x60; 0x21; 0x30; 0x90; 0x90; 0x02; 0x50; 0x06; 0xa0; 0x2c; 0x00; 0x88; 0x60].

Definition kMaskRandom12_8 : list Z :=
  [0x20; 0x60; 0x80; 0x30; 0x42; 0x40; 0x01; 0x90; 0x14; 0x10; 0x0a; 0x80; 0x38; 0x00; 0xc5; 0x00].

Definition kMaskRandom12_9 : list Z :=
  [0x53; 0x60; 0xe4; 0x20; 0x24; 0x40; 0xa1; 0x10; 0x18; 0x30; 0x03; 0x90; 0x8a; 0x10; 0x04; 0x90;
   0x00; 0xe0].

Definition kMaskRandom12_10 : list Z :=
  [0x51; 0x40; 0x45; 0x10; 0x80; 0xd0; 0x24; 0x20; 0x0a; 0x20; 0x00; 0xe0; 0xb8; 0x00; 0x09; 0x10;
   0x56; 0x00; 0xa2; 0x80].

Definition kMaskRandom12_11 : list Z :=
  [0x53; 0x60; 0x21; 0x30; 0x10; 0x90; 0x00; 0x70; 0x0c; 0x10; 0x40; 0xc0; 0x6a; 0x00; 0x86; 0x00;
   0x24; 0x80; 0x89; 0x00; 0xc0; 0x20].

Definition kMaskRandom12_12 : list Z :=
  [0x10; 0x60; 0x02; 0x30; 0x40; 0x50; 0x21; 0x80; 0x81; 0x10; 0x14; 0x80; 0x98; 0x00; 0x08; 0x90;
   0x62; 0x00; 0x24; 0x20; 0x8a; 0x00; 0x84; 0x40].

Definition kMaskRandom13_1 : list Z :=
  [0xff; 0xf8].

Definition kMaskRandom13_2 : list Z :=
  [0xec; 0xc0; 0x1b; 0x38].

Definition kMaskRandom13_3 : list Z :=
  [0x99; 0xb0; 0x46; 0xd8; 0x37; 0x28].

Definition kMaskRandom13_4 : list Z :=
  [0x49; 0xb0; 0x26; 0xd0; 0x85; 0x68; 0x52; 0x58].

Definition kMaskRandom13_5 : list Z :=
  [0x51; 0x30; 0x66; 0x40; 0x0c; 0x68; 0xa1; 0xc0; 0x22; 0x98].

Definition kMaskRandom13_6 : list Z :=
  [0xd1; 0x20; 0x46; 0xd0; 0x15; 0x48; 0x21; 0x70; 0x28; 0xc8; 0xaa; 0x20].

Definition kMaskRandom13_7 : list Z :=
  [0x59; 0x20; 0x26; 0x50; 0xb1; 0x40; 0x2b; 0x08; 0x14; 0xc8; 0xc8; 0x88; 0x84; 0xb0].

Definition kMaskRandom13_8 : list Z :=
  [0x80; 0xa8; 0x30; 0x90; 0x16; 0x08; 0x03; 0x30; 0x44; 0x60; 0x08; 0x18; 0xd8; 0x00; 0xa1; 0x40].

Definition kMaskRandom13_9 : list Z :=
  [0x59; 0x20; 0x66; 0x40; 0x14; 0x40; 0x21; 0x48; 0x02; 0xc8; 0x94; 0x10; 0x80; 0xa8; 0x0a; 0x90;
   0x40; 0x18].

Definition kMaskRandom13_10 : list Z :=
  [0xd1; 0x00; 0x44; 0x50; 0x10; 0x98; 0xa0; 0x50; 0x4a; 0x08; 0x40; 0x30; 0x80; 0x28; 0x0c; 0x90;
   0x05; 0x88; 0x62; 0x20].

Definition kMaskRandom13_11 : list Z :=
  [0x51; 0x20; 0x22; 0x10; 0x13; 0x40; 0x25; 0x00; 0x18; 0x18; 0x0a; 0x20; 0x88; 0x88; 0x06; 0x80;
   0xe0; 0x20; 0x84; 0x40; 0x44; 0x18].

Definition kMaskRandom13_12 : list Z :=
  [0x28; 0x28; 0x84; 0x50; 0x60; 0x40; 0x05; 0x48; 0x02; 0x98; 0x01; 0x30; 0x48; 0x10; 0x24; 0x80;
   0x94; 0x00; 0x8a; 0x00; 0x11; 0x80; 0x52; 0x20].

Definition kMaskRandom13_13 : list Z :=
  [0x51; 0x20; 0x66; 0x40; 0x05; 0x48; 0x81; 0x20; 0x94; 0x00; 0x30; 0x80; 0x21; 0x10; 0x03; 0xc0;
   0xe8; 0x00; 0x0a; 0x10; 0x80; 0x18; 0x04; 0x90; 0x08; 0xa8].

Definition kMaskRandom14_1 : list Z :=
  [0xff; 0xfc].

Definition kMaskRandom14_2 : list Z :=
  [0xec; 0xe8; 0x3b; 0x9c].

Definition kMaskRandom14_3 : list Z :=
  [0xac; 0xd8; 0x55; 0x6c; 0x27; 0xb4].

Definition kMaskRandom14_4 : list Z :=
  [0x2c; 0xd8; 0x93; 0x68; 0x1a; 0xb4; 0x47; 0x2c].

Definition kMaskRandom14_5 : list Z :=
  [0x64; 0xd8; 0xa5; 0x68; 0x52; 0xb4; 0x1d; 0xa8; 0x9c; 0x54].

Definition kMaskRandom14_6 : list Z :=
  [0x4a; 0x54; 0x95; 0x48; 0x14; 0xb4; 0x51; 0xa8; 0x22; 0x6c; 0x88; 0x8c].

Definition kMaskRandom14_7 : list Z :=
  [0x62; 0x54; 0xb9; 0x20; 0x18; 0xb4; 0x54; 0x98; 0x06; 0x6c; 0x85; 0x54; 0xaa; 0x88].

Definition kMaskRandom14_8 : list Z :=
  [0xc0; 0x14; 0x41; 0x60; 0x88; 0x30; 0x20; 0xa4; 0x0a; 0x48; 0x04; 0x98; 0x94; 0x40; 0x72; 0x00].

Definition kMaskRandom14_9 : list Z :=
  [0xa2; 0x54; 0x34; 0x60; 0x4a; 0x24; 0x20; 0xa8; 0x11; 0x84; 0x49; 0x08; 0x86; 0x0c; 0x20; 0xd4;
   0x88; 0x48].

Definition kMaskRandom14_10 : list Z :=
  [0xc0; 0xd4; 0x1d; 0x40; 0xd4; 0x08; 0x02; 0x60; 0x04; 0x28; 0x20; 0x98; 0x40; 0x44; 0x08; 0x84;
   0x68; 0x00; 0x23; 0x10].

Definition kMaskRandom14_11 : list Z :=
  [0x62; 0xd0; 0x35; 0x20; 0x14; 0x14; 0xc5; 0x08; 0x22; 0x0c; 0x88; 0xb8; 0x42; 0x54; 0x28; 0xa4;
   0x94; 0x20; 0x1b; 0x04; 0x22; 0xc0].

Definition kMaskRandom14_12 : list Z :=
  [0x81; 0x04; 0x40; 0x68; 0x90; 0x24; 0x28; 0x28; 0x52; 0x10; 0x41; 0x88; 0x09; 0x30; 0x48; 0x44;
   0x04; 0x44; 0x0e; 0x80; 0xa5; 0x90; 0x12; 0x0c].

Definition kMaskRandom14_13 : list Z :=
  [0x62; 0x54; 0x34; 0x60; 0x48; 0x04; 0x00; 0xac; 0x28; 0x08; 0x81; 0x08; 0x23; 0x04; 0x06; 0x80;
   0x80; 0x14; 0x30; 0x10; 0x8c; 0x20; 0x54; 0x00; 0x80; 0xc0].

Definition kMaskRandom14_14 : list Z :=
  [0x40; 0x54; 0x15; 0x40; 0xc0; 0x04; 0x28; 0x10; 0x05; 0x0c; 0x64; 0x80; 0x81; 0x80; 0x10; 0x98;
   0x84; 0x20; 0x12; 0x30; 0x62; 0x00; 0x28; 0x60; 0x0e; 0x08; 0x10; 0x84].

Definition kMaskRandom15_1 : list Z :=
  [0xff; 0xfe].

Definition kMaskRandom15_2 : list Z :=
  [0xec; 0xea; 0xbb; 0x9c].

Definition kMaskRandom15_3 : list Z :=
  [0xac; 0x92; 0x55; 0x4a; 0x43; 0x36].

Definition kMaskRandom15_4 : list Z :=
  [0x25; 0xaa; 0x95; 0x54; 0x1a; 0x6a; 0x43; 0xd4].

Definition kMaskRandom15_5 : list Z :=
  [0x64; 0xa2; 0x25; 0x54; 0x49; 0x68; 0x53; 0x90; 0x8e; 0x30].

Definition kMaskRandom15_6 : list Z :=
  [0x62; 0x8a; 0x15; 0x54; 0x4c; 0x46; 0x52; 0x94; 0x23; 0x64; 0x8a; 0x58].

Definition kMaskRandom15_7 : list Z :=
  [0x62; 0xa2; 0xb1; 0x14; 0x18; 0x6a; 0x44; 0xd4; 0x13; 0x64; 0x49; 0x1a; 0x86; 0x8c].

Definition kMaskRandom15_8 : list Z :=
  [0x90; 0x22; 0x09; 0x50; 0x00; 0x6a; 0x20; 0x34; 0x14; 0x44; 0xc2; 0x10; 0x00; 0xc6; 0x65; 0x80].

Definition kMaskRandom15_9 : list Z :=
  [0x62; 0x22; 0x24; 0x44; 0xc0; 0x50; 0x03; 0x0c; 0x16; 0x28; 0x89; 0x00; 0x82; 0x90; 0x08; 0xa4;
   0x90; 0x48].

Definition kMaskRandom15_10 : list Z :=
  [0xc0; 0xa0; 0x15; 0x56; 0x74; 0x40; 0x00; 0x9c; 0x01; 0x2c; 0x44; 0x92; 0x88; 0x50; 0x20; 0xa4;
   0xaa; 0x04; 0x02; 0x62].

Definition kMaskRandom15_11 : list Z :=
  [0x62; 0x22; 0xf1; 0x10; 0x10; 0x0e; 0x10; 0xb0; 0x24; 0x24; 0x01; 0x12; 0x00; 0xc4; 0x04; 0xa2;
   0x02; 0x58; 0x2b; 0x00; 0x98; 0x40].

Definition kMaskRandom15_12 : list Z :=
  [0x88; 0x90; 0x40; 0x54; 0x82; 0x62; 0x21; 0xa4; 0x10; 0x64; 0x44; 0x0a; 0x10; 0xc8; 0x4d; 0x2a;
   0x38; 0x02; 0x17; 0x48; 0x90; 0x84; 0x72; 0x14].

Definition kMaskRandom15_13 : list Z :=
  [0x62; 0xa2; 0x34; 0x44; 0x40; 0x4a; 0xc4; 0x04; 0x08; 0x60; 0x94; 0x12; 0x88; 0xc0; 0x21; 0x32;
   0xc1; 0x40; 0x10; 0x68; 0x06; 0x90; 0x59; 0x00; 0x0a; 0x0c].

Definition kMaskRandom15_14 : list Z :=
  [0x40; 0x82; 0x15; 0x54; 0x88; 0x12; 0xc0; 0x10; 0x80; 0xa0; 0x01; 0x22; 0x40; 0x2c; 0x22; 0x02;
   0x90; 0x04; 0x12; 0x40; 0x5d; 0x00; 0x20; 0x54; 0x86; 0x08; 0x28; 0x88].

Definition kMaskRandom15_15 : list Z :=
  [0x62; 0x22; 0x31; 0x10; 0x58; 0x00; 0x01; 0x12; 0x88; 0x20; 0x44; 0x02; 0x29; 0x04; 0x82; 0xa0;
   0x0a; 0x1a; 0x11; 0xe0; 0x84; 0x04; 0x86; 0x40; 0x00; 0x86; 0x44; 0x48; 0x10; 0x98].

Definition kMaskRandom16_1 : list Z :=
  [0xff; 0xff].

Definition kMaskRandom16_2 : list Z :=
  [0xae; 0xae; 0x79; 0x79].

Definition kMaskRandom16_3 : list Z :=
  [0xad; 0x2d; 0x76; 0x36; 0x26; 0xdb].

Definition kMaskRandom16_4 : list Z :=
  [0x55; 0x55; 0xaa; 0xaa; 0x35; 0x35; 0xca; 0xca].

Definition kMaskRandom16_5 : list Z :=
  [0x55; 0x55; 0x2a; 0x2a; 0x24; 0x25; 0x84; 0xc8; 0x10; 0xb6].

Definition kMaskRandom16_6 : list Z :=
  [0x51; 0x51; 0x0a; 0x2a; 0xa2; 0x15; 0x84; 0x4a; 0x30; 0x92; 0x04; 0xac].

Definition kMaskRandom16_7 : list Z :=
  [0x45; 0x51; 0x22; 0x2a; 0x91; 0x11; 0x2e; 0x08; 0x48; 0x34; 0x90; 0x29; 0x09; 0x86].

Definition kMaskRandom16_8 : list Z :=
  [0x20; 0x54; 0x18; 0x88; 0x84; 0x07; 0x60; 0x48; 0x12; 0x82; 0x81; 0x41; 0x40; 0x62; 0x16; 0x30].

Definition kMaskRandom16_9 : list Z :=
  [0x55; 0x51; 0x22; 0x2a; 0x05; 0x85; 0x09; 0x4a; 0x84; 0x32; 0xc0; 0x0d; 0x20; 0xa6; 0x1a; 0x09;
   0x44; 0x64].

Definition kMaskRandom16_10 : list Z :=
  [0x45; 0x51; 0x10; 0xa2; 0x01; 0x25; 0x0b; 0x42; 0xd8; 0x20; 0x82; 0x8c; 0x24; 0x4a; 0x38; 0x18;
   0x2a; 0x25; 0x84; 0x92].

Definition kMaskRandom16_11 : list Z :=
  [0x55; 0x55; 0x2a; 0x22; 0x31; 0x11; 0x83; 0x42; 0x06; 0x98; 0x40; 0xe1; 0x2c; 0x44; 0xd8; 0x28;
   0x92; 0x81; 0x84; 0x32; 0x68; 0x0c].

Definition kMaskRandom16_12 : list Z :=
  [0x84; 0x31; 0x18; 0xa2; 0x4e; 0x01; 0x44; 0xc8; 0x0e; 0x90; 0x20; 0xcc; 0x93; 0x40; 0x2d; 0x10;
   0x31; 0x44; 0xc0; 0x23; 0x11; 0x25; 0xe8; 0x80].

Definition kMaskRandom16_13 : list Z :=
  [0x45; 0x15; 0x22; 0x22; 0x96; 0x0c; 0x0c; 0x50; 0x62; 0x04; 0x49; 0x06; 0x11; 0x82; 0x12; 0x38;
   0x40; 0x71; 0xa8; 0x8a; 0x08; 0xa1; 0xa0; 0xc0; 0xc5; 0x10].

Definition kMaskRandom16_14 : list Z :=
  [0x45; 0x51; 0x22; 0x0a; 0x84; 0xd0; 0x0c; 0x8a; 0x18; 0x06; 0x30; 0x03; 0x61; 0x08; 0x40; 0x11;
   0x10; 0x2c; 0x09; 0x60; 0x00; 0x94; 0x52; 0x40; 0xa4; 0x24; 0x82; 0x88].

Definition kMaskRandom16_15 : list Z :=
  [0x55; 0x11; 0x22; 0x22; 0x11; 0x11; 0x80; 0x45; 0x20; 0x1a; 0x08; 0x68; 0x22; 0x84; 0x48; 0x09;
   0x07; 0x01; 0x94; 0x20; 0x82; 0x06; 0x60; 0x48; 0x89; 0x80; 0x00; 0x8e; 0x18; 0x22].

Definition kMaskRandom16_16 : list Z :=
  [0xa4; 0x10; 0x01; 0x2a; 0x06; 0x42; 0x08; 0x68; 0x81; 0x90; 0x00; 0xf0; 0x50; 0x05; 0x20; 0x51;
   0x43; 0x08; 0x68; 0x80; 0x80; 0x0b; 0x10; 0x4c; 0x12; 0x30; 0x40; 0x85; 0x0e; 0x04; 0x18; 0x12].

Definition kMaskRandom17_1 : list Z :=
  [0xff; 0xff; 0x80; 0x00; 0x00; 0x00].

Definition kMaskRandom17_2 : list Z :=
  [0xce; 0xce; 0x00; 0x00; 0x00; 0x00; 0xb9; 0x39; 0x80; 0x00; 0x00; 0x00].

Definition kMaskRandom17_3 : list Z :=
  [0xcd; 0xcc; 0x00; 0x00; 0x00; 0x00; 0x97; 0x27; 0x00; 0x00; 0x00; 0x00;
   0xb8; 0xd1; 0x80; 0x00; 0x00; 0x00].

Definition kMaskRandom17_4 : list Z :=
  [0xca; 0xec; 0x00; 0x00; 0x00; 0x00; 0xa9; 0x67; 0x00; 0x00; 0x00; 0x00;
   0x3a; 0xb1; 0x80; 0x00; 0x00; 0x00; 0x55; 0x5a; 0x80; 0x00; 0x00; 0x00].

Definition kMaskRandom17_5 : list Z :=
  [0x55; 0x44; 0x80; 0x00; 0x00; 0x00; 0x2a; 0x66; 0x00; 0x00; 0x00; 0x00;
   0x25; 0xa1; 0x80; 0x00; 0x00; 0x00; 0xe2; 0x12; 0x80; 0x00; 0x00; 0x00;
   0x99; 0x98; 0x00; 0x00; 0x00; 0x00].

Definition kMaskRandom17_6 : list Z :=
  [0xd1; 0x4c; 0x00; 0x00; 0x00; 0x00; 0xa2; 0xc5; 0x00; 0x00; 0x00; 0x00;
   0x95; 0x30; 0x80; 0x00; 0x00; 0x00; 0xca; 0x0a; 0x80; 0x00; 0x00; 0x00;
   0xa4; 0xaa; 0x00; 0x00; 0x00; 0x00; 0x78; 0x15; 0x00; 0x00; 0x00; 0x00].

Definition kMaskRandom17_7 : list Z :=
  [0x15; 0x44; 0x80; 0x00; 0x00; 0x00; 0x8a; 0x23; 0x00; 0x00; 0x00; 0x00;
   0x85; 0x91; 0x00; 0x00; 0x00; 0x00; 0x32; 0x0a; 0x80; 0x00; 0x00; 0x00;
   0x58; 0x34; 0x00; 0x00; 0x00; 0x00; 0x2c; 0x0d; 0x00; 0x00; 0x00; 0x00;
   0x43; 0xc8; 0x00; 0x00; 0x00; 0x00].

Definition kMaskRandom17_8 : list Z :=
  [0x64; 0x16; 0x00; 0x00; 0x00; 0x00; 0xa2; 0xc2; 0x00; 0x00; 0x00; 0x00;
   0x51; 0x60; 0x80; 0x00; 0x00; 0x00; 0x4a; 0x85; 0x00; 0x00; 0x00; 0x00;
   0x38; 0x4c; 0x00; 0x00; 0x00; 0x00; 0x89; 0x29; 0x00; 0x00; 0x00; 0x00;
   0x07; 0x11; 0x80; 0x00; 0x00; 0x00; 0x94; 0xb0; 0x00; 0x00; 0x00; 0x00].

Definition kMaskRandom17_9 : list Z :=
  [0x8e; 0xcc; 0x00; 0x00; 0x00; 0x00; 0x6a; 0x2b; 0x00; 0x00; 0x00; 0x00;
   0x36; 0x32; 0x80; 0x00; 0x00; 0x00; 0xd1; 0x25; 0x80; 0x00; 0x00; 0x00;
   0x55; 0x8c; 0x80; 0x00; 0x00; 0x00; 0xaa; 0x27; 0x00; 0x00; 0x00; 0x00;
   0xa5; 0x32; 0x80; 0x00; 0x00; 0x00; 0x62; 0x61; 0x80; 0x00; 0x00; 0x00;
   0x3c; 0x5c; 0x00; 0x00; 0x00; 0x00].

Definition kMaskRandom17_10 : list Z :=
  [0x55; 0x8c; 0x80; 0x00; 0x00; 0x00; 0xaa; 0x27; 0x00; 0x00; 0x00; 0x00;
   0xa5; 0x32; 0x80; 0x00; 0x00; 0x00; 0x62; 0x61; 0x80; 0x00; 0x00; 0x00;
   0x3c; 0x5c; 0x00; 0x00; 0x00; 0x00; 0x8e; 0xcc; 0x00; 0x00; 0x00; 0x00;
   0x6a; 0x2b; 0x00; 0x00; 0x00; 0x00; 0x36; 0x32; 0x80; 0x00; 0x00; 0x00;
   0xd1; 0x25; 0x80; 0x00; 0x00; 0x00; 0xc8; 0x02; 0x80; 0x00; 0x00; 0x00].

Definition kMaskRandom17_11 : list Z :=
  [0x55; 0x8c; 0x80; 0x00; 0x00; 0x00; 0xaa; 0x27; 0x00; 0x00; 0x00; 0x00;
   0xa5; 0x32; 0x80; 0x00; 0x00; 0x00; 0x62; 0x61; 0x80; 0x00; 0x00; 0x00;
   0x3c; 0x5c; 0x00; 0x00; 0x00; 0x00; 0x51; 0x84; 0x80; 0x00; 0x00; 0x00;
   0xa2; 0x27; 0x00; 0x00; 0x00; 0x00; 0x95; 0x51; 0x80; 0x00; 0x00; 0x00;
   0x4a; 0x1a; 0x00; 0x00; 0x00; 0x00; 0x30; 0x68; 0x00; 0x00; 0x00; 0x00;
   0x2c; 0x89; 0x00; 0x00; 0x00; 0x00].

Definition kMaskRandom17_12 : list Z :=
  [0x51; 0x84; 0x80; 0x00; 0x00; 0x00; 0xa2; 0x27; 0x00; 0x00; 0x00; 0x00;
   0x95; 0x51; 0x80; 0x00; 0x00; 0x00; 0x4a; 0x1a; 0x00; 0x00; 0x00; 0x00;
   0x30; 0x68; 0x00; 0x00; 0x00; 0x00; 0x2c; 0x89; 0x00; 0x00; 0x00; 0x00;
   0x55; 0x8c; 0x80; 0x00; 0x00; 0x00; 0xaa; 0x27; 0x00; 0x00; 0x00; 0x00;
   0xa5; 0x32; 0x80; 0x00; 0x00; 0x00; 0x62; 0x61; 0x80; 0x00; 0x00; 0x00;
   0x3c; 0x5c; 0x00; 0x00; 0x00; 0x00; 0x51; 0x35; 0x00; 0x00; 0x00; 0x00].

Definition kMaskRandom17_13 : list Z :=
  [0x51; 0x84; 0x80; 0x00; 0x00; 0x00; 0xa2; 0x27; 0x00; 0x00; 0x00; 0x00;
   0x95; 0x51; 0x80; 0x00; 0x00; 0x00; 0x4a; 0x1a; 0x00; 0x00; 0x00; 0x00;
   0x30; 0x68; 0x00; 0x00; 0x00; 0x00; 0x2c; 0x89; 0x00; 0x00; 0x00; 0x00;
   0x15; 0x8c; 0x00; 0x00; 0x00; 0x00; 0x8a; 0x47; 0x00; 0x00; 0x00; 0x00;
   0x25; 0x81; 0x80; 0x00; 0x00; 0x00; 0x62; 0x12; 0x80; 0x00; 0x00; 0x00;
   0x58; 0x58; 0x00; 0x00; 0x00; 0x00; 0x0e; 0x28; 0x80; 0x00; 0x00; 0x00;
   0x83; 0x34; 0x00; 0x00; 0x00; 0x00].

Definition kMaskRandom17_14 : list Z :=
  [0x15; 0x8c; 0x00; 0x00; 0x00; 0x00; 0x8a; 0x47; 0x00; 0x00; 0x00; 0x00;
   0x25; 0x81; 0x80; 0x00; 0x00; 0x00; 0x62; 0x12; 0x80; 0x00; 0x00; 0x00;
   0x58; 0x58; 0x00; 0x00; 0x00; 0x00; 0x0e; 0x28; 0x80; 0x00; 0x00; 0x00;
   0x83; 0x34; 0x00; 0x00; 0x00; 0x00; 0x51; 0x84; 0x80; 0x00; 0x00; 0x00;
   0xa2; 0x27; 0x00; 0x00; 0x00; 0x00; 0x95; 0x51; 0x80; 0x00; 0x00; 0x00;
   0x4a; 0x1a; 0x00; 0x00; 0x00; 0x00; 0x30; 0x68; 0x00; 0x00; 0x00; 0x00;
   0x2c; 0x89; 0x00; 0x00; 0x00; 0x00; 0xb0; 0xde; 0x80; 0x00; 0x00; 0x00].

Definition kMaskRandom17_15 : list Z :=
  [0x15; 0x8c; 0x00; 0x00; 0x00; 0x00; 0x8a; 0x47; 0x00; 0x00; 0x00; 0x00;
   0x25; 0x81; 0x80; 0x00; 0x00; 0x00; 0x62; 0x12; 0x80; 0x00; 0x00; 0x00;
   0x58; 0x58; 0x00; 0x00; 0x00; 0x00; 0x0e; 0x28; 0x80; 0x00; 0x00; 0x00;
   0x83; 0x34; 0x00; 0x00; 0x00; 0x00; 0x25; 0x2c; 0x00; 0x00; 0x00; 0x00;
   0x8a; 0x91; 0x00; 0x00; 0x00; 0x00; 0x91; 0xc0; 0x80; 0x00; 0x00; 0x00;
   0x68; 0x06; 0x80; 0x00; 0x00; 0x00; 0x32; 0xc8; 0x00; 0x00; 0x00; 0x00;
   0x43; 0x45; 0x00; 0x00; 0x00; 0x00; 0xc4; 0x30; 0x80; 0x00; 0x00; 0x00;
   0x1c; 0xa2; 0x00; 0x00; 0x00; 0x00].

Definition kMaskRandom17_16 : list Z :=
  [0x25; 0x2c; 0x00; 0x00; 0x00; 0x00; 0x8a; 0x91; 0x00; 0x00; 0x00; 0x00;
   0x91; 0xc0; 0x80; 0x00; 0x00; 0x00; 0x68; 0x06; 0x80; 0x00; 0x00; 0x00;
   0x32; 0xc8; 0x00; 0x00; 0x00; 0x00; 0x43; 0x45; 0x00; 0x00; 0x00; 0x00;
   0xc4; 0x30; 0x80; 0x00; 0x00; 0x00; 0x1c; 0xa2; 0x00; 0x00; 0x00; 0x00;
   0x15; 0x8c; 0x00; 0x00; 0x00; 0x00; 0x8a; 0x47; 0x00; 0x00; 0x00; 0x00;
   0x25; 0x81; 0x80; 0x00; 0x00; 0x00; 0x62; 0x12; 0x80; 0x00; 0x00; 0x00;
   0x58; 0x58; 0x00; 0x00; 0x00; 0x00; 0x0e; 0x28; 0x80; 0x00; 0x00; 0x00;
   0x83; 0x34; 0x00; 0x00; 0x00; 0x00; 0x0a; 0x1c; 0x00; 0x00; 0x00; 0x00].

Definition kMaskRandom17_17 : list Z :=
  [0x25; 0x2c; 0x00; 0x00; 0x00; 0x00; 0x8a; 0x91; 0x00; 0x00; 0x00; 0x00;
   0x91; 0xc0; 0x80; 0x00; 0x00; 0x00; 0x68; 0x06; 0x80; 0x00; 0x00; 0x00;
   0x32; 0xc8; 0x00; 0x00; 0x00; 0x00; 0x43; 0x45; 0x00; 0x00; 0x00; 0x00;
   0xc4; 0x30; 0x80; 0x00; 0x00; 0x00; 0x1c; 0xa2; 0x00; 0x00; 0x00; 0x00;
   0x25; 0x4c; 0x00; 0x00; 0x00; 0x00; 0x8a; 0x66; 0x00; 0x00; 0x00; 0x00;
   0x91; 0x91; 0x00; 0x00; 0x00; 0x00; 0x68; 0x42; 0x80; 0x00; 0x00; 0x00;
   0x32; 0xa4; 0x00; 0x00; 0x00; 0x00; 0x43; 0x13; 0x00; 0x00; 0x00; 0x00;
   0xc4; 0x30; 0x80; 0x00; 0x00; 0x00; 0x1c; 0x88; 0x80; 0x00; 0x00; 0x00;
   0x3c; 0x09; 0x00; 0x00; 0x00; 0x00].

Definition kMaskRandom18_1 : list Z :=
  [0xff; 0xff; 0xc0; 0x00; 0x00; 0x00].

Definition kMaskRandom18_2 : list Z :=
  [0xce; 0x67; 0x00; 0x00; 0x00; 0x00; 0x39; 0x9c; 0xc0; 0x00; 0x00; 0x00].

Definition kMaskRandom18_3 : list Z :=
  [0xcc; 0x66; 0x00; 0x00; 0x00; 0x00; 0x27; 0x15; 0x80; 0x00; 0x00; 0x00;
   0x92; 0xc9; 0x40; 0x00; 0x00; 0x00].

Definition kMaskRandom18_4 : list Z :=
  [0xec; 0x76; 0x00; 0x00; 0x00; 0x00; 0x67; 0x33; 0x80; 0x00; 0x00; 0x00;
   0xb1; 0xd8; 0xc0; 0x00; 0x00; 0x00; 0x5a; 0xad; 0x40; 0x00; 0x00; 0x00].

Definition kMaskRandom18_5 : list Z :=
  [0x4c; 0xa6; 0x40; 0x00; 0x00; 0x00; 0x66; 0x33; 0x00; 0x00; 0x00; 0x00;
   0x19; 0xd0; 0xc0; 0x00; 0x00; 0x00; 0x9c; 0x89; 0x40; 0x00; 0x00; 0x00;
   0xe3; 0x4c; 0x00; 0x00; 0x00; 0x00].

Definition kMaskRandom18_6 : list Z :=
  [0xcc; 0x26; 0x00; 0x00; 0x00; 0x00; 0x45; 0x62; 0x80; 0x00; 0x00; 0x00;
   0xb0; 0x98; 0x40; 0x00; 0x00; 0x00; 0x8a; 0x85; 0x40; 0x00; 0x00; 0x00;
   0x29; 0x53; 0x00; 0x00; 0x00; 0x00; 0xa6; 0x0a; 0x80; 0x00; 0x00; 0x00].

Definition kMaskRandom18_7 : list Z :=
  [0x44; 0xa2; 0x40; 0x00; 0x00; 0x00; 0x23; 0x11; 0x80; 0x00; 0x00; 0x00;
   0x91; 0x48; 0x80; 0x00; 0x00; 0x00; 0x0a; 0x85; 0x40; 0x00; 0x00; 0x00;
   0x34; 0x1a; 0x00; 0x00; 0x00; 0x00; 0x0b; 0x06; 0x80; 0x00; 0x00; 0x00;
   0xe0; 0x64; 0x00; 0x00; 0x00; 0x00].

Definition kMaskRandom18_8 : list Z :=
  [0x16; 0x0b; 0x00; 0x00; 0x00; 0x00; 0xc2; 0x61; 0x00; 0x00; 0x00; 0x00;
   0x60; 0xb0; 0x40; 0x00; 0x00; 0x00; 0x85; 0x42; 0x80; 0x00; 0x00; 0x00;
   0x4c; 0x26; 0x00; 0x00; 0x00; 0x00; 0x29; 0x14; 0x80; 0x00; 0x00; 0x00;
   0x11; 0x88; 0xc0; 0x00; 0x00; 0x00; 0xb0; 0x58; 0x00; 0x00; 0x00; 0x00].

Definition kMaskRandom18_9 : list Z :=
  [0x44; 0xa2; 0x40; 0x00; 0x00; 0x00; 0x66; 0x26; 0x00; 0x00; 0x00; 0x00;
   0x90; 0x49; 0x40; 0x00; 0x00; 0x00; 0x01; 0xa5; 0x80; 0x00; 0x00; 0x00;
   0x0e; 0x12; 0x80; 0x00; 0x00; 0x00; 0x13; 0x0b; 0x00; 0x00; 0x00; 0x00;
   0x20; 0xd0; 0x40; 0x00; 0x00; 0x00; 0xc2; 0x51; 0x00; 0x00; 0x00; 0x00;
   0x29; 0x0c; 0x80; 0x00; 0x00; 0x00].

Definition kMaskRandom18_10 : list Z :=
  [0x8c; 0xc6; 0x40; 0x00; 0x00; 0x00; 0x27; 0x13; 0x80; 0x00; 0x00; 0x00;
   0x32; 0x99; 0x40; 0x00; 0x00; 0x00; 0x61; 0xb0; 0xc0; 0x00; 0x00; 0x00;
   0x5c; 0x2e; 0x00; 0x00; 0x00; 0x00; 0xcc; 0x66; 0x00; 0x00; 0x00; 0x00;
   0x2b; 0x15; 0x80; 0x00; 0x00; 0x00; 0x32; 0x99; 0x40; 0x00; 0x00; 0x00;
   0x25; 0x92; 0xc0; 0x00; 0x00; 0x00; 0xfd; 0x9d; 0xc0; 0x00; 0x00; 0x00].

Definition kMaskRandom18_11 : list Z :=
  [0x8c; 0xc6; 0x40; 0x00; 0x00; 0x00; 0x27; 0x13; 0x80; 0x00; 0x00; 0x00;
   0x32; 0x99; 0x40; 0x00; 0x00; 0x00; 0x61; 0xb0; 0xc0; 0x00; 0x00; 0x00;
   0x5c; 0x2e; 0x00; 0x00; 0x00; 0x00; 0x84; 0xc2; 0x40; 0x00; 0x00; 0x00;
   0x27; 0x13; 0x80; 0x00; 0x00; 0x00; 0x51; 0xa8; 0xc0; 0x00; 0x00; 0x00;
   0x1a; 0x0d; 0x00; 0x00; 0x00; 0x00; 0x68; 0x34; 0x00; 0x00; 0x00; 0x00;
   0x89; 0x44; 0x80; 0x00; 0x00; 0x00].

Definition kMaskRandom18_12 : list Z :=
  [0x84; 0xc2; 0x40; 0x00; 0x00; 0x00; 0x27; 0x13; 0x80; 0x00; 0x00; 0x00;
   0x51; 0xa8; 0xc0; 0x00; 0x00; 0x00; 0x1a; 0x0d; 0x00; 0x00; 0x00; 0x00;
   0x68; 0x34; 0x00; 0x00; 0x00; 0x00; 0x89; 0x44; 0x80; 0x00; 0x00; 0x00;
   0x8c; 0xc6; 0x40; 0x00; 0x00; 0x00; 0x27; 0x13; 0x80; 0x00; 0x00; 0x00;
   0x32; 0x99; 0x40; 0x00; 0x00; 0x00; 0x61; 0xb0; 0xc0; 0x00; 0x00; 0x00;
   0x5c; 0x2e; 0x00; 0x00; 0x00; 0x00; 0x5b; 0x0c; 0x40; 0x00; 0x00; 0x00].

Definition kMaskRandom18_13 : list Z :=
  [0x84; 0xc2; 0x40; 0x00; 0x00; 0x00; 0x27; 0x13; 0x80; 0x00; 0x00; 0x00;
   0x51; 0xa8; 0xc0; 0x00; 0x00; 0x00; 0x1a; 0x0d; 0x00; 0x00; 0x00; 0x00;
   0x68; 0x34; 0x00; 0x00; 0x00; 0x00; 0x89; 0x44; 0x80; 0x00; 0x00; 0x00;
   0x8c; 0x46; 0x00; 0x00; 0x00; 0x00; 0x47; 0x23; 0x80; 0x00; 0x00; 0x00;
   0x81; 0xc0; 0xc0; 0x00; 0x00; 0x00; 0x12; 0x89; 0x40; 0x00; 0x00; 0x00;
   0x58; 0x2c; 0x00; 0x00; 0x00; 0x00; 0x28; 0x94; 0x40; 0x00; 0x00; 0x00;
   0x34; 0x1a; 0x00; 0x00; 0x00; 0x00].

Definition kMaskRandom18_14 : list Z :=
  [0x8c; 0x46; 0x00; 0x00; 0x00; 0x00; 0x47; 0x23; 0x80; 0x00; 0x00; 0x00;
   0x81; 0xc0; 0xc0; 0x00; 0x00; 0x00; 0x12; 0x89; 0x40; 0x00; 0x00; 0x00;
   0x58; 0x2c; 0x00; 0x00; 0x00; 0x00; 0x28; 0x94; 0x40; 0x00; 0x00; 0x00;
   0x34; 0x1a; 0x00; 0x00; 0x00; 0x00; 0x84; 0xc2; 0x40; 0x00; 0x00; 0x00;
   0x27; 0x13; 0x80; 0x00; 0x00; 0x00; 0x51; 0xa8; 0xc0; 0x00; 0x00; 0x00;
   0x1a; 0x0d; 0x00; 0x00; 0x00; 0x00; 0x68; 0x34; 0x00; 0x00; 0x00; 0x00;
   0x89; 0x44; 0x80; 0x00; 0x00; 0x00; 0x7f; 0x4f; 0xc0; 0x00; 0x00; 0x00].

Definition kMaskRandom18_15 : list Z :=
  [0x8c; 0x46; 0x00; 0x00; 0x00; 0x00; 0x47; 0x23; 0x80; 0x00; 0x00; 0x00;
   0x81; 0xc0; 0xc0; 0x00; 0x00; 0x00; 0x12; 0x89; 0x40; 0x00; 0x00; 0x00;
   0x58; 0x2c; 0x00; 0x00; 0x00; 0x00; 0x28; 0x94; 0x40; 0x00; 0x00; 0x00;
   0x34; 0x1a; 0x00; 0x00; 0x00; 0x00; 0x2c; 0x16; 0x00; 0x00; 0x00; 0x00;
   0x91; 0x48; 0x80; 0x00; 0x00; 0x00; 0xc0; 0xe0; 0x40; 0x00; 0x00; 0x00;
   0x06; 0x83; 0x40; 0x00; 0x00; 0x00; 0xc8; 0x64; 0x00; 0x00; 0x00; 0x00;
   0x45; 0x22; 0x80; 0x00; 0x00; 0x00; 0x30; 0x98; 0x40; 0x00; 0x00; 0x00;
   0xa2; 0x51; 0x00; 0x00; 0x00; 0x00].

Definition kMaskRandom18_16 : list Z :=
  [0x2c; 0x16; 0x00; 0x00; 0x00; 0x00; 0x91; 0x48; 0x80; 0x00; 0x00; 0x00;
   0xc0; 0xe0; 0x40; 0x00; 0x00; 0x00; 0x06; 0x83; 0x40; 0x00; 0x00; 0x00;
   0xc8; 0x64; 0x00; 0x00; 0x00; 0x00; 0x45; 0x22; 0x80; 0x00; 0x00; 0x00;
   0x30; 0x98; 0x40; 0x00; 0x00; 0x00; 0xa2; 0x51; 0x00; 0x00; 0x00; 0x00;
   0x8c; 0x46; 0x00; 0x00; 0x00; 0x00; 0x47; 0x23; 0x80; 0x00; 0x00; 0x00;
   0x81; 0xc0; 0xc0; 0x00; 0x00; 0x00; 0x12; 0x89; 0x40; 0x00; 0x00; 0x00;
   0x58; 0x2c; 0x00; 0x00; 0x00; 0x00; 0x28; 0x94; 0x40; 0x00; 0x00; 0x00;
   0x34; 0x1a; 0x00; 0x00; 0x00; 0x00; 0xef; 0xf2; 0x00; 0x00; 0x00; 0x00].

Definition kMaskRandom18_17 : list Z :=
  [0x2c; 0x16; 0x00; 0x00; 0x00; 0x00; 0x91; 0x48; 0x80; 0x00; 0x00; 0x00;
   0xc0; 0xe0; 0x40; 0x00; 0x00; 0x00; 0x06; 0x83; 0x40; 0x00; 0x00; 0x00;
   0xc8; 0x64; 0x00; 0x00; 0x00; 0x00; 0x45; 0x22; 0x80; 0x00; 0x00; 0x00;
   0x30; 0x98; 0x40; 0x00; 0x00; 0x00; 0xa2; 0x51; 0x00; 0x00; 0x00; 0x00;
   0x4c; 0x26; 0x00; 0x00; 0x00; 0x00; 0x66; 0x33; 0x00; 0x00; 0x00; 0x00;
   0x91; 0x48; 0x80; 0x00; 0x00; 0x00; 0x42; 0xa1; 0x40; 0x00; 0x00; 0x00;
   0xa4; 0x52; 0x00; 0x00; 0x00; 0x00; 0x13; 0x09; 0x80; 0x00; 0x00; 0x00;
   0x30; 0x98; 0x40; 0x00; 0x00; 0x00; 0x88; 0xc4; 0x40; 0x00; 0x00; 0x00;
   0x09; 0x04; 0x80; 0x00; 0x00; 0x00].

Definition kMaskRandom18_18 : list Z :=
  [0x4c; 0x26; 0x00; 0x00; 0x00; 0x00; 0x66; 0x33; 0x00; 0x00; 0x00; 0x00;
   0x91; 0x48; 0x80; 0x00; 0x00; 0x00; 0x42; 0xa1; 0x40; 0x00; 0x00; 0x00;
   0xa4; 0x52; 0x00; 0x00; 0x00; 0x00; 0x13; 0x09; 0x80; 0x00; 0x00; 0x00;
   0x30; 0x98; 0x40; 0x00; 0x00; 0x00; 0x88; 0xc4; 0x40; 0x00; 0x00; 0x00;
   0x09; 0x04; 0x80; 0x00; 0x00; 0x00; 0x2c; 0x16; 0x00; 0x00; 0x00; 0x00;
   0x91; 0x48; 0x80; 0x00; 0x00; 0x00; 0xc0; 0xe0; 0x40; 0x00; 0x00; 0x00;
   0x06; 0x83; 0x40; 0x00; 0x00; 0x00; 0xc8; 0x64; 0x00; 0x00; 0x00; 0x00;
   0x45; 0x22; 0x80; 0x00; 0x00; 0x00; 0x30; 0x98; 0x40; 0x00; 0x00; 0x00;
   0xa2; 0x51; 0x00; 0x00; 0x00; 0x00; 0xd0; 0x03; 0x40; 0x00; 0x00; 0x00].

Definition kMaskRandom19_1 : list Z :=
  [0xff; 0xff; 0xe0; 0x00; 0x00; 0x00].

Definition kMaskRandom19_2 : list Z :=
  [0xce; 0x77; 0x00; 0x00; 0x00; 0x00; 0x39; 0xcc; 0xe0; 0x00; 0x00; 0x00].

Definition kMaskRandom19_3 : list Z :=
  [0xcc; 0x67; 0x00; 0x00; 0x00; 0x00; 0x27; 0x2c; 0xc0; 0x00; 0x00; 0x00;
   0x92; 0xd2; 0x60; 0x00; 0x00; 0x00].

Definition kMaskRandom19_4 : list Z :=
  [0xec; 0x73; 0x00; 0x00; 0x00; 0x00; 0x67; 0x19; 0xc0; 0x00; 0x00; 0x00;
   0xb1; 0xcc; 0x60; 0x00; 0x00; 0x00; 0x5a; 0x96; 0xa0; 0x00; 0x00; 0x00].

Definition kMaskRandom19_5 : list Z :=
  [0x4c; 0xe7; 0x00; 0x00; 0x00; 0x00; 0x66; 0x31; 0xc0; 0x00; 0x00; 0x00;
   0xa1; 0xcc; 0x60; 0x00; 0x00; 0x00; 0x92; 0xa6; 0xa0; 0x00; 0x00; 0x00;
   0xb8; 0x99; 0x80; 0x00; 0x00; 0x00].

Definition kMaskRandom19_6 : list Z :=
  [0x4c; 0x36; 0x00; 0x00; 0x00; 0x00; 0x45; 0x68; 0x80; 0x00; 0x00; 0x00;
   0x30; 0xd0; 0x60; 0x00; 0x00; 0x00; 0x8a; 0x82; 0xa0; 0x00; 0x00; 0x00;
   0x26; 0x0b; 0x40; 0x00; 0x00; 0x00; 0x95; 0x45; 0x00; 0x00; 0x00; 0x00].

Definition kMaskRandom19_7 : list Z :=
  [0xc4; 0xa3; 0x00; 0x00; 0x00; 0x00; 0x23; 0x19; 0x80; 0x00; 0x00; 0x00;
   0x91; 0x1c; 0x20; 0x00; 0x00; 0x00; 0x4a; 0x82; 0xa0; 0x00; 0x00; 0x00;
   0x34; 0x49; 0x40; 0x00; 0x00; 0x00; 0x8b; 0x4a; 0x00; 0x00; 0x00; 0x00;
   0xc8; 0x24; 0xc0; 0x00; 0x00; 0x00].

Definition kMaskRandom19_8 : list Z :=
  [0x16; 0x13; 0x80; 0x00; 0x00; 0x00; 0xc2; 0x44; 0xc0; 0x00; 0x00; 0x00;
   0x60; 0xe8; 0x20; 0x00; 0x00; 0x00; 0x85; 0x12; 0x60; 0x00; 0x00; 0x00;
   0xcc; 0x21; 0x40; 0x00; 0x00; 0x00; 0x29; 0x63; 0x00; 0x00; 0x00; 0x00;
   0x11; 0x98; 0xc0; 0x00; 0x00; 0x00; 0xb0; 0x0c; 0x60; 0x00; 0x00; 0x00].

Definition kMaskRandom19_9 : list Z :=
  [0x44; 0xa7; 0x00; 0x00; 0x00; 0x00; 0x66; 0x70; 0x80; 0x00; 0x00; 0x00;
   0x12; 0xc0; 0xe0; 0x00; 0x00; 0x00; 0xc3; 0x10; 0xa0; 0x00; 0x00; 0x00;
   0x8c; 0x29; 0x40; 0x00; 0x00; 0x00; 0x11; 0x5b; 0x00; 0x00; 0x00; 0x00;
   0x21; 0x93; 0x40; 0x00; 0x00; 0x00; 0xa2; 0x2c; 0x00; 0x00; 0x00; 0x00;
   0x18; 0x0c; 0xe0; 0x00; 0x00; 0x00].

Definition kMaskRandom19_10 : list Z :=
  [0x8c; 0xe3; 0x00; 0x00; 0x00; 0x00; 0x27; 0x11; 0xc0; 0x00; 0x00; 0x00;
   0x32; 0x8d; 0x20; 0x00; 0x00; 0x00; 0x61; 0x92; 0x60; 0x00; 0x00; 0x00;
   0x5c; 0x38; 0x80; 0x00; 0x00; 0x00; 0xcc; 0x75; 0x00; 0x00; 0x00; 0x00;
   0x2b; 0x19; 0xc0; 0x00; 0x00; 0x00; 0x32; 0xd2; 0x60; 0x00; 0x00; 0x00;
   0x25; 0x8e; 0xa0; 0x00; 0x00; 0x00; 0x50; 0x88; 0xc0; 0x00; 0x00; 0x00].

Definition kMaskRandom19_11 : list Z :=
  [0x8c; 0xe3; 0x00; 0x00; 0x00; 0x00; 0x27; 0x11; 0xc0; 0x00; 0x00; 0x00;
   0x32; 0x8d; 0x20; 0x00; 0x00; 0x00; 0x61; 0x92; 0x60; 0x00; 0x00; 0x00;
   0x5c; 0x38; 0x80; 0x00; 0x00; 0x00; 0x84; 0x87; 0x00; 0x00; 0x00; 0x00;
   0x27; 0x19; 0x80; 0x00; 0x00; 0x00; 0x51; 0x88; 0x60; 0x00; 0x00; 0x00;
   0x1a; 0x22; 0xa0; 0x00; 0x00; 0x00; 0x68; 0x44; 0x40; 0x00; 0x00; 0x00;
   0x89; 0x70; 0x00; 0x00; 0x00; 0x00].

Definition kMaskRandom19_12 : list Z :=
  [0x84; 0x87; 0x00; 0x00; 0x00; 0x00; 0x27; 0x19; 0x80; 0x00; 0x00; 0x00;
   0x51; 0x88; 0x60; 0x00; 0x00; 0x00; 0x1a; 0x22; 0xa0; 0x00; 0x00; 0x00;
   0x68; 0x44; 0x40; 0x00; 0x00; 0x00; 0x89; 0x70; 0x00; 0x00; 0x00; 0x00;
   0x8c; 0xe3; 0x00; 0x00; 0x00; 0x00; 0x27; 0x11; 0xc0; 0x00; 0x00; 0x00;
   0x32; 0x8d; 0x20; 0x00; 0x00; 0x00; 0x61; 0x92; 0x60; 0x00; 0x00; 0x00;
   0x5c; 0x38; 0x80; 0x00; 0x00; 0x00; 0x90; 0xc8; 0x80; 0x00; 0x00; 0x00].

Definition kMaskRandom19_13 : list Z :=
  [0x84; 0x87; 0x00; 0x00; 0x00; 0x00; 0x27; 0x19; 0x80; 0x00; 0x00; 0x00;
   0x51; 0x88; 0x60; 0x00; 0x00; 0x00; 0x1a; 0x22; 0xa0; 0x00; 0x00; 0x00;
   0x68; 0x44; 0x40; 0x00; 0x00; 0x00; 0x89; 0x70; 0x00; 0x00; 0x00; 0x00;
   0x8c; 0x23; 0x00; 0x00; 0x00; 0x00; 0x47; 0x19; 0x80; 0x00; 0x00; 0x00;
   0x81; 0x88; 0x60; 0x00; 0x00; 0x00; 0x12; 0x86; 0x20; 0x00; 0x00; 0x00;
   0x58; 0x14; 0x40; 0x00; 0x00; 0x00; 0x28; 0xca; 0x00; 0x00; 0x00; 0x00;
   0x34; 0x60; 0x80; 0x00; 0x00; 0x00].

Definition kMaskRandom19_14 : list Z :=
  [0x8c; 0x23; 0x00; 0x00; 0x00; 0x00; 0x47; 0x19; 0x80; 0x00; 0x00; 0x00;
   0x81; 0x88; 0x60; 0x00; 0x00; 0x00; 0x12; 0x86; 0x20; 0x00; 0x00; 0x00;
   0x58; 0x14; 0x40; 0x00; 0x00; 0x00; 0x28; 0xca; 0x00; 0x00; 0x00; 0x00;
   0x34; 0x60; 0x80; 0x00; 0x00; 0x00; 0x84; 0x87; 0x00; 0x00; 0x00; 0x00;
   0x27; 0x19; 0x80; 0x00; 0x00; 0x00; 0x51; 0x88; 0x60; 0x00; 0x00; 0x00;
   0x1a; 0x22; 0xa0; 0x00; 0x00; 0x00; 0x68; 0x44; 0x40; 0x00; 0x00; 0x00;
   0x89; 0x70; 0x00; 0x00; 0x00; 0x00; 0x6e; 0x27; 0x60; 0x00; 0x00; 0x00].

Definition kMaskRandom19_15 : list Z :=
  [0x8c; 0x23; 0x00; 0x00; 0x00; 0x00; 0x47; 0x19; 0x80; 0x00; 0x00; 0x00;
   0x81; 0x88; 0x60; 0x00; 0x00; 0x00; 0x12; 0x86; 0x20; 0x00; 0x00; 0x00;
   0x58; 0x14; 0x40; 0x00; 0x00; 0x00; 0x28; 0xca; 0x00; 0x00; 0x00; 0x00;
   0x34; 0x60; 0x80; 0x00; 0x00; 0x00; 0x2c; 0x16; 0x00; 0x00; 0x00; 0x00;
   0x91; 0x40; 0xc0; 0x00; 0x00; 0x00; 0xc0; 0xd0; 0x20; 0x00; 0x00; 0x00;
   0x06; 0x82; 0xa0; 0x00; 0x00; 0x00; 0xc8; 0x0c; 0x40; 0x00; 0x00; 0x00;
   0x45; 0x61; 0x00; 0x00; 0x00; 0x00; 0x30; 0x91; 0x40; 0x00; 0x00; 0x00;
   0xa2; 0x28; 0x20; 0x00; 0x00; 0x00].

Definition kMaskRandom19_16 : list Z :=
  [0x2c; 0x16; 0x00; 0x00; 0x00; 0x00; 0x91; 0x40; 0xc0; 0x00; 0x00; 0x00;
   0xc0; 0xd0; 0x20; 0x00; 0x00; 0x00; 0x06; 0x82; 0xa0; 0x00; 0x00; 0x00;
   0xc8; 0x0c; 0x40; 0x00; 0x00; 0x00; 0x45; 0x61; 0x00; 0x00; 0x00; 0x00;
   0x30; 0x91; 0x40; 0x00; 0x00; 0x00; 0xa2; 0x28; 0x20; 0x00; 0x00; 0x00;
   0x8c; 0x23; 0x00; 0x00; 0x00; 0x00; 0x47; 0x19; 0x80; 0x00; 0x00; 0x00;
   0x81; 0x88; 0x60; 0x00; 0x00; 0x00; 0x12; 0x86; 0x20; 0x00; 0x00; 0x00;
   0x58; 0x14; 0x40; 0x00; 0x00; 0x00; 0x28; 0xca; 0x00; 0x00; 0x00; 0x00;
   0x34; 0x60; 0x80; 0x00; 0x00; 0x00; 0x7e; 0x75; 0xe0; 0x00; 0x00; 0x00].

Definition kMaskRandom19_17 : list Z :=
  [0x2c; 0x16; 0x00; 0x00; 0x00; 0x00; 0x91; 0x40; 0xc0; 0x00; 0x00; 0x00;
   0xc0; 0xd0; 0x20; 0x00; 0x00; 0x00; 0x06; 0x82; 0xa0; 0x00; 0x00; 0x00;
   0xc8; 0x0c; 0x40; 0x00; 0x00; 0x00; 0x45; 0x61; 0x00; 0x00; 0x00; 0x00;
   0x30; 0x91; 0x40; 0x00; 0x00; 0x00; 0xa2; 0x28; 0x20; 0x00; 0x00; 0x00;
   0x4c; 0x27; 0x00; 0x00; 0x00; 0x00; 0x66; 0x71; 0x80; 0x00; 0x00; 0x00;
   0x91; 0x40; 0xe0; 0x00; 0x00; 0x00; 0x42; 0x90; 0xa0; 0x00; 0x00; 0x00;
   0xa4; 0x29; 0x40; 0x00; 0x00; 0x00; 0x13; 0x5a; 0x00; 0x00; 0x00; 0x00;
   0x30; 0x93; 0x40; 0x00; 0x00; 0x00; 0x88; 0xac; 0x20; 0x00; 0x00; 0x00;
   0x09; 0x0c; 0xc0; 0x00; 0x00; 0x00].

Definition kMaskRandom19_18 : list Z :=
  [0x4c; 0x27; 0x00; 0x00; 0x00; 0x00; 0x66; 0x71; 0x80; 0x00; 0x00; 0x00;
   0x91; 0x40; 0xe0; 0x00; 0x00; 0x00; 0x42; 0x90; 0xa0; 0x00; 0x00; 0x00;
   0xa4; 0x29; 0x40; 0x00; 0x00; 0x00; 0x13; 0x5a; 0x00; 0x00; 0x00; 0x00;
   0x30; 0x93; 0x40; 0x00; 0x00; 0x00; 0x88; 0xac; 0x20; 0x00; 0x00; 0x00;
   0x09; 0x0c; 0xc0; 0x00; 0x00; 0x00; 0x2c; 0x16; 0x00; 0x00; 0x00; 0x00;
   0x91; 0x40; 0xc0; 0x00; 0x00; 0x00; 0xc0; 0xd0; 0x20; 0x00; 0x00; 0x00;
   0x06; 0x82; 0xa0; 0x00; 0x00; 0x00; 0xc8; 0x0c; 0x40; 0x00; 0x00; 0x00;
   0x45; 0x61; 0x00; 0x00; 0x00; 0x00; 0x30; 0x91; 0x40; 0x00; 0x00; 0x00;
   0xa2; 0x28; 0x20; 0x00; 0x00; 0x00; 0x51; 0x97; 0x20; 0x00; 0x00; 0x00].

Definition kMaskRandom19_19 : list Z :=
  [0x4c; 0x27; 0x00; 0x00; 0x00; 0x00; 0x66; 0x71; 0x80; 0x00; 0x00; 0x00;
   0x91; 0x40; 0xe0; 0x00; 0x00; 0x00; 0x42; 0x90; 0xa0; 0x00; 0x00; 0x00;
   0xa4; 0x29; 0x40; 0x00; 0x00; 0x00; 0x13; 0x5a; 0x00; 0x00; 0x00; 0x00;
   0x30; 0x93; 0x40; 0x00; 0x00; 0x00; 0x88; 0xac; 0x20; 0x00; 0x00; 0x00;
   0x09; 0x0c; 0xc0; 0x00; 0x00; 0x00; 0x4c; 0x26; 0x00; 0x00; 0x00; 0x00;
   0x66; 0x28; 0x80; 0x00; 0x00; 0x00; 0x91; 0x50; 0x20; 0x00; 0x00; 0x00;
   0x42; 0x82; 0x60; 0x00; 0x00; 0x00; 0xa4; 0x01; 0xc0; 0x00; 0x00; 0x00;
   0x13; 0x43; 0x00; 0x00; 0x00; 0x00; 0x30; 0x94; 0x80; 0x00; 0x00; 0x00;
   0x88; 0xa1; 0x20; 0x00; 0x00; 0x00; 0x09; 0x4c; 0x00; 0x00; 0x00; 0x00;
   0xcd; 0x98; 0x40; 0x00; 0x00; 0x00].

Definition kMaskRandom20_1 : list Z :=
  [0xff; 0xff; 0xf0; 0x00; 0x00; 0x00].

Definition kMaskRandom20_2 : list Z :=
  [0xee; 0x3b; 0x80; 0x00; 0x00; 0x00; 0x99; 0xe6; 0x70; 0x00; 0x00; 0x00].

Definition kMaskRandom20_3 : list Z :=
  [0xce; 0x33; 0x80; 0x00; 0x00; 0x00; 0x55; 0x95; 0x60; 0x00; 0x00; 0x00;
   0xb1; 0x6a; 0x30; 0x00; 0x00; 0x00].

Definition kMaskRandom20_4 : list Z :=
  [0xe6; 0x39; 0x80; 0x00; 0x00; 0x00; 0x33; 0x8c; 0xe0; 0x00; 0x00; 0x00;
   0x98; 0xe6; 0x30; 0x00; 0x00; 0x00; 0x2d; 0x4b; 0x50; 0x00; 0x00; 0x00].

Definition kMaskRandom20_5 : list Z :=
  [0xce; 0x33; 0x80; 0x00; 0x00; 0x00; 0x63; 0x98; 0xe0; 0x00; 0x00; 0x00;
   0x98; 0xe5; 0x30; 0x00; 0x00; 0x00; 0x2b; 0x53; 0x50; 0x00; 0x00; 0x00;
   0xb4; 0x5c; 0xa0; 0x00; 0x00; 0x00].

Definition kMaskRandom20_6 : list Z :=
  [0x4c; 0x1b; 0x00; 0x00; 0x00; 0x00; 0x51; 0x34; 0x40; 0x00; 0x00; 0x00;
   0x20; 0xe8; 0x30; 0x00; 0x00; 0x00; 0x85; 0x41; 0x50; 0x00; 0x00; 0x00;
   0x06; 0x86; 0xa0; 0x00; 0x00; 0x00; 0x9a; 0x21; 0x80; 0x00; 0x00; 0x00].

Definition kMaskRandom20_7 : list Z :=
  [0x4e; 0x11; 0x80; 0x00; 0x00; 0x00; 0x33; 0x2c; 0x00; 0x00; 0x00; 0x00;
   0x10; 0x0e; 0xb0; 0x00; 0x00; 0x00; 0x81; 0x51; 0x50; 0x00; 0x00; 0x00;
   0x24; 0xc4; 0xa0; 0x00; 0x00; 0x00; 0xd4; 0x23; 0x00; 0x00; 0x00; 0x00;
   0x0c; 0xa2; 0x60; 0x00; 0x00; 0x00].

Definition kMaskRandom20_8 : list Z :=
  [0x27; 0x09; 0xc0; 0x00; 0x00; 0x00; 0x89; 0xa2; 0x60; 0x00; 0x00; 0x00;
   0xd0; 0x74; 0x10; 0x00; 0x00; 0x00; 0x24; 0xc9; 0x30; 0x00; 0x00; 0x00;
   0xe2; 0x90; 0xa0; 0x00; 0x00; 0x00; 0xc6; 0x31; 0x80; 0x00; 0x00; 0x00;
   0x31; 0x8c; 0x60; 0x00; 0x00; 0x00; 0x18; 0xc6; 0x30; 0x00; 0x00; 0x00].

Definition kMaskRandom20_9 : list Z :=
  [0x4e; 0x13; 0x80; 0x00; 0x00; 0x00; 0x62; 0x38; 0xc0; 0x00; 0x00; 0x00;
   0x81; 0xe0; 0x70; 0x00; 0x00; 0x00; 0xe1; 0x48; 0x50; 0x00; 0x00; 0x00;
   0x13; 0x94; 0xa0; 0x00; 0x00; 0x00; 0xb4; 0x2d; 0x00; 0x00; 0x00; 0x00;
   0x26; 0x89; 0xa0; 0x00; 0x00; 0x00; 0x58; 0x56; 0x10; 0x00; 0x00; 0x00;
   0x49; 0x86; 0x50; 0x00; 0x00; 0x00].

Definition kMaskRandom20_10 : list Z :=
  [0x4c; 0x13; 0x00; 0x00; 0x00; 0x00; 0x51; 0x14; 0x40; 0x00; 0x00; 0x00;
   0xa0; 0x68; 0x10; 0x00; 0x00; 0x00; 0x04; 0xc1; 0x30; 0x00; 0x00; 0x00;
   0x03; 0x80; 0xe0; 0x00; 0x00; 0x00; 0x86; 0x21; 0x80; 0x00; 0x00; 0x00;
   0x29; 0x0a; 0x40; 0x00; 0x00; 0x00; 0x42; 0x50; 0x90; 0x00; 0x00; 0x00;
   0x98; 0x26; 0x00; 0x00; 0x00; 0x00; 0x30; 0x8c; 0x20; 0x00; 0x00; 0x00].

Definition kMaskRandom20_11 : list Z :=
  [0xc6; 0x31; 0x80; 0x00; 0x00; 0x00; 0x23; 0x88; 0xe0; 0x00; 0x00; 0x00;
   0x1a; 0x46; 0x90; 0x00; 0x00; 0x00; 0x24; 0xc9; 0x30; 0x00; 0x00; 0x00;
   0x71; 0x1c; 0x40; 0x00; 0x00; 0x00; 0x0e; 0x03; 0x80; 0x00; 0x00; 0x00;
   0x33; 0x0c; 0xc0; 0x00; 0x00; 0x00; 0x10; 0xc4; 0x30; 0x00; 0x00; 0x00;
   0x45; 0x51; 0x50; 0x00; 0x00; 0x00; 0x88; 0xa2; 0x20; 0x00; 0x00; 0x00;
   0xe0; 0x38; 0x00; 0x00; 0x00; 0x00].

Definition kMaskRandom20_12 : list Z :=
  [0x0e; 0x03; 0x80; 0x00; 0x00; 0x00; 0x33; 0x0c; 0xc0; 0x00; 0x00; 0x00;
   0x10; 0xc4; 0x30; 0x00; 0x00; 0x00; 0x45; 0x51; 0x50; 0x00; 0x00; 0x00;
   0x88; 0xa2; 0x20; 0x00; 0x00; 0x00; 0xe0; 0x38; 0x00; 0x00; 0x00; 0x00;
   0xc6; 0x31; 0x80; 0x00; 0x00; 0x00; 0x23; 0x88; 0xe0; 0x00; 0x00; 0x00;
   0x1a; 0x46; 0x90; 0x00; 0x00; 0x00; 0x24; 0xc9; 0x30; 0x00; 0x00; 0x00;
   0x71; 0x1c; 0x40; 0x00; 0x00; 0x00; 0xf5; 0xdc; 0x40; 0x00; 0x00; 0x00].

Definition kMaskRandom20_13 : list Z :=
  [0x0e; 0x03; 0x80; 0x00; 0x00; 0x00; 0x33; 0x0c; 0xc0; 0x00; 0x00; 0x00;
   0x10; 0xc4; 0x30; 0x00; 0x00; 0x00; 0x45; 0x51; 0x50; 0x00; 0x00; 0x00;
   0x88; 0xa2; 0x20; 0x00; 0x00; 0x00; 0xe0; 0x38; 0x00; 0x00; 0x00; 0x00;
   0x46; 0x11; 0x80; 0x00; 0x00; 0x00; 0x33; 0x0c; 0xc0; 0x00; 0x00; 0x00;
   0x10; 0xc4; 0x30; 0x00; 0x00; 0x00; 0x0c; 0x43; 0x10; 0x00; 0x00; 0x00;
   0x28; 0x8a; 0x20; 0x00; 0x00; 0x00; 0x94; 0x25; 0x00; 0x00; 0x00; 0x00;
   0xc1; 0x30; 0x40; 0x00; 0x00; 0x00].

Definition kMaskRandom20_14 : list Z :=
  [0x46; 0x11; 0x80; 0x00; 0x00; 0x00; 0x33; 0x0c; 0xc0; 0x00; 0x00; 0x00;
   0x10; 0xc4; 0x30; 0x00; 0x00; 0x00; 0x0c; 0x43; 0x10; 0x00; 0x00; 0x00;
   0x28; 0x8a; 0x20; 0x00; 0x00; 0x00; 0x94; 0x25; 0x00; 0x00; 0x00; 0x00;
   0xc1; 0x30; 0x40; 0x00; 0x00; 0x00; 0x0e; 0x03; 0x80; 0x00; 0x00; 0x00;
   0x33; 0x0c; 0xc0; 0x00; 0x00; 0x00; 0x10; 0xc4; 0x30; 0x00; 0x00; 0x00;
   0x45; 0x51; 0x50; 0x00; 0x00; 0x00; 0x88; 0xa2; 0x20; 0x00; 0x00; 0x00;
   0xe0; 0x38; 0x00; 0x00; 0x00; 0x00; 0x56; 0x3e; 0x20; 0x00; 0x00; 0x00].

Definition kMaskRandom20_15 : list Z :=
  [0x46; 0x11; 0x80; 0x00; 0x00; 0x00; 0x33; 0x0c; 0xc0; 0x00; 0x00; 0x00;
   0x10; 0xc4; 0x30; 0x00; 0x00; 0x00; 0x0c; 0x43; 0x10; 0x00; 0x00; 0x00;
   0x28; 0x8a; 0x20; 0x00; 0x00; 0x00; 0x94; 0x25; 0x00; 0x00; 0x00; 0x00;
   0xc1; 0x30; 0x40; 0x00; 0x00; 0x00; 0x2c; 0x0b; 0x00; 0x00; 0x00; 0x00;
   0x81; 0xa0; 0x60; 0x00; 0x00; 0x00; 0xa0; 0x68; 0x10; 0x00; 0x00; 0x00;
   0x05; 0x41; 0x50; 0x00; 0x00; 0x00; 0x18; 0x86; 0x20; 0x00; 0x00; 0x00;
   0xc2; 0x30; 0x80; 0x00; 0x00; 0x00; 0x22; 0x88; 0xa0; 0x00; 0x00; 0x00;
   0x50; 0x54; 0x10; 0x00; 0x00; 0x00].

Definition kMaskRandom20_16 : list Z :=
  [0x2c; 0x0b; 0x00; 0x00; 0x00; 0x00; 0x81; 0xa0; 0x60; 0x00; 0x00; 0x00;
   0xa0; 0x68; 0x10; 0x00; 0x00; 0x00; 0x05; 0x41; 0x50; 0x00; 0x00; 0x00;
   0x18; 0x86; 0x20; 0x00; 0x00; 0x00; 0xc2; 0x30; 0x80; 0x00; 0x00; 0x00;
   0x22; 0x88; 0xa0; 0x00; 0x00; 0x00; 0x50; 0x54; 0x10; 0x00; 0x00; 0x00;
   0x46; 0x11; 0x80; 0x00; 0x00; 0x00; 0x33; 0x0c; 0xc0; 0x00; 0x00; 0x00;
   0x10; 0xc4; 0x30; 0x00; 0x00; 0x00; 0x0c; 0x43; 0x10; 0x00; 0x00; 0x00;
   0x28; 0x8a; 0x20; 0x00; 0x00; 0x00; 0x94; 0x25; 0x00; 0x00; 0x00; 0x00;
   0xc1; 0x30; 0x40; 0x00; 0x00; 0x00; 0x28; 0x1c; 0x60; 0x00; 0x00; 0x00].

Definition kMaskRandom20_17 : list Z :=
  [0x2c; 0x0b; 0x00; 0x00; 0x00; 0x00; 0x81; 0xa0; 0x60; 0x00; 0x00; 0x00;
   0xa0; 0x68; 0x10; 0x00; 0x00; 0x00; 0x05; 0x41; 0x50; 0x00; 0x00; 0x00;
   0x18; 0x86; 0x20; 0x00; 0x00; 0x00; 0xc2; 0x30; 0x80; 0x00; 0x00; 0x00;
   0x22; 0x88; 0xa0; 0x00; 0x00; 0x00; 0x50; 0x54; 0x10; 0x00; 0x00; 0x00;
   0x4e; 0x13; 0x80; 0x00; 0x00; 0x00; 0xe3; 0x38; 0xc0; 0x00; 0x00; 0x00;
   0x81; 0xe0; 0x70; 0x00; 0x00; 0x00; 0x21; 0x48; 0x50; 0x00; 0x00; 0x00;
   0x52; 0x94; 0xa0; 0x00; 0x00; 0x00; 0xb4; 0x2d; 0x00; 0x00; 0x00; 0x00;
   0x26; 0x89; 0xa0; 0x00; 0x00; 0x00; 0x58; 0x56; 0x10; 0x00; 0x00; 0x00;
   0x19; 0x86; 0x60; 0x00; 0x00; 0x00].

Definition kMaskRandom20_18 : list Z :=
  [0x4e; 0x13; 0x80; 0x00; 0x00; 0x00; 0xe3; 0x38; 0xc0; 0x00; 0x00; 0x00;
   0x81; 0xe0; 0x70; 0x00; 0x00; 0x00; 0x21; 0x48; 0x50; 0x00; 0x00; 0x00;
   0x52; 0x94; 0xa0; 0x00; 0x00; 0x00; 0xb4; 0x2d; 0x00; 0x00; 0x00; 0x00;
   0x26; 0x89; 0xa0; 0x00; 0x00; 0x00; 0x58; 0x56; 0x10; 0x00; 0x00; 0x00;
   0x19; 0x86; 0x60; 0x00; 0x00; 0x00; 0x2c; 0x0b; 0x00; 0x00; 0x00; 0x00;
   0x81; 0xa0; 0x60; 0x00; 0x00; 0x00; 0xa0; 0x68; 0x10; 0x00; 0x00; 0x00;
   0x05; 0x41; 0x50; 0x00; 0x00; 0x00; 0x18; 0x86; 0x20; 0x00; 0x00; 0x00;
   0xc2; 0x30; 0x80; 0x00; 0x00; 0x00; 0x22; 0x88; 0xa0; 0x00; 0x00; 0x00;
   0x50; 0x54; 0x10; 0x00; 0x00; 0x00; 0x21; 0x7b; 0xf0; 0x00; 0x00; 0x00].

Definition kMaskRandom20_19 : list Z :=
  [0x4e; 0x13; 0x80; 0x00; 0x00; 0x00; 0xe3; 0x38; 0xc0; 0x00; 0x00; 0x00;
   0x81; 0xe0; 0x70; 0x00; 0x00; 0x00; 0x21; 0x48; 0x50; 0x00; 0x00; 0x00;
   0x52; 0x94; 0xa0; 0x00; 0x00; 0x00; 0xb4; 0x2d; 0x00; 0x00; 0x00; 0x00;
   0x26; 0x89; 0xa0; 0x00; 0x00; 0x00; 0x58; 0x56; 0x10; 0x00; 0x00; 0x00;
   0x19; 0x86; 0x60; 0x00; 0x00; 0x00; 0x4c; 0x13; 0x00; 0x00; 0x00; 0x00;
   0x51; 0x14; 0x40; 0x00; 0x00; 0x00; 0xa0; 0x68; 0x10; 0x00; 0x00; 0x00;
   0x04; 0xc1; 0x30; 0x00; 0x00; 0x00; 0x03; 0x80; 0xe0; 0x00; 0x00; 0x00;
   0x86; 0x21; 0x80; 0x00; 0x00; 0x00; 0x29; 0x0a; 0x40; 0x00; 0x00; 0x00;
   0x42; 0x50; 0x90; 0x00; 0x00; 0x00; 0x98; 0x26; 0x00; 0x00; 0x00; 0x00;
   0x30; 0x8c; 0x20; 0x00; 0x00; 0x00].

Definition kMaskRandom20_20 : list Z :=
  [0x4c; 0x13; 0x00; 0x00; 0x00; 0x00; 0x51; 0x14; 0x40; 0x00; 0x00; 0x00;
   0xa0; 0x68; 0x10; 0x00; 0x00; 0x00; 0x04; 0xc1; 0x30; 0x00; 0x00; 0x00;
   0x03; 0x80; 0xe0; 0x00; 0x00; 0x00; 0x86; 0x21; 0x80; 0x00; 0x00; 0x00;
   0x29; 0x0a; 0x40; 0x00; 0x00; 0x00; 0x42; 0x50; 0x90; 0x00; 0x00; 0x00;
   0x98; 0x26; 0x00; 0x00; 0x00; 0x00; 0x30; 0x8c; 0x20; 0x00; 0x00; 0x00;
   0x4e; 0x13; 0x80; 0x00; 0x00; 0x00; 0xe3; 0x38; 0xc0; 0x00; 0x00; 0x00;
   0x81; 0xe0; 0x70; 0x00; 0x00; 0x00; 0x21; 0x48; 0x50; 0x00; 0x00; 0x00;
   0x52; 0x94; 0xa0; 0x00; 0x00; 0x00; 0xb4; 0x2d; 0x00; 0x00; 0x00; 0x00;
   0x26; 0x89; 0xa0; 0x00; 0x00; 0x00; 0x58; 0x56; 0x10; 0x00; 0x00; 0x00;
   0x19; 0x86; 0x60; 0x00; 0x00; 0x00; 0xf7; 0x8d; 0xa0; 0x00; 0x00; 0x00].

Definition kMaskRandom21_1 : list Z :=
  [0xff; 0xff; 0xf8; 0x00; 0x00; 0x00].

Definition kMaskRandom21_2 : list Z :=
  [0xee; 0x3b; 0x30; 0x00; 0x00; 0x00; 0x99; 0xe6; 0xe8; 0x00; 0x00; 0x00].

Definition kMaskRandom21_3 : list Z :=
  [0xce; 0x32; 0xb0; 0x00; 0x00; 0x00; 0x55; 0xdc; 0x50; 0x00; 0x00; 0x00;
   0xa8; 0xed; 0x88; 0x00; 0x00; 0x00].

Definition kMaskRandom21_4 : list Z :=
  [0xe6; 0x31; 0x30; 0x00; 0x00; 0x00; 0x33; 0x8c; 0x58; 0x00; 0x00; 0x00;
   0x98; 0xd2; 0xc8; 0x00; 0x00; 0x00; 0x2d; 0x4b; 0x28; 0x00; 0x00; 0x00].

Definition kMaskRandom21_5 : list Z :=
  [0xce; 0x31; 0xb0; 0x00; 0x00; 0x00; 0x63; 0x98; 0xd8; 0x00; 0x00; 0x00;
   0x98; 0xc7; 0x68; 0x00; 0x00; 0x00; 0x4d; 0x6b; 0x50; 0x00; 0x00; 0x00;
   0xb2; 0x6c; 0xa8; 0x00; 0x00; 0x00].

Definition kMaskRandom21_6 : list Z :=
  [0x4c; 0x19; 0x10; 0x00; 0x00; 0x00; 0x51; 0x14; 0x50; 0x00; 0x00; 0x00;
   0x20; 0xea; 0x08; 0x00; 0x00; 0x00; 0x85; 0x41; 0x28; 0x00; 0x00; 0x00;
   0x06; 0x80; 0xd8; 0x00; 0x00; 0x00; 0x8a; 0x24; 0x30; 0x00; 0x00; 0x00].

Definition kMaskRandom21_7 : list Z :=
  [0xc6; 0x11; 0x90; 0x00; 0x00; 0x00; 0x33; 0x04; 0xc8; 0x00; 0x00; 0x00;
   0x18; 0x67; 0x40; 0x00; 0x00; 0x00; 0x45; 0x42; 0xd0; 0x00; 0x00; 0x00;
   0x12; 0xd4; 0x28; 0x00; 0x00; 0x00; 0xb4; 0x28; 0x30; 0x00; 0x00; 0x00;
   0x29; 0x92; 0x18; 0x00; 0x00; 0x00].

Definition kMaskRandom21_8 : list Z :=
  [0x07; 0x0a; 0x70; 0x00; 0x00; 0x00; 0x49; 0xa8; 0x28; 0x00; 0x00; 0x00;
   0xb0; 0x7a; 0x00; 0x00; 0x00; 0x00; 0x24; 0xc5; 0xc0; 0x00; 0x00; 0x00;
   0x52; 0x80; 0xe8; 0x00; 0x00; 0x00; 0xc6; 0x31; 0x80; 0x00; 0x00; 0x00;
   0x31; 0x94; 0x18; 0x00; 0x00; 0x00; 0x18; 0xc7; 0x08; 0x00; 0x00; 0x00].

Definition kMaskRandom21_9 : list Z :=
  [0x4e; 0x11; 0x10; 0x00; 0x00; 0x00; 0x62; 0x1a; 0x08; 0x00; 0x00; 0x00;
   0x80; 0xe9; 0x40; 0x00; 0x00; 0x00; 0xa1; 0x50; 0x50; 0x00; 0x00; 0x00;
   0x53; 0x00; 0x68; 0x00; 0x00; 0x00; 0xa4; 0x24; 0x30; 0x00; 0x00; 0x00;
   0x16; 0xa0; 0x88; 0x00; 0x00; 0x00; 0x58; 0x45; 0x20; 0x00; 0x00; 0x00;
   0x29; 0x86; 0x80; 0x00; 0x00; 0x00].

Definition kMaskRandom21_10 : list Z :=
  [0x4c; 0x19; 0x10; 0x00; 0x00; 0x00; 0x51; 0x14; 0x50; 0x00; 0x00; 0x00;
   0xa0; 0x6a; 0x40; 0x00; 0x00; 0x00; 0x04; 0xc1; 0x30; 0x00; 0x00; 0x00;
   0x03; 0xb4; 0x00; 0x00; 0x00; 0x00; 0x86; 0x20; 0x90; 0x00; 0x00; 0x00;
   0x29; 0x08; 0x48; 0x00; 0x00; 0x00; 0x42; 0x43; 0x08; 0x00; 0x00; 0x00;
   0x98; 0x12; 0x80; 0x00; 0x00; 0x00; 0x30; 0x84; 0xa8; 0x00; 0x00; 0x00].

Definition kMaskRandom21_11 : list Z :=
  [0xc6; 0x21; 0xa0; 0x00; 0x00; 0x00; 0x23; 0x88; 0xc8; 0x00; 0x00; 0x00;
   0x1a; 0x45; 0x88; 0x00; 0x00; 0x00; 0x24; 0xd3; 0x08; 0x00; 0x00; 0x00;
   0x71; 0x10; 0x70; 0x00; 0x00; 0x00; 0x0e; 0x19; 0x10; 0x00; 0x00; 0x00;
   0x33; 0x14; 0x50; 0x00; 0x00; 0x00; 0x10; 0xc3; 0x28; 0x00; 0x00; 0x00;
   0x45; 0x68; 0x48; 0x00; 0x00; 0x00; 0x88; 0x84; 0xa8; 0x00; 0x00; 0x00;
   0xe0; 0x22; 0x90; 0x00; 0x00; 0x00].

Definition kMaskRandom21_12 : list Z :=
  [0x0e; 0x19; 0x10; 0x00; 0x00; 0x00; 0x33; 0x14; 0x50; 0x00; 0x00; 0x00;
   0x10; 0xc3; 0x28; 0x00; 0x00; 0x00; 0x45; 0x68; 0x48; 0x00; 0x00; 0x00;
   0x88; 0x84; 0xa8; 0x00; 0x00; 0x00; 0xe0; 0x22; 0x90; 0x00; 0x00; 0x00;
   0xc6; 0x21; 0xa0; 0x00; 0x00; 0x00; 0x23; 0x88; 0xc8; 0x00; 0x00; 0x00;
   0x1a; 0x45; 0x88; 0x00; 0x00; 0x00; 0x24; 0xd3; 0x08; 0x00; 0x00; 0x00;
   0x71; 0x10; 0x70; 0x00; 0x00; 0x00; 0xa0; 0x65; 0x18; 0x00; 0x00; 0x00].

Definition kMaskRandom21_13 : list Z :=
  [0x0e; 0x19; 0x10; 0x00; 0x00; 0x00; 0x33; 0x14; 0x50; 0x00; 0x00; 0x00;
   0x10; 0xc3; 0x28; 0x00; 0x00; 0x00; 0x45; 0x68; 0x48; 0x00; 0x00; 0x00;
   0x88; 0x84; 0xa8; 0x00; 0x00; 0x00; 0xe0; 0x22; 0x90; 0x00; 0x00; 0x00;
   0x46; 0x11; 0x90; 0x00; 0x00; 0x00; 0x33; 0x0c; 0xc8; 0x00; 0x00; 0x00;
   0x10; 0xe4; 0x60; 0x00; 0x00; 0x00; 0x0c; 0x69; 0x08; 0x00; 0x00; 0x00;
   0x28; 0x94; 0x28; 0x00; 0x00; 0x00; 0x94; 0x21; 0x30; 0x00; 0x00; 0x00;
   0xc1; 0x02; 0x58; 0x00; 0x00; 0x00].

Definition kMaskRandom21_14 : list Z :=
  [0x46; 0x11; 0x90; 0x00; 0x00; 0x00; 0x33; 0x0c; 0xc8; 0x00; 0x00; 0x00;
   0x10; 0xe4; 0x60; 0x00; 0x00; 0x00; 0x0c; 0x69; 0x08; 0x00; 0x00; 0x00;
   0x28; 0x94; 0x28; 0x00; 0x00; 0x00; 0x94; 0x21; 0x30; 0x00; 0x00; 0x00;
   0xc1; 0x02; 0x58; 0x00; 0x00; 0x00; 0x0e; 0x19; 0x10; 0x00; 0x00; 0x00;
   0x33; 0x14; 0x50; 0x00; 0x00; 0x00; 0x10; 0xc3; 0x28; 0x00; 0x00; 0x00;
   0x45; 0x68; 0x48; 0x00; 0x00; 0x00; 0x88; 0x84; 0xa8; 0x00; 0x00; 0x00;
   0xe0; 0x22; 0x90; 0x00; 0x00; 0x00; 0x4d; 0xd0; 0xc0; 0x00; 0x00; 0x00].

Definition kMaskRandom21_15 : list Z :=
  [0x46; 0x11; 0x90; 0x00; 0x00; 0x00; 0x33; 0x0c; 0xc8; 0x00; 0x00; 0x00;
   0x10; 0xe4; 0x60; 0x00; 0x00; 0x00; 0x0c; 0x69; 0x08; 0x00; 0x00; 0x00;
   0x28; 0x94; 0x28; 0x00; 0x00; 0x00; 0x94; 0x21; 0x30; 0x00; 0x00; 0x00;
   0xc1; 0x02; 0x58; 0x00; 0x00; 0x00; 0x2c; 0x03; 0x20; 0x00; 0x00; 0x00;
   0x81; 0xa0; 0x18; 0x00; 0x00; 0x00; 0xa0; 0x68; 0x20; 0x00; 0x00; 0x00;
   0x05; 0x41; 0x50; 0x00; 0x00; 0x00; 0x18; 0x90; 0xc0; 0x00; 0x00; 0x00;
   0xc2; 0x06; 0x80; 0x00; 0x00; 0x00; 0x22; 0x98; 0x08; 0x00; 0x00; 0x00;
   0x50; 0x45; 0x08; 0x00; 0x00; 0x00].

Definition kMaskRandom21_16 : list Z :=
  [0x2c; 0x03; 0x20; 0x00; 0x00; 0x00; 0x81; 0xa0; 0x18; 0x00; 0x00; 0x00;
   0xa0; 0x68; 0x20; 0x00; 0x00; 0x00; 0x05; 0x41; 0x50; 0x00; 0x00; 0x00;
   0x18; 0x90; 0xc0; 0x00; 0x00; 0x00; 0xc2; 0x06; 0x80; 0x00; 0x00; 0x00;
   0x22; 0x98; 0x08; 0x00; 0x00; 0x00; 0x50; 0x45; 0x08; 0x00; 0x00; 0x00;
   0x46; 0x11; 0x90; 0x00; 0x00; 0x00; 0x33; 0x0c; 0xc8; 0x00; 0x00; 0x00;
   0x10; 0xe4; 0x60; 0x00; 0x00; 0x00; 0x0c; 0x69; 0x08; 0x00; 0x00; 0x00;
   0x28; 0x94; 0x28; 0x00; 0x00; 0x00; 0x94; 0x21; 0x30; 0x00; 0x00; 0x00;
   0xc1; 0x02; 0x58; 0x00; 0x00; 0x00; 0x3b; 0xf5; 0x38; 0x00; 0x00; 0x00].

Definition kMaskRandom21_17 : list Z :=
  [0x2c; 0x03; 0x20; 0x00; 0x00; 0x00; 0x81; 0xa0; 0x18; 0x00; 0x00; 0x00;
   0xa0; 0x68; 0x20; 0x00; 0x00; 0x00; 0x05; 0x41; 0x50; 0x00; 0x00; 0x00;
   0x18; 0x90; 0xc0; 0x00; 0x00; 0x00; 0xc2; 0x06; 0x80; 0x00; 0x00; 0x00;
   0x22; 0x98; 0x08; 0x00; 0x00; 0x00; 0x50; 0x45; 0x08; 0x00; 0x00; 0x00;
   0x4e; 0x11; 0x90; 0x00; 0x00; 0x00; 0xe3; 0x18; 0x98; 0x00; 0x00; 0x00;
   0x81; 0xe3; 0x00; 0x00; 0x00; 0x00; 0x21; 0x40; 0x58; 0x00; 0x00; 0x00;
   0x52; 0x81; 0xe0; 0x00; 0x00; 0x00; 0xb4; 0x28; 0x20; 0x00; 0x00; 0x00;
   0x26; 0x86; 0x28; 0x00; 0x00; 0x00; 0x58; 0x64; 0x40; 0x00; 0x00; 0x00;
   0x19; 0x9e; 0x00; 0x00; 0x00; 0x00].

Definition kMaskRandom21_18 : list Z :=
  [0x4e; 0x11; 0x90; 0x00; 0x00; 0x00; 0xe3; 0x18; 0x98; 0x00; 0x00; 0x00;
   0x81; 0xe3; 0x00; 0x00; 0x00; 0x00; 0x21; 0x40; 0x58; 0x00; 0x00; 0x00;
   0x52; 0x81; 0xe0; 0x00; 0x00; 0x00; 0xb4; 0x28; 0x20; 0x00; 0x00; 0x00;
   0x26; 0x86; 0x28; 0x00; 0x00; 0x00; 0x58; 0x64; 0x40; 0x00; 0x00; 0x00;
   0x19; 0x9e; 0x00; 0x00; 0x00; 0x00; 0x2c; 0x03; 0x20; 0x00; 0x00; 0x00;
   0x81; 0xa0; 0x18; 0x00; 0x00; 0x00; 0xa0; 0x68; 0x20; 0x00; 0x00; 0x00;
   0x05; 0x41; 0x50; 0x00; 0x00; 0x00; 0x18; 0x90; 0xc0; 0x00; 0x00; 0x00;
   0xc2; 0x06; 0x80; 0x00; 0x00; 0x00; 0x22; 0x98; 0x08; 0x00; 0x00; 0x00;
   0x50; 0x45; 0x08; 0x00; 0x00; 0x00; 0x5a; 0x56; 0x58; 0x00; 0x00; 0x00].

Definition kMaskRandom21_19 : list Z :=
  [0x4e; 0x11; 0x90; 0x00; 0x00; 0x00; 0xe3; 0x18; 0x98; 0x00; 0x00; 0x00;
   0x81; 0xe3; 0x00; 0x00; 0x00; 0x00; 0x21; 0x40; 0x58; 0x00; 0x00; 0x00;
   0x52; 0x81; 0xe0; 0x00; 0x00; 0x00; 0xb4; 0x28; 0x20; 0x00; 0x00; 0x00;
   0x26; 0x86; 0x28; 0x00; 0x00; 0x00; 0x58; 0x64; 0x40; 0x00; 0x00; 0x00;
   0x19; 0x9e; 0x00; 0x00; 0x00; 0x00; 0x4c; 0x19; 0x10; 0x00; 0x00; 0x00;
   0x51; 0x14; 0x50; 0x00; 0x00; 0x00; 0xa0; 0x6a; 0x40; 0x00; 0x00; 0x00;
   0x04; 0xc1; 0x30; 0x00; 0x00; 0x00; 0x03; 0xb4; 0x00; 0x00; 0x00; 0x00;
   0x86; 0x20; 0x90; 0x00; 0x00; 0x00; 0x29; 0x08; 0x48; 0x00; 0x00; 0x00;
   0x42; 0x43; 0x08; 0x00; 0x00; 0x00; 0x98; 0x12; 0x80; 0x00; 0x00; 0x00;
   0x30; 0x84; 0xa8; 0x00; 0x00; 0x00].

Definition kMaskRandom21_20 : list Z :=
  [0x4c; 0x19; 0x10; 0x00; 0x00; 0x00; 0x51; 0x14; 0x50; 0x00; 0x00; 0x00;
   0xa0; 0x6a; 0x40; 0x00; 0x00; 0x00; 0x04; 0xc1; 0x30; 0x00; 0x00; 0x00;
   0x03; 0xb4; 0x00; 0x00; 0x00; 0x00; 0x86; 0x20; 0x90; 0x00; 0x00; 0x00;
   0x29; 0x08; 0x48; 0x00; 0x00; 0x00; 0x42; 0x43; 0x08; 0x00; 0x00; 0x00;
   0x98; 0x12; 0x80; 0x00; 0x00; 0x00; 0x30; 0x84; 0xa8; 0x00; 0x00; 0x00;
   0x4e; 0x11; 0x90; 0x00; 0x00; 0x00; 0xe3; 0x18; 0x98; 0x00; 0x00; 0x00;
   0x81; 0xe3; 0x00; 0x00; 0x00; 0x00; 0x21; 0x40; 0x58; 0x00; 0x00; 0x00;
   0x52; 0x81; 0xe0; 0x00; 0x00; 0x00; 0xb4; 0x28; 0x20; 0x00; 0x00; 0x00;
   0x26; 0x86; 0x28; 0x00; 0x00; 0x00; 0x58; 0x64; 0x40; 0x00; 0x00; 0x00;
   0x19; 0x9e; 0x00; 0x00; 0x00; 0x00; 0x2a; 0x03; 0x30; 0x00; 0x00; 0x00].

Definition kMaskRandom21_21 : list Z :=
  [0x4c; 0x19; 0x10; 0x00; 0x00; 0x00; 0x51; 0x14; 0x50; 0x00; 0x00; 0x00;
   0xa0; 0x6a; 0x40; 0x00; 0x00; 0x00; 0x04; 0xc1; 0x30; 0x00; 0x00; 0x00;
   0x03; 0xb4; 0x00; 0x00; 0x00; 0x00; 0x86; 0x20; 0x90; 0x00; 0x00; 0x00;
   0x29; 0x08; 0x48; 0x00; 0x00; 0x00; 0x42; 0x43; 0x08; 0x00; 0x00; 0x00;
   0x98; 0x12; 0x80; 0x00; 0x00; 0x00; 0x30; 0x84; 0xa8; 0x00; 0x00; 0x00;
   0x4c; 0x11; 0x90; 0x00; 0x00; 0x00; 0x51; 0x0c; 0xc8; 0x00; 0x00; 0x00;
   0xa0; 0x66; 0x40; 0x00; 0x00; 0x00; 0x04; 0xc1; 0x60; 0x00; 0x00; 0x00;
   0x03; 0xa0; 0x28; 0x00; 0x00; 0x00; 0x86; 0x21; 0x10; 0x00; 0x00; 0x00;
   0x29; 0x10; 0x18; 0x00; 0x00; 0x00; 0x42; 0x42; 0xa0; 0x00; 0x00; 0x00;
   0x98; 0x1a; 0x00; 0x00; 0x00; 0x00; 0x30; 0x84; 0x08; 0x00; 0x00; 0x00;
   0xdf; 0x4c; 0x10; 0x00; 0x00; 0x00].

Definition kMaskRandom22_1 : list Z :=
  [0xff; 0xff; 0xfc; 0x00; 0x00; 0x00].

Definition kMaskRandom22_2 : list Z :=
  [0xec; 0xdd; 0x98; 0x00; 0x00; 0x00; 0x9b; 0xb3; 0x74; 0x00; 0x00; 0x00].

Definition kMaskRandom22_3 : list Z :=
  [0xca; 0xd9; 0x58; 0x00; 0x00; 0x00; 0xf1; 0x5e; 0x28; 0x00; 0x00; 0x00;
   0xb6; 0x35; 0xc4; 0x00; 0x00; 0x00].

Definition kMaskRandom22_4 : list Z :=
  [0xc4; 0xd8; 0x98; 0x00; 0x00; 0x00; 0x31; 0x66; 0x2c; 0x00; 0x00; 0x00;
   0x4b; 0x29; 0x64; 0x00; 0x00; 0x00; 0x2c; 0xa5; 0x94; 0x00; 0x00; 0x00].

Definition kMaskRandom22_5 : list Z :=
  [0xc6; 0xd8; 0xd8; 0x00; 0x00; 0x00; 0x63; 0x6c; 0x6c; 0x00; 0x00; 0x00;
   0x1d; 0xa3; 0xb4; 0x00; 0x00; 0x00; 0xad; 0x55; 0xa8; 0x00; 0x00; 0x00;
   0xb2; 0xb6; 0x54; 0x00; 0x00; 0x00].

Definition kMaskRandom22_6 : list Z :=
  [0x64; 0x4c; 0x88; 0x00; 0x00; 0x00; 0x51; 0x4a; 0x28; 0x00; 0x00; 0x00;
   0xa8; 0x35; 0x04; 0x00; 0x00; 0x00; 0xc4; 0xa0; 0x94; 0x00; 0x00; 0x00;
   0x03; 0x60; 0x6c; 0x00; 0x00; 0x00; 0x90; 0xd2; 0x18; 0x00; 0x00; 0x00].

Definition kMaskRandom22_7 : list Z :=
  [0xc6; 0x48; 0xc8; 0x00; 0x00; 0x00; 0x13; 0x26; 0x64; 0x00; 0x00; 0x00;
   0x8d; 0x13; 0xa0; 0x00; 0x00; 0x00; 0x8b; 0x41; 0x68; 0x00; 0x00; 0x00;
   0x52; 0xaa; 0x14; 0x00; 0x00; 0x00; 0xa2; 0xd4; 0x18; 0x00; 0x00; 0x00;
   0x61; 0xa8; 0x2c; 0x00; 0x00; 0x00].

Definition kMaskRandom22_8 : list Z :=
  [0x28; 0x85; 0x38; 0x00; 0x00; 0x00; 0x21; 0xf4; 0x04; 0x00; 0x00; 0x00;
   0xe9; 0x1d; 0x00; 0x00; 0x00; 0x00; 0x17; 0x02; 0xe0; 0x00; 0x00; 0x00;
   0x83; 0xa0; 0x54; 0x00; 0x00; 0x00; 0x46; 0x18; 0xe8; 0x00; 0x00; 0x00;
   0x50; 0x6a; 0x0c; 0x00; 0x00; 0x00; 0x1c; 0x23; 0x84; 0x00; 0x00; 0x00].

Definition kMaskRandom22_9 : list Z :=
  [0x44; 0x48; 0xc8; 0x00; 0x00; 0x00; 0x28; 0x2d; 0x0c; 0x00; 0x00; 0x00;
   0x25; 0x14; 0xa0; 0x00; 0x00; 0x00; 0x59; 0x0a; 0x20; 0x00; 0x00; 0x00;
   0x03; 0xa0; 0x34; 0x00; 0x00; 0x00; 0xc0; 0xd0; 0x18; 0x00; 0x00; 0x00;
   0xa2; 0x30; 0x44; 0x00; 0x00; 0x00; 0x14; 0x82; 0xd0; 0x00; 0x00; 0x00;
   0x9a; 0x03; 0x80; 0x00; 0x00; 0x00].

Definition kMaskRandom22_10 : list Z :=
  [0xc0; 0x38; 0x88; 0x00; 0x00; 0x00; 0x30; 0x0e; 0x28; 0x00; 0x00; 0x00;
   0xe8; 0x07; 0x00; 0x00; 0x00; 0x00; 0x85; 0x08; 0xa8; 0x00; 0x00; 0x00;
   0xd0; 0x92; 0x10; 0x00; 0x00; 0x00; 0x86; 0x50; 0x48; 0x00; 0x00; 0x00;
   0x4a; 0x68; 0x0c; 0x00; 0x00; 0x00; 0x01; 0xa0; 0x74; 0x00; 0x00; 0x00;
   0x4c; 0x81; 0x90; 0x00; 0x00; 0x00; 0x62; 0x24; 0x04; 0x00; 0x00; 0x00].

Definition kMaskRandom22_11 : list Z :=
  [0x46; 0x48; 0xc8; 0x00; 0x00; 0x00; 0x33; 0x26; 0x64; 0x00; 0x00; 0x00;
   0x99; 0x13; 0x20; 0x00; 0x00; 0x00; 0x05; 0x80; 0xb0; 0x00; 0x00; 0x00;
   0x80; 0xb0; 0x14; 0x00; 0x00; 0x00; 0x84; 0x50; 0x88; 0x00; 0x00; 0x00;
   0x40; 0x68; 0x0c; 0x00; 0x00; 0x00; 0x0a; 0x81; 0x50; 0x00; 0x00; 0x00;
   0x68; 0x0d; 0x00; 0x00; 0x00; 0x00; 0x10; 0x22; 0x04; 0x00; 0x00; 0x00;
   0x30; 0x46; 0x08; 0x00; 0x00; 0x00].

Definition kMaskRandom22_12 : list Z :=
  [0x64; 0x4c; 0x88; 0x00; 0x00; 0x00; 0x51; 0x4a; 0x28; 0x00; 0x00; 0x00;
   0x0c; 0xa1; 0x94; 0x00; 0x00; 0x00; 0xa1; 0x34; 0x24; 0x00; 0x00; 0x00;
   0x12; 0xa2; 0x54; 0x00; 0x00; 0x00; 0x8a; 0x51; 0x48; 0x00; 0x00; 0x00;
   0x86; 0x90; 0xd0; 0x00; 0x00; 0x00; 0x23; 0x24; 0x64; 0x00; 0x00; 0x00;
   0x16; 0x22; 0xc4; 0x00; 0x00; 0x00; 0x4c; 0x29; 0x84; 0x00; 0x00; 0x00;
   0x41; 0xc8; 0x38; 0x00; 0x00; 0x00; 0xf4; 0x18; 0x9c; 0x00; 0x00; 0x00].

Definition kMaskRandom22_13 : list Z :=
  [0x64; 0x4c; 0x88; 0x00; 0x00; 0x00; 0x51; 0x4a; 0x28; 0x00; 0x00; 0x00;
   0x0c; 0xa1; 0x94; 0x00; 0x00; 0x00; 0xa1; 0x34; 0x24; 0x00; 0x00; 0x00;
   0x12; 0xa2; 0x54; 0x00; 0x00; 0x00; 0x8a; 0x51; 0x48; 0x00; 0x00; 0x00;
   0x46; 0x48; 0xc8; 0x00; 0x00; 0x00; 0x33; 0x26; 0x64; 0x00; 0x00; 0x00;
   0x91; 0x92; 0x30; 0x00; 0x00; 0x00; 0xa4; 0x34; 0x84; 0x00; 0x00; 0x00;
   0x50; 0xaa; 0x14; 0x00; 0x00; 0x00; 0x84; 0xd0; 0x98; 0x00; 0x00; 0x00;
   0x09; 0x61; 0x2c; 0x00; 0x00; 0x00].

Definition kMaskRandom22_14 : list Z :=
  [0x46; 0x48; 0xc8; 0x00; 0x00; 0x00; 0x33; 0x26; 0x64; 0x00; 0x00; 0x00;
   0x91; 0x92; 0x30; 0x00; 0x00; 0x00; 0xa4; 0x34; 0x84; 0x00; 0x00; 0x00;
   0x50; 0xaa; 0x14; 0x00; 0x00; 0x00; 0x84; 0xd0; 0x98; 0x00; 0x00; 0x00;
   0x09; 0x61; 0x2c; 0x00; 0x00; 0x00; 0x64; 0x4c; 0x88; 0x00; 0x00; 0x00;
   0x51; 0x4a; 0x28; 0x00; 0x00; 0x00; 0x0c; 0xa1; 0x94; 0x00; 0x00; 0x00;
   0xa1; 0x34; 0x24; 0x00; 0x00; 0x00; 0x12; 0xa2; 0x54; 0x00; 0x00; 0x00;
   0x8a; 0x51; 0x48; 0x00; 0x00; 0x00; 0xc6; 0xca; 0xe8; 0x00; 0x00; 0x00].

Definition kMaskRandom22_15 : list Z :=
  [0x46; 0x48; 0xc8; 0x00; 0x00; 0x00; 0x33; 0x26; 0x64; 0x00; 0x00; 0x00;
   0x91; 0x92; 0x30; 0x00; 0x00; 0x00; 0xa4; 0x34; 0x84; 0x00; 0x00; 0x00;
   0x50; 0xaa; 0x14; 0x00; 0x00; 0x00; 0x84; 0xd0; 0x98; 0x00; 0x00; 0x00;
   0x09; 0x61; 0x2c; 0x00; 0x00; 0x00; 0x0c; 0x81; 0x90; 0x00; 0x00; 0x00;
   0x80; 0x70; 0x0c; 0x00; 0x00; 0x00; 0xa0; 0x94; 0x10; 0x00; 0x00; 0x00;
   0x05; 0x40; 0xa8; 0x00; 0x00; 0x00; 0x43; 0x08; 0x60; 0x00; 0x00; 0x00;
   0x1a; 0x03; 0x40; 0x00; 0x00; 0x00; 0x60; 0x2c; 0x04; 0x00; 0x00; 0x00;
   0x14; 0x22; 0x84; 0x00; 0x00; 0x00].

Definition kMaskRandom22_16 : list Z :=
  [0x0c; 0x81; 0x90; 0x00; 0x00; 0x00; 0x80; 0x70; 0x0c; 0x00; 0x00; 0x00;
   0xa0; 0x94; 0x10; 0x00; 0x00; 0x00; 0x05; 0x40; 0xa8; 0x00; 0x00; 0x00;
   0x43; 0x08; 0x60; 0x00; 0x00; 0x00; 0x1a; 0x03; 0x40; 0x00; 0x00; 0x00;
   0x60; 0x2c; 0x04; 0x00; 0x00; 0x00; 0x14; 0x22; 0x84; 0x00; 0x00; 0x00;
   0x46; 0x48; 0xc8; 0x00; 0x00; 0x00; 0x33; 0x26; 0x64; 0x00; 0x00; 0x00;
   0x91; 0x92; 0x30; 0x00; 0x00; 0x00; 0xa4; 0x34; 0x84; 0x00; 0x00; 0x00;
   0x50; 0xaa; 0x14; 0x00; 0x00; 0x00; 0x84; 0xd0; 0x98; 0x00; 0x00; 0x00;
   0x09; 0x61; 0x2c; 0x00; 0x00; 0x00; 0x86; 0xc1; 0x44; 0x00; 0x00; 0x00].

Definition kMaskRandom22_17 : list Z :=
  [0x0c; 0x81; 0x90; 0x00; 0x00; 0x00; 0x80; 0x70; 0x0c; 0x00; 0x00; 0x00;
   0xa0; 0x94; 0x10; 0x00; 0x00; 0x00; 0x05; 0x40; 0xa8; 0x00; 0x00; 0x00;
   0x43; 0x08; 0x60; 0x00; 0x00; 0x00; 0x1a; 0x03; 0x40; 0x00; 0x00; 0x00;
   0x60; 0x2c; 0x04; 0x00; 0x00; 0x00; 0x14; 0x22; 0x84; 0x00; 0x00; 0x00;
   0x46; 0x48; 0xc8; 0x00; 0x00; 0x00; 0x62; 0x6c; 0x4c; 0x00; 0x00; 0x00;
   0x8c; 0x11; 0x80; 0x00; 0x00; 0x00; 0x01; 0x60; 0x2c; 0x00; 0x00; 0x00;
   0x07; 0x80; 0xf0; 0x00; 0x00; 0x00; 0xa0; 0x94; 0x10; 0x00; 0x00; 0x00;
   0x18; 0xa3; 0x14; 0x00; 0x00; 0x00; 0x91; 0x12; 0x20; 0x00; 0x00; 0x00;
   0x78; 0x0f; 0x00; 0x00; 0x00; 0x00].

Definition kMaskRandom22_18 : list Z :=
  [0x46; 0x48; 0xc8; 0x00; 0x00; 0x00; 0x62; 0x6c; 0x4c; 0x00; 0x00; 0x00;
   0x8c; 0x11; 0x80; 0x00; 0x00; 0x00; 0x01; 0x60; 0x2c; 0x00; 0x00; 0x00;
   0x07; 0x80; 0xf0; 0x00; 0x00; 0x00; 0xa0; 0x94; 0x10; 0x00; 0x00; 0x00;
   0x18; 0xa3; 0x14; 0x00; 0x00; 0x00; 0x91; 0x12; 0x20; 0x00; 0x00; 0x00;
   0x78; 0x0f; 0x00; 0x00; 0x00; 0x00; 0x0c; 0x81; 0x90; 0x00; 0x00; 0x00;
   0x80; 0x70; 0x0c; 0x00; 0x00; 0x00; 0xa0; 0x94; 0x10; 0x00; 0x00; 0x00;
   0x05; 0x40; 0xa8; 0x00; 0x00; 0x00; 0x43; 0x08; 0x60; 0x00; 0x00; 0x00;
   0x1a; 0x03; 0x40; 0x00; 0x00; 0x00; 0x60; 0x2c; 0x04; 0x00; 0x00; 0x00;
   0x14; 0x22; 0x84; 0x00; 0x00; 0x00; 0xe4; 0xd4; 0x6c; 0x00; 0x00; 0x00].

Definition kMaskRandom22_19 : list Z :=
  [0x46; 0x48; 0xc8; 0x00; 0x00; 0x00; 0x62; 0x6c; 0x4c; 0x00; 0x00; 0x00;
   0x8c; 0x11; 0x80; 0x00; 0x00; 0x00; 0x01; 0x60; 0x2c; 0x00; 0x00; 0x00;
   0x07; 0x80; 0xf0; 0x00; 0x00; 0x00; 0xa0; 0x94; 0x10; 0x00; 0x00; 0x00;
   0x18; 0xa3; 0x14; 0x00; 0x00; 0x00; 0x91; 0x12; 0x20; 0x00; 0x00; 0x00;
   0x78; 0x0f; 0x00; 0x00; 0x00; 0x00; 0x64; 0x4c; 0x88; 0x00; 0x00; 0x00;
   0x51; 0x4a; 0x28; 0x00; 0x00; 0x00; 0xa9; 0x15; 0x20; 0x00; 0x00; 0x00;
   0x04; 0xc0; 0x98; 0x00; 0x00; 0x00; 0xd0; 0x1a; 0x00; 0x00; 0x00; 0x00;
   0x82; 0x50; 0x48; 0x00; 0x00; 0x00; 0x21; 0x24; 0x24; 0x00; 0x00; 0x00;
   0x0c; 0x21; 0x84; 0x00; 0x00; 0x00; 0x4a; 0x09; 0x40; 0x00; 0x00; 0x00;
   0x12; 0xa2; 0x54; 0x00; 0x00; 0x00].

Definition kMaskRandom22_20 : list Z :=
  [0x64; 0x4c; 0x88; 0x00; 0x00; 0x00; 0x51; 0x4a; 0x28; 0x00; 0x00; 0x00;
   0xa9; 0x15; 0x20; 0x00; 0x00; 0x00; 0x04; 0xc0; 0x98; 0x00; 0x00; 0x00;
   0xd0; 0x1a; 0x00; 0x00; 0x00; 0x00; 0x82; 0x50; 0x48; 0x00; 0x00; 0x00;
   0x21; 0x24; 0x24; 0x00; 0x00; 0x00; 0x0c; 0x21; 0x84; 0x00; 0x00; 0x00;
   0x4a; 0x09; 0x40; 0x00; 0x00; 0x00; 0x12; 0xa2; 0x54; 0x00; 0x00; 0x00;
   0x46; 0x48; 0xc8; 0x00; 0x00; 0x00; 0x62; 0x6c; 0x4c; 0x00; 0x00; 0x00;
   0x8c; 0x11; 0x80; 0x00; 0x00; 0x00; 0x01; 0x60; 0x2c; 0x00; 0x00; 0x00;
   0x07; 0x80; 0xf0; 0x00; 0x00; 0x00; 0xa0; 0x94; 0x10; 0x00; 0x00; 0x00;
   0x18; 0xa3; 0x14; 0x00; 0x00; 0x00; 0x91; 0x12; 0x20; 0x00; 0x00; 0x00;
   0x78; 0x0f; 0x00; 0x00; 0x00; 0x00; 0x3b; 0x48; 0xc4; 0x00; 0x00; 0x00].

Definition kMaskRandom22_21 : list Z :=
  [0x64; 0x4c; 0x88; 0x00; 0x00; 0x00; 0x51; 0x4a; 0x28; 0x00; 0x00; 0x00;
   0xa9; 0x15; 0x20; 0x00; 0x00; 0x00; 0x04; 0xc0; 0x98; 0x00; 0x00; 0x00;
   0xd0; 0x1a; 0x00; 0x00; 0x00; 0x00; 0x82; 0x50; 0x48; 0x00; 0x00; 0x00;
   0x21; 0x24; 0x24; 0x00; 0x00; 0x00; 0x0c; 0x21; 0x84; 0x00; 0x00; 0x00;
   0x4a; 0x09; 0x40; 0x00; 0x00; 0x00; 0x12; 0xa2; 0x54; 0x00; 0x00; 0x00;
   0x46; 0x48; 0xc8; 0x00; 0x00; 0x00; 0x33; 0x26; 0x64; 0x00; 0x00; 0x00;
   0x99; 0x13; 0x20; 0x00; 0x00; 0x00; 0x05; 0x80; 0xb0; 0x00; 0x00; 0x00;
   0x80; 0xb0; 0x14; 0x00; 0x00; 0x00; 0x84; 0x50; 0x88; 0x00; 0x00; 0x00;
   0x40; 0x68; 0x0c; 0x00; 0x00; 0x00; 0x0a; 0x81; 0x50; 0x00; 0x00; 0x00;
   0x68; 0x0d; 0x00; 0x00; 0x00; 0x00; 0x10; 0x22; 0x04; 0x00; 0x00; 0x00;
   0x30; 0x46; 0x08; 0x00; 0x00; 0x00].

Definition kMaskRandom22_22 : list Z :=
  [0x46; 0x48; 0xc8; 0x00; 0x00; 0x00; 0x33; 0x26; 0x64; 0x00; 0x00; 0x00;
   0x99; 0x13; 0x20; 0x00; 0x00; 0x00; 0x05; 0x80; 0xb0; 0x00; 0x00; 0x00;
   0x80; 0xb0; 0x14; 0x00; 0x00; 0x00; 0x84; 0x50; 0x88; 0x00; 0x00; 0x00;
   0x40; 0x68; 0x0c; 0x00; 0x00; 0x00; 0x0a; 0x81; 0x50; 0x00; 0x00; 0x00;
   0x68; 0x0d; 0x00; 0x00; 0x00; 0x00; 0x10; 0x22; 0x04; 0x00; 0x00; 0x00;
   0x30; 0x46; 0x08; 0x00; 0x00; 0x00; 0x64; 0x4c; 0x88; 0x00; 0x00; 0x00;
   0x51; 0x4a; 0x28; 0x00; 0x00; 0x00; 0xa9; 0x15; 0x20; 0x00; 0x00; 0x00;
   0x04; 0xc0; 0x98; 0x00; 0x00; 0x00; 0xd0; 0x1a; 0x00; 0x00; 0x00; 0x00;
   0x82; 0x50; 0x48; 0x00; 0x00; 0x00; 0x21; 0x24; 0x24; 0x00; 0x00; 0x00;
   0x0c; 0x21; 0x84; 0x00; 0x00; 0x00; 0x4a; 0x09; 0x40; 0x00; 0x00; 0x00;
   0x12; 0xa2; 0x54; 0x00; 0x00; 0x00; 0x9e; 0xce; 0x88; 0x00; 0x00; 0x00].

Definition kMaskRandom23_1 : list Z :=
  [0xff; 0xff; 0xfe; 0x00; 0x00; 0x00].

Definition kMaskRandom23_2 : list Z :=
  [0xec; 0xdd; 0x98; 0x00; 0x00; 0x00; 0x9b; 0xb2; 0x76; 0x00; 0x00; 0x00].

Definition kMaskRandom23_3 : list Z :=
  [0xca; 0xd3; 0x64; 0x00; 0x00; 0x00; 0xf1; 0x49; 0x3a; 0x00; 0x00; 0x00;
   0x76; 0x27; 0xd0; 0x00; 0x00; 0x00].

Definition kMaskRandom23_4 : list Z :=
  [0xc4; 0xd1; 0x64; 0x00; 0x00; 0x00; 0x31; 0x62; 0x96; 0x00; 0x00; 0x00;
   0x4b; 0x24; 0x5a; 0x00; 0x00; 0x00; 0x2c; 0xa8; 0xaa; 0x00; 0x00; 0x00].

Definition kMaskRandom23_5 : list Z :=
  [0xc6; 0xca; 0x6c; 0x00; 0x00; 0x00; 0x63; 0x6c; 0x96; 0x00; 0x00; 0x00;
   0x1d; 0xa1; 0xdc; 0x00; 0x00; 0x00; 0xad; 0x55; 0x38; 0x00; 0x00; 0x00;
   0xb2; 0xb7; 0x06; 0x00; 0x00; 0x00].

Definition kMaskRandom23_6 : list Z :=
  [0x64; 0x4a; 0x28; 0x00; 0x00; 0x00; 0x51; 0x58; 0xa2; 0x00; 0x00; 0x00;
   0x0c; 0xa4; 0x30; 0x00; 0x00; 0x00; 0xa1; 0x22; 0x46; 0x00; 0x00; 0x00;
   0x12; 0xa1; 0x1c; 0x00; 0x00; 0x00; 0x8a; 0x45; 0xc0; 0x00; 0x00; 0x00].

Definition kMaskRandom23_7 : list Z :=
  [0x46; 0x4a; 0x6c; 0x00; 0x00; 0x00; 0x33; 0x24; 0x26; 0x00; 0x00; 0x00;
   0x91; 0x92; 0x12; 0x00; 0x00; 0x00; 0xa4; 0x20; 0x4a; 0x00; 0x00; 0x00;
   0x50; 0xa0; 0xd4; 0x00; 0x00; 0x00; 0x84; 0xc5; 0x80; 0x00; 0x00; 0x00;
   0x09; 0x71; 0x0c; 0x00; 0x00; 0x00].

Definition kMaskRandom23_8 : list Z :=
  [0x0c; 0x84; 0x0c; 0x00; 0x00; 0x00; 0x80; 0x70; 0x06; 0x00; 0x00; 0x00;
   0xa0; 0x88; 0x48; 0x00; 0x00; 0x00; 0x05; 0x40; 0x32; 0x00; 0x00; 0x00;
   0x43; 0x02; 0x82; 0x00; 0x00; 0x00; 0x1a; 0x01; 0x50; 0x00; 0x00; 0x00;
   0x60; 0x27; 0x00; 0x00; 0x00; 0x00; 0x14; 0x38; 0xa0; 0x00; 0x00; 0x00].

Definition kMaskRandom23_9 : list Z :=
  [0x46; 0x4a; 0x6c; 0x00; 0x00; 0x00; 0x62; 0x7c; 0x84; 0x00; 0x00; 0x00;
   0x8c; 0x04; 0x88; 0x00; 0x00; 0x00; 0x01; 0x74; 0x22; 0x00; 0x00; 0x00;
   0x07; 0x83; 0x06; 0x00; 0x00; 0x00; 0xa0; 0x80; 0x72; 0x00; 0x00; 0x00;
   0x18; 0xb1; 0x42; 0x00; 0x00; 0x00; 0x91; 0x00; 0x92; 0x00; 0x00; 0x00;
   0x78; 0x00; 0x1c; 0x00; 0x00; 0x00].

Definition kMaskRandom23_10 : list Z :=
  [0x64; 0x4a; 0x28; 0x00; 0x00; 0x00; 0x51; 0x48; 0xa2; 0x00; 0x00; 0x00;
   0xa9; 0x10; 0x1a; 0x00; 0x00; 0x00; 0x04; 0xc4; 0x84; 0x00; 0x00; 0x00;
   0xd0; 0x01; 0x44; 0x00; 0x00; 0x00; 0x82; 0x40; 0x1c; 0x00; 0x00; 0x00;
   0x21; 0x37; 0x00; 0x00; 0x00; 0x00; 0x0c; 0x21; 0x22; 0x00; 0x00; 0x00;
   0x4a; 0x0a; 0xc0; 0x00; 0x00; 0x00; 0x12; 0xb4; 0x50; 0x00; 0x00; 0x00].

Definition kMaskRandom23_11 : list Z :=
  [0x46; 0x4a; 0x6c; 0x00; 0x00; 0x00; 0x33; 0x24; 0x26; 0x00; 0x00; 0x00;
   0x99; 0x02; 0x12; 0x00; 0x00; 0x00; 0x05; 0x80; 0x0e; 0x00; 0x00; 0x00;
   0x80; 0xa1; 0x82; 0x00; 0x00; 0x00; 0x84; 0x48; 0x18; 0x00; 0x00; 0x00;
   0x40; 0x6d; 0x40; 0x00; 0x00; 0x00; 0x0a; 0x90; 0xc0; 0x00; 0x00; 0x00;
   0x68; 0x04; 0x90; 0x00; 0x00; 0x00; 0x10; 0x31; 0x20; 0x00; 0x00; 0x00;
   0x30; 0x58; 0x04; 0x00; 0x00; 0x00].

Definition kMaskRandom23_12 : list Z :=
  [0x64; 0x4a; 0x28; 0x00; 0x00; 0x00; 0x51; 0x58; 0xa2; 0x00; 0x00; 0x00;
   0x0c; 0xa4; 0x30; 0x00; 0x00; 0x00; 0xa1; 0x22; 0x46; 0x00; 0x00; 0x00;
   0x12; 0xa1; 0x1c; 0x00; 0x00; 0x00; 0x8a; 0x45; 0xc0; 0x00; 0x00; 0x00;
   0x86; 0x8a; 0x6c; 0x00; 0x00; 0x00; 0x23; 0x2c; 0x84; 0x00; 0x00; 0x00;
   0x16; 0x21; 0x98; 0x00; 0x00; 0x00; 0x4c; 0x30; 0x54; 0x00; 0x00; 0x00;
   0x41; 0xc1; 0x26; 0x00; 0x00; 0x00; 0x19; 0x56; 0xe4; 0x00; 0x00; 0x00].

Definition kMaskRandom23_13 : list Z :=
  [0x64; 0x4a; 0x28; 0x00; 0x00; 0x00; 0x51; 0x58; 0xa2; 0x00; 0x00; 0x00;
   0x0c; 0xa4; 0x30; 0x00; 0x00; 0x00; 0xa1; 0x22; 0x46; 0x00; 0x00; 0x00;
   0x12; 0xa1; 0x1c; 0x00; 0x00; 0x00; 0x8a; 0x45; 0xc0; 0x00; 0x00; 0x00;
   0x46; 0x4a; 0x6c; 0x00; 0x00; 0x00; 0x33; 0x24; 0x26; 0x00; 0x00; 0x00;
   0x91; 0x92; 0x12; 0x00; 0x00; 0x00; 0xa4; 0x20; 0x4a; 0x00; 0x00; 0x00;
   0x50; 0xa0; 0xd4; 0x00; 0x00; 0x00; 0x84; 0xc5; 0x80; 0x00; 0x00; 0x00;
   0x09; 0x71; 0x0c; 0x00; 0x00; 0x00].

Definition kMaskRandom23_14 : list Z :=
  [0x46; 0x4a; 0x6c; 0x00; 0x00; 0x00; 0x33; 0x24; 0x26; 0x00; 0x00; 0x00;
   0x91; 0x92; 0x12; 0x00; 0x00; 0x00; 0xa4; 0x20; 0x4a; 0x00; 0x00; 0x00;
   0x50; 0xa0; 0xd4; 0x00; 0x00; 0x00; 0x84; 0xc5; 0x80; 0x00; 0x00; 0x00;
   0x09; 0x71; 0x0c; 0x00; 0x00; 0x00; 0x64; 0x4a; 0x28; 0x00; 0x00; 0x00;
   0x51; 0x58; 0xa2; 0x00; 0x00; 0x00; 0x0c; 0xa4; 0x30; 0x00; 0x00; 0x00;
   0xa1; 0x22; 0x46; 0x00; 0x00; 0x00; 0x12; 0xa1; 0x1c; 0x00; 0x00; 0x00;
   0x8a; 0x45; 0xc0; 0x00; 0x00; 0x00; 0x9c; 0x3f; 0xb2; 0x00; 0x00; 0x00].

Definition kMaskRandom23_15 : list Z :=
  [0x46; 0x4a; 0x6c; 0x00; 0x00; 0x00; 0x33; 0x24; 0x26; 0x00; 0x00; 0x00;
   0x91; 0x92; 0x12; 0x00; 0x00; 0x00; 0xa4; 0x20; 0x4a; 0x00; 0x00; 0x00;
   0x50; 0xa0; 0xd4; 0x00; 0x00; 0x00; 0x84; 0xc5; 0x80; 0x00; 0x00; 0x00;
   0x09; 0x71; 0x0c; 0x00; 0x00; 0x00; 0x0c; 0x84; 0x0c; 0x00; 0x00; 0x00;
   0x80; 0x70; 0x06; 0x00; 0x00; 0x00; 0xa0; 0x88; 0x48; 0x00; 0x00; 0x00;
   0x05; 0x40; 0x32; 0x00; 0x00; 0x00; 0x43; 0x02; 0x82; 0x00; 0x00; 0x00;
   0x1a; 0x01; 0x50; 0x00; 0x00; 0x00; 0x60; 0x27; 0x00; 0x00; 0x00; 0x00;
   0x14; 0x38; 0xa0; 0x00; 0x00; 0x00].

Definition kMaskRandom23_16 : list Z :=
  [0x0c; 0x84; 0x0c; 0x00; 0x00; 0x00; 0x80; 0x70; 0x06; 0x00; 0x00; 0x00;
   0xa0; 0x88; 0x48; 0x00; 0x00; 0x00; 0x05; 0x40; 0x32; 0x00; 0x00; 0x00;
   0x43; 0x02; 0x82; 0x00; 0x00; 0x00; 0x1a; 0x01; 0x50; 0x00; 0x00; 0x00;
   0x60; 0x27; 0x00; 0x00; 0x00; 0x00; 0x14; 0x38; 0xa0; 0x00; 0x00; 0x00;
   0x46; 0x4a; 0x6c; 0x00; 0x00; 0x00; 0x33; 0x24; 0x26; 0x00; 0x00; 0x00;
   0x91; 0x92; 0x12; 0x00; 0x00; 0x00; 0xa4; 0x20; 0x4a; 0x00; 0x00; 0x00;
   0x50; 0xa0; 0xd4; 0x00; 0x00; 0x00; 0x84; 0xc5; 0x80; 0x00; 0x00; 0x00;
   0x09; 0x71; 0x0c; 0x00; 0x00; 0x00; 0xfa; 0xd9; 0xf4; 0x00; 0x00; 0x00].

Definition kMaskRandom23_17 : list Z :=
  [0x0c; 0x84; 0x0c; 0x00; 0x00; 0x00; 0x80; 0x70; 0x06; 0x00; 0x00; 0x00;
   0xa0; 0x88; 0x48; 0x00; 0x00; 0x00; 0x05; 0x40; 0x32; 0x00; 0x00; 0x00;
   0x43; 0x02; 0x82; 0x00; 0x00; 0x00; 0x1a; 0x01; 0x50; 0x00; 0x00; 0x00;
   0x60; 0x27; 0x00; 0x00; 0x00; 0x00; 0x14; 0x38; 0xa0; 0x00; 0x00; 0x00;
   0x46; 0x4a; 0x6c; 0x00; 0x00; 0x00; 0x62; 0x7c; 0x84; 0x00; 0x00; 0x00;
   0x8c; 0x04; 0x88; 0x00; 0x00; 0x00; 0x01; 0x74; 0x22; 0x00; 0x00; 0x00;
   0x07; 0x83; 0x06; 0x00; 0x00; 0x00; 0xa0; 0x80; 0x72; 0x00; 0x00; 0x00;
   0x18; 0xb1; 0x42; 0x00; 0x00; 0x00; 0x91; 0x00; 0x92; 0x00; 0x00; 0x00;
   0x78; 0x00; 0x1c; 0x00; 0x00; 0x00].

Definition kMaskRandom23_18 : list Z :=
  [0x46; 0x4a; 0x6c; 0x00; 0x00; 0x00; 0x62; 0x7c; 0x84; 0x00; 0x00; 0x00;
   0x8c; 0x04; 0x88; 0x00; 0x00; 0x00; 0x01; 0x74; 0x22; 0x00; 0x00; 0x00;
   0x07; 0x83; 0x06; 0x00; 0x00; 0x00; 0xa0; 0x80; 0x72; 0x00; 0x00; 0x00;
   0x18; 0xb1; 0x42; 0x00; 0x00; 0x00; 0x91; 0x00; 0x92; 0x00; 0x00; 0x00;
   0x78; 0x00; 0x1c; 0x00; 0x00; 0x00; 0x0c; 0x84; 0x0c; 0x00; 0x00; 0x00;
   0x80; 0x70; 0x06; 0x00; 0x00; 0x00; 0xa0; 0x88; 0x48; 0x00; 0x00; 0x00;
   0x05; 0x40; 0x32; 0x00; 0x00; 0x00; 0x43; 0x02; 0x82; 0x00; 0x00; 0x00;
   0x1a; 0x01; 0x50; 0x00; 0x00; 0x00; 0x60; 0x27; 0x00; 0x00; 0x00; 0x00;
   0x14; 0x38; 0xa0; 0x00; 0x00; 0x00; 0x82; 0x32; 0x56; 0x00; 0x00; 0x00].

Definition kMaskRandom23_19 : list Z :=
  [0x46; 0x4a; 0x6c; 0x00; 0x00; 0x00; 0x62; 0x7c; 0x84; 0x00; 0x00; 0x00;
   0x8c; 0x04; 0x88; 0x00; 0x00; 0x00; 0x01; 0x74; 0x22; 0x00; 0x00; 0x00;
   0x07; 0x83; 0x06; 0x00; 0x00; 0x00; 0xa0; 0x80; 0x72; 0x00; 0x00; 0x00;
   0x18; 0xb1; 0x42; 0x00; 0x00; 0x00; 0x91; 0x00; 0x92; 0x00; 0x00; 0x00;
   0x78; 0x00; 0x1c; 0x00; 0x00; 0x00; 0x64; 0x4a; 0x28; 0x00; 0x00; 0x00;
   0x51; 0x48; 0xa2; 0x00; 0x00; 0x00; 0xa9; 0x10; 0x1a; 0x00; 0x00; 0x00;
   0x04; 0xc4; 0x84; 0x00; 0x00; 0x00; 0xd0; 0x01; 0x44; 0x00; 0x00; 0x00;
   0x82; 0x40; 0x1c; 0x00; 0x00; 0x00; 0x21; 0x37; 0x00; 0x00; 0x00; 0x00;
   0x0c; 0x21; 0x22; 0x00; 0x00; 0x00; 0x4a; 0x0a; 0xc0; 0x00; 0x00; 0x00;
   0x12; 0xb4; 0x50; 0x00; 0x00; 0x00].

Definition kMaskRandom23_20 : list Z :=
  [0x64; 0x4a; 0x28; 0x00; 0x00; 0x00; 0x51; 0x48; 0xa2; 0x00; 0x00; 0x00;
   0xa9; 0x10; 0x1a; 0x00; 0x00; 0x00; 0x04; 0xc4; 0x84; 0x00; 0x00; 0x00;
   0xd0; 0x01; 0x44; 0x00; 0x00; 0x00; 0x82; 0x40; 0x1c; 0x00; 0x00; 0x00;
   0x21; 0x37; 0x00; 0x00; 0x00; 0x00; 0x0c; 0x21; 0x22; 0x00; 0x00; 0x00;
   0x4a; 0x0a; 0xc0; 0x00; 0x00; 0x00; 0x12; 0xb4; 0x50; 0x00; 0x00; 0x00;
   0x46; 0x4a; 0x6c; 0x00; 0x00; 0x00; 0x62; 0x7c; 0x84; 0x00; 0x00; 0x00;
   0x8c; 0x04; 0x88; 0x00; 0x00; 0x00; 0x01; 0x74; 0x22; 0x00; 0x00; 0x00;
   0x07; 0x83; 0x06; 0x00; 0x00; 0x00; 0xa0; 0x80; 0x72; 0x00; 0x00; 0x00;
   0x18; 0xb1; 0x42; 0x00; 0x00; 0x00; 0x91; 0x00; 0x92; 0x00; 0x00; 0x00;
   0x78; 0x00; 0x1c; 0x00; 0x00; 0x00; 0xdb; 0x4a; 0x7a; 0x00; 0x00; 0x00].

Definition kMaskRandom23_21 : list Z :=
  [0x64; 0x4a; 0x28; 0x00; 0x00; 0x00; 0x51; 0x48; 0xa2; 0x00; 0x00; 0x00;
   0xa9; 0x10; 0x1a; 0x00; 0x00; 0x00; 0x04; 0xc4; 0x84; 0x00; 0x00; 0x00;
   0xd0; 0x01; 0x44; 0x00; 0x00; 0x00; 0x82; 0x40; 0x1c; 0x00; 0x00; 0x00;
   0x21; 0x37; 0x00; 0x00; 0x00; 0x00; 0x0c; 0x21; 0x22; 0x00; 0x00; 0x00;
   0x4a; 0x0a; 0xc0; 0x00; 0x00; 0x00; 0x12; 0xb4; 0x50; 0x00; 0x00; 0x00;
   0x46; 0x4a; 0x6c; 0x00; 0x00; 0x00; 0x33; 0x24; 0x26; 0x00; 0x00; 0x00;
   0x99; 0x02; 0x12; 0x00; 0x00; 0x00; 0x05; 0x80; 0x0e; 0x00; 0x00; 0x00;
   0x80; 0xa1; 0x82; 0x00; 0x00; 0x00; 0x84; 0x48; 0x18; 0x00; 0x00; 0x00;
   0x40; 0x6d; 0x40; 0x00; 0x00; 0x00; 0x0a; 0x90; 0xc0; 0x00; 0x00; 0x00;
   0x68; 0x04; 0x90; 0x00; 0x00; 0x00; 0x10; 0x31; 0x20; 0x00; 0x00; 0x00;
   0x30; 0x58; 0x04; 0x00; 0x00; 0x00].

Definition kMaskRandom23_22 : list Z :=
  [0x46; 0x4a; 0x6c; 0x00; 0x00; 0x00; 0x33; 0x24; 0x26; 0x00; 0x00; 0x00;
   0x99; 0x02; 0x12; 0x00; 0x00; 0x00; 0x05; 0x80; 0x0e; 0x00; 0x00; 0x00;
   0x80; 0xa1; 0x82; 0x00; 0x00; 0x00; 0x84; 0x48; 0x18; 0x00; 0x00; 0x00;
   0x40; 0x6d; 0x40; 0x00; 0x00; 0x00; 0x0a; 0x90; 0xc0; 0x00; 0x00; 0x00;
   0x68; 0x04; 0x90; 0x00; 0x00; 0x00; 0x10; 0x31; 0x20; 0x00; 0x00; 0x00;
   0x30; 0x58; 0x04; 0x00; 0x00; 0x00; 0x64; 0x4a; 0x28; 0x00; 0x00; 0x00;
   0x51; 0x48; 0xa2; 0x00; 0x00; 0x00; 0xa9; 0x10; 0x1a; 0x00; 0x00; 0x00;
   0x04; 0xc4; 0x84; 0x00; 0x00; 0x00; 0xd0; 0x01; 0x44; 0x00; 0x00; 0x00;
   0x82; 0x40; 0x1c; 0x00; 0x00; 0x00; 0x21; 0x37; 0x00; 0x00; 0x00; 0x00;
   0x0c; 0x21; 0x22; 0x00; 0x00; 0x00; 0x4a; 0x0a; 0xc0; 0x00; 0x00; 0x00;
   0x12; 0xb4; 0x50; 0x00; 0x00; 0x00; 0xea; 0x8d; 0x1a; 0x00; 0x00; 0x00].

Definition kMaskRandom23_23 : list Z :=
  [0x46; 0x4a; 0x6c; 0x00; 0x00; 0x00; 0x33; 0x24; 0x26; 0x00; 0x00; 0x00;
   0x99; 0x02; 0x12; 0x00; 0x00; 0x00; 0x05; 0x80; 0x0e; 0x00; 0x00; 0x00;
   0x80; 0xa1; 0x82; 0x00; 0x00; 0x00; 0x84; 0x48; 0x18; 0x00; 0x00; 0x00;
   0x40; 0x6d; 0x40; 0x00; 0x00; 0x00; 0x0a; 0x90; 0xc0; 0x00; 0x00; 0x00;
   0x68; 0x04; 0x90; 0x00; 0x00; 0x00; 0x10; 0x31; 0x20; 0x00; 0x00; 0x00;
   0x30; 0x58; 0x04; 0x00; 0x00; 0x00; 0x46; 0x42; 0x0c; 0x00; 0x00; 0x00;
   0x33; 0x20; 0x46; 0x00; 0x00; 0x00; 0x99; 0x08; 0x0a; 0x00; 0x00; 0x00;
   0x05; 0x84; 0x30; 0x00; 0x00; 0x00; 0x80; 0xb0; 0x22; 0x00; 0x00; 0x00;
   0x84; 0x42; 0x90; 0x00; 0x00; 0x00; 0x40; 0x73; 0x00; 0x00; 0x00; 0x00;
   0x0a; 0x81; 0x12; 0x00; 0x00; 0x00; 0x68; 0x0c; 0x40; 0x00; 0x00; 0x00;
   0x10; 0x24; 0x84; 0x00; 0x00; 0x00; 0x30; 0x51; 0x40; 0x00; 0x00; 0x00;
   0x5f; 0x50; 0x88; 0x00; 0x00; 0x00].

Definition kMaskRandom24_1 : list Z :=
  [0xff; 0xff; 0xff; 0x00; 0x00; 0x00].

Definition kMaskRandom24_2 : list Z :=
  [0xec; 0xce; 0xcc; 0x00; 0x00; 0x00; 0x93; 0xb9; 0x3b; 0x00; 0x00; 0x00].

Definition kMaskRandom24_3 : list Z :=
  [0x9b; 0x29; 0xb2; 0x00; 0x00; 0x00; 0x49; 0xd4; 0x9d; 0x00; 0x00; 0x00;
   0x3e; 0x83; 0xe8; 0x00; 0x00; 0x00].

Definition kMaskRandom24_4 : list Z :=
  [0x8b; 0x28; 0xb2; 0x00; 0x00; 0x00; 0x14; 0xb1; 0x4b; 0x00; 0x00; 0x00;
   0x22; 0xd2; 0x2d; 0x00; 0x00; 0x00; 0x45; 0x54; 0x55; 0x00; 0x00; 0x00].

Definition kMaskRandom24_5 : list Z :=
  [0x53; 0x65; 0x36; 0x00; 0x00; 0x00; 0x64; 0xb6; 0x4b; 0x00; 0x00; 0x00;
   0x0e; 0xe0; 0xee; 0x00; 0x00; 0x00; 0xa9; 0xca; 0x9c; 0x00; 0x00; 0x00;
   0xb8; 0x3b; 0x83; 0x00; 0x00; 0x00].

Definition kMaskRandom24_6 : list Z :=
  [0xd1; 0x4d; 0x14; 0x00; 0x00; 0x00; 0x45; 0x34; 0x53; 0x00; 0x00; 0x00;
   0x22; 0xd2; 0x2d; 0x00; 0x00; 0x00; 0x16; 0xc1; 0x6c; 0x00; 0x00; 0x00;
   0x0b; 0xa0; 0xba; 0x00; 0x00; 0x00; 0xe8; 0x8e; 0x88; 0x00; 0x00; 0x00].

Definition kMaskRandom24_7 : list Z :=
  [0xd3; 0x65; 0x36; 0x00; 0x00; 0x00; 0x25; 0x32; 0x53; 0x00; 0x00; 0x00;
   0x30; 0xd3; 0x05; 0x00; 0x00; 0x00; 0x06; 0x48; 0x6c; 0x00; 0x00; 0x00;
   0xc0; 0xb8; 0x1b; 0x00; 0x00; 0x00; 0x2a; 0xa2; 0xaa; 0x00; 0x00; 0x00;
   0xa8; 0x4e; 0x84; 0x00; 0x00; 0x00].

Definition kMaskRandom24_8 : list Z :=
  [0x81; 0x60; 0x16; 0x00; 0x00; 0x00; 0x40; 0x3c; 0x03; 0x00; 0x00; 0x00;
   0x10; 0x91; 0x09; 0x00; 0x00; 0x00; 0x06; 0x50; 0x65; 0x00; 0x00; 0x00;
   0x20; 0x4a; 0x84; 0x00; 0x00; 0x00; 0x8a; 0xa0; 0xaa; 0x00; 0x00; 0x00;
   0x33; 0x03; 0x30; 0x00; 0x00; 0x00; 0x4c; 0x84; 0xc8; 0x00; 0x00; 0x00].

Definition kMaskRandom24_9 : list Z :=
  [0xd3; 0x65; 0x36; 0x00; 0x00; 0x00; 0x64; 0x26; 0x42; 0x00; 0x00; 0x00;
   0x18; 0x41; 0xc4; 0x00; 0x00; 0x00; 0xa0; 0x4a; 0x04; 0x00; 0x00; 0x00;
   0x81; 0x38; 0x13; 0x00; 0x00; 0x00; 0x22; 0xa2; 0x2a; 0x00; 0x00; 0x00;
   0x08; 0x70; 0x87; 0x00; 0x00; 0x00; 0x04; 0x90; 0x49; 0x00; 0x00; 0x00;
   0x01; 0xc0; 0x1c; 0x00; 0x00; 0x00].

Definition kMaskRandom24_10 : list Z :=
  [0x11; 0x45; 0x14; 0x00; 0x00; 0x00; 0x45; 0x34; 0x53; 0x00; 0x00; 0x00;
   0x00; 0x48; 0x05; 0x00; 0x00; 0x00; 0x10; 0x83; 0x09; 0x00; 0x00; 0x00;
   0x4a; 0x14; 0xa1; 0x00; 0x00; 0x00; 0x40; 0xa4; 0x0a; 0x00; 0x00; 0x00;
   0xa0; 0x6a; 0x02; 0x00; 0x00; 0x00; 0x88; 0x80; 0x8c; 0x00; 0x00; 0x00;
   0x86; 0x08; 0x60; 0x00; 0x00; 0x00; 0x54; 0x0d; 0x40; 0x00; 0x00; 0x00].

Definition kMaskRandom24_11 : list Z :=
  [0x53; 0x65; 0x34; 0x00; 0x00; 0x00; 0xa0; 0x32; 0x11; 0x00; 0x00; 0x00;
   0x15; 0x11; 0x41; 0x00; 0x00; 0x00; 0x03; 0x50; 0x15; 0x00; 0x00; 0x00;
   0x8c; 0x88; 0xc8; 0x00; 0x00; 0x00; 0x28; 0x82; 0x88; 0x00; 0x00; 0x00;
   0x08; 0x48; 0x84; 0x00; 0x00; 0x00; 0x99; 0x01; 0x90; 0x00; 0x00; 0x00;
   0x22; 0x92; 0x29; 0x00; 0x00; 0x00; 0x46; 0x04; 0x60; 0x00; 0x00; 0x00;
   0x8c; 0x2c; 0x02; 0x00; 0x00; 0x00].

Definition kMaskRandom24_12 : list Z :=
  [0x10; 0x61; 0x06; 0x00; 0x00; 0x00; 0x02; 0x30; 0x23; 0x00; 0x00; 0x00;
   0x40; 0x54; 0x05; 0x00; 0x00; 0x00; 0x21; 0x82; 0x18; 0x00; 0x00; 0x00;
   0x81; 0x18; 0x11; 0x00; 0x00; 0x00; 0x14; 0x81; 0x48; 0x00; 0x00; 0x00;
   0x98; 0x09; 0x80; 0x00; 0x00; 0x00; 0x08; 0x90; 0x89; 0x00; 0x00; 0x00;
   0x62; 0x06; 0x20; 0x00; 0x00; 0x00; 0x24; 0x22; 0x42; 0x00; 0x00; 0x00;
   0x8a; 0x08; 0xa0; 0x00; 0x00; 0x00; 0x84; 0x48; 0x44; 0x00; 0x00; 0x00].

Definition kMaskRandom24_13 : list Z :=
  [0x51; 0x45; 0x14; 0x00; 0x00; 0x00; 0xc5; 0x1c; 0x51; 0x00; 0x00; 0x00;
   0x21; 0x82; 0x18; 0x00; 0x00; 0x00; 0x12; 0x31; 0x23; 0x00; 0x00; 0x00;
   0x08; 0xe0; 0x8e; 0x00; 0x00; 0x00; 0x2e; 0x02; 0xe0; 0x00; 0x00; 0x00;
   0x53; 0x65; 0x36; 0x00; 0x00; 0x00; 0x21; 0x32; 0x13; 0x00; 0x00; 0x00;
   0x90; 0x99; 0x09; 0x00; 0x00; 0x00; 0x02; 0x50; 0x25; 0x00; 0x00; 0x00;
   0x06; 0xa0; 0x6a; 0x00; 0x00; 0x00; 0x2c; 0x02; 0xc0; 0x00; 0x00; 0x00;
   0x88; 0x68; 0x86; 0x00; 0x00; 0x00].

Definition kMaskRandom24_14 : list Z :=
  [0x53; 0x65; 0x36; 0x00; 0x00; 0x00; 0x21; 0x32; 0x13; 0x00; 0x00; 0x00;
   0x90; 0x99; 0x09; 0x00; 0x00; 0x00; 0x02; 0x50; 0x25; 0x00; 0x00; 0x00;
   0x06; 0xa0; 0x6a; 0x00; 0x00; 0x00; 0x2c; 0x02; 0xc0; 0x00; 0x00; 0x00;
   0x88; 0x68; 0x86; 0x00; 0x00; 0x00; 0x51; 0x45; 0x14; 0x00; 0x00; 0x00;
   0xc5; 0x1c; 0x51; 0x00; 0x00; 0x00; 0x21; 0x82; 0x18; 0x00; 0x00; 0x00;
   0x12; 0x31; 0x23; 0x00; 0x00; 0x00; 0x08; 0xe0; 0x8e; 0x00; 0x00; 0x00;
   0x2e; 0x02; 0xe0; 0x00; 0x00; 0x00; 0xf2; 0xd6; 0x8e; 0x00; 0x00; 0x00].

Definition kMaskRandom24_15 : list Z :=
  [0x53; 0x65; 0x36; 0x00; 0x00; 0x00; 0x21; 0x32; 0x13; 0x00; 0x00; 0x00;
   0x90; 0x99; 0x09; 0x00; 0x00; 0x00; 0x02; 0x50; 0x25; 0x00; 0x00; 0x00;
   0x06; 0xa0; 0x6a; 0x00; 0x00; 0x00; 0x2c; 0x02; 0xc0; 0x00; 0x00; 0x00;
   0x88; 0x68; 0x86; 0x00; 0x00; 0x00; 0x20; 0x62; 0x06; 0x00; 0x00; 0x00;
   0x80; 0x38; 0x03; 0x00; 0x00; 0x00; 0x42; 0x44; 0x24; 0x00; 0x00; 0x00;
   0x01; 0x90; 0x19; 0x00; 0x00; 0x00; 0x14; 0x11; 0x41; 0x00; 0x00; 0x00;
   0x0a; 0x80; 0xa8; 0x00; 0x00; 0x00; 0x38; 0x03; 0x80; 0x00; 0x00; 0x00;
   0xc5; 0x0c; 0x50; 0x00; 0x00; 0x00].

Definition kMaskRandom24_16 : list Z :=
  [0x20; 0x62; 0x06; 0x00; 0x00; 0x00; 0x80; 0x38; 0x03; 0x00; 0x00; 0x00;
   0x42; 0x44; 0x24; 0x00; 0x00; 0x00; 0x01; 0x90; 0x19; 0x00; 0x00; 0x00;
   0x14; 0x11; 0x41; 0x00; 0x00; 0x00; 0x0a; 0x80; 0xa8; 0x00; 0x00; 0x00;
   0x38; 0x03; 0x80; 0x00; 0x00; 0x00; 0xc5; 0x0c; 0x50; 0x00; 0x00; 0x00;
   0x53; 0x65; 0x36; 0x00; 0x00; 0x00; 0x21; 0x32; 0x13; 0x00; 0x00; 0x00;
   0x90; 0x99; 0x09; 0x00; 0x00; 0x00; 0x02; 0x50; 0x25; 0x00; 0x00; 0x00;
   0x06; 0xa0; 0x6a; 0x00; 0x00; 0x00; 0x2c; 0x02; 0xc0; 0x00; 0x00; 0x00;
   0x88; 0x68; 0x86; 0x00; 0x00; 0x00; 0xff; 0x6e; 0x0a; 0x00; 0x00; 0x00].

Definition kMaskRandom24_17 : list Z :=
  [0x20; 0x62; 0x06; 0x00; 0x00; 0x00; 0x80; 0x38; 0x03; 0x00; 0x00; 0x00;
   0x42; 0x44; 0x24; 0x00; 0x00; 0x00; 0x01; 0x90; 0x19; 0x00; 0x00; 0x00;
   0x14; 0x11; 0x41; 0x00; 0x00; 0x00; 0x0a; 0x80; 0xa8; 0x00; 0x00; 0x00;
   0x38; 0x03; 0x80; 0x00; 0x00; 0x00; 0xc5; 0x0c; 0x50; 0x00; 0x00; 0x00;
   0x53; 0x65; 0x36; 0x00; 0x00; 0x00; 0xe4; 0x2e; 0x42; 0x00; 0x00; 0x00;
   0x24; 0x42; 0x44; 0x00; 0x00; 0x00; 0xa1; 0x1a; 0x11; 0x00; 0x00; 0x00;
   0x18; 0x31; 0x83; 0x00; 0x00; 0x00; 0x03; 0x90; 0x39; 0x00; 0x00; 0x00;
   0x8a; 0x18; 0xa1; 0x00; 0x00; 0x00; 0x04; 0x90; 0x49; 0x00; 0x00; 0x00;
   0x00; 0xe0; 0x0e; 0x00; 0x00; 0x00].

Definition kMaskRandom24_18 : list Z :=
  [0x53; 0x65; 0x36; 0x00; 0x00; 0x00; 0xe4; 0x2e; 0x42; 0x00; 0x00; 0x00;
   0x24; 0x42; 0x44; 0x00; 0x00; 0x00; 0xa1; 0x1a; 0x11; 0x00; 0x00; 0x00;
   0x18; 0x31; 0x83; 0x00; 0x00; 0x00; 0x03; 0x90; 0x39; 0x00; 0x00; 0x00;
   0x8a; 0x18; 0xa1; 0x00; 0x00; 0x00; 0x04; 0x90; 0x49; 0x00; 0x00; 0x00;
   0x00; 0xe0; 0x0e; 0x00; 0x00; 0x00; 0x20; 0x62; 0x06; 0x00; 0x00; 0x00;
   0x80; 0x38; 0x03; 0x00; 0x00; 0x00; 0x42; 0x44; 0x24; 0x00; 0x00; 0x00;
   0x01; 0x90; 0x19; 0x00; 0x00; 0x00; 0x14; 0x11; 0x41; 0x00; 0x00; 0x00;
   0x0a; 0x80; 0xa8; 0x00; 0x00; 0x00; 0x38; 0x03; 0x80; 0x00; 0x00; 0x00;
   0xc5; 0x0c; 0x50; 0x00; 0x00; 0x00; 0x34; 0x50; 0xae; 0x00; 0x00; 0x00].

Definition kMaskRandom24_19 : list Z :=
  [0x53; 0x65; 0x36; 0x00; 0x00; 0x00; 0xe4; 0x2e; 0x42; 0x00; 0x00; 0x00;
   0x24; 0x42; 0x44; 0x00; 0x00; 0x00; 0xa1; 0x1a; 0x11; 0x00; 0x00; 0x00;
   0x18; 0x31; 0x83; 0x00; 0x00; 0x00; 0x03; 0x90; 0x39; 0x00; 0x00; 0x00;
   0x8a; 0x18; 0xa1; 0x00; 0x00; 0x00; 0x04; 0x90; 0x49; 0x00; 0x00; 0x00;
   0x00; 0xe0; 0x0e; 0x00; 0x00; 0x00; 0x51; 0x45; 0x14; 0x00; 0x00; 0x00;
   0x45; 0x14; 0x51; 0x00; 0x00; 0x00; 0x80; 0xd8; 0x0d; 0x00; 0x00; 0x00;
   0x24; 0x22; 0x42; 0x00; 0x00; 0x00; 0x0a; 0x20; 0xa2; 0x00; 0x00; 0x00;
   0x00; 0xe0; 0x0e; 0x00; 0x00; 0x00; 0xb8; 0x0b; 0x80; 0x00; 0x00; 0x00;
   0x09; 0x10; 0x91; 0x00; 0x00; 0x00; 0x56; 0x05; 0x60; 0x00; 0x00; 0x00;
   0xa2; 0x8a; 0x28; 0x00; 0x00; 0x00].

Definition kMaskRandom24_20 : list Z :=
  [0x51; 0x45; 0x14; 0x00; 0x00; 0x00; 0x45; 0x14; 0x51; 0x00; 0x00; 0x00;
   0x80; 0xd8; 0x0d; 0x00; 0x00; 0x00; 0x24; 0x22; 0x42; 0x00; 0x00; 0x00;
   0x0a; 0x20; 0xa2; 0x00; 0x00; 0x00; 0x00; 0xe0; 0x0e; 0x00; 0x00; 0x00;
   0xb8; 0x0b; 0x80; 0x00; 0x00; 0x00; 0x09; 0x10; 0x91; 0x00; 0x00; 0x00;
   0x56; 0x05; 0x60; 0x00; 0x00; 0x00; 0xa2; 0x8a; 0x28; 0x00; 0x00; 0x00;
   0x53; 0x65; 0x36; 0x00; 0x00; 0x00; 0xe4; 0x2e; 0x42; 0x00; 0x00; 0x00;
   0x24; 0x42; 0x44; 0x00; 0x00; 0x00; 0xa1; 0x1a; 0x11; 0x00; 0x00; 0x00;
   0x18; 0x31; 0x83; 0x00; 0x00; 0x00; 0x03; 0x90; 0x39; 0x00; 0x00; 0x00;
   0x8a; 0x18; 0xa1; 0x00; 0x00; 0x00; 0x04; 0x90; 0x49; 0x00; 0x00; 0x00;
   0x00; 0xe0; 0x0e; 0x00; 0x00; 0x00; 0x98; 0xa2; 0x95; 0x00; 0x00; 0x00].

Definition kMaskRandom24_21 : list Z :=
  [0x51; 0x45; 0x14; 0x00; 0x00; 0x00; 0x45; 0x14; 0x51; 0x00; 0x00; 0x00;
   0x80; 0xd8; 0x0d; 0x00; 0x00; 0x00; 0x24; 0x22; 0x42; 0x00; 0x00; 0x00;
   0x0a; 0x20; 0xa2; 0x00; 0x00; 0x00; 0x00; 0xe0; 0x0e; 0x00; 0x00; 0x00;
   0xb8; 0x0b; 0x80; 0x00; 0x00; 0x00; 0x09; 0x10; 0x91; 0x00; 0x00; 0x00;
   0x56; 0x05; 0x60; 0x00; 0x00; 0x00; 0xa2; 0x8a; 0x28; 0x00; 0x00; 0x00;
   0x53; 0x65; 0x36; 0x00; 0x00; 0x00; 0x21; 0x32; 0x13; 0x00; 0x00; 0x00;
   0x10; 0x91; 0x09; 0x00; 0x00; 0x00; 0x00; 0x70; 0x07; 0x00; 0x00; 0x00;
   0x0c; 0x10; 0xc1; 0x00; 0x00; 0x00; 0x40; 0xc4; 0x0c; 0x00; 0x00; 0x00;
   0x6a; 0x06; 0xa0; 0x00; 0x00; 0x00; 0x86; 0x08; 0x60; 0x00; 0x00; 0x00;
   0x24; 0x82; 0x48; 0x00; 0x00; 0x00; 0x89; 0x08; 0x90; 0x00; 0x00; 0x00;
   0xc0; 0x2c; 0x02; 0x00; 0x00; 0x00].

Definition kMaskRandom24_22 : list Z :=
  [0x53; 0x65; 0x36; 0x00; 0x00; 0x00; 0x21; 0x32; 0x13; 0x00; 0x00; 0x00;
   0x10; 0x91; 0x09; 0x00; 0x00; 0x00; 0x00; 0x70; 0x07; 0x00; 0x00; 0x00;
   0x0c; 0x10; 0xc1; 0x00; 0x00; 0x00; 0x40; 0xc4; 0x0c; 0x00; 0x00; 0x00;
   0x6a; 0x06; 0xa0; 0x00; 0x00; 0x00; 0x86; 0x08; 0x60; 0x00; 0x00; 0x00;
   0x24; 0x82; 0x48; 0x00; 0x00; 0x00; 0x89; 0x08; 0x90; 0x00; 0x00; 0x00;
   0xc0; 0x2c; 0x02; 0x00; 0x00; 0x00; 0x51; 0x45; 0x14; 0x00; 0x00; 0x00;
   0x45; 0x14; 0x51; 0x00; 0x00; 0x00; 0x80; 0xd8; 0x0d; 0x00; 0x00; 0x00;
   0x24; 0x22; 0x42; 0x00; 0x00; 0x00; 0x0a; 0x20; 0xa2; 0x00; 0x00; 0x00;
   0x00; 0xe0; 0x0e; 0x00; 0x00; 0x00; 0xb8; 0x0b; 0x80; 0x00; 0x00; 0x00;
   0x09; 0x10; 0x91; 0x00; 0x00; 0x00; 0x56; 0x05; 0x60; 0x00; 0x00; 0x00;
   0xa2; 0x8a; 0x28; 0x00; 0x00; 0x00; 0x1a; 0xaa; 0xee; 0x00; 0x00; 0x00].

Definition kMaskRandom24_23 : list Z :=
  [0x53; 0x65; 0x36; 0x00; 0x00; 0x00; 0x21; 0x32; 0x13; 0x00; 0x00; 0x00;
   0x10; 0x91; 0x09; 0x00; 0x00; 0x00; 0x00; 0x70; 0x07; 0x00; 0x00; 0x00;
   0x0c; 0x10; 0xc1; 0x00; 0x00; 0x00; 0x40; 0xc4; 0x0c; 0x00; 0x00; 0x00;
   0x6a; 0x06; 0xa0; 0x00; 0x00; 0x00; 0x86; 0x08; 0x60; 0x00; 0x00; 0x00;
   0x24; 0x82; 0x48; 0x00; 0x00; 0x00; 0x89; 0x08; 0x90; 0x00; 0x00; 0x00;
   0xc0; 0x2c; 0x02; 0x00; 0x00; 0x00; 0x10; 0x61; 0x06; 0x00; 0x00; 0x00;
   0x02; 0x30; 0x23; 0x00; 0x00; 0x00; 0x40; 0x54; 0x05; 0x00; 0x00; 0x00;
   0x21; 0x82; 0x18; 0x00; 0x00; 0x00; 0x81; 0x18; 0x11; 0x00; 0x00; 0x00;
   0x14; 0x81; 0x48; 0x00; 0x00; 0x00; 0x98; 0x09; 0x80; 0x00; 0x00; 0x00;
   0x08; 0x90; 0x89; 0x00; 0x00; 0x00; 0x62; 0x06; 0x20; 0x00; 0x00; 0x00;
   0x24; 0x22; 0x42; 0x00; 0x00; 0x00; 0x8a; 0x08; 0xa0; 0x00; 0x00; 0x00;
   0x84; 0x48; 0x44; 0x00; 0x00; 0x00].

Definition kMaskRandom24_24 : list Z :=
  [0x10; 0x61; 0x06; 0x00; 0x00; 0x00; 0x02; 0x30; 0x23; 0x00; 0x00; 0x00;
   0x40; 0x54; 0x05; 0x00; 0x00; 0x00; 0x21; 0x82; 0x18; 0x00; 0x00; 0x00;
   0x81; 0x18; 0x11; 0x00; 0x00; 0x00; 0x14; 0x81; 0x48; 0x00; 0x00; 0x00;
   0x98; 0x09; 0x80; 0x00; 0x00; 0x00; 0x08; 0x90; 0x89; 0x00; 0x00; 0x00;
   0x62; 0x06; 0x20; 0x00; 0x00; 0x00; 0x24; 0x22; 0x42; 0x00; 0x00; 0x00;
   0x8a; 0x08; 0xa0; 0x00; 0x00; 0x00; 0x84; 0x48; 0x44; 0x00; 0x00; 0x00;
   0x53; 0x65; 0x36; 0x00; 0x00; 0x00; 0x21; 0x32; 0x13; 0x00; 0x00; 0x00;
   0x10; 0x91; 0x09; 0x00; 0x00; 0x00; 0x00; 0x70; 0x07; 0x00; 0x00; 0x00;
   0x0c; 0x10; 0xc1; 0x00; 0x00; 0x00; 0x40; 0xc4; 0x0c; 0x00; 0x00; 0x00;
   0x6a; 0x06; 0xa0; 0x00; 0x00; 0x00; 0x86; 0x08; 0x60; 0x00; 0x00; 0x00;
   0x24; 0x82; 0x48; 0x00; 0x00; 0x00; 0x89; 0x08; 0x90; 0x00; 0x00; 0x00;
   0xc0; 0x2c; 0x02; 0x00; 0x00; 0x00; 0x88; 0x32; 0x59; 0x00; 0x00; 0x00].

Definition kMaskRandom25_1 : list Z :=
  [0xff; 0xff; 0xff; 0x80; 0x00; 0x00].

Definition kMaskRandom25_2 : list Z :=
  [0xec; 0xce; 0xcc; 0x00; 0x00; 0x00; 0x93; 0xb1; 0xb3; 0x80; 0x00; 0x00].

Definition kMaskRandom25_3 : list Z :=
  [0x9b; 0x89; 0x9b; 0x00; 0x00; 0x00; 0x4f; 0x14; 0x6d; 0x80; 0x00; 0x00;
   0x3c; 0x63; 0x72; 0x80; 0x00; 0x00].

Definition kMaskRandom25_4 : list Z :=
  [0x8b; 0x24; 0x9b; 0x00; 0x00; 0x00; 0x14; 0xb2; 0x6d; 0x00; 0x00; 0x00;
   0x22; 0xd8; 0x56; 0x80; 0x00; 0x00; 0x45; 0x55; 0x25; 0x80; 0x00; 0x00].

Definition kMaskRandom25_5 : list Z :=
  [0x53; 0x65; 0x13; 0x00; 0x00; 0x00; 0x64; 0x26; 0x64; 0x00; 0x00; 0x00;
   0x0c; 0xc0; 0xc6; 0x80; 0x00; 0x00; 0x82; 0xaa; 0x1c; 0x00; 0x00; 0x00;
   0x09; 0x32; 0x29; 0x80; 0x00; 0x00].

Definition kMaskRandom25_6 : list Z :=
  [0x51; 0x4d; 0x12; 0x00; 0x00; 0x00; 0xc5; 0x14; 0x6d; 0x00; 0x00; 0x00;
   0x21; 0x81; 0x54; 0x80; 0x00; 0x00; 0x12; 0x32; 0x17; 0x00; 0x00; 0x00;
   0x08; 0xe2; 0x8c; 0x80; 0x00; 0x00; 0x2e; 0x0a; 0xa2; 0x00; 0x00; 0x00].

Definition kMaskRandom25_7 : list Z :=
  [0x53; 0x65; 0x92; 0x00; 0x00; 0x00; 0x21; 0x32; 0x65; 0x00; 0x00; 0x00;
   0x90; 0x9b; 0x14; 0x00; 0x00; 0x00; 0x02; 0x52; 0xb0; 0x80; 0x00; 0x00;
   0x06; 0xa1; 0x4c; 0x80; 0x00; 0x00; 0x2c; 0x0c; 0x88; 0x80; 0x00; 0x00;
   0x88; 0x68; 0x4b; 0x00; 0x00; 0x00].

Definition kMaskRandom25_8 : list Z :=
  [0x20; 0x68; 0x0a; 0x80; 0x00; 0x00; 0x80; 0x33; 0x09; 0x00; 0x00; 0x00;
   0x42; 0x41; 0x60; 0x80; 0x00; 0x00; 0x01; 0x90; 0x33; 0x00; 0x00; 0x00;
   0x14; 0x14; 0x46; 0x00; 0x00; 0x00; 0x0a; 0x80; 0x81; 0x80; 0x00; 0x00;
   0x38; 0x0d; 0x80; 0x00; 0x00; 0x00; 0xc5; 0x0a; 0x14; 0x00; 0x00; 0x00].

Definition kMaskRandom25_9 : list Z :=
  [0x53; 0x65; 0x92; 0x00; 0x00; 0x00; 0xe4; 0x26; 0x64; 0x00; 0x00; 0x00;
   0x24; 0x41; 0x44; 0x00; 0x00; 0x00; 0xa1; 0x12; 0x14; 0x80; 0x00; 0x00;
   0x18; 0x30; 0x2c; 0x80; 0x00; 0x00; 0x03; 0x99; 0x41; 0x00; 0x00; 0x00;
   0x8a; 0x18; 0x0a; 0x80; 0x00; 0x00; 0x04; 0x90; 0xa9; 0x00; 0x00; 0x00;
   0x00; 0xe4; 0x01; 0x80; 0x00; 0x00].

Definition kMaskRandom25_10 : list Z :=
  [0x51; 0x4d; 0x10; 0x00; 0x00; 0x00; 0x45; 0x14; 0x45; 0x00; 0x00; 0x00;
   0x80; 0xd1; 0x09; 0x80; 0x00; 0x00; 0x24; 0x2a; 0x05; 0x00; 0x00; 0x00;
   0x0a; 0x24; 0xa0; 0x80; 0x00; 0x00; 0x00; 0xe4; 0x03; 0x00; 0x00; 0x00;
   0xb8; 0x08; 0x02; 0x80; 0x00; 0x00; 0x09; 0x10; 0xc9; 0x00; 0x00; 0x00;
   0x56; 0x00; 0x58; 0x80; 0x00; 0x00; 0xa2; 0x86; 0x22; 0x00; 0x00; 0x00].

Definition kMaskRandom25_11 : list Z :=
  [0x53; 0x65; 0x12; 0x00; 0x00; 0x00; 0x21; 0x32; 0x21; 0x00; 0x00; 0x00;
   0x10; 0x91; 0x34; 0x00; 0x00; 0x00; 0x00; 0x72; 0x50; 0x00; 0x00; 0x00;
   0x0c; 0x11; 0x81; 0x80; 0x00; 0x00; 0x40; 0xc0; 0xa2; 0x00; 0x00; 0x00;
   0x6a; 0x08; 0x88; 0x80; 0x00; 0x00; 0x86; 0x00; 0x68; 0x00; 0x00; 0x00;
   0x24; 0x8e; 0x02; 0x00; 0x00; 0x00; 0x89; 0x08; 0x44; 0x00; 0x00; 0x00;
   0xc0; 0x24; 0x41; 0x80; 0x00; 0x00].

Definition kMaskRandom25_12 : list Z :=
  [0x10; 0x62; 0x82; 0x80; 0x00; 0x00; 0x02; 0x38; 0x45; 0x00; 0x00; 0x00;
   0x40; 0x56; 0x04; 0x00; 0x00; 0x00; 0x21; 0x80; 0x54; 0x80; 0x00; 0x00;
   0x81; 0x10; 0x29; 0x80; 0x00; 0x00; 0x14; 0x80; 0x13; 0x00; 0x00; 0x00;
   0x98; 0x04; 0x81; 0x00; 0x00; 0x00; 0x08; 0x92; 0x48; 0x00; 0x00; 0x00;
   0x62; 0x09; 0x40; 0x00; 0x00; 0x00; 0x24; 0x28; 0xa0; 0x00; 0x00; 0x00;
   0x8a; 0x01; 0x18; 0x00; 0x00; 0x00; 0x84; 0x45; 0x22; 0x00; 0x00; 0x00].

Definition kMaskRandom25_13 : list Z :=
  [0x51; 0x4d; 0x12; 0x00; 0x00; 0x00; 0xc5; 0x14; 0x6d; 0x00; 0x00; 0x00;
   0x21; 0x81; 0x54; 0x80; 0x00; 0x00; 0x12; 0x32; 0x17; 0x00; 0x00; 0x00;
   0x08; 0xe2; 0x8c; 0x80; 0x00; 0x00; 0x2e; 0x0a; 0xa2; 0x00; 0x00; 0x00;
   0x53; 0x65; 0x92; 0x00; 0x00; 0x00; 0x21; 0x32; 0x65; 0x00; 0x00; 0x00;
   0x90; 0x9b; 0x14; 0x00; 0x00; 0x00; 0x02; 0x52; 0xb0; 0x80; 0x00; 0x00;
   0x06; 0xa1; 0x4c; 0x80; 0x00; 0x00; 0x2c; 0x0c; 0x88; 0x80; 0x00; 0x00;
   0x88; 0x68; 0x4b; 0x00; 0x00; 0x00].

Definition kMaskRandom25_14 : list Z :=
  [0x53; 0x65; 0x92; 0x00; 0x00; 0x00; 0x21; 0x32; 0x65; 0x00; 0x00; 0x00;
   0x90; 0x9b; 0x14; 0x00; 0x00; 0x00; 0x02; 0x52; 0xb0; 0x80; 0x00; 0x00;
   0x06; 0xa1; 0x4c; 0x80; 0x00; 0x00; 0x2c; 0x0c; 0x88; 0x80; 0x00; 0x00;
   0x88; 0x68; 0x4b; 0x00; 0x00; 0x00; 0x51; 0x4d; 0x12; 0x00; 0x00; 0x00;
   0xc5; 0x14; 0x6d; 0x00; 0x00; 0x00; 0x21; 0x81; 0x54; 0x80; 0x00; 0x00;
   0x12; 0x32; 0x17; 0x00; 0x00; 0x00; 0x08; 0xe2; 0x8c; 0x80; 0x00; 0x00;
   0x2e; 0x0a; 0xa2; 0x00; 0x00; 0x00; 0x73; 0x76; 0x61; 0x80; 0x00; 0x00].

Definition kMaskRandom25_15 : list Z :=
  [0x53; 0x65; 0x92; 0x00; 0x00; 0x00; 0x21; 0x32; 0x65; 0x00; 0x00; 0x00;
   0x90; 0x9b; 0x14; 0x00; 0x00; 0x00; 0x02; 0x52; 0xb0; 0x80; 0x00; 0x00;
   0x06; 0xa1; 0x4c; 0x80; 0x00; 0x00; 0x2c; 0x0c; 0x88; 0x80; 0x00; 0x00;
   0x88; 0x68; 0x4b; 0x00; 0x00; 0x00; 0x20; 0x68; 0x0a; 0x80; 0x00; 0x00;
   0x80; 0x33; 0x09; 0x00; 0x00; 0x00; 0x42; 0x41; 0x60; 0x80; 0x00; 0x00;
   0x01; 0x90; 0x33; 0x00; 0x00; 0x00; 0x14; 0x14; 0x46; 0x00; 0x00; 0x00;
   0x0a; 0x80; 0x81; 0x80; 0x00; 0x00; 0x38; 0x0d; 0x80; 0x00; 0x00; 0x00;
   0xc5; 0x0a; 0x14; 0x00; 0x00; 0x00].

Definition kMaskRandom25_16 : list Z :=
  [0x20; 0x68; 0x0a; 0x80; 0x00; 0x00; 0x80; 0x33; 0x09; 0x00; 0x00; 0x00;
   0x42; 0x41; 0x60; 0x80; 0x00; 0x00; 0x01; 0x90; 0x33; 0x00; 0x00; 0x00;
   0x14; 0x14; 0x46; 0x00; 0x00; 0x00; 0x0a; 0x80; 0x81; 0x80; 0x00; 0x00;
   0x38; 0x0d; 0x80; 0x00; 0x00; 0x00; 0xc5; 0x0a; 0x14; 0x00; 0x00; 0x00;
   0x53; 0x65; 0x92; 0x00; 0x00; 0x00; 0x21; 0x32; 0x65; 0x00; 0x00; 0x00;
   0x90; 0x9b; 0x14; 0x00; 0x00; 0x00; 0x02; 0x52; 0xb0; 0x80; 0x00; 0x00;
   0x06; 0xa1; 0x4c; 0x80; 0x00; 0x00; 0x2c; 0x0c; 0x88; 0x80; 0x00; 0x00;
   0x88; 0x68; 0x4b; 0x00; 0x00; 0x00; 0x16; 0xe8; 0xdc; 0x80; 0x00; 0x00].

Definition kMaskRandom25_17 : list Z :=
  [0x20; 0x68; 0x0a; 0x80; 0x00; 0x00; 0x80; 0x33; 0x09; 0x00; 0x00; 0x00;
   0x42; 0x41; 0x60; 0x80; 0x00; 0x00; 0x01; 0x90; 0x33; 0x00; 0x00; 0x00;
   0x14; 0x14; 0x46; 0x00; 0x00; 0x00; 0x0a; 0x80; 0x81; 0x80; 0x00; 0x00;
   0x38; 0x0d; 0x80; 0x00; 0x00; 0x00; 0xc5; 0x0a; 0x14; 0x00; 0x00; 0x00;
   0x53; 0x65; 0x92; 0x00; 0x00; 0x00; 0xe4; 0x26; 0x64; 0x00; 0x00; 0x00;
   0x24; 0x41; 0x44; 0x00; 0x00; 0x00; 0xa1; 0x12; 0x14; 0x80; 0x00; 0x00;
   0x18; 0x30; 0x2c; 0x80; 0x00; 0x00; 0x03; 0x99; 0x41; 0x00; 0x00; 0x00;
   0x8a; 0x18; 0x0a; 0x80; 0x00; 0x00; 0x04; 0x90; 0xa9; 0x00; 0x00; 0x00;
   0x00; 0xe4; 0x01; 0x80; 0x00; 0x00].

Definition kMaskRandom25_18 : list Z :=
  [0x53; 0x65; 0x92; 0x00; 0x00; 0x00; 0xe4; 0x26; 0x64; 0x00; 0x00; 0x00;
   0x24; 0x41; 0x44; 0x00; 0x00; 0x00; 0xa1; 0x12; 0x14; 0x80; 0x00; 0x00;
   0x18; 0x30; 0x2c; 0x80; 0x00; 0x00; 0x03; 0x99; 0x41; 0x00; 0x00; 0x00;
   0x8a; 0x18; 0x0a; 0x80; 0x00; 0x00; 0x04; 0x90; 0xa9; 0x00; 0x00; 0x00;
   0x00; 0xe4; 0x01; 0x80; 0x00; 0x00; 0x20; 0x68; 0x0a; 0x80; 0x00; 0x00;
   0x80; 0x33; 0x09; 0x00; 0x00; 0x00; 0x42; 0x41; 0x60; 0x80; 0x00; 0x00;
   0x01; 0x90; 0x33; 0x00; 0x00; 0x00; 0x14; 0x14; 0x46; 0x00; 0x00; 0x00;
   0x0a; 0x80; 0x81; 0x80; 0x00; 0x00; 0x38; 0x0d; 0x80; 0x00; 0x00; 0x00;
   0xc5; 0x0a; 0x14; 0x00; 0x00; 0x00; 0xce; 0x9b; 0xe1; 0x00; 0x00; 0x00].

Definition kMaskRandom25_19 : list Z :=
  [0x53; 0x65; 0x92; 0x00; 0x00; 0x00; 0xe4; 0x26; 0x64; 0x00; 0x00; 0x00;
   0x24; 0x41; 0x44; 0x00; 0x00; 0x00; 0xa1; 0x12; 0x14; 0x80; 0x00; 0x00;
   0x18; 0x30; 0x2c; 0x80; 0x00; 0x00; 0x03; 0x99; 0x41; 0x00; 0x00; 0x00;
   0x8a; 0x18; 0x0a; 0x80; 0x00; 0x00; 0x04; 0x90; 0xa9; 0x00; 0x00; 0x00;
   0x00; 0xe4; 0x01; 0x80; 0x00; 0x00; 0x51; 0x4d; 0x10; 0x00; 0x00; 0x00;
   0x45; 0x14; 0x45; 0x00; 0x00; 0x00; 0x80; 0xd1; 0x09; 0x80; 0x00; 0x00;
   0x24; 0x2a; 0x05; 0x00; 0x00; 0x00; 0x0a; 0x24; 0xa0; 0x80; 0x00; 0x00;
   0x00; 0xe4; 0x03; 0x00; 0x00; 0x00; 0xb8; 0x08; 0x02; 0x80; 0x00; 0x00;
   0x09; 0x10; 0xc9; 0x00; 0x00; 0x00; 0x56; 0x00; 0x58; 0x80; 0x00; 0x00;
   0xa2; 0x86; 0x22; 0x00; 0x00; 0x00].

Definition kMaskRandom25_20 : list Z :=
  [0x51; 0x4d; 0x10; 0x00; 0x00; 0x00; 0x45; 0x14; 0x45; 0x00; 0x00; 0x00;
   0x80; 0xd1; 0x09; 0x80; 0x00; 0x00; 0x24; 0x2a; 0x05; 0x00; 0x00; 0x00;
   0x0a; 0x24; 0xa0; 0x80; 0x00; 0x00; 0x00; 0xe4; 0x03; 0x00; 0x00; 0x00;
   0xb8; 0x08; 0x02; 0x80; 0x00; 0x00; 0x09; 0x10; 0xc9; 0x00; 0x00; 0x00;
   0x56; 0x00; 0x58; 0x80; 0x00; 0x00; 0xa2; 0x86; 0x22; 0x00; 0x00; 0x00;
   0x53; 0x65; 0x92; 0x00; 0x00; 0x00; 0xe4; 0x26; 0x64; 0x00; 0x00; 0x00;
   0x24; 0x41; 0x44; 0x00; 0x00; 0x00; 0xa1; 0x12; 0x14; 0x80; 0x00; 0x00;
   0x18; 0x30; 0x2c; 0x80; 0x00; 0x00; 0x03; 0x99; 0x41; 0x00; 0x00; 0x00;
   0x8a; 0x18; 0x0a; 0x80; 0x00; 0x00; 0x04; 0x90; 0xa9; 0x00; 0x00; 0x00;
   0x00; 0xe4; 0x01; 0x80; 0x00; 0x00; 0x1b; 0x8a; 0xa0; 0x00; 0x00; 0x00].

Definition kMaskRandom25_21 : list Z :=
  [0x51; 0x4d; 0x10; 0x00; 0x00; 0x00; 0x45; 0x14; 0x45; 0x00; 0x00; 0x00;
   0x80; 0xd1; 0x09; 0x80; 0x00; 0x00; 0x24; 0x2a; 0x05; 0x00; 0x00; 0x00;
   0x0a; 0x24; 0xa0; 0x80; 0x00; 0x00; 0x00; 0xe4; 0x03; 0x00; 0x00; 0x00;
   0xb8; 0x08; 0x02; 0x80; 0x00; 0x00; 0x09; 0x10; 0xc9; 0x00; 0x00; 0x00;
   0x56; 0x00; 0x58; 0x80; 0x00; 0x00; 0xa2; 0x86; 0x22; 0x00; 0x00; 0x00;
   0x53; 0x65; 0x12; 0x00; 0x00; 0x00; 0x21; 0x32; 0x21; 0x00; 0x00; 0x00;
   0x10; 0x91; 0x34; 0x00; 0x00; 0x00; 0x00; 0x72; 0x50; 0x00; 0x00; 0x00;
   0x0c; 0x11; 0x81; 0x80; 0x00; 0x00; 0x40; 0xc0; 0xa2; 0x00; 0x00; 0x00;
   0x6a; 0x08; 0x88; 0x80; 0x00; 0x00; 0x86; 0x00; 0x68; 0x00; 0x00; 0x00;
   0x24; 0x8e; 0x02; 0x00; 0x00; 0x00; 0x89; 0x08; 0x44; 0x00; 0x00; 0x00;
   0xc0; 0x24; 0x41; 0x80; 0x00; 0x00].

Definition kMaskRandom25_22 : list Z :=
  [0x53; 0x65; 0x12; 0x00; 0x00; 0x00; 0x21; 0x32; 0x21; 0x00; 0x00; 0x00;
   0x10; 0x91; 0x34; 0x00; 0x00; 0x00; 0x00; 0x72; 0x50; 0x00; 0x00; 0x00;
   0x0c; 0x11; 0x81; 0x80; 0x00; 0x00; 0x40; 0xc0; 0xa2; 0x00; 0x00; 0x00;
   0x6a; 0x08; 0x88; 0x80; 0x00; 0x00; 0x86; 0x00; 0x68; 0x00; 0x00; 0x00;
   0x24; 0x8e; 0x02; 0x00; 0x00; 0x00; 0x89; 0x08; 0x44; 0x00; 0x00; 0x00;
   0xc0; 0x24; 0x41; 0x80; 0x00; 0x00; 0x51; 0x4d; 0x10; 0x00; 0x00; 0x00;
   0x45; 0x14; 0x45; 0x00; 0x00; 0x00; 0x80; 0xd1; 0x09; 0x80; 0x00; 0x00;
   0x24; 0x2a; 0x05; 0x00; 0x00; 0x00; 0x0a; 0x24; 0xa0; 0x80; 0x00; 0x00;
   0x00; 0xe4; 0x03; 0x00; 0x00; 0x00; 0xb8; 0x08; 0x02; 0x80; 0x00; 0x00;
   0x09; 0x10; 0xc9; 0x00; 0x00; 0x00; 0x56; 0x00; 0x58; 0x80; 0x00; 0x00;
   0xa2; 0x86; 0x22; 0x00; 0x00; 0x00; 0x15; 0xa2; 0x99; 0x00; 0x00; 0x00].

Definition kMaskRandom25_23 : list Z :=
  [0x53; 0x65; 0x12; 0x00; 0x00; 0x00; 0x21; 0x32; 0x21; 0x00; 0x00; 0x00;
   0x10; 0x91; 0x34; 0x00; 0x00; 0x00; 0x00; 0x72; 0x50; 0x00; 0x00; 0x00;
   0x0c; 0x11; 0x81; 0x80; 0x00; 0x00; 0x40; 0xc0; 0xa2; 0x00; 0x00; 0x00;
   0x6a; 0x08; 0x88; 0x80; 0x00; 0x00; 0x86; 0x00; 0x68; 0x00; 0x00; 0x00;
   0x24; 0x8e; 0x02; 0x00; 0x00; 0x00; 0x89; 0x08; 0x44; 0x00; 0x00; 0x00;
   0xc0; 0x24; 0x41; 0x80; 0x00; 0x00; 0x10; 0x62; 0x82; 0x80; 0x00; 0x00;
   0x02; 0x38; 0x45; 0x00; 0x00; 0x00; 0x40; 0x56; 0x04; 0x00; 0x00; 0x00;
   0x21; 0x80; 0x54; 0x80; 0x00; 0x00; 0x81; 0x10; 0x29; 0x80; 0x00; 0x00;
   0x14; 0x80; 0x13; 0x00; 0x00; 0x00; 0x98; 0x04; 0x81; 0x00; 0x00; 0x00;
   0x08; 0x92; 0x48; 0x00; 0x00; 0x00; 0x62; 0x09; 0x40; 0x00; 0x00; 0x00;
   0x24; 0x28; 0xa0; 0x00; 0x00; 0x00; 0x8a; 0x01; 0x18; 0x00; 0x00; 0x00;
   0x84; 0x45; 0x22; 0x00; 0x00; 0x00].

Definition kMaskRandom25_24 : list Z :=
  [0x10; 0x62; 0x82; 0x80; 0x00; 0x00; 0x02; 0x38; 0x45; 0x00; 0x00; 0x00;
   0x40; 0x56; 0x04; 0x00; 0x00; 0x00; 0x21; 0x80; 0x54; 0x80; 0x00; 0x00;
   0x81; 0x10; 0x29; 0x80; 0x00; 0x00; 0x14; 0x80; 0x13; 0x00; 0x00; 0x00;
   0x98; 0x04; 0x81; 0x00; 0x00; 0x00; 0x08; 0x92; 0x48; 0x00; 0x00; 0x00;
   0x62; 0x09; 0x40; 0x00; 0x00; 0x00; 0x24; 0x28; 0xa0; 0x00; 0x00; 0x00;
   0x8a; 0x01; 0x18; 0x00; 0x00; 0x00; 0x84; 0x45; 0x22; 0x00; 0x00; 0x00;
   0x53; 0x65; 0x12; 0x00; 0x00; 0x00; 0x21; 0x32; 0x21; 0x00; 0x00; 0x00;
   0x10; 0x91; 0x34; 0x00; 0x00; 0x00; 0x00; 0x72; 0x50; 0x00; 0x00; 0x00;
   0x0c; 0x11; 0x81; 0x80; 0x00; 0x00; 0x40; 0xc0; 0xa2; 0x00; 0x00; 0x00;
   0x6a; 0x08; 0x88; 0x80; 0x00; 0x00; 0x86; 0x00; 0x68; 0x00; 0x00; 0x00;
   0x24; 0x8e; 0x02; 0x00; 0x00; 0x00; 0x89; 0x08; 0x44; 0x00; 0x00; 0x00;
   0xc0; 0x24; 0x41; 0x80; 0x00; 0x00; 0xf9; 0x0c; 0x14; 0x80; 0x00; 0x00].

Definition kMaskRandom25_25 : list Z :=
  [0x10; 0x62; 0x82; 0x80; 0x00; 0x00; 0x02; 0x38; 0x45; 0x00; 0x00; 0x00;
   0x40; 0x56; 0x04; 0x00; 0x00; 0x00; 0x21; 0x80; 0x54; 0x80; 0x00; 0x00;
   0x81; 0x10; 0x29; 0x80; 0x00; 0x00; 0x14; 0x80; 0x13; 0x00; 0x00; 0x00;
   0x98; 0x04; 0x81; 0x00; 0x00; 0x00; 0x08; 0x92; 0x48; 0x00; 0x00; 0x00;
   0x62; 0x09; 0x40; 0x00; 0x00; 0x00; 0x24; 0x28; 0xa0; 0x00; 0x00; 0x00;
   0x8a; 0x01; 0x18; 0x00; 0x00; 0x00; 0x84; 0x45; 0x22; 0x00; 0x00; 0x00;
   0x10; 0x65; 0x12; 0x00; 0x00; 0x00; 0x02; 0x36; 0x64; 0x00; 0x00; 0x00;
   0x40; 0x50; 0x54; 0x80; 0x00; 0x00; 0x21; 0x88; 0x12; 0x00; 0x00; 0x00;
   0x81; 0x19; 0x40; 0x00; 0x00; 0x00; 0x14; 0x83; 0x08; 0x00; 0x00; 0x00;
   0x98; 0x02; 0x11; 0x00; 0x00; 0x00; 0x08; 0x90; 0x3c; 0x00; 0x00; 0x00;
   0x62; 0x0e; 0x80; 0x00; 0x00; 0x00; 0x24; 0x20; 0xa1; 0x00; 0x00; 0x00;
   0x8a; 0x08; 0x01; 0x80; 0x00; 0x00; 0x84; 0x40; 0x49; 0x00; 0x00; 0x00;
   0x1c; 0x20; 0x8a; 0x80; 0x00; 0x00].

Definition kMaskRandom26_1 : list Z :=
  [0xff; 0xff; 0xff; 0xc0; 0x00; 0x00].

Definition kMaskRandom26_2 : list Z :=
  [0xec; 0xc7; 0x66; 0x00; 0x00; 0x00; 0x1b; 0x38; 0xd9; 0xc0; 0x00; 0x00].

Definition kMaskRandom26_3 : list Z :=
  [0x99; 0xb4; 0xcd; 0x80; 0x00; 0x00; 0x46; 0xda; 0x36; 0xc0; 0x00; 0x00;
   0x37; 0x29; 0xb9; 0x40; 0x00; 0x00].

Definition kMaskRandom26_4 : list Z :=
  [0x49; 0xb2; 0x4d; 0x80; 0x00; 0x00; 0x26; 0xd1; 0x36; 0x80; 0x00; 0x00;
   0x85; 0x6c; 0x2b; 0x40; 0x00; 0x00; 0x52; 0x5a; 0x92; 0xc0; 0x00; 0x00].

Definition kMaskRandom26_5 : list Z :=
  [0x51; 0x32; 0x89; 0x80; 0x00; 0x00; 0x66; 0x43; 0x32; 0x00; 0x00; 0x00;
   0x0c; 0x68; 0x63; 0x40; 0x00; 0x00; 0xa1; 0xc5; 0x0e; 0x00; 0x00; 0x00;
   0x22; 0x99; 0x14; 0xc0; 0x00; 0x00].

Definition kMaskRandom26_6 : list Z :=
  [0xd1; 0x26; 0x89; 0x00; 0x00; 0x00; 0x46; 0xd2; 0x36; 0x80; 0x00; 0x00;
   0x15; 0x48; 0xaa; 0x40; 0x00; 0x00; 0x21; 0x71; 0x0b; 0x80; 0x00; 0x00;
   0x28; 0xc9; 0x46; 0x40; 0x00; 0x00; 0xaa; 0x25; 0x51; 0x00; 0x00; 0x00].

Definition kMaskRandom26_7 : list Z :=
  [0x59; 0x22; 0xc9; 0x00; 0x00; 0x00; 0x26; 0x51; 0x32; 0x80; 0x00; 0x00;
   0xb1; 0x45; 0x8a; 0x00; 0x00; 0x00; 0x2b; 0x09; 0x58; 0x40; 0x00; 0x00;
   0x14; 0xc8; 0xa6; 0x40; 0x00; 0x00; 0xc8; 0x8e; 0x44; 0x40; 0x00; 0x00;
   0x84; 0xb4; 0x25; 0x80; 0x00; 0x00].

Definition kMaskRandom26_8 : list Z :=
  [0x80; 0xac; 0x05; 0x40; 0x00; 0x00; 0x30; 0x91; 0x84; 0x80; 0x00; 0x00;
   0x16; 0x08; 0xb0; 0x40; 0x00; 0x00; 0x03; 0x30; 0x19; 0x80; 0x00; 0x00;
   0x44; 0x62; 0x23; 0x00; 0x00; 0x00; 0x08; 0x18; 0x40; 0xc0; 0x00; 0x00;
   0xd8; 0x06; 0xc0; 0x00; 0x00; 0x00; 0xa1; 0x45; 0x0a; 0x00; 0x00; 0x00].

Definition kMaskRandom26_9 : list Z :=
  [0x59; 0x22; 0xc9; 0x00; 0x00; 0x00; 0x66; 0x43; 0x32; 0x00; 0x00; 0x00;
   0x14; 0x40; 0xa2; 0x00; 0x00; 0x00; 0x21; 0x49; 0x0a; 0x40; 0x00; 0x00;
   0x02; 0xc8; 0x16; 0x40; 0x00; 0x00; 0x94; 0x14; 0xa0; 0x80; 0x00; 0x00;
   0x80; 0xac; 0x05; 0x40; 0x00; 0x00; 0x0a; 0x90; 0x54; 0x80; 0x00; 0x00;
   0x40; 0x1a; 0x00; 0xc0; 0x00; 0x00].

Definition kMaskRandom26_10 : list Z :=
  [0xd1; 0x06; 0x88; 0x00; 0x00; 0x00; 0x44; 0x52; 0x22; 0x80; 0x00; 0x00;
   0x10; 0x98; 0x84; 0xc0; 0x00; 0x00; 0xa0; 0x55; 0x02; 0x80; 0x00; 0x00;
   0x4a; 0x0a; 0x50; 0x40; 0x00; 0x00; 0x40; 0x32; 0x01; 0x80; 0x00; 0x00;
   0x80; 0x2c; 0x01; 0x40; 0x00; 0x00; 0x0c; 0x90; 0x64; 0x80; 0x00; 0x00;
   0x05; 0x88; 0x2c; 0x40; 0x00; 0x00; 0x62; 0x23; 0x11; 0x00; 0x00; 0x00].

Definition kMaskRandom26_11 : list Z :=
  [0x51; 0x22; 0x89; 0x00; 0x00; 0x00; 0x22; 0x11; 0x10; 0x80; 0x00; 0x00;
   0x13; 0x40; 0x9a; 0x00; 0x00; 0x00; 0x25; 0x01; 0x28; 0x00; 0x00; 0x00;
   0x18; 0x18; 0xc0; 0xc0; 0x00; 0x00; 0x0a; 0x20; 0x51; 0x00; 0x00; 0x00;
   0x88; 0x8c; 0x44; 0x40; 0x00; 0x00; 0x06; 0x80; 0x34; 0x00; 0x00; 0x00;
   0xe0; 0x27; 0x01; 0x00; 0x00; 0x00; 0x84; 0x44; 0x22; 0x00; 0x00; 0x00;
   0x44; 0x1a; 0x20; 0xc0; 0x00; 0x00].

Definition kMaskRandom26_12 : list Z :=
  [0x28; 0x29; 0x41; 0x40; 0x00; 0x00; 0x84; 0x54; 0x22; 0x80; 0x00; 0x00;
   0x60; 0x43; 0x02; 0x00; 0x00; 0x00; 0x05; 0x48; 0x2a; 0x40; 0x00; 0x00;
   0x02; 0x98; 0x14; 0xc0; 0x00; 0x00; 0x01; 0x30; 0x09; 0x80; 0x00; 0x00;
   0x48; 0x12; 0x40; 0x80; 0x00; 0x00; 0x24; 0x81; 0x24; 0x00; 0x00; 0x00;
   0x94; 0x04; 0xa0; 0x00; 0x00; 0x00; 0x8a; 0x04; 0x50; 0x00; 0x00; 0x00;
   0x11; 0x80; 0x8c; 0x00; 0x00; 0x00; 0x52; 0x22; 0x91; 0x00; 0x00; 0x00].

Definition kMaskRandom26_13 : list Z :=
  [0x51; 0x22; 0x89; 0x00; 0x00; 0x00; 0x66; 0x43; 0x32; 0x00; 0x00; 0x00;
   0x05; 0x48; 0x2a; 0x40; 0x00; 0x00; 0x81; 0x24; 0x09; 0x00; 0x00; 0x00;
   0x94; 0x04; 0xa0; 0x00; 0x00; 0x00; 0x30; 0x81; 0x84; 0x00; 0x00; 0x00;
   0x21; 0x11; 0x08; 0x80; 0x00; 0x00; 0x03; 0xc0; 0x1e; 0x00; 0x00; 0x00;
   0xe8; 0x07; 0x40; 0x00; 0x00; 0x00; 0x0a; 0x10; 0x50; 0x80; 0x00; 0x00;
   0x80; 0x1c; 0x00; 0xc0; 0x00; 0x00; 0x04; 0x90; 0x24; 0x80; 0x00; 0x00;
   0x08; 0xa8; 0x45; 0x40; 0x00; 0x00].

Definition kMaskRandom26_14 : list Z :=
  [0x59; 0x22; 0xc9; 0x00; 0x00; 0x00; 0x26; 0x51; 0x32; 0x80; 0x00; 0x00;
   0xb1; 0x45; 0x8a; 0x00; 0x00; 0x00; 0x2b; 0x09; 0x58; 0x40; 0x00; 0x00;
   0x14; 0xc8; 0xa6; 0x40; 0x00; 0x00; 0xc8; 0x8e; 0x44; 0x40; 0x00; 0x00;
   0x84; 0xb4; 0x25; 0x80; 0x00; 0x00; 0xd1; 0x26; 0x89; 0x00; 0x00; 0x00;
   0x46; 0xd2; 0x36; 0x80; 0x00; 0x00; 0x15; 0x48; 0xaa; 0x40; 0x00; 0x00;
   0x21; 0x71; 0x0b; 0x80; 0x00; 0x00; 0x28; 0xc9; 0x46; 0x40; 0x00; 0x00;
   0xaa; 0x25; 0x51; 0x00; 0x00; 0x00; 0x5d; 0xa7; 0x78; 0x40; 0x00; 0x00].

Definition kMaskRandom26_15 : list Z :=
  [0x59; 0x22; 0xc9; 0x00; 0x00; 0x00; 0x26; 0x51; 0x32; 0x80; 0x00; 0x00;
   0xb1; 0x45; 0x8a; 0x00; 0x00; 0x00; 0x2b; 0x09; 0x58; 0x40; 0x00; 0x00;
   0x14; 0xc8; 0xa6; 0x40; 0x00; 0x00; 0xc8; 0x8e; 0x44; 0x40; 0x00; 0x00;
   0x84; 0xb4; 0x25; 0x80; 0x00; 0x00; 0x80; 0xac; 0x05; 0x40; 0x00; 0x00;
   0x30; 0x91; 0x84; 0x80; 0x00; 0x00; 0x16; 0x08; 0xb0; 0x40; 0x00; 0x00;
   0x03; 0x30; 0x19; 0x80; 0x00; 0x00; 0x44; 0x62; 0x23; 0x00; 0x00; 0x00;
   0x08; 0x18; 0x40; 0xc0; 0x00; 0x00; 0xd8; 0x06; 0xc0; 0x00; 0x00; 0x00;
   0xa1; 0x45; 0x0a; 0x00; 0x00; 0x00].

Definition kMaskRandom26_16 : list Z :=
  [0x80; 0xac; 0x05; 0x40; 0x00; 0x00; 0x30; 0x91; 0x84; 0x80; 0x00; 0x00;
   0x16; 0x08; 0xb0; 0x40; 0x00; 0x00; 0x03; 0x30; 0x19; 0x80; 0x00; 0x00;
   0x44; 0x62; 0x23; 0x00; 0x00; 0x00; 0x08; 0x18; 0x40; 0xc0; 0x00; 0x00;
   0xd8; 0x06; 0xc0; 0x00; 0x00; 0x00; 0xa1; 0x45; 0x0a; 0x00; 0x00; 0x00;
   0x59; 0x22; 0xc9; 0x00; 0x00; 0x00; 0x26; 0x51; 0x32; 0x80; 0x00; 0x00;
   0xb1; 0x45; 0x8a; 0x00; 0x00; 0x00; 0x2b; 0x09; 0x58; 0x40; 0x00; 0x00;
   0x14; 0xc8; 0xa6; 0x40; 0x00; 0x00; 0xc8; 0x8e; 0x44; 0x40; 0x00; 0x00;
   0x84; 0xb4; 0x25; 0x80; 0x00; 0x00; 0x3c; 0xaf; 0x88; 0x80; 0x00; 0x00].

Definition kMaskRandom26_17 : list Z :=
  [0x80; 0xac; 0x05; 0x40; 0x00; 0x00; 0x30; 0x91; 0x84; 0x80; 0x00; 0x00;
   0x16; 0x08; 0xb0; 0x40; 0x00; 0x00; 0x03; 0x30; 0x19; 0x80; 0x00; 0x00;
   0x44; 0x62; 0x23; 0x00; 0x00; 0x00; 0x08; 0x18; 0x40; 0xc0; 0x00; 0x00;
   0xd8; 0x06; 0xc0; 0x00; 0x00; 0x00; 0xa1; 0x45; 0x0a; 0x00; 0x00; 0x00;
   0x59; 0x22; 0xc9; 0x00; 0x00; 0x00; 0x66; 0x43; 0x32; 0x00; 0x00; 0x00;
   0x14; 0x40; 0xa2; 0x00; 0x00; 0x00; 0x21; 0x49; 0x0a; 0x40; 0x00; 0x00;
   0x02; 0xc8; 0x16; 0x40; 0x00; 0x00; 0x94; 0x14; 0xa0; 0x80; 0x00; 0x00;
   0x80; 0xac; 0x05; 0x40; 0x00; 0x00; 0x0a; 0x90; 0x54; 0x80; 0x00; 0x00;
   0x40; 0x1a; 0x00; 0xc0; 0x00; 0x00].

Definition kMaskRandom26_18 : list Z :=
  [0x59; 0x22; 0xc9; 0x00; 0x00; 0x00; 0x66; 0x43; 0x32; 0x00; 0x00; 0x00;
   0x14; 0x40; 0xa2; 0x00; 0x00; 0x00; 0x21; 0x49; 0x0a; 0x40; 0x00; 0x00;
   0x02; 0xc8; 0x16; 0x40; 0x00; 0x00; 0x94; 0x14; 0xa0; 0x80; 0x00; 0x00;
   0x80; 0xac; 0x05; 0x40; 0x00; 0x00; 0x0a; 0x90; 0x54; 0x80; 0x00; 0x00;
   0x40; 0x1a; 0x00; 0xc0; 0x00; 0x00; 0x80; 0xac; 0x05; 0x40; 0x00; 0x00;
   0x30; 0x91; 0x84; 0x80; 0x00; 0x00; 0x16; 0x08; 0xb0; 0x40; 0x00; 0x00;
   0x03; 0x30; 0x19; 0x80; 0x00; 0x00; 0x44; 0x62; 0x23; 0x00; 0x00; 0x00;
   0x08; 0x18; 0x40; 0xc0; 0x00; 0x00; 0xd8; 0x06; 0xc0; 0x00; 0x00; 0x00;
   0xa1; 0x45; 0x0a; 0x00; 0x00; 0x00; 0xaa; 0x0c; 0x83; 0x80; 0x00; 0x00].

Definition kMaskRandom26_19 : list Z :=
  [0x59; 0x22; 0xc9; 0x00; 0x00; 0x00; 0x66; 0x43; 0x32; 0x00; 0x00; 0x00;
   0x14; 0x40; 0xa2; 0x00; 0x00; 0x00; 0x21; 0x49; 0x0a; 0x40; 0x00; 0x00;
   0x02; 0xc8; 0x16; 0x40; 0x00; 0x00; 0x94; 0x14; 0xa0; 0x80; 0x00; 0x00;
   0x80; 0xac; 0x05; 0x40; 0x00; 0x00; 0x0a; 0x90; 0x54; 0x80; 0x00; 0x00;
   0x40; 0x1a; 0x00; 0xc0; 0x00; 0x00; 0xd1; 0x06; 0x88; 0x00; 0x00; 0x00;
   0x44; 0x52; 0x22; 0x80; 0x00; 0x00; 0x10; 0x98; 0x84; 0xc0; 0x00; 0x00;
   0xa0; 0x55; 0x02; 0x80; 0x00; 0x00; 0x4a; 0x0a; 0x50; 0x40; 0x00; 0x00;
   0x40; 0x32; 0x01; 0x80; 0x00; 0x00; 0x80; 0x2c; 0x01; 0x40; 0x00; 0x00;
   0x0c; 0x90; 0x64; 0x80; 0x00; 0x00; 0x05; 0x88; 0x2c; 0x40; 0x00; 0x00;
   0x62; 0x23; 0x11; 0x00; 0x00; 0x00].

Definition kMaskRandom26_20 : list Z :=
  [0xd1; 0x06; 0x88; 0x00; 0x00; 0x00; 0x44; 0x52; 0x22; 0x80; 0x00; 0x00;
   0x10; 0x98; 0x84; 0xc0; 0x00; 0x00; 0xa0; 0x55; 0x02; 0x80; 0x00; 0x00;
   0x4a; 0x0a; 0x50; 0x40; 0x00; 0x00; 0x40; 0x32; 0x01; 0x80; 0x00; 0x00;
   0x80; 0x2c; 0x01; 0x40; 0x00; 0x00; 0x0c; 0x90; 0x64; 0x80; 0x00; 0x00;
   0x05; 0x88; 0x2c; 0x40; 0x00; 0x00; 0x62; 0x23; 0x11; 0x00; 0x00; 0x00;
   0x59; 0x22; 0xc9; 0x00; 0x00; 0x00; 0x66; 0x43; 0x32; 0x00; 0x00; 0x00;
   0x14; 0x40; 0xa2; 0x00; 0x00; 0x00; 0x21; 0x49; 0x0a; 0x40; 0x00; 0x00;
   0x02; 0xc8; 0x16; 0x40; 0x00; 0x00; 0x94; 0x14; 0xa0; 0x80; 0x00; 0x00;
   0x80; 0xac; 0x05; 0x40; 0x00; 0x00; 0x0a; 0x90; 0x54; 0x80; 0x00; 0x00;
   0x40; 0x1a; 0x00; 0xc0; 0x00; 0x00; 0xf4; 0x08; 0xec; 0x00; 0x00; 0x00].

Definition kMaskRandom26_21 : list Z :=
  [0xd1; 0x06; 0x88; 0x00; 0x00; 0x00; 0x44; 0x52; 0x22; 0x80; 0x00; 0x00;
   0x10; 0x98; 0x84; 0xc0; 0x00; 0x00; 0xa0; 0x55; 0x02; 0x80; 0x00; 0x00;
   0x4a; 0x0a; 0x50; 0x40; 0x00; 0x00; 0x40; 0x32; 0x01; 0x80; 0x00; 0x00;
   0x80; 0x2c; 0x01; 0x40; 0x00; 0x00; 0x0c; 0x90; 0x64; 0x80; 0x00; 0x00;
   0x05; 0x88; 0x2c; 0x40; 0x00; 0x00; 0x62; 0x23; 0x11; 0x00; 0x00; 0x00;
   0x51; 0x22; 0x89; 0x00; 0x00; 0x00; 0x22; 0x11; 0x10; 0x80; 0x00; 0x00;
   0x13; 0x40; 0x9a; 0x00; 0x00; 0x00; 0x25; 0x01; 0x28; 0x00; 0x00; 0x00;
   0x18; 0x18; 0xc0; 0xc0; 0x00; 0x00; 0x0a; 0x20; 0x51; 0x00; 0x00; 0x00;
   0x88; 0x8c; 0x44; 0x40; 0x00; 0x00; 0x06; 0x80; 0x34; 0x00; 0x00; 0x00;
   0xe0; 0x27; 0x01; 0x00; 0x00; 0x00; 0x84; 0x44; 0x22; 0x00; 0x00; 0x00;
   0x44; 0x1a; 0x20; 0xc0; 0x00; 0x00].

Definition kMaskRandom26_22 : list Z :=
  [0x51; 0x22; 0x89; 0x00; 0x00; 0x00; 0x22; 0x11; 0x10; 0x80; 0x00; 0x00;
   0x13; 0x40; 0x9a; 0x00; 0x00; 0x00; 0x25; 0x01; 0x28; 0x00; 0x00; 0x00;
   0x18; 0x18; 0xc0; 0xc0; 0x00; 0x00; 0x0a; 0x20; 0x51; 0x00; 0x00; 0x00;
   0x88; 0x8c; 0x44; 0x40; 0x00; 0x00; 0x06; 0x80; 0x34; 0x00; 0x00; 0x00;
   0xe0; 0x27; 0x01; 0x00; 0x00; 0x00; 0x84; 0x44; 0x22; 0x00; 0x00; 0x00;
   0x44; 0x1a; 0x20; 0xc0; 0x00; 0x00; 0xd1; 0x06; 0x88; 0x00; 0x00; 0x00;
   0x44; 0x52; 0x22; 0x80; 0x00; 0x00; 0x10; 0x98; 0x84; 0xc0; 0x00; 0x00;
   0xa0; 0x55; 0x02; 0x80; 0x00; 0x00; 0x4a; 0x0a; 0x50; 0x40; 0x00; 0x00;
   0x40; 0x32; 0x01; 0x80; 0x00; 0x00; 0x80; 0x2c; 0x01; 0x40; 0x00; 0x00;
   0x0c; 0x90; 0x64; 0x80; 0x00; 0x00; 0x05; 0x88; 0x2c; 0x40; 0x00; 0x00;
   0x62; 0x23; 0x11; 0x00; 0x00; 0x00; 0x13; 0xc6; 0x6b; 0x40; 0x00; 0x00].

Definition kMaskRandom26_23 : list Z :=
  [0x51; 0x22; 0x89; 0x00; 0x00; 0x00; 0x22; 0x11; 0x10; 0x80; 0x00; 0x00;
   0x13; 0x40; 0x9a; 0x00; 0x00; 0x00; 0x25; 0x01; 0x28; 0x00; 0x00; 0x00;
   0x18; 0x18; 0xc0; 0xc0; 0x00; 0x00; 0x0a; 0x20; 0x51; 0x00; 0x00; 0x00;
   0x88; 0x8c; 0x44; 0x40; 0x00; 0x00; 0x06; 0x80; 0x34; 0x00; 0x00; 0x00;
   0xe0; 0x27; 0x01; 0x00; 0x00; 0x00; 0x84; 0x44; 0x22; 0x00; 0x00; 0x00;
   0x44; 0x1a; 0x20; 0xc0; 0x00; 0x00; 0x28; 0x29; 0x41; 0x40; 0x00; 0x00;
   0x84; 0x54; 0x22; 0x80; 0x00; 0x00; 0x60; 0x43; 0x02; 0x00; 0x00; 0x00;
   0x05; 0x48; 0x2a; 0x40; 0x00; 0x00; 0x02; 0x98; 0x14; 0xc0; 0x00; 0x00;
   0x01; 0x30; 0x09; 0x80; 0x00; 0x00; 0x48; 0x12; 0x40; 0x80; 0x00; 0x00;
   0x24; 0x81; 0x24; 0x00; 0x00; 0x00; 0x94; 0x04; 0xa0; 0x00; 0x00; 0x00;
   0x8a; 0x04; 0x50; 0x00; 0x00; 0x00; 0x11; 0x80; 0x8c; 0x00; 0x00; 0x00;
   0x52; 0x22; 0x91; 0x00; 0x00; 0x00].

Definition kMaskRandom26_24 : list Z :=
  [0x28; 0x29; 0x41; 0x40; 0x00; 0x00; 0x84; 0x54; 0x22; 0x80; 0x00; 0x00;
   0x60; 0x43; 0x02; 0x00; 0x00; 0x00; 0x05; 0x48; 0x2a; 0x40; 0x00; 0x00;
   0x02; 0x98; 0x14; 0xc0; 0x00; 0x00; 0x01; 0x30; 0x09; 0x80; 0x00; 0x00;
   0x48; 0x12; 0x40; 0x80; 0x00; 0x00; 0x24; 0x81; 0x24; 0x00; 0x00; 0x00;
   0x94; 0x04; 0xa0; 0x00; 0x00; 0x00; 0x8a; 0x04; 0x50; 0x00; 0x00; 0x00;
   0x11; 0x80; 0x8c; 0x00; 0x00; 0x00; 0x52; 0x22; 0x91; 0x00; 0x00; 0x00;
   0x51; 0x22; 0x89; 0x00; 0x00; 0x00; 0x22; 0x11; 0x10; 0x80; 0x00; 0x00;
   0x13; 0x40; 0x9a; 0x00; 0x00; 0x00; 0x25; 0x01; 0x28; 0x00; 0x00; 0x00;
   0x18; 0x18; 0xc0; 0xc0; 0x00; 0x00; 0x0a; 0x20; 0x51; 0x00; 0x00; 0x00;
   0x88; 0x8c; 0x44; 0x40; 0x00; 0x00; 0x06; 0x80; 0x34; 0x00; 0x00; 0x00;
   0xe0; 0x27; 0x01; 0x00; 0x00; 0x00; 0x84; 0x44; 0x22; 0x00; 0x00; 0x00;
   0x44; 0x1a; 0x20; 0xc0; 0x00; 0x00; 0xdb; 0x4d; 0xd8; 0x40; 0x00; 0x00].

Definition kMaskRandom26_25 : list Z :=
  [0x28; 0x29; 0x41; 0x40; 0x00; 0x00; 0x84; 0x54; 0x22; 0x80; 0x00; 0x00;
   0x60; 0x43; 0x02; 0x00; 0x00; 0x00; 0x05; 0x48; 0x2a; 0x40; 0x00; 0x00;
   0x02; 0x98; 0x14; 0xc0; 0x00; 0x00; 0x01; 0x30; 0x09; 0x80; 0x00; 0x00;
   0x48; 0x12; 0x40; 0x80; 0x00; 0x00; 0x24; 0x81; 0x24; 0x00; 0x00; 0x00;
   0x94; 0x04; 0xa0; 0x00; 0x00; 0x00; 0x8a; 0x04; 0x50; 0x00; 0x00; 0x00;
   0x11; 0x80; 0x8c; 0x00; 0x00; 0x00; 0x52; 0x22; 0x91; 0x00; 0x00; 0x00;
   0x51; 0x22; 0x89; 0x00; 0x00; 0x00; 0x66; 0x43; 0x32; 0x00; 0x00; 0x00;
   0x05; 0x48; 0x2a; 0x40; 0x00; 0x00; 0x81; 0x24; 0x09; 0x00; 0x00; 0x00;
   0x94; 0x04; 0xa0; 0x00; 0x00; 0x00; 0x30; 0x81; 0x84; 0x00; 0x00; 0x00;
   0x21; 0x11; 0x08; 0x80; 0x00; 0x00; 0x03; 0xc0; 0x1e; 0x00; 0x00; 0x00;
   0xe8; 0x07; 0x40; 0x00; 0x00; 0x00; 0x0a; 0x10; 0x50; 0x80; 0x00; 0x00;
   0x80; 0x1c; 0x00; 0xc0; 0x00; 0x00; 0x04; 0x90; 0x24; 0x80; 0x00; 0x00;
   0x08; 0xa8; 0x45; 0x40; 0x00; 0x00].

Definition kMaskRandom26_26 : list Z :=
  [0x51; 0x22; 0x89; 0x00; 0x00; 0x00; 0x66; 0x43; 0x32; 0x00; 0x00; 0x00;
   0x05; 0x48; 0x2a; 0x40; 0x00; 0x00; 0x81; 0x24; 0x09; 0x00; 0x00; 0x00;
   0x94; 0x04; 0xa0; 0x00; 0x00; 0x00; 0x30; 0x81; 0x84; 0x00; 0x00; 0x00;
   0x21; 0x11; 0x08; 0x80; 0x00; 0x00; 0x03; 0xc0; 0x1e; 0x00; 0x00; 0x00;
   0xe8; 0x07; 0x40; 0x00; 0x00; 0x00; 0x0a; 0x10; 0x50; 0x80; 0x00; 0x00;
   0x80; 0x1c; 0x00; 0xc0; 0x00; 0x00; 0x04; 0x90; 0x24; 0x80; 0x00; 0x00;
   0x08; 0xa8; 0x45; 0x40; 0x00; 0x00; 0x28; 0x29; 0x41; 0x40; 0x00; 0x00;
   0x84; 0x54; 0x22; 0x80; 0x00; 0x00; 0x60; 0x43; 0x02; 0x00; 0x00; 0x00;
   0x05; 0x48; 0x2a; 0x40; 0x00; 0x00; 0x02; 0x98; 0x14; 0xc0; 0x00; 0x00;
   0x01; 0x30; 0x09; 0x80; 0x00; 0x00; 0x48; 0x12; 0x40; 0x80; 0x00; 0x00;
   0x24; 0x81; 0x24; 0x00; 0x00; 0x00; 0x94; 0x04; 0xa0; 0x00; 0x00; 0x00;
   0x8a; 0x04; 0x50; 0x00; 0x00; 0x00; 0x11; 0x80; 0x8c; 0x00; 0x00; 0x00;
   0x52; 0x22; 0x91; 0x00; 0x00; 0x00; 0xf9; 0x13; 0x51; 0x80; 0x00; 0x00].

Definition kMaskRandom27_1 : list Z :=
  [0xff; 0xff; 0xff; 0xe0; 0x00; 0x00].

Definition kMaskRandom27_2 : list Z :=
  [0xec; 0xc7; 0x67; 0x40; 0x00; 0x00; 0x1b; 0x39; 0xdc; 0xe0; 0x00; 0x00].

Definition kMaskRandom27_3 : list Z :=
  [0x99; 0xb5; 0x66; 0xc0; 0x00; 0x00; 0x46; 0xda; 0xab; 0x60; 0x00; 0x00;
   0x37; 0x29; 0x3d; 0xa0; 0x00; 0x00].

Definition kMaskRandom27_4 : list Z :=
  [0x49; 0xb1; 0x66; 0xc0; 0x00; 0x00; 0x26; 0xd4; 0x9b; 0x40; 0x00; 0x00;
   0x85; 0x68; 0xd5; 0xa0; 0x00; 0x00; 0x52; 0x5a; 0x39; 0x60; 0x00; 0x00].

Definition kMaskRandom27_5 : list Z :=
  [0x51; 0x33; 0x26; 0xc0; 0x00; 0x00; 0x66; 0x45; 0x2b; 0x40; 0x00; 0x00;
   0x0c; 0x6a; 0x95; 0xa0; 0x00; 0x00; 0xa1; 0xc0; 0xed; 0x40; 0x00; 0x00;
   0x22; 0x9c; 0xe2; 0xa0; 0x00; 0x00].

Definition kMaskRandom27_6 : list Z :=
  [0xd1; 0x22; 0x52; 0xa0; 0x00; 0x00; 0x46; 0xd4; 0xaa; 0x40; 0x00; 0x00;
   0x15; 0x48; 0xa5; 0xa0; 0x00; 0x00; 0x21; 0x72; 0x8d; 0x40; 0x00; 0x00;
   0x28; 0xc9; 0x13; 0x60; 0x00; 0x00; 0xaa; 0x24; 0x44; 0x60; 0x00; 0x00].

Definition kMaskRandom27_7 : list Z :=
  [0x59; 0x23; 0x12; 0xa0; 0x00; 0x00; 0x26; 0x55; 0xc9; 0x00; 0x00; 0x00;
   0xb1; 0x40; 0xc5; 0xa0; 0x00; 0x00; 0x2b; 0x0a; 0xa4; 0xc0; 0x00; 0x00;
   0x14; 0xc8; 0x33; 0x60; 0x00; 0x00; 0xc8; 0x8c; 0x2a; 0xa0; 0x00; 0x00;
   0x84; 0xb5; 0x54; 0x40; 0x00; 0x00].

Definition kMaskRandom27_8 : list Z :=
  [0x80; 0xae; 0x00; 0xa0; 0x00; 0x00; 0x30; 0x92; 0x0b; 0x00; 0x00; 0x00;
   0x16; 0x0c; 0x41; 0x80; 0x00; 0x00; 0x03; 0x31; 0x05; 0x20; 0x00; 0x00;
   0x44; 0x60; 0x52; 0x40; 0x00; 0x00; 0x08; 0x18; 0x24; 0xc0; 0x00; 0x00;
   0xd8; 0x04; 0xa2; 0x00; 0x00; 0x00; 0xa1; 0x43; 0x90; 0x00; 0x00; 0x00].

Definition kMaskRandom27_9 : list Z :=
  [0x59; 0x25; 0x12; 0xa0; 0x00; 0x00; 0x66; 0x41; 0xa3; 0x00; 0x00; 0x00;
   0x14; 0x42; 0x51; 0x20; 0x00; 0x00; 0x21; 0x49; 0x05; 0x40; 0x00; 0x00;
   0x02; 0xc8; 0x8c; 0x20; 0x00; 0x00; 0x94; 0x12; 0x48; 0x40; 0x00; 0x00;
   0x80; 0xac; 0x30; 0x60; 0x00; 0x00; 0x0a; 0x91; 0x06; 0xa0; 0x00; 0x00;
   0x40; 0x1c; 0x42; 0x40; 0x00; 0x00].

Definition kMaskRandom27_10 : list Z :=
  [0xd1; 0x06; 0x06; 0xa0; 0x00; 0x00; 0x44; 0x50; 0xea; 0x00; 0x00; 0x00;
   0x10; 0x9e; 0xa0; 0x40; 0x00; 0x00; 0xa0; 0x50; 0x13; 0x00; 0x00; 0x00;
   0x4a; 0x08; 0x21; 0x40; 0x00; 0x00; 0x40; 0x31; 0x04; 0xc0; 0x00; 0x00;
   0x80; 0x2a; 0x02; 0x20; 0x00; 0x00; 0x0c; 0x90; 0x44; 0x20; 0x00; 0x00;
   0x05; 0x8b; 0x40; 0x00; 0x00; 0x00; 0x62; 0x21; 0x18; 0x80; 0x00; 0x00].

Definition kMaskRandom27_11 : list Z :=
  [0x51; 0x23; 0x16; 0x80; 0x00; 0x00; 0x22; 0x11; 0xa9; 0x00; 0x00; 0x00;
   0x13; 0x40; 0xa0; 0xa0; 0x00; 0x00; 0x25; 0x06; 0x28; 0x40; 0x00; 0x00;
   0x18; 0x19; 0x10; 0x60; 0x00; 0x00; 0x0a; 0x24; 0x45; 0xc0; 0x00; 0x00;
   0x88; 0x8a; 0x12; 0xa0; 0x00; 0x00; 0x06; 0x81; 0x45; 0x20; 0x00; 0x00;
   0xe0; 0x24; 0xa1; 0x00; 0x00; 0x00; 0x84; 0x40; 0xd8; 0x20; 0x00; 0x00;
   0x44; 0x19; 0x16; 0x00; 0x00; 0x00].

Definition kMaskRandom27_12 : list Z :=
  [0x28; 0x2c; 0x08; 0x20; 0x00; 0x00; 0x84; 0x52; 0x03; 0x40; 0x00; 0x00;
   0x60; 0x44; 0x81; 0x20; 0x00; 0x00; 0x05; 0x49; 0x41; 0x40; 0x00; 0x00;
   0x02; 0x9a; 0x90; 0x80; 0x00; 0x00; 0x01; 0x32; 0x0c; 0x40; 0x00; 0x00;
   0x48; 0x10; 0x49; 0x80; 0x00; 0x00; 0x24; 0x82; 0x42; 0x20; 0x00; 0x00;
   0x94; 0x00; 0x22; 0x20; 0x00; 0x00; 0x8a; 0x00; 0x74; 0x00; 0x00; 0x00;
   0x11; 0x85; 0x2c; 0x80; 0x00; 0x00; 0x52; 0x20; 0x90; 0x60; 0x00; 0x00].

Definition kMaskRandom27_13 : list Z :=
  [0x51; 0x23; 0x12; 0xa0; 0x00; 0x00; 0x66; 0x41; 0xa3; 0x00; 0x00; 0x00;
   0x05; 0x4a; 0x40; 0x20; 0x00; 0x00; 0x81; 0x20; 0x05; 0x60; 0x00; 0x00;
   0x94; 0x01; 0x40; 0x40; 0x00; 0x00; 0x30; 0x84; 0x08; 0x40; 0x00; 0x00;
   0x21; 0x11; 0x18; 0x20; 0x00; 0x00; 0x03; 0xc0; 0x34; 0x00; 0x00; 0x00;
   0xe8; 0x04; 0x00; 0xa0; 0x00; 0x00; 0x0a; 0x11; 0x80; 0x80; 0x00; 0x00;
   0x80; 0x1c; 0x61; 0x00; 0x00; 0x00; 0x04; 0x92; 0xa0; 0x00; 0x00; 0x00;
   0x08; 0xac; 0x06; 0x00; 0x00; 0x00].

Definition kMaskRandom27_14 : list Z :=
  [0x59; 0x23; 0x12; 0xa0; 0x00; 0x00; 0x26; 0x55; 0xc9; 0x00; 0x00; 0x00;
   0xb1; 0x40; 0xc5; 0xa0; 0x00; 0x00; 0x2b; 0x0a; 0xa4; 0xc0; 0x00; 0x00;
   0x14; 0xc8; 0x33; 0x60; 0x00; 0x00; 0xc8; 0x8c; 0x2a; 0xa0; 0x00; 0x00;
   0x84; 0xb5; 0x54; 0x40; 0x00; 0x00; 0xd1; 0x22; 0x52; 0xa0; 0x00; 0x00;
   0x46; 0xd4; 0xaa; 0x40; 0x00; 0x00; 0x15; 0x48; 0xa5; 0xa0; 0x00; 0x00;
   0x21; 0x72; 0x8d; 0x40; 0x00; 0x00; 0x28; 0xc9; 0x13; 0x60; 0x00; 0x00;
   0xaa; 0x24; 0x44; 0x60; 0x00; 0x00; 0x0a; 0xe7; 0x3b; 0x20; 0x00; 0x00].

Definition kMaskRandom27_15 : list Z :=
  [0x59; 0x23; 0x12; 0xa0; 0x00; 0x00; 0x26; 0x55; 0xc9; 0x00; 0x00; 0x00;
   0xb1; 0x40; 0xc5; 0xa0; 0x00; 0x00; 0x2b; 0x0a; 0xa4; 0xc0; 0x00; 0x00;
   0x14; 0xc8; 0x33; 0x60; 0x00; 0x00; 0xc8; 0x8c; 0x2a; 0xa0; 0x00; 0x00;
   0x84; 0xb5; 0x54; 0x40; 0x00; 0x00; 0x80; 0xae; 0x00; 0xa0; 0x00; 0x00;
   0x30; 0x92; 0x0b; 0x00; 0x00; 0x00; 0x16; 0x0c; 0x41; 0x80; 0x00; 0x00;
   0x03; 0x31; 0x05; 0x20; 0x00; 0x00; 0x44; 0x60; 0x52; 0x40; 0x00; 0x00;
   0x08; 0x18; 0x24; 0xc0; 0x00; 0x00; 0xd8; 0x04; 0xa2; 0x00; 0x00; 0x00;
   0xa1; 0x43; 0x90; 0x00; 0x00; 0x00].

Definition kMaskRandom27_16 : list Z :=
  [0x80; 0xae; 0x00; 0xa0; 0x00; 0x00; 0x30; 0x92; 0x0b; 0x00; 0x00; 0x00;
   0x16; 0x0c; 0x41; 0x80; 0x00; 0x00; 0x03; 0x31; 0x05; 0x20; 0x00; 0x00;
   0x44; 0x60; 0x52; 0x40; 0x00; 0x00; 0x08; 0x18; 0x24; 0xc0; 0x00; 0x00;
   0xd8; 0x04; 0xa2; 0x00; 0x00; 0x00; 0xa1; 0x43; 0x90; 0x00; 0x00; 0x00;
   0x59; 0x23; 0x12; 0xa0; 0x00; 0x00; 0x26; 0x55; 0xc9; 0x00; 0x00; 0x00;
   0xb1; 0x40; 0xc5; 0xa0; 0x00; 0x00; 0x2b; 0x0a; 0xa4; 0xc0; 0x00; 0x00;
   0x14; 0xc8; 0x33; 0x60; 0x00; 0x00; 0xc8; 0x8c; 0x2a; 0xa0; 0x00; 0x00;
   0x84; 0xb5; 0x54; 0x40; 0x00; 0x00; 0x01; 0x50; 0xfb; 0xe0; 0x00; 0x00].

Definition kMaskRandom27_17 : list Z :=
  [0x80; 0xae; 0x00; 0xa0; 0x00; 0x00; 0x30; 0x92; 0x0b; 0x00; 0x00; 0x00;
   0x16; 0x0c; 0x41; 0x80; 0x00; 0x00; 0x03; 0x31; 0x05; 0x20; 0x00; 0x00;
   0x44; 0x60; 0x52; 0x40; 0x00; 0x00; 0x08; 0x18; 0x24; 0xc0; 0x00; 0x00;
   0xd8; 0x04; 0xa2; 0x00; 0x00; 0x00; 0xa1; 0x43; 0x90; 0x00; 0x00; 0x00;
   0x59; 0x25; 0x12; 0xa0; 0x00; 0x00; 0x66; 0x41; 0xa3; 0x00; 0x00; 0x00;
   0x14; 0x42; 0x51; 0x20; 0x00; 0x00; 0x21; 0x49; 0x05; 0x40; 0x00; 0x00;
   0x02; 0xc8; 0x8c; 0x20; 0x00; 0x00; 0x94; 0x12; 0x48; 0x40; 0x00; 0x00;
   0x80; 0xac; 0x30; 0x60; 0x00; 0x00; 0x0a; 0x91; 0x06; 0xa0; 0x00; 0x00;
   0x40; 0x1c; 0x42; 0x40; 0x00; 0x00].

Definition kMaskRandom27_18 : list Z :=
  [0x59; 0x25; 0x12; 0xa0; 0x00; 0x00; 0x66; 0x41; 0xa3; 0x00; 0x00; 0x00;
   0x14; 0x42; 0x51; 0x20; 0x00; 0x00; 0x21; 0x49; 0x05; 0x40; 0x00; 0x00;
   0x02; 0xc8; 0x8c; 0x20; 0x00; 0x00; 0x94; 0x12; 0x48; 0x40; 0x00; 0x00;
   0x80; 0xac; 0x30; 0x60; 0x00; 0x00; 0x0a; 0x91; 0x06; 0xa0; 0x00; 0x00;
   0x40; 0x1c; 0x42; 0x40; 0x00; 0x00; 0x80; 0xae; 0x00; 0xa0; 0x00; 0x00;
   0x30; 0x92; 0x0b; 0x00; 0x00; 0x00; 0x16; 0x0c; 0x41; 0x80; 0x00; 0x00;
   0x03; 0x31; 0x05; 0x20; 0x00; 0x00; 0x44; 0x60; 0x52; 0x40; 0x00; 0x00;
   0x08; 0x18; 0x24; 0xc0; 0x00; 0x00; 0xd8; 0x04; 0xa2; 0x00; 0x00; 0x00;
   0xa1; 0x43; 0x90; 0x00; 0x00; 0x00; 0x53; 0xc3; 0x33; 0x80; 0x00; 0x00].

Definition kMaskRandom27_19 : list Z :=
  [0x59; 0x25; 0x12; 0xa0; 0x00; 0x00; 0x66; 0x41; 0xa3; 0x00; 0x00; 0x00;
   0x14; 0x42; 0x51; 0x20; 0x00; 0x00; 0x21; 0x49; 0x05; 0x40; 0x00; 0x00;
   0x02; 0xc8; 0x8c; 0x20; 0x00; 0x00; 0x94; 0x12; 0x48; 0x40; 0x00; 0x00;
   0x80; 0xac; 0x30; 0x60; 0x00; 0x00; 0x0a; 0x91; 0x06; 0xa0; 0x00; 0x00;
   0x40; 0x1c; 0x42; 0x40; 0x00; 0x00; 0xd1; 0x06; 0x06; 0xa0; 0x00; 0x00;
   0x44; 0x50; 0xea; 0x00; 0x00; 0x00; 0x10; 0x9e; 0xa0; 0x40; 0x00; 0x00;
   0xa0; 0x50; 0x13; 0x00; 0x00; 0x00; 0x4a; 0x08; 0x21; 0x40; 0x00; 0x00;
   0x40; 0x31; 0x04; 0xc0; 0x00; 0x00; 0x80; 0x2a; 0x02; 0x20; 0x00; 0x00;
   0x0c; 0x90; 0x44; 0x20; 0x00; 0x00; 0x05; 0x8b; 0x40; 0x00; 0x00; 0x00;
   0x62; 0x21; 0x18; 0x80; 0x00; 0x00].

Definition kMaskRandom27_20 : list Z :=
  [0xd1; 0x06; 0x06; 0xa0; 0x00; 0x00; 0x44; 0x50; 0xea; 0x00; 0x00; 0x00;
   0x10; 0x9e; 0xa0; 0x40; 0x00; 0x00; 0xa0; 0x50; 0x13; 0x00; 0x00; 0x00;
   0x4a; 0x08; 0x21; 0x40; 0x00; 0x00; 0x40; 0x31; 0x04; 0xc0; 0x00; 0x00;
   0x80; 0x2a; 0x02; 0x20; 0x00; 0x00; 0x0c; 0x90; 0x44; 0x20; 0x00; 0x00;
   0x05; 0x8b; 0x40; 0x00; 0x00; 0x00; 0x62; 0x21; 0x18; 0x80; 0x00; 0x00;
   0x59; 0x25; 0x12; 0xa0; 0x00; 0x00; 0x66; 0x41; 0xa3; 0x00; 0x00; 0x00;
   0x14; 0x42; 0x51; 0x20; 0x00; 0x00; 0x21; 0x49; 0x05; 0x40; 0x00; 0x00;
   0x02; 0xc8; 0x8c; 0x20; 0x00; 0x00; 0x94; 0x12; 0x48; 0x40; 0x00; 0x00;
   0x80; 0xac; 0x30; 0x60; 0x00; 0x00; 0x0a; 0x91; 0x06; 0xa0; 0x00; 0x00;
   0x40; 0x1c; 0x42; 0x40; 0x00; 0x00; 0xcb; 0xff; 0x6f; 0xc0; 0x00; 0x00].

Definition kMaskRandom27_21 : list Z :=
  [0xd1; 0x06; 0x06; 0xa0; 0x00; 0x00; 0x44; 0x50; 0xea; 0x00; 0x00; 0x00;
   0x10; 0x9e; 0xa0; 0x40; 0x00; 0x00; 0xa0; 0x50; 0x13; 0x00; 0x00; 0x00;
   0x4a; 0x08; 0x21; 0x40; 0x00; 0x00; 0x40; 0x31; 0x04; 0xc0; 0x00; 0x00;
   0x80; 0x2a; 0x02; 0x20; 0x00; 0x00; 0x0c; 0x90; 0x44; 0x20; 0x00; 0x00;
   0x05; 0x8b; 0x40; 0x00; 0x00; 0x00; 0x62; 0x21; 0x18; 0x80; 0x00; 0x00;
   0x51; 0x23; 0x16; 0x80; 0x00; 0x00; 0x22; 0x11; 0xa9; 0x00; 0x00; 0x00;
   0x13; 0x40; 0xa0; 0xa0; 0x00; 0x00; 0x25; 0x06; 0x28; 0x40; 0x00; 0x00;
   0x18; 0x19; 0x10; 0x60; 0x00; 0x00; 0x0a; 0x24; 0x45; 0xc0; 0x00; 0x00;
   0x88; 0x8a; 0x12; 0xa0; 0x00; 0x00; 0x06; 0x81; 0x45; 0x20; 0x00; 0x00;
   0xe0; 0x24; 0xa1; 0x00; 0x00; 0x00; 0x84; 0x40; 0xd8; 0x20; 0x00; 0x00;
   0x44; 0x19; 0x16; 0x00; 0x00; 0x00].

Definition kMaskRandom27_22 : list Z :=
  [0x51; 0x23; 0x16; 0x80; 0x00; 0x00; 0x22; 0x11; 0xa9; 0x00; 0x00; 0x00;
   0x13; 0x40; 0xa0; 0xa0; 0x00; 0x00; 0x25; 0x06; 0x28; 0x40; 0x00; 0x00;
   0x18; 0x19; 0x10; 0x60; 0x00; 0x00; 0x0a; 0x24; 0x45; 0xc0; 0x00; 0x00;
   0x88; 0x8a; 0x12; 0xa0; 0x00; 0x00; 0x06; 0x81; 0x45; 0x20; 0x00; 0x00;
   0xe0; 0x24; 0xa1; 0x00; 0x00; 0x00; 0x84; 0x40; 0xd8; 0x20; 0x00; 0x00;
   0x44; 0x19; 0x16; 0x00; 0x00; 0x00; 0xd1; 0x06; 0x06; 0xa0; 0x00; 0x00;
   0x44; 0x50; 0xea; 0x00; 0x00; 0x00; 0x10; 0x9e; 0xa0; 0x40; 0x00; 0x00;
   0xa0; 0x50; 0x13; 0x00; 0x00; 0x00; 0x4a; 0x08; 0x21; 0x40; 0x00; 0x00;
   0x40; 0x31; 0x04; 0xc0; 0x00; 0x00; 0x80; 0x2a; 0x02; 0x20; 0x00; 0x00;
   0x0c; 0x90; 0x44; 0x20; 0x00; 0x00; 0x05; 0x8b; 0x40; 0x00; 0x00; 0x00;
   0x62; 0x21; 0x18; 0x80; 0x00; 0x00; 0xf5; 0x2d; 0x52; 0x40; 0x00; 0x00].

Definition kMaskRandom27_23 : list Z :=
  [0x51; 0x23; 0x16; 0x80; 0x00; 0x00; 0x22; 0x11; 0xa9; 0x00; 0x00; 0x00;
   0x13; 0x40; 0xa0; 0xa0; 0x00; 0x00; 0x25; 0x06; 0x28; 0x40; 0x00; 0x00;
   0x18; 0x19; 0x10; 0x60; 0x00; 0x00; 0x0a; 0x24; 0x45; 0xc0; 0x00; 0x00;
   0x88; 0x8a; 0x12; 0xa0; 0x00; 0x00; 0x06; 0x81; 0x45; 0x20; 0x00; 0x00;
   0xe0; 0x24; 0xa1; 0x00; 0x00; 0x00; 0x84; 0x40; 0xd8; 0x20; 0x00; 0x00;
   0x44; 0x19; 0x16; 0x00; 0x00; 0x00; 0x28; 0x2c; 0x08; 0x20; 0x00; 0x00;
   0x84; 0x52; 0x03; 0x40; 0x00; 0x00; 0x60; 0x44; 0x81; 0x20; 0x00; 0x00;
   0x05; 0x49; 0x41; 0x40; 0x00; 0x00; 0x02; 0x9a; 0x90; 0x80; 0x00; 0x00;
   0x01; 0x32; 0x0c; 0x40; 0x00; 0x00; 0x48; 0x10; 0x49; 0x80; 0x00; 0x00;
   0x24; 0x82; 0x42; 0x20; 0x00; 0x00; 0x94; 0x00; 0x22; 0x20; 0x00; 0x00;
   0x8a; 0x00; 0x74; 0x00; 0x00; 0x00; 0x11; 0x85; 0x2c; 0x80; 0x00; 0x00;
   0x52; 0x20; 0x90; 0x60; 0x00; 0x00].

Definition kMaskRandom27_24 : list Z :=
  [0x28; 0x2c; 0x08; 0x20; 0x00; 0x00; 0x84; 0x52; 0x03; 0x40; 0x00; 0x00;
   0x60; 0x44; 0x81; 0x20; 0x00; 0x00; 0x05; 0x49; 0x41; 0x40; 0x00; 0x00;
   0x02; 0x9a; 0x90; 0x80; 0x00; 0x00; 0x01; 0x32; 0x0c; 0x40; 0x00; 0x00;
   0x48; 0x10; 0x49; 0x80; 0x00; 0x00; 0x24; 0x82; 0x42; 0x20; 0x00; 0x00;
   0x94; 0x00; 0x22; 0x20; 0x00; 0x00; 0x8a; 0x00; 0x74; 0x00; 0x00; 0x00;
   0x11; 0x85; 0x2c; 0x80; 0x00; 0x00; 0x52; 0x20; 0x90; 0x60; 0x00; 0x00;
   0x51; 0x23; 0x16; 0x80; 0x00; 0x00; 0x22; 0x11; 0xa9; 0x00; 0x00; 0x00;
   0x13; 0x40; 0xa0; 0xa0; 0x00; 0x00; 0x25; 0x06; 0x28; 0x40; 0x00; 0x00;
   0x18; 0x19; 0x10; 0x60; 0x00; 0x00; 0x0a; 0x24; 0x45; 0xc0; 0x00; 0x00;
   0x88; 0x8a; 0x12; 0xa0; 0x00; 0x00; 0x06; 0x81; 0x45; 0x20; 0x00; 0x00;
   0xe0; 0x24; 0xa1; 0x00; 0x00; 0x00; 0x84; 0x40; 0xd8; 0x20; 0x00; 0x00;
   0x44; 0x19; 0x16; 0x00; 0x00; 0x00; 0xa2; 0x85; 0xdb; 0xa0; 0x00; 0x00].

Definition kMaskRandom27_25 : list Z :=
  [0x28; 0x2c; 0x08; 0x20; 0x00; 0x00; 0x84; 0x52; 0x03; 0x40; 0x00; 0x00;
   0x60; 0x44; 0x81; 0x20; 0x00; 0x00; 0x05; 0x49; 0x41; 0x40; 0x00; 0x00;
   0x02; 0x9a; 0x90; 0x80; 0x00; 0x00; 0x01; 0x32; 0x0c; 0x40; 0x00; 0x00;
   0x48; 0x10; 0x49; 0x80; 0x00; 0x00; 0x24; 0x82; 0x42; 0x20; 0x00; 0x00;
   0x94; 0x00; 0x22; 0x20; 0x00; 0x00; 0x8a; 0x00; 0x74; 0x00; 0x00; 0x00;
   0x11; 0x85; 0x2c; 0x80; 0x00; 0x00; 0x52; 0x20; 0x90; 0x60; 0x00; 0x00;
   0x51; 0x23; 0x12; 0xa0; 0x00; 0x00; 0x66; 0x41; 0xa3; 0x00; 0x00; 0x00;
   0x05; 0x4a; 0x40; 0x20; 0x00; 0x00; 0x81; 0x20; 0x05; 0x60; 0x00; 0x00;
   0x94; 0x01; 0x40; 0x40; 0x00; 0x00; 0x30; 0x84; 0x08; 0x40; 0x00; 0x00;
   0x21; 0x11; 0x18; 0x20; 0x00; 0x00; 0x03; 0xc0; 0x34; 0x00; 0x00; 0x00;
   0xe8; 0x04; 0x00; 0xa0; 0x00; 0x00; 0x0a; 0x11; 0x80; 0x80; 0x00; 0x00;
   0x80; 0x1c; 0x61; 0x00; 0x00; 0x00; 0x04; 0x92; 0xa0; 0x00; 0x00; 0x00;
   0x08; 0xac; 0x06; 0x00; 0x00; 0x00].

Definition kMaskRandom27_26 : list Z :=
  [0x51; 0x23; 0x12; 0xa0; 0x00; 0x00; 0x66; 0x41; 0xa3; 0x00; 0x00; 0x00;
   0x05; 0x4a; 0x40; 0x20; 0x00; 0x00; 0x81; 0x20; 0x05; 0x60; 0x00; 0x00;
   0x94; 0x01; 0x40; 0x40; 0x00; 0x00; 0x30; 0x84; 0x08; 0x40; 0x00; 0x00;
   0x21; 0x11; 0x18; 0x20; 0x00; 0x00; 0x03; 0xc0; 0x34; 0x00; 0x00; 0x00;
   0xe8; 0x04; 0x00; 0xa0; 0x00; 0x00; 0x0a; 0x11; 0x80; 0x80; 0x00; 0x00;
   0x80; 0x1c; 0x61; 0x00; 0x00; 0x00; 0x04; 0x92; 0xa0; 0x00; 0x00; 0x00;
   0x08; 0xac; 0x06; 0x00; 0x00; 0x00; 0x28; 0x2c; 0x08; 0x20; 0x00; 0x00;
   0x84; 0x52; 0x03; 0x40; 0x00; 0x00; 0x60; 0x44; 0x81; 0x20; 0x00; 0x00;
   0x05; 0x49; 0x41; 0x40; 0x00; 0x00; 0x02; 0x9a; 0x90; 0x80; 0x00; 0x00;
   0x01; 0x32; 0x0c; 0x40; 0x00; 0x00; 0x48; 0x10; 0x49; 0x80; 0x00; 0x00;
   0x24; 0x82; 0x42; 0x20; 0x00; 0x00; 0x94; 0x00; 0x22; 0x20; 0x00; 0x00;
   0x8a; 0x00; 0x74; 0x00; 0x00; 0x00; 0x11; 0x85; 0x2c; 0x80; 0x00; 0x00;
   0x52; 0x20; 0x90; 0x60; 0x00; 0x00; 0xcd; 0x41; 0xa2; 0x40; 0x00; 0x00].

Definition kMaskRandom27_27 : list Z :=
  [0x51; 0x23; 0x12; 0xa0; 0x00; 0x00; 0x66; 0x41; 0xa3; 0x00; 0x00; 0x00;
   0x05; 0x4a; 0x40; 0x20; 0x00; 0x00; 0x81; 0x20; 0x05; 0x60; 0x00; 0x00;
   0x94; 0x01; 0x40; 0x40; 0x00; 0x00; 0x30; 0x84; 0x08; 0x40; 0x00; 0x00;
   0x21; 0x11; 0x18; 0x20; 0x00; 0x00; 0x03; 0xc0; 0x34; 0x00; 0x00; 0x00;
   0xe8; 0x04; 0x00; 0xa0; 0x00; 0x00; 0x0a; 0x11; 0x80; 0x80; 0x00; 0x00;
   0x80; 0x1c; 0x61; 0x00; 0x00; 0x00; 0x04; 0x92; 0xa0; 0x00; 0x00; 0x00;
   0x08; 0xac; 0x06; 0x00; 0x00; 0x00; 0x51; 0x22; 0x02; 0xa0; 0x00; 0x00;
   0x66; 0x40; 0xaa; 0x00; 0x00; 0x00; 0x05; 0x4e; 0x00; 0x20; 0x00; 0x00;
   0x81; 0x21; 0x40; 0x80; 0x00; 0x00; 0x94; 0x00; 0x28; 0x60; 0x00; 0x00;
   0x30; 0x83; 0x24; 0x00; 0x00; 0x00; 0x21; 0x14; 0x0c; 0x00; 0x00; 0x00;
   0x03; 0xc0; 0x84; 0xc0; 0x00; 0x00; 0xe8; 0x04; 0x21; 0x00; 0x00; 0x00;
   0x0a; 0x10; 0x91; 0x80; 0x00; 0x00; 0x80; 0x1b; 0x10; 0x00; 0x00; 0x00;
   0x04; 0x91; 0x43; 0x00; 0x00; 0x00; 0x08; 0xa8; 0x70; 0x40; 0x00; 0x00;
   0x9c; 0xc0; 0x84; 0x20; 0x00; 0x00].

Definition kMaskRandom28_1 : list Z :=
  [0xff; 0xff; 0xff; 0xf0; 0x00; 0x00].

Definition kMaskRandom28_2 : list Z :=
  [0xec; 0xeb; 0xb3; 0xa0; 0x00; 0x00; 0x3b; 0x9c; 0xee; 0x70; 0x00; 0x00].

Definition kMaskRandom28_3 : list Z :=
  [0xac; 0xda; 0xb3; 0x60; 0x00; 0x00; 0x55; 0x6d; 0x55; 0xb0; 0x00; 0x00;
   0x27; 0xb4; 0x9e; 0xd0; 0x00; 0x00].

Definition kMaskRandom28_4 : list Z :=
  [0x2c; 0xd8; 0xb3; 0x60; 0x00; 0x00; 0x93; 0x6a; 0x4d; 0xa0; 0x00; 0x00;
   0x1a; 0xb4; 0x6a; 0xd0; 0x00; 0x00; 0x47; 0x2d; 0x1c; 0xb0; 0x00; 0x00].

Definition kMaskRandom28_5 : list Z :=
  [0x64; 0xd9; 0x93; 0x60; 0x00; 0x00; 0xa5; 0x6a; 0x95; 0xa0; 0x00; 0x00;
   0x52; 0xb5; 0x4a; 0xd0; 0x00; 0x00; 0x1d; 0xa8; 0x76; 0xa0; 0x00; 0x00;
   0x9c; 0x56; 0x71; 0x50; 0x00; 0x00].

Definition kMaskRandom28_6 : list Z :=
  [0x4a; 0x55; 0x29; 0x50; 0x00; 0x00; 0x95; 0x4a; 0x55; 0x20; 0x00; 0x00;
   0x14; 0xb4; 0x52; 0xd0; 0x00; 0x00; 0x51; 0xa9; 0x46; 0xa0; 0x00; 0x00;
   0x22; 0x6c; 0x89; 0xb0; 0x00; 0x00; 0x88; 0x8e; 0x22; 0x30; 0x00; 0x00].

Definition kMaskRandom28_7 : list Z :=
  [0x62; 0x55; 0x89; 0x50; 0x00; 0x00; 0xb9; 0x22; 0xe4; 0x80; 0x00; 0x00;
   0x18; 0xb4; 0x62; 0xd0; 0x00; 0x00; 0x54; 0x99; 0x52; 0x60; 0x00; 0x00;
   0x06; 0x6c; 0x19; 0xb0; 0x00; 0x00; 0x85; 0x56; 0x15; 0x50; 0x00; 0x00;
   0xaa; 0x8a; 0xaa; 0x20; 0x00; 0x00].

Definition kMaskRandom28_8 : list Z :=
  [0xc0; 0x17; 0x00; 0x50; 0x00; 0x00; 0x41; 0x61; 0x05; 0x80; 0x00; 0x00;
   0x88; 0x32; 0x20; 0xc0; 0x00; 0x00; 0x20; 0xa4; 0x82; 0x90; 0x00; 0x00;
   0x0a; 0x48; 0x29; 0x20; 0x00; 0x00; 0x04; 0x98; 0x12; 0x60; 0x00; 0x00;
   0x94; 0x42; 0x51; 0x00; 0x00; 0x00; 0x72; 0x01; 0xc8; 0x00; 0x00; 0x00].

Definition kMaskRandom28_9 : list Z :=
  [0xa2; 0x56; 0x89; 0x50; 0x00; 0x00; 0x34; 0x60; 0xd1; 0x80; 0x00; 0x00;
   0x4a; 0x25; 0x28; 0x90; 0x00; 0x00; 0x20; 0xa8; 0x82; 0xa0; 0x00; 0x00;
   0x11; 0x84; 0x46; 0x10; 0x00; 0x00; 0x49; 0x09; 0x24; 0x20; 0x00; 0x00;
   0x86; 0x0e; 0x18; 0x30; 0x00; 0x00; 0x20; 0xd4; 0x83; 0x50; 0x00; 0x00;
   0x88; 0x4a; 0x21; 0x20; 0x00; 0x00].

Definition kMaskRandom28_10 : list Z :=
  [0xc0; 0xd7; 0x03; 0x50; 0x00; 0x00; 0x1d; 0x40; 0x75; 0x00; 0x00; 0x00;
   0xd4; 0x0b; 0x50; 0x20; 0x00; 0x00; 0x02; 0x60; 0x09; 0x80; 0x00; 0x00;
   0x04; 0x28; 0x10; 0xa0; 0x00; 0x00; 0x20; 0x98; 0x82; 0x60; 0x00; 0x00;
   0x40; 0x45; 0x01; 0x10; 0x00; 0x00; 0x08; 0x84; 0x22; 0x10; 0x00; 0x00;
   0x68; 0x01; 0xa0; 0x00; 0x00; 0x00; 0x23; 0x10; 0x8c; 0x40; 0x00; 0x00].

Definition kMaskRandom28_11 : list Z :=
  [0x62; 0xd1; 0x8b; 0x40; 0x00; 0x00; 0x35; 0x20; 0xd4; 0x80; 0x00; 0x00;
   0x14; 0x14; 0x50; 0x50; 0x00; 0x00; 0xc5; 0x0b; 0x14; 0x20; 0x00; 0x00;
   0x22; 0x0c; 0x88; 0x30; 0x00; 0x00; 0x88; 0xba; 0x22; 0xe0; 0x00; 0x00;
   0x42; 0x55; 0x09; 0x50; 0x00; 0x00; 0x28; 0xa4; 0xa2; 0x90; 0x00; 0x00;
   0x94; 0x22; 0x50; 0x80; 0x00; 0x00; 0x1b; 0x04; 0x6c; 0x10; 0x00; 0x00;
   0x22; 0xc0; 0x8b; 0x00; 0x00; 0x00].

Definition kMaskRandom28_12 : list Z :=
  [0x81; 0x06; 0x04; 0x10; 0x00; 0x00; 0x40; 0x69; 0x01; 0xa0; 0x00; 0x00;
   0x90; 0x26; 0x40; 0x90; 0x00; 0x00; 0x28; 0x28; 0xa0; 0xa0; 0x00; 0x00;
   0x52; 0x11; 0x48; 0x40; 0x00; 0x00; 0x41; 0x89; 0x06; 0x20; 0x00; 0x00;
   0x09; 0x30; 0x24; 0xc0; 0x00; 0x00; 0x48; 0x45; 0x21; 0x10; 0x00; 0x00;
   0x04; 0x44; 0x11; 0x10; 0x00; 0x00; 0x0e; 0x80; 0x3a; 0x00; 0x00; 0x00;
   0xa5; 0x92; 0x96; 0x40; 0x00; 0x00; 0x12; 0x0c; 0x48; 0x30; 0x00; 0x00].

Definition kMaskRandom28_13 : list Z :=
  [0x62; 0x55; 0x89; 0x50; 0x00; 0x00; 0x34; 0x60; 0xd1; 0x80; 0x00; 0x00;
   0x48; 0x05; 0x20; 0x10; 0x00; 0x00; 0x00; 0xac; 0x02; 0xb0; 0x00; 0x00;
   0x28; 0x08; 0xa0; 0x20; 0x00; 0x00; 0x81; 0x0a; 0x04; 0x20; 0x00; 0x00;
   0x23; 0x04; 0x8c; 0x10; 0x00; 0x00; 0x06; 0x80; 0x1a; 0x00; 0x00; 0x00;
   0x80; 0x16; 0x00; 0x50; 0x00; 0x00; 0x30; 0x10; 0xc0; 0x40; 0x00; 0x00;
   0x8c; 0x22; 0x30; 0x80; 0x00; 0x00; 0x54; 0x01; 0x50; 0x00; 0x00; 0x00;
   0x80; 0xc2; 0x03; 0x00; 0x00; 0x00].

Definition kMaskRandom28_14 : list Z :=
  [0x40; 0x55; 0x01; 0x50; 0x00; 0x00; 0x15; 0x40; 0x55; 0x00; 0x00; 0x00;
   0xc0; 0x07; 0x00; 0x10; 0x00; 0x00; 0x28; 0x10; 0xa0; 0x40; 0x00; 0x00;
   0x05; 0x0c; 0x14; 0x30; 0x00; 0x00; 0x64; 0x81; 0x92; 0x00; 0x00; 0x00;
   0x81; 0x82; 0x06; 0x00; 0x00; 0x00; 0x10; 0x98; 0x42; 0x60; 0x00; 0x00;
   0x84; 0x22; 0x10; 0x80; 0x00; 0x00; 0x12; 0x30; 0x48; 0xc0; 0x00; 0x00;
   0x62; 0x01; 0x88; 0x00; 0x00; 0x00; 0x28; 0x60; 0xa1; 0x80; 0x00; 0x00;
   0x0e; 0x08; 0x38; 0x20; 0x00; 0x00; 0x10; 0x84; 0x42; 0x10; 0x00; 0x00].

Definition kMaskRandom28_15 : list Z :=
  [0x62; 0x55; 0x89; 0x50; 0x00; 0x00; 0xb9; 0x22; 0xe4; 0x80; 0x00; 0x00;
   0x18; 0xb4; 0x62; 0xd0; 0x00; 0x00; 0x54; 0x99; 0x52; 0x60; 0x00; 0x00;
   0x06; 0x6c; 0x19; 0xb0; 0x00; 0x00; 0x85; 0x56; 0x15; 0x50; 0x00; 0x00;
   0xaa; 0x8a; 0xaa; 0x20; 0x00; 0x00; 0xc0; 0x17; 0x00; 0x50; 0x00; 0x00;
   0x41; 0x61; 0x05; 0x80; 0x00; 0x00; 0x88; 0x32; 0x20; 0xc0; 0x00; 0x00;
   0x20; 0xa4; 0x82; 0x90; 0x00; 0x00; 0x0a; 0x48; 0x29; 0x20; 0x00; 0x00;
   0x04; 0x98; 0x12; 0x60; 0x00; 0x00; 0x94; 0x42; 0x51; 0x00; 0x00; 0x00;
   0x72; 0x01; 0xc8; 0x00; 0x00; 0x00].

Definition kMaskRandom28_16 : list Z :=
  [0xc0; 0x17; 0x00; 0x50; 0x00; 0x00; 0x41; 0x61; 0x05; 0x80; 0x00; 0x00;
   0x88; 0x32; 0x20; 0xc0; 0x00; 0x00; 0x20; 0xa4; 0x82; 0x90; 0x00; 0x00;
   0x0a; 0x48; 0x29; 0x20; 0x00; 0x00; 0x04; 0x98; 0x12; 0x60; 0x00; 0x00;
   0x94; 0x42; 0x51; 0x00; 0x00; 0x00; 0x72; 0x01; 0xc8; 0x00; 0x00; 0x00;
   0x62; 0x55; 0x89; 0x50; 0x00; 0x00; 0xb9; 0x22; 0xe4; 0x80; 0x00; 0x00;
   0x18; 0xb4; 0x62; 0xd0; 0x00; 0x00; 0x54; 0x99; 0x52; 0x60; 0x00; 0x00;
   0x06; 0x6c; 0x19; 0xb0; 0x00; 0x00; 0x85; 0x56; 0x15; 0x50; 0x00; 0x00;
   0xaa; 0x8a; 0xaa; 0x20; 0x00; 0x00; 0xed; 0x76; 0x36; 0x50; 0x00; 0x00].

Definition kMaskRandom28_17 : list Z :=
  [0xc0; 0x17; 0x00; 0x50; 0x00; 0x00; 0x41; 0x61; 0x05; 0x80; 0x00; 0x00;
   0x88; 0x32; 0x20; 0xc0; 0x00; 0x00; 0x20; 0xa4; 0x82; 0x90; 0x00; 0x00;
   0x0a; 0x48; 0x29; 0x20; 0x00; 0x00; 0x04; 0x98; 0x12; 0x60; 0x00; 0x00;
   0x94; 0x42; 0x51; 0x00; 0x00; 0x00; 0x72; 0x01; 0xc8; 0x00; 0x00; 0x00;
   0xa2; 0x56; 0x89; 0x50; 0x00; 0x00; 0x34; 0x60; 0xd1; 0x80; 0x00; 0x00;
   0x4a; 0x25; 0x28; 0x90; 0x00; 0x00; 0x20; 0xa8; 0x82; 0xa0; 0x00; 0x00;
   0x11; 0x84; 0x46; 0x10; 0x00; 0x00; 0x49; 0x09; 0x24; 0x20; 0x00; 0x00;
   0x86; 0x0e; 0x18; 0x30; 0x00; 0x00; 0x20; 0xd4; 0x83; 0x50; 0x00; 0x00;
   0x88; 0x4a; 0x21; 0x20; 0x00; 0x00].

Definition kMaskRandom28_18 : list Z :=
  [0xa2; 0x56; 0x89; 0x50; 0x00; 0x00; 0x34; 0x60; 0xd1; 0x80; 0x00; 0x00;
   0x4a; 0x25; 0x28; 0x90; 0x00; 0x00; 0x20; 0xa8; 0x82; 0xa0; 0x00; 0x00;
   0x11; 0x84; 0x46; 0x10; 0x00; 0x00; 0x49; 0x09; 0x24; 0x20; 0x00; 0x00;
   0x86; 0x0e; 0x18; 0x30; 0x00; 0x00; 0x20; 0xd4; 0x83; 0x50; 0x00; 0x00;
   0x88; 0x4a; 0x21; 0x20; 0x00; 0x00; 0xc0; 0x17; 0x00; 0x50; 0x00; 0x00;
   0x41; 0x61; 0x05; 0x80; 0x00; 0x00; 0x88; 0x32; 0x20; 0xc0; 0x00; 0x00;
   0x20; 0xa4; 0x82; 0x90; 0x00; 0x00; 0x0a; 0x48; 0x29; 0x20; 0x00; 0x00;
   0x04; 0x98; 0x12; 0x60; 0x00; 0x00; 0x94; 0x42; 0x51; 0x00; 0x00; 0x00;
   0x72; 0x01; 0xc8; 0x00; 0x00; 0x00; 0x6e; 0x9f; 0x98; 0x10; 0x00; 0x00].

Definition kMaskRandom28_19 : list Z :=
  [0xa2; 0x56; 0x89; 0x50; 0x00; 0x00; 0x34; 0x60; 0xd1; 0x80; 0x00; 0x00;
   0x4a; 0x25; 0x28; 0x90; 0x00; 0x00; 0x20; 0xa8; 0x82; 0xa0; 0x00; 0x00;
   0x11; 0x84; 0x46; 0x10; 0x00; 0x00; 0x49; 0x09; 0x24; 0x20; 0x00; 0x00;
   0x86; 0x0e; 0x18; 0x30; 0x00; 0x00; 0x20; 0xd4; 0x83; 0x50; 0x00; 0x00;
   0x88; 0x4a; 0x21; 0x20; 0x00; 0x00; 0xc0; 0xd7; 0x03; 0x50; 0x00; 0x00;
   0x1d; 0x40; 0x75; 0x00; 0x00; 0x00; 0xd4; 0x0b; 0x50; 0x20; 0x00; 0x00;
   0x02; 0x60; 0x09; 0x80; 0x00; 0x00; 0x04; 0x28; 0x10; 0xa0; 0x00; 0x00;
   0x20; 0x98; 0x82; 0x60; 0x00; 0x00; 0x40; 0x45; 0x01; 0x10; 0x00; 0x00;
   0x08; 0x84; 0x22; 0x10; 0x00; 0x00; 0x68; 0x01; 0xa0; 0x00; 0x00; 0x00;
   0x23; 0x10; 0x8c; 0x40; 0x00; 0x00].

Definition kMaskRandom28_20 : list Z :=
  [0xc0; 0xd7; 0x03; 0x50; 0x00; 0x00; 0x1d; 0x40; 0x75; 0x00; 0x00; 0x00;
   0xd4; 0x0b; 0x50; 0x20; 0x00; 0x00; 0x02; 0x60; 0x09; 0x80; 0x00; 0x00;
   0x04; 0x28; 0x10; 0xa0; 0x00; 0x00; 0x20; 0x98; 0x82; 0x60; 0x00; 0x00;
   0x40; 0x45; 0x01; 0x10; 0x00; 0x00; 0x08; 0x84; 0x22; 0x10; 0x00; 0x00;
   0x68; 0x01; 0xa0; 0x00; 0x00; 0x00; 0x23; 0x10; 0x8c; 0x40; 0x00; 0x00;
   0xa2; 0x56; 0x89; 0x50; 0x00; 0x00; 0x34; 0x60; 0xd1; 0x80; 0x00; 0x00;
   0x4a; 0x25; 0x28; 0x90; 0x00; 0x00; 0x20; 0xa8; 0x82; 0xa0; 0x00; 0x00;
   0x11; 0x84; 0x46; 0x10; 0x00; 0x00; 0x49; 0x09; 0x24; 0x20; 0x00; 0x00;
   0x86; 0x0e; 0x18; 0x30; 0x00; 0x00; 0x20; 0xd4; 0x83; 0x50; 0x00; 0x00;
   0x88; 0x4a; 0x21; 0x20; 0x00; 0x00; 0xea; 0x1b; 0x3a; 0x10; 0x00; 0x00].

Definition kMaskRandom28_21 : list Z :=
  [0xc0; 0xd7; 0x03; 0x50; 0x00; 0x00; 0x1d; 0x40; 0x75; 0x00; 0x00; 0x00;
   0xd4; 0x0b; 0x50; 0x20; 0x00; 0x00; 0x02; 0x60; 0x09; 0x80; 0x00; 0x00;
   0x04; 0x28; 0x10; 0xa0; 0x00; 0x00; 0x20; 0x98; 0x82; 0x60; 0x00; 0x00;
   0x40; 0x45; 0x01; 0x10; 0x00; 0x00; 0x08; 0x84; 0x22; 0x10; 0x00; 0x00;
   0x68; 0x01; 0xa0; 0x00; 0x00; 0x00; 0x23; 0x10; 0x8c; 0x40; 0x00; 0x00;
   0x62; 0xd1; 0x8b; 0x40; 0x00; 0x00; 0x35; 0x20; 0xd4; 0x80; 0x00; 0x00;
   0x14; 0x14; 0x50; 0x50; 0x00; 0x00; 0xc5; 0x0b; 0x14; 0x20; 0x00; 0x00;
   0x22; 0x0c; 0x88; 0x30; 0x00; 0x00; 0x88; 0xba; 0x22; 0xe0; 0x00; 0x00;
   0x42; 0x55; 0x09; 0x50; 0x00; 0x00; 0x28; 0xa4; 0xa2; 0x90; 0x00; 0x00;
   0x94; 0x22; 0x50; 0x80; 0x00; 0x00; 0x1b; 0x04; 0x6c; 0x10; 0x00; 0x00;
   0x22; 0xc0; 0x8b; 0x00; 0x00; 0x00].

Definition kMaskRandom28_22 : list Z :=
  [0x62; 0xd1; 0x8b; 0x40; 0x00; 0x00; 0x35; 0x20; 0xd4; 0x80; 0x00; 0x00;
   0x14; 0x14; 0x50; 0x50; 0x00; 0x00; 0xc5; 0x0b; 0x14; 0x20; 0x00; 0x00;
   0x22; 0x0c; 0x88; 0x30; 0x00; 0x00; 0x88; 0xba; 0x22; 0xe0; 0x00; 0x00;
   0x42; 0x55; 0x09; 0x50; 0x00; 0x00; 0x28; 0xa4; 0xa2; 0x90; 0x00; 0x00;
   0x94; 0x22; 0x50; 0x80; 0x00; 0x00; 0x1b; 0x04; 0x6c; 0x10; 0x00; 0x00;
   0x22; 0xc0; 0x8b; 0x00; 0x00; 0x00; 0xc0; 0xd7; 0x03; 0x50; 0x00; 0x00;
   0x1d; 0x40; 0x75; 0x00; 0x00; 0x00; 0xd4; 0x0b; 0x50; 0x20; 0x00; 0x00;
   0x02; 0x60; 0x09; 0x80; 0x00; 0x00; 0x04; 0x28; 0x10; 0xa0; 0x00; 0x00;
   0x20; 0x98; 0x82; 0x60; 0x00; 0x00; 0x40; 0x45; 0x01; 0x10; 0x00; 0x00;
   0x08; 0x84; 0x22; 0x10; 0x00; 0x00; 0x68; 0x01; 0xa0; 0x00; 0x00; 0x00;
   0x23; 0x10; 0x8c; 0x40; 0x00; 0x00; 0x45; 0x05; 0x10; 0x00; 0x00; 0x00].

Definition kMaskRandom28_23 : list Z :=
  [0x62; 0xd1; 0x8b; 0x40; 0x00; 0x00; 0x35; 0x20; 0xd4; 0x80; 0x00; 0x00;
   0x14; 0x14; 0x50; 0x50; 0x00; 0x00; 0xc5; 0x0b; 0x14; 0x20; 0x00; 0x00;
   0x22; 0x0c; 0x88; 0x30; 0x00; 0x00; 0x88; 0xba; 0x22; 0xe0; 0x00; 0x00;
   0x42; 0x55; 0x09; 0x50; 0x00; 0x00; 0x28; 0xa4; 0xa2; 0x90; 0x00; 0x00;
   0x94; 0x22; 0x50; 0x80; 0x00; 0x00; 0x1b; 0x04; 0x6c; 0x10; 0x00; 0x00;
   0x22; 0xc0; 0x8b; 0x00; 0x00; 0x00; 0x81; 0x06; 0x04; 0x10; 0x00; 0x00;
   0x40; 0x69; 0x01; 0xa0; 0x00; 0x00; 0x90; 0x26; 0x40; 0x90; 0x00; 0x00;
   0x28; 0x28; 0xa0; 0xa0; 0x00; 0x00; 0x52; 0x11; 0x48; 0x40; 0x00; 0x00;
   0x41; 0x89; 0x06; 0x20; 0x00; 0x00; 0x09; 0x30; 0x24; 0xc0; 0x00; 0x00;
   0x48; 0x45; 0x21; 0x10; 0x00; 0x00; 0x04; 0x44; 0x11; 0x10; 0x00; 0x00;
   0x0e; 0x80; 0x3a; 0x00; 0x00; 0x00; 0xa5; 0x92; 0x96; 0x40; 0x00; 0x00;
   0x12; 0x0c; 0x48; 0x30; 0x00; 0x00].

Definition kMaskRandom28_24 : list Z :=
  [0x81; 0x06; 0x04; 0x10; 0x00; 0x00; 0x40; 0x69; 0x01; 0xa0; 0x00; 0x00;
   0x90; 0x26; 0x40; 0x90; 0x00; 0x00; 0x28; 0x28; 0xa0; 0xa0; 0x00; 0x00;
   0x52; 0x11; 0x48; 0x40; 0x00; 0x00; 0x41; 0x89; 0x06; 0x20; 0x00; 0x00;
   0x09; 0x30; 0x24; 0xc0; 0x00; 0x00; 0x48; 0x45; 0x21; 0x10; 0x00; 0x00;
   0x04; 0x44; 0x11; 0x10; 0x00; 0x00; 0x0e; 0x80; 0x3a; 0x00; 0x00; 0x00;
   0xa5; 0x92; 0x96; 0x40; 0x00; 0x00; 0x12; 0x0c; 0x48; 0x30; 0x00; 0x00;
   0x62; 0xd1; 0x8b; 0x40; 0x00; 0x00; 0x35; 0x20; 0xd4; 0x80; 0x00; 0x00;
   0x14; 0x14; 0x50; 0x50; 0x00; 0x00; 0xc5; 0x0b; 0x14; 0x20; 0x00; 0x00;
   0x22; 0x0c; 0x88; 0x30; 0x00; 0x00; 0x88; 0xba; 0x22; 0xe0; 0x00; 0x00;
   0x42; 0x55; 0x09; 0x50; 0x00; 0x00; 0x28; 0xa4; 0xa2; 0x90; 0x00; 0x00;
   0x94; 0x22; 0x50; 0x80; 0x00; 0x00; 0x1b; 0x04; 0x6c; 0x10; 0x00; 0x00;
   0x22; 0xc0; 0x8b; 0x00; 0x00; 0x00; 0x6f; 0xd8; 0xee; 0xa0; 0x00; 0x00].

Definition kMaskRandom28_25 : list Z :=
  [0x81; 0x06; 0x04; 0x10; 0x00; 0x00; 0x40; 0x69; 0x01; 0xa0; 0x00; 0x00;
   0x90; 0x26; 0x40; 0x90; 0x00; 0x00; 0x28; 0x28; 0xa0; 0xa0; 0x00; 0x00;
   0x52; 0x11; 0x48; 0x40; 0x00; 0x00; 0x41; 0x89; 0x06; 0x20; 0x00; 0x00;
   0x09; 0x30; 0x24; 0xc0; 0x00; 0x00; 0x48; 0x45; 0x21; 0x10; 0x00; 0x00;
   0x04; 0x44; 0x11; 0x10; 0x00; 0x00; 0x0e; 0x80; 0x3a; 0x00; 0x00; 0x00;
   0xa5; 0x92; 0x96; 0x40; 0x00; 0x00; 0x12; 0x0c; 0x48; 0x30; 0x00; 0x00;
   0x62; 0x55; 0x89; 0x50; 0x00; 0x00; 0x34; 0x60; 0xd1; 0x80; 0x00; 0x00;
   0x48; 0x05; 0x20; 0x10; 0x00; 0x00; 0x00; 0xac; 0x02; 0xb0; 0x00; 0x00;
   0x28; 0x08; 0xa0; 0x20; 0x00; 0x00; 0x81; 0x0a; 0x04; 0x20; 0x00; 0x00;
   0x23; 0x04; 0x8c; 0x10; 0x00; 0x00; 0x06; 0x80; 0x1a; 0x00; 0x00; 0x00;
   0x80; 0x16; 0x00; 0x50; 0x00; 0x00; 0x30; 0x10; 0xc0; 0x40; 0x00; 0x00;
   0x8c; 0x22; 0x30; 0x80; 0x00; 0x00; 0x54; 0x01; 0x50; 0x00; 0x00; 0x00;
   0x80; 0xc2; 0x03; 0x00; 0x00; 0x00].

Definition kMaskRandom28_26 : list Z :=
  [0x62; 0x55; 0x89; 0x50; 0x00; 0x00; 0x34; 0x60; 0xd1; 0x80; 0x00; 0x00;
   0x48; 0x05; 0x20; 0x10; 0x00; 0x00; 0x00; 0xac; 0x02; 0xb0; 0x00; 0x00;
   0x28; 0x08; 0xa0; 0x20; 0x00; 0x00; 0x81; 0x0a; 0x04; 0x20; 0x00; 0x00;
   0x23; 0x04; 0x8c; 0x10; 0x00; 0x00; 0x06; 0x80; 0x1a; 0x00; 0x00; 0x00;
   0x80; 0x16; 0x00; 0x50; 0x00; 0x00; 0x30; 0x10; 0xc0; 0x40; 0x00; 0x00;
   0x8c; 0x22; 0x30; 0x80; 0x00; 0x00; 0x54; 0x01; 0x50; 0x00; 0x00; 0x00;
   0x80; 0xc2; 0x03; 0x00; 0x00; 0x00; 0x81; 0x06; 0x04; 0x10; 0x00; 0x00;
   0x40; 0x69; 0x01; 0xa0; 0x00; 0x00; 0x90; 0x26; 0x40; 0x90; 0x00; 0x00;
   0x28; 0x28; 0xa0; 0xa0; 0x00; 0x00; 0x52; 0x11; 0x48; 0x40; 0x00; 0x00;
   0x41; 0x89; 0x06; 0x20; 0x00; 0x00; 0x09; 0x30; 0x24; 0xc0; 0x00; 0x00;
   0x48; 0x45; 0x21; 0x10; 0x00; 0x00; 0x04; 0x44; 0x11; 0x10; 0x00; 0x00;
   0x0e; 0x80; 0x3a; 0x00; 0x00; 0x00; 0xa5; 0x92; 0x96; 0x40; 0x00; 0x00;
   0x12; 0x0c; 0x48; 0x30; 0x00; 0x00; 0xf1; 0x64; 0xbe; 0x40; 0x00; 0x00].

Definition kMaskRandom28_27 : list Z :=
  [0x62; 0x55; 0x89; 0x50; 0x00; 0x00; 0x34; 0x60; 0xd1; 0x80; 0x00; 0x00;
   0x48; 0x05; 0x20; 0x10; 0x00; 0x00; 0x00; 0xac; 0x02; 0xb0; 0x00; 0x00;
   0x28; 0x08; 0xa0; 0x20; 0x00; 0x00; 0x81; 0x0a; 0x04; 0x20; 0x00; 0x00;
   0x23; 0x04; 0x8c; 0x10; 0x00; 0x00; 0x06; 0x80; 0x1a; 0x00; 0x00; 0x00;
   0x80; 0x16; 0x00; 0x50; 0x00; 0x00; 0x30; 0x10; 0xc0; 0x40; 0x00; 0x00;
   0x8c; 0x22; 0x30; 0x80; 0x00; 0x00; 0x54; 0x01; 0x50; 0x00; 0x00; 0x00;
   0x80; 0xc2; 0x03; 0x00; 0x00; 0x00; 0x40; 0x55; 0x01; 0x50; 0x00; 0x00;
   0x15; 0x40; 0x55; 0x00; 0x00; 0x00; 0xc0; 0x07; 0x00; 0x10; 0x00; 0x00;
   0x28; 0x10; 0xa0; 0x40; 0x00; 0x00; 0x05; 0x0c; 0x14; 0x30; 0x00; 0x00;
   0x64; 0x81; 0x92; 0x00; 0x00; 0x00; 0x81; 0x82; 0x06; 0x00; 0x00; 0x00;
   0x10; 0x98; 0x42; 0x60; 0x00; 0x00; 0x84; 0x22; 0x10; 0x80; 0x00; 0x00;
   0x12; 0x30; 0x48; 0xc0; 0x00; 0x00; 0x62; 0x01; 0x88; 0x00; 0x00; 0x00;
   0x28; 0x60; 0xa1; 0x80; 0x00; 0x00; 0x0e; 0x08; 0x38; 0x20; 0x00; 0x00;
   0x10; 0x84; 0x42; 0x10; 0x00; 0x00].

Definition kMaskRandom28_28 : list Z :=
  [0x40; 0x55; 0x01; 0x50; 0x00; 0x00; 0x15; 0x40; 0x55; 0x00; 0x00; 0x00;
   0xc0; 0x07; 0x00; 0x10; 0x00; 0x00; 0x28; 0x10; 0xa0; 0x40; 0x00; 0x00;
   0x05; 0x0c; 0x14; 0x30; 0x00; 0x00; 0x64; 0x81; 0x92; 0x00; 0x00; 0x00;
   0x81; 0x82; 0x06; 0x00; 0x00; 0x00; 0x10; 0x98; 0x42; 0x60; 0x00; 0x00;
   0x84; 0x22; 0x10; 0x80; 0x00; 0x00; 0x12; 0x30; 0x48; 0xc0; 0x00; 0x00;
   0x62; 0x01; 0x88; 0x00; 0x00; 0x00; 0x28; 0x60; 0xa1; 0x80; 0x00; 0x00;
   0x0e; 0x08; 0x38; 0x20; 0x00; 0x00; 0x10; 0x84; 0x42; 0x10; 0x00; 0x00;
   0x62; 0x55; 0x89; 0x50; 0x00; 0x00; 0x34; 0x60; 0xd1; 0x80; 0x00; 0x00;
   0x48; 0x05; 0x20; 0x10; 0x00; 0x00; 0x00; 0xac; 0x02; 0xb0; 0x00; 0x00;
   0x28; 0x08; 0xa0; 0x20; 0x00; 0x00; 0x81; 0x0a; 0x04; 0x20; 0x00; 0x00;
   0x23; 0x04; 0x8c; 0x10; 0x00; 0x00; 0x06; 0x80; 0x1a; 0x00; 0x00; 0x00;
   0x80; 0x16; 0x00; 0x50; 0x00; 0x00; 0x30; 0x10; 0xc0; 0x40; 0x00; 0x00;
   0x8c; 0x22; 0x30; 0x80; 0x00; 0x00; 0x54; 0x01; 0x50; 0x00; 0x00; 0x00;
   0x80; 0xc2; 0x03; 0x00; 0x00; 0x00; 0x36; 0x4f; 0x1f; 0xb0; 0x00; 0x00].

Definition kMaskRandom29_1 : list Z :=
  [0xff; 0xff; 0xff; 0xf8; 0x00; 0x00].

Definition kMaskRandom29_2 : list Z :=
  [0xec; 0xeb; 0xb3; 0xa8; 0x00; 0x00; 0x3b; 0x9e; 0xee; 0x70; 0x00; 0x00].

Definition kMaskRandom29_3 : list Z :=
  [0xac; 0xda; 0xb2; 0x48; 0x00; 0x00; 0x55; 0x6d; 0x55; 0x28; 0x00; 0x00;
   0x27; 0xb5; 0x0c; 0xd8; 0x00; 0x00].

Definition kMaskRandom29_4 : list Z :=
  [0x2c; 0xd8; 0x96; 0xa8; 0x00; 0x00; 0x93; 0x6a; 0x55; 0x50; 0x00; 0x00;
   0x1a; 0xb4; 0x69; 0xa8; 0x00; 0x00; 0x47; 0x2d; 0x0f; 0x50; 0x00; 0x00].

Definition kMaskRandom29_5 : list Z :=
  [0x64; 0xd9; 0x92; 0x88; 0x00; 0x00; 0xa5; 0x68; 0x95; 0x50; 0x00; 0x00;
   0x52; 0xb5; 0x25; 0xa0; 0x00; 0x00; 0x1d; 0xa9; 0x4e; 0x40; 0x00; 0x00;
   0x9c; 0x56; 0x38; 0xc0; 0x00; 0x00].

Definition kMaskRandom29_6 : list Z :=
  [0x4a; 0x55; 0x8a; 0x28; 0x00; 0x00; 0x95; 0x48; 0x55; 0x50; 0x00; 0x00;
   0x14; 0xb5; 0x31; 0x18; 0x00; 0x00; 0x51; 0xa9; 0x4a; 0x50; 0x00; 0x00;
   0x22; 0x6c; 0x8d; 0x90; 0x00; 0x00; 0x88; 0x8e; 0x29; 0x60; 0x00; 0x00].

Definition kMaskRandom29_7 : list Z :=
  [0x62; 0x55; 0x8a; 0x88; 0x00; 0x00; 0xb9; 0x22; 0xc4; 0x50; 0x00; 0x00;
   0x18; 0xb4; 0x61; 0xa8; 0x00; 0x00; 0x54; 0x99; 0x13; 0x50; 0x00; 0x00;
   0x06; 0x6c; 0x4d; 0x90; 0x00; 0x00; 0x85; 0x55; 0x24; 0x68; 0x00; 0x00;
   0xaa; 0x8a; 0x1a; 0x30; 0x00; 0x00].

Definition kMaskRandom29_8 : list Z :=
  [0xc0; 0x16; 0x40; 0x88; 0x00; 0x00; 0x41; 0x60; 0x25; 0x40; 0x00; 0x00;
   0x88; 0x30; 0x01; 0xa8; 0x00; 0x00; 0x20; 0xa4; 0x80; 0xd0; 0x00; 0x00;
   0x0a; 0x48; 0x51; 0x10; 0x00; 0x00; 0x04; 0x9b; 0x08; 0x40; 0x00; 0x00;
   0x94; 0x40; 0x03; 0x18; 0x00; 0x00; 0x72; 0x01; 0x96; 0x00; 0x00; 0x00].

Definition kMaskRandom29_9 : list Z :=
  [0xa2; 0x55; 0x88; 0x88; 0x00; 0x00; 0x34; 0x60; 0x91; 0x10; 0x00; 0x00;
   0x4a; 0x27; 0x01; 0x40; 0x00; 0x00; 0x20; 0xa8; 0x0c; 0x30; 0x00; 0x00;
   0x11; 0x84; 0x58; 0xa0; 0x00; 0x00; 0x49; 0x0a; 0x24; 0x00; 0x00; 0x00;
   0x86; 0x0e; 0x0a; 0x40; 0x00; 0x00; 0x20; 0xd4; 0x22; 0x90; 0x00; 0x00;
   0x88; 0x4a; 0x41; 0x20; 0x00; 0x00].

Definition kMaskRandom29_10 : list Z :=
  [0xc0; 0xd7; 0x02; 0x80; 0x00; 0x00; 0x1d; 0x40; 0x55; 0x58; 0x00; 0x00;
   0xd4; 0x09; 0xd1; 0x00; 0x00; 0x00; 0x02; 0x60; 0x02; 0x70; 0x00; 0x00;
   0x04; 0x28; 0x04; 0xb0; 0x00; 0x00; 0x20; 0x99; 0x12; 0x48; 0x00; 0x00;
   0x40; 0x46; 0x21; 0x40; 0x00; 0x00; 0x08; 0x84; 0x82; 0x90; 0x00; 0x00;
   0x68; 0x02; 0xa8; 0x10; 0x00; 0x00; 0x23; 0x10; 0x09; 0x88; 0x00; 0x00].

Definition kMaskRandom29_11 : list Z :=
  [0x62; 0xd1; 0x88; 0x88; 0x00; 0x00; 0x35; 0x23; 0xc4; 0x40; 0x00; 0x00;
   0x14; 0x14; 0x40; 0x38; 0x00; 0x00; 0xc5; 0x08; 0x42; 0xc0; 0x00; 0x00;
   0x22; 0x0c; 0x90; 0x90; 0x00; 0x00; 0x88; 0xb8; 0x04; 0x48; 0x00; 0x00;
   0x42; 0x54; 0x03; 0x10; 0x00; 0x00; 0x28; 0xa4; 0x12; 0x88; 0x00; 0x00;
   0x94; 0x20; 0x09; 0x60; 0x00; 0x00; 0x1b; 0x04; 0xac; 0x00; 0x00; 0x00;
   0x22; 0xc2; 0x61; 0x00; 0x00; 0x00].

Definition kMaskRandom29_12 : list Z :=
  [0x81; 0x06; 0x22; 0x40; 0x00; 0x00; 0x40; 0x69; 0x01; 0x50; 0x00; 0x00;
   0x90; 0x26; 0x09; 0x88; 0x00; 0x00; 0x28; 0x28; 0x86; 0x90; 0x00; 0x00;
   0x52; 0x10; 0x41; 0x90; 0x00; 0x00; 0x41; 0x89; 0x10; 0x28; 0x00; 0x00;
   0x09; 0x30; 0x43; 0x20; 0x00; 0x00; 0x48; 0x45; 0x34; 0xa8; 0x00; 0x00;
   0x04; 0x44; 0xe0; 0x08; 0x00; 0x00; 0x0e; 0x80; 0x5d; 0x20; 0x00; 0x00;
   0xa5; 0x92; 0x42; 0x10; 0x00; 0x00; 0x12; 0x0d; 0xc8; 0x50; 0x00; 0x00].

Definition kMaskRandom29_13 : list Z :=
  [0x62; 0x55; 0x8a; 0x88; 0x00; 0x00; 0x34; 0x60; 0xd1; 0x10; 0x00; 0x00;
   0x48; 0x05; 0x01; 0x28; 0x00; 0x00; 0x00; 0xaf; 0x10; 0x10; 0x00; 0x00;
   0x28; 0x08; 0x21; 0x80; 0x00; 0x00; 0x81; 0x0a; 0x50; 0x48; 0x00; 0x00;
   0x23; 0x06; 0x23; 0x00; 0x00; 0x00; 0x06; 0x80; 0x84; 0xc8; 0x00; 0x00;
   0x80; 0x17; 0x05; 0x00; 0x00; 0x00; 0x30; 0x10; 0x41; 0xa0; 0x00; 0x00;
   0x8c; 0x20; 0x1a; 0x40; 0x00; 0x00; 0x54; 0x01; 0x64; 0x00; 0x00; 0x00;
   0x80; 0xc0; 0x28; 0x30; 0x00; 0x00].

Definition kMaskRandom29_14 : list Z :=
  [0x40; 0x55; 0x02; 0x08; 0x00; 0x00; 0x15; 0x40; 0x55; 0x50; 0x00; 0x00;
   0xc0; 0x06; 0x20; 0x48; 0x00; 0x00; 0x28; 0x13; 0x00; 0x40; 0x00; 0x00;
   0x05; 0x0e; 0x02; 0x80; 0x00; 0x00; 0x64; 0x80; 0x04; 0x88; 0x00; 0x00;
   0x81; 0x81; 0x00; 0xb0; 0x00; 0x00; 0x10; 0x98; 0x88; 0x08; 0x00; 0x00;
   0x84; 0x22; 0x40; 0x10; 0x00; 0x00; 0x12; 0x30; 0x49; 0x00; 0x00; 0x00;
   0x62; 0x01; 0x74; 0x00; 0x00; 0x00; 0x28; 0x60; 0x81; 0x50; 0x00; 0x00;
   0x0e; 0x0a; 0x18; 0x20; 0x00; 0x00; 0x10; 0x84; 0xa2; 0x20; 0x00; 0x00].

Definition kMaskRandom29_15 : list Z :=
  [0x62; 0x55; 0x8a; 0x88; 0x00; 0x00; 0xb9; 0x22; 0xc4; 0x50; 0x00; 0x00;
   0x18; 0xb4; 0x61; 0xa8; 0x00; 0x00; 0x54; 0x99; 0x13; 0x50; 0x00; 0x00;
   0x06; 0x6c; 0x4d; 0x90; 0x00; 0x00; 0x85; 0x55; 0x24; 0x68; 0x00; 0x00;
   0xaa; 0x8a; 0x1a; 0x30; 0x00; 0x00; 0xc0; 0x16; 0x40; 0x88; 0x00; 0x00;
   0x41; 0x60; 0x25; 0x40; 0x00; 0x00; 0x88; 0x30; 0x01; 0xa8; 0x00; 0x00;
   0x20; 0xa4; 0x80; 0xd0; 0x00; 0x00; 0x0a; 0x48; 0x51; 0x10; 0x00; 0x00;
   0x04; 0x9b; 0x08; 0x40; 0x00; 0x00; 0x94; 0x40; 0x03; 0x18; 0x00; 0x00;
   0x72; 0x01; 0x96; 0x00; 0x00; 0x00].

Definition kMaskRandom29_16 : list Z :=
  [0xc0; 0x16; 0x40; 0x88; 0x00; 0x00; 0x41; 0x60; 0x25; 0x40; 0x00; 0x00;
   0x88; 0x30; 0x01; 0xa8; 0x00; 0x00; 0x20; 0xa4; 0x80; 0xd0; 0x00; 0x00;
   0x0a; 0x48; 0x51; 0x10; 0x00; 0x00; 0x04; 0x9b; 0x08; 0x40; 0x00; 0x00;
   0x94; 0x40; 0x03; 0x18; 0x00; 0x00; 0x72; 0x01; 0x96; 0x00; 0x00; 0x00;
   0x62; 0x55; 0x8a; 0x88; 0x00; 0x00; 0xb9; 0x22; 0xc4; 0x50; 0x00; 0x00;
   0x18; 0xb4; 0x61; 0xa8; 0x00; 0x00; 0x54; 0x99; 0x13; 0x50; 0x00; 0x00;
   0x06; 0x6c; 0x4d; 0x90; 0x00; 0x00; 0x85; 0x55; 0x24; 0x68; 0x00; 0x00;
   0xaa; 0x8a; 0x1a; 0x30; 0x00; 0x00; 0x0d; 0x2c; 0xf2; 0x20; 0x00; 0x00].

Definition kMaskRandom29_17 : list Z :=
  [0xc0; 0x16; 0x40; 0x88; 0x00; 0x00; 0x41; 0x60; 0x25; 0x40; 0x00; 0x00;
   0x88; 0x30; 0x01; 0xa8; 0x00; 0x00; 0x20; 0xa4; 0x80; 0xd0; 0x00; 0x00;
   0x0a; 0x48; 0x51; 0x10; 0x00; 0x00; 0x04; 0x9b; 0x08; 0x40; 0x00; 0x00;
   0x94; 0x40; 0x03; 0x18; 0x00; 0x00; 0x72; 0x01; 0x96; 0x00; 0x00; 0x00;
   0xa2; 0x55; 0x88; 0x88; 0x00; 0x00; 0x34; 0x60; 0x91; 0x10; 0x00; 0x00;
   0x4a; 0x27; 0x01; 0x40; 0x00; 0x00; 0x20; 0xa8; 0x0c; 0x30; 0x00; 0x00;
   0x11; 0x84; 0x58; 0xa0; 0x00; 0x00; 0x49; 0x0a; 0x24; 0x00; 0x00; 0x00;
   0x86; 0x0e; 0x0a; 0x40; 0x00; 0x00; 0x20; 0xd4; 0x22; 0x90; 0x00; 0x00;
   0x88; 0x4a; 0x41; 0x20; 0x00; 0x00].

Definition kMaskRandom29_18 : list Z :=
  [0xa2; 0x55; 0x88; 0x88; 0x00; 0x00; 0x34; 0x60; 0x91; 0x10; 0x00; 0x00;
   0x4a; 0x27; 0x01; 0x40; 0x00; 0x00; 0x20; 0xa8; 0x0c; 0x30; 0x00; 0x00;
   0x11; 0x84; 0x58; 0xa0; 0x00; 0x00; 0x49; 0x0a; 0x24; 0x00; 0x00; 0x00;
   0x86; 0x0e; 0x0a; 0x40; 0x00; 0x00; 0x20; 0xd4; 0x22; 0x90; 0x00; 0x00;
   0x88; 0x4a; 0x41; 0x20; 0x00; 0x00; 0xc0; 0x16; 0x40; 0x88; 0x00; 0x00;
   0x41; 0x60; 0x25; 0x40; 0x00; 0x00; 0x88; 0x30; 0x01; 0xa8; 0x00; 0x00;
   0x20; 0xa4; 0x80; 0xd0; 0x00; 0x00; 0x0a; 0x48; 0x51; 0x10; 0x00; 0x00;
   0x04; 0x9b; 0x08; 0x40; 0x00; 0x00; 0x94; 0x40; 0x03; 0x18; 0x00; 0x00;
   0x72; 0x01; 0x96; 0x00; 0x00; 0x00; 0x71; 0x36; 0xf2; 0xb0; 0x00; 0x00].

Definition kMaskRandom29_19 : list Z :=
  [0xa2; 0x55; 0x88; 0x88; 0x00; 0x00; 0x34; 0x60; 0x91; 0x10; 0x00; 0x00;
   0x4a; 0x27; 0x01; 0x40; 0x00; 0x00; 0x20; 0xa8; 0x0c; 0x30; 0x00; 0x00;
   0x11; 0x84; 0x58; 0xa0; 0x00; 0x00; 0x49; 0x0a; 0x24; 0x00; 0x00; 0x00;
   0x86; 0x0e; 0x0a; 0x40; 0x00; 0x00; 0x20; 0xd4; 0x22; 0x90; 0x00; 0x00;
   0x88; 0x4a; 0x41; 0x20; 0x00; 0x00; 0xc0; 0xd7; 0x02; 0x80; 0x00; 0x00;
   0x1d; 0x40; 0x55; 0x58; 0x00; 0x00; 0xd4; 0x09; 0xd1; 0x00; 0x00; 0x00;
   0x02; 0x60; 0x02; 0x70; 0x00; 0x00; 0x04; 0x28; 0x04; 0xb0; 0x00; 0x00;
   0x20; 0x99; 0x12; 0x48; 0x00; 0x00; 0x40; 0x46; 0x21; 0x40; 0x00; 0x00;
   0x08; 0x84; 0x82; 0x90; 0x00; 0x00; 0x68; 0x02; 0xa8; 0x10; 0x00; 0x00;
   0x23; 0x10; 0x09; 0x88; 0x00; 0x00].

Definition kMaskRandom29_20 : list Z :=
  [0xc0; 0xd7; 0x02; 0x80; 0x00; 0x00; 0x1d; 0x40; 0x55; 0x58; 0x00; 0x00;
   0xd4; 0x09; 0xd1; 0x00; 0x00; 0x00; 0x02; 0x60; 0x02; 0x70; 0x00; 0x00;
   0x04; 0x28; 0x04; 0xb0; 0x00; 0x00; 0x20; 0x99; 0x12; 0x48; 0x00; 0x00;
   0x40; 0x46; 0x21; 0x40; 0x00; 0x00; 0x08; 0x84; 0x82; 0x90; 0x00; 0x00;
   0x68; 0x02; 0xa8; 0x10; 0x00; 0x00; 0x23; 0x10; 0x09; 0x88; 0x00; 0x00;
   0xa2; 0x55; 0x88; 0x88; 0x00; 0x00; 0x34; 0x60; 0x91; 0x10; 0x00; 0x00;
   0x4a; 0x27; 0x01; 0x40; 0x00; 0x00; 0x20; 0xa8; 0x0c; 0x30; 0x00; 0x00;
   0x11; 0x84; 0x58; 0xa0; 0x00; 0x00; 0x49; 0x0a; 0x24; 0x00; 0x00; 0x00;
   0x86; 0x0e; 0x0a; 0x40; 0x00; 0x00; 0x20; 0xd4; 0x22; 0x90; 0x00; 0x00;
   0x88; 0x4a; 0x41; 0x20; 0x00; 0x00; 0xe7; 0xec; 0xdc; 0xb0; 0x00; 0x00].

Definition kMaskRandom29_21 : list Z :=
  [0xc0; 0xd7; 0x02; 0x80; 0x00; 0x00; 0x1d; 0x40; 0x55; 0x58; 0x00; 0x00;
   0xd4; 0x09; 0xd1; 0x00; 0x00; 0x00; 0x02; 0x60; 0x02; 0x70; 0x00; 0x00;
   0x04; 0x28; 0x04; 0xb0; 0x00; 0x00; 0x20; 0x99; 0x12; 0x48; 0x00; 0x00;
   0x40; 0x46; 0x21; 0x40; 0x00; 0x00; 0x08; 0x84; 0x82; 0x90; 0x00; 0x00;
   0x68; 0x02; 0xa8; 0x10; 0x00; 0x00; 0x23; 0x10; 0x09; 0x88; 0x00; 0x00;
   0x62; 0xd1; 0x88; 0x88; 0x00; 0x00; 0x35; 0x23; 0xc4; 0x40; 0x00; 0x00;
   0x14; 0x14; 0x40; 0x38; 0x00; 0x00; 0xc5; 0x08; 0x42; 0xc0; 0x00; 0x00;
   0x22; 0x0c; 0x90; 0x90; 0x00; 0x00; 0x88; 0xb8; 0x04; 0x48; 0x00; 0x00;
   0x42; 0x54; 0x03; 0x10; 0x00; 0x00; 0x28; 0xa4; 0x12; 0x88; 0x00; 0x00;
   0x94; 0x20; 0x09; 0x60; 0x00; 0x00; 0x1b; 0x04; 0xac; 0x00; 0x00; 0x00;
   0x22; 0xc2; 0x61; 0x00; 0x00; 0x00].

Definition kMaskRandom29_22 : list Z :=
  [0x62; 0xd1; 0x88; 0x88; 0x00; 0x00; 0x35; 0x23; 0xc4; 0x40; 0x00; 0x00;
   0x14; 0x14; 0x40; 0x38; 0x00; 0x00; 0xc5; 0x08; 0x42; 0xc0; 0x00; 0x00;
   0x22; 0x0c; 0x90; 0x90; 0x00; 0x00; 0x88; 0xb8; 0x04; 0x48; 0x00; 0x00;
   0x42; 0x54; 0x03; 0x10; 0x00; 0x00; 0x28; 0xa4; 0x12; 0x88; 0x00; 0x00;
   0x94; 0x20; 0x09; 0x60; 0x00; 0x00; 0x1b; 0x04; 0xac; 0x00; 0x00; 0x00;
   0x22; 0xc2; 0x61; 0x00; 0x00; 0x00; 0xc0; 0xd7; 0x02; 0x80; 0x00; 0x00;
   0x1d; 0x40; 0x55; 0x58; 0x00; 0x00; 0xd4; 0x09; 0xd1; 0x00; 0x00; 0x00;
   0x02; 0x60; 0x02; 0x70; 0x00; 0x00; 0x04; 0x28; 0x04; 0xb0; 0x00; 0x00;
   0x20; 0x99; 0x12; 0x48; 0x00; 0x00; 0x40; 0x46; 0x21; 0x40; 0x00; 0x00;
   0x08; 0x84; 0x82; 0x90; 0x00; 0x00; 0x68; 0x02; 0xa8; 0x10; 0x00; 0x00;
   0x23; 0x10; 0x09; 0x88; 0x00; 0x00; 0x1c; 0x90; 0xa9; 0xa0; 0x00; 0x00].

Definition kMaskRandom29_23 : list Z :=
  [0x62; 0xd1; 0x88; 0x88; 0x00; 0x00; 0x35; 0x23; 0xc4; 0x40; 0x00; 0x00;
   0x14; 0x14; 0x40; 0x38; 0x00; 0x00; 0xc5; 0x08; 0x42; 0xc0; 0x00; 0x00;
   0x22; 0x0c; 0x90; 0x90; 0x00; 0x00; 0x88; 0xb8; 0x04; 0x48; 0x00; 0x00;
   0x42; 0x54; 0x03; 0x10; 0x00; 0x00; 0x28; 0xa4; 0x12; 0x88; 0x00; 0x00;
   0x94; 0x20; 0x09; 0x60; 0x00; 0x00; 0x1b; 0x04; 0xac; 0x00; 0x00; 0x00;
   0x22; 0xc2; 0x61; 0x00; 0x00; 0x00; 0x81; 0x06; 0x22; 0x40; 0x00; 0x00;
   0x40; 0x69; 0x01; 0x50; 0x00; 0x00; 0x90; 0x26; 0x09; 0x88; 0x00; 0x00;
   0x28; 0x28; 0x86; 0x90; 0x00; 0x00; 0x52; 0x10; 0x41; 0x90; 0x00; 0x00;
   0x41; 0x89; 0x10; 0x28; 0x00; 0x00; 0x09; 0x30; 0x43; 0x20; 0x00; 0x00;
   0x48; 0x45; 0x34; 0xa8; 0x00; 0x00; 0x04; 0x44; 0xe0; 0x08; 0x00; 0x00;
   0x0e; 0x80; 0x5d; 0x20; 0x00; 0x00; 0xa5; 0x92; 0x42; 0x10; 0x00; 0x00;
   0x12; 0x0d; 0xc8; 0x50; 0x00; 0x00].

Definition kMaskRandom29_24 : list Z :=
  [0x81; 0x06; 0x22; 0x40; 0x00; 0x00; 0x40; 0x69; 0x01; 0x50; 0x00; 0x00;
   0x90; 0x26; 0x09; 0x88; 0x00; 0x00; 0x28; 0x28; 0x86; 0x90; 0x00; 0x00;
   0x52; 0x10; 0x41; 0x90; 0x00; 0x00; 0x41; 0x89; 0x10; 0x28; 0x00; 0x00;
   0x09; 0x30; 0x43; 0x20; 0x00; 0x00; 0x48; 0x45; 0x34; 0xa8; 0x00; 0x00;
   0x04; 0x44; 0xe0; 0x08; 0x00; 0x00; 0x0e; 0x80; 0x5d; 0x20; 0x00; 0x00;
   0xa5; 0x92; 0x42; 0x10; 0x00; 0x00; 0x12; 0x0d; 0xc8; 0x50; 0x00; 0x00;
   0x62; 0xd1; 0x88; 0x88; 0x00; 0x00; 0x35; 0x23; 0xc4; 0x40; 0x00; 0x00;
   0x14; 0x14; 0x40; 0x38; 0x00; 0x00; 0xc5; 0x08; 0x42; 0xc0; 0x00; 0x00;
   0x22; 0x0c; 0x90; 0x90; 0x00; 0x00; 0x88; 0xb8; 0x04; 0x48; 0x00; 0x00;
   0x42; 0x54; 0x03; 0x10; 0x00; 0x00; 0x28; 0xa4; 0x12; 0x88; 0x00; 0x00;
   0x94; 0x20; 0x09; 0x60; 0x00; 0x00; 0x1b; 0x04; 0xac; 0x00; 0x00; 0x00;
   0x22; 0xc2; 0x61; 0x00; 0x00; 0x00; 0xbd; 0x86; 0x97; 0xc0; 0x00; 0x00].

Definition kMaskRandom29_25 : list Z :=
  [0x81; 0x06; 0x22; 0x40; 0x00; 0x00; 0x40; 0x69; 0x01; 0x50; 0x00; 0x00;
   0x90; 0x26; 0x09; 0x88; 0x00; 0x00; 0x28; 0x28; 0x86; 0x90; 0x00; 0x00;
   0x52; 0x10; 0x41; 0x90; 0x00; 0x00; 0x41; 0x89; 0x10; 0x28; 0x00; 0x00;
   0x09; 0x30; 0x43; 0x20; 0x00; 0x00; 0x48; 0x45; 0x34; 0xa8; 0x00; 0x00;
   0x04; 0x44; 0xe0; 0x08; 0x00; 0x00; 0x0e; 0x80; 0x5d; 0x20; 0x00; 0x00;
   0xa5; 0x92; 0x42; 0x10; 0x00; 0x00; 0x12; 0x0d; 0xc8; 0x50; 0x00; 0x00;
   0x62; 0x55; 0x8a; 0x88; 0x00; 0x00; 0x34; 0x60; 0xd1; 0x10; 0x00; 0x00;
   0x48; 0x05; 0x01; 0x28; 0x00; 0x00; 0x00; 0xaf; 0x10; 0x10; 0x00; 0x00;
   0x28; 0x08; 0x21; 0x80; 0x00; 0x00; 0x81; 0x0a; 0x50; 0x48; 0x00; 0x00;
   0x23; 0x06; 0x23; 0x00; 0x00; 0x00; 0x06; 0x80; 0x84; 0xc8; 0x00; 0x00;
   0x80; 0x17; 0x05; 0x00; 0x00; 0x00; 0x30; 0x10; 0x41; 0xa0; 0x00; 0x00;
   0x8c; 0x20; 0x1a; 0x40; 0x00; 0x00; 0x54; 0x01; 0x64; 0x00; 0x00; 0x00;
   0x80; 0xc0; 0x28; 0x30; 0x00; 0x00].

Definition kMaskRandom29_26 : list Z :=
  [0x62; 0x55; 0x8a; 0x88; 0x00; 0x00; 0x34; 0x60; 0xd1; 0x10; 0x00; 0x00;
   0x48; 0x05; 0x01; 0x28; 0x00; 0x00; 0x00; 0xaf; 0x10; 0x10; 0x00; 0x00;
   0x28; 0x08; 0x21; 0x80; 0x00; 0x00; 0x81; 0x0a; 0x50; 0x48; 0x00; 0x00;
   0x23; 0x06; 0x23; 0x00; 0x00; 0x00; 0x06; 0x80; 0x84; 0xc8; 0x00; 0x00;
   0x80; 0x17; 0x05; 0x00; 0x00; 0x00; 0x30; 0x10; 0x41; 0xa0; 0x00; 0x00;
   0x8c; 0x20; 0x1a; 0x40; 0x00; 0x00; 0x54; 0x01; 0x64; 0x00; 0x00; 0x00;
   0x80; 0xc0; 0x28; 0x30; 0x00; 0x00; 0x81; 0x06; 0x22; 0x40; 0x00; 0x00;
   0x40; 0x69; 0x01; 0x50; 0x00; 0x00; 0x90; 0x26; 0x09; 0x88; 0x00; 0x00;
   0x28; 0x28; 0x86; 0x90; 0x00; 0x00; 0x52; 0x10; 0x41; 0x90; 0x00; 0x00;
   0x41; 0x89; 0x10; 0x28; 0x00; 0x00; 0x09; 0x30; 0x43; 0x20; 0x00; 0x00;
   0x48; 0x45; 0x34; 0xa8; 0x00; 0x00; 0x04; 0x44; 0xe0; 0x08; 0x00; 0x00;
   0x0e; 0x80; 0x5d; 0x20; 0x00; 0x00; 0xa5; 0x92; 0x42; 0x10; 0x00; 0x00;
   0x12; 0x0d; 0xc8; 0x50; 0x00; 0x00; 0xb5; 0x4c; 0xa9; 0x70; 0x00; 0x00].

Definition kMaskRandom29_27 : list Z :=
  [0x62; 0x55; 0x8a; 0x88; 0x00; 0x00; 0x34; 0x60; 0xd1; 0x10; 0x00; 0x00;
   0x48; 0x05; 0x01; 0x28; 0x00; 0x00; 0x00; 0xaf; 0x10; 0x10; 0x00; 0x00;
   0x28; 0x08; 0x21; 0x80; 0x00; 0x00; 0x81; 0x0a; 0x50; 0x48; 0x00; 0x00;
   0x23; 0x06; 0x23; 0x00; 0x00; 0x00; 0x06; 0x80; 0x84; 0xc8; 0x00; 0x00;
   0x80; 0x17; 0x05; 0x00; 0x00; 0x00; 0x30; 0x10; 0x41; 0xa0; 0x00; 0x00;
   0x8c; 0x20; 0x1a; 0x40; 0x00; 0x00; 0x54; 0x01; 0x64; 0x00; 0x00; 0x00;
   0x80; 0xc0; 0x28; 0x30; 0x00; 0x00; 0x40; 0x55; 0x02; 0x08; 0x00; 0x00;
   0x15; 0x40; 0x55; 0x50; 0x00; 0x00; 0xc0; 0x06; 0x20; 0x48; 0x00; 0x00;
   0x28; 0x13; 0x00; 0x40; 0x00; 0x00; 0x05; 0x0e; 0x02; 0x80; 0x00; 0x00;
   0x64; 0x80; 0x04; 0x88; 0x00; 0x00; 0x81; 0x81; 0x00; 0xb0; 0x00; 0x00;
   0x10; 0x98; 0x88; 0x08; 0x00; 0x00; 0x84; 0x22; 0x40; 0x10; 0x00; 0x00;
   0x12; 0x30; 0x49; 0x00; 0x00; 0x00; 0x62; 0x01; 0x74; 0x00; 0x00; 0x00;
   0x28; 0x60; 0x81; 0x50; 0x00; 0x00; 0x0e; 0x0a; 0x18; 0x20; 0x00; 0x00;
   0x10; 0x84; 0xa2; 0x20; 0x00; 0x00].

Definition kMaskRandom29_28 : list Z :=
  [0x40; 0x55; 0x02; 0x08; 0x00; 0x00; 0x15; 0x40; 0x55; 0x50; 0x00; 0x00;
   0xc0; 0x06; 0x20; 0x48; 0x00; 0x00; 0x28; 0x13; 0x00; 0x40; 0x00; 0x00;
   0x05; 0x0e; 0x02; 0x80; 0x00; 0x00; 0x64; 0x80; 0x04; 0x88; 0x00; 0x00;
   0x81; 0x81; 0x00; 0xb0; 0x00; 0x00; 0x10; 0x98; 0x88; 0x08; 0x00; 0x00;
   0x84; 0x22; 0x40; 0x10; 0x00; 0x00; 0x12; 0x30; 0x49; 0x00; 0x00; 0x00;
   0x62; 0x01; 0x74; 0x00; 0x00; 0x00; 0x28; 0x60; 0x81; 0x50; 0x00; 0x00;
   0x0e; 0x0a; 0x18; 0x20; 0x00; 0x00; 0x10; 0x84; 0xa2; 0x20; 0x00; 0x00;
   0x62; 0x55; 0x8a; 0x88; 0x00; 0x00; 0x34; 0x60; 0xd1; 0x10; 0x00; 0x00;
   0x48; 0x05; 0x01; 0x28; 0x00; 0x00; 0x00; 0xaf; 0x10; 0x10; 0x00; 0x00;
   0x28; 0x08; 0x21; 0x80; 0x00; 0x00; 0x81; 0x0a; 0x50; 0x48; 0x00; 0x00;
   0x23; 0x06; 0x23; 0x00; 0x00; 0x00; 0x06; 0x80; 0x84; 0xc8; 0x00; 0x00;
   0x80; 0x17; 0x05; 0x00; 0x00; 0x00; 0x30; 0x10; 0x41; 0xa0; 0x00; 0x00;
   0x8c; 0x20; 0x1a; 0x40; 0x00; 0x00; 0x54; 0x01; 0x64; 0x00; 0x00; 0x00;
   0x80; 0xc0; 0x28; 0x30; 0x00; 0x00; 0xbe; 0x1f; 0x99; 0xb0; 0x00; 0x00].

Definition kMaskRandom29_29 : list Z :=
  [0x40; 0x55; 0x02; 0x08; 0x00; 0x00; 0x15; 0x40; 0x55; 0x50; 0x00; 0x00;
   0xc0; 0x06; 0x20; 0x48; 0x00; 0x00; 0x28; 0x13; 0x00; 0x40; 0x00; 0x00;
   0x05; 0x0e; 0x02; 0x80; 0x00; 0x00; 0x64; 0x80; 0x04; 0x88; 0x00; 0x00;
   0x81; 0x81; 0x00; 0xb0; 0x00; 0x00; 0x10; 0x98; 0x88; 0x08; 0x00; 0x00;
   0x84; 0x22; 0x40; 0x10; 0x00; 0x00; 0x12; 0x30; 0x49; 0x00; 0x00; 0x00;
   0x62; 0x01; 0x74; 0x00; 0x00; 0x00; 0x28; 0x60; 0x81; 0x50; 0x00; 0x00;
   0x0e; 0x0a; 0x18; 0x20; 0x00; 0x00; 0x10; 0x84; 0xa2; 0x20; 0x00; 0x00;
   0x40; 0x55; 0x88; 0x88; 0x00; 0x00; 0x15; 0x40; 0xc4; 0x40; 0x00; 0x00;
   0xc0; 0x05; 0x60; 0x00; 0x00; 0x00; 0x28; 0x10; 0x04; 0x48; 0x00; 0x00;
   0x05; 0x0e; 0x20; 0x80; 0x00; 0x00; 0x64; 0x81; 0x10; 0x08; 0x00; 0x00;
   0x81; 0x80; 0xa4; 0x10; 0x00; 0x00; 0x10; 0x9a; 0x0a; 0x80; 0x00; 0x00;
   0x84; 0x20; 0x28; 0x68; 0x00; 0x00; 0x12; 0x30; 0x47; 0x80; 0x00; 0x00;
   0x62; 0x02; 0x10; 0x10; 0x00; 0x00; 0x28; 0x62; 0x19; 0x00; 0x00; 0x00;
   0x0e; 0x08; 0x02; 0x18; 0x00; 0x00; 0x10; 0x85; 0x11; 0x20; 0x00; 0x00;
   0x29; 0x50; 0x42; 0x60; 0x00; 0x00].

Definition kMaskRandom30_1 : list Z :=
  [0xff; 0xff; 0xff; 0xfc; 0x00; 0x00].

Definition kMaskRandom30_2 : list Z :=
  [0xec; 0xeb; 0xd9; 0xd4; 0x00; 0x00; 0xbb; 0x9d; 0x77; 0x38; 0x00; 0x00].

Definition kMaskRandom30_3 : list Z :=
  [0xac; 0x93; 0x59; 0x24; 0x00; 0x00; 0x55; 0x4a; 0xaa; 0x94; 0x00; 0x00;
   0x43; 0x36; 0x86; 0x6c; 0x00; 0x00].

Definition kMaskRandom30_4 : list Z :=
  [0x25; 0xaa; 0x4b; 0x54; 0x00; 0x00; 0x95; 0x55; 0x2a; 0xa8; 0x00; 0x00;
   0x1a; 0x6a; 0x34; 0xd4; 0x00; 0x00; 0x43; 0xd4; 0x87; 0xa8; 0x00; 0x00].

Definition kMaskRandom30_5 : list Z :=
  [0x64; 0xa2; 0xc9; 0x44; 0x00; 0x00; 0x25; 0x54; 0x4a; 0xa8; 0x00; 0x00;
   0x49; 0x68; 0x92; 0xd0; 0x00; 0x00; 0x53; 0x90; 0xa7; 0x20; 0x00; 0x00;
   0x8e; 0x31; 0x1c; 0x60; 0x00; 0x00].

Definition kMaskRandom30_6 : list Z :=
  [0x62; 0x8a; 0xc5; 0x14; 0x00; 0x00; 0x15; 0x54; 0x2a; 0xa8; 0x00; 0x00;
   0x4c; 0x46; 0x98; 0x8c; 0x00; 0x00; 0x52; 0x94; 0xa5; 0x28; 0x00; 0x00;
   0x23; 0x64; 0x46; 0xc8; 0x00; 0x00; 0x8a; 0x59; 0x14; 0xb0; 0x00; 0x00].

Definition kMaskRandom30_7 : list Z :=
  [0x62; 0xa2; 0xc5; 0x44; 0x00; 0x00; 0xb1; 0x15; 0x62; 0x28; 0x00; 0x00;
   0x18; 0x6a; 0x30; 0xd4; 0x00; 0x00; 0x44; 0xd4; 0x89; 0xa8; 0x00; 0x00;
   0x13; 0x64; 0x26; 0xc8; 0x00; 0x00; 0x49; 0x1a; 0x92; 0x34; 0x00; 0x00;
   0x86; 0x8d; 0x0d; 0x18; 0x00; 0x00].

Definition kMaskRandom30_8 : list Z :=
  [0x90; 0x23; 0x20; 0x44; 0x00; 0x00; 0x09; 0x50; 0x12; 0xa0; 0x00; 0x00;
   0x00; 0x6a; 0x00; 0xd4; 0x00; 0x00; 0x20; 0x34; 0x40; 0x68; 0x00; 0x00;
   0x14; 0x44; 0x28; 0x88; 0x00; 0x00; 0xc2; 0x11; 0x84; 0x20; 0x00; 0x00;
   0x00; 0xc6; 0x01; 0x8c; 0x00; 0x00; 0x65; 0x80; 0xcb; 0x00; 0x00; 0x00].

Definition kMaskRandom30_9 : list Z :=
  [0x62; 0x22; 0xc4; 0x44; 0x00; 0x00; 0x24; 0x44; 0x48; 0x88; 0x00; 0x00;
   0xc0; 0x51; 0x80; 0xa0; 0x00; 0x00; 0x03; 0x0c; 0x06; 0x18; 0x00; 0x00;
   0x16; 0x28; 0x2c; 0x50; 0x00; 0x00; 0x89; 0x01; 0x12; 0x00; 0x00; 0x00;
   0x82; 0x91; 0x05; 0x20; 0x00; 0x00; 0x08; 0xa4; 0x11; 0x48; 0x00; 0x00;
   0x90; 0x49; 0x20; 0x90; 0x00; 0x00].

Definition kMaskRandom30_10 : list Z :=
  [0xc0; 0xa1; 0x81; 0x40; 0x00; 0x00; 0x15; 0x56; 0x2a; 0xac; 0x00; 0x00;
   0x74; 0x40; 0xe8; 0x80; 0x00; 0x00; 0x00; 0x9c; 0x01; 0x38; 0x00; 0x00;
   0x01; 0x2c; 0x02; 0x58; 0x00; 0x00; 0x44; 0x92; 0x89; 0x24; 0x00; 0x00;
   0x88; 0x51; 0x10; 0xa0; 0x00; 0x00; 0x20; 0xa4; 0x41; 0x48; 0x00; 0x00;
   0xaa; 0x05; 0x54; 0x08; 0x00; 0x00; 0x02; 0x62; 0x04; 0xc4; 0x00; 0x00].

Definition kMaskRandom30_11 : list Z :=
  [0x62; 0x22; 0xc4; 0x44; 0x00; 0x00; 0xf1; 0x11; 0xe2; 0x20; 0x00; 0x00;
   0x10; 0x0e; 0x20; 0x1c; 0x00; 0x00; 0x10; 0xb0; 0x21; 0x60; 0x00; 0x00;
   0x24; 0x24; 0x48; 0x48; 0x00; 0x00; 0x01; 0x12; 0x02; 0x24; 0x00; 0x00;
   0x00; 0xc4; 0x01; 0x88; 0x00; 0x00; 0x04; 0xa2; 0x09; 0x44; 0x00; 0x00;
   0x02; 0x58; 0x04; 0xb0; 0x00; 0x00; 0x2b; 0x00; 0x56; 0x00; 0x00; 0x00;
   0x98; 0x41; 0x30; 0x80; 0x00; 0x00].

Definition kMaskRandom30_12 : list Z :=
  [0x88; 0x91; 0x11; 0x20; 0x00; 0x00; 0x40; 0x54; 0x80; 0xa8; 0x00; 0x00;
   0x82; 0x63; 0x04; 0xc4; 0x00; 0x00; 0x21; 0xa4; 0x43; 0x48; 0x00; 0x00;
   0x10; 0x64; 0x20; 0xc8; 0x00; 0x00; 0x44; 0x0a; 0x88; 0x14; 0x00; 0x00;
   0x10; 0xc8; 0x21; 0x90; 0x00; 0x00; 0x4d; 0x2a; 0x9a; 0x54; 0x00; 0x00;
   0x38; 0x02; 0x70; 0x04; 0x00; 0x00; 0x17; 0x48; 0x2e; 0x90; 0x00; 0x00;
   0x90; 0x85; 0x21; 0x08; 0x00; 0x00; 0x72; 0x14; 0xe4; 0x28; 0x00; 0x00].

Definition kMaskRandom30_13 : list Z :=
  [0x62; 0xa2; 0xc5; 0x44; 0x00; 0x00; 0x34; 0x44; 0x68; 0x88; 0x00; 0x00;
   0x40; 0x4a; 0x80; 0x94; 0x00; 0x00; 0xc4; 0x05; 0x88; 0x08; 0x00; 0x00;
   0x08; 0x60; 0x10; 0xc0; 0x00; 0x00; 0x94; 0x13; 0x28; 0x24; 0x00; 0x00;
   0x88; 0xc1; 0x11; 0x80; 0x00; 0x00; 0x21; 0x32; 0x42; 0x64; 0x00; 0x00;
   0xc1; 0x41; 0x82; 0x80; 0x00; 0x00; 0x10; 0x68; 0x20; 0xd0; 0x00; 0x00;
   0x06; 0x90; 0x0d; 0x20; 0x00; 0x00; 0x59; 0x00; 0xb2; 0x00; 0x00; 0x00;
   0x0a; 0x0c; 0x14; 0x18; 0x00; 0x00].

Definition kMaskRandom30_14 : list Z :=
  [0x40; 0x82; 0x81; 0x04; 0x00; 0x00; 0x15; 0x54; 0x2a; 0xa8; 0x00; 0x00;
   0x88; 0x13; 0x10; 0x24; 0x00; 0x00; 0xc0; 0x11; 0x80; 0x20; 0x00; 0x00;
   0x80; 0xa1; 0x01; 0x40; 0x00; 0x00; 0x01; 0x22; 0x02; 0x44; 0x00; 0x00;
   0x40; 0x2c; 0x80; 0x58; 0x00; 0x00; 0x22; 0x02; 0x44; 0x04; 0x00; 0x00;
   0x90; 0x05; 0x20; 0x08; 0x00; 0x00; 0x12; 0x40; 0x24; 0x80; 0x00; 0x00;
   0x5d; 0x00; 0xba; 0x00; 0x00; 0x00; 0x20; 0x54; 0x40; 0xa8; 0x00; 0x00;
   0x86; 0x09; 0x0c; 0x10; 0x00; 0x00; 0x28; 0x88; 0x51; 0x10; 0x00; 0x00].

Definition kMaskRandom30_15 : list Z :=
  [0x62; 0x22; 0xc4; 0x44; 0x00; 0x00; 0x31; 0x10; 0x62; 0x20; 0x00; 0x00;
   0x58; 0x00; 0xb0; 0x00; 0x00; 0x00; 0x01; 0x12; 0x02; 0x24; 0x00; 0x00;
   0x88; 0x21; 0x10; 0x40; 0x00; 0x00; 0x44; 0x02; 0x88; 0x04; 0x00; 0x00;
   0x29; 0x04; 0x52; 0x08; 0x00; 0x00; 0x82; 0xa1; 0x05; 0x40; 0x00; 0x00;
   0x0a; 0x1a; 0x14; 0x34; 0x00; 0x00; 0x11; 0xe0; 0x23; 0xc0; 0x00; 0x00;
   0x84; 0x05; 0x08; 0x08; 0x00; 0x00; 0x86; 0x41; 0x0c; 0x80; 0x00; 0x00;
   0x00; 0x86; 0x01; 0x0c; 0x00; 0x00; 0x44; 0x48; 0x88; 0x90; 0x00; 0x00;
   0x10; 0x98; 0x21; 0x30; 0x00; 0x00].

Definition kMaskRandom30_16 : list Z :=
  [0x90; 0x23; 0x20; 0x44; 0x00; 0x00; 0x09; 0x50; 0x12; 0xa0; 0x00; 0x00;
   0x00; 0x6a; 0x00; 0xd4; 0x00; 0x00; 0x20; 0x34; 0x40; 0x68; 0x00; 0x00;
   0x14; 0x44; 0x28; 0x88; 0x00; 0x00; 0xc2; 0x11; 0x84; 0x20; 0x00; 0x00;
   0x00; 0xc6; 0x01; 0x8c; 0x00; 0x00; 0x65; 0x80; 0xcb; 0x00; 0x00; 0x00;
   0x62; 0xa2; 0xc5; 0x44; 0x00; 0x00; 0xb1; 0x15; 0x62; 0x28; 0x00; 0x00;
   0x18; 0x6a; 0x30; 0xd4; 0x00; 0x00; 0x44; 0xd4; 0x89; 0xa8; 0x00; 0x00;
   0x13; 0x64; 0x26; 0xc8; 0x00; 0x00; 0x49; 0x1a; 0x92; 0x34; 0x00; 0x00;
   0x86; 0x8d; 0x0d; 0x18; 0x00; 0x00; 0xce; 0x58; 0xa0; 0x14; 0x00; 0x00].

Definition kMaskRandom30_17 : list Z :=
  [0x90; 0x23; 0x20; 0x44; 0x00; 0x00; 0x09; 0x50; 0x12; 0xa0; 0x00; 0x00;
   0x00; 0x6a; 0x00; 0xd4; 0x00; 0x00; 0x20; 0x34; 0x40; 0x68; 0x00; 0x00;
   0x14; 0x44; 0x28; 0x88; 0x00; 0x00; 0xc2; 0x11; 0x84; 0x20; 0x00; 0x00;
   0x00; 0xc6; 0x01; 0x8c; 0x00; 0x00; 0x65; 0x80; 0xcb; 0x00; 0x00; 0x00;
   0x62; 0x22; 0xc4; 0x44; 0x00; 0x00; 0x24; 0x44; 0x48; 0x88; 0x00; 0x00;
   0xc0; 0x51; 0x80; 0xa0; 0x00; 0x00; 0x03; 0x0c; 0x06; 0x18; 0x00; 0x00;
   0x16; 0x28; 0x2c; 0x50; 0x00; 0x00; 0x89; 0x01; 0x12; 0x00; 0x00; 0x00;
   0x82; 0x91; 0x05; 0x20; 0x00; 0x00; 0x08; 0xa4; 0x11; 0x48; 0x00; 0x00;
   0x90; 0x49; 0x20; 0x90; 0x00; 0x00].

Definition kMaskRandom30_18 : list Z :=
  [0x62; 0x22; 0xc4; 0x44; 0x00; 0x00; 0x24; 0x44; 0x48; 0x88; 0x00; 0x00;
   0xc0; 0x51; 0x80; 0xa0; 0x00; 0x00; 0x03; 0x0c; 0x06; 0x18; 0x00; 0x00;
   0x16; 0x28; 0x2c; 0x50; 0x00; 0x00; 0x89; 0x01; 0x12; 0x00; 0x00; 0x00;
   0x82; 0x91; 0x05; 0x20; 0x00; 0x00; 0x08; 0xa4; 0x11; 0x48; 0x00; 0x00;
   0x90; 0x49; 0x20; 0x90; 0x00; 0x00; 0x90; 0x23; 0x20; 0x44; 0x00; 0x00;
   0x09; 0x50; 0x12; 0xa0; 0x00; 0x00; 0x00; 0x6a; 0x00; 0xd4; 0x00; 0x00;
   0x20; 0x34; 0x40; 0x68; 0x00; 0x00; 0x14; 0x44; 0x28; 0x88; 0x00; 0x00;
   0xc2; 0x11; 0x84; 0x20; 0x00; 0x00; 0x00; 0xc6; 0x01; 0x8c; 0x00; 0x00;
   0x65; 0x80; 0xcb; 0x00; 0x00; 0x00; 0x00; 0xb2; 0x47; 0x80; 0x00; 0x00].

Definition kMaskRandom30_19 : list Z :=
  [0x62; 0x22; 0xc4; 0x44; 0x00; 0x00; 0x24; 0x44; 0x48; 0x88; 0x00; 0x00;
   0xc0; 0x51; 0x80; 0xa0; 0x00; 0x00; 0x03; 0x0c; 0x06; 0x18; 0x00; 0x00;
   0x16; 0x28; 0x2c; 0x50; 0x00; 0x00; 0x89; 0x01; 0x12; 0x00; 0x00; 0x00;
   0x82; 0x91; 0x05; 0x20; 0x00; 0x00; 0x08; 0xa4; 0x11; 0x48; 0x00; 0x00;
   0x90; 0x49; 0x20; 0x90; 0x00; 0x00; 0xc0; 0xa1; 0x81; 0x40; 0x00; 0x00;
   0x15; 0x56; 0x2a; 0xac; 0x00; 0x00; 0x74; 0x40; 0xe8; 0x80; 0x00; 0x00;
   0x00; 0x9c; 0x01; 0x38; 0x00; 0x00; 0x01; 0x2c; 0x02; 0x58; 0x00; 0x00;
   0x44; 0x92; 0x89; 0x24; 0x00; 0x00; 0x88; 0x51; 0x10; 0xa0; 0x00; 0x00;
   0x20; 0xa4; 0x41; 0x48; 0x00; 0x00; 0xaa; 0x05; 0x54; 0x08; 0x00; 0x00;
   0x02; 0x62; 0x04; 0xc4; 0x00; 0x00].

Definition kMaskRandom30_20 : list Z :=
  [0xc0; 0xa1; 0x81; 0x40; 0x00; 0x00; 0x15; 0x56; 0x2a; 0xac; 0x00; 0x00;
   0x74; 0x40; 0xe8; 0x80; 0x00; 0x00; 0x00; 0x9c; 0x01; 0x38; 0x00; 0x00;
   0x01; 0x2c; 0x02; 0x58; 0x00; 0x00; 0x44; 0x92; 0x89; 0x24; 0x00; 0x00;
   0x88; 0x51; 0x10; 0xa0; 0x00; 0x00; 0x20; 0xa4; 0x41; 0x48; 0x00; 0x00;
   0xaa; 0x05; 0x54; 0x08; 0x00; 0x00; 0x02; 0x62; 0x04; 0xc4; 0x00; 0x00;
   0x62; 0x22; 0xc4; 0x44; 0x00; 0x00; 0x24; 0x44; 0x48; 0x88; 0x00; 0x00;
   0xc0; 0x51; 0x80; 0xa0; 0x00; 0x00; 0x03; 0x0c; 0x06; 0x18; 0x00; 0x00;
   0x16; 0x28; 0x2c; 0x50; 0x00; 0x00; 0x89; 0x01; 0x12; 0x00; 0x00; 0x00;
   0x82; 0x91; 0x05; 0x20; 0x00; 0x00; 0x08; 0xa4; 0x11; 0x48; 0x00; 0x00;
   0x90; 0x49; 0x20; 0x90; 0x00; 0x00; 0x51; 0x88; 0xd1; 0x78; 0x00; 0x00].

Definition kMaskRandom30_21 : list Z :=
  [0xc0; 0xa1; 0x81; 0x40; 0x00; 0x00; 0x15; 0x56; 0x2a; 0xac; 0x00; 0x00;
   0x74; 0x40; 0xe8; 0x80; 0x00; 0x00; 0x00; 0x9c; 0x01; 0x38; 0x00; 0x00;
   0x01; 0x2c; 0x02; 0x58; 0x00; 0x00; 0x44; 0x92; 0x89; 0x24; 0x00; 0x00;
   0x88; 0x51; 0x10; 0xa0; 0x00; 0x00; 0x20; 0xa4; 0x41; 0x48; 0x00; 0x00;
   0xaa; 0x05; 0x54; 0x08; 0x00; 0x00; 0x02; 0x62; 0x04; 0xc4; 0x00; 0x00;
   0x62; 0x22; 0xc4; 0x44; 0x00; 0x00; 0xf1; 0x11; 0xe2; 0x20; 0x00; 0x00;
   0x10; 0x0e; 0x20; 0x1c; 0x00; 0x00; 0x10; 0xb0; 0x21; 0x60; 0x00; 0x00;
   0x24; 0x24; 0x48; 0x48; 0x00; 0x00; 0x01; 0x12; 0x02; 0x24; 0x00; 0x00;
   0x00; 0xc4; 0x01; 0x88; 0x00; 0x00; 0x04; 0xa2; 0x09; 0x44; 0x00; 0x00;
   0x02; 0x58; 0x04; 0xb0; 0x00; 0x00; 0x2b; 0x00; 0x56; 0x00; 0x00; 0x00;
   0x98; 0x41; 0x30; 0x80; 0x00; 0x00].

Definition kMaskRandom30_22 : list Z :=
  [0x62; 0x22; 0xc4; 0x44; 0x00; 0x00; 0xf1; 0x11; 0xe2; 0x20; 0x00; 0x00;
   0x10; 0x0e; 0x20; 0x1c; 0x00; 0x00; 0x10; 0xb0; 0x21; 0x60; 0x00; 0x00;
   0x24; 0x24; 0x48; 0x48; 0x00; 0x00; 0x01; 0x12; 0x02; 0x24; 0x00; 0x00;
   0x00; 0xc4; 0x01; 0x88; 0x00; 0x00; 0x04; 0xa2; 0x09; 0x44; 0x00; 0x00;
   0x02; 0x58; 0x04; 0xb0; 0x00; 0x00; 0x2b; 0x00; 0x56; 0x00; 0x00; 0x00;
   0x98; 0x41; 0x30; 0x80; 0x00; 0x00; 0xc0; 0xa1; 0x81; 0x40; 0x00; 0x00;
   0x15; 0x56; 0x2a; 0xac; 0x00; 0x00; 0x74; 0x40; 0xe8; 0x80; 0x00; 0x00;
   0x00; 0x9c; 0x01; 0x38; 0x00; 0x00; 0x01; 0x2c; 0x02; 0x58; 0x00; 0x00;
   0x44; 0x92; 0x89; 0x24; 0x00; 0x00; 0x88; 0x51; 0x10; 0xa0; 0x00; 0x00;
   0x20; 0xa4; 0x41; 0x48; 0x00; 0x00; 0xaa; 0x05; 0x54; 0x08; 0x00; 0x00;
   0x02; 0x62; 0x04; 0xc4; 0x00; 0x00; 0x03; 0x10; 0x18; 0x74; 0x00; 0x00].

Definition kMaskRandom30_23 : list Z :=
  [0x62; 0x22; 0xc4; 0x44; 0x00; 0x00; 0xf1; 0x11; 0xe2; 0x20; 0x00; 0x00;
   0x10; 0x0e; 0x20; 0x1c; 0x00; 0x00; 0x10; 0xb0; 0x21; 0x60; 0x00; 0x00;
   0x24; 0x24; 0x48; 0x48; 0x00; 0x00; 0x01; 0x12; 0x02; 0x24; 0x00; 0x00;
   0x00; 0xc4; 0x01; 0x88; 0x00; 0x00; 0x04; 0xa2; 0x09; 0x44; 0x00; 0x00;
   0x02; 0x58; 0x04; 0xb0; 0x00; 0x00; 0x2b; 0x00; 0x56; 0x00; 0x00; 0x00;
   0x98; 0x41; 0x30; 0x80; 0x00; 0x00; 0x88; 0x91; 0x11; 0x20; 0x00; 0x00;
   0x40; 0x54; 0x80; 0xa8; 0x00; 0x00; 0x82; 0x63; 0x04; 0xc4; 0x00; 0x00;
   0x21; 0xa4; 0x43; 0x48; 0x00; 0x00; 0x10; 0x64; 0x20; 0xc8; 0x00; 0x00;
   0x44; 0x0a; 0x88; 0x14; 0x00; 0x00; 0x10; 0xc8; 0x21; 0x90; 0x00; 0x00;
   0x4d; 0x2a; 0x9a; 0x54; 0x00; 0x00; 0x38; 0x02; 0x70; 0x04; 0x00; 0x00;
   0x17; 0x48; 0x2e; 0x90; 0x00; 0x00; 0x90; 0x85; 0x21; 0x08; 0x00; 0x00;
   0x72; 0x14; 0xe4; 0x28; 0x00; 0x00].

Definition kMaskRandom30_24 : list Z :=
  [0x88; 0x91; 0x11; 0x20; 0x00; 0x00; 0x40; 0x54; 0x80; 0xa8; 0x00; 0x00;
   0x82; 0x63; 0x04; 0xc4; 0x00; 0x00; 0x21; 0xa4; 0x43; 0x48; 0x00; 0x00;
   0x10; 0x64; 0x20; 0xc8; 0x00; 0x00; 0x44; 0x0a; 0x88; 0x14; 0x00; 0x00;
   0x10; 0xc8; 0x21; 0x90; 0x00; 0x00; 0x4d; 0x2a; 0x9a; 0x54; 0x00; 0x00;
   0x38; 0x02; 0x70; 0x04; 0x00; 0x00; 0x17; 0x48; 0x2e; 0x90; 0x00; 0x00;
   0x90; 0x85; 0x21; 0x08; 0x00; 0x00; 0x72; 0x14; 0xe4; 0x28; 0x00; 0x00;
   0x62; 0x22; 0xc4; 0x44; 0x00; 0x00; 0xf1; 0x11; 0xe2; 0x20; 0x00; 0x00;
   0x10; 0x0e; 0x20; 0x1c; 0x00; 0x00; 0x10; 0xb0; 0x21; 0x60; 0x00; 0x00;
   0x24; 0x24; 0x48; 0x48; 0x00; 0x00; 0x01; 0x12; 0x02; 0x24; 0x00; 0x00;
   0x00; 0xc4; 0x01; 0x88; 0x00; 0x00; 0x04; 0xa2; 0x09; 0x44; 0x00; 0x00;
   0x02; 0x58; 0x04; 0xb0; 0x00; 0x00; 0x2b; 0x00; 0x56; 0x00; 0x00; 0x00;
   0x98; 0x41; 0x30; 0x80; 0x00; 0x00; 0xf3; 0x4d; 0x1c; 0x70; 0x00; 0x00].

Definition kMaskRandom30_25 : list Z :=
  [0x88; 0x91; 0x11; 0x20; 0x00; 0x00; 0x40; 0x54; 0x80; 0xa8; 0x00; 0x00;
   0x82; 0x63; 0x04; 0xc4; 0x00; 0x00; 0x21; 0xa4; 0x43; 0x48; 0x00; 0x00;
   0x10; 0x64; 0x20; 0xc8; 0x00; 0x00; 0x44; 0x0a; 0x88; 0x14; 0x00; 0x00;
   0x10; 0xc8; 0x21; 0x90; 0x00; 0x00; 0x4d; 0x2a; 0x9a; 0x54; 0x00; 0x00;
   0x38; 0x02; 0x70; 0x04; 0x00; 0x00; 0x17; 0x48; 0x2e; 0x90; 0x00; 0x00;
   0x90; 0x85; 0x21; 0x08; 0x00; 0x00; 0x72; 0x14; 0xe4; 0x28; 0x00; 0x00;
   0x62; 0xa2; 0xc5; 0x44; 0x00; 0x00; 0x34; 0x44; 0x68; 0x88; 0x00; 0x00;
   0x40; 0x4a; 0x80; 0x94; 0x00; 0x00; 0xc4; 0x05; 0x88; 0x08; 0x00; 0x00;
   0x08; 0x60; 0x10; 0xc0; 0x00; 0x00; 0x94; 0x13; 0x28; 0x24; 0x00; 0x00;
   0x88; 0xc1; 0x11; 0x80; 0x00; 0x00; 0x21; 0x32; 0x42; 0x64; 0x00; 0x00;
   0xc1; 0x41; 0x82; 0x80; 0x00; 0x00; 0x10; 0x68; 0x20; 0xd0; 0x00; 0x00;
   0x06; 0x90; 0x0d; 0x20; 0x00; 0x00; 0x59; 0x00; 0xb2; 0x00; 0x00; 0x00;
   0x0a; 0x0c; 0x14; 0x18; 0x00; 0x00].

Definition kMaskRandom30_26 : list Z :=
  [0x62; 0xa2; 0xc5; 0x44; 0x00; 0x00; 0x34; 0x44; 0x68; 0x88; 0x00; 0x00;
   0x40; 0x4a; 0x80; 0x94; 0x00; 0x00; 0xc4; 0x05; 0x88; 0x08; 0x00; 0x00;
   0x08; 0x60; 0x10; 0xc0; 0x00; 0x00; 0x94; 0x13; 0x28; 0x24; 0x00; 0x00;
   0x88; 0xc1; 0x11; 0x80; 0x00; 0x00; 0x21; 0x32; 0x42; 0x64; 0x00; 0x00;
   0xc1; 0x41; 0x82; 0x80; 0x00; 0x00; 0x10; 0x68; 0x20; 0xd0; 0x00; 0x00;
   0x06; 0x90; 0x0d; 0x20; 0x00; 0x00; 0x59; 0x00; 0xb2; 0x00; 0x00; 0x00;
   0x0a; 0x0c; 0x14; 0x18; 0x00; 0x00; 0x88; 0x91; 0x11; 0x20; 0x00; 0x00;
   0x40; 0x54; 0x80; 0xa8; 0x00; 0x00; 0x82; 0x63; 0x04; 0xc4; 0x00; 0x00;
   0x21; 0xa4; 0x43; 0x48; 0x00; 0x00; 0x10; 0x64; 0x20; 0xc8; 0x00; 0x00;
   0x44; 0x0a; 0x88; 0x14; 0x00; 0x00; 0x10; 0xc8; 0x21; 0x90; 0x00; 0x00;
   0x4d; 0x2a; 0x9a; 0x54; 0x00; 0x00; 0x38; 0x02; 0x70; 0x04; 0x00; 0x00;
   0x17; 0x48; 0x2e; 0x90; 0x00; 0x00; 0x90; 0x85; 0x21; 0x08; 0x00; 0x00;
   0x72; 0x14; 0xe4; 0x28; 0x00; 0x00; 0x83; 0x11; 0xad; 0xe8; 0x00; 0x00].

Definition kMaskRandom30_27 : list Z :=
  [0x62; 0xa2; 0xc5; 0x44; 0x00; 0x00; 0x34; 0x44; 0x68; 0x88; 0x00; 0x00;
   0x40; 0x4a; 0x80; 0x94; 0x00; 0x00; 0xc4; 0x05; 0x88; 0x08; 0x00; 0x00;
   0x08; 0x60; 0x10; 0xc0; 0x00; 0x00; 0x94; 0x13; 0x28; 0x24; 0x00; 0x00;
   0x88; 0xc1; 0x11; 0x80; 0x00; 0x00; 0x21; 0x32; 0x42; 0x64; 0x00; 0x00;
   0xc1; 0x41; 0x82; 0x80; 0x00; 0x00; 0x10; 0x68; 0x20; 0xd0; 0x00; 0x00;
   0x06; 0x90; 0x0d; 0x20; 0x00; 0x00; 0x59; 0x00; 0xb2; 0x00; 0x00; 0x00;
   0x0a; 0x0c; 0x14; 0x18; 0x00; 0x00; 0x40; 0x82; 0x81; 0x04; 0x00; 0x00;
   0x15; 0x54; 0x2a; 0xa8; 0x00; 0x00; 0x88; 0x13; 0x10; 0x24; 0x00; 0x00;
   0xc0; 0x11; 0x80; 0x20; 0x00; 0x00; 0x80; 0xa1; 0x01; 0x40; 0x00; 0x00;
   0x01; 0x22; 0x02; 0x44; 0x00; 0x00; 0x40; 0x2c; 0x80; 0x58; 0x00; 0x00;
   0x22; 0x02; 0x44; 0x04; 0x00; 0x00; 0x90; 0x05; 0x20; 0x08; 0x00; 0x00;
   0x12; 0x40; 0x24; 0x80; 0x00; 0x00; 0x5d; 0x00; 0xba; 0x00; 0x00; 0x00;
   0x20; 0x54; 0x40; 0xa8; 0x00; 0x00; 0x86; 0x09; 0x0c; 0x10; 0x00; 0x00;
   0x28; 0x88; 0x51; 0x10; 0x00; 0x00].

Definition kMaskRandom30_28 : list Z :=
  [0x40; 0x82; 0x81; 0x04; 0x00; 0x00; 0x15; 0x54; 0x2a; 0xa8; 0x00; 0x00;
   0x88; 0x13; 0x10; 0x24; 0x00; 0x00; 0xc0; 0x11; 0x80; 0x20; 0x00; 0x00;
   0x80; 0xa1; 0x01; 0x40; 0x00; 0x00; 0x01; 0x22; 0x02; 0x44; 0x00; 0x00;
   0x40; 0x2c; 0x80; 0x58; 0x00; 0x00; 0x22; 0x02; 0x44; 0x04; 0x00; 0x00;
   0x90; 0x05; 0x20; 0x08; 0x00; 0x00; 0x12; 0x40; 0x24; 0x80; 0x00; 0x00;
   0x5d; 0x00; 0xba; 0x00; 0x00; 0x00; 0x20; 0x54; 0x40; 0xa8; 0x00; 0x00;
   0x86; 0x09; 0x0c; 0x10; 0x00; 0x00; 0x28; 0x88; 0x51; 0x10; 0x00; 0x00;
   0x62; 0xa2; 0xc5; 0x44; 0x00; 0x00; 0x34; 0x44; 0x68; 0x88; 0x00; 0x00;
   0x40; 0x4a; 0x80; 0x94; 0x00; 0x00; 0xc4; 0x05; 0x88; 0x08; 0x00; 0x00;
   0x08; 0x60; 0x10; 0xc0; 0x00; 0x00; 0x94; 0x13; 0x28; 0x24; 0x00; 0x00;
   0x88; 0xc1; 0x11; 0x80; 0x00; 0x00; 0x21; 0x32; 0x42; 0x64; 0x00; 0x00;
   0xc1; 0x41; 0x82; 0x80; 0x00; 0x00; 0x10; 0x68; 0x20; 0xd0; 0x00; 0x00;
   0x06; 0x90; 0x0d; 0x20; 0x00; 0x00; 0x59; 0x00; 0xb2; 0x00; 0x00; 0x00;
   0x0a; 0x0c; 0x14; 0x18; 0x00; 0x00; 0x94; 0x59; 0x03; 0x18; 0x00; 0x00].

Definition kMaskRandom30_29 : list Z :=
  [0x40; 0x82; 0x81; 0x04; 0x00; 0x00; 0x15; 0x54; 0x2a; 0xa8; 0x00; 0x00;
   0x88; 0x13; 0x10; 0x24; 0x00; 0x00; 0xc0; 0x11; 0x80; 0x20; 0x00; 0x00;
   0x80; 0xa1; 0x01; 0x40; 0x00; 0x00; 0x01; 0x22; 0x02; 0x44; 0x00; 0x00;
   0x40; 0x2c; 0x80; 0x58; 0x00; 0x00; 0x22; 0x02; 0x44; 0x04; 0x00; 0x00;
   0x90; 0x05; 0x20; 0x08; 0x00; 0x00; 0x12; 0x40; 0x24; 0x80; 0x00; 0x00;
   0x5d; 0x00; 0xba; 0x00; 0x00; 0x00; 0x20; 0x54; 0x40; 0xa8; 0x00; 0x00;
   0x86; 0x09; 0x0c; 0x10; 0x00; 0x00; 0x28; 0x88; 0x51; 0x10; 0x00; 0x00;
   0x62; 0x22; 0xc4; 0x44; 0x00; 0x00; 0x31; 0x10; 0x62; 0x20; 0x00; 0x00;
   0x58; 0x00; 0xb0; 0x00; 0x00; 0x00; 0x01; 0x12; 0x02; 0x24; 0x00; 0x00;
   0x88; 0x21; 0x10; 0x40; 0x00; 0x00; 0x44; 0x02; 0x88; 0x04; 0x00; 0x00;
   0x29; 0x04; 0x52; 0x08; 0x00; 0x00; 0x82; 0xa1; 0x05; 0x40; 0x00; 0x00;
   0x0a; 0x1a; 0x14; 0x34; 0x00; 0x00; 0x11; 0xe0; 0x23; 0xc0; 0x00; 0x00;
   0x84; 0x05; 0x08; 0x08; 0x00; 0x00; 0x86; 0x41; 0x0c; 0x80; 0x00; 0x00;
   0x00; 0x86; 0x01; 0x0c; 0x00; 0x00; 0x44; 0x48; 0x88; 0x90; 0x00; 0x00;
   0x10; 0x98; 0x21; 0x30; 0x00; 0x00].

Definition kMaskRandom30_30 : list Z :=
  [0x62; 0x22; 0xc4; 0x44; 0x00; 0x00; 0x31; 0x10; 0x62; 0x20; 0x00; 0x00;
   0x58; 0x00; 0xb0; 0x00; 0x00; 0x00; 0x01; 0x12; 0x02; 0x24; 0x00; 0x00;
   0x88; 0x21; 0x10; 0x40; 0x00; 0x00; 0x44; 0x02; 0x88; 0x04; 0x00; 0x00;
   0x29; 0x04; 0x52; 0x08; 0x00; 0x00; 0x82; 0xa1; 0x05; 0x40; 0x00; 0x00;
   0x0a; 0x1a; 0x14; 0x34; 0x00; 0x00; 0x11; 0xe0; 0x23; 0xc0; 0x00; 0x00;
   0x84; 0x05; 0x08; 0x08; 0x00; 0x00; 0x86; 0x41; 0x0c; 0x80; 0x00; 0x00;
   0x00; 0x86; 0x01; 0x0c; 0x00; 0x00; 0x44; 0x48; 0x88; 0x90; 0x00; 0x00;
   0x10; 0x98; 0x21; 0x30; 0x00; 0x00; 0x40; 0x82; 0x81; 0x04; 0x00; 0x00;
   0x15; 0x54; 0x2a; 0xa8; 0x00; 0x00; 0x88; 0x13; 0x10; 0x24; 0x00; 0x00;
   0xc0; 0x11; 0x80; 0x20; 0x00; 0x00; 0x80; 0xa1; 0x01; 0x40; 0x00; 0x00;
   0x01; 0x22; 0x02; 0x44; 0x00; 0x00; 0x40; 0x2c; 0x80; 0x58; 0x00; 0x00;
   0x22; 0x02; 0x44; 0x04; 0x00; 0x00; 0x90; 0x05; 0x20; 0x08; 0x00; 0x00;
   0x12; 0x40; 0x24; 0x80; 0x00; 0x00; 0x5d; 0x00; 0xba; 0x00; 0x00; 0x00;
   0x20; 0x54; 0x40; 0xa8; 0x00; 0x00; 0x86; 0x09; 0x0c; 0x10; 0x00; 0x00;
   0x28; 0x88; 0x51; 0x10; 0x00; 0x00; 0x46; 0xf1; 0xef; 0xec; 0x00; 0x00].

Definition kMaskRandom31_1 : list Z :=
  [0xff; 0xff; 0xff; 0xfe; 0x00; 0x00].

Definition kMaskRandom31_2 : list Z :=
  [0xec; 0xeb; 0x5d; 0x5c; 0x00; 0x00; 0xbb; 0x9c; 0xf2; 0xf2; 0x00; 0x00].

Definition kMaskRandom31_3 : list Z :=
  [0xac; 0x93; 0x5a; 0x5a; 0x00; 0x00; 0x55; 0x4a; 0xec; 0x6c; 0x00; 0x00;
   0x43; 0x36; 0x4d; 0xb6; 0x00; 0x00].

Definition kMaskRandom31_4 : list Z :=
  [0x25; 0xaa; 0xaa; 0xaa; 0x00; 0x00; 0x95; 0x55; 0x55; 0x54; 0x00; 0x00;
   0x1a; 0x6a; 0x6a; 0x6a; 0x00; 0x00; 0x43; 0xd5; 0x95; 0x94; 0x00; 0x00].

Definition kMaskRandom31_5 : list Z :=
  [0x64; 0xa2; 0xaa; 0xaa; 0x00; 0x00; 0x25; 0x54; 0x54; 0x54; 0x00; 0x00;
   0x49; 0x68; 0x48; 0x4a; 0x00; 0x00; 0x53; 0x91; 0x09; 0x90; 0x00; 0x00;
   0x8e; 0x30; 0x21; 0x6c; 0x00; 0x00].

Definition kMaskRandom31_6 : list Z :=
  [0x62; 0x8a; 0xa2; 0xa2; 0x00; 0x00; 0x15; 0x54; 0x14; 0x54; 0x00; 0x00;
   0x4c; 0x47; 0x44; 0x2a; 0x00; 0x00; 0x52; 0x95; 0x08; 0x94; 0x00; 0x00;
   0x23; 0x64; 0x61; 0x24; 0x00; 0x00; 0x8a; 0x58; 0x09; 0x58; 0x00; 0x00].

Definition kMaskRandom31_7 : list Z :=
  [0x62; 0xa2; 0x8a; 0xa2; 0x00; 0x00; 0xb1; 0x14; 0x44; 0x54; 0x00; 0x00;
   0x18; 0x6b; 0x22; 0x22; 0x00; 0x00; 0x44; 0xd4; 0x5c; 0x10; 0x00; 0x00;
   0x13; 0x64; 0x90; 0x68; 0x00; 0x00; 0x49; 0x1b; 0x20; 0x52; 0x00; 0x00;
   0x86; 0x8c; 0x13; 0x0c; 0x00; 0x00].

Definition kMaskRandom31_8 : list Z :=
  [0x90; 0x22; 0x40; 0xa8; 0x00; 0x00; 0x09; 0x50; 0x31; 0x10; 0x00; 0x00;
   0x00; 0x6b; 0x08; 0x0e; 0x00; 0x00; 0x20; 0x34; 0xc0; 0x90; 0x00; 0x00;
   0x14; 0x44; 0x25; 0x04; 0x00; 0x00; 0xc2; 0x11; 0x02; 0x82; 0x00; 0x00;
   0x00; 0xc6; 0x80; 0xc4; 0x00; 0x00; 0x65; 0x80; 0x2c; 0x60; 0x00; 0x00].

Definition kMaskRandom31_9 : list Z :=
  [0x62; 0x22; 0xaa; 0xa2; 0x00; 0x00; 0x24; 0x44; 0x44; 0x54; 0x00; 0x00;
   0xc0; 0x50; 0x0b; 0x0a; 0x00; 0x00; 0x03; 0x0c; 0x12; 0x94; 0x00; 0x00;
   0x16; 0x29; 0x08; 0x64; 0x00; 0x00; 0x89; 0x01; 0x80; 0x1a; 0x00; 0x00;
   0x82; 0x90; 0x41; 0x4c; 0x00; 0x00; 0x08; 0xa4; 0x34; 0x12; 0x00; 0x00;
   0x90; 0x48; 0x88; 0xc8; 0x00; 0x00].

Definition kMaskRandom31_10 : list Z :=
  [0xc0; 0xa0; 0x8a; 0xa2; 0x00; 0x00; 0x15; 0x56; 0x21; 0x44; 0x00; 0x00;
   0x74; 0x40; 0x02; 0x4a; 0x00; 0x00; 0x00; 0x9c; 0x16; 0x84; 0x00; 0x00;
   0x01; 0x2d; 0xb0; 0x40; 0x00; 0x00; 0x44; 0x93; 0x05; 0x18; 0x00; 0x00;
   0x88; 0x50; 0x48; 0x94; 0x00; 0x00; 0x20; 0xa4; 0x70; 0x30; 0x00; 0x00;
   0xaa; 0x04; 0x54; 0x4a; 0x00; 0x00; 0x02; 0x63; 0x09; 0x24; 0x00; 0x00].

Definition kMaskRandom31_11 : list Z :=
  [0x62; 0x22; 0xaa; 0xaa; 0x00; 0x00; 0xf1; 0x10; 0x54; 0x44; 0x00; 0x00;
   0x10; 0x0e; 0x62; 0x22; 0x00; 0x00; 0x10; 0xb1; 0x06; 0x84; 0x00; 0x00;
   0x24; 0x24; 0x0d; 0x30; 0x00; 0x00; 0x01; 0x12; 0x81; 0xc2; 0x00; 0x00;
   0x00; 0xc4; 0x58; 0x88; 0x00; 0x00; 0x04; 0xa3; 0xb0; 0x50; 0x00; 0x00;
   0x02; 0x59; 0x25; 0x02; 0x00; 0x00; 0x2b; 0x01; 0x08; 0x64; 0x00; 0x00;
   0x98; 0x40; 0xd0; 0x18; 0x00; 0x00].

Definition kMaskRandom31_12 : list Z :=
  [0x88; 0x91; 0x08; 0x62; 0x00; 0x00; 0x40; 0x54; 0x31; 0x44; 0x00; 0x00;
   0x82; 0x62; 0x9c; 0x02; 0x00; 0x00; 0x21; 0xa4; 0x89; 0x90; 0x00; 0x00;
   0x10; 0x64; 0x1d; 0x20; 0x00; 0x00; 0x44; 0x0a; 0x41; 0x98; 0x00; 0x00;
   0x10; 0xc9; 0x26; 0x80; 0x00; 0x00; 0x4d; 0x2a; 0x5a; 0x20; 0x00; 0x00;
   0x38; 0x02; 0x62; 0x88; 0x00; 0x00; 0x17; 0x49; 0x80; 0x46; 0x00; 0x00;
   0x90; 0x84; 0x22; 0x4a; 0x00; 0x00; 0x72; 0x15; 0xd1; 0x00; 0x00; 0x00].

Definition kMaskRandom31_13 : list Z :=
  [0x62; 0xa2; 0x8a; 0x2a; 0x00; 0x00; 0x34; 0x44; 0x44; 0x44; 0x00; 0x00;
   0x40; 0x4b; 0x2c; 0x18; 0x00; 0x00; 0xc4; 0x04; 0x18; 0xa0; 0x00; 0x00;
   0x08; 0x60; 0xc4; 0x08; 0x00; 0x00; 0x94; 0x12; 0x92; 0x0c; 0x00; 0x00;
   0x88; 0xc0; 0x23; 0x04; 0x00; 0x00; 0x21; 0x32; 0x24; 0x70; 0x00; 0x00;
   0xc1; 0x40; 0x80; 0xe2; 0x00; 0x00; 0x10; 0x69; 0x51; 0x14; 0x00; 0x00;
   0x06; 0x90; 0x11; 0x42; 0x00; 0x00; 0x59; 0x01; 0x41; 0x80; 0x00; 0x00;
   0x0a; 0x0d; 0x8a; 0x20; 0x00; 0x00].

Definition kMaskRandom31_14 : list Z :=
  [0x40; 0x82; 0x8a; 0xa2; 0x00; 0x00; 0x15; 0x54; 0x44; 0x14; 0x00; 0x00;
   0x88; 0x13; 0x09; 0xa0; 0x00; 0x00; 0xc0; 0x10; 0x19; 0x14; 0x00; 0x00;
   0x80; 0xa0; 0x30; 0x0c; 0x00; 0x00; 0x01; 0x22; 0x60; 0x06; 0x00; 0x00;
   0x40; 0x2c; 0xc2; 0x10; 0x00; 0x00; 0x22; 0x02; 0x80; 0x22; 0x00; 0x00;
   0x90; 0x04; 0x20; 0x58; 0x00; 0x00; 0x12; 0x40; 0x12; 0xc0; 0x00; 0x00;
   0x5d; 0x00; 0x01; 0x28; 0x00; 0x00; 0x20; 0x54; 0xa4; 0x80; 0x00; 0x00;
   0x86; 0x09; 0x48; 0x48; 0x00; 0x00; 0x28; 0x89; 0x05; 0x10; 0x00; 0x00].

Definition kMaskRandom31_15 : list Z :=
  [0x62; 0x22; 0xaa; 0x22; 0x00; 0x00; 0x31; 0x10; 0x44; 0x44; 0x00; 0x00;
   0x58; 0x00; 0x22; 0x22; 0x00; 0x00; 0x01; 0x13; 0x00; 0x8a; 0x00; 0x00;
   0x88; 0x20; 0x40; 0x34; 0x00; 0x00; 0x44; 0x02; 0x10; 0xd0; 0x00; 0x00;
   0x29; 0x04; 0x45; 0x08; 0x00; 0x00; 0x82; 0xa0; 0x90; 0x12; 0x00; 0x00;
   0x0a; 0x1a; 0x0e; 0x02; 0x00; 0x00; 0x11; 0xe1; 0x28; 0x40; 0x00; 0x00;
   0x84; 0x05; 0x04; 0x0c; 0x00; 0x00; 0x86; 0x40; 0xc0; 0x90; 0x00; 0x00;
   0x00; 0x87; 0x13; 0x00; 0x00; 0x00; 0x44; 0x48; 0x01; 0x1c; 0x00; 0x00;
   0x10; 0x98; 0x30; 0x44; 0x00; 0x00].

Definition kMaskRandom31_16 : list Z :=
  [0x90; 0x22; 0x40; 0xa8; 0x00; 0x00; 0x09; 0x50; 0x31; 0x10; 0x00; 0x00;
   0x00; 0x6b; 0x08; 0x0e; 0x00; 0x00; 0x20; 0x34; 0xc0; 0x90; 0x00; 0x00;
   0x14; 0x44; 0x25; 0x04; 0x00; 0x00; 0xc2; 0x11; 0x02; 0x82; 0x00; 0x00;
   0x00; 0xc6; 0x80; 0xc4; 0x00; 0x00; 0x65; 0x80; 0x2c; 0x60; 0x00; 0x00;
   0x62; 0xa2; 0x8a; 0xa2; 0x00; 0x00; 0xb1; 0x14; 0x44; 0x54; 0x00; 0x00;
   0x18; 0x6b; 0x22; 0x22; 0x00; 0x00; 0x44; 0xd4; 0x5c; 0x10; 0x00; 0x00;
   0x13; 0x64; 0x90; 0x68; 0x00; 0x00; 0x49; 0x1b; 0x20; 0x52; 0x00; 0x00;
   0x86; 0x8c; 0x13; 0x0c; 0x00; 0x00; 0x8d; 0x94; 0xa9; 0xe0; 0x00; 0x00].

Definition kMaskRandom31_17 : list Z :=
  [0x90; 0x22; 0x40; 0xa8; 0x00; 0x00; 0x09; 0x50; 0x31; 0x10; 0x00; 0x00;
   0x00; 0x6b; 0x08; 0x0e; 0x00; 0x00; 0x20; 0x34; 0xc0; 0x90; 0x00; 0x00;
   0x14; 0x44; 0x25; 0x04; 0x00; 0x00; 0xc2; 0x11; 0x02; 0x82; 0x00; 0x00;
   0x00; 0xc6; 0x80; 0xc4; 0x00; 0x00; 0x65; 0x80; 0x2c; 0x60; 0x00; 0x00;
   0x62; 0x22; 0xaa; 0xa2; 0x00; 0x00; 0x24; 0x44; 0x44; 0x54; 0x00; 0x00;
   0xc0; 0x50; 0x0b; 0x0a; 0x00; 0x00; 0x03; 0x0c; 0x12; 0x94; 0x00; 0x00;
   0x16; 0x29; 0x08; 0x64; 0x00; 0x00; 0x89; 0x01; 0x80; 0x1a; 0x00; 0x00;
   0x82; 0x90; 0x41; 0x4c; 0x00; 0x00; 0x08; 0xa4; 0x34; 0x12; 0x00; 0x00;
   0x90; 0x48; 0x88; 0xc8; 0x00; 0x00].

Definition kMaskRandom31_18 : list Z :=
  [0x62; 0x22; 0xaa; 0xa2; 0x00; 0x00; 0x24; 0x44; 0x44; 0x54; 0x00; 0x00;
   0xc0; 0x50; 0x0b; 0x0a; 0x00; 0x00; 0x03; 0x0c; 0x12; 0x94; 0x00; 0x00;
   0x16; 0x29; 0x08; 0x64; 0x00; 0x00; 0x89; 0x01; 0x80; 0x1a; 0x00; 0x00;
   0x82; 0x90; 0x41; 0x4c; 0x00; 0x00; 0x08; 0xa4; 0x34; 0x12; 0x00; 0x00;
   0x90; 0x48; 0x88; 0xc8; 0x00; 0x00; 0x90; 0x22; 0x40; 0xa8; 0x00; 0x00;
   0x09; 0x50; 0x31; 0x10; 0x00; 0x00; 0x00; 0x6b; 0x08; 0x0e; 0x00; 0x00;
   0x20; 0x34; 0xc0; 0x90; 0x00; 0x00; 0x14; 0x44; 0x25; 0x04; 0x00; 0x00;
   0xc2; 0x11; 0x02; 0x82; 0x00; 0x00; 0x00; 0xc6; 0x80; 0xc4; 0x00; 0x00;
   0x65; 0x80; 0x2c; 0x60; 0x00; 0x00; 0xe3; 0xd1; 0x2e; 0x00; 0x00; 0x00].

Definition kMaskRandom31_19 : list Z :=
  [0x62; 0x22; 0xaa; 0xa2; 0x00; 0x00; 0x24; 0x44; 0x44; 0x54; 0x00; 0x00;
   0xc0; 0x50; 0x0b; 0x0a; 0x00; 0x00; 0x03; 0x0c; 0x12; 0x94; 0x00; 0x00;
   0x16; 0x29; 0x08; 0x64; 0x00; 0x00; 0x89; 0x01; 0x80; 0x1a; 0x00; 0x00;
   0x82; 0x90; 0x41; 0x4c; 0x00; 0x00; 0x08; 0xa4; 0x34; 0x12; 0x00; 0x00;
   0x90; 0x48; 0x88; 0xc8; 0x00; 0x00; 0xc0; 0xa0; 0x8a; 0xa2; 0x00; 0x00;
   0x15; 0x56; 0x21; 0x44; 0x00; 0x00; 0x74; 0x40; 0x02; 0x4a; 0x00; 0x00;
   0x00; 0x9c; 0x16; 0x84; 0x00; 0x00; 0x01; 0x2d; 0xb0; 0x40; 0x00; 0x00;
   0x44; 0x93; 0x05; 0x18; 0x00; 0x00; 0x88; 0x50; 0x48; 0x94; 0x00; 0x00;
   0x20; 0xa4; 0x70; 0x30; 0x00; 0x00; 0xaa; 0x04; 0x54; 0x4a; 0x00; 0x00;
   0x02; 0x63; 0x09; 0x24; 0x00; 0x00].

Definition kMaskRandom31_20 : list Z :=
  [0xc0; 0xa0; 0x8a; 0xa2; 0x00; 0x00; 0x15; 0x56; 0x21; 0x44; 0x00; 0x00;
   0x74; 0x40; 0x02; 0x4a; 0x00; 0x00; 0x00; 0x9c; 0x16; 0x84; 0x00; 0x00;
   0x01; 0x2d; 0xb0; 0x40; 0x00; 0x00; 0x44; 0x93; 0x05; 0x18; 0x00; 0x00;
   0x88; 0x50; 0x48; 0x94; 0x00; 0x00; 0x20; 0xa4; 0x70; 0x30; 0x00; 0x00;
   0xaa; 0x04; 0x54; 0x4a; 0x00; 0x00; 0x02; 0x63; 0x09; 0x24; 0x00; 0x00;
   0x62; 0x22; 0xaa; 0xa2; 0x00; 0x00; 0x24; 0x44; 0x44; 0x54; 0x00; 0x00;
   0xc0; 0x50; 0x0b; 0x0a; 0x00; 0x00; 0x03; 0x0c; 0x12; 0x94; 0x00; 0x00;
   0x16; 0x29; 0x08; 0x64; 0x00; 0x00; 0x89; 0x01; 0x80; 0x1a; 0x00; 0x00;
   0x82; 0x90; 0x41; 0x4c; 0x00; 0x00; 0x08; 0xa4; 0x34; 0x12; 0x00; 0x00;
   0x90; 0x48; 0x88; 0xc8; 0x00; 0x00; 0x9a; 0xd4; 0x6a; 0x36; 0x00; 0x00].

Definition kMaskRandom31_21 : list Z :=
  [0xc0; 0xa0; 0x8a; 0xa2; 0x00; 0x00; 0x15; 0x56; 0x21; 0x44; 0x00; 0x00;
   0x74; 0x40; 0x02; 0x4a; 0x00; 0x00; 0x00; 0x9c; 0x16; 0x84; 0x00; 0x00;
   0x01; 0x2d; 0xb0; 0x40; 0x00; 0x00; 0x44; 0x93; 0x05; 0x18; 0x00; 0x00;
   0x88; 0x50; 0x48; 0x94; 0x00; 0x00; 0x20; 0xa4; 0x70; 0x30; 0x00; 0x00;
   0xaa; 0x04; 0x54; 0x4a; 0x00; 0x00; 0x02; 0x63; 0x09; 0x24; 0x00; 0x00;
   0x62; 0x22; 0xaa; 0xaa; 0x00; 0x00; 0xf1; 0x10; 0x54; 0x44; 0x00; 0x00;
   0x10; 0x0e; 0x62; 0x22; 0x00; 0x00; 0x10; 0xb1; 0x06; 0x84; 0x00; 0x00;
   0x24; 0x24; 0x0d; 0x30; 0x00; 0x00; 0x01; 0x12; 0x81; 0xc2; 0x00; 0x00;
   0x00; 0xc4; 0x58; 0x88; 0x00; 0x00; 0x04; 0xa3; 0xb0; 0x50; 0x00; 0x00;
   0x02; 0x59; 0x25; 0x02; 0x00; 0x00; 0x2b; 0x01; 0x08; 0x64; 0x00; 0x00;
   0x98; 0x40; 0xd0; 0x18; 0x00; 0x00].

Definition kMaskRandom31_22 : list Z :=
  [0x62; 0x22; 0xaa; 0xaa; 0x00; 0x00; 0xf1; 0x10; 0x54; 0x44; 0x00; 0x00;
   0x10; 0x0e; 0x62; 0x22; 0x00; 0x00; 0x10; 0xb1; 0x06; 0x84; 0x00; 0x00;
   0x24; 0x24; 0x0d; 0x30; 0x00; 0x00; 0x01; 0x12; 0x81; 0xc2; 0x00; 0x00;
   0x00; 0xc4; 0x58; 0x88; 0x00; 0x00; 0x04; 0xa3; 0xb0; 0x50; 0x00; 0x00;
   0x02; 0x59; 0x25; 0x02; 0x00; 0x00; 0x2b; 0x01; 0x08; 0x64; 0x00; 0x00;
   0x98; 0x40; 0xd0; 0x18; 0x00; 0x00; 0xc0; 0xa0; 0x8a; 0xa2; 0x00; 0x00;
   0x15; 0x56; 0x21; 0x44; 0x00; 0x00; 0x74; 0x40; 0x02; 0x4a; 0x00; 0x00;
   0x00; 0x9c; 0x16; 0x84; 0x00; 0x00; 0x01; 0x2d; 0xb0; 0x40; 0x00; 0x00;
   0x44; 0x93; 0x05; 0x18; 0x00; 0x00; 0x88; 0x50; 0x48; 0x94; 0x00; 0x00;
   0x20; 0xa4; 0x70; 0x30; 0x00; 0x00; 0xaa; 0x04; 0x54; 0x4a; 0x00; 0x00;
   0x02; 0x63; 0x09; 0x24; 0x00; 0x00; 0x32; 0x23; 0x73; 0x8e; 0x00; 0x00].

Definition kMaskRandom31_23 : list Z :=
  [0x62; 0x22; 0xaa; 0xaa; 0x00; 0x00; 0xf1; 0x10; 0x54; 0x44; 0x00; 0x00;
   0x10; 0x0e; 0x62; 0x22; 0x00; 0x00; 0x10; 0xb1; 0x06; 0x84; 0x00; 0x00;
   0x24; 0x24; 0x0d; 0x30; 0x00; 0x00; 0x01; 0x12; 0x81; 0xc2; 0x00; 0x00;
   0x00; 0xc4; 0x58; 0x88; 0x00; 0x00; 0x04; 0xa3; 0xb0; 0x50; 0x00; 0x00;
   0x02; 0x59; 0x25; 0x02; 0x00; 0x00; 0x2b; 0x01; 0x08; 0x64; 0x00; 0x00;
   0x98; 0x40; 0xd0; 0x18; 0x00; 0x00; 0x88; 0x91; 0x08; 0x62; 0x00; 0x00;
   0x40; 0x54; 0x31; 0x44; 0x00; 0x00; 0x82; 0x62; 0x9c; 0x02; 0x00; 0x00;
   0x21; 0xa4; 0x89; 0x90; 0x00; 0x00; 0x10; 0x64; 0x1d; 0x20; 0x00; 0x00;
   0x44; 0x0a; 0x41; 0x98; 0x00; 0x00; 0x10; 0xc9; 0x26; 0x80; 0x00; 0x00;
   0x4d; 0x2a; 0x5a; 0x20; 0x00; 0x00; 0x38; 0x02; 0x62; 0x88; 0x00; 0x00;
   0x17; 0x49; 0x80; 0x46; 0x00; 0x00; 0x90; 0x84; 0x22; 0x4a; 0x00; 0x00;
   0x72; 0x15; 0xd1; 0x00; 0x00; 0x00].

Definition kMaskRandom31_24 : list Z :=
  [0x88; 0x91; 0x08; 0x62; 0x00; 0x00; 0x40; 0x54; 0x31; 0x44; 0x00; 0x00;
   0x82; 0x62; 0x9c; 0x02; 0x00; 0x00; 0x21; 0xa4; 0x89; 0x90; 0x00; 0x00;
   0x10; 0x64; 0x1d; 0x20; 0x00; 0x00; 0x44; 0x0a; 0x41; 0x98; 0x00; 0x00;
   0x10; 0xc9; 0x26; 0x80; 0x00; 0x00; 0x4d; 0x2a; 0x5a; 0x20; 0x00; 0x00;
   0x38; 0x02; 0x62; 0x88; 0x00; 0x00; 0x17; 0x49; 0x80; 0x46; 0x00; 0x00;
   0x90; 0x84; 0x22; 0x4a; 0x00; 0x00; 0x72; 0x15; 0xd1; 0x00; 0x00; 0x00;
   0x62; 0x22; 0xaa; 0xaa; 0x00; 0x00; 0xf1; 0x10; 0x54; 0x44; 0x00; 0x00;
   0x10; 0x0e; 0x62; 0x22; 0x00; 0x00; 0x10; 0xb1; 0x06; 0x84; 0x00; 0x00;
   0x24; 0x24; 0x0d; 0x30; 0x00; 0x00; 0x01; 0x12; 0x81; 0xc2; 0x00; 0x00;
   0x00; 0xc4; 0x58; 0x88; 0x00; 0x00; 0x04; 0xa3; 0xb0; 0x50; 0x00; 0x00;
   0x02; 0x59; 0x25; 0x02; 0x00; 0x00; 0x2b; 0x01; 0x08; 0x64; 0x00; 0x00;
   0x98; 0x40; 0xd0; 0x18; 0x00; 0x00; 0xf0; 0xdf; 0x91; 0xb6; 0x00; 0x00].

Definition kMaskRandom31_25 : list Z :=
  [0x88; 0x91; 0x08; 0x62; 0x00; 0x00; 0x40; 0x54; 0x31; 0x44; 0x00; 0x00;
   0x82; 0x62; 0x9c; 0x02; 0x00; 0x00; 0x21; 0xa4; 0x89; 0x90; 0x00; 0x00;
   0x10; 0x64; 0x1d; 0x20; 0x00; 0x00; 0x44; 0x0a; 0x41; 0x98; 0x00; 0x00;
   0x10; 0xc9; 0x26; 0x80; 0x00; 0x00; 0x4d; 0x2a; 0x5a; 0x20; 0x00; 0x00;
   0x38; 0x02; 0x62; 0x88; 0x00; 0x00; 0x17; 0x49; 0x80; 0x46; 0x00; 0x00;
   0x90; 0x84; 0x22; 0x4a; 0x00; 0x00; 0x72; 0x15; 0xd1; 0x00; 0x00; 0x00;
   0x62; 0xa2; 0x8a; 0x2a; 0x00; 0x00; 0x34; 0x44; 0x44; 0x44; 0x00; 0x00;
   0x40; 0x4b; 0x2c; 0x18; 0x00; 0x00; 0xc4; 0x04; 0x18; 0xa0; 0x00; 0x00;
   0x08; 0x60; 0xc4; 0x08; 0x00; 0x00; 0x94; 0x12; 0x92; 0x0c; 0x00; 0x00;
   0x88; 0xc0; 0x23; 0x04; 0x00; 0x00; 0x21; 0x32; 0x24; 0x70; 0x00; 0x00;
   0xc1; 0x40; 0x80; 0xe2; 0x00; 0x00; 0x10; 0x69; 0x51; 0x14; 0x00; 0x00;
   0x06; 0x90; 0x11; 0x42; 0x00; 0x00; 0x59; 0x01; 0x41; 0x80; 0x00; 0x00;
   0x0a; 0x0d; 0x8a; 0x20; 0x00; 0x00].

Definition kMaskRandom31_26 : list Z :=
  [0x62; 0xa2; 0x8a; 0x2a; 0x00; 0x00; 0x34; 0x44; 0x44; 0x44; 0x00; 0x00;
   0x40; 0x4b; 0x2c; 0x18; 0x00; 0x00; 0xc4; 0x04; 0x18; 0xa0; 0x00; 0x00;
   0x08; 0x60; 0xc4; 0x08; 0x00; 0x00; 0x94; 0x12; 0x92; 0x0c; 0x00; 0x00;
   0x88; 0xc0; 0x23; 0x04; 0x00; 0x00; 0x21; 0x32; 0x24; 0x70; 0x00; 0x00;
   0xc1; 0x40; 0x80; 0xe2; 0x00; 0x00; 0x10; 0x69; 0x51; 0x14; 0x00; 0x00;
   0x06; 0x90; 0x11; 0x42; 0x00; 0x00; 0x59; 0x01; 0x41; 0x80; 0x00; 0x00;
   0x0a; 0x0d; 0x8a; 0x20; 0x00; 0x00; 0x88; 0x91; 0x08; 0x62; 0x00; 0x00;
   0x40; 0x54; 0x31; 0x44; 0x00; 0x00; 0x82; 0x62; 0x9c; 0x02; 0x00; 0x00;
   0x21; 0xa4; 0x89; 0x90; 0x00; 0x00; 0x10; 0x64; 0x1d; 0x20; 0x00; 0x00;
   0x44; 0x0a; 0x41; 0x98; 0x00; 0x00; 0x10; 0xc9; 0x26; 0x80; 0x00; 0x00;
   0x4d; 0x2a; 0x5a; 0x20; 0x00; 0x00; 0x38; 0x02; 0x62; 0x88; 0x00; 0x00;
   0x17; 0x49; 0x80; 0x46; 0x00; 0x00; 0x90; 0x84; 0x22; 0x4a; 0x00; 0x00;
   0x72; 0x15; 0xd1; 0x00; 0x00; 0x00; 0xc5; 0x75; 0x48; 0xba; 0x00; 0x00].

Definition kMaskRandom31_27 : list Z :=
  [0x62; 0xa2; 0x8a; 0x2a; 0x00; 0x00; 0x34; 0x44; 0x44; 0x44; 0x00; 0x00;
   0x40; 0x4b; 0x2c; 0x18; 0x00; 0x00; 0xc4; 0x04; 0x18; 0xa0; 0x00; 0x00;
   0x08; 0x60; 0xc4; 0x08; 0x00; 0x00; 0x94; 0x12; 0x92; 0x0c; 0x00; 0x00;
   0x88; 0xc0; 0x23; 0x04; 0x00; 0x00; 0x21; 0x32; 0x24; 0x70; 0x00; 0x00;
   0xc1; 0x40; 0x80; 0xe2; 0x00; 0x00; 0x10; 0x69; 0x51; 0x14; 0x00; 0x00;
   0x06; 0x90; 0x11; 0x42; 0x00; 0x00; 0x59; 0x01; 0x41; 0x80; 0x00; 0x00;
   0x0a; 0x0d; 0x8a; 0x20; 0x00; 0x00; 0x40; 0x82; 0x8a; 0xa2; 0x00; 0x00;
   0x15; 0x54; 0x44; 0x14; 0x00; 0x00; 0x88; 0x13; 0x09; 0xa0; 0x00; 0x00;
   0xc0; 0x10; 0x19; 0x14; 0x00; 0x00; 0x80; 0xa0; 0x30; 0x0c; 0x00; 0x00;
   0x01; 0x22; 0x60; 0x06; 0x00; 0x00; 0x40; 0x2c; 0xc2; 0x10; 0x00; 0x00;
   0x22; 0x02; 0x80; 0x22; 0x00; 0x00; 0x90; 0x04; 0x20; 0x58; 0x00; 0x00;
   0x12; 0x40; 0x12; 0xc0; 0x00; 0x00; 0x5d; 0x00; 0x01; 0x28; 0x00; 0x00;
   0x20; 0x54; 0xa4; 0x80; 0x00; 0x00; 0x86; 0x09; 0x48; 0x48; 0x00; 0x00;
   0x28; 0x89; 0x05; 0x10; 0x00; 0x00].

Definition kMaskRandom31_28 : list Z :=
  [0x40; 0x82; 0x8a; 0xa2; 0x00; 0x00; 0x15; 0x54; 0x44; 0x14; 0x00; 0x00;
   0x88; 0x13; 0x09; 0xa0; 0x00; 0x00; 0xc0; 0x10; 0x19; 0x14; 0x00; 0x00;
   0x80; 0xa0; 0x30; 0x0c; 0x00; 0x00; 0x01; 0x22; 0x60; 0x06; 0x00; 0x00;
   0x40; 0x2c; 0xc2; 0x10; 0x00; 0x00; 0x22; 0x02; 0x80; 0x22; 0x00; 0x00;
   0x90; 0x04; 0x20; 0x58; 0x00; 0x00; 0x12; 0x40; 0x12; 0xc0; 0x00; 0x00;
   0x5d; 0x00; 0x01; 0x28; 0x00; 0x00; 0x20; 0x54; 0xa4; 0x80; 0x00; 0x00;
   0x86; 0x09; 0x48; 0x48; 0x00; 0x00; 0x28; 0x89; 0x05; 0x10; 0x00; 0x00;
   0x62; 0xa2; 0x8a; 0x2a; 0x00; 0x00; 0x34; 0x44; 0x44; 0x44; 0x00; 0x00;
   0x40; 0x4b; 0x2c; 0x18; 0x00; 0x00; 0xc4; 0x04; 0x18; 0xa0; 0x00; 0x00;
   0x08; 0x60; 0xc4; 0x08; 0x00; 0x00; 0x94; 0x12; 0x92; 0x0c; 0x00; 0x00;
   0x88; 0xc0; 0x23; 0x04; 0x00; 0x00; 0x21; 0x32; 0x24; 0x70; 0x00; 0x00;
   0xc1; 0x40; 0x80; 0xe2; 0x00; 0x00; 0x10; 0x69; 0x51; 0x14; 0x00; 0x00;
   0x06; 0x90; 0x11; 0x42; 0x00; 0x00; 0x59; 0x01; 0x41; 0x80; 0x00; 0x00;
   0x0a; 0x0d; 0x8a; 0x20; 0x00; 0x00; 0xbc; 0x0d; 0xca; 0x28; 0x00; 0x00].

Definition kMaskRandom31_29 : list Z :=
  [0x40; 0x82; 0x8a; 0xa2; 0x00; 0x00; 0x15; 0x54; 0x44; 0x14; 0x00; 0x00;
   0x88; 0x13; 0x09; 0xa0; 0x00; 0x00; 0xc0; 0x10; 0x19; 0x14; 0x00; 0x00;
   0x80; 0xa0; 0x30; 0x0c; 0x00; 0x00; 0x01; 0x22; 0x60; 0x06; 0x00; 0x00;
   0x40; 0x2c; 0xc2; 0x10; 0x00; 0x00; 0x22; 0x02; 0x80; 0x22; 0x00; 0x00;
   0x90; 0x04; 0x20; 0x58; 0x00; 0x00; 0x12; 0x40; 0x12; 0xc0; 0x00; 0x00;
   0x5d; 0x00; 0x01; 0x28; 0x00; 0x00; 0x20; 0x54; 0xa4; 0x80; 0x00; 0x00;
   0x86; 0x09; 0x48; 0x48; 0x00; 0x00; 0x28; 0x89; 0x05; 0x10; 0x00; 0x00;
   0x62; 0x22; 0xaa; 0x22; 0x00; 0x00; 0x31; 0x10; 0x44; 0x44; 0x00; 0x00;
   0x58; 0x00; 0x22; 0x22; 0x00; 0x00; 0x01; 0x13; 0x00; 0x8a; 0x00; 0x00;
   0x88; 0x20; 0x40; 0x34; 0x00; 0x00; 0x44; 0x02; 0x10; 0xd0; 0x00; 0x00;
   0x29; 0x04; 0x45; 0x08; 0x00; 0x00; 0x82; 0xa0; 0x90; 0x12; 0x00; 0x00;
   0x0a; 0x1a; 0x0e; 0x02; 0x00; 0x00; 0x11; 0xe1; 0x28; 0x40; 0x00; 0x00;
   0x84; 0x05; 0x04; 0x0c; 0x00; 0x00; 0x86; 0x40; 0xc0; 0x90; 0x00; 0x00;
   0x00; 0x87; 0x13; 0x00; 0x00; 0x00; 0x44; 0x48; 0x01; 0x1c; 0x00; 0x00;
   0x10; 0x98; 0x30; 0x44; 0x00; 0x00].

Definition kMaskRandom31_30 : list Z :=
  [0x62; 0x22; 0xaa; 0x22; 0x00; 0x00; 0x31; 0x10; 0x44; 0x44; 0x00; 0x00;
   0x58; 0x00; 0x22; 0x22; 0x00; 0x00; 0x01; 0x13; 0x00; 0x8a; 0x00; 0x00;
   0x88; 0x20; 0x40; 0x34; 0x00; 0x00; 0x44; 0x02; 0x10; 0xd0; 0x00; 0x00;
   0x29; 0x04; 0x45; 0x08; 0x00; 0x00; 0x82; 0xa0; 0x90; 0x12; 0x00; 0x00;
   0x0a; 0x1a; 0x0e; 0x02; 0x00; 0x00; 0x11; 0xe1; 0x28; 0x40; 0x00; 0x00;
   0x84; 0x05; 0x04; 0x0c; 0x00; 0x00; 0x86; 0x40; 0xc0; 0x90; 0x00; 0x00;
   0x00; 0x87; 0x13; 0x00; 0x00; 0x00; 0x44; 0x48; 0x01; 0x1c; 0x00; 0x00;
   0x10; 0x98; 0x30; 0x44; 0x00; 0x00; 0x40; 0x82; 0x8a; 0xa2; 0x00; 0x00;
   0x15; 0x54; 0x44; 0x14; 0x00; 0x00; 0x88; 0x13; 0x09; 0xa0; 0x00; 0x00;
   0xc0; 0x10; 0x19; 0x14; 0x00; 0x00; 0x80; 0xa0; 0x30; 0x0c; 0x00; 0x00;
   0x01; 0x22; 0x60; 0x06; 0x00; 0x00; 0x40; 0x2c; 0xc2; 0x10; 0x00; 0x00;
   0x22; 0x02; 0x80; 0x22; 0x00; 0x00; 0x90; 0x04; 0x20; 0x58; 0x00; 0x00;
   0x12; 0x40; 0x12; 0xc0; 0x00; 0x00; 0x5d; 0x00; 0x01; 0x28; 0x00; 0x00;
   0x20; 0x54; 0xa4; 0x80; 0x00; 0x00; 0x86; 0x09; 0x48; 0x48; 0x00; 0x00;
   0x28; 0x89; 0x05; 0x10; 0x00; 0x00; 0xe1; 0x4f; 0xe0; 0x80; 0x00; 0x00].

Definition kMaskRandom31_31 : list Z :=
  [0x62; 0x22; 0xaa; 0x22; 0x00; 0x00; 0x31; 0x10; 0x44; 0x44; 0x00; 0x00;
   0x58; 0x00; 0x22; 0x22; 0x00; 0x00; 0x01; 0x13; 0x00; 0x8a; 0x00; 0x00;
   0x88; 0x20; 0x40; 0x34; 0x00; 0x00; 0x44; 0x02; 0x10; 0xd0; 0x00; 0x00;
   0x29; 0x04; 0x45; 0x08; 0x00; 0x00; 0x82; 0xa0; 0x90; 0x12; 0x00; 0x00;
   0x0a; 0x1a; 0x0e; 0x02; 0x00; 0x00; 0x11; 0xe1; 0x28; 0x40; 0x00; 0x00;
   0x84; 0x05; 0x04; 0x0c; 0x00; 0x00; 0x86; 0x40; 0xc0; 0x90; 0x00; 0x00;
   0x00; 0x87; 0x13; 0x00; 0x00; 0x00; 0x44; 0x48; 0x01; 0x1c; 0x00; 0x00;
   0x10; 0x98; 0x30; 0x44; 0x00; 0x00; 0x62; 0x23; 0x48; 0x20; 0x00; 0x00;
   0x31; 0x10; 0x02; 0x54; 0x00; 0x00; 0x58; 0x00; 0x0c; 0x84; 0x00; 0x00;
   0x01; 0x12; 0x10; 0xd0; 0x00; 0x00; 0x88; 0x21; 0x03; 0x20; 0x00; 0x00;
   0x44; 0x02; 0x01; 0xe0; 0x00; 0x00; 0x29; 0x04; 0xa0; 0x0a; 0x00; 0x00;
   0x82; 0xa0; 0x40; 0xa2; 0x00; 0x00; 0x0a; 0x1a; 0x86; 0x10; 0x00; 0x00;
   0x11; 0xe0; 0xd1; 0x00; 0x00; 0x00; 0x84; 0x05; 0x00; 0x16; 0x00; 0x00;
   0x86; 0x40; 0x20; 0x98; 0x00; 0x00; 0x00; 0x86; 0x24; 0x60; 0x00; 0x00;
   0x44; 0x48; 0x81; 0x0a; 0x00; 0x00; 0x10; 0x98; 0x1c; 0x08; 0x00; 0x00;
   0x87; 0x74; 0x30; 0x24; 0x00; 0x00].

Definition kMaskRandom32_1 : list Z :=
  [0xff; 0xff; 0xff; 0xff; 0x00; 0x00].

Definition kMaskRandom32_2 : list Z :=
  [0xae; 0xae; 0xae; 0xae; 0x00; 0x00; 0x79; 0x79; 0x79; 0x79; 0x00; 0x00].

Definition kMaskRandom32_3 : list Z :=
  [0xad; 0x2d; 0xad; 0x2d; 0x00; 0x00; 0x76; 0x36; 0x76; 0x36; 0x00; 0x00;
   0x26; 0xdb; 0x26; 0xdb; 0x00; 0x00].

Definition kMaskRandom32_4 : list Z :=
  [0x55; 0x55; 0x55; 0x55; 0x00; 0x00; 0xaa; 0xaa; 0xaa; 0xaa; 0x00; 0x00;
   0x35; 0x35; 0x35; 0x35; 0x00; 0x00; 0xca; 0xca; 0xca; 0xca; 0x00; 0x00].

Definition kMaskRandom32_5 : list Z :=
  [0x55; 0x55; 0x55; 0x55; 0x00; 0x00; 0x2a; 0x2a; 0x2a; 0x2a; 0x00; 0x00;
   0x24; 0x25; 0x24; 0x25; 0x00; 0x00; 0x84; 0xc8; 0x84; 0xc8; 0x00; 0x00;
   0x10; 0xb6; 0x10; 0xb6; 0x00; 0x00].

Definition kMaskRandom32_6 : list Z :=
  [0x51; 0x51; 0x51; 0x51; 0x00; 0x00; 0x0a; 0x2a; 0x0a; 0x2a; 0x00; 0x00;
   0xa2; 0x15; 0xa2; 0x15; 0x00; 0x00; 0x84; 0x4a; 0x84; 0x4a; 0x00; 0x00;
   0x30; 0x92; 0x30; 0x92; 0x00; 0x00; 0x04; 0xac; 0x04; 0xac; 0x00; 0x00].

Definition kMaskRandom32_7 : list Z :=
  [0x45; 0x51; 0x45; 0x51; 0x00; 0x00; 0x22; 0x2a; 0x22; 0x2a; 0x00; 0x00;
   0x91; 0x11; 0x91; 0x11; 0x00; 0x00; 0x2e; 0x08; 0x2e; 0x08; 0x00; 0x00;
   0x48; 0x34; 0x48; 0x34; 0x00; 0x00; 0x90; 0x29; 0x90; 0x29; 0x00; 0x00;
   0x09; 0x86; 0x09; 0x86; 0x00; 0x00].

Definition kMaskRandom32_8 : list Z :=
  [0x20; 0x54; 0x20; 0x54; 0x00; 0x00; 0x18; 0x88; 0x18; 0x88; 0x00; 0x00;
   0x84; 0x07; 0x84; 0x07; 0x00; 0x00; 0x60; 0x48; 0x60; 0x48; 0x00; 0x00;
   0x12; 0x82; 0x12; 0x82; 0x00; 0x00; 0x81; 0x41; 0x81; 0x41; 0x00; 0x00;
   0x40; 0x62; 0x40; 0x62; 0x00; 0x00; 0x16; 0x30; 0x16; 0x30; 0x00; 0x00].

Definition kMaskRandom32_9 : list Z :=
  [0x55; 0x51; 0x55; 0x51; 0x00; 0x00; 0x22; 0x2a; 0x22; 0x2a; 0x00; 0x00;
   0x05; 0x85; 0x05; 0x85; 0x00; 0x00; 0x09; 0x4a; 0x09; 0x4a; 0x00; 0x00;
   0x84; 0x32; 0x84; 0x32; 0x00; 0x00; 0xc0; 0x0d; 0xc0; 0x0d; 0x00; 0x00;
   0x20; 0xa6; 0x20; 0xa6; 0x00; 0x00; 0x1a; 0x09; 0x1a; 0x09; 0x00; 0x00;
   0x44; 0x64; 0x44; 0x64; 0x00; 0x00].

Definition kMaskRandom32_10 : list Z :=
  [0x45; 0x51; 0x45; 0x51; 0x00; 0x00; 0x10; 0xa2; 0x10; 0xa2; 0x00; 0x00;
   0x01; 0x25; 0x01; 0x25; 0x00; 0x00; 0x0b; 0x42; 0x0b; 0x42; 0x00; 0x00;
   0xd8; 0x20; 0xd8; 0x20; 0x00; 0x00; 0x82; 0x8c; 0x82; 0x8c; 0x00; 0x00;
   0x24; 0x4a; 0x24; 0x4a; 0x00; 0x00; 0x38; 0x18; 0x38; 0x18; 0x00; 0x00;
   0x2a; 0x25; 0x2a; 0x25; 0x00; 0x00; 0x84; 0x92; 0x84; 0x92; 0x00; 0x00].

Definition kMaskRandom32_11 : list Z :=
  [0x55; 0x55; 0x55; 0x55; 0x00; 0x00; 0x2a; 0x22; 0x2a; 0x22; 0x00; 0x00;
   0x31; 0x11; 0x31; 0x11; 0x00; 0x00; 0x83; 0x42; 0x83; 0x42; 0x00; 0x00;
   0x06; 0x98; 0x06; 0x98; 0x00; 0x00; 0x40; 0xe1; 0x40; 0xe1; 0x00; 0x00;
   0x2c; 0x44; 0x2c; 0x44; 0x00; 0x00; 0xd8; 0x28; 0xd8; 0x28; 0x00; 0x00;
   0x92; 0x81; 0x92; 0x81; 0x00; 0x00; 0x84; 0x32; 0x84; 0x32; 0x00; 0x00;
   0x68; 0x0c; 0x68; 0x0c; 0x00; 0x00].

Definition kMaskRandom32_12 : list Z :=
  [0x84; 0x31; 0x84; 0x31; 0x00; 0x00; 0x18; 0xa2; 0x18; 0xa2; 0x00; 0x00;
   0x4e; 0x01; 0x4e; 0x01; 0x00; 0x00; 0x44; 0xc8; 0x44; 0xc8; 0x00; 0x00;
   0x0e; 0x90; 0x0e; 0x90; 0x00; 0x00; 0x20; 0xcc; 0x20; 0xcc; 0x00; 0x00;
   0x93; 0x40; 0x93; 0x40; 0x00; 0x00; 0x2d; 0x10; 0x2d; 0x10; 0x00; 0x00;
   0x31; 0x44; 0x31; 0x44; 0x00; 0x00; 0xc0; 0x23; 0xc0; 0x23; 0x00; 0x00;
   0x11; 0x25; 0x11; 0x25; 0x00; 0x00; 0xe8; 0x80; 0xe8; 0x80; 0x00; 0x00].

Definition kMaskRandom32_13 : list Z :=
  [0x45; 0x15; 0x45; 0x15; 0x00; 0x00; 0x22; 0x22; 0x22; 0x22; 0x00; 0x00;
   0x96; 0x0c; 0x96; 0x0c; 0x00; 0x00; 0x0c; 0x50; 0x0c; 0x50; 0x00; 0x00;
   0x62; 0x04; 0x62; 0x04; 0x00; 0x00; 0x49; 0x06; 0x49; 0x06; 0x00; 0x00;
   0x11; 0x82; 0x11; 0x82; 0x00; 0x00; 0x12; 0x38; 0x12; 0x38; 0x00; 0x00;
   0x40; 0x71; 0x40; 0x71; 0x00; 0x00; 0xa8; 0x8a; 0xa8; 0x8a; 0x00; 0x00;
   0x08; 0xa1; 0x08; 0xa1; 0x00; 0x00; 0xa0; 0xc0; 0xa0; 0xc0; 0x00; 0x00;
   0xc5; 0x10; 0xc5; 0x10; 0x00; 0x00].

Definition kMaskRandom32_14 : list Z :=
  [0x45; 0x51; 0x45; 0x51; 0x00; 0x00; 0x22; 0x0a; 0x22; 0x0a; 0x00; 0x00;
   0x84; 0xd0; 0x84; 0xd0; 0x00; 0x00; 0x0c; 0x8a; 0x0c; 0x8a; 0x00; 0x00;
   0x18; 0x06; 0x18; 0x06; 0x00; 0x00; 0x30; 0x03; 0x30; 0x03; 0x00; 0x00;
   0x61; 0x08; 0x61; 0x08; 0x00; 0x00; 0x40; 0x11; 0x40; 0x11; 0x00; 0x00;
   0x10; 0x2c; 0x10; 0x2c; 0x00; 0x00; 0x09; 0x60; 0x09; 0x60; 0x00; 0x00;
   0x00; 0x94; 0x00; 0x94; 0x00; 0x00; 0x52; 0x40; 0x52; 0x40; 0x00; 0x00;
   0xa4; 0x24; 0xa4; 0x24; 0x00; 0x00; 0x82; 0x88; 0x82; 0x88; 0x00; 0x00].

Definition kMaskRandom32_15 : list Z :=
  [0x55; 0x11; 0x55; 0x11; 0x00; 0x00; 0x22; 0x22; 0x22; 0x22; 0x00; 0x00;
   0x11; 0x11; 0x11; 0x11; 0x00; 0x00; 0x80; 0x45; 0x80; 0x45; 0x00; 0x00;
   0x20; 0x1a; 0x20; 0x1a; 0x00; 0x00; 0x08; 0x68; 0x08; 0x68; 0x00; 0x00;
   0x22; 0x84; 0x22; 0x84; 0x00; 0x00; 0x48; 0x09; 0x48; 0x09; 0x00; 0x00;
   0x07; 0x01; 0x07; 0x01; 0x00; 0x00; 0x94; 0x20; 0x94; 0x20; 0x00; 0x00;
   0x82; 0x06; 0x82; 0x06; 0x00; 0x00; 0x60; 0x48; 0x60; 0x48; 0x00; 0x00;
   0x89; 0x80; 0x89; 0x80; 0x00; 0x00; 0x00; 0x8e; 0x00; 0x8e; 0x00; 0x00;
   0x18; 0x22; 0x18; 0x22; 0x00; 0x00].

Definition kMaskRandom32_16 : list Z :=
  [0xa4; 0x10; 0xa4; 0x10; 0x00; 0x00; 0x01; 0x2a; 0x01; 0x2a; 0x00; 0x00;
   0x06; 0x42; 0x06; 0x42; 0x00; 0x00; 0x08; 0x68; 0x08; 0x68; 0x00; 0x00;
   0x81; 0x90; 0x81; 0x90; 0x00; 0x00; 0x00; 0xf0; 0x00; 0xf0; 0x00; 0x00;
   0x50; 0x05; 0x50; 0x05; 0x00; 0x00; 0x20; 0x51; 0x20; 0x51; 0x00; 0x00;
   0x43; 0x08; 0x43; 0x08; 0x00; 0x00; 0x68; 0x80; 0x68; 0x80; 0x00; 0x00;
   0x80; 0x0b; 0x80; 0x0b; 0x00; 0x00; 0x10; 0x4c; 0x10; 0x4c; 0x00; 0x00;
   0x12; 0x30; 0x12; 0x30; 0x00; 0x00; 0x40; 0x85; 0x40; 0x85; 0x00; 0x00;
   0x0e; 0x04; 0x0e; 0x04; 0x00; 0x00; 0x18; 0x12; 0x18; 0x12; 0x00; 0x00].

Definition kMaskRandom32_17 : list Z :=
  [0x20; 0x54; 0x20; 0x54; 0x00; 0x00; 0x18; 0x88; 0x18; 0x88; 0x00; 0x00;
   0x84; 0x07; 0x84; 0x07; 0x00; 0x00; 0x60; 0x48; 0x60; 0x48; 0x00; 0x00;
   0x12; 0x82; 0x12; 0x82; 0x00; 0x00; 0x81; 0x41; 0x81; 0x41; 0x00; 0x00;
   0x40; 0x62; 0x40; 0x62; 0x00; 0x00; 0x16; 0x30; 0x16; 0x30; 0x00; 0x00;
   0x55; 0x51; 0x55; 0x51; 0x00; 0x00; 0x22; 0x2a; 0x22; 0x2a; 0x00; 0x00;
   0x05; 0x85; 0x05; 0x85; 0x00; 0x00; 0x09; 0x4a; 0x09; 0x4a; 0x00; 0x00;
   0x84; 0x32; 0x84; 0x32; 0x00; 0x00; 0xc0; 0x0d; 0xc0; 0x0d; 0x00; 0x00;
   0x20; 0xa6; 0x20; 0xa6; 0x00; 0x00; 0x1a; 0x09; 0x1a; 0x09; 0x00; 0x00;
   0x44; 0x64; 0x44; 0x64; 0x00; 0x00].

Definition kMaskRandom32_18 : list Z :=
  [0x55; 0x51; 0x55; 0x51; 0x00; 0x00; 0x22; 0x2a; 0x22; 0x2a; 0x00; 0x00;
   0x05; 0x85; 0x05; 0x85; 0x00; 0x00; 0x09; 0x4a; 0x09; 0x4a; 0x00; 0x00;
   0x84; 0x32; 0x84; 0x32; 0x00; 0x00; 0xc0; 0x0d; 0xc0; 0x0d; 0x00; 0x00;
   0x20; 0xa6; 0x20; 0xa6; 0x00; 0x00; 0x1a; 0x09; 0x1a; 0x09; 0x00; 0x00;
   0x44; 0x64; 0x44; 0x64; 0x00; 0x00; 0x20; 0x54; 0x20; 0x54; 0x00; 0x00;
   0x18; 0x88; 0x18; 0x88; 0x00; 0x00; 0x84; 0x07; 0x84; 0x07; 0x00; 0x00;
   0x60; 0x48; 0x60; 0x48; 0x00; 0x00; 0x12; 0x82; 0x12; 0x82; 0x00; 0x00;
   0x81; 0x41; 0x81; 0x41; 0x00; 0x00; 0x40; 0x62; 0x40; 0x62; 0x00; 0x00;
   0x16; 0x30; 0x16; 0x30; 0x00; 0x00; 0x1e; 0xb2; 0xd8; 0x53; 0x00; 0x00].

Definition kMaskRandom32_19 : list Z :=
  [0x55; 0x51; 0x55; 0x51; 0x00; 0x00; 0x22; 0x2a; 0x22; 0x2a; 0x00; 0x00;
   0x05; 0x85; 0x05; 0x85; 0x00; 0x00; 0x09; 0x4a; 0x09; 0x4a; 0x00; 0x00;
   0x84; 0x32; 0x84; 0x32; 0x00; 0x00; 0xc0; 0x0d; 0xc0; 0x0d; 0x00; 0x00;
   0x20; 0xa6; 0x20; 0xa6; 0x00; 0x00; 0x1a; 0x09; 0x1a; 0x09; 0x00; 0x00;
   0x44; 0x64; 0x44; 0x64; 0x00; 0x00; 0x45; 0x51; 0x45; 0x51; 0x00; 0x00;
   0x10; 0xa2; 0x10; 0xa2; 0x00; 0x00; 0x01; 0x25; 0x01; 0x25; 0x00; 0x00;
   0x0b; 0x42; 0x0b; 0x42; 0x00; 0x00; 0xd8; 0x20; 0xd8; 0x20; 0x00; 0x00;
   0x82; 0x8c; 0x82; 0x8c; 0x00; 0x00; 0x24; 0x4a; 0x24; 0x4a; 0x00; 0x00;
   0x38; 0x18; 0x38; 0x18; 0x00; 0x00; 0x2a; 0x25; 0x2a; 0x25; 0x00; 0x00;
   0x84; 0x92; 0x84; 0x92; 0x00; 0x00].

Definition kMaskRandom32_20 : list Z :=
  [0x45; 0x51; 0x45; 0x51; 0x00; 0x00; 0x10; 0xa2; 0x10; 0xa2; 0x00; 0x00;
   0x01; 0x25; 0x01; 0x25; 0x00; 0x00; 0x0b; 0x42; 0x0b; 0x42; 0x00; 0x00;
   0xd8; 0x20; 0xd8; 0x20; 0x00; 0x00; 0x82; 0x8c; 0x82; 0x8c; 0x00; 0x00;
   0x24; 0x4a; 0x24; 0x4a; 0x00; 0x00; 0x38; 0x18; 0x38; 0x18; 0x00; 0x00;
   0x2a; 0x25; 0x2a; 0x25; 0x00; 0x00; 0x84; 0x92; 0x84; 0x92; 0x00; 0x00;
   0x55; 0x51; 0x55; 0x51; 0x00; 0x00; 0x22; 0x2a; 0x22; 0x2a; 0x00; 0x00;
   0x05; 0x85; 0x05; 0x85; 0x00; 0x00; 0x09; 0x4a; 0x09; 0x4a; 0x00; 0x00;
   0x84; 0x32; 0x84; 0x32; 0x00; 0x00; 0xc0; 0x0d; 0xc0; 0x0d; 0x00; 0x00;
   0x20; 0xa6; 0x20; 0xa6; 0x00; 0x00; 0x1a; 0x09; 0x1a; 0x09; 0x00; 0x00;
   0x44; 0x64; 0x44; 0x64; 0x00; 0x00; 0x96; 0xd3; 0xf6; 0xac; 0x00; 0x00].

Definition kMaskRandom32_21 : list Z :=
  [0x45; 0x51; 0x45; 0x51; 0x00; 0x00; 0x10; 0xa2; 0x10; 0xa2; 0x00; 0x00;
   0x01; 0x25; 0x01; 0x25; 0x00; 0x00; 0x0b; 0x42; 0x0b; 0x42; 0x00; 0x00;
   0xd8; 0x20; 0xd8; 0x20; 0x00; 0x00; 0x82; 0x8c; 0x82; 0x8c; 0x00; 0x00;
   0x24; 0x4a; 0x24; 0x4a; 0x00; 0x00; 0x38; 0x18; 0x38; 0x18; 0x00; 0x00;
   0x2a; 0x25; 0x2a; 0x25; 0x00; 0x00; 0x84; 0x92; 0x84; 0x92; 0x00; 0x00;
   0x55; 0x55; 0x55; 0x55; 0x00; 0x00; 0x2a; 0x22; 0x2a; 0x22; 0x00; 0x00;
   0x31; 0x11; 0x31; 0x11; 0x00; 0x00; 0x83; 0x42; 0x83; 0x42; 0x00; 0x00;
   0x06; 0x98; 0x06; 0x98; 0x00; 0x00; 0x40; 0xe1; 0x40; 0xe1; 0x00; 0x00;
   0x2c; 0x44; 0x2c; 0x44; 0x00; 0x00; 0xd8; 0x28; 0xd8; 0x28; 0x00; 0x00;
   0x92; 0x81; 0x92; 0x81; 0x00; 0x00; 0x84; 0x32; 0x84; 0x32; 0x00; 0x00;
   0x68; 0x0c; 0x68; 0x0c; 0x00; 0x00].

Definition kMaskRandom32_22 : list Z :=
  [0x55; 0x55; 0x55; 0x55; 0x00; 0x00; 0x2a; 0x22; 0x2a; 0x22; 0x00; 0x00;
   0x31; 0x11; 0x31; 0x11; 0x00; 0x00; 0x83; 0x42; 0x83; 0x42; 0x00; 0x00;
   0x06; 0x98; 0x06; 0x98; 0x00; 0x00; 0x40; 0xe1; 0x40; 0xe1; 0x00; 0x00;
   0x2c; 0x44; 0x2c; 0x44; 0x00; 0x00; 0xd8; 0x28; 0xd8; 0x28; 0x00; 0x00;
   0x92; 0x81; 0x92; 0x81; 0x00; 0x00; 0x84; 0x32; 0x84; 0x32; 0x00; 0x00;
   0x68; 0x0c; 0x68; 0x0c; 0x00; 0x00; 0x45; 0x51; 0x45; 0x51; 0x00; 0x00;
   0x10; 0xa2; 0x10; 0xa2; 0x00; 0x00; 0x01; 0x25; 0x01; 0x25; 0x00; 0x00;
   0x0b; 0x42; 0x0b; 0x42; 0x00; 0x00; 0xd8; 0x20; 0xd8; 0x20; 0x00; 0x00;
   0x82; 0x8c; 0x82; 0x8c; 0x00; 0x00; 0x24; 0x4a; 0x24; 0x4a; 0x00; 0x00;
   0x38; 0x18; 0x38; 0x18; 0x00; 0x00; 0x2a; 0x25; 0x2a; 0x25; 0x00; 0x00;
   0x84; 0x92; 0x84; 0x92; 0x00; 0x00; 0xeb; 0xb2; 0x22; 0x89; 0x00; 0x00].

Definition kMaskRandom32_23 : list Z :=
  [0x55; 0x55; 0x55; 0x55; 0x00; 0x00; 0x2a; 0x22; 0x2a; 0x22; 0x00; 0x00;
   0x31; 0x11; 0x31; 0x11; 0x00; 0x00; 0x83; 0x42; 0x83; 0x42; 0x00; 0x00;
   0x06; 0x98; 0x06; 0x98; 0x00; 0x00; 0x40; 0xe1; 0x40; 0xe1; 0x00; 0x00;
   0x2c; 0x44; 0x2c; 0x44; 0x00; 0x00; 0xd8; 0x28; 0xd8; 0x28; 0x00; 0x00;
   0x92; 0x81; 0x92; 0x81; 0x00; 0x00; 0x84; 0x32; 0x84; 0x32; 0x00; 0x00;
   0x68; 0x0c; 0x68; 0x0c; 0x00; 0x00; 0x84; 0x31; 0x84; 0x31; 0x00; 0x00;
   0x18; 0xa2; 0x18; 0xa2; 0x00; 0x00; 0x4e; 0x01; 0x4e; 0x01; 0x00; 0x00;
   0x44; 0xc8; 0x44; 0xc8; 0x00; 0x00; 0x0e; 0x90; 0x0e; 0x90; 0x00; 0x00;
   0x20; 0xcc; 0x20; 0xcc; 0x00; 0x00; 0x93; 0x40; 0x93; 0x40; 0x00; 0x00;
   0x2d; 0x10; 0x2d; 0x10; 0x00; 0x00; 0x31; 0x44; 0x31; 0x44; 0x00; 0x00;
   0xc0; 0x23; 0xc0; 0x23; 0x00; 0x00; 0x11; 0x25; 0x11; 0x25; 0x00; 0x00;
   0xe8; 0x80; 0xe8; 0x80; 0x00; 0x00].

Definition kMaskRandom32_24 : list Z :=
  [0x84; 0x31; 0x84; 0x31; 0x00; 0x00; 0x18; 0xa2; 0x18; 0xa2; 0x00; 0x00;
   0x4e; 0x01; 0x4e; 0x01; 0x00; 0x00; 0x44; 0xc8; 0x44; 0xc8; 0x00; 0x00;
   0x0e; 0x90; 0x0e; 0x90; 0x00; 0x00; 0x20; 0xcc; 0x20; 0xcc; 0x00; 0x00;
   0x93; 0x40; 0x93; 0x40; 0x00; 0x00; 0x2d; 0x10; 0x2d; 0x10; 0x00; 0x00;
   0x31; 0x44; 0x31; 0x44; 0x00; 0x00; 0xc0; 0x23; 0xc0; 0x23; 0x00; 0x00;
   0x11; 0x25; 0x11; 0x25; 0x00; 0x00; 0xe8; 0x80; 0xe8; 0x80; 0x00; 0x00;
   0x55; 0x55; 0x55; 0x55; 0x00; 0x00; 0x2a; 0x22; 0x2a; 0x22; 0x00; 0x00;
   0x31; 0x11; 0x31; 0x11; 0x00; 0x00; 0x83; 0x42; 0x83; 0x42; 0x00; 0x00;
   0x06; 0x98; 0x06; 0x98; 0x00; 0x00; 0x40; 0xe1; 0x40; 0xe1; 0x00; 0x00;
   0x2c; 0x44; 0x2c; 0x44; 0x00; 0x00; 0xd8; 0x28; 0xd8; 0x28; 0x00; 0x00;
   0x92; 0x81; 0x92; 0x81; 0x00; 0x00; 0x84; 0x32; 0x84; 0x32; 0x00; 0x00;
   0x68; 0x0c; 0x68; 0x0c; 0x00; 0x00; 0xf3; 0x5a; 0x2f; 0x5d; 0x00; 0x00].

Definition kMaskRandom32_25 : list Z :=
  [0x84; 0x31; 0x84; 0x31; 0x00; 0x00; 0x18; 0xa2; 0x18; 0xa2; 0x00; 0x00;
   0x4e; 0x01; 0x4e; 0x01; 0x00; 0x00; 0x44; 0xc8; 0x44; 0xc8; 0x00; 0x00;
   0x0e; 0x90; 0x0e; 0x90; 0x00; 0x00; 0x20; 0xcc; 0x20; 0xcc; 0x00; 0x00;
   0x93; 0x40; 0x93; 0x40; 0x00; 0x00; 0x2d; 0x10; 0x2d; 0x10; 0x00; 0x00;
   0x31; 0x44; 0x31; 0x44; 0x00; 0x00; 0xc0; 0x23; 0xc0; 0x23; 0x00; 0x00;
   0x11; 0x25; 0x11; 0x25; 0x00; 0x00; 0xe8; 0x80; 0xe8; 0x80; 0x00; 0x00;
   0x45; 0x15; 0x45; 0x15; 0x00; 0x00; 0x22; 0x22; 0x22; 0x22; 0x00; 0x00;
   0x96; 0x0c; 0x96; 0x0c; 0x00; 0x00; 0x0c; 0x50; 0x0c; 0x50; 0x00; 0x00;
   0x62; 0x04; 0x62; 0x04; 0x00; 0x00; 0x49; 0x06; 0x49; 0x06; 0x00; 0x00;
   0x11; 0x82; 0x11; 0x82; 0x00; 0x00; 0x12; 0x38; 0x12; 0x38; 0x00; 0x00;
   0x40; 0x71; 0x40; 0x71; 0x00; 0x00; 0xa8; 0x8a; 0xa8; 0x8a; 0x00; 0x00;
   0x08; 0xa1; 0x08; 0xa1; 0x00; 0x00; 0xa0; 0xc0; 0xa0; 0xc0; 0x00; 0x00;
   0xc5; 0x10; 0xc5; 0x10; 0x00; 0x00].

Definition kMaskRandom32_26 : list Z :=
  [0x45; 0x15; 0x45; 0x15; 0x00; 0x00; 0x22; 0x22; 0x22; 0x22; 0x00; 0x00;
   0x96; 0x0c; 0x96; 0x0c; 0x00; 0x00; 0x0c; 0x50; 0x0c; 0x50; 0x00; 0x00;
   0x62; 0x04; 0x62; 0x04; 0x00; 0x00; 0x49; 0x06; 0x49; 0x06; 0x00; 0x00;
   0x11; 0x82; 0x11; 0x82; 0x00; 0x00; 0x12; 0x38; 0x12; 0x38; 0x00; 0x00;
   0x40; 0x71; 0x40; 0x71; 0x00; 0x00; 0xa8; 0x8a; 0xa8; 0x8a; 0x00; 0x00;
   0x08; 0xa1; 0x08; 0xa1; 0x00; 0x00; 0xa0; 0xc0; 0xa0; 0xc0; 0x00; 0x00;
   0xc5; 0x10; 0xc5; 0x10; 0x00; 0x00; 0x84; 0x31; 0x84; 0x31; 0x00; 0x00;
   0x18; 0xa2; 0x18; 0xa2; 0x00; 0x00; 0x4e; 0x01; 0x4e; 0x01; 0x00; 0x00;
   0x44; 0xc8; 0x44; 0xc8; 0x00; 0x00; 0x0e; 0x90; 0x0e; 0x90; 0x00; 0x00;
   0x20; 0xcc; 0x20; 0xcc; 0x00; 0x00; 0x93; 0x40; 0x93; 0x40; 0x00; 0x00;
   0x2d; 0x10; 0x2d; 0x10; 0x00; 0x00; 0x31; 0x44; 0x31; 0x44; 0x00; 0x00;
   0xc0; 0x23; 0xc0; 0x23; 0x00; 0x00; 0x11; 0x25; 0x11; 0x25; 0x00; 0x00;
   0xe8; 0x80; 0xe8; 0x80; 0x00; 0x00; 0x52; 0x15; 0x62; 0x0a; 0x00; 0x00].

Definition kMaskRandom32_27 : list Z :=
  [0x45; 0x15; 0x45; 0x15; 0x00; 0x00; 0x22; 0x22; 0x22; 0x22; 0x00; 0x00;
   0x96; 0x0c; 0x96; 0x0c; 0x00; 0x00; 0x0c; 0x50; 0x0c; 0x50; 0x00; 0x00;
   0x62; 0x04; 0x62; 0x04; 0x00; 0x00; 0x49; 0x06; 0x49; 0x06; 0x00; 0x00;
   0x11; 0x82; 0x11; 0x82; 0x00; 0x00; 0x12; 0x38; 0x12; 0x38; 0x00; 0x00;
   0x40; 0x71; 0x40; 0x71; 0x00; 0x00; 0xa8; 0x8a; 0xa8; 0x8a; 0x00; 0x00;
   0x08; 0xa1; 0x08; 0xa1; 0x00; 0x00; 0xa0; 0xc0; 0xa0; 0xc0; 0x00; 0x00;
   0xc5; 0x10; 0xc5; 0x10; 0x00; 0x00; 0x45; 0x51; 0x45; 0x51; 0x00; 0x00;
   0x22; 0x0a; 0x22; 0x0a; 0x00; 0x00; 0x84; 0xd0; 0x84; 0xd0; 0x00; 0x00;
   0x0c; 0x8a; 0x0c; 0x8a; 0x00; 0x00; 0x18; 0x06; 0x18; 0x06; 0x00; 0x00;
   0x30; 0x03; 0x30; 0x03; 0x00; 0x00; 0x61; 0x08; 0x61; 0x08; 0x00; 0x00;
   0x40; 0x11; 0x40; 0x11; 0x00; 0x00; 0x10; 0x2c; 0x10; 0x2c; 0x00; 0x00;
   0x09; 0x60; 0x09; 0x60; 0x00; 0x00; 0x00; 0x94; 0x00; 0x94; 0x00; 0x00;
   0x52; 0x40; 0x52; 0x40; 0x00; 0x00; 0xa4; 0x24; 0xa4; 0x24; 0x00; 0x00;
   0x82; 0x88; 0x82; 0x88; 0x00; 0x00].

Definition kMaskRandom32_28 : list Z :=
  [0x45; 0x51; 0x45; 0x51; 0x00; 0x00; 0x22; 0x0a; 0x22; 0x0a; 0x00; 0x00;
   0x84; 0xd0; 0x84; 0xd0; 0x00; 0x00; 0x0c; 0x8a; 0x0c; 0x8a; 0x00; 0x00;
   0x18; 0x06; 0x18; 0x06; 0x00; 0x00; 0x30; 0x03; 0x30; 0x03; 0x00; 0x00;
   0x61; 0x08; 0x61; 0x08; 0x00; 0x00; 0x40; 0x11; 0x40; 0x11; 0x00; 0x00;
   0x10; 0x2c; 0x10; 0x2c; 0x00; 0x00; 0x09; 0x60; 0x09; 0x60; 0x00; 0x00;
   0x00; 0x94; 0x00; 0x94; 0x00; 0x00; 0x52; 0x40; 0x52; 0x40; 0x00; 0x00;
   0xa4; 0x24; 0xa4; 0x24; 0x00; 0x00; 0x82; 0x88; 0x82; 0x88; 0x00; 0x00;
   0x45; 0x15; 0x45; 0x15; 0x00; 0x00; 0x22; 0x22; 0x22; 0x22; 0x00; 0x00;
   0x96; 0x0c; 0x96; 0x0c; 0x00; 0x00; 0x0c; 0x50; 0x0c; 0x50; 0x00; 0x00;
   0x62; 0x04; 0x62; 0x04; 0x00; 0x00; 0x49; 0x06; 0x49; 0x06; 0x00; 0x00;
   0x11; 0x82; 0x11; 0x82; 0x00; 0x00; 0x12; 0x38; 0x12; 0x38; 0x00; 0x00;
   0x40; 0x71; 0x40; 0x71; 0x00; 0x00; 0xa8; 0x8a; 0xa8; 0x8a; 0x00; 0x00;
   0x08; 0xa1; 0x08; 0xa1; 0x00; 0x00; 0xa0; 0xc0; 0xa0; 0xc0; 0x00; 0x00;
   0xc5; 0x10; 0xc5; 0x10; 0x00; 0x00; 0x7f; 0xe2; 0xbc; 0x01; 0x00; 0x00].

Definition kMaskRandom32_29 : list Z :=
  [0x45; 0x51; 0x45; 0x51; 0x00; 0x00; 0x22; 0x0a; 0x22; 0x0a; 0x00; 0x00;
   0x84; 0xd0; 0x84; 0xd0; 0x00; 0x00; 0x0c; 0x8a; 0x0c; 0x8a; 0x00; 0x00;
   0x18; 0x06; 0x18; 0x06; 0x00; 0x00; 0x30; 0x03; 0x30; 0x03; 0x00; 0x00;
   0x61; 0x08; 0x61; 0x08; 0x00; 0x00; 0x40; 0x11; 0x40; 0x11; 0x00; 0x00;
   0x10; 0x2c; 0x10; 0x2c; 0x00; 0x00; 0x09; 0x60; 0x09; 0x60; 0x00; 0x00;
   0x00; 0x94; 0x00; 0x94; 0x00; 0x00; 0x52; 0x40; 0x52; 0x40; 0x00; 0x00;
   0xa4; 0x24; 0xa4; 0x24; 0x00; 0x00; 0x82; 0x88; 0x82; 0x88; 0x00; 0x00;
   0x55; 0x11; 0x55; 0x11; 0x00; 0x00; 0x22; 0x22; 0x22; 0x22; 0x00; 0x00;
   0x11; 0x11; 0x11; 0x11; 0x00; 0x00; 0x80; 0x45; 0x80; 0x45; 0x00; 0x00;
   0x20; 0x1a; 0x20; 0x1a; 0x00; 0x00; 0x08; 0x68; 0x08; 0x68; 0x00; 0x00;
   0x22; 0x84; 0x22; 0x84; 0x00; 0x00; 0x48; 0x09; 0x48; 0x09; 0x00; 0x00;
   0x07; 0x01; 0x07; 0x01; 0x00; 0x00; 0x94; 0x20; 0x94; 0x20; 0x00; 0x00;
   0x82; 0x06; 0x82; 0x06; 0x00; 0x00; 0x60; 0x48; 0x60; 0x48; 0x00; 0x00;
   0x89; 0x80; 0x89; 0x80; 0x00; 0x00; 0x00; 0x8e; 0x00; 0x8e; 0x00; 0x00;
   0x18; 0x22; 0x18; 0x22; 0x00; 0x00].

Definition kMaskRandom32_30 : list Z :=
  [0x55; 0x11; 0x55; 0x11; 0x00; 0x00; 0x22; 0x22; 0x22; 0x22; 0x00; 0x00;
   0x11; 0x11; 0x11; 0x11; 0x00; 0x00; 0x80; 0x45; 0x80; 0x45; 0x00; 0x00;
   0x20; 0x1a; 0x20; 0x1a; 0x00; 0x00; 0x08; 0x68; 0x08; 0x68; 0x00; 0x00;
   0x22; 0x84; 0x22; 0x84; 0x00; 0x00; 0x48; 0x09; 0x48; 0x09; 0x00; 0x00;
   0x07; 0x01; 0x07; 0x01; 0x00; 0x00; 0x94; 0x20; 0x94; 0x20; 0x00; 0x00;
   0x82; 0x06; 0x82; 0x06; 0x00; 0x00; 0x60; 0x48; 0x60; 0x48; 0x00; 0x00;
   0x89; 0x80; 0x89; 0x80; 0x00; 0x00; 0x00; 0x8e; 0x00; 0x8e; 0x00; 0x00;
   0x18; 0x22; 0x18; 0x22; 0x00; 0x00; 0x45; 0x51; 0x45; 0x51; 0x00; 0x00;
   0x22; 0x0a; 0x22; 0x0a; 0x00; 0x00; 0x84; 0xd0; 0x84; 0xd0; 0x00; 0x00;
   0x0c; 0x8a; 0x0c; 0x8a; 0x00; 0x00; 0x18; 0x06; 0x18; 0x06; 0x00; 0x00;
   0x30; 0x03; 0x30; 0x03; 0x00; 0x00; 0x61; 0x08; 0x61; 0x08; 0x00; 0x00;
   0x40; 0x11; 0x40; 0x11; 0x00; 0x00; 0x10; 0x2c; 0x10; 0x2c; 0x00; 0x00;
   0x09; 0x60; 0x09; 0x60; 0x00; 0x00; 0x00; 0x94; 0x00; 0x94; 0x00; 0x00;
   0x52; 0x40; 0x52; 0x40; 0x00; 0x00; 0xa4; 0x24; 0xa4; 0x24; 0x00; 0x00;
   0x82; 0x88; 0x82; 0x88; 0x00; 0x00; 0x1e; 0x27; 0xe2; 0xd8; 0x00; 0x00].

Definition kMaskRandom32_31 : list Z :=
  [0x55; 0x11; 0x55; 0x11; 0x00; 0x00; 0x22; 0x22; 0x22; 0x22; 0x00; 0x00;
   0x11; 0x11; 0x11; 0x11; 0x00; 0x00; 0x80; 0x45; 0x80; 0x45; 0x00; 0x00;
   0x20; 0x1a; 0x20; 0x1a; 0x00; 0x00; 0x08; 0x68; 0x08; 0x68; 0x00; 0x00;
   0x22; 0x84; 0x22; 0x84; 0x00; 0x00; 0x48; 0x09; 0x48; 0x09; 0x00; 0x00;
   0x07; 0x01; 0x07; 0x01; 0x00; 0x00; 0x94; 0x20; 0x94; 0x20; 0x00; 0x00;
   0x82; 0x06; 0x82; 0x06; 0x00; 0x00; 0x60; 0x48; 0x60; 0x48; 0x00; 0x00;
   0x89; 0x80; 0x89; 0x80; 0x00; 0x00; 0x00; 0x8e; 0x00; 0x8e; 0x00; 0x00;
   0x18; 0x22; 0x18; 0x22; 0x00; 0x00; 0xa4; 0x10; 0xa4; 0x10; 0x00; 0x00;
   0x01; 0x2a; 0x01; 0x2a; 0x00; 0x00; 0x06; 0x42; 0x06; 0x42; 0x00; 0x00;
   0x08; 0x68; 0x08; 0x68; 0x00; 0x00; 0x81; 0x90; 0x81; 0x90; 0x00; 0x00;
   0x00; 0xf0; 0x00; 0xf0; 0x00; 0x00; 0x50; 0x05; 0x50; 0x05; 0x00; 0x00;
   0x20; 0x51; 0x20; 0x51; 0x00; 0x00; 0x43; 0x08; 0x43; 0x08; 0x00; 0x00;
   0x68; 0x80; 0x68; 0x80; 0x00; 0x00; 0x80; 0x0b; 0x80; 0x0b; 0x00; 0x00;
   0x10; 0x4c; 0x10; 0x4c; 0x00; 0x00; 0x12; 0x30; 0x12; 0x30; 0x00; 0x00;
   0x40; 0x85; 0x40; 0x85; 0x00; 0x00; 0x0e; 0x04; 0x0e; 0x04; 0x00; 0x00;
   0x18; 0x12; 0x18; 0x12; 0x00; 0x00].

Definition kMaskRandom32_32 : list Z :=
  [0xa4; 0x10; 0xa4; 0x10; 0x00; 0x00; 0x01; 0x2a; 0x01; 0x2a; 0x00; 0x00;
   0x06; 0x42; 0x06; 0x42; 0x00; 0x00; 0x08; 0x68; 0x08; 0x68; 0x00; 0x00;
   0x81; 0x90; 0x81; 0x90; 0x00; 0x00; 0x00; 0xf0; 0x00; 0xf0; 0x00; 0x00;
   0x50; 0x05; 0x50; 0x05; 0x00; 0x00; 0x20; 0x51; 0x20; 0x51; 0x00; 0x00;
   0x43; 0x08; 0x43; 0x08; 0x00; 0x00; 0x68; 0x80; 0x68; 0x80; 0x00; 0x00;
   0x80; 0x0b; 0x80; 0x0b; 0x00; 0x00; 0x10; 0x4c; 0x10; 0x4c; 0x00; 0x00;
   0x12; 0x30; 0x12; 0x30; 0x00; 0x00; 0x40; 0x85; 0x40; 0x85; 0x00; 0x00;
   0x0e; 0x04; 0x0e; 0x04; 0x00; 0x00; 0x18; 0x12; 0x18; 0x12; 0x00; 0x00;
   0x55; 0x11; 0x55; 0x11; 0x00; 0x00; 0x22; 0x22; 0x22; 0x22; 0x00; 0x00;
   0x11; 0x11; 0x11; 0x11; 0x00; 0x00; 0x80; 0x45; 0x80; 0x45; 0x00; 0x00;
   0x20; 0x1a; 0x20; 0x1a; 0x00; 0x00; 0x08; 0x68; 0x08; 0x68; 0x00; 0x00;
   0x22; 0x84; 0x22; 0x84; 0x00; 0x00; 0x48; 0x09; 0x48; 0x09; 0x00; 0x00;
   0x07; 0x01; 0x07; 0x01; 0x00; 0x00; 0x94; 0x20; 0x94; 0x20; 0x00; 0x00;
   0x82; 0x06; 0x82; 0x06; 0x00; 0x00; 0x60; 0x48; 0x60; 0x48; 0x00; 0x00;
   0x89; 0x80; 0x89; 0x80; 0x00; 0x00; 0x00; 0x8e; 0x00; 0x8e; 0x00; 0x00;
   0x18; 0x22; 0x18; 0x22; 0x00; 0x00; 0x60; 0xc4; 0x02; 0x02; 0x00; 0x00].

Definition kMaskRandom33_1 : list Z :=
  [0xff; 0xff; 0xff; 0xff; 0x80; 0x00].

Definition kMaskRandom33_2 : list Z :=
  [0xae; 0xae; 0xce; 0xce; 0x00; 0x00; 0x79; 0x79; 0xb9; 0x39; 0x80; 0x00].

Definition kMaskRandom33_3 : list Z :=
  [0xad; 0x2d; 0xcd; 0xcc; 0x00; 0x00; 0x76; 0x36; 0x97; 0x27; 0x00; 0x00;
   0x26; 0xdb; 0xb8; 0xd1; 0x80; 0x00].

Definition kMaskRandom33_4 : list Z :=
  [0x55; 0x55; 0xca; 0xec; 0x00; 0x00; 0xaa; 0xaa; 0xa9; 0x67; 0x00; 0x00;
   0x35; 0x35; 0x3a; 0xb1; 0x80; 0x00; 0xca; 0xca; 0x55; 0x5a; 0x80; 0x00].

Definition kMaskRandom33_5 : list Z :=
  [0x55; 0x55; 0x55; 0x44; 0x80; 0x00; 0x2a; 0x2a; 0x2a; 0x66; 0x00; 0x00;
   0x24; 0x25; 0x25; 0xa1; 0x80; 0x00; 0x84; 0xc8; 0xe2; 0x12; 0x80; 0x00;
   0x10; 0xb6; 0x99; 0x98; 0x00; 0x00].

Definition kMaskRandom33_6 : list Z :=
  [0x51; 0x51; 0xd1; 0x4c; 0x00; 0x00; 0x0a; 0x2a; 0xa2; 0xc5; 0x00; 0x00;
   0xa2; 0x15; 0x95; 0x30; 0x80; 0x00; 0x84; 0x4a; 0xca; 0x0a; 0x80; 0x00;
   0x30; 0x92; 0xa4; 0xaa; 0x00; 0x00; 0x04; 0xac; 0x78; 0x15; 0x00; 0x00].

Definition kMaskRandom33_7 : list Z :=
  [0x45; 0x51; 0x15; 0x44; 0x80; 0x00; 0x22; 0x2a; 0x8a; 0x23; 0x00; 0x00;
   0x91; 0x11; 0x85; 0x91; 0x00; 0x00; 0x2e; 0x08; 0x32; 0x0a; 0x80; 0x00;
   0x48; 0x34; 0x58; 0x34; 0x00; 0x00; 0x90; 0x29; 0x2c; 0x0d; 0x00; 0x00;
   0x09; 0x86; 0x43; 0xc8; 0x00; 0x00].

Definition kMaskRandom33_8 : list Z :=
  [0x20; 0x54; 0x64; 0x16; 0x00; 0x00; 0x18; 0x88; 0xa2; 0xc2; 0x00; 0x00;
   0x84; 0x07; 0x51; 0x60; 0x80; 0x00; 0x60; 0x48; 0x4a; 0x85; 0x00; 0x00;
   0x12; 0x82; 0x38; 0x4c; 0x00; 0x00; 0x81; 0x41; 0x89; 0x29; 0x00; 0x00;
   0x40; 0x62; 0x07; 0x11; 0x80; 0x00; 0x16; 0x30; 0x94; 0xb0; 0x00; 0x00].

Definition kMaskRandom33_9 : list Z :=
  [0x55; 0x51; 0x8e; 0xcc; 0x00; 0x00; 0x22; 0x2a; 0x6a; 0x2b; 0x00; 0x00;
   0x05; 0x85; 0x36; 0x32; 0x80; 0x00; 0x09; 0x4a; 0xd1; 0x25; 0x80; 0x00;
   0x84; 0x32; 0x55; 0x8c; 0x80; 0x00; 0xc0; 0x0d; 0xaa; 0x27; 0x00; 0x00;
   0x20; 0xa6; 0xa5; 0x32; 0x80; 0x00; 0x1a; 0x09; 0x62; 0x61; 0x80; 0x00;
   0x44; 0x64; 0x3c; 0x5c; 0x00; 0x00].

Definition kMaskRandom33_10 : list Z :=
  [0x45; 0x51; 0x55; 0x8c; 0x80; 0x00; 0x10; 0xa2; 0xaa; 0x27; 0x00; 0x00;
   0x01; 0x25; 0xa5; 0x32; 0x80; 0x00; 0x0b; 0x42; 0x62; 0x61; 0x80; 0x00;
   0xd8; 0x20; 0x3c; 0x5c; 0x00; 0x00; 0x82; 0x8c; 0x8e; 0xcc; 0x00; 0x00;
   0x24; 0x4a; 0x6a; 0x2b; 0x00; 0x00; 0x38; 0x18; 0x36; 0x32; 0x80; 0x00;
   0x2a; 0x25; 0xd1; 0x25; 0x80; 0x00; 0x84; 0x92; 0xc8; 0x02; 0x80; 0x00].

Definition kMaskRandom33_11 : list Z :=
  [0x55; 0x55; 0x55; 0x8c; 0x80; 0x00; 0x2a; 0x22; 0xaa; 0x27; 0x00; 0x00;
   0x31; 0x11; 0xa5; 0x32; 0x80; 0x00; 0x83; 0x42; 0x62; 0x61; 0x80; 0x00;
   0x06; 0x98; 0x3c; 0x5c; 0x00; 0x00; 0x40; 0xe1; 0x51; 0x84; 0x80; 0x00;
   0x2c; 0x44; 0xa2; 0x27; 0x00; 0x00; 0xd8; 0x28; 0x95; 0x51; 0x80; 0x00;
   0x92; 0x81; 0x4a; 0x1a; 0x00; 0x00; 0x84; 0x32; 0x30; 0x68; 0x00; 0x00;
   0x68; 0x0c; 0x2c; 0x89; 0x00; 0x00].

Definition kMaskRandom33_12 : list Z :=
  [0x84; 0x31; 0x51; 0x84; 0x80; 0x00; 0x18; 0xa2; 0xa2; 0x27; 0x00; 0x00;
   0x4e; 0x01; 0x95; 0x51; 0x80; 0x00; 0x44; 0xc8; 0x4a; 0x1a; 0x00; 0x00;
   0x0e; 0x90; 0x30; 0x68; 0x00; 0x00; 0x20; 0xcc; 0x2c; 0x89; 0x00; 0x00;
   0x93; 0x40; 0x55; 0x8c; 0x80; 0x00; 0x2d; 0x10; 0xaa; 0x27; 0x00; 0x00;
   0x31; 0x44; 0xa5; 0x32; 0x80; 0x00; 0xc0; 0x23; 0x62; 0x61; 0x80; 0x00;
   0x11; 0x25; 0x3c; 0x5c; 0x00; 0x00; 0xe8; 0x80; 0x51; 0x35; 0x00; 0x00].

Definition kMaskRandom33_13 : list Z :=
  [0x45; 0x15; 0x51; 0x84; 0x80; 0x00; 0x22; 0x22; 0xa2; 0x27; 0x00; 0x00;
   0x96; 0x0c; 0x95; 0x51; 0x80; 0x00; 0x0c; 0x50; 0x4a; 0x1a; 0x00; 0x00;
   0x62; 0x04; 0x30; 0x68; 0x00; 0x00; 0x49; 0x06; 0x2c; 0x89; 0x00; 0x00;
   0x11; 0x82; 0x15; 0x8c; 0x00; 0x00; 0x12; 0x38; 0x8a; 0x47; 0x00; 0x00;
   0x40; 0x71; 0x25; 0x81; 0x80; 0x00; 0xa8; 0x8a; 0x62; 0x12; 0x80; 0x00;
   0x08; 0xa1; 0x58; 0x58; 0x00; 0x00; 0xa0; 0xc0; 0x0e; 0x28; 0x80; 0x00;
   0xc5; 0x10; 0x83; 0x34; 0x00; 0x00].

Definition kMaskRandom33_14 : list Z :=
  [0x45; 0x51; 0x15; 0x8c; 0x00; 0x00; 0x22; 0x0a; 0x8a; 0x47; 0x00; 0x00;
   0x84; 0xd0; 0x25; 0x81; 0x80; 0x00; 0x0c; 0x8a; 0x62; 0x12; 0x80; 0x00;
   0x18; 0x06; 0x58; 0x58; 0x00; 0x00; 0x30; 0x03; 0x0e; 0x28; 0x80; 0x00;
   0x61; 0x08; 0x83; 0x34; 0x00; 0x00; 0x40; 0x11; 0x51; 0x84; 0x80; 0x00;
   0x10; 0x2c; 0xa2; 0x27; 0x00; 0x00; 0x09; 0x60; 0x95; 0x51; 0x80; 0x00;
   0x00; 0x94; 0x4a; 0x1a; 0x00; 0x00; 0x52; 0x40; 0x30; 0x68; 0x00; 0x00;
   0xa4; 0x24; 0x2c; 0x89; 0x00; 0x00; 0x82; 0x88; 0xb0; 0xde; 0x80; 0x00].

Definition kMaskRandom33_15 : list Z :=
  [0x55; 0x11; 0x15; 0x8c; 0x00; 0x00; 0x22; 0x22; 0x8a; 0x47; 0x00; 0x00;
   0x11; 0x11; 0x25; 0x81; 0x80; 0x00; 0x80; 0x45; 0x62; 0x12; 0x80; 0x00;
   0x20; 0x1a; 0x58; 0x58; 0x00; 0x00; 0x08; 0x68; 0x0e; 0x28; 0x80; 0x00;
   0x22; 0x84; 0x83; 0x34; 0x00; 0x00; 0x48; 0x09; 0x25; 0x2c; 0x00; 0x00;
   0x07; 0x01; 0x8a; 0x91; 0x00; 0x00; 0x94; 0x20; 0x91; 0xc0; 0x80; 0x00;
   0x82; 0x06; 0x68; 0x06; 0x80; 0x00; 0x60; 0x48; 0x32; 0xc8; 0x00; 0x00;
   0x89; 0x80; 0x43; 0x45; 0x00; 0x00; 0x00; 0x8e; 0xc4; 0x30; 0x80; 0x00;
   0x18; 0x22; 0x1c; 0xa2; 0x00; 0x00].

Definition kMaskRandom33_16 : list Z :=
  [0xa4; 0x10; 0x25; 0x2c; 0x00; 0x00; 0x01; 0x2a; 0x8a; 0x91; 0x00; 0x00;
   0x06; 0x42; 0x91; 0xc0; 0x80; 0x00; 0x08; 0x68; 0x68; 0x06; 0x80; 0x00;
   0x81; 0x90; 0x32; 0xc8; 0x00; 0x00; 0x00; 0xf0; 0x43; 0x45; 0x00; 0x00;
   0x50; 0x05; 0xc4; 0x30; 0x80; 0x00; 0x20; 0x51; 0x1c; 0xa2; 0x00; 0x00;
   0x43; 0x08; 0x15; 0x8c; 0x00; 0x00; 0x68; 0x80; 0x8a; 0x47; 0x00; 0x00;
   0x80; 0x0b; 0x25; 0x81; 0x80; 0x00; 0x10; 0x4c; 0x62; 0x12; 0x80; 0x00;
   0x12; 0x30; 0x58; 0x58; 0x00; 0x00; 0x40; 0x85; 0x0e; 0x28; 0x80; 0x00;
   0x0e; 0x04; 0x83; 0x34; 0x00; 0x00; 0x18; 0x12; 0x0a; 0x1c; 0x00; 0x00].

Definition kMaskRandom33_17 : list Z :=
  [0x20; 0x54; 0x64; 0x16; 0x00; 0x00; 0x18; 0x88; 0xa2; 0xc2; 0x00; 0x00;
   0x84; 0x07; 0x51; 0x60; 0x80; 0x00; 0x60; 0x48; 0x4a; 0x85; 0x00; 0x00;
   0x12; 0x82; 0x38; 0x4c; 0x00; 0x00; 0x81; 0x41; 0x89; 0x29; 0x00; 0x00;
   0x40; 0x62; 0x07; 0x11; 0x80; 0x00; 0x16; 0x30; 0x94; 0xb0; 0x00; 0x00;
   0x55; 0x51; 0x8e; 0xcc; 0x00; 0x00; 0x22; 0x2a; 0x6a; 0x2b; 0x00; 0x00;
   0x05; 0x85; 0x36; 0x32; 0x80; 0x00; 0x09; 0x4a; 0xd1; 0x25; 0x80; 0x00;
   0x84; 0x32; 0x55; 0x8c; 0x80; 0x00; 0xc0; 0x0d; 0xaa; 0x27; 0x00; 0x00;
   0x20; 0xa6; 0xa5; 0x32; 0x80; 0x00; 0x1a; 0x09; 0x62; 0x61; 0x80; 0x00;
   0x44; 0x64; 0x3c; 0x5c; 0x00; 0x00].

Definition kMaskRandom33_18 : list Z :=
  [0x55; 0x51; 0x8e; 0xcc; 0x00; 0x00; 0x22; 0x2a; 0x6a; 0x2b; 0x00; 0x00;
   0x05; 0x85; 0x36; 0x32; 0x80; 0x00; 0x09; 0x4a; 0xd1; 0x25; 0x80; 0x00;
   0x84; 0x32; 0x55; 0x8c; 0x80; 0x00; 0xc0; 0x0d; 0xaa; 0x27; 0x00; 0x00;
   0x20; 0xa6; 0xa5; 0x32; 0x80; 0x00; 0x1a; 0x09; 0x62; 0x61; 0x80; 0x00;
   0x44; 0x64; 0x3c; 0x5c; 0x00; 0x00; 0x20; 0x54; 0x64; 0x16; 0x00; 0x00;
   0x18; 0x88; 0xa2; 0xc2; 0x00; 0x00; 0x84; 0x07; 0x51; 0x60; 0x80; 0x00;
   0x60; 0x48; 0x4a; 0x85; 0x00; 0x00; 0x12; 0x82; 0x38; 0x4c; 0x00; 0x00;
   0x81; 0x41; 0x89; 0x29; 0x00; 0x00; 0x40; 0x62; 0x07; 0x11; 0x80; 0x00;
   0x16; 0x30; 0x94; 0xb0; 0x00; 0x00; 0x89; 0x53; 0x03; 0xad; 0x00; 0x00].

Definition kMaskRandom33_19 : list Z :=
  [0x55; 0x51; 0x8e; 0xcc; 0x00; 0x00; 0x22; 0x2a; 0x6a; 0x2b; 0x00; 0x00;
   0x05; 0x85; 0x36; 0x32; 0x80; 0x00; 0x09; 0x4a; 0xd1; 0x25; 0x80; 0x00;
   0x84; 0x32; 0x55; 0x8c; 0x80; 0x00; 0xc0; 0x0d; 0xaa; 0x27; 0x00; 0x00;
   0x20; 0xa6; 0xa5; 0x32; 0x80; 0x00; 0x1a; 0x09; 0x62; 0x61; 0x80; 0x00;
   0x44; 0x64; 0x3c; 0x5c; 0x00; 0x00; 0x45; 0x51; 0x55; 0x8c; 0x80; 0x00;
   0x10; 0xa2; 0xaa; 0x27; 0x00; 0x00; 0x01; 0x25; 0xa5; 0x32; 0x80; 0x00;
   0x0b; 0x42; 0x62; 0x61; 0x80; 0x00; 0xd8; 0x20; 0x3c; 0x5c; 0x00; 0x00;
   0x82; 0x8c; 0x8e; 0xcc; 0x00; 0x00; 0x24; 0x4a; 0x6a; 0x2b; 0x00; 0x00;
   0x38; 0x18; 0x36; 0x32; 0x80; 0x00; 0x2a; 0x25; 0xd1; 0x25; 0x80; 0x00;
   0x84; 0x92; 0xc8; 0x02; 0x80; 0x00].

Definition kMaskRandom33_20 : list Z :=
  [0x45; 0x51; 0x55; 0x8c; 0x80; 0x00; 0x10; 0xa2; 0xaa; 0x27; 0x00; 0x00;
   0x01; 0x25; 0xa5; 0x32; 0x80; 0x00; 0x0b; 0x42; 0x62; 0x61; 0x80; 0x00;
   0xd8; 0x20; 0x3c; 0x5c; 0x00; 0x00; 0x82; 0x8c; 0x8e; 0xcc; 0x00; 0x00;
   0x24; 0x4a; 0x6a; 0x2b; 0x00; 0x00; 0x38; 0x18; 0x36; 0x32; 0x80; 0x00;
   0x2a; 0x25; 0xd1; 0x25; 0x80; 0x00; 0x84; 0x92; 0xc8; 0x02; 0x80; 0x00;
   0x55; 0x51; 0x8e; 0xcc; 0x00; 0x00; 0x22; 0x2a; 0x6a; 0x2b; 0x00; 0x00;
   0x05; 0x85; 0x36; 0x32; 0x80; 0x00; 0x09; 0x4a; 0xd1; 0x25; 0x80; 0x00;
   0x84; 0x32; 0x55; 0x8c; 0x80; 0x00; 0xc0; 0x0d; 0xaa; 0x27; 0x00; 0x00;
   0x20; 0xa6; 0xa5; 0x32; 0x80; 0x00; 0x1a; 0x09; 0x62; 0x61; 0x80; 0x00;
   0x44; 0x64; 0x3c; 0x5c; 0x00; 0x00; 0x73; 0x5f; 0x5b; 0x0e; 0x80; 0x00].

Definition kMaskRandom33_21 : list Z :=
  [0x45; 0x51; 0x55; 0x8c; 0x80; 0x00; 0x10; 0xa2; 0xaa; 0x27; 0x00; 0x00;
   0x01; 0x25; 0xa5; 0x32; 0x80; 0x00; 0x0b; 0x42; 0x62; 0x61; 0x80; 0x00;
   0xd8; 0x20; 0x3c; 0x5c; 0x00; 0x00; 0x82; 0x8c; 0x8e; 0xcc; 0x00; 0x00;
   0x24; 0x4a; 0x6a; 0x2b; 0x00; 0x00; 0x38; 0x18; 0x36; 0x32; 0x80; 0x00;
   0x2a; 0x25; 0xd1; 0x25; 0x80; 0x00; 0x84; 0x92; 0xc8; 0x02; 0x80; 0x00;
   0x55; 0x55; 0x55; 0x8c; 0x80; 0x00; 0x2a; 0x22; 0xaa; 0x27; 0x00; 0x00;
   0x31; 0x11; 0xa5; 0x32; 0x80; 0x00; 0x83; 0x42; 0x62; 0x61; 0x80; 0x00;
   0x06; 0x98; 0x3c; 0x5c; 0x00; 0x00; 0x40; 0xe1; 0x51; 0x84; 0x80; 0x00;
   0x2c; 0x44; 0xa2; 0x27; 0x00; 0x00; 0xd8; 0x28; 0x95; 0x51; 0x80; 0x00;
   0x92; 0x81; 0x4a; 0x1a; 0x00; 0x00; 0x84; 0x32; 0x30; 0x68; 0x00; 0x00;
   0x68; 0x0c; 0x2c; 0x89; 0x00; 0x00].

Definition kMaskRandom33_22 : list Z :=
  [0x55; 0x55; 0x55; 0x8c; 0x80; 0x00; 0x2a; 0x22; 0xaa; 0x27; 0x00; 0x00;
   0x31; 0x11; 0xa5; 0x32; 0x80; 0x00; 0x83; 0x42; 0x62; 0x61; 0x80; 0x00;
   0x06; 0x98; 0x3c; 0x5c; 0x00; 0x00; 0x40; 0xe1; 0x51; 0x84; 0x80; 0x00;
   0x2c; 0x44; 0xa2; 0x27; 0x00; 0x00; 0xd8; 0x28; 0x95; 0x51; 0x80; 0x00;
   0x92; 0x81; 0x4a; 0x1a; 0x00; 0x00; 0x84; 0x32; 0x30; 0x68; 0x00; 0x00;
   0x68; 0x0c; 0x2c; 0x89; 0x00; 0x00; 0x45; 0x51; 0x55; 0x8c; 0x80; 0x00;
   0x10; 0xa2; 0xaa; 0x27; 0x00; 0x00; 0x01; 0x25; 0xa5; 0x32; 0x80; 0x00;
   0x0b; 0x42; 0x62; 0x61; 0x80; 0x00; 0xd8; 0x20; 0x3c; 0x5c; 0x00; 0x00;
   0x82; 0x8c; 0x8e; 0xcc; 0x00; 0x00; 0x24; 0x4a; 0x6a; 0x2b; 0x00; 0x00;
   0x38; 0x18; 0x36; 0x32; 0x80; 0x00; 0x2a; 0x25; 0xd1; 0x25; 0x80; 0x00;
   0x84; 0x92; 0xc8; 0x02; 0x80; 0x00; 0xcc; 0xe3; 0x42; 0x6b; 0x80; 0x00].

Definition kMaskRandom33_23 : list Z :=
  [0x55; 0x55; 0x55; 0x8c; 0x80; 0x00; 0x2a; 0x22; 0xaa; 0x27; 0x00; 0x00;
   0x31; 0x11; 0xa5; 0x32; 0x80; 0x00; 0x83; 0x42; 0x62; 0x61; 0x80; 0x00;
   0x06; 0x98; 0x3c; 0x5c; 0x00; 0x00; 0x40; 0xe1; 0x51; 0x84; 0x80; 0x00;
   0x2c; 0x44; 0xa2; 0x27; 0x00; 0x00; 0xd8; 0x28; 0x95; 0x51; 0x80; 0x00;
   0x92; 0x81; 0x4a; 0x1a; 0x00; 0x00; 0x84; 0x32; 0x30; 0x68; 0x00; 0x00;
   0x68; 0x0c; 0x2c; 0x89; 0x00; 0x00; 0x84; 0x31; 0x51; 0x84; 0x80; 0x00;
   0x18; 0xa2; 0xa2; 0x27; 0x00; 0x00; 0x4e; 0x01; 0x95; 0x51; 0x80; 0x00;
   0x44; 0xc8; 0x4a; 0x1a; 0x00; 0x00; 0x0e; 0x90; 0x30; 0x68; 0x00; 0x00;
   0x20; 0xcc; 0x2c; 0x89; 0x00; 0x00; 0x93; 0x40; 0x55; 0x8c; 0x80; 0x00;
   0x2d; 0x10; 0xaa; 0x27; 0x00; 0x00; 0x31; 0x44; 0xa5; 0x32; 0x80; 0x00;
   0xc0; 0x23; 0x62; 0x61; 0x80; 0x00; 0x11; 0x25; 0x3c; 0x5c; 0x00; 0x00;
   0xe8; 0x80; 0x51; 0x35; 0x00; 0x00].

Definition kMaskRandom33_24 : list Z :=
  [0x84; 0x31; 0x51; 0x84; 0x80; 0x00; 0x18; 0xa2; 0xa2; 0x27; 0x00; 0x00;
   0x4e; 0x01; 0x95; 0x51; 0x80; 0x00; 0x44; 0xc8; 0x4a; 0x1a; 0x00; 0x00;
   0x0e; 0x90; 0x30; 0x68; 0x00; 0x00; 0x20; 0xcc; 0x2c; 0x89; 0x00; 0x00;
   0x93; 0x40; 0x55; 0x8c; 0x80; 0x00; 0x2d; 0x10; 0xaa; 0x27; 0x00; 0x00;
   0x31; 0x44; 0xa5; 0x32; 0x80; 0x00; 0xc0; 0x23; 0x62; 0x61; 0x80; 0x00;
   0x11; 0x25; 0x3c; 0x5c; 0x00; 0x00; 0xe8; 0x80; 0x51; 0x35; 0x00; 0x00;
   0x55; 0x55; 0x55; 0x8c; 0x80; 0x00; 0x2a; 0x22; 0xaa; 0x27; 0x00; 0x00;
   0x31; 0x11; 0xa5; 0x32; 0x80; 0x00; 0x83; 0x42; 0x62; 0x61; 0x80; 0x00;
   0x06; 0x98; 0x3c; 0x5c; 0x00; 0x00; 0x40; 0xe1; 0x51; 0x84; 0x80; 0x00;
   0x2c; 0x44; 0xa2; 0x27; 0x00; 0x00; 0xd8; 0x28; 0x95; 0x51; 0x80; 0x00;
   0x92; 0x81; 0x4a; 0x1a; 0x00; 0x00; 0x84; 0x32; 0x30; 0x68; 0x00; 0x00;
   0x68; 0x0c; 0x2c; 0x89; 0x00; 0x00; 0xdc; 0x4e; 0xfc; 0x70; 0x00; 0x00].

Definition kMaskRandom33_25 : list Z :=
  [0x84; 0x31; 0x51; 0x84; 0x80; 0x00; 0x18; 0xa2; 0xa2; 0x27; 0x00; 0x00;
   0x4e; 0x01; 0x95; 0x51; 0x80; 0x00; 0x44; 0xc8; 0x4a; 0x1a; 0x00; 0x00;
   0x0e; 0x90; 0x30; 0x68; 0x00; 0x00; 0x20; 0xcc; 0x2c; 0x89; 0x00; 0x00;
   0x93; 0x40; 0x55; 0x8c; 0x80; 0x00; 0x2d; 0x10; 0xaa; 0x27; 0x00; 0x00;
   0x31; 0x44; 0xa5; 0x32; 0x80; 0x00; 0xc0; 0x23; 0x62; 0x61; 0x80; 0x00;
   0x11; 0x25; 0x3c; 0x5c; 0x00; 0x00; 0xe8; 0x80; 0x51; 0x35; 0x00; 0x00;
   0x45; 0x15; 0x51; 0x84; 0x80; 0x00; 0x22; 0x22; 0xa2; 0x27; 0x00; 0x00;
   0x96; 0x0c; 0x95; 0x51; 0x80; 0x00; 0x0c; 0x50; 0x4a; 0x1a; 0x00; 0x00;
   0x62; 0x04; 0x30; 0x68; 0x00; 0x00; 0x49; 0x06; 0x2c; 0x89; 0x00; 0x00;
   0x11; 0x82; 0x15; 0x8c; 0x00; 0x00; 0x12; 0x38; 0x8a; 0x47; 0x00; 0x00;
   0x40; 0x71; 0x25; 0x81; 0x80; 0x00; 0xa8; 0x8a; 0x62; 0x12; 0x80; 0x00;
   0x08; 0xa1; 0x58; 0x58; 0x00; 0x00; 0xa0; 0xc0; 0x0e; 0x28; 0x80; 0x00;
   0xc5; 0x10; 0x83; 0x34; 0x00; 0x00].

Definition kMaskRandom33_26 : list Z :=
  [0x45; 0x15; 0x51; 0x84; 0x80; 0x00; 0x22; 0x22; 0xa2; 0x27; 0x00; 0x00;
   0x96; 0x0c; 0x95; 0x51; 0x80; 0x00; 0x0c; 0x50; 0x4a; 0x1a; 0x00; 0x00;
   0x62; 0x04; 0x30; 0x68; 0x00; 0x00; 0x49; 0x06; 0x2c; 0x89; 0x00; 0x00;
   0x11; 0x82; 0x15; 0x8c; 0x00; 0x00; 0x12; 0x38; 0x8a; 0x47; 0x00; 0x00;
   0x40; 0x71; 0x25; 0x81; 0x80; 0x00; 0xa8; 0x8a; 0x62; 0x12; 0x80; 0x00;
   0x08; 0xa1; 0x58; 0x58; 0x00; 0x00; 0xa0; 0xc0; 0x0e; 0x28; 0x80; 0x00;
   0xc5; 0x10; 0x83; 0x34; 0x00; 0x00; 0x84; 0x31; 0x51; 0x84; 0x80; 0x00;
   0x18; 0xa2; 0xa2; 0x27; 0x00; 0x00; 0x4e; 0x01; 0x95; 0x51; 0x80; 0x00;
   0x44; 0xc8; 0x4a; 0x1a; 0x00; 0x00; 0x0e; 0x90; 0x30; 0x68; 0x00; 0x00;
   0x20; 0xcc; 0x2c; 0x89; 0x00; 0x00; 0x93; 0x40; 0x55; 0x8c; 0x80; 0x00;
   0x2d; 0x10; 0xaa; 0x27; 0x00; 0x00; 0x31; 0x44; 0xa5; 0x32; 0x80; 0x00;
   0xc0; 0x23; 0x62; 0x61; 0x80; 0x00; 0x11; 0x25; 0x3c; 0x5c; 0x00; 0x00;
   0xe8; 0x80; 0x51; 0x35; 0x00; 0x00; 0xa4; 0xa4; 0xfc; 0x91; 0x00; 0x00].

Definition kMaskRandom33_27 : list Z :=
  [0x45; 0x15; 0x51; 0x84; 0x80; 0x00; 0x22; 0x22; 0xa2; 0x27; 0x00; 0x00;
   0x96; 0x0c; 0x95; 0x51; 0x80; 0x00; 0x0c; 0x50; 0x4a; 0x1a; 0x00; 0x00;
   0x62; 0x04; 0x30; 0x68; 0x00; 0x00; 0x49; 0x06; 0x2c; 0x89; 0x00; 0x00;
   0x11; 0x82; 0x15; 0x8c; 0x00; 0x00; 0x12; 0x38; 0x8a; 0x47; 0x00; 0x00;
   0x40; 0x71; 0x25; 0x81; 0x80; 0x00; 0xa8; 0x8a; 0x62; 0x12; 0x80; 0x00;
   0x08; 0xa1; 0x58; 0x58; 0x00; 0x00; 0xa0; 0xc0; 0x0e; 0x28; 0x80; 0x00;
   0xc5; 0x10; 0x83; 0x34; 0x00; 0x00; 0x45; 0x51; 0x15; 0x8c; 0x00; 0x00;
   0x22; 0x0a; 0x8a; 0x47; 0x00; 0x00; 0x84; 0xd0; 0x25; 0x81; 0x80; 0x00;
   0x0c; 0x8a; 0x62; 0x12; 0x80; 0x00; 0x18; 0x06; 0x58; 0x58; 0x00; 0x00;
   0x30; 0x03; 0x0e; 0x28; 0x80; 0x00; 0x61; 0x08; 0x83; 0x34; 0x00; 0x00;
   0x40; 0x11; 0x51; 0x84; 0x80; 0x00; 0x10; 0x2c; 0xa2; 0x27; 0x00; 0x00;
   0x09; 0x60; 0x95; 0x51; 0x80; 0x00; 0x00; 0x94; 0x4a; 0x1a; 0x00; 0x00;
   0x52; 0x40; 0x30; 0x68; 0x00; 0x00; 0xa4; 0x24; 0x2c; 0x89; 0x00; 0x00;
   0x82; 0x88; 0xb0; 0xde; 0x80; 0x00].

Definition kMaskRandom33_28 : list Z :=
  [0x45; 0x51; 0x15; 0x8c; 0x00; 0x00; 0x22; 0x0a; 0x8a; 0x47; 0x00; 0x00;
   0x84; 0xd0; 0x25; 0x81; 0x80; 0x00; 0x0c; 0x8a; 0x62; 0x12; 0x80; 0x00;
   0x18; 0x06; 0x58; 0x58; 0x00; 0x00; 0x30; 0x03; 0x0e; 0x28; 0x80; 0x00;
   0x61; 0x08; 0x83; 0x34; 0x00; 0x00; 0x40; 0x11; 0x51; 0x84; 0x80; 0x00;
   0x10; 0x2c; 0xa2; 0x27; 0x00; 0x00; 0x09; 0x60; 0x95; 0x51; 0x80; 0x00;
   0x00; 0x94; 0x4a; 0x1a; 0x00; 0x00; 0x52; 0x40; 0x30; 0x68; 0x00; 0x00;
   0xa4; 0x24; 0x2c; 0x89; 0x00; 0x00; 0x82; 0x88; 0xb0; 0xde; 0x80; 0x00;
   0x45; 0x15; 0x51; 0x84; 0x80; 0x00; 0x22; 0x22; 0xa2; 0x27; 0x00; 0x00;
   0x96; 0x0c; 0x95; 0x51; 0x80; 0x00; 0x0c; 0x50; 0x4a; 0x1a; 0x00; 0x00;
   0x62; 0x04; 0x30; 0x68; 0x00; 0x00; 0x49; 0x06; 0x2c; 0x89; 0x00; 0x00;
   0x11; 0x82; 0x15; 0x8c; 0x00; 0x00; 0x12; 0x38; 0x8a; 0x47; 0x00; 0x00;
   0x40; 0x71; 0x25; 0x81; 0x80; 0x00; 0xa8; 0x8a; 0x62; 0x12; 0x80; 0x00;
   0x08; 0xa1; 0x58; 0x58; 0x00; 0x00; 0xa0; 0xc0; 0x0e; 0x28; 0x80; 0x00;
   0xc5; 0x10; 0x83; 0x34; 0x00; 0x00; 0x1b; 0xf4; 0xaa; 0xec; 0x80; 0x00].

Definition kMaskRandom33_29 : list Z :=
  [0x45; 0x51; 0x15; 0x8c; 0x00; 0x00; 0x22; 0x0a; 0x8a; 0x47; 0x00; 0x00;
   0x84; 0xd0; 0x25; 0x81; 0x80; 0x00; 0x0c; 0x8a; 0x62; 0x12; 0x80; 0x00;
   0x18; 0x06; 0x58; 0x58; 0x00; 0x00; 0x30; 0x03; 0x0e; 0x28; 0x80; 0x00;
   0x61; 0x08; 0x83; 0x34; 0x00; 0x00; 0x40; 0x11; 0x51; 0x84; 0x80; 0x00;
   0x10; 0x2c; 0xa2; 0x27; 0x00; 0x00; 0x09; 0x60; 0x95; 0x51; 0x80; 0x00;
   0x00; 0x94; 0x4a; 0x1a; 0x00; 0x00; 0x52; 0x40; 0x30; 0x68; 0x00; 0x00;
   0xa4; 0x24; 0x2c; 0x89; 0x00; 0x00; 0x82; 0x88; 0xb0; 0xde; 0x80; 0x00;
   0x55; 0x11; 0x15; 0x8c; 0x00; 0x00; 0x22; 0x22; 0x8a; 0x47; 0x00; 0x00;
   0x11; 0x11; 0x25; 0x81; 0x80; 0x00; 0x80; 0x45; 0x62; 0x12; 0x80; 0x00;
   0x20; 0x1a; 0x58; 0x58; 0x00; 0x00; 0x08; 0x68; 0x0e; 0x28; 0x80; 0x00;
   0x22; 0x84; 0x83; 0x34; 0x00; 0x00; 0x48; 0x09; 0x25; 0x2c; 0x00; 0x00;
   0x07; 0x01; 0x8a; 0x91; 0x00; 0x00; 0x94; 0x20; 0x91; 0xc0; 0x80; 0x00;
   0x82; 0x06; 0x68; 0x06; 0x80; 0x00; 0x60; 0x48; 0x32; 0xc8; 0x00; 0x00;
   0x89; 0x80; 0x43; 0x45; 0x00; 0x00; 0x00; 0x8e; 0xc4; 0x30; 0x80; 0x00;
   0x18; 0x22; 0x1c; 0xa2; 0x00; 0x00].

Definition kMaskRandom33_30 : list Z :=
  [0x55; 0x11; 0x15; 0x8c; 0x00; 0x00; 0x22; 0x22; 0x8a; 0x47; 0x00; 0x00;
   0x11; 0x11; 0x25; 0x81; 0x80; 0x00; 0x80; 0x45; 0x62; 0x12; 0x80; 0x00;
   0x20; 0x1a; 0x58; 0x58; 0x00; 0x00; 0x08; 0x68; 0x0e; 0x28; 0x80; 0x00;
   0x22; 0x84; 0x83; 0x34; 0x00; 0x00; 0x48; 0x09; 0x25; 0x2c; 0x00; 0x00;
   0x07; 0x01; 0x8a; 0x91; 0x00; 0x00; 0x94; 0x20; 0x91; 0xc0; 0x80; 0x00;
   0x82; 0x06; 0x68; 0x06; 0x80; 0x00; 0x60; 0x48; 0x32; 0xc8; 0x00; 0x00;
   0x89; 0x80; 0x43; 0x45; 0x00; 0x00; 0x00; 0x8e; 0xc4; 0x30; 0x80; 0x00;
   0x18; 0x22; 0x1c; 0xa2; 0x00; 0x00; 0x45; 0x51; 0x15; 0x8c; 0x00; 0x00;
   0x22; 0x0a; 0x8a; 0x47; 0x00; 0x00; 0x84; 0xd0; 0x25; 0x81; 0x80; 0x00;
   0x0c; 0x8a; 0x62; 0x12; 0x80; 0x00; 0x18; 0x06; 0x58; 0x58; 0x00; 0x00;
   0x30; 0x03; 0x0e; 0x28; 0x80; 0x00; 0x61; 0x08; 0x83; 0x34; 0x00; 0x00;
   0x40; 0x11; 0x51; 0x84; 0x80; 0x00; 0x10; 0x2c; 0xa2; 0x27; 0x00; 0x00;
   0x09; 0x60; 0x95; 0x51; 0x80; 0x00; 0x00; 0x94; 0x4a; 0x1a; 0x00; 0x00;
   0x52; 0x40; 0x30; 0x68; 0x00; 0x00; 0xa4; 0x24; 0x2c; 0x89; 0x00; 0x00;
   0x82; 0x88; 0xb0; 0xde; 0x80; 0x00; 0x6d; 0xd2; 0x8c; 0x00; 0x00; 0x00].

Definition kMaskRandom33_31 : list Z :=
  [0x55; 0x11; 0x15; 0x8c; 0x00; 0x00; 0x22; 0x22; 0x8a; 0x47; 0x00; 0x00;
   0x11; 0x11; 0x25; 0x81; 0x80; 0x00; 0x80; 0x45; 0x62; 0x12; 0x80; 0x00;
   0x20; 0x1a; 0x58; 0x58; 0x00; 0x00; 0x08; 0x68; 0x0e; 0x28; 0x80; 0x00;
   0x22; 0x84; 0x83; 0x34; 0x00; 0x00; 0x48; 0x09; 0x25; 0x2c; 0x00; 0x00;
   0x07; 0x01; 0x8a; 0x91; 0x00; 0x00; 0x94; 0x20; 0x91; 0xc0; 0x80; 0x00;
   0x82; 0x06; 0x68; 0x06; 0x80; 0x00; 0x60; 0x48; 0x32; 0xc8; 0x00; 0x00;
   0x89; 0x80; 0x43; 0x45; 0x00; 0x00; 0x00; 0x8e; 0xc4; 0x30; 0x80; 0x00;
   0x18; 0x22; 0x1c; 0xa2; 0x00; 0x00; 0xa4; 0x10; 0x25; 0x2c; 0x00; 0x00;
   0x01; 0x2a; 0x8a; 0x91; 0x00; 0x00; 0x06; 0x42; 0x91; 0xc0; 0x80; 0x00;
   0x08; 0x68; 0x68; 0x06; 0x80; 0x00; 0x81; 0x90; 0x32; 0xc8; 0x00; 0x00;
   0x00; 0xf0; 0x43; 0x45; 0x00; 0x00; 0x50; 0x05; 0xc4; 0x30; 0x80; 0x00;
   0x20; 0x51; 0x1c; 0xa2; 0x00; 0x00; 0x43; 0x08; 0x15; 0x8c; 0x00; 0x00;
   0x68; 0x80; 0x8a; 0x47; 0x00; 0x00; 0x80; 0x0b; 0x25; 0x81; 0x80; 0x00;
   0x10; 0x4c; 0x62; 0x12; 0x80; 0x00; 0x12; 0x30; 0x58; 0x58; 0x00; 0x00;
   0x40; 0x85; 0x0e; 0x28; 0x80; 0x00; 0x0e; 0x04; 0x83; 0x34; 0x00; 0x00;
   0x18; 0x12; 0x0a; 0x1c; 0x00; 0x00].

Definition kMaskRandom33_32 : list Z :=
  [0xa4; 0x10; 0x25; 0x2c; 0x00; 0x00; 0x01; 0x2a; 0x8a; 0x91; 0x00; 0x00;
   0x06; 0x42; 0x91; 0xc0; 0x80; 0x00; 0x08; 0x68; 0x68; 0x06; 0x80; 0x00;
   0x81; 0x90; 0x32; 0xc8; 0x00; 0x00; 0x00; 0xf0; 0x43; 0x45; 0x00; 0x00;
   0x50; 0x05; 0xc4; 0x30; 0x80; 0x00; 0x20; 0x51; 0x1c; 0xa2; 0x00; 0x00;
   0x43; 0x08; 0x15; 0x8c; 0x00; 0x00; 0x68; 0x80; 0x8a; 0x47; 0x00; 0x00;
   0x80; 0x0b; 0x25; 0x81; 0x80; 0x00; 0x10; 0x4c; 0x62; 0x12; 0x80; 0x00;
   0x12; 0x30; 0x58; 0x58; 0x00; 0x00; 0x40; 0x85; 0x0e; 0x28; 0x80; 0x00;
   0x0e; 0x04; 0x83; 0x34; 0x00; 0x00; 0x18; 0x12; 0x0a; 0x1c; 0x00; 0x00;
   0x55; 0x11; 0x15; 0x8c; 0x00; 0x00; 0x22; 0x22; 0x8a; 0x47; 0x00; 0x00;
   0x11; 0x11; 0x25; 0x81; 0x80; 0x00; 0x80; 0x45; 0x62; 0x12; 0x80; 0x00;
   0x20; 0x1a; 0x58; 0x58; 0x00; 0x00; 0x08; 0x68; 0x0e; 0x28; 0x80; 0x00;
   0x22; 0x84; 0x83; 0x34; 0x00; 0x00; 0x48; 0x09; 0x25; 0x2c; 0x00; 0x00;
   0x07; 0x01; 0x8a; 0x91; 0x00; 0x00; 0x94; 0x20; 0x91; 0xc0; 0x80; 0x00;
   0x82; 0x06; 0x68; 0x06; 0x80; 0x00; 0x60; 0x48; 0x32; 0xc8; 0x00; 0x00;
   0x89; 0x80; 0x43; 0x45; 0x00; 0x00; 0x00; 0x8e; 0xc4; 0x30; 0x80; 0x00;
   0x18; 0x22; 0x1c; 0xa2; 0x00; 0x00; 0x73; 0x8e; 0x12; 0xca; 0x80; 0x00].

Definition kMaskRandom33_33 : list Z :=
  [0xa4; 0x10; 0x25; 0x2c; 0x00; 0x00; 0x01; 0x2a; 0x8a; 0x91; 0x00; 0x00;
   0x06; 0x42; 0x91; 0xc0; 0x80; 0x00; 0x08; 0x68; 0x68; 0x06; 0x80; 0x00;
   0x81; 0x90; 0x32; 0xc8; 0x00; 0x00; 0x00; 0xf0; 0x43; 0x45; 0x00; 0x00;
   0x50; 0x05; 0xc4; 0x30; 0x80; 0x00; 0x20; 0x51; 0x1c; 0xa2; 0x00; 0x00;
   0x43; 0x08; 0x15; 0x8c; 0x00; 0x00; 0x68; 0x80; 0x8a; 0x47; 0x00; 0x00;
   0x80; 0x0b; 0x25; 0x81; 0x80; 0x00; 0x10; 0x4c; 0x62; 0x12; 0x80; 0x00;
   0x12; 0x30; 0x58; 0x58; 0x00; 0x00; 0x40; 0x85; 0x0e; 0x28; 0x80; 0x00;
   0x0e; 0x04; 0x83; 0x34; 0x00; 0x00; 0x18; 0x12; 0x0a; 0x1c; 0x00; 0x00;
   0xa4; 0x10; 0x25; 0x2c; 0x00; 0x00; 0x01; 0x2a; 0x8a; 0x91; 0x00; 0x00;
   0x06; 0x42; 0x91; 0xc0; 0x80; 0x00; 0x08; 0x68; 0x68; 0x06; 0x80; 0x00;
   0x81; 0x90; 0x32; 0xc8; 0x00; 0x00; 0x00; 0xf0; 0x43; 0x45; 0x00; 0x00;
   0x50; 0x05; 0xc4; 0x30; 0x80; 0x00; 0x20; 0x51; 0x1c; 0xa2; 0x00; 0x00;
   0x43; 0x08; 0x25; 0x4c; 0x00; 0x00; 0x68; 0x80; 0x8a; 0x66; 0x00; 0x00;
   0x80; 0x0b; 0x91; 0x91; 0x00; 0x00; 0x10; 0x4c; 0x68; 0x42; 0x80; 0x00;
   0x12; 0x30; 0x32; 0xa4; 0x00; 0x00; 0x40; 0x85; 0x43; 0x13; 0x00; 0x00;
   0x0e; 0x04; 0xc4; 0x30; 0x80; 0x00; 0x18; 0x12; 0x1c; 0x88; 0x80; 0x00;
   0xdb; 0x10; 0x3c; 0x09; 0x00; 0x00].
