(* ===== verification/FecRandom2.v ===== *)
(** * The packet masks against random losses, part 2

    Part 2 of the arrays of [modules/rtp_rtcp/source/fec_private_tables_random.h], for 34 to 41
    media packets: two bytes a row up to 16 packets, six bytes above. *)
From S2P Require Import Prelude.
Local Open Scope Z_scope.

Definition kMaskRandom34_1 : list Z :=
  [0xff; 0xff; 0xff; 0xff; 0xc0; 0x00].

Definition kMaskRandom34_2 : list Z :=
  [0xce; 0xce; 0x67; 0x67; 0x00; 0x00; 0xb9; 0x39; 0xdc; 0x9c; 0xc0; 0x00].

Definition kMaskRandom34_3 : list Z :=
  [0xcd; 0xcc; 0x66; 0xe6; 0x00; 0x00; 0x97; 0x27; 0x4b; 0x93; 0x80; 0x00;
   0xb8; 0xd1; 0xdc; 0x68; 0xc0; 0x00].

Definition kMaskRandom34_4 : list Z :=
  [0xca; 0xec; 0x65; 0x76; 0x00; 0x00; 0xa9; 0x67; 0x54; 0xb3; 0x80; 0x00;
   0x3a; 0xb1; 0x9d; 0x58; 0xc0; 0x00; 0x55; 0x5a; 0xaa; 0xad; 0x40; 0x00].

Definition kMaskRandom34_5 : list Z :=
  [0x55; 0x44; 0xaa; 0xa2; 0x40; 0x00; 0x2a; 0x66; 0x15; 0x33; 0x00; 0x00;
   0x25; 0xa1; 0x92; 0xd0; 0xc0; 0x00; 0xe2; 0x12; 0xf1; 0x09; 0x40; 0x00;
   0x99; 0x98; 0x4c; 0xcc; 0x00; 0x00].

Definition kMaskRandom34_6 : list Z :=
  [0xd1; 0x4c; 0x68; 0xa6; 0x00; 0x00; 0xa2; 0xc5; 0x51; 0x62; 0x80; 0x00;
   0x95; 0x30; 0xca; 0x98; 0x40; 0x00; 0xca; 0x0a; 0xe5; 0x05; 0x40; 0x00;
   0xa4; 0xaa; 0x52; 0x55; 0x00; 0x00; 0x78; 0x15; 0x3c; 0x0a; 0x80; 0x00].

Definition kMaskRandom34_7 : list Z :=
  [0x15; 0x44; 0x8a; 0xa2; 0x40; 0x00; 0x8a; 0x23; 0x45; 0x11; 0x80; 0x00;
   0x85; 0x91; 0x42; 0xc8; 0x80; 0x00; 0x32; 0x0a; 0x99; 0x05; 0x40; 0x00;
   0x58; 0x34; 0x2c; 0x1a; 0x00; 0x00; 0x2c; 0x0d; 0x16; 0x06; 0x80; 0x00;
   0x43; 0xc8; 0x21; 0xe4; 0x00; 0x00].

Definition kMaskRandom34_8 : list Z :=
  [0x64; 0x16; 0x32; 0x0b; 0x00; 0x00; 0xa2; 0xc2; 0x51; 0x61; 0x00; 0x00;
   0x51; 0x60; 0xa8; 0xb0; 0x40; 0x00; 0x4a; 0x85; 0x25; 0x42; 0x80; 0x00;
   0x38; 0x4c; 0x1c; 0x26; 0x00; 0x00; 0x89; 0x29; 0x44; 0x94; 0x80; 0x00;
   0x07; 0x11; 0x83; 0x88; 0xc0; 0x00; 0x94; 0xb0; 0x4a; 0x58; 0x00; 0x00].

Definition kMaskRandom34_9 : list Z :=
  [0x8e; 0xcc; 0x47; 0x66; 0x00; 0x00; 0x6a; 0x2b; 0x35; 0x15; 0x80; 0x00;
   0x36; 0x32; 0x9b; 0x19; 0x40; 0x00; 0xd1; 0x25; 0xe8; 0x92; 0xc0; 0x00;
   0x55; 0x8c; 0xaa; 0xc6; 0x40; 0x00; 0xaa; 0x27; 0x55; 0x13; 0x80; 0x00;
   0xa5; 0x32; 0xd2; 0x99; 0x40; 0x00; 0x62; 0x61; 0xb1; 0x30; 0xc0; 0x00;
   0x3c; 0x5c; 0x1e; 0x2e; 0x00; 0x00].

Definition kMaskRandom34_10 : list Z :=
  [0x55; 0x8c; 0xaa; 0xc6; 0x40; 0x00; 0xaa; 0x27; 0x55; 0x13; 0x80; 0x00;
   0xa5; 0x32; 0xd2; 0x99; 0x40; 0x00; 0x62; 0x61; 0xb1; 0x30; 0xc0; 0x00;
   0x3c; 0x5c; 0x1e; 0x2e; 0x00; 0x00; 0x8e; 0xcc; 0x47; 0x66; 0x00; 0x00;
   0x6a; 0x2b; 0x35; 0x15; 0x80; 0x00; 0x36; 0x32; 0x9b; 0x19; 0x40; 0x00;
   0xd1; 0x25; 0xe8; 0x92; 0xc0; 0x00; 0xc8; 0x02; 0xe4; 0x01; 0x40; 0x00].

Definition kMaskRandom34_11 : list Z :=
  [0x55; 0x8c; 0xaa; 0xc6; 0x40; 0x00; 0xaa; 0x27; 0x55; 0x13; 0x80; 0x00;
   0xa5; 0x32; 0xd2; 0x99; 0x40; 0x00; 0x62; 0x61; 0xb1; 0x30; 0xc0; 0x00;
   0x3c; 0x5c; 0x1e; 0x2e; 0x00; 0x00; 0x51; 0x84; 0xa8; 0xc2; 0x40; 0x00;
   0xa2; 0x27; 0x51; 0x13; 0x80; 0x00; 0x95; 0x51; 0xca; 0xa8; 0xc0; 0x00;
   0x4a; 0x1a; 0x25; 0x0d; 0x00; 0x00; 0x30; 0x68; 0x18; 0x34; 0x00; 0x00;
   0x2c; 0x89; 0x16; 0x44; 0x80; 0x00].

Definition kMaskRandom34_12 : list Z :=
  [0x51; 0x84; 0xa8; 0xc2; 0x40; 0x00; 0xa2; 0x27; 0x51; 0x13; 0x80; 0x00;
   0x95; 0x51; 0xca; 0xa8; 0xc0; 0x00; 0x4a; 0x1a; 0x25; 0x0d; 0x00; 0x00;
   0x30; 0x68; 0x18; 0x34; 0x00; 0x00; 0x2c; 0x89; 0x16; 0x44; 0x80; 0x00;
   0x55; 0x8c; 0xaa; 0xc6; 0x40; 0x00; 0xaa; 0x27; 0x55; 0x13; 0x80; 0x00;
   0xa5; 0x32; 0xd2; 0x99; 0x40; 0x00; 0x62; 0x61; 0xb1; 0x30; 0xc0; 0x00;
   0x3c; 0x5c; 0x1e; 0x2e; 0x00; 0x00; 0x51; 0x35; 0x28; 0x9a; 0x80; 0x00].

Definition kMaskRandom34_13 : list Z :=
  [0x51; 0x84; 0xa8; 0xc2; 0x40; 0x00; 0xa2; 0x27; 0x51; 0x13; 0x80; 0x00;
   0x95; 0x51; 0xca; 0xa8; 0xc0; 0x00; 0x4a; 0x1a; 0x25; 0x0d; 0x00; 0x00;
   0x30; 0x68; 0x18; 0x34; 0x00; 0x00; 0x2c; 0x89; 0x16; 0x44; 0x80; 0x00;
   0x15; 0x8c; 0x0a; 0xc6; 0x00; 0x00; 0x8a; 0x47; 0x45; 0x23; 0x80; 0x00;
   0x25; 0x81; 0x92; 0xc0; 0xc0; 0x00; 0x62; 0x12; 0xb1; 0x09; 0x40; 0x00;
   0x58; 0x58; 0x2c; 0x2c; 0x00; 0x00; 0x0e; 0x28; 0x87; 0x14; 0x40; 0x00;
   0x83; 0x34; 0x41; 0x9a; 0x00; 0x00].

Definition kMaskRandom34_14 : list Z :=
  [0x15; 0x8c; 0x0a; 0xc6; 0x00; 0x00; 0x8a; 0x47; 0x45; 0x23; 0x80; 0x00;
   0x25; 0x81; 0x92; 0xc0; 0xc0; 0x00; 0x62; 0x12; 0xb1; 0x09; 0x40; 0x00;
   0x58; 0x58; 0x2c; 0x2c; 0x00; 0x00; 0x0e; 0x28; 0x87; 0x14; 0x40; 0x00;
   0x83; 0x34; 0x41; 0x9a; 0x00; 0x00; 0x51; 0x84; 0xa8; 0xc2; 0x40; 0x00;
   0xa2; 0x27; 0x51; 0x13; 0x80; 0x00; 0x95; 0x51; 0xca; 0xa8; 0xc0; 0x00;
   0x4a; 0x1a; 0x25; 0x0d; 0x00; 0x00; 0x30; 0x68; 0x18; 0x34; 0x00; 0x00;
   0x2c; 0x89; 0x16; 0x44; 0x80; 0x00; 0xb0; 0xde; 0xd8; 0x6f; 0x40; 0x00].

Definition kMaskRandom34_15 : list Z :=
  [0x15; 0x8c; 0x0a; 0xc6; 0x00; 0x00; 0x8a; 0x47; 0x45; 0x23; 0x80; 0x00;
   0x25; 0x81; 0x92; 0xc0; 0xc0; 0x00; 0x62; 0x12; 0xb1; 0x09; 0x40; 0x00;
   0x58; 0x58; 0x2c; 0x2c; 0x00; 0x00; 0x0e; 0x28; 0x87; 0x14; 0x40; 0x00;
   0x83; 0x34; 0x41; 0x9a; 0x00; 0x00; 0x25; 0x2c; 0x12; 0x96; 0x00; 0x00;
   0x8a; 0x91; 0x45; 0x48; 0x80; 0x00; 0x91; 0xc0; 0xc8; 0xe0; 0x40; 0x00;
   0x68; 0x06; 0xb4; 0x03; 0x40; 0x00; 0x32; 0xc8; 0x19; 0x64; 0x00; 0x00;
   0x43; 0x45; 0x21; 0xa2; 0x80; 0x00; 0xc4; 0x30; 0xe2; 0x18; 0x40; 0x00;
   0x1c; 0xa2; 0x0e; 0x51; 0x00; 0x00].

Definition kMaskRandom34_16 : list Z :=
  [0x25; 0x2c; 0x12; 0x96; 0x00; 0x00; 0x8a; 0x91; 0x45; 0x48; 0x80; 0x00;
   0x91; 0xc0; 0xc8; 0xe0; 0x40; 0x00; 0x68; 0x06; 0xb4; 0x03; 0x40; 0x00;
   0x32; 0xc8; 0x19; 0x64; 0x00; 0x00; 0x43; 0x45; 0x21; 0xa2; 0x80; 0x00;
   0xc4; 0x30; 0xe2; 0x18; 0x40; 0x00; 0x1c; 0xa2; 0x0e; 0x51; 0x00; 0x00;
   0x15; 0x8c; 0x0a; 0xc6; 0x00; 0x00; 0x8a; 0x47; 0x45; 0x23; 0x80; 0x00;
   0x25; 0x81; 0x92; 0xc0; 0xc0; 0x00; 0x62; 0x12; 0xb1; 0x09; 0x40; 0x00;
   0x58; 0x58; 0x2c; 0x2c; 0x00; 0x00; 0x0e; 0x28; 0x87; 0x14; 0x40; 0x00;
   0x83; 0x34; 0x41; 0x9a; 0x00; 0x00; 0x0a; 0x1c; 0x05; 0x0e; 0x00; 0x00].

Definition kMaskRandom34_17 : list Z :=
  [0x25; 0x2c; 0x12; 0x96; 0x00; 0x00; 0x8a; 0x91; 0x45; 0x48; 0x80; 0x00;
   0x91; 0xc0; 0xc8; 0xe0; 0x40; 0x00; 0x68; 0x06; 0xb4; 0x03; 0x40; 0x00;
   0x32; 0xc8; 0x19; 0x64; 0x00; 0x00; 0x43; 0x45; 0x21; 0xa2; 0x80; 0x00;
   0xc4; 0x30; 0xe2; 0x18; 0x40; 0x00; 0x1c; 0xa2; 0x0e; 0x51; 0x00; 0x00;
   0x25; 0x4c; 0x12; 0xa6; 0x00; 0x00; 0x8a; 0x66; 0x45; 0x33; 0x00; 0x00;
   0x91; 0x91; 0x48; 0xc8; 0x80; 0x00; 0x68; 0x42; 0xb4; 0x21; 0x40; 0x00;
   0x32; 0xa4; 0x19; 0x52; 0x00; 0x00; 0x43; 0x13; 0x21; 0x89; 0x80; 0x00;
   0xc4; 0x30; 0xe2; 0x18; 0x40; 0x00; 0x1c; 0x88; 0x8e; 0x44; 0x40; 0x00;
   0x3c; 0x09; 0x1e; 0x04; 0x80; 0x00].

Definition kMaskRandom34_18 : list Z :=
  [0x8e; 0xcc; 0x47; 0x66; 0x00; 0x00; 0x6a; 0x2b; 0x35; 0x15; 0x80; 0x00;
   0x36; 0x32; 0x9b; 0x19; 0x40; 0x00; 0xd1; 0x25; 0xe8; 0x92; 0xc0; 0x00;
   0x55; 0x8c; 0xaa; 0xc6; 0x40; 0x00; 0xaa; 0x27; 0x55; 0x13; 0x80; 0x00;
   0xa5; 0x32; 0xd2; 0x99; 0x40; 0x00; 0x62; 0x61; 0xb1; 0x30; 0xc0; 0x00;
   0x3c; 0x5c; 0x1e; 0x2e; 0x00; 0x00; 0x64; 0x16; 0x32; 0x0b; 0x00; 0x00;
   0xa2; 0xc2; 0x51; 0x61; 0x00; 0x00; 0x51; 0x60; 0xa8; 0xb0; 0x40; 0x00;
   0x4a; 0x85; 0x25; 0x42; 0x80; 0x00; 0x38; 0x4c; 0x1c; 0x26; 0x00; 0x00;
   0x89; 0x29; 0x44; 0x94; 0x80; 0x00; 0x07; 0x11; 0x83; 0x88; 0xc0; 0x00;
   0x94; 0xb0; 0x4a; 0x58; 0x00; 0x00; 0x89; 0x70; 0xf3; 0xf7; 0x40; 0x00].

Definition kMaskRandom34_19 : list Z :=
  [0x8e; 0xcc; 0x47; 0x66; 0x00; 0x00; 0x6a; 0x2b; 0x35; 0x15; 0x80; 0x00;
   0x36; 0x32; 0x9b; 0x19; 0x40; 0x00; 0xd1; 0x25; 0xe8; 0x92; 0xc0; 0x00;
   0x55; 0x8c; 0xaa; 0xc6; 0x40; 0x00; 0xaa; 0x27; 0x55; 0x13; 0x80; 0x00;
   0xa5; 0x32; 0xd2; 0x99; 0x40; 0x00; 0x62; 0x61; 0xb1; 0x30; 0xc0; 0x00;
   0x3c; 0x5c; 0x1e; 0x2e; 0x00; 0x00; 0x55; 0x8c; 0xaa; 0xc6; 0x40; 0x00;
   0xaa; 0x27; 0x55; 0x13; 0x80; 0x00; 0xa5; 0x32; 0xd2; 0x99; 0x40; 0x00;
   0x62; 0x61; 0xb1; 0x30; 0xc0; 0x00; 0x3c; 0x5c; 0x1e; 0x2e; 0x00; 0x00;
   0x8e; 0xcc; 0x47; 0x66; 0x00; 0x00; 0x6a; 0x2b; 0x35; 0x15; 0x80; 0x00;
   0x36; 0x32; 0x9b; 0x19; 0x40; 0x00; 0xd1; 0x25; 0xe8; 0x92; 0xc0; 0x00;
   0xc8; 0x02; 0xe4; 0x01; 0x40; 0x00].

Definition kMaskRandom34_20 : list Z :=
  [0x55; 0x8c; 0xaa; 0xc6; 0x40; 0x00; 0xaa; 0x27; 0x55; 0x13; 0x80; 0x00;
   0xa5; 0x32; 0xd2; 0x99; 0x40; 0x00; 0x62; 0x61; 0xb1; 0x30; 0xc0; 0x00;
   0x3c; 0x5c; 0x1e; 0x2e; 0x00; 0x00; 0x8e; 0xcc; 0x47; 0x66; 0x00; 0x00;
   0x6a; 0x2b; 0x35; 0x15; 0x80; 0x00; 0x36; 0x32; 0x9b; 0x19; 0x40; 0x00;
   0xd1; 0x25; 0xe8; 0x92; 0xc0; 0x00; 0xc8; 0x02; 0xe4; 0x01; 0x40; 0x00;
   0x8e; 0xcc; 0x47; 0x66; 0x00; 0x00; 0x6a; 0x2b; 0x35; 0x15; 0x80; 0x00;
   0x36; 0x32; 0x9b; 0x19; 0x40; 0x00; 0xd1; 0x25; 0xe8; 0x92; 0xc0; 0x00;
   0x55; 0x8c; 0xaa; 0xc6; 0x40; 0x00; 0xaa; 0x27; 0x55; 0x13; 0x80; 0x00;
   0xa5; 0x32; 0xd2; 0x99; 0x40; 0x00; 0x62; 0x61; 0xb1; 0x30; 0xc0; 0x00;
   0x3c; 0x5c; 0x1e; 0x2e; 0x00; 0x00; 0x5d; 0xc5; 0xfe; 0xd8; 0x40; 0x00].

Definition kMaskRandom34_21 : list Z :=
  [0x55; 0x8c; 0xaa; 0xc6; 0x40; 0x00; 0xaa; 0x27; 0x55; 0x13; 0x80; 0x00;
   0xa5; 0x32; 0xd2; 0x99; 0x40; 0x00; 0x62; 0x61; 0xb1; 0x30; 0xc0; 0x00;
   0x3c; 0x5c; 0x1e; 0x2e; 0x00; 0x00; 0x8e; 0xcc; 0x47; 0x66; 0x00; 0x00;
   0x6a; 0x2b; 0x35; 0x15; 0x80; 0x00; 0x36; 0x32; 0x9b; 0x19; 0x40; 0x00;
   0xd1; 0x25; 0xe8; 0x92; 0xc0; 0x00; 0xc8; 0x02; 0xe4; 0x01; 0x40; 0x00;
   0x55; 0x8c; 0xaa; 0xc6; 0x40; 0x00; 0xaa; 0x27; 0x55; 0x13; 0x80; 0x00;
   0xa5; 0x32; 0xd2; 0x99; 0x40; 0x00; 0x62; 0x61; 0xb1; 0x30; 0xc0; 0x00;
   0x3c; 0x5c; 0x1e; 0x2e; 0x00; 0x00; 0x51; 0x84; 0xa8; 0xc2; 0x40; 0x00;
   0xa2; 0x27; 0x51; 0x13; 0x80; 0x00; 0x95; 0x51; 0xca; 0xa8; 0xc0; 0x00;
   0x4a; 0x1a; 0x25; 0x0d; 0x00; 0x00; 0x30; 0x68; 0x18; 0x34; 0x00; 0x00;
   0x2c; 0x89; 0x16; 0x44; 0x80; 0x00].

Definition kMaskRandom34_22 : list Z :=
  [0x55; 0x8c; 0xaa; 0xc6; 0x40; 0x00; 0xaa; 0x27; 0x55; 0x13; 0x80; 0x00;
   0xa5; 0x32; 0xd2; 0x99; 0x40; 0x00; 0x62; 0x61; 0xb1; 0x30; 0xc0; 0x00;
   0x3c; 0x5c; 0x1e; 0x2e; 0x00; 0x00; 0x51; 0x84; 0xa8; 0xc2; 0x40; 0x00;
   0xa2; 0x27; 0x51; 0x13; 0x80; 0x00; 0x95; 0x51; 0xca; 0xa8; 0xc0; 0x00;
   0x4a; 0x1a; 0x25; 0x0d; 0x00; 0x00; 0x30; 0x68; 0x18; 0x34; 0x00; 0x00;
   0x2c; 0x89; 0x16; 0x44; 0x80; 0x00; 0x55; 0x8c; 0xaa; 0xc6; 0x40; 0x00;
   0xaa; 0x27; 0x55; 0x13; 0x80; 0x00; 0xa5; 0x32; 0xd2; 0x99; 0x40; 0x00;
   0x62; 0x61; 0xb1; 0x30; 0xc0; 0x00; 0x3c; 0x5c; 0x1e; 0x2e; 0x00; 0x00;
   0x8e; 0xcc; 0x47; 0x66; 0x00; 0x00; 0x6a; 0x2b; 0x35; 0x15; 0x80; 0x00;
   0x36; 0x32; 0x9b; 0x19; 0x40; 0x00; 0xd1; 0x25; 0xe8; 0x92; 0xc0; 0x00;
   0xc8; 0x02; 0xe4; 0x01; 0x40; 0x00; 0x2a; 0xf7; 0x4f; 0xf5; 0x80; 0x00].

Definition kMaskRandom34_23 : list Z :=
  [0x55; 0x8c; 0xaa; 0xc6; 0x40; 0x00; 0xaa; 0x27; 0x55; 0x13; 0x80; 0x00;
   0xa5; 0x32; 0xd2; 0x99; 0x40; 0x00; 0x62; 0x61; 0xb1; 0x30; 0xc0; 0x00;
   0x3c; 0x5c; 0x1e; 0x2e; 0x00; 0x00; 0x51; 0x84; 0xa8; 0xc2; 0x40; 0x00;
   0xa2; 0x27; 0x51; 0x13; 0x80; 0x00; 0x95; 0x51; 0xca; 0xa8; 0xc0; 0x00;
   0x4a; 0x1a; 0x25; 0x0d; 0x00; 0x00; 0x30; 0x68; 0x18; 0x34; 0x00; 0x00;
   0x2c; 0x89; 0x16; 0x44; 0x80; 0x00; 0x51; 0x84; 0xa8; 0xc2; 0x40; 0x00;
   0xa2; 0x27; 0x51; 0x13; 0x80; 0x00; 0x95; 0x51; 0xca; 0xa8; 0xc0; 0x00;
   0x4a; 0x1a; 0x25; 0x0d; 0x00; 0x00; 0x30; 0x68; 0x18; 0x34; 0x00; 0x00;
   0x2c; 0x89; 0x16; 0x44; 0x80; 0x00; 0x55; 0x8c; 0xaa; 0xc6; 0x40; 0x00;
   0xaa; 0x27; 0x55; 0x13; 0x80; 0x00; 0xa5; 0x32; 0xd2; 0x99; 0x40; 0x00;
   0x62; 0x61; 0xb1; 0x30; 0xc0; 0x00; 0x3c; 0x5c; 0x1e; 0x2e; 0x00; 0x00;
   0x51; 0x35; 0x28; 0x9a; 0x80; 0x00].

Definition kMaskRandom34_24 : list Z :=
  [0x51; 0x84; 0xa8; 0xc2; 0x40; 0x00; 0xa2; 0x27; 0x51; 0x13; 0x80; 0x00;
   0x95; 0x51; 0xca; 0xa8; 0xc0; 0x00; 0x4a; 0x1a; 0x25; 0x0d; 0x00; 0x00;
   0x30; 0x68; 0x18; 0x34; 0x00; 0x00; 0x2c; 0x89; 0x16; 0x44; 0x80; 0x00;
   0x55; 0x8c; 0xaa; 0xc6; 0x40; 0x00; 0xaa; 0x27; 0x55; 0x13; 0x80; 0x00;
   0xa5; 0x32; 0xd2; 0x99; 0x40; 0x00; 0x62; 0x61; 0xb1; 0x30; 0xc0; 0x00;
   0x3c; 0x5c; 0x1e; 0x2e; 0x00; 0x00; 0x51; 0x35; 0x28; 0x9a; 0x80; 0x00;
   0x55; 0x8c; 0xaa; 0xc6; 0x40; 0x00; 0xaa; 0x27; 0x55; 0x13; 0x80; 0x00;
   0xa5; 0x32; 0xd2; 0x99; 0x40; 0x00; 0x62; 0x61; 0xb1; 0x30; 0xc0; 0x00;
   0x3c; 0x5c; 0x1e; 0x2e; 0x00; 0x00; 0x51; 0x84; 0xa8; 0xc2; 0x40; 0x00;
   0xa2; 0x27; 0x51; 0x13; 0x80; 0x00; 0x95; 0x51; 0xca; 0xa8; 0xc0; 0x00;
   0x4a; 0x1a; 0x25; 0x0d; 0x00; 0x00; 0x30; 0x68; 0x18; 0x34; 0x00; 0x00;
   0x2c; 0x89; 0x16; 0x44; 0x80; 0x00; 0x4c; 0xb8; 0x04; 0x74; 0xc0; 0x00].

Definition kMaskRandom34_25 : list Z :=
  [0x51; 0x84; 0xa8; 0xc2; 0x40; 0x00; 0xa2; 0x27; 0x51; 0x13; 0x80; 0x00;
   0x95; 0x51; 0xca; 0xa8; 0xc0; 0x00; 0x4a; 0x1a; 0x25; 0x0d; 0x00; 0x00;
   0x30; 0x68; 0x18; 0x34; 0x00; 0x00; 0x2c; 0x89; 0x16; 0x44; 0x80; 0x00;
   0x55; 0x8c; 0xaa; 0xc6; 0x40; 0x00; 0xaa; 0x27; 0x55; 0x13; 0x80; 0x00;
   0xa5; 0x32; 0xd2; 0x99; 0x40; 0x00; 0x62; 0x61; 0xb1; 0x30; 0xc0; 0x00;
   0x3c; 0x5c; 0x1e; 0x2e; 0x00; 0x00; 0x51; 0x35; 0x28; 0x9a; 0x80; 0x00;
   0x51; 0x84; 0xa8; 0xc2; 0x40; 0x00; 0xa2; 0x27; 0x51; 0x13; 0x80; 0x00;
   0x95; 0x51; 0xca; 0xa8; 0xc0; 0x00; 0x4a; 0x1a; 0x25; 0x0d; 0x00; 0x00;
   0x30; 0x68; 0x18; 0x34; 0x00; 0x00; 0x2c; 0x89; 0x16; 0x44; 0x80; 0x00;
   0x15; 0x8c; 0x0a; 0xc6; 0x00; 0x00; 0x8a; 0x47; 0x45; 0x23; 0x80; 0x00;
   0x25; 0x81; 0x92; 0xc0; 0xc0; 0x00; 0x62; 0x12; 0xb1; 0x09; 0x40; 0x00;
   0x58; 0x58; 0x2c; 0x2c; 0x00; 0x00; 0x0e; 0x28; 0x87; 0x14; 0x40; 0x00;
   0x83; 0x34; 0x41; 0x9a; 0x00; 0x00].

Definition kMaskRandom34_26 : list Z :=
  [0x51; 0x84; 0xa8; 0xc2; 0x40; 0x00; 0xa2; 0x27; 0x51; 0x13; 0x80; 0x00;
   0x95; 0x51; 0xca; 0xa8; 0xc0; 0x00; 0x4a; 0x1a; 0x25; 0x0d; 0x00; 0x00;
   0x30; 0x68; 0x18; 0x34; 0x00; 0x00; 0x2c; 0x89; 0x16; 0x44; 0x80; 0x00;
   0x15; 0x8c; 0x0a; 0xc6; 0x00; 0x00; 0x8a; 0x47; 0x45; 0x23; 0x80; 0x00;
   0x25; 0x81; 0x92; 0xc0; 0xc0; 0x00; 0x62; 0x12; 0xb1; 0x09; 0x40; 0x00;
   0x58; 0x58; 0x2c; 0x2c; 0x00; 0x00; 0x0e; 0x28; 0x87; 0x14; 0x40; 0x00;
   0x83; 0x34; 0x41; 0x9a; 0x00; 0x00; 0x51; 0x84; 0xa8; 0xc2; 0x40; 0x00;
   0xa2; 0x27; 0x51; 0x13; 0x80; 0x00; 0x95; 0x51; 0xca; 0xa8; 0xc0; 0x00;
   0x4a; 0x1a; 0x25; 0x0d; 0x00; 0x00; 0x30; 0x68; 0x18; 0x34; 0x00; 0x00;
   0x2c; 0x89; 0x16; 0x44; 0x80; 0x00; 0x55; 0x8c; 0xaa; 0xc6; 0x40; 0x00;
   0xaa; 0x27; 0x55; 0x13; 0x80; 0x00; 0xa5; 0x32; 0xd2; 0x99; 0x40; 0x00;
   0x62; 0x61; 0xb1; 0x30; 0xc0; 0x00; 0x3c; 0x5c; 0x1e; 0x2e; 0x00; 0x00;
   0x51; 0x35; 0x28; 0x9a; 0x80; 0x00; 0x95; 0x20; 0xe9; 0xef; 0xc0; 0x00].

Definition kMaskRandom34_27 : list Z :=
  [0x51; 0x84; 0xa8; 0xc2; 0x40; 0x00; 0xa2; 0x27; 0x51; 0x13; 0x80; 0x00;
   0x95; 0x51; 0xca; 0xa8; 0xc0; 0x00; 0x4a; 0x1a; 0x25; 0x0d; 0x00; 0x00;
   0x30; 0x68; 0x18; 0x34; 0x00; 0x00; 0x2c; 0x89; 0x16; 0x44; 0x80; 0x00;
   0x15; 0x8c; 0x0a; 0xc6; 0x00; 0x00; 0x8a; 0x47; 0x45; 0x23; 0x80; 0x00;
   0x25; 0x81; 0x92; 0xc0; 0xc0; 0x00; 0x62; 0x12; 0xb1; 0x09; 0x40; 0x00;
   0x58; 0x58; 0x2c; 0x2c; 0x00; 0x00; 0x0e; 0x28; 0x87; 0x14; 0x40; 0x00;
   0x83; 0x34; 0x41; 0x9a; 0x00; 0x00; 0x15; 0x8c; 0x0a; 0xc6; 0x00; 0x00;
   0x8a; 0x47; 0x45; 0x23; 0x80; 0x00; 0x25; 0x81; 0x92; 0xc0; 0xc0; 0x00;
   0x62; 0x12; 0xb1; 0x09; 0x40; 0x00; 0x58; 0x58; 0x2c; 0x2c; 0x00; 0x00;
   0x0e; 0x28; 0x87; 0x14; 0x40; 0x00; 0x83; 0x34; 0x41; 0x9a; 0x00; 0x00;
   0x51; 0x84; 0xa8; 0xc2; 0x40; 0x00; 0xa2; 0x27; 0x51; 0x13; 0x80; 0x00;
   0x95; 0x51; 0xca; 0xa8; 0xc0; 0x00; 0x4a; 0x1a; 0x25; 0x0d; 0x00; 0x00;
   0x30; 0x68; 0x18; 0x34; 0x00; 0x00; 0x2c; 0x89; 0x16; 0x44; 0x80; 0x00;
   0xb0; 0xde; 0xd8; 0x6f; 0x40; 0x00].

Definition kMaskRandom34_28 : list Z :=
  [0x15; 0x8c; 0x0a; 0xc6; 0x00; 0x00; 0x8a; 0x47; 0x45; 0x23; 0x80; 0x00;
   0x25; 0x81; 0x92; 0xc0; 0xc0; 0x00; 0x62; 0x12; 0xb1; 0x09; 0x40; 0x00;
   0x58; 0x58; 0x2c; 0x2c; 0x00; 0x00; 0x0e; 0x28; 0x87; 0x14; 0x40; 0x00;
   0x83; 0x34; 0x41; 0x9a; 0x00; 0x00; 0x51; 0x84; 0xa8; 0xc2; 0x40; 0x00;
   0xa2; 0x27; 0x51; 0x13; 0x80; 0x00; 0x95; 0x51; 0xca; 0xa8; 0xc0; 0x00;
   0x4a; 0x1a; 0x25; 0x0d; 0x00; 0x00; 0x30; 0x68; 0x18; 0x34; 0x00; 0x00;
   0x2c; 0x89; 0x16; 0x44; 0x80; 0x00; 0xb0; 0xde; 0xd8; 0x6f; 0x40; 0x00;
   0x51; 0x84; 0xa8; 0xc2; 0x40; 0x00; 0xa2; 0x27; 0x51; 0x13; 0x80; 0x00;
   0x95; 0x51; 0xca; 0xa8; 0xc0; 0x00; 0x4a; 0x1a; 0x25; 0x0d; 0x00; 0x00;
   0x30; 0x68; 0x18; 0x34; 0x00; 0x00; 0x2c; 0x89; 0x16; 0x44; 0x80; 0x00;
   0x15; 0x8c; 0x0a; 0xc6; 0x00; 0x00; 0x8a; 0x47; 0x45; 0x23; 0x80; 0x00;
   0x25; 0x81; 0x92; 0xc0; 0xc0; 0x00; 0x62; 0x12; 0xb1; 0x09; 0x40; 0x00;
   0x58; 0x58; 0x2c; 0x2c; 0x00; 0x00; 0x0e; 0x28; 0x87; 0x14; 0x40; 0x00;
   0x83; 0x34; 0x41; 0x9a; 0x00; 0x00; 0x10; 0x6c; 0xff; 0x60; 0x80; 0x00].

Definition kMaskRandom34_29 : list Z :=
  [0x15; 0x8c; 0x0a; 0xc6; 0x00; 0x00; 0x8a; 0x47; 0x45; 0x23; 0x80; 0x00;
   0x25; 0x81; 0x92; 0xc0; 0xc0; 0x00; 0x62; 0x12; 0xb1; 0x09; 0x40; 0x00;
   0x58; 0x58; 0x2c; 0x2c; 0x00; 0x00; 0x0e; 0x28; 0x87; 0x14; 0x40; 0x00;
   0x83; 0x34; 0x41; 0x9a; 0x00; 0x00; 0x51; 0x84; 0xa8; 0xc2; 0x40; 0x00;
   0xa2; 0x27; 0x51; 0x13; 0x80; 0x00; 0x95; 0x51; 0xca; 0xa8; 0xc0; 0x00;
   0x4a; 0x1a; 0x25; 0x0d; 0x00; 0x00; 0x30; 0x68; 0x18; 0x34; 0x00; 0x00;
   0x2c; 0x89; 0x16; 0x44; 0x80; 0x00; 0xb0; 0xde; 0xd8; 0x6f; 0x40; 0x00;
   0x15; 0x8c; 0x0a; 0xc6; 0x00; 0x00; 0x8a; 0x47; 0x45; 0x23; 0x80; 0x00;
   0x25; 0x81; 0x92; 0xc0; 0xc0; 0x00; 0x62; 0x12; 0xb1; 0x09; 0x40; 0x00;
   0x58; 0x58; 0x2c; 0x2c; 0x00; 0x00; 0x0e; 0x28; 0x87; 0x14; 0x40; 0x00;
   0x83; 0x34; 0x41; 0x9a; 0x00; 0x00; 0x25; 0x2c; 0x12; 0x96; 0x00; 0x00;
   0x8a; 0x91; 0x45; 0x48; 0x80; 0x00; 0x91; 0xc0; 0xc8; 0xe0; 0x40; 0x00;
   0x68; 0x06; 0xb4; 0x03; 0x40; 0x00; 0x32; 0xc8; 0x19; 0x64; 0x00; 0x00;
   0x43; 0x45; 0x21; 0xa2; 0x80; 0x00; 0xc4; 0x30; 0xe2; 0x18; 0x40; 0x00;
   0x1c; 0xa2; 0x0e; 0x51; 0x00; 0x00].

Definition kMaskRandom34_30 : list Z :=
  [0x15; 0x8c; 0x0a; 0xc6; 0x00; 0x00; 0x8a; 0x47; 0x45; 0x23; 0x80; 0x00;
   0x25; 0x81; 0x92; 0xc0; 0xc0; 0x00; 0x62; 0x12; 0xb1; 0x09; 0x40; 0x00;
   0x58; 0x58; 0x2c; 0x2c; 0x00; 0x00; 0x0e; 0x28; 0x87; 0x14; 0x40; 0x00;
   0x83; 0x34; 0x41; 0x9a; 0x00; 0x00; 0x25; 0x2c; 0x12; 0x96; 0x00; 0x00;
   0x8a; 0x91; 0x45; 0x48; 0x80; 0x00; 0x91; 0xc0; 0xc8; 0xe0; 0x40; 0x00;
   0x68; 0x06; 0xb4; 0x03; 0x40; 0x00; 0x32; 0xc8; 0x19; 0x64; 0x00; 0x00;
   0x43; 0x45; 0x21; 0xa2; 0x80; 0x00; 0xc4; 0x30; 0xe2; 0x18; 0x40; 0x00;
   0x1c; 0xa2; 0x0e; 0x51; 0x00; 0x00; 0x15; 0x8c; 0x0a; 0xc6; 0x00; 0x00;
   0x8a; 0x47; 0x45; 0x23; 0x80; 0x00; 0x25; 0x81; 0x92; 0xc0; 0xc0; 0x00;
   0x62; 0x12; 0xb1; 0x09; 0x40; 0x00; 0x58; 0x58; 0x2c; 0x2c; 0x00; 0x00;
   0x0e; 0x28; 0x87; 0x14; 0x40; 0x00; 0x83; 0x34; 0x41; 0x9a; 0x00; 0x00;
   0x51; 0x84; 0xa8; 0xc2; 0x40; 0x00; 0xa2; 0x27; 0x51; 0x13; 0x80; 0x00;
   0x95; 0x51; 0xca; 0xa8; 0xc0; 0x00; 0x4a; 0x1a; 0x25; 0x0d; 0x00; 0x00;
   0x30; 0x68; 0x18; 0x34; 0x00; 0x00; 0x2c; 0x89; 0x16; 0x44; 0x80; 0x00;
   0xb0; 0xde; 0xd8; 0x6f; 0x40; 0x00; 0x87; 0x93; 0x96; 0xc7; 0x80; 0x00].

Definition kMaskRandom34_31 : list Z :=
  [0x15; 0x8c; 0x0a; 0xc6; 0x00; 0x00; 0x8a; 0x47; 0x45; 0x23; 0x80; 0x00;
   0x25; 0x81; 0x92; 0xc0; 0xc0; 0x00; 0x62; 0x12; 0xb1; 0x09; 0x40; 0x00;
   0x58; 0x58; 0x2c; 0x2c; 0x00; 0x00; 0x0e; 0x28; 0x87; 0x14; 0x40; 0x00;
   0x83; 0x34; 0x41; 0x9a; 0x00; 0x00; 0x25; 0x2c; 0x12; 0x96; 0x00; 0x00;
   0x8a; 0x91; 0x45; 0x48; 0x80; 0x00; 0x91; 0xc0; 0xc8; 0xe0; 0x40; 0x00;
   0x68; 0x06; 0xb4; 0x03; 0x40; 0x00; 0x32; 0xc8; 0x19; 0x64; 0x00; 0x00;
   0x43; 0x45; 0x21; 0xa2; 0x80; 0x00; 0xc4; 0x30; 0xe2; 0x18; 0x40; 0x00;
   0x1c; 0xa2; 0x0e; 0x51; 0x00; 0x00; 0x25; 0x2c; 0x12; 0x96; 0x00; 0x00;
   0x8a; 0x91; 0x45; 0x48; 0x80; 0x00; 0x91; 0xc0; 0xc8; 0xe0; 0x40; 0x00;
   0x68; 0x06; 0xb4; 0x03; 0x40; 0x00; 0x32; 0xc8; 0x19; 0x64; 0x00; 0x00;
   0x43; 0x45; 0x21; 0xa2; 0x80; 0x00; 0xc4; 0x30; 0xe2; 0x18; 0x40; 0x00;
   0x1c; 0xa2; 0x0e; 0x51; 0x00; 0x00; 0x15; 0x8c; 0x0a; 0xc6; 0x00; 0x00;
   0x8a; 0x47; 0x45; 0x23; 0x80; 0x00; 0x25; 0x81; 0x92; 0xc0; 0xc0; 0x00;
   0x62; 0x12; 0xb1; 0x09; 0x40; 0x00; 0x58; 0x58; 0x2c; 0x2c; 0x00; 0x00;
   0x0e; 0x28; 0x87; 0x14; 0x40; 0x00; 0x83; 0x34; 0x41; 0x9a; 0x00; 0x00;
   0x0a; 0x1c; 0x05; 0x0e; 0x00; 0x00].

Definition kMaskRandom34_32 : list Z :=
  [0x25; 0x2c; 0x12; 0x96; 0x00; 0x00; 0x8a; 0x91; 0x45; 0x48; 0x80; 0x00;
   0x91; 0xc0; 0xc8; 0xe0; 0x40; 0x00; 0x68; 0x06; 0xb4; 0x03; 0x40; 0x00;
   0x32; 0xc8; 0x19; 0x64; 0x00; 0x00; 0x43; 0x45; 0x21; 0xa2; 0x80; 0x00;
   0xc4; 0x30; 0xe2; 0x18; 0x40; 0x00; 0x1c; 0xa2; 0x0e; 0x51; 0x00; 0x00;
   0x15; 0x8c; 0x0a; 0xc6; 0x00; 0x00; 0x8a; 0x47; 0x45; 0x23; 0x80; 0x00;
   0x25; 0x81; 0x92; 0xc0; 0xc0; 0x00; 0x62; 0x12; 0xb1; 0x09; 0x40; 0x00;
   0x58; 0x58; 0x2c; 0x2c; 0x00; 0x00; 0x0e; 0x28; 0x87; 0x14; 0x40; 0x00;
   0x83; 0x34; 0x41; 0x9a; 0x00; 0x00; 0x0a; 0x1c; 0x05; 0x0e; 0x00; 0x00;
   0x15; 0x8c; 0x0a; 0xc6; 0x00; 0x00; 0x8a; 0x47; 0x45; 0x23; 0x80; 0x00;
   0x25; 0x81; 0x92; 0xc0; 0xc0; 0x00; 0x62; 0x12; 0xb1; 0x09; 0x40; 0x00;
   0x58; 0x58; 0x2c; 0x2c; 0x00; 0x00; 0x0e; 0x28; 0x87; 0x14; 0x40; 0x00;
   0x83; 0x34; 0x41; 0x9a; 0x00; 0x00; 0x25; 0x2c; 0x12; 0x96; 0x00; 0x00;
   0x8a; 0x91; 0x45; 0x48; 0x80; 0x00; 0x91; 0xc0; 0xc8; 0xe0; 0x40; 0x00;
   0x68; 0x06; 0xb4; 0x03; 0x40; 0x00; 0x32; 0xc8; 0x19; 0x64; 0x00; 0x00;
   0x43; 0x45; 0x21; 0xa2; 0x80; 0x00; 0xc4; 0x30; 0xe2; 0x18; 0x40; 0x00;
   0x1c; 0xa2; 0x0e; 0x51; 0x00; 0x00; 0xa6; 0x27; 0xa9; 0x4a; 0x40; 0x00].

Definition kMaskRandom34_33 : list Z :=
  [0x25; 0x2c; 0x12; 0x96; 0x00; 0x00; 0x8a; 0x91; 0x45; 0x48; 0x80; 0x00;
   0x91; 0xc0; 0xc8; 0xe0; 0x40; 0x00; 0x68; 0x06; 0xb4; 0x03; 0x40; 0x00;
   0x32; 0xc8; 0x19; 0x64; 0x00; 0x00; 0x43; 0x45; 0x21; 0xa2; 0x80; 0x00;
   0xc4; 0x30; 0xe2; 0x18; 0x40; 0x00; 0x1c; 0xa2; 0x0e; 0x51; 0x00; 0x00;
   0x15; 0x8c; 0x0a; 0xc6; 0x00; 0x00; 0x8a; 0x47; 0x45; 0x23; 0x80; 0x00;
   0x25; 0x81; 0x92; 0xc0; 0xc0; 0x00; 0x62; 0x12; 0xb1; 0x09; 0x40; 0x00;
   0x58; 0x58; 0x2c; 0x2c; 0x00; 0x00; 0x0e; 0x28; 0x87; 0x14; 0x40; 0x00;
   0x83; 0x34; 0x41; 0x9a; 0x00; 0x00; 0x0a; 0x1c; 0x05; 0x0e; 0x00; 0x00;
   0x25; 0x2c; 0x12; 0x96; 0x00; 0x00; 0x8a; 0x91; 0x45; 0x48; 0x80; 0x00;
   0x91; 0xc0; 0xc8; 0xe0; 0x40; 0x00; 0x68; 0x06; 0xb4; 0x03; 0x40; 0x00;
   0x32; 0xc8; 0x19; 0x64; 0x00; 0x00; 0x43; 0x45; 0x21; 0xa2; 0x80; 0x00;
   0xc4; 0x30; 0xe2; 0x18; 0x40; 0x00; 0x1c; 0xa2; 0x0e; 0x51; 0x00; 0x00;
   0x25; 0x4c; 0x12; 0xa6; 0x00; 0x00; 0x8a; 0x66; 0x45; 0x33; 0x00; 0x00;
   0x91; 0x91; 0x48; 0xc8; 0x80; 0x00; 0x68; 0x42; 0xb4; 0x21; 0x40; 0x00;
   0x32; 0xa4; 0x19; 0x52; 0x00; 0x00; 0x43; 0x13; 0x21; 0x89; 0x80; 0x00;
   0xc4; 0x30; 0xe2; 0x18; 0x40; 0x00; 0x1c; 0x88; 0x8e; 0x44; 0x40; 0x00;
   0x3c; 0x09; 0x1e; 0x04; 0x80; 0x00].

Definition kMaskRandom34_34 : list Z :=
  [0x25; 0x2c; 0x12; 0x96; 0x00; 0x00; 0x8a; 0x91; 0x45; 0x48; 0x80; 0x00;
   0x91; 0xc0; 0xc8; 0xe0; 0x40; 0x00; 0x68; 0x06; 0xb4; 0x03; 0x40; 0x00;
   0x32; 0xc8; 0x19; 0x64; 0x00; 0x00; 0x43; 0x45; 0x21; 0xa2; 0x80; 0x00;
   0xc4; 0x30; 0xe2; 0x18; 0x40; 0x00; 0x1c; 0xa2; 0x0e; 0x51; 0x00; 0x00;
   0x25; 0x4c; 0x12; 0xa6; 0x00; 0x00; 0x8a; 0x66; 0x45; 0x33; 0x00; 0x00;
   0x91; 0x91; 0x48; 0xc8; 0x80; 0x00; 0x68; 0x42; 0xb4; 0x21; 0x40; 0x00;
   0x32; 0xa4; 0x19; 0x52; 0x00; 0x00; 0x43; 0x13; 0x21; 0x89; 0x80; 0x00;
   0xc4; 0x30; 0xe2; 0x18; 0x40; 0x00; 0x1c; 0x88; 0x8e; 0x44; 0x40; 0x00;
   0x3c; 0x09; 0x1e; 0x04; 0x80; 0x00; 0x25; 0x2c; 0x12; 0x96; 0x00; 0x00;
   0x8a; 0x91; 0x45; 0x48; 0x80; 0x00; 0x91; 0xc0; 0xc8; 0xe0; 0x40; 0x00;
   0x68; 0x06; 0xb4; 0x03; 0x40; 0x00; 0x32; 0xc8; 0x19; 0x64; 0x00; 0x00;
   0x43; 0x45; 0x21; 0xa2; 0x80; 0x00; 0xc4; 0x30; 0xe2; 0x18; 0x40; 0x00;
   0x1c; 0xa2; 0x0e; 0x51; 0x00; 0x00; 0x15; 0x8c; 0x0a; 0xc6; 0x00; 0x00;
   0x8a; 0x47; 0x45; 0x23; 0x80; 0x00; 0x25; 0x81; 0x92; 0xc0; 0xc0; 0x00;
   0x62; 0x12; 0xb1; 0x09; 0x40; 0x00; 0x58; 0x58; 0x2c; 0x2c; 0x00; 0x00;
   0x0e; 0x28; 0x87; 0x14; 0x40; 0x00; 0x83; 0x34; 0x41; 0x9a; 0x00; 0x00;
   0x0a; 0x1c; 0x05; 0x0e; 0x00; 0x00; 0x30; 0x3c; 0xb3; 0xe6; 0x80; 0x00].

Definition kMaskRandom35_1 : list Z :=
  [0xff; 0xff; 0xff; 0xff; 0xe0; 0x00].

Definition kMaskRandom35_2 : list Z :=
  [0xce; 0xce; 0x67; 0x33; 0x80; 0x00; 0xb9; 0x39; 0x9c; 0xce; 0x60; 0x00].

Definition kMaskRandom35_3 : list Z :=
  [0xcd; 0xcc; 0x66; 0x33; 0x00; 0x00; 0x97; 0x27; 0x13; 0x8a; 0xc0; 0x00;
   0xb8; 0xd1; 0xc9; 0x64; 0xa0; 0x00].

Definition kMaskRandom35_4 : list Z :=
  [0xca; 0xec; 0x76; 0x3b; 0x00; 0x00; 0xa9; 0x67; 0x33; 0x99; 0xc0; 0x00;
   0x3a; 0xb1; 0xd8; 0xec; 0x60; 0x00; 0x55; 0x5a; 0xad; 0x56; 0xa0; 0x00].

Definition kMaskRandom35_5 : list Z :=
  [0x55; 0x44; 0xa6; 0x53; 0x20; 0x00; 0x2a; 0x66; 0x33; 0x19; 0x80; 0x00;
   0x25; 0xa1; 0x8c; 0xe8; 0x60; 0x00; 0xe2; 0x12; 0xce; 0x44; 0xa0; 0x00;
   0x99; 0x98; 0x71; 0xa6; 0x00; 0x00].

Definition kMaskRandom35_6 : list Z :=
  [0xd1; 0x4c; 0x66; 0x13; 0x00; 0x00; 0xa2; 0xc5; 0x22; 0xb1; 0x40; 0x00;
   0x95; 0x30; 0xd8; 0x4c; 0x20; 0x00; 0xca; 0x0a; 0xc5; 0x42; 0xa0; 0x00;
   0xa4; 0xaa; 0x14; 0xa9; 0x80; 0x00; 0x78; 0x15; 0x53; 0x05; 0x40; 0x00].

Definition kMaskRandom35_7 : list Z :=
  [0x15; 0x44; 0xa2; 0x51; 0x20; 0x00; 0x8a; 0x23; 0x11; 0x88; 0xc0; 0x00;
   0x85; 0x91; 0x48; 0xa4; 0x40; 0x00; 0x32; 0x0a; 0x85; 0x42; 0xa0; 0x00;
   0x58; 0x34; 0x1a; 0x0d; 0x00; 0x00; 0x2c; 0x0d; 0x05; 0x83; 0x40; 0x00;
   0x43; 0xc8; 0x70; 0x32; 0x00; 0x00].

Definition kMaskRandom35_8 : list Z :=
  [0x64; 0x16; 0x0b; 0x05; 0x80; 0x00; 0xa2; 0xc2; 0x61; 0x30; 0x80; 0x00;
   0x51; 0x60; 0xb0; 0x58; 0x20; 0x00; 0x4a; 0x85; 0x42; 0xa1; 0x40; 0x00;
   0x38; 0x4c; 0x26; 0x13; 0x00; 0x00; 0x89; 0x29; 0x14; 0x8a; 0x40; 0x00;
   0x07; 0x11; 0x88; 0xc4; 0x60; 0x00; 0x94; 0xb0; 0x58; 0x2c; 0x00; 0x00].

Definition kMaskRandom35_9 : list Z :=
  [0x8e; 0xcc; 0x22; 0x51; 0x20; 0x00; 0x6a; 0x2b; 0x33; 0x13; 0x00; 0x00;
   0x36; 0x32; 0xc8; 0x24; 0xa0; 0x00; 0xd1; 0x25; 0x80; 0xd2; 0xc0; 0x00;
   0x55; 0x8c; 0x87; 0x09; 0x40; 0x00; 0xaa; 0x27; 0x09; 0x85; 0x80; 0x00;
   0xa5; 0x32; 0x90; 0x68; 0x20; 0x00; 0x62; 0x61; 0xe1; 0x28; 0x80; 0x00;
   0x3c; 0x5c; 0x14; 0x86; 0x40; 0x00].

Definition kMaskRandom35_10 : list Z :=
  [0x55; 0x8c; 0xc6; 0x63; 0x20; 0x00; 0xaa; 0x27; 0x13; 0x89; 0xc0; 0x00;
   0xa5; 0x32; 0x99; 0x4c; 0xa0; 0x00; 0x62; 0x61; 0xb0; 0xd8; 0x60; 0x00;
   0x3c; 0x5c; 0x2e; 0x17; 0x00; 0x00; 0x8e; 0xcc; 0x66; 0x33; 0x00; 0x00;
   0x6a; 0x2b; 0x15; 0x8a; 0xc0; 0x00; 0x36; 0x32; 0x99; 0x4c; 0xa0; 0x00;
   0xd1; 0x25; 0x92; 0xc9; 0x60; 0x00; 0xc8; 0x02; 0xfe; 0xce; 0xe0; 0x00].

Definition kMaskRandom35_11 : list Z :=
  [0x55; 0x8c; 0xc6; 0x63; 0x20; 0x00; 0xaa; 0x27; 0x13; 0x89; 0xc0; 0x00;
   0xa5; 0x32; 0x99; 0x4c; 0xa0; 0x00; 0x62; 0x61; 0xb0; 0xd8; 0x60; 0x00;
   0x3c; 0x5c; 0x2e; 0x17; 0x00; 0x00; 0x51; 0x84; 0xc2; 0x61; 0x20; 0x00;
   0xa2; 0x27; 0x13; 0x89; 0xc0; 0x00; 0x95; 0x51; 0xa8; 0xd4; 0x60; 0x00;
   0x4a; 0x1a; 0x0d; 0x06; 0x80; 0x00; 0x30; 0x68; 0x34; 0x1a; 0x00; 0x00;
   0x2c; 0x89; 0x44; 0xa2; 0x40; 0x00].

Definition kMaskRandom35_12 : list Z :=
  [0x51; 0x84; 0xc2; 0x61; 0x20; 0x00; 0xa2; 0x27; 0x13; 0x89; 0xc0; 0x00;
   0x95; 0x51; 0xa8; 0xd4; 0x60; 0x00; 0x4a; 0x1a; 0x0d; 0x06; 0x80; 0x00;
   0x30; 0x68; 0x34; 0x1a; 0x00; 0x00; 0x2c; 0x89; 0x44; 0xa2; 0x40; 0x00;
   0x55; 0x8c; 0xc6; 0x63; 0x20; 0x00; 0xaa; 0x27; 0x13; 0x89; 0xc0; 0x00;
   0xa5; 0x32; 0x99; 0x4c; 0xa0; 0x00; 0x62; 0x61; 0xb0; 0xd8; 0x60; 0x00;
   0x3c; 0x5c; 0x2e; 0x17; 0x00; 0x00; 0x51; 0x35; 0x2d; 0x86; 0x20; 0x00].

Definition kMaskRandom35_13 : list Z :=
  [0x51; 0x84; 0xc2; 0x61; 0x20; 0x00; 0xa2; 0x27; 0x13; 0x89; 0xc0; 0x00;
   0x95; 0x51; 0xa8; 0xd4; 0x60; 0x00; 0x4a; 0x1a; 0x0d; 0x06; 0x80; 0x00;
   0x30; 0x68; 0x34; 0x1a; 0x00; 0x00; 0x2c; 0x89; 0x44; 0xa2; 0x40; 0x00;
   0x15; 0x8c; 0x46; 0x23; 0x00; 0x00; 0x8a; 0x47; 0x23; 0x91; 0xc0; 0x00;
   0x25; 0x81; 0xc0; 0xe0; 0x60; 0x00; 0x62; 0x12; 0x89; 0x44; 0xa0; 0x00;
   0x58; 0x58; 0x2c; 0x16; 0x00; 0x00; 0x0e; 0x28; 0x94; 0x4a; 0x20; 0x00;
   0x83; 0x34; 0x1a; 0x0d; 0x00; 0x00].

Definition kMaskRandom35_14 : list Z :=
  [0x15; 0x8c; 0x46; 0x23; 0x00; 0x00; 0x8a; 0x47; 0x23; 0x91; 0xc0; 0x00;
   0x25; 0x81; 0xc0; 0xe0; 0x60; 0x00; 0x62; 0x12; 0x89; 0x44; 0xa0; 0x00;
   0x58; 0x58; 0x2c; 0x16; 0x00; 0x00; 0x0e; 0x28; 0x94; 0x4a; 0x20; 0x00;
   0x83; 0x34; 0x1a; 0x0d; 0x00; 0x00; 0x51; 0x84; 0xc2; 0x61; 0x20; 0x00;
   0xa2; 0x27; 0x13; 0x89; 0xc0; 0x00; 0x95; 0x51; 0xa8; 0xd4; 0x60; 0x00;
   0x4a; 0x1a; 0x0d; 0x06; 0x80; 0x00; 0x30; 0x68; 0x34; 0x1a; 0x00; 0x00;
   0x2c; 0x89; 0x44; 0xa2; 0x40; 0x00; 0xb0; 0xde; 0xbf; 0xa7; 0xe0; 0x00].

Definition kMaskRandom35_15 : list Z :=
  [0x15; 0x8c; 0x46; 0x23; 0x00; 0x00; 0x8a; 0x47; 0x23; 0x91; 0xc0; 0x00;
   0x25; 0x81; 0xc0; 0xe0; 0x60; 0x00; 0x62; 0x12; 0x89; 0x44; 0xa0; 0x00;
   0x58; 0x58; 0x2c; 0x16; 0x00; 0x00; 0x0e; 0x28; 0x94; 0x4a; 0x20; 0x00;
   0x83; 0x34; 0x1a; 0x0d; 0x00; 0x00; 0x25; 0x2c; 0x16; 0x0b; 0x00; 0x00;
   0x8a; 0x91; 0x48; 0xa4; 0x40; 0x00; 0x91; 0xc0; 0xe0; 0x70; 0x20; 0x00;
   0x68; 0x06; 0x83; 0x41; 0xa0; 0x00; 0x32; 0xc8; 0x64; 0x32; 0x00; 0x00;
   0x43; 0x45; 0x22; 0x91; 0x40; 0x00; 0xc4; 0x30; 0x98; 0x4c; 0x20; 0x00;
   0x1c; 0xa2; 0x51; 0x28; 0x80; 0x00].

Definition kMaskRandom35_16 : list Z :=
  [0x25; 0x2c; 0x16; 0x0b; 0x00; 0x00; 0x8a; 0x91; 0x48; 0xa4; 0x40; 0x00;
   0x91; 0xc0; 0xe0; 0x70; 0x20; 0x00; 0x68; 0x06; 0x83; 0x41; 0xa0; 0x00;
   0x32; 0xc8; 0x64; 0x32; 0x00; 0x00; 0x43; 0x45; 0x22; 0x91; 0x40; 0x00;
   0xc4; 0x30; 0x98; 0x4c; 0x20; 0x00; 0x1c; 0xa2; 0x51; 0x28; 0x80; 0x00;
   0x15; 0x8c; 0x46; 0x23; 0x00; 0x00; 0x8a; 0x47; 0x23; 0x91; 0xc0; 0x00;
   0x25; 0x81; 0xc0; 0xe0; 0x60; 0x00; 0x62; 0x12; 0x89; 0x44; 0xa0; 0x00;
   0x58; 0x58; 0x2c; 0x16; 0x00; 0x00; 0x0e; 0x28; 0x94; 0x4a; 0x20; 0x00;
   0x83; 0x34; 0x1a; 0x0d; 0x00; 0x00; 0x0a; 0x1c; 0x77; 0xf9; 0x00; 0x00].

Definition kMaskRandom35_17 : list Z :=
  [0x25; 0x2c; 0x16; 0x0b; 0x00; 0x00; 0x8a; 0x91; 0x48; 0xa4; 0x40; 0x00;
   0x91; 0xc0; 0xe0; 0x70; 0x20; 0x00; 0x68; 0x06; 0x83; 0x41; 0xa0; 0x00;
   0x32; 0xc8; 0x64; 0x32; 0x00; 0x00; 0x43; 0x45; 0x22; 0x91; 0x40; 0x00;
   0xc4; 0x30; 0x98; 0x4c; 0x20; 0x00; 0x1c; 0xa2; 0x51; 0x28; 0x80; 0x00;
   0x25; 0x4c; 0x26; 0x13; 0x00; 0x00; 0x8a; 0x66; 0x33; 0x19; 0x80; 0x00;
   0x91; 0x91; 0x48; 0xa4; 0x40; 0x00; 0x68; 0x42; 0xa1; 0x50; 0xa0; 0x00;
   0x32; 0xa4; 0x52; 0x29; 0x00; 0x00; 0x43; 0x13; 0x09; 0x84; 0xc0; 0x00;
   0xc4; 0x30; 0x98; 0x4c; 0x20; 0x00; 0x1c; 0x88; 0xc4; 0x62; 0x20; 0x00;
   0x3c; 0x09; 0x04; 0x82; 0x40; 0x00].

Definition kMaskRandom35_18 : list Z :=
  [0x8e; 0xcc; 0x22; 0x51; 0x20; 0x00; 0x6a; 0x2b; 0x33; 0x13; 0x00; 0x00;
   0x36; 0x32; 0xc8; 0x24; 0xa0; 0x00; 0xd1; 0x25; 0x80; 0xd2; 0xc0; 0x00;
   0x55; 0x8c; 0x87; 0x09; 0x40; 0x00; 0xaa; 0x27; 0x09; 0x85; 0x80; 0x00;
   0xa5; 0x32; 0x90; 0x68; 0x20; 0x00; 0x62; 0x61; 0xe1; 0x28; 0x80; 0x00;
   0x3c; 0x5c; 0x14; 0x86; 0x40; 0x00; 0x64; 0x16; 0x0b; 0x05; 0x80; 0x00;
   0xa2; 0xc2; 0x61; 0x30; 0x80; 0x00; 0x51; 0x60; 0xb0; 0x58; 0x20; 0x00;
   0x4a; 0x85; 0x42; 0xa1; 0x40; 0x00; 0x38; 0x4c; 0x26; 0x13; 0x00; 0x00;
   0x89; 0x29; 0x14; 0x8a; 0x40; 0x00; 0x07; 0x11; 0x88; 0xc4; 0x60; 0x00;
   0x94; 0xb0; 0x58; 0x2c; 0x00; 0x00; 0x40; 0xc9; 0x65; 0xbe; 0xc0; 0x00].

Definition kMaskRandom35_19 : list Z :=
  [0x8e; 0xcc; 0x22; 0x51; 0x20; 0x00; 0x6a; 0x2b; 0x33; 0x13; 0x00; 0x00;
   0x36; 0x32; 0xc8; 0x24; 0xa0; 0x00; 0xd1; 0x25; 0x80; 0xd2; 0xc0; 0x00;
   0x55; 0x8c; 0x87; 0x09; 0x40; 0x00; 0xaa; 0x27; 0x09; 0x85; 0x80; 0x00;
   0xa5; 0x32; 0x90; 0x68; 0x20; 0x00; 0x62; 0x61; 0xe1; 0x28; 0x80; 0x00;
   0x3c; 0x5c; 0x14; 0x86; 0x40; 0x00; 0x55; 0x8c; 0xc6; 0x63; 0x20; 0x00;
   0xaa; 0x27; 0x13; 0x89; 0xc0; 0x00; 0xa5; 0x32; 0x99; 0x4c; 0xa0; 0x00;
   0x62; 0x61; 0xb0; 0xd8; 0x60; 0x00; 0x3c; 0x5c; 0x2e; 0x17; 0x00; 0x00;
   0x8e; 0xcc; 0x66; 0x33; 0x00; 0x00; 0x6a; 0x2b; 0x15; 0x8a; 0xc0; 0x00;
   0x36; 0x32; 0x99; 0x4c; 0xa0; 0x00; 0xd1; 0x25; 0x92; 0xc9; 0x60; 0x00;
   0xc8; 0x02; 0xfe; 0xce; 0xe0; 0x00].

Definition kMaskRandom35_20 : list Z :=
  [0x55; 0x8c; 0xc6; 0x63; 0x20; 0x00; 0xaa; 0x27; 0x13; 0x89; 0xc0; 0x00;
   0xa5; 0x32; 0x99; 0x4c; 0xa0; 0x00; 0x62; 0x61; 0xb0; 0xd8; 0x60; 0x00;
   0x3c; 0x5c; 0x2e; 0x17; 0x00; 0x00; 0x8e; 0xcc; 0x66; 0x33; 0x00; 0x00;
   0x6a; 0x2b; 0x15; 0x8a; 0xc0; 0x00; 0x36; 0x32; 0x99; 0x4c; 0xa0; 0x00;
   0xd1; 0x25; 0x92; 0xc9; 0x60; 0x00; 0xc8; 0x02; 0xfe; 0xce; 0xe0; 0x00;
   0x8e; 0xcc; 0x22; 0x51; 0x20; 0x00; 0x6a; 0x2b; 0x33; 0x13; 0x00; 0x00;
   0x36; 0x32; 0xc8; 0x24; 0xa0; 0x00; 0xd1; 0x25; 0x80; 0xd2; 0xc0; 0x00;
   0x55; 0x8c; 0x87; 0x09; 0x40; 0x00; 0xaa; 0x27; 0x09; 0x85; 0x80; 0x00;
   0xa5; 0x32; 0x90; 0x68; 0x20; 0x00; 0x62; 0x61; 0xe1; 0x28; 0x80; 0x00;
   0x3c; 0x5c; 0x14; 0x86; 0x40; 0x00; 0x63; 0x36; 0x5c; 0xd3; 0x80; 0x00].

Definition kMaskRandom35_21 : list Z :=
  [0x55; 0x8c; 0xc6; 0x63; 0x20; 0x00; 0xaa; 0x27; 0x13; 0x89; 0xc0; 0x00;
   0xa5; 0x32; 0x99; 0x4c; 0xa0; 0x00; 0x62; 0x61; 0xb0; 0xd8; 0x60; 0x00;
   0x3c; 0x5c; 0x2e; 0x17; 0x00; 0x00; 0x8e; 0xcc; 0x66; 0x33; 0x00; 0x00;
   0x6a; 0x2b; 0x15; 0x8a; 0xc0; 0x00; 0x36; 0x32; 0x99; 0x4c; 0xa0; 0x00;
   0xd1; 0x25; 0x92; 0xc9; 0x60; 0x00; 0xc8; 0x02; 0xfe; 0xce; 0xe0; 0x00;
   0x55; 0x8c; 0xc6; 0x63; 0x20; 0x00; 0xaa; 0x27; 0x13; 0x89; 0xc0; 0x00;
   0xa5; 0x32; 0x99; 0x4c; 0xa0; 0x00; 0x62; 0x61; 0xb0; 0xd8; 0x60; 0x00;
   0x3c; 0x5c; 0x2e; 0x17; 0x00; 0x00; 0x51; 0x84; 0xc2; 0x61; 0x20; 0x00;
   0xa2; 0x27; 0x13; 0x89; 0xc0; 0x00; 0x95; 0x51; 0xa8; 0xd4; 0x60; 0x00;
   0x4a; 0x1a; 0x0d; 0x06; 0x80; 0x00; 0x30; 0x68; 0x34; 0x1a; 0x00; 0x00;
   0x2c; 0x89; 0x44; 0xa2; 0x40; 0x00].

Definition kMaskRandom35_22 : list Z :=
  [0x55; 0x8c; 0xc6; 0x63; 0x20; 0x00; 0xaa; 0x27; 0x13; 0x89; 0xc0; 0x00;
   0xa5; 0x32; 0x99; 0x4c; 0xa0; 0x00; 0x62; 0x61; 0xb0; 0xd8; 0x60; 0x00;
   0x3c; 0x5c; 0x2e; 0x17; 0x00; 0x00; 0x51; 0x84; 0xc2; 0x61; 0x20; 0x00;
   0xa2; 0x27; 0x13; 0x89; 0xc0; 0x00; 0x95; 0x51; 0xa8; 0xd4; 0x60; 0x00;
   0x4a; 0x1a; 0x0d; 0x06; 0x80; 0x00; 0x30; 0x68; 0x34; 0x1a; 0x00; 0x00;
   0x2c; 0x89; 0x44; 0xa2; 0x40; 0x00; 0x55; 0x8c; 0xc6; 0x63; 0x20; 0x00;
   0xaa; 0x27; 0x13; 0x89; 0xc0; 0x00; 0xa5; 0x32; 0x99; 0x4c; 0xa0; 0x00;
   0x62; 0x61; 0xb0; 0xd8; 0x60; 0x00; 0x3c; 0x5c; 0x2e; 0x17; 0x00; 0x00;
   0x8e; 0xcc; 0x66; 0x33; 0x00; 0x00; 0x6a; 0x2b; 0x15; 0x8a; 0xc0; 0x00;
   0x36; 0x32; 0x99; 0x4c; 0xa0; 0x00; 0xd1; 0x25; 0x92; 0xc9; 0x60; 0x00;
   0xc8; 0x02; 0xfe; 0xce; 0xe0; 0x00; 0x84; 0xc7; 0xbc; 0xcc; 0x00; 0x00].

Definition kMaskRandom35_23 : list Z :=
  [0x55; 0x8c; 0xc6; 0x63; 0x20; 0x00; 0xaa; 0x27; 0x13; 0x89; 0xc0; 0x00;
   0xa5; 0x32; 0x99; 0x4c; 0xa0; 0x00; 0x62; 0x61; 0xb0; 0xd8; 0x60; 0x00;
   0x3c; 0x5c; 0x2e; 0x17; 0x00; 0x00; 0x51; 0x84; 0xc2; 0x61; 0x20; 0x00;
   0xa2; 0x27; 0x13; 0x89; 0xc0; 0x00; 0x95; 0x51; 0xa8; 0xd4; 0x60; 0x00;
   0x4a; 0x1a; 0x0d; 0x06; 0x80; 0x00; 0x30; 0x68; 0x34; 0x1a; 0x00; 0x00;
   0x2c; 0x89; 0x44; 0xa2; 0x40; 0x00; 0x51; 0x84; 0xc2; 0x61; 0x20; 0x00;
   0xa2; 0x27; 0x13; 0x89; 0xc0; 0x00; 0x95; 0x51; 0xa8; 0xd4; 0x60; 0x00;
   0x4a; 0x1a; 0x0d; 0x06; 0x80; 0x00; 0x30; 0x68; 0x34; 0x1a; 0x00; 0x00;
   0x2c; 0x89; 0x44; 0xa2; 0x40; 0x00; 0x55; 0x8c; 0xc6; 0x63; 0x20; 0x00;
   0xaa; 0x27; 0x13; 0x89; 0xc0; 0x00; 0xa5; 0x32; 0x99; 0x4c; 0xa0; 0x00;
   0x62; 0x61; 0xb0; 0xd8; 0x60; 0x00; 0x3c; 0x5c; 0x2e; 0x17; 0x00; 0x00;
   0x51; 0x35; 0x2d; 0x86; 0x20; 0x00].

Definition kMaskRandom35_24 : list Z :=
  [0x51; 0x84; 0xc2; 0x61; 0x20; 0x00; 0xa2; 0x27; 0x13; 0x89; 0xc0; 0x00;
   0x95; 0x51; 0xa8; 0xd4; 0x60; 0x00; 0x4a; 0x1a; 0x0d; 0x06; 0x80; 0x00;
   0x30; 0x68; 0x34; 0x1a; 0x00; 0x00; 0x2c; 0x89; 0x44; 0xa2; 0x40; 0x00;
   0x55; 0x8c; 0xc6; 0x63; 0x20; 0x00; 0xaa; 0x27; 0x13; 0x89; 0xc0; 0x00;
   0xa5; 0x32; 0x99; 0x4c; 0xa0; 0x00; 0x62; 0x61; 0xb0; 0xd8; 0x60; 0x00;
   0x3c; 0x5c; 0x2e; 0x17; 0x00; 0x00; 0x51; 0x35; 0x2d; 0x86; 0x20; 0x00;
   0x55; 0x8c; 0xc6; 0x63; 0x20; 0x00; 0xaa; 0x27; 0x13; 0x89; 0xc0; 0x00;
   0xa5; 0x32; 0x99; 0x4c; 0xa0; 0x00; 0x62; 0x61; 0xb0; 0xd8; 0x60; 0x00;
   0x3c; 0x5c; 0x2e; 0x17; 0x00; 0x00; 0x51; 0x84; 0xc2; 0x61; 0x20; 0x00;
   0xa2; 0x27; 0x13; 0x89; 0xc0; 0x00; 0x95; 0x51; 0xa8; 0xd4; 0x60; 0x00;
   0x4a; 0x1a; 0x0d; 0x06; 0x80; 0x00; 0x30; 0x68; 0x34; 0x1a; 0x00; 0x00;
   0x2c; 0x89; 0x44; 0xa2; 0x40; 0x00; 0x0d; 0xfb; 0x06; 0x89; 0x00; 0x00].

Definition kMaskRandom35_25 : list Z :=
  [0x51; 0x84; 0xc2; 0x61; 0x20; 0x00; 0xa2; 0x27; 0x13; 0x89; 0xc0; 0x00;
   0x95; 0x51; 0xa8; 0xd4; 0x60; 0x00; 0x4a; 0x1a; 0x0d; 0x06; 0x80; 0x00;
   0x30; 0x68; 0x34; 0x1a; 0x00; 0x00; 0x2c; 0x89; 0x44; 0xa2; 0x40; 0x00;
   0x55; 0x8c; 0xc6; 0x63; 0x20; 0x00; 0xaa; 0x27; 0x13; 0x89; 0xc0; 0x00;
   0xa5; 0x32; 0x99; 0x4c; 0xa0; 0x00; 0x62; 0x61; 0xb0; 0xd8; 0x60; 0x00;
   0x3c; 0x5c; 0x2e; 0x17; 0x00; 0x00; 0x51; 0x35; 0x2d; 0x86; 0x20; 0x00;
   0x51; 0x84; 0xc2; 0x61; 0x20; 0x00; 0xa2; 0x27; 0x13; 0x89; 0xc0; 0x00;
   0x95; 0x51; 0xa8; 0xd4; 0x60; 0x00; 0x4a; 0x1a; 0x0d; 0x06; 0x80; 0x00;
   0x30; 0x68; 0x34; 0x1a; 0x00; 0x00; 0x2c; 0x89; 0x44; 0xa2; 0x40; 0x00;
   0x15; 0x8c; 0x46; 0x23; 0x00; 0x00; 0x8a; 0x47; 0x23; 0x91; 0xc0; 0x00;
   0x25; 0x81; 0xc0; 0xe0; 0x60; 0x00; 0x62; 0x12; 0x89; 0x44; 0xa0; 0x00;
   0x58; 0x58; 0x2c; 0x16; 0x00; 0x00; 0x0e; 0x28; 0x94; 0x4a; 0x20; 0x00;
   0x83; 0x34; 0x1a; 0x0d; 0x00; 0x00].

Definition kMaskRandom35_26 : list Z :=
  [0x51; 0x84; 0xc2; 0x61; 0x20; 0x00; 0xa2; 0x27; 0x13; 0x89; 0xc0; 0x00;
   0x95; 0x51; 0xa8; 0xd4; 0x60; 0x00; 0x4a; 0x1a; 0x0d; 0x06; 0x80; 0x00;
   0x30; 0x68; 0x34; 0x1a; 0x00; 0x00; 0x2c; 0x89; 0x44; 0xa2; 0x40; 0x00;
   0x15; 0x8c; 0x46; 0x23; 0x00; 0x00; 0x8a; 0x47; 0x23; 0x91; 0xc0; 0x00;
   0x25; 0x81; 0xc0; 0xe0; 0x60; 0x00; 0x62; 0x12; 0x89; 0x44; 0xa0; 0x00;
   0x58; 0x58; 0x2c; 0x16; 0x00; 0x00; 0x0e; 0x28; 0x94; 0x4a; 0x20; 0x00;
   0x83; 0x34; 0x1a; 0x0d; 0x00; 0x00; 0x51; 0x84; 0xc2; 0x61; 0x20; 0x00;
   0xa2; 0x27; 0x13; 0x89; 0xc0; 0x00; 0x95; 0x51; 0xa8; 0xd4; 0x60; 0x00;
   0x4a; 0x1a; 0x0d; 0x06; 0x80; 0x00; 0x30; 0x68; 0x34; 0x1a; 0x00; 0x00;
   0x2c; 0x89; 0x44; 0xa2; 0x40; 0x00; 0x55; 0x8c; 0xc6; 0x63; 0x20; 0x00;
   0xaa; 0x27; 0x13; 0x89; 0xc0; 0x00; 0xa5; 0x32; 0x99; 0x4c; 0xa0; 0x00;
   0x62; 0x61; 0xb0; 0xd8; 0x60; 0x00; 0x3c; 0x5c; 0x2e; 0x17; 0x00; 0x00;
   0x51; 0x35; 0x2d; 0x86; 0x20; 0x00; 0xc4; 0x57; 0x70; 0x47; 0x40; 0x00].

Definition kMaskRandom35_27 : list Z :=
  [0x51; 0x84; 0xc2; 0x61; 0x20; 0x00; 0xa2; 0x27; 0x13; 0x89; 0xc0; 0x00;
   0x95; 0x51; 0xa8; 0xd4; 0x60; 0x00; 0x4a; 0x1a; 0x0d; 0x06; 0x80; 0x00;
   0x30; 0x68; 0x34; 0x1a; 0x00; 0x00; 0x2c; 0x89; 0x44; 0xa2; 0x40; 0x00;
   0x15; 0x8c; 0x46; 0x23; 0x00; 0x00; 0x8a; 0x47; 0x23; 0x91; 0xc0; 0x00;
   0x25; 0x81; 0xc0; 0xe0; 0x60; 0x00; 0x62; 0x12; 0x89; 0x44; 0xa0; 0x00;
   0x58; 0x58; 0x2c; 0x16; 0x00; 0x00; 0x0e; 0x28; 0x94; 0x4a; 0x20; 0x00;
   0x83; 0x34; 0x1a; 0x0d; 0x00; 0x00; 0x15; 0x8c; 0x46; 0x23; 0x00; 0x00;
   0x8a; 0x47; 0x23; 0x91; 0xc0; 0x00; 0x25; 0x81; 0xc0; 0xe0; 0x60; 0x00;
   0x62; 0x12; 0x89; 0x44; 0xa0; 0x00; 0x58; 0x58; 0x2c; 0x16; 0x00; 0x00;
   0x0e; 0x28; 0x94; 0x4a; 0x20; 0x00; 0x83; 0x34; 0x1a; 0x0d; 0x00; 0x00;
   0x51; 0x84; 0xc2; 0x61; 0x20; 0x00; 0xa2; 0x27; 0x13; 0x89; 0xc0; 0x00;
   0x95; 0x51; 0xa8; 0xd4; 0x60; 0x00; 0x4a; 0x1a; 0x0d; 0x06; 0x80; 0x00;
   0x30; 0x68; 0x34; 0x1a; 0x00; 0x00; 0x2c; 0x89; 0x44; 0xa2; 0x40; 0x00;
   0xb0; 0xde; 0xbf; 0xa7; 0xe0; 0x00].

Definition kMaskRandom35_28 : list Z :=
  [0x15; 0x8c; 0x46; 0x23; 0x00; 0x00; 0x8a; 0x47; 0x23; 0x91; 0xc0; 0x00;
   0x25; 0x81; 0xc0; 0xe0; 0x60; 0x00; 0x62; 0x12; 0x89; 0x44; 0xa0; 0x00;
   0x58; 0x58; 0x2c; 0x16; 0x00; 0x00; 0x0e; 0x28; 0x94; 0x4a; 0x20; 0x00;
   0x83; 0x34; 0x1a; 0x0d; 0x00; 0x00; 0x51; 0x84; 0xc2; 0x61; 0x20; 0x00;
   0xa2; 0x27; 0x13; 0x89; 0xc0; 0x00; 0x95; 0x51; 0xa8; 0xd4; 0x60; 0x00;
   0x4a; 0x1a; 0x0d; 0x06; 0x80; 0x00; 0x30; 0x68; 0x34; 0x1a; 0x00; 0x00;
   0x2c; 0x89; 0x44; 0xa2; 0x40; 0x00; 0xb0; 0xde; 0xbf; 0xa7; 0xe0; 0x00;
   0x51; 0x84; 0xc2; 0x61; 0x20; 0x00; 0xa2; 0x27; 0x13; 0x89; 0xc0; 0x00;
   0x95; 0x51; 0xa8; 0xd4; 0x60; 0x00; 0x4a; 0x1a; 0x0d; 0x06; 0x80; 0x00;
   0x30; 0x68; 0x34; 0x1a; 0x00; 0x00; 0x2c; 0x89; 0x44; 0xa2; 0x40; 0x00;
   0x15; 0x8c; 0x46; 0x23; 0x00; 0x00; 0x8a; 0x47; 0x23; 0x91; 0xc0; 0x00;
   0x25; 0x81; 0xc0; 0xe0; 0x60; 0x00; 0x62; 0x12; 0x89; 0x44; 0xa0; 0x00;
   0x58; 0x58; 0x2c; 0x16; 0x00; 0x00; 0x0e; 0x28; 0x94; 0x4a; 0x20; 0x00;
   0x83; 0x34; 0x1a; 0x0d; 0x00; 0x00; 0x34; 0x4a; 0x80; 0x94; 0x40; 0x00].

Definition kMaskRandom35_29 : list Z :=
  [0x15; 0x8c; 0x46; 0x23; 0x00; 0x00; 0x8a; 0x47; 0x23; 0x91; 0xc0; 0x00;
   0x25; 0x81; 0xc0; 0xe0; 0x60; 0x00; 0x62; 0x12; 0x89; 0x44; 0xa0; 0x00;
   0x58; 0x58; 0x2c; 0x16; 0x00; 0x00; 0x0e; 0x28; 0x94; 0x4a; 0x20; 0x00;
   0x83; 0x34; 0x1a; 0x0d; 0x00; 0x00; 0x51; 0x84; 0xc2; 0x61; 0x20; 0x00;
   0xa2; 0x27; 0x13; 0x89; 0xc0; 0x00; 0x95; 0x51; 0xa8; 0xd4; 0x60; 0x00;
   0x4a; 0x1a; 0x0d; 0x06; 0x80; 0x00; 0x30; 0x68; 0x34; 0x1a; 0x00; 0x00;
   0x2c; 0x89; 0x44; 0xa2; 0x40; 0x00; 0xb0; 0xde; 0xbf; 0xa7; 0xe0; 0x00;
   0x15; 0x8c; 0x46; 0x23; 0x00; 0x00; 0x8a; 0x47; 0x23; 0x91; 0xc0; 0x00;
   0x25; 0x81; 0xc0; 0xe0; 0x60; 0x00; 0x62; 0x12; 0x89; 0x44; 0xa0; 0x00;
   0x58; 0x58; 0x2c; 0x16; 0x00; 0x00; 0x0e; 0x28; 0x94; 0x4a; 0x20; 0x00;
   0x83; 0x34; 0x1a; 0x0d; 0x00; 0x00; 0x25; 0x2c; 0x16; 0x0b; 0x00; 0x00;
   0x8a; 0x91; 0x48; 0xa4; 0x40; 0x00; 0x91; 0xc0; 0xe0; 0x70; 0x20; 0x00;
   0x68; 0x06; 0x83; 0x41; 0xa0; 0x00; 0x32; 0xc8; 0x64; 0x32; 0x00; 0x00;
   0x43; 0x45; 0x22; 0x91; 0x40; 0x00; 0xc4; 0x30; 0x98; 0x4c; 0x20; 0x00;
   0x1c; 0xa2; 0x51; 0x28; 0x80; 0x00].

Definition kMaskRandom35_30 : list Z :=
  [0x15; 0x8c; 0x46; 0x23; 0x00; 0x00; 0x8a; 0x47; 0x23; 0x91; 0xc0; 0x00;
   0x25; 0x81; 0xc0; 0xe0; 0x60; 0x00; 0x62; 0x12; 0x89; 0x44; 0xa0; 0x00;
   0x58; 0x58; 0x2c; 0x16; 0x00; 0x00; 0x0e; 0x28; 0x94; 0x4a; 0x20; 0x00;
   0x83; 0x34; 0x1a; 0x0d; 0x00; 0x00; 0x25; 0x2c; 0x16; 0x0b; 0x00; 0x00;
   0x8a; 0x91; 0x48; 0xa4; 0x40; 0x00; 0x91; 0xc0; 0xe0; 0x70; 0x20; 0x00;
   0x68; 0x06; 0x83; 0x41; 0xa0; 0x00; 0x32; 0xc8; 0x64; 0x32; 0x00; 0x00;
   0x43; 0x45; 0x22; 0x91; 0x40; 0x00; 0xc4; 0x30; 0x98; 0x4c; 0x20; 0x00;
   0x1c; 0xa2; 0x51; 0x28; 0x80; 0x00; 0x15; 0x8c; 0x46; 0x23; 0x00; 0x00;
   0x8a; 0x47; 0x23; 0x91; 0xc0; 0x00; 0x25; 0x81; 0xc0; 0xe0; 0x60; 0x00;
   0x62; 0x12; 0x89; 0x44; 0xa0; 0x00; 0x58; 0x58; 0x2c; 0x16; 0x00; 0x00;
   0x0e; 0x28; 0x94; 0x4a; 0x20; 0x00; 0x83; 0x34; 0x1a; 0x0d; 0x00; 0x00;
   0x51; 0x84; 0xc2; 0x61; 0x20; 0x00; 0xa2; 0x27; 0x13; 0x89; 0xc0; 0x00;
   0x95; 0x51; 0xa8; 0xd4; 0x60; 0x00; 0x4a; 0x1a; 0x0d; 0x06; 0x80; 0x00;
   0x30; 0x68; 0x34; 0x1a; 0x00; 0x00; 0x2c; 0x89; 0x44; 0xa2; 0x40; 0x00;
   0xb0; 0xde; 0xbf; 0xa7; 0xe0; 0x00; 0x32; 0x1b; 0x9f; 0x09; 0x20; 0x00].

Definition kMaskRandom35_31 : list Z :=
  [0x15; 0x8c; 0x46; 0x23; 0x00; 0x00; 0x8a; 0x47; 0x23; 0x91; 0xc0; 0x00;
   0x25; 0x81; 0xc0; 0xe0; 0x60; 0x00; 0x62; 0x12; 0x89; 0x44; 0xa0; 0x00;
   0x58; 0x58; 0x2c; 0x16; 0x00; 0x00; 0x0e; 0x28; 0x94; 0x4a; 0x20; 0x00;
   0x83; 0x34; 0x1a; 0x0d; 0x00; 0x00; 0x25; 0x2c; 0x16; 0x0b; 0x00; 0x00;
   0x8a; 0x91; 0x48; 0xa4; 0x40; 0x00; 0x91; 0xc0; 0xe0; 0x70; 0x20; 0x00;
   0x68; 0x06; 0x83; 0x41; 0xa0; 0x00; 0x32; 0xc8; 0x64; 0x32; 0x00; 0x00;
   0x43; 0x45; 0x22; 0x91; 0x40; 0x00; 0xc4; 0x30; 0x98; 0x4c; 0x20; 0x00;
   0x1c; 0xa2; 0x51; 0x28; 0x80; 0x00; 0x25; 0x2c; 0x16; 0x0b; 0x00; 0x00;
   0x8a; 0x91; 0x48; 0xa4; 0x40; 0x00; 0x91; 0xc0; 0xe0; 0x70; 0x20; 0x00;
   0x68; 0x06; 0x83; 0x41; 0xa0; 0x00; 0x32; 0xc8; 0x64; 0x32; 0x00; 0x00;
   0x43; 0x45; 0x22; 0x91; 0x40; 0x00; 0xc4; 0x30; 0x98; 0x4c; 0x20; 0x00;
   0x1c; 0xa2; 0x51; 0x28; 0x80; 0x00; 0x15; 0x8c; 0x46; 0x23; 0x00; 0x00;
   0x8a; 0x47; 0x23; 0x91; 0xc0; 0x00; 0x25; 0x81; 0xc0; 0xe0; 0x60; 0x00;
   0x62; 0x12; 0x89; 0x44; 0xa0; 0x00; 0x58; 0x58; 0x2c; 0x16; 0x00; 0x00;
   0x0e; 0x28; 0x94; 0x4a; 0x20; 0x00; 0x83; 0x34; 0x1a; 0x0d; 0x00; 0x00;
   0x0a; 0x1c; 0x77; 0xf9; 0x00; 0x00].

Definition kMaskRandom35_32 : list Z :=
  [0x25; 0x2c; 0x16; 0x0b; 0x00; 0x00; 0x8a; 0x91; 0x48; 0xa4; 0x40; 0x00;
   0x91; 0xc0; 0xe0; 0x70; 0x20; 0x00; 0x68; 0x06; 0x83; 0x41; 0xa0; 0x00;
   0x32; 0xc8; 0x64; 0x32; 0x00; 0x00; 0x43; 0x45; 0x22; 0x91; 0x40; 0x00;
   0xc4; 0x30; 0x98; 0x4c; 0x20; 0x00; 0x1c; 0xa2; 0x51; 0x28; 0x80; 0x00;
   0x15; 0x8c; 0x46; 0x23; 0x00; 0x00; 0x8a; 0x47; 0x23; 0x91; 0xc0; 0x00;
   0x25; 0x81; 0xc0; 0xe0; 0x60; 0x00; 0x62; 0x12; 0x89; 0x44; 0xa0; 0x00;
   0x58; 0x58; 0x2c; 0x16; 0x00; 0x00; 0x0e; 0x28; 0x94; 0x4a; 0x20; 0x00;
   0x83; 0x34; 0x1a; 0x0d; 0x00; 0x00; 0x0a; 0x1c; 0x77; 0xf9; 0x00; 0x00;
   0x15; 0x8c; 0x46; 0x23; 0x00; 0x00; 0x8a; 0x47; 0x23; 0x91; 0xc0; 0x00;
   0x25; 0x81; 0xc0; 0xe0; 0x60; 0x00; 0x62; 0x12; 0x89; 0x44; 0xa0; 0x00;
   0x58; 0x58; 0x2c; 0x16; 0x00; 0x00; 0x0e; 0x28; 0x94; 0x4a; 0x20; 0x00;
   0x83; 0x34; 0x1a; 0x0d; 0x00; 0x00; 0x25; 0x2c; 0x16; 0x0b; 0x00; 0x00;
   0x8a; 0x91; 0x48; 0xa4; 0x40; 0x00; 0x91; 0xc0; 0xe0; 0x70; 0x20; 0x00;
   0x68; 0x06; 0x83; 0x41; 0xa0; 0x00; 0x32; 0xc8; 0x64; 0x32; 0x00; 0x00;
   0x43; 0x45; 0x22; 0x91; 0x40; 0x00; 0xc4; 0x30; 0x98; 0x4c; 0x20; 0x00;
   0x1c; 0xa2; 0x51; 0x28; 0x80; 0x00; 0xeb; 0x31; 0x7b; 0x80; 0x00; 0x00].

Definition kMaskRandom35_33 : list Z :=
  [0x25; 0x2c; 0x16; 0x0b; 0x00; 0x00; 0x8a; 0x91; 0x48; 0xa4; 0x40; 0x00;
   0x91; 0xc0; 0xe0; 0x70; 0x20; 0x00; 0x68; 0x06; 0x83; 0x41; 0xa0; 0x00;
   0x32; 0xc8; 0x64; 0x32; 0x00; 0x00; 0x43; 0x45; 0x22; 0x91; 0x40; 0x00;
   0xc4; 0x30; 0x98; 0x4c; 0x20; 0x00; 0x1c; 0xa2; 0x51; 0x28; 0x80; 0x00;
   0x15; 0x8c; 0x46; 0x23; 0x00; 0x00; 0x8a; 0x47; 0x23; 0x91; 0xc0; 0x00;
   0x25; 0x81; 0xc0; 0xe0; 0x60; 0x00; 0x62; 0x12; 0x89; 0x44; 0xa0; 0x00;
   0x58; 0x58; 0x2c; 0x16; 0x00; 0x00; 0x0e; 0x28; 0x94; 0x4a; 0x20; 0x00;
   0x83; 0x34; 0x1a; 0x0d; 0x00; 0x00; 0x0a; 0x1c; 0x77; 0xf9; 0x00; 0x00;
   0x25; 0x2c; 0x16; 0x0b; 0x00; 0x00; 0x8a; 0x91; 0x48; 0xa4; 0x40; 0x00;
   0x91; 0xc0; 0xe0; 0x70; 0x20; 0x00; 0x68; 0x06; 0x83; 0x41; 0xa0; 0x00;
   0x32; 0xc8; 0x64; 0x32; 0x00; 0x00; 0x43; 0x45; 0x22; 0x91; 0x40; 0x00;
   0xc4; 0x30; 0x98; 0x4c; 0x20; 0x00; 0x1c; 0xa2; 0x51; 0x28; 0x80; 0x00;
   0x25; 0x4c; 0x26; 0x13; 0x00; 0x00; 0x8a; 0x66; 0x33; 0x19; 0x80; 0x00;
   0x91; 0x91; 0x48; 0xa4; 0x40; 0x00; 0x68; 0x42; 0xa1; 0x50; 0xa0; 0x00;
   0x32; 0xa4; 0x52; 0x29; 0x00; 0x00; 0x43; 0x13; 0x09; 0x84; 0xc0; 0x00;
   0xc4; 0x30; 0x98; 0x4c; 0x20; 0x00; 0x1c; 0x88; 0xc4; 0x62; 0x20; 0x00;
   0x3c; 0x09; 0x04; 0x82; 0x40; 0x00].

Definition kMaskRandom35_34 : list Z :=
  [0x25; 0x2c; 0x16; 0x0b; 0x00; 0x00; 0x8a; 0x91; 0x48; 0xa4; 0x40; 0x00;
   0x91; 0xc0; 0xe0; 0x70; 0x20; 0x00; 0x68; 0x06; 0x83; 0x41; 0xa0; 0x00;
   0x32; 0xc8; 0x64; 0x32; 0x00; 0x00; 0x43; 0x45; 0x22; 0x91; 0x40; 0x00;
   0xc4; 0x30; 0x98; 0x4c; 0x20; 0x00; 0x1c; 0xa2; 0x51; 0x28; 0x80; 0x00;
   0x25; 0x4c; 0x26; 0x13; 0x00; 0x00; 0x8a; 0x66; 0x33; 0x19; 0x80; 0x00;
   0x91; 0x91; 0x48; 0xa4; 0x40; 0x00; 0x68; 0x42; 0xa1; 0x50; 0xa0; 0x00;
   0x32; 0xa4; 0x52; 0x29; 0x00; 0x00; 0x43; 0x13; 0x09; 0x84; 0xc0; 0x00;
   0xc4; 0x30; 0x98; 0x4c; 0x20; 0x00; 0x1c; 0x88; 0xc4; 0x62; 0x20; 0x00;
   0x3c; 0x09; 0x04; 0x82; 0x40; 0x00; 0x25; 0x2c; 0x16; 0x0b; 0x00; 0x00;
   0x8a; 0x91; 0x48; 0xa4; 0x40; 0x00; 0x91; 0xc0; 0xe0; 0x70; 0x20; 0x00;
   0x68; 0x06; 0x83; 0x41; 0xa0; 0x00; 0x32; 0xc8; 0x64; 0x32; 0x00; 0x00;
   0x43; 0x45; 0x22; 0x91; 0x40; 0x00; 0xc4; 0x30; 0x98; 0x4c; 0x20; 0x00;
   0x1c; 0xa2; 0x51; 0x28; 0x80; 0x00; 0x15; 0x8c; 0x46; 0x23; 0x00; 0x00;
   0x8a; 0x47; 0x23; 0x91; 0xc0; 0x00; 0x25; 0x81; 0xc0; 0xe0; 0x60; 0x00;
   0x62; 0x12; 0x89; 0x44; 0xa0; 0x00; 0x58; 0x58; 0x2c; 0x16; 0x00; 0x00;
   0x0e; 0x28; 0x94; 0x4a; 0x20; 0x00; 0x83; 0x34; 0x1a; 0x0d; 0x00; 0x00;
   0x0a; 0x1c; 0x77; 0xf9; 0x00; 0x00; 0x70; 0x07; 0xcd; 0x8c; 0xc0; 0x00].

Definition kMaskRandom35_35 : list Z :=
  [0x25; 0x2c; 0x16; 0x0b; 0x00; 0x00; 0x8a; 0x91; 0x48; 0xa4; 0x40; 0x00;
   0x91; 0xc0; 0xe0; 0x70; 0x20; 0x00; 0x68; 0x06; 0x83; 0x41; 0xa0; 0x00;
   0x32; 0xc8; 0x64; 0x32; 0x00; 0x00; 0x43; 0x45; 0x22; 0x91; 0x40; 0x00;
   0xc4; 0x30; 0x98; 0x4c; 0x20; 0x00; 0x1c; 0xa2; 0x51; 0x28; 0x80; 0x00;
   0x25; 0x4c; 0x26; 0x13; 0x00; 0x00; 0x8a; 0x66; 0x33; 0x19; 0x80; 0x00;
   0x91; 0x91; 0x48; 0xa4; 0x40; 0x00; 0x68; 0x42; 0xa1; 0x50; 0xa0; 0x00;
   0x32; 0xa4; 0x52; 0x29; 0x00; 0x00; 0x43; 0x13; 0x09; 0x84; 0xc0; 0x00;
   0xc4; 0x30; 0x98; 0x4c; 0x20; 0x00; 0x1c; 0x88; 0xc4; 0x62; 0x20; 0x00;
   0x3c; 0x09; 0x04; 0x82; 0x40; 0x00; 0x25; 0x2c; 0x26; 0x13; 0x00; 0x00;
   0x8a; 0x91; 0x33; 0x19; 0x80; 0x00; 0x91; 0xc0; 0xc8; 0xa4; 0x40; 0x00;
   0x68; 0x06; 0xa1; 0x50; 0xa0; 0x00; 0x32; 0xc8; 0x52; 0x29; 0x00; 0x00;
   0x43; 0x45; 0x09; 0x84; 0xc0; 0x00; 0xc4; 0x30; 0x98; 0x4c; 0x20; 0x00;
   0x1c; 0xa2; 0x44; 0x62; 0x20; 0x00; 0x25; 0x4c; 0x04; 0x82; 0x40; 0x00;
   0x8a; 0x66; 0x16; 0x0b; 0x00; 0x00; 0x91; 0x91; 0x48; 0xa4; 0x40; 0x00;
   0x68; 0x42; 0xe0; 0x70; 0x20; 0x00; 0x32; 0xa4; 0x03; 0x41; 0xa0; 0x00;
   0x43; 0x13; 0x64; 0x32; 0x00; 0x00; 0xc4; 0x30; 0xa2; 0x91; 0x40; 0x00;
   0x1c; 0x88; 0x98; 0x4c; 0x20; 0x00; 0x3c; 0x09; 0x51; 0x28; 0x80; 0x00;
   0xc2; 0x1c; 0x68; 0x01; 0xa0; 0x00].

Definition kMaskRandom36_1 : list Z :=
  [0xff; 0xff; 0xff; 0xff; 0xf0; 0x00].

Definition kMaskRandom36_2 : list Z :=
  [0xce; 0x67; 0x33; 0x99; 0xc0; 0x00; 0x39; 0x9c; 0xce; 0x67; 0x30; 0x00].

Definition kMaskRandom36_3 : list Z :=
  [0xcc; 0x66; 0x33; 0x19; 0x80; 0x00; 0x27; 0x15; 0x89; 0xc5; 0x60; 0x00;
   0x92; 0xc9; 0x64; 0xb2; 0x50; 0x00].

Definition kMaskRandom36_4 : list Z :=
  [0xec; 0x76; 0x3b; 0x1d; 0x80; 0x00; 0x67; 0x33; 0x99; 0xcc; 0xe0; 0x00;
   0xb1; 0xd8; 0xec; 0x76; 0x30; 0x00; 0x5a; 0xad; 0x56; 0xab; 0x50; 0x00].

Definition kMaskRandom36_5 : list Z :=
  [0x4c; 0xa6; 0x53; 0x29; 0x90; 0x00; 0x66; 0x33; 0x19; 0x8c; 0xc0; 0x00;
   0x19; 0xd0; 0xc6; 0x74; 0x30; 0x00; 0x9c; 0x89; 0x67; 0x22; 0x50; 0x00;
   0xe3; 0x4c; 0x38; 0xd3; 0x00; 0x00].

Definition kMaskRandom36_6 : list Z :=
  [0xcc; 0x26; 0x33; 0x09; 0x80; 0x00; 0x45; 0x62; 0x91; 0x58; 0xa0; 0x00;
   0xb0; 0x98; 0x6c; 0x26; 0x10; 0x00; 0x8a; 0x85; 0x62; 0xa1; 0x50; 0x00;
   0x29; 0x53; 0x0a; 0x54; 0xc0; 0x00; 0xa6; 0x0a; 0xa9; 0x82; 0xa0; 0x00].

Definition kMaskRandom36_7 : list Z :=
  [0x44; 0xa2; 0x51; 0x28; 0x90; 0x00; 0x23; 0x11; 0x88; 0xc4; 0x60; 0x00;
   0x91; 0x48; 0xa4; 0x52; 0x20; 0x00; 0x0a; 0x85; 0x42; 0xa1; 0x50; 0x00;
   0x34; 0x1a; 0x0d; 0x06; 0x80; 0x00; 0x0b; 0x06; 0x82; 0xc1; 0xa0; 0x00;
   0xe0; 0x64; 0x38; 0x19; 0x00; 0x00].

Definition kMaskRandom36_8 : list Z :=
  [0x16; 0x0b; 0x05; 0x82; 0xc0; 0x00; 0xc2; 0x61; 0x30; 0x98; 0x40; 0x00;
   0x60; 0xb0; 0x58; 0x2c; 0x10; 0x00; 0x85; 0x42; 0xa1; 0x50; 0xa0; 0x00;
   0x4c; 0x26; 0x13; 0x09; 0x80; 0x00; 0x29; 0x14; 0x8a; 0x45; 0x20; 0x00;
   0x11; 0x88; 0xc4; 0x62; 0x30; 0x00; 0xb0; 0x58; 0x2c; 0x16; 0x00; 0x00].

Definition kMaskRandom36_9 : list Z :=
  [0x44; 0xa2; 0x51; 0x28; 0x90; 0x00; 0x66; 0x26; 0x19; 0x89; 0x80; 0x00;
   0x90; 0x49; 0x64; 0x12; 0x50; 0x00; 0x01; 0xa5; 0x80; 0x69; 0x60; 0x00;
   0x0e; 0x12; 0x83; 0x84; 0xa0; 0x00; 0x13; 0x0b; 0x04; 0xc2; 0xc0; 0x00;
   0x20; 0xd0; 0x48; 0x34; 0x10; 0x00; 0xc2; 0x51; 0x30; 0x94; 0x40; 0x00;
   0x29; 0x0c; 0x8a; 0x43; 0x20; 0x00].

Definition kMaskRandom36_10 : list Z :=
  [0x8c; 0xc6; 0x63; 0x31; 0x90; 0x00; 0x27; 0x13; 0x89; 0xc4; 0xe0; 0x00;
   0x32; 0x99; 0x4c; 0xa6; 0x50; 0x00; 0x61; 0xb0; 0xd8; 0x6c; 0x30; 0x00;
   0x5c; 0x2e; 0x17; 0x0b; 0x80; 0x00; 0xcc; 0x66; 0x33; 0x19; 0x80; 0x00;
   0x2b; 0x15; 0x8a; 0xc5; 0x60; 0x00; 0x32; 0x99; 0x4c; 0xa6; 0x50; 0x00;
   0x25; 0x92; 0xc9; 0x64; 0xb0; 0x00; 0xfd; 0x9d; 0xff; 0x67; 0x70; 0x00].

Definition kMaskRandom36_11 : list Z :=
  [0x8c; 0xc6; 0x63; 0x31; 0x90; 0x00; 0x27; 0x13; 0x89; 0xc4; 0xe0; 0x00;
   0x32; 0x99; 0x4c; 0xa6; 0x50; 0x00; 0x61; 0xb0; 0xd8; 0x6c; 0x30; 0x00;
   0x5c; 0x2e; 0x17; 0x0b; 0x80; 0x00; 0x84; 0xc2; 0x61; 0x30; 0x90; 0x00;
   0x27; 0x13; 0x89; 0xc4; 0xe0; 0x00; 0x51; 0xa8; 0xd4; 0x6a; 0x30; 0x00;
   0x1a; 0x0d; 0x06; 0x83; 0x40; 0x00; 0x68; 0x34; 0x1a; 0x0d; 0x00; 0x00;
   0x89; 0x44; 0xa2; 0x51; 0x20; 0x00].

Definition kMaskRandom36_12 : list Z :=
  [0x84; 0xc2; 0x61; 0x30; 0x90; 0x00; 0x27; 0x13; 0x89; 0xc4; 0xe0; 0x00;
   0x51; 0xa8; 0xd4; 0x6a; 0x30; 0x00; 0x1a; 0x0d; 0x06; 0x83; 0x40; 0x00;
   0x68; 0x34; 0x1a; 0x0d; 0x00; 0x00; 0x89; 0x44; 0xa2; 0x51; 0x20; 0x00;
   0x8c; 0xc6; 0x63; 0x31; 0x90; 0x00; 0x27; 0x13; 0x89; 0xc4; 0xe0; 0x00;
   0x32; 0x99; 0x4c; 0xa6; 0x50; 0x00; 0x61; 0xb0; 0xd8; 0x6c; 0x30; 0x00;
   0x5c; 0x2e; 0x17; 0x0b; 0x80; 0x00; 0x5b; 0x0c; 0x56; 0xc3; 0x10; 0x00].

Definition kMaskRandom36_13 : list Z :=
  [0x84; 0xc2; 0x61; 0x30; 0x90; 0x00; 0x27; 0x13; 0x89; 0xc4; 0xe0; 0x00;
   0x51; 0xa8; 0xd4; 0x6a; 0x30; 0x00; 0x1a; 0x0d; 0x06; 0x83; 0x40; 0x00;
   0x68; 0x34; 0x1a; 0x0d; 0x00; 0x00; 0x89; 0x44; 0xa2; 0x51; 0x20; 0x00;
   0x8c; 0x46; 0x23; 0x11; 0x80; 0x00; 0x47; 0x23; 0x91; 0xc8; 0xe0; 0x00;
   0x81; 0xc0; 0xe0; 0x70; 0x30; 0x00; 0x12; 0x89; 0x44; 0xa2; 0x50; 0x00;
   0x58; 0x2c; 0x16; 0x0b; 0x00; 0x00; 0x28; 0x94; 0x4a; 0x25; 0x10; 0x00;
   0x34; 0x1a; 0x0d; 0x06; 0x80; 0x00].

Definition kMaskRandom36_14 : list Z :=
  [0x8c; 0x46; 0x23; 0x11; 0x80; 0x00; 0x47; 0x23; 0x91; 0xc8; 0xe0; 0x00;
   0x81; 0xc0; 0xe0; 0x70; 0x30; 0x00; 0x12; 0x89; 0x44; 0xa2; 0x50; 0x00;
   0x58; 0x2c; 0x16; 0x0b; 0x00; 0x00; 0x28; 0x94; 0x4a; 0x25; 0x10; 0x00;
   0x34; 0x1a; 0x0d; 0x06; 0x80; 0x00; 0x84; 0xc2; 0x61; 0x30; 0x90; 0x00;
   0x27; 0x13; 0x89; 0xc4; 0xe0; 0x00; 0x51; 0xa8; 0xd4; 0x6a; 0x30; 0x00;
   0x1a; 0x0d; 0x06; 0x83; 0x40; 0x00; 0x68; 0x34; 0x1a; 0x0d; 0x00; 0x00;
   0x89; 0x44; 0xa2; 0x51; 0x20; 0x00; 0x7f; 0x4f; 0xdf; 0xd3; 0xf0; 0x00].

Definition kMaskRandom36_15 : list Z :=
  [0x8c; 0x46; 0x23; 0x11; 0x80; 0x00; 0x47; 0x23; 0x91; 0xc8; 0xe0; 0x00;
   0x81; 0xc0; 0xe0; 0x70; 0x30; 0x00; 0x12; 0x89; 0x44; 0xa2; 0x50; 0x00;
   0x58; 0x2c; 0x16; 0x0b; 0x00; 0x00; 0x28; 0x94; 0x4a; 0x25; 0x10; 0x00;
   0x34; 0x1a; 0x0d; 0x06; 0x80; 0x00; 0x2c; 0x16; 0x0b; 0x05; 0x80; 0x00;
   0x91; 0x48; 0xa4; 0x52; 0x20; 0x00; 0xc0; 0xe0; 0x70; 0x38; 0x10; 0x00;
   0x06; 0x83; 0x41; 0xa0; 0xd0; 0x00; 0xc8; 0x64; 0x32; 0x19; 0x00; 0x00;
   0x45; 0x22; 0x91; 0x48; 0xa0; 0x00; 0x30; 0x98; 0x4c; 0x26; 0x10; 0x00;
   0xa2; 0x51; 0x28; 0x94; 0x40; 0x00].

Definition kMaskRandom36_16 : list Z :=
  [0x2c; 0x16; 0x0b; 0x05; 0x80; 0x00; 0x91; 0x48; 0xa4; 0x52; 0x20; 0x00;
   0xc0; 0xe0; 0x70; 0x38; 0x10; 0x00; 0x06; 0x83; 0x41; 0xa0; 0xd0; 0x00;
   0xc8; 0x64; 0x32; 0x19; 0x00; 0x00; 0x45; 0x22; 0x91; 0x48; 0xa0; 0x00;
   0x30; 0x98; 0x4c; 0x26; 0x10; 0x00; 0xa2; 0x51; 0x28; 0x94; 0x40; 0x00;
   0x8c; 0x46; 0x23; 0x11; 0x80; 0x00; 0x47; 0x23; 0x91; 0xc8; 0xe0; 0x00;
   0x81; 0xc0; 0xe0; 0x70; 0x30; 0x00; 0x12; 0x89; 0x44; 0xa2; 0x50; 0x00;
   0x58; 0x2c; 0x16; 0x0b; 0x00; 0x00; 0x28; 0x94; 0x4a; 0x25; 0x10; 0x00;
   0x34; 0x1a; 0x0d; 0x06; 0x80; 0x00; 0xef; 0xf2; 0x3b; 0xfc; 0x80; 0x00].

Definition kMaskRandom36_17 : list Z :=
  [0x2c; 0x16; 0x0b; 0x05; 0x80; 0x00; 0x91; 0x48; 0xa4; 0x52; 0x20; 0x00;
   0xc0; 0xe0; 0x70; 0x38; 0x10; 0x00; 0x06; 0x83; 0x41; 0xa0; 0xd0; 0x00;
   0xc8; 0x64; 0x32; 0x19; 0x00; 0x00; 0x45; 0x22; 0x91; 0x48; 0xa0; 0x00;
   0x30; 0x98; 0x4c; 0x26; 0x10; 0x00; 0xa2; 0x51; 0x28; 0x94; 0x40; 0x00;
   0x4c; 0x26; 0x13; 0x09; 0x80; 0x00; 0x66; 0x33; 0x19; 0x8c; 0xc0; 0x00;
   0x91; 0x48; 0xa4; 0x52; 0x20; 0x00; 0x42; 0xa1; 0x50; 0xa8; 0x50; 0x00;
   0xa4; 0x52; 0x29; 0x14; 0x80; 0x00; 0x13; 0x09; 0x84; 0xc2; 0x60; 0x00;
   0x30; 0x98; 0x4c; 0x26; 0x10; 0x00; 0x88; 0xc4; 0x62; 0x31; 0x10; 0x00;
   0x09; 0x04; 0x82; 0x41; 0x20; 0x00].

Definition kMaskRandom36_18 : list Z :=
  [0x4c; 0x26; 0x13; 0x09; 0x80; 0x00; 0x66; 0x33; 0x19; 0x8c; 0xc0; 0x00;
   0x91; 0x48; 0xa4; 0x52; 0x20; 0x00; 0x42; 0xa1; 0x50; 0xa8; 0x50; 0x00;
   0xa4; 0x52; 0x29; 0x14; 0x80; 0x00; 0x13; 0x09; 0x84; 0xc2; 0x60; 0x00;
   0x30; 0x98; 0x4c; 0x26; 0x10; 0x00; 0x88; 0xc4; 0x62; 0x31; 0x10; 0x00;
   0x09; 0x04; 0x82; 0x41; 0x20; 0x00; 0x2c; 0x16; 0x0b; 0x05; 0x80; 0x00;
   0x91; 0x48; 0xa4; 0x52; 0x20; 0x00; 0xc0; 0xe0; 0x70; 0x38; 0x10; 0x00;
   0x06; 0x83; 0x41; 0xa0; 0xd0; 0x00; 0xc8; 0x64; 0x32; 0x19; 0x00; 0x00;
   0x45; 0x22; 0x91; 0x48; 0xa0; 0x00; 0x30; 0x98; 0x4c; 0x26; 0x10; 0x00;
   0xa2; 0x51; 0x28; 0x94; 0x40; 0x00; 0xd0; 0x03; 0x74; 0x00; 0xd0; 0x00].

Definition kMaskRandom36_19 : list Z :=
  [0x44; 0xa2; 0x51; 0x28; 0x90; 0x00; 0x66; 0x26; 0x19; 0x89; 0x80; 0x00;
   0x90; 0x49; 0x64; 0x12; 0x50; 0x00; 0x01; 0xa5; 0x80; 0x69; 0x60; 0x00;
   0x0e; 0x12; 0x83; 0x84; 0xa0; 0x00; 0x13; 0x0b; 0x04; 0xc2; 0xc0; 0x00;
   0x20; 0xd0; 0x48; 0x34; 0x10; 0x00; 0xc2; 0x51; 0x30; 0x94; 0x40; 0x00;
   0x29; 0x0c; 0x8a; 0x43; 0x20; 0x00; 0x8c; 0xc6; 0x63; 0x31; 0x90; 0x00;
   0x27; 0x13; 0x89; 0xc4; 0xe0; 0x00; 0x32; 0x99; 0x4c; 0xa6; 0x50; 0x00;
   0x61; 0xb0; 0xd8; 0x6c; 0x30; 0x00; 0x5c; 0x2e; 0x17; 0x0b; 0x80; 0x00;
   0xcc; 0x66; 0x33; 0x19; 0x80; 0x00; 0x2b; 0x15; 0x8a; 0xc5; 0x60; 0x00;
   0x32; 0x99; 0x4c; 0xa6; 0x50; 0x00; 0x25; 0x92; 0xc9; 0x64; 0xb0; 0x00;
   0xfd; 0x9d; 0xff; 0x67; 0x70; 0x00].

Definition kMaskRandom36_20 : list Z :=
  [0x8c; 0xc6; 0x63; 0x31; 0x90; 0x00; 0x27; 0x13; 0x89; 0xc4; 0xe0; 0x00;
   0x32; 0x99; 0x4c; 0xa6; 0x50; 0x00; 0x61; 0xb0; 0xd8; 0x6c; 0x30; 0x00;
   0x5c; 0x2e; 0x17; 0x0b; 0x80; 0x00; 0xcc; 0x66; 0x33; 0x19; 0x80; 0x00;
   0x2b; 0x15; 0x8a; 0xc5; 0x60; 0x00; 0x32; 0x99; 0x4c; 0xa6; 0x50; 0x00;
   0x25; 0x92; 0xc9; 0x64; 0xb0; 0x00; 0xfd; 0x9d; 0xff; 0x67; 0x70; 0x00;
   0x44; 0xa2; 0x51; 0x28; 0x90; 0x00; 0x66; 0x26; 0x19; 0x89; 0x80; 0x00;
   0x90; 0x49; 0x64; 0x12; 0x50; 0x00; 0x01; 0xa5; 0x80; 0x69; 0x60; 0x00;
   0x0e; 0x12; 0x83; 0x84; 0xa0; 0x00; 0x13; 0x0b; 0x04; 0xc2; 0xc0; 0x00;
   0x20; 0xd0; 0x48; 0x34; 0x10; 0x00; 0xc2; 0x51; 0x30; 0x94; 0x40; 0x00;
   0x29; 0x0c; 0x8a; 0x43; 0x20; 0x00; 0x45; 0xb9; 0x08; 0x16; 0x30; 0x00].

Definition kMaskRandom36_21 : list Z :=
  [0x8c; 0xc6; 0x63; 0x31; 0x90; 0x00; 0x27; 0x13; 0x89; 0xc4; 0xe0; 0x00;
   0x32; 0x99; 0x4c; 0xa6; 0x50; 0x00; 0x61; 0xb0; 0xd8; 0x6c; 0x30; 0x00;
   0x5c; 0x2e; 0x17; 0x0b; 0x80; 0x00; 0xcc; 0x66; 0x33; 0x19; 0x80; 0x00;
   0x2b; 0x15; 0x8a; 0xc5; 0x60; 0x00; 0x32; 0x99; 0x4c; 0xa6; 0x50; 0x00;
   0x25; 0x92; 0xc9; 0x64; 0xb0; 0x00; 0xfd; 0x9d; 0xff; 0x67; 0x70; 0x00;
   0x8c; 0xc6; 0x63; 0x31; 0x90; 0x00; 0x27; 0x13; 0x89; 0xc4; 0xe0; 0x00;
   0x32; 0x99; 0x4c; 0xa6; 0x50; 0x00; 0x61; 0xb0; 0xd8; 0x6c; 0x30; 0x00;
   0x5c; 0x2e; 0x17; 0x0b; 0x80; 0x00; 0x84; 0xc2; 0x61; 0x30; 0x90; 0x00;
   0x27; 0x13; 0x89; 0xc4; 0xe0; 0x00; 0x51; 0xa8; 0xd4; 0x6a; 0x30; 0x00;
   0x1a; 0x0d; 0x06; 0x83; 0x40; 0x00; 0x68; 0x34; 0x1a; 0x0d; 0x00; 0x00;
   0x89; 0x44; 0xa2; 0x51; 0x20; 0x00].

Definition kMaskRandom36_22 : list Z :=
  [0x8c; 0xc6; 0x63; 0x31; 0x90; 0x00; 0x27; 0x13; 0x89; 0xc4; 0xe0; 0x00;
   0x32; 0x99; 0x4c; 0xa6; 0x50; 0x00; 0x61; 0xb0; 0xd8; 0x6c; 0x30; 0x00;
   0x5c; 0x2e; 0x17; 0x0b; 0x80; 0x00; 0x84; 0xc2; 0x61; 0x30; 0x90; 0x00;
   0x27; 0x13; 0x89; 0xc4; 0xe0; 0x00; 0x51; 0xa8; 0xd4; 0x6a; 0x30; 0x00;
   0x1a; 0x0d; 0x06; 0x83; 0x40; 0x00; 0x68; 0x34; 0x1a; 0x0d; 0x00; 0x00;
   0x89; 0x44; 0xa2; 0x51; 0x20; 0x00; 0x8c; 0xc6; 0x63; 0x31; 0x90; 0x00;
   0x27; 0x13; 0x89; 0xc4; 0xe0; 0x00; 0x32; 0x99; 0x4c; 0xa6; 0x50; 0x00;
   0x61; 0xb0; 0xd8; 0x6c; 0x30; 0x00; 0x5c; 0x2e; 0x17; 0x0b; 0x80; 0x00;
   0xcc; 0x66; 0x33; 0x19; 0x80; 0x00; 0x2b; 0x15; 0x8a; 0xc5; 0x60; 0x00;
   0x32; 0x99; 0x4c; 0xa6; 0x50; 0x00; 0x25; 0x92; 0xc9; 0x64; 0xb0; 0x00;
   0xfd; 0x9d; 0xff; 0x67; 0x70; 0x00; 0x71; 0x04; 0xba; 0x7b; 0xe0; 0x00].

Definition kMaskRandom36_23 : list Z :=
  [0x8c; 0xc6; 0x63; 0x31; 0x90; 0x00; 0x27; 0x13; 0x89; 0xc4; 0xe0; 0x00;
   0x32; 0x99; 0x4c; 0xa6; 0x50; 0x00; 0x61; 0xb0; 0xd8; 0x6c; 0x30; 0x00;
   0x5c; 0x2e; 0x17; 0x0b; 0x80; 0x00; 0x84; 0xc2; 0x61; 0x30; 0x90; 0x00;
   0x27; 0x13; 0x89; 0xc4; 0xe0; 0x00; 0x51; 0xa8; 0xd4; 0x6a; 0x30; 0x00;
   0x1a; 0x0d; 0x06; 0x83; 0x40; 0x00; 0x68; 0x34; 0x1a; 0x0d; 0x00; 0x00;
   0x89; 0x44; 0xa2; 0x51; 0x20; 0x00; 0x84; 0xc2; 0x61; 0x30; 0x90; 0x00;
   0x27; 0x13; 0x89; 0xc4; 0xe0; 0x00; 0x51; 0xa8; 0xd4; 0x6a; 0x30; 0x00;
   0x1a; 0x0d; 0x06; 0x83; 0x40; 0x00; 0x68; 0x34; 0x1a; 0x0d; 0x00; 0x00;
   0x89; 0x44; 0xa2; 0x51; 0x20; 0x00; 0x8c; 0xc6; 0x63; 0x31; 0x90; 0x00;
   0x27; 0x13; 0x89; 0xc4; 0xe0; 0x00; 0x32; 0x99; 0x4c; 0xa6; 0x50; 0x00;
   0x61; 0xb0; 0xd8; 0x6c; 0x30; 0x00; 0x5c; 0x2e; 0x17; 0x0b; 0x80; 0x00;
   0x5b; 0x0c; 0x56; 0xc3; 0x10; 0x00].

Definition kMaskRandom36_24 : list Z :=
  [0x84; 0xc2; 0x61; 0x30; 0x90; 0x00; 0x27; 0x13; 0x89; 0xc4; 0xe0; 0x00;
   0x51; 0xa8; 0xd4; 0x6a; 0x30; 0x00; 0x1a; 0x0d; 0x06; 0x83; 0x40; 0x00;
   0x68; 0x34; 0x1a; 0x0d; 0x00; 0x00; 0x89; 0x44; 0xa2; 0x51; 0x20; 0x00;
   0x8c; 0xc6; 0x63; 0x31; 0x90; 0x00; 0x27; 0x13; 0x89; 0xc4; 0xe0; 0x00;
   0x32; 0x99; 0x4c; 0xa6; 0x50; 0x00; 0x61; 0xb0; 0xd8; 0x6c; 0x30; 0x00;
   0x5c; 0x2e; 0x17; 0x0b; 0x80; 0x00; 0x5b; 0x0c; 0x56; 0xc3; 0x10; 0x00;
   0x8c; 0xc6; 0x63; 0x31; 0x90; 0x00; 0x27; 0x13; 0x89; 0xc4; 0xe0; 0x00;
   0x32; 0x99; 0x4c; 0xa6; 0x50; 0x00; 0x61; 0xb0; 0xd8; 0x6c; 0x30; 0x00;
   0x5c; 0x2e; 0x17; 0x0b; 0x80; 0x00; 0x84; 0xc2; 0x61; 0x30; 0x90; 0x00;
   0x27; 0x13; 0x89; 0xc4; 0xe0; 0x00; 0x51; 0xa8; 0xd4; 0x6a; 0x30; 0x00;
   0x1a; 0x0d; 0x06; 0x83; 0x40; 0x00; 0x68; 0x34; 0x1a; 0x0d; 0x00; 0x00;
   0x89; 0x44; 0xa2; 0x51; 0x20; 0x00; 0x76; 0x3a; 0xeb; 0x17; 0xc0; 0x00].

Definition kMaskRandom36_25 : list Z :=
  [0x84; 0xc2; 0x61; 0x30; 0x90; 0x00; 0x27; 0x13; 0x89; 0xc4; 0xe0; 0x00;
   0x51; 0xa8; 0xd4; 0x6a; 0x30; 0x00; 0x1a; 0x0d; 0x06; 0x83; 0x40; 0x00;
   0x68; 0x34; 0x1a; 0x0d; 0x00; 0x00; 0x89; 0x44; 0xa2; 0x51; 0x20; 0x00;
   0x8c; 0xc6; 0x63; 0x31; 0x90; 0x00; 0x27; 0x13; 0x89; 0xc4; 0xe0; 0x00;
   0x32; 0x99; 0x4c; 0xa6; 0x50; 0x00; 0x61; 0xb0; 0xd8; 0x6c; 0x30; 0x00;
   0x5c; 0x2e; 0x17; 0x0b; 0x80; 0x00; 0x5b; 0x0c; 0x56; 0xc3; 0x10; 0x00;
   0x84; 0xc2; 0x61; 0x30; 0x90; 0x00; 0x27; 0x13; 0x89; 0xc4; 0xe0; 0x00;
   0x51; 0xa8; 0xd4; 0x6a; 0x30; 0x00; 0x1a; 0x0d; 0x06; 0x83; 0x40; 0x00;
   0x68; 0x34; 0x1a; 0x0d; 0x00; 0x00; 0x89; 0x44; 0xa2; 0x51; 0x20; 0x00;
   0x8c; 0x46; 0x23; 0x11; 0x80; 0x00; 0x47; 0x23; 0x91; 0xc8; 0xe0; 0x00;
   0x81; 0xc0; 0xe0; 0x70; 0x30; 0x00; 0x12; 0x89; 0x44; 0xa2; 0x50; 0x00;
   0x58; 0x2c; 0x16; 0x0b; 0x00; 0x00; 0x28; 0x94; 0x4a; 0x25; 0x10; 0x00;
   0x34; 0x1a; 0x0d; 0x06; 0x80; 0x00].

Definition kMaskRandom36_26 : list Z :=
  [0x84; 0xc2; 0x61; 0x30; 0x90; 0x00; 0x27; 0x13; 0x89; 0xc4; 0xe0; 0x00;
   0x51; 0xa8; 0xd4; 0x6a; 0x30; 0x00; 0x1a; 0x0d; 0x06; 0x83; 0x40; 0x00;
   0x68; 0x34; 0x1a; 0x0d; 0x00; 0x00; 0x89; 0x44; 0xa2; 0x51; 0x20; 0x00;
   0x8c; 0x46; 0x23; 0x11; 0x80; 0x00; 0x47; 0x23; 0x91; 0xc8; 0xe0; 0x00;
   0x81; 0xc0; 0xe0; 0x70; 0x30; 0x00; 0x12; 0x89; 0x44; 0xa2; 0x50; 0x00;
   0x58; 0x2c; 0x16; 0x0b; 0x00; 0x00; 0x28; 0x94; 0x4a; 0x25; 0x10; 0x00;
   0x34; 0x1a; 0x0d; 0x06; 0x80; 0x00; 0x84; 0xc2; 0x61; 0x30; 0x90; 0x00;
   0x27; 0x13; 0x89; 0xc4; 0xe0; 0x00; 0x51; 0xa8; 0xd4; 0x6a; 0x30; 0x00;
   0x1a; 0x0d; 0x06; 0x83; 0x40; 0x00; 0x68; 0x34; 0x1a; 0x0d; 0x00; 0x00;
   0x89; 0x44; 0xa2; 0x51; 0x20; 0x00; 0x8c; 0xc6; 0x63; 0x31; 0x90; 0x00;
   0x27; 0x13; 0x89; 0xc4; 0xe0; 0x00; 0x32; 0x99; 0x4c; 0xa6; 0x50; 0x00;
   0x61; 0xb0; 0xd8; 0x6c; 0x30; 0x00; 0x5c; 0x2e; 0x17; 0x0b; 0x80; 0x00;
   0x5b; 0x0c; 0x56; 0xc3; 0x10; 0x00; 0xec; 0x58; 0x0e; 0x6c; 0xe0; 0x00].

Definition kMaskRandom36_27 : list Z :=
  [0x84; 0xc2; 0x61; 0x30; 0x90; 0x00; 0x27; 0x13; 0x89; 0xc4; 0xe0; 0x00;
   0x51; 0xa8; 0xd4; 0x6a; 0x30; 0x00; 0x1a; 0x0d; 0x06; 0x83; 0x40; 0x00;
   0x68; 0x34; 0x1a; 0x0d; 0x00; 0x00; 0x89; 0x44; 0xa2; 0x51; 0x20; 0x00;
   0x8c; 0x46; 0x23; 0x11; 0x80; 0x00; 0x47; 0x23; 0x91; 0xc8; 0xe0; 0x00;
   0x81; 0xc0; 0xe0; 0x70; 0x30; 0x00; 0x12; 0x89; 0x44; 0xa2; 0x50; 0x00;
   0x58; 0x2c; 0x16; 0x0b; 0x00; 0x00; 0x28; 0x94; 0x4a; 0x25; 0x10; 0x00;
   0x34; 0x1a; 0x0d; 0x06; 0x80; 0x00; 0x8c; 0x46; 0x23; 0x11; 0x80; 0x00;
   0x47; 0x23; 0x91; 0xc8; 0xe0; 0x00; 0x81; 0xc0; 0xe0; 0x70; 0x30; 0x00;
   0x12; 0x89; 0x44; 0xa2; 0x50; 0x00; 0x58; 0x2c; 0x16; 0x0b; 0x00; 0x00;
   0x28; 0x94; 0x4a; 0x25; 0x10; 0x00; 0x34; 0x1a; 0x0d; 0x06; 0x80; 0x00;
   0x84; 0xc2; 0x61; 0x30; 0x90; 0x00; 0x27; 0x13; 0x89; 0xc4; 0xe0; 0x00;
   0x51; 0xa8; 0xd4; 0x6a; 0x30; 0x00; 0x1a; 0x0d; 0x06; 0x83; 0x40; 0x00;
   0x68; 0x34; 0x1a; 0x0d; 0x00; 0x00; 0x89; 0x44; 0xa2; 0x51; 0x20; 0x00;
   0x7f; 0x4f; 0xdf; 0xd3; 0xf0; 0x00].

Definition kMaskRandom36_28 : list Z :=
  [0x8c; 0x46; 0x23; 0x11; 0x80; 0x00; 0x47; 0x23; 0x91; 0xc8; 0xe0; 0x00;
   0x81; 0xc0; 0xe0; 0x70; 0x30; 0x00; 0x12; 0x89; 0x44; 0xa2; 0x50; 0x00;
   0x58; 0x2c; 0x16; 0x0b; 0x00; 0x00; 0x28; 0x94; 0x4a; 0x25; 0x10; 0x00;
   0x34; 0x1a; 0x0d; 0x06; 0x80; 0x00; 0x84; 0xc2; 0x61; 0x30; 0x90; 0x00;
   0x27; 0x13; 0x89; 0xc4; 0xe0; 0x00; 0x51; 0xa8; 0xd4; 0x6a; 0x30; 0x00;
   0x1a; 0x0d; 0x06; 0x83; 0x40; 0x00; 0x68; 0x34; 0x1a; 0x0d; 0x00; 0x00;
   0x89; 0x44; 0xa2; 0x51; 0x20; 0x00; 0x7f; 0x4f; 0xdf; 0xd3; 0xf0; 0x00;
   0x84; 0xc2; 0x61; 0x30; 0x90; 0x00; 0x27; 0x13; 0x89; 0xc4; 0xe0; 0x00;
   0x51; 0xa8; 0xd4; 0x6a; 0x30; 0x00; 0x1a; 0x0d; 0x06; 0x83; 0x40; 0x00;
   0x68; 0x34; 0x1a; 0x0d; 0x00; 0x00; 0x89; 0x44; 0xa2; 0x51; 0x20; 0x00;
   0x8c; 0x46; 0x23; 0x11; 0x80; 0x00; 0x47; 0x23; 0x91; 0xc8; 0xe0; 0x00;
   0x81; 0xc0; 0xe0; 0x70; 0x30; 0x00; 0x12; 0x89; 0x44; 0xa2; 0x50; 0x00;
   0x58; 0x2c; 0x16; 0x0b; 0x00; 0x00; 0x28; 0x94; 0x4a; 0x25; 0x10; 0x00;
   0x34; 0x1a; 0x0d; 0x06; 0x80; 0x00; 0x29; 0xfd; 0x91; 0x6f; 0xd0; 0x00].

Definition kMaskRandom36_29 : list Z :=
  [0x8c; 0x46; 0x23; 0x11; 0x80; 0x00; 0x47; 0x23; 0x91; 0xc8; 0xe0; 0x00;
   0x81; 0xc0; 0xe0; 0x70; 0x30; 0x00; 0x12; 0x89; 0x44; 0xa2; 0x50; 0x00;
   0x58; 0x2c; 0x16; 0x0b; 0x00; 0x00; 0x28; 0x94; 0x4a; 0x25; 0x10; 0x00;
   0x34; 0x1a; 0x0d; 0x06; 0x80; 0x00; 0x84; 0xc2; 0x61; 0x30; 0x90; 0x00;
   0x27; 0x13; 0x89; 0xc4; 0xe0; 0x00; 0x51; 0xa8; 0xd4; 0x6a; 0x30; 0x00;
   0x1a; 0x0d; 0x06; 0x83; 0x40; 0x00; 0x68; 0x34; 0x1a; 0x0d; 0x00; 0x00;
   0x89; 0x44; 0xa2; 0x51; 0x20; 0x00; 0x7f; 0x4f; 0xdf; 0xd3; 0xf0; 0x00;
   0x8c; 0x46; 0x23; 0x11; 0x80; 0x00; 0x47; 0x23; 0x91; 0xc8; 0xe0; 0x00;
   0x81; 0xc0; 0xe0; 0x70; 0x30; 0x00; 0x12; 0x89; 0x44; 0xa2; 0x50; 0x00;
   0x58; 0x2c; 0x16; 0x0b; 0x00; 0x00; 0x28; 0x94; 0x4a; 0x25; 0x10; 0x00;
   0x34; 0x1a; 0x0d; 0x06; 0x80; 0x00; 0x2c; 0x16; 0x0b; 0x05; 0x80; 0x00;
   0x91; 0x48; 0xa4; 0x52; 0x20; 0x00; 0xc0; 0xe0; 0x70; 0x38; 0x10; 0x00;
   0x06; 0x83; 0x41; 0xa0; 0xd0; 0x00; 0xc8; 0x64; 0x32; 0x19; 0x00; 0x00;
   0x45; 0x22; 0x91; 0x48; 0xa0; 0x00; 0x30; 0x98; 0x4c; 0x26; 0x10; 0x00;
   0xa2; 0x51; 0x28; 0x94; 0x40; 0x00].

Definition kMaskRandom36_30 : list Z :=
  [0x8c; 0x46; 0x23; 0x11; 0x80; 0x00; 0x47; 0x23; 0x91; 0xc8; 0xe0; 0x00;
   0x81; 0xc0; 0xe0; 0x70; 0x30; 0x00; 0x12; 0x89; 0x44; 0xa2; 0x50; 0x00;
   0x58; 0x2c; 0x16; 0x0b; 0x00; 0x00; 0x28; 0x94; 0x4a; 0x25; 0x10; 0x00;
   0x34; 0x1a; 0x0d; 0x06; 0x80; 0x00; 0x2c; 0x16; 0x0b; 0x05; 0x80; 0x00;
   0x91; 0x48; 0xa4; 0x52; 0x20; 0x00; 0xc0; 0xe0; 0x70; 0x38; 0x10; 0x00;
   0x06; 0x83; 0x41; 0xa0; 0xd0; 0x00; 0xc8; 0x64; 0x32; 0x19; 0x00; 0x00;
   0x45; 0x22; 0x91; 0x48; 0xa0; 0x00; 0x30; 0x98; 0x4c; 0x26; 0x10; 0x00;
   0xa2; 0x51; 0x28; 0x94; 0x40; 0x00; 0x8c; 0x46; 0x23; 0x11; 0x80; 0x00;
   0x47; 0x23; 0x91; 0xc8; 0xe0; 0x00; 0x81; 0xc0; 0xe0; 0x70; 0x30; 0x00;
   0x12; 0x89; 0x44; 0xa2; 0x50; 0x00; 0x58; 0x2c; 0x16; 0x0b; 0x00; 0x00;
   0x28; 0x94; 0x4a; 0x25; 0x10; 0x00; 0x34; 0x1a; 0x0d; 0x06; 0x80; 0x00;
   0x84; 0xc2; 0x61; 0x30; 0x90; 0x00; 0x27; 0x13; 0x89; 0xc4; 0xe0; 0x00;
   0x51; 0xa8; 0xd4; 0x6a; 0x30; 0x00; 0x1a; 0x0d; 0x06; 0x83; 0x40; 0x00;
   0x68; 0x34; 0x1a; 0x0d; 0x00; 0x00; 0x89; 0x44; 0xa2; 0x51; 0x20; 0x00;
   0x7f; 0x4f; 0xdf; 0xd3; 0xf0; 0x00; 0xc5; 0x38; 0xbb; 0x98; 0x80; 0x00].

Definition kMaskRandom36_31 : list Z :=
  [0x8c; 0x46; 0x23; 0x11; 0x80; 0x00; 0x47; 0x23; 0x91; 0xc8; 0xe0; 0x00;
   0x81; 0xc0; 0xe0; 0x70; 0x30; 0x00; 0x12; 0x89; 0x44; 0xa2; 0x50; 0x00;
   0x58; 0x2c; 0x16; 0x0b; 0x00; 0x00; 0x28; 0x94; 0x4a; 0x25; 0x10; 0x00;
   0x34; 0x1a; 0x0d; 0x06; 0x80; 0x00; 0x2c; 0x16; 0x0b; 0x05; 0x80; 0x00;
   0x91; 0x48; 0xa4; 0x52; 0x20; 0x00; 0xc0; 0xe0; 0x70; 0x38; 0x10; 0x00;
   0x06; 0x83; 0x41; 0xa0; 0xd0; 0x00; 0xc8; 0x64; 0x32; 0x19; 0x00; 0x00;
   0x45; 0x22; 0x91; 0x48; 0xa0; 0x00; 0x30; 0x98; 0x4c; 0x26; 0x10; 0x00;
   0xa2; 0x51; 0x28; 0x94; 0x40; 0x00; 0x2c; 0x16; 0x0b; 0x05; 0x80; 0x00;
   0x91; 0x48; 0xa4; 0x52; 0x20; 0x00; 0xc0; 0xe0; 0x70; 0x38; 0x10; 0x00;
   0x06; 0x83; 0x41; 0xa0; 0xd0; 0x00; 0xc8; 0x64; 0x32; 0x19; 0x00; 0x00;
   0x45; 0x22; 0x91; 0x48; 0xa0; 0x00; 0x30; 0x98; 0x4c; 0x26; 0x10; 0x00;
   0xa2; 0x51; 0x28; 0x94; 0x40; 0x00; 0x8c; 0x46; 0x23; 0x11; 0x80; 0x00;
   0x47; 0x23; 0x91; 0xc8; 0xe0; 0x00; 0x81; 0xc0; 0xe0; 0x70; 0x30; 0x00;
   0x12; 0x89; 0x44; 0xa2; 0x50; 0x00; 0x58; 0x2c; 0x16; 0x0b; 0x00; 0x00;
   0x28; 0x94; 0x4a; 0x25; 0x10; 0x00; 0x34; 0x1a; 0x0d; 0x06; 0x80; 0x00;
   0xef; 0xf2; 0x3b; 0xfc; 0x80; 0x00].

Definition kMaskRandom36_32 : list Z :=
  [0x2c; 0x16; 0x0b; 0x05; 0x80; 0x00; 0x91; 0x48; 0xa4; 0x52; 0x20; 0x00;
   0xc0; 0xe0; 0x70; 0x38; 0x10; 0x00; 0x06; 0x83; 0x41; 0xa0; 0xd0; 0x00;
   0xc8; 0x64; 0x32; 0x19; 0x00; 0x00; 0x45; 0x22; 0x91; 0x48; 0xa0; 0x00;
   0x30; 0x98; 0x4c; 0x26; 0x10; 0x00; 0xa2; 0x51; 0x28; 0x94; 0x40; 0x00;
   0x8c; 0x46; 0x23; 0x11; 0x80; 0x00; 0x47; 0x23; 0x91; 0xc8; 0xe0; 0x00;
   0x81; 0xc0; 0xe0; 0x70; 0x30; 0x00; 0x12; 0x89; 0x44; 0xa2; 0x50; 0x00;
   0x58; 0x2c; 0x16; 0x0b; 0x00; 0x00; 0x28; 0x94; 0x4a; 0x25; 0x10; 0x00;
   0x34; 0x1a; 0x0d; 0x06; 0x80; 0x00; 0xef; 0xf2; 0x3b; 0xfc; 0x80; 0x00;
   0x8c; 0x46; 0x23; 0x11; 0x80; 0x00; 0x47; 0x23; 0x91; 0xc8; 0xe0; 0x00;
   0x81; 0xc0; 0xe0; 0x70; 0x30; 0x00; 0x12; 0x89; 0x44; 0xa2; 0x50; 0x00;
   0x58; 0x2c; 0x16; 0x0b; 0x00; 0x00; 0x28; 0x94; 0x4a; 0x25; 0x10; 0x00;
   0x34; 0x1a; 0x0d; 0x06; 0x80; 0x00; 0x2c; 0x16; 0x0b; 0x05; 0x80; 0x00;
   0x91; 0x48; 0xa4; 0x52; 0x20; 0x00; 0xc0; 0xe0; 0x70; 0x38; 0x10; 0x00;
   0x06; 0x83; 0x41; 0xa0; 0xd0; 0x00; 0xc8; 0x64; 0x32; 0x19; 0x00; 0x00;
   0x45; 0x22; 0x91; 0x48; 0xa0; 0x00; 0x30; 0x98; 0x4c; 0x26; 0x10; 0x00;
   0xa2; 0x51; 0x28; 0x94; 0x40; 0x00; 0x3a; 0x28; 0x9c; 0x2f; 0xc0; 0x00].

Definition kMaskRandom36_33 : list Z :=
  [0x2c; 0x16; 0x0b; 0x05; 0x80; 0x00; 0x91; 0x48; 0xa4; 0x52; 0x20; 0x00;
   0xc0; 0xe0; 0x70; 0x38; 0x10; 0x00; 0x06; 0x83; 0x41; 0xa0; 0xd0; 0x00;
   0xc8; 0x64; 0x32; 0x19; 0x00; 0x00; 0x45; 0x22; 0x91; 0x48; 0xa0; 0x00;
   0x30; 0x98; 0x4c; 0x26; 0x10; 0x00; 0xa2; 0x51; 0x28; 0x94; 0x40; 0x00;
   0x8c; 0x46; 0x23; 0x11; 0x80; 0x00; 0x47; 0x23; 0x91; 0xc8; 0xe0; 0x00;
   0x81; 0xc0; 0xe0; 0x70; 0x30; 0x00; 0x12; 0x89; 0x44; 0xa2; 0x50; 0x00;
   0x58; 0x2c; 0x16; 0x0b; 0x00; 0x00; 0x28; 0x94; 0x4a; 0x25; 0x10; 0x00;
   0x34; 0x1a; 0x0d; 0x06; 0x80; 0x00; 0xef; 0xf2; 0x3b; 0xfc; 0x80; 0x00;
   0x2c; 0x16; 0x0b; 0x05; 0x80; 0x00; 0x91; 0x48; 0xa4; 0x52; 0x20; 0x00;
   0xc0; 0xe0; 0x70; 0x38; 0x10; 0x00; 0x06; 0x83; 0x41; 0xa0; 0xd0; 0x00;
   0xc8; 0x64; 0x32; 0x19; 0x00; 0x00; 0x45; 0x22; 0x91; 0x48; 0xa0; 0x00;
   0x30; 0x98; 0x4c; 0x26; 0x10; 0x00; 0xa2; 0x51; 0x28; 0x94; 0x40; 0x00;
   0x4c; 0x26; 0x13; 0x09; 0x80; 0x00; 0x66; 0x33; 0x19; 0x8c; 0xc0; 0x00;
   0x91; 0x48; 0xa4; 0x52; 0x20; 0x00; 0x42; 0xa1; 0x50; 0xa8; 0x50; 0x00;
   0xa4; 0x52; 0x29; 0x14; 0x80; 0x00; 0x13; 0x09; 0x84; 0xc2; 0x60; 0x00;
   0x30; 0x98; 0x4c; 0x26; 0x10; 0x00; 0x88; 0xc4; 0x62; 0x31; 0x10; 0x00;
   0x09; 0x04; 0x82; 0x41; 0x20; 0x00].

Definition kMaskRandom36_34 : list Z :=
  [0x2c; 0x16; 0x0b; 0x05; 0x80; 0x00; 0x91; 0x48; 0xa4; 0x52; 0x20; 0x00;
   0xc0; 0xe0; 0x70; 0x38; 0x10; 0x00; 0x06; 0x83; 0x41; 0xa0; 0xd0; 0x00;
   0xc8; 0x64; 0x32; 0x19; 0x00; 0x00; 0x45; 0x22; 0x91; 0x48; 0xa0; 0x00;
   0x30; 0x98; 0x4c; 0x26; 0x10; 0x00; 0xa2; 0x51; 0x28; 0x94; 0x40; 0x00;
   0x4c; 0x26; 0x13; 0x09; 0x80; 0x00; 0x66; 0x33; 0x19; 0x8c; 0xc0; 0x00;
   0x91; 0x48; 0xa4; 0x52; 0x20; 0x00; 0x42; 0xa1; 0x50; 0xa8; 0x50; 0x00;
   0xa4; 0x52; 0x29; 0x14; 0x80; 0x00; 0x13; 0x09; 0x84; 0xc2; 0x60; 0x00;
   0x30; 0x98; 0x4c; 0x26; 0x10; 0x00; 0x88; 0xc4; 0x62; 0x31; 0x10; 0x00;
   0x09; 0x04; 0x82; 0x41; 0x20; 0x00; 0x2c; 0x16; 0x0b; 0x05; 0x80; 0x00;
   0x91; 0x48; 0xa4; 0x52; 0x20; 0x00; 0xc0; 0xe0; 0x70; 0x38; 0x10; 0x00;
   0x06; 0x83; 0x41; 0xa0; 0xd0; 0x00; 0xc8; 0x64; 0x32; 0x19; 0x00; 0x00;
   0x45; 0x22; 0x91; 0x48; 0xa0; 0x00; 0x30; 0x98; 0x4c; 0x26; 0x10; 0x00;
   0xa2; 0x51; 0x28; 0x94; 0x40; 0x00; 0x8c; 0x46; 0x23; 0x11; 0x80; 0x00;
   0x47; 0x23; 0x91; 0xc8; 0xe0; 0x00; 0x81; 0xc0; 0xe0; 0x70; 0x30; 0x00;
   0x12; 0x89; 0x44; 0xa2; 0x50; 0x00; 0x58; 0x2c; 0x16; 0x0b; 0x00; 0x00;
   0x28; 0x94; 0x4a; 0x25; 0x10; 0x00; 0x34; 0x1a; 0x0d; 0x06; 0x80; 0x00;
   0xef; 0xf2; 0x3b; 0xfc; 0x80; 0x00; 0xf7; 0x5e; 0x66; 0x5b; 0x60; 0x00].

Definition kMaskRandom36_35 : list Z :=
  [0x2c; 0x16; 0x0b; 0x05; 0x80; 0x00; 0x91; 0x48; 0xa4; 0x52; 0x20; 0x00;
   0xc0; 0xe0; 0x70; 0x38; 0x10; 0x00; 0x06; 0x83; 0x41; 0xa0; 0xd0; 0x00;
   0xc8; 0x64; 0x32; 0x19; 0x00; 0x00; 0x45; 0x22; 0x91; 0x48; 0xa0; 0x00;
   0x30; 0x98; 0x4c; 0x26; 0x10; 0x00; 0xa2; 0x51; 0x28; 0x94; 0x40; 0x00;
   0x4c; 0x26; 0x13; 0x09; 0x80; 0x00; 0x66; 0x33; 0x19; 0x8c; 0xc0; 0x00;
   0x91; 0x48; 0xa4; 0x52; 0x20; 0x00; 0x42; 0xa1; 0x50; 0xa8; 0x50; 0x00;
   0xa4; 0x52; 0x29; 0x14; 0x80; 0x00; 0x13; 0x09; 0x84; 0xc2; 0x60; 0x00;
   0x30; 0x98; 0x4c; 0x26; 0x10; 0x00; 0x88; 0xc4; 0x62; 0x31; 0x10; 0x00;
   0x09; 0x04; 0x82; 0x41; 0x20; 0x00; 0x4c; 0x26; 0x13; 0x09; 0x80; 0x00;
   0x66; 0x33; 0x19; 0x8c; 0xc0; 0x00; 0x91; 0x48; 0xa4; 0x52; 0x20; 0x00;
   0x42; 0xa1; 0x50; 0xa8; 0x50; 0x00; 0xa4; 0x52; 0x29; 0x14; 0x80; 0x00;
   0x13; 0x09; 0x84; 0xc2; 0x60; 0x00; 0x30; 0x98; 0x4c; 0x26; 0x10; 0x00;
   0x88; 0xc4; 0x62; 0x31; 0x10; 0x00; 0x09; 0x04; 0x82; 0x41; 0x20; 0x00;
   0x2c; 0x16; 0x0b; 0x05; 0x80; 0x00; 0x91; 0x48; 0xa4; 0x52; 0x20; 0x00;
   0xc0; 0xe0; 0x70; 0x38; 0x10; 0x00; 0x06; 0x83; 0x41; 0xa0; 0xd0; 0x00;
   0xc8; 0x64; 0x32; 0x19; 0x00; 0x00; 0x45; 0x22; 0x91; 0x48; 0xa0; 0x00;
   0x30; 0x98; 0x4c; 0x26; 0x10; 0x00; 0xa2; 0x51; 0x28; 0x94; 0x40; 0x00;
   0xd0; 0x03; 0x74; 0x00; 0xd0; 0x00].

Definition kMaskRandom36_36 : list Z :=
  [0x4c; 0x26; 0x13; 0x09; 0x80; 0x00; 0x66; 0x33; 0x19; 0x8c; 0xc0; 0x00;
   0x91; 0x48; 0xa4; 0x52; 0x20; 0x00; 0x42; 0xa1; 0x50; 0xa8; 0x50; 0x00;
   0xa4; 0x52; 0x29; 0x14; 0x80; 0x00; 0x13; 0x09; 0x84; 0xc2; 0x60; 0x00;
   0x30; 0x98; 0x4c; 0x26; 0x10; 0x00; 0x88; 0xc4; 0x62; 0x31; 0x10; 0x00;
   0x09; 0x04; 0x82; 0x41; 0x20; 0x00; 0x2c; 0x16; 0x0b; 0x05; 0x80; 0x00;
   0x91; 0x48; 0xa4; 0x52; 0x20; 0x00; 0xc0; 0xe0; 0x70; 0x38; 0x10; 0x00;
   0x06; 0x83; 0x41; 0xa0; 0xd0; 0x00; 0xc8; 0x64; 0x32; 0x19; 0x00; 0x00;
   0x45; 0x22; 0x91; 0x48; 0xa0; 0x00; 0x30; 0x98; 0x4c; 0x26; 0x10; 0x00;
   0xa2; 0x51; 0x28; 0x94; 0x40; 0x00; 0xd0; 0x03; 0x74; 0x00; 0xd0; 0x00;
   0x2c; 0x16; 0x0b; 0x05; 0x80; 0x00; 0x91; 0x48; 0xa4; 0x52; 0x20; 0x00;
   0xc0; 0xe0; 0x70; 0x38; 0x10; 0x00; 0x06; 0x83; 0x41; 0xa0; 0xd0; 0x00;
   0xc8; 0x64; 0x32; 0x19; 0x00; 0x00; 0x45; 0x22; 0x91; 0x48; 0xa0; 0x00;
   0x30; 0x98; 0x4c; 0x26; 0x10; 0x00; 0xa2; 0x51; 0x28; 0x94; 0x40; 0x00;
   0x4c; 0x26; 0x13; 0x09; 0x80; 0x00; 0x66; 0x33; 0x19; 0x8c; 0xc0; 0x00;
   0x91; 0x48; 0xa4; 0x52; 0x20; 0x00; 0x42; 0xa1; 0x50; 0xa8; 0x50; 0x00;
   0xa4; 0x52; 0x29; 0x14; 0x80; 0x00; 0x13; 0x09; 0x84; 0xc2; 0x60; 0x00;
   0x30; 0x98; 0x4c; 0x26; 0x10; 0x00; 0x88; 0xc4; 0x62; 0x31; 0x10; 0x00;
   0x09; 0x04; 0x82; 0x41; 0x20; 0x00; 0xa4; 0x9c; 0x31; 0x13; 0x80; 0x00].

Definition kMaskRandom37_1 : list Z :=
  [0xff; 0xff; 0xff; 0xff; 0xf8; 0x00].

Definition kMaskRandom37_2 : list Z :=
  [0xce; 0x67; 0x33; 0x9d; 0xc0; 0x00; 0x39; 0x9c; 0xce; 0x73; 0x38; 0x00].

Definition kMaskRandom37_3 : list Z :=
  [0xcc; 0x66; 0x33; 0x19; 0xc0; 0x00; 0x27; 0x15; 0x89; 0xcb; 0x30; 0x00;
   0x92; 0xc9; 0x64; 0xb4; 0x98; 0x00].

Definition kMaskRandom37_4 : list Z :=
  [0xec; 0x76; 0x3b; 0x1c; 0xc0; 0x00; 0x67; 0x33; 0x99; 0xc6; 0x70; 0x00;
   0xb1; 0xd8; 0xec; 0x73; 0x18; 0x00; 0x5a; 0xad; 0x56; 0xa5; 0xa8; 0x00].

Definition kMaskRandom37_5 : list Z :=
  [0x4c; 0xa6; 0x53; 0x39; 0xc0; 0x00; 0x66; 0x33; 0x19; 0x8c; 0x70; 0x00;
   0x19; 0xd0; 0xe8; 0x73; 0x18; 0x00; 0x9c; 0x89; 0x64; 0xa9; 0xa8; 0x00;
   0xe3; 0x4c; 0x2e; 0x26; 0x60; 0x00].

Definition kMaskRandom37_6 : list Z :=
  [0xcc; 0x26; 0x13; 0x0d; 0x80; 0x00; 0x45; 0x62; 0x91; 0x5a; 0x20; 0x00;
   0xb0; 0x98; 0x4c; 0x34; 0x18; 0x00; 0x8a; 0x85; 0x62; 0xa0; 0xa8; 0x00;
   0x29; 0x53; 0x09; 0x82; 0xd0; 0x00; 0xa6; 0x0a; 0xa5; 0x51; 0x40; 0x00].

Definition kMaskRandom37_7 : list Z :=
  [0x44; 0xa2; 0x71; 0x28; 0xc0; 0x00; 0x23; 0x11; 0x88; 0xc6; 0x60; 0x00;
   0x91; 0x48; 0xa4; 0x47; 0x08; 0x00; 0x0a; 0x85; 0x52; 0xa0; 0xa8; 0x00;
   0x34; 0x1a; 0x0d; 0x12; 0x50; 0x00; 0x0b; 0x06; 0xa2; 0xd2; 0x80; 0x00;
   0xe0; 0x64; 0x32; 0x09; 0x30; 0x00].

Definition kMaskRandom37_8 : list Z :=
  [0x16; 0x0b; 0x05; 0x84; 0xe0; 0x00; 0xc2; 0x61; 0x30; 0x91; 0x30; 0x00;
   0x60; 0xb0; 0x58; 0x3a; 0x08; 0x00; 0x85; 0x42; 0xa1; 0x44; 0x98; 0x00;
   0x4c; 0x26; 0x33; 0x08; 0x50; 0x00; 0x29; 0x14; 0x8a; 0x58; 0xc0; 0x00;
   0x11; 0x88; 0xc4; 0x66; 0x30; 0x00; 0xb0; 0x58; 0x2c; 0x03; 0x18; 0x00].

Definition kMaskRandom37_9 : list Z :=
  [0x44; 0xa2; 0x51; 0x29; 0xc0; 0x00; 0x66; 0x26; 0x19; 0x9c; 0x20; 0x00;
   0x90; 0x49; 0x44; 0xb0; 0x38; 0x00; 0x01; 0xa5; 0xb0; 0xc4; 0x28; 0x00;
   0x0e; 0x12; 0xa3; 0x0a; 0x50; 0x00; 0x13; 0x0b; 0x04; 0x56; 0xc0; 0x00;
   0x20; 0xd0; 0x48; 0x64; 0xd0; 0x00; 0xc2; 0x51; 0x28; 0x8b; 0x00; 0x00;
   0x29; 0x0c; 0x86; 0x03; 0x38; 0x00].

Definition kMaskRandom37_10 : list Z :=
  [0x8c; 0xc6; 0x63; 0x38; 0xc0; 0x00; 0x27; 0x13; 0x89; 0xc4; 0x70; 0x00;
   0x32; 0x99; 0x4c; 0xa3; 0x48; 0x00; 0x61; 0xb0; 0xd8; 0x64; 0x98; 0x00;
   0x5c; 0x2e; 0x17; 0x0e; 0x20; 0x00; 0xcc; 0x66; 0x33; 0x1d; 0x40; 0x00;
   0x2b; 0x15; 0x8a; 0xc6; 0x70; 0x00; 0x32; 0x99; 0x4c; 0xb4; 0x98; 0x00;
   0x25; 0x92; 0xc9; 0x63; 0xa8; 0x00; 0xfd; 0x9d; 0xd4; 0x22; 0x30; 0x00].

Definition kMaskRandom37_11 : list Z :=
  [0x8c; 0xc6; 0x63; 0x38; 0xc0; 0x00; 0x27; 0x13; 0x89; 0xc4; 0x70; 0x00;
   0x32; 0x99; 0x4c; 0xa3; 0x48; 0x00; 0x61; 0xb0; 0xd8; 0x64; 0x98; 0x00;
   0x5c; 0x2e; 0x17; 0x0e; 0x20; 0x00; 0x84; 0xc2; 0x61; 0x21; 0xc0; 0x00;
   0x27; 0x13; 0x89; 0xc6; 0x60; 0x00; 0x51; 0xa8; 0xd4; 0x62; 0x18; 0x00;
   0x1a; 0x0d; 0x06; 0x88; 0xa8; 0x00; 0x68; 0x34; 0x1a; 0x11; 0x10; 0x00;
   0x89; 0x44; 0xa2; 0x5c; 0x00; 0x00].

Definition kMaskRandom37_12 : list Z :=
  [0x84; 0xc2; 0x61; 0x21; 0xc0; 0x00; 0x27; 0x13; 0x89; 0xc6; 0x60; 0x00;
   0x51; 0xa8; 0xd4; 0x62; 0x18; 0x00; 0x1a; 0x0d; 0x06; 0x88; 0xa8; 0x00;
   0x68; 0x34; 0x1a; 0x11; 0x10; 0x00; 0x89; 0x44; 0xa2; 0x5c; 0x00; 0x00;
   0x8c; 0xc6; 0x63; 0x38; 0xc0; 0x00; 0x27; 0x13; 0x89; 0xc4; 0x70; 0x00;
   0x32; 0x99; 0x4c; 0xa3; 0x48; 0x00; 0x61; 0xb0; 0xd8; 0x64; 0x98; 0x00;
   0x5c; 0x2e; 0x17; 0x0e; 0x20; 0x00; 0x5b; 0x0c; 0x64; 0x32; 0x20; 0x00].

Definition kMaskRandom37_13 : list Z :=
  [0x84; 0xc2; 0x61; 0x21; 0xc0; 0x00; 0x27; 0x13; 0x89; 0xc6; 0x60; 0x00;
   0x51; 0xa8; 0xd4; 0x62; 0x18; 0x00; 0x1a; 0x0d; 0x06; 0x88; 0xa8; 0x00;
   0x68; 0x34; 0x1a; 0x11; 0x10; 0x00; 0x89; 0x44; 0xa2; 0x5c; 0x00; 0x00;
   0x8c; 0x46; 0x23; 0x08; 0xc0; 0x00; 0x47; 0x23; 0x91; 0xc6; 0x60; 0x00;
   0x81; 0xc0; 0xe0; 0x62; 0x18; 0x00; 0x12; 0x89; 0x44; 0xa1; 0x88; 0x00;
   0x58; 0x2c; 0x16; 0x05; 0x10; 0x00; 0x28; 0x94; 0x4a; 0x32; 0x80; 0x00;
   0x34; 0x1a; 0x0d; 0x18; 0x20; 0x00].

Definition kMaskRandom37_14 : list Z :=
  [0x8c; 0x46; 0x23; 0x08; 0xc0; 0x00; 0x47; 0x23; 0x91; 0xc6; 0x60; 0x00;
   0x81; 0xc0; 0xe0; 0x62; 0x18; 0x00; 0x12; 0x89; 0x44; 0xa1; 0x88; 0x00;
   0x58; 0x2c; 0x16; 0x05; 0x10; 0x00; 0x28; 0x94; 0x4a; 0x32; 0x80; 0x00;
   0x34; 0x1a; 0x0d; 0x18; 0x20; 0x00; 0x84; 0xc2; 0x61; 0x21; 0xc0; 0x00;
   0x27; 0x13; 0x89; 0xc6; 0x60; 0x00; 0x51; 0xa8; 0xd4; 0x62; 0x18; 0x00;
   0x1a; 0x0d; 0x06; 0x88; 0xa8; 0x00; 0x68; 0x34; 0x1a; 0x11; 0x10; 0x00;
   0x89; 0x44; 0xa2; 0x5c; 0x00; 0x00; 0x7f; 0x4f; 0xdb; 0x89; 0xd8; 0x00].

Definition kMaskRandom37_15 : list Z :=
  [0x8c; 0x46; 0x23; 0x08; 0xc0; 0x00; 0x47; 0x23; 0x91; 0xc6; 0x60; 0x00;
   0x81; 0xc0; 0xe0; 0x62; 0x18; 0x00; 0x12; 0x89; 0x44; 0xa1; 0x88; 0x00;
   0x58; 0x2c; 0x16; 0x05; 0x10; 0x00; 0x28; 0x94; 0x4a; 0x32; 0x80; 0x00;
   0x34; 0x1a; 0x0d; 0x18; 0x20; 0x00; 0x2c; 0x16; 0x0b; 0x05; 0x80; 0x00;
   0x91; 0x48; 0xa4; 0x50; 0x30; 0x00; 0xc0; 0xe0; 0x70; 0x34; 0x08; 0x00;
   0x06; 0x83; 0x41; 0xa0; 0xa8; 0x00; 0xc8; 0x64; 0x32; 0x03; 0x10; 0x00;
   0x45; 0x22; 0x91; 0x58; 0x40; 0x00; 0x30; 0x98; 0x4c; 0x24; 0x50; 0x00;
   0xa2; 0x51; 0x28; 0x8a; 0x08; 0x00].

Definition kMaskRandom37_16 : list Z :=
  [0x2c; 0x16; 0x0b; 0x05; 0x80; 0x00; 0x91; 0x48; 0xa4; 0x50; 0x30; 0x00;
   0xc0; 0xe0; 0x70; 0x34; 0x08; 0x00; 0x06; 0x83; 0x41; 0xa0; 0xa8; 0x00;
   0xc8; 0x64; 0x32; 0x03; 0x10; 0x00; 0x45; 0x22; 0x91; 0x58; 0x40; 0x00;
   0x30; 0x98; 0x4c; 0x24; 0x50; 0x00; 0xa2; 0x51; 0x28; 0x8a; 0x08; 0x00;
   0x8c; 0x46; 0x23; 0x08; 0xc0; 0x00; 0x47; 0x23; 0x91; 0xc6; 0x60; 0x00;
   0x81; 0xc0; 0xe0; 0x62; 0x18; 0x00; 0x12; 0x89; 0x44; 0xa1; 0x88; 0x00;
   0x58; 0x2c; 0x16; 0x05; 0x10; 0x00; 0x28; 0x94; 0x4a; 0x32; 0x80; 0x00;
   0x34; 0x1a; 0x0d; 0x18; 0x20; 0x00; 0xef; 0xf2; 0x1f; 0x9d; 0x78; 0x00].

Definition kMaskRandom37_17 : list Z :=
  [0x2c; 0x16; 0x0b; 0x05; 0x80; 0x00; 0x91; 0x48; 0xa4; 0x50; 0x30; 0x00;
   0xc0; 0xe0; 0x70; 0x34; 0x08; 0x00; 0x06; 0x83; 0x41; 0xa0; 0xa8; 0x00;
   0xc8; 0x64; 0x32; 0x03; 0x10; 0x00; 0x45; 0x22; 0x91; 0x58; 0x40; 0x00;
   0x30; 0x98; 0x4c; 0x24; 0x50; 0x00; 0xa2; 0x51; 0x28; 0x8a; 0x08; 0x00;
   0x4c; 0x26; 0x13; 0x09; 0xc0; 0x00; 0x66; 0x33; 0x19; 0x9c; 0x60; 0x00;
   0x91; 0x48; 0xa4; 0x50; 0x38; 0x00; 0x42; 0xa1; 0x50; 0xa4; 0x28; 0x00;
   0xa4; 0x52; 0x29; 0x0a; 0x50; 0x00; 0x13; 0x09; 0x84; 0xd6; 0x80; 0x00;
   0x30; 0x98; 0x4c; 0x24; 0xd0; 0x00; 0x88; 0xc4; 0x62; 0x2b; 0x08; 0x00;
   0x09; 0x04; 0x82; 0x43; 0x30; 0x00].

Definition kMaskRandom37_18 : list Z :=
  [0x4c; 0x26; 0x13; 0x09; 0xc0; 0x00; 0x66; 0x33; 0x19; 0x9c; 0x60; 0x00;
   0x91; 0x48; 0xa4; 0x50; 0x38; 0x00; 0x42; 0xa1; 0x50; 0xa4; 0x28; 0x00;
   0xa4; 0x52; 0x29; 0x0a; 0x50; 0x00; 0x13; 0x09; 0x84; 0xd6; 0x80; 0x00;
   0x30; 0x98; 0x4c; 0x24; 0xd0; 0x00; 0x88; 0xc4; 0x62; 0x2b; 0x08; 0x00;
   0x09; 0x04; 0x82; 0x43; 0x30; 0x00; 0x2c; 0x16; 0x0b; 0x05; 0x80; 0x00;
   0x91; 0x48; 0xa4; 0x50; 0x30; 0x00; 0xc0; 0xe0; 0x70; 0x34; 0x08; 0x00;
   0x06; 0x83; 0x41; 0xa0; 0xa8; 0x00; 0xc8; 0x64; 0x32; 0x03; 0x10; 0x00;
   0x45; 0x22; 0x91; 0x58; 0x40; 0x00; 0x30; 0x98; 0x4c; 0x24; 0x50; 0x00;
   0xa2; 0x51; 0x28; 0x8a; 0x08; 0x00; 0xd0; 0x03; 0x54; 0x65; 0xc8; 0x00].

Definition kMaskRandom37_19 : list Z :=
  [0x44; 0xa2; 0x51; 0x29; 0xc0; 0x00; 0x66; 0x26; 0x19; 0x9c; 0x20; 0x00;
   0x90; 0x49; 0x44; 0xb0; 0x38; 0x00; 0x01; 0xa5; 0xb0; 0xc4; 0x28; 0x00;
   0x0e; 0x12; 0xa3; 0x0a; 0x50; 0x00; 0x13; 0x0b; 0x04; 0x56; 0xc0; 0x00;
   0x20; 0xd0; 0x48; 0x64; 0xd0; 0x00; 0xc2; 0x51; 0x28; 0x8b; 0x00; 0x00;
   0x29; 0x0c; 0x86; 0x03; 0x38; 0x00; 0x8c; 0xc6; 0x63; 0x38; 0xc0; 0x00;
   0x27; 0x13; 0x89; 0xc4; 0x70; 0x00; 0x32; 0x99; 0x4c; 0xa3; 0x48; 0x00;
   0x61; 0xb0; 0xd8; 0x64; 0x98; 0x00; 0x5c; 0x2e; 0x17; 0x0e; 0x20; 0x00;
   0xcc; 0x66; 0x33; 0x1d; 0x40; 0x00; 0x2b; 0x15; 0x8a; 0xc6; 0x70; 0x00;
   0x32; 0x99; 0x4c; 0xb4; 0x98; 0x00; 0x25; 0x92; 0xc9; 0x63; 0xa8; 0x00;
   0xfd; 0x9d; 0xd4; 0x22; 0x30; 0x00].

Definition kMaskRandom37_20 : list Z :=
  [0x8c; 0xc6; 0x63; 0x38; 0xc0; 0x00; 0x27; 0x13; 0x89; 0xc4; 0x70; 0x00;
   0x32; 0x99; 0x4c; 0xa3; 0x48; 0x00; 0x61; 0xb0; 0xd8; 0x64; 0x98; 0x00;
   0x5c; 0x2e; 0x17; 0x0e; 0x20; 0x00; 0xcc; 0x66; 0x33; 0x1d; 0x40; 0x00;
   0x2b; 0x15; 0x8a; 0xc6; 0x70; 0x00; 0x32; 0x99; 0x4c; 0xb4; 0x98; 0x00;
   0x25; 0x92; 0xc9; 0x63; 0xa8; 0x00; 0xfd; 0x9d; 0xd4; 0x22; 0x30; 0x00;
   0x44; 0xa2; 0x51; 0x29; 0xc0; 0x00; 0x66; 0x26; 0x19; 0x9c; 0x20; 0x00;
   0x90; 0x49; 0x44; 0xb0; 0x38; 0x00; 0x01; 0xa5; 0xb0; 0xc4; 0x28; 0x00;
   0x0e; 0x12; 0xa3; 0x0a; 0x50; 0x00; 0x13; 0x0b; 0x04; 0x56; 0xc0; 0x00;
   0x20; 0xd0; 0x48; 0x64; 0xd0; 0x00; 0xc2; 0x51; 0x28; 0x8b; 0x00; 0x00;
   0x29; 0x0c; 0x86; 0x03; 0x38; 0x00; 0xe5; 0x44; 0xda; 0x3a; 0xc8; 0x00].

Definition kMaskRandom37_21 : list Z :=
  [0x8c; 0xc6; 0x63; 0x38; 0xc0; 0x00; 0x27; 0x13; 0x89; 0xc4; 0x70; 0x00;
   0x32; 0x99; 0x4c; 0xa3; 0x48; 0x00; 0x61; 0xb0; 0xd8; 0x64; 0x98; 0x00;
   0x5c; 0x2e; 0x17; 0x0e; 0x20; 0x00; 0xcc; 0x66; 0x33; 0x1d; 0x40; 0x00;
   0x2b; 0x15; 0x8a; 0xc6; 0x70; 0x00; 0x32; 0x99; 0x4c; 0xb4; 0x98; 0x00;
   0x25; 0x92; 0xc9; 0x63; 0xa8; 0x00; 0xfd; 0x9d; 0xd4; 0x22; 0x30; 0x00;
   0x8c; 0xc6; 0x63; 0x38; 0xc0; 0x00; 0x27; 0x13; 0x89; 0xc4; 0x70; 0x00;
   0x32; 0x99; 0x4c; 0xa3; 0x48; 0x00; 0x61; 0xb0; 0xd8; 0x64; 0x98; 0x00;
   0x5c; 0x2e; 0x17; 0x0e; 0x20; 0x00; 0x84; 0xc2; 0x61; 0x21; 0xc0; 0x00;
   0x27; 0x13; 0x89; 0xc6; 0x60; 0x00; 0x51; 0xa8; 0xd4; 0x62; 0x18; 0x00;
   0x1a; 0x0d; 0x06; 0x88; 0xa8; 0x00; 0x68; 0x34; 0x1a; 0x11; 0x10; 0x00;
   0x89; 0x44; 0xa2; 0x5c; 0x00; 0x00].

Definition kMaskRandom37_22 : list Z :=
  [0x8c; 0xc6; 0x63; 0x38; 0xc0; 0x00; 0x27; 0x13; 0x89; 0xc4; 0x70; 0x00;
   0x32; 0x99; 0x4c; 0xa3; 0x48; 0x00; 0x61; 0xb0; 0xd8; 0x64; 0x98; 0x00;
   0x5c; 0x2e; 0x17; 0x0e; 0x20; 0x00; 0x84; 0xc2; 0x61; 0x21; 0xc0; 0x00;
   0x27; 0x13; 0x89; 0xc6; 0x60; 0x00; 0x51; 0xa8; 0xd4; 0x62; 0x18; 0x00;
   0x1a; 0x0d; 0x06; 0x88; 0xa8; 0x00; 0x68; 0x34; 0x1a; 0x11; 0x10; 0x00;
   0x89; 0x44; 0xa2; 0x5c; 0x00; 0x00; 0x8c; 0xc6; 0x63; 0x38; 0xc0; 0x00;
   0x27; 0x13; 0x89; 0xc4; 0x70; 0x00; 0x32; 0x99; 0x4c; 0xa3; 0x48; 0x00;
   0x61; 0xb0; 0xd8; 0x64; 0x98; 0x00; 0x5c; 0x2e; 0x17; 0x0e; 0x20; 0x00;
   0xcc; 0x66; 0x33; 0x1d; 0x40; 0x00; 0x2b; 0x15; 0x8a; 0xc6; 0x70; 0x00;
   0x32; 0x99; 0x4c; 0xb4; 0x98; 0x00; 0x25; 0x92; 0xc9; 0x63; 0xa8; 0x00;
   0xfd; 0x9d; 0xd4; 0x22; 0x30; 0x00; 0xe4; 0xd3; 0xff; 0x5a; 0x28; 0x00].

Definition kMaskRandom37_23 : list Z :=
  [0x8c; 0xc6; 0x63; 0x38; 0xc0; 0x00; 0x27; 0x13; 0x89; 0xc4; 0x70; 0x00;
   0x32; 0x99; 0x4c; 0xa3; 0x48; 0x00; 0x61; 0xb0; 0xd8; 0x64; 0x98; 0x00;
   0x5c; 0x2e; 0x17; 0x0e; 0x20; 0x00; 0x84; 0xc2; 0x61; 0x21; 0xc0; 0x00;
   0x27; 0x13; 0x89; 0xc6; 0x60; 0x00; 0x51; 0xa8; 0xd4; 0x62; 0x18; 0x00;
   0x1a; 0x0d; 0x06; 0x88; 0xa8; 0x00; 0x68; 0x34; 0x1a; 0x11; 0x10; 0x00;
   0x89; 0x44; 0xa2; 0x5c; 0x00; 0x00; 0x84; 0xc2; 0x61; 0x21; 0xc0; 0x00;
   0x27; 0x13; 0x89; 0xc6; 0x60; 0x00; 0x51; 0xa8; 0xd4; 0x62; 0x18; 0x00;
   0x1a; 0x0d; 0x06; 0x88; 0xa8; 0x00; 0x68; 0x34; 0x1a; 0x11; 0x10; 0x00;
   0x89; 0x44; 0xa2; 0x5c; 0x00; 0x00; 0x8c; 0xc6; 0x63; 0x38; 0xc0; 0x00;
   0x27; 0x13; 0x89; 0xc4; 0x70; 0x00; 0x32; 0x99; 0x4c; 0xa3; 0x48; 0x00;
   0x61; 0xb0; 0xd8; 0x64; 0x98; 0x00; 0x5c; 0x2e; 0x17; 0x0e; 0x20; 0x00;
   0x5b; 0x0c; 0x64; 0x32; 0x20; 0x00].

Definition kMaskRandom37_24 : list Z :=
  [0x84; 0xc2; 0x61; 0x21; 0xc0; 0x00; 0x27; 0x13; 0x89; 0xc6; 0x60; 0x00;
   0x51; 0xa8; 0xd4; 0x62; 0x18; 0x00; 0x1a; 0x0d; 0x06; 0x88; 0xa8; 0x00;
   0x68; 0x34; 0x1a; 0x11; 0x10; 0x00; 0x89; 0x44; 0xa2; 0x5c; 0x00; 0x00;
   0x8c; 0xc6; 0x63; 0x38; 0xc0; 0x00; 0x27; 0x13; 0x89; 0xc4; 0x70; 0x00;
   0x32; 0x99; 0x4c; 0xa3; 0x48; 0x00; 0x61; 0xb0; 0xd8; 0x64; 0x98; 0x00;
   0x5c; 0x2e; 0x17; 0x0e; 0x20; 0x00; 0x5b; 0x0c; 0x64; 0x32; 0x20; 0x00;
   0x8c; 0xc6; 0x63; 0x38; 0xc0; 0x00; 0x27; 0x13; 0x89; 0xc4; 0x70; 0x00;
   0x32; 0x99; 0x4c; 0xa3; 0x48; 0x00; 0x61; 0xb0; 0xd8; 0x64; 0x98; 0x00;
   0x5c; 0x2e; 0x17; 0x0e; 0x20; 0x00; 0x84; 0xc2; 0x61; 0x21; 0xc0; 0x00;
   0x27; 0x13; 0x89; 0xc6; 0x60; 0x00; 0x51; 0xa8; 0xd4; 0x62; 0x18; 0x00;
   0x1a; 0x0d; 0x06; 0x88; 0xa8; 0x00; 0x68; 0x34; 0x1a; 0x11; 0x10; 0x00;
   0x89; 0x44; 0xa2; 0x5c; 0x00; 0x00; 0xad; 0x58; 0xb2; 0x36; 0x68; 0x00].

Definition kMaskRandom37_25 : list Z :=
  [0x84; 0xc2; 0x61; 0x21; 0xc0; 0x00; 0x27; 0x13; 0x89; 0xc6; 0x60; 0x00;
   0x51; 0xa8; 0xd4; 0x62; 0x18; 0x00; 0x1a; 0x0d; 0x06; 0x88; 0xa8; 0x00;
   0x68; 0x34; 0x1a; 0x11; 0x10; 0x00; 0x89; 0x44; 0xa2; 0x5c; 0x00; 0x00;
   0x8c; 0xc6; 0x63; 0x38; 0xc0; 0x00; 0x27; 0x13; 0x89; 0xc4; 0x70; 0x00;
   0x32; 0x99; 0x4c; 0xa3; 0x48; 0x00; 0x61; 0xb0; 0xd8; 0x64; 0x98; 0x00;
   0x5c; 0x2e; 0x17; 0x0e; 0x20; 0x00; 0x5b; 0x0c; 0x64; 0x32; 0x20; 0x00;
   0x84; 0xc2; 0x61; 0x21; 0xc0; 0x00; 0x27; 0x13; 0x89; 0xc6; 0x60; 0x00;
   0x51; 0xa8; 0xd4; 0x62; 0x18; 0x00; 0x1a; 0x0d; 0x06; 0x88; 0xa8; 0x00;
   0x68; 0x34; 0x1a; 0x11; 0x10; 0x00; 0x89; 0x44; 0xa2; 0x5c; 0x00; 0x00;
   0x8c; 0x46; 0x23; 0x08; 0xc0; 0x00; 0x47; 0x23; 0x91; 0xc6; 0x60; 0x00;
   0x81; 0xc0; 0xe0; 0x62; 0x18; 0x00; 0x12; 0x89; 0x44; 0xa1; 0x88; 0x00;
   0x58; 0x2c; 0x16; 0x05; 0x10; 0x00; 0x28; 0x94; 0x4a; 0x32; 0x80; 0x00;
   0x34; 0x1a; 0x0d; 0x18; 0x20; 0x00].

Definition kMaskRandom37_26 : list Z :=
  [0x84; 0xc2; 0x61; 0x21; 0xc0; 0x00; 0x27; 0x13; 0x89; 0xc6; 0x60; 0x00;
   0x51; 0xa8; 0xd4; 0x62; 0x18; 0x00; 0x1a; 0x0d; 0x06; 0x88; 0xa8; 0x00;
   0x68; 0x34; 0x1a; 0x11; 0x10; 0x00; 0x89; 0x44; 0xa2; 0x5c; 0x00; 0x00;
   0x8c; 0x46; 0x23; 0x08; 0xc0; 0x00; 0x47; 0x23; 0x91; 0xc6; 0x60; 0x00;
   0x81; 0xc0; 0xe0; 0x62; 0x18; 0x00; 0x12; 0x89; 0x44; 0xa1; 0x88; 0x00;
   0x58; 0x2c; 0x16; 0x05; 0x10; 0x00; 0x28; 0x94; 0x4a; 0x32; 0x80; 0x00;
   0x34; 0x1a; 0x0d; 0x18; 0x20; 0x00; 0x84; 0xc2; 0x61; 0x21; 0xc0; 0x00;
   0x27; 0x13; 0x89; 0xc6; 0x60; 0x00; 0x51; 0xa8; 0xd4; 0x62; 0x18; 0x00;
   0x1a; 0x0d; 0x06; 0x88; 0xa8; 0x00; 0x68; 0x34; 0x1a; 0x11; 0x10; 0x00;
   0x89; 0x44; 0xa2; 0x5c; 0x00; 0x00; 0x8c; 0xc6; 0x63; 0x38; 0xc0; 0x00;
   0x27; 0x13; 0x89; 0xc4; 0x70; 0x00; 0x32; 0x99; 0x4c; 0xa3; 0x48; 0x00;
   0x61; 0xb0; 0xd8; 0x64; 0x98; 0x00; 0x5c; 0x2e; 0x17; 0x0e; 0x20; 0x00;
   0x5b; 0x0c; 0x64; 0x32; 0x20; 0x00; 0x7f; 0xb2; 0x5a; 0xaa; 0x20; 0x00].

Definition kMaskRandom37_27 : list Z :=
  [0x84; 0xc2; 0x61; 0x21; 0xc0; 0x00; 0x27; 0x13; 0x89; 0xc6; 0x60; 0x00;
   0x51; 0xa8; 0xd4; 0x62; 0x18; 0x00; 0x1a; 0x0d; 0x06; 0x88; 0xa8; 0x00;
   0x68; 0x34; 0x1a; 0x11; 0x10; 0x00; 0x89; 0x44; 0xa2; 0x5c; 0x00; 0x00;
   0x8c; 0x46; 0x23; 0x08; 0xc0; 0x00; 0x47; 0x23; 0x91; 0xc6; 0x60; 0x00;
   0x81; 0xc0; 0xe0; 0x62; 0x18; 0x00; 0x12; 0x89; 0x44; 0xa1; 0x88; 0x00;
   0x58; 0x2c; 0x16; 0x05; 0x10; 0x00; 0x28; 0x94; 0x4a; 0x32; 0x80; 0x00;
   0x34; 0x1a; 0x0d; 0x18; 0x20; 0x00; 0x8c; 0x46; 0x23; 0x08; 0xc0; 0x00;
   0x47; 0x23; 0x91; 0xc6; 0x60; 0x00; 0x81; 0xc0; 0xe0; 0x62; 0x18; 0x00;
   0x12; 0x89; 0x44; 0xa1; 0x88; 0x00; 0x58; 0x2c; 0x16; 0x05; 0x10; 0x00;
   0x28; 0x94; 0x4a; 0x32; 0x80; 0x00; 0x34; 0x1a; 0x0d; 0x18; 0x20; 0x00;
   0x84; 0xc2; 0x61; 0x21; 0xc0; 0x00; 0x27; 0x13; 0x89; 0xc6; 0x60; 0x00;
   0x51; 0xa8; 0xd4; 0x62; 0x18; 0x00; 0x1a; 0x0d; 0x06; 0x88; 0xa8; 0x00;
   0x68; 0x34; 0x1a; 0x11; 0x10; 0x00; 0x89; 0x44; 0xa2; 0x5c; 0x00; 0x00;
   0x7f; 0x4f; 0xdb; 0x89; 0xd8; 0x00].

Definition kMaskRandom37_28 : list Z :=
  [0x8c; 0x46; 0x23; 0x08; 0xc0; 0x00; 0x47; 0x23; 0x91; 0xc6; 0x60; 0x00;
   0x81; 0xc0; 0xe0; 0x62; 0x18; 0x00; 0x12; 0x89; 0x44; 0xa1; 0x88; 0x00;
   0x58; 0x2c; 0x16; 0x05; 0x10; 0x00; 0x28; 0x94; 0x4a; 0x32; 0x80; 0x00;
   0x34; 0x1a; 0x0d; 0x18; 0x20; 0x00; 0x84; 0xc2; 0x61; 0x21; 0xc0; 0x00;
   0x27; 0x13; 0x89; 0xc6; 0x60; 0x00; 0x51; 0xa8; 0xd4; 0x62; 0x18; 0x00;
   0x1a; 0x0d; 0x06; 0x88; 0xa8; 0x00; 0x68; 0x34; 0x1a; 0x11; 0x10; 0x00;
   0x89; 0x44; 0xa2; 0x5c; 0x00; 0x00; 0x7f; 0x4f; 0xdb; 0x89; 0xd8; 0x00;
   0x84; 0xc2; 0x61; 0x21; 0xc0; 0x00; 0x27; 0x13; 0x89; 0xc6; 0x60; 0x00;
   0x51; 0xa8; 0xd4; 0x62; 0x18; 0x00; 0x1a; 0x0d; 0x06; 0x88; 0xa8; 0x00;
   0x68; 0x34; 0x1a; 0x11; 0x10; 0x00; 0x89; 0x44; 0xa2; 0x5c; 0x00; 0x00;
   0x8c; 0x46; 0x23; 0x08; 0xc0; 0x00; 0x47; 0x23; 0x91; 0xc6; 0x60; 0x00;
   0x81; 0xc0; 0xe0; 0x62; 0x18; 0x00; 0x12; 0x89; 0x44; 0xa1; 0x88; 0x00;
   0x58; 0x2c; 0x16; 0x05; 0x10; 0x00; 0x28; 0x94; 0x4a; 0x32; 0x80; 0x00;
   0x34; 0x1a; 0x0d; 0x18; 0x20; 0x00; 0x7b; 0xc4; 0x24; 0xbf; 0x10; 0x00].

Definition kMaskRandom37_29 : list Z :=
  [0x8c; 0x46; 0x23; 0x08; 0xc0; 0x00; 0x47; 0x23; 0x91; 0xc6; 0x60; 0x00;
   0x81; 0xc0; 0xe0; 0x62; 0x18; 0x00; 0x12; 0x89; 0x44; 0xa1; 0x88; 0x00;
   0x58; 0x2c; 0x16; 0x05; 0x10; 0x00; 0x28; 0x94; 0x4a; 0x32; 0x80; 0x00;
   0x34; 0x1a; 0x0d; 0x18; 0x20; 0x00; 0x84; 0xc2; 0x61; 0x21; 0xc0; 0x00;
   0x27; 0x13; 0x89; 0xc6; 0x60; 0x00; 0x51; 0xa8; 0xd4; 0x62; 0x18; 0x00;
   0x1a; 0x0d; 0x06; 0x88; 0xa8; 0x00; 0x68; 0x34; 0x1a; 0x11; 0x10; 0x00;
   0x89; 0x44; 0xa2; 0x5c; 0x00; 0x00; 0x7f; 0x4f; 0xdb; 0x89; 0xd8; 0x00;
   0x8c; 0x46; 0x23; 0x08; 0xc0; 0x00; 0x47; 0x23; 0x91; 0xc6; 0x60; 0x00;
   0x81; 0xc0; 0xe0; 0x62; 0x18; 0x00; 0x12; 0x89; 0x44; 0xa1; 0x88; 0x00;
   0x58; 0x2c; 0x16; 0x05; 0x10; 0x00; 0x28; 0x94; 0x4a; 0x32; 0x80; 0x00;
   0x34; 0x1a; 0x0d; 0x18; 0x20; 0x00; 0x2c; 0x16; 0x0b; 0x05; 0x80; 0x00;
   0x91; 0x48; 0xa4; 0x50; 0x30; 0x00; 0xc0; 0xe0; 0x70; 0x34; 0x08; 0x00;
   0x06; 0x83; 0x41; 0xa0; 0xa8; 0x00; 0xc8; 0x64; 0x32; 0x03; 0x10; 0x00;
   0x45; 0x22; 0x91; 0x58; 0x40; 0x00; 0x30; 0x98; 0x4c; 0x24; 0x50; 0x00;
   0xa2; 0x51; 0x28; 0x8a; 0x08; 0x00].

Definition kMaskRandom37_30 : list Z :=
  [0x8c; 0x46; 0x23; 0x08; 0xc0; 0x00; 0x47; 0x23; 0x91; 0xc6; 0x60; 0x00;
   0x81; 0xc0; 0xe0; 0x62; 0x18; 0x00; 0x12; 0x89; 0x44; 0xa1; 0x88; 0x00;
   0x58; 0x2c; 0x16; 0x05; 0x10; 0x00; 0x28; 0x94; 0x4a; 0x32; 0x80; 0x00;
   0x34; 0x1a; 0x0d; 0x18; 0x20; 0x00; 0x2c; 0x16; 0x0b; 0x05; 0x80; 0x00;
   0x91; 0x48; 0xa4; 0x50; 0x30; 0x00; 0xc0; 0xe0; 0x70; 0x34; 0x08; 0x00;
   0x06; 0x83; 0x41; 0xa0; 0xa8; 0x00; 0xc8; 0x64; 0x32; 0x03; 0x10; 0x00;
   0x45; 0x22; 0x91; 0x58; 0x40; 0x00; 0x30; 0x98; 0x4c; 0x24; 0x50; 0x00;
   0xa2; 0x51; 0x28; 0x8a; 0x08; 0x00; 0x8c; 0x46; 0x23; 0x08; 0xc0; 0x00;
   0x47; 0x23; 0x91; 0xc6; 0x60; 0x00; 0x81; 0xc0; 0xe0; 0x62; 0x18; 0x00;
   0x12; 0x89; 0x44; 0xa1; 0x88; 0x00; 0x58; 0x2c; 0x16; 0x05; 0x10; 0x00;
   0x28; 0x94; 0x4a; 0x32; 0x80; 0x00; 0x34; 0x1a; 0x0d; 0x18; 0x20; 0x00;
   0x84; 0xc2; 0x61; 0x21; 0xc0; 0x00; 0x27; 0x13; 0x89; 0xc6; 0x60; 0x00;
   0x51; 0xa8; 0xd4; 0x62; 0x18; 0x00; 0x1a; 0x0d; 0x06; 0x88; 0xa8; 0x00;
   0x68; 0x34; 0x1a; 0x11; 0x10; 0x00; 0x89; 0x44; 0xa2; 0x5c; 0x00; 0x00;
   0x7f; 0x4f; 0xdb; 0x89; 0xd8; 0x00; 0x1d; 0x8e; 0x11; 0xb0; 0xe8; 0x00].

Definition kMaskRandom37_31 : list Z :=
  [0x8c; 0x46; 0x23; 0x08; 0xc0; 0x00; 0x47; 0x23; 0x91; 0xc6; 0x60; 0x00;
   0x81; 0xc0; 0xe0; 0x62; 0x18; 0x00; 0x12; 0x89; 0x44; 0xa1; 0x88; 0x00;
   0x58; 0x2c; 0x16; 0x05; 0x10; 0x00; 0x28; 0x94; 0x4a; 0x32; 0x80; 0x00;
   0x34; 0x1a; 0x0d; 0x18; 0x20; 0x00; 0x2c; 0x16; 0x0b; 0x05; 0x80; 0x00;
   0x91; 0x48; 0xa4; 0x50; 0x30; 0x00; 0xc0; 0xe0; 0x70; 0x34; 0x08; 0x00;
   0x06; 0x83; 0x41; 0xa0; 0xa8; 0x00; 0xc8; 0x64; 0x32; 0x03; 0x10; 0x00;
   0x45; 0x22; 0x91; 0x58; 0x40; 0x00; 0x30; 0x98; 0x4c; 0x24; 0x50; 0x00;
   0xa2; 0x51; 0x28; 0x8a; 0x08; 0x00; 0x2c; 0x16; 0x0b; 0x05; 0x80; 0x00;
   0x91; 0x48; 0xa4; 0x50; 0x30; 0x00; 0xc0; 0xe0; 0x70; 0x34; 0x08; 0x00;
   0x06; 0x83; 0x41; 0xa0; 0xa8; 0x00; 0xc8; 0x64; 0x32; 0x03; 0x10; 0x00;
   0x45; 0x22; 0x91; 0x58; 0x40; 0x00; 0x30; 0x98; 0x4c; 0x24; 0x50; 0x00;
   0xa2; 0x51; 0x28; 0x8a; 0x08; 0x00; 0x8c; 0x46; 0x23; 0x08; 0xc0; 0x00;
   0x47; 0x23; 0x91; 0xc6; 0x60; 0x00; 0x81; 0xc0; 0xe0; 0x62; 0x18; 0x00;
   0x12; 0x89; 0x44; 0xa1; 0x88; 0x00; 0x58; 0x2c; 0x16; 0x05; 0x10; 0x00;
   0x28; 0x94; 0x4a; 0x32; 0x80; 0x00; 0x34; 0x1a; 0x0d; 0x18; 0x20; 0x00;
   0xef; 0xf2; 0x1f; 0x9d; 0x78; 0x00].

Definition kMaskRandom37_32 : list Z :=
  [0x2c; 0x16; 0x0b; 0x05; 0x80; 0x00; 0x91; 0x48; 0xa4; 0x50; 0x30; 0x00;
   0xc0; 0xe0; 0x70; 0x34; 0x08; 0x00; 0x06; 0x83; 0x41; 0xa0; 0xa8; 0x00;
   0xc8; 0x64; 0x32; 0x03; 0x10; 0x00; 0x45; 0x22; 0x91; 0x58; 0x40; 0x00;
   0x30; 0x98; 0x4c; 0x24; 0x50; 0x00; 0xa2; 0x51; 0x28; 0x8a; 0x08; 0x00;
   0x8c; 0x46; 0x23; 0x08; 0xc0; 0x00; 0x47; 0x23; 0x91; 0xc6; 0x60; 0x00;
   0x81; 0xc0; 0xe0; 0x62; 0x18; 0x00; 0x12; 0x89; 0x44; 0xa1; 0x88; 0x00;
   0x58; 0x2c; 0x16; 0x05; 0x10; 0x00; 0x28; 0x94; 0x4a; 0x32; 0x80; 0x00;
   0x34; 0x1a; 0x0d; 0x18; 0x20; 0x00; 0xef; 0xf2; 0x1f; 0x9d; 0x78; 0x00;
   0x8c; 0x46; 0x23; 0x08; 0xc0; 0x00; 0x47; 0x23; 0x91; 0xc6; 0x60; 0x00;
   0x81; 0xc0; 0xe0; 0x62; 0x18; 0x00; 0x12; 0x89; 0x44; 0xa1; 0x88; 0x00;
   0x58; 0x2c; 0x16; 0x05; 0x10; 0x00; 0x28; 0x94; 0x4a; 0x32; 0x80; 0x00;
   0x34; 0x1a; 0x0d; 0x18; 0x20; 0x00; 0x2c; 0x16; 0x0b; 0x05; 0x80; 0x00;
   0x91; 0x48; 0xa4; 0x50; 0x30; 0x00; 0xc0; 0xe0; 0x70; 0x34; 0x08; 0x00;
   0x06; 0x83; 0x41; 0xa0; 0xa8; 0x00; 0xc8; 0x64; 0x32; 0x03; 0x10; 0x00;
   0x45; 0x22; 0x91; 0x58; 0x40; 0x00; 0x30; 0x98; 0x4c; 0x24; 0x50; 0x00;
   0xa2; 0x51; 0x28; 0x8a; 0x08; 0x00; 0xf7; 0x95; 0x57; 0x8c; 0x40; 0x00].

Definition kMaskRandom37_33 : list Z :=
  [0x2c; 0x16; 0x0b; 0x05; 0x80; 0x00; 0x91; 0x48; 0xa4; 0x50; 0x30; 0x00;
   0xc0; 0xe0; 0x70; 0x34; 0x08; 0x00; 0x06; 0x83; 0x41; 0xa0; 0xa8; 0x00;
   0xc8; 0x64; 0x32; 0x03; 0x10; 0x00; 0x45; 0x22; 0x91; 0x58; 0x40; 0x00;
   0x30; 0x98; 0x4c; 0x24; 0x50; 0x00; 0xa2; 0x51; 0x28; 0x8a; 0x08; 0x00;
   0x8c; 0x46; 0x23; 0x08; 0xc0; 0x00; 0x47; 0x23; 0x91; 0xc6; 0x60; 0x00;
   0x81; 0xc0; 0xe0; 0x62; 0x18; 0x00; 0x12; 0x89; 0x44; 0xa1; 0x88; 0x00;
   0x58; 0x2c; 0x16; 0x05; 0x10; 0x00; 0x28; 0x94; 0x4a; 0x32; 0x80; 0x00;
   0x34; 0x1a; 0x0d; 0x18; 0x20; 0x00; 0xef; 0xf2; 0x1f; 0x9d; 0x78; 0x00;
   0x2c; 0x16; 0x0b; 0x05; 0x80; 0x00; 0x91; 0x48; 0xa4; 0x50; 0x30; 0x00;
   0xc0; 0xe0; 0x70; 0x34; 0x08; 0x00; 0x06; 0x83; 0x41; 0xa0; 0xa8; 0x00;
   0xc8; 0x64; 0x32; 0x03; 0x10; 0x00; 0x45; 0x22; 0x91; 0x58; 0x40; 0x00;
   0x30; 0x98; 0x4c; 0x24; 0x50; 0x00; 0xa2; 0x51; 0x28; 0x8a; 0x08; 0x00;
   0x4c; 0x26; 0x13; 0x09; 0xc0; 0x00; 0x66; 0x33; 0x19; 0x9c; 0x60; 0x00;
   0x91; 0x48; 0xa4; 0x50; 0x38; 0x00; 0x42; 0xa1; 0x50; 0xa4; 0x28; 0x00;
   0xa4; 0x52; 0x29; 0x0a; 0x50; 0x00; 0x13; 0x09; 0x84; 0xd6; 0x80; 0x00;
   0x30; 0x98; 0x4c; 0x24; 0xd0; 0x00; 0x88; 0xc4; 0x62; 0x2b; 0x08; 0x00;
   0x09; 0x04; 0x82; 0x43; 0x30; 0x00].

Definition kMaskRandom37_34 : list Z :=
  [0x2c; 0x16; 0x0b; 0x05; 0x80; 0x00; 0x91; 0x48; 0xa4; 0x50; 0x30; 0x00;
   0xc0; 0xe0; 0x70; 0x34; 0x08; 0x00; 0x06; 0x83; 0x41; 0xa0; 0xa8; 0x00;
   0xc8; 0x64; 0x32; 0x03; 0x10; 0x00; 0x45; 0x22; 0x91; 0x58; 0x40; 0x00;
   0x30; 0x98; 0x4c; 0x24; 0x50; 0x00; 0xa2; 0x51; 0x28; 0x8a; 0x08; 0x00;
   0x4c; 0x26; 0x13; 0x09; 0xc0; 0x00; 0x66; 0x33; 0x19; 0x9c; 0x60; 0x00;
   0x91; 0x48; 0xa4; 0x50; 0x38; 0x00; 0x42; 0xa1; 0x50; 0xa4; 0x28; 0x00;
   0xa4; 0x52; 0x29; 0x0a; 0x50; 0x00; 0x13; 0x09; 0x84; 0xd6; 0x80; 0x00;
   0x30; 0x98; 0x4c; 0x24; 0xd0; 0x00; 0x88; 0xc4; 0x62; 0x2b; 0x08; 0x00;
   0x09; 0x04; 0x82; 0x43; 0x30; 0x00; 0x2c; 0x16; 0x0b; 0x05; 0x80; 0x00;
   0x91; 0x48; 0xa4; 0x50; 0x30; 0x00; 0xc0; 0xe0; 0x70; 0x34; 0x08; 0x00;
   0x06; 0x83; 0x41; 0xa0; 0xa8; 0x00; 0xc8; 0x64; 0x32; 0x03; 0x10; 0x00;
   0x45; 0x22; 0x91; 0x58; 0x40; 0x00; 0x30; 0x98; 0x4c; 0x24; 0x50; 0x00;
   0xa2; 0x51; 0x28; 0x8a; 0x08; 0x00; 0x8c; 0x46; 0x23; 0x08; 0xc0; 0x00;
   0x47; 0x23; 0x91; 0xc6; 0x60; 0x00; 0x81; 0xc0; 0xe0; 0x62; 0x18; 0x00;
   0x12; 0x89; 0x44; 0xa1; 0x88; 0x00; 0x58; 0x2c; 0x16; 0x05; 0x10; 0x00;
   0x28; 0x94; 0x4a; 0x32; 0x80; 0x00; 0x34; 0x1a; 0x0d; 0x18; 0x20; 0x00;
   0xef; 0xf2; 0x1f; 0x9d; 0x78; 0x00; 0x31; 0x9c; 0xfb; 0x37; 0xc0; 0x00].

Definition kMaskRandom37_35 : list Z :=
  [0x2c; 0x16; 0x0b; 0x05; 0x80; 0x00; 0x91; 0x48; 0xa4; 0x50; 0x30; 0x00;
   0xc0; 0xe0; 0x70; 0x34; 0x08; 0x00; 0x06; 0x83; 0x41; 0xa0; 0xa8; 0x00;
   0xc8; 0x64; 0x32; 0x03; 0x10; 0x00; 0x45; 0x22; 0x91; 0x58; 0x40; 0x00;
   0x30; 0x98; 0x4c; 0x24; 0x50; 0x00; 0xa2; 0x51; 0x28; 0x8a; 0x08; 0x00;
   0x4c; 0x26; 0x13; 0x09; 0xc0; 0x00; 0x66; 0x33; 0x19; 0x9c; 0x60; 0x00;
   0x91; 0x48; 0xa4; 0x50; 0x38; 0x00; 0x42; 0xa1; 0x50; 0xa4; 0x28; 0x00;
   0xa4; 0x52; 0x29; 0x0a; 0x50; 0x00; 0x13; 0x09; 0x84; 0xd6; 0x80; 0x00;
   0x30; 0x98; 0x4c; 0x24; 0xd0; 0x00; 0x88; 0xc4; 0x62; 0x2b; 0x08; 0x00;
   0x09; 0x04; 0x82; 0x43; 0x30; 0x00; 0x4c; 0x26; 0x13; 0x09; 0xc0; 0x00;
   0x66; 0x33; 0x19; 0x9c; 0x60; 0x00; 0x91; 0x48; 0xa4; 0x50; 0x38; 0x00;
   0x42; 0xa1; 0x50; 0xa4; 0x28; 0x00; 0xa4; 0x52; 0x29; 0x0a; 0x50; 0x00;
   0x13; 0x09; 0x84; 0xd6; 0x80; 0x00; 0x30; 0x98; 0x4c; 0x24; 0xd0; 0x00;
   0x88; 0xc4; 0x62; 0x2b; 0x08; 0x00; 0x09; 0x04; 0x82; 0x43; 0x30; 0x00;
   0x2c; 0x16; 0x0b; 0x05; 0x80; 0x00; 0x91; 0x48; 0xa4; 0x50; 0x30; 0x00;
   0xc0; 0xe0; 0x70; 0x34; 0x08; 0x00; 0x06; 0x83; 0x41; 0xa0; 0xa8; 0x00;
   0xc8; 0x64; 0x32; 0x03; 0x10; 0x00; 0x45; 0x22; 0x91; 0x58; 0x40; 0x00;
   0x30; 0x98; 0x4c; 0x24; 0x50; 0x00; 0xa2; 0x51; 0x28; 0x8a; 0x08; 0x00;
   0xd0; 0x03; 0x54; 0x65; 0xc8; 0x00].

Definition kMaskRandom37_36 : list Z :=
  [0x4c; 0x26; 0x13; 0x09; 0xc0; 0x00; 0x66; 0x33; 0x19; 0x9c; 0x60; 0x00;
   0x91; 0x48; 0xa4; 0x50; 0x38; 0x00; 0x42; 0xa1; 0x50; 0xa4; 0x28; 0x00;
   0xa4; 0x52; 0x29; 0x0a; 0x50; 0x00; 0x13; 0x09; 0x84; 0xd6; 0x80; 0x00;
   0x30; 0x98; 0x4c; 0x24; 0xd0; 0x00; 0x88; 0xc4; 0x62; 0x2b; 0x08; 0x00;
   0x09; 0x04; 0x82; 0x43; 0x30; 0x00; 0x2c; 0x16; 0x0b; 0x05; 0x80; 0x00;
   0x91; 0x48; 0xa4; 0x50; 0x30; 0x00; 0xc0; 0xe0; 0x70; 0x34; 0x08; 0x00;
   0x06; 0x83; 0x41; 0xa0; 0xa8; 0x00; 0xc8; 0x64; 0x32; 0x03; 0x10; 0x00;
   0x45; 0x22; 0x91; 0x58; 0x40; 0x00; 0x30; 0x98; 0x4c; 0x24; 0x50; 0x00;
   0xa2; 0x51; 0x28; 0x8a; 0x08; 0x00; 0xd0; 0x03; 0x54; 0x65; 0xc8; 0x00;
   0x2c; 0x16; 0x0b; 0x05; 0x80; 0x00; 0x91; 0x48; 0xa4; 0x50; 0x30; 0x00;
   0xc0; 0xe0; 0x70; 0x34; 0x08; 0x00; 0x06; 0x83; 0x41; 0xa0; 0xa8; 0x00;
   0xc8; 0x64; 0x32; 0x03; 0x10; 0x00; 0x45; 0x22; 0x91; 0x58; 0x40; 0x00;
   0x30; 0x98; 0x4c; 0x24; 0x50; 0x00; 0xa2; 0x51; 0x28; 0x8a; 0x08; 0x00;
   0x4c; 0x26; 0x13; 0x09; 0xc0; 0x00; 0x66; 0x33; 0x19; 0x9c; 0x60; 0x00;
   0x91; 0x48; 0xa4; 0x50; 0x38; 0x00; 0x42; 0xa1; 0x50; 0xa4; 0x28; 0x00;
   0xa4; 0x52; 0x29; 0x0a; 0x50; 0x00; 0x13; 0x09; 0x84; 0xd6; 0x80; 0x00;
   0x30; 0x98; 0x4c; 0x24; 0xd0; 0x00; 0x88; 0xc4; 0x62; 0x2b; 0x08; 0x00;
   0x09; 0x04; 0x82; 0x43; 0x30; 0x00; 0xc3; 0xc7; 0xce; 0xd8; 0x50; 0x00].

Definition kMaskRandom37_37 : list Z :=
  [0x4c; 0x26; 0x13; 0x09; 0xc0; 0x00; 0x66; 0x33; 0x19; 0x9c; 0x60; 0x00;
   0x91; 0x48; 0xa4; 0x50; 0x38; 0x00; 0x42; 0xa1; 0x50; 0xa4; 0x28; 0x00;
   0xa4; 0x52; 0x29; 0x0a; 0x50; 0x00; 0x13; 0x09; 0x84; 0xd6; 0x80; 0x00;
   0x30; 0x98; 0x4c; 0x24; 0xd0; 0x00; 0x88; 0xc4; 0x62; 0x2b; 0x08; 0x00;
   0x09; 0x04; 0x82; 0x43; 0x30; 0x00; 0x2c; 0x16; 0x0b; 0x05; 0x80; 0x00;
   0x91; 0x48; 0xa4; 0x50; 0x30; 0x00; 0xc0; 0xe0; 0x70; 0x34; 0x08; 0x00;
   0x06; 0x83; 0x41; 0xa0; 0xa8; 0x00; 0xc8; 0x64; 0x32; 0x03; 0x10; 0x00;
   0x45; 0x22; 0x91; 0x58; 0x40; 0x00; 0x30; 0x98; 0x4c; 0x24; 0x50; 0x00;
   0xa2; 0x51; 0x28; 0x8a; 0x08; 0x00; 0xd0; 0x03; 0x54; 0x65; 0xc8; 0x00;
   0x4c; 0x26; 0x13; 0x09; 0xc0; 0x00; 0x66; 0x33; 0x19; 0x9c; 0x60; 0x00;
   0x91; 0x48; 0xa4; 0x50; 0x38; 0x00; 0x42; 0xa1; 0x50; 0xa4; 0x28; 0x00;
   0xa4; 0x52; 0x29; 0x0a; 0x50; 0x00; 0x13; 0x09; 0x84; 0xd6; 0x80; 0x00;
   0x30; 0x98; 0x4c; 0x24; 0xd0; 0x00; 0x88; 0xc4; 0x62; 0x2b; 0x08; 0x00;
   0x09; 0x04; 0x82; 0x43; 0x30; 0x00; 0x2c; 0x16; 0x13; 0x09; 0x80; 0x00;
   0x91; 0x48; 0x99; 0x8a; 0x20; 0x00; 0xc0; 0xe0; 0x64; 0x54; 0x08; 0x00;
   0x06; 0x83; 0x50; 0xa0; 0x98; 0x00; 0xc8; 0x64; 0x29; 0x00; 0x70; 0x00;
   0x45; 0x22; 0x84; 0xd0; 0xc0; 0x00; 0x30; 0x98; 0x4c; 0x25; 0x20; 0x00;
   0xa2; 0x51; 0x22; 0x28; 0x48; 0x00; 0xd0; 0x03; 0x42; 0x53; 0x00; 0x00;
   0xee; 0xf5; 0xb3; 0x66; 0x10; 0x00].

Definition kMaskRandom38_1 : list Z :=
  [0xff; 0xff; 0xff; 0xff; 0xfc; 0x00].

Definition kMaskRandom38_2 : list Z :=
  [0xce; 0x77; 0x19; 0xce; 0xe0; 0x00; 0x39; 0xcc; 0xe7; 0x39; 0x9c; 0x00].

Definition kMaskRandom38_3 : list Z :=
  [0xcc; 0x67; 0x19; 0x8c; 0xe0; 0x00; 0x27; 0x2c; 0xc4; 0xe5; 0x98; 0x00;
   0x92; 0xd2; 0x72; 0x5a; 0x4c; 0x00].

Definition kMaskRandom38_4 : list Z :=
  [0xec; 0x73; 0x1d; 0x8e; 0x60; 0x00; 0x67; 0x19; 0xcc; 0xe3; 0x38; 0x00;
   0xb1; 0xcc; 0x76; 0x39; 0x8c; 0x00; 0x5a; 0x96; 0xab; 0x52; 0xd4; 0x00].

Definition kMaskRandom38_5 : list Z :=
  [0x4c; 0xe7; 0x09; 0x9c; 0xe0; 0x00; 0x66; 0x31; 0xcc; 0xc6; 0x38; 0x00;
   0xa1; 0xcc; 0x74; 0x39; 0x8c; 0x00; 0x92; 0xa6; 0xb2; 0x54; 0xd4; 0x00;
   0xb8; 0x99; 0x97; 0x13; 0x30; 0x00].

Definition kMaskRandom38_6 : list Z :=
  [0x4c; 0x36; 0x09; 0x86; 0xc0; 0x00; 0x45; 0x68; 0x88; 0xad; 0x10; 0x00;
   0x30; 0xd0; 0x66; 0x1a; 0x0c; 0x00; 0x8a; 0x82; 0xb1; 0x50; 0x54; 0x00;
   0x26; 0x0b; 0x44; 0xc1; 0x68; 0x00; 0x95; 0x45; 0x12; 0xa8; 0xa0; 0x00].

Definition kMaskRandom38_7 : list Z :=
  [0xc4; 0xa3; 0x18; 0x94; 0x60; 0x00; 0x23; 0x19; 0x84; 0x63; 0x30; 0x00;
   0x91; 0x1c; 0x32; 0x23; 0x84; 0x00; 0x4a; 0x82; 0xa9; 0x50; 0x54; 0x00;
   0x34; 0x49; 0x46; 0x89; 0x28; 0x00; 0x8b; 0x4a; 0x11; 0x69; 0x40; 0x00;
   0xc8; 0x24; 0xd9; 0x04; 0x98; 0x00].

Definition kMaskRandom38_8 : list Z :=
  [0x16; 0x13; 0x82; 0xc2; 0x70; 0x00; 0xc2; 0x44; 0xd8; 0x48; 0x98; 0x00;
   0x60; 0xe8; 0x2c; 0x1d; 0x04; 0x00; 0x85; 0x12; 0x70; 0xa2; 0x4c; 0x00;
   0xcc; 0x21; 0x59; 0x84; 0x28; 0x00; 0x29; 0x63; 0x05; 0x2c; 0x60; 0x00;
   0x11; 0x98; 0xc2; 0x33; 0x18; 0x00; 0xb0; 0x0c; 0x76; 0x01; 0x8c; 0x00].

Definition kMaskRandom38_9 : list Z :=
  [0x44; 0xa7; 0x08; 0x94; 0xe0; 0x00; 0x66; 0x70; 0x8c; 0xce; 0x10; 0x00;
   0x12; 0xc0; 0xe2; 0x58; 0x1c; 0x00; 0xc3; 0x10; 0xb8; 0x62; 0x14; 0x00;
   0x8c; 0x29; 0x51; 0x85; 0x28; 0x00; 0x11; 0x5b; 0x02; 0x2b; 0x60; 0x00;
   0x21; 0x93; 0x44; 0x32; 0x68; 0x00; 0xa2; 0x2c; 0x14; 0x45; 0x80; 0x00;
   0x18; 0x0c; 0xe3; 0x01; 0x9c; 0x00].

Definition kMaskRandom38_10 : list Z :=
  [0x8c; 0xe3; 0x11; 0x9c; 0x60; 0x00; 0x27; 0x11; 0xc4; 0xe2; 0x38; 0x00;
   0x32; 0x8d; 0x26; 0x51; 0xa4; 0x00; 0x61; 0x92; 0x6c; 0x32; 0x4c; 0x00;
   0x5c; 0x38; 0x8b; 0x87; 0x10; 0x00; 0xcc; 0x75; 0x19; 0x8e; 0xa0; 0x00;
   0x2b; 0x19; 0xc5; 0x63; 0x38; 0x00; 0x32; 0xd2; 0x66; 0x5a; 0x4c; 0x00;
   0x25; 0x8e; 0xa4; 0xb1; 0xd4; 0x00; 0x50; 0x88; 0xca; 0x11; 0x18; 0x00].

Definition kMaskRandom38_11 : list Z :=
  [0x8c; 0xe3; 0x11; 0x9c; 0x60; 0x00; 0x27; 0x11; 0xc4; 0xe2; 0x38; 0x00;
   0x32; 0x8d; 0x26; 0x51; 0xa4; 0x00; 0x61; 0x92; 0x6c; 0x32; 0x4c; 0x00;
   0x5c; 0x38; 0x8b; 0x87; 0x10; 0x00; 0x84; 0x87; 0x10; 0x90; 0xe0; 0x00;
   0x27; 0x19; 0x84; 0xe3; 0x30; 0x00; 0x51; 0x88; 0x6a; 0x31; 0x0c; 0x00;
   0x1a; 0x22; 0xa3; 0x44; 0x54; 0x00; 0x68; 0x44; 0x4d; 0x08; 0x88; 0x00;
   0x89; 0x70; 0x11; 0x2e; 0x00; 0x00].

Definition kMaskRandom38_12 : list Z :=
  [0x84; 0x87; 0x10; 0x90; 0xe0; 0x00; 0x27; 0x19; 0x84; 0xe3; 0x30; 0x00;
   0x51; 0x88; 0x6a; 0x31; 0x0c; 0x00; 0x1a; 0x22; 0xa3; 0x44; 0x54; 0x00;
   0x68; 0x44; 0x4d; 0x08; 0x88; 0x00; 0x89; 0x70; 0x11; 0x2e; 0x00; 0x00;
   0x8c; 0xe3; 0x11; 0x9c; 0x60; 0x00; 0x27; 0x11; 0xc4; 0xe2; 0x38; 0x00;
   0x32; 0x8d; 0x26; 0x51; 0xa4; 0x00; 0x61; 0x92; 0x6c; 0x32; 0x4c; 0x00;
   0x5c; 0x38; 0x8b; 0x87; 0x10; 0x00; 0x90; 0xc8; 0x92; 0x19; 0x10; 0x00].

Definition kMaskRandom38_13 : list Z :=
  [0x84; 0x87; 0x10; 0x90; 0xe0; 0x00; 0x27; 0x19; 0x84; 0xe3; 0x30; 0x00;
   0x51; 0x88; 0x6a; 0x31; 0x0c; 0x00; 0x1a; 0x22; 0xa3; 0x44; 0x54; 0x00;
   0x68; 0x44; 0x4d; 0x08; 0x88; 0x00; 0x89; 0x70; 0x11; 0x2e; 0x00; 0x00;
   0x8c; 0x23; 0x11; 0x84; 0x60; 0x00; 0x47; 0x19; 0x88; 0xe3; 0x30; 0x00;
   0x81; 0x88; 0x70; 0x31; 0x0c; 0x00; 0x12; 0x86; 0x22; 0x50; 0xc4; 0x00;
   0x58; 0x14; 0x4b; 0x02; 0x88; 0x00; 0x28; 0xca; 0x05; 0x19; 0x40; 0x00;
   0x34; 0x60; 0x86; 0x8c; 0x10; 0x00].

Definition kMaskRandom38_14 : list Z :=
  [0x8c; 0x23; 0x11; 0x84; 0x60; 0x00; 0x47; 0x19; 0x88; 0xe3; 0x30; 0x00;
   0x81; 0x88; 0x70; 0x31; 0x0c; 0x00; 0x12; 0x86; 0x22; 0x50; 0xc4; 0x00;
   0x58; 0x14; 0x4b; 0x02; 0x88; 0x00; 0x28; 0xca; 0x05; 0x19; 0x40; 0x00;
   0x34; 0x60; 0x86; 0x8c; 0x10; 0x00; 0x84; 0x87; 0x10; 0x90; 0xe0; 0x00;
   0x27; 0x19; 0x84; 0xe3; 0x30; 0x00; 0x51; 0x88; 0x6a; 0x31; 0x0c; 0x00;
   0x1a; 0x22; 0xa3; 0x44; 0x54; 0x00; 0x68; 0x44; 0x4d; 0x08; 0x88; 0x00;
   0x89; 0x70; 0x11; 0x2e; 0x00; 0x00; 0x6e; 0x27; 0x6d; 0xc4; 0xec; 0x00].

Definition kMaskRandom38_15 : list Z :=
  [0x8c; 0x23; 0x11; 0x84; 0x60; 0x00; 0x47; 0x19; 0x88; 0xe3; 0x30; 0x00;
   0x81; 0x88; 0x70; 0x31; 0x0c; 0x00; 0x12; 0x86; 0x22; 0x50; 0xc4; 0x00;
   0x58; 0x14; 0x4b; 0x02; 0x88; 0x00; 0x28; 0xca; 0x05; 0x19; 0x40; 0x00;
   0x34; 0x60; 0x86; 0x8c; 0x10; 0x00; 0x2c; 0x16; 0x05; 0x82; 0xc0; 0x00;
   0x91; 0x40; 0xd2; 0x28; 0x18; 0x00; 0xc0; 0xd0; 0x38; 0x1a; 0x04; 0x00;
   0x06; 0x82; 0xa0; 0xd0; 0x54; 0x00; 0xc8; 0x0c; 0x59; 0x01; 0x88; 0x00;
   0x45; 0x61; 0x08; 0xac; 0x20; 0x00; 0x30; 0x91; 0x46; 0x12; 0x28; 0x00;
   0xa2; 0x28; 0x34; 0x45; 0x04; 0x00].

Definition kMaskRandom38_16 : list Z :=
  [0x2c; 0x16; 0x05; 0x82; 0xc0; 0x00; 0x91; 0x40; 0xd2; 0x28; 0x18; 0x00;
   0xc0; 0xd0; 0x38; 0x1a; 0x04; 0x00; 0x06; 0x82; 0xa0; 0xd0; 0x54; 0x00;
   0xc8; 0x0c; 0x59; 0x01; 0x88; 0x00; 0x45; 0x61; 0x08; 0xac; 0x20; 0x00;
   0x30; 0x91; 0x46; 0x12; 0x28; 0x00; 0xa2; 0x28; 0x34; 0x45; 0x04; 0x00;
   0x8c; 0x23; 0x11; 0x84; 0x60; 0x00; 0x47; 0x19; 0x88; 0xe3; 0x30; 0x00;
   0x81; 0x88; 0x70; 0x31; 0x0c; 0x00; 0x12; 0x86; 0x22; 0x50; 0xc4; 0x00;
   0x58; 0x14; 0x4b; 0x02; 0x88; 0x00; 0x28; 0xca; 0x05; 0x19; 0x40; 0x00;
   0x34; 0x60; 0x86; 0x8c; 0x10; 0x00; 0x7e; 0x75; 0xef; 0xce; 0xbc; 0x00].

Definition kMaskRandom38_17 : list Z :=
  [0x2c; 0x16; 0x05; 0x82; 0xc0; 0x00; 0x91; 0x40; 0xd2; 0x28; 0x18; 0x00;
   0xc0; 0xd0; 0x38; 0x1a; 0x04; 0x00; 0x06; 0x82; 0xa0; 0xd0; 0x54; 0x00;
   0xc8; 0x0c; 0x59; 0x01; 0x88; 0x00; 0x45; 0x61; 0x08; 0xac; 0x20; 0x00;
   0x30; 0x91; 0x46; 0x12; 0x28; 0x00; 0xa2; 0x28; 0x34; 0x45; 0x04; 0x00;
   0x4c; 0x27; 0x09; 0x84; 0xe0; 0x00; 0x66; 0x71; 0x8c; 0xce; 0x30; 0x00;
   0x91; 0x40; 0xf2; 0x28; 0x1c; 0x00; 0x42; 0x90; 0xa8; 0x52; 0x14; 0x00;
   0xa4; 0x29; 0x54; 0x85; 0x28; 0x00; 0x13; 0x5a; 0x02; 0x6b; 0x40; 0x00;
   0x30; 0x93; 0x46; 0x12; 0x68; 0x00; 0x88; 0xac; 0x31; 0x15; 0x84; 0x00;
   0x09; 0x0c; 0xc1; 0x21; 0x98; 0x00].

Definition kMaskRandom38_18 : list Z :=
  [0x4c; 0x27; 0x09; 0x84; 0xe0; 0x00; 0x66; 0x71; 0x8c; 0xce; 0x30; 0x00;
   0x91; 0x40; 0xf2; 0x28; 0x1c; 0x00; 0x42; 0x90; 0xa8; 0x52; 0x14; 0x00;
   0xa4; 0x29; 0x54; 0x85; 0x28; 0x00; 0x13; 0x5a; 0x02; 0x6b; 0x40; 0x00;
   0x30; 0x93; 0x46; 0x12; 0x68; 0x00; 0x88; 0xac; 0x31; 0x15; 0x84; 0x00;
   0x09; 0x0c; 0xc1; 0x21; 0x98; 0x00; 0x2c; 0x16; 0x05; 0x82; 0xc0; 0x00;
   0x91; 0x40; 0xd2; 0x28; 0x18; 0x00; 0xc0; 0xd0; 0x38; 0x1a; 0x04; 0x00;
   0x06; 0x82; 0xa0; 0xd0; 0x54; 0x00; 0xc8; 0x0c; 0x59; 0x01; 0x88; 0x00;
   0x45; 0x61; 0x08; 0xac; 0x20; 0x00; 0x30; 0x91; 0x46; 0x12; 0x28; 0x00;
   0xa2; 0x28; 0x34; 0x45; 0x04; 0x00; 0x51; 0x97; 0x2a; 0x32; 0xe4; 0x00].

Definition kMaskRandom38_19 : list Z :=
  [0x4c; 0x27; 0x09; 0x84; 0xe0; 0x00; 0x66; 0x71; 0x8c; 0xce; 0x30; 0x00;
   0x91; 0x40; 0xf2; 0x28; 0x1c; 0x00; 0x42; 0x90; 0xa8; 0x52; 0x14; 0x00;
   0xa4; 0x29; 0x54; 0x85; 0x28; 0x00; 0x13; 0x5a; 0x02; 0x6b; 0x40; 0x00;
   0x30; 0x93; 0x46; 0x12; 0x68; 0x00; 0x88; 0xac; 0x31; 0x15; 0x84; 0x00;
   0x09; 0x0c; 0xc1; 0x21; 0x98; 0x00; 0x4c; 0x26; 0x09; 0x84; 0xc0; 0x00;
   0x66; 0x28; 0x8c; 0xc5; 0x10; 0x00; 0x91; 0x50; 0x32; 0x2a; 0x04; 0x00;
   0x42; 0x82; 0x68; 0x50; 0x4c; 0x00; 0xa4; 0x01; 0xd4; 0x80; 0x38; 0x00;
   0x13; 0x43; 0x02; 0x68; 0x60; 0x00; 0x30; 0x94; 0x86; 0x12; 0x90; 0x00;
   0x88; 0xa1; 0x31; 0x14; 0x24; 0x00; 0x09; 0x4c; 0x01; 0x29; 0x80; 0x00;
   0xcd; 0x98; 0x59; 0xb3; 0x08; 0x00].

Definition kMaskRandom38_20 : list Z :=
  [0x8c; 0xe3; 0x11; 0x9c; 0x60; 0x00; 0x27; 0x11; 0xc4; 0xe2; 0x38; 0x00;
   0x32; 0x8d; 0x26; 0x51; 0xa4; 0x00; 0x61; 0x92; 0x6c; 0x32; 0x4c; 0x00;
   0x5c; 0x38; 0x8b; 0x87; 0x10; 0x00; 0xcc; 0x75; 0x19; 0x8e; 0xa0; 0x00;
   0x2b; 0x19; 0xc5; 0x63; 0x38; 0x00; 0x32; 0xd2; 0x66; 0x5a; 0x4c; 0x00;
   0x25; 0x8e; 0xa4; 0xb1; 0xd4; 0x00; 0x50; 0x88; 0xca; 0x11; 0x18; 0x00;
   0x44; 0xa7; 0x08; 0x94; 0xe0; 0x00; 0x66; 0x70; 0x8c; 0xce; 0x10; 0x00;
   0x12; 0xc0; 0xe2; 0x58; 0x1c; 0x00; 0xc3; 0x10; 0xb8; 0x62; 0x14; 0x00;
   0x8c; 0x29; 0x51; 0x85; 0x28; 0x00; 0x11; 0x5b; 0x02; 0x2b; 0x60; 0x00;
   0x21; 0x93; 0x44; 0x32; 0x68; 0x00; 0xa2; 0x2c; 0x14; 0x45; 0x80; 0x00;
   0x18; 0x0c; 0xe3; 0x01; 0x9c; 0x00; 0xe6; 0xbc; 0x88; 0xe3; 0x78; 0x00].

Definition kMaskRandom38_21 : list Z :=
  [0x8c; 0xe3; 0x11; 0x9c; 0x60; 0x00; 0x27; 0x11; 0xc4; 0xe2; 0x38; 0x00;
   0x32; 0x8d; 0x26; 0x51; 0xa4; 0x00; 0x61; 0x92; 0x6c; 0x32; 0x4c; 0x00;
   0x5c; 0x38; 0x8b; 0x87; 0x10; 0x00; 0xcc; 0x75; 0x19; 0x8e; 0xa0; 0x00;
   0x2b; 0x19; 0xc5; 0x63; 0x38; 0x00; 0x32; 0xd2; 0x66; 0x5a; 0x4c; 0x00;
   0x25; 0x8e; 0xa4; 0xb1; 0xd4; 0x00; 0x50; 0x88; 0xca; 0x11; 0x18; 0x00;
   0x8c; 0xe3; 0x11; 0x9c; 0x60; 0x00; 0x27; 0x11; 0xc4; 0xe2; 0x38; 0x00;
   0x32; 0x8d; 0x26; 0x51; 0xa4; 0x00; 0x61; 0x92; 0x6c; 0x32; 0x4c; 0x00;
   0x5c; 0x38; 0x8b; 0x87; 0x10; 0x00; 0x84; 0x87; 0x10; 0x90; 0xe0; 0x00;
   0x27; 0x19; 0x84; 0xe3; 0x30; 0x00; 0x51; 0x88; 0x6a; 0x31; 0x0c; 0x00;
   0x1a; 0x22; 0xa3; 0x44; 0x54; 0x00; 0x68; 0x44; 0x4d; 0x08; 0x88; 0x00;
   0x89; 0x70; 0x11; 0x2e; 0x00; 0x00].

Definition kMaskRandom38_22 : list Z :=
  [0x8c; 0xe3; 0x11; 0x9c; 0x60; 0x00; 0x27; 0x11; 0xc4; 0xe2; 0x38; 0x00;
   0x32; 0x8d; 0x26; 0x51; 0xa4; 0x00; 0x61; 0x92; 0x6c; 0x32; 0x4c; 0x00;
   0x5c; 0x38; 0x8b; 0x87; 0x10; 0x00; 0x84; 0x87; 0x10; 0x90; 0xe0; 0x00;
   0x27; 0x19; 0x84; 0xe3; 0x30; 0x00; 0x51; 0x88; 0x6a; 0x31; 0x0c; 0x00;
   0x1a; 0x22; 0xa3; 0x44; 0x54; 0x00; 0x68; 0x44; 0x4d; 0x08; 0x88; 0x00;
   0x89; 0x70; 0x11; 0x2e; 0x00; 0x00; 0x8c; 0xe3; 0x11; 0x9c; 0x60; 0x00;
   0x27; 0x11; 0xc4; 0xe2; 0x38; 0x00; 0x32; 0x8d; 0x26; 0x51; 0xa4; 0x00;
   0x61; 0x92; 0x6c; 0x32; 0x4c; 0x00; 0x5c; 0x38; 0x8b; 0x87; 0x10; 0x00;
   0xcc; 0x75; 0x19; 0x8e; 0xa0; 0x00; 0x2b; 0x19; 0xc5; 0x63; 0x38; 0x00;
   0x32; 0xd2; 0x66; 0x5a; 0x4c; 0x00; 0x25; 0x8e; 0xa4; 0xb1; 0xd4; 0x00;
   0x50; 0x88; 0xca; 0x11; 0x18; 0x00; 0x0c; 0x3c; 0x48; 0x3d; 0x58; 0x00].

Definition kMaskRandom38_23 : list Z :=
  [0x8c; 0xe3; 0x11; 0x9c; 0x60; 0x00; 0x27; 0x11; 0xc4; 0xe2; 0x38; 0x00;
   0x32; 0x8d; 0x26; 0x51; 0xa4; 0x00; 0x61; 0x92; 0x6c; 0x32; 0x4c; 0x00;
   0x5c; 0x38; 0x8b; 0x87; 0x10; 0x00; 0x84; 0x87; 0x10; 0x90; 0xe0; 0x00;
   0x27; 0x19; 0x84; 0xe3; 0x30; 0x00; 0x51; 0x88; 0x6a; 0x31; 0x0c; 0x00;
   0x1a; 0x22; 0xa3; 0x44; 0x54; 0x00; 0x68; 0x44; 0x4d; 0x08; 0x88; 0x00;
   0x89; 0x70; 0x11; 0x2e; 0x00; 0x00; 0x84; 0x87; 0x10; 0x90; 0xe0; 0x00;
   0x27; 0x19; 0x84; 0xe3; 0x30; 0x00; 0x51; 0x88; 0x6a; 0x31; 0x0c; 0x00;
   0x1a; 0x22; 0xa3; 0x44; 0x54; 0x00; 0x68; 0x44; 0x4d; 0x08; 0x88; 0x00;
   0x89; 0x70; 0x11; 0x2e; 0x00; 0x00; 0x8c; 0xe3; 0x11; 0x9c; 0x60; 0x00;
   0x27; 0x11; 0xc4; 0xe2; 0x38; 0x00; 0x32; 0x8d; 0x26; 0x51; 0xa4; 0x00;
   0x61; 0x92; 0x6c; 0x32; 0x4c; 0x00; 0x5c; 0x38; 0x8b; 0x87; 0x10; 0x00;
   0x90; 0xc8; 0x92; 0x19; 0x10; 0x00].

Definition kMaskRandom38_24 : list Z :=
  [0x84; 0x87; 0x10; 0x90; 0xe0; 0x00; 0x27; 0x19; 0x84; 0xe3; 0x30; 0x00;
   0x51; 0x88; 0x6a; 0x31; 0x0c; 0x00; 0x1a; 0x22; 0xa3; 0x44; 0x54; 0x00;
   0x68; 0x44; 0x4d; 0x08; 0x88; 0x00; 0x89; 0x70; 0x11; 0x2e; 0x00; 0x00;
   0x8c; 0xe3; 0x11; 0x9c; 0x60; 0x00; 0x27; 0x11; 0xc4; 0xe2; 0x38; 0x00;
   0x32; 0x8d; 0x26; 0x51; 0xa4; 0x00; 0x61; 0x92; 0x6c; 0x32; 0x4c; 0x00;
   0x5c; 0x38; 0x8b; 0x87; 0x10; 0x00; 0x90; 0xc8; 0x92; 0x19; 0x10; 0x00;
   0x8c; 0xe3; 0x11; 0x9c; 0x60; 0x00; 0x27; 0x11; 0xc4; 0xe2; 0x38; 0x00;
   0x32; 0x8d; 0x26; 0x51; 0xa4; 0x00; 0x61; 0x92; 0x6c; 0x32; 0x4c; 0x00;
   0x5c; 0x38; 0x8b; 0x87; 0x10; 0x00; 0x84; 0x87; 0x10; 0x90; 0xe0; 0x00;
   0x27; 0x19; 0x84; 0xe3; 0x30; 0x00; 0x51; 0x88; 0x6a; 0x31; 0x0c; 0x00;
   0x1a; 0x22; 0xa3; 0x44; 0x54; 0x00; 0x68; 0x44; 0x4d; 0x08; 0x88; 0x00;
   0x89; 0x70; 0x11; 0x2e; 0x00; 0x00; 0x93; 0xc8; 0xb3; 0xbe; 0x5c; 0x00].

Definition kMaskRandom38_25 : list Z :=
  [0x84; 0x87; 0x10; 0x90; 0xe0; 0x00; 0x27; 0x19; 0x84; 0xe3; 0x30; 0x00;
   0x51; 0x88; 0x6a; 0x31; 0x0c; 0x00; 0x1a; 0x22; 0xa3; 0x44; 0x54; 0x00;
   0x68; 0x44; 0x4d; 0x08; 0x88; 0x00; 0x89; 0x70; 0x11; 0x2e; 0x00; 0x00;
   0x8c; 0xe3; 0x11; 0x9c; 0x60; 0x00; 0x27; 0x11; 0xc4; 0xe2; 0x38; 0x00;
   0x32; 0x8d; 0x26; 0x51; 0xa4; 0x00; 0x61; 0x92; 0x6c; 0x32; 0x4c; 0x00;
   0x5c; 0x38; 0x8b; 0x87; 0x10; 0x00; 0x90; 0xc8; 0x92; 0x19; 0x10; 0x00;
   0x84; 0x87; 0x10; 0x90; 0xe0; 0x00; 0x27; 0x19; 0x84; 0xe3; 0x30; 0x00;
   0x51; 0x88; 0x6a; 0x31; 0x0c; 0x00; 0x1a; 0x22; 0xa3; 0x44; 0x54; 0x00;
   0x68; 0x44; 0x4d; 0x08; 0x88; 0x00; 0x89; 0x70; 0x11; 0x2e; 0x00; 0x00;
   0x8c; 0x23; 0x11; 0x84; 0x60; 0x00; 0x47; 0x19; 0x88; 0xe3; 0x30; 0x00;
   0x81; 0x88; 0x70; 0x31; 0x0c; 0x00; 0x12; 0x86; 0x22; 0x50; 0xc4; 0x00;
   0x58; 0x14; 0x4b; 0x02; 0x88; 0x00; 0x28; 0xca; 0x05; 0x19; 0x40; 0x00;
   0x34; 0x60; 0x86; 0x8c; 0x10; 0x00].

Definition kMaskRandom38_26 : list Z :=
  [0x84; 0x87; 0x10; 0x90; 0xe0; 0x00; 0x27; 0x19; 0x84; 0xe3; 0x30; 0x00;
   0x51; 0x88; 0x6a; 0x31; 0x0c; 0x00; 0x1a; 0x22; 0xa3; 0x44; 0x54; 0x00;
   0x68; 0x44; 0x4d; 0x08; 0x88; 0x00; 0x89; 0x70; 0x11; 0x2e; 0x00; 0x00;
   0x8c; 0x23; 0x11; 0x84; 0x60; 0x00; 0x47; 0x19; 0x88; 0xe3; 0x30; 0x00;
   0x81; 0x88; 0x70; 0x31; 0x0c; 0x00; 0x12; 0x86; 0x22; 0x50; 0xc4; 0x00;
   0x58; 0x14; 0x4b; 0x02; 0x88; 0x00; 0x28; 0xca; 0x05; 0x19; 0x40; 0x00;
   0x34; 0x60; 0x86; 0x8c; 0x10; 0x00; 0x84; 0x87; 0x10; 0x90; 0xe0; 0x00;
   0x27; 0x19; 0x84; 0xe3; 0x30; 0x00; 0x51; 0x88; 0x6a; 0x31; 0x0c; 0x00;
   0x1a; 0x22; 0xa3; 0x44; 0x54; 0x00; 0x68; 0x44; 0x4d; 0x08; 0x88; 0x00;
   0x89; 0x70; 0x11; 0x2e; 0x00; 0x00; 0x8c; 0xe3; 0x11; 0x9c; 0x60; 0x00;
   0x27; 0x11; 0xc4; 0xe2; 0x38; 0x00; 0x32; 0x8d; 0x26; 0x51; 0xa4; 0x00;
   0x61; 0x92; 0x6c; 0x32; 0x4c; 0x00; 0x5c; 0x38; 0x8b; 0x87; 0x10; 0x00;
   0x90; 0xc8; 0x92; 0x19; 0x10; 0x00; 0x4b; 0xab; 0xfc; 0xe6; 0xe8; 0x00].

Definition kMaskRandom38_27 : list Z :=
  [0x84; 0x87; 0x10; 0x90; 0xe0; 0x00; 0x27; 0x19; 0x84; 0xe3; 0x30; 0x00;
   0x51; 0x88; 0x6a; 0x31; 0x0c; 0x00; 0x1a; 0x22; 0xa3; 0x44; 0x54; 0x00;
   0x68; 0x44; 0x4d; 0x08; 0x88; 0x00; 0x89; 0x70; 0x11; 0x2e; 0x00; 0x00;
   0x8c; 0x23; 0x11; 0x84; 0x60; 0x00; 0x47; 0x19; 0x88; 0xe3; 0x30; 0x00;
   0x81; 0x88; 0x70; 0x31; 0x0c; 0x00; 0x12; 0x86; 0x22; 0x50; 0xc4; 0x00;
   0x58; 0x14; 0x4b; 0x02; 0x88; 0x00; 0x28; 0xca; 0x05; 0x19; 0x40; 0x00;
   0x34; 0x60; 0x86; 0x8c; 0x10; 0x00; 0x8c; 0x23; 0x11; 0x84; 0x60; 0x00;
   0x47; 0x19; 0x88; 0xe3; 0x30; 0x00; 0x81; 0x88; 0x70; 0x31; 0x0c; 0x00;
   0x12; 0x86; 0x22; 0x50; 0xc4; 0x00; 0x58; 0x14; 0x4b; 0x02; 0x88; 0x00;
   0x28; 0xca; 0x05; 0x19; 0x40; 0x00; 0x34; 0x60; 0x86; 0x8c; 0x10; 0x00;
   0x84; 0x87; 0x10; 0x90; 0xe0; 0x00; 0x27; 0x19; 0x84; 0xe3; 0x30; 0x00;
   0x51; 0x88; 0x6a; 0x31; 0x0c; 0x00; 0x1a; 0x22; 0xa3; 0x44; 0x54; 0x00;
   0x68; 0x44; 0x4d; 0x08; 0x88; 0x00; 0x89; 0x70; 0x11; 0x2e; 0x00; 0x00;
   0x6e; 0x27; 0x6d; 0xc4; 0xec; 0x00].

Definition kMaskRandom38_28 : list Z :=
  [0x8c; 0x23; 0x11; 0x84; 0x60; 0x00; 0x47; 0x19; 0x88; 0xe3; 0x30; 0x00;
   0x81; 0x88; 0x70; 0x31; 0x0c; 0x00; 0x12; 0x86; 0x22; 0x50; 0xc4; 0x00;
   0x58; 0x14; 0x4b; 0x02; 0x88; 0x00; 0x28; 0xca; 0x05; 0x19; 0x40; 0x00;
   0x34; 0x60; 0x86; 0x8c; 0x10; 0x00; 0x84; 0x87; 0x10; 0x90; 0xe0; 0x00;
   0x27; 0x19; 0x84; 0xe3; 0x30; 0x00; 0x51; 0x88; 0x6a; 0x31; 0x0c; 0x00;
   0x1a; 0x22; 0xa3; 0x44; 0x54; 0x00; 0x68; 0x44; 0x4d; 0x08; 0x88; 0x00;
   0x89; 0x70; 0x11; 0x2e; 0x00; 0x00; 0x6e; 0x27; 0x6d; 0xc4; 0xec; 0x00;
   0x84; 0x87; 0x10; 0x90; 0xe0; 0x00; 0x27; 0x19; 0x84; 0xe3; 0x30; 0x00;
   0x51; 0x88; 0x6a; 0x31; 0x0c; 0x00; 0x1a; 0x22; 0xa3; 0x44; 0x54; 0x00;
   0x68; 0x44; 0x4d; 0x08; 0x88; 0x00; 0x89; 0x70; 0x11; 0x2e; 0x00; 0x00;
   0x8c; 0x23; 0x11; 0x84; 0x60; 0x00; 0x47; 0x19; 0x88; 0xe3; 0x30; 0x00;
   0x81; 0x88; 0x70; 0x31; 0x0c; 0x00; 0x12; 0x86; 0x22; 0x50; 0xc4; 0x00;
   0x58; 0x14; 0x4b; 0x02; 0x88; 0x00; 0x28; 0xca; 0x05; 0x19; 0x40; 0x00;
   0x34; 0x60; 0x86; 0x8c; 0x10; 0x00; 0x70; 0x1b; 0x5b; 0x2c; 0x0c; 0x00].

Definition kMaskRandom38_29 : list Z :=
  [0x8c; 0x23; 0x11; 0x84; 0x60; 0x00; 0x47; 0x19; 0x88; 0xe3; 0x30; 0x00;
   0x81; 0x88; 0x70; 0x31; 0x0c; 0x00; 0x12; 0x86; 0x22; 0x50; 0xc4; 0x00;
   0x58; 0x14; 0x4b; 0x02; 0x88; 0x00; 0x28; 0xca; 0x05; 0x19; 0x40; 0x00;
   0x34; 0x60; 0x86; 0x8c; 0x10; 0x00; 0x84; 0x87; 0x10; 0x90; 0xe0; 0x00;
   0x27; 0x19; 0x84; 0xe3; 0x30; 0x00; 0x51; 0x88; 0x6a; 0x31; 0x0c; 0x00;
   0x1a; 0x22; 0xa3; 0x44; 0x54; 0x00; 0x68; 0x44; 0x4d; 0x08; 0x88; 0x00;
   0x89; 0x70; 0x11; 0x2e; 0x00; 0x00; 0x6e; 0x27; 0x6d; 0xc4; 0xec; 0x00;
   0x8c; 0x23; 0x11; 0x84; 0x60; 0x00; 0x47; 0x19; 0x88; 0xe3; 0x30; 0x00;
   0x81; 0x88; 0x70; 0x31; 0x0c; 0x00; 0x12; 0x86; 0x22; 0x50; 0xc4; 0x00;
   0x58; 0x14; 0x4b; 0x02; 0x88; 0x00; 0x28; 0xca; 0x05; 0x19; 0x40; 0x00;
   0x34; 0x60; 0x86; 0x8c; 0x10; 0x00; 0x2c; 0x16; 0x05; 0x82; 0xc0; 0x00;
   0x91; 0x40; 0xd2; 0x28; 0x18; 0x00; 0xc0; 0xd0; 0x38; 0x1a; 0x04; 0x00;
   0x06; 0x82; 0xa0; 0xd0; 0x54; 0x00; 0xc8; 0x0c; 0x59; 0x01; 0x88; 0x00;
   0x45; 0x61; 0x08; 0xac; 0x20; 0x00; 0x30; 0x91; 0x46; 0x12; 0x28; 0x00;
   0xa2; 0x28; 0x34; 0x45; 0x04; 0x00].

Definition kMaskRandom38_30 : list Z :=
  [0x8c; 0x23; 0x11; 0x84; 0x60; 0x00; 0x47; 0x19; 0x88; 0xe3; 0x30; 0x00;
   0x81; 0x88; 0x70; 0x31; 0x0c; 0x00; 0x12; 0x86; 0x22; 0x50; 0xc4; 0x00;
   0x58; 0x14; 0x4b; 0x02; 0x88; 0x00; 0x28; 0xca; 0x05; 0x19; 0x40; 0x00;
   0x34; 0x60; 0x86; 0x8c; 0x10; 0x00; 0x2c; 0x16; 0x05; 0x82; 0xc0; 0x00;
   0x91; 0x40; 0xd2; 0x28; 0x18; 0x00; 0xc0; 0xd0; 0x38; 0x1a; 0x04; 0x00;
   0x06; 0x82; 0xa0; 0xd0; 0x54; 0x00; 0xc8; 0x0c; 0x59; 0x01; 0x88; 0x00;
   0x45; 0x61; 0x08; 0xac; 0x20; 0x00; 0x30; 0x91; 0x46; 0x12; 0x28; 0x00;
   0xa2; 0x28; 0x34; 0x45; 0x04; 0x00; 0x8c; 0x23; 0x11; 0x84; 0x60; 0x00;
   0x47; 0x19; 0x88; 0xe3; 0x30; 0x00; 0x81; 0x88; 0x70; 0x31; 0x0c; 0x00;
   0x12; 0x86; 0x22; 0x50; 0xc4; 0x00; 0x58; 0x14; 0x4b; 0x02; 0x88; 0x00;
   0x28; 0xca; 0x05; 0x19; 0x40; 0x00; 0x34; 0x60; 0x86; 0x8c; 0x10; 0x00;
   0x84; 0x87; 0x10; 0x90; 0xe0; 0x00; 0x27; 0x19; 0x84; 0xe3; 0x30; 0x00;
   0x51; 0x88; 0x6a; 0x31; 0x0c; 0x00; 0x1a; 0x22; 0xa3; 0x44; 0x54; 0x00;
   0x68; 0x44; 0x4d; 0x08; 0x88; 0x00; 0x89; 0x70; 0x11; 0x2e; 0x00; 0x00;
   0x6e; 0x27; 0x6d; 0xc4; 0xec; 0x00; 0x5b; 0x16; 0xdf; 0xb8; 0xd0; 0x00].

Definition kMaskRandom38_31 : list Z :=
  [0x8c; 0x23; 0x11; 0x84; 0x60; 0x00; 0x47; 0x19; 0x88; 0xe3; 0x30; 0x00;
   0x81; 0x88; 0x70; 0x31; 0x0c; 0x00; 0x12; 0x86; 0x22; 0x50; 0xc4; 0x00;
   0x58; 0x14; 0x4b; 0x02; 0x88; 0x00; 0x28; 0xca; 0x05; 0x19; 0x40; 0x00;
   0x34; 0x60; 0x86; 0x8c; 0x10; 0x00; 0x2c; 0x16; 0x05; 0x82; 0xc0; 0x00;
   0x91; 0x40; 0xd2; 0x28; 0x18; 0x00; 0xc0; 0xd0; 0x38; 0x1a; 0x04; 0x00;
   0x06; 0x82; 0xa0; 0xd0; 0x54; 0x00; 0xc8; 0x0c; 0x59; 0x01; 0x88; 0x00;
   0x45; 0x61; 0x08; 0xac; 0x20; 0x00; 0x30; 0x91; 0x46; 0x12; 0x28; 0x00;
   0xa2; 0x28; 0x34; 0x45; 0x04; 0x00; 0x2c; 0x16; 0x05; 0x82; 0xc0; 0x00;
   0x91; 0x40; 0xd2; 0x28; 0x18; 0x00; 0xc0; 0xd0; 0x38; 0x1a; 0x04; 0x00;
   0x06; 0x82; 0xa0; 0xd0; 0x54; 0x00; 0xc8; 0x0c; 0x59; 0x01; 0x88; 0x00;
   0x45; 0x61; 0x08; 0xac; 0x20; 0x00; 0x30; 0x91; 0x46; 0x12; 0x28; 0x00;
   0xa2; 0x28; 0x34; 0x45; 0x04; 0x00; 0x8c; 0x23; 0x11; 0x84; 0x60; 0x00;
   0x47; 0x19; 0x88; 0xe3; 0x30; 0x00; 0x81; 0x88; 0x70; 0x31; 0x0c; 0x00;
   0x12; 0x86; 0x22; 0x50; 0xc4; 0x00; 0x58; 0x14; 0x4b; 0x02; 0x88; 0x00;
   0x28; 0xca; 0x05; 0x19; 0x40; 0x00; 0x34; 0x60; 0x86; 0x8c; 0x10; 0x00;
   0x7e; 0x75; 0xef; 0xce; 0xbc; 0x00].

Definition kMaskRandom38_32 : list Z :=
  [0x2c; 0x16; 0x05; 0x82; 0xc0; 0x00; 0x91; 0x40; 0xd2; 0x28; 0x18; 0x00;
   0xc0; 0xd0; 0x38; 0x1a; 0x04; 0x00; 0x06; 0x82; 0xa0; 0xd0; 0x54; 0x00;
   0xc8; 0x0c; 0x59; 0x01; 0x88; 0x00; 0x45; 0x61; 0x08; 0xac; 0x20; 0x00;
   0x30; 0x91; 0x46; 0x12; 0x28; 0x00; 0xa2; 0x28; 0x34; 0x45; 0x04; 0x00;
   0x8c; 0x23; 0x11; 0x84; 0x60; 0x00; 0x47; 0x19; 0x88; 0xe3; 0x30; 0x00;
   0x81; 0x88; 0x70; 0x31; 0x0c; 0x00; 0x12; 0x86; 0x22; 0x50; 0xc4; 0x00;
   0x58; 0x14; 0x4b; 0x02; 0x88; 0x00; 0x28; 0xca; 0x05; 0x19; 0x40; 0x00;
   0x34; 0x60; 0x86; 0x8c; 0x10; 0x00; 0x7e; 0x75; 0xef; 0xce; 0xbc; 0x00;
   0x8c; 0x23; 0x11; 0x84; 0x60; 0x00; 0x47; 0x19; 0x88; 0xe3; 0x30; 0x00;
   0x81; 0x88; 0x70; 0x31; 0x0c; 0x00; 0x12; 0x86; 0x22; 0x50; 0xc4; 0x00;
   0x58; 0x14; 0x4b; 0x02; 0x88; 0x00; 0x28; 0xca; 0x05; 0x19; 0x40; 0x00;
   0x34; 0x60; 0x86; 0x8c; 0x10; 0x00; 0x2c; 0x16; 0x05; 0x82; 0xc0; 0x00;
   0x91; 0x40; 0xd2; 0x28; 0x18; 0x00; 0xc0; 0xd0; 0x38; 0x1a; 0x04; 0x00;
   0x06; 0x82; 0xa0; 0xd0; 0x54; 0x00; 0xc8; 0x0c; 0x59; 0x01; 0x88; 0x00;
   0x45; 0x61; 0x08; 0xac; 0x20; 0x00; 0x30; 0x91; 0x46; 0x12; 0x28; 0x00;
   0xa2; 0x28; 0x34; 0x45; 0x04; 0x00; 0x33; 0x10; 0x02; 0x4e; 0x54; 0x00].

Definition kMaskRandom38_33 : list Z :=
  [0x2c; 0x16; 0x05; 0x82; 0xc0; 0x00; 0x91; 0x40; 0xd2; 0x28; 0x18; 0x00;
   0xc0; 0xd0; 0x38; 0x1a; 0x04; 0x00; 0x06; 0x82; 0xa0; 0xd0; 0x54; 0x00;
   0xc8; 0x0c; 0x59; 0x01; 0x88; 0x00; 0x45; 0x61; 0x08; 0xac; 0x20; 0x00;
   0x30; 0x91; 0x46; 0x12; 0x28; 0x00; 0xa2; 0x28; 0x34; 0x45; 0x04; 0x00;
   0x8c; 0x23; 0x11; 0x84; 0x60; 0x00; 0x47; 0x19; 0x88; 0xe3; 0x30; 0x00;
   0x81; 0x88; 0x70; 0x31; 0x0c; 0x00; 0x12; 0x86; 0x22; 0x50; 0xc4; 0x00;
   0x58; 0x14; 0x4b; 0x02; 0x88; 0x00; 0x28; 0xca; 0x05; 0x19; 0x40; 0x00;
   0x34; 0x60; 0x86; 0x8c; 0x10; 0x00; 0x7e; 0x75; 0xef; 0xce; 0xbc; 0x00;
   0x2c; 0x16; 0x05; 0x82; 0xc0; 0x00; 0x91; 0x40; 0xd2; 0x28; 0x18; 0x00;
   0xc0; 0xd0; 0x38; 0x1a; 0x04; 0x00; 0x06; 0x82; 0xa0; 0xd0; 0x54; 0x00;
   0xc8; 0x0c; 0x59; 0x01; 0x88; 0x00; 0x45; 0x61; 0x08; 0xac; 0x20; 0x00;
   0x30; 0x91; 0x46; 0x12; 0x28; 0x00; 0xa2; 0x28; 0x34; 0x45; 0x04; 0x00;
   0x4c; 0x27; 0x09; 0x84; 0xe0; 0x00; 0x66; 0x71; 0x8c; 0xce; 0x30; 0x00;
   0x91; 0x40; 0xf2; 0x28; 0x1c; 0x00; 0x42; 0x90; 0xa8; 0x52; 0x14; 0x00;
   0xa4; 0x29; 0x54; 0x85; 0x28; 0x00; 0x13; 0x5a; 0x02; 0x6b; 0x40; 0x00;
   0x30; 0x93; 0x46; 0x12; 0x68; 0x00; 0x88; 0xac; 0x31; 0x15; 0x84; 0x00;
   0x09; 0x0c; 0xc1; 0x21; 0x98; 0x00].

Definition kMaskRandom38_34 : list Z :=
  [0x2c; 0x16; 0x05; 0x82; 0xc0; 0x00; 0x91; 0x40; 0xd2; 0x28; 0x18; 0x00;
   0xc0; 0xd0; 0x38; 0x1a; 0x04; 0x00; 0x06; 0x82; 0xa0; 0xd0; 0x54; 0x00;
   0xc8; 0x0c; 0x59; 0x01; 0x88; 0x00; 0x45; 0x61; 0x08; 0xac; 0x20; 0x00;
   0x30; 0x91; 0x46; 0x12; 0x28; 0x00; 0xa2; 0x28; 0x34; 0x45; 0x04; 0x00;
   0x4c; 0x27; 0x09; 0x84; 0xe0; 0x00; 0x66; 0x71; 0x8c; 0xce; 0x30; 0x00;
   0x91; 0x40; 0xf2; 0x28; 0x1c; 0x00; 0x42; 0x90; 0xa8; 0x52; 0x14; 0x00;
   0xa4; 0x29; 0x54; 0x85; 0x28; 0x00; 0x13; 0x5a; 0x02; 0x6b; 0x40; 0x00;
   0x30; 0x93; 0x46; 0x12; 0x68; 0x00; 0x88; 0xac; 0x31; 0x15; 0x84; 0x00;
   0x09; 0x0c; 0xc1; 0x21; 0x98; 0x00; 0x2c; 0x16; 0x05; 0x82; 0xc0; 0x00;
   0x91; 0x40; 0xd2; 0x28; 0x18; 0x00; 0xc0; 0xd0; 0x38; 0x1a; 0x04; 0x00;
   0x06; 0x82; 0xa0; 0xd0; 0x54; 0x00; 0xc8; 0x0c; 0x59; 0x01; 0x88; 0x00;
   0x45; 0x61; 0x08; 0xac; 0x20; 0x00; 0x30; 0x91; 0x46; 0x12; 0x28; 0x00;
   0xa2; 0x28; 0x34; 0x45; 0x04; 0x00; 0x8c; 0x23; 0x11; 0x84; 0x60; 0x00;
   0x47; 0x19; 0x88; 0xe3; 0x30; 0x00; 0x81; 0x88; 0x70; 0x31; 0x0c; 0x00;
   0x12; 0x86; 0x22; 0x50; 0xc4; 0x00; 0x58; 0x14; 0x4b; 0x02; 0x88; 0x00;
   0x28; 0xca; 0x05; 0x19; 0x40; 0x00; 0x34; 0x60; 0x86; 0x8c; 0x10; 0x00;
   0x7e; 0x75; 0xef; 0xce; 0xbc; 0x00; 0x91; 0x48; 0xfa; 0xf0; 0xd8; 0x00].

Definition kMaskRandom38_35 : list Z :=
  [0x2c; 0x16; 0x05; 0x82; 0xc0; 0x00; 0x91; 0x40; 0xd2; 0x28; 0x18; 0x00;
   0xc0; 0xd0; 0x38; 0x1a; 0x04; 0x00; 0x06; 0x82; 0xa0; 0xd0; 0x54; 0x00;
   0xc8; 0x0c; 0x59; 0x01; 0x88; 0x00; 0x45; 0x61; 0x08; 0xac; 0x20; 0x00;
   0x30; 0x91; 0x46; 0x12; 0x28; 0x00; 0xa2; 0x28; 0x34; 0x45; 0x04; 0x00;
   0x4c; 0x27; 0x09; 0x84; 0xe0; 0x00; 0x66; 0x71; 0x8c; 0xce; 0x30; 0x00;
   0x91; 0x40; 0xf2; 0x28; 0x1c; 0x00; 0x42; 0x90; 0xa8; 0x52; 0x14; 0x00;
   0xa4; 0x29; 0x54; 0x85; 0x28; 0x00; 0x13; 0x5a; 0x02; 0x6b; 0x40; 0x00;
   0x30; 0x93; 0x46; 0x12; 0x68; 0x00; 0x88; 0xac; 0x31; 0x15; 0x84; 0x00;
   0x09; 0x0c; 0xc1; 0x21; 0x98; 0x00; 0x4c; 0x27; 0x09; 0x84; 0xe0; 0x00;
   0x66; 0x71; 0x8c; 0xce; 0x30; 0x00; 0x91; 0x40; 0xf2; 0x28; 0x1c; 0x00;
   0x42; 0x90; 0xa8; 0x52; 0x14; 0x00; 0xa4; 0x29; 0x54; 0x85; 0x28; 0x00;
   0x13; 0x5a; 0x02; 0x6b; 0x40; 0x00; 0x30; 0x93; 0x46; 0x12; 0x68; 0x00;
   0x88; 0xac; 0x31; 0x15; 0x84; 0x00; 0x09; 0x0c; 0xc1; 0x21; 0x98; 0x00;
   0x2c; 0x16; 0x05; 0x82; 0xc0; 0x00; 0x91; 0x40; 0xd2; 0x28; 0x18; 0x00;
   0xc0; 0xd0; 0x38; 0x1a; 0x04; 0x00; 0x06; 0x82; 0xa0; 0xd0; 0x54; 0x00;
   0xc8; 0x0c; 0x59; 0x01; 0x88; 0x00; 0x45; 0x61; 0x08; 0xac; 0x20; 0x00;
   0x30; 0x91; 0x46; 0x12; 0x28; 0x00; 0xa2; 0x28; 0x34; 0x45; 0x04; 0x00;
   0x51; 0x97; 0x2a; 0x32; 0xe4; 0x00].

Definition kMaskRandom38_36 : list Z :=
  [0x4c; 0x27; 0x09; 0x84; 0xe0; 0x00; 0x66; 0x71; 0x8c; 0xce; 0x30; 0x00;
   0x91; 0x40; 0xf2; 0x28; 0x1c; 0x00; 0x42; 0x90; 0xa8; 0x52; 0x14; 0x00;
   0xa4; 0x29; 0x54; 0x85; 0x28; 0x00; 0x13; 0x5a; 0x02; 0x6b; 0x40; 0x00;
   0x30; 0x93; 0x46; 0x12; 0x68; 0x00; 0x88; 0xac; 0x31; 0x15; 0x84; 0x00;
   0x09; 0x0c; 0xc1; 0x21; 0x98; 0x00; 0x2c; 0x16; 0x05; 0x82; 0xc0; 0x00;
   0x91; 0x40; 0xd2; 0x28; 0x18; 0x00; 0xc0; 0xd0; 0x38; 0x1a; 0x04; 0x00;
   0x06; 0x82; 0xa0; 0xd0; 0x54; 0x00; 0xc8; 0x0c; 0x59; 0x01; 0x88; 0x00;
   0x45; 0x61; 0x08; 0xac; 0x20; 0x00; 0x30; 0x91; 0x46; 0x12; 0x28; 0x00;
   0xa2; 0x28; 0x34; 0x45; 0x04; 0x00; 0x51; 0x97; 0x2a; 0x32; 0xe4; 0x00;
   0x2c; 0x16; 0x05; 0x82; 0xc0; 0x00; 0x91; 0x40; 0xd2; 0x28; 0x18; 0x00;
   0xc0; 0xd0; 0x38; 0x1a; 0x04; 0x00; 0x06; 0x82; 0xa0; 0xd0; 0x54; 0x00;
   0xc8; 0x0c; 0x59; 0x01; 0x88; 0x00; 0x45; 0x61; 0x08; 0xac; 0x20; 0x00;
   0x30; 0x91; 0x46; 0x12; 0x28; 0x00; 0xa2; 0x28; 0x34; 0x45; 0x04; 0x00;
   0x4c; 0x27; 0x09; 0x84; 0xe0; 0x00; 0x66; 0x71; 0x8c; 0xce; 0x30; 0x00;
   0x91; 0x40; 0xf2; 0x28; 0x1c; 0x00; 0x42; 0x90; 0xa8; 0x52; 0x14; 0x00;
   0xa4; 0x29; 0x54; 0x85; 0x28; 0x00; 0x13; 0x5a; 0x02; 0x6b; 0x40; 0x00;
   0x30; 0x93; 0x46; 0x12; 0x68; 0x00; 0x88; 0xac; 0x31; 0x15; 0x84; 0x00;
   0x09; 0x0c; 0xc1; 0x21; 0x98; 0x00; 0x80; 0x95; 0xc2; 0x68; 0x28; 0x00].

Definition kMaskRandom38_37 : list Z :=
  [0x4c; 0x27; 0x09; 0x84; 0xe0; 0x00; 0x66; 0x71; 0x8c; 0xce; 0x30; 0x00;
   0x91; 0x40; 0xf2; 0x28; 0x1c; 0x00; 0x42; 0x90; 0xa8; 0x52; 0x14; 0x00;
   0xa4; 0x29; 0x54; 0x85; 0x28; 0x00; 0x13; 0x5a; 0x02; 0x6b; 0x40; 0x00;
   0x30; 0x93; 0x46; 0x12; 0x68; 0x00; 0x88; 0xac; 0x31; 0x15; 0x84; 0x00;
   0x09; 0x0c; 0xc1; 0x21; 0x98; 0x00; 0x2c; 0x16; 0x05; 0x82; 0xc0; 0x00;
   0x91; 0x40; 0xd2; 0x28; 0x18; 0x00; 0xc0; 0xd0; 0x38; 0x1a; 0x04; 0x00;
   0x06; 0x82; 0xa0; 0xd0; 0x54; 0x00; 0xc8; 0x0c; 0x59; 0x01; 0x88; 0x00;
   0x45; 0x61; 0x08; 0xac; 0x20; 0x00; 0x30; 0x91; 0x46; 0x12; 0x28; 0x00;
   0xa2; 0x28; 0x34; 0x45; 0x04; 0x00; 0x51; 0x97; 0x2a; 0x32; 0xe4; 0x00;
   0x4c; 0x27; 0x09; 0x84; 0xe0; 0x00; 0x66; 0x71; 0x8c; 0xce; 0x30; 0x00;
   0x91; 0x40; 0xf2; 0x28; 0x1c; 0x00; 0x42; 0x90; 0xa8; 0x52; 0x14; 0x00;
   0xa4; 0x29; 0x54; 0x85; 0x28; 0x00; 0x13; 0x5a; 0x02; 0x6b; 0x40; 0x00;
   0x30; 0x93; 0x46; 0x12; 0x68; 0x00; 0x88; 0xac; 0x31; 0x15; 0x84; 0x00;
   0x09; 0x0c; 0xc1; 0x21; 0x98; 0x00; 0x4c; 0x26; 0x09; 0x84; 0xc0; 0x00;
   0x66; 0x28; 0x8c; 0xc5; 0x10; 0x00; 0x91; 0x50; 0x32; 0x2a; 0x04; 0x00;
   0x42; 0x82; 0x68; 0x50; 0x4c; 0x00; 0xa4; 0x01; 0xd4; 0x80; 0x38; 0x00;
   0x13; 0x43; 0x02; 0x68; 0x60; 0x00; 0x30; 0x94; 0x86; 0x12; 0x90; 0x00;
   0x88; 0xa1; 0x31; 0x14; 0x24; 0x00; 0x09; 0x4c; 0x01; 0x29; 0x80; 0x00;
   0xcd; 0x98; 0x59; 0xb3; 0x08; 0x00].

Definition kMaskRandom38_38 : list Z :=
  [0x4c; 0x27; 0x09; 0x84; 0xe0; 0x00; 0x66; 0x71; 0x8c; 0xce; 0x30; 0x00;
   0x91; 0x40; 0xf2; 0x28; 0x1c; 0x00; 0x42; 0x90; 0xa8; 0x52; 0x14; 0x00;
   0xa4; 0x29; 0x54; 0x85; 0x28; 0x00; 0x13; 0x5a; 0x02; 0x6b; 0x40; 0x00;
   0x30; 0x93; 0x46; 0x12; 0x68; 0x00; 0x88; 0xac; 0x31; 0x15; 0x84; 0x00;
   0x09; 0x0c; 0xc1; 0x21; 0x98; 0x00; 0x4c; 0x26; 0x09; 0x84; 0xc0; 0x00;
   0x66; 0x28; 0x8c; 0xc5; 0x10; 0x00; 0x91; 0x50; 0x32; 0x2a; 0x04; 0x00;
   0x42; 0x82; 0x68; 0x50; 0x4c; 0x00; 0xa4; 0x01; 0xd4; 0x80; 0x38; 0x00;
   0x13; 0x43; 0x02; 0x68; 0x60; 0x00; 0x30; 0x94; 0x86; 0x12; 0x90; 0x00;
   0x88; 0xa1; 0x31; 0x14; 0x24; 0x00; 0x09; 0x4c; 0x01; 0x29; 0x80; 0x00;
   0xcd; 0x98; 0x59; 0xb3; 0x08; 0x00; 0x4c; 0x27; 0x09; 0x84; 0xe0; 0x00;
   0x66; 0x71; 0x8c; 0xce; 0x30; 0x00; 0x91; 0x40; 0xf2; 0x28; 0x1c; 0x00;
   0x42; 0x90; 0xa8; 0x52; 0x14; 0x00; 0xa4; 0x29; 0x54; 0x85; 0x28; 0x00;
   0x13; 0x5a; 0x02; 0x6b; 0x40; 0x00; 0x30; 0x93; 0x46; 0x12; 0x68; 0x00;
   0x88; 0xac; 0x31; 0x15; 0x84; 0x00; 0x09; 0x0c; 0xc1; 0x21; 0x98; 0x00;
   0x2c; 0x16; 0x05; 0x82; 0xc0; 0x00; 0x91; 0x40; 0xd2; 0x28; 0x18; 0x00;
   0xc0; 0xd0; 0x38; 0x1a; 0x04; 0x00; 0x06; 0x82; 0xa0; 0xd0; 0x54; 0x00;
   0xc8; 0x0c; 0x59; 0x01; 0x88; 0x00; 0x45; 0x61; 0x08; 0xac; 0x20; 0x00;
   0x30; 0x91; 0x46; 0x12; 0x28; 0x00; 0xa2; 0x28; 0x34; 0x45; 0x04; 0x00;
   0x51; 0x97; 0x2a; 0x32; 0xe4; 0x00; 0x8c; 0xed; 0x11; 0x5f; 0x24; 0x00].

Definition kMaskRandom39_1 : list Z :=
  [0xff; 0xff; 0xff; 0xff; 0xfe; 0x00].

Definition kMaskRandom39_2 : list Z :=
  [0xce; 0x77; 0x1d; 0xc7; 0x70; 0x00; 0x39; 0xcc; 0xf3; 0x3c; 0xce; 0x00].

Definition kMaskRandom39_3 : list Z :=
  [0xcc; 0x67; 0x19; 0xc6; 0x70; 0x00; 0x27; 0x2c; 0xca; 0xb2; 0xac; 0x00;
   0x92; 0xd2; 0x76; 0x2d; 0x46; 0x00].

Definition kMaskRandom39_4 : list Z :=
  [0xec; 0x73; 0x1c; 0xc7; 0x30; 0x00; 0x67; 0x19; 0xc6; 0x71; 0x9c; 0x00;
   0xb1; 0xcc; 0x73; 0x1c; 0xc6; 0x00; 0x5a; 0x96; 0xa5; 0xa9; 0x6a; 0x00].

Definition kMaskRandom39_5 : list Z :=
  [0x4c; 0xe7; 0x19; 0xc6; 0x70; 0x00; 0x66; 0x31; 0xcc; 0x73; 0x1c; 0x00;
   0xa1; 0xcc; 0x73; 0x1c; 0xa6; 0x00; 0x92; 0xa6; 0xa5; 0x6a; 0x6a; 0x00;
   0xb8; 0x99; 0x96; 0x8b; 0x94; 0x00].

Definition kMaskRandom39_6 : list Z :=
  [0x4c; 0x36; 0x09; 0x83; 0x60; 0x00; 0x45; 0x68; 0x8a; 0x26; 0x88; 0x00;
   0x30; 0xd0; 0x64; 0x1d; 0x06; 0x00; 0x8a; 0x82; 0xb0; 0xa8; 0x2a; 0x00;
   0x26; 0x0b; 0x40; 0xd0; 0xd4; 0x00; 0x95; 0x45; 0x13; 0x44; 0x30; 0x00].

Definition kMaskRandom39_7 : list Z :=
  [0xc4; 0xa3; 0x09; 0xc2; 0x30; 0x00; 0x23; 0x19; 0x86; 0x65; 0x80; 0x00;
   0x91; 0x1c; 0x22; 0x01; 0xd6; 0x00; 0x4a; 0x82; 0xb0; 0x2a; 0x2a; 0x00;
   0x34; 0x49; 0x44; 0x98; 0x94; 0x00; 0x8b; 0x4a; 0x1a; 0x84; 0x60; 0x00;
   0xc8; 0x24; 0xc1; 0x94; 0x4c; 0x00].

Definition kMaskRandom39_8 : list Z :=
  [0x16; 0x13; 0x84; 0xe1; 0x38; 0x00; 0xc2; 0x44; 0xd1; 0x34; 0x4c; 0x00;
   0x60; 0xe8; 0x3a; 0x0e; 0x82; 0x00; 0x85; 0x12; 0x64; 0x99; 0x26; 0x00;
   0xcc; 0x21; 0x5c; 0x52; 0x14; 0x00; 0x29; 0x63; 0x18; 0xc6; 0x30; 0x00;
   0x11; 0x98; 0xc6; 0x31; 0x8c; 0x00; 0xb0; 0x0c; 0x63; 0x18; 0xc6; 0x00].

Definition kMaskRandom39_9 : list Z :=
  [0x44; 0xa7; 0x09; 0xc2; 0x70; 0x00; 0x66; 0x70; 0x8c; 0x47; 0x18; 0x00;
   0x12; 0xc0; 0xf0; 0x3c; 0x0e; 0x00; 0xc3; 0x10; 0xbc; 0x29; 0x0a; 0x00;
   0x8c; 0x29; 0x42; 0x72; 0x94; 0x00; 0x11; 0x5b; 0x16; 0x85; 0xa0; 0x00;
   0x21; 0x93; 0x44; 0xd1; 0x34; 0x00; 0xa2; 0x2c; 0x0b; 0x0a; 0xc2; 0x00;
   0x18; 0x0c; 0xe9; 0x30; 0xca; 0x00].

Definition kMaskRandom39_10 : list Z :=
  [0x8c; 0xe3; 0x09; 0x82; 0x60; 0x00; 0x27; 0x11; 0xca; 0x22; 0x88; 0x00;
   0x32; 0x8d; 0x34; 0x0d; 0x02; 0x00; 0x61; 0x92; 0x60; 0x98; 0x26; 0x00;
   0x5c; 0x38; 0x80; 0x70; 0x1c; 0x00; 0xcc; 0x75; 0x10; 0xc4; 0x30; 0x00;
   0x2b; 0x19; 0xc5; 0x21; 0x48; 0x00; 0x32; 0xd2; 0x68; 0x4a; 0x12; 0x00;
   0x25; 0x8e; 0xb3; 0x04; 0xc0; 0x00; 0x50; 0x88; 0xc6; 0x11; 0x84; 0x00].

Definition kMaskRandom39_11 : list Z :=
  [0x8c; 0xe3; 0x18; 0xc6; 0x30; 0x00; 0x27; 0x11; 0xc4; 0x71; 0x1c; 0x00;
   0x32; 0x8d; 0x23; 0x48; 0xd2; 0x00; 0x61; 0x92; 0x64; 0x99; 0x26; 0x00;
   0x5c; 0x38; 0x8e; 0x23; 0x88; 0x00; 0x84; 0x87; 0x01; 0xc0; 0x70; 0x00;
   0x27; 0x19; 0x86; 0x61; 0x98; 0x00; 0x51; 0x88; 0x62; 0x18; 0x86; 0x00;
   0x1a; 0x22; 0xa8; 0xaa; 0x2a; 0x00; 0x68; 0x44; 0x51; 0x14; 0x44; 0x00;
   0x89; 0x70; 0x1c; 0x07; 0x00; 0x00].

Definition kMaskRandom39_12 : list Z :=
  [0x84; 0x87; 0x01; 0xc0; 0x70; 0x00; 0x27; 0x19; 0x86; 0x61; 0x98; 0x00;
   0x51; 0x88; 0x62; 0x18; 0x86; 0x00; 0x1a; 0x22; 0xa8; 0xaa; 0x2a; 0x00;
   0x68; 0x44; 0x51; 0x14; 0x44; 0x00; 0x89; 0x70; 0x1c; 0x07; 0x00; 0x00;
   0x8c; 0xe3; 0x18; 0xc6; 0x30; 0x00; 0x27; 0x11; 0xc4; 0x71; 0x1c; 0x00;
   0x32; 0x8d; 0x23; 0x48; 0xd2; 0x00; 0x61; 0x92; 0x64; 0x99; 0x26; 0x00;
   0x5c; 0x38; 0x8e; 0x23; 0x88; 0x00; 0x90; 0xc8; 0x9e; 0xbb; 0x88; 0x00].

Definition kMaskRandom39_13 : list Z :=
  [0x84; 0x87; 0x01; 0xc0; 0x70; 0x00; 0x27; 0x19; 0x86; 0x61; 0x98; 0x00;
   0x51; 0x88; 0x62; 0x18; 0x86; 0x00; 0x1a; 0x22; 0xa8; 0xaa; 0x2a; 0x00;
   0x68; 0x44; 0x51; 0x14; 0x44; 0x00; 0x89; 0x70; 0x1c; 0x07; 0x00; 0x00;
   0x8c; 0x23; 0x08; 0xc2; 0x30; 0x00; 0x47; 0x19; 0x86; 0x61; 0x98; 0x00;
   0x81; 0x88; 0x62; 0x18; 0x86; 0x00; 0x12; 0x86; 0x21; 0x88; 0x62; 0x00;
   0x58; 0x14; 0x45; 0x11; 0x44; 0x00; 0x28; 0xca; 0x12; 0x84; 0xa0; 0x00;
   0x34; 0x60; 0x98; 0x26; 0x08; 0x00].

Definition kMaskRandom39_14 : list Z :=
  [0x8c; 0x23; 0x08; 0xc2; 0x30; 0x00; 0x47; 0x19; 0x86; 0x61; 0x98; 0x00;
   0x81; 0x88; 0x62; 0x18; 0x86; 0x00; 0x12; 0x86; 0x21; 0x88; 0x62; 0x00;
   0x58; 0x14; 0x45; 0x11; 0x44; 0x00; 0x28; 0xca; 0x12; 0x84; 0xa0; 0x00;
   0x34; 0x60; 0x98; 0x26; 0x08; 0x00; 0x84; 0x87; 0x01; 0xc0; 0x70; 0x00;
   0x27; 0x19; 0x86; 0x61; 0x98; 0x00; 0x51; 0x88; 0x62; 0x18; 0x86; 0x00;
   0x1a; 0x22; 0xa8; 0xaa; 0x2a; 0x00; 0x68; 0x44; 0x51; 0x14; 0x44; 0x00;
   0x89; 0x70; 0x1c; 0x07; 0x00; 0x00; 0x6e; 0x27; 0x6a; 0xc7; 0xc4; 0x00].

Definition kMaskRandom39_15 : list Z :=
  [0x8c; 0x23; 0x08; 0xc2; 0x30; 0x00; 0x47; 0x19; 0x86; 0x61; 0x98; 0x00;
   0x81; 0x88; 0x62; 0x18; 0x86; 0x00; 0x12; 0x86; 0x21; 0x88; 0x62; 0x00;
   0x58; 0x14; 0x45; 0x11; 0x44; 0x00; 0x28; 0xca; 0x12; 0x84; 0xa0; 0x00;
   0x34; 0x60; 0x98; 0x26; 0x08; 0x00; 0x2c; 0x16; 0x05; 0x81; 0x60; 0x00;
   0x91; 0x40; 0xd0; 0x34; 0x0c; 0x00; 0xc0; 0xd0; 0x34; 0x0d; 0x02; 0x00;
   0x06; 0x82; 0xa0; 0xa8; 0x2a; 0x00; 0xc8; 0x0c; 0x43; 0x10; 0xc4; 0x00;
   0x45; 0x61; 0x18; 0x46; 0x10; 0x00; 0x30; 0x91; 0x44; 0x51; 0x14; 0x00;
   0xa2; 0x28; 0x2a; 0x0a; 0x82; 0x00].

Definition kMaskRandom39_16 : list Z :=
  [0x2c; 0x16; 0x05; 0x81; 0x60; 0x00; 0x91; 0x40; 0xd0; 0x34; 0x0c; 0x00;
   0xc0; 0xd0; 0x34; 0x0d; 0x02; 0x00; 0x06; 0x82; 0xa0; 0xa8; 0x2a; 0x00;
   0xc8; 0x0c; 0x43; 0x10; 0xc4; 0x00; 0x45; 0x61; 0x18; 0x46; 0x10; 0x00;
   0x30; 0x91; 0x44; 0x51; 0x14; 0x00; 0xa2; 0x28; 0x2a; 0x0a; 0x82; 0x00;
   0x8c; 0x23; 0x08; 0xc2; 0x30; 0x00; 0x47; 0x19; 0x86; 0x61; 0x98; 0x00;
   0x81; 0x88; 0x62; 0x18; 0x86; 0x00; 0x12; 0x86; 0x21; 0x88; 0x62; 0x00;
   0x58; 0x14; 0x45; 0x11; 0x44; 0x00; 0x28; 0xca; 0x12; 0x84; 0xa0; 0x00;
   0x34; 0x60; 0x98; 0x26; 0x08; 0x00; 0x7e; 0x75; 0xe5; 0x03; 0x8c; 0x00].

Definition kMaskRandom39_17 : list Z :=
  [0x2c; 0x16; 0x05; 0x81; 0x60; 0x00; 0x91; 0x40; 0xd0; 0x34; 0x0c; 0x00;
   0xc0; 0xd0; 0x34; 0x0d; 0x02; 0x00; 0x06; 0x82; 0xa0; 0xa8; 0x2a; 0x00;
   0xc8; 0x0c; 0x43; 0x10; 0xc4; 0x00; 0x45; 0x61; 0x18; 0x46; 0x10; 0x00;
   0x30; 0x91; 0x44; 0x51; 0x14; 0x00; 0xa2; 0x28; 0x2a; 0x0a; 0x82; 0x00;
   0x4c; 0x27; 0x09; 0xc2; 0x70; 0x00; 0x66; 0x71; 0x9c; 0x67; 0x18; 0x00;
   0x91; 0x40; 0xf0; 0x3c; 0x0e; 0x00; 0x42; 0x90; 0xa4; 0x29; 0x0a; 0x00;
   0xa4; 0x29; 0x4a; 0x52; 0x94; 0x00; 0x13; 0x5a; 0x16; 0x85; 0xa0; 0x00;
   0x30; 0x93; 0x44; 0xd1; 0x34; 0x00; 0x88; 0xac; 0x2b; 0x0a; 0xc2; 0x00;
   0x09; 0x0c; 0xc3; 0x30; 0xcc; 0x00].

Definition kMaskRandom39_18 : list Z :=
  [0x4c; 0x27; 0x09; 0xc2; 0x70; 0x00; 0x66; 0x71; 0x9c; 0x67; 0x18; 0x00;
   0x91; 0x40; 0xf0; 0x3c; 0x0e; 0x00; 0x42; 0x90; 0xa4; 0x29; 0x0a; 0x00;
   0xa4; 0x29; 0x4a; 0x52; 0x94; 0x00; 0x13; 0x5a; 0x16; 0x85; 0xa0; 0x00;
   0x30; 0x93; 0x44; 0xd1; 0x34; 0x00; 0x88; 0xac; 0x2b; 0x0a; 0xc2; 0x00;
   0x09; 0x0c; 0xc3; 0x30; 0xcc; 0x00; 0x2c; 0x16; 0x05; 0x81; 0x60; 0x00;
   0x91; 0x40; 0xd0; 0x34; 0x0c; 0x00; 0xc0; 0xd0; 0x34; 0x0d; 0x02; 0x00;
   0x06; 0x82; 0xa0; 0xa8; 0x2a; 0x00; 0xc8; 0x0c; 0x43; 0x10; 0xc4; 0x00;
   0x45; 0x61; 0x18; 0x46; 0x10; 0x00; 0x30; 0x91; 0x44; 0x51; 0x14; 0x00;
   0xa2; 0x28; 0x2a; 0x0a; 0x82; 0x00; 0x51; 0x97; 0x24; 0x2f; 0x7e; 0x00].

Definition kMaskRandom39_19 : list Z :=
  [0x4c; 0x27; 0x09; 0xc2; 0x70; 0x00; 0x66; 0x71; 0x9c; 0x67; 0x18; 0x00;
   0x91; 0x40; 0xf0; 0x3c; 0x0e; 0x00; 0x42; 0x90; 0xa4; 0x29; 0x0a; 0x00;
   0xa4; 0x29; 0x4a; 0x52; 0x94; 0x00; 0x13; 0x5a; 0x16; 0x85; 0xa0; 0x00;
   0x30; 0x93; 0x44; 0xd1; 0x34; 0x00; 0x88; 0xac; 0x2b; 0x0a; 0xc2; 0x00;
   0x09; 0x0c; 0xc3; 0x30; 0xcc; 0x00; 0x4c; 0x26; 0x09; 0x82; 0x60; 0x00;
   0x66; 0x28; 0x8a; 0x22; 0x88; 0x00; 0x91; 0x50; 0x34; 0x0d; 0x02; 0x00;
   0x42; 0x82; 0x60; 0x98; 0x26; 0x00; 0xa4; 0x01; 0xc0; 0x70; 0x1c; 0x00;
   0x13; 0x43; 0x10; 0xc4; 0x30; 0x00; 0x30; 0x94; 0x85; 0x21; 0x48; 0x00;
   0x88; 0xa1; 0x28; 0x4a; 0x12; 0x00; 0x09; 0x4c; 0x13; 0x04; 0xc0; 0x00;
   0xcd; 0x98; 0x46; 0x11; 0x84; 0x00].

Definition kMaskRandom39_20 : list Z :=
  [0x8c; 0xe3; 0x09; 0x82; 0x60; 0x00; 0x27; 0x11; 0xca; 0x22; 0x88; 0x00;
   0x32; 0x8d; 0x34; 0x0d; 0x02; 0x00; 0x61; 0x92; 0x60; 0x98; 0x26; 0x00;
   0x5c; 0x38; 0x80; 0x70; 0x1c; 0x00; 0xcc; 0x75; 0x10; 0xc4; 0x30; 0x00;
   0x2b; 0x19; 0xc5; 0x21; 0x48; 0x00; 0x32; 0xd2; 0x68; 0x4a; 0x12; 0x00;
   0x25; 0x8e; 0xb3; 0x04; 0xc0; 0x00; 0x50; 0x88; 0xc6; 0x11; 0x84; 0x00;
   0x44; 0xa7; 0x09; 0xc2; 0x70; 0x00; 0x66; 0x70; 0x8c; 0x47; 0x18; 0x00;
   0x12; 0xc0; 0xf0; 0x3c; 0x0e; 0x00; 0xc3; 0x10; 0xbc; 0x29; 0x0a; 0x00;
   0x8c; 0x29; 0x42; 0x72; 0x94; 0x00; 0x11; 0x5b; 0x16; 0x85; 0xa0; 0x00;
   0x21; 0x93; 0x44; 0xd1; 0x34; 0x00; 0xa2; 0x2c; 0x0b; 0x0a; 0xc2; 0x00;
   0x18; 0x0c; 0xe9; 0x30; 0xca; 0x00; 0x0d; 0xba; 0x52; 0x38; 0xbc; 0x00].

Definition kMaskRandom39_21 : list Z :=
  [0x8c; 0xe3; 0x09; 0x82; 0x60; 0x00; 0x27; 0x11; 0xca; 0x22; 0x88; 0x00;
   0x32; 0x8d; 0x34; 0x0d; 0x02; 0x00; 0x61; 0x92; 0x60; 0x98; 0x26; 0x00;
   0x5c; 0x38; 0x80; 0x70; 0x1c; 0x00; 0xcc; 0x75; 0x10; 0xc4; 0x30; 0x00;
   0x2b; 0x19; 0xc5; 0x21; 0x48; 0x00; 0x32; 0xd2; 0x68; 0x4a; 0x12; 0x00;
   0x25; 0x8e; 0xb3; 0x04; 0xc0; 0x00; 0x50; 0x88; 0xc6; 0x11; 0x84; 0x00;
   0x8c; 0xe3; 0x18; 0xc6; 0x30; 0x00; 0x27; 0x11; 0xc4; 0x71; 0x1c; 0x00;
   0x32; 0x8d; 0x23; 0x48; 0xd2; 0x00; 0x61; 0x92; 0x64; 0x99; 0x26; 0x00;
   0x5c; 0x38; 0x8e; 0x23; 0x88; 0x00; 0x84; 0x87; 0x01; 0xc0; 0x70; 0x00;
   0x27; 0x19; 0x86; 0x61; 0x98; 0x00; 0x51; 0x88; 0x62; 0x18; 0x86; 0x00;
   0x1a; 0x22; 0xa8; 0xaa; 0x2a; 0x00; 0x68; 0x44; 0x51; 0x14; 0x44; 0x00;
   0x89; 0x70; 0x1c; 0x07; 0x00; 0x00].

Definition kMaskRandom39_22 : list Z :=
  [0x8c; 0xe3; 0x18; 0xc6; 0x30; 0x00; 0x27; 0x11; 0xc4; 0x71; 0x1c; 0x00;
   0x32; 0x8d; 0x23; 0x48; 0xd2; 0x00; 0x61; 0x92; 0x64; 0x99; 0x26; 0x00;
   0x5c; 0x38; 0x8e; 0x23; 0x88; 0x00; 0x84; 0x87; 0x01; 0xc0; 0x70; 0x00;
   0x27; 0x19; 0x86; 0x61; 0x98; 0x00; 0x51; 0x88; 0x62; 0x18; 0x86; 0x00;
   0x1a; 0x22; 0xa8; 0xaa; 0x2a; 0x00; 0x68; 0x44; 0x51; 0x14; 0x44; 0x00;
   0x89; 0x70; 0x1c; 0x07; 0x00; 0x00; 0x8c; 0xe3; 0x09; 0x82; 0x60; 0x00;
   0x27; 0x11; 0xca; 0x22; 0x88; 0x00; 0x32; 0x8d; 0x34; 0x0d; 0x02; 0x00;
   0x61; 0x92; 0x60; 0x98; 0x26; 0x00; 0x5c; 0x38; 0x80; 0x70; 0x1c; 0x00;
   0xcc; 0x75; 0x10; 0xc4; 0x30; 0x00; 0x2b; 0x19; 0xc5; 0x21; 0x48; 0x00;
   0x32; 0xd2; 0x68; 0x4a; 0x12; 0x00; 0x25; 0x8e; 0xb3; 0x04; 0xc0; 0x00;
   0x50; 0x88; 0xc6; 0x11; 0x84; 0x00; 0xfc; 0x5a; 0xb2; 0x13; 0x12; 0x00].

Definition kMaskRandom39_23 : list Z :=
  [0x8c; 0xe3; 0x18; 0xc6; 0x30; 0x00; 0x27; 0x11; 0xc4; 0x71; 0x1c; 0x00;
   0x32; 0x8d; 0x23; 0x48; 0xd2; 0x00; 0x61; 0x92; 0x64; 0x99; 0x26; 0x00;
   0x5c; 0x38; 0x8e; 0x23; 0x88; 0x00; 0x84; 0x87; 0x01; 0xc0; 0x70; 0x00;
   0x27; 0x19; 0x86; 0x61; 0x98; 0x00; 0x51; 0x88; 0x62; 0x18; 0x86; 0x00;
   0x1a; 0x22; 0xa8; 0xaa; 0x2a; 0x00; 0x68; 0x44; 0x51; 0x14; 0x44; 0x00;
   0x89; 0x70; 0x1c; 0x07; 0x00; 0x00; 0x84; 0x87; 0x01; 0xc0; 0x70; 0x00;
   0x27; 0x19; 0x86; 0x61; 0x98; 0x00; 0x51; 0x88; 0x62; 0x18; 0x86; 0x00;
   0x1a; 0x22; 0xa8; 0xaa; 0x2a; 0x00; 0x68; 0x44; 0x51; 0x14; 0x44; 0x00;
   0x89; 0x70; 0x1c; 0x07; 0x00; 0x00; 0x8c; 0xe3; 0x18; 0xc6; 0x30; 0x00;
   0x27; 0x11; 0xc4; 0x71; 0x1c; 0x00; 0x32; 0x8d; 0x23; 0x48; 0xd2; 0x00;
   0x61; 0x92; 0x64; 0x99; 0x26; 0x00; 0x5c; 0x38; 0x8e; 0x23; 0x88; 0x00;
   0x90; 0xc8; 0x9e; 0xbb; 0x88; 0x00].

Definition kMaskRandom39_24 : list Z :=
  [0x84; 0x87; 0x01; 0xc0; 0x70; 0x00; 0x27; 0x19; 0x86; 0x61; 0x98; 0x00;
   0x51; 0x88; 0x62; 0x18; 0x86; 0x00; 0x1a; 0x22; 0xa8; 0xaa; 0x2a; 0x00;
   0x68; 0x44; 0x51; 0x14; 0x44; 0x00; 0x89; 0x70; 0x1c; 0x07; 0x00; 0x00;
   0x8c; 0xe3; 0x18; 0xc6; 0x30; 0x00; 0x27; 0x11; 0xc4; 0x71; 0x1c; 0x00;
   0x32; 0x8d; 0x23; 0x48; 0xd2; 0x00; 0x61; 0x92; 0x64; 0x99; 0x26; 0x00;
   0x5c; 0x38; 0x8e; 0x23; 0x88; 0x00; 0x90; 0xc8; 0x9e; 0xbb; 0x88; 0x00;
   0x8c; 0xe3; 0x18; 0xc6; 0x30; 0x00; 0x27; 0x11; 0xc4; 0x71; 0x1c; 0x00;
   0x32; 0x8d; 0x23; 0x48; 0xd2; 0x00; 0x61; 0x92; 0x64; 0x99; 0x26; 0x00;
   0x5c; 0x38; 0x8e; 0x23; 0x88; 0x00; 0x84; 0x87; 0x01; 0xc0; 0x70; 0x00;
   0x27; 0x19; 0x86; 0x61; 0x98; 0x00; 0x51; 0x88; 0x62; 0x18; 0x86; 0x00;
   0x1a; 0x22; 0xa8; 0xaa; 0x2a; 0x00; 0x68; 0x44; 0x51; 0x14; 0x44; 0x00;
   0x89; 0x70; 0x1c; 0x07; 0x00; 0x00; 0xac; 0xbc; 0xf0; 0xff; 0x62; 0x00].

Definition kMaskRandom39_25 : list Z :=
  [0x84; 0x87; 0x01; 0xc0; 0x70; 0x00; 0x27; 0x19; 0x86; 0x61; 0x98; 0x00;
   0x51; 0x88; 0x62; 0x18; 0x86; 0x00; 0x1a; 0x22; 0xa8; 0xaa; 0x2a; 0x00;
   0x68; 0x44; 0x51; 0x14; 0x44; 0x00; 0x89; 0x70; 0x1c; 0x07; 0x00; 0x00;
   0x8c; 0xe3; 0x18; 0xc6; 0x30; 0x00; 0x27; 0x11; 0xc4; 0x71; 0x1c; 0x00;
   0x32; 0x8d; 0x23; 0x48; 0xd2; 0x00; 0x61; 0x92; 0x64; 0x99; 0x26; 0x00;
   0x5c; 0x38; 0x8e; 0x23; 0x88; 0x00; 0x90; 0xc8; 0x9e; 0xbb; 0x88; 0x00;
   0x84; 0x87; 0x01; 0xc0; 0x70; 0x00; 0x27; 0x19; 0x86; 0x61; 0x98; 0x00;
   0x51; 0x88; 0x62; 0x18; 0x86; 0x00; 0x1a; 0x22; 0xa8; 0xaa; 0x2a; 0x00;
   0x68; 0x44; 0x51; 0x14; 0x44; 0x00; 0x89; 0x70; 0x1c; 0x07; 0x00; 0x00;
   0x8c; 0x23; 0x08; 0xc2; 0x30; 0x00; 0x47; 0x19; 0x86; 0x61; 0x98; 0x00;
   0x81; 0x88; 0x62; 0x18; 0x86; 0x00; 0x12; 0x86; 0x21; 0x88; 0x62; 0x00;
   0x58; 0x14; 0x45; 0x11; 0x44; 0x00; 0x28; 0xca; 0x12; 0x84; 0xa0; 0x00;
   0x34; 0x60; 0x98; 0x26; 0x08; 0x00].

Definition kMaskRandom39_26 : list Z :=
  [0x84; 0x87; 0x01; 0xc0; 0x70; 0x00; 0x27; 0x19; 0x86; 0x61; 0x98; 0x00;
   0x51; 0x88; 0x62; 0x18; 0x86; 0x00; 0x1a; 0x22; 0xa8; 0xaa; 0x2a; 0x00;
   0x68; 0x44; 0x51; 0x14; 0x44; 0x00; 0x89; 0x70; 0x1c; 0x07; 0x00; 0x00;
   0x8c; 0x23; 0x08; 0xc2; 0x30; 0x00; 0x47; 0x19; 0x86; 0x61; 0x98; 0x00;
   0x81; 0x88; 0x62; 0x18; 0x86; 0x00; 0x12; 0x86; 0x21; 0x88; 0x62; 0x00;
   0x58; 0x14; 0x45; 0x11; 0x44; 0x00; 0x28; 0xca; 0x12; 0x84; 0xa0; 0x00;
   0x34; 0x60; 0x98; 0x26; 0x08; 0x00; 0x84; 0x87; 0x01; 0xc0; 0x70; 0x00;
   0x27; 0x19; 0x86; 0x61; 0x98; 0x00; 0x51; 0x88; 0x62; 0x18; 0x86; 0x00;
   0x1a; 0x22; 0xa8; 0xaa; 0x2a; 0x00; 0x68; 0x44; 0x51; 0x14; 0x44; 0x00;
   0x89; 0x70; 0x1c; 0x07; 0x00; 0x00; 0x8c; 0xe3; 0x18; 0xc6; 0x30; 0x00;
   0x27; 0x11; 0xc4; 0x71; 0x1c; 0x00; 0x32; 0x8d; 0x23; 0x48; 0xd2; 0x00;
   0x61; 0x92; 0x64; 0x99; 0x26; 0x00; 0x5c; 0x38; 0x8e; 0x23; 0x88; 0x00;
   0x90; 0xc8; 0x9e; 0xbb; 0x88; 0x00; 0x10; 0x17; 0x44; 0x72; 0xec; 0x00].

Definition kMaskRandom39_27 : list Z :=
  [0x84; 0x87; 0x01; 0xc0; 0x70; 0x00; 0x27; 0x19; 0x86; 0x61; 0x98; 0x00;
   0x51; 0x88; 0x62; 0x18; 0x86; 0x00; 0x1a; 0x22; 0xa8; 0xaa; 0x2a; 0x00;
   0x68; 0x44; 0x51; 0x14; 0x44; 0x00; 0x89; 0x70; 0x1c; 0x07; 0x00; 0x00;
   0x8c; 0x23; 0x08; 0xc2; 0x30; 0x00; 0x47; 0x19; 0x86; 0x61; 0x98; 0x00;
   0x81; 0x88; 0x62; 0x18; 0x86; 0x00; 0x12; 0x86; 0x21; 0x88; 0x62; 0x00;
   0x58; 0x14; 0x45; 0x11; 0x44; 0x00; 0x28; 0xca; 0x12; 0x84; 0xa0; 0x00;
   0x34; 0x60; 0x98; 0x26; 0x08; 0x00; 0x8c; 0x23; 0x08; 0xc2; 0x30; 0x00;
   0x47; 0x19; 0x86; 0x61; 0x98; 0x00; 0x81; 0x88; 0x62; 0x18; 0x86; 0x00;
   0x12; 0x86; 0x21; 0x88; 0x62; 0x00; 0x58; 0x14; 0x45; 0x11; 0x44; 0x00;
   0x28; 0xca; 0x12; 0x84; 0xa0; 0x00; 0x34; 0x60; 0x98; 0x26; 0x08; 0x00;
   0x84; 0x87; 0x01; 0xc0; 0x70; 0x00; 0x27; 0x19; 0x86; 0x61; 0x98; 0x00;
   0x51; 0x88; 0x62; 0x18; 0x86; 0x00; 0x1a; 0x22; 0xa8; 0xaa; 0x2a; 0x00;
   0x68; 0x44; 0x51; 0x14; 0x44; 0x00; 0x89; 0x70; 0x1c; 0x07; 0x00; 0x00;
   0x6e; 0x27; 0x6a; 0xc7; 0xc4; 0x00].

Definition kMaskRandom39_28 : list Z :=
  [0x8c; 0x23; 0x08; 0xc2; 0x30; 0x00; 0x47; 0x19; 0x86; 0x61; 0x98; 0x00;
   0x81; 0x88; 0x62; 0x18; 0x86; 0x00; 0x12; 0x86; 0x21; 0x88; 0x62; 0x00;
   0x58; 0x14; 0x45; 0x11; 0x44; 0x00; 0x28; 0xca; 0x12; 0x84; 0xa0; 0x00;
   0x34; 0x60; 0x98; 0x26; 0x08; 0x00; 0x84; 0x87; 0x01; 0xc0; 0x70; 0x00;
   0x27; 0x19; 0x86; 0x61; 0x98; 0x00; 0x51; 0x88; 0x62; 0x18; 0x86; 0x00;
   0x1a; 0x22; 0xa8; 0xaa; 0x2a; 0x00; 0x68; 0x44; 0x51; 0x14; 0x44; 0x00;
   0x89; 0x70; 0x1c; 0x07; 0x00; 0x00; 0x6e; 0x27; 0x6a; 0xc7; 0xc4; 0x00;
   0x84; 0x87; 0x01; 0xc0; 0x70; 0x00; 0x27; 0x19; 0x86; 0x61; 0x98; 0x00;
   0x51; 0x88; 0x62; 0x18; 0x86; 0x00; 0x1a; 0x22; 0xa8; 0xaa; 0x2a; 0x00;
   0x68; 0x44; 0x51; 0x14; 0x44; 0x00; 0x89; 0x70; 0x1c; 0x07; 0x00; 0x00;
   0x8c; 0x23; 0x08; 0xc2; 0x30; 0x00; 0x47; 0x19; 0x86; 0x61; 0x98; 0x00;
   0x81; 0x88; 0x62; 0x18; 0x86; 0x00; 0x12; 0x86; 0x21; 0x88; 0x62; 0x00;
   0x58; 0x14; 0x45; 0x11; 0x44; 0x00; 0x28; 0xca; 0x12; 0x84; 0xa0; 0x00;
   0x34; 0x60; 0x98; 0x26; 0x08; 0x00; 0x86; 0xb6; 0x04; 0xbc; 0x1e; 0x00].

Definition kMaskRandom39_29 : list Z :=
  [0x8c; 0x23; 0x08; 0xc2; 0x30; 0x00; 0x47; 0x19; 0x86; 0x61; 0x98; 0x00;
   0x81; 0x88; 0x62; 0x18; 0x86; 0x00; 0x12; 0x86; 0x21; 0x88; 0x62; 0x00;
   0x58; 0x14; 0x45; 0x11; 0x44; 0x00; 0x28; 0xca; 0x12; 0x84; 0xa0; 0x00;
   0x34; 0x60; 0x98; 0x26; 0x08; 0x00; 0x84; 0x87; 0x01; 0xc0; 0x70; 0x00;
   0x27; 0x19; 0x86; 0x61; 0x98; 0x00; 0x51; 0x88; 0x62; 0x18; 0x86; 0x00;
   0x1a; 0x22; 0xa8; 0xaa; 0x2a; 0x00; 0x68; 0x44; 0x51; 0x14; 0x44; 0x00;
   0x89; 0x70; 0x1c; 0x07; 0x00; 0x00; 0x6e; 0x27; 0x6a; 0xc7; 0xc4; 0x00;
   0x8c; 0x23; 0x08; 0xc2; 0x30; 0x00; 0x47; 0x19; 0x86; 0x61; 0x98; 0x00;
   0x81; 0x88; 0x62; 0x18; 0x86; 0x00; 0x12; 0x86; 0x21; 0x88; 0x62; 0x00;
   0x58; 0x14; 0x45; 0x11; 0x44; 0x00; 0x28; 0xca; 0x12; 0x84; 0xa0; 0x00;
   0x34; 0x60; 0x98; 0x26; 0x08; 0x00; 0x2c; 0x16; 0x05; 0x81; 0x60; 0x00;
   0x91; 0x40; 0xd0; 0x34; 0x0c; 0x00; 0xc0; 0xd0; 0x34; 0x0d; 0x02; 0x00;
   0x06; 0x82; 0xa0; 0xa8; 0x2a; 0x00; 0xc8; 0x0c; 0x43; 0x10; 0xc4; 0x00;
   0x45; 0x61; 0x18; 0x46; 0x10; 0x00; 0x30; 0x91; 0x44; 0x51; 0x14; 0x00;
   0xa2; 0x28; 0x2a; 0x0a; 0x82; 0x00].

Definition kMaskRandom39_30 : list Z :=
  [0x8c; 0x23; 0x08; 0xc2; 0x30; 0x00; 0x47; 0x19; 0x86; 0x61; 0x98; 0x00;
   0x81; 0x88; 0x62; 0x18; 0x86; 0x00; 0x12; 0x86; 0x21; 0x88; 0x62; 0x00;
   0x58; 0x14; 0x45; 0x11; 0x44; 0x00; 0x28; 0xca; 0x12; 0x84; 0xa0; 0x00;
   0x34; 0x60; 0x98; 0x26; 0x08; 0x00; 0x2c; 0x16; 0x05; 0x81; 0x60; 0x00;
   0x91; 0x40; 0xd0; 0x34; 0x0c; 0x00; 0xc0; 0xd0; 0x34; 0x0d; 0x02; 0x00;
   0x06; 0x82; 0xa0; 0xa8; 0x2a; 0x00; 0xc8; 0x0c; 0x43; 0x10; 0xc4; 0x00;
   0x45; 0x61; 0x18; 0x46; 0x10; 0x00; 0x30; 0x91; 0x44; 0x51; 0x14; 0x00;
   0xa2; 0x28; 0x2a; 0x0a; 0x82; 0x00; 0x8c; 0x23; 0x08; 0xc2; 0x30; 0x00;
   0x47; 0x19; 0x86; 0x61; 0x98; 0x00; 0x81; 0x88; 0x62; 0x18; 0x86; 0x00;
   0x12; 0x86; 0x21; 0x88; 0x62; 0x00; 0x58; 0x14; 0x45; 0x11; 0x44; 0x00;
   0x28; 0xca; 0x12; 0x84; 0xa0; 0x00; 0x34; 0x60; 0x98; 0x26; 0x08; 0x00;
   0x84; 0x87; 0x01; 0xc0; 0x70; 0x00; 0x27; 0x19; 0x86; 0x61; 0x98; 0x00;
   0x51; 0x88; 0x62; 0x18; 0x86; 0x00; 0x1a; 0x22; 0xa8; 0xaa; 0x2a; 0x00;
   0x68; 0x44; 0x51; 0x14; 0x44; 0x00; 0x89; 0x70; 0x1c; 0x07; 0x00; 0x00;
   0x6e; 0x27; 0x6a; 0xc7; 0xc4; 0x00; 0xb3; 0x1d; 0x13; 0x03; 0x5a; 0x00].

Definition kMaskRandom39_31 : list Z :=
  [0x8c; 0x23; 0x08; 0xc2; 0x30; 0x00; 0x47; 0x19; 0x86; 0x61; 0x98; 0x00;
   0x81; 0x88; 0x62; 0x18; 0x86; 0x00; 0x12; 0x86; 0x21; 0x88; 0x62; 0x00;
   0x58; 0x14; 0x45; 0x11; 0x44; 0x00; 0x28; 0xca; 0x12; 0x84; 0xa0; 0x00;
   0x34; 0x60; 0x98; 0x26; 0x08; 0x00; 0x2c; 0x16; 0x05; 0x81; 0x60; 0x00;
   0x91; 0x40; 0xd0; 0x34; 0x0c; 0x00; 0xc0; 0xd0; 0x34; 0x0d; 0x02; 0x00;
   0x06; 0x82; 0xa0; 0xa8; 0x2a; 0x00; 0xc8; 0x0c; 0x43; 0x10; 0xc4; 0x00;
   0x45; 0x61; 0x18; 0x46; 0x10; 0x00; 0x30; 0x91; 0x44; 0x51; 0x14; 0x00;
   0xa2; 0x28; 0x2a; 0x0a; 0x82; 0x00; 0x2c; 0x16; 0x05; 0x81; 0x60; 0x00;
   0x91; 0x40; 0xd0; 0x34; 0x0c; 0x00; 0xc0; 0xd0; 0x34; 0x0d; 0x02; 0x00;
   0x06; 0x82; 0xa0; 0xa8; 0x2a; 0x00; 0xc8; 0x0c; 0x43; 0x10; 0xc4; 0x00;
   0x45; 0x61; 0x18; 0x46; 0x10; 0x00; 0x30; 0x91; 0x44; 0x51; 0x14; 0x00;
   0xa2; 0x28; 0x2a; 0x0a; 0x82; 0x00; 0x8c; 0x23; 0x08; 0xc2; 0x30; 0x00;
   0x47; 0x19; 0x86; 0x61; 0x98; 0x00; 0x81; 0x88; 0x62; 0x18; 0x86; 0x00;
   0x12; 0x86; 0x21; 0x88; 0x62; 0x00; 0x58; 0x14; 0x45; 0x11; 0x44; 0x00;
   0x28; 0xca; 0x12; 0x84; 0xa0; 0x00; 0x34; 0x60; 0x98; 0x26; 0x08; 0x00;
   0x7e; 0x75; 0xe5; 0x03; 0x8c; 0x00].

Definition kMaskRandom39_32 : list Z :=
  [0x2c; 0x16; 0x05; 0x81; 0x60; 0x00; 0x91; 0x40; 0xd0; 0x34; 0x0c; 0x00;
   0xc0; 0xd0; 0x34; 0x0d; 0x02; 0x00; 0x06; 0x82; 0xa0; 0xa8; 0x2a; 0x00;
   0xc8; 0x0c; 0x43; 0x10; 0xc4; 0x00; 0x45; 0x61; 0x18; 0x46; 0x10; 0x00;
   0x30; 0x91; 0x44; 0x51; 0x14; 0x00; 0xa2; 0x28; 0x2a; 0x0a; 0x82; 0x00;
   0x8c; 0x23; 0x08; 0xc2; 0x30; 0x00; 0x47; 0x19; 0x86; 0x61; 0x98; 0x00;
   0x81; 0x88; 0x62; 0x18; 0x86; 0x00; 0x12; 0x86; 0x21; 0x88; 0x62; 0x00;
   0x58; 0x14; 0x45; 0x11; 0x44; 0x00; 0x28; 0xca; 0x12; 0x84; 0xa0; 0x00;
   0x34; 0x60; 0x98; 0x26; 0x08; 0x00; 0x7e; 0x75; 0xe5; 0x03; 0x8c; 0x00;
   0x8c; 0x23; 0x08; 0xc2; 0x30; 0x00; 0x47; 0x19; 0x86; 0x61; 0x98; 0x00;
   0x81; 0x88; 0x62; 0x18; 0x86; 0x00; 0x12; 0x86; 0x21; 0x88; 0x62; 0x00;
   0x58; 0x14; 0x45; 0x11; 0x44; 0x00; 0x28; 0xca; 0x12; 0x84; 0xa0; 0x00;
   0x34; 0x60; 0x98; 0x26; 0x08; 0x00; 0x2c; 0x16; 0x05; 0x81; 0x60; 0x00;
   0x91; 0x40; 0xd0; 0x34; 0x0c; 0x00; 0xc0; 0xd0; 0x34; 0x0d; 0x02; 0x00;
   0x06; 0x82; 0xa0; 0xa8; 0x2a; 0x00; 0xc8; 0x0c; 0x43; 0x10; 0xc4; 0x00;
   0x45; 0x61; 0x18; 0x46; 0x10; 0x00; 0x30; 0x91; 0x44; 0x51; 0x14; 0x00;
   0xa2; 0x28; 0x2a; 0x0a; 0x82; 0x00; 0x83; 0x1a; 0x3c; 0x2a; 0x7a; 0x00].

Definition kMaskRandom39_33 : list Z :=
  [0x2c; 0x16; 0x05; 0x81; 0x60; 0x00; 0x91; 0x40; 0xd0; 0x34; 0x0c; 0x00;
   0xc0; 0xd0; 0x34; 0x0d; 0x02; 0x00; 0x06; 0x82; 0xa0; 0xa8; 0x2a; 0x00;
   0xc8; 0x0c; 0x43; 0x10; 0xc4; 0x00; 0x45; 0x61; 0x18; 0x46; 0x10; 0x00;
   0x30; 0x91; 0x44; 0x51; 0x14; 0x00; 0xa2; 0x28; 0x2a; 0x0a; 0x82; 0x00;
   0x8c; 0x23; 0x08; 0xc2; 0x30; 0x00; 0x47; 0x19; 0x86; 0x61; 0x98; 0x00;
   0x81; 0x88; 0x62; 0x18; 0x86; 0x00; 0x12; 0x86; 0x21; 0x88; 0x62; 0x00;
   0x58; 0x14; 0x45; 0x11; 0x44; 0x00; 0x28; 0xca; 0x12; 0x84; 0xa0; 0x00;
   0x34; 0x60; 0x98; 0x26; 0x08; 0x00; 0x7e; 0x75; 0xe5; 0x03; 0x8c; 0x00;
   0x2c; 0x16; 0x05; 0x81; 0x60; 0x00; 0x91; 0x40; 0xd0; 0x34; 0x0c; 0x00;
   0xc0; 0xd0; 0x34; 0x0d; 0x02; 0x00; 0x06; 0x82; 0xa0; 0xa8; 0x2a; 0x00;
   0xc8; 0x0c; 0x43; 0x10; 0xc4; 0x00; 0x45; 0x61; 0x18; 0x46; 0x10; 0x00;
   0x30; 0x91; 0x44; 0x51; 0x14; 0x00; 0xa2; 0x28; 0x2a; 0x0a; 0x82; 0x00;
   0x4c; 0x27; 0x09; 0xc2; 0x70; 0x00; 0x66; 0x71; 0x9c; 0x67; 0x18; 0x00;
   0x91; 0x40; 0xf0; 0x3c; 0x0e; 0x00; 0x42; 0x90; 0xa4; 0x29; 0x0a; 0x00;
   0xa4; 0x29; 0x4a; 0x52; 0x94; 0x00; 0x13; 0x5a; 0x16; 0x85; 0xa0; 0x00;
   0x30; 0x93; 0x44; 0xd1; 0x34; 0x00; 0x88; 0xac; 0x2b; 0x0a; 0xc2; 0x00;
   0x09; 0x0c; 0xc3; 0x30; 0xcc; 0x00].

Definition kMaskRandom39_34 : list Z :=
  [0x2c; 0x16; 0x05; 0x81; 0x60; 0x00; 0x91; 0x40; 0xd0; 0x34; 0x0c; 0x00;
   0xc0; 0xd0; 0x34; 0x0d; 0x02; 0x00; 0x06; 0x82; 0xa0; 0xa8; 0x2a; 0x00;
   0xc8; 0x0c; 0x43; 0x10; 0xc4; 0x00; 0x45; 0x61; 0x18; 0x46; 0x10; 0x00;
   0x30; 0x91; 0x44; 0x51; 0x14; 0x00; 0xa2; 0x28; 0x2a; 0x0a; 0x82; 0x00;
   0x4c; 0x27; 0x09; 0xc2; 0x70; 0x00; 0x66; 0x71; 0x9c; 0x67; 0x18; 0x00;
   0x91; 0x40; 0xf0; 0x3c; 0x0e; 0x00; 0x42; 0x90; 0xa4; 0x29; 0x0a; 0x00;
   0xa4; 0x29; 0x4a; 0x52; 0x94; 0x00; 0x13; 0x5a; 0x16; 0x85; 0xa0; 0x00;
   0x30; 0x93; 0x44; 0xd1; 0x34; 0x00; 0x88; 0xac; 0x2b; 0x0a; 0xc2; 0x00;
   0x09; 0x0c; 0xc3; 0x30; 0xcc; 0x00; 0x2c; 0x16; 0x05; 0x81; 0x60; 0x00;
   0x91; 0x40; 0xd0; 0x34; 0x0c; 0x00; 0xc0; 0xd0; 0x34; 0x0d; 0x02; 0x00;
   0x06; 0x82; 0xa0; 0xa8; 0x2a; 0x00; 0xc8; 0x0c; 0x43; 0x10; 0xc4; 0x00;
   0x45; 0x61; 0x18; 0x46; 0x10; 0x00; 0x30; 0x91; 0x44; 0x51; 0x14; 0x00;
   0xa2; 0x28; 0x2a; 0x0a; 0x82; 0x00; 0x8c; 0x23; 0x08; 0xc2; 0x30; 0x00;
   0x47; 0x19; 0x86; 0x61; 0x98; 0x00; 0x81; 0x88; 0x62; 0x18; 0x86; 0x00;
   0x12; 0x86; 0x21; 0x88; 0x62; 0x00; 0x58; 0x14; 0x45; 0x11; 0x44; 0x00;
   0x28; 0xca; 0x12; 0x84; 0xa0; 0x00; 0x34; 0x60; 0x98; 0x26; 0x08; 0x00;
   0x7e; 0x75; 0xe5; 0x03; 0x8c; 0x00; 0xc6; 0xbb; 0x7e; 0xd9; 0x80; 0x00].

Definition kMaskRandom39_35 : list Z :=
  [0x2c; 0x16; 0x05; 0x81; 0x60; 0x00; 0x91; 0x40; 0xd0; 0x34; 0x0c; 0x00;
   0xc0; 0xd0; 0x34; 0x0d; 0x02; 0x00; 0x06; 0x82; 0xa0; 0xa8; 0x2a; 0x00;
   0xc8; 0x0c; 0x43; 0x10; 0xc4; 0x00; 0x45; 0x61; 0x18; 0x46; 0x10; 0x00;
   0x30; 0x91; 0x44; 0x51; 0x14; 0x00; 0xa2; 0x28; 0x2a; 0x0a; 0x82; 0x00;
   0x4c; 0x27; 0x09; 0xc2; 0x70; 0x00; 0x66; 0x71; 0x9c; 0x67; 0x18; 0x00;
   0x91; 0x40; 0xf0; 0x3c; 0x0e; 0x00; 0x42; 0x90; 0xa4; 0x29; 0x0a; 0x00;
   0xa4; 0x29; 0x4a; 0x52; 0x94; 0x00; 0x13; 0x5a; 0x16; 0x85; 0xa0; 0x00;
   0x30; 0x93; 0x44; 0xd1; 0x34; 0x00; 0x88; 0xac; 0x2b; 0x0a; 0xc2; 0x00;
   0x09; 0x0c; 0xc3; 0x30; 0xcc; 0x00; 0x4c; 0x27; 0x09; 0xc2; 0x70; 0x00;
   0x66; 0x71; 0x9c; 0x67; 0x18; 0x00; 0x91; 0x40; 0xf0; 0x3c; 0x0e; 0x00;
   0x42; 0x90; 0xa4; 0x29; 0x0a; 0x00; 0xa4; 0x29; 0x4a; 0x52; 0x94; 0x00;
   0x13; 0x5a; 0x16; 0x85; 0xa0; 0x00; 0x30; 0x93; 0x44; 0xd1; 0x34; 0x00;
   0x88; 0xac; 0x2b; 0x0a; 0xc2; 0x00; 0x09; 0x0c; 0xc3; 0x30; 0xcc; 0x00;
   0x2c; 0x16; 0x05; 0x81; 0x60; 0x00; 0x91; 0x40; 0xd0; 0x34; 0x0c; 0x00;
   0xc0; 0xd0; 0x34; 0x0d; 0x02; 0x00; 0x06; 0x82; 0xa0; 0xa8; 0x2a; 0x00;
   0xc8; 0x0c; 0x43; 0x10; 0xc4; 0x00; 0x45; 0x61; 0x18; 0x46; 0x10; 0x00;
   0x30; 0x91; 0x44; 0x51; 0x14; 0x00; 0xa2; 0x28; 0x2a; 0x0a; 0x82; 0x00;
   0x51; 0x97; 0x24; 0x2f; 0x7e; 0x00].

Definition kMaskRandom39_36 : list Z :=
  [0x4c; 0x27; 0x09; 0xc2; 0x70; 0x00; 0x66; 0x71; 0x9c; 0x67; 0x18; 0x00;
   0x91; 0x40; 0xf0; 0x3c; 0x0e; 0x00; 0x42; 0x90; 0xa4; 0x29; 0x0a; 0x00;
   0xa4; 0x29; 0x4a; 0x52; 0x94; 0x00; 0x13; 0x5a; 0x16; 0x85; 0xa0; 0x00;
   0x30; 0x93; 0x44; 0xd1; 0x34; 0x00; 0x88; 0xac; 0x2b; 0x0a; 0xc2; 0x00;
   0x09; 0x0c; 0xc3; 0x30; 0xcc; 0x00; 0x2c; 0x16; 0x05; 0x81; 0x60; 0x00;
   0x91; 0x40; 0xd0; 0x34; 0x0c; 0x00; 0xc0; 0xd0; 0x34; 0x0d; 0x02; 0x00;
   0x06; 0x82; 0xa0; 0xa8; 0x2a; 0x00; 0xc8; 0x0c; 0x43; 0x10; 0xc4; 0x00;
   0x45; 0x61; 0x18; 0x46; 0x10; 0x00; 0x30; 0x91; 0x44; 0x51; 0x14; 0x00;
   0xa2; 0x28; 0x2a; 0x0a; 0x82; 0x00; 0x51; 0x97; 0x24; 0x2f; 0x7e; 0x00;
   0x2c; 0x16; 0x05; 0x81; 0x60; 0x00; 0x91; 0x40; 0xd0; 0x34; 0x0c; 0x00;
   0xc0; 0xd0; 0x34; 0x0d; 0x02; 0x00; 0x06; 0x82; 0xa0; 0xa8; 0x2a; 0x00;
   0xc8; 0x0c; 0x43; 0x10; 0xc4; 0x00; 0x45; 0x61; 0x18; 0x46; 0x10; 0x00;
   0x30; 0x91; 0x44; 0x51; 0x14; 0x00; 0xa2; 0x28; 0x2a; 0x0a; 0x82; 0x00;
   0x4c; 0x27; 0x09; 0xc2; 0x70; 0x00; 0x66; 0x71; 0x9c; 0x67; 0x18; 0x00;
   0x91; 0x40; 0xf0; 0x3c; 0x0e; 0x00; 0x42; 0x90; 0xa4; 0x29; 0x0a; 0x00;
   0xa4; 0x29; 0x4a; 0x52; 0x94; 0x00; 0x13; 0x5a; 0x16; 0x85; 0xa0; 0x00;
   0x30; 0x93; 0x44; 0xd1; 0x34; 0x00; 0x88; 0xac; 0x2b; 0x0a; 0xc2; 0x00;
   0x09; 0x0c; 0xc3; 0x30; 0xcc; 0x00; 0x11; 0x78; 0xfe; 0x43; 0xd6; 0x00].

Definition kMaskRandom39_37 : list Z :=
  [0x4c; 0x27; 0x09; 0xc2; 0x70; 0x00; 0x66; 0x71; 0x9c; 0x67; 0x18; 0x00;
   0x91; 0x40; 0xf0; 0x3c; 0x0e; 0x00; 0x42; 0x90; 0xa4; 0x29; 0x0a; 0x00;
   0xa4; 0x29; 0x4a; 0x52; 0x94; 0x00; 0x13; 0x5a; 0x16; 0x85; 0xa0; 0x00;
   0x30; 0x93; 0x44; 0xd1; 0x34; 0x00; 0x88; 0xac; 0x2b; 0x0a; 0xc2; 0x00;
   0x09; 0x0c; 0xc3; 0x30; 0xcc; 0x00; 0x2c; 0x16; 0x05; 0x81; 0x60; 0x00;
   0x91; 0x40; 0xd0; 0x34; 0x0c; 0x00; 0xc0; 0xd0; 0x34; 0x0d; 0x02; 0x00;
   0x06; 0x82; 0xa0; 0xa8; 0x2a; 0x00; 0xc8; 0x0c; 0x43; 0x10; 0xc4; 0x00;
   0x45; 0x61; 0x18; 0x46; 0x10; 0x00; 0x30; 0x91; 0x44; 0x51; 0x14; 0x00;
   0xa2; 0x28; 0x2a; 0x0a; 0x82; 0x00; 0x51; 0x97; 0x24; 0x2f; 0x7e; 0x00;
   0x4c; 0x27; 0x09; 0xc2; 0x70; 0x00; 0x66; 0x71; 0x9c; 0x67; 0x18; 0x00;
   0x91; 0x40; 0xf0; 0x3c; 0x0e; 0x00; 0x42; 0x90; 0xa4; 0x29; 0x0a; 0x00;
   0xa4; 0x29; 0x4a; 0x52; 0x94; 0x00; 0x13; 0x5a; 0x16; 0x85; 0xa0; 0x00;
   0x30; 0x93; 0x44; 0xd1; 0x34; 0x00; 0x88; 0xac; 0x2b; 0x0a; 0xc2; 0x00;
   0x09; 0x0c; 0xc3; 0x30; 0xcc; 0x00; 0x4c; 0x26; 0x09; 0x82; 0x60; 0x00;
   0x66; 0x28; 0x8a; 0x22; 0x88; 0x00; 0x91; 0x50; 0x34; 0x0d; 0x02; 0x00;
   0x42; 0x82; 0x60; 0x98; 0x26; 0x00; 0xa4; 0x01; 0xc0; 0x70; 0x1c; 0x00;
   0x13; 0x43; 0x10; 0xc4; 0x30; 0x00; 0x30; 0x94; 0x85; 0x21; 0x48; 0x00;
   0x88; 0xa1; 0x28; 0x4a; 0x12; 0x00; 0x09; 0x4c; 0x13; 0x04; 0xc0; 0x00;
   0xcd; 0x98; 0x46; 0x11; 0x84; 0x00].

Definition kMaskRandom39_38 : list Z :=
  [0x4c; 0x27; 0x09; 0xc2; 0x70; 0x00; 0x66; 0x71; 0x9c; 0x67; 0x18; 0x00;
   0x91; 0x40; 0xf0; 0x3c; 0x0e; 0x00; 0x42; 0x90; 0xa4; 0x29; 0x0a; 0x00;
   0xa4; 0x29; 0x4a; 0x52; 0x94; 0x00; 0x13; 0x5a; 0x16; 0x85; 0xa0; 0x00;
   0x30; 0x93; 0x44; 0xd1; 0x34; 0x00; 0x88; 0xac; 0x2b; 0x0a; 0xc2; 0x00;
   0x09; 0x0c; 0xc3; 0x30; 0xcc; 0x00; 0x4c; 0x26; 0x09; 0x82; 0x60; 0x00;
   0x66; 0x28; 0x8a; 0x22; 0x88; 0x00; 0x91; 0x50; 0x34; 0x0d; 0x02; 0x00;
   0x42; 0x82; 0x60; 0x98; 0x26; 0x00; 0xa4; 0x01; 0xc0; 0x70; 0x1c; 0x00;
   0x13; 0x43; 0x10; 0xc4; 0x30; 0x00; 0x30; 0x94; 0x85; 0x21; 0x48; 0x00;
   0x88; 0xa1; 0x28; 0x4a; 0x12; 0x00; 0x09; 0x4c; 0x13; 0x04; 0xc0; 0x00;
   0xcd; 0x98; 0x46; 0x11; 0x84; 0x00; 0x4c; 0x27; 0x09; 0xc2; 0x70; 0x00;
   0x66; 0x71; 0x9c; 0x67; 0x18; 0x00; 0x91; 0x40; 0xf0; 0x3c; 0x0e; 0x00;
   0x42; 0x90; 0xa4; 0x29; 0x0a; 0x00; 0xa4; 0x29; 0x4a; 0x52; 0x94; 0x00;
   0x13; 0x5a; 0x16; 0x85; 0xa0; 0x00; 0x30; 0x93; 0x44; 0xd1; 0x34; 0x00;
   0x88; 0xac; 0x2b; 0x0a; 0xc2; 0x00; 0x09; 0x0c; 0xc3; 0x30; 0xcc; 0x00;
   0x2c; 0x16; 0x05; 0x81; 0x60; 0x00; 0x91; 0x40; 0xd0; 0x34; 0x0c; 0x00;
   0xc0; 0xd0; 0x34; 0x0d; 0x02; 0x00; 0x06; 0x82; 0xa0; 0xa8; 0x2a; 0x00;
   0xc8; 0x0c; 0x43; 0x10; 0xc4; 0x00; 0x45; 0x61; 0x18; 0x46; 0x10; 0x00;
   0x30; 0x91; 0x44; 0x51; 0x14; 0x00; 0xa2; 0x28; 0x2a; 0x0a; 0x82; 0x00;
   0x51; 0x97; 0x24; 0x2f; 0x7e; 0x00; 0x9e; 0xd8; 0x3c; 0x7e; 0x2e; 0x00].

Definition kMaskRandom39_39 : list Z :=
  [0x4c; 0x27; 0x09; 0xc2; 0x70; 0x00; 0x66; 0x71; 0x9c; 0x67; 0x18; 0x00;
   0x91; 0x40; 0xf0; 0x3c; 0x0e; 0x00; 0x42; 0x90; 0xa4; 0x29; 0x0a; 0x00;
   0xa4; 0x29; 0x4a; 0x52; 0x94; 0x00; 0x13; 0x5a; 0x16; 0x85; 0xa0; 0x00;
   0x30; 0x93; 0x44; 0xd1; 0x34; 0x00; 0x88; 0xac; 0x2b; 0x0a; 0xc2; 0x00;
   0x09; 0x0c; 0xc3; 0x30; 0xcc; 0x00; 0x4c; 0x26; 0x09; 0x82; 0x60; 0x00;
   0x66; 0x28; 0x8a; 0x22; 0x88; 0x00; 0x91; 0x50; 0x34; 0x0d; 0x02; 0x00;
   0x42; 0x82; 0x60; 0x98; 0x26; 0x00; 0xa4; 0x01; 0xc0; 0x70; 0x1c; 0x00;
   0x13; 0x43; 0x10; 0xc4; 0x30; 0x00; 0x30; 0x94; 0x85; 0x21; 0x48; 0x00;
   0x88; 0xa1; 0x28; 0x4a; 0x12; 0x00; 0x09; 0x4c; 0x13; 0x04; 0xc0; 0x00;
   0xcd; 0x98; 0x46; 0x11; 0x84; 0x00; 0x4c; 0x27; 0x09; 0x82; 0x60; 0x00;
   0x66; 0x71; 0x8a; 0x22; 0x88; 0x00; 0x91; 0x40; 0xf4; 0x0d; 0x02; 0x00;
   0x42; 0x90; 0xa0; 0x98; 0x26; 0x00; 0xa4; 0x29; 0x40; 0x70; 0x1c; 0x00;
   0x13; 0x5a; 0x10; 0xc4; 0x30; 0x00; 0x30; 0x93; 0x45; 0x21; 0x48; 0x00;
   0x88; 0xac; 0x28; 0x4a; 0x12; 0x00; 0x09; 0x0c; 0xd3; 0x04; 0xc0; 0x00;
   0x4c; 0x26; 0x06; 0x11; 0x84; 0x00; 0x66; 0x28; 0x89; 0xc2; 0x70; 0x00;
   0x91; 0x50; 0x3c; 0x67; 0x18; 0x00; 0x42; 0x82; 0x70; 0x3c; 0x0e; 0x00;
   0xa4; 0x01; 0xc4; 0x29; 0x0a; 0x00; 0x13; 0x43; 0x0a; 0x52; 0x94; 0x00;
   0x30; 0x94; 0x96; 0x85; 0xa0; 0x00; 0x88; 0xa1; 0x24; 0xd1; 0x34; 0x00;
   0x09; 0x4c; 0x0b; 0x0a; 0xc2; 0x00; 0xcd; 0x98; 0x43; 0x30; 0xcc; 0x00;
   0x1d; 0x04; 0x3e; 0xf1; 0xb4; 0x00].

Definition kMaskRandom40_1 : list Z :=
  [0xff; 0xff; 0xff; 0xff; 0xff; 0x00].

Definition kMaskRandom40_2 : list Z :=
  [0xee; 0x3b; 0x8e; 0xe3; 0xb8; 0x00; 0x99; 0xe6; 0x79; 0x9e; 0x67; 0x00].

Definition kMaskRandom40_3 : list Z :=
  [0xce; 0x33; 0x8c; 0xe3; 0x38; 0x00; 0x55; 0x95; 0x65; 0x59; 0x56; 0x00;
   0xb1; 0x6a; 0x3b; 0x16; 0xa3; 0x00].

Definition kMaskRandom40_4 : list Z :=
  [0xe6; 0x39; 0x8e; 0x63; 0x98; 0x00; 0x33; 0x8c; 0xe3; 0x38; 0xce; 0x00;
   0x98; 0xe6; 0x39; 0x8e; 0x63; 0x00; 0x2d; 0x4b; 0x52; 0xd4; 0xb5; 0x00].

Definition kMaskRandom40_5 : list Z :=
  [0xce; 0x33; 0x8c; 0xe3; 0x38; 0x00; 0x63; 0x98; 0xe6; 0x39; 0x8e; 0x00;
   0x98; 0xe5; 0x39; 0x8e; 0x53; 0x00; 0x2b; 0x53; 0x52; 0xb5; 0x35; 0x00;
   0xb4; 0x5c; 0xab; 0x45; 0xca; 0x00].

Definition kMaskRandom40_6 : list Z :=
  [0x4c; 0x1b; 0x04; 0xc1; 0xb0; 0x00; 0x51; 0x34; 0x45; 0x13; 0x44; 0x00;
   0x20; 0xe8; 0x32; 0x0e; 0x83; 0x00; 0x85; 0x41; 0x58; 0x54; 0x15; 0x00;
   0x06; 0x86; 0xa0; 0x68; 0x6a; 0x00; 0x9a; 0x21; 0x89; 0xa2; 0x18; 0x00].

Definition kMaskRandom40_7 : list Z :=
  [0x4e; 0x11; 0x84; 0xe1; 0x18; 0x00; 0x33; 0x2c; 0x03; 0x32; 0xc0; 0x00;
   0x10; 0x0e; 0xb1; 0x00; 0xeb; 0x00; 0x81; 0x51; 0x58; 0x15; 0x15; 0x00;
   0x24; 0xc4; 0xa2; 0x4c; 0x4a; 0x00; 0xd4; 0x23; 0x0d; 0x42; 0x30; 0x00;
   0x0c; 0xa2; 0x60; 0xca; 0x26; 0x00].

Definition kMaskRandom40_8 : list Z :=
  [0x27; 0x09; 0xc2; 0x70; 0x9c; 0x00; 0x89; 0xa2; 0x68; 0x9a; 0x26; 0x00;
   0xd0; 0x74; 0x1d; 0x07; 0x41; 0x00; 0x24; 0xc9; 0x32; 0x4c; 0x93; 0x00;
   0xe2; 0x90; 0xae; 0x29; 0x0a; 0x00; 0xc6; 0x31; 0x8c; 0x63; 0x18; 0x00;
   0x31; 0x8c; 0x63; 0x18; 0xc6; 0x00; 0x18; 0xc6; 0x31; 0x8c; 0x63; 0x00].

Definition kMaskRandom40_9 : list Z :=
  [0x4e; 0x13; 0x84; 0xe1; 0x38; 0x00; 0x62; 0x38; 0xc6; 0x23; 0x8c; 0x00;
   0x81; 0xe0; 0x78; 0x1e; 0x07; 0x00; 0xe1; 0x48; 0x5e; 0x14; 0x85; 0x00;
   0x13; 0x94; 0xa1; 0x39; 0x4a; 0x00; 0xb4; 0x2d; 0x0b; 0x42; 0xd0; 0x00;
   0x26; 0x89; 0xa2; 0x68; 0x9a; 0x00; 0x58; 0x56; 0x15; 0x85; 0x61; 0x00;
   0x49; 0x86; 0x54; 0x98; 0x65; 0x00].

Definition kMaskRandom40_10 : list Z :=
  [0x4c; 0x13; 0x04; 0xc1; 0x30; 0x00; 0x51; 0x14; 0x45; 0x11; 0x44; 0x00;
   0xa0; 0x68; 0x1a; 0x06; 0x81; 0x00; 0x04; 0xc1; 0x30; 0x4c; 0x13; 0x00;
   0x03; 0x80; 0xe0; 0x38; 0x0e; 0x00; 0x86; 0x21; 0x88; 0x62; 0x18; 0x00;
   0x29; 0x0a; 0x42; 0x90; 0xa4; 0x00; 0x42; 0x50; 0x94; 0x25; 0x09; 0x00;
   0x98; 0x26; 0x09; 0x82; 0x60; 0x00; 0x30; 0x8c; 0x23; 0x08; 0xc2; 0x00].

Definition kMaskRandom40_11 : list Z :=
  [0xc6; 0x31; 0x8c; 0x63; 0x18; 0x00; 0x23; 0x88; 0xe2; 0x38; 0x8e; 0x00;
   0x1a; 0x46; 0x91; 0xa4; 0x69; 0x00; 0x24; 0xc9; 0x32; 0x4c; 0x93; 0x00;
   0x71; 0x1c; 0x47; 0x11; 0xc4; 0x00; 0x0e; 0x03; 0x80; 0xe0; 0x38; 0x00;
   0x33; 0x0c; 0xc3; 0x30; 0xcc; 0x00; 0x10; 0xc4; 0x31; 0x0c; 0x43; 0x00;
   0x45; 0x51; 0x54; 0x55; 0x15; 0x00; 0x88; 0xa2; 0x28; 0x8a; 0x22; 0x00;
   0xe0; 0x38; 0x0e; 0x03; 0x80; 0x00].

Definition kMaskRandom40_12 : list Z :=
  [0x0e; 0x03; 0x80; 0xe0; 0x38; 0x00; 0x33; 0x0c; 0xc3; 0x30; 0xcc; 0x00;
   0x10; 0xc4; 0x31; 0x0c; 0x43; 0x00; 0x45; 0x51; 0x54; 0x55; 0x15; 0x00;
   0x88; 0xa2; 0x28; 0x8a; 0x22; 0x00; 0xe0; 0x38; 0x0e; 0x03; 0x80; 0x00;
   0xc6; 0x31; 0x8c; 0x63; 0x18; 0x00; 0x23; 0x88; 0xe2; 0x38; 0x8e; 0x00;
   0x1a; 0x46; 0x91; 0xa4; 0x69; 0x00; 0x24; 0xc9; 0x32; 0x4c; 0x93; 0x00;
   0x71; 0x1c; 0x47; 0x11; 0xc4; 0x00; 0xf5; 0xdc; 0x4f; 0x5d; 0xc4; 0x00].

Definition kMaskRandom40_13 : list Z :=
  [0x0e; 0x03; 0x80; 0xe0; 0x38; 0x00; 0x33; 0x0c; 0xc3; 0x30; 0xcc; 0x00;
   0x10; 0xc4; 0x31; 0x0c; 0x43; 0x00; 0x45; 0x51; 0x54; 0x55; 0x15; 0x00;
   0x88; 0xa2; 0x28; 0x8a; 0x22; 0x00; 0xe0; 0x38; 0x0e; 0x03; 0x80; 0x00;
   0x46; 0x11; 0x84; 0x61; 0x18; 0x00; 0x33; 0x0c; 0xc3; 0x30; 0xcc; 0x00;
   0x10; 0xc4; 0x31; 0x0c; 0x43; 0x00; 0x0c; 0x43; 0x10; 0xc4; 0x31; 0x00;
   0x28; 0x8a; 0x22; 0x88; 0xa2; 0x00; 0x94; 0x25; 0x09; 0x42; 0x50; 0x00;
   0xc1; 0x30; 0x4c; 0x13; 0x04; 0x00].

Definition kMaskRandom40_14 : list Z :=
  [0x46; 0x11; 0x84; 0x61; 0x18; 0x00; 0x33; 0x0c; 0xc3; 0x30; 0xcc; 0x00;
   0x10; 0xc4; 0x31; 0x0c; 0x43; 0x00; 0x0c; 0x43; 0x10; 0xc4; 0x31; 0x00;
   0x28; 0x8a; 0x22; 0x88; 0xa2; 0x00; 0x94; 0x25; 0x09; 0x42; 0x50; 0x00;
   0xc1; 0x30; 0x4c; 0x13; 0x04; 0x00; 0x0e; 0x03; 0x80; 0xe0; 0x38; 0x00;
   0x33; 0x0c; 0xc3; 0x30; 0xcc; 0x00; 0x10; 0xc4; 0x31; 0x0c; 0x43; 0x00;
   0x45; 0x51; 0x54; 0x55; 0x15; 0x00; 0x88; 0xa2; 0x28; 0x8a; 0x22; 0x00;
   0xe0; 0x38; 0x0e; 0x03; 0x80; 0x00; 0x56; 0x3e; 0x25; 0x63; 0xe2; 0x00].

Definition kMaskRandom40_15 : list Z :=
  [0x46; 0x11; 0x84; 0x61; 0x18; 0x00; 0x33; 0x0c; 0xc3; 0x30; 0xcc; 0x00;
   0x10; 0xc4; 0x31; 0x0c; 0x43; 0x00; 0x0c; 0x43; 0x10; 0xc4; 0x31; 0x00;
   0x28; 0x8a; 0x22; 0x88; 0xa2; 0x00; 0x94; 0x25; 0x09; 0x42; 0x50; 0x00;
   0xc1; 0x30; 0x4c; 0x13; 0x04; 0x00; 0x2c; 0x0b; 0x02; 0xc0; 0xb0; 0x00;
   0x81; 0xa0; 0x68; 0x1a; 0x06; 0x00; 0xa0; 0x68; 0x1a; 0x06; 0x81; 0x00;
   0x05; 0x41; 0x50; 0x54; 0x15; 0x00; 0x18; 0x86; 0x21; 0x88; 0x62; 0x00;
   0xc2; 0x30; 0x8c; 0x23; 0x08; 0x00; 0x22; 0x88; 0xa2; 0x28; 0x8a; 0x00;
   0x50; 0x54; 0x15; 0x05; 0x41; 0x00].

Definition kMaskRandom40_16 : list Z :=
  [0x2c; 0x0b; 0x02; 0xc0; 0xb0; 0x00; 0x81; 0xa0; 0x68; 0x1a; 0x06; 0x00;
   0xa0; 0x68; 0x1a; 0x06; 0x81; 0x00; 0x05; 0x41; 0x50; 0x54; 0x15; 0x00;
   0x18; 0x86; 0x21; 0x88; 0x62; 0x00; 0xc2; 0x30; 0x8c; 0x23; 0x08; 0x00;
   0x22; 0x88; 0xa2; 0x28; 0x8a; 0x00; 0x50; 0x54; 0x15; 0x05; 0x41; 0x00;
   0x46; 0x11; 0x84; 0x61; 0x18; 0x00; 0x33; 0x0c; 0xc3; 0x30; 0xcc; 0x00;
   0x10; 0xc4; 0x31; 0x0c; 0x43; 0x00; 0x0c; 0x43; 0x10; 0xc4; 0x31; 0x00;
   0x28; 0x8a; 0x22; 0x88; 0xa2; 0x00; 0x94; 0x25; 0x09; 0x42; 0x50; 0x00;
   0xc1; 0x30; 0x4c; 0x13; 0x04; 0x00; 0x28; 0x1c; 0x62; 0x81; 0xc6; 0x00].

Definition kMaskRandom40_17 : list Z :=
  [0x2c; 0x0b; 0x02; 0xc0; 0xb0; 0x00; 0x81; 0xa0; 0x68; 0x1a; 0x06; 0x00;
   0xa0; 0x68; 0x1a; 0x06; 0x81; 0x00; 0x05; 0x41; 0x50; 0x54; 0x15; 0x00;
   0x18; 0x86; 0x21; 0x88; 0x62; 0x00; 0xc2; 0x30; 0x8c; 0x23; 0x08; 0x00;
   0x22; 0x88; 0xa2; 0x28; 0x8a; 0x00; 0x50; 0x54; 0x15; 0x05; 0x41; 0x00;
   0x4e; 0x13; 0x84; 0xe1; 0x38; 0x00; 0xe3; 0x38; 0xce; 0x33; 0x8c; 0x00;
   0x81; 0xe0; 0x78; 0x1e; 0x07; 0x00; 0x21; 0x48; 0x52; 0x14; 0x85; 0x00;
   0x52; 0x94; 0xa5; 0x29; 0x4a; 0x00; 0xb4; 0x2d; 0x0b; 0x42; 0xd0; 0x00;
   0x26; 0x89; 0xa2; 0x68; 0x9a; 0x00; 0x58; 0x56; 0x15; 0x85; 0x61; 0x00;
   0x19; 0x86; 0x61; 0x98; 0x66; 0x00].

Definition kMaskRandom40_18 : list Z :=
  [0x4e; 0x13; 0x84; 0xe1; 0x38; 0x00; 0xe3; 0x38; 0xce; 0x33; 0x8c; 0x00;
   0x81; 0xe0; 0x78; 0x1e; 0x07; 0x00; 0x21; 0x48; 0x52; 0x14; 0x85; 0x00;
   0x52; 0x94; 0xa5; 0x29; 0x4a; 0x00; 0xb4; 0x2d; 0x0b; 0x42; 0xd0; 0x00;
   0x26; 0x89; 0xa2; 0x68; 0x9a; 0x00; 0x58; 0x56; 0x15; 0x85; 0x61; 0x00;
   0x19; 0x86; 0x61; 0x98; 0x66; 0x00; 0x2c; 0x0b; 0x02; 0xc0; 0xb0; 0x00;
   0x81; 0xa0; 0x68; 0x1a; 0x06; 0x00; 0xa0; 0x68; 0x1a; 0x06; 0x81; 0x00;
   0x05; 0x41; 0x50; 0x54; 0x15; 0x00; 0x18; 0x86; 0x21; 0x88; 0x62; 0x00;
   0xc2; 0x30; 0x8c; 0x23; 0x08; 0x00; 0x22; 0x88; 0xa2; 0x28; 0x8a; 0x00;
   0x50; 0x54; 0x15; 0x05; 0x41; 0x00; 0x21; 0x7b; 0xf2; 0x17; 0xbf; 0x00].

Definition kMaskRandom40_19 : list Z :=
  [0x4e; 0x13; 0x84; 0xe1; 0x38; 0x00; 0xe3; 0x38; 0xce; 0x33; 0x8c; 0x00;
   0x81; 0xe0; 0x78; 0x1e; 0x07; 0x00; 0x21; 0x48; 0x52; 0x14; 0x85; 0x00;
   0x52; 0x94; 0xa5; 0x29; 0x4a; 0x00; 0xb4; 0x2d; 0x0b; 0x42; 0xd0; 0x00;
   0x26; 0x89; 0xa2; 0x68; 0x9a; 0x00; 0x58; 0x56; 0x15; 0x85; 0x61; 0x00;
   0x19; 0x86; 0x61; 0x98; 0x66; 0x00; 0x4c; 0x13; 0x04; 0xc1; 0x30; 0x00;
   0x51; 0x14; 0x45; 0x11; 0x44; 0x00; 0xa0; 0x68; 0x1a; 0x06; 0x81; 0x00;
   0x04; 0xc1; 0x30; 0x4c; 0x13; 0x00; 0x03; 0x80; 0xe0; 0x38; 0x0e; 0x00;
   0x86; 0x21; 0x88; 0x62; 0x18; 0x00; 0x29; 0x0a; 0x42; 0x90; 0xa4; 0x00;
   0x42; 0x50; 0x94; 0x25; 0x09; 0x00; 0x98; 0x26; 0x09; 0x82; 0x60; 0x00;
   0x30; 0x8c; 0x23; 0x08; 0xc2; 0x00].

Definition kMaskRandom40_20 : list Z :=
  [0x4c; 0x13; 0x04; 0xc1; 0x30; 0x00; 0x51; 0x14; 0x45; 0x11; 0x44; 0x00;
   0xa0; 0x68; 0x1a; 0x06; 0x81; 0x00; 0x04; 0xc1; 0x30; 0x4c; 0x13; 0x00;
   0x03; 0x80; 0xe0; 0x38; 0x0e; 0x00; 0x86; 0x21; 0x88; 0x62; 0x18; 0x00;
   0x29; 0x0a; 0x42; 0x90; 0xa4; 0x00; 0x42; 0x50; 0x94; 0x25; 0x09; 0x00;
   0x98; 0x26; 0x09; 0x82; 0x60; 0x00; 0x30; 0x8c; 0x23; 0x08; 0xc2; 0x00;
   0x4e; 0x13; 0x84; 0xe1; 0x38; 0x00; 0xe3; 0x38; 0xce; 0x33; 0x8c; 0x00;
   0x81; 0xe0; 0x78; 0x1e; 0x07; 0x00; 0x21; 0x48; 0x52; 0x14; 0x85; 0x00;
   0x52; 0x94; 0xa5; 0x29; 0x4a; 0x00; 0xb4; 0x2d; 0x0b; 0x42; 0xd0; 0x00;
   0x26; 0x89; 0xa2; 0x68; 0x9a; 0x00; 0x58; 0x56; 0x15; 0x85; 0x61; 0x00;
   0x19; 0x86; 0x61; 0x98; 0x66; 0x00; 0xf7; 0x8d; 0xaf; 0x78; 0xda; 0x00].

Definition kMaskRandom40_21 : list Z :=
  [0x4c; 0x13; 0x04; 0xc1; 0x30; 0x00; 0x51; 0x14; 0x45; 0x11; 0x44; 0x00;
   0xa0; 0x68; 0x1a; 0x06; 0x81; 0x00; 0x04; 0xc1; 0x30; 0x4c; 0x13; 0x00;
   0x03; 0x80; 0xe0; 0x38; 0x0e; 0x00; 0x86; 0x21; 0x88; 0x62; 0x18; 0x00;
   0x29; 0x0a; 0x42; 0x90; 0xa4; 0x00; 0x42; 0x50; 0x94; 0x25; 0x09; 0x00;
   0x98; 0x26; 0x09; 0x82; 0x60; 0x00; 0x30; 0x8c; 0x23; 0x08; 0xc2; 0x00;
   0xc6; 0x31; 0x8c; 0x63; 0x18; 0x00; 0x23; 0x88; 0xe2; 0x38; 0x8e; 0x00;
   0x1a; 0x46; 0x91; 0xa4; 0x69; 0x00; 0x24; 0xc9; 0x32; 0x4c; 0x93; 0x00;
   0x71; 0x1c; 0x47; 0x11; 0xc4; 0x00; 0x0e; 0x03; 0x80; 0xe0; 0x38; 0x00;
   0x33; 0x0c; 0xc3; 0x30; 0xcc; 0x00; 0x10; 0xc4; 0x31; 0x0c; 0x43; 0x00;
   0x45; 0x51; 0x54; 0x55; 0x15; 0x00; 0x88; 0xa2; 0x28; 0x8a; 0x22; 0x00;
   0xe0; 0x38; 0x0e; 0x03; 0x80; 0x00].

Definition kMaskRandom40_22 : list Z :=
  [0xc6; 0x31; 0x8c; 0x63; 0x18; 0x00; 0x23; 0x88; 0xe2; 0x38; 0x8e; 0x00;
   0x1a; 0x46; 0x91; 0xa4; 0x69; 0x00; 0x24; 0xc9; 0x32; 0x4c; 0x93; 0x00;
   0x71; 0x1c; 0x47; 0x11; 0xc4; 0x00; 0x0e; 0x03; 0x80; 0xe0; 0x38; 0x00;
   0x33; 0x0c; 0xc3; 0x30; 0xcc; 0x00; 0x10; 0xc4; 0x31; 0x0c; 0x43; 0x00;
   0x45; 0x51; 0x54; 0x55; 0x15; 0x00; 0x88; 0xa2; 0x28; 0x8a; 0x22; 0x00;
   0xe0; 0x38; 0x0e; 0x03; 0x80; 0x00; 0x4c; 0x13; 0x04; 0xc1; 0x30; 0x00;
   0x51; 0x14; 0x45; 0x11; 0x44; 0x00; 0xa0; 0x68; 0x1a; 0x06; 0x81; 0x00;
   0x04; 0xc1; 0x30; 0x4c; 0x13; 0x00; 0x03; 0x80; 0xe0; 0x38; 0x0e; 0x00;
   0x86; 0x21; 0x88; 0x62; 0x18; 0x00; 0x29; 0x0a; 0x42; 0x90; 0xa4; 0x00;
   0x42; 0x50; 0x94; 0x25; 0x09; 0x00; 0x98; 0x26; 0x09; 0x82; 0x60; 0x00;
   0x30; 0x8c; 0x23; 0x08; 0xc2; 0x00; 0x89; 0xee; 0x1f; 0x38; 0xca; 0x00].

Definition kMaskRandom40_23 : list Z :=
  [0xc6; 0x31; 0x8c; 0x63; 0x18; 0x00; 0x23; 0x88; 0xe2; 0x38; 0x8e; 0x00;
   0x1a; 0x46; 0x91; 0xa4; 0x69; 0x00; 0x24; 0xc9; 0x32; 0x4c; 0x93; 0x00;
   0x71; 0x1c; 0x47; 0x11; 0xc4; 0x00; 0x0e; 0x03; 0x80; 0xe0; 0x38; 0x00;
   0x33; 0x0c; 0xc3; 0x30; 0xcc; 0x00; 0x10; 0xc4; 0x31; 0x0c; 0x43; 0x00;
   0x45; 0x51; 0x54; 0x55; 0x15; 0x00; 0x88; 0xa2; 0x28; 0x8a; 0x22; 0x00;
   0xe0; 0x38; 0x0e; 0x03; 0x80; 0x00; 0x0e; 0x03; 0x80; 0xe0; 0x38; 0x00;
   0x33; 0x0c; 0xc3; 0x30; 0xcc; 0x00; 0x10; 0xc4; 0x31; 0x0c; 0x43; 0x00;
   0x45; 0x51; 0x54; 0x55; 0x15; 0x00; 0x88; 0xa2; 0x28; 0x8a; 0x22; 0x00;
   0xe0; 0x38; 0x0e; 0x03; 0x80; 0x00; 0xc6; 0x31; 0x8c; 0x63; 0x18; 0x00;
   0x23; 0x88; 0xe2; 0x38; 0x8e; 0x00; 0x1a; 0x46; 0x91; 0xa4; 0x69; 0x00;
   0x24; 0xc9; 0x32; 0x4c; 0x93; 0x00; 0x71; 0x1c; 0x47; 0x11; 0xc4; 0x00;
   0xf5; 0xdc; 0x4f; 0x5d; 0xc4; 0x00].

Definition kMaskRandom40_24 : list Z :=
  [0x0e; 0x03; 0x80; 0xe0; 0x38; 0x00; 0x33; 0x0c; 0xc3; 0x30; 0xcc; 0x00;
   0x10; 0xc4; 0x31; 0x0c; 0x43; 0x00; 0x45; 0x51; 0x54; 0x55; 0x15; 0x00;
   0x88; 0xa2; 0x28; 0x8a; 0x22; 0x00; 0xe0; 0x38; 0x0e; 0x03; 0x80; 0x00;
   0xc6; 0x31; 0x8c; 0x63; 0x18; 0x00; 0x23; 0x88; 0xe2; 0x38; 0x8e; 0x00;
   0x1a; 0x46; 0x91; 0xa4; 0x69; 0x00; 0x24; 0xc9; 0x32; 0x4c; 0x93; 0x00;
   0x71; 0x1c; 0x47; 0x11; 0xc4; 0x00; 0xf5; 0xdc; 0x4f; 0x5d; 0xc4; 0x00;
   0xc6; 0x31; 0x8c; 0x63; 0x18; 0x00; 0x23; 0x88; 0xe2; 0x38; 0x8e; 0x00;
   0x1a; 0x46; 0x91; 0xa4; 0x69; 0x00; 0x24; 0xc9; 0x32; 0x4c; 0x93; 0x00;
   0x71; 0x1c; 0x47; 0x11; 0xc4; 0x00; 0x0e; 0x03; 0x80; 0xe0; 0x38; 0x00;
   0x33; 0x0c; 0xc3; 0x30; 0xcc; 0x00; 0x10; 0xc4; 0x31; 0x0c; 0x43; 0x00;
   0x45; 0x51; 0x54; 0x55; 0x15; 0x00; 0x88; 0xa2; 0x28; 0x8a; 0x22; 0x00;
   0xe0; 0x38; 0x0e; 0x03; 0x80; 0x00; 0x68; 0xde; 0x83; 0xa9; 0xcf; 0x00].

Definition kMaskRandom40_25 : list Z :=
  [0x0e; 0x03; 0x80; 0xe0; 0x38; 0x00; 0x33; 0x0c; 0xc3; 0x30; 0xcc; 0x00;
   0x10; 0xc4; 0x31; 0x0c; 0x43; 0x00; 0x45; 0x51; 0x54; 0x55; 0x15; 0x00;
   0x88; 0xa2; 0x28; 0x8a; 0x22; 0x00; 0xe0; 0x38; 0x0e; 0x03; 0x80; 0x00;
   0xc6; 0x31; 0x8c; 0x63; 0x18; 0x00; 0x23; 0x88; 0xe2; 0x38; 0x8e; 0x00;
   0x1a; 0x46; 0x91; 0xa4; 0x69; 0x00; 0x24; 0xc9; 0x32; 0x4c; 0x93; 0x00;
   0x71; 0x1c; 0x47; 0x11; 0xc4; 0x00; 0xf5; 0xdc; 0x4f; 0x5d; 0xc4; 0x00;
   0x0e; 0x03; 0x80; 0xe0; 0x38; 0x00; 0x33; 0x0c; 0xc3; 0x30; 0xcc; 0x00;
   0x10; 0xc4; 0x31; 0x0c; 0x43; 0x00; 0x45; 0x51; 0x54; 0x55; 0x15; 0x00;
   0x88; 0xa2; 0x28; 0x8a; 0x22; 0x00; 0xe0; 0x38; 0x0e; 0x03; 0x80; 0x00;
   0x46; 0x11; 0x84; 0x61; 0x18; 0x00; 0x33; 0x0c; 0xc3; 0x30; 0xcc; 0x00;
   0x10; 0xc4; 0x31; 0x0c; 0x43; 0x00; 0x0c; 0x43; 0x10; 0xc4; 0x31; 0x00;
   0x28; 0x8a; 0x22; 0x88; 0xa2; 0x00; 0x94; 0x25; 0x09; 0x42; 0x50; 0x00;
   0xc1; 0x30; 0x4c; 0x13; 0x04; 0x00].

Definition kMaskRandom40_26 : list Z :=
  [0x0e; 0x03; 0x80; 0xe0; 0x38; 0x00; 0x33; 0x0c; 0xc3; 0x30; 0xcc; 0x00;
   0x10; 0xc4; 0x31; 0x0c; 0x43; 0x00; 0x45; 0x51; 0x54; 0x55; 0x15; 0x00;
   0x88; 0xa2; 0x28; 0x8a; 0x22; 0x00; 0xe0; 0x38; 0x0e; 0x03; 0x80; 0x00;
   0x46; 0x11; 0x84; 0x61; 0x18; 0x00; 0x33; 0x0c; 0xc3; 0x30; 0xcc; 0x00;
   0x10; 0xc4; 0x31; 0x0c; 0x43; 0x00; 0x0c; 0x43; 0x10; 0xc4; 0x31; 0x00;
   0x28; 0x8a; 0x22; 0x88; 0xa2; 0x00; 0x94; 0x25; 0x09; 0x42; 0x50; 0x00;
   0xc1; 0x30; 0x4c; 0x13; 0x04; 0x00; 0x0e; 0x03; 0x80; 0xe0; 0x38; 0x00;
   0x33; 0x0c; 0xc3; 0x30; 0xcc; 0x00; 0x10; 0xc4; 0x31; 0x0c; 0x43; 0x00;
   0x45; 0x51; 0x54; 0x55; 0x15; 0x00; 0x88; 0xa2; 0x28; 0x8a; 0x22; 0x00;
   0xe0; 0x38; 0x0e; 0x03; 0x80; 0x00; 0xc6; 0x31; 0x8c; 0x63; 0x18; 0x00;
   0x23; 0x88; 0xe2; 0x38; 0x8e; 0x00; 0x1a; 0x46; 0x91; 0xa4; 0x69; 0x00;
   0x24; 0xc9; 0x32; 0x4c; 0x93; 0x00; 0x71; 0x1c; 0x47; 0x11; 0xc4; 0x00;
   0xf5; 0xdc; 0x4f; 0x5d; 0xc4; 0x00; 0x06; 0x8e; 0x8c; 0x1a; 0xd2; 0x00].

Definition kMaskRandom40_27 : list Z :=
  [0x0e; 0x03; 0x80; 0xe0; 0x38; 0x00; 0x33; 0x0c; 0xc3; 0x30; 0xcc; 0x00;
   0x10; 0xc4; 0x31; 0x0c; 0x43; 0x00; 0x45; 0x51; 0x54; 0x55; 0x15; 0x00;
   0x88; 0xa2; 0x28; 0x8a; 0x22; 0x00; 0xe0; 0x38; 0x0e; 0x03; 0x80; 0x00;
   0x46; 0x11; 0x84; 0x61; 0x18; 0x00; 0x33; 0x0c; 0xc3; 0x30; 0xcc; 0x00;
   0x10; 0xc4; 0x31; 0x0c; 0x43; 0x00; 0x0c; 0x43; 0x10; 0xc4; 0x31; 0x00;
   0x28; 0x8a; 0x22; 0x88; 0xa2; 0x00; 0x94; 0x25; 0x09; 0x42; 0x50; 0x00;
   0xc1; 0x30; 0x4c; 0x13; 0x04; 0x00; 0x46; 0x11; 0x84; 0x61; 0x18; 0x00;
   0x33; 0x0c; 0xc3; 0x30; 0xcc; 0x00; 0x10; 0xc4; 0x31; 0x0c; 0x43; 0x00;
   0x0c; 0x43; 0x10; 0xc4; 0x31; 0x00; 0x28; 0x8a; 0x22; 0x88; 0xa2; 0x00;
   0x94; 0x25; 0x09; 0x42; 0x50; 0x00; 0xc1; 0x30; 0x4c; 0x13; 0x04; 0x00;
   0x0e; 0x03; 0x80; 0xe0; 0x38; 0x00; 0x33; 0x0c; 0xc3; 0x30; 0xcc; 0x00;
   0x10; 0xc4; 0x31; 0x0c; 0x43; 0x00; 0x45; 0x51; 0x54; 0x55; 0x15; 0x00;
   0x88; 0xa2; 0x28; 0x8a; 0x22; 0x00; 0xe0; 0x38; 0x0e; 0x03; 0x80; 0x00;
   0x56; 0x3e; 0x25; 0x63; 0xe2; 0x00].

Definition kMaskRandom40_28 : list Z :=
  [0x46; 0x11; 0x84; 0x61; 0x18; 0x00; 0x33; 0x0c; 0xc3; 0x30; 0xcc; 0x00;
   0x10; 0xc4; 0x31; 0x0c; 0x43; 0x00; 0x0c; 0x43; 0x10; 0xc4; 0x31; 0x00;
   0x28; 0x8a; 0x22; 0x88; 0xa2; 0x00; 0x94; 0x25; 0x09; 0x42; 0x50; 0x00;
   0xc1; 0x30; 0x4c; 0x13; 0x04; 0x00; 0x0e; 0x03; 0x80; 0xe0; 0x38; 0x00;
   0x33; 0x0c; 0xc3; 0x30; 0xcc; 0x00; 0x10; 0xc4; 0x31; 0x0c; 0x43; 0x00;
   0x45; 0x51; 0x54; 0x55; 0x15; 0x00; 0x88; 0xa2; 0x28; 0x8a; 0x22; 0x00;
   0xe0; 0x38; 0x0e; 0x03; 0x80; 0x00; 0x56; 0x3e; 0x25; 0x63; 0xe2; 0x00;
   0x0e; 0x03; 0x80; 0xe0; 0x38; 0x00; 0x33; 0x0c; 0xc3; 0x30; 0xcc; 0x00;
   0x10; 0xc4; 0x31; 0x0c; 0x43; 0x00; 0x45; 0x51; 0x54; 0x55; 0x15; 0x00;
   0x88; 0xa2; 0x28; 0x8a; 0x22; 0x00; 0xe0; 0x38; 0x0e; 0x03; 0x80; 0x00;
   0x46; 0x11; 0x84; 0x61; 0x18; 0x00; 0x33; 0x0c; 0xc3; 0x30; 0xcc; 0x00;
   0x10; 0xc4; 0x31; 0x0c; 0x43; 0x00; 0x0c; 0x43; 0x10; 0xc4; 0x31; 0x00;
   0x28; 0x8a; 0x22; 0x88; 0xa2; 0x00; 0x94; 0x25; 0x09; 0x42; 0x50; 0x00;
   0xc1; 0x30; 0x4c; 0x13; 0x04; 0x00; 0x68; 0x0e; 0x9b; 0x52; 0xb6; 0x00].

Definition kMaskRandom40_29 : list Z :=
  [0x46; 0x11; 0x84; 0x61; 0x18; 0x00; 0x33; 0x0c; 0xc3; 0x30; 0xcc; 0x00;
   0x10; 0xc4; 0x31; 0x0c; 0x43; 0x00; 0x0c; 0x43; 0x10; 0xc4; 0x31; 0x00;
   0x28; 0x8a; 0x22; 0x88; 0xa2; 0x00; 0x94; 0x25; 0x09; 0x42; 0x50; 0x00;
   0xc1; 0x30; 0x4c; 0x13; 0x04; 0x00; 0x0e; 0x03; 0x80; 0xe0; 0x38; 0x00;
   0x33; 0x0c; 0xc3; 0x30; 0xcc; 0x00; 0x10; 0xc4; 0x31; 0x0c; 0x43; 0x00;
   0x45; 0x51; 0x54; 0x55; 0x15; 0x00; 0x88; 0xa2; 0x28; 0x8a; 0x22; 0x00;
   0xe0; 0x38; 0x0e; 0x03; 0x80; 0x00; 0x56; 0x3e; 0x25; 0x63; 0xe2; 0x00;
   0x46; 0x11; 0x84; 0x61; 0x18; 0x00; 0x33; 0x0c; 0xc3; 0x30; 0xcc; 0x00;
   0x10; 0xc4; 0x31; 0x0c; 0x43; 0x00; 0x0c; 0x43; 0x10; 0xc4; 0x31; 0x00;
   0x28; 0x8a; 0x22; 0x88; 0xa2; 0x00; 0x94; 0x25; 0x09; 0x42; 0x50; 0x00;
   0xc1; 0x30; 0x4c; 0x13; 0x04; 0x00; 0x2c; 0x0b; 0x02; 0xc0; 0xb0; 0x00;
   0x81; 0xa0; 0x68; 0x1a; 0x06; 0x00; 0xa0; 0x68; 0x1a; 0x06; 0x81; 0x00;
   0x05; 0x41; 0x50; 0x54; 0x15; 0x00; 0x18; 0x86; 0x21; 0x88; 0x62; 0x00;
   0xc2; 0x30; 0x8c; 0x23; 0x08; 0x00; 0x22; 0x88; 0xa2; 0x28; 0x8a; 0x00;
   0x50; 0x54; 0x15; 0x05; 0x41; 0x00].

Definition kMaskRandom40_30 : list Z :=
  [0x46; 0x11; 0x84; 0x61; 0x18; 0x00; 0x33; 0x0c; 0xc3; 0x30; 0xcc; 0x00;
   0x10; 0xc4; 0x31; 0x0c; 0x43; 0x00; 0x0c; 0x43; 0x10; 0xc4; 0x31; 0x00;
   0x28; 0x8a; 0x22; 0x88; 0xa2; 0x00; 0x94; 0x25; 0x09; 0x42; 0x50; 0x00;
   0xc1; 0x30; 0x4c; 0x13; 0x04; 0x00; 0x2c; 0x0b; 0x02; 0xc0; 0xb0; 0x00;
   0x81; 0xa0; 0x68; 0x1a; 0x06; 0x00; 0xa0; 0x68; 0x1a; 0x06; 0x81; 0x00;
   0x05; 0x41; 0x50; 0x54; 0x15; 0x00; 0x18; 0x86; 0x21; 0x88; 0x62; 0x00;
   0xc2; 0x30; 0x8c; 0x23; 0x08; 0x00; 0x22; 0x88; 0xa2; 0x28; 0x8a; 0x00;
   0x50; 0x54; 0x15; 0x05; 0x41; 0x00; 0x46; 0x11; 0x84; 0x61; 0x18; 0x00;
   0x33; 0x0c; 0xc3; 0x30; 0xcc; 0x00; 0x10; 0xc4; 0x31; 0x0c; 0x43; 0x00;
   0x0c; 0x43; 0x10; 0xc4; 0x31; 0x00; 0x28; 0x8a; 0x22; 0x88; 0xa2; 0x00;
   0x94; 0x25; 0x09; 0x42; 0x50; 0x00; 0xc1; 0x30; 0x4c; 0x13; 0x04; 0x00;
   0x0e; 0x03; 0x80; 0xe0; 0x38; 0x00; 0x33; 0x0c; 0xc3; 0x30; 0xcc; 0x00;
   0x10; 0xc4; 0x31; 0x0c; 0x43; 0x00; 0x45; 0x51; 0x54; 0x55; 0x15; 0x00;
   0x88; 0xa2; 0x28; 0x8a; 0x22; 0x00; 0xe0; 0x38; 0x0e; 0x03; 0x80; 0x00;
   0x56; 0x3e; 0x25; 0x63; 0xe2; 0x00; 0xe1; 0x47; 0x04; 0x05; 0x47; 0x00].

Definition kMaskRandom40_31 : list Z :=
  [0x46; 0x11; 0x84; 0x61; 0x18; 0x00; 0x33; 0x0c; 0xc3; 0x30; 0xcc; 0x00;
   0x10; 0xc4; 0x31; 0x0c; 0x43; 0x00; 0x0c; 0x43; 0x10; 0xc4; 0x31; 0x00;
   0x28; 0x8a; 0x22; 0x88; 0xa2; 0x00; 0x94; 0x25; 0x09; 0x42; 0x50; 0x00;
   0xc1; 0x30; 0x4c; 0x13; 0x04; 0x00; 0x2c; 0x0b; 0x02; 0xc0; 0xb0; 0x00;
   0x81; 0xa0; 0x68; 0x1a; 0x06; 0x00; 0xa0; 0x68; 0x1a; 0x06; 0x81; 0x00;
   0x05; 0x41; 0x50; 0x54; 0x15; 0x00; 0x18; 0x86; 0x21; 0x88; 0x62; 0x00;
   0xc2; 0x30; 0x8c; 0x23; 0x08; 0x00; 0x22; 0x88; 0xa2; 0x28; 0x8a; 0x00;
   0x50; 0x54; 0x15; 0x05; 0x41; 0x00; 0x2c; 0x0b; 0x02; 0xc0; 0xb0; 0x00;
   0x81; 0xa0; 0x68; 0x1a; 0x06; 0x00; 0xa0; 0x68; 0x1a; 0x06; 0x81; 0x00;
   0x05; 0x41; 0x50; 0x54; 0x15; 0x00; 0x18; 0x86; 0x21; 0x88; 0x62; 0x00;
   0xc2; 0x30; 0x8c; 0x23; 0x08; 0x00; 0x22; 0x88; 0xa2; 0x28; 0x8a; 0x00;
   0x50; 0x54; 0x15; 0x05; 0x41; 0x00; 0x46; 0x11; 0x84; 0x61; 0x18; 0x00;
   0x33; 0x0c; 0xc3; 0x30; 0xcc; 0x00; 0x10; 0xc4; 0x31; 0x0c; 0x43; 0x00;
   0x0c; 0x43; 0x10; 0xc4; 0x31; 0x00; 0x28; 0x8a; 0x22; 0x88; 0xa2; 0x00;
   0x94; 0x25; 0x09; 0x42; 0x50; 0x00; 0xc1; 0x30; 0x4c; 0x13; 0x04; 0x00;
   0x28; 0x1c; 0x62; 0x81; 0xc6; 0x00].

Definition kMaskRandom40_32 : list Z :=
  [0x2c; 0x0b; 0x02; 0xc0; 0xb0; 0x00; 0x81; 0xa0; 0x68; 0x1a; 0x06; 0x00;
   0xa0; 0x68; 0x1a; 0x06; 0x81; 0x00; 0x05; 0x41; 0x50; 0x54; 0x15; 0x00;
   0x18; 0x86; 0x21; 0x88; 0x62; 0x00; 0xc2; 0x30; 0x8c; 0x23; 0x08; 0x00;
   0x22; 0x88; 0xa2; 0x28; 0x8a; 0x00; 0x50; 0x54; 0x15; 0x05; 0x41; 0x00;
   0x46; 0x11; 0x84; 0x61; 0x18; 0x00; 0x33; 0x0c; 0xc3; 0x30; 0xcc; 0x00;
   0x10; 0xc4; 0x31; 0x0c; 0x43; 0x00; 0x0c; 0x43; 0x10; 0xc4; 0x31; 0x00;
   0x28; 0x8a; 0x22; 0x88; 0xa2; 0x00; 0x94; 0x25; 0x09; 0x42; 0x50; 0x00;
   0xc1; 0x30; 0x4c; 0x13; 0x04; 0x00; 0x28; 0x1c; 0x62; 0x81; 0xc6; 0x00;
   0x46; 0x11; 0x84; 0x61; 0x18; 0x00; 0x33; 0x0c; 0xc3; 0x30; 0xcc; 0x00;
   0x10; 0xc4; 0x31; 0x0c; 0x43; 0x00; 0x0c; 0x43; 0x10; 0xc4; 0x31; 0x00;
   0x28; 0x8a; 0x22; 0x88; 0xa2; 0x00; 0x94; 0x25; 0x09; 0x42; 0x50; 0x00;
   0xc1; 0x30; 0x4c; 0x13; 0x04; 0x00; 0x2c; 0x0b; 0x02; 0xc0; 0xb0; 0x00;
   0x81; 0xa0; 0x68; 0x1a; 0x06; 0x00; 0xa0; 0x68; 0x1a; 0x06; 0x81; 0x00;
   0x05; 0x41; 0x50; 0x54; 0x15; 0x00; 0x18; 0x86; 0x21; 0x88; 0x62; 0x00;
   0xc2; 0x30; 0x8c; 0x23; 0x08; 0x00; 0x22; 0x88; 0xa2; 0x28; 0x8a; 0x00;
   0x50; 0x54; 0x15; 0x05; 0x41; 0x00; 0x03; 0x0c; 0x46; 0x10; 0xc5; 0x00].

Definition kMaskRandom40_33 : list Z :=
  [0x2c; 0x0b; 0x02; 0xc0; 0xb0; 0x00; 0x81; 0xa0; 0x68; 0x1a; 0x06; 0x00;
   0xa0; 0x68; 0x1a; 0x06; 0x81; 0x00; 0x05; 0x41; 0x50; 0x54; 0x15; 0x00;
   0x18; 0x86; 0x21; 0x88; 0x62; 0x00; 0xc2; 0x30; 0x8c; 0x23; 0x08; 0x00;
   0x22; 0x88; 0xa2; 0x28; 0x8a; 0x00; 0x50; 0x54; 0x15; 0x05; 0x41; 0x00;
   0x46; 0x11; 0x84; 0x61; 0x18; 0x00; 0x33; 0x0c; 0xc3; 0x30; 0xcc; 0x00;
   0x10; 0xc4; 0x31; 0x0c; 0x43; 0x00; 0x0c; 0x43; 0x10; 0xc4; 0x31; 0x00;
   0x28; 0x8a; 0x22; 0x88; 0xa2; 0x00; 0x94; 0x25; 0x09; 0x42; 0x50; 0x00;
   0xc1; 0x30; 0x4c; 0x13; 0x04; 0x00; 0x28; 0x1c; 0x62; 0x81; 0xc6; 0x00;
   0x2c; 0x0b; 0x02; 0xc0; 0xb0; 0x00; 0x81; 0xa0; 0x68; 0x1a; 0x06; 0x00;
   0xa0; 0x68; 0x1a; 0x06; 0x81; 0x00; 0x05; 0x41; 0x50; 0x54; 0x15; 0x00;
   0x18; 0x86; 0x21; 0x88; 0x62; 0x00; 0xc2; 0x30; 0x8c; 0x23; 0x08; 0x00;
   0x22; 0x88; 0xa2; 0x28; 0x8a; 0x00; 0x50; 0x54; 0x15; 0x05; 0x41; 0x00;
   0x4e; 0x13; 0x84; 0xe1; 0x38; 0x00; 0xe3; 0x38; 0xce; 0x33; 0x8c; 0x00;
   0x81; 0xe0; 0x78; 0x1e; 0x07; 0x00; 0x21; 0x48; 0x52; 0x14; 0x85; 0x00;
   0x52; 0x94; 0xa5; 0x29; 0x4a; 0x00; 0xb4; 0x2d; 0x0b; 0x42; 0xd0; 0x00;
   0x26; 0x89; 0xa2; 0x68; 0x9a; 0x00; 0x58; 0x56; 0x15; 0x85; 0x61; 0x00;
   0x19; 0x86; 0x61; 0x98; 0x66; 0x00].

Definition kMaskRandom40_34 : list Z :=
  [0x2c; 0x0b; 0x02; 0xc0; 0xb0; 0x00; 0x81; 0xa0; 0x68; 0x1a; 0x06; 0x00;
   0xa0; 0x68; 0x1a; 0x06; 0x81; 0x00; 0x05; 0x41; 0x50; 0x54; 0x15; 0x00;
   0x18; 0x86; 0x21; 0x88; 0x62; 0x00; 0xc2; 0x30; 0x8c; 0x23; 0x08; 0x00;
   0x22; 0x88; 0xa2; 0x28; 0x8a; 0x00; 0x50; 0x54; 0x15; 0x05; 0x41; 0x00;
   0x4e; 0x13; 0x84; 0xe1; 0x38; 0x00; 0xe3; 0x38; 0xce; 0x33; 0x8c; 0x00;
   0x81; 0xe0; 0x78; 0x1e; 0x07; 0x00; 0x21; 0x48; 0x52; 0x14; 0x85; 0x00;
   0x52; 0x94; 0xa5; 0x29; 0x4a; 0x00; 0xb4; 0x2d; 0x0b; 0x42; 0xd0; 0x00;
   0x26; 0x89; 0xa2; 0x68; 0x9a; 0x00; 0x58; 0x56; 0x15; 0x85; 0x61; 0x00;
   0x19; 0x86; 0x61; 0x98; 0x66; 0x00; 0x2c; 0x0b; 0x02; 0xc0; 0xb0; 0x00;
   0x81; 0xa0; 0x68; 0x1a; 0x06; 0x00; 0xa0; 0x68; 0x1a; 0x06; 0x81; 0x00;
   0x05; 0x41; 0x50; 0x54; 0x15; 0x00; 0x18; 0x86; 0x21; 0x88; 0x62; 0x00;
   0xc2; 0x30; 0x8c; 0x23; 0x08; 0x00; 0x22; 0x88; 0xa2; 0x28; 0x8a; 0x00;
   0x50; 0x54; 0x15; 0x05; 0x41; 0x00; 0x46; 0x11; 0x84; 0x61; 0x18; 0x00;
   0x33; 0x0c; 0xc3; 0x30; 0xcc; 0x00; 0x10; 0xc4; 0x31; 0x0c; 0x43; 0x00;
   0x0c; 0x43; 0x10; 0xc4; 0x31; 0x00; 0x28; 0x8a; 0x22; 0x88; 0xa2; 0x00;
   0x94; 0x25; 0x09; 0x42; 0x50; 0x00; 0xc1; 0x30; 0x4c; 0x13; 0x04; 0x00;
   0x28; 0x1c; 0x62; 0x81; 0xc6; 0x00; 0x87; 0x3c; 0x08; 0x19; 0x31; 0x00].

Definition kMaskRandom40_35 : list Z :=
  [0x2c; 0x0b; 0x02; 0xc0; 0xb0; 0x00; 0x81; 0xa0; 0x68; 0x1a; 0x06; 0x00;
   0xa0; 0x68; 0x1a; 0x06; 0x81; 0x00; 0x05; 0x41; 0x50; 0x54; 0x15; 0x00;
   0x18; 0x86; 0x21; 0x88; 0x62; 0x00; 0xc2; 0x30; 0x8c; 0x23; 0x08; 0x00;
   0x22; 0x88; 0xa2; 0x28; 0x8a; 0x00; 0x50; 0x54; 0x15; 0x05; 0x41; 0x00;
   0x4e; 0x13; 0x84; 0xe1; 0x38; 0x00; 0xe3; 0x38; 0xce; 0x33; 0x8c; 0x00;
   0x81; 0xe0; 0x78; 0x1e; 0x07; 0x00; 0x21; 0x48; 0x52; 0x14; 0x85; 0x00;
   0x52; 0x94; 0xa5; 0x29; 0x4a; 0x00; 0xb4; 0x2d; 0x0b; 0x42; 0xd0; 0x00;
   0x26; 0x89; 0xa2; 0x68; 0x9a; 0x00; 0x58; 0x56; 0x15; 0x85; 0x61; 0x00;
   0x19; 0x86; 0x61; 0x98; 0x66; 0x00; 0x4e; 0x13; 0x84; 0xe1; 0x38; 0x00;
   0xe3; 0x38; 0xce; 0x33; 0x8c; 0x00; 0x81; 0xe0; 0x78; 0x1e; 0x07; 0x00;
   0x21; 0x48; 0x52; 0x14; 0x85; 0x00; 0x52; 0x94; 0xa5; 0x29; 0x4a; 0x00;
   0xb4; 0x2d; 0x0b; 0x42; 0xd0; 0x00; 0x26; 0x89; 0xa2; 0x68; 0x9a; 0x00;
   0x58; 0x56; 0x15; 0x85; 0x61; 0x00; 0x19; 0x86; 0x61; 0x98; 0x66; 0x00;
   0x2c; 0x0b; 0x02; 0xc0; 0xb0; 0x00; 0x81; 0xa0; 0x68; 0x1a; 0x06; 0x00;
   0xa0; 0x68; 0x1a; 0x06; 0x81; 0x00; 0x05; 0x41; 0x50; 0x54; 0x15; 0x00;
   0x18; 0x86; 0x21; 0x88; 0x62; 0x00; 0xc2; 0x30; 0x8c; 0x23; 0x08; 0x00;
   0x22; 0x88; 0xa2; 0x28; 0x8a; 0x00; 0x50; 0x54; 0x15; 0x05; 0x41; 0x00;
   0x21; 0x7b; 0xf2; 0x17; 0xbf; 0x00].

Definition kMaskRandom40_36 : list Z :=
  [0x4e; 0x13; 0x84; 0xe1; 0x38; 0x00; 0xe3; 0x38; 0xce; 0x33; 0x8c; 0x00;
   0x81; 0xe0; 0x78; 0x1e; 0x07; 0x00; 0x21; 0x48; 0x52; 0x14; 0x85; 0x00;
   0x52; 0x94; 0xa5; 0x29; 0x4a; 0x00; 0xb4; 0x2d; 0x0b; 0x42; 0xd0; 0x00;
   0x26; 0x89; 0xa2; 0x68; 0x9a; 0x00; 0x58; 0x56; 0x15; 0x85; 0x61; 0x00;
   0x19; 0x86; 0x61; 0x98; 0x66; 0x00; 0x2c; 0x0b; 0x02; 0xc0; 0xb0; 0x00;
   0x81; 0xa0; 0x68; 0x1a; 0x06; 0x00; 0xa0; 0x68; 0x1a; 0x06; 0x81; 0x00;
   0x05; 0x41; 0x50; 0x54; 0x15; 0x00; 0x18; 0x86; 0x21; 0x88; 0x62; 0x00;
   0xc2; 0x30; 0x8c; 0x23; 0x08; 0x00; 0x22; 0x88; 0xa2; 0x28; 0x8a; 0x00;
   0x50; 0x54; 0x15; 0x05; 0x41; 0x00; 0x21; 0x7b; 0xf2; 0x17; 0xbf; 0x00;
   0x2c; 0x0b; 0x02; 0xc0; 0xb0; 0x00; 0x81; 0xa0; 0x68; 0x1a; 0x06; 0x00;
   0xa0; 0x68; 0x1a; 0x06; 0x81; 0x00; 0x05; 0x41; 0x50; 0x54; 0x15; 0x00;
   0x18; 0x86; 0x21; 0x88; 0x62; 0x00; 0xc2; 0x30; 0x8c; 0x23; 0x08; 0x00;
   0x22; 0x88; 0xa2; 0x28; 0x8a; 0x00; 0x50; 0x54; 0x15; 0x05; 0x41; 0x00;
   0x4e; 0x13; 0x84; 0xe1; 0x38; 0x00; 0xe3; 0x38; 0xce; 0x33; 0x8c; 0x00;
   0x81; 0xe0; 0x78; 0x1e; 0x07; 0x00; 0x21; 0x48; 0x52; 0x14; 0x85; 0x00;
   0x52; 0x94; 0xa5; 0x29; 0x4a; 0x00; 0xb4; 0x2d; 0x0b; 0x42; 0xd0; 0x00;
   0x26; 0x89; 0xa2; 0x68; 0x9a; 0x00; 0x58; 0x56; 0x15; 0x85; 0x61; 0x00;
   0x19; 0x86; 0x61; 0x98; 0x66; 0x00; 0x1e; 0xb9; 0x3d; 0x25; 0xcc; 0x00].

Definition kMaskRandom40_37 : list Z :=
  [0x4e; 0x13; 0x84; 0xe1; 0x38; 0x00; 0xe3; 0x38; 0xce; 0x33; 0x8c; 0x00;
   0x81; 0xe0; 0x78; 0x1e; 0x07; 0x00; 0x21; 0x48; 0x52; 0x14; 0x85; 0x00;
   0x52; 0x94; 0xa5; 0x29; 0x4a; 0x00; 0xb4; 0x2d; 0x0b; 0x42; 0xd0; 0x00;
   0x26; 0x89; 0xa2; 0x68; 0x9a; 0x00; 0x58; 0x56; 0x15; 0x85; 0x61; 0x00;
   0x19; 0x86; 0x61; 0x98; 0x66; 0x00; 0x2c; 0x0b; 0x02; 0xc0; 0xb0; 0x00;
   0x81; 0xa0; 0x68; 0x1a; 0x06; 0x00; 0xa0; 0x68; 0x1a; 0x06; 0x81; 0x00;
   0x05; 0x41; 0x50; 0x54; 0x15; 0x00; 0x18; 0x86; 0x21; 0x88; 0x62; 0x00;
   0xc2; 0x30; 0x8c; 0x23; 0x08; 0x00; 0x22; 0x88; 0xa2; 0x28; 0x8a; 0x00;
   0x50; 0x54; 0x15; 0x05; 0x41; 0x00; 0x21; 0x7b; 0xf2; 0x17; 0xbf; 0x00;
   0x4e; 0x13; 0x84; 0xe1; 0x38; 0x00; 0xe3; 0x38; 0xce; 0x33; 0x8c; 0x00;
   0x81; 0xe0; 0x78; 0x1e; 0x07; 0x00; 0x21; 0x48; 0x52; 0x14; 0x85; 0x00;
   0x52; 0x94; 0xa5; 0x29; 0x4a; 0x00; 0xb4; 0x2d; 0x0b; 0x42; 0xd0; 0x00;
   0x26; 0x89; 0xa2; 0x68; 0x9a; 0x00; 0x58; 0x56; 0x15; 0x85; 0x61; 0x00;
   0x19; 0x86; 0x61; 0x98; 0x66; 0x00; 0x4c; 0x13; 0x04; 0xc1; 0x30; 0x00;
   0x51; 0x14; 0x45; 0x11; 0x44; 0x00; 0xa0; 0x68; 0x1a; 0x06; 0x81; 0x00;
   0x04; 0xc1; 0x30; 0x4c; 0x13; 0x00; 0x03; 0x80; 0xe0; 0x38; 0x0e; 0x00;
   0x86; 0x21; 0x88; 0x62; 0x18; 0x00; 0x29; 0x0a; 0x42; 0x90; 0xa4; 0x00;
   0x42; 0x50; 0x94; 0x25; 0x09; 0x00; 0x98; 0x26; 0x09; 0x82; 0x60; 0x00;
   0x30; 0x8c; 0x23; 0x08; 0xc2; 0x00].

Definition kMaskRandom40_38 : list Z :=
  [0x4e; 0x13; 0x84; 0xe1; 0x38; 0x00; 0xe3; 0x38; 0xce; 0x33; 0x8c; 0x00;
   0x81; 0xe0; 0x78; 0x1e; 0x07; 0x00; 0x21; 0x48; 0x52; 0x14; 0x85; 0x00;
   0x52; 0x94; 0xa5; 0x29; 0x4a; 0x00; 0xb4; 0x2d; 0x0b; 0x42; 0xd0; 0x00;
   0x26; 0x89; 0xa2; 0x68; 0x9a; 0x00; 0x58; 0x56; 0x15; 0x85; 0x61; 0x00;
   0x19; 0x86; 0x61; 0x98; 0x66; 0x00; 0x4c; 0x13; 0x04; 0xc1; 0x30; 0x00;
   0x51; 0x14; 0x45; 0x11; 0x44; 0x00; 0xa0; 0x68; 0x1a; 0x06; 0x81; 0x00;
   0x04; 0xc1; 0x30; 0x4c; 0x13; 0x00; 0x03; 0x80; 0xe0; 0x38; 0x0e; 0x00;
   0x86; 0x21; 0x88; 0x62; 0x18; 0x00; 0x29; 0x0a; 0x42; 0x90; 0xa4; 0x00;
   0x42; 0x50; 0x94; 0x25; 0x09; 0x00; 0x98; 0x26; 0x09; 0x82; 0x60; 0x00;
   0x30; 0x8c; 0x23; 0x08; 0xc2; 0x00; 0x4e; 0x13; 0x84; 0xe1; 0x38; 0x00;
   0xe3; 0x38; 0xce; 0x33; 0x8c; 0x00; 0x81; 0xe0; 0x78; 0x1e; 0x07; 0x00;
   0x21; 0x48; 0x52; 0x14; 0x85; 0x00; 0x52; 0x94; 0xa5; 0x29; 0x4a; 0x00;
   0xb4; 0x2d; 0x0b; 0x42; 0xd0; 0x00; 0x26; 0x89; 0xa2; 0x68; 0x9a; 0x00;
   0x58; 0x56; 0x15; 0x85; 0x61; 0x00; 0x19; 0x86; 0x61; 0x98; 0x66; 0x00;
   0x2c; 0x0b; 0x02; 0xc0; 0xb0; 0x00; 0x81; 0xa0; 0x68; 0x1a; 0x06; 0x00;
   0xa0; 0x68; 0x1a; 0x06; 0x81; 0x00; 0x05; 0x41; 0x50; 0x54; 0x15; 0x00;
   0x18; 0x86; 0x21; 0x88; 0x62; 0x00; 0xc2; 0x30; 0x8c; 0x23; 0x08; 0x00;
   0x22; 0x88; 0xa2; 0x28; 0x8a; 0x00; 0x50; 0x54; 0x15; 0x05; 0x41; 0x00;
   0x21; 0x7b; 0xf2; 0x17; 0xbf; 0x00; 0xea; 0xaa; 0x20; 0xa2; 0x1b; 0x00].

Definition kMaskRandom40_39 : list Z :=
  [0x4e; 0x13; 0x84; 0xe1; 0x38; 0x00; 0xe3; 0x38; 0xce; 0x33; 0x8c; 0x00;
   0x81; 0xe0; 0x78; 0x1e; 0x07; 0x00; 0x21; 0x48; 0x52; 0x14; 0x85; 0x00;
   0x52; 0x94; 0xa5; 0x29; 0x4a; 0x00; 0xb4; 0x2d; 0x0b; 0x42; 0xd0; 0x00;
   0x26; 0x89; 0xa2; 0x68; 0x9a; 0x00; 0x58; 0x56; 0x15; 0x85; 0x61; 0x00;
   0x19; 0x86; 0x61; 0x98; 0x66; 0x00; 0x4c; 0x13; 0x04; 0xc1; 0x30; 0x00;
   0x51; 0x14; 0x45; 0x11; 0x44; 0x00; 0xa0; 0x68; 0x1a; 0x06; 0x81; 0x00;
   0x04; 0xc1; 0x30; 0x4c; 0x13; 0x00; 0x03; 0x80; 0xe0; 0x38; 0x0e; 0x00;
   0x86; 0x21; 0x88; 0x62; 0x18; 0x00; 0x29; 0x0a; 0x42; 0x90; 0xa4; 0x00;
   0x42; 0x50; 0x94; 0x25; 0x09; 0x00; 0x98; 0x26; 0x09; 0x82; 0x60; 0x00;
   0x30; 0x8c; 0x23; 0x08; 0xc2; 0x00; 0x4c; 0x13; 0x04; 0xc1; 0x30; 0x00;
   0x51; 0x14; 0x45; 0x11; 0x44; 0x00; 0xa0; 0x68; 0x1a; 0x06; 0x81; 0x00;
   0x04; 0xc1; 0x30; 0x4c; 0x13; 0x00; 0x03; 0x80; 0xe0; 0x38; 0x0e; 0x00;
   0x86; 0x21; 0x88; 0x62; 0x18; 0x00; 0x29; 0x0a; 0x42; 0x90; 0xa4; 0x00;
   0x42; 0x50; 0x94; 0x25; 0x09; 0x00; 0x98; 0x26; 0x09; 0x82; 0x60; 0x00;
   0x30; 0x8c; 0x23; 0x08; 0xc2; 0x00; 0x4e; 0x13; 0x84; 0xe1; 0x38; 0x00;
   0xe3; 0x38; 0xce; 0x33; 0x8c; 0x00; 0x81; 0xe0; 0x78; 0x1e; 0x07; 0x00;
   0x21; 0x48; 0x52; 0x14; 0x85; 0x00; 0x52; 0x94; 0xa5; 0x29; 0x4a; 0x00;
   0xb4; 0x2d; 0x0b; 0x42; 0xd0; 0x00; 0x26; 0x89; 0xa2; 0x68; 0x9a; 0x00;
   0x58; 0x56; 0x15; 0x85; 0x61; 0x00; 0x19; 0x86; 0x61; 0x98; 0x66; 0x00;
   0xf7; 0x8d; 0xaf; 0x78; 0xda; 0x00].

Definition kMaskRandom40_40 : list Z :=
  [0x4c; 0x13; 0x04; 0xc1; 0x30; 0x00; 0x51; 0x14; 0x45; 0x11; 0x44; 0x00;
   0xa0; 0x68; 0x1a; 0x06; 0x81; 0x00; 0x04; 0xc1; 0x30; 0x4c; 0x13; 0x00;
   0x03; 0x80; 0xe0; 0x38; 0x0e; 0x00; 0x86; 0x21; 0x88; 0x62; 0x18; 0x00;
   0x29; 0x0a; 0x42; 0x90; 0xa4; 0x00; 0x42; 0x50; 0x94; 0x25; 0x09; 0x00;
   0x98; 0x26; 0x09; 0x82; 0x60; 0x00; 0x30; 0x8c; 0x23; 0x08; 0xc2; 0x00;
   0x4e; 0x13; 0x84; 0xe1; 0x38; 0x00; 0xe3; 0x38; 0xce; 0x33; 0x8c; 0x00;
   0x81; 0xe0; 0x78; 0x1e; 0x07; 0x00; 0x21; 0x48; 0x52; 0x14; 0x85; 0x00;
   0x52; 0x94; 0xa5; 0x29; 0x4a; 0x00; 0xb4; 0x2d; 0x0b; 0x42; 0xd0; 0x00;
   0x26; 0x89; 0xa2; 0x68; 0x9a; 0x00; 0x58; 0x56; 0x15; 0x85; 0x61; 0x00;
   0x19; 0x86; 0x61; 0x98; 0x66; 0x00; 0xf7; 0x8d; 0xaf; 0x78; 0xda; 0x00;
   0x4e; 0x13; 0x84; 0xe1; 0x38; 0x00; 0xe3; 0x38; 0xce; 0x33; 0x8c; 0x00;
   0x81; 0xe0; 0x78; 0x1e; 0x07; 0x00; 0x21; 0x48; 0x52; 0x14; 0x85; 0x00;
   0x52; 0x94; 0xa5; 0x29; 0x4a; 0x00; 0xb4; 0x2d; 0x0b; 0x42; 0xd0; 0x00;
   0x26; 0x89; 0xa2; 0x68; 0x9a; 0x00; 0x58; 0x56; 0x15; 0x85; 0x61; 0x00;
   0x19; 0x86; 0x61; 0x98; 0x66; 0x00; 0x4c; 0x13; 0x04; 0xc1; 0x30; 0x00;
   0x51; 0x14; 0x45; 0x11; 0x44; 0x00; 0xa0; 0x68; 0x1a; 0x06; 0x81; 0x00;
   0x04; 0xc1; 0x30; 0x4c; 0x13; 0x00; 0x03; 0x80; 0xe0; 0x38; 0x0e; 0x00;
   0x86; 0x21; 0x88; 0x62; 0x18; 0x00; 0x29; 0x0a; 0x42; 0x90; 0xa4; 0x00;
   0x42; 0x50; 0x94; 0x25; 0x09; 0x00; 0x98; 0x26; 0x09; 0x82; 0x60; 0x00;
   0x30; 0x8c; 0x23; 0x08; 0xc2; 0x00; 0xa6; 0xf3; 0xab; 0x1b; 0x87; 0x00].

Definition kMaskRandom41_1 : list Z :=
  [0xff; 0xff; 0xff; 0xff; 0xff; 0x80].

Definition kMaskRandom41_2 : list Z :=
  [0xee; 0x3b; 0x8e; 0xe3; 0xb3; 0x00; 0x99; 0xe6; 0x79; 0x9e; 0x6e; 0x80].

Definition kMaskRandom41_3 : list Z :=
  [0xce; 0x33; 0x8c; 0xe3; 0x2b; 0x00; 0x55; 0x95; 0x65; 0x5d; 0xc5; 0x00;
   0xb1; 0x6a; 0x3a; 0x8e; 0xd8; 0x80].

Definition kMaskRandom41_4 : list Z :=
  [0xe6; 0x39; 0x8e; 0x63; 0x13; 0x00; 0x33; 0x8c; 0xe3; 0x38; 0xc5; 0x80;
   0x98; 0xe6; 0x39; 0x8d; 0x2c; 0x80; 0x2d; 0x4b; 0x52; 0xd4; 0xb2; 0x80].

Definition kMaskRandom41_5 : list Z :=
  [0xce; 0x33; 0x8c; 0xe3; 0x1b; 0x00; 0x63; 0x98; 0xe6; 0x39; 0x8d; 0x80;
   0x98; 0xe5; 0x39; 0x8c; 0x76; 0x80; 0x2b; 0x53; 0x54; 0xd6; 0xb5; 0x00;
   0xb4; 0x5c; 0xab; 0x26; 0xca; 0x80].

Definition kMaskRandom41_6 : list Z :=
  [0x4c; 0x1b; 0x04; 0xc1; 0x91; 0x00; 0x51; 0x34; 0x45; 0x11; 0x45; 0x00;
   0x20; 0xe8; 0x32; 0x0e; 0xa0; 0x80; 0x85; 0x41; 0x58; 0x54; 0x12; 0x80;
   0x06; 0x86; 0xa0; 0x68; 0x0d; 0x80; 0x9a; 0x21; 0x88; 0xa2; 0x43; 0x00].

Definition kMaskRandom41_7 : list Z :=
  [0x4e; 0x11; 0x8c; 0x61; 0x19; 0x00; 0x33; 0x2c; 0x03; 0x30; 0x4c; 0x80;
   0x10; 0x0e; 0xb1; 0x86; 0x74; 0x00; 0x81; 0x51; 0x54; 0x54; 0x2d; 0x00;
   0x24; 0xc4; 0xa1; 0x2d; 0x42; 0x80; 0xd4; 0x23; 0x0b; 0x42; 0x83; 0x00;
   0x0c; 0xa2; 0x62; 0x99; 0x21; 0x80].

Definition kMaskRandom41_8 : list Z :=
  [0x27; 0x09; 0xc0; 0x70; 0xa7; 0x00; 0x89; 0xa2; 0x64; 0x9a; 0x82; 0x80;
   0xd0; 0x74; 0x1b; 0x07; 0xa0; 0x00; 0x24; 0xc9; 0x32; 0x4c; 0x5c; 0x00;
   0xe2; 0x90; 0xa5; 0x28; 0x0e; 0x80; 0xc6; 0x31; 0x8c; 0x63; 0x18; 0x00;
   0x31; 0x8c; 0x63; 0x19; 0x41; 0x80; 0x18; 0xc6; 0x31; 0x8c; 0x70; 0x80].

Definition kMaskRandom41_9 : list Z :=
  [0x4e; 0x13; 0x84; 0xe1; 0x11; 0x00; 0x62; 0x38; 0xc6; 0x21; 0xa0; 0x80;
   0x81; 0xe0; 0x78; 0x0e; 0x94; 0x00; 0xe1; 0x48; 0x5a; 0x15; 0x05; 0x00;
   0x13; 0x94; 0xa5; 0x30; 0x06; 0x80; 0xb4; 0x2d; 0x0a; 0x42; 0x43; 0x00;
   0x26; 0x89; 0xa1; 0x6a; 0x08; 0x80; 0x58; 0x56; 0x15; 0x84; 0x52; 0x00;
   0x49; 0x86; 0x52; 0x98; 0x68; 0x00].

Definition kMaskRandom41_10 : list Z :=
  [0x4c; 0x13; 0x04; 0xc1; 0x91; 0x00; 0x51; 0x14; 0x45; 0x11; 0x45; 0x00;
   0xa0; 0x68; 0x1a; 0x06; 0xa4; 0x00; 0x04; 0xc1; 0x30; 0x4c; 0x13; 0x00;
   0x03; 0x80; 0xe0; 0x3b; 0x40; 0x00; 0x86; 0x21; 0x88; 0x62; 0x09; 0x00;
   0x29; 0x0a; 0x42; 0x90; 0x84; 0x80; 0x42; 0x50; 0x94; 0x24; 0x30; 0x80;
   0x98; 0x26; 0x09; 0x81; 0x28; 0x00; 0x30; 0x8c; 0x23; 0x08; 0x4a; 0x80].

Definition kMaskRandom41_11 : list Z :=
  [0xc6; 0x31; 0x8c; 0x62; 0x1a; 0x00; 0x23; 0x88; 0xe2; 0x38; 0x8c; 0x80;
   0x1a; 0x46; 0x91; 0xa4; 0x58; 0x80; 0x24; 0xc9; 0x32; 0x4d; 0x30; 0x80;
   0x71; 0x1c; 0x47; 0x11; 0x07; 0x00; 0x0e; 0x03; 0x80; 0xe1; 0x91; 0x00;
   0x33; 0x0c; 0xc3; 0x31; 0x45; 0x00; 0x10; 0xc4; 0x31; 0x0c; 0x32; 0x80;
   0x45; 0x51; 0x54; 0x56; 0x84; 0x80; 0x88; 0xa2; 0x28; 0x88; 0x4a; 0x80;
   0xe0; 0x38; 0x0e; 0x02; 0x29; 0x00].

Definition kMaskRandom41_12 : list Z :=
  [0x0e; 0x03; 0x80; 0xe1; 0x91; 0x00; 0x33; 0x0c; 0xc3; 0x31; 0x45; 0x00;
   0x10; 0xc4; 0x31; 0x0c; 0x32; 0x80; 0x45; 0x51; 0x54; 0x56; 0x84; 0x80;
   0x88; 0xa2; 0x28; 0x88; 0x4a; 0x80; 0xe0; 0x38; 0x0e; 0x02; 0x29; 0x00;
   0xc6; 0x31; 0x8c; 0x62; 0x1a; 0x00; 0x23; 0x88; 0xe2; 0x38; 0x8c; 0x80;
   0x1a; 0x46; 0x91; 0xa4; 0x58; 0x80; 0x24; 0xc9; 0x32; 0x4d; 0x30; 0x80;
   0x71; 0x1c; 0x47; 0x11; 0x07; 0x00; 0xf5; 0xdc; 0x4a; 0x06; 0x51; 0x80].

Definition kMaskRandom41_13 : list Z :=
  [0x0e; 0x03; 0x80; 0xe1; 0x91; 0x00; 0x33; 0x0c; 0xc3; 0x31; 0x45; 0x00;
   0x10; 0xc4; 0x31; 0x0c; 0x32; 0x80; 0x45; 0x51; 0x54; 0x56; 0x84; 0x80;
   0x88; 0xa2; 0x28; 0x88; 0x4a; 0x80; 0xe0; 0x38; 0x0e; 0x02; 0x29; 0x00;
   0x46; 0x11; 0x84; 0x61; 0x19; 0x00; 0x33; 0x0c; 0xc3; 0x30; 0xcc; 0x80;
   0x10; 0xc4; 0x31; 0x0e; 0x46; 0x00; 0x0c; 0x43; 0x10; 0xc6; 0x90; 0x80;
   0x28; 0x8a; 0x22; 0x89; 0x42; 0x80; 0x94; 0x25; 0x09; 0x42; 0x13; 0x00;
   0xc1; 0x30; 0x4c; 0x10; 0x25; 0x80].

Definition kMaskRandom41_14 : list Z :=
  [0x46; 0x11; 0x84; 0x61; 0x19; 0x00; 0x33; 0x0c; 0xc3; 0x30; 0xcc; 0x80;
   0x10; 0xc4; 0x31; 0x0e; 0x46; 0x00; 0x0c; 0x43; 0x10; 0xc6; 0x90; 0x80;
   0x28; 0x8a; 0x22; 0x89; 0x42; 0x80; 0x94; 0x25; 0x09; 0x42; 0x13; 0x00;
   0xc1; 0x30; 0x4c; 0x10; 0x25; 0x80; 0x0e; 0x03; 0x80; 0xe1; 0x91; 0x00;
   0x33; 0x0c; 0xc3; 0x31; 0x45; 0x00; 0x10; 0xc4; 0x31; 0x0c; 0x32; 0x80;
   0x45; 0x51; 0x54; 0x56; 0x84; 0x80; 0x88; 0xa2; 0x28; 0x88; 0x4a; 0x80;
   0xe0; 0x38; 0x0e; 0x02; 0x29; 0x00; 0x56; 0x3e; 0x24; 0xdd; 0x0c; 0x00].

Definition kMaskRandom41_15 : list Z :=
  [0x46; 0x11; 0x84; 0x61; 0x19; 0x00; 0x33; 0x0c; 0xc3; 0x30; 0xcc; 0x80;
   0x10; 0xc4; 0x31; 0x0e; 0x46; 0x00; 0x0c; 0x43; 0x10; 0xc6; 0x90; 0x80;
   0x28; 0x8a; 0x22; 0x89; 0x42; 0x80; 0x94; 0x25; 0x09; 0x42; 0x13; 0x00;
   0xc1; 0x30; 0x4c; 0x10; 0x25; 0x80; 0x2c; 0x0b; 0x02; 0xc0; 0x32; 0x00;
   0x81; 0xa0; 0x68; 0x1a; 0x01; 0x80; 0xa0; 0x68; 0x1a; 0x06; 0x82; 0x00;
   0x05; 0x41; 0x50; 0x54; 0x15; 0x00; 0x18; 0x86; 0x21; 0x89; 0x0c; 0x00;
   0xc2; 0x30; 0x8c; 0x20; 0x68; 0x00; 0x22; 0x88; 0xa2; 0x29; 0x80; 0x80;
   0x50; 0x54; 0x15; 0x04; 0x50; 0x80].

Definition kMaskRandom41_16 : list Z :=
  [0x2c; 0x0b; 0x02; 0xc0; 0x32; 0x00; 0x81; 0xa0; 0x68; 0x1a; 0x01; 0x80;
   0xa0; 0x68; 0x1a; 0x06; 0x82; 0x00; 0x05; 0x41; 0x50; 0x54; 0x15; 0x00;
   0x18; 0x86; 0x21; 0x89; 0x0c; 0x00; 0xc2; 0x30; 0x8c; 0x20; 0x68; 0x00;
   0x22; 0x88; 0xa2; 0x29; 0x80; 0x80; 0x50; 0x54; 0x15; 0x04; 0x50; 0x80;
   0x46; 0x11; 0x84; 0x61; 0x19; 0x00; 0x33; 0x0c; 0xc3; 0x30; 0xcc; 0x80;
   0x10; 0xc4; 0x31; 0x0e; 0x46; 0x00; 0x0c; 0x43; 0x10; 0xc6; 0x90; 0x80;
   0x28; 0x8a; 0x22; 0x89; 0x42; 0x80; 0x94; 0x25; 0x09; 0x42; 0x13; 0x00;
   0xc1; 0x30; 0x4c; 0x10; 0x25; 0x80; 0x28; 0x1c; 0x63; 0xbf; 0x53; 0x80].

Definition kMaskRandom41_17 : list Z :=
  [0x2c; 0x0b; 0x02; 0xc0; 0x32; 0x00; 0x81; 0xa0; 0x68; 0x1a; 0x01; 0x80;
   0xa0; 0x68; 0x1a; 0x06; 0x82; 0x00; 0x05; 0x41; 0x50; 0x54; 0x15; 0x00;
   0x18; 0x86; 0x21; 0x89; 0x0c; 0x00; 0xc2; 0x30; 0x8c; 0x20; 0x68; 0x00;
   0x22; 0x88; 0xa2; 0x29; 0x80; 0x80; 0x50; 0x54; 0x15; 0x04; 0x50; 0x80;
   0x4e; 0x13; 0x84; 0xe1; 0x19; 0x00; 0xe3; 0x38; 0xce; 0x31; 0x89; 0x80;
   0x81; 0xe0; 0x78; 0x1e; 0x30; 0x00; 0x21; 0x48; 0x52; 0x14; 0x05; 0x80;
   0x52; 0x94; 0xa5; 0x28; 0x1e; 0x00; 0xb4; 0x2d; 0x0b; 0x42; 0x82; 0x00;
   0x26; 0x89; 0xa2; 0x68; 0x62; 0x80; 0x58; 0x56; 0x15; 0x86; 0x44; 0x00;
   0x19; 0x86; 0x61; 0x99; 0xe0; 0x00].

Definition kMaskRandom41_18 : list Z :=
  [0x4e; 0x13; 0x84; 0xe1; 0x19; 0x00; 0xe3; 0x38; 0xce; 0x31; 0x89; 0x80;
   0x81; 0xe0; 0x78; 0x1e; 0x30; 0x00; 0x21; 0x48; 0x52; 0x14; 0x05; 0x80;
   0x52; 0x94; 0xa5; 0x28; 0x1e; 0x00; 0xb4; 0x2d; 0x0b; 0x42; 0x82; 0x00;
   0x26; 0x89; 0xa2; 0x68; 0x62; 0x80; 0x58; 0x56; 0x15; 0x86; 0x44; 0x00;
   0x19; 0x86; 0x61; 0x99; 0xe0; 0x00; 0x2c; 0x0b; 0x02; 0xc0; 0x32; 0x00;
   0x81; 0xa0; 0x68; 0x1a; 0x01; 0x80; 0xa0; 0x68; 0x1a; 0x06; 0x82; 0x00;
   0x05; 0x41; 0x50; 0x54; 0x15; 0x00; 0x18; 0x86; 0x21; 0x89; 0x0c; 0x00;
   0xc2; 0x30; 0x8c; 0x20; 0x68; 0x00; 0x22; 0x88; 0xa2; 0x29; 0x80; 0x80;
   0x50; 0x54; 0x15; 0x04; 0x50; 0x80; 0x21; 0x7b; 0xf5; 0xa5; 0x65; 0x80].

Definition kMaskRandom41_19 : list Z :=
  [0x4e; 0x13; 0x84; 0xe1; 0x19; 0x00; 0xe3; 0x38; 0xce; 0x31; 0x89; 0x80;
   0x81; 0xe0; 0x78; 0x1e; 0x30; 0x00; 0x21; 0x48; 0x52; 0x14; 0x05; 0x80;
   0x52; 0x94; 0xa5; 0x28; 0x1e; 0x00; 0xb4; 0x2d; 0x0b; 0x42; 0x82; 0x00;
   0x26; 0x89; 0xa2; 0x68; 0x62; 0x80; 0x58; 0x56; 0x15; 0x86; 0x44; 0x00;
   0x19; 0x86; 0x61; 0x99; 0xe0; 0x00; 0x4c; 0x13; 0x04; 0xc1; 0x91; 0x00;
   0x51; 0x14; 0x45; 0x11; 0x45; 0x00; 0xa0; 0x68; 0x1a; 0x06; 0xa4; 0x00;
   0x04; 0xc1; 0x30; 0x4c; 0x13; 0x00; 0x03; 0x80; 0xe0; 0x3b; 0x40; 0x00;
   0x86; 0x21; 0x88; 0x62; 0x09; 0x00; 0x29; 0x0a; 0x42; 0x90; 0x84; 0x80;
   0x42; 0x50; 0x94; 0x24; 0x30; 0x80; 0x98; 0x26; 0x09; 0x81; 0x28; 0x00;
   0x30; 0x8c; 0x23; 0x08; 0x4a; 0x80].

Definition kMaskRandom41_20 : list Z :=
  [0x4c; 0x13; 0x04; 0xc1; 0x91; 0x00; 0x51; 0x14; 0x45; 0x11; 0x45; 0x00;
   0xa0; 0x68; 0x1a; 0x06; 0xa4; 0x00; 0x04; 0xc1; 0x30; 0x4c; 0x13; 0x00;
   0x03; 0x80; 0xe0; 0x3b; 0x40; 0x00; 0x86; 0x21; 0x88; 0x62; 0x09; 0x00;
   0x29; 0x0a; 0x42; 0x90; 0x84; 0x80; 0x42; 0x50; 0x94; 0x24; 0x30; 0x80;
   0x98; 0x26; 0x09; 0x81; 0x28; 0x00; 0x30; 0x8c; 0x23; 0x08; 0x4a; 0x80;
   0x4e; 0x13; 0x84; 0xe1; 0x19; 0x00; 0xe3; 0x38; 0xce; 0x31; 0x89; 0x80;
   0x81; 0xe0; 0x78; 0x1e; 0x30; 0x00; 0x21; 0x48; 0x52; 0x14; 0x05; 0x80;
   0x52; 0x94; 0xa5; 0x28; 0x1e; 0x00; 0xb4; 0x2d; 0x0b; 0x42; 0x82; 0x00;
   0x26; 0x89; 0xa2; 0x68; 0x62; 0x80; 0x58; 0x56; 0x15; 0x86; 0x44; 0x00;
   0x19; 0x86; 0x61; 0x99; 0xe0; 0x00; 0xf7; 0x8d; 0xa2; 0xa0; 0x33; 0x00].

Definition kMaskRandom41_21 : list Z :=
  [0x4c; 0x13; 0x04; 0xc1; 0x91; 0x00; 0x51; 0x14; 0x45; 0x11; 0x45; 0x00;
   0xa0; 0x68; 0x1a; 0x06; 0xa4; 0x00; 0x04; 0xc1; 0x30; 0x4c; 0x13; 0x00;
   0x03; 0x80; 0xe0; 0x3b; 0x40; 0x00; 0x86; 0x21; 0x88; 0x62; 0x09; 0x00;
   0x29; 0x0a; 0x42; 0x90; 0x84; 0x80; 0x42; 0x50; 0x94; 0x24; 0x30; 0x80;
   0x98; 0x26; 0x09; 0x81; 0x28; 0x00; 0x30; 0x8c; 0x23; 0x08; 0x4a; 0x80;
   0xc6; 0x31; 0x8c; 0x62; 0x1a; 0x00; 0x23; 0x88; 0xe2; 0x38; 0x8c; 0x80;
   0x1a; 0x46; 0x91; 0xa4; 0x58; 0x80; 0x24; 0xc9; 0x32; 0x4d; 0x30; 0x80;
   0x71; 0x1c; 0x47; 0x11; 0x07; 0x00; 0x0e; 0x03; 0x80; 0xe1; 0x91; 0x00;
   0x33; 0x0c; 0xc3; 0x31; 0x45; 0x00; 0x10; 0xc4; 0x31; 0x0c; 0x32; 0x80;
   0x45; 0x51; 0x54; 0x56; 0x84; 0x80; 0x88; 0xa2; 0x28; 0x88; 0x4a; 0x80;
   0xe0; 0x38; 0x0e; 0x02; 0x29; 0x00].

Definition kMaskRandom41_22 : list Z :=
  [0xc6; 0x31; 0x8c; 0x62; 0x1a; 0x00; 0x23; 0x88; 0xe2; 0x38; 0x8c; 0x80;
   0x1a; 0x46; 0x91; 0xa4; 0x58; 0x80; 0x24; 0xc9; 0x32; 0x4d; 0x30; 0x80;
   0x71; 0x1c; 0x47; 0x11; 0x07; 0x00; 0x0e; 0x03; 0x80; 0xe1; 0x91; 0x00;
   0x33; 0x0c; 0xc3; 0x31; 0x45; 0x00; 0x10; 0xc4; 0x31; 0x0c; 0x32; 0x80;
   0x45; 0x51; 0x54; 0x56; 0x84; 0x80; 0x88; 0xa2; 0x28; 0x88; 0x4a; 0x80;
   0xe0; 0x38; 0x0e; 0x02; 0x29; 0x00; 0x4c; 0x13; 0x04; 0xc1; 0x91; 0x00;
   0x51; 0x14; 0x45; 0x11; 0x45; 0x00; 0xa0; 0x68; 0x1a; 0x06; 0xa4; 0x00;
   0x04; 0xc1; 0x30; 0x4c; 0x13; 0x00; 0x03; 0x80; 0xe0; 0x3b; 0x40; 0x00;
   0x86; 0x21; 0x88; 0x62; 0x09; 0x00; 0x29; 0x0a; 0x42; 0x90; 0x84; 0x80;
   0x42; 0x50; 0x94; 0x24; 0x30; 0x80; 0x98; 0x26; 0x09; 0x81; 0x28; 0x00;
   0x30; 0x8c; 0x23; 0x08; 0x4a; 0x80; 0x33; 0x09; 0x6e; 0x49; 0x6b; 0x80].

Definition kMaskRandom41_23 : list Z :=
  [0xc6; 0x31; 0x8c; 0x62; 0x1a; 0x00; 0x23; 0x88; 0xe2; 0x38; 0x8c; 0x80;
   0x1a; 0x46; 0x91; 0xa4; 0x58; 0x80; 0x24; 0xc9; 0x32; 0x4d; 0x30; 0x80;
   0x71; 0x1c; 0x47; 0x11; 0x07; 0x00; 0x0e; 0x03; 0x80; 0xe1; 0x91; 0x00;
   0x33; 0x0c; 0xc3; 0x31; 0x45; 0x00; 0x10; 0xc4; 0x31; 0x0c; 0x32; 0x80;
   0x45; 0x51; 0x54; 0x56; 0x84; 0x80; 0x88; 0xa2; 0x28; 0x88; 0x4a; 0x80;
   0xe0; 0x38; 0x0e; 0x02; 0x29; 0x00; 0x0e; 0x03; 0x80; 0xe1; 0x91; 0x00;
   0x33; 0x0c; 0xc3; 0x31; 0x45; 0x00; 0x10; 0xc4; 0x31; 0x0c; 0x32; 0x80;
   0x45; 0x51; 0x54; 0x56; 0x84; 0x80; 0x88; 0xa2; 0x28; 0x88; 0x4a; 0x80;
   0xe0; 0x38; 0x0e; 0x02; 0x29; 0x00; 0xc6; 0x31; 0x8c; 0x62; 0x1a; 0x00;
   0x23; 0x88; 0xe2; 0x38; 0x8c; 0x80; 0x1a; 0x46; 0x91; 0xa4; 0x58; 0x80;
   0x24; 0xc9; 0x32; 0x4d; 0x30; 0x80; 0x71; 0x1c; 0x47; 0x11; 0x07; 0x00;
   0xf5; 0xdc; 0x4a; 0x06; 0x51; 0x80].

Definition kMaskRandom41_24 : list Z :=
  [0x0e; 0x03; 0x80; 0xe1; 0x91; 0x00; 0x33; 0x0c; 0xc3; 0x31; 0x45; 0x00;
   0x10; 0xc4; 0x31; 0x0c; 0x32; 0x80; 0x45; 0x51; 0x54; 0x56; 0x84; 0x80;
   0x88; 0xa2; 0x28; 0x88; 0x4a; 0x80; 0xe0; 0x38; 0x0e; 0x02; 0x29; 0x00;
   0xc6; 0x31; 0x8c; 0x62; 0x1a; 0x00; 0x23; 0x88; 0xe2; 0x38; 0x8c; 0x80;
   0x1a; 0x46; 0x91; 0xa4; 0x58; 0x80; 0x24; 0xc9; 0x32; 0x4d; 0x30; 0x80;
   0x71; 0x1c; 0x47; 0x11; 0x07; 0x00; 0xf5; 0xdc; 0x4a; 0x06; 0x51; 0x80;
   0xc6; 0x31; 0x8c; 0x62; 0x1a; 0x00; 0x23; 0x88; 0xe2; 0x38; 0x8c; 0x80;
   0x1a; 0x46; 0x91; 0xa4; 0x58; 0x80; 0x24; 0xc9; 0x32; 0x4d; 0x30; 0x80;
   0x71; 0x1c; 0x47; 0x11; 0x07; 0x00; 0x0e; 0x03; 0x80; 0xe1; 0x91; 0x00;
   0x33; 0x0c; 0xc3; 0x31; 0x45; 0x00; 0x10; 0xc4; 0x31; 0x0c; 0x32; 0x80;
   0x45; 0x51; 0x54; 0x56; 0x84; 0x80; 0x88; 0xa2; 0x28; 0x88; 0x4a; 0x80;
   0xe0; 0x38; 0x0e; 0x02; 0x29; 0x00; 0x45; 0xa6; 0xef; 0xc9; 0xc3; 0x00].

Definition kMaskRandom41_25 : list Z :=
  [0x0e; 0x03; 0x80; 0xe1; 0x91; 0x00; 0x33; 0x0c; 0xc3; 0x31; 0x45; 0x00;
   0x10; 0xc4; 0x31; 0x0c; 0x32; 0x80; 0x45; 0x51; 0x54; 0x56; 0x84; 0x80;
   0x88; 0xa2; 0x28; 0x88; 0x4a; 0x80; 0xe0; 0x38; 0x0e; 0x02; 0x29; 0x00;
   0xc6; 0x31; 0x8c; 0x62; 0x1a; 0x00; 0x23; 0x88; 0xe2; 0x38; 0x8c; 0x80;
   0x1a; 0x46; 0x91; 0xa4; 0x58; 0x80; 0x24; 0xc9; 0x32; 0x4d; 0x30; 0x80;
   0x71; 0x1c; 0x47; 0x11; 0x07; 0x00; 0xf5; 0xdc; 0x4a; 0x06; 0x51; 0x80;
   0x0e; 0x03; 0x80; 0xe1; 0x91; 0x00; 0x33; 0x0c; 0xc3; 0x31; 0x45; 0x00;
   0x10; 0xc4; 0x31; 0x0c; 0x32; 0x80; 0x45; 0x51; 0x54; 0x56; 0x84; 0x80;
   0x88; 0xa2; 0x28; 0x88; 0x4a; 0x80; 0xe0; 0x38; 0x0e; 0x02; 0x29; 0x00;
   0x46; 0x11; 0x84; 0x61; 0x19; 0x00; 0x33; 0x0c; 0xc3; 0x30; 0xcc; 0x80;
   0x10; 0xc4; 0x31; 0x0e; 0x46; 0x00; 0x0c; 0x43; 0x10; 0xc6; 0x90; 0x80;
   0x28; 0x8a; 0x22; 0x89; 0x42; 0x80; 0x94; 0x25; 0x09; 0x42; 0x13; 0x00;
   0xc1; 0x30; 0x4c; 0x10; 0x25; 0x80].

Definition kMaskRandom41_26 : list Z :=
  [0x0e; 0x03; 0x80; 0xe1; 0x91; 0x00; 0x33; 0x0c; 0xc3; 0x31; 0x45; 0x00;
   0x10; 0xc4; 0x31; 0x0c; 0x32; 0x80; 0x45; 0x51; 0x54; 0x56; 0x84; 0x80;
   0x88; 0xa2; 0x28; 0x88; 0x4a; 0x80; 0xe0; 0x38; 0x0e; 0x02; 0x29; 0x00;
   0x46; 0x11; 0x84; 0x61; 0x19; 0x00; 0x33; 0x0c; 0xc3; 0x30; 0xcc; 0x80;
   0x10; 0xc4; 0x31; 0x0e; 0x46; 0x00; 0x0c; 0x43; 0x10; 0xc6; 0x90; 0x80;
   0x28; 0x8a; 0x22; 0x89; 0x42; 0x80; 0x94; 0x25; 0x09; 0x42; 0x13; 0x00;
   0xc1; 0x30; 0x4c; 0x10; 0x25; 0x80; 0x0e; 0x03; 0x80; 0xe1; 0x91; 0x00;
   0x33; 0x0c; 0xc3; 0x31; 0x45; 0x00; 0x10; 0xc4; 0x31; 0x0c; 0x32; 0x80;
   0x45; 0x51; 0x54; 0x56; 0x84; 0x80; 0x88; 0xa2; 0x28; 0x88; 0x4a; 0x80;
   0xe0; 0x38; 0x0e; 0x02; 0x29; 0x00; 0xc6; 0x31; 0x8c; 0x62; 0x1a; 0x00;
   0x23; 0x88; 0xe2; 0x38; 0x8c; 0x80; 0x1a; 0x46; 0x91; 0xa4; 0x58; 0x80;
   0x24; 0xc9; 0x32; 0x4d; 0x30; 0x80; 0x71; 0x1c; 0x47; 0x11; 0x07; 0x00;
   0xf5; 0xdc; 0x4a; 0x06; 0x51; 0x80; 0x6f; 0x72; 0xf1; 0xe7; 0x1a; 0x80].

Definition kMaskRandom41_27 : list Z :=
  [0x0e; 0x03; 0x80; 0xe1; 0x91; 0x00; 0x33; 0x0c; 0xc3; 0x31; 0x45; 0x00;
   0x10; 0xc4; 0x31; 0x0c; 0x32; 0x80; 0x45; 0x51; 0x54; 0x56; 0x84; 0x80;
   0x88; 0xa2; 0x28; 0x88; 0x4a; 0x80; 0xe0; 0x38; 0x0e; 0x02; 0x29; 0x00;
   0x46; 0x11; 0x84; 0x61; 0x19; 0x00; 0x33; 0x0c; 0xc3; 0x30; 0xcc; 0x80;
   0x10; 0xc4; 0x31; 0x0e; 0x46; 0x00; 0x0c; 0x43; 0x10; 0xc6; 0x90; 0x80;
   0x28; 0x8a; 0x22; 0x89; 0x42; 0x80; 0x94; 0x25; 0x09; 0x42; 0x13; 0x00;
   0xc1; 0x30; 0x4c; 0x10; 0x25; 0x80; 0x46; 0x11; 0x84; 0x61; 0x19; 0x00;
   0x33; 0x0c; 0xc3; 0x30; 0xcc; 0x80; 0x10; 0xc4; 0x31; 0x0e; 0x46; 0x00;
   0x0c; 0x43; 0x10; 0xc6; 0x90; 0x80; 0x28; 0x8a; 0x22; 0x89; 0x42; 0x80;
   0x94; 0x25; 0x09; 0x42; 0x13; 0x00; 0xc1; 0x30; 0x4c; 0x10; 0x25; 0x80;
   0x0e; 0x03; 0x80; 0xe1; 0x91; 0x00; 0x33; 0x0c; 0xc3; 0x31; 0x45; 0x00;
   0x10; 0xc4; 0x31; 0x0c; 0x32; 0x80; 0x45; 0x51; 0x54; 0x56; 0x84; 0x80;
   0x88; 0xa2; 0x28; 0x88; 0x4a; 0x80; 0xe0; 0x38; 0x0e; 0x02; 0x29; 0x00;
   0x56; 0x3e; 0x24; 0xdd; 0x0c; 0x00].

Definition kMaskRandom41_28 : list Z :=
  [0x46; 0x11; 0x84; 0x61; 0x19; 0x00; 0x33; 0x0c; 0xc3; 0x30; 0xcc; 0x80;
   0x10; 0xc4; 0x31; 0x0e; 0x46; 0x00; 0x0c; 0x43; 0x10; 0xc6; 0x90; 0x80;
   0x28; 0x8a; 0x22; 0x89; 0x42; 0x80; 0x94; 0x25; 0x09; 0x42; 0x13; 0x00;
   0xc1; 0x30; 0x4c; 0x10; 0x25; 0x80; 0x0e; 0x03; 0x80; 0xe1; 0x91; 0x00;
   0x33; 0x0c; 0xc3; 0x31; 0x45; 0x00; 0x10; 0xc4; 0x31; 0x0c; 0x32; 0x80;
   0x45; 0x51; 0x54; 0x56; 0x84; 0x80; 0x88; 0xa2; 0x28; 0x88; 0x4a; 0x80;
   0xe0; 0x38; 0x0e; 0x02; 0x29; 0x00; 0x56; 0x3e; 0x24; 0xdd; 0x0c; 0x00;
   0x0e; 0x03; 0x80; 0xe1; 0x91; 0x00; 0x33; 0x0c; 0xc3; 0x31; 0x45; 0x00;
   0x10; 0xc4; 0x31; 0x0c; 0x32; 0x80; 0x45; 0x51; 0x54; 0x56; 0x84; 0x80;
   0x88; 0xa2; 0x28; 0x88; 0x4a; 0x80; 0xe0; 0x38; 0x0e; 0x02; 0x29; 0x00;
   0x46; 0x11; 0x84; 0x61; 0x19; 0x00; 0x33; 0x0c; 0xc3; 0x30; 0xcc; 0x80;
   0x10; 0xc4; 0x31; 0x0e; 0x46; 0x00; 0x0c; 0x43; 0x10; 0xc6; 0x90; 0x80;
   0x28; 0x8a; 0x22; 0x89; 0x42; 0x80; 0x94; 0x25; 0x09; 0x42; 0x13; 0x00;
   0xc1; 0x30; 0x4c; 0x10; 0x25; 0x80; 0x61; 0x2c; 0xfa; 0x25; 0x38; 0x00].

Definition kMaskRandom41_29 : list Z :=
  [0x46; 0x11; 0x84; 0x61; 0x19; 0x00; 0x33; 0x0c; 0xc3; 0x30; 0xcc; 0x80;
   0x10; 0xc4; 0x31; 0x0e; 0x46; 0x00; 0x0c; 0x43; 0x10; 0xc6; 0x90; 0x80;
   0x28; 0x8a; 0x22; 0x89; 0x42; 0x80; 0x94; 0x25; 0x09; 0x42; 0x13; 0x00;
   0xc1; 0x30; 0x4c; 0x10; 0x25; 0x80; 0x0e; 0x03; 0x80; 0xe1; 0x91; 0x00;
   0x33; 0x0c; 0xc3; 0x31; 0x45; 0x00; 0x10; 0xc4; 0x31; 0x0c; 0x32; 0x80;
   0x45; 0x51; 0x54; 0x56; 0x84; 0x80; 0x88; 0xa2; 0x28; 0x88; 0x4a; 0x80;
   0xe0; 0x38; 0x0e; 0x02; 0x29; 0x00; 0x56; 0x3e; 0x24; 0xdd; 0x0c; 0x00;
   0x46; 0x11; 0x84; 0x61; 0x19; 0x00; 0x33; 0x0c; 0xc3; 0x30; 0xcc; 0x80;
   0x10; 0xc4; 0x31; 0x0e; 0x46; 0x00; 0x0c; 0x43; 0x10; 0xc6; 0x90; 0x80;
   0x28; 0x8a; 0x22; 0x89; 0x42; 0x80; 0x94; 0x25; 0x09; 0x42; 0x13; 0x00;
   0xc1; 0x30; 0x4c; 0x10; 0x25; 0x80; 0x2c; 0x0b; 0x02; 0xc0; 0x32; 0x00;
   0x81; 0xa0; 0x68; 0x1a; 0x01; 0x80; 0xa0; 0x68; 0x1a; 0x06; 0x82; 0x00;
   0x05; 0x41; 0x50; 0x54; 0x15; 0x00; 0x18; 0x86; 0x21; 0x89; 0x0c; 0x00;
   0xc2; 0x30; 0x8c; 0x20; 0x68; 0x00; 0x22; 0x88; 0xa2; 0x29; 0x80; 0x80;
   0x50; 0x54; 0x15; 0x04; 0x50; 0x80].

Definition kMaskRandom41_30 : list Z :=
  [0x46; 0x11; 0x84; 0x61; 0x19; 0x00; 0x33; 0x0c; 0xc3; 0x30; 0xcc; 0x80;
   0x10; 0xc4; 0x31; 0x0e; 0x46; 0x00; 0x0c; 0x43; 0x10; 0xc6; 0x90; 0x80;
   0x28; 0x8a; 0x22; 0x89; 0x42; 0x80; 0x94; 0x25; 0x09; 0x42; 0x13; 0x00;
   0xc1; 0x30; 0x4c; 0x10; 0x25; 0x80; 0x2c; 0x0b; 0x02; 0xc0; 0x32; 0x00;
   0x81; 0xa0; 0x68; 0x1a; 0x01; 0x80; 0xa0; 0x68; 0x1a; 0x06; 0x82; 0x00;
   0x05; 0x41; 0x50; 0x54; 0x15; 0x00; 0x18; 0x86; 0x21; 0x89; 0x0c; 0x00;
   0xc2; 0x30; 0x8c; 0x20; 0x68; 0x00; 0x22; 0x88; 0xa2; 0x29; 0x80; 0x80;
   0x50; 0x54; 0x15; 0x04; 0x50; 0x80; 0x46; 0x11; 0x84; 0x61; 0x19; 0x00;
   0x33; 0x0c; 0xc3; 0x30; 0xcc; 0x80; 0x10; 0xc4; 0x31; 0x0e; 0x46; 0x00;
   0x0c; 0x43; 0x10; 0xc6; 0x90; 0x80; 0x28; 0x8a; 0x22; 0x89; 0x42; 0x80;
   0x94; 0x25; 0x09; 0x42; 0x13; 0x00; 0xc1; 0x30; 0x4c; 0x10; 0x25; 0x80;
   0x0e; 0x03; 0x80; 0xe1; 0x91; 0x00; 0x33; 0x0c; 0xc3; 0x31; 0x45; 0x00;
   0x10; 0xc4; 0x31; 0x0c; 0x32; 0x80; 0x45; 0x51; 0x54; 0x56; 0x84; 0x80;
   0x88; 0xa2; 0x28; 0x88; 0x4a; 0x80; 0xe0; 0x38; 0x0e; 0x02; 0x29; 0x00;
   0x56; 0x3e; 0x24; 0xdd; 0x0c; 0x00; 0x59; 0x53; 0x31; 0x62; 0x15; 0x00].

Definition kMaskRandom41_31 : list Z :=
  [0x46; 0x11; 0x84; 0x61; 0x19; 0x00; 0x33; 0x0c; 0xc3; 0x30; 0xcc; 0x80;
   0x10; 0xc4; 0x31; 0x0e; 0x46; 0x00; 0x0c; 0x43; 0x10; 0xc6; 0x90; 0x80;
   0x28; 0x8a; 0x22; 0x89; 0x42; 0x80; 0x94; 0x25; 0x09; 0x42; 0x13; 0x00;
   0xc1; 0x30; 0x4c; 0x10; 0x25; 0x80; 0x2c; 0x0b; 0x02; 0xc0; 0x32; 0x00;
   0x81; 0xa0; 0x68; 0x1a; 0x01; 0x80; 0xa0; 0x68; 0x1a; 0x06; 0x82; 0x00;
   0x05; 0x41; 0x50; 0x54; 0x15; 0x00; 0x18; 0x86; 0x21; 0x89; 0x0c; 0x00;
   0xc2; 0x30; 0x8c; 0x20; 0x68; 0x00; 0x22; 0x88; 0xa2; 0x29; 0x80; 0x80;
   0x50; 0x54; 0x15; 0x04; 0x50; 0x80; 0x2c; 0x0b; 0x02; 0xc0; 0x32; 0x00;
   0x81; 0xa0; 0x68; 0x1a; 0x01; 0x80; 0xa0; 0x68; 0x1a; 0x06; 0x82; 0x00;
   0x05; 0x41; 0x50; 0x54; 0x15; 0x00; 0x18; 0x86; 0x21; 0x89; 0x0c; 0x00;
   0xc2; 0x30; 0x8c; 0x20; 0x68; 0x00; 0x22; 0x88; 0xa2; 0x29; 0x80; 0x80;
   0x50; 0x54; 0x15; 0x04; 0x50; 0x80; 0x46; 0x11; 0x84; 0x61; 0x19; 0x00;
   0x33; 0x0c; 0xc3; 0x30; 0xcc; 0x80; 0x10; 0xc4; 0x31; 0x0e; 0x46; 0x00;
   0x0c; 0x43; 0x10; 0xc6; 0x90; 0x80; 0x28; 0x8a; 0x22; 0x89; 0x42; 0x80;
   0x94; 0x25; 0x09; 0x42; 0x13; 0x00; 0xc1; 0x30; 0x4c; 0x10; 0x25; 0x80;
   0x28; 0x1c; 0x63; 0xbf; 0x53; 0x80].

Definition kMaskRandom41_32 : list Z :=
  [0x2c; 0x0b; 0x02; 0xc0; 0x32; 0x00; 0x81; 0xa0; 0x68; 0x1a; 0x01; 0x80;
   0xa0; 0x68; 0x1a; 0x06; 0x82; 0x00; 0x05; 0x41; 0x50; 0x54; 0x15; 0x00;
   0x18; 0x86; 0x21; 0x89; 0x0c; 0x00; 0xc2; 0x30; 0x8c; 0x20; 0x68; 0x00;
   0x22; 0x88; 0xa2; 0x29; 0x80; 0x80; 0x50; 0x54; 0x15; 0x04; 0x50; 0x80;
   0x46; 0x11; 0x84; 0x61; 0x19; 0x00; 0x33; 0x0c; 0xc3; 0x30; 0xcc; 0x80;
   0x10; 0xc4; 0x31; 0x0e; 0x46; 0x00; 0x0c; 0x43; 0x10; 0xc6; 0x90; 0x80;
   0x28; 0x8a; 0x22; 0x89; 0x42; 0x80; 0x94; 0x25; 0x09; 0x42; 0x13; 0x00;
   0xc1; 0x30; 0x4c; 0x10; 0x25; 0x80; 0x28; 0x1c; 0x63; 0xbf; 0x53; 0x80;
   0x46; 0x11; 0x84; 0x61; 0x19; 0x00; 0x33; 0x0c; 0xc3; 0x30; 0xcc; 0x80;
   0x10; 0xc4; 0x31; 0x0e; 0x46; 0x00; 0x0c; 0x43; 0x10; 0xc6; 0x90; 0x80;
   0x28; 0x8a; 0x22; 0x89; 0x42; 0x80; 0x94; 0x25; 0x09; 0x42; 0x13; 0x00;
   0xc1; 0x30; 0x4c; 0x10; 0x25; 0x80; 0x2c; 0x0b; 0x02; 0xc0; 0x32; 0x00;
   0x81; 0xa0; 0x68; 0x1a; 0x01; 0x80; 0xa0; 0x68; 0x1a; 0x06; 0x82; 0x00;
   0x05; 0x41; 0x50; 0x54; 0x15; 0x00; 0x18; 0x86; 0x21; 0x89; 0x0c; 0x00;
   0xc2; 0x30; 0x8c; 0x20; 0x68; 0x00; 0x22; 0x88; 0xa2; 0x29; 0x80; 0x80;
   0x50; 0x54; 0x15; 0x04; 0x50; 0x80; 0xca; 0xbb; 0xcb; 0x6d; 0xaa; 0x00].

Definition kMaskRandom41_33 : list Z :=
  [0x2c; 0x0b; 0x02; 0xc0; 0x32; 0x00; 0x81; 0xa0; 0x68; 0x1a; 0x01; 0x80;
   0xa0; 0x68; 0x1a; 0x06; 0x82; 0x00; 0x05; 0x41; 0x50; 0x54; 0x15; 0x00;
   0x18; 0x86; 0x21; 0x89; 0x0c; 0x00; 0xc2; 0x30; 0x8c; 0x20; 0x68; 0x00;
   0x22; 0x88; 0xa2; 0x29; 0x80; 0x80; 0x50; 0x54; 0x15; 0x04; 0x50; 0x80;
   0x46; 0x11; 0x84; 0x61; 0x19; 0x00; 0x33; 0x0c; 0xc3; 0x30; 0xcc; 0x80;
   0x10; 0xc4; 0x31; 0x0e; 0x46; 0x00; 0x0c; 0x43; 0x10; 0xc6; 0x90; 0x80;
   0x28; 0x8a; 0x22; 0x89; 0x42; 0x80; 0x94; 0x25; 0x09; 0x42; 0x13; 0x00;
   0xc1; 0x30; 0x4c; 0x10; 0x25; 0x80; 0x28; 0x1c; 0x63; 0xbf; 0x53; 0x80;
   0x2c; 0x0b; 0x02; 0xc0; 0x32; 0x00; 0x81; 0xa0; 0x68; 0x1a; 0x01; 0x80;
   0xa0; 0x68; 0x1a; 0x06; 0x82; 0x00; 0x05; 0x41; 0x50; 0x54; 0x15; 0x00;
   0x18; 0x86; 0x21; 0x89; 0x0c; 0x00; 0xc2; 0x30; 0x8c; 0x20; 0x68; 0x00;
   0x22; 0x88; 0xa2; 0x29; 0x80; 0x80; 0x50; 0x54; 0x15; 0x04; 0x50; 0x80;
   0x4e; 0x13; 0x84; 0xe1; 0x19; 0x00; 0xe3; 0x38; 0xce; 0x31; 0x89; 0x80;
   0x81; 0xe0; 0x78; 0x1e; 0x30; 0x00; 0x21; 0x48; 0x52; 0x14; 0x05; 0x80;
   0x52; 0x94; 0xa5; 0x28; 0x1e; 0x00; 0xb4; 0x2d; 0x0b; 0x42; 0x82; 0x00;
   0x26; 0x89; 0xa2; 0x68; 0x62; 0x80; 0x58; 0x56; 0x15; 0x86; 0x44; 0x00;
   0x19; 0x86; 0x61; 0x99; 0xe0; 0x00].

Definition kMaskRandom41_34 : list Z :=
  [0x2c; 0x0b; 0x02; 0xc0; 0x32; 0x00; 0x81; 0xa0; 0x68; 0x1a; 0x01; 0x80;
   0xa0; 0x68; 0x1a; 0x06; 0x82; 0x00; 0x05; 0x41; 0x50; 0x54; 0x15; 0x00;
   0x18; 0x86; 0x21; 0x89; 0x0c; 0x00; 0xc2; 0x30; 0x8c; 0x20; 0x68; 0x00;
   0x22; 0x88; 0xa2; 0x29; 0x80; 0x80; 0x50; 0x54; 0x15; 0x04; 0x50; 0x80;
   0x4e; 0x13; 0x84; 0xe1; 0x19; 0x00; 0xe3; 0x38; 0xce; 0x31; 0x89; 0x80;
   0x81; 0xe0; 0x78; 0x1e; 0x30; 0x00; 0x21; 0x48; 0x52; 0x14; 0x05; 0x80;
   0x52; 0x94; 0xa5; 0x28; 0x1e; 0x00; 0xb4; 0x2d; 0x0b; 0x42; 0x82; 0x00;
   0x26; 0x89; 0xa2; 0x68; 0x62; 0x80; 0x58; 0x56; 0x15; 0x86; 0x44; 0x00;
   0x19; 0x86; 0x61; 0x99; 0xe0; 0x00; 0x2c; 0x0b; 0x02; 0xc0; 0x32; 0x00;
   0x81; 0xa0; 0x68; 0x1a; 0x01; 0x80; 0xa0; 0x68; 0x1a; 0x06; 0x82; 0x00;
   0x05; 0x41; 0x50; 0x54; 0x15; 0x00; 0x18; 0x86; 0x21; 0x89; 0x0c; 0x00;
   0xc2; 0x30; 0x8c; 0x20; 0x68; 0x00; 0x22; 0x88; 0xa2; 0x29; 0x80; 0x80;
   0x50; 0x54; 0x15; 0x04; 0x50; 0x80; 0x46; 0x11; 0x84; 0x61; 0x19; 0x00;
   0x33; 0x0c; 0xc3; 0x30; 0xcc; 0x80; 0x10; 0xc4; 0x31; 0x0e; 0x46; 0x00;
   0x0c; 0x43; 0x10; 0xc6; 0x90; 0x80; 0x28; 0x8a; 0x22; 0x89; 0x42; 0x80;
   0x94; 0x25; 0x09; 0x42; 0x13; 0x00; 0xc1; 0x30; 0x4c; 0x10; 0x25; 0x80;
   0x28; 0x1c; 0x63; 0xbf; 0x53; 0x80; 0xbd; 0x37; 0x3f; 0x75; 0x36; 0x80].

Definition kMaskRandom41_35 : list Z :=
  [0x2c; 0x0b; 0x02; 0xc0; 0x32; 0x00; 0x81; 0xa0; 0x68; 0x1a; 0x01; 0x80;
   0xa0; 0x68; 0x1a; 0x06; 0x82; 0x00; 0x05; 0x41; 0x50; 0x54; 0x15; 0x00;
   0x18; 0x86; 0x21; 0x89; 0x0c; 0x00; 0xc2; 0x30; 0x8c; 0x20; 0x68; 0x00;
   0x22; 0x88; 0xa2; 0x29; 0x80; 0x80; 0x50; 0x54; 0x15; 0x04; 0x50; 0x80;
   0x4e; 0x13; 0x84; 0xe1; 0x19; 0x00; 0xe3; 0x38; 0xce; 0x31; 0x89; 0x80;
   0x81; 0xe0; 0x78; 0x1e; 0x30; 0x00; 0x21; 0x48; 0x52; 0x14; 0x05; 0x80;
   0x52; 0x94; 0xa5; 0x28; 0x1e; 0x00; 0xb4; 0x2d; 0x0b; 0x42; 0x82; 0x00;
   0x26; 0x89; 0xa2; 0x68; 0x62; 0x80; 0x58; 0x56; 0x15; 0x86; 0x44; 0x00;
   0x19; 0x86; 0x61; 0x99; 0xe0; 0x00; 0x4e; 0x13; 0x84; 0xe1; 0x19; 0x00;
   0xe3; 0x38; 0xce; 0x31; 0x89; 0x80; 0x81; 0xe0; 0x78; 0x1e; 0x30; 0x00;
   0x21; 0x48; 0x52; 0x14; 0x05; 0x80; 0x52; 0x94; 0xa5; 0x28; 0x1e; 0x00;
   0xb4; 0x2d; 0x0b; 0x42; 0x82; 0x00; 0x26; 0x89; 0xa2; 0x68; 0x62; 0x80;
   0x58; 0x56; 0x15; 0x86; 0x44; 0x00; 0x19; 0x86; 0x61; 0x99; 0xe0; 0x00;
   0x2c; 0x0b; 0x02; 0xc0; 0x32; 0x00; 0x81; 0xa0; 0x68; 0x1a; 0x01; 0x80;
   0xa0; 0x68; 0x1a; 0x06; 0x82; 0x00; 0x05; 0x41; 0x50; 0x54; 0x15; 0x00;
   0x18; 0x86; 0x21; 0x89; 0x0c; 0x00; 0xc2; 0x30; 0x8c; 0x20; 0x68; 0x00;
   0x22; 0x88; 0xa2; 0x29; 0x80; 0x80; 0x50; 0x54; 0x15; 0x04; 0x50; 0x80;
   0x21; 0x7b; 0xf5; 0xa5; 0x65; 0x80].

Definition kMaskRandom41_36 : list Z :=
  [0x4e; 0x13; 0x84; 0xe1; 0x19; 0x00; 0xe3; 0x38; 0xce; 0x31; 0x89; 0x80;
   0x81; 0xe0; 0x78; 0x1e; 0x30; 0x00; 0x21; 0x48; 0x52; 0x14; 0x05; 0x80;
   0x52; 0x94; 0xa5; 0x28; 0x1e; 0x00; 0xb4; 0x2d; 0x0b; 0x42; 0x82; 0x00;
   0x26; 0x89; 0xa2; 0x68; 0x62; 0x80; 0x58; 0x56; 0x15; 0x86; 0x44; 0x00;
   0x19; 0x86; 0x61; 0x99; 0xe0; 0x00; 0x2c; 0x0b; 0x02; 0xc0; 0x32; 0x00;
   0x81; 0xa0; 0x68; 0x1a; 0x01; 0x80; 0xa0; 0x68; 0x1a; 0x06; 0x82; 0x00;
   0x05; 0x41; 0x50; 0x54; 0x15; 0x00; 0x18; 0x86; 0x21; 0x89; 0x0c; 0x00;
   0xc2; 0x30; 0x8c; 0x20; 0x68; 0x00; 0x22; 0x88; 0xa2; 0x29; 0x80; 0x80;
   0x50; 0x54; 0x15; 0x04; 0x50; 0x80; 0x21; 0x7b; 0xf5; 0xa5; 0x65; 0x80;
   0x2c; 0x0b; 0x02; 0xc0; 0x32; 0x00; 0x81; 0xa0; 0x68; 0x1a; 0x01; 0x80;
   0xa0; 0x68; 0x1a; 0x06; 0x82; 0x00; 0x05; 0x41; 0x50; 0x54; 0x15; 0x00;
   0x18; 0x86; 0x21; 0x89; 0x0c; 0x00; 0xc2; 0x30; 0x8c; 0x20; 0x68; 0x00;
   0x22; 0x88; 0xa2; 0x29; 0x80; 0x80; 0x50; 0x54; 0x15; 0x04; 0x50; 0x80;
   0x4e; 0x13; 0x84; 0xe1; 0x19; 0x00; 0xe3; 0x38; 0xce; 0x31; 0x89; 0x80;
   0x81; 0xe0; 0x78; 0x1e; 0x30; 0x00; 0x21; 0x48; 0x52; 0x14; 0x05; 0x80;
   0x52; 0x94; 0xa5; 0x28; 0x1e; 0x00; 0xb4; 0x2d; 0x0b; 0x42; 0x82; 0x00;
   0x26; 0x89; 0xa2; 0x68; 0x62; 0x80; 0x58; 0x56; 0x15; 0x86; 0x44; 0x00;
   0x19; 0x86; 0x61; 0x99; 0xe0; 0x00; 0xc1; 0xb1; 0x80; 0xbe; 0x3e; 0x00].

Definition kMaskRandom41_37 : list Z :=
  [0x4e; 0x13; 0x84; 0xe1; 0x19; 0x00; 0xe3; 0x38; 0xce; 0x31; 0x89; 0x80;
   0x81; 0xe0; 0x78; 0x1e; 0x30; 0x00; 0x21; 0x48; 0x52; 0x14; 0x05; 0x80;
   0x52; 0x94; 0xa5; 0x28; 0x1e; 0x00; 0xb4; 0x2d; 0x0b; 0x42; 0x82; 0x00;
   0x26; 0x89; 0xa2; 0x68; 0x62; 0x80; 0x58; 0x56; 0x15; 0x86; 0x44; 0x00;
   0x19; 0x86; 0x61; 0x99; 0xe0; 0x00; 0x2c; 0x0b; 0x02; 0xc0; 0x32; 0x00;
   0x81; 0xa0; 0x68; 0x1a; 0x01; 0x80; 0xa0; 0x68; 0x1a; 0x06; 0x82; 0x00;
   0x05; 0x41; 0x50; 0x54; 0x15; 0x00; 0x18; 0x86; 0x21; 0x89; 0x0c; 0x00;
   0xc2; 0x30; 0x8c; 0x20; 0x68; 0x00; 0x22; 0x88; 0xa2; 0x29; 0x80; 0x80;
   0x50; 0x54; 0x15; 0x04; 0x50; 0x80; 0x21; 0x7b; 0xf5; 0xa5; 0x65; 0x80;
   0x4e; 0x13; 0x84; 0xe1; 0x19; 0x00; 0xe3; 0x38; 0xce; 0x31; 0x89; 0x80;
   0x81; 0xe0; 0x78; 0x1e; 0x30; 0x00; 0x21; 0x48; 0x52; 0x14; 0x05; 0x80;
   0x52; 0x94; 0xa5; 0x28; 0x1e; 0x00; 0xb4; 0x2d; 0x0b; 0x42; 0x82; 0x00;
   0x26; 0x89; 0xa2; 0x68; 0x62; 0x80; 0x58; 0x56; 0x15; 0x86; 0x44; 0x00;
   0x19; 0x86; 0x61; 0x99; 0xe0; 0x00; 0x4c; 0x13; 0x04; 0xc1; 0x91; 0x00;
   0x51; 0x14; 0x45; 0x11; 0x45; 0x00; 0xa0; 0x68; 0x1a; 0x06; 0xa4; 0x00;
   0x04; 0xc1; 0x30; 0x4c; 0x13; 0x00; 0x03; 0x80; 0xe0; 0x3b; 0x40; 0x00;
   0x86; 0x21; 0x88; 0x62; 0x09; 0x00; 0x29; 0x0a; 0x42; 0x90; 0x84; 0x80;
   0x42; 0x50; 0x94; 0x24; 0x30; 0x80; 0x98; 0x26; 0x09; 0x81; 0x28; 0x00;
   0x30; 0x8c; 0x23; 0x08; 0x4a; 0x80].

Definition kMaskRandom41_38 : list Z :=
  [0x4e; 0x13; 0x84; 0xe1; 0x19; 0x00; 0xe3; 0x38; 0xce; 0x31; 0x89; 0x80;
   0x81; 0xe0; 0x78; 0x1e; 0x30; 0x00; 0x21; 0x48; 0x52; 0x14; 0x05; 0x80;
   0x52; 0x94; 0xa5; 0x28; 0x1e; 0x00; 0xb4; 0x2d; 0x0b; 0x42; 0x82; 0x00;
   0x26; 0x89; 0xa2; 0x68; 0x62; 0x80; 0x58; 0x56; 0x15; 0x86; 0x44; 0x00;
   0x19; 0x86; 0x61; 0x99; 0xe0; 0x00; 0x4c; 0x13; 0x04; 0xc1; 0x91; 0x00;
   0x51; 0x14; 0x45; 0x11; 0x45; 0x00; 0xa0; 0x68; 0x1a; 0x06; 0xa4; 0x00;
   0x04; 0xc1; 0x30; 0x4c; 0x13; 0x00; 0x03; 0x80; 0xe0; 0x3b; 0x40; 0x00;
   0x86; 0x21; 0x88; 0x62; 0x09; 0x00; 0x29; 0x0a; 0x42; 0x90; 0x84; 0x80;
   0x42; 0x50; 0x94; 0x24; 0x30; 0x80; 0x98; 0x26; 0x09; 0x81; 0x28; 0x00;
   0x30; 0x8c; 0x23; 0x08; 0x4a; 0x80; 0x4e; 0x13; 0x84; 0xe1; 0x19; 0x00;
   0xe3; 0x38; 0xce; 0x31; 0x89; 0x80; 0x81; 0xe0; 0x78; 0x1e; 0x30; 0x00;
   0x21; 0x48; 0x52; 0x14; 0x05; 0x80; 0x52; 0x94; 0xa5; 0x28; 0x1e; 0x00;
   0xb4; 0x2d; 0x0b; 0x42; 0x82; 0x00; 0x26; 0x89; 0xa2; 0x68; 0x62; 0x80;
   0x58; 0x56; 0x15; 0x86; 0x44; 0x00; 0x19; 0x86; 0x61; 0x99; 0xe0; 0x00;
   0x2c; 0x0b; 0x02; 0xc0; 0x32; 0x00; 0x81; 0xa0; 0x68; 0x1a; 0x01; 0x80;
   0xa0; 0x68; 0x1a; 0x06; 0x82; 0x00; 0x05; 0x41; 0x50; 0x54; 0x15; 0x00;
   0x18; 0x86; 0x21; 0x89; 0x0c; 0x00; 0xc2; 0x30; 0x8c; 0x20; 0x68; 0x00;
   0x22; 0x88; 0xa2; 0x29; 0x80; 0x80; 0x50; 0x54; 0x15; 0x04; 0x50; 0x80;
   0x21; 0x7b; 0xf5; 0xa5; 0x65; 0x80; 0xea; 0xc8; 0xbb; 0xd4; 0x5d; 0x00].

Definition kMaskRandom41_39 : list Z :=
  [0x4e; 0x13; 0x84; 0xe1; 0x19; 0x00; 0xe3; 0x38; 0xce; 0x31; 0x89; 0x80;
   0x81; 0xe0; 0x78; 0x1e; 0x30; 0x00; 0x21; 0x48; 0x52; 0x14; 0x05; 0x80;
   0x52; 0x94; 0xa5; 0x28; 0x1e; 0x00; 0xb4; 0x2d; 0x0b; 0x42; 0x82; 0x00;
   0x26; 0x89; 0xa2; 0x68; 0x62; 0x80; 0x58; 0x56; 0x15; 0x86; 0x44; 0x00;
   0x19; 0x86; 0x61; 0x99; 0xe0; 0x00; 0x4c; 0x13; 0x04; 0xc1; 0x91; 0x00;
   0x51; 0x14; 0x45; 0x11; 0x45; 0x00; 0xa0; 0x68; 0x1a; 0x06; 0xa4; 0x00;
   0x04; 0xc1; 0x30; 0x4c; 0x13; 0x00; 0x03; 0x80; 0xe0; 0x3b; 0x40; 0x00;
   0x86; 0x21; 0x88; 0x62; 0x09; 0x00; 0x29; 0x0a; 0x42; 0x90; 0x84; 0x80;
   0x42; 0x50; 0x94; 0x24; 0x30; 0x80; 0x98; 0x26; 0x09; 0x81; 0x28; 0x00;
   0x30; 0x8c; 0x23; 0x08; 0x4a; 0x80; 0x4c; 0x13; 0x04; 0xc1; 0x91; 0x00;
   0x51; 0x14; 0x45; 0x11; 0x45; 0x00; 0xa0; 0x68; 0x1a; 0x06; 0xa4; 0x00;
   0x04; 0xc1; 0x30; 0x4c; 0x13; 0x00; 0x03; 0x80; 0xe0; 0x3b; 0x40; 0x00;
   0x86; 0x21; 0x88; 0x62; 0x09; 0x00; 0x29; 0x0a; 0x42; 0x90; 0x84; 0x80;
   0x42; 0x50; 0x94; 0x24; 0x30; 0x80; 0x98; 0x26; 0x09; 0x81; 0x28; 0x00;
   0x30; 0x8c; 0x23; 0x08; 0x4a; 0x80; 0x4e; 0x13; 0x84; 0xe1; 0x19; 0x00;
   0xe3; 0x38; 0xce; 0x31; 0x89; 0x80; 0x81; 0xe0; 0x78; 0x1e; 0x30; 0x00;
   0x21; 0x48; 0x52; 0x14; 0x05; 0x80; 0x52; 0x94; 0xa5; 0x28; 0x1e; 0x00;
   0xb4; 0x2d; 0x0b; 0x42; 0x82; 0x00; 0x26; 0x89; 0xa2; 0x68; 0x62; 0x80;
   0x58; 0x56; 0x15; 0x86; 0x44; 0x00; 0x19; 0x86; 0x61; 0x99; 0xe0; 0x00;
   0xf7; 0x8d; 0xa2; 0xa0; 0x33; 0x00].

Definition kMaskRandom41_40 : list Z :=
  [0x4c; 0x13; 0x04; 0xc1; 0x91; 0x00; 0x51; 0x14; 0x45; 0x11; 0x45; 0x00;
   0xa0; 0x68; 0x1a; 0x06; 0xa4; 0x00; 0x04; 0xc1; 0x30; 0x4c; 0x13; 0x00;
   0x03; 0x80; 0xe0; 0x3b; 0x40; 0x00; 0x86; 0x21; 0x88; 0x62; 0x09; 0x00;
   0x29; 0x0a; 0x42; 0x90; 0x84; 0x80; 0x42; 0x50; 0x94; 0x24; 0x30; 0x80;
   0x98; 0x26; 0x09; 0x81; 0x28; 0x00; 0x30; 0x8c; 0x23; 0x08; 0x4a; 0x80;
   0x4e; 0x13; 0x84; 0xe1; 0x19; 0x00; 0xe3; 0x38; 0xce; 0x31; 0x89; 0x80;
   0x81; 0xe0; 0x78; 0x1e; 0x30; 0x00; 0x21; 0x48; 0x52; 0x14; 0x05; 0x80;
   0x52; 0x94; 0xa5; 0x28; 0x1e; 0x00; 0xb4; 0x2d; 0x0b; 0x42; 0x82; 0x00;
   0x26; 0x89; 0xa2; 0x68; 0x62; 0x80; 0x58; 0x56; 0x15; 0x86; 0x44; 0x00;
   0x19; 0x86; 0x61; 0x99; 0xe0; 0x00; 0xf7; 0x8d; 0xa2; 0xa0; 0x33; 0x00;
   0x4e; 0x13; 0x84; 0xe1; 0x19; 0x00; 0xe3; 0x38; 0xce; 0x31; 0x89; 0x80;
   0x81; 0xe0; 0x78; 0x1e; 0x30; 0x00; 0x21; 0x48; 0x52; 0x14; 0x05; 0x80;
   0x52; 0x94; 0xa5; 0x28; 0x1e; 0x00; 0xb4; 0x2d; 0x0b; 0x42; 0x82; 0x00;
   0x26; 0x89; 0xa2; 0x68; 0x62; 0x80; 0x58; 0x56; 0x15; 0x86; 0x44; 0x00;
   0x19; 0x86; 0x61; 0x99; 0xe0; 0x00; 0x4c; 0x13; 0x04; 0xc1; 0x91; 0x00;
   0x51; 0x14; 0x45; 0x11; 0x45; 0x00; 0xa0; 0x68; 0x1a; 0x06; 0xa4; 0x00;
   0x04; 0xc1; 0x30; 0x4c; 0x13; 0x00; 0x03; 0x80; 0xe0; 0x3b; 0x40; 0x00;
   0x86; 0x21; 0x88; 0x62; 0x09; 0x00; 0x29; 0x0a; 0x42; 0x90; 0x84; 0x80;
   0x42; 0x50; 0x94; 0x24; 0x30; 0x80; 0x98; 0x26; 0x09; 0x81; 0x28; 0x00;
   0x30; 0x8c; 0x23; 0x08; 0x4a; 0x80; 0xe8; 0x07; 0x18; 0x9a; 0x02; 0x00].

Definition kMaskRandom41_41 : list Z :=
  [0x4c; 0x13; 0x04; 0xc1; 0x91; 0x00; 0x51; 0x14; 0x45; 0x11; 0x45; 0x00;
   0xa0; 0x68; 0x1a; 0x06; 0xa4; 0x00; 0x04; 0xc1; 0x30; 0x4c; 0x13; 0x00;
   0x03; 0x80; 0xe0; 0x3b; 0x40; 0x00; 0x86; 0x21; 0x88; 0x62; 0x09; 0x00;
   0x29; 0x0a; 0x42; 0x90; 0x84; 0x80; 0x42; 0x50; 0x94; 0x24; 0x30; 0x80;
   0x98; 0x26; 0x09; 0x81; 0x28; 0x00; 0x30; 0x8c; 0x23; 0x08; 0x4a; 0x80;
   0x4e; 0x13; 0x84; 0xe1; 0x19; 0x00; 0xe3; 0x38; 0xce; 0x31; 0x89; 0x80;
   0x81; 0xe0; 0x78; 0x1e; 0x30; 0x00; 0x21; 0x48; 0x52; 0x14; 0x05; 0x80;
   0x52; 0x94; 0xa5; 0x28; 0x1e; 0x00; 0xb4; 0x2d; 0x0b; 0x42; 0x82; 0x00;
   0x26; 0x89; 0xa2; 0x68; 0x62; 0x80; 0x58; 0x56; 0x15; 0x86; 0x44; 0x00;
   0x19; 0x86; 0x61; 0x99; 0xe0; 0x00; 0xf7; 0x8d; 0xa2; 0xa0; 0x33; 0x00;
   0x4c; 0x13; 0x04; 0xc1; 0x91; 0x00; 0x51; 0x14; 0x45; 0x11; 0x45; 0x00;
   0xa0; 0x68; 0x1a; 0x06; 0xa4; 0x00; 0x04; 0xc1; 0x30; 0x4c; 0x13; 0x00;
   0x03; 0x80; 0xe0; 0x3b; 0x40; 0x00; 0x86; 0x21; 0x88; 0x62; 0x09; 0x00;
   0x29; 0x0a; 0x42; 0x90; 0x84; 0x80; 0x42; 0x50; 0x94; 0x24; 0x30; 0x80;
   0x98; 0x26; 0x09; 0x81; 0x28; 0x00; 0x30; 0x8c; 0x23; 0x08; 0x4a; 0x80;
   0x4e; 0x13; 0x84; 0xc1; 0x19; 0x00; 0xe3; 0x38; 0xc5; 0x10; 0xcc; 0x80;
   0x81; 0xe0; 0x7a; 0x06; 0x64; 0x00; 0x21; 0x48; 0x50; 0x4c; 0x16; 0x00;
   0x52; 0x94; 0xa0; 0x3a; 0x02; 0x80; 0xb4; 0x2d; 0x08; 0x62; 0x11; 0x00;
   0x26; 0x89; 0xa2; 0x91; 0x01; 0x80; 0x58; 0x56; 0x14; 0x24; 0x2a; 0x00;
   0x19; 0x86; 0x69; 0x81; 0xa0; 0x00; 0xf7; 0x8d; 0xa3; 0x08; 0x40; 0x80;
   0x2b; 0xea; 0x4d; 0xf4; 0xc1; 0x00].
