(* ===== verification/FecRandom3.v ===== *)
(** * The packet masks against random losses, part 3

    Part 3 of the arrays of [modules/rtp_rtcp/source/fec_private_tables_random.h], for 42 to 48
    media packets: two bytes a row up to 16 packets, six bytes above. *)
From S2P Require Import Prelude FecRandom1 FecRandom2.
Local Open Scope Z_scope.

Definition kMaskRandom42_1 : list Z :=
  [0xff; 0xff; 0xff; 0xff; 0xff; 0xc0].

Definition kMaskRandom42_2 : list Z :=
  [0xee; 0x3b; 0x37; 0x71; 0xd9; 0x80; 0x99; 0xe6; 0xec; 0xcf; 0x37; 0x40].

Definition kMaskRandom42_3 : list Z :=
  [0xce; 0x32; 0xb6; 0x71; 0x95; 0x80; 0x55; 0xdc; 0x52; 0xae; 0xe2; 0x80;
   0xa8; 0xed; 0x8d; 0x47; 0x6c; 0x40].

Definition kMaskRandom42_4 : list Z :=
  [0xe6; 0x31; 0x37; 0x31; 0x89; 0x80; 0x33; 0x8c; 0x59; 0x9c; 0x62; 0xc0;
   0x98; 0xd2; 0xcc; 0xc6; 0x96; 0x40; 0x2d; 0x4b; 0x29; 0x6a; 0x59; 0x40].

Definition kMaskRandom42_5 : list Z :=
  [0xce; 0x31; 0xb6; 0x71; 0x8d; 0x80; 0x63; 0x98; 0xdb; 0x1c; 0xc6; 0xc0;
   0x98; 0xc7; 0x6c; 0xc6; 0x3b; 0x40; 0x4d; 0x6b; 0x52; 0x6b; 0x5a; 0x80;
   0xb2; 0x6c; 0xad; 0x93; 0x65; 0x40].

Definition kMaskRandom42_6 : list Z :=
  [0x4c; 0x19; 0x12; 0x60; 0xc8; 0x80; 0x51; 0x14; 0x52; 0x88; 0xa2; 0x80;
   0x20; 0xea; 0x09; 0x07; 0x50; 0x40; 0x85; 0x41; 0x2c; 0x2a; 0x09; 0x40;
   0x06; 0x80; 0xd8; 0x34; 0x06; 0xc0; 0x8a; 0x24; 0x34; 0x51; 0x21; 0x80].

Definition kMaskRandom42_7 : list Z :=
  [0xc6; 0x11; 0x96; 0x30; 0x8c; 0x80; 0x33; 0x04; 0xc9; 0x98; 0x26; 0x40;
   0x18; 0x67; 0x40; 0xc3; 0x3a; 0x00; 0x45; 0x42; 0xd2; 0x2a; 0x16; 0x80;
   0x12; 0xd4; 0x28; 0x96; 0xa1; 0x40; 0xb4; 0x28; 0x35; 0xa1; 0x41; 0x80;
   0x29; 0x92; 0x19; 0x4c; 0x90; 0xc0].

Definition kMaskRandom42_8 : list Z :=
  [0x07; 0x0a; 0x70; 0x38; 0x53; 0x80; 0x49; 0xa8; 0x2a; 0x4d; 0x41; 0x40;
   0xb0; 0x7a; 0x05; 0x83; 0xd0; 0x00; 0x24; 0xc5; 0xc1; 0x26; 0x2e; 0x00;
   0x52; 0x80; 0xea; 0x94; 0x07; 0x40; 0xc6; 0x31; 0x86; 0x31; 0x8c; 0x00;
   0x31; 0x94; 0x19; 0x8c; 0xa0; 0xc0; 0x18; 0xc7; 0x08; 0xc6; 0x38; 0x40].

Definition kMaskRandom42_9 : list Z :=
  [0x4e; 0x11; 0x12; 0x70; 0x88; 0x80; 0x62; 0x1a; 0x0b; 0x10; 0xd0; 0x40;
   0x80; 0xe9; 0x44; 0x07; 0x4a; 0x00; 0xa1; 0x50; 0x55; 0x0a; 0x82; 0x80;
   0x53; 0x00; 0x6a; 0x98; 0x03; 0x40; 0xa4; 0x24; 0x35; 0x21; 0x21; 0x80;
   0x16; 0xa0; 0x88; 0xb5; 0x04; 0x40; 0x58; 0x45; 0x22; 0xc2; 0x29; 0x00;
   0x29; 0x86; 0x81; 0x4c; 0x34; 0x00].

Definition kMaskRandom42_10 : list Z :=
  [0x4c; 0x19; 0x12; 0x60; 0xc8; 0x80; 0x51; 0x14; 0x52; 0x88; 0xa2; 0x80;
   0xa0; 0x6a; 0x45; 0x03; 0x52; 0x00; 0x04; 0xc1; 0x30; 0x26; 0x09; 0x80;
   0x03; 0xb4; 0x00; 0x1d; 0xa0; 0x00; 0x86; 0x20; 0x94; 0x31; 0x04; 0x80;
   0x29; 0x08; 0x49; 0x48; 0x42; 0x40; 0x42; 0x43; 0x0a; 0x12; 0x18; 0x40;
   0x98; 0x12; 0x84; 0xc0; 0x94; 0x00; 0x30; 0x84; 0xa9; 0x84; 0x25; 0x40].

Definition kMaskRandom42_11 : list Z :=
  [0xc6; 0x21; 0xa6; 0x31; 0x0d; 0x00; 0x23; 0x88; 0xc9; 0x1c; 0x46; 0x40;
   0x1a; 0x45; 0x88; 0xd2; 0x2c; 0x40; 0x24; 0xd3; 0x09; 0x26; 0x98; 0x40;
   0x71; 0x10; 0x73; 0x88; 0x83; 0x80; 0x0e; 0x19; 0x10; 0x70; 0xc8; 0x80;
   0x33; 0x14; 0x51; 0x98; 0xa2; 0x80; 0x10; 0xc3; 0x28; 0x86; 0x19; 0x40;
   0x45; 0x68; 0x4a; 0x2b; 0x42; 0x40; 0x88; 0x84; 0xac; 0x44; 0x25; 0x40;
   0xe0; 0x22; 0x97; 0x01; 0x14; 0x80].

Definition kMaskRandom42_12 : list Z :=
  [0x0e; 0x19; 0x10; 0x70; 0xc8; 0x80; 0x33; 0x14; 0x51; 0x98; 0xa2; 0x80;
   0x10; 0xc3; 0x28; 0x86; 0x19; 0x40; 0x45; 0x68; 0x4a; 0x2b; 0x42; 0x40;
   0x88; 0x84; 0xac; 0x44; 0x25; 0x40; 0xe0; 0x22; 0x97; 0x01; 0x14; 0x80;
   0xc6; 0x21; 0xa6; 0x31; 0x0d; 0x00; 0x23; 0x88; 0xc9; 0x1c; 0x46; 0x40;
   0x1a; 0x45; 0x88; 0xd2; 0x2c; 0x40; 0x24; 0xd3; 0x09; 0x26; 0x98; 0x40;
   0x71; 0x10; 0x73; 0x88; 0x83; 0x80; 0xa0; 0x65; 0x1d; 0x03; 0x28; 0xc0].

Definition kMaskRandom42_13 : list Z :=
  [0x0e; 0x19; 0x10; 0x70; 0xc8; 0x80; 0x33; 0x14; 0x51; 0x98; 0xa2; 0x80;
   0x10; 0xc3; 0x28; 0x86; 0x19; 0x40; 0x45; 0x68; 0x4a; 0x2b; 0x42; 0x40;
   0x88; 0x84; 0xac; 0x44; 0x25; 0x40; 0xe0; 0x22; 0x97; 0x01; 0x14; 0x80;
   0x46; 0x11; 0x92; 0x30; 0x8c; 0x80; 0x33; 0x0c; 0xc9; 0x98; 0x66; 0x40;
   0x10; 0xe4; 0x60; 0x87; 0x23; 0x00; 0x0c; 0x69; 0x08; 0x63; 0x48; 0x40;
   0x28; 0x94; 0x29; 0x44; 0xa1; 0x40; 0x94; 0x21; 0x34; 0xa1; 0x09; 0x80;
   0xc1; 0x02; 0x5e; 0x08; 0x12; 0xc0].

Definition kMaskRandom42_14 : list Z :=
  [0x46; 0x11; 0x92; 0x30; 0x8c; 0x80; 0x33; 0x0c; 0xc9; 0x98; 0x66; 0x40;
   0x10; 0xe4; 0x60; 0x87; 0x23; 0x00; 0x0c; 0x69; 0x08; 0x63; 0x48; 0x40;
   0x28; 0x94; 0x29; 0x44; 0xa1; 0x40; 0x94; 0x21; 0x34; 0xa1; 0x09; 0x80;
   0xc1; 0x02; 0x5e; 0x08; 0x12; 0xc0; 0x0e; 0x19; 0x10; 0x70; 0xc8; 0x80;
   0x33; 0x14; 0x51; 0x98; 0xa2; 0x80; 0x10; 0xc3; 0x28; 0x86; 0x19; 0x40;
   0x45; 0x68; 0x4a; 0x2b; 0x42; 0x40; 0x88; 0x84; 0xac; 0x44; 0x25; 0x40;
   0xe0; 0x22; 0x97; 0x01; 0x14; 0x80; 0x4d; 0xd0; 0xc2; 0x6e; 0x86; 0x00].

Definition kMaskRandom42_15 : list Z :=
  [0x46; 0x11; 0x92; 0x30; 0x8c; 0x80; 0x33; 0x0c; 0xc9; 0x98; 0x66; 0x40;
   0x10; 0xe4; 0x60; 0x87; 0x23; 0x00; 0x0c; 0x69; 0x08; 0x63; 0x48; 0x40;
   0x28; 0x94; 0x29; 0x44; 0xa1; 0x40; 0x94; 0x21; 0x34; 0xa1; 0x09; 0x80;
   0xc1; 0x02; 0x5e; 0x08; 0x12; 0xc0; 0x2c; 0x03; 0x21; 0x60; 0x19; 0x00;
   0x81; 0xa0; 0x1c; 0x0d; 0x00; 0xc0; 0xa0; 0x68; 0x25; 0x03; 0x41; 0x00;
   0x05; 0x41; 0x50; 0x2a; 0x0a; 0x80; 0x18; 0x90; 0xc0; 0xc4; 0x86; 0x00;
   0xc2; 0x06; 0x86; 0x10; 0x34; 0x00; 0x22; 0x98; 0x09; 0x14; 0xc0; 0x40;
   0x50; 0x45; 0x0a; 0x82; 0x28; 0x40].

Definition kMaskRandom42_16 : list Z :=
  [0x2c; 0x03; 0x21; 0x60; 0x19; 0x00; 0x81; 0xa0; 0x1c; 0x0d; 0x00; 0xc0;
   0xa0; 0x68; 0x25; 0x03; 0x41; 0x00; 0x05; 0x41; 0x50; 0x2a; 0x0a; 0x80;
   0x18; 0x90; 0xc0; 0xc4; 0x86; 0x00; 0xc2; 0x06; 0x86; 0x10; 0x34; 0x00;
   0x22; 0x98; 0x09; 0x14; 0xc0; 0x40; 0x50; 0x45; 0x0a; 0x82; 0x28; 0x40;
   0x46; 0x11; 0x92; 0x30; 0x8c; 0x80; 0x33; 0x0c; 0xc9; 0x98; 0x66; 0x40;
   0x10; 0xe4; 0x60; 0x87; 0x23; 0x00; 0x0c; 0x69; 0x08; 0x63; 0x48; 0x40;
   0x28; 0x94; 0x29; 0x44; 0xa1; 0x40; 0x94; 0x21; 0x34; 0xa1; 0x09; 0x80;
   0xc1; 0x02; 0x5e; 0x08; 0x12; 0xc0; 0x3b; 0xf5; 0x39; 0xdf; 0xa9; 0xc0].

Definition kMaskRandom42_17 : list Z :=
  [0x2c; 0x03; 0x21; 0x60; 0x19; 0x00; 0x81; 0xa0; 0x1c; 0x0d; 0x00; 0xc0;
   0xa0; 0x68; 0x25; 0x03; 0x41; 0x00; 0x05; 0x41; 0x50; 0x2a; 0x0a; 0x80;
   0x18; 0x90; 0xc0; 0xc4; 0x86; 0x00; 0xc2; 0x06; 0x86; 0x10; 0x34; 0x00;
   0x22; 0x98; 0x09; 0x14; 0xc0; 0x40; 0x50; 0x45; 0x0a; 0x82; 0x28; 0x40;
   0x4e; 0x11; 0x92; 0x70; 0x8c; 0x80; 0xe3; 0x18; 0x9f; 0x18; 0xc4; 0xc0;
   0x81; 0xe3; 0x04; 0x0f; 0x18; 0x00; 0x21; 0x40; 0x59; 0x0a; 0x02; 0xc0;
   0x52; 0x81; 0xe2; 0x94; 0x0f; 0x00; 0xb4; 0x28; 0x25; 0xa1; 0x41; 0x00;
   0x26; 0x86; 0x29; 0x34; 0x31; 0x40; 0x58; 0x64; 0x42; 0xc3; 0x22; 0x00;
   0x19; 0x9e; 0x00; 0xcc; 0xf0; 0x00].

Definition kMaskRandom42_18 : list Z :=
  [0x4e; 0x11; 0x92; 0x70; 0x8c; 0x80; 0xe3; 0x18; 0x9f; 0x18; 0xc4; 0xc0;
   0x81; 0xe3; 0x04; 0x0f; 0x18; 0x00; 0x21; 0x40; 0x59; 0x0a; 0x02; 0xc0;
   0x52; 0x81; 0xe2; 0x94; 0x0f; 0x00; 0xb4; 0x28; 0x25; 0xa1; 0x41; 0x00;
   0x26; 0x86; 0x29; 0x34; 0x31; 0x40; 0x58; 0x64; 0x42; 0xc3; 0x22; 0x00;
   0x19; 0x9e; 0x00; 0xcc; 0xf0; 0x00; 0x2c; 0x03; 0x21; 0x60; 0x19; 0x00;
   0x81; 0xa0; 0x1c; 0x0d; 0x00; 0xc0; 0xa0; 0x68; 0x25; 0x03; 0x41; 0x00;
   0x05; 0x41; 0x50; 0x2a; 0x0a; 0x80; 0x18; 0x90; 0xc0; 0xc4; 0x86; 0x00;
   0xc2; 0x06; 0x86; 0x10; 0x34; 0x00; 0x22; 0x98; 0x09; 0x14; 0xc0; 0x40;
   0x50; 0x45; 0x0a; 0x82; 0x28; 0x40; 0x5a; 0x56; 0x5a; 0xd2; 0xb2; 0xc0].

Definition kMaskRandom42_19 : list Z :=
  [0x4e; 0x11; 0x92; 0x70; 0x8c; 0x80; 0xe3; 0x18; 0x9f; 0x18; 0xc4; 0xc0;
   0x81; 0xe3; 0x04; 0x0f; 0x18; 0x00; 0x21; 0x40; 0x59; 0x0a; 0x02; 0xc0;
   0x52; 0x81; 0xe2; 0x94; 0x0f; 0x00; 0xb4; 0x28; 0x25; 0xa1; 0x41; 0x00;
   0x26; 0x86; 0x29; 0x34; 0x31; 0x40; 0x58; 0x64; 0x42; 0xc3; 0x22; 0x00;
   0x19; 0x9e; 0x00; 0xcc; 0xf0; 0x00; 0x4c; 0x19; 0x12; 0x60; 0xc8; 0x80;
   0x51; 0x14; 0x52; 0x88; 0xa2; 0x80; 0xa0; 0x6a; 0x45; 0x03; 0x52; 0x00;
   0x04; 0xc1; 0x30; 0x26; 0x09; 0x80; 0x03; 0xb4; 0x00; 0x1d; 0xa0; 0x00;
   0x86; 0x20; 0x94; 0x31; 0x04; 0x80; 0x29; 0x08; 0x49; 0x48; 0x42; 0x40;
   0x42; 0x43; 0x0a; 0x12; 0x18; 0x40; 0x98; 0x12; 0x84; 0xc0; 0x94; 0x00;
   0x30; 0x84; 0xa9; 0x84; 0x25; 0x40].

Definition kMaskRandom42_20 : list Z :=
  [0x4c; 0x19; 0x12; 0x60; 0xc8; 0x80; 0x51; 0x14; 0x52; 0x88; 0xa2; 0x80;
   0xa0; 0x6a; 0x45; 0x03; 0x52; 0x00; 0x04; 0xc1; 0x30; 0x26; 0x09; 0x80;
   0x03; 0xb4; 0x00; 0x1d; 0xa0; 0x00; 0x86; 0x20; 0x94; 0x31; 0x04; 0x80;
   0x29; 0x08; 0x49; 0x48; 0x42; 0x40; 0x42; 0x43; 0x0a; 0x12; 0x18; 0x40;
   0x98; 0x12; 0x84; 0xc0; 0x94; 0x00; 0x30; 0x84; 0xa9; 0x84; 0x25; 0x40;
   0x4e; 0x11; 0x92; 0x70; 0x8c; 0x80; 0xe3; 0x18; 0x9f; 0x18; 0xc4; 0xc0;
   0x81; 0xe3; 0x04; 0x0f; 0x18; 0x00; 0x21; 0x40; 0x59; 0x0a; 0x02; 0xc0;
   0x52; 0x81; 0xe2; 0x94; 0x0f; 0x00; 0xb4; 0x28; 0x25; 0xa1; 0x41; 0x00;
   0x26; 0x86; 0x29; 0x34; 0x31; 0x40; 0x58; 0x64; 0x42; 0xc3; 0x22; 0x00;
   0x19; 0x9e; 0x00; 0xcc; 0xf0; 0x00; 0x2a; 0x03; 0x31; 0x50; 0x19; 0x80].

Definition kMaskRandom42_21 : list Z :=
  [0x4c; 0x19; 0x12; 0x60; 0xc8; 0x80; 0x51; 0x14; 0x52; 0x88; 0xa2; 0x80;
   0xa0; 0x6a; 0x45; 0x03; 0x52; 0x00; 0x04; 0xc1; 0x30; 0x26; 0x09; 0x80;
   0x03; 0xb4; 0x00; 0x1d; 0xa0; 0x00; 0x86; 0x20; 0x94; 0x31; 0x04; 0x80;
   0x29; 0x08; 0x49; 0x48; 0x42; 0x40; 0x42; 0x43; 0x0a; 0x12; 0x18; 0x40;
   0x98; 0x12; 0x84; 0xc0; 0x94; 0x00; 0x30; 0x84; 0xa9; 0x84; 0x25; 0x40;
   0x4c; 0x11; 0x92; 0x60; 0x8c; 0x80; 0x51; 0x0c; 0xca; 0x88; 0x66; 0x40;
   0xa0; 0x66; 0x45; 0x03; 0x32; 0x00; 0x04; 0xc1; 0x60; 0x26; 0x0b; 0x00;
   0x03; 0xa0; 0x28; 0x1d; 0x01; 0x40; 0x86; 0x21; 0x14; 0x31; 0x08; 0x80;
   0x29; 0x10; 0x19; 0x48; 0x80; 0xc0; 0x42; 0x42; 0xa2; 0x12; 0x15; 0x00;
   0x98; 0x1a; 0x04; 0xc0; 0xd0; 0x00; 0x30; 0x84; 0x09; 0x84; 0x20; 0x40;
   0xdf; 0x4c; 0x16; 0xfa; 0x60; 0x80].

Definition kMaskRandom42_22 : list Z :=
  [0xc6; 0x21; 0xa6; 0x31; 0x0d; 0x00; 0x23; 0x88; 0xc9; 0x1c; 0x46; 0x40;
   0x1a; 0x45; 0x88; 0xd2; 0x2c; 0x40; 0x24; 0xd3; 0x09; 0x26; 0x98; 0x40;
   0x71; 0x10; 0x73; 0x88; 0x83; 0x80; 0x0e; 0x19; 0x10; 0x70; 0xc8; 0x80;
   0x33; 0x14; 0x51; 0x98; 0xa2; 0x80; 0x10; 0xc3; 0x28; 0x86; 0x19; 0x40;
   0x45; 0x68; 0x4a; 0x2b; 0x42; 0x40; 0x88; 0x84; 0xac; 0x44; 0x25; 0x40;
   0xe0; 0x22; 0x97; 0x01; 0x14; 0x80; 0x4c; 0x19; 0x12; 0x60; 0xc8; 0x80;
   0x51; 0x14; 0x52; 0x88; 0xa2; 0x80; 0xa0; 0x6a; 0x45; 0x03; 0x52; 0x00;
   0x04; 0xc1; 0x30; 0x26; 0x09; 0x80; 0x03; 0xb4; 0x00; 0x1d; 0xa0; 0x00;
   0x86; 0x20; 0x94; 0x31; 0x04; 0x80; 0x29; 0x08; 0x49; 0x48; 0x42; 0x40;
   0x42; 0x43; 0x0a; 0x12; 0x18; 0x40; 0x98; 0x12; 0x84; 0xc0; 0x94; 0x00;
   0x30; 0x84; 0xa9; 0x84; 0x25; 0x40; 0xdb; 0x36; 0xb0; 0x33; 0x14; 0x80].

Definition kMaskRandom42_23 : list Z :=
  [0xc6; 0x21; 0xa6; 0x31; 0x0d; 0x00; 0x23; 0x88; 0xc9; 0x1c; 0x46; 0x40;
   0x1a; 0x45; 0x88; 0xd2; 0x2c; 0x40; 0x24; 0xd3; 0x09; 0x26; 0x98; 0x40;
   0x71; 0x10; 0x73; 0x88; 0x83; 0x80; 0x0e; 0x19; 0x10; 0x70; 0xc8; 0x80;
   0x33; 0x14; 0x51; 0x98; 0xa2; 0x80; 0x10; 0xc3; 0x28; 0x86; 0x19; 0x40;
   0x45; 0x68; 0x4a; 0x2b; 0x42; 0x40; 0x88; 0x84; 0xac; 0x44; 0x25; 0x40;
   0xe0; 0x22; 0x97; 0x01; 0x14; 0x80; 0x0e; 0x19; 0x10; 0x70; 0xc8; 0x80;
   0x33; 0x14; 0x51; 0x98; 0xa2; 0x80; 0x10; 0xc3; 0x28; 0x86; 0x19; 0x40;
   0x45; 0x68; 0x4a; 0x2b; 0x42; 0x40; 0x88; 0x84; 0xac; 0x44; 0x25; 0x40;
   0xe0; 0x22; 0x97; 0x01; 0x14; 0x80; 0xc6; 0x21; 0xa6; 0x31; 0x0d; 0x00;
   0x23; 0x88; 0xc9; 0x1c; 0x46; 0x40; 0x1a; 0x45; 0x88; 0xd2; 0x2c; 0x40;
   0x24; 0xd3; 0x09; 0x26; 0x98; 0x40; 0x71; 0x10; 0x73; 0x88; 0x83; 0x80;
   0xa0; 0x65; 0x1d; 0x03; 0x28; 0xc0].

Definition kMaskRandom42_24 : list Z :=
  [0x0e; 0x19; 0x10; 0x70; 0xc8; 0x80; 0x33; 0x14; 0x51; 0x98; 0xa2; 0x80;
   0x10; 0xc3; 0x28; 0x86; 0x19; 0x40; 0x45; 0x68; 0x4a; 0x2b; 0x42; 0x40;
   0x88; 0x84; 0xac; 0x44; 0x25; 0x40; 0xe0; 0x22; 0x97; 0x01; 0x14; 0x80;
   0xc6; 0x21; 0xa6; 0x31; 0x0d; 0x00; 0x23; 0x88; 0xc9; 0x1c; 0x46; 0x40;
   0x1a; 0x45; 0x88; 0xd2; 0x2c; 0x40; 0x24; 0xd3; 0x09; 0x26; 0x98; 0x40;
   0x71; 0x10; 0x73; 0x88; 0x83; 0x80; 0xa0; 0x65; 0x1d; 0x03; 0x28; 0xc0;
   0xc6; 0x21; 0xa6; 0x31; 0x0d; 0x00; 0x23; 0x88; 0xc9; 0x1c; 0x46; 0x40;
   0x1a; 0x45; 0x88; 0xd2; 0x2c; 0x40; 0x24; 0xd3; 0x09; 0x26; 0x98; 0x40;
   0x71; 0x10; 0x73; 0x88; 0x83; 0x80; 0x0e; 0x19; 0x10; 0x70; 0xc8; 0x80;
   0x33; 0x14; 0x51; 0x98; 0xa2; 0x80; 0x10; 0xc3; 0x28; 0x86; 0x19; 0x40;
   0x45; 0x68; 0x4a; 0x2b; 0x42; 0x40; 0x88; 0x84; 0xac; 0x44; 0x25; 0x40;
   0xe0; 0x22; 0x97; 0x01; 0x14; 0x80; 0x2e; 0x1c; 0x92; 0xbb; 0x07; 0xc0].

Definition kMaskRandom42_25 : list Z :=
  [0x0e; 0x19; 0x10; 0x70; 0xc8; 0x80; 0x33; 0x14; 0x51; 0x98; 0xa2; 0x80;
   0x10; 0xc3; 0x28; 0x86; 0x19; 0x40; 0x45; 0x68; 0x4a; 0x2b; 0x42; 0x40;
   0x88; 0x84; 0xac; 0x44; 0x25; 0x40; 0xe0; 0x22; 0x97; 0x01; 0x14; 0x80;
   0xc6; 0x21; 0xa6; 0x31; 0x0d; 0x00; 0x23; 0x88; 0xc9; 0x1c; 0x46; 0x40;
   0x1a; 0x45; 0x88; 0xd2; 0x2c; 0x40; 0x24; 0xd3; 0x09; 0x26; 0x98; 0x40;
   0x71; 0x10; 0x73; 0x88; 0x83; 0x80; 0xa0; 0x65; 0x1d; 0x03; 0x28; 0xc0;
   0x0e; 0x19; 0x10; 0x70; 0xc8; 0x80; 0x33; 0x14; 0x51; 0x98; 0xa2; 0x80;
   0x10; 0xc3; 0x28; 0x86; 0x19; 0x40; 0x45; 0x68; 0x4a; 0x2b; 0x42; 0x40;
   0x88; 0x84; 0xac; 0x44; 0x25; 0x40; 0xe0; 0x22; 0x97; 0x01; 0x14; 0x80;
   0x46; 0x11; 0x92; 0x30; 0x8c; 0x80; 0x33; 0x0c; 0xc9; 0x98; 0x66; 0x40;
   0x10; 0xe4; 0x60; 0x87; 0x23; 0x00; 0x0c; 0x69; 0x08; 0x63; 0x48; 0x40;
   0x28; 0x94; 0x29; 0x44; 0xa1; 0x40; 0x94; 0x21; 0x34; 0xa1; 0x09; 0x80;
   0xc1; 0x02; 0x5e; 0x08; 0x12; 0xc0].

Definition kMaskRandom42_26 : list Z :=
  [0x0e; 0x19; 0x10; 0x70; 0xc8; 0x80; 0x33; 0x14; 0x51; 0x98; 0xa2; 0x80;
   0x10; 0xc3; 0x28; 0x86; 0x19; 0x40; 0x45; 0x68; 0x4a; 0x2b; 0x42; 0x40;
   0x88; 0x84; 0xac; 0x44; 0x25; 0x40; 0xe0; 0x22; 0x97; 0x01; 0x14; 0x80;
   0x46; 0x11; 0x92; 0x30; 0x8c; 0x80; 0x33; 0x0c; 0xc9; 0x98; 0x66; 0x40;
   0x10; 0xe4; 0x60; 0x87; 0x23; 0x00; 0x0c; 0x69; 0x08; 0x63; 0x48; 0x40;
   0x28; 0x94; 0x29; 0x44; 0xa1; 0x40; 0x94; 0x21; 0x34; 0xa1; 0x09; 0x80;
   0xc1; 0x02; 0x5e; 0x08; 0x12; 0xc0; 0x0e; 0x19; 0x10; 0x70; 0xc8; 0x80;
   0x33; 0x14; 0x51; 0x98; 0xa2; 0x80; 0x10; 0xc3; 0x28; 0x86; 0x19; 0x40;
   0x45; 0x68; 0x4a; 0x2b; 0x42; 0x40; 0x88; 0x84; 0xac; 0x44; 0x25; 0x40;
   0xe0; 0x22; 0x97; 0x01; 0x14; 0x80; 0xc6; 0x21; 0xa6; 0x31; 0x0d; 0x00;
   0x23; 0x88; 0xc9; 0x1c; 0x46; 0x40; 0x1a; 0x45; 0x88; 0xd2; 0x2c; 0x40;
   0x24; 0xd3; 0x09; 0x26; 0x98; 0x40; 0x71; 0x10; 0x73; 0x88; 0x83; 0x80;
   0xa0; 0x65; 0x1d; 0x03; 0x28; 0xc0; 0xb8; 0x41; 0xed; 0xa3; 0x77; 0xc0].

Definition kMaskRandom42_27 : list Z :=
  [0x0e; 0x19; 0x10; 0x70; 0xc8; 0x80; 0x33; 0x14; 0x51; 0x98; 0xa2; 0x80;
   0x10; 0xc3; 0x28; 0x86; 0x19; 0x40; 0x45; 0x68; 0x4a; 0x2b; 0x42; 0x40;
   0x88; 0x84; 0xac; 0x44; 0x25; 0x40; 0xe0; 0x22; 0x97; 0x01; 0x14; 0x80;
   0x46; 0x11; 0x92; 0x30; 0x8c; 0x80; 0x33; 0x0c; 0xc9; 0x98; 0x66; 0x40;
   0x10; 0xe4; 0x60; 0x87; 0x23; 0x00; 0x0c; 0x69; 0x08; 0x63; 0x48; 0x40;
   0x28; 0x94; 0x29; 0x44; 0xa1; 0x40; 0x94; 0x21; 0x34; 0xa1; 0x09; 0x80;
   0xc1; 0x02; 0x5e; 0x08; 0x12; 0xc0; 0x46; 0x11; 0x92; 0x30; 0x8c; 0x80;
   0x33; 0x0c; 0xc9; 0x98; 0x66; 0x40; 0x10; 0xe4; 0x60; 0x87; 0x23; 0x00;
   0x0c; 0x69; 0x08; 0x63; 0x48; 0x40; 0x28; 0x94; 0x29; 0x44; 0xa1; 0x40;
   0x94; 0x21; 0x34; 0xa1; 0x09; 0x80; 0xc1; 0x02; 0x5e; 0x08; 0x12; 0xc0;
   0x0e; 0x19; 0x10; 0x70; 0xc8; 0x80; 0x33; 0x14; 0x51; 0x98; 0xa2; 0x80;
   0x10; 0xc3; 0x28; 0x86; 0x19; 0x40; 0x45; 0x68; 0x4a; 0x2b; 0x42; 0x40;
   0x88; 0x84; 0xac; 0x44; 0x25; 0x40; 0xe0; 0x22; 0x97; 0x01; 0x14; 0x80;
   0x4d; 0xd0; 0xc2; 0x6e; 0x86; 0x00].

Definition kMaskRandom42_28 : list Z :=
  [0x46; 0x11; 0x92; 0x30; 0x8c; 0x80; 0x33; 0x0c; 0xc9; 0x98; 0x66; 0x40;
   0x10; 0xe4; 0x60; 0x87; 0x23; 0x00; 0x0c; 0x69; 0x08; 0x63; 0x48; 0x40;
   0x28; 0x94; 0x29; 0x44; 0xa1; 0x40; 0x94; 0x21; 0x34; 0xa1; 0x09; 0x80;
   0xc1; 0x02; 0x5e; 0x08; 0x12; 0xc0; 0x0e; 0x19; 0x10; 0x70; 0xc8; 0x80;
   0x33; 0x14; 0x51; 0x98; 0xa2; 0x80; 0x10; 0xc3; 0x28; 0x86; 0x19; 0x40;
   0x45; 0x68; 0x4a; 0x2b; 0x42; 0x40; 0x88; 0x84; 0xac; 0x44; 0x25; 0x40;
   0xe0; 0x22; 0x97; 0x01; 0x14; 0x80; 0x4d; 0xd0; 0xc2; 0x6e; 0x86; 0x00;
   0x0e; 0x19; 0x10; 0x70; 0xc8; 0x80; 0x33; 0x14; 0x51; 0x98; 0xa2; 0x80;
   0x10; 0xc3; 0x28; 0x86; 0x19; 0x40; 0x45; 0x68; 0x4a; 0x2b; 0x42; 0x40;
   0x88; 0x84; 0xac; 0x44; 0x25; 0x40; 0xe0; 0x22; 0x97; 0x01; 0x14; 0x80;
   0x46; 0x11; 0x92; 0x30; 0x8c; 0x80; 0x33; 0x0c; 0xc9; 0x98; 0x66; 0x40;
   0x10; 0xe4; 0x60; 0x87; 0x23; 0x00; 0x0c; 0x69; 0x08; 0x63; 0x48; 0x40;
   0x28; 0x94; 0x29; 0x44; 0xa1; 0x40; 0x94; 0x21; 0x34; 0xa1; 0x09; 0x80;
   0xc1; 0x02; 0x5e; 0x08; 0x12; 0xc0; 0xc3; 0x3c; 0x56; 0xc2; 0x30; 0x40].

Definition kMaskRandom42_29 : list Z :=
  [0x46; 0x11; 0x92; 0x30; 0x8c; 0x80; 0x33; 0x0c; 0xc9; 0x98; 0x66; 0x40;
   0x10; 0xe4; 0x60; 0x87; 0x23; 0x00; 0x0c; 0x69; 0x08; 0x63; 0x48; 0x40;
   0x28; 0x94; 0x29; 0x44; 0xa1; 0x40; 0x94; 0x21; 0x34; 0xa1; 0x09; 0x80;
   0xc1; 0x02; 0x5e; 0x08; 0x12; 0xc0; 0x0e; 0x19; 0x10; 0x70; 0xc8; 0x80;
   0x33; 0x14; 0x51; 0x98; 0xa2; 0x80; 0x10; 0xc3; 0x28; 0x86; 0x19; 0x40;
   0x45; 0x68; 0x4a; 0x2b; 0x42; 0x40; 0x88; 0x84; 0xac; 0x44; 0x25; 0x40;
   0xe0; 0x22; 0x97; 0x01; 0x14; 0x80; 0x4d; 0xd0; 0xc2; 0x6e; 0x86; 0x00;
   0x46; 0x11; 0x92; 0x30; 0x8c; 0x80; 0x33; 0x0c; 0xc9; 0x98; 0x66; 0x40;
   0x10; 0xe4; 0x60; 0x87; 0x23; 0x00; 0x0c; 0x69; 0x08; 0x63; 0x48; 0x40;
   0x28; 0x94; 0x29; 0x44; 0xa1; 0x40; 0x94; 0x21; 0x34; 0xa1; 0x09; 0x80;
   0xc1; 0x02; 0x5e; 0x08; 0x12; 0xc0; 0x2c; 0x03; 0x21; 0x60; 0x19; 0x00;
   0x81; 0xa0; 0x1c; 0x0d; 0x00; 0xc0; 0xa0; 0x68; 0x25; 0x03; 0x41; 0x00;
   0x05; 0x41; 0x50; 0x2a; 0x0a; 0x80; 0x18; 0x90; 0xc0; 0xc4; 0x86; 0x00;
   0xc2; 0x06; 0x86; 0x10; 0x34; 0x00; 0x22; 0x98; 0x09; 0x14; 0xc0; 0x40;
   0x50; 0x45; 0x0a; 0x82; 0x28; 0x40].

Definition kMaskRandom42_30 : list Z :=
  [0x46; 0x11; 0x92; 0x30; 0x8c; 0x80; 0x33; 0x0c; 0xc9; 0x98; 0x66; 0x40;
   0x10; 0xe4; 0x60; 0x87; 0x23; 0x00; 0x0c; 0x69; 0x08; 0x63; 0x48; 0x40;
   0x28; 0x94; 0x29; 0x44; 0xa1; 0x40; 0x94; 0x21; 0x34; 0xa1; 0x09; 0x80;
   0xc1; 0x02; 0x5e; 0x08; 0x12; 0xc0; 0x2c; 0x03; 0x21; 0x60; 0x19; 0x00;
   0x81; 0xa0; 0x1c; 0x0d; 0x00; 0xc0; 0xa0; 0x68; 0x25; 0x03; 0x41; 0x00;
   0x05; 0x41; 0x50; 0x2a; 0x0a; 0x80; 0x18; 0x90; 0xc0; 0xc4; 0x86; 0x00;
   0xc2; 0x06; 0x86; 0x10; 0x34; 0x00; 0x22; 0x98; 0x09; 0x14; 0xc0; 0x40;
   0x50; 0x45; 0x0a; 0x82; 0x28; 0x40; 0x46; 0x11; 0x92; 0x30; 0x8c; 0x80;
   0x33; 0x0c; 0xc9; 0x98; 0x66; 0x40; 0x10; 0xe4; 0x60; 0x87; 0x23; 0x00;
   0x0c; 0x69; 0x08; 0x63; 0x48; 0x40; 0x28; 0x94; 0x29; 0x44; 0xa1; 0x40;
   0x94; 0x21; 0x34; 0xa1; 0x09; 0x80; 0xc1; 0x02; 0x5e; 0x08; 0x12; 0xc0;
   0x0e; 0x19; 0x10; 0x70; 0xc8; 0x80; 0x33; 0x14; 0x51; 0x98; 0xa2; 0x80;
   0x10; 0xc3; 0x28; 0x86; 0x19; 0x40; 0x45; 0x68; 0x4a; 0x2b; 0x42; 0x40;
   0x88; 0x84; 0xac; 0x44; 0x25; 0x40; 0xe0; 0x22; 0x97; 0x01; 0x14; 0x80;
   0x4d; 0xd0; 0xc2; 0x6e; 0x86; 0x00; 0xf5; 0xdd; 0x0d; 0x58; 0xeb; 0x00].

Definition kMaskRandom42_31 : list Z :=
  [0x46; 0x11; 0x92; 0x30; 0x8c; 0x80; 0x33; 0x0c; 0xc9; 0x98; 0x66; 0x40;
   0x10; 0xe4; 0x60; 0x87; 0x23; 0x00; 0x0c; 0x69; 0x08; 0x63; 0x48; 0x40;
   0x28; 0x94; 0x29; 0x44; 0xa1; 0x40; 0x94; 0x21; 0x34; 0xa1; 0x09; 0x80;
   0xc1; 0x02; 0x5e; 0x08; 0x12; 0xc0; 0x2c; 0x03; 0x21; 0x60; 0x19; 0x00;
   0x81; 0xa0; 0x1c; 0x0d; 0x00; 0xc0; 0xa0; 0x68; 0x25; 0x03; 0x41; 0x00;
   0x05; 0x41; 0x50; 0x2a; 0x0a; 0x80; 0x18; 0x90; 0xc0; 0xc4; 0x86; 0x00;
   0xc2; 0x06; 0x86; 0x10; 0x34; 0x00; 0x22; 0x98; 0x09; 0x14; 0xc0; 0x40;
   0x50; 0x45; 0x0a; 0x82; 0x28; 0x40; 0x2c; 0x03; 0x21; 0x60; 0x19; 0x00;
   0x81; 0xa0; 0x1c; 0x0d; 0x00; 0xc0; 0xa0; 0x68; 0x25; 0x03; 0x41; 0x00;
   0x05; 0x41; 0x50; 0x2a; 0x0a; 0x80; 0x18; 0x90; 0xc0; 0xc4; 0x86; 0x00;
   0xc2; 0x06; 0x86; 0x10; 0x34; 0x00; 0x22; 0x98; 0x09; 0x14; 0xc0; 0x40;
   0x50; 0x45; 0x0a; 0x82; 0x28; 0x40; 0x46; 0x11; 0x92; 0x30; 0x8c; 0x80;
   0x33; 0x0c; 0xc9; 0x98; 0x66; 0x40; 0x10; 0xe4; 0x60; 0x87; 0x23; 0x00;
   0x0c; 0x69; 0x08; 0x63; 0x48; 0x40; 0x28; 0x94; 0x29; 0x44; 0xa1; 0x40;
   0x94; 0x21; 0x34; 0xa1; 0x09; 0x80; 0xc1; 0x02; 0x5e; 0x08; 0x12; 0xc0;
   0x3b; 0xf5; 0x39; 0xdf; 0xa9; 0xc0].

Definition kMaskRandom42_32 : list Z :=
  [0x2c; 0x03; 0x21; 0x60; 0x19; 0x00; 0x81; 0xa0; 0x1c; 0x0d; 0x00; 0xc0;
   0xa0; 0x68; 0x25; 0x03; 0x41; 0x00; 0x05; 0x41; 0x50; 0x2a; 0x0a; 0x80;
   0x18; 0x90; 0xc0; 0xc4; 0x86; 0x00; 0xc2; 0x06; 0x86; 0x10; 0x34; 0x00;
   0x22; 0x98; 0x09; 0x14; 0xc0; 0x40; 0x50; 0x45; 0x0a; 0x82; 0x28; 0x40;
   0x46; 0x11; 0x92; 0x30; 0x8c; 0x80; 0x33; 0x0c; 0xc9; 0x98; 0x66; 0x40;
   0x10; 0xe4; 0x60; 0x87; 0x23; 0x00; 0x0c; 0x69; 0x08; 0x63; 0x48; 0x40;
   0x28; 0x94; 0x29; 0x44; 0xa1; 0x40; 0x94; 0x21; 0x34; 0xa1; 0x09; 0x80;
   0xc1; 0x02; 0x5e; 0x08; 0x12; 0xc0; 0x3b; 0xf5; 0x39; 0xdf; 0xa9; 0xc0;
   0x46; 0x11; 0x92; 0x30; 0x8c; 0x80; 0x33; 0x0c; 0xc9; 0x98; 0x66; 0x40;
   0x10; 0xe4; 0x60; 0x87; 0x23; 0x00; 0x0c; 0x69; 0x08; 0x63; 0x48; 0x40;
   0x28; 0x94; 0x29; 0x44; 0xa1; 0x40; 0x94; 0x21; 0x34; 0xa1; 0x09; 0x80;
   0xc1; 0x02; 0x5e; 0x08; 0x12; 0xc0; 0x2c; 0x03; 0x21; 0x60; 0x19; 0x00;
   0x81; 0xa0; 0x1c; 0x0d; 0x00; 0xc0; 0xa0; 0x68; 0x25; 0x03; 0x41; 0x00;
   0x05; 0x41; 0x50; 0x2a; 0x0a; 0x80; 0x18; 0x90; 0xc0; 0xc4; 0x86; 0x00;
   0xc2; 0x06; 0x86; 0x10; 0x34; 0x00; 0x22; 0x98; 0x09; 0x14; 0xc0; 0x40;
   0x50; 0x45; 0x0a; 0x82; 0x28; 0x40; 0xf9; 0x1f; 0xb6; 0xe1; 0x09; 0xc0].

Definition kMaskRandom42_33 : list Z :=
  [0x2c; 0x03; 0x21; 0x60; 0x19; 0x00; 0x81; 0xa0; 0x1c; 0x0d; 0x00; 0xc0;
   0xa0; 0x68; 0x25; 0x03; 0x41; 0x00; 0x05; 0x41; 0x50; 0x2a; 0x0a; 0x80;
   0x18; 0x90; 0xc0; 0xc4; 0x86; 0x00; 0xc2; 0x06; 0x86; 0x10; 0x34; 0x00;
   0x22; 0x98; 0x09; 0x14; 0xc0; 0x40; 0x50; 0x45; 0x0a; 0x82; 0x28; 0x40;
   0x46; 0x11; 0x92; 0x30; 0x8c; 0x80; 0x33; 0x0c; 0xc9; 0x98; 0x66; 0x40;
   0x10; 0xe4; 0x60; 0x87; 0x23; 0x00; 0x0c; 0x69; 0x08; 0x63; 0x48; 0x40;
   0x28; 0x94; 0x29; 0x44; 0xa1; 0x40; 0x94; 0x21; 0x34; 0xa1; 0x09; 0x80;
   0xc1; 0x02; 0x5e; 0x08; 0x12; 0xc0; 0x3b; 0xf5; 0x39; 0xdf; 0xa9; 0xc0;
   0x2c; 0x03; 0x21; 0x60; 0x19; 0x00; 0x81; 0xa0; 0x1c; 0x0d; 0x00; 0xc0;
   0xa0; 0x68; 0x25; 0x03; 0x41; 0x00; 0x05; 0x41; 0x50; 0x2a; 0x0a; 0x80;
   0x18; 0x90; 0xc0; 0xc4; 0x86; 0x00; 0xc2; 0x06; 0x86; 0x10; 0x34; 0x00;
   0x22; 0x98; 0x09; 0x14; 0xc0; 0x40; 0x50; 0x45; 0x0a; 0x82; 0x28; 0x40;
   0x4e; 0x11; 0x92; 0x70; 0x8c; 0x80; 0xe3; 0x18; 0x9f; 0x18; 0xc4; 0xc0;
   0x81; 0xe3; 0x04; 0x0f; 0x18; 0x00; 0x21; 0x40; 0x59; 0x0a; 0x02; 0xc0;
   0x52; 0x81; 0xe2; 0x94; 0x0f; 0x00; 0xb4; 0x28; 0x25; 0xa1; 0x41; 0x00;
   0x26; 0x86; 0x29; 0x34; 0x31; 0x40; 0x58; 0x64; 0x42; 0xc3; 0x22; 0x00;
   0x19; 0x9e; 0x00; 0xcc; 0xf0; 0x00].

Definition kMaskRandom42_34 : list Z :=
  [0x2c; 0x03; 0x21; 0x60; 0x19; 0x00; 0x81; 0xa0; 0x1c; 0x0d; 0x00; 0xc0;
   0xa0; 0x68; 0x25; 0x03; 0x41; 0x00; 0x05; 0x41; 0x50; 0x2a; 0x0a; 0x80;
   0x18; 0x90; 0xc0; 0xc4; 0x86; 0x00; 0xc2; 0x06; 0x86; 0x10; 0x34; 0x00;
   0x22; 0x98; 0x09; 0x14; 0xc0; 0x40; 0x50; 0x45; 0x0a; 0x82; 0x28; 0x40;
   0x4e; 0x11; 0x92; 0x70; 0x8c; 0x80; 0xe3; 0x18; 0x9f; 0x18; 0xc4; 0xc0;
   0x81; 0xe3; 0x04; 0x0f; 0x18; 0x00; 0x21; 0x40; 0x59; 0x0a; 0x02; 0xc0;
   0x52; 0x81; 0xe2; 0x94; 0x0f; 0x00; 0xb4; 0x28; 0x25; 0xa1; 0x41; 0x00;
   0x26; 0x86; 0x29; 0x34; 0x31; 0x40; 0x58; 0x64; 0x42; 0xc3; 0x22; 0x00;
   0x19; 0x9e; 0x00; 0xcc; 0xf0; 0x00; 0x2c; 0x03; 0x21; 0x60; 0x19; 0x00;
   0x81; 0xa0; 0x1c; 0x0d; 0x00; 0xc0; 0xa0; 0x68; 0x25; 0x03; 0x41; 0x00;
   0x05; 0x41; 0x50; 0x2a; 0x0a; 0x80; 0x18; 0x90; 0xc0; 0xc4; 0x86; 0x00;
   0xc2; 0x06; 0x86; 0x10; 0x34; 0x00; 0x22; 0x98; 0x09; 0x14; 0xc0; 0x40;
   0x50; 0x45; 0x0a; 0x82; 0x28; 0x40; 0x46; 0x11; 0x92; 0x30; 0x8c; 0x80;
   0x33; 0x0c; 0xc9; 0x98; 0x66; 0x40; 0x10; 0xe4; 0x60; 0x87; 0x23; 0x00;
   0x0c; 0x69; 0x08; 0x63; 0x48; 0x40; 0x28; 0x94; 0x29; 0x44; 0xa1; 0x40;
   0x94; 0x21; 0x34; 0xa1; 0x09; 0x80; 0xc1; 0x02; 0x5e; 0x08; 0x12; 0xc0;
   0x3b; 0xf5; 0x39; 0xdf; 0xa9; 0xc0; 0xf8; 0xbf; 0xf6; 0x76; 0x1b; 0x80].

Definition kMaskRandom42_35 : list Z :=
  [0x2c; 0x03; 0x21; 0x60; 0x19; 0x00; 0x81; 0xa0; 0x1c; 0x0d; 0x00; 0xc0;
   0xa0; 0x68; 0x25; 0x03; 0x41; 0x00; 0x05; 0x41; 0x50; 0x2a; 0x0a; 0x80;
   0x18; 0x90; 0xc0; 0xc4; 0x86; 0x00; 0xc2; 0x06; 0x86; 0x10; 0x34; 0x00;
   0x22; 0x98; 0x09; 0x14; 0xc0; 0x40; 0x50; 0x45; 0x0a; 0x82; 0x28; 0x40;
   0x4e; 0x11; 0x92; 0x70; 0x8c; 0x80; 0xe3; 0x18; 0x9f; 0x18; 0xc4; 0xc0;
   0x81; 0xe3; 0x04; 0x0f; 0x18; 0x00; 0x21; 0x40; 0x59; 0x0a; 0x02; 0xc0;
   0x52; 0x81; 0xe2; 0x94; 0x0f; 0x00; 0xb4; 0x28; 0x25; 0xa1; 0x41; 0x00;
   0x26; 0x86; 0x29; 0x34; 0x31; 0x40; 0x58; 0x64; 0x42; 0xc3; 0x22; 0x00;
   0x19; 0x9e; 0x00; 0xcc; 0xf0; 0x00; 0x4e; 0x11; 0x92; 0x70; 0x8c; 0x80;
   0xe3; 0x18; 0x9f; 0x18; 0xc4; 0xc0; 0x81; 0xe3; 0x04; 0x0f; 0x18; 0x00;
   0x21; 0x40; 0x59; 0x0a; 0x02; 0xc0; 0x52; 0x81; 0xe2; 0x94; 0x0f; 0x00;
   0xb4; 0x28; 0x25; 0xa1; 0x41; 0x00; 0x26; 0x86; 0x29; 0x34; 0x31; 0x40;
   0x58; 0x64; 0x42; 0xc3; 0x22; 0x00; 0x19; 0x9e; 0x00; 0xcc; 0xf0; 0x00;
   0x2c; 0x03; 0x21; 0x60; 0x19; 0x00; 0x81; 0xa0; 0x1c; 0x0d; 0x00; 0xc0;
   0xa0; 0x68; 0x25; 0x03; 0x41; 0x00; 0x05; 0x41; 0x50; 0x2a; 0x0a; 0x80;
   0x18; 0x90; 0xc0; 0xc4; 0x86; 0x00; 0xc2; 0x06; 0x86; 0x10; 0x34; 0x00;
   0x22; 0x98; 0x09; 0x14; 0xc0; 0x40; 0x50; 0x45; 0x0a; 0x82; 0x28; 0x40;
   0x5a; 0x56; 0x5a; 0xd2; 0xb2; 0xc0].

Definition kMaskRandom42_36 : list Z :=
  [0x4e; 0x11; 0x92; 0x70; 0x8c; 0x80; 0xe3; 0x18; 0x9f; 0x18; 0xc4; 0xc0;
   0x81; 0xe3; 0x04; 0x0f; 0x18; 0x00; 0x21; 0x40; 0x59; 0x0a; 0x02; 0xc0;
   0x52; 0x81; 0xe2; 0x94; 0x0f; 0x00; 0xb4; 0x28; 0x25; 0xa1; 0x41; 0x00;
   0x26; 0x86; 0x29; 0x34; 0x31; 0x40; 0x58; 0x64; 0x42; 0xc3; 0x22; 0x00;
   0x19; 0x9e; 0x00; 0xcc; 0xf0; 0x00; 0x2c; 0x03; 0x21; 0x60; 0x19; 0x00;
   0x81; 0xa0; 0x1c; 0x0d; 0x00; 0xc0; 0xa0; 0x68; 0x25; 0x03; 0x41; 0x00;
   0x05; 0x41; 0x50; 0x2a; 0x0a; 0x80; 0x18; 0x90; 0xc0; 0xc4; 0x86; 0x00;
   0xc2; 0x06; 0x86; 0x10; 0x34; 0x00; 0x22; 0x98; 0x09; 0x14; 0xc0; 0x40;
   0x50; 0x45; 0x0a; 0x82; 0x28; 0x40; 0x5a; 0x56; 0x5a; 0xd2; 0xb2; 0xc0;
   0x2c; 0x03; 0x21; 0x60; 0x19; 0x00; 0x81; 0xa0; 0x1c; 0x0d; 0x00; 0xc0;
   0xa0; 0x68; 0x25; 0x03; 0x41; 0x00; 0x05; 0x41; 0x50; 0x2a; 0x0a; 0x80;
   0x18; 0x90; 0xc0; 0xc4; 0x86; 0x00; 0xc2; 0x06; 0x86; 0x10; 0x34; 0x00;
   0x22; 0x98; 0x09; 0x14; 0xc0; 0x40; 0x50; 0x45; 0x0a; 0x82; 0x28; 0x40;
   0x4e; 0x11; 0x92; 0x70; 0x8c; 0x80; 0xe3; 0x18; 0x9f; 0x18; 0xc4; 0xc0;
   0x81; 0xe3; 0x04; 0x0f; 0x18; 0x00; 0x21; 0x40; 0x59; 0x0a; 0x02; 0xc0;
   0x52; 0x81; 0xe2; 0x94; 0x0f; 0x00; 0xb4; 0x28; 0x25; 0xa1; 0x41; 0x00;
   0x26; 0x86; 0x29; 0x34; 0x31; 0x40; 0x58; 0x64; 0x42; 0xc3; 0x22; 0x00;
   0x19; 0x9e; 0x00; 0xcc; 0xf0; 0x00; 0x57; 0xc7; 0x03; 0xf9; 0xc6; 0x00].

Definition kMaskRandom42_37 : list Z :=
  [0x4e; 0x11; 0x92; 0x70; 0x8c; 0x80; 0xe3; 0x18; 0x9f; 0x18; 0xc4; 0xc0;
   0x81; 0xe3; 0x04; 0x0f; 0x18; 0x00; 0x21; 0x40; 0x59; 0x0a; 0x02; 0xc0;
   0x52; 0x81; 0xe2; 0x94; 0x0f; 0x00; 0xb4; 0x28; 0x25; 0xa1; 0x41; 0x00;
   0x26; 0x86; 0x29; 0x34; 0x31; 0x40; 0x58; 0x64; 0x42; 0xc3; 0x22; 0x00;
   0x19; 0x9e; 0x00; 0xcc; 0xf0; 0x00; 0x2c; 0x03; 0x21; 0x60; 0x19; 0x00;
   0x81; 0xa0; 0x1c; 0x0d; 0x00; 0xc0; 0xa0; 0x68; 0x25; 0x03; 0x41; 0x00;
   0x05; 0x41; 0x50; 0x2a; 0x0a; 0x80; 0x18; 0x90; 0xc0; 0xc4; 0x86; 0x00;
   0xc2; 0x06; 0x86; 0x10; 0x34; 0x00; 0x22; 0x98; 0x09; 0x14; 0xc0; 0x40;
   0x50; 0x45; 0x0a; 0x82; 0x28; 0x40; 0x5a; 0x56; 0x5a; 0xd2; 0xb2; 0xc0;
   0x4e; 0x11; 0x92; 0x70; 0x8c; 0x80; 0xe3; 0x18; 0x9f; 0x18; 0xc4; 0xc0;
   0x81; 0xe3; 0x04; 0x0f; 0x18; 0x00; 0x21; 0x40; 0x59; 0x0a; 0x02; 0xc0;
   0x52; 0x81; 0xe2; 0x94; 0x0f; 0x00; 0xb4; 0x28; 0x25; 0xa1; 0x41; 0x00;
   0x26; 0x86; 0x29; 0x34; 0x31; 0x40; 0x58; 0x64; 0x42; 0xc3; 0x22; 0x00;
   0x19; 0x9e; 0x00; 0xcc; 0xf0; 0x00; 0x4c; 0x19; 0x12; 0x60; 0xc8; 0x80;
   0x51; 0x14; 0x52; 0x88; 0xa2; 0x80; 0xa0; 0x6a; 0x45; 0x03; 0x52; 0x00;
   0x04; 0xc1; 0x30; 0x26; 0x09; 0x80; 0x03; 0xb4; 0x00; 0x1d; 0xa0; 0x00;
   0x86; 0x20; 0x94; 0x31; 0x04; 0x80; 0x29; 0x08; 0x49; 0x48; 0x42; 0x40;
   0x42; 0x43; 0x0a; 0x12; 0x18; 0x40; 0x98; 0x12; 0x84; 0xc0; 0x94; 0x00;
   0x30; 0x84; 0xa9; 0x84; 0x25; 0x40].

Definition kMaskRandom42_38 : list Z :=
  [0x4e; 0x11; 0x92; 0x70; 0x8c; 0x80; 0xe3; 0x18; 0x9f; 0x18; 0xc4; 0xc0;
   0x81; 0xe3; 0x04; 0x0f; 0x18; 0x00; 0x21; 0x40; 0x59; 0x0a; 0x02; 0xc0;
   0x52; 0x81; 0xe2; 0x94; 0x0f; 0x00; 0xb4; 0x28; 0x25; 0xa1; 0x41; 0x00;
   0x26; 0x86; 0x29; 0x34; 0x31; 0x40; 0x58; 0x64; 0x42; 0xc3; 0x22; 0x00;
   0x19; 0x9e; 0x00; 0xcc; 0xf0; 0x00; 0x4c; 0x19; 0x12; 0x60; 0xc8; 0x80;
   0x51; 0x14; 0x52; 0x88; 0xa2; 0x80; 0xa0; 0x6a; 0x45; 0x03; 0x52; 0x00;
   0x04; 0xc1; 0x30; 0x26; 0x09; 0x80; 0x03; 0xb4; 0x00; 0x1d; 0xa0; 0x00;
   0x86; 0x20; 0x94; 0x31; 0x04; 0x80; 0x29; 0x08; 0x49; 0x48; 0x42; 0x40;
   0x42; 0x43; 0x0a; 0x12; 0x18; 0x40; 0x98; 0x12; 0x84; 0xc0; 0x94; 0x00;
   0x30; 0x84; 0xa9; 0x84; 0x25; 0x40; 0x4e; 0x11; 0x92; 0x70; 0x8c; 0x80;
   0xe3; 0x18; 0x9f; 0x18; 0xc4; 0xc0; 0x81; 0xe3; 0x04; 0x0f; 0x18; 0x00;
   0x21; 0x40; 0x59; 0x0a; 0x02; 0xc0; 0x52; 0x81; 0xe2; 0x94; 0x0f; 0x00;
   0xb4; 0x28; 0x25; 0xa1; 0x41; 0x00; 0x26; 0x86; 0x29; 0x34; 0x31; 0x40;
   0x58; 0x64; 0x42; 0xc3; 0x22; 0x00; 0x19; 0x9e; 0x00; 0xcc; 0xf0; 0x00;
   0x2c; 0x03; 0x21; 0x60; 0x19; 0x00; 0x81; 0xa0; 0x1c; 0x0d; 0x00; 0xc0;
   0xa0; 0x68; 0x25; 0x03; 0x41; 0x00; 0x05; 0x41; 0x50; 0x2a; 0x0a; 0x80;
   0x18; 0x90; 0xc0; 0xc4; 0x86; 0x00; 0xc2; 0x06; 0x86; 0x10; 0x34; 0x00;
   0x22; 0x98; 0x09; 0x14; 0xc0; 0x40; 0x50; 0x45; 0x0a; 0x82; 0x28; 0x40;
   0x5a; 0x56; 0x5a; 0xd2; 0xb2; 0xc0; 0x05; 0x19; 0x55; 0xee; 0xe2; 0xc0].

Definition kMaskRandom42_39 : list Z :=
  [0x4e; 0x11; 0x92; 0x70; 0x8c; 0x80; 0xe3; 0x18; 0x9f; 0x18; 0xc4; 0xc0;
   0x81; 0xe3; 0x04; 0x0f; 0x18; 0x00; 0x21; 0x40; 0x59; 0x0a; 0x02; 0xc0;
   0x52; 0x81; 0xe2; 0x94; 0x0f; 0x00; 0xb4; 0x28; 0x25; 0xa1; 0x41; 0x00;
   0x26; 0x86; 0x29; 0x34; 0x31; 0x40; 0x58; 0x64; 0x42; 0xc3; 0x22; 0x00;
   0x19; 0x9e; 0x00; 0xcc; 0xf0; 0x00; 0x4c; 0x19; 0x12; 0x60; 0xc8; 0x80;
   0x51; 0x14; 0x52; 0x88; 0xa2; 0x80; 0xa0; 0x6a; 0x45; 0x03; 0x52; 0x00;
   0x04; 0xc1; 0x30; 0x26; 0x09; 0x80; 0x03; 0xb4; 0x00; 0x1d; 0xa0; 0x00;
   0x86; 0x20; 0x94; 0x31; 0x04; 0x80; 0x29; 0x08; 0x49; 0x48; 0x42; 0x40;
   0x42; 0x43; 0x0a; 0x12; 0x18; 0x40; 0x98; 0x12; 0x84; 0xc0; 0x94; 0x00;
   0x30; 0x84; 0xa9; 0x84; 0x25; 0x40; 0x4c; 0x19; 0x12; 0x60; 0xc8; 0x80;
   0x51; 0x14; 0x52; 0x88; 0xa2; 0x80; 0xa0; 0x6a; 0x45; 0x03; 0x52; 0x00;
   0x04; 0xc1; 0x30; 0x26; 0x09; 0x80; 0x03; 0xb4; 0x00; 0x1d; 0xa0; 0x00;
   0x86; 0x20; 0x94; 0x31; 0x04; 0x80; 0x29; 0x08; 0x49; 0x48; 0x42; 0x40;
   0x42; 0x43; 0x0a; 0x12; 0x18; 0x40; 0x98; 0x12; 0x84; 0xc0; 0x94; 0x00;
   0x30; 0x84; 0xa9; 0x84; 0x25; 0x40; 0x4e; 0x11; 0x92; 0x70; 0x8c; 0x80;
   0xe3; 0x18; 0x9f; 0x18; 0xc4; 0xc0; 0x81; 0xe3; 0x04; 0x0f; 0x18; 0x00;
   0x21; 0x40; 0x59; 0x0a; 0x02; 0xc0; 0x52; 0x81; 0xe2; 0x94; 0x0f; 0x00;
   0xb4; 0x28; 0x25; 0xa1; 0x41; 0x00; 0x26; 0x86; 0x29; 0x34; 0x31; 0x40;
   0x58; 0x64; 0x42; 0xc3; 0x22; 0x00; 0x19; 0x9e; 0x00; 0xcc; 0xf0; 0x00;
   0x2a; 0x03; 0x31; 0x50; 0x19; 0x80].

Definition kMaskRandom42_40 : list Z :=
  [0x4c; 0x19; 0x12; 0x60; 0xc8; 0x80; 0x51; 0x14; 0x52; 0x88; 0xa2; 0x80;
   0xa0; 0x6a; 0x45; 0x03; 0x52; 0x00; 0x04; 0xc1; 0x30; 0x26; 0x09; 0x80;
   0x03; 0xb4; 0x00; 0x1d; 0xa0; 0x00; 0x86; 0x20; 0x94; 0x31; 0x04; 0x80;
   0x29; 0x08; 0x49; 0x48; 0x42; 0x40; 0x42; 0x43; 0x0a; 0x12; 0x18; 0x40;
   0x98; 0x12; 0x84; 0xc0; 0x94; 0x00; 0x30; 0x84; 0xa9; 0x84; 0x25; 0x40;
   0x4e; 0x11; 0x92; 0x70; 0x8c; 0x80; 0xe3; 0x18; 0x9f; 0x18; 0xc4; 0xc0;
   0x81; 0xe3; 0x04; 0x0f; 0x18; 0x00; 0x21; 0x40; 0x59; 0x0a; 0x02; 0xc0;
   0x52; 0x81; 0xe2; 0x94; 0x0f; 0x00; 0xb4; 0x28; 0x25; 0xa1; 0x41; 0x00;
   0x26; 0x86; 0x29; 0x34; 0x31; 0x40; 0x58; 0x64; 0x42; 0xc3; 0x22; 0x00;
   0x19; 0x9e; 0x00; 0xcc; 0xf0; 0x00; 0x2a; 0x03; 0x31; 0x50; 0x19; 0x80;
   0x4e; 0x11; 0x92; 0x70; 0x8c; 0x80; 0xe3; 0x18; 0x9f; 0x18; 0xc4; 0xc0;
   0x81; 0xe3; 0x04; 0x0f; 0x18; 0x00; 0x21; 0x40; 0x59; 0x0a; 0x02; 0xc0;
   0x52; 0x81; 0xe2; 0x94; 0x0f; 0x00; 0xb4; 0x28; 0x25; 0xa1; 0x41; 0x00;
   0x26; 0x86; 0x29; 0x34; 0x31; 0x40; 0x58; 0x64; 0x42; 0xc3; 0x22; 0x00;
   0x19; 0x9e; 0x00; 0xcc; 0xf0; 0x00; 0x4c; 0x19; 0x12; 0x60; 0xc8; 0x80;
   0x51; 0x14; 0x52; 0x88; 0xa2; 0x80; 0xa0; 0x6a; 0x45; 0x03; 0x52; 0x00;
   0x04; 0xc1; 0x30; 0x26; 0x09; 0x80; 0x03; 0xb4; 0x00; 0x1d; 0xa0; 0x00;
   0x86; 0x20; 0x94; 0x31; 0x04; 0x80; 0x29; 0x08; 0x49; 0x48; 0x42; 0x40;
   0x42; 0x43; 0x0a; 0x12; 0x18; 0x40; 0x98; 0x12; 0x84; 0xc0; 0x94; 0x00;
   0x30; 0x84; 0xa9; 0x84; 0x25; 0x40; 0xf9; 0xdb; 0x5d; 0x7a; 0xd4; 0x40].

Definition kMaskRandom42_41 : list Z :=
  [0x4c; 0x19; 0x12; 0x60; 0xc8; 0x80; 0x51; 0x14; 0x52; 0x88; 0xa2; 0x80;
   0xa0; 0x6a; 0x45; 0x03; 0x52; 0x00; 0x04; 0xc1; 0x30; 0x26; 0x09; 0x80;
   0x03; 0xb4; 0x00; 0x1d; 0xa0; 0x00; 0x86; 0x20; 0x94; 0x31; 0x04; 0x80;
   0x29; 0x08; 0x49; 0x48; 0x42; 0x40; 0x42; 0x43; 0x0a; 0x12; 0x18; 0x40;
   0x98; 0x12; 0x84; 0xc0; 0x94; 0x00; 0x30; 0x84; 0xa9; 0x84; 0x25; 0x40;
   0x4e; 0x11; 0x92; 0x70; 0x8c; 0x80; 0xe3; 0x18; 0x9f; 0x18; 0xc4; 0xc0;
   0x81; 0xe3; 0x04; 0x0f; 0x18; 0x00; 0x21; 0x40; 0x59; 0x0a; 0x02; 0xc0;
   0x52; 0x81; 0xe2; 0x94; 0x0f; 0x00; 0xb4; 0x28; 0x25; 0xa1; 0x41; 0x00;
   0x26; 0x86; 0x29; 0x34; 0x31; 0x40; 0x58; 0x64; 0x42; 0xc3; 0x22; 0x00;
   0x19; 0x9e; 0x00; 0xcc; 0xf0; 0x00; 0x2a; 0x03; 0x31; 0x50; 0x19; 0x80;
   0x4c; 0x19; 0x12; 0x60; 0xc8; 0x80; 0x51; 0x14; 0x52; 0x88; 0xa2; 0x80;
   0xa0; 0x6a; 0x45; 0x03; 0x52; 0x00; 0x04; 0xc1; 0x30; 0x26; 0x09; 0x80;
   0x03; 0xb4; 0x00; 0x1d; 0xa0; 0x00; 0x86; 0x20; 0x94; 0x31; 0x04; 0x80;
   0x29; 0x08; 0x49; 0x48; 0x42; 0x40; 0x42; 0x43; 0x0a; 0x12; 0x18; 0x40;
   0x98; 0x12; 0x84; 0xc0; 0x94; 0x00; 0x30; 0x84; 0xa9; 0x84; 0x25; 0x40;
   0x4c; 0x11; 0x92; 0x60; 0x8c; 0x80; 0x51; 0x0c; 0xca; 0x88; 0x66; 0x40;
   0xa0; 0x66; 0x45; 0x03; 0x32; 0x00; 0x04; 0xc1; 0x60; 0x26; 0x0b; 0x00;
   0x03; 0xa0; 0x28; 0x1d; 0x01; 0x40; 0x86; 0x21; 0x14; 0x31; 0x08; 0x80;
   0x29; 0x10; 0x19; 0x48; 0x80; 0xc0; 0x42; 0x42; 0xa2; 0x12; 0x15; 0x00;
   0x98; 0x1a; 0x04; 0xc0; 0xd0; 0x00; 0x30; 0x84; 0x09; 0x84; 0x20; 0x40;
   0xdf; 0x4c; 0x16; 0xfa; 0x60; 0x80].

Definition kMaskRandom42_42 : list Z :=
  [0x4c; 0x19; 0x12; 0x60; 0xc8; 0x80; 0x51; 0x14; 0x52; 0x88; 0xa2; 0x80;
   0xa0; 0x6a; 0x45; 0x03; 0x52; 0x00; 0x04; 0xc1; 0x30; 0x26; 0x09; 0x80;
   0x03; 0xb4; 0x00; 0x1d; 0xa0; 0x00; 0x86; 0x20; 0x94; 0x31; 0x04; 0x80;
   0x29; 0x08; 0x49; 0x48; 0x42; 0x40; 0x42; 0x43; 0x0a; 0x12; 0x18; 0x40;
   0x98; 0x12; 0x84; 0xc0; 0x94; 0x00; 0x30; 0x84; 0xa9; 0x84; 0x25; 0x40;
   0x4c; 0x11; 0x92; 0x60; 0x8c; 0x80; 0x51; 0x0c; 0xca; 0x88; 0x66; 0x40;
   0xa0; 0x66; 0x45; 0x03; 0x32; 0x00; 0x04; 0xc1; 0x60; 0x26; 0x0b; 0x00;
   0x03; 0xa0; 0x28; 0x1d; 0x01; 0x40; 0x86; 0x21; 0x14; 0x31; 0x08; 0x80;
   0x29; 0x10; 0x19; 0x48; 0x80; 0xc0; 0x42; 0x42; 0xa2; 0x12; 0x15; 0x00;
   0x98; 0x1a; 0x04; 0xc0; 0xd0; 0x00; 0x30; 0x84; 0x09; 0x84; 0x20; 0x40;
   0xdf; 0x4c; 0x16; 0xfa; 0x60; 0x80; 0x4c; 0x19; 0x12; 0x60; 0xc8; 0x80;
   0x51; 0x14; 0x52; 0x88; 0xa2; 0x80; 0xa0; 0x6a; 0x45; 0x03; 0x52; 0x00;
   0x04; 0xc1; 0x30; 0x26; 0x09; 0x80; 0x03; 0xb4; 0x00; 0x1d; 0xa0; 0x00;
   0x86; 0x20; 0x94; 0x31; 0x04; 0x80; 0x29; 0x08; 0x49; 0x48; 0x42; 0x40;
   0x42; 0x43; 0x0a; 0x12; 0x18; 0x40; 0x98; 0x12; 0x84; 0xc0; 0x94; 0x00;
   0x30; 0x84; 0xa9; 0x84; 0x25; 0x40; 0x4e; 0x11; 0x92; 0x70; 0x8c; 0x80;
   0xe3; 0x18; 0x9f; 0x18; 0xc4; 0xc0; 0x81; 0xe3; 0x04; 0x0f; 0x18; 0x00;
   0x21; 0x40; 0x59; 0x0a; 0x02; 0xc0; 0x52; 0x81; 0xe2; 0x94; 0x0f; 0x00;
   0xb4; 0x28; 0x25; 0xa1; 0x41; 0x00; 0x26; 0x86; 0x29; 0x34; 0x31; 0x40;
   0x58; 0x64; 0x42; 0xc3; 0x22; 0x00; 0x19; 0x9e; 0x00; 0xcc; 0xf0; 0x00;
   0x2a; 0x03; 0x31; 0x50; 0x19; 0x80; 0xea; 0x9e; 0x23; 0xb3; 0x65; 0x00].

Definition kMaskRandom43_1 : list Z :=
  [0xff; 0xff; 0xff; 0xff; 0xff; 0xe0].

Definition kMaskRandom43_2 : list Z :=
  [0xee; 0x3b; 0x37; 0x66; 0xec; 0xc0; 0x99; 0xe6; 0xec; 0xdd; 0x9b; 0xa0].

Definition kMaskRandom43_3 : list Z :=
  [0xce; 0x32; 0xb6; 0x56; 0xca; 0xc0; 0x55; 0xdc; 0x57; 0x8a; 0xf1; 0x40;
   0xa8; 0xed; 0x8d; 0xb1; 0xae; 0x20].

Definition kMaskRandom43_4 : list Z :=
  [0xe6; 0x31; 0x36; 0x26; 0xc4; 0xc0; 0x33; 0x8c; 0x59; 0x8b; 0x31; 0x60;
   0x98; 0xd2; 0xca; 0x59; 0x4b; 0x20; 0x2d; 0x4b; 0x29; 0x65; 0x2c; 0xa0].

Definition kMaskRandom43_5 : list Z :=
  [0xce; 0x31; 0xb6; 0x36; 0xc6; 0xc0; 0x63; 0x98; 0xdb; 0x1b; 0x63; 0x60;
   0x98; 0xc7; 0x68; 0xed; 0x1d; 0xa0; 0x4d; 0x6b; 0x55; 0x6a; 0xad; 0x40;
   0xb2; 0x6c; 0xad; 0x95; 0xb2; 0xa0].

Definition kMaskRandom43_6 : list Z :=
  [0x4c; 0x19; 0x13; 0x22; 0x64; 0x40; 0x51; 0x14; 0x52; 0x8a; 0x51; 0x40;
   0x20; 0xea; 0x0d; 0x41; 0xa8; 0x20; 0x85; 0x41; 0x2e; 0x25; 0x04; 0xa0;
   0x06; 0x80; 0xd8; 0x1b; 0x03; 0x60; 0x8a; 0x24; 0x34; 0x86; 0x90; 0xc0].

Definition kMaskRandom43_7 : list Z :=
  [0xc6; 0x11; 0x96; 0x32; 0x46; 0x40; 0x33; 0x04; 0xc8; 0x99; 0x33; 0x20;
   0x18; 0x67; 0x44; 0x68; 0x9d; 0x00; 0x45; 0x42; 0xd4; 0x5a; 0x0b; 0x40;
   0x12; 0xd4; 0x2a; 0x95; 0x50; 0xa0; 0xb4; 0x28; 0x35; 0x16; 0xa0; 0xc0;
   0x29; 0x92; 0x1b; 0x0d; 0x41; 0x60].

Definition kMaskRandom43_8 : list Z :=
  [0x07; 0x0a; 0x71; 0x44; 0x29; 0xc0; 0x49; 0xa8; 0x29; 0x0f; 0xa0; 0x20;
   0xb0; 0x7a; 0x07; 0x48; 0xe8; 0x00; 0x24; 0xc5; 0xc0; 0xb8; 0x17; 0x00;
   0x52; 0x80; 0xec; 0x1d; 0x02; 0xa0; 0xc6; 0x31; 0x82; 0x30; 0xc7; 0x40;
   0x31; 0x94; 0x1a; 0x83; 0x50; 0x60; 0x18; 0xc7; 0x08; 0xe1; 0x1c; 0x20].

Definition kMaskRandom43_9 : list Z :=
  [0x4e; 0x11; 0x12; 0x22; 0x46; 0x40; 0x62; 0x1a; 0x09; 0x41; 0x68; 0x60;
   0x80; 0xe9; 0x41; 0x28; 0xa5; 0x00; 0xa1; 0x50; 0x52; 0xc8; 0x51; 0x00;
   0x53; 0x00; 0x68; 0x1d; 0x01; 0xa0; 0xa4; 0x24; 0x36; 0x06; 0x80; 0xc0;
   0x16; 0xa0; 0x8d; 0x11; 0x82; 0x20; 0x58; 0x45; 0x20; 0xa4; 0x16; 0x80;
   0x29; 0x86; 0x84; 0xd0; 0x1c; 0x00].

Definition kMaskRandom43_10 : list Z :=
  [0x4c; 0x19; 0x16; 0x01; 0xc4; 0x40; 0x51; 0x14; 0x51; 0x80; 0x71; 0x40;
   0xa0; 0x6a; 0x47; 0x40; 0x38; 0x00; 0x04; 0xc1; 0x34; 0x28; 0x45; 0x40;
   0x03; 0xb4; 0x06; 0x84; 0x90; 0x80; 0x86; 0x20; 0x94; 0x32; 0x82; 0x40;
   0x29; 0x08; 0x4a; 0x53; 0x40; 0x60; 0x42; 0x43; 0x08; 0x0d; 0x03; 0xa0;
   0x98; 0x12; 0x82; 0x64; 0x0c; 0x80; 0x30; 0x84; 0xab; 0x11; 0x20; 0x20].

Definition kMaskRandom43_11 : list Z :=
  [0xc6; 0x21; 0xa2; 0x32; 0x46; 0x40; 0x23; 0x88; 0xc9; 0x99; 0x33; 0x20;
   0x1a; 0x45; 0x8c; 0xc8; 0x99; 0x00; 0x24; 0xd3; 0x08; 0x2c; 0x05; 0x80;
   0x71; 0x10; 0x74; 0x05; 0x80; 0xa0; 0x0e; 0x19; 0x14; 0x22; 0x84; 0x40;
   0x33; 0x14; 0x52; 0x03; 0x40; 0x60; 0x10; 0xc3; 0x28; 0x54; 0x0a; 0x80;
   0x45; 0x68; 0x4b; 0x40; 0x68; 0x00; 0x88; 0x84; 0xa8; 0x81; 0x10; 0x20;
   0xe0; 0x22; 0x91; 0x82; 0x30; 0x40].

Definition kMaskRandom43_12 : list Z :=
  [0x0e; 0x19; 0x13; 0x22; 0x64; 0x40; 0x33; 0x14; 0x52; 0x8a; 0x51; 0x40;
   0x10; 0xc3; 0x28; 0x65; 0x0c; 0xa0; 0x45; 0x68; 0x4d; 0x09; 0xa1; 0x20;
   0x88; 0x84; 0xa8; 0x95; 0x12; 0xa0; 0xe0; 0x22; 0x94; 0x52; 0x8a; 0x40;
   0xc6; 0x21; 0xa4; 0x34; 0x86; 0x80; 0x23; 0x88; 0xc9; 0x19; 0x23; 0x20;
   0x1a; 0x45; 0x88; 0xb1; 0x16; 0x20; 0x24; 0xd3; 0x0a; 0x61; 0x4c; 0x20;
   0x71; 0x10; 0x72; 0x0e; 0x41; 0xc0; 0xa0; 0x65; 0x1f; 0xa0; 0xc4; 0xe0].

Definition kMaskRandom43_13 : list Z :=
  [0x0e; 0x19; 0x13; 0x22; 0x64; 0x40; 0x33; 0x14; 0x52; 0x8a; 0x51; 0x40;
   0x10; 0xc3; 0x28; 0x65; 0x0c; 0xa0; 0x45; 0x68; 0x4d; 0x09; 0xa1; 0x20;
   0x88; 0x84; 0xa8; 0x95; 0x12; 0xa0; 0xe0; 0x22; 0x94; 0x52; 0x8a; 0x40;
   0x46; 0x11; 0x92; 0x32; 0x46; 0x40; 0x33; 0x0c; 0xc9; 0x99; 0x33; 0x20;
   0x10; 0xe4; 0x64; 0x8c; 0x91; 0x80; 0x0c; 0x69; 0x0d; 0x21; 0xa4; 0x20;
   0x28; 0x94; 0x2a; 0x85; 0x50; 0xa0; 0x94; 0x21; 0x34; 0x26; 0x84; 0xc0;
   0xc1; 0x02; 0x58; 0x4b; 0x09; 0x60].

Definition kMaskRandom43_14 : list Z :=
  [0x46; 0x11; 0x92; 0x32; 0x46; 0x40; 0x33; 0x0c; 0xc9; 0x99; 0x33; 0x20;
   0x10; 0xe4; 0x64; 0x8c; 0x91; 0x80; 0x0c; 0x69; 0x0d; 0x21; 0xa4; 0x20;
   0x28; 0x94; 0x2a; 0x85; 0x50; 0xa0; 0x94; 0x21; 0x34; 0x26; 0x84; 0xc0;
   0xc1; 0x02; 0x58; 0x4b; 0x09; 0x60; 0x0e; 0x19; 0x13; 0x22; 0x64; 0x40;
   0x33; 0x14; 0x52; 0x8a; 0x51; 0x40; 0x10; 0xc3; 0x28; 0x65; 0x0c; 0xa0;
   0x45; 0x68; 0x4d; 0x09; 0xa1; 0x20; 0x88; 0x84; 0xa8; 0x95; 0x12; 0xa0;
   0xe0; 0x22; 0x94; 0x52; 0x8a; 0x40; 0x4d; 0xd0; 0xc6; 0x36; 0x57; 0x40].

Definition kMaskRandom43_15 : list Z :=
  [0x46; 0x11; 0x92; 0x32; 0x46; 0x40; 0x33; 0x0c; 0xc9; 0x99; 0x33; 0x20;
   0x10; 0xe4; 0x64; 0x8c; 0x91; 0x80; 0x0c; 0x69; 0x0d; 0x21; 0xa4; 0x20;
   0x28; 0x94; 0x2a; 0x85; 0x50; 0xa0; 0x94; 0x21; 0x34; 0x26; 0x84; 0xc0;
   0xc1; 0x02; 0x58; 0x4b; 0x09; 0x60; 0x2c; 0x03; 0x20; 0x64; 0x0c; 0x80;
   0x81; 0xa0; 0x1c; 0x03; 0x80; 0x60; 0xa0; 0x68; 0x25; 0x04; 0xa0; 0x80;
   0x05; 0x41; 0x50; 0x2a; 0x05; 0x40; 0x18; 0x90; 0xc2; 0x18; 0x43; 0x00;
   0xc2; 0x06; 0x80; 0xd0; 0x1a; 0x00; 0x22; 0x98; 0x0b; 0x01; 0x60; 0x20;
   0x50; 0x45; 0x08; 0xa1; 0x14; 0x20].

Definition kMaskRandom43_16 : list Z :=
  [0x2c; 0x03; 0x20; 0x64; 0x0c; 0x80; 0x81; 0xa0; 0x1c; 0x03; 0x80; 0x60;
   0xa0; 0x68; 0x25; 0x04; 0xa0; 0x80; 0x05; 0x41; 0x50; 0x2a; 0x05; 0x40;
   0x18; 0x90; 0xc2; 0x18; 0x43; 0x00; 0xc2; 0x06; 0x80; 0xd0; 0x1a; 0x00;
   0x22; 0x98; 0x0b; 0x01; 0x60; 0x20; 0x50; 0x45; 0x08; 0xa1; 0x14; 0x20;
   0x46; 0x11; 0x92; 0x32; 0x46; 0x40; 0x33; 0x0c; 0xc9; 0x99; 0x33; 0x20;
   0x10; 0xe4; 0x64; 0x8c; 0x91; 0x80; 0x0c; 0x69; 0x0d; 0x21; 0xa4; 0x20;
   0x28; 0x94; 0x2a; 0x85; 0x50; 0xa0; 0x94; 0x21; 0x34; 0x26; 0x84; 0xc0;
   0xc1; 0x02; 0x58; 0x4b; 0x09; 0x60; 0x3b; 0xf5; 0x3c; 0x36; 0x0a; 0x20].

Definition kMaskRandom43_17 : list Z :=
  [0x2c; 0x03; 0x20; 0x64; 0x0c; 0x80; 0x81; 0xa0; 0x1c; 0x03; 0x80; 0x60;
   0xa0; 0x68; 0x25; 0x04; 0xa0; 0x80; 0x05; 0x41; 0x50; 0x2a; 0x05; 0x40;
   0x18; 0x90; 0xc2; 0x18; 0x43; 0x00; 0xc2; 0x06; 0x80; 0xd0; 0x1a; 0x00;
   0x22; 0x98; 0x0b; 0x01; 0x60; 0x20; 0x50; 0x45; 0x08; 0xa1; 0x14; 0x20;
   0x4e; 0x11; 0x92; 0x32; 0x46; 0x40; 0xe3; 0x18; 0x9b; 0x13; 0x62; 0x60;
   0x81; 0xe3; 0x04; 0x60; 0x8c; 0x00; 0x21; 0x40; 0x58; 0x0b; 0x01; 0x60;
   0x52; 0x81; 0xe0; 0x3c; 0x07; 0x80; 0xb4; 0x28; 0x25; 0x04; 0xa0; 0x80;
   0x26; 0x86; 0x28; 0xc5; 0x18; 0xa0; 0x58; 0x64; 0x44; 0x88; 0x91; 0x00;
   0x19; 0x9e; 0x03; 0xc0; 0x78; 0x00].

Definition kMaskRandom43_18 : list Z :=
  [0x4e; 0x11; 0x92; 0x32; 0x46; 0x40; 0xe3; 0x18; 0x9b; 0x13; 0x62; 0x60;
   0x81; 0xe3; 0x04; 0x60; 0x8c; 0x00; 0x21; 0x40; 0x58; 0x0b; 0x01; 0x60;
   0x52; 0x81; 0xe0; 0x3c; 0x07; 0x80; 0xb4; 0x28; 0x25; 0x04; 0xa0; 0x80;
   0x26; 0x86; 0x28; 0xc5; 0x18; 0xa0; 0x58; 0x64; 0x44; 0x88; 0x91; 0x00;
   0x19; 0x9e; 0x03; 0xc0; 0x78; 0x00; 0x2c; 0x03; 0x20; 0x64; 0x0c; 0x80;
   0x81; 0xa0; 0x1c; 0x03; 0x80; 0x60; 0xa0; 0x68; 0x25; 0x04; 0xa0; 0x80;
   0x05; 0x41; 0x50; 0x2a; 0x05; 0x40; 0x18; 0x90; 0xc2; 0x18; 0x43; 0x00;
   0xc2; 0x06; 0x80; 0xd0; 0x1a; 0x00; 0x22; 0x98; 0x0b; 0x01; 0x60; 0x20;
   0x50; 0x45; 0x08; 0xa1; 0x14; 0x20; 0x5a; 0x56; 0x5f; 0x26; 0xa3; 0x60].

Definition kMaskRandom43_19 : list Z :=
  [0x4e; 0x11; 0x92; 0x32; 0x46; 0x40; 0xe3; 0x18; 0x9b; 0x13; 0x62; 0x60;
   0x81; 0xe3; 0x04; 0x60; 0x8c; 0x00; 0x21; 0x40; 0x58; 0x0b; 0x01; 0x60;
   0x52; 0x81; 0xe0; 0x3c; 0x07; 0x80; 0xb4; 0x28; 0x25; 0x04; 0xa0; 0x80;
   0x26; 0x86; 0x28; 0xc5; 0x18; 0xa0; 0x58; 0x64; 0x44; 0x88; 0x91; 0x00;
   0x19; 0x9e; 0x03; 0xc0; 0x78; 0x00; 0x4c; 0x19; 0x13; 0x22; 0x64; 0x40;
   0x51; 0x14; 0x52; 0x8a; 0x51; 0x40; 0xa0; 0x6a; 0x45; 0x48; 0xa9; 0x00;
   0x04; 0xc1; 0x30; 0x26; 0x04; 0xc0; 0x03; 0xb4; 0x06; 0x80; 0xd0; 0x00;
   0x86; 0x20; 0x94; 0x12; 0x82; 0x40; 0x29; 0x08; 0x49; 0x09; 0x21; 0x20;
   0x42; 0x43; 0x08; 0x61; 0x0c; 0x20; 0x98; 0x12; 0x82; 0x50; 0x4a; 0x00;
   0x30; 0x84; 0xa8; 0x95; 0x12; 0xa0].

Definition kMaskRandom43_20 : list Z :=
  [0x4c; 0x19; 0x13; 0x22; 0x64; 0x40; 0x51; 0x14; 0x52; 0x8a; 0x51; 0x40;
   0xa0; 0x6a; 0x45; 0x48; 0xa9; 0x00; 0x04; 0xc1; 0x30; 0x26; 0x04; 0xc0;
   0x03; 0xb4; 0x06; 0x80; 0xd0; 0x00; 0x86; 0x20; 0x94; 0x12; 0x82; 0x40;
   0x29; 0x08; 0x49; 0x09; 0x21; 0x20; 0x42; 0x43; 0x08; 0x61; 0x0c; 0x20;
   0x98; 0x12; 0x82; 0x50; 0x4a; 0x00; 0x30; 0x84; 0xa8; 0x95; 0x12; 0xa0;
   0x4e; 0x11; 0x92; 0x32; 0x46; 0x40; 0xe3; 0x18; 0x9b; 0x13; 0x62; 0x60;
   0x81; 0xe3; 0x04; 0x60; 0x8c; 0x00; 0x21; 0x40; 0x58; 0x0b; 0x01; 0x60;
   0x52; 0x81; 0xe0; 0x3c; 0x07; 0x80; 0xb4; 0x28; 0x25; 0x04; 0xa0; 0x80;
   0x26; 0x86; 0x28; 0xc5; 0x18; 0xa0; 0x58; 0x64; 0x44; 0x88; 0x91; 0x00;
   0x19; 0x9e; 0x03; 0xc0; 0x78; 0x00; 0x2a; 0x03; 0x31; 0xda; 0x46; 0x20].

Definition kMaskRandom43_21 : list Z :=
  [0x4c; 0x19; 0x13; 0x22; 0x64; 0x40; 0x51; 0x14; 0x52; 0x8a; 0x51; 0x40;
   0xa0; 0x6a; 0x45; 0x48; 0xa9; 0x00; 0x04; 0xc1; 0x30; 0x26; 0x04; 0xc0;
   0x03; 0xb4; 0x06; 0x80; 0xd0; 0x00; 0x86; 0x20; 0x94; 0x12; 0x82; 0x40;
   0x29; 0x08; 0x49; 0x09; 0x21; 0x20; 0x42; 0x43; 0x08; 0x61; 0x0c; 0x20;
   0x98; 0x12; 0x82; 0x50; 0x4a; 0x00; 0x30; 0x84; 0xa8; 0x95; 0x12; 0xa0;
   0x4c; 0x11; 0x92; 0x32; 0x46; 0x40; 0x51; 0x0c; 0xc9; 0x99; 0x33; 0x20;
   0xa0; 0x66; 0x44; 0xc8; 0x99; 0x00; 0x04; 0xc1; 0x60; 0x2c; 0x05; 0x80;
   0x03; 0xa0; 0x2c; 0x05; 0x80; 0xa0; 0x86; 0x21; 0x14; 0x22; 0x84; 0x40;
   0x29; 0x10; 0x1a; 0x03; 0x40; 0x60; 0x42; 0x42; 0xa0; 0x54; 0x0a; 0x80;
   0x98; 0x1a; 0x03; 0x40; 0x68; 0x00; 0x30; 0x84; 0x08; 0x81; 0x10; 0x20;
   0xdf; 0x4c; 0x11; 0x82; 0x30; 0x40].

Definition kMaskRandom43_22 : list Z :=
  [0xc6; 0x21; 0xa2; 0x32; 0x46; 0x40; 0x23; 0x88; 0xc9; 0x99; 0x33; 0x20;
   0x1a; 0x45; 0x8c; 0xc8; 0x99; 0x00; 0x24; 0xd3; 0x08; 0x2c; 0x05; 0x80;
   0x71; 0x10; 0x74; 0x05; 0x80; 0xa0; 0x0e; 0x19; 0x14; 0x22; 0x84; 0x40;
   0x33; 0x14; 0x52; 0x03; 0x40; 0x60; 0x10; 0xc3; 0x28; 0x54; 0x0a; 0x80;
   0x45; 0x68; 0x4b; 0x40; 0x68; 0x00; 0x88; 0x84; 0xa8; 0x81; 0x10; 0x20;
   0xe0; 0x22; 0x91; 0x82; 0x30; 0x40; 0x4c; 0x19; 0x16; 0x01; 0xc4; 0x40;
   0x51; 0x14; 0x51; 0x80; 0x71; 0x40; 0xa0; 0x6a; 0x47; 0x40; 0x38; 0x00;
   0x04; 0xc1; 0x34; 0x28; 0x45; 0x40; 0x03; 0xb4; 0x06; 0x84; 0x90; 0x80;
   0x86; 0x20; 0x94; 0x32; 0x82; 0x40; 0x29; 0x08; 0x4a; 0x53; 0x40; 0x60;
   0x42; 0x43; 0x08; 0x0d; 0x03; 0xa0; 0x98; 0x12; 0x82; 0x64; 0x0c; 0x80;
   0x30; 0x84; 0xab; 0x11; 0x20; 0x20; 0xfe; 0x2c; 0x85; 0xcc; 0x24; 0x80].

Definition kMaskRandom43_23 : list Z :=
  [0xc6; 0x21; 0xa2; 0x32; 0x46; 0x40; 0x23; 0x88; 0xc9; 0x99; 0x33; 0x20;
   0x1a; 0x45; 0x8c; 0xc8; 0x99; 0x00; 0x24; 0xd3; 0x08; 0x2c; 0x05; 0x80;
   0x71; 0x10; 0x74; 0x05; 0x80; 0xa0; 0x0e; 0x19; 0x14; 0x22; 0x84; 0x40;
   0x33; 0x14; 0x52; 0x03; 0x40; 0x60; 0x10; 0xc3; 0x28; 0x54; 0x0a; 0x80;
   0x45; 0x68; 0x4b; 0x40; 0x68; 0x00; 0x88; 0x84; 0xa8; 0x81; 0x10; 0x20;
   0xe0; 0x22; 0x91; 0x82; 0x30; 0x40; 0x0e; 0x19; 0x13; 0x22; 0x64; 0x40;
   0x33; 0x14; 0x52; 0x8a; 0x51; 0x40; 0x10; 0xc3; 0x28; 0x65; 0x0c; 0xa0;
   0x45; 0x68; 0x4d; 0x09; 0xa1; 0x20; 0x88; 0x84; 0xa8; 0x95; 0x12; 0xa0;
   0xe0; 0x22; 0x94; 0x52; 0x8a; 0x40; 0xc6; 0x21; 0xa4; 0x34; 0x86; 0x80;
   0x23; 0x88; 0xc9; 0x19; 0x23; 0x20; 0x1a; 0x45; 0x88; 0xb1; 0x16; 0x20;
   0x24; 0xd3; 0x0a; 0x61; 0x4c; 0x20; 0x71; 0x10; 0x72; 0x0e; 0x41; 0xc0;
   0xa0; 0x65; 0x1f; 0xa0; 0xc4; 0xe0].

Definition kMaskRandom43_24 : list Z :=
  [0x0e; 0x19; 0x13; 0x22; 0x64; 0x40; 0x33; 0x14; 0x52; 0x8a; 0x51; 0x40;
   0x10; 0xc3; 0x28; 0x65; 0x0c; 0xa0; 0x45; 0x68; 0x4d; 0x09; 0xa1; 0x20;
   0x88; 0x84; 0xa8; 0x95; 0x12; 0xa0; 0xe0; 0x22; 0x94; 0x52; 0x8a; 0x40;
   0xc6; 0x21; 0xa4; 0x34; 0x86; 0x80; 0x23; 0x88; 0xc9; 0x19; 0x23; 0x20;
   0x1a; 0x45; 0x88; 0xb1; 0x16; 0x20; 0x24; 0xd3; 0x0a; 0x61; 0x4c; 0x20;
   0x71; 0x10; 0x72; 0x0e; 0x41; 0xc0; 0xa0; 0x65; 0x1f; 0xa0; 0xc4; 0xe0;
   0xc6; 0x21; 0xa2; 0x32; 0x46; 0x40; 0x23; 0x88; 0xc9; 0x99; 0x33; 0x20;
   0x1a; 0x45; 0x8c; 0xc8; 0x99; 0x00; 0x24; 0xd3; 0x08; 0x2c; 0x05; 0x80;
   0x71; 0x10; 0x74; 0x05; 0x80; 0xa0; 0x0e; 0x19; 0x14; 0x22; 0x84; 0x40;
   0x33; 0x14; 0x52; 0x03; 0x40; 0x60; 0x10; 0xc3; 0x28; 0x54; 0x0a; 0x80;
   0x45; 0x68; 0x4b; 0x40; 0x68; 0x00; 0x88; 0x84; 0xa8; 0x81; 0x10; 0x20;
   0xe0; 0x22; 0x91; 0x82; 0x30; 0x40; 0xf9; 0xb1; 0x26; 0x6c; 0x51; 0xe0].

Definition kMaskRandom43_25 : list Z :=
  [0x0e; 0x19; 0x13; 0x22; 0x64; 0x40; 0x33; 0x14; 0x52; 0x8a; 0x51; 0x40;
   0x10; 0xc3; 0x28; 0x65; 0x0c; 0xa0; 0x45; 0x68; 0x4d; 0x09; 0xa1; 0x20;
   0x88; 0x84; 0xa8; 0x95; 0x12; 0xa0; 0xe0; 0x22; 0x94; 0x52; 0x8a; 0x40;
   0xc6; 0x21; 0xa4; 0x34; 0x86; 0x80; 0x23; 0x88; 0xc9; 0x19; 0x23; 0x20;
   0x1a; 0x45; 0x88; 0xb1; 0x16; 0x20; 0x24; 0xd3; 0x0a; 0x61; 0x4c; 0x20;
   0x71; 0x10; 0x72; 0x0e; 0x41; 0xc0; 0xa0; 0x65; 0x1f; 0xa0; 0xc4; 0xe0;
   0x0e; 0x19; 0x13; 0x22; 0x64; 0x40; 0x33; 0x14; 0x52; 0x8a; 0x51; 0x40;
   0x10; 0xc3; 0x28; 0x65; 0x0c; 0xa0; 0x45; 0x68; 0x4d; 0x09; 0xa1; 0x20;
   0x88; 0x84; 0xa8; 0x95; 0x12; 0xa0; 0xe0; 0x22; 0x94; 0x52; 0x8a; 0x40;
   0x46; 0x11; 0x92; 0x32; 0x46; 0x40; 0x33; 0x0c; 0xc9; 0x99; 0x33; 0x20;
   0x10; 0xe4; 0x64; 0x8c; 0x91; 0x80; 0x0c; 0x69; 0x0d; 0x21; 0xa4; 0x20;
   0x28; 0x94; 0x2a; 0x85; 0x50; 0xa0; 0x94; 0x21; 0x34; 0x26; 0x84; 0xc0;
   0xc1; 0x02; 0x58; 0x4b; 0x09; 0x60].

Definition kMaskRandom43_26 : list Z :=
  [0x0e; 0x19; 0x13; 0x22; 0x64; 0x40; 0x33; 0x14; 0x52; 0x8a; 0x51; 0x40;
   0x10; 0xc3; 0x28; 0x65; 0x0c; 0xa0; 0x45; 0x68; 0x4d; 0x09; 0xa1; 0x20;
   0x88; 0x84; 0xa8; 0x95; 0x12; 0xa0; 0xe0; 0x22; 0x94; 0x52; 0x8a; 0x40;
   0x46; 0x11; 0x92; 0x32; 0x46; 0x40; 0x33; 0x0c; 0xc9; 0x99; 0x33; 0x20;
   0x10; 0xe4; 0x64; 0x8c; 0x91; 0x80; 0x0c; 0x69; 0x0d; 0x21; 0xa4; 0x20;
   0x28; 0x94; 0x2a; 0x85; 0x50; 0xa0; 0x94; 0x21; 0x34; 0x26; 0x84; 0xc0;
   0xc1; 0x02; 0x58; 0x4b; 0x09; 0x60; 0x0e; 0x19; 0x13; 0x22; 0x64; 0x40;
   0x33; 0x14; 0x52; 0x8a; 0x51; 0x40; 0x10; 0xc3; 0x28; 0x65; 0x0c; 0xa0;
   0x45; 0x68; 0x4d; 0x09; 0xa1; 0x20; 0x88; 0x84; 0xa8; 0x95; 0x12; 0xa0;
   0xe0; 0x22; 0x94; 0x52; 0x8a; 0x40; 0xc6; 0x21; 0xa4; 0x34; 0x86; 0x80;
   0x23; 0x88; 0xc9; 0x19; 0x23; 0x20; 0x1a; 0x45; 0x88; 0xb1; 0x16; 0x20;
   0x24; 0xd3; 0x0a; 0x61; 0x4c; 0x20; 0x71; 0x10; 0x72; 0x0e; 0x41; 0xc0;
   0xa0; 0x65; 0x1f; 0xa0; 0xc4; 0xe0; 0xef; 0x84; 0x77; 0xca; 0x0d; 0x40].

Definition kMaskRandom43_27 : list Z :=
  [0x0e; 0x19; 0x13; 0x22; 0x64; 0x40; 0x33; 0x14; 0x52; 0x8a; 0x51; 0x40;
   0x10; 0xc3; 0x28; 0x65; 0x0c; 0xa0; 0x45; 0x68; 0x4d; 0x09; 0xa1; 0x20;
   0x88; 0x84; 0xa8; 0x95; 0x12; 0xa0; 0xe0; 0x22; 0x94; 0x52; 0x8a; 0x40;
   0x46; 0x11; 0x92; 0x32; 0x46; 0x40; 0x33; 0x0c; 0xc9; 0x99; 0x33; 0x20;
   0x10; 0xe4; 0x64; 0x8c; 0x91; 0x80; 0x0c; 0x69; 0x0d; 0x21; 0xa4; 0x20;
   0x28; 0x94; 0x2a; 0x85; 0x50; 0xa0; 0x94; 0x21; 0x34; 0x26; 0x84; 0xc0;
   0xc1; 0x02; 0x58; 0x4b; 0x09; 0x60; 0x46; 0x11; 0x92; 0x32; 0x46; 0x40;
   0x33; 0x0c; 0xc9; 0x99; 0x33; 0x20; 0x10; 0xe4; 0x64; 0x8c; 0x91; 0x80;
   0x0c; 0x69; 0x0d; 0x21; 0xa4; 0x20; 0x28; 0x94; 0x2a; 0x85; 0x50; 0xa0;
   0x94; 0x21; 0x34; 0x26; 0x84; 0xc0; 0xc1; 0x02; 0x58; 0x4b; 0x09; 0x60;
   0x0e; 0x19; 0x13; 0x22; 0x64; 0x40; 0x33; 0x14; 0x52; 0x8a; 0x51; 0x40;
   0x10; 0xc3; 0x28; 0x65; 0x0c; 0xa0; 0x45; 0x68; 0x4d; 0x09; 0xa1; 0x20;
   0x88; 0x84; 0xa8; 0x95; 0x12; 0xa0; 0xe0; 0x22; 0x94; 0x52; 0x8a; 0x40;
   0x4d; 0xd0; 0xc6; 0x36; 0x57; 0x40].

Definition kMaskRandom43_28 : list Z :=
  [0x46; 0x11; 0x92; 0x32; 0x46; 0x40; 0x33; 0x0c; 0xc9; 0x99; 0x33; 0x20;
   0x10; 0xe4; 0x64; 0x8c; 0x91; 0x80; 0x0c; 0x69; 0x0d; 0x21; 0xa4; 0x20;
   0x28; 0x94; 0x2a; 0x85; 0x50; 0xa0; 0x94; 0x21; 0x34; 0x26; 0x84; 0xc0;
   0xc1; 0x02; 0x58; 0x4b; 0x09; 0x60; 0x0e; 0x19; 0x13; 0x22; 0x64; 0x40;
   0x33; 0x14; 0x52; 0x8a; 0x51; 0x40; 0x10; 0xc3; 0x28; 0x65; 0x0c; 0xa0;
   0x45; 0x68; 0x4d; 0x09; 0xa1; 0x20; 0x88; 0x84; 0xa8; 0x95; 0x12; 0xa0;
   0xe0; 0x22; 0x94; 0x52; 0x8a; 0x40; 0x4d; 0xd0; 0xc6; 0x36; 0x57; 0x40;
   0x0e; 0x19; 0x13; 0x22; 0x64; 0x40; 0x33; 0x14; 0x52; 0x8a; 0x51; 0x40;
   0x10; 0xc3; 0x28; 0x65; 0x0c; 0xa0; 0x45; 0x68; 0x4d; 0x09; 0xa1; 0x20;
   0x88; 0x84; 0xa8; 0x95; 0x12; 0xa0; 0xe0; 0x22; 0x94; 0x52; 0x8a; 0x40;
   0x46; 0x11; 0x92; 0x32; 0x46; 0x40; 0x33; 0x0c; 0xc9; 0x99; 0x33; 0x20;
   0x10; 0xe4; 0x64; 0x8c; 0x91; 0x80; 0x0c; 0x69; 0x0d; 0x21; 0xa4; 0x20;
   0x28; 0x94; 0x2a; 0x85; 0x50; 0xa0; 0x94; 0x21; 0x34; 0x26; 0x84; 0xc0;
   0xc1; 0x02; 0x58; 0x4b; 0x09; 0x60; 0x16; 0xc9; 0x53; 0x1e; 0xc4; 0x00].

Definition kMaskRandom43_29 : list Z :=
  [0x46; 0x11; 0x92; 0x32; 0x46; 0x40; 0x33; 0x0c; 0xc9; 0x99; 0x33; 0x20;
   0x10; 0xe4; 0x64; 0x8c; 0x91; 0x80; 0x0c; 0x69; 0x0d; 0x21; 0xa4; 0x20;
   0x28; 0x94; 0x2a; 0x85; 0x50; 0xa0; 0x94; 0x21; 0x34; 0x26; 0x84; 0xc0;
   0xc1; 0x02; 0x58; 0x4b; 0x09; 0x60; 0x0e; 0x19; 0x13; 0x22; 0x64; 0x40;
   0x33; 0x14; 0x52; 0x8a; 0x51; 0x40; 0x10; 0xc3; 0x28; 0x65; 0x0c; 0xa0;
   0x45; 0x68; 0x4d; 0x09; 0xa1; 0x20; 0x88; 0x84; 0xa8; 0x95; 0x12; 0xa0;
   0xe0; 0x22; 0x94; 0x52; 0x8a; 0x40; 0x4d; 0xd0; 0xc6; 0x36; 0x57; 0x40;
   0x46; 0x11; 0x92; 0x32; 0x46; 0x40; 0x33; 0x0c; 0xc9; 0x99; 0x33; 0x20;
   0x10; 0xe4; 0x64; 0x8c; 0x91; 0x80; 0x0c; 0x69; 0x0d; 0x21; 0xa4; 0x20;
   0x28; 0x94; 0x2a; 0x85; 0x50; 0xa0; 0x94; 0x21; 0x34; 0x26; 0x84; 0xc0;
   0xc1; 0x02; 0x58; 0x4b; 0x09; 0x60; 0x2c; 0x03; 0x20; 0x64; 0x0c; 0x80;
   0x81; 0xa0; 0x1c; 0x03; 0x80; 0x60; 0xa0; 0x68; 0x25; 0x04; 0xa0; 0x80;
   0x05; 0x41; 0x50; 0x2a; 0x05; 0x40; 0x18; 0x90; 0xc2; 0x18; 0x43; 0x00;
   0xc2; 0x06; 0x80; 0xd0; 0x1a; 0x00; 0x22; 0x98; 0x0b; 0x01; 0x60; 0x20;
   0x50; 0x45; 0x08; 0xa1; 0x14; 0x20].

Definition kMaskRandom43_30 : list Z :=
  [0x46; 0x11; 0x92; 0x32; 0x46; 0x40; 0x33; 0x0c; 0xc9; 0x99; 0x33; 0x20;
   0x10; 0xe4; 0x64; 0x8c; 0x91; 0x80; 0x0c; 0x69; 0x0d; 0x21; 0xa4; 0x20;
   0x28; 0x94; 0x2a; 0x85; 0x50; 0xa0; 0x94; 0x21; 0x34; 0x26; 0x84; 0xc0;
   0xc1; 0x02; 0x58; 0x4b; 0x09; 0x60; 0x2c; 0x03; 0x20; 0x64; 0x0c; 0x80;
   0x81; 0xa0; 0x1c; 0x03; 0x80; 0x60; 0xa0; 0x68; 0x25; 0x04; 0xa0; 0x80;
   0x05; 0x41; 0x50; 0x2a; 0x05; 0x40; 0x18; 0x90; 0xc2; 0x18; 0x43; 0x00;
   0xc2; 0x06; 0x80; 0xd0; 0x1a; 0x00; 0x22; 0x98; 0x0b; 0x01; 0x60; 0x20;
   0x50; 0x45; 0x08; 0xa1; 0x14; 0x20; 0x46; 0x11; 0x92; 0x32; 0x46; 0x40;
   0x33; 0x0c; 0xc9; 0x99; 0x33; 0x20; 0x10; 0xe4; 0x64; 0x8c; 0x91; 0x80;
   0x0c; 0x69; 0x0d; 0x21; 0xa4; 0x20; 0x28; 0x94; 0x2a; 0x85; 0x50; 0xa0;
   0x94; 0x21; 0x34; 0x26; 0x84; 0xc0; 0xc1; 0x02; 0x58; 0x4b; 0x09; 0x60;
   0x0e; 0x19; 0x13; 0x22; 0x64; 0x40; 0x33; 0x14; 0x52; 0x8a; 0x51; 0x40;
   0x10; 0xc3; 0x28; 0x65; 0x0c; 0xa0; 0x45; 0x68; 0x4d; 0x09; 0xa1; 0x20;
   0x88; 0x84; 0xa8; 0x95; 0x12; 0xa0; 0xe0; 0x22; 0x94; 0x52; 0x8a; 0x40;
   0x4d; 0xd0; 0xc6; 0x36; 0x57; 0x40; 0x79; 0x4a; 0x8f; 0x42; 0x79; 0x40].

Definition kMaskRandom43_31 : list Z :=
  [0x46; 0x11; 0x92; 0x32; 0x46; 0x40; 0x33; 0x0c; 0xc9; 0x99; 0x33; 0x20;
   0x10; 0xe4; 0x64; 0x8c; 0x91; 0x80; 0x0c; 0x69; 0x0d; 0x21; 0xa4; 0x20;
   0x28; 0x94; 0x2a; 0x85; 0x50; 0xa0; 0x94; 0x21; 0x34; 0x26; 0x84; 0xc0;
   0xc1; 0x02; 0x58; 0x4b; 0x09; 0x60; 0x2c; 0x03; 0x20; 0x64; 0x0c; 0x80;
   0x81; 0xa0; 0x1c; 0x03; 0x80; 0x60; 0xa0; 0x68; 0x25; 0x04; 0xa0; 0x80;
   0x05; 0x41; 0x50; 0x2a; 0x05; 0x40; 0x18; 0x90; 0xc2; 0x18; 0x43; 0x00;
   0xc2; 0x06; 0x80; 0xd0; 0x1a; 0x00; 0x22; 0x98; 0x0b; 0x01; 0x60; 0x20;
   0x50; 0x45; 0x08; 0xa1; 0x14; 0x20; 0x2c; 0x03; 0x20; 0x64; 0x0c; 0x80;
   0x81; 0xa0; 0x1c; 0x03; 0x80; 0x60; 0xa0; 0x68; 0x25; 0x04; 0xa0; 0x80;
   0x05; 0x41; 0x50; 0x2a; 0x05; 0x40; 0x18; 0x90; 0xc2; 0x18; 0x43; 0x00;
   0xc2; 0x06; 0x80; 0xd0; 0x1a; 0x00; 0x22; 0x98; 0x0b; 0x01; 0x60; 0x20;
   0x50; 0x45; 0x08; 0xa1; 0x14; 0x20; 0x46; 0x11; 0x92; 0x32; 0x46; 0x40;
   0x33; 0x0c; 0xc9; 0x99; 0x33; 0x20; 0x10; 0xe4; 0x64; 0x8c; 0x91; 0x80;
   0x0c; 0x69; 0x0d; 0x21; 0xa4; 0x20; 0x28; 0x94; 0x2a; 0x85; 0x50; 0xa0;
   0x94; 0x21; 0x34; 0x26; 0x84; 0xc0; 0xc1; 0x02; 0x58; 0x4b; 0x09; 0x60;
   0x3b; 0xf5; 0x3c; 0x36; 0x0a; 0x20].

Definition kMaskRandom43_32 : list Z :=
  [0x2c; 0x03; 0x20; 0x64; 0x0c; 0x80; 0x81; 0xa0; 0x1c; 0x03; 0x80; 0x60;
   0xa0; 0x68; 0x25; 0x04; 0xa0; 0x80; 0x05; 0x41; 0x50; 0x2a; 0x05; 0x40;
   0x18; 0x90; 0xc2; 0x18; 0x43; 0x00; 0xc2; 0x06; 0x80; 0xd0; 0x1a; 0x00;
   0x22; 0x98; 0x0b; 0x01; 0x60; 0x20; 0x50; 0x45; 0x08; 0xa1; 0x14; 0x20;
   0x46; 0x11; 0x92; 0x32; 0x46; 0x40; 0x33; 0x0c; 0xc9; 0x99; 0x33; 0x20;
   0x10; 0xe4; 0x64; 0x8c; 0x91; 0x80; 0x0c; 0x69; 0x0d; 0x21; 0xa4; 0x20;
   0x28; 0x94; 0x2a; 0x85; 0x50; 0xa0; 0x94; 0x21; 0x34; 0x26; 0x84; 0xc0;
   0xc1; 0x02; 0x58; 0x4b; 0x09; 0x60; 0x3b; 0xf5; 0x3c; 0x36; 0x0a; 0x20;
   0x46; 0x11; 0x92; 0x32; 0x46; 0x40; 0x33; 0x0c; 0xc9; 0x99; 0x33; 0x20;
   0x10; 0xe4; 0x64; 0x8c; 0x91; 0x80; 0x0c; 0x69; 0x0d; 0x21; 0xa4; 0x20;
   0x28; 0x94; 0x2a; 0x85; 0x50; 0xa0; 0x94; 0x21; 0x34; 0x26; 0x84; 0xc0;
   0xc1; 0x02; 0x58; 0x4b; 0x09; 0x60; 0x2c; 0x03; 0x20; 0x64; 0x0c; 0x80;
   0x81; 0xa0; 0x1c; 0x03; 0x80; 0x60; 0xa0; 0x68; 0x25; 0x04; 0xa0; 0x80;
   0x05; 0x41; 0x50; 0x2a; 0x05; 0x40; 0x18; 0x90; 0xc2; 0x18; 0x43; 0x00;
   0xc2; 0x06; 0x80; 0xd0; 0x1a; 0x00; 0x22; 0x98; 0x0b; 0x01; 0x60; 0x20;
   0x50; 0x45; 0x08; 0xa1; 0x14; 0x20; 0xd1; 0xd1; 0x11; 0xa4; 0xed; 0xc0].

Definition kMaskRandom43_33 : list Z :=
  [0x2c; 0x03; 0x20; 0x64; 0x0c; 0x80; 0x81; 0xa0; 0x1c; 0x03; 0x80; 0x60;
   0xa0; 0x68; 0x25; 0x04; 0xa0; 0x80; 0x05; 0x41; 0x50; 0x2a; 0x05; 0x40;
   0x18; 0x90; 0xc2; 0x18; 0x43; 0x00; 0xc2; 0x06; 0x80; 0xd0; 0x1a; 0x00;
   0x22; 0x98; 0x0b; 0x01; 0x60; 0x20; 0x50; 0x45; 0x08; 0xa1; 0x14; 0x20;
   0x46; 0x11; 0x92; 0x32; 0x46; 0x40; 0x33; 0x0c; 0xc9; 0x99; 0x33; 0x20;
   0x10; 0xe4; 0x64; 0x8c; 0x91; 0x80; 0x0c; 0x69; 0x0d; 0x21; 0xa4; 0x20;
   0x28; 0x94; 0x2a; 0x85; 0x50; 0xa0; 0x94; 0x21; 0x34; 0x26; 0x84; 0xc0;
   0xc1; 0x02; 0x58; 0x4b; 0x09; 0x60; 0x3b; 0xf5; 0x3c; 0x36; 0x0a; 0x20;
   0x2c; 0x03; 0x20; 0x64; 0x0c; 0x80; 0x81; 0xa0; 0x1c; 0x03; 0x80; 0x60;
   0xa0; 0x68; 0x25; 0x04; 0xa0; 0x80; 0x05; 0x41; 0x50; 0x2a; 0x05; 0x40;
   0x18; 0x90; 0xc2; 0x18; 0x43; 0x00; 0xc2; 0x06; 0x80; 0xd0; 0x1a; 0x00;
   0x22; 0x98; 0x0b; 0x01; 0x60; 0x20; 0x50; 0x45; 0x08; 0xa1; 0x14; 0x20;
   0x4e; 0x11; 0x92; 0x32; 0x46; 0x40; 0xe3; 0x18; 0x9b; 0x13; 0x62; 0x60;
   0x81; 0xe3; 0x04; 0x60; 0x8c; 0x00; 0x21; 0x40; 0x58; 0x0b; 0x01; 0x60;
   0x52; 0x81; 0xe0; 0x3c; 0x07; 0x80; 0xb4; 0x28; 0x25; 0x04; 0xa0; 0x80;
   0x26; 0x86; 0x28; 0xc5; 0x18; 0xa0; 0x58; 0x64; 0x44; 0x88; 0x91; 0x00;
   0x19; 0x9e; 0x03; 0xc0; 0x78; 0x00].

Definition kMaskRandom43_34 : list Z :=
  [0x2c; 0x03; 0x20; 0x64; 0x0c; 0x80; 0x81; 0xa0; 0x1c; 0x03; 0x80; 0x60;
   0xa0; 0x68; 0x25; 0x04; 0xa0; 0x80; 0x05; 0x41; 0x50; 0x2a; 0x05; 0x40;
   0x18; 0x90; 0xc2; 0x18; 0x43; 0x00; 0xc2; 0x06; 0x80; 0xd0; 0x1a; 0x00;
   0x22; 0x98; 0x0b; 0x01; 0x60; 0x20; 0x50; 0x45; 0x08; 0xa1; 0x14; 0x20;
   0x4e; 0x11; 0x92; 0x32; 0x46; 0x40; 0xe3; 0x18; 0x9b; 0x13; 0x62; 0x60;
   0x81; 0xe3; 0x04; 0x60; 0x8c; 0x00; 0x21; 0x40; 0x58; 0x0b; 0x01; 0x60;
   0x52; 0x81; 0xe0; 0x3c; 0x07; 0x80; 0xb4; 0x28; 0x25; 0x04; 0xa0; 0x80;
   0x26; 0x86; 0x28; 0xc5; 0x18; 0xa0; 0x58; 0x64; 0x44; 0x88; 0x91; 0x00;
   0x19; 0x9e; 0x03; 0xc0; 0x78; 0x00; 0x2c; 0x03; 0x20; 0x64; 0x0c; 0x80;
   0x81; 0xa0; 0x1c; 0x03; 0x80; 0x60; 0xa0; 0x68; 0x25; 0x04; 0xa0; 0x80;
   0x05; 0x41; 0x50; 0x2a; 0x05; 0x40; 0x18; 0x90; 0xc2; 0x18; 0x43; 0x00;
   0xc2; 0x06; 0x80; 0xd0; 0x1a; 0x00; 0x22; 0x98; 0x0b; 0x01; 0x60; 0x20;
   0x50; 0x45; 0x08; 0xa1; 0x14; 0x20; 0x46; 0x11; 0x92; 0x32; 0x46; 0x40;
   0x33; 0x0c; 0xc9; 0x99; 0x33; 0x20; 0x10; 0xe4; 0x64; 0x8c; 0x91; 0x80;
   0x0c; 0x69; 0x0d; 0x21; 0xa4; 0x20; 0x28; 0x94; 0x2a; 0x85; 0x50; 0xa0;
   0x94; 0x21; 0x34; 0x26; 0x84; 0xc0; 0xc1; 0x02; 0x58; 0x4b; 0x09; 0x60;
   0x3b; 0xf5; 0x3c; 0x36; 0x0a; 0x20; 0x76; 0x81; 0x4d; 0x33; 0x66; 0x00].

Definition kMaskRandom43_35 : list Z :=
  [0x2c; 0x03; 0x20; 0x64; 0x0c; 0x80; 0x81; 0xa0; 0x1c; 0x03; 0x80; 0x60;
   0xa0; 0x68; 0x25; 0x04; 0xa0; 0x80; 0x05; 0x41; 0x50; 0x2a; 0x05; 0x40;
   0x18; 0x90; 0xc2; 0x18; 0x43; 0x00; 0xc2; 0x06; 0x80; 0xd0; 0x1a; 0x00;
   0x22; 0x98; 0x0b; 0x01; 0x60; 0x20; 0x50; 0x45; 0x08; 0xa1; 0x14; 0x20;
   0x4e; 0x11; 0x92; 0x32; 0x46; 0x40; 0xe3; 0x18; 0x9b; 0x13; 0x62; 0x60;
   0x81; 0xe3; 0x04; 0x60; 0x8c; 0x00; 0x21; 0x40; 0x58; 0x0b; 0x01; 0x60;
   0x52; 0x81; 0xe0; 0x3c; 0x07; 0x80; 0xb4; 0x28; 0x25; 0x04; 0xa0; 0x80;
   0x26; 0x86; 0x28; 0xc5; 0x18; 0xa0; 0x58; 0x64; 0x44; 0x88; 0x91; 0x00;
   0x19; 0x9e; 0x03; 0xc0; 0x78; 0x00; 0x4e; 0x11; 0x92; 0x32; 0x46; 0x40;
   0xe3; 0x18; 0x9b; 0x13; 0x62; 0x60; 0x81; 0xe3; 0x04; 0x60; 0x8c; 0x00;
   0x21; 0x40; 0x58; 0x0b; 0x01; 0x60; 0x52; 0x81; 0xe0; 0x3c; 0x07; 0x80;
   0xb4; 0x28; 0x25; 0x04; 0xa0; 0x80; 0x26; 0x86; 0x28; 0xc5; 0x18; 0xa0;
   0x58; 0x64; 0x44; 0x88; 0x91; 0x00; 0x19; 0x9e; 0x03; 0xc0; 0x78; 0x00;
   0x2c; 0x03; 0x20; 0x64; 0x0c; 0x80; 0x81; 0xa0; 0x1c; 0x03; 0x80; 0x60;
   0xa0; 0x68; 0x25; 0x04; 0xa0; 0x80; 0x05; 0x41; 0x50; 0x2a; 0x05; 0x40;
   0x18; 0x90; 0xc2; 0x18; 0x43; 0x00; 0xc2; 0x06; 0x80; 0xd0; 0x1a; 0x00;
   0x22; 0x98; 0x0b; 0x01; 0x60; 0x20; 0x50; 0x45; 0x08; 0xa1; 0x14; 0x20;
   0x5a; 0x56; 0x5f; 0x26; 0xa3; 0x60].

Definition kMaskRandom43_36 : list Z :=
  [0x4e; 0x11; 0x92; 0x32; 0x46; 0x40; 0xe3; 0x18; 0x9b; 0x13; 0x62; 0x60;
   0x81; 0xe3; 0x04; 0x60; 0x8c; 0x00; 0x21; 0x40; 0x58; 0x0b; 0x01; 0x60;
   0x52; 0x81; 0xe0; 0x3c; 0x07; 0x80; 0xb4; 0x28; 0x25; 0x04; 0xa0; 0x80;
   0x26; 0x86; 0x28; 0xc5; 0x18; 0xa0; 0x58; 0x64; 0x44; 0x88; 0x91; 0x00;
   0x19; 0x9e; 0x03; 0xc0; 0x78; 0x00; 0x2c; 0x03; 0x20; 0x64; 0x0c; 0x80;
   0x81; 0xa0; 0x1c; 0x03; 0x80; 0x60; 0xa0; 0x68; 0x25; 0x04; 0xa0; 0x80;
   0x05; 0x41; 0x50; 0x2a; 0x05; 0x40; 0x18; 0x90; 0xc2; 0x18; 0x43; 0x00;
   0xc2; 0x06; 0x80; 0xd0; 0x1a; 0x00; 0x22; 0x98; 0x0b; 0x01; 0x60; 0x20;
   0x50; 0x45; 0x08; 0xa1; 0x14; 0x20; 0x5a; 0x56; 0x5f; 0x26; 0xa3; 0x60;
   0x2c; 0x03; 0x20; 0x64; 0x0c; 0x80; 0x81; 0xa0; 0x1c; 0x03; 0x80; 0x60;
   0xa0; 0x68; 0x25; 0x04; 0xa0; 0x80; 0x05; 0x41; 0x50; 0x2a; 0x05; 0x40;
   0x18; 0x90; 0xc2; 0x18; 0x43; 0x00; 0xc2; 0x06; 0x80; 0xd0; 0x1a; 0x00;
   0x22; 0x98; 0x0b; 0x01; 0x60; 0x20; 0x50; 0x45; 0x08; 0xa1; 0x14; 0x20;
   0x4e; 0x11; 0x92; 0x32; 0x46; 0x40; 0xe3; 0x18; 0x9b; 0x13; 0x62; 0x60;
   0x81; 0xe3; 0x04; 0x60; 0x8c; 0x00; 0x21; 0x40; 0x58; 0x0b; 0x01; 0x60;
   0x52; 0x81; 0xe0; 0x3c; 0x07; 0x80; 0xb4; 0x28; 0x25; 0x04; 0xa0; 0x80;
   0x26; 0x86; 0x28; 0xc5; 0x18; 0xa0; 0x58; 0x64; 0x44; 0x88; 0x91; 0x00;
   0x19; 0x9e; 0x03; 0xc0; 0x78; 0x00; 0xa3; 0x85; 0x0a; 0xb5; 0x11; 0x60].

Definition kMaskRandom43_37 : list Z :=
  [0x4e; 0x11; 0x92; 0x32; 0x46; 0x40; 0xe3; 0x18; 0x9b; 0x13; 0x62; 0x60;
   0x81; 0xe3; 0x04; 0x60; 0x8c; 0x00; 0x21; 0x40; 0x58; 0x0b; 0x01; 0x60;
   0x52; 0x81; 0xe0; 0x3c; 0x07; 0x80; 0xb4; 0x28; 0x25; 0x04; 0xa0; 0x80;
   0x26; 0x86; 0x28; 0xc5; 0x18; 0xa0; 0x58; 0x64; 0x44; 0x88; 0x91; 0x00;
   0x19; 0x9e; 0x03; 0xc0; 0x78; 0x00; 0x2c; 0x03; 0x20; 0x64; 0x0c; 0x80;
   0x81; 0xa0; 0x1c; 0x03; 0x80; 0x60; 0xa0; 0x68; 0x25; 0x04; 0xa0; 0x80;
   0x05; 0x41; 0x50; 0x2a; 0x05; 0x40; 0x18; 0x90; 0xc2; 0x18; 0x43; 0x00;
   0xc2; 0x06; 0x80; 0xd0; 0x1a; 0x00; 0x22; 0x98; 0x0b; 0x01; 0x60; 0x20;
   0x50; 0x45; 0x08; 0xa1; 0x14; 0x20; 0x5a; 0x56; 0x5f; 0x26; 0xa3; 0x60;
   0x4e; 0x11; 0x92; 0x32; 0x46; 0x40; 0xe3; 0x18; 0x9b; 0x13; 0x62; 0x60;
   0x81; 0xe3; 0x04; 0x60; 0x8c; 0x00; 0x21; 0x40; 0x58; 0x0b; 0x01; 0x60;
   0x52; 0x81; 0xe0; 0x3c; 0x07; 0x80; 0xb4; 0x28; 0x25; 0x04; 0xa0; 0x80;
   0x26; 0x86; 0x28; 0xc5; 0x18; 0xa0; 0x58; 0x64; 0x44; 0x88; 0x91; 0x00;
   0x19; 0x9e; 0x03; 0xc0; 0x78; 0x00; 0x4c; 0x19; 0x13; 0x22; 0x64; 0x40;
   0x51; 0x14; 0x52; 0x8a; 0x51; 0x40; 0xa0; 0x6a; 0x45; 0x48; 0xa9; 0x00;
   0x04; 0xc1; 0x30; 0x26; 0x04; 0xc0; 0x03; 0xb4; 0x06; 0x80; 0xd0; 0x00;
   0x86; 0x20; 0x94; 0x12; 0x82; 0x40; 0x29; 0x08; 0x49; 0x09; 0x21; 0x20;
   0x42; 0x43; 0x08; 0x61; 0x0c; 0x20; 0x98; 0x12; 0x82; 0x50; 0x4a; 0x00;
   0x30; 0x84; 0xa8; 0x95; 0x12; 0xa0].

Definition kMaskRandom43_38 : list Z :=
  [0x4e; 0x11; 0x92; 0x32; 0x46; 0x40; 0xe3; 0x18; 0x9b; 0x13; 0x62; 0x60;
   0x81; 0xe3; 0x04; 0x60; 0x8c; 0x00; 0x21; 0x40; 0x58; 0x0b; 0x01; 0x60;
   0x52; 0x81; 0xe0; 0x3c; 0x07; 0x80; 0xb4; 0x28; 0x25; 0x04; 0xa0; 0x80;
   0x26; 0x86; 0x28; 0xc5; 0x18; 0xa0; 0x58; 0x64; 0x44; 0x88; 0x91; 0x00;
   0x19; 0x9e; 0x03; 0xc0; 0x78; 0x00; 0x4c; 0x19; 0x13; 0x22; 0x64; 0x40;
   0x51; 0x14; 0x52; 0x8a; 0x51; 0x40; 0xa0; 0x6a; 0x45; 0x48; 0xa9; 0x00;
   0x04; 0xc1; 0x30; 0x26; 0x04; 0xc0; 0x03; 0xb4; 0x06; 0x80; 0xd0; 0x00;
   0x86; 0x20; 0x94; 0x12; 0x82; 0x40; 0x29; 0x08; 0x49; 0x09; 0x21; 0x20;
   0x42; 0x43; 0x08; 0x61; 0x0c; 0x20; 0x98; 0x12; 0x82; 0x50; 0x4a; 0x00;
   0x30; 0x84; 0xa8; 0x95; 0x12; 0xa0; 0x4e; 0x11; 0x92; 0x32; 0x46; 0x40;
   0xe3; 0x18; 0x9b; 0x13; 0x62; 0x60; 0x81; 0xe3; 0x04; 0x60; 0x8c; 0x00;
   0x21; 0x40; 0x58; 0x0b; 0x01; 0x60; 0x52; 0x81; 0xe0; 0x3c; 0x07; 0x80;
   0xb4; 0x28; 0x25; 0x04; 0xa0; 0x80; 0x26; 0x86; 0x28; 0xc5; 0x18; 0xa0;
   0x58; 0x64; 0x44; 0x88; 0x91; 0x00; 0x19; 0x9e; 0x03; 0xc0; 0x78; 0x00;
   0x2c; 0x03; 0x20; 0x64; 0x0c; 0x80; 0x81; 0xa0; 0x1c; 0x03; 0x80; 0x60;
   0xa0; 0x68; 0x25; 0x04; 0xa0; 0x80; 0x05; 0x41; 0x50; 0x2a; 0x05; 0x40;
   0x18; 0x90; 0xc2; 0x18; 0x43; 0x00; 0xc2; 0x06; 0x80; 0xd0; 0x1a; 0x00;
   0x22; 0x98; 0x0b; 0x01; 0x60; 0x20; 0x50; 0x45; 0x08; 0xa1; 0x14; 0x20;
   0x5a; 0x56; 0x5f; 0x26; 0xa3; 0x60; 0x9a; 0x16; 0x97; 0x21; 0xb9; 0x80].

Definition kMaskRandom43_39 : list Z :=
  [0x4e; 0x11; 0x92; 0x32; 0x46; 0x40; 0xe3; 0x18; 0x9b; 0x13; 0x62; 0x60;
   0x81; 0xe3; 0x04; 0x60; 0x8c; 0x00; 0x21; 0x40; 0x58; 0x0b; 0x01; 0x60;
   0x52; 0x81; 0xe0; 0x3c; 0x07; 0x80; 0xb4; 0x28; 0x25; 0x04; 0xa0; 0x80;
   0x26; 0x86; 0x28; 0xc5; 0x18; 0xa0; 0x58; 0x64; 0x44; 0x88; 0x91; 0x00;
   0x19; 0x9e; 0x03; 0xc0; 0x78; 0x00; 0x4c; 0x19; 0x13; 0x22; 0x64; 0x40;
   0x51; 0x14; 0x52; 0x8a; 0x51; 0x40; 0xa0; 0x6a; 0x45; 0x48; 0xa9; 0x00;
   0x04; 0xc1; 0x30; 0x26; 0x04; 0xc0; 0x03; 0xb4; 0x06; 0x80; 0xd0; 0x00;
   0x86; 0x20; 0x94; 0x12; 0x82; 0x40; 0x29; 0x08; 0x49; 0x09; 0x21; 0x20;
   0x42; 0x43; 0x08; 0x61; 0x0c; 0x20; 0x98; 0x12; 0x82; 0x50; 0x4a; 0x00;
   0x30; 0x84; 0xa8; 0x95; 0x12; 0xa0; 0x4c; 0x19; 0x13; 0x22; 0x64; 0x40;
   0x51; 0x14; 0x52; 0x8a; 0x51; 0x40; 0xa0; 0x6a; 0x45; 0x48; 0xa9; 0x00;
   0x04; 0xc1; 0x30; 0x26; 0x04; 0xc0; 0x03; 0xb4; 0x06; 0x80; 0xd0; 0x00;
   0x86; 0x20; 0x94; 0x12; 0x82; 0x40; 0x29; 0x08; 0x49; 0x09; 0x21; 0x20;
   0x42; 0x43; 0x08; 0x61; 0x0c; 0x20; 0x98; 0x12; 0x82; 0x50; 0x4a; 0x00;
   0x30; 0x84; 0xa8; 0x95; 0x12; 0xa0; 0x4e; 0x11; 0x92; 0x32; 0x46; 0x40;
   0xe3; 0x18; 0x9b; 0x13; 0x62; 0x60; 0x81; 0xe3; 0x04; 0x60; 0x8c; 0x00;
   0x21; 0x40; 0x58; 0x0b; 0x01; 0x60; 0x52; 0x81; 0xe0; 0x3c; 0x07; 0x80;
   0xb4; 0x28; 0x25; 0x04; 0xa0; 0x80; 0x26; 0x86; 0x28; 0xc5; 0x18; 0xa0;
   0x58; 0x64; 0x44; 0x88; 0x91; 0x00; 0x19; 0x9e; 0x03; 0xc0; 0x78; 0x00;
   0x2a; 0x03; 0x31; 0xda; 0x46; 0x20].

Definition kMaskRandom43_40 : list Z :=
  [0x4c; 0x19; 0x13; 0x22; 0x64; 0x40; 0x51; 0x14; 0x52; 0x8a; 0x51; 0x40;
   0xa0; 0x6a; 0x45; 0x48; 0xa9; 0x00; 0x04; 0xc1; 0x30; 0x26; 0x04; 0xc0;
   0x03; 0xb4; 0x06; 0x80; 0xd0; 0x00; 0x86; 0x20; 0x94; 0x12; 0x82; 0x40;
   0x29; 0x08; 0x49; 0x09; 0x21; 0x20; 0x42; 0x43; 0x08; 0x61; 0x0c; 0x20;
   0x98; 0x12; 0x82; 0x50; 0x4a; 0x00; 0x30; 0x84; 0xa8; 0x95; 0x12; 0xa0;
   0x4e; 0x11; 0x92; 0x32; 0x46; 0x40; 0xe3; 0x18; 0x9b; 0x13; 0x62; 0x60;
   0x81; 0xe3; 0x04; 0x60; 0x8c; 0x00; 0x21; 0x40; 0x58; 0x0b; 0x01; 0x60;
   0x52; 0x81; 0xe0; 0x3c; 0x07; 0x80; 0xb4; 0x28; 0x25; 0x04; 0xa0; 0x80;
   0x26; 0x86; 0x28; 0xc5; 0x18; 0xa0; 0x58; 0x64; 0x44; 0x88; 0x91; 0x00;
   0x19; 0x9e; 0x03; 0xc0; 0x78; 0x00; 0x2a; 0x03; 0x31; 0xda; 0x46; 0x20;
   0x4e; 0x11; 0x92; 0x32; 0x46; 0x40; 0xe3; 0x18; 0x9b; 0x13; 0x62; 0x60;
   0x81; 0xe3; 0x04; 0x60; 0x8c; 0x00; 0x21; 0x40; 0x58; 0x0b; 0x01; 0x60;
   0x52; 0x81; 0xe0; 0x3c; 0x07; 0x80; 0xb4; 0x28; 0x25; 0x04; 0xa0; 0x80;
   0x26; 0x86; 0x28; 0xc5; 0x18; 0xa0; 0x58; 0x64; 0x44; 0x88; 0x91; 0x00;
   0x19; 0x9e; 0x03; 0xc0; 0x78; 0x00; 0x4c; 0x19; 0x13; 0x22; 0x64; 0x40;
   0x51; 0x14; 0x52; 0x8a; 0x51; 0x40; 0xa0; 0x6a; 0x45; 0x48; 0xa9; 0x00;
   0x04; 0xc1; 0x30; 0x26; 0x04; 0xc0; 0x03; 0xb4; 0x06; 0x80; 0xd0; 0x00;
   0x86; 0x20; 0x94; 0x12; 0x82; 0x40; 0x29; 0x08; 0x49; 0x09; 0x21; 0x20;
   0x42; 0x43; 0x08; 0x61; 0x0c; 0x20; 0x98; 0x12; 0x82; 0x50; 0x4a; 0x00;
   0x30; 0x84; 0xa8; 0x95; 0x12; 0xa0; 0x3a; 0xab; 0x77; 0x63; 0xef; 0x60].

Definition kMaskRandom43_41 : list Z :=
  [0x4c; 0x19; 0x13; 0x22; 0x64; 0x40; 0x51; 0x14; 0x52; 0x8a; 0x51; 0x40;
   0xa0; 0x6a; 0x45; 0x48; 0xa9; 0x00; 0x04; 0xc1; 0x30; 0x26; 0x04; 0xc0;
   0x03; 0xb4; 0x06; 0x80; 0xd0; 0x00; 0x86; 0x20; 0x94; 0x12; 0x82; 0x40;
   0x29; 0x08; 0x49; 0x09; 0x21; 0x20; 0x42; 0x43; 0x08; 0x61; 0x0c; 0x20;
   0x98; 0x12; 0x82; 0x50; 0x4a; 0x00; 0x30; 0x84; 0xa8; 0x95; 0x12; 0xa0;
   0x4e; 0x11; 0x92; 0x32; 0x46; 0x40; 0xe3; 0x18; 0x9b; 0x13; 0x62; 0x60;
   0x81; 0xe3; 0x04; 0x60; 0x8c; 0x00; 0x21; 0x40; 0x58; 0x0b; 0x01; 0x60;
   0x52; 0x81; 0xe0; 0x3c; 0x07; 0x80; 0xb4; 0x28; 0x25; 0x04; 0xa0; 0x80;
   0x26; 0x86; 0x28; 0xc5; 0x18; 0xa0; 0x58; 0x64; 0x44; 0x88; 0x91; 0x00;
   0x19; 0x9e; 0x03; 0xc0; 0x78; 0x00; 0x2a; 0x03; 0x31; 0xda; 0x46; 0x20;
   0x4c; 0x19; 0x13; 0x22; 0x64; 0x40; 0x51; 0x14; 0x52; 0x8a; 0x51; 0x40;
   0xa0; 0x6a; 0x45; 0x48; 0xa9; 0x00; 0x04; 0xc1; 0x30; 0x26; 0x04; 0xc0;
   0x03; 0xb4; 0x06; 0x80; 0xd0; 0x00; 0x86; 0x20; 0x94; 0x12; 0x82; 0x40;
   0x29; 0x08; 0x49; 0x09; 0x21; 0x20; 0x42; 0x43; 0x08; 0x61; 0x0c; 0x20;
   0x98; 0x12; 0x82; 0x50; 0x4a; 0x00; 0x30; 0x84; 0xa8; 0x95; 0x12; 0xa0;
   0x4c; 0x11; 0x92; 0x32; 0x46; 0x40; 0x51; 0x0c; 0xc9; 0x99; 0x33; 0x20;
   0xa0; 0x66; 0x44; 0xc8; 0x99; 0x00; 0x04; 0xc1; 0x60; 0x2c; 0x05; 0x80;
   0x03; 0xa0; 0x2c; 0x05; 0x80; 0xa0; 0x86; 0x21; 0x14; 0x22; 0x84; 0x40;
   0x29; 0x10; 0x1a; 0x03; 0x40; 0x60; 0x42; 0x42; 0xa0; 0x54; 0x0a; 0x80;
   0x98; 0x1a; 0x03; 0x40; 0x68; 0x00; 0x30; 0x84; 0x08; 0x81; 0x10; 0x20;
   0xdf; 0x4c; 0x11; 0x82; 0x30; 0x40].

Definition kMaskRandom43_42 : list Z :=
  [0x4c; 0x19; 0x13; 0x22; 0x64; 0x40; 0x51; 0x14; 0x52; 0x8a; 0x51; 0x40;
   0xa0; 0x6a; 0x45; 0x48; 0xa9; 0x00; 0x04; 0xc1; 0x30; 0x26; 0x04; 0xc0;
   0x03; 0xb4; 0x06; 0x80; 0xd0; 0x00; 0x86; 0x20; 0x94; 0x12; 0x82; 0x40;
   0x29; 0x08; 0x49; 0x09; 0x21; 0x20; 0x42; 0x43; 0x08; 0x61; 0x0c; 0x20;
   0x98; 0x12; 0x82; 0x50; 0x4a; 0x00; 0x30; 0x84; 0xa8; 0x95; 0x12; 0xa0;
   0x4c; 0x11; 0x92; 0x32; 0x46; 0x40; 0x51; 0x0c; 0xc9; 0x99; 0x33; 0x20;
   0xa0; 0x66; 0x44; 0xc8; 0x99; 0x00; 0x04; 0xc1; 0x60; 0x2c; 0x05; 0x80;
   0x03; 0xa0; 0x2c; 0x05; 0x80; 0xa0; 0x86; 0x21; 0x14; 0x22; 0x84; 0x40;
   0x29; 0x10; 0x1a; 0x03; 0x40; 0x60; 0x42; 0x42; 0xa0; 0x54; 0x0a; 0x80;
   0x98; 0x1a; 0x03; 0x40; 0x68; 0x00; 0x30; 0x84; 0x08; 0x81; 0x10; 0x20;
   0xdf; 0x4c; 0x11; 0x82; 0x30; 0x40; 0x4c; 0x19; 0x13; 0x22; 0x64; 0x40;
   0x51; 0x14; 0x52; 0x8a; 0x51; 0x40; 0xa0; 0x6a; 0x45; 0x48; 0xa9; 0x00;
   0x04; 0xc1; 0x30; 0x26; 0x04; 0xc0; 0x03; 0xb4; 0x06; 0x80; 0xd0; 0x00;
   0x86; 0x20; 0x94; 0x12; 0x82; 0x40; 0x29; 0x08; 0x49; 0x09; 0x21; 0x20;
   0x42; 0x43; 0x08; 0x61; 0x0c; 0x20; 0x98; 0x12; 0x82; 0x50; 0x4a; 0x00;
   0x30; 0x84; 0xa8; 0x95; 0x12; 0xa0; 0x4e; 0x11; 0x92; 0x32; 0x46; 0x40;
   0xe3; 0x18; 0x9b; 0x13; 0x62; 0x60; 0x81; 0xe3; 0x04; 0x60; 0x8c; 0x00;
   0x21; 0x40; 0x58; 0x0b; 0x01; 0x60; 0x52; 0x81; 0xe0; 0x3c; 0x07; 0x80;
   0xb4; 0x28; 0x25; 0x04; 0xa0; 0x80; 0x26; 0x86; 0x28; 0xc5; 0x18; 0xa0;
   0x58; 0x64; 0x44; 0x88; 0x91; 0x00; 0x19; 0x9e; 0x03; 0xc0; 0x78; 0x00;
   0x2a; 0x03; 0x31; 0xda; 0x46; 0x20; 0x26; 0x84; 0x10; 0xcd; 0xf7; 0x60].

Definition kMaskRandom43_43 : list Z :=
  [0x4c; 0x19; 0x13; 0x22; 0x64; 0x40; 0x51; 0x14; 0x52; 0x8a; 0x51; 0x40;
   0xa0; 0x6a; 0x45; 0x48; 0xa9; 0x00; 0x04; 0xc1; 0x30; 0x26; 0x04; 0xc0;
   0x03; 0xb4; 0x06; 0x80; 0xd0; 0x00; 0x86; 0x20; 0x94; 0x12; 0x82; 0x40;
   0x29; 0x08; 0x49; 0x09; 0x21; 0x20; 0x42; 0x43; 0x08; 0x61; 0x0c; 0x20;
   0x98; 0x12; 0x82; 0x50; 0x4a; 0x00; 0x30; 0x84; 0xa8; 0x95; 0x12; 0xa0;
   0x4c; 0x11; 0x92; 0x32; 0x46; 0x40; 0x51; 0x0c; 0xc9; 0x99; 0x33; 0x20;
   0xa0; 0x66; 0x44; 0xc8; 0x99; 0x00; 0x04; 0xc1; 0x60; 0x2c; 0x05; 0x80;
   0x03; 0xa0; 0x2c; 0x05; 0x80; 0xa0; 0x86; 0x21; 0x14; 0x22; 0x84; 0x40;
   0x29; 0x10; 0x1a; 0x03; 0x40; 0x60; 0x42; 0x42; 0xa0; 0x54; 0x0a; 0x80;
   0x98; 0x1a; 0x03; 0x40; 0x68; 0x00; 0x30; 0x84; 0x08; 0x81; 0x10; 0x20;
   0xdf; 0x4c; 0x11; 0x82; 0x30; 0x40; 0x4c; 0x19; 0x12; 0x32; 0x46; 0x40;
   0x51; 0x14; 0x51; 0x99; 0x33; 0x20; 0xa0; 0x6a; 0x44; 0xc8; 0x99; 0x00;
   0x04; 0xc1; 0x30; 0x2c; 0x05; 0x80; 0x03; 0xb4; 0x04; 0x05; 0x80; 0xa0;
   0x86; 0x20; 0x94; 0x22; 0x84; 0x40; 0x29; 0x08; 0x4a; 0x03; 0x40; 0x60;
   0x42; 0x43; 0x08; 0x54; 0x0a; 0x80; 0x98; 0x12; 0x83; 0x40; 0x68; 0x00;
   0x30; 0x84; 0xa8; 0x81; 0x10; 0x20; 0x4c; 0x11; 0x91; 0x82; 0x30; 0x40;
   0x51; 0x0c; 0xcb; 0x22; 0x64; 0x40; 0xa0; 0x66; 0x42; 0x8a; 0x51; 0x40;
   0x04; 0xc1; 0x65; 0x48; 0xa9; 0x00; 0x03; 0xa0; 0x28; 0x26; 0x04; 0xc0;
   0x86; 0x21; 0x16; 0x80; 0xd0; 0x00; 0x29; 0x10; 0x1c; 0x12; 0x82; 0x40;
   0x42; 0x42; 0xa1; 0x09; 0x21; 0x20; 0x98; 0x1a; 0x00; 0x61; 0x0c; 0x20;
   0x30; 0x84; 0x0a; 0x50; 0x4a; 0x00; 0xdf; 0x4c; 0x10; 0x95; 0x12; 0xa0;
   0x72; 0x06; 0x94; 0xf6; 0x74; 0x40].

Definition kMaskRandom44_1 : list Z :=
  [0xff; 0xff; 0xff; 0xff; 0xff; 0xf0].

Definition kMaskRandom44_2 : list Z :=
  [0xec; 0xdd; 0x9b; 0xb3; 0x76; 0x60; 0x9b; 0xb3; 0x76; 0x6e; 0xcd; 0xd0].

Definition kMaskRandom44_3 : list Z :=
  [0xca; 0xd9; 0x5b; 0x2b; 0x65; 0x60; 0xf1; 0x5e; 0x2b; 0xc5; 0x78; 0xa0;
   0xb6; 0x35; 0xc6; 0xd8; 0xd7; 0x10].

Definition kMaskRandom44_4 : list Z :=
  [0xc4; 0xd8; 0x9b; 0x13; 0x62; 0x60; 0x31; 0x66; 0x2c; 0xc5; 0x98; 0xb0;
   0x4b; 0x29; 0x65; 0x2c; 0xa5; 0x90; 0x2c; 0xa5; 0x94; 0xb2; 0x96; 0x50].

Definition kMaskRandom44_5 : list Z :=
  [0xc6; 0xd8; 0xdb; 0x1b; 0x63; 0x60; 0x63; 0x6c; 0x6d; 0x8d; 0xb1; 0xb0;
   0x1d; 0xa3; 0xb4; 0x76; 0x8e; 0xd0; 0xad; 0x55; 0xaa; 0xb5; 0x56; 0xa0;
   0xb2; 0xb6; 0x56; 0xca; 0xd9; 0x50].

Definition kMaskRandom44_6 : list Z :=
  [0x64; 0x4c; 0x89; 0x91; 0x32; 0x20; 0x51; 0x4a; 0x29; 0x45; 0x28; 0xa0;
   0xa8; 0x35; 0x06; 0xa0; 0xd4; 0x10; 0xc4; 0xa0; 0x97; 0x12; 0x82; 0x50;
   0x03; 0x60; 0x6c; 0x0d; 0x81; 0xb0; 0x90; 0xd2; 0x1a; 0x43; 0x48; 0x60].

Definition kMaskRandom44_7 : list Z :=
  [0xc6; 0x48; 0xcb; 0x19; 0x23; 0x20; 0x13; 0x26; 0x64; 0x4c; 0x99; 0x90;
   0x8d; 0x13; 0xa2; 0x34; 0x4e; 0x80; 0x8b; 0x41; 0x6a; 0x2d; 0x05; 0xa0;
   0x52; 0xaa; 0x15; 0x4a; 0xa8; 0x50; 0xa2; 0xd4; 0x1a; 0x8b; 0x50; 0x60;
   0x61; 0xa8; 0x2d; 0x86; 0xa0; 0xb0].

Definition kMaskRandom44_8 : list Z :=
  [0x28; 0x85; 0x38; 0xa2; 0x14; 0xe0; 0x21; 0xf4; 0x04; 0x87; 0xd0; 0x10;
   0xe9; 0x1d; 0x03; 0xa4; 0x74; 0x00; 0x17; 0x02; 0xe0; 0x5c; 0x0b; 0x80;
   0x83; 0xa0; 0x56; 0x0e; 0x81; 0x50; 0x46; 0x18; 0xe9; 0x18; 0x63; 0xa0;
   0x50; 0x6a; 0x0d; 0x41; 0xa8; 0x30; 0x1c; 0x23; 0x84; 0x70; 0x8e; 0x10].

Definition kMaskRandom44_9 : list Z :=
  [0x44; 0x48; 0xc9; 0x11; 0x23; 0x20; 0x28; 0x2d; 0x0c; 0xa0; 0xb4; 0x30;
   0x25; 0x14; 0xa0; 0x94; 0x52; 0x80; 0x59; 0x0a; 0x21; 0x64; 0x28; 0x80;
   0x03; 0xa0; 0x34; 0x0e; 0x80; 0xd0; 0xc0; 0xd0; 0x1b; 0x03; 0x40; 0x60;
   0xa2; 0x30; 0x46; 0x88; 0xc1; 0x10; 0x14; 0x82; 0xd0; 0x52; 0x0b; 0x40;
   0x9a; 0x03; 0x82; 0x68; 0x0e; 0x00].

Definition kMaskRandom44_10 : list Z :=
  [0xc0; 0x38; 0x8b; 0x00; 0xe2; 0x20; 0x30; 0x0e; 0x28; 0xc0; 0x38; 0xa0;
   0xe8; 0x07; 0x03; 0xa0; 0x1c; 0x00; 0x85; 0x08; 0xaa; 0x14; 0x22; 0xa0;
   0xd0; 0x92; 0x13; 0x42; 0x48; 0x40; 0x86; 0x50; 0x4a; 0x19; 0x41; 0x20;
   0x4a; 0x68; 0x0d; 0x29; 0xa0; 0x30; 0x01; 0xa0; 0x74; 0x06; 0x81; 0xd0;
   0x4c; 0x81; 0x91; 0x32; 0x06; 0x40; 0x62; 0x24; 0x05; 0x88; 0x90; 0x10].

Definition kMaskRandom44_11 : list Z :=
  [0x46; 0x48; 0xc9; 0x19; 0x23; 0x20; 0x33; 0x26; 0x64; 0xcc; 0x99; 0x90;
   0x99; 0x13; 0x22; 0x64; 0x4c; 0x80; 0x05; 0x80; 0xb0; 0x16; 0x02; 0xc0;
   0x80; 0xb0; 0x16; 0x02; 0xc0; 0x50; 0x84; 0x50; 0x8a; 0x11; 0x42; 0x20;
   0x40; 0x68; 0x0d; 0x01; 0xa0; 0x30; 0x0a; 0x81; 0x50; 0x2a; 0x05; 0x40;
   0x68; 0x0d; 0x01; 0xa0; 0x34; 0x00; 0x10; 0x22; 0x04; 0x40; 0x88; 0x10;
   0x30; 0x46; 0x08; 0xc1; 0x18; 0x20].

Definition kMaskRandom44_12 : list Z :=
  [0x64; 0x4c; 0x89; 0x91; 0x32; 0x20; 0x51; 0x4a; 0x29; 0x45; 0x28; 0xa0;
   0x0c; 0xa1; 0x94; 0x32; 0x86; 0x50; 0xa1; 0x34; 0x26; 0x84; 0xd0; 0x90;
   0x12; 0xa2; 0x54; 0x4a; 0x89; 0x50; 0x8a; 0x51; 0x4a; 0x29; 0x45; 0x20;
   0x86; 0x90; 0xd2; 0x1a; 0x43; 0x40; 0x23; 0x24; 0x64; 0x8c; 0x91; 0x90;
   0x16; 0x22; 0xc4; 0x58; 0x8b; 0x10; 0x4c; 0x29; 0x85; 0x30; 0xa6; 0x10;
   0x41; 0xc8; 0x39; 0x07; 0x20; 0xe0; 0xf4; 0x18; 0x9f; 0xd0; 0x62; 0x70].

Definition kMaskRandom44_13 : list Z :=
  [0x64; 0x4c; 0x89; 0x91; 0x32; 0x20; 0x51; 0x4a; 0x29; 0x45; 0x28; 0xa0;
   0x0c; 0xa1; 0x94; 0x32; 0x86; 0x50; 0xa1; 0x34; 0x26; 0x84; 0xd0; 0x90;
   0x12; 0xa2; 0x54; 0x4a; 0x89; 0x50; 0x8a; 0x51; 0x4a; 0x29; 0x45; 0x20;
   0x46; 0x48; 0xc9; 0x19; 0x23; 0x20; 0x33; 0x26; 0x64; 0xcc; 0x99; 0x90;
   0x91; 0x92; 0x32; 0x46; 0x48; 0xc0; 0xa4; 0x34; 0x86; 0x90; 0xd2; 0x10;
   0x50; 0xaa; 0x15; 0x42; 0xa8; 0x50; 0x84; 0xd0; 0x9a; 0x13; 0x42; 0x60;
   0x09; 0x61; 0x2c; 0x25; 0x84; 0xb0].

Definition kMaskRandom44_14 : list Z :=
  [0x46; 0x48; 0xc9; 0x19; 0x23; 0x20; 0x33; 0x26; 0x64; 0xcc; 0x99; 0x90;
   0x91; 0x92; 0x32; 0x46; 0x48; 0xc0; 0xa4; 0x34; 0x86; 0x90; 0xd2; 0x10;
   0x50; 0xaa; 0x15; 0x42; 0xa8; 0x50; 0x84; 0xd0; 0x9a; 0x13; 0x42; 0x60;
   0x09; 0x61; 0x2c; 0x25; 0x84; 0xb0; 0x64; 0x4c; 0x89; 0x91; 0x32; 0x20;
   0x51; 0x4a; 0x29; 0x45; 0x28; 0xa0; 0x0c; 0xa1; 0x94; 0x32; 0x86; 0x50;
   0xa1; 0x34; 0x26; 0x84; 0xd0; 0x90; 0x12; 0xa2; 0x54; 0x4a; 0x89; 0x50;
   0x8a; 0x51; 0x4a; 0x29; 0x45; 0x20; 0xc6; 0xca; 0xeb; 0x1b; 0x2b; 0xa0].

Definition kMaskRandom44_15 : list Z :=
  [0x46; 0x48; 0xc9; 0x19; 0x23; 0x20; 0x33; 0x26; 0x64; 0xcc; 0x99; 0x90;
   0x91; 0x92; 0x32; 0x46; 0x48; 0xc0; 0xa4; 0x34; 0x86; 0x90; 0xd2; 0x10;
   0x50; 0xaa; 0x15; 0x42; 0xa8; 0x50; 0x84; 0xd0; 0x9a; 0x13; 0x42; 0x60;
   0x09; 0x61; 0x2c; 0x25; 0x84; 0xb0; 0x0c; 0x81; 0x90; 0x32; 0x06; 0x40;
   0x80; 0x70; 0x0e; 0x01; 0xc0; 0x30; 0xa0; 0x94; 0x12; 0x82; 0x50; 0x40;
   0x05; 0x40; 0xa8; 0x15; 0x02; 0xa0; 0x43; 0x08; 0x61; 0x0c; 0x21; 0x80;
   0x1a; 0x03; 0x40; 0x68; 0x0d; 0x00; 0x60; 0x2c; 0x05; 0x80; 0xb0; 0x10;
   0x14; 0x22; 0x84; 0x50; 0x8a; 0x10].

Definition kMaskRandom44_16 : list Z :=
  [0x0c; 0x81; 0x90; 0x32; 0x06; 0x40; 0x80; 0x70; 0x0e; 0x01; 0xc0; 0x30;
   0xa0; 0x94; 0x12; 0x82; 0x50; 0x40; 0x05; 0x40; 0xa8; 0x15; 0x02; 0xa0;
   0x43; 0x08; 0x61; 0x0c; 0x21; 0x80; 0x1a; 0x03; 0x40; 0x68; 0x0d; 0x00;
   0x60; 0x2c; 0x05; 0x80; 0xb0; 0x10; 0x14; 0x22; 0x84; 0x50; 0x8a; 0x10;
   0x46; 0x48; 0xc9; 0x19; 0x23; 0x20; 0x33; 0x26; 0x64; 0xcc; 0x99; 0x90;
   0x91; 0x92; 0x32; 0x46; 0x48; 0xc0; 0xa4; 0x34; 0x86; 0x90; 0xd2; 0x10;
   0x50; 0xaa; 0x15; 0x42; 0xa8; 0x50; 0x84; 0xd0; 0x9a; 0x13; 0x42; 0x60;
   0x09; 0x61; 0x2c; 0x25; 0x84; 0xb0; 0x86; 0xc1; 0x46; 0x1b; 0x05; 0x10].

Definition kMaskRandom44_17 : list Z :=
  [0x0c; 0x81; 0x90; 0x32; 0x06; 0x40; 0x80; 0x70; 0x0e; 0x01; 0xc0; 0x30;
   0xa0; 0x94; 0x12; 0x82; 0x50; 0x40; 0x05; 0x40; 0xa8; 0x15; 0x02; 0xa0;
   0x43; 0x08; 0x61; 0x0c; 0x21; 0x80; 0x1a; 0x03; 0x40; 0x68; 0x0d; 0x00;
   0x60; 0x2c; 0x05; 0x80; 0xb0; 0x10; 0x14; 0x22; 0x84; 0x50; 0x8a; 0x10;
   0x46; 0x48; 0xc9; 0x19; 0x23; 0x20; 0x62; 0x6c; 0x4d; 0x89; 0xb1; 0x30;
   0x8c; 0x11; 0x82; 0x30; 0x46; 0x00; 0x01; 0x60; 0x2c; 0x05; 0x80; 0xb0;
   0x07; 0x80; 0xf0; 0x1e; 0x03; 0xc0; 0xa0; 0x94; 0x12; 0x82; 0x50; 0x40;
   0x18; 0xa3; 0x14; 0x62; 0x8c; 0x50; 0x91; 0x12; 0x22; 0x44; 0x48; 0x80;
   0x78; 0x0f; 0x01; 0xe0; 0x3c; 0x00].

Definition kMaskRandom44_18 : list Z :=
  [0x46; 0x48; 0xc9; 0x19; 0x23; 0x20; 0x62; 0x6c; 0x4d; 0x89; 0xb1; 0x30;
   0x8c; 0x11; 0x82; 0x30; 0x46; 0x00; 0x01; 0x60; 0x2c; 0x05; 0x80; 0xb0;
   0x07; 0x80; 0xf0; 0x1e; 0x03; 0xc0; 0xa0; 0x94; 0x12; 0x82; 0x50; 0x40;
   0x18; 0xa3; 0x14; 0x62; 0x8c; 0x50; 0x91; 0x12; 0x22; 0x44; 0x48; 0x80;
   0x78; 0x0f; 0x01; 0xe0; 0x3c; 0x00; 0x0c; 0x81; 0x90; 0x32; 0x06; 0x40;
   0x80; 0x70; 0x0e; 0x01; 0xc0; 0x30; 0xa0; 0x94; 0x12; 0x82; 0x50; 0x40;
   0x05; 0x40; 0xa8; 0x15; 0x02; 0xa0; 0x43; 0x08; 0x61; 0x0c; 0x21; 0x80;
   0x1a; 0x03; 0x40; 0x68; 0x0d; 0x00; 0x60; 0x2c; 0x05; 0x80; 0xb0; 0x10;
   0x14; 0x22; 0x84; 0x50; 0x8a; 0x10; 0xe4; 0xd4; 0x6f; 0x93; 0x51; 0xb0].

Definition kMaskRandom44_19 : list Z :=
  [0x46; 0x48; 0xc9; 0x19; 0x23; 0x20; 0x62; 0x6c; 0x4d; 0x89; 0xb1; 0x30;
   0x8c; 0x11; 0x82; 0x30; 0x46; 0x00; 0x01; 0x60; 0x2c; 0x05; 0x80; 0xb0;
   0x07; 0x80; 0xf0; 0x1e; 0x03; 0xc0; 0xa0; 0x94; 0x12; 0x82; 0x50; 0x40;
   0x18; 0xa3; 0x14; 0x62; 0x8c; 0x50; 0x91; 0x12; 0x22; 0x44; 0x48; 0x80;
   0x78; 0x0f; 0x01; 0xe0; 0x3c; 0x00; 0x64; 0x4c; 0x89; 0x91; 0x32; 0x20;
   0x51; 0x4a; 0x29; 0x45; 0x28; 0xa0; 0xa9; 0x15; 0x22; 0xa4; 0x54; 0x80;
   0x04; 0xc0; 0x98; 0x13; 0x02; 0x60; 0xd0; 0x1a; 0x03; 0x40; 0x68; 0x00;
   0x82; 0x50; 0x4a; 0x09; 0x41; 0x20; 0x21; 0x24; 0x24; 0x84; 0x90; 0x90;
   0x0c; 0x21; 0x84; 0x30; 0x86; 0x10; 0x4a; 0x09; 0x41; 0x28; 0x25; 0x00;
   0x12; 0xa2; 0x54; 0x4a; 0x89; 0x50].

Definition kMaskRandom44_20 : list Z :=
  [0x64; 0x4c; 0x89; 0x91; 0x32; 0x20; 0x51; 0x4a; 0x29; 0x45; 0x28; 0xa0;
   0xa9; 0x15; 0x22; 0xa4; 0x54; 0x80; 0x04; 0xc0; 0x98; 0x13; 0x02; 0x60;
   0xd0; 0x1a; 0x03; 0x40; 0x68; 0x00; 0x82; 0x50; 0x4a; 0x09; 0x41; 0x20;
   0x21; 0x24; 0x24; 0x84; 0x90; 0x90; 0x0c; 0x21; 0x84; 0x30; 0x86; 0x10;
   0x4a; 0x09; 0x41; 0x28; 0x25; 0x00; 0x12; 0xa2; 0x54; 0x4a; 0x89; 0x50;
   0x46; 0x48; 0xc9; 0x19; 0x23; 0x20; 0x62; 0x6c; 0x4d; 0x89; 0xb1; 0x30;
   0x8c; 0x11; 0x82; 0x30; 0x46; 0x00; 0x01; 0x60; 0x2c; 0x05; 0x80; 0xb0;
   0x07; 0x80; 0xf0; 0x1e; 0x03; 0xc0; 0xa0; 0x94; 0x12; 0x82; 0x50; 0x40;
   0x18; 0xa3; 0x14; 0x62; 0x8c; 0x50; 0x91; 0x12; 0x22; 0x44; 0x48; 0x80;
   0x78; 0x0f; 0x01; 0xe0; 0x3c; 0x00; 0x3b; 0x48; 0xc4; 0xed; 0x23; 0x10].

Definition kMaskRandom44_21 : list Z :=
  [0x64; 0x4c; 0x89; 0x91; 0x32; 0x20; 0x51; 0x4a; 0x29; 0x45; 0x28; 0xa0;
   0xa9; 0x15; 0x22; 0xa4; 0x54; 0x80; 0x04; 0xc0; 0x98; 0x13; 0x02; 0x60;
   0xd0; 0x1a; 0x03; 0x40; 0x68; 0x00; 0x82; 0x50; 0x4a; 0x09; 0x41; 0x20;
   0x21; 0x24; 0x24; 0x84; 0x90; 0x90; 0x0c; 0x21; 0x84; 0x30; 0x86; 0x10;
   0x4a; 0x09; 0x41; 0x28; 0x25; 0x00; 0x12; 0xa2; 0x54; 0x4a; 0x89; 0x50;
   0x46; 0x48; 0xc9; 0x19; 0x23; 0x20; 0x33; 0x26; 0x64; 0xcc; 0x99; 0x90;
   0x99; 0x13; 0x22; 0x64; 0x4c; 0x80; 0x05; 0x80; 0xb0; 0x16; 0x02; 0xc0;
   0x80; 0xb0; 0x16; 0x02; 0xc0; 0x50; 0x84; 0x50; 0x8a; 0x11; 0x42; 0x20;
   0x40; 0x68; 0x0d; 0x01; 0xa0; 0x30; 0x0a; 0x81; 0x50; 0x2a; 0x05; 0x40;
   0x68; 0x0d; 0x01; 0xa0; 0x34; 0x00; 0x10; 0x22; 0x04; 0x40; 0x88; 0x10;
   0x30; 0x46; 0x08; 0xc1; 0x18; 0x20].

Definition kMaskRandom44_22 : list Z :=
  [0x46; 0x48; 0xc9; 0x19; 0x23; 0x20; 0x33; 0x26; 0x64; 0xcc; 0x99; 0x90;
   0x99; 0x13; 0x22; 0x64; 0x4c; 0x80; 0x05; 0x80; 0xb0; 0x16; 0x02; 0xc0;
   0x80; 0xb0; 0x16; 0x02; 0xc0; 0x50; 0x84; 0x50; 0x8a; 0x11; 0x42; 0x20;
   0x40; 0x68; 0x0d; 0x01; 0xa0; 0x30; 0x0a; 0x81; 0x50; 0x2a; 0x05; 0x40;
   0x68; 0x0d; 0x01; 0xa0; 0x34; 0x00; 0x10; 0x22; 0x04; 0x40; 0x88; 0x10;
   0x30; 0x46; 0x08; 0xc1; 0x18; 0x20; 0x64; 0x4c; 0x89; 0x91; 0x32; 0x20;
   0x51; 0x4a; 0x29; 0x45; 0x28; 0xa0; 0xa9; 0x15; 0x22; 0xa4; 0x54; 0x80;
   0x04; 0xc0; 0x98; 0x13; 0x02; 0x60; 0xd0; 0x1a; 0x03; 0x40; 0x68; 0x00;
   0x82; 0x50; 0x4a; 0x09; 0x41; 0x20; 0x21; 0x24; 0x24; 0x84; 0x90; 0x90;
   0x0c; 0x21; 0x84; 0x30; 0x86; 0x10; 0x4a; 0x09; 0x41; 0x28; 0x25; 0x00;
   0x12; 0xa2; 0x54; 0x4a; 0x89; 0x50; 0x9e; 0xce; 0x8a; 0x7b; 0x3a; 0x20].

Definition kMaskRandom44_23 : list Z :=
  [0x46; 0x48; 0xc9; 0x19; 0x23; 0x20; 0x33; 0x26; 0x64; 0xcc; 0x99; 0x90;
   0x99; 0x13; 0x22; 0x64; 0x4c; 0x80; 0x05; 0x80; 0xb0; 0x16; 0x02; 0xc0;
   0x80; 0xb0; 0x16; 0x02; 0xc0; 0x50; 0x84; 0x50; 0x8a; 0x11; 0x42; 0x20;
   0x40; 0x68; 0x0d; 0x01; 0xa0; 0x30; 0x0a; 0x81; 0x50; 0x2a; 0x05; 0x40;
   0x68; 0x0d; 0x01; 0xa0; 0x34; 0x00; 0x10; 0x22; 0x04; 0x40; 0x88; 0x10;
   0x30; 0x46; 0x08; 0xc1; 0x18; 0x20; 0x64; 0x4c; 0x89; 0x91; 0x32; 0x20;
   0x51; 0x4a; 0x29; 0x45; 0x28; 0xa0; 0x0c; 0xa1; 0x94; 0x32; 0x86; 0x50;
   0xa1; 0x34; 0x26; 0x84; 0xd0; 0x90; 0x12; 0xa2; 0x54; 0x4a; 0x89; 0x50;
   0x8a; 0x51; 0x4a; 0x29; 0x45; 0x20; 0x86; 0x90; 0xd2; 0x1a; 0x43; 0x40;
   0x23; 0x24; 0x64; 0x8c; 0x91; 0x90; 0x16; 0x22; 0xc4; 0x58; 0x8b; 0x10;
   0x4c; 0x29; 0x85; 0x30; 0xa6; 0x10; 0x41; 0xc8; 0x39; 0x07; 0x20; 0xe0;
   0xf4; 0x18; 0x9f; 0xd0; 0x62; 0x70].

Definition kMaskRandom44_24 : list Z :=
  [0x64; 0x4c; 0x89; 0x91; 0x32; 0x20; 0x51; 0x4a; 0x29; 0x45; 0x28; 0xa0;
   0x0c; 0xa1; 0x94; 0x32; 0x86; 0x50; 0xa1; 0x34; 0x26; 0x84; 0xd0; 0x90;
   0x12; 0xa2; 0x54; 0x4a; 0x89; 0x50; 0x8a; 0x51; 0x4a; 0x29; 0x45; 0x20;
   0x86; 0x90; 0xd2; 0x1a; 0x43; 0x40; 0x23; 0x24; 0x64; 0x8c; 0x91; 0x90;
   0x16; 0x22; 0xc4; 0x58; 0x8b; 0x10; 0x4c; 0x29; 0x85; 0x30; 0xa6; 0x10;
   0x41; 0xc8; 0x39; 0x07; 0x20; 0xe0; 0xf4; 0x18; 0x9f; 0xd0; 0x62; 0x70;
   0x46; 0x48; 0xc9; 0x19; 0x23; 0x20; 0x33; 0x26; 0x64; 0xcc; 0x99; 0x90;
   0x99; 0x13; 0x22; 0x64; 0x4c; 0x80; 0x05; 0x80; 0xb0; 0x16; 0x02; 0xc0;
   0x80; 0xb0; 0x16; 0x02; 0xc0; 0x50; 0x84; 0x50; 0x8a; 0x11; 0x42; 0x20;
   0x40; 0x68; 0x0d; 0x01; 0xa0; 0x30; 0x0a; 0x81; 0x50; 0x2a; 0x05; 0x40;
   0x68; 0x0d; 0x01; 0xa0; 0x34; 0x00; 0x10; 0x22; 0x04; 0x40; 0x88; 0x10;
   0x30; 0x46; 0x08; 0xc1; 0x18; 0x20; 0x15; 0x0f; 0x44; 0x6d; 0x9d; 0xa0].

Definition kMaskRandom44_25 : list Z :=
  [0x64; 0x4c; 0x89; 0x91; 0x32; 0x20; 0x51; 0x4a; 0x29; 0x45; 0x28; 0xa0;
   0x0c; 0xa1; 0x94; 0x32; 0x86; 0x50; 0xa1; 0x34; 0x26; 0x84; 0xd0; 0x90;
   0x12; 0xa2; 0x54; 0x4a; 0x89; 0x50; 0x8a; 0x51; 0x4a; 0x29; 0x45; 0x20;
   0x86; 0x90; 0xd2; 0x1a; 0x43; 0x40; 0x23; 0x24; 0x64; 0x8c; 0x91; 0x90;
   0x16; 0x22; 0xc4; 0x58; 0x8b; 0x10; 0x4c; 0x29; 0x85; 0x30; 0xa6; 0x10;
   0x41; 0xc8; 0x39; 0x07; 0x20; 0xe0; 0xf4; 0x18; 0x9f; 0xd0; 0x62; 0x70;
   0x64; 0x4c; 0x89; 0x91; 0x32; 0x20; 0x51; 0x4a; 0x29; 0x45; 0x28; 0xa0;
   0x0c; 0xa1; 0x94; 0x32; 0x86; 0x50; 0xa1; 0x34; 0x26; 0x84; 0xd0; 0x90;
   0x12; 0xa2; 0x54; 0x4a; 0x89; 0x50; 0x8a; 0x51; 0x4a; 0x29; 0x45; 0x20;
   0x46; 0x48; 0xc9; 0x19; 0x23; 0x20; 0x33; 0x26; 0x64; 0xcc; 0x99; 0x90;
   0x91; 0x92; 0x32; 0x46; 0x48; 0xc0; 0xa4; 0x34; 0x86; 0x90; 0xd2; 0x10;
   0x50; 0xaa; 0x15; 0x42; 0xa8; 0x50; 0x84; 0xd0; 0x9a; 0x13; 0x42; 0x60;
   0x09; 0x61; 0x2c; 0x25; 0x84; 0xb0].

Definition kMaskRandom44_26 : list Z :=
  [0x64; 0x4c; 0x89; 0x91; 0x32; 0x20; 0x51; 0x4a; 0x29; 0x45; 0x28; 0xa0;
   0x0c; 0xa1; 0x94; 0x32; 0x86; 0x50; 0xa1; 0x34; 0x26; 0x84; 0xd0; 0x90;
   0x12; 0xa2; 0x54; 0x4a; 0x89; 0x50; 0x8a; 0x51; 0x4a; 0x29; 0x45; 0x20;
   0x46; 0x48; 0xc9; 0x19; 0x23; 0x20; 0x33; 0x26; 0x64; 0xcc; 0x99; 0x90;
   0x91; 0x92; 0x32; 0x46; 0x48; 0xc0; 0xa4; 0x34; 0x86; 0x90; 0xd2; 0x10;
   0x50; 0xaa; 0x15; 0x42; 0xa8; 0x50; 0x84; 0xd0; 0x9a; 0x13; 0x42; 0x60;
   0x09; 0x61; 0x2c; 0x25; 0x84; 0xb0; 0x64; 0x4c; 0x89; 0x91; 0x32; 0x20;
   0x51; 0x4a; 0x29; 0x45; 0x28; 0xa0; 0x0c; 0xa1; 0x94; 0x32; 0x86; 0x50;
   0xa1; 0x34; 0x26; 0x84; 0xd0; 0x90; 0x12; 0xa2; 0x54; 0x4a; 0x89; 0x50;
   0x8a; 0x51; 0x4a; 0x29; 0x45; 0x20; 0x86; 0x90; 0xd2; 0x1a; 0x43; 0x40;
   0x23; 0x24; 0x64; 0x8c; 0x91; 0x90; 0x16; 0x22; 0xc4; 0x58; 0x8b; 0x10;
   0x4c; 0x29; 0x85; 0x30; 0xa6; 0x10; 0x41; 0xc8; 0x39; 0x07; 0x20; 0xe0;
   0xf4; 0x18; 0x9f; 0xd0; 0x62; 0x70; 0x02; 0xcb; 0x64; 0xb8; 0x55; 0x80].

Definition kMaskRandom44_27 : list Z :=
  [0x64; 0x4c; 0x89; 0x91; 0x32; 0x20; 0x51; 0x4a; 0x29; 0x45; 0x28; 0xa0;
   0x0c; 0xa1; 0x94; 0x32; 0x86; 0x50; 0xa1; 0x34; 0x26; 0x84; 0xd0; 0x90;
   0x12; 0xa2; 0x54; 0x4a; 0x89; 0x50; 0x8a; 0x51; 0x4a; 0x29; 0x45; 0x20;
   0x46; 0x48; 0xc9; 0x19; 0x23; 0x20; 0x33; 0x26; 0x64; 0xcc; 0x99; 0x90;
   0x91; 0x92; 0x32; 0x46; 0x48; 0xc0; 0xa4; 0x34; 0x86; 0x90; 0xd2; 0x10;
   0x50; 0xaa; 0x15; 0x42; 0xa8; 0x50; 0x84; 0xd0; 0x9a; 0x13; 0x42; 0x60;
   0x09; 0x61; 0x2c; 0x25; 0x84; 0xb0; 0x46; 0x48; 0xc9; 0x19; 0x23; 0x20;
   0x33; 0x26; 0x64; 0xcc; 0x99; 0x90; 0x91; 0x92; 0x32; 0x46; 0x48; 0xc0;
   0xa4; 0x34; 0x86; 0x90; 0xd2; 0x10; 0x50; 0xaa; 0x15; 0x42; 0xa8; 0x50;
   0x84; 0xd0; 0x9a; 0x13; 0x42; 0x60; 0x09; 0x61; 0x2c; 0x25; 0x84; 0xb0;
   0x64; 0x4c; 0x89; 0x91; 0x32; 0x20; 0x51; 0x4a; 0x29; 0x45; 0x28; 0xa0;
   0x0c; 0xa1; 0x94; 0x32; 0x86; 0x50; 0xa1; 0x34; 0x26; 0x84; 0xd0; 0x90;
   0x12; 0xa2; 0x54; 0x4a; 0x89; 0x50; 0x8a; 0x51; 0x4a; 0x29; 0x45; 0x20;
   0xc6; 0xca; 0xeb; 0x1b; 0x2b; 0xa0].

Definition kMaskRandom44_28 : list Z :=
  [0x46; 0x48; 0xc9; 0x19; 0x23; 0x20; 0x33; 0x26; 0x64; 0xcc; 0x99; 0x90;
   0x91; 0x92; 0x32; 0x46; 0x48; 0xc0; 0xa4; 0x34; 0x86; 0x90; 0xd2; 0x10;
   0x50; 0xaa; 0x15; 0x42; 0xa8; 0x50; 0x84; 0xd0; 0x9a; 0x13; 0x42; 0x60;
   0x09; 0x61; 0x2c; 0x25; 0x84; 0xb0; 0x64; 0x4c; 0x89; 0x91; 0x32; 0x20;
   0x51; 0x4a; 0x29; 0x45; 0x28; 0xa0; 0x0c; 0xa1; 0x94; 0x32; 0x86; 0x50;
   0xa1; 0x34; 0x26; 0x84; 0xd0; 0x90; 0x12; 0xa2; 0x54; 0x4a; 0x89; 0x50;
   0x8a; 0x51; 0x4a; 0x29; 0x45; 0x20; 0xc6; 0xca; 0xeb; 0x1b; 0x2b; 0xa0;
   0x64; 0x4c; 0x89; 0x91; 0x32; 0x20; 0x51; 0x4a; 0x29; 0x45; 0x28; 0xa0;
   0x0c; 0xa1; 0x94; 0x32; 0x86; 0x50; 0xa1; 0x34; 0x26; 0x84; 0xd0; 0x90;
   0x12; 0xa2; 0x54; 0x4a; 0x89; 0x50; 0x8a; 0x51; 0x4a; 0x29; 0x45; 0x20;
   0x46; 0x48; 0xc9; 0x19; 0x23; 0x20; 0x33; 0x26; 0x64; 0xcc; 0x99; 0x90;
   0x91; 0x92; 0x32; 0x46; 0x48; 0xc0; 0xa4; 0x34; 0x86; 0x90; 0xd2; 0x10;
   0x50; 0xaa; 0x15; 0x42; 0xa8; 0x50; 0x84; 0xd0; 0x9a; 0x13; 0x42; 0x60;
   0x09; 0x61; 0x2c; 0x25; 0x84; 0xb0; 0x66; 0x26; 0x6c; 0x91; 0xc7; 0x20].

Definition kMaskRandom44_29 : list Z :=
  [0x46; 0x48; 0xc9; 0x19; 0x23; 0x20; 0x33; 0x26; 0x64; 0xcc; 0x99; 0x90;
   0x91; 0x92; 0x32; 0x46; 0x48; 0xc0; 0xa4; 0x34; 0x86; 0x90; 0xd2; 0x10;
   0x50; 0xaa; 0x15; 0x42; 0xa8; 0x50; 0x84; 0xd0; 0x9a; 0x13; 0x42; 0x60;
   0x09; 0x61; 0x2c; 0x25; 0x84; 0xb0; 0x64; 0x4c; 0x89; 0x91; 0x32; 0x20;
   0x51; 0x4a; 0x29; 0x45; 0x28; 0xa0; 0x0c; 0xa1; 0x94; 0x32; 0x86; 0x50;
   0xa1; 0x34; 0x26; 0x84; 0xd0; 0x90; 0x12; 0xa2; 0x54; 0x4a; 0x89; 0x50;
   0x8a; 0x51; 0x4a; 0x29; 0x45; 0x20; 0xc6; 0xca; 0xeb; 0x1b; 0x2b; 0xa0;
   0x46; 0x48; 0xc9; 0x19; 0x23; 0x20; 0x33; 0x26; 0x64; 0xcc; 0x99; 0x90;
   0x91; 0x92; 0x32; 0x46; 0x48; 0xc0; 0xa4; 0x34; 0x86; 0x90; 0xd2; 0x10;
   0x50; 0xaa; 0x15; 0x42; 0xa8; 0x50; 0x84; 0xd0; 0x9a; 0x13; 0x42; 0x60;
   0x09; 0x61; 0x2c; 0x25; 0x84; 0xb0; 0x0c; 0x81; 0x90; 0x32; 0x06; 0x40;
   0x80; 0x70; 0x0e; 0x01; 0xc0; 0x30; 0xa0; 0x94; 0x12; 0x82; 0x50; 0x40;
   0x05; 0x40; 0xa8; 0x15; 0x02; 0xa0; 0x43; 0x08; 0x61; 0x0c; 0x21; 0x80;
   0x1a; 0x03; 0x40; 0x68; 0x0d; 0x00; 0x60; 0x2c; 0x05; 0x80; 0xb0; 0x10;
   0x14; 0x22; 0x84; 0x50; 0x8a; 0x10].

Definition kMaskRandom44_30 : list Z :=
  [0x46; 0x48; 0xc9; 0x19; 0x23; 0x20; 0x33; 0x26; 0x64; 0xcc; 0x99; 0x90;
   0x91; 0x92; 0x32; 0x46; 0x48; 0xc0; 0xa4; 0x34; 0x86; 0x90; 0xd2; 0x10;
   0x50; 0xaa; 0x15; 0x42; 0xa8; 0x50; 0x84; 0xd0; 0x9a; 0x13; 0x42; 0x60;
   0x09; 0x61; 0x2c; 0x25; 0x84; 0xb0; 0x0c; 0x81; 0x90; 0x32; 0x06; 0x40;
   0x80; 0x70; 0x0e; 0x01; 0xc0; 0x30; 0xa0; 0x94; 0x12; 0x82; 0x50; 0x40;
   0x05; 0x40; 0xa8; 0x15; 0x02; 0xa0; 0x43; 0x08; 0x61; 0x0c; 0x21; 0x80;
   0x1a; 0x03; 0x40; 0x68; 0x0d; 0x00; 0x60; 0x2c; 0x05; 0x80; 0xb0; 0x10;
   0x14; 0x22; 0x84; 0x50; 0x8a; 0x10; 0x46; 0x48; 0xc9; 0x19; 0x23; 0x20;
   0x33; 0x26; 0x64; 0xcc; 0x99; 0x90; 0x91; 0x92; 0x32; 0x46; 0x48; 0xc0;
   0xa4; 0x34; 0x86; 0x90; 0xd2; 0x10; 0x50; 0xaa; 0x15; 0x42; 0xa8; 0x50;
   0x84; 0xd0; 0x9a; 0x13; 0x42; 0x60; 0x09; 0x61; 0x2c; 0x25; 0x84; 0xb0;
   0x64; 0x4c; 0x89; 0x91; 0x32; 0x20; 0x51; 0x4a; 0x29; 0x45; 0x28; 0xa0;
   0x0c; 0xa1; 0x94; 0x32; 0x86; 0x50; 0xa1; 0x34; 0x26; 0x84; 0xd0; 0x90;
   0x12; 0xa2; 0x54; 0x4a; 0x89; 0x50; 0x8a; 0x51; 0x4a; 0x29; 0x45; 0x20;
   0xc6; 0xca; 0xeb; 0x1b; 0x2b; 0xa0; 0x60; 0xf4; 0x75; 0x84; 0x90; 0xc0].

Definition kMaskRandom44_31 : list Z :=
  [0x46; 0x48; 0xc9; 0x19; 0x23; 0x20; 0x33; 0x26; 0x64; 0xcc; 0x99; 0x90;
   0x91; 0x92; 0x32; 0x46; 0x48; 0xc0; 0xa4; 0x34; 0x86; 0x90; 0xd2; 0x10;
   0x50; 0xaa; 0x15; 0x42; 0xa8; 0x50; 0x84; 0xd0; 0x9a; 0x13; 0x42; 0x60;
   0x09; 0x61; 0x2c; 0x25; 0x84; 0xb0; 0x0c; 0x81; 0x90; 0x32; 0x06; 0x40;
   0x80; 0x70; 0x0e; 0x01; 0xc0; 0x30; 0xa0; 0x94; 0x12; 0x82; 0x50; 0x40;
   0x05; 0x40; 0xa8; 0x15; 0x02; 0xa0; 0x43; 0x08; 0x61; 0x0c; 0x21; 0x80;
   0x1a; 0x03; 0x40; 0x68; 0x0d; 0x00; 0x60; 0x2c; 0x05; 0x80; 0xb0; 0x10;
   0x14; 0x22; 0x84; 0x50; 0x8a; 0x10; 0x0c; 0x81; 0x90; 0x32; 0x06; 0x40;
   0x80; 0x70; 0x0e; 0x01; 0xc0; 0x30; 0xa0; 0x94; 0x12; 0x82; 0x50; 0x40;
   0x05; 0x40; 0xa8; 0x15; 0x02; 0xa0; 0x43; 0x08; 0x61; 0x0c; 0x21; 0x80;
   0x1a; 0x03; 0x40; 0x68; 0x0d; 0x00; 0x60; 0x2c; 0x05; 0x80; 0xb0; 0x10;
   0x14; 0x22; 0x84; 0x50; 0x8a; 0x10; 0x46; 0x48; 0xc9; 0x19; 0x23; 0x20;
   0x33; 0x26; 0x64; 0xcc; 0x99; 0x90; 0x91; 0x92; 0x32; 0x46; 0x48; 0xc0;
   0xa4; 0x34; 0x86; 0x90; 0xd2; 0x10; 0x50; 0xaa; 0x15; 0x42; 0xa8; 0x50;
   0x84; 0xd0; 0x9a; 0x13; 0x42; 0x60; 0x09; 0x61; 0x2c; 0x25; 0x84; 0xb0;
   0x86; 0xc1; 0x46; 0x1b; 0x05; 0x10].

Definition kMaskRandom44_32 : list Z :=
  [0x0c; 0x81; 0x90; 0x32; 0x06; 0x40; 0x80; 0x70; 0x0e; 0x01; 0xc0; 0x30;
   0xa0; 0x94; 0x12; 0x82; 0x50; 0x40; 0x05; 0x40; 0xa8; 0x15; 0x02; 0xa0;
   0x43; 0x08; 0x61; 0x0c; 0x21; 0x80; 0x1a; 0x03; 0x40; 0x68; 0x0d; 0x00;
   0x60; 0x2c; 0x05; 0x80; 0xb0; 0x10; 0x14; 0x22; 0x84; 0x50; 0x8a; 0x10;
   0x46; 0x48; 0xc9; 0x19; 0x23; 0x20; 0x33; 0x26; 0x64; 0xcc; 0x99; 0x90;
   0x91; 0x92; 0x32; 0x46; 0x48; 0xc0; 0xa4; 0x34; 0x86; 0x90; 0xd2; 0x10;
   0x50; 0xaa; 0x15; 0x42; 0xa8; 0x50; 0x84; 0xd0; 0x9a; 0x13; 0x42; 0x60;
   0x09; 0x61; 0x2c; 0x25; 0x84; 0xb0; 0x86; 0xc1; 0x46; 0x1b; 0x05; 0x10;
   0x46; 0x48; 0xc9; 0x19; 0x23; 0x20; 0x33; 0x26; 0x64; 0xcc; 0x99; 0x90;
   0x91; 0x92; 0x32; 0x46; 0x48; 0xc0; 0xa4; 0x34; 0x86; 0x90; 0xd2; 0x10;
   0x50; 0xaa; 0x15; 0x42; 0xa8; 0x50; 0x84; 0xd0; 0x9a; 0x13; 0x42; 0x60;
   0x09; 0x61; 0x2c; 0x25; 0x84; 0xb0; 0x0c; 0x81; 0x90; 0x32; 0x06; 0x40;
   0x80; 0x70; 0x0e; 0x01; 0xc0; 0x30; 0xa0; 0x94; 0x12; 0x82; 0x50; 0x40;
   0x05; 0x40; 0xa8; 0x15; 0x02; 0xa0; 0x43; 0x08; 0x61; 0x0c; 0x21; 0x80;
   0x1a; 0x03; 0x40; 0x68; 0x0d; 0x00; 0x60; 0x2c; 0x05; 0x80; 0xb0; 0x10;
   0x14; 0x22; 0x84; 0x50; 0x8a; 0x10; 0x3e; 0x39; 0x86; 0x5c; 0xd9; 0xd0].

Definition kMaskRandom44_33 : list Z :=
  [0x0c; 0x81; 0x90; 0x32; 0x06; 0x40; 0x80; 0x70; 0x0e; 0x01; 0xc0; 0x30;
   0xa0; 0x94; 0x12; 0x82; 0x50; 0x40; 0x05; 0x40; 0xa8; 0x15; 0x02; 0xa0;
   0x43; 0x08; 0x61; 0x0c; 0x21; 0x80; 0x1a; 0x03; 0x40; 0x68; 0x0d; 0x00;
   0x60; 0x2c; 0x05; 0x80; 0xb0; 0x10; 0x14; 0x22; 0x84; 0x50; 0x8a; 0x10;
   0x46; 0x48; 0xc9; 0x19; 0x23; 0x20; 0x33; 0x26; 0x64; 0xcc; 0x99; 0x90;
   0x91; 0x92; 0x32; 0x46; 0x48; 0xc0; 0xa4; 0x34; 0x86; 0x90; 0xd2; 0x10;
   0x50; 0xaa; 0x15; 0x42; 0xa8; 0x50; 0x84; 0xd0; 0x9a; 0x13; 0x42; 0x60;
   0x09; 0x61; 0x2c; 0x25; 0x84; 0xb0; 0x86; 0xc1; 0x46; 0x1b; 0x05; 0x10;
   0x0c; 0x81; 0x90; 0x32; 0x06; 0x40; 0x80; 0x70; 0x0e; 0x01; 0xc0; 0x30;
   0xa0; 0x94; 0x12; 0x82; 0x50; 0x40; 0x05; 0x40; 0xa8; 0x15; 0x02; 0xa0;
   0x43; 0x08; 0x61; 0x0c; 0x21; 0x80; 0x1a; 0x03; 0x40; 0x68; 0x0d; 0x00;
   0x60; 0x2c; 0x05; 0x80; 0xb0; 0x10; 0x14; 0x22; 0x84; 0x50; 0x8a; 0x10;
   0x46; 0x48; 0xc9; 0x19; 0x23; 0x20; 0x62; 0x6c; 0x4d; 0x89; 0xb1; 0x30;
   0x8c; 0x11; 0x82; 0x30; 0x46; 0x00; 0x01; 0x60; 0x2c; 0x05; 0x80; 0xb0;
   0x07; 0x80; 0xf0; 0x1e; 0x03; 0xc0; 0xa0; 0x94; 0x12; 0x82; 0x50; 0x40;
   0x18; 0xa3; 0x14; 0x62; 0x8c; 0x50; 0x91; 0x12; 0x22; 0x44; 0x48; 0x80;
   0x78; 0x0f; 0x01; 0xe0; 0x3c; 0x00].

Definition kMaskRandom44_34 : list Z :=
  [0x0c; 0x81; 0x90; 0x32; 0x06; 0x40; 0x80; 0x70; 0x0e; 0x01; 0xc0; 0x30;
   0xa0; 0x94; 0x12; 0x82; 0x50; 0x40; 0x05; 0x40; 0xa8; 0x15; 0x02; 0xa0;
   0x43; 0x08; 0x61; 0x0c; 0x21; 0x80; 0x1a; 0x03; 0x40; 0x68; 0x0d; 0x00;
   0x60; 0x2c; 0x05; 0x80; 0xb0; 0x10; 0x14; 0x22; 0x84; 0x50; 0x8a; 0x10;
   0x46; 0x48; 0xc9; 0x19; 0x23; 0x20; 0x62; 0x6c; 0x4d; 0x89; 0xb1; 0x30;
   0x8c; 0x11; 0x82; 0x30; 0x46; 0x00; 0x01; 0x60; 0x2c; 0x05; 0x80; 0xb0;
   0x07; 0x80; 0xf0; 0x1e; 0x03; 0xc0; 0xa0; 0x94; 0x12; 0x82; 0x50; 0x40;
   0x18; 0xa3; 0x14; 0x62; 0x8c; 0x50; 0x91; 0x12; 0x22; 0x44; 0x48; 0x80;
   0x78; 0x0f; 0x01; 0xe0; 0x3c; 0x00; 0x0c; 0x81; 0x90; 0x32; 0x06; 0x40;
   0x80; 0x70; 0x0e; 0x01; 0xc0; 0x30; 0xa0; 0x94; 0x12; 0x82; 0x50; 0x40;
   0x05; 0x40; 0xa8; 0x15; 0x02; 0xa0; 0x43; 0x08; 0x61; 0x0c; 0x21; 0x80;
   0x1a; 0x03; 0x40; 0x68; 0x0d; 0x00; 0x60; 0x2c; 0x05; 0x80; 0xb0; 0x10;
   0x14; 0x22; 0x84; 0x50; 0x8a; 0x10; 0x46; 0x48; 0xc9; 0x19; 0x23; 0x20;
   0x33; 0x26; 0x64; 0xcc; 0x99; 0x90; 0x91; 0x92; 0x32; 0x46; 0x48; 0xc0;
   0xa4; 0x34; 0x86; 0x90; 0xd2; 0x10; 0x50; 0xaa; 0x15; 0x42; 0xa8; 0x50;
   0x84; 0xd0; 0x9a; 0x13; 0x42; 0x60; 0x09; 0x61; 0x2c; 0x25; 0x84; 0xb0;
   0x86; 0xc1; 0x46; 0x1b; 0x05; 0x10; 0xb5; 0xc7; 0xe8; 0x0c; 0xb9; 0x90].

Definition kMaskRandom44_35 : list Z :=
  [0x0c; 0x81; 0x90; 0x32; 0x06; 0x40; 0x80; 0x70; 0x0e; 0x01; 0xc0; 0x30;
   0xa0; 0x94; 0x12; 0x82; 0x50; 0x40; 0x05; 0x40; 0xa8; 0x15; 0x02; 0xa0;
   0x43; 0x08; 0x61; 0x0c; 0x21; 0x80; 0x1a; 0x03; 0x40; 0x68; 0x0d; 0x00;
   0x60; 0x2c; 0x05; 0x80; 0xb0; 0x10; 0x14; 0x22; 0x84; 0x50; 0x8a; 0x10;
   0x46; 0x48; 0xc9; 0x19; 0x23; 0x20; 0x62; 0x6c; 0x4d; 0x89; 0xb1; 0x30;
   0x8c; 0x11; 0x82; 0x30; 0x46; 0x00; 0x01; 0x60; 0x2c; 0x05; 0x80; 0xb0;
   0x07; 0x80; 0xf0; 0x1e; 0x03; 0xc0; 0xa0; 0x94; 0x12; 0x82; 0x50; 0x40;
   0x18; 0xa3; 0x14; 0x62; 0x8c; 0x50; 0x91; 0x12; 0x22; 0x44; 0x48; 0x80;
   0x78; 0x0f; 0x01; 0xe0; 0x3c; 0x00; 0x46; 0x48; 0xc9; 0x19; 0x23; 0x20;
   0x62; 0x6c; 0x4d; 0x89; 0xb1; 0x30; 0x8c; 0x11; 0x82; 0x30; 0x46; 0x00;
   0x01; 0x60; 0x2c; 0x05; 0x80; 0xb0; 0x07; 0x80; 0xf0; 0x1e; 0x03; 0xc0;
   0xa0; 0x94; 0x12; 0x82; 0x50; 0x40; 0x18; 0xa3; 0x14; 0x62; 0x8c; 0x50;
   0x91; 0x12; 0x22; 0x44; 0x48; 0x80; 0x78; 0x0f; 0x01; 0xe0; 0x3c; 0x00;
   0x0c; 0x81; 0x90; 0x32; 0x06; 0x40; 0x80; 0x70; 0x0e; 0x01; 0xc0; 0x30;
   0xa0; 0x94; 0x12; 0x82; 0x50; 0x40; 0x05; 0x40; 0xa8; 0x15; 0x02; 0xa0;
   0x43; 0x08; 0x61; 0x0c; 0x21; 0x80; 0x1a; 0x03; 0x40; 0x68; 0x0d; 0x00;
   0x60; 0x2c; 0x05; 0x80; 0xb0; 0x10; 0x14; 0x22; 0x84; 0x50; 0x8a; 0x10;
   0xe4; 0xd4; 0x6f; 0x93; 0x51; 0xb0].

Definition kMaskRandom44_36 : list Z :=
  [0x46; 0x48; 0xc9; 0x19; 0x23; 0x20; 0x62; 0x6c; 0x4d; 0x89; 0xb1; 0x30;
   0x8c; 0x11; 0x82; 0x30; 0x46; 0x00; 0x01; 0x60; 0x2c; 0x05; 0x80; 0xb0;
   0x07; 0x80; 0xf0; 0x1e; 0x03; 0xc0; 0xa0; 0x94; 0x12; 0x82; 0x50; 0x40;
   0x18; 0xa3; 0x14; 0x62; 0x8c; 0x50; 0x91; 0x12; 0x22; 0x44; 0x48; 0x80;
   0x78; 0x0f; 0x01; 0xe0; 0x3c; 0x00; 0x0c; 0x81; 0x90; 0x32; 0x06; 0x40;
   0x80; 0x70; 0x0e; 0x01; 0xc0; 0x30; 0xa0; 0x94; 0x12; 0x82; 0x50; 0x40;
   0x05; 0x40; 0xa8; 0x15; 0x02; 0xa0; 0x43; 0x08; 0x61; 0x0c; 0x21; 0x80;
   0x1a; 0x03; 0x40; 0x68; 0x0d; 0x00; 0x60; 0x2c; 0x05; 0x80; 0xb0; 0x10;
   0x14; 0x22; 0x84; 0x50; 0x8a; 0x10; 0xe4; 0xd4; 0x6f; 0x93; 0x51; 0xb0;
   0x0c; 0x81; 0x90; 0x32; 0x06; 0x40; 0x80; 0x70; 0x0e; 0x01; 0xc0; 0x30;
   0xa0; 0x94; 0x12; 0x82; 0x50; 0x40; 0x05; 0x40; 0xa8; 0x15; 0x02; 0xa0;
   0x43; 0x08; 0x61; 0x0c; 0x21; 0x80; 0x1a; 0x03; 0x40; 0x68; 0x0d; 0x00;
   0x60; 0x2c; 0x05; 0x80; 0xb0; 0x10; 0x14; 0x22; 0x84; 0x50; 0x8a; 0x10;
   0x46; 0x48; 0xc9; 0x19; 0x23; 0x20; 0x62; 0x6c; 0x4d; 0x89; 0xb1; 0x30;
   0x8c; 0x11; 0x82; 0x30; 0x46; 0x00; 0x01; 0x60; 0x2c; 0x05; 0x80; 0xb0;
   0x07; 0x80; 0xf0; 0x1e; 0x03; 0xc0; 0xa0; 0x94; 0x12; 0x82; 0x50; 0x40;
   0x18; 0xa3; 0x14; 0x62; 0x8c; 0x50; 0x91; 0x12; 0x22; 0x44; 0x48; 0x80;
   0x78; 0x0f; 0x01; 0xe0; 0x3c; 0x00; 0xa6; 0x92; 0x01; 0x65; 0x91; 0x20].

Definition kMaskRandom44_37 : list Z :=
  [0x46; 0x48; 0xc9; 0x19; 0x23; 0x20; 0x62; 0x6c; 0x4d; 0x89; 0xb1; 0x30;
   0x8c; 0x11; 0x82; 0x30; 0x46; 0x00; 0x01; 0x60; 0x2c; 0x05; 0x80; 0xb0;
   0x07; 0x80; 0xf0; 0x1e; 0x03; 0xc0; 0xa0; 0x94; 0x12; 0x82; 0x50; 0x40;
   0x18; 0xa3; 0x14; 0x62; 0x8c; 0x50; 0x91; 0x12; 0x22; 0x44; 0x48; 0x80;
   0x78; 0x0f; 0x01; 0xe0; 0x3c; 0x00; 0x0c; 0x81; 0x90; 0x32; 0x06; 0x40;
   0x80; 0x70; 0x0e; 0x01; 0xc0; 0x30; 0xa0; 0x94; 0x12; 0x82; 0x50; 0x40;
   0x05; 0x40; 0xa8; 0x15; 0x02; 0xa0; 0x43; 0x08; 0x61; 0x0c; 0x21; 0x80;
   0x1a; 0x03; 0x40; 0x68; 0x0d; 0x00; 0x60; 0x2c; 0x05; 0x80; 0xb0; 0x10;
   0x14; 0x22; 0x84; 0x50; 0x8a; 0x10; 0xe4; 0xd4; 0x6f; 0x93; 0x51; 0xb0;
   0x46; 0x48; 0xc9; 0x19; 0x23; 0x20; 0x62; 0x6c; 0x4d; 0x89; 0xb1; 0x30;
   0x8c; 0x11; 0x82; 0x30; 0x46; 0x00; 0x01; 0x60; 0x2c; 0x05; 0x80; 0xb0;
   0x07; 0x80; 0xf0; 0x1e; 0x03; 0xc0; 0xa0; 0x94; 0x12; 0x82; 0x50; 0x40;
   0x18; 0xa3; 0x14; 0x62; 0x8c; 0x50; 0x91; 0x12; 0x22; 0x44; 0x48; 0x80;
   0x78; 0x0f; 0x01; 0xe0; 0x3c; 0x00; 0x64; 0x4c; 0x89; 0x91; 0x32; 0x20;
   0x51; 0x4a; 0x29; 0x45; 0x28; 0xa0; 0xa9; 0x15; 0x22; 0xa4; 0x54; 0x80;
   0x04; 0xc0; 0x98; 0x13; 0x02; 0x60; 0xd0; 0x1a; 0x03; 0x40; 0x68; 0x00;
   0x82; 0x50; 0x4a; 0x09; 0x41; 0x20; 0x21; 0x24; 0x24; 0x84; 0x90; 0x90;
   0x0c; 0x21; 0x84; 0x30; 0x86; 0x10; 0x4a; 0x09; 0x41; 0x28; 0x25; 0x00;
   0x12; 0xa2; 0x54; 0x4a; 0x89; 0x50].

Definition kMaskRandom44_38 : list Z :=
  [0x46; 0x48; 0xc9; 0x19; 0x23; 0x20; 0x62; 0x6c; 0x4d; 0x89; 0xb1; 0x30;
   0x8c; 0x11; 0x82; 0x30; 0x46; 0x00; 0x01; 0x60; 0x2c; 0x05; 0x80; 0xb0;
   0x07; 0x80; 0xf0; 0x1e; 0x03; 0xc0; 0xa0; 0x94; 0x12; 0x82; 0x50; 0x40;
   0x18; 0xa3; 0x14; 0x62; 0x8c; 0x50; 0x91; 0x12; 0x22; 0x44; 0x48; 0x80;
   0x78; 0x0f; 0x01; 0xe0; 0x3c; 0x00; 0x64; 0x4c; 0x89; 0x91; 0x32; 0x20;
   0x51; 0x4a; 0x29; 0x45; 0x28; 0xa0; 0xa9; 0x15; 0x22; 0xa4; 0x54; 0x80;
   0x04; 0xc0; 0x98; 0x13; 0x02; 0x60; 0xd0; 0x1a; 0x03; 0x40; 0x68; 0x00;
   0x82; 0x50; 0x4a; 0x09; 0x41; 0x20; 0x21; 0x24; 0x24; 0x84; 0x90; 0x90;
   0x0c; 0x21; 0x84; 0x30; 0x86; 0x10; 0x4a; 0x09; 0x41; 0x28; 0x25; 0x00;
   0x12; 0xa2; 0x54; 0x4a; 0x89; 0x50; 0x46; 0x48; 0xc9; 0x19; 0x23; 0x20;
   0x62; 0x6c; 0x4d; 0x89; 0xb1; 0x30; 0x8c; 0x11; 0x82; 0x30; 0x46; 0x00;
   0x01; 0x60; 0x2c; 0x05; 0x80; 0xb0; 0x07; 0x80; 0xf0; 0x1e; 0x03; 0xc0;
   0xa0; 0x94; 0x12; 0x82; 0x50; 0x40; 0x18; 0xa3; 0x14; 0x62; 0x8c; 0x50;
   0x91; 0x12; 0x22; 0x44; 0x48; 0x80; 0x78; 0x0f; 0x01; 0xe0; 0x3c; 0x00;
   0x0c; 0x81; 0x90; 0x32; 0x06; 0x40; 0x80; 0x70; 0x0e; 0x01; 0xc0; 0x30;
   0xa0; 0x94; 0x12; 0x82; 0x50; 0x40; 0x05; 0x40; 0xa8; 0x15; 0x02; 0xa0;
   0x43; 0x08; 0x61; 0x0c; 0x21; 0x80; 0x1a; 0x03; 0x40; 0x68; 0x0d; 0x00;
   0x60; 0x2c; 0x05; 0x80; 0xb0; 0x10; 0x14; 0x22; 0x84; 0x50; 0x8a; 0x10;
   0xe4; 0xd4; 0x6f; 0x93; 0x51; 0xb0; 0x43; 0x64; 0xf2; 0xe5; 0x5d; 0x10].

Definition kMaskRandom44_39 : list Z :=
  [0x46; 0x48; 0xc9; 0x19; 0x23; 0x20; 0x62; 0x6c; 0x4d; 0x89; 0xb1; 0x30;
   0x8c; 0x11; 0x82; 0x30; 0x46; 0x00; 0x01; 0x60; 0x2c; 0x05; 0x80; 0xb0;
   0x07; 0x80; 0xf0; 0x1e; 0x03; 0xc0; 0xa0; 0x94; 0x12; 0x82; 0x50; 0x40;
   0x18; 0xa3; 0x14; 0x62; 0x8c; 0x50; 0x91; 0x12; 0x22; 0x44; 0x48; 0x80;
   0x78; 0x0f; 0x01; 0xe0; 0x3c; 0x00; 0x64; 0x4c; 0x89; 0x91; 0x32; 0x20;
   0x51; 0x4a; 0x29; 0x45; 0x28; 0xa0; 0xa9; 0x15; 0x22; 0xa4; 0x54; 0x80;
   0x04; 0xc0; 0x98; 0x13; 0x02; 0x60; 0xd0; 0x1a; 0x03; 0x40; 0x68; 0x00;
   0x82; 0x50; 0x4a; 0x09; 0x41; 0x20; 0x21; 0x24; 0x24; 0x84; 0x90; 0x90;
   0x0c; 0x21; 0x84; 0x30; 0x86; 0x10; 0x4a; 0x09; 0x41; 0x28; 0x25; 0x00;
   0x12; 0xa2; 0x54; 0x4a; 0x89; 0x50; 0x64; 0x4c; 0x89; 0x91; 0x32; 0x20;
   0x51; 0x4a; 0x29; 0x45; 0x28; 0xa0; 0xa9; 0x15; 0x22; 0xa4; 0x54; 0x80;
   0x04; 0xc0; 0x98; 0x13; 0x02; 0x60; 0xd0; 0x1a; 0x03; 0x40; 0x68; 0x00;
   0x82; 0x50; 0x4a; 0x09; 0x41; 0x20; 0x21; 0x24; 0x24; 0x84; 0x90; 0x90;
   0x0c; 0x21; 0x84; 0x30; 0x86; 0x10; 0x4a; 0x09; 0x41; 0x28; 0x25; 0x00;
   0x12; 0xa2; 0x54; 0x4a; 0x89; 0x50; 0x46; 0x48; 0xc9; 0x19; 0x23; 0x20;
   0x62; 0x6c; 0x4d; 0x89; 0xb1; 0x30; 0x8c; 0x11; 0x82; 0x30; 0x46; 0x00;
   0x01; 0x60; 0x2c; 0x05; 0x80; 0xb0; 0x07; 0x80; 0xf0; 0x1e; 0x03; 0xc0;
   0xa0; 0x94; 0x12; 0x82; 0x50; 0x40; 0x18; 0xa3; 0x14; 0x62; 0x8c; 0x50;
   0x91; 0x12; 0x22; 0x44; 0x48; 0x80; 0x78; 0x0f; 0x01; 0xe0; 0x3c; 0x00;
   0x3b; 0x48; 0xc4; 0xed; 0x23; 0x10].

Definition kMaskRandom44_40 : list Z :=
  [0x64; 0x4c; 0x89; 0x91; 0x32; 0x20; 0x51; 0x4a; 0x29; 0x45; 0x28; 0xa0;
   0xa9; 0x15; 0x22; 0xa4; 0x54; 0x80; 0x04; 0xc0; 0x98; 0x13; 0x02; 0x60;
   0xd0; 0x1a; 0x03; 0x40; 0x68; 0x00; 0x82; 0x50; 0x4a; 0x09; 0x41; 0x20;
   0x21; 0x24; 0x24; 0x84; 0x90; 0x90; 0x0c; 0x21; 0x84; 0x30; 0x86; 0x10;
   0x4a; 0x09; 0x41; 0x28; 0x25; 0x00; 0x12; 0xa2; 0x54; 0x4a; 0x89; 0x50;
   0x46; 0x48; 0xc9; 0x19; 0x23; 0x20; 0x62; 0x6c; 0x4d; 0x89; 0xb1; 0x30;
   0x8c; 0x11; 0x82; 0x30; 0x46; 0x00; 0x01; 0x60; 0x2c; 0x05; 0x80; 0xb0;
   0x07; 0x80; 0xf0; 0x1e; 0x03; 0xc0; 0xa0; 0x94; 0x12; 0x82; 0x50; 0x40;
   0x18; 0xa3; 0x14; 0x62; 0x8c; 0x50; 0x91; 0x12; 0x22; 0x44; 0x48; 0x80;
   0x78; 0x0f; 0x01; 0xe0; 0x3c; 0x00; 0x3b; 0x48; 0xc4; 0xed; 0x23; 0x10;
   0x46; 0x48; 0xc9; 0x19; 0x23; 0x20; 0x62; 0x6c; 0x4d; 0x89; 0xb1; 0x30;
   0x8c; 0x11; 0x82; 0x30; 0x46; 0x00; 0x01; 0x60; 0x2c; 0x05; 0x80; 0xb0;
   0x07; 0x80; 0xf0; 0x1e; 0x03; 0xc0; 0xa0; 0x94; 0x12; 0x82; 0x50; 0x40;
   0x18; 0xa3; 0x14; 0x62; 0x8c; 0x50; 0x91; 0x12; 0x22; 0x44; 0x48; 0x80;
   0x78; 0x0f; 0x01; 0xe0; 0x3c; 0x00; 0x64; 0x4c; 0x89; 0x91; 0x32; 0x20;
   0x51; 0x4a; 0x29; 0x45; 0x28; 0xa0; 0xa9; 0x15; 0x22; 0xa4; 0x54; 0x80;
   0x04; 0xc0; 0x98; 0x13; 0x02; 0x60; 0xd0; 0x1a; 0x03; 0x40; 0x68; 0x00;
   0x82; 0x50; 0x4a; 0x09; 0x41; 0x20; 0x21; 0x24; 0x24; 0x84; 0x90; 0x90;
   0x0c; 0x21; 0x84; 0x30; 0x86; 0x10; 0x4a; 0x09; 0x41; 0x28; 0x25; 0x00;
   0x12; 0xa2; 0x54; 0x4a; 0x89; 0x50; 0xd8; 0x2a; 0x16; 0x26; 0x51; 0x40].

Definition kMaskRandom44_41 : list Z :=
  [0x64; 0x4c; 0x89; 0x91; 0x32; 0x20; 0x51; 0x4a; 0x29; 0x45; 0x28; 0xa0;
   0xa9; 0x15; 0x22; 0xa4; 0x54; 0x80; 0x04; 0xc0; 0x98; 0x13; 0x02; 0x60;
   0xd0; 0x1a; 0x03; 0x40; 0x68; 0x00; 0x82; 0x50; 0x4a; 0x09; 0x41; 0x20;
   0x21; 0x24; 0x24; 0x84; 0x90; 0x90; 0x0c; 0x21; 0x84; 0x30; 0x86; 0x10;
   0x4a; 0x09; 0x41; 0x28; 0x25; 0x00; 0x12; 0xa2; 0x54; 0x4a; 0x89; 0x50;
   0x46; 0x48; 0xc9; 0x19; 0x23; 0x20; 0x62; 0x6c; 0x4d; 0x89; 0xb1; 0x30;
   0x8c; 0x11; 0x82; 0x30; 0x46; 0x00; 0x01; 0x60; 0x2c; 0x05; 0x80; 0xb0;
   0x07; 0x80; 0xf0; 0x1e; 0x03; 0xc0; 0xa0; 0x94; 0x12; 0x82; 0x50; 0x40;
   0x18; 0xa3; 0x14; 0x62; 0x8c; 0x50; 0x91; 0x12; 0x22; 0x44; 0x48; 0x80;
   0x78; 0x0f; 0x01; 0xe0; 0x3c; 0x00; 0x3b; 0x48; 0xc4; 0xed; 0x23; 0x10;
   0x64; 0x4c; 0x89; 0x91; 0x32; 0x20; 0x51; 0x4a; 0x29; 0x45; 0x28; 0xa0;
   0xa9; 0x15; 0x22; 0xa4; 0x54; 0x80; 0x04; 0xc0; 0x98; 0x13; 0x02; 0x60;
   0xd0; 0x1a; 0x03; 0x40; 0x68; 0x00; 0x82; 0x50; 0x4a; 0x09; 0x41; 0x20;
   0x21; 0x24; 0x24; 0x84; 0x90; 0x90; 0x0c; 0x21; 0x84; 0x30; 0x86; 0x10;
   0x4a; 0x09; 0x41; 0x28; 0x25; 0x00; 0x12; 0xa2; 0x54; 0x4a; 0x89; 0x50;
   0x46; 0x48; 0xc9; 0x19; 0x23; 0x20; 0x33; 0x26; 0x64; 0xcc; 0x99; 0x90;
   0x99; 0x13; 0x22; 0x64; 0x4c; 0x80; 0x05; 0x80; 0xb0; 0x16; 0x02; 0xc0;
   0x80; 0xb0; 0x16; 0x02; 0xc0; 0x50; 0x84; 0x50; 0x8a; 0x11; 0x42; 0x20;
   0x40; 0x68; 0x0d; 0x01; 0xa0; 0x30; 0x0a; 0x81; 0x50; 0x2a; 0x05; 0x40;
   0x68; 0x0d; 0x01; 0xa0; 0x34; 0x00; 0x10; 0x22; 0x04; 0x40; 0x88; 0x10;
   0x30; 0x46; 0x08; 0xc1; 0x18; 0x20].

Definition kMaskRandom44_42 : list Z :=
  [0x64; 0x4c; 0x89; 0x91; 0x32; 0x20; 0x51; 0x4a; 0x29; 0x45; 0x28; 0xa0;
   0xa9; 0x15; 0x22; 0xa4; 0x54; 0x80; 0x04; 0xc0; 0x98; 0x13; 0x02; 0x60;
   0xd0; 0x1a; 0x03; 0x40; 0x68; 0x00; 0x82; 0x50; 0x4a; 0x09; 0x41; 0x20;
   0x21; 0x24; 0x24; 0x84; 0x90; 0x90; 0x0c; 0x21; 0x84; 0x30; 0x86; 0x10;
   0x4a; 0x09; 0x41; 0x28; 0x25; 0x00; 0x12; 0xa2; 0x54; 0x4a; 0x89; 0x50;
   0x46; 0x48; 0xc9; 0x19; 0x23; 0x20; 0x33; 0x26; 0x64; 0xcc; 0x99; 0x90;
   0x99; 0x13; 0x22; 0x64; 0x4c; 0x80; 0x05; 0x80; 0xb0; 0x16; 0x02; 0xc0;
   0x80; 0xb0; 0x16; 0x02; 0xc0; 0x50; 0x84; 0x50; 0x8a; 0x11; 0x42; 0x20;
   0x40; 0x68; 0x0d; 0x01; 0xa0; 0x30; 0x0a; 0x81; 0x50; 0x2a; 0x05; 0x40;
   0x68; 0x0d; 0x01; 0xa0; 0x34; 0x00; 0x10; 0x22; 0x04; 0x40; 0x88; 0x10;
   0x30; 0x46; 0x08; 0xc1; 0x18; 0x20; 0x64; 0x4c; 0x89; 0x91; 0x32; 0x20;
   0x51; 0x4a; 0x29; 0x45; 0x28; 0xa0; 0xa9; 0x15; 0x22; 0xa4; 0x54; 0x80;
   0x04; 0xc0; 0x98; 0x13; 0x02; 0x60; 0xd0; 0x1a; 0x03; 0x40; 0x68; 0x00;
   0x82; 0x50; 0x4a; 0x09; 0x41; 0x20; 0x21; 0x24; 0x24; 0x84; 0x90; 0x90;
   0x0c; 0x21; 0x84; 0x30; 0x86; 0x10; 0x4a; 0x09; 0x41; 0x28; 0x25; 0x00;
   0x12; 0xa2; 0x54; 0x4a; 0x89; 0x50; 0x46; 0x48; 0xc9; 0x19; 0x23; 0x20;
   0x62; 0x6c; 0x4d; 0x89; 0xb1; 0x30; 0x8c; 0x11; 0x82; 0x30; 0x46; 0x00;
   0x01; 0x60; 0x2c; 0x05; 0x80; 0xb0; 0x07; 0x80; 0xf0; 0x1e; 0x03; 0xc0;
   0xa0; 0x94; 0x12; 0x82; 0x50; 0x40; 0x18; 0xa3; 0x14; 0x62; 0x8c; 0x50;
   0x91; 0x12; 0x22; 0x44; 0x48; 0x80; 0x78; 0x0f; 0x01; 0xe0; 0x3c; 0x00;
   0x3b; 0x48; 0xc4; 0xed; 0x23; 0x10; 0xd9; 0xc1; 0x6f; 0xa8; 0x1c; 0x90].

Definition kMaskRandom44_43 : list Z :=
  [0x64; 0x4c; 0x89; 0x91; 0x32; 0x20; 0x51; 0x4a; 0x29; 0x45; 0x28; 0xa0;
   0xa9; 0x15; 0x22; 0xa4; 0x54; 0x80; 0x04; 0xc0; 0x98; 0x13; 0x02; 0x60;
   0xd0; 0x1a; 0x03; 0x40; 0x68; 0x00; 0x82; 0x50; 0x4a; 0x09; 0x41; 0x20;
   0x21; 0x24; 0x24; 0x84; 0x90; 0x90; 0x0c; 0x21; 0x84; 0x30; 0x86; 0x10;
   0x4a; 0x09; 0x41; 0x28; 0x25; 0x00; 0x12; 0xa2; 0x54; 0x4a; 0x89; 0x50;
   0x46; 0x48; 0xc9; 0x19; 0x23; 0x20; 0x33; 0x26; 0x64; 0xcc; 0x99; 0x90;
   0x99; 0x13; 0x22; 0x64; 0x4c; 0x80; 0x05; 0x80; 0xb0; 0x16; 0x02; 0xc0;
   0x80; 0xb0; 0x16; 0x02; 0xc0; 0x50; 0x84; 0x50; 0x8a; 0x11; 0x42; 0x20;
   0x40; 0x68; 0x0d; 0x01; 0xa0; 0x30; 0x0a; 0x81; 0x50; 0x2a; 0x05; 0x40;
   0x68; 0x0d; 0x01; 0xa0; 0x34; 0x00; 0x10; 0x22; 0x04; 0x40; 0x88; 0x10;
   0x30; 0x46; 0x08; 0xc1; 0x18; 0x20; 0x46; 0x48; 0xc9; 0x19; 0x23; 0x20;
   0x33; 0x26; 0x64; 0xcc; 0x99; 0x90; 0x99; 0x13; 0x22; 0x64; 0x4c; 0x80;
   0x05; 0x80; 0xb0; 0x16; 0x02; 0xc0; 0x80; 0xb0; 0x16; 0x02; 0xc0; 0x50;
   0x84; 0x50; 0x8a; 0x11; 0x42; 0x20; 0x40; 0x68; 0x0d; 0x01; 0xa0; 0x30;
   0x0a; 0x81; 0x50; 0x2a; 0x05; 0x40; 0x68; 0x0d; 0x01; 0xa0; 0x34; 0x00;
   0x10; 0x22; 0x04; 0x40; 0x88; 0x10; 0x30; 0x46; 0x08; 0xc1; 0x18; 0x20;
   0x64; 0x4c; 0x89; 0x91; 0x32; 0x20; 0x51; 0x4a; 0x29; 0x45; 0x28; 0xa0;
   0xa9; 0x15; 0x22; 0xa4; 0x54; 0x80; 0x04; 0xc0; 0x98; 0x13; 0x02; 0x60;
   0xd0; 0x1a; 0x03; 0x40; 0x68; 0x00; 0x82; 0x50; 0x4a; 0x09; 0x41; 0x20;
   0x21; 0x24; 0x24; 0x84; 0x90; 0x90; 0x0c; 0x21; 0x84; 0x30; 0x86; 0x10;
   0x4a; 0x09; 0x41; 0x28; 0x25; 0x00; 0x12; 0xa2; 0x54; 0x4a; 0x89; 0x50;
   0x9e; 0xce; 0x8a; 0x7b; 0x3a; 0x20].

Definition kMaskRandom44_44 : list Z :=
  [0x46; 0x48; 0xc9; 0x19; 0x23; 0x20; 0x33; 0x26; 0x64; 0xcc; 0x99; 0x90;
   0x99; 0x13; 0x22; 0x64; 0x4c; 0x80; 0x05; 0x80; 0xb0; 0x16; 0x02; 0xc0;
   0x80; 0xb0; 0x16; 0x02; 0xc0; 0x50; 0x84; 0x50; 0x8a; 0x11; 0x42; 0x20;
   0x40; 0x68; 0x0d; 0x01; 0xa0; 0x30; 0x0a; 0x81; 0x50; 0x2a; 0x05; 0x40;
   0x68; 0x0d; 0x01; 0xa0; 0x34; 0x00; 0x10; 0x22; 0x04; 0x40; 0x88; 0x10;
   0x30; 0x46; 0x08; 0xc1; 0x18; 0x20; 0x64; 0x4c; 0x89; 0x91; 0x32; 0x20;
   0x51; 0x4a; 0x29; 0x45; 0x28; 0xa0; 0xa9; 0x15; 0x22; 0xa4; 0x54; 0x80;
   0x04; 0xc0; 0x98; 0x13; 0x02; 0x60; 0xd0; 0x1a; 0x03; 0x40; 0x68; 0x00;
   0x82; 0x50; 0x4a; 0x09; 0x41; 0x20; 0x21; 0x24; 0x24; 0x84; 0x90; 0x90;
   0x0c; 0x21; 0x84; 0x30; 0x86; 0x10; 0x4a; 0x09; 0x41; 0x28; 0x25; 0x00;
   0x12; 0xa2; 0x54; 0x4a; 0x89; 0x50; 0x9e; 0xce; 0x8a; 0x7b; 0x3a; 0x20;
   0x64; 0x4c; 0x89; 0x91; 0x32; 0x20; 0x51; 0x4a; 0x29; 0x45; 0x28; 0xa0;
   0xa9; 0x15; 0x22; 0xa4; 0x54; 0x80; 0x04; 0xc0; 0x98; 0x13; 0x02; 0x60;
   0xd0; 0x1a; 0x03; 0x40; 0x68; 0x00; 0x82; 0x50; 0x4a; 0x09; 0x41; 0x20;
   0x21; 0x24; 0x24; 0x84; 0x90; 0x90; 0x0c; 0x21; 0x84; 0x30; 0x86; 0x10;
   0x4a; 0x09; 0x41; 0x28; 0x25; 0x00; 0x12; 0xa2; 0x54; 0x4a; 0x89; 0x50;
   0x46; 0x48; 0xc9; 0x19; 0x23; 0x20; 0x33; 0x26; 0x64; 0xcc; 0x99; 0x90;
   0x99; 0x13; 0x22; 0x64; 0x4c; 0x80; 0x05; 0x80; 0xb0; 0x16; 0x02; 0xc0;
   0x80; 0xb0; 0x16; 0x02; 0xc0; 0x50; 0x84; 0x50; 0x8a; 0x11; 0x42; 0x20;
   0x40; 0x68; 0x0d; 0x01; 0xa0; 0x30; 0x0a; 0x81; 0x50; 0x2a; 0x05; 0x40;
   0x68; 0x0d; 0x01; 0xa0; 0x34; 0x00; 0x10; 0x22; 0x04; 0x40; 0x88; 0x10;
   0x30; 0x46; 0x08; 0xc1; 0x18; 0x20; 0xb5; 0x1c; 0x1c; 0x21; 0xac; 0xa0].

Definition kMaskRandom45_1 : list Z :=
  [0xff; 0xff; 0xff; 0xff; 0xff; 0xf8].

Definition kMaskRandom45_2 : list Z :=
  [0xec; 0xdd; 0x9b; 0xb3; 0x76; 0x60; 0x9b; 0xb3; 0x76; 0x6e; 0xc9; 0xd8].

Definition kMaskRandom45_3 : list Z :=
  [0xca; 0xd9; 0x5b; 0x2b; 0x4d; 0x90; 0xf1; 0x5e; 0x2b; 0xc5; 0x24; 0xe8;
   0xb6; 0x35; 0xc5; 0xd8; 0x9f; 0x40].

Definition kMaskRandom45_4 : list Z :=
  [0xc4; 0xd8; 0x9b; 0x13; 0x45; 0x90; 0x31; 0x66; 0x2c; 0xc5; 0x8a; 0x58;
   0x4b; 0x29; 0x65; 0x2c; 0x91; 0x68; 0x2c; 0xa5; 0x94; 0xb2; 0xa2; 0xa8].

Definition kMaskRandom45_5 : list Z :=
  [0xc6; 0xd8; 0xdb; 0x1b; 0x29; 0xb0; 0x63; 0x6c; 0x6d; 0x8d; 0xb2; 0x58;
   0x1d; 0xa3; 0xb4; 0x76; 0x87; 0x70; 0xad; 0x55; 0xaa; 0xb5; 0x54; 0xe0;
   0xb2; 0xb6; 0x56; 0xca; 0xdc; 0x18].

Definition kMaskRandom45_6 : list Z :=
  [0x64; 0x4c; 0x89; 0x91; 0x28; 0xa0; 0x51; 0x4a; 0x29; 0x45; 0x62; 0x88;
   0xa8; 0x35; 0x04; 0x32; 0x90; 0xc0; 0xc4; 0xa0; 0x96; 0x84; 0x89; 0x18;
   0x03; 0x60; 0x6c; 0x4a; 0x84; 0x70; 0x90; 0xd2; 0x1a; 0x29; 0x17; 0x00].

Definition kMaskRandom45_7 : list Z :=
  [0xc6; 0x48; 0xc9; 0x19; 0x29; 0xb0; 0x13; 0x26; 0x64; 0xcc; 0x90; 0x98;
   0x8d; 0x13; 0xa2; 0x46; 0x48; 0x48; 0x8b; 0x41; 0x6a; 0x90; 0x81; 0x28;
   0x52; 0xaa; 0x15; 0x42; 0x83; 0x50; 0xa2; 0xd4; 0x1a; 0x13; 0x16; 0x00;
   0x61; 0xa8; 0x2c; 0x25; 0xc4; 0x30].

Definition kMaskRandom45_8 : list Z :=
  [0x28; 0x85; 0x38; 0x32; 0x10; 0x30; 0x21; 0xf4; 0x06; 0x01; 0xc0; 0x18;
   0xe9; 0x1d; 0x02; 0x82; 0x21; 0x20; 0x17; 0x02; 0xe0; 0x15; 0x00; 0xc8;
   0x83; 0xa0; 0x55; 0x0c; 0x0a; 0x08; 0x46; 0x18; 0xe8; 0x68; 0x05; 0x40;
   0x50; 0x6a; 0x0d; 0x80; 0x9c; 0x00; 0x1c; 0x23; 0x84; 0x50; 0xe2; 0x80].

Definition kMaskRandom45_9 : list Z :=
  [0x44; 0x48; 0xc9; 0x19; 0x29; 0xb0; 0x28; 0x2d; 0x0d; 0x89; 0xf2; 0x10;
   0x25; 0x14; 0xa2; 0x30; 0x12; 0x20; 0x59; 0x0a; 0x20; 0x05; 0xd0; 0x88;
   0x03; 0xa0; 0x34; 0x1e; 0x0c; 0x18; 0xc0; 0xd0; 0x1a; 0x82; 0x01; 0xc8;
   0xa2; 0x30; 0x44; 0x62; 0xc5; 0x08; 0x14; 0x82; 0xd2; 0x44; 0x02; 0x48;
   0x9a; 0x03; 0x81; 0xe0; 0x00; 0x70].

Definition kMaskRandom45_10 : list Z :=
  [0xc0; 0x38; 0x89; 0x91; 0x28; 0xa0; 0x30; 0x0e; 0x29; 0x45; 0x22; 0x88;
   0xe8; 0x07; 0x02; 0xa4; 0x40; 0x68; 0x85; 0x08; 0xa8; 0x13; 0x12; 0x10;
   0xd0; 0x92; 0x13; 0x40; 0x05; 0x10; 0x86; 0x50; 0x4a; 0x09; 0x00; 0x70;
   0x4a; 0x68; 0x0c; 0x84; 0xdc; 0x00; 0x01; 0xa0; 0x74; 0x30; 0x84; 0x88;
   0x4c; 0x81; 0x91; 0x28; 0x2b; 0x00; 0x62; 0x24; 0x04; 0x4a; 0xd1; 0x40].

Definition kMaskRandom45_11 : list Z :=
  [0x46; 0x48; 0xc9; 0x19; 0x29; 0xb0; 0x33; 0x26; 0x64; 0xcc; 0x90; 0x98;
   0x99; 0x13; 0x22; 0x64; 0x08; 0x48; 0x05; 0x80; 0xb0; 0x16; 0x00; 0x38;
   0x80; 0xb0; 0x16; 0x02; 0x86; 0x08; 0x84; 0x50; 0x8a; 0x11; 0x20; 0x60;
   0x40; 0x68; 0x0d; 0x01; 0xb5; 0x00; 0x0a; 0x81; 0x50; 0x2a; 0x43; 0x00;
   0x68; 0x0d; 0x01; 0xa0; 0x12; 0x40; 0x10; 0x22; 0x04; 0x40; 0xc4; 0x80;
   0x30; 0x46; 0x08; 0xc1; 0x60; 0x10].

Definition kMaskRandom45_12 : list Z :=
  [0x64; 0x4c; 0x89; 0x91; 0x28; 0xa0; 0x51; 0x4a; 0x29; 0x45; 0x62; 0x88;
   0x0c; 0xa1; 0x94; 0x32; 0x90; 0xc0; 0xa1; 0x34; 0x26; 0x84; 0x89; 0x18;
   0x12; 0xa2; 0x54; 0x4a; 0x84; 0x70; 0x8a; 0x51; 0x4a; 0x29; 0x17; 0x00;
   0x86; 0x90; 0xd2; 0x1a; 0x29; 0xb0; 0x23; 0x24; 0x64; 0x8c; 0xb2; 0x10;
   0x16; 0x22; 0xc4; 0x58; 0x86; 0x60; 0x4c; 0x29; 0x85; 0x30; 0xc1; 0x50;
   0x41; 0xc8; 0x39; 0x07; 0x04; 0x98; 0xf4; 0x18; 0x9c; 0x65; 0x5b; 0x90].

Definition kMaskRandom45_13 : list Z :=
  [0x64; 0x4c; 0x89; 0x91; 0x28; 0xa0; 0x51; 0x4a; 0x29; 0x45; 0x62; 0x88;
   0x0c; 0xa1; 0x94; 0x32; 0x90; 0xc0; 0xa1; 0x34; 0x26; 0x84; 0x89; 0x18;
   0x12; 0xa2; 0x54; 0x4a; 0x84; 0x70; 0x8a; 0x51; 0x4a; 0x29; 0x17; 0x00;
   0x46; 0x48; 0xc9; 0x19; 0x29; 0xb0; 0x33; 0x26; 0x64; 0xcc; 0x90; 0x98;
   0x91; 0x92; 0x32; 0x46; 0x48; 0x48; 0xa4; 0x34; 0x86; 0x90; 0x81; 0x28;
   0x50; 0xaa; 0x15; 0x42; 0x83; 0x50; 0x84; 0xd0; 0x9a; 0x13; 0x16; 0x00;
   0x09; 0x61; 0x2c; 0x25; 0xc4; 0x30].

Definition kMaskRandom45_14 : list Z :=
  [0x46; 0x48; 0xc9; 0x19; 0x29; 0xb0; 0x33; 0x26; 0x64; 0xcc; 0x90; 0x98;
   0x91; 0x92; 0x32; 0x46; 0x48; 0x48; 0xa4; 0x34; 0x86; 0x90; 0x81; 0x28;
   0x50; 0xaa; 0x15; 0x42; 0x83; 0x50; 0x84; 0xd0; 0x9a; 0x13; 0x16; 0x00;
   0x09; 0x61; 0x2c; 0x25; 0xc4; 0x30; 0x64; 0x4c; 0x89; 0x91; 0x28; 0xa0;
   0x51; 0x4a; 0x29; 0x45; 0x62; 0x88; 0x0c; 0xa1; 0x94; 0x32; 0x90; 0xc0;
   0xa1; 0x34; 0x26; 0x84; 0x89; 0x18; 0x12; 0xa2; 0x54; 0x4a; 0x84; 0x70;
   0x8a; 0x51; 0x4a; 0x29; 0x17; 0x00; 0xc6; 0xca; 0xea; 0x70; 0xfe; 0xc8].

Definition kMaskRandom45_15 : list Z :=
  [0x46; 0x48; 0xc9; 0x19; 0x29; 0xb0; 0x33; 0x26; 0x64; 0xcc; 0x90; 0x98;
   0x91; 0x92; 0x32; 0x46; 0x48; 0x48; 0xa4; 0x34; 0x86; 0x90; 0x81; 0x28;
   0x50; 0xaa; 0x15; 0x42; 0x83; 0x50; 0x84; 0xd0; 0x9a; 0x13; 0x16; 0x00;
   0x09; 0x61; 0x2c; 0x25; 0xc4; 0x30; 0x0c; 0x81; 0x90; 0x32; 0x10; 0x30;
   0x80; 0x70; 0x0e; 0x01; 0xc0; 0x18; 0xa0; 0x94; 0x12; 0x82; 0x21; 0x20;
   0x05; 0x40; 0xa8; 0x15; 0x00; 0xc8; 0x43; 0x08; 0x61; 0x0c; 0x0a; 0x08;
   0x1a; 0x03; 0x40; 0x68; 0x05; 0x40; 0x60; 0x2c; 0x05; 0x80; 0x9c; 0x00;
   0x14; 0x22; 0x84; 0x50; 0xe2; 0x80].

Definition kMaskRandom45_16 : list Z :=
  [0x0c; 0x81; 0x90; 0x32; 0x10; 0x30; 0x80; 0x70; 0x0e; 0x01; 0xc0; 0x18;
   0xa0; 0x94; 0x12; 0x82; 0x21; 0x20; 0x05; 0x40; 0xa8; 0x15; 0x00; 0xc8;
   0x43; 0x08; 0x61; 0x0c; 0x0a; 0x08; 0x1a; 0x03; 0x40; 0x68; 0x05; 0x40;
   0x60; 0x2c; 0x05; 0x80; 0x9c; 0x00; 0x14; 0x22; 0x84; 0x50; 0xe2; 0x80;
   0x46; 0x48; 0xc9; 0x19; 0x29; 0xb0; 0x33; 0x26; 0x64; 0xcc; 0x90; 0x98;
   0x91; 0x92; 0x32; 0x46; 0x48; 0x48; 0xa4; 0x34; 0x86; 0x90; 0x81; 0x28;
   0x50; 0xaa; 0x15; 0x42; 0x83; 0x50; 0x84; 0xd0; 0x9a; 0x13; 0x16; 0x00;
   0x09; 0x61; 0x2c; 0x25; 0xc4; 0x30; 0x86; 0xc1; 0x47; 0xeb; 0x67; 0xd0].

Definition kMaskRandom45_17 : list Z :=
  [0x0c; 0x81; 0x90; 0x32; 0x10; 0x30; 0x80; 0x70; 0x0e; 0x01; 0xc0; 0x18;
   0xa0; 0x94; 0x12; 0x82; 0x21; 0x20; 0x05; 0x40; 0xa8; 0x15; 0x00; 0xc8;
   0x43; 0x08; 0x61; 0x0c; 0x0a; 0x08; 0x1a; 0x03; 0x40; 0x68; 0x05; 0x40;
   0x60; 0x2c; 0x05; 0x80; 0x9c; 0x00; 0x14; 0x22; 0x84; 0x50; 0xe2; 0x80;
   0x46; 0x48; 0xc9; 0x19; 0x29; 0xb0; 0x62; 0x6c; 0x4d; 0x89; 0xf2; 0x10;
   0x8c; 0x11; 0x82; 0x30; 0x12; 0x20; 0x01; 0x60; 0x2c; 0x05; 0xd0; 0x88;
   0x07; 0x80; 0xf0; 0x1e; 0x0c; 0x18; 0xa0; 0x94; 0x12; 0x82; 0x01; 0xc8;
   0x18; 0xa3; 0x14; 0x62; 0xc5; 0x08; 0x91; 0x12; 0x22; 0x44; 0x02; 0x48;
   0x78; 0x0f; 0x01; 0xe0; 0x00; 0x70].

Definition kMaskRandom45_18 : list Z :=
  [0x46; 0x48; 0xc9; 0x19; 0x29; 0xb0; 0x62; 0x6c; 0x4d; 0x89; 0xf2; 0x10;
   0x8c; 0x11; 0x82; 0x30; 0x12; 0x20; 0x01; 0x60; 0x2c; 0x05; 0xd0; 0x88;
   0x07; 0x80; 0xf0; 0x1e; 0x0c; 0x18; 0xa0; 0x94; 0x12; 0x82; 0x01; 0xc8;
   0x18; 0xa3; 0x14; 0x62; 0xc5; 0x08; 0x91; 0x12; 0x22; 0x44; 0x02; 0x48;
   0x78; 0x0f; 0x01; 0xe0; 0x00; 0x70; 0x0c; 0x81; 0x90; 0x32; 0x10; 0x30;
   0x80; 0x70; 0x0e; 0x01; 0xc0; 0x18; 0xa0; 0x94; 0x12; 0x82; 0x21; 0x20;
   0x05; 0x40; 0xa8; 0x15; 0x00; 0xc8; 0x43; 0x08; 0x61; 0x0c; 0x0a; 0x08;
   0x1a; 0x03; 0x40; 0x68; 0x05; 0x40; 0x60; 0x2c; 0x05; 0x80; 0x9c; 0x00;
   0x14; 0x22; 0x84; 0x50; 0xe2; 0x80; 0xe4; 0xd4; 0x6e; 0x08; 0xc9; 0x58].

Definition kMaskRandom45_19 : list Z :=
  [0x46; 0x48; 0xc9; 0x19; 0x29; 0xb0; 0x62; 0x6c; 0x4d; 0x89; 0xf2; 0x10;
   0x8c; 0x11; 0x82; 0x30; 0x12; 0x20; 0x01; 0x60; 0x2c; 0x05; 0xd0; 0x88;
   0x07; 0x80; 0xf0; 0x1e; 0x0c; 0x18; 0xa0; 0x94; 0x12; 0x82; 0x01; 0xc8;
   0x18; 0xa3; 0x14; 0x62; 0xc5; 0x08; 0x91; 0x12; 0x22; 0x44; 0x02; 0x48;
   0x78; 0x0f; 0x01; 0xe0; 0x00; 0x70; 0x64; 0x4c; 0x89; 0x91; 0x28; 0xa0;
   0x51; 0x4a; 0x29; 0x45; 0x22; 0x88; 0xa9; 0x15; 0x22; 0xa4; 0x40; 0x68;
   0x04; 0xc0; 0x98; 0x13; 0x12; 0x10; 0xd0; 0x1a; 0x03; 0x40; 0x05; 0x10;
   0x82; 0x50; 0x4a; 0x09; 0x00; 0x70; 0x21; 0x24; 0x24; 0x84; 0xdc; 0x00;
   0x0c; 0x21; 0x84; 0x30; 0x84; 0x88; 0x4a; 0x09; 0x41; 0x28; 0x2b; 0x00;
   0x12; 0xa2; 0x54; 0x4a; 0xd1; 0x40].

Definition kMaskRandom45_20 : list Z :=
  [0x64; 0x4c; 0x89; 0x91; 0x28; 0xa0; 0x51; 0x4a; 0x29; 0x45; 0x22; 0x88;
   0xa9; 0x15; 0x22; 0xa4; 0x40; 0x68; 0x04; 0xc0; 0x98; 0x13; 0x12; 0x10;
   0xd0; 0x1a; 0x03; 0x40; 0x05; 0x10; 0x82; 0x50; 0x4a; 0x09; 0x00; 0x70;
   0x21; 0x24; 0x24; 0x84; 0xdc; 0x00; 0x0c; 0x21; 0x84; 0x30; 0x84; 0x88;
   0x4a; 0x09; 0x41; 0x28; 0x2b; 0x00; 0x12; 0xa2; 0x54; 0x4a; 0xd1; 0x40;
   0x46; 0x48; 0xc9; 0x19; 0x29; 0xb0; 0x62; 0x6c; 0x4d; 0x89; 0xf2; 0x10;
   0x8c; 0x11; 0x82; 0x30; 0x12; 0x20; 0x01; 0x60; 0x2c; 0x05; 0xd0; 0x88;
   0x07; 0x80; 0xf0; 0x1e; 0x0c; 0x18; 0xa0; 0x94; 0x12; 0x82; 0x01; 0xc8;
   0x18; 0xa3; 0x14; 0x62; 0xc5; 0x08; 0x91; 0x12; 0x22; 0x44; 0x02; 0x48;
   0x78; 0x0f; 0x01; 0xe0; 0x00; 0x70; 0x3b; 0x48; 0xc7; 0x6d; 0x29; 0xe8].

Definition kMaskRandom45_21 : list Z :=
  [0x64; 0x4c; 0x89; 0x91; 0x28; 0xa0; 0x51; 0x4a; 0x29; 0x45; 0x22; 0x88;
   0xa9; 0x15; 0x22; 0xa4; 0x40; 0x68; 0x04; 0xc0; 0x98; 0x13; 0x12; 0x10;
   0xd0; 0x1a; 0x03; 0x40; 0x05; 0x10; 0x82; 0x50; 0x4a; 0x09; 0x00; 0x70;
   0x21; 0x24; 0x24; 0x84; 0xdc; 0x00; 0x0c; 0x21; 0x84; 0x30; 0x84; 0x88;
   0x4a; 0x09; 0x41; 0x28; 0x2b; 0x00; 0x12; 0xa2; 0x54; 0x4a; 0xd1; 0x40;
   0x46; 0x48; 0xc9; 0x19; 0x29; 0xb0; 0x33; 0x26; 0x64; 0xcc; 0x90; 0x98;
   0x99; 0x13; 0x22; 0x64; 0x08; 0x48; 0x05; 0x80; 0xb0; 0x16; 0x00; 0x38;
   0x80; 0xb0; 0x16; 0x02; 0x86; 0x08; 0x84; 0x50; 0x8a; 0x11; 0x20; 0x60;
   0x40; 0x68; 0x0d; 0x01; 0xb5; 0x00; 0x0a; 0x81; 0x50; 0x2a; 0x43; 0x00;
   0x68; 0x0d; 0x01; 0xa0; 0x12; 0x40; 0x10; 0x22; 0x04; 0x40; 0xc4; 0x80;
   0x30; 0x46; 0x08; 0xc1; 0x60; 0x10].

Definition kMaskRandom45_22 : list Z :=
  [0x46; 0x48; 0xc9; 0x19; 0x29; 0xb0; 0x33; 0x26; 0x64; 0xcc; 0x90; 0x98;
   0x99; 0x13; 0x22; 0x64; 0x08; 0x48; 0x05; 0x80; 0xb0; 0x16; 0x00; 0x38;
   0x80; 0xb0; 0x16; 0x02; 0x86; 0x08; 0x84; 0x50; 0x8a; 0x11; 0x20; 0x60;
   0x40; 0x68; 0x0d; 0x01; 0xb5; 0x00; 0x0a; 0x81; 0x50; 0x2a; 0x43; 0x00;
   0x68; 0x0d; 0x01; 0xa0; 0x12; 0x40; 0x10; 0x22; 0x04; 0x40; 0xc4; 0x80;
   0x30; 0x46; 0x08; 0xc1; 0x60; 0x10; 0x64; 0x4c; 0x89; 0x91; 0x28; 0xa0;
   0x51; 0x4a; 0x29; 0x45; 0x22; 0x88; 0xa9; 0x15; 0x22; 0xa4; 0x40; 0x68;
   0x04; 0xc0; 0x98; 0x13; 0x12; 0x10; 0xd0; 0x1a; 0x03; 0x40; 0x05; 0x10;
   0x82; 0x50; 0x4a; 0x09; 0x00; 0x70; 0x21; 0x24; 0x24; 0x84; 0xdc; 0x00;
   0x0c; 0x21; 0x84; 0x30; 0x84; 0x88; 0x4a; 0x09; 0x41; 0x28; 0x2b; 0x00;
   0x12; 0xa2; 0x54; 0x4a; 0xd1; 0x40; 0x9e; 0xce; 0x8b; 0xaa; 0x34; 0x68].

Definition kMaskRandom45_23 : list Z :=
  [0x46; 0x48; 0xc9; 0x19; 0x29; 0xb0; 0x33; 0x26; 0x64; 0xcc; 0x90; 0x98;
   0x99; 0x13; 0x22; 0x64; 0x08; 0x48; 0x05; 0x80; 0xb0; 0x16; 0x00; 0x38;
   0x80; 0xb0; 0x16; 0x02; 0x86; 0x08; 0x84; 0x50; 0x8a; 0x11; 0x20; 0x60;
   0x40; 0x68; 0x0d; 0x01; 0xb5; 0x00; 0x0a; 0x81; 0x50; 0x2a; 0x43; 0x00;
   0x68; 0x0d; 0x01; 0xa0; 0x12; 0x40; 0x10; 0x22; 0x04; 0x40; 0xc4; 0x80;
   0x30; 0x46; 0x08; 0xc1; 0x60; 0x10; 0x64; 0x4c; 0x89; 0x91; 0x28; 0xa0;
   0x51; 0x4a; 0x29; 0x45; 0x62; 0x88; 0x0c; 0xa1; 0x94; 0x32; 0x90; 0xc0;
   0xa1; 0x34; 0x26; 0x84; 0x89; 0x18; 0x12; 0xa2; 0x54; 0x4a; 0x84; 0x70;
   0x8a; 0x51; 0x4a; 0x29; 0x17; 0x00; 0x86; 0x90; 0xd2; 0x1a; 0x29; 0xb0;
   0x23; 0x24; 0x64; 0x8c; 0xb2; 0x10; 0x16; 0x22; 0xc4; 0x58; 0x86; 0x60;
   0x4c; 0x29; 0x85; 0x30; 0xc1; 0x50; 0x41; 0xc8; 0x39; 0x07; 0x04; 0x98;
   0xf4; 0x18; 0x9c; 0x65; 0x5b; 0x90].

Definition kMaskRandom45_24 : list Z :=
  [0x64; 0x4c; 0x89; 0x91; 0x28; 0xa0; 0x51; 0x4a; 0x29; 0x45; 0x62; 0x88;
   0x0c; 0xa1; 0x94; 0x32; 0x90; 0xc0; 0xa1; 0x34; 0x26; 0x84; 0x89; 0x18;
   0x12; 0xa2; 0x54; 0x4a; 0x84; 0x70; 0x8a; 0x51; 0x4a; 0x29; 0x17; 0x00;
   0x86; 0x90; 0xd2; 0x1a; 0x29; 0xb0; 0x23; 0x24; 0x64; 0x8c; 0xb2; 0x10;
   0x16; 0x22; 0xc4; 0x58; 0x86; 0x60; 0x4c; 0x29; 0x85; 0x30; 0xc1; 0x50;
   0x41; 0xc8; 0x39; 0x07; 0x04; 0x98; 0xf4; 0x18; 0x9c; 0x65; 0x5b; 0x90;
   0x46; 0x48; 0xc9; 0x19; 0x29; 0xb0; 0x33; 0x26; 0x64; 0xcc; 0x90; 0x98;
   0x99; 0x13; 0x22; 0x64; 0x08; 0x48; 0x05; 0x80; 0xb0; 0x16; 0x00; 0x38;
   0x80; 0xb0; 0x16; 0x02; 0x86; 0x08; 0x84; 0x50; 0x8a; 0x11; 0x20; 0x60;
   0x40; 0x68; 0x0d; 0x01; 0xb5; 0x00; 0x0a; 0x81; 0x50; 0x2a; 0x43; 0x00;
   0x68; 0x0d; 0x01; 0xa0; 0x12; 0x40; 0x10; 0x22; 0x04; 0x40; 0xc4; 0x80;
   0x30; 0x46; 0x08; 0xc1; 0x60; 0x10; 0x95; 0x91; 0xad; 0xd9; 0x86; 0x98].

Definition kMaskRandom45_25 : list Z :=
  [0x64; 0x4c; 0x89; 0x91; 0x28; 0xa0; 0x51; 0x4a; 0x29; 0x45; 0x62; 0x88;
   0x0c; 0xa1; 0x94; 0x32; 0x90; 0xc0; 0xa1; 0x34; 0x26; 0x84; 0x89; 0x18;
   0x12; 0xa2; 0x54; 0x4a; 0x84; 0x70; 0x8a; 0x51; 0x4a; 0x29; 0x17; 0x00;
   0x86; 0x90; 0xd2; 0x1a; 0x29; 0xb0; 0x23; 0x24; 0x64; 0x8c; 0xb2; 0x10;
   0x16; 0x22; 0xc4; 0x58; 0x86; 0x60; 0x4c; 0x29; 0x85; 0x30; 0xc1; 0x50;
   0x41; 0xc8; 0x39; 0x07; 0x04; 0x98; 0xf4; 0x18; 0x9c; 0x65; 0x5b; 0x90;
   0x64; 0x4c; 0x89; 0x91; 0x28; 0xa0; 0x51; 0x4a; 0x29; 0x45; 0x62; 0x88;
   0x0c; 0xa1; 0x94; 0x32; 0x90; 0xc0; 0xa1; 0x34; 0x26; 0x84; 0x89; 0x18;
   0x12; 0xa2; 0x54; 0x4a; 0x84; 0x70; 0x8a; 0x51; 0x4a; 0x29; 0x17; 0x00;
   0x46; 0x48; 0xc9; 0x19; 0x29; 0xb0; 0x33; 0x26; 0x64; 0xcc; 0x90; 0x98;
   0x91; 0x92; 0x32; 0x46; 0x48; 0x48; 0xa4; 0x34; 0x86; 0x90; 0x81; 0x28;
   0x50; 0xaa; 0x15; 0x42; 0x83; 0x50; 0x84; 0xd0; 0x9a; 0x13; 0x16; 0x00;
   0x09; 0x61; 0x2c; 0x25; 0xc4; 0x30].

Definition kMaskRandom45_26 : list Z :=
  [0x64; 0x4c; 0x89; 0x91; 0x28; 0xa0; 0x51; 0x4a; 0x29; 0x45; 0x62; 0x88;
   0x0c; 0xa1; 0x94; 0x32; 0x90; 0xc0; 0xa1; 0x34; 0x26; 0x84; 0x89; 0x18;
   0x12; 0xa2; 0x54; 0x4a; 0x84; 0x70; 0x8a; 0x51; 0x4a; 0x29; 0x17; 0x00;
   0x46; 0x48; 0xc9; 0x19; 0x29; 0xb0; 0x33; 0x26; 0x64; 0xcc; 0x90; 0x98;
   0x91; 0x92; 0x32; 0x46; 0x48; 0x48; 0xa4; 0x34; 0x86; 0x90; 0x81; 0x28;
   0x50; 0xaa; 0x15; 0x42; 0x83; 0x50; 0x84; 0xd0; 0x9a; 0x13; 0x16; 0x00;
   0x09; 0x61; 0x2c; 0x25; 0xc4; 0x30; 0x64; 0x4c; 0x89; 0x91; 0x28; 0xa0;
   0x51; 0x4a; 0x29; 0x45; 0x62; 0x88; 0x0c; 0xa1; 0x94; 0x32; 0x90; 0xc0;
   0xa1; 0x34; 0x26; 0x84; 0x89; 0x18; 0x12; 0xa2; 0x54; 0x4a; 0x84; 0x70;
   0x8a; 0x51; 0x4a; 0x29; 0x17; 0x00; 0x86; 0x90; 0xd2; 0x1a; 0x29; 0xb0;
   0x23; 0x24; 0x64; 0x8c; 0xb2; 0x10; 0x16; 0x22; 0xc4; 0x58; 0x86; 0x60;
   0x4c; 0x29; 0x85; 0x30; 0xc1; 0x50; 0x41; 0xc8; 0x39; 0x07; 0x04; 0x98;
   0xf4; 0x18; 0x9c; 0x65; 0x5b; 0x90; 0xb0; 0xfd; 0xb2; 0xf3; 0x8a; 0xc0].

Definition kMaskRandom45_27 : list Z :=
  [0x64; 0x4c; 0x89; 0x91; 0x28; 0xa0; 0x51; 0x4a; 0x29; 0x45; 0x62; 0x88;
   0x0c; 0xa1; 0x94; 0x32; 0x90; 0xc0; 0xa1; 0x34; 0x26; 0x84; 0x89; 0x18;
   0x12; 0xa2; 0x54; 0x4a; 0x84; 0x70; 0x8a; 0x51; 0x4a; 0x29; 0x17; 0x00;
   0x46; 0x48; 0xc9; 0x19; 0x29; 0xb0; 0x33; 0x26; 0x64; 0xcc; 0x90; 0x98;
   0x91; 0x92; 0x32; 0x46; 0x48; 0x48; 0xa4; 0x34; 0x86; 0x90; 0x81; 0x28;
   0x50; 0xaa; 0x15; 0x42; 0x83; 0x50; 0x84; 0xd0; 0x9a; 0x13; 0x16; 0x00;
   0x09; 0x61; 0x2c; 0x25; 0xc4; 0x30; 0x46; 0x48; 0xc9; 0x19; 0x29; 0xb0;
   0x33; 0x26; 0x64; 0xcc; 0x90; 0x98; 0x91; 0x92; 0x32; 0x46; 0x48; 0x48;
   0xa4; 0x34; 0x86; 0x90; 0x81; 0x28; 0x50; 0xaa; 0x15; 0x42; 0x83; 0x50;
   0x84; 0xd0; 0x9a; 0x13; 0x16; 0x00; 0x09; 0x61; 0x2c; 0x25; 0xc4; 0x30;
   0x64; 0x4c; 0x89; 0x91; 0x28; 0xa0; 0x51; 0x4a; 0x29; 0x45; 0x62; 0x88;
   0x0c; 0xa1; 0x94; 0x32; 0x90; 0xc0; 0xa1; 0x34; 0x26; 0x84; 0x89; 0x18;
   0x12; 0xa2; 0x54; 0x4a; 0x84; 0x70; 0x8a; 0x51; 0x4a; 0x29; 0x17; 0x00;
   0xc6; 0xca; 0xea; 0x70; 0xfe; 0xc8].

Definition kMaskRandom45_28 : list Z :=
  [0x46; 0x48; 0xc9; 0x19; 0x29; 0xb0; 0x33; 0x26; 0x64; 0xcc; 0x90; 0x98;
   0x91; 0x92; 0x32; 0x46; 0x48; 0x48; 0xa4; 0x34; 0x86; 0x90; 0x81; 0x28;
   0x50; 0xaa; 0x15; 0x42; 0x83; 0x50; 0x84; 0xd0; 0x9a; 0x13; 0x16; 0x00;
   0x09; 0x61; 0x2c; 0x25; 0xc4; 0x30; 0x64; 0x4c; 0x89; 0x91; 0x28; 0xa0;
   0x51; 0x4a; 0x29; 0x45; 0x62; 0x88; 0x0c; 0xa1; 0x94; 0x32; 0x90; 0xc0;
   0xa1; 0x34; 0x26; 0x84; 0x89; 0x18; 0x12; 0xa2; 0x54; 0x4a; 0x84; 0x70;
   0x8a; 0x51; 0x4a; 0x29; 0x17; 0x00; 0xc6; 0xca; 0xea; 0x70; 0xfe; 0xc8;
   0x64; 0x4c; 0x89; 0x91; 0x28; 0xa0; 0x51; 0x4a; 0x29; 0x45; 0x62; 0x88;
   0x0c; 0xa1; 0x94; 0x32; 0x90; 0xc0; 0xa1; 0x34; 0x26; 0x84; 0x89; 0x18;
   0x12; 0xa2; 0x54; 0x4a; 0x84; 0x70; 0x8a; 0x51; 0x4a; 0x29; 0x17; 0x00;
   0x46; 0x48; 0xc9; 0x19; 0x29; 0xb0; 0x33; 0x26; 0x64; 0xcc; 0x90; 0x98;
   0x91; 0x92; 0x32; 0x46; 0x48; 0x48; 0xa4; 0x34; 0x86; 0x90; 0x81; 0x28;
   0x50; 0xaa; 0x15; 0x42; 0x83; 0x50; 0x84; 0xd0; 0x9a; 0x13; 0x16; 0x00;
   0x09; 0x61; 0x2c; 0x25; 0xc4; 0x30; 0x44; 0x46; 0x28; 0xfb; 0x66; 0x80].

Definition kMaskRandom45_29 : list Z :=
  [0x46; 0x48; 0xc9; 0x19; 0x29; 0xb0; 0x33; 0x26; 0x64; 0xcc; 0x90; 0x98;
   0x91; 0x92; 0x32; 0x46; 0x48; 0x48; 0xa4; 0x34; 0x86; 0x90; 0x81; 0x28;
   0x50; 0xaa; 0x15; 0x42; 0x83; 0x50; 0x84; 0xd0; 0x9a; 0x13; 0x16; 0x00;
   0x09; 0x61; 0x2c; 0x25; 0xc4; 0x30; 0x64; 0x4c; 0x89; 0x91; 0x28; 0xa0;
   0x51; 0x4a; 0x29; 0x45; 0x62; 0x88; 0x0c; 0xa1; 0x94; 0x32; 0x90; 0xc0;
   0xa1; 0x34; 0x26; 0x84; 0x89; 0x18; 0x12; 0xa2; 0x54; 0x4a; 0x84; 0x70;
   0x8a; 0x51; 0x4a; 0x29; 0x17; 0x00; 0xc6; 0xca; 0xea; 0x70; 0xfe; 0xc8;
   0x46; 0x48; 0xc9; 0x19; 0x29; 0xb0; 0x33; 0x26; 0x64; 0xcc; 0x90; 0x98;
   0x91; 0x92; 0x32; 0x46; 0x48; 0x48; 0xa4; 0x34; 0x86; 0x90; 0x81; 0x28;
   0x50; 0xaa; 0x15; 0x42; 0x83; 0x50; 0x84; 0xd0; 0x9a; 0x13; 0x16; 0x00;
   0x09; 0x61; 0x2c; 0x25; 0xc4; 0x30; 0x0c; 0x81; 0x90; 0x32; 0x10; 0x30;
   0x80; 0x70; 0x0e; 0x01; 0xc0; 0x18; 0xa0; 0x94; 0x12; 0x82; 0x21; 0x20;
   0x05; 0x40; 0xa8; 0x15; 0x00; 0xc8; 0x43; 0x08; 0x61; 0x0c; 0x0a; 0x08;
   0x1a; 0x03; 0x40; 0x68; 0x05; 0x40; 0x60; 0x2c; 0x05; 0x80; 0x9c; 0x00;
   0x14; 0x22; 0x84; 0x50; 0xe2; 0x80].

Definition kMaskRandom45_30 : list Z :=
  [0x46; 0x48; 0xc9; 0x19; 0x29; 0xb0; 0x33; 0x26; 0x64; 0xcc; 0x90; 0x98;
   0x91; 0x92; 0x32; 0x46; 0x48; 0x48; 0xa4; 0x34; 0x86; 0x90; 0x81; 0x28;
   0x50; 0xaa; 0x15; 0x42; 0x83; 0x50; 0x84; 0xd0; 0x9a; 0x13; 0x16; 0x00;
   0x09; 0x61; 0x2c; 0x25; 0xc4; 0x30; 0x0c; 0x81; 0x90; 0x32; 0x10; 0x30;
   0x80; 0x70; 0x0e; 0x01; 0xc0; 0x18; 0xa0; 0x94; 0x12; 0x82; 0x21; 0x20;
   0x05; 0x40; 0xa8; 0x15; 0x00; 0xc8; 0x43; 0x08; 0x61; 0x0c; 0x0a; 0x08;
   0x1a; 0x03; 0x40; 0x68; 0x05; 0x40; 0x60; 0x2c; 0x05; 0x80; 0x9c; 0x00;
   0x14; 0x22; 0x84; 0x50; 0xe2; 0x80; 0x46; 0x48; 0xc9; 0x19; 0x29; 0xb0;
   0x33; 0x26; 0x64; 0xcc; 0x90; 0x98; 0x91; 0x92; 0x32; 0x46; 0x48; 0x48;
   0xa4; 0x34; 0x86; 0x90; 0x81; 0x28; 0x50; 0xaa; 0x15; 0x42; 0x83; 0x50;
   0x84; 0xd0; 0x9a; 0x13; 0x16; 0x00; 0x09; 0x61; 0x2c; 0x25; 0xc4; 0x30;
   0x64; 0x4c; 0x89; 0x91; 0x28; 0xa0; 0x51; 0x4a; 0x29; 0x45; 0x62; 0x88;
   0x0c; 0xa1; 0x94; 0x32; 0x90; 0xc0; 0xa1; 0x34; 0x26; 0x84; 0x89; 0x18;
   0x12; 0xa2; 0x54; 0x4a; 0x84; 0x70; 0x8a; 0x51; 0x4a; 0x29; 0x17; 0x00;
   0xc6; 0xca; 0xea; 0x70; 0xfe; 0xc8; 0x1c; 0xc9; 0x43; 0x25; 0xa7; 0x00].

Definition kMaskRandom45_31 : list Z :=
  [0x46; 0x48; 0xc9; 0x19; 0x29; 0xb0; 0x33; 0x26; 0x64; 0xcc; 0x90; 0x98;
   0x91; 0x92; 0x32; 0x46; 0x48; 0x48; 0xa4; 0x34; 0x86; 0x90; 0x81; 0x28;
   0x50; 0xaa; 0x15; 0x42; 0x83; 0x50; 0x84; 0xd0; 0x9a; 0x13; 0x16; 0x00;
   0x09; 0x61; 0x2c; 0x25; 0xc4; 0x30; 0x0c; 0x81; 0x90; 0x32; 0x10; 0x30;
   0x80; 0x70; 0x0e; 0x01; 0xc0; 0x18; 0xa0; 0x94; 0x12; 0x82; 0x21; 0x20;
   0x05; 0x40; 0xa8; 0x15; 0x00; 0xc8; 0x43; 0x08; 0x61; 0x0c; 0x0a; 0x08;
   0x1a; 0x03; 0x40; 0x68; 0x05; 0x40; 0x60; 0x2c; 0x05; 0x80; 0x9c; 0x00;
   0x14; 0x22; 0x84; 0x50; 0xe2; 0x80; 0x0c; 0x81; 0x90; 0x32; 0x10; 0x30;
   0x80; 0x70; 0x0e; 0x01; 0xc0; 0x18; 0xa0; 0x94; 0x12; 0x82; 0x21; 0x20;
   0x05; 0x40; 0xa8; 0x15; 0x00; 0xc8; 0x43; 0x08; 0x61; 0x0c; 0x0a; 0x08;
   0x1a; 0x03; 0x40; 0x68; 0x05; 0x40; 0x60; 0x2c; 0x05; 0x80; 0x9c; 0x00;
   0x14; 0x22; 0x84; 0x50; 0xe2; 0x80; 0x46; 0x48; 0xc9; 0x19; 0x29; 0xb0;
   0x33; 0x26; 0x64; 0xcc; 0x90; 0x98; 0x91; 0x92; 0x32; 0x46; 0x48; 0x48;
   0xa4; 0x34; 0x86; 0x90; 0x81; 0x28; 0x50; 0xaa; 0x15; 0x42; 0x83; 0x50;
   0x84; 0xd0; 0x9a; 0x13; 0x16; 0x00; 0x09; 0x61; 0x2c; 0x25; 0xc4; 0x30;
   0x86; 0xc1; 0x47; 0xeb; 0x67; 0xd0].

Definition kMaskRandom45_32 : list Z :=
  [0x0c; 0x81; 0x90; 0x32; 0x10; 0x30; 0x80; 0x70; 0x0e; 0x01; 0xc0; 0x18;
   0xa0; 0x94; 0x12; 0x82; 0x21; 0x20; 0x05; 0x40; 0xa8; 0x15; 0x00; 0xc8;
   0x43; 0x08; 0x61; 0x0c; 0x0a; 0x08; 0x1a; 0x03; 0x40; 0x68; 0x05; 0x40;
   0x60; 0x2c; 0x05; 0x80; 0x9c; 0x00; 0x14; 0x22; 0x84; 0x50; 0xe2; 0x80;
   0x46; 0x48; 0xc9; 0x19; 0x29; 0xb0; 0x33; 0x26; 0x64; 0xcc; 0x90; 0x98;
   0x91; 0x92; 0x32; 0x46; 0x48; 0x48; 0xa4; 0x34; 0x86; 0x90; 0x81; 0x28;
   0x50; 0xaa; 0x15; 0x42; 0x83; 0x50; 0x84; 0xd0; 0x9a; 0x13; 0x16; 0x00;
   0x09; 0x61; 0x2c; 0x25; 0xc4; 0x30; 0x86; 0xc1; 0x47; 0xeb; 0x67; 0xd0;
   0x46; 0x48; 0xc9; 0x19; 0x29; 0xb0; 0x33; 0x26; 0x64; 0xcc; 0x90; 0x98;
   0x91; 0x92; 0x32; 0x46; 0x48; 0x48; 0xa4; 0x34; 0x86; 0x90; 0x81; 0x28;
   0x50; 0xaa; 0x15; 0x42; 0x83; 0x50; 0x84; 0xd0; 0x9a; 0x13; 0x16; 0x00;
   0x09; 0x61; 0x2c; 0x25; 0xc4; 0x30; 0x0c; 0x81; 0x90; 0x32; 0x10; 0x30;
   0x80; 0x70; 0x0e; 0x01; 0xc0; 0x18; 0xa0; 0x94; 0x12; 0x82; 0x21; 0x20;
   0x05; 0x40; 0xa8; 0x15; 0x00; 0xc8; 0x43; 0x08; 0x61; 0x0c; 0x0a; 0x08;
   0x1a; 0x03; 0x40; 0x68; 0x05; 0x40; 0x60; 0x2c; 0x05; 0x80; 0x9c; 0x00;
   0x14; 0x22; 0x84; 0x50; 0xe2; 0x80; 0x40; 0x7e; 0xc1; 0x30; 0x29; 0x50].

Definition kMaskRandom45_33 : list Z :=
  [0x0c; 0x81; 0x90; 0x32; 0x10; 0x30; 0x80; 0x70; 0x0e; 0x01; 0xc0; 0x18;
   0xa0; 0x94; 0x12; 0x82; 0x21; 0x20; 0x05; 0x40; 0xa8; 0x15; 0x00; 0xc8;
   0x43; 0x08; 0x61; 0x0c; 0x0a; 0x08; 0x1a; 0x03; 0x40; 0x68; 0x05; 0x40;
   0x60; 0x2c; 0x05; 0x80; 0x9c; 0x00; 0x14; 0x22; 0x84; 0x50; 0xe2; 0x80;
   0x46; 0x48; 0xc9; 0x19; 0x29; 0xb0; 0x33; 0x26; 0x64; 0xcc; 0x90; 0x98;
   0x91; 0x92; 0x32; 0x46; 0x48; 0x48; 0xa4; 0x34; 0x86; 0x90; 0x81; 0x28;
   0x50; 0xaa; 0x15; 0x42; 0x83; 0x50; 0x84; 0xd0; 0x9a; 0x13; 0x16; 0x00;
   0x09; 0x61; 0x2c; 0x25; 0xc4; 0x30; 0x86; 0xc1; 0x47; 0xeb; 0x67; 0xd0;
   0x0c; 0x81; 0x90; 0x32; 0x10; 0x30; 0x80; 0x70; 0x0e; 0x01; 0xc0; 0x18;
   0xa0; 0x94; 0x12; 0x82; 0x21; 0x20; 0x05; 0x40; 0xa8; 0x15; 0x00; 0xc8;
   0x43; 0x08; 0x61; 0x0c; 0x0a; 0x08; 0x1a; 0x03; 0x40; 0x68; 0x05; 0x40;
   0x60; 0x2c; 0x05; 0x80; 0x9c; 0x00; 0x14; 0x22; 0x84; 0x50; 0xe2; 0x80;
   0x46; 0x48; 0xc9; 0x19; 0x29; 0xb0; 0x62; 0x6c; 0x4d; 0x89; 0xf2; 0x10;
   0x8c; 0x11; 0x82; 0x30; 0x12; 0x20; 0x01; 0x60; 0x2c; 0x05; 0xd0; 0x88;
   0x07; 0x80; 0xf0; 0x1e; 0x0c; 0x18; 0xa0; 0x94; 0x12; 0x82; 0x01; 0xc8;
   0x18; 0xa3; 0x14; 0x62; 0xc5; 0x08; 0x91; 0x12; 0x22; 0x44; 0x02; 0x48;
   0x78; 0x0f; 0x01; 0xe0; 0x00; 0x70].

Definition kMaskRandom45_34 : list Z :=
  [0x0c; 0x81; 0x90; 0x32; 0x10; 0x30; 0x80; 0x70; 0x0e; 0x01; 0xc0; 0x18;
   0xa0; 0x94; 0x12; 0x82; 0x21; 0x20; 0x05; 0x40; 0xa8; 0x15; 0x00; 0xc8;
   0x43; 0x08; 0x61; 0x0c; 0x0a; 0x08; 0x1a; 0x03; 0x40; 0x68; 0x05; 0x40;
   0x60; 0x2c; 0x05; 0x80; 0x9c; 0x00; 0x14; 0x22; 0x84; 0x50; 0xe2; 0x80;
   0x46; 0x48; 0xc9; 0x19; 0x29; 0xb0; 0x62; 0x6c; 0x4d; 0x89; 0xf2; 0x10;
   0x8c; 0x11; 0x82; 0x30; 0x12; 0x20; 0x01; 0x60; 0x2c; 0x05; 0xd0; 0x88;
   0x07; 0x80; 0xf0; 0x1e; 0x0c; 0x18; 0xa0; 0x94; 0x12; 0x82; 0x01; 0xc8;
   0x18; 0xa3; 0x14; 0x62; 0xc5; 0x08; 0x91; 0x12; 0x22; 0x44; 0x02; 0x48;
   0x78; 0x0f; 0x01; 0xe0; 0x00; 0x70; 0x0c; 0x81; 0x90; 0x32; 0x10; 0x30;
   0x80; 0x70; 0x0e; 0x01; 0xc0; 0x18; 0xa0; 0x94; 0x12; 0x82; 0x21; 0x20;
   0x05; 0x40; 0xa8; 0x15; 0x00; 0xc8; 0x43; 0x08; 0x61; 0x0c; 0x0a; 0x08;
   0x1a; 0x03; 0x40; 0x68; 0x05; 0x40; 0x60; 0x2c; 0x05; 0x80; 0x9c; 0x00;
   0x14; 0x22; 0x84; 0x50; 0xe2; 0x80; 0x46; 0x48; 0xc9; 0x19; 0x29; 0xb0;
   0x33; 0x26; 0x64; 0xcc; 0x90; 0x98; 0x91; 0x92; 0x32; 0x46; 0x48; 0x48;
   0xa4; 0x34; 0x86; 0x90; 0x81; 0x28; 0x50; 0xaa; 0x15; 0x42; 0x83; 0x50;
   0x84; 0xd0; 0x9a; 0x13; 0x16; 0x00; 0x09; 0x61; 0x2c; 0x25; 0xc4; 0x30;
   0x86; 0xc1; 0x47; 0xeb; 0x67; 0xd0; 0x1f; 0x78; 0x45; 0x5e; 0x46; 0x50].

Definition kMaskRandom45_35 : list Z :=
  [0x0c; 0x81; 0x90; 0x32; 0x10; 0x30; 0x80; 0x70; 0x0e; 0x01; 0xc0; 0x18;
   0xa0; 0x94; 0x12; 0x82; 0x21; 0x20; 0x05; 0x40; 0xa8; 0x15; 0x00; 0xc8;
   0x43; 0x08; 0x61; 0x0c; 0x0a; 0x08; 0x1a; 0x03; 0x40; 0x68; 0x05; 0x40;
   0x60; 0x2c; 0x05; 0x80; 0x9c; 0x00; 0x14; 0x22; 0x84; 0x50; 0xe2; 0x80;
   0x46; 0x48; 0xc9; 0x19; 0x29; 0xb0; 0x62; 0x6c; 0x4d; 0x89; 0xf2; 0x10;
   0x8c; 0x11; 0x82; 0x30; 0x12; 0x20; 0x01; 0x60; 0x2c; 0x05; 0xd0; 0x88;
   0x07; 0x80; 0xf0; 0x1e; 0x0c; 0x18; 0xa0; 0x94; 0x12; 0x82; 0x01; 0xc8;
   0x18; 0xa3; 0x14; 0x62; 0xc5; 0x08; 0x91; 0x12; 0x22; 0x44; 0x02; 0x48;
   0x78; 0x0f; 0x01; 0xe0; 0x00; 0x70; 0x46; 0x48; 0xc9; 0x19; 0x29; 0xb0;
   0x62; 0x6c; 0x4d; 0x89; 0xf2; 0x10; 0x8c; 0x11; 0x82; 0x30; 0x12; 0x20;
   0x01; 0x60; 0x2c; 0x05; 0xd0; 0x88; 0x07; 0x80; 0xf0; 0x1e; 0x0c; 0x18;
   0xa0; 0x94; 0x12; 0x82; 0x01; 0xc8; 0x18; 0xa3; 0x14; 0x62; 0xc5; 0x08;
   0x91; 0x12; 0x22; 0x44; 0x02; 0x48; 0x78; 0x0f; 0x01; 0xe0; 0x00; 0x70;
   0x0c; 0x81; 0x90; 0x32; 0x10; 0x30; 0x80; 0x70; 0x0e; 0x01; 0xc0; 0x18;
   0xa0; 0x94; 0x12; 0x82; 0x21; 0x20; 0x05; 0x40; 0xa8; 0x15; 0x00; 0xc8;
   0x43; 0x08; 0x61; 0x0c; 0x0a; 0x08; 0x1a; 0x03; 0x40; 0x68; 0x05; 0x40;
   0x60; 0x2c; 0x05; 0x80; 0x9c; 0x00; 0x14; 0x22; 0x84; 0x50; 0xe2; 0x80;
   0xe4; 0xd4; 0x6e; 0x08; 0xc9; 0x58].

Definition kMaskRandom45_36 : list Z :=
  [0x46; 0x48; 0xc9; 0x19; 0x29; 0xb0; 0x62; 0x6c; 0x4d; 0x89; 0xf2; 0x10;
   0x8c; 0x11; 0x82; 0x30; 0x12; 0x20; 0x01; 0x60; 0x2c; 0x05; 0xd0; 0x88;
   0x07; 0x80; 0xf0; 0x1e; 0x0c; 0x18; 0xa0; 0x94; 0x12; 0x82; 0x01; 0xc8;
   0x18; 0xa3; 0x14; 0x62; 0xc5; 0x08; 0x91; 0x12; 0x22; 0x44; 0x02; 0x48;
   0x78; 0x0f; 0x01; 0xe0; 0x00; 0x70; 0x0c; 0x81; 0x90; 0x32; 0x10; 0x30;
   0x80; 0x70; 0x0e; 0x01; 0xc0; 0x18; 0xa0; 0x94; 0x12; 0x82; 0x21; 0x20;
   0x05; 0x40; 0xa8; 0x15; 0x00; 0xc8; 0x43; 0x08; 0x61; 0x0c; 0x0a; 0x08;
   0x1a; 0x03; 0x40; 0x68; 0x05; 0x40; 0x60; 0x2c; 0x05; 0x80; 0x9c; 0x00;
   0x14; 0x22; 0x84; 0x50; 0xe2; 0x80; 0xe4; 0xd4; 0x6e; 0x08; 0xc9; 0x58;
   0x0c; 0x81; 0x90; 0x32; 0x10; 0x30; 0x80; 0x70; 0x0e; 0x01; 0xc0; 0x18;
   0xa0; 0x94; 0x12; 0x82; 0x21; 0x20; 0x05; 0x40; 0xa8; 0x15; 0x00; 0xc8;
   0x43; 0x08; 0x61; 0x0c; 0x0a; 0x08; 0x1a; 0x03; 0x40; 0x68; 0x05; 0x40;
   0x60; 0x2c; 0x05; 0x80; 0x9c; 0x00; 0x14; 0x22; 0x84; 0x50; 0xe2; 0x80;
   0x46; 0x48; 0xc9; 0x19; 0x29; 0xb0; 0x62; 0x6c; 0x4d; 0x89; 0xf2; 0x10;
   0x8c; 0x11; 0x82; 0x30; 0x12; 0x20; 0x01; 0x60; 0x2c; 0x05; 0xd0; 0x88;
   0x07; 0x80; 0xf0; 0x1e; 0x0c; 0x18; 0xa0; 0x94; 0x12; 0x82; 0x01; 0xc8;
   0x18; 0xa3; 0x14; 0x62; 0xc5; 0x08; 0x91; 0x12; 0x22; 0x44; 0x02; 0x48;
   0x78; 0x0f; 0x01; 0xe0; 0x00; 0x70; 0xd0; 0x1a; 0xf0; 0x14; 0xf0; 0xe8].

Definition kMaskRandom45_37 : list Z :=
  [0x46; 0x48; 0xc9; 0x19; 0x29; 0xb0; 0x62; 0x6c; 0x4d; 0x89; 0xf2; 0x10;
   0x8c; 0x11; 0x82; 0x30; 0x12; 0x20; 0x01; 0x60; 0x2c; 0x05; 0xd0; 0x88;
   0x07; 0x80; 0xf0; 0x1e; 0x0c; 0x18; 0xa0; 0x94; 0x12; 0x82; 0x01; 0xc8;
   0x18; 0xa3; 0x14; 0x62; 0xc5; 0x08; 0x91; 0x12; 0x22; 0x44; 0x02; 0x48;
   0x78; 0x0f; 0x01; 0xe0; 0x00; 0x70; 0x0c; 0x81; 0x90; 0x32; 0x10; 0x30;
   0x80; 0x70; 0x0e; 0x01; 0xc0; 0x18; 0xa0; 0x94; 0x12; 0x82; 0x21; 0x20;
   0x05; 0x40; 0xa8; 0x15; 0x00; 0xc8; 0x43; 0x08; 0x61; 0x0c; 0x0a; 0x08;
   0x1a; 0x03; 0x40; 0x68; 0x05; 0x40; 0x60; 0x2c; 0x05; 0x80; 0x9c; 0x00;
   0x14; 0x22; 0x84; 0x50; 0xe2; 0x80; 0xe4; 0xd4; 0x6e; 0x08; 0xc9; 0x58;
   0x46; 0x48; 0xc9; 0x19; 0x29; 0xb0; 0x62; 0x6c; 0x4d; 0x89; 0xf2; 0x10;
   0x8c; 0x11; 0x82; 0x30; 0x12; 0x20; 0x01; 0x60; 0x2c; 0x05; 0xd0; 0x88;
   0x07; 0x80; 0xf0; 0x1e; 0x0c; 0x18; 0xa0; 0x94; 0x12; 0x82; 0x01; 0xc8;
   0x18; 0xa3; 0x14; 0x62; 0xc5; 0x08; 0x91; 0x12; 0x22; 0x44; 0x02; 0x48;
   0x78; 0x0f; 0x01; 0xe0; 0x00; 0x70; 0x64; 0x4c; 0x89; 0x91; 0x28; 0xa0;
   0x51; 0x4a; 0x29; 0x45; 0x22; 0x88; 0xa9; 0x15; 0x22; 0xa4; 0x40; 0x68;
   0x04; 0xc0; 0x98; 0x13; 0x12; 0x10; 0xd0; 0x1a; 0x03; 0x40; 0x05; 0x10;
   0x82; 0x50; 0x4a; 0x09; 0x00; 0x70; 0x21; 0x24; 0x24; 0x84; 0xdc; 0x00;
   0x0c; 0x21; 0x84; 0x30; 0x84; 0x88; 0x4a; 0x09; 0x41; 0x28; 0x2b; 0x00;
   0x12; 0xa2; 0x54; 0x4a; 0xd1; 0x40].

Definition kMaskRandom45_38 : list Z :=
  [0x46; 0x48; 0xc9; 0x19; 0x29; 0xb0; 0x62; 0x6c; 0x4d; 0x89; 0xf2; 0x10;
   0x8c; 0x11; 0x82; 0x30; 0x12; 0x20; 0x01; 0x60; 0x2c; 0x05; 0xd0; 0x88;
   0x07; 0x80; 0xf0; 0x1e; 0x0c; 0x18; 0xa0; 0x94; 0x12; 0x82; 0x01; 0xc8;
   0x18; 0xa3; 0x14; 0x62; 0xc5; 0x08; 0x91; 0x12; 0x22; 0x44; 0x02; 0x48;
   0x78; 0x0f; 0x01; 0xe0; 0x00; 0x70; 0x64; 0x4c; 0x89; 0x91; 0x28; 0xa0;
   0x51; 0x4a; 0x29; 0x45; 0x22; 0x88; 0xa9; 0x15; 0x22; 0xa4; 0x40; 0x68;
   0x04; 0xc0; 0x98; 0x13; 0x12; 0x10; 0xd0; 0x1a; 0x03; 0x40; 0x05; 0x10;
   0x82; 0x50; 0x4a; 0x09; 0x00; 0x70; 0x21; 0x24; 0x24; 0x84; 0xdc; 0x00;
   0x0c; 0x21; 0x84; 0x30; 0x84; 0x88; 0x4a; 0x09; 0x41; 0x28; 0x2b; 0x00;
   0x12; 0xa2; 0x54; 0x4a; 0xd1; 0x40; 0x46; 0x48; 0xc9; 0x19; 0x29; 0xb0;
   0x62; 0x6c; 0x4d; 0x89; 0xf2; 0x10; 0x8c; 0x11; 0x82; 0x30; 0x12; 0x20;
   0x01; 0x60; 0x2c; 0x05; 0xd0; 0x88; 0x07; 0x80; 0xf0; 0x1e; 0x0c; 0x18;
   0xa0; 0x94; 0x12; 0x82; 0x01; 0xc8; 0x18; 0xa3; 0x14; 0x62; 0xc5; 0x08;
   0x91; 0x12; 0x22; 0x44; 0x02; 0x48; 0x78; 0x0f; 0x01; 0xe0; 0x00; 0x70;
   0x0c; 0x81; 0x90; 0x32; 0x10; 0x30; 0x80; 0x70; 0x0e; 0x01; 0xc0; 0x18;
   0xa0; 0x94; 0x12; 0x82; 0x21; 0x20; 0x05; 0x40; 0xa8; 0x15; 0x00; 0xc8;
   0x43; 0x08; 0x61; 0x0c; 0x0a; 0x08; 0x1a; 0x03; 0x40; 0x68; 0x05; 0x40;
   0x60; 0x2c; 0x05; 0x80; 0x9c; 0x00; 0x14; 0x22; 0x84; 0x50; 0xe2; 0x80;
   0xe4; 0xd4; 0x6e; 0x08; 0xc9; 0x58; 0x04; 0x67; 0x1b; 0xba; 0x1d; 0xa0].

Definition kMaskRandom45_39 : list Z :=
  [0x46; 0x48; 0xc9; 0x19; 0x29; 0xb0; 0x62; 0x6c; 0x4d; 0x89; 0xf2; 0x10;
   0x8c; 0x11; 0x82; 0x30; 0x12; 0x20; 0x01; 0x60; 0x2c; 0x05; 0xd0; 0x88;
   0x07; 0x80; 0xf0; 0x1e; 0x0c; 0x18; 0xa0; 0x94; 0x12; 0x82; 0x01; 0xc8;
   0x18; 0xa3; 0x14; 0x62; 0xc5; 0x08; 0x91; 0x12; 0x22; 0x44; 0x02; 0x48;
   0x78; 0x0f; 0x01; 0xe0; 0x00; 0x70; 0x64; 0x4c; 0x89; 0x91; 0x28; 0xa0;
   0x51; 0x4a; 0x29; 0x45; 0x22; 0x88; 0xa9; 0x15; 0x22; 0xa4; 0x40; 0x68;
   0x04; 0xc0; 0x98; 0x13; 0x12; 0x10; 0xd0; 0x1a; 0x03; 0x40; 0x05; 0x10;
   0x82; 0x50; 0x4a; 0x09; 0x00; 0x70; 0x21; 0x24; 0x24; 0x84; 0xdc; 0x00;
   0x0c; 0x21; 0x84; 0x30; 0x84; 0x88; 0x4a; 0x09; 0x41; 0x28; 0x2b; 0x00;
   0x12; 0xa2; 0x54; 0x4a; 0xd1; 0x40; 0x64; 0x4c; 0x89; 0x91; 0x28; 0xa0;
   0x51; 0x4a; 0x29; 0x45; 0x22; 0x88; 0xa9; 0x15; 0x22; 0xa4; 0x40; 0x68;
   0x04; 0xc0; 0x98; 0x13; 0x12; 0x10; 0xd0; 0x1a; 0x03; 0x40; 0x05; 0x10;
   0x82; 0x50; 0x4a; 0x09; 0x00; 0x70; 0x21; 0x24; 0x24; 0x84; 0xdc; 0x00;
   0x0c; 0x21; 0x84; 0x30; 0x84; 0x88; 0x4a; 0x09; 0x41; 0x28; 0x2b; 0x00;
   0x12; 0xa2; 0x54; 0x4a; 0xd1; 0x40; 0x46; 0x48; 0xc9; 0x19; 0x29; 0xb0;
   0x62; 0x6c; 0x4d; 0x89; 0xf2; 0x10; 0x8c; 0x11; 0x82; 0x30; 0x12; 0x20;
   0x01; 0x60; 0x2c; 0x05; 0xd0; 0x88; 0x07; 0x80; 0xf0; 0x1e; 0x0c; 0x18;
   0xa0; 0x94; 0x12; 0x82; 0x01; 0xc8; 0x18; 0xa3; 0x14; 0x62; 0xc5; 0x08;
   0x91; 0x12; 0x22; 0x44; 0x02; 0x48; 0x78; 0x0f; 0x01; 0xe0; 0x00; 0x70;
   0x3b; 0x48; 0xc7; 0x6d; 0x29; 0xe8].

Definition kMaskRandom45_40 : list Z :=
  [0x64; 0x4c; 0x89; 0x91; 0x28; 0xa0; 0x51; 0x4a; 0x29; 0x45; 0x22; 0x88;
   0xa9; 0x15; 0x22; 0xa4; 0x40; 0x68; 0x04; 0xc0; 0x98; 0x13; 0x12; 0x10;
   0xd0; 0x1a; 0x03; 0x40; 0x05; 0x10; 0x82; 0x50; 0x4a; 0x09; 0x00; 0x70;
   0x21; 0x24; 0x24; 0x84; 0xdc; 0x00; 0x0c; 0x21; 0x84; 0x30; 0x84; 0x88;
   0x4a; 0x09; 0x41; 0x28; 0x2b; 0x00; 0x12; 0xa2; 0x54; 0x4a; 0xd1; 0x40;
   0x46; 0x48; 0xc9; 0x19; 0x29; 0xb0; 0x62; 0x6c; 0x4d; 0x89; 0xf2; 0x10;
   0x8c; 0x11; 0x82; 0x30; 0x12; 0x20; 0x01; 0x60; 0x2c; 0x05; 0xd0; 0x88;
   0x07; 0x80; 0xf0; 0x1e; 0x0c; 0x18; 0xa0; 0x94; 0x12; 0x82; 0x01; 0xc8;
   0x18; 0xa3; 0x14; 0x62; 0xc5; 0x08; 0x91; 0x12; 0x22; 0x44; 0x02; 0x48;
   0x78; 0x0f; 0x01; 0xe0; 0x00; 0x70; 0x3b; 0x48; 0xc7; 0x6d; 0x29; 0xe8;
   0x46; 0x48; 0xc9; 0x19; 0x29; 0xb0; 0x62; 0x6c; 0x4d; 0x89; 0xf2; 0x10;
   0x8c; 0x11; 0x82; 0x30; 0x12; 0x20; 0x01; 0x60; 0x2c; 0x05; 0xd0; 0x88;
   0x07; 0x80; 0xf0; 0x1e; 0x0c; 0x18; 0xa0; 0x94; 0x12; 0x82; 0x01; 0xc8;
   0x18; 0xa3; 0x14; 0x62; 0xc5; 0x08; 0x91; 0x12; 0x22; 0x44; 0x02; 0x48;
   0x78; 0x0f; 0x01; 0xe0; 0x00; 0x70; 0x64; 0x4c; 0x89; 0x91; 0x28; 0xa0;
   0x51; 0x4a; 0x29; 0x45; 0x22; 0x88; 0xa9; 0x15; 0x22; 0xa4; 0x40; 0x68;
   0x04; 0xc0; 0x98; 0x13; 0x12; 0x10; 0xd0; 0x1a; 0x03; 0x40; 0x05; 0x10;
   0x82; 0x50; 0x4a; 0x09; 0x00; 0x70; 0x21; 0x24; 0x24; 0x84; 0xdc; 0x00;
   0x0c; 0x21; 0x84; 0x30; 0x84; 0x88; 0x4a; 0x09; 0x41; 0x28; 0x2b; 0x00;
   0x12; 0xa2; 0x54; 0x4a; 0xd1; 0x40; 0xd9; 0x40; 0x46; 0xe6; 0x4f; 0xd8].

Definition kMaskRandom45_41 : list Z :=
  [0x64; 0x4c; 0x89; 0x91; 0x28; 0xa0; 0x51; 0x4a; 0x29; 0x45; 0x22; 0x88;
   0xa9; 0x15; 0x22; 0xa4; 0x40; 0x68; 0x04; 0xc0; 0x98; 0x13; 0x12; 0x10;
   0xd0; 0x1a; 0x03; 0x40; 0x05; 0x10; 0x82; 0x50; 0x4a; 0x09; 0x00; 0x70;
   0x21; 0x24; 0x24; 0x84; 0xdc; 0x00; 0x0c; 0x21; 0x84; 0x30; 0x84; 0x88;
   0x4a; 0x09; 0x41; 0x28; 0x2b; 0x00; 0x12; 0xa2; 0x54; 0x4a; 0xd1; 0x40;
   0x46; 0x48; 0xc9; 0x19; 0x29; 0xb0; 0x62; 0x6c; 0x4d; 0x89; 0xf2; 0x10;
   0x8c; 0x11; 0x82; 0x30; 0x12; 0x20; 0x01; 0x60; 0x2c; 0x05; 0xd0; 0x88;
   0x07; 0x80; 0xf0; 0x1e; 0x0c; 0x18; 0xa0; 0x94; 0x12; 0x82; 0x01; 0xc8;
   0x18; 0xa3; 0x14; 0x62; 0xc5; 0x08; 0x91; 0x12; 0x22; 0x44; 0x02; 0x48;
   0x78; 0x0f; 0x01; 0xe0; 0x00; 0x70; 0x3b; 0x48; 0xc7; 0x6d; 0x29; 0xe8;
   0x64; 0x4c; 0x89; 0x91; 0x28; 0xa0; 0x51; 0x4a; 0x29; 0x45; 0x22; 0x88;
   0xa9; 0x15; 0x22; 0xa4; 0x40; 0x68; 0x04; 0xc0; 0x98; 0x13; 0x12; 0x10;
   0xd0; 0x1a; 0x03; 0x40; 0x05; 0x10; 0x82; 0x50; 0x4a; 0x09; 0x00; 0x70;
   0x21; 0x24; 0x24; 0x84; 0xdc; 0x00; 0x0c; 0x21; 0x84; 0x30; 0x84; 0x88;
   0x4a; 0x09; 0x41; 0x28; 0x2b; 0x00; 0x12; 0xa2; 0x54; 0x4a; 0xd1; 0x40;
   0x46; 0x48; 0xc9; 0x19; 0x29; 0xb0; 0x33; 0x26; 0x64; 0xcc; 0x90; 0x98;
   0x99; 0x13; 0x22; 0x64; 0x08; 0x48; 0x05; 0x80; 0xb0; 0x16; 0x00; 0x38;
   0x80; 0xb0; 0x16; 0x02; 0x86; 0x08; 0x84; 0x50; 0x8a; 0x11; 0x20; 0x60;
   0x40; 0x68; 0x0d; 0x01; 0xb5; 0x00; 0x0a; 0x81; 0x50; 0x2a; 0x43; 0x00;
   0x68; 0x0d; 0x01; 0xa0; 0x12; 0x40; 0x10; 0x22; 0x04; 0x40; 0xc4; 0x80;
   0x30; 0x46; 0x08; 0xc1; 0x60; 0x10].

Definition kMaskRandom45_42 : list Z :=
  [0x64; 0x4c; 0x89; 0x91; 0x28; 0xa0; 0x51; 0x4a; 0x29; 0x45; 0x22; 0x88;
   0xa9; 0x15; 0x22; 0xa4; 0x40; 0x68; 0x04; 0xc0; 0x98; 0x13; 0x12; 0x10;
   0xd0; 0x1a; 0x03; 0x40; 0x05; 0x10; 0x82; 0x50; 0x4a; 0x09; 0x00; 0x70;
   0x21; 0x24; 0x24; 0x84; 0xdc; 0x00; 0x0c; 0x21; 0x84; 0x30; 0x84; 0x88;
   0x4a; 0x09; 0x41; 0x28; 0x2b; 0x00; 0x12; 0xa2; 0x54; 0x4a; 0xd1; 0x40;
   0x46; 0x48; 0xc9; 0x19; 0x29; 0xb0; 0x33; 0x26; 0x64; 0xcc; 0x90; 0x98;
   0x99; 0x13; 0x22; 0x64; 0x08; 0x48; 0x05; 0x80; 0xb0; 0x16; 0x00; 0x38;
   0x80; 0xb0; 0x16; 0x02; 0x86; 0x08; 0x84; 0x50; 0x8a; 0x11; 0x20; 0x60;
   0x40; 0x68; 0x0d; 0x01; 0xb5; 0x00; 0x0a; 0x81; 0x50; 0x2a; 0x43; 0x00;
   0x68; 0x0d; 0x01; 0xa0; 0x12; 0x40; 0x10; 0x22; 0x04; 0x40; 0xc4; 0x80;
   0x30; 0x46; 0x08; 0xc1; 0x60; 0x10; 0x64; 0x4c; 0x89; 0x91; 0x28; 0xa0;
   0x51; 0x4a; 0x29; 0x45; 0x22; 0x88; 0xa9; 0x15; 0x22; 0xa4; 0x40; 0x68;
   0x04; 0xc0; 0x98; 0x13; 0x12; 0x10; 0xd0; 0x1a; 0x03; 0x40; 0x05; 0x10;
   0x82; 0x50; 0x4a; 0x09; 0x00; 0x70; 0x21; 0x24; 0x24; 0x84; 0xdc; 0x00;
   0x0c; 0x21; 0x84; 0x30; 0x84; 0x88; 0x4a; 0x09; 0x41; 0x28; 0x2b; 0x00;
   0x12; 0xa2; 0x54; 0x4a; 0xd1; 0x40; 0x46; 0x48; 0xc9; 0x19; 0x29; 0xb0;
   0x62; 0x6c; 0x4d; 0x89; 0xf2; 0x10; 0x8c; 0x11; 0x82; 0x30; 0x12; 0x20;
   0x01; 0x60; 0x2c; 0x05; 0xd0; 0x88; 0x07; 0x80; 0xf0; 0x1e; 0x0c; 0x18;
   0xa0; 0x94; 0x12; 0x82; 0x01; 0xc8; 0x18; 0xa3; 0x14; 0x62; 0xc5; 0x08;
   0x91; 0x12; 0x22; 0x44; 0x02; 0x48; 0x78; 0x0f; 0x01; 0xe0; 0x00; 0x70;
   0x3b; 0x48; 0xc7; 0x6d; 0x29; 0xe8; 0xac; 0xcc; 0x04; 0x41; 0x97; 0x30].

Definition kMaskRandom45_43 : list Z :=
  [0x64; 0x4c; 0x89; 0x91; 0x28; 0xa0; 0x51; 0x4a; 0x29; 0x45; 0x22; 0x88;
   0xa9; 0x15; 0x22; 0xa4; 0x40; 0x68; 0x04; 0xc0; 0x98; 0x13; 0x12; 0x10;
   0xd0; 0x1a; 0x03; 0x40; 0x05; 0x10; 0x82; 0x50; 0x4a; 0x09; 0x00; 0x70;
   0x21; 0x24; 0x24; 0x84; 0xdc; 0x00; 0x0c; 0x21; 0x84; 0x30; 0x84; 0x88;
   0x4a; 0x09; 0x41; 0x28; 0x2b; 0x00; 0x12; 0xa2; 0x54; 0x4a; 0xd1; 0x40;
   0x46; 0x48; 0xc9; 0x19; 0x29; 0xb0; 0x33; 0x26; 0x64; 0xcc; 0x90; 0x98;
   0x99; 0x13; 0x22; 0x64; 0x08; 0x48; 0x05; 0x80; 0xb0; 0x16; 0x00; 0x38;
   0x80; 0xb0; 0x16; 0x02; 0x86; 0x08; 0x84; 0x50; 0x8a; 0x11; 0x20; 0x60;
   0x40; 0x68; 0x0d; 0x01; 0xb5; 0x00; 0x0a; 0x81; 0x50; 0x2a; 0x43; 0x00;
   0x68; 0x0d; 0x01; 0xa0; 0x12; 0x40; 0x10; 0x22; 0x04; 0x40; 0xc4; 0x80;
   0x30; 0x46; 0x08; 0xc1; 0x60; 0x10; 0x46; 0x48; 0xc9; 0x19; 0x29; 0xb0;
   0x33; 0x26; 0x64; 0xcc; 0x90; 0x98; 0x99; 0x13; 0x22; 0x64; 0x08; 0x48;
   0x05; 0x80; 0xb0; 0x16; 0x00; 0x38; 0x80; 0xb0; 0x16; 0x02; 0x86; 0x08;
   0x84; 0x50; 0x8a; 0x11; 0x20; 0x60; 0x40; 0x68; 0x0d; 0x01; 0xb5; 0x00;
   0x0a; 0x81; 0x50; 0x2a; 0x43; 0x00; 0x68; 0x0d; 0x01; 0xa0; 0x12; 0x40;
   0x10; 0x22; 0x04; 0x40; 0xc4; 0x80; 0x30; 0x46; 0x08; 0xc1; 0x60; 0x10;
   0x64; 0x4c; 0x89; 0x91; 0x28; 0xa0; 0x51; 0x4a; 0x29; 0x45; 0x22; 0x88;
   0xa9; 0x15; 0x22; 0xa4; 0x40; 0x68; 0x04; 0xc0; 0x98; 0x13; 0x12; 0x10;
   0xd0; 0x1a; 0x03; 0x40; 0x05; 0x10; 0x82; 0x50; 0x4a; 0x09; 0x00; 0x70;
   0x21; 0x24; 0x24; 0x84; 0xdc; 0x00; 0x0c; 0x21; 0x84; 0x30; 0x84; 0x88;
   0x4a; 0x09; 0x41; 0x28; 0x2b; 0x00; 0x12; 0xa2; 0x54; 0x4a; 0xd1; 0x40;
   0x9e; 0xce; 0x8b; 0xaa; 0x34; 0x68].

Definition kMaskRandom45_44 : list Z :=
  [0x46; 0x48; 0xc9; 0x19; 0x29; 0xb0; 0x33; 0x26; 0x64; 0xcc; 0x90; 0x98;
   0x99; 0x13; 0x22; 0x64; 0x08; 0x48; 0x05; 0x80; 0xb0; 0x16; 0x00; 0x38;
   0x80; 0xb0; 0x16; 0x02; 0x86; 0x08; 0x84; 0x50; 0x8a; 0x11; 0x20; 0x60;
   0x40; 0x68; 0x0d; 0x01; 0xb5; 0x00; 0x0a; 0x81; 0x50; 0x2a; 0x43; 0x00;
   0x68; 0x0d; 0x01; 0xa0; 0x12; 0x40; 0x10; 0x22; 0x04; 0x40; 0xc4; 0x80;
   0x30; 0x46; 0x08; 0xc1; 0x60; 0x10; 0x64; 0x4c; 0x89; 0x91; 0x28; 0xa0;
   0x51; 0x4a; 0x29; 0x45; 0x22; 0x88; 0xa9; 0x15; 0x22; 0xa4; 0x40; 0x68;
   0x04; 0xc0; 0x98; 0x13; 0x12; 0x10; 0xd0; 0x1a; 0x03; 0x40; 0x05; 0x10;
   0x82; 0x50; 0x4a; 0x09; 0x00; 0x70; 0x21; 0x24; 0x24; 0x84; 0xdc; 0x00;
   0x0c; 0x21; 0x84; 0x30; 0x84; 0x88; 0x4a; 0x09; 0x41; 0x28; 0x2b; 0x00;
   0x12; 0xa2; 0x54; 0x4a; 0xd1; 0x40; 0x9e; 0xce; 0x8b; 0xaa; 0x34; 0x68;
   0x64; 0x4c; 0x89; 0x91; 0x28; 0xa0; 0x51; 0x4a; 0x29; 0x45; 0x22; 0x88;
   0xa9; 0x15; 0x22; 0xa4; 0x40; 0x68; 0x04; 0xc0; 0x98; 0x13; 0x12; 0x10;
   0xd0; 0x1a; 0x03; 0x40; 0x05; 0x10; 0x82; 0x50; 0x4a; 0x09; 0x00; 0x70;
   0x21; 0x24; 0x24; 0x84; 0xdc; 0x00; 0x0c; 0x21; 0x84; 0x30; 0x84; 0x88;
   0x4a; 0x09; 0x41; 0x28; 0x2b; 0x00; 0x12; 0xa2; 0x54; 0x4a; 0xd1; 0x40;
   0x46; 0x48; 0xc9; 0x19; 0x29; 0xb0; 0x33; 0x26; 0x64; 0xcc; 0x90; 0x98;
   0x99; 0x13; 0x22; 0x64; 0x08; 0x48; 0x05; 0x80; 0xb0; 0x16; 0x00; 0x38;
   0x80; 0xb0; 0x16; 0x02; 0x86; 0x08; 0x84; 0x50; 0x8a; 0x11; 0x20; 0x60;
   0x40; 0x68; 0x0d; 0x01; 0xb5; 0x00; 0x0a; 0x81; 0x50; 0x2a; 0x43; 0x00;
   0x68; 0x0d; 0x01; 0xa0; 0x12; 0x40; 0x10; 0x22; 0x04; 0x40; 0xc4; 0x80;
   0x30; 0x46; 0x08; 0xc1; 0x60; 0x10; 0xf8; 0x40; 0xe3; 0x2e; 0x16; 0x00].

Definition kMaskRandom45_45 : list Z :=
  [0x46; 0x48; 0xc9; 0x19; 0x29; 0xb0; 0x33; 0x26; 0x64; 0xcc; 0x90; 0x98;
   0x99; 0x13; 0x22; 0x64; 0x08; 0x48; 0x05; 0x80; 0xb0; 0x16; 0x00; 0x38;
   0x80; 0xb0; 0x16; 0x02; 0x86; 0x08; 0x84; 0x50; 0x8a; 0x11; 0x20; 0x60;
   0x40; 0x68; 0x0d; 0x01; 0xb5; 0x00; 0x0a; 0x81; 0x50; 0x2a; 0x43; 0x00;
   0x68; 0x0d; 0x01; 0xa0; 0x12; 0x40; 0x10; 0x22; 0x04; 0x40; 0xc4; 0x80;
   0x30; 0x46; 0x08; 0xc1; 0x60; 0x10; 0x64; 0x4c; 0x89; 0x91; 0x28; 0xa0;
   0x51; 0x4a; 0x29; 0x45; 0x22; 0x88; 0xa9; 0x15; 0x22; 0xa4; 0x40; 0x68;
   0x04; 0xc0; 0x98; 0x13; 0x12; 0x10; 0xd0; 0x1a; 0x03; 0x40; 0x05; 0x10;
   0x82; 0x50; 0x4a; 0x09; 0x00; 0x70; 0x21; 0x24; 0x24; 0x84; 0xdc; 0x00;
   0x0c; 0x21; 0x84; 0x30; 0x84; 0x88; 0x4a; 0x09; 0x41; 0x28; 0x2b; 0x00;
   0x12; 0xa2; 0x54; 0x4a; 0xd1; 0x40; 0x9e; 0xce; 0x8b; 0xaa; 0x34; 0x68;
   0x46; 0x48; 0xc9; 0x19; 0x29; 0xb0; 0x33; 0x26; 0x64; 0xcc; 0x90; 0x98;
   0x99; 0x13; 0x22; 0x64; 0x08; 0x48; 0x05; 0x80; 0xb0; 0x16; 0x00; 0x38;
   0x80; 0xb0; 0x16; 0x02; 0x86; 0x08; 0x84; 0x50; 0x8a; 0x11; 0x20; 0x60;
   0x40; 0x68; 0x0d; 0x01; 0xb5; 0x00; 0x0a; 0x81; 0x50; 0x2a; 0x43; 0x00;
   0x68; 0x0d; 0x01; 0xa0; 0x12; 0x40; 0x10; 0x22; 0x04; 0x40; 0xc4; 0x80;
   0x30; 0x46; 0x08; 0xc1; 0x60; 0x10; 0x64; 0x4c; 0x89; 0x19; 0x08; 0x30;
   0x51; 0x4a; 0x28; 0xcc; 0x81; 0x18; 0xa9; 0x15; 0x22; 0x64; 0x20; 0x28;
   0x04; 0xc0; 0x98; 0x16; 0x10; 0xc0; 0xd0; 0x1a; 0x02; 0x02; 0xc0; 0x88;
   0x82; 0x50; 0x4a; 0x11; 0x0a; 0x40; 0x21; 0x24; 0x25; 0x01; 0xcc; 0x00;
   0x0c; 0x21; 0x84; 0x2a; 0x04; 0x48; 0x4a; 0x09; 0x41; 0xa0; 0x31; 0x00;
   0x12; 0xa2; 0x54; 0x40; 0x92; 0x10; 0x9e; 0xce; 0x88; 0xc1; 0x45; 0x00;
   0xfb; 0x97; 0x5d; 0x7d; 0x42; 0x20].

Definition kMaskRandom46_1 : list Z :=
  [0xff; 0xff; 0xff; 0xff; 0xff; 0xfc].

Definition kMaskRandom46_2 : list Z :=
  [0xec; 0xdd; 0x99; 0xd9; 0xbb; 0x30; 0x9b; 0xb2; 0x77; 0x37; 0x64; 0xec].

Definition kMaskRandom46_3 : list Z :=
  [0xca; 0xd3; 0x65; 0x95; 0xa6; 0xc8; 0xf1; 0x49; 0x3b; 0xe2; 0x92; 0x74;
   0x76; 0x27; 0xd0; 0xec; 0x4f; 0xa0].

Definition kMaskRandom46_4 : list Z :=
  [0xc4; 0xd1; 0x65; 0x89; 0xa2; 0xc8; 0x31; 0x62; 0x96; 0x62; 0xc5; 0x2c;
   0x4b; 0x24; 0x5a; 0x96; 0x48; 0xb4; 0x2c; 0xa8; 0xaa; 0x59; 0x51; 0x54].

Definition kMaskRandom46_5 : list Z :=
  [0xc6; 0xca; 0x6d; 0x8d; 0x94; 0xd8; 0x63; 0x6c; 0x96; 0xc6; 0xd9; 0x2c;
   0x1d; 0xa1; 0xdc; 0x3b; 0x43; 0xb8; 0xad; 0x55; 0x39; 0x5a; 0xaa; 0x70;
   0xb2; 0xb7; 0x07; 0x65; 0x6e; 0x0c].

Definition kMaskRandom46_6 : list Z :=
  [0x64; 0x4a; 0x28; 0xc8; 0x94; 0x50; 0x51; 0x58; 0xa2; 0xa2; 0xb1; 0x44;
   0x0c; 0xa4; 0x30; 0x19; 0x48; 0x60; 0xa1; 0x22; 0x47; 0x42; 0x44; 0x8c;
   0x12; 0xa1; 0x1c; 0x25; 0x42; 0x38; 0x8a; 0x45; 0xc1; 0x14; 0x8b; 0x80].

Definition kMaskRandom46_7 : list Z :=
  [0x46; 0x4a; 0x6c; 0x8c; 0x94; 0xd8; 0x33; 0x24; 0x26; 0x66; 0x48; 0x4c;
   0x91; 0x92; 0x13; 0x23; 0x24; 0x24; 0xa4; 0x20; 0x4b; 0x48; 0x40; 0x94;
   0x50; 0xa0; 0xd4; 0xa1; 0x41; 0xa8; 0x84; 0xc5; 0x81; 0x09; 0x8b; 0x00;
   0x09; 0x71; 0x0c; 0x12; 0xe2; 0x18].

Definition kMaskRandom46_8 : list Z :=
  [0x0c; 0x84; 0x0c; 0x19; 0x08; 0x18; 0x80; 0x70; 0x07; 0x00; 0xe0; 0x0c;
   0xa0; 0x88; 0x49; 0x41; 0x10; 0x90; 0x05; 0x40; 0x32; 0x0a; 0x80; 0x64;
   0x43; 0x02; 0x82; 0x86; 0x05; 0x04; 0x1a; 0x01; 0x50; 0x34; 0x02; 0xa0;
   0x60; 0x27; 0x00; 0xc0; 0x4e; 0x00; 0x14; 0x38; 0xa0; 0x28; 0x71; 0x40].

Definition kMaskRandom46_9 : list Z :=
  [0x46; 0x4a; 0x6c; 0x8c; 0x94; 0xd8; 0x62; 0x7c; 0x84; 0xc4; 0xf9; 0x08;
   0x8c; 0x04; 0x89; 0x18; 0x09; 0x10; 0x01; 0x74; 0x22; 0x02; 0xe8; 0x44;
   0x07; 0x83; 0x06; 0x0f; 0x06; 0x0c; 0xa0; 0x80; 0x73; 0x41; 0x00; 0xe4;
   0x18; 0xb1; 0x42; 0x31; 0x62; 0x84; 0x91; 0x00; 0x93; 0x22; 0x01; 0x24;
   0x78; 0x00; 0x1c; 0xf0; 0x00; 0x38].

Definition kMaskRandom46_10 : list Z :=
  [0x64; 0x4a; 0x28; 0xc8; 0x94; 0x50; 0x51; 0x48; 0xa2; 0xa2; 0x91; 0x44;
   0xa9; 0x10; 0x1b; 0x52; 0x20; 0x34; 0x04; 0xc4; 0x84; 0x09; 0x89; 0x08;
   0xd0; 0x01; 0x45; 0xa0; 0x02; 0x88; 0x82; 0x40; 0x1d; 0x04; 0x80; 0x38;
   0x21; 0x37; 0x00; 0x42; 0x6e; 0x00; 0x0c; 0x21; 0x22; 0x18; 0x42; 0x44;
   0x4a; 0x0a; 0xc0; 0x94; 0x15; 0x80; 0x12; 0xb4; 0x50; 0x25; 0x68; 0xa0].

Definition kMaskRandom46_11 : list Z :=
  [0x46; 0x4a; 0x6c; 0x8c; 0x94; 0xd8; 0x33; 0x24; 0x26; 0x66; 0x48; 0x4c;
   0x99; 0x02; 0x13; 0x32; 0x04; 0x24; 0x05; 0x80; 0x0e; 0x0b; 0x00; 0x1c;
   0x80; 0xa1; 0x83; 0x01; 0x43; 0x04; 0x84; 0x48; 0x19; 0x08; 0x90; 0x30;
   0x40; 0x6d; 0x40; 0x80; 0xda; 0x80; 0x0a; 0x90; 0xc0; 0x15; 0x21; 0x80;
   0x68; 0x04; 0x90; 0xd0; 0x09; 0x20; 0x10; 0x31; 0x20; 0x20; 0x62; 0x40;
   0x30; 0x58; 0x04; 0x60; 0xb0; 0x08].

Definition kMaskRandom46_12 : list Z :=
  [0x64; 0x4a; 0x28; 0xc8; 0x94; 0x50; 0x51; 0x58; 0xa2; 0xa2; 0xb1; 0x44;
   0x0c; 0xa4; 0x30; 0x19; 0x48; 0x60; 0xa1; 0x22; 0x47; 0x42; 0x44; 0x8c;
   0x12; 0xa1; 0x1c; 0x25; 0x42; 0x38; 0x8a; 0x45; 0xc1; 0x14; 0x8b; 0x80;
   0x86; 0x8a; 0x6d; 0x0d; 0x14; 0xd8; 0x23; 0x2c; 0x84; 0x46; 0x59; 0x08;
   0x16; 0x21; 0x98; 0x2c; 0x43; 0x30; 0x4c; 0x30; 0x54; 0x98; 0x60; 0xa8;
   0x41; 0xc1; 0x26; 0x83; 0x82; 0x4c; 0x19; 0x56; 0xe4; 0x32; 0xad; 0xc8].

Definition kMaskRandom46_13 : list Z :=
  [0x64; 0x4a; 0x28; 0xc8; 0x94; 0x50; 0x51; 0x58; 0xa2; 0xa2; 0xb1; 0x44;
   0x0c; 0xa4; 0x30; 0x19; 0x48; 0x60; 0xa1; 0x22; 0x47; 0x42; 0x44; 0x8c;
   0x12; 0xa1; 0x1c; 0x25; 0x42; 0x38; 0x8a; 0x45; 0xc1; 0x14; 0x8b; 0x80;
   0x46; 0x4a; 0x6c; 0x8c; 0x94; 0xd8; 0x33; 0x24; 0x26; 0x66; 0x48; 0x4c;
   0x91; 0x92; 0x13; 0x23; 0x24; 0x24; 0xa4; 0x20; 0x4b; 0x48; 0x40; 0x94;
   0x50; 0xa0; 0xd4; 0xa1; 0x41; 0xa8; 0x84; 0xc5; 0x81; 0x09; 0x8b; 0x00;
   0x09; 0x71; 0x0c; 0x12; 0xe2; 0x18].

Definition kMaskRandom46_14 : list Z :=
  [0x46; 0x4a; 0x6c; 0x8c; 0x94; 0xd8; 0x33; 0x24; 0x26; 0x66; 0x48; 0x4c;
   0x91; 0x92; 0x13; 0x23; 0x24; 0x24; 0xa4; 0x20; 0x4b; 0x48; 0x40; 0x94;
   0x50; 0xa0; 0xd4; 0xa1; 0x41; 0xa8; 0x84; 0xc5; 0x81; 0x09; 0x8b; 0x00;
   0x09; 0x71; 0x0c; 0x12; 0xe2; 0x18; 0x64; 0x4a; 0x28; 0xc8; 0x94; 0x50;
   0x51; 0x58; 0xa2; 0xa2; 0xb1; 0x44; 0x0c; 0xa4; 0x30; 0x19; 0x48; 0x60;
   0xa1; 0x22; 0x47; 0x42; 0x44; 0x8c; 0x12; 0xa1; 0x1c; 0x25; 0x42; 0x38;
   0x8a; 0x45; 0xc1; 0x14; 0x8b; 0x80; 0x9c; 0x3f; 0xb3; 0x38; 0x7f; 0x64].

Definition kMaskRandom46_15 : list Z :=
  [0x46; 0x4a; 0x6c; 0x8c; 0x94; 0xd8; 0x33; 0x24; 0x26; 0x66; 0x48; 0x4c;
   0x91; 0x92; 0x13; 0x23; 0x24; 0x24; 0xa4; 0x20; 0x4b; 0x48; 0x40; 0x94;
   0x50; 0xa0; 0xd4; 0xa1; 0x41; 0xa8; 0x84; 0xc5; 0x81; 0x09; 0x8b; 0x00;
   0x09; 0x71; 0x0c; 0x12; 0xe2; 0x18; 0x0c; 0x84; 0x0c; 0x19; 0x08; 0x18;
   0x80; 0x70; 0x07; 0x00; 0xe0; 0x0c; 0xa0; 0x88; 0x49; 0x41; 0x10; 0x90;
   0x05; 0x40; 0x32; 0x0a; 0x80; 0x64; 0x43; 0x02; 0x82; 0x86; 0x05; 0x04;
   0x1a; 0x01; 0x50; 0x34; 0x02; 0xa0; 0x60; 0x27; 0x00; 0xc0; 0x4e; 0x00;
   0x14; 0x38; 0xa0; 0x28; 0x71; 0x40].

Definition kMaskRandom46_16 : list Z :=
  [0x0c; 0x84; 0x0c; 0x19; 0x08; 0x18; 0x80; 0x70; 0x07; 0x00; 0xe0; 0x0c;
   0xa0; 0x88; 0x49; 0x41; 0x10; 0x90; 0x05; 0x40; 0x32; 0x0a; 0x80; 0x64;
   0x43; 0x02; 0x82; 0x86; 0x05; 0x04; 0x1a; 0x01; 0x50; 0x34; 0x02; 0xa0;
   0x60; 0x27; 0x00; 0xc0; 0x4e; 0x00; 0x14; 0x38; 0xa0; 0x28; 0x71; 0x40;
   0x46; 0x4a; 0x6c; 0x8c; 0x94; 0xd8; 0x33; 0x24; 0x26; 0x66; 0x48; 0x4c;
   0x91; 0x92; 0x13; 0x23; 0x24; 0x24; 0xa4; 0x20; 0x4b; 0x48; 0x40; 0x94;
   0x50; 0xa0; 0xd4; 0xa1; 0x41; 0xa8; 0x84; 0xc5; 0x81; 0x09; 0x8b; 0x00;
   0x09; 0x71; 0x0c; 0x12; 0xe2; 0x18; 0xfa; 0xd9; 0xf5; 0xf5; 0xb3; 0xe8].

Definition kMaskRandom46_17 : list Z :=
  [0x0c; 0x84; 0x0c; 0x19; 0x08; 0x18; 0x80; 0x70; 0x07; 0x00; 0xe0; 0x0c;
   0xa0; 0x88; 0x49; 0x41; 0x10; 0x90; 0x05; 0x40; 0x32; 0x0a; 0x80; 0x64;
   0x43; 0x02; 0x82; 0x86; 0x05; 0x04; 0x1a; 0x01; 0x50; 0x34; 0x02; 0xa0;
   0x60; 0x27; 0x00; 0xc0; 0x4e; 0x00; 0x14; 0x38; 0xa0; 0x28; 0x71; 0x40;
   0x46; 0x4a; 0x6c; 0x8c; 0x94; 0xd8; 0x62; 0x7c; 0x84; 0xc4; 0xf9; 0x08;
   0x8c; 0x04; 0x89; 0x18; 0x09; 0x10; 0x01; 0x74; 0x22; 0x02; 0xe8; 0x44;
   0x07; 0x83; 0x06; 0x0f; 0x06; 0x0c; 0xa0; 0x80; 0x73; 0x41; 0x00; 0xe4;
   0x18; 0xb1; 0x42; 0x31; 0x62; 0x84; 0x91; 0x00; 0x93; 0x22; 0x01; 0x24;
   0x78; 0x00; 0x1c; 0xf0; 0x00; 0x38].

Definition kMaskRandom46_18 : list Z :=
  [0x46; 0x4a; 0x6c; 0x8c; 0x94; 0xd8; 0x62; 0x7c; 0x84; 0xc4; 0xf9; 0x08;
   0x8c; 0x04; 0x89; 0x18; 0x09; 0x10; 0x01; 0x74; 0x22; 0x02; 0xe8; 0x44;
   0x07; 0x83; 0x06; 0x0f; 0x06; 0x0c; 0xa0; 0x80; 0x73; 0x41; 0x00; 0xe4;
   0x18; 0xb1; 0x42; 0x31; 0x62; 0x84; 0x91; 0x00; 0x93; 0x22; 0x01; 0x24;
   0x78; 0x00; 0x1c; 0xf0; 0x00; 0x38; 0x0c; 0x84; 0x0c; 0x19; 0x08; 0x18;
   0x80; 0x70; 0x07; 0x00; 0xe0; 0x0c; 0xa0; 0x88; 0x49; 0x41; 0x10; 0x90;
   0x05; 0x40; 0x32; 0x0a; 0x80; 0x64; 0x43; 0x02; 0x82; 0x86; 0x05; 0x04;
   0x1a; 0x01; 0x50; 0x34; 0x02; 0xa0; 0x60; 0x27; 0x00; 0xc0; 0x4e; 0x00;
   0x14; 0x38; 0xa0; 0x28; 0x71; 0x40; 0x82; 0x32; 0x57; 0x04; 0x64; 0xac].

Definition kMaskRandom46_19 : list Z :=
  [0x46; 0x4a; 0x6c; 0x8c; 0x94; 0xd8; 0x62; 0x7c; 0x84; 0xc4; 0xf9; 0x08;
   0x8c; 0x04; 0x89; 0x18; 0x09; 0x10; 0x01; 0x74; 0x22; 0x02; 0xe8; 0x44;
   0x07; 0x83; 0x06; 0x0f; 0x06; 0x0c; 0xa0; 0x80; 0x73; 0x41; 0x00; 0xe4;
   0x18; 0xb1; 0x42; 0x31; 0x62; 0x84; 0x91; 0x00; 0x93; 0x22; 0x01; 0x24;
   0x78; 0x00; 0x1c; 0xf0; 0x00; 0x38; 0x64; 0x4a; 0x28; 0xc8; 0x94; 0x50;
   0x51; 0x48; 0xa2; 0xa2; 0x91; 0x44; 0xa9; 0x10; 0x1b; 0x52; 0x20; 0x34;
   0x04; 0xc4; 0x84; 0x09; 0x89; 0x08; 0xd0; 0x01; 0x45; 0xa0; 0x02; 0x88;
   0x82; 0x40; 0x1d; 0x04; 0x80; 0x38; 0x21; 0x37; 0x00; 0x42; 0x6e; 0x00;
   0x0c; 0x21; 0x22; 0x18; 0x42; 0x44; 0x4a; 0x0a; 0xc0; 0x94; 0x15; 0x80;
   0x12; 0xb4; 0x50; 0x25; 0x68; 0xa0].

Definition kMaskRandom46_20 : list Z :=
  [0x64; 0x4a; 0x28; 0xc8; 0x94; 0x50; 0x51; 0x48; 0xa2; 0xa2; 0x91; 0x44;
   0xa9; 0x10; 0x1b; 0x52; 0x20; 0x34; 0x04; 0xc4; 0x84; 0x09; 0x89; 0x08;
   0xd0; 0x01; 0x45; 0xa0; 0x02; 0x88; 0x82; 0x40; 0x1d; 0x04; 0x80; 0x38;
   0x21; 0x37; 0x00; 0x42; 0x6e; 0x00; 0x0c; 0x21; 0x22; 0x18; 0x42; 0x44;
   0x4a; 0x0a; 0xc0; 0x94; 0x15; 0x80; 0x12; 0xb4; 0x50; 0x25; 0x68; 0xa0;
   0x46; 0x4a; 0x6c; 0x8c; 0x94; 0xd8; 0x62; 0x7c; 0x84; 0xc4; 0xf9; 0x08;
   0x8c; 0x04; 0x89; 0x18; 0x09; 0x10; 0x01; 0x74; 0x22; 0x02; 0xe8; 0x44;
   0x07; 0x83; 0x06; 0x0f; 0x06; 0x0c; 0xa0; 0x80; 0x73; 0x41; 0x00; 0xe4;
   0x18; 0xb1; 0x42; 0x31; 0x62; 0x84; 0x91; 0x00; 0x93; 0x22; 0x01; 0x24;
   0x78; 0x00; 0x1c; 0xf0; 0x00; 0x38; 0xdb; 0x4a; 0x7b; 0xb6; 0x94; 0xf4].

Definition kMaskRandom46_21 : list Z :=
  [0x64; 0x4a; 0x28; 0xc8; 0x94; 0x50; 0x51; 0x48; 0xa2; 0xa2; 0x91; 0x44;
   0xa9; 0x10; 0x1b; 0x52; 0x20; 0x34; 0x04; 0xc4; 0x84; 0x09; 0x89; 0x08;
   0xd0; 0x01; 0x45; 0xa0; 0x02; 0x88; 0x82; 0x40; 0x1d; 0x04; 0x80; 0x38;
   0x21; 0x37; 0x00; 0x42; 0x6e; 0x00; 0x0c; 0x21; 0x22; 0x18; 0x42; 0x44;
   0x4a; 0x0a; 0xc0; 0x94; 0x15; 0x80; 0x12; 0xb4; 0x50; 0x25; 0x68; 0xa0;
   0x46; 0x4a; 0x6c; 0x8c; 0x94; 0xd8; 0x33; 0x24; 0x26; 0x66; 0x48; 0x4c;
   0x99; 0x02; 0x13; 0x32; 0x04; 0x24; 0x05; 0x80; 0x0e; 0x0b; 0x00; 0x1c;
   0x80; 0xa1; 0x83; 0x01; 0x43; 0x04; 0x84; 0x48; 0x19; 0x08; 0x90; 0x30;
   0x40; 0x6d; 0x40; 0x80; 0xda; 0x80; 0x0a; 0x90; 0xc0; 0x15; 0x21; 0x80;
   0x68; 0x04; 0x90; 0xd0; 0x09; 0x20; 0x10; 0x31; 0x20; 0x20; 0x62; 0x40;
   0x30; 0x58; 0x04; 0x60; 0xb0; 0x08].

Definition kMaskRandom46_22 : list Z :=
  [0x46; 0x4a; 0x6c; 0x8c; 0x94; 0xd8; 0x33; 0x24; 0x26; 0x66; 0x48; 0x4c;
   0x99; 0x02; 0x13; 0x32; 0x04; 0x24; 0x05; 0x80; 0x0e; 0x0b; 0x00; 0x1c;
   0x80; 0xa1; 0x83; 0x01; 0x43; 0x04; 0x84; 0x48; 0x19; 0x08; 0x90; 0x30;
   0x40; 0x6d; 0x40; 0x80; 0xda; 0x80; 0x0a; 0x90; 0xc0; 0x15; 0x21; 0x80;
   0x68; 0x04; 0x90; 0xd0; 0x09; 0x20; 0x10; 0x31; 0x20; 0x20; 0x62; 0x40;
   0x30; 0x58; 0x04; 0x60; 0xb0; 0x08; 0x64; 0x4a; 0x28; 0xc8; 0x94; 0x50;
   0x51; 0x48; 0xa2; 0xa2; 0x91; 0x44; 0xa9; 0x10; 0x1b; 0x52; 0x20; 0x34;
   0x04; 0xc4; 0x84; 0x09; 0x89; 0x08; 0xd0; 0x01; 0x45; 0xa0; 0x02; 0x88;
   0x82; 0x40; 0x1d; 0x04; 0x80; 0x38; 0x21; 0x37; 0x00; 0x42; 0x6e; 0x00;
   0x0c; 0x21; 0x22; 0x18; 0x42; 0x44; 0x4a; 0x0a; 0xc0; 0x94; 0x15; 0x80;
   0x12; 0xb4; 0x50; 0x25; 0x68; 0xa0; 0xea; 0x8d; 0x1b; 0xd5; 0x1a; 0x34].

Definition kMaskRandom46_23 : list Z :=
  [0x46; 0x4a; 0x6c; 0x8c; 0x94; 0xd8; 0x33; 0x24; 0x26; 0x66; 0x48; 0x4c;
   0x99; 0x02; 0x13; 0x32; 0x04; 0x24; 0x05; 0x80; 0x0e; 0x0b; 0x00; 0x1c;
   0x80; 0xa1; 0x83; 0x01; 0x43; 0x04; 0x84; 0x48; 0x19; 0x08; 0x90; 0x30;
   0x40; 0x6d; 0x40; 0x80; 0xda; 0x80; 0x0a; 0x90; 0xc0; 0x15; 0x21; 0x80;
   0x68; 0x04; 0x90; 0xd0; 0x09; 0x20; 0x10; 0x31; 0x20; 0x20; 0x62; 0x40;
   0x30; 0x58; 0x04; 0x60; 0xb0; 0x08; 0x46; 0x42; 0x0c; 0x8c; 0x84; 0x18;
   0x33; 0x20; 0x46; 0x66; 0x40; 0x8c; 0x99; 0x08; 0x0b; 0x32; 0x10; 0x14;
   0x05; 0x84; 0x30; 0x0b; 0x08; 0x60; 0x80; 0xb0; 0x23; 0x01; 0x60; 0x44;
   0x84; 0x42; 0x91; 0x08; 0x85; 0x20; 0x40; 0x73; 0x00; 0x80; 0xe6; 0x00;
   0x0a; 0x81; 0x12; 0x15; 0x02; 0x24; 0x68; 0x0c; 0x40; 0xd0; 0x18; 0x80;
   0x10; 0x24; 0x84; 0x20; 0x49; 0x08; 0x30; 0x51; 0x40; 0x60; 0xa2; 0x80;
   0x5f; 0x50; 0x88; 0xbe; 0xa1; 0x10].

Definition kMaskRandom46_24 : list Z :=
  [0x64; 0x4a; 0x28; 0xc8; 0x94; 0x50; 0x51; 0x58; 0xa2; 0xa2; 0xb1; 0x44;
   0x0c; 0xa4; 0x30; 0x19; 0x48; 0x60; 0xa1; 0x22; 0x47; 0x42; 0x44; 0x8c;
   0x12; 0xa1; 0x1c; 0x25; 0x42; 0x38; 0x8a; 0x45; 0xc1; 0x14; 0x8b; 0x80;
   0x86; 0x8a; 0x6d; 0x0d; 0x14; 0xd8; 0x23; 0x2c; 0x84; 0x46; 0x59; 0x08;
   0x16; 0x21; 0x98; 0x2c; 0x43; 0x30; 0x4c; 0x30; 0x54; 0x98; 0x60; 0xa8;
   0x41; 0xc1; 0x26; 0x83; 0x82; 0x4c; 0x19; 0x56; 0xe4; 0x32; 0xad; 0xc8;
   0x46; 0x4a; 0x6c; 0x8c; 0x94; 0xd8; 0x33; 0x24; 0x26; 0x66; 0x48; 0x4c;
   0x99; 0x02; 0x13; 0x32; 0x04; 0x24; 0x05; 0x80; 0x0e; 0x0b; 0x00; 0x1c;
   0x80; 0xa1; 0x83; 0x01; 0x43; 0x04; 0x84; 0x48; 0x19; 0x08; 0x90; 0x30;
   0x40; 0x6d; 0x40; 0x80; 0xda; 0x80; 0x0a; 0x90; 0xc0; 0x15; 0x21; 0x80;
   0x68; 0x04; 0x90; 0xd0; 0x09; 0x20; 0x10; 0x31; 0x20; 0x20; 0x62; 0x40;
   0x30; 0x58; 0x04; 0x60; 0xb0; 0x08; 0x18; 0x8b; 0x03; 0xb4; 0x3b; 0x10].

Definition kMaskRandom46_25 : list Z :=
  [0x64; 0x4a; 0x28; 0xc8; 0x94; 0x50; 0x51; 0x58; 0xa2; 0xa2; 0xb1; 0x44;
   0x0c; 0xa4; 0x30; 0x19; 0x48; 0x60; 0xa1; 0x22; 0x47; 0x42; 0x44; 0x8c;
   0x12; 0xa1; 0x1c; 0x25; 0x42; 0x38; 0x8a; 0x45; 0xc1; 0x14; 0x8b; 0x80;
   0x86; 0x8a; 0x6d; 0x0d; 0x14; 0xd8; 0x23; 0x2c; 0x84; 0x46; 0x59; 0x08;
   0x16; 0x21; 0x98; 0x2c; 0x43; 0x30; 0x4c; 0x30; 0x54; 0x98; 0x60; 0xa8;
   0x41; 0xc1; 0x26; 0x83; 0x82; 0x4c; 0x19; 0x56; 0xe4; 0x32; 0xad; 0xc8;
   0x64; 0x4a; 0x28; 0xc8; 0x94; 0x50; 0x51; 0x58; 0xa2; 0xa2; 0xb1; 0x44;
   0x0c; 0xa4; 0x30; 0x19; 0x48; 0x60; 0xa1; 0x22; 0x47; 0x42; 0x44; 0x8c;
   0x12; 0xa1; 0x1c; 0x25; 0x42; 0x38; 0x8a; 0x45; 0xc1; 0x14; 0x8b; 0x80;
   0x46; 0x4a; 0x6c; 0x8c; 0x94; 0xd8; 0x33; 0x24; 0x26; 0x66; 0x48; 0x4c;
   0x91; 0x92; 0x13; 0x23; 0x24; 0x24; 0xa4; 0x20; 0x4b; 0x48; 0x40; 0x94;
   0x50; 0xa0; 0xd4; 0xa1; 0x41; 0xa8; 0x84; 0xc5; 0x81; 0x09; 0x8b; 0x00;
   0x09; 0x71; 0x0c; 0x12; 0xe2; 0x18].

Definition kMaskRandom46_26 : list Z :=
  [0x64; 0x4a; 0x28; 0xc8; 0x94; 0x50; 0x51; 0x58; 0xa2; 0xa2; 0xb1; 0x44;
   0x0c; 0xa4; 0x30; 0x19; 0x48; 0x60; 0xa1; 0x22; 0x47; 0x42; 0x44; 0x8c;
   0x12; 0xa1; 0x1c; 0x25; 0x42; 0x38; 0x8a; 0x45; 0xc1; 0x14; 0x8b; 0x80;
   0x46; 0x4a; 0x6c; 0x8c; 0x94; 0xd8; 0x33; 0x24; 0x26; 0x66; 0x48; 0x4c;
   0x91; 0x92; 0x13; 0x23; 0x24; 0x24; 0xa4; 0x20; 0x4b; 0x48; 0x40; 0x94;
   0x50; 0xa0; 0xd4; 0xa1; 0x41; 0xa8; 0x84; 0xc5; 0x81; 0x09; 0x8b; 0x00;
   0x09; 0x71; 0x0c; 0x12; 0xe2; 0x18; 0x64; 0x4a; 0x28; 0xc8; 0x94; 0x50;
   0x51; 0x58; 0xa2; 0xa2; 0xb1; 0x44; 0x0c; 0xa4; 0x30; 0x19; 0x48; 0x60;
   0xa1; 0x22; 0x47; 0x42; 0x44; 0x8c; 0x12; 0xa1; 0x1c; 0x25; 0x42; 0x38;
   0x8a; 0x45; 0xc1; 0x14; 0x8b; 0x80; 0x86; 0x8a; 0x6d; 0x0d; 0x14; 0xd8;
   0x23; 0x2c; 0x84; 0x46; 0x59; 0x08; 0x16; 0x21; 0x98; 0x2c; 0x43; 0x30;
   0x4c; 0x30; 0x54; 0x98; 0x60; 0xa8; 0x41; 0xc1; 0x26; 0x83; 0x82; 0x4c;
   0x19; 0x56; 0xe4; 0x32; 0xad; 0xc8; 0x2d; 0x6d; 0xd2; 0x57; 0xd6; 0x2c].

Definition kMaskRandom46_27 : list Z :=
  [0x64; 0x4a; 0x28; 0xc8; 0x94; 0x50; 0x51; 0x58; 0xa2; 0xa2; 0xb1; 0x44;
   0x0c; 0xa4; 0x30; 0x19; 0x48; 0x60; 0xa1; 0x22; 0x47; 0x42; 0x44; 0x8c;
   0x12; 0xa1; 0x1c; 0x25; 0x42; 0x38; 0x8a; 0x45; 0xc1; 0x14; 0x8b; 0x80;
   0x46; 0x4a; 0x6c; 0x8c; 0x94; 0xd8; 0x33; 0x24; 0x26; 0x66; 0x48; 0x4c;
   0x91; 0x92; 0x13; 0x23; 0x24; 0x24; 0xa4; 0x20; 0x4b; 0x48; 0x40; 0x94;
   0x50; 0xa0; 0xd4; 0xa1; 0x41; 0xa8; 0x84; 0xc5; 0x81; 0x09; 0x8b; 0x00;
   0x09; 0x71; 0x0c; 0x12; 0xe2; 0x18; 0x46; 0x4a; 0x6c; 0x8c; 0x94; 0xd8;
   0x33; 0x24; 0x26; 0x66; 0x48; 0x4c; 0x91; 0x92; 0x13; 0x23; 0x24; 0x24;
   0xa4; 0x20; 0x4b; 0x48; 0x40; 0x94; 0x50; 0xa0; 0xd4; 0xa1; 0x41; 0xa8;
   0x84; 0xc5; 0x81; 0x09; 0x8b; 0x00; 0x09; 0x71; 0x0c; 0x12; 0xe2; 0x18;
   0x64; 0x4a; 0x28; 0xc8; 0x94; 0x50; 0x51; 0x58; 0xa2; 0xa2; 0xb1; 0x44;
   0x0c; 0xa4; 0x30; 0x19; 0x48; 0x60; 0xa1; 0x22; 0x47; 0x42; 0x44; 0x8c;
   0x12; 0xa1; 0x1c; 0x25; 0x42; 0x38; 0x8a; 0x45; 0xc1; 0x14; 0x8b; 0x80;
   0x9c; 0x3f; 0xb3; 0x38; 0x7f; 0x64].

Definition kMaskRandom46_28 : list Z :=
  [0x46; 0x4a; 0x6c; 0x8c; 0x94; 0xd8; 0x33; 0x24; 0x26; 0x66; 0x48; 0x4c;
   0x91; 0x92; 0x13; 0x23; 0x24; 0x24; 0xa4; 0x20; 0x4b; 0x48; 0x40; 0x94;
   0x50; 0xa0; 0xd4; 0xa1; 0x41; 0xa8; 0x84; 0xc5; 0x81; 0x09; 0x8b; 0x00;
   0x09; 0x71; 0x0c; 0x12; 0xe2; 0x18; 0x64; 0x4a; 0x28; 0xc8; 0x94; 0x50;
   0x51; 0x58; 0xa2; 0xa2; 0xb1; 0x44; 0x0c; 0xa4; 0x30; 0x19; 0x48; 0x60;
   0xa1; 0x22; 0x47; 0x42; 0x44; 0x8c; 0x12; 0xa1; 0x1c; 0x25; 0x42; 0x38;
   0x8a; 0x45; 0xc1; 0x14; 0x8b; 0x80; 0x9c; 0x3f; 0xb3; 0x38; 0x7f; 0x64;
   0x64; 0x4a; 0x28; 0xc8; 0x94; 0x50; 0x51; 0x58; 0xa2; 0xa2; 0xb1; 0x44;
   0x0c; 0xa4; 0x30; 0x19; 0x48; 0x60; 0xa1; 0x22; 0x47; 0x42; 0x44; 0x8c;
   0x12; 0xa1; 0x1c; 0x25; 0x42; 0x38; 0x8a; 0x45; 0xc1; 0x14; 0x8b; 0x80;
   0x46; 0x4a; 0x6c; 0x8c; 0x94; 0xd8; 0x33; 0x24; 0x26; 0x66; 0x48; 0x4c;
   0x91; 0x92; 0x13; 0x23; 0x24; 0x24; 0xa4; 0x20; 0x4b; 0x48; 0x40; 0x94;
   0x50; 0xa0; 0xd4; 0xa1; 0x41; 0xa8; 0x84; 0xc5; 0x81; 0x09; 0x8b; 0x00;
   0x09; 0x71; 0x0c; 0x12; 0xe2; 0x18; 0xfa; 0x52; 0xf9; 0x72; 0xd9; 0x68].

Definition kMaskRandom46_29 : list Z :=
  [0x46; 0x4a; 0x6c; 0x8c; 0x94; 0xd8; 0x33; 0x24; 0x26; 0x66; 0x48; 0x4c;
   0x91; 0x92; 0x13; 0x23; 0x24; 0x24; 0xa4; 0x20; 0x4b; 0x48; 0x40; 0x94;
   0x50; 0xa0; 0xd4; 0xa1; 0x41; 0xa8; 0x84; 0xc5; 0x81; 0x09; 0x8b; 0x00;
   0x09; 0x71; 0x0c; 0x12; 0xe2; 0x18; 0x64; 0x4a; 0x28; 0xc8; 0x94; 0x50;
   0x51; 0x58; 0xa2; 0xa2; 0xb1; 0x44; 0x0c; 0xa4; 0x30; 0x19; 0x48; 0x60;
   0xa1; 0x22; 0x47; 0x42; 0x44; 0x8c; 0x12; 0xa1; 0x1c; 0x25; 0x42; 0x38;
   0x8a; 0x45; 0xc1; 0x14; 0x8b; 0x80; 0x9c; 0x3f; 0xb3; 0x38; 0x7f; 0x64;
   0x46; 0x4a; 0x6c; 0x8c; 0x94; 0xd8; 0x33; 0x24; 0x26; 0x66; 0x48; 0x4c;
   0x91; 0x92; 0x13; 0x23; 0x24; 0x24; 0xa4; 0x20; 0x4b; 0x48; 0x40; 0x94;
   0x50; 0xa0; 0xd4; 0xa1; 0x41; 0xa8; 0x84; 0xc5; 0x81; 0x09; 0x8b; 0x00;
   0x09; 0x71; 0x0c; 0x12; 0xe2; 0x18; 0x0c; 0x84; 0x0c; 0x19; 0x08; 0x18;
   0x80; 0x70; 0x07; 0x00; 0xe0; 0x0c; 0xa0; 0x88; 0x49; 0x41; 0x10; 0x90;
   0x05; 0x40; 0x32; 0x0a; 0x80; 0x64; 0x43; 0x02; 0x82; 0x86; 0x05; 0x04;
   0x1a; 0x01; 0x50; 0x34; 0x02; 0xa0; 0x60; 0x27; 0x00; 0xc0; 0x4e; 0x00;
   0x14; 0x38; 0xa0; 0x28; 0x71; 0x40].

Definition kMaskRandom46_30 : list Z :=
  [0x46; 0x4a; 0x6c; 0x8c; 0x94; 0xd8; 0x33; 0x24; 0x26; 0x66; 0x48; 0x4c;
   0x91; 0x92; 0x13; 0x23; 0x24; 0x24; 0xa4; 0x20; 0x4b; 0x48; 0x40; 0x94;
   0x50; 0xa0; 0xd4; 0xa1; 0x41; 0xa8; 0x84; 0xc5; 0x81; 0x09; 0x8b; 0x00;
   0x09; 0x71; 0x0c; 0x12; 0xe2; 0x18; 0x0c; 0x84; 0x0c; 0x19; 0x08; 0x18;
   0x80; 0x70; 0x07; 0x00; 0xe0; 0x0c; 0xa0; 0x88; 0x49; 0x41; 0x10; 0x90;
   0x05; 0x40; 0x32; 0x0a; 0x80; 0x64; 0x43; 0x02; 0x82; 0x86; 0x05; 0x04;
   0x1a; 0x01; 0x50; 0x34; 0x02; 0xa0; 0x60; 0x27; 0x00; 0xc0; 0x4e; 0x00;
   0x14; 0x38; 0xa0; 0x28; 0x71; 0x40; 0x46; 0x4a; 0x6c; 0x8c; 0x94; 0xd8;
   0x33; 0x24; 0x26; 0x66; 0x48; 0x4c; 0x91; 0x92; 0x13; 0x23; 0x24; 0x24;
   0xa4; 0x20; 0x4b; 0x48; 0x40; 0x94; 0x50; 0xa0; 0xd4; 0xa1; 0x41; 0xa8;
   0x84; 0xc5; 0x81; 0x09; 0x8b; 0x00; 0x09; 0x71; 0x0c; 0x12; 0xe2; 0x18;
   0x64; 0x4a; 0x28; 0xc8; 0x94; 0x50; 0x51; 0x58; 0xa2; 0xa2; 0xb1; 0x44;
   0x0c; 0xa4; 0x30; 0x19; 0x48; 0x60; 0xa1; 0x22; 0x47; 0x42; 0x44; 0x8c;
   0x12; 0xa1; 0x1c; 0x25; 0x42; 0x38; 0x8a; 0x45; 0xc1; 0x14; 0x8b; 0x80;
   0x9c; 0x3f; 0xb3; 0x38; 0x7f; 0x64; 0x99; 0xf6; 0x0a; 0xdd; 0x16; 0xb0].

Definition kMaskRandom46_31 : list Z :=
  [0x46; 0x4a; 0x6c; 0x8c; 0x94; 0xd8; 0x33; 0x24; 0x26; 0x66; 0x48; 0x4c;
   0x91; 0x92; 0x13; 0x23; 0x24; 0x24; 0xa4; 0x20; 0x4b; 0x48; 0x40; 0x94;
   0x50; 0xa0; 0xd4; 0xa1; 0x41; 0xa8; 0x84; 0xc5; 0x81; 0x09; 0x8b; 0x00;
   0x09; 0x71; 0x0c; 0x12; 0xe2; 0x18; 0x0c; 0x84; 0x0c; 0x19; 0x08; 0x18;
   0x80; 0x70; 0x07; 0x00; 0xe0; 0x0c; 0xa0; 0x88; 0x49; 0x41; 0x10; 0x90;
   0x05; 0x40; 0x32; 0x0a; 0x80; 0x64; 0x43; 0x02; 0x82; 0x86; 0x05; 0x04;
   0x1a; 0x01; 0x50; 0x34; 0x02; 0xa0; 0x60; 0x27; 0x00; 0xc0; 0x4e; 0x00;
   0x14; 0x38; 0xa0; 0x28; 0x71; 0x40; 0x0c; 0x84; 0x0c; 0x19; 0x08; 0x18;
   0x80; 0x70; 0x07; 0x00; 0xe0; 0x0c; 0xa0; 0x88; 0x49; 0x41; 0x10; 0x90;
   0x05; 0x40; 0x32; 0x0a; 0x80; 0x64; 0x43; 0x02; 0x82; 0x86; 0x05; 0x04;
   0x1a; 0x01; 0x50; 0x34; 0x02; 0xa0; 0x60; 0x27; 0x00; 0xc0; 0x4e; 0x00;
   0x14; 0x38; 0xa0; 0x28; 0x71; 0x40; 0x46; 0x4a; 0x6c; 0x8c; 0x94; 0xd8;
   0x33; 0x24; 0x26; 0x66; 0x48; 0x4c; 0x91; 0x92; 0x13; 0x23; 0x24; 0x24;
   0xa4; 0x20; 0x4b; 0x48; 0x40; 0x94; 0x50; 0xa0; 0xd4; 0xa1; 0x41; 0xa8;
   0x84; 0xc5; 0x81; 0x09; 0x8b; 0x00; 0x09; 0x71; 0x0c; 0x12; 0xe2; 0x18;
   0xfa; 0xd9; 0xf5; 0xf5; 0xb3; 0xe8].

Definition kMaskRandom46_32 : list Z :=
  [0x0c; 0x84; 0x0c; 0x19; 0x08; 0x18; 0x80; 0x70; 0x07; 0x00; 0xe0; 0x0c;
   0xa0; 0x88; 0x49; 0x41; 0x10; 0x90; 0x05; 0x40; 0x32; 0x0a; 0x80; 0x64;
   0x43; 0x02; 0x82; 0x86; 0x05; 0x04; 0x1a; 0x01; 0x50; 0x34; 0x02; 0xa0;
   0x60; 0x27; 0x00; 0xc0; 0x4e; 0x00; 0x14; 0x38; 0xa0; 0x28; 0x71; 0x40;
   0x46; 0x4a; 0x6c; 0x8c; 0x94; 0xd8; 0x33; 0x24; 0x26; 0x66; 0x48; 0x4c;
   0x91; 0x92; 0x13; 0x23; 0x24; 0x24; 0xa4; 0x20; 0x4b; 0x48; 0x40; 0x94;
   0x50; 0xa0; 0xd4; 0xa1; 0x41; 0xa8; 0x84; 0xc5; 0x81; 0x09; 0x8b; 0x00;
   0x09; 0x71; 0x0c; 0x12; 0xe2; 0x18; 0xfa; 0xd9; 0xf5; 0xf5; 0xb3; 0xe8;
   0x46; 0x4a; 0x6c; 0x8c; 0x94; 0xd8; 0x33; 0x24; 0x26; 0x66; 0x48; 0x4c;
   0x91; 0x92; 0x13; 0x23; 0x24; 0x24; 0xa4; 0x20; 0x4b; 0x48; 0x40; 0x94;
   0x50; 0xa0; 0xd4; 0xa1; 0x41; 0xa8; 0x84; 0xc5; 0x81; 0x09; 0x8b; 0x00;
   0x09; 0x71; 0x0c; 0x12; 0xe2; 0x18; 0x0c; 0x84; 0x0c; 0x19; 0x08; 0x18;
   0x80; 0x70; 0x07; 0x00; 0xe0; 0x0c; 0xa0; 0x88; 0x49; 0x41; 0x10; 0x90;
   0x05; 0x40; 0x32; 0x0a; 0x80; 0x64; 0x43; 0x02; 0x82; 0x86; 0x05; 0x04;
   0x1a; 0x01; 0x50; 0x34; 0x02; 0xa0; 0x60; 0x27; 0x00; 0xc0; 0x4e; 0x00;
   0x14; 0x38; 0xa0; 0x28; 0x71; 0x40; 0x69; 0xcd; 0xeb; 0x51; 0xc9; 0xa8].

Definition kMaskRandom46_33 : list Z :=
  [0x0c; 0x84; 0x0c; 0x19; 0x08; 0x18; 0x80; 0x70; 0x07; 0x00; 0xe0; 0x0c;
   0xa0; 0x88; 0x49; 0x41; 0x10; 0x90; 0x05; 0x40; 0x32; 0x0a; 0x80; 0x64;
   0x43; 0x02; 0x82; 0x86; 0x05; 0x04; 0x1a; 0x01; 0x50; 0x34; 0x02; 0xa0;
   0x60; 0x27; 0x00; 0xc0; 0x4e; 0x00; 0x14; 0x38; 0xa0; 0x28; 0x71; 0x40;
   0x46; 0x4a; 0x6c; 0x8c; 0x94; 0xd8; 0x33; 0x24; 0x26; 0x66; 0x48; 0x4c;
   0x91; 0x92; 0x13; 0x23; 0x24; 0x24; 0xa4; 0x20; 0x4b; 0x48; 0x40; 0x94;
   0x50; 0xa0; 0xd4; 0xa1; 0x41; 0xa8; 0x84; 0xc5; 0x81; 0x09; 0x8b; 0x00;
   0x09; 0x71; 0x0c; 0x12; 0xe2; 0x18; 0xfa; 0xd9; 0xf5; 0xf5; 0xb3; 0xe8;
   0x0c; 0x84; 0x0c; 0x19; 0x08; 0x18; 0x80; 0x70; 0x07; 0x00; 0xe0; 0x0c;
   0xa0; 0x88; 0x49; 0x41; 0x10; 0x90; 0x05; 0x40; 0x32; 0x0a; 0x80; 0x64;
   0x43; 0x02; 0x82; 0x86; 0x05; 0x04; 0x1a; 0x01; 0x50; 0x34; 0x02; 0xa0;
   0x60; 0x27; 0x00; 0xc0; 0x4e; 0x00; 0x14; 0x38; 0xa0; 0x28; 0x71; 0x40;
   0x46; 0x4a; 0x6c; 0x8c; 0x94; 0xd8; 0x62; 0x7c; 0x84; 0xc4; 0xf9; 0x08;
   0x8c; 0x04; 0x89; 0x18; 0x09; 0x10; 0x01; 0x74; 0x22; 0x02; 0xe8; 0x44;
   0x07; 0x83; 0x06; 0x0f; 0x06; 0x0c; 0xa0; 0x80; 0x73; 0x41; 0x00; 0xe4;
   0x18; 0xb1; 0x42; 0x31; 0x62; 0x84; 0x91; 0x00; 0x93; 0x22; 0x01; 0x24;
   0x78; 0x00; 0x1c; 0xf0; 0x00; 0x38].

Definition kMaskRandom46_34 : list Z :=
  [0x0c; 0x84; 0x0c; 0x19; 0x08; 0x18; 0x80; 0x70; 0x07; 0x00; 0xe0; 0x0c;
   0xa0; 0x88; 0x49; 0x41; 0x10; 0x90; 0x05; 0x40; 0x32; 0x0a; 0x80; 0x64;
   0x43; 0x02; 0x82; 0x86; 0x05; 0x04; 0x1a; 0x01; 0x50; 0x34; 0x02; 0xa0;
   0x60; 0x27; 0x00; 0xc0; 0x4e; 0x00; 0x14; 0x38; 0xa0; 0x28; 0x71; 0x40;
   0x46; 0x4a; 0x6c; 0x8c; 0x94; 0xd8; 0x62; 0x7c; 0x84; 0xc4; 0xf9; 0x08;
   0x8c; 0x04; 0x89; 0x18; 0x09; 0x10; 0x01; 0x74; 0x22; 0x02; 0xe8; 0x44;
   0x07; 0x83; 0x06; 0x0f; 0x06; 0x0c; 0xa0; 0x80; 0x73; 0x41; 0x00; 0xe4;
   0x18; 0xb1; 0x42; 0x31; 0x62; 0x84; 0x91; 0x00; 0x93; 0x22; 0x01; 0x24;
   0x78; 0x00; 0x1c; 0xf0; 0x00; 0x38; 0x0c; 0x84; 0x0c; 0x19; 0x08; 0x18;
   0x80; 0x70; 0x07; 0x00; 0xe0; 0x0c; 0xa0; 0x88; 0x49; 0x41; 0x10; 0x90;
   0x05; 0x40; 0x32; 0x0a; 0x80; 0x64; 0x43; 0x02; 0x82; 0x86; 0x05; 0x04;
   0x1a; 0x01; 0x50; 0x34; 0x02; 0xa0; 0x60; 0x27; 0x00; 0xc0; 0x4e; 0x00;
   0x14; 0x38; 0xa0; 0x28; 0x71; 0x40; 0x46; 0x4a; 0x6c; 0x8c; 0x94; 0xd8;
   0x33; 0x24; 0x26; 0x66; 0x48; 0x4c; 0x91; 0x92; 0x13; 0x23; 0x24; 0x24;
   0xa4; 0x20; 0x4b; 0x48; 0x40; 0x94; 0x50; 0xa0; 0xd4; 0xa1; 0x41; 0xa8;
   0x84; 0xc5; 0x81; 0x09; 0x8b; 0x00; 0x09; 0x71; 0x0c; 0x12; 0xe2; 0x18;
   0xfa; 0xd9; 0xf5; 0xf5; 0xb3; 0xe8; 0x60; 0xf0; 0x13; 0xf0; 0x4d; 0xe0].

Definition kMaskRandom46_35 : list Z :=
  [0x0c; 0x84; 0x0c; 0x19; 0x08; 0x18; 0x80; 0x70; 0x07; 0x00; 0xe0; 0x0c;
   0xa0; 0x88; 0x49; 0x41; 0x10; 0x90; 0x05; 0x40; 0x32; 0x0a; 0x80; 0x64;
   0x43; 0x02; 0x82; 0x86; 0x05; 0x04; 0x1a; 0x01; 0x50; 0x34; 0x02; 0xa0;
   0x60; 0x27; 0x00; 0xc0; 0x4e; 0x00; 0x14; 0x38; 0xa0; 0x28; 0x71; 0x40;
   0x46; 0x4a; 0x6c; 0x8c; 0x94; 0xd8; 0x62; 0x7c; 0x84; 0xc4; 0xf9; 0x08;
   0x8c; 0x04; 0x89; 0x18; 0x09; 0x10; 0x01; 0x74; 0x22; 0x02; 0xe8; 0x44;
   0x07; 0x83; 0x06; 0x0f; 0x06; 0x0c; 0xa0; 0x80; 0x73; 0x41; 0x00; 0xe4;
   0x18; 0xb1; 0x42; 0x31; 0x62; 0x84; 0x91; 0x00; 0x93; 0x22; 0x01; 0x24;
   0x78; 0x00; 0x1c; 0xf0; 0x00; 0x38; 0x46; 0x4a; 0x6c; 0x8c; 0x94; 0xd8;
   0x62; 0x7c; 0x84; 0xc4; 0xf9; 0x08; 0x8c; 0x04; 0x89; 0x18; 0x09; 0x10;
   0x01; 0x74; 0x22; 0x02; 0xe8; 0x44; 0x07; 0x83; 0x06; 0x0f; 0x06; 0x0c;
   0xa0; 0x80; 0x73; 0x41; 0x00; 0xe4; 0x18; 0xb1; 0x42; 0x31; 0x62; 0x84;
   0x91; 0x00; 0x93; 0x22; 0x01; 0x24; 0x78; 0x00; 0x1c; 0xf0; 0x00; 0x38;
   0x0c; 0x84; 0x0c; 0x19; 0x08; 0x18; 0x80; 0x70; 0x07; 0x00; 0xe0; 0x0c;
   0xa0; 0x88; 0x49; 0x41; 0x10; 0x90; 0x05; 0x40; 0x32; 0x0a; 0x80; 0x64;
   0x43; 0x02; 0x82; 0x86; 0x05; 0x04; 0x1a; 0x01; 0x50; 0x34; 0x02; 0xa0;
   0x60; 0x27; 0x00; 0xc0; 0x4e; 0x00; 0x14; 0x38; 0xa0; 0x28; 0x71; 0x40;
   0x82; 0x32; 0x57; 0x04; 0x64; 0xac].

Definition kMaskRandom46_36 : list Z :=
  [0x46; 0x4a; 0x6c; 0x8c; 0x94; 0xd8; 0x62; 0x7c; 0x84; 0xc4; 0xf9; 0x08;
   0x8c; 0x04; 0x89; 0x18; 0x09; 0x10; 0x01; 0x74; 0x22; 0x02; 0xe8; 0x44;
   0x07; 0x83; 0x06; 0x0f; 0x06; 0x0c; 0xa0; 0x80; 0x73; 0x41; 0x00; 0xe4;
   0x18; 0xb1; 0x42; 0x31; 0x62; 0x84; 0x91; 0x00; 0x93; 0x22; 0x01; 0x24;
   0x78; 0x00; 0x1c; 0xf0; 0x00; 0x38; 0x0c; 0x84; 0x0c; 0x19; 0x08; 0x18;
   0x80; 0x70; 0x07; 0x00; 0xe0; 0x0c; 0xa0; 0x88; 0x49; 0x41; 0x10; 0x90;
   0x05; 0x40; 0x32; 0x0a; 0x80; 0x64; 0x43; 0x02; 0x82; 0x86; 0x05; 0x04;
   0x1a; 0x01; 0x50; 0x34; 0x02; 0xa0; 0x60; 0x27; 0x00; 0xc0; 0x4e; 0x00;
   0x14; 0x38; 0xa0; 0x28; 0x71; 0x40; 0x82; 0x32; 0x57; 0x04; 0x64; 0xac;
   0x0c; 0x84; 0x0c; 0x19; 0x08; 0x18; 0x80; 0x70; 0x07; 0x00; 0xe0; 0x0c;
   0xa0; 0x88; 0x49; 0x41; 0x10; 0x90; 0x05; 0x40; 0x32; 0x0a; 0x80; 0x64;
   0x43; 0x02; 0x82; 0x86; 0x05; 0x04; 0x1a; 0x01; 0x50; 0x34; 0x02; 0xa0;
   0x60; 0x27; 0x00; 0xc0; 0x4e; 0x00; 0x14; 0x38; 0xa0; 0x28; 0x71; 0x40;
   0x46; 0x4a; 0x6c; 0x8c; 0x94; 0xd8; 0x62; 0x7c; 0x84; 0xc4; 0xf9; 0x08;
   0x8c; 0x04; 0x89; 0x18; 0x09; 0x10; 0x01; 0x74; 0x22; 0x02; 0xe8; 0x44;
   0x07; 0x83; 0x06; 0x0f; 0x06; 0x0c; 0xa0; 0x80; 0x73; 0x41; 0x00; 0xe4;
   0x18; 0xb1; 0x42; 0x31; 0x62; 0x84; 0x91; 0x00; 0x93; 0x22; 0x01; 0x24;
   0x78; 0x00; 0x1c; 0xf0; 0x00; 0x38; 0x6c; 0x3a; 0x45; 0x70; 0xd7; 0x00].

Definition kMaskRandom46_37 : list Z :=
  [0x46; 0x4a; 0x6c; 0x8c; 0x94; 0xd8; 0x62; 0x7c; 0x84; 0xc4; 0xf9; 0x08;
   0x8c; 0x04; 0x89; 0x18; 0x09; 0x10; 0x01; 0x74; 0x22; 0x02; 0xe8; 0x44;
   0x07; 0x83; 0x06; 0x0f; 0x06; 0x0c; 0xa0; 0x80; 0x73; 0x41; 0x00; 0xe4;
   0x18; 0xb1; 0x42; 0x31; 0x62; 0x84; 0x91; 0x00; 0x93; 0x22; 0x01; 0x24;
   0x78; 0x00; 0x1c; 0xf0; 0x00; 0x38; 0x0c; 0x84; 0x0c; 0x19; 0x08; 0x18;
   0x80; 0x70; 0x07; 0x00; 0xe0; 0x0c; 0xa0; 0x88; 0x49; 0x41; 0x10; 0x90;
   0x05; 0x40; 0x32; 0x0a; 0x80; 0x64; 0x43; 0x02; 0x82; 0x86; 0x05; 0x04;
   0x1a; 0x01; 0x50; 0x34; 0x02; 0xa0; 0x60; 0x27; 0x00; 0xc0; 0x4e; 0x00;
   0x14; 0x38; 0xa0; 0x28; 0x71; 0x40; 0x82; 0x32; 0x57; 0x04; 0x64; 0xac;
   0x46; 0x4a; 0x6c; 0x8c; 0x94; 0xd8; 0x62; 0x7c; 0x84; 0xc4; 0xf9; 0x08;
   0x8c; 0x04; 0x89; 0x18; 0x09; 0x10; 0x01; 0x74; 0x22; 0x02; 0xe8; 0x44;
   0x07; 0x83; 0x06; 0x0f; 0x06; 0x0c; 0xa0; 0x80; 0x73; 0x41; 0x00; 0xe4;
   0x18; 0xb1; 0x42; 0x31; 0x62; 0x84; 0x91; 0x00; 0x93; 0x22; 0x01; 0x24;
   0x78; 0x00; 0x1c; 0xf0; 0x00; 0x38; 0x64; 0x4a; 0x28; 0xc8; 0x94; 0x50;
   0x51; 0x48; 0xa2; 0xa2; 0x91; 0x44; 0xa9; 0x10; 0x1b; 0x52; 0x20; 0x34;
   0x04; 0xc4; 0x84; 0x09; 0x89; 0x08; 0xd0; 0x01; 0x45; 0xa0; 0x02; 0x88;
   0x82; 0x40; 0x1d; 0x04; 0x80; 0x38; 0x21; 0x37; 0x00; 0x42; 0x6e; 0x00;
   0x0c; 0x21; 0x22; 0x18; 0x42; 0x44; 0x4a; 0x0a; 0xc0; 0x94; 0x15; 0x80;
   0x12; 0xb4; 0x50; 0x25; 0x68; 0xa0].

Definition kMaskRandom46_38 : list Z :=
  [0x46; 0x4a; 0x6c; 0x8c; 0x94; 0xd8; 0x62; 0x7c; 0x84; 0xc4; 0xf9; 0x08;
   0x8c; 0x04; 0x89; 0x18; 0x09; 0x10; 0x01; 0x74; 0x22; 0x02; 0xe8; 0x44;
   0x07; 0x83; 0x06; 0x0f; 0x06; 0x0c; 0xa0; 0x80; 0x73; 0x41; 0x00; 0xe4;
   0x18; 0xb1; 0x42; 0x31; 0x62; 0x84; 0x91; 0x00; 0x93; 0x22; 0x01; 0x24;
   0x78; 0x00; 0x1c; 0xf0; 0x00; 0x38; 0x64; 0x4a; 0x28; 0xc8; 0x94; 0x50;
   0x51; 0x48; 0xa2; 0xa2; 0x91; 0x44; 0xa9; 0x10; 0x1b; 0x52; 0x20; 0x34;
   0x04; 0xc4; 0x84; 0x09; 0x89; 0x08; 0xd0; 0x01; 0x45; 0xa0; 0x02; 0x88;
   0x82; 0x40; 0x1d; 0x04; 0x80; 0x38; 0x21; 0x37; 0x00; 0x42; 0x6e; 0x00;
   0x0c; 0x21; 0x22; 0x18; 0x42; 0x44; 0x4a; 0x0a; 0xc0; 0x94; 0x15; 0x80;
   0x12; 0xb4; 0x50; 0x25; 0x68; 0xa0; 0x46; 0x4a; 0x6c; 0x8c; 0x94; 0xd8;
   0x62; 0x7c; 0x84; 0xc4; 0xf9; 0x08; 0x8c; 0x04; 0x89; 0x18; 0x09; 0x10;
   0x01; 0x74; 0x22; 0x02; 0xe8; 0x44; 0x07; 0x83; 0x06; 0x0f; 0x06; 0x0c;
   0xa0; 0x80; 0x73; 0x41; 0x00; 0xe4; 0x18; 0xb1; 0x42; 0x31; 0x62; 0x84;
   0x91; 0x00; 0x93; 0x22; 0x01; 0x24; 0x78; 0x00; 0x1c; 0xf0; 0x00; 0x38;
   0x0c; 0x84; 0x0c; 0x19; 0x08; 0x18; 0x80; 0x70; 0x07; 0x00; 0xe0; 0x0c;
   0xa0; 0x88; 0x49; 0x41; 0x10; 0x90; 0x05; 0x40; 0x32; 0x0a; 0x80; 0x64;
   0x43; 0x02; 0x82; 0x86; 0x05; 0x04; 0x1a; 0x01; 0x50; 0x34; 0x02; 0xa0;
   0x60; 0x27; 0x00; 0xc0; 0x4e; 0x00; 0x14; 0x38; 0xa0; 0x28; 0x71; 0x40;
   0x82; 0x32; 0x57; 0x04; 0x64; 0xac; 0x72; 0x2b; 0xa5; 0xd4; 0xb9; 0x30].

Definition kMaskRandom46_39 : list Z :=
  [0x46; 0x4a; 0x6c; 0x8c; 0x94; 0xd8; 0x62; 0x7c; 0x84; 0xc4; 0xf9; 0x08;
   0x8c; 0x04; 0x89; 0x18; 0x09; 0x10; 0x01; 0x74; 0x22; 0x02; 0xe8; 0x44;
   0x07; 0x83; 0x06; 0x0f; 0x06; 0x0c; 0xa0; 0x80; 0x73; 0x41; 0x00; 0xe4;
   0x18; 0xb1; 0x42; 0x31; 0x62; 0x84; 0x91; 0x00; 0x93; 0x22; 0x01; 0x24;
   0x78; 0x00; 0x1c; 0xf0; 0x00; 0x38; 0x64; 0x4a; 0x28; 0xc8; 0x94; 0x50;
   0x51; 0x48; 0xa2; 0xa2; 0x91; 0x44; 0xa9; 0x10; 0x1b; 0x52; 0x20; 0x34;
   0x04; 0xc4; 0x84; 0x09; 0x89; 0x08; 0xd0; 0x01; 0x45; 0xa0; 0x02; 0x88;
   0x82; 0x40; 0x1d; 0x04; 0x80; 0x38; 0x21; 0x37; 0x00; 0x42; 0x6e; 0x00;
   0x0c; 0x21; 0x22; 0x18; 0x42; 0x44; 0x4a; 0x0a; 0xc0; 0x94; 0x15; 0x80;
   0x12; 0xb4; 0x50; 0x25; 0x68; 0xa0; 0x64; 0x4a; 0x28; 0xc8; 0x94; 0x50;
   0x51; 0x48; 0xa2; 0xa2; 0x91; 0x44; 0xa9; 0x10; 0x1b; 0x52; 0x20; 0x34;
   0x04; 0xc4; 0x84; 0x09; 0x89; 0x08; 0xd0; 0x01; 0x45; 0xa0; 0x02; 0x88;
   0x82; 0x40; 0x1d; 0x04; 0x80; 0x38; 0x21; 0x37; 0x00; 0x42; 0x6e; 0x00;
   0x0c; 0x21; 0x22; 0x18; 0x42; 0x44; 0x4a; 0x0a; 0xc0; 0x94; 0x15; 0x80;
   0x12; 0xb4; 0x50; 0x25; 0x68; 0xa0; 0x46; 0x4a; 0x6c; 0x8c; 0x94; 0xd8;
   0x62; 0x7c; 0x84; 0xc4; 0xf9; 0x08; 0x8c; 0x04; 0x89; 0x18; 0x09; 0x10;
   0x01; 0x74; 0x22; 0x02; 0xe8; 0x44; 0x07; 0x83; 0x06; 0x0f; 0x06; 0x0c;
   0xa0; 0x80; 0x73; 0x41; 0x00; 0xe4; 0x18; 0xb1; 0x42; 0x31; 0x62; 0x84;
   0x91; 0x00; 0x93; 0x22; 0x01; 0x24; 0x78; 0x00; 0x1c; 0xf0; 0x00; 0x38;
   0xdb; 0x4a; 0x7b; 0xb6; 0x94; 0xf4].

Definition kMaskRandom46_40 : list Z :=
  [0x64; 0x4a; 0x28; 0xc8; 0x94; 0x50; 0x51; 0x48; 0xa2; 0xa2; 0x91; 0x44;
   0xa9; 0x10; 0x1b; 0x52; 0x20; 0x34; 0x04; 0xc4; 0x84; 0x09; 0x89; 0x08;
   0xd0; 0x01; 0x45; 0xa0; 0x02; 0x88; 0x82; 0x40; 0x1d; 0x04; 0x80; 0x38;
   0x21; 0x37; 0x00; 0x42; 0x6e; 0x00; 0x0c; 0x21; 0x22; 0x18; 0x42; 0x44;
   0x4a; 0x0a; 0xc0; 0x94; 0x15; 0x80; 0x12; 0xb4; 0x50; 0x25; 0x68; 0xa0;
   0x46; 0x4a; 0x6c; 0x8c; 0x94; 0xd8; 0x62; 0x7c; 0x84; 0xc4; 0xf9; 0x08;
   0x8c; 0x04; 0x89; 0x18; 0x09; 0x10; 0x01; 0x74; 0x22; 0x02; 0xe8; 0x44;
   0x07; 0x83; 0x06; 0x0f; 0x06; 0x0c; 0xa0; 0x80; 0x73; 0x41; 0x00; 0xe4;
   0x18; 0xb1; 0x42; 0x31; 0x62; 0x84; 0x91; 0x00; 0x93; 0x22; 0x01; 0x24;
   0x78; 0x00; 0x1c; 0xf0; 0x00; 0x38; 0xdb; 0x4a; 0x7b; 0xb6; 0x94; 0xf4;
   0x46; 0x4a; 0x6c; 0x8c; 0x94; 0xd8; 0x62; 0x7c; 0x84; 0xc4; 0xf9; 0x08;
   0x8c; 0x04; 0x89; 0x18; 0x09; 0x10; 0x01; 0x74; 0x22; 0x02; 0xe8; 0x44;
   0x07; 0x83; 0x06; 0x0f; 0x06; 0x0c; 0xa0; 0x80; 0x73; 0x41; 0x00; 0xe4;
   0x18; 0xb1; 0x42; 0x31; 0x62; 0x84; 0x91; 0x00; 0x93; 0x22; 0x01; 0x24;
   0x78; 0x00; 0x1c; 0xf0; 0x00; 0x38; 0x64; 0x4a; 0x28; 0xc8; 0x94; 0x50;
   0x51; 0x48; 0xa2; 0xa2; 0x91; 0x44; 0xa9; 0x10; 0x1b; 0x52; 0x20; 0x34;
   0x04; 0xc4; 0x84; 0x09; 0x89; 0x08; 0xd0; 0x01; 0x45; 0xa0; 0x02; 0x88;
   0x82; 0x40; 0x1d; 0x04; 0x80; 0x38; 0x21; 0x37; 0x00; 0x42; 0x6e; 0x00;
   0x0c; 0x21; 0x22; 0x18; 0x42; 0x44; 0x4a; 0x0a; 0xc0; 0x94; 0x15; 0x80;
   0x12; 0xb4; 0x50; 0x25; 0x68; 0xa0; 0x7c; 0xc8; 0x93; 0x63; 0x3c; 0x80].

Definition kMaskRandom46_41 : list Z :=
  [0x64; 0x4a; 0x28; 0xc8; 0x94; 0x50; 0x51; 0x48; 0xa2; 0xa2; 0x91; 0x44;
   0xa9; 0x10; 0x1b; 0x52; 0x20; 0x34; 0x04; 0xc4; 0x84; 0x09; 0x89; 0x08;
   0xd0; 0x01; 0x45; 0xa0; 0x02; 0x88; 0x82; 0x40; 0x1d; 0x04; 0x80; 0x38;
   0x21; 0x37; 0x00; 0x42; 0x6e; 0x00; 0x0c; 0x21; 0x22; 0x18; 0x42; 0x44;
   0x4a; 0x0a; 0xc0; 0x94; 0x15; 0x80; 0x12; 0xb4; 0x50; 0x25; 0x68; 0xa0;
   0x46; 0x4a; 0x6c; 0x8c; 0x94; 0xd8; 0x62; 0x7c; 0x84; 0xc4; 0xf9; 0x08;
   0x8c; 0x04; 0x89; 0x18; 0x09; 0x10; 0x01; 0x74; 0x22; 0x02; 0xe8; 0x44;
   0x07; 0x83; 0x06; 0x0f; 0x06; 0x0c; 0xa0; 0x80; 0x73; 0x41; 0x00; 0xe4;
   0x18; 0xb1; 0x42; 0x31; 0x62; 0x84; 0x91; 0x00; 0x93; 0x22; 0x01; 0x24;
   0x78; 0x00; 0x1c; 0xf0; 0x00; 0x38; 0xdb; 0x4a; 0x7b; 0xb6; 0x94; 0xf4;
   0x64; 0x4a; 0x28; 0xc8; 0x94; 0x50; 0x51; 0x48; 0xa2; 0xa2; 0x91; 0x44;
   0xa9; 0x10; 0x1b; 0x52; 0x20; 0x34; 0x04; 0xc4; 0x84; 0x09; 0x89; 0x08;
   0xd0; 0x01; 0x45; 0xa0; 0x02; 0x88; 0x82; 0x40; 0x1d; 0x04; 0x80; 0x38;
   0x21; 0x37; 0x00; 0x42; 0x6e; 0x00; 0x0c; 0x21; 0x22; 0x18; 0x42; 0x44;
   0x4a; 0x0a; 0xc0; 0x94; 0x15; 0x80; 0x12; 0xb4; 0x50; 0x25; 0x68; 0xa0;
   0x46; 0x4a; 0x6c; 0x8c; 0x94; 0xd8; 0x33; 0x24; 0x26; 0x66; 0x48; 0x4c;
   0x99; 0x02; 0x13; 0x32; 0x04; 0x24; 0x05; 0x80; 0x0e; 0x0b; 0x00; 0x1c;
   0x80; 0xa1; 0x83; 0x01; 0x43; 0x04; 0x84; 0x48; 0x19; 0x08; 0x90; 0x30;
   0x40; 0x6d; 0x40; 0x80; 0xda; 0x80; 0x0a; 0x90; 0xc0; 0x15; 0x21; 0x80;
   0x68; 0x04; 0x90; 0xd0; 0x09; 0x20; 0x10; 0x31; 0x20; 0x20; 0x62; 0x40;
   0x30; 0x58; 0x04; 0x60; 0xb0; 0x08].

Definition kMaskRandom46_42 : list Z :=
  [0x64; 0x4a; 0x28; 0xc8; 0x94; 0x50; 0x51; 0x48; 0xa2; 0xa2; 0x91; 0x44;
   0xa9; 0x10; 0x1b; 0x52; 0x20; 0x34; 0x04; 0xc4; 0x84; 0x09; 0x89; 0x08;
   0xd0; 0x01; 0x45; 0xa0; 0x02; 0x88; 0x82; 0x40; 0x1d; 0x04; 0x80; 0x38;
   0x21; 0x37; 0x00; 0x42; 0x6e; 0x00; 0x0c; 0x21; 0x22; 0x18; 0x42; 0x44;
   0x4a; 0x0a; 0xc0; 0x94; 0x15; 0x80; 0x12; 0xb4; 0x50; 0x25; 0x68; 0xa0;
   0x46; 0x4a; 0x6c; 0x8c; 0x94; 0xd8; 0x33; 0x24; 0x26; 0x66; 0x48; 0x4c;
   0x99; 0x02; 0x13; 0x32; 0x04; 0x24; 0x05; 0x80; 0x0e; 0x0b; 0x00; 0x1c;
   0x80; 0xa1; 0x83; 0x01; 0x43; 0x04; 0x84; 0x48; 0x19; 0x08; 0x90; 0x30;
   0x40; 0x6d; 0x40; 0x80; 0xda; 0x80; 0x0a; 0x90; 0xc0; 0x15; 0x21; 0x80;
   0x68; 0x04; 0x90; 0xd0; 0x09; 0x20; 0x10; 0x31; 0x20; 0x20; 0x62; 0x40;
   0x30; 0x58; 0x04; 0x60; 0xb0; 0x08; 0x64; 0x4a; 0x28; 0xc8; 0x94; 0x50;
   0x51; 0x48; 0xa2; 0xa2; 0x91; 0x44; 0xa9; 0x10; 0x1b; 0x52; 0x20; 0x34;
   0x04; 0xc4; 0x84; 0x09; 0x89; 0x08; 0xd0; 0x01; 0x45; 0xa0; 0x02; 0x88;
   0x82; 0x40; 0x1d; 0x04; 0x80; 0x38; 0x21; 0x37; 0x00; 0x42; 0x6e; 0x00;
   0x0c; 0x21; 0x22; 0x18; 0x42; 0x44; 0x4a; 0x0a; 0xc0; 0x94; 0x15; 0x80;
   0x12; 0xb4; 0x50; 0x25; 0x68; 0xa0; 0x46; 0x4a; 0x6c; 0x8c; 0x94; 0xd8;
   0x62; 0x7c; 0x84; 0xc4; 0xf9; 0x08; 0x8c; 0x04; 0x89; 0x18; 0x09; 0x10;
   0x01; 0x74; 0x22; 0x02; 0xe8; 0x44; 0x07; 0x83; 0x06; 0x0f; 0x06; 0x0c;
   0xa0; 0x80; 0x73; 0x41; 0x00; 0xe4; 0x18; 0xb1; 0x42; 0x31; 0x62; 0x84;
   0x91; 0x00; 0x93; 0x22; 0x01; 0x24; 0x78; 0x00; 0x1c; 0xf0; 0x00; 0x38;
   0xdb; 0x4a; 0x7b; 0xb6; 0x94; 0xf4; 0xfc; 0x6e; 0x89; 0x54; 0x4f; 0x00].

Definition kMaskRandom46_43 : list Z :=
  [0x64; 0x4a; 0x28; 0xc8; 0x94; 0x50; 0x51; 0x48; 0xa2; 0xa2; 0x91; 0x44;
   0xa9; 0x10; 0x1b; 0x52; 0x20; 0x34; 0x04; 0xc4; 0x84; 0x09; 0x89; 0x08;
   0xd0; 0x01; 0x45; 0xa0; 0x02; 0x88; 0x82; 0x40; 0x1d; 0x04; 0x80; 0x38;
   0x21; 0x37; 0x00; 0x42; 0x6e; 0x00; 0x0c; 0x21; 0x22; 0x18; 0x42; 0x44;
   0x4a; 0x0a; 0xc0; 0x94; 0x15; 0x80; 0x12; 0xb4; 0x50; 0x25; 0x68; 0xa0;
   0x46; 0x4a; 0x6c; 0x8c; 0x94; 0xd8; 0x33; 0x24; 0x26; 0x66; 0x48; 0x4c;
   0x99; 0x02; 0x13; 0x32; 0x04; 0x24; 0x05; 0x80; 0x0e; 0x0b; 0x00; 0x1c;
   0x80; 0xa1; 0x83; 0x01; 0x43; 0x04; 0x84; 0x48; 0x19; 0x08; 0x90; 0x30;
   0x40; 0x6d; 0x40; 0x80; 0xda; 0x80; 0x0a; 0x90; 0xc0; 0x15; 0x21; 0x80;
   0x68; 0x04; 0x90; 0xd0; 0x09; 0x20; 0x10; 0x31; 0x20; 0x20; 0x62; 0x40;
   0x30; 0x58; 0x04; 0x60; 0xb0; 0x08; 0x46; 0x4a; 0x6c; 0x8c; 0x94; 0xd8;
   0x33; 0x24; 0x26; 0x66; 0x48; 0x4c; 0x99; 0x02; 0x13; 0x32; 0x04; 0x24;
   0x05; 0x80; 0x0e; 0x0b; 0x00; 0x1c; 0x80; 0xa1; 0x83; 0x01; 0x43; 0x04;
   0x84; 0x48; 0x19; 0x08; 0x90; 0x30; 0x40; 0x6d; 0x40; 0x80; 0xda; 0x80;
   0x0a; 0x90; 0xc0; 0x15; 0x21; 0x80; 0x68; 0x04; 0x90; 0xd0; 0x09; 0x20;
   0x10; 0x31; 0x20; 0x20; 0x62; 0x40; 0x30; 0x58; 0x04; 0x60; 0xb0; 0x08;
   0x64; 0x4a; 0x28; 0xc8; 0x94; 0x50; 0x51; 0x48; 0xa2; 0xa2; 0x91; 0x44;
   0xa9; 0x10; 0x1b; 0x52; 0x20; 0x34; 0x04; 0xc4; 0x84; 0x09; 0x89; 0x08;
   0xd0; 0x01; 0x45; 0xa0; 0x02; 0x88; 0x82; 0x40; 0x1d; 0x04; 0x80; 0x38;
   0x21; 0x37; 0x00; 0x42; 0x6e; 0x00; 0x0c; 0x21; 0x22; 0x18; 0x42; 0x44;
   0x4a; 0x0a; 0xc0; 0x94; 0x15; 0x80; 0x12; 0xb4; 0x50; 0x25; 0x68; 0xa0;
   0xea; 0x8d; 0x1b; 0xd5; 0x1a; 0x34].

Definition kMaskRandom46_44 : list Z :=
  [0x46; 0x4a; 0x6c; 0x8c; 0x94; 0xd8; 0x33; 0x24; 0x26; 0x66; 0x48; 0x4c;
   0x99; 0x02; 0x13; 0x32; 0x04; 0x24; 0x05; 0x80; 0x0e; 0x0b; 0x00; 0x1c;
   0x80; 0xa1; 0x83; 0x01; 0x43; 0x04; 0x84; 0x48; 0x19; 0x08; 0x90; 0x30;
   0x40; 0x6d; 0x40; 0x80; 0xda; 0x80; 0x0a; 0x90; 0xc0; 0x15; 0x21; 0x80;
   0x68; 0x04; 0x90; 0xd0; 0x09; 0x20; 0x10; 0x31; 0x20; 0x20; 0x62; 0x40;
   0x30; 0x58; 0x04; 0x60; 0xb0; 0x08; 0x64; 0x4a; 0x28; 0xc8; 0x94; 0x50;
   0x51; 0x48; 0xa2; 0xa2; 0x91; 0x44; 0xa9; 0x10; 0x1b; 0x52; 0x20; 0x34;
   0x04; 0xc4; 0x84; 0x09; 0x89; 0x08; 0xd0; 0x01; 0x45; 0xa0; 0x02; 0x88;
   0x82; 0x40; 0x1d; 0x04; 0x80; 0x38; 0x21; 0x37; 0x00; 0x42; 0x6e; 0x00;
   0x0c; 0x21; 0x22; 0x18; 0x42; 0x44; 0x4a; 0x0a; 0xc0; 0x94; 0x15; 0x80;
   0x12; 0xb4; 0x50; 0x25; 0x68; 0xa0; 0xea; 0x8d; 0x1b; 0xd5; 0x1a; 0x34;
   0x64; 0x4a; 0x28; 0xc8; 0x94; 0x50; 0x51; 0x48; 0xa2; 0xa2; 0x91; 0x44;
   0xa9; 0x10; 0x1b; 0x52; 0x20; 0x34; 0x04; 0xc4; 0x84; 0x09; 0x89; 0x08;
   0xd0; 0x01; 0x45; 0xa0; 0x02; 0x88; 0x82; 0x40; 0x1d; 0x04; 0x80; 0x38;
   0x21; 0x37; 0x00; 0x42; 0x6e; 0x00; 0x0c; 0x21; 0x22; 0x18; 0x42; 0x44;
   0x4a; 0x0a; 0xc0; 0x94; 0x15; 0x80; 0x12; 0xb4; 0x50; 0x25; 0x68; 0xa0;
   0x46; 0x4a; 0x6c; 0x8c; 0x94; 0xd8; 0x33; 0x24; 0x26; 0x66; 0x48; 0x4c;
   0x99; 0x02; 0x13; 0x32; 0x04; 0x24; 0x05; 0x80; 0x0e; 0x0b; 0x00; 0x1c;
   0x80; 0xa1; 0x83; 0x01; 0x43; 0x04; 0x84; 0x48; 0x19; 0x08; 0x90; 0x30;
   0x40; 0x6d; 0x40; 0x80; 0xda; 0x80; 0x0a; 0x90; 0xc0; 0x15; 0x21; 0x80;
   0x68; 0x04; 0x90; 0xd0; 0x09; 0x20; 0x10; 0x31; 0x20; 0x20; 0x62; 0x40;
   0x30; 0x58; 0x04; 0x60; 0xb0; 0x08; 0x1a; 0x8a; 0x00; 0x1c; 0x89; 0x54].

Definition kMaskRandom46_45 : list Z :=
  [0x46; 0x4a; 0x6c; 0x8c; 0x94; 0xd8; 0x33; 0x24; 0x26; 0x66; 0x48; 0x4c;
   0x99; 0x02; 0x13; 0x32; 0x04; 0x24; 0x05; 0x80; 0x0e; 0x0b; 0x00; 0x1c;
   0x80; 0xa1; 0x83; 0x01; 0x43; 0x04; 0x84; 0x48; 0x19; 0x08; 0x90; 0x30;
   0x40; 0x6d; 0x40; 0x80; 0xda; 0x80; 0x0a; 0x90; 0xc0; 0x15; 0x21; 0x80;
   0x68; 0x04; 0x90; 0xd0; 0x09; 0x20; 0x10; 0x31; 0x20; 0x20; 0x62; 0x40;
   0x30; 0x58; 0x04; 0x60; 0xb0; 0x08; 0x64; 0x4a; 0x28; 0xc8; 0x94; 0x50;
   0x51; 0x48; 0xa2; 0xa2; 0x91; 0x44; 0xa9; 0x10; 0x1b; 0x52; 0x20; 0x34;
   0x04; 0xc4; 0x84; 0x09; 0x89; 0x08; 0xd0; 0x01; 0x45; 0xa0; 0x02; 0x88;
   0x82; 0x40; 0x1d; 0x04; 0x80; 0x38; 0x21; 0x37; 0x00; 0x42; 0x6e; 0x00;
   0x0c; 0x21; 0x22; 0x18; 0x42; 0x44; 0x4a; 0x0a; 0xc0; 0x94; 0x15; 0x80;
   0x12; 0xb4; 0x50; 0x25; 0x68; 0xa0; 0xea; 0x8d; 0x1b; 0xd5; 0x1a; 0x34;
   0x46; 0x4a; 0x6c; 0x8c; 0x94; 0xd8; 0x33; 0x24; 0x26; 0x66; 0x48; 0x4c;
   0x99; 0x02; 0x13; 0x32; 0x04; 0x24; 0x05; 0x80; 0x0e; 0x0b; 0x00; 0x1c;
   0x80; 0xa1; 0x83; 0x01; 0x43; 0x04; 0x84; 0x48; 0x19; 0x08; 0x90; 0x30;
   0x40; 0x6d; 0x40; 0x80; 0xda; 0x80; 0x0a; 0x90; 0xc0; 0x15; 0x21; 0x80;
   0x68; 0x04; 0x90; 0xd0; 0x09; 0x20; 0x10; 0x31; 0x20; 0x20; 0x62; 0x40;
   0x30; 0x58; 0x04; 0x60; 0xb0; 0x08; 0x46; 0x42; 0x0c; 0x8c; 0x84; 0x18;
   0x33; 0x20; 0x46; 0x66; 0x40; 0x8c; 0x99; 0x08; 0x0b; 0x32; 0x10; 0x14;
   0x05; 0x84; 0x30; 0x0b; 0x08; 0x60; 0x80; 0xb0; 0x23; 0x01; 0x60; 0x44;
   0x84; 0x42; 0x91; 0x08; 0x85; 0x20; 0x40; 0x73; 0x00; 0x80; 0xe6; 0x00;
   0x0a; 0x81; 0x12; 0x15; 0x02; 0x24; 0x68; 0x0c; 0x40; 0xd0; 0x18; 0x80;
   0x10; 0x24; 0x84; 0x20; 0x49; 0x08; 0x30; 0x51; 0x40; 0x60; 0xa2; 0x80;
   0x5f; 0x50; 0x88; 0xbe; 0xa1; 0x10].

Definition kMaskRandom46_46 : list Z :=
  [0x46; 0x4a; 0x6c; 0x8c; 0x94; 0xd8; 0x33; 0x24; 0x26; 0x66; 0x48; 0x4c;
   0x99; 0x02; 0x13; 0x32; 0x04; 0x24; 0x05; 0x80; 0x0e; 0x0b; 0x00; 0x1c;
   0x80; 0xa1; 0x83; 0x01; 0x43; 0x04; 0x84; 0x48; 0x19; 0x08; 0x90; 0x30;
   0x40; 0x6d; 0x40; 0x80; 0xda; 0x80; 0x0a; 0x90; 0xc0; 0x15; 0x21; 0x80;
   0x68; 0x04; 0x90; 0xd0; 0x09; 0x20; 0x10; 0x31; 0x20; 0x20; 0x62; 0x40;
   0x30; 0x58; 0x04; 0x60; 0xb0; 0x08; 0x46; 0x42; 0x0c; 0x8c; 0x84; 0x18;
   0x33; 0x20; 0x46; 0x66; 0x40; 0x8c; 0x99; 0x08; 0x0b; 0x32; 0x10; 0x14;
   0x05; 0x84; 0x30; 0x0b; 0x08; 0x60; 0x80; 0xb0; 0x23; 0x01; 0x60; 0x44;
   0x84; 0x42; 0x91; 0x08; 0x85; 0x20; 0x40; 0x73; 0x00; 0x80; 0xe6; 0x00;
   0x0a; 0x81; 0x12; 0x15; 0x02; 0x24; 0x68; 0x0c; 0x40; 0xd0; 0x18; 0x80;
   0x10; 0x24; 0x84; 0x20; 0x49; 0x08; 0x30; 0x51; 0x40; 0x60; 0xa2; 0x80;
   0x5f; 0x50; 0x88; 0xbe; 0xa1; 0x10; 0x46; 0x4a; 0x6c; 0x8c; 0x94; 0xd8;
   0x33; 0x24; 0x26; 0x66; 0x48; 0x4c; 0x99; 0x02; 0x13; 0x32; 0x04; 0x24;
   0x05; 0x80; 0x0e; 0x0b; 0x00; 0x1c; 0x80; 0xa1; 0x83; 0x01; 0x43; 0x04;
   0x84; 0x48; 0x19; 0x08; 0x90; 0x30; 0x40; 0x6d; 0x40; 0x80; 0xda; 0x80;
   0x0a; 0x90; 0xc0; 0x15; 0x21; 0x80; 0x68; 0x04; 0x90; 0xd0; 0x09; 0x20;
   0x10; 0x31; 0x20; 0x20; 0x62; 0x40; 0x30; 0x58; 0x04; 0x60; 0xb0; 0x08;
   0x64; 0x4a; 0x28; 0xc8; 0x94; 0x50; 0x51; 0x48; 0xa2; 0xa2; 0x91; 0x44;
   0xa9; 0x10; 0x1b; 0x52; 0x20; 0x34; 0x04; 0xc4; 0x84; 0x09; 0x89; 0x08;
   0xd0; 0x01; 0x45; 0xa0; 0x02; 0x88; 0x82; 0x40; 0x1d; 0x04; 0x80; 0x38;
   0x21; 0x37; 0x00; 0x42; 0x6e; 0x00; 0x0c; 0x21; 0x22; 0x18; 0x42; 0x44;
   0x4a; 0x0a; 0xc0; 0x94; 0x15; 0x80; 0x12; 0xb4; 0x50; 0x25; 0x68; 0xa0;
   0xea; 0x8d; 0x1b; 0xd5; 0x1a; 0x34; 0xd5; 0xdf; 0x59; 0xb9; 0xba; 0x10].

Definition kMaskRandom47_1 : list Z :=
  [0xff; 0xff; 0xff; 0xff; 0xff; 0xfe].

Definition kMaskRandom47_2 : list Z :=
  [0xec; 0xdd; 0x99; 0xd9; 0x9d; 0x98; 0x9b; 0xb2; 0x77; 0x27; 0x72; 0x76].

Definition kMaskRandom47_3 : list Z :=
  [0xca; 0xd3; 0x65; 0x36; 0x53; 0x64; 0xf1; 0x49; 0x3a; 0x93; 0xa9; 0x3a;
   0x76; 0x27; 0xd0; 0x7d; 0x07; 0xd0].

Definition kMaskRandom47_4 : list Z :=
  [0xc4; 0xd1; 0x65; 0x16; 0x51; 0x64; 0x31; 0x62; 0x96; 0x29; 0x62; 0x96;
   0x4b; 0x24; 0x5a; 0x45; 0xa4; 0x5a; 0x2c; 0xa8; 0xaa; 0x8a; 0xa8; 0xaa].

Definition kMaskRandom47_5 : list Z :=
  [0xc6; 0xca; 0x6c; 0xa6; 0xca; 0x6c; 0x63; 0x6c; 0x96; 0xc9; 0x6c; 0x96;
   0x1d; 0xa1; 0xdc; 0x1d; 0xc1; 0xdc; 0xad; 0x55; 0x39; 0x53; 0x95; 0x38;
   0xb2; 0xb7; 0x07; 0x70; 0x77; 0x06].

Definition kMaskRandom47_6 : list Z :=
  [0x64; 0x4a; 0x29; 0xa2; 0x9a; 0x28; 0x51; 0x58; 0xa2; 0x8a; 0x68; 0xa6;
   0x0c; 0xa4; 0x30; 0x45; 0xa4; 0x5a; 0xa1; 0x22; 0x46; 0x2d; 0x82; 0xd8;
   0x12; 0xa1; 0x1c; 0x17; 0x41; 0x74; 0x8a; 0x45; 0xc1; 0xd1; 0x1d; 0x10].

Definition kMaskRandom47_7 : list Z :=
  [0x46; 0x4a; 0x6d; 0xa6; 0xca; 0x6c; 0x33; 0x24; 0x26; 0x4a; 0x64; 0xa6;
   0x91; 0x92; 0x12; 0x61; 0xa6; 0x0a; 0xa4; 0x20; 0x4a; 0x0c; 0x90; 0xd8;
   0x50; 0xa0; 0xd5; 0x81; 0x70; 0x36; 0x84; 0xc5; 0x80; 0x55; 0x45; 0x54;
   0x09; 0x71; 0x0d; 0x50; 0x9d; 0x08].

Definition kMaskRandom47_8 : list Z :=
  [0x0c; 0x84; 0x0d; 0x02; 0xc0; 0x2c; 0x80; 0x70; 0x06; 0x80; 0x78; 0x06;
   0xa0; 0x88; 0x48; 0x21; 0x22; 0x12; 0x05; 0x40; 0x32; 0x0c; 0xa0; 0xca;
   0x43; 0x02; 0x82; 0x40; 0x95; 0x08; 0x1a; 0x01; 0x51; 0x15; 0x41; 0x54;
   0x60; 0x27; 0x00; 0x66; 0x06; 0x60; 0x14; 0x38; 0xa0; 0x99; 0x09; 0x90].

Definition kMaskRandom47_9 : list Z :=
  [0x46; 0x4a; 0x6d; 0xa6; 0xca; 0x6c; 0x62; 0x7c; 0x84; 0xc8; 0x4c; 0x84;
   0x8c; 0x04; 0x88; 0x30; 0x83; 0x88; 0x01; 0x74; 0x23; 0x40; 0x94; 0x08;
   0x07; 0x83; 0x07; 0x02; 0x70; 0x26; 0xa0; 0x80; 0x72; 0x45; 0x44; 0x54;
   0x18; 0xb1; 0x42; 0x10; 0xe1; 0x0e; 0x91; 0x00; 0x92; 0x09; 0x20; 0x92;
   0x78; 0x00; 0x1c; 0x03; 0x80; 0x38].

Definition kMaskRandom47_10 : list Z :=
  [0x64; 0x4a; 0x28; 0x22; 0x8a; 0x28; 0x51; 0x48; 0xa2; 0x8a; 0x68; 0xa6;
   0xa9; 0x10; 0x1a; 0x00; 0x90; 0x0a; 0x04; 0xc4; 0x84; 0x21; 0x06; 0x12;
   0xd0; 0x01; 0x44; 0x94; 0x29; 0x42; 0x82; 0x40; 0x1c; 0x81; 0x48; 0x14;
   0x21; 0x37; 0x01; 0x40; 0xd4; 0x04; 0x0c; 0x21; 0x23; 0x11; 0x01; 0x18;
   0x4a; 0x0a; 0xc1; 0x0c; 0x10; 0xc0; 0x12; 0xb4; 0x50; 0xa8; 0x1a; 0x80].

Definition kMaskRandom47_11 : list Z :=
  [0x46; 0x4a; 0x6c; 0xa6; 0xca; 0x68; 0x33; 0x24; 0x27; 0x40; 0x64; 0x22;
   0x99; 0x02; 0x12; 0x2a; 0x22; 0x82; 0x05; 0x80; 0x0e; 0x06; 0xa0; 0x2a;
   0x80; 0xa1; 0x83; 0x19; 0x11; 0x90; 0x84; 0x48; 0x18; 0x51; 0x05; 0x10;
   0x40; 0x6d; 0x40; 0x10; 0x91; 0x08; 0x0a; 0x90; 0xc1; 0x32; 0x03; 0x20;
   0x68; 0x04; 0x90; 0x45; 0x24; 0x52; 0x10; 0x31; 0x20; 0x8c; 0x08; 0xc0;
   0x30; 0x58; 0x05; 0x18; 0x58; 0x04].

Definition kMaskRandom47_12 : list Z :=
  [0x64; 0x4a; 0x28; 0x20; 0xc2; 0x0c; 0x51; 0x58; 0xa2; 0x04; 0x60; 0x46;
   0x0c; 0xa4; 0x30; 0x80; 0xa8; 0x0a; 0xa1; 0x22; 0x46; 0x43; 0x04; 0x30;
   0x12; 0xa1; 0x1d; 0x02; 0x30; 0x22; 0x8a; 0x45; 0xc0; 0x29; 0x02; 0x90;
   0x86; 0x8a; 0x6d; 0x30; 0x13; 0x00; 0x23; 0x2c; 0x84; 0x11; 0x21; 0x12;
   0x16; 0x21; 0x98; 0xc4; 0x0c; 0x40; 0x4c; 0x30; 0x54; 0x48; 0x44; 0x84;
   0x41; 0xc1; 0x27; 0x14; 0x11; 0x40; 0x19; 0x56; 0xe5; 0x08; 0x90; 0x88].

Definition kMaskRandom47_13 : list Z :=
  [0x64; 0x4a; 0x28; 0xa2; 0x8a; 0x28; 0x51; 0x58; 0xa3; 0x8a; 0x38; 0xa2;
   0x0c; 0xa4; 0x30; 0x43; 0x04; 0x30; 0xa1; 0x22; 0x46; 0x24; 0x62; 0x46;
   0x12; 0xa1; 0x1c; 0x11; 0xc1; 0x1c; 0x8a; 0x45; 0xc0; 0x5c; 0x05; 0xc0;
   0x46; 0x4a; 0x6c; 0xa6; 0xca; 0x6c; 0x33; 0x24; 0x26; 0x42; 0x64; 0x26;
   0x91; 0x92; 0x13; 0x21; 0x32; 0x12; 0xa4; 0x20; 0x4a; 0x04; 0xa0; 0x4a;
   0x50; 0xa0; 0xd4; 0x0d; 0x40; 0xd4; 0x84; 0xc5; 0x80; 0x58; 0x05; 0x80;
   0x09; 0x71; 0x0d; 0x10; 0xd1; 0x0c].

Definition kMaskRandom47_14 : list Z :=
  [0x46; 0x4a; 0x6c; 0xa6; 0xca; 0x6c; 0x33; 0x24; 0x26; 0x42; 0x64; 0x26;
   0x91; 0x92; 0x13; 0x21; 0x32; 0x12; 0xa4; 0x20; 0x4a; 0x04; 0xa0; 0x4a;
   0x50; 0xa0; 0xd4; 0x0d; 0x40; 0xd4; 0x84; 0xc5; 0x80; 0x58; 0x05; 0x80;
   0x09; 0x71; 0x0d; 0x10; 0xd1; 0x0c; 0x64; 0x4a; 0x28; 0xa2; 0x8a; 0x28;
   0x51; 0x58; 0xa3; 0x8a; 0x38; 0xa2; 0x0c; 0xa4; 0x30; 0x43; 0x04; 0x30;
   0xa1; 0x22; 0x46; 0x24; 0x62; 0x46; 0x12; 0xa1; 0x1c; 0x11; 0xc1; 0x1c;
   0x8a; 0x45; 0xc0; 0x5c; 0x05; 0xc0; 0x9c; 0x3f; 0xb3; 0xe5; 0xad; 0x1c].

Definition kMaskRandom47_15 : list Z :=
  [0x46; 0x4a; 0x6c; 0xa6; 0xca; 0x6c; 0x33; 0x24; 0x26; 0x42; 0x64; 0x26;
   0x91; 0x92; 0x13; 0x21; 0x32; 0x12; 0xa4; 0x20; 0x4a; 0x04; 0xa0; 0x4a;
   0x50; 0xa0; 0xd4; 0x0d; 0x40; 0xd4; 0x84; 0xc5; 0x80; 0x58; 0x05; 0x80;
   0x09; 0x71; 0x0d; 0x10; 0xd1; 0x0c; 0x0c; 0x84; 0x0c; 0x40; 0xc4; 0x0c;
   0x80; 0x70; 0x07; 0x00; 0x70; 0x06; 0xa0; 0x88; 0x48; 0x84; 0x88; 0x48;
   0x05; 0x40; 0x32; 0x03; 0x20; 0x32; 0x43; 0x02; 0x82; 0x28; 0x22; 0x82;
   0x1a; 0x01; 0x50; 0x15; 0x01; 0x50; 0x60; 0x27; 0x00; 0x70; 0x07; 0x00;
   0x14; 0x38; 0xa1; 0x8a; 0x18; 0xa0].

Definition kMaskRandom47_16 : list Z :=
  [0x0c; 0x84; 0x0c; 0x40; 0xc4; 0x0c; 0x80; 0x70; 0x07; 0x00; 0x70; 0x06;
   0xa0; 0x88; 0x48; 0x84; 0x88; 0x48; 0x05; 0x40; 0x32; 0x03; 0x20; 0x32;
   0x43; 0x02; 0x82; 0x28; 0x22; 0x82; 0x1a; 0x01; 0x50; 0x15; 0x01; 0x50;
   0x60; 0x27; 0x00; 0x70; 0x07; 0x00; 0x14; 0x38; 0xa1; 0x8a; 0x18; 0xa0;
   0x46; 0x4a; 0x6c; 0xa6; 0xca; 0x6c; 0x33; 0x24; 0x26; 0x42; 0x64; 0x26;
   0x91; 0x92; 0x13; 0x21; 0x32; 0x12; 0xa4; 0x20; 0x4a; 0x04; 0xa0; 0x4a;
   0x50; 0xa0; 0xd4; 0x0d; 0x40; 0xd4; 0x84; 0xc5; 0x80; 0x58; 0x05; 0x80;
   0x09; 0x71; 0x0d; 0x10; 0xd1; 0x0c; 0xfa; 0xd9; 0xf5; 0xfe; 0xdc; 0x14].

Definition kMaskRandom47_17 : list Z :=
  [0x0c; 0x84; 0x0c; 0x40; 0xc4; 0x0c; 0x80; 0x70; 0x07; 0x00; 0x70; 0x06;
   0xa0; 0x88; 0x48; 0x84; 0x88; 0x48; 0x05; 0x40; 0x32; 0x03; 0x20; 0x32;
   0x43; 0x02; 0x82; 0x28; 0x22; 0x82; 0x1a; 0x01; 0x50; 0x15; 0x01; 0x50;
   0x60; 0x27; 0x00; 0x70; 0x07; 0x00; 0x14; 0x38; 0xa1; 0x8a; 0x18; 0xa0;
   0x46; 0x4a; 0x6c; 0xa6; 0xca; 0x6c; 0x62; 0x7c; 0x85; 0xc8; 0x5c; 0x84;
   0x8c; 0x04; 0x88; 0x48; 0x84; 0x88; 0x01; 0x74; 0x23; 0x42; 0x34; 0x22;
   0x07; 0x83; 0x06; 0x30; 0x63; 0x06; 0xa0; 0x80; 0x72; 0x07; 0x20; 0x72;
   0x18; 0xb1; 0x43; 0x14; 0x31; 0x42; 0x91; 0x00; 0x92; 0x09; 0x20; 0x92;
   0x78; 0x00; 0x1c; 0x01; 0xc0; 0x1c].

Definition kMaskRandom47_18 : list Z :=
  [0x46; 0x4a; 0x6c; 0xa6; 0xca; 0x6c; 0x62; 0x7c; 0x85; 0xc8; 0x5c; 0x84;
   0x8c; 0x04; 0x88; 0x48; 0x84; 0x88; 0x01; 0x74; 0x23; 0x42; 0x34; 0x22;
   0x07; 0x83; 0x06; 0x30; 0x63; 0x06; 0xa0; 0x80; 0x72; 0x07; 0x20; 0x72;
   0x18; 0xb1; 0x43; 0x14; 0x31; 0x42; 0x91; 0x00; 0x92; 0x09; 0x20; 0x92;
   0x78; 0x00; 0x1c; 0x01; 0xc0; 0x1c; 0x0c; 0x84; 0x0c; 0x40; 0xc4; 0x0c;
   0x80; 0x70; 0x07; 0x00; 0x70; 0x06; 0xa0; 0x88; 0x48; 0x84; 0x88; 0x48;
   0x05; 0x40; 0x32; 0x03; 0x20; 0x32; 0x43; 0x02; 0x82; 0x28; 0x22; 0x82;
   0x1a; 0x01; 0x50; 0x15; 0x01; 0x50; 0x60; 0x27; 0x00; 0x70; 0x07; 0x00;
   0x14; 0x38; 0xa1; 0x8a; 0x18; 0xa0; 0x82; 0x32; 0x56; 0x68; 0xa1; 0x5c].

Definition kMaskRandom47_19 : list Z :=
  [0x46; 0x4a; 0x6c; 0xa6; 0xca; 0x6c; 0x62; 0x7c; 0x85; 0xc8; 0x5c; 0x84;
   0x8c; 0x04; 0x88; 0x48; 0x84; 0x88; 0x01; 0x74; 0x23; 0x42; 0x34; 0x22;
   0x07; 0x83; 0x06; 0x30; 0x63; 0x06; 0xa0; 0x80; 0x72; 0x07; 0x20; 0x72;
   0x18; 0xb1; 0x43; 0x14; 0x31; 0x42; 0x91; 0x00; 0x92; 0x09; 0x20; 0x92;
   0x78; 0x00; 0x1c; 0x01; 0xc0; 0x1c; 0x64; 0x4a; 0x28; 0xa2; 0x8a; 0x28;
   0x51; 0x48; 0xa2; 0x8a; 0x28; 0xa2; 0xa9; 0x10; 0x1b; 0x01; 0xb0; 0x1a;
   0x04; 0xc4; 0x84; 0x48; 0x44; 0x84; 0xd0; 0x01; 0x44; 0x14; 0x41; 0x44;
   0x82; 0x40; 0x1c; 0x01; 0xc0; 0x1c; 0x21; 0x37; 0x01; 0x70; 0x17; 0x00;
   0x0c; 0x21; 0x22; 0x12; 0x21; 0x22; 0x4a; 0x0a; 0xc0; 0xac; 0x0a; 0xc0;
   0x12; 0xb4; 0x51; 0x45; 0x14; 0x50].

Definition kMaskRandom47_20 : list Z :=
  [0x64; 0x4a; 0x28; 0xa2; 0x8a; 0x28; 0x51; 0x48; 0xa2; 0x8a; 0x28; 0xa2;
   0xa9; 0x10; 0x1b; 0x01; 0xb0; 0x1a; 0x04; 0xc4; 0x84; 0x48; 0x44; 0x84;
   0xd0; 0x01; 0x44; 0x14; 0x41; 0x44; 0x82; 0x40; 0x1c; 0x01; 0xc0; 0x1c;
   0x21; 0x37; 0x01; 0x70; 0x17; 0x00; 0x0c; 0x21; 0x22; 0x12; 0x21; 0x22;
   0x4a; 0x0a; 0xc0; 0xac; 0x0a; 0xc0; 0x12; 0xb4; 0x51; 0x45; 0x14; 0x50;
   0x46; 0x4a; 0x6c; 0xa6; 0xca; 0x6c; 0x62; 0x7c; 0x85; 0xc8; 0x5c; 0x84;
   0x8c; 0x04; 0x88; 0x48; 0x84; 0x88; 0x01; 0x74; 0x23; 0x42; 0x34; 0x22;
   0x07; 0x83; 0x06; 0x30; 0x63; 0x06; 0xa0; 0x80; 0x72; 0x07; 0x20; 0x72;
   0x18; 0xb1; 0x43; 0x14; 0x31; 0x42; 0x91; 0x00; 0x92; 0x09; 0x20; 0x92;
   0x78; 0x00; 0x1c; 0x01; 0xc0; 0x1c; 0xdb; 0x4a; 0x7b; 0x31; 0x45; 0x2a].

Definition kMaskRandom47_21 : list Z :=
  [0x64; 0x4a; 0x28; 0xa2; 0x8a; 0x28; 0x51; 0x48; 0xa2; 0x8a; 0x28; 0xa2;
   0xa9; 0x10; 0x1b; 0x01; 0xb0; 0x1a; 0x04; 0xc4; 0x84; 0x48; 0x44; 0x84;
   0xd0; 0x01; 0x44; 0x14; 0x41; 0x44; 0x82; 0x40; 0x1c; 0x01; 0xc0; 0x1c;
   0x21; 0x37; 0x01; 0x70; 0x17; 0x00; 0x0c; 0x21; 0x22; 0x12; 0x21; 0x22;
   0x4a; 0x0a; 0xc0; 0xac; 0x0a; 0xc0; 0x12; 0xb4; 0x51; 0x45; 0x14; 0x50;
   0x46; 0x4a; 0x6c; 0xa6; 0xca; 0x6c; 0x33; 0x24; 0x26; 0x42; 0x64; 0x26;
   0x99; 0x02; 0x12; 0x21; 0x22; 0x12; 0x05; 0x80; 0x0e; 0x00; 0xe0; 0x0e;
   0x80; 0xa1; 0x82; 0x18; 0x21; 0x82; 0x84; 0x48; 0x18; 0x81; 0x88; 0x18;
   0x40; 0x6d; 0x40; 0xd4; 0x0d; 0x40; 0x0a; 0x90; 0xc1; 0x0c; 0x10; 0xc0;
   0x68; 0x04; 0x90; 0x49; 0x04; 0x90; 0x10; 0x31; 0x21; 0x12; 0x11; 0x20;
   0x30; 0x58; 0x05; 0x80; 0x58; 0x04].

Definition kMaskRandom47_22 : list Z :=
  [0x46; 0x4a; 0x6c; 0xa6; 0xca; 0x6c; 0x33; 0x24; 0x26; 0x42; 0x64; 0x26;
   0x99; 0x02; 0x12; 0x21; 0x22; 0x12; 0x05; 0x80; 0x0e; 0x00; 0xe0; 0x0e;
   0x80; 0xa1; 0x82; 0x18; 0x21; 0x82; 0x84; 0x48; 0x18; 0x81; 0x88; 0x18;
   0x40; 0x6d; 0x40; 0xd4; 0x0d; 0x40; 0x0a; 0x90; 0xc1; 0x0c; 0x10; 0xc0;
   0x68; 0x04; 0x90; 0x49; 0x04; 0x90; 0x10; 0x31; 0x21; 0x12; 0x11; 0x20;
   0x30; 0x58; 0x05; 0x80; 0x58; 0x04; 0x64; 0x4a; 0x28; 0xa2; 0x8a; 0x28;
   0x51; 0x48; 0xa2; 0x8a; 0x28; 0xa2; 0xa9; 0x10; 0x1b; 0x01; 0xb0; 0x1a;
   0x04; 0xc4; 0x84; 0x48; 0x44; 0x84; 0xd0; 0x01; 0x44; 0x14; 0x41; 0x44;
   0x82; 0x40; 0x1c; 0x01; 0xc0; 0x1c; 0x21; 0x37; 0x01; 0x70; 0x17; 0x00;
   0x0c; 0x21; 0x22; 0x12; 0x21; 0x22; 0x4a; 0x0a; 0xc0; 0xac; 0x0a; 0xc0;
   0x12; 0xb4; 0x51; 0x45; 0x14; 0x50; 0xea; 0x8d; 0x1a; 0x35; 0x55; 0xdc].

Definition kMaskRandom47_23 : list Z :=
  [0x46; 0x4a; 0x6c; 0xa6; 0xca; 0x6c; 0x33; 0x24; 0x26; 0x42; 0x64; 0x26;
   0x99; 0x02; 0x12; 0x21; 0x22; 0x12; 0x05; 0x80; 0x0e; 0x00; 0xe0; 0x0e;
   0x80; 0xa1; 0x82; 0x18; 0x21; 0x82; 0x84; 0x48; 0x18; 0x81; 0x88; 0x18;
   0x40; 0x6d; 0x40; 0xd4; 0x0d; 0x40; 0x0a; 0x90; 0xc1; 0x0c; 0x10; 0xc0;
   0x68; 0x04; 0x90; 0x49; 0x04; 0x90; 0x10; 0x31; 0x21; 0x12; 0x11; 0x20;
   0x30; 0x58; 0x05; 0x80; 0x58; 0x04; 0x46; 0x42; 0x0c; 0x20; 0xc2; 0x0c;
   0x33; 0x20; 0x46; 0x04; 0x60; 0x46; 0x99; 0x08; 0x0a; 0x80; 0xa8; 0x0a;
   0x05; 0x84; 0x30; 0x43; 0x04; 0x30; 0x80; 0xb0; 0x23; 0x02; 0x30; 0x22;
   0x84; 0x42; 0x90; 0x29; 0x02; 0x90; 0x40; 0x73; 0x01; 0x30; 0x13; 0x00;
   0x0a; 0x81; 0x12; 0x11; 0x21; 0x12; 0x68; 0x0c; 0x40; 0xc4; 0x0c; 0x40;
   0x10; 0x24; 0x84; 0x48; 0x44; 0x84; 0x30; 0x51; 0x41; 0x14; 0x11; 0x40;
   0x5f; 0x50; 0x89; 0x08; 0x90; 0x88].

Definition kMaskRandom47_24 : list Z :=
  [0x64; 0x4a; 0x28; 0x20; 0xc2; 0x0c; 0x51; 0x58; 0xa2; 0x04; 0x60; 0x46;
   0x0c; 0xa4; 0x30; 0x80; 0xa8; 0x0a; 0xa1; 0x22; 0x46; 0x43; 0x04; 0x30;
   0x12; 0xa1; 0x1d; 0x02; 0x30; 0x22; 0x8a; 0x45; 0xc0; 0x29; 0x02; 0x90;
   0x86; 0x8a; 0x6d; 0x30; 0x13; 0x00; 0x23; 0x2c; 0x84; 0x11; 0x21; 0x12;
   0x16; 0x21; 0x98; 0xc4; 0x0c; 0x40; 0x4c; 0x30; 0x54; 0x48; 0x44; 0x84;
   0x41; 0xc1; 0x27; 0x14; 0x11; 0x40; 0x19; 0x56; 0xe5; 0x08; 0x90; 0x88;
   0x46; 0x4a; 0x6c; 0xa6; 0xca; 0x68; 0x33; 0x24; 0x27; 0x40; 0x64; 0x22;
   0x99; 0x02; 0x12; 0x2a; 0x22; 0x82; 0x05; 0x80; 0x0e; 0x06; 0xa0; 0x2a;
   0x80; 0xa1; 0x83; 0x19; 0x11; 0x90; 0x84; 0x48; 0x18; 0x51; 0x05; 0x10;
   0x40; 0x6d; 0x40; 0x10; 0x91; 0x08; 0x0a; 0x90; 0xc1; 0x32; 0x03; 0x20;
   0x68; 0x04; 0x90; 0x45; 0x24; 0x52; 0x10; 0x31; 0x20; 0x8c; 0x08; 0xc0;
   0x30; 0x58; 0x05; 0x18; 0x58; 0x04; 0x27; 0x41; 0x35; 0x57; 0x7e; 0x6a].

Definition kMaskRandom47_25 : list Z :=
  [0x64; 0x4a; 0x28; 0x20; 0xc2; 0x0c; 0x51; 0x58; 0xa2; 0x04; 0x60; 0x46;
   0x0c; 0xa4; 0x30; 0x80; 0xa8; 0x0a; 0xa1; 0x22; 0x46; 0x43; 0x04; 0x30;
   0x12; 0xa1; 0x1d; 0x02; 0x30; 0x22; 0x8a; 0x45; 0xc0; 0x29; 0x02; 0x90;
   0x86; 0x8a; 0x6d; 0x30; 0x13; 0x00; 0x23; 0x2c; 0x84; 0x11; 0x21; 0x12;
   0x16; 0x21; 0x98; 0xc4; 0x0c; 0x40; 0x4c; 0x30; 0x54; 0x48; 0x44; 0x84;
   0x41; 0xc1; 0x27; 0x14; 0x11; 0x40; 0x19; 0x56; 0xe5; 0x08; 0x90; 0x88;
   0x64; 0x4a; 0x28; 0xa2; 0x8a; 0x28; 0x51; 0x58; 0xa3; 0x8a; 0x38; 0xa2;
   0x0c; 0xa4; 0x30; 0x43; 0x04; 0x30; 0xa1; 0x22; 0x46; 0x24; 0x62; 0x46;
   0x12; 0xa1; 0x1c; 0x11; 0xc1; 0x1c; 0x8a; 0x45; 0xc0; 0x5c; 0x05; 0xc0;
   0x46; 0x4a; 0x6c; 0xa6; 0xca; 0x6c; 0x33; 0x24; 0x26; 0x42; 0x64; 0x26;
   0x91; 0x92; 0x13; 0x21; 0x32; 0x12; 0xa4; 0x20; 0x4a; 0x04; 0xa0; 0x4a;
   0x50; 0xa0; 0xd4; 0x0d; 0x40; 0xd4; 0x84; 0xc5; 0x80; 0x58; 0x05; 0x80;
   0x09; 0x71; 0x0d; 0x10; 0xd1; 0x0c].

Definition kMaskRandom47_26 : list Z :=
  [0x64; 0x4a; 0x28; 0xa2; 0x8a; 0x28; 0x51; 0x58; 0xa3; 0x8a; 0x38; 0xa2;
   0x0c; 0xa4; 0x30; 0x43; 0x04; 0x30; 0xa1; 0x22; 0x46; 0x24; 0x62; 0x46;
   0x12; 0xa1; 0x1c; 0x11; 0xc1; 0x1c; 0x8a; 0x45; 0xc0; 0x5c; 0x05; 0xc0;
   0x46; 0x4a; 0x6c; 0xa6; 0xca; 0x6c; 0x33; 0x24; 0x26; 0x42; 0x64; 0x26;
   0x91; 0x92; 0x13; 0x21; 0x32; 0x12; 0xa4; 0x20; 0x4a; 0x04; 0xa0; 0x4a;
   0x50; 0xa0; 0xd4; 0x0d; 0x40; 0xd4; 0x84; 0xc5; 0x80; 0x58; 0x05; 0x80;
   0x09; 0x71; 0x0d; 0x10; 0xd1; 0x0c; 0x64; 0x4a; 0x28; 0x20; 0xc2; 0x0c;
   0x51; 0x58; 0xa2; 0x04; 0x60; 0x46; 0x0c; 0xa4; 0x30; 0x80; 0xa8; 0x0a;
   0xa1; 0x22; 0x46; 0x43; 0x04; 0x30; 0x12; 0xa1; 0x1d; 0x02; 0x30; 0x22;
   0x8a; 0x45; 0xc0; 0x29; 0x02; 0x90; 0x86; 0x8a; 0x6d; 0x30; 0x13; 0x00;
   0x23; 0x2c; 0x84; 0x11; 0x21; 0x12; 0x16; 0x21; 0x98; 0xc4; 0x0c; 0x40;
   0x4c; 0x30; 0x54; 0x48; 0x44; 0x84; 0x41; 0xc1; 0x27; 0x14; 0x11; 0x40;
   0x19; 0x56; 0xe5; 0x08; 0x90; 0x88; 0x6c; 0xea; 0xc4; 0x42; 0x20; 0x9e].

Definition kMaskRandom47_27 : list Z :=
  [0x64; 0x4a; 0x28; 0xa2; 0x8a; 0x28; 0x51; 0x58; 0xa3; 0x8a; 0x38; 0xa2;
   0x0c; 0xa4; 0x30; 0x43; 0x04; 0x30; 0xa1; 0x22; 0x46; 0x24; 0x62; 0x46;
   0x12; 0xa1; 0x1c; 0x11; 0xc1; 0x1c; 0x8a; 0x45; 0xc0; 0x5c; 0x05; 0xc0;
   0x46; 0x4a; 0x6c; 0xa6; 0xca; 0x6c; 0x33; 0x24; 0x26; 0x42; 0x64; 0x26;
   0x91; 0x92; 0x13; 0x21; 0x32; 0x12; 0xa4; 0x20; 0x4a; 0x04; 0xa0; 0x4a;
   0x50; 0xa0; 0xd4; 0x0d; 0x40; 0xd4; 0x84; 0xc5; 0x80; 0x58; 0x05; 0x80;
   0x09; 0x71; 0x0d; 0x10; 0xd1; 0x0c; 0x46; 0x4a; 0x6c; 0xa6; 0xca; 0x6c;
   0x33; 0x24; 0x26; 0x42; 0x64; 0x26; 0x91; 0x92; 0x13; 0x21; 0x32; 0x12;
   0xa4; 0x20; 0x4a; 0x04; 0xa0; 0x4a; 0x50; 0xa0; 0xd4; 0x0d; 0x40; 0xd4;
   0x84; 0xc5; 0x80; 0x58; 0x05; 0x80; 0x09; 0x71; 0x0d; 0x10; 0xd1; 0x0c;
   0x64; 0x4a; 0x28; 0xa2; 0x8a; 0x28; 0x51; 0x58; 0xa3; 0x8a; 0x38; 0xa2;
   0x0c; 0xa4; 0x30; 0x43; 0x04; 0x30; 0xa1; 0x22; 0x46; 0x24; 0x62; 0x46;
   0x12; 0xa1; 0x1c; 0x11; 0xc1; 0x1c; 0x8a; 0x45; 0xc0; 0x5c; 0x05; 0xc0;
   0x9c; 0x3f; 0xb3; 0xe5; 0xad; 0x1c].

Definition kMaskRandom47_28 : list Z :=
  [0x46; 0x4a; 0x6c; 0xa6; 0xca; 0x6c; 0x33; 0x24; 0x26; 0x42; 0x64; 0x26;
   0x91; 0x92; 0x13; 0x21; 0x32; 0x12; 0xa4; 0x20; 0x4a; 0x04; 0xa0; 0x4a;
   0x50; 0xa0; 0xd4; 0x0d; 0x40; 0xd4; 0x84; 0xc5; 0x80; 0x58; 0x05; 0x80;
   0x09; 0x71; 0x0d; 0x10; 0xd1; 0x0c; 0x64; 0x4a; 0x28; 0xa2; 0x8a; 0x28;
   0x51; 0x58; 0xa3; 0x8a; 0x38; 0xa2; 0x0c; 0xa4; 0x30; 0x43; 0x04; 0x30;
   0xa1; 0x22; 0x46; 0x24; 0x62; 0x46; 0x12; 0xa1; 0x1c; 0x11; 0xc1; 0x1c;
   0x8a; 0x45; 0xc0; 0x5c; 0x05; 0xc0; 0x9c; 0x3f; 0xb3; 0xe5; 0xad; 0x1c;
   0x64; 0x4a; 0x28; 0xa2; 0x8a; 0x28; 0x51; 0x58; 0xa3; 0x8a; 0x38; 0xa2;
   0x0c; 0xa4; 0x30; 0x43; 0x04; 0x30; 0xa1; 0x22; 0x46; 0x24; 0x62; 0x46;
   0x12; 0xa1; 0x1c; 0x11; 0xc1; 0x1c; 0x8a; 0x45; 0xc0; 0x5c; 0x05; 0xc0;
   0x46; 0x4a; 0x6c; 0xa6; 0xca; 0x6c; 0x33; 0x24; 0x26; 0x42; 0x64; 0x26;
   0x91; 0x92; 0x13; 0x21; 0x32; 0x12; 0xa4; 0x20; 0x4a; 0x04; 0xa0; 0x4a;
   0x50; 0xa0; 0xd4; 0x0d; 0x40; 0xd4; 0x84; 0xc5; 0x80; 0x58; 0x05; 0x80;
   0x09; 0x71; 0x0d; 0x10; 0xd1; 0x0c; 0x86; 0x1e; 0xa6; 0xaf; 0x3d; 0x04].

Definition kMaskRandom47_29 : list Z :=
  [0x46; 0x4a; 0x6c; 0xa6; 0xca; 0x6c; 0x33; 0x24; 0x26; 0x42; 0x64; 0x26;
   0x91; 0x92; 0x13; 0x21; 0x32; 0x12; 0xa4; 0x20; 0x4a; 0x04; 0xa0; 0x4a;
   0x50; 0xa0; 0xd4; 0x0d; 0x40; 0xd4; 0x84; 0xc5; 0x80; 0x58; 0x05; 0x80;
   0x09; 0x71; 0x0d; 0x10; 0xd1; 0x0c; 0x64; 0x4a; 0x28; 0xa2; 0x8a; 0x28;
   0x51; 0x58; 0xa3; 0x8a; 0x38; 0xa2; 0x0c; 0xa4; 0x30; 0x43; 0x04; 0x30;
   0xa1; 0x22; 0x46; 0x24; 0x62; 0x46; 0x12; 0xa1; 0x1c; 0x11; 0xc1; 0x1c;
   0x8a; 0x45; 0xc0; 0x5c; 0x05; 0xc0; 0x9c; 0x3f; 0xb3; 0xe5; 0xad; 0x1c;
   0x46; 0x4a; 0x6c; 0xa6; 0xca; 0x6c; 0x33; 0x24; 0x26; 0x42; 0x64; 0x26;
   0x91; 0x92; 0x13; 0x21; 0x32; 0x12; 0xa4; 0x20; 0x4a; 0x04; 0xa0; 0x4a;
   0x50; 0xa0; 0xd4; 0x0d; 0x40; 0xd4; 0x84; 0xc5; 0x80; 0x58; 0x05; 0x80;
   0x09; 0x71; 0x0d; 0x10; 0xd1; 0x0c; 0x0c; 0x84; 0x0c; 0x40; 0xc4; 0x0c;
   0x80; 0x70; 0x07; 0x00; 0x70; 0x06; 0xa0; 0x88; 0x48; 0x84; 0x88; 0x48;
   0x05; 0x40; 0x32; 0x03; 0x20; 0x32; 0x43; 0x02; 0x82; 0x28; 0x22; 0x82;
   0x1a; 0x01; 0x50; 0x15; 0x01; 0x50; 0x60; 0x27; 0x00; 0x70; 0x07; 0x00;
   0x14; 0x38; 0xa1; 0x8a; 0x18; 0xa0].

Definition kMaskRandom47_30 : list Z :=
  [0x46; 0x4a; 0x6c; 0xa6; 0xca; 0x6c; 0x33; 0x24; 0x26; 0x42; 0x64; 0x26;
   0x91; 0x92; 0x13; 0x21; 0x32; 0x12; 0xa4; 0x20; 0x4a; 0x04; 0xa0; 0x4a;
   0x50; 0xa0; 0xd4; 0x0d; 0x40; 0xd4; 0x84; 0xc5; 0x80; 0x58; 0x05; 0x80;
   0x09; 0x71; 0x0d; 0x10; 0xd1; 0x0c; 0x0c; 0x84; 0x0c; 0x40; 0xc4; 0x0c;
   0x80; 0x70; 0x07; 0x00; 0x70; 0x06; 0xa0; 0x88; 0x48; 0x84; 0x88; 0x48;
   0x05; 0x40; 0x32; 0x03; 0x20; 0x32; 0x43; 0x02; 0x82; 0x28; 0x22; 0x82;
   0x1a; 0x01; 0x50; 0x15; 0x01; 0x50; 0x60; 0x27; 0x00; 0x70; 0x07; 0x00;
   0x14; 0x38; 0xa1; 0x8a; 0x18; 0xa0; 0x46; 0x4a; 0x6c; 0xa6; 0xca; 0x6c;
   0x33; 0x24; 0x26; 0x42; 0x64; 0x26; 0x91; 0x92; 0x13; 0x21; 0x32; 0x12;
   0xa4; 0x20; 0x4a; 0x04; 0xa0; 0x4a; 0x50; 0xa0; 0xd4; 0x0d; 0x40; 0xd4;
   0x84; 0xc5; 0x80; 0x58; 0x05; 0x80; 0x09; 0x71; 0x0d; 0x10; 0xd1; 0x0c;
   0x64; 0x4a; 0x28; 0xa2; 0x8a; 0x28; 0x51; 0x58; 0xa3; 0x8a; 0x38; 0xa2;
   0x0c; 0xa4; 0x30; 0x43; 0x04; 0x30; 0xa1; 0x22; 0x46; 0x24; 0x62; 0x46;
   0x12; 0xa1; 0x1c; 0x11; 0xc1; 0x1c; 0x8a; 0x45; 0xc0; 0x5c; 0x05; 0xc0;
   0x9c; 0x3f; 0xb3; 0xe5; 0xad; 0x1c; 0x97; 0x43; 0x63; 0xc6; 0x09; 0x9c].

Definition kMaskRandom47_31 : list Z :=
  [0x46; 0x4a; 0x6c; 0xa6; 0xca; 0x6c; 0x33; 0x24; 0x26; 0x42; 0x64; 0x26;
   0x91; 0x92; 0x13; 0x21; 0x32; 0x12; 0xa4; 0x20; 0x4a; 0x04; 0xa0; 0x4a;
   0x50; 0xa0; 0xd4; 0x0d; 0x40; 0xd4; 0x84; 0xc5; 0x80; 0x58; 0x05; 0x80;
   0x09; 0x71; 0x0d; 0x10; 0xd1; 0x0c; 0x0c; 0x84; 0x0c; 0x40; 0xc4; 0x0c;
   0x80; 0x70; 0x07; 0x00; 0x70; 0x06; 0xa0; 0x88; 0x48; 0x84; 0x88; 0x48;
   0x05; 0x40; 0x32; 0x03; 0x20; 0x32; 0x43; 0x02; 0x82; 0x28; 0x22; 0x82;
   0x1a; 0x01; 0x50; 0x15; 0x01; 0x50; 0x60; 0x27; 0x00; 0x70; 0x07; 0x00;
   0x14; 0x38; 0xa1; 0x8a; 0x18; 0xa0; 0x0c; 0x84; 0x0c; 0x40; 0xc4; 0x0c;
   0x80; 0x70; 0x07; 0x00; 0x70; 0x06; 0xa0; 0x88; 0x48; 0x84; 0x88; 0x48;
   0x05; 0x40; 0x32; 0x03; 0x20; 0x32; 0x43; 0x02; 0x82; 0x28; 0x22; 0x82;
   0x1a; 0x01; 0x50; 0x15; 0x01; 0x50; 0x60; 0x27; 0x00; 0x70; 0x07; 0x00;
   0x14; 0x38; 0xa1; 0x8a; 0x18; 0xa0; 0x46; 0x4a; 0x6c; 0xa6; 0xca; 0x6c;
   0x33; 0x24; 0x26; 0x42; 0x64; 0x26; 0x91; 0x92; 0x13; 0x21; 0x32; 0x12;
   0xa4; 0x20; 0x4a; 0x04; 0xa0; 0x4a; 0x50; 0xa0; 0xd4; 0x0d; 0x40; 0xd4;
   0x84; 0xc5; 0x80; 0x58; 0x05; 0x80; 0x09; 0x71; 0x0d; 0x10; 0xd1; 0x0c;
   0xfa; 0xd9; 0xf5; 0xfe; 0xdc; 0x14].

Definition kMaskRandom47_32 : list Z :=
  [0x0c; 0x84; 0x0c; 0x40; 0xc4; 0x0c; 0x80; 0x70; 0x07; 0x00; 0x70; 0x06;
   0xa0; 0x88; 0x48; 0x84; 0x88; 0x48; 0x05; 0x40; 0x32; 0x03; 0x20; 0x32;
   0x43; 0x02; 0x82; 0x28; 0x22; 0x82; 0x1a; 0x01; 0x50; 0x15; 0x01; 0x50;
   0x60; 0x27; 0x00; 0x70; 0x07; 0x00; 0x14; 0x38; 0xa1; 0x8a; 0x18; 0xa0;
   0x46; 0x4a; 0x6c; 0xa6; 0xca; 0x6c; 0x33; 0x24; 0x26; 0x42; 0x64; 0x26;
   0x91; 0x92; 0x13; 0x21; 0x32; 0x12; 0xa4; 0x20; 0x4a; 0x04; 0xa0; 0x4a;
   0x50; 0xa0; 0xd4; 0x0d; 0x40; 0xd4; 0x84; 0xc5; 0x80; 0x58; 0x05; 0x80;
   0x09; 0x71; 0x0d; 0x10; 0xd1; 0x0c; 0xfa; 0xd9; 0xf5; 0xfe; 0xdc; 0x14;
   0x46; 0x4a; 0x6c; 0xa6; 0xca; 0x6c; 0x33; 0x24; 0x26; 0x42; 0x64; 0x26;
   0x91; 0x92; 0x13; 0x21; 0x32; 0x12; 0xa4; 0x20; 0x4a; 0x04; 0xa0; 0x4a;
   0x50; 0xa0; 0xd4; 0x0d; 0x40; 0xd4; 0x84; 0xc5; 0x80; 0x58; 0x05; 0x80;
   0x09; 0x71; 0x0d; 0x10; 0xd1; 0x0c; 0x0c; 0x84; 0x0c; 0x40; 0xc4; 0x0c;
   0x80; 0x70; 0x07; 0x00; 0x70; 0x06; 0xa0; 0x88; 0x48; 0x84; 0x88; 0x48;
   0x05; 0x40; 0x32; 0x03; 0x20; 0x32; 0x43; 0x02; 0x82; 0x28; 0x22; 0x82;
   0x1a; 0x01; 0x50; 0x15; 0x01; 0x50; 0x60; 0x27; 0x00; 0x70; 0x07; 0x00;
   0x14; 0x38; 0xa1; 0x8a; 0x18; 0xa0; 0xe5; 0x50; 0x45; 0x63; 0xc2; 0xf4].

Definition kMaskRandom47_33 : list Z :=
  [0x0c; 0x84; 0x0c; 0x40; 0xc4; 0x0c; 0x80; 0x70; 0x07; 0x00; 0x70; 0x06;
   0xa0; 0x88; 0x48; 0x84; 0x88; 0x48; 0x05; 0x40; 0x32; 0x03; 0x20; 0x32;
   0x43; 0x02; 0x82; 0x28; 0x22; 0x82; 0x1a; 0x01; 0x50; 0x15; 0x01; 0x50;
   0x60; 0x27; 0x00; 0x70; 0x07; 0x00; 0x14; 0x38; 0xa1; 0x8a; 0x18; 0xa0;
   0x46; 0x4a; 0x6c; 0xa6; 0xca; 0x6c; 0x33; 0x24; 0x26; 0x42; 0x64; 0x26;
   0x91; 0x92; 0x13; 0x21; 0x32; 0x12; 0xa4; 0x20; 0x4a; 0x04; 0xa0; 0x4a;
   0x50; 0xa0; 0xd4; 0x0d; 0x40; 0xd4; 0x84; 0xc5; 0x80; 0x58; 0x05; 0x80;
   0x09; 0x71; 0x0d; 0x10; 0xd1; 0x0c; 0xfa; 0xd9; 0xf5; 0xfe; 0xdc; 0x14;
   0x0c; 0x84; 0x0c; 0x40; 0xc4; 0x0c; 0x80; 0x70; 0x07; 0x00; 0x70; 0x06;
   0xa0; 0x88; 0x48; 0x84; 0x88; 0x48; 0x05; 0x40; 0x32; 0x03; 0x20; 0x32;
   0x43; 0x02; 0x82; 0x28; 0x22; 0x82; 0x1a; 0x01; 0x50; 0x15; 0x01; 0x50;
   0x60; 0x27; 0x00; 0x70; 0x07; 0x00; 0x14; 0x38; 0xa1; 0x8a; 0x18; 0xa0;
   0x46; 0x4a; 0x6c; 0xa6; 0xca; 0x6c; 0x62; 0x7c; 0x85; 0xc8; 0x5c; 0x84;
   0x8c; 0x04; 0x88; 0x48; 0x84; 0x88; 0x01; 0x74; 0x23; 0x42; 0x34; 0x22;
   0x07; 0x83; 0x06; 0x30; 0x63; 0x06; 0xa0; 0x80; 0x72; 0x07; 0x20; 0x72;
   0x18; 0xb1; 0x43; 0x14; 0x31; 0x42; 0x91; 0x00; 0x92; 0x09; 0x20; 0x92;
   0x78; 0x00; 0x1c; 0x01; 0xc0; 0x1c].

Definition kMaskRandom47_34 : list Z :=
  [0x0c; 0x84; 0x0c; 0x40; 0xc4; 0x0c; 0x80; 0x70; 0x07; 0x00; 0x70; 0x06;
   0xa0; 0x88; 0x48; 0x84; 0x88; 0x48; 0x05; 0x40; 0x32; 0x03; 0x20; 0x32;
   0x43; 0x02; 0x82; 0x28; 0x22; 0x82; 0x1a; 0x01; 0x50; 0x15; 0x01; 0x50;
   0x60; 0x27; 0x00; 0x70; 0x07; 0x00; 0x14; 0x38; 0xa1; 0x8a; 0x18; 0xa0;
   0x46; 0x4a; 0x6c; 0xa6; 0xca; 0x6c; 0x62; 0x7c; 0x85; 0xc8; 0x5c; 0x84;
   0x8c; 0x04; 0x88; 0x48; 0x84; 0x88; 0x01; 0x74; 0x23; 0x42; 0x34; 0x22;
   0x07; 0x83; 0x06; 0x30; 0x63; 0x06; 0xa0; 0x80; 0x72; 0x07; 0x20; 0x72;
   0x18; 0xb1; 0x43; 0x14; 0x31; 0x42; 0x91; 0x00; 0x92; 0x09; 0x20; 0x92;
   0x78; 0x00; 0x1c; 0x01; 0xc0; 0x1c; 0x0c; 0x84; 0x0c; 0x40; 0xc4; 0x0c;
   0x80; 0x70; 0x07; 0x00; 0x70; 0x06; 0xa0; 0x88; 0x48; 0x84; 0x88; 0x48;
   0x05; 0x40; 0x32; 0x03; 0x20; 0x32; 0x43; 0x02; 0x82; 0x28; 0x22; 0x82;
   0x1a; 0x01; 0x50; 0x15; 0x01; 0x50; 0x60; 0x27; 0x00; 0x70; 0x07; 0x00;
   0x14; 0x38; 0xa1; 0x8a; 0x18; 0xa0; 0x46; 0x4a; 0x6c; 0xa6; 0xca; 0x6c;
   0x33; 0x24; 0x26; 0x42; 0x64; 0x26; 0x91; 0x92; 0x13; 0x21; 0x32; 0x12;
   0xa4; 0x20; 0x4a; 0x04; 0xa0; 0x4a; 0x50; 0xa0; 0xd4; 0x0d; 0x40; 0xd4;
   0x84; 0xc5; 0x80; 0x58; 0x05; 0x80; 0x09; 0x71; 0x0d; 0x10; 0xd1; 0x0c;
   0xfa; 0xd9; 0xf5; 0xfe; 0xdc; 0x14; 0xef; 0xbb; 0xa6; 0x23; 0x5c; 0xbe].

Definition kMaskRandom47_35 : list Z :=
  [0x0c; 0x84; 0x0c; 0x40; 0xc4; 0x0c; 0x80; 0x70; 0x07; 0x00; 0x70; 0x06;
   0xa0; 0x88; 0x48; 0x84; 0x88; 0x48; 0x05; 0x40; 0x32; 0x03; 0x20; 0x32;
   0x43; 0x02; 0x82; 0x28; 0x22; 0x82; 0x1a; 0x01; 0x50; 0x15; 0x01; 0x50;
   0x60; 0x27; 0x00; 0x70; 0x07; 0x00; 0x14; 0x38; 0xa1; 0x8a; 0x18; 0xa0;
   0x46; 0x4a; 0x6c; 0xa6; 0xca; 0x6c; 0x62; 0x7c; 0x85; 0xc8; 0x5c; 0x84;
   0x8c; 0x04; 0x88; 0x48; 0x84; 0x88; 0x01; 0x74; 0x23; 0x42; 0x34; 0x22;
   0x07; 0x83; 0x06; 0x30; 0x63; 0x06; 0xa0; 0x80; 0x72; 0x07; 0x20; 0x72;
   0x18; 0xb1; 0x43; 0x14; 0x31; 0x42; 0x91; 0x00; 0x92; 0x09; 0x20; 0x92;
   0x78; 0x00; 0x1c; 0x01; 0xc0; 0x1c; 0x46; 0x4a; 0x6c; 0xa6; 0xca; 0x6c;
   0x62; 0x7c; 0x85; 0xc8; 0x5c; 0x84; 0x8c; 0x04; 0x88; 0x48; 0x84; 0x88;
   0x01; 0x74; 0x23; 0x42; 0x34; 0x22; 0x07; 0x83; 0x06; 0x30; 0x63; 0x06;
   0xa0; 0x80; 0x72; 0x07; 0x20; 0x72; 0x18; 0xb1; 0x43; 0x14; 0x31; 0x42;
   0x91; 0x00; 0x92; 0x09; 0x20; 0x92; 0x78; 0x00; 0x1c; 0x01; 0xc0; 0x1c;
   0x0c; 0x84; 0x0c; 0x40; 0xc4; 0x0c; 0x80; 0x70; 0x07; 0x00; 0x70; 0x06;
   0xa0; 0x88; 0x48; 0x84; 0x88; 0x48; 0x05; 0x40; 0x32; 0x03; 0x20; 0x32;
   0x43; 0x02; 0x82; 0x28; 0x22; 0x82; 0x1a; 0x01; 0x50; 0x15; 0x01; 0x50;
   0x60; 0x27; 0x00; 0x70; 0x07; 0x00; 0x14; 0x38; 0xa1; 0x8a; 0x18; 0xa0;
   0x82; 0x32; 0x56; 0x68; 0xa1; 0x5c].

Definition kMaskRandom47_36 : list Z :=
  [0x46; 0x4a; 0x6c; 0xa6; 0xca; 0x6c; 0x62; 0x7c; 0x85; 0xc8; 0x5c; 0x84;
   0x8c; 0x04; 0x88; 0x48; 0x84; 0x88; 0x01; 0x74; 0x23; 0x42; 0x34; 0x22;
   0x07; 0x83; 0x06; 0x30; 0x63; 0x06; 0xa0; 0x80; 0x72; 0x07; 0x20; 0x72;
   0x18; 0xb1; 0x43; 0x14; 0x31; 0x42; 0x91; 0x00; 0x92; 0x09; 0x20; 0x92;
   0x78; 0x00; 0x1c; 0x01; 0xc0; 0x1c; 0x0c; 0x84; 0x0c; 0x40; 0xc4; 0x0c;
   0x80; 0x70; 0x07; 0x00; 0x70; 0x06; 0xa0; 0x88; 0x48; 0x84; 0x88; 0x48;
   0x05; 0x40; 0x32; 0x03; 0x20; 0x32; 0x43; 0x02; 0x82; 0x28; 0x22; 0x82;
   0x1a; 0x01; 0x50; 0x15; 0x01; 0x50; 0x60; 0x27; 0x00; 0x70; 0x07; 0x00;
   0x14; 0x38; 0xa1; 0x8a; 0x18; 0xa0; 0x82; 0x32; 0x56; 0x68; 0xa1; 0x5c;
   0x0c; 0x84; 0x0c; 0x40; 0xc4; 0x0c; 0x80; 0x70; 0x07; 0x00; 0x70; 0x06;
   0xa0; 0x88; 0x48; 0x84; 0x88; 0x48; 0x05; 0x40; 0x32; 0x03; 0x20; 0x32;
   0x43; 0x02; 0x82; 0x28; 0x22; 0x82; 0x1a; 0x01; 0x50; 0x15; 0x01; 0x50;
   0x60; 0x27; 0x00; 0x70; 0x07; 0x00; 0x14; 0x38; 0xa1; 0x8a; 0x18; 0xa0;
   0x46; 0x4a; 0x6c; 0xa6; 0xca; 0x6c; 0x62; 0x7c; 0x85; 0xc8; 0x5c; 0x84;
   0x8c; 0x04; 0x88; 0x48; 0x84; 0x88; 0x01; 0x74; 0x23; 0x42; 0x34; 0x22;
   0x07; 0x83; 0x06; 0x30; 0x63; 0x06; 0xa0; 0x80; 0x72; 0x07; 0x20; 0x72;
   0x18; 0xb1; 0x43; 0x14; 0x31; 0x42; 0x91; 0x00; 0x92; 0x09; 0x20; 0x92;
   0x78; 0x00; 0x1c; 0x01; 0xc0; 0x1c; 0x0e; 0xd7; 0x38; 0x20; 0x87; 0x66].

Definition kMaskRandom47_37 : list Z :=
  [0x46; 0x4a; 0x6c; 0xa6; 0xca; 0x6c; 0x62; 0x7c; 0x85; 0xc8; 0x5c; 0x84;
   0x8c; 0x04; 0x88; 0x48; 0x84; 0x88; 0x01; 0x74; 0x23; 0x42; 0x34; 0x22;
   0x07; 0x83; 0x06; 0x30; 0x63; 0x06; 0xa0; 0x80; 0x72; 0x07; 0x20; 0x72;
   0x18; 0xb1; 0x43; 0x14; 0x31; 0x42; 0x91; 0x00; 0x92; 0x09; 0x20; 0x92;
   0x78; 0x00; 0x1c; 0x01; 0xc0; 0x1c; 0x0c; 0x84; 0x0c; 0x40; 0xc4; 0x0c;
   0x80; 0x70; 0x07; 0x00; 0x70; 0x06; 0xa0; 0x88; 0x48; 0x84; 0x88; 0x48;
   0x05; 0x40; 0x32; 0x03; 0x20; 0x32; 0x43; 0x02; 0x82; 0x28; 0x22; 0x82;
   0x1a; 0x01; 0x50; 0x15; 0x01; 0x50; 0x60; 0x27; 0x00; 0x70; 0x07; 0x00;
   0x14; 0x38; 0xa1; 0x8a; 0x18; 0xa0; 0x82; 0x32; 0x56; 0x68; 0xa1; 0x5c;
   0x46; 0x4a; 0x6c; 0xa6; 0xca; 0x6c; 0x62; 0x7c; 0x85; 0xc8; 0x5c; 0x84;
   0x8c; 0x04; 0x88; 0x48; 0x84; 0x88; 0x01; 0x74; 0x23; 0x42; 0x34; 0x22;
   0x07; 0x83; 0x06; 0x30; 0x63; 0x06; 0xa0; 0x80; 0x72; 0x07; 0x20; 0x72;
   0x18; 0xb1; 0x43; 0x14; 0x31; 0x42; 0x91; 0x00; 0x92; 0x09; 0x20; 0x92;
   0x78; 0x00; 0x1c; 0x01; 0xc0; 0x1c; 0x64; 0x4a; 0x28; 0xa2; 0x8a; 0x28;
   0x51; 0x48; 0xa2; 0x8a; 0x28; 0xa2; 0xa9; 0x10; 0x1b; 0x01; 0xb0; 0x1a;
   0x04; 0xc4; 0x84; 0x48; 0x44; 0x84; 0xd0; 0x01; 0x44; 0x14; 0x41; 0x44;
   0x82; 0x40; 0x1c; 0x01; 0xc0; 0x1c; 0x21; 0x37; 0x01; 0x70; 0x17; 0x00;
   0x0c; 0x21; 0x22; 0x12; 0x21; 0x22; 0x4a; 0x0a; 0xc0; 0xac; 0x0a; 0xc0;
   0x12; 0xb4; 0x51; 0x45; 0x14; 0x50].

Definition kMaskRandom47_38 : list Z :=
  [0x46; 0x4a; 0x6c; 0xa6; 0xca; 0x6c; 0x62; 0x7c; 0x85; 0xc8; 0x5c; 0x84;
   0x8c; 0x04; 0x88; 0x48; 0x84; 0x88; 0x01; 0x74; 0x23; 0x42; 0x34; 0x22;
   0x07; 0x83; 0x06; 0x30; 0x63; 0x06; 0xa0; 0x80; 0x72; 0x07; 0x20; 0x72;
   0x18; 0xb1; 0x43; 0x14; 0x31; 0x42; 0x91; 0x00; 0x92; 0x09; 0x20; 0x92;
   0x78; 0x00; 0x1c; 0x01; 0xc0; 0x1c; 0x64; 0x4a; 0x28; 0xa2; 0x8a; 0x28;
   0x51; 0x48; 0xa2; 0x8a; 0x28; 0xa2; 0xa9; 0x10; 0x1b; 0x01; 0xb0; 0x1a;
   0x04; 0xc4; 0x84; 0x48; 0x44; 0x84; 0xd0; 0x01; 0x44; 0x14; 0x41; 0x44;
   0x82; 0x40; 0x1c; 0x01; 0xc0; 0x1c; 0x21; 0x37; 0x01; 0x70; 0x17; 0x00;
   0x0c; 0x21; 0x22; 0x12; 0x21; 0x22; 0x4a; 0x0a; 0xc0; 0xac; 0x0a; 0xc0;
   0x12; 0xb4; 0x51; 0x45; 0x14; 0x50; 0x46; 0x4a; 0x6c; 0xa6; 0xca; 0x6c;
   0x62; 0x7c; 0x85; 0xc8; 0x5c; 0x84; 0x8c; 0x04; 0x88; 0x48; 0x84; 0x88;
   0x01; 0x74; 0x23; 0x42; 0x34; 0x22; 0x07; 0x83; 0x06; 0x30; 0x63; 0x06;
   0xa0; 0x80; 0x72; 0x07; 0x20; 0x72; 0x18; 0xb1; 0x43; 0x14; 0x31; 0x42;
   0x91; 0x00; 0x92; 0x09; 0x20; 0x92; 0x78; 0x00; 0x1c; 0x01; 0xc0; 0x1c;
   0x0c; 0x84; 0x0c; 0x40; 0xc4; 0x0c; 0x80; 0x70; 0x07; 0x00; 0x70; 0x06;
   0xa0; 0x88; 0x48; 0x84; 0x88; 0x48; 0x05; 0x40; 0x32; 0x03; 0x20; 0x32;
   0x43; 0x02; 0x82; 0x28; 0x22; 0x82; 0x1a; 0x01; 0x50; 0x15; 0x01; 0x50;
   0x60; 0x27; 0x00; 0x70; 0x07; 0x00; 0x14; 0x38; 0xa1; 0x8a; 0x18; 0xa0;
   0x82; 0x32; 0x56; 0x68; 0xa1; 0x5c; 0x7b; 0x47; 0xa5; 0xde; 0x9a; 0xd4].

Definition kMaskRandom47_39 : list Z :=
  [0x46; 0x4a; 0x6c; 0xa6; 0xca; 0x6c; 0x62; 0x7c; 0x85; 0xc8; 0x5c; 0x84;
   0x8c; 0x04; 0x88; 0x48; 0x84; 0x88; 0x01; 0x74; 0x23; 0x42; 0x34; 0x22;
   0x07; 0x83; 0x06; 0x30; 0x63; 0x06; 0xa0; 0x80; 0x72; 0x07; 0x20; 0x72;
   0x18; 0xb1; 0x43; 0x14; 0x31; 0x42; 0x91; 0x00; 0x92; 0x09; 0x20; 0x92;
   0x78; 0x00; 0x1c; 0x01; 0xc0; 0x1c; 0x64; 0x4a; 0x28; 0xa2; 0x8a; 0x28;
   0x51; 0x48; 0xa2; 0x8a; 0x28; 0xa2; 0xa9; 0x10; 0x1b; 0x01; 0xb0; 0x1a;
   0x04; 0xc4; 0x84; 0x48; 0x44; 0x84; 0xd0; 0x01; 0x44; 0x14; 0x41; 0x44;
   0x82; 0x40; 0x1c; 0x01; 0xc0; 0x1c; 0x21; 0x37; 0x01; 0x70; 0x17; 0x00;
   0x0c; 0x21; 0x22; 0x12; 0x21; 0x22; 0x4a; 0x0a; 0xc0; 0xac; 0x0a; 0xc0;
   0x12; 0xb4; 0x51; 0x45; 0x14; 0x50; 0x64; 0x4a; 0x28; 0xa2; 0x8a; 0x28;
   0x51; 0x48; 0xa2; 0x8a; 0x28; 0xa2; 0xa9; 0x10; 0x1b; 0x01; 0xb0; 0x1a;
   0x04; 0xc4; 0x84; 0x48; 0x44; 0x84; 0xd0; 0x01; 0x44; 0x14; 0x41; 0x44;
   0x82; 0x40; 0x1c; 0x01; 0xc0; 0x1c; 0x21; 0x37; 0x01; 0x70; 0x17; 0x00;
   0x0c; 0x21; 0x22; 0x12; 0x21; 0x22; 0x4a; 0x0a; 0xc0; 0xac; 0x0a; 0xc0;
   0x12; 0xb4; 0x51; 0x45; 0x14; 0x50; 0x46; 0x4a; 0x6c; 0xa6; 0xca; 0x6c;
   0x62; 0x7c; 0x85; 0xc8; 0x5c; 0x84; 0x8c; 0x04; 0x88; 0x48; 0x84; 0x88;
   0x01; 0x74; 0x23; 0x42; 0x34; 0x22; 0x07; 0x83; 0x06; 0x30; 0x63; 0x06;
   0xa0; 0x80; 0x72; 0x07; 0x20; 0x72; 0x18; 0xb1; 0x43; 0x14; 0x31; 0x42;
   0x91; 0x00; 0x92; 0x09; 0x20; 0x92; 0x78; 0x00; 0x1c; 0x01; 0xc0; 0x1c;
   0xdb; 0x4a; 0x7b; 0x31; 0x45; 0x2a].

Definition kMaskRandom47_40 : list Z :=
  [0x64; 0x4a; 0x28; 0xa2; 0x8a; 0x28; 0x51; 0x48; 0xa2; 0x8a; 0x28; 0xa2;
   0xa9; 0x10; 0x1b; 0x01; 0xb0; 0x1a; 0x04; 0xc4; 0x84; 0x48; 0x44; 0x84;
   0xd0; 0x01; 0x44; 0x14; 0x41; 0x44; 0x82; 0x40; 0x1c; 0x01; 0xc0; 0x1c;
   0x21; 0x37; 0x01; 0x70; 0x17; 0x00; 0x0c; 0x21; 0x22; 0x12; 0x21; 0x22;
   0x4a; 0x0a; 0xc0; 0xac; 0x0a; 0xc0; 0x12; 0xb4; 0x51; 0x45; 0x14; 0x50;
   0x46; 0x4a; 0x6c; 0xa6; 0xca; 0x6c; 0x62; 0x7c; 0x85; 0xc8; 0x5c; 0x84;
   0x8c; 0x04; 0x88; 0x48; 0x84; 0x88; 0x01; 0x74; 0x23; 0x42; 0x34; 0x22;
   0x07; 0x83; 0x06; 0x30; 0x63; 0x06; 0xa0; 0x80; 0x72; 0x07; 0x20; 0x72;
   0x18; 0xb1; 0x43; 0x14; 0x31; 0x42; 0x91; 0x00; 0x92; 0x09; 0x20; 0x92;
   0x78; 0x00; 0x1c; 0x01; 0xc0; 0x1c; 0xdb; 0x4a; 0x7b; 0x31; 0x45; 0x2a;
   0x46; 0x4a; 0x6c; 0xa6; 0xca; 0x6c; 0x62; 0x7c; 0x85; 0xc8; 0x5c; 0x84;
   0x8c; 0x04; 0x88; 0x48; 0x84; 0x88; 0x01; 0x74; 0x23; 0x42; 0x34; 0x22;
   0x07; 0x83; 0x06; 0x30; 0x63; 0x06; 0xa0; 0x80; 0x72; 0x07; 0x20; 0x72;
   0x18; 0xb1; 0x43; 0x14; 0x31; 0x42; 0x91; 0x00; 0x92; 0x09; 0x20; 0x92;
   0x78; 0x00; 0x1c; 0x01; 0xc0; 0x1c; 0x64; 0x4a; 0x28; 0xa2; 0x8a; 0x28;
   0x51; 0x48; 0xa2; 0x8a; 0x28; 0xa2; 0xa9; 0x10; 0x1b; 0x01; 0xb0; 0x1a;
   0x04; 0xc4; 0x84; 0x48; 0x44; 0x84; 0xd0; 0x01; 0x44; 0x14; 0x41; 0x44;
   0x82; 0x40; 0x1c; 0x01; 0xc0; 0x1c; 0x21; 0x37; 0x01; 0x70; 0x17; 0x00;
   0x0c; 0x21; 0x22; 0x12; 0x21; 0x22; 0x4a; 0x0a; 0xc0; 0xac; 0x0a; 0xc0;
   0x12; 0xb4; 0x51; 0x45; 0x14; 0x50; 0xc4; 0xae; 0x5e; 0x33; 0xf5; 0x1a].

Definition kMaskRandom47_41 : list Z :=
  [0x64; 0x4a; 0x28; 0xa2; 0x8a; 0x28; 0x51; 0x48; 0xa2; 0x8a; 0x28; 0xa2;
   0xa9; 0x10; 0x1b; 0x01; 0xb0; 0x1a; 0x04; 0xc4; 0x84; 0x48; 0x44; 0x84;
   0xd0; 0x01; 0x44; 0x14; 0x41; 0x44; 0x82; 0x40; 0x1c; 0x01; 0xc0; 0x1c;
   0x21; 0x37; 0x01; 0x70; 0x17; 0x00; 0x0c; 0x21; 0x22; 0x12; 0x21; 0x22;
   0x4a; 0x0a; 0xc0; 0xac; 0x0a; 0xc0; 0x12; 0xb4; 0x51; 0x45; 0x14; 0x50;
   0x46; 0x4a; 0x6c; 0xa6; 0xca; 0x6c; 0x62; 0x7c; 0x85; 0xc8; 0x5c; 0x84;
   0x8c; 0x04; 0x88; 0x48; 0x84; 0x88; 0x01; 0x74; 0x23; 0x42; 0x34; 0x22;
   0x07; 0x83; 0x06; 0x30; 0x63; 0x06; 0xa0; 0x80; 0x72; 0x07; 0x20; 0x72;
   0x18; 0xb1; 0x43; 0x14; 0x31; 0x42; 0x91; 0x00; 0x92; 0x09; 0x20; 0x92;
   0x78; 0x00; 0x1c; 0x01; 0xc0; 0x1c; 0xdb; 0x4a; 0x7b; 0x31; 0x45; 0x2a;
   0x64; 0x4a; 0x28; 0xa2; 0x8a; 0x28; 0x51; 0x48; 0xa2; 0x8a; 0x28; 0xa2;
   0xa9; 0x10; 0x1b; 0x01; 0xb0; 0x1a; 0x04; 0xc4; 0x84; 0x48; 0x44; 0x84;
   0xd0; 0x01; 0x44; 0x14; 0x41; 0x44; 0x82; 0x40; 0x1c; 0x01; 0xc0; 0x1c;
   0x21; 0x37; 0x01; 0x70; 0x17; 0x00; 0x0c; 0x21; 0x22; 0x12; 0x21; 0x22;
   0x4a; 0x0a; 0xc0; 0xac; 0x0a; 0xc0; 0x12; 0xb4; 0x51; 0x45; 0x14; 0x50;
   0x46; 0x4a; 0x6c; 0xa6; 0xca; 0x6c; 0x33; 0x24; 0x26; 0x42; 0x64; 0x26;
   0x99; 0x02; 0x12; 0x21; 0x22; 0x12; 0x05; 0x80; 0x0e; 0x00; 0xe0; 0x0e;
   0x80; 0xa1; 0x82; 0x18; 0x21; 0x82; 0x84; 0x48; 0x18; 0x81; 0x88; 0x18;
   0x40; 0x6d; 0x40; 0xd4; 0x0d; 0x40; 0x0a; 0x90; 0xc1; 0x0c; 0x10; 0xc0;
   0x68; 0x04; 0x90; 0x49; 0x04; 0x90; 0x10; 0x31; 0x21; 0x12; 0x11; 0x20;
   0x30; 0x58; 0x05; 0x80; 0x58; 0x04].

Definition kMaskRandom47_42 : list Z :=
  [0x64; 0x4a; 0x28; 0xa2; 0x8a; 0x28; 0x51; 0x48; 0xa2; 0x8a; 0x28; 0xa2;
   0xa9; 0x10; 0x1b; 0x01; 0xb0; 0x1a; 0x04; 0xc4; 0x84; 0x48; 0x44; 0x84;
   0xd0; 0x01; 0x44; 0x14; 0x41; 0x44; 0x82; 0x40; 0x1c; 0x01; 0xc0; 0x1c;
   0x21; 0x37; 0x01; 0x70; 0x17; 0x00; 0x0c; 0x21; 0x22; 0x12; 0x21; 0x22;
   0x4a; 0x0a; 0xc0; 0xac; 0x0a; 0xc0; 0x12; 0xb4; 0x51; 0x45; 0x14; 0x50;
   0x46; 0x4a; 0x6c; 0xa6; 0xca; 0x6c; 0x33; 0x24; 0x26; 0x42; 0x64; 0x26;
   0x99; 0x02; 0x12; 0x21; 0x22; 0x12; 0x05; 0x80; 0x0e; 0x00; 0xe0; 0x0e;
   0x80; 0xa1; 0x82; 0x18; 0x21; 0x82; 0x84; 0x48; 0x18; 0x81; 0x88; 0x18;
   0x40; 0x6d; 0x40; 0xd4; 0x0d; 0x40; 0x0a; 0x90; 0xc1; 0x0c; 0x10; 0xc0;
   0x68; 0x04; 0x90; 0x49; 0x04; 0x90; 0x10; 0x31; 0x21; 0x12; 0x11; 0x20;
   0x30; 0x58; 0x05; 0x80; 0x58; 0x04; 0x64; 0x4a; 0x28; 0xa2; 0x8a; 0x28;
   0x51; 0x48; 0xa2; 0x8a; 0x28; 0xa2; 0xa9; 0x10; 0x1b; 0x01; 0xb0; 0x1a;
   0x04; 0xc4; 0x84; 0x48; 0x44; 0x84; 0xd0; 0x01; 0x44; 0x14; 0x41; 0x44;
   0x82; 0x40; 0x1c; 0x01; 0xc0; 0x1c; 0x21; 0x37; 0x01; 0x70; 0x17; 0x00;
   0x0c; 0x21; 0x22; 0x12; 0x21; 0x22; 0x4a; 0x0a; 0xc0; 0xac; 0x0a; 0xc0;
   0x12; 0xb4; 0x51; 0x45; 0x14; 0x50; 0x46; 0x4a; 0x6c; 0xa6; 0xca; 0x6c;
   0x62; 0x7c; 0x85; 0xc8; 0x5c; 0x84; 0x8c; 0x04; 0x88; 0x48; 0x84; 0x88;
   0x01; 0x74; 0x23; 0x42; 0x34; 0x22; 0x07; 0x83; 0x06; 0x30; 0x63; 0x06;
   0xa0; 0x80; 0x72; 0x07; 0x20; 0x72; 0x18; 0xb1; 0x43; 0x14; 0x31; 0x42;
   0x91; 0x00; 0x92; 0x09; 0x20; 0x92; 0x78; 0x00; 0x1c; 0x01; 0xc0; 0x1c;
   0xdb; 0x4a; 0x7b; 0x31; 0x45; 0x2a; 0x3c; 0xb0; 0x36; 0x3b; 0x14; 0xa2].

Definition kMaskRandom47_43 : list Z :=
  [0x64; 0x4a; 0x28; 0xa2; 0x8a; 0x28; 0x51; 0x48; 0xa2; 0x8a; 0x28; 0xa2;
   0xa9; 0x10; 0x1b; 0x01; 0xb0; 0x1a; 0x04; 0xc4; 0x84; 0x48; 0x44; 0x84;
   0xd0; 0x01; 0x44; 0x14; 0x41; 0x44; 0x82; 0x40; 0x1c; 0x01; 0xc0; 0x1c;
   0x21; 0x37; 0x01; 0x70; 0x17; 0x00; 0x0c; 0x21; 0x22; 0x12; 0x21; 0x22;
   0x4a; 0x0a; 0xc0; 0xac; 0x0a; 0xc0; 0x12; 0xb4; 0x51; 0x45; 0x14; 0x50;
   0x46; 0x4a; 0x6c; 0xa6; 0xca; 0x6c; 0x33; 0x24; 0x26; 0x42; 0x64; 0x26;
   0x99; 0x02; 0x12; 0x21; 0x22; 0x12; 0x05; 0x80; 0x0e; 0x00; 0xe0; 0x0e;
   0x80; 0xa1; 0x82; 0x18; 0x21; 0x82; 0x84; 0x48; 0x18; 0x81; 0x88; 0x18;
   0x40; 0x6d; 0x40; 0xd4; 0x0d; 0x40; 0x0a; 0x90; 0xc1; 0x0c; 0x10; 0xc0;
   0x68; 0x04; 0x90; 0x49; 0x04; 0x90; 0x10; 0x31; 0x21; 0x12; 0x11; 0x20;
   0x30; 0x58; 0x05; 0x80; 0x58; 0x04; 0x46; 0x4a; 0x6c; 0xa6; 0xca; 0x6c;
   0x33; 0x24; 0x26; 0x42; 0x64; 0x26; 0x99; 0x02; 0x12; 0x21; 0x22; 0x12;
   0x05; 0x80; 0x0e; 0x00; 0xe0; 0x0e; 0x80; 0xa1; 0x82; 0x18; 0x21; 0x82;
   0x84; 0x48; 0x18; 0x81; 0x88; 0x18; 0x40; 0x6d; 0x40; 0xd4; 0x0d; 0x40;
   0x0a; 0x90; 0xc1; 0x0c; 0x10; 0xc0; 0x68; 0x04; 0x90; 0x49; 0x04; 0x90;
   0x10; 0x31; 0x21; 0x12; 0x11; 0x20; 0x30; 0x58; 0x05; 0x80; 0x58; 0x04;
   0x64; 0x4a; 0x28; 0xa2; 0x8a; 0x28; 0x51; 0x48; 0xa2; 0x8a; 0x28; 0xa2;
   0xa9; 0x10; 0x1b; 0x01; 0xb0; 0x1a; 0x04; 0xc4; 0x84; 0x48; 0x44; 0x84;
   0xd0; 0x01; 0x44; 0x14; 0x41; 0x44; 0x82; 0x40; 0x1c; 0x01; 0xc0; 0x1c;
   0x21; 0x37; 0x01; 0x70; 0x17; 0x00; 0x0c; 0x21; 0x22; 0x12; 0x21; 0x22;
   0x4a; 0x0a; 0xc0; 0xac; 0x0a; 0xc0; 0x12; 0xb4; 0x51; 0x45; 0x14; 0x50;
   0xea; 0x8d; 0x1a; 0x35; 0x55; 0xdc].

Definition kMaskRandom47_44 : list Z :=
  [0x46; 0x4a; 0x6c; 0xa6; 0xca; 0x6c; 0x33; 0x24; 0x26; 0x42; 0x64; 0x26;
   0x99; 0x02; 0x12; 0x21; 0x22; 0x12; 0x05; 0x80; 0x0e; 0x00; 0xe0; 0x0e;
   0x80; 0xa1; 0x82; 0x18; 0x21; 0x82; 0x84; 0x48; 0x18; 0x81; 0x88; 0x18;
   0x40; 0x6d; 0x40; 0xd4; 0x0d; 0x40; 0x0a; 0x90; 0xc1; 0x0c; 0x10; 0xc0;
   0x68; 0x04; 0x90; 0x49; 0x04; 0x90; 0x10; 0x31; 0x21; 0x12; 0x11; 0x20;
   0x30; 0x58; 0x05; 0x80; 0x58; 0x04; 0x64; 0x4a; 0x28; 0xa2; 0x8a; 0x28;
   0x51; 0x48; 0xa2; 0x8a; 0x28; 0xa2; 0xa9; 0x10; 0x1b; 0x01; 0xb0; 0x1a;
   0x04; 0xc4; 0x84; 0x48; 0x44; 0x84; 0xd0; 0x01; 0x44; 0x14; 0x41; 0x44;
   0x82; 0x40; 0x1c; 0x01; 0xc0; 0x1c; 0x21; 0x37; 0x01; 0x70; 0x17; 0x00;
   0x0c; 0x21; 0x22; 0x12; 0x21; 0x22; 0x4a; 0x0a; 0xc0; 0xac; 0x0a; 0xc0;
   0x12; 0xb4; 0x51; 0x45; 0x14; 0x50; 0xea; 0x8d; 0x1a; 0x35; 0x55; 0xdc;
   0x64; 0x4a; 0x28; 0xa2; 0x8a; 0x28; 0x51; 0x48; 0xa2; 0x8a; 0x28; 0xa2;
   0xa9; 0x10; 0x1b; 0x01; 0xb0; 0x1a; 0x04; 0xc4; 0x84; 0x48; 0x44; 0x84;
   0xd0; 0x01; 0x44; 0x14; 0x41; 0x44; 0x82; 0x40; 0x1c; 0x01; 0xc0; 0x1c;
   0x21; 0x37; 0x01; 0x70; 0x17; 0x00; 0x0c; 0x21; 0x22; 0x12; 0x21; 0x22;
   0x4a; 0x0a; 0xc0; 0xac; 0x0a; 0xc0; 0x12; 0xb4; 0x51; 0x45; 0x14; 0x50;
   0x46; 0x4a; 0x6c; 0xa6; 0xca; 0x6c; 0x33; 0x24; 0x26; 0x42; 0x64; 0x26;
   0x99; 0x02; 0x12; 0x21; 0x22; 0x12; 0x05; 0x80; 0x0e; 0x00; 0xe0; 0x0e;
   0x80; 0xa1; 0x82; 0x18; 0x21; 0x82; 0x84; 0x48; 0x18; 0x81; 0x88; 0x18;
   0x40; 0x6d; 0x40; 0xd4; 0x0d; 0x40; 0x0a; 0x90; 0xc1; 0x0c; 0x10; 0xc0;
   0x68; 0x04; 0x90; 0x49; 0x04; 0x90; 0x10; 0x31; 0x21; 0x12; 0x11; 0x20;
   0x30; 0x58; 0x05; 0x80; 0x58; 0x04; 0xd4; 0x8a; 0xd4; 0xd3; 0x3f; 0xe6].

Definition kMaskRandom47_45 : list Z :=
  [0x46; 0x4a; 0x6c; 0xa6; 0xca; 0x6c; 0x33; 0x24; 0x26; 0x42; 0x64; 0x26;
   0x99; 0x02; 0x12; 0x21; 0x22; 0x12; 0x05; 0x80; 0x0e; 0x00; 0xe0; 0x0e;
   0x80; 0xa1; 0x82; 0x18; 0x21; 0x82; 0x84; 0x48; 0x18; 0x81; 0x88; 0x18;
   0x40; 0x6d; 0x40; 0xd4; 0x0d; 0x40; 0x0a; 0x90; 0xc1; 0x0c; 0x10; 0xc0;
   0x68; 0x04; 0x90; 0x49; 0x04; 0x90; 0x10; 0x31; 0x21; 0x12; 0x11; 0x20;
   0x30; 0x58; 0x05; 0x80; 0x58; 0x04; 0x64; 0x4a; 0x28; 0xa2; 0x8a; 0x28;
   0x51; 0x48; 0xa2; 0x8a; 0x28; 0xa2; 0xa9; 0x10; 0x1b; 0x01; 0xb0; 0x1a;
   0x04; 0xc4; 0x84; 0x48; 0x44; 0x84; 0xd0; 0x01; 0x44; 0x14; 0x41; 0x44;
   0x82; 0x40; 0x1c; 0x01; 0xc0; 0x1c; 0x21; 0x37; 0x01; 0x70; 0x17; 0x00;
   0x0c; 0x21; 0x22; 0x12; 0x21; 0x22; 0x4a; 0x0a; 0xc0; 0xac; 0x0a; 0xc0;
   0x12; 0xb4; 0x51; 0x45; 0x14; 0x50; 0xea; 0x8d; 0x1a; 0x35; 0x55; 0xdc;
   0x46; 0x4a; 0x6c; 0xa6; 0xca; 0x6c; 0x33; 0x24; 0x26; 0x42; 0x64; 0x26;
   0x99; 0x02; 0x12; 0x21; 0x22; 0x12; 0x05; 0x80; 0x0e; 0x00; 0xe0; 0x0e;
   0x80; 0xa1; 0x82; 0x18; 0x21; 0x82; 0x84; 0x48; 0x18; 0x81; 0x88; 0x18;
   0x40; 0x6d; 0x40; 0xd4; 0x0d; 0x40; 0x0a; 0x90; 0xc1; 0x0c; 0x10; 0xc0;
   0x68; 0x04; 0x90; 0x49; 0x04; 0x90; 0x10; 0x31; 0x21; 0x12; 0x11; 0x20;
   0x30; 0x58; 0x05; 0x80; 0x58; 0x04; 0x46; 0x42; 0x0c; 0x20; 0xc2; 0x0c;
   0x33; 0x20; 0x46; 0x04; 0x60; 0x46; 0x99; 0x08; 0x0a; 0x80; 0xa8; 0x0a;
   0x05; 0x84; 0x30; 0x43; 0x04; 0x30; 0x80; 0xb0; 0x23; 0x02; 0x30; 0x22;
   0x84; 0x42; 0x90; 0x29; 0x02; 0x90; 0x40; 0x73; 0x01; 0x30; 0x13; 0x00;
   0x0a; 0x81; 0x12; 0x11; 0x21; 0x12; 0x68; 0x0c; 0x40; 0xc4; 0x0c; 0x40;
   0x10; 0x24; 0x84; 0x48; 0x44; 0x84; 0x30; 0x51; 0x41; 0x14; 0x11; 0x40;
   0x5f; 0x50; 0x89; 0x08; 0x90; 0x88].

Definition kMaskRandom47_46 : list Z :=
  [0x46; 0x4a; 0x6c; 0xa6; 0xca; 0x6c; 0x33; 0x24; 0x26; 0x42; 0x64; 0x26;
   0x99; 0x02; 0x12; 0x21; 0x22; 0x12; 0x05; 0x80; 0x0e; 0x00; 0xe0; 0x0e;
   0x80; 0xa1; 0x82; 0x18; 0x21; 0x82; 0x84; 0x48; 0x18; 0x81; 0x88; 0x18;
   0x40; 0x6d; 0x40; 0xd4; 0x0d; 0x40; 0x0a; 0x90; 0xc1; 0x0c; 0x10; 0xc0;
   0x68; 0x04; 0x90; 0x49; 0x04; 0x90; 0x10; 0x31; 0x21; 0x12; 0x11; 0x20;
   0x30; 0x58; 0x05; 0x80; 0x58; 0x04; 0x46; 0x42; 0x0c; 0x20; 0xc2; 0x0c;
   0x33; 0x20; 0x46; 0x04; 0x60; 0x46; 0x99; 0x08; 0x0a; 0x80; 0xa8; 0x0a;
   0x05; 0x84; 0x30; 0x43; 0x04; 0x30; 0x80; 0xb0; 0x23; 0x02; 0x30; 0x22;
   0x84; 0x42; 0x90; 0x29; 0x02; 0x90; 0x40; 0x73; 0x01; 0x30; 0x13; 0x00;
   0x0a; 0x81; 0x12; 0x11; 0x21; 0x12; 0x68; 0x0c; 0x40; 0xc4; 0x0c; 0x40;
   0x10; 0x24; 0x84; 0x48; 0x44; 0x84; 0x30; 0x51; 0x41; 0x14; 0x11; 0x40;
   0x5f; 0x50; 0x89; 0x08; 0x90; 0x88; 0x46; 0x4a; 0x6c; 0xa6; 0xca; 0x6c;
   0x33; 0x24; 0x26; 0x42; 0x64; 0x26; 0x99; 0x02; 0x12; 0x21; 0x22; 0x12;
   0x05; 0x80; 0x0e; 0x00; 0xe0; 0x0e; 0x80; 0xa1; 0x82; 0x18; 0x21; 0x82;
   0x84; 0x48; 0x18; 0x81; 0x88; 0x18; 0x40; 0x6d; 0x40; 0xd4; 0x0d; 0x40;
   0x0a; 0x90; 0xc1; 0x0c; 0x10; 0xc0; 0x68; 0x04; 0x90; 0x49; 0x04; 0x90;
   0x10; 0x31; 0x21; 0x12; 0x11; 0x20; 0x30; 0x58; 0x05; 0x80; 0x58; 0x04;
   0x64; 0x4a; 0x28; 0xa2; 0x8a; 0x28; 0x51; 0x48; 0xa2; 0x8a; 0x28; 0xa2;
   0xa9; 0x10; 0x1b; 0x01; 0xb0; 0x1a; 0x04; 0xc4; 0x84; 0x48; 0x44; 0x84;
   0xd0; 0x01; 0x44; 0x14; 0x41; 0x44; 0x82; 0x40; 0x1c; 0x01; 0xc0; 0x1c;
   0x21; 0x37; 0x01; 0x70; 0x17; 0x00; 0x0c; 0x21; 0x22; 0x12; 0x21; 0x22;
   0x4a; 0x0a; 0xc0; 0xac; 0x0a; 0xc0; 0x12; 0xb4; 0x51; 0x45; 0x14; 0x50;
   0xea; 0x8d; 0x1a; 0x35; 0x55; 0xdc; 0x37; 0x9d; 0xcf; 0xe0; 0xe4; 0x20].

Definition kMaskRandom47_47 : list Z :=
  [0x46; 0x4a; 0x6c; 0xa6; 0xca; 0x6c; 0x33; 0x24; 0x26; 0x42; 0x64; 0x26;
   0x99; 0x02; 0x12; 0x21; 0x22; 0x12; 0x05; 0x80; 0x0e; 0x00; 0xe0; 0x0e;
   0x80; 0xa1; 0x82; 0x18; 0x21; 0x82; 0x84; 0x48; 0x18; 0x81; 0x88; 0x18;
   0x40; 0x6d; 0x40; 0xd4; 0x0d; 0x40; 0x0a; 0x90; 0xc1; 0x0c; 0x10; 0xc0;
   0x68; 0x04; 0x90; 0x49; 0x04; 0x90; 0x10; 0x31; 0x21; 0x12; 0x11; 0x20;
   0x30; 0x58; 0x05; 0x80; 0x58; 0x04; 0x46; 0x42; 0x0c; 0x20; 0xc2; 0x0c;
   0x33; 0x20; 0x46; 0x04; 0x60; 0x46; 0x99; 0x08; 0x0a; 0x80; 0xa8; 0x0a;
   0x05; 0x84; 0x30; 0x43; 0x04; 0x30; 0x80; 0xb0; 0x23; 0x02; 0x30; 0x22;
   0x84; 0x42; 0x90; 0x29; 0x02; 0x90; 0x40; 0x73; 0x01; 0x30; 0x13; 0x00;
   0x0a; 0x81; 0x12; 0x11; 0x21; 0x12; 0x68; 0x0c; 0x40; 0xc4; 0x0c; 0x40;
   0x10; 0x24; 0x84; 0x48; 0x44; 0x84; 0x30; 0x51; 0x41; 0x14; 0x11; 0x40;
   0x5f; 0x50; 0x89; 0x08; 0x90; 0x88; 0x46; 0x4a; 0x6c; 0x20; 0xc2; 0x0c;
   0x33; 0x24; 0x26; 0x04; 0x60; 0x46; 0x99; 0x02; 0x12; 0x80; 0xa8; 0x0a;
   0x05; 0x80; 0x0e; 0x43; 0x04; 0x30; 0x80; 0xa1; 0x83; 0x02; 0x30; 0x22;
   0x84; 0x48; 0x18; 0x29; 0x02; 0x90; 0x40; 0x6d; 0x41; 0x30; 0x13; 0x00;
   0x0a; 0x90; 0xc0; 0x11; 0x21; 0x12; 0x68; 0x04; 0x90; 0xc4; 0x0c; 0x40;
   0x10; 0x31; 0x20; 0x48; 0x44; 0x84; 0x30; 0x58; 0x05; 0x14; 0x11; 0x40;
   0x46; 0x42; 0x0d; 0x08; 0x90; 0x88; 0x33; 0x20; 0x46; 0xa6; 0xca; 0x6c;
   0x99; 0x08; 0x0a; 0x42; 0x64; 0x26; 0x05; 0x84; 0x30; 0x21; 0x22; 0x12;
   0x80; 0xb0; 0x22; 0x00; 0xe0; 0x0e; 0x84; 0x42; 0x90; 0x18; 0x21; 0x82;
   0x40; 0x73; 0x00; 0x81; 0x88; 0x18; 0x0a; 0x81; 0x12; 0xd4; 0x0d; 0x40;
   0x68; 0x0c; 0x41; 0x0c; 0x10; 0xc0; 0x10; 0x24; 0x84; 0x49; 0x04; 0x90;
   0x30; 0x51; 0x41; 0x12; 0x11; 0x20; 0x5f; 0x50; 0x89; 0x80; 0x58; 0x04;
   0x1f; 0x2f; 0x63; 0x10; 0x64; 0xb2].

Definition kMaskRandom48_1 : list Z :=
  [0xff; 0xff; 0xff; 0xff; 0xff; 0xff].

Definition kMaskRandom48_2 : list Z :=
  [0xec; 0xce; 0xcc; 0xec; 0xce; 0xcc; 0x93; 0xb9; 0x3b; 0x93; 0xb9; 0x3b].

Definition kMaskRandom48_3 : list Z :=
  [0x9b; 0x29; 0xb2; 0x9b; 0x29; 0xb2; 0x49; 0xd4; 0x9d; 0x49; 0xd4; 0x9d;
   0x3e; 0x83; 0xe8; 0x3e; 0x83; 0xe8].

Definition kMaskRandom48_4 : list Z :=
  [0x8b; 0x28; 0xb2; 0x8b; 0x28; 0xb2; 0x14; 0xb1; 0x4b; 0x14; 0xb1; 0x4b;
   0x22; 0xd2; 0x2d; 0x22; 0xd2; 0x2d; 0x45; 0x54; 0x55; 0x45; 0x54; 0x55].

Definition kMaskRandom48_5 : list Z :=
  [0x53; 0x65; 0x36; 0x53; 0x65; 0x36; 0x64; 0xb6; 0x4b; 0x64; 0xb6; 0x4b;
   0x0e; 0xe0; 0xee; 0x0e; 0xe0; 0xee; 0xa9; 0xca; 0x9c; 0xa9; 0xca; 0x9c;
   0xb8; 0x3b; 0x83; 0xb8; 0x3b; 0x83].

Definition kMaskRandom48_6 : list Z :=
  [0xd1; 0x4d; 0x14; 0xd1; 0x4d; 0x14; 0x45; 0x34; 0x53; 0x45; 0x34; 0x53;
   0x22; 0xd2; 0x2d; 0x22; 0xd2; 0x2d; 0x16; 0xc1; 0x6c; 0x16; 0xc1; 0x6c;
   0x0b; 0xa0; 0xba; 0x0b; 0xa0; 0xba; 0xe8; 0x8e; 0x88; 0xe8; 0x8e; 0x88].

Definition kMaskRandom48_7 : list Z :=
  [0xd3; 0x65; 0x36; 0xd3; 0x65; 0x36; 0x25; 0x32; 0x53; 0x25; 0x32; 0x53;
   0x30; 0xd3; 0x05; 0x30; 0xd3; 0x05; 0x06; 0x48; 0x6c; 0x06; 0x48; 0x6c;
   0xc0; 0xb8; 0x1b; 0xc0; 0xb8; 0x1b; 0x2a; 0xa2; 0xaa; 0x2a; 0xa2; 0xaa;
   0xa8; 0x4e; 0x84; 0xa8; 0x4e; 0x84].

Definition kMaskRandom48_8 : list Z :=
  [0x81; 0x60; 0x16; 0x81; 0x60; 0x16; 0x40; 0x3c; 0x03; 0x40; 0x3c; 0x03;
   0x10; 0x91; 0x09; 0x10; 0x91; 0x09; 0x06; 0x50; 0x65; 0x06; 0x50; 0x65;
   0x20; 0x4a; 0x84; 0x20; 0x4a; 0x84; 0x8a; 0xa0; 0xaa; 0x8a; 0xa0; 0xaa;
   0x33; 0x03; 0x30; 0x33; 0x03; 0x30; 0x4c; 0x84; 0xc8; 0x4c; 0x84; 0xc8].

Definition kMaskRandom48_9 : list Z :=
  [0xd3; 0x65; 0x36; 0xd3; 0x65; 0x36; 0x64; 0x26; 0x42; 0x64; 0x26; 0x42;
   0x18; 0x41; 0xc4; 0x18; 0x41; 0xc4; 0xa0; 0x4a; 0x04; 0xa0; 0x4a; 0x04;
   0x81; 0x38; 0x13; 0x81; 0x38; 0x13; 0x22; 0xa2; 0x2a; 0x22; 0xa2; 0x2a;
   0x08; 0x70; 0x87; 0x08; 0x70; 0x87; 0x04; 0x90; 0x49; 0x04; 0x90; 0x49;
   0x01; 0xc0; 0x1c; 0x01; 0xc0; 0x1c].

Definition kMaskRandom48_10 : list Z :=
  [0x11; 0x45; 0x14; 0x11; 0x45; 0x14; 0x45; 0x34; 0x53; 0x45; 0x34; 0x53;
   0x00; 0x48; 0x05; 0x00; 0x48; 0x05; 0x10; 0x83; 0x09; 0x10; 0x83; 0x09;
   0x4a; 0x14; 0xa1; 0x4a; 0x14; 0xa1; 0x40; 0xa4; 0x0a; 0x40; 0xa4; 0x0a;
   0xa0; 0x6a; 0x02; 0xa0; 0x6a; 0x02; 0x88; 0x80; 0x8c; 0x88; 0x80; 0x8c;
   0x86; 0x08; 0x60; 0x86; 0x08; 0x60; 0x54; 0x0d; 0x40; 0x54; 0x0d; 0x40].

Definition kMaskRandom48_11 : list Z :=
  [0x53; 0x65; 0x34; 0x53; 0x65; 0x34; 0xa0; 0x32; 0x11; 0xa0; 0x32; 0x11;
   0x15; 0x11; 0x41; 0x15; 0x11; 0x41; 0x03; 0x50; 0x15; 0x03; 0x50; 0x15;
   0x8c; 0x88; 0xc8; 0x8c; 0x88; 0xc8; 0x28; 0x82; 0x88; 0x28; 0x82; 0x88;
   0x08; 0x48; 0x84; 0x08; 0x48; 0x84; 0x99; 0x01; 0x90; 0x99; 0x01; 0x90;
   0x22; 0x92; 0x29; 0x22; 0x92; 0x29; 0x46; 0x04; 0x60; 0x46; 0x04; 0x60;
   0x8c; 0x2c; 0x02; 0x8c; 0x2c; 0x02].

Definition kMaskRandom48_12 : list Z :=
  [0x10; 0x61; 0x06; 0x10; 0x61; 0x06; 0x02; 0x30; 0x23; 0x02; 0x30; 0x23;
   0x40; 0x54; 0x05; 0x40; 0x54; 0x05; 0x21; 0x82; 0x18; 0x21; 0x82; 0x18;
   0x81; 0x18; 0x11; 0x81; 0x18; 0x11; 0x14; 0x81; 0x48; 0x14; 0x81; 0x48;
   0x98; 0x09; 0x80; 0x98; 0x09; 0x80; 0x08; 0x90; 0x89; 0x08; 0x90; 0x89;
   0x62; 0x06; 0x20; 0x62; 0x06; 0x20; 0x24; 0x22; 0x42; 0x24; 0x22; 0x42;
   0x8a; 0x08; 0xa0; 0x8a; 0x08; 0xa0; 0x84; 0x48; 0x44; 0x84; 0x48; 0x44].

Definition kMaskRandom48_13 : list Z :=
  [0x51; 0x45; 0x14; 0x51; 0x45; 0x14; 0xc5; 0x1c; 0x51; 0xc5; 0x1c; 0x51;
   0x21; 0x82; 0x18; 0x21; 0x82; 0x18; 0x12; 0x31; 0x23; 0x12; 0x31; 0x23;
   0x08; 0xe0; 0x8e; 0x08; 0xe0; 0x8e; 0x2e; 0x02; 0xe0; 0x2e; 0x02; 0xe0;
   0x53; 0x65; 0x36; 0x53; 0x65; 0x36; 0x21; 0x32; 0x13; 0x21; 0x32; 0x13;
   0x90; 0x99; 0x09; 0x90; 0x99; 0x09; 0x02; 0x50; 0x25; 0x02; 0x50; 0x25;
   0x06; 0xa0; 0x6a; 0x06; 0xa0; 0x6a; 0x2c; 0x02; 0xc0; 0x2c; 0x02; 0xc0;
   0x88; 0x68; 0x86; 0x88; 0x68; 0x86].

Definition kMaskRandom48_14 : list Z :=
  [0x53; 0x65; 0x36; 0x53; 0x65; 0x36; 0x21; 0x32; 0x13; 0x21; 0x32; 0x13;
   0x90; 0x99; 0x09; 0x90; 0x99; 0x09; 0x02; 0x50; 0x25; 0x02; 0x50; 0x25;
   0x06; 0xa0; 0x6a; 0x06; 0xa0; 0x6a; 0x2c; 0x02; 0xc0; 0x2c; 0x02; 0xc0;
   0x88; 0x68; 0x86; 0x88; 0x68; 0x86; 0x51; 0x45; 0x14; 0x51; 0x45; 0x14;
   0xc5; 0x1c; 0x51; 0xc5; 0x1c; 0x51; 0x21; 0x82; 0x18; 0x21; 0x82; 0x18;
   0x12; 0x31; 0x23; 0x12; 0x31; 0x23; 0x08; 0xe0; 0x8e; 0x08; 0xe0; 0x8e;
   0x2e; 0x02; 0xe0; 0x2e; 0x02; 0xe0; 0xf2; 0xd6; 0x8e; 0xf2; 0xd6; 0x8e].

Definition kMaskRandom48_15 : list Z :=
  [0x53; 0x65; 0x36; 0x53; 0x65; 0x36; 0x21; 0x32; 0x13; 0x21; 0x32; 0x13;
   0x90; 0x99; 0x09; 0x90; 0x99; 0x09; 0x02; 0x50; 0x25; 0x02; 0x50; 0x25;
   0x06; 0xa0; 0x6a; 0x06; 0xa0; 0x6a; 0x2c; 0x02; 0xc0; 0x2c; 0x02; 0xc0;
   0x88; 0x68; 0x86; 0x88; 0x68; 0x86; 0x20; 0x62; 0x06; 0x20; 0x62; 0x06;
   0x80; 0x38; 0x03; 0x80; 0x38; 0x03; 0x42; 0x44; 0x24; 0x42; 0x44; 0x24;
   0x01; 0x90; 0x19; 0x01; 0x90; 0x19; 0x14; 0x11; 0x41; 0x14; 0x11; 0x41;
   0x0a; 0x80; 0xa8; 0x0a; 0x80; 0xa8; 0x38; 0x03; 0x80; 0x38; 0x03; 0x80;
   0xc5; 0x0c; 0x50; 0xc5; 0x0c; 0x50].

Definition kMaskRandom48_16 : list Z :=
  [0x20; 0x62; 0x06; 0x20; 0x62; 0x06; 0x80; 0x38; 0x03; 0x80; 0x38; 0x03;
   0x42; 0x44; 0x24; 0x42; 0x44; 0x24; 0x01; 0x90; 0x19; 0x01; 0x90; 0x19;
   0x14; 0x11; 0x41; 0x14; 0x11; 0x41; 0x0a; 0x80; 0xa8; 0x0a; 0x80; 0xa8;
   0x38; 0x03; 0x80; 0x38; 0x03; 0x80; 0xc5; 0x0c; 0x50; 0xc5; 0x0c; 0x50;
   0x53; 0x65; 0x36; 0x53; 0x65; 0x36; 0x21; 0x32; 0x13; 0x21; 0x32; 0x13;
   0x90; 0x99; 0x09; 0x90; 0x99; 0x09; 0x02; 0x50; 0x25; 0x02; 0x50; 0x25;
   0x06; 0xa0; 0x6a; 0x06; 0xa0; 0x6a; 0x2c; 0x02; 0xc0; 0x2c; 0x02; 0xc0;
   0x88; 0x68; 0x86; 0x88; 0x68; 0x86; 0xff; 0x6e; 0x0a; 0xff; 0x6e; 0x0a].

Definition kMaskRandom48_17 : list Z :=
  [0x20; 0x62; 0x06; 0x20; 0x62; 0x06; 0x80; 0x38; 0x03; 0x80; 0x38; 0x03;
   0x42; 0x44; 0x24; 0x42; 0x44; 0x24; 0x01; 0x90; 0x19; 0x01; 0x90; 0x19;
   0x14; 0x11; 0x41; 0x14; 0x11; 0x41; 0x0a; 0x80; 0xa8; 0x0a; 0x80; 0xa8;
   0x38; 0x03; 0x80; 0x38; 0x03; 0x80; 0xc5; 0x0c; 0x50; 0xc5; 0x0c; 0x50;
   0x53; 0x65; 0x36; 0x53; 0x65; 0x36; 0xe4; 0x2e; 0x42; 0xe4; 0x2e; 0x42;
   0x24; 0x42; 0x44; 0x24; 0x42; 0x44; 0xa1; 0x1a; 0x11; 0xa1; 0x1a; 0x11;
   0x18; 0x31; 0x83; 0x18; 0x31; 0x83; 0x03; 0x90; 0x39; 0x03; 0x90; 0x39;
   0x8a; 0x18; 0xa1; 0x8a; 0x18; 0xa1; 0x04; 0x90; 0x49; 0x04; 0x90; 0x49;
   0x00; 0xe0; 0x0e; 0x00; 0xe0; 0x0e].

Definition kMaskRandom48_18 : list Z :=
  [0x53; 0x65; 0x36; 0x53; 0x65; 0x36; 0xe4; 0x2e; 0x42; 0xe4; 0x2e; 0x42;
   0x24; 0x42; 0x44; 0x24; 0x42; 0x44; 0xa1; 0x1a; 0x11; 0xa1; 0x1a; 0x11;
   0x18; 0x31; 0x83; 0x18; 0x31; 0x83; 0x03; 0x90; 0x39; 0x03; 0x90; 0x39;
   0x8a; 0x18; 0xa1; 0x8a; 0x18; 0xa1; 0x04; 0x90; 0x49; 0x04; 0x90; 0x49;
   0x00; 0xe0; 0x0e; 0x00; 0xe0; 0x0e; 0x20; 0x62; 0x06; 0x20; 0x62; 0x06;
   0x80; 0x38; 0x03; 0x80; 0x38; 0x03; 0x42; 0x44; 0x24; 0x42; 0x44; 0x24;
   0x01; 0x90; 0x19; 0x01; 0x90; 0x19; 0x14; 0x11; 0x41; 0x14; 0x11; 0x41;
   0x0a; 0x80; 0xa8; 0x0a; 0x80; 0xa8; 0x38; 0x03; 0x80; 0x38; 0x03; 0x80;
   0xc5; 0x0c; 0x50; 0xc5; 0x0c; 0x50; 0x34; 0x50; 0xae; 0x34; 0x50; 0xae].

Definition kMaskRandom48_19 : list Z :=
  [0x53; 0x65; 0x36; 0x53; 0x65; 0x36; 0xe4; 0x2e; 0x42; 0xe4; 0x2e; 0x42;
   0x24; 0x42; 0x44; 0x24; 0x42; 0x44; 0xa1; 0x1a; 0x11; 0xa1; 0x1a; 0x11;
   0x18; 0x31; 0x83; 0x18; 0x31; 0x83; 0x03; 0x90; 0x39; 0x03; 0x90; 0x39;
   0x8a; 0x18; 0xa1; 0x8a; 0x18; 0xa1; 0x04; 0x90; 0x49; 0x04; 0x90; 0x49;
   0x00; 0xe0; 0x0e; 0x00; 0xe0; 0x0e; 0x51; 0x45; 0x14; 0x51; 0x45; 0x14;
   0x45; 0x14; 0x51; 0x45; 0x14; 0x51; 0x80; 0xd8; 0x0d; 0x80; 0xd8; 0x0d;
   0x24; 0x22; 0x42; 0x24; 0x22; 0x42; 0x0a; 0x20; 0xa2; 0x0a; 0x20; 0xa2;
   0x00; 0xe0; 0x0e; 0x00; 0xe0; 0x0e; 0xb8; 0x0b; 0x80; 0xb8; 0x0b; 0x80;
   0x09; 0x10; 0x91; 0x09; 0x10; 0x91; 0x56; 0x05; 0x60; 0x56; 0x05; 0x60;
   0xa2; 0x8a; 0x28; 0xa2; 0x8a; 0x28].

Definition kMaskRandom48_20 : list Z :=
  [0x51; 0x45; 0x14; 0x51; 0x45; 0x14; 0x45; 0x14; 0x51; 0x45; 0x14; 0x51;
   0x80; 0xd8; 0x0d; 0x80; 0xd8; 0x0d; 0x24; 0x22; 0x42; 0x24; 0x22; 0x42;
   0x0a; 0x20; 0xa2; 0x0a; 0x20; 0xa2; 0x00; 0xe0; 0x0e; 0x00; 0xe0; 0x0e;
   0xb8; 0x0b; 0x80; 0xb8; 0x0b; 0x80; 0x09; 0x10; 0x91; 0x09; 0x10; 0x91;
   0x56; 0x05; 0x60; 0x56; 0x05; 0x60; 0xa2; 0x8a; 0x28; 0xa2; 0x8a; 0x28;
   0x53; 0x65; 0x36; 0x53; 0x65; 0x36; 0xe4; 0x2e; 0x42; 0xe4; 0x2e; 0x42;
   0x24; 0x42; 0x44; 0x24; 0x42; 0x44; 0xa1; 0x1a; 0x11; 0xa1; 0x1a; 0x11;
   0x18; 0x31; 0x83; 0x18; 0x31; 0x83; 0x03; 0x90; 0x39; 0x03; 0x90; 0x39;
   0x8a; 0x18; 0xa1; 0x8a; 0x18; 0xa1; 0x04; 0x90; 0x49; 0x04; 0x90; 0x49;
   0x00; 0xe0; 0x0e; 0x00; 0xe0; 0x0e; 0x98; 0xa2; 0x95; 0x98; 0xa2; 0x95].

Definition kMaskRandom48_21 : list Z :=
  [0x51; 0x45; 0x14; 0x51; 0x45; 0x14; 0x45; 0x14; 0x51; 0x45; 0x14; 0x51;
   0x80; 0xd8; 0x0d; 0x80; 0xd8; 0x0d; 0x24; 0x22; 0x42; 0x24; 0x22; 0x42;
   0x0a; 0x20; 0xa2; 0x0a; 0x20; 0xa2; 0x00; 0xe0; 0x0e; 0x00; 0xe0; 0x0e;
   0xb8; 0x0b; 0x80; 0xb8; 0x0b; 0x80; 0x09; 0x10; 0x91; 0x09; 0x10; 0x91;
   0x56; 0x05; 0x60; 0x56; 0x05; 0x60; 0xa2; 0x8a; 0x28; 0xa2; 0x8a; 0x28;
   0x53; 0x65; 0x36; 0x53; 0x65; 0x36; 0x21; 0x32; 0x13; 0x21; 0x32; 0x13;
   0x10; 0x91; 0x09; 0x10; 0x91; 0x09; 0x00; 0x70; 0x07; 0x00; 0x70; 0x07;
   0x0c; 0x10; 0xc1; 0x0c; 0x10; 0xc1; 0x40; 0xc4; 0x0c; 0x40; 0xc4; 0x0c;
   0x6a; 0x06; 0xa0; 0x6a; 0x06; 0xa0; 0x86; 0x08; 0x60; 0x86; 0x08; 0x60;
   0x24; 0x82; 0x48; 0x24; 0x82; 0x48; 0x89; 0x08; 0x90; 0x89; 0x08; 0x90;
   0xc0; 0x2c; 0x02; 0xc0; 0x2c; 0x02].

Definition kMaskRandom48_22 : list Z :=
  [0x53; 0x65; 0x36; 0x53; 0x65; 0x36; 0x21; 0x32; 0x13; 0x21; 0x32; 0x13;
   0x10; 0x91; 0x09; 0x10; 0x91; 0x09; 0x00; 0x70; 0x07; 0x00; 0x70; 0x07;
   0x0c; 0x10; 0xc1; 0x0c; 0x10; 0xc1; 0x40; 0xc4; 0x0c; 0x40; 0xc4; 0x0c;
   0x6a; 0x06; 0xa0; 0x6a; 0x06; 0xa0; 0x86; 0x08; 0x60; 0x86; 0x08; 0x60;
   0x24; 0x82; 0x48; 0x24; 0x82; 0x48; 0x89; 0x08; 0x90; 0x89; 0x08; 0x90;
   0xc0; 0x2c; 0x02; 0xc0; 0x2c; 0x02; 0x51; 0x45; 0x14; 0x51; 0x45; 0x14;
   0x45; 0x14; 0x51; 0x45; 0x14; 0x51; 0x80; 0xd8; 0x0d; 0x80; 0xd8; 0x0d;
   0x24; 0x22; 0x42; 0x24; 0x22; 0x42; 0x0a; 0x20; 0xa2; 0x0a; 0x20; 0xa2;
   0x00; 0xe0; 0x0e; 0x00; 0xe0; 0x0e; 0xb8; 0x0b; 0x80; 0xb8; 0x0b; 0x80;
   0x09; 0x10; 0x91; 0x09; 0x10; 0x91; 0x56; 0x05; 0x60; 0x56; 0x05; 0x60;
   0xa2; 0x8a; 0x28; 0xa2; 0x8a; 0x28; 0x1a; 0xaa; 0xee; 0x1a; 0xaa; 0xee].

Definition kMaskRandom48_23 : list Z :=
  [0x53; 0x65; 0x36; 0x53; 0x65; 0x36; 0x21; 0x32; 0x13; 0x21; 0x32; 0x13;
   0x10; 0x91; 0x09; 0x10; 0x91; 0x09; 0x00; 0x70; 0x07; 0x00; 0x70; 0x07;
   0x0c; 0x10; 0xc1; 0x0c; 0x10; 0xc1; 0x40; 0xc4; 0x0c; 0x40; 0xc4; 0x0c;
   0x6a; 0x06; 0xa0; 0x6a; 0x06; 0xa0; 0x86; 0x08; 0x60; 0x86; 0x08; 0x60;
   0x24; 0x82; 0x48; 0x24; 0x82; 0x48; 0x89; 0x08; 0x90; 0x89; 0x08; 0x90;
   0xc0; 0x2c; 0x02; 0xc0; 0x2c; 0x02; 0x10; 0x61; 0x06; 0x10; 0x61; 0x06;
   0x02; 0x30; 0x23; 0x02; 0x30; 0x23; 0x40; 0x54; 0x05; 0x40; 0x54; 0x05;
   0x21; 0x82; 0x18; 0x21; 0x82; 0x18; 0x81; 0x18; 0x11; 0x81; 0x18; 0x11;
   0x14; 0x81; 0x48; 0x14; 0x81; 0x48; 0x98; 0x09; 0x80; 0x98; 0x09; 0x80;
   0x08; 0x90; 0x89; 0x08; 0x90; 0x89; 0x62; 0x06; 0x20; 0x62; 0x06; 0x20;
   0x24; 0x22; 0x42; 0x24; 0x22; 0x42; 0x8a; 0x08; 0xa0; 0x8a; 0x08; 0xa0;
   0x84; 0x48; 0x44; 0x84; 0x48; 0x44].

Definition kMaskRandom48_24 : list Z :=
  [0x10; 0x61; 0x06; 0x10; 0x61; 0x06; 0x02; 0x30; 0x23; 0x02; 0x30; 0x23;
   0x40; 0x54; 0x05; 0x40; 0x54; 0x05; 0x21; 0x82; 0x18; 0x21; 0x82; 0x18;
   0x81; 0x18; 0x11; 0x81; 0x18; 0x11; 0x14; 0x81; 0x48; 0x14; 0x81; 0x48;
   0x98; 0x09; 0x80; 0x98; 0x09; 0x80; 0x08; 0x90; 0x89; 0x08; 0x90; 0x89;
   0x62; 0x06; 0x20; 0x62; 0x06; 0x20; 0x24; 0x22; 0x42; 0x24; 0x22; 0x42;
   0x8a; 0x08; 0xa0; 0x8a; 0x08; 0xa0; 0x84; 0x48; 0x44; 0x84; 0x48; 0x44;
   0x53; 0x65; 0x36; 0x53; 0x65; 0x36; 0x21; 0x32; 0x13; 0x21; 0x32; 0x13;
   0x10; 0x91; 0x09; 0x10; 0x91; 0x09; 0x00; 0x70; 0x07; 0x00; 0x70; 0x07;
   0x0c; 0x10; 0xc1; 0x0c; 0x10; 0xc1; 0x40; 0xc4; 0x0c; 0x40; 0xc4; 0x0c;
   0x6a; 0x06; 0xa0; 0x6a; 0x06; 0xa0; 0x86; 0x08; 0x60; 0x86; 0x08; 0x60;
   0x24; 0x82; 0x48; 0x24; 0x82; 0x48; 0x89; 0x08; 0x90; 0x89; 0x08; 0x90;
   0xc0; 0x2c; 0x02; 0xc0; 0x2c; 0x02; 0x88; 0x32; 0x59; 0x88; 0x32; 0x59].

Definition kMaskRandom48_25 : list Z :=
  [0x10; 0x61; 0x06; 0x10; 0x61; 0x06; 0x02; 0x30; 0x23; 0x02; 0x30; 0x23;
   0x40; 0x54; 0x05; 0x40; 0x54; 0x05; 0x21; 0x82; 0x18; 0x21; 0x82; 0x18;
   0x81; 0x18; 0x11; 0x81; 0x18; 0x11; 0x14; 0x81; 0x48; 0x14; 0x81; 0x48;
   0x98; 0x09; 0x80; 0x98; 0x09; 0x80; 0x08; 0x90; 0x89; 0x08; 0x90; 0x89;
   0x62; 0x06; 0x20; 0x62; 0x06; 0x20; 0x24; 0x22; 0x42; 0x24; 0x22; 0x42;
   0x8a; 0x08; 0xa0; 0x8a; 0x08; 0xa0; 0x84; 0x48; 0x44; 0x84; 0x48; 0x44;
   0x51; 0x45; 0x14; 0x51; 0x45; 0x14; 0xc5; 0x1c; 0x51; 0xc5; 0x1c; 0x51;
   0x21; 0x82; 0x18; 0x21; 0x82; 0x18; 0x12; 0x31; 0x23; 0x12; 0x31; 0x23;
   0x08; 0xe0; 0x8e; 0x08; 0xe0; 0x8e; 0x2e; 0x02; 0xe0; 0x2e; 0x02; 0xe0;
   0x53; 0x65; 0x36; 0x53; 0x65; 0x36; 0x21; 0x32; 0x13; 0x21; 0x32; 0x13;
   0x90; 0x99; 0x09; 0x90; 0x99; 0x09; 0x02; 0x50; 0x25; 0x02; 0x50; 0x25;
   0x06; 0xa0; 0x6a; 0x06; 0xa0; 0x6a; 0x2c; 0x02; 0xc0; 0x2c; 0x02; 0xc0;
   0x88; 0x68; 0x86; 0x88; 0x68; 0x86].

Definition kMaskRandom48_26 : list Z :=
  [0x51; 0x45; 0x14; 0x51; 0x45; 0x14; 0xc5; 0x1c; 0x51; 0xc5; 0x1c; 0x51;
   0x21; 0x82; 0x18; 0x21; 0x82; 0x18; 0x12; 0x31; 0x23; 0x12; 0x31; 0x23;
   0x08; 0xe0; 0x8e; 0x08; 0xe0; 0x8e; 0x2e; 0x02; 0xe0; 0x2e; 0x02; 0xe0;
   0x53; 0x65; 0x36; 0x53; 0x65; 0x36; 0x21; 0x32; 0x13; 0x21; 0x32; 0x13;
   0x90; 0x99; 0x09; 0x90; 0x99; 0x09; 0x02; 0x50; 0x25; 0x02; 0x50; 0x25;
   0x06; 0xa0; 0x6a; 0x06; 0xa0; 0x6a; 0x2c; 0x02; 0xc0; 0x2c; 0x02; 0xc0;
   0x88; 0x68; 0x86; 0x88; 0x68; 0x86; 0x10; 0x61; 0x06; 0x10; 0x61; 0x06;
   0x02; 0x30; 0x23; 0x02; 0x30; 0x23; 0x40; 0x54; 0x05; 0x40; 0x54; 0x05;
   0x21; 0x82; 0x18; 0x21; 0x82; 0x18; 0x81; 0x18; 0x11; 0x81; 0x18; 0x11;
   0x14; 0x81; 0x48; 0x14; 0x81; 0x48; 0x98; 0x09; 0x80; 0x98; 0x09; 0x80;
   0x08; 0x90; 0x89; 0x08; 0x90; 0x89; 0x62; 0x06; 0x20; 0x62; 0x06; 0x20;
   0x24; 0x22; 0x42; 0x24; 0x22; 0x42; 0x8a; 0x08; 0xa0; 0x8a; 0x08; 0xa0;
   0x84; 0x48; 0x44; 0x84; 0x48; 0x44; 0x3e; 0x20; 0x79; 0xe5; 0x55; 0x70].

Definition kMaskRandom48_27 : list Z :=
  [0x51; 0x45; 0x14; 0x51; 0x45; 0x14; 0xc5; 0x1c; 0x51; 0xc5; 0x1c; 0x51;
   0x21; 0x82; 0x18; 0x21; 0x82; 0x18; 0x12; 0x31; 0x23; 0x12; 0x31; 0x23;
   0x08; 0xe0; 0x8e; 0x08; 0xe0; 0x8e; 0x2e; 0x02; 0xe0; 0x2e; 0x02; 0xe0;
   0x53; 0x65; 0x36; 0x53; 0x65; 0x36; 0x21; 0x32; 0x13; 0x21; 0x32; 0x13;
   0x90; 0x99; 0x09; 0x90; 0x99; 0x09; 0x02; 0x50; 0x25; 0x02; 0x50; 0x25;
   0x06; 0xa0; 0x6a; 0x06; 0xa0; 0x6a; 0x2c; 0x02; 0xc0; 0x2c; 0x02; 0xc0;
   0x88; 0x68; 0x86; 0x88; 0x68; 0x86; 0x53; 0x65; 0x36; 0x53; 0x65; 0x36;
   0x21; 0x32; 0x13; 0x21; 0x32; 0x13; 0x90; 0x99; 0x09; 0x90; 0x99; 0x09;
   0x02; 0x50; 0x25; 0x02; 0x50; 0x25; 0x06; 0xa0; 0x6a; 0x06; 0xa0; 0x6a;
   0x2c; 0x02; 0xc0; 0x2c; 0x02; 0xc0; 0x88; 0x68; 0x86; 0x88; 0x68; 0x86;
   0x51; 0x45; 0x14; 0x51; 0x45; 0x14; 0xc5; 0x1c; 0x51; 0xc5; 0x1c; 0x51;
   0x21; 0x82; 0x18; 0x21; 0x82; 0x18; 0x12; 0x31; 0x23; 0x12; 0x31; 0x23;
   0x08; 0xe0; 0x8e; 0x08; 0xe0; 0x8e; 0x2e; 0x02; 0xe0; 0x2e; 0x02; 0xe0;
   0xf2; 0xd6; 0x8e; 0xf2; 0xd6; 0x8e].

Definition kMaskRandom48_28 : list Z :=
  [0x53; 0x65; 0x36; 0x53; 0x65; 0x36; 0x21; 0x32; 0x13; 0x21; 0x32; 0x13;
   0x90; 0x99; 0x09; 0x90; 0x99; 0x09; 0x02; 0x50; 0x25; 0x02; 0x50; 0x25;
   0x06; 0xa0; 0x6a; 0x06; 0xa0; 0x6a; 0x2c; 0x02; 0xc0; 0x2c; 0x02; 0xc0;
   0x88; 0x68; 0x86; 0x88; 0x68; 0x86; 0x51; 0x45; 0x14; 0x51; 0x45; 0x14;
   0xc5; 0x1c; 0x51; 0xc5; 0x1c; 0x51; 0x21; 0x82; 0x18; 0x21; 0x82; 0x18;
   0x12; 0x31; 0x23; 0x12; 0x31; 0x23; 0x08; 0xe0; 0x8e; 0x08; 0xe0; 0x8e;
   0x2e; 0x02; 0xe0; 0x2e; 0x02; 0xe0; 0xf2; 0xd6; 0x8e; 0xf2; 0xd6; 0x8e;
   0x51; 0x45; 0x14; 0x51; 0x45; 0x14; 0xc5; 0x1c; 0x51; 0xc5; 0x1c; 0x51;
   0x21; 0x82; 0x18; 0x21; 0x82; 0x18; 0x12; 0x31; 0x23; 0x12; 0x31; 0x23;
   0x08; 0xe0; 0x8e; 0x08; 0xe0; 0x8e; 0x2e; 0x02; 0xe0; 0x2e; 0x02; 0xe0;
   0x53; 0x65; 0x36; 0x53; 0x65; 0x36; 0x21; 0x32; 0x13; 0x21; 0x32; 0x13;
   0x90; 0x99; 0x09; 0x90; 0x99; 0x09; 0x02; 0x50; 0x25; 0x02; 0x50; 0x25;
   0x06; 0xa0; 0x6a; 0x06; 0xa0; 0x6a; 0x2c; 0x02; 0xc0; 0x2c; 0x02; 0xc0;
   0x88; 0x68; 0x86; 0x88; 0x68; 0x86; 0x32; 0xe3; 0xc0; 0x4a; 0xf2; 0x2a].

Definition kMaskRandom48_29 : list Z :=
  [0x53; 0x65; 0x36; 0x53; 0x65; 0x36; 0x21; 0x32; 0x13; 0x21; 0x32; 0x13;
   0x90; 0x99; 0x09; 0x90; 0x99; 0x09; 0x02; 0x50; 0x25; 0x02; 0x50; 0x25;
   0x06; 0xa0; 0x6a; 0x06; 0xa0; 0x6a; 0x2c; 0x02; 0xc0; 0x2c; 0x02; 0xc0;
   0x88; 0x68; 0x86; 0x88; 0x68; 0x86; 0x51; 0x45; 0x14; 0x51; 0x45; 0x14;
   0xc5; 0x1c; 0x51; 0xc5; 0x1c; 0x51; 0x21; 0x82; 0x18; 0x21; 0x82; 0x18;
   0x12; 0x31; 0x23; 0x12; 0x31; 0x23; 0x08; 0xe0; 0x8e; 0x08; 0xe0; 0x8e;
   0x2e; 0x02; 0xe0; 0x2e; 0x02; 0xe0; 0xf2; 0xd6; 0x8e; 0xf2; 0xd6; 0x8e;
   0x53; 0x65; 0x36; 0x53; 0x65; 0x36; 0x21; 0x32; 0x13; 0x21; 0x32; 0x13;
   0x90; 0x99; 0x09; 0x90; 0x99; 0x09; 0x02; 0x50; 0x25; 0x02; 0x50; 0x25;
   0x06; 0xa0; 0x6a; 0x06; 0xa0; 0x6a; 0x2c; 0x02; 0xc0; 0x2c; 0x02; 0xc0;
   0x88; 0x68; 0x86; 0x88; 0x68; 0x86; 0x20; 0x62; 0x06; 0x20; 0x62; 0x06;
   0x80; 0x38; 0x03; 0x80; 0x38; 0x03; 0x42; 0x44; 0x24; 0x42; 0x44; 0x24;
   0x01; 0x90; 0x19; 0x01; 0x90; 0x19; 0x14; 0x11; 0x41; 0x14; 0x11; 0x41;
   0x0a; 0x80; 0xa8; 0x0a; 0x80; 0xa8; 0x38; 0x03; 0x80; 0x38; 0x03; 0x80;
   0xc5; 0x0c; 0x50; 0xc5; 0x0c; 0x50].

Definition kMaskRandom48_30 : list Z :=
  [0x53; 0x65; 0x36; 0x53; 0x65; 0x36; 0x21; 0x32; 0x13; 0x21; 0x32; 0x13;
   0x90; 0x99; 0x09; 0x90; 0x99; 0x09; 0x02; 0x50; 0x25; 0x02; 0x50; 0x25;
   0x06; 0xa0; 0x6a; 0x06; 0xa0; 0x6a; 0x2c; 0x02; 0xc0; 0x2c; 0x02; 0xc0;
   0x88; 0x68; 0x86; 0x88; 0x68; 0x86; 0x20; 0x62; 0x06; 0x20; 0x62; 0x06;
   0x80; 0x38; 0x03; 0x80; 0x38; 0x03; 0x42; 0x44; 0x24; 0x42; 0x44; 0x24;
   0x01; 0x90; 0x19; 0x01; 0x90; 0x19; 0x14; 0x11; 0x41; 0x14; 0x11; 0x41;
   0x0a; 0x80; 0xa8; 0x0a; 0x80; 0xa8; 0x38; 0x03; 0x80; 0x38; 0x03; 0x80;
   0xc5; 0x0c; 0x50; 0xc5; 0x0c; 0x50; 0x53; 0x65; 0x36; 0x53; 0x65; 0x36;
   0x21; 0x32; 0x13; 0x21; 0x32; 0x13; 0x90; 0x99; 0x09; 0x90; 0x99; 0x09;
   0x02; 0x50; 0x25; 0x02; 0x50; 0x25; 0x06; 0xa0; 0x6a; 0x06; 0xa0; 0x6a;
   0x2c; 0x02; 0xc0; 0x2c; 0x02; 0xc0; 0x88; 0x68; 0x86; 0x88; 0x68; 0x86;
   0x51; 0x45; 0x14; 0x51; 0x45; 0x14; 0xc5; 0x1c; 0x51; 0xc5; 0x1c; 0x51;
   0x21; 0x82; 0x18; 0x21; 0x82; 0x18; 0x12; 0x31; 0x23; 0x12; 0x31; 0x23;
   0x08; 0xe0; 0x8e; 0x08; 0xe0; 0x8e; 0x2e; 0x02; 0xe0; 0x2e; 0x02; 0xe0;
   0xf2; 0xd6; 0x8e; 0xf2; 0xd6; 0x8e; 0x66; 0xf3; 0x9a; 0xdd; 0x68; 0x93].

Definition kMaskRandom48_31 : list Z :=
  [0x53; 0x65; 0x36; 0x53; 0x65; 0x36; 0x21; 0x32; 0x13; 0x21; 0x32; 0x13;
   0x90; 0x99; 0x09; 0x90; 0x99; 0x09; 0x02; 0x50; 0x25; 0x02; 0x50; 0x25;
   0x06; 0xa0; 0x6a; 0x06; 0xa0; 0x6a; 0x2c; 0x02; 0xc0; 0x2c; 0x02; 0xc0;
   0x88; 0x68; 0x86; 0x88; 0x68; 0x86; 0x20; 0x62; 0x06; 0x20; 0x62; 0x06;
   0x80; 0x38; 0x03; 0x80; 0x38; 0x03; 0x42; 0x44; 0x24; 0x42; 0x44; 0x24;
   0x01; 0x90; 0x19; 0x01; 0x90; 0x19; 0x14; 0x11; 0x41; 0x14; 0x11; 0x41;
   0x0a; 0x80; 0xa8; 0x0a; 0x80; 0xa8; 0x38; 0x03; 0x80; 0x38; 0x03; 0x80;
   0xc5; 0x0c; 0x50; 0xc5; 0x0c; 0x50; 0x20; 0x62; 0x06; 0x20; 0x62; 0x06;
   0x80; 0x38; 0x03; 0x80; 0x38; 0x03; 0x42; 0x44; 0x24; 0x42; 0x44; 0x24;
   0x01; 0x90; 0x19; 0x01; 0x90; 0x19; 0x14; 0x11; 0x41; 0x14; 0x11; 0x41;
   0x0a; 0x80; 0xa8; 0x0a; 0x80; 0xa8; 0x38; 0x03; 0x80; 0x38; 0x03; 0x80;
   0xc5; 0x0c; 0x50; 0xc5; 0x0c; 0x50; 0x53; 0x65; 0x36; 0x53; 0x65; 0x36;
   0x21; 0x32; 0x13; 0x21; 0x32; 0x13; 0x90; 0x99; 0x09; 0x90; 0x99; 0x09;
   0x02; 0x50; 0x25; 0x02; 0x50; 0x25; 0x06; 0xa0; 0x6a; 0x06; 0xa0; 0x6a;
   0x2c; 0x02; 0xc0; 0x2c; 0x02; 0xc0; 0x88; 0x68; 0x86; 0x88; 0x68; 0x86;
   0xff; 0x6e; 0x0a; 0xff; 0x6e; 0x0a].

Definition kMaskRandom48_32 : list Z :=
  [0x20; 0x62; 0x06; 0x20; 0x62; 0x06; 0x80; 0x38; 0x03; 0x80; 0x38; 0x03;
   0x42; 0x44; 0x24; 0x42; 0x44; 0x24; 0x01; 0x90; 0x19; 0x01; 0x90; 0x19;
   0x14; 0x11; 0x41; 0x14; 0x11; 0x41; 0x0a; 0x80; 0xa8; 0x0a; 0x80; 0xa8;
   0x38; 0x03; 0x80; 0x38; 0x03; 0x80; 0xc5; 0x0c; 0x50; 0xc5; 0x0c; 0x50;
   0x53; 0x65; 0x36; 0x53; 0x65; 0x36; 0x21; 0x32; 0x13; 0x21; 0x32; 0x13;
   0x90; 0x99; 0x09; 0x90; 0x99; 0x09; 0x02; 0x50; 0x25; 0x02; 0x50; 0x25;
   0x06; 0xa0; 0x6a; 0x06; 0xa0; 0x6a; 0x2c; 0x02; 0xc0; 0x2c; 0x02; 0xc0;
   0x88; 0x68; 0x86; 0x88; 0x68; 0x86; 0xff; 0x6e; 0x0a; 0xff; 0x6e; 0x0a;
   0x53; 0x65; 0x36; 0x53; 0x65; 0x36; 0x21; 0x32; 0x13; 0x21; 0x32; 0x13;
   0x90; 0x99; 0x09; 0x90; 0x99; 0x09; 0x02; 0x50; 0x25; 0x02; 0x50; 0x25;
   0x06; 0xa0; 0x6a; 0x06; 0xa0; 0x6a; 0x2c; 0x02; 0xc0; 0x2c; 0x02; 0xc0;
   0x88; 0x68; 0x86; 0x88; 0x68; 0x86; 0x20; 0x62; 0x06; 0x20; 0x62; 0x06;
   0x80; 0x38; 0x03; 0x80; 0x38; 0x03; 0x42; 0x44; 0x24; 0x42; 0x44; 0x24;
   0x01; 0x90; 0x19; 0x01; 0x90; 0x19; 0x14; 0x11; 0x41; 0x14; 0x11; 0x41;
   0x0a; 0x80; 0xa8; 0x0a; 0x80; 0xa8; 0x38; 0x03; 0x80; 0x38; 0x03; 0x80;
   0xc5; 0x0c; 0x50; 0xc5; 0x0c; 0x50; 0xd5; 0x4a; 0x4f; 0x48; 0xb5; 0x31].

Definition kMaskRandom48_33 : list Z :=
  [0x20; 0x62; 0x06; 0x20; 0x62; 0x06; 0x80; 0x38; 0x03; 0x80; 0x38; 0x03;
   0x42; 0x44; 0x24; 0x42; 0x44; 0x24; 0x01; 0x90; 0x19; 0x01; 0x90; 0x19;
   0x14; 0x11; 0x41; 0x14; 0x11; 0x41; 0x0a; 0x80; 0xa8; 0x0a; 0x80; 0xa8;
   0x38; 0x03; 0x80; 0x38; 0x03; 0x80; 0xc5; 0x0c; 0x50; 0xc5; 0x0c; 0x50;
   0x53; 0x65; 0x36; 0x53; 0x65; 0x36; 0x21; 0x32; 0x13; 0x21; 0x32; 0x13;
   0x90; 0x99; 0x09; 0x90; 0x99; 0x09; 0x02; 0x50; 0x25; 0x02; 0x50; 0x25;
   0x06; 0xa0; 0x6a; 0x06; 0xa0; 0x6a; 0x2c; 0x02; 0xc0; 0x2c; 0x02; 0xc0;
   0x88; 0x68; 0x86; 0x88; 0x68; 0x86; 0xff; 0x6e; 0x0a; 0xff; 0x6e; 0x0a;
   0x20; 0x62; 0x06; 0x20; 0x62; 0x06; 0x80; 0x38; 0x03; 0x80; 0x38; 0x03;
   0x42; 0x44; 0x24; 0x42; 0x44; 0x24; 0x01; 0x90; 0x19; 0x01; 0x90; 0x19;
   0x14; 0x11; 0x41; 0x14; 0x11; 0x41; 0x0a; 0x80; 0xa8; 0x0a; 0x80; 0xa8;
   0x38; 0x03; 0x80; 0x38; 0x03; 0x80; 0xc5; 0x0c; 0x50; 0xc5; 0x0c; 0x50;
   0x53; 0x65; 0x36; 0x53; 0x65; 0x36; 0xe4; 0x2e; 0x42; 0xe4; 0x2e; 0x42;
   0x24; 0x42; 0x44; 0x24; 0x42; 0x44; 0xa1; 0x1a; 0x11; 0xa1; 0x1a; 0x11;
   0x18; 0x31; 0x83; 0x18; 0x31; 0x83; 0x03; 0x90; 0x39; 0x03; 0x90; 0x39;
   0x8a; 0x18; 0xa1; 0x8a; 0x18; 0xa1; 0x04; 0x90; 0x49; 0x04; 0x90; 0x49;
   0x00; 0xe0; 0x0e; 0x00; 0xe0; 0x0e].

Definition kMaskRandom48_34 : list Z :=
  [0x20; 0x62; 0x06; 0x20; 0x62; 0x06; 0x80; 0x38; 0x03; 0x80; 0x38; 0x03;
   0x42; 0x44; 0x24; 0x42; 0x44; 0x24; 0x01; 0x90; 0x19; 0x01; 0x90; 0x19;
   0x14; 0x11; 0x41; 0x14; 0x11; 0x41; 0x0a; 0x80; 0xa8; 0x0a; 0x80; 0xa8;
   0x38; 0x03; 0x80; 0x38; 0x03; 0x80; 0xc5; 0x0c; 0x50; 0xc5; 0x0c; 0x50;
   0x53; 0x65; 0x36; 0x53; 0x65; 0x36; 0xe4; 0x2e; 0x42; 0xe4; 0x2e; 0x42;
   0x24; 0x42; 0x44; 0x24; 0x42; 0x44; 0xa1; 0x1a; 0x11; 0xa1; 0x1a; 0x11;
   0x18; 0x31; 0x83; 0x18; 0x31; 0x83; 0x03; 0x90; 0x39; 0x03; 0x90; 0x39;
   0x8a; 0x18; 0xa1; 0x8a; 0x18; 0xa1; 0x04; 0x90; 0x49; 0x04; 0x90; 0x49;
   0x00; 0xe0; 0x0e; 0x00; 0xe0; 0x0e; 0x20; 0x62; 0x06; 0x20; 0x62; 0x06;
   0x80; 0x38; 0x03; 0x80; 0x38; 0x03; 0x42; 0x44; 0x24; 0x42; 0x44; 0x24;
   0x01; 0x90; 0x19; 0x01; 0x90; 0x19; 0x14; 0x11; 0x41; 0x14; 0x11; 0x41;
   0x0a; 0x80; 0xa8; 0x0a; 0x80; 0xa8; 0x38; 0x03; 0x80; 0x38; 0x03; 0x80;
   0xc5; 0x0c; 0x50; 0xc5; 0x0c; 0x50; 0x53; 0x65; 0x36; 0x53; 0x65; 0x36;
   0x21; 0x32; 0x13; 0x21; 0x32; 0x13; 0x90; 0x99; 0x09; 0x90; 0x99; 0x09;
   0x02; 0x50; 0x25; 0x02; 0x50; 0x25; 0x06; 0xa0; 0x6a; 0x06; 0xa0; 0x6a;
   0x2c; 0x02; 0xc0; 0x2c; 0x02; 0xc0; 0x88; 0x68; 0x86; 0x88; 0x68; 0x86;
   0xff; 0x6e; 0x0a; 0xff; 0x6e; 0x0a; 0x40; 0x72; 0x4c; 0xe8; 0xf2; 0x42].

Definition kMaskRandom48_35 : list Z :=
  [0x20; 0x62; 0x06; 0x20; 0x62; 0x06; 0x80; 0x38; 0x03; 0x80; 0x38; 0x03;
   0x42; 0x44; 0x24; 0x42; 0x44; 0x24; 0x01; 0x90; 0x19; 0x01; 0x90; 0x19;
   0x14; 0x11; 0x41; 0x14; 0x11; 0x41; 0x0a; 0x80; 0xa8; 0x0a; 0x80; 0xa8;
   0x38; 0x03; 0x80; 0x38; 0x03; 0x80; 0xc5; 0x0c; 0x50; 0xc5; 0x0c; 0x50;
   0x53; 0x65; 0x36; 0x53; 0x65; 0x36; 0xe4; 0x2e; 0x42; 0xe4; 0x2e; 0x42;
   0x24; 0x42; 0x44; 0x24; 0x42; 0x44; 0xa1; 0x1a; 0x11; 0xa1; 0x1a; 0x11;
   0x18; 0x31; 0x83; 0x18; 0x31; 0x83; 0x03; 0x90; 0x39; 0x03; 0x90; 0x39;
   0x8a; 0x18; 0xa1; 0x8a; 0x18; 0xa1; 0x04; 0x90; 0x49; 0x04; 0x90; 0x49;
   0x00; 0xe0; 0x0e; 0x00; 0xe0; 0x0e; 0x53; 0x65; 0x36; 0x53; 0x65; 0x36;
   0xe4; 0x2e; 0x42; 0xe4; 0x2e; 0x42; 0x24; 0x42; 0x44; 0x24; 0x42; 0x44;
   0xa1; 0x1a; 0x11; 0xa1; 0x1a; 0x11; 0x18; 0x31; 0x83; 0x18; 0x31; 0x83;
   0x03; 0x90; 0x39; 0x03; 0x90; 0x39; 0x8a; 0x18; 0xa1; 0x8a; 0x18; 0xa1;
   0x04; 0x90; 0x49; 0x04; 0x90; 0x49; 0x00; 0xe0; 0x0e; 0x00; 0xe0; 0x0e;
   0x20; 0x62; 0x06; 0x20; 0x62; 0x06; 0x80; 0x38; 0x03; 0x80; 0x38; 0x03;
   0x42; 0x44; 0x24; 0x42; 0x44; 0x24; 0x01; 0x90; 0x19; 0x01; 0x90; 0x19;
   0x14; 0x11; 0x41; 0x14; 0x11; 0x41; 0x0a; 0x80; 0xa8; 0x0a; 0x80; 0xa8;
   0x38; 0x03; 0x80; 0x38; 0x03; 0x80; 0xc5; 0x0c; 0x50; 0xc5; 0x0c; 0x50;
   0x34; 0x50; 0xae; 0x34; 0x50; 0xae].

Definition kMaskRandom48_36 : list Z :=
  [0x53; 0x65; 0x36; 0x53; 0x65; 0x36; 0xe4; 0x2e; 0x42; 0xe4; 0x2e; 0x42;
   0x24; 0x42; 0x44; 0x24; 0x42; 0x44; 0xa1; 0x1a; 0x11; 0xa1; 0x1a; 0x11;
   0x18; 0x31; 0x83; 0x18; 0x31; 0x83; 0x03; 0x90; 0x39; 0x03; 0x90; 0x39;
   0x8a; 0x18; 0xa1; 0x8a; 0x18; 0xa1; 0x04; 0x90; 0x49; 0x04; 0x90; 0x49;
   0x00; 0xe0; 0x0e; 0x00; 0xe0; 0x0e; 0x20; 0x62; 0x06; 0x20; 0x62; 0x06;
   0x80; 0x38; 0x03; 0x80; 0x38; 0x03; 0x42; 0x44; 0x24; 0x42; 0x44; 0x24;
   0x01; 0x90; 0x19; 0x01; 0x90; 0x19; 0x14; 0x11; 0x41; 0x14; 0x11; 0x41;
   0x0a; 0x80; 0xa8; 0x0a; 0x80; 0xa8; 0x38; 0x03; 0x80; 0x38; 0x03; 0x80;
   0xc5; 0x0c; 0x50; 0xc5; 0x0c; 0x50; 0x34; 0x50; 0xae; 0x34; 0x50; 0xae;
   0x20; 0x62; 0x06; 0x20; 0x62; 0x06; 0x80; 0x38; 0x03; 0x80; 0x38; 0x03;
   0x42; 0x44; 0x24; 0x42; 0x44; 0x24; 0x01; 0x90; 0x19; 0x01; 0x90; 0x19;
   0x14; 0x11; 0x41; 0x14; 0x11; 0x41; 0x0a; 0x80; 0xa8; 0x0a; 0x80; 0xa8;
   0x38; 0x03; 0x80; 0x38; 0x03; 0x80; 0xc5; 0x0c; 0x50; 0xc5; 0x0c; 0x50;
   0x53; 0x65; 0x36; 0x53; 0x65; 0x36; 0xe4; 0x2e; 0x42; 0xe4; 0x2e; 0x42;
   0x24; 0x42; 0x44; 0x24; 0x42; 0x44; 0xa1; 0x1a; 0x11; 0xa1; 0x1a; 0x11;
   0x18; 0x31; 0x83; 0x18; 0x31; 0x83; 0x03; 0x90; 0x39; 0x03; 0x90; 0x39;
   0x8a; 0x18; 0xa1; 0x8a; 0x18; 0xa1; 0x04; 0x90; 0x49; 0x04; 0x90; 0x49;
   0x00; 0xe0; 0x0e; 0x00; 0xe0; 0x0e; 0x71; 0xba; 0x8b; 0xf3; 0xfa; 0x9d].

Definition kMaskRandom48_37 : list Z :=
  [0x53; 0x65; 0x36; 0x53; 0x65; 0x36; 0xe4; 0x2e; 0x42; 0xe4; 0x2e; 0x42;
   0x24; 0x42; 0x44; 0x24; 0x42; 0x44; 0xa1; 0x1a; 0x11; 0xa1; 0x1a; 0x11;
   0x18; 0x31; 0x83; 0x18; 0x31; 0x83; 0x03; 0x90; 0x39; 0x03; 0x90; 0x39;
   0x8a; 0x18; 0xa1; 0x8a; 0x18; 0xa1; 0x04; 0x90; 0x49; 0x04; 0x90; 0x49;
   0x00; 0xe0; 0x0e; 0x00; 0xe0; 0x0e; 0x20; 0x62; 0x06; 0x20; 0x62; 0x06;
   0x80; 0x38; 0x03; 0x80; 0x38; 0x03; 0x42; 0x44; 0x24; 0x42; 0x44; 0x24;
   0x01; 0x90; 0x19; 0x01; 0x90; 0x19; 0x14; 0x11; 0x41; 0x14; 0x11; 0x41;
   0x0a; 0x80; 0xa8; 0x0a; 0x80; 0xa8; 0x38; 0x03; 0x80; 0x38; 0x03; 0x80;
   0xc5; 0x0c; 0x50; 0xc5; 0x0c; 0x50; 0x34; 0x50; 0xae; 0x34; 0x50; 0xae;
   0x53; 0x65; 0x36; 0x53; 0x65; 0x36; 0xe4; 0x2e; 0x42; 0xe4; 0x2e; 0x42;
   0x24; 0x42; 0x44; 0x24; 0x42; 0x44; 0xa1; 0x1a; 0x11; 0xa1; 0x1a; 0x11;
   0x18; 0x31; 0x83; 0x18; 0x31; 0x83; 0x03; 0x90; 0x39; 0x03; 0x90; 0x39;
   0x8a; 0x18; 0xa1; 0x8a; 0x18; 0xa1; 0x04; 0x90; 0x49; 0x04; 0x90; 0x49;
   0x00; 0xe0; 0x0e; 0x00; 0xe0; 0x0e; 0x51; 0x45; 0x14; 0x51; 0x45; 0x14;
   0x45; 0x14; 0x51; 0x45; 0x14; 0x51; 0x80; 0xd8; 0x0d; 0x80; 0xd8; 0x0d;
   0x24; 0x22; 0x42; 0x24; 0x22; 0x42; 0x0a; 0x20; 0xa2; 0x0a; 0x20; 0xa2;
   0x00; 0xe0; 0x0e; 0x00; 0xe0; 0x0e; 0xb8; 0x0b; 0x80; 0xb8; 0x0b; 0x80;
   0x09; 0x10; 0x91; 0x09; 0x10; 0x91; 0x56; 0x05; 0x60; 0x56; 0x05; 0x60;
   0xa2; 0x8a; 0x28; 0xa2; 0x8a; 0x28].

Definition kMaskRandom48_38 : list Z :=
  [0x53; 0x65; 0x36; 0x53; 0x65; 0x36; 0xe4; 0x2e; 0x42; 0xe4; 0x2e; 0x42;
   0x24; 0x42; 0x44; 0x24; 0x42; 0x44; 0xa1; 0x1a; 0x11; 0xa1; 0x1a; 0x11;
   0x18; 0x31; 0x83; 0x18; 0x31; 0x83; 0x03; 0x90; 0x39; 0x03; 0x90; 0x39;
   0x8a; 0x18; 0xa1; 0x8a; 0x18; 0xa1; 0x04; 0x90; 0x49; 0x04; 0x90; 0x49;
   0x00; 0xe0; 0x0e; 0x00; 0xe0; 0x0e; 0x51; 0x45; 0x14; 0x51; 0x45; 0x14;
   0x45; 0x14; 0x51; 0x45; 0x14; 0x51; 0x80; 0xd8; 0x0d; 0x80; 0xd8; 0x0d;
   0x24; 0x22; 0x42; 0x24; 0x22; 0x42; 0x0a; 0x20; 0xa2; 0x0a; 0x20; 0xa2;
   0x00; 0xe0; 0x0e; 0x00; 0xe0; 0x0e; 0xb8; 0x0b; 0x80; 0xb8; 0x0b; 0x80;
   0x09; 0x10; 0x91; 0x09; 0x10; 0x91; 0x56; 0x05; 0x60; 0x56; 0x05; 0x60;
   0xa2; 0x8a; 0x28; 0xa2; 0x8a; 0x28; 0x53; 0x65; 0x36; 0x53; 0x65; 0x36;
   0xe4; 0x2e; 0x42; 0xe4; 0x2e; 0x42; 0x24; 0x42; 0x44; 0x24; 0x42; 0x44;
   0xa1; 0x1a; 0x11; 0xa1; 0x1a; 0x11; 0x18; 0x31; 0x83; 0x18; 0x31; 0x83;
   0x03; 0x90; 0x39; 0x03; 0x90; 0x39; 0x8a; 0x18; 0xa1; 0x8a; 0x18; 0xa1;
   0x04; 0x90; 0x49; 0x04; 0x90; 0x49; 0x00; 0xe0; 0x0e; 0x00; 0xe0; 0x0e;
   0x20; 0x62; 0x06; 0x20; 0x62; 0x06; 0x80; 0x38; 0x03; 0x80; 0x38; 0x03;
   0x42; 0x44; 0x24; 0x42; 0x44; 0x24; 0x01; 0x90; 0x19; 0x01; 0x90; 0x19;
   0x14; 0x11; 0x41; 0x14; 0x11; 0x41; 0x0a; 0x80; 0xa8; 0x0a; 0x80; 0xa8;
   0x38; 0x03; 0x80; 0x38; 0x03; 0x80; 0xc5; 0x0c; 0x50; 0xc5; 0x0c; 0x50;
   0x34; 0x50; 0xae; 0x34; 0x50; 0xae; 0x2a; 0x7a; 0xf6; 0x8c; 0xde; 0x51].

Definition kMaskRandom48_39 : list Z :=
  [0x53; 0x65; 0x36; 0x53; 0x65; 0x36; 0xe4; 0x2e; 0x42; 0xe4; 0x2e; 0x42;
   0x24; 0x42; 0x44; 0x24; 0x42; 0x44; 0xa1; 0x1a; 0x11; 0xa1; 0x1a; 0x11;
   0x18; 0x31; 0x83; 0x18; 0x31; 0x83; 0x03; 0x90; 0x39; 0x03; 0x90; 0x39;
   0x8a; 0x18; 0xa1; 0x8a; 0x18; 0xa1; 0x04; 0x90; 0x49; 0x04; 0x90; 0x49;
   0x00; 0xe0; 0x0e; 0x00; 0xe0; 0x0e; 0x51; 0x45; 0x14; 0x51; 0x45; 0x14;
   0x45; 0x14; 0x51; 0x45; 0x14; 0x51; 0x80; 0xd8; 0x0d; 0x80; 0xd8; 0x0d;
   0x24; 0x22; 0x42; 0x24; 0x22; 0x42; 0x0a; 0x20; 0xa2; 0x0a; 0x20; 0xa2;
   0x00; 0xe0; 0x0e; 0x00; 0xe0; 0x0e; 0xb8; 0x0b; 0x80; 0xb8; 0x0b; 0x80;
   0x09; 0x10; 0x91; 0x09; 0x10; 0x91; 0x56; 0x05; 0x60; 0x56; 0x05; 0x60;
   0xa2; 0x8a; 0x28; 0xa2; 0x8a; 0x28; 0x51; 0x45; 0x14; 0x51; 0x45; 0x14;
   0x45; 0x14; 0x51; 0x45; 0x14; 0x51; 0x80; 0xd8; 0x0d; 0x80; 0xd8; 0x0d;
   0x24; 0x22; 0x42; 0x24; 0x22; 0x42; 0x0a; 0x20; 0xa2; 0x0a; 0x20; 0xa2;
   0x00; 0xe0; 0x0e; 0x00; 0xe0; 0x0e; 0xb8; 0x0b; 0x80; 0xb8; 0x0b; 0x80;
   0x09; 0x10; 0x91; 0x09; 0x10; 0x91; 0x56; 0x05; 0x60; 0x56; 0x05; 0x60;
   0xa2; 0x8a; 0x28; 0xa2; 0x8a; 0x28; 0x53; 0x65; 0x36; 0x53; 0x65; 0x36;
   0xe4; 0x2e; 0x42; 0xe4; 0x2e; 0x42; 0x24; 0x42; 0x44; 0x24; 0x42; 0x44;
   0xa1; 0x1a; 0x11; 0xa1; 0x1a; 0x11; 0x18; 0x31; 0x83; 0x18; 0x31; 0x83;
   0x03; 0x90; 0x39; 0x03; 0x90; 0x39; 0x8a; 0x18; 0xa1; 0x8a; 0x18; 0xa1;
   0x04; 0x90; 0x49; 0x04; 0x90; 0x49; 0x00; 0xe0; 0x0e; 0x00; 0xe0; 0x0e;
   0x98; 0xa2; 0x95; 0x98; 0xa2; 0x95].

Definition kMaskRandom48_40 : list Z :=
  [0x51; 0x45; 0x14; 0x51; 0x45; 0x14; 0x45; 0x14; 0x51; 0x45; 0x14; 0x51;
   0x80; 0xd8; 0x0d; 0x80; 0xd8; 0x0d; 0x24; 0x22; 0x42; 0x24; 0x22; 0x42;
   0x0a; 0x20; 0xa2; 0x0a; 0x20; 0xa2; 0x00; 0xe0; 0x0e; 0x00; 0xe0; 0x0e;
   0xb8; 0x0b; 0x80; 0xb8; 0x0b; 0x80; 0x09; 0x10; 0x91; 0x09; 0x10; 0x91;
   0x56; 0x05; 0x60; 0x56; 0x05; 0x60; 0xa2; 0x8a; 0x28; 0xa2; 0x8a; 0x28;
   0x53; 0x65; 0x36; 0x53; 0x65; 0x36; 0xe4; 0x2e; 0x42; 0xe4; 0x2e; 0x42;
   0x24; 0x42; 0x44; 0x24; 0x42; 0x44; 0xa1; 0x1a; 0x11; 0xa1; 0x1a; 0x11;
   0x18; 0x31; 0x83; 0x18; 0x31; 0x83; 0x03; 0x90; 0x39; 0x03; 0x90; 0x39;
   0x8a; 0x18; 0xa1; 0x8a; 0x18; 0xa1; 0x04; 0x90; 0x49; 0x04; 0x90; 0x49;
   0x00; 0xe0; 0x0e; 0x00; 0xe0; 0x0e; 0x98; 0xa2; 0x95; 0x98; 0xa2; 0x95;
   0x53; 0x65; 0x36; 0x53; 0x65; 0x36; 0xe4; 0x2e; 0x42; 0xe4; 0x2e; 0x42;
   0x24; 0x42; 0x44; 0x24; 0x42; 0x44; 0xa1; 0x1a; 0x11; 0xa1; 0x1a; 0x11;
   0x18; 0x31; 0x83; 0x18; 0x31; 0x83; 0x03; 0x90; 0x39; 0x03; 0x90; 0x39;
   0x8a; 0x18; 0xa1; 0x8a; 0x18; 0xa1; 0x04; 0x90; 0x49; 0x04; 0x90; 0x49;
   0x00; 0xe0; 0x0e; 0x00; 0xe0; 0x0e; 0x51; 0x45; 0x14; 0x51; 0x45; 0x14;
   0x45; 0x14; 0x51; 0x45; 0x14; 0x51; 0x80; 0xd8; 0x0d; 0x80; 0xd8; 0x0d;
   0x24; 0x22; 0x42; 0x24; 0x22; 0x42; 0x0a; 0x20; 0xa2; 0x0a; 0x20; 0xa2;
   0x00; 0xe0; 0x0e; 0x00; 0xe0; 0x0e; 0xb8; 0x0b; 0x80; 0xb8; 0x0b; 0x80;
   0x09; 0x10; 0x91; 0x09; 0x10; 0x91; 0x56; 0x05; 0x60; 0x56; 0x05; 0x60;
   0xa2; 0x8a; 0x28; 0xa2; 0x8a; 0x28; 0x20; 0x5f; 0x68; 0xd5; 0xa2; 0x1b].

Definition kMaskRandom48_41 : list Z :=
  [0x51; 0x45; 0x14; 0x51; 0x45; 0x14; 0x45; 0x14; 0x51; 0x45; 0x14; 0x51;
   0x80; 0xd8; 0x0d; 0x80; 0xd8; 0x0d; 0x24; 0x22; 0x42; 0x24; 0x22; 0x42;
   0x0a; 0x20; 0xa2; 0x0a; 0x20; 0xa2; 0x00; 0xe0; 0x0e; 0x00; 0xe0; 0x0e;
   0xb8; 0x0b; 0x80; 0xb8; 0x0b; 0x80; 0x09; 0x10; 0x91; 0x09; 0x10; 0x91;
   0x56; 0x05; 0x60; 0x56; 0x05; 0x60; 0xa2; 0x8a; 0x28; 0xa2; 0x8a; 0x28;
   0x53; 0x65; 0x36; 0x53; 0x65; 0x36; 0xe4; 0x2e; 0x42; 0xe4; 0x2e; 0x42;
   0x24; 0x42; 0x44; 0x24; 0x42; 0x44; 0xa1; 0x1a; 0x11; 0xa1; 0x1a; 0x11;
   0x18; 0x31; 0x83; 0x18; 0x31; 0x83; 0x03; 0x90; 0x39; 0x03; 0x90; 0x39;
   0x8a; 0x18; 0xa1; 0x8a; 0x18; 0xa1; 0x04; 0x90; 0x49; 0x04; 0x90; 0x49;
   0x00; 0xe0; 0x0e; 0x00; 0xe0; 0x0e; 0x98; 0xa2; 0x95; 0x98; 0xa2; 0x95;
   0x51; 0x45; 0x14; 0x51; 0x45; 0x14; 0x45; 0x14; 0x51; 0x45; 0x14; 0x51;
   0x80; 0xd8; 0x0d; 0x80; 0xd8; 0x0d; 0x24; 0x22; 0x42; 0x24; 0x22; 0x42;
   0x0a; 0x20; 0xa2; 0x0a; 0x20; 0xa2; 0x00; 0xe0; 0x0e; 0x00; 0xe0; 0x0e;
   0xb8; 0x0b; 0x80; 0xb8; 0x0b; 0x80; 0x09; 0x10; 0x91; 0x09; 0x10; 0x91;
   0x56; 0x05; 0x60; 0x56; 0x05; 0x60; 0xa2; 0x8a; 0x28; 0xa2; 0x8a; 0x28;
   0x53; 0x65; 0x36; 0x53; 0x65; 0x36; 0x21; 0x32; 0x13; 0x21; 0x32; 0x13;
   0x10; 0x91; 0x09; 0x10; 0x91; 0x09; 0x00; 0x70; 0x07; 0x00; 0x70; 0x07;
   0x0c; 0x10; 0xc1; 0x0c; 0x10; 0xc1; 0x40; 0xc4; 0x0c; 0x40; 0xc4; 0x0c;
   0x6a; 0x06; 0xa0; 0x6a; 0x06; 0xa0; 0x86; 0x08; 0x60; 0x86; 0x08; 0x60;
   0x24; 0x82; 0x48; 0x24; 0x82; 0x48; 0x89; 0x08; 0x90; 0x89; 0x08; 0x90;
   0xc0; 0x2c; 0x02; 0xc0; 0x2c; 0x02].

Definition kMaskRandom48_42 : list Z :=
  [0x51; 0x45; 0x14; 0x51; 0x45; 0x14; 0x45; 0x14; 0x51; 0x45; 0x14; 0x51;
   0x80; 0xd8; 0x0d; 0x80; 0xd8; 0x0d; 0x24; 0x22; 0x42; 0x24; 0x22; 0x42;
   0x0a; 0x20; 0xa2; 0x0a; 0x20; 0xa2; 0x00; 0xe0; 0x0e; 0x00; 0xe0; 0x0e;
   0xb8; 0x0b; 0x80; 0xb8; 0x0b; 0x80; 0x09; 0x10; 0x91; 0x09; 0x10; 0x91;
   0x56; 0x05; 0x60; 0x56; 0x05; 0x60; 0xa2; 0x8a; 0x28; 0xa2; 0x8a; 0x28;
   0x53; 0x65; 0x36; 0x53; 0x65; 0x36; 0x21; 0x32; 0x13; 0x21; 0x32; 0x13;
   0x10; 0x91; 0x09; 0x10; 0x91; 0x09; 0x00; 0x70; 0x07; 0x00; 0x70; 0x07;
   0x0c; 0x10; 0xc1; 0x0c; 0x10; 0xc1; 0x40; 0xc4; 0x0c; 0x40; 0xc4; 0x0c;
   0x6a; 0x06; 0xa0; 0x6a; 0x06; 0xa0; 0x86; 0x08; 0x60; 0x86; 0x08; 0x60;
   0x24; 0x82; 0x48; 0x24; 0x82; 0x48; 0x89; 0x08; 0x90; 0x89; 0x08; 0x90;
   0xc0; 0x2c; 0x02; 0xc0; 0x2c; 0x02; 0x51; 0x45; 0x14; 0x51; 0x45; 0x14;
   0x45; 0x14; 0x51; 0x45; 0x14; 0x51; 0x80; 0xd8; 0x0d; 0x80; 0xd8; 0x0d;
   0x24; 0x22; 0x42; 0x24; 0x22; 0x42; 0x0a; 0x20; 0xa2; 0x0a; 0x20; 0xa2;
   0x00; 0xe0; 0x0e; 0x00; 0xe0; 0x0e; 0xb8; 0x0b; 0x80; 0xb8; 0x0b; 0x80;
   0x09; 0x10; 0x91; 0x09; 0x10; 0x91; 0x56; 0x05; 0x60; 0x56; 0x05; 0x60;
   0xa2; 0x8a; 0x28; 0xa2; 0x8a; 0x28; 0x53; 0x65; 0x36; 0x53; 0x65; 0x36;
   0xe4; 0x2e; 0x42; 0xe4; 0x2e; 0x42; 0x24; 0x42; 0x44; 0x24; 0x42; 0x44;
   0xa1; 0x1a; 0x11; 0xa1; 0x1a; 0x11; 0x18; 0x31; 0x83; 0x18; 0x31; 0x83;
   0x03; 0x90; 0x39; 0x03; 0x90; 0x39; 0x8a; 0x18; 0xa1; 0x8a; 0x18; 0xa1;
   0x04; 0x90; 0x49; 0x04; 0x90; 0x49; 0x00; 0xe0; 0x0e; 0x00; 0xe0; 0x0e;
   0x98; 0xa2; 0x95; 0x98; 0xa2; 0x95; 0x66; 0xcf; 0xa3; 0x47; 0x69; 0x00].

Definition kMaskRandom48_43 : list Z :=
  [0x51; 0x45; 0x14; 0x51; 0x45; 0x14; 0x45; 0x14; 0x51; 0x45; 0x14; 0x51;
   0x80; 0xd8; 0x0d; 0x80; 0xd8; 0x0d; 0x24; 0x22; 0x42; 0x24; 0x22; 0x42;
   0x0a; 0x20; 0xa2; 0x0a; 0x20; 0xa2; 0x00; 0xe0; 0x0e; 0x00; 0xe0; 0x0e;
   0xb8; 0x0b; 0x80; 0xb8; 0x0b; 0x80; 0x09; 0x10; 0x91; 0x09; 0x10; 0x91;
   0x56; 0x05; 0x60; 0x56; 0x05; 0x60; 0xa2; 0x8a; 0x28; 0xa2; 0x8a; 0x28;
   0x53; 0x65; 0x36; 0x53; 0x65; 0x36; 0x21; 0x32; 0x13; 0x21; 0x32; 0x13;
   0x10; 0x91; 0x09; 0x10; 0x91; 0x09; 0x00; 0x70; 0x07; 0x00; 0x70; 0x07;
   0x0c; 0x10; 0xc1; 0x0c; 0x10; 0xc1; 0x40; 0xc4; 0x0c; 0x40; 0xc4; 0x0c;
   0x6a; 0x06; 0xa0; 0x6a; 0x06; 0xa0; 0x86; 0x08; 0x60; 0x86; 0x08; 0x60;
   0x24; 0x82; 0x48; 0x24; 0x82; 0x48; 0x89; 0x08; 0x90; 0x89; 0x08; 0x90;
   0xc0; 0x2c; 0x02; 0xc0; 0x2c; 0x02; 0x53; 0x65; 0x36; 0x53; 0x65; 0x36;
   0x21; 0x32; 0x13; 0x21; 0x32; 0x13; 0x10; 0x91; 0x09; 0x10; 0x91; 0x09;
   0x00; 0x70; 0x07; 0x00; 0x70; 0x07; 0x0c; 0x10; 0xc1; 0x0c; 0x10; 0xc1;
   0x40; 0xc4; 0x0c; 0x40; 0xc4; 0x0c; 0x6a; 0x06; 0xa0; 0x6a; 0x06; 0xa0;
   0x86; 0x08; 0x60; 0x86; 0x08; 0x60; 0x24; 0x82; 0x48; 0x24; 0x82; 0x48;
   0x89; 0x08; 0x90; 0x89; 0x08; 0x90; 0xc0; 0x2c; 0x02; 0xc0; 0x2c; 0x02;
   0x51; 0x45; 0x14; 0x51; 0x45; 0x14; 0x45; 0x14; 0x51; 0x45; 0x14; 0x51;
   0x80; 0xd8; 0x0d; 0x80; 0xd8; 0x0d; 0x24; 0x22; 0x42; 0x24; 0x22; 0x42;
   0x0a; 0x20; 0xa2; 0x0a; 0x20; 0xa2; 0x00; 0xe0; 0x0e; 0x00; 0xe0; 0x0e;
   0xb8; 0x0b; 0x80; 0xb8; 0x0b; 0x80; 0x09; 0x10; 0x91; 0x09; 0x10; 0x91;
   0x56; 0x05; 0x60; 0x56; 0x05; 0x60; 0xa2; 0x8a; 0x28; 0xa2; 0x8a; 0x28;
   0x1a; 0xaa; 0xee; 0x1a; 0xaa; 0xee].

Definition kMaskRandom48_44 : list Z :=
  [0x53; 0x65; 0x36; 0x53; 0x65; 0x36; 0x21; 0x32; 0x13; 0x21; 0x32; 0x13;
   0x10; 0x91; 0x09; 0x10; 0x91; 0x09; 0x00; 0x70; 0x07; 0x00; 0x70; 0x07;
   0x0c; 0x10; 0xc1; 0x0c; 0x10; 0xc1; 0x40; 0xc4; 0x0c; 0x40; 0xc4; 0x0c;
   0x6a; 0x06; 0xa0; 0x6a; 0x06; 0xa0; 0x86; 0x08; 0x60; 0x86; 0x08; 0x60;
   0x24; 0x82; 0x48; 0x24; 0x82; 0x48; 0x89; 0x08; 0x90; 0x89; 0x08; 0x90;
   0xc0; 0x2c; 0x02; 0xc0; 0x2c; 0x02; 0x51; 0x45; 0x14; 0x51; 0x45; 0x14;
   0x45; 0x14; 0x51; 0x45; 0x14; 0x51; 0x80; 0xd8; 0x0d; 0x80; 0xd8; 0x0d;
   0x24; 0x22; 0x42; 0x24; 0x22; 0x42; 0x0a; 0x20; 0xa2; 0x0a; 0x20; 0xa2;
   0x00; 0xe0; 0x0e; 0x00; 0xe0; 0x0e; 0xb8; 0x0b; 0x80; 0xb8; 0x0b; 0x80;
   0x09; 0x10; 0x91; 0x09; 0x10; 0x91; 0x56; 0x05; 0x60; 0x56; 0x05; 0x60;
   0xa2; 0x8a; 0x28; 0xa2; 0x8a; 0x28; 0x1a; 0xaa; 0xee; 0x1a; 0xaa; 0xee;
   0x51; 0x45; 0x14; 0x51; 0x45; 0x14; 0x45; 0x14; 0x51; 0x45; 0x14; 0x51;
   0x80; 0xd8; 0x0d; 0x80; 0xd8; 0x0d; 0x24; 0x22; 0x42; 0x24; 0x22; 0x42;
   0x0a; 0x20; 0xa2; 0x0a; 0x20; 0xa2; 0x00; 0xe0; 0x0e; 0x00; 0xe0; 0x0e;
   0xb8; 0x0b; 0x80; 0xb8; 0x0b; 0x80; 0x09; 0x10; 0x91; 0x09; 0x10; 0x91;
   0x56; 0x05; 0x60; 0x56; 0x05; 0x60; 0xa2; 0x8a; 0x28; 0xa2; 0x8a; 0x28;
   0x53; 0x65; 0x36; 0x53; 0x65; 0x36; 0x21; 0x32; 0x13; 0x21; 0x32; 0x13;
   0x10; 0x91; 0x09; 0x10; 0x91; 0x09; 0x00; 0x70; 0x07; 0x00; 0x70; 0x07;
   0x0c; 0x10; 0xc1; 0x0c; 0x10; 0xc1; 0x40; 0xc4; 0x0c; 0x40; 0xc4; 0x0c;
   0x6a; 0x06; 0xa0; 0x6a; 0x06; 0xa0; 0x86; 0x08; 0x60; 0x86; 0x08; 0x60;
   0x24; 0x82; 0x48; 0x24; 0x82; 0x48; 0x89; 0x08; 0x90; 0x89; 0x08; 0x90;
   0xc0; 0x2c; 0x02; 0xc0; 0x2c; 0x02; 0xc6; 0x40; 0x1f; 0x57; 0xc6; 0xe6].

Definition kMaskRandom48_45 : list Z :=
  [0x53; 0x65; 0x36; 0x53; 0x65; 0x36; 0x21; 0x32; 0x13; 0x21; 0x32; 0x13;
   0x10; 0x91; 0x09; 0x10; 0x91; 0x09; 0x00; 0x70; 0x07; 0x00; 0x70; 0x07;
   0x0c; 0x10; 0xc1; 0x0c; 0x10; 0xc1; 0x40; 0xc4; 0x0c; 0x40; 0xc4; 0x0c;
   0x6a; 0x06; 0xa0; 0x6a; 0x06; 0xa0; 0x86; 0x08; 0x60; 0x86; 0x08; 0x60;
   0x24; 0x82; 0x48; 0x24; 0x82; 0x48; 0x89; 0x08; 0x90; 0x89; 0x08; 0x90;
   0xc0; 0x2c; 0x02; 0xc0; 0x2c; 0x02; 0x51; 0x45; 0x14; 0x51; 0x45; 0x14;
   0x45; 0x14; 0x51; 0x45; 0x14; 0x51; 0x80; 0xd8; 0x0d; 0x80; 0xd8; 0x0d;
   0x24; 0x22; 0x42; 0x24; 0x22; 0x42; 0x0a; 0x20; 0xa2; 0x0a; 0x20; 0xa2;
   0x00; 0xe0; 0x0e; 0x00; 0xe0; 0x0e; 0xb8; 0x0b; 0x80; 0xb8; 0x0b; 0x80;
   0x09; 0x10; 0x91; 0x09; 0x10; 0x91; 0x56; 0x05; 0x60; 0x56; 0x05; 0x60;
   0xa2; 0x8a; 0x28; 0xa2; 0x8a; 0x28; 0x1a; 0xaa; 0xee; 0x1a; 0xaa; 0xee;
   0x53; 0x65; 0x36; 0x53; 0x65; 0x36; 0x21; 0x32; 0x13; 0x21; 0x32; 0x13;
   0x10; 0x91; 0x09; 0x10; 0x91; 0x09; 0x00; 0x70; 0x07; 0x00; 0x70; 0x07;
   0x0c; 0x10; 0xc1; 0x0c; 0x10; 0xc1; 0x40; 0xc4; 0x0c; 0x40; 0xc4; 0x0c;
   0x6a; 0x06; 0xa0; 0x6a; 0x06; 0xa0; 0x86; 0x08; 0x60; 0x86; 0x08; 0x60;
   0x24; 0x82; 0x48; 0x24; 0x82; 0x48; 0x89; 0x08; 0x90; 0x89; 0x08; 0x90;
   0xc0; 0x2c; 0x02; 0xc0; 0x2c; 0x02; 0x10; 0x61; 0x06; 0x10; 0x61; 0x06;
   0x02; 0x30; 0x23; 0x02; 0x30; 0x23; 0x40; 0x54; 0x05; 0x40; 0x54; 0x05;
   0x21; 0x82; 0x18; 0x21; 0x82; 0x18; 0x81; 0x18; 0x11; 0x81; 0x18; 0x11;
   0x14; 0x81; 0x48; 0x14; 0x81; 0x48; 0x98; 0x09; 0x80; 0x98; 0x09; 0x80;
   0x08; 0x90; 0x89; 0x08; 0x90; 0x89; 0x62; 0x06; 0x20; 0x62; 0x06; 0x20;
   0x24; 0x22; 0x42; 0x24; 0x22; 0x42; 0x8a; 0x08; 0xa0; 0x8a; 0x08; 0xa0;
   0x84; 0x48; 0x44; 0x84; 0x48; 0x44].

Definition kMaskRandom48_46 : list Z :=
  [0x53; 0x65; 0x36; 0x53; 0x65; 0x36; 0x21; 0x32; 0x13; 0x21; 0x32; 0x13;
   0x10; 0x91; 0x09; 0x10; 0x91; 0x09; 0x00; 0x70; 0x07; 0x00; 0x70; 0x07;
   0x0c; 0x10; 0xc1; 0x0c; 0x10; 0xc1; 0x40; 0xc4; 0x0c; 0x40; 0xc4; 0x0c;
   0x6a; 0x06; 0xa0; 0x6a; 0x06; 0xa0; 0x86; 0x08; 0x60; 0x86; 0x08; 0x60;
   0x24; 0x82; 0x48; 0x24; 0x82; 0x48; 0x89; 0x08; 0x90; 0x89; 0x08; 0x90;
   0xc0; 0x2c; 0x02; 0xc0; 0x2c; 0x02; 0x10; 0x61; 0x06; 0x10; 0x61; 0x06;
   0x02; 0x30; 0x23; 0x02; 0x30; 0x23; 0x40; 0x54; 0x05; 0x40; 0x54; 0x05;
   0x21; 0x82; 0x18; 0x21; 0x82; 0x18; 0x81; 0x18; 0x11; 0x81; 0x18; 0x11;
   0x14; 0x81; 0x48; 0x14; 0x81; 0x48; 0x98; 0x09; 0x80; 0x98; 0x09; 0x80;
   0x08; 0x90; 0x89; 0x08; 0x90; 0x89; 0x62; 0x06; 0x20; 0x62; 0x06; 0x20;
   0x24; 0x22; 0x42; 0x24; 0x22; 0x42; 0x8a; 0x08; 0xa0; 0x8a; 0x08; 0xa0;
   0x84; 0x48; 0x44; 0x84; 0x48; 0x44; 0x53; 0x65; 0x36; 0x53; 0x65; 0x36;
   0x21; 0x32; 0x13; 0x21; 0x32; 0x13; 0x10; 0x91; 0x09; 0x10; 0x91; 0x09;
   0x00; 0x70; 0x07; 0x00; 0x70; 0x07; 0x0c; 0x10; 0xc1; 0x0c; 0x10; 0xc1;
   0x40; 0xc4; 0x0c; 0x40; 0xc4; 0x0c; 0x6a; 0x06; 0xa0; 0x6a; 0x06; 0xa0;
   0x86; 0x08; 0x60; 0x86; 0x08; 0x60; 0x24; 0x82; 0x48; 0x24; 0x82; 0x48;
   0x89; 0x08; 0x90; 0x89; 0x08; 0x90; 0xc0; 0x2c; 0x02; 0xc0; 0x2c; 0x02;
   0x51; 0x45; 0x14; 0x51; 0x45; 0x14; 0x45; 0x14; 0x51; 0x45; 0x14; 0x51;
   0x80; 0xd8; 0x0d; 0x80; 0xd8; 0x0d; 0x24; 0x22; 0x42; 0x24; 0x22; 0x42;
   0x0a; 0x20; 0xa2; 0x0a; 0x20; 0xa2; 0x00; 0xe0; 0x0e; 0x00; 0xe0; 0x0e;
   0xb8; 0x0b; 0x80; 0xb8; 0x0b; 0x80; 0x09; 0x10; 0x91; 0x09; 0x10; 0x91;
   0x56; 0x05; 0x60; 0x56; 0x05; 0x60; 0xa2; 0x8a; 0x28; 0xa2; 0x8a; 0x28;
   0x1a; 0xaa; 0xee; 0x1a; 0xaa; 0xee; 0x10; 0xf9; 0xab; 0x12; 0x14; 0xef].

Definition kMaskRandom48_47 : list Z :=
  [0x53; 0x65; 0x36; 0x53; 0x65; 0x36; 0x21; 0x32; 0x13; 0x21; 0x32; 0x13;
   0x10; 0x91; 0x09; 0x10; 0x91; 0x09; 0x00; 0x70; 0x07; 0x00; 0x70; 0x07;
   0x0c; 0x10; 0xc1; 0x0c; 0x10; 0xc1; 0x40; 0xc4; 0x0c; 0x40; 0xc4; 0x0c;
   0x6a; 0x06; 0xa0; 0x6a; 0x06; 0xa0; 0x86; 0x08; 0x60; 0x86; 0x08; 0x60;
   0x24; 0x82; 0x48; 0x24; 0x82; 0x48; 0x89; 0x08; 0x90; 0x89; 0x08; 0x90;
   0xc0; 0x2c; 0x02; 0xc0; 0x2c; 0x02; 0x10; 0x61; 0x06; 0x10; 0x61; 0x06;
   0x02; 0x30; 0x23; 0x02; 0x30; 0x23; 0x40; 0x54; 0x05; 0x40; 0x54; 0x05;
   0x21; 0x82; 0x18; 0x21; 0x82; 0x18; 0x81; 0x18; 0x11; 0x81; 0x18; 0x11;
   0x14; 0x81; 0x48; 0x14; 0x81; 0x48; 0x98; 0x09; 0x80; 0x98; 0x09; 0x80;
   0x08; 0x90; 0x89; 0x08; 0x90; 0x89; 0x62; 0x06; 0x20; 0x62; 0x06; 0x20;
   0x24; 0x22; 0x42; 0x24; 0x22; 0x42; 0x8a; 0x08; 0xa0; 0x8a; 0x08; 0xa0;
   0x84; 0x48; 0x44; 0x84; 0x48; 0x44; 0x10; 0x61; 0x06; 0x10; 0x61; 0x06;
   0x02; 0x30; 0x23; 0x02; 0x30; 0x23; 0x40; 0x54; 0x05; 0x40; 0x54; 0x05;
   0x21; 0x82; 0x18; 0x21; 0x82; 0x18; 0x81; 0x18; 0x11; 0x81; 0x18; 0x11;
   0x14; 0x81; 0x48; 0x14; 0x81; 0x48; 0x98; 0x09; 0x80; 0x98; 0x09; 0x80;
   0x08; 0x90; 0x89; 0x08; 0x90; 0x89; 0x62; 0x06; 0x20; 0x62; 0x06; 0x20;
   0x24; 0x22; 0x42; 0x24; 0x22; 0x42; 0x8a; 0x08; 0xa0; 0x8a; 0x08; 0xa0;
   0x84; 0x48; 0x44; 0x84; 0x48; 0x44; 0x53; 0x65; 0x36; 0x53; 0x65; 0x36;
   0x21; 0x32; 0x13; 0x21; 0x32; 0x13; 0x10; 0x91; 0x09; 0x10; 0x91; 0x09;
   0x00; 0x70; 0x07; 0x00; 0x70; 0x07; 0x0c; 0x10; 0xc1; 0x0c; 0x10; 0xc1;
   0x40; 0xc4; 0x0c; 0x40; 0xc4; 0x0c; 0x6a; 0x06; 0xa0; 0x6a; 0x06; 0xa0;
   0x86; 0x08; 0x60; 0x86; 0x08; 0x60; 0x24; 0x82; 0x48; 0x24; 0x82; 0x48;
   0x89; 0x08; 0x90; 0x89; 0x08; 0x90; 0xc0; 0x2c; 0x02; 0xc0; 0x2c; 0x02;
   0x88; 0x32; 0x59; 0x88; 0x32; 0x59].

Definition kMaskRandom48_48 : list Z :=
  [0x10; 0x61; 0x06; 0x10; 0x61; 0x06; 0x02; 0x30; 0x23; 0x02; 0x30; 0x23;
   0x40; 0x54; 0x05; 0x40; 0x54; 0x05; 0x21; 0x82; 0x18; 0x21; 0x82; 0x18;
   0x81; 0x18; 0x11; 0x81; 0x18; 0x11; 0x14; 0x81; 0x48; 0x14; 0x81; 0x48;
   0x98; 0x09; 0x80; 0x98; 0x09; 0x80; 0x08; 0x90; 0x89; 0x08; 0x90; 0x89;
   0x62; 0x06; 0x20; 0x62; 0x06; 0x20; 0x24; 0x22; 0x42; 0x24; 0x22; 0x42;
   0x8a; 0x08; 0xa0; 0x8a; 0x08; 0xa0; 0x84; 0x48; 0x44; 0x84; 0x48; 0x44;
   0x53; 0x65; 0x36; 0x53; 0x65; 0x36; 0x21; 0x32; 0x13; 0x21; 0x32; 0x13;
   0x10; 0x91; 0x09; 0x10; 0x91; 0x09; 0x00; 0x70; 0x07; 0x00; 0x70; 0x07;
   0x0c; 0x10; 0xc1; 0x0c; 0x10; 0xc1; 0x40; 0xc4; 0x0c; 0x40; 0xc4; 0x0c;
   0x6a; 0x06; 0xa0; 0x6a; 0x06; 0xa0; 0x86; 0x08; 0x60; 0x86; 0x08; 0x60;
   0x24; 0x82; 0x48; 0x24; 0x82; 0x48; 0x89; 0x08; 0x90; 0x89; 0x08; 0x90;
   0xc0; 0x2c; 0x02; 0xc0; 0x2c; 0x02; 0x88; 0x32; 0x59; 0x88; 0x32; 0x59;
   0x53; 0x65; 0x36; 0x53; 0x65; 0x36; 0x21; 0x32; 0x13; 0x21; 0x32; 0x13;
   0x10; 0x91; 0x09; 0x10; 0x91; 0x09; 0x00; 0x70; 0x07; 0x00; 0x70; 0x07;
   0x0c; 0x10; 0xc1; 0x0c; 0x10; 0xc1; 0x40; 0xc4; 0x0c; 0x40; 0xc4; 0x0c;
   0x6a; 0x06; 0xa0; 0x6a; 0x06; 0xa0; 0x86; 0x08; 0x60; 0x86; 0x08; 0x60;
   0x24; 0x82; 0x48; 0x24; 0x82; 0x48; 0x89; 0x08; 0x90; 0x89; 0x08; 0x90;
   0xc0; 0x2c; 0x02; 0xc0; 0x2c; 0x02; 0x10; 0x61; 0x06; 0x10; 0x61; 0x06;
   0x02; 0x30; 0x23; 0x02; 0x30; 0x23; 0x40; 0x54; 0x05; 0x40; 0x54; 0x05;
   0x21; 0x82; 0x18; 0x21; 0x82; 0x18; 0x81; 0x18; 0x11; 0x81; 0x18; 0x11;
   0x14; 0x81; 0x48; 0x14; 0x81; 0x48; 0x98; 0x09; 0x80; 0x98; 0x09; 0x80;
   0x08; 0x90; 0x89; 0x08; 0x90; 0x89; 0x62; 0x06; 0x20; 0x62; 0x06; 0x20;
   0x24; 0x22; 0x42; 0x24; 0x22; 0x42; 0x8a; 0x08; 0xa0; 0x8a; 0x08; 0xa0;
   0x84; 0x48; 0x44; 0x84; 0x48; 0x44; 0xff; 0x9b; 0xdf; 0xec; 0xae; 0x0e].

Definition kPacketMaskRandom1 : list (list Z) :=
  [kMaskRandom1_1].

Definition kPacketMaskRandom2 : list (list Z) :=
  [kMaskRandom2_1; kMaskRandom2_2].

Definition kPacketMaskRandom3 : list (list Z) :=
  [kMaskRandom3_1; kMaskRandom3_2; kMaskRandom3_3].

Definition kPacketMaskRandom4 : list (list Z) :=
  [kMaskRandom4_1; kMaskRandom4_2; kMaskRandom4_3; kMaskRandom4_4].

Definition kPacketMaskRandom5 : list (list Z) :=
  [kMaskRandom5_1; kMaskRandom5_2; kMaskRandom5_3; kMaskRandom5_4; kMaskRandom5_5].

Definition kPacketMaskRandom6 : list (list Z) :=
  [kMaskRandom6_1; kMaskRandom6_2; kMaskRandom6_3; kMaskRandom6_4; kMaskRandom6_5;
   kMaskRandom6_6].

Definition kPacketMaskRandom7 : list (list Z) :=
  [kMaskRandom7_1; kMaskRandom7_2; kMaskRandom7_3; kMaskRandom7_4; kMaskRandom7_5;
   kMaskRandom7_6; kMaskRandom7_7].

Definition kPacketMaskRandom8 : list (list Z) :=
  [kMaskRandom8_1; kMaskRandom8_2; kMaskRandom8_3; kMaskRandom8_4; kMaskRandom8_5;
   kMaskRandom8_6; kMaskRandom8_7; kMaskRandom8_8].

Definition kPacketMaskRandom9 : list (list Z) :=
  [kMaskRandom9_1; kMaskRandom9_2; kMaskRandom9_3; kMaskRandom9_4; kMaskRandom9_5;
   kMaskRandom9_6; kMaskRandom9_7; kMaskRandom9_8; kMaskRandom9_9].

Definition kPacketMaskRandom10 : list (list Z) :=
  [kMaskRandom10_1; kMaskRandom10_2; kMaskRandom10_3; kMaskRandom10_4; kMaskRandom10_5;
   kMaskRandom10_6; kMaskRandom10_7; kMaskRandom10_8; kMaskRandom10_9; kMaskRandom10_10].

Definition kPacketMaskRandom11 : list (list Z) :=
  [kMaskRandom11_1; kMaskRandom11_2; kMaskRandom11_3; kMaskRandom11_4; kMaskRandom11_5;
   kMaskRandom11_6; kMaskRandom11_7; kMaskRandom11_8; kMaskRandom11_9; kMaskRandom11_10;
   kMaskRandom11_11].

Definition kPacketMaskRandom12 : list (list Z) :=
  [kMaskRandom12_1; kMaskRandom12_2; kMaskRandom12_3; kMaskRandom12_4; kMaskRandom12_5;
   kMaskRandom12_6; kMaskRandom12_7; kMaskRandom12_8; kMaskRandom12_9; kMaskRandom12_10;
   kMaskRandom12_11; kMaskRandom12_12].

Definition kPacketMaskRandom13 : list (list Z) :=
  [kMaskRandom13_1; kMaskRandom13_2; kMaskRandom13_3; kMaskRandom13_4; kMaskRandom13_5;
   kMaskRandom13_6; kMaskRandom13_7; kMaskRandom13_8; kMaskRandom13_9; kMaskRandom13_10;
   kMaskRandom13_11; kMaskRandom13_12; kMaskRandom13_13].

Definition kPacketMaskRandom14 : list (list Z) :=
  [kMaskRandom14_1; kMaskRandom14_2; kMaskRandom14_3; kMaskRandom14_4; kMaskRandom14_5;
   kMaskRandom14_6; kMaskRandom14_7; kMaskRandom14_8; kMaskRandom14_9; kMaskRandom14_10;
   kMaskRandom14_11; kMaskRandom14_12; kMaskRandom14_13; kMaskRandom14_14].

Definition kPacketMaskRandom15 : list (list Z) :=
  [kMaskRandom15_1; kMaskRandom15_2; kMaskRandom15_3; kMaskRandom15_4; kMaskRandom15_5;
   kMaskRandom15_6; kMaskRandom15_7; kMaskRandom15_8; kMaskRandom15_9; kMaskRandom15_10;
   kMaskRandom15_11; kMaskRandom15_12; kMaskRandom15_13; kMaskRandom15_14; kMaskRandom15_15].

Definition kPacketMaskRandom16 : list (list Z) :=
  [kMaskRandom16_1; kMaskRandom16_2; kMaskRandom16_3; kMaskRandom16_4; kMaskRandom16_5;
   kMaskRandom16_6; kMaskRandom16_7; kMaskRandom16_8; kMaskRandom16_9; kMaskRandom16_10;
   kMaskRandom16_11; kMaskRandom16_12; kMaskRandom16_13; kMaskRandom16_14; kMaskRandom16_15;
   kMaskRandom16_16].

Definition kPacketMaskRandom17 : list (list Z) :=
  [kMaskRandom17_1; kMaskRandom17_2; kMaskRandom17_3; kMaskRandom17_4; kMaskRandom17_5;
   kMaskRandom17_6; kMaskRandom17_7; kMaskRandom17_8; kMaskRandom17_9; kMaskRandom17_10;
   kMaskRandom17_11; kMaskRandom17_12; kMaskRandom17_13; kMaskRandom17_14; kMaskRandom17_15;
   kMaskRandom17_16; kMaskRandom17_17].

Definition kPacketMaskRandom18 : list (list Z) :=
  [kMaskRandom18_1; kMaskRandom18_2; kMaskRandom18_3; kMaskRandom18_4; kMaskRandom18_5;
   kMaskRandom18_6; kMaskRandom18_7; kMaskRandom18_8; kMaskRandom18_9; kMaskRandom18_10;
   kMaskRandom18_11; kMaskRandom18_12; kMaskRandom18_13; kMaskRandom18_14; kMaskRandom18_15;
   kMaskRandom18_16; kMaskRandom18_17; kMaskRandom18_18].

Definition kPacketMaskRandom19 : list (list Z) :=
  [kMaskRandom19_1; kMaskRandom19_2; kMaskRandom19_3; kMaskRandom19_4; kMaskRandom19_5;
   kMaskRandom19_6; kMaskRandom19_7; kMaskRandom19_8; kMaskRandom19_9; kMaskRandom19_10;
   kMaskRandom19_11; kMaskRandom19_12; kMaskRandom19_13; kMaskRandom19_14; kMaskRandom19_15;
   kMaskRandom19_16; kMaskRandom19_17; kMaskRandom19_18; kMaskRandom19_19].

Definition kPacketMaskRandom20 : list (list Z) :=
  [kMaskRandom20_1; kMaskRandom20_2; kMaskRandom20_3; kMaskRandom20_4; kMaskRandom20_5;
   kMaskRandom20_6; kMaskRandom20_7; kMaskRandom20_8; kMaskRandom20_9; kMaskRandom20_10;
   kMaskRandom20_11; kMaskRandom20_12; kMaskRandom20_13; kMaskRandom20_14; kMaskRandom20_15;
   kMaskRandom20_16; kMaskRandom20_17; kMaskRandom20_18; kMaskRandom20_19; kMaskRandom20_20].

Definition kPacketMaskRandom21 : list (list Z) :=
  [kMaskRandom21_1; kMaskRandom21_2; kMaskRandom21_3; kMaskRandom21_4; kMaskRandom21_5;
   kMaskRandom21_6; kMaskRandom21_7; kMaskRandom21_8; kMaskRandom21_9; kMaskRandom21_10;
   kMaskRandom21_11; kMaskRandom21_12; kMaskRandom21_13; kMaskRandom21_14; kMaskRandom21_15;
   kMaskRandom21_16; kMaskRandom21_17; kMaskRandom21_18; kMaskRandom21_19; kMaskRandom21_20;
   kMaskRandom21_21].

Definition kPacketMaskRandom22 : list (list Z) :=
  [kMaskRandom22_1; kMaskRandom22_2; kMaskRandom22_3; kMaskRandom22_4; kMaskRandom22_5;
   kMaskRandom22_6; kMaskRandom22_7; kMaskRandom22_8; kMaskRandom22_9; kMaskRandom22_10;
   kMaskRandom22_11; kMaskRandom22_12; kMaskRandom22_13; kMaskRandom22_14; kMaskRandom22_15;
   kMaskRandom22_16; kMaskRandom22_17; kMaskRandom22_18; kMaskRandom22_19; kMaskRandom22_20;
   kMaskRandom22_21; kMaskRandom22_22].

Definition kPacketMaskRandom23 : list (list Z) :=
  [kMaskRandom23_1; kMaskRandom23_2; kMaskRandom23_3; kMaskRandom23_4; kMaskRandom23_5;
   kMaskRandom23_6; kMaskRandom23_7; kMaskRandom23_8; kMaskRandom23_9; kMaskRandom23_10;
   kMaskRandom23_11; kMaskRandom23_12; kMaskRandom23_13; kMaskRandom23_14; kMaskRandom23_15;
   kMaskRandom23_16; kMaskRandom23_17; kMaskRandom23_18; kMaskRandom23_19; kMaskRandom23_20;
   kMaskRandom23_21; kMaskRandom23_22; kMaskRandom23_23].

Definition kPacketMaskRandom24 : list (list Z) :=
  [kMaskRandom24_1; kMaskRandom24_2; kMaskRandom24_3; kMaskRandom24_4; kMaskRandom24_5;
   kMaskRandom24_6; kMaskRandom24_7; kMaskRandom24_8; kMaskRandom24_9; kMaskRandom24_10;
   kMaskRandom24_11; kMaskRandom24_12; kMaskRandom24_13; kMaskRandom24_14; kMaskRandom24_15;
   kMaskRandom24_16; kMaskRandom24_17; kMaskRandom24_18; kMaskRandom24_19; kMaskRandom24_20;
   kMaskRandom24_21; kMaskRandom24_22; kMaskRandom24_23; kMaskRandom24_24].

Definition kPacketMaskRandom25 : list (list Z) :=
  [kMaskRandom25_1; kMaskRandom25_2; kMaskRandom25_3; kMaskRandom25_4; kMaskRandom25_5;
   kMaskRandom25_6; kMaskRandom25_7; kMaskRandom25_8; kMaskRandom25_9; kMaskRandom25_10;
   kMaskRandom25_11; kMaskRandom25_12; kMaskRandom25_13; kMaskRandom25_14; kMaskRandom25_15;
   kMaskRandom25_16; kMaskRandom25_17; kMaskRandom25_18; kMaskRandom25_19; kMaskRandom25_20;
   kMaskRandom25_21; kMaskRandom25_22; kMaskRandom25_23; kMaskRandom25_24; kMaskRandom25_25].

Definition kPacketMaskRandom26 : list (list Z) :=
  [kMaskRandom26_1; kMaskRandom26_2; kMaskRandom26_3; kMaskRandom26_4; kMaskRandom26_5;
   kMaskRandom26_6; kMaskRandom26_7; kMaskRandom26_8; kMaskRandom26_9; kMaskRandom26_10;
   kMaskRandom26_11; kMaskRandom26_12; kMaskRandom26_13; kMaskRandom26_14; kMaskRandom26_15;
   kMaskRandom26_16; kMaskRandom26_17; kMaskRandom26_18; kMaskRandom26_19; kMaskRandom26_20;
   kMaskRandom26_21; kMaskRandom26_22; kMaskRandom26_23; kMaskRandom26_24; kMaskRandom26_25;
   kMaskRandom26_26].

Definition kPacketMaskRandom27 : list (list Z) :=
  [kMaskRandom27_1; kMaskRandom27_2; kMaskRandom27_3; kMaskRandom27_4; kMaskRandom27_5;
   kMaskRandom27_6; kMaskRandom27_7; kMaskRandom27_8; kMaskRandom27_9; kMaskRandom27_10;
   kMaskRandom27_11; kMaskRandom27_12; kMaskRandom27_13; kMaskRandom27_14; kMaskRandom27_15;
   kMaskRandom27_16; kMaskRandom27_17; kMaskRandom27_18; kMaskRandom27_19; kMaskRandom27_20;
   kMaskRandom27_21; kMaskRandom27_22; kMaskRandom27_23; kMaskRandom27_24; kMaskRandom27_25;
   kMaskRandom27_26; kMaskRandom27_27].

Definition kPacketMaskRandom28 : list (list Z) :=
  [kMaskRandom28_1; kMaskRandom28_2; kMaskRandom28_3; kMaskRandom28_4; kMaskRandom28_5;
   kMaskRandom28_6; kMaskRandom28_7; kMaskRandom28_8; kMaskRandom28_9; kMaskRandom28_10;
   kMaskRandom28_11; kMaskRandom28_12; kMaskRandom28_13; kMaskRandom28_14; kMaskRandom28_15;
   kMaskRandom28_16; kMaskRandom28_17; kMaskRandom28_18; kMaskRandom28_19; kMaskRandom28_20;
   kMaskRandom28_21; kMaskRandom28_22; kMaskRandom28_23; kMaskRandom28_24; kMaskRandom28_25;
   kMaskRandom28_26; kMaskRandom28_27; kMaskRandom28_28].

Definition kPacketMaskRandom29 : list (list Z) :=
  [kMaskRandom29_1; kMaskRandom29_2; kMaskRandom29_3; kMaskRandom29_4; kMaskRandom29_5;
   kMaskRandom29_6; kMaskRandom29_7; kMaskRandom29_8; kMaskRandom29_9; kMaskRandom29_10;
   kMaskRandom29_11; kMaskRandom29_12; kMaskRandom29_13; kMaskRandom29_14; kMaskRandom29_15;
   kMaskRandom29_16; kMaskRandom29_17; kMaskRandom29_18; kMaskRandom29_19; kMaskRandom29_20;
   kMaskRandom29_21; kMaskRandom29_22; kMaskRandom29_23; kMaskRandom29_24; kMaskRandom29_25;
   kMaskRandom29_26; kMaskRandom29_27; kMaskRandom29_28; kMaskRandom29_29].

Definition kPacketMaskRandom30 : list (list Z) :=
  [kMaskRandom30_1; kMaskRandom30_2; kMaskRandom30_3; kMaskRandom30_4; kMaskRandom30_5;
   kMaskRandom30_6; kMaskRandom30_7; kMaskRandom30_8; kMaskRandom30_9; kMaskRandom30_10;
   kMaskRandom30_11; kMaskRandom30_12; kMaskRandom30_13; kMaskRandom30_14; kMaskRandom30_15;
   kMaskRandom30_16; kMaskRandom30_17; kMaskRandom30_18; kMaskRandom30_19; kMaskRandom30_20;
   kMaskRandom30_21; kMaskRandom30_22; kMaskRandom30_23; kMaskRandom30_24; kMaskRandom30_25;
   kMaskRandom30_26; kMaskRandom30_27; kMaskRandom30_28; kMaskRandom30_29; kMaskRandom30_30].

Definition kPacketMaskRandom31 : list (list Z) :=
  [kMaskRandom31_1; kMaskRandom31_2; kMaskRandom31_3; kMaskRandom31_4; kMaskRandom31_5;
   kMaskRandom31_6; kMaskRandom31_7; kMaskRandom31_8; kMaskRandom31_9; kMaskRandom31_10;
   kMaskRandom31_11; kMaskRandom31_12; kMaskRandom31_13; kMaskRandom31_14; kMaskRandom31_15;
   kMaskRandom31_16; kMaskRandom31_17; kMaskRandom31_18; kMaskRandom31_19; kMaskRandom31_20;
   kMaskRandom31_21; kMaskRandom31_22; kMaskRandom31_23; kMaskRandom31_24; kMaskRandom31_25;
   kMaskRandom31_26; kMaskRandom31_27; kMaskRandom31_28; kMaskRandom31_29; kMaskRandom31_30;
   kMaskRandom31_31].

Definition kPacketMaskRandom32 : list (list Z) :=
  [kMaskRandom32_1; kMaskRandom32_2; kMaskRandom32_3; kMaskRandom32_4; kMaskRandom32_5;
   kMaskRandom32_6; kMaskRandom32_7; kMaskRandom32_8; kMaskRandom32_9; kMaskRandom32_10;
   kMaskRandom32_11; kMaskRandom32_12; kMaskRandom32_13; kMaskRandom32_14; kMaskRandom32_15;
   kMaskRandom32_16; kMaskRandom32_17; kMaskRandom32_18; kMaskRandom32_19; kMaskRandom32_20;
   kMaskRandom32_21; kMaskRandom32_22; kMaskRandom32_23; kMaskRandom32_24; kMaskRandom32_25;
   kMaskRandom32_26; kMaskRandom32_27; kMaskRandom32_28; kMaskRandom32_29; kMaskRandom32_30;
   kMaskRandom32_31; kMaskRandom32_32].

Definition kPacketMaskRandom33 : list (list Z) :=
  [kMaskRandom33_1; kMaskRandom33_2; kMaskRandom33_3; kMaskRandom33_4; kMaskRandom33_5;
   kMaskRandom33_6; kMaskRandom33_7; kMaskRandom33_8; kMaskRandom33_9; kMaskRandom33_10;
   kMaskRandom33_11; kMaskRandom33_12; kMaskRandom33_13; kMaskRandom33_14; kMaskRandom33_15;
   kMaskRandom33_16; kMaskRandom33_17; kMaskRandom33_18; kMaskRandom33_19; kMaskRandom33_20;
   kMaskRandom33_21; kMaskRandom33_22; kMaskRandom33_23; kMaskRandom33_24; kMaskRandom33_25;
   kMaskRandom33_26; kMaskRandom33_27; kMaskRandom33_28; kMaskRandom33_29; kMaskRandom33_30;
   kMaskRandom33_31; kMaskRandom33_32; kMaskRandom33_33].

Definition kPacketMaskRandom34 : list (list Z) :=
  [kMaskRandom34_1; kMaskRandom34_2; kMaskRandom34_3; kMaskRandom34_4; kMaskRandom34_5;
   kMaskRandom34_6; kMaskRandom34_7; kMaskRandom34_8; kMaskRandom34_9; kMaskRandom34_10;
   kMaskRandom34_11; kMaskRandom34_12; kMaskRandom34_13; kMaskRandom34_14; kMaskRandom34_15;
   kMaskRandom34_16; kMaskRandom34_17; kMaskRandom34_18; kMaskRandom34_19; kMaskRandom34_20;
   kMaskRandom34_21; kMaskRandom34_22; kMaskRandom34_23; kMaskRandom34_24; kMaskRandom34_25;
   kMaskRandom34_26; kMaskRandom34_27; kMaskRandom34_28; kMaskRandom34_29; kMaskRandom34_30;
   kMaskRandom34_31; kMaskRandom34_32; kMaskRandom34_33; kMaskRandom34_34].

Definition kPacketMaskRandom35 : list (list Z) :=
  [kMaskRandom35_1; kMaskRandom35_2; kMaskRandom35_3; kMaskRandom35_4; kMaskRandom35_5;
   kMaskRandom35_6; kMaskRandom35_7; kMaskRandom35_8; kMaskRandom35_9; kMaskRandom35_10;
   kMaskRandom35_11; kMaskRandom35_12; kMaskRandom35_13; kMaskRandom35_14; kMaskRandom35_15;
   kMaskRandom35_16; kMaskRandom35_17; kMaskRandom35_18; kMaskRandom35_19; kMaskRandom35_20;
   kMaskRandom35_21; kMaskRandom35_22; kMaskRandom35_23; kMaskRandom35_24; kMaskRandom35_25;
   kMaskRandom35_26; kMaskRandom35_27; kMaskRandom35_28; kMaskRandom35_29; kMaskRandom35_30;
   kMaskRandom35_31; kMaskRandom35_32; kMaskRandom35_33; kMaskRandom35_34; kMaskRandom35_35].

Definition kPacketMaskRandom36 : list (list Z) :=
  [kMaskRandom36_1; kMaskRandom36_2; kMaskRandom36_3; kMaskRandom36_4; kMaskRandom36_5;
   kMaskRandom36_6; kMaskRandom36_7; kMaskRandom36_8; kMaskRandom36_9; kMaskRandom36_10;
   kMaskRandom36_11; kMaskRandom36_12; kMaskRandom36_13; kMaskRandom36_14; kMaskRandom36_15;
   kMaskRandom36_16; kMaskRandom36_17; kMaskRandom36_18; kMaskRandom36_19; kMaskRandom36_20;
   kMaskRandom36_21; kMaskRandom36_22; kMaskRandom36_23; kMaskRandom36_24; kMaskRandom36_25;
   kMaskRandom36_26; kMaskRandom36_27; kMaskRandom36_28; kMaskRandom36_29; kMaskRandom36_30;
   kMaskRandom36_31; kMaskRandom36_32; kMaskRandom36_33; kMaskRandom36_34; kMaskRandom36_35;
   kMaskRandom36_36].

Definition kPacketMaskRandom37 : list (list Z) :=
  [kMaskRandom37_1; kMaskRandom37_2; kMaskRandom37_3; kMaskRandom37_4; kMaskRandom37_5;
   kMaskRandom37_6; kMaskRandom37_7; kMaskRandom37_8; kMaskRandom37_9; kMaskRandom37_10;
   kMaskRandom37_11; kMaskRandom37_12; kMaskRandom37_13; kMaskRandom37_14; kMaskRandom37_15;
   kMaskRandom37_16; kMaskRandom37_17; kMaskRandom37_18; kMaskRandom37_19; kMaskRandom37_20;
   kMaskRandom37_21; kMaskRandom37_22; kMaskRandom37_23; kMaskRandom37_24; kMaskRandom37_25;
   kMaskRandom37_26; kMaskRandom37_27; kMaskRandom37_28; kMaskRandom37_29; kMaskRandom37_30;
   kMaskRandom37_31; kMaskRandom37_32; kMaskRandom37_33; kMaskRandom37_34; kMaskRandom37_35;
   kMaskRandom37_36; kMaskRandom37_37].

Definition kPacketMaskRandom38 : list (list Z) :=
  [kMaskRandom38_1; kMaskRandom38_2; kMaskRandom38_3; kMaskRandom38_4; kMaskRandom38_5;
   kMaskRandom38_6; kMaskRandom38_7; kMaskRandom38_8; kMaskRandom38_9; kMaskRandom38_10;
   kMaskRandom38_11; kMaskRandom38_12; kMaskRandom38_13; kMaskRandom38_14; kMaskRandom38_15;
   kMaskRandom38_16; kMaskRandom38_17; kMaskRandom38_18; kMaskRandom38_19; kMaskRandom38_20;
   kMaskRandom38_21; kMaskRandom38_22; kMaskRandom38_23; kMaskRandom38_24; kMaskRandom38_25;
   kMaskRandom38_26; kMaskRandom38_27; kMaskRandom38_28; kMaskRandom38_29; kMaskRandom38_30;
   kMaskRandom38_31; kMaskRandom38_32; kMaskRandom38_33; kMaskRandom38_34; kMaskRandom38_35;
   kMaskRandom38_36; kMaskRandom38_37; kMaskRandom38_38].

Definition kPacketMaskRandom39 : list (list Z) :=
  [kMaskRandom39_1; kMaskRandom39_2; kMaskRandom39_3; kMaskRandom39_4; kMaskRandom39_5;
   kMaskRandom39_6; kMaskRandom39_7; kMaskRandom39_8; kMaskRandom39_9; kMaskRandom39_10;
   kMaskRandom39_11; kMaskRandom39_12; kMaskRandom39_13; kMaskRandom39_14; kMaskRandom39_15;
   kMaskRandom39_16; kMaskRandom39_17; kMaskRandom39_18; kMaskRandom39_19; kMaskRandom39_20;
   kMaskRandom39_21; kMaskRandom39_22; kMaskRandom39_23; kMaskRandom39_24; kMaskRandom39_25;
   kMaskRandom39_26; kMaskRandom39_27; kMaskRandom39_28; kMaskRandom39_29; kMaskRandom39_30;
   kMaskRandom39_31; kMaskRandom39_32; kMaskRandom39_33; kMaskRandom39_34; kMaskRandom39_35;
   kMaskRandom39_36; kMaskRandom39_37; kMaskRandom39_38; kMaskRandom39_39].

Definition kPacketMaskRandom40 : list (list Z) :=
  [kMaskRandom40_1; kMaskRandom40_2; kMaskRandom40_3; kMaskRandom40_4; kMaskRandom40_5;
   kMaskRandom40_6; kMaskRandom40_7; kMaskRandom40_8; kMaskRandom40_9; kMaskRandom40_10;
   kMaskRandom40_11; kMaskRandom40_12; kMaskRandom40_13; kMaskRandom40_14; kMaskRandom40_15;
   kMaskRandom40_16; kMaskRandom40_17; kMaskRandom40_18; kMaskRandom40_19; kMaskRandom40_20;
   kMaskRandom40_21; kMaskRandom40_22; kMaskRandom40_23; kMaskRandom40_24; kMaskRandom40_25;
   kMaskRandom40_26; kMaskRandom40_27; kMaskRandom40_28; kMaskRandom40_29; kMaskRandom40_30;
   kMaskRandom40_31; kMaskRandom40_32; kMaskRandom40_33; kMaskRandom40_34; kMaskRandom40_35;
   kMaskRandom40_36; kMaskRandom40_37; kMaskRandom40_38; kMaskRandom40_39; kMaskRandom40_40].

Definition kPacketMaskRandom41 : list (list Z) :=
  [kMaskRandom41_1; kMaskRandom41_2; kMaskRandom41_3; kMaskRandom41_4; kMaskRandom41_5;
   kMaskRandom41_6; kMaskRandom41_7; kMaskRandom41_8; kMaskRandom41_9; kMaskRandom41_10;
   kMaskRandom41_11; kMaskRandom41_12; kMaskRandom41_13; kMaskRandom41_14; kMaskRandom41_15;
   kMaskRandom41_16; kMaskRandom41_17; kMaskRandom41_18; kMaskRandom41_19; kMaskRandom41_20;
   kMaskRandom41_21; kMaskRandom41_22; kMaskRandom41_23; kMaskRandom41_24; kMaskRandom41_25;
   kMaskRandom41_26; kMaskRandom41_27; kMaskRandom41_28; kMaskRandom41_29; kMaskRandom41_30;
   kMaskRandom41_31; kMaskRandom41_32; kMaskRandom41_33; kMaskRandom41_34; kMaskRandom41_35;
   kMaskRandom41_36; kMaskRandom41_37; kMaskRandom41_38; kMaskRandom41_39; kMaskRandom41_40;
   kMaskRandom41_41].

Definition kPacketMaskRandom42 : list (list Z) :=
  [kMaskRandom42_1; kMaskRandom42_2; kMaskRandom42_3; kMaskRandom42_4; kMaskRandom42_5;
   kMaskRandom42_6; kMaskRandom42_7; kMaskRandom42_8; kMaskRandom42_9; kMaskRandom42_10;
   kMaskRandom42_11; kMaskRandom42_12; kMaskRandom42_13; kMaskRandom42_14; kMaskRandom42_15;
   kMaskRandom42_16; kMaskRandom42_17; kMaskRandom42_18; kMaskRandom42_19; kMaskRandom42_20;
   kMaskRandom42_21; kMaskRandom42_22; kMaskRandom42_23; kMaskRandom42_24; kMaskRandom42_25;
   kMaskRandom42_26; kMaskRandom42_27; kMaskRandom42_28; kMaskRandom42_29; kMaskRandom42_30;
   kMaskRandom42_31; kMaskRandom42_32; kMaskRandom42_33; kMaskRandom42_34; kMaskRandom42_35;
   kMaskRandom42_36; kMaskRandom42_37; kMaskRandom42_38; kMaskRandom42_39; kMaskRandom42_40;
   kMaskRandom42_41; kMaskRandom42_42].

Definition kPacketMaskRandom43 : list (list Z) :=
  [kMaskRandom43_1; kMaskRandom43_2; kMaskRandom43_3; kMaskRandom43_4; kMaskRandom43_5;
   kMaskRandom43_6; kMaskRandom43_7; kMaskRandom43_8; kMaskRandom43_9; kMaskRandom43_10;
   kMaskRandom43_11; kMaskRandom43_12; kMaskRandom43_13; kMaskRandom43_14; kMaskRandom43_15;
   kMaskRandom43_16; kMaskRandom43_17; kMaskRandom43_18; kMaskRandom43_19; kMaskRandom43_20;
   kMaskRandom43_21; kMaskRandom43_22; kMaskRandom43_23; kMaskRandom43_24; kMaskRandom43_25;
   kMaskRandom43_26; kMaskRandom43_27; kMaskRandom43_28; kMaskRandom43_29; kMaskRandom43_30;
   kMaskRandom43_31; kMaskRandom43_32; kMaskRandom43_33; kMaskRandom43_34; kMaskRandom43_35;
   kMaskRandom43_36; kMaskRandom43_37; kMaskRandom43_38; kMaskRandom43_39; kMaskRandom43_40;
   kMaskRandom43_41; kMaskRandom43_42; kMaskRandom43_43].

Definition kPacketMaskRandom44 : list (list Z) :=
  [kMaskRandom44_1; kMaskRandom44_2; kMaskRandom44_3; kMaskRandom44_4; kMaskRandom44_5;
   kMaskRandom44_6; kMaskRandom44_7; kMaskRandom44_8; kMaskRandom44_9; kMaskRandom44_10;
   kMaskRandom44_11; kMaskRandom44_12; kMaskRandom44_13; kMaskRandom44_14; kMaskRandom44_15;
   kMaskRandom44_16; kMaskRandom44_17; kMaskRandom44_18; kMaskRandom44_19; kMaskRandom44_20;
   kMaskRandom44_21; kMaskRandom44_22; kMaskRandom44_23; kMaskRandom44_24; kMaskRandom44_25;
   kMaskRandom44_26; kMaskRandom44_27; kMaskRandom44_28; kMaskRandom44_29; kMaskRandom44_30;
   kMaskRandom44_31; kMaskRandom44_32; kMaskRandom44_33; kMaskRandom44_34; kMaskRandom44_35;
   kMaskRandom44_36; kMaskRandom44_37; kMaskRandom44_38; kMaskRandom44_39; kMaskRandom44_40;
   kMaskRandom44_41; kMaskRandom44_42; kMaskRandom44_43; kMaskRandom44_44].

Definition kPacketMaskRandom45 : list (list Z) :=
  [kMaskRandom45_1; kMaskRandom45_2; kMaskRandom45_3; kMaskRandom45_4; kMaskRandom45_5;
   kMaskRandom45_6; kMaskRandom45_7; kMaskRandom45_8; kMaskRandom45_9; kMaskRandom45_10;
   kMaskRandom45_11; kMaskRandom45_12; kMaskRandom45_13; kMaskRandom45_14; kMaskRandom45_15;
   kMaskRandom45_16; kMaskRandom45_17; kMaskRandom45_18; kMaskRandom45_19; kMaskRandom45_20;
   kMaskRandom45_21; kMaskRandom45_22; kMaskRandom45_23; kMaskRandom45_24; kMaskRandom45_25;
   kMaskRandom45_26; kMaskRandom45_27; kMaskRandom45_28; kMaskRandom45_29; kMaskRandom45_30;
   kMaskRandom45_31; kMaskRandom45_32; kMaskRandom45_33; kMaskRandom45_34; kMaskRandom45_35;
   kMaskRandom45_36; kMaskRandom45_37; kMaskRandom45_38; kMaskRandom45_39; kMaskRandom45_40;
   kMaskRandom45_41; kMaskRandom45_42; kMaskRandom45_43; kMaskRandom45_44; kMaskRandom45_45].

Definition kPacketMaskRandom46 : list (list Z) :=
  [kMaskRandom46_1; kMaskRandom46_2; kMaskRandom46_3; kMaskRandom46_4; kMaskRandom46_5;
   kMaskRandom46_6; kMaskRandom46_7; kMaskRandom46_8; kMaskRandom46_9; kMaskRandom46_10;
   kMaskRandom46_11; kMaskRandom46_12; kMaskRandom46_13; kMaskRandom46_14; kMaskRandom46_15;
   kMaskRandom46_16; kMaskRandom46_17; kMaskRandom46_18; kMaskRandom46_19; kMaskRandom46_20;
   kMaskRandom46_21; kMaskRandom46_22; kMaskRandom46_23; kMaskRandom46_24; kMaskRandom46_25;
   kMaskRandom46_26; kMaskRandom46_27; kMaskRandom46_28; kMaskRandom46_29; kMaskRandom46_30;
   kMaskRandom46_31; kMaskRandom46_32; kMaskRandom46_33; kMaskRandom46_34; kMaskRandom46_35;
   kMaskRandom46_36; kMaskRandom46_37; kMaskRandom46_38; kMaskRandom46_39; kMaskRandom46_40;
   kMaskRandom46_41; kMaskRandom46_42; kMaskRandom46_43; kMaskRandom46_44; kMaskRandom46_45;
   kMaskRandom46_46].

Definition kPacketMaskRandom47 : list (list Z) :=
  [kMaskRandom47_1; kMaskRandom47_2; kMaskRandom47_3; kMaskRandom47_4; kMaskRandom47_5;
   kMaskRandom47_6; kMaskRandom47_7; kMaskRandom47_8; kMaskRandom47_9; kMaskRandom47_10;
   kMaskRandom47_11; kMaskRandom47_12; kMaskRandom47_13; kMaskRandom47_14; kMaskRandom47_15;
   kMaskRandom47_16; kMaskRandom47_17; kMaskRandom47_18; kMaskRandom47_19; kMaskRandom47_20;
   kMaskRandom47_21; kMaskRandom47_22; kMaskRandom47_23; kMaskRandom47_24; kMaskRandom47_25;
   kMaskRandom47_26; kMaskRandom47_27; kMaskRandom47_28; kMaskRandom47_29; kMaskRandom47_30;
   kMaskRandom47_31; kMaskRandom47_32; kMaskRandom47_33; kMaskRandom47_34; kMaskRandom47_35;
   kMaskRandom47_36; kMaskRandom47_37; kMaskRandom47_38; kMaskRandom47_39; kMaskRandom47_40;
   kMaskRandom47_41; kMaskRandom47_42; kMaskRandom47_43; kMaskRandom47_44; kMaskRandom47_45;
   kMaskRandom47_46; kMaskRandom47_47].

Definition kPacketMaskRandom48 : list (list Z) :=
  [kMaskRandom48_1; kMaskRandom48_2; kMaskRandom48_3; kMaskRandom48_4; kMaskRandom48_5;
   kMaskRandom48_6; kMaskRandom48_7; kMaskRandom48_8; kMaskRandom48_9; kMaskRandom48_10;
   kMaskRandom48_11; kMaskRandom48_12; kMaskRandom48_13; kMaskRandom48_14; kMaskRandom48_15;
   kMaskRandom48_16; kMaskRandom48_17; kMaskRandom48_18; kMaskRandom48_19; kMaskRandom48_20;
   kMaskRandom48_21; kMaskRandom48_22; kMaskRandom48_23; kMaskRandom48_24; kMaskRandom48_25;
   kMaskRandom48_26; kMaskRandom48_27; kMaskRandom48_28; kMaskRandom48_29; kMaskRandom48_30;
   kMaskRandom48_31; kMaskRandom48_32; kMaskRandom48_33; kMaskRandom48_34; kMaskRandom48_35;
   kMaskRandom48_36; kMaskRandom48_37; kMaskRandom48_38; kMaskRandom48_39; kMaskRandom48_40;
   kMaskRandom48_41; kMaskRandom48_42; kMaskRandom48_43; kMaskRandom48_44; kMaskRandom48_45;
   kMaskRandom48_46; kMaskRandom48_47; kMaskRandom48_48].

Definition kPacketMaskRandomTbl : list (list (list Z)) :=
  [kPacketMaskRandom1; kPacketMaskRandom2; kPacketMaskRandom3; kPacketMaskRandom4;
   kPacketMaskRandom5; kPacketMaskRandom6; kPacketMaskRandom7; kPacketMaskRandom8;
   kPacketMaskRandom9; kPacketMaskRandom10; kPacketMaskRandom11; kPacketMaskRandom12;
   kPacketMaskRandom13; kPacketMaskRandom14; kPacketMaskRandom15; kPacketMaskRandom16;
   kPacketMaskRandom17; kPacketMaskRandom18; kPacketMaskRandom19; kPacketMaskRandom20;
   kPacketMaskRandom21; kPacketMaskRandom22; kPacketMaskRandom23; kPacketMaskRandom24;
   kPacketMaskRandom25; kPacketMaskRandom26; kPacketMaskRandom27; kPacketMaskRandom28;
   kPacketMaskRandom29; kPacketMaskRandom30; kPacketMaskRandom31; kPacketMaskRandom32;
   kPacketMaskRandom33; kPacketMaskRandom34; kPacketMaskRandom35; kPacketMaskRandom36;
   kPacketMaskRandom37; kPacketMaskRandom38; kPacketMaskRandom39; kPacketMaskRandom40;
   kPacketMaskRandom41; kPacketMaskRandom42; kPacketMaskRandom43; kPacketMaskRandom44;
   kPacketMaskRandom45; kPacketMaskRandom46; kPacketMaskRandom47; kPacketMaskRandom48].
