(* ===== verification/FecTables.v ===== *)
(** * The mask tables, checked

    What a mask has to be ([mask_ok]) and the check, by computation, that every mask
    of the two tables is one. *)
From S2P Require Import Prelude Pointwise FecBursty FecRandom1 FecRandom2 FecRandom3.
Local Open Scope Z_scope.

Definition kMaskSizeLBitSet : Z := 6.
Definition kMaskSizeLBitClear : Z := 2.

(** ** What a mask protects *)

Definition mask_bytes (k : Z) : Z := if 16 <? k then kMaskSizeLBitSet else kMaskSizeLBitClear.

(** Row [i] of a mask with [nb] bytes in a row has media packet [j]. *)
Definition mask_has (nb : Z) (mask : list Z) (i j : Z) : bool :=
  Z.testbit (zat mask (i * nb + j / 8)) (7 - j mod 8).

(** A mask of [m] rows for [k] media packets: every row has a media packet, and none
    from [k] on; every media packet is in a row. *)
Record mask_ok (k m : Z) (mask : list Z) : Prop := mkMaskOk {
  ok_len : m * mask_bytes k <= Zlen mask;
  ok_bytes : forall q, 0 <= q < m * mask_bytes k -> is_u8 (zat mask q);
  ok_row : forall i, 0 <= i < m -> exists j, 0 <= j < k /\ mask_has (mask_bytes k) mask i j = true;
  ok_above : forall i j, 0 <= i < m -> k <= j < 8 * mask_bytes k ->
    mask_has (mask_bytes k) mask i j = false;
  ok_cover : forall j, 0 <= j < k -> exists i, 0 <= i < m /\ mask_has (mask_bytes k) mask i j = true
}.

Definition mask_okb (k m : Z) (mask : list Z) : bool :=
  let nb := mask_bytes k in
  (Zlen mask =? m * nb) && forallb (fun b => (0 <=? b) && (b <? 256)) mask &&
  forallb (fun i => existsb (mask_has nb mask i) (seqZ 0 k)) (seqZ 0 m) &&
  forallb (fun i => forallb (fun j => negb (mask_has nb mask i j)) (seqZ k (8 * nb - k))) (seqZ 0 m) &&
  forallb (fun j => existsb (fun i => mask_has nb mask i j) (seqZ 0 m)) (seqZ 0 k).

Lemma forallb_seqZ (f : Z -> bool) a n :
  forallb f (seqZ a n) = true -> forall j, a <= j < a + n -> f j = true.
Proof. rewrite forallb_forall. intros H j Hj. apply H, list_elem_of_In, elem_of_seqZ. lia. Qed.

Lemma existsb_seqZ (f : Z -> bool) a n :
  existsb f (seqZ a n) = true -> exists j, a <= j < a + n /\ f j = true.
Proof.
  rewrite existsb_exists. intros (j & Hj & ?). exists j. split; [|done].
  by apply list_elem_of_In, elem_of_seqZ in Hj.
Qed.

Lemma mask_okb_ok k m mask : mask_okb k m mask = true -> mask_ok k m mask /\ Zlen mask = m * mask_bytes k.
Proof.
  unfold mask_okb. rewrite !andb_true_iff. intros ((((Hl & Hb) & Hr) & Ha) & Hc).
  apply Z.eqb_eq in Hl. split; [|done]. split.
  - lia.
  - intros q Hq. rewrite forallb_forall in Hb. specialize (Hb (zat mask q)).
    rewrite andb_true_iff, Z.leb_le, Z.ltb_lt in Hb. apply Hb, list_elem_of_In.
    unfold zat. eapply list_elem_of_lookup_2, list_lookup_lookup_total_lt. unfold Zlen in Hl. lia.
  - intros i Hi. exact (existsb_seqZ _ _ _ (forallb_seqZ _ _ _ Hr i Hi)).
  - intros i j Hi Hj. apply (forallb_seqZ _ _ _ Ha) in Hi.
    apply negb_true_iff, (forallb_seqZ _ _ _ Hi). lia.
  - intros j Hj. exact (existsb_seqZ _ _ _ (forallb_seqZ _ _ _ Hc j Hj)).
Qed.

(** ** The tables *)

Definition table_okb (table : list (list (list Z))) : bool :=
  forallb (fun k =>
    forallb (fun m =>
      match table !! Z.to_nat (k - 1) with
      | Some row => match row !! Z.to_nat (m - 1) with Some mask => mask_okb k m mask | None => false end
      | None => false
      end) (seqZ 1 k)) (seqZ 1 (Zlen table)).

Lemma random_table_ok : table_okb kPacketMaskRandomTbl = true.
Proof. vm_compute. reflexivity. Qed.

Lemma bursty_table_ok : table_okb kPacketMaskBurstyTbl = true.
Proof. vm_compute. reflexivity. Qed.

Lemma random_table_len : Zlen kPacketMaskRandomTbl = 48.
Proof. vm_compute. reflexivity. Qed.

Lemma bursty_table_len : Zlen kPacketMaskBurstyTbl = 12.
Proof. vm_compute. reflexivity. Qed.
