(* ===== verification/FecMasks.v ===== *)
(** * Packet masks for error correction

    Models [modules/rtp_rtcp/source/forward_error_correction_internal.cc]: the choice
    of a mask, and the masks that give the first packets more protection.  A mask is
    the flat array of its rows; a pointer into it is the array and an offset. *)
From S2P Require Import Prelude Pointwise FecBursty FecRandom3 FecTables.
Local Open Scope Z_scope.

Inductive FecMaskType : Type := kFecMaskRandom | kFecMaskBursty.

Inductive ProtectionMode : Type := kModeNoOverlap | kModeOverlap | kModeBiasFirstPacket.
#[export] Instance ProtectionMode_eq_dec : EqDecision ProtectionMode.
Proof. solve_decision. Defined.

Record PacketMaskTable : Type := mkPacketMaskTable {
  fec_mask_type_ : FecMaskType;
  fec_packet_mask_table_ : list (list (list Z))
}.

Definition InitMaskType (fec_mask_type : FecMaskType) (num_media_packets : Z) : FecMaskType :=
  match fec_mask_type with
  | kFecMaskRandom => kFecMaskRandom
  | kFecMaskBursty =>
      if Zlen kPacketMaskBurstyTbl <? num_media_packets then kFecMaskRandom else kFecMaskBursty
  end.

Definition InitMaskTable (fec_mask_type : FecMaskType) : list (list (list Z)) :=
  match fec_mask_type with
  | kFecMaskRandom => kPacketMaskRandomTbl
  | kFecMaskBursty => kPacketMaskBurstyTbl
  end.

Definition new_PacketMaskTable (fec_mask_type : FecMaskType) (num_media_packets : Z) : PacketMaskTable :=
  let t := InitMaskType fec_mask_type num_media_packets in
  mkPacketMaskTable t (InitMaskTable t).

(** The array in row [i] and column [j] of the table. *)
Definition table_mask {R : Type} (mask_table : PacketMaskTable) (i j : Z) : flow R (list Z) :=
  let! row := rd (fec_packet_mask_table_ mask_table) i in rd row j.

(** The output mask is [packet_mask] from [base]. *)
Definition FitSubMask {R : Type} (num_mask_bytes num_sub_mask_bytes num_rows : Z) (sub_mask : list Z)
  (packet_mask : list Z) (base : Z) : flow R (list Z) :=
  if num_mask_bytes =? num_sub_mask_bytes then
    let! src := blk_get sub_mask 0 (num_rows * num_sub_mask_bytes) in
    blk_put packet_mask base src
  else
    for_up (Z.to_nat num_rows) 0 (fun i packet_mask =>
      for_up (Z.to_nat num_sub_mask_bytes) 0 (fun j packet_mask =>
        let! b := rd sub_mask (i * num_sub_mask_bytes + j) in
        wr packet_mask (base + i * num_mask_bytes + j) b) packet_mask) packet_mask.

Definition ShiftFitSubMask {R : Type} (num_mask_bytes res_mask_bytes num_column_shift end_row : Z)
  (sub_mask packet_mask : list Z) : flow R (list Z) :=
  let num_bit_shifts := Z.rem num_column_shift 8 in
  let num_byte_shifts := Z.shiftr num_column_shift 3 in
  for_up (Z.to_nat (end_row - num_column_shift)) num_column_shift (fun i packet_mask =>
    let pkt_mask_idx := i * num_mask_bytes + res_mask_bytes - 1 + num_byte_shifts in
    let pkt_mask_idx2 := (i - num_column_shift) * res_mask_bytes + res_mask_bytes - 1 in
    let! packet_mask :=
      if res_mask_bytes <? num_mask_bytes then
        let! b := rd sub_mask pkt_mask_idx2 in
        wr packet_mask (pkt_mask_idx + 1) (u8 (Z.shiftl b (8 - num_bit_shifts)))
      else Cont packet_mask in
    let! packet_mask :=
      for_up (Z.to_nat (res_mask_bytes - 1)) 0 (fun n packet_mask =>
        let! b := rd sub_mask (pkt_mask_idx2 - n) in
        let! p := rd sub_mask (pkt_mask_idx2 - n - 1) in
        wr packet_mask (pkt_mask_idx - n)
          (Z.lor (Z.shiftr b num_bit_shifts) (u8 (Z.shiftl p (8 - num_bit_shifts))))) packet_mask in
    let! b := rd sub_mask (pkt_mask_idx2 - (res_mask_bytes - 1)) in
    wr packet_mask (pkt_mask_idx - (res_mask_bytes - 1)) (Z.shiftr b num_bit_shifts)) packet_mask.

Definition RemainingPacketProtection {R : Type}
  (num_media_packets num_fec_remaining num_fec_for_imp_packets num_mask_bytes : Z)
  (mode : ProtectionMode) (packet_mask : list Z) (mask_table : PacketMaskTable) : flow R (list Z) :=
  match mode with
  | kModeNoOverlap =>
      let l_bit := 16 <? num_media_packets - num_fec_for_imp_packets in
      let res_mask_bytes := if l_bit then kMaskSizeLBitSet else kMaskSizeLBitClear in
      let! packet_mask_sub_21 :=
        table_mask mask_table (num_media_packets - num_fec_for_imp_packets - 1) (num_fec_remaining - 1) in
      ShiftFitSubMask num_mask_bytes res_mask_bytes num_fec_for_imp_packets
        (num_fec_for_imp_packets + num_fec_remaining) packet_mask_sub_21 packet_mask
  | _ =>
      let! packet_mask_sub_22 := table_mask mask_table (num_media_packets - 1) (num_fec_remaining - 1) in
      let! packet_mask :=
        FitSubMask num_mask_bytes num_mask_bytes num_fec_remaining packet_mask_sub_22
          packet_mask (num_fec_for_imp_packets * num_mask_bytes) in
      match mode with
      | kModeBiasFirstPacket =>
          for_up (Z.to_nat num_fec_remaining) 0 (fun i packet_mask =>
            let! b := rd packet_mask (i * num_mask_bytes) in
            wr packet_mask (i * num_mask_bytes) (Z.lor b 128)) packet_mask
      | _ => Cont packet_mask
      end
  end.

Definition ImportantPacketProtection {R : Type}
  (num_fec_for_imp_packets num_imp_packets num_mask_bytes : Z) (packet_mask : list Z)
  (mask_table : PacketMaskTable) : flow R (list Z) :=
  let l_bit := 16 <? num_imp_packets in
  let num_imp_mask_bytes := if l_bit then kMaskSizeLBitSet else kMaskSizeLBitClear in
  let! packet_mask_sub_1 := table_mask mask_table (num_imp_packets - 1) (num_fec_for_imp_packets - 1) in
  FitSubMask num_mask_bytes num_imp_mask_bytes num_fec_for_imp_packets packet_mask_sub_1 packet_mask 0.

(** Half of an [int] of at most 48, as a [float], is exact. *)
Definition SetProtectionAllocation (num_media_packets num_fec_packets num_imp_packets : Z) : Z :=
  let max_num_fec_for_imp := Z.quot num_fec_packets 2 in
  let num_fec_for_imp_packets :=
    if num_imp_packets <? max_num_fec_for_imp then num_imp_packets else max_num_fec_for_imp in
  if (num_fec_packets =? 1) && (2 * num_imp_packets <? num_media_packets) then 0
  else num_fec_for_imp_packets.

Definition UnequalProtectionMask {R : Type}
  (num_media_packets num_fec_packets num_imp_packets num_mask_bytes : Z) (packet_mask : list Z)
  (mask_table : PacketMaskTable) : flow R (list Z) :=
  let mode := kModeOverlap in
  let num_fec_for_imp_packets :=
    if decide (mode = kModeBiasFirstPacket) then 0
    else SetProtectionAllocation num_media_packets num_fec_packets num_imp_packets in
  let num_fec_remaining := num_fec_packets - num_fec_for_imp_packets in
  let! packet_mask :=
    if 0 <? num_fec_for_imp_packets then
      ImportantPacketProtection num_fec_for_imp_packets num_imp_packets num_mask_bytes packet_mask mask_table
    else Cont packet_mask in
  if 0 <? num_fec_remaining then
    RemainingPacketProtection num_media_packets num_fec_remaining num_fec_for_imp_packets num_mask_bytes
      mode packet_mask mask_table
  else Cont packet_mask.

Definition GeneratePacketMasks {R : Type} (num_media_packets num_fec_packets num_imp_packets : Z)
  (use_unequal_protection : bool) (mask_table : PacketMaskTable) (packet_mask : list Z) : flow R (list Z) :=
  let l_bit := 16 <? num_media_packets in
  let num_mask_bytes := if l_bit then kMaskSizeLBitSet else kMaskSizeLBitClear in
  if negb use_unequal_protection || (num_imp_packets =? 0) then
    let! mask := table_mask mask_table (num_media_packets - 1) (num_fec_packets - 1) in
    let! src := blk_get mask 0 (num_fec_packets * num_mask_bytes) in
    blk_put packet_mask 0 src
  else
    UnequalProtectionMask num_media_packets num_fec_packets num_imp_packets num_mask_bytes
      packet_mask mask_table.

(** ** The tables in use *)

(** A table that has every mask for up to [n] media packets. *)
Definition serves (t : PacketMaskTable) (n : Z) : Prop :=
  forall R k m, 1 <= m <= k -> k <= n ->
  exists mask, table_mask (R := R) t (k - 1) (m - 1) = Cont mask
    /\ mask_ok k m mask /\ Zlen mask = m * mask_bytes k.

Lemma table_okb_serves table t ty :
  table_okb table = true -> t = mkPacketMaskTable ty table -> serves t (Zlen table).
Proof.
  intros H -> R k m Hm Hk. assert (Hk' := forallb_seqZ _ _ _ H k ltac:(lia)).
  assert (Hm' := forallb_seqZ _ _ _ Hk' m ltac:(lia)). cbv beta in Hm'.
  destruct (table !! Z.to_nat (k - 1)) as [row|] eqn:Er; [|done].
  destruct (row !! Z.to_nat (m - 1)) as [mask|] eqn:Em; [|done].
  exists mask. split; [|by apply mask_okb_ok].
  unfold table_mask. cbn [fec_packet_mask_table_].
  rewrite (rd_Cont _ _ row) by (done || lia). cbn [flow_bind]. apply rd_Cont; [lia|done].
Qed.

Lemma new_table_serves ty k : 1 <= k <= 48 -> serves (new_PacketMaskTable ty k) k.
Proof.
  intros Hk R k' m Hm Hk'. unfold new_PacketMaskTable.
  destruct (InitMaskType ty k) eqn:Et.
  - eapply (table_okb_serves _ _ _ random_table_ok); [reflexivity|lia|]. rewrite random_table_len. lia.
  - eapply (table_okb_serves _ _ _ bursty_table_ok); [reflexivity|lia|].
    unfold InitMaskType in Et. rewrite bursty_table_len in *. destruct ty; [done|].
    destruct (Z.ltb_spec 12 k); [done|lia].
Qed.

(** ** Fitting a mask *)

(** [out] is [mask] with the [rows] rows of [sub] stored from [base] on; the bytes of a
    row that [sub] does not have are those of [mask]. *)
Definition fitted (nb nbs rows base : Z) (sub mask out : list Z) : Prop :=
  Zlen out = Zlen mask
  /\ (forall i j, 0 <= i < rows -> 0 <= j < nb ->
        zat out (base + i * nb + j) = if j <? nbs then zat sub (i * nbs + j) else zat mask (base + i * nb + j))
  /\ (forall q, 0 <= q -> ~ base <= q < base + rows * nb -> zat out q = zat mask q).

Lemma mask_bytes_cases k : mask_bytes k = 2 /\ k <= 16 \/ mask_bytes k = 6 /\ 16 < k.
Proof. unfold mask_bytes. destruct (Z.ltb_spec 16 k); [right|left]; done. Qed.

Lemma FitSubMask_same {R} nb rows base sub mask :
  0 < nb -> 0 <= rows -> 0 <= base -> base + rows * nb <= Zlen mask -> rows * nb <= Zlen sub ->
  gives (FitSubMask (R := R) nb nb rows sub mask base) (fitted nb nb rows base sub mask).
Proof.
  intros. unfold FitSubMask. rewrite Z.eqb_refl.
  eapply gives_weaken; [apply gives_copy_at; nia|].
  intros out [Hl Hq]. split; [done|]. split.
  - intros i j Hi Hj. rewrite Hq by nia. rewrite (proj2 (Z.ltb_lt j nb)) by lia.
    destruct (in_span_spec base (rows * nb) (base + i * nb + j)); [f_equal; lia|nia].
  - intros q Hq0 Hn. rewrite Hq by done. by destruct (in_span_spec base (rows * nb) q).
Qed.

Lemma FitSubMask_wider {R} rows base sub mask :
  0 <= rows -> 0 <= base -> base + rows * 6 <= Zlen mask -> rows * 2 <= Zlen sub ->
  gives (FitSubMask (R := R) 6 2 rows sub mask base) (fitted 6 2 rows base sub mask).
Proof.
  intros Hr Hb Hm Hs. unfold FitSubMask. change (6 =? 2) with false. cbv iota.
  destruct (for_up_inv (R := R) (fun i out => fitted 6 2 i base sub mask out)
    (fun i packet_mask => for_up (Z.to_nat 2) 0 (fun j packet_mask =>
        let! b := rd sub (i * 2 + j) in wr packet_mask (base + i * 6 + j) b) packet_mask)
    (Z.to_nat rows) 0 mask) as (out & -> & Hf).
  - split; [done|]. split; [lia|]. done.
  - intros i o Hi (Hl & Hin & Hout). rewrite Z2Nat.id in Hi by lia.
    change (Z.to_nat 2) with 2%nat. cbn [for_up].
    rewrite !rd_zat by lia. cbn [flow_bind].
    destruct (gives_wr_at (R := R) o (base + i * 6 + 0) (zat sub (i * 2 + 0)))
      as (o1 & -> & Hl1 & H1); [lia|]. cbn [flow_bind].
    destruct (gives_wr_at (R := R) o1 (base + i * 6 + (0 + 1)) (zat sub (i * 2 + (0 + 1))))
      as (o2 & -> & Hl2 & H2); [lia|]. cbn [flow_bind].
    exists o2. split; [done|]. split; [lia|]. split.
    + intros a j Ha Hj. rewrite H2, H1 by lia. destruct (decide (a = i)) as [->|].
      * rewrite Hout by lia. destruct (Z.eqb_spec (base + i * 6 + j) (base + i * 6 + (0 + 1))),
          (Z.eqb_spec (base + i * 6 + j) (base + i * 6 + 0)), (Z.ltb_spec j 2);
          try lia; try done; f_equal; lia.
      * rewrite <- Hin by lia.
        destruct (Z.eqb_spec (base + a * 6 + j) (base + i * 6 + (0 + 1))),
          (Z.eqb_spec (base + a * 6 + j) (base + i * 6 + 0)); done || lia.
    + intros q Hq Hn. rewrite H2, H1 by lia.
      destruct (Z.eqb_spec q (base + i * 6 + (0 + 1))), (Z.eqb_spec q (base + i * 6 + 0));
        try lia. apply Hout; lia.
  - exists out. split; [done|]. by rewrite Z.add_0_l, Z2Nat.id in Hf by lia.
Qed.

(** Both cases, for masks for at most as many packets. *)
Lemma FitSubMask_fits {R} k k' rows base sub mask :
  k' <= k -> 0 <= rows -> 0 <= base -> base + rows * mask_bytes k <= Zlen mask ->
  rows * mask_bytes k' <= Zlen sub ->
  gives (FitSubMask (R := R) (mask_bytes k) (mask_bytes k') rows sub mask base)
    (fitted (mask_bytes k) (mask_bytes k') rows base sub mask).
Proof.
  intros Hk. destruct (mask_bytes_cases k) as [[-> ?]|[-> ?]], (mask_bytes_cases k') as [[-> ?]|[-> ?]];
    intros; first [lia | apply FitSubMask_wider; lia | apply FitSubMask_same; lia].
Qed.

(** The rows of the sub-mask in the fitted mask. *)
Lemma fitted_has nb nbs rows base r0 sub mask out i j :
  0 < nb -> nbs <= nb -> fitted nb nbs rows base sub mask out -> base = r0 * nb ->
  0 <= i < rows -> 0 <= j < 8 * nbs ->
  mask_has nb out (r0 + i) j = mask_has nbs sub i j.
Proof.
  intros Hnb Hle (_ & Hin & _) -> Hi Hj. unfold mask_has. f_equal.
  assert (0 <= j / 8 < nbs) by (split; [apply Z.div_pos; lia|apply Z.div_lt_upper_bound; lia]).
  replace ((r0 + i) * nb + j / 8) with (r0 * nb + i * nb + j / 8) by lia.
  rewrite Hin by lia. by rewrite (proj2 (Z.ltb_lt (j / 8) nbs)) by lia.
Qed.

(** The other columns, where they were zero. *)
Lemma fitted_rest nb nbs rows base r0 sub mask out i j :
  0 < nb -> fitted nb nbs rows base sub mask out -> base = r0 * nb ->
  (forall q, base <= q < base + rows * nb -> zat mask q = 0) ->
  0 <= i < rows -> 8 * nbs <= j < 8 * nb -> 0 <= j ->
  mask_has nb out (r0 + i) j = false.
Proof.
  intros Hnb (_ & Hin & _) -> Hz Hi Hj Hj0. unfold mask_has.
  assert (nbs <= j / 8) by (apply Z.div_le_lower_bound; lia).
  assert (0 <= j / 8 < nb) by (split; [apply Z.div_pos; lia|apply Z.div_lt_upper_bound; lia]).
  replace ((r0 + i) * nb + j / 8) with (r0 * nb + i * nb + j / 8) by lia.
  rewrite Hin by lia. rewrite (proj2 (Z.ltb_ge (j / 8) nbs)) by lia.
  rewrite Hz by nia. apply Z.bits_0.
Qed.

Lemma fitted_other nb nbs rows base sub mask out i j :
  0 < nb -> fitted nb nbs rows base sub mask out ->
  0 <= i -> 0 <= j < 8 * nb -> i * nb + nb <= base \/ base + rows * nb <= i * nb ->
  mask_has nb out i j = mask_has nb mask i j.
Proof.
  intros Hnb (_ & _ & Hout) Hi Hj Ho. unfold mask_has. f_equal.
  assert (0 <= j / 8 < nb) by (split; [apply Z.div_pos; lia|apply Z.div_lt_upper_bound; lia]).
  apply Hout; nia.
Qed.

Lemma fitted_bytes nb nbs rows base sub mask out :
  0 < nb -> 0 <= nbs -> 0 <= base -> fitted nb nbs rows base sub mask out ->
  (forall q, 0 <= q < rows * nbs -> is_u8 (zat sub q)) ->
  (forall q, 0 <= q < base + rows * nb -> is_u8 (zat mask q)) ->
  forall q, 0 <= q < base + rows * nb -> is_u8 (zat out q).
Proof.
  intros Hnb Hnbs Hb (_ & Hin & Hout) Hs Hm q Hq.
  destruct (Z.ltb_spec q base); [rewrite Hout by lia; by apply Hm|].
  assert (Hd := Z.div_mod (q - base) nb ltac:(lia)).
  assert (Hr := Z.mod_pos_bound (q - base) nb Hnb).
  assert (0 <= (q - base) / nb < rows)
    by (split; [apply Z.div_pos; lia|apply Z.div_lt_upper_bound; lia]).
  replace q with (base + (q - base) / nb * nb + (q - base) mod nb) by lia.
  rewrite Hin by lia. destruct (Z.ltb_spec ((q - base) mod nb) nbs); [apply Hs; nia|].
  apply Hm. nia.
Qed.

(** ** The masks of one call *)

(** A mask with unequal protection: the first [t] rows are a mask for the [imp]
    important packets alone, the other rows one for all of them. *)
Record uep_ok (k m imp t : Z) (mask : list Z) : Prop := mkUepOk {
  uep_imp_row : forall i, 0 <= i < t -> exists j, 0 <= j < imp /\ mask_has (mask_bytes k) mask i j = true;
  uep_imp_only : forall i j, 0 <= i < t -> imp <= j < 8 * mask_bytes k ->
    mask_has (mask_bytes k) mask i j = false;
  uep_imp_cover : forall j, 0 < t -> 0 <= j < imp ->
    exists i, 0 <= i < t /\ mask_has (mask_bytes k) mask i j = true;
  uep_all_row : forall i, t <= i < m -> exists j, 0 <= j < k /\ mask_has (mask_bytes k) mask i j = true;
  uep_all_above : forall i j, t <= i < m -> k <= j < 8 * mask_bytes k ->
    mask_has (mask_bytes k) mask i j = false;
  uep_all_cover : forall j, 0 <= j < k -> exists i, t <= i < m /\ mask_has (mask_bytes k) mask i j = true;
  uep_bytes : forall q, 0 <= q < m * mask_bytes k -> is_u8 (zat mask q)
}.

Lemma uep_mask_ok k m imp t mask :
  0 <= t -> imp <= k -> m * mask_bytes k <= Zlen mask -> uep_ok k m imp t mask -> mask_ok k m mask.
Proof.
  intros Ht Hi Hl [H1 H2 H3 H4 H5 H6 H7]. split; [done|done| | |].
  - intros i Hr. destruct (decide (i < t)); [|apply H4; lia].
    destruct (H1 i ltac:(lia)) as (j & ? & ?). exists j. split; [lia|done].
  - intros i j Hr Hj. destruct (decide (i < t)); [apply H2|apply H5]; lia.
  - intros j Hj. destruct (H6 j Hj) as (i & ? & ?). exists i. split; [lia|done].
Qed.

Lemma SetProtectionAllocation_bounds k m imp :
  1 <= m -> 0 <= imp -> 
  0 <= SetProtectionAllocation k m imp <= imp /\ SetProtectionAllocation k m imp <= m / 2.
Proof.
  intros Hm Hi. unfold SetProtectionAllocation. rewrite Z.quot_div_nonneg by lia.
  assert (0 <= m / 2) by (apply Z.div_pos; lia).
  destruct (_ && _), (Z.ltb_spec imp (m / 2)); lia.
Qed.

Lemma mask_bytes_mono k k' : k' <= k -> 2 <= mask_bytes k' <= mask_bytes k.
Proof. destruct (mask_bytes_cases k) as [[-> ?]|[-> ?]], (mask_bytes_cases k') as [[-> ?]|[-> ?]]; lia. Qed.

Lemma mask_bytes_enough k : k <= 48 -> k <= 8 * mask_bytes k.
Proof. destruct (mask_bytes_cases k) as [[-> ?]|[-> ?]]; lia. Qed.

Section unequal.
Context (t : PacketMaskTable) (k m imp : Z).
Hypothesis (Hserves : serves t k) (Hm : 1 <= m <= k) (Himp : 0 <= imp <= k) (Hk : k <= 48).

(** The first part: the masks for the important packets. *)
Lemma important_rows {R} r pm :
  0 <= r <= imp -> r < m -> m * mask_bytes k <= Zlen pm ->
  (forall q, 0 <= q < m * mask_bytes k -> zat pm q = 0) ->
  gives (if 0 <? r then ImportantPacketProtection (R := R) r imp (mask_bytes k) pm t else Cont pm)
    (fun out => Zlen out = Zlen pm
      /\ (forall i, 0 <= i < r -> exists j, 0 <= j < imp /\ mask_has (mask_bytes k) out i j = true)
      /\ (forall i j, 0 <= i < r -> imp <= j < 8 * mask_bytes k -> mask_has (mask_bytes k) out i j = false)
      /\ (forall j, 0 < r -> 0 <= j < imp -> exists i, 0 <= i < r /\ mask_has (mask_bytes k) out i j = true)
      /\ (forall q, 0 <= q < m * mask_bytes k -> is_u8 (zat out q))).
Proof.
  intros Hr Hrm Hl Hz.
  assert (Hu : forall q, 0 <= q < m * mask_bytes k -> is_u8 (zat pm q))
    by (intros q Hq; rewrite Hz by done; unfold is_u8; lia).
  destruct (Z.ltb_spec 0 r).
  2:{ apply gives_Cont. split; [done|]. split; [intros; lia|]. split; [intros; lia|].
      split; [intros; lia|done]. }
  unfold ImportantPacketProtection. fold (mask_bytes imp).
  destruct (Hserves R imp r ltac:(lia) ltac:(lia)) as (sub & -> & [Sl Sb Sr Sa Sc] & Hs).
  cbn [flow_bind]. assert (Hb := mask_bytes_mono k imp ltac:(lia)).
  eapply gives_weaken; [apply FitSubMask_fits; nia|]. intros out Hf. split; [apply Hf|].
  assert (Hh : forall i j, 0 <= i < r -> 0 <= j < 8 * mask_bytes imp ->
      mask_has (mask_bytes k) out i j = mask_has (mask_bytes imp) sub i j)
    by (intros i j; exact (fitted_has (mask_bytes k) (mask_bytes imp) r 0 0 sub pm out i j ltac:(lia) (proj2 Hb) Hf eq_refl)).
  assert (Hrest := fun i j => fitted_rest (mask_bytes k) (mask_bytes imp) r 0 0 sub pm out i j ltac:(lia) Hf eq_refl).
  split; [|split; [|split]].
  - intros i Hi. destruct (Sr i Hi) as (j & Hj & Hjm). exists j. split; [done|].
    assert (He := mask_bytes_enough imp ltac:(lia)).
    rewrite Hh by lia. done.
  - intros i j Hi Hj. destruct (decide (j < 8 * mask_bytes imp)).
    + rewrite Hh by lia. apply Sa; lia.
    + apply (Hrest i j); [|lia|lia|lia]. intros q Hq. apply Hz. nia.
  - intros j _ Hj. destruct (Sc j Hj) as (i & Hi & Him). exists i. split; [done|].
    assert (He := mask_bytes_enough imp ltac:(lia)).
    rewrite Hh by lia. done.
  - intros q Hq. destruct (decide (q < r * mask_bytes k)).
    + apply (fitted_bytes (mask_bytes k) (mask_bytes imp) r 0 sub pm out
        ltac:(lia) ltac:(lia) ltac:(lia) Hf Sb); [|lia]. intros q' Hq'. apply Hu. nia.
    + destruct Hf as (_ & _ & Ho). rewrite Ho by lia. by apply Hu.
Qed.

(** The second part, stored after it: the mask for all packets. *)
Lemma remaining_rows {R} r (pm0 pm : list Z) :
  0 <= r < m -> m * mask_bytes k <= Zlen pm -> Zlen pm = Zlen pm0 ->
  (forall i, 0 <= i < r -> exists j, 0 <= j < imp /\ mask_has (mask_bytes k) pm i j = true) ->
  (forall i j, 0 <= i < r -> imp <= j < 8 * mask_bytes k -> mask_has (mask_bytes k) pm i j = false) ->
  (forall j, 0 < r -> 0 <= j < imp -> exists i, 0 <= i < r /\ mask_has (mask_bytes k) pm i j = true) ->
  (forall q, 0 <= q < m * mask_bytes k -> is_u8 (zat pm q)) ->
  gives (RemainingPacketProtection (R := R) k (m - r) r (mask_bytes k) kModeOverlap pm t)
    (fun out => Zlen out = Zlen pm0 /\ uep_ok k m imp r out).
Proof.
  intros Hr Hl Hl0 H1 H2 H3 H4. unfold RemainingPacketProtection.
  destruct (Hserves R k (m - r) ltac:(lia) ltac:(lia)) as (sub & -> & [Sl Sb Sr Sa Sc] & Hs).
  cbn [flow_bind]. assert (Hb := mask_bytes_mono k k ltac:(lia)).
  assert (Hk8 := mask_bytes_enough k Hk).
  eapply gives_bind; [apply FitSubMask_fits; nia|]. intros out Hf. apply gives_Cont.
  split; [rewrite <- Hl0; apply Hf|].
  assert (Hh := fun i j => fitted_has (mask_bytes k) (mask_bytes k) (m - r) (r * mask_bytes k) r sub pm out i j ltac:(lia) (proj2 Hb) Hf eq_refl).
  assert (Ho : forall i j, 0 <= i < r -> 0 <= j < 8 * mask_bytes k ->
    mask_has (mask_bytes k) out i j = mask_has (mask_bytes k) pm i j)
    by (intros; apply (fitted_other (mask_bytes k) (mask_bytes k) (m - r) (r * mask_bytes k) sub pm out
          i j ltac:(lia) Hf); [lia|lia|nia]).
  assert (Hrow : forall i, r <= i < m -> forall j, 0 <= j < 8 * mask_bytes k ->
    mask_has (mask_bytes k) out i j = mask_has (mask_bytes k) sub (i - r) j).
  { intros i Hi j Hj. rewrite <- Hh by lia. f_equal. lia. }
  split.
  - intros i Hi. destruct (H1 i Hi) as (j & Hj & Hjm). exists j. split; [done|]. by rewrite Ho by lia.
  - intros i j Hi Hj. rewrite Ho by lia. by apply H2.
  - intros j Hr0 Hj. destruct (H3 j Hr0 Hj) as (i & Hi & Him). exists i. split; [done|].
    by rewrite Ho by lia.
  - intros i Hi. destruct (Sr (i - r) ltac:(lia)) as (j & Hj & Hjm). exists j. split; [done|].
    by rewrite Hrow by lia.
  - intros i j Hi Hj. rewrite Hrow by lia. apply Sa; lia.
  - intros j Hj. destruct (Sc j Hj) as (i & Hi & Him). exists (r + i). split; [lia|].
    by rewrite Hh by lia.
  - intros q Hq. apply (fitted_bytes (mask_bytes k) (mask_bytes k) (m - r) (r * mask_bytes k) sub pm out
        ltac:(lia) ltac:(lia) ltac:(nia) Hf Sb); [|nia]. intros q' Hq'. apply H4. nia.
Qed.

Lemma UnequalProtectionMask_rows {R} pm :
  m * mask_bytes k <= Zlen pm -> (forall q, 0 <= q < m * mask_bytes k -> zat pm q = 0) ->
  gives (UnequalProtectionMask (R := R) k m imp (mask_bytes k) pm t)
    (fun out => Zlen out = Zlen pm /\ uep_ok k m imp (SetProtectionAllocation k m imp) out).
Proof.
  intros Hl Hz. unfold UnequalProtectionMask. cbv zeta.
  destruct (decide (kModeOverlap = kModeBiasFirstPacket)); [done|].
  destruct (SetProtectionAllocation_bounds k m imp) as [Hr1 Hr2]; [lia|lia|].
  set (r := SetProtectionAllocation k m imp) in *. clearbody r.
  assert (m / 2 < m) by (apply Z.div_lt; lia).
  eapply gives_bind; [by apply important_rows; [lia|lia| |]|].
  intros o (Ho & H1 & H2 & H3 & H4). destruct (Z.ltb_spec 0 (m - r)); [|lia].
  apply remaining_rows; try done; lia.
Qed.
End unequal.

(** Any call gives a mask that protects every packet. *)
Lemma GeneratePacketMasks_ok {R} k m imp uep ty pm :
  1 <= m <= k -> k <= 48 -> 0 <= imp <= k -> m * mask_bytes k <= Zlen pm ->
  (forall q, 0 <= q < m * mask_bytes k -> zat pm q = 0) ->
  gives (GeneratePacketMasks (R := R) k m imp uep (new_PacketMaskTable ty k) pm)
    (fun out => Zlen out = Zlen pm /\ mask_ok k m out).
Proof.
  intros Hm Hk Hi Hl Hz. unfold GeneratePacketMasks. fold (mask_bytes k).
  assert (Hs := new_table_serves ty k ltac:(lia)).
  destruct (negb uep || (imp =? 0)).
  - destruct (Hs R k m ltac:(lia) ltac:(lia)) as (sub & -> & [Sl Sb Sr Sa Sc] & Hsl). cbn [flow_bind].
    assert (Hb := mask_bytes_mono k k ltac:(lia)). assert (He := mask_bytes_enough k Hk).
    eapply gives_weaken; [apply gives_copy_at; nia|]. intros out [Ho Hoj]. split; [done|].
    assert (Hq : forall q, 0 <= q < m * mask_bytes k -> zat out q = zat sub q).
    { intros q Hq. rewrite Hoj by lia. destruct (in_span_spec 0 (m * mask_bytes k) q); [f_equal|]; lia. }
    assert (Hh : forall i j, 0 <= i < m -> 0 <= j < 8 * mask_bytes k ->
      mask_has (mask_bytes k) out i j = mask_has (mask_bytes k) sub i j).
    { intros i j Hi' Hj. unfold mask_has. f_equal. apply Hq.
      assert (0 <= j / 8 < mask_bytes k)
        by (split; [apply Z.div_pos; lia|apply Z.div_lt_upper_bound; lia]). nia. }
    split; [lia|intros q Hq'; rewrite Hq by done; by apply Sb| | |].
    + intros i Hi'. destruct (Sr i Hi') as (j & ? & ?). exists j. split; [done|]. by rewrite Hh by lia.
    + intros i j Hi' Hj. rewrite Hh by lia. by apply Sa.
    + intros j Hj. destruct (Sc j Hj) as (i & ? & ?). exists i. split; [done|]. by rewrite Hh by lia.
  - eapply gives_weaken; [by apply UnequalProtectionMask_rows|]. intros out [Ho Hu]. split; [done|].
    eapply uep_mask_ok; [| |lia|exact Hu]; [|lia].
    apply SetProtectionAllocation_bounds; lia.
Qed.

(** C18: For up to 48 media packets, any number of packets of error correction up to that,
    any number of important packets and both kinds of tables, the masks stay within the
    buffer, every row has a media packet and none beyond the last, and every media packet
    is in a row; with unequal protection the first rows are for the important packets
    alone and cover them, and the others cover all packets again. *)
Theorem GeneratePacketMasks_protects k m imp uep ty pm :
  1 <= m <= k -> k <= 48 -> 0 <= imp <= k -> m * mask_bytes k <= Zlen pm ->
  (forall q, 0 <= q < m * mask_bytes k -> zat pm q = 0) ->
  exists out,
    run_flow (GeneratePacketMasks k m imp uep (new_PacketMaskTable ty k) pm) = Some out
    /\ Zlen out = Zlen pm /\ mask_ok k m out
    /\ (uep = true -> 0 < imp -> uep_ok k m imp (SetProtectionAllocation k m imp) out).
Proof.
  intros Hm Hk Hi Hl Hz.
  destruct (GeneratePacketMasks_ok (R := list Z) k m imp uep ty pm Hm Hk Hi Hl Hz) as (out & E & Hlen & Hok).
  exists out. rewrite E. split; [done|]. split; [done|]. split; [done|]. intros -> Hpos.
  unfold GeneratePacketMasks in E. cbn [negb orb] in E. destruct (Z.eqb_spec imp 0); [lia|].
  destruct (UnequalProtectionMask_rows (R := list Z) (new_PacketMaskTable ty k) k m imp
    (new_table_serves ty k ltac:(lia)) Hm Hi Hk pm Hl Hz) as (out' & E' & _ & Hu).
  fold (mask_bytes k) in E. rewrite E' in E. by injection E as <-.
Qed.

(** Six packets of error correction for ten media packets, of which four are important. *)
Lemma GeneratePacketMasks_protects_witness :
  exists out,
    run_flow (GeneratePacketMasks 10 6 4 true (new_PacketMaskTable kFecMaskBursty 10) (replicate 36 0)) = Some out
    /\ Zlen out = 36 /\ mask_ok 10 6 out /\ uep_ok 10 6 4 3 out.
Proof.
  destruct (GeneratePacketMasks_protects 10 6 4 true kFecMaskBursty (replicate 36 0)) as (out & E & Hl & Hok & Hu);
    [lia|lia|lia|vm_compute; discriminate|intros q Hq; apply (zat_replicate 36); change (6 * mask_bytes 10) with 12 in Hq; lia|].
  exists out. split; [exact E|]. split; [exact Hl|]. split; [exact Hok|]. apply Hu; [reflexivity|lia].
Defined.
