(* ===== verification/FecPacket.v ===== *)
(** * Packets for error correction: the sender's side, byte by byte

    Models the part of [modules/rtp_rtcp/source/forward_error_correction.cc] that
    writes one packet of error correction: the sums of the protected packets
    ([GenerateFecBitStrings]) and the headers ([GenerateFecUlpHeaders]). *)
From S2P Require Import Prelude Pointwise RtpWire FecTables.
Local Open Scope Z_scope.

Definition kFecHeaderSize : Z := 10.
Definition kUlpHeaderSizeLBitSet : Z := 2 + kMaskSizeLBitSet.
Definition kUlpHeaderSizeLBitClear : Z := 2 + kMaskSizeLBitClear.
Definition kMaxMediaPackets : Z := 48.

(** The [data] of a packet is an array of [IP_PACKET_SIZE] bytes. *)
Record Packet : Type := mkPacket { pkt_length : Z; pkt_data : list Z }.
#[export] Instance Packet_inhabited : Inhabited Packet := populate (mkPacket 0 []).

Definition ParseSequenceNumber {R : Type} (packet : list Z) : flow R Z :=
  let! b2 := rd packet 2 in
  let! b3 := rd packet 3 in
  Cont (u16 (Z.shiftl b2 8 + b3)).

(** [dst[j] ^= src[k]]. *)
Definition xor_byte {R : Type} (dst : list Z) (j : Z) (src : list Z) (k : Z) : flow R (list Z) :=
  let! a := rd dst j in
  let! b := rd src k in
  wr dst j (Z.lxor a b).

(** [memcpy(&dst[off], &src[soff], n)]. *)
Definition copy {R : Type} (dst : list Z) (off : Z) (src : list Z) (soff n : Z) : flow R (list Z) :=
  let! b := blk_get src soff n in blk_put dst off b.

(** One protected packet in the sum [generated]. *)
Definition protect {R : Type} (ulp_header_size fec_rtp_offset : Z) (media_packet generated : Packet)
  : flow R Packet :=
  let src := pkt_data media_packet in
  let! media_payload_length :=
    AssignUWord16ToBuffer [0; 0] 0 (u16 (pkt_length media_packet - kRtpHeaderSize)) in
  let fec_packet_length := u16 (pkt_length media_packet + fec_rtp_offset) in
  let! data :=
    if pkt_length generated =? 0 then
      let! data := copy (pkt_data generated) 0 src 0 2 in
      let! data := copy data 4 src 4 4 in
      let! data := copy data 8 media_payload_length 0 2 in
      copy data (kFecHeaderSize + ulp_header_size) src kRtpHeaderSize (pkt_length media_packet - kRtpHeaderSize)
    else
      let! data := xor_byte (pkt_data generated) 0 src 0 in
      let! data := xor_byte data 1 src 1 in
      let! data := for_up 4 4 (fun j data => xor_byte data j src j) data in
      let! data := xor_byte data 8 media_payload_length 0 in
      let! data := xor_byte data 9 media_payload_length 1 in
      for_up (Z.to_nat (fec_packet_length - (kFecHeaderSize + ulp_header_size))) (kFecHeaderSize + ulp_header_size)
        (fun j data => xor_byte data j src (j - fec_rtp_offset)) data in
  Cont (mkPacket (if pkt_length generated <? fec_packet_length then fec_packet_length else pkt_length generated) data).

(** The walk over the media packets for one row of the mask.  A shift by a negative
    number of bits is undefined. *)
Fixpoint row_loop {R : Type} (ulp_header_size fec_rtp_offset : Z) (packet_mask : list Z)
  (media_packet_list : list Packet) (pkt_mask_idx media_pkt_idx prev_seq_num : Z) (generated : Packet)
  : flow R Packet :=
  match media_packet_list with
  | [] => Cont generated
  | media_packet :: media_list_it =>
      let! b := rd packet_mask pkt_mask_idx in
      let! bit := if 7 <? media_pkt_idx then Stuck else Cont (Z.land b (Z.shiftl 1 (7 - media_pkt_idx))) in
      let! generated :=
        if negb (bit =? 0) then protect ulp_header_size fec_rtp_offset media_packet generated
        else Cont generated in
      let! next :=
        match media_list_it with
        | [] => Cont (media_pkt_idx, prev_seq_num)
        | next_packet :: _ =>
            let! seq_num := ParseSequenceNumber (pkt_data next_packet) in
            Cont (u32 (media_pkt_idx + u16 (seq_num - prev_seq_num)), seq_num)
        end in
      let '(media_pkt_idx, prev_seq_num) := next in
      let '(media_pkt_idx, pkt_mask_idx) :=
        if media_pkt_idx =? 8 then (0, pkt_mask_idx + 1) else (media_pkt_idx, pkt_mask_idx) in
      row_loop ulp_header_size fec_rtp_offset packet_mask media_list_it pkt_mask_idx media_pkt_idx
        prev_seq_num generated
  end.

Definition l_mask_bytes (l_bit : bool) : Z := if l_bit then kMaskSizeLBitSet else kMaskSizeLBitClear.
Definition l_ulp_header_size (l_bit : bool) : Z :=
  if l_bit then kUlpHeaderSizeLBitSet else kUlpHeaderSizeLBitClear.

Definition GenerateFecBitStrings {R : Type} (media_packet_list : list Packet) (packet_mask : list Z)
  (num_fec_packets : Z) (l_bit : bool) (generated_fec_packets_ : list Packet) : flow R (list Packet) :=
  match media_packet_list with
  | [] => Cont generated_fec_packets_
  | first :: _ =>
      let num_maskBytes := l_mask_bytes l_bit in
      let ulp_header_size := l_ulp_header_size l_bit in
      let fec_rtp_offset := kFecHeaderSize + ulp_header_size - kRtpHeaderSize in
      for_up (Z.to_nat num_fec_packets) 0 (fun i gens =>
        let! prev_seq_num := ParseSequenceNumber (pkt_data first) in
        let! gen := rd gens i in
        let! gen := row_loop ulp_header_size fec_rtp_offset packet_mask media_packet_list
          (i * num_maskBytes) 0 prev_seq_num gen in
        wr gens i gen) generated_fec_packets_
  end.

(** The headers of generated packet [i]. *)
Definition ulp_header {R : Type} (media_packet : Packet) (packet_mask : list Z) (l_bit : bool) (i : Z)
  (generated : Packet) : flow R Packet :=
  let num_maskBytes := l_mask_bytes l_bit in
  let ulp_header_size := l_ulp_header_size l_bit in
  let data := pkt_data generated in
  let! b := rd data 0 in
  let! data := wr data 0 (Z.land b 127) in
  let! b := rd data 0 in
  let! data := if negb l_bit then wr data 0 (Z.land b 191) else wr data 0 (Z.lor b 64) in
  let! data := copy data 2 (pkt_data media_packet) 2 2 in
  let! data := AssignUWord16ToBuffer data 10 (u16 (pkt_length generated - kFecHeaderSize - ulp_header_size)) in
  let! data := copy data 12 packet_mask (i * num_maskBytes) num_maskBytes in
  Cont (mkPacket (pkt_length generated) data).

Definition GenerateFecUlpHeaders {R : Type} (media_packet_list : list Packet) (packet_mask : list Z)
  (l_bit : bool) (num_fec_packets : Z) (generated_fec_packets_ : list Packet) : flow R (list Packet) :=
  let! media_packet := rd media_packet_list 0 in
  for_up (Z.to_nat num_fec_packets) 0 (fun i gens =>
    let! gen := rd gens i in
    let! gen := ulp_header media_packet packet_mask l_bit i gen in
    wr gens i gen) generated_fec_packets_.

(** ** The specification: a sum of contributions *)

(** What a media packet adds to byte [j] of a packet whose payload lies [off] bytes
    further on: its first two bytes, its timestamp, its payload length, its payload. *)
Definition contrib (off : Z) (p : Packet) (j : Z) : Z :=
  if in_span 0 2 j || in_span 4 4 j then zat (pkt_data p) j
  else if in_span 8 2 j then zat (be16 (pkt_length p - 12)) (j - 8)
  else if in_span (12 + off) (pkt_length p - 12) j then zat (pkt_data p) (j - off)
  else 0.

(** The sum over the protected packets, and the length that the longest of them needs. *)
Definition xsum (off : Z) (l : list Packet) (j : Z) : Z := foldr (fun p a => Z.lxor (contrib off p j) a) 0 l.
Definition longest (off : Z) (l : list Packet) : Z := foldr (fun p a => Z.max (pkt_length p + off) a) 0 l.

(** The packets of a row: those at whose position [has] holds, counted from [n]. *)
Fixpoint picked (has : Z -> bool) (n : Z) (l : list Packet) : list Packet :=
  match l with
  | [] => []
  | p :: l => if has n then p :: picked has (n + 1) l else picked has (n + 1) l
  end.

(** The sequence number of a packet, and packets with numbers in sequence. *)
Definition seq_of (p : Packet) : Z := u16 (Z.shiftl (zat (pkt_data p) 2) 8 + zat (pkt_data p) 3).
Fixpoint numbered (s : Z) (l : list Packet) : Prop :=
  match l with
  | [] => True
  | p :: l => seq_of p = u16 s /\ numbered (s + 1) l
  end.

(** A media packet that can be protected with a payload shifted by [off] bytes. *)
Record media_ok (off : Z) (p : Packet) : Prop := mkMediaOk {
  mok_min : 12 <= pkt_length p;
  mok_max : pkt_length p + off <= IP_PACKET_SIZE;
  mok_data : Zlen (pkt_data p) = IP_PACKET_SIZE
}.

(** A generated packet that has nothing in it yet, or something. *)
Definition gen_ok (g : Packet) : Prop :=
  Zlen (pkt_data g) = IP_PACKET_SIZE /\ 0 <= pkt_length g <= IP_PACKET_SIZE /\
  (pkt_length g = 0 -> forall j, 0 <= j < IP_PACKET_SIZE -> zat (pkt_data g) j = 0).

(** Byte [j] of the packet of error correction for row [i] of a mask, which protects the
    packets [l], in a frame whose first packet is [first]. *)
Definition fec_byte (l_bit : bool) (first : Packet) (l : list Packet) (mask : list Z) (i j : Z) : Z :=
  let off := l_ulp_header_size l_bit - 2 in
  if j =? 0 then
    if l_bit then Z.lor (Z.land (xsum off l 0) 127) 64 else Z.land (Z.land (xsum off l 0) 127) 191
  else if in_span 2 2 j then zat (pkt_data first) j
  else if in_span 10 2 j then zat (be16 (longest off l - off - 12)) (j - 10)
  else if in_span 12 (l_mask_bytes l_bit) j then zat mask (i * l_mask_bytes l_bit + (j - 12))
  else xsum off l j.

Definition fec_of (l_bit : bool) (media : list Packet) (mask : list Z) (i : Z) : Packet :=
  let l := picked (mask_has (l_mask_bytes l_bit) mask i) 0 media in
  mkPacket (longest (l_ulp_header_size l_bit - 2) l)
    (fec_byte l_bit (zat media 0) l mask i <$> seqZ 0 IP_PACKET_SIZE).

(** ** One packet *)

Lemma gives_xor_byte {R} dst j src k :
  0 <= j < Zlen dst -> 0 <= k < Zlen src ->
  gives (R := R) (xor_byte dst j src k)
    (fun l => Zlen l = Zlen dst /\
       forall i, 0 <= i -> zat l i = if i =? j then Z.lxor (zat dst j) (zat src k) else zat dst i).
Proof.
  intros Hj Hk. unfold xor_byte. rewrite !rd_zat by done. cbn [flow_bind]. by apply gives_wr_at.
Qed.

(** The exclusive or of a part of an array. *)
Lemma gives_xor_span {R} dst src a n off :
  0 <= a -> 0 <= n -> a + n <= Zlen dst -> 0 <= a - off -> a - off + n <= Zlen src ->
  gives (R := R) (for_up (Z.to_nat n) a (fun j data => xor_byte data j src (j - off)) dst)
    (fun l => Zlen l = Zlen dst /\
       forall j, 0 <= j -> zat l j =
         if in_span a n j then Z.lxor (zat dst j) (zat src (j - off)) else zat dst j).
Proof.
  intros. apply (gives_for_at (fun j x => Z.lxor x (zat src (j - off)))); [done|done|done|].
  intros j k Hj Hk. unfold xor_byte. rewrite !rd_zat by lia. done.
Qed.

Lemma lxor_0_if (b : bool) x y : (if b then x else Z.lxor 0 y) = (if b then x else y).
Proof. by rewrite Z.lxor_0_l. Qed.

(** Decides the position of an index among those that a goal speaks of. *)
Ltac spans := repeat match goal with
  | |- context [in_span ?a ?n ?j] => destruct (in_span_spec a n j); try lia; cbn [orb]
  | |- context [?a =? ?b] => destruct (Z.eqb_spec a b); try lia
  end.

Lemma payload_length_bytes {R} v :
  AssignUWord16ToBuffer (R := R) [0; 0] 0 v = Cont (be16 v).
Proof. reflexivity. Qed.

Lemma protect_copies {R} ulp off p g :
  off = ulp - 2 -> 4 <= ulp -> media_ok off p -> gen_ok g -> pkt_length g = 0 ->
  gives (protect (R := R) ulp off p g)
    (fun h => Zlen (pkt_data h) = IP_PACKET_SIZE /\ pkt_length h = pkt_length p + off /\
       forall j, 0 <= j < IP_PACKET_SIZE -> zat (pkt_data h) j = contrib off p j).
Proof.
  unfold IP_PACKET_SIZE. intros Hoff Hulp [Hmin Hmax Hd] (Hg & _ & Hz) H0. unfold IP_PACKET_SIZE in *.
  unfold protect. rewrite H0, payload_length_bytes. cbn [flow_bind]. unfold copy, kRtpHeaderSize, kFecHeaderSize.
  change (0 =? 0) with true. cbv iota.
  rewrite !u16_id by (unfold is_u16; lia). rewrite (proj2 (Z.ltb_lt 0 (pkt_length p + off))) by lia.
  destruct (gives_copy_at (R := R) (pkt_data g) 0 (pkt_data p) 0 2) as (d1 & -> & L1 & D1); [lia..|]. cbn [flow_bind].
  destruct (gives_copy_at (R := R) d1 4 (pkt_data p) 4 4) as (d2 & -> & L2 & D2); [lia..|]. cbn [flow_bind].
  destruct (gives_copy_at (R := R) d2 8 (be16 (pkt_length p - 12)) 0 2) as (d3 & -> & L3 & D3);
    [rewrite ?Zlen_be16; lia..|]. cbn [flow_bind].
  destruct (gives_copy_at (R := R) d3 (10 + ulp) (pkt_data p) 12 (pkt_length p - 12)) as (d4 & -> & L4 & D4); [lia..|].
  cbn [flow_bind]. apply gives_Cont. cbn [pkt_data pkt_length]. split; [lia|]. split; [done|].
  intros j Hj. rewrite D4, D3, D2, D1, Hz by lia. unfold contrib. spans; f_equal; lia.
Qed.

Lemma protect_xors {R} ulp off p g :
  off = ulp - 2 -> 4 <= ulp -> media_ok off p -> gen_ok g -> 0 < pkt_length g ->
  gives (protect (R := R) ulp off p g)
    (fun h => Zlen (pkt_data h) = IP_PACKET_SIZE /\ pkt_length h = Z.max (pkt_length g) (pkt_length p + off) /\
       forall j, 0 <= j < IP_PACKET_SIZE -> zat (pkt_data h) j = Z.lxor (zat (pkt_data g) j) (contrib off p j)).
Proof.
  unfold IP_PACKET_SIZE. intros Hoff Hulp [Hmin Hmax Hd] (Hg & Hgl & _) H0. unfold IP_PACKET_SIZE in *.
  unfold protect. rewrite payload_length_bytes. cbn [flow_bind]. unfold kRtpHeaderSize, kFecHeaderSize.
  destruct (Z.eqb_spec (pkt_length g) 0); [lia|].
  rewrite !u16_id by (unfold is_u16; lia).
  destruct (gives_xor_byte (R := R) (pkt_data g) 0 (pkt_data p) 0) as (d1 & -> & L1 & D1); [lia..|]. cbn [flow_bind].
  destruct (gives_xor_byte (R := R) d1 1 (pkt_data p) 1) as (d2 & -> & L2 & D2); [lia..|]. cbn [flow_bind].
  destruct (gives_xor_span (R := R) d2 (pkt_data p) 4 4 0) as (d3 & E3 & L3 & D3); [lia..|].
  rewrite (for_up_ext _ (fun j data => xor_byte data j (pkt_data p) (j - 0)) 4 4)
    by (intros; by rewrite Z.sub_0_r).
  change 4%nat with (Z.to_nat 4). rewrite E3. cbn [flow_bind]. clear E3.
  destruct (gives_xor_byte (R := R) d3 8 (be16 (pkt_length p - 12)) 0) as (d4 & -> & L4 & D4);
    [rewrite ?Zlen_be16; lia..|]. cbn [flow_bind].
  destruct (gives_xor_byte (R := R) d4 9 (be16 (pkt_length p - 12)) 1) as (d5 & -> & L5 & D5);
    [rewrite ?Zlen_be16; lia..|]. cbn [flow_bind].
  replace (pkt_length p + off - (10 + ulp)) with (pkt_length p - 12) by lia.
  destruct (gives_xor_span (R := R) d5 (pkt_data p) (10 + ulp) (pkt_length p - 12) off)
    as (d6 & -> & L6 & D6); [lia..|].
  cbn [flow_bind]. apply gives_Cont. cbn [pkt_data pkt_length]. split; [lia|].
  split; [destruct (Z.ltb_spec (pkt_length g) (pkt_length p + off)); lia|].
  intros j Hj. rewrite D6, D5, D4, D3, D2, D1 by lia. unfold contrib.
  spans; subst; rewrite ?Z.lxor_0_r; try done; rewrite ?D4, ?D3, ?D2, ?D1 by lia; spans; 
    repeat f_equal; lia.
Qed.

Lemma contrib_bound off p j :
  0 <= off -> pkt_length p + off <= j -> 12 <= pkt_length p -> contrib off p j = 0.
Proof. intros. unfold contrib. spans. Qed.

Lemma xsum_app off a b j : xsum off (a ++ b) j = Z.lxor (xsum off a j) (xsum off b j).
Proof.
  induction a as [|p a IH]; [by rewrite Z.lxor_0_l|]. cbn [app xsum foldr].
  fold (xsum off (a ++ b) j) (xsum off a j). by rewrite IH, Z.lxor_assoc.
Qed.

Lemma longest_app off a b : longest off (a ++ b) = Z.max (longest off a) (longest off b).
Proof.
  induction a as [|p a IH]; cbn [app longest foldr].
  - induction b as [|q b IHb]; cbn [longest foldr] in *; lia.
  - fold (longest off (a ++ b)) (longest off a). rewrite IH. lia.
Qed.

(** A protected packet is added to the sum. *)
Lemma protect_adds {R} ulp off p g :
  off = ulp - 2 -> 4 <= ulp -> media_ok off p -> gen_ok g ->
  gives (protect (R := R) ulp off p g)
    (fun h => gen_ok h /\ pkt_length h = Z.max (pkt_length g) (pkt_length p + off) /\
       forall j, 0 <= j < IP_PACKET_SIZE -> zat (pkt_data h) j = Z.lxor (zat (pkt_data g) j) (contrib off p j)).
Proof.
  intros Ho Hu Hp Hg. assert (Hp' := Hp). destruct Hp' as [Hmin Hmax _].
  assert (Hg' := Hg). destruct Hg' as (_ & Hgl & Hz).
  destruct (decide (pkt_length g = 0)) as [H0|].
  - eapply gives_weaken; [by apply protect_copies|]. intros h (Hl & Hlen & Hd).
    unfold gen_ok. rewrite Hlen. split; [split; [done|split; [|lia]]; lia|]. split; [lia|].
    intros j Hj. by rewrite Hz, Z.lxor_0_l, Hd by done.
  - eapply gives_weaken; [apply protect_xors; done || lia|]. intros h (Hl & Hlen & Hd).
    unfold gen_ok. rewrite Hlen. split; [split; [done|split; [|lia]]; lia|]. done.
Qed.

(** ** One row *)

Lemma ParseSequenceNumber_seq {R} p :
  4 <= Zlen (pkt_data p) -> ParseSequenceNumber (R := R) (pkt_data p) = Cont (seq_of p).
Proof. intros. unfold ParseSequenceNumber. by rewrite !rd_zat by lia. Qed.

Lemma land_bit b n : 0 <= n -> negb (Z.land b (Z.shiftl 1 n) =? 0) = Z.testbit b n.
Proof.
  intros Hn. rewrite Z.shiftl_1_l.
  assert (H : Z.land b (2 ^ n) = if Z.testbit b n then 2 ^ n else 0).
  { apply Z.bits_inj'. intros i Hi. rewrite Z.land_spec, Z.pow2_bits_eqb by done.
    destruct (Z.eqb_spec n i) as [<-|]; [rewrite andb_true_r|rewrite andb_false_r];
      destruct (Z.testbit b n); rewrite ?Z.pow2_bits_true, ?Z.bits_0 by done; try done.
    by rewrite Z.pow2_bits_false. }
  rewrite H. assert (0 < 2 ^ n) by lia. destruct (Z.testbit b n); [|done].
  destruct (Z.eqb_spec (2 ^ n) 0); [lia|done].
Qed.

(** The position in the mask after one more packet. *)
Lemma next_position n i nb s s1 :
  0 <= n -> s1 = u16 (s + 1) ->
  let idx := u32 (n mod 8 + u16 (s1 - u16 s)) in
  (if idx =? 8 then (0, i * nb + n / 8 + 1) else (idx, i * nb + n / 8))
  = ((n + 1) mod 8, i * nb + (n + 1) / 8).
Proof.
  intros Hn ->. cbv zeta. assert (Hr := Z.mod_pos_bound n 8 ltac:(lia)).
  assert (H1 : u16 (u16 (s + 1) - u16 s) = 1) by (unfold u16; zdm). rewrite H1.
  rewrite u32_id by (unfold is_u32; lia).
  destruct (Z.eqb_spec (n mod 8 + 1) 8).
  - replace ((n + 1) mod 8) with 0 by zdm. replace ((n + 1) / 8) with (n / 8 + 1) by zdm.
    f_equal. lia.
  - replace ((n + 1) mod 8) with (n mod 8 + 1) by zdm. by replace ((n + 1) / 8) with (n / 8) by zdm.
Qed.

Lemma row_loop_sums {R} ulp off nb mask i l s n g :
  off = ulp - 2 -> 4 <= ulp -> Forall (media_ok off) l -> numbered s l -> gen_ok g ->
  0 <= i -> 0 <= n -> n + Zlen l <= 8 * nb -> (i + 1) * nb <= Zlen mask ->
  gives (row_loop (R := R) ulp off mask l (i * nb + n / 8) (n mod 8) (u16 s) g)
    (fun h => gen_ok h
       /\ pkt_length h = Z.max (pkt_length g) (longest off (picked (mask_has nb mask i) n l))
       /\ forall j, 0 <= j < IP_PACKET_SIZE ->
            zat (pkt_data h) j = Z.lxor (zat (pkt_data g) j) (xsum off (picked (mask_has nb mask i) n l) j)).
Proof.
  intros Ho Hu Hl Hs Hg Hi Hn Hnb Hm. revert s n g Hl Hs Hg Hn Hnb.
  induction l as [|p l IH]; intros s n g Hl Hs Hg Hn Hnb; cbn [row_loop picked].
  - apply gives_Cont. split; [done|]. cbn [longest xsum foldr]. split; [destruct Hg; lia|].
    intros. by rewrite Z.lxor_0_r.
  - rewrite Zlen_cons in Hnb. pose proof (Zlen_nonneg l).
    apply Forall_cons_1 in Hl as [Hp Hl]. destruct Hs as [Hsp Hs].
    assert (Hd := Z.div_mod n 8 ltac:(lia)). assert (Hr := Z.mod_pos_bound n 8 ltac:(lia)).
    assert (0 <= n / 8 < nb) by (split; [apply Z.div_pos; lia|apply Z.div_lt_upper_bound; lia]).
    rewrite rd_zat by nia. cbn [flow_bind]. destruct (Z.ltb_spec 7 (n mod 8)); [lia|]. cbn [flow_bind].
    rewrite land_bit by lia. fold (mask_has nb mask i n).
    eapply gives_bind with (P := fun h => gen_ok h
       /\ pkt_length h = Z.max (pkt_length g) (longest off (if mask_has nb mask i n then [p] else []))
       /\ forall j, 0 <= j < IP_PACKET_SIZE ->
            zat (pkt_data h) j
            = Z.lxor (zat (pkt_data g) j) (xsum off (if mask_has nb mask i n then [p] else []) j)).
    { destruct (mask_has nb mask i n); cbn [longest xsum foldr].
      - eapply gives_weaken; [by apply protect_adds|]. intros h (? & Hlen & Hj). split; [done|].
        destruct Hg, Hp. split; [lia|]. intros j Hj'. rewrite Z.lxor_0_r. by apply Hj.
      - apply gives_Cont. split; [done|]. split; [destruct Hg; lia|]. intros. by rewrite Z.lxor_0_r. }
    intros g1 (Hg1 & Hlen1 & Hj1).
    assert (Hsplit : forall r, let b := mask_has nb mask i n in
      (if b then p :: r else r) = (if b then [p] else []) ++ r) by (intros; by destruct (mask_has nb mask i n)).
    rewrite Hsplit. destruct l as [|q l].
    + cbn [flow_bind row_loop]. destruct (n mod 8 =? 8); (apply gives_Cont; cbn [picked];
        rewrite app_nil_r; done).
    + assert (Hq : 4 <= Zlen (pkt_data q)) by (apply Forall_cons_1 in Hl as [[_ _ ->] _]; done).
      rewrite ParseSequenceNumber_seq by done. cbn [flow_bind].
      rewrite next_position by (try done; apply Hs). rewrite (proj1 Hs).
      eapply gives_weaken; [apply IH; done || lia|]. intros h (Hh & Hlen & Hj). split; [done|].
      split.
      * rewrite Hlen, Hlen1, longest_app. lia.
      * intros j Hj'. by rewrite Hj, Hj1, xsum_app, Z.lxor_assoc by done.
Qed.

(** ** The headers *)

Lemma l_sizes l_bit :
  l_ulp_header_size l_bit = 2 + l_mask_bytes l_bit /\ 2 <= l_mask_bytes l_bit <= 6.
Proof. by destruct l_bit. Qed.

(** [h] is [g] with its headers. *)
Definition with_headers (first : Packet) (mask : list Z) (l_bit : bool) (i : Z) (g h : Packet) : Prop :=
  pkt_length h = pkt_length g /\ Zlen (pkt_data h) = IP_PACKET_SIZE /\
  forall j, 0 <= j < IP_PACKET_SIZE -> zat (pkt_data h) j =
    if j =? 0 then
      if l_bit then Z.lor (Z.land (zat (pkt_data g) 0) 127) 64
      else Z.land (Z.land (zat (pkt_data g) 0) 127) 191
    else if in_span 2 2 j then zat (pkt_data first) j
    else if in_span 10 2 j then zat (be16 (pkt_length g - 10 - l_ulp_header_size l_bit)) (j - 10)
    else if in_span 12 (l_mask_bytes l_bit) j then zat mask (i * l_mask_bytes l_bit + (j - 12))
    else zat (pkt_data g) j.

Lemma ulp_header_bytes {R} first mask l_bit i g :
  Zlen (pkt_data g) = IP_PACKET_SIZE -> Zlen (pkt_data first) = IP_PACKET_SIZE ->
  0 <= i -> (i + 1) * l_mask_bytes l_bit <= Zlen mask ->
  l_ulp_header_size l_bit + 10 <= pkt_length g <= IP_PACKET_SIZE ->
  gives (ulp_header (R := R) first mask l_bit i g) (with_headers first mask l_bit i g).
Proof.
  unfold with_headers, IP_PACKET_SIZE. intros Hg Hf Hi Hm Hl. destruct (l_sizes l_bit) as [Hu Hnb].
  unfold ulp_header. rewrite rd_zat by lia. cbn [flow_bind].
  destruct (gives_wr_at (R := R) (pkt_data g) 0 (Z.land (zat (pkt_data g) 0) 127)) as (d1 & -> & L1 & D1); [lia|].
  cbn [flow_bind]. rewrite rd_zat by lia. cbn [flow_bind].
  set (v := if l_bit then Z.lor (zat d1 0) 64 else Z.land (zat d1 0) 191).
  replace (if negb l_bit then wr (R := R) d1 0 (Z.land (zat d1 0) 191) else wr d1 0 (Z.lor (zat d1 0) 64))
    with (wr (R := R) d1 0 v) by (by subst v; destruct l_bit).
  destruct (gives_wr_at (R := R) d1 0 v) as (d2 & -> & L2 & D2); [lia|]. cbn [flow_bind]. unfold copy.
  destruct (gives_copy_at (R := R) d2 2 (pkt_data first) 2 2) as (d3 & -> & L3 & D3); [lia..|]. cbn [flow_bind].
  unfold kFecHeaderSize. rewrite u16_id by (unfold is_u16; lia).
  rewrite AssignUWord16_put by lia.
  set (len := pkt_length g - 10 - l_ulp_header_size l_bit) in *. cbn [flow_bind].
  destruct (gives_put_at (R := R) d3 10 (be16 len)) as (d4 & E4 & L4 & D4); [lia|rewrite Zlen_be16; lia|].
  rewrite blk_put_put in E4 by (rewrite ?Zlen_be16; lia). injection E4 as ->.
  destruct (gives_copy_at (R := R) d4 12 mask (i * l_mask_bytes l_bit) (l_mask_bytes l_bit))
    as (d5 & -> & L5 & D5); [nia..|].
  cbn [flow_bind]. apply gives_Cont. cbn [pkt_data pkt_length]. split; [done|]. split; [lia|].
  intros j Hj. rewrite D5, D4, D3, D2, D1 by lia. rewrite Zlen_be16. subst v. rewrite D1 by lia.
  spans; f_equal; lia.
Qed.

(** ** All rows *)

Lemma picked_Forall (P : Packet -> Prop) has n l : Forall P l -> Forall P (picked has n l).
Proof.
  intros H. revert n. induction H as [|p l Hp _ IH]; intros n; cbn [picked]; [done|].
  destruct (has n); auto.
Qed.

Lemma picked_cons has n l j :
  n <= j < n + Zlen l -> has j = true -> picked has n l <> [].
Proof.
  revert n. induction l as [|p l IH]; intros n Hj Hh; [rewrite Zlen_nil in Hj; lia|].
  rewrite Zlen_cons in Hj. cbn [picked]. destruct (has n) eqn:En; [done|].
  apply IH; [|done]. destruct (decide (j = n)); [congruence|lia].
Qed.

Lemma longest_bounds off l :
  Forall (media_ok off) l -> 0 <= longest off l <= IP_PACKET_SIZE /\ (l <> [] -> 12 + off <= longest off l).
Proof.
  induction 1 as [|p l [Hmin Hmax _] _ [IH _]]; [done|]. cbn [longest foldr].
  fold (longest off l). split; [lia|]. intros _. lia.
Qed.

Section rows.
Context (media : list Packet) (mask : list Z) (l_bit : bool) (m s : Z).
Context (Hmedia : Forall (media_ok (l_ulp_header_size l_bit - 2)) media) (Hnum : numbered s media).
Context (Hk : 0 < Zlen media <= 8 * l_mask_bytes l_bit) (Hm : 0 <= m) (Hmask : m * l_mask_bytes l_bit <= Zlen mask).
Context (Hrow : forall i, 0 <= i < m ->
  exists j, 0 <= j < Zlen media /\ mask_has (l_mask_bytes l_bit) mask i j = true).

Lemma first_media : exists first rest, media = first :: rest /\ Zlen (pkt_data first) = IP_PACKET_SIZE
  /\ seq_of first = u16 s.
Proof.
  revert Hmedia Hnum Hk. clear. intros Hmedia Hnum Hk. destruct media as [|first rest]; [unfold Zlen in Hk; simpl in Hk; lia|].
  exists first, rest. apply Forall_cons_1 in Hmedia as [[_ _ ?] _]. destruct Hnum as [? _]. done.
Qed.

Lemma GenerateFecBitStrings_rows {R} gens :
  m <= Zlen gens -> (forall i, 0 <= i < m -> gen_ok (zat gens i) /\ pkt_length (zat gens i) = 0) ->
  gives (GenerateFecBitStrings (R := R) media mask m l_bit gens)
    (fun gens' => Zlen gens' = Zlen gens
      /\ (forall i, 0 <= i < m ->
           let l := picked (mask_has (l_mask_bytes l_bit) mask i) 0 media in
           Zlen (pkt_data (zat gens' i)) = IP_PACKET_SIZE
           /\ pkt_length (zat gens' i) = longest (l_ulp_header_size l_bit - 2) l
           /\ forall j, 0 <= j < IP_PACKET_SIZE ->
                zat (pkt_data (zat gens' i)) j = xsum (l_ulp_header_size l_bit - 2) l j)
      /\ (forall i, m <= i -> zat gens' i = zat gens i)).
Proof.
  intros Hl Hz. destruct first_media as (first & rest & E & Hf & Hs). unfold GenerateFecBitStrings.
  rewrite E at 1. unfold kFecHeaderSize, kRtpHeaderSize.
  destruct (l_sizes l_bit) as [Hu Hnb].
  replace (10 + l_ulp_header_size l_bit - 12) with (l_ulp_header_size l_bit - 2) by lia.
  rewrite (for_up_ext _ (fun i gens => let! gen := rd gens i in
    let! gen := row_loop (l_ulp_header_size l_bit) (l_ulp_header_size l_bit - 2) mask media
      (i * l_mask_bytes l_bit) 0 (u16 s) gen in wr gens i gen)).
  2:{ intros i g _. rewrite ParseSequenceNumber_seq by (rewrite Hf; done). cbn [flow_bind].
      by rewrite Hs. }
  eapply gives_weaken; [apply (gives_for_each _ (fun i g g' =>
    gen_ok g' /\ pkt_length g' = Z.max (pkt_length g) (longest (l_ulp_header_size l_bit - 2)
      (picked (mask_has (l_mask_bytes l_bit) mask i) 0 media)) /\
    forall j, 0 <= j < IP_PACKET_SIZE -> zat (pkt_data g') j
      = Z.lxor (zat (pkt_data g) j) (xsum (l_ulp_header_size l_bit - 2)
          (picked (mask_has (l_mask_bytes l_bit) mask i) 0 media) j))); [lia|]|].
  - intros i Hi. destruct (Hz i Hi) as [Hg _].
    replace (i * l_mask_bytes l_bit) with (i * l_mask_bytes l_bit + 0 / 8) by (rewrite Z.div_0_l; lia).
    apply row_loop_sums; done || nia.
  - intros gens' (Hl' & Hq & Ho). split; [done|]. split; [|done]. intros i Hi.
    destruct (Hq i Hi) as ([Hd _] & Hlen & Hj). destruct (Hz i Hi) as [(_ & _ & Hz0) H0].
    split; [done|]. rewrite H0 in Hlen. split.
    + rewrite Hlen. apply Z.max_r, longest_bounds, picked_Forall, Hmedia.
    + intros j Hj'. by rewrite Hj, Hz0, Z.lxor_0_l by done.
Qed.

(** Both passes give the packets of the specification. *)
Lemma GenerateFec_rows {R} gens :
  m <= Zlen gens -> (forall i, 0 <= i < m -> gen_ok (zat gens i) /\ pkt_length (zat gens i) = 0) ->
  gives (let! gens := GenerateFecBitStrings (R := R) media mask m l_bit gens in
         GenerateFecUlpHeaders media mask l_bit m gens)
    (fun gens' => Zlen gens' = Zlen gens
      /\ (forall i, 0 <= i < m -> zat gens' i = fec_of l_bit media mask i)
      /\ (forall i, m <= i -> zat gens' i = zat gens i)).
Proof.
  intros Hl Hz. eapply gives_bind; [by apply GenerateFecBitStrings_rows|].
  intros gens1 (Hl1 & Hq1 & Ho1). unfold GenerateFecUlpHeaders.
  destruct first_media as (first & rest & E & Hf & Hs).
  assert (H0 : zat media 0 = first) by (by rewrite E).
  rewrite rd_zat by lia. cbn [flow_bind]. rewrite H0. destruct (l_sizes l_bit) as [Hu Hnb].
  eapply gives_weaken; [apply (gives_for_each _ (with_headers first mask l_bit)); [lia|]|].
  - intros i Hi. destruct (Hq1 i Hi) as (Hd & Hlen & _). apply ulp_header_bytes; [done|done|lia|nia|].
    rewrite Hlen. destruct (Hrow i Hi) as (j & Hj & Hh).
    destruct (longest_bounds (l_ulp_header_size l_bit - 2)
      (picked (mask_has (l_mask_bytes l_bit) mask i) 0 media)) as [Hb1 Hb2]; [by apply picked_Forall|].
    specialize (Hb2 (picked_cons _ 0 media j Hj Hh)). lia.
  - intros gens' (Hl' & Hq & Ho). split; [lia|]. split.
    + intros i Hi. destruct (Hq i Hi) as (Hlen & Hd & Hj). destruct (Hq1 i Hi) as (_ & Hlen1 & Hj1).
      unfold fec_of. rewrite H0. destruct (zat gens' i) as [len d]. cbn [pkt_length pkt_data] in *.
      f_equal; [congruence|]. apply zat_ext_fmap_seqZ; [done|done|]. intros j Hj'. rewrite Hj by done.
      unfold fec_byte. rewrite Hlen1, (Hj1 j), (Hj1 0) by (done || (unfold IP_PACKET_SIZE; lia)).
      match goal with |- context [be16 (?x - 10 - ?u)] =>
        replace (x - 10 - u) with (x - (u - 2) - 12) by lia end. done.
    + intros i Hi. rewrite Ho by lia. apply Ho1. lia.
Qed.
End rows.
