(* ===== verification/FecEncode.v ===== *)
(** * Generating the packets of error correction

    Models [InsertZerosInBitMasks] with its helpers, [GetNumberOfFecPackets] and
    [GenerateFEC] of [modules/rtp_rtcp/source/forward_error_correction.cc], and proves
    what [GenerateFEC] gives for packets with numbers in sequence. *)
From S2P Require Import Prelude Pointwise RtpWire FecTables FecMasks FecPacket.
Local Open Scope Z_scope.

(** ** Holes in the sequence *)

Definition CopyColumn {R : Type} (new_mask : list Z) (new_mask_bytes : Z) (old_mask : list Z)
  (old_mask_bytes num_fec_packets new_bit_index old_bit_index : Z) : flow R (list Z * list Z) :=
  for_up (Z.to_nat num_fec_packets) 0 (fun row st =>
    let '(new_mask, old_mask) := st in
    let new_byte_index := row * new_mask_bytes + Z.quot new_bit_index 8 in
    let old_byte_index := row * old_mask_bytes + Z.quot old_bit_index 8 in
    let! o := rd old_mask old_byte_index in
    let! n := rd new_mask new_byte_index in
    let! new_mask := wr new_mask new_byte_index (Z.lor n (Z.shiftr (Z.land o 128) 7)) in
    let! new_mask :=
      if negb (Z.rem new_bit_index 8 =? 7) then
        let! n := rd new_mask new_byte_index in
        wr new_mask new_byte_index (u8 (Z.shiftl n 1))
      else Cont new_mask in
    let! old_mask := wr old_mask old_byte_index (u8 (Z.shiftl o 1)) in
    Cont (new_mask, old_mask)) (new_mask, old_mask).

Definition InsertZeroColumns {R : Type} (num_zeros : Z) (new_mask : list Z)
  (new_mask_bytes num_fec_packets new_bit_index : Z) : flow R (list Z) :=
  for_up (Z.to_nat num_fec_packets) 0 (fun row new_mask =>
    let new_byte_index := row * new_mask_bytes + Z.quot new_bit_index 8 in
    let max_shifts := 7 - Z.rem new_bit_index 8 in
    let! n := rd new_mask new_byte_index in
    wr new_mask new_byte_index (u8 (Z.shiftl n (Z.min num_zeros max_shifts)))) new_mask.

(** The loop over the packets after the first: the new and the old mask and the bits
    of the new mask that are filled. *)
Fixpoint insert_loop {R : Type} (new_mask_bytes num_mask_bytes num_fec_packets : Z) (it : list Packet)
  (prev_seq_num new_bit_index old_bit_index : Z) (new_mask old_mask : list Z)
  : flow R (Z * list Z * list Z) :=
  match it with
  | [] => Cont (new_bit_index, new_mask, old_mask)
  | p :: it =>
      if new_bit_index =? 8 * kMaskSizeLBitSet then Cont (new_bit_index, new_mask, old_mask)
      else
        let! seq_num := ParseSequenceNumber (pkt_data p) in
        let zeros_to_insert := u16 (seq_num - prev_seq_num - 1) in
        let! new_mask :=
          if 0 <? zeros_to_insert then
            InsertZeroColumns zeros_to_insert new_mask new_mask_bytes num_fec_packets new_bit_index
          else Cont new_mask in
        let new_bit_index := new_bit_index + zeros_to_insert in
        let! st := CopyColumn new_mask new_mask_bytes old_mask num_mask_bytes num_fec_packets
          new_bit_index old_bit_index in
        let '(new_mask, old_mask) := st in
        insert_loop new_mask_bytes num_mask_bytes num_fec_packets it seq_num
          (new_bit_index + 1) (old_bit_index + 1) new_mask old_mask
  end.

(** The number of bits in a row of the mask, and the mask. *)
Definition InsertZerosInBitMasks {R : Type} (media_packets : list Packet) (packet_mask : list Z)
  (num_mask_bytes num_fec_packets : Z) : flow R (Z * list Z) :=
  match media_packets with
  | [] | [_] => Cont (Zlen media_packets, packet_mask)
  | first :: it =>
      let! last_packet := rd media_packets (Zlen media_packets - 1) in
      let! last_seq_num := ParseSequenceNumber (pkt_data last_packet) in
      let! first_seq_num := ParseSequenceNumber (pkt_data first) in
      let total_missing_seq_nums := s32 (u16 (last_seq_num - first_seq_num) - Zlen media_packets + 1) in
      if total_missing_seq_nums =? 0 then Cont (Zlen media_packets, packet_mask)
      else
        let new_mask_bytes :=
          if 8 * kMaskSizeLBitClear <? Zlen media_packets + total_missing_seq_nums
          then kMaskSizeLBitSet else kMaskSizeLBitClear in
        let new_mask := replicate (Z.to_nat (num_fec_packets * kMaskSizeLBitSet)) 0 in
        let! st := CopyColumn new_mask new_mask_bytes packet_mask num_mask_bytes num_fec_packets 0 0 in
        let '(new_mask, packet_mask) := st in
        let! st := insert_loop new_mask_bytes num_mask_bytes num_fec_packets it first_seq_num 1 1
          new_mask packet_mask in
        let '(new_bit_index, new_mask, packet_mask) := st in
        let! new_mask :=
          if negb (Z.rem new_bit_index 8 =? 0) then
            for_up (Z.to_nat num_fec_packets) 0 (fun row new_mask =>
              let new_byte_index := row * new_mask_bytes + Z.quot new_bit_index 8 in
              let! n := rd new_mask new_byte_index in
              wr new_mask new_byte_index (u8 (Z.shiftl n (7 - Z.rem new_bit_index 8)))) new_mask
          else Cont new_mask in
        let! packet_mask := copy packet_mask 0 new_mask 0 (kMaskSizeLBitSet * num_fec_packets) in
        Cont (new_bit_index, packet_mask)
  end.

(** ** The whole call *)

Definition GetNumberOfFecPackets (num_media_packets protection_factor : Z) : Z :=
  let num_fec_packets := Z.shiftr (num_media_packets * protection_factor + 128) 8 in
  if (0 <? protection_factor) && (num_fec_packets =? 0) then 1 else num_fec_packets.

(** An untouched packet. *)
Definition cleared : Packet := mkPacket 0 (replicate (Z.to_nat IP_PACKET_SIZE) 0).

(** The result, the packets in [generated_fec_packets_], and the list of pointers to
    them, which are their positions.  [alloc n] is what [new uint8_t[n]] finds in memory. *)
Definition GenerateFEC (alloc : Z -> list Z) (generated_fec_packets_ : list Packet)
  (media_packet_list : list Packet) (protection_factor num_important_packets : Z)
  (use_unequal_protection : bool) (fec_mask_type : FecMaskType)
  : flow (Z * list Packet * list Z) (Z * list Packet * list Z) :=
  let num_media_packets := u16 (Zlen media_packet_list) in
  if kMaxMediaPackets <? num_media_packets then Ret (-1, generated_fec_packets_, [])
  else
    let l_bit := 8 * kMaskSizeLBitClear <? num_media_packets in
    let num_maskBytes := l_mask_bytes l_bit in
    if existsb (fun media_packet => pkt_length media_packet <? kRtpHeaderSize) media_packet_list
    then Ret (-1, generated_fec_packets_, [])
    else
      let num_fec_packets := GetNumberOfFecPackets num_media_packets protection_factor in
      if num_fec_packets =? 0 then Ret (0, generated_fec_packets_, [])
      else
        let! gens := for_up (Z.to_nat num_fec_packets) 0 (fun i gens => wr gens i cleared)
          generated_fec_packets_ in
        let fec_packet_list := seqZ 0 num_fec_packets in
        let mask_table := new_PacketMaskTable fec_mask_type num_media_packets in
        let packet_mask := alloc (num_fec_packets * kMaskSizeLBitSet) in
        let! packet_mask :=
          blk_put packet_mask 0 (replicate (Z.to_nat (num_fec_packets * num_maskBytes)) 0) in
        let! packet_mask := GeneratePacketMasks num_media_packets num_fec_packets num_important_packets
          use_unequal_protection mask_table packet_mask in
        let! bits := InsertZerosInBitMasks media_packet_list packet_mask num_maskBytes num_fec_packets in
        let '(num_maskBits, packet_mask) := bits in
        let l_bit := 8 * kMaskSizeLBitClear <? num_maskBits in
        if num_maskBits <? 0 then Ret (-1, gens, fec_packet_list)
        else
          let! gens := GenerateFecBitStrings media_packet_list packet_mask num_fec_packets l_bit gens in
          let! gens := GenerateFecUlpHeaders media_packet_list packet_mask l_bit num_fec_packets gens in
          Cont (0, gens, fec_packet_list).

(** ** Packets with numbers in sequence *)

Lemma numbered_zat s l n : numbered s l -> 0 <= n < Zlen l -> seq_of (zat l n) = u16 (s + n).
Proof.
  revert s n. induction l as [|p l IH]; intros s n Hs Hn; [unfold Zlen in Hn; simpl in Hn; lia|].
  destruct Hs as [Hp Hs]. rewrite Zlen_cons in Hn. destruct (decide (n = 0)) as [->|].
  - by rewrite Z.add_0_r.
  - assert (E : zat (p :: l) n = zat l (n - 1)).
    { change (p :: l) with ([p] ++ l). rewrite zat_app by lia. change (Zlen [p]) with 1.
      by rewrite (proj2 (Z.ltb_ge n 1)) by lia. }
    rewrite E, (IH (s + 1)) by (done || lia). f_equal. lia.
Qed.

Lemma Forall_zat {A} `{Inhabited A} (P : A -> Prop) l n : Forall P l -> 0 <= n < Zlen l -> P (zat l n).
Proof.
  unfold zat, Zlen. intros HP Hn. eapply Forall_lookup_1; [exact HP|].
  apply list_lookup_lookup_total_lt. lia.
Qed.

(** Without holes the mask stays as it is. *)
Lemma InsertZeros_none {R} off media mask nb m s :
  Forall (media_ok off) media -> numbered s media -> Zlen media <= 48 ->
  InsertZerosInBitMasks (R := R) media mask nb m = Cont (Zlen media, mask).
Proof.
  intros Hm Hs Hl. unfold InsertZerosInBitMasks.
  destruct media as [|first [|second it]] eqn:E; [done|done|]. rewrite <- E in *.
  assert (Hk : 2 <= Zlen media)
    by (rewrite E, !Zlen_cons; pose proof (Zlen_nonneg it); lia).
  assert (H0 : first = zat media 0) by (by rewrite E).
  assert (Hlen : forall n, 0 <= n < Zlen media -> 4 <= Zlen (pkt_data (zat media n))).
  { intros n Hn. destruct (Forall_zat _ _ n Hm Hn) as [_ _ ->]. done. }
  rewrite rd_zat by lia. cbn [flow_bind].
  rewrite ParseSequenceNumber_seq by (apply Hlen; lia). cbn [flow_bind].
  rewrite H0, ParseSequenceNumber_seq by (apply Hlen; lia). cbn [flow_bind].
  rewrite !(numbered_zat s) by (done || lia).
  replace (s32 _ =? 0) with true; [done|]. symmetry. apply Z.eqb_eq.
  replace (u16 _) with (Zlen media - 1) by (unfold u16; zdm). rewrite s32_id; unfold is_s32; lia.
Qed.

Lemma GetNumberOfFecPackets_bounds k pf :
  1 <= k -> 0 < pf < 256 -> 1 <= GetNumberOfFecPackets k pf <= k.
Proof.
  intros Hk Hp. unfold GetNumberOfFecPackets. rewrite Z.shiftr_div_pow2 by lia. change (2 ^ 8) with 256.
  assert (0 <= (k * pf + 128) / 256) by (apply Z.div_pos; nia).
  assert ((k * pf + 128) / 256 < k + 1) by (apply Z.div_lt_upper_bound; nia).
  destruct (Z.ltb_spec 0 pf); [|lia]. cbn [andb].
  destruct (Z.eqb_spec ((k * pf + 128) / 256) 0); lia.
Qed.

Lemma cleared_ok : gen_ok cleared /\ pkt_length cleared = 0.
Proof.
  split; [|done]. split; [reflexivity|]. split; [cbn [cleared pkt_length]; unfold IP_PACKET_SIZE; lia|].
  intros _ j Hj. cbn [cleared pkt_data]. by apply zat_replicate.
Qed.

Lemma l_mask_bytes_of k : l_mask_bytes (16 <? k) = mask_bytes k.
Proof. reflexivity. Qed.

(** The buffer that the mask is written to. *)
Definition mask_buffer (alloc : Z -> list Z) (k m : Z) : list Z :=
  put (alloc (m * kMaskSizeLBitSet)) 0 (replicate (Z.to_nat (m * mask_bytes k)) 0).

(** For packets with numbers in sequence the mask is that of GeneratePacketMasks, and the
    packets are those of the specification. *)
Lemma GenerateFEC_rows alloc gens media pf imp uep ty s :
  let k := Zlen media in let m := GetNumberOfFecPackets k pf in
  (forall n, 0 <= n -> Zlen (alloc n) = n) -> Zlen gens = kMaxMediaPackets ->
  1 <= k <= 48 -> 0 < pf < 256 -> 0 <= imp <= k -> numbered s media ->
  Forall (media_ok (l_ulp_header_size (16 <? k) - 2)) media ->
  exists mask gens',
    GeneratePacketMasks (R := Z * list Packet * list Z) k m imp uep (new_PacketMaskTable ty k)
      (mask_buffer alloc k m) = Cont mask
    /\ mask_ok k m mask
    /\ GenerateFEC alloc gens media pf imp uep ty = Cont (0, gens', seqZ 0 m)
    /\ Zlen gens' = Zlen gens
    /\ forall i, 0 <= i < m -> zat gens' i = fec_of (16 <? k) media mask i.
Proof.
  intros k m Ha Hg Hk Hp Hi Hs Hmed. unfold GenerateFEC, kMaxMediaPackets in *.
  assert (Hm : 1 <= m <= k) by (apply GetNumberOfFecPackets_bounds; lia).
  assert (Hb := mask_bytes_mono k k ltac:(lia)). assert (He := mask_bytes_enough k ltac:(lia)).
  assert (Hb6 : mask_bytes k <= 6) by (destruct (mask_bytes_cases k) as [[-> ?]|[-> ?]]; lia).
  rewrite (u16_id (Zlen media)) by (fold k; unfold is_u16; lia). fold k.
  destruct (Z.ltb_spec 48 k); [lia|]. change (8 * kMaskSizeLBitClear) with 16.
  replace (existsb _ media) with false.
  2:{ symmetry. apply not_true_is_false. intros H'. apply existsb_exists in H' as (p & Hin & Hlt).
      apply list_elem_of_In in Hin. destruct (proj1 (Forall_forall _ _) Hmed p Hin) as [Hmin _ _].
      unfold kRtpHeaderSize in Hlt. apply Z.ltb_lt in Hlt. lia. }
  fold m. destruct (Z.eqb_spec m 0); [lia|].
  destruct (gives_for_at (R := Z * list Packet * list Z) (fun _ _ => cleared)
    (fun i gens => wr gens i cleared) 0 m gens) as (g1 & -> & Hg1 & Hc1); [lia|lia|lia|done|].
  cbn [flow_bind]. unfold kMaskSizeLBitSet at 1. rewrite l_mask_bytes_of.
  rewrite blk_put_put by (rewrite ?Zlen_replicate, ?Ha; nia). cbn [flow_bind].
  change (put (alloc (m * 6)) 0 _) with (mask_buffer alloc k m).
  assert (Hbuf : Zlen (mask_buffer alloc k m) = m * 6).
  { unfold mask_buffer. rewrite Zlen_put; [apply Ha; unfold kMaskSizeLBitSet; lia|lia|].
    rewrite Zlen_replicate, Ha by (unfold kMaskSizeLBitSet; nia). unfold kMaskSizeLBitSet. nia. }
  destruct (GeneratePacketMasks_ok (R := Z * list Packet * list Z) k m imp uep ty (mask_buffer alloc k m))
    as (mask & Emask & Hlmask & Hok); [lia|lia|lia|nia| |].
  { intros q Hq. unfold mask_buffer. rewrite put_0, zat_app by lia.
    rewrite Zlen_replicate by nia. rewrite (proj2 (Z.ltb_lt _ _)) by lia. by apply zat_replicate. }
  exists mask. rewrite Emask. cbn [flow_bind].
  rewrite (InsertZeros_none (l_ulp_header_size (16 <? k) - 2) _ _ _ _ s) by (done || lia).
  cbn [flow_bind]. fold k. destruct (Z.ltb_spec k 0); [lia|]. destruct Hok as [O1 O2 O3 O4 O5].
  assert (G : gives (R := Z * list Packet * list Z)
    (let! gens := GenerateFecBitStrings media mask m (16 <? k) g1 in
     GenerateFecUlpHeaders media mask (16 <? k) m gens)
    (fun gens' => Zlen gens' = Zlen g1
      /\ (forall i, 0 <= i < m -> zat gens' i = fec_of (16 <? k) media mask i)
      /\ (forall i, m <= i -> zat gens' i = zat g1 i))).
  { apply (GenerateFec_rows _ _ _ _ s); rewrite ?l_mask_bytes_of; fold k; try done; try lia.
    intros i Hi'. rewrite Hc1 by lia. destruct (in_span_spec 0 m i); [apply cleared_ok|lia]. }
  destruct G as (gens' & E & Hl' & Hq & _). exists gens'. split; [done|]. split; [by split|].
  destruct (GenerateFecBitStrings (R := Z * list Packet * list Z) media mask m (16 <? k) g1)
    as [g2| |]; [|done..]. cbn [flow_bind] in *. rewrite E. cbn [flow_bind]. split; [done|]. split; [congruence|done].
Qed.
