(* ===== verification/FecRecover.v ===== *)
(** * Recovering one packet

    Models [InitRecovery], [XorPackets], [FinishRecovery] and [RecoverPacket] of
    [modules/rtp_rtcp/source/forward_error_correction.cc], and proves that they undo the
    sum of the sender: with one protected packet missing the result is that packet. *)
From S2P Require Import Prelude Pointwise RtpWire FecTables FecPacket.
Local Open Scope Z_scope.

(** [None] is a null pointer. *)
Record ProtectedPacket : Type := mkProtected { pp_seq_num : Z; pp_pkt : option Packet }.

Record FecPacket : Type := mkFecPacket {
  fp_seq_num : Z;
  protected_pkt_list : list ProtectedPacket;
  fp_ssrc : Z;
  fp_pkt : Packet
}.

Record RecoveredPacket : Type := mkRecovered {
  rec_seq_num : Z;
  was_recovered : bool;
  returned : bool;
  length_recovery : list Z;
  rec_pkt : Packet
}.

Definition InitRecovery {R : Type} (fec_packet : FecPacket) (seq_num : Z) : flow R RecoveredPacket :=
  let fec := pkt_data (fp_pkt fec_packet) in
  let! b := rd fec 0 in
  let ulp_header_size := l_ulp_header_size (negb (Z.land b 64 =? 0)) in
  let data := replicate (Z.to_nat IP_PACKET_SIZE) 0 in
  let! protection_length := blk_get fec 10 2 in
  let! n := BufferToUWord16 protection_length 0 in
  let! data := copy data kRtpHeaderSize fec (kFecHeaderSize + ulp_header_size) n in
  let! length_recovery := blk_get fec 8 2 in
  let! data := copy data 0 fec 0 2 in
  let! data := copy data 4 fec 4 4 in
  let! data := AssignUWord32ToBuffer data 8 (fp_ssrc fec_packet) in
  Cont (mkRecovered seq_num true false length_recovery (mkPacket 0 data)).

Definition XorPackets {R : Type} (src_packet : Packet) (dst : RecoveredPacket) : flow R RecoveredPacket :=
  let src := pkt_data src_packet in
  let! data := for_up 2 0 (fun i data => xor_byte data i src i) (pkt_data (rec_pkt dst)) in
  let! data := for_up 4 4 (fun i data => xor_byte data i src i) data in
  let! media_payload_length :=
    AssignUWord16ToBuffer [0; 0] 0 (u16 (pkt_length src_packet - kRtpHeaderSize)) in
  let! lr := xor_byte (length_recovery dst) 0 media_payload_length 0 in
  let! lr := xor_byte lr 1 media_payload_length 1 in
  let! data :=
    for_up (Z.to_nat (pkt_length src_packet - kRtpHeaderSize)) kRtpHeaderSize
      (fun i data => xor_byte data i src i) data in
  Cont (mkRecovered (rec_seq_num dst) (was_recovered dst) (returned dst) lr
          (mkPacket (pkt_length (rec_pkt dst)) data)).

Definition FinishRecovery {R : Type} (recovered : RecoveredPacket) : flow R RecoveredPacket :=
  let data := pkt_data (rec_pkt recovered) in
  let! b := rd data 0 in
  let! data := wr data 0 (Z.lor b 128) in
  let! b := rd data 0 in
  let! data := wr data 0 (Z.land b 191) in
  let! data := AssignUWord16ToBuffer data 2 (rec_seq_num recovered) in
  let! n := BufferToUWord16 (length_recovery recovered) 0 in
  Cont (mkRecovered (rec_seq_num recovered) (was_recovered recovered) (returned recovered)
          (length_recovery recovered) (mkPacket (u16 (n + kRtpHeaderSize)) data)).

Fixpoint recover_loop {R : Type} (protected_it : list ProtectedPacket) (rec : RecoveredPacket)
  : flow R RecoveredPacket :=
  match protected_it with
  | [] => Cont rec
  | e :: protected_it =>
      match pp_pkt e with
      | None => recover_loop protected_it (mkRecovered (pp_seq_num e) (was_recovered rec) (returned rec)
                  (length_recovery rec) (rec_pkt rec))
      | Some pkt => let! rec := XorPackets pkt rec in recover_loop protected_it rec
      end
  end.

(** The sequence number of the new packet is not set before the loop. *)
Definition RecoverPacket {R : Type} (fec_packet : FecPacket) (uninitialised : Z) : flow R RecoveredPacket :=
  let! rec := InitRecovery fec_packet uninitialised in
  let! rec := recover_loop (protected_pkt_list fec_packet) rec in
  FinishRecovery rec.

(** ** What the receiver has *)

(** [p] has the bytes of [q]; what follows them may differ. *)
Definition same_packet (p q : Packet) : Prop :=
  pkt_length p = pkt_length q /\ Zlen (pkt_data p) = IP_PACKET_SIZE /\
  forall j, 0 <= j < pkt_length q -> zat (pkt_data p) j = zat (pkt_data q) j.

(** [p] with zeros after its bytes. *)
Definition padded (p : Packet) : Packet :=
  mkPacket (pkt_length p) ((fun j => if j <? pkt_length p then zat (pkt_data p) j else 0) <$> seqZ 0 IP_PACKET_SIZE).

Lemma padded_same p : pkt_length p <= IP_PACKET_SIZE -> same_packet (padded p) p.
Proof.
  intros Hl. split; [done|]. split; [by apply Zlen_fmap_seqZ|]. intros j Hj. cbn [padded pkt_data].
  rewrite zat_fmap_seqZ by lia. by rewrite (proj2 (Z.ltb_lt _ _)) by lia.
Qed.

(** A media packet as RTP has it: version 2, and bytes that are bytes. *)
Record rtp_ok (ssrc : Z) (p : Packet) : Prop := mkRtpOk {
  rtp_version : 128 <= zat (pkt_data p) 0 < 192;
  rtp_seq : forall j, 2 <= j < 4 -> is_u8 (zat (pkt_data p) j);
  rtp_ssrc : forall j, 8 <= j < 12 -> zat (pkt_data p) j = zat (be32 ssrc) (j - 8)
}.

(** Entries of the list against the protected packets. *)
Definition entry_ok (e : ProtectedPacket) (p : Packet) : Prop :=
  pp_seq_num e = seq_of p /\ match pp_pkt e with Some q => same_packet q p | None => True end.

Fixpoint missing (pl : list ProtectedPacket) (l : list Packet) : list Packet :=
  match pl, l with
  | e :: pl, p :: l => match pp_pkt e with None => p :: missing pl l | Some _ => missing pl l end
  | _, _ => []
  end.
Fixpoint present (pl : list ProtectedPacket) (l : list Packet) : list Packet :=
  match pl, l with
  | e :: pl, p :: l => match pp_pkt e with None => present pl l | Some _ => p :: present pl l end
  | _, _ => []
  end.

Lemma xsum_split off pl l j :
  Forall2 entry_ok pl l -> xsum off l j = Z.lxor (xsum off (missing pl l) j) (xsum off (present pl l) j).
Proof.
  induction 1 as [|e p pl l _ _ IH]; [done|]. cbn [missing present].
  destruct (pp_pkt e); cbn [xsum foldr]; fold (xsum off l j) (xsum off (missing pl l) j)
    (xsum off (present pl l) j); rewrite IH.
  - rewrite <- !Z.lxor_assoc. f_equal. apply Z.lxor_comm.
  - by rewrite Z.lxor_assoc.
Qed.

(** ** The steps of a recovery *)

(** What a packet adds to byte [j] of the recovered packet. *)
Definition rcontrib (p : Packet) (j : Z) : Z :=
  if in_span 0 2 j || in_span 4 4 j || in_span 12 (pkt_length p - 12) j then zat (pkt_data p) j else 0.

Lemma rcontrib_same p q j : 12 <= pkt_length q -> same_packet p q -> rcontrib p j = rcontrib q j.
Proof.
  intros H12 (Hl & _ & Hj). unfold rcontrib. rewrite Hl. spans; try done; apply Hj; lia.
Qed.

Definition rsum (l : list Packet) (j : Z) : Z := foldr (fun p a => Z.lxor (rcontrib p j) a) 0 l.
Definition lsum (l : list Packet) (j : Z) : Z :=
  foldr (fun p a => Z.lxor (zat (be16 (pkt_length p - 12)) j) a) 0 l.

(** [b] is [a] after the packets [l] were added. *)
Definition added (l : list Packet) (a b : RecoveredPacket) : Prop :=
  was_recovered b = was_recovered a /\ returned b = returned a /\
  Zlen (length_recovery b) = 2 /\ Zlen (pkt_data (rec_pkt b)) = IP_PACKET_SIZE /\
  (forall j, 0 <= j < 2 -> zat (length_recovery b) j = Z.lxor (zat (length_recovery a) j) (lsum l j)) /\
  (forall j, 0 <= j < IP_PACKET_SIZE ->
    zat (pkt_data (rec_pkt b)) j = Z.lxor (zat (pkt_data (rec_pkt a)) j) (rsum l j)).

Definition rec_ok (r : RecoveredPacket) : Prop :=
  Zlen (length_recovery r) = 2 /\ Zlen (pkt_data (rec_pkt r)) = IP_PACKET_SIZE.

Lemma XorPackets_adds {R} src p dst :
  same_packet src p -> 12 <= pkt_length p <= IP_PACKET_SIZE -> rec_ok dst ->
  gives (XorPackets (R := R) src dst) (fun b => added [p] dst b /\ rec_seq_num b = rec_seq_num dst).
Proof.
  intros Hs Hp [Hlr Hd]. assert (Hc := rcontrib_same src p). destruct Hs as (Hl & Hsd & Hsj).
  unfold IP_PACKET_SIZE in *. unfold XorPackets, kRtpHeaderSize. rewrite Hl.
  assert (Hspan : forall d a n, Zlen d = 1500 -> 0 <= a -> 0 <= n -> a + n <= 1500 ->
    gives (for_up (R := R) (Z.to_nat n) a (fun i data => xor_byte data i (pkt_data src) i) d)
      (fun l => Zlen l = 1500 /\ forall j, 0 <= j -> zat l j =
         if in_span a n j then Z.lxor (zat d j) (zat (pkt_data src) j) else zat d j)).
  { intros d a n Hd1 Ha Hn Han.
    rewrite (for_up_ext _ (fun j data => xor_byte data j (pkt_data src) (j - 0)))
      by (intros; by rewrite Z.sub_0_r).
    eapply gives_weaken; [apply gives_xor_span; lia|]. intros l [Hl1 Hlj]. split; [lia|].
    intros j Hj. rewrite Hlj by done. by rewrite Z.sub_0_r. }
  destruct (Hspan (pkt_data (rec_pkt dst)) 0 2 Hd ltac:(lia) ltac:(lia) ltac:(lia)) as (d1 & E1 & L1 & D1).
  change (Z.to_nat 2) with 2%nat in E1. rewrite E1. cbn [flow_bind].
  destruct (Hspan d1 4 4 L1 ltac:(lia) ltac:(lia) ltac:(lia)) as (d2 & E2 & L2 & D2).
  change (Z.to_nat 4) with 4%nat in E2. rewrite E2. cbn [flow_bind].
  rewrite payload_length_bytes. cbn [flow_bind]. rewrite u16_id by (unfold is_u16; lia).
  set (be := be16 (pkt_length p - 12)) in *.
  destruct (gives_xor_byte (R := R) (length_recovery dst) 0 be 0) as (l1 & -> & M1 & K1);
    [lia|subst be; rewrite Zlen_be16; lia|]. cbn [flow_bind].
  destruct (gives_xor_byte (R := R) l1 1 be 1) as (l2 & -> & M2 & K2);
    [lia|subst be; rewrite Zlen_be16; lia|]. cbn [flow_bind].
  destruct (Hspan d2 12 (pkt_length p - 12) L2 ltac:(lia) ltac:(lia) ltac:(lia)) as (d3 & -> & L3 & D3).
  cbn [flow_bind]. apply gives_Cont. split; [|done]. unfold added. cbn [rec_pkt pkt_data length_recovery was_recovered returned].
  split; [done|]. split; [done|]. split; [lia|]. split; [done|]. split.
  - intros j Hj. cbn [lsum foldr]. fold be. rewrite Z.lxor_0_r, K2 by lia.
    spans; subst; rewrite K1 by lia; spans; by subst.
  - intros j Hj. cbn [rsum foldr]. rewrite Z.lxor_0_r, <- Hc, D3, D2, D1 by (lia || done).
    unfold rcontrib. rewrite Hl. spans; by rewrite ?Z.lxor_0_r.
Qed.

Lemma added_trans l1 l2 a b c : added l1 a b -> added l2 b c -> added (l1 ++ l2) a c.
Proof.
  intros (A1 & A2 & A3 & A4 & A5 & A6) (B1 & B2 & B3 & B4 & B5 & B6).
  assert (Hr : forall j, rsum (l1 ++ l2) j = Z.lxor (rsum l1 j) (rsum l2 j)).
  { intros j. clear. induction l1 as [|p l1 IH]; [by rewrite Z.lxor_0_l|]. cbn [app rsum foldr].
    fold (rsum (l1 ++ l2) j) (rsum l1 j). by rewrite IH, Z.lxor_assoc. }
  assert (Hl : forall j, lsum (l1 ++ l2) j = Z.lxor (lsum l1 j) (lsum l2 j)).
  { intros j. clear. induction l1 as [|p l1 IH]; [by rewrite Z.lxor_0_l|]. cbn [app lsum foldr].
    fold (lsum (l1 ++ l2) j) (lsum l1 j). by rewrite IH, Z.lxor_assoc. }
  split; [congruence|]. split; [congruence|]. split; [done|]. split; [done|]. split.
  - intros j Hj. by rewrite B5, A5, Hl, Z.lxor_assoc.
  - intros j Hj. by rewrite B6, A6, Hr, Z.lxor_assoc.
Qed.

Lemma added_nil a : rec_ok a -> added [] a a.
Proof.
  intros [H1 H2]. repeat (split; [done|]). cbn [lsum rsum foldr].
  split; intros; by rewrite Z.lxor_0_r.
Qed.

Lemma added_ok l a b : added l a b -> rec_ok b.
Proof. by intros (_ & _ & ? & ? & _). Qed.

(** The loop adds what is present and takes the number of the last one missing. *)
Lemma recover_loop_adds {R} off pl l rec :
  Forall2 entry_ok pl l -> Forall (media_ok off) l -> 0 <= off -> rec_ok rec ->
  gives (recover_loop (R := R) pl rec)
    (fun b => added (present pl l) rec b
       /\ rec_seq_num b = default (rec_seq_num rec) (seq_of <$> last (missing pl l))).
Proof.
  intros H Hm Ho. revert rec. induction H as [|e p pl l [Hseq Hpkt] Hpl IH]; intros rec Hr; cbn [recover_loop].
  - apply gives_Cont. split; [by apply added_nil|done].
  - apply Forall_cons_1 in Hm as [Hp Hm]. specialize (IH Hm). cbn [missing present].
    destruct (pp_pkt e) as [q|].
    + destruct Hp as [Hp1 Hp2 Hp3].
      eapply gives_bind; [apply (XorPackets_adds q p); [done|lia|done]|].
      intros b1 [Hb1 Hs1].
      eapply gives_weaken; [apply IH, (added_ok _ _ _ Hb1)|]. intros b [Hb Hs]. split; [|congruence].
      exact (added_trans [p] _ rec b1 b Hb1 Hb).
    + eapply gives_weaken; [by apply IH|]. cbn [rec_seq_num]. intros b [Hb Hs].
      split; [exact Hb|]. rewrite Hs. destruct (missing pl l) as [|p' l0]; [by rewrite Hseq|].
      rewrite last_cons_cons. destruct (last (p' :: l0)) eqn:El; [done|]. by apply last_None in El.
Qed.

(** ** The whole recovery *)

(** The received packet [f] is one of error correction for the packets [l]. *)
Definition protects (l_bit : bool) (l : list Packet) (f : Packet) : Prop :=
  exists first mask i, same_packet f
    (mkPacket (longest (l_ulp_header_size l_bit - 2) l) (fec_byte l_bit first l mask i <$> seqZ 0 IP_PACKET_SIZE)).

Lemma fec_protects l_bit media mask i f :
  same_packet f (fec_of l_bit media mask i) ->
  protects l_bit (picked (mask_has (l_mask_bytes l_bit) mask i) 0 media) f.
Proof. intros H. by exists (zat media 0), mask, i. Qed.

(** The bytes that a receiver reads. *)
Lemma protects_bytes l_bit l f j :
  let off := l_ulp_header_size l_bit - 2 in
  protects l_bit l f -> 0 <= j < longest off l -> longest off l <= IP_PACKET_SIZE ->
  exists first mask i, zat (pkt_data f) j = fec_byte l_bit first l mask i j.
Proof.
  intros off (first & mask & i & _ & _ & Hj) Hlt Hle. exists first, mask, i.
  rewrite Hj by done. cbn [pkt_data]. apply zat_fmap_seqZ. lia.
Qed.

(** The L bit of a received packet. *)
Lemma fec_l_bit (l_bit : bool) x :
  negb (Z.land (if l_bit then Z.lor (Z.land x 127) 64 else Z.land (Z.land x 127) 191) 64 =? 0) = l_bit.
Proof.
  change 64 with (Z.shiftl 1 6) at 2. rewrite land_bit by lia. destruct l_bit.
  - rewrite Z.lor_spec. by rewrite orb_true_r.
  - rewrite Z.land_spec. by rewrite andb_false_r.
Qed.

Lemma xsum_beyond off l j :
  0 <= off -> Forall (media_ok off) l -> longest off l <= j -> xsum off l j = 0.
Proof.
  intros Ho H. induction H as [|p l [Hp _ _] _ IH]; intros Hj; [done|].
  cbn [longest xsum foldr] in *. fold (longest off l) in *. fold (xsum off l j).
  by rewrite IH, contrib_bound by lia.
Qed.

Lemma xsum_rsum off l j j' : (forall p, contrib off p j = rcontrib p j') -> xsum off l j = rsum l j'.
Proof.
  intros H. induction l as [|p l IH]; [done|]. cbn [xsum rsum foldr].
  fold (xsum off l j) (rsum l j'). by rewrite IH, H.
Qed.

Lemma xsum_lsum off l j : 0 <= j < 2 -> xsum off l (8 + j) = lsum l j.
Proof.
  intros Hj. induction l as [|p l IH]; [done|]. cbn [xsum lsum foldr].
  fold (xsum off l (8 + j)) (lsum l j). rewrite IH. f_equal. unfold contrib. spans. f_equal. lia.
Qed.

Lemma xsum_head off l j : 0 <= j < 2 \/ 4 <= j < 8 -> xsum off l j = rsum l j.
Proof. intros Hj. apply xsum_rsum. intros p. unfold contrib, rcontrib. spans; done. Qed.

Lemma xsum_payload off l j : 0 <= off -> 12 <= j -> xsum off l (j + off) = rsum l j.
Proof.
  intros Ho Hj. apply xsum_rsum. intros p. unfold contrib, rcontrib. spans; try done. f_equal. lia.
Qed.

Lemma word16_zat {R} k v :
  Zlen k = 2 -> (forall j, 0 <= j < 2 -> zat k j = zat (be16 v) j) -> is_u16 v ->
  BufferToUWord16 (R := R) k 0 = Cont v.
Proof.
  intros Hl Hj Hv. unfold BufferToUWord16. rewrite !rd_zat by lia. cbn [flow_bind].
  rewrite !Hj by lia. change (zat (be16 v) 0) with (u8 (Z.shiftr v 8)).
  change (zat (be16 v) (0 + 1)) with (u8 v). by rewrite bytes16, !u16_id by (rewrite ?u16_id; done).
Qed.

(** What the recovery starts with. *)
Lemma InitRecovery_bytes {R} l_bit l fp u :
  let off := l_ulp_header_size l_bit - 2 in
  protects l_bit l (fp_pkt fp) -> Forall (media_ok off) l -> l <> [] ->
  gives (InitRecovery (R := R) fp u)
    (fun r => rec_ok r /\ was_recovered r = true /\ returned r = false
      /\ (forall j, 0 <= j < 2 -> zat (length_recovery r) j = lsum l j)
      /\ zat (pkt_data (rec_pkt r)) 0 =
           (if l_bit then Z.lor (Z.land (rsum l 0) 127) 64 else Z.land (Z.land (rsum l 0) 127) 191)
      /\ (forall j, j = 1 \/ 4 <= j < 8 \/ 12 <= j < IP_PACKET_SIZE -> zat (pkt_data (rec_pkt r)) j = rsum l j)
      /\ (forall j, 8 <= j < 12 -> zat (pkt_data (rec_pkt r)) j = zat (be32 (fp_ssrc fp)) (j - 8))).
Proof.
  intros off Hf Hm Hne. destruct (l_sizes l_bit) as [Hu Hnb].
  destruct (longest_bounds off l Hm) as [[_ Hmax] Hmin]. specialize (Hmin Hne).
  assert (Hfb : Zlen (pkt_data (fp_pkt fp)) = 1500) by (by destruct Hf as (? & ? & ? & _ & ? & _)).
  destruct Hf as (first & mask & i & _ & _ & Hf). cbn [pkt_data pkt_length] in Hf. fold off in Hf.
  unfold IP_PACKET_SIZE in *. set (F := pkt_data (fp_pkt fp)) in *.
  assert (HF : forall j, 0 <= j < longest off l -> zat F j = fec_byte l_bit first l mask i j).
  { intros j Hj. rewrite Hf by done. apply zat_fmap_seqZ. lia. } clear Hf.
  unfold InitRecovery. fold F. rewrite rd_zat by lia. cbn [flow_bind].
  assert (H0 : zat F 0 = if l_bit then Z.lor (Z.land (rsum l 0) 127) 64 else Z.land (Z.land (rsum l 0) 127) 191).
  { rewrite HF by lia. unfold fec_byte. change (0 =? 0) with true. cbv iota. fold off.
    by rewrite xsum_head by lia. }
  rewrite H0, fec_l_bit. unfold IP_PACKET_SIZE, kFecHeaderSize, kRtpHeaderSize.
  destruct (gives_get_at (R := R) F 10 2) as (pl & -> & P1 & P2); [lia..|]. cbn [flow_bind].
  rewrite (word16_zat pl (longest off l - off - 12)); [|done| |unfold is_u16; lia].
  2:{ intros j Hj. rewrite P2, HF by lia. unfold fec_byte. fold off. spans. f_equal. lia. }
  cbn [flow_bind]. unfold copy at 1.
  destruct (gives_copy_at (R := R) (replicate (Z.to_nat 1500) 0) 12 F (10 + l_ulp_header_size l_bit)
    (longest off l - off - 12)) as (d1 & -> & L1 & D1);
    [lia|lia|lia|rewrite Zlen_replicate; lia|lia|]. cbn [flow_bind].
  rewrite Zlen_replicate in L1 by lia.
  destruct (gives_get_at (R := R) F 8 2) as (lr & -> & R1 & R2); [lia..|]. cbn [flow_bind]. unfold copy.
  destruct (gives_copy_at (R := R) d1 0 F 0 2) as (d2 & -> & L2 & D2); [lia..|]. cbn [flow_bind].
  destruct (gives_copy_at (R := R) d2 4 F 4 4) as (d3 & -> & L3 & D3); [lia..|]. cbn [flow_bind].
  rewrite AssignUWord32_put by lia. cbn [flow_bind].
  destruct (gives_put_at (R := R) d3 8 (be32 (fp_ssrc fp))) as (d4 & E4 & L4 & D4);
    [lia|rewrite Zlen_be32; lia|].
  rewrite blk_put_put in E4 by (rewrite ?Zlen_be32; lia). injection E4 as ->.
  apply gives_Cont. cbn [length_recovery rec_pkt pkt_data was_recovered returned].
  split; [split; cbn [length_recovery rec_pkt pkt_data]; [done|unfold IP_PACKET_SIZE; lia]|].
  split; [done|]. split; [done|]. rewrite Zlen_be32 in D4.
  assert (HD : forall j, 0 <= j < 8 \/ 12 <= j < 1500 -> zat (pkt_data (mkPacket 0 d4)) j
    = if in_span 4 4 j || in_span 0 2 j then zat F j
      else if in_span 12 (longest off l - off - 12) j then zat F (j + off) else 0).
  { intros j Hj. cbn [pkt_data]. rewrite D4, D3, D2, D1, zat_replicate by lia. spans; f_equal; lia. }
  cbn [pkt_data] in HD. split; [|split; [|split]].
  - intros j Hj. rewrite R2, HF by lia. unfold fec_byte. fold off. rewrite <- (xsum_lsum off) by lia. spans; done.
  - rewrite HD by lia. exact H0.
  - intros j Hj. rewrite HD by lia. destruct (decide (12 <= j)) as [Hj12|].
    + rewrite <- (xsum_payload off) by lia. spans; [|symmetry; apply xsum_beyond; done || lia].
      rewrite HF by lia. unfold fec_byte. fold off. spans; done.
    + rewrite <- (xsum_head off) by lia. spans; rewrite HF by lia; unfold fec_byte; fold off; spans; done.
  - intros j Hj. rewrite D4 by lia. spans; done.
Qed.

(** The first byte: the version is put back, the other bits are those of the sum. *)
Lemma version_restored (l_bit : bool) v x y :
  128 <= v < 192 -> x = Z.lxor v y ->
  Z.land (Z.lor (Z.lxor (if l_bit then Z.lor (Z.land x 127) 64 else Z.land (Z.land x 127) 191) y) 128) 191 = v.
Proof.
  intros Hv ->. apply Z.bits_inj'. intros i Hi.
  rewrite Z.land_spec, Z.lor_spec, Z.lxor_spec.
  destruct (decide (8 <= i)).
  - rewrite (Z.bits_above_log2 191 i) by (simpl; lia). rewrite andb_false_r.
    rewrite Z.bits_above_log2; [done|lia|]. apply Z.log2_lt_pow2; [lia|].
    apply Z.lt_le_trans with (2 ^ 8); [simpl; lia|]. apply Z.pow_le_mono_r; lia.
  - assert (H7 : Z.testbit v 7 = true) by (rewrite Z.testbit_true by lia; change (2 ^ 7) with 128; zdm).
    assert (H6 : Z.testbit v 6 = false) by (rewrite Z.testbit_false by lia; change (2 ^ 6) with 64; zdm).
    assert (Hi8 : i = 0 \/ i = 1 \/ i = 2 \/ i = 3 \/ i = 4 \/ i = 5 \/ i = 6 \/ i = 7) by lia.
    destruct l_bit; rewrite ?Z.lor_spec, !Z.land_spec, Z.lxor_spec;
      destruct Hi8 as [->|[->|[->|[->|[->|[->|[->| ->]]]]]]]; rewrite ?H7, ?H6;
      repeat match goal with |- context [Z.testbit (Zpos ?p) ?q] =>
        let b := eval vm_compute in (Z.testbit (Zpos p) q) in change (Z.testbit (Zpos p) q) with b end;
      rewrite ?andb_true_r, ?andb_false_r, ?orb_false_r, ?orb_true_r; try done;
      rewrite xorb_assoc, xorb_nilpotent; apply xorb_false_r.
Qed.

Lemma missing_Forall (P : Packet -> Prop) pl l : Forall P l -> Forall P (missing pl l).
Proof.
  revert l. induction pl as [|e pl IH]; intros l H; [done|]. destruct H as [|p l Hp Hl]; [done|].
  cbn [missing]. destruct (pp_pkt e); auto.
Qed.

Lemma present_Forall (P : Packet -> Prop) pl l : Forall P l -> Forall P (present pl l).
Proof.
  revert l. induction pl as [|e pl IH]; intros l H; [done|]. destruct H as [|p l Hp Hl]; [done|].
  cbn [present]. destruct (pp_pkt e); auto.
Qed.

Lemma rsum_split pl l j :
  Forall2 entry_ok pl l -> Z.lxor (rsum l j) (rsum (present pl l) j) = rsum (missing pl l) j.
Proof.
  induction 1 as [|e p pl l _ _ IH]; [done|]. cbn [missing present].
  destruct (pp_pkt e); cbn [rsum foldr]; fold (rsum l j) (rsum (missing pl l) j) (rsum (present pl l) j);
    rewrite <- IH.
  - rewrite (Z.lxor_comm (rcontrib p j) (rsum l j)), Z.lxor_assoc, <- (Z.lxor_assoc (rcontrib p j)).
    by rewrite Z.lxor_nilpotent, Z.lxor_0_l.
  - by rewrite Z.lxor_assoc.
Qed.

Lemma lsum_split pl l j :
  Forall2 entry_ok pl l -> Z.lxor (lsum l j) (lsum (present pl l) j) = lsum (missing pl l) j.
Proof.
  induction 1 as [|e p pl l _ _ IH]; [done|]. cbn [missing present].
  destruct (pp_pkt e); cbn [lsum foldr]; fold (lsum l j) (lsum (missing pl l) j) (lsum (present pl l) j);
    rewrite <- IH.
  - set (b := zat (be16 (pkt_length p - 12)) j).
    rewrite (Z.lxor_comm b (lsum l j)), Z.lxor_assoc, <- (Z.lxor_assoc b).
    by rewrite Z.lxor_nilpotent, Z.lxor_0_l.
  - by rewrite Z.lxor_assoc.
Qed.

Lemma FinishRecovery_bytes {R} b v :
  rec_ok b -> is_u16 (v + 12) -> is_u16 v ->
  (forall j, 0 <= j < 2 -> zat (length_recovery b) j = zat (be16 v) j) ->
  gives (FinishRecovery (R := R) b) (fun r =>
    r = mkRecovered (rec_seq_num b) (was_recovered b) (returned b) (be16 v) (mkPacket (v + 12) (pkt_data (rec_pkt r)))
    /\ Zlen (pkt_data (rec_pkt r)) = IP_PACKET_SIZE
    /\ forall j, 0 <= j -> zat (pkt_data (rec_pkt r)) j =
         if j =? 0 then Z.land (Z.lor (zat (pkt_data (rec_pkt b)) 0) 128) 191
         else if in_span 2 2 j then zat (be16 (rec_seq_num b)) (j - 2)
         else zat (pkt_data (rec_pkt b)) j).
Proof.
  intros [H1 H2] Hv12 Hv Hlr. unfold IP_PACKET_SIZE in *. unfold FinishRecovery.
  set (d := pkt_data (rec_pkt b)) in *. rewrite rd_zat by lia. cbn [flow_bind].
  destruct (gives_wr_at (R := R) d 0 (Z.lor (zat d 0) 128)) as (d1 & -> & L1 & D1); [lia|]. cbn [flow_bind].
  rewrite rd_zat by lia. cbn [flow_bind].
  destruct (gives_wr_at (R := R) d1 0 (Z.land (zat d1 0) 191)) as (d2 & -> & L2 & D2); [lia|]. cbn [flow_bind].
  rewrite AssignUWord16_put by lia. cbn [flow_bind].
  destruct (gives_put_at (R := R) d2 2 (be16 (rec_seq_num b))) as (d3 & E3 & L3 & D3); [lia|rewrite Zlen_be16; lia|].
  rewrite blk_put_put in E3 by (rewrite ?Zlen_be16; lia). injection E3 as ->.
  rewrite (word16_zat _ v) by done. cbn [flow_bind]. apply gives_Cont. cbn [rec_pkt pkt_data].
  split; [|split; [lia|]].
  - unfold kRtpHeaderSize. rewrite u16_id by done. f_equal. apply list_eq_zat; [by rewrite H1|].
    intros j Hj. apply Hlr. lia.
  - intros j Hj. rewrite Zlen_be16 in D3. rewrite D3, D2, !D1 by lia. spans; done.
Qed.

Lemma seq_of_bytes p j :
  (forall j, 2 <= j < 4 -> is_u8 (zat (pkt_data p) j)) -> 2 <= j < 4 ->
  zat (be16 (seq_of p)) (j - 2) = zat (pkt_data p) j.
Proof.
  intros H Hj. assert (H2 := H 2 ltac:(lia)). assert (H3 := H 3 ltac:(lia)). unfold is_u8 in *.
  unfold seq_of. rewrite Z.shiftl_mul_pow2 by lia. change (2 ^ 8) with 256.
  rewrite u16_id by (unfold is_u16; lia).
  destruct (decide (j = 2)) as [->|]; [|replace j with 3 by lia].
  - change (zat (be16 ?v) (2 - 2)) with (u8 (Z.shiftr v 8)). rewrite Z.shiftr_div_pow2 by lia.
    change (2 ^ 8) with 256. unfold u8. zdm.
  - change (zat (be16 ?v) (3 - 2)) with (u8 v). unfold u8. zdm.
Qed.

Lemma rsum_zero l j : (forall p, In p l -> rcontrib p j = 0) -> rsum l j = 0.
Proof.
  induction l as [|p l IH]; intros H; [done|]. cbn [rsum foldr]. fold (rsum l j).
  rewrite IH, H; [done|by left|]. intros q Hq. apply H. by right.
Qed.

(** With one packet missing, the packet of error correction gives it back: its number,
    its length and its bytes, followed by zeros. *)
Lemma RecoverPacket_padded {R} l_bit l fp L u :
  protects l_bit l (fp_pkt fp) -> Forall (media_ok (l_ulp_header_size l_bit - 2)) l ->
  Forall2 entry_ok (protected_pkt_list fp) l -> missing (protected_pkt_list fp) l = [L] ->
  rtp_ok (fp_ssrc fp) L ->
  RecoverPacket (R := R) fp u
  = Cont (mkRecovered (seq_of L) true false (be16 (pkt_length L - 12)) (padded L)).
Proof.
  intros Hf Hm H2 HL [Rv Rs Rc]. set (pl := protected_pkt_list fp) in *.
  destruct (l_sizes l_bit) as [Hu Hnb]. set (off := l_ulp_header_size l_bit - 2) in *.
  assert (HLm := missing_Forall _ pl l Hm). rewrite HL in HLm. apply Forall_singleton in HLm as [Hmin Hmax HLd].
  assert (Hne : l <> []) by (intros ->; by destruct pl).
  unfold RecoverPacket. fold pl.
  destruct (InitRecovery_bytes (R := R) l_bit l fp u Hf Hm Hne) as (r0 & -> & K0 & W0 & T0 & LR0 & Z0 & P0 & S0).
  cbn [flow_bind].
  destruct (recover_loop_adds (R := R) off pl l r0 H2 Hm) as (b & -> & Hb & Hseq); [lia|done|]. cbn [flow_bind].
  rewrite HL in Hseq. cbn in Hseq.
  assert (Hbok := added_ok _ _ _ Hb). destruct Hb as (W & T & _ & _ & LR & P).
  unfold IP_PACKET_SIZE in *.
  destruct (FinishRecovery_bytes (R := R) b (pkt_length L - 12)) as (r & -> & Hr & Hrl & Hrj);
    [done|unfold is_u16; lia|unfold is_u16; lia| |].
  { intros j Hj. rewrite LR, LR0, lsum_split, HL by done. cbn [lsum foldr]. apply Z.lxor_0_r. }
  rewrite Hr, W, T, W0, T0, Hseq. do 2 f_equal. unfold padded. f_equal; [lia|].
  apply zat_ext_fmap_seqZ; [done|done|]. intros j Hj. rewrite Hrj by lia. unfold IP_PACKET_SIZE in *.
  assert (HP : forall j, j = 1 \/ 4 <= j < 8 \/ 12 <= j < 1500 -> zat (pkt_data (rec_pkt b)) j = rcontrib L j).
  { intros q Hq. rewrite P, P0, rsum_split, HL by (done || lia). cbn [rsum foldr]. apply Z.lxor_0_r. }
  destruct (Z.eqb_spec j 0) as [->|].
  - rewrite (proj2 (Z.ltb_lt 0 _)) by lia. rewrite P, Z0 by lia. apply version_restored; [done|].
    assert (E := rsum_split pl l 0 H2). rewrite HL in E. cbn [rsum foldr] in E.
    rewrite Z.lxor_0_r in E. change (rcontrib L 0) with (zat (pkt_data L) 0) in E.
    by rewrite <- E, Z.lxor_assoc, Z.lxor_nilpotent, Z.lxor_0_r.
  - destruct (decide (2 <= j < 4)) as [H24|].
    + rewrite (proj2 (Z.ltb_lt j _)) by lia. destruct (in_span_spec 2 2 j); [|lia].
      rewrite Hseq. by apply seq_of_bytes.
    + destruct (in_span_spec 2 2 j); [lia|]. destruct (decide (8 <= j < 12)) as [H812|].
      * rewrite (proj2 (Z.ltb_lt j _)) by lia. rewrite P, S0, Rc by lia.
        assert (E := rsum_split pl l j H2).
        rewrite (rsum_zero (present pl l) j), Z.lxor_0_r; [done|]. intros p _. unfold rcontrib. spans; done.
      * rewrite HP by lia. unfold rcontrib. destruct (Z.ltb_spec j (pkt_length L)); spans; done.
Qed.
