(* ===== verification/FecReceive.v ===== *)
(** * Receiving with error correction

    Models the receiver's side of [modules/rtp_rtcp/source/forward_error_correction.cc]:
    the lists of received packets of error correction and of known media packets, the
    links between them, and [DecodeFEC].  A shared [Packet] is not changed once it is in
    a list, so a pointer to it is its value; [std::list::sort], [std::lower_bound] and
    [std::set_intersection] are what the standard says they are. *)
From S2P Require Import Prelude Pointwise RtpWire FecTables FecPacket FecRecover.
From Stdlib Require Import Sorted.
Local Open Scope Z_scope.

Definition kMaxFecPackets : Z := kMaxMediaPackets.

Record ReceivedPacket : Type := mkReceived {
  rx_seq_num : Z;
  rx_ssrc : Z;
  rx_is_fec : bool;
  rx_pkt : Packet
}.

(** The members of [ForwardErrorCorrection] that a receiver uses. *)
Record FecDecoder : Type := mkDecoder {
  fec_packet_list_ : list FecPacket;
  fec_packet_received_ : bool
}.

(** ** Sequence number order *)

Definition LessThan (first second : Z) : bool := IsNewerSequenceNumber second first.

Section std.
Context {A B : Type} (ka : A -> Z) (kb : B -> Z).

(** A stable sort. *)
Fixpoint sort_insert (x : A) (l : list A) : list A :=
  match l with
  | [] => [x]
  | y :: l => if LessThan (ka y) (ka x) then y :: sort_insert x l else x :: y :: l
  end.
Definition list_sort (l : list A) : list A := foldr sort_insert [] l.

(** The position of the first element that is not less than [value]. *)
Fixpoint lower_bound (l : list A) (value : Z) : nat :=
  match l with
  | [] => O
  | x :: l => if LessThan (ka x) value then S (lower_bound l value) else O
  end.

(** The elements of the first list that are equivalent to one of the second. *)
Fixpoint set_intersection (la : list A) : list B -> list A :=
  fix walk lb :=
    match la, lb with
    | x :: la', y :: lb' =>
        if LessThan (ka x) (kb y) then set_intersection la' lb
        else if LessThan (kb y) (ka x) then walk lb'
        else x :: set_intersection la' lb'
    | _, _ => []
    end.
End std.

(** ** The operations *)

Definition set_pkt (pkt : Packet) (e : ProtectedPacket) : ProtectedPacket := mkProtected (pp_seq_num e) (Some pkt).
Definition with_protected (f : FecPacket) (l : list ProtectedPacket) : FecPacket :=
  mkFecPacket (fp_seq_num f) l (fp_ssrc f) (fp_pkt f).

Definition update_covering (packet : RecoveredPacket) (it : FecPacket) : FecPacket :=
  let l := protected_pkt_list it in
  let protected_it := lower_bound pp_seq_num l (rec_seq_num packet) in
  match l !! protected_it with
  | Some e => if pp_seq_num e =? rec_seq_num packet
              then with_protected it (<[protected_it := set_pkt (rec_pkt packet) e]> l) else it
  | None => it
  end.

Definition UpdateCoveringFECPackets (packet : RecoveredPacket) (fec_packet_list : list FecPacket)
  : list FecPacket := update_covering packet <$> fec_packet_list.

(** The number and the data of a received media packet; its [length_recovery] is not set. *)
Definition InsertMediaPacket (rx_packet : ReceivedPacket) (recovered_packet_list : list RecoveredPacket)
  (self : FecDecoder) : list RecoveredPacket * FecDecoder :=
  if existsb (fun r => rx_seq_num rx_packet =? rec_seq_num r) recovered_packet_list
  then (recovered_packet_list, self)
  else
    let new := mkRecovered (rx_seq_num rx_packet) false true [0; 0] (rx_pkt rx_packet) in
    (list_sort rec_seq_num (recovered_packet_list ++ [new]),
     mkDecoder (UpdateCoveringFECPackets new (fec_packet_list_ self)) (fec_packet_received_ self)).

(** The walk with one iterator over the protected packets; it must not reach their end. *)
Fixpoint assign_loop {R : Type} (it : list RecoveredPacket) : list ProtectedPacket -> flow R (list ProtectedPacket) :=
  match it with
  | [] => fun not_recovered => Cont not_recovered
  | r :: it =>
      fix seek not_recovered :=
        match not_recovered with
        | [] => Stuck
        | e :: rest =>
            if negb (pp_seq_num e =? rec_seq_num r) then let! rest := seek rest in Cont (e :: rest)
            else assign_loop it (set_pkt (rec_pkt r) e :: rest)
        end
  end.

Definition AssignRecoveredPackets {R : Type} (not_recovered : list ProtectedPacket)
  (recovered_packets : list RecoveredPacket) : flow R (list ProtectedPacket) :=
  let already_recovered := set_intersection rec_seq_num pp_seq_num recovered_packets not_recovered in
  assign_loop already_recovered not_recovered.

(** The packets of the mask in [data]. *)
Definition protected_packets {R : Type} (data : list Z) (seq_num_base maskSizeBytes : Z)
  : flow R (list ProtectedPacket) :=
  for_up (Z.to_nat maskSizeBytes) 0 (fun byte_idx l =>
    let! packet_mask := rd data (12 + byte_idx) in
    for_up 8 0 (fun bit_idx l =>
      if negb (Z.land packet_mask (Z.shiftl 1 (7 - bit_idx)) =? 0)
      then Cont (l ++ [mkProtected (u16 (seq_num_base + Z.shiftl byte_idx 3 + bit_idx)) None])
      else Cont l) l) [].

Definition InsertFECPacket {R : Type} (rx_packet : ReceivedPacket)
  (recovered_packet_list : list RecoveredPacket) (self : FecDecoder) : flow R FecDecoder :=
  let self := mkDecoder (fec_packet_list_ self) true in
  if existsb (fun f => rx_seq_num rx_packet =? fp_seq_num f) (fec_packet_list_ self) then Cont self
  else
    let data := pkt_data (rx_pkt rx_packet) in
    let! seq_num_base := BufferToUWord16 data 2 in
    let! b := rd data 0 in
    let maskSizeBytes := l_mask_bytes (negb (Z.land b 64 =? 0)) in
    let! l := protected_packets data seq_num_base maskSizeBytes in
    match l with
    | [] => Cont self
    | _ :: _ =>
        let! l := AssignRecoveredPackets l recovered_packet_list in
        let fec_packet := mkFecPacket (rx_seq_num rx_packet) l (rx_ssrc rx_packet) (rx_pkt rx_packet) in
        let fecs := list_sort fp_seq_num (fec_packet_list_ self ++ [fec_packet]) in
        Cont (mkDecoder (if kMaxFecPackets <? Zlen fecs then tail fecs else fecs) true)
    end.

Definition DiscardOldPackets (recovered_packet_list : list RecoveredPacket) : list RecoveredPacket :=
  drop (length recovered_packet_list - Z.to_nat kMaxMediaPackets) recovered_packet_list.

(** The oldest packet of error correction goes when the received number is far from its own. *)
Definition discard_far (rx_packet : ReceivedPacket) (self : FecDecoder) : FecDecoder :=
  match fec_packet_list_ self with
  | [] => self
  | front :: rest =>
      let seq_num_diff := u16 (Z.abs (rx_seq_num rx_packet - fp_seq_num front)) in
      if 16383 <? seq_num_diff then mkDecoder rest (fec_packet_received_ self) else self
  end.

Fixpoint insert_packets {R : Type} (received_packet_list : list ReceivedPacket)
  (recovered_packet_list : list RecoveredPacket) (self : FecDecoder)
  : flow R (list RecoveredPacket * FecDecoder) :=
  match received_packet_list with
  | [] => Cont (recovered_packet_list, self)
  | rx_packet :: rest =>
      let self := discard_far rx_packet self in
      if rx_is_fec rx_packet then
        let! self := InsertFECPacket rx_packet recovered_packet_list self in
        insert_packets rest recovered_packet_list self
      else
        let '(recovered_packet_list, self) := InsertMediaPacket rx_packet recovered_packet_list self in
        insert_packets rest recovered_packet_list self
  end.

Definition InsertPackets {R : Type} (received_packet_list : list ReceivedPacket)
  (recovered_packet_list : list RecoveredPacket) (self : FecDecoder)
  : flow R (list RecoveredPacket * FecDecoder) :=
  let! st := insert_packets received_packet_list recovered_packet_list self in
  let '(recovered_packet_list, self) := st in
  Cont (DiscardOldPackets recovered_packet_list, self).

(** Stops counting at two. *)
Fixpoint count_missing (it : list ProtectedPacket) (packets_missing : Z) : Z :=
  match it with
  | [] => packets_missing
  | e :: it =>
      match pp_pkt e with
      | None => if 1 <? packets_missing + 1 then packets_missing + 1 else count_missing it (packets_missing + 1)
      | Some _ => count_missing it packets_missing
      end
  end.
Definition NumCoveredPacketsMissing (fec_packet : FecPacket) : Z :=
  count_missing (protected_pkt_list fec_packet) 0.

(** [pos] is the iterator. *)
Fixpoint recover_all {R : Type} (fuel : nat) (pos : nat) (fecs : list FecPacket)
  (recovered_packet_list : list RecoveredPacket) : flow R (list FecPacket * list RecoveredPacket) :=
  match fuel with
  | O => Stuck
  | S fuel =>
      match fecs !! pos with
      | None => Cont (fecs, recovered_packet_list)
      | Some fec_packet =>
          let packets_missing := NumCoveredPacketsMissing fec_packet in
          if packets_missing =? 1 then
            let! packet_to_insert := RecoverPacket fec_packet 0 in
            let recovered_packet_list := list_sort rec_seq_num (recovered_packet_list ++ [packet_to_insert]) in
            let fecs := UpdateCoveringFECPackets packet_to_insert fecs in
            let recovered_packet_list := DiscardOldPackets recovered_packet_list in
            recover_all fuel 0 (delete pos fecs) recovered_packet_list
          else if packets_missing =? 0 then recover_all fuel pos (delete pos fecs) recovered_packet_list
          else recover_all fuel (S pos) fecs recovered_packet_list
      end
  end.

Definition AttemptRecover {R : Type} (recovered_packet_list : list RecoveredPacket) (self : FecDecoder)
  : flow R (list RecoveredPacket * FecDecoder) :=
  let fecs := fec_packet_list_ self in
  let! st := recover_all ((length fecs + 1) * (length fecs + 1)) 0 fecs recovered_packet_list in
  let '(fecs, recovered_packet_list) := st in
  Cont (recovered_packet_list, mkDecoder fecs (fec_packet_received_ self)).

Definition ResetState (self : FecDecoder) : list RecoveredPacket * FecDecoder := ([], mkDecoder [] false).

Definition DecodeFEC (received_packet_list : list ReceivedPacket)
  (recovered_packet_list : list RecoveredPacket) (self : FecDecoder)
  : flow (list RecoveredPacket * FecDecoder) (list RecoveredPacket * FecDecoder) :=
  let! st :=
    if Zlen recovered_packet_list =? kMaxMediaPackets then
      match received_packet_list, last recovered_packet_list with
      | front :: _, Some back =>
          let seq_num_diff := Z.abs (rx_seq_num front - rec_seq_num back) in
          Cont (if kMaxMediaPackets <? seq_num_diff then ResetState self else (recovered_packet_list, self))
      | _, _ => Stuck
      end
    else Cont (recovered_packet_list, self) in
  let '(recovered_packet_list, self) := st in
  let! st := InsertPackets received_packet_list recovered_packet_list self in
  let '(recovered_packet_list, self) := st in
  AttemptRecover recovered_packet_list self.

(** ** The order in a window

    Numbers less than half of the range after [base] are ordered by their distance
    from it. *)
Definition rank (base s : Z) : Z := u16 (s - base).
Definition in_window (base s : Z) : Prop := is_u16 s /\ rank base s < 32768.

Lemma rank_id base s : is_u16 s -> s = u16 (base + rank base s).
Proof. unfold is_u16, rank, u16. intros. zdm. Qed.

Lemma rank_inj base a b : is_u16 a -> is_u16 b -> rank base a = rank base b -> a = b.
Proof. intros Ha Hb E. rewrite (rank_id base a Ha), (rank_id base b Hb). by rewrite E. Qed.

Lemma LessThan_rank base a b :
  in_window base a -> in_window base b -> LessThan a b = (rank base a <? rank base b).
Proof.
  intros [Ha Ra] [Hb Rb]. unfold LessThan. rewrite (rank_id base a Ha) at 1. rewrite (rank_id base b Hb) at 1.
  assert (0 <= rank base a) by (unfold rank, u16; zdm). assert (0 <= rank base b) by (unfold rank, u16; zdm).
  rewrite IsNewerSequenceNumber_window by lia.
  destruct (Z.ltb_spec (base + rank base a) (base + rank base b)), (Z.ltb_spec (rank base a) (rank base b)); done || lia.
Qed.

Section order.
Context (base : Z).

(** Sorted by the distance from [base], without repetitions. *)
Definition ranked {A : Type} (ka : A -> Z) (l : list A) : Prop :=
  StronglySorted (fun x y => rank base (ka x) < rank base (ka y)) l.
Definition all_in {A : Type} (ka : A -> Z) (l : list A) : Prop := Forall (fun x => in_window base (ka x)) l.

Section sorting.
Context {A : Type} (ka : A -> Z).

Lemma sort_insert_perm x l : sort_insert ka x l ≡ₚ x :: l.
Proof.
  induction l as [|y l IH]; [done|]. cbn [sort_insert]. destruct (LessThan _ _); [|done].
  rewrite IH. apply Permutation_swap.
Qed.

Lemma list_sort_perm l : list_sort ka l ≡ₚ l.
Proof.
  induction l as [|x l IH]; [done|]. cbn [list_sort foldr]. rewrite sort_insert_perm.
  by apply Permutation_skip.
Qed.

Lemma all_in_perm l k : l ≡ₚ k -> all_in ka l -> all_in ka k.
Proof. unfold all_in. by intros ->. Qed.

Lemma sort_insert_ranked x l :
  in_window base (ka x) -> all_in ka l -> ka x ∉ (ka <$> l) -> ranked ka l -> ranked ka (sort_insert ka x l).
Proof.
  intros Hx Hl Hn Hr. induction Hr as [|y l Hr IH Hy]; cbn [sort_insert].
  - apply SSorted_cons; [apply SSorted_nil|done].
  - apply Forall_cons_1 in Hl as [Hwy Hl]. rewrite fmap_cons, not_elem_of_cons in Hn.
    destruct Hn as [Hxy Hn]. rewrite (LessThan_rank base) by done.
    destruct (Z.ltb_spec (rank base (ka y)) (rank base (ka x))).
    + apply SSorted_cons; [by apply IH|]. rewrite sort_insert_perm. apply Forall_cons_2; done.
    + apply SSorted_cons; [by apply SSorted_cons|].
      assert (rank base (ka x) < rank base (ka y)).
      { destruct (decide (rank base (ka x) = rank base (ka y))) as [E|]; [|lia].
        destruct Hx, Hwy. by apply (rank_inj base) in E. }
      apply Forall_cons_2; [done|]. eapply Forall_impl; [exact Hy|]. cbv beta. intros z Hz. lia.
Qed.

Lemma list_sort_ranked l : all_in ka l -> NoDup (ka <$> l) -> ranked ka (list_sort ka l).
Proof.
  induction l as [|x l IH]; intros Hl Hn; [apply SSorted_nil|]. cbn [list_sort foldr].
  apply Forall_cons_1 in Hl as [Hx Hl]. rewrite fmap_cons in Hn. apply NoDup_cons in Hn as [Hxn Hn].
  apply sort_insert_ranked; [done| | |by apply IH].
  - eapply all_in_perm; [symmetry; apply list_sort_perm|done].
  - change (foldr (sort_insert ka) [] l) with (list_sort ka l). by rewrite list_sort_perm.
Qed.

Lemma ranked_nodup l : ranked ka l -> NoDup (ka <$> l).
Proof.
  induction 1 as [|x l Hr IH Hx]; [apply NoDup_nil_2|]. rewrite fmap_cons. apply NoDup_cons. split; [|done].
  intros (y & E & Hy)%list_elem_of_fmap. rewrite Forall_forall in Hx. specialize (Hx y Hy). rewrite E in Hx. lia.
Qed.
End sorting.

(** ** The intersection *)

Definition has {A B} (ka : A -> Z) (kb : B -> Z) (lb : list B) (x : A) : bool :=
  existsb (fun y => ka x =? kb y) lb.

Lemma has_spec {A B} (ka : A -> Z) (kb : B -> Z) lb x : has ka kb lb x = true <-> ka x ∈ kb <$> lb.
Proof.
  unfold has. rewrite existsb_exists, list_elem_of_fmap. split.
  - intros (y & Hy & E%Z.eqb_eq). exists y. by rewrite list_elem_of_In.
  - intros (y & E & Hy). exists y. rewrite Z.eqb_eq. by rewrite <- list_elem_of_In.
Qed.

Lemma has_later {A B} (ka : A -> Z) (kb : B -> Z) y lb x :
  rank base (kb y) < rank base (ka x) -> has ka kb (y :: lb) x = has ka kb lb x.
Proof.
  intros Hl. unfold has. cbn [existsb]. destruct (Z.eqb_spec (ka x) (kb y)) as [E|]; [|done].
  rewrite E in Hl. lia.
Qed.

Lemma has_not {A B} (ka : A -> Z) (kb : B -> Z) lb x :
  Forall (fun y => rank base (ka x) < rank base (kb y)) lb -> has ka kb lb x = false.
Proof.
  induction 1 as [|y lb Hy _ IH]; [done|]. unfold has. cbn [existsb]. fold (has ka kb lb x).
  rewrite IH, orb_false_r. apply Z.eqb_neq. intros E. rewrite E in Hy. lia.
Qed.

Lemma set_intersection_filter {A B} (ka : A -> Z) (kb : B -> Z) la lb :
  all_in ka la -> all_in kb lb -> ranked ka la -> ranked kb lb ->
  set_intersection ka kb la lb = List.filter (has ka kb lb) la.
Proof.
  intros Ha Hb Hra. revert lb Hb. induction Hra as [|x la Hra IHa Hx]; intros lb Hb Hrb; [by destruct lb|].
  apply Forall_cons_1 in Ha as [Hwx Ha]. specialize (IHa Ha).
  induction Hrb as [|y lb Hrb IHb Hy].
  { change (set_intersection ka kb (x :: la) []) with (@nil A). by induction (x :: la). }
  assert (Hb' := Hb). apply Forall_cons_1 in Hb' as [Hwy Hb']. specialize (IHb Hb').
  change (set_intersection ka kb (x :: la) (y :: lb)) with
    (if LessThan (ka x) (kb y) then set_intersection ka kb la (y :: lb)
     else if LessThan (kb y) (ka x) then set_intersection ka kb (x :: la) lb
     else x :: set_intersection ka kb la lb).
  rewrite !(LessThan_rank base) by done. cbn [List.filter].
  destruct (Z.ltb_spec (rank base (ka x)) (rank base (kb y))).
  - rewrite IHa by (done || by apply SSorted_cons). rewrite has_not; [done|].
    apply Forall_cons_2; [done|]. eapply Forall_impl; [exact Hy|]. cbv beta. intros z Hz. lia.
  - destruct (Z.ltb_spec (rank base (kb y)) (rank base (ka x))).
    + rewrite IHb. cbn [List.filter]. rewrite has_later by done.
      rewrite (filter_ext_in (has ka kb (y :: lb)) (has ka kb lb) la); [done|].
      intros z Hz%list_elem_of_In. apply has_later. rewrite Forall_forall in Hx. specialize (Hx z Hz). lia.
    + assert (E : ka x = kb y) by (destruct Hwx, Hwy; apply (rank_inj base); done || lia).
      unfold has at 1. cbn [existsb]. rewrite (proj2 (Z.eqb_eq _ _) E). cbn [orb]. f_equal.
      rewrite IHa by done. apply filter_ext_in. intros z Hz%list_elem_of_In. symmetry. apply has_later.
      rewrite Forall_forall in Hx. specialize (Hx z Hz). lia.
Qed.

(** ** The links *)

(** The entry [e] with the packet that [rl] has for it. *)
Definition assigned (rl : list RecoveredPacket) (e : ProtectedPacket) : ProtectedPacket :=
  match List.find (fun r => rec_seq_num r =? pp_seq_num e) rl with
  | Some r => set_pkt (rec_pkt r) e
  | None => e
  end.

Lemma assigned_other r rl e : pp_seq_num e <> rec_seq_num r -> assigned (r :: rl) e = assigned rl e.
Proof. intros H. unfold assigned. cbn [List.find]. destruct (Z.eqb_spec (rec_seq_num r) (pp_seq_num e)); congruence. Qed.

Lemma assigned_same r rl e : pp_seq_num e = rec_seq_num r -> assigned (r :: rl) e = set_pkt (rec_pkt r) e.
Proof. intros H. unfold assigned. cbn [List.find]. by rewrite H, Z.eqb_refl. Qed.

Lemma assigned_none rl e : Forall (fun r => pp_seq_num e <> rec_seq_num r) rl -> assigned rl e = e.
Proof.
  induction 1 as [|r rl Hr _ IH]; [done|]. by rewrite assigned_other.
Qed.

Lemma assign_loop_assigns {R} it l :
  ranked rec_seq_num it -> ranked pp_seq_num l -> Forall (fun r => rec_seq_num r ∈ pp_seq_num <$> l) it ->
  assign_loop (R := R) it l = Cont (assigned it <$> l).
Proof.
  intros Hit. revert l. induction Hit as [|r it Hit IH Hr]; intros l Hl Hin.
  { cbn [assign_loop]. f_equal. symmetry. apply list_fmap_id. }
  apply Forall_cons_1 in Hin as [Hrin Hin].
  induction Hl as [|e l Hl IHl He]; [by apply elem_of_nil in Hrin|].
  change (assign_loop (R := R) (r :: it) (e :: l)) with
    (if negb (pp_seq_num e =? rec_seq_num r) then let! rest := assign_loop (R := R) (r :: it) l in Cont (e :: rest)
     else assign_loop it (set_pkt (rec_pkt r) e :: l)).
  assert (Hgt : forall q, q ∈ l -> rank base (pp_seq_num e) < rank base (pp_seq_num q))
    by (intros q Hq; rewrite Forall_forall in He; by apply He).
  destruct (Z.eqb_spec (pp_seq_num e) (rec_seq_num r)) as [E|E]; cbn [negb].
  - rewrite IH.
    + rewrite !fmap_cons, assigned_same by done. do 2 f_equal.
      * apply assigned_none. cbn [set_pkt pp_seq_num]. eapply Forall_impl; [exact Hr|]. cbv beta.
        intros q Hq Eq. rewrite <- Eq, E in Hq. lia.
      * apply list_fmap_ext. intros i q Hq%list_elem_of_lookup_2. symmetry. apply assigned_other.
        specialize (Hgt q Hq). intros Eq. rewrite Eq, E in Hgt. lia.
    + apply SSorted_cons; done.
    + done.
  - assert (Hlt : rank base (pp_seq_num e) < rank base (rec_seq_num r)).
    { rewrite fmap_cons, elem_of_cons in Hrin. destruct Hrin as [?|(q & -> & Hq)%list_elem_of_fmap]; [by rewrite <- H in E|].
      by apply Hgt. }
    assert (Hno : forall q, q ∈ it -> rank base (rec_seq_num r) < rank base (rec_seq_num q))
      by (intros q Hq; rewrite Forall_forall in Hr; by apply Hr).
    rewrite IHl.
    + cbn [flow_bind]. rewrite fmap_cons. do 2 f_equal. symmetry. apply assigned_none.
      apply Forall_cons_2; [done|]. apply Forall_forall. intros q Hq Eq. specialize (Hno q Hq). rewrite <- Eq in Hno. lia.
    + rewrite fmap_cons, elem_of_cons in Hrin. destruct Hrin; [congruence|done].
    + apply Forall_forall. intros q Hq. rewrite Forall_forall in Hin. specialize (Hin q Hq).
      rewrite fmap_cons, elem_of_cons in Hin. destruct Hin as [Eq|]; [|done].
      specialize (Hno q Hq). rewrite Eq in Hno. lia.
Qed.

Lemma ranked_filter {A} (ka : A -> Z) f l : ranked ka l -> ranked ka (List.filter f l).
Proof.
  induction 1 as [|x l Hr IH Hx]; cbn [List.filter]; [apply SSorted_nil|]. destruct (f x); [|done].
  apply SSorted_cons; [done|]. rewrite Forall_forall in *. intros y Hy. apply Hx.
  apply list_elem_of_In in Hy. apply filter_In in Hy as [Hy _]. by apply list_elem_of_In.
Qed.

Lemma assigned_filter rl l e :
  e ∈ l -> assigned (List.filter (has rec_seq_num pp_seq_num l) rl) e = assigned rl e.
Proof.
  intros He. unfold assigned. replace (List.find _ (List.filter _ rl))
    with (List.find (fun r => rec_seq_num r =? pp_seq_num e) rl); [done|].
  induction rl as [|r rl IH]; [done|]. cbn [List.find List.filter].
  destruct (Z.eqb_spec (rec_seq_num r) (pp_seq_num e)) as [E|E].
  - rewrite (proj2 (has_spec _ _ _ _)); [cbn [List.find]; by rewrite E, Z.eqb_refl|].
    rewrite E. by apply list_elem_of_fmap_2.
  - destruct (has _ _ _ r); [|done]. cbn [List.find]. by rewrite (proj2 (Z.eqb_neq _ _) E).
Qed.

Lemma AssignRecoveredPackets_assigns {R} l rl :
  all_in rec_seq_num rl -> all_in pp_seq_num l -> ranked rec_seq_num rl -> ranked pp_seq_num l ->
  AssignRecoveredPackets (R := R) l rl = Cont (assigned rl <$> l).
Proof.
  intros Ha Hb Hra Hrb. unfold AssignRecoveredPackets. rewrite set_intersection_filter by done.
  rewrite assign_loop_assigns; [|by apply ranked_filter|done|].
  - f_equal. apply list_fmap_ext. intros i e He%list_elem_of_lookup_2. by apply assigned_filter.
  - apply Forall_forall. intros r Hr%list_elem_of_In. apply filter_In in Hr as [_ Hr]. by apply has_spec.
Qed.

(** The search for the entry of one packet. *)
Lemma update_covering_assigns r f :
  in_window base (rec_seq_num r) -> all_in pp_seq_num (protected_pkt_list f) ->
  ranked pp_seq_num (protected_pkt_list f) ->
  update_covering r f = with_protected f (assigned [r] <$> protected_pkt_list f).
Proof.
  intros Hw Ha Hr. unfold update_covering.
  assert (H : forall l, all_in pp_seq_num l -> ranked pp_seq_num l ->
    assigned [r] <$> l =
    match l !! lower_bound pp_seq_num l (rec_seq_num r) with
    | Some e => if pp_seq_num e =? rec_seq_num r
                then <[lower_bound pp_seq_num l (rec_seq_num r) := set_pkt (rec_pkt r) e]> l else l
    | None => l
    end).
  { clear f Ha Hr. intros l Ha Hr. induction Hr as [|e l Hr IH He]; [done|].
    apply Forall_cons_1 in Ha as [Hwe Ha]. specialize (IH Ha). cbn [lower_bound].
    rewrite (LessThan_rank base) by done. rewrite fmap_cons.
    destruct (Z.ltb_spec (rank base (pp_seq_num e)) (rank base (rec_seq_num r))).
    - rewrite assigned_other by (intros E; rewrite E in *; lia). rewrite IH. cbn [lookup list_lookup].
      destruct (l !! _) as [e'|]; [|done]. by destruct (pp_seq_num e' =? rec_seq_num r).
    - cbn [lookup list_lookup].
      assert (Hl : assigned [r] <$> l = l).
      { rewrite <- (list_fmap_id l) at 2. apply list_fmap_ext. intros i q Hq%list_elem_of_lookup_2.
        rewrite assigned_other; [done|]. intros E. rewrite Forall_forall in He. specialize (He q Hq).
        rewrite E in He. lia. }
      rewrite Hl. destruct (Z.eqb_spec (pp_seq_num e) (rec_seq_num r)).
      + by rewrite assigned_same.
      + by rewrite assigned_other. }
  rewrite (H (protected_pkt_list f)) by done.
  destruct (_ !! _) as [e|]; [|by destruct f]. destruct (_ =? _); [done|by destruct f].
Qed.
End order.
