(* ===== verification/FecSession.v ===== *)
(** * The invariant of the receiver of error correction

    The media packets that were sent are a predicate [W] of packets with numbers in one
    window.  The invariant says that the receiver knows only sent packets, that its list
    is sorted, and that the packets of error correction are linked to all of them;
    [DecodeFEC] keeps it, and its search for packets to recover ends. *)
From S2P Require Import Prelude Pointwise RtpWire FecTables FecPacket FecEncode FecRecover FecReceive.
From Stdlib Require Import Sorted.
Local Open Scope Z_scope.

(** ** Counting what is missing *)

Lemma count_missing_length pl l n :
  Forall2 entry_ok pl l -> 0 <= n <= 1 ->
  count_missing pl n = Z.min 2 (n + Zlen (missing pl l)).
Proof.
  intros H. revert n. induction H as [|e p pl l _ _ IH]; intros n Hn; cbn [count_missing missing].
  - unfold Zlen. simpl. lia.
  - destruct (pp_pkt e); [by apply IH|]. rewrite Zlen_cons. pose proof (Zlen_nonneg (missing pl l)).
    destruct (Z.ltb_spec 1 (n + 1)); [lia|]. rewrite IH by lia. lia.
Qed.

(** ** The protected packets of a mask *)

Definition entries (s : Z) (has : Z -> bool) (a n : Z) : list ProtectedPacket :=
  (fun j => mkProtected (u16 (s + j)) None) <$> List.filter has (seqZ a n).

Lemma seqZ_snoc n : 0 <= n -> seqZ 0 (n + 1) = seqZ 0 n ++ [n].
Proof. intros. rewrite seqZ_app by lia. done. Qed.

Lemma entries_snoc s has n :
  0 <= n -> entries s has 0 (n + 1)
  = if has n then entries s has 0 n ++ [mkProtected (u16 (s + n)) None] else entries s has 0 n.
Proof.
  intros Hn. unfold entries. rewrite seqZ_snoc, List.filter_app by done. cbn [List.filter].
  destruct (has n); [by rewrite fmap_app|by rewrite app_nil_r].
Qed.

Lemma protected_packets_entries {R} data s nb mask i :
  0 <= nb -> 12 + nb <= Zlen data ->
  (forall b, 0 <= b < nb -> zat data (12 + b) = zat mask (i * nb + b)) ->
  protected_packets (R := R) data s nb = Cont (entries s (mask_has nb mask i) 0 (8 * nb)).
Proof.
  intros Hnb Hl Hd. unfold protected_packets.
  match goal with |- for_up _ _ ?body _ = _ =>
    destruct (for_up_inv (R := R) (fun b l => l = entries s (mask_has nb mask i) 0 (8 * b)) body (Z.to_nat nb) 0 [])
      as (l & -> & ->) end; [done| |by rewrite Z.add_0_l, Z2Nat.id by lia].
  intros b l Hb ->. rewrite Z2Nat.id in Hb by lia. rewrite rd_zat by lia. cbn [flow_bind].
  match goal with |- exists s', for_up _ _ ?body _ = _ /\ _ =>
    destruct (for_up_inv (R := R) (fun c l => l = entries s (mask_has nb mask i) 0 (8 * b + c)) body 8 0
      (entries s (mask_has nb mask i) 0 (8 * b))) as (l & -> & ->) end.
  - by rewrite Z.add_0_r.
  - intros c l Hc ->. rewrite land_bit by lia.
    exists (entries s (mask_has nb mask i) 0 (8 * b + (c + 1))). split; [|done].
    replace (8 * b + (c + 1)) with (8 * b + c + 1) by lia. rewrite entries_snoc by lia.
    replace (mask_has nb mask i (8 * b + c)) with (Z.testbit (zat data (12 + b)) (7 - c)).
    + rewrite Z.shiftl_mul_pow2 by lia. change (2 ^ 3) with 8.
      replace (s + b * 8 + c) with (s + (8 * b + c)) by lia. by destruct (Z.testbit _ _).
    + unfold mask_has. rewrite Hd by lia. by replace ((8 * b + c) / 8) with b by zdm;
        replace ((8 * b + c) mod 8) with c by zdm.
  - eexists. split; [reflexivity|]. f_equal. lia.
Qed.

Lemma entries_picked s has n a media :
  numbered (s + a) media -> 0 <= n -> Zlen media <= n ->
  (forall j, a + Zlen media <= j < a + n -> has j = false) ->
  Forall2 entry_ok (entries s has a n) (picked has a media) /\ Forall (fun e => pp_pkt e = None) (entries s has a n).
Proof.
  revert n a. induction media as [|p media IH]; intros n a Hs Hn Hl Ha; cbn [picked].
  - replace (entries s has a n) with (@nil ProtectedPacket); [done|].
    unfold entries. replace (List.filter has (seqZ a n)) with (@nil Z); [done|].
    change (Zlen (@nil Packet)) with 0 in Ha.
    assert (H : forall j, In j (seqZ a n) -> has j = false)
      by (intros j Hj; apply list_elem_of_In, elem_of_seqZ in Hj; apply Ha; lia).
    clear -H. induction (seqZ a n) as [|x l IH]; [done|]. cbn [List.filter].
    rewrite H by (by left). apply IH. intros j Hj. apply H. by right.
  - destruct Hs as [Hp Hs]. rewrite Zlen_cons in Hl, Ha. pose proof (Zlen_nonneg media).
    destruct (IH (n - 1) (a + 1)) as [H2 HN].
    + by rewrite Z.add_assoc.
    + lia.
    + lia.
    + intros j Hj. apply Ha. lia.
    + unfold entries in *. rewrite (seqZ_cons a n) by lia. cbn [List.filter].
      replace (Z.succ a) with (a + 1) by lia. replace (Z.pred n) with (n - 1) by lia.
      destruct (has a); [|done]. rewrite fmap_cons. split; [constructor; [by split|done]|by apply Forall_cons_2].
Qed.

Section session.
Context (base : Z) (W : Packet -> Prop).
Hypothesis W_window : forall p, W p -> in_window base (seq_of p).
Hypothesis W_inj : forall p q, W p -> W q -> seq_of p = seq_of q -> p = q.

(** A packet that the receiver knows is one that was sent. *)
Definition known (r : RecoveredPacket) : Prop :=
  exists p, W p /\ rec_seq_num r = seq_of p /\ same_packet (rec_pkt r) p.

(** Packets that are protected together. *)
Record group_ok (ssrc : Z) (l_bit : bool) (l : list Packet) : Prop := mkGroupOk {
  grp_sent : Forall W l;
  grp_media : Forall (media_ok (l_ulp_header_size l_bit - 2)) l;
  grp_rtp : Forall (rtp_ok ssrc) l;
  grp_ranked : ranked base seq_of l
}.

(** The state of a packet of error correction in the receiver. *)
Definition fec_good (f : FecPacket) : Prop :=
  exists l_bit l, group_ok (fp_ssrc f) l_bit l /\ protects l_bit l (fp_pkt f) /\
    Forall2 entry_ok (protected_pkt_list f) l.

Definition linked (recovered : list RecoveredPacket) (f : FecPacket) : Prop :=
  forall r e, r ∈ recovered -> e ∈ protected_pkt_list f -> pp_seq_num e = rec_seq_num r -> pp_pkt e <> None.

Record fec_inv (recovered : list RecoveredPacket) (fecs : list FecPacket) : Prop := mkFecInv {
  inv_known : Forall known recovered;
  inv_ranked : ranked base rec_seq_num recovered;
  inv_good : Forall fec_good fecs;
  inv_linked : Forall (linked recovered) fecs
}.

Lemma known_window recovered : Forall known recovered -> all_in base rec_seq_num recovered.
Proof.
  intros H. eapply Forall_impl; [exact H|]. intros r (p & Hp & E & _). cbv beta. rewrite E. by apply W_window.
Qed.

Lemma entries_seqs pl l : Forall2 entry_ok pl l -> pp_seq_num <$> pl = seq_of <$> l.
Proof. induction 1 as [|e p pl l [E _] _ IH]; [done|]. by rewrite !fmap_cons, E, IH. Qed.

Lemma entries_window pl l : Forall W l -> Forall2 entry_ok pl l -> all_in base pp_seq_num pl.
Proof.
  intros HW H. induction H as [|e p pl l [E _] _ IH]; [constructor|].
  apply Forall_cons_1 in HW as [Hp HW]. apply Forall_cons_2; [rewrite E; by apply W_window|by apply IH].
Qed.

Lemma ranked_fmap {A B} (ka : A -> Z) (kb : B -> Z) la lb :
  ka <$> la = kb <$> lb -> ranked base ka la -> ranked base kb lb.
Proof.
  revert lb. induction la as [|x la IH]; intros [|y lb] E H; try done; [by constructor|].
  rewrite !fmap_cons in E. injection E as E1 E2. inversion H as [|? ? Hr Hx]; subst. apply SSorted_cons; [by apply IH|].
  apply Forall_forall. intros z Hz. assert (Hz' : kb z ∈ ka <$> la) by (rewrite E2; by apply list_elem_of_fmap_2).
  apply list_elem_of_fmap in Hz' as (w & E & Hw). rewrite <- E1, E. rewrite Forall_forall in Hx. by apply Hx.
Qed.

Lemma entries_ranked pl l : ranked base seq_of l -> Forall2 entry_ok pl l -> ranked base pp_seq_num pl.
Proof. intros Hr H. eapply ranked_fmap; [symmetry; by apply entries_seqs|done]. Qed.

(** ** Links to known packets *)

Definition link (rl : list RecoveredPacket) (f : FecPacket) : FecPacket :=
  with_protected f (assigned rl <$> protected_pkt_list f).

Lemma assigned_seq rl e : pp_seq_num (assigned rl e) = pp_seq_num e.
Proof. unfold assigned. by destruct (List.find _ rl). Qed.

Lemma assigned_entry rl e p :
  Forall known rl -> W p -> entry_ok e p -> entry_ok (assigned rl e) p.
Proof.
  intros Hk Hp [E Hs]. split; [by rewrite assigned_seq|]. unfold assigned.
  destruct (List.find _ rl) as [r|] eqn:Ef; [|done]. apply find_some in Ef as [Hr%list_elem_of_In Er%Z.eqb_eq].
  rewrite Forall_forall in Hk. destruct (Hk r Hr) as (q & Hq & Eq & Hsame). cbn [set_pkt pp_pkt].
  replace p with q; [done|]. apply W_inj; [done|done|congruence].
Qed.

Lemma link_entries rl pl l :
  Forall known rl -> Forall W l -> Forall2 entry_ok pl l -> Forall2 entry_ok (assigned rl <$> pl) l.
Proof.
  intros Hk HW H. induction H as [|e p pl l He _ IH]; [constructor|]. apply Forall_cons_1 in HW as [Hp HW].
  rewrite fmap_cons. constructor; [by apply assigned_entry|by apply IH].
Qed.

Lemma link_good rl f : Forall known rl -> fec_good f -> fec_good (link rl f).
Proof.
  intros Hk (l_bit & l & Hg & Hp & H). exists l_bit, l. split; [done|]. split; [done|].
  cbn [link with_protected protected_pkt_list]. by apply link_entries; [|apply Hg|].
Qed.

Lemma assigned_links rl r e :
  r ∈ rl -> pp_seq_num e = rec_seq_num r -> pp_pkt (assigned rl e) <> None.
Proof.
  intros Hr E. unfold assigned. destruct (List.find _ rl) as [r'|] eqn:Ef; [done|].
  apply list_elem_of_In in Hr. apply (find_none _ _ Ef) in Hr. apply Z.eqb_neq in Hr. congruence.
Qed.

Lemma assigned_keeps rl e : pp_pkt e <> None -> pp_pkt (assigned rl e) <> None.
Proof. unfold assigned. by destruct (List.find _ rl). Qed.

Lemma link_linked r recovered f : linked recovered f -> linked (r :: recovered) (link [r] f).
Proof.
  intros H q e' Hq He' E. cbn [link with_protected protected_pkt_list] in He'.
  apply list_elem_of_fmap in He' as (e & -> & He). rewrite assigned_seq in E.
  apply elem_of_cons in Hq as [->|Hq]; [eapply assigned_links; [by apply list_elem_of_singleton|done]|].
  by eapply assigned_keeps, H.
Qed.

Lemma linked_incl recovered recovered' f :
  (forall r, r ∈ recovered' -> r ∈ recovered) -> linked recovered f -> linked recovered' f.
Proof. intros Hi H r e Hr. apply H. by apply Hi. Qed.

(** A new packet is linked by all packets of error correction. *)
Lemma UpdateCovering_link r fecs :
  known r -> Forall fec_good fecs -> UpdateCoveringFECPackets r fecs = link [r] <$> fecs.
Proof.
  intros Hr Hg. apply list_fmap_ext. intros i f Hf%list_elem_of_lookup_2.
  rewrite Forall_forall in Hg. destruct (Hg f Hf) as (l_bit & l & [G1 _ _ G4] & _ & H).
  apply (update_covering_assigns base); [|by eapply entries_window|by eapply entries_ranked].
  destruct Hr as (p & Hp & -> & _). by apply W_window.
Qed.

(** A known packet that is new joins the lists. *)
Lemma join_inv r recovered fecs :
  fec_inv recovered fecs -> known r -> rec_seq_num r ∉ rec_seq_num <$> recovered ->
  fec_inv (list_sort rec_seq_num (recovered ++ [r])) (UpdateCoveringFECPackets r fecs).
Proof.
  intros [I1 I2 I3 I4] Hr Hn. rewrite UpdateCovering_link by done.
  assert (Hp : list_sort rec_seq_num (recovered ++ [r]) ≡ₚ r :: recovered).
  { rewrite list_sort_perm. symmetry. apply Permutation_cons_append. }
  assert (Hk : Forall known (recovered ++ [r])) by (apply Forall_app; split; [done|by apply Forall_singleton]).
  split.
  - rewrite Hp. by apply Forall_cons_2.
  - apply list_sort_ranked; [by apply known_window|]. rewrite fmap_app. apply NoDup_app.
    split; [by eapply ranked_nodup|]. split; [|apply NoDup_singleton].
    intros s Hs Hs'. apply list_elem_of_singleton in Hs'. by subst.
  - apply Forall_fmap. eapply Forall_impl; [exact I3|]. intros f Hf. apply link_good; [|done]. by apply Forall_singleton.
  - apply Forall_fmap. eapply Forall_impl; [exact I4|]. intros f Hf. cbv beta.
    eapply linked_incl; [|by apply link_linked]. intros q. by rewrite Hp.
Qed.

(** ** Received packets *)

(** [f] is a packet of error correction for the packets [l], those in row [i] of a mask
    for the frame [media]. *)
Definition fec_sent (ssrc : Z) (f : Packet) (l_bit : bool) (l : list Packet) : Prop :=
  exists media mask i s,
    same_packet f (fec_of l_bit media mask i)
    /\ l = picked (mask_has (l_mask_bytes l_bit) mask i) 0 media
    /\ numbered s media /\ Zlen media <= 8 * l_mask_bytes l_bit
    /\ Forall W media /\ Forall (media_ok (l_ulp_header_size l_bit - 2)) media /\ Forall (rtp_ok ssrc) media
    /\ (exists j, 0 <= j < Zlen media /\ mask_has (l_mask_bytes l_bit) mask i j = true)
    /\ (forall j, Zlen media <= j < 8 * l_mask_bytes l_bit -> mask_has (l_mask_bytes l_bit) mask i j = false).

(** What may arrive: a media packet that was sent, or a packet of error correction for
    packets that were sent. *)
Definition rx_ok (rx : ReceivedPacket) : Prop :=
  if rx_is_fec rx then exists l_bit l, fec_sent (rx_ssrc rx) (rx_pkt rx) l_bit l
  else exists p, W p /\ rx_seq_num rx = seq_of p /\ same_packet (rx_pkt rx) p.

Lemma rank_add s d :
  0 <= d -> rank base (u16 s) + d < 65536 -> rank base (u16 (s + d)) = rank base (u16 s) + d.
Proof. unfold rank, u16. intros. zdm. Qed.

Lemma numbered_ranked s media :
  numbered s media -> Forall W media -> Zlen media <= 48 -> ranked base seq_of media.
Proof.
  revert s. induction media as [|p media IH]; intros s Hs HW Hl; [constructor|].
  rewrite Zlen_cons in Hl. destruct Hs as [Hp Hs]. apply Forall_cons_1 in HW as [Hwp HW].
  apply SSorted_cons; [apply (IH (s + 1)); done || lia|]. apply Forall_forall. intros q Hq.
  apply list_elem_of_lookup in Hq as [n Hn]. assert (Hn' := lookup_lt_Some _ _ _ Hn).
  assert (Eq : seq_of q = u16 (s + (1 + Z.of_nat n))).
  { rewrite Z.add_assoc, <- (numbered_zat (s + 1) media) by (done || unfold Zlen in *; lia).
    f_equal. unfold zat. rewrite Nat2Z.id. symmetry. by apply list_lookup_total_correct. }
  rewrite Eq, Hp. destruct (W_window p Hwp) as [_ Hr]. rewrite Hp in Hr.
  unfold Zlen in *. rewrite rank_add; lia.
Qed.

Lemma picked_in has n media p : p ∈ picked has n media -> p ∈ media.
Proof.
  revert n. induction media as [|q media IH]; intros n; cbn [picked]; [done|].
  destruct (has n); rewrite ?elem_of_cons; [intros [?|H]|intros H]; eauto.
Qed.

Lemma picked_ranked has n media : ranked base seq_of media -> ranked base seq_of (picked has n media).
Proof.
  intros H. revert n. induction H as [|p media Hr IH Hp]; intros n; cbn [picked]; [constructor|].
  destruct (has n); [|apply IH]. apply SSorted_cons; [apply IH|]. rewrite Forall_forall in *.
  intros q Hq. by eapply Hp, picked_in.
Qed.

Lemma fec_sent_group ssrc f l_bit l :
  fec_sent ssrc f l_bit l -> group_ok ssrc l_bit l /\ protects l_bit l f /\ l <> [].
Proof.
  intros (media & mask & i & s & Hf & -> & Hs & Hl & HW & Hm & Hr & (j & Hj & Hh) & _).
  destruct (l_sizes l_bit) as [_ Hnb]. split; [split|split].
  - by apply picked_Forall.
  - by apply picked_Forall.
  - by apply picked_Forall.
  - apply picked_ranked, (numbered_ranked s); [done|done|lia].
  - by apply fec_protects.
  - by eapply picked_cons.
Qed.

(** What the receiver reads from it. *)
Lemma fec_sent_parsed {R} ssrc f l_bit l :
  fec_sent ssrc f l_bit l ->
  exists sb b pl, BufferToUWord16 (R := R) (pkt_data f) 2 = Cont sb /\ rd (R := R) (pkt_data f) 0 = Cont b
    /\ negb (Z.land b 64 =? 0) = l_bit
    /\ protected_packets (R := R) (pkt_data f) sb (l_mask_bytes l_bit) = Cont pl
    /\ Forall2 entry_ok pl l /\ Forall (fun e => pp_pkt e = None) pl.
Proof.
  intros Hf. destruct (fec_sent_group _ _ _ _ Hf) as ([_ Gm _ _] & Hp & Hne).
  destruct (longest_bounds _ l Gm) as [[_ Hmax] Hmin]. specialize (Hmin Hne).
  destruct (l_sizes l_bit) as [Hu Hnb].
  destruct Hf as (media & mask & i & s & (Hfl & Hfd & Hfj) & -> & Hs & Hl & HW & Hm & Hr & (j & Hj & Hh) & Hab).
  set (l := picked (mask_has (l_mask_bytes l_bit) mask i) 0 media) in *.
  cbn [fec_of pkt_length pkt_data] in Hfj. fold l in Hfj. unfold IP_PACKET_SIZE in *.
  assert (HF : forall j, 0 <= j < 12 + l_mask_bytes l_bit ->
    zat (pkt_data f) j = fec_byte l_bit (zat media 0) l mask i j).
  { intros q Hq. rewrite Hfj by lia. apply zat_fmap_seqZ. lia. }
  exists (u16 s). eexists. exists (entries (u16 s) (mask_has (l_mask_bytes l_bit) mask i) 0 (8 * l_mask_bytes l_bit)).
  split; [|split; [apply rd_zat; lia|split; [|split]]].
  - unfold BufferToUWord16. rewrite !rd_zat by lia. cbn [flow_bind]. rewrite !HF by lia.
    unfold fec_byte. change (2 =? 0) with false. change (2 + 1 =? 0) with false.
    change (in_span 2 2 2) with true. change (in_span 2 2 (2 + 1)) with true. cbv iota.
    assert (E := numbered_zat s media 0 Hs ltac:(lia)). rewrite Z.add_0_r in E. by rewrite <- E.
  - rewrite HF by lia. unfold fec_byte. change (0 =? 0) with true. cbv iota. apply fec_l_bit.
  - apply protected_packets_entries; [lia|lia|]. intros b Hb. rewrite HF by lia. unfold fec_byte.
    spans. f_equal. lia.
  - apply entries_picked; [|lia|lia|intros; apply Hab; lia].
    rewrite Z.add_0_r. clear -Hs. revert s Hs.
    assert (H : forall m s s', numbered s m -> u16 s' = u16 s -> numbered s' m).
    { induction m as [|p m IH]; [done|]. intros s s' [Hp Hs] E. split; [congruence|].
      apply (IH (s + 1)); [done|]. unfold u16 in *. zdm. }
    intros s Hs. eapply H; [done|]. apply u16_id, u16_range.
Qed.

(** ** The operations keep the invariant *)

Lemma inv_fewer recovered fecs fecs' :
  (forall f, f ∈ fecs' -> f ∈ fecs) -> fec_inv recovered fecs -> fec_inv recovered fecs'.
Proof.
  intros Hi [I1 I2 I3 I4]. rewrite Forall_forall in I3, I4.
  split; [done|done| |]; apply Forall_forall; intros f Hf; auto.
Qed.

Lemma ranked_drop {A} (ka : A -> Z) n l : ranked base ka l -> ranked base ka (drop n l).
Proof.
  revert n. induction l as [|x l IH]; intros [|n] H; [done|done|done|]. cbn [drop].
  inversion H; subst. by apply IH.
Qed.

Lemma inv_discard recovered fecs : fec_inv recovered fecs -> fec_inv (DiscardOldPackets recovered) fecs.
Proof.
  intros [I1 I2 I3 I4]. unfold DiscardOldPackets.
  set (n := (length recovered - Z.to_nat kMaxMediaPackets)%nat). clearbody n.
  assert (Hi : forall r, r ∈ drop n recovered -> r ∈ recovered)
    by (intros r Hr; rewrite <- (take_drop n recovered); apply elem_of_app; by right).
  split; [by apply Forall_drop|by apply ranked_drop|done|].
  eapply Forall_impl; [exact I4|]. intros f. cbv beta. by apply linked_incl.
Qed.

Lemma discard_far_sub rx self f :
  f ∈ fec_packet_list_ (discard_far rx self) -> f ∈ fec_packet_list_ self.
Proof.
  unfold discard_far. destruct (fec_packet_list_ self) as [|g l] eqn:E; [by rewrite E|].
  destruct (_ <? _); cbn [fec_packet_list_]; rewrite ?E; [rewrite elem_of_cons; auto|done].
Qed.

(** The number of a packet of error correction, and those that it protects. *)
Definition sig (f : FecPacket) : Z * list Z := (fp_seq_num f, pp_seq_num <$> protected_pkt_list f).

Lemma link_sig rl f : sig (link rl f) = sig f.
Proof.
  unfold sig, link, with_protected. cbn [fp_seq_num protected_pkt_list]. f_equal.
  rewrite <- list_fmap_compose. apply list_fmap_ext. intros. apply assigned_seq.
Qed.

(** A link is only to a known packet. *)
Definition exact (recovered : list RecoveredPacket) (f : FecPacket) : Prop :=
  forall e, e ∈ protected_pkt_list f -> pp_pkt e <> None -> pp_seq_num e ∈ rec_seq_num <$> recovered.

Lemma assigned_exact rl e :
  pp_pkt e = None -> pp_pkt (assigned rl e) <> None -> pp_seq_num e ∈ rec_seq_num <$> rl.
Proof.
  intros E. unfold assigned. destruct (List.find _ rl) as [r|] eqn:Ef; [|by rewrite E].
  apply find_some in Ef as [Hr%list_elem_of_In Er%Z.eqb_eq]. intros _. rewrite <- Er. by apply list_elem_of_fmap_2.
Qed.

Lemma link_exact r recovered recovered' f :
  (forall s, s ∈ rec_seq_num <$> recovered' <-> s = rec_seq_num r \/ s ∈ rec_seq_num <$> recovered) ->
  exact recovered f -> exact recovered' (link [r] f).
Proof.
  intros Hs H e' He' Hp. cbn [link with_protected protected_pkt_list] in He'.
  apply list_elem_of_fmap in He' as (e & -> & He). rewrite assigned_seq. apply Hs.
  destruct (pp_pkt e) eqn:E; [right; apply H; [done|by rewrite E]|].
  left. apply (assigned_exact [r]) in Hp; [|done]. by apply list_elem_of_singleton in Hp.
Qed.

(** What joins the lists. *)
Lemma join_seqs r recovered s :
  s ∈ rec_seq_num <$> list_sort rec_seq_num (recovered ++ [r]) <-> s = rec_seq_num r \/ s ∈ rec_seq_num <$> recovered.
Proof.
  rewrite list_sort_perm, fmap_app, elem_of_app. change (rec_seq_num <$> [r]) with [rec_seq_num r].
  rewrite list_elem_of_singleton. tauto.
Qed.

Lemma join_sigs r fecs :
  known r -> Forall fec_good fecs -> sig <$> UpdateCoveringFECPackets r fecs = sig <$> fecs.
Proof.
  intros. rewrite UpdateCovering_link by done. rewrite <- list_fmap_compose.
  apply list_fmap_ext. intros. apply link_sig.
Qed.

Lemma join_exact r recovered fecs :
  known r -> Forall fec_good fecs -> Forall (exact recovered) fecs ->
  Forall (exact (list_sort rec_seq_num (recovered ++ [r]))) (UpdateCoveringFECPackets r fecs).
Proof.
  intros Hr Hg H. rewrite UpdateCovering_link by done. apply Forall_fmap. eapply Forall_impl; [exact H|].
  intros f Hf. cbv beta. eapply link_exact; [|done]. intros s. apply join_seqs.
Qed.

Lemma InsertMediaPacket_inv rx recovered self :
  rx_is_fec rx = false -> rx_ok rx -> fec_inv recovered (fec_packet_list_ self) ->
  let '(recovered', self') := InsertMediaPacket rx recovered self in
  fec_inv recovered' (fec_packet_list_ self')
  /\ (forall s, s ∈ rec_seq_num <$> recovered' <-> s = rx_seq_num rx \/ s ∈ rec_seq_num <$> recovered)
  /\ sig <$> fec_packet_list_ self' = sig <$> fec_packet_list_ self
  /\ (Forall (exact recovered) (fec_packet_list_ self) -> Forall (exact recovered') (fec_packet_list_ self')).
Proof.
  intros Hm Hok Hinv. unfold rx_ok in Hok. rewrite Hm in Hok. destruct Hok as (p & Hp & Es & Hsame).
  unfold InsertMediaPacket. destruct (existsb _ recovered) eqn:Ex.
  - apply existsb_exists in Ex as (r & Hr%list_elem_of_In & E%Z.eqb_eq). split; [done|]. split; [|done].
    intros s. split; [auto|]. intros [->|]; [rewrite E; by apply list_elem_of_fmap_2|done].
  - set (r := mkRecovered (rx_seq_num rx) false true [0; 0] (rx_pkt rx)).
    assert (Hk : known r) by (by exists p). cbn [fec_packet_list_]. split; [|split; [|split]].
    + apply join_inv; [done|done|]. intros (q & E & Hq)%list_elem_of_fmap.
      apply not_true_iff_false in Ex. apply Ex, existsb_exists. exists q. rewrite <- list_elem_of_In.
      split; [done|]. apply Z.eqb_eq. exact E.
    + intros s. apply join_seqs.
    + apply join_sigs; [done|apply Hinv].
    + apply join_exact; [done|apply Hinv].
Qed.

(** A new packet of error correction, linked to what is known. *)
Lemma new_fec rx recovered l_bit l pl :
  fec_sent (rx_ssrc rx) (rx_pkt rx) l_bit l -> Forall known recovered ->
  Forall2 entry_ok pl l -> Forall (fun e => pp_pkt e = None) pl ->
  let f := mkFecPacket (rx_seq_num rx) (assigned recovered <$> pl) (rx_ssrc rx) (rx_pkt rx) in
  fec_good f /\ linked recovered f /\ exact recovered f /\ sig f = (rx_seq_num rx, seq_of <$> l).
Proof.
  intros Hf Hk H2 Hn. destruct (fec_sent_group _ _ _ _ Hf) as (Hg & Hp & _). cbv zeta. split; [|split; [|split]].
  - exists l_bit, l. split; [done|]. split; [done|]. apply link_entries; [done|apply Hg|done].
  - intros r e' Hr He' E. cbn [protected_pkt_list] in He'. apply list_elem_of_fmap in He' as (e & -> & He).
    rewrite assigned_seq in E. by eapply assigned_links.
  - intros e' He' Hp'. cbn [protected_pkt_list] in He'. apply list_elem_of_fmap in He' as (e & -> & He).
    rewrite assigned_seq. apply assigned_exact; [|done]. rewrite Forall_forall in Hn. by apply Hn.
  - unfold sig. cbn [fp_seq_num protected_pkt_list]. f_equal. rewrite <- (entries_seqs pl l) by done.
    rewrite <- list_fmap_compose. apply list_fmap_ext. intros. apply assigned_seq.
Qed.

Lemma InsertFECPacket_inv {R} rx recovered self :
  rx_is_fec rx = true -> rx_ok rx -> fec_inv recovered (fec_packet_list_ self) ->
  gives (InsertFECPacket (R := R) rx recovered self) (fun self' =>
    fec_inv recovered (fec_packet_list_ self') /\
    ((rx_seq_num rx ∈ fp_seq_num <$> fec_packet_list_ self /\ fec_packet_list_ self' = fec_packet_list_ self)
     \/ ((rx_seq_num rx ∉ fp_seq_num <$> fec_packet_list_ self) /\
         exists f fecs l_bit l, fec_sent (rx_ssrc rx) (rx_pkt rx) l_bit l
           /\ sig f = (rx_seq_num rx, seq_of <$> l) /\ exact recovered f
           /\ fecs ≡ₚ f :: fec_packet_list_ self
           /\ fec_packet_list_ self' = if kMaxFecPackets <? Zlen fecs then tail fecs else fecs))).
Proof.
  intros Hm Hok Hinv. unfold rx_ok in Hok. rewrite Hm in Hok. destruct Hok as (l_bit & l & Hf).
  unfold InsertFECPacket. cbn [fec_packet_list_]. destruct (existsb _ _) eqn:Ex.
  { apply gives_Cont. split; [done|]. left. split; [|done].
    apply existsb_exists in Ex as (f & Hr%list_elem_of_In & E%Z.eqb_eq). rewrite E. by apply list_elem_of_fmap_2. }
  assert (Hnew : rx_seq_num rx ∉ fp_seq_num <$> fec_packet_list_ self).
  { intros (f & E & Hin)%list_elem_of_fmap. apply not_true_iff_false in Ex. apply Ex, existsb_exists.
    exists f. rewrite <- list_elem_of_In. by rewrite Z.eqb_eq. }
  destruct (fec_sent_parsed (R := R) _ _ _ _ Hf) as (sb & b & pl & -> & -> & Hb & Hpl & H2 & Hn).
  cbn [flow_bind]. rewrite Hb, Hpl. cbn [flow_bind].
  destruct (fec_sent_group _ _ _ _ Hf) as ([Gw _ _ Gr] & _ & Hne).
  assert (Hpl0 : pl <> []) by (intros ->; by inversion H2; subst).
  replace (match pl with [] => _ | _ :: _ => _ end) with
    (let! l := AssignRecoveredPackets (R := R) pl recovered in
     let fec_packet := mkFecPacket (rx_seq_num rx) l (rx_ssrc rx) (rx_pkt rx) in
     let fecs := list_sort fp_seq_num (fec_packet_list_ self ++ [fec_packet]) in
     Cont (mkDecoder (if kMaxFecPackets <? Zlen fecs then tail fecs else fecs) true)) by (by destruct pl).
  rewrite (AssignRecoveredPackets_assigns base);
    [|by apply known_window, Hinv|by eapply entries_window|apply Hinv|by eapply entries_ranked].
  cbn [flow_bind].
  destruct (new_fec rx recovered l_bit l pl) as (N1 & N2 & N3 & N4); [done|apply Hinv|done|done|].
  set (f := mkFecPacket _ _ _ _) in *. set (fecs := list_sort fp_seq_num _).
  assert (Hperm : fecs ≡ₚ f :: fec_packet_list_ self)
    by (subst fecs; rewrite list_sort_perm; symmetry; apply Permutation_cons_append).
  apply gives_Cont. cbn [fec_packet_list_]. split.
  - apply (inv_fewer _ fecs).
    + intros g. destruct (_ <? _); [|done]. destruct fecs; [done|]. cbn [tail]. rewrite elem_of_cons. auto.
    + destruct Hinv as [I1 I2 I3 I4]. split; [done|done|rewrite Hperm; by apply Forall_cons_2..].
  - right. split; [done|]. by exists f, fecs, l_bit, l.
Qed.

Lemma insert_packets_inv {R} rxs recovered self :
  Forall rx_ok rxs -> fec_inv recovered (fec_packet_list_ self) ->
  gives (insert_packets (R := R) rxs recovered self)
    (fun st => fec_inv (fst st) (fec_packet_list_ (snd st))).
Proof.
  intros H. revert recovered self. induction H as [|rx rxs Hrx _ IH]; intros recovered self Hinv; cbn [insert_packets].
  - by apply gives_Cont.
  - assert (Hinv' : fec_inv recovered (fec_packet_list_ (discard_far rx self)))
      by (eapply inv_fewer; [apply discard_far_sub|done]).
    destruct (rx_is_fec rx) eqn:E.
    + eapply gives_bind; [by apply InsertFECPacket_inv|]. intros self' [Hs _]. by apply IH.
    + assert (Hi := InsertMediaPacket_inv rx recovered (discard_far rx self) E Hrx Hinv').
      destruct (InsertMediaPacket _ _ _) as [recovered' self']. apply IH, Hi.
Qed.

(** ** The search for packets to recover *)

(** One turn that changes the lists. *)
Inductive recovery {R : Type} : list FecPacket * list RecoveredPacket -> list FecPacket * list RecoveredPacket -> Prop :=
| recover_one i f r fecs recovered :
    fecs !! i = Some f -> NumCoveredPacketsMissing f = 1 -> RecoverPacket (R := R) f 0 = Cont r ->
    recovery (fecs, recovered)
      (delete i (UpdateCoveringFECPackets r fecs),
       DiscardOldPackets (list_sort rec_seq_num (recovered ++ [r])))
| discard_done i f fecs recovered :
    fecs !! i = Some f -> NumCoveredPacketsMissing f = 0 ->
    recovery (fecs, recovered) (delete i fecs, recovered).

(** Nothing can be recovered or discarded. *)
Definition settled (fecs : list FecPacket) : Prop := Forall (fun f => 2 <= NumCoveredPacketsMissing f) fecs.

Lemma NumCovered_missing f l :
  Forall2 entry_ok (protected_pkt_list f) l ->
  NumCoveredPacketsMissing f = Z.min 2 (Zlen (missing (protected_pkt_list f) l)).
Proof. intros H. unfold NumCoveredPacketsMissing. by rewrite (count_missing_length _ l) by (done || lia). Qed.

Lemma missing_entry pl l L :
  Forall2 entry_ok pl l -> L ∈ missing pl l -> exists e, e ∈ pl /\ pp_pkt e = None /\ pp_seq_num e = seq_of L.
Proof.
  induction 1 as [|e p pl l [E _] _ IH]; cbn [missing]; [by intros ?%elem_of_nil|].
  destruct (pp_pkt e) eqn:Ee.
  - intros HL. destruct (IH HL) as (e' & ? & ?). exists e'. by rewrite elem_of_cons; auto.
  - intros [->|HL]%elem_of_cons; [exists e; by rewrite elem_of_cons; auto|].
    destruct (IH HL) as (e' & ? & ?). exists e'. by rewrite elem_of_cons; auto.
Qed.

(** With one packet missing, it is recovered, and it is new. *)
Lemma good_recovers {R} recovered f :
  fec_good f -> linked recovered f -> NumCoveredPacketsMissing f = 1 ->
  exists r e, RecoverPacket (R := R) f 0 = Cont r /\ known r /\ (rec_seq_num r ∉ rec_seq_num <$> recovered)
    /\ e ∈ protected_pkt_list f /\ pp_pkt e = None /\ pp_seq_num e = rec_seq_num r
    /\ forall e', e' ∈ protected_pkt_list f -> pp_seq_num e' <> rec_seq_num r -> pp_pkt e' <> None.
Proof.
  intros (l_bit & l & [Gw Gm Gr Gk] & Hp & H2) Hl H1. rewrite (NumCovered_missing f l) in H1 by done.
  destruct (missing (protected_pkt_list f) l) as [|L [|? ?]] eqn:EL;
    [unfold Zlen in H1; simpl in H1; lia| |rewrite !Zlen_cons in H1; pose proof (Zlen_nonneg l0); lia].
  assert (HW := missing_Forall _ (protected_pkt_list f) l Gw). rewrite EL in HW. apply Forall_cons_1 in HW as [HW _].
  assert (HM := missing_Forall _ (protected_pkt_list f) l Gm). rewrite EL in HM. apply Forall_cons_1 in HM as [HM _].
  assert (HR := missing_Forall _ (protected_pkt_list f) l Gr). rewrite EL in HR. apply Forall_cons_1 in HR as [HR _].
  destruct (missing_entry _ l L H2) as (e & He & Hen & Hes); [rewrite EL; by apply list_elem_of_singleton|].
  eexists. exists e. split; [by apply (RecoverPacket_padded l_bit l f L)|]. cbn [rec_seq_num]. split; [|split; [|split; [done|split; [done|split; [done|]]]]].
  - exists L. split; [done|]. split; [done|]. apply padded_same. destruct HM as [? ? ?].
    destruct (l_sizes l_bit). lia.
  - intros (r & E & Hr)%list_elem_of_fmap. apply (Hl r e Hr He); [congruence|done].
  - clear -H2 EL. intros e' He' Hne Hnone. assert (Hin : exists p, p ∈ missing (protected_pkt_list f) l /\ seq_of p = pp_seq_num e').
    { clear EL. induction H2 as [|x p pl l [E _] _ IH]; [by apply elem_of_nil in He'|]. cbn [missing].
      apply elem_of_cons in He' as [<-|He'].
      - rewrite Hnone. exists p. rewrite elem_of_cons. auto.
      - destruct (IH He') as (q & Hq & Eq). destruct (pp_pkt x); exists q; rewrite ?elem_of_cons; auto. }
    destruct Hin as (p & Hp & E). rewrite EL, list_elem_of_singleton in Hp. subst p. congruence.
Qed.

Lemma delete_in {A} i (l : list A) x : x ∈ delete i l -> x ∈ l.
Proof. intros H. eapply elem_of_submseteq; [exact H|]. apply sublist_submseteq, sublist_delete. Qed.

Lemma good_at recovered fecs i f :
  fec_inv recovered fecs -> fecs !! i = Some f -> fec_good f /\ linked recovered f.
Proof.
  intros [_ _ I3 I4] Hi. split; [by eapply Forall_lookup_1 in I3|by eapply Forall_lookup_1 in I4].
Qed.

Lemma recovery_inv {R} st st' :
  recovery (R := R) st st' -> fec_inv (snd st) (fst st) -> fec_inv (snd st') (fst st').
Proof.
  intros [i f r fecs recovered Hi H1 Hr|i f fecs recovered Hi H0] Hinv; cbn [fst snd] in *.
  - destruct (good_at _ _ _ _ Hinv Hi) as [Hg Hl].
    destruct (good_recovers (R := R) _ _ Hg Hl H1) as (r' & e & Er & Hk & Hn & _). rewrite Hr in Er. injection Er as <-.
    apply inv_discard. eapply inv_fewer; [intros g; apply delete_in|]. by apply join_inv.
  - eapply inv_fewer; [intros g; apply delete_in|done].
Qed.

Lemma NumCovered_cases f : fec_good f ->
  NumCoveredPacketsMissing f = 0 \/ NumCoveredPacketsMissing f = 1 \/ NumCoveredPacketsMissing f = 2.
Proof.
  intros (l_bit & l & _ & _ & H). rewrite (NumCovered_missing f l) by done.
  pose proof (Zlen_nonneg (missing (protected_pkt_list f) l)). lia.
Qed.

Lemma UpdateCovering_length r fecs : length (UpdateCoveringFECPackets r fecs) = length fecs.
Proof. apply length_fmap. Qed.

(** The search ends, after turns of [recovery], with nothing left to do. *)
Lemma recover_all_settles {R} fuel pos fecs recovered :
  fec_inv recovered fecs ->
  (length fecs * (length fecs + 1) + (length fecs - pos) < fuel)%nat -> (pos <= length fecs)%nat ->
  (forall i f, (i < pos)%nat -> fecs !! i = Some f -> 2 <= NumCoveredPacketsMissing f) ->
  exists fecs' recovered', recover_all (R := R) fuel pos fecs recovered = Cont (fecs', recovered')
    /\ rtc (recovery (R := R)) (fecs, recovered) (fecs', recovered') /\ settled fecs'.
Proof.
  revert pos fecs recovered. induction fuel as [|fuel IH]; intros pos fecs recovered Hinv Hfuel Hpos Hdone; [lia|].
  cbn [recover_all]. destruct (fecs !! pos) as [f|] eqn:Ef.
  2:{ exists fecs, recovered. split; [done|]. split; [constructor|]. apply Forall_lookup_2. intros i f Hi.
      apply (Hdone i f); [|done]. apply lookup_ge_None_1 in Ef. apply lookup_lt_Some in Hi. lia. }
  assert (Hlt := lookup_lt_Some _ _ _ Ef). destruct (good_at _ _ _ _ Hinv Ef) as [Hg Hl].
  destruct (Z.eqb_spec (NumCoveredPacketsMissing f) 1) as [H1|H1]; [|destruct (Z.eqb_spec (NumCoveredPacketsMissing f) 0) as [H0|H0]].
  - destruct (good_recovers (R := R) _ _ Hg Hl H1) as (r & e & Er & _). rewrite Er. cbn [flow_bind].
    assert (Hstep : recovery (R := R) (fecs, recovered) _) by (by eapply recover_one).
    assert (Hinv' := recovery_inv _ _ Hstep Hinv). cbn [fst snd] in Hinv'.
    assert (Hlen : length (delete pos (UpdateCoveringFECPackets r fecs)) = (length fecs - 1)%nat).
    { rewrite length_delete by (apply lookup_lt_is_Some_2; by rewrite UpdateCovering_length).
      rewrite UpdateCovering_length. lia. }
    destruct (IH 0%nat _ _ Hinv') as (fecs' & recovered' & E & Hr & Hs); [rewrite Hlen; nia|lia|intros; lia|].
    exists fecs', recovered'. split; [done|]. split; [by eapply rtc_l|done].
  - assert (Hstep : recovery (R := R) (fecs, recovered) _) by (by eapply discard_done).
    assert (Hinv' := recovery_inv _ _ Hstep Hinv). cbn [fst snd] in Hinv'.
    assert (Hlen : length (delete pos fecs) = (length fecs - 1)%nat) by (by apply length_delete).
    destruct (IH pos _ _ Hinv') as (fecs' & recovered' & E & Hr & Hs); [rewrite Hlen; nia|rewrite Hlen; lia| |].
    + intros i g Hi Hg'. apply (Hdone i g); [done|]. by rewrite list_lookup_delete_lt in Hg'.
    + exists fecs', recovered'. split; [done|]. split; [by eapply rtc_l|done].
  - destruct (NumCovered_cases f Hg) as [?|[?|H2]]; [lia|lia|].
    apply IH; [done|lia|lia|]. intros i g Hi Hg'. destruct (decide (i = pos)) as [->|].
    + rewrite Ef in Hg'. injection Hg' as <-. lia.
    + apply (Hdone i g); [lia|done].
Qed.

Lemma rtc_recovery_inv {R} st st' :
  rtc (recovery (R := R)) st st' -> fec_inv (snd st) (fst st) -> fec_inv (snd st') (fst st').
Proof. induction 1 as [|? ? ? H _ IH]; [done|]. intros Hinv. by eapply IH, recovery_inv. Qed.

(** ** Sessions *)

Lemma AttemptRecover_reaches {R} recovered self :
  fec_inv recovered (fec_packet_list_ self) ->
  exists recovered' fecs',
    AttemptRecover (R := R) recovered self = Cont (recovered', mkDecoder fecs' (fec_packet_received_ self))
    /\ rtc (recovery (R := R)) (fec_packet_list_ self, recovered) (fecs', recovered') /\ settled fecs'
    /\ fec_inv recovered' fecs'.
Proof.
  intros Hinv. unfold AttemptRecover.
  destruct (recover_all_settles (R := R) ((length (fec_packet_list_ self) + 1) * (length (fec_packet_list_ self) + 1)) 0
    (fec_packet_list_ self) recovered Hinv) as (fecs' & recovered' & -> & Hr & Hs); [nia|lia|intros; lia|].
  cbn [flow_bind]. exists recovered', fecs'. split; [done|]. split; [done|]. split; [done|].
  exact (rtc_recovery_inv _ _ Hr Hinv).
Qed.

(** The lists never grow over their limits. *)
Definition within_limits (recovered : list RecoveredPacket) (fecs : list FecPacket) : Prop :=
  Zlen recovered <= kMaxMediaPackets /\ Zlen fecs <= kMaxFecPackets.

Lemma DiscardOld_limit recovered : Zlen (DiscardOldPackets recovered) <= kMaxMediaPackets.
Proof. unfold DiscardOldPackets, Zlen, kMaxMediaPackets. rewrite length_drop. lia. Qed.

Lemma insert_packets_fecs {R} rxs recovered self :
  Forall rx_ok rxs -> fec_inv recovered (fec_packet_list_ self) -> Zlen (fec_packet_list_ self) <= kMaxFecPackets ->
  gives (insert_packets (R := R) rxs recovered self)
    (fun st => fec_inv (fst st) (fec_packet_list_ (snd st)) /\ Zlen (fec_packet_list_ (snd st)) <= kMaxFecPackets).
Proof.
  intros H. revert recovered self. induction H as [|rx rxs Hrx _ IH]; intros recovered self Hinv Hlim; cbn [insert_packets].
  - by apply gives_Cont.
  - assert (Hinv' : fec_inv recovered (fec_packet_list_ (discard_far rx self)))
      by (eapply inv_fewer; [apply discard_far_sub|done]).
    assert (Hlim' : Zlen (fec_packet_list_ (discard_far rx self)) <= kMaxFecPackets).
    { unfold discard_far. destruct (fec_packet_list_ self) as [|g l] eqn:El; [by rewrite El|].
      destruct (_ <? _); cbn [fec_packet_list_]; [|by rewrite El]. rewrite Zlen_cons in Hlim. lia. }
    destruct (rx_is_fec rx) eqn:E.
    + eapply gives_bind; [by apply InsertFECPacket_inv|]. intros self' [Hs Hc]. apply IH; [done|].
      destruct Hc as [[_ ->]|(_ & f & fecs & _ & _ & _ & _ & _ & Hp & ->)]; [done|].
      apply Permutation_length in Hp. unfold kMaxFecPackets, kMaxMediaPackets in *.
      destruct (Z.ltb_spec 48 (Zlen fecs)); [|lia]. unfold Zlen in *. simpl in Hp. destruct fecs; simpl in *; lia.
    + assert (Hi := InsertMediaPacket_inv rx recovered (discard_far rx self) E Hrx Hinv').
      destruct (InsertMediaPacket _ _ _) as [recovered' self']. destruct Hi as (Hi & _ & Hsig & _).
      apply IH; [done|]. unfold Zlen in *. rewrite <- (length_fmap sig), Hsig, length_fmap. done.
Qed.

Lemma rtc_recovery_limits {R} st st' :
  rtc (recovery (R := R)) st st' -> within_limits (snd st) (fst st) -> within_limits (snd st') (fst st').
Proof.
  assert (Hd : forall A i (l : list A), Zlen (delete i l) <= Zlen l)
    by (intros A i l; unfold Zlen; pose proof (sublist_length _ _ (sublist_delete l i)); lia).
  induction 1 as [|? ? ? H _ IH]; [done|]. intros [L1 L2]. apply IH.
  destruct H as [i f r fecs recovered Hi H1 Hr|i f fecs recovered Hi H0]; cbn [fst snd] in *.
  - split; [apply DiscardOld_limit|]. etransitivity; [apply Hd|]. unfold Zlen in *. by rewrite UpdateCovering_length.
  - split; [done|]. etransitivity; [apply Hd|done].
Qed.

(** A call of DecodeFEC in a state of the invariant. *)
Lemma DecodeFEC_inv rxs recovered self :
  Forall rx_ok rxs -> (Zlen recovered = kMaxMediaPackets -> rxs <> []) ->
  fec_inv recovered (fec_packet_list_ self) -> within_limits recovered (fec_packet_list_ self) ->
  gives (DecodeFEC rxs recovered self) (fun st =>
    fec_inv (fst st) (fec_packet_list_ (snd st)) /\ within_limits (fst st) (fec_packet_list_ (snd st))
    /\ settled (fec_packet_list_ (snd st))).
Proof.
  intros Hrx Hne Hinv [Hl1 Hl2]. unfold DecodeFEC.
  eapply gives_bind with (P := fun st => fec_inv (fst st) (fec_packet_list_ (snd st))
    /\ within_limits (fst st) (fec_packet_list_ (snd st))).
  { destruct (Z.eqb_spec (Zlen recovered) kMaxMediaPackets) as [E|]; [|by apply gives_Cont].
    destruct rxs as [|front rxs]; [by specialize (Hne E)|].
    destruct (last recovered) as [back|] eqn:El; [|apply last_None in El; by subst].
    destruct (_ <? _); apply gives_Cont; [|done]. split; [|split; done]. split; constructor. }
  intros [recovered1 self1] [Hinv1 [Hl3 Hl4]]. cbn [fst snd] in *. unfold InsertPackets. rewrite flow_bind_assoc.
  eapply gives_bind; [by apply insert_packets_fecs|]. intros [recovered2 self2] [Hinv2 Hl5]. cbn [fst snd flow_bind] in *.
  destruct (AttemptRecover_reaches (R := list RecoveredPacket * FecDecoder) (DiscardOldPackets recovered2) self2)
    as (recovered3 & fecs3 & -> & Hr & Hs & Hinv3); [by apply inv_discard|].
  apply gives_Cont. cbn [fst snd fec_packet_list_]. split; [done|]. split; [|done].
  exact (rtc_recovery_limits _ _ Hr (conj (DiscardOld_limit _) Hl5)).
Qed.

(** What the user of a decoder may do: hand it received packets, take packets out of the
    list, or reset it. *)
Inductive decoder_step : list RecoveredPacket * FecDecoder -> list RecoveredPacket * FecDecoder -> Prop :=
| step_decode rxs recovered self st :
    Forall rx_ok rxs -> rxs <> [] -> run_flow (DecodeFEC rxs recovered self) = Some st ->
    decoder_step (recovered, self) st
| step_take recovered' recovered self :
    recovered' `sublist_of` recovered -> decoder_step (recovered, self) (recovered', self)
| step_reset recovered self : decoder_step (recovered, self) (ResetState self).

Lemma ranked_sublist {A} (ka : A -> Z) l k : l `sublist_of` k -> ranked base ka k -> ranked base ka l.
Proof.
  induction 1 as [|x l k Hs IH|x l k Hs IH]; intros H; [done| |]; inversion H as [|? ? Hr Hx]; subst; [|by apply IH].
  apply SSorted_cons; [by apply IH|]. rewrite Forall_forall in *. intros y Hy. apply Hx.
  eapply elem_of_submseteq; [exact Hy|]. by apply sublist_submseteq.
Qed.

Lemma decoder_step_inv st st' :
  decoder_step st st' -> fec_inv (fst st) (fec_packet_list_ (snd st)) ->
  within_limits (fst st) (fec_packet_list_ (snd st)) ->
  fec_inv (fst st') (fec_packet_list_ (snd st')) /\ within_limits (fst st') (fec_packet_list_ (snd st')).
Proof.
  intros [rxs recovered self st1 Hrx Hne E|recovered' recovered self Hs|recovered self] Hinv Hlim; cbn [fst snd] in *.
  - destruct (DecodeFEC_inv rxs recovered self) as (st2 & E2 & H1 & H2 & _); [done|done|done|done|].
    rewrite E2 in E. cbn in E. injection E as <-. done.
  - destruct Hinv as [I1 I2 I3 I4]. destruct Hlim as [L1 L2].
    assert (Hi : forall r, r ∈ recovered' -> r ∈ recovered)
      by (intros r Hr; eapply elem_of_submseteq; [exact Hr|by apply sublist_submseteq]).
    split; [split; [|by eapply ranked_sublist|done|]|split; [|done]].
    + rewrite Forall_forall in *. auto.
    + eapply Forall_impl; [exact I4|]. intros f. cbv beta. by apply linked_incl.
    + apply sublist_length in Hs. unfold Zlen in *. lia.
  - split; [split; constructor|done].
Qed.

Definition new_decoder : list RecoveredPacket * FecDecoder := ([], mkDecoder [] false).

Lemma decoder_reachable_inv st :
  rtc decoder_step new_decoder st ->
  fec_inv (fst st) (fec_packet_list_ (snd st)) /\ within_limits (fst st) (fec_packet_list_ (snd st)).
Proof.
  intros H. assert (H0 : fec_inv (fst new_decoder) (fec_packet_list_ (snd new_decoder))
    /\ within_limits (fst new_decoder) (fec_packet_list_ (snd new_decoder))) by (split; [split; constructor|done]).
  revert H0. generalize new_decoder H. clear H. induction 1 as [|? ? ? H _ IH]; [done|].
  intros [H1 H2]. by eapply IH, decoder_step_inv.
Qed.
End session.

(** ** A small frame *)

(** Three packets of 13 to 15 bytes, numbered from 100, of source 7. *)
Definition ex_packet (n : Z) : Packet :=
  mkPacket (13 + n)
    ([128; 96; 0; 100 + n; 0; 0; 1; n; 0; 0; 0; 7; 50 + n; 60; 70 + n] ++ replicate 1485 0).
Definition ex_media : list Packet := ex_packet <$> [0; 1; 2].

(** A packet of it as it arrives. *)
Definition ex_rx (n : Z) : ReceivedPacket := mkReceived (100 + n) 7 false (ex_packet n).

Lemma ex_packet_ok n : 0 <= n < 3 -> media_ok 2 (ex_packet n) /\ rtp_ok 7 (ex_packet n).
Proof.
  intros Hn. split.
  - split; cbn [ex_packet pkt_length pkt_data]; unfold IP_PACKET_SIZE; [lia|lia|by destruct n].
  - split.
    + by vm_compute.
    + intros j Hj. assert (Hj' : j = 2 \/ j = 3) by lia. destruct Hj' as [-> | ->]; [by vm_compute|].
      change (zat (pkt_data (ex_packet n)) 3) with (100 + n). unfold is_u8. lia.
    + intros j Hj. assert (Hj' : j = 8 \/ j = 9 \/ j = 10 \/ j = 11) by lia.
      destruct Hj' as [-> |[-> |[-> | ->]]]; reflexivity.
Qed.

Lemma ex_media_in p : p ∈ ex_media -> exists n, 0 <= n < 3 /\ p = ex_packet n.
Proof.
  intros (n & -> & Hn)%list_elem_of_fmap. exists n. split; [|done].
  rewrite !elem_of_cons in Hn. destruct Hn as [-> |[-> |[-> |Hn]]]; [lia..|]. by apply elem_of_nil in Hn.
Qed.

Lemma ex_window p : p ∈ ex_media -> in_window 100 (seq_of p).
Proof.
  intros (n & Hn & ->)%ex_media_in.
  assert (E : seq_of (ex_packet n) = 100 + n)
    by (change (seq_of (ex_packet n)) with (u16 (100 + n)); rewrite u16_id; [done|unfold is_u16; lia]).
  rewrite E. split; [unfold is_u16; lia|]. unfold rank. rewrite u16_id; unfold is_u16; lia.
Qed.

Lemma ex_distinct p q : p ∈ ex_media -> q ∈ ex_media -> seq_of p = seq_of q -> p = q.
Proof.
  intros (n & Hn & ->)%ex_media_in (n' & Hn' & ->)%ex_media_in.
  change (u16 (100 + n) = u16 (100 + n') -> ex_packet n = ex_packet n').
  rewrite !u16_id by (unfold is_u16; lia). intros E. by replace n with n' by lia.
Qed.

Lemma ex_rx_ok n : 0 <= n < 3 -> rx_ok (fun p => p ∈ ex_media) (ex_rx n).
Proof.
  intros Hn. exists (ex_packet n). split; [|split; [|split; [done|split; [by destruct n|done]]]].
  - change (ex_packet n ∈ [ex_packet 0; ex_packet 1; ex_packet 2]). rewrite !elem_of_cons.
    assert (n = 0 \/ n = 1 \/ n = 2) as [-> |[-> | ->]] by lia; auto.
  - change (100 + n = u16 (100 + n)). by rewrite u16_id by (unfold is_u16; lia).
Qed.

(** ** The property *)

(** C17: As long as the numbers of all packets that were ever sent are distinct and lie
    within half of the range of numbers, from some [base] on ([in_window]), the following
    holds whatever a user does with a decoder - hand it packets that arrived, in any order
    and number of calls, take packets out of the list, reset it.  The list holds only
    packets that were sent, under their numbers, in order and without repetitions; the
    lists keep their limits; and the next call of DecodeFEC returns, with at least two
    packets missing from every packet of error correction that it keeps.  Outside such a
    window its search for a number can pass the end of the list ([received_fec_overruns]). *)
Theorem decoder_sessions base (W : Packet -> Prop) recovered self :
  (forall p, W p -> in_window base (seq_of p)) ->
  (forall p q, W p -> W q -> seq_of p = seq_of q -> p = q) ->
  rtc (decoder_step W) new_decoder (recovered, self) ->
  (forall r, r ∈ recovered -> exists p, W p /\ rec_seq_num r = seq_of p /\ same_packet (rec_pkt r) p)
  /\ ranked base rec_seq_num recovered
  /\ within_limits recovered (fec_packet_list_ self)
  /\ forall rxs, Forall (rx_ok W) rxs -> rxs <> [] ->
     exists recovered' self', run_flow (DecodeFEC rxs recovered self) = Some (recovered', self')
       /\ forall f, f ∈ fec_packet_list_ self' -> 2 <= NumCoveredPacketsMissing f.
Proof.
  intros Hw Hi H. destruct (decoder_reachable_inv base W Hw Hi _ H) as [Hinv Hlim]. cbn [fst snd] in *.
  split; [apply Forall_forall, Hinv|]. split; [apply Hinv|]. split; [done|]. intros rxs Hrx Hne.
  destruct (DecodeFEC_inv base W Hw Hi rxs recovered self Hrx (fun _ => Hne) Hinv Hlim) as ([r' s'] & E & _ & _ & Hs).
  exists r', s'. rewrite E. split; [done|]. by apply Forall_forall.
Qed.

(** After a call with two of the packets. *)
Lemma decoder_sessions_witness :
  exists recovered self,
    run_flow (DecodeFEC [ex_rx 2; ex_rx 0] [] (mkDecoder [] false)) = Some (recovered, self) /\
    (forall r, r ∈ recovered -> exists p, p ∈ ex_media /\ rec_seq_num r = seq_of p /\ same_packet (rec_pkt r) p)
    /\ ranked 100 rec_seq_num recovered
    /\ within_limits recovered (fec_packet_list_ self)
    /\ exists recovered' self', run_flow (DecodeFEC [ex_rx 1] recovered self) = Some (recovered', self')
       /\ forall f, f ∈ fec_packet_list_ self' -> 2 <= NumCoveredPacketsMissing f.
Proof.
  assert (Hrx : Forall (rx_ok (fun p => p ∈ ex_media)) [ex_rx 2; ex_rx 0])
    by (repeat apply Forall_cons_2; [apply ex_rx_ok; lia..|constructor]).
  destruct (decoder_sessions 100 (fun p => p ∈ ex_media) [] (mkDecoder [] false) ex_window ex_distinct (rtc_refl _ _))
    as (_ & _ & _ & H0). destruct (H0 _ Hrx) as (r & s & E & _); [done|].
  exists r, s. split; [done|].
  destruct (decoder_sessions 100 (fun p => p ∈ ex_media) r s ex_window ex_distinct) as (H1 & H2 & H3 & H4).
  { apply rtc_once. by eapply step_decode. }
  split; [done|]. split; [done|]. split; [done|]. apply H4; [|done]. apply Forall_cons_2; [apply ex_rx_ok; lia|constructor].
Defined.
