(* ===== verification/FecDecode.v ===== *)
(** * Everything that can be recovered is recovered

    One call of [DecodeFEC] on the packets of a frame that arrived, in any order: the
    receiver then knows exactly the packets that follow from what arrived by the rule
    that a packet of error correction gives the one packet that is missing. *)
From S2P Require Import Prelude Pointwise RtpWire FecTables FecPacket FecEncode FecRecover FecReceive FecSession.
From Stdlib Require Import Sorted.
Local Open Scope Z_scope.

(** The closure of the numbers [received] under the groups. *)
Inductive derivable (received : Z -> Prop) (groups : list Z -> Prop) : Z -> Prop :=
| derive_received s : received s -> derivable received groups s
| derive_last g s :
    groups g -> s ∈ g -> (forall t, t ∈ g -> t <> s -> derivable received groups t) ->
    derivable received groups s.

Lemma derivable_mono (r r' : Z -> Prop) (g g' : list Z -> Prop) s :
  (forall s, r s -> r' s) -> (forall l, g l -> g' l) -> derivable r g s -> derivable r' g' s.
Proof.
  intros Hr Hg. induction 1 as [s Hs|l s Hl Hin _ IH]; [by apply derive_received, Hr|].
  apply (derive_last _ _ l); [by apply Hg|done|]. intros t Ht Hne. by apply IH.
Qed.

Section decode.
Context (base : Z) (W : Packet -> Prop).
Hypothesis W_window : forall p, W p -> in_window base (seq_of p).
Hypothesis W_inj : forall p q, W p -> W q -> seq_of p = seq_of q -> p = q.

(** The packets of the frame, and the numbers of its packets of error correction with
    what they protect; all are few, and the numbers do not wrap among them. *)
Context (seqs fec_seqs : list Z) (G : Z -> list Z) (lo : Z).
Hypothesis W_seqs : forall p, W p -> seq_of p ∈ seqs.
Hypothesis few_media : (length seqs <= 48)%nat.
Hypothesis few_fec : (length fec_seqs <= 48)%nat.

Record arrives (rx : ReceivedPacket) : Prop := mkArrives {
  arr_ok : rx_ok W rx;
  arr_near : lo <= rx_seq_num rx <= lo + 16383;
  arr_fec : rx_is_fec rx = true -> rx_seq_num rx ∈ fec_seqs /\
    exists l_bit l, fec_sent W (rx_ssrc rx) (rx_pkt rx) l_bit l /\ G (rx_seq_num rx) = seq_of <$> l
}.

Hypothesis fec_near : forall q, q ∈ fec_seqs -> lo <= q <= lo + 16383.

Lemma fec_sent_unique ssrc ssrc' f l_bit l l_bit' l' :
  fec_sent W ssrc f l_bit l -> fec_sent W ssrc' f l_bit' l' -> seq_of <$> l = seq_of <$> l'.
Proof.
  intros H H'. destruct (fec_sent_parsed base W W_window (R := unit) _ _ _ _ H) as (sb & b & pl & E1 & E2 & E3 & E4 & H2 & _).
  destruct (fec_sent_parsed base W W_window (R := unit) _ _ _ _ H') as (sb' & b' & pl' & E1' & E2' & E3' & E4' & H2' & _).
  rewrite E1 in E1'. injection E1' as <-. rewrite E2 in E2'. injection E2' as <-.
  rewrite E3 in E3'. subst l_bit'. rewrite E4 in E4'. injection E4' as <-.
  rewrite <- (entries_seqs pl l), <- (entries_seqs pl l') by done. done.
Qed.

(** ** Taking in what arrived *)

Record taken (arrived : list ReceivedPacket) (recovered : list RecoveredPacket) (fecs : list FecPacket) : Prop := mkTaken {
  tk_inv : fec_inv base W recovered fecs;
  tk_seqs : forall s, s ∈ rec_seq_num <$> recovered <-> exists rx, rx ∈ arrived /\ rx_is_fec rx = false /\ rx_seq_num rx = s;
  tk_exact : Forall (exact recovered) fecs;
  tk_sig : Forall (fun f => sig f = (fp_seq_num f, G (fp_seq_num f)) /\ fp_seq_num f ∈ fec_seqs) fecs;
  tk_all : forall rx, rx ∈ arrived -> rx_is_fec rx = true -> rx_seq_num rx ∈ fp_seq_num <$> fecs;
  tk_from : forall q, q ∈ fp_seq_num <$> fecs -> exists rx, rx ∈ arrived /\ rx_is_fec rx = true /\ rx_seq_num rx = q;
  tk_once : NoDup (fp_seq_num <$> fecs)
}.

Lemma discard_far_near rx self :
  lo <= rx_seq_num rx <= lo + 16383 ->
  Forall (fun f => sig f = (fp_seq_num f, G (fp_seq_num f)) /\ fp_seq_num f ∈ fec_seqs) (fec_packet_list_ self) ->
  discard_far rx self = self.
Proof.
  intros Hrx Hs. unfold discard_far. destruct (fec_packet_list_ self) as [|f l]; [done|].
  apply Forall_cons_1 in Hs as [[_ Hf] _]. apply fec_near in Hf.
  rewrite u16_id by (unfold is_u16; lia).
  by rewrite (proj2 (Z.ltb_ge _ _)) by lia.
Qed.

Lemma sigs_forall (P : Z * list Z -> Prop) (fecs fecs' : list FecPacket) :
  sig <$> fecs' = sig <$> fecs -> Forall (fun f => P (sig f)) fecs -> Forall (fun f => P (sig f)) fecs'.
Proof.
  intros E H. rewrite Forall_forall in *. intros f' Hf'.
  assert (Hs : sig f' ∈ sig <$> fecs) by (rewrite <- E; by apply list_elem_of_fmap_2).
  apply list_elem_of_fmap in Hs as (f & -> & Hf). by apply H.
Qed.

Lemma sigs_seqs (fecs fecs' : list FecPacket) :
  sig <$> fecs' = sig <$> fecs -> fp_seq_num <$> fecs' = fp_seq_num <$> fecs.
Proof. intros E. change fp_seq_num with (fst ∘ sig). by rewrite !list_fmap_compose, E. Qed.

Lemma NoDup_short {A} (l k : list A) : NoDup l -> (forall x, x ∈ l -> x ∈ k) -> (length l <= length k)%nat.
Proof. intros Hn Hi. apply submseteq_length, NoDup_submseteq; done. Qed.

Lemma take_media arrived recovered self rx :
  arrives rx -> rx_is_fec rx = false -> taken arrived recovered (fec_packet_list_ self) ->
  let '(recovered', self') := InsertMediaPacket rx recovered self in
  taken (arrived ++ [rx]) recovered' (fec_packet_list_ self').
Proof.
  intros [Hok _ _] Hm [T1 T2 T3 T4 T5 T7 T6].
  assert (Hi := InsertMediaPacket_inv base W W_window W_inj rx recovered self Hm Hok T1).
  destruct (InsertMediaPacket _ _ _) as [recovered' self']. destruct Hi as (I1 & I2 & I3 & I4).
  split; [done| | | | | |].
  - intros s. rewrite I2, T2. split.
    + intros [->|(x & Hx & ? & ?)]; [exists rx|exists x]; rewrite elem_of_app, list_elem_of_singleton; auto.
    + intros (x & Hx & Hxm & <-). apply elem_of_app in Hx as [Hx|Hx%list_elem_of_singleton]; [right; by exists x|left; by subst].
  - by apply I4.
  - apply (sigs_forall (fun g => g = (g.1, G g.1) /\ g.1 ∈ fec_seqs) (fec_packet_list_ self)); [done|].
    eapply Forall_impl; [exact T4|]. intros f [E Hf]. rewrite E. done.
  - intros x Hx Hxf. rewrite (sigs_seqs _ _ I3). apply elem_of_app in Hx as [Hx|Hx%list_elem_of_singleton]; [by apply T5|].
    subst. congruence.
  - intros q. rewrite (sigs_seqs _ _ I3). intros Hq. destruct (T7 q Hq) as (x & ? & ?). exists x.
    rewrite elem_of_app. auto.
  - by rewrite (sigs_seqs _ _ I3).
Qed.

Lemma take_fec {R} arrived recovered self rx :
  arrives rx -> rx_is_fec rx = true -> taken arrived recovered (fec_packet_list_ self) ->
  gives (InsertFECPacket (R := R) rx recovered self)
    (fun self' => taken (arrived ++ [rx]) recovered (fec_packet_list_ self')).
Proof.
  intros [Hok _ Hfec] Hm [T1 T2 T3 T4 T5 T7 T6]. destruct (Hfec Hm) as (Hq & l_bit & l & Hsent & HG).
  eapply gives_weaken; [by apply (InsertFECPacket_inv base W)|]. intros self' [Hinv Hc].
  assert (T2' : forall s, s ∈ rec_seq_num <$> recovered <->
    exists x, x ∈ arrived ++ [rx] /\ rx_is_fec x = false /\ rx_seq_num x = s).
  { intros s. rewrite T2. split; [intros (x & ? & ?); exists x; rewrite elem_of_app; auto|].
    intros (x & [Hx|Hx%list_elem_of_singleton]%elem_of_app & Hxm & ?); [by exists x|]. subst x. congruence. }
  assert (T7' : forall q, q = rx_seq_num rx \/ q ∈ fp_seq_num <$> fec_packet_list_ self ->
    exists x, x ∈ arrived ++ [rx] /\ rx_is_fec x = true /\ rx_seq_num x = q).
  { intros q [->|H]; [exists rx; by rewrite elem_of_app, list_elem_of_singleton; auto|].
    destruct (T7 q H) as (x & ? & ?). exists x. rewrite elem_of_app. auto. }
  destruct Hc as [[Hdup E]|(Hnew & f & fecs & l_bit' & l' & Hsent' & Hsig & Hex & Hp & E)]; rewrite E in *.
  - split; [done|done|done|done| |intros q Hq'; apply T7'; by right|done]. intros x [Hx|Hx%list_elem_of_singleton]%elem_of_app; [by apply T5|by subst].
  - assert (Hsg : sig f = (fp_seq_num f, G (fp_seq_num f)) /\ fp_seq_num f ∈ fec_seqs).
    { assert (Ef : fp_seq_num f = rx_seq_num rx) by (change (fp_seq_num f) with (sig f).1; by rewrite Hsig).
      rewrite Ef. split; [|done]. rewrite Hsig, HG. f_equal. by eapply fec_sent_unique. }
    assert (Ef : fp_seq_num f = rx_seq_num rx) by (change (fp_seq_num f) with (sig f).1; by rewrite Hsig).
    assert (Hall : Forall (fun f => sig f = (fp_seq_num f, G (fp_seq_num f)) /\ fp_seq_num f ∈ fec_seqs) fecs)
      by (rewrite Hp; by apply Forall_cons_2).
    assert (Hnd : NoDup (fp_seq_num <$> fecs)) by (rewrite Hp, fmap_cons; apply NoDup_cons; by rewrite Ef).
    assert (Hlen : (length fecs <= 48)%nat).
    { rewrite <- (length_fmap fp_seq_num). etransitivity; [apply (NoDup_short _ fec_seqs)|done]; [done|].
      intros q (g & -> & Hg)%list_elem_of_fmap. rewrite Forall_forall in Hall. by apply Hall. }
    unfold kMaxFecPackets, kMaxMediaPackets, Zlen in *. destruct (Z.ltb_spec 48 (Z.of_nat (length fecs))); [lia|].
    split; [done|done|rewrite Hp; by apply Forall_cons_2|done| | |done].
    2:{ intros q. rewrite Hp, fmap_cons, elem_of_cons, Ef. apply T7'. }
    intros x Hx Hxf. rewrite Hp, fmap_cons, elem_of_cons, Ef.
    apply elem_of_app in Hx as [Hx|Hx%list_elem_of_singleton]; [right; by apply T5|left; by subst].
Qed.

Lemma take_all {R} rxs arrived recovered self :
  Forall arrives rxs -> taken arrived recovered (fec_packet_list_ self) ->
  gives (insert_packets (R := R) rxs recovered self)
    (fun st => taken (arrived ++ rxs) (fst st) (fec_packet_list_ (snd st))).
Proof.
  intros H. revert arrived recovered self. induction H as [|rx rxs Hrx _ IH]; intros arrived recovered self Ht; cbn [insert_packets].
  - rewrite app_nil_r. by apply gives_Cont.
  - rewrite (discard_far_near rx self) by (destruct Hrx, Ht; done).
    replace (arrived ++ rx :: rxs) with ((arrived ++ [rx]) ++ rxs) by (by rewrite <- app_assoc).
    destruct (rx_is_fec rx) eqn:E.
    + eapply gives_bind; [by eapply take_fec|]. intros self' Ht'. by apply IH.
    + assert (Hi := take_media arrived recovered self rx Hrx E Ht).
      destruct (InsertMediaPacket _ _ _) as [recovered' self']. by apply IH.
Qed.

(** The list is never cut. *)
Lemma known_few recovered :
  Forall (known W) recovered -> NoDup (rec_seq_num <$> recovered) -> DiscardOldPackets recovered = recovered.
Proof.
  intros Hk Hn. unfold DiscardOldPackets, kMaxMediaPackets.
  assert (length recovered <= 48)%nat.
  { rewrite <- (length_fmap rec_seq_num). etransitivity; [apply (NoDup_short _ seqs)|done]; [done|].
    intros s (r & -> & Hr)%list_elem_of_fmap. rewrite Forall_forall in Hk. destruct (Hk r Hr) as (p & Hp & -> & _).
    by apply W_seqs. }
  change (Z.to_nat 48) with 48%nat. by replace (length recovered - 48)%nat with 0%nat by lia.
Qed.

(** ** The search *)

Section search.
Context (rxs : list ReceivedPacket).
Definition received_seq (s : Z) : Prop := exists rx, rx ∈ rxs /\ rx_is_fec rx = false /\ rx_seq_num rx = s.
Definition received_group (g : list Z) : Prop := exists rx, rx ∈ rxs /\ rx_is_fec rx = true /\ g = G (rx_seq_num rx).

Record searched (recovered : list RecoveredPacket) (fecs : list FecPacket) : Prop := mkSearched {
  se_inv : fec_inv base W recovered fecs;
  se_base : forall s, received_seq s -> s ∈ rec_seq_num <$> recovered;
  se_derived : forall s, s ∈ rec_seq_num <$> recovered -> derivable received_seq received_group s;
  se_exact : Forall (exact recovered) fecs;
  se_sig : Forall (fun f => received_group (snd (sig f))) fecs;
  se_groups : forall g, received_group g ->
    g ∈ snd <$> (sig <$> fecs) \/ forall s, s ∈ g -> s ∈ rec_seq_num <$> recovered
}.

Lemma taken_searched recovered fecs : taken rxs recovered fecs -> searched recovered fecs.
Proof.
  intros [T1 T2 T3 T4 T5 T7 T6]. rewrite Forall_forall in T4. split; [done| | |done| |].
  - intros s Hs. by apply T2.
  - intros s Hs. apply derive_received. by apply T2.
  - apply Forall_forall. intros f Hin. destruct (T7 (fp_seq_num f)) as (rx & ? & ? & E); [by apply list_elem_of_fmap_2|].
    exists rx. destruct (T4 f Hin) as [-> _]. cbn [snd]. by rewrite E.
  - intros g (rx & Hrx & Hfec & ->). left.
    assert (Hin := T5 rx Hrx Hfec). apply list_elem_of_fmap in Hin as (f & E & Hin).
    rewrite <- list_fmap_compose, E. destruct (T4 f Hin) as [Hs _].
    replace (G (fp_seq_num f)) with ((snd ∘ sig) f) by (unfold compose; by rewrite Hs). by apply list_elem_of_fmap_2.
Qed.

Lemma deleted_or {A} i (l : list A) x y : l !! i = Some y -> x ∈ l -> x = y \/ x ∈ delete i l.
Proof.
  intros Hi Hx. assert (Hp := delete_Permutation l i y Hi). rewrite Hp, elem_of_cons in Hx. tauto.
Qed.

Lemma none_missing f e :
  fec_good base W f -> NumCoveredPacketsMissing f = 0 -> e ∈ protected_pkt_list f -> pp_pkt e <> None.
Proof.
  intros (l_bit & l & _ & _ & H) H0 He. rewrite (NumCovered_missing f l) in H0 by done.
  revert H0. induction H as [|x p pl l _ _ IH]; [by apply elem_of_nil in He|]. cbn [missing].
  apply elem_of_cons in He as [->|He].
  - destruct (pp_pkt x); [done|]. rewrite Zlen_cons. pose proof (Zlen_nonneg (missing pl l)). lia.
  - destruct (pp_pkt x); [by apply IH|]. rewrite Zlen_cons. pose proof (Zlen_nonneg (missing pl l)). lia.
Qed.

(** A turn of the search. *)
Lemma recovery_searched {R} st st' :
  recovery (R := R) st st' -> searched (snd st) (fst st) -> searched (snd st') (fst st').
Proof.
  intros Hstep Hse. assert (Hinv := recovery_inv base W W_window W_inj _ _ Hstep (se_inv _ _ Hse)).
  destruct Hse as [S1 S2 S3 S4 S5 S6].
  destruct Hstep as [i f r fecs recovered Hi H1 Hr|i f fecs recovered Hi H0]; cbn [fst snd] in *.
  - destruct (good_at base W _ _ _ _ S1 Hi) as [Hg Hl].
    destruct (good_recovers base W (R := R) recovered f Hg Hl H1) as (r' & e & Er & Hk & Hn & He & Hen & Hes & Hot).
    rewrite Hr in Er. injection Er as <-.
    assert (Hj := join_inv base W W_window W_inj r recovered fecs S1 Hk Hn).
    rewrite known_few in * by (try apply Hj; eapply ranked_nodup; apply Hj).
    assert (Hf5 : received_group (pp_seq_num <$> protected_pkt_list f))
      by (exact (proj1 (Forall_lookup _ _) S5 i f Hi)).
    assert (Hf4 : exact recovered f) by (exact (proj1 (Forall_lookup _ _) S4 i f Hi)).
    assert (Hin : forall s, s ∈ pp_seq_num <$> protected_pkt_list f -> s <> rec_seq_num r -> s ∈ rec_seq_num <$> recovered).
    { intros s (e' & -> & He')%list_elem_of_fmap Hs. apply Hf4; [done|]. by apply Hot. }
    assert (Hsig := join_sigs base W W_window r fecs Hk (inv_good _ _ _ _ S1)).
    assert (Hi' : (sig <$> UpdateCoveringFECPackets r fecs) !! i = Some (sig f))
      by (by rewrite Hsig, list_lookup_fmap, Hi).
    split; [done| | | | |].
    + intros s Hs. apply join_seqs. right. by apply S2.
    + intros s Hs. apply join_seqs in Hs as [->|Hs]; [|by apply S3].
      eapply derive_last; [exact Hf5|rewrite <- Hes; by apply list_elem_of_fmap_2|].
      intros t Ht Hne. by apply S3, Hin.
    + apply Forall_forall. intros g Hg'. apply delete_in in Hg'.
      exact (proj1 (Forall_forall _ _) (join_exact base W W_window r recovered fecs Hk (inv_good _ _ _ _ S1) S4) g Hg').
    + apply Forall_forall. intros g Hg'. apply delete_in in Hg'.
      assert (Hg2 : sig g ∈ sig <$> fecs) by (rewrite <- Hsig; by apply list_elem_of_fmap_2).
      apply list_elem_of_fmap in Hg2 as (g' & -> & Hg2). rewrite Forall_forall in S5. by apply S5.
    + intros g Hg'. destruct (S6 g Hg') as [Hin'|Hin']; [|right; intros s Hs; apply join_seqs; auto].
      rewrite <- Hsig in Hin'. apply list_elem_of_fmap in Hin' as (sg & -> & Hin').
      apply list_elem_of_fmap in Hin' as (f' & -> & Hin').
      apply list_elem_of_lookup in Hin' as [k Hk']. destruct (decide (k = i)) as [->|].
      * right. intros s Hs. apply join_seqs. rewrite list_lookup_fmap, Hk' in Hi'.
        assert (Es : sig f' = sig f) by exact (f_equal (default (0, [])) Hi'). rewrite Es in Hs.
        destruct (decide (s = rec_seq_num r)); [by left|right]. by apply Hin.
      * left. rewrite <- list_fmap_compose. change (snd (sig f')) with ((snd ∘ sig) f'). apply list_elem_of_fmap_2.
        apply list_elem_of_lookup. exists (if decide (k < i)%nat then k else (k - 1)%nat).
        destruct (decide (k < i)%nat); [by rewrite list_lookup_delete_lt|].
        rewrite list_lookup_delete_ge by lia. by replace (S (k - 1)) with k by lia.
  - split; [done|done|done| | |].
    + apply Forall_forall. intros g Hg'. apply delete_in in Hg'. rewrite Forall_forall in S4. by apply S4.
    + apply Forall_forall. intros g Hg'. apply delete_in in Hg'. rewrite Forall_forall in S5. by apply S5.
    + intros g Hg'. destruct (S6 g Hg') as [Hin'|Hin']; [|by right].
      apply list_elem_of_fmap in Hin' as (sg & -> & Hin'). apply list_elem_of_fmap in Hin' as (f' & -> & Hin').
      destruct (deleted_or i fecs f' f Hi Hin') as [->|Hd].
      * right. intros s (e & -> & He)%list_elem_of_fmap.
        destruct (good_at base W _ _ _ _ S1 Hi) as [Hg _]. rewrite Forall_forall in S4.
        apply (S4 f); [by eapply list_elem_of_lookup_2|done|]. by eapply none_missing.
      * left. by apply list_elem_of_fmap_2, list_elem_of_fmap_2.
Qed.

Lemma rtc_recovery_searched {R} st st' :
  rtc (recovery (R := R)) st st' -> searched (snd st) (fst st) -> searched (snd st') (fst st').
Proof. induction 1 as [|? ? ? H _ IH]; [done|]. intros Hs. by eapply IH, recovery_searched. Qed.

Lemma missing_ranked pl l : ranked base seq_of l -> ranked base seq_of (missing pl l).
Proof.
  revert pl. induction l as [|p l IH]; intros [|e pl] H; try apply SSorted_nil. cbn [missing].
  inversion H as [|? ? Hr Hp]; subst. destruct (pp_pkt e); [by apply IH|]. apply SSorted_cons; [by apply IH|].
  rewrite Forall_forall in *. intros q Hq. apply Hp. clear -Hq. revert pl Hq.
  induction l as [|x l IH]; intros [|e pl] Hq; try by apply elem_of_nil in Hq. cbn [missing] in Hq. apply elem_of_cons.
  destruct (pp_pkt e); [right; by eapply IH|]. apply elem_of_cons in Hq as [->|Hq]; [by left|right; by eapply IH].
Qed.

(** With at most one number missing, at most one packet is. *)
Lemma one_missing f s :
  fec_good base W f ->
  (forall e, e ∈ protected_pkt_list f -> pp_seq_num e <> s -> pp_pkt e <> None) ->
  NumCoveredPacketsMissing f <= 1.
Proof.
  intros (l_bit & l & [_ _ _ Gk] & _ & H) Hs. rewrite (NumCovered_missing f l) by done.
  assert (Hall : forall L, L ∈ missing (protected_pkt_list f) l -> seq_of L = s).
  { intros L HL. destruct (missing_entry _ l L H HL) as (e & He & Hen & <-).
    destruct (decide (pp_seq_num e = s)); [done|]. by destruct (Hs e He). }
  assert (Hr := missing_ranked (protected_pkt_list f) l Gk).
  destruct (missing (protected_pkt_list f) l) as [|a [|b m]]; [unfold Zlen; simpl; lia..|].
  inversion Hr as [|? ? _ Hb]; subst. apply Forall_cons_1 in Hb as [Hb _].
  rewrite (Hall a), (Hall b) in Hb by (rewrite !elem_of_cons; auto). lia.
Qed.

Lemma settled_closed recovered fecs s :
  searched recovered fecs -> settled fecs -> derivable received_seq received_group s ->
  s ∈ rec_seq_num <$> recovered.
Proof.
  intros [S1 S2 S3 S4 S5 S6] Hset. induction 1 as [s Hs|g s Hg Hin _ IH]; [by apply S2|].
  destruct (S6 g Hg) as [Hf|Hall]; [|by apply Hall].
  apply list_elem_of_fmap in Hf as (sg & -> & Hf). apply list_elem_of_fmap in Hf as (f & -> & Hf).
  destruct (decide (s ∈ rec_seq_num <$> recovered)) as [|Hn]; [done|exfalso].
  apply list_elem_of_lookup in Hf as [i Hi]. destruct (good_at base W _ _ _ _ S1 Hi) as [Hg' Hl].
  assert (H2 : 2 <= NumCoveredPacketsMissing f) by (exact (proj1 (Forall_lookup _ _) Hset i f Hi)).
  assert (NumCoveredPacketsMissing f <= 1); [|lia]. apply (one_missing f s); [done|].
  intros e He Hne. assert (Hk : pp_seq_num e ∈ rec_seq_num <$> recovered)
    by (apply IH; [by apply list_elem_of_fmap_2|done]).
  apply list_elem_of_fmap in Hk as (r & E & Hr). by apply (Hl r e).
Qed.

(** One call, from a new decoder. *)
Lemma DecodeFEC_closure :
  Forall arrives rxs ->
  gives (DecodeFEC rxs [] (mkDecoder [] false)) (fun st =>
    Forall (known W) (fst st) /\ ranked base rec_seq_num (fst st) /\
    forall s, s ∈ rec_seq_num <$> fst st <-> derivable received_seq received_group s).
Proof.
  intros Hrx. unfold DecodeFEC. change (Zlen (@nil RecoveredPacket) =? kMaxMediaPackets) with false.
  cbn [flow_bind]. unfold InsertPackets. rewrite flow_bind_assoc.
  assert (Ht : taken [] [] (fec_packet_list_ (mkDecoder [] false))).
  { split; [split; constructor| |constructor|constructor| | |constructor].
    - intros s. split; [by intros ?%elem_of_nil|]. by intros (x & ?%elem_of_nil & _).
    - by intros x ?%elem_of_nil.
    - by intros q ?%elem_of_nil. }
  destruct (take_all (R := list RecoveredPacket * FecDecoder) rxs [] [] _ Hrx Ht) as ([recovered self] & -> & Ht').
  cbn [flow_bind fst snd app] in *. assert (Hinv := tk_inv _ _ _ Ht').
  rewrite known_few by (try apply Hinv; eapply ranked_nodup; apply Hinv).
  destruct (AttemptRecover_reaches base W W_window W_inj (R := list RecoveredPacket * FecDecoder) recovered self Hinv)
    as (recovered' & fecs' & -> & Hr & Hs & Hinv').
  assert (Hse := rtc_recovery_searched _ _ Hr (taken_searched _ _ Ht')). cbn [fst snd] in Hse.
  apply gives_Cont. cbn [fst]. split; [apply Hinv'|]. split; [apply Hinv'|]. intros s.
  split; [apply Hse|by apply (settled_closed _ fecs')].
Qed.
End search.
End decode.
