(* ===== verification/FecBurst.v ===== *)
(** * Losses that are repaired

    A frame with its packets of error correction, of which some are lost on the way:
    what the sender generates, against what the receiver decodes.  The masks for bursts
    repair every burst of at most as many packets as there are packets of error
    correction; every mask repairs the loss of one media packet. *)
From S2P Require Import Prelude Pointwise RtpWire FecBursty FecTables FecMasks FecPacket FecEncode FecRecover FecReceive FecSession FecDecode.
From stdpp Require Import sorting.
Local Open Scope Z_scope.

(** ** Peeling rows of a mask *)

(** The one lost position of a row. *)
Definition single (lost row : list Z) : option Z :=
  match List.filter (fun j => existsb (Z.eqb j) lost) row with [j] => Some j | _ => None end.

Fixpoint find_single (lost : list Z) (rows : list (list Z)) : option Z :=
  match rows with
  | [] => None
  | row :: rows => match single lost row with Some j => Some j | None => find_single lost rows end
  end.

Fixpoint peel (fuel : nat) (rows : list (list Z)) (lost : list Z) : list Z :=
  match fuel with
  | O => lost
  | S fuel => match find_single lost rows with
              | Some j => peel fuel rows (List.filter (fun i => negb (i =? j)) lost)
              | None => lost
              end
  end.

Lemma lost_spec lost j : existsb (Z.eqb j) lost = true <-> j ∈ lost.
Proof.
  rewrite existsb_exists. split.
  - intros (x & Hx%list_elem_of_In & E%Z.eqb_eq). by subst.
  - intros H. exists j. split; [by apply list_elem_of_In|apply Z.eqb_refl].
Qed.

Lemma find_single_row lost rows j :
  find_single lost rows = Some j ->
  exists row, row ∈ rows /\ j ∈ row /\ forall t, t ∈ row -> t <> j -> t ∉ lost.
Proof.
  induction rows as [|row rows IH]; cbn [find_single]; [done|].
  destruct (single lost row) as [x|] eqn:E.
  - intros [= <-]. exists row. split; [by left|]. unfold single in E.
    destruct (List.filter _ row) as [|y [|? ?]] eqn:Ef; try done. injection E as ->.
    split.
    + apply list_elem_of_In. assert (H : In x (List.filter (fun j => existsb (Z.eqb j) lost) row)) by (rewrite Ef; by left).
      by apply filter_In in H as [H _].
    + intros t Ht Hne Hl. assert (H : In t [x]); [|destruct H as [H|[]]; congruence].
      rewrite <- Ef. apply filter_In. split; [by apply list_elem_of_In|by apply lost_spec].
  - intros H. destruct (IH H) as (r & Hr & ?). exists r. split; [by right|done].
Qed.

(** When peeling leaves nothing, every position follows. *)
Lemma peel_derivable (received : Z -> Prop) (groups : list Z -> Prop) k fuel rows lost :
  (forall row, row ∈ rows -> groups row /\ Forall (fun j => 0 <= j < k) row) ->
  (forall n, 0 <= n < k -> n ∉ lost -> derivable received groups n) ->
  peel fuel rows lost = [] -> forall n, 0 <= n < k -> derivable received groups n.
Proof.
  intros Hr. revert lost. induction fuel as [|fuel IH]; intros lost Hl; cbn [peel].
  - intros -> n Hn. apply Hl; [done|]. apply not_elem_of_nil.
  - destruct (find_single lost rows) as [j|] eqn:E; [|intros -> n Hn; apply Hl, not_elem_of_nil; done].
    apply IH. intros n Hn Hnot. destruct (decide (n ∈ lost)) as [Hin|]; [|by apply Hl].
    destruct (decide (n = j)) as [->|Hne].
    2:{ destruct Hnot. apply list_elem_of_In, filter_In. split; [by apply list_elem_of_In|].
        apply negb_true_iff. by apply Z.eqb_neq. }
    destruct (find_single_row _ _ _ E) as (row & Hrow & Hj & Hot). destruct (Hr row Hrow) as [Hg Hb].
    apply (derive_last _ _ row); [done|done|]. intros t Ht Hne. apply Hl; [|by apply Hot].
    rewrite Forall_forall in Hb. by apply Hb.
Qed.

(** ** The masks for bursts *)

(** The positions of a row, and the rows and positions that a burst leaves and takes:
    the packets of error correction follow the media packets. *)
Definition row_positions (nb : Z) (mask : list Z) (k i : Z) : list Z := List.filter (mask_has nb mask i) (seqZ 0 k).
Definition rows_left (nb : Z) (mask : list Z) (k m a b : Z) : list (list Z) :=
  row_positions nb mask k <$> List.filter (fun i => negb (in_span a b (k + i))) (seqZ 0 m).
Definition media_lost (k a b : Z) : list Z := List.filter (in_span a b) (seqZ 0 k).

Definition burst_repaired (nb : Z) (mask : list Z) (k m a b : Z) : bool :=
  match peel (Z.to_nat k) (rows_left nb mask k m a b) (media_lost k a b) with [] => true | _ => false end.

(** Every mask of the table for bursts, every burst. *)
Definition bursts_repaired (table : list (list (list Z))) : bool :=
  forallb (fun k =>
    forallb (fun m =>
      match table !! Z.to_nat (k - 1) with
      | Some row => match row !! Z.to_nat (m - 1) with
        | Some mask => forallb (fun b => forallb (fun a => burst_repaired 2 mask k m a b) (seqZ 0 (k + m - b + 1))) (seqZ 0 (m + 1))
        | None => false
        end
      | None => false
      end) (seqZ 1 k)) (seqZ 1 (Zlen table)).

Lemma bursty_table_repairs : bursts_repaired kPacketMaskBurstyTbl = true.
Proof. vm_compute. reflexivity. Qed.

Lemma table_repairs {R} table ty k m a b mask :
  bursts_repaired table = true -> 1 <= m <= k -> k <= Zlen table -> 0 <= b <= m -> 0 <= a -> a + b <= k + m ->
  table_mask (R := R) (mkPacketMaskTable ty table) (k - 1) (m - 1) = Cont mask ->
  burst_repaired 2 mask k m a b = true.
Proof.
  intros H0 Hm Hk Hb Ha Hab. unfold table_mask. cbn [fec_packet_mask_table_]. unfold bursts_repaired in H0.
  assert (H1 := forallb_seqZ _ _ _ H0 k ltac:(lia)). assert (H2 := forallb_seqZ _ _ _ H1 m ltac:(lia)).
  cbv beta in H2. clear H0 H1.
  destruct (table !! Z.to_nat (k - 1)) as [row|] eqn:Er; [|done].
  destruct (row !! Z.to_nat (m - 1)) as [mask'|] eqn:Em; [|done].
  rewrite (rd_Cont _ _ row) by (done || lia). cbn [flow_bind]. rewrite (rd_Cont _ _ mask') by (done || lia).
  intros [= <-]. assert (H3 := forallb_seqZ _ _ _ H2 b ltac:(lia)).
  exact (forallb_seqZ _ _ _ H3 a ltac:(lia)).
Qed.

Lemma bursty_table k : k <= 12 -> new_PacketMaskTable kFecMaskBursty k = mkPacketMaskTable kFecMaskBursty kPacketMaskBurstyTbl.
Proof.
  intros Hk. unfold new_PacketMaskTable, InitMaskType. rewrite bursty_table_len.
  destruct (Z.ltb_spec 12 k); [lia|done].
Qed.

(** Without unequal protection the mask is that of the table. *)
Lemma GeneratePacketMasks_equal {R} k m imp t pm mask sub :
  1 <= m -> GeneratePacketMasks (R := R) k m imp false t pm = Cont mask ->
  table_mask (R := R) t (k - 1) (m - 1) = Cont sub ->
  forall q, 0 <= q < m * mask_bytes k -> zat mask q = zat sub q.
Proof.
  intros Hm E Et q Hq. unfold GeneratePacketMasks in E. cbn [negb orb] in E. rewrite Et in E. cbn [flow_bind] in E.
  fold (mask_bytes k) in E. pose proof (mask_bytes_mono k k ltac:(lia)).
  unfold blk_get in E. destruct (_ && _) eqn:Eg in E; [|done]. cbn [flow_bind] in E.
  apply andb_true_iff in Eg as [_ Hl%Z.leb_le]. rewrite zdrop_0 in E by lia.
  assert (Hs : Zlen (ztake (m * mask_bytes k) sub) = m * mask_bytes k) by (apply Zlen_ztake; nia).
  unfold blk_put in E. destruct (_ && _) eqn:Ep in E; [|done]. injection E as <-.
  rewrite zat_app by lia. rewrite Hs.
  destruct (Z.ltb_spec q (m * mask_bytes k)); [|lia]. apply zat_ztake. lia.
Qed.

Lemma mask_has_ext nb mask mask' m i j :
  0 < nb -> (forall q, 0 <= q < m * nb -> zat mask q = zat mask' q) -> 0 <= i < m -> 0 <= j < 8 * nb ->
  mask_has nb mask i j = mask_has nb mask' i j.
Proof.
  intros Hnb H Hi Hj. unfold mask_has. f_equal. apply H.
  assert (0 <= j / 8 < nb) by (split; [apply Z.div_pos; lia|apply Z.div_lt_upper_bound; lia]). nia.
Qed.

(** ** A frame on its way *)

Section frame.
Context (media : list Packet) (s fs lo ssrc m : Z) (mask : list Z) (fecs : list Packet).
Local Definition k : Z := Zlen media.
Local Definition l_bit : bool := 16 <? k.
Local Definition nb : Z := l_mask_bytes l_bit.

(** A frame of at most 48 packets with numbers in sequence, and its packets of error
    correction, whose numbers start at [fs]. *)
Hypothesis Hk : 1 <= k <= 48.
Hypothesis Hm : 1 <= m <= k.
Hypothesis Hnum : numbered s media.
Hypothesis Hmedia : Forall (media_ok (l_ulp_header_size l_bit - 2)) media.
Hypothesis Hrtp : Forall (rtp_ok ssrc) media.
Hypothesis Hmask : mask_ok k m mask.
Hypothesis Hfecs : forall i, 0 <= i < m -> zat fecs i = fec_of l_bit media mask i.
Hypothesis Hlo : forall n, 0 <= n < k -> lo <= u16 (s + n) <= lo + 16383.
Hypothesis Hfs : lo <= fs /\ fs + m - 1 <= lo + 16383.

(** A received packet is media packet [n], or packet [i] of error correction. *)
Definition is_media (n : Z) (rx : ReceivedPacket) : Prop :=
  rx_is_fec rx = false /\ rx_seq_num rx = u16 (s + n) /\ same_packet (rx_pkt rx) (zat media n).
Definition is_fec (i : Z) (rx : ReceivedPacket) : Prop :=
  rx_is_fec rx = true /\ rx_seq_num rx = fs + i /\ rx_ssrc rx = ssrc /\ same_packet (rx_pkt rx) (zat fecs i).

Local Definition sent (p : Packet) : Prop := p ∈ media.
Local Definition group (q : Z) : list Z := seq_of <$> picked (mask_has nb mask (q - fs)) 0 media.
Local Definition fec_numbers : list Z := (fun i => fs + i) <$> seqZ 0 m.

Lemma sent_at p : sent p -> exists n, 0 <= n < k /\ p = zat media n /\ seq_of p = u16 (s + n).
Proof.
  intros [n Hn]%list_elem_of_lookup. assert (Hlt := lookup_lt_Some _ _ _ Hn). exists (Z.of_nat n).
  assert (E : p = zat media (Z.of_nat n)) by (unfold zat; rewrite Nat2Z.id; symmetry; by apply list_lookup_total_correct).
  assert (Hn' : 0 <= Z.of_nat n < k) by (unfold k, Zlen; lia). split; [done|]. split; [done|].
  rewrite E. by apply numbered_zat.
Qed.

Lemma rank_at n : 0 <= n < k -> rank s (u16 (s + n)) = n.
Proof. intros. unfold rank, u16. unfold k in *. zdm. Qed.

Lemma sent_window p : sent p -> in_window s (seq_of p).
Proof.
  intros (n & Hn & _ & ->)%sent_at. split; [apply u16_range|]. rewrite rank_at by done. lia.
Qed.

Lemma sent_inj p q : sent p -> sent q -> seq_of p = seq_of q -> p = q.
Proof.
  intros (n & Hn & -> & E)%sent_at (n' & Hn' & -> & E')%sent_at Eq. rewrite E, E' in Eq.
  apply (f_equal (rank s)) in Eq. rewrite !rank_at in Eq by done. by subst.
Qed.

Lemma sent_zat n : 0 <= n < k -> sent (zat media n).
Proof.
  intros Hn. unfold sent, zat. eapply list_elem_of_lookup_2, list_lookup_lookup_total_lt. unfold k, Zlen in Hn. lia.
Qed.

Lemma nb_bytes : nb = mask_bytes k.
Proof. reflexivity. Qed.

Lemma fec_is_sent i rx : 0 <= i < m -> is_fec i rx ->
  fec_sent sent (rx_ssrc rx) (rx_pkt rx) l_bit (picked (mask_has nb mask i) 0 media).
Proof.
  intros Hi (_ & _ & Hssrc & Hp). destruct Hmask as [O1 O2 O3 O4 O5].
  exists media, mask, i, s. fold nb. rewrite <- Hfecs by done.
  assert (k <= 8 * nb) by (rewrite nb_bytes; apply mask_bytes_enough; lia).
  split; [done|]. split; [done|]. split; [done|]. split; [done|].
  split; [by apply Forall_forall|]. split; [done|]. rewrite Hssrc. split; [done|].
  split; [by apply O3|]. intros j Hj. by apply O4.
Qed.

Lemma frame_arrives rx :
  (exists n, 0 <= n < k /\ is_media n rx) \/ (exists i, 0 <= i < m /\ is_fec i rx) ->
  arrives sent fec_numbers group lo rx.
Proof.
  intros [(n & Hn & Hf & E & Hs)|(i & Hi & Hx)].
  - split; [|rewrite E; by apply Hlo|by rewrite Hf]. unfold rx_ok. rewrite Hf. exists (zat media n).
    split; [by apply sent_zat|]. split; [|done]. rewrite E. symmetry. by apply numbered_zat.
  - assert (Hsent := fec_is_sent i rx Hi Hx). destruct Hx as (Hf & E & Hss & Hp). split.
    + unfold rx_ok. rewrite Hf. by eexists _, _.
    + lia.
    + intros _. split; [unfold fec_numbers; rewrite E; apply (list_elem_of_fmap_2 (fun i => fs + i)), elem_of_seqZ; lia|].
      eexists _, _. split; [exact Hsent|]. unfold group. rewrite E. by replace (fs + i - fs) with i by lia.
Qed.

(** The numbers of a row and its positions. *)
Lemma picked_positions (has : Z -> bool) :
  seq_of <$> picked has 0 media = (fun j => u16 (s + j)) <$> List.filter has (seqZ 0 k).
Proof.
  destruct (entries_picked s has k 0 media) as [H _]; [by rewrite Z.add_0_r|lia|done|intros; unfold k in *; lia|].
  rewrite <- (entries_seqs _ _ H). unfold entries. by rewrite <- list_fmap_compose.
Qed.

Section received.
Context (rxs : list ReceivedPacket).
Definition got_media (n : Z) : Prop := 0 <= n < k /\ exists rx, rx ∈ rxs /\ is_media n rx.
Definition got_row (row : list Z) : Prop := exists rx i, rx ∈ rxs /\ 0 <= i < m /\ is_fec i rx /\ row = row_positions nb mask k i.

(** A position that follows from the rows is a number that follows from the groups. *)
Lemma derivable_numbers n :
  derivable got_media got_row n -> derivable (received_seq rxs) (received_group group rxs) (u16 (s + n)).
Proof.
  induction 1 as [n (Hn & rx & Hrx & Hf & E & _)|row n (rx & i & Hrx & Hi & Hfec & ->) Hin _ IH].
  - apply derive_received. by exists rx.
  - apply (derive_last _ _ (group (fs + i))).
    + exists rx. destruct Hfec as (Hf & -> & _). done.
    + unfold group. replace (fs + i - fs) with i by lia. rewrite picked_positions.
      by apply (list_elem_of_fmap_2 (fun j => u16 (s + j))).
    + unfold group. replace (fs + i - fs) with i by lia. rewrite picked_positions.
      intros t (j & -> & Hj)%list_elem_of_fmap Hne. apply IH; [done|]. by intros ->.
Qed.

Lemma derivable_positions q :
  (forall rx, rx ∈ rxs -> (exists n, 0 <= n < k /\ is_media n rx) \/ (exists i, 0 <= i < m /\ is_fec i rx)) ->
  derivable (received_seq rxs) (received_group group rxs) q ->
  exists n, 0 <= n < k /\ q = u16 (s + n) /\ derivable got_media got_row n.
Proof.
  intros Hrx. induction 1 as [q (rx & Hin & Hf & <-)|g q (rx & Hin & Hf & ->) Hq _ IH].
  - destruct (Hrx rx Hin) as [(n & Hn & Hm')|(i & _ & (Hf' & _))]; [|congruence].
    exists n. split; [done|]. split; [apply Hm'|]. apply derive_received. split; [done|by exists rx].
  - destruct (Hrx rx Hin) as [(n & _ & (Hf' & _))|(i & Hi & Hfec)]; [congruence|].
    assert (Eq : group (rx_seq_num rx) = (fun j => u16 (s + j)) <$> row_positions nb mask k i).
    { destruct Hfec as (_ & -> & _). unfold group. replace (fs + i - fs) with i by lia. apply picked_positions. }
    assert (Hpos : forall j, j ∈ row_positions nb mask k i -> 0 <= j < k).
    { intros j Hj. apply list_elem_of_In, filter_In in Hj as [Hj _]. apply list_elem_of_In, elem_of_seqZ in Hj. lia. }
    rewrite Eq in Hq, IH. apply list_elem_of_fmap in Hq as (n & -> & Hn).
    exists n. split; [by apply Hpos|]. split; [done|].
    apply (derive_last _ _ (row_positions nb mask k i)); [by exists rx, i|done|]. intros t Ht Hne.
    destruct (IH (u16 (s + t))) as (n' & Hn' & E & Hd); [by apply (list_elem_of_fmap_2 (fun j => u16 (s + j)))| |].
    + intros E. apply (f_equal (rank s)) in E. rewrite !rank_at in E by (by apply Hpos). done.
    + apply (f_equal (rank s)) in E. rewrite !rank_at in E by (try done; by apply Hpos). by subst.
Qed.

(** The received list is the frame, in order. *)
Definition is_frame (recovered : list RecoveredPacket) : Prop :=
  Forall2 (fun r p => rec_seq_num r = seq_of p /\ same_packet (rec_pkt r) p) recovered media.

Lemma media_ranked : ranked s seq_of media.
Proof.
  apply (numbered_ranked s sent sent_window s); [done|by apply Forall_forall|unfold k in *; lia].
Qed.

Lemma known_frame recovered :
  Forall (known sent) recovered -> ranked s rec_seq_num recovered ->
  (forall n, 0 <= n < k -> u16 (s + n) ∈ rec_seq_num <$> recovered) -> is_frame recovered.
Proof.
  intros Hkn Hr Hall.
  assert (E : rec_seq_num <$> recovered = seq_of <$> media).
  { assert (Hss : forall l, StronglySorted (fun x y => rank s x < rank s y) l <-> ranked s id l) by done.
    assert (Hf : forall A (ka : A -> Z) l, ranked s ka l -> ranked s id (ka <$> l)).
    { intros A ka l. induction 1 as [|x l Hl IH Hx]; [apply SSorted_nil|]. rewrite fmap_cons.
      apply SSorted_cons; [done|]. by apply Forall_fmap. }
    assert (Hanti : AntiSymm (=) (fun x y : Z => rank s x < rank s y)) by (intros x y; lia).
    eapply (StronglySorted_unique (fun x y => rank s x < rank s y));
      [by apply Hf|by apply Hf, media_ranked|].
    apply NoDup_Permutation; [by eapply ranked_nodup|eapply ranked_nodup, media_ranked|].
    intros q. rewrite !list_elem_of_fmap. split.
    - intros (r & -> & Hin). rewrite Forall_forall in Hkn. destruct (Hkn r Hin) as (p & Hp & Es & _). by exists p.
    - intros (p & -> & Hp). destruct (sent_at p Hp) as (n & Hn & _ & ->).
      by apply list_elem_of_fmap, Hall. }
  unfold is_frame. apply Forall2_same_length_lookup. split.
  { rewrite <- (length_fmap rec_seq_num), E. by rewrite length_fmap. }
  intros i r p Hi Hp. assert (Es : rec_seq_num r = seq_of p).
  { assert (H1 : (rec_seq_num <$> recovered) !! i = Some (rec_seq_num r)) by (by rewrite list_lookup_fmap, Hi).
    rewrite E, list_lookup_fmap, Hp in H1. by injection H1. }
  split; [done|]. rewrite Forall_forall in Hkn.
  destruct (Hkn r) as (p' & Hp' & Es' & Hs); [by eapply list_elem_of_lookup_2|].
  replace p with p'; [done|]. apply sent_inj; [done|by eapply list_elem_of_lookup_2|congruence].
Qed.

(** What the receiver has is what follows from what arrived. *)
Lemma frame_closure :
  (forall rx, rx ∈ rxs -> (exists n, 0 <= n < k /\ is_media n rx) \/ (exists i, 0 <= i < m /\ is_fec i rx)) ->
  exists recovered self, DecodeFEC rxs [] (mkDecoder [] false) = Cont (recovered, self)
    /\ Forall (known sent) recovered /\ ranked s rec_seq_num recovered
    /\ forall n, 0 <= n < k -> u16 (s + n) ∈ rec_seq_num <$> recovered <-> derivable got_media got_row n.
Proof.
  intros Hrx.
  destruct (DecodeFEC_closure s sent sent_window sent_inj (seq_of <$> media) fec_numbers group lo)
    with (rxs := rxs) as ([recovered self] & E & Hkn & Hr & Hin).
  - intros p Hp. by apply list_elem_of_fmap_2.
  - rewrite length_fmap. unfold k, Zlen in Hk. lia.
  - unfold fec_numbers. rewrite length_fmap, length_seqZ. lia.
  - intros q (i & -> & Hi%elem_of_seqZ)%list_elem_of_fmap. lia.
  - apply Forall_forall. intros rx Hrx'. by apply frame_arrives, Hrx.
  - exists recovered, self. split; [done|]. cbn [fst] in *. split; [done|]. split; [done|].
    intros n Hn. rewrite Hin. split; [|by apply derivable_numbers].
    intros H. destruct (derivable_positions _ Hrx H) as (n' & Hn' & E' & Hd).
    apply (f_equal (rank s)) in E'. rewrite !rank_at in E' by done. by subst.
Qed.

End received.
End frame.

(** ** What a whole frame can lose *)

(** The rows that a burst leaves, in the mask of the table and in a mask with its bytes. *)
Lemma burst_positions nb mask sub k m a b rows_of :
  0 < nb -> k <= 8 * nb -> (forall q, 0 <= q < m * nb -> zat mask q = zat sub q) ->
  rows_of = (fun i => row_positions nb mask k i) ->
  forall row, row ∈ rows_left nb sub k m a b ->
    exists i, 0 <= i < m /\ ~ a <= k + i < a + b /\ row = rows_of i.
Proof.
  intros Hnb Hk He -> row (i & -> & Hi)%list_elem_of_fmap. exists i.
  apply list_elem_of_In, filter_In in Hi as [Hi%list_elem_of_In%elem_of_seqZ Hs].
  split; [lia|]. split; [by destruct (in_span_spec a b (k + i))|]. unfold row_positions.
  apply filter_ext_in. intros j Hj%list_elem_of_In%elem_of_seqZ. symmetry.
  apply (mask_has_ext nb _ _ m); [done|done|lia|lia].
Qed.

(** What the sender of a frame starts from.  The numbers of its packets and of the packets
    of error correction lie in a window that does not wrap ([fr_near], [fr_fec]): the
    differences in InsertPackets do not wrap either, and at the wrap it discards packets
    of error correction (forward_error_correction.cc:614). *)
Record frame_ok (alloc : Z -> list Z) (gens media : list Packet) (pf imp s fs lo ssrc : Z) : Prop := mkFrameOk {
  fr_alloc : forall n, 0 <= n -> Zlen (alloc n) = n;
  fr_gens : Zlen gens = kMaxMediaPackets;
  fr_len : 1 <= Zlen media <= 48;
  fr_factor : 0 < pf < 256;
  fr_imp : 0 <= imp <= Zlen media;
  fr_num : numbered s media;
  fr_media : Forall (media_ok (l_ulp_header_size (16 <? Zlen media) - 2)) media;
  fr_rtp : Forall (rtp_ok ssrc) media;
  fr_near : forall n, 0 <= n < Zlen media -> lo <= u16 (s + n) <= lo + 16383;
  fr_fec : lo <= fs /\ fs + GetNumberOfFecPackets (Zlen media) pf - 1 <= lo + 16383
}.

(** What arrives is media packets of the frame and generated packets. *)
Definition from_frame (media gens : list Packet) (s fs ssrc m : Z) (rxs : list ReceivedPacket) : Prop :=
  forall rx, rx ∈ rxs ->
    (exists n, 0 <= n < Zlen media /\ is_media media s n rx) \/ (exists i, 0 <= i < m /\ is_fec fs ssrc gens i rx).

Definition media_arrives (media : list Packet) (s n : Z) (rxs : list ReceivedPacket) : Prop :=
  exists rx, rx ∈ rxs /\ is_media media s n rx.
Definition fec_arrives (gens : list Packet) (fs ssrc i : Z) (rxs : list ReceivedPacket) : Prop :=
  exists rx, rx ∈ rxs /\ is_fec fs ssrc gens i rx.

(** The packets that the sender generates. *)
Lemma frame_generated alloc gens media pf imp uep ty s fs lo ssrc :
  frame_ok alloc gens media pf imp s fs lo ssrc ->
  let k := Zlen media in let m := GetNumberOfFecPackets k pf in
  exists mask gens',
    GeneratePacketMasks (R := Z * list Packet * list Z) k m imp uep (new_PacketMaskTable ty k)
      (mask_buffer alloc k m) = Cont mask
    /\ 1 <= m <= k /\ mask_ok k m mask
    /\ GenerateFEC alloc gens media pf imp uep ty = Cont (0, gens', seqZ 0 m)
    /\ forall i, 0 <= i < m -> zat gens' i = fec_of (16 <? k) media mask i.
Proof.
  intros [Ha Hg Hk Hp Hi Hs Hm Hr Hn Hf] k m.
  destruct (GenerateFEC_rows alloc gens media pf imp uep ty s) as (mask & gens' & Emask & Hok & Egen & Hlen & Hrows);
    [done..|].
  exists mask, gens'. split; [done|]. split; [apply GetNumberOfFecPackets_bounds; unfold k; lia|]. done.
Qed.

(** Position [n] follows from the packets that arrive. *)
Definition follows (media gens : list Packet) (mask : list Z) (s fs ssrc m : Z) (rxs : list ReceivedPacket) : Z -> Prop :=
  derivable (fun n => 0 <= n < Zlen media /\ media_arrives media s n rxs)
    (fun row => exists i, 0 <= i < m /\ fec_arrives gens fs ssrc i rxs /\
       row = row_positions (mask_bytes (Zlen media)) mask (Zlen media) i).

Lemma frame_received alloc gens media pf imp s fs lo ssrc mask gens' rxs :
  frame_ok alloc gens media pf imp s fs lo ssrc ->
  let k := Zlen media in let m := GetNumberOfFecPackets k pf in
  1 <= m <= k -> mask_ok k m mask -> (forall i, 0 <= i < m -> zat gens' i = fec_of (16 <? k) media mask i) ->
  from_frame media gens' s fs ssrc m rxs ->
  exists recovered self, DecodeFEC rxs [] (mkDecoder [] false) = Cont (recovered, self)
    /\ Forall (known (fun p => p ∈ media)) recovered /\ ranked s rec_seq_num recovered
    /\ (forall n, 0 <= n < k -> u16 (s + n) ∈ rec_seq_num <$> recovered <-> follows media gens' mask s fs ssrc m rxs n)
    /\ ((forall n, 0 <= n < k -> follows media gens' mask s fs ssrc m rxs n) -> is_frame media recovered).
Proof.
  intros [Ha Hg Hk Hp Hi Hs Hm Hr Hn Hf] k m Hmk Hok Hrows Hfrom.
  destruct (frame_closure media s fs lo ssrc m mask gens' Hk Hmk Hs Hm Hr Hok Hrows Hn Hf rxs Hfrom)
    as (recovered & self & E & Hkn & Hrk & Hcl).
  assert (Hiff : forall n, 0 <= n < k -> u16 (s + n) ∈ rec_seq_num <$> recovered <-> follows media gens' mask s fs ssrc m rxs n).
  { intros n Hn'. rewrite (Hcl n Hn'). split; apply derivable_mono; try done.
    - intros row (rx & i & Hrx & Hi' & Hfec & ->). exists i. split; [done|]. by split; [exists rx|].
    - intros row (i & Hi' & (rx & Hrx & Hfec) & ->). by exists rx, i. }
  exists recovered, self. split; [done|]. split; [done|]. split; [done|]. split; [done|].
  intros Hall. apply (known_frame media s Hk Hs); [done|done|]. intros n Hn'. by apply Hiff, Hall.
Qed.

(** ** A small frame on its way *)

Definition ex_gens : list Packet := replicate 48 cleared.
Definition ex_alloc (n : Z) : list Z := replicate (Z.to_nat n) 170.
Definition ex_fec_rx (gens : list Packet) (i : Z) : ReceivedPacket := mkReceived (200 + i) 7 true (zat gens i).

Lemma ex_frame_ok : frame_ok ex_alloc ex_gens ex_media 128 1 100 200 0 7.
Proof.
  split.
  - intros n Hn. by apply Zlen_replicate.
  - reflexivity.
  - vm_compute. split; discriminate.
  - lia.
  - vm_compute. split; discriminate.
  - repeat split.
  - apply Forall_forall. intros p (n & Hn & ->)%ex_media_in. by apply ex_packet_ok.
  - apply Forall_forall. intros p (n & Hn & ->)%ex_media_in. by apply ex_packet_ok.
  - change (Zlen ex_media) with 3. intros n Hn. unfold u16. zdm.
  - vm_compute. repeat split; discriminate.
Qed.

Lemma ex_is_media n : 0 <= n < 3 -> is_media ex_media 100 n (ex_rx n).
Proof.
  intros Hn. split; [done|]. split; [cbn [ex_rx rx_seq_num]; rewrite u16_id; [done|unfold is_u16; lia]|].
  assert (E : zat ex_media n = ex_packet n)
    by (assert (n = 0 \/ n = 1 \/ n = 2) as [-> |[-> | ->]] by lia; reflexivity).
  rewrite E. split; [done|]. split; [by destruct n|done].
Qed.

(** The generated packets have their arrays. *)
Lemma ex_is_fec gens gens' uep ty l i :
  GenerateFEC ex_alloc gens ex_media 128 1 uep ty = Cont (0, gens', l) ->
  match GenerateFEC ex_alloc gens ex_media 128 1 uep ty with
  | Cont (_, g, _) => forallb (fun p => Zlen (pkt_data p) =? IP_PACKET_SIZE) g && (2 <=? Zlen g)
  | _ => false
  end = true ->
  0 <= i < 2 -> is_fec 200 7 gens' i (ex_fec_rx gens' i).
Proof.
  intros -> [H Hl%Z.leb_le]%andb_true_iff Hi. split; [done|]. split; [done|]. split; [done|]. split; [done|].
  split; [|done]. rewrite forallb_forall in H. apply Z.eqb_eq, H, list_elem_of_In.
  unfold zat. eapply list_elem_of_lookup_2, list_lookup_lookup_total_lt. unfold Zlen in Hl. lia.
Qed.

(** After a burst every position follows from what is left. *)
Lemma burst_follows alloc gens media pf imp s fs lo ssrc mask gens' rxs a b :
  frame_ok alloc gens media pf imp s fs lo ssrc -> Zlen media <= 12 ->
  let k := Zlen media in let m := GetNumberOfFecPackets k pf in
  GeneratePacketMasks (R := Z * list Packet * list Z) k m imp false (new_PacketMaskTable kFecMaskBursty k)
    (mask_buffer alloc k m) = Cont mask ->
  1 <= m <= k -> 0 <= b <= m -> 0 <= a -> a + b <= k + m ->
  (forall n, 0 <= n < k -> ~ a <= n < a + b -> media_arrives media s n rxs) ->
  (forall i, 0 <= i < m -> ~ a <= k + i < a + b -> fec_arrives gens' fs ssrc i rxs) ->
  forall n, 0 <= n < k -> follows media gens' mask s fs ssrc m rxs n.
Proof.
  intros Hframe Hk12 k m Emask Hmk Hb Ha Hab Hmed Hfec. unfold follows.
  assert (Hk : 1 <= k <= 48) by apply Hframe.
  destruct (new_table_serves kFecMaskBursty k Hk (Z * list Packet * list Z)%type k m) as (sub & Et & _ & _); [lia|lia|].
  assert (Heq := GeneratePacketMasks_equal k m imp _ _ mask sub ltac:(lia) Emask Et).
  rewrite bursty_table in Et by (unfold k; lia).
  assert (Hrep := table_repairs _ _ k m a b sub bursty_table_repairs Hmk ltac:(rewrite bursty_table_len; done) Hb Ha Hab Et).
  assert (Hb2 : mask_bytes k = 2) by (destruct (mask_bytes_cases k) as [[? _]|[_ ?]]; unfold k in *; lia).
  change (Zlen media) with k. change (GetNumberOfFecPackets k pf) with m. rewrite Hb2 in *.
  unfold burst_repaired in Hrep. destruct (peel _ _ _) as [|? ?] eqn:Ep in Hrep; [|done].
  eapply peel_derivable; [|intros n Hn Hnot; apply derive_received; split; [done|apply Hmed; [done|]]|exact Ep].
  - intros row Hrow.
    destruct (burst_positions 2 mask sub k m a b _ ltac:(lia) ltac:(unfold k; lia) Heq eq_refl row Hrow) as (i & Hi & Hni & ->).
    split; [exists i; split; [done|]; split; [by apply Hfec|done]|].
    apply Forall_forall. intros j Hj. apply list_elem_of_In, filter_In in Hj as [Hj _].
    apply list_elem_of_In, elem_of_seqZ in Hj. lia.
  - intros Hin. apply Hnot. apply list_elem_of_In, filter_In. split; [apply list_elem_of_In, elem_of_seqZ; lia|].
    by destruct (in_span_spec a b n).
Qed.

(** After the loss of one media packet every position follows. *)
Lemma single_follows alloc gens media pf imp s fs lo ssrc mask gens' rxs lost :
  frame_ok alloc gens media pf imp s fs lo ssrc ->
  let k := Zlen media in let m := GetNumberOfFecPackets k pf in
  mask_ok k m mask ->
  (forall n, 0 <= n < k -> n <> lost -> media_arrives media s n rxs) ->
  (forall i, 0 <= i < m -> fec_arrives gens' fs ssrc i rxs) ->
  forall n, 0 <= n < k -> follows media gens' mask s fs ssrc m rxs n.
Proof.
  intros Hframe k m Hok Hmed Hfec n Hn. unfold follows.
  destruct (decide (n = lost)) as [->|Hne]; [|apply derive_received; by split; [|apply Hmed]].
  destruct (ok_cover _ _ _ Hok lost Hn) as (i & Hi & Hh).
  apply (derive_last _ _ (row_positions (mask_bytes k) mask k i)).
  - exists i. split; [done|]. split; [by apply Hfec|done].
  - apply list_elem_of_In, filter_In. split; [apply list_elem_of_In, elem_of_seqZ; unfold k; lia|done].
  - intros t Ht Htl. apply list_elem_of_In, filter_In in Ht as [Ht _]. apply list_elem_of_In, elem_of_seqZ in Ht.
    apply derive_received. split; [unfold k in *; lia|]. apply Hmed; [unfold k in *; lia|done].
Qed.

(** ** The properties *)

(** A frame of up to 12 packets sent with the masks for bursts survives every burst
    of at most as many consecutive packets, of the frame followed by its packets of error
    correction, as there are packets of error correction: from whatever arrives otherwise,
    in any order and with repetitions, DecodeFEC returns the frame, in order. *)
Theorem burst_recovered alloc gens media pf imp s fs lo ssrc :
  frame_ok alloc gens media pf imp s fs lo ssrc -> Zlen media <= 12 ->
  let k := Zlen media in let m := GetNumberOfFecPackets k pf in
  exists gens', GenerateFEC alloc gens media pf imp false kFecMaskBursty = Cont (0, gens', seqZ 0 m)
  /\ forall rxs a b, from_frame media gens' s fs ssrc m rxs ->
     0 <= b <= m -> 0 <= a -> a + b <= k + m ->
     (forall n, 0 <= n < k -> ~ a <= n < a + b -> media_arrives media s n rxs) ->
     (forall i, 0 <= i < m -> ~ a <= k + i < a + b -> fec_arrives gens' fs ssrc i rxs) ->
     exists recovered self, run_flow (DecodeFEC rxs [] (mkDecoder [] false)) = Some (recovered, self)
       /\ is_frame media recovered.
Proof.
  intros Hframe Hk12 k m.
  destruct (frame_generated alloc gens media pf imp false kFecMaskBursty s fs lo ssrc Hframe)
    as (mask & gens' & Emask & Hmk & Hok & Egen & Hrows).
  exists gens'. split; [exact Egen|]. intros rxs a b Hfrom Hb Ha Hab Hmed Hfec.
  destruct (frame_received _ _ _ _ _ _ _ _ _ mask gens' rxs Hframe Hmk Hok Hrows Hfrom)
    as (recovered & self & E & _ & _ & _ & Hall).
  exists recovered, self. rewrite E. split; [done|]. apply Hall.
  by apply (burst_follows _ _ _ _ _ _ _ _ _ _ _ _ _ _ Hframe Hk12 Emask Hmk Hb Ha Hab).
Qed.

(** With any masks, a frame of up to 48 packets survives the loss of any one media
    packet: when the others and the packets of error correction arrive, in any order and
    with repetitions, DecodeFEC returns the frame, in order. *)
Theorem single_loss_recovered alloc gens media pf imp uep ty s fs lo ssrc :
  frame_ok alloc gens media pf imp s fs lo ssrc ->
  let k := Zlen media in let m := GetNumberOfFecPackets k pf in
  exists gens', GenerateFEC alloc gens media pf imp uep ty = Cont (0, gens', seqZ 0 m)
  /\ forall rxs lost, from_frame media gens' s fs ssrc m rxs ->
     (forall n, 0 <= n < k -> n <> lost -> media_arrives media s n rxs) ->
     (forall i, 0 <= i < m -> fec_arrives gens' fs ssrc i rxs) ->
     exists recovered self, run_flow (DecodeFEC rxs [] (mkDecoder [] false)) = Some (recovered, self)
       /\ is_frame media recovered.
Proof.
  intros Hframe k m.
  destruct (frame_generated alloc gens media pf imp uep ty s fs lo ssrc Hframe)
    as (mask & gens' & _ & Hmk & Hok & Egen & Hrows).
  exists gens'. split; [exact Egen|]. intros rxs lost Hfrom Hmed Hfec.
  destruct (frame_received _ _ _ _ _ _ _ _ _ mask gens' rxs Hframe Hmk Hok Hrows Hfrom)
    as (recovered & self & E & _ & _ & _ & Hall).
  exists recovered, self. rewrite E. split; [done|]. apply Hall.
  by apply (single_follows _ _ _ _ _ _ _ _ _ _ _ _ lost Hframe Hok).
Qed.

(** The second and the third packet are lost; the first one arrives last. *)
Lemma burst_recovered_witness :
  frame_ok ex_alloc ex_gens ex_media 128 1 100 200 0 7 /\
  exists gens', GenerateFEC ex_alloc ex_gens ex_media 128 1 false kFecMaskBursty = Cont (0, gens', [0; 1]) /\
  exists recovered self,
    run_flow (DecodeFEC [ex_fec_rx gens' 1; ex_fec_rx gens' 0; ex_rx 0] [] (mkDecoder [] false)) = Some (recovered, self)
    /\ is_frame ex_media recovered.
Proof.
  split; [apply ex_frame_ok|].
  destruct (burst_recovered ex_alloc ex_gens ex_media 128 1 100 200 0 7 ex_frame_ok) as (gens' & E & H);
    [vm_compute; discriminate|].
  exists gens'. split; [exact E|].
  assert (Hfec : forall i, 0 <= i < 2 -> is_fec 200 7 gens' i (ex_fec_rx gens' i))
    by (intros i; apply (ex_is_fec _ _ _ _ _ _ E); vm_compute; reflexivity).
  clear E. apply (H _ 1 2); [|vm_compute; repeat split; discriminate|lia|vm_compute; discriminate| |].
  - intros rx Hrx. rewrite !elem_of_cons in Hrx. destruct Hrx as [-> |[-> |[-> |Hrx]]]; [right|right|left|by apply elem_of_nil in Hrx].
    + exists 1. split; [by vm_compute|by apply Hfec].
    + exists 0. split; [by vm_compute|by apply Hfec].
    + exists 0. split; [by vm_compute|by apply ex_is_media].
  - change (Zlen ex_media) with 3. intros n Hn Hs. replace n with 0 by lia. exists (ex_rx 0).
    split; [rewrite !elem_of_cons; auto|by apply ex_is_media].
  - change (GetNumberOfFecPackets (Zlen ex_media) 128) with 2. intros i Hi _. exists (ex_fec_rx gens' i).
    split; [|by apply Hfec]. rewrite !elem_of_cons. assert (i = 0 \/ i = 1) as [-> | ->] by lia; auto.
Defined.

(** The first packet is lost. *)
Lemma single_loss_recovered_witness :
  frame_ok ex_alloc ex_gens ex_media 128 1 100 200 0 7 /\
  exists gens', GenerateFEC ex_alloc ex_gens ex_media 128 1 true kFecMaskRandom = Cont (0, gens', [0; 1]) /\
  exists recovered self,
    run_flow (DecodeFEC [ex_rx 2; ex_fec_rx gens' 1; ex_rx 1; ex_fec_rx gens' 0] [] (mkDecoder [] false)) = Some (recovered, self)
    /\ is_frame ex_media recovered.
Proof.
  split; [apply ex_frame_ok|].
  destruct (single_loss_recovered ex_alloc ex_gens ex_media 128 1 true kFecMaskRandom 100 200 0 7 ex_frame_ok)
    as (gens' & E & H).
  exists gens'. split; [exact E|].
  assert (Hfec : forall i, 0 <= i < 2 -> is_fec 200 7 gens' i (ex_fec_rx gens' i))
    by (intros i; apply (ex_is_fec _ _ _ _ _ _ E); vm_compute; reflexivity).
  clear E. apply (H _ 0).
  - intros rx Hrx. rewrite !elem_of_cons in Hrx. destruct Hrx as [-> |[-> |[-> |[-> |Hrx]]]]; [left|right|left|right|by apply elem_of_nil in Hrx].
    + exists 2. split; [by vm_compute|by apply ex_is_media].
    + exists 1. split; [by vm_compute|by apply Hfec].
    + exists 1. split; [by vm_compute|by apply ex_is_media].
    + exists 0. split; [by vm_compute|by apply Hfec].
  - change (Zlen ex_media) with 3. intros n Hn Hs. exists (ex_rx n). split; [|by apply ex_is_media].
    rewrite !elem_of_cons. assert (n = 1 \/ n = 2) as [-> | ->] by lia; auto.
  - change (GetNumberOfFecPackets (Zlen ex_media) 128) with 2. intros i Hi. exists (ex_fec_rx gens' i).
    split; [|by apply Hfec]. rewrite !elem_of_cons. assert (i = 0 \/ i = 1) as [-> | ->] by lia; auto.
Defined.

(** C15: With any masks and whatever part of a frame and its packets of error correction
    arrives at a new decoder, in any order and with repetitions, DecodeFEC returns packets
    of the frame alone, in order, and exactly those that follow from what arrived by the
    rule that a packet of error correction gives the one packet of its row that is missing.
    This holds for a frame whose numbers, with those of its packets of error correction, do
    not pass the wrap from 65535 to 0 ([frame_ok]): there InsertPackets takes the distance
    of two numbers for a large one and discards packets of error correction. *)
Theorem DecodeFEC_frame_closure alloc gens media pf imp uep ty s fs lo ssrc :
  frame_ok alloc gens media pf imp s fs lo ssrc ->
  let k := Zlen media in let m := GetNumberOfFecPackets k pf in
  exists mask gens',
    GeneratePacketMasks (R := Z * list Packet * list Z) k m imp uep (new_PacketMaskTable ty k)
      (mask_buffer alloc k m) = Cont mask
    /\ GenerateFEC alloc gens media pf imp uep ty = Cont (0, gens', seqZ 0 m)
    /\ forall rxs, from_frame media gens' s fs ssrc m rxs ->
       exists recovered self, run_flow (DecodeFEC rxs [] (mkDecoder [] false)) = Some (recovered, self)
         /\ (forall r, r ∈ recovered -> exists p, p ∈ media /\ rec_seq_num r = seq_of p /\ same_packet (rec_pkt r) p)
         /\ ranked s rec_seq_num recovered
         /\ forall n, 0 <= n < k -> u16 (s + n) ∈ rec_seq_num <$> recovered <-> follows media gens' mask s fs ssrc m rxs n.
Proof.
  intros Hframe k m.
  destruct (frame_generated alloc gens media pf imp uep ty s fs lo ssrc Hframe)
    as (mask & gens' & Emask & Hmk & Hok & Egen & Hrows).
  exists mask, gens'. split; [exact Emask|]. split; [exact Egen|]. intros rxs Hfrom.
  destruct (frame_received _ _ _ _ _ _ _ _ _ mask gens' rxs Hframe Hmk Hok Hrows Hfrom)
    as (recovered & self & E & Hkn & Hr & Hcl & _).
  exists recovered, self. rewrite E. split; [done|]. split; [by apply Forall_forall|done].
Qed.

(** The first packet and one packet of error correction arrive. *)
Lemma DecodeFEC_frame_closure_witness :
  exists mask gens',
    GenerateFEC ex_alloc ex_gens ex_media 128 1 true kFecMaskBursty = Cont (0, gens', [0; 1]) /\
    exists recovered self,
      run_flow (DecodeFEC [ex_rx 0; ex_fec_rx gens' 1] [] (mkDecoder [] false)) = Some (recovered, self)
      /\ forall n, 0 <= n < 3 -> u16 (100 + n) ∈ rec_seq_num <$> recovered <->
           follows ex_media gens' mask 100 200 7 2 [ex_rx 0; ex_fec_rx gens' 1] n.
Proof.
  destruct (DecodeFEC_frame_closure ex_alloc ex_gens ex_media 128 1 true kFecMaskBursty 100 200 0 7 ex_frame_ok)
    as (mask & gens' & _ & E & H).
  exists mask, gens'. split; [exact E|].
  assert (Hfec : is_fec 200 7 gens' 1 (ex_fec_rx gens' 1))
    by (apply (ex_is_fec _ _ _ _ _ _ E); [vm_compute; reflexivity|lia]).
  clear E. destruct (H [ex_rx 0; ex_fec_rx gens' 1]) as (recovered & self & E & _ & _ & Hcl).
  - intros rx Hrx. rewrite !elem_of_cons in Hrx. destruct Hrx as [-> |[-> |Hrx]]; [left|right|by apply elem_of_nil in Hrx].
    + exists 0. split; [by vm_compute|by apply ex_is_media].
    + exists 1. split; [by vm_compute|exact Hfec].
  - exists recovered, self. split; [exact E|exact Hcl].
Defined.


