(* ===== verification/FecErrors.v ===== *)
(** * Packets of error correction that the receiver does not survive

    [InitRecovery] copies as many bytes as the packet says, and [AssignRecoveredPackets]
    takes numbers that are 32768 apart for equal ones and then looks for the number
    itself: both leave their objects on packets that a sender is free to make. *)
From S2P Require Import Prelude Pointwise RtpWire FecTables FecPacket FecRecover FecReceive FecSession.
Local Open Scope Z_scope.

(** A packet of error correction for the media packet [base] alone, with [n] as its
    protection length, in the buffer of the receiver. *)
Definition claims_length (base n : Z) (payload : list Z) : Packet :=
  mkPacket 30 ([0; 0] ++ be16 base ++ [0; 0; 0; 0; 0; 0] ++ be16 n ++ [128; 0] ++ payload).

Lemma claims_word {R} v a b :
  is_u16 v -> a = u8 (Z.shiftr v 8) -> b = u8 v -> Cont (R := R) (u16 (Z.shiftl a 8 + b)) = Cont v.
Proof. intros Hv -> ->. rewrite bytes16. by rewrite !u16_id by (done || apply u16_range). Qed.

Lemma claims_base {R} base n payload :
  is_u16 base -> BufferToUWord16 (R := R) (pkt_data (claims_length base n payload)) 2 = Cont base.
Proof. intros Hb. by apply claims_word. Qed.

Lemma claims_protects {R} base n payload :
  is_u16 base ->
  protected_packets (R := R) (pkt_data (claims_length base n payload)) base 2 = Cont [mkProtected base None].
Proof.
  intros Hb.
  change (Cont (R := R) [mkProtected (u16 (base + 0 + 0)) None] = Cont [mkProtected base None]).
  by rewrite !Z.add_0_r, u16_id.
Qed.

Definition fresh : FecDecoder := mkDecoder [] false.

(** The packet is in the lists of a new decoder, with what is known of its one packet. *)
Lemma claims_inserted {R} seq ssrc base n payload recovered :
  is_u16 base ->
  InsertFECPacket (R := R) (mkReceived seq ssrc true (claims_length base n payload)) recovered fresh
  = let! l := AssignRecoveredPackets [mkProtected base None] recovered in
    Cont (mkDecoder [mkFecPacket seq l ssrc (claims_length base n payload)] true).
Proof.
  intros Hb. unfold InsertFECPacket. cbn [fresh fec_packet_list_ existsb rx_pkt].
  rewrite claims_base by done. cbn [flow_bind].
  change (rd (R := R) (pkt_data (claims_length base n payload)) 0) with (Cont (R := R) 0). cbn [flow_bind].
  change (l_mask_bytes (negb (Z.land 0 64 =? 0))) with 2. rewrite claims_protects by done. cbn [flow_bind].
  done.
Qed.

Lemma claims_overrun {R} fp seq base n payload u :
  is_u16 n -> 1486 < n -> Zlen payload = 1486 ->
  RecoverPacket (R := R) (mkFecPacket fp [mkProtected base None] seq (claims_length base n payload)) u = Stuck.
Proof.
  intros Hn Hn2 Hp. unfold RecoverPacket, InitRecovery. cbn [fp_pkt].
  change (rd (R := R) (pkt_data (claims_length base n payload)) 0) with (Cont (R := R) 0). cbn [flow_bind].
  change (l_ulp_header_size (negb (Z.land 0 64 =? 0))) with 4.
  assert (Hl : Zlen (pkt_data (claims_length base n payload)) = 1500).
  { cbn [claims_length pkt_data]. rewrite ?(@Zlen_app Z), ?(@Zlen_cons Z), Hp. reflexivity. }
  rewrite (blk_get_Cont _ 10 2) by lia. cbn [flow_bind].
  change (ztake 2 (zdrop 10 (pkt_data (claims_length base n payload)))) with (be16 n ++ []).
  rewrite (Word16_be [] n [] 0 eq_refl : BufferToUWord16 (be16 n ++ []) 0 = _). cbn [flow_bind].
  rewrite u16_id by done. unfold copy, kFecHeaderSize, blk_get. rewrite Hl.
  by rewrite (proj2 (Z.leb_gt (10 + 4 + n) 1500)), andb_false_r by lia.
Qed.

Lemma recover_all_stuck {R} fuel f fecs recovered :
  NumCoveredPacketsMissing f = 1 -> (forall R, RecoverPacket (R := R) f 0 = Stuck) ->
  recover_all (R := R) (S fuel) 0 (f :: fecs) recovered = Stuck.
Proof. intros H1 H2. cbn [recover_all lookup list_lookup]. by rewrite H1, H2. Qed.

Lemma opposite_numbers q : is_u16 q ->
  u16 (q + 32768) <> q /\ LessThan q (u16 (q + 32768)) = false /\ LessThan (u16 (q + 32768)) q = false.
Proof.
  unfold is_u16. intros Hq. unfold LessThan, IsNewerSequenceNumber.
  assert (E : u16 (q + 32768) - q = 32768 \/ u16 (q + 32768) - q = -32768) by (unfold u16; zdm).
  split; [lia|]. split; apply andb_false_intro2.
  - by destruct E as [-> | ->].
  - replace (q - u16 (q + 32768)) with (- (u16 (q + 32768) - q)) by lia. by destruct E as [-> | ->].
Qed.

(** C33: A new receiver does not survive one packet of error correction whose protection
    length is above 1486, as it copies that many bytes out of the packet; and after any
    media packet it does not survive a packet of error correction for the number 32768
    away, as the search for that number passes the end of the list. *)
Theorem received_fec_overruns seq ssrc n payload :
  is_u16 n -> Zlen payload = 1486 ->
  (forall base, is_u16 base -> 1486 < n ->
     DecodeFEC [mkReceived seq ssrc true (claims_length base n payload)] [] fresh = Stuck)
  /\ forall q p, is_u16 q ->
     DecodeFEC [mkReceived q ssrc false p;
                mkReceived seq ssrc true (claims_length (u16 (q + 32768)) n payload)] [] fresh = Stuck.
Proof.
  intros Hn Hp. split.
  - intros base Hb Hn2. unfold DecodeFEC, InsertPackets. cbn [insert_packets rx_is_fec].
    change (Zlen [] =? kMaxMediaPackets) with false. cbn [flow_bind].
    change (discard_far _ fresh) with fresh. rewrite claims_inserted by done.
    change (AssignRecoveredPackets [mkProtected base None] []) with
      (Cont (R := list RecoveredPacket * FecDecoder) [mkProtected base None]).
    cbn [flow_bind]. change (DiscardOldPackets []) with (@nil RecoveredPacket). 
    unfold AttemptRecover. cbn [fec_packet_list_ length Nat.add Nat.mul].
    rewrite recover_all_stuck; [done|reflexivity|]. intros R. by apply claims_overrun.
  - intros q p Hq. destruct (opposite_numbers q Hq) as (Hne & H1 & H2).
    unfold DecodeFEC, InsertPackets. cbn [insert_packets rx_is_fec].
    change (Zlen [] =? kMaxMediaPackets) with false. cbn [flow_bind].
    change (discard_far _ fresh) with fresh.
    change (InsertMediaPacket (mkReceived q ssrc false p) [] fresh) with ([mkRecovered q false true [0; 0] p], fresh).
    cbv beta iota. change (discard_far _ fresh) with fresh. rewrite claims_inserted by apply u16_range.
    unfold AssignRecoveredPackets. cbn [set_intersection rec_seq_num pp_seq_num]. rewrite H1, H2.
    cbn [assign_loop pp_seq_num rec_seq_num]. by rewrite (proj2 (Z.eqb_neq _ _) Hne).
Qed.

Lemma received_fec_overruns_witness :
  DecodeFEC [mkReceived 1 7 true (claims_length 100 1487 (replicate 1486 0))] [] fresh = Stuck
  /\ DecodeFEC [mkReceived 40000 7 false (ex_packet 0);
                mkReceived 1 7 true (claims_length 7232 1487 (replicate 1486 0))] [] fresh = Stuck.
Proof.
  destruct (received_fec_overruns 1 7 1487 (replicate 1486 0)) as [H1 H2]; [split; reflexivity || discriminate|reflexivity|].
  split; [apply H1; [split; reflexivity || discriminate|reflexivity]|].
  apply (H2 40000 (ex_packet 0)). split; reflexivity || discriminate.
Defined.
