(* ===== verification/FecStream.v ===== *)
(** * Packets as they arrive, one by one

    The receiver decodes after every packet.  [steady] says what it has then: exactly what
    follows from the packets that arrived, as after one call with all of them
    ([FecDecode]), and nothing more to recover; and which packets were handed out. *)
From S2P Require Import Prelude Pointwise RtpWire FecTables FecPacket FecEncode FecRecover FecReceive FecSession FecDecode.
From Stdlib Require Import Sorted.
Local Open Scope Z_scope.

Section stream.
Context (base : Z) (W : Packet -> Prop).
Hypothesis W_window : forall p, W p -> in_window base (seq_of p).
Hypothesis W_inj : forall p q, W p -> W q -> seq_of p = seq_of q -> p = q.
Context (seqs fec_seqs : list Z) (G : Z -> list Z) (lo : Z).
Hypothesis W_seqs : forall p, W p -> seq_of p ∈ seqs.
Hypothesis few_media : (length seqs < 48)%nat.
Hypothesis few_fec : (length fec_seqs <= 48)%nat.
Hypothesis fec_near : forall q, q ∈ fec_seqs -> lo <= q <= lo + 16383.

Local Abbreviation arrives := (arrives W fec_seqs G lo).
Local Abbreviation searched := (searched base W G).

Definition of_group (f : FecPacket) : Prop := sig f = (fp_seq_num f, G (fp_seq_num f)) /\ fp_seq_num f ∈ fec_seqs.

Record collected (arrived : list ReceivedPacket) (recovered : list RecoveredPacket) (fecs : list FecPacket) : Prop := mkCollected {
  co_searched : searched arrived recovered fecs;
  co_sig : Forall of_group fecs;
  co_once : NoDup (fp_seq_num <$> fecs)
}.

Definition steady (arrived : list ReceivedPacket) (recovered : list RecoveredPacket) (fecs : list FecPacket) : Prop :=
  collected arrived recovered fecs /\ settled fecs.

Lemma steady_new : steady [] [] [].
Proof.
  split; [|by constructor]. split; [|by constructor|by constructor]. split; [split; constructor| | |by constructor|by constructor|].
  - by intros s (x & ?%elem_of_nil & _).
  - by intros s ?%elem_of_nil.
  - by intros g (x & ?%elem_of_nil & _).
Qed.

(** ** One packet is taken in *)

Lemma received_group_app arrived rx g :
  received_group G (arrived ++ [rx]) g <->
  received_group G arrived g \/ (rx_is_fec rx = true /\ g = G (rx_seq_num rx)).
Proof.
  unfold received_group. split.
  - intros (x & [Hx|Hx%list_elem_of_singleton]%elem_of_app & Hf & ->); [left; by exists x|right; by subst].
  - intros [(x & Hx & Hf & ->)|[Hf ->]]; [exists x|exists rx]; rewrite elem_of_app, list_elem_of_singleton; auto.
Qed.

Lemma received_seq_app arrived rx s :
  received_seq (arrived ++ [rx]) s <-> received_seq arrived s \/ (rx_is_fec rx = false /\ s = rx_seq_num rx).
Proof.
  unfold received_seq. split.
  - intros (x & [Hx|Hx%list_elem_of_singleton]%elem_of_app & Hf & <-); [left; by exists x|right; by subst].
  - intros [(x & Hx & Hf & <-)|[Hf ->]]; [exists x|exists rx]; rewrite elem_of_app, list_elem_of_singleton; auto.
Qed.

Lemma derivable_more arrived rx s :
  derivable (received_seq arrived) (received_group G arrived) s ->
  derivable (received_seq (arrived ++ [rx])) (received_group G (arrived ++ [rx])) s.
Proof.
  apply derivable_mono; [intros t Ht; apply received_seq_app|intros g Hg; apply received_group_app]; by left.
Qed.

Lemma group_more arrived rx fecs :
  Forall (fun f => received_group G arrived (snd (sig f))) fecs ->
  Forall (fun f => received_group G (arrived ++ [rx]) (snd (sig f))) fecs.
Proof. intros H. eapply Forall_impl; [exact H|]. intros f Hf. apply received_group_app. by left. Qed.

Lemma of_group_sigs fecs fecs' : sig <$> fecs' = sig <$> fecs -> Forall of_group fecs -> Forall of_group fecs'.
Proof.
  intros E H. apply (sigs_forall (fun g => g = (g.1, G g.1) /\ g.1 ∈ fec_seqs) fecs); [done|].
  eapply Forall_impl; [exact H|]. intros f [Hf Hin]. rewrite Hf. done.
Qed.

Lemma collect_media arrived recovered self rx :
  arrives rx -> rx_is_fec rx = false -> collected arrived recovered (fec_packet_list_ self) ->
  let '(recovered', self') := InsertMediaPacket rx recovered self in
  collected (arrived ++ [rx]) recovered' (fec_packet_list_ self').
Proof.
  intros [Hok _ _] Hm [[S1 S2 S3 S4 S5 S6] Hs Ho].
  assert (Hi := InsertMediaPacket_inv base W W_window W_inj rx recovered self Hm Hok S1).
  destruct (InsertMediaPacket _ _ _) as [recovered' self']. destruct Hi as (I1 & I2 & I3 & I4).
  split; [|by eapply of_group_sigs|by rewrite (sigs_seqs _ _ I3)]. split; [done| | |by apply I4| |].
  - intros s [Hr|[_ ->]]%received_seq_app; apply I2; [right; by apply S2|by left].
  - intros s [->|Hr]%I2; [|by apply derivable_more, S3].
    apply derive_received, received_seq_app. by right.
  - apply (sigs_forall (fun g => received_group G (arrived ++ [rx]) g.2) (fec_packet_list_ self)); [done|].
    by apply group_more.
  - intros g [Hg|[Hf _]]%received_group_app; [|congruence]. rewrite I3.
    destruct (S6 g Hg) as [|Hall]; [by left|]. right. intros s Hin. apply I2. right. by apply Hall.
Qed.

Lemma collect_fec {R} arrived recovered self rx :
  arrives rx -> rx_is_fec rx = true -> collected arrived recovered (fec_packet_list_ self) ->
  gives (InsertFECPacket (R := R) rx recovered self)
    (fun self' => collected (arrived ++ [rx]) recovered (fec_packet_list_ self')).
Proof.
  intros [Hok _ Hfec] Hm [[S1 S2 S3 S4 S5 S6] Hs Ho]. destruct (Hfec Hm) as (Hq & l_bit & l & Hsent & HG).
  eapply gives_weaken; [by apply (InsertFECPacket_inv base W)|]. intros self' [Hinv Hc].
  assert (B2 : forall s, received_seq (arrived ++ [rx]) s -> s ∈ rec_seq_num <$> recovered)
    by (intros s [Hr|[Hf _]]%received_seq_app; [by apply S2|congruence]).
  assert (B3 : forall s, s ∈ rec_seq_num <$> recovered ->
    derivable (received_seq (arrived ++ [rx])) (received_group G (arrived ++ [rx])) s)
    by (intros s Hin; by apply derivable_more, S3).
  destruct Hc as [[Hdup E]|(Hnew & f & fecs & l_bit' & l' & Hsent' & Hsig & Hex & Hp & E)]; rewrite E in *.
  - split; [|done|done]. split; [done|done|done|done|by apply group_more|].
    intros g [Hg|[_ ->]]%received_group_app; [by apply S6|]. left.
    apply list_elem_of_fmap in Hdup as (f & Ef & Hin). rewrite Forall_forall in Hs.
    destruct (Hs f Hin) as [Esig _]. rewrite Ef. replace (G (fp_seq_num f)) with (sig f).2 by (by rewrite Esig).
    by apply list_elem_of_fmap_2, list_elem_of_fmap_2.
  - assert (Ef : fp_seq_num f = rx_seq_num rx) by (change (fp_seq_num f) with (sig f).1; by rewrite Hsig).
    assert (HG' : seq_of <$> l' = G (rx_seq_num rx)) by (rewrite HG; by eapply (fec_sent_unique base W W_window)).
    assert (Hall : Forall of_group fecs).
    { rewrite Hp. apply Forall_cons_2; [|done]. split; [|by rewrite Ef]. by rewrite Hsig, Ef, HG'. }
    assert (Hnd : NoDup (fp_seq_num <$> fecs)) by (rewrite Hp, fmap_cons; apply NoDup_cons; by rewrite Ef).
    assert (Hlen : (length fecs <= 48)%nat).
    { rewrite <- (length_fmap fp_seq_num). etransitivity; [apply (NoDup_short _ fec_seqs)|done]; [done|].
      intros q (g & -> & Hg)%list_elem_of_fmap. rewrite Forall_forall in Hall. by apply Hall. }
    unfold kMaxFecPackets, kMaxMediaPackets, Zlen in *. destruct (Z.ltb_spec 48 (Z.of_nat (length fecs))); [lia|].
    split; [|done|done]. split; [done|done|done|rewrite Hp; by apply Forall_cons_2| |].
    + rewrite Hp. apply Forall_cons_2; [|by apply group_more]. apply received_group_app. right. by rewrite Hsig, <- HG'.
    + intros g Hg. rewrite Hp, !fmap_cons. apply received_group_app in Hg as [Hg|[_ ->]].
      * destruct (S6 g Hg) as [Hin|Hin]; [left; by right|by right].
      * left. rewrite Hsig, <- HG'. by left.
Qed.

(** A turn of the search takes packets of error correction out, and keeps the rest. *)
Lemma recovery_sigs {R} st st' :
  recovery (R := R) st st' -> fec_inv base W (snd st) (fst st) -> sig <$> fst st' `sublist_of` sig <$> fst st.
Proof.
  intros [i f r fecs recovered Hi H1 Hr|i f fecs recovered Hi H0] Hinv; cbn [fst snd] in *.
  - destruct (good_at base W _ _ _ _ Hinv Hi) as [Hg Hl].
    destruct (good_recovers base W (R := R) recovered f Hg Hl H1) as (r' & e & Er & Hk & _).
    rewrite Hr in Er. injection Er as <-.
    rewrite <- (join_sigs base W W_window r fecs Hk (inv_good _ _ _ _ Hinv)). apply fmap_sublist, sublist_delete.
  - apply fmap_sublist, sublist_delete.
Qed.

Lemma recovery_collected {R} arrived st st' :
  recovery (R := R) st st' -> collected arrived (snd st) (fst st) -> collected arrived (snd st') (fst st').
Proof.
  intros Hstep [Hse Hs Ho]. assert (Hsub := recovery_sigs _ _ Hstep (se_inv _ _ _ _ _ _ Hse)).
  split; [by apply (recovery_searched base W W_window W_inj seqs fec_seqs G W_seqs ltac:(lia) few_fec _ _ _ Hstep)| |].
  - apply Forall_forall. intros f Hf. assert (Hin : sig f ∈ sig <$> fst st).
    { eapply elem_of_submseteq; [by apply list_elem_of_fmap_2|by apply sublist_submseteq]. }
    apply list_elem_of_fmap in Hin as (f' & E & Hin). rewrite Forall_forall in Hs. destruct (Hs f' Hin) as [E' Hq].
    unfold of_group. change (fp_seq_num f) with (sig f).1. rewrite E. done.
  - apply (fmap_sublist fst) in Hsub. rewrite <- !list_fmap_compose in Hsub. by eapply sublist_NoDup.
Qed.

(** What a call adds to the list: packets that it recovers, which are not handed out yet,
    and media packets that arrive. *)
Definition fresh_or (P : RecoveredPacket -> Prop) (recovered recovered' : list RecoveredPacket) : Prop :=
  forall r, r ∈ recovered' -> returned r = true -> r ∈ recovered \/ P r.

Lemma good_returned {R} f r :
  fec_good base W f -> NumCoveredPacketsMissing f = 1 -> RecoverPacket (R := R) f 0 = Cont r -> returned r = false.
Proof.
  intros (l_bit & l & [Gw Gm Gr Gk] & Hp & H2) H1 Hr. rewrite (NumCovered_missing f l) in H1 by done.
  destruct (missing (protected_pkt_list f) l) as [|L [|? ?]] eqn:EL;
    [unfold Zlen in H1; simpl in H1; lia| |rewrite !Zlen_cons in H1; pose proof (Zlen_nonneg l0); lia].
  assert (HR := missing_Forall _ (protected_pkt_list f) l Gr). rewrite EL in HR. apply Forall_cons_1 in HR as [HR _].
  rewrite (RecoverPacket_padded l_bit l f L 0 Hp Gm H2 EL HR) in Hr. by injection Hr as <-.
Qed.

Lemma recovery_fresh {R} st st' :
  recovery (R := R) st st' -> fec_inv base W (snd st) (fst st) ->
  fresh_or (fun _ => False) (snd st) (snd st').
Proof.
  intros [i f r fecs recovered Hi H1 Hr|i f fecs recovered Hi H0] Hinv x Hx Hret; cbn [fst snd] in *; [|by left].
  destruct (good_at base W _ _ _ _ Hinv Hi) as [Hg _]. left. unfold DiscardOldPackets in Hx.
  set (n := (length _ - _)%nat) in Hx. clearbody n.
  assert (Hin : x ∈ list_sort rec_seq_num (recovered ++ [r]))
    by (rewrite <- (take_drop n (list_sort _ _)); apply elem_of_app; by right).
  rewrite list_sort_perm, elem_of_app, list_elem_of_singleton in Hin. destruct Hin as [Hin| ->]; [done|].
  rewrite (good_returned f r Hg H1 Hr) in Hret. done.
Qed.

Lemma rtc_recovery_collected {R} arrived st st' :
  rtc (recovery (R := R)) st st' -> collected arrived (snd st) (fst st) ->
  collected arrived (snd st') (fst st') /\ fresh_or (fun _ => False) (snd st) (snd st').
Proof.
  induction 1 as [st|st1 st2 st3 H _ IH]; intros Hc; [split; [done|by left]|].
  destruct (IH (recovery_collected arrived _ _ H Hc)) as [Hc3 Hf]. split; [done|].
  intros r Hr Hret. destruct (Hf r Hr Hret) as [Hr2|Hno]; [|done].
  exact (recovery_fresh _ _ H (se_inv _ _ _ _ _ _ (co_searched _ _ _ Hc)) r Hr2 Hret).
Qed.

Lemma few_recovered recovered :
  Forall (known W) recovered -> ranked base rec_seq_num recovered -> (length recovered < 48)%nat.
Proof.
  intros Hk Hr. rewrite <- (length_fmap rec_seq_num). eapply Nat.le_lt_trans; [|exact few_media].
  apply NoDup_short; [by eapply ranked_nodup|].
  intros s (r & -> & Hin)%list_elem_of_fmap. rewrite Forall_forall in Hk. destruct (Hk r Hin) as (p & Hp & -> & _).
  by apply W_seqs.
Qed.

Lemma collected_few arrived recovered fecs :
  collected arrived recovered fecs -> (length recovered < 48)%nat.
Proof. intros [[[I1 I2 _ _] _ _ _ _ _] _ _]. by apply few_recovered. Qed.

(** One packet. *)
Lemma DecodeFEC_steady arrived recovered self rx :
  steady arrived recovered (fec_packet_list_ self) -> arrives rx ->
  gives (DecodeFEC [rx] recovered self) (fun st =>
    steady (arrived ++ [rx]) (fst st) (fec_packet_list_ (snd st))
    /\ fresh_or (fun r => rx_is_fec rx = false /\ rec_seq_num r = rx_seq_num rx) recovered (fst st)).
Proof.
  intros [Hc _] Hrx. assert (Hlen := collected_few _ _ _ Hc). unfold DecodeFEC.
  destruct (Z.eqb_spec (Zlen recovered) kMaxMediaPackets) as [E|_]; [unfold Zlen, kMaxMediaPackets in E; lia|].
  cbn [flow_bind]. unfold InsertPackets. cbn [insert_packets].
  rewrite (discard_far_near seqs fec_seqs G lo ltac:(lia) few_fec fec_near rx self) by (apply Hrx || apply Hc).
  assert (Hins : gives (R := list RecoveredPacket * FecDecoder)
    (if rx_is_fec rx then let! self := InsertFECPacket rx recovered self in Cont (recovered, self)
     else let '(recovered, self) := InsertMediaPacket rx recovered self in Cont (recovered, self))
    (fun st => collected (arrived ++ [rx]) (fst st) (fec_packet_list_ (snd st))
       /\ fresh_or (fun r => rx_is_fec rx = false /\ rec_seq_num r = rx_seq_num rx) recovered (fst st))).
  { destruct (rx_is_fec rx) eqn:Ef.
    - eapply gives_bind; [by apply (collect_fec arrived)|]. intros self' Hc'. apply gives_Cont.
      split; [done|by left].
    - assert (Hm := collect_media arrived recovered self rx Hrx Ef Hc).
      assert (Hf : fresh_or (fun r => false = false /\ rec_seq_num r = rx_seq_num rx) recovered (InsertMediaPacket rx recovered self).1).
      { intros r Hr _. unfold InsertMediaPacket in Hr. destruct (existsb _ _); [by left|]. cbn [fst] in Hr.
        rewrite list_sort_perm, elem_of_app, list_elem_of_singleton in Hr. destruct Hr as [Hr| ->]; [by left|by right]. }
      destruct (InsertMediaPacket _ _ _) as [recovered' self']. by apply gives_Cont. }
  destruct Hins as ([recovered1 self1] & E & Hc1 & Hf1). cbn [fst snd] in Hc1, Hf1.
  replace (if rx_is_fec rx then _ else _) with (Cont (R := list RecoveredPacket * FecDecoder) (recovered1, self1))
    by (rewrite <- E; by destruct (rx_is_fec rx)).
  cbn [flow_bind]. assert (Hlen1 := collected_few _ _ _ Hc1). unfold DiscardOldPackets, kMaxMediaPackets.
  replace (length recovered1 - Z.to_nat 48)%nat with 0%nat by lia. rewrite drop_0.
  destruct (AttemptRecover_reaches base W W_window W_inj (R := list RecoveredPacket * FecDecoder) recovered1 self1)
    as (recovered2 & fecs2 & -> & Hr & Hs & _); [apply Hc1|].
  destruct (rtc_recovery_collected (arrived ++ [rx]) _ _ Hr Hc1) as [Hc2 Hf2]. cbn [fst snd] in Hc2, Hf2.
  apply gives_Cont. cbn [fst snd fec_packet_list_]. split; [by split|].
  intros r Hin Hret. destruct (Hf2 r Hin Hret) as [Hin1|Hno]; [|done]. by apply Hf1.
Qed.

(** What a steady receiver has. *)
Lemma steady_closed arrived recovered fecs :
  steady arrived recovered fecs ->
  Forall (known W) recovered /\ ranked base rec_seq_num recovered /\
  forall s, s ∈ rec_seq_num <$> recovered <-> derivable (received_seq arrived) (received_group G arrived) s.
Proof.
  intros [[Hse _ _] Hset]. split; [apply Hse|]. split; [apply Hse|]. intros s. split; [apply Hse|].
  by apply (settled_closed base W seqs fec_seqs G ltac:(lia) few_fec _ _ fecs).
Qed.
End stream.
