(* ===== verification/Red.v ===== *)
(** * Packets with a RED header, and their error correction

    Models [modules/rtp_rtcp/source/producer_fec.cc]: the RED packet, and the producer that
    collects the media packets of frames and has them protected.  [fec_packets_] points
    into [generated_fec_packets_]: it is the list of the positions there.  [alloc n] is
    what [new uint8_t[n]] finds in memory. *)
From S2P Require Import Prelude Pointwise RtpWire RtpSender FecTables FecMasks FecPacket FecEncode.
Local Open Scope Z_scope.

Definition kREDForFECHeaderLength : Z := 1.
Definition kMaxExcessOverhead : Z := 50.
Definition kMinimumMediaPackets : Z := 4.
Definition kHighProtectionThreshold : Z := 80.

Record RedPacket : Type := mkRed {
  red_data : list Z;
  red_length : Z;
  red_header_length : Z
}.

Record FecProtectionParams : Type := mkFecParams {
  fec_rate : Z;
  use_uep_protection : bool;
  max_fec_frames : Z;
  fec_mask_type : FecMaskType
}.

Record ProducerFec : Type := mkProducer {
  generated_fec_packets_ : list Packet;
  media_packets_fec_ : list Packet;
  fec_packets_ : list Z;
  num_frames_ : Z;
  incomplete_frame_ : bool;
  num_first_partition_ : Z;
  minimum_media_packets_fec_ : Z;
  params_ : FecProtectionParams;
  new_params_ : FecProtectionParams
}.

Section producer.
Context (alloc : Z -> list Z).

(** ** The RED packet *)

Definition new_RedPacket (length : Z) : RedPacket := mkRed (alloc length) length 0.

Definition CreateHeader {R : Type} (self : RedPacket) (rtp_header : list Z)
  (header_length red_pl_type pl_type : Z) : flow R RedPacket :=
  let! data := copy (red_data self) 0 rtp_header 0 header_length in
  let! b := rd data 1 in
  let! data := wr data 1 (Z.land b 128) in
  let! b := rd data 1 in
  let! data := wr data 1 (u8 (b + red_pl_type)) in
  let! data := wr data header_length (u8 pl_type) in
  Cont (mkRed data (red_length self) (header_length + kREDForFECHeaderLength)).

Definition SetSeqNum {R : Type} (self : RedPacket) (seq_num : Z) : flow R RedPacket :=
  let! data := AssignUWord16ToBuffer (red_data self) 2 (u16 seq_num) in
  Cont (mkRed data (red_length self) (red_header_length self)).

(** The payload is [length] bytes of [payload] from [off]. *)
Definition AssignPayload {R : Type} (self : RedPacket) (payload : list Z) (off length : Z) : flow R RedPacket :=
  let! data := copy (red_data self) (red_header_length self) payload off length in
  Cont (mkRed data (red_length self) (red_header_length self)).

Definition ClearMarkerBit {R : Type} (self : RedPacket) : flow R RedPacket :=
  let! b := rd (red_data self) 1 in
  let! data := wr (red_data self) 1 (Z.land b 127) in
  Cont (mkRed data (red_length self) (red_header_length self)).

(** ** The producer *)

(** The constructor, with zeros for the parameters. *)
Definition new_ProducerFec (generated : list Packet) : ProducerFec :=
  mkProducer generated [] [] 0 false 0 1
    (mkFecParams 0 false 0 kFecMaskRandom) (mkFecParams 0 false 0 kFecMaskRandom).

Definition SetFecParameters (self : ProducerFec) (params : FecProtectionParams) (num_first_partition : Z)
  : ProducerFec :=
  let num_first_partition :=
    if kMaxMediaPackets <? num_first_partition then kMaxMediaPackets else num_first_partition in
  mkProducer (generated_fec_packets_ self) (media_packets_fec_ self) (fec_packets_ self) (num_frames_ self)
    (incomplete_frame_ self) num_first_partition
    (if kHighProtectionThreshold <? fec_rate params then kMinimumMediaPackets else 1)
    (params_ self) params.

Definition BuildRedPacket {R : Type} (data_buffer : list Z) (payload_length rtp_header_length red_pl_type : Z)
  : flow R RedPacket :=
  let red_packet := new_RedPacket (payload_length + kREDForFECHeaderLength + rtp_header_length) in
  let! b := rd data_buffer 1 in
  let pl_type := Z.land b 127 in
  let! red_packet := CreateHeader red_packet data_buffer rtp_header_length red_pl_type pl_type in
  AssignPayload red_packet data_buffer rtp_header_length payload_length.

Definition DeletePackets (self : ProducerFec) : ProducerFec :=
  mkProducer (generated_fec_packets_ self) [] (fec_packets_ self) (num_frames_ self)
    (incomplete_frame_ self) (num_first_partition_ self) (minimum_media_packets_fec_ self)
    (params_ self) (new_params_ self).

Definition set_frames (self : ProducerFec) (n : Z) (incomplete : bool) : ProducerFec :=
  mkProducer (generated_fec_packets_ self) (media_packets_fec_ self) (fec_packets_ self) n
    incomplete (num_first_partition_ self) (minimum_media_packets_fec_ self)
    (params_ self) (new_params_ self).

Definition set_generated (self : ProducerFec) (generated : list Packet) (fec : list Z) : ProducerFec :=
  mkProducer generated (media_packets_fec_ self) fec (num_frames_ self)
    (incomplete_frame_ self) (num_first_partition_ self) (minimum_media_packets_fec_ self)
    (params_ self) (new_params_ self).

(** A division by zero is undefined. *)
Definition Overhead {R : Type} (self : ProducerFec) : flow R Z :=
  let size := Zlen (media_packets_fec_ self) in
  let num_fec_packets := GetNumberOfFecPackets size (fec_rate (params_ self)) in
  if size =? 0 then Stuck else Cont (Z.quot (Z.shiftl num_fec_packets 8) size).

Definition ExcessOverheadBelowMax {R : Type} (self : ProducerFec) : flow R bool :=
  let! overhead := Overhead self in
  Cont (overhead - fec_rate (params_ self) <? kMaxExcessOverhead).

(** For at most 48 packets the quotient as a [float] is below 2 when the number of packets
    is below twice that of frames; it is asked for only after a frame has ended. *)
Definition MinimumMediaPacketsReached (self : ProducerFec) : bool :=
  let size := Zlen (media_packets_fec_ self) in
  if size <? 2 * num_frames_ self then minimum_media_packets_fec_ self <=? size
  else minimum_media_packets_fec_ self + 1 <=? size.

Definition FecAvailable (self : ProducerFec) : bool := 0 <? Zlen (fec_packets_ self).

(** A new packet with the bytes of the media packet. *)
Definition media_packet {R : Type} (data_buffer : list Z) (payload_length rtp_header_length : Z) : flow R Packet :=
  let length := u16 (payload_length + rtp_header_length) in
  let! data := copy (alloc IP_PACKET_SIZE) 0 data_buffer 0 length in
  Cont (mkPacket length data).

Definition AddRtpPacketAndGenerateFec {R : Type} (self : ProducerFec) (data_buffer : list Z)
  (payload_length rtp_header_length : Z) : flow R (Z * ProducerFec) :=
  let params := match media_packets_fec_ self with [] => new_params_ self | _ => params_ self end in
  let! b := rd data_buffer 1 in
  let marker_bit := negb (Z.land b kRtpMarkerBitMask =? 0) in
  let! media :=
    if Zlen (media_packets_fec_ self) <? kMaxMediaPackets then
      let! packet := media_packet data_buffer payload_length rtp_header_length in
      Cont (media_packets_fec_ self ++ [packet])
    else Cont (media_packets_fec_ self) in
  let self := mkProducer (generated_fec_packets_ self) media (fec_packets_ self)
    (if marker_bit then num_frames_ self + 1 else num_frames_ self) (negb marker_bit)
    (num_first_partition_ self) (minimum_media_packets_fec_ self) params (new_params_ self) in
  let! generate :=
    if incomplete_frame_ self then Cont false
    else if num_frames_ self =? max_fec_frames (params_ self) then Cont true
    else
      let! below := ExcessOverheadBelowMax self in
      Cont (below && MinimumMediaPacketsReached self) in
  if generate then
    let! (ret, generated, fec) :=
      call (GenerateFEC alloc (generated_fec_packets_ self) (media_packets_fec_ self)
        (u8 (fec_rate (params_ self))) (num_first_partition_ self) (use_uep_protection (params_ self))
        (fec_mask_type (params_ self))) in
    let self := set_generated self generated (fec_packets_ self ++ fec) in
    match fec_packets_ self with
    | [] => Cont (ret, DeletePackets (set_frames self 0 (incomplete_frame_ self)))
    | _ => Cont (ret, self)
    end
  else Cont (0, self).

(** [None] is a null pointer. *)
Definition GetFecPacket {R : Type} (self : ProducerFec) (red_pl_type fec_pl_type seq_num rtp_header_length : Z)
  : flow R (option RedPacket * ProducerFec) :=
  match fec_packets_ self with
  | [] => Cont (None, self)
  | front :: rest =>
      let! packet_to_send := rd (generated_fec_packets_ self) front in
      let! last_media_packet := rd (media_packets_fec_ self) (Zlen (media_packets_fec_ self) - 1) in
      let return_packet :=
        new_RedPacket (pkt_length packet_to_send + kREDForFECHeaderLength + rtp_header_length) in
      let! return_packet :=
        CreateHeader return_packet (pkt_data last_media_packet) rtp_header_length red_pl_type fec_pl_type in
      let! return_packet := SetSeqNum return_packet seq_num in
      let! return_packet := ClearMarkerBit return_packet in
      let! return_packet :=
        AssignPayload return_packet (pkt_data packet_to_send) 0 (pkt_length packet_to_send) in
      let self := set_generated self (generated_fec_packets_ self) rest in
      match rest with
      | [] => Cont (Some return_packet, set_frames (DeletePackets self) 0 (incomplete_frame_ self))
      | _ => Cont (Some return_packet, self)
      end
  end.
End producer.

(** ** What the packets look like *)

(** The second byte of a header, and a header: its first byte, type and marker, number,
    and what follows. *)
Definition type_byte (pt : Z) (marker : bool) : Z := if marker then Z.lor (u8 pt) kRtpMarkerBitMask else u8 pt.
Definition hdr (b0 pt : Z) (marker : bool) (sn : Z) (T : list Z) : list Z :=
  [b0; type_byte pt marker] ++ be16 sn ++ T.

Lemma type_byte_back pt marker :
  0 <= pt < 128 ->
  Z.land (type_byte pt marker) 127 = pt /\
  negb (Z.land (type_byte pt marker) 128 =? 0) = marker /\
  (forall pt', 0 <= pt' < 128 -> u8 (Z.land (type_byte pt marker) 128 + pt') = type_byte pt' marker) /\
  Z.land (type_byte pt marker) 127 = type_byte pt false /\ is_u8 (type_byte pt marker).
Proof.
  intros Hp.
  assert (H := seqZ_check (fun pt => (Z.land (type_byte pt marker) 127 =? pt)
    && (Z.land (type_byte pt marker) 128 =? if marker then 128 else 0) && (type_byte pt false =? pt)
    && (0 <=? type_byte pt marker) && (type_byte pt marker <? 256)) 128 pt
    ltac:(destruct marker; vm_compute; reflexivity) Hp). cbv beta in H.
  rewrite !andb_true_iff, !Z.eqb_eq in H. destruct H as [[[[H1 H2] H3] H4%Z.leb_le] H5%Z.ltb_lt].
  split_and!; try done; [by rewrite H2; destruct marker| |congruence].
  intros pt' Hp'. rewrite H2.
  assert (H := seqZ_check (fun pt => u8 ((if marker then 128 else 0) + pt) =? type_byte pt marker) 128 pt'
    ltac:(destruct marker; vm_compute; reflexivity) Hp'). by apply Z.eqb_eq in H.
Qed.

Lemma Zlen_hdr b0 pt marker sn T : Zlen (hdr b0 pt marker sn T) = 4 + Zlen T.
Proof. unfold hdr. rewrite Zlen_app, Zlen_app, Zlen_be16. change (Zlen [_; _]) with 2. lia. Qed.

Lemma copy_front {R} (dst src tail : list Z) n :
  n = Zlen src -> n <= Zlen dst -> copy (R := R) dst 0 (src ++ tail) 0 n = Cont (put dst 0 src).
Proof.
  intros -> Hn. unfold copy. rewrite blk_get_front by done. cbn [flow_bind]. by apply blk_put_put; lia.
Qed.

Lemma copy_from {R} (dst done_ a src tail : list Z) p off n :
  p = Zlen done_ -> off = Zlen a -> n = Zlen src -> p + n <= Zlen dst ->
  copy (R := R) (put dst 0 done_) p (a ++ src ++ tail) off n = Cont (put dst 0 (done_ ++ src)).
Proof.
  intros -> -> -> Hn. unfold copy. rewrite blk_get_app by done. cbn [flow_bind]. by apply blk_put_step; lia.
Qed.

Lemma rd_1 {R} (a b : Z) l : rd (R := R) (a :: b :: l) 1 = Cont b.
Proof. done. Qed.

Lemma wr_1 {R} (a b x : Z) l : wr (R := R) (a :: b :: l) 1 x = Cont (a :: x :: l).
Proof. rewrite wr_Cont by (unfold Zlen; simpl; lia). done. Qed.

Lemma put_hdr buf b0 pt marker sn T r :
  put buf 0 (hdr b0 pt marker sn T ++ r)
  = b0 :: type_byte pt marker :: be16 sn ++ T ++ r ++ zdrop (4 + Zlen T + Zlen r) buf.
Proof.
  rewrite put_0. unfold hdr. rewrite <- !app_assoc. cbn [app].
  assert (E : Zlen (b0 :: type_byte pt marker :: be16 sn ++ T ++ r) = 4 + Zlen T + Zlen r)
    by (rewrite !Zlen_cons, !Zlen_app, Zlen_be16; lia).
  by rewrite E.
Qed.

(** The type and the marker in a header. *)
Lemma retype_hdr {R} buf b0 pt marker sn T r pt' :
  0 <= pt < 128 -> 0 <= pt' < 128 ->
  (let! b := rd (R := R) (put buf 0 (hdr b0 pt marker sn T ++ r)) 1 in
   let! data := wr (put buf 0 (hdr b0 pt marker sn T ++ r)) 1 (Z.land b 128) in
   let! b := rd data 1 in
   wr data 1 (u8 (b + pt'))) = Cont (put buf 0 (hdr b0 pt' marker sn T ++ r)).
Proof.
  intros Hp Hp'. destruct (type_byte_back pt marker Hp) as (_ & _ & E & _).
  rewrite !put_hdr, rd_1. cbn [flow_bind]. rewrite wr_1. cbn [flow_bind]. rewrite rd_1. cbn [flow_bind].
  by rewrite wr_1, E.
Qed.

Section red.
Context (alloc : Z -> list Z).
Hypothesis alloc_length : forall n, 0 <= n -> Zlen (alloc n) = n.

(** The header of a RED packet over a header with type [pt]. *)
Lemma CreateHeader_bytes {R} length b0 pt marker sn T tail red pl hl :
  0 <= pt < 128 -> 0 <= red < 128 -> 0 <= pl < 128 -> hl = 4 + Zlen T -> hl + 1 <= length ->
  CreateHeader (R := R) (new_RedPacket alloc length) (hdr b0 pt marker sn T ++ tail) hl red pl
  = Cont (mkRed (put (alloc length) 0 (hdr b0 red marker sn T ++ [pl])) length (hl + 1)).
Proof.
  intros Hpt Hred Hpl -> Hl. pose proof (Zlen_nonneg T). unfold CreateHeader. cbn [new_RedPacket red_data red_length].
  assert (Ha := alloc_length length ltac:(lia)).
  rewrite copy_front by (rewrite ?Zlen_hdr; lia). cbn [flow_bind].
  assert (E := retype_hdr (R := R) (alloc length) b0 pt marker sn T [] red Hpt Hred).
  rewrite !app_nil_r in E. destruct (rd (R := R) _ 1) as [b| |]; [|done..]. cbn [flow_bind] in *.
  destruct (wr (R := R) _ 1 _) as [d| |]; [|done..]. cbn [flow_bind] in *.
  destruct (rd (R := R) d 1) as [b'| |]; [|done..]. cbn [flow_bind] in *. rewrite E. cbn [flow_bind].
  rewrite put_step by (rewrite ?Zlen_hdr; lia). cbn [flow_bind].
  rewrite (u8_id pl) by (unfold is_u8; lia). done.
Qed.

(** A media packet in a RED packet. *)
Lemma BuildRedPacket_bytes {R} b0 pt marker sn T payload tail red hl :
  0 <= pt < 128 -> 0 <= red < 128 -> hl = 4 + Zlen T ->
  BuildRedPacket (R := R) alloc (hdr b0 pt marker sn T ++ payload ++ tail) (Zlen payload) hl red
  = Cont (mkRed (hdr b0 red marker sn T ++ [pt] ++ payload) (Zlen payload + 1 + hl) (hl + 1)).
Proof.
  intros Hpt Hred ->. pose proof (Zlen_nonneg T). pose proof (Zlen_nonneg payload).
  destruct (type_byte_back pt marker Hpt) as (E1 & _). unfold BuildRedPacket, kREDForFECHeaderLength.
  change (rd (R := R) (hdr b0 pt marker sn T ++ payload ++ tail) 1) with (Cont (R := R) (type_byte pt marker)).
  cbn [flow_bind]. rewrite E1, CreateHeader_bytes by lia. cbn [flow_bind].
  unfold AssignPayload. cbn [red_data red_length red_header_length].
  rewrite copy_from; [|rewrite Zlen_app, Zlen_hdr; reflexivity|by rewrite Zlen_hdr|done|rewrite alloc_length; lia].
  cbn [flow_bind]. rewrite <- app_assoc, put_0. rewrite zdrop_all, app_nil_r; [done|].
  rewrite alloc_length by lia. rewrite !Zlen_app, Zlen_hdr. change (Zlen [pt]) with 1. lia.
Qed.

(** The copy of a media packet that is protected. *)
Lemma media_packet_bytes {R} m payload tail hl :
  Zlen m = hl -> hl + Zlen payload <= IP_PACKET_SIZE ->
  media_packet (R := R) alloc (m ++ payload ++ tail) (Zlen payload) hl
  = Cont (mkPacket (hl + Zlen payload) (put (alloc IP_PACKET_SIZE) 0 (m ++ payload))).
Proof.
  intros <- Hl. unfold media_packet, IP_PACKET_SIZE in *. pose proof (Zlen_nonneg m). pose proof (Zlen_nonneg payload).
  rewrite u16_id by (unfold is_u16; lia). rewrite app_assoc.
  rewrite copy_front by (rewrite ?alloc_length, ?Zlen_app; lia). cbn [flow_bind]. do 2 f_equal. lia.
Qed.

(** A packet of error correction in a RED packet, with the header of the last media packet. *)
Lemma GetFecPacket_bytes {R} self i rest f media last buf b0 pt marker sn T r red fec_pt seq hl :
  0 <= pt < 128 -> 0 <= red < 128 -> 0 <= fec_pt < 128 -> is_u16 seq -> hl = 4 + Zlen T ->
  fec_packets_ self = i :: rest -> 0 <= i < Zlen (generated_fec_packets_ self) ->
  zat (generated_fec_packets_ self) i = f -> 0 <= pkt_length f <= Zlen (pkt_data f) ->
  media_packets_fec_ self = media ++ [last] -> pkt_data last = put buf 0 (hdr b0 pt marker sn T ++ r) ->
  GetFecPacket (R := R) alloc self red fec_pt seq hl
  = Cont (Some (mkRed (hdr b0 red false seq T ++ [fec_pt] ++ ztake (pkt_length f) (pkt_data f))
                  (pkt_length f + 1 + hl) (hl + 1)),
          let self := set_generated self (generated_fec_packets_ self) rest in
          match rest with [] => set_frames (DeletePackets self) 0 (incomplete_frame_ self) | _ => self end).
Proof.
  intros Hpt Hred Hfec Hseq -> Ef Hi Hf Hlf Em Ed. pose proof (Zlen_nonneg T).
  unfold GetFecPacket. rewrite Ef, rd_zat, Hf by done. cbn [flow_bind].
  rewrite Em, Zlen_app. change (Zlen [last]) with 1. replace (Zlen media + 1 - 1) with (Zlen media + 0) by lia.
  rewrite rd_app_at by lia. change (rd (R := R) [last] 0) with (Cont (R := R) last). cbn [flow_bind].
  rewrite Ed, put_0, <- app_assoc. unfold kREDForFECHeaderLength.
  rewrite CreateHeader_bytes by lia. cbn [flow_bind]. unfold SetSeqNum. cbn [red_data red_length red_header_length].
  set (len := pkt_length f + 1 + (4 + Zlen T)). assert (Ha := alloc_length len ltac:(lia)).
  assert (Hb : forall x m sn, Zlen (hdr x red m sn T ++ [fec_pt]) = 5 + Zlen T)
    by (intros; rewrite Zlen_app, Zlen_hdr; change (Zlen [fec_pt]) with 1; lia).
  rewrite u16_id, AssignUWord16_put by (done || lia || (rewrite Zlen_put; rewrite ?Hb; lia)). cbn [flow_bind].
  unfold hdr at 1. rewrite <- !app_assoc.
  rewrite (put_inside (alloc len) 0 [b0; type_byte red marker] (be16 sn) (be16 seq) (T ++ [fec_pt]) 2)
    by (rewrite ?Zlen_app, ?Zlen_be16; change (Zlen [_; _]) with 2; change (Zlen [fec_pt]) with 1; lia || done).
  unfold ClearMarkerBit. cbn [red_data red_length red_header_length].
  replace ([b0; type_byte red marker] ++ be16 seq ++ T ++ [fec_pt]) with (hdr b0 red marker seq T ++ [fec_pt])
    by (unfold hdr; by rewrite <- !app_assoc).
  rewrite put_hdr, rd_1. cbn [flow_bind]. rewrite wr_1. cbn [flow_bind].
  destruct (type_byte_back red marker Hred) as (_ & _ & _ & -> & _).
  rewrite <- (put_hdr (alloc len) b0 red false seq T [fec_pt]).
  unfold AssignPayload. cbn [red_data red_length red_header_length].
  assert (Hz : Zlen (ztake (pkt_length f) (pkt_data f)) = pkt_length f) by (by apply Zlen_ztake).
  assert (Esp := eq_sym (ztake_zdrop (pkt_length f) (pkt_data f))). change (_ ++ _) with ([] ++ ztake (pkt_length f) (pkt_data f) ++ zdrop (pkt_length f) (pkt_data f)) in Esp.
  set (z := ztake (pkt_length f) (pkt_data f)) in *. set (d := zdrop (pkt_length f) (pkt_data f)) in *.
  clearbody z d. rewrite Esp.
  rewrite copy_from; [|rewrite Hb; lia|done|lia|rewrite Ha; unfold len; lia]. cbn [flow_bind].
  rewrite put_0, zdrop_all, app_nil_r, <- app_assoc by (rewrite Zlen_app, Hb, Hz, Ha; unfold len; lia).
  by destruct rest.
Qed.

(** The parameters that protect the packets which are collected. *)
Definition current_params (self : ProducerFec) : FecProtectionParams :=
  match media_packets_fec_ self with [] => new_params_ self | _ => params_ self end.

Definition added_media (self : ProducerFec) (p : Packet) (frames : Z) (incomplete : bool) : ProducerFec :=
  mkProducer (generated_fec_packets_ self) (media_packets_fec_ self ++ [p]) (fec_packets_ self) frames
    incomplete (num_first_partition_ self) (minimum_media_packets_fec_ self) (current_params self) (new_params_ self).

(** A packet within a frame is collected. *)
Lemma AddRtpPacket_collects {R} self b0 pt sn T payload tail hl :
  0 <= pt < 128 -> hl = 4 + Zlen T -> hl + Zlen payload <= IP_PACKET_SIZE ->
  Zlen (media_packets_fec_ self) < 48 ->
  AddRtpPacketAndGenerateFec (R := R) alloc self (hdr b0 pt false sn T ++ payload ++ tail) (Zlen payload) hl
  = Cont (0, added_media self (mkPacket (hl + Zlen payload) (put (alloc IP_PACKET_SIZE) 0 (hdr b0 pt false sn T ++ payload)))
               (num_frames_ self) true).
Proof.
  intros Hpt Hhl Hl Hm. unfold AddRtpPacketAndGenerateFec.
  change (rd (R := R) (hdr b0 pt false sn T ++ payload ++ tail) 1) with (Cont (R := R) (type_byte pt false)).
  cbn [flow_bind]. destruct (type_byte_back pt false Hpt) as (_ & E & _). unfold kRtpMarkerBitMask. rewrite E.
  unfold kMaxMediaPackets. rewrite (proj2 (Z.ltb_lt _ _)) by done.
  rewrite media_packet_bytes by (rewrite ?Zlen_hdr; done). by cbn [flow_bind negb incomplete_frame_].
Qed.

(** The last packet of a frame, when frames are protected one by one. *)
Lemma AddRtpPacket_generates {R} self b0 pt sn T payload tail hl gens m :
  let p := mkPacket (hl + Zlen payload) (put (alloc IP_PACKET_SIZE) 0 (hdr b0 pt true sn T ++ payload)) in
  let params := current_params self in
  0 <= pt < 128 -> hl = 4 + Zlen T -> hl + Zlen payload <= IP_PACKET_SIZE ->
  Zlen (media_packets_fec_ self) < 48 -> num_frames_ self = 0 -> max_fec_frames params = 1 ->
  fec_packets_ self = [] -> 0 < m ->
  GenerateFEC alloc (generated_fec_packets_ self) (media_packets_fec_ self ++ [p]) (u8 (fec_rate params))
    (num_first_partition_ self) (use_uep_protection params) (fec_mask_type params) = Cont (0, gens, seqZ 0 m) ->
  AddRtpPacketAndGenerateFec (R := R) alloc self (hdr b0 pt true sn T ++ payload ++ tail) (Zlen payload) hl
  = Cont (0, set_generated (added_media self p 1 false) gens (seqZ 0 m)).
Proof.
  intros p params Hpt Hhl Hl Hm Hf Hmax Hfec Hm0 Egen. unfold AddRtpPacketAndGenerateFec.
  change (rd (R := R) (hdr b0 pt true sn T ++ payload ++ tail) 1) with (Cont (R := R) (type_byte pt true)).
  cbn [flow_bind]. destruct (type_byte_back pt true Hpt) as (_ & E & _). unfold kRtpMarkerBitMask. rewrite E.
  unfold kMaxMediaPackets. rewrite (proj2 (Z.ltb_lt _ _)) by done.
  rewrite media_packet_bytes by (rewrite ?Zlen_hdr; done). fold p.
  cbn [flow_bind negb incomplete_frame_ num_frames_ params_]. fold (current_params self). fold params.
  rewrite Hf, Hmax. change (0 + 1 =? 1) with true. cbn [flow_bind generated_fec_packets_ media_packets_fec_ num_first_partition_].
  rewrite Egen. cbn [call flow_bind set_generated fec_packets_]. rewrite Hfec. cbn [app].
  rewrite (seqZ_cons 0 m) by lia. reflexivity.
Qed.
End red.
