(* ===== verification/RtpHistory.v ===== *)
(** * The packets that a sender keeps

    Models [modules/rtp_rtcp/source/rtp_packet_history.cc]: RTPPacketHistory keeps the
    packets that were sent last in arrays of a fixed size, for retransmission.  [now_ms] is
    the clock of a call. *)
From S2P Require Import Prelude Pointwise RtpWire Vp8Session.
Local Open Scope Z_scope.

Definition kMinPacketRequestBytes : Z := 50.

Record RTPPacketHistory : Type := mkHistory {
  store_ : bool;
  prev_index_ : Z;
  max_packet_length_ : Z;
  stored_packets_ : list (list Z);
  stored_seq_nums_ : list Z;
  stored_lengths_ : list Z;
  stored_times_ : list Z;
  stored_send_times_ : list Z;
  stored_types_ : list StorageType
}.

#[export] Instance StorageType_inhabited : Inhabited StorageType := populate kDontStore.

Definition new_RTPPacketHistory : RTPPacketHistory := mkHistory false 0 0 [] [] [] [] [] [].

(** [std::vector::resize] *)
Definition vector_resize {A : Type} (n : Z) (x : A) (l : list A) : list A := resize (Z.to_nat n) x l.

Definition Allocate (self : RTPPacketHistory) (number_to_store : Z) : RTPPacketHistory :=
  let n := u16 number_to_store in
  mkHistory true (prev_index_ self) (max_packet_length_ self)
    (vector_resize n [] (stored_packets_ self)) (vector_resize n 0 (stored_seq_nums_ self))
    (vector_resize n 0 (stored_lengths_ self)) (vector_resize n 0 (stored_times_ self))
    (vector_resize n 0 (stored_send_times_ self)) (vector_resize n kDontStore (stored_types_ self)).

Definition Free (self : RTPPacketHistory) : RTPPacketHistory :=
  if negb (store_ self) then self else mkHistory false 0 0 [] [] [] [] [] [].

Definition SetStorePacketsStatus (self : RTPPacketHistory) (enable : bool) (number_to_store : Z) : RTPPacketHistory :=
  if enable then Allocate (if store_ self then Free self else self) number_to_store else Free self.

Definition StorePackets (self : RTPPacketHistory) : bool := store_ self.

Definition VerifyAndAllocatePacketLength (self : RTPPacketHistory) (packet_length : Z) : RTPPacketHistory :=
  if negb (store_ self) then self
  else if packet_length <=? max_packet_length_ self then self
  else
    mkHistory (store_ self) (prev_index_ self) packet_length (vector_resize packet_length 0 <$> stored_packets_ self)
      (stored_seq_nums_ self) (stored_lengths_ self) (stored_times_ self) (stored_send_times_ self) (stored_types_ self).

Definition PutRTPPacket {R : Type} (self : RTPPacketHistory) (now_ms : Z) (packet : list Z)
  (packet_length max_packet_length capture_time_ms : Z) (type : StorageType) : flow R (Z * RTPPacketHistory) :=
  if decide (type = kDontStore) then Cont (0, self)
  else if negb (store_ self) then Cont (0, self)
  else
    let self := VerifyAndAllocatePacketLength self max_packet_length in
    if max_packet_length_ self <? packet_length then Cont (-1, self)
    else
      let! b2 := rd packet 2 in
      let! b3 := rd packet 3 in
      let seq_num := u16 (Z.shiftl b2 8 + b3) in
      let prev := prev_index_ self in
      let! row := rd (stored_packets_ self) prev in
      let! bytes := blk_get packet 0 packet_length in
      let! row := blk_put row 0 bytes in
      let! packets := wr (stored_packets_ self) prev row in
      let! seqs := wr (stored_seq_nums_ self) prev seq_num in
      let! lengths := wr (stored_lengths_ self) prev packet_length in
      let! times := wr (stored_times_ self) prev (if 0 <? capture_time_ms then capture_time_ms else now_ms) in
      let! sends := wr (stored_send_times_ self) prev 0 in
      let! types := wr (stored_types_ self) prev type in
      let prev := u32 (prev + 1) in
      let prev := if Zlen seqs <=? prev then 0 else prev in
      Cont (0, mkHistory (store_ self) prev (max_packet_length_ self) packets seqs lengths times sends types).

(** The first place of a number. *)
Fixpoint search_all (sequence_number : Z) (l : list Z) (m : Z) : option Z :=
  match l with
  | [] => None
  | s :: l => if s =? sequence_number then Some m else search_all sequence_number l (m + 1)
  end.

(** Whether the number is there, and the index. *)
Definition FindSeqNum {R : Type} (self : RTPPacketHistory) (sequence_number : Z) : flow R (bool * Z) :=
  let seqs := stored_seq_nums_ self in
  let index := if 0 <? prev_index_ self then prev_index_ self - 1 else Zlen seqs - 1 in
  let! temp := rd seqs index in
  let idx := s32 (u32 (u32 (prev_index_ self - 1) - (temp - sequence_number))) in
  let! (index, temp) :=
    if (0 <=? idx) && (idx <? Zlen seqs)
    then let! temp := rd seqs idx in Cont (idx, temp)
    else Cont (index, temp) in
  if temp =? sequence_number then Cont (true, index)
  else
    match search_all sequence_number seqs 0 with
    | Some m => Cont (true, m)
    | None => Cont (false, index)
    end.

Definition HasRTPPacket {R : Type} (self : RTPPacketHistory) (sequence_number : Z) : flow R bool :=
  if negb (store_ self) then Cont false
  else
    let! (found, index) := FindSeqNum self sequence_number in
    if negb found then Cont false
    else
      let! length := rd (stored_lengths_ self) index in
      Cont (negb ((length =? 0) || (max_packet_length_ self <? length))).

(** The buffer with the packet, its length and the time it was stored. *)
Definition GetPacket {R : Type} (self : RTPPacketHistory) (index : Z) (packet : list Z) : flow R (list Z * Z * Z) :=
  let! length := rd (stored_lengths_ self) index in
  let! row := rd (stored_packets_ self) index in
  let! bytes := blk_get row 0 length in
  let! packet := blk_put packet 0 bytes in
  let! time := rd (stored_times_ self) index in
  Cont (packet, length, time).

(** [None] is the result false: nothing is changed. *)
Definition GetPacketAndSetSendTime {R : Type} (self : RTPPacketHistory) (now_ms sequence_number min_elapsed_time_ms : Z)
  (retransmit : bool) (packet : list Z) : flow R (option (list Z * Z * Z) * RTPPacketHistory) :=
  if negb (store_ self) then Cont (None, self)
  else
    let! (found, index) := FindSeqNum self sequence_number in
    if negb found then Cont (None, self)
    else
      let! length := rd (stored_lengths_ self) index in
      if length =? 0 then Cont (None, self)
      else
        let! sent := rd (stored_send_times_ self) index in
        if (0 <? min_elapsed_time_ms) && (now_ms - sent <? min_elapsed_time_ms) then Cont (None, self)
        else
          let! type := rd (stored_types_ self) index in
          if retransmit && bool_decide (type = kDontRetransmit) then Cont (None, self)
          else
            let! sends := wr (stored_send_times_ self) index now_ms in
            let self := mkHistory (store_ self) (prev_index_ self) (max_packet_length_ self) (stored_packets_ self)
              (stored_seq_nums_ self) (stored_lengths_ self) (stored_times_ self) sends (stored_types_ self) in
            let! r := GetPacket self index packet in
            Cont (Some r, self).

(** The loop over the lengths: the least difference so far, or -1, and its index. *)
Fixpoint best_fitting (size : Z) (lengths : list Z) (i min_diff best_index : Z) : Z * Z :=
  match lengths with
  | [] => (min_diff, best_index)
  | length :: lengths =>
      if length =? 0 then best_fitting size lengths (i + 1) min_diff best_index
      else
        let diff := Z.abs (length - size) in
        if (min_diff <? 0) || (diff <? min_diff) then best_fitting size lengths (i + 1) diff i
        else best_fitting size lengths (i + 1) min_diff best_index
  end.

Definition FindBestFittingPacket (self : RTPPacketHistory) (size : Z) : Z :=
  match stored_lengths_ self with
  | [] => -1
  | _ =>
      if size <? kMinPacketRequestBytes then -1
      else
        let '(min_diff, best_index) := best_fitting size (stored_lengths_ self) 0 (-1) 0 in
        if min_diff <? 0 then -1 else best_index
  end.

Definition GetBestFittingPacket {R : Type} (self : RTPPacketHistory) (packet : list Z) (packet_length : Z)
  : flow R (option (list Z * Z * Z)) :=
  if negb (store_ self) then Cont None
  else
    let index := FindBestFittingPacket self packet_length in
    if index <? 0 then Cont None
    else let! r := GetPacket self index packet in Cont (Some r).
