(* ===== verification/RtpKept.v ===== *)
(** * What a history of sent packets promises

    The specification of [RtpHistory]: a list of the packets that were stored last, the
    newest first, at most as many as there are places.  Every operation of the arrays is a
    step of the list, with the same result ([holds] relates the two). *)
From S2P Require Import Prelude Pointwise RtpWire Vp8Session RtpHistory.
Local Open Scope Z_scope.

Record Stored : Type := mkStored {
  st_seq : Z;
  st_bytes : list Z;
  st_time : Z;
  st_sent : Z;
  st_type : StorageType
}.

Definition set_sent (now : Z) (e : Stored) : Stored :=
  mkStored (st_seq e) (st_bytes e) (st_time e) now (st_type e).

(** The calls, each with the clock. *)
Inductive HistoryCall : Type :=
| CallPut (now : Z) (packet : list Z) (max_packet_length capture_time_ms : Z) (type : StorageType)
| CallGet (now seq min_elapsed : Z) (retransmit : bool) (buffer : list Z)
| CallBest (size : Z) (buffer : list Z)
| CallHas (seq : Z).

Inductive HistoryResult : Type :=
| ResultPut (ret : Z)
| ResultGet (packet : option (list Z * Z * Z))
| ResultHas (found : bool).

Definition call_history {R : Type} (self : RTPPacketHistory) (c : HistoryCall)
  : flow R (HistoryResult * RTPPacketHistory) :=
  match c with
  | CallPut now packet max cap type =>
      let! (ret, self) := PutRTPPacket self now packet (Zlen packet) max cap type in Cont (ResultPut ret, self)
  | CallGet now seq min retransmit buffer =>
      let! (r, self) := GetPacketAndSetSendTime self now seq min retransmit buffer in Cont (ResultGet r, self)
  | CallBest size buffer => let! r := GetBestFittingPacket self buffer size in Cont (ResultGet r, self)
  | CallHas seq => let! b := HasRTPPacket self seq in Cont (ResultHas b, self)
  end.

Definition may_send (now min : Z) (retransmit : bool) (e : Stored) : Prop :=
  (0 < min -> min <= now - st_sent e) /\ (retransmit = true -> st_type e <> kDontRetransmit).

(** The number in a packet. *)
Definition number_of (packet : list Z) : Z := u16 (Z.shiftl (zat packet 2) 8 + zat packet 3).

(** The steps of the specification, on the length of the longest packet that may be stored
    and the list: a packet that may be stored is, and pushes out the oldest; a packet is
    given when it is there and may be sent; otherwise the list does not change. *)
Inductive kept_step (n : nat) : Z -> list Stored -> HistoryCall -> HistoryResult -> Z -> list Stored -> Prop :=
| kept_put m q now packet max cap type :
    type <> kDontStore -> Zlen packet <= Z.max m max ->
    kept_step n m q (CallPut now packet max cap type) (ResultPut 0)
      (Z.max m max) (take n (mkStored (number_of packet) packet (if 0 <? cap then cap else now) 0 type :: q))
| kept_too_long m q now packet max cap type :
    type <> kDontStore -> Z.max m max < Zlen packet ->
    kept_step n m q (CallPut now packet max cap type) (ResultPut (-1)) (Z.max m max) q
| kept_not_stored m q now packet max cap :
    kept_step n m q (CallPut now packet max cap kDontStore) (ResultPut 0) m q
| kept_get m q i e now min retransmit buffer :
    q !! i = Some e -> may_send now min retransmit e ->
    kept_step n m q (CallGet now (st_seq e) min retransmit buffer)
      (ResultGet (Some (put buffer 0 (st_bytes e), Zlen (st_bytes e), st_time e))) m (alter (set_sent now) i q)
| kept_refused m q i e now min retransmit buffer :
    q !! i = Some e -> ~ may_send now min retransmit e ->
    kept_step n m q (CallGet now (st_seq e) min retransmit buffer) (ResultGet None) m q
| kept_absent m q now seq min retransmit buffer :
    seq ∉ st_seq <$> q -> kept_step n m q (CallGet now seq min retransmit buffer) (ResultGet None) m q
| kept_best m q e size buffer :
    e ∈ q -> kMinPacketRequestBytes <= size ->
    (forall e', e' ∈ q -> Z.abs (Zlen (st_bytes e) - size) <= Z.abs (Zlen (st_bytes e') - size)) ->
    kept_step n m q (CallBest size buffer)
      (ResultGet (Some (put buffer 0 (st_bytes e), Zlen (st_bytes e), st_time e))) m q
| kept_no_best m q size buffer :
    q = [] \/ size < kMinPacketRequestBytes -> kept_step n m q (CallBest size buffer) (ResultGet None) m q
| kept_has m q seq : kept_step n m q (CallHas seq) (ResultHas (bool_decide (seq ∈ st_seq <$> q))) m q.

(** ** The arrays hold the list *)

Definition holds_at (self : RTPPacketHistory) (j : Z) (e : Stored) : Prop :=
  zat (stored_seq_nums_ self) j = st_seq e /\ zat (stored_lengths_ self) j = Zlen (st_bytes e) /\
  ztake (Zlen (st_bytes e)) (zat (stored_packets_ self) j) = st_bytes e /\
  zat (stored_times_ self) j = st_time e /\ zat (stored_send_times_ self) j = st_sent e /\
  zat (stored_types_ self) j = st_type e /\ 0 < Zlen (st_bytes e) <= max_packet_length_ self.

Record arrays_ok (self : RTPPacketHistory) (n : Z) : Prop := mkArraysOk {
  ar_store : store_ self = true;
  ar_size : 0 < n < 65536;
  ar_prev : 0 <= prev_index_ self < n;
  ar_max : 0 <= max_packet_length_ self;
  ar_packets : Zlen (stored_packets_ self) = n;
  ar_seqs : Zlen (stored_seq_nums_ self) = n;
  ar_lengths : Zlen (stored_lengths_ self) = n;
  ar_times : Zlen (stored_times_ self) = n;
  ar_sends : Zlen (stored_send_times_ self) = n;
  ar_types : Zlen (stored_types_ self) = n;
  ar_rows : forall j, 0 <= j < n -> Zlen (zat (stored_packets_ self) j) = max_packet_length_ self
}.

(** The place of the packet that was stored before [i] others. *)
Definition place (prev n : Z) (i : nat) : Z :=
  let j := prev - 1 - Z.of_nat i in if j <? 0 then j + n else j.

Record holds (self : RTPPacketHistory) (n : nat) (q : list Stored) : Prop := mkHolds {
  hd_arrays : arrays_ok self (Z.of_nat n);
  hd_length : (length q <= n)%nat;
  hd_at : forall i e, q !! i = Some e -> holds_at self (place (prev_index_ self) (Z.of_nat n) i) e;
  hd_start : (length q < n)%nat -> prev_index_ self = Z.of_nat (length q);
  hd_empty : forall j, Z.of_nat (length q) <= j < Z.of_nat n ->
    zat (stored_lengths_ self) j = 0 /\ zat (stored_seq_nums_ self) j = 0;
  hd_seqs : Forall is_u16 (stored_seq_nums_ self)
}.

Lemma place_bounds prev n i : 0 <= prev < n -> Z.of_nat i < n -> 0 <= place prev n i < n.
Proof. intros. unfold place. destruct (Z.ltb_spec (prev - 1 - Z.of_nat i) 0); lia. Qed.

Lemma place_inj prev n i i' :
  0 <= prev < n -> Z.of_nat i < n -> Z.of_nat i' < n -> place prev n i = place prev n i' -> i = i'.
Proof.
  intros Hp Hi Hi'. unfold place. destruct (Z.ltb_spec (prev - 1 - Z.of_nat i) 0), (Z.ltb_spec (prev - 1 - Z.of_nat i') 0); lia.
Qed.

(** Every place is that of some packet when all are used, and the first ones otherwise. *)
Lemma place_of self n q j :
  holds self n q -> 0 <= j < Z.of_nat (length q) ->
  exists i, (i < length q)%nat /\ place (prev_index_ self) (Z.of_nat n) i = j.
Proof.
  intros [[_ _ Hp _ _ _ _ _ _ _ _] Hl _ Hs _ _] Hj. set (prev := prev_index_ self) in *.
  destruct (decide (length q < n)%nat) as [Hlt|Hge].
  - specialize (Hs Hlt). exists (Z.to_nat (prev - 1 - j)). split; [lia|]. unfold place.
    destruct (Z.ltb_spec (prev - 1 - Z.of_nat (Z.to_nat (prev - 1 - j))) 0); lia.
  - exists (Z.to_nat (if prev - 1 - j <? 0 then prev - 1 - j + Z.of_nat n else prev - 1 - j)).
    unfold place. destruct (Z.ltb_spec (prev - 1 - j) 0).
    + split; [lia|]. destruct (Z.ltb_spec (prev - 1 - Z.of_nat (Z.to_nat (prev - 1 - j + Z.of_nat n))) 0); lia.
    + split; [lia|]. destruct (Z.ltb_spec (prev - 1 - Z.of_nat (Z.to_nat (prev - 1 - j))) 0); lia.
Qed.

Lemma zat_vector_resize {A} `{!Inhabited A} n (x : A) j : 0 <= j < n -> zat (vector_resize n x []) j = x.
Proof.
  intros Hj. unfold vector_resize, zat. rewrite resize_nil. apply list_lookup_total_correct, lookup_replicate_2. lia.
Qed.

Lemma Zlen_vector_resize {A} n (x : A) l : 0 <= n -> Zlen (vector_resize n x l) = n.
Proof. intros. unfold vector_resize, Zlen. rewrite length_resize. lia. Qed.

Lemma holds_new n : 0 < Z.of_nat n < 65536 -> holds (SetStorePacketsStatus new_RTPPacketHistory true (Z.of_nat n)) n [].
Proof.
  intros Hn. unfold SetStorePacketsStatus, new_RTPPacketHistory, Allocate. cbn [store_]. rewrite u16_id by (unfold is_u16; lia).
  split; cbn; try done; try lia.
  - split; cbn; try (by apply Zlen_vector_resize; lia); try lia. intros j Hj. by rewrite zat_vector_resize by lia.
  - intros j Hj. by rewrite !zat_vector_resize.
  - unfold vector_resize. rewrite resize_nil. by apply Forall_replicate.
Qed.

(** ** Looking for a number *)

Lemma search_all_spec seq l m :
  match search_all seq l m with
  | Some j => m <= j < m + Zlen l /\ zat l (j - m) = seq /\ forall k, 0 <= k < j - m -> zat l k <> seq
  | None => forall k, 0 <= k < Zlen l -> zat l k <> seq
  end.
Proof.
  assert (Hnext : forall x (l : list Z) k, 0 < k -> zat (x :: l) k = zat l (k - 1)).
  { intros x l' k Hk. change (x :: l') with ([x] ++ l'). rewrite zat_app by lia. change (Zlen [x]) with 1.
    by rewrite (proj2 (Z.ltb_ge k 1)) by lia. }
  revert m. induction l as [|x l IH]; intros m; cbn [search_all]; [intros k Hk; unfold Zlen in Hk; simpl in Hk; lia|].
  pose proof (Zlen_nonneg l). rewrite Zlen_cons. destruct (Z.eqb_spec x seq) as [->|Hne].
  - rewrite Z.sub_diag. split; [lia|]. split; [done|]. lia.
  - assert (H0 : zat (x :: l) 0 <> seq) by done. specialize (IH (m + 1)).
    destruct (search_all seq l (m + 1)) as [j|].
    + destruct IH as (Hj & E & Hl). split; [lia|]. split; [rewrite Hnext by lia; by replace (j - m - 1) with (j - (m + 1)) by lia|].
      intros k Hk. destruct (decide (k = 0)) as [->|]; [done|]. rewrite Hnext by lia. apply Hl. lia.
    + intros k Hk. destruct (decide (k = 0)) as [->|]; [done|]. rewrite Hnext by lia. apply IH. lia.
Qed.

Lemma guess_index p t s :
  0 <= p < 65536 -> is_u16 t -> is_u16 s -> s32 (u32 (u32 (p - 1) - (t - s))) = p - 1 - (t - s).
Proof.
  intros Hp Ht Hs. assert (E : u32 (u32 (p - 1) - (t - s)) = u32 (p - 1 - (t - s))) by (unfold u32; apply Zminus_mod_idemp_l).
  rewrite E. unfold is_u16 in *. unfold s32, u32. zdm.
Qed.

(** A place that has the number, and a packet when one of them has the number. *)
Lemma FindSeqNum_holds {R} self n q seq :
  holds self n q -> is_u16 seq ->
  exists b j, FindSeqNum (R := R) self seq = Cont (b, j) /\ 0 <= j < Z.of_nat n
    /\ (b = true -> zat (stored_seq_nums_ self) j = seq)
    /\ (seq ∈ st_seq <$> q -> b = true /\ j < Z.of_nat (length q)).
Proof.
  intros Hh Hseq. assert (Hh' := Hh). destruct Hh' as [[As An Ap Am A1 A2 A3 A4 A5 A6 A7] Hl Hat Hst Hem Hsq].
  assert (Hu : forall j, 0 <= j < Z.of_nat n -> is_u16 (zat (stored_seq_nums_ self) j))
    by (intros j Hj; rewrite Forall_forall in Hsq; apply Hsq; unfold zat; eapply list_elem_of_lookup_2, list_lookup_lookup_total_lt; unfold Zlen in A2; lia).
  assert (Hin : seq ∈ st_seq <$> q -> exists j, 0 <= j < Z.of_nat (length q) /\ zat (stored_seq_nums_ self) j = seq).
  { intros (e & -> & [i Hi]%list_elem_of_lookup)%list_elem_of_fmap. assert (Hlt := lookup_lt_Some _ _ _ Hi).
    exists (place (prev_index_ self) (Z.of_nat n) i). split; [|by apply (Hat i)].
    pose proof (place_bounds (prev_index_ self) (Z.of_nat n) i Ap ltac:(lia)) as Hb.
    destruct (decide (length q < n)%nat) as [Hlq|]; [|lia]. specialize (Hst Hlq). unfold place in *.
    destruct (Z.ltb_spec (prev_index_ self - 1 - Z.of_nat i) 0); lia. }
  unfold FindSeqNum. rewrite A2. set (index := if 0 <? prev_index_ self then _ else _).
  assert (Hindex : 0 <= index < Z.of_nat n) by (subst index; destruct (Z.ltb_spec 0 (prev_index_ self)); lia).
  rewrite rd_zat by lia. cbn [flow_bind]. rewrite guess_index by ((apply Hu; lia) || done || lia).
  set (idx := prev_index_ self - 1 - _).
  set (j0 := if (0 <=? idx) && (idx <? Z.of_nat n) then idx else index).
  assert (Hj0 : 0 <= j0 < Z.of_nat n)
    by (subst j0; destruct (Z.leb_spec 0 idx), (Z.ltb_spec idx (Z.of_nat n)); cbn [andb]; lia).
  replace (if (0 <=? idx) && (idx <? Z.of_nat n) then _ else _) with (Cont (R := R) (j0, zat (stored_seq_nums_ self) j0)).
  2:{ subst j0. destruct (Z.leb_spec 0 idx), (Z.ltb_spec idx (Z.of_nat n)); cbn [andb]; try done. by rewrite rd_zat by lia. }
  cbn [flow_bind]. assert (Hs := search_all_spec seq (stored_seq_nums_ self) 0). rewrite A2 in Hs.
  destruct (Z.eqb_spec (zat (stored_seq_nums_ self) j0) seq) as [E|E].
  - exists true, j0. split; [done|]. split; [done|]. split; [done|]. intros H. split; [done|].
    destruct (decide (length q < n)%nat) as [Hlq|]; [|lia]. specialize (Hst Hlq).
    destruct (Hin H) as (j & Hj & Ej). assert (Hp : 0 < prev_index_ self) by lia.
    assert (Ei : index = prev_index_ self - 1) by (subst index; by rewrite (proj2 (Z.ltb_lt _ _)) by lia).
    clear Hs. subst j0. destruct (Z.leb_spec 0 idx), (Z.ltb_spec idx (Z.of_nat n)); cbn [andb] in *; try lia.
    destruct (decide (idx < prev_index_ self)); [lia|].
    destruct (Hem idx) as [_ Hz]; [lia|]. rewrite Hz in E. subst seq idx. specialize (Hu index ltac:(lia)). unfold is_u16 in Hu. lia.
  - destruct (search_all seq (stored_seq_nums_ self) 0) as [j|].
    + destruct Hs as (Hj & Ej & Hl'). rewrite Z.sub_0_r in *. exists true, j. split; [done|]. split; [lia|]. split; [done|].
      intros H. split; [done|]. destruct (Hin H) as (j' & Hj' & Ej'). destruct (decide (j <= j')); [lia|]. destruct (Hl' j'); [lia|done].
    + exists false, j0. split; [done|]. split; [done|]. split; [done|]. intros H. destruct (Hin H) as (j & Hj & Ej).
      destruct (Hs j); [lia|done].
Qed.

(** ** Storing *)

Lemma zat_fmap {A B} `{!Inhabited A, !Inhabited B} (f : A -> B) (l : list A) j :
  0 <= j < Zlen l -> zat (f <$> l) j = f (zat l j).
Proof.
  intros Hj. unfold zat. apply list_lookup_total_correct. rewrite list_lookup_fmap.
  rewrite list_lookup_lookup_total_lt by (unfold Zlen in Hj; lia). done.
Qed.

Lemma Verify_max self max :
  store_ self = true -> max_packet_length_ (VerifyAndAllocatePacketLength self max) = Z.max (max_packet_length_ self) max.
Proof.
  intros Hs. unfold VerifyAndAllocatePacketLength. rewrite Hs. cbn [negb].
  destruct (Z.leb_spec max (max_packet_length_ self)); cbn [max_packet_length_]; lia.
Qed.

Lemma Verify_holds self n q max : holds self n q -> 0 <= max -> holds (VerifyAndAllocatePacketLength self max) n q.
Proof.
  intros Hh Hmax. unfold VerifyAndAllocatePacketLength. assert (Hh' := Hh).
  destruct Hh as [[As An Ap Am A1 A2 A3 A4 A5 A6 A7] Hl Hat Hst Hem Hsq]. rewrite As. cbn [negb].
  destruct (Z.leb_spec max (max_packet_length_ self)); [done|]. clear Hh'. split; cbn; try done.
  - split; cbn; try done; try lia; [unfold Zlen in *; by rewrite length_fmap|].
    intros j Hj. rewrite zat_fmap by lia. by apply Zlen_vector_resize.
  - intros i e Hi. pose proof (place_bounds (prev_index_ self) (Z.of_nat n) i Ap ltac:(apply lookup_lt_Some in Hi; lia)) as Hb.
    destruct (Hat i e Hi) as (E1 & E2 & E3 & E4 & E5 & E6 & E7). split; [done|]. split; [done|].
    split; [|split; [done|]; split; [done|]; split; [done|]; cbn; lia]. cbn. rewrite zat_fmap by lia.
    etransitivity; [|exact E3]. specialize (A7 _ Hb). unfold vector_resize, ztake, Zlen in *.
    rewrite resize_ge by lia. apply take_app_le. lia.
Qed.

Lemma next_place prev n i :
  0 <= prev < n -> 0 <= n < 65536 -> Z.of_nat i < n ->
  let next := u32 (prev + 1) in let next := if n <=? next then 0 else next in
  0 <= next < n /\ place next n i = match i with O => prev | S i => place prev n i end.
Proof.
  intros Hp Hn Hi. assert (E : u32 (prev + 1) = prev + 1) by (apply u32_id; unfold is_u32; lia).
  cbv zeta. rewrite E. destruct (Z.leb_spec n (prev + 1)); (split; [lia|]); unfold place; destruct i as [|i];
    repeat match goal with |- context [?a <? 0] => destruct (Z.ltb_spec a 0) end; lia.
Qed.

Lemma PutRTPPacket_holds {R} self n q now packet max cap type :
  holds self n q -> type <> kDontStore -> 4 <= Zlen packet -> 0 <= max ->
  let limit := Z.max (max_packet_length_ self) max in
  exists ret self', PutRTPPacket (R := R) self now packet (Zlen packet) max cap type = Cont (ret, self')
    /\ max_packet_length_ self' = limit
    /\ if limit <? Zlen packet then ret = -1 /\ holds self' n q
       else ret = 0 /\ holds self' n (take n (mkStored (number_of packet) packet (if 0 <? cap then cap else now) 0 type :: q)).
Proof.
  intros Hh Htype Hlen Hmax limit. assert (Hstore := ar_store _ _ (hd_arrays _ _ _ Hh)).
  assert (Hm := Verify_max self max Hstore). fold limit in Hm. apply (Verify_holds _ _ _ max) in Hh; [|done].
  unfold PutRTPPacket. rewrite decide_False, Hstore by done. cbn [negb]. set (self1 := VerifyAndAllocatePacketLength self max) in *.
  clearbody self1. rewrite Hm. destruct (Z.ltb_spec limit (Zlen packet)) as [Hlong|Hfit].
  { exists (-1), self1. split; [done|]. split; [done|]. done. }
  assert (Hh' := Hh). destruct Hh' as [[As An Ap Am A1 A2 A3 A4 A5 A6 A7] Hl Hat Hst Hem Hsq]. rewrite Hm in *.
  set (prev := prev_index_ self1) in *. assert (Hrow := A7 prev Ap).
  rewrite !rd_zat by lia. cbn [flow_bind].
  rewrite blk_get_Cont, zdrop_0, ztake_all by lia. cbn [flow_bind].
  rewrite blk_put_put by lia. cbn [flow_bind]. rewrite !wr_Cont by lia. cbn [flow_bind]. rewrite Zlen_insert, A2.
  set (e := mkStored _ _ _ _ _). fold (number_of packet).
  set (next := if Z.of_nat n <=? u32 (prev + 1) then 0 else u32 (prev + 1)).
  eexists 0, _. split; [done|]. split; [done|]. split; [done|].
  assert (Hnext := fun i Hi => next_place prev (Z.of_nat n) i Ap ltac:(lia) Hi). cbv zeta in Hnext. fold next in Hnext.
  assert (Hput : Zlen (put (zat (stored_packets_ self1) prev) 0 packet) = limit) by (rewrite Zlen_put; lia).
  split.
  - split; cbn [store_ prev_index_ max_packet_length_ stored_packets_ stored_seq_nums_ stored_lengths_ stored_times_ stored_send_times_ stored_types_];
      rewrite ?Zlen_insert; try done; [apply (Hnext O); lia|].
    intros j Hj. rewrite zat_insert by lia. destruct (Z.eqb_spec j prev); [done|by apply A7].
  - rewrite length_take. simpl. lia.
  - intros i x Hi. apply lookup_take_Some in Hi as [Hi Hin].
    destruct (Hnext i ltac:(lia)) as [_ Hpl]. cbn [prev_index_]. rewrite Hpl. unfold holds_at.
    cbn [store_ prev_index_ max_packet_length_ stored_packets_ stored_seq_nums_ stored_lengths_ stored_times_ stored_send_times_ stored_types_].
    destruct i as [|i]; cbn [lookup list_lookup] in Hi.
    + injection Hi as <-. rewrite !zat_insert by lia. rewrite Z.eqb_refl. cbn [e st_seq st_bytes st_time st_sent st_type].
      split; [done|]. split; [done|]. split; [rewrite put_0; by apply ztake_front|]. do 3 (split; [done|]). lia.
    + assert (Hb := place_bounds prev (Z.of_nat n) i Ap ltac:(lia)).
      assert (Hne : place prev (Z.of_nat n) i <> prev)
        by (unfold place; destruct (Z.ltb_spec (prev - 1 - Z.of_nat i) 0); lia).
      rewrite !zat_insert by lia. rewrite (proj2 (Z.eqb_neq _ _) Hne). specialize (Hat i x Hi). unfold holds_at in Hat.
      rewrite Hm in Hat. exact Hat.
  - rewrite length_take. intros Hlt. cbn [length] in *. assert (Hq : (length q < n)%nat) by lia. specialize (Hst Hq).
    cbn [prev_index_]. subst next. rewrite u32_id by (unfold is_u32; lia). destruct (Z.leb_spec (Z.of_nat n) (prev + 1)); lia.
  - rewrite length_take. cbn [length stored_lengths_ stored_seq_nums_]. intros j Hj.
    assert (Hq : (length q < n)%nat) by lia. specialize (Hst Hq). rewrite !zat_insert by lia.
    rewrite (proj2 (Z.eqb_neq j prev)) by lia. apply Hem. lia.
  - cbn [stored_seq_nums_]. apply Forall_insert; [done|]. apply u16_range.
Qed.

(** ** Fetching *)

Definition with_send_time (self : RTPPacketHistory) (j now : Z) : RTPPacketHistory :=
  mkHistory (store_ self) (prev_index_ self) (max_packet_length_ self) (stored_packets_ self)
    (stored_seq_nums_ self) (stored_lengths_ self) (stored_times_ self)
    (<[Z.to_nat j := now]> (stored_send_times_ self)) (stored_types_ self).

Lemma set_sent_holds self n q i e now :
  holds self n q -> q !! i = Some e ->
  holds (with_send_time self (place (prev_index_ self) (Z.of_nat n) i) now) n (alter (set_sent now) i q).
Proof.
  intros Hh Hi. assert (Hlt := lookup_lt_Some _ _ _ Hi). destruct Hh as [[As An Ap Am A1 A2 A3 A4 A5 A6 A7] Hl Hat Hst Hem Hsq].
  assert (Hb := place_bounds (prev_index_ self) (Z.of_nat n) i Ap ltac:(lia)).
  split; cbn; rewrite ?length_alter; try done.
  - split; cbn; rewrite ?Zlen_insert; try done.
  - intros k x Hk. assert (Hkl := lookup_lt_Some _ _ _ Hk). rewrite length_alter in Hkl.
    assert (Hbk := place_bounds (prev_index_ self) (Z.of_nat n) k Ap ltac:(lia)).
    unfold holds_at. cbn. rewrite zat_insert by lia. destruct (decide (k = i)) as [->|Hne].
    + rewrite list_lookup_alter_eq, Hi in Hk. injection Hk as <-. rewrite Z.eqb_refl. cbn.
      destruct (Hat i e Hi) as (E1 & E2 & E3 & E4 & E5 & E6 & E7). done.
    + rewrite list_lookup_alter_ne in Hk by done. rewrite (proj2 (Z.eqb_neq _ _)).
      * apply (Hat k x Hk).
      * intros E. apply place_inj in E; [done|done|lia|lia].
Qed.

(** A place that is used has a packet. *)
Lemma holds_used self n q j :
  holds self n q -> 0 <= j < Z.of_nat n -> zat (stored_lengths_ self) j <> 0 ->
  exists i e, q !! i = Some e /\ place (prev_index_ self) (Z.of_nat n) i = j /\ holds_at self j e.
Proof.
  intros Hh Hj Hlen. assert (Hh' := Hh). destruct Hh' as [_ _ Hat _ Hem _].
  assert (Hjq : j < Z.of_nat (length q)) by (destruct (decide (j < Z.of_nat (length q))); [done|destruct (Hem j); lia]).
  destruct (place_of self n q j Hh ltac:(lia)) as (i & Hi & Hpl). destruct (lookup_lt_is_Some_2 q i Hi) as [e He].
  exists i, e. split; [done|]. split; [done|]. rewrite <- Hpl. by apply Hat.
Qed.

(** A packet is in a place that is used. *)
Lemma holds_used_by self n q e :
  holds self n q -> e ∈ q -> exists j, 0 <= j < Z.of_nat n /\ holds_at self j e /\ zat (stored_lengths_ self) j <> 0.
Proof.
  intros [[_ _ Ap _ _ _ _ _ _ _ _] Hl Hat _ _ _] [i Hi]%list_elem_of_lookup.
  assert (Hlt := lookup_lt_Some _ _ _ Hi). exists (place (prev_index_ self) (Z.of_nat n) i).
  assert (Ha := Hat i e Hi). split; [apply place_bounds; lia|]. split; [done|].
  destruct Ha as (_ & E & _ & _ & _ & _ & ?). lia.
Qed.

(** Whether a packet is there, and where. *)
Lemma FindSeqNum_length {R} self n q seq :
  holds self n q -> is_u16 seq ->
  exists b j, FindSeqNum (R := R) self seq = Cont (b, j) /\ 0 <= j < Z.of_nat n
    /\ if b && negb (zat (stored_lengths_ self) j =? 0)
       then exists i e, q !! i = Some e /\ place (prev_index_ self) (Z.of_nat n) i = j /\ holds_at self j e /\ st_seq e = seq
       else seq ∉ st_seq <$> q.
Proof.
  intros Hh Hseq. destruct (FindSeqNum_holds (R := R) self n q seq Hh Hseq) as (b & j & E & Hj & Hb & Hin).
  exists b, j. split; [done|]. split; [done|]. destruct b; [|intros H; by destruct (Hin H)]. cbn [andb].
  destruct (Z.eqb_spec (zat (stored_lengths_ self) j) 0) as [E0|E0]; cbn [negb].
  - intros H. destruct (Hin H) as [_ Hjq]. assert (Hh' := Hh). destruct Hh' as [_ _ Hat _ _ _].
    destruct (place_of self n q j Hh ltac:(lia)) as (i & Hi & Hpl). destruct (lookup_lt_is_Some_2 q i Hi) as [e He].
    specialize (Hat i e He). rewrite Hpl in Hat. destruct Hat as (_ & E2 & _ & _ & _ & _ & E7). lia.
  - destruct (holds_used self n q j Hh Hj E0) as (i & e & He & Hpl & Ha). exists i, e. split; [done|]. split; [done|].
    split; [done|]. destruct Ha as [E1 _]. rewrite <- E1. by apply Hb.
Qed.

(** The bytes of a place. *)
Lemma GetPacket_holds {R} self n q j e buffer :
  holds self n q -> 0 <= j < Z.of_nat n -> holds_at self j e -> max_packet_length_ self <= Zlen buffer ->
  GetPacket (R := R) self j buffer = Cont (put buffer 0 (st_bytes e), Zlen (st_bytes e), st_time e).
Proof.
  intros [[_ _ _ _ A1 _ A3 A4 _ _ A7] _ _ _ _ _] Hj (_ & E2 & E3 & E4 & _ & _ & E7) Hbuf. unfold GetPacket.
  rewrite !rd_zat by lia. cbn [flow_bind]. rewrite E2, blk_get_Cont, zdrop_0, E3 by (rewrite ?A7; lia). cbn [flow_bind].
  rewrite blk_put_put by lia. cbn [flow_bind]. by rewrite E4.
Qed.

Lemma Has_holds {R} self n q seq :
  holds self n q -> is_u16 seq -> HasRTPPacket (R := R) self seq = Cont (bool_decide (seq ∈ st_seq <$> q)).
Proof.
  intros Hh Hseq. assert (As := ar_store _ _ (hd_arrays _ _ _ Hh)). assert (A3 := ar_lengths _ _ (hd_arrays _ _ _ Hh)).
  unfold HasRTPPacket. rewrite As. cbn [negb].
  destruct (FindSeqNum_length (R := R) self n q seq Hh Hseq) as (b & j & -> & Hj & H). cbn [flow_bind].
  destruct b; cbn [negb andb] in *; [|by rewrite bool_decide_eq_false_2]. rewrite rd_zat by lia. cbn [flow_bind].
  destruct (Z.eqb_spec (zat (stored_lengths_ self) j) 0) as [E0|E0]; cbn [negb orb] in *; [by rewrite bool_decide_eq_false_2|].
  destruct H as (i & e & He & _ & (_ & E2 & _ & _ & _ & _ & E7) & <-). rewrite (proj2 (Z.ltb_ge _ _)) by lia. symmetry. f_equal.
  apply bool_decide_eq_true_2, list_elem_of_fmap. exists e. split; [done|]. by eapply list_elem_of_lookup_2.
Qed.

Lemma best_fitting_spec size l pre d b :
  (if d <? 0 then forall k, 0 <= k < Zlen pre -> zat pre k = 0
   else 0 <= b < Zlen pre /\ zat pre b <> 0 /\ d = Z.abs (zat pre b - size)
        /\ forall k, 0 <= k < Zlen pre -> zat pre k <> 0 -> d <= Z.abs (zat pre k - size)) ->
  let '(d, b) := best_fitting size l (Zlen pre) d b in let l := pre ++ l in
  if d <? 0 then forall k, 0 <= k < Zlen l -> zat l k = 0
  else 0 <= b < Zlen l /\ zat l b <> 0 /\ d = Z.abs (zat l b - size)
       /\ forall k, 0 <= k < Zlen l -> zat l k <> 0 -> d <= Z.abs (zat l k - size).
Proof.
  revert pre d b. induction l as [|x l IH]; intros pre d b H; cbn [best_fitting]; [by rewrite app_nil_r|].
  assert (Hlen : Zlen (pre ++ [x]) = Zlen pre + 1) by (by rewrite Zlen_app).
  assert (Hx : zat (pre ++ [x]) (Zlen pre) = x) by (pose proof (Zlen_nonneg pre); rewrite zat_app, Z.ltb_irrefl, Z.sub_diag by lia; done).
  assert (Hp : forall k, 0 <= k < Zlen pre -> zat (pre ++ [x]) k = zat pre k)
    by (intros k Hk; rewrite zat_app, (proj2 (Z.ltb_lt _ _)) by lia; done).
  assert (Hcase : forall k, 0 <= k < Zlen pre + 1 -> k = Zlen pre \/ 0 <= k < Zlen pre) by lia.
  pose proof (Zlen_nonneg pre). rewrite <- Hlen. replace (pre ++ x :: l) with ((pre ++ [x]) ++ l) by by rewrite <- app_assoc.
  destruct (Z.eqb_spec x 0) as [->|Hx0]; [|destruct (Z.ltb_spec d 0) as [Hd|Hd]; cbn [orb]; [|destruct (Z.ltb_spec (Z.abs (x - size)) d)]];
    apply IH; rewrite Hlen.
  - destruct (d <? 0); [intros k [->|Hk]%Hcase; [done|]; rewrite Hp by done; by apply H|].
    destruct H as (Hb & Hne & Hdb & Hmin). rewrite Hp by done. split; [lia|]. split; [done|]. split; [done|].
    intros k [->|Hk]%Hcase; [by rewrite Hx|]. rewrite Hp by done. by apply Hmin.
  - rewrite (proj2 (Z.ltb_ge _ _)) by lia. rewrite Hx. split; [lia|]. split; [done|]. split; [done|].
    intros k [->|Hk]%Hcase; [rewrite Hx; lia|]. rewrite Hp by done. by rewrite H by done.
  - rewrite (proj2 (Z.ltb_ge _ _)) by lia. rewrite Hx. split; [lia|]. split; [done|]. split; [done|].
    destruct H as (Hb & Hne & Hdb & Hmin). intros k [->|Hk]%Hcase; [rewrite Hx; lia|]. rewrite Hp by done.
    intros Hz. specialize (Hmin k Hk Hz). lia.
  - rewrite (proj2 (Z.ltb_ge _ _)) by lia. destruct H as (Hb & Hne & Hdb & Hmin). rewrite Hp by done. split; [lia|]. split; [done|]. split; [done|].
    intros k [->|Hk]%Hcase; [rewrite Hx; lia|]. rewrite Hp by done. by apply Hmin.
Qed.

Lemma Best_holds {R} self n q size buffer :
  holds self n q -> max_packet_length_ self <= Zlen buffer ->
  exists r, GetBestFittingPacket (R := R) self buffer size = Cont r
    /\ kept_step n (max_packet_length_ self) q (CallBest size buffer) (ResultGet r) (max_packet_length_ self) q.
Proof.
  intros Hh Hbuf. assert (As := ar_store _ _ (hd_arrays _ _ _ Hh)). assert (A3 := ar_lengths _ _ (hd_arrays _ _ _ Hh)).
  assert (Hn := ar_size _ _ (hd_arrays _ _ _ Hh)).
  unfold GetBestFittingPacket, FindBestFittingPacket. rewrite As. cbn [negb].
  destruct (stored_lengths_ self) as [|x l] eqn:El; [change (Zlen []) with 0 in A3; lia|]. rewrite <- El in *.
  destruct (Z.ltb_spec size kMinPacketRequestBytes); [exists None; split; [done|]; apply kept_no_best; by right|].
  assert (Hspec := best_fitting_spec size (stored_lengths_ self) [] (-1) 0 ltac:(intros k Hk; change (Zlen []) with 0 in Hk; lia)).
  change (Zlen []) with 0 in Hspec. destruct (best_fitting _ _ _ _ _) as [d b]. cbv zeta in Hspec. cbn [app] in Hspec. rewrite A3 in Hspec.
  destruct (Z.ltb_spec d 0).
  - exists None. split; [done|]. apply kept_no_best. left. destruct q as [|e q]; [done|].
    destruct (holds_used_by self n (e :: q) e Hh ltac:(by left)) as (j & Hj & _ & Hlen). by specialize (Hspec j Hj).
  - destruct Hspec as (Hb & Hne & -> & Hmin). rewrite (proj2 (Z.ltb_ge _ _)) by lia.
    destruct (holds_used self n q b Hh Hb Hne) as (i & e & He & _ & Ha).
    eexists. rewrite (GetPacket_holds self n q b e buffer Hh Hb Ha Hbuf). cbn [flow_bind]. split; [done|].
    apply kept_best; [by eapply list_elem_of_lookup_2|done|]. intros e' He'.
    destruct (holds_used_by self n q e' Hh He') as (j & Hj & Ha' & Hlen). specialize (Hmin j Hj Hlen).
    destruct Ha as (_ & E & _), Ha' as (_ & E' & _). rewrite E, E' in Hmin. done.
Qed.

Lemma Get_holds {R} self n q now seq min retransmit buffer :
  holds self n q -> is_u16 seq -> max_packet_length_ self <= Zlen buffer ->
  exists r self' q', GetPacketAndSetSendTime (R := R) self now seq min retransmit buffer = Cont (r, self')
    /\ kept_step n (max_packet_length_ self) q (CallGet now seq min retransmit buffer) (ResultGet r) (max_packet_length_ self) q' /\ holds self' n q'
    /\ max_packet_length_ self' = max_packet_length_ self.
Proof.
  intros Hh Hseq Hbuf. assert (Hh' := Hh). destruct Hh' as [[As An Ap Am A1 A2 A3 A4 A5 A6 A7] Hl Hat Hst Hem Hsq].
  unfold GetPacketAndSetSendTime. rewrite As. cbn [negb].
  destruct (FindSeqNum_length (R := R) self n q seq Hh Hseq) as (b & j & -> & Hj & H). cbn [flow_bind].
  destruct b; cbn [negb andb] in *; [|exists None, self, q; split; [done|]; split; [by apply kept_absent|done]].
  rewrite rd_zat by lia. cbn [flow_bind].
  destruct (Z.eqb_spec (zat (stored_lengths_ self) j) 0) as [E0|E0]; cbn [negb] in *;
    [exists None, self, q; split; [done|]; split; [by apply kept_absent|done]|].
  destruct H as (i & e & He & Hpl & Ha & Es). assert (Ha' := Ha). destruct Ha' as (E1 & E2 & E3 & E4 & E5 & E6 & E7).
  rewrite rd_zat by lia. cbn [flow_bind]. rewrite E5.
  destruct ((0 <? min) && (now - st_sent e <? min)) eqn:Eg.
  { exists None, self, q. split; [done|]. split; [|done]. rewrite <- Es. apply (kept_refused n _ q i e); [done|].
    apply andb_true_iff in Eg as [?%Z.ltb_lt ?%Z.ltb_lt]. intros [Hm _]. lia. }
  rewrite rd_zat by lia. cbn [flow_bind]. rewrite E6.
  destruct (retransmit && bool_decide (st_type e = kDontRetransmit)) eqn:Et.
  { exists None, self, q. split; [done|]. split; [|done]. rewrite <- Es. apply (kept_refused n _ q i e); [done|].
    apply andb_true_iff in Et as [? ?%bool_decide_eq_true]. intros [_ Hm]. by apply Hm. }
  rewrite wr_Cont by lia. cbn [flow_bind].
  assert (Hset := set_sent_holds self n q i e now Hh He). unfold with_send_time in Hset. rewrite As, Hpl in Hset.
  set (self' := mkHistory _ _ _ _ _ _ _ _ _) in *.
  assert (Hget : GetPacket (R := R) self' j buffer = GetPacket self j buffer) by done.
  rewrite Hget, (GetPacket_holds self n q j e buffer Hh Hj Ha Hbuf). cbn [flow_bind].
  eexists _, self', _. split; [done|]. split; [|split; [exact Hset|done]].
  rewrite <- Es. apply kept_get; [done|]. split.
  - intros Hmin. apply andb_false_iff in Eg as [?%Z.ltb_ge|?%Z.ltb_ge]; lia.
  - intros ->. by apply bool_decide_eq_false in Et.
Qed.

(** ** Every sequence of calls *)

(** Calls with packets of a proper size, and with buffers for them. *)
Definition call_fits (limit : Z) (c : HistoryCall) : Prop :=
  match c with
  | CallPut _ packet max _ _ => 4 <= Zlen packet /\ 0 <= max <= limit
  | CallGet _ seq _ _ buffer => is_u16 seq /\ limit <= Zlen buffer
  | CallBest _ buffer => limit <= Zlen buffer
  | CallHas seq => is_u16 seq
  end.

Lemma call_holds {R} limit self n q c :
  holds self n q -> max_packet_length_ self <= limit -> call_fits limit c ->
  exists r self' q', call_history (R := R) self c = Cont (r, self') /\ kept_step n (max_packet_length_ self) q c r (max_packet_length_ self') q'
    /\ holds self' n q' /\ max_packet_length_ self' <= limit.
Proof.
  intros Hh Hm Hc. destruct c as [now packet max cap type|now seq min retransmit buffer|size buffer|seq]; cbn [call_history call_fits] in *.
  - destruct Hc as [Hlen Hmax]. destruct (decide (type = kDontStore)) as [->|Ht].
    + exists (ResultPut 0), self, q. split; [done|]. split; [apply kept_not_stored|done].
    + destruct (PutRTPPacket_holds (R := R) self n q now packet max cap type Hh Ht Hlen) as (ret & self' & -> & Em & H); [lia|].
      cbn [flow_bind]. destruct (Z.ltb_spec (Z.max (max_packet_length_ self) max) (Zlen packet)); destruct H as [-> H].
      * exists (ResultPut (-1)), self', q. split; [done|]. rewrite Em. split; [by apply kept_too_long|]. split; [done|lia].
      * eexists (ResultPut 0), self', _. split; [done|]. rewrite Em. split; [by apply kept_put|]. split; [exact H|lia].
  - destruct Hc as [Hseq Hb]. destruct (Get_holds (R := R) self n q now seq min retransmit buffer Hh Hseq ltac:(lia))
      as (r & self' & q' & E & Hs & H & Em).
    exists (ResultGet r), self', q'. rewrite E, Em. split; [done|]. split; [done|]. split; [done|lia].
  - destruct (Best_holds (R := R) self n q size buffer Hh ltac:(lia)) as (r & -> & Hs). exists (ResultGet r), self, q. done.
  - rewrite (Has_holds self n q seq Hh Hc). eexists _, self, q. split; [done|]. split; [apply kept_has|done].
Qed.

(** The results of a list of calls. *)
Fixpoint run_history {R : Type} (self : RTPPacketHistory) (cs : list HistoryCall)
  : flow R (list HistoryResult * RTPPacketHistory) :=
  match cs with
  | [] => Cont ([], self)
  | c :: cs =>
      let! (r, self) := call_history self c in
      let! (rs, self) := run_history self cs in
      Cont (r :: rs, self)
  end.

Inductive kept_run (n : nat) : Z -> list Stored -> list HistoryCall -> list HistoryResult -> list Stored -> Prop :=
| kept_done m q : kept_run n m q [] [] q
| kept_next m q c r m1 q1 cs rs q2 :
    kept_step n m q c r m1 q1 -> kept_run n m1 q1 cs rs q2 -> kept_run n m q (c :: cs) (r :: rs) q2.

Lemma run_holds {R} limit n cs self q :
  holds self n q -> max_packet_length_ self <= limit -> Forall (call_fits limit) cs ->
  exists rs self' q', run_history (R := R) self cs = Cont (rs, self') /\ kept_run n (max_packet_length_ self) q cs rs q' /\ holds self' n q'.
Proof.
  revert self q. induction cs as [|c cs IH]; intros self q Hh Hm Hc.
  - exists [], self, q. split; [done|]. split; [constructor|done].
  - apply Forall_cons_1 in Hc as [Hc Hcs].
    destruct (call_holds (R := R) limit self n q c Hh Hm Hc) as (r & self1 & q1 & E & Hs & Hh1 & Hm1).
    destruct (IH self1 q1 Hh1 Hm1 Hcs) as (rs & self' & q' & E' & Hr & Hh').
    exists (r :: rs), self', q'. cbn [run_history]. rewrite E. cbn [flow_bind]. rewrite E'. split; [done|].
    split; [by eapply kept_next|done].
Qed.

(** C7: the history of a sender implements the list of the packets that it stored last.
    From a new history with any number of places every sequence of calls returns, and its
    results are those of a run of the specification: a stored packet is given back with
    its bytes, length and time until as many others were stored, when the time since its
    last retrieval and its type allow it, and never another one. *)
Theorem history_refines {R} n limit cs :
  0 < Z.of_nat n < 65536 -> 0 <= limit -> Forall (call_fits limit) cs ->
  exists rs self' q',
    run_history (R := R) (SetStorePacketsStatus new_RTPPacketHistory true (Z.of_nat n)) cs = Cont (rs, self')
    /\ kept_run n 0 [] cs rs q' /\ holds self' n q'.
Proof. intros Hn Hl Hc. apply (run_holds limit); [by apply holds_new|done|done]. Qed.

(** Three packets in two places: the first is gone, and the second is not given again at once. *)
Lemma history_refines_witness :
  exists self' q',
    run_history (R := unit) (SetStorePacketsStatus new_RTPPacketHistory true 2)
      [CallPut 5 [128; 96; 0; 1; 7] 8 0 kAllowRetransmission; CallPut 6 [128; 96; 0; 2; 8] 8 0 kAllowRetransmission;
       CallPut 7 [128; 96; 0; 3; 9] 8 0 kDontRetransmit; CallGet 9 1 0 true (replicate 8 0);
       CallGet 9 2 5 true (replicate 8 0); CallGet 10 2 5 true (replicate 8 0); CallGet 10 3 0 true (replicate 8 0)]
    = Cont ([ResultPut 0; ResultPut 0; ResultPut 0; ResultGet None; ResultGet (Some ([128; 96; 0; 2; 8; 0; 0; 0], 5, 6));
              ResultGet None; ResultGet None], self') /\ holds self' 2 q'.
Proof.
  destruct (history_refines (R := unit) 2 8
    [CallPut 5 [128; 96; 0; 1; 7] 8 0 kAllowRetransmission; CallPut 6 [128; 96; 0; 2; 8] 8 0 kAllowRetransmission;
     CallPut 7 [128; 96; 0; 3; 9] 8 0 kDontRetransmit; CallGet 9 1 0 true (replicate 8 0);
     CallGet 9 2 5 true (replicate 8 0); CallGet 10 2 5 true (replicate 8 0); CallGet 10 3 0 true (replicate 8 0)])
    as (rs & self' & q' & E & _ & Hh); [lia|lia| |].
  - repeat apply Forall_cons_2; try apply Forall_nil; cbn; unfold is_u16, Zlen; simpl; repeat split; lia || done.
  - exists self', q'. split; [|done]. change (Z.of_nat 2) with 2 in E. rewrite E. do 2 f_equal. vm_compute in E. by injection E as <- _.
Defined.
