(* ===== verification/Pacer.v ===== *)
(** * Pacing

    Models [modules/pacing/paced_sender.cc]: PacedSender spreads the transmission of
    packets.  It queues their numbers, and Process calls back for those that may be sent,
    by priority and within a budget of bytes.  The lock is open during a call back: other
    threads may then call into the pacer, and the class [Callback] says which calls they
    make.  The clock is read from the state of the world. *)
From stdpp Require Import gmap.
From S2P Require Import Prelude.
Local Open Scope Z_scope.

Definition kMinPacketLimitMs : Z := 5.
Definition kMaxIntervalTimeMs : Z := 30.
Definition kMaxQueueTimeWithoutSendingUs : Z := 30000.
Definition kDefaultMaxQueueLengthMs : Z := 2000.

Inductive Priority : Type := kHighPriority | kNormalPriority | kLowPriority.

#[export] Instance Priority_eq_dec : EqDecision Priority.
Proof. solve_decision. Defined.

(** [paced_sender::Packet] *)
Record Queued : Type := mkQueued {
  q_ssrc : Z;
  q_sequence_number : Z;
  q_capture_time_ms : Z;
  q_enqueue_time_ms : Z;
  q_bytes : Z;
  q_retransmission : bool
}.

#[export] Instance Queued_eq_dec : EqDecision Queued.
Proof. solve_decision. Defined.

(** ** PacketList *)

Record PacketList : Type := mkPacketList {
  packet_list_ : list Queued;
  sequence_number_set_ : gmap Z (gset Z)
}.

Definition new_PacketList : PacketList := mkPacketList [] ∅.

Definition list_empty (self : PacketList) : bool := match packet_list_ self with [] => true | _ => false end.

(** The numbers of a stream; a new stream has none. *)
Definition numbers_of (self : PacketList) (ssrc : Z) : gset Z := default ∅ (sequence_number_set_ self !! ssrc).

Definition front {R : Type} (self : PacketList) : flow R Queued :=
  match packet_list_ self with p :: _ => Cont p | [] => Stuck end.

Definition pop_front {R : Type} (self : PacketList) : flow R PacketList :=
  match packet_list_ self with
  | [] => Stuck
  | p :: l =>
      Cont (mkPacketList l (<[q_ssrc p := numbers_of self (q_ssrc p) ∖ {[q_sequence_number p]}]> (sequence_number_set_ self)))
  end.

Definition push_back (self : PacketList) (p : Queued) : PacketList :=
  let numbers := numbers_of self (q_ssrc p) in
  if bool_decide (q_sequence_number p ∈ numbers) then self
  else
    mkPacketList (packet_list_ self ++ [p])
      (<[q_ssrc p := {[q_sequence_number p]} ∪ numbers]> (sequence_number_set_ self)).

(** ** IntervalBudget *)

Record IntervalBudget : Type := mkBudget {
  target_rate_kbps_ : Z;
  bytes_remaining_ : Z
}.

Definition new_IntervalBudget (initial_target_rate_kbps : Z) : IntervalBudget := mkBudget initial_target_rate_kbps 0.

Definition set_target_rate_kbps (self : IntervalBudget) (target_rate_kbps : Z) : IntervalBudget :=
  mkBudget target_rate_kbps (bytes_remaining_ self).

Definition IncreaseBudget (self : IntervalBudget) (delta_time_ms : Z) : IntervalBudget :=
  let bytes := Z.quot (s32 (target_rate_kbps_ self * s32 delta_time_ms)) 8 in
  mkBudget (target_rate_kbps_ self)
    (if bytes_remaining_ self <? 0 then s32 (bytes_remaining_ self + bytes) else bytes).

Definition UseBudget (self : IntervalBudget) (bytes : Z) : IntervalBudget :=
  mkBudget (target_rate_kbps_ self)
    (Z.max (s32 (bytes_remaining_ self - bytes)) (Z.quot (s32 (-500 * target_rate_kbps_ self)) 8)).

(** ** PacedSender *)

Record PacedSender : Type := mkPacedSender {
  enabled_ : bool;
  paused_ : bool;
  max_queue_length_ms_ : Z;
  media_budget_ : IntervalBudget;
  padding_budget_ : IntervalBudget;
  time_last_update_us_ : Z;
  time_last_send_us_ : Z;
  capture_time_ms_last_queued_ : Z;
  capture_time_ms_last_sent_ : Z;
  high_priority_packets_ : PacketList;
  normal_priority_packets_ : PacketList;
  low_priority_packets_ : PacketList
}.

(** A list of packets by its priority. *)
Definition list_of (self : PacedSender) (priority : Priority) : PacketList :=
  match priority with
  | kHighPriority => high_priority_packets_ self
  | kNormalPriority => normal_priority_packets_ self
  | kLowPriority => low_priority_packets_ self
  end.

Definition set_list (self : PacedSender) (priority : Priority) (l : PacketList) : PacedSender :=
  mkPacedSender (enabled_ self) (paused_ self) (max_queue_length_ms_ self) (media_budget_ self) (padding_budget_ self)
    (time_last_update_us_ self) (time_last_send_us_ self) (capture_time_ms_last_queued_ self)
    (capture_time_ms_last_sent_ self)
    (if decide (priority = kHighPriority) then l else high_priority_packets_ self)
    (if decide (priority = kNormalPriority) then l else normal_priority_packets_ self)
    (if decide (priority = kLowPriority) then l else low_priority_packets_ self).

Definition set_status (self : PacedSender) (enabled paused : bool) (max_queue_length_ms : Z) : PacedSender :=
  mkPacedSender enabled paused max_queue_length_ms (media_budget_ self) (padding_budget_ self)
    (time_last_update_us_ self) (time_last_send_us_ self) (capture_time_ms_last_queued_ self)
    (capture_time_ms_last_sent_ self)
    (high_priority_packets_ self) (normal_priority_packets_ self) (low_priority_packets_ self).

Definition set_budgets (self : PacedSender) (media padding : IntervalBudget) (last_update last_send : Z) : PacedSender :=
  mkPacedSender (enabled_ self) (paused_ self) (max_queue_length_ms_ self) media padding last_update last_send
    (capture_time_ms_last_queued_ self) (capture_time_ms_last_sent_ self)
    (high_priority_packets_ self) (normal_priority_packets_ self) (low_priority_packets_ self).

Definition set_capture_times (self : PacedSender) (queued sent : Z) : PacedSender :=
  mkPacedSender (enabled_ self) (paused_ self) (max_queue_length_ms_ self) (media_budget_ self) (padding_budget_ self)
    (time_last_update_us_ self) (time_last_send_us_ self) queued sent
    (high_priority_packets_ self) (normal_priority_packets_ self) (low_priority_packets_ self).

(** The two readings of a clock. *)
Record Clock : Type := mkClock {
  TimeInMilliseconds : Z;
  TimeInMicroseconds : Z
}.

Definition UpdateBytesPerInterval (self : PacedSender) (delta_time_ms : Z) : PacedSender :=
  set_budgets self (IncreaseBudget (media_budget_ self) delta_time_ms) (IncreaseBudget (padding_budget_ self) delta_time_ms)
    (time_last_update_us_ self) (time_last_send_us_ self).

(** [last_send] is what the memory of [time_last_send_us_] holds: the constructor does not set it. *)
Definition new_PacedSender (clock : Clock) (max_bitrate_kbps min_bitrate_kbps last_send : Z) : PacedSender :=
  UpdateBytesPerInterval
    (mkPacedSender true false kDefaultMaxQueueLengthMs (new_IntervalBudget max_bitrate_kbps)
       (new_IntervalBudget min_bitrate_kbps) (TimeInMicroseconds clock) last_send 0 0
       new_PacketList new_PacketList new_PacketList)
    kMinPacketLimitMs.

Definition Pause (self : PacedSender) : PacedSender := set_status self (enabled_ self) true (max_queue_length_ms_ self).
Definition Resume (self : PacedSender) : PacedSender := set_status self (enabled_ self) false (max_queue_length_ms_ self).
Definition SetStatus (self : PacedSender) (enable : bool) : PacedSender :=
  set_status self enable (paused_ self) (max_queue_length_ms_ self).
Definition Enabled (self : PacedSender) : bool := enabled_ self.
Definition set_max_queue_length_ms (self : PacedSender) (max_queue_length_ms : Z) : PacedSender :=
  set_status self (enabled_ self) (paused_ self) max_queue_length_ms.

Definition UpdateBitrate (self : PacedSender) (max_bitrate_kbps min_bitrate_kbps : Z) : PacedSender :=
  set_budgets self (set_target_rate_kbps (media_budget_ self) max_bitrate_kbps)
    (set_target_rate_kbps (padding_budget_ self) min_bitrate_kbps)
    (time_last_update_us_ self) (time_last_send_us_ self).

(** Whether the packet may be sent now; if not, it is in its list. *)
Definition SendPacket (self : PacedSender) (clock : Clock) (priority : Priority)
  (ssrc sequence_number capture_time_ms bytes : Z) (retransmission : bool) : bool * PacedSender :=
  if negb (enabled_ self) then (true, self)
  else
    let capture_time_ms := if capture_time_ms <? 0 then TimeInMilliseconds clock else capture_time_ms in
    let self :=
      if bool_decide (priority <> kHighPriority) && (capture_time_ms_last_queued_ self <? capture_time_ms)
      then set_capture_times self capture_time_ms (capture_time_ms_last_sent_ self) else self in
    let p := mkQueued ssrc sequence_number capture_time_ms (TimeInMilliseconds clock) bytes retransmission in
    (false, set_list self priority (push_back (list_of self priority) p)).

(** The time of the packet at the front, if it is before [oldest]. *)
Definition oldest_of (l : PacketList) (oldest : Z) : Z :=
  match packet_list_ l with [] => oldest | p :: _ => Z.min oldest (q_enqueue_time_ms p) end.

Definition QueueInMs (self : PacedSender) (clock : Clock) : Z :=
  let now_ms := TimeInMilliseconds clock in
  let oldest := oldest_of (high_priority_packets_ self) now_ms in
  let oldest := oldest_of (normal_priority_packets_ self) oldest in
  let oldest := oldest_of (low_priority_packets_ self) oldest in
  s32 (now_ms - oldest).

Definition TimeUntilNextProcess (self : PacedSender) (clock : Clock) : Z :=
  let elapsed_time_ms := Z.quot (TimeInMicroseconds clock - time_last_update_us_ self + 500) 1000 in
  if elapsed_time_ms <=? 0 then kMinPacketLimitMs
  else if kMinPacketLimitMs <=? elapsed_time_ms then 0
  else s32 (kMinPacketLimitMs - elapsed_time_ms).

(** A list with packets that may be sent. *)
Definition ShouldSendNextPacket (self : PacedSender) (clock : Clock) : option Priority :=
  let high := high_priority_packets_ self in
  let normal := normal_priority_packets_ self in
  if bytes_remaining_ (media_budget_ self) <=? 0 then
    let overdue := kMaxQueueTimeWithoutSendingUs <? TimeInMicroseconds clock - time_last_send_us_ self in
    if overdue && negb (list_empty high) then Some kHighPriority
    else if overdue && negb (list_empty normal) then Some kNormalPriority
    else if (0 <=? max_queue_length_ms_ self) && (max_queue_length_ms_ self <? QueueInMs self clock) then
      let '(high_priority_capture_time, packet_list) :=
        match packet_list_ high with p :: _ => (q_capture_time_ms p, Some kHighPriority) | [] => (-1, None) end in
      match packet_list_ normal with
      | p :: _ =>
          if (high_priority_capture_time =? -1) || (q_capture_time_ms p <? high_priority_capture_time)
          then Some kNormalPriority else packet_list
      | [] => packet_list
      end
    else None
  else if negb (list_empty high) then Some kHighPriority
  else if negb (list_empty normal) then Some kNormalPriority
  else if negb (list_empty (low_priority_packets_ self)) then Some kLowPriority
  else None.

Definition UpdateMediaBytesSent (self : PacedSender) (clock : Clock) (num_bytes : Z) : PacedSender :=
  set_budgets self (UseBudget (media_budget_ self) num_bytes) (UseBudget (padding_budget_ self) num_bytes)
    (time_last_update_us_ self) (TimeInMicroseconds clock).

Definition GetNextPacketFromList {R : Type} (self : PacedSender) (clock : Clock) (packets : Priority)
  : flow R (Queued * PacedSender) :=
  let! packet := front (list_of self packets) in
  Cont (packet, UpdateMediaBytesSent self clock (q_bytes packet)).

(** ** Processing *)

(** The calls that other threads make. *)
Inductive PacerCall : Type :=
| CallSendPacket (priority : Priority) (ssrc sequence_number capture_time_ms bytes : Z) (retransmission : bool)
| CallPause
| CallResume
| CallSetStatus (enable : bool)
| CallUpdateBitrate (max_bitrate_kbps min_bitrate_kbps : Z)
| CallSetMaxQueue (max_queue_length_ms : Z).

Definition pacer_call (self : PacedSender) (clock : Clock) (c : PacerCall) : PacedSender :=
  match c with
  | CallSendPacket priority ssrc sn capture bytes retransmission =>
      (SendPacket self clock priority ssrc sn capture bytes retransmission).2
  | CallPause => Pause self
  | CallResume => Resume self
  | CallSetStatus enable => SetStatus self enable
  | CallUpdateBitrate max min => UpdateBitrate self max min
  | CallSetMaxQueue n => set_max_queue_length_ms self n
  end.

(** What is called back, with the calls that arrive in the meantime and the clock of each. *)
Class Callback : Type := {
  world : Type;
  clock_ : world -> Clock;
  TimeToSendPacket : forall {R : Type}, world -> Z -> Z -> Z -> bool -> flow R (bool * list (Clock * PacerCall) * world);
  TimeToSendPadding : forall {R : Type}, world -> Z -> flow R (Z * list (Clock * PacerCall) * world)
}.

Section processing.
Context `{CB : Callback}.

Definition pacer_calls (self : PacedSender) (calls : list (Clock * PacerCall)) : PacedSender :=
  fold_left (fun self c => pacer_call self c.1 c.2) calls self.

Definition SendPacketFromList {R : Type} (self : PacedSender) (w : world) (packet_list : Priority)
  : flow R (bool * PacedSender * world) :=
  let! (packet, self) := GetNextPacketFromList self (clock_ w) packet_list in
  let! (success, calls, w) :=
    TimeToSendPacket w (q_ssrc packet) (q_sequence_number packet) (q_capture_time_ms packet) (q_retransmission packet) in
  let self := pacer_calls self calls in
  if negb success then Cont (false, self, w)
  else
    let! l := pop_front (list_of self packet_list) in
    let self := set_list self packet_list l in
    let self :=
      if bool_decide (packet_list <> kHighPriority) && (capture_time_ms_last_sent_ self <? q_capture_time_ms packet)
      then set_capture_times self (capture_time_ms_last_queued_ self) (q_capture_time_ms packet) else self in
    Cont (true, self, w).

(** The result is false when a packet could not be sent. *)
Fixpoint process_loop {R : Type} (fuel : nat) (self : PacedSender) (w : world) : flow R (bool * PacedSender * world) :=
  match ShouldSendNextPacket self (clock_ w) with
  | None => Cont (true, self, w)
  | Some packet_list =>
      match fuel with
      | O => Stuck
      | S fuel =>
          let! (sent, self, w) := SendPacketFromList self w packet_list in
          if negb sent then Cont (false, self, w) else process_loop fuel self w
      end
  end.

Definition Process {R : Type} (fuel : nat) (self : PacedSender) (w : world) : flow R (Z * PacedSender * world) :=
  let now_us := TimeInMicroseconds (clock_ w) in
  let elapsed_time_ms := s32 (Z.quot (now_us - time_last_update_us_ self + 500) 1000) in
  let self := set_budgets self (media_budget_ self) (padding_budget_ self) now_us (time_last_send_us_ self) in
  if negb (enabled_ self) then Cont (0, self, w)
  else if paused_ self then Cont (0, self, w)
  else
    let self :=
      if 0 <? elapsed_time_ms then UpdateBytesPerInterval self (Z.min kMaxIntervalTimeMs elapsed_time_ms) else self in
    let! (done, self, w) := process_loop fuel self w in
    if negb done then Cont (0, self, w)
    else if list_empty (high_priority_packets_ self) && list_empty (normal_priority_packets_ self)
            && list_empty (low_priority_packets_ self) && (0 <? bytes_remaining_ (padding_budget_ self)) then
      let padding_needed := bytes_remaining_ (padding_budget_ self) in
      let! (bytes_sent, calls, w) := TimeToSendPadding w padding_needed in
      let self := pacer_calls self calls in
      Cont (0, set_budgets self (UseBudget (media_budget_ self) bytes_sent) (UseBudget (padding_budget_ self) bytes_sent)
                 (time_last_update_us_ self) (time_last_send_us_ self), w)
    else Cont (0, self, w).
End processing.
