(* ===== verification/PacerQueue.v ===== *)
(** * What the pacer promises

    The specification of [Pacer]: three queues of packets without repetitions, from which
    packets are offered in their turn and taken when they were sent.  The log of what
    happens between the pacer, its callers and what it calls back is a run of the
    specification ([spec_step]), whatever the budgets and the clock. *)
From stdpp Require Import gmap.
From S2P Require Import Prelude Pacer.
Local Open Scope Z_scope.

(** ** Lists without repetitions *)

Definition key (p : Queued) : Z * Z := (q_ssrc p, q_sequence_number p).

Lemma key_eq p s n : (s, n) = key p <-> s = q_ssrc p /\ n = q_sequence_number p.
Proof. unfold key. split; [by intros [= -> ->]|by intros [-> ->]]. Qed.

(** A packet whose stream and number are in the queue is not queued again. *)
Definition push (q : list Queued) (p : Queued) : list Queued :=
  if bool_decide (key p ∈ key <$> q) then q else q ++ [p].

Record list_ok (l : PacketList) : Prop := mkListOk {
  lo_nodup : NoDup (key <$> packet_list_ l);
  lo_set : forall s n, n ∈ numbers_of l s <-> (s, n) ∈ key <$> packet_list_ l
}.

Lemma new_PacketList_ok : list_ok new_PacketList.
Proof. split; [constructor|]. intros s n. cbn. rewrite elem_of_nil. done. Qed.

Lemma numbers_of_insert l s s' m q :
  numbers_of (mkPacketList q (<[s := m]> (sequence_number_set_ l))) s' = if decide (s' = s) then m else numbers_of l s'.
Proof.
  unfold numbers_of. cbn [sequence_number_set_]. destruct (decide (s' = s)) as [->|].
  - by rewrite lookup_insert_eq.
  - by rewrite lookup_insert_ne by done.
Qed.

Lemma push_back_push l p :
  list_ok l -> list_ok (push_back l p) /\ packet_list_ (push_back l p) = push (packet_list_ l) p.
Proof.
  intros [Hn Hs]. unfold push_back, push. rewrite (bool_decide_ext _ _ (Hs (q_ssrc p) (q_sequence_number p))). fold (key p).
  case_bool_decide as Hk; [split; [by split|done]|]. split; [|done]. split; cbn [packet_list_].
  - rewrite fmap_app. apply NoDup_app. split; [done|]. split; [|apply NoDup_singleton].
    intros k Hin ->%list_elem_of_singleton. done.
  - intros s n. rewrite numbers_of_insert, fmap_app, elem_of_app. cbn. rewrite list_elem_of_singleton.
    destruct (decide (s = q_ssrc p)) as [->|Hne]; [rewrite elem_of_union, elem_of_singleton|]; rewrite Hs, key_eq; tauto.
Qed.

Lemma pop_front_tail {R} l p q :
  list_ok l -> packet_list_ l = p :: q -> exists l', pop_front (R := R) l = Cont l' /\ list_ok l' /\ packet_list_ l' = q.
Proof.
  intros [Hn Hs] E. unfold pop_front. rewrite E. eexists. split; [done|]. split; [|done].
  rewrite E, fmap_cons in Hn. apply NoDup_cons in Hn as [Hp Hn]. split; cbn [packet_list_]; [done|].
  intros s n. rewrite numbers_of_insert. specialize (Hs s n). rewrite E, fmap_cons, elem_of_cons in Hs.
  destruct (decide (s = q_ssrc p)) as [->|Hne].
  - rewrite elem_of_difference, elem_of_singleton, Hs, key_eq. split; [tauto|].
    intros Hin. split; [by right|]. intros ->. done.
  - rewrite Hs, key_eq. tauto.
Qed.

(** ** The specification *)

Record Spec : Type := mkSpec {
  sp_enabled : bool;
  sp_queues : Priority -> list Queued;
  sp_offered : option Priority
}.

Definition new_Spec : Spec := mkSpec true (fun _ => []) None.

Definition upd (Q : Priority -> list Queued) (priority : Priority) (q : list Queued) : Priority -> list Queued :=
  fun x => if decide (x = priority) then q else Q x.

(** What is said to the pacer, and what it says. *)
Inductive PacerEvent : Type :=
| EvCall (clock : Clock) (c : PacerCall)
| EvOffered (ssrc sequence_number capture_time_ms : Z) (retransmission : bool)
| EvResult (sent : bool)
| EvPadding (bytes : Z).

Definition spec_call (S : Spec) (clock : Clock) (c : PacerCall) : Spec :=
  match c with
  | CallSendPacket priority ssrc sn capture bytes retransmission =>
      if sp_enabled S then
        let capture := if capture <? 0 then TimeInMilliseconds clock else capture in
        mkSpec true (upd (sp_queues S) priority (push (sp_queues S priority)
          (mkQueued ssrc sn capture (TimeInMilliseconds clock) bytes retransmission))) (sp_offered S)
      else S
  | CallSetStatus enable => mkSpec enable (sp_queues S) (sp_offered S)
  | _ => S
  end.

(** A packet of high priority may always be offered, one of normal priority before a later
    one of high priority, and one of low priority when there is no other. *)
Definition in_turn (Q : Priority -> list Queued) (priority : Priority) (p : Queued) : Prop :=
  match priority with
  | kHighPriority => True
  | kNormalPriority => match Q kHighPriority with [] => True | h :: _ => q_capture_time_ms p < q_capture_time_ms h end
  | kLowPriority => Q kHighPriority = [] /\ Q kNormalPriority = []
  end.

Inductive spec_step (S : Spec) : PacerEvent -> Spec -> Prop :=
| spec_called clock c : spec_step S (EvCall clock c) (spec_call S clock c)
| spec_offered priority p q :
    sp_offered S = None -> sp_queues S priority = p :: q -> in_turn (sp_queues S) priority p ->
    spec_step S (EvOffered (q_ssrc p) (q_sequence_number p) (q_capture_time_ms p) (q_retransmission p))
      (mkSpec (sp_enabled S) (sp_queues S) (Some priority))
| spec_sent priority p q :
    sp_offered S = Some priority -> sp_queues S priority = p :: q ->
    spec_step S (EvResult true) (mkSpec (sp_enabled S) (upd (sp_queues S) priority q) None)
| spec_kept priority :
    sp_offered S = Some priority -> spec_step S (EvResult false) (mkSpec (sp_enabled S) (sp_queues S) None)
| spec_padding bytes :
    sp_offered S = None -> (forall priority, sp_queues S priority = []) -> 0 < bytes -> spec_step S (EvPadding bytes) S.

Inductive spec_run (S : Spec) : list PacerEvent -> Spec -> Prop :=
| spec_start : spec_run S [] S
| spec_more log S1 e S2 : spec_run S log S1 -> spec_step S1 e S2 -> spec_run S (log ++ [e]) S2.

(** The state of the pacer has the queues. *)
Record refines (self : PacedSender) (S : Spec) : Prop := mkRefines {
  rf_enabled : enabled_ self = sp_enabled S;
  rf_list priority : list_ok (list_of self priority);
  rf_queue priority : packet_list_ (list_of self priority) = sp_queues S priority;
  rf_times priority : Forall (fun p => 0 <= q_capture_time_ms p) (sp_queues S priority)
}.

Definition clock_ok (clock : Clock) : Prop := 0 <= TimeInMilliseconds clock.

Lemma list_of_set_list self priority l x :
  list_of (set_list self priority l) x = if decide (x = priority) then l else list_of self x.
Proof. by destruct priority, x. Qed.

(** Changes of the rest of the state. *)
Definition same_lists (self self' : PacedSender) : Prop :=
  enabled_ self' = enabled_ self /\ forall priority, list_of self' priority = list_of self priority.

Lemma refines_same self self' S : same_lists self self' -> refines self S -> refines self' S.
Proof.
  intros [E El] [R1 R2 R3 R4]. split; [congruence| | |done]; intros priority; rewrite El; [apply R2|apply R3].
Qed.

Lemma refines_set_list self S priority l q :
  refines self S -> list_ok l -> packet_list_ l = q -> Forall (fun p => 0 <= q_capture_time_ms p) q ->
  refines (set_list self priority l) (mkSpec (sp_enabled S) (upd (sp_queues S) priority q) (sp_offered S)).
Proof.
  intros [R1 R2 R3 R4] Hl Hq Ht. split; [done| | |]; intros x; cbn [sp_queues]; rewrite ?list_of_set_list; unfold upd.
  - by destruct (decide (x = priority)).
  - destruct (decide (x = priority)); [done|apply R3].
  - destruct (decide (x = priority)); [done|apply R4].
Qed.

Lemma refines_call self S clock c : clock_ok clock -> refines self S -> refines (pacer_call self clock c) (spec_call S clock c).
Proof.
  intros Hc Hr. assert (Hr' := Hr). destruct Hr' as [R1 R2 R3 R4].
  destruct c as [priority ssrc sn capture bytes retransmission| | |enable|max min|k]; cbn [pacer_call spec_call];
    try (by apply (refines_same self); [split; [done|by intros []]|]).
  - unfold SendPacket. rewrite R1. destruct (sp_enabled S) eqn:En; cbn [negb snd]; [|done].
    set (cap := if capture <? 0 then _ else _). set (p := mkQueued _ _ _ _ _ _). set (self1 := if _ && _ then _ else _).
    assert (Hs : same_lists self self1) by (subst self1; destruct (_ && _); split; done || by intros []).
    destruct Hs as [Hs1 Hs2]. assert (Hr1 : refines self1 S) by (by apply (refines_same self)).
    destruct (push_back_push (list_of self1 priority) p) as [Hp Ep]; [rewrite Hs2; apply R2|].
    rewrite Hs2 in Ep at 2. rewrite R3 in Ep. rewrite <- En at 1. apply refines_set_list; [done|done|done|].
    assert (Hcap : 0 <= cap) by (subst cap; unfold clock_ok in Hc; destruct (Z.ltb_spec capture 0); lia).
    unfold push. case_bool_decide; [apply R4|]. apply Forall_app. split; [apply R4|]. by apply Forall_singleton.
  - split; [done| | |]; intros x; [specialize (R2 x)|specialize (R3 x)|apply R4]; by destruct x.
Qed.

(** ** The log *)

Definition call_events (calls : list (Clock * PacerCall)) : list PacerEvent := (fun c => EvCall c.1 c.2) <$> calls.

(** What is called back, with a log. *)
Definition logged (C : Callback) : Callback := {|
  world := world * list PacerEvent;
  clock_ w := clock_ w.1;
  TimeToSendPacket R w ssrc sn capture retransmission :=
    let! (sent, calls, w') := TimeToSendPacket w.1 ssrc sn capture retransmission in
    Cont (sent, calls, (w', w.2 ++ EvOffered ssrc sn capture retransmission :: call_events calls ++ [EvResult sent]));
  TimeToSendPadding R w bytes :=
    let! (sent, calls, w') := TimeToSendPadding w.1 bytes in
    Cont (sent, calls, (w', w.2 ++ EvPadding bytes :: call_events calls))
|}.

(** Clocks do not show times before zero. *)
Class CallbackLaws (C : Callback) : Prop := {
  packet_calls_clock R w ssrc sn capture retransmission sent calls w' :
    TimeToSendPacket (R := R) w ssrc sn capture retransmission = Cont (sent, calls, w') -> Forall (fun c => clock_ok c.1) calls;
  padding_calls_clock R w bytes sent calls w' :
    TimeToSendPadding (R := R) w bytes = Cont (sent, calls, w') -> Forall (fun c => clock_ok c.1) calls
}.

Lemma spec_run_app S l1 S1 l2 S2 : spec_run S l1 S1 -> spec_run S1 l2 S2 -> spec_run S (l1 ++ l2) S2.
Proof.
  intros H1 H2. induction H2 as [|log S2 e S3 _ IH Hs]; [by rewrite app_nil_r|]. rewrite app_assoc. by eapply spec_more.
Qed.

Lemma spec_run_step S e S1 log S2 : spec_step S e S1 -> spec_run S1 log S2 -> spec_run S (e :: log) S2.
Proof. intros He. apply (spec_run_app S [e]). eapply (spec_more S [] S); [constructor|done]. Qed.

Lemma spec_call_offered S clock c : sp_offered (spec_call S clock c) = sp_offered S.
Proof. destruct c; try done. cbn. by destruct (sp_enabled S). Qed.

(** Packets are queued at the end. *)
Lemma spec_call_head S clock c priority p q :
  sp_queues S priority = p :: q -> exists q', sp_queues (spec_call S clock c) priority = p :: q'.
Proof.
  intros E. destruct c; cbn; eauto. destruct (sp_enabled S); cbn; eauto. unfold upd. case_decide as Hd; eauto. subst.
  unfold push. rewrite E. case_bool_decide; eauto.
Qed.

Lemma calls_refine self S calls :
  Forall (fun c => clock_ok c.1) calls -> refines self S ->
  exists S', spec_run S (call_events calls) S' /\ refines (pacer_calls self calls) S' /\ sp_offered S' = sp_offered S
    /\ forall priority p q, sp_queues S priority = p :: q -> exists q', sp_queues S' priority = p :: q'.
Proof.
  intros Hc. revert self S. induction Hc as [|[clock c] calls Hclock _ IH]; intros self S Hr.
  - exists S. split; [constructor|]. split; [done|]. split; [done|]. eauto.
  - destruct (IH (pacer_call self clock c) (spec_call S clock c)) as (S' & Hrun & Hr' & Ho & Hq); [by apply refines_call|].
    exists S'. split; [by eapply spec_run_step; [apply spec_called|]|]. split; [done|].
    split; [by rewrite Ho, spec_call_offered|]. intros priority p q E.
    destruct (spec_call_head S clock c priority p q E) as [q1 E1]. by apply (Hq _ _ _ E1).
Qed.

(** A list that is chosen has a packet, whose turn it is. *)
Lemma ShouldSendNextPacket_in_turn self S clock priority :
  refines self S -> ShouldSendNextPacket self clock = Some priority ->
  exists p q, sp_queues S priority = p :: q /\ in_turn (sp_queues S) priority p.
Proof.
  intros [_ _ R3 R4] E. unfold ShouldSendNextPacket, list_empty in E.
  assert (Hh := R3 kHighPriority). assert (Hn := R3 kNormalPriority). assert (Hl := R3 kLowPriority). cbn [list_of] in *.
  assert (H0 := R4 kHighPriority). rewrite Hh, Hn, ?Hl in E.
  destruct (sp_queues S kHighPriority) as [|h qh] eqn:Eh, (sp_queues S kNormalPriority) as [|n qn] eqn:En;
    destruct (bytes_remaining_ (media_budget_ self) <=? 0); cbn [negb andb orb] in E;
    rewrite ?andb_false_r, ?andb_true_r, ?Z.eqb_refl in E; cbn [orb] in E.
  all: repeat match type of E with context [if ?b then _ else _] => destruct b eqn:?; try done end.
  all: try (injection E as <-; rewrite ?Eh, ?En; eexists _, _; split; [done|]; cbn; rewrite ?Eh, ?En; done).
  - destruct (sp_queues S kLowPriority) as [|l ql] eqn:El; [done|]. cbn in E. injection E as <-. rewrite El.
    eexists _, _. split; [done|]. done.
  - injection E as <-. rewrite En. exists n, qn. split; [done|]. cbn. rewrite Eh. apply Forall_cons_1 in H0 as [H0 _]. lia.
Qed.

Section runs.
Context `{C : Callback} `{!CallbackLaws C}.

(** What a body adds to the log, and the state that it leaves. *)
Definition steps_to (S : Spec) (log : list PacerEvent) (self' : PacedSender) (log' : list PacerEvent) : Prop :=
  exists events S', log' = log ++ events /\ spec_run S events S' /\ refines self' S' /\ sp_offered S' = None.

Lemma steps_to_refl self S log : refines self S -> sp_offered S = None -> steps_to S log self log.
Proof. intros Hr Ho. exists [], S. split; [by rewrite app_nil_r|]. split; [constructor|done]. Qed.

Lemma steps_to_trans S log self1 log1 self2 log2 :
  steps_to S log self1 log1 -> (forall S1, refines self1 S1 -> sp_offered S1 = None -> steps_to S1 log1 self2 log2) ->
  steps_to S log self2 log2.
Proof.
  intros (e1 & S1 & -> & Hs1 & Hr1 & Ho1) H2. destruct (H2 S1 Hr1 Ho1) as (e2 & S2 & -> & Hs2 & Hr2 & Ho2).
  exists (e1 ++ e2), S2. split; [by rewrite app_assoc|]. split; [by eapply spec_run_app|done].
Qed.

Lemma steps_to_same S log self1 log1 self2 : same_lists self1 self2 -> steps_to S log self1 log1 -> steps_to S log self2 log1.
Proof. intros Hs (e & S1 & H1 & H2 & H3 & H4). exists e, S1. split; [done|]. split; [done|]. split; [by eapply refines_same|done]. Qed.

Lemma SendPacketFromList_refines {R} self S (w : world (Callback := logged C)) priority p q sent self' w' :
  refines self S -> sp_offered S = None -> sp_queues S priority = p :: q -> in_turn (sp_queues S) priority p ->
  SendPacketFromList (R := R) self w priority = Cont (sent, self', w') -> steps_to S w.2 self' w'.2.
Proof.
  intros Hr Ho Eq Hturn. assert (Hr' := Hr). destruct Hr' as [_ _ R3 _].
  unfold SendPacketFromList, GetNextPacketFromList, front. rewrite R3, Eq. cbn [flow_bind].
  set (self1 := UpdateMediaBytesSent _ _ _). assert (Hr1 : refines self1 S) by (by apply (refines_same self)).
  cbn [TimeToSendPacket logged].
  assert (Hcalls := packet_calls_clock R w.1 (q_ssrc p) (q_sequence_number p) (q_capture_time_ms p) (q_retransmission p)).
  destruct (TimeToSendPacket w.1 _ _ _ _) as [[[snt calls] w1]|?|]; [|done|done]. cbn [flow_bind].
  specialize (Hcalls _ _ _ eq_refl).
  assert (Hoff := spec_offered S priority p q Ho Eq Hturn). set (S1 := mkSpec _ _ (Some priority)) in *.
  destruct (calls_refine self1 S1 calls Hcalls) as (S2 & Hrun & Hr2 & Ho2 & Hq2).
  { destruct Hr1 as [X1 X2 X3 X4]. by split. }
  cbn [sp_offered S1] in Ho2. destruct (Hq2 priority p q Eq) as [q2 Eq2].
  set (self2 := pacer_calls self1 calls) in *.
  assert (Hrun' : forall S3, spec_step S2 (EvResult snt) S3 ->
    spec_run S (EvOffered (q_ssrc p) (q_sequence_number p) (q_capture_time_ms p) (q_retransmission p) :: call_events calls ++ [EvResult snt]) S3).
  { intros S3 Hs. eapply spec_run_step; [exact Hoff|]. eapply spec_run_app; [exact Hrun|]. eapply (spec_more S2 [] S2); [constructor|done]. }
  destruct snt; cbn [negb].
  - destruct (pop_front_tail (R := R) (list_of self2 priority) p q2) as (l & -> & Hl & El);
      [apply Hr2|by rewrite (rf_queue _ _ Hr2)|]. cbn [flow_bind].
    intros [= <- <- <-]. cbn [snd]. set (self3 := set_list self2 priority l).
    apply (steps_to_same _ _ self3); [destruct (_ && _); split; done || by intros []|].
    eexists _, _. split; [done|]. split; [by apply Hrun', (spec_sent S2 priority p q2)|]. split; [|done].
    destruct (refines_set_list self2 S2 priority l q2) as [X1 X2 X3 X4]; [done|done|done| |by split].
    assert (Ht := rf_times _ _ Hr2 priority). rewrite Eq2 in Ht. by apply Forall_cons_1 in Ht as [_ Ht].
  - intros [= <- <- <-]. cbn [snd]. eexists _, _. split; [done|]. split; [by apply Hrun', (spec_kept S2 priority)|].
    split; [|done]. destruct Hr2 as [X1 X2 X3 X4]. by split.
Qed.

Lemma process_loop_refines {R} fuel self S (w : world (Callback := logged C)) dn self' w' :
  refines self S -> sp_offered S = None ->
  process_loop (R := R) fuel self w = Cont (dn, self', w') -> steps_to S w.2 self' w'.2.
Proof.
  revert self S w. induction fuel as [|fuel IH]; intros self S w Hr Ho; cbn [process_loop];
    (destruct (ShouldSendNextPacket self (clock_ w)) as [priority|] eqn:Es; [|intros [= <- <- <-]; by apply steps_to_refl]); [done|].
  destruct (ShouldSendNextPacket_in_turn self S _ priority Hr Es) as (p & q & Eq & Hturn).
  destruct (SendPacketFromList self w priority) as [[[sent self1] w1]|?|] eqn:E; [|done|done]. cbn [flow_bind].
  assert (Hst := SendPacketFromList_refines self S w priority p q sent self1 w1 Hr Ho Eq Hturn E).
  destruct sent; cbn [negb]; [|by intros [= <- <- <-]]. intros Hloop.
  eapply steps_to_trans; [exact Hst|]. intros S1 Hr1 Ho1. by apply (IH self1).
Qed.

Lemma all_empty self :
  list_empty (high_priority_packets_ self) && list_empty (normal_priority_packets_ self)
  && list_empty (low_priority_packets_ self) = true -> forall priority, packet_list_ (list_of self priority) = [].
Proof.
  unfold list_empty. intros E priority. destruct priority; cbn [list_of];
    repeat match type of E with context [match packet_list_ ?l with _ => _ end] => destruct (packet_list_ l); try done end.
Qed.

Lemma Process_refines {R} fuel self S (w : world (Callback := logged C)) ret self' w' :
  refines self S -> sp_offered S = None ->
  Process (R := R) fuel self w = Cont (ret, self', w') -> steps_to S w.2 self' w'.2.
Proof.
  intros Hr Ho. unfold Process. set (self1 := set_budgets _ _ _ _ _).
  assert (Hr1 : refines self1 S) by (by apply (refines_same self)).
  destruct (negb (enabled_ self1)); [intros [= <- <- <-]; by apply steps_to_refl|].
  destruct (paused_ self1); [intros [= <- <- <-]; by apply steps_to_refl|].
  set (self2 := if 0 <? _ then _ else _).
  assert (Hr2 : refines self2 S) by (apply (refines_same self1); [subst self2; by destruct (0 <? _)|done]).
  destruct (process_loop fuel self2 w) as [[[dn self3] w3]|?|] eqn:El; [|done|done]. cbn [flow_bind].
  assert (Hst := process_loop_refines fuel self2 S w dn self3 w3 Hr2 Ho El).
  destruct dn; cbn [negb]; [|by intros [= <- <- <-]].
  destruct (_ && _) eqn:Eempty; [|by intros [= <- <- <-]].
  apply andb_true_iff in Eempty as [Eempty Hpos%Z.ltb_lt]. cbn [TimeToSendPadding logged].
  assert (Hcalls := padding_calls_clock R w3.1 (bytes_remaining_ (padding_budget_ self3))).
  destruct (TimeToSendPadding w3.1 _) as [[[sent calls] w4]|?|]; [|done|done]. cbn [flow_bind].
  specialize (Hcalls _ _ _ eq_refl). intros [= <- <- <-].
  eapply steps_to_trans; [exact Hst|]. intros S1 Hr3 Ho3.
  destruct (calls_refine self3 S1 calls Hcalls Hr3) as (S2 & Hrun & Hr4 & Ho4 & _).
  exists (EvPadding (bytes_remaining_ (padding_budget_ self3)) :: call_events calls), S2. split; [done|]. split.
  - eapply spec_run_step; [|exact Hrun]. apply spec_padding; [done| |done]. intros priority.
    rewrite <- (rf_queue _ _ Hr3 priority). by apply all_empty.
  - split; [by apply (refines_same (pacer_calls self3 calls))|by rewrite Ho4].
Qed.

(** ** Everything that may happen *)

(** Calls and turns of Process, with any state of the world at each. *)
Inductive pacer_run (self : PacedSender) : PacedSender -> list PacerEvent -> Prop :=
| run_start : pacer_run self self []
| run_call self1 log clock c :
    pacer_run self self1 log -> clock_ok clock -> pacer_run self (pacer_call self1 clock c) (log ++ [EvCall clock c])
| run_process self1 log fuel (w : world) ret self2 (w2 : world) log2 :
    pacer_run self self1 log ->
    Process (CB := logged C) (R := unit) fuel self1 (w, log) = Cont (ret, self2, (w2, log2)) ->
    pacer_run self self2 log2.

Lemma run_calls self self1 log calls :
  pacer_run self self1 log -> Forall (fun c => clock_ok c.1) calls ->
  pacer_run self (pacer_calls self1 calls) (log ++ call_events calls).
Proof.
  intros Hrun Hc. revert self1 log Hrun. induction Hc as [|[clock c] calls Hclock _ IH]; intros self1 log Hrun.
  - by rewrite app_nil_r.
  - cbn. rewrite cons_middle, app_assoc. apply IH. by apply run_call.
Qed.

Lemma new_refines clock max min last_send : refines (new_PacedSender clock max min last_send) new_Spec.
Proof. split; [done| | |]; intros []; try apply new_PacketList_ok; done || apply Forall_nil. Qed.

(** C6: the pacer implements three queues.  Whatever is called, by whom and when, with any
    budgets and clocks, and whatever other threads call while packets are sent: what a new
    pacer offers is a run of the queues.  Every packet that was queued is in its list or was
    sent, once, the ones of a priority in their order; a packet is offered only in its turn
    and leaves its list only when it was sent; padding is asked for when all lists are empty. *)
Theorem pacer_refines_queues clock max min last_send self log :
  pacer_run (new_PacedSender clock max min last_send) self log ->
  exists S, spec_run new_Spec log S /\ refines self S.
Proof.
  intros Hrun.
  assert (H : exists S, spec_run new_Spec log S /\ refines self S /\ sp_offered S = None).
  { induction Hrun as [|self1 log clk c _ (S & Hs & Hr & Ho) Hc|self1 log fuel w ret self2 w2 log2 _ (S & Hs & Hr & Ho) HP].
    - exists new_Spec. split; [constructor|]. split; [apply new_refines|done].
    - exists (spec_call S clk c). split; [eapply spec_more; [exact Hs|constructor]|].
      split; [by apply refines_call|by rewrite spec_call_offered].
    - destruct (Process_refines fuel self1 S (w, log) ret self2 (w2, log2) Hr Ho HP) as (e & S' & El & Hs' & Hr' & Ho').
      cbn [snd] in El. subst log2. exists S'. split; [by eapply spec_run_app|done]. }
  destruct H as (S & Hs & Hr & _). by exists S.
Qed.
End runs.

(** A callback that takes packets but one, and of which one comes with a call. *)
Definition ex_clock (w : Z) : Clock := mkClock (Z.max 0 (Z.quot w 1000)) w.
Definition ex_callback : Callback := {|
  world := Z;
  clock_ w := ex_clock w;
  TimeToSendPacket R w _ sn _ _ :=
    Cont (negb (sn =? 3), if sn =? 1 then [(ex_clock w, CallSendPacket kHighPriority 7 9 20 100 true)] else [], w + 1000);
  TimeToSendPadding R w bytes := Cont (bytes, [], w + 1000)
|}.

#[export] Instance ex_callback_laws : CallbackLaws ex_callback.
Proof.
  split; intros R w.
  - intros ssrc sn capture retransmission sent calls w' [= <- <- <-]. destruct (sn =? 1); [|done].
    apply Forall_singleton. unfold clock_ok. cbn. lia.
  - by intros bytes sent calls w' [= <- <- <-].
Qed.

Definition ex_log : list PacerEvent :=
  [EvCall (ex_clock 1000) (CallSendPacket kNormalPriority 7 1 30 100 false);
   EvCall (ex_clock 1000) (CallSendPacket kNormalPriority 7 2 30 100 false);
   EvCall (ex_clock 1000) (CallSendPacket kNormalPriority 7 1 30 100 false);
   EvCall (ex_clock 1000) (CallSendPacket kLowPriority 7 3 30 100 false);
   EvOffered 7 1 30 false; EvCall (ex_clock 2000) (CallSendPacket kHighPriority 7 9 20 100 true); EvResult true;
   EvOffered 7 9 20 true; EvResult true; EvOffered 7 2 30 false; EvResult true; EvOffered 7 3 30 false; EvResult false].

Definition ex_calls : list (Clock * PacerCall) :=
  [(ex_clock 1000, CallSendPacket kNormalPriority 7 1 30 100 false); (ex_clock 1000, CallSendPacket kNormalPriority 7 2 30 100 false);
   (ex_clock 1000, CallSendPacket kNormalPriority 7 1 30 100 false); (ex_clock 1000, CallSendPacket kLowPriority 7 3 30 100 false)].

(** Two packets, the first twice; the one that comes in between goes out before the second,
    and the third, which cannot be sent, stays. *)
Lemma pacer_refines_queues_witness :
  exists self S, pacer_run (C := ex_callback) (new_PacedSender (ex_clock 0) 4000 0 5) self ex_log
    /\ spec_run new_Spec ex_log S /\ sp_queues S kLowPriority = [mkQueued 7 3 30 1 100 false].
Proof.
  set (m := Process (CB := logged ex_callback) (R := unit) 9 (pacer_calls (new_PacedSender (ex_clock 0) 4000 0 5) ex_calls)
    ((2000, call_events ex_calls) : world (Callback := logged ex_callback))).
  assert (Em : match m with
    | Cont (_, self, (_, log)) => log = ex_log /\ packet_list_ (list_of self kLowPriority) = [mkQueued 7 3 30 1 100 false]
    | _ => False end) by (vm_compute; split; reflexivity).
  destruct m as [[[ret self] [w log]]| |] eqn:E; [|done..]. destruct Em as [-> Elow].
  assert (Hrun : pacer_run (C := ex_callback) (new_PacedSender (ex_clock 0) 4000 0 5) self ex_log).
  { eapply run_process; [|exact E]. apply (run_calls _ _ []); [constructor|]. by repeat apply Forall_cons_2; try apply Forall_nil. }
  destruct (pacer_refines_queues (ex_clock 0) 4000 0 5 self ex_log Hrun) as (S & Hs & Hr).
  exists self, S. split; [done|]. split; [done|]. by rewrite <- (rf_queue _ _ Hr).
Defined.
