(* ===== verification/PacerDrain.v ===== *)
(** * The pacer keeps no packet

    When what is called back takes every packet, Process ends, and a packet of high or
    normal priority waits at most for as many turns as there are packets before it, however
    small the budget.  [P] says what is known of the world after the packets in a list
    were sent. *)
From stdpp Require Import gmap.
From S2P Require Import Prelude Pacer PacerQueue.
Local Open Scope Z_scope.

Definition queue_of (self : PacedSender) (priority : Priority) : list Queued := packet_list_ (list_of self priority).

Definition pending (self : PacedSender) : nat :=
  length (queue_of self kHighPriority) + length (queue_of self kNormalPriority) + length (queue_of self kLowPriority).

(** The packets of a priority among those that were sent. *)
Definition sent_of (priority : Priority) (l : list (Priority * Queued)) : list Queued :=
  snd <$> filter (fun x => x.1 = priority) l.

Lemma sent_of_snoc priority l x p :
  sent_of priority (l ++ [(x, p)]) = sent_of priority l ++ (if decide (x = priority) then [p] else []).
Proof.
  unfold sent_of. rewrite filter_app, fmap_app. f_equal. cbn. by destruct (decide (x = priority)).
Qed.

Section drain.
Context {R : Type} `{CB : Callback} (Q0 : Priority -> list Queued) (P : list (Priority * Queued) -> world -> Prop).

(** The packets that were sent, from the front of each queue. *)
Definition follows (l : list (Priority * Queued)) : Prop := forall priority, sent_of priority l `prefix_of` Q0 priority.

(** The callback takes the next packet, calls nobody, and time goes on. *)
Hypothesis P_sent : forall l w priority p, follows (l ++ [(priority, p)]) -> P l w ->
  exists w',
    TimeToSendPacket (R := R) w (q_ssrc p) (q_sequence_number p) (q_capture_time_ms p) (q_retransmission p) = Cont (true, [], w')
    /\ P (l ++ [(priority, p)]) w' /\ TimeInMicroseconds (clock_ w) <= TimeInMicroseconds (clock_ w').
Hypothesis P_padding : forall l w n, (forall priority, sent_of priority l = Q0 priority) -> P l w ->
  exists sent w', TimeToSendPadding (R := R) w n = Cont (sent, [], w') /\ P l w'
    /\ TimeInMicroseconds (clock_ w) <= TimeInMicroseconds (clock_ w').

(** What is left in the queues when the packets of [l] were sent. *)
Record left_with (self : PacedSender) (w : world) (l : list (Priority * Queued)) : Prop := mkLeft {
  lw_ok : refines self (mkSpec (enabled_ self) (queue_of self) None);
  lw_queues priority : sent_of priority l ++ queue_of self priority = Q0 priority;
  lw_time : time_last_send_us_ self <= TimeInMicroseconds (clock_ w);
  lw_world : P l w;
  lw_active : enabled_ self = true /\ paused_ self = false
}.

Lemma left_same self self' w w' l :
  same_lists self self' -> paused_ self' = paused_ self -> time_last_send_us_ self' <= TimeInMicroseconds (clock_ w') -> P l w' ->
  left_with self w l -> left_with self' w' l.
Proof.
  intros [E El] Ep Ht HP [[R1 R2 R3 R4] HQ _ _ Ha].
  assert (Eq : forall priority, queue_of self' priority = queue_of self priority) by (intros x; unfold queue_of; by rewrite El).
  split; [|intros x; by rewrite Eq|done|done|by rewrite E, Ep]. split; [done| |done|]; intros x; [rewrite El; apply R2|].
  cbn [sp_queues]. rewrite Eq. apply R4.
Qed.

Lemma SendPacketFromList_left self w l priority p q :
  left_with self w l -> queue_of self priority = p :: q ->
  exists self' w', SendPacketFromList (R := R) self w priority = Cont (true, self', w')
    /\ left_with self' w' (l ++ [(priority, p)]) /\ queue_of self' priority = q /\ S (pending self') = pending self
    /\ (forall x, x <> priority -> queue_of self' x = queue_of self x).
Proof.
  intros Hl E. assert (Hl' := Hl). destruct Hl' as [Hr HQ Ht HP Ha]. unfold SendPacketFromList, GetNextPacketFromList, front.
  assert (E' := E). unfold queue_of in E'. rewrite E'. cbn [flow_bind].
  assert (Hf : follows (l ++ [(priority, p)])).
  { intros x. rewrite sent_of_snoc. exists (if decide (priority = x) then q else queue_of self x). rewrite <- HQ, <- app_assoc. f_equal.
    destruct (decide (priority = x)) as [<-|]; [by rewrite E|done]. }
  destruct (P_sent l w priority p Hf HP) as (w' & Esend & HP' & Hclock). rewrite Esend. cbn [flow_bind pacer_calls fold_left negb].
  set (self1 := UpdateMediaBytesSent _ _ _).
  assert (Hr1 : refines self1 (mkSpec (enabled_ self) (queue_of self) None)) by (by apply (refines_same self)).
  destruct (pop_front_tail (R := R) (list_of self1 priority) p q) as (pl & -> & Hpl & Epl);
    [apply Hr1|by rewrite (rf_queue _ _ Hr1)|]. cbn [flow_bind].
  assert (Htimes := rf_times _ _ Hr priority). cbn [sp_queues] in Htimes. rewrite E in Htimes. apply Forall_cons_1 in Htimes as [_ Htimes].
  assert (Hr2 := refines_set_list self1 _ priority pl q Hr1 Hpl Epl Htimes). cbn [sp_enabled sp_queues sp_offered] in Hr2.
  set (self2 := set_list self1 priority pl) in *. set (self3 := if _ && _ then _ else self2).
  assert (Hs : same_lists self2 self3) by (subst self3; destruct (_ && _); split; done || by intros []).
  assert (Hr3 := refines_same _ _ _ Hs Hr2).
  assert (Eq : forall x, queue_of self3 x = upd (queue_of self) priority q x) by (intros x; apply Hr3).
  eexists self3, w'. split; [done|]. split; [|split; [|split]].
  - split; [| | |done|].
    + destruct Hr3 as [X1 X2 X3 X4]. split; [done|done|done|]. intros x. cbn [sp_queues]. rewrite Eq. apply X4.
    + intros x. rewrite Eq, <- HQ, sent_of_snoc, <- app_assoc. f_equal. unfold upd.
      destruct (decide (priority = x)) as [<-|]; [by rewrite decide_True, E|by rewrite decide_False].
    + assert (Et : time_last_send_us_ self3 = TimeInMicroseconds (clock_ w)) by (subst self3; by destruct (_ && _)). lia.
    + subst self3. by destruct (_ && _).
  - rewrite Eq. unfold upd. by rewrite decide_True.
  - unfold pending. rewrite !Eq. unfold upd. destruct priority; repeat (case_decide; try done); rewrite E; simpl; lia.
  - intros x Hx. rewrite Eq. unfold upd. by rewrite decide_False.
Qed.

(** The packets of high and normal priority. *)
Definition urgent (self : PacedSender) : nat := length (queue_of self kHighPriority) + length (queue_of self kNormalPriority).

(** The loop ends: every turn takes a packet. *)
Lemma process_loop_left fuel self w l :
  left_with self w l -> (pending self <= fuel)%nat ->
  exists self' w' l', process_loop (R := R) fuel self w = Cont (true, self', w') /\ left_with self' w' l'
    /\ ShouldSendNextPacket self' (clock_ w') = None /\ (urgent self' <= urgent self)%nat
    /\ (ShouldSendNextPacket self (clock_ w) <> None -> ShouldSendNextPacket self (clock_ w) <> Some kLowPriority ->
        (urgent self' < urgent self)%nat).
Proof.
  revert self w l. induction fuel as [|fuel IH]; intros self w l Hl Hf; cbn [process_loop];
    destruct (ShouldSendNextPacket self (clock_ w)) as [priority|] eqn:Es;
    try (exists self, w, l; split; [done|]; split; [done|]; split; [done|]; split; [done|]; intros ?; by exfalso).
  - destruct (ShouldSendNextPacket_in_turn self _ _ priority (lw_ok _ _ _ Hl) Es) as (p & q & E & _). cbn [sp_queues] in E.
    unfold pending in Hf. destruct priority; rewrite E in Hf; simpl in Hf; lia.
  - destruct (ShouldSendNextPacket_in_turn self _ _ priority (lw_ok _ _ _ Hl) Es) as (p & q & E & _). cbn [sp_queues] in E.
    destruct (SendPacketFromList_left self w l priority p q Hl E) as (self1 & w1 & -> & Hl1 & Eq & Hp & Hne).
    cbn [flow_bind negb]. destruct (IH self1 w1 _ Hl1) as (self2 & w2 & l2 & E2 & Hl2 & Hs2 & Hu2 & _); [lia|].
    exists self2, w2, l2. split; [done|]. split; [done|]. split; [done|].
    assert (Hu : (if decide (priority = kLowPriority) then urgent self1 = urgent self else S (urgent self1) = urgent self)).
    { unfold urgent. destruct priority; rewrite ?Eq, ?E, ?(Hne kHighPriority), ?(Hne kNormalPriority) by done;
        simpl; repeat (case_decide; try done); simpl; lia. }
    destruct (decide (priority = kLowPriority)) as [->|]; (split; [lia|]); intros _ Hn; [done|lia].
Qed.

(** Packets that wait too long are sent without a budget. *)
Lemma overdue_sends self clock :
  kMaxQueueTimeWithoutSendingUs < TimeInMicroseconds clock - time_last_send_us_ self -> (0 < urgent self)%nat ->
  ShouldSendNextPacket self clock <> None /\ ShouldSendNextPacket self clock <> Some kLowPriority.
Proof.
  intros Ht Hu. unfold urgent, queue_of in Hu. cbn [list_of] in Hu. unfold ShouldSendNextPacket, list_empty.
  rewrite (proj2 (Z.ltb_lt _ _) Ht). cbn [andb].
  destruct (packet_list_ (high_priority_packets_ self)), (packet_list_ (normal_priority_packets_ self)); cbn in *; try lia;
    destruct (_ <=? 0); done.
Qed.

(** A turn of Process, when the time for it has come. *)
Lemma Process_left self w l :
  left_with self w l ->
  kMaxQueueTimeWithoutSendingUs < TimeInMicroseconds (clock_ w) - time_last_send_us_ self ->
  exists self' w' l', Process (R := R) (pending self) self w = Cont (0, self', w') /\ left_with self' w' l'
    /\ (urgent self' <= pred (urgent self))%nat.
Proof.
  intros Hl Ht. destruct (lw_active _ _ _ Hl) as [He Hp]. unfold Process. set (self1 := set_budgets self _ _ _ _). change (enabled_ self1) with (enabled_ self).
  change (paused_ self1) with (paused_ self). rewrite He, Hp. cbn [negb]. set (self2 := if 0 <? _ then _ else _).
  assert (Hs : same_lists self self2) by (subst self2; destruct (0 <? _); split; done || by intros []).
  assert (Et : time_last_send_us_ self2 = time_last_send_us_ self) by (subst self2; by destruct (0 <? _)).
  assert (Hl2 : left_with self2 w l) by (apply (left_same self _ w); [done|subst self2; by destruct (0 <? _)|rewrite Et; apply Hl|apply Hl|done]).
  assert (Eq : forall x, queue_of self2 x = queue_of self x) by (intros x; unfold queue_of; by rewrite (proj2 Hs)).
  assert (Eu : urgent self2 = urgent self) by (unfold urgent; by rewrite !Eq).
  destruct (process_loop_left (pending self) self2 w l Hl2) as (self3 & w3 & l3 & -> & Hl3 & _ & Hu & Hu');
    [unfold pending; by rewrite !Eq|]. cbn [flow_bind negb].
  assert (Hurgent : (urgent self3 <= pred (urgent self))%nat).
  { rewrite Eu in *. destruct (urgent self) as [|k] eqn:Ek; [lia|].
    destruct (overdue_sends self2 (clock_ w)) as [O1 O2]; [by rewrite Et|lia|]. specialize (Hu' O1 O2). lia. }
  destruct (_ && _) eqn:Eempty; [|by exists self3, w3, l3].
  apply andb_true_iff in Eempty as [Eempty _].
  assert (Hempty := all_empty self3 Eempty).
  destruct (P_padding l3 w3 (bytes_remaining_ (padding_budget_ self3))) as (sent & w4 & Epad & HP4 & Hc4); [|apply Hl3|].
  { intros x. unfold queue_of. rewrite <- (lw_queues _ _ _ Hl3 x). unfold queue_of. by rewrite Hempty, app_nil_r. }
  eexists _, w4, l3. rewrite Epad. split; [done|]. cbn [pacer_calls fold_left]. split; [|done].
  apply (left_same self3 _ w3); [split; done || by intros []|done| |done|done]. cbn. assert (Ht3 := lw_time _ _ _ Hl3). lia.
Qed.

(** Turns of Process, each after the world has waited. *)
Fixpoint rounds (waits : list (world -> world)) (self : PacedSender) (w : world) : flow R (PacedSender * world) :=
  match waits with
  | [] => Cont (self, w)
  | wait :: waits =>
      let! (_, self, w) := Process (pending self) self (wait w) in rounds waits self w
  end.

(** More than thirty milliseconds. *)
Definition waits_long (wait : world -> world) : Prop :=
  forall l w, P l w -> P l (wait w)
    /\ kMaxQueueTimeWithoutSendingUs < TimeInMicroseconds (clock_ (wait w)) - TimeInMicroseconds (clock_ w).

Lemma rounds_left waits self w l :
  left_with self w l -> Forall waits_long waits ->
  exists self' w' l', rounds waits self w = Cont (self', w') /\ left_with self' w' l'
    /\ (urgent self' <= urgent self - length waits)%nat.
Proof.
  revert self w l. induction waits as [|wait waits IH]; intros self w l Hl Hw; cbn [rounds length].
  - exists self, w, l. split; [done|]. split; [done|lia].
  - apply Forall_cons_1 in Hw as [Hwait Hw]. destruct (Hwait l w (lw_world _ _ _ Hl)) as [HP Ht].
    assert (Hl1 : left_with self (wait w) l).
    { assert (H := lw_time _ _ _ Hl). unfold kMaxQueueTimeWithoutSendingUs in Ht.
      apply (left_same self _ w); [done|done|lia|done|done]. }
    destruct (Process_left self (wait w) l Hl1) as (self1 & w1 & l1 & -> & Hl2 & Hu);
      [assert (H := lw_time _ _ _ Hl); lia|]. cbn [flow_bind].
    destruct (IH self1 w1 l1 Hl2 Hw) as (self2 & w2 & l2 & E & Hl3 & Hu2). exists self2, w2, l2. split; [done|]. split; [done|lia].
Qed.
End drain.
