(* ===== verification/RedSender.v ===== *)
(** * Sending packets with error correction

    Models SendToNetwork of [modules/rtp_rtcp/source/rtp_sender.cc] and SendVideoPacket of
    [modules/rtp_rtcp/source/rtp_sender_video.cc].  The packet history, the pacer and the
    transport are an interface; the statistics of delays and rates are left out. *)
From S2P Require Import Prelude Pointwise RtpWire RtpExtMap RtpHeader RtpSender Vp8Session FecTables FecMasks FecPacket FecEncode Red Pacer.
Local Open Scope Z_scope.

Definition kRetransmitFECPackets : Z := 1.

(** What the sender calls, with the clock: the history keeps a packet and gives 0 when it
    does not refuse it, and gives one back; the pacer says whether a packet may go now, and
    the transport gives the number of bytes that it sent. *)
Class Network : Type := {
  net : Type;
  max_payload_length_ : Z;
  packet_history_PutRTPPacket : forall {R : Type}, net -> Z -> list Z -> Z -> Z -> Z -> StorageType -> flow R (Z * net);
  packet_history_GetPacketAndSetSendTime :
    forall {R : Type}, net -> Z -> Z -> Z -> bool -> list Z -> flow R (option (list Z * Z * Z) * net);
  packet_history_GetBestFittingPacket : forall {R : Type}, net -> list Z -> Z -> flow R (option (list Z * Z * Z));
  paced_sender_ : bool;
  paced_sender_SendPacket : net -> Z -> Priority -> Z -> Z -> Z -> Z -> bool -> bool * net;
  transport_SendPacket : net -> list Z -> Z * net
}.

(** The members of RTPSenderVideo that SendVideoPacket uses. *)
Record RTPSenderVideo : Type := mkSenderVideo {
  retransmissionSettings : Z;
  fecEnabled : bool;
  payloadTypeRED : Z;
  payloadTypeFEC : Z;
  producer_fec_ : ProducerFec
}.

Definition set_producer (self : RTPSenderVideo) (p : ProducerFec) : RTPSenderVideo :=
  mkSenderVideo (retransmissionSettings self) (fecEnabled self) (payloadTypeRED self) (payloadTypeFEC self) p.

Section sending.
Context `{Network} (alloc : Z -> list Z).

Definition media_sent (self : RTPSender) : RTPSender :=
  set_times self (timestamp_ self) (capture_time_ms_ self) (last_timestamp_time_ms_ self) true
    (last_packet_marker_bit_ self).

Definition SendPacketToNetwork (n : net) (packet : list Z) : bool * net :=
  let '(bytes_sent, n) := transport_SendPacket n packet in (negb (bytes_sent <=? 0), n).

(** The packet is the first [payload_length + rtp_header_length] bytes of [buffer];
    [now_ms] is the clock, and [clock_delta_ms] its distance from that of the pacer. *)
Definition SendToNetwork {R : Type} (self : RTPSender) (n : net) (now_ms clock_delta_ms : Z) (buffer : list Z)
  (payload_length rtp_header_length capture_time_ms : Z) (storage : StorageType) (priority : Priority)
  : flow R (Z * RTPSender * net) :=
  let length := payload_length + rtp_header_length in
  let! packet := blk_get buffer 0 length in
  let! (_, rtp_header) := Parse packet None new_RTPHeader in
  let! packet :=
    if 0 <? capture_time_ms
    then UpdateTransmissionTimeOffset self packet length rtp_header (now_ms - capture_time_ms)
    else Cont packet in
  let! packet := UpdateAbsoluteSendTime self packet length rtp_header now_ms in
  let! (kept, n) := packet_history_PutRTPPacket n now_ms packet (u16 length) max_payload_length_ capture_time_ms storage in
  if negb (kept =? 0) then Cont (-1, self, n)
  else
    let '(go, n) :=
      if paced_sender_ && bool_decide (storage <> kDontStore)
      then paced_sender_SendPacket n now_ms priority (ssrc rtp_header) (sequenceNumber rtp_header)
             (capture_time_ms + clock_delta_ms) payload_length false
      else (true, n) in
    if negb go then Cont (0, self, n)
    else
      let '(sent, n) := SendPacketToNetwork n packet in
      if negb sent then Cont (-1, self, n) else Cont (0, media_sent self, n).

(** The packets of error correction that are ready.  A null packet is not dereferenced: the
    loop asks for it first. *)
Fixpoint send_fec_loop {R : Type} (fuel : nat) (self : RTPSender) (n : net) (video : RTPSenderVideo)
  (now_ms clock_delta_ms rtp_header_length capture_time_ms ret : Z)
  : flow R (Z * RTPSender * net * RTPSenderVideo) :=
  if negb (FecAvailable (producer_fec_ video)) then Cont (ret, self, n, video)
  else
    match fuel with
    | O => Stuck
    | S fuel =>
        let '(seq_num, self) := IncrementSequenceNumber self in
        let! (red_packet, producer) :=
          GetFecPacket alloc (producer_fec_ video) (payloadTypeRED video) (payloadTypeFEC video) seq_num
            rtp_header_length in
        let video := set_producer video producer in
        let! red_packet := match red_packet with Some p => Cont p | None => Stuck end in
        let storage :=
          if negb (Z.land (retransmissionSettings video) kRetransmitFECPackets =? 0)
          then kAllowRetransmission else kDontRetransmit in
        let! (packet_success, self, n) :=
          SendToNetwork self n now_ms clock_delta_ms (red_data red_packet)
            (red_length red_packet - rtp_header_length) rtp_header_length capture_time_ms storage
            kNormalPriority in
        send_fec_loop fuel self n video now_ms clock_delta_ms rtp_header_length capture_time_ms
          (Z.lor ret packet_success)
    end.

(** The result of the protection replaces that of sending. *)
Definition SendVideoPacket {R : Type} (self : RTPSender) (n : net) (video : RTPSenderVideo)
  (now_ms clock_delta_ms : Z) (data_buffer : list Z) (payload_length rtp_header_length capture_time_ms : Z)
  (storage : StorageType) (protect : bool) : flow R (Z * RTPSender * net * RTPSenderVideo) :=
  if fecEnabled video then
    let! red_packet :=
      BuildRedPacket alloc data_buffer payload_length rtp_header_length (payloadTypeRED video) in
    let! (packet_success, self, n) :=
      SendToNetwork self n now_ms clock_delta_ms (red_data red_packet)
        (red_length red_packet - rtp_header_length) rtp_header_length capture_time_ms storage
        kNormalPriority in
    let! (ret, video) :=
      if protect then
        let! (ret, producer) :=
          AddRtpPacketAndGenerateFec alloc (producer_fec_ video) data_buffer payload_length rtp_header_length in
        Cont (ret, set_producer video producer)
      else Cont (packet_success, video) in
    if protect && negb (ret =? 0) then Cont (ret, self, n, video)
    else
      send_fec_loop (length (fec_packets_ (producer_fec_ video))) self n video now_ms clock_delta_ms
        rtp_header_length capture_time_ms ret
  else
    let! (ret, self, n) :=
      SendToNetwork self n now_ms clock_delta_ms data_buffer payload_length rtp_header_length
        capture_time_ms storage kNormalPriority in
    Cont (ret, self, n, video).
End sending.

(** As the sender of video packets that SendVP8 calls. *)
Definition red_sender `{Network} (alloc : Z -> list Z) (now_ms clock_delta_ms capture_time_ms : Z) : VideoSender := {|
  video := net * RTPSenderVideo;
  Vp8Session.SendVideoPacket R self v pkt :=
    let '(n, video) := v in
    let! (ret, self, n, video) :=
      SendVideoPacket alloc self n video now_ms clock_delta_ms (call_buffer pkt) (call_payload_length pkt)
        (call_header_length pkt) capture_time_ms (call_storage pkt) (call_protect pkt) in
    Cont (ret, self, (n, video))
|}.

(** A network without a history that takes every packet at once, and writes it down. *)
#[export] Instance wire : Network := {|
  net := list (list Z);
  max_payload_length_ := IP_PACKET_SIZE;
  packet_history_PutRTPPacket _ n _ _ _ _ _ _ := Cont (0, n);
  packet_history_GetPacketAndSetSendTime _ n _ _ _ _ _ := Cont (None, n);
  packet_history_GetBestFittingPacket _ _ _ _ := Cont None;
  paced_sender_ := false;
  paced_sender_SendPacket n _ _ _ _ _ _ _ := (true, n);
  transport_SendPacket n packet := (Zlen packet, n ++ [packet])
|}.
