(* ===== verification/RedReceive.v ===== *)
(** * Receiving packets with a RED header

    Models [modules/rtp_rtcp/source/fec_receiver_impl.cc]: the RED header is taken off, and
    packets that arrive or are recovered are handed to a callback.  The lock is left during
    a callback, so the callback gets the state, with the receiver in it, and may change it. *)
From S2P Require Import Prelude Pointwise RtpWire RtpExtMap RtpHeader FecTables FecPacket FecRecover FecReceive Red.
Local Open Scope Z_scope.

Record FecReceiverImpl : Type := mkFecReceiver {
  received_packet_list_ : list ReceivedPacket;
  recovered_packet_list_ : list RecoveredPacket;
  fec_ : FecDecoder
}.

Definition new_FecReceiverImpl : FecReceiverImpl := mkFecReceiver [] [] (mkDecoder [] false).

(** [alloc n] is what [new] finds in [n] bytes of memory, and [uninitialised] in a number. *)
Section add.
Context (alloc : Z -> list Z) (uninitialised : Z).

(** A packet with the RTP header and [length] bytes behind [from], and its payload type. *)
Definition media_packet_of {R : Type} (packet : list Z) (header_length payload_type from length pkt_length : Z)
  : flow R Packet :=
  let! data := copy (alloc IP_PACKET_SIZE) 0 packet 0 header_length in
  let! b := rd data 1 in
  let! data := wr data 1 (Z.land b 128) in
  let! b := rd data 1 in
  let! data := wr data 1 (u8 (b + payload_type)) in
  let! data := copy data header_length packet from length in
  Cont (mkPacket (u16 pkt_length) data).

(** The header of a block with its length: [None] is a corrupt packet. *)
Definition red_block_length {R : Type} (packet : list Z) (hl payload_data_length : Z) : flow R (option Z) :=
  let! b1 := rd packet (hl + 1) in
  let timestamp_offset := u16 (Z.shiftl b1 8) in
  let! b2 := rd packet (hl + 2) in
  let timestamp_offset := Z.shiftr (u16 (timestamp_offset + b2)) 2 in
  if negb (timestamp_offset =? 0) then Cont None
  else
    let blockLength := u16 (Z.shiftl (Z.land 3 b2) 8) in
    let! b3 := rd packet (hl + 3) in
    let blockLength := u16 (blockLength + b3) in
    let! b4 := rd packet (hl + 4) in
    if negb (Z.land b4 128 =? 0) then Cont None
    else if payload_data_length - 4 <? blockLength then Cont None
    else Cont (Some blockLength).

(** The packets without the RED header; an assertion that fails is not compiled. *)
Definition red_packets {R : Type} (header : RTPHeader) (packet : list Z) (packet_length ulpfec_payload_type : Z)
  : flow R (Z * list ReceivedPacket) :=
  let hl := headerLength header in
  let payload_data_length := u16 (packet_length - hl) in
  let! b := rd packet hl in
  let payload_type := Z.land b 127 in
  let is_fec := payload_type =? ulpfec_payload_type in
  let seq := sequenceNumber header in
  let! block :=
    if negb (Z.land b 128 =? 0) then
      let! n := red_block_length packet hl payload_data_length in Cont ((fun n => (4, n)) <$> n)
    else Cont (Some (1, 0)) in
  match block with
  | None => Cont (-1, [])
  | Some (REDHeaderLength, blockLength) =>
      if 0 <? blockLength then
        let REDHeaderLength := 5 in
        let! pkt := media_packet_of packet hl payload_type (hl + REDHeaderLength) blockLength blockLength in
        let rest := payload_data_length - REDHeaderLength - blockLength in
        let! data := copy (alloc IP_PACKET_SIZE) 0 packet (hl + REDHeaderLength + blockLength) rest in
        Cont (0, [mkReceived seq uninitialised is_fec pkt;
                  mkReceived seq uninitialised true (mkPacket (u16 rest) data)])
      else
        let rest := payload_data_length - REDHeaderLength in
        if is_fec then
          let! data := copy (alloc IP_PACKET_SIZE) 0 packet (hl + REDHeaderLength) rest in
          let! ssrc := BufferToUWord32 packet 8 in
          Cont (0, if u16 rest =? 0 then [] else [mkReceived seq ssrc true (mkPacket (u16 rest) data)])
        else
          let! pkt := media_packet_of packet hl payload_type (hl + REDHeaderLength) rest (hl + rest) in
          Cont (0, if pkt_length pkt =? 0 then [] else [mkReceived seq uninitialised false pkt])
  end.

Definition AddReceivedRedPacket {R : Type} (self : FecReceiverImpl) (header : RTPHeader)
  (packet : list Z) (packet_length ulpfec_payload_type : Z) : flow R (Z * FecReceiverImpl) :=
  let! (ret, l) := red_packets header packet packet_length ulpfec_payload_type in
  Cont (ret, mkFecReceiver (received_packet_list_ self ++ l) (recovered_packet_list_ self) (fec_ self)).
End add.

(** ** Delivery *)

Definition set_returned (r : RecoveredPacket) : RecoveredPacket :=
  mkRecovered (rec_seq_num r) (was_recovered r) true (length_recovery r) (rec_pkt r).

(** The position of the element that an iterator points to. *)
Fixpoint position (seq : Z) (l : list RecoveredPacket) : option nat :=
  match l with
  | [] => None
  | r :: l => if rec_seq_num r =? seq then Some O else S <$> position seq l
  end.

Section process.
Context {R W : Type} (receiver_of : W -> FecReceiverImpl) (with_receiver : FecReceiverImpl -> W -> W)
  (OnRecoveredPacket : W -> Packet -> flow R (bool * W)).

(** The loop over the recovered packets.  An element that a callback removed leaves the
    iterator dangling. *)
Fixpoint return_loop (fuel : nat) (it : nat) (w : W) : flow R (Z * W) :=
  match recovered_packet_list_ (receiver_of w) !! it with
  | None => Cont (0, w)
  | Some r =>
      match fuel with
      | O => Stuck
      | S fuel =>
          if returned r then return_loop fuel (S it) w
          else
            let! (ok, w) := OnRecoveredPacket w (rec_pkt r) in
            if negb ok then Cont (-1, w)
            else
              let self := receiver_of w in
              let l := recovered_packet_list_ self in
              match position (rec_seq_num r) l with
              | None => Stuck
              | Some it =>
                  let l := alter set_returned it l in
                  return_loop fuel (S it)
                    (with_receiver (mkFecReceiver (received_packet_list_ self) l (fec_ self)) w)
              end
      end
  end.

Definition decode_received (w : W) : flow R W :=
  let self := receiver_of w in
  let! (recovered, fec) :=
    call (DecodeFEC (received_packet_list_ self) (recovered_packet_list_ self) (fec_ self)) in
  Cont (with_receiver (mkFecReceiver [] recovered fec) w).

(** [fuel] turns for the loop; a callback that leaves the receiver alone needs one for each
    recovered packet. *)
Definition ProcessReceivedFec (fuel : nat) (w : W) : flow R (Z * W) :=
  let! (ok, w) :=
    match received_packet_list_ (receiver_of w) with
    | [] => Cont (true, w)
    | front :: _ =>
        let! (ok, w) :=
          if negb (rx_is_fec front) then OnRecoveredPacket w (rx_pkt front) else Cont (true, w) in
        if negb ok then Cont (false, w) else let! w := decode_received w in Cont (true, w)
    end in
  if negb ok then Cont (-1, w)
  else return_loop fuel 0 w.
End process.

(** ** What is in the packets that a sender makes *)

Section made.
Context (alloc : Z -> list Z) (uninitialised : Z).
Hypothesis alloc_length : forall n, 0 <= n -> Zlen (alloc n) = n.

Lemma rd_after {R} (a : list Z) x l n : n = Zlen a -> rd (R := R) (a ++ x :: l) n = Cont x.
Proof. intros ->. rewrite <- (Z.add_0_r (Zlen a)), rd_app_at by lia. done. Qed.

(** A header, one byte and a payload: the parts of the code's offsets. *)
Lemma red_single {R} header b0 red marker sn T pt payload ulpfec hl :
  0 <= pt < 128 -> headerLength header = hl -> hl = 4 + Zlen T -> hl + Zlen payload < 65535 ->
  let packet := hdr b0 red marker sn T ++ [pt] ++ payload in
  red_packets (R := R) alloc uninitialised header packet (Zlen packet) ulpfec
  = let seq := sequenceNumber header in
    if pt =? ulpfec then
      let! data := copy (alloc IP_PACKET_SIZE) 0 packet (hl + 1) (Zlen payload) in
      let! ssrc := BufferToUWord32 packet 8 in
      Cont (0, if u16 (Zlen payload) =? 0 then [] else [mkReceived seq ssrc true (mkPacket (u16 (Zlen payload)) data)])
    else
      let! pkt := media_packet_of alloc packet hl pt (hl + 1) (Zlen payload) (hl + Zlen payload) in
      Cont (0, if pkt_length pkt =? 0 then [] else [mkReceived seq uninitialised false pkt]).
Proof.
  intros Hpt Hh Hhl Hl packet. pose proof (Zlen_nonneg T). pose proof (Zlen_nonneg payload).
  assert (HL : Zlen packet = hl + 1 + Zlen payload)
    by (unfold packet; rewrite !Zlen_app, Zlen_hdr; change (Zlen [pt]) with 1; lia).
  unfold red_packets. rewrite Hh, HL.
  replace (hl + 1 + Zlen payload - hl) with (1 + Zlen payload) by lia.
  rewrite (u16_id (1 + _)) by (unfold is_u16; lia).
  unfold packet at 1. change ([pt] ++ payload) with (pt :: payload). rewrite rd_after by (by rewrite Zlen_hdr). cbn [flow_bind].
  assert (E := seqZ_check (fun pt => (Z.land pt 128 =? 0) && (Z.land pt 127 =? pt)) 128 pt ltac:(vm_compute; reflexivity) Hpt).
  cbv beta in E. rewrite andb_true_iff, !Z.eqb_eq in E. destruct E as [-> ->]. cbn [Z.eqb negb flow_bind].
  change (0 <? 0) with false. cbv iota. by replace (1 + Zlen payload - 1) with (Zlen payload) by lia.
Qed.

Lemma red_packets_media {R} header b0 red marker sn T pt payload ulpfec hl :
  0 <= pt < 128 -> 0 <= red < 128 -> headerLength header = hl -> hl = 4 + Zlen T ->
  hl + Zlen payload <= IP_PACKET_SIZE -> pt <> ulpfec ->
  let packet := hdr b0 red marker sn T ++ [pt] ++ payload in
  red_packets (R := R) alloc uninitialised header packet (Zlen packet) ulpfec
  = Cont (0, [mkReceived (sequenceNumber header) uninitialised false
       (mkPacket (hl + Zlen payload) (put (alloc IP_PACKET_SIZE) 0 (hdr b0 pt marker sn T ++ payload)))]).
Proof.
  intros Hpt Hred Hh Hhl Hl Hne packet. pose proof (Zlen_nonneg T). pose proof (Zlen_nonneg payload).
  unfold packet. rewrite (red_single _ _ _ _ _ _ _ _ _ hl) by (done || unfold IP_PACKET_SIZE in *; lia). rewrite (proj2 (Z.eqb_neq _ _) Hne).
  unfold media_packet_of. unfold IP_PACKET_SIZE in *. assert (Ha := alloc_length 1500 ltac:(lia)).
  rewrite copy_front by (rewrite ?Zlen_hdr; lia). cbn [flow_bind].
  assert (E := retype_hdr (R := R) (alloc 1500) b0 red marker sn T [] pt Hred Hpt).
  rewrite !app_nil_r in E. destruct (rd (R := R) _ 1) as [b| |]; [|done..]. cbn [flow_bind] in *.
  destruct (wr (R := R) _ 1 _) as [d| |]; [|done..]. cbn [flow_bind] in *.
  destruct (rd (R := R) d 1) as [b'| |]; [|done..]. cbn [flow_bind] in *. rewrite E. cbn [flow_bind].
  rewrite app_assoc. rewrite <- (app_nil_r payload) at 1.
  rewrite copy_from by (rewrite ?Zlen_app, ?Zlen_hdr, ?Ha; change (Zlen [pt]) with 1; done || lia).
  cbn [flow_bind pkt_length]. rewrite u16_id by (unfold is_u16; lia).
  destruct (Z.eqb_spec (hl + Zlen payload) 0); [lia|done].
Qed.

Lemma red_packets_fec {R} header b0 red marker sn T fec_pt payload hl ssrc :
  0 <= fec_pt < 128 -> headerLength header = hl -> hl = 4 + Zlen T ->
  0 < Zlen payload <= IP_PACKET_SIZE -> hl <= IP_PACKET_SIZE ->
  let packet := hdr b0 red marker sn T ++ [fec_pt] ++ payload in
  BufferToUWord32 (R := R) packet 8 = Cont ssrc ->
  red_packets (R := R) alloc uninitialised header packet (Zlen packet) fec_pt
  = Cont (0, [mkReceived (sequenceNumber header) ssrc true
       (mkPacket (Zlen payload) (put (alloc IP_PACKET_SIZE) 0 payload))]).
Proof.
  intros Hpt Hh Hhl [Hp Hp'] Hl packet Hs. pose proof (Zlen_nonneg T).
  unfold packet. rewrite (red_single _ _ _ _ _ _ _ _ _ hl) by (done || unfold IP_PACKET_SIZE in *; lia). rewrite Z.eqb_refl. fold packet. rewrite Hs.
  unfold IP_PACKET_SIZE in *. assert (Ha := alloc_length 1500 ltac:(lia)).
  unfold packet. rewrite app_assoc. rewrite <- (app_nil_r payload) at 1. unfold copy.
  rewrite blk_get_app by (rewrite ?Zlen_app, ?Zlen_hdr; change (Zlen [fec_pt]) with 1; done || lia).
  cbn [flow_bind]. rewrite blk_put_put by lia. cbn [flow_bind].
  rewrite u16_id by (unfold is_u16; lia). destruct (Z.eqb_spec (Zlen payload) 0); [lia|done].
Qed.
End made.
