(* ===== verification/VieReceive.v ===== *)
(** * The receiver of a video channel

    Models the path of a packet through [video_engine/vie_receiver.cc]: InsertRTPPacket,
    ReceivePacket, ParseAndHandleEncapsulatingHeader and OnRecoveredPacket, which the
    receiver of error correction calls back.  What takes the packets in the end is an
    interface; statistics and the bandwidth estimator are left out. *)
From S2P Require Import Prelude Pointwise RtpWire RtpExtMap RtpHeader RtpSender FecTables FecPacket FecRecover FecReceive RedReceive.
Local Open Scope Z_scope.

Definition kViEMaxMtu : Z := 1500.
Definition kVideoPayloadTypeFrequency : Z := 90000.

(** The RTP receiver and the payload types that the registry knows. *)
Class RtpReceiver : Type := {
  rcv : Type;
  GetPayloadSpecifics : Z -> bool;
  IncomingRtpPacket : rcv -> RTPHeader -> list Z -> bool -> bool * rcv
}.

Section vie.
Context `{RtpReceiver} (alloc : Z -> list Z) (uninitialised : Z).

Record ViEReceiver : Type := mkViEReceiver {
  receiving_ : bool;
  rtp_header_parser_ : ExtensionMap;
  red_payload_type_ : Z;
  ulpfec_payload_type_ : Z;
  rtx_ : bool;
  registry_ssrc_rtx_ : Z;
  rtp_payload_registry_ : RTPPayloadRegistry;
  receiver_ssrc_ : Z;
  restored_packet_ : list Z;
  restored_packet_in_use_ : bool;
  fec_receiver_ : FecReceiverImpl;
  rtp_receiver_ : rcv
}.

Definition with_fec (f : FecReceiverImpl) (w : ViEReceiver) : ViEReceiver :=
  mkViEReceiver (receiving_ w) (rtp_header_parser_ w) (red_payload_type_ w) (ulpfec_payload_type_ w) (rtx_ w)
    (registry_ssrc_rtx_ w) (rtp_payload_registry_ w) (receiver_ssrc_ w) (restored_packet_ w)
    (restored_packet_in_use_ w) f (rtp_receiver_ w).
Definition with_restored (b : list Z) (in_use : bool) (w : ViEReceiver) : ViEReceiver :=
  mkViEReceiver (receiving_ w) (rtp_header_parser_ w) (red_payload_type_ w) (ulpfec_payload_type_ w) (rtx_ w)
    (registry_ssrc_rtx_ w) (rtp_payload_registry_ w) (receiver_ssrc_ w) b in_use (fec_receiver_ w) (rtp_receiver_ w).
Definition with_rcv (r : rcv) (w : ViEReceiver) : ViEReceiver :=
  mkViEReceiver (receiving_ w) (rtp_header_parser_ w) (red_payload_type_ w) (ulpfec_payload_type_ w) (rtx_ w)
    (registry_ssrc_rtx_ w) (rtp_payload_registry_ w) (receiver_ssrc_ w) (restored_packet_ w)
    (restored_packet_in_use_ w) (fec_receiver_ w) r.
Definition with_registry (r : RTPPayloadRegistry) (w : ViEReceiver) : ViEReceiver :=
  mkViEReceiver (receiving_ w) (rtp_header_parser_ w) (red_payload_type_ w) (ulpfec_payload_type_ w) (rtx_ w)
    (registry_ssrc_rtx_ w) r (receiver_ssrc_ w) (restored_packet_ w) (restored_packet_in_use_ w)
    (fec_receiver_ w) (rtp_receiver_ w).

Definition video_frequency (h : RTPHeader) : RTPHeader :=
  mkRTPHeader (markerBit h) (payloadType h) (sequenceNumber h) (timestamp h) (ssrc h)
    (numCSRCs h) (arrOfCSRCs h) (paddingLength h) (headerLength h) kVideoPayloadTypeFrequency (extension h).

Definition IsRed (w : ViEReceiver) (header : RTPHeader) : bool := red_payload_type_ w =? payloadType header.
Definition IsRtx (w : ViEReceiver) (header : RTPHeader) : bool := rtx_ w && (registry_ssrc_rtx_ w =? ssrc header).
Definition IsEncapsulated (w : ViEReceiver) (header : RTPHeader) : bool := IsRed w header || IsRtx w header.

Definition SetIncomingPayloadType (w : ViEReceiver) (header : RTPHeader) : ViEReceiver :=
  if IsRtx w header then w
  else with_registry (mkRTPPayloadRegistry (registry_payload_type_rtx_ (rtp_payload_registry_ w)) (payloadType header)) w.

(** A packet of error correction or a packet that was sent again. *)
Definition ParseAndHandleEncapsulatingHeader {R : Type}
  (OnRecoveredPacket : ViEReceiver -> Packet -> flow R (bool * ViEReceiver)) (fuel : nat)
  (w : ViEReceiver) (packet : list Z) (header : RTPHeader) : flow R (bool * ViEReceiver) :=
  if IsRed w header then
    let! _ := rd packet (headerLength header) in
    let! (ret, f) :=
      AddReceivedRedPacket alloc uninitialised (fec_receiver_ w) header packet (Zlen packet)
        (u8 (ulpfec_payload_type_ w)) in
    let w := with_fec f w in
    if negb (ret =? 0) then Cont (false, w)
    else
      let! (ret, w) := ProcessReceivedFec fec_receiver_ with_fec OnRecoveredPacket fuel w in
      Cont (ret =? 0, w)
  else if IsRtx w header then
    if headerLength header + paddingLength header =? Zlen packet then Cont (true, w)
    else if Zlen packet <? headerLength header then Cont (false, w)
    else if kViEMaxMtu <? Zlen packet then Cont (false, w)
    else if restored_packet_in_use_ w then Cont (false, w)
    else
      let! (ok, restored, packet_length) :=
        RestoreOriginalPacket (rtp_payload_registry_ w) (restored_packet_ w) packet (Zlen packet)
          (receiver_ssrc_ w) header in
      if negb ok then Cont (false, with_restored restored false w)
      else
        let! (ret, w) := OnRecoveredPacket (with_restored restored true w) (mkPacket packet_length restored) in
        Cont (ret, with_restored (restored_packet_ w) false w)
  else Cont (false, w).

(** The calls are nested; [fuel] bounds their depth. *)
Fixpoint ReceivePacket {R : Type} (fuel : nat) (w : ViEReceiver) (packet : list Z) (header : RTPHeader)
  (in_order : bool) : flow R (bool * ViEReceiver) :=
  match fuel with
  | O => Stuck
  | S fuel =>
      if IsEncapsulated w header then
        ParseAndHandleEncapsulatingHeader
          (fun w p =>
            let! rtp_packet := blk_get (pkt_data p) 0 (pkt_length p) in
            let! (ok, header) := RtpHeaderParserImpl_Parse (rtp_header_parser_ w) rtp_packet in
            if negb ok then Cont (false, w)
            else ReceivePacket fuel w rtp_packet (video_frequency header) false)
          fuel w packet header
      else
        let! payload := blk_get packet (headerLength header) (Zlen packet - headerLength header) in
        if negb (GetPayloadSpecifics (payloadType header)) then Cont (false, w)
        else
          let '(ok, r) := IncomingRtpPacket (rtp_receiver_ w) header payload in_order in
          Cont (ok, with_rcv r w)
  end.

Definition OnRecoveredPacket {R : Type} (fuel : nat) (w : ViEReceiver) (p : Packet) : flow R (bool * ViEReceiver) :=
  let! rtp_packet := blk_get (pkt_data p) 0 (pkt_length p) in
  let! (ok, header) := RtpHeaderParserImpl_Parse (rtp_header_parser_ w) rtp_packet in
  if negb ok then Cont (false, w)
  else ReceivePacket fuel w rtp_packet (video_frequency header) false.

(** [IsPacketInOrder] asks the statistics. *)
Definition InsertRTPPacket {R : Type} (fuel : nat) (w : ViEReceiver) (rtp_packet : list Z)
  (IsPacketInOrder : RTPHeader -> bool) : flow R (Z * ViEReceiver) :=
  if negb (receiving_ w) then Cont (-1, w)
  else
    let! (ok, header) := RtpHeaderParserImpl_Parse (rtp_header_parser_ w) rtp_packet in
    if negb ok then Cont (-1, w)
    else
      let header := video_frequency header in
      let w := SetIncomingPayloadType w header in
      let! (ok, w) := ReceivePacket fuel w rtp_packet header (IsPacketInOrder header) in
      Cont (if ok then 0 else -1, w).
End vie.
