(* ===== verification/RedStream.v ===== *)
(** * A receiver of packets with RED headers

    What the receiver of a video channel hands on while packets of a frame and its error
    correction arrive: every packet that follows from what arrived, and nothing else. *)
From S2P Require Import Prelude Pointwise RtpWire RtpExtMap RtpHeader RtpSender FecTables FecPacket FecEncode FecRecover FecReceive FecSession FecDecode FecStream Red RedReceive VieReceive.
From Stdlib Require Import Sorted.
Local Open Scope Z_scope.

(** An RTP receiver that takes every packet, and writes it down. *)
#[export] Instance recorder (known : Z -> bool) : RtpReceiver := {|
  rcv := list (RTPHeader * list Z);
  GetPayloadSpecifics := known;
  IncomingRtpPacket l header payload _ := (true, l ++ [(header, payload)])
|}.

Lemma position_at l i r :
  NoDup (rec_seq_num <$> l) -> l !! i = Some r -> position (rec_seq_num r) l = Some i.
Proof.
  revert i. induction l as [|x l IH]; intros i Hn Hi; [done|]. rewrite fmap_cons in Hn. apply NoDup_cons in Hn as [Hx Hn].
  cbn [position]. destruct i as [|i]; cbn [lookup list_lookup] in Hi; [injection Hi as ->; by rewrite Z.eqb_refl|].
  destruct (Z.eqb_spec (rec_seq_num x) (rec_seq_num r)) as [E|].
  - destruct Hx. rewrite E. by eapply list_elem_of_fmap_2, list_elem_of_lookup_2.
  - by rewrite (IH i).
Qed.

Lemma set_returned_id r : returned r = true -> set_returned r = r.
Proof. destruct r. cbn. by intros ->. Qed.

(** Marks make no difference to what is known. *)
Lemma steady_returned base W fec_seqs G arrived rs fecs :
  steady base W fec_seqs G arrived rs fecs -> steady base W fec_seqs G arrived (set_returned <$> rs) fecs.
Proof.
  intros [[[[I1 I2 I3 I4] S2 S3 S4 S5 S6] Hs Ho] Hset].
  assert (E : rec_seq_num <$> (set_returned <$> rs) = rec_seq_num <$> rs)
    by (rewrite <- list_fmap_compose; by apply list_fmap_ext).
  assert (Hk : Forall (known W) (set_returned <$> rs)) by (apply Forall_fmap; eapply Forall_impl; [exact I1|]; done).
  split; [|done]. split; [|done|done]. split; rewrite ?E; try done.
  - split; [done| |done|].
    + eapply (ranked_fmap base rec_seq_num rec_seq_num rs); [by rewrite E|done].
    + eapply Forall_impl; [exact I4|]. intros f Hf r' e (r & -> & Hr)%list_elem_of_fmap. by apply (Hf r).
  - eapply Forall_impl; [exact S4|]. intros f Hf e He Hp. rewrite E. by apply Hf.
Qed.

Section receiver.
Context (known_type : Z -> bool) (alloc : Z -> list Z) (uninitialised : Z).
Context (w0 : ViEReceiver (H := recorder known_type)).

(** The state is that of [w0] but for the receiver of error correction and the record. *)
Definition at_ (f : FecReceiverImpl) (l : list (RTPHeader * list Z)) : ViEReceiver (H := recorder known_type) :=
  with_fec f (with_rcv (H := recorder known_type) l w0).

(** What the record has of a packet that is handed on. *)
Definition handed (p : Packet) (e : RTPHeader * list Z) : Prop :=
  exists h, e = (video_frequency h, zdrop (headerLength h) (ztake (pkt_length p) (pkt_data p)))
    /\ (forall R, RtpHeaderParserImpl_Parse (R := R) (rtp_header_parser_ w0) (ztake (pkt_length p) (pkt_data p)) = Cont (true, h))
    /\ 0 <= headerLength h <= pkt_length p
    /\ IsEncapsulated w0 h = false /\ known_type (payloadType h) = true.

Lemma OnRecoveredPacket_hands {R} fuel f l p q e :
  handed q e -> same_packet p q -> 0 <= pkt_length q <= IP_PACKET_SIZE -> Zlen (pkt_data q) = IP_PACKET_SIZE ->
  OnRecoveredPacket (R := R) alloc uninitialised (S fuel) (at_ f l) p = Cont (true, at_ f (l ++ [e])).
Proof.
  intros (h & -> & Hparse & Hh & Henc & Hk) (Hl & Hp & Hj) Hq Hq'. unfold OnRecoveredPacket.
  rewrite blk_get_Cont by lia. cbn [flow_bind]. rewrite zdrop_0 by lia.
  replace (ztake (pkt_length p) (pkt_data p)) with (ztake (pkt_length q) (pkt_data q)).
  2:{ rewrite Hl. apply list_eq_zat; rewrite !Zlen_ztake by lia; [done|]. intros j Hj'.
      rewrite !zat_ztake by lia. symmetry. by apply Hj. }
  set (bytes := ztake (pkt_length q) (pkt_data q)) in *.
  assert (HL : Zlen bytes = pkt_length q) by (apply Zlen_ztake; lia).
  change (rtp_header_parser_ (at_ f l)) with (rtp_header_parser_ w0). rewrite Hparse. cbn [flow_bind negb ReceivePacket].
  change (IsEncapsulated (at_ f l) (video_frequency h)) with (IsEncapsulated w0 h). rewrite Henc.
  change (headerLength (video_frequency h)) with (headerLength h).
  rewrite blk_get_Cont by lia. cbn [flow_bind]. rewrite (ztake_all (Zlen bytes - _)) by (rewrite Zlen_zdrop; lia).
  cbn [GetPayloadSpecifics recorder]. change (payloadType (video_frequency h)) with (payloadType h). rewrite Hk. done.
Qed.

Context (W : Packet -> Prop) (entry : Packet -> RTPHeader * list Z).
Hypothesis W_handed : forall q, W q -> handed q (entry q).
Hypothesis W_size : forall q, W q -> 0 <= pkt_length q <= IP_PACKET_SIZE /\ Zlen (pkt_data q) = IP_PACKET_SIZE.

Local Abbreviation callback fuel := (OnRecoveredPacket (R := _) alloc uninitialised (S fuel)).

(** The loop hands on what was not, and marks it. *)
Lemma return_loop_hands {R} depth n it rl rs d l :
  Forall (known W) rs -> NoDup (rec_seq_num <$> rs) -> (length rs - it <= n)%nat ->
  (forall i r, (i < it)%nat -> rs !! i = Some r -> returned r = true) ->
  exists es, return_loop (R := R) fec_receiver_ with_fec (callback depth) n it (at_ (mkFecReceiver rl rs d) l)
    = Cont (0, at_ (mkFecReceiver rl (set_returned <$> rs) d) (l ++ es))
    /\ (forall r, r ∈ rs -> returned r = false -> exists q, W q /\ rec_seq_num r = seq_of q /\ entry q ∈ es)
    /\ forall e, e ∈ es -> exists q, W q /\ e = entry q.
Proof.
  revert it rs l. induction n as [|n IH]; intros it rs l Hk Hn Hlen Hret.
  - exists []. assert (E : rs !! it = None) by (apply lookup_ge_None; lia).
    cbn [return_loop]. change (recovered_packet_list_ (fec_receiver_ (at_ (mkFecReceiver rl rs d) l))) with rs.
    rewrite E, app_nil_r. split_and!.
    + do 4 f_equal. rewrite <- (list_fmap_id rs) at 1. apply list_fmap_ext. intros i r Hi. symmetry.
      apply set_returned_id. apply (Hret i r); [|done]. apply lookup_lt_Some in Hi. lia.
    + intros r Hr Hf. apply list_elem_of_lookup in Hr as [i Hi]. rewrite (Hret i r) in Hf; [done| |done].
      apply lookup_lt_Some in Hi. lia.
    + by intros e ?%elem_of_nil.
  - cbn [return_loop]. change (recovered_packet_list_ (fec_receiver_ (at_ (mkFecReceiver rl rs d) l))) with rs.
    destruct (rs !! it) as [r|] eqn:Er.
    2:{ exists []. rewrite app_nil_r. assert (length rs <= it)%nat by (by apply lookup_ge_None). split_and!.
        + do 4 f_equal. rewrite <- (list_fmap_id rs) at 1. apply list_fmap_ext. intros i r Hi. symmetry.
          apply set_returned_id. apply (Hret i r); [|done]. apply lookup_lt_Some in Hi. lia.
        + intros r Hr Hf. apply list_elem_of_lookup in Hr as [i Hi]. rewrite (Hret i r) in Hf; [done| |done].
          apply lookup_lt_Some in Hi. lia.
        + by intros e ?%elem_of_nil. }
    assert (Hlt := lookup_lt_Some _ _ _ Er). destruct (returned r) eqn:Hr.
    + apply IH; [done|done|lia|]. intros i x Hi Hx. destruct (decide (i = it)) as [->|]; [congruence|apply (Hret i); [lia|done]].
    + destruct (proj1 (Forall_lookup _ _) Hk it r Er) as (q & Hq & Es & Hsame).
      destruct (W_size q Hq) as [Hs1 Hs2].
      rewrite (OnRecoveredPacket_hands depth _ _ _ q (entry q)) by (done || by apply W_handed).
      cbn [flow_bind negb]. change (fec_receiver_ (at_ (mkFecReceiver rl rs d) (l ++ [entry q]))) with (mkFecReceiver rl rs d).
      cbn [recovered_packet_list_]. rewrite (position_at rs it r) by done. cbn [received_packet_list_ fec_].
      change (with_fec (mkFecReceiver rl (alter set_returned it rs) d) (at_ (mkFecReceiver rl rs d) (l ++ [entry q])))
        with (at_ (mkFecReceiver rl (alter set_returned it rs) d) (l ++ [entry q])).
      assert (Hf : forall A (g : RecoveredPacket -> A), (forall x, g (set_returned x) = g x) -> g <$> alter set_returned it rs = g <$> rs).
      { intros A g Hg. apply list_eq. intros i. rewrite !list_lookup_fmap. destruct (decide (i = it)) as [->|].
        - rewrite list_lookup_alter_eq, Er. cbn. by rewrite Hg.
        - by rewrite list_lookup_alter_ne. }
      destruct (IH (S it) (alter set_returned it rs) (l ++ [entry q])) as (es & E & H1 & H2).
      * apply Forall_lookup_2. intros i x Hx. destruct (decide (i = it)) as [->|].
        -- rewrite list_lookup_alter_eq, Er in Hx. injection Hx as <-. by exists q.
        -- rewrite list_lookup_alter_ne in Hx by done. by eapply Forall_lookup_1 in Hk.
      * by rewrite Hf.
      * rewrite length_alter. lia.
      * intros i x Hi Hx. destruct (decide (i = it)) as [->|].
        -- rewrite list_lookup_alter_eq, Er in Hx. by injection Hx as <-.
        -- rewrite list_lookup_alter_ne in Hx by done. apply (Hret i); [lia|done].
      * exists (entry q :: es). rewrite E, (Hf _ set_returned) by done. rewrite <- app_assoc. split; [done|]. split.
        -- intros x Hx Hxr. apply list_elem_of_lookup in Hx as [i Hi]. destruct (decide (i = it)) as [->|].
           ++ rewrite Er in Hi. injection Hi as <-. exists q. rewrite elem_of_cons. auto.
           ++ destruct (H1 x) as (q' & ? & ? & ?); [|done|exists q'; rewrite elem_of_cons; auto].
              apply list_elem_of_lookup. exists i. by rewrite list_lookup_alter_ne.
        -- intros e [->|He]%elem_of_cons; [by exists q|by apply H2].
Qed.

(** ** One packet after the other *)

Context (base lo : Z) (seqs fec_seqs : list Z) (G : Z -> list Z).
Hypothesis W_window : forall p, W p -> in_window base (seq_of p).
Hypothesis W_inj : forall p q, W p -> W q -> seq_of p = seq_of q -> p = q.
Hypothesis W_seqs : forall p, W p -> seq_of p ∈ seqs.
Hypothesis few_media : (length seqs < 48)%nat.
Hypothesis few_fec : (length fec_seqs <= 48)%nat.
Hypothesis fec_near : forall q, q ∈ fec_seqs -> lo <= q <= lo + 16383.

(** The receiver between two packets: it has what follows from the packets that arrived,
    and has handed on all of it and nothing else. *)
Record handed_on (arrived : list ReceivedPacket) (rs : list RecoveredPacket) (d : FecDecoder)
  (l : list (RTPHeader * list Z)) : Prop := mkHandedOn {
  ho_steady : steady base W fec_seqs G arrived rs (fec_packet_list_ d);
  ho_returned : Forall (fun r => returned r = true) rs;
  ho_all : forall r, r ∈ rs -> exists q, W q /\ rec_seq_num r = seq_of q /\ entry q ∈ l;
  ho_only : forall e, e ∈ l -> exists q, W q /\ e = entry q
}.

Lemma handed_on_new : handed_on [] [] (mkDecoder [] false) [].
Proof.
  split; [apply steady_new|constructor|by intros r ?%elem_of_nil|by intros e ?%elem_of_nil].
Qed.

Lemma ProcessReceivedFec_hands {R} depth fuel arrived rx rs d l :
  handed_on arrived rs d l -> arrives W fec_seqs G lo rx -> (48 <= fuel)%nat ->
  exists rs' d' l',
    ProcessReceivedFec (R := R) fec_receiver_ with_fec (callback depth) fuel (at_ (mkFecReceiver [rx] rs d) l)
    = Cont (0, at_ (mkFecReceiver [] rs' d') l')
    /\ handed_on (arrived ++ [rx]) rs' d' l'.
Proof.
  intros [Hst Hret Hall Honly] Hrx Hfuel.
  assert (Hfront : exists es,
    (if negb (rx_is_fec rx) then callback depth (at_ (mkFecReceiver [rx] rs d) l) (rx_pkt rx)
     else Cont (true, at_ (mkFecReceiver [rx] rs d) l)) = Cont (R := R) (true, at_ (mkFecReceiver [rx] rs d) (l ++ es))
    /\ (rx_is_fec rx = false -> exists q, W q /\ rx_seq_num rx = seq_of q /\ entry q ∈ es)
    /\ forall e, e ∈ es -> exists q, W q /\ e = entry q).
  { destruct Hrx as [Hok _ _]. unfold rx_ok in Hok. destruct (rx_is_fec rx); cbn [negb].
    - exists []. rewrite app_nil_r. split; [done|]. split; [done|]. by intros e ?%elem_of_nil.
    - destruct Hok as (q & Hq & Es & Hsame). destruct (W_size q Hq) as [Hs1 Hs2]. exists [entry q]. split.
      + apply (OnRecoveredPacket_hands depth _ _ _ q (entry q)); done || by apply W_handed.
      + split; [intros _; exists q; rewrite list_elem_of_singleton; done|].
        intros e ->%list_elem_of_singleton. by exists q. }
  destruct Hfront as (es & Ef & Hes1 & Hes2).
  destruct (DecodeFEC_steady base W W_window W_inj seqs fec_seqs G lo W_seqs few_media few_fec fec_near
    arrived rs d rx Hst Hrx) as ([rs1 d1] & Ed & Hst1 & Hfresh). cbn [fst snd] in *.
  assert (Hin1 : Forall (known W) rs1 /\ ranked base rec_seq_num rs1 /\ (length rs1 < 48)%nat).
  { destruct (steady_closed base W seqs fec_seqs G few_media few_fec _ _ _ Hst1) as (Hk & Hr & _).
    split; [done|]. split; [done|]. by apply (few_recovered base W seqs W_seqs few_media). }
  destruct Hin1 as (Hk1 & Hr1 & Hl1).
  destruct (return_loop_hands (R := R) depth fuel 0 [] rs1 d1 (l ++ es)) as (es' & El & H1 & H2);
    [done|by eapply ranked_nodup|lia|intros; lia|].
  exists (set_returned <$> rs1), d1, ((l ++ es) ++ es'). split.
  - unfold ProcessReceivedFec. change (fec_receiver_ (at_ (mkFecReceiver [rx] rs d) l)) with (mkFecReceiver [rx] rs d).
    cbn [received_packet_list_]. rewrite Ef. cbn [flow_bind negb]. unfold decode_received.
    change (fec_receiver_ (at_ (mkFecReceiver [rx] rs d) (l ++ es))) with (mkFecReceiver [rx] rs d).
    cbn [received_packet_list_ recovered_packet_list_ fec_]. rewrite Ed. cbn [call flow_bind negb].
    exact El.
  - assert (Hf : forall A (g : RecoveredPacket -> A), (forall x, g (set_returned x) = g x) -> g <$> (set_returned <$> rs1) = g <$> rs1)
      by (intros A g Hg; rewrite <- list_fmap_compose; apply list_fmap_ext; intros; apply Hg).
    split.
    + by apply (steady_returned base W fec_seqs G).
    + apply Forall_fmap, Forall_forall. by intros.
    + intros x' (x & -> & Hx)%list_elem_of_fmap. change (rec_seq_num (set_returned x)) with (rec_seq_num x).
      destruct (returned x) eqn:Ex.
      * destruct (Hfresh x Hx Ex) as [Hin|[Hm Es]].
        -- destruct (Hall x Hin) as (q & ? & ? & ?). exists q. rewrite !elem_of_app. auto.
        -- destruct (Hes1 Hm) as (q & ? & ? & ?). exists q. rewrite !elem_of_app. split; [done|]. split; [congruence|auto].
      * destruct (H1 x Hx Ex) as (q & ? & ? & ?). exists q. rewrite !elem_of_app. auto.
    + intros e. rewrite !elem_of_app. intros [[He|He]|He]; auto.
Qed.
End receiver.
