(* ===== verification/RedSession.v ===== *)
(** * A frame with its error correction on the wire

    SendVP8 over the SendVideoPacket with error correction, when the network takes every
    packet: the wire then has the media packets of the frame with RED headers, and after
    them the packets of error correction that GenerateFEC makes of them. *)
From S2P Require Import Prelude Pointwise RtpWire RtpExtMap RtpHeader RtpSender RtpRoundTrip RtpSession Vp8Descriptor Vp8Packetizer Vp8Session FecTables FecMasks FecPacket FecEncode FecRecover FecReceive FecSession FecDecode FecBurst Red RedSender.
Local Open Scope Z_scope.

(** ** The headers of a frame *)

Section frame.
Context (self0 : RTPSender) (cap : Z).
Hypothesis Hinv0 : sender_inv self0.
Hypothesis Hmap0 : rtp_header_extension_map_ self0 = [].

(** The header of a packet of the frame, by its type, marker and number. *)
Definition frame_hdr (pt : Z) (marker : bool) (sn : Z) : list Z :=
  header_bytes self0 pt (ssrc_ self0) marker (sent_timestamp self0 cap true) sn (sent_csrcs self0).

Definition hdr_b0 : Z := 128 + Zlen (sent_csrcs self0).
Definition hdr_T : list Z :=
  be32 (sent_timestamp self0 cap true) ++ be32 (ssrc_ self0) ++ csrc_bytes (sent_csrcs self0).

Lemma frame_hdr_hdr pt marker sn : frame_hdr pt marker sn = hdr hdr_b0 pt marker sn hdr_T.
Proof.
  unfold frame_hdr, header_bytes, first_bytes, fixed_bytes, hdr, has_ext, extension_bytes, hdr_b0, hdr_T.
  rewrite Hmap0, app_nil_r, Z.add_0_r, <- !app_assoc. done.
Qed.

Lemma csrcs_few : 0 <= Zlen (sent_csrcs self0) <= 15.
Proof.
  rewrite sent_csrcs_length by done. assert (H := inv_num_csrcs self0 Hinv0). destruct (include_csrcs_ self0); lia.
Qed.

Lemma hdr_length : RTPHeaderLength self0 = 4 + Zlen hdr_T /\ 12 <= RTPHeaderLength self0 <= 88.
Proof.
  destruct (built_header_length self0 0 true cap true Hinv0) as [HL Hle].
  assert (E := frame_hdr_hdr 0 true (sequence_number_ self0)). unfold frame_hdr in E. unfold built_header in HL.
  rewrite E, Zlen_hdr in HL. split; [lia|]. split; [|done].
  rewrite <- HL. unfold hdr_T. rewrite !Zlen_app, !Zlen_be32. pose proof (Zlen_nonneg (csrc_bytes (sent_csrcs self0))). lia.
Qed.

Lemma frame_hdr_length pt marker sn : Zlen (frame_hdr pt marker sn) = RTPHeaderLength self0.
Proof. rewrite frame_hdr_hdr, Zlen_hdr. by destruct hdr_length as [-> _]. Qed.

Lemma built_frame_hdr self pt marker :
  same_transport self0 self -> built_header self pt marker cap true = frame_hdr pt marker (sequence_number_ self).
Proof.
  intros [_ E1 E2 E3 E4 E5 E6]. unfold built_header, frame_hdr, header_bytes, has_ext, extension_bytes, sent_csrcs, sent_timestamp.
  by rewrite E1, Hmap0, E2, E3, E4, E5, E6.
Qed.

Definition frame_parsed (pt : Z) (marker : bool) (sn : Z) : RTPHeader :=
  parsed_header self0 pt (ssrc_ self0) marker (sent_timestamp self0 cap true) sn (sent_csrcs self0).

Lemma frame_hdr_parsed {R} pt marker sn rest :
  0 <= pt < 128 -> is_u16 sn ->
  RtpHeaderParserImpl_Parse (R := R) [] (frame_hdr pt marker sn ++ rest) = Cont (true, frame_parsed pt marker sn).
Proof.
  intros Hpt Hsn. destruct (inv_sender self0 Hinv0) as (Hm & _). unfold RtpHeaderParserImpl_Parse.
  change (GetCopy [] []) with (@nil (Z * HeaderExtension)). rewrite <- Hmap0.
  apply Parse_header_bytes; [apply Hinv0|done|apply Hinv0| |done|apply Forall_take, Hinv0|].
  - apply u32_range.
  - apply csrcs_few.
Qed.

(** Without an extension the map makes no difference. *)
Lemma Parse_any_map {R} pkt b0 map map' h :
  rd (R := R) pkt 0 = Cont b0 -> flag b0 16 = false -> Parse (R := R) pkt map h = Parse pkt map' h.
Proof.
  intros H0 Hf. unfold Parse. destruct (_ <? _); [done|]. rewrite H0. cbn [flow_bind]. rewrite Hf. done.
Qed.

Lemma frame_hdr_parsed_None {R} pt marker sn rest :
  0 <= pt < 128 -> is_u16 sn ->
  Parse (R := R) (frame_hdr pt marker sn ++ rest) None new_RTPHeader = Cont (true, frame_parsed pt marker sn).
Proof.
  intros Hpt Hsn. rewrite <- (frame_hdr_parsed (R := R) pt marker sn rest) by done.
  apply (Parse_any_map _ hdr_b0); [by rewrite frame_hdr_hdr|].
  destruct (first_byte_back (Zlen (sent_csrcs self0)) false) as (_ & _ & E & _); [pose proof csrcs_few; lia|].
  unfold hdr_b0. by rewrite Z.add_0_r in E.
Qed.

(** ** Sending *)

Lemma SendToNetwork_wire {R} self n now delta pt marker sn body tail plen cap_ms storage :
  same_transport self0 self -> 0 <= pt < 128 -> is_u16 sn -> plen = Zlen body ->
  SendToNetwork (R := R) self n now delta ((frame_hdr pt marker sn ++ body) ++ tail) plen
    (RTPHeaderLength self0) cap_ms storage Pacer.kNormalPriority
  = Cont (0, media_sent self, n ++ [frame_hdr pt marker sn ++ body]).
Proof.
  intros Hs Hpt Hsn ->. pose proof (Zlen_nonneg body). destruct hdr_length as [_ Hl]. unfold SendToNetwork.
  assert (HL : Zlen (frame_hdr pt marker sn ++ body) = Zlen body + RTPHeaderLength self0)
    by (rewrite Zlen_app, frame_hdr_length; lia).
  rewrite blk_get_front by lia. cbn [flow_bind]. rewrite frame_hdr_parsed_None by done. cbn [flow_bind].
  unfold UpdateTransmissionTimeOffset, UpdateAbsoluteSendTime, find_block.
  rewrite (tr_map _ _ Hs), Hmap0. change (GetId [] kRtpExtensionTransmissionTimeOffset) with (@None Z).
  change (GetId [] kRtpExtensionAbsoluteSendTime) with (@None Z). cbn [flow_bind].
  replace (if 0 <? cap_ms then _ else _) with (Cont (R := R) (frame_hdr pt marker sn ++ body)) by (by destruct (0 <? cap_ms)).
  unfold SendPacketToNetwork. cbn [flow_bind packet_history_PutRTPPacket wire paced_sender_ transport_SendPacket].
  change (0 =? 0) with true. cbn [negb andb]. rewrite HL. by rewrite (proj2 (Z.leb_gt _ _)) by lia.
Qed.

Lemma media_sent_same self : same_transport self0 self -> same_transport self0 (media_sent self).
Proof. intros [[] E1 E2 E3 E4 E5 E6]. by split. Qed.

Lemma increment_same self :
  same_transport self0 self -> same_transport self0 (IncrementSequenceNumber self).2.
Proof.
  intros [Hi E1 E2 E3 E4 E5 E6].
  assert (Hi' : sender_inv (IncrementSequenceNumber self).2) by (eapply step_keeps; [apply step_increment|done]).
  by split.
Qed.

(** ** The packets of a frame and their error correction *)

Context (alloc : Z -> list Z) (pt red fec_pt : Z) (n : nat).
Hypothesis alloc_length : forall n, 0 <= n -> Zlen (alloc n) = n.
Hypothesis pt_range : 0 <= pt < 128.
Hypothesis red_range : 0 <= red < 128.
Hypothesis fec_range : 0 <= fec_pt < 128.

(** The marker and the number of packet [i], the packet, and the packet with its RED
    header; then packet [i] of error correction with its RED header. *)
Definition mk (i : nat) : bool := bool_decide (S i = n).
Definition num (i : nat) : Z := sequence_number_ self0 + Z.of_nat i.
Definition media_bytes (i : nat) (p : list Z) : list Z := frame_hdr pt (mk i) (num i) ++ p.
Definition media_pkt (i : nat) (p : list Z) : Packet :=
  mkPacket (RTPHeaderLength self0 + Zlen p) (put (alloc IP_PACKET_SIZE) 0 (media_bytes i p)).
Definition red_bytes (i : nat) (p : list Z) : list Z := frame_hdr red (mk i) (num i) ++ [pt] ++ p.
Definition fec_bytes (gens : list Packet) (i : Z) : list Z :=
  frame_hdr red false (num n + i) ++ [fec_pt] ++ ztake (pkt_length (zat gens i)) (pkt_data (zat gens i)).

Context (limit : Z).
Hypothesis limit_fits : RTPHeaderLength self0 + limit + 6 <= IP_PACKET_SIZE.

Lemma media_pkt_seq i p : is_u16 (num i) -> seq_of (media_pkt i p) = num i.
Proof.
  intros Hn. unfold seq_of, media_pkt, media_bytes. cbn [pkt_data]. rewrite put_0, frame_hdr_hdr. unfold hdr.
  rewrite <- !app_assoc.
  change (u16 (Z.shiftl (u8 (Z.shiftr (num i) 8)) 8 + u8 (num i)) = num i).
  rewrite bytes16. by rewrite !u16_id by (done || apply u16_range).
Qed.

Lemma media_pkt_ok i p off : 0 <= off <= 6 -> Zlen p <= limit -> media_ok off (media_pkt i p).
Proof.
  intros Ho Hp. destruct hdr_length as [_ Hl]. pose proof (Zlen_nonneg p).
  split; cbn [media_pkt pkt_length pkt_data]; [lia|lia|].
  unfold IP_PACKET_SIZE in *. unfold media_bytes.
  rewrite Zlen_put by (rewrite ?Zlen_app, ?frame_hdr_length, ?alloc_length; lia). by rewrite alloc_length.
Qed.

Lemma media_pkt_rtp i p : rtp_ok (ssrc_ self0) (media_pkt i p).
Proof.
  unfold media_pkt, media_bytes. rewrite put_0, frame_hdr_hdr. unfold hdr, hdr_T. rewrite <- !app_assoc.
  pose proof csrcs_few. split; cbn [pkt_data].
  - change (128 <= hdr_b0 < 192). unfold hdr_b0. lia.
  - intros j Hj. assert (j = 2 \/ j = 3) as [-> | ->] by lia.
    + change (is_u8 (u8 (Z.shiftr (num i) 8))). apply u8_range.
    + change (is_u8 (u8 (num i))). apply u8_range.
  - intros j Hj. assert (j = 8 \/ j = 9 \/ j = 10 \/ j = 11) as [-> |[-> |[-> | ->]]] by lia; reflexivity.
Qed.

Lemma numbered_lookup s l :
  (forall i p, l !! i = Some p -> seq_of p = u16 (s + Z.of_nat i)) -> numbered s l.
Proof.
  revert s. induction l as [|p l IH]; intros s H; [done|]. split.
  - rewrite (H O p eq_refl). f_equal. simpl. lia.
  - apply IH. intros i q Hq. rewrite (H (S i) q Hq). f_equal. lia.
Qed.

Context (gens : list Packet) (pf imp : Z).
Hypothesis few : (1 <= n <= 48)%nat.
Hypothesis rate_range : 0 < pf < 256.
Hypothesis imp_range : 0 <= imp <= Z.of_nat n.
Hypothesis gens_length : Zlen gens = kMaxMediaPackets.
Definition fec_count : Z := GetNumberOfFecPackets (Z.of_nat n) pf.
Hypothesis no_wrap : num n + fec_count <= 65536.

Lemma fec_count_bounds : 1 <= fec_count <= Z.of_nat n.
Proof. apply GetNumberOfFecPackets_bounds; lia. Qed.

Lemma num_u16 i : (i <= n)%nat -> is_u16 (num i).
Proof.
  intros Hi. pose proof fec_count_bounds. assert (H0 := inv_sequence self0 Hinv0).
  unfold num in *. unfold is_u16 in *. lia.
Qed.

Definition frame_media (pl : list (list Z)) : list Packet := imap media_pkt pl.

Lemma Zlen_frame_media pl : length pl = n -> Zlen (frame_media pl) = Z.of_nat n.
Proof. intros E. unfold Zlen, frame_media. by rewrite length_imap, E. Qed.

Lemma frame_media_in pl p :
  p ∈ frame_media pl -> exists i b, pl !! i = Some b /\ p = media_pkt i b.
Proof.
  intros [i Hi]%list_elem_of_lookup. unfold frame_media in Hi. rewrite list_lookup_imap in Hi.
  destruct (pl !! i) as [b|] eqn:E; [|done]. injection Hi as <-. by exists i, b.
Qed.

Lemma frame_media_ok pl :
  length pl = n -> Forall (fun p => Zlen p <= limit) pl ->
  frame_ok alloc gens (frame_media pl) pf imp (sequence_number_ self0) (num n) (sequence_number_ self0) (ssrc_ self0).
Proof.
  intros Hlen Hlim. assert (HZ := Zlen_frame_media pl Hlen). pose proof fec_count_bounds.
  assert (Hmed : forall p, p ∈ frame_media pl -> forall off, 0 <= off <= 6 -> media_ok off p).
  { intros p (i & b & Hb & ->)%frame_media_in off Ho. apply media_pkt_ok; [done|].
    by eapply Forall_lookup_1 in Hlim. }
  split; rewrite ?HZ; try done; try lia.
  - apply numbered_lookup. intros i p Hi. unfold frame_media in Hi. rewrite list_lookup_imap in Hi.
    destruct (pl !! i) as [b|] eqn:E; [|done]. injection Hi as <-. apply lookup_lt_Some in E.
    assert (Hu := num_u16 i ltac:(lia)). rewrite media_pkt_seq by done. symmetry. by apply u16_id.
  - apply Forall_forall. intros p Hp. apply Hmed; [done|]. by destruct (16 <? _).
  - apply Forall_forall. intros p (i & b & _ & ->)%frame_media_in. apply media_pkt_rtp.
  - intros j Hj. assert (Hu := num_u16 (Z.to_nat j) ltac:(lia)). unfold num in *. rewrite Z2Nat.id in Hu by lia.
    rewrite u16_id by done. lia.
  - unfold num in *. fold fec_count. lia.
Qed.

(** ** The calls of SendVideoPacket *)

Context (now delta cap_ms : Z) (V0 : RTPSenderVideo).

(** The producer of error correction before a frame, when it protects frames one by one. *)
Record ready_to_protect : Prop := mkReadyToProtect {
  rp_enabled : fecEnabled V0 = true;
  rp_red : payloadTypeRED V0 = red;
  rp_fec : payloadTypeFEC V0 = fec_pt;
  rp_gens : generated_fec_packets_ (producer_fec_ V0) = gens;
  rp_media : media_packets_fec_ (producer_fec_ V0) = [];
  rp_none : fec_packets_ (producer_fec_ V0) = [];
  rp_frames : num_frames_ (producer_fec_ V0) = 0;
  rp_imp : num_first_partition_ (producer_fec_ V0) = imp;
  rp_rate : fec_rate (new_params_ (producer_fec_ V0)) = pf;
  rp_single : max_fec_frames (new_params_ (producer_fec_ V0)) = 1
}.
Hypothesis Hready : ready_to_protect.
Definition params : FecProtectionParams := new_params_ (producer_fec_ V0).

(** The producer while the packets [pl] of the frame are collected. *)
Record collecting (pl : list (list Z)) (P : ProducerFec) : Prop := mkCollecting {
  cl_gens : generated_fec_packets_ P = gens;
  cl_media : media_packets_fec_ P = frame_media pl;
  cl_none : fec_packets_ P = [];
  cl_frames : num_frames_ P = 0;
  cl_imp : num_first_partition_ P = imp;
  cl_params : current_params P = params
}.

Lemma collecting_new : collecting [] (producer_fec_ V0).
Proof. destruct Hready. split; try done. unfold current_params. by rewrite rp_media0. Qed.

Lemma collecting_step pl P p :
  collecting pl P -> collecting (pl ++ [p]) (added_media P (media_pkt (length pl) p) (num_frames_ P) true).
Proof.
  intros [E1 E2 E3 E4 E5 E6]. split; cbn [added_media generated_fec_packets_ media_packets_fec_ fec_packets_ num_frames_ num_first_partition_]; try done.
  - rewrite E2. unfold frame_media. rewrite imap_app. cbn [imap]. by rewrite Nat.add_0_r.
  - unfold current_params at 1. cbn [added_media media_packets_fec_ params_]. by destruct (media_packets_fec_ P).
Qed.

(** The RED packet with a media packet goes to the network. *)
Lemma media_call {R} self w P i p tail storage protect :
  same_transport self0 self -> (i < n)%nat -> Zlen p <= limit ->
  SendVideoPacket (R := R) alloc self w (set_producer V0 P) now delta (media_bytes i p ++ tail) (u16 (Zlen p))
    (RTPHeaderLength self0) cap_ms storage protect
  = let self := media_sent self in let w := w ++ [red_bytes i p] in
    let! (ret, V) :=
      if protect then
        let! (ret, P) := AddRtpPacketAndGenerateFec alloc P (media_bytes i p ++ tail) (Zlen p) (RTPHeaderLength self0) in
        Cont (ret, set_producer V0 P)
      else Cont (0, set_producer V0 P) in
    if protect && negb (ret =? 0) then Cont (ret, self, w, V)
    else send_fec_loop alloc (length (fec_packets_ (producer_fec_ V))) self w V now delta (RTPHeaderLength self0) cap_ms ret.
Proof.
  intros Hs Hi Hp. assert (Hu := num_u16 i ltac:(lia)). destruct hdr_length as [HL Hl]. pose proof (Zlen_nonneg p).
  unfold IP_PACKET_SIZE in *. rewrite u16_id by (unfold is_u16; lia). unfold SendVideoPacket.
  cbn [set_producer fecEnabled payloadTypeRED producer_fec_]. rewrite (rp_enabled Hready), (rp_red Hready).
  assert (Eb : media_bytes i p ++ tail = hdr hdr_b0 pt (mk i) (num i) hdr_T ++ p ++ tail)
    by (unfold media_bytes; by rewrite frame_hdr_hdr, <- app_assoc).
  rewrite Eb, BuildRedPacket_bytes by done. cbn [flow_bind red_data red_length].
  replace (Zlen p + 1 + RTPHeaderLength self0 - RTPHeaderLength self0) with (Zlen ([pt] ++ p))
    by (rewrite Zlen_app; change (Zlen [pt]) with 1; lia).
  rewrite <- (frame_hdr_hdr red).
  rewrite <- (app_nil_r (frame_hdr red (mk i) (num i) ++ _)), (SendToNetwork_wire self w now delta) by done.
  cbn [flow_bind]. destruct protect; [|done]. unfold set_producer at 1. cbn [producer_fec_].
  destruct (AddRtpPacketAndGenerateFec _ _ _ _ _) as [[]| |]; done.
Qed.

Lemma collect_call {R} self w pl P p tail storage :
  same_transport self0 self -> (S (length pl) < n)%nat -> Zlen p <= limit -> collecting pl P ->
  exists P', SendVideoPacket (R := R) alloc self w (set_producer V0 P) now delta (media_bytes (length pl) p ++ tail)
      (u16 (Zlen p)) (RTPHeaderLength self0) cap_ms storage true
    = Cont (0, media_sent self, w ++ [red_bytes (length pl) p], set_producer V0 P')
    /\ collecting (pl ++ [p]) P'.
Proof.
  intros Hs Hi Hp Hc. assert (Hc' := collecting_step pl P p Hc). eexists. split; [|exact Hc'].
  destruct hdr_length as [HL Hl]. rewrite media_call by (done || lia). cbv zeta.
  assert (Hmk : mk (length pl) = false) by (apply bool_decide_eq_false; lia).
  unfold media_bytes at 1. rewrite Hmk, frame_hdr_hdr, <- app_assoc.
  rewrite AddRtpPacket_collects by (done || (rewrite (cl_media _ _ Hc); unfold frame_media, Zlen; rewrite length_imap; lia) || lia).
  cbn [flow_bind andb]. unfold media_pkt, media_bytes. rewrite Hmk, frame_hdr_hdr.
  change (negb (0 =? 0)) with false. cbv iota. cbn [set_producer producer_fec_ added_media fec_packets_].
  rewrite (cl_none _ _ Hc). cbn [length send_fec_loop set_producer producer_fec_ added_media fec_packets_].
  unfold FecAvailable. cbn [added_media fec_packets_]. by rewrite (cl_none _ _ Hc).
Qed.

(** The packets of error correction go to the network. *)
Lemma fec_calls {R} gens' media last sn p r i P self w :
  (forall j, 0 <= j < fec_count -> 0 <= pkt_length (zat gens' j) <= Zlen (pkt_data (zat gens' j))) ->
  Zlen gens' = kMaxMediaPackets ->
  0 <= i -> i + Z.of_nat r = fec_count -> same_transport self0 self -> sequence_number_ self = u16 (num n + i) ->
  fec_packets_ P = seqZ i (Z.of_nat r) -> generated_fec_packets_ P = gens' ->
  ((0 < r)%nat -> media_packets_fec_ P = media ++ [last]) ->
  pkt_data last = put (alloc IP_PACKET_SIZE) 0 (frame_hdr pt true sn ++ p) ->
  exists self' P', send_fec_loop (R := R) alloc r self w (set_producer V0 P) now delta (RTPHeaderLength self0) cap_ms 0
    = Cont (0, self', w ++ (fec_bytes gens' <$> seqZ i (Z.of_nat r)), set_producer V0 P')
    /\ same_transport self0 self'.
Proof.
  intros Hg Hgl. destruct hdr_length as [HL Hl]. pose proof fec_count_bounds.
  revert i P self w. induction r as [|r IH]; intros i P self w Hi Hir Hs Hseq Ef Eg Em Ed.
  - exists self, P. cbn [send_fec_loop]. cbn [set_producer producer_fec_]. unfold FecAvailable. rewrite Ef.
    change (seqZ i (Z.of_nat 0)) with (@nil Z). cbn. by rewrite app_nil_r.
  - assert (Hnum : is_u16 (num n + i)).
    { assert (H0 := inv_sequence self0 Hinv0). unfold num in *. unfold is_u16 in *. lia. }
    rewrite u16_id in Hseq by done. rewrite (seqZ_cons i (Z.of_nat (S r))) in Ef by lia.
    replace (Z.pred (Z.of_nat (S r))) with (Z.of_nat r) in Ef by lia.
    assert (Hz : 0 <= i < Zlen gens') by (unfold kMaxMediaPackets in *; lia).
    assert (Hgi := Hg i ltac:(lia)).
    cbn [send_fec_loop]. cbn [set_producer producer_fec_ payloadTypeRED payloadTypeFEC retransmissionSettings].
    unfold FecAvailable. rewrite Ef, Zlen_cons. pose proof (Zlen_nonneg (seqZ (Z.succ i) (Z.of_nat r))).
    destruct (Z.ltb_spec 0 (1 + Zlen (seqZ (Z.succ i) (Z.of_nat r)))); [|lia]. cbn [negb].
    unfold IncrementSequenceNumber at 1. rewrite Hseq.
    rewrite (rp_red Hready), (rp_fec Hready).
    rewrite (GetFecPacket_bytes alloc alloc_length P i (seqZ (Z.succ i) (Z.of_nat r)) (zat gens' i) media last
      (alloc IP_PACKET_SIZE) hdr_b0 pt true sn hdr_T p);
      [|done..|by rewrite Eg|by rewrite Eg|done|by apply Em; lia|by rewrite Ed, frame_hdr_hdr].
    cbn [flow_bind red_data red_length].
    set (f := zat gens' i) in *. set (P1 := match seqZ _ _ with [] => _ | _ => _ end).
    assert (Hpl : Zlen (ztake (pkt_length f) (pkt_data f)) = pkt_length f) by (apply Zlen_ztake; lia).
    replace (pkt_length f + 1 + RTPHeaderLength self0 - RTPHeaderLength self0)
      with (Zlen ([fec_pt] ++ ztake (pkt_length f) (pkt_data f)))
      by (rewrite Zlen_app, Hpl; change (Zlen [fec_pt]) with 1; lia).
    rewrite <- (frame_hdr_hdr red).
    assert (Hs' : same_transport self0 (IncrementSequenceNumber self).2) by (by apply increment_same).
    unfold IncrementSequenceNumber in Hs'. cbn [snd] in Hs'. rewrite Hseq in Hs'.
    set (self1 := set_sequence _ _ _) in *.
    rewrite <- (app_nil_r (frame_hdr red false (num n + i) ++ _)), (SendToNetwork_wire self1 w now delta) by done.
    cbn [flow_bind]. change (set_producer _ P1) with (set_producer V0 P1).
    destruct (IH (i + 1) P1 (media_sent self1) (w ++ [fec_bytes gens' i])) as (self' & P' & E & Hs2); try done; try lia.
    + by apply media_sent_same.
    + change (u16 (num n + i + 1) = u16 (num n + (i + 1))). f_equal. lia.
    + subst P1. change (Z.succ i) with (i + 1). destruct r; [done|]. rewrite seqZ_cons by lia. done.
    + subst P1. by destruct (seqZ _ _).
    + intros Hr. subst P1. rewrite seqZ_cons by lia. cbn [set_generated media_packets_fec_]. apply Em. lia.
    + exists self', P'. change (Z.lor 0 0) with 0.
      change (frame_hdr red false (num n + i) ++ [fec_pt] ++ ztake (pkt_length f) (pkt_data f)) with (fec_bytes gens' i).
      rewrite E, (seqZ_cons i (Z.of_nat (S r))), fmap_cons by lia.
      replace (Z.pred (Z.of_nat (S r))) with (Z.of_nat r) by lia. change (Z.succ i) with (i + 1).
      by rewrite <- app_assoc.
Qed.

(** What is generated for the packets [pl], and what the network has then. *)
Definition generated (pl : list (list Z)) (gens' : list Packet) : Prop :=
  GenerateFEC alloc gens (frame_media pl) pf imp (use_uep_protection params) (fec_mask_type params)
  = Cont (0, gens', seqZ 0 fec_count).
Definition wire_of (pl : list (list Z)) (gens' : list Packet) : list (list Z) :=
  imap red_bytes pl ++ (fec_bytes gens' <$> seqZ 0 fec_count).

Lemma frame_generates pl :
  length pl = n -> Forall (fun p => Zlen p <= limit) pl ->
  exists gens', generated pl gens' /\ Zlen gens' = kMaxMediaPackets /\
    forall j, 0 <= j < fec_count -> 0 < pkt_length (zat gens' j) <= IP_PACKET_SIZE /\ Zlen (pkt_data (zat gens' j)) = IP_PACKET_SIZE.
Proof.
  intros Hlen Hlim. destruct (frame_media_ok pl Hlen Hlim) as [F1 F2 F3 F4 F5 F6 F7 F8 _ _].
  assert (HZ := Zlen_frame_media pl Hlen).
  destruct (GenerateFEC_rows alloc gens (frame_media pl) pf imp (use_uep_protection params) (fec_mask_type params)
    (sequence_number_ self0)) as (mask & gens' & _ & Hok & E & Hl & Hrow); [done..|].
  rewrite HZ in *. exists gens'. split; [exact E|]. split; [congruence|]. intros j Hj. rewrite Hrow by done.
  cbn [fec_of pkt_length pkt_data]. split; [|by apply Zlen_fmap_seqZ].
  set (l := picked _ _ _). destruct (longest_bounds (l_ulp_header_size (16 <? Z.of_nat n) - 2) l) as [Hb Hmin].
  { by apply picked_Forall. }
  split; [|apply Hb]. assert (Hne : l <> []).
  { destruct (ok_row _ _ _ Hok j Hj) as (t & Ht & Hh). subst l.
    change (l_mask_bytes (16 <? Z.of_nat n)) with (mask_bytes (Z.of_nat n)).
    intros El. assert (Hin : seq_of (zat (frame_media pl) t) ∈ seq_of <$> picked (mask_has (mask_bytes (Z.of_nat n)) mask j) 0 (frame_media pl)).
    { rewrite (picked_positions (frame_media pl) (sequence_number_ self0)) by (done || (unfold FecBurst.k; rewrite HZ; lia)).
      unfold FecBurst.k. rewrite HZ.
      rewrite (numbered_zat (sequence_number_ self0)) by (done || lia).
      apply (list_elem_of_fmap_2 (fun j => u16 (sequence_number_ self0 + j))), list_elem_of_In, filter_In.
      split; [apply list_elem_of_In, elem_of_seqZ; lia|done]. }
    rewrite El in Hin. by apply elem_of_nil in Hin. }
  specialize (Hmin Hne). destruct (16 <? Z.of_nat n); unfold l_ulp_header_size, kUlpHeaderSizeLBitSet, kUlpHeaderSizeLBitClear, kMaskSizeLBitSet, kMaskSizeLBitClear in *; lia.
Qed.

Lemma last_call {R} self w pl P p tail storage :
  same_transport self0 self -> sequence_number_ self = u16 (num n) -> S (length pl) = n ->
  Forall (fun p => Zlen p <= limit) (pl ++ [p]) -> collecting pl P ->
  exists self' P' gens', SendVideoPacket (R := R) alloc self w (set_producer V0 P) now delta (media_bytes (length pl) p ++ tail)
      (u16 (Zlen p)) (RTPHeaderLength self0) cap_ms storage true
    = Cont (0, self', w ++ [red_bytes (length pl) p] ++ (fec_bytes gens' <$> seqZ 0 fec_count), set_producer V0 P')
    /\ same_transport self0 self' /\ generated (pl ++ [p]) gens'.
Proof.
  intros Hs Hseq Hi Hlim Hc. destruct hdr_length as [HL Hl]. pose proof fec_count_bounds.
  assert (Hlp : Zlen p <= limit) by (apply Forall_app in Hlim as [_ Hlim]; by apply Forall_cons_1 in Hlim as [Hlim _]).
  destruct (frame_generates (pl ++ [p])) as (gens' & Egen & Hgl & Hgd); [rewrite length_app; simpl; lia|done|].
  assert (Hmk : mk (length pl) = true) by (by apply bool_decide_eq_true).
  assert (Em : frame_media (pl ++ [p]) = media_packets_fec_ P ++ [media_pkt (length pl) p]).
  { rewrite (cl_media _ _ Hc). unfold frame_media. rewrite imap_app. cbn [imap]. by rewrite Nat.add_0_r. }
  assert (Hbytes : put (alloc IP_PACKET_SIZE) 0 (hdr hdr_b0 pt true (num (length pl)) hdr_T ++ p) = pkt_data (media_pkt (length pl) p))
    by (unfold media_pkt, media_bytes; by rewrite Hmk, frame_hdr_hdr).
  rewrite media_call by (done || lia). cbv zeta. unfold media_bytes at 1. rewrite Hmk, frame_hdr_hdr, <- app_assoc.
  rewrite (AddRtpPacket_generates alloc alloc_length P hdr_b0 pt _ hdr_T p tail (RTPHeaderLength self0) gens' fec_count);
    [|done|done|lia|rewrite (cl_media _ _ Hc); unfold frame_media, Zlen; rewrite length_imap; lia|apply Hc
     |rewrite (cl_params _ _ Hc); apply Hready|apply Hc|lia|].
  2:{ rewrite Hbytes. fold (media_pkt (length pl) p). rewrite (cl_params _ _ Hc), (cl_gens _ _ Hc), (cl_imp _ _ Hc).
      rewrite (rp_rate Hready : fec_rate params = pf), u8_id by (unfold is_u8; lia).
      change (mkPacket _ (pkt_data (media_pkt (length pl) p))) with (media_pkt (length pl) p). rewrite <- Em. exact Egen. }
  cbn [flow_bind andb]. change (negb (0 =? 0)) with false. cbv iota.
  cbn [set_producer producer_fec_ set_generated fec_packets_]. rewrite length_seqZ.
  set (P1 := set_generated _ _ _).
  destruct (fec_calls (R := R) gens' (media_packets_fec_ P) (media_pkt (length pl) p) (num (length pl)) p (Z.to_nat fec_count) 0 P1
    (media_sent self) (w ++ [red_bytes (length pl) p])) as (self' & P' & E & Hs'); try done; try lia.
  - intros j Hj. destruct (Hgd j Hj) as [? ->]. lia.
  - by apply media_sent_same.
  - by rewrite Z.add_0_r.
  - subst P1. cbn [set_generated fec_packets_]. by rewrite Z2Nat.id by lia.
  - intros _. subst P1. cbn [set_generated added_media media_packets_fec_]. by rewrite Hbytes.
  - cbn [media_pkt pkt_data]. unfold media_bytes. by rewrite Hmk.
  - exists self', P', gens'. rewrite Z2Nat.id in E by lia. rewrite E, <- app_assoc. done.
Qed.

(** ** The whole frame *)

Definition sending (sent : list VideoPacket) (self : RTPSender) (v : list (list Z) * RTPSenderVideo) : Prop :=
  exists pl, packet_bytes <$> sent = imap media_bytes pl /\ Forall (fun p => Zlen p <= limit) pl
  /\ same_transport self0 self
  /\ ((length pl < n)%nat -> sequence_number_ self = num (length pl) /\
        exists P, v = (imap red_bytes pl, set_producer V0 P) /\ collecting pl P)
  /\ (length pl = n -> exists gens', v.1 = wire_of pl gens' /\ generated pl gens').

Lemma sending_length sent pl : packet_bytes <$> sent = imap media_bytes pl -> length sent = length pl.
Proof. intros E. apply (f_equal length) in E. by rewrite length_fmap, length_imap in E. Qed.

Lemma packet_bytes_built self storage protect i p tail :
  same_transport self0 self -> sequence_number_ self = num i -> Zlen p <= limit ->
  packet_bytes (mkVideoPacket (built_header self pt (mk i) cap true ++ p ++ tail) (u16 (Zlen p))
    (RTPHeaderLength self0) storage protect) = media_bytes i p.
Proof.
  intros Hs Hseq Hp. destruct hdr_length as [_ Hl]. pose proof (Zlen_nonneg p). unfold IP_PACKET_SIZE in *.
  unfold packet_bytes. cbn [call_header_length call_payload_length call_buffer].
  rewrite (built_frame_hdr self), Hseq, app_assoc, u16_id by (done || unfold is_u16; lia). fold (media_bytes i p).
  apply ztake_front. unfold media_bytes. rewrite Zlen_app, frame_hdr_length. lia.
Qed.

Lemma call_sends storage :
  call_keeps (H := red_sender alloc now delta cap_ms) sending self0 n limit pt now cap cap_ms storage true.
Proof.
  intros R sent self v p tail (pl & Eb & Hlim & Hs & Hless & _) Hp Hi. assert (Hlen := sending_length _ _ Eb).
  rewrite Hlen in Hi |- *. fold (mk (length pl)). cbv zeta. destruct (Hless Hi) as (Hseq & P & -> & Hc).
  assert (Hs' : same_transport self0 (after_header self now (mk (length pl)) cap cap_ms true))
    by (by apply after_header_same).
  assert (Hseq' : sequence_number_ (after_header self now (mk (length pl)) cap cap_ms true) = u16 (num (S (length pl)))).
  { change (u16 (sequence_number_ self + 1) = u16 (num (S (length pl)))). rewrite Hseq. f_equal. unfold num. lia. }
  assert (Hpk := packet_bytes_built self storage true (length pl) p tail Hs Hseq Hp).
  set (pkt := mkVideoPacket _ _ _ _ _) in *. set (self1 := after_header _ _ _ _ _ _) in *.
  assert (Eb' : packet_bytes <$> (sent ++ [pkt]) = imap media_bytes (pl ++ [p])).
  { rewrite fmap_app, Eb, imap_app. cbn [imap fmap list_fmap]. rewrite Nat.add_0_r. by rewrite Hpk. }
  assert (Hlim' : Forall (fun p => Zlen p <= limit) (pl ++ [p])) by (apply Forall_app; split; [done|by constructor]).
  assert (Ewire : imap red_bytes (pl ++ [p]) = imap red_bytes pl ++ [red_bytes (length pl) p])
    by (rewrite imap_app; cbn [imap]; by rewrite Nat.add_0_r).
  assert (Ebuf : call_buffer pkt = media_bytes (length pl) p ++ tail)
    by (cbn [pkt call_buffer]; rewrite (built_frame_hdr self), Hseq by done; unfold media_bytes; by rewrite app_assoc).
  cbn [Vp8Session.SendVideoPacket red_sender]. rewrite Ebuf. cbn [pkt call_payload_length call_header_length call_storage call_protect].
  destruct (decide (S (length pl) = n)) as [En|Hne].
  - destruct (last_call (R := R) self1 (imap red_bytes pl) pl P p tail storage) as (self2 & P' & gens' & E & Hs2 & Hg);
      [done|by rewrite Hseq', En|done|done|done|].
    rewrite E. cbn [flow_bind]. eexists _, self2, _. split; [done|]. exists (pl ++ [p]).
    split; [done|]. split; [done|]. split; [done|]. rewrite length_app. cbn [length]. split; [lia|]. intros _. exists gens'.
    split; [|done]. unfold wire_of. rewrite Ewire, <- app_assoc. done.
  - destruct (collect_call (R := R) self1 (imap red_bytes pl) pl P p tail storage) as (P' & E & Hc'); [done|lia|done|done|].
    rewrite E. cbn [flow_bind]. eexists _, (media_sent self1), _. split; [done|]. exists (pl ++ [p]).
    split; [done|]. split; [done|]. split; [by apply media_sent_same|]. rewrite length_app. cbn [length]. split; [|lia].
    intros Hi'. split.
    + change (sequence_number_ self1 = num (length pl + 1)). rewrite Hseq', u16_id by (apply num_u16; lia).
      f_equal. lia.
    + exists P'. by rewrite Ewire.
Qed.

Lemma SendVP8_wire {R} settings payloadData hdr :
  n = frame_packets R payloadData hdr limit -> vp8_protect hdr = true ->
  vp8_ok hdr -> 0 < Zlen payloadData < 2147483648 -> PayloadDescriptorExtraLength hdr + 2 <= limit ->
  exists self' V' pkts pl ds gens',
    SendVP8 (H := red_sender alloc now delta cap_ms) (R := R) self0 ([], V0) settings limit now pt cap cap_ms
      payloadData (Zlen payloadData) hdr = Cont (0, self', (wire_of pl gens', V'), pkts)
    /\ length pl = n /\ Forall (fun p => Zlen p <= limit) pl /\ generated pl gens'
    /\ Forall2 received_as pl ds /\ Forall (fun d => same_header hdr (delivered_header d)) ds
    /\ concat (delivered_data <$> ds) = payloadData
    /\ existsb short_key ds = short_key_frame R payloadData hdr limit.
Proof.
  intros En Hprot Hh Hp Hm. pose proof fec_count_bounds.
  destruct (SendVP8_runs (H := red_sender alloc now delta cap_ms) (R := R) self0 settings limit now pt cap cap_ms payloadData hdr)
    as (_ & Hrun); [done..|lia|].
  destruct (Hrun sending ([], V0)) as (self' & [w V'] & pkts & l & E & Hinv & Hlen & Hrec & _ & _ & Hhd & Hcat & Hsk).
  - intros sent self' v (pl & _ & _ & Hs & _). exact Hs.
  - rewrite Hprot, <- En. apply call_sends.
  - exists []. split; [done|]. split; [constructor|]. split; [by split|]. split; [|simpl; lia].
    intros _. split; [unfold num; simpl; lia|]. exists (producer_fec_ V0). split; [by destruct V0|apply collecting_new].
  - destruct Hinv as (pl & Eb & Hlim & _ & _ & Hdone). rewrite (sending_length _ _ Eb), <- En in Hlen.
    destruct (Hdone Hlen) as (gens' & Ew & Hg). cbn [fst] in Ew. subst w.
    exists self', V', pkts, pl, l.*2, gens'. do 4 (split; [done|]). split; [|done].
    apply Forall2_same_length_lookup. assert (Hl2 := Forall2_length _ _ _ Hrec). assert (Hl1 := sending_length _ _ Eb).
    split; [rewrite length_fmap; lia|]. intros i p d Hi Hd.
    rewrite list_lookup_fmap in Hd. destruct (l !! i) as [[h d']|] eqn:Ei; [|done]. injection Hd as <-.
    destruct (lookup_lt_is_Some_2 pkts i) as [pkt Epkt]; [apply lookup_lt_Some in Hi; lia|].
    destruct (Forall2_lookup_lr _ _ _ _ _ _ Hrec Epkt Ei) as (Hpr & _ & _ & Hd). cbn [fst snd] in *.
    assert (Ep : packet_bytes pkt = media_bytes i p).
    { assert (E1 : (packet_bytes <$> pkts) !! i = Some (packet_bytes pkt)) by (by rewrite list_lookup_fmap, Epkt).
      rewrite Eb, list_lookup_imap, Hi in E1. by injection E1. }
    assert (Eh : h = frame_parsed pt (mk i) (num i)).
    { assert (Hparse := Hpr unit). rewrite Hmap0, Ep in Hparse. unfold media_bytes in Hparse.
      rewrite frame_hdr_parsed in Hparse by (done || (apply num_u16; apply lookup_lt_Some in Hi; lia)). by injection Hparse. }
    rewrite Ep, Eh in Hd. unfold media_bytes in Hd. change (headerLength (frame_parsed pt (mk i) (num i)))
      with (Zlen (frame_hdr pt (mk i) (num i))) in Hd.
    by rewrite zdrop_app_ge, Z.sub_diag, zdrop_0 in Hd by lia.
Qed.
End frame.
