(* ===== verification/RedVideo.v ===== *)
(** * A VP8 frame with its error correction, from end to end

    SendVP8 over a network that loses packets, to the RTP receiver of the other side: the
    packets on the wire are those of [RedSession], and the receiver is InsertRTPPacket of
    [VieReceive], once for each packet that arrives. *)
From S2P Require Import Prelude Pointwise RtpWire RtpExtMap RtpHeader RtpSender RtpRoundTrip RtpSession Vp8Descriptor Vp8Packetizer Vp8Session FecTables FecMasks FecPacket FecEncode FecRecover FecReceive FecSession FecDecode FecBurst FecStream Red RedSender RedReceive VieReceive RedStream RedSession.
Local Open Scope Z_scope.

(** Every packet that arrives, with the results. *)
Fixpoint insert_all {R : Type} `{RtpReceiver} (alloc : Z -> list Z) (uninitialised : Z) (fuel : nat)
  (w : ViEReceiver) (in_order : RTPHeader -> bool) (arrived : list (list Z)) : flow R (list Z * ViEReceiver) :=
  match arrived with
  | [] => Cont ([], w)
  | packet :: arrived =>
      let! (ret, w) := InsertRTPPacket alloc uninitialised fuel w packet in_order in
      let! (rets, w) := insert_all alloc uninitialised fuel w in_order arrived in
      Cont (ret :: rets, w)
  end.

(** The record of a packet that the parser takes. *)
Definition entry_of (q : Packet) : RTPHeader * list Z :=
  let bytes := ztake (pkt_length q) (pkt_data q) in
  match RtpHeaderParserImpl_Parse (R := unit) [] bytes with
  | Cont (_, h) => (video_frequency h, zdrop (headerLength h) bytes)
  | _ => (new_RTPHeader, [])
  end.

(** A receiver that is new and knows the payload types. *)
Record receives (known_type : Z -> bool) (w : ViEReceiver (H := recorder known_type)) (pt red fec_pt : Z) : Prop := mkReceives {
  rc_receiving : receiving_ w = true;
  rc_parser : rtp_header_parser_ w = [];
  rc_red : red_payload_type_ w = red;
  rc_fec : ulpfec_payload_type_ w = fec_pt;
  rc_rtx : rtx_ w = false;
  rc_new : fec_receiver_ w = new_FecReceiverImpl;
  rc_none : rtp_receiver_ w = [];
  rc_known : known_type pt = true
}.

Section video.
Context (self0 : RTPSender) (cap : Z).
Hypothesis Hinv0 : sender_inv self0.
Hypothesis Hmap0 : rtp_header_extension_map_ self0 = [].
Context (alloc alloc' : Z -> list Z) (uninitialised pt red fec_pt : Z) (n : nat).
Hypothesis alloc_length : forall n, 0 <= n -> Zlen (alloc n) = n.
Hypothesis alloc'_length : forall n, 0 <= n -> Zlen (alloc' n) = n.
Hypothesis pt_range : 0 <= pt < 128.
Hypothesis red_range : 0 <= red < 128.
Hypothesis fec_range : 0 <= fec_pt < 128.
Hypothesis pt_red : pt <> red.
Hypothesis pt_fec : pt <> fec_pt.
Context (limit : Z).
Hypothesis limit_fits : RTPHeaderLength self0 + limit + 6 <= IP_PACKET_SIZE.
Context (gens : list Packet) (pf imp : Z).
Hypothesis few : (1 <= n < 48)%nat.
Hypothesis rate_range : 0 < pf < 256.
Hypothesis imp_range : 0 <= imp <= Z.of_nat n.
Hypothesis gens_length : Zlen gens = kMaxMediaPackets.
Hypothesis no_wrap : num self0 n + fec_count n pf <= 65536.
Context (pl : list (list Z)).
Hypothesis pl_length : length pl = n.
Hypothesis pl_limit : Forall (fun p => Zlen p <= limit) pl.

Local Abbreviation num := (num self0).
Local Abbreviation mk := (mk n).
Local Abbreviation frame_hdr := (frame_hdr self0 cap).
Local Abbreviation frame_parsed := (frame_parsed self0 cap).
Local Abbreviation media_pkt := (media_pkt self0 cap alloc pt n).
Local Abbreviation media := (frame_media self0 cap alloc pt n pl).
Local Abbreviation red_bytes := (red_bytes self0 cap pt red n).
Local Abbreviation m := (fec_count n pf).

(** The record of packet [i] of the frame. *)
Definition frame_entry (i : nat) (p : list Z) : RTPHeader * list Z := (video_frequency (frame_parsed pt (mk i) (num i)), p).

Lemma media_pkt_bytes i p :
  Zlen p <= limit -> ztake (pkt_length (media_pkt i p)) (pkt_data (media_pkt i p)) = frame_hdr pt (mk i) (num i) ++ p.
Proof.
  intros Hp. unfold RedSession.media_pkt, media_bytes. cbn [pkt_length pkt_data]. rewrite put_0. apply ztake_front.
  by rewrite Zlen_app, (frame_hdr_length self0 cap).
Qed.

Lemma entry_of_media i p :
  is_u16 (num i) -> Zlen p <= limit -> entry_of (media_pkt i p) = frame_entry i p.
Proof.
  intros Hn Hp. unfold entry_of. rewrite media_pkt_bytes by done.
  rewrite (frame_hdr_parsed self0 cap) by done. unfold frame_entry. f_equal.
  change (headerLength (frame_parsed pt (mk i) (num i))) with (Zlen (frame_hdr pt (mk i) (num i))).
  by rewrite zdrop_app_ge, Z.sub_diag, zdrop_0 by lia.
Qed.

Context (known_type : Z -> bool) (w0 : ViEReceiver (H := recorder known_type)).
Hypothesis Hw0 : receives known_type w0 pt red fec_pt.

Lemma media_handed r i p :
  is_u16 (num i) -> Zlen p <= limit -> handed known_type (with_registry r w0) (media_pkt i p) (frame_entry i p).
Proof.
  intros Hn Hp. exists (frame_parsed pt (mk i) (num i)). rewrite media_pkt_bytes by done.
  destruct (hdr_length self0 cap Hinv0 Hmap0) as [_ Hl]. pose proof (Zlen_nonneg p).
  change (headerLength (frame_parsed pt (mk i) (num i))) with (Zlen (frame_hdr pt (mk i) (num i))).
  split; [|split; [|split; [|split]]].
  - by rewrite zdrop_app_ge, Z.sub_diag, zdrop_0 by lia.
  - intros R. change (rtp_header_parser_ (with_registry r w0)) with (rtp_header_parser_ w0).
    rewrite (rc_parser _ _ _ _ _ Hw0). by apply (frame_hdr_parsed self0 cap).
  - rewrite (frame_hdr_length self0 cap) by done. cbn [RedSession.media_pkt pkt_length]. lia.
  - unfold IsEncapsulated, IsRed, IsRtx. change (red_payload_type_ (with_registry r w0)) with (red_payload_type_ w0).
    change (rtx_ (with_registry r w0)) with (rtx_ w0). rewrite (rc_red _ _ _ _ _ Hw0), (rc_rtx _ _ _ _ _ Hw0).
    change (payloadType (frame_parsed pt (mk i) (num i))) with pt. by rewrite (proj2 (Z.eqb_neq red pt)) by congruence.
  - apply (rc_known _ _ _ _ _ Hw0).
Qed.

(** A packet with a RED header, in the receiver. *)
Lemma Insert_red {R} depth in_order r rs d l packet h rx x :
  (forall R, RtpHeaderParserImpl_Parse (R := R) [] packet = Cont (true, h)) -> payloadType h = red ->
  (forall R, rd (R := R) packet (headerLength h) = Cont x) ->
  (forall R, red_packets (R := R) alloc' uninitialised (video_frequency h) packet (Zlen packet) fec_pt = Cont (0, [rx])) ->
  InsertRTPPacket (R := R) alloc' uninitialised (S (S depth))
    (at_ known_type (with_registry r w0) (mkFecReceiver [] rs d) l) packet in_order
  = let! (ret, w) := ProcessReceivedFec fec_receiver_ with_fec (OnRecoveredPacket (R := R) alloc' uninitialised (S depth)) (S depth)
      (at_ known_type (with_registry (mkRTPPayloadRegistry (registry_payload_type_rtx_ r) (payloadType h)) w0)
        (mkFecReceiver [rx] rs d) l) in
    Cont (if ret =? 0 then 0 else -1, w).
Proof.
  intros Hparse Hpt Hrd Hred. destruct Hw0. unfold InsertRTPPacket.
  set (w := at_ known_type (with_registry r w0) _ l). change (receiving_ w) with (receiving_ w0). rewrite rc_receiving0.
  cbn [negb]. change (rtp_header_parser_ w) with (rtp_header_parser_ w0). rewrite rc_parser0, Hparse. cbn [flow_bind negb].
  unfold SetIncomingPayloadType, IsRtx. change (rtx_ w) with (rtx_ w0). rewrite rc_rtx0. cbn [andb].
  set (r' := mkRTPPayloadRegistry _ _).
  set (w1 := with_registry r' w). cbn [ReceivePacket]. unfold IsEncapsulated.
  assert (Hir : IsRed w1 (video_frequency h) = true).
  { unfold IsRed. change (red_payload_type_ w1) with (red_payload_type_ w0). rewrite rc_red0. by apply Z.eqb_eq. }
  rewrite Hir. cbn [orb]. unfold ParseAndHandleEncapsulatingHeader. rewrite Hir.
  change (headerLength (video_frequency h)) with (headerLength h). rewrite Hrd. cbn [flow_bind]. unfold AddReceivedRedPacket.
  change (ulpfec_payload_type_ w1) with (ulpfec_payload_type_ w0). rewrite rc_fec0, u8_id by (unfold is_u8; lia).
  rewrite Hred. cbn [flow_bind]. change (fec_receiver_ w1) with (mkFecReceiver [] rs d). cbn [received_packet_list_ recovered_packet_list_ fec_ app].
  change (negb (0 =? 0)) with false. cbv iota. rewrite !flow_bind_assoc.
  change (with_fec (mkFecReceiver [rx] rs d) w1) with (at_ known_type (with_registry r' w0) (mkFecReceiver [rx] rs d) l).
  apply flow_bind_ext. intros [ret w']. cbn [flow_bind]. done.
Qed.

Context (mask : list Z) (gens' : list Packet).
Hypothesis Hok : mask_ok (Z.of_nat n) m mask.
Hypothesis Hrows : forall i, 0 <= i < m -> zat gens' i = fec_of (16 <? Z.of_nat n) media mask i.
Hypothesis Hsizes : forall j, 0 <= j < m ->
  0 < pkt_length (zat gens' j) <= IP_PACKET_SIZE /\ Zlen (pkt_data (zat gens' j)) = IP_PACKET_SIZE.
Local Abbreviation fec_bytes := (fec_bytes self0 cap red fec_pt n gens').
Local Abbreviation wire := (wire_of self0 cap pt red fec_pt n pf pl gens').

Lemma hdr_ssrc {R} mark sn rest :
  BufferToUWord32 (R := R) (frame_hdr red mark sn ++ rest) 8 = Cont (ssrc_ self0).
Proof.
  rewrite (frame_hdr_hdr self0 cap) by done. unfold hdr, hdr_T. rewrite <- !app_assoc.
  set (ts := be32 _). set (a := [_; _]).
  replace (a ++ be16 sn ++ ts ++ be32 (ssrc_ self0) ++ csrc_bytes (sent_csrcs self0) ++ rest)
    with ((a ++ be16 sn ++ ts) ++ be32 (ssrc_ self0) ++ (csrc_bytes (sent_csrcs self0) ++ rest)) by (by rewrite <- !app_assoc).
  rewrite Word32_be by (by rewrite !Zlen_app, Zlen_be16). f_equal. apply u32_id, Hinv0.
Qed.

(** A packet on the wire is media packet or a packet of error correction. *)
Definition rx_of (packet : list Z) (rx : ReceivedPacket) : Prop :=
  (exists i p, pl !! i = Some p /\ packet = red_bytes i p /\ is_media media (sequence_number_ self0) (Z.of_nat i) rx) \/
  (exists j, 0 <= j < m /\ packet = fec_bytes j /\ is_fec (num n) (ssrc_ self0) gens' j rx).

Record red_packet_of (packet : list Z) (rx : ReceivedPacket) (h : RTPHeader) : Prop := mkRedPacketOf {
  rp_parse : forall R, RtpHeaderParserImpl_Parse (R := R) [] packet = Cont (true, h);
  rp_type : payloadType h = red;
  rp_inside : exists x, forall R, rd (R := R) packet (headerLength h) = Cont x;
  rp_packets : forall R, red_packets (R := R) alloc' uninitialised (video_frequency h) packet (Zlen packet) fec_pt = Cont (0, [rx])
}.

Lemma red_media i p :
  pl !! i = Some p -> exists rx h, rx_of (red_bytes i p) rx /\ red_packet_of (red_bytes i p) rx h.
Proof.
  intros Hi. assert (Hp : Zlen p <= limit) by (by eapply Forall_lookup_1 in pl_limit).
  assert (Hin := lookup_lt_Some _ _ _ Hi). assert (Hu : is_u16 (num i)) by (by apply (num_u16 self0 Hinv0 n pf); done || lia).
  destruct (hdr_length self0 cap Hinv0 Hmap0) as [HL Hl].
  assert (Hpar : forall R, RtpHeaderParserImpl_Parse (R := R) [] (red_bytes i p) = Cont (true, frame_parsed red (mk i) (num i)))
    by (intros R; by apply (frame_hdr_parsed self0 cap)).
  assert (Hhl : headerLength (frame_parsed red (mk i) (num i)) = RTPHeaderLength self0) by (by apply (frame_hdr_length self0 cap)).
  exists (mkReceived (num i) uninitialised false (RedSession.media_pkt self0 cap alloc' pt n i p)), (frame_parsed red (mk i) (num i)).
  split.
  - left. exists i, p. split; [done|]. split; [done|]. split; [done|]. split; [symmetry; by apply u16_id|].
    cbn [rx_pkt]. unfold zat, frame_media. rewrite Nat2Z.id.
    rewrite (list_lookup_total_correct _ i (media_pkt i p)) by (rewrite list_lookup_imap, Hi; done).
    split; [done|]. split; [by apply (media_pkt_ok self0 cap Hinv0 Hmap0 alloc' pt n alloc'_length limit limit_fits i p 0)|].
    intros j Hj. cbn [RedSession.media_pkt pkt_length pkt_data] in *. rewrite !put_0, !zat_app by lia.
    unfold media_bytes. rewrite Zlen_app, (frame_hdr_length self0 cap) by done.
    by destruct (Z.ltb_spec j (RTPHeaderLength self0 + Zlen p)); [|lia].
  - split; [done|done|exists pt; intros R; rewrite Hhl; unfold RedSession.red_bytes; apply rd_after; by rewrite (frame_hdr_length self0 cap)|].
    intros R. unfold RedSession.red_bytes. rewrite (frame_hdr_hdr self0 cap) by done.
    rewrite (red_packets_media alloc' uninitialised alloc'_length _ _ _ _ _ _ _ _ _ (RTPHeaderLength self0)) by (done || lia).
    unfold RedSession.media_pkt, media_bytes. rewrite (frame_hdr_hdr self0 cap) by done. done.
Qed.

Lemma red_fec j :
  0 <= j < m -> exists rx h, rx_of (fec_bytes j) rx /\ red_packet_of (fec_bytes j) rx h.
Proof.
  intros Hj. destruct (Hsizes j Hj) as [Hs1 Hs2]. destruct (hdr_length self0 cap Hinv0 Hmap0) as [HL Hl].
  assert (Hu : is_u16 (num n + j)) by (assert (H0 := inv_sequence self0 Hinv0); unfold RedSession.num in *; unfold is_u16 in *; lia).
  assert (Hpar : forall R, RtpHeaderParserImpl_Parse (R := R) [] (fec_bytes j) = Cont (true, frame_parsed red false (num n + j)))
    by (intros R; by apply (frame_hdr_parsed self0 cap)).
  assert (Hhl : headerLength (frame_parsed red false (num n + j)) = RTPHeaderLength self0) by (by apply (frame_hdr_length self0 cap)).
  set (f := zat gens' j) in *. set (body := ztake (pkt_length f) (pkt_data f)).
  assert (Hb : Zlen body = pkt_length f) by (apply Zlen_ztake; lia).
  exists (mkReceived (num n + j) (ssrc_ self0) true (mkPacket (Zlen body) (put (alloc' IP_PACKET_SIZE) 0 body))), (frame_parsed red false (num n + j)).
  split.
  - right. exists j. split; [done|]. split; [done|]. split; [done|]. split; [done|]. split; [done|]. cbn [rx_pkt].
    split; [exact Hb|]. cbn [pkt_data]. unfold IP_PACKET_SIZE in *.
    split; [rewrite Zlen_put; rewrite ?alloc'_length; lia|]. intros t Ht. fold f in Ht |- *. rewrite put_0, zat_app by lia.
    rewrite Hb. destruct (Z.ltb_spec t (pkt_length f)); [|lia]. by apply zat_ztake.
  - split; [done|done|exists fec_pt; intros R; rewrite Hhl; unfold RedSession.fec_bytes; apply rd_after; by rewrite (frame_hdr_length self0 cap)|].
    intros R. assert (Hssrc := hdr_ssrc (R := R) false (num n + j) ([fec_pt] ++ body)).
    unfold RedSession.fec_bytes. fold f. fold body. rewrite (frame_hdr_hdr self0 cap) in Hssrc |- * by done.
    unfold IP_PACKET_SIZE in *.
    rewrite (red_packets_fec alloc' uninitialised alloc'_length _ _ _ _ _ _ _ _ (RTPHeaderLength self0) (ssrc_ self0))
      by (done || unfold IP_PACKET_SIZE; lia). done.
Qed.

Lemma red_wire packet :
  packet ∈ wire -> exists rx h, rx_of packet rx /\ red_packet_of packet rx h.
Proof.
  unfold wire_of. rewrite elem_of_app. intros [H|(j & -> & Hj%elem_of_seqZ)%list_elem_of_fmap].
  - apply list_elem_of_lookup in H as [i Hi]. rewrite list_lookup_imap in Hi.
    destruct (pl !! i) as [p|] eqn:E; [|done]. injection Hi as <-. by apply red_media.
  - apply red_fec. lia.
Qed.

(** ** The packets that arrive *)

Local Abbreviation s := (sequence_number_ self0).
Local Abbreviation delivered := (handed_on (FecBurst.sent media) entry_of s (FecBurst.fec_numbers (num n) m) (FecBurst.group media (num n) mask)).

Lemma video_frame_ok : frame_ok alloc gens media pf imp s (num n) s (ssrc_ self0).
Proof. apply (frame_media_ok self0 cap Hinv0 Hmap0 alloc pt n alloc_length limit); done || lia. Qed.

Lemma Zlen_media : Zlen media = Z.of_nat n.
Proof. by apply Zlen_frame_media. Qed.

Lemma sent_media q : FecBurst.sent media q -> exists i p, pl !! i = Some p /\ q = media_pkt i p.
Proof. apply frame_media_in. Qed.

Lemma sent_entry i p : pl !! i = Some p -> is_u16 (num i) /\ Zlen p <= limit.
Proof.
  intros Hi. split; [|by eapply Forall_lookup_1 in pl_limit]. apply lookup_lt_Some in Hi.
  by apply (num_u16 self0 Hinv0 n pf); done || lia.
Qed.

Lemma insert_one {R} depth in_order r arrived rs d l packet :
  (47 <= depth)%nat -> packet ∈ wire -> delivered arrived rs d l ->
  exists rx r' rs' d' l', rx_of packet rx
    /\ InsertRTPPacket (R := R) alloc' uninitialised (S (S depth))
         (at_ known_type (with_registry r w0) (mkFecReceiver [] rs d) l) packet in_order
       = Cont (0, at_ known_type (with_registry r' w0) (mkFecReceiver [] rs' d') l')
    /\ delivered (arrived ++ [rx]) rs' d' l'.
Proof.
  intros Hd Hin Hst. destruct (red_wire packet Hin) as (rx & h & Hrx & [Hparse Htype [x Hrd] Hred]).
  assert (F := video_frame_ok). assert (HZ := Zlen_media). destruct F as [F1 F2 F3 F4 F5 F6 F7 F8 F9 F10]. rewrite HZ in *.
  pose proof (fec_count_bounds n pf ltac:(lia) rate_range) as Hm.
  set (r' := mkRTPPayloadRegistry (registry_payload_type_rtx_ r) (payloadType h)).
  assert (Hk : 1 <= FecBurst.k media <= 48) by (unfold FecBurst.k; rewrite HZ; lia).
  destruct (ProcessReceivedFec_hands known_type alloc' uninitialised (with_registry r' w0) (FecBurst.sent media) entry_of)
    with (R := R) (base := s) (lo := s) (seqs := seq_of <$> media) (fec_seqs := FecBurst.fec_numbers (num n) m) (G := FecBurst.group media (num n) mask)
    (depth := depth) (fuel := S depth) (arrived := arrived) (rx := rx) (rs := rs) (d := d) (l := l)
    as (rs' & d' & l' & E & Hst'); try done.
  - intros q (i & p & Hi & ->)%sent_media. destruct (sent_entry i p Hi). rewrite entry_of_media by done.
    by apply media_handed.
  - intros q (i & p & Hi & ->)%sent_media. destruct (sent_entry i p Hi).
    destruct (media_pkt_ok self0 cap Hinv0 Hmap0 alloc pt n alloc_length limit limit_fits i p 0) as [? ? ?]; [lia|done|]. lia.
  - by apply sent_window.
  - by apply (sent_inj media s).
  - intros p Hp. by apply list_elem_of_fmap_2.
  - rewrite length_fmap. unfold frame_media. rewrite length_imap. lia.
  - unfold FecBurst.fec_numbers. rewrite length_fmap, length_seqZ. lia.
  - intros q (i & -> & Hi%elem_of_seqZ)%list_elem_of_fmap. unfold fec_count, RedSession.num in *. lia.
  - apply (frame_arrives media s (num n) s (ssrc_ self0) m mask gens'); unfold FecBurst.l_bit, FecBurst.k; rewrite ?HZ; try done.
    destruct Hrx as [(i & p & Hi & _ & Hm')|(j & Hj & _ & Hf)]; [left|right; by exists j].
    exists (Z.of_nat i). split; [|done]. apply lookup_lt_Some in Hi. lia.
  - lia.
  - exists rx, r', rs', d', l'. split; [done|]. split; [|done].
    rewrite (Insert_red depth in_order r rs d l packet h rx x) by done. fold r'. rewrite E. done.
Qed.

Lemma insert_many {R} depth in_order arr r arrived rs d l :
  (47 <= depth)%nat -> (forall packet, packet ∈ arr -> packet ∈ wire) -> delivered arrived rs d l ->
  exists rxs rets r' rs' d' l', Forall2 rx_of arr rxs /\ Forall (fun ret => ret = 0) rets
    /\ insert_all (R := R) alloc' uninitialised (S (S depth))
         (at_ known_type (with_registry r w0) (mkFecReceiver [] rs d) l) in_order arr
       = Cont (rets, at_ known_type (with_registry r' w0) (mkFecReceiver [] rs' d') l')
    /\ delivered (arrived ++ rxs) rs' d' l'.
Proof.
  intros Hd. revert r arrived rs d l. induction arr as [|packet arr IH]; intros r arrived rs d l Hin Hst.
  - exists [], [], r, rs, d, l. rewrite app_nil_r. split; [constructor|]. split; [constructor|done].
  - destruct (insert_one (R := R) depth in_order r arrived rs d l packet Hd) as (rx & r1 & rs1 & d1 & l1 & Hrx & E & Hst1);
      [apply Hin; by left|done|].
    destruct (IH r1 (arrived ++ [rx]) rs1 d1 l1) as (rxs & rets & r' & rs' & d' & l' & H2 & H0 & E' & Hst');
      [intros q Hq; apply Hin; by right|done|].
    exists (rx :: rxs), (0 :: rets), r', rs', d', l'. rewrite <- app_assoc in Hst'.
    split; [by constructor|]. split; [by constructor|]. split; [|done].
    cbn [insert_all]. rewrite E. cbn [flow_bind]. rewrite E'. done.
Qed.

(** When every position follows, the record has the packets of the frame and no other. *)
Lemma all_delivered rxs rs d l :
  delivered rxs rs d l ->
  (forall j, 0 <= j < Z.of_nat n -> follows media gens' mask s (num n) (ssrc_ self0) m rxs j) ->
  forall e, e ∈ l <-> e ∈ imap frame_entry pl.
Proof.
  intros [Hst _ Hall Honly] Hf. assert (HZ := Zlen_media). pose proof (fec_count_bounds n pf ltac:(lia) rate_range) as Hm.
  assert (F := video_frame_ok). destruct F as [_ _ _ _ _ Hnum _ _ _ _].
  assert (Hk : 1 <= FecBurst.k media <= 48) by (unfold FecBurst.k; rewrite HZ; lia).
  destruct (steady_closed s (FecBurst.sent media) (seq_of <$> media) (FecBurst.fec_numbers (num n) m) (FecBurst.group media (num n) mask))
    with (3 := Hst) as (Hkn & _ & Hcl).
  { rewrite length_fmap. unfold frame_media. rewrite length_imap. lia. }
  { unfold FecBurst.fec_numbers. rewrite length_fmap, length_seqZ. lia. }
  intros e. split.
  - intros He. destruct (Honly e He) as (q & (i & p & Hi & ->)%sent_media & ->). destruct (sent_entry i p Hi).
    rewrite entry_of_media by done. apply list_elem_of_lookup. exists i. by rewrite list_lookup_imap, Hi.
  - intros [i Hi]%list_elem_of_lookup. rewrite list_lookup_imap in Hi. destruct (pl !! i) as [p|] eqn:Ei; [|done].
    injection Hi as <-. destruct (sent_entry i p Ei) as [Hu Hp]. assert (Hlt := lookup_lt_Some _ _ _ Ei).
    assert (Hd : u16 (s + Z.of_nat i) ∈ rec_seq_num <$> rs).
    { apply Hcl, (derivable_numbers media s (num n) (ssrc_ self0) m mask gens' Hk Hnum). eapply derivable_mono; [| |by apply (Hf (Z.of_nat i)); lia].
      - intros t [Ht Hm']. done.
      - intros row (t & Ht & (rx & Hrx & Hfec) & ->). by exists rx, t. }
    apply list_elem_of_fmap in Hd as (x & Ex & Hx). destruct (Hall x Hx) as (q & Hq & Eq & Hin).
    replace q with (media_pkt i p) in Hin; [by rewrite entry_of_media in Hin|].
    assert (Hs : FecBurst.sent media (media_pkt i p)) by (apply list_elem_of_lookup; exists i; unfold frame_media; by rewrite list_lookup_imap, Ei).
    apply (sent_inj media s Hk Hnum); [done|done|]. rewrite <- Eq, <- Ex, media_pkt_seq by done. symmetry. by apply u16_id.
Qed.

(** A packet on the wire has one place in the frame: its number says which. *)
Lemma same_number {mark mark' sn sn' body body'} :
  is_u16 sn -> is_u16 sn' -> frame_hdr red mark sn ++ body = frame_hdr red mark' sn' ++ body' -> sn = sn'.
Proof.
  intros Hu Hu' E. apply (f_equal (RtpHeaderParserImpl_Parse (R := unit) [])) in E.
  rewrite !(frame_hdr_parsed self0 cap) in E by done.
  apply (f_equal (fun r => match r with Cont (_, h) => sequenceNumber h | _ => 0 end)) in E. exact E.
Qed.

Lemma rx_of_media i p rx :
  pl !! i = Some p -> rx_of (red_bytes i p) rx -> is_media media s (Z.of_nat i) rx.
Proof.
  intros Hi [(i' & p' & Hi' & E & H)|(j & Hj & E & _)]; destruct (sent_entry i p Hi) as [Hu _].
  - destruct (sent_entry i' p' Hi') as [Hu' _]. apply same_number in E; [|done..].
    unfold RedSession.num in E. by replace i with i' by lia.
  - assert (Hu' : is_u16 (num n + j)) by (assert (H0 := inv_sequence self0 Hinv0); unfold RedSession.num in *; unfold is_u16 in *; lia).
    apply same_number in E; [|done..]. apply lookup_lt_Some in Hi. unfold RedSession.num in E. lia.
Qed.

Lemma rx_of_fec j rx :
  0 <= j < m -> rx_of (fec_bytes j) rx -> is_fec (num n) (ssrc_ self0) gens' j rx.
Proof.
  assert (H0 := inv_sequence self0 Hinv0).
  assert (Hu : forall j, 0 <= j < m -> is_u16 (num n + j)) by (intros; unfold RedSession.num in *; unfold is_u16 in *; lia).
  intros Hj [(i & p & Hi & E & _)|(j' & Hj' & E & H)].
  - destruct (sent_entry i p Hi) as [Hui _]. apply same_number in E; [|auto..]. apply lookup_lt_Some in Hi.
    unfold RedSession.num in E. lia.
  - apply same_number in E; [|auto..]. by replace j with j' by lia.
Qed.

Lemma wire_length : length wire = (n + Z.to_nat m)%nat.
Proof. unfold wire_of. by rewrite length_app, length_imap, length_fmap, length_seqZ, pl_length. Qed.

(** What is in the list of packets that arrive, by its place on the wire. *)
Lemma media_on_wire arr rxs i p :
  Forall2 rx_of arr rxs -> wire !! i = Some p -> p ∈ arr -> (i < n)%nat -> media_arrives media s (Z.of_nat i) rxs.
Proof.
  intros H2 Hi Hin Hlt. unfold wire_of in Hi. rewrite lookup_app_l in Hi by (rewrite length_imap; lia).
  rewrite list_lookup_imap in Hi. destruct (pl !! i) as [q|] eqn:E; [|done]. injection Hi as <-.
  apply list_elem_of_lookup in Hin as [t Ht]. destruct (Forall2_lookup_l _ _ _ _ _ H2 Ht) as (rx & Hrx & Hof).
  exists rx. split; [by eapply list_elem_of_lookup_2|]. by apply (rx_of_media i q).
Qed.

Lemma fec_on_wire arr rxs j p :
  Forall2 rx_of arr rxs -> wire !! (n + Z.to_nat j)%nat = Some p -> p ∈ arr -> 0 <= j < m ->
  fec_arrives gens' (num n) (ssrc_ self0) j rxs.
Proof.
  intros H2 Hi Hin Hj. unfold wire_of in Hi. rewrite lookup_app_r in Hi by (rewrite length_imap; lia).
  rewrite length_imap, pl_length in Hi. replace (n + Z.to_nat j - n)%nat with (Z.to_nat j) in Hi by lia.
  rewrite list_lookup_fmap, lookup_seqZ_lt in Hi by lia. injection Hi as <-. rewrite Z2Nat.id, Z.add_0_l in Hin by lia.
  apply list_elem_of_lookup in Hin as [t Ht]. destruct (Forall2_lookup_l _ _ _ _ _ H2 Ht) as (rx & Hrx & Hof).
  exists rx. split; [by eapply list_elem_of_lookup_2|]. by apply rx_of_fec.
Qed.

(** The record when the packets [arr] arrive at a new receiver. *)
Lemma wire_delivered {R} fuel in_order arr :
  (49 <= fuel)%nat -> (forall packet, packet ∈ arr -> packet ∈ wire) ->
  exists rxs rets w', Forall2 rx_of arr rxs /\ Forall (fun ret => ret = 0) rets
    /\ insert_all (R := R) alloc' uninitialised fuel w0 in_order arr = Cont (rets, w')
    /\ ((forall j, 0 <= j < Z.of_nat n -> follows media gens' mask s (num n) (ssrc_ self0) m rxs j) ->
        forall e, e ∈ rtp_receiver_ w' <-> e ∈ imap frame_entry pl).
Proof.
  intros Hf Hin. destruct fuel as [|[|depth]]; [lia|lia|].
  assert (Ew : w0 = at_ known_type (with_registry (rtp_payload_registry_ w0) w0) (mkFecReceiver [] [] (mkDecoder [] false)) []).
  { destruct Hw0. destruct w0. cbn in *. by subst. }
  destruct (insert_many (R := R) depth in_order arr (rtp_payload_registry_ w0) [] [] (mkDecoder [] false) [])
    as (rxs & rets & r' & rs' & d' & l' & H2 & H0 & E & Hst); [lia|done|apply handed_on_new|].
  exists rxs, rets. eexists. split; [done|]. split; [done|]. rewrite Ew at 1. split; [exact E|].
  intros Hfol. exact (all_delivered rxs rs' d' l' Hst Hfol).
Qed.
End video.

(** ** A sender and a receiver *)

(** A sender without header extensions whose frames are protected one by one
    ([vs_single]: no protection over several frames), and a new receiver that knows its
    payload types, which are distinct.  A frame of [n] packets fits, and the numbers of its
    packets and of the error correction after them do not wrap ([vs_numbers]): where they
    wrap, the receiver discards packets of error correction
    (forward_error_correction.cc:614). *)
Record video_session (known_type : Z -> bool) (self : RTPSender) (V : RTPSenderVideo)
  (w : ViEReceiver (H := recorder known_type)) (pt limit : Z) (n : nat) : Prop := mkVideoSession {
  vs_inv : sender_inv self;
  vs_map : rtp_header_extension_map_ self = [];
  vs_limit : RTPHeaderLength self + limit + 6 <= IP_PACKET_SIZE;
  vs_types : 0 <= pt < 128 /\ 0 <= payloadTypeRED V < 128 /\ 0 <= payloadTypeFEC V < 128;
  vs_distinct : pt <> payloadTypeRED V /\ pt <> payloadTypeFEC V;
  vs_enabled : fecEnabled V = true;
  vs_gens : Zlen (generated_fec_packets_ (producer_fec_ V)) = kMaxMediaPackets;
  vs_empty : media_packets_fec_ (producer_fec_ V) = [] /\ fec_packets_ (producer_fec_ V) = [] /\
    num_frames_ (producer_fec_ V) = 0;
  vs_single : max_fec_frames (new_params_ (producer_fec_ V)) = 1;
  vs_rate : 0 < fec_rate (new_params_ (producer_fec_ V)) < 256;
  vs_imp : 0 <= num_first_partition_ (producer_fec_ V) <= Z.of_nat n;
  vs_numbers : sequence_number_ self + Z.of_nat n
    + GetNumberOfFecPackets (Z.of_nat n) (fec_rate (new_params_ (producer_fec_ V))) <= 65536;
  vs_receives : receives known_type w pt (payloadTypeRED V) (payloadTypeFEC V)
}.

(** A frame as the RTP receiver gets it: the headers and the payloads of its packets in
    order, whose VP8 payloads are the data. *)
Record frame_of (self : RTPSender) (pt cap : Z) (hdr : RTPVideoHeaderVP8) (payloadData : list Z)
  (frame : list (RTPHeader * list Z)) : Prop := mkFrameOf {
  fo_headers : Forall (frame_header self pt cap) frame.*1;
  fo_numbers : sequenceNumber <$> frame.*1 = seqZ (sequence_number_ self) (Zlen frame);
  fo_markers : markerBit <$> frame.*1 = replicate (length frame - 1) false ++ [true];
  fo_payloads : exists ds, Forall2 delivered_as frame.*2 ds
    /\ Forall (fun d => same_header hdr (delivered_header d)) ds /\ concat (delivered_data <$> ds) = payloadData
}.

Lemma imap_snd (f : nat -> list Z -> RTPHeader) l : (imap (fun i p => (f i p, p)) l).*2 = l.
Proof.
  apply list_eq. intros i. rewrite list_lookup_fmap, list_lookup_imap. by destruct (l !! i).
Qed.

Lemma frame_entries_of self cap pt n hdr payloadData pl ds :
  length pl = n -> (0 < n)%nat ->
  Forall2 delivered_as pl ds -> Forall (fun d => same_header hdr (delivered_header d)) ds ->
  concat (delivered_data <$> ds) = payloadData ->
  frame_of self pt cap hdr payloadData (imap (frame_entry self cap pt n) pl).
Proof.
  intros Hlen Hn H2 Hh Hc. split.
  - apply Forall_forall. intros h ([h' p] & -> & [i Hi]%list_elem_of_lookup)%list_elem_of_fmap.
    rewrite list_lookup_imap in Hi. destruct (pl !! i); [|done]. by injection Hi as <- _.
  - apply list_eq. intros i. rewrite !list_lookup_fmap, list_lookup_imap. destruct (pl !! i) as [p|] eqn:E.
    + apply lookup_lt_Some in E. symmetry. apply lookup_seqZ. unfold Zlen. rewrite length_imap. split; [done|lia].
    + apply lookup_ge_None in E. symmetry. apply lookup_seqZ_ge. unfold Zlen. rewrite length_imap. lia.
  - apply list_eq. intros i. rewrite !list_lookup_fmap, list_lookup_imap, length_imap, Hlen.
    destruct (pl !! i) as [p|] eqn:E.
    + apply lookup_lt_Some in E. cbn. destruct (decide (S i = n)) as [En|Hne].
      * rewrite lookup_app_r by (rewrite length_replicate; lia). rewrite length_replicate.
        replace (i - (n - 1))%nat with O by lia. cbn. unfold mk. by rewrite bool_decide_eq_true_2.
      * rewrite lookup_app_l by (rewrite length_replicate; lia). rewrite lookup_replicate_2 by lia.
        unfold mk. by rewrite bool_decide_eq_false_2.
    + apply lookup_ge_None in E. cbn. symmetry. apply lookup_ge_None_2. rewrite length_app, length_replicate. simpl. lia.
  - exists ds. unfold frame_entry. rewrite imap_snd. done.
Qed.

Section sessions.
Context (alloc alloc' : Z -> list Z) (uninitialised : Z).
Hypothesis alloc_length : forall n, 0 <= n -> Zlen (alloc n) = n.
Hypothesis alloc'_length : forall n, 0 <= n -> Zlen (alloc' n) = n.
Context (known_type : Z -> bool).

(** A frame is sent, and what arrives of it decides what the receiver records. *)
Lemma session_runs {R} self V w settings limit now delta cap cap_ms pt payloadData hdr :
  let n := frame_packets R payloadData hdr limit in
  video_session known_type self V w pt limit n -> (n < 48)%nat ->
  vp8_protect hdr = true -> vp8_ok hdr -> 0 < Zlen payloadData < 2147483648 ->
  PayloadDescriptorExtraLength hdr + 2 <= limit -> short_key_frame R payloadData hdr limit = false ->
  let P := producer_fec_ V in let params := new_params_ P in let pf := fec_rate params in
  let m := GetNumberOfFecPackets (Z.of_nat n) pf in let imp := num_first_partition_ P in
  exists self' V' pkts wire frame media mask gens',
    SendVP8 (H := red_sender alloc now delta cap_ms) (R := R) self ([], V) settings limit now pt cap cap_ms
      payloadData (Zlen payloadData) hdr = Cont (0, self', (wire, V'), pkts)
    /\ frame_of self pt cap hdr payloadData frame
    /\ Zlen media = Z.of_nat n /\ 1 <= m <= Z.of_nat n /\ length wire = (n + Z.to_nat m)%nat
    /\ frame_ok alloc (generated_fec_packets_ P) media pf imp (sequence_number_ self) (num self n) (sequence_number_ self) (ssrc_ self)
    /\ mask_ok (Z.of_nat n) m mask
    /\ GeneratePacketMasks (R := Z * list Packet * list Z) (Z.of_nat n) m imp (use_uep_protection params)
         (new_PacketMaskTable (fec_mask_type params) (Z.of_nat n)) (mask_buffer alloc (Z.of_nat n) m) = Cont mask
    /\ forall fuel in_order arrived, (49 <= fuel)%nat -> (forall packet, packet ∈ arrived -> packet ∈ wire) ->
       exists rxs rets w', insert_all (R := R) alloc' uninitialised fuel w in_order arrived = Cont (rets, w')
         /\ Forall (fun ret => ret = 0) rets
         /\ (forall i p, wire !! i = Some p -> p ∈ arrived -> (i < n)%nat -> media_arrives media (sequence_number_ self) (Z.of_nat i) rxs)
         /\ (forall j p, wire !! (n + Z.to_nat j)%nat = Some p -> p ∈ arrived -> 0 <= j < m ->
               fec_arrives gens' (num self n) (ssrc_ self) j rxs)
         /\ ((forall j, 0 <= j < Z.of_nat n -> follows media gens' mask (sequence_number_ self) (num self n) (ssrc_ self) m rxs j) ->
             forall e, e ∈ rtp_receiver_ w' <-> e ∈ frame).
Proof.
  intros n [I1 I2 I3 (I4 & I5 & I6) [I7 I8] I9 I10 (I11 & I12 & I13) I14 I15 I16 I17 I18] Hn Hprot Hh Hp Hm Hkey P params pf m imp.
  destruct (SendVP8_runs (H := red_sender alloc now delta cap_ms) (R := R) self settings limit now pt cap cap_ms payloadData hdr)
    as (Hn0 & _); [done..|lia|]. fold n in Hn0.
  assert (Hready : ready_to_protect (payloadTypeRED V) (payloadTypeFEC V) (generated_fec_packets_ P) pf imp V) by (by split).
  assert (Hwrap : num self n + fec_count n pf <= 65536) by done.
  destruct (SendVP8_wire (R := R) self cap I1 I2 alloc pt (payloadTypeRED V) (payloadTypeFEC V) n alloc_length I4 I5 I6 limit I3
    (generated_fec_packets_ P) pf imp ltac:(lia) I15 I16 I10 Hwrap now delta cap_ms V Hready settings payloadData hdr)
    as (self' & V' & pkts & pl & ds & gens' & E & Hlen & Hlim & Hgen & H2 & Hhd & Hcat & Hsk); [done..|].
  assert (H2' : Forall2 delivered_as pl ds) by (apply all_delivered_as; [by rewrite Hsk|done]).
  assert (F := frame_media_ok self cap I1 I2 alloc pt n alloc_length limit I3 (generated_fec_packets_ P) pf imp ltac:(lia) I15 I16 I10 Hwrap pl Hlen Hlim).
  assert (HZ := Zlen_frame_media self cap alloc pt n pl Hlen).
  destruct (frame_generated alloc (generated_fec_packets_ P) _ pf imp (use_uep_protection params) (fec_mask_type params) _ _ _ _ F)
    as (mask & gens1 & Emask & Hmk & Hok & Egen & Hrows). rewrite HZ in *.
  destruct (frame_generates self cap I1 I2 alloc pt n alloc_length limit I3 (generated_fec_packets_ P) pf imp ltac:(lia) I15 I16 I10 Hwrap V pl Hlen Hlim)
    as (gens2 & Egen2 & _ & Hsizes).
  unfold generated in Hgen, Egen2. change (RedSession.params V) with params in Hgen, Egen2.
  rewrite Hgen in Egen, Egen2. injection Egen as <-. injection Egen2 as <-. clear Hgen.
  exists self', V', pkts. eexists. exists (imap (frame_entry self cap pt n) pl), (frame_media self cap alloc pt n pl), mask, gens'.
  split; [exact E|]. clear E. split; [by apply (frame_entries_of self cap pt n hdr payloadData pl ds)|].
  split; [done|]. split; [done|]. split; [by eapply wire_length|]. split; [done|]. split; [done|]. split; [done|].
  intros fuel in_order arrived Hfuel Hin.
  destruct (wire_delivered self cap I1 I2 alloc alloc' uninitialised pt (payloadTypeRED V) (payloadTypeFEC V) n) with (R := R)
    (limit := limit) (gens := generated_fec_packets_ P) (pf := pf) (imp := imp) (pl := pl) (known_type := known_type) (w0 := w)
    (mask := mask) (gens' := gens') (fuel := fuel) (in_order := in_order) (arr := arrived)
    as (rxs & rets & w' & H3 & H0 & E & Hall); try done.
  exists rxs, rets, w'. split; [exact E|]. clear E. split; [done|]. split; [|split; [|exact Hall]].
  - intros i p ? ? ?. eapply (media_on_wire self cap) with (red := payloadTypeRED V) (limit := limit) (pf := pf); done || lia.
  - intros j p ? ? ?. eapply (fec_on_wire self cap) with (red := payloadTypeRED V) (limit := limit) (pf := pf); done || lia.
Qed.

(** C2: a frame survives a burst of losses.  The sender protects each frame by itself, with
    the masks for bursts and without unequal protection, and has no header extensions; the
    frame is one of those that are protected and has at most 12 packets; the numbers of its
    packets and of the error correction after them do not wrap (at the wrap the receiver
    discards packets of error correction); it is not a key frame whose first packet has
    fewer than ten bytes of it; the receiver is new, and the payload types are distinct.
    SendVP8 then puts the packets of the frame on the wire, each with a RED header, and [m]
    packets of error correction after them.  When the network loses at most [m] consecutive
    packets and delivers the others in any order and with repetitions, InsertRTPPacket
    succeeds for every packet, and the RTP receiver gets the packets of the frame and no
    other: numbered in order, the last one with the marker, with the capture time of the
    frame and payloads from which the VP8 parser hands over the frame. *)
Theorem frame_survives_burst {R} self V w settings limit now delta cap cap_ms pt payloadData hdr :
  let n := frame_packets R payloadData hdr limit in
  let params := new_params_ (producer_fec_ V) in
  let m := GetNumberOfFecPackets (Z.of_nat n) (fec_rate params) in
  video_session known_type self V w pt limit n -> (n <= 12)%nat ->
  use_uep_protection params = false -> fec_mask_type params = kFecMaskBursty ->
  vp8_protect hdr = true -> vp8_ok hdr -> 0 < Zlen payloadData < 2147483648 ->
  PayloadDescriptorExtraLength hdr + 2 <= limit -> short_key_frame R payloadData hdr limit = false ->
  exists self' V' pkts wire frame,
    SendVP8 (H := red_sender alloc now delta cap_ms) (R := R) self ([], V) settings limit now pt cap cap_ms
      payloadData (Zlen payloadData) hdr = Cont (0, self', (wire, V'), pkts)
    /\ length wire = (n + Z.to_nat m)%nat /\ frame_of self pt cap hdr payloadData frame
    /\ forall fuel in_order arrived a b, (49 <= fuel)%nat -> (forall packet, packet ∈ arrived -> packet ∈ wire) ->
       Z.of_nat b <= m -> (forall i packet, wire !! i = Some packet -> ~ (a <= i < a + b)%nat -> packet ∈ arrived) ->
       exists rets w', insert_all (R := R) alloc' uninitialised fuel w in_order arrived = Cont (rets, w')
         /\ Forall (fun ret => ret = 0) rets /\ forall e, e ∈ rtp_receiver_ w' <-> e ∈ frame.
Proof.
  intros n params m Hs Hn Huep Htype Hprot Hh Hp Hm Hkey.
  destruct (session_runs (R := R) self V w settings limit now delta cap cap_ms pt payloadData hdr Hs)
    as (self' & V' & pkts & wire & frame & media & mask & gens' & E & Hframe & HZ & Hmn & Hwl & F & _ & Emask & Hrun);
    [fold n; lia|done..|].
  fold n in HZ, Hmn, Hwl, F, Emask, Hrun. fold params in Hmn, Hwl, F, Emask, Hrun. fold m in Hmn, Hwl, Emask, Hrun.
  exists self', V', pkts, wire, frame. split; [exact E|]. clear E. split; [done|]. split; [done|].
  intros fuel in_order arrived a b Hfuel Hin Hb Harr.
  destruct (Hrun fuel in_order arrived Hfuel Hin) as (rxs & rets & w' & Ei & H0 & Hmed & Hfec & Hall).
  exists rets, w'. split; [exact Ei|]. split; [done|]. apply Hall. rewrite Huep, Htype in Emask.
  set (a' := Z.min (Z.of_nat a) (Z.of_nat n + m - Z.of_nat b)).
  assert (Hout : forall i, (i < n + Z.to_nat m)%nat -> ~ a' <= Z.of_nat i < a' + Z.of_nat b ->
    exists p, wire !! i = Some p /\ p ∈ arrived).
  { intros i Hi Hno. destruct (lookup_lt_is_Some_2 wire i) as [p Hpi]; [lia|]. exists p. split; [done|].
    apply (Harr i p Hpi). unfold a' in Hno. lia. }
  assert (Hbf := burst_follows alloc (generated_fec_packets_ (producer_fec_ V)) media (fec_rate params) _ _ _ _ _ mask gens' rxs a' (Z.of_nat b) F).
  cbv zeta in Hbf. rewrite HZ in Hbf. fold m in Hbf. specialize (Hbf ltac:(lia) Emask). apply Hbf; try done; try lia.
  - intros j Hj Hno. destruct (Hout (Z.to_nat j)) as (p & Hpi & Hpa); [lia|lia|].
    specialize (Hmed _ _ Hpi Hpa ltac:(lia)). by rewrite Z2Nat.id in Hmed by lia.
  - intros j Hj Hno. destruct (Hout (n + Z.to_nat j)%nat) as (p & Hpi & Hpa); [lia|lia|].
    exact (Hfec _ _ Hpi Hpa Hj).
Qed.

(** C3: a protected frame of up to 47 packets survives the loss of any one packet, with any
    rate from 1 to 255, any mask type and any number of important packets, as long as the
    frame is protected by itself (max_fec_frames is 1) and the numbers of its packets and of
    the error correction after them do not wrap: at the wrap the receiver discards packets
    of error correction.  The sender has no header extensions, the frame is not a key frame
    whose first packet has fewer than ten bytes of it, the receiver is new, and the payload
    types are distinct.  Whichever packet is lost, and in whatever order and however often
    the others arrive, the RTP receiver gets the packets of the frame and no other. *)
Theorem frame_survives_one_loss {R} self V w settings limit now delta cap cap_ms pt payloadData hdr :
  let n := frame_packets R payloadData hdr limit in
  let m := GetNumberOfFecPackets (Z.of_nat n) (fec_rate (new_params_ (producer_fec_ V))) in
  video_session known_type self V w pt limit n -> (n < 48)%nat ->
  vp8_protect hdr = true -> vp8_ok hdr -> 0 < Zlen payloadData < 2147483648 ->
  PayloadDescriptorExtraLength hdr + 2 <= limit -> short_key_frame R payloadData hdr limit = false ->
  exists self' V' pkts wire frame,
    SendVP8 (H := red_sender alloc now delta cap_ms) (R := R) self ([], V) settings limit now pt cap cap_ms
      payloadData (Zlen payloadData) hdr = Cont (0, self', (wire, V'), pkts)
    /\ length wire = (n + Z.to_nat m)%nat /\ frame_of self pt cap hdr payloadData frame
    /\ forall fuel in_order arrived lost, (49 <= fuel)%nat -> (forall packet, packet ∈ arrived -> packet ∈ wire) ->
       (forall i packet, wire !! i = Some packet -> i <> lost -> packet ∈ arrived) ->
       exists rets w', insert_all (R := R) alloc' uninitialised fuel w in_order arrived = Cont (rets, w')
         /\ Forall (fun ret => ret = 0) rets /\ forall e, e ∈ rtp_receiver_ w' <-> e ∈ frame.
Proof.
  intros n m Hs Hn Hprot Hh Hp Hm Hkey.
  destruct (session_runs (R := R) self V w settings limit now delta cap cap_ms pt payloadData hdr Hs)
    as (self' & V' & pkts & wire & frame & media & mask & gens' & E & Hframe & HZ & Hmn & Hwl & F & Hok & _ & Hrun);
    [done..|].
  fold n in HZ, Hmn, Hwl, F, Hok, Hrun. fold m in Hmn, Hwl, Hok, Hrun.
  exists self', V', pkts, wire, frame. split; [exact E|]. clear E. split; [done|]. split; [done|].
  intros fuel in_order arrived lost Hfuel Hin Harr.
  destruct (Hrun fuel in_order arrived Hfuel Hin) as (rxs & rets & w' & Ei & H0 & Hmed & Hfec & Hall).
  exists rets, w'. split; [exact Ei|]. split; [done|]. apply Hall.
  assert (Hgot : forall j, 0 <= j < Z.of_nat n -> j <> Z.of_nat lost -> media_arrives media (sequence_number_ self) j rxs).
  { intros j Hj Hne. destruct (lookup_lt_is_Some_2 wire (Z.to_nat j)) as [p Hpi]; [lia|].
    specialize (Hmed _ p Hpi). rewrite Z2Nat.id in Hmed by lia. apply Hmed; [|lia]. apply (Harr _ _ Hpi). lia. }
  destruct (decide (lost < n)%nat) as [Hl|Hl].
  - assert (Hsf := single_follows alloc (generated_fec_packets_ (producer_fec_ V)) media _ _ _ _ _ _ mask gens' rxs (Z.of_nat lost) F).
    cbv zeta in Hsf. rewrite HZ in Hsf. fold m in Hsf. apply Hsf; [done|done|]. intros j Hj.
    destruct (lookup_lt_is_Some_2 wire (n + Z.to_nat j)%nat) as [p Hpi]; [lia|].
    apply (Hfec j p Hpi); [|done]. apply (Harr _ _ Hpi). lia.
  - intros j Hj. apply derive_received. rewrite HZ. split; [done|]. apply Hgot; [done|lia].
Qed.
End sessions.

(** ** A frame of five packets *)

Definition ex_known (pt : Z) : bool := pt =? 96.
Definition ex_video (rate : Z) (ty : FecMaskType) : RTPSenderVideo :=
  mkSenderVideo 2 true 116 117
    (SetFecParameters (new_ProducerFec (replicate 48 cleared)) (mkFecParams rate false 1 ty) 1).
Definition ex_receiver : ViEReceiver (H := recorder ex_known) :=
  mkViEReceiver (H := recorder ex_known) true [] 116 117 false 0 (mkRTPPayloadRegistry (-1) (-1)) 0
    (replicate 1500 0) false new_FecReceiverImpl [].
Definition ex_plain_sender : RTPSender := new_RTPSender 7 8 100 200.

Definition ex_base_header : RTPVideoHeaderVP8 := mkRTPVideoHeaderVP8 false 300 17 0 true 5 0 false.

Lemma ex_frame_packets : frame_packets unit (replicate 150 7) ex_base_header 40 = 5%nat.
Proof. vm_compute. reflexivity. Qed.

Lemma ex_session rate ty :
  0 < rate < 256 -> video_session ex_known ex_plain_sender (ex_video rate ty) ex_receiver 96 40 5.
Proof.
  intros Hr. assert (Hm := GetNumberOfFecPackets_bounds 5 rate ltac:(lia) Hr).
  split; try done.
  - by apply new_RTPSender_inv.
  - change (sequence_number_ ex_plain_sender) with 201. cbn. change (Z.of_nat 5) with 5. lia.
Qed.

Lemma ex_base_header_ok : vp8_ok ex_base_header.
Proof. split; simpl; unfold kNoPictureId, kNoTl0PicIdx, kNoTemporalIdx, kNoKeyIdx; lia. Qed.

(** The first two packets are lost, and the others arrive from the last to the first. *)
Lemma frame_survives_burst_witness :
  exists self' V' pkts wire frame,
    SendVP8 (H := red_sender ex_alloc 0 0 9) (R := unit) ex_plain_sender ([], ex_video 100 kFecMaskBursty) 2 40 0 96 5 9
      (replicate 150 7) 150 ex_base_header = Cont (0, self', (wire, V'), pkts)
    /\ length wire = 7%nat /\ frame_of ex_plain_sender 96 5 ex_base_header (replicate 150 7) frame
    /\ exists rets w', insert_all (R := unit) ex_alloc 0 49 ex_receiver (fun _ => true) (reverse (drop 2 wire)) = Cont (rets, w')
       /\ Forall (fun ret => ret = 0) rets /\ forall e, e ∈ rtp_receiver_ w' <-> e ∈ frame.
Proof.
  destruct (frame_survives_burst ex_alloc ex_alloc 0) with (R := unit) (known_type := ex_known) (self := ex_plain_sender)
    (V := ex_video 100 kFecMaskBursty) (w := ex_receiver) (settings := 2) (limit := 40) (now := 0) (delta := 0)
    (cap := 5) (cap_ms := 9) (pt := 96) (payloadData := replicate 150 7) (hdr := ex_base_header)
    as (self' & V' & pkts & wire & frame & E & Hl & Hf & H).
  - intros n Hn. by apply Zlen_replicate.
  - intros n Hn. by apply Zlen_replicate.
  - rewrite ex_frame_packets. by apply ex_session.
  - rewrite ex_frame_packets. lia.
  - done.
  - done.
  - done.
  - apply ex_base_header_ok.
  - done.
  - done.
  - vm_compute. reflexivity.
  - rewrite ex_frame_packets in Hl, H. exists self', V', pkts, wire, frame. split; [exact E|]. clear E.
    split; [exact Hl|]. split; [done|]. apply (H 49%nat (fun _ => true) _ 0%nat 2%nat); [lia| |vm_compute; discriminate|].
    + intros p. rewrite elem_of_reverse. intros [i Hi]%list_elem_of_lookup. rewrite lookup_drop in Hi. by eapply list_elem_of_lookup_2.
    + intros i p Hi Hno. apply elem_of_reverse, list_elem_of_lookup. exists (i - 2)%nat. rewrite lookup_drop.
      by replace (2 + (i - 2))%nat with i by lia.
Defined.

(** The third packet is lost. *)
Lemma frame_survives_one_loss_witness :
  exists self' V' pkts wire frame,
    SendVP8 (H := red_sender ex_alloc 0 0 9) (R := unit) ex_plain_sender ([], ex_video 20 kFecMaskRandom) 2 40 0 96 5 9
      (replicate 150 7) 150 ex_base_header = Cont (0, self', (wire, V'), pkts)
    /\ length wire = 6%nat /\ frame_of ex_plain_sender 96 5 ex_base_header (replicate 150 7) frame
    /\ exists rets w', insert_all (R := unit) ex_alloc 0 49 ex_receiver (fun _ => true) (drop 3 wire ++ take 2 wire) = Cont (rets, w')
       /\ Forall (fun ret => ret = 0) rets /\ forall e, e ∈ rtp_receiver_ w' <-> e ∈ frame.
Proof.
  destruct (frame_survives_one_loss ex_alloc ex_alloc 0) with (R := unit) (known_type := ex_known) (self := ex_plain_sender)
    (V := ex_video 20 kFecMaskRandom) (w := ex_receiver) (settings := 2) (limit := 40) (now := 0) (delta := 0)
    (cap := 5) (cap_ms := 9) (pt := 96) (payloadData := replicate 150 7) (hdr := ex_base_header)
    as (self' & V' & pkts & wire & frame & E & Hl & Hf & H).
  - intros n Hn. by apply Zlen_replicate.
  - intros n Hn. by apply Zlen_replicate.
  - rewrite ex_frame_packets. by apply ex_session.
  - rewrite ex_frame_packets. lia.
  - done.
  - apply ex_base_header_ok.
  - done.
  - done.
  - vm_compute. reflexivity.
  - rewrite ex_frame_packets in Hl. exists self', V', pkts, wire, frame. split; [exact E|]. clear E.
    split; [exact Hl|]. split; [done|]. apply (H 49%nat (fun _ => true) _ 2%nat); [lia| |].
    + intros p [[i Hi]%list_elem_of_lookup|[i Hi]%list_elem_of_lookup]%elem_of_app.
      * rewrite lookup_drop in Hi. by eapply list_elem_of_lookup_2.
      * apply lookup_take_Some in Hi as [Hi _]. by eapply list_elem_of_lookup_2.
    + intros i p Hi Hne. apply elem_of_app. destruct (decide (i < 2)%nat) as [Hlt|Hge].
      * right. apply list_elem_of_lookup. exists i. by rewrite lookup_take_lt.
      * left. apply list_elem_of_lookup. exists (i - 3)%nat. rewrite lookup_drop. by replace (3 + (i - 3))%nat with i by lia.
Defined.
