(* ===== verification/RedErrors.v ===== *)
(** * A RED packet in a RED packet

    ProcessReceivedFec hands the first packet of its list to the callback before it takes
    the packet off the list.  When that packet has a RED header again, the callback adds
    its content to the end of the list and calls ProcessReceivedFec, which finds the same
    packet in front: the calls nest without end. *)
From S2P Require Import Prelude Pointwise RtpWire RtpExtMap RtpHeader RtpSender RtpRoundTrip RtpSession FecTables FecPacket FecBurst FecRecover FecReceive Red RedReceive VieReceive RedStream RedSession RedVideo.
Local Open Scope Z_scope.

Section nested.
Context `{RtpReceiver} (alloc : Z -> list Z) (uninitialised : Z).
Hypothesis alloc_length : forall n, 0 <= n -> Zlen (alloc n) = n.
Context (self0 : RTPSender) (cap : Z).
Hypothesis Hinv0 : sender_inv self0.
Hypothesis Hmap0 : rtp_header_extension_map_ self0 = [].
Context (red fec_pt : Z) (marker : bool) (sn t : Z) (rest : list Z).
Hypothesis red_range : 0 <= red < 128.
Hypothesis fec_range : 0 <= fec_pt < 128.
Hypothesis t_range : 0 <= t < 128.
Hypothesis red_fec : red <> fec_pt.
Hypothesis t_fec : t <> fec_pt.
Hypothesis sn_range : is_u16 sn.
Hypothesis fits : RTPHeaderLength self0 + 1 + Zlen rest <= IP_PACKET_SIZE.

(** The packet that arrives, what is in it and what is in that. *)
Definition outer : list Z := frame_hdr self0 cap red marker sn ++ [red] ++ (t :: rest).
Definition inner : list Z := frame_hdr self0 cap red marker sn ++ [t] ++ rest.
Definition rx_inner : ReceivedPacket :=
  mkReceived sn uninitialised false
    (mkPacket (RTPHeaderLength self0 + 1 + Zlen rest) (put (alloc IP_PACKET_SIZE) 0 inner)).
Definition rx_innermost : ReceivedPacket :=
  mkReceived sn uninitialised false
    (mkPacket (RTPHeaderLength self0 + Zlen rest) (put (alloc IP_PACKET_SIZE) 0 (frame_hdr self0 cap t marker sn ++ rest))).
Definition nested_header : RTPHeader := video_frequency (frame_parsed self0 cap red marker sn).

(** A receiver with RED that has no packets of streams that are sent again. *)
Definition red_receiver (w : ViEReceiver) : Prop :=
  receiving_ w = true /\ rtp_header_parser_ w = [] /\ red_payload_type_ w = red /\
  ulpfec_payload_type_ w = fec_pt /\ rtx_ w = false.

Lemma red_inner {R} :
  red_packets (R := R) alloc uninitialised nested_header inner (Zlen inner) fec_pt = Cont (0, [rx_innermost]).
Proof.
  destruct (hdr_length self0 cap Hinv0 Hmap0) as [HL Hl]. unfold inner, nested_header, rx_innermost.
  rewrite !(frame_hdr_hdr self0 cap) by done.
  rewrite (red_packets_media alloc uninitialised alloc_length _ _ _ _ _ _ _ _ _ (RTPHeaderLength self0)) by (done || lia || by apply (frame_hdr_length self0 cap)).
  done.
Qed.

Lemma red_outer {R} :
  red_packets (R := R) alloc uninitialised nested_header outer (Zlen outer) fec_pt = Cont (0, [rx_inner]).
Proof.
  destruct (hdr_length self0 cap Hinv0 Hmap0) as [HL Hl]. unfold outer, nested_header, rx_inner, inner.
  rewrite !(frame_hdr_hdr self0 cap) by done.
  rewrite (red_packets_media alloc uninitialised alloc_length _ _ _ _ _ _ _ _ _ (RTPHeaderLength self0))
    by (rewrite ?Zlen_cons; done || lia || by apply (frame_hdr_length self0 cap)).
  rewrite Zlen_cons. by rewrite Z.add_assoc.
Qed.

Lemma inner_bytes : Zlen inner = RTPHeaderLength self0 + 1 + Zlen rest.
Proof. unfold inner. rewrite !Zlen_app, (frame_hdr_length self0 cap) by done. change (Zlen [t]) with 1. lia. Qed.

Lemma nested_rd {R} x l :
  rd (R := R) (frame_hdr self0 cap red marker sn ++ x :: l) (headerLength nested_header) = Cont x.
Proof. by apply rd_after. Qed.

Lemma nested_red w : red_receiver w -> IsRed w nested_header = true.
Proof. intros (_ & _ & E & _). unfold IsRed. rewrite E. by apply Z.eqb_eq. Qed.

(** The call of ReceivePacket for a packet with a RED header whose content is [rx]. *)
Lemma Receive_red {R} fuel w packet io rx x l rs d :
  red_receiver w -> fec_receiver_ w = mkFecReceiver l rs d ->
  rd (R := R) packet (headerLength nested_header) = Cont x ->
  red_packets (R := R) alloc uninitialised nested_header packet (Zlen packet) fec_pt = Cont (0, [rx]) ->
  ReceivePacket (R := R) alloc uninitialised (S fuel) w packet nested_header io
  = let! (ret, w) := ProcessReceivedFec fec_receiver_ with_fec (OnRecoveredPacket alloc uninitialised fuel) fuel
      (with_fec (mkFecReceiver (l ++ [rx]) rs d) w) in
    Cont (ret =? 0, w).
Proof.
  intros Hw Ef Hrd Hred. assert (Hir := nested_red w Hw). destruct Hw as (_ & _ & _ & Eu & _).
  cbn [ReceivePacket]. unfold IsEncapsulated. rewrite Hir. cbn [orb].
  unfold ParseAndHandleEncapsulatingHeader. rewrite Hir, Hrd. cbn [flow_bind]. unfold AddReceivedRedPacket.
  rewrite Eu, u8_id by (unfold is_u8; lia). rewrite Hred, Ef. done.
Qed.

(** The packet in front is handed to the callback. *)
Lemma front_inner {R} fuel w l rs d :
  red_receiver w -> fec_receiver_ w = mkFecReceiver (rx_inner :: l) rs d ->
  OnRecoveredPacket (R := R) alloc uninitialised fuel w (rx_pkt rx_inner)
  = ReceivePacket alloc uninitialised fuel w inner nested_header false.
Proof.
  intros (_ & Ep & _) Ef. unfold OnRecoveredPacket. cbn [rx_pkt rx_inner pkt_data pkt_length].
  rewrite put_0, blk_get_front by (symmetry; apply inner_bytes). cbn [flow_bind].
  rewrite Ep. unfold inner. rewrite (frame_hdr_parsed self0 cap) by done. done.
Qed.

Lemma nested_call {R} fuel w l rs d io :
  red_receiver w -> fec_receiver_ w = mkFecReceiver (rx_inner :: l) rs d ->
  exists k, ReceivePacket (R := R) alloc uninitialised (S fuel) w inner nested_header io
    = let! r := ReceivePacket alloc uninitialised fuel
        (with_fec (mkFecReceiver (rx_inner :: l ++ [rx_innermost]) rs d) w) inner nested_header false in k r.
Proof.
  intros Hw Ef. rewrite (Receive_red fuel w inner io rx_innermost t (rx_inner :: l) rs d); [|done|done|apply nested_rd|apply red_inner].
  set (w' := with_fec _ w). unfold ProcessReceivedFec. change (fec_receiver_ w') with (mkFecReceiver (rx_inner :: l ++ [rx_innermost]) rs d).
  cbn [received_packet_list_]. change (rx_is_fec rx_inner) with false. cbn [negb].
  rewrite (front_inner fuel w' (l ++ [rx_innermost]) rs d) by done. rewrite !flow_bind_assoc. by eexists.
Qed.

Lemma nested_insert {R} w rs d in_order :
  red_receiver w -> fec_receiver_ w = mkFecReceiver [] rs d ->
  exists w', red_receiver w' /\ fec_receiver_ w' = mkFecReceiver [rx_inner] rs d /\
    forall fuel, exists k, InsertRTPPacket (R := R) alloc uninitialised (S fuel) w outer in_order
      = let! r := ReceivePacket alloc uninitialised fuel w' inner nested_header false in k r.
Proof.
  intros Hw Ef. set (r := mkRTPPayloadRegistry (registry_payload_type_rtx_ (rtp_payload_registry_ w)) red).
  exists (with_fec (mkFecReceiver [rx_inner] rs d) (with_registry r w)). split; [done|]. split; [done|].
  intros fuel. unfold InsertRTPPacket. assert (Hw' := Hw). destruct Hw' as (E1 & E2 & _ & _ & E5).
  rewrite E1, E2. cbn [negb]. unfold outer at 1. rewrite (frame_hdr_parsed self0 cap) by done. cbn [flow_bind negb].
  unfold SetIncomingPayloadType, IsRtx. rewrite E5. cbn [andb]. fold nested_header. change (payloadType nested_header) with red.
  fold r. set (w1 := with_registry r w).
  rewrite (Receive_red fuel w1 outer _ rx_inner red [] rs d); [|done|done|apply nested_rd|apply red_outer].
  cbn [app]. set (w2 := with_fec _ w1). unfold ProcessReceivedFec. change (fec_receiver_ w2) with (mkFecReceiver [rx_inner] rs d).
  cbn [received_packet_list_]. change (rx_is_fec rx_inner) with false. cbn [negb].
  rewrite (front_inner fuel w2 [] rs d) by done. rewrite !flow_bind_assoc. by eexists.
Qed.

Lemma nested_stuck {R} fuel w l rs d io :
  red_receiver w -> fec_receiver_ w = mkFecReceiver (rx_inner :: l) rs d ->
  ReceivePacket (R := R) alloc uninitialised fuel w inner nested_header io = Stuck.
Proof.
  revert w l io. induction fuel as [|fuel IH]; intros w l io Hw Ef; [done|].
  destruct (nested_call (R := R) fuel w l rs d io Hw Ef) as (k & ->).
  by rewrite (IH _ (l ++ [rx_innermost]) false).
Qed.

(** C35: a RED packet that contains a RED packet is never done with: the calls nest until
    the stack is full.  InsertRTPPacket reaches a state with the inner packet in front of
    the list and calls ReceivePacket for it; in every such state ReceivePacket makes the
    list longer and calls itself for the same packet; so no depth of calls is enough. *)
Theorem red_in_red {R} w rs d in_order :
  red_receiver w -> fec_receiver_ w = mkFecReceiver [] rs d ->
  (exists w', red_receiver w' /\ fec_receiver_ w' = mkFecReceiver [rx_inner] rs d /\
     forall fuel, exists k, InsertRTPPacket (R := R) alloc uninitialised (S fuel) w outer in_order
       = let! r := ReceivePacket alloc uninitialised fuel w' inner nested_header false in k r)
  /\ (forall fuel w' l io, red_receiver w' -> fec_receiver_ w' = mkFecReceiver (rx_inner :: l) rs d ->
     exists k, ReceivePacket (R := R) alloc uninitialised (S fuel) w' inner nested_header io
       = let! r := ReceivePacket alloc uninitialised fuel
           (with_fec (mkFecReceiver (rx_inner :: l ++ [rx_innermost]) rs d) w') inner nested_header false in k r)
  /\ forall fuel, InsertRTPPacket (R := R) alloc uninitialised fuel w outer in_order = Stuck.
Proof.
  intros Hw Ef. destruct (nested_insert (R := R) w rs d in_order Hw Ef) as (w' & Hw' & Ef' & Hk).
  split; [by exists w'|]. split; [intros; by apply nested_call|].
  intros [|fuel]; [|destruct (Hk fuel) as (k & ->); by rewrite (nested_stuck fuel w' [] rs d false)].
  unfold InsertRTPPacket. destruct Hw as (E1 & E2 & _ & _ & E5). rewrite E1, E2. cbn [negb].
  unfold outer at 1. by rewrite (frame_hdr_parsed self0 cap).
Qed.
End nested.

(** A packet of 16 bytes. *)
Lemma red_in_red_witness :
  red_receiver 116 117 ex_receiver /\
  forall fuel, InsertRTPPacket (R := unit) ex_alloc 0 fuel ex_receiver
    ([128; 244; 0; 5; 0; 0; 1; 0; 0; 0; 0; 7] ++ [116; 96; 1; 2]) (fun _ => true) = Stuck.
Proof.
  split; [done|].
  destruct (red_in_red (H := recorder ex_known) ex_alloc 0) with (R := unit) (self0 := set_start ex_plain_sender true 0) (cap := 256) (red := 116) (fec_pt := 117) (marker := true)
    (sn := 5) (t := 96) (rest := [1; 2]) (w := ex_receiver) (rs := @nil RecoveredPacket) (d := mkDecoder [] false)
    (in_order := fun _ : RTPHeader => true) as (_ & _ & H); try done.
  - intros n Hn. by apply Zlen_replicate.
  - apply (step_keeps ex_plain_sender); [by apply (step_start _ ex_plain_sender 0 true)|by apply new_RTPSender_inv].
Defined.
