(* ===== verification/RtpResend.v ===== *)
(** * Sending packets again

    Models the retransmission of [modules/rtp_rtcp/source/rtp_sender.cc]: a receiver asks
    for packets by their numbers (NACK), and the sender fetches them from the history and
    sends them again, within a bandwidth; and TimeToSendPacket, by which the pacer sends a
    packet.  The statistics of rates, delays and counters are left out. *)
From S2P Require Import Prelude Pointwise RtpWire RtpExtMap RtpHeader RtpSender Vp8Session Pacer RedSender.
Local Open Scope Z_scope.

Definition NACK_BYTECOUNT_SIZE : Z := 60.
Definition kRtxOff : Z := 0.
Definition kRtxRetransmitted : Z := 1.
Definition kRtxRedundantPayloads : Z := 2.

(** The members of RTPSender that the functions here use and those of [RtpSender] do not;
    the bytes that were sent for the last requests and when, the newest first. *)
Record NackSender : Type := mkNackSender {
  sending_media_ : bool;
  payload_type_ : Z;
  rtx_ : Z;
  target_bitrate_ : Z;
  nack_byte_count_times_ : list Z;
  nack_byte_count_ : list Z
}.

Definition new_NackSender : NackSender :=
  mkNackSender true (-1) kRtxOff 0 (replicate (Z.to_nat NACK_BYTECOUNT_SIZE) 0) (replicate (Z.to_nat NACK_BYTECOUNT_SIZE) 0).

Definition SetTargetBitrate (st : NackSender) (bitrate : Z) : NackSender :=
  mkNackSender (sending_media_ st) (payload_type_ st) (rtx_ st) bitrate (nack_byte_count_times_ st) (nack_byte_count_ st).
Definition GetTargetBitrate (st : NackSender) : Z := target_bitrate_ st.

Definition set_nacks (st : NackSender) (times counts : list Z) : NackSender :=
  mkNackSender (sending_media_ st) (payload_type_ st) (rtx_ st) (target_bitrate_ st) times counts.

(** ** The bandwidth of retransmission *)

(** The bytes of the last second; [num] is the number of requests. *)
Fixpoint nack_bytes (now : Z) (times counts : list Z) (num byte_count : Z) : Z * Z :=
  match times, counts with
  | t :: times, c :: counts =>
      if 1000 <? u32 (now - t) then (num, byte_count)
      else nack_bytes now times counts (num + 1) (s32 (byte_count + c))
  | _, _ => (num, byte_count)
  end.

Definition ProcessNACKBitRate {R : Type} (st : NackSender) (now : Z) : flow R bool :=
  let target_bitrate := GetTargetBitrate st in
  if target_bitrate =? 0 then Cont true
  else
    let '(num, byte_count) := nack_bytes now (nack_byte_count_times_ st) (nack_byte_count_ st) 0 0 in
    let! time_interval :=
      if num =? NACK_BYTECOUNT_SIZE then
        let! t := rd (nack_byte_count_times_ st) (num - 1) in
        Cont (if t <=? now then u32 (now - t) else 1000)
      else Cont 1000 in
    Cont (s32 (byte_count * 8) <? s32 (u32 (Z.quot target_bitrate 1000 * time_interval))).

(** The loop that moves the entries from [i] down to 0 by one. *)
Fixpoint shift_loop {R : Type} (i : nat) (counts times : list Z) : flow R (list Z * list Z) :=
  let! c := rd counts (Z.of_nat i) in
  let! counts := wr counts (Z.of_nat i + 1) c in
  let! t := rd times (Z.of_nat i) in
  let! times := wr times (Z.of_nat i + 1) t in
  match i with
  | O => Cont (counts, times)
  | S i => shift_loop i counts times
  end.

Definition UpdateNACKBitRate {R : Type} (st : NackSender) (bytes now : Z) : flow R NackSender :=
  let counts := nack_byte_count_ st in
  let times := nack_byte_count_times_ st in
  if negb (0 <? bytes) then Cont st
  else if now =? 0 then
    let! c := rd counts 0 in
    let! counts := wr counts 0 (s32 (c + bytes)) in
    Cont (set_nacks st times counts)
  else
    let! t := rd times 0 in
    let! (counts, times) :=
      if t =? 0 then Cont (counts, times) else shift_loop (Z.to_nat (NACK_BYTECOUNT_SIZE - 2)) counts times in
    let! counts := wr counts 0 (s32 bytes) in
    let! times := wr times 0 now in
    Cont (set_nacks st times counts).

Definition SendingMedia (st : NackSender) : bool := sending_media_ st.

Section resending.
Context `{Network} (alloc : Z -> list Z).

(** The packet is the first [length] bytes of [buffer]. *)
Definition PrepareAndSendPacket {R : Type} (self : RTPSender) (n : net) (now_ms : Z) (buffer : list Z)
  (length capture_time_ms : Z) (send_over_rtx : bool) : flow R (bool * RTPSender * net) :=
  let! packet := blk_get buffer 0 length in
  let! (_, rtp_header) := Parse packet None new_RTPHeader in
  let! (length, buffer, self) :=
    if send_over_rtx then BuildRtxPacket self buffer length (alloc IP_PACKET_SIZE) else Cont (length, buffer, self) in
  let! packet := blk_get buffer 0 length in
  let! packet := UpdateTransmissionTimeOffset self packet length rtp_header (now_ms - capture_time_ms) in
  let! packet := UpdateAbsoluteSendTime self packet length rtp_header now_ms in
  let '(ret, n) := SendPacketToNetwork n packet in
  Cont (ret, if ret then media_sent self else self, n).

Definition over_rtx (st : NackSender) : bool := 0 <? Z.land (rtx_ st) kRtxRetransmitted.

(** The bytes that were sent, 0 when the packet is not there or may not be sent, or -1. *)
Definition ReSendPacket {R : Type} (self : RTPSender) (n : net) (st : NackSender) (now_ms clock_delta_ms : Z)
  (packet_id min_resend_time : Z) : flow R (Z * RTPSender * net) :=
  let! (found, n) :=
    packet_history_GetPacketAndSetSendTime n now_ms packet_id min_resend_time true (alloc IP_PACKET_SIZE) in
  match found with
  | None => Cont (0, self, n)
  | Some (data_buffer, length, capture_time_ms) =>
      let send (n : net) : flow R (Z * RTPSender * net) :=
        let! (ret, self, n) := PrepareAndSendPacket self n now_ms data_buffer length capture_time_ms (over_rtx st) in
        Cont (if ret then length else -1, self, n) in
      if paced_sender_ then
        let! packet := blk_get data_buffer 0 length in
        let! (parsed, header) := Parse packet None new_RTPHeader in
        if negb parsed then Cont (-1, self, n)
        else
          let '(go, n) :=
            paced_sender_SendPacket n now_ms kHighPriority (ssrc header) (sequenceNumber header)
              (capture_time_ms + clock_delta_ms) (length - headerLength header) true in
          if negb go then Cont (length, self, n) else send n
      else send n
  end.

(** The bytes of the round trip time at the bit rate. *)
Definition target_bytes (target_bitrate avg_rtt : Z) : Z := Z.shiftr (u32 (Z.quot target_bitrate 1000 * avg_rtt)) 3.

Fixpoint nack_loop {R : Type} (self : RTPSender) (n : net) (st : NackSender) (now_ms clock_delta_ms : Z)
  (nack_sequence_numbers : list Z) (avg_rtt bytes_re_sent : Z) : flow R (Z * RTPSender * net) :=
  match nack_sequence_numbers with
  | [] => Cont (bytes_re_sent, self, n)
  | sn :: sns =>
      let! (bytes_sent, self, n) := ReSendPacket self n st now_ms clock_delta_ms sn (5 + avg_rtt) in
      if bytes_sent =? 0 then nack_loop self n st now_ms clock_delta_ms sns avg_rtt bytes_re_sent
      else if bytes_sent <? 0 then Cont (bytes_re_sent, self, n)
      else
        let bytes_re_sent := u32 (bytes_re_sent + bytes_sent) in
        if negb (GetTargetBitrate st =? 0) && negb (avg_rtt =? 0)
           && (target_bytes (GetTargetBitrate st) avg_rtt <? bytes_re_sent)
        then Cont (bytes_re_sent, self, n)
        else nack_loop self n st now_ms clock_delta_ms sns avg_rtt bytes_re_sent
  end.

Definition OnReceivedNACK {R : Type} (self : RTPSender) (n : net) (st : NackSender) (now_ms clock_delta_ms : Z)
  (nack_sequence_numbers : list Z) (avg_rtt : Z) : flow R (RTPSender * net * NackSender) :=
  let! enough := ProcessNACKBitRate st (u32 now_ms) in
  if negb enough then Cont (self, n, st)
  else
    let! (bytes_re_sent, self, n) :=
      nack_loop self n st now_ms clock_delta_ms nack_sequence_numbers avg_rtt 0 in
    if 0 <? bytes_re_sent then
      let! st := UpdateNACKBitRate st bytes_re_sent (u32 now_ms) in Cont (self, n, st)
    else Cont (self, n, st).

(** By the pacer; a packet that is not there any more holds nothing up. *)
Definition TimeToSendPacket {R : Type} (self : RTPSender) (n : net) (st : NackSender) (now_ms : Z)
  (sequence_number capture_time_ms : Z) (retransmission : bool) : flow R (bool * RTPSender * net) :=
  let! (found, n) :=
    packet_history_GetPacketAndSetSendTime n now_ms sequence_number 0 retransmission (alloc IP_PACKET_SIZE) in
  match found with
  | None => Cont (true, self, n)
  | Some (data_buffer, length, _) =>
      PrepareAndSendPacket self n now_ms data_buffer length capture_time_ms (retransmission && over_rtx st)
  end.

(** ** Padding *)

(** Packets of the history again, on the RTX stream, instead of padding; [None] is the
    result -1. *)
Fixpoint redundant_loop {R : Type} (fuel : nat) (self : RTPSender) (n : net) (now_ms bytes_left : Z)
  : flow R (option Z * RTPSender * net) :=
  if bytes_left <=? 0 then Cont (Some bytes_left, self, n)
  else
    match fuel with
    | O => Stuck
    | S fuel =>
        let! found := packet_history_GetBestFittingPacket n (alloc IP_PACKET_SIZE) (u16 bytes_left) in
        match found with
        | None => Cont (Some bytes_left, self, n)
        | Some (buffer, length, capture_time_ms) =>
            let! (ret, self, n) := PrepareAndSendPacket self n now_ms buffer length capture_time_ms true in
            if negb ret then Cont (None, self, n)
            else
              let! packet := blk_get buffer 0 length in
              let! (_, rtp_header) := Parse packet None new_RTPHeader in
              redundant_loop fuel self n now_ms (bytes_left - (length - headerLength rtp_header))
        end
    end.

Definition SendRedundantPayloads {R : Type} (fuel : nat) (self : RTPSender) (n : net) (now_ms bytes_to_send : Z)
  : flow R (Z * RTPSender * net) :=
  let! (rest, self, n) := redundant_loop fuel self n now_ms bytes_to_send in
  Cont (match rest with Some bytes_left => bytes_to_send - bytes_left | None => -1 end, self, n).

(** The number and the stream of a packet of padding; [None] when there can be none now. *)
Definition pad_stream (self : RTPSender) (st : NackSender) : option (Z * Z * RTPSender) :=
  if rtx_ st =? kRtxOff then
    if negb (last_packet_marker_bit_ self) then None
    else let '(sn, self) := IncrementSequenceNumber self in Some (ssrc_ self, sn, self)
  else if negb (media_has_been_sent_ self)
          && negb (IsRegistered (rtp_header_extension_map_ self) kRtpExtensionAbsoluteSendTime) then None
  else
    Some (ssrc_rtx_ self, sequence_number_rtx_ self,
          set_rtx self (ssrc_rtx_ self) (u16 (sequence_number_rtx_ self + 1)) (payload_type_rtx_ self)).

(** One packet of padding; [rand] is the source of the random words. *)
Fixpoint pad_loop {R : Type} (fuel : nat) (self : RTPSender) (n : net) (st : NackSender) (rand : Z -> list Z)
  (now_ms payload_type timestamp capture_time_ms bytes bytes_sent : Z) : flow R (Z * RTPSender * net) :=
  if bytes <=? 0 then Cont (bytes_sent, self, n)
  else
    match fuel with
    | O => Stuck
    | S fuel =>
        let bytes := if bytes <? kMaxPaddingLength then kMaxPaddingLength else bytes in
        match pad_stream self st with
        | None => Cont (bytes_sent, self, n)
        | Some (ssrc, sequence_number, self) =>
            let! (header_length, padding_packet) :=
              CreateRTPHeader self (alloc IP_PACKET_SIZE) payload_type ssrc false timestamp sequence_number [] 0 in
            let! (padding, padding_packet) := BuildPaddingPacket padding_packet header_length bytes rand in
            let length := padding + header_length in
            let! packet := blk_get padding_packet 0 length in
            let! (_, rtp_header) := Parse packet None new_RTPHeader in
            let! packet :=
              if 0 <? capture_time_ms
              then UpdateTransmissionTimeOffset self packet length rtp_header (now_ms - capture_time_ms)
              else Cont packet in
            let! packet := UpdateAbsoluteSendTime self packet length rtp_header now_ms in
            let '(sent, n) := SendPacketToNetwork n packet in
            if negb sent then Cont (bytes_sent, self, n)
            else
              pad_loop fuel self n st rand now_ms payload_type timestamp capture_time_ms (bytes - padding)
                (bytes_sent + padding)
        end
    end.

(** A turn for every packet of padding. *)
Definition SendPadData {R : Type} (self : RTPSender) (n : net) (st : NackSender) (rand : Z -> list Z)
  (now_ms payload_type timestamp capture_time_ms bytes : Z) : flow R (Z * RTPSender * net) :=
  if negb (SendingMedia st) then Cont (bytes, self, n)
  else
    pad_loop (S (Z.to_nat (Z.quot bytes kMaxPaddingLength))) self n st rand now_ms payload_type timestamp
      capture_time_ms bytes 0.

(** [fuel] is for the packets that are sent again. *)
Definition TimeToSendPadding {R : Type} (fuel : nat) (self : RTPSender) (n : net) (st : NackSender)
  (rand : Z -> list Z) (now_ms bytes : Z) : flow R (Z * RTPSender * net) :=
  if negb (sending_media_ st) then Cont (0, self, n)
  else
    let redundant := negb (Z.land (rtx_ st) kRtxRedundantPayloads =? 0) in
    let payload_type := if 0 <? Z.land (rtx_ st) kRtxRedundantPayloads then payload_type_rtx_ self else payload_type_ st in
    let last := last_timestamp_time_ms_ self in
    let '(timestamp, capture_time_ms) :=
      if 0 <? last
      then (u32 (timestamp_ self + (now_ms - last) * 90), capture_time_ms_ self + (now_ms - last))
      else (timestamp_ self, capture_time_ms_ self) in
    let! (bytes_sent, self, n) :=
      if redundant then SendRedundantPayloads fuel self n now_ms bytes else Cont (0, self, n) in
    let bytes := bytes - bytes_sent in
    if 0 <? bytes then
      let! (padding_sent, self, n) := SendPadData self n st rand now_ms payload_type timestamp capture_time_ms bytes in
      Cont (bytes_sent + padding_sent, self, n)
    else Cont (bytes_sent, self, n).

(** ** The module that the pacer calls *)

(** For a module with a sender of its own. *)
Definition ModuleRtpRtcpImpl_TimeToSendPacket {R : Type} (self : RTPSender) (n : net) (st : NackSender) (now_ms : Z)
  (ssrc sequence_number capture_time_ms : Z) (retransmission : bool) : flow R (bool * RTPSender * net) :=
  if SendingMedia st && (ssrc =? ssrc_ self)
  then TimeToSendPacket self n st now_ms sequence_number capture_time_ms retransmission
  else Cont (true, self, n).

Definition ModuleRtpRtcpImpl_TimeToSendPadding {R : Type} (fuel : nat) (self : RTPSender) (n : net) (st : NackSender)
  (rand : Z -> list Z) (now_ms bytes : Z) : flow R (Z * RTPSender * net) :=
  if SendingMedia st then TimeToSendPadding fuel self n st rand now_ms bytes else Cont (0, self, n).
End resending.
