(* ===== verification/SenderNet.v ===== *)
(** * The sender with its history and its pacer

    The packet history of [RtpHistory] and the pacer of [Pacer] as the parts of a network
    that keeps every packet and writes down what the transport gets; and what the sender
    does with a packet on such a network when no header extension is registered. *)
From S2P Require Import Prelude Pointwise RtpWire RtpExtMap RtpHeader RtpSender RtpRoundTrip RtpSession Vp8Session Pacer RedSender RtpResend RtpHistory RtpKept.
Local Open Scope Z_scope.

(** The default of the sender. *)
Definition max_payload_length : Z := IP_PACKET_SIZE - 28.

(** With a history, without a pacer. *)
Definition stored_wire : Network := {|
  net := RTPPacketHistory * list (list Z);
  max_payload_length_ := max_payload_length;
  packet_history_PutRTPPacket R n now packet length max capture type :=
    let! (r, h) := PutRTPPacket n.1 now packet length max capture type in Cont (r, (h, n.2));
  packet_history_GetPacketAndSetSendTime R n now seq min retransmit buffer :=
    let! (r, h) := GetPacketAndSetSendTime n.1 now seq min retransmit buffer in Cont (r, (h, n.2));
  packet_history_GetBestFittingPacket R n buffer length := GetBestFittingPacket n.1 buffer length;
  paced_sender_ := false;
  paced_sender_SendPacket n _ _ _ _ _ _ _ := (true, n);
  transport_SendPacket n packet := (Zlen packet, (n.1, n.2 ++ [packet]))
|}.

(** With both.  SendPacket of the pacer reads the milliseconds of the clock only. *)
Definition ms_clock (now_ms : Z) : Clock := mkClock now_ms (1000 * now_ms).
Definition paced_wire : Network := {|
  net := PacedSender * (RTPPacketHistory * list (list Z));
  max_payload_length_ := max_payload_length;
  packet_history_PutRTPPacket R n now packet length max capture type :=
    let! (r, m) := packet_history_PutRTPPacket (Network := stored_wire) n.2 now packet length max capture type in
    Cont (r, (n.1, m));
  packet_history_GetPacketAndSetSendTime R n now seq min retransmit buffer :=
    let! (r, m) := packet_history_GetPacketAndSetSendTime (Network := stored_wire) n.2 now seq min retransmit buffer in
    Cont (r, (n.1, m));
  packet_history_GetBestFittingPacket R n buffer length :=
    packet_history_GetBestFittingPacket (Network := stored_wire) n.2 buffer length;
  paced_sender_ := true;
  paced_sender_SendPacket n now priority ssrc sn capture bytes retransmission :=
    let '(go, p) := SendPacket n.1 (ms_clock now) priority ssrc sn capture bytes retransmission in (go, (p, n.2));
  transport_SendPacket n packet :=
    let '(sent, m) := transport_SendPacket (Network := stored_wire) n.2 packet in (sent, (n.1, m))
|}.

(** ** Packets that are not rewritten *)

Lemma no_updates {R} self packet length h now diff :
  rtp_header_extension_map_ self = [] ->
  UpdateTransmissionTimeOffset (R := R) self packet length h diff = Cont packet
  /\ UpdateAbsoluteSendTime (R := R) self packet length h now = Cont packet.
Proof.
  intros Hm. unfold UpdateTransmissionTimeOffset, UpdateAbsoluteSendTime, find_block. by rewrite Hm.
Qed.

Definition readable (packet : list Z) : Prop := exists r, forall R, Parse (R := R) packet None new_RTPHeader = Cont r.

Lemma PrepareAndSendPacket_stored {R} alloc self h w now buffer packet tail cap :
  rtp_header_extension_map_ self = [] -> readable packet -> 0 < Zlen packet -> buffer = packet ++ tail ->
  PrepareAndSendPacket (H := stored_wire) (R := R) alloc self (h, w) now buffer (Zlen packet) cap false
  = Cont (true, media_sent self, (h, w ++ [packet])).
Proof.
  intros Hm [[b x] Hx] Hl ->. pose proof (Zlen_nonneg tail). unfold PrepareAndSendPacket.
  rewrite blk_get_Cont, zdrop_0, ztake_front by (rewrite ?Zlen_app; done || lia). cbn [flow_bind].
  rewrite Hx. cbn [flow_bind]. rewrite blk_get_Cont, zdrop_0, ztake_front by (rewrite ?Zlen_app; done || lia). cbn [flow_bind].
  destruct (no_updates (R := R) self packet (Zlen packet) x now (now - cap) Hm) as [E1 E2]. rewrite E1. cbn [flow_bind]. rewrite E2. cbn [flow_bind].
  unfold SendPacketToNetwork. cbn [transport_SendPacket stored_wire fst snd]. by rewrite (proj2 (Z.leb_gt _ _)) by lia.
Qed.

(** ** The packets of the history *)

(** What is kept, whenever it was sent. *)
Definition kept (e : Stored) : Z * list Z * Z * StorageType := (st_seq e, st_bytes e, st_time e, st_type e).

Lemma kept_set_sent now (i : nat) (q : list Stored) : kept <$> alter (set_sent now) i q = kept <$> q.
Proof. revert i. induction q as [|e q IH]; intros [|i]; cbn; [done..|]. f_equal. apply IH. Qed.

Definition may_sendb (now min : Z) (retransmit : bool) (e : Stored) : bool :=
  (if 0 <? min then min <=? now - st_sent e else true) && negb (retransmit && bool_decide (st_type e = kDontRetransmit)).

Lemma may_sendb_spec now min retransmit e : may_sendb now min retransmit e = true <-> may_send now min retransmit e.
Proof.
  unfold may_sendb, may_send. rewrite andb_true_iff, negb_true_iff, andb_false_iff, bool_decide_eq_false.
  destruct (Z.ltb_spec 0 min); rewrite ?Z.leb_le; destruct retransmit; intuition (try lia; try done).
Qed.

(** With one packet for each number, what the history gives is determined. *)
Lemma Get_found {R} self n q now seq min retransmit buffer i e :
  holds self n q -> NoDup (st_seq <$> q) -> q !! i = Some e -> st_seq e = seq -> is_u16 seq ->
  max_packet_length_ self <= Zlen buffer ->
  exists self', GetPacketAndSetSendTime (R := R) self now seq min retransmit buffer
    = Cont (if may_sendb now min retransmit e then Some (put buffer 0 (st_bytes e), Zlen (st_bytes e), st_time e) else None, self')
    /\ holds self' n (if may_sendb now min retransmit e then alter (set_sent now) i q else q)
    /\ max_packet_length_ self' = max_packet_length_ self.
Proof.
  intros Hh Hd Hi Hs Hu Hb. destruct (Get_holds (R := R) self n q now seq min retransmit buffer Hh Hu Hb) as (r & self' & q' & E & Hst & Hh' & Hm).
  exists self'. rewrite E.
  assert (Huniq : forall i' e', q !! i' = Some e' -> st_seq e' = seq -> i' = i).
  { intros i' e' Hi' Hs'. apply (NoDup_lookup _ _ _ seq Hd); rewrite list_lookup_fmap; [rewrite Hi'|rewrite Hi]; cbn; congruence. }
  inversion Hst; subst.
  - match goal with H1 : q !! ?i0 = Some ?e0, H2 : st_seq ?e0 = st_seq e, H3 : may_send _ _ _ _ |- _ =>
      assert (i0 = i) by (by apply (Huniq i0 e0)); subst i0; rewrite Hi in H1; injection H1 as <-;
      apply may_sendb_spec in H3; by rewrite H3 end.
  - match goal with H1 : q' !! ?i0 = Some ?e0, H2 : st_seq ?e0 = st_seq e, H3 : ~ may_send _ _ _ _ |- _ =>
      assert (i0 = i) by (by apply (Huniq i0 e0)); subst i0; rewrite Hi in H1; injection H1 as <-;
      rewrite <- may_sendb_spec in H3; apply not_true_is_false in H3; by rewrite H3 end.
  - exfalso. match goal with H1 : st_seq e ∉ _ |- _ => apply H1, list_elem_of_fmap end. exists e. split; [done|].
    by eapply list_elem_of_lookup_2.
Qed.

Lemma Get_absent {R} self n q now seq min retransmit buffer :
  holds self n q -> seq ∉ st_seq <$> q -> is_u16 seq -> max_packet_length_ self <= Zlen buffer ->
  exists self', GetPacketAndSetSendTime (R := R) self now seq min retransmit buffer = Cont (None, self')
    /\ holds self' n q /\ max_packet_length_ self' = max_packet_length_ self.
Proof.
  intros Hh Ha Hu Hb. destruct (Get_holds (R := R) self n q now seq min retransmit buffer Hh Hu Hb) as (r & self' & q' & E & Hst & Hh' & Hm).
  exists self'. rewrite E. assert (Hno : forall i e, q !! i = Some e -> st_seq e = seq -> False).
  { intros i e Hi Hs. apply Ha, list_elem_of_fmap. exists e. split; [done|]. by eapply list_elem_of_lookup_2. }
  inversion Hst; subst; try done; exfalso; by eapply Hno.
Qed.
