(* ===== verification/Nack.v ===== *)
(** * Answering a request for packets

    What OnReceivedNACK of [RtpResend] does with a history that keeps the packets of a
    stream: a specification on the list of kept packets ([resends]), and the frame that a
    receiver repairs in this way. *)
From S2P Require Import Prelude Pointwise RtpWire RtpExtMap RtpHeader RtpSender RtpRoundTrip RtpSession Vp8Descriptor Vp8Packetizer Vp8Session Pacer RedSender RedSession RtpHistory RtpKept RtpResend SenderNet.
Local Open Scope Z_scope.

(** ** The bandwidth *)

Lemma shift_loop_spec {R} i counts times :
  Z.of_nat i + 1 < Zlen counts -> Zlen times = Zlen counts ->
  shift_loop (R := R) i counts times
  = Cont (take 1 counts ++ take (S i) counts ++ drop (S (S i)) counts, take 1 times ++ take (S i) times ++ drop (S (S i)) times).
Proof.
  assert (Hstep : forall i (l : list Z), Z.of_nat i + 1 < Zlen l ->
    let l1 := <[Z.to_nat (Z.of_nat i + 1) := zat l (Z.of_nat i)]> l in
    Zlen l1 = Zlen l /\ take 1 l1 ++ take i l1 ++ drop (S i) l1 = take 1 l ++ take (S i) l ++ drop (S (S i)) l).
  { intros j l Hj l1. assert (E : l1 = take (S j) l ++ [zat l (Z.of_nat j)] ++ drop (S (S j)) l).
    { subst l1. unfold Zlen in Hj. replace (Z.to_nat (Z.of_nat j + 1)) with (S j) by lia.
      rewrite insert_take_drop by lia. done. }
    split; [subst l1; by rewrite Zlen_insert|]. rewrite E. unfold Zlen in Hj.
    assert (Ht : length (take (S j) l) = S j) by (rewrite length_take; lia).
    rewrite !take_app_le, drop_app_ge, Ht, Nat.sub_diag, drop_0, !take_take by lia.
    rewrite !Nat.min_l by lia. f_equal. rewrite app_assoc. f_equal. symmetry. apply take_S_r.
    unfold zat. rewrite Nat2Z.id. apply list_lookup_lookup_total_lt. lia. }
  revert counts times. induction i as [|i IH]; intros counts times Hl Ht; cbn [shift_loop];
    rewrite rd_zat by lia; cbn [flow_bind]; rewrite wr_Cont by lia; cbn [flow_bind];
    rewrite rd_zat by lia; cbn [flow_bind]; rewrite wr_Cont by lia; cbn [flow_bind].
  - destruct (Hstep O counts Hl) as [_ E1]. destruct (Hstep O times ltac:(lia)) as [_ E2].
    rewrite <- E1, <- E2. cbn [app take]. change (Z.of_nat 0) with 0. destruct counts as [|c [|? ?]], times as [|t [|? ?]]; try done.
  - destruct (Hstep (S i) counts Hl) as [L1 E1]. destruct (Hstep (S i) times ltac:(lia)) as [L2 E2].
    rewrite IH by lia. by rewrite E1, E2.
Qed.

Definition nacks_ok (st : NackSender) : Prop :=
  Zlen (nack_byte_count_times_ st) = NACK_BYTECOUNT_SIZE /\ Zlen (nack_byte_count_ st) = NACK_BYTECOUNT_SIZE.

Lemma nack_bytes_num now times counts num count :
  num <= (nack_bytes now times counts num count).1 <= num + Zlen times.
Proof.
  unfold Zlen. revert counts num count.
  induction times as [|t times IH]; intros [|c counts] num count; cbn [nack_bytes fst length]; try lia.
  destruct (1000 <? _); cbn [fst]; [lia|]. specialize (IH counts (num + 1) (s32 (count + c))). lia.
Qed.

Lemma ProcessNACKBitRate_returns {R} st now : nacks_ok st -> exists b, ProcessNACKBitRate (R := R) st now = Cont b.
Proof.
  intros [Ht Hc]. unfold ProcessNACKBitRate. destruct (_ =? 0); [eauto|].
  pose proof (nack_bytes_num now (nack_byte_count_times_ st) (nack_byte_count_ st) 0 0) as Hn.
  destruct (nack_bytes _ _ _ _ _) as [num count]. cbn [fst] in Hn. unfold NACK_BYTECOUNT_SIZE in *.
  destruct (Z.eqb_spec num 60) as [->|]; [rewrite rd_zat by lia|]; cbn [flow_bind]; eauto.
Qed.

Lemma UpdateNACKBitRate_returns {R} st bytes now :
  nacks_ok st -> exists st', UpdateNACKBitRate (R := R) st bytes now = Cont st' /\ nacks_ok st'.
Proof.
  intros [Ht Hc]. unfold UpdateNACKBitRate, NACK_BYTECOUNT_SIZE in *. destruct (negb _); [eexists; split; [done|by split]|].
  destruct (now =? 0).
  - rewrite rd_zat by lia. cbn [flow_bind]. rewrite wr_Cont by lia. cbn [flow_bind]. eexists. split; [done|].
    split; cbn; rewrite ?Zlen_insert; done.
  - rewrite rd_zat by lia. cbn [flow_bind].
    assert (H : exists c t, (if zat (nack_byte_count_times_ st) 0 =? 0 then Cont (R := R) (nack_byte_count_ st, nack_byte_count_times_ st)
      else shift_loop (Z.to_nat (60 - 2)) (nack_byte_count_ st) (nack_byte_count_times_ st)) = Cont (c, t) /\ Zlen c = 60 /\ Zlen t = 60).
    { destruct (_ =? 0); [by eexists _, _|]. rewrite shift_loop_spec by lia. eexists _, _. split; [done|].
      unfold Zlen in *. rewrite !length_app, !length_take, !length_drop. split; lia. }
    destruct H as (c & t & -> & Hc' & Ht'). cbn [flow_bind]. rewrite !wr_Cont by lia. cbn [flow_bind].
    eexists. split; [done|]. split; cbn; by rewrite Zlen_insert.
Qed.

(** ** The packets that are sent again *)

(** The limit on the bytes of one answer. *)
Definition over_limit (st : NackSender) (avg_rtt total : Z) : bool :=
  negb (GetTargetBitrate st =? 0) && negb (avg_rtt =? 0) && (target_bytes (GetTargetBitrate st) avg_rtt <? total).

(** The packet with a number that is kept and may be sent. *)
Definition sendable (now min : Z) (q : list Stored) (sn : Z) : option (nat * Stored) :=
  match list_find (fun e => st_seq e = sn) q with
  | Some (i, e) => if may_sendb now min true e then Some (i, e) else None
  | None => None
  end.

(** The packets for a list of numbers, the kept packets afterwards and the sum of the bytes:
    a packet is sent when it is kept and may be sent, until the limit is passed. *)
Fixpoint resends (st : NackSender) (now avg_rtt : Z) (q : list Stored) (nacks : list Z) (total : Z)
  : list (list Z) * list Stored * Z :=
  match nacks with
  | [] => ([], q, total)
  | sn :: nacks =>
      match sendable now (5 + avg_rtt) q sn with
      | None => resends st now avg_rtt q nacks total
      | Some (i, e) =>
          let total := total + Zlen (st_bytes e) in
          let q := alter (set_sent now) i q in
          if over_limit st avg_rtt total then ([st_bytes e], q, total)
          else let '(packets, q, total) := resends st now avg_rtt q nacks total in (st_bytes e :: packets, q, total)
      end
  end.

Section answer.
Context (alloc : Z -> list Z) (st : NackSender) (n : nat).
Hypothesis alloc_length : forall k, 0 <= k -> Zlen (alloc k) = k.
Hypothesis no_rtx : over_rtx st = false.

(** A sender with a history that it can send again from. *)
Record sends_again (self : RTPSender) (h : RTPPacketHistory) (q : list Stored) : Prop := mkSendsAgain {
  sa_map : rtp_header_extension_map_ self = [];
  sa_holds : holds h n q;
  sa_limit : max_packet_length_ h <= IP_PACKET_SIZE;
  sa_numbers : NoDup (st_seq <$> q);
  sa_readable : Forall readable (st_bytes <$> q)
}.

Lemma fmap_set_sent {A} (f : Stored -> A) now i (q : list Stored) :
  (forall e, f (set_sent now e) = f e) -> f <$> alter (set_sent now) i q = f <$> q.
Proof. intros Hf. revert i. induction q as [|e q IH]; intros [|i]; cbn; [done..|by rewrite Hf|]. f_equal. apply IH. Qed.

Lemma sends_again_sent self h q h' now i :
  sends_again self h q -> holds h' n (alter (set_sent now) i q) -> max_packet_length_ h' = max_packet_length_ h ->
  sends_again (media_sent self) h' (alter (set_sent now) i q).
Proof.
  intros [H1 H2 H3 H4 H5] Hh Hm. split; [done|done|by rewrite Hm|by rewrite fmap_set_sent|by rewrite fmap_set_sent].
Qed.

Lemma ReSendPacket_stored {R} self h w q now delta sn min :
  sends_again self h q -> is_u16 sn ->
  exists h', match sendable now min q sn with
    | Some (i, e) =>
        ReSendPacket (H := stored_wire) (R := R) alloc self (h, w) st now delta sn min
        = Cont (Zlen (st_bytes e), media_sent self, (h', w ++ [st_bytes e]))
        /\ sends_again (media_sent self) h' (alter (set_sent now) i q) /\ 0 < Zlen (st_bytes e) <= IP_PACKET_SIZE
    | None =>
        ReSendPacket (H := stored_wire) (R := R) alloc self (h, w) st now delta sn min = Cont (0, self, (h', w))
        /\ sends_again self h' q
    end.
Proof.
  intros Hs Hu. assert (Hs' := Hs). destruct Hs' as [H1 H2 H3 H4 H5]. unfold sendable, ReSendPacket.
  assert (Hbuf : max_packet_length_ h <= Zlen (alloc IP_PACKET_SIZE)) by (by rewrite alloc_length).
  cbn [packet_history_GetPacketAndSetSendTime stored_wire fst snd paced_sender_].
  destruct (list_find (fun e => st_seq e = sn) q) as [[i e]|] eqn:Ef.
  - apply list_find_Some in Ef as (Hi & He & _).
    destruct (Get_found (R := R) h n q now sn min true (alloc IP_PACKET_SIZE) i e) as (h' & E & Hh' & Hm'); [done..|].
    exists h'. rewrite E. cbn [flow_bind]. destruct (may_sendb now min true e).
    + destruct (hd_at _ _ _ H2 i e Hi) as (_ & _ & _ & _ & _ & _ & Hlen).
      rewrite no_rtx, put_0. rewrite (PrepareAndSendPacket_stored alloc self h' w now _ (st_bytes e) _ _ H1) by
        (done || lia || (rewrite Forall_forall in H5; apply H5, list_elem_of_fmap; exists e; split; [done|by eapply list_elem_of_lookup_2])).
      cbn [flow_bind]. split; [done|]. split; [by apply (sends_again_sent self h)|lia].
    + split; [done|]. split; [done|done|by rewrite Hm'|done|done].
  - apply list_find_None in Ef.
    destruct (Get_absent (R := R) h n q now sn min true (alloc IP_PACKET_SIZE)) as (h' & E & Hh' & Hm'); [done| |done|done|].
    { intros (e & -> & Hin)%list_elem_of_fmap. rewrite Forall_forall in Ef. by apply (Ef e). }
    exists h'. rewrite E. cbn [flow_bind]. split; [done|]. split; [done|done|by rewrite Hm'|done|done].
Qed.

Lemma nack_loop_stored {R} self h w q now delta nacks rtt total :
  sends_again self h q -> Forall is_u16 nacks -> 0 <= total -> total + IP_PACKET_SIZE * Zlen nacks < 4294967296 ->
  exists self' h', let '(packets, q', total') := resends st now rtt q nacks total in
    nack_loop (H := stored_wire) (R := R) alloc self (h, w) st now delta nacks rtt total = Cont (total', self', (h', w ++ packets))
    /\ sends_again self' h' q' /\ (self' = self \/ self' = media_sent self).
Proof.
  revert self h w q total. induction nacks as [|sn nacks IH]; intros self h w q total Hs Hu H0 Ht; cbn [nack_loop resends].
  - exists self, h. rewrite app_nil_r. split; [done|]. split; [done|by left].
  - apply Forall_cons_1 in Hu as [Hsn Hu]. rewrite Zlen_cons in Ht. unfold IP_PACKET_SIZE in Ht.
    destruct (ReSendPacket_stored (R := R) self h w q now delta sn (5 + rtt) Hs Hsn) as (h1 & Hre).
    destruct (sendable now (5 + rtt) q sn) as [[i e]|].
    + destruct Hre as (-> & Hs1 & Hl). cbn [flow_bind]. unfold IP_PACKET_SIZE in Hl. pose proof (Zlen_nonneg nacks).
      rewrite (proj2 (Z.eqb_neq _ _)), (proj2 (Z.ltb_ge _ _)) by lia. cbv zeta.
      rewrite u32_id by (unfold is_u32; lia). fold (over_limit st rtt (total + Zlen (st_bytes e))).
      destruct (over_limit _ _ _); [exists (media_sent self), h1; split; [done|]; split; [done|by right]|].
      destruct (IH (media_sent self) h1 (w ++ [st_bytes e]) _ (total + Zlen (st_bytes e)) Hs1 Hu) as (self' & h' & H');
        [lia|unfold IP_PACKET_SIZE; lia|].
      exists self', h'. destruct (resends _ _ _ _ nacks _) as [[packets q'] total'].
      destruct H' as (-> & Hs' & Hself). rewrite <- app_assoc. split; [done|]. split; [done|]. right. by destruct Hself as [->| ->].
    + destruct Hre as (-> & Hs1). cbn [flow_bind]. change (0 =? 0) with true. cbv iota.
      by apply IH; [| | |unfold IP_PACKET_SIZE; lia].
Qed.

Lemma sendable_Some now min q sn i e :
  sendable now min q sn = Some (i, e) -> q !! i = Some e /\ st_seq e = sn /\ may_sendb now min true e = true.
Proof.
  unfold sendable. destruct (list_find _ q) as [[j x]|] eqn:E; [|done]. apply list_find_Some in E as (Hj & Hx & _).
  destruct (may_sendb now min true x) eqn:Em; [|done]. by intros [= <- <-].
Qed.

(** Only kept packets are sent. *)
Lemma resends_kept now rtt q nacks total : forall b, b ∈ (resends st now rtt q nacks total).1.1 -> b ∈ st_bytes <$> q.
Proof.
  revert q total. induction nacks as [|sn nacks IH]; intros q total b; cbn [resends]; [by intros ?%elem_of_nil|].
  destruct (sendable now (5 + rtt) q sn) as [[i e]|] eqn:E; [|apply IH]. apply sendable_Some in E as (Hi & _ & _).
  assert (He : st_bytes e ∈ st_bytes <$> q) by (apply list_elem_of_fmap; exists e; split; [done|by eapply list_elem_of_lookup_2]).
  cbv zeta. destruct (over_limit _ _ _); [by intros ->%list_elem_of_singleton|].
  specialize (IH (alter (set_sent now) i q) (total + Zlen (st_bytes e)) b). rewrite fmap_set_sent in IH by done.
  destruct (resends _ _ _ _ nacks _) as [[packets q'] total']. cbn [fst] in *. intros [->|Hin]%elem_of_cons; [done|by apply IH].
Qed.

(** Within the limit every requested packet that is kept and may be sent is sent. *)
Lemma resends_all now rtt q nacks total e :
  NoDup (st_seq <$> q) -> e ∈ q -> st_seq e ∈ nacks -> may_sendb now (5 + rtt) true e = true ->
  (forall e, e ∈ q -> Zlen (st_bytes e) <= IP_PACKET_SIZE) ->
  (forall t, t <= total + IP_PACKET_SIZE * Zlen nacks -> over_limit st rtt t = false) ->
  st_bytes e ∈ (resends st now rtt q nacks total).1.1.
Proof.
  revert q total. induction nacks as [|sn nacks IH]; intros q total Hd Hin Hsn Hm Hlen Hlim; [by apply elem_of_nil in Hsn|].
  assert (Hi := Hin). apply list_elem_of_lookup in Hi as [i Hi]. cbn [resends]. rewrite Zlen_cons in Hlim.
  assert (Huniq : forall j x, q !! j = Some x -> st_seq x = st_seq e -> j = i).
  { intros j x Hj Hx. apply (NoDup_lookup _ _ _ (st_seq e) Hd); rewrite list_lookup_fmap; [rewrite Hj|rewrite Hi]; cbn; congruence. }
  destruct (sendable now (5 + rtt) q sn) as [[j x]|] eqn:E.
  - apply sendable_Some in E as (Hj & Hx & _). assert (Hlx := Hlen x ltac:(by eapply list_elem_of_lookup_2)). cbv zeta.
    unfold IP_PACKET_SIZE in *. pose proof (Zlen_nonneg nacks). rewrite Hlim by lia.
    specialize (IH (alter (set_sent now) j q) (total + Zlen (st_bytes x))).
    destruct (resends _ _ _ _ nacks _) as [[packets q'] total']. cbn [fst] in *. apply elem_of_cons.
    destruct (decide (sn = st_seq e)) as [->|Hne].
    + left. assert (j = i) by (by apply (Huniq j x)). subst j. by assert (x = e) as -> by congruence.
    + right. apply elem_of_cons in Hsn as [Hsn|Hsn]; [by exfalso; apply Hne|].
      assert (Hji : i <> j) by (intros ->; apply Hne; congruence).
      apply IH; [by rewrite fmap_set_sent| |done|done| |].
      * eapply list_elem_of_lookup_2. rewrite list_lookup_alter_ne; [exact Hi|done].
      * intros y Hy. assert (Hb : st_bytes y ∈ st_bytes <$> alter (set_sent now) j q) by (apply list_elem_of_fmap; by exists y).
        rewrite fmap_set_sent in Hb by done. apply list_elem_of_fmap in Hb as (z & -> & Hz). by apply Hlen.
      * intros t Ht. apply Hlim. lia.
  - apply IH; [done|done| |done|done|intros t Ht; apply Hlim; unfold IP_PACKET_SIZE in *; lia].
    apply elem_of_cons in Hsn as [<-|Hsn]; [|done]. exfalso. unfold sendable in E.
    destruct (list_find (fun x => st_seq x = st_seq e) q) as [[j x]|] eqn:Ef.
    + apply list_find_Some in Ef as (Hj & Hx & _). assert (j = i) by (by apply (Huniq j x)). subst j.
      assert (x = e) as -> by congruence. by rewrite Hm in E.
    + apply list_find_None in Ef. rewrite Forall_forall in Ef. by apply (Ef e).
Qed.

Lemma OnReceivedNACK_stored {R} self h w q now delta nacks rtt :
  nacks_ok st -> sends_again self h q -> Forall is_u16 nacks -> IP_PACKET_SIZE * Zlen nacks < 4294967296 ->
  exists answered self' h' st', ProcessNACKBitRate (R := R) st (u32 now) = Cont answered /\
    let '(packets, q', total) := if answered then resends st now rtt q nacks 0 else ([], q, 0) in
    OnReceivedNACK (H := stored_wire) (R := R) alloc self (h, w) st now delta nacks rtt = Cont (self', (h', w ++ packets), st')
    /\ sends_again self' h' q' /\ nacks_ok st' /\ (self' = self \/ self' = media_sent self)
    /\ (if 0 <? total then UpdateNACKBitRate (R := R) st total (u32 now) = Cont st' else st' = st).
Proof.
  intros Hok Hs Hu Ht. destruct (ProcessNACKBitRate_returns (R := R) st (u32 now) Hok) as [answered E].
  exists answered. unfold OnReceivedNACK. rewrite E. cbn [flow_bind]. destruct answered; cbn [negb].
  - destruct (nack_loop_stored (R := R) self h w q now delta nacks rtt 0 Hs Hu) as (self' & h' & Hloop); [lia|lia|].
    destruct (resends st now rtt q nacks 0) as [[packets q'] total]. destruct Hloop as (El & Hs' & Hself).
    destruct (UpdateNACKBitRate_returns (R := R) st total (u32 now) Hok) as (st' & Eu & Hok').
    exists self', h', (if 0 <? total then st' else st). split; [done|]. rewrite El. cbn [flow_bind].
    destruct (0 <? total); [rewrite Eu; done|done].
  - exists self, h, st. split; [done|]. rewrite app_nil_r. split; [done|]. split; [done|]. split; [done|]. split; [by left|done].
Qed.

(** At most one packet more than the limit. *)
Lemma resends_bound now rtt q nacks total :
  (forall b, b ∈ st_bytes <$> q -> Zlen b <= IP_PACKET_SIZE) ->
  GetTargetBitrate st <> 0 -> rtt <> 0 -> total <= target_bytes (GetTargetBitrate st) rtt ->
  (resends st now rtt q nacks total).2 <= target_bytes (GetTargetBitrate st) rtt + IP_PACKET_SIZE.
Proof.
  intros Hlen Hb Hr. revert q total Hlen. induction nacks as [|sn nacks IH]; intros q total Hlen Ht; cbn [resends].
  - unfold IP_PACKET_SIZE. cbn. lia.
  - destruct (sendable now (5 + rtt) q sn) as [[i e]|] eqn:E; [|by apply IH]. apply sendable_Some in E as (Hi & _ & _).
    assert (He : Zlen (st_bytes e) <= IP_PACKET_SIZE)
      by (apply Hlen, list_elem_of_fmap; exists e; split; [done|by eapply list_elem_of_lookup_2]).
    cbv zeta. destruct (over_limit st rtt (total + Zlen (st_bytes e))) eqn:Eo; [cbn; lia|].
    assert (H := IH (alter (set_sent now) i q) (total + Zlen (st_bytes e))). rewrite fmap_set_sent in H by done.
    destruct (resends _ _ _ _ nacks _) as [[packets q'] total']. cbn [snd] in *. apply H; [done|].
    unfold over_limit in Eo. rewrite (proj2 (Z.eqb_neq _ _) Hb), (proj2 (Z.eqb_neq _ _) Hr) in Eo. cbn in Eo. lia.
Qed.

End answer.

(** Two kept packets, the second of which may not be sent again, and a number that is not kept. *)
Definition ex_memory (k : Z) : list Z := replicate (Z.to_nat k) 0.
Definition ex_rtp (seq : Z) : list Z := [128; 96; 0; seq; 0; 0; 0; 5; 0; 0; 0; 7; 9].
Definition ex_kept (seq : Z) (ty : StorageType) : Stored := mkStored seq (ex_rtp seq) 3 0 ty.
Definition ex_bitrate : NackSender := SetTargetBitrate new_NackSender 20000.

