(* ===== verification/NackVideo.v ===== *)
(** * A frame that is repaired by requests

    SendVP8 over a sender with a history: the history then has the packets of the frame,
    and OnReceivedNACK sends those that the receiver asks for. *)
From S2P Require Import Prelude Pointwise RtpWire RtpExtMap RtpHeader RtpSender RtpRoundTrip RtpSession Vp8Descriptor Vp8Packetizer Vp8Session Pacer Red RedSender RedSession RtpHistory RtpKept RtpResend SenderNet Nack.
Local Open Scope Z_scope.

Section frame.
Context (self0 : RTPSender) (cap : Z).
Hypothesis Hinv0 : sender_inv self0.
Hypothesis Hmap0 : rtp_header_extension_map_ self0 = [].
Context (alloc : Z -> list Z) (pt : Z) (n m : nat) (limit now delta cap_ms : Z) (V : RTPSenderVideo) (ty : StorageType).
Hypothesis pt_range : 0 <= pt < 128.
Hypothesis limit_fits : RTPHeaderLength self0 + limit <= max_payload_length.
Hypothesis places : (n <= m)%nat.
Hypothesis no_fec : fecEnabled V = false.
Hypothesis is_stored : ty <> kDontStore.

(** Packet [i] of the frame, and what the history keeps of it. *)
Definition frame_number (i : nat) : Z := u16 (sequence_number_ self0 + Z.of_nat i).
Definition frame_packet (i : nat) (p : list Z) : list Z := frame_hdr self0 cap pt (mk n i) (frame_number i) ++ p.
Definition frame_entry (i : nat) (p : list Z) : Stored :=
  mkStored (frame_number i) (frame_packet i p) (if 0 <? cap_ms then cap_ms else now) 0 ty.

Lemma frame_number_u16 i : is_u16 (frame_number i).
Proof. apply u16_range. Qed.

Lemma frame_packet_length i p : Zlen (frame_packet i p) = RTPHeaderLength self0 + Zlen p.
Proof. unfold frame_packet. by rewrite Zlen_app, frame_hdr_length by done. Qed.

Lemma frame_packet_number i p : number_of (frame_packet i p) = frame_number i.
Proof.
  unfold number_of, frame_packet. rewrite frame_hdr_hdr by done. unfold hdr. rewrite <- !app_assoc.
  change (u16 (Z.shiftl (u8 (Z.shiftr (frame_number i) 8)) 8 + u8 (frame_number i)) = frame_number i).
  rewrite bytes16. by rewrite !u16_id by (apply frame_number_u16 || apply u16_range).
Qed.

Lemma frame_packet_readable i p : readable (frame_packet i p).
Proof. eexists. intros R. apply frame_hdr_parsed_None; [done|done|done|apply frame_number_u16]. Qed.

(** SendToNetwork on a network that keeps the packet: the pacer, then the transport. *)
Lemma SendToNetwork_frame {R} (N : Network) self (v v1 : net) i p tail priority :
  same_transport self0 self -> Zlen p <= limit ->
  packet_history_PutRTPPacket (R := R) v now (frame_packet i p) (Zlen (frame_packet i p)) max_payload_length_ cap_ms ty = Cont (0, v1) ->
  SendToNetwork (R := R) self v now delta (frame_packet i p ++ tail) (u16 (Zlen p)) (RTPHeaderLength self0) cap_ms ty priority
  = let '(go, v2) :=
      if paced_sender_
      then paced_sender_SendPacket v1 now priority (ssrc_ self0) (frame_number i) (cap_ms + delta) (Zlen p) false
      else (true, v1) in
    if negb go then Cont (0, self, v2)
    else
      let '(sent, v3) := SendPacketToNetwork v2 (frame_packet i p) in
      if negb sent then Cont (-1, self, v3) else Cont (0, media_sent self, v3).
Proof.
  intros Hs Hp Hput. pose proof (Zlen_nonneg p). destruct (hdr_length self0 cap Hinv0 Hmap0) as [_ Hl].
  assert (HL := frame_packet_length i p). unfold max_payload_length, IP_PACKET_SIZE in *.
  unfold SendToNetwork. rewrite (u16_id (Zlen p)) by (unfold is_u16; lia). rewrite blk_get_front by lia. cbn [flow_bind].
  unfold frame_packet at 1. rewrite frame_hdr_parsed_None by (done || apply frame_number_u16). cbn [flow_bind].
  set (x := frame_parsed _ _ _ _ _).
  destruct (no_updates (R := R) self (frame_packet i p) (Zlen p + RTPHeaderLength self0) x now (now - cap_ms)) as [E1 E2];
    [by rewrite (tr_map _ _ Hs)|].
  rewrite E1. replace (if 0 <? cap_ms then _ else _) with (Cont (R := R) (frame_packet i p)) by (by destruct (0 <? cap_ms)).
  cbn [flow_bind]. rewrite E2. cbn [flow_bind]. rewrite u16_id by (unfold is_u16; lia).
  replace (Zlen p + RTPHeaderLength self0) with (Zlen (frame_packet i p)) by lia. rewrite Hput. cbn [flow_bind].
  change (0 =? 0) with true. cbn [negb]. rewrite bool_decide_eq_true_2, andb_true_r by done. done.
Qed.

(** The history takes the packet. *)
Lemma PutRTPPacket_frame {R} h q i p :
  holds h m q -> max_packet_length_ h <= max_payload_length -> Zlen p <= limit ->
  exists h', PutRTPPacket (R := R) h now (frame_packet i p) (Zlen (frame_packet i p)) max_payload_length cap_ms ty = Cont (0, h')
    /\ holds h' m (take m (frame_entry i p :: q)) /\ max_packet_length_ h' <= max_payload_length.
Proof.
  intros Hh Hm Hp. pose proof (Zlen_nonneg p). destruct (hdr_length self0 cap Hinv0 Hmap0) as [_ Hl].
  assert (HL := frame_packet_length i p). assert (Emax : max_payload_length = 1472) by done.
  destruct (PutRTPPacket_holds (R := R) h m q now (frame_packet i p) max_payload_length cap_ms ty Hh)
    as (ret & h' & E & Em & Hh'); [done|lia|lia|]. cbv zeta in *. rewrite (proj2 (Z.ltb_ge _ _)) in Hh' by lia.
  destruct Hh' as [-> Hh']. exists h'. split; [done|]. rewrite frame_packet_number in Hh'. split; [exact Hh'|lia].
Qed.

Lemma SendToNetwork_stored {R} self h w q i p tail :
  same_transport self0 self -> holds h m q -> max_packet_length_ h <= max_payload_length -> Zlen p <= limit ->
  exists h', SendToNetwork (H := stored_wire) (R := R) self (h, w) now delta (frame_packet i p ++ tail) (u16 (Zlen p))
      (RTPHeaderLength self0) cap_ms ty kNormalPriority
    = Cont (0, media_sent self, (h', w ++ [frame_packet i p]))
    /\ holds h' m (take m (frame_entry i p :: q)) /\ max_packet_length_ h' <= max_payload_length.
Proof.
  intros Hs Hh Hm Hp. destruct (PutRTPPacket_frame (R := R) h q i p Hh Hm Hp) as (h' & E & Hh'). exists h'. split; [|done].
  rewrite (SendToNetwork_frame stored_wire self (h, w) (h', w) i p tail _ Hs Hp)
    by (cbn [packet_history_PutRTPPacket stored_wire fst snd max_payload_length_]; by rewrite E).
  change (@paced_sender_ stored_wire) with false. unfold SendPacketToNetwork. cbn [negb transport_SendPacket stored_wire fst snd].
  pose proof (Zlen_nonneg p). destruct (hdr_length self0 cap Hinv0 Hmap0) as [_ Hl].
  by rewrite frame_packet_length, (proj2 (Z.leb_gt _ _)) by lia.
Qed.

Lemma imap_snoc {A B} (f : nat -> A -> B) l x : imap f (l ++ [x]) = imap f l ++ [f (length l) x].
Proof. rewrite imap_app. cbn. by rewrite Nat.add_0_r. Qed.

(** Call [i] of SendVideoPacket. *)
Lemma frame_call self i p tail protect :
  same_transport self0 self -> sequence_number_ self = frame_number i -> Zlen p <= limit ->
  let self1 := after_header self now (mk n i) cap cap_ms true in
  let pkt := mkVideoPacket (built_header self pt (mk n i) cap true ++ p ++ tail) (u16 (Zlen p)) (RTPHeaderLength self0) ty protect in
  same_transport self0 self1 /\ sequence_number_ self1 = frame_number (S i) /\ packet_bytes pkt = frame_packet i p
  /\ call_buffer pkt = frame_packet i p ++ tail.
Proof.
  intros Hs Hseq Hp self1 pkt. destruct (hdr_length self0 cap Hinv0 Hmap0) as [_ Hl].
  assert (Hbuilt : built_header self pt (mk n i) cap true ++ p = frame_packet i p)
    by (unfold frame_packet; by rewrite (built_frame_hdr self0 cap Hmap0), Hseq by done).
  split; [by apply after_header_same|]. split; [|split].
  - change (u16 (sequence_number_ self + 1) = frame_number (S i)). rewrite Hseq. unfold frame_number, u16.
    rewrite Zplus_mod_idemp_l. f_equal. lia.
  - unfold packet_bytes. cbn [pkt call_header_length call_payload_length call_buffer]. rewrite app_assoc, Hbuilt.
    pose proof (Zlen_nonneg p). unfold max_payload_length, IP_PACKET_SIZE in *. rewrite u16_id by (unfold is_u16; lia).
    apply ztake_front. by rewrite frame_packet_length.
  - cbn [pkt call_buffer]. by rewrite app_assoc, Hbuilt.
Qed.

(** What holds while the frame is sent. *)
Definition storing (sent : list VideoPacket) (self : RTPSender) (v : net (Network := stored_wire) * RTPSenderVideo) : Prop :=
  exists pl h, packet_bytes <$> sent = imap frame_packet pl /\ Forall (fun p => Zlen p <= limit) pl
  /\ same_transport self0 self /\ sequence_number_ self = frame_number (length pl)
  /\ v = ((h, imap frame_packet pl), V) /\ ((length pl <= n)%nat -> holds h m (reverse (imap frame_entry pl)))
  /\ max_packet_length_ h <= max_payload_length.

Lemma sent_length {A} (f : nat -> A -> list Z) sent (pl : list A) : packet_bytes <$> sent = imap f pl -> length sent = length pl.
Proof. intros E. apply (f_equal length) in E. by rewrite length_fmap, length_imap in E. Qed.

Lemma storing_call protect :
  call_keeps (H := red_sender (H := stored_wire) alloc now delta cap_ms) storing self0 n limit pt now cap cap_ms ty protect.
Proof.
  intros R sent self v p tail (pl & h & Eb & Hlim & Hs & Hseq & -> & Hh & Hm) Hp Hi. cbv zeta.
  rewrite (sent_length _ _ _ Eb) in *. fold (mk n (length pl)).
  destruct (frame_call self (length pl) p tail protect Hs Hseq Hp) as (Hs1 & Hseq1 & Hpk & Ebuf). cbv zeta in *.
  set (pkt := mkVideoPacket _ _ _ _ _) in *. set (self1 := after_header _ _ _ _ _ _) in *.
  destruct (SendToNetwork_stored (R := R) self1 h (imap frame_packet pl) _ (length pl) p tail Hs1 (Hh ltac:(lia)) Hm Hp)
    as (h' & E & Hh' & Hm').
  cbn [Vp8Session.SendVideoPacket red_sender]. rewrite Ebuf. cbn [pkt call_payload_length call_header_length call_storage call_protect].
  unfold RedSender.SendVideoPacket. rewrite no_fec, E. cbn [flow_bind]. eexists _, _, _. split; [done|].
  exists (pl ++ [p]), h'. rewrite fmap_app, Eb, !imap_snoc, length_app, reverse_snoc. cbn [fmap list_fmap length]. rewrite Hpk.
  split; [done|]. split; [apply Forall_app; split; [done|by constructor]|]. split; [by apply (media_sent_same self0)|].
  split; [by rewrite Nat.add_1_r|]. split; [done|split; [|done]].
  intros Hn. rewrite take_ge in Hh' by (cbn [length]; rewrite length_reverse, length_imap; lia). exact Hh'.
Qed.

Lemma frame_number_inj i j : Z.of_nat i < 65536 -> Z.of_nat j < 65536 -> frame_number i = frame_number j -> i = j.
Proof. unfold frame_number, u16. intros Hi Hj E. clear - Hi Hj E. zdm. Qed.

Lemma frame_entry_in pl e :
  e ∈ reverse (imap frame_entry pl) <-> exists i p, pl !! i = Some p /\ e = frame_entry i p.
Proof.
  rewrite elem_of_reverse, list_elem_of_lookup. split.
  - intros [i Hi]. rewrite list_lookup_imap in Hi. destruct (pl !! i) as [p|] eqn:E; [|done]. injection Hi as <-. eauto.
  - intros (i & p & Hi & ->). exists i. by rewrite list_lookup_imap, Hi.
Qed.

Lemma frame_numbers_distinct pl :
  Z.of_nat (length pl) <= 65536 -> NoDup (st_seq <$> reverse (imap frame_entry pl)).
Proof.
  intros Hl. rewrite fmap_reverse, reverse_Permutation. rewrite NoDup_alt. intros i j x Hi Hj.
  rewrite !list_lookup_fmap, list_lookup_imap in Hi, Hj.
  destruct (pl !! i) as [p|] eqn:Ei; [|done]. destruct (pl !! j) as [p'|] eqn:Ej; [|done]. cbn in Hi, Hj.
  apply lookup_lt_Some in Ei, Ej. apply frame_number_inj; [lia|lia|congruence].
Qed.

(** The history of the frame can answer requests. *)
Lemma frame_sends_again self h pl :
  same_transport self0 self -> Z.of_nat (length pl) <= 65536 ->
  holds h m (reverse (imap frame_entry pl)) -> max_packet_length_ h <= max_payload_length ->
  sends_again m self h (reverse (imap frame_entry pl)).
Proof.
  intros Hs Hl Hh Hm. split; [by rewrite (tr_map _ _ Hs)|done|unfold max_payload_length, IP_PACKET_SIZE in *; lia|by apply frame_numbers_distinct|].
  apply Forall_forall. intros b (e & -> & He)%list_elem_of_fmap. apply frame_entry_in in He as (i & p & _ & ->).
  apply frame_packet_readable.
Qed.

Lemma SendVP8_stored {R} settings payloadData hdr :
  n = frame_packets R payloadData hdr limit -> vp8_storage settings hdr = ty -> 0 < Z.of_nat m < 65536 ->
  vp8_ok hdr -> 0 < Zlen payloadData < 2147483648 -> PayloadDescriptorExtraLength hdr + 2 <= limit ->
  exists self' h pkts pl l,
    SendVP8 (H := red_sender (H := stored_wire) alloc now delta cap_ms) (R := R) self0
      ((SetStorePacketsStatus new_RTPPacketHistory true (Z.of_nat m), []), V) settings limit now pt cap cap_ms
      payloadData (Zlen payloadData) hdr = Cont (0, self', ((h, imap frame_packet pl), V), pkts)
    /\ length pl = n /\ imap frame_packet pl = packet_bytes <$> pkts /\ Forall (fun p => Zlen p <= limit) pl
    /\ sends_again m self' h (reverse (imap frame_entry pl))
    /\ Forall2 (video_received []) pkts l /\ Forall (fun d => same_header hdr (delivered_header d)) l.*2
    /\ concat (delivered_data <$> l.*2) = payloadData
    /\ existsb short_key l.*2 = short_key_frame R payloadData hdr limit.
Proof.
  intros En Hst Hm Hh Hp Hl. unfold max_payload_length in *.
  destruct (SendVP8_runs (H := red_sender (H := stored_wire) alloc now delta cap_ms) (R := R) self0 settings limit now pt cap cap_ms payloadData hdr)
    as (_ & Hrun); [done..|lia|].
  destruct (Hrun storing ((SetStorePacketsStatus new_RTPPacketHistory true (Z.of_nat m), []), V))
    as (self' & v' & pkts & l & E & Hinv & Hlen & Hrec & _ & _ & Hhd & Hcat & Hsk).
  - intros sent self' v (pl & h & _ & _ & Hs & _). exact Hs.
  - rewrite Hst, <- En. apply storing_call.
  - exists [], (SetStorePacketsStatus new_RTPPacketHistory true (Z.of_nat m)). split; [done|]. split; [constructor|].
    split; [by split|]. split; [|split; [done|split; [intros _; by apply holds_new|done]]].
    unfold frame_number. cbn. rewrite Z.add_0_r, u16_id; [done|]. apply Hinv0.
  - destruct Hinv as (pl & h & Eb & Hlim & Hs & _ & -> & Hho & Hmax).
    assert (Hlp : length pl = n) by (rewrite En, <- Hlen; apply (f_equal length) in Eb; by rewrite length_fmap, length_imap in Eb).
    exists self', h, pkts, pl, l. split; [exact E|]. split; [done|]. split; [done|]. split; [done|].
    split; [apply frame_sends_again; [done|lia|apply Hho; lia|done]|]. by rewrite <- Hmap0.
Qed.
End frame.

(** C4: a frame whose packets are lost is repaired by a request.  The sender has no header
    extensions, no error correction and RTX off, the settings allow retransmission of the
    frame, and the history has a place for each of its packets.  SendVP8 then puts the
    packets of the frame on the wire; the receiver's parsers get the frame from them, as
    long as it is not a key frame whose first packet has fewer than ten bytes of it
    ([short_key_frame]; that packet is refused).  Whatever part of the packets arrives, when
    the receiver asks for the numbers that are missing (in any order, with repetitions and
    with others), at least five milliseconds and a round trip after the start of the clock
    and within the bandwidth for retransmission, OnReceivedNACK sends packets of the frame,
    and with them the receiver has every packet. *)
Theorem frame_survives_request {R} self st V alloc now delta cap_ms settings limit pt cap payloadData hdr m now2 delta2 rtt :
  sender_inv self -> rtp_header_extension_map_ self = [] -> (forall k, 0 <= k -> Zlen (alloc k) = k) ->
  fecEnabled V = false -> over_rtx st = false -> nacks_ok st -> 0 <= pt < 128 -> vp8_ok hdr ->
  0 < Zlen payloadData < 2147483648 -> PayloadDescriptorExtraLength hdr + 2 <= limit ->
  RTPHeaderLength self + limit <= max_payload_length -> vp8_storage settings hdr = kAllowRetransmission ->
  short_key_frame R payloadData hdr limit = false ->
  (frame_packets R payloadData hdr limit <= m)%nat -> 0 < Z.of_nat m < 65536 ->
  5 + rtt <= now2 -> ProcessNACKBitRate (R := R) st (u32 now2) = Cont true ->
  exists self1 h1 pkts wire l,
    SendVP8 (H := red_sender (H := stored_wire) alloc now delta cap_ms) (R := R) self
      ((SetStorePacketsStatus new_RTPPacketHistory true (Z.of_nat m), []), V) settings limit now pt cap cap_ms
      payloadData (Zlen payloadData) hdr = Cont (0, self1, ((h1, wire), V), pkts)
    /\ wire = packet_bytes <$> pkts /\ Forall2 (video_delivered []) pkts l
    /\ Forall (fun d => same_header hdr (delivered_header d)) l.*2 /\ concat (delivered_data <$> l.*2) = payloadData
    /\ forall arrived nacks, Forall is_u16 nacks -> IP_PACKET_SIZE * Zlen nacks < 4294967296 ->
      (forall t, t <= IP_PACKET_SIZE * Zlen nacks -> over_limit st rtt t = false) ->
      (forall i packet, wire !! i = Some packet ->
         packet ∈ arrived \/ u16 (sequence_number_ self + Z.of_nat i) ∈ nacks) ->
      exists self2 h2 st2 again,
        OnReceivedNACK (H := stored_wire) (R := R) alloc self1 (h1, wire) st now2 delta2 nacks rtt
        = Cont (self2, (h2, wire ++ again), st2)
        /\ (forall packet, packet ∈ again -> packet ∈ wire) /\ (forall packet, packet ∈ wire -> packet ∈ arrived ++ again).
Proof.
  intros Hi Hmap Halloc Hfec Hrtx Hok Hpt Hh Hp Hlim Hfit Hst Hno Hn Hm Hrtt Hbw.
  destruct (SendVP8_stored self cap Hi Hmap alloc pt _ m limit now delta cap_ms V kAllowRetransmission Hpt Hfit Hn Hfec ltac:(done)
    settings payloadData hdr eq_refl Hst Hm Hh Hp Hlim)
    as (self1 & h1 & pkts & pl & l & E & Hlen & Ew & Hpl & Hsa & Hrec & Hhd & Hcat & Hsk).
  assert (Hdel : Forall2 (video_delivered []) pkts l) by (apply all_video_delivered; [by rewrite Hsk|done]).
  set (n := frame_packets R payloadData hdr limit) in *. set (wire := imap _ pl) in *. set (q := reverse _) in *.
  exists self1, h1, pkts, wire, l. do 5 (split; [done|]). intros arrived nacks Hu Hsum Hbudget Hmissing.
  destruct (OnReceivedNACK_stored alloc st m Halloc Hrtx (R := R) self1 h1 wire q now2 delta2 nacks rtt Hok Hsa Hu Hsum)
    as (answered & self2 & h2 & st2 & Eb & H). rewrite Hbw in Eb. injection Eb as <-.
  assert (Hkept := resends_kept st now2 rtt q nacks 0). assert (Hall := resends_all st now2 rtt q nacks 0).
  destruct (resends st now2 rtt q nacks 0) as [[again q'] total]. cbn [fst] in *. destruct H as (H & _).
  exists self2, h2, st2, again. split; [exact H|]. split.
  - intros b Hb. apply Hkept, list_elem_of_fmap in Hb as (e & -> & He).
    apply frame_entry_in in He as (i & p & Hpi & ->). apply list_elem_of_lookup. exists i. subst wire. by rewrite list_lookup_imap, Hpi.
  - intros b [i Hb]%list_elem_of_lookup. apply elem_of_app. destruct (Hmissing i b Hb) as [Ha|Ha]; [by left|]. right.
    subst wire. rewrite list_lookup_imap in Hb. destruct (pl !! i) as [p|] eqn:Ei; [|done]. injection Hb as <-.
    apply (Hall (frame_entry self cap pt n now cap_ms kAllowRetransmission i p)); [apply Hsa| |done| | |done].
    + apply frame_entry_in. eauto.
    + apply may_sendb_spec. split; [intros _; cbn; lia|done].
    + intros e He. apply frame_entry_in in He as (j & p' & Hj & ->). cbn [frame_entry st_bytes].
      rewrite frame_packet_length by done. rewrite Forall_lookup in Hpl. specialize (Hpl j p' Hj). cbn in Hpl.
      unfold max_payload_length in Hfit. lia.
Qed.

(** Packets that may not be sent again are not. *)
Lemma resends_none st now rtt q nacks total :
  (forall e, e ∈ q -> st_type e = kDontRetransmit) -> resends st now rtt q nacks total = ([], q, total).
Proof.
  intros Hq. induction nacks as [|sn nacks IH]; cbn [resends]; [done|].
  destruct (sendable now (5 + rtt) q sn) as [[i e]|] eqn:E; [|done]. apply sendable_Some in E as (Hi & _ & Hs).
  unfold may_sendb in Hs. rewrite (Hq e) in Hs by (by eapply list_elem_of_lookup_2). by rewrite andb_false_r in Hs.
Qed.

(** C34: with the settings that a new sender has, which are to retransmit the base layer, no
    packet of the base layer of a stream with temporal layers is sent again: SendVP8 stores
    the packets of a frame of layer 0 as packets not to retransmit, and OnReceivedNACK sends
    nothing for any request. *)
Theorem base_layer_not_resent {R} self st V alloc now delta cap_ms limit pt cap payloadData hdr m now2 delta2 rtt nacks :
  sender_inv self -> rtp_header_extension_map_ self = [] -> (forall k, 0 <= k -> Zlen (alloc k) = k) ->
  fecEnabled V = false -> over_rtx st = false -> nacks_ok st -> 0 <= pt < 128 -> vp8_ok hdr ->
  0 < Zlen payloadData < 2147483648 -> PayloadDescriptorExtraLength hdr + 2 <= limit ->
  RTPHeaderLength self + limit <= max_payload_length -> temporalIdx hdr = 0 ->
  (frame_packets R payloadData hdr limit <= m)%nat -> 0 < Z.of_nat m < 65536 ->
  Forall is_u16 nacks -> IP_PACKET_SIZE * Zlen nacks < 4294967296 ->
  exists self1 h1 pkts wire self2 h2,
    SendVP8 (H := red_sender (H := stored_wire) alloc now delta cap_ms) (R := R) self
      ((SetStorePacketsStatus new_RTPPacketHistory true (Z.of_nat m), []), V) kRetransmitBaseLayer limit now pt cap cap_ms
      payloadData (Zlen payloadData) hdr = Cont (0, self1, ((h1, wire), V), pkts)
    /\ wire = packet_bytes <$> pkts
    /\ OnReceivedNACK (H := stored_wire) (R := R) alloc self1 (h1, wire) st now2 delta2 nacks rtt = Cont (self2, (h2, wire), st).
Proof.
  intros Hi Hmap Halloc Hfec Hrtx Hok Hpt Hh Hp Hlim Hfit Ht Hn Hm Hu Hsum.
  assert (Hst : vp8_storage kRetransmitBaseLayer hdr = kDontRetransmit) by (unfold vp8_storage; by rewrite Ht).
  destruct (SendVP8_stored self cap Hi Hmap alloc pt _ m limit now delta cap_ms V kDontRetransmit Hpt Hfit Hn Hfec ltac:(done)
    kRetransmitBaseLayer payloadData hdr eq_refl Hst Hm Hh Hp Hlim) as (self1 & h1 & pkts & pl & l & E & Hlen & Ew & _ & Hsa & _).
  set (n := frame_packets R payloadData hdr limit) in *. set (wire := imap _ pl) in *. set (q := reverse _) in *.
  destruct (OnReceivedNACK_stored alloc st m Halloc Hrtx (R := R) self1 h1 wire q now2 delta2 nacks rtt Hok Hsa Hu Hsum)
    as (answered & self2 & h2 & st2 & Eb & H).
  rewrite resends_none in H by (intros e (i & p & _ & ->)%frame_entry_in; done).
  exists self1, h1, pkts, wire, self2, h2. split; [done|]. split; [done|].
  destruct answered; destruct H as (H & _ & _ & _ & Est); cbn in Est; subst st2; by rewrite app_nil_r in H.
Qed.

(** A frame of five packets; the second to the fourth are lost. *)
Definition ex_frame_sender : RTPSender := new_RTPSender 7 8 100 200.
Definition ex_frame_header : RTPVideoHeaderVP8 := mkRTPVideoHeaderVP8 false 300 17 0 true 5 0 false.
Definition ex_no_fec : RTPSenderVideo := mkSenderVideo 2 false 0 0 (new_ProducerFec []).

Lemma frame_survives_request_witness :
  exists self1 h1 pkts wire l,
    SendVP8 (H := red_sender (H := stored_wire) ex_memory 3 0 9) (R := unit) ex_frame_sender
      ((SetStorePacketsStatus new_RTPPacketHistory true 10, []), ex_no_fec) 6 40 3 96 5 9
      (replicate 150 7) 150 ex_frame_header = Cont (0, self1, ((h1, wire), ex_no_fec), pkts)
    /\ wire = packet_bytes <$> pkts /\ Forall2 (video_delivered []) pkts l
    /\ Forall (fun d => same_header ex_frame_header (delivered_header d)) l.*2 /\ concat (delivered_data <$> l.*2) = replicate 150 7
    /\ exists self2 h2 st2 again,
        OnReceivedNACK (H := stored_wire) (R := unit) ex_memory self1 (h1, wire) new_NackSender 60 0 [203; 202; 203; 204; 999] 50
        = Cont (self2, (h2, wire ++ again), st2)
        /\ (forall packet, packet ∈ again -> packet ∈ wire)
        /\ (forall packet, packet ∈ wire -> packet ∈ (take 1 wire ++ drop 4 wire) ++ again).
Proof.
  destruct (frame_survives_request (R := unit) ex_frame_sender new_NackSender ex_no_fec ex_memory 3 0 9 6 40 96 5 (replicate 150 7)
    ex_frame_header 10 60 0 50) as (self1 & h1 & pkts & wire & l & E & Ew & Hrec & Hhd & Hcat & Hnack);
    [|done| |done|done|done|done| |done|done|done|done|vm_compute; reflexivity| |done|done|done|].
  - by apply new_RTPSender_inv.
  - intros k Hk. by apply Zlen_replicate.
  - split; simpl; unfold kNoPictureId, kNoTl0PicIdx, kNoTemporalIdx, kNoKeyIdx; lia.
  - assert (En : frame_packets unit (replicate 150 7) ex_frame_header 40 = 5%nat) by (vm_compute; reflexivity). rewrite En. lia.
  - exists self1, h1, pkts, wire, l. split; [exact E|]. clear E. do 4 (split; [done|]). apply Hnack; [by repeat apply Forall_cons_2|done|done|].
    intros i p Hi. destruct (decide (1 <= i < 4)%nat) as [Hm|Hm].
    + right. change (sequence_number_ ex_frame_sender) with 201.
      destruct i as [|[|[|[|i]]]]; try lia; apply (bool_decide_unpack _); by vm_compute.
    + left. apply elem_of_app. destruct (decide (i < 1)%nat).
      * left. apply list_elem_of_lookup. exists i. by rewrite lookup_take_lt.
      * right. apply list_elem_of_lookup. exists (i - 4)%nat. rewrite lookup_drop. by replace (4 + (i - 4))%nat with i by lia.
Defined.

Lemma base_layer_not_resent_witness :
  exists self1 h1 pkts wire self2 h2,
    SendVP8 (H := red_sender (H := stored_wire) ex_memory 3 0 9) (R := unit) ex_frame_sender
      ((SetStorePacketsStatus new_RTPPacketHistory true 10, []), ex_no_fec) 2 40 3 96 5 9
      (replicate 150 7) 150 ex_frame_header = Cont (0, self1, ((h1, wire), ex_no_fec), pkts)
    /\ wire = packet_bytes <$> pkts
    /\ OnReceivedNACK (H := stored_wire) (R := unit) ex_memory self1 (h1, wire) new_NackSender 60 0 [202; 203] 50
       = Cont (self2, (h2, wire), new_NackSender).
Proof.
  apply (base_layer_not_resent (R := unit) ex_frame_sender new_NackSender ex_no_fec ex_memory 3 0 9 40 96 5 (replicate 150 7)
    ex_frame_header 10 60 0 50 [202; 203]); [|done| |done|done|done|done| |done|done|done|done| |done| |done].
  - by apply new_RTPSender_inv.
  - intros k Hk. by apply Zlen_replicate.
  - split; simpl; unfold kNoPictureId, kNoTl0PicIdx, kNoTemporalIdx, kNoKeyIdx; lia.
  - assert (En : frame_packets unit (replicate 150 7) ex_frame_header 40 = 5%nat) by (vm_compute; reflexivity). rewrite En. lia.
  - by repeat apply Forall_cons_2.
Defined.
