(* ===== verification/RtpPadding.v ===== *)
(** * Packets of padding

    What SendPadData of [RtpResend] puts on the wire: packets that the receiver's parser
    takes for padding and nothing else. *)
From S2P Require Import Prelude Pointwise RtpWire RtpExtMap RtpHeader RtpSender RtpRoundTrip RtpSession RtpRtx Vp8Session Pacer RedSender RedSession RtpHistory RtpKept RtpResend SenderNet.
Local Open Scope Z_scope.

(** A packet of padding for the parser. *)
Definition is_padding (packet : list Z) : Prop :=
  exists h, (forall R, Parse (R := R) packet None new_RTPHeader = Cont (true, h))
  /\ headerLength h + paddingLength h = Zlen packet /\ 0 < paddingLength h.

Lemma Parse_padding packet :
  Zlen packet = 236 -> zat packet 0 = 160 -> zat packet 235 = 224 -> is_padding packet.
Proof.
  intros Hl H0 H1. unfold is_padding.
  exists (mkRTPHeader (flag (packet !!! 1%nat) 128) (Z.land (packet !!! 1%nat) 127) (word16_at packet 2)
    (word32_at packet 4) (word32_at packet 8) 0 (arrOfCSRCs new_RTPHeader) 224 12 (payload_type_frequency new_RTPHeader) no_extension).
  split; [|cbn; lia]. intros R. unfold Parse, kRtpMinParseLength. rewrite Hl. change (236 <? 12) with false. cbv iota.
  rewrite rd_zat by lia. cbn [flow_bind]. rewrite (rd_total packet 1) by lia. cbn [flow_bind]. rewrite H0.
  rewrite Word16_at by lia. cbn [flow_bind]. rewrite !Word32_at by lia. cbn [flow_bind].
  change (negb (Z.shiftr 160 6 =? kRtpExpectedVersion)) with false. cbv iota. change (Z.land 160 15) with 0.
  change (236 <? 12 + 0 * 4) with false. cbv iota. rewrite rd_zat by lia. cbn [flow_bind]. change (236 - 1) with 235. rewrite H1.
  change (flag 160 32) with true. change (flag 160 16) with false. reflexivity.
Qed.

Section padding.
Context (alloc : Z -> list Z) (rand : Z -> list Z).
Hypothesis alloc_length : forall k, 0 <= k -> Zlen (alloc k) = k.
Hypothesis rand_length : forall j, Zlen (rand j) = 4.

Lemma BuildPaddingPacket_pads {R} packet bytes :
  236 <= Zlen packet -> zat packet 0 = 128 -> kMaxPaddingLength <= bytes ->
  exists packet', BuildPaddingPacket (R := R) packet 12 bytes rand = Cont (kMaxPaddingLength, packet')
    /\ Zlen packet' = Zlen packet /\ is_padding (ztake 236 packet').
Proof.
  unfold kMaxPaddingLength. intros Hl H0 Hb. unfold BuildPaddingPacket, kMaxPaddingLength. rewrite (proj2 (Z.ltb_ge _ _)) by lia.
  rewrite rd_zat, H0 by lia. cbn [flow_bind]. rewrite wr_Cont by lia. cbn [flow_bind].
  change (Z.to_nat (Z.shiftr 224 2)) with 56%nat.
  destruct (for_up_inv (R := R) (fun _ l => Zlen l = Zlen packet /\ zat l 0 = 160)
    (fun j packet => blk_put packet (12 + 4 * j) (rand j)) 56 0 (<[Z.to_nat 0 := Z.lor 128 32]> packet)) as (l & El & Hll & Hl0).
  - rewrite Zlen_insert, zat_insert by lia. done.
  - intros i l Hi [Hll Hl0]. pose proof (rand_length i). rewrite blk_put_put by lia. eexists. split; [done|].
    rewrite Zlen_put by lia. split; [done|]. unfold put. rewrite zat_app, Zlen_ztake, (proj2 (Z.ltb_lt _ _)), zat_ztake by lia. done.
  - rewrite El. cbn [flow_bind]. rewrite wr_Cont by lia. cbn [flow_bind]. eexists. split; [done|]. split; [by rewrite Zlen_insert|].
    apply Parse_padding; [by rewrite Zlen_ztake by (rewrite Zlen_insert; lia)| |]; rewrite zat_ztake, zat_insert by (rewrite ?Zlen_insert; lia); done.
Qed.

(** ** The loop *)

(** What padding does to the sender: it takes sequence numbers. *)
Record padded (self self' : RTPSender) : Prop := mkPadded {
  pd_transport : same_transport self self';
  pd_marker : last_packet_marker_bit_ self' = last_packet_marker_bit_ self
}.

Lemma pad_stream_padded self st ssrc sn self' :
  sender_inv self -> rtx_ st = kRtxOff -> pad_stream self st = Some (ssrc, sn, self') -> padded self self'.
Proof.
  intros Hi Hr. unfold pad_stream. rewrite Hr. change (kRtxOff =? kRtxOff) with true. cbv iota.
  destruct (negb _); [done|]. cbn [IncrementSequenceNumber]. intros [= <- <- <-].
  assert (Hi' : sender_inv (IncrementSequenceNumber self).2) by (eapply step_keeps; [apply step_increment|done]).
  split; [by split|done].
Qed.

Lemma padded_trans a b c : padded a b -> padded b c -> padded a c.
Proof. intros [A1 A2] [B1 B2]. split; [by eapply same_transport_trans|congruence]. Qed.

Lemma pad_loop_pads {R} fuel self h w st now pt ts cap bytes sent :
  sender_inv self -> rtp_header_extension_map_ self = [] -> rtx_ st = kRtxOff -> bytes <= 224 * Z.of_nat fuel ->
  exists sent' self' pads, pad_loop (H := stored_wire) (R := R) alloc fuel self (h, w) st rand now pt ts cap bytes sent
    = Cont (sent', self', (h, w ++ pads)) /\ padded self self' /\ Forall is_padding pads.
Proof.
  revert self w bytes sent. induction fuel as [|fuel IH]; intros self w bytes sent Hi Hm Hr Hb; cbn [pad_loop].
  - rewrite (proj2 (Z.leb_le _ _)) by lia. exists sent, self, []. rewrite app_nil_r. split; [done|]. split; [by split; [split|]|constructor].
  - destruct (Z.leb_spec bytes 0) as [Hb0|Hb0].
    { exists sent, self, []. rewrite app_nil_r. split; [done|]. split; [by split; [split|]|constructor]. }
    cbv zeta. destruct (pad_stream self st) as [[[ssrc sn] self1]|] eqn:Es.
    2:{ exists sent, self, []. rewrite app_nil_r. split; [done|]. split; [by split; [split|]|constructor]. }
    assert (Hp := pad_stream_padded self st ssrc sn self1 Hi Hr Es). assert (Hi1 := tr_inv _ _ (pd_transport _ _ Hp)).
    assert (Hm1 : rtp_header_extension_map_ self1 = []) by (by rewrite (tr_map _ _ (pd_transport _ _ Hp))).
    destruct (inv_sender self1 Hi1) as (Hmo & Hty & _).
    assert (Ha : Zlen (alloc IP_PACKET_SIZE) = 1500) by (rewrite alloc_length; done).
    rewrite CreateRTPHeader_spec by (done || lia). cbv zeta. cbn [flow_bind].
    set (bs := header_bytes self1 pt ssrc false ts sn (ztake 0 [])).
    assert (Hbs : Zlen bs = 12) by (subst bs; unfold header_bytes, has_ext, extension_bytes; by rewrite Hm1).
    rewrite Hbs. set (b := if bytes <? kMaxPaddingLength then kMaxPaddingLength else bytes).
    assert (Hbig : kMaxPaddingLength <= b /\ b <= Z.max 224 bytes)
      by (subst b; unfold kMaxPaddingLength; destruct (Z.ltb_spec bytes 224); lia).
    destruct (BuildPaddingPacket_pads (R := R) (put (alloc IP_PACKET_SIZE) 0 bs) b) as (packet & Eb & Hl & Hpad).
    { rewrite Zlen_put by lia. lia. }
    { rewrite put_0, zat_app by lia. rewrite Hbs. change (0 <? 12) with true. cbv iota. subst bs.
      unfold header_bytes, has_ext. by rewrite Hm1. }
    { lia. }
    rewrite Eb. cbn [flow_bind]. rewrite Zlen_put in Hl by lia. change (kMaxPaddingLength + 12) with 236.
    rewrite blk_get_Cont, zdrop_0 by lia. cbn [flow_bind]. assert (Hpad' := Hpad). destruct Hpad' as (x & Hx & _).
    rewrite Hx. cbn [flow_bind]. destruct (no_updates (R := R) self1 (ztake 236 packet) 236 x now (now - cap) Hm1) as [E1 E2].
    rewrite E1. replace (if 0 <? cap then _ else _) with (Cont (R := R) (ztake 236 packet)) by (by destruct (0 <? cap)).
    cbn [flow_bind]. rewrite E2. cbn [flow_bind]. unfold SendPacketToNetwork. cbn [transport_SendPacket stored_wire fst snd].
    rewrite Zlen_ztake by lia. change (236 <=? 0) with false. cbn [negb].
    destruct (IH self1 (w ++ [ztake 236 packet]) (b - kMaxPaddingLength) (sent + kMaxPaddingLength) Hi1 Hm1 Hr)
      as (sent' & self' & pads & E & Hp' & Hpads); [unfold kMaxPaddingLength in *; lia|].
    exists sent', self', (ztake 236 packet :: pads). rewrite E, <- app_assoc. split; [done|].
    split; [by eapply padded_trans|by constructor].
Qed.

Lemma TimeToSendPadding_pads {R} fuel self h w st now bytes :
  sender_inv self -> rtp_header_extension_map_ self = [] -> rtx_ st = kRtxOff ->
  exists sent self' pads,
    ModuleRtpRtcpImpl_TimeToSendPadding (H := stored_wire) (R := R) alloc fuel self (h, w) st rand now bytes
    = Cont (sent, self', (h, w ++ pads)) /\ padded self self' /\ Forall is_padding pads.
Proof.
  intros Hi Hm Hr. unfold ModuleRtpRtcpImpl_TimeToSendPadding, TimeToSendPadding.
  assert (H0 : forall sent : Z, exists sent' self' pads, Cont (R := R) (sent, self, (h, w)) = Cont (sent', self', (h, w ++ pads))
    /\ padded self self' /\ Forall is_padding pads).
  { intros sent. exists sent, self, []. rewrite app_nil_r. split; [done|]. split; [by split; [split|]|constructor]. }
  unfold SendingMedia. destruct (sending_media_ st) eqn:Em; [|apply H0]. cbn [negb]. rewrite Hr.
  change (negb (Z.land kRtxOff kRtxRedundantPayloads =? 0)) with false.
  change (0 <? Z.land kRtxOff kRtxRedundantPayloads) with false. cbv iota zeta.
  destruct (if 0 <? last_timestamp_time_ms_ self then _ else _) as [ts cap]. cbn [flow_bind]. rewrite Z.sub_0_r.
  destruct (Z.ltb_spec 0 bytes) as [Hb|Hb]; [|apply H0].
  unfold SendPadData, SendingMedia. rewrite Em. cbn [negb].
  destruct (pad_loop_pads (R := R) (S (Z.to_nat (Z.quot bytes kMaxPaddingLength))) self h w st now (payload_type_ st) ts cap bytes 0 Hi Hm Hr)
    as (sent & self' & pads & E & Hp); [unfold kMaxPaddingLength; rewrite Nat2Z.inj_succ, Z2Nat.id by (apply Z.quot_pos; lia);
      assert (H := Z.quot_rem' bytes 224); assert (H1 := Z.rem_bound_pos bytes 224); lia|].
  rewrite E. cbn [flow_bind]. eauto.
Qed.
End padding.
