(* ===== verification/PacedVideo.v ===== *)
(** * A frame through the pacer

    SendVP8 over a sender with a history and a pacer: the pacer has the numbers of the
    packets, and its turns of Process put the packets of the history on the wire. *)
From S2P Require Import Prelude Pointwise RtpWire RtpExtMap RtpHeader RtpSender RtpRoundTrip RtpSession Vp8Descriptor Vp8Packetizer Vp8Session Pacer PacerQueue PacerDrain Red RedSender RedSession RtpHistory RtpKept RtpResend SenderNet Nack NackVideo RtpPadding.
Local Open Scope Z_scope.

(** The world of a pacer: the clock, and a sender with its history and the wire. *)
Record SenderWorld : Type := mkWorld {
  sw_clock : Clock;
  sw_sender : RTPSender;
  sw_net : RTPPacketHistory * list (list Z)
}.

Definition sender_callback (alloc rand : Z -> list Z) (st : NackSender) (fuel : nat) : Callback := {|
  world := SenderWorld;
  clock_ w := sw_clock w;
  Pacer.TimeToSendPacket R w ssrc sn capture retransmission :=
    let! (sent, self, n) := ModuleRtpRtcpImpl_TimeToSendPacket (H := stored_wire) alloc (sw_sender w) (sw_net w) st
      (TimeInMilliseconds (sw_clock w)) ssrc sn capture retransmission in
    Cont (sent, [], mkWorld (sw_clock w) self n);
  Pacer.TimeToSendPadding R w bytes :=
    let! (sent, self, n) := ModuleRtpRtcpImpl_TimeToSendPadding (H := stored_wire) alloc fuel (sw_sender w) (sw_net w) st rand
      (TimeInMilliseconds (sw_clock w)) bytes in
    Cont (sent, [], mkWorld (sw_clock w) self n)
|}.

(** Time that goes by. *)
Definition pass (f : Clock -> Clock) (w : SenderWorld) : SenderWorld := mkWorld (f (sw_clock w)) (sw_sender w) (sw_net w).

Section frame.
Context (self0 : RTPSender) (cap : Z).
Hypothesis Hinv0 : sender_inv self0.
Hypothesis Hmap0 : rtp_header_extension_map_ self0 = [].
Context (alloc rand : Z -> list Z) (pt : Z) (n m : nat) (limit now delta cap_ms : Z) (V : RTPSenderVideo) (ty : StorageType).
Hypothesis alloc_length : forall k, 0 <= k -> Zlen (alloc k) = k.
Hypothesis rand_length : forall j, Zlen (rand j) = 4.
Hypothesis pt_range : 0 <= pt < 128.
Hypothesis limit_fits : RTPHeaderLength self0 + limit <= max_payload_length.
Hypothesis places : (n <= m)%nat.
Hypothesis few : Z.of_nat m < 65536.
Hypothesis no_fec : fecEnabled V = false.
Hypothesis is_stored : ty <> kDontStore.
Hypothesis after_zero : 0 <= now.

Local Abbreviation packet := (frame_packet self0 cap pt n).
Local Abbreviation entry := (frame_entry self0 cap pt n now cap_ms ty).
Local Abbreviation number := (frame_number self0).

(** What the pacer keeps of packet [i]. *)
Definition frame_queued (i : nat) (p : list Z) : Queued :=
  mkQueued (ssrc_ self0) (number i) (if cap_ms + delta <? 0 then now else cap_ms + delta) now (Zlen p) false.

Definition frame_queues (pl : list (list Z)) (priority : Priority) : list Queued :=
  match priority with kNormalPriority => imap frame_queued pl | _ => [] end.

(** A pacer that keeps the packets in [pl] and nothing else. *)
Record pacing (p0 p : PacedSender) (pl : list (list Z)) : Prop := mkPacing {
  pg_refines : exists S, refines p S /\ sp_enabled S = true /\ sp_offered S = None
                 /\ forall priority, sp_queues S priority = frame_queues pl priority;
  pg_paused : paused_ p = paused_ p0;
  pg_send : time_last_send_us_ p = time_last_send_us_ p0
}.

Lemma frame_queued_new i pl p :
  Z.of_nat (length pl) < 65536 -> i = length pl -> key (frame_queued i p) ∉ key <$> imap frame_queued pl.
Proof.
  intros Hl -> (x & E & Hx)%list_elem_of_fmap. apply list_elem_of_lookup in Hx as [j Hj].
  rewrite list_lookup_imap in Hj. destruct (pl !! j) as [p'|] eqn:Ej; [|done]. injection Hj as <-.
  injection E as E. apply lookup_lt_Some in Ej. apply frame_number_inj in E; lia.
Qed.

(** The pacer takes a packet. *)
Lemma pacing_call p0 p pl b :
  pacing p0 p pl -> Z.of_nat (length pl) < 65536 ->
  exists p', SendPacket p (ms_clock now) kNormalPriority (ssrc_ self0) (number (length pl)) (cap_ms + delta) (Zlen b) false = (false, p')
    /\ pacing p0 p' (pl ++ [b]).
Proof.
  intros [(S & Hr & He & Ho & HQ) Hp Ht] Hl.
  set (c := CallSendPacket kNormalPriority (ssrc_ self0) (number (length pl)) (cap_ms + delta) (Zlen b) false).
  assert (Hr' := refines_call p S (ms_clock now) c after_zero Hr). exists (pacer_call p (ms_clock now) c).
  assert (Hgo : SendPacket p (ms_clock now) kNormalPriority (ssrc_ self0) (number (length pl)) (cap_ms + delta) (Zlen b) false
    = (false, pacer_call p (ms_clock now) c)).
  { cbn [pacer_call c]. unfold SendPacket. by rewrite (rf_enabled _ _ Hr), He. }
  split; [exact Hgo|]. split.
  - exists (spec_call S (ms_clock now) c). split; [done|]. cbn [spec_call c]. rewrite He. split; [done|]. split; [done|].
    intros priority. cbn [sp_queues]. unfold upd. rewrite (HQ kNormalPriority). destruct (decide _) as [->|Hne].
    + cbn [frame_queues]. unfold push. change (mkQueued _ _ _ _ _ _) with (frame_queued (length pl) b).
      rewrite bool_decide_eq_false_2 by (by apply frame_queued_new). by rewrite imap_snoc.
    + rewrite HQ. by destruct priority.
  - cbn [pacer_call c]. unfold SendPacket. rewrite (rf_enabled _ _ Hr), He. cbn [negb snd]. by destruct (_ && _).
  - cbn [pacer_call c]. unfold SendPacket. rewrite (rf_enabled _ _ Hr), He. cbn [negb snd]. by destruct (_ && _).
Qed.

(** What holds while the frame is sent: nothing is on the wire. *)
Definition queueing (p0 : PacedSender) (sent : list VideoPacket) (self : RTPSender)
  (v : net (Network := paced_wire) * RTPSenderVideo) : Prop :=
  exists pl p h, packet_bytes <$> sent = imap packet pl /\ Forall (fun p => Zlen p <= limit) pl
  /\ same_transport self0 self /\ sequence_number_ self = number (length pl)
  /\ v = ((p, (h, [])), V) /\ ((length pl <= n)%nat -> holds h m (reverse (imap entry pl)) /\ pacing p0 p pl)
  /\ max_packet_length_ h <= max_payload_length.

Lemma queueing_call p0 protect :
  call_keeps (H := red_sender (H := paced_wire) alloc now delta cap_ms) (queueing p0) self0 n limit pt now cap cap_ms ty protect.
Proof.
  intros R sent self v b tail (pl & p & h & Eb & Hlim & Hs & Hseq & -> & Hh & Hm) Hb Hi. cbv zeta.
  rewrite (sent_length _ _ _ Eb) in *. fold (mk n (length pl)).
  destruct (frame_call self0 cap Hinv0 Hmap0 pt n m limit now cap_ms ty limit_fits places self (length pl) b tail protect Hs Hseq Hb)
    as (Hs1 & Hseq1 & Hpk & Ebuf). cbv zeta in *.
  set (pkt := mkVideoPacket _ _ _ _ _) in *. set (self1 := after_header _ _ _ _ _ _) in *.
  destruct (Hh ltac:(lia)) as [Hho Hpg].
  destruct (PutRTPPacket_frame self0 cap Hinv0 Hmap0 pt n m limit now cap_ms ty limit_fits places is_stored (R := R) h _ (length pl) b Hho Hm Hb)
    as (h' & E & Hh' & Hm').
  destruct (pacing_call p0 p pl b Hpg ltac:(lia)) as (p' & Ep & Hpg').
  cbn [Vp8Session.SendVideoPacket red_sender]. rewrite Ebuf. cbn [pkt call_payload_length call_header_length call_storage call_protect].
  unfold RedSender.SendVideoPacket. rewrite no_fec.
  rewrite (SendToNetwork_frame self0 cap Hinv0 Hmap0 pt n m limit now delta cap_ms ty pt_range limit_fits places is_stored paced_wire self1
    (p, (h, [])) (p, (h', [])) (length pl) b tail _ Hs1 Hb)
    by (cbn [packet_history_PutRTPPacket paced_wire stored_wire fst snd max_payload_length_]; by rewrite E).
  change (@paced_sender_ paced_wire) with true. cbn [paced_sender_SendPacket paced_wire fst snd]. rewrite Ep. cbn [negb flow_bind].
  eexists _, _, _. split; [done|]. exists (pl ++ [b]), p', h'.
  rewrite fmap_app, Eb, !imap_snoc, length_app, reverse_snoc. cbn [fmap list_fmap length]. rewrite Hpk.
  split; [done|]. split; [apply Forall_app; split; [done|by constructor]|]. split; [done|].
  split; [by rewrite Nat.add_1_r|]. split; [done|split; [|done]].
  intros Hn. rewrite take_ge in Hh' by (cbn [length]; rewrite length_reverse, length_imap; lia). done.
Qed.

(** ** The turns of Process *)

Context (st : NackSender) (fuel : nat) (pl : list (list Z)).
Hypothesis sending : sending_media_ st = true.
Hypothesis no_rtx : rtx_ st = kRtxOff.
Hypothesis pl_length : (length pl <= n)%nat.

Local Abbreviation queued := (imap frame_queued pl).

(** The world after the first packets were sent: they are on the wire, in order, and padding
    only after the last. *)
Definition on_wire (l : list (Priority * Queued)) (w : SenderWorld) : Prop :=
  exists q pads, l = pair kNormalPriority <$> take (length l) queued
  /\ holds (sw_net w).1 m q /\ kept <$> q = kept <$> reverse (imap entry pl) /\ max_packet_length_ (sw_net w).1 <= max_payload_length
  /\ same_transport self0 (sw_sender w) /\ (sw_net w).2 = take (length l) (imap packet pl) ++ pads
  /\ Forall is_padding pads /\ (pads <> [] -> (length pl <= length l)%nat).

Lemma sent_of_normal priority (q : list Queued) :
  sent_of priority (pair kNormalPriority <$> q) = if decide (priority = kNormalPriority) then q else [].
Proof.
  unfold sent_of. induction q as [|p q IH]; [by destruct (decide _)|]. rewrite fmap_cons. destruct (decide (priority = kNormalPriority)) as [->|Hne].
  - rewrite filter_cons_True, fmap_cons by done. by f_equal.
  - rewrite filter_cons_False by (intros E; by apply Hne). exact IH.
Qed.

(** The next packet of the frame. *)
Lemma follows_next l priority p :
  l = pair kNormalPriority <$> take (length l) queued -> follows (frame_queues pl) (l ++ [(priority, p)]) ->
  exists b, pl !! length l = Some b /\ p = frame_queued (length l) b /\ priority = kNormalPriority.
Proof.
  intros El Hf. specialize (Hf priority). rewrite sent_of_snoc, decide_True in Hf by done.
  set (k := length l) in *. assert (Hk : (k <= length queued)%nat)
    by (apply (f_equal length) in El; rewrite length_fmap, length_take in El; fold k in El; lia).
  rewrite El, sent_of_normal in Hf. destruct (decide (priority = kNormalPriority)) as [->|Hne].
  - destruct Hf as [rest Hf]. cbn [frame_queues] in Hf.
    assert (Hp : queued !! k = Some p) by (rewrite Hf, <- app_assoc, lookup_app_r; rewrite length_take; [|lia]; by replace (k - k `min` length queued)%nat with O by lia).
    rewrite list_lookup_imap in Hp. destruct (pl !! k) as [b|]; [|done]. injection Hp as <-. by exists b.
  - destruct Hf as [rest Hf]. destruct priority; done.
Qed.

Lemma kept_find (q : list Stored) k b :
  kept <$> q = kept <$> reverse (imap entry pl) -> pl !! k = Some b ->
  NoDup (st_seq <$> q) /\ exists i e, q !! i = Some e /\ st_seq e = number k /\ st_bytes e = packet k b.
Proof.
  intros E Hb. assert (Eseq : forall l : list Stored, st_seq <$> l = (fun x => x.1.1.1) <$> (kept <$> l))
    by (intros l; by rewrite <- list_fmap_compose).
  split.
  - rewrite Eseq, E, <- Eseq. eapply frame_numbers_distinct; [exact places|]. lia.
  - assert (Hin : kept (entry k b) ∈ kept <$> q).
    { rewrite E. apply list_elem_of_fmap. exists (entry k b). split; [done|]. rewrite elem_of_reverse. apply list_elem_of_lookup.
      exists k. by rewrite list_lookup_imap, Hb. }
    apply list_elem_of_fmap in Hin as (e & Ee & [i Hi]%list_elem_of_lookup). exists i, e. split; [done|]. by injection Ee.
Qed.

Local Abbreviation CB := (sender_callback alloc rand st fuel).

Lemma on_wire_sent {R} l w priority p :
  follows (frame_queues pl) (l ++ [(priority, p)]) -> on_wire l w ->
  exists w', Pacer.TimeToSendPacket (Callback := CB) (R := R) w (q_ssrc p) (q_sequence_number p) (q_capture_time_ms p)
                (q_retransmission p) = Cont (true, [], w')
    /\ on_wire (l ++ [(priority, p)]) w' /\ sw_clock w' = sw_clock w.
Proof.
  intros Hf (q & pads & El & Hh & Ek & Hm & Hs & Ew & Hpads & Hlast). destruct w as [clk self [h wire]]. cbn [sw_clock sw_sender sw_net fst snd] in *.
  destruct (follows_next l priority p El Hf) as (b & Hb & -> & ->). assert (Hk := lookup_lt_Some _ _ _ Hb).
  destruct pads as [|x pads]; [|specialize (Hlast ltac:(done)); lia]. rewrite app_nil_r in Ew. subst wire.
  destruct (kept_find q (length l) b Ek Hb) as (Hd & i & e & Hi & Hseq & Hbytes).
  assert (Hbuf : max_packet_length_ h <= Zlen (alloc IP_PACKET_SIZE)) by (rewrite alloc_length by done; unfold max_payload_length, IP_PACKET_SIZE in *; lia).
  destruct (hd_at _ _ _ Hh i e Hi) as (_ & _ & _ & _ & _ & _ & Hlen). rewrite Hbytes in Hlen.
  assert (Hread := frame_packet_readable self0 cap Hinv0 Hmap0 pt n pt_range (length l) b).
  destruct (Get_found (R := R) h m q (TimeInMilliseconds clk) (number (length l)) 0 false (alloc IP_PACKET_SIZE) i e Hh Hd Hi Hseq
    ltac:(eapply frame_number_u16) Hbuf) as (h' & Eg & Hh' & Hm').
  change (may_sendb _ _ _ e) with true in *. cbv iota in *.
  exists (mkWorld clk (media_sent self) (h', take (length l) (imap packet pl) ++ [packet (length l) b])).
  split; [|split; [|done]].
  - cbn [Pacer.TimeToSendPacket sender_callback sw_clock sw_sender sw_net frame_queued q_ssrc q_sequence_number q_capture_time_ms q_retransmission].
    unfold ModuleRtpRtcpImpl_TimeToSendPacket, SendingMedia. rewrite sending, (tr_ssrc _ _ Hs), Z.eqb_refl. cbn [andb].
    unfold TimeToSendPacket. cbn [packet_history_GetPacketAndSetSendTime stored_wire fst snd]. rewrite Eg. cbn [flow_bind andb].
    rewrite Hbytes. erewrite PrepareAndSendPacket_stored; [done|by rewrite (tr_map _ _ Hs)|done|lia|by apply put_0; lia].
  - exists (alter (set_sent (TimeInMilliseconds clk)) i q), []. unfold on_wire. cbn [sw_net sw_sender fst snd].
    rewrite length_app, kept_set_sent, Hm', app_nil_r, Nat.add_1_r. erewrite !take_S_r by (by rewrite list_lookup_imap, Hb).
    split; [by rewrite fmap_app, <- El|]. split; [done|]. split; [done|]. split; [done|]. split; [by apply media_sent_same|]. done.
Qed.

Lemma on_wire_padding {R} l w bytes :
  (forall priority, sent_of priority l = frame_queues pl priority) -> on_wire l w ->
  exists sent w', Pacer.TimeToSendPadding (Callback := CB) (R := R) w bytes = Cont (sent, [], w')
    /\ on_wire l w' /\ sw_clock w' = sw_clock w.
Proof.
  intros Hf (q & pads & El & Hh & Ek & Hm & Hs & Ew & Hpads & Hlast). destruct w as [clk self [h wire]]. cbn [sw_clock sw_sender sw_net fst snd] in *.
  subst wire. destruct (TimeToSendPadding_pads alloc rand alloc_length rand_length (R := R) fuel self h (take (length l) (imap packet pl) ++ pads) st
    (TimeInMilliseconds clk) bytes (tr_inv _ _ Hs)) as (sent & self' & pads' & E & Hp & Hpads'); [by rewrite (tr_map _ _ Hs)|done|].
  exists sent, (mkWorld clk self' (h, take (length l) (imap packet pl) ++ pads ++ pads')). split; [|split; [|done]].
  - cbn [Pacer.TimeToSendPadding sender_callback sw_clock sw_sender sw_net]. rewrite E. cbn [flow_bind]. by rewrite <- app_assoc.
  - exists q, (pads ++ pads'). cbn [sw_sender sw_net fst snd]. split; [done|]. split; [done|]. split; [done|]. split; [done|].
    split; [by eapply same_transport_trans, pd_transport|]. split; [done|]. split; [by apply Forall_app|].
    intros _. specialize (Hf kNormalPriority). rewrite El, sent_of_normal in Hf. rewrite decide_True in Hf by done.
    apply (f_equal length) in Hf. cbn [frame_queues] in Hf. rewrite length_take, length_imap in Hf. lia.
Qed.
(** More than thirty milliseconds. *)
Definition long (f : Clock -> Clock) : Prop :=
  forall clk, kMaxQueueTimeWithoutSendingUs < TimeInMicroseconds (f clk) - TimeInMicroseconds clk.

(** Turns of Process, as many as there are packets. *)
Lemma rounds_send {R} p0 p self h clk (waits : list (Clock -> Clock)) :
  pacing p0 p pl -> paused_ p0 = false -> time_last_send_us_ p0 <= TimeInMicroseconds clk ->
  holds h m (reverse (imap entry pl)) -> max_packet_length_ h <= max_payload_length -> same_transport self0 self ->
  Forall long waits -> (length pl <= length waits)%nat ->
  exists p' w pads, rounds (CB := CB) (R := R) (pass <$> waits) p (mkWorld clk self (h, [])) = Cont (p', w)
    /\ (sw_net w).2 = imap packet pl ++ pads /\ Forall is_padding pads.
Proof.
  intros [(S & Hr & He & Ho & HQ) Hpa Ht] Hp0 Hclk Hho Hm Hs Hw Hl.
  assert (Eq : forall priority, queue_of p priority = frame_queues pl priority) by (intros x; rewrite <- HQ; apply Hr).
  destruct (rounds_left (CB := CB) (R := R) (frame_queues pl) on_wire) with (waits := pass <$> waits) (self := p)
    (w := mkWorld clk self (h, [])) (l := @nil (Priority * Queued)) as (p' & w' & l' & E & Hleft & Hu).
  - intros l w priority q Hf HP. destruct (on_wire_sent (R := R) l w priority q Hf HP) as (w' & E & HP' & Ec).
    exists w'. cbn [clock_ sender_callback]. by rewrite Ec.
  - intros l w bytes Hf HP. destruct (on_wire_padding (R := R) l w bytes Hf HP) as (sent & w' & E & HP' & Ec).
    exists sent, w'. cbn [clock_ sender_callback]. by rewrite Ec.
  - split.
    + destruct Hr as [R1 R2 R3 R4]. split; [done|done|done|]. intros x. cbn [sp_queues]. rewrite Eq, <- HQ. apply R4.
    + intros x. by rewrite Eq.
    + by rewrite Ht.
    + by exists (reverse (imap entry pl)), [].
    + rewrite Hpa, <- He. split; [apply Hr|done].
  - apply Forall_fmap. apply (Forall_impl long); [done|]. intros f Hf l w HP. split; [exact HP|apply Hf].
  - rewrite length_fmap in Hu. unfold urgent in Hu. rewrite !Eq in Hu. cbn [frame_queues length] in Hu. rewrite length_imap in Hu.
    assert (Enormal : queue_of p' kNormalPriority = []) by (apply nil_length_inv; lia).
    assert (HQ' := lw_queues _ _ _ _ _ Hleft kNormalPriority). rewrite Enormal, app_nil_r in HQ'.
    destruct (lw_world _ _ _ _ _ Hleft) as (q & pads & El & _ & _ & _ & _ & Ew & Hpads & _).
    exists p', w', pads. split; [exact E|]. split; [|done]. rewrite Ew, take_ge; [done|].
    rewrite El, sent_of_normal in HQ'. rewrite decide_True in HQ' by done. apply (f_equal length) in HQ'. cbn [frame_queues] in HQ'.
    rewrite length_take, length_imap in HQ'. rewrite length_imap. lia.
Qed.
End frame.

Lemma new_pacing self now delta cap_ms clock0 max min last_send :
  let p := new_PacedSender clock0 max min last_send in pacing self now delta cap_ms p p [].
Proof.
  split; [|done|done]. exists new_Spec. split; [apply new_refines|]. split; [done|]. split; [done|]. by intros [].
Qed.

(** C5: SendVP8 of a sender with a history and a new pacer returns 0 and puts nothing on the
    wire.  The sender has no header extensions, no error correction and RTX off, and the
    history has a place for each packet.  However small the budgets of the pacer are and
    whenever its turns of Process come, if each comes more than 30 ms after the last and
    there are as many turns as packets, the wire then has the packets of the frame, each
    once and in order, and after them padding only.  The receiver's parsers get the frame
    from the packets, as long as it is not a key frame whose first packet has fewer than ten
    bytes of it ([short_key_frame]).  The constructor of PacedSender leaves
    time_last_send_us_ unset; the theorem is for a value of it ([last_send]) that is not
    above the clock of the first turn.  Nothing in the code ensures that: above the clock
    and without a budget the pacer holds the packets back. *)
Theorem paced_frame_sent {R} self V alloc rand now delta cap_ms settings limit pt cap payloadData hdr m clock0 max min last_send st fuel :
  sender_inv self -> rtp_header_extension_map_ self = [] -> (forall k, 0 <= k -> Zlen (alloc k) = k) -> (forall j, Zlen (rand j) = 4) ->
  fecEnabled V = false -> sending_media_ st = true -> rtx_ st = kRtxOff -> 0 <= pt < 128 -> vp8_ok hdr -> 0 <= now ->
  0 < Zlen payloadData < 2147483648 -> PayloadDescriptorExtraLength hdr + 2 <= limit ->
  RTPHeaderLength self + limit <= max_payload_length -> vp8_storage settings hdr <> kDontStore ->
  short_key_frame R payloadData hdr limit = false ->
  (frame_packets R payloadData hdr limit <= m)%nat -> 0 < Z.of_nat m < 65536 ->
  exists self1 p1 h1 pkts l,
    SendVP8 (H := red_sender (H := paced_wire) alloc now delta cap_ms) (R := R) self
      ((new_PacedSender clock0 max min last_send, (SetStorePacketsStatus new_RTPPacketHistory true (Z.of_nat m), [])), V)
      settings limit now pt cap cap_ms payloadData (Zlen payloadData) hdr = Cont (0, self1, ((p1, (h1, [])), V), pkts)
    /\ Forall2 (video_delivered []) pkts l
    /\ Forall (fun d => same_header hdr (delivered_header d)) l.*2 /\ concat (delivered_data <$> l.*2) = payloadData
    /\ forall clk waits, last_send <= TimeInMicroseconds clk -> Forall long waits -> (length pkts <= length waits)%nat ->
      exists p2 w pads,
        rounds (CB := sender_callback alloc rand st fuel) (R := R) (pass <$> waits) p1 (mkWorld clk self1 (h1, [])) = Cont (p2, w)
        /\ (sw_net w).2 = (packet_bytes <$> pkts) ++ pads /\ Forall is_padding pads.
Proof.
  intros Hi Hmap Halloc Hrand Hfec Hsend Hrtx Hpt Hh Hnow Hp Hlim Hfit Hst Hno Hn Hm.
  set (n := frame_packets R payloadData hdr limit) in *. set (ty := vp8_storage settings hdr) in *.
  set (p0 := new_PacedSender clock0 max min last_send).
  set (v0 := ((p0, (SetStorePacketsStatus new_RTPPacketHistory true (Z.of_nat m), [])), V) : net (Network := paced_wire) * RTPSenderVideo).
  destruct (SendVP8_runs (H := red_sender (H := paced_wire) alloc now delta cap_ms) (R := R) self settings limit now pt cap cap_ms payloadData hdr)
    as (_ & Hrun); [unfold max_payload_length in *; done || lia..|].
  destruct (Hrun (queueing self cap pt n m limit now delta cap_ms V ty p0) v0) as (self1 & v1 & pkts & l & E & Hinv & Hlen & Hrec & _ & _ & Hhd & Hcat & Hsk).
  - intros sent self' v (pl & p & h & _ & _ & Hs & _). exact Hs.
  - apply queueing_call; (done || lia).
  - exists [], p0, (SetStorePacketsStatus new_RTPPacketHistory true (Z.of_nat m)). split; [done|]. split; [constructor|].
    split; [by split|]. split; [unfold frame_number; cbn; rewrite Z.add_0_r, u16_id by apply Hi; done|].
    split; [done|]. split; [|done]. intros _. split; [by apply holds_new|apply new_pacing].
  - destruct Hinv as (pl & p1 & h1 & Eb & _ & Hs & _ & -> & Hho & Hmax).
    assert (Hlp : length pl = n) by (rewrite <- (sent_length _ _ _ Eb); exact Hlen). destruct (Hho ltac:(lia)) as [Hholds Hpacing].
    exists self1, p1, h1, pkts, l. split; [exact E|]. rewrite <- Hmap. split; [apply all_video_delivered; [by rewrite Hsk|exact Hrec]|]. split; [done|]. split; [done|].
    intros clk waits Hclk Hw Hle. rewrite Eb. eapply (rounds_send self cap) with (ty := ty); eauto; lia.
Qed.

(** A pacer with no budget at all, and a turn each 40 ms. *)
Definition ex_pacer_clock : Clock := mkClock 0 0.
Definition ex_turn (clk : Clock) : Clock := mkClock (TimeInMilliseconds clk + 40) (TimeInMicroseconds clk + 40000).
Definition ex_rand (_ : Z) : list Z := [1; 2; 3; 4].

Lemma paced_frame_sent_witness :
  exists self1 p1 h1 pkts l,
    SendVP8 (H := red_sender (H := paced_wire) ex_memory 3 0 9) (R := unit) ex_frame_sender
      ((new_PacedSender ex_pacer_clock 0 0 77, (SetStorePacketsStatus new_RTPPacketHistory true 10, [])), ex_no_fec) 6 40 3 96 5 9
      (replicate 150 7) 150 ex_frame_header = Cont (0, self1, ((p1, (h1, [])), ex_no_fec), pkts)
    /\ Forall2 (video_delivered []) pkts l
    /\ Forall (fun d => same_header ex_frame_header (delivered_header d)) l.*2 /\ concat (delivered_data <$> l.*2) = replicate 150 7
    /\ exists p2 w pads,
        rounds (CB := sender_callback ex_memory ex_rand new_NackSender 10) (R := unit) (pass <$> replicate (length pkts) ex_turn) p1
          (mkWorld (mkClock 1 1000) self1 (h1, [])) = Cont (p2, w)
        /\ (sw_net w).2 = (packet_bytes <$> pkts) ++ pads /\ Forall is_padding pads.
Proof.
  destruct (paced_frame_sent (R := unit) ex_frame_sender ex_no_fec ex_memory ex_rand 3 0 9 6 40 96 5 (replicate 150 7) ex_frame_header 10
    ex_pacer_clock 0 0 77 new_NackSender 10)
    as (self1 & p1 & h1 & pkts & l & E & Hrec & Hhd & Hcat & Hturns); [|done| |done|done|done|done|done| |done|done|done|done|done|vm_compute; reflexivity| |done|].
  - by apply new_RTPSender_inv.
  - intros k Hk. by apply Zlen_replicate.
  - split; simpl; unfold kNoPictureId, kNoTl0PicIdx, kNoTemporalIdx, kNoKeyIdx; lia.
  - assert (En : frame_packets unit (replicate 150 7) ex_frame_header 40 = 5%nat) by (vm_compute; reflexivity). rewrite En. lia.
  - exists self1, p1, h1, pkts, l. split; [exact E|]. clear E. do 3 (split; [done|]). apply Hturns; [done| |by rewrite length_replicate].
    apply Forall_replicate. intros clk. unfold ex_turn, kMaxQueueTimeWithoutSendingUs. cbn [TimeInMicroseconds]. lia.
Defined.
