(* ===== verification/RtcpParser.v ===== *)
(** * The RTCP parser

    Models [RTCPUtility] of [modules/rtp_rtcp/source/rtcp_utility.h] and
    [rtcp_utility.cc]: the common header, [RTCPParserV2], which reports the parts of a
    compound packet one after another, and [RTCPPacketIterator].  A pointer into the
    packet is its offset; a read outside the packet is [Stuck].  The union [RTCPPacket] is
    the member that was written last. *)
From S2P Require Import Prelude RtpWire.
Local Open Scope Z_scope.

(** Sizes of [rtp_rtcp_config.h]. *)
Definition RTCP_CNAME_SIZE : Z := 256.
Definition RTCP_RPSI_DATA_SIZE : Z := 30.
Definition kRtcpAppCode_DATA_SIZE : Z := 128.
Definition MAX_NUMBER_OF_REMB_FEEDBACK_SSRCS : Z := 255.

Definition MidNtp (ntp_sec ntp_frac : Z) : Z := u32 (u32 (Z.shiftl ntp_sec 16) + Z.shiftr ntp_frac 16).

(** ** Data *)

Record RTCPPacketRR : Type := mkRR {
  RR_SenderSSRC : Z;
  RR_NumberOfReportBlocks : Z
}.

Record RTCPPacketSR : Type := mkSR {
  SR_SenderSSRC : Z;
  SR_NumberOfReportBlocks : Z;
  SR_NTPMostSignificant : Z;
  SR_NTPLeastSignificant : Z;
  SR_RTPTimestamp : Z;
  SR_SenderPacketCount : Z;
  SR_SenderOctetCount : Z
}.

Record RTCPPacketReportBlockItem : Type := mkReportBlockItem {
  rb_SSRC : Z;
  rb_FractionLost : Z;
  rb_CumulativeNumOfPacketsLost : Z;
  rb_ExtendedHighestSequenceNumber : Z;
  rb_Jitter : Z;
  rb_LastSR : Z;
  rb_DelayLastSR : Z
}.

Record RTCPPacketXRDLRRReportBlockItem : Type := mkDLRRItem {
  dlrr_SSRC : Z;
  dlrr_LastRR : Z;
  dlrr_DelayLastRR : Z
}.

Record RTCPPacketXRVOIPMetricItem : Type := mkVOIPMetricItem {
  vm_SSRC : Z;
  vm_lossRate : Z;
  vm_discardRate : Z;
  vm_burstDensity : Z;
  vm_gapDensity : Z;
  vm_burstDuration : Z;
  vm_gapDuration : Z;
  vm_roundTripDelay : Z;
  vm_endSystemDelay : Z;
  vm_signalLevel : Z;
  vm_noiseLevel : Z;
  vm_RERL : Z;
  vm_Gmin : Z;
  vm_Rfactor : Z;
  vm_extRfactor : Z;
  vm_MOSLQ : Z;
  vm_MOSCQ : Z;
  vm_RXconfig : Z;
  vm_JBnominal : Z;
  vm_JBmax : Z;
  vm_JBabsMax : Z
}.

(** The two SSRCs of a feedback message. *)
Record RTCPPacketFB : Type := mkFB {
  fb_SenderSSRC : Z;
  fb_MediaSSRC : Z
}.

Record RTCPPacketRTPFBNACKItem : Type := mkNACKItem {
  nack_PacketID : Z;
  nack_BitMask : Z
}.

(** An item of TMMBR or of TMMBN. *)
Record RTCPPacketRTPFBTMMBRItem : Type := mkTMMBRItem {
  tm_SSRC : Z;
  tm_MaxTotalMediaBitRate : Z;
  tm_MeasuredOverhead : Z
}.

Record RTCPPacketPSFBFIRItem : Type := mkFIRItem {
  fir_SSRC : Z;
  fir_CommandSequenceNumber : Z
}.

Record RTCPPacketPSFBSLIItem : Type := mkSLIItem {
  sli_FirstMB : Z;
  sli_NumberOfMB : Z;
  sli_PictureId : Z
}.

(** What [ParseRPSIItem] writes; of NativeBitString the bytes that were written. *)
Record RPSIItem : Type := mkRPSIItem {
  rpsi_PayloadType : Z;
  rpsi_NumberOfValidBits : Z;
  rpsi_NativeBitString : list Z
}.

Record RTCPPacketPSFBREMBItem : Type := mkREMBItem {
  remb_BitRate : Z;
  remb_NumberOfSSRCs : Z;
  remb_SSRCs : list Z
}.

(** The union.  A member that is written in two steps has [None] for what was not written
    since another member was. *)
Inductive RTCPPacket : Type :=
| NoPacket
| RR (p : RTCPPacketRR)
| SR (p : RTCPPacketSR)
| ReportBlockItem (p : RTCPPacketReportBlockItem)
| CName (SenderSSRC : option Z) (name : list Z)
| BYE (SenderSSRC : Z)
| ExtendedJitterReportItem (Jitter : Z)
| NACK (p : RTCPPacketFB)
| NACKItem (p : RTCPPacketRTPFBNACKItem)
| PLI (p : RTCPPacketFB)
| SLI (p : RTCPPacketFB)
| SLIItem (p : RTCPPacketPSFBSLIItem)
| RPSI (p : option RTCPPacketFB) (item : option RPSIItem)
| PSFBAPP (p : RTCPPacketFB)
| REMBItem (p : RTCPPacketPSFBREMBItem)
| TMMBR (p : RTCPPacketFB)
| TMMBRItem (p : RTCPPacketRTPFBTMMBRItem)
| TMMBN (p : RTCPPacketFB)
| TMMBNItem (p : RTCPPacketRTPFBTMMBRItem)
| FIR (p : RTCPPacketFB)
| FIRItem (p : RTCPPacketPSFBFIRItem)
| XR (OriginatorSSRC : Z)
| XRReceiverReferenceTimeItem (NTPMostSignificant NTPLeastSignificant : Z)
| XRDLRRReportBlockItem (p : RTCPPacketXRDLRRReportBlockItem)
| XRVOIPMetricItem (p : RTCPPacketXRVOIPMetricItem)
| APP (SubTypeName : option (Z * Z)) (Data : option (list Z)).

Inductive RTCPPacketTypes : Type :=
| kRtcpNotValidCode
| kRtcpRrCode | kRtcpSrCode | kRtcpReportBlockItemCode
| kRtcpSdesCode | kRtcpSdesChunkCode | kRtcpByeCode
| kRtcpExtendedIjCode | kRtcpExtendedIjItemCode
| kRtcpRtpfbNackCode | kRtcpRtpfbNackItemCode
| kRtcpPsfbPliCode | kRtcpPsfbRpsiCode | kRtcpPsfbSliCode | kRtcpPsfbSliItemCode
| kRtcpPsfbAppCode | kRtcpPsfbRembCode | kRtcpPsfbRembItemCode
| kRtcpRtpfbTmmbrCode | kRtcpRtpfbTmmbrItemCode | kRtcpRtpfbTmmbnCode | kRtcpRtpfbTmmbnItemCode
| kRtcpPsfbFirCode | kRtcpPsfbFirItemCode
| kRtcpRtpfbSrReqCode
| kRtcpXrHeaderCode | kRtcpXrReceiverReferenceTimeCode | kRtcpXrDlrrReportBlockCode
| kRtcpXrDlrrReportBlockItemCode | kRtcpXrVoipMetricCode
| kRtcpAppCode | kRtcpAppItemCode.

#[export] Instance RTCPPacketTypes_eq : EqDecision RTCPPacketTypes.
Proof. solve_decision. Defined.

Record RTCPCommonHeader : Type := mkRTCPCommonHeader {
  rh_V : Z;
  rh_P : bool;
  rh_IC : Z;
  rh_PT : Z;
  rh_LengthInOctets : Z
}.

Definition PT_IJ : Z := 195.
Definition PT_SR : Z := 200.
Definition PT_RR : Z := 201.
Definition PT_SDES : Z := 202.
Definition PT_BYE : Z := 203.
Definition PT_APP : Z := 204.
Definition PT_RTPFB : Z := 205.
Definition PT_PSFB : Z := 206.
Definition PT_XR : Z := 207.

Definition kBtReceiverReferenceTime : Z := 4.
Definition kBtDlrr : Z := 5.
Definition kBtVoipMetric : Z := 7.

Inductive ParseState : Type :=
| State_TopLevel
| State_ReportBlockItem
| State_SDESChunk
| State_BYEItem
| State_ExtendedJitterItem
| State_RTPFB_NACKItem
| State_RTPFB_TMMBRItem
| State_RTPFB_TMMBNItem
| State_PSFB_SLIItem
| State_PSFB_RPSIItem
| State_PSFB_FIRItem
| State_PSFB_AppItem
| State_PSFB_REMBItem
| State_XRItem
| State_XR_DLLRItem
| State_AppItem.

Record RTCPParserV2 : Type := mkRTCPParserV2 {
  rtcpData : list Z;
  RTCPReducedSizeEnable_ : bool;
  validPacket_ : bool;
  ptrRTCPData_ : Z;
  ptrRTCPBlockEnd_ : Z;
  state_ : ParseState;
  numberOfBlocks_ : Z;
  packetType_ : RTCPPacketTypes;
  packet_ : RTCPPacket
}.

Definition set_ptr (p : RTCPParserV2) (ptr : Z) : RTCPParserV2 :=
  mkRTCPParserV2 (rtcpData p) (RTCPReducedSizeEnable_ p) (validPacket_ p) ptr (ptrRTCPBlockEnd_ p) (state_ p)
    (numberOfBlocks_ p) (packetType_ p) (packet_ p).
Definition set_block_end (p : RTCPParserV2) (block_end : Z) : RTCPParserV2 :=
  mkRTCPParserV2 (rtcpData p) (RTCPReducedSizeEnable_ p) (validPacket_ p) (ptrRTCPData_ p) block_end (state_ p)
    (numberOfBlocks_ p) (packetType_ p) (packet_ p).
Definition set_state (p : RTCPParserV2) (state : ParseState) : RTCPParserV2 :=
  mkRTCPParserV2 (rtcpData p) (RTCPReducedSizeEnable_ p) (validPacket_ p) (ptrRTCPData_ p) (ptrRTCPBlockEnd_ p) state
    (numberOfBlocks_ p) (packetType_ p) (packet_ p).
Definition set_blocks (p : RTCPParserV2) (numberOfBlocks : Z) : RTCPParserV2 :=
  mkRTCPParserV2 (rtcpData p) (RTCPReducedSizeEnable_ p) (validPacket_ p) (ptrRTCPData_ p) (ptrRTCPBlockEnd_ p) (state_ p)
    numberOfBlocks (packetType_ p) (packet_ p).
Definition set_type (p : RTCPParserV2) (packetType : RTCPPacketTypes) : RTCPParserV2 :=
  mkRTCPParserV2 (rtcpData p) (RTCPReducedSizeEnable_ p) (validPacket_ p) (ptrRTCPData_ p) (ptrRTCPBlockEnd_ p) (state_ p)
    (numberOfBlocks_ p) packetType (packet_ p).
Definition set_packet (p : RTCPParserV2) (packet : RTCPPacket) : RTCPParserV2 :=
  mkRTCPParserV2 (rtcpData p) (RTCPReducedSizeEnable_ p) (validPacket_ p) (ptrRTCPData_ p) (ptrRTCPBlockEnd_ p) (state_ p)
    (numberOfBlocks_ p) (packetType_ p) packet.
Definition set_valid (p : RTCPParserV2) : RTCPParserV2 :=
  mkRTCPParserV2 (rtcpData p) (RTCPReducedSizeEnable_ p) true (ptrRTCPData_ p) (ptrRTCPBlockEnd_ p) (state_ p)
    (numberOfBlocks_ p) (packetType_ p) (packet_ p).

Definition LengthLeft (p : RTCPParserV2) : Z := Zlen (rtcpData p) - ptrRTCPData_ p.
Definition PacketType (p : RTCPParserV2) : RTCPPacketTypes := packetType_ p.
Definition Packet (p : RTCPParserV2) : RTCPPacket := packet_ p.
Definition IsValid (p : RTCPParserV2) : bool := validPacket_ p.
Definition EndCurrentBlock (p : RTCPParserV2) : RTCPParserV2 := set_ptr p (ptrRTCPBlockEnd_ p).

(** The end of a block and a return to the top level, with the result [false]. *)
Definition leave {R : Type} (p : RTCPParserV2) : flow R (bool * RTCPParserV2) :=
  Cont (false, EndCurrentBlock (set_state p State_TopLevel)).

(** The bytes left in the block. *)
Definition block_left (p : RTCPParserV2) : Z := ptrRTCPBlockEnd_ p - ptrRTCPData_ p.

Definition skip (p : RTCPParserV2) (n : Z) : RTCPParserV2 := set_ptr p (ptrRTCPData_ p + n).

(** Reads with [*_ptrRTCPData++]. *)
Definition get8 {R : Type} (p : RTCPParserV2) : flow R (Z * RTCPParserV2) :=
  let! b := rd (rtcpData p) (ptrRTCPData_ p) in Cont (b, skip p 1).

Definition get16 {R : Type} (p : RTCPParserV2) : flow R (Z * RTCPParserV2) :=
  let! (b0, p) := get8 p in
  let! (b1, p) := get8 p in
  Cont (u16 (Z.shiftl b0 8 + b1), p).

Definition get24 {R : Type} (p : RTCPParserV2) : flow R (Z * RTCPParserV2) :=
  let! (b0, p) := get8 p in
  let! (b1, p) := get8 p in
  let! (b2, p) := get8 p in
  Cont (u32 (Z.shiftl b0 16 + Z.shiftl b1 8 + b2), p).

Definition get32 {R : Type} (p : RTCPParserV2) : flow R (Z * RTCPParserV2) :=
  let! (b0, p) := get8 p in
  let! (b1, p) := get8 p in
  let! (b2, p) := get8 p in
  let! (b3, p) := get8 p in
  Cont (u32 (Z.shiftl b0 24 + Z.shiftl b1 16 + Z.shiftl b2 8 + b3), p).

(** What a shift by the width or more gives, which C leaves undefined. *)
Class Machine : Type := {
  wide_shl : Z -> Z -> Z;
  wide_shr : Z -> Z -> Z
}.

Definition shl32 `{Machine} (v n : Z) : Z := u32 (if n <? 32 then Z.shiftl v n else wide_shl v n).

(** ** The common header *)

(** [None] is the result [false]. *)
Definition RTCPParseCommonHeader {R : Type} (data : list Z) (ptrDataBegin : Z) : flow R (option RTCPCommonHeader) :=
  if Zlen data - ptrDataBegin <? 4 then Cont None
  else
    let! b0 := rd data ptrDataBegin in
    let! b1 := rd data (ptrDataBegin + 1) in
    let! b2 := rd data (ptrDataBegin + 2) in
    let! b3 := rd data (ptrDataBegin + 3) in
    let length := u16 (u16 (Z.shiftl b2 8 + b3 + 1) * 4) in
    if length =? 0 then Cont None
    else if negb (Z.shiftr b0 6 =? 2) then Cont None
    else Cont (Some (mkRTCPCommonHeader (Z.shiftr b0 6) (negb (Z.land b0 32 =? 0)) (Z.land b0 31) b1 length)).

(** ** Reports *)

Definition ParseRR {R : Type} (p : RTCPParserV2) : flow R (bool * RTCPParserV2) :=
  if block_left p <? 8 then Cont (false, p)
  else
    let p := set_type (skip p 4) kRtcpRrCode in
    let! (SenderSSRC, p) := get32 p in
    let p := set_packet p (RR (mkRR SenderSSRC (numberOfBlocks_ p))) in
    Cont (true, set_state p State_ReportBlockItem).

Definition ParseSR {R : Type} (p : RTCPParserV2) : flow R (bool * RTCPParserV2) :=
  if block_left p <? 28 then Cont (false, EndCurrentBlock p)
  else
    let p := set_type (skip p 4) kRtcpSrCode in
    let! (SenderSSRC, p) := get32 p in
    let! (NTPMostSignificant, p) := get32 p in
    let! (NTPLeastSignificant, p) := get32 p in
    let! (RTPTimestamp, p) := get32 p in
    let! (SenderPacketCount, p) := get32 p in
    let! (SenderOctetCount, p) := get32 p in
    let p := set_packet p (SR (mkSR SenderSSRC (numberOfBlocks_ p) NTPMostSignificant NTPLeastSignificant RTPTimestamp
      SenderPacketCount SenderOctetCount)) in
    Cont (true, if negb (numberOfBlocks_ p =? 0) then set_state p State_ReportBlockItem
                else EndCurrentBlock (set_state p State_TopLevel)).

Definition ParseReportBlockItem {R : Type} (p : RTCPParserV2) : flow R (bool * RTCPParserV2) :=
  if (block_left p <? 24) || (numberOfBlocks_ p <=? 0) then leave p
  else
    let! (SSRC, p) := get32 p in
    let! (FractionLost, p) := get8 p in
    let! (CumulativeNumOfPacketsLost, p) := get24 p in
    let! (ExtendedHighestSequenceNumber, p) := get32 p in
    let! (Jitter, p) := get32 p in
    let! (LastSR, p) := get32 p in
    let! (DelayLastSR, p) := get32 p in
    let p := set_packet p (ReportBlockItem (mkReportBlockItem SSRC FractionLost CumulativeNumOfPacketsLost
      ExtendedHighestSequenceNumber Jitter LastSR DelayLastSR)) in
    Cont (true, set_type (set_blocks p (u8 (numberOfBlocks_ p - 1))) kRtcpReportBlockItemCode).

Definition ParseIJ {R : Type} (p : RTCPParserV2) : flow R (bool * RTCPParserV2) :=
  if block_left p <? 4 then Cont (false, p)
  else Cont (true, set_state (set_type (skip p 4) kRtcpExtendedIjCode) State_ExtendedJitterItem).

Definition ParseIJItem {R : Type} (p : RTCPParserV2) : flow R (bool * RTCPParserV2) :=
  if (block_left p <? 4) || (numberOfBlocks_ p <=? 0) then leave p
  else
    let! (Jitter, p) := get32 p in
    let p := set_packet p (ExtendedJitterReportItem Jitter) in
    Cont (true, set_type (set_blocks p (u8 (numberOfBlocks_ p - 1))) kRtcpExtendedIjItemCode).

(** ** Source descriptions *)

Definition ParseSDES {R : Type} (p : RTCPParserV2) : flow R (bool * RTCPParserV2) :=
  if block_left p <? 8 then leave p
  else Cont (true, set_type (set_state (skip p 4) State_SDESChunk) kRtcpSdesCode).

(** The bytes after the end tag, up to a multiple of four. *)
Fixpoint sdes_align (fuel : nat) (p : RTCPParserV2) (itemOctetsRead : Z) : RTCPParserV2 :=
  match fuel with
  | O => p
  | S fuel => if itemOctetsRead mod 4 =? 0 then p else sdes_align fuel (skip p 1) (itemOctetsRead + 1)
  end.

Definition cname_illegal (c : Z) : bool := (c <? 32) || (123 <? c) || (c =? 37) || (c =? 92).

(** The characters of a CNAME; the result [false] is an illegal one. *)
Fixpoint cname_loop {R : Type} (len : nat) (p : RTCPParserV2) (i : Z) (name : list Z) : flow R (bool * list Z) :=
  match len with
  | O => if RTCP_CNAME_SIZE <=? i then Stuck else Cont (true, name)
  | S len =>
      let! c := rd (rtcpData p) (ptrRTCPData_ p + i) in
      if cname_illegal c then Cont (false, name)
      else if RTCP_CNAME_SIZE <=? i then Stuck
      else cname_loop len p (i + 1) (name ++ [c])
  end.

Fixpoint ParseSDESItem {R : Type} (fuel : nat) (p : RTCPParserV2) (itemOctetsRead : Z) (foundCName : bool)
  : flow R (bool * RTCPParserV2) :=
  if negb (ptrRTCPData_ p <? ptrRTCPBlockEnd_ p) then leave p
  else
    match fuel with
    | O => Stuck
    | S fuel =>
        let! (tag, p) := get8 p in
        let itemOctetsRead := itemOctetsRead + 1 in
        if tag =? 0 then Cont (foundCName, sdes_align 4 p itemOctetsRead)
        else if ptrRTCPData_ p <? ptrRTCPBlockEnd_ p then
          let! (len, p) := get8 p in
          let itemOctetsRead := itemOctetsRead + 1 in
          if tag =? 1 then
            if ptrRTCPBlockEnd_ p <=? ptrRTCPData_ p + len then leave p
            else
              let! (legal, name) := cname_loop (Z.to_nat len) p 0 [] in
              let p := set_packet p (CName None name) in
              if negb legal then leave p
              else ParseSDESItem fuel (skip (set_type p kRtcpSdesChunkCode) len) (itemOctetsRead + len) true
          else ParseSDESItem fuel (skip p len) (itemOctetsRead + len) foundCName
        else ParseSDESItem fuel p itemOctetsRead foundCName
    end.

(** The chunks until one with a CNAME. *)
Fixpoint sdes_chunks {R : Type} (fuel : nat) (p : RTCPParserV2) : flow R (bool * RTCPParserV2) :=
  if negb (ptrRTCPData_ p <? ptrRTCPBlockEnd_ p) then leave p
  else
    match fuel with
    | O => Stuck
    | S fuel =>
        if block_left p <? 4 then leave p
        else
          let! (SSRC, p) := get32 p in
          let! (foundCname, p) := ParseSDESItem (length (rtcpData p)) p 0 false in
          if foundCname
          then Cont (true, set_packet p (CName (Some SSRC) (match packet_ p with CName _ name => name | _ => [] end)))
          else sdes_chunks fuel p
    end.

Definition ParseSDESChunk {R : Type} (p : RTCPParserV2) : flow R (bool * RTCPParserV2) :=
  if numberOfBlocks_ p <=? 0 then leave p
  else sdes_chunks (length (rtcpData p)) (set_blocks p (u8 (numberOfBlocks_ p - 1))).

(** ** BYE *)

Definition ParseBYEItem {R : Type} (p : RTCPParserV2) : flow R (bool * RTCPParserV2) :=
  let length := block_left p in
  if (length <? 4) || (numberOfBlocks_ p =? 0) then leave p
  else
    let p := set_type p kRtcpByeCode in
    let! (SenderSSRC, p) := get32 p in
    let p := set_packet p (BYE SenderSSRC) in
    let p := if 4 * numberOfBlocks_ p <=? length then skip p ((numberOfBlocks_ p - 1) * 4) else p in
    Cont (true, set_blocks p 0).

Definition ParseBYE {R : Type} (p : RTCPParserV2) : flow R (bool * RTCPParserV2) :=
  ParseBYEItem (set_state (skip p 4) State_BYEItem).

(** ** Extended reports *)

Definition ParseXr {R : Type} (p : RTCPParserV2) : flow R (bool * RTCPParserV2) :=
  if block_left p <? 8 then Cont (false, EndCurrentBlock p)
  else
    let! (OriginatorSSRC, p) := get32 (skip p 4) in
    let p := set_packet p (XR OriginatorSSRC) in
    Cont (true, set_state (set_type p kRtcpXrHeaderCode) State_XRItem).

Definition ParseXrReceiverReferenceTimeItem {R : Type} (p : RTCPParserV2) (block_length_4bytes : Z)
  : flow R (bool * RTCPParserV2) :=
  if negb (block_length_4bytes =? 2) || (block_left p <? 8) then leave p
  else
    let! (NTPMostSignificant, p) := get32 p in
    let! (NTPLeastSignificant, p) := get32 p in
    let p := set_packet p (XRReceiverReferenceTimeItem NTPMostSignificant NTPLeastSignificant) in
    Cont (true, set_state (set_type p kRtcpXrReceiverReferenceTimeCode) State_XRItem).

Definition ParseXrDlrr {R : Type} (p : RTCPParserV2) (block_length_4bytes : Z) : flow R (bool * RTCPParserV2) :=
  if (block_length_4bytes <? 0) || negb (Z.rem block_length_4bytes 3 =? 0) then leave p
  else
    let p := set_state (set_type p kRtcpXrDlrrReportBlockCode) State_XR_DLLRItem in
    Cont (true, set_blocks p (u8 (Z.quot block_length_4bytes 3))).

Definition ParseXrDlrrItem {R : Type} (p : RTCPParserV2) : flow R (bool * RTCPParserV2) :=
  if numberOfBlocks_ p =? 0 then Cont (false, set_state p State_XRItem)
  else if block_left p <? 12 then leave p
  else
    let! (SSRC, p) := get32 p in
    let! (LastRR, p) := get32 p in
    let! (DelayLastRR, p) := get32 p in
    let p := set_packet p (XRDLRRReportBlockItem (mkDLRRItem SSRC LastRR DelayLastRR)) in
    Cont (true, set_state (set_blocks (set_type p kRtcpXrDlrrReportBlockItemCode) (u8 (numberOfBlocks_ p - 1))) State_XR_DLLRItem).

Definition ParseXrVoipMetricItem {R : Type} (p : RTCPParserV2) (block_length_4bytes : Z)
  : flow R (bool * RTCPParserV2) :=
  if negb (block_length_4bytes =? 8) || (block_left p <? 32) then leave p
  else
    let! (SSRC, p) := get32 p in
    let! (lossRate, p) := get8 p in
    let! (discardRate, p) := get8 p in
    let! (burstDensity, p) := get8 p in
    let! (gapDensity, p) := get8 p in
    let! (burstDuration, p) := get16 p in
    let! (gapDuration, p) := get16 p in
    let! (roundTripDelay, p) := get16 p in
    let! (endSystemDelay, p) := get16 p in
    let! (signalLevel, p) := get8 p in
    let! (noiseLevel, p) := get8 p in
    let! (RERL, p) := get8 p in
    let! (Gmin, p) := get8 p in
    let! (Rfactor, p) := get8 p in
    let! (extRfactor, p) := get8 p in
    let! (MOSLQ, p) := get8 p in
    let! (MOSCQ, p) := get8 p in
    let! (RXconfig, p) := get8 p in
    let p := skip p 1 in
    let! (JBnominal, p) := get16 p in
    let! (JBmax, p) := get16 p in
    let! (JBabsMax, p) := get16 p in
    let p := set_packet p (XRVOIPMetricItem (mkVOIPMetricItem SSRC lossRate discardRate burstDensity gapDensity burstDuration
      gapDuration roundTripDelay endSystemDelay signalLevel noiseLevel RERL Gmin Rfactor extRfactor MOSLQ MOSCQ RXconfig
      JBnominal JBmax JBabsMax)) in
    Cont (true, set_state (set_type p kRtcpXrVoipMetricCode) State_XRItem).

Definition ParseXrUnsupportedBlockType {R : Type} (p : RTCPParserV2) (block_length_4bytes : Z)
  : flow R (bool * RTCPParserV2) :=
  let kBlockLengthInBytes := block_length_4bytes * 4 in
  if block_left p <? kBlockLengthInBytes then leave p
  else Cont (false, set_state (skip p kBlockLengthInBytes) State_XRItem).

Definition ParseXrItem {R : Type} (p : RTCPParserV2) : flow R (bool * RTCPParserV2) :=
  if block_left p <? 4 then leave p
  else
    let! (block_type, p) := get8 p in
    let! (block_length_in_4bytes, p) := get16 (skip p 1) in
    if block_type =? kBtReceiverReferenceTime then ParseXrReceiverReferenceTimeItem p block_length_in_4bytes
    else if block_type =? kBtDlrr then ParseXrDlrr p block_length_in_4bytes
    else if block_type =? kBtVoipMetric then ParseXrVoipMetricItem p block_length_in_4bytes
    else ParseXrUnsupportedBlockType p block_length_in_4bytes.

(** ** Feedback messages *)

(** What the union still has of an RPSI item. *)
Definition rpsi_item (u : RTCPPacket) : option RPSIItem := match u with RPSI _ item => item | _ => None end.
Definition rpsi_header (u : RTCPPacket) : option RTCPPacketFB := match u with RPSI h _ => h | _ => None end.

Definition ParseFBCommon {R : Type} (p : RTCPParserV2) (header : RTCPCommonHeader) : flow R (bool * RTCPParserV2) :=
  if block_left p <? 12 then Cont (false, EndCurrentBlock p)
  else
    let! (senderSSRC, p) := get32 (skip p 4) in
    let! (mediaSSRC, p) := get32 p in
    let fb := mkFB senderSSRC mediaSSRC in
    let found type packet state := Cont (true, set_state (set_packet (set_type p type) packet) state) in
    let IC := rh_IC header in
    if rh_PT header =? PT_RTPFB then
      if IC =? 1 then found kRtcpRtpfbNackCode (NACK fb) State_RTPFB_NACKItem
      else if IC =? 3 then found kRtcpRtpfbTmmbrCode (TMMBR fb) State_RTPFB_TMMBRItem
      else if IC =? 4 then found kRtcpRtpfbTmmbnCode (TMMBN fb) State_RTPFB_TMMBNItem
      else if IC =? 5 then Cont (true, set_type p kRtcpRtpfbSrReqCode)
      else Cont (false, EndCurrentBlock p)
    else if rh_PT header =? PT_PSFB then
      if IC =? 1 then Cont (true, set_packet (set_type p kRtcpPsfbPliCode) (PLI fb))
      else if IC =? 2 then found kRtcpPsfbSliCode (SLI fb) State_PSFB_SLIItem
      else if IC =? 3 then found kRtcpPsfbRpsiCode (RPSI (Some fb) (rpsi_item (packet_ p))) State_PSFB_RPSIItem
      else if IC =? 4 then found kRtcpPsfbFirCode (FIR fb) State_PSFB_FIRItem
      else if IC =? 15 then found kRtcpPsfbAppCode (PSFBAPP fb) State_PSFB_AppItem
      else Cont (false, EndCurrentBlock p)
    else Cont (false, EndCurrentBlock p).

Definition ParseRPSIItem {R : Type} (p : RTCPParserV2) : flow R (bool * RTCPParserV2) :=
  let length := block_left p in
  if length <? 4 then leave p
  else if 2 + RTCP_RPSI_DATA_SIZE <? length then leave p
  else
    let! (padding_bits, p) := get8 (set_type p kRtcpPsfbRpsiCode) in
    let! (PayloadType, p) := get8 p in
    let! NativeBitString := blk_get (rtcpData p) (ptrRTCPData_ p) (length - 2) in
    let p := skip p (length - 2) in
    let NumberOfValidBits := u16 (u16 (length - 2) * 8 - padding_bits) in
    Cont (true, set_packet p (RPSI (rpsi_header (packet_ p)) (Some (mkRPSIItem PayloadType NumberOfValidBits NativeBitString)))).

Definition ParseNACKItem {R : Type} (p : RTCPParserV2) : flow R (bool * RTCPParserV2) :=
  if block_left p <? 4 then leave p
  else
    let! (PacketID, p) := get16 (set_type p kRtcpRtpfbNackItemCode) in
    let! (BitMask, p) := get16 p in
    Cont (true, set_packet p (NACKItem (mkNACKItem PacketID BitMask))).

Definition ParsePsfbAppItem {R : Type} (p : RTCPParserV2) : flow R (bool * RTCPParserV2) :=
  if block_left p <? 4 then leave p
  else
    let! (c, p) := get8 p in
    if negb (c =? 82) then leave p
    else
      let! (c, p) := get8 p in
      if negb (c =? 69) then leave p
      else
        let! (c, p) := get8 p in
        if negb (c =? 77) then leave p
        else
          let! (c, p) := get8 p in
          if negb (c =? 66) then leave p
          else Cont (true, set_state (set_type p kRtcpPsfbRembCode) State_PSFB_REMBItem).

(** The list of SSRCs, with the bounds of the array. *)
Fixpoint remb_ssrcs {R : Type} (n : nat) (p : RTCPParserV2) (ssrcs : list Z) : flow R (list Z * RTCPParserV2) :=
  match n with
  | O => Cont (ssrcs, p)
  | S n =>
      let! (SSRC, p) := get32 p in
      if MAX_NUMBER_OF_REMB_FEEDBACK_SSRCS <=? Zlen ssrcs then Stuck
      else remb_ssrcs n p (ssrcs ++ [SSRC])
  end.

Section shifts.
Context `{Machine}.

Definition ParsePsfbREMBItem {R : Type} (p : RTCPParserV2) : flow R (bool * RTCPParserV2) :=
  if block_left p <? 4 then leave p
  else
    let! (NumberOfSSRCs, p) := get8 p in
    let! b0 := rd (rtcpData p) (ptrRTCPData_ p) in
    let! b1 := rd (rtcpData p) (ptrRTCPData_ p + 1) in
    let! b2 := rd (rtcpData p) (ptrRTCPData_ p + 2) in
    let brExp := Z.land (Z.shiftr b0 2) 63 in
    let brMantissa := u32 (Z.shiftl (Z.land b0 3) 16 + Z.shiftl b1 8 + b2) in
    let p := skip p 3 in
    let BitRate := shl32 brMantissa brExp in
    if block_left p <? 4 * NumberOfSSRCs then leave (set_packet p (REMBItem (mkREMBItem BitRate NumberOfSSRCs [])))
    else
      let p := set_type p kRtcpPsfbRembItemCode in
      let! (SSRCs, p) := remb_ssrcs (Z.to_nat NumberOfSSRCs) p [] in
      Cont (true, set_packet p (REMBItem (mkREMBItem BitRate NumberOfSSRCs SSRCs))).

(** The rate in kbit/s and the overhead of an item of TMMBR or TMMBN. *)
Definition get_tmmbr {R : Type} (p : RTCPParserV2) : flow R (RTCPPacketRTPFBTMMBRItem * RTCPParserV2) :=
  let! (SSRC, p) := get32 p in
  let! b0 := rd (rtcpData p) (ptrRTCPData_ p) in
  let! b1 := rd (rtcpData p) (ptrRTCPData_ p + 1) in
  let! b2 := rd (rtcpData p) (ptrRTCPData_ p + 2) in
  let! b3 := rd (rtcpData p) (ptrRTCPData_ p + 3) in
  let mxtbrExp := Z.land (Z.shiftr b0 2) 63 in
  let mxtbrMantissa := u32 (Z.shiftl (Z.land b0 3) 15 + Z.shiftl b1 7 + Z.land (Z.shiftr b2 1) 127) in
  let measuredOH := u32 (Z.shiftl (Z.land b2 1) 8 + b3) in
  Cont (mkTMMBRItem SSRC (shl32 mxtbrMantissa mxtbrExp / 1000) measuredOH, skip p 4).

Definition ParseTMMBRItem {R : Type} (p : RTCPParserV2) : flow R (bool * RTCPParserV2) :=
  if block_left p <? 8 then leave p
  else
    let! (item, p) := get_tmmbr (set_type p kRtcpRtpfbTmmbrItemCode) in
    Cont (true, set_packet p (TMMBRItem item)).

Definition ParseTMMBNItem {R : Type} (p : RTCPParserV2) : flow R (bool * RTCPParserV2) :=
  if block_left p <? 8 then leave p
  else
    let! (item, p) := get_tmmbr (set_type p kRtcpRtpfbTmmbnItemCode) in
    Cont (true, set_packet p (TMMBNItem item)).

Definition ParseSLIItem {R : Type} (p : RTCPParserV2) : flow R (bool * RTCPParserV2) :=
  if block_left p <? 4 then leave p
  else
    let! (buffer, p) := get32 (set_type p kRtcpPsfbSliItemCode) in
    Cont (true, set_packet p (SLIItem (mkSLIItem (u16 (Z.land (Z.shiftr buffer 19) 8191))
      (u16 (Z.land (Z.shiftr buffer 6) 8191)) (u8 (Z.land buffer 63))))).

Definition ParseFIRItem {R : Type} (p : RTCPParserV2) : flow R (bool * RTCPParserV2) :=
  if block_left p <? 8 then leave p
  else
    let! (SSRC, p) := get32 (set_type p kRtcpPsfbFirItemCode) in
    let! (CommandSequenceNumber, p) := get8 p in
    Cont (true, set_packet (skip p 3) (FIRItem (mkFIRItem SSRC CommandSequenceNumber))).

Definition app_data (u : RTCPPacket) : option (list Z) := match u with APP _ data => data | _ => None end.
Definition app_header (u : RTCPPacket) : option (Z * Z) := match u with APP h _ => h | _ => None end.

Definition ParseAPP {R : Type} (p : RTCPParserV2) (header : RTCPCommonHeader) : flow R (bool * RTCPParserV2) :=
  if block_left p <? 12 then Cont (false, EndCurrentBlock p)
  else
    let! (senderSSRC, p) := get32 (skip p 4) in
    let! (name, p) := get32 p in
    let p := set_type p kRtcpAppCode in
    let p := set_packet p (APP (Some (rh_IC header, name)) (app_data (packet_ p))) in
    Cont (true, set_state p State_AppItem).

Definition ParseAPPItem {R : Type} (p : RTCPParserV2) : flow R (bool * RTCPParserV2) :=
  let length := block_left p in
  if length <? 4 then leave p
  else
    let p := set_type p kRtcpAppItemCode in
    let n := if kRtcpAppCode_DATA_SIZE <? length then kRtcpAppCode_DATA_SIZE else length in
    let! data := blk_get (rtcpData p) (ptrRTCPData_ p) n in
    Cont (true, skip (set_packet p (APP (app_header (packet_ p)) (Some data))) n).

(** ** The state machine *)

Fixpoint top_level {R : Type} (fuel : nat) (p : RTCPParserV2) : flow R RTCPParserV2 :=
  let! found := RTCPParseCommonHeader (rtcpData p) (ptrRTCPData_ p) in
  match found with
  | None => Cont p
  | Some header =>
      let p := set_block_end p (ptrRTCPData_ p + rh_LengthInOctets header) in
      if Zlen (rtcpData p) <? ptrRTCPBlockEnd_ p then Cont p
      else
        match fuel with
        | O => Stuck
        | S fuel =>
            let PT := rh_PT header in
            let next (m : flow R (bool * RTCPParserV2)) : flow R RTCPParserV2 :=
              let! (ok, p) := m in if ok : bool then Cont p else top_level fuel p in
            if PT =? PT_SR then let! (_, p) := ParseSR (set_blocks p (rh_IC header)) in Cont p
            else if PT =? PT_RR then let! (_, p) := ParseRR (set_blocks p (rh_IC header)) in Cont p
            else if PT =? PT_SDES then next (ParseSDES (set_blocks p (rh_IC header)))
            else if PT =? PT_BYE then next (ParseBYE (set_blocks p (rh_IC header)))
            else if PT =? PT_IJ then let! (_, p) := ParseIJ (set_blocks p (rh_IC header)) in Cont p
            else if (PT =? PT_RTPFB) || (PT =? PT_PSFB) then next (ParseFBCommon p header)
            else if PT =? PT_APP then next (ParseAPP p header)
            else if PT =? PT_XR then next (ParseXr p)
            else top_level fuel (EndCurrentBlock p)
        end
  end.

(** A turn of the loop moves at least four bytes forward. *)
Definition IterateTopLevel {R : Type} (p : RTCPParserV2) : flow R RTCPParserV2 := top_level (length (rtcpData p)) p.

(** The body that IterateXrItem, IterateXrDlrrItem, IterateReportBlockItem, IterateSDESChunk,
    IterateBYEItem, IterateExtendedJitterItem, IterateNACKItem, IterateTMMBRItem,
    IterateTMMBNItem, IterateSLIItem, IterateRPSIItem, IterateFIRItem, IteratePsfbAppItem,
    IteratePsfbREMBItem and IterateAppItem share; [parse] is the function that each calls. *)
Definition IterateItem {R : Type} (parse : RTCPParserV2 -> flow R (bool * RTCPParserV2))
  (again : RTCPParserV2 -> flow R RTCPParserV2) (p : RTCPParserV2) : flow R RTCPParserV2 :=
  let! (success, p) := parse p in if negb success then again p else Cont p.

Definition parse_of {R : Type} (state : ParseState) : option (RTCPParserV2 -> flow R (bool * RTCPParserV2)) :=
  match state with
  | State_TopLevel => None
  | State_ReportBlockItem => Some ParseReportBlockItem
  | State_SDESChunk => Some ParseSDESChunk
  | State_BYEItem => Some ParseBYEItem
  | State_ExtendedJitterItem => Some ParseIJItem
  | State_RTPFB_NACKItem => Some ParseNACKItem
  | State_RTPFB_TMMBRItem => Some ParseTMMBRItem
  | State_RTPFB_TMMBNItem => Some ParseTMMBNItem
  | State_PSFB_SLIItem => Some ParseSLIItem
  | State_PSFB_RPSIItem => Some ParseRPSIItem
  | State_PSFB_FIRItem => Some ParseFIRItem
  | State_PSFB_AppItem => Some ParsePsfbAppItem
  | State_PSFB_REMBItem => Some ParsePsfbREMBItem
  | State_XRItem => Some ParseXrItem
  | State_XR_DLLRItem => Some ParseXrDlrrItem
  | State_AppItem => Some ParseAPPItem
  end.

Fixpoint iterate {R : Type} (fuel : nat) (p : RTCPParserV2) : flow R RTCPParserV2 :=
  match fuel with
  | O => Stuck
  | S fuel =>
      let p := set_type p kRtcpNotValidCode in
      if IsValid p then
        match parse_of (state_ p) with
        | None => IterateTopLevel p
        | Some parse => IterateItem parse (iterate fuel) p
        end
      else Cont p
  end.

(** The calls nest: once per block that is left and per unsupported block of an extended
    report. *)
Definition Iterate {R : Type} (p : RTCPParserV2) : flow R RTCPParserV2 := iterate (length (rtcpData p) + 3) p.

Definition Begin {R : Type} (p : RTCPParserV2) : flow R RTCPParserV2 := Iterate (set_ptr p 0).

Definition Validate {R : Type} (p : RTCPParserV2) : flow R RTCPParserV2 :=
  let! found := RTCPParseCommonHeader (rtcpData p) 0 in
  match found with
  | None => Cont p
  | Some header =>
      if negb (RTCPReducedSizeEnable_ p) && negb (rh_PT header =? PT_SR) && negb (rh_PT header =? PT_RR) then Cont p
      else Cont (set_valid p)
  end.

(** The constructor, for data that is not NULL. *)
Definition new_RTCPParserV2 {R : Type} (data : list Z) (rtcpReducedSizeEnable : bool) : flow R RTCPParserV2 :=
  Validate (mkRTCPParserV2 data rtcpReducedSizeEnable false 0 0 State_TopLevel 0 kRtcpNotValidCode NoPacket).

(** What the callers do: Begin, and Iterate until a type that is not valid. *)
Fixpoint reports {R : Type} (fuel : nat) (p : RTCPParserV2) : flow R (list (RTCPPacketTypes * RTCPPacket) * RTCPParserV2) :=
  if decide (PacketType p = kRtcpNotValidCode) then Cont ([], p)
  else
    match fuel with
    | O => Stuck
    | S fuel =>
        let! p' := Iterate p in
        let! (l, p') := reports fuel p' in
        Cont ((PacketType p, Packet p) :: l, p')
    end.

Definition parse_all {R : Type} (data : list Z) (rtcpReducedSizeEnable : bool)
  : flow R (list (RTCPPacketTypes * RTCPPacket) * RTCPParserV2) :=
  let! p := new_RTCPParserV2 data rtcpReducedSizeEnable in
  let! p := Begin p in
  reports (length data) p.
End shifts.

(** ** The iterator over the packets *)

Record RTCPPacketIterator : Type := mkRTCPPacketIterator {
  it_data : list Z;
  it_ptrBlock : option Z;
  it_header : RTCPCommonHeader
}.

Definition new_RTCPPacketIterator (data : list Z) : RTCPPacketIterator :=
  mkRTCPPacketIterator data None (mkRTCPCommonHeader 0 false 0 0 0).

(** A header that is not found may be filled in part before; it is not read then. *)
Definition iterator_Iterate {R : Type} (it : RTCPPacketIterator) : flow R (option RTCPCommonHeader * RTCPPacketIterator) :=
  match it_ptrBlock it with
  | None => Cont (None, it)
  | Some ptr =>
      let! found := RTCPParseCommonHeader (it_data it) ptr in
      match found with
      | None => Cont (None, mkRTCPPacketIterator (it_data it) None (it_header it))
      | Some header =>
          let ptr := ptr + rh_LengthInOctets header in
          if Zlen (it_data it) <? ptr then Cont (None, mkRTCPPacketIterator (it_data it) None header)
          else Cont (Some header, mkRTCPPacketIterator (it_data it) (Some ptr) header)
      end
  end.

Definition iterator_Begin {R : Type} (it : RTCPPacketIterator) : flow R (option RTCPCommonHeader * RTCPPacketIterator) :=
  iterator_Iterate (mkRTCPPacketIterator (it_data it) (Some 0) (it_header it)).

Definition iterator_Current (it : RTCPPacketIterator) : option RTCPCommonHeader :=
  match it_ptrBlock it with None => None | Some _ => Some (it_header it) end.
