(* ===== verification/RtcpSafe.v ===== *)
(** * The RTCP parser on any packet

    The invariant of [RTCPParserV2]: in a block, the pointer is inside it and a multiple of
    four bytes before its end.  With it every packet of bytes is parsed to the end, without a
    read outside it. *)
From S2P Require Import Prelude RtpWire RtcpParser.
Local Open Scope Z_scope.

(** ** What the union holds *)

Definition fb_ok (p : RTCPPacketFB) : Prop := is_u32 (fb_SenderSSRC p) /\ is_u32 (fb_MediaSSRC p).
Definition rpsi_ok (i : RPSIItem) : Prop :=
  is_u8 (rpsi_PayloadType i) /\ is_u16 (rpsi_NumberOfValidBits i) /\ Forall is_u8 (rpsi_NativeBitString i)
  /\ 2 <= Zlen (rpsi_NativeBitString i) <= RTCP_RPSI_DATA_SIZE.
Definition tmmbr_ok (p : RTCPPacketRTPFBTMMBRItem) : Prop :=
  is_u32 (tm_SSRC p) /\ is_u32 (tm_MaxTotalMediaBitRate p) /\ 0 <= tm_MeasuredOverhead p < 512.

(** Every number has the width of its field. *)
Definition packet_ok (u : RTCPPacket) : Prop :=
  match u with
  | NoPacket => True
  | RR p => is_u32 (RR_SenderSSRC p) /\ is_u8 (RR_NumberOfReportBlocks p)
  | SR p => is_u32 (SR_SenderSSRC p) /\ is_u8 (SR_NumberOfReportBlocks p) /\ is_u32 (SR_NTPMostSignificant p)
      /\ is_u32 (SR_NTPLeastSignificant p) /\ is_u32 (SR_RTPTimestamp p) /\ is_u32 (SR_SenderPacketCount p)
      /\ is_u32 (SR_SenderOctetCount p)
  | ReportBlockItem p => is_u32 (rb_SSRC p) /\ is_u8 (rb_FractionLost p) /\ 0 <= rb_CumulativeNumOfPacketsLost p < 2 ^ 24
      /\ is_u32 (rb_ExtendedHighestSequenceNumber p) /\ is_u32 (rb_Jitter p) /\ is_u32 (rb_LastSR p) /\ is_u32 (rb_DelayLastSR p)
  | CName SSRC name => (forall x, SSRC = Some x -> is_u32 x) /\ Zlen name < RTCP_CNAME_SIZE /\ Forall (fun c => cname_illegal c = false) name
  | BYE SSRC => is_u32 SSRC
  | ExtendedJitterReportItem Jitter => is_u32 Jitter
  | NACK p | PLI p | SLI p | PSFBAPP p | TMMBR p | TMMBN p | FIR p => fb_ok p
  | NACKItem p => is_u16 (nack_PacketID p) /\ is_u16 (nack_BitMask p)
  | SLIItem p => 0 <= sli_FirstMB p < 8192 /\ 0 <= sli_NumberOfMB p < 8192 /\ 0 <= sli_PictureId p < 64
  | RPSI h item => (forall x, h = Some x -> fb_ok x) /\ (forall x, item = Some x -> rpsi_ok x)
  | REMBItem p => is_u32 (remb_BitRate p) /\ is_u8 (remb_NumberOfSSRCs p) /\ Forall is_u32 (remb_SSRCs p)
  | TMMBRItem p | TMMBNItem p => tmmbr_ok p
  | FIRItem p => is_u32 (fir_SSRC p) /\ is_u8 (fir_CommandSequenceNumber p)
  | XR SSRC => is_u32 SSRC
  | XRReceiverReferenceTimeItem a b => is_u32 a /\ is_u32 b
  | XRDLRRReportBlockItem p => is_u32 (dlrr_SSRC p) /\ is_u32 (dlrr_LastRR p) /\ is_u32 (dlrr_DelayLastRR p)
  | XRVOIPMetricItem p => is_u32 (vm_SSRC p) /\ Forall is_u8 [vm_lossRate p; vm_discardRate p; vm_burstDensity p; vm_gapDensity p;
        vm_signalLevel p; vm_noiseLevel p; vm_RERL p; vm_Gmin p; vm_Rfactor p; vm_extRfactor p; vm_MOSLQ p; vm_MOSCQ p; vm_RXconfig p]
      /\ Forall is_u16 [vm_burstDuration p; vm_gapDuration p; vm_roundTripDelay p; vm_endSystemDelay p; vm_JBnominal p; vm_JBmax p; vm_JBabsMax p]
  | APP h data => (forall x, h = Some x -> 0 <= x.1 < 32 /\ is_u32 x.2)
      /\ (forall x, data = Some x -> 4 <= Zlen x <= kRtcpAppCode_DATA_SIZE /\ Forall is_u8 x)
  end.

(** The member of the union that a type stands for. *)
Definition shape_ok (t : RTCPPacketTypes) (u : RTCPPacket) : bool :=
  match t, u with
  | kRtcpNotValidCode, _ => false
  | kRtcpRrCode, RR _ | kRtcpSrCode, SR _ | kRtcpReportBlockItemCode, ReportBlockItem _
  | kRtcpSdesChunkCode, CName (Some _) _ | kRtcpByeCode, BYE _ | kRtcpExtendedIjItemCode, ExtendedJitterReportItem _
  | kRtcpRtpfbNackCode, NACK _ | kRtcpRtpfbNackItemCode, NACKItem _ | kRtcpPsfbPliCode, PLI _
  | kRtcpPsfbRpsiCode, RPSI _ _ | kRtcpPsfbSliCode, SLI _ | kRtcpPsfbSliItemCode, SLIItem _
  | kRtcpPsfbAppCode, PSFBAPP _ | kRtcpPsfbRembItemCode, REMBItem _ | kRtcpRtpfbTmmbrCode, TMMBR _
  | kRtcpRtpfbTmmbrItemCode, TMMBRItem _ | kRtcpRtpfbTmmbnCode, TMMBN _ | kRtcpRtpfbTmmbnItemCode, TMMBNItem _
  | kRtcpPsfbFirCode, FIR _ | kRtcpPsfbFirItemCode, FIRItem _ | kRtcpXrHeaderCode, XR _
  | kRtcpXrReceiverReferenceTimeCode, XRReceiverReferenceTimeItem _ _
  | kRtcpXrDlrrReportBlockItemCode, XRDLRRReportBlockItem _ | kRtcpXrVoipMetricCode, XRVOIPMetricItem _
  | kRtcpAppCode, APP (Some _) _ | kRtcpAppItemCode, APP _ (Some _) => true
  | kRtcpSdesCode, _ | kRtcpExtendedIjCode, _ | kRtcpPsfbRembCode, _ | kRtcpRtpfbSrReqCode, _
  | kRtcpXrDlrrReportBlockCode, _ => true
  | _, _ => false
  end.

Definition report_ok (r : RTCPPacketTypes * RTCPPacket) : Prop := shape_ok r.1 r.2 = true /\ packet_ok r.2.

(** ** The invariant *)

(** The pointer is in the block and the block is in the data. *)
Definition in_block (p : RTCPParserV2) : Prop :=
  ptrRTCPData_ p <= ptrRTCPBlockEnd_ p <= Zlen (rtcpData p) /\ (ptrRTCPBlockEnd_ p - ptrRTCPData_ p) mod 4 = 0.

Record common (p : RTCPParserV2) : Prop := mkCommon {
  cm_bytes : Forall is_u8 (rtcpData p);
  cm_ptr : 0 <= ptrRTCPData_ p;
  cm_blocks : is_u8 (numberOfBlocks_ p);
  cm_packet : packet_ok (packet_ p)
}.

Definition good (p : RTCPParserV2) : Prop := common p /\ (state_ p <> State_TopLevel -> in_block p).

(** What no operation changes. *)
Definition same_data (p p' : RTCPParserV2) : Prop :=
  rtcpData p' = rtcpData p /\ RTCPReducedSizeEnable_ p' = RTCPReducedSizeEnable_ p /\ validPacket_ p' = validPacket_ p.

(** A bound on the calls of [iterate] in one another. *)
Definition rank (p : RTCPParserV2) : Z :=
  match state_ p with
  | State_TopLevel => 0
  | State_XRItem => 1 + block_left p
  | State_XR_DLLRItem => 2 + block_left p
  | _ => 1
  end.

(** The result of a function that parses in the block. *)
Definition parsed (p : RTCPParserV2) (r : bool * RTCPParserV2) : Prop :=
  same_data p r.2 /\ ptrRTCPBlockEnd_ r.2 = ptrRTCPBlockEnd_ p /\ good r.2
  /\ if r.1 then ptrRTCPData_ p + 4 <= ptrRTCPData_ r.2 <= ptrRTCPBlockEnd_ p /\ shape_ok (packetType_ r.2) (packet_ r.2) = true
     else rank r.2 < rank p /\ ptrRTCPData_ p <= ptrRTCPData_ r.2.

Ltac psimp :=
  cbn [rtcpData RTCPReducedSizeEnable_ validPacket_ ptrRTCPData_ ptrRTCPBlockEnd_ state_ numberOfBlocks_ packetType_ packet_
    set_ptr set_block_end set_state set_blocks set_type set_packet set_valid skip EndCurrentBlock fst snd] in *.

(** ** Reads *)

Lemma get8_ok {R} p :
  Forall is_u8 (rtcpData p) -> 0 <= ptrRTCPData_ p -> ptrRTCPData_ p + 1 <= Zlen (rtcpData p) ->
  gives (R := R) (get8 p) (fun '(v, p') => is_u8 v /\ p' = skip p 1).
Proof.
  intros Hb H0 Hl. unfold get8. rewrite rd_total by lia. cbn [flow_bind]. apply gives_Cont. split; [|done].
  apply Forall_total; [done|]. unfold Zlen in Hl. lia.
Qed.

Ltac get8_step := eapply gives_bind; [apply get8_ok; psimp; (done || lia)|intros [? ?] [? ->]; psimp].

Lemma skip_skip p a b : skip (skip p a) b = skip p (a + b).
Proof. unfold skip, set_ptr. psimp. f_equal. lia. Qed.

Lemma get16_ok {R} p :
  Forall is_u8 (rtcpData p) -> 0 <= ptrRTCPData_ p -> ptrRTCPData_ p + 2 <= Zlen (rtcpData p) ->
  gives (R := R) (get16 p) (fun '(v, p') => is_u16 v /\ p' = skip p 2).
Proof.
  intros Hb H0 Hl. unfold get16. do 2 get8_step. apply gives_Cont. split; [apply u16_range|]. by rewrite !skip_skip.
Qed.

Lemma get24_ok {R} p :
  Forall is_u8 (rtcpData p) -> 0 <= ptrRTCPData_ p -> ptrRTCPData_ p + 3 <= Zlen (rtcpData p) ->
  gives (R := R) (get24 p) (fun '(v, p') => 0 <= v < 2 ^ 24 /\ p' = skip p 3).
Proof.
  intros Hb H0 Hl. unfold get24. do 3 get8_step. apply gives_Cont. split; [|by rewrite !skip_skip].
  psimp. rewrite !Z.shiftl_mul_pow2 by lia. cunf. rewrite Z.mod_small by lia. lia.
Qed.

Lemma get32_ok {R} p :
  Forall is_u8 (rtcpData p) -> 0 <= ptrRTCPData_ p -> ptrRTCPData_ p + 4 <= Zlen (rtcpData p) ->
  gives (R := R) (get32 p) (fun '(v, p') => is_u32 v /\ p' = skip p 4).
Proof.
  intros Hb H0 Hl. unfold get32. do 4 get8_step. apply gives_Cont. split; [apply u32_range|]. by rewrite !skip_skip.
Qed.

Ltac pget :=
  eapply gives_bind; [first [apply get8_ok | apply get16_ok | apply get24_ok | apply get32_ok]; psimp; (done || lia)
    |intros [? ?] [? ->]; psimp].

(** ** Items *)

(** Leaving a block. *)
Lemma leave_parsed {R} p p' :
  common p -> state_ p <> State_TopLevel -> in_block p -> same_data p p' -> ptrRTCPBlockEnd_ p' = ptrRTCPBlockEnd_ p ->
  numberOfBlocks_ p' = numberOfBlocks_ p \/ is_u8 (numberOfBlocks_ p') -> packet_ok (packet_ p') ->
  gives (R := R) (leave p') (parsed p).
Proof.
  intros [C1 C2 C3 C4] Hs [Hb Hm] (D1 & D2 & D3) He Hn Hp. unfold leave. apply gives_Cont. unfold parsed, good, same_data, rank. psimp.
  split; [done|]. split; [done|]. split.
  - split; [|done]. split; psimp; [congruence|lia| |done]. by destruct Hn as [->|].
  - split; [|lia]. unfold block_left. destruct (state_ p); try done; lia.
Qed.

Ltac pleave := apply leave_parsed; psimp; (done || tauto || (repeat split; done) || idtac).

(** A part that was found. *)
Lemma parsed_found {R} p p' n :
  common p -> in_block p -> same_data p p' -> ptrRTCPBlockEnd_ p' = ptrRTCPBlockEnd_ p ->
  ptrRTCPData_ p' = ptrRTCPData_ p + n -> 4 <= n <= block_left p -> n mod 4 = 0 ->
  is_u8 (numberOfBlocks_ p') -> packet_ok (packet_ p') -> shape_ok (packetType_ p') (packet_ p') = true ->
  gives (R := R) (Cont (true, p')) (parsed p).
Proof.
  intros [C1 C2 C3 C4] [B1 B2] (D1 & D2 & D3) He Ep Hn Hm Hk Hp Hsh. unfold block_left in Hn. apply gives_Cont. unfold parsed, same_data. psimp.
  split; [done|]. split; [done|]. split; [|split; [lia|done]]. split.
  - split; [congruence|lia|done|done].
  - intros _. unfold in_block. rewrite Ep, He, D1. split; [lia|zdm].
Qed.

(** Enough bytes: the guard of an item. *)
Ltac start C := unfold block_left; assert (Hc' := C); destruct Hc' as [C1 C2 C3 C4].
Ltac found n := apply (parsed_found _ _ n); psimp; unfold block_left; (done || lia || cint || idtac).

(** A block of numbers that is long enough. *)
Lemma ParseReportBlockItem_parsed {R} p :
  common p -> state_ p = State_ReportBlockItem -> in_block p -> gives (R := R) (ParseReportBlockItem p) (parsed p).
Proof.
  intros Hc Hs Hb. unfold ParseReportBlockItem. start Hc. assert (Hb' := Hb). destruct Hb' as [B1 B2].
  destruct (_ || _) eqn:E; [pleave; by rewrite Hs|]. apply orb_false_iff in E as [E1 E2]. apply Z.ltb_ge in E1. apply Z.leb_gt in E2.
  do 7 pget. found 24.
Qed.

Lemma ParseIJItem_parsed {R} p :
  common p -> state_ p = State_ExtendedJitterItem -> in_block p -> gives (R := R) (ParseIJItem p) (parsed p).
Proof.
  intros Hc Hs Hb. unfold ParseIJItem. start Hc. assert (Hb' := Hb). destruct Hb' as [B1 B2].
  destruct (_ || _) eqn:E; [pleave; by rewrite Hs|]. apply orb_false_iff in E as [E1 E2]. apply Z.ltb_ge in E1. apply Z.leb_gt in E2.
  pget. found 4.
Qed.

Ltac item Hc Hs Hb :=
  start Hc; assert (Hb' := Hb); destruct Hb' as [B1 B2];
  match goal with |- context [Z.ltb (ptrRTCPBlockEnd_ ?p - ptrRTCPData_ ?p) ?n] =>
    destruct (Z.ltb_spec (ptrRTCPBlockEnd_ p - ptrRTCPData_ p) n) as [E|E] end;
  [pleave; by rewrite Hs|].

Lemma ParseNACKItem_parsed {R} p :
  common p -> state_ p = State_RTPFB_NACKItem -> in_block p -> gives (R := R) (ParseNACKItem p) (parsed p).
Proof. intros Hc Hs Hb. unfold ParseNACKItem. item Hc Hs Hb. do 2 pget. found 4. Qed.

Lemma ParseFIRItem_parsed {R} p :
  common p -> state_ p = State_PSFB_FIRItem -> in_block p -> gives (R := R) (ParseFIRItem p) (parsed p).
Proof. intros Hc Hs Hb. unfold ParseFIRItem. item Hc Hs Hb. do 2 pget. found 8. Qed.

Lemma field_range x k m : 0 <= x -> m = 2 ^ k - 1 -> 0 <= k -> 0 <= Z.land x m < 2 ^ k.
Proof. intros Hx -> Hk. change (2 ^ k - 1) with (Z.pred (2 ^ k)). rewrite <- Z.ones_equiv, Z.land_ones by done. apply Z.mod_pos_bound. lia. Qed.

Lemma shiftr_pos x n : 0 <= x -> 0 <= Z.shiftr x n.
Proof. by rewrite Z.shiftr_nonneg. Qed.

Lemma ParseSLIItem_parsed {R} p :
  common p -> state_ p = State_PSFB_SLIItem -> in_block p -> gives (R := R) (ParseSLIItem p) (parsed p).
Proof.
  intros Hc Hs Hb. unfold ParseSLIItem. item Hc Hs Hb. pget. match goal with H : is_u32 ?b |- _ =>
    assert (H1 := field_range (Z.shiftr b 19) 13 8191 (shiftr_pos _ _ (proj1 H)) eq_refl ltac:(lia));
    assert (H2 := field_range (Z.shiftr b 6) 13 8191 (shiftr_pos _ _ (proj1 H)) eq_refl ltac:(lia));
    assert (H3 := field_range b 6 63 (proj1 H) eq_refl ltac:(lia)) end.
  change (2 ^ 13) with 8192 in *. change (2 ^ 6) with 64 in *. found 4. cbn [packet_ok sli_FirstMB sli_NumberOfMB sli_PictureId].
  rewrite !u16_id, u8_id by (unfold is_u16, is_u8; lia). lia.
Qed.

(** A byte of the packet that is read without moving the pointer. *)
Lemma rd_byte {R} p i :
  common p -> 0 <= i < Zlen (rtcpData p) -> gives (R := R) (rd (rtcpData p) i) is_u8.
Proof.
  intros [C _ _ _] Hi. rewrite rd_total by done. apply gives_Cont, Forall_total; [done|]. unfold Zlen in Hi. lia.
Qed.

Ltac pbyte C := eapply gives_bind; [apply (rd_byte _ _ C); psimp; lia|intros ? ?].

Lemma tmmbr_fields `{Machine} SSRC b0 b1 b2 b3 :
  is_u32 SSRC -> is_u8 b0 -> is_u8 b1 -> is_u8 b2 -> is_u8 b3 ->
  tmmbr_ok (mkTMMBRItem SSRC (shl32 (u32 (Z.shiftl (Z.land b0 3) 15 + Z.shiftl b1 7 + Z.land (Z.shiftr b2 1) 127)) (Z.land (Z.shiftr b0 2) 63) / 1000)
    (u32 (Z.shiftl (Z.land b2 1) 8 + b3))).
Proof.
  intros Hs H0 H1 H2 H3. unfold tmmbr_ok. cbn [tm_SSRC tm_MaxTotalMediaBitRate tm_MeasuredOverhead]. split; [done|]. split.
  - unfold shl32. cunf. zdm.
  - assert (Hl := field_range b2 1 1 ltac:(cunf; lia) eq_refl ltac:(lia)). rewrite Z.shiftl_mul_pow2 by lia. cunf. rewrite Z.mod_small by lia. lia.
Qed.

Lemma ParseTMMBRItem_parsed `{Machine} {R} p :
  common p -> state_ p = State_RTPFB_TMMBRItem -> in_block p -> gives (R := R) (ParseTMMBRItem p) (parsed p).
Proof.
  intros Hc Hs Hb. unfold ParseTMMBRItem. item Hc Hs Hb. unfold get_tmmbr. rewrite !flow_bind_assoc. pget.
  do 4 (rewrite flow_bind_assoc; pbyte Hc). cbn [flow_bind]. found 8. by apply tmmbr_fields.
Qed.

Lemma ParseTMMBNItem_parsed `{Machine} {R} p :
  common p -> state_ p = State_RTPFB_TMMBNItem -> in_block p -> gives (R := R) (ParseTMMBNItem p) (parsed p).
Proof.
  intros Hc Hs Hb. unfold ParseTMMBNItem. item Hc Hs Hb. unfold get_tmmbr. rewrite !flow_bind_assoc. pget.
  do 4 (rewrite flow_bind_assoc; pbyte Hc). cbn [flow_bind]. found 8. by apply tmmbr_fields.
Qed.

Lemma ParsePsfbAppItem_parsed {R} p :
  common p -> state_ p = State_PSFB_AppItem -> in_block p -> gives (R := R) (ParsePsfbAppItem p) (parsed p).
Proof.
  intros Hc Hs Hb. unfold ParsePsfbAppItem. item Hc Hs Hb.
  do 4 (pget; destruct (negb _); [pleave; by rewrite Hs|]). found 4.
Qed.

(** Bytes of the packet that are copied. *)
Lemma copy_ok {R} p off n :
  common p -> 0 <= off -> 0 <= n -> off + n <= Zlen (rtcpData p) ->
  gives (R := R) (blk_get (rtcpData p) off n) (fun bs => Zlen bs = n /\ Forall is_u8 bs).
Proof.
  intros [C _ _ _] H0 Hn Hl. rewrite blk_get_Cont by lia. apply gives_Cont. split.
  - rewrite Zlen_ztake; [done|]. rewrite Zlen_zdrop; lia.
  - unfold ztake, zdrop. by apply Forall_take, Forall_drop.
Qed.

Lemma ParseRPSIItem_parsed {R} p :
  common p -> state_ p = State_PSFB_RPSIItem -> in_block p -> gives (R := R) (ParseRPSIItem p) (parsed p).
Proof.
  intros Hc Hs Hb. unfold ParseRPSIItem. item Hc Hs Hb. destruct (Z.ltb_spec (2 + RTCP_RPSI_DATA_SIZE) (ptrRTCPBlockEnd_ p - ptrRTCPData_ p)) as [E'|E'];
    [pleave; by rewrite Hs|].
  do 2 pget. eapply gives_bind; [apply copy_ok; [done|lia..]|intros bs [Hl Hbs]].
  found (ptrRTCPBlockEnd_ p - ptrRTCPData_ p). split.
  - intros x Hx. unfold rpsi_header in Hx. destruct (packet_ p); try done. by apply C4.
  - intros x [= <-]. unfold rpsi_ok. cbn. rewrite Hl. unfold RTCP_RPSI_DATA_SIZE in *. split; [done|]. split; [apply u16_range|]. split; [done|]. lia.
Qed.

Lemma ParseAPPItem_parsed {R} p :
  common p -> state_ p = State_AppItem -> in_block p -> gives (R := R) (ParseAPPItem p) (parsed p).
Proof.
  intros Hc Hs Hb. unfold ParseAPPItem. item Hc Hs Hb. set (n := if _ <? _ then _ else _).
  assert (Hn : 4 <= n <= kRtcpAppCode_DATA_SIZE /\ n <= ptrRTCPBlockEnd_ p - ptrRTCPData_ p /\ n mod 4 = 0).
  { subst n. unfold kRtcpAppCode_DATA_SIZE. destruct (Z.ltb_spec 128 (ptrRTCPBlockEnd_ p - ptrRTCPData_ p)); [|lia]. split; [lia|]. split; [lia|done]. }
  eapply gives_bind; [apply copy_ok; psimp; (done || lia)|intros bs [Hl Hbs]].
  found n. split.
  - intros x Hx. unfold app_header in Hx. destruct (packet_ p); try done. by apply C4.
  - intros x [= <-]. rewrite Hl. split; [lia|done].
Qed.

Lemma remb_ssrcs_ok {R} n p ssrcs :
  Forall is_u8 (rtcpData p) -> 0 <= ptrRTCPData_ p -> ptrRTCPData_ p + 4 * Z.of_nat n <= Zlen (rtcpData p) ->
  Zlen ssrcs + Z.of_nat n <= 255 -> Forall is_u32 ssrcs ->
  gives (R := R) (remb_ssrcs n p ssrcs) (fun '(l, p') => Forall is_u32 l /\ p' = skip p (4 * Z.of_nat n)).
Proof.
  revert p ssrcs. induction n as [|n IH]; intros p ssrcs Hb H0 Hl Hn Hs; cbn [remb_ssrcs].
  - apply gives_Cont. split; [done|]. unfold skip, set_ptr. rewrite Z.add_0_r. by destruct p.
  - pget. unfold MAX_NUMBER_OF_REMB_FEEDBACK_SSRCS. rewrite (proj2 (Z.leb_gt _ _)) by lia.
    eapply gives_weaken; [apply IH; psimp; [done|lia|lia|rewrite Zlen_app, Zlen_cons, Zlen_nil; lia|apply Forall_app; split; [done|by constructor]]|].
    intros [l p'] [Hl' ->]. split; [done|]. rewrite skip_skip. f_equal. lia.
Qed.

Lemma ParsePsfbREMBItem_parsed `{Machine} {R} p :
  common p -> state_ p = State_PSFB_REMBItem -> in_block p -> gives (R := R) (ParsePsfbREMBItem p) (parsed p).
Proof.
  intros Hc Hs Hb. unfold ParsePsfbREMBItem. item Hc Hs Hb. pget. do 3 pbyte Hc.
  assert (Hr : is_u32 (shl32 (u32 (Z.shiftl (Z.land a 3) 16 + Z.shiftl a0 8 + a1)) (Z.land (Z.shiftr a 2) 63))) by (unfold shl32; apply u32_range).
  destruct (Z.ltb_spec (ptrRTCPBlockEnd_ p - (ptrRTCPData_ p + 1 + 3)) (4 * z)) as [El|El]; 
    [pleave; by rewrite Hs|].
  eapply gives_bind; [apply remb_ssrcs_ok; psimp; [done|lia| |unfold Zlen; simpl|constructor]; cunf; lia|].
  intros [l p'] [Hl ->]. psimp. found (4 + 4 * z); cunf; rewrite ?Z2Nat.id by lia; (lia || zdm || idtac).
Qed.

(** A turn that finds nothing and goes on in an extended report. *)
Lemma parsed_again {R} p p' n :
  common p -> in_block p -> same_data p p' -> ptrRTCPBlockEnd_ p' = ptrRTCPBlockEnd_ p ->
  ptrRTCPData_ p' = ptrRTCPData_ p + n -> 0 <= n <= block_left p -> n mod 4 = 0 -> state_ p' = State_XRItem ->
  numberOfBlocks_ p' = numberOfBlocks_ p -> packet_ p' = packet_ p -> rank p' < rank p ->
  gives (R := R) (Cont (false, p')) (parsed p).
Proof.
  intros [C1 C2 C3 C4] [B1 B2] (D1 & D2 & D3) He Ep Hn Hm Hs Hk Hp Hr. unfold block_left in Hn. apply gives_Cont. unfold parsed, same_data. psimp.
  split; [done|]. split; [done|]. split; [|split; [done|lia]]. split; [split; [congruence|lia|congruence|congruence]|].
  intros _. unfold in_block. rewrite Ep, He, D1. split; [lia|zdm].
Qed.

Lemma ParseXrDlrrItem_parsed {R} p :
  common p -> state_ p = State_XR_DLLRItem -> in_block p -> gives (R := R) (ParseXrDlrrItem p) (parsed p).
Proof.
  intros Hc Hs Hb. unfold ParseXrDlrrItem. destruct (Z.eqb_spec (numberOfBlocks_ p) 0) as [E0|E0].
  - apply (parsed_again _ _ 0); psimp; try done; [lia|destruct Hb; unfold block_left; lia|].
    unfold rank, block_left. psimp. rewrite Hs. destruct Hb. lia.
  - item Hc Hs Hb. do 3 pget. found 12.
Qed.

Lemma ParseXrItem_parsed {R} p :
  common p -> state_ p = State_XRItem -> in_block p -> gives (R := R) (ParseXrItem p) (parsed p).
Proof.
  intros Hc Hs Hb. unfold ParseXrItem. item Hc Hs Hb. do 2 pget.
  assert (Hleave : forall q, same_data p q -> ptrRTCPBlockEnd_ q = ptrRTCPBlockEnd_ p -> numberOfBlocks_ q = numberOfBlocks_ p ->
    packet_ q = packet_ p -> gives (R := R) (leave q) (parsed p)).
  { intros q Hq He Hn Hp. apply leave_parsed; try done; [by rewrite Hs|by left|by rewrite Hp]. }
  destruct (z =? kBtReceiverReferenceTime); [|destruct (z =? kBtDlrr); [|destruct (z =? kBtVoipMetric)]].
  - unfold ParseXrReceiverReferenceTimeItem, block_left. psimp. destruct (_ || _) eqn:E1; [by apply Hleave|].
    apply orb_false_iff in E1 as [_ E1]. apply Z.ltb_ge in E1. do 2 pget. found 12.
  - unfold ParseXrDlrr. destruct (_ || _) eqn:E1; [by apply Hleave|]. found 4.
  - unfold ParseXrVoipMetricItem, block_left. psimp. destruct (_ || _) eqn:E1; [by apply Hleave|].
    apply orb_false_iff in E1 as [_ E1]. apply Z.ltb_ge in E1. do 21 pget. found 36.
    cbn [packet_ok]. split; [done|]. split; repeat (apply Forall_cons_2; [done|]); constructor.
  - unfold ParseXrUnsupportedBlockType, block_left. psimp. destruct (Z.ltb_spec (ptrRTCPBlockEnd_ p - (ptrRTCPData_ p + 1 + 1 + 2)) (z0 * 4)) as [E1|E1];
      [by apply Hleave|].
    match goal with H : is_u16 z0 |- _ => assert (Hz := H); unfold is_u16 in Hz end.
    apply (parsed_again _ _ (4 + z0 * 4)); psimp; unfold block_left; try done; [lia|lia|zdm|].
    unfold rank, block_left. psimp. rewrite Hs. lia.
Qed.

Lemma ParseBYEItem_parsed {R} p :
  common p -> state_ p = State_BYEItem -> in_block p -> gives (R := R) (ParseBYEItem p) (parsed p).
Proof.
  intros Hc Hs Hb. unfold ParseBYEItem. start Hc. assert (Hb' := Hb). destruct Hb' as [B1 B2].
  destruct (_ || _) eqn:E; [pleave; by rewrite Hs|]. apply orb_false_iff in E as [E1 E2]. apply Z.ltb_ge in E1. apply Z.eqb_neq in E2.
  unfold is_u8 in C3. pget. destruct (Z.leb_spec (4 * numberOfBlocks_ p) (ptrRTCPBlockEnd_ p - ptrRTCPData_ p)) as [El|El].
  - found (4 * numberOfBlocks_ p).
  - found 4.
Qed.

(** ** Source descriptions *)

Lemma skip_0 p : skip p 0 = p.
Proof. unfold skip, set_ptr. rewrite Z.add_0_r. by destruct p. Qed.

Lemma sdes_align_skip p n : sdes_align 4 p n = skip p ((- n) mod 4).
Proof.
  cbn [sdes_align]. rewrite !skip_skip. rewrite <- (skip_0 p) at 1.
  destruct (Z.eqb_spec (n mod 4) 0); [f_equal; zdm|]. destruct (Z.eqb_spec ((n + 1) mod 4) 0); [f_equal; zdm|].
  destruct (Z.eqb_spec ((n + 1 + 1) mod 4) 0); [f_equal; zdm|]. destruct (Z.eqb_spec ((n + 1 + 1 + 1) mod 4) 0); f_equal; zdm.
Qed.

Lemma cname_loop_ok {R} len p i name :
  Forall is_u8 (rtcpData p) -> 0 <= ptrRTCPData_ p -> 0 <= i -> ptrRTCPData_ p + i + Z.of_nat len <= Zlen (rtcpData p) ->
  i + Z.of_nat len < RTCP_CNAME_SIZE -> Zlen name = i -> Forall (fun c => cname_illegal c = false) name ->
  gives (R := R) (cname_loop len p i name)
    (fun '(_, name) => Zlen name < RTCP_CNAME_SIZE /\ Forall (fun c => cname_illegal c = false) name).
Proof.
  revert i name. induction len as [|len IH]; intros i name Hb H0 Hi Hl Hm Hn Hf; cbn [cname_loop].
  - rewrite (proj2 (Z.leb_gt _ _)) by lia. apply gives_Cont. split; [lia|done].
  - rewrite rd_total by lia. cbn [flow_bind]. set (c := _ !!! _). destruct (cname_illegal c) eqn:Ec; [apply gives_Cont; split; [lia|done]|].
    rewrite (proj2 (Z.leb_gt _ _)) by lia. apply IH; try done; try lia; [rewrite Zlen_app, Zlen_cons, Zlen_nil; lia|].
    apply Forall_app. split; [done|by constructor].
Qed.

(** What the items of a chunk leave: the end of the block, or the start of the next chunk. *)
Definition chunk_done (q : RTCPParserV2) (base : Z) (r : bool * RTCPParserV2) : Prop :=
  let '(b, q') := r in
  same_data q q' /\ ptrRTCPBlockEnd_ q' = ptrRTCPBlockEnd_ q /\ numberOfBlocks_ q' = numberOfBlocks_ q /\ packet_ok (packet_ q')
  /\ ((b = false /\ state_ q' = State_TopLevel /\ ptrRTCPData_ q' = ptrRTCPBlockEnd_ q)
      \/ (state_ q' = state_ q /\ base + 4 <= ptrRTCPData_ q' <= ptrRTCPBlockEnd_ q
          /\ (ptrRTCPBlockEnd_ q - ptrRTCPData_ q') mod 4 = 0
          /\ (b = true -> packetType_ q' = kRtcpSdesChunkCode /\ exists name, packet_ q' = CName None name))).

Lemma chunk_done_leave {R} q q' base :
  same_data q q' -> ptrRTCPBlockEnd_ q' = ptrRTCPBlockEnd_ q -> numberOfBlocks_ q' = numberOfBlocks_ q -> packet_ok (packet_ q') ->
  gives (R := R) (leave q') (chunk_done q base).
Proof. intros Hd He Hn Hp. apply gives_Cont. unfold chunk_done. psimp. split; [exact Hd|]. do 3 (split; [done|]). by left. Qed.

Lemma ParseSDESItem_ok {R} fuel q n found base :
  Forall is_u8 (rtcpData q) -> 0 <= base -> ptrRTCPData_ q = base + n -> 0 <= n -> ptrRTCPBlockEnd_ q <= Zlen (rtcpData q) ->
  (ptrRTCPBlockEnd_ q - base) mod 4 = 0 -> packet_ok (packet_ q) ->
  (found = true -> packetType_ q = kRtcpSdesChunkCode /\ exists name, packet_ q = CName None name) ->
  Zlen (rtcpData q) - ptrRTCPData_ q <= Z.of_nat fuel ->
  gives (R := R) (ParseSDESItem fuel q n found) (chunk_done q base).
Proof.
  revert q n found. induction fuel as [|fuel IH]; intros q n found Hb Hbase Eptr Hn He Hm Hp Hf Hfuel; cbn [ParseSDESItem];
    destruct (Z.ltb_spec (ptrRTCPData_ q) (ptrRTCPBlockEnd_ q)) as [Hlt|Hge]; cbn [negb]; try (by apply chunk_done_leave); [lia|].
  pget. destruct (Z.eqb_spec z 0) as [Ez|Ez].
  { apply gives_Cont. rewrite sdes_align_skip, skip_skip. unfold chunk_done. psimp. split; [done|]. do 3 (split; [done|]). right.
    split; [done|]. split; [zdm|]. split; [zdm|exact Hf]. }
  destruct (Z.ltb_spec (ptrRTCPData_ q + 1) (ptrRTCPBlockEnd_ q)) as [Hlt2|Hge2].
  2:{ eapply gives_weaken; [apply IH; psimp; done || lia|]. intros [b q'] HH. exact HH. }
  pget. match goal with H : is_u8 z0 |- _ => assert (Hlen := H); unfold is_u8 in Hlen end.
  destruct (Z.eqb_spec z 1) as [E1|E1].
  - destruct (Z.leb_spec (ptrRTCPBlockEnd_ q) (ptrRTCPData_ q + 1 + 1 + z0)) as [Hx|Hx]; [by apply chunk_done_leave|].
    eapply gives_bind; [apply cname_loop_ok; psimp; unfold RTCP_CNAME_SIZE; rewrite ?Z2Nat.id by lia; done || lia|].
    intros [legal name] [Hname Hlegal]. assert (Hpk : packet_ok (CName None name)) by done.
    destruct legal; cbn [negb]; [|by apply chunk_done_leave].
    eapply gives_weaken; [apply IH; psimp; [done|done|lia|lia|done|done|done|eauto|lia]|]. intros [b q'] HH. exact HH.
  - eapply gives_weaken; [apply IH; psimp; done || lia|]. intros [b q'] HH. exact HH.
Qed.

Ltac psame := unfold same_data in *; psimp; intuition congruence.

Lemma sdes_chunks_parsed {R} fuel p q :
  common p -> state_ p = State_SDESChunk -> in_block p -> common q -> same_data p q -> ptrRTCPBlockEnd_ q = ptrRTCPBlockEnd_ p ->
  state_ q = State_SDESChunk -> ptrRTCPData_ p <= ptrRTCPData_ q -> in_block q -> Zlen (rtcpData q) - ptrRTCPData_ q <= Z.of_nat fuel ->
  gives (R := R) (sdes_chunks fuel q) (parsed p).
Proof.
  intros Hc Hs Hb. revert q. induction fuel as [|fuel IH]; intros q Hcq Hd He Hsq Hle Hbq Hfuel; cbn [sdes_chunks];
    assert (Hcq' := Hcq); destruct Hcq' as [Q1 Q2 Q3 Q4]; assert (Hbq' := Hbq); destruct Hbq' as [B1 B2];
    (assert (Hleave : gives (R := R) (leave q) (parsed p)) by (apply leave_parsed; try done; [by rewrite Hs|by right]));
    destruct (Z.ltb_spec (ptrRTCPData_ q) (ptrRTCPBlockEnd_ q)) as [Hlt|Hge]; cbn [negb]; try done; [lia|].
  destruct (Z.ltb_spec (block_left q) 4) as [H4|H4]; [done|]. unfold block_left in H4.
  pget. eapply gives_bind; [apply (ParseSDESItem_ok _ _ _ _ (ptrRTCPData_ q + 4)); psimp; try done; try lia; [zdm|unfold Zlen; lia]|].
  intros [b q'] (D & E & N & P & HH). psimp. destruct HH as [(-> & Et & Ep)|(Et & Ep & Em & Hfound)].
  - destruct Hd as (D1 & D2 & D3). destruct D as (E1 & E2 & E3). psimp.
    destruct fuel as [|fuel]; cbn [sdes_chunks]; rewrite (proj2 (Z.ltb_ge _ _)) by lia; cbn [negb];
      (apply leave_parsed; try done; [by rewrite Hs|psame|congruence|right; by rewrite N]).
  - destruct b.
    + destruct (Hfound eq_refl) as (Ety & name & Epk). rewrite Epk in P |- *. destruct Hd as (D1 & D2 & D3). destruct D as (E1 & E2 & E3). psimp.
      apply (parsed_found _ _ (ptrRTCPData_ q' - ptrRTCPData_ p)); psimp; unfold block_left; try done; try lia.
      * psame.
      * destruct Hb. zdm.
      * by rewrite N.
      * destruct P as [_ P]. split; [by intros x [= <-]|done].
      * by rewrite Ety.
    + apply IH; try done; psimp; try lia.
      * destruct D as (E1 & _). psimp. split; [by rewrite E1|lia|by rewrite N|done].
      * psame.
      * congruence.
      * destruct D as (E1 & _). psimp. split; [rewrite E1; lia|]. rewrite E. zdm.
      * destruct D as (E1 & _). psimp. rewrite E1. lia.
Qed.

Lemma ParseSDESChunk_parsed {R} p :
  common p -> state_ p = State_SDESChunk -> in_block p -> gives (R := R) (ParseSDESChunk p) (parsed p).
Proof.
  intros Hc Hs Hb. unfold ParseSDESChunk. assert (Hc' := Hc). destruct Hc' as [C1 C2 C3 C4].
  destruct (Z.leb_spec (numberOfBlocks_ p) 0); [pleave; by rewrite Hs|].
  apply sdes_chunks_parsed; psimp; try done; [split; psimp; try done; apply u8_range|unfold Zlen; lia].
Qed.

(** ** The top level *)

(** The result of a function that starts a block; when it finds nothing the pointer is at [e]. *)
Definition started (p : RTCPParserV2) (e : Z) (r : bool * RTCPParserV2) : Prop :=
  same_data p r.2 /\ ptrRTCPBlockEnd_ r.2 = ptrRTCPBlockEnd_ p /\ good r.2
  /\ if r.1 then ptrRTCPData_ p + 4 <= ptrRTCPData_ r.2 <= ptrRTCPBlockEnd_ p /\ shape_ok (packetType_ r.2) (packet_ r.2) = true
     else state_ r.2 = State_TopLevel /\ packetType_ r.2 = kRtcpNotValidCode /\ ptrRTCPData_ r.2 = e.

(** A block at the top level. *)
Record at_block (p : RTCPParserV2) : Prop := mkAtBlock {
  ab_common : common p;
  ab_state : state_ p = State_TopLevel;
  ab_type : packetType_ p = kRtcpNotValidCode;
  ab_block : in_block p;
  ab_left : 4 <= block_left p
}.

Lemma started_found {R} p e p' n :
  at_block p -> same_data p p' -> ptrRTCPBlockEnd_ p' = ptrRTCPBlockEnd_ p ->
  ptrRTCPData_ p' = ptrRTCPData_ p + n -> 4 <= n <= block_left p -> n mod 4 = 0 ->
  is_u8 (numberOfBlocks_ p') -> packet_ok (packet_ p') -> shape_ok (packetType_ p') (packet_ p') = true ->
  gives (R := R) (Cont (true, p')) (started p e).
Proof.
  intros [[C1 C2 C3 C4] _ _ [B1 B2] _] (D1 & D2 & D3) He Ep Hn Hm Hk Hp Hsh. unfold block_left in Hn. apply gives_Cont.
  unfold started, same_data. psimp. split; [done|]. split; [done|]. split; [|split; [lia|done]].
  split; [split; [congruence|lia|done|done]|]. intros _. unfold in_block. rewrite Ep, He, D1. split; [lia|zdm].
Qed.

Lemma started_not {R} p e p' :
  at_block p -> same_data p p' -> ptrRTCPBlockEnd_ p' = ptrRTCPBlockEnd_ p -> state_ p' = State_TopLevel ->
  packetType_ p' = kRtcpNotValidCode -> ptrRTCPData_ p' = e -> 0 <= e -> numberOfBlocks_ p' = numberOfBlocks_ p -> packet_ok (packet_ p') ->
  gives (R := R) (Cont (false, p')) (started p e).
Proof.
  intros [[C1 C2 C3 C4] _ _ [B1 B2] _] (D1 & D2 & D3) He Hs Ht <- H0 Hk Hp. apply gives_Cont. unfold started, same_data. psimp.
  do 2 (split; [done|]). split; [|done]. split; [split; [congruence|done|by rewrite Hk|done]|by rewrite Hs].
Qed.

Ltac block H := assert (H' := H); destruct H' as [[C1 C2 C3 C4] S1 T1 [B1 B2] L1]; unfold block_left in *.
Ltac started_yes n := apply (started_found _ _ _ n); psimp; unfold block_left; (done || lia || cint || idtac).
Ltac started_no := apply started_not; psimp; (done || lia).

Lemma ParseRR_started {R} p : at_block p -> gives (R := R) (ParseRR p) (started p (ptrRTCPData_ p)).
Proof.
  intros H. unfold ParseRR. block H. destruct (Z.ltb_spec (ptrRTCPBlockEnd_ p - ptrRTCPData_ p) 8); [started_no|].
  pget. started_yes 8.
Qed.

Lemma ParseSR_started {R} p : at_block p -> gives (R := R) (ParseSR p) (started p (ptrRTCPBlockEnd_ p)).
Proof.
  intros H. unfold ParseSR. block H. destruct (Z.ltb_spec (ptrRTCPBlockEnd_ p - ptrRTCPData_ p) 28); [started_no|].
  do 6 pget. destruct (negb _); [started_yes 28|]. started_yes (ptrRTCPBlockEnd_ p - ptrRTCPData_ p).
Qed.

Lemma ParseIJ_started {R} p : at_block p -> gives (R := R) (ParseIJ p) (started p (ptrRTCPData_ p)).
Proof.
  intros H. unfold ParseIJ. block H. destruct (Z.ltb_spec (ptrRTCPBlockEnd_ p - ptrRTCPData_ p) 4); [started_no|]. started_yes 4.
Qed.

Lemma ParseSDES_started {R} p : at_block p -> gives (R := R) (ParseSDES p) (started p (ptrRTCPBlockEnd_ p)).
Proof.
  intros H. unfold ParseSDES, leave. block H. destruct (Z.ltb_spec (ptrRTCPBlockEnd_ p - ptrRTCPData_ p) 8); [started_no|]. started_yes 4.
Qed.

Lemma ParseBYE_started {R} p : at_block p -> gives (R := R) (ParseBYE p) (started p (ptrRTCPBlockEnd_ p)).
Proof.
  intros H. unfold ParseBYE, ParseBYEItem, leave, block_left. block H. psimp.
  destruct (_ || _) eqn:E; [started_no|]. apply orb_false_iff in E as [E1 E2]. apply Z.ltb_ge in E1. apply Z.eqb_neq in E2.
  unfold is_u8 in C3. pget. destruct (Z.leb_spec (4 * numberOfBlocks_ p) (ptrRTCPBlockEnd_ p - (ptrRTCPData_ p + 4))).
  - started_yes (4 + 4 * numberOfBlocks_ p).
  - started_yes 8.
Qed.

Lemma ParseXr_started {R} p : at_block p -> gives (R := R) (ParseXr p) (started p (ptrRTCPBlockEnd_ p)).
Proof.
  intros H. unfold ParseXr. block H. destruct (Z.ltb_spec (ptrRTCPBlockEnd_ p - ptrRTCPData_ p) 8); [started_no|]. pget. started_yes 8.
Qed.

Lemma ParseFBCommon_started {R} p header : at_block p -> gives (R := R) (ParseFBCommon p header) (started p (ptrRTCPBlockEnd_ p)).
Proof.
  intros H. unfold ParseFBCommon. block H. destruct (Z.ltb_spec (ptrRTCPBlockEnd_ p - ptrRTCPData_ p) 12); [started_no|]. do 2 pget.
  repeat match goal with |- context [if ?b then _ else _] => destruct b end; try started_no; started_yes 12.
  split; [by intros x [= <-]|]. intros x Hx. unfold rpsi_item in Hx. destruct (packet_ p); try done. by apply C4.
Qed.

Lemma ParseAPP_started {R} p header :
  at_block p -> 0 <= rh_IC header < 32 -> gives (R := R) (ParseAPP p header) (started p (ptrRTCPBlockEnd_ p)).
Proof.
  intros H Hic. unfold ParseAPP. block H. destruct (Z.ltb_spec (ptrRTCPBlockEnd_ p - ptrRTCPData_ p) 12); [started_no|]. do 2 pget.
  started_yes 12. split; [by intros x [= <-]|]. intros x Hx. unfold app_data in Hx. destruct (packet_ p); try done. by apply C4.
Qed.

Lemma header_ok {R} data ptr :
  Forall is_u8 data -> 0 <= ptr ->
  gives (R := R) (RTCPParseCommonHeader data ptr) (fun found => forall h, found = Some h ->
    ptr + 4 <= Zlen data /\ 4 <= rh_LengthInOctets h /\ rh_LengthInOctets h mod 4 = 0 /\ 0 <= rh_IC h < 32).
Proof.
  intros Hb H0. unfold RTCPParseCommonHeader. destruct (Z.ltb_spec (Zlen data - ptr) 4) as [H4|H4]; [by apply gives_Cont|].
  rewrite !rd_total by lia. cbn [flow_bind]. set (b0 := data !!! Z.to_nat ptr).
  assert (H : is_u8 b0) by (apply Forall_total; [done|unfold Zlen in H4; lia]).
  set (n := u16 _). destruct (Z.eqb_spec n 0) as [En|En]; [by apply gives_Cont|]. destruct (negb _); [by apply gives_Cont|].
  apply gives_Cont. intros h [= <-]. cbn [rh_LengthInOctets rh_IC].
  split; [lia|]. assert (Hn : 0 <= n /\ n mod 4 = 0) by (subst n; cint).
  split; [zdm|]. split; [lia|]. apply (field_range b0 5 31); [apply H|done|lia].
Qed.

(** A turn of the parser. *)
Definition stepped (p p' : RTCPParserV2) : Prop :=
  same_data p p' /\ good p' /\ ptrRTCPData_ p <= ptrRTCPData_ p'
  /\ (packetType_ p' <> kRtcpNotValidCode ->
      ptrRTCPData_ p + 4 <= ptrRTCPData_ p' <= Zlen (rtcpData p) /\ shape_ok (packetType_ p') (packet_ p') = true).

Lemma stepped_started p q e r :
  ptrRTCPData_ p <= ptrRTCPData_ q -> ptrRTCPData_ q <= e -> same_data p q -> ptrRTCPBlockEnd_ q <= Zlen (rtcpData q) ->
  started q e r -> stepped p r.2.
Proof.
  intros Hle He Hd Hb (S1 & S2 & S3 & S4). split; [psame|]. split; [done|]. destruct r as [[] r]; cbn [fst snd] in *.
  - destruct S4 as [S4 S5]. split; [lia|]. intros _. split; [|done]. destruct Hd as (D & _). rewrite <- D. lia.
  - destruct S4 as (_ & T & ->). split; [lia|]. by rewrite T.
Qed.

(** The start of a block of the data. *)
Definition block_of (p q : RTCPParserV2) : Prop :=
  at_block q /\ same_data p q /\ ptrRTCPData_ q = ptrRTCPData_ p.

Lemma block_done {R} p q e (m : flow R (bool * RTCPParserV2)) :
  block_of p q -> ptrRTCPData_ p <= e -> gives m (started q e) -> gives (let! (_, p') := m in Cont p') (stepped p).
Proof.
  intros (Hq & Hd & Ep) He Hm. eapply gives_bind; [exact Hm|]. intros [b p'] Hp'. apply gives_Cont.
  apply (stepped_started p q e (b, p')); [lia|lia|done|apply Hq|done].
Qed.

Lemma block_next {R} p q (m : flow R (bool * RTCPParserV2)) (next : RTCPParserV2 -> flow R RTCPParserV2) :
  block_of p q -> gives m (started q (ptrRTCPBlockEnd_ q)) ->
  (forall p', common p' -> state_ p' = State_TopLevel -> packetType_ p' = kRtcpNotValidCode -> rtcpData p' = rtcpData p ->
     ptrRTCPData_ p + 4 <= ptrRTCPData_ p' -> gives (next p') (stepped p')) ->
  gives (let! (ok, p') := m in if ok : bool then Cont p' else next p') (stepped p).
Proof.
  intros (Hq & Hd & Ep) Hm Hnext. eapply gives_bind; [exact Hm|]. intros [b p'] Hp'. assert (Hl := ab_left _ Hq). unfold block_left in Hl.
  assert (Hst := stepped_started p q (ptrRTCPBlockEnd_ q) (b, p') ltac:(lia) ltac:(lia) Hd ltac:(apply Hq) Hp'). cbn [snd] in Hst.
  destruct b; [by apply gives_Cont|]. destruct Hp' as (S1 & S2 & S3 & S4 & S5 & S6). cbn [fst snd] in *.
  eapply gives_weaken; [apply Hnext; [apply S3|done|done|psame|lia]|].
  intros p2 (T1 & T2 & T3 & T4). destruct Hst as (U1 & U2 & U3 & U4). split; [psame|]. split; [done|]. split; [lia|].
  intros Hty. specialize (T4 Hty). destruct U1 as (D & _). rewrite D in T4. destruct T4 as [T4 T5]. split; [lia|done].
Qed.

Lemma top_level_ok `{Machine} {R} fuel p :
  common p -> state_ p = State_TopLevel -> packetType_ p = kRtcpNotValidCode -> Zlen (rtcpData p) - ptrRTCPData_ p <= Z.of_nat fuel ->
  gives (R := R) (top_level fuel p) (stepped p).
Proof.
  revert p. induction fuel as [|fuel IH]; intros p Hc Hs Ht Hf; cbn [top_level]; assert (Hc' := Hc); destruct Hc' as [C1 C2 C3 C4];
    (eapply gives_bind; [by apply header_ok|]); intros [h|] Hh;
    try (apply gives_Cont; unfold stepped, good; rewrite Hs, Ht; split; [done|split; [done|split; [lia|done]]]);
    specialize (Hh h eq_refl); destruct Hh as (H4 & Hlen & Hmod & HIC); psimp;
    (destruct (Z.ltb_spec (Zlen (rtcpData p)) (ptrRTCPData_ p + rh_LengthInOctets h)) as [Hend|Hend];
      [apply gives_Cont; unfold stepped, good; psimp; rewrite Hs, Ht; split; [done|split; [split; [by split|done]|split; [lia|done]]]|]); [lia|].
  set (q := set_block_end p (ptrRTCPData_ p + rh_LengthInOctets h)).
  assert (Hq : forall n, is_u8 n -> block_of p (set_blocks q n)).
  { intros n Hn. split; [|split; [done|subst q; psimp; lia]].
    split; [split; done|done|done| |unfold block_left; subst q; psimp; lia].
    unfold in_block. subst q. psimp. split; [lia|]. by replace (_ - _) with (rh_LengthInOctets h) by lia. }
  assert (Hq0 : block_of p q) by apply (Hq (numberOfBlocks_ q) C3).
  assert (HICu : is_u8 (rh_IC h)) by (unfold is_u8; lia). assert (Hqi := Hq _ HICu). destruct Hqi as (Hab & _).
  assert (Hnext : forall p', common p' -> state_ p' = State_TopLevel -> packetType_ p' = kRtcpNotValidCode -> rtcpData p' = rtcpData p ->
     ptrRTCPData_ p + 4 <= ptrRTCPData_ p' -> gives (top_level (R := R) fuel p') (stepped p')).
  { intros p' P1 P2 P3 P4 P5. apply IH; try done. rewrite P4. lia. }
  destruct (rh_PT h =? PT_SR); [eapply block_done; [by apply Hq| |by apply ParseSR_started]; subst q; psimp; lia|].
  destruct (rh_PT h =? PT_RR); [eapply block_done; [by apply Hq| |by apply ParseRR_started]; subst q; psimp; lia|].
  destruct (rh_PT h =? PT_SDES); [eapply block_next; [by apply Hq|by apply ParseSDES_started|done]|].
  destruct (rh_PT h =? PT_BYE); [eapply block_next; [by apply Hq|by apply ParseBYE_started|done]|].
  destruct (rh_PT h =? PT_IJ); [eapply block_done; [by apply Hq| |by apply ParseIJ_started]; subst q; psimp; lia|].
  destruct (_ || _); [eapply block_next; [done|by apply ParseFBCommon_started, Hq0|done]|].
  destruct (rh_PT h =? PT_APP); [eapply block_next; [done|by apply ParseAPP_started; [apply Hq0|]|done]|].
  destruct (rh_PT h =? PT_XR); [eapply block_next; [done|by apply ParseXr_started, Hq0|done]|].
  apply (block_next p q (Cont (false, EndCurrentBlock q)) (top_level fuel)); [done| |done].
  assert (Hab0 := proj1 Hq0). clear - Hab0. clearbody q. block Hab0. started_no.
Qed.

(** ** Any turn and any packet *)

Lemma parse_of_parsed `{Machine} {R} p parse :
  parse_of (state_ p) = Some parse -> common p -> in_block p -> gives (R := R) (parse p) (parsed p).
Proof.
  intros E Hc Hb. destruct (state_ p) eqn:Hs; cbn in E; [done|injection E as <-..].
  - by apply ParseReportBlockItem_parsed.
  - by apply ParseSDESChunk_parsed.
  - by apply ParseBYEItem_parsed.
  - by apply ParseIJItem_parsed.
  - by apply ParseNACKItem_parsed.
  - by apply ParseTMMBRItem_parsed.
  - by apply ParseTMMBNItem_parsed.
  - by apply ParseSLIItem_parsed.
  - by apply ParseRPSIItem_parsed.
  - by apply ParseFIRItem_parsed.
  - by apply ParsePsfbAppItem_parsed.
  - by apply ParsePsfbREMBItem_parsed.
  - by apply ParseXrItem_parsed.
  - by apply ParseXrDlrrItem_parsed.
  - by apply ParseAPPItem_parsed.
Qed.

Lemma rank_good p : good p -> 0 <= rank p <= 2 + Zlen (rtcpData p).
Proof.
  intros [[_ C2 _ _] Hb]. unfold rank, block_left, in_block in *. pose proof (Zlen_nonneg (rtcpData p)).
  destruct (state_ p); try lia; destruct (Hb ltac:(done)) as [? _]; lia.
Qed.

Lemma iterate_ok `{Machine} {R} fuel p :
  good p -> rank p < Z.of_nat fuel -> gives (R := R) (iterate fuel p) (stepped p).
Proof.
  revert p. induction fuel as [|fuel IH]; intros p Hg Hf; [assert (Hr := rank_good p Hg); lia|]. cbn [iterate].
  set (q := set_type p kRtcpNotValidCode). assert (Hgq : good q) by (subst q; destruct Hg as [[] Hb]; split; [by split|exact Hb]).
  assert (Hst : forall p', stepped q p' -> stepped p p') by done.
  destruct (IsValid q); [|apply gives_Cont; split; [done|split; [done|split; [done|by psimp]]]].
  destruct (parse_of (state_ q)) as [parse|] eqn:Ep.
  - assert (Hs : state_ q <> State_TopLevel) by (intros E; by rewrite E in Ep). assert (Hb := proj2 Hgq Hs).
    unfold IterateItem. eapply gives_bind; [apply (parse_of_parsed q); [done|apply Hgq|done]|]. intros [[] p'] (P1 & P2 & P3 & P4); cbn [fst snd negb] in *.
    + apply gives_Cont. destruct P4 as [P4 P5]. split; [done|]. split; [done|]. destruct Hb as [B1 B2]. subst q. psimp. split; [lia|].
      intros _. split; [lia|done].
    + destruct P4 as [P4 P5]. eapply gives_weaken; [apply IH; [done|change (rank q) with (rank p) in P4; lia]|].
      intros p2 (T1 & T2 & T3 & T4). assert (Hd : rtcpData p' = rtcpData p) by apply P1. rewrite Hd in T4. subst q. psimp.
      split; [psame|]. split; [done|]. split; [lia|]. intros Hty. destruct (T4 Hty). split; [lia|done].
  - eapply gives_weaken; [apply top_level_ok; [apply Hgq|clear - Ep; revert Ep; by destruct (state_ q)|done|]|exact Hst].
    destruct Hgq as [[_ Q _ _] _]. unfold Zlen. lia.
Qed.

Lemma Iterate_ok `{Machine} {R} p : good p -> gives (R := R) (Iterate p) (stepped p).
Proof. intros Hg. apply iterate_ok; [done|]. assert (Hr := rank_good p Hg). unfold Zlen in Hr. lia. Qed.

Lemma reports_ok `{Machine} {R} fuel p :
  good p -> (packetType_ p <> kRtcpNotValidCode -> shape_ok (packetType_ p) (packet_ p) = true) ->
  ptrRTCPData_ p <= Zlen (rtcpData p) \/ packetType_ p = kRtcpNotValidCode ->
  Zlen (rtcpData p) - ptrRTCPData_ p + 4 <= 4 * Z.of_nat fuel \/ packetType_ p = kRtcpNotValidCode ->
  gives (R := R) (reports fuel p) (fun '(l, p') => Forall report_ok l /\ packetType_ p' = kRtcpNotValidCode
    /\ (l = [] \/ packetType_ p <> kRtcpNotValidCode /\ 4 * Zlen l <= Zlen (rtcpData p) - ptrRTCPData_ p + 4)).
Proof.
  revert p. induction fuel as [|fuel IH]; intros p Hg Hs Hle Hf; cbn [reports]; unfold PacketType;
    destruct (decide (packetType_ p = kRtcpNotValidCode)) as [Et|Et]; 
    try (by apply gives_Cont; split; [constructor|split; [done|by left]]); [exfalso; destruct Hle, Hf; (done || lia)|].
  destruct Hle as [Hle|]; [|done]. destruct Hf as [Hf|]; [|done].
  eapply gives_bind; [by apply Iterate_ok|]. intros p' (T1 & T2 & T3 & T4). assert (Hd : rtcpData p' = rtcpData p) by apply T1.
  eapply gives_bind; [apply IH; [done|by intros E; apply T4| |]|].
  - destruct (decide (packetType_ p' = kRtcpNotValidCode)) as [|E]; [by right|left]. destruct (T4 E). rewrite Hd. lia.
  - destruct (decide (packetType_ p' = kRtcpNotValidCode)) as [|E]; [by right|left]. destruct (T4 E). rewrite Hd. lia.
  - intros [l p2] (L1 & L2 & L3). apply gives_Cont. split; [constructor; [split; [by apply Hs|apply Hg]|done]|]. split; [done|].
    right. split; [done|]. rewrite Zlen_cons. destruct L3 as [->|[E L3]]; [rewrite Zlen_nil; lia|]. rewrite Hd in L3. destruct (T4 E). lia.
Qed.

Lemma new_good `{Machine} {R} data reduced :
  Forall is_u8 data ->
  gives (R := R) (new_RTCPParserV2 data reduced) (fun p => good p /\ rtcpData p = data /\ state_ p = State_TopLevel).
Proof.
  intros Hb. unfold new_RTCPParserV2, Validate. psimp. eapply gives_bind; [by apply header_ok|]. intros [h|] _.
  - destruct (_ && _); apply gives_Cont; (split; [|done]); (split; [split; psimp; (done || lia)|done]).
  - apply gives_Cont. split; [|done]. split; [split; psimp; (done || lia)|done].
Qed.

(** C9: the parser is safe on every packet.  Whatever its bytes are, in compound or reduced
    size mode, Begin and Iterate until a type that is not valid end without a read outside
    the packet and without a store outside a field; there is at most one report per four
    bytes, each names the member of the union that was written, and every number in it is within the width of its
    field, every CNAME shorter than its array and of legal characters. *)
Theorem rtcp_parse_safe `{Machine} {R} data reduced :
  Forall is_u8 data ->
  exists l p, parse_all (R := R) data reduced = Cont (l, p) /\ Forall report_ok l /\ 4 * Zlen l <= Zlen data.
Proof.
  intros Hb. unfold parse_all. destruct (new_good (R := R) data reduced Hb) as (p & -> & Hg & Hd & Ht). cbn [flow_bind].
  assert (Hg0 : good (set_ptr p 0)) by (destruct Hg as [[] _]; split; [by split|psimp; by rewrite Ht]).
  destruct (Iterate_ok (R := R) _ Hg0) as (p1 & E & T1 & T2 & T3 & T4). unfold Begin. rewrite E. cbn [flow_bind]. psimp.
  assert (Hd1 : rtcpData p1 = data) by (rewrite <- Hd; apply T1). rewrite Hd in T4.
  destruct (reports_ok (R := R) (length data) p1 T2) as ([l p2] & El & L1 & L2 & L3).
  - intros Ety. by apply T4.
  - destruct (decide (packetType_ p1 = kRtcpNotValidCode)) as [|E1]; [by right|left]. rewrite Hd1. by apply T4.
  - destruct (decide (packetType_ p1 = kRtcpNotValidCode)) as [|E1]; [by right|left]. rewrite Hd1. destruct (T4 E1). unfold Zlen. lia.
  - exists l, p2. split; [done|]. split; [done|]. pose proof (Zlen_nonneg data). destruct L3 as [->|[E1 L3]]; [unfold Zlen at 1; cbn [length]; lia|].
    rewrite Hd1 in L3. destruct (T4 E1). lia.
Qed.

(** A receiver report and a request for two packets, then a block that is cut off. *)
Lemma rtcp_parse_safe_witness :
  exists l p, @parse_all (Build_Machine (fun _ _ => 0) (fun _ _ => 0)) unit
    [128; 201; 0; 1; 0; 0; 0; 7; 129; 205; 0; 3; 0; 0; 0; 7; 0; 0; 0; 9; 1; 2; 0; 4; 128; 200; 0; 6] false = Cont (l, p)
    /\ Forall report_ok l /\ 4 * Zlen l <= 28.
Proof.
  apply (@rtcp_parse_safe (Build_Machine (fun _ _ => 0) (fun _ _ => 0)) unit
    [128; 201; 0; 1; 0; 0; 0; 7; 129; 205; 0; 3; 0; 0; 0; 7; 0; 0; 0; 9; 1; 2; 0; 4; 128; 200; 0; 6] false).
  by repeat constructor.
Defined.
