(* ===== verification/StdMap.v ===== *)
(** * std::map

    The operations of [std::map] that the components use, on the list of pairs in the order
    of the keys, which is the order of iteration. *)
From Stdlib Require Import Sorting.Sorted.
From S2P Require Import Prelude.
Local Open Scope Z_scope.

Section map.
Context {V : Type}.
Implicit Types m : list (Z * V).

Fixpoint map_find (k : Z) (m : list (Z * V)) : option V :=
  match m with
  | [] => None
  | (k', v) :: m => if k' =? k then Some v else map_find k m
  end.

(** [m[k] = v]. *)
Fixpoint map_set (k : Z) (v : V) (m : list (Z * V)) : list (Z * V) :=
  match m with
  | [] => [(k, v)]
  | (k', v') :: m' =>
      if k <? k' then (k, v) :: m
      else if k =? k' then (k, v) :: m'
      else (k', v') :: map_set k v m'
  end.

(** [insert], which keeps a value that is there. *)
Definition map_insert (k : Z) (v : V) (m : list (Z * V)) : list (Z * V) :=
  match map_find k m with Some _ => m | None => map_set k v m end.

Fixpoint map_erase (k : Z) (m : list (Z * V)) : list (Z * V) :=
  match m with
  | [] => []
  | (k', v) :: m => if k' =? k then m else (k', v) :: map_erase k m
  end.

Lemma map_set_elem k v m x : x ∈ map_set k v m -> x = (k, v) \/ x ∈ m.
Proof.
  induction m as [|[k' v'] m IH]; cbn [map_set]; [rewrite elem_of_cons; intuition|].
  destruct (k <? k'); [rewrite !elem_of_cons; intuition|]. destruct (k =? k'); rewrite !elem_of_cons; intuition.
Qed.

Lemma map_erase_elem k m x : x ∈ map_erase k m -> x ∈ m.
Proof. induction m as [|[k' v'] m IH]; cbn [map_erase]; [done|]. destruct (k' =? k); rewrite !elem_of_cons; intuition. Qed.

Lemma Forall_map_set (P : Z * V -> Prop) k v m : P (k, v) -> Forall P m -> Forall P (map_set k v m).
Proof. rewrite !Forall_forall. intros Hk Hm x [->|Hx]%map_set_elem; auto. Qed.

Lemma Forall_map_erase (P : Z * V -> Prop) k m : Forall P m -> Forall P (map_erase k m).
Proof. rewrite !Forall_forall. intros Hm x Hx%map_erase_elem. auto. Qed.

Lemma length_map_set k v m : (length (map_set k v m) <= S (length m))%nat.
Proof. induction m as [|[k' v'] m IH]; cbn [map_set length]; [done|]. destruct (k <? k'); cbn [length]; [lia|]. destruct (k =? k'); cbn [length]; lia. Qed.

Lemma length_map_erase k m : (length (map_erase k m) <= length m)%nat.
Proof. induction m as [|[k' v'] m IH]; cbn [map_erase length]; [done|]. destruct (k' =? k); cbn [length]; lia. Qed.

(** The keys increase, and an operation finds what was stored. *)
Definition sorted_map (m : list (Z * V)) : Prop := StronglySorted Z.lt m.*1.

Lemma map_find_set k v m k' : map_find k' (map_set k v m) = if k =? k' then Some v else map_find k' m.
Proof.
  induction m as [|[j w] m IH]; cbn [map_set map_find]; [done|].
  destruct (Z.ltb_spec k j); cbn [map_find]; [done|]. destruct (Z.eqb_spec k j) as [->|]; cbn [map_find]; [by destruct (j =? k')|].
  rewrite IH. destruct (Z.eqb_spec j k'), (Z.eqb_spec k k'); (done || lia).
Qed.

Lemma sorted_map_set k v m : sorted_map m -> sorted_map (map_set k v m).
Proof.
  unfold sorted_map. induction m as [|[j w] m IH]; cbn [map_set fmap list_fmap fst]; intros Hs; [repeat constructor|].
  inversion Hs as [|? ? Hs' Hj]; subst. destruct (Z.ltb_spec k j); cbn [fmap list_fmap fst].
  - constructor; [done|]. constructor; [done|]. eapply Forall_impl; [done|]. cbn. lia.
  - destruct (Z.eqb_spec k j) as [->|]; cbn [fmap list_fmap fst]; [by constructor|]. constructor; [by apply IH|].
    apply Forall_fmap, Forall_map_set; [cbn; lia|]. by apply Forall_fmap.
Qed.
End map.
