(* ===== verification/RtcpSender.v ===== *)
(** * The RTCP sender

    Models [RTCPSender] of [modules/rtp_rtcp/source/rtcp_sender.h] and [rtcp_sender.cc]: its
    state, the calls that change it, the functions that build the blocks of a compound packet,
    and PrepareRTCP and SendRTCP, which choose them.  A packet under construction is the pair
    of the buffer and the position; [-1] and [-2] are the error codes of the source.  What the
    sender asks others (the clock, the random generator, the statistics of the received
    streams, the module for its bounding set, the transport) is the record [Surroundings]. *)
From Stdlib Require Import SpecFloat.
From S2P Require Import Prelude RtpWire RtcpParser StdMap.
Local Open Scope Z_scope.

(** ** Constants *)

Definition RTCP_INTERVAL_VIDEO_MS : Z := 1000.
Definition RTCP_INTERVAL_AUDIO_MS : Z := 5000.
Definition RTCP_SEND_BEFORE_KEY_FRAME_MS : Z := 100.
Definition RTCP_MAX_REPORT_BLOCKS : Z := 31.
Definition RTCP_NUMBER_OF_SR : Z := 60.
Definition kRtcpMaxNackFields : Z := 253.
Definition kRtpCsrcSize : Z := 15.

(** RTCPPacketType: the flags of what to send. *)
Definition kRtcpReport : Z := 1.
Definition kRtcpSr : Z := 2.
Definition kRtcpRr : Z := 4.
Definition kRtcpBye : Z := 8.
Definition kRtcpPli : Z := 16.
Definition kRtcpNack : Z := 32.
Definition kRtcpFir : Z := 64.
Definition kRtcpTmmbr : Z := 128.
Definition kRtcpTmmbn : Z := 256.
Definition kRtcpXrVoipMetric : Z := 1024.
Definition kRtcpApp : Z := 2048.
Definition kRtcpSli : Z := 16384.
Definition kRtcpRpsi : Z := 32768.
Definition kRtcpRemb : Z := 65536.
Definition kRtcpTransmissionTimeOffset : Z := 131072.
Definition kRtcpXrReceiverReferenceTime : Z := 262144.
Definition kRtcpXrDlrrReportBlock : Z := 524288.

Definition has (flags flag : Z) : bool := negb (Z.land flags flag =? 0).

Inductive RTCPMethod : Type := kRtcpOff | kRtcpCompound | kRtcpNonCompound.

#[export] Instance RTCPMethod_eq : EqDecision RTCPMethod.
Proof. solve_decision. Defined.

(** ** Data *)

Record RTCPReportBlock : Type := mkRTCPReportBlock {
  remoteSSRC : Z;
  sourceSSRC : Z;
  fractionLost : Z;
  cumulativeLost : Z;
  extendedHighSeqNum : Z;
  jitter : Z;
  lastSR : Z;
  delaySinceLastSR : Z
}.

Record RtcpStatistics : Type := mkRtcpStatistics {
  fraction_lost : Z;
  cumulative_lost : Z;
  extended_max_sequence_number : Z;
  stat_jitter : Z
}.

Record RtcpReceiveTimeInfo : Type := mkReceiveTimeInfo {
  ti_sourceSSRC : Z;
  ti_lastRR : Z;
  ti_delaySinceLastRR : Z
}.

Record RTCPVoIPMetric : Type := mkVoIPMetric {
  lossRate : Z;
  discardRate : Z;
  burstDensity : Z;
  gapDensity : Z;
  burstDuration : Z;
  gapDuration : Z;
  roundTripDelay : Z;
  endSystemDelay : Z;
  signalLevel : Z;
  noiseLevel : Z;
  RERL : Z;
  Gmin : Z;
  Rfactor : Z;
  extRfactor : Z;
  MOSLQ : Z;
  MOSCQ : Z;
  RXconfig : Z;
  JBnominal : Z;
  JBmax : Z;
  JBabsMax : Z
}.

Record RtcpPacketTypeCounter : Type := mkCounter {
  nack_packets : Z;
  fir_packets : Z;
  pli_packets : Z
}.

(** An element of a TMMBRSet. *)
Record SetElement : Type := mkSetElement {
  el_tmmbr : Z;
  el_packet_oh : Z;
  el_ssrc : Z
}.

(** [fs_module] is what BoundingSet of the module answers, None when there is no module. *)
Record FeedbackState : Type := mkFeedbackState {
  send_payload_type : Z;
  frequency_hz : Z;
  packets_sent : Z;
  media_bytes_sent : Z;
  send_bitrate : Z;
  last_rr_ntp_secs : Z;
  last_rr_ntp_frac : Z;
  remote_sr : Z;
  has_last_xr_rr : bool;
  last_xr_rr : RtcpReceiveTimeInfo;
  fs_module : option (bool * list SetElement)
}.

(** The members of RTCPSender, by subject.  A C string is its characters; the arrays of the
    last reports have their newest entry first. *)
Record Sources : Type := mkSources {
  SSRC_ : Z;
  remoteSSRC_ : Z;
  CNAME_ : list Z;
  csrcCNAMEs_ : list (Z * list Z);
  CSRCs_ : Z;
  CSRC_ : list Z;
  includeCSRCs_ : bool
}.

Record SrData : Type := mkSrData {
  start_timestamp_ : Z;
  last_rtp_timestamp_ : Z;
  last_frame_capture_time_ms_ : Z;
  lastSendReport_ : list Z;
  lastRTCPTime_ : list Z
}.

Record RembData : Type := mkRembData {
  REMB_ : bool;
  sendREMB_ : bool;
  lengthRembSSRC_ : Z;
  sizeRembSSRC_ : Z;
  rembSSRC_ : list Z;
  rembBitrate_ : Z
}.

Record TmmbrData : Type := mkTmmbrData {
  TMMBR_ : bool;
  sendTMMBN_ : bool;
  tmmbr_Send_ : Z;
  packetOH_Send_ : Z;
  boundingSetToSend_ : list SetElement
}.

Record AppData : Type := mkAppData {
  appSend_ : bool;
  appSubType_ : Z;
  appName_ : Z;
  appData_ : option (list Z);
  appLength_ : Z
}.

Record XrData : Type := mkXrData {
  xrSendReceiverReferenceTimeEnabled_ : bool;
  xrSendVoIPMetric_ : bool;
  xrVoIPMetric_ : RTCPVoIPMetric;
  last_xr_rr_ : list (Z * Z)
}.

Record RTCPSender : Type := mkRTCPSender {
  audio_ : bool;
  method_ : RTCPMethod;
  sending_ : bool;
  IJ_ : bool;
  nextTimeToSendRTCP_ : Z;
  cameraDelayMS_ : Z;
  sequenceNumberFIR_ : Z;
  internal_report_blocks_ : list (Z * RTCPReportBlock);
  external_report_blocks_ : list (Z * RTCPReportBlock);
  packet_type_counter_ : RtcpPacketTypeCounter;
  sources_ : Sources;
  sr_ : SrData;
  remb_ : RembData;
  tmmbr_ : TmmbrData;
  app_ : AppData;
  xr_ : XrData
}.

(** What the sender asks others in one call, in the order in which it asks: the clock, the
    random generator, the clock, the active statisticians (what GetStatistics answers, and the
    clock then), the clock for a sender report, and whether a candidate set makes the sender
    an owner of the bounding set that FindTMMBRBoundingSet finds in it. *)
Record Surroundings : Type := mkSurroundings {
  now_ms : Z;
  rand : Z;
  ntp_now : Z * Z;
  statisticians : list (Z * option RtcpStatistics * (Z * Z));
  now_ms_sr : Z;
  enters_bounding_set : list SetElement -> bool
}.

(** ** Changes of one member *)

Definition set_method (self : RTCPSender) (v : RTCPMethod) : RTCPSender :=
  mkRTCPSender (audio_ self) v (sending_ self) (IJ_ self) (nextTimeToSendRTCP_ self) (cameraDelayMS_ self)
    (sequenceNumberFIR_ self) (internal_report_blocks_ self) (external_report_blocks_ self)
    (packet_type_counter_ self) (sources_ self) (sr_ self) (remb_ self) (tmmbr_ self) (app_ self) (xr_ self).
Definition set_sending (self : RTCPSender) (v : bool) : RTCPSender :=
  mkRTCPSender (audio_ self) (method_ self) v (IJ_ self) (nextTimeToSendRTCP_ self) (cameraDelayMS_ self)
    (sequenceNumberFIR_ self) (internal_report_blocks_ self) (external_report_blocks_ self)
    (packet_type_counter_ self) (sources_ self) (sr_ self) (remb_ self) (tmmbr_ self) (app_ self) (xr_ self).
Definition set_IJ (self : RTCPSender) (v : bool) : RTCPSender :=
  mkRTCPSender (audio_ self) (method_ self) (sending_ self) v (nextTimeToSendRTCP_ self) (cameraDelayMS_ self)
    (sequenceNumberFIR_ self) (internal_report_blocks_ self) (external_report_blocks_ self)
    (packet_type_counter_ self) (sources_ self) (sr_ self) (remb_ self) (tmmbr_ self) (app_ self) (xr_ self).
Definition set_nextTimeToSendRTCP (self : RTCPSender) (v : Z) : RTCPSender :=
  mkRTCPSender (audio_ self) (method_ self) (sending_ self) (IJ_ self) v (cameraDelayMS_ self)
    (sequenceNumberFIR_ self) (internal_report_blocks_ self) (external_report_blocks_ self)
    (packet_type_counter_ self) (sources_ self) (sr_ self) (remb_ self) (tmmbr_ self) (app_ self) (xr_ self).
Definition set_cameraDelayMS (self : RTCPSender) (v : Z) : RTCPSender :=
  mkRTCPSender (audio_ self) (method_ self) (sending_ self) (IJ_ self) (nextTimeToSendRTCP_ self) v
    (sequenceNumberFIR_ self) (internal_report_blocks_ self) (external_report_blocks_ self)
    (packet_type_counter_ self) (sources_ self) (sr_ self) (remb_ self) (tmmbr_ self) (app_ self) (xr_ self).
Definition set_sequenceNumberFIR (self : RTCPSender) (v : Z) : RTCPSender :=
  mkRTCPSender (audio_ self) (method_ self) (sending_ self) (IJ_ self) (nextTimeToSendRTCP_ self)
    (cameraDelayMS_ self) v (internal_report_blocks_ self) (external_report_blocks_ self)
    (packet_type_counter_ self) (sources_ self) (sr_ self) (remb_ self) (tmmbr_ self) (app_ self) (xr_ self).
Definition set_internal_report_blocks (self : RTCPSender) (v : list (Z * RTCPReportBlock)) : RTCPSender :=
  mkRTCPSender (audio_ self) (method_ self) (sending_ self) (IJ_ self) (nextTimeToSendRTCP_ self)
    (cameraDelayMS_ self) (sequenceNumberFIR_ self) v (external_report_blocks_ self) (packet_type_counter_
    self) (sources_ self) (sr_ self) (remb_ self) (tmmbr_ self) (app_ self) (xr_ self).
Definition set_external_report_blocks (self : RTCPSender) (v : list (Z * RTCPReportBlock)) : RTCPSender :=
  mkRTCPSender (audio_ self) (method_ self) (sending_ self) (IJ_ self) (nextTimeToSendRTCP_ self)
    (cameraDelayMS_ self) (sequenceNumberFIR_ self) (internal_report_blocks_ self) v (packet_type_counter_
    self) (sources_ self) (sr_ self) (remb_ self) (tmmbr_ self) (app_ self) (xr_ self).
Definition set_packet_type_counter (self : RTCPSender) (v : RtcpPacketTypeCounter) : RTCPSender :=
  mkRTCPSender (audio_ self) (method_ self) (sending_ self) (IJ_ self) (nextTimeToSendRTCP_ self)
    (cameraDelayMS_ self) (sequenceNumberFIR_ self) (internal_report_blocks_ self) (external_report_blocks_
    self) v (sources_ self) (sr_ self) (remb_ self) (tmmbr_ self) (app_ self) (xr_ self).
Definition set_sources (self : RTCPSender) (v : Sources) : RTCPSender :=
  mkRTCPSender (audio_ self) (method_ self) (sending_ self) (IJ_ self) (nextTimeToSendRTCP_ self)
    (cameraDelayMS_ self) (sequenceNumberFIR_ self) (internal_report_blocks_ self) (external_report_blocks_
    self) (packet_type_counter_ self) v (sr_ self) (remb_ self) (tmmbr_ self) (app_ self) (xr_ self).
Definition set_sr (self : RTCPSender) (v : SrData) : RTCPSender :=
  mkRTCPSender (audio_ self) (method_ self) (sending_ self) (IJ_ self) (nextTimeToSendRTCP_ self)
    (cameraDelayMS_ self) (sequenceNumberFIR_ self) (internal_report_blocks_ self) (external_report_blocks_
    self) (packet_type_counter_ self) (sources_ self) v (remb_ self) (tmmbr_ self) (app_ self) (xr_ self).
Definition set_remb (self : RTCPSender) (v : RembData) : RTCPSender :=
  mkRTCPSender (audio_ self) (method_ self) (sending_ self) (IJ_ self) (nextTimeToSendRTCP_ self)
    (cameraDelayMS_ self) (sequenceNumberFIR_ self) (internal_report_blocks_ self) (external_report_blocks_
    self) (packet_type_counter_ self) (sources_ self) (sr_ self) v (tmmbr_ self) (app_ self) (xr_ self).
Definition set_tmmbr (self : RTCPSender) (v : TmmbrData) : RTCPSender :=
  mkRTCPSender (audio_ self) (method_ self) (sending_ self) (IJ_ self) (nextTimeToSendRTCP_ self)
    (cameraDelayMS_ self) (sequenceNumberFIR_ self) (internal_report_blocks_ self) (external_report_blocks_
    self) (packet_type_counter_ self) (sources_ self) (sr_ self) (remb_ self) v (app_ self) (xr_ self).
Definition set_app (self : RTCPSender) (v : AppData) : RTCPSender :=
  mkRTCPSender (audio_ self) (method_ self) (sending_ self) (IJ_ self) (nextTimeToSendRTCP_ self)
    (cameraDelayMS_ self) (sequenceNumberFIR_ self) (internal_report_blocks_ self) (external_report_blocks_
    self) (packet_type_counter_ self) (sources_ self) (sr_ self) (remb_ self) (tmmbr_ self) v (xr_ self).
Definition set_xr (self : RTCPSender) (v : XrData) : RTCPSender :=
  mkRTCPSender (audio_ self) (method_ self) (sending_ self) (IJ_ self) (nextTimeToSendRTCP_ self)
    (cameraDelayMS_ self) (sequenceNumberFIR_ self) (internal_report_blocks_ self) (external_report_blocks_
    self) (packet_type_counter_ self) (sources_ self) (sr_ self) (remb_ self) (tmmbr_ self) (app_ self) v.

(** ** Writing *)

(** The buffer and the position [pos]. *)
Definition Out : Type := list Z * Z.

(** [rtcpbuffer[pos++] = b] for the bytes of a list in turn. *)
Fixpoint out8 {R : Type} (w : Out) (bs : list Z) : flow R Out :=
  match bs with
  | [] => Cont w
  | b :: bs => let '(rtcpbuffer, pos) := w in let! rtcpbuffer := wr rtcpbuffer pos (u8 b) in out8 (rtcpbuffer, pos + 1) bs
  end.

(** [pos++] *)
Definition out_skip (w : Out) (n : Z) : Out := let '(rtcpbuffer, pos) := w in (rtcpbuffer, pos + n).

Definition out32 {R : Type} (w : Out) (v : Z) : flow R Out :=
  let '(rtcpbuffer, pos) := w in let! rtcpbuffer := AssignUWord32ToBuffer rtcpbuffer pos v in Cont (rtcpbuffer, pos + 4).

Definition out24 {R : Type} (w : Out) (v : Z) : flow R Out :=
  let '(rtcpbuffer, pos) := w in let! rtcpbuffer := AssignUWord24ToBuffer rtcpbuffer pos v in Cont (rtcpbuffer, pos + 3).

Definition out16 {R : Type} (w : Out) (v : Z) : flow R Out :=
  let '(rtcpbuffer, pos) := w in let! rtcpbuffer := AssignUWord16ToBuffer rtcpbuffer pos v in Cont (rtcpbuffer, pos + 2).

(** [memcpy(rtcpbuffer + pos, ...)] *)
Definition out_copy {R : Type} (w : Out) (bs : list Z) : flow R Out :=
  let '(rtcpbuffer, pos) := w in let! rtcpbuffer := blk_put rtcpbuffer pos bs in Cont (rtcpbuffer, pos + Zlen bs).

Fixpoint out_all {R A : Type} (put1 : Out -> A -> flow R Out) (w : Out) (l : list A) : flow R Out :=
  match l with
  | [] => Cont w
  | x :: l => let! w := put1 w x in out_all put1 w l
  end.

(** ** The clock *)

(** [double] arithmetic. *)
Definition kNtpFracPerMs : spec_float := S754_finite false 4611686018427388 (-30).
Definition half : spec_float := S754_finite false 4503599627370496 (-53).

Definition double_to_int64 (x : spec_float) : Z :=
  match x with
  | S754_finite s m e =>
      let v := if 0 <=? e then Z.shiftl (Zpos m) e else Z.shiftr (Zpos m) (- e) in if s then - v else v
  | _ => 0
  end.

Definition NtpToMs (ntp_secs ntp_frac : Z) : Z :=
  let ntp_frac_ms := SFdiv 53 1024 (binary_normalize 53 1024 ntp_frac 0 false) kNtpFracPerMs in
  1000 * ntp_secs + double_to_int64 (SFadd 53 1024 ntp_frac_ms half).

(** ** Settings *)

(** The constructor; the memory of [CSRC_] and of the metric is zero. *)
Definition new_RTCPSender (audio : bool) : RTCPSender :=
  mkRTCPSender audio kRtcpOff false false 0 0 0 [] [] (mkCounter 0 0 0)
    (mkSources 0 0 [] [] 0 (replicate (Z.to_nat kRtpCsrcSize) 0) true)
    (mkSrData 0 0 (-1) (replicate (Z.to_nat RTCP_NUMBER_OF_SR) 0) (replicate (Z.to_nat RTCP_NUMBER_OF_SR) 0))
    (mkRembData false false 0 0 [] 0)
    (mkTmmbrData false false 0 0 [])
    (mkAppData false 0 0 None 0)
    (mkXrData false false (mkVoIPMetric 0 0 0 0 0 0 0 0 0 0 0 0 0 0 0 0 0 0 0 0) []).

Definition Status (self : RTCPSender) : RTCPMethod := method_ self.

Definition SetRTCPStatus (self : RTCPSender) (now : Z) (method : RTCPMethod) : RTCPSender :=
  let self :=
    if decide (method = kRtcpOff) then self
    else set_nextTimeToSendRTCP self (now + (if audio_ self then RTCP_INTERVAL_AUDIO_MS / 2 else RTCP_INTERVAL_VIDEO_MS / 2)) in
  set_method self method.

Definition Sending (self : RTCPSender) : bool := sending_ self.

Definition set_remb_status (self : RTCPSender) (enable : bool) : RTCPSender :=
  let d := remb_ self in
  set_remb self (mkRembData enable (sendREMB_ d) (lengthRembSSRC_ d) (sizeRembSSRC_ d) (rembSSRC_ d) (rembBitrate_ d)).

Definition REMB (self : RTCPSender) : bool := REMB_ (remb_ self).
Definition SetREMBStatus (self : RTCPSender) (enable : bool) : RTCPSender := set_remb_status self enable.

(** An array that is too short is allocated anew; [SSRC] is the list of the first
    [numberOfSSRC]. *)
Definition SetREMBData {R : Type} (self : RTCPSender) (now bitrate numberOfSSRC : Z) (SSRC : list Z) : flow R RTCPSender :=
  let d := remb_ self in
  let '(size, array) :=
    if sizeRembSSRC_ d <? numberOfSSRC then (numberOfSSRC, replicate (Z.to_nat numberOfSSRC) 0) else (sizeRembSSRC_ d, rembSSRC_ d) in
  let! array := for_up (Z.to_nat numberOfSSRC) 0 (fun i array => let! x := rd SSRC i in wr array i x) array in
  Cont (set_nextTimeToSendRTCP (set_remb self (mkRembData (REMB_ d) true numberOfSSRC size array bitrate)) now).

Definition TMMBR_status (self : RTCPSender) : bool := TMMBR_ (tmmbr_ self).
Definition SetTMMBRStatus (self : RTCPSender) (enable : bool) : RTCPSender :=
  let d := tmmbr_ self in
  set_tmmbr self (mkTmmbrData enable (sendTMMBN_ d) (tmmbr_Send_ d) (packetOH_Send_ d) (boundingSetToSend_ d)).

Definition SetTargetBitrate (self : RTCPSender) (target_bitrate : Z) : RTCPSender :=
  let d := tmmbr_ self in
  set_tmmbr self (mkTmmbrData (TMMBR_ d) (sendTMMBN_ d) (target_bitrate / 1000) (packetOH_Send_ d) (boundingSetToSend_ d)).

(** SetTMMBRBoundingSetToSend of TMMBRHelp; [None] is NULL. *)
Definition SetTMMBRBoundingSetToSend (boundingSet : option (list SetElement)) (maxBitrateKbit : Z) : list SetElement :=
  match boundingSet with
  | None => []
  | Some set =>
      (fun e => mkSetElement (if negb (maxBitrateKbit =? 0) && (maxBitrateKbit <? el_tmmbr e) then maxBitrateKbit else el_tmmbr e)
         (el_packet_oh e) (el_ssrc e)) <$> set
  end.

Definition SetTMMBN (self : RTCPSender) (boundingSet : option (list SetElement)) (maxBitrateKbit : Z) : RTCPSender :=
  let d := tmmbr_ self in
  set_tmmbr self (mkTmmbrData (TMMBR_ d) true (tmmbr_Send_ d) (packetOH_Send_ d)
    (SetTMMBRBoundingSetToSend boundingSet maxBitrateKbit)).

Definition IJ (self : RTCPSender) : bool := IJ_ self.
Definition SetIJStatus (self : RTCPSender) (enable : bool) : RTCPSender := set_IJ self enable.

Definition SetStartTimestamp (self : RTCPSender) (start_timestamp : Z) : RTCPSender :=
  let d := sr_ self in
  set_sr self (mkSrData start_timestamp (last_rtp_timestamp_ d) (last_frame_capture_time_ms_ d) (lastSendReport_ d) (lastRTCPTime_ d)).

Definition SetLastRtpTime (self : RTCPSender) (now rtp_timestamp capture_time_ms : Z) : RTCPSender :=
  let d := sr_ self in
  set_sr self (mkSrData (start_timestamp_ d) rtp_timestamp (if capture_time_ms <? 0 then now else capture_time_ms)
    (lastSendReport_ d) (lastRTCPTime_ d)).

Definition set_ssrcs (self : RTCPSender) (SSRC remote : Z) : RTCPSender :=
  let d := sources_ self in
  set_sources self (mkSources SSRC remote (CNAME_ d) (csrcCNAMEs_ d) (CSRCs_ d) (CSRC_ d) (includeCSRCs_ d)).

Definition SetSSRC (self : RTCPSender) (now ssrc : Z) : RTCPSender :=
  let self := if negb (SSRC_ (sources_ self) =? 0) then set_nextTimeToSendRTCP self (now + 100) else self in
  set_ssrcs self ssrc (remoteSSRC_ (sources_ self)).

Definition SetRemoteSSRC (self : RTCPSender) (ssrc : Z) : RTCPSender := set_ssrcs self (SSRC_ (sources_ self)) ssrc.

Definition SetCameraDelay (self : RTCPSender) (delayMS : Z) : Z * RTCPSender :=
  if (1000 <? delayMS) || (delayMS <? -1000) then (-1, self) else (0, set_cameraDelayMS self delayMS).

(** The characters that [strncpy] copies into an array whose last byte is zero. *)
Definition cname_of (cName : list Z) : list Z := ztake (RTCP_CNAME_SIZE - 1) cName.

Definition set_names (self : RTCPSender) (cName : list Z) (mixed : list (Z * list Z)) : RTCPSender :=
  let d := sources_ self in
  set_sources self (mkSources (SSRC_ d) (remoteSSRC_ d) cName mixed (CSRCs_ d) (CSRC_ d) (includeCSRCs_ d)).

Definition SetCNAME (self : RTCPSender) (cName : list Z) : RTCPSender :=
  set_names self (cname_of cName) (csrcCNAMEs_ (sources_ self)).

Definition AddMixedCNAME (self : RTCPSender) (SSRC : Z) (cName : list Z) : Z * RTCPSender :=
  let d := sources_ self in
  if kRtpCsrcSize <=? Zlen (csrcCNAMEs_ d) then (-1, self)
  else (0, set_names self (CNAME_ d) (map_set SSRC (cname_of cName) (csrcCNAMEs_ d))).

Definition RemoveMixedCNAME (self : RTCPSender) (SSRC : Z) : Z * RTCPSender :=
  let d := sources_ self in
  match map_find SSRC (csrcCNAMEs_ d) with
  | None => (-1, self)
  | Some _ => (0, set_names self (CNAME_ d) (map_erase SSRC (csrcCNAMEs_ d)))
  end.

Definition set_csrc_data (self : RTCPSender) (CSRCs : Z) (CSRC : list Z) (include : bool) : RTCPSender :=
  let d := sources_ self in
  set_sources self (mkSources (SSRC_ d) (remoteSSRC_ d) (CNAME_ d) (csrcCNAMEs_ d) CSRCs CSRC include).

Definition SetCSRCStatus (self : RTCPSender) (include : bool) : RTCPSender :=
  set_csrc_data self (CSRCs_ (sources_ self)) (CSRC_ (sources_ self)) include.

Definition SetCSRCs {R : Type} (self : RTCPSender) (arrOfCSRC : list Z) (arrLength : Z) : flow R RTCPSender :=
  let d := sources_ self in
  let! CSRC := for_up (Z.to_nat arrLength) 0 (fun i CSRC => let! x := rd arrOfCSRC i in wr CSRC i x) (CSRC_ d) in
  Cont (set_csrc_data self arrLength CSRC (includeCSRCs_ d)).

Definition SetApplicationSpecificData {R : Type} (self : RTCPSender) (subType name : Z) (data : list Z) (length : Z)
  : flow R (Z * RTCPSender) :=
  if negb (length mod 4 =? 0) then Cont (-1, self)
  else
    let! copy := blk_get data 0 length in
    Cont (0, set_app self (mkAppData true subType name (Some copy) length)).

Definition set_xr_data (self : RTCPSender) (enabled send : bool) (metric : RTCPVoIPMetric) (sent : list (Z * Z)) : RTCPSender :=
  set_xr self (mkXrData enabled send metric sent).

Definition SetRTCPVoIPMetrics (self : RTCPSender) (VoIPMetric : RTCPVoIPMetric) : RTCPSender :=
  let d := xr_ self in set_xr_data self (xrSendReceiverReferenceTimeEnabled_ d) true VoIPMetric (last_xr_rr_ d).

Definition SendRtcpXrReceiverReferenceTime (self : RTCPSender) (enable : bool) : RTCPSender :=
  let d := xr_ self in set_xr_data self enable (xrSendVoIPMetric_ d) (xrVoIPMetric_ d) (last_xr_rr_ d).

Definition RtcpXrReceiverReferenceTime (self : RTCPSender) : bool := xrSendReceiverReferenceTimeEnabled_ (xr_ self).

Definition TimeToSendRTCPReport (self : RTCPSender) (now : Z) (sendKeyframeBeforeRTP : bool) : bool :=
  if decide (method_ self = kRtcpOff) then false
  else
    let now := if negb (audio_ self) && sendKeyframeBeforeRTP then now + RTCP_SEND_BEFORE_KEY_FRAME_MS else now in
    if nextTimeToSendRTCP_ self <=? now then true
    else (now <? 65535) && (4294901760 <? nextTimeToSendRTCP_ self).

(** The time and the middle of the NTP time of the last sender report. *)
Definition LastSendReport {R : Type} (self : RTCPSender) : flow R (Z * Z) :=
  let! report := rd (lastSendReport_ (sr_ self)) 0 in
  let! time := rd (lastRTCPTime_ (sr_ self)) 0 in
  Cont (report, time).

Fixpoint find_report {R : Type} (n : nat) (i : Z) (reports times : list Z) (sendReport : Z) : flow R Z :=
  match n with
  | O => Cont 0
  | S n =>
      let! report := rd reports i in
      if report =? sendReport then rd times i else find_report n (i + 1) reports times sendReport
  end.

Definition SendTimeOfSendReport {R : Type} (self : RTCPSender) (sendReport : Z) : flow R Z :=
  let d := sr_ self in
  let! first := rd (lastSendReport_ d) 0 in
  if (first =? 0) || (sendReport =? 0) then Cont 0
  else find_report (Z.to_nat RTCP_NUMBER_OF_SR) 0 (lastSendReport_ d) (lastRTCPTime_ d) sendReport.

Definition SendTimeOfXrRrReport (self : RTCPSender) (mid_ntp : Z) : option Z := map_find mid_ntp (last_xr_rr_ (xr_ self)).

Definition AddReportBlock (SSRC : Z) (report_blocks : list (Z * RTCPReportBlock)) (reportBlock : RTCPReportBlock)
  : Z * list (Z * RTCPReportBlock) :=
  if RTCP_MAX_REPORT_BLOCKS <=? Zlen report_blocks then (-1, report_blocks)
  else (0, map_set SSRC reportBlock (map_erase SSRC report_blocks)).

Definition AddExternalReportBlock (self : RTCPSender) (SSRC : Z) (reportBlock : RTCPReportBlock) : Z * RTCPSender :=
  let '(ret, blocks) := AddReportBlock SSRC (external_report_blocks_ self) reportBlock in
  (ret, set_external_report_blocks self blocks).

Definition RemoveExternalReportBlock (self : RTCPSender) (SSRC : Z) : Z * RTCPSender :=
  match map_find SSRC (external_report_blocks_ self) with
  | None => (-1, self)
  | Some _ => (0, set_external_report_blocks self (map_erase SSRC (external_report_blocks_ self)))
  end.

(** ** Blocks

    The result of a builder is a code, the sender and the packet. *)

Definition own_ssrc (self : RTCPSender) : Z := SSRC_ (sources_ self).
Definition remote_ssrc (self : RTCPSender) : Z := remoteSSRC_ (sources_ self).

Definition WriteReportBlock {R : Type} (w : Out) (block : Z * RTCPReportBlock) : flow R Out :=
  let '(remoteSSRC, b) := block in
  let! w := out32 w remoteSSRC in
  let! w := out8 w [fractionLost b] in
  let! w := out24 w (cumulativeLost b) in
  let! w := out32 w (extendedHighSeqNum b) in
  let! w := out32 w (jitter b) in
  let! w := out32 w (lastSR b) in
  out32 w (delaySinceLastSR b).

Definition WriteReportBlocksToBuffer {R : Type} (w : Out) (report_blocks : list (Z * RTCPReportBlock)) : flow R Out :=
  out_all WriteReportBlock w report_blocks.

(** The number of blocks, and [None] for -1. *)
Definition WriteAllReportBlocksToBuffer {R : Type} (self : RTCPSender) (w : Out) : flow R (Z * RTCPSender * option Out) :=
  let numberOfReportBlocks := u8 (u8 (Zlen (external_report_blocks_ self)) + Zlen (internal_report_blocks_ self)) in
  if IP_PACKET_SIZE <=? w.2 + numberOfReportBlocks * 24 then Cont (numberOfReportBlocks, self, None)
  else
    let! w := WriteReportBlocksToBuffer w (internal_report_blocks_ self) in
    let self := set_internal_report_blocks self [] in
    let! w := WriteReportBlocksToBuffer w (external_report_blocks_ self) in
    Cont (numberOfReportBlocks, self, Some w).

(** [rtcpbuffer[posNumberOfReportBlocks] += numberOfReportBlocks] and the length of a report,
    which is stored at the start of the packet. *)
Definition report_length {R : Type} (w : Out) (posNumberOfReportBlocks numberOfReportBlocks : Z) : flow R Out :=
  let '(rtcpbuffer, pos) := w in
  let! b := rd rtcpbuffer posNumberOfReportBlocks in
  let! rtcpbuffer := wr rtcpbuffer posNumberOfReportBlocks (u8 (b + numberOfReportBlocks)) in
  let! rtcpbuffer := AssignUWord16ToBuffer rtcpbuffer 2 (u16 (Z.quot pos 4 - 1)) in
  Cont (rtcpbuffer, pos).

(** An array whose entries move up by one. *)
Definition shift_in (l : list Z) (x : Z) : list Z := x :: ztake (Zlen l - 1) l.

Definition BuildSR {R : Type} (self : RTCPSender) (fs : FeedbackState) (env : Surroundings) (w : Out) (NTPsec NTPfrac : Z)
  : flow R (Z * RTCPSender * Out) :=
  let pos := w.2 in
  if IP_PACKET_SIZE <=? pos + 52 then Cont (-2, self, w)
  else
    let! w := out8 w [128; 200] in
    let d := sr_ self in
    let d := mkSrData (start_timestamp_ d) (last_rtp_timestamp_ d) (last_frame_capture_time_ms_ d)
      (shift_in (lastSendReport_ d) (u32 (u32 (Z.shiftl NTPsec 16) + Z.shiftr NTPfrac 16)))
      (shift_in (lastRTCPTime_ d) (u32 (NtpToMs NTPsec NTPfrac))) in
    let self := set_sr self d in
    let RTPtime := u32 (start_timestamp_ d + last_rtp_timestamp_ d
      + (now_ms_sr env - last_frame_capture_time_ms_ d) * (frequency_hz fs / 1000)) in
    let! w := out32 (out_skip w 2) (own_ssrc self) in
    let! w := out32 w NTPsec in
    let! w := out32 w NTPfrac in
    let! w := out32 w RTPtime in
    let! w := out32 w (packets_sent fs) in
    let! w := out32 w (media_bytes_sent fs) in
    let! (n, self, written) := WriteAllReportBlocksToBuffer self w in
    match written with
    | None => Cont (-1, self, w)
    | Some w => let! w := report_length w pos n in Cont (0, self, w)
    end.

(** Zeros up to a multiple of four; the result counts them in [padding]. *)
Fixpoint pad_zeros {R : Type} (fuel : nat) (w : Out) (padding : Z) : flow R (Out * Z) :=
  if w.2 mod 4 =? 0 then Cont (w, padding)
  else match fuel with O => Stuck | S fuel => let! w := out8 w [0] in pad_zeros fuel w (u16 (padding + 1)) end.

(** An SSRC and its CNAME with the length, and zeros up to a multiple of four, one at least;
    the result has the number of zeros. *)
Definition out_cname {R : Type} (w : Out) (SSRC : Z) (name : list Z) : flow R (Out * Z) :=
  let! w := out32 w SSRC in
  let! w := out8 w [1; Zlen name] in
  let! w := out_copy w name in
  let! (w, padding) := if w.2 mod 4 =? 0 then let! w := out8 w [0] in Cont (w, 1) else Cont (w, 0) in
  pad_zeros 3 w padding.

(** The names of the contributing sources, with the length so far. *)
Fixpoint out_cnames {R : Type} (w : Out) (SDESLength : Z) (names : list (Z * list Z)) : flow R (Out * Z) :=
  match names with
  | [] => Cont (w, SDESLength)
  | (SSRC, name) :: names =>
      let! (w, padding) := out_cname w SSRC name in
      out_cnames w (u16 (u16 (u16 (SDESLength + 6) + Zlen name) + padding)) names
  end.

Definition BuildSDEC {R : Type} (self : RTCPSender) (w : Out) : flow R (Z * RTCPSender * Out) :=
  let s := sources_ self in
  let lengthCname := Zlen (CNAME_ s) in
  if IP_PACKET_SIZE <=? w.2 + 12 + lengthCname then Cont (-2, self, w)
  else
    let! w := out8 w [128 + 1 + Zlen (csrcCNAMEs_ s); 202] in
    let SDESLengthPos := w.2 in
    let! (w, padding) := out_cname (out_skip w 2) (own_ssrc self) (CNAME_ s) in
    let! (w, SDESLength) := out_cnames w (u16 (u16 (10 + lengthCname) + padding)) (csrcCNAMEs_ s) in
    let buffer_length := u16 (SDESLength / 4 - 1) in
    let! (rtcpbuffer, _) := out16 (w.1, SDESLengthPos) buffer_length in
    Cont (0, self, (rtcpbuffer, w.2)).

(** When the report blocks do not fit the result is the position, which is no error code. *)
Definition BuildRR {R : Type} (self : RTCPSender) (w : Out) : flow R (Z * RTCPSender * Out) :=
  let pos := w.2 in
  if IP_PACKET_SIZE <=? pos + 32 then Cont (-2, self, w)
  else
    let! w := out8 w [128; 201] in
    let! w := out32 (out_skip w 2) (own_ssrc self) in
    let! (n, self, written) := WriteAllReportBlocksToBuffer self w in
    match written with
    | None => Cont (w.2, self, w)
    | Some w => let! w := report_length w pos n in Cont (0, self, w)
    end.

Definition BuildExtendedJitterReport {R : Type} (self : RTCPSender) (w : Out) (jitterTransmissionTimeOffset : Z)
  : flow R (Z * RTCPSender * Out) :=
  if 0 <? Zlen (external_report_blocks_ self) then Cont (0, self, w)
  else if IP_PACKET_SIZE <=? w.2 + 8 then Cont (-2, self, w)
  else
    let! w := out8 w [128 + 1; 195; 0; 1] in
    let! w := out32 w jitterTransmissionTimeOffset in
    Cont (0, self, w).

(** Both SSRCs of a feedback message. *)
Definition BuildPLI {R : Type} (self : RTCPSender) (w : Out) : flow R (Z * RTCPSender * Out) :=
  if IP_PACKET_SIZE <=? w.2 + 12 then Cont (-2, self, w)
  else
    let! w := out8 w [128 + 1; 206; 0; 2] in
    let! w := out32 w (own_ssrc self) in
    let! w := out32 w (remote_ssrc self) in
    Cont (0, self, w).

Definition BuildFIR {R : Type} (self : RTCPSender) (w : Out) (repeat : bool) : flow R (Z * RTCPSender * Out) :=
  if IP_PACKET_SIZE <=? w.2 + 20 then Cont (-2, self, w)
  else
    let self := if repeat then self else set_sequenceNumberFIR self (u8 (sequenceNumberFIR_ self + 1)) in
    let! w := out8 w [128 + 4; 206; 0; 4] in
    let! w := out32 w (own_ssrc self) in
    let! w := out8 w [0; 0; 0; 0] in
    let! w := out32 w (remote_ssrc self) in
    let! w := out8 w [sequenceNumberFIR_ self; 0; 0; 0] in
    Cont (0, self, w).

Definition BuildSLI {R : Type} (self : RTCPSender) (w : Out) (pictureID : Z) : flow R (Z * RTCPSender * Out) :=
  if IP_PACKET_SIZE <=? w.2 + 16 then Cont (-2, self, w)
  else
    let! w := out8 w [128 + 2; 206; 0; 3] in
    let! w := out32 w (own_ssrc self) in
    let! w := out32 w (remote_ssrc self) in
    let! w := out32 w (Z.shiftl 8191 6 + Z.land 63 pictureID) in
    Cont (0, self, w).

Section shifts.
Context `{Machine}.

Definition shr64 (v n : Z) : Z := if n <? 64 then Z.shiftr v n else wide_shr v n.
Definition shr32 (v n : Z) : Z := if n <? 32 then Z.shiftr v n else wide_shr v n.

(** The loop that counts the bytes, of seven bits each. *)
Fixpoint rpsi_bytes {R : Type} (fuel : nat) (pictureID bitsRequired bytesRequired : Z) : flow R Z :=
  if shr64 pictureID bitsRequired <=? 0 then Cont bytesRequired
  else match fuel with O => Stuck | S fuel => rpsi_bytes fuel pictureID (bitsRequired + 7) (u8 (bytesRequired + 1)) end.

(** The bytes [i], [i - 1] to 1 of a picture ID. *)
Fixpoint out_picture {R : Type} (i : nat) (w : Out) (pictureID : Z) : flow R Out :=
  match i with
  | O => Cont w
  | S i' => let! w := out8 w [Z.lor 128 (u8 (Z.shiftr pictureID (Z.of_nat i * 7)))] in out_picture i' w pictureID
  end.

Definition BuildRPSI {R : Type} (self : RTCPSender) (w : Out) (pictureID payloadType : Z) : flow R (Z * RTCPSender * Out) :=
  if IP_PACKET_SIZE <=? w.2 + 24 then Cont (-2, self, w)
  else
    let! w := out8 w [128 + 3; 206] in
    let! bytesRequired := rpsi_bytes 10 pictureID 7 1 in
    let size := if 6 <? bytesRequired then 5 else if 2 <? bytesRequired then 4 else 3 in
    let! w := out8 w [0; size] in
    let! w := out32 w (own_ssrc self) in
    let! w := out32 w (remote_ssrc self) in
    let paddingBytes := 4 - (2 + bytesRequired) mod 4 in
    let paddingBytes := if paddingBytes =? 4 then 0 else paddingBytes in
    let! w := out8 w [paddingBytes * 8; payloadType] in
    let! w := out_picture (Z.to_nat (bytesRequired - 1)) w pictureID in
    let! w := out8 w [u8 (Z.land pictureID 127)] in
    let! w := out8 w (replicate (Z.to_nat paddingBytes) 0) in
    Cont (0, self, w).

(** The first exponent for which the mantissa is enough, or 0. *)
Fixpoint find_exp (n : nat) (i bitrate mantissa : Z) : Z :=
  match n with
  | O => 0
  | S n => if bitrate <=? shl32 mantissa i then i else find_exp n (i + 1) bitrate mantissa
  end.

Definition BuildREMB {R : Type} (self : RTCPSender) (w : Out) : flow R (Z * RTCPSender * Out) :=
  let d := remb_ self in
  if IP_PACKET_SIZE <=? w.2 + 20 + 4 * lengthRembSSRC_ d then Cont (-2, self, w)
  else
    let! w := out8 w [128 + 15; 206; 0; lengthRembSSRC_ d + 4] in
    let! w := out32 w (own_ssrc self) in
    let! w := out32 w 0 in
    let! w := out8 w [82; 69; 77; 66; lengthRembSSRC_ d] in
    let brExp := find_exp 64 0 (rembBitrate_ d) 262143 in
    let brMantissa := shr32 (rembBitrate_ d) brExp in
    let! w := out8 w [Z.shiftl brExp 2 + Z.land (Z.shiftr brMantissa 16) 3; Z.shiftr brMantissa 8; brMantissa] in
    let! w := for_up (Z.to_nat (lengthRembSSRC_ d)) 0 (fun i w => let! x := rd (rembSSRC_ d) i in out32 w x) w in
    Cont (0, self, w).

(** The exponent, the mantissa and the overhead of a tuple. *)
Definition out_tmmbr {R : Type} (w : Out) (bitRate packetOH : Z) : flow R Out :=
  let mmbrExp := find_exp 64 0 bitRate 131071 in
  let mmbrMantissa := shr32 bitRate mmbrExp in
  out8 w [Z.shiftl mmbrExp 2 + Z.land (Z.shiftr mmbrMantissa 15) 3; Z.shiftr mmbrMantissa 7;
          Z.shiftl mmbrMantissa 1 + Z.land (Z.shiftr packetOH 8) 1; packetOH].

(** Whether the tuple is to be sent, given the bounding set that was received. *)
Definition wants_tmmbr (self : RTCPSender) (env : Surroundings) (tmmbrOwner : bool) (candidateSet : list SetElement) : bool :=
  let d := tmmbr_ self in
  if 0 <? Zlen candidateSet then
    if existsb (fun e => (el_tmmbr e =? tmmbr_Send_ d) && (el_packet_oh e =? packetOH_Send_ d)) candidateSet then false
    else if negb tmmbrOwner
         then enters_bounding_set env (candidateSet ++ [mkSetElement (tmmbr_Send_ d) (packetOH_Send_ d) (own_ssrc self)])
         else true
  else true.

Definition BuildTMMBR {R : Type} (self : RTCPSender) (fs : FeedbackState) (env : Surroundings) (w : Out)
  : flow R (Z * RTCPSender * Out) :=
  let d := tmmbr_ self in
  match fs_module fs with
  | None => Cont (-1, self, w)
  | Some (tmmbrOwner, candidateSet) =>
      if negb (wants_tmmbr self env tmmbrOwner candidateSet) then Cont (0, self, w)
      else if tmmbr_Send_ d =? 0 then Cont (0, self, w)
      else if IP_PACKET_SIZE <=? w.2 + 20 then Cont (-2, self, w)
      else
        let! w := out8 w [128 + 3; 205; 0; 4] in
        let! w := out32 w (own_ssrc self) in
        let! w := out8 w [0; 0; 0; 0] in
        let! w := out32 w (remote_ssrc self) in
        let! w := out_tmmbr w (u32 (tmmbr_Send_ d * 1000)) (packetOH_Send_ d) in
        Cont (0, self, w)
  end.

Definition out_tmmbn {R : Type} (w : Out) (e : SetElement) : flow R Out :=
  let! w := out32 w (el_ssrc e) in
  out_tmmbr w (u32 (el_tmmbr e * 1000)) (el_packet_oh e).

Definition BuildTMMBN {R : Type} (self : RTCPSender) (w : Out) : flow R (Z * RTCPSender * Out) :=
  let boundingSet := boundingSetToSend_ (tmmbr_ self) in
  if IP_PACKET_SIZE <=? w.2 + 12 + Zlen boundingSet * 8 then Cont (-2, self, w)
  else
    let! w := out8 w [128 + 4; 205] in
    let posLength := w.2 in
    let! w := out32 (out_skip w 2) (own_ssrc self) in
    let! w := out8 w [0; 0; 0; 0] in
    let positive := List.filter (fun e => 0 <? el_tmmbr e) boundingSet in
    let! w := out_all out_tmmbn w positive in
    let! (rtcpbuffer, _) := out16 (w.1, posLength) (u16 (2 + 2 * Zlen positive)) in
    Cont (0, self, (rtcpbuffer, w.2)).
End shifts.

Definition BuildAPP {R : Type} (self : RTCPSender) (w : Out) : flow R (Z * RTCPSender * Out) :=
  let d := app_ self in
  match appData_ d with
  | None => Cont (-1, self, w)
  | Some data =>
      if IP_PACKET_SIZE <=? w.2 + 12 + appLength_ d then Cont (-2, self, w)
      else
        let length := u16 (Z.shiftr (appLength_ d) 2 + 2) in
        let! w := out8 w [128 + appSubType_ d; 204; Z.shiftr length 8; length] in
        let! w := out32 w (own_ssrc self) in
        let! w := out32 w (appName_ d) in
        let! bytes := blk_get data 0 (appLength_ d) in
        let! w := out_copy w bytes in
        Cont (0, self, w)
  end.

(** The numbers that follow [nack] within 16 are bits of the mask. *)
Fixpoint nack_mask (nackList : list Z) (nack bitmask : Z) : Z * list Z :=
  match nackList with
  | [] => (bitmask, [])
  | n :: rest =>
      let shift := u16 (n - nack) - 1 in
      if (0 <=? shift) && (shift <=? 15) then nack_mask rest nack (Z.lor bitmask (u16 (Z.shiftl 1 shift)))
      else (bitmask, nackList)
  end.

(** The fields of a list, [maxNackFields] at most, and what is left of the list. *)
Fixpoint nack_fields {R : Type} (maxNackFields : nat) (w : Out) (nackList : list Z) (numOfNackFields : Z) : flow R (Z * Out) :=
  match maxNackFields, nackList with
  | S maxNackFields, nack :: rest =>
      let '(bitmask, rest) := nack_mask rest nack 0 in
      let! w := out16 w nack in
      let! w := out16 w bitmask in
      nack_fields maxNackFields w rest (numOfNackFields + 1)
  | _, _ => Cont (numOfNackFields, w)
  end.

(** [nackList] is the list of the first [nackSize] numbers; the string for the trace is
    left out. *)
Definition BuildNACK {R : Type} (self : RTCPSender) (w : Out) (nackList : list Z) : flow R (Z * RTCPSender * Out) :=
  if IP_PACKET_SIZE <=? w.2 + 16 then Cont (-2, self, w)
  else
    let! w := out8 w [128 + 1; 205; 0] in
    let nackSizePos := w.2 in
    let! w := out8 w [3] in
    let! w := out32 w (own_ssrc self) in
    let! w := out32 w (remote_ssrc self) in
    let maxNackFields := Z.min kRtcpMaxNackFields (Z.quot (IP_PACKET_SIZE - w.2) 4) in
    let! (numOfNackFields, w) := nack_fields (Z.to_nat maxNackFields) w nackList 0 in
    let! rtcpbuffer := wr w.1 nackSizePos (u8 (2 + numOfNackFields)) in
    Cont (0, self, (rtcpbuffer, w.2)).

Definition BuildBYE {R : Type} (self : RTCPSender) (w : Out) : flow R (Z * RTCPSender * Out) :=
  let s := sources_ self in
  if IP_PACKET_SIZE <=? w.2 + 8 then Cont (-2, self, w)
  else if includeCSRCs_ s then
    let! w := out8 w [128 + 1 + CSRCs_ s; 203; 0; 1 + CSRCs_ s] in
    let! w := out32 w (own_ssrc self) in
    let! w := for_up (Z.to_nat (CSRCs_ s)) 0 (fun i w => let! x := rd (CSRC_ s) i in out32 w x) w in
    Cont (0, self, w)
  else
    let! w := out8 w [128 + 1; 203; 0; 1] in
    let! w := out32 w (own_ssrc self) in
    Cont (0, self, w).

Definition BuildReceiverReferenceTime {R : Type} (self : RTCPSender) (w : Out) (ntp_sec ntp_frac : Z)
  : flow R (Z * RTCPSender * Out) :=
  if IP_PACKET_SIZE <=? w.2 + 20 then Cont (-2, self, w)
  else
    let d := xr_ self in
    let sent := if RTCP_NUMBER_OF_SR <=? Zlen (last_xr_rr_ d) then tail (last_xr_rr_ d) else last_xr_rr_ d in
    let sent := map_insert (MidNtp ntp_sec ntp_frac) (NtpToMs ntp_sec ntp_frac) sent in
    let self := set_xr_data self (xrSendReceiverReferenceTimeEnabled_ d) (xrSendVoIPMetric_ d) (xrVoIPMetric_ d) sent in
    let! w := out8 w [128; 207; 0; 4] in
    let! w := out32 w (own_ssrc self) in
    let! w := out8 w [4; 0; 0; 2] in
    let! w := out32 w ntp_sec in
    let! w := out32 w ntp_frac in
    Cont (0, self, w).

Definition BuildDlrr {R : Type} (self : RTCPSender) (w : Out) (info : RtcpReceiveTimeInfo) : flow R (Z * RTCPSender * Out) :=
  if IP_PACKET_SIZE <=? w.2 + 24 then Cont (-2, self, w)
  else
    let! w := out8 w [128; 207; 0; 5] in
    let! w := out32 w (own_ssrc self) in
    let! w := out8 w [5; 0; 0; 3] in
    let! w := out32 w (ti_sourceSSRC info) in
    let! w := out32 w (ti_lastRR info) in
    let! w := out32 w (ti_delaySinceLastRR info) in
    Cont (0, self, w).

Definition BuildVoIPMetric {R : Type} (self : RTCPSender) (w : Out) : flow R (Z * RTCPSender * Out) :=
  let m := xrVoIPMetric_ (xr_ self) in
  let two (v : Z) : list Z := [Z.shiftr v 8; v] in
  if IP_PACKET_SIZE <=? w.2 + 44 then Cont (-2, self, w)
  else
    let! w := out8 w [128; 207] in
    let XRLengthPos := w.2 in
    let! w := out32 (out_skip w 2) (own_ssrc self) in
    let! w := out8 w [7; 0; 0; 8] in
    let! w := out32 w (remote_ssrc self) in
    let! w := out8 w [lossRate m; discardRate m; burstDensity m; gapDensity m] in
    let! w := out8 w (two (burstDuration m) ++ two (gapDuration m) ++ two (roundTripDelay m) ++ two (endSystemDelay m)) in
    let! w := out8 w [signalLevel m; noiseLevel m; RERL m; Gmin m] in
    let! w := out8 w [Rfactor m; extRfactor m; MOSLQ m; MOSCQ m] in
    let! w := out8 w ([RXconfig m; 0] ++ two (JBnominal m)) in
    let! w := out8 w (two (JBmax m) ++ two (JBabsMax m)) in
    let! rtcpbuffer := wr w.1 XRLengthPos 0 in
    let! rtcpbuffer := wr rtcpbuffer (XRLengthPos + 1) 10 in
    Cont (0, self, (rtcpbuffer, w.2)).

(** ** A compound packet *)

Definition count_pli (self : RTCPSender) : RTCPSender :=
  let c := packet_type_counter_ self in set_packet_type_counter self (mkCounter (nack_packets c) (fir_packets c) (u32 (pli_packets c + 1))).
Definition count_fir (self : RTCPSender) : RTCPSender :=
  let c := packet_type_counter_ self in set_packet_type_counter self (mkCounter (nack_packets c) (u32 (fir_packets c + 1)) (pli_packets c)).
Definition count_nack (self : RTCPSender) : RTCPSender :=
  let c := packet_type_counter_ self in set_packet_type_counter self (mkCounter (u32 (nack_packets c + 1)) (fir_packets c) (pli_packets c)).

Definition ShouldSendReportBlocks (self : RTCPSender) (rtcp_packet_type : Z) : bool :=
  bool_decide (method_ self = kRtcpCompound) || has rtcp_packet_type kRtcpReport || has rtcp_packet_type kRtcpSr
  || has rtcp_packet_type kRtcpRr.

(** The report of a statistician, and the time at which it was made. *)
Definition PrepareReport (fs : FeedbackState) (stats : RtcpStatistics) (ntp : Z * Z) : RTCPReportBlock :=
  let '(ntp_secs, ntp_frac) := ntp in
  let middle secs frac := u32 (u32 (Z.shiftl (Z.land secs 65535) 16) + Z.shiftr (Z.land frac 4294901760) 16) in
  let delaySinceLastReceivedSR :=
    if negb (last_rr_ntp_secs fs =? 0) || negb (last_rr_ntp_frac fs =? 0)
    then u32 (middle ntp_secs ntp_frac - middle (last_rr_ntp_secs fs) (last_rr_ntp_frac fs)) else 0 in
  mkRTCPReportBlock 0 0 (fraction_lost stats) (cumulative_lost stats) (extended_max_sequence_number stats) (stat_jitter stats)
    (remote_sr fs) delaySinceLastReceivedSR.

Fixpoint prepare_reports (self : RTCPSender) (fs : FeedbackState) (ntp : Z * Z)
  (stats : list (Z * option RtcpStatistics * (Z * Z))) : RTCPSender * (Z * Z) :=
  match stats with
  | [] => (self, ntp)
  | (SSRC, None, _) :: stats => prepare_reports self fs ntp stats
  | (SSRC, Some s, ntp') :: stats =>
      let '(_, blocks) := AddReportBlock SSRC (internal_report_blocks_ self) (PrepareReport fs s ntp') in
      prepare_reports (set_internal_report_blocks self blocks) fs ntp' stats
  end.

Definition set_app_send (self : RTCPSender) (send : bool) : RTCPSender :=
  let d := app_ self in set_app self (mkAppData send (appSubType_ d) (appName_ d) (appData_ d) (appLength_ d)).

Definition set_send_tmmbn (self : RTCPSender) (send : bool) : RTCPSender :=
  let d := tmmbr_ self in set_tmmbr self (mkTmmbrData (TMMBR_ d) send (tmmbr_Send_ d) (packetOH_Send_ d) (boundingSetToSend_ d)).

Definition set_send_metric (self : RTCPSender) (send : bool) : RTCPSender :=
  let d := xr_ self in set_xr_data self (xrSendReceiverReferenceTimeEnabled_ d) send (xrVoIPMetric_ d) (last_xr_rr_ d).

(** The flags of what is attached, and the sender for which it is no longer due. *)
Definition collect_flags (self : RTCPSender) (fs : FeedbackState) (flags : Z) : Z * RTCPSender :=
  let flags := if TMMBR_ (tmmbr_ self) then Z.lor flags kRtcpTmmbr else flags in
  let '(flags, self) := if appSend_ (app_ self) then (Z.lor flags kRtcpApp, set_app_send self false) else (flags, self) in
  let flags := if REMB_ (remb_ self) && sendREMB_ (remb_ self) then Z.lor flags kRtcpRemb else flags in
  let '(flags, self) :=
    if xrSendVoIPMetric_ (xr_ self) then (Z.lor flags kRtcpXrVoipMetric, set_send_metric self false) else (flags, self) in
  let '(flags, self) := if sendTMMBN_ (tmmbr_ self) then (Z.lor flags kRtcpTmmbn, set_send_tmmbn self false) else (flags, self) in
  let flags :=
    if has flags kRtcpReport then
      let flags := if xrSendReceiverReferenceTimeEnabled_ (xr_ self) && negb (sending_ self)
                   then Z.lor flags kRtcpXrReceiverReferenceTime else flags in
      if has_last_xr_rr fs then Z.lor flags kRtcpXrDlrrReportBlock else flags
    else flags in
  let report := if sending_ self then kRtcpSr else kRtcpRr in
  let flags :=
    match method_ self with
    | kRtcpCompound => Z.lor flags report
    | kRtcpNonCompound => if has flags kRtcpReport then Z.lor flags report else flags
    | kRtcpOff => flags
    end in
  (flags, self).

(** When the next report is due. *)
Definition schedule (self : RTCPSender) (fs : FeedbackState) (env : Surroundings) : RTCPSender :=
  let random := rand env mod 1000 in
  let timeToNext :=
    if audio_ self then RTCP_INTERVAL_AUDIO_MS / 2 + RTCP_INTERVAL_AUDIO_MS * random / 1000
    else
      let minIntervalMs :=
        if sending_ self then
          let send_bitrate_kbit := send_bitrate fs / 1000 in
          if negb (send_bitrate_kbit =? 0) then 360000 / send_bitrate_kbit else RTCP_INTERVAL_AUDIO_MS
        else RTCP_INTERVAL_AUDIO_MS in
      let minIntervalMs := if RTCP_INTERVAL_VIDEO_MS <? minIntervalMs then RTCP_INTERVAL_VIDEO_MS else minIntervalMs in
      minIntervalMs / 2 + minIntervalMs * random / 1000 in
  set_nextTimeToSendRTCP self (now_ms env + timeToNext).

(** The result of PrepareRTCP: the length or -1, the sender and the buffer. *)
Definition Prepared : Type := Z * RTCPSender * list Z.

(** A builder with its error codes: -1 ends with -1, and -2 with the packet so far. *)
Definition built (flag : bool) (self : RTCPSender) (w : Out)
  (build : RTCPSender -> Out -> flow Prepared (Z * RTCPSender * Out)) (count : RTCPSender -> RTCPSender)
  : flow Prepared (RTCPSender * Out) :=
  if flag then
    let! (buildVal, self, w) := build self w in
    if buildVal =? -1 then Ret (-1, self, w.1)
    else if buildVal =? -2 then Ret (w.2, self, w.1)
    else Cont (count self, w)
  else Cont (self, w).

(** The same where only -1 is looked at. *)
Definition built_or_not (flag : bool) (self : RTCPSender) (w : Out)
  (build : RTCPSender -> Out -> flow Prepared (Z * RTCPSender * Out)) : flow Prepared (RTCPSender * Out) :=
  if flag then
    let! (buildVal, self, w) := build self w in
    if buildVal =? -1 then Ret (-1, self, w.1) else Cont (self, w)
  else Cont (self, w).

Definition same_sender (self : RTCPSender) : RTCPSender := self.

Section packet.
Context `{Machine}.

(** A sender report with its description, or a receiver report. *)
Definition build_reports (self : RTCPSender) (fs : FeedbackState) (env : Surroundings) (w : Out) (flags : Z) (ntp : Z * Z)
  : flow Prepared (RTCPSender * Out) :=
  if has flags kRtcpSr then
    let! (self, w) := built true self w (fun self w => BuildSR self fs env w ntp.1 ntp.2) same_sender in
    built true self w BuildSDEC same_sender
  else if has flags kRtcpRr then
    let! (self, w) := built true self w BuildRR same_sender in
    built_or_not (negb (Zlen (CNAME_ (sources_ self)) =? 0)) self w BuildSDEC
  else Cont (self, w).

Definition PrepareRTCP (self : RTCPSender) (fs : FeedbackState) (env : Surroundings) (packetTypeFlags : Z) (nackList : list Z)
  (repeat : bool) (pictureID : Z) (rtcp_buffer : list Z) : option Prepared :=
  run_flow (
    let '(flags, self) := collect_flags self fs packetTypeFlags in
    let self := if has flags kRtcpRr || has flags kRtcpSr then schedule self fs env else self in
    let '(self, ntp) := if ShouldSendReportBlocks self flags then prepare_reports self fs (ntp_now env) (statisticians env)
                        else (self, ntp_now env) in
    let flags := if ShouldSendReportBlocks self flags && negb (Zlen (statisticians env) =? 0) && IJ_ self
                 then Z.lor flags kRtcpTransmissionTimeOffset else flags in
    let w := (rtcp_buffer, 0) in
    let! (self, w) := build_reports self fs env w flags ntp in
    let! (self, w) := built (has flags kRtcpTransmissionTimeOffset) self w (fun self w => BuildExtendedJitterReport self w 0) same_sender in
    let! (self, w) := built (has flags kRtcpPli) self w BuildPLI count_pli in
    let! (self, w) := built (has flags kRtcpFir) self w (fun self w => BuildFIR self w repeat) count_fir in
    let! (self, w) := built (has flags kRtcpSli) self w (fun self w => BuildSLI self w (u8 pictureID)) same_sender in
    let! (self, w) := built (has flags kRtcpRpsi) self w (fun self w =>
      if s8 (send_payload_type fs) =? -1 then Cont (-1, self, w)
      else BuildRPSI self w pictureID (u8 (s8 (send_payload_type fs)))) same_sender in
    let! (self, w) := built (has flags kRtcpRemb) self w BuildREMB same_sender in
    let! (self, w) := built (has flags kRtcpBye) self w BuildBYE same_sender in
    let! (self, w) := built (has flags kRtcpApp) self w BuildAPP same_sender in
    let! (self, w) := built (has flags kRtcpTmmbr) self w (fun self w => BuildTMMBR self fs env w) same_sender in
    let! (self, w) := built (has flags kRtcpTmmbn) self w BuildTMMBN same_sender in
    let! (self, w) := built (has flags kRtcpNack) self w (fun self w => BuildNACK self w nackList) count_nack in
    let! (self, w) := built (has flags kRtcpXrVoipMetric) self w BuildVoIPMetric same_sender in
    let! (self, w) := built (has flags kRtcpXrReceiverReferenceTime) self w
      (fun self w => BuildReceiverReferenceTime self w ntp.1 ntp.2) same_sender in
    let! (self, w) := built (has flags kRtcpXrDlrrReportBlock) self w (fun self w => BuildDlrr self w (last_xr_rr fs)) same_sender in
    Cont (w.2, self, w.1)).

(** The transport, [None] for none, answers for a packet the number of bytes sent; the last
    result is the packet that it got. *)
Definition SendToNetwork (transport : option (list Z -> Z)) (packet : list Z) : Z * option (list Z) :=
  match transport with
  | None => (-1, None)
  | Some send => (if 0 <? send packet then 0 else -1, Some packet)
  end.

(** [rtcp_buffer] is what the memory of the buffer holds. *)
Definition SendRTCP (self : RTCPSender) (fs : FeedbackState) (env : Surroundings) (transport : option (list Z -> Z))
  (packetTypeFlags : Z) (nackList : list Z) (repeat : bool) (pictureID : Z) (rtcp_buffer : list Z)
  : option (Z * RTCPSender * option (list Z)) :=
  if decide (method_ self = kRtcpOff) then Some (-1, self, None)
  else
    match PrepareRTCP self fs env packetTypeFlags nackList repeat pictureID rtcp_buffer with
    | None => None
    | Some (rtcp_length, self, rtcp_buffer) =>
        if rtcp_length <? 0 then Some (-1, self, None)
        else if rtcp_length =? 0 then Some (-1, self, None)
        else
          let '(ret, sent) := SendToNetwork transport (ztake (u16 rtcp_length) rtcp_buffer) in
          Some (ret, self, sent)
    end.

Definition SetSendingStatus (self : RTCPSender) (fs : FeedbackState) (env : Surroundings) (transport : option (list Z -> Z))
  (sending : bool) (rtcp_buffer : list Z) : option (Z * RTCPSender * option (list Z)) :=
  let sendRTCPBye := negb (bool_decide (method_ self = kRtcpOff)) && negb sending && sending_ self in
  let self := set_sending self sending in
  if sendRTCPBye then SendRTCP self fs env transport kRtcpBye [] false 0 rtcp_buffer else Some (0, self, None).
End packet.
