(* ===== verification/RtcpSteps.v ===== *)
(** * Reports of the RTCP parser, one after another

    What calls of Iterate report from a place in a packet on ([continues]), and the parser
    inside a block ([inside]) and after one ([standing]). *)
From S2P Require Import Prelude RtpWire RtcpParser.
Local Open Scope Z_scope.

(** ** Reads *)

(** The bytes from the pointer on. *)
Definition rest (p : RTCPParserV2) : list Z := zdrop (ptrRTCPData_ p) (rtcpData p).

Ltac psimp :=
  cbn [rtcpData RTCPReducedSizeEnable_ validPacket_ ptrRTCPData_ ptrRTCPBlockEnd_ state_ numberOfBlocks_ packetType_ packet_
    set_ptr set_block_end set_state set_blocks set_type set_packet set_valid skip EndCurrentBlock fst snd flow_bind] in *.

Ltac gsimp :=
  cbn [rtcpData RTCPReducedSizeEnable_ validPacket_ ptrRTCPData_ ptrRTCPBlockEnd_ state_ numberOfBlocks_ packetType_ packet_
    set_ptr set_block_end set_state set_blocks set_type set_packet set_valid skip EndCurrentBlock fst snd flow_bind].

Lemma zdrop_cons {A} n (l : list A) x r : 0 <= n -> zdrop n l = x :: r -> zdrop (n + 1) l = r.
Proof. intros Hn E. rewrite <- (zdrop_zdrop 1 n) by lia. by rewrite E. Qed.

Lemma rd_zdrop {R A} n (l : list A) x r : 0 <= n -> zdrop n l = x :: r -> rd (R := R) l n = Cont x.
Proof.
  intros Hn E. apply rd_Cont; [done|]. unfold zdrop in E. rewrite <- (Nat.add_0_r (Z.to_nat n)), <- lookup_drop. by rewrite E.
Qed.

Lemma zdrop_past {A} n (l a b : list A) m : 0 <= n -> m = Zlen a -> zdrop n l = a ++ b -> zdrop (n + m) l = b.
Proof.
  intros Hn -> E. rewrite <- (zdrop_zdrop (Zlen a) n) by (done || apply Zlen_nonneg). rewrite E, zdrop_app_ge by lia.
  by rewrite Z.sub_diag, zdrop_0 by lia.
Qed.

Section reads.
Context {R : Type}.

Lemma get8_rest p b r :
  0 <= ptrRTCPData_ p -> rest p = b :: r -> get8 (R := R) p = Cont (b, skip p 1) /\ rest (skip p 1) = r.
Proof.
  intros H0 E. unfold get8. rewrite (rd_zdrop _ _ b r) by done. split; [done|]. by apply (zdrop_cons _ _ b).
Qed.

Lemma skip_plus p a b : skip (skip p a) b = skip p (a + b).
Proof. unfold skip, set_ptr. psimp. f_equal. lia. Qed.

Lemma rest_skip p a b n : 0 <= ptrRTCPData_ p -> n = Zlen a -> rest p = a ++ b -> rest (skip p n) = b.
Proof. intros H0 Hn E. by apply (zdrop_past _ _ a). Qed.

Lemma skip_ptr p n : 0 <= ptrRTCPData_ p -> 0 <= n -> 0 <= ptrRTCPData_ (skip p n).
Proof. intros. psimp. lia. Qed.

Ltac get8s E :=
  repeat match type of E with
  | rest ?q = _ => destruct (get8_rest q _ _ ltac:(repeat apply skip_ptr; lia) E) as [-> E']; clear E; rename E' into E; cbn [flow_bind]
  end.

Lemma get16_rest p v r :
  0 <= ptrRTCPData_ p -> is_u16 v -> rest p = be16 v ++ r -> get16 (R := R) p = Cont (v, skip p 2) /\ rest (skip p 2) = r.
Proof.
  intros H0 Hv E. unfold get16. get8s E.
  rewrite !skip_plus in *. by rewrite bytes16, !u16_id by (done || apply u16_range).
Qed.

Lemma get24_rest p v r :
  0 <= ptrRTCPData_ p -> 0 <= v < 2 ^ 24 -> rest p = be24 v ++ r -> get24 (R := R) p = Cont (v, skip p 3) /\ rest (skip p 3) = r.
Proof.
  intros H0 Hv E. unfold get24. get8s E.
  rewrite !skip_plus in *. rewrite bytes24. split; [|done]. do 2 f_equal. rewrite u32_id; cint.
Qed.

Lemma get32_rest p v r :
  0 <= ptrRTCPData_ p -> is_u32 v -> rest p = be32 v ++ r -> get32 (R := R) p = Cont (v, skip p 4) /\ rest (skip p 4) = r.
Proof.
  intros H0 Hv E. unfold get32. get8s E.
  rewrite !skip_plus in *. by rewrite bytes32, !u32_id by (done || apply u32_range).
Qed.
End reads.

(** ** Reports one after another *)

(** A report, as a function of what the union held before. *)
Definition Report : Type := RTCPPacketTypes * (RTCPPacket -> RTCPPacket).

Fixpoint run (u : RTCPPacket) (es : list Report) : list (RTCPPacketTypes * RTCPPacket) :=
  match es with [] => [] | (t, f) :: es => (t, f u) :: run (f u) es end.

Fixpoint final (u : RTCPPacket) (es : list Report) : RTCPPacket :=
  match es with [] => u | (_, f) :: es => final (f u) es end.

Lemma run_app u es es' : run u (es ++ es') = run u es ++ run (final u es) es'.
Proof. revert u. induction es as [|[t f] es IH]; intros u; [done|]. cbn. by rewrite IH. Qed.

Lemma final_app u es es' : final u (es ++ es') = final (final u es) es'.
Proof. revert u. induction es as [|[t f] es IH]; intros u; [done|]. cbn. by rewrite IH. Qed.

(** A common header and what follows it. *)
Definition header (ic pt : Z) (body : list Z) : list Z := [128 + ic; pt] ++ be16 (Zlen body / 4) ++ body.

Lemma Zlen_header ic pt body : Zlen (header ic pt body) = 4 + Zlen body.
Proof. unfold header. rewrite !Zlen_app, Zlen_be16. change (Zlen [128 + ic; pt]) with 2. lia. Qed.

Section parser.
Context `{Machine} {R : Type}.

(** What a call of Iterate at the top level does with the block of a header. *)
Definition parse_block (h : RTCPCommonHeader) (p : RTCPParserV2) : flow R (bool * RTCPParserV2) :=
  let PT := rh_PT h in
  if PT =? PT_SR then ParseSR (set_blocks p (rh_IC h))
  else if PT =? PT_RR then ParseRR (set_blocks p (rh_IC h))
  else if PT =? PT_SDES then ParseSDES (set_blocks p (rh_IC h))
  else if PT =? PT_BYE then ParseBYE (set_blocks p (rh_IC h))
  else if PT =? PT_IJ then ParseIJ (set_blocks p (rh_IC h))
  else if (PT =? PT_RTPFB) || (PT =? PT_PSFB) then ParseFBCommon p h
  else if PT =? PT_APP then ParseAPP p h
  else if PT =? PT_XR then ParseXr p
  else Cont (false, p).

(** The reports of calls of Iterate. *)
Inductive steps : RTCPParserV2 -> list (RTCPPacketTypes * RTCPPacket) -> RTCPParserV2 -> Prop :=
| steps_nil p : steps p [] p
| steps_cons p p1 l p' :
    Iterate (R := R) p = Cont p1 -> packetType_ p1 <> kRtcpNotValidCode -> steps p1 l p' ->
    steps p ((packetType_ p1, packet_ p1) :: l) p'.

(** The next call goes on at the top level, after at most [d] blocks were left. *)
Inductive ready : nat -> RTCPParserV2 -> Z -> Prop :=
| ready_top p : state_ p = State_TopLevel -> ready 0 p (ptrRTCPData_ p)
| ready_leave d p q pos parse :
    parse_of (R := R) (state_ p) = Some parse -> parse (set_type p kRtcpNotValidCode) = Cont (false, q) ->
    rtcpData q = rtcpData p -> validPacket_ q = validPacket_ p -> packet_ q = packet_ p ->
    ready d q pos -> ready (S d) p pos.

Definition standing (p : RTCPParserV2) (pos : Z) : Prop :=
  IsValid p = true /\ 0 <= pos /\ exists d, (d <= 2)%nat /\ ready d p pos.

Lemma standing_top p pos : IsValid p = true -> state_ p = State_TopLevel -> ptrRTCPData_ p = pos -> 0 <= pos -> standing p pos.
Proof. intros Hv Hs <- H0. split; [done|]. split; [done|]. exists 0%nat. split; [lia|by apply ready_top]. Qed.

Lemma ready_iterate d p pos fuel :
  ready d p pos -> (d < fuel)%nat -> IsValid p = true ->
  exists q, iterate (R := R) fuel p = IterateTopLevel q /\ state_ q = State_TopLevel /\ ptrRTCPData_ q = pos
    /\ rtcpData q = rtcpData p /\ validPacket_ q = true /\ packet_ q = packet_ p /\ packetType_ q = kRtcpNotValidCode.
Proof.
  intros Hr. revert fuel. induction Hr as [p E|d p q pos parse Ep E D V U Hr IH]; intros [|fuel] Hf Hv; try lia;
    cbn [iterate]; unfold IsValid in *; psimp; rewrite Hv.
  - rewrite E. exists (set_type p kRtcpNotValidCode). by psimp.
  - rewrite Ep. unfold IterateItem. rewrite E. cbn [flow_bind negb].
    destruct (IH fuel ltac:(lia)) as (q' & -> & Q1 & Q2 & Q3 & Q4 & Q5 & Q6); [by rewrite V|].
    exists q'. by rewrite Q3, Q5.
Qed.

(** [es] are the next reports, and the parser then stands at [e]. *)
Definition continues (p : RTCPParserV2) (e : Z) (es : list Report) : Prop :=
  exists p', steps p (run (packet_ p) es) p' /\ standing p' e /\ rtcpData p' = rtcpData p /\ packet_ p' = final (packet_ p) es.

Lemma continues_nil p e : standing p e -> continues p e [].
Proof. intros Hs. exists p. split; [constructor|done]. Qed.

Lemma continues_item p e t f es parse :
  IsValid p = true -> parse_of (R := R) (state_ p) = Some parse -> t <> kRtcpNotValidCode ->
  (exists p1, parse (set_type p kRtcpNotValidCode) = Cont (true, p1) /\ packetType_ p1 = t /\ packet_ p1 = f (packet_ p)
     /\ rtcpData p1 = rtcpData p /\ continues p1 e es) ->
  continues p e ((t, f) :: es).
Proof.
  intros Hv Ep Hne (p1 & E & Et & Eu & Ed & p' & C1 & C2 & C3 & C4). exists p'. cbn [run final]. rewrite <- Eu, <- Et in *.
  split; [|by rewrite <- Ed]. eapply steps_cons; [|done|done]. unfold Iterate. rewrite Nat.add_comm. cbn [iterate Nat.add]. unfold IsValid in *. psimp.
  rewrite Hv, Ep. unfold IterateItem. by rewrite E.
Qed.

(** The bytes [bs] are left in the block, and [r] after it. *)
Definition inside (p : RTCPParserV2) (bs r : list Z) : Prop :=
  0 <= ptrRTCPData_ p /\ IsValid p = true /\ rest p = bs ++ r /\ block_left p = Zlen bs.

(** Where the counter of the blocks has to be zero for the block to be left. *)
Definition counted (p : RTCPParserV2) : Prop :=
  match state_ p with State_SDESChunk | State_XR_DLLRItem => numberOfBlocks_ p = 0 | _ => True end.

Lemma inside_done p r : inside p [] r -> counted p -> standing p (ptrRTCPBlockEnd_ p).
Proof.
  intros (H0 & Hv & _ & Hl) Hc. split; [done|]. assert (Hb : ptrRTCPBlockEnd_ p = ptrRTCPData_ p) by (unfold block_left in Hl; rewrite Zlen_nil in Hl; lia).
  split; [lia|]. rewrite Zlen_nil in Hl.
  destruct (state_ p) eqn:Es; try
    (exists 1%nat; split; [lia|]; eapply ready_leave; [by rewrite Es|..];
      [unfold ParseReportBlockItem, ParseBYEItem, ParseIJItem, ParseNACKItem, ParseTMMBRItem, ParseTMMBNItem, ParseSLIItem, ParseRPSIItem, ParseFIRItem,
        ParsePsfbAppItem, ParsePsfbREMBItem, ParseXrItem, ParseAPPItem, block_left in *; psimp; rewrite Hl; reflexivity
      |done|done|done|by apply ready_top]).
  - exists 0%nat. split; [lia|]. rewrite Hb. by apply ready_top.
  - exists 1%nat. split; [lia|]. unfold counted in Hc. rewrite Es in Hc. eapply ready_leave; [by rewrite Es|..];
      [unfold ParseSDESChunk; psimp; rewrite Hc; reflexivity|done|done|done|by apply ready_top].
  - exists 2%nat. split; [lia|]. unfold counted in Hc. rewrite Es in Hc. eapply ready_leave; [by rewrite Es|..];
      [unfold ParseXrDlrrItem; psimp; rewrite Hc; reflexivity|done|done|done|].
    eapply ready_leave; [done|..]; [unfold ParseXrItem, block_left in *; psimp; rewrite Hl; reflexivity|done|done|done|by apply ready_top].
Qed.

(** ** The common header of a block *)

Lemma header_found d pos ic pt body r :
  0 <= pos -> zdrop pos d = header ic pt body ++ r -> 0 <= ic < 32 -> Zlen body mod 4 = 0 -> Zlen body < 65532 ->
  RTCPParseCommonHeader (R := R) d pos = Cont (Some (mkRTCPCommonHeader 2 false ic pt (4 + Zlen body)))
  /\ pos + 4 + Zlen body <= Zlen d.
Proof.
  intros H0 E Hic Hm Hl. assert (Hb := Zlen_nonneg body). assert (Hr := Zlen_nonneg r).
  assert (Hd : Zlen d - pos = 4 + Zlen body + Zlen r).
  { assert (HE := f_equal Zlen E). rewrite Zlen_app, Zlen_header in HE.
    destruct (Z.le_gt_cases pos (Zlen d)); [rewrite Zlen_zdrop in HE by lia; lia|].
    rewrite zdrop_all in HE by lia. rewrite Zlen_nil in HE. lia. }
  unfold RTCPParseCommonHeader. rewrite (proj2 (Z.ltb_ge _ _)) by lia. set (w := Zlen body / 4) in *.
  assert (E1 : zdrop (pos + 1) d = pt :: be16 w ++ body ++ r) by (apply (zdrop_cons pos d (128 + ic)); [done|]; rewrite E; unfold header; cbn [app]; by rewrite <- app_assoc).
  assert (E2 : zdrop (pos + 2) d = u8 (Z.shiftr w 8) :: u8 w :: body ++ r)
    by (replace (pos + 2) with (pos + 1 + 1) by lia; apply (zdrop_cons _ d pt); [lia|done]).
  assert (E3 : zdrop (pos + 3) d = u8 w :: body ++ r)
    by (replace (pos + 3) with (pos + 2 + 1) by lia; apply (zdrop_cons _ d (u8 (Z.shiftr w 8))); [lia|done]).
  rewrite (rd_zdrop pos _ _ _ H0 E), (rd_zdrop (pos + 1) _ _ _ ltac:(lia) E1). cbn [flow_bind].
  rewrite (rd_zdrop (pos + 2) _ _ _ ltac:(lia) E2), (rd_zdrop (pos + 3) _ _ _ ltac:(lia) E3). cbn [flow_bind].
  rewrite bytes16. assert (Hw : 0 <= w < 16383) by (subst w; zdm). rewrite (u16_id w) by (unfold is_u16; lia).
  rewrite (u16_id (w + 1)) by (unfold is_u16; lia). rewrite u16_id by (unfold is_u16; lia).
  replace ((w + 1) * 4) with (4 + Zlen body) by (subst w; zdm). rewrite (proj2 (Z.eqb_neq _ _)) by lia.
  assert (Hi : forallb (fun k => (Z.shiftr (128 + k) 6 =? 2) && (Z.land (128 + k) 32 =? 0) && (Z.land (128 + k) 31 =? k)) (seqZ 0 32) = true) by reflexivity.
  assert (Hi' := seqZ_check _ _ ic Hi Hic). apply andb_true_iff in Hi' as [Hi' I3]. apply andb_true_iff in Hi' as [I1 I2].
  apply Z.eqb_eq in I1. apply Z.eqb_eq in I3. rewrite I1, I2, I3. split; [done|lia].
Qed.

(** The state at the start of a block. *)
Lemma continues_block p pos r ic pt body t f es :
  standing p pos -> zdrop pos (rtcpData p) = header ic pt body ++ r -> 0 <= ic < 32 -> Zlen body mod 4 = 0 -> Zlen body < 65532 ->
  t <> kRtcpNotValidCode ->
  (forall q, inside q (header ic pt body) r -> ptrRTCPBlockEnd_ q = pos + Zlen (header ic pt body) -> state_ q = State_TopLevel ->
     exists p1, parse_block (mkRTCPCommonHeader 2 false ic pt (4 + Zlen body)) q = Cont (true, p1)
       /\ packetType_ p1 = t /\ packet_ p1 = f (packet_ q) /\ rtcpData p1 = rtcpData q
       /\ continues p1 (pos + Zlen (header ic pt body)) es) ->
  continues p (pos + Zlen (header ic pt body)) ((t, f) :: es).
Proof.
  intros (Hv & H0 & d & Hd & Hr) E Hic Hm Hl Ht Hblock.
  destruct (header_found _ _ _ _ _ _ H0 E Hic Hm Hl) as [Hf Hlen].
  destruct (ready_iterate d p pos (length (rtcpData p) + 3) Hr ltac:(lia) Hv) as (q & Ei & Q1 & Q2 & Q3 & Q4 & Q5 & Q6).
  rewrite <- Q3, <- Q2 in *. assert (HL := Zlen_header ic pt body). assert (Hb := Zlen_nonneg body).
  destruct (Hblock (set_block_end q (ptrRTCPData_ q + (4 + Zlen body)))) as (p1 & Ep & P1 & P2 & P3 & p' & C1 & C2 & C3 & C4).
  - split; [done|]. split; [done|]. split; [done|]. unfold block_left. psimp. lia.
  - psimp. lia.
  - done.
  - psimp. exists p'. cbn [run final]. rewrite <- Q5, <- P2, <- P1. split; [|by rewrite C3, P3].
    eapply steps_cons; [|by rewrite P1|done]. unfold Iterate. rewrite <- Q3, Ei. unfold IterateTopLevel.
    assert (Hne : length (rtcpData q) <> 0%nat) by (unfold Zlen in *; lia). destruct (length (rtcpData q)) as [|n]; [done|].
    cbn [top_level]. rewrite Hf. cbn [flow_bind rh_LengthInOctets rh_PT rh_IC]. psimp. rewrite (proj2 (Z.ltb_ge _ _)) by lia.
    revert Ep. unfold parse_block. cbn [rh_PT rh_IC].
    repeat match goal with |- context [if ?c then _ else _] => destruct c; [by intros ->|] end. by intros ?.
Qed.

(** ** Steps inside a block *)

Lemma inside_skip p a bs r n : n = Zlen a -> inside p (a ++ bs) r -> inside (skip p n) bs r.
Proof.
  intros Hn (H0 & Hv & E & Hl). assert (Ha := Zlen_nonneg a). split; [psimp; lia|]. split; [done|]. split.
  - rewrite <- app_assoc in E. by apply (rest_skip _ a).
  - unfold block_left in *. psimp. rewrite Zlen_app in Hl. lia.
Qed.

Lemma inside_get8 p b bs r : inside p (b :: bs) r -> get8 (R := R) p = Cont (b, skip p 1) /\ inside (skip p 1) bs r.
Proof. intros Hi. split; [apply (get8_rest p b (bs ++ r)); apply Hi|by apply (inside_skip p [b])]. Qed.

Lemma inside_get16 p v bs r : inside p (be16 v ++ bs) r -> is_u16 v -> get16 (R := R) p = Cont (v, skip p 2) /\ inside (skip p 2) bs r.
Proof. intros Hi Hv. split; [apply (get16_rest p v (bs ++ r)); [apply Hi|done|apply Hi]|by apply (inside_skip p (be16 v))]. Qed.

Lemma inside_get24 p v bs r : inside p (be24 v ++ bs) r -> 0 <= v < 2 ^ 24 -> get24 (R := R) p = Cont (v, skip p 3) /\ inside (skip p 3) bs r.
Proof. intros Hi Hv. split; [apply (get24_rest p v (bs ++ r)); [apply Hi|done|apply Hi]|by apply (inside_skip p (be24 v))]. Qed.

Lemma inside_get32 p v bs r : inside p (be32 v ++ bs) r -> is_u32 v -> get32 (R := R) p = Cont (v, skip p 4) /\ inside (skip p 4) bs r.
Proof. intros Hi Hv. split; [apply (get32_rest p v (bs ++ r)); [apply Hi|done|apply Hi]|by apply (inside_skip p (be32 v))]. Qed.

Lemma inside_last32 p v r : inside p (be32 v) r -> is_u32 v -> get32 (R := R) p = Cont (v, skip p 4) /\ inside (skip p 4) [] r.
Proof. rewrite <- (app_nil_r (be32 v)). apply inside_get32. Qed.

Lemma inside_last16 p v r : inside p (be16 v) r -> is_u16 v -> get16 (R := R) p = Cont (v, skip p 2) /\ inside (skip p 2) [] r.
Proof. rewrite <- (app_nil_r (be16 v)). apply inside_get16. Qed.

Lemma inside_left p bs r : inside p bs r -> block_left p = Zlen bs.
Proof. by intros (_ & _ & _ & Hl). Qed.

Lemma inside_len p bs r : inside p bs r -> bs <> [] -> ptrRTCPData_ p + Zlen bs + Zlen r = Zlen (rtcpData p).
Proof.
  intros (H0 & _ & E & _) Hne. assert (HE := f_equal Zlen E). unfold rest in HE. rewrite Zlen_app in HE.
  assert (0 < Zlen bs) by (destruct bs; [done|rewrite Zlen_cons; pose proof (Zlen_nonneg bs); lia]). pose proof (Zlen_nonneg r).
  destruct (Z.le_gt_cases (ptrRTCPData_ p) (Zlen (rtcpData p))); [rewrite Zlen_zdrop in HE by lia; lia|].
  rewrite zdrop_all, (@Zlen_nil Z) in HE by lia. lia.
Qed.

Lemma inside_blk p a bs r n :
  inside p (a ++ bs) r -> n = Zlen a -> a <> [] ->
  blk_get (R := R) (rtcpData p) (ptrRTCPData_ p) n = Cont a /\ inside (skip p n) bs r.
Proof.
  intros Hi -> Hne. split; [|by apply (inside_skip p a)]. pose proof (Zlen_nonneg a). pose proof (Zlen_nonneg bs). pose proof (Zlen_nonneg r).
  assert (HL := inside_len _ _ _ Hi ltac:(by destruct a)). rewrite Zlen_app in HL. destruct Hi as (Hp & _ & E & _).
  rewrite blk_get_Cont by lia. unfold rest in E. rewrite E, <- app_assoc. by rewrite ztake_app_le, ztake_all by lia.
Qed.

Lemma inside_rd p bs r k x : inside p bs r -> bs !! k = Some x -> rd (R := R) (rtcpData p) (ptrRTCPData_ p + Z.of_nat k) = Cont x.
Proof.
  intros (H0 & _ & E & _) Hx. apply rd_Cont; [lia|]. rewrite Z2Nat.inj_add, Nat2Z.id by lia.
  rewrite <- lookup_drop. unfold rest, zdrop in E. rewrite E. by apply lookup_app_l_Some.
Qed.

Lemma inside_rd3 p a b c bs r :
  inside p (a :: b :: c :: bs) r ->
  rd (R := R) (rtcpData p) (ptrRTCPData_ p) = Cont a /\ rd (R := R) (rtcpData p) (ptrRTCPData_ p + 1) = Cont b
  /\ rd (R := R) (rtcpData p) (ptrRTCPData_ p + 2) = Cont c /\ inside (skip p 3) bs r.
Proof.
  intros Hi. split; [rewrite <- (Z.add_0_r (ptrRTCPData_ p)); exact (inside_rd _ _ _ 0 _ Hi eq_refl)|].
  split; [exact (inside_rd _ _ _ 1 _ Hi eq_refl)|]. split; [exact (inside_rd _ _ _ 2 _ Hi eq_refl)|].
  by apply (inside_skip p [a; b; c] bs r 3) in Hi.
Qed.

Lemma inside_same p q bs r :
  ptrRTCPData_ q = ptrRTCPData_ p -> ptrRTCPBlockEnd_ q = ptrRTCPBlockEnd_ p -> rtcpData q = rtcpData p -> validPacket_ q = validPacket_ p ->
  inside p bs r -> inside q bs r.
Proof. intros E1 E2 E3 E4. unfold inside, rest, block_left, IsValid. by rewrite E1, E2, E3, E4. Qed.
End parser.
