(* ===== verification/RtcpBlocks.v ===== *)
(** * The blocks of an RTCP packet

    The blocks of a compound packet as data ([Block]), their bytes ([block_bytes]) and the
    reports that they are to give ([block_reports]); every block, wherever it stands in a
    packet, gives them ([block_yields]). *)
From S2P Require Import Prelude RtpWire RtcpParser RtcpSteps.
Local Open Scope Z_scope.

(** ** Blocks and their bytes *)

Inductive Block : Type :=
| SR_block (sr : RTCPPacketSR) (blocks : list RTCPPacketReportBlockItem)
| RR_block (SSRC : Z) (blocks : list RTCPPacketReportBlockItem)
| SDES_block (chunks : list (Z * list Z))
| IJ_block (jitter : Z)
| PLI_block (fb : RTCPPacketFB)
| FIR_block (fb : RTCPPacketFB) (item : RTCPPacketPSFBFIRItem)
| SLI_block (fb : RTCPPacketFB) (item : RTCPPacketPSFBSLIItem)
| RPSI_block (fb : RTCPPacketFB) (padding_bits payload_type : Z) (native : list Z)
| REMB_block (fb : RTCPPacketFB) (exp mantissa : Z) (ssrcs : list Z)
| BYE_block (SSRC : Z) (csrcs : list Z)
| APP_block (subtype SSRC name : Z) (data : list Z)
| TMMBR_block (fb : RTCPPacketFB) (SSRC exp mantissa overhead : Z)
| TMMBN_block (fb : RTCPPacketFB) (set : list (Z * Z * Z * Z))
| NACK_block (fb : RTCPPacketFB) (items : list RTCPPacketRTPFBNACKItem)
| VoIP_block (SSRC : Z) (metric : RTCPPacketXRVOIPMetricItem)
| ReferenceTime_block (SSRC ntp_sec ntp_frac : Z)
| DLRR_block (SSRC : Z) (item : RTCPPacketXRDLRRReportBlockItem).

Definition report_bytes (b : RTCPPacketReportBlockItem) : list Z :=
  be32 (rb_SSRC b) ++ [rb_FractionLost b] ++ be24 (rb_CumulativeNumOfPacketsLost b) ++ be32 (rb_ExtendedHighestSequenceNumber b)
  ++ be32 (rb_Jitter b) ++ be32 (rb_LastSR b) ++ be32 (rb_DelayLastSR b).

Definition chunk_padding (name : list Z) : Z := 4 - (6 + Zlen name) mod 4.
Definition chunk_bytes (c : Z * list Z) : list Z :=
  be32 c.1 ++ [1; Zlen c.2] ++ c.2 ++ replicate (Z.to_nat (chunk_padding c.2)) 0.

Definition fb_bytes (fb : RTCPPacketFB) : list Z := be32 (fb_SenderSSRC fb) ++ be32 (fb_MediaSSRC fb).
Definition nack_bytes (i : RTCPPacketRTPFBNACKItem) : list Z := be16 (nack_PacketID i) ++ be16 (nack_BitMask i).
Definition tmmbr_bytes (SSRC exp mantissa overhead : Z) : list Z :=
  be32 SSRC ++ [exp * 4 + mantissa / 2 ^ 15; mantissa / 2 ^ 7 mod 256; mantissa mod 2 ^ 7 * 2 + overhead / 256; overhead mod 256].

Definition set_bytes (x : Z * Z * Z * Z) : list Z := let '(SSRC, exp, mantissa, overhead) := x in tmmbr_bytes SSRC exp mantissa overhead.

Definition metric_bytes (m : RTCPPacketXRVOIPMetricItem) : list Z :=
  be32 (vm_SSRC m) ++ [vm_lossRate m; vm_discardRate m; vm_burstDensity m; vm_gapDensity m]
  ++ be16 (vm_burstDuration m) ++ be16 (vm_gapDuration m) ++ be16 (vm_roundTripDelay m) ++ be16 (vm_endSystemDelay m)
  ++ [vm_signalLevel m; vm_noiseLevel m; vm_RERL m; vm_Gmin m; vm_Rfactor m; vm_extRfactor m; vm_MOSLQ m; vm_MOSCQ m; vm_RXconfig m; 0]
  ++ be16 (vm_JBnominal m) ++ be16 (vm_JBmax m) ++ be16 (vm_JBabsMax m).

Definition block_bytes (b : Block) : list Z :=
  match b with
  | SR_block sr blocks => header (Zlen blocks) PT_SR (be32 (SR_SenderSSRC sr) ++ be32 (SR_NTPMostSignificant sr)
      ++ be32 (SR_NTPLeastSignificant sr) ++ be32 (SR_RTPTimestamp sr) ++ be32 (SR_SenderPacketCount sr)
      ++ be32 (SR_SenderOctetCount sr) ++ concat (report_bytes <$> blocks))
  | RR_block SSRC blocks => header (Zlen blocks) PT_RR (be32 SSRC ++ concat (report_bytes <$> blocks))
  | SDES_block chunks => header (Zlen chunks) PT_SDES (concat (chunk_bytes <$> chunks))
  | IJ_block jitter => header 1 PT_IJ (be32 jitter)
  | PLI_block fb => header 1 PT_PSFB (fb_bytes fb)
  | FIR_block fb i => header 4 PT_PSFB (fb_bytes fb ++ be32 (fir_SSRC i) ++ [fir_CommandSequenceNumber i; 0; 0; 0])
  | SLI_block fb i => header 2 PT_PSFB (fb_bytes fb ++ be32 (sli_FirstMB i * 2 ^ 19 + sli_NumberOfMB i * 2 ^ 6 + sli_PictureId i))
  | RPSI_block fb padding_bits pt native => header 3 PT_PSFB (fb_bytes fb ++ [padding_bits; pt] ++ native)
  | REMB_block fb exp mantissa ssrcs => header 15 PT_PSFB (fb_bytes fb ++ [82; 69; 77; 66]
      ++ [Zlen ssrcs; exp * 4 + mantissa / 2 ^ 16; mantissa / 2 ^ 8 mod 256; mantissa mod 256] ++ concat (be32 <$> ssrcs))
  | BYE_block SSRC csrcs => header (1 + Zlen csrcs) PT_BYE (be32 SSRC ++ concat (be32 <$> csrcs))
  | APP_block subtype SSRC name data => header subtype PT_APP (be32 SSRC ++ be32 name ++ data)
  | TMMBR_block fb SSRC exp mantissa overhead => header 3 PT_RTPFB (fb_bytes fb ++ tmmbr_bytes SSRC exp mantissa overhead)
  | TMMBN_block fb set => header 4 PT_RTPFB (fb_bytes fb ++ concat (set_bytes <$> set))
  | NACK_block fb items => header 1 PT_RTPFB (fb_bytes fb ++ concat (nack_bytes <$> items))
  | VoIP_block SSRC m => header 0 PT_XR (be32 SSRC ++ [kBtVoipMetric; 0] ++ be16 8 ++ metric_bytes m)
  | ReferenceTime_block SSRC s f => header 0 PT_XR (be32 SSRC ++ [kBtReceiverReferenceTime; 0] ++ be16 2 ++ be32 s ++ be32 f)
  | DLRR_block SSRC i => header 0 PT_XR (be32 SSRC ++ [kBtDlrr; 0] ++ be16 3 ++ be32 (dlrr_SSRC i) ++ be32 (dlrr_LastRR i)
      ++ be32 (dlrr_DelayLastRR i))
  end.

(** ** Reports *)

(** Application data is reported in pieces. *)
Fixpoint app_pieces (fuel : nat) (data : list Z) : list (list Z) :=
  match fuel, data with
  | S fuel, _ :: _ => ztake kRtcpAppCode_DATA_SIZE data :: app_pieces fuel (zdrop kRtcpAppCode_DATA_SIZE data)
  | _, _ => []
  end.

Section blocks.
Context `{Machine} {R : Type}.

Definition tmmbr_item (SSRC exp mantissa overhead : Z) : RTCPPacketRTPFBTMMBRItem :=
  mkTMMBRItem SSRC (shl32 mantissa exp / 1000) overhead.

(** A report that writes a whole member of the union. *)
Definition whole (t : RTCPPacketTypes) (u : RTCPPacket) : Report := (t, fun _ => u).
(** A report that writes nothing. *)
Definition only (t : RTCPPacketTypes) : Report := (t, fun u => u).

Definition block_reports (b : Block) : list Report :=
  match b with
  | SR_block sr blocks => whole kRtcpSrCode (SR sr) :: (whole kRtcpReportBlockItemCode ∘ ReportBlockItem <$> blocks)
  | RR_block SSRC blocks =>
      whole kRtcpRrCode (RR (mkRR SSRC (Zlen blocks))) :: (whole kRtcpReportBlockItemCode ∘ ReportBlockItem <$> blocks)
  | SDES_block chunks => only kRtcpSdesCode :: ((fun c => whole kRtcpSdesChunkCode (CName (Some c.1) c.2)) <$> chunks)
  | IJ_block jitter => [only kRtcpExtendedIjCode; whole kRtcpExtendedIjItemCode (ExtendedJitterReportItem jitter)]
  | PLI_block fb => [whole kRtcpPsfbPliCode (PLI fb)]
  | FIR_block fb i => [whole kRtcpPsfbFirCode (FIR fb); whole kRtcpPsfbFirItemCode (FIRItem i)]
  | SLI_block fb i => [whole kRtcpPsfbSliCode (SLI fb); whole kRtcpPsfbSliItemCode (SLIItem i)]
  | RPSI_block fb padding_bits pt native =>
      [(kRtcpPsfbRpsiCode, fun u => RPSI (Some fb) (rpsi_item u));
       (kRtcpPsfbRpsiCode, fun u => RPSI (rpsi_header u) (Some (mkRPSIItem pt (Zlen native * 8 - padding_bits) native)))]
  | REMB_block fb exp mantissa ssrcs =>
      [whole kRtcpPsfbAppCode (PSFBAPP fb); only kRtcpPsfbRembCode;
       whole kRtcpPsfbRembItemCode (REMBItem (mkREMBItem (shl32 mantissa exp) (Zlen ssrcs) ssrcs))]
  | BYE_block SSRC _ => [whole kRtcpByeCode (BYE SSRC)]
  | APP_block subtype _ name data =>
      (kRtcpAppCode, fun u => APP (Some (subtype, name)) (app_data u))
      :: ((fun d => (kRtcpAppItemCode, fun u => APP (app_header u) (Some d))) <$> app_pieces (length data) data)
  | TMMBR_block fb SSRC exp mantissa overhead =>
      [whole kRtcpRtpfbTmmbrCode (TMMBR fb); whole kRtcpRtpfbTmmbrItemCode (TMMBRItem (tmmbr_item SSRC exp mantissa overhead))]
  | TMMBN_block fb set =>
      whole kRtcpRtpfbTmmbnCode (TMMBN fb) :: ((fun '(SSRC, exp, mantissa, overhead) =>
        whole kRtcpRtpfbTmmbnItemCode (TMMBNItem (tmmbr_item SSRC exp mantissa overhead))) <$> set)
  | NACK_block fb items => whole kRtcpRtpfbNackCode (NACK fb) :: (whole kRtcpRtpfbNackItemCode ∘ NACKItem <$> items)
  | VoIP_block SSRC m => [whole kRtcpXrHeaderCode (XR SSRC); whole kRtcpXrVoipMetricCode (XRVOIPMetricItem m)]
  | ReferenceTime_block SSRC s f =>
      [whole kRtcpXrHeaderCode (XR SSRC); whole kRtcpXrReceiverReferenceTimeCode (XRReceiverReferenceTimeItem s f)]
  | DLRR_block SSRC i =>
      [whole kRtcpXrHeaderCode (XR SSRC); only kRtcpXrDlrrReportBlockCode;
       whole kRtcpXrDlrrReportBlockItemCode (XRDLRRReportBlockItem i)]
  end.
End blocks.

(** ** Blocks whose numbers fit into their fields *)

Definition fb_ok (fb : RTCPPacketFB) : Prop := is_u32 (fb_SenderSSRC fb) /\ is_u32 (fb_MediaSSRC fb).

Definition rb_ok (b : RTCPPacketReportBlockItem) : Prop :=
  is_u32 (rb_SSRC b) /\ is_u8 (rb_FractionLost b) /\ 0 <= rb_CumulativeNumOfPacketsLost b < 2 ^ 24
  /\ is_u32 (rb_ExtendedHighestSequenceNumber b) /\ is_u32 (rb_Jitter b) /\ is_u32 (rb_LastSR b) /\ is_u32 (rb_DelayLastSR b).

Definition name_ok (name : list Z) : Prop := Forall (fun c => cname_illegal c = false) name /\ Zlen name < RTCP_CNAME_SIZE.

Definition tmmbr_fits (SSRC exp mantissa overhead : Z) : Prop :=
  is_u32 SSRC /\ 0 <= exp < 64 /\ 0 <= mantissa < 2 ^ 17 /\ 0 <= overhead < 2 ^ 9.

Definition metric_ok (m : RTCPPacketXRVOIPMetricItem) : Prop :=
  is_u32 (vm_SSRC m) /\ is_u16 (vm_burstDuration m) /\ is_u16 (vm_gapDuration m) /\ is_u16 (vm_roundTripDelay m)
  /\ is_u16 (vm_endSystemDelay m) /\ is_u16 (vm_JBnominal m) /\ is_u16 (vm_JBmax m) /\ is_u16 (vm_JBabsMax m).

Definition block_ok (b : Block) : Prop :=
  match b with
  | SR_block sr blocks => SR_NumberOfReportBlocks sr = Zlen blocks /\ Zlen blocks < 32 /\ is_u32 (SR_SenderSSRC sr)
      /\ is_u32 (SR_NTPMostSignificant sr) /\ is_u32 (SR_NTPLeastSignificant sr) /\ is_u32 (SR_RTPTimestamp sr)
      /\ is_u32 (SR_SenderPacketCount sr) /\ is_u32 (SR_SenderOctetCount sr) /\ Forall rb_ok blocks
  | RR_block SSRC blocks => is_u32 SSRC /\ Zlen blocks < 32 /\ Forall rb_ok blocks
  | SDES_block chunks => chunks <> [] /\ Zlen chunks < 32 /\ Forall (fun c => is_u32 c.1 /\ name_ok c.2) chunks
  | IJ_block jitter => is_u32 jitter
  | PLI_block fb => fb_ok fb
  | FIR_block fb i => fb_ok fb /\ is_u32 (fir_SSRC i)
  | SLI_block fb i => fb_ok fb /\ 0 <= sli_FirstMB i < 2 ^ 13 /\ 0 <= sli_NumberOfMB i < 2 ^ 13 /\ 0 <= sli_PictureId i < 2 ^ 6
  | RPSI_block fb padding_bits _ native => fb_ok fb /\ 2 <= Zlen native <= RTCP_RPSI_DATA_SIZE /\ (2 + Zlen native) mod 4 = 0
      /\ 0 <= padding_bits <= Zlen native * 8
  | REMB_block fb exp mantissa ssrcs => fb_ok fb /\ 0 <= exp < 64 /\ 0 <= mantissa < 2 ^ 18
      /\ Zlen ssrcs <= MAX_NUMBER_OF_REMB_FEEDBACK_SSRCS /\ Forall is_u32 ssrcs
  | BYE_block SSRC csrcs => is_u32 SSRC /\ Zlen csrcs < 31
  | APP_block subtype SSRC name data => 0 <= subtype < 32 /\ is_u32 SSRC /\ is_u32 name /\ Zlen data mod 4 = 0 /\ Zlen data < 65524
  | TMMBR_block fb SSRC exp mantissa overhead => fb_ok fb /\ tmmbr_fits SSRC exp mantissa overhead
  | TMMBN_block fb set => fb_ok fb /\ Zlen set < 8190
      /\ Forall (fun '(SSRC, exp, mantissa, overhead) => tmmbr_fits SSRC exp mantissa overhead) set
  | NACK_block fb items => fb_ok fb /\ Zlen items < 16380 /\ Forall (fun i => is_u16 (nack_PacketID i) /\ is_u16 (nack_BitMask i)) items
  | VoIP_block SSRC m => is_u32 SSRC /\ metric_ok m
  | ReferenceTime_block SSRC s f => is_u32 SSRC /\ is_u32 s /\ is_u32 f
  | DLRR_block SSRC i => is_u32 SSRC /\ is_u32 (dlrr_SSRC i) /\ is_u32 (dlrr_LastRR i) /\ is_u32 (dlrr_DelayLastRR i)
  end.

(** ** Every block gives its reports *)

Lemma Zlen_concat {A} (f : A -> list Z) (l : list A) k : (forall x, x ∈ l -> Zlen (f x) = k) -> Zlen (concat (f <$> l)) = k * Zlen l.
Proof.
  induction l as [|x l IH]; intros Hf; [by rewrite (@Zlen_nil A), Z.mul_0_r|]. cbn [fmap list_fmap concat].
  rewrite Zlen_app, Zlen_cons, Hf by constructor. rewrite IH; [lia|]. intros y Hy. apply Hf. by constructor.
Qed.

Section yields.
Context `{Machine} {R : Type}.

Definition yields (bs : list Z) (es : list Report) : Prop :=
  forall p pos r, standing (R := R) p pos -> zdrop pos (rtcpData p) = bs ++ r -> continues (R := R) p (pos + Zlen bs) es.

Lemma inside_header p ic pt body r :
  inside p (header ic pt body) r -> inside (skip p 4) body r /\ block_left p = 4 + Zlen body.
Proof.
  intros Hi. split; [|rewrite <- Zlen_header with (ic := ic) (pt := pt); apply Hi].
  unfold header in Hi. rewrite app_assoc in Hi. by eapply inside_skip; [|exact Hi].
Qed.

Ltac moved Hi p :=
  let Hi' := fresh "Hi" in
  lazymatch type of Hi with inside ?p' ?bs ?r =>
    assert (Hi' : inside p bs r) by
      (refine (inside_same p' p bs r _ _ _ _ Hi); [gsimp; lia|gsimp; reflexivity..]);
    clear Hi; rename Hi' into Hi
  end.

Ltac iget Hi :=
  lazymatch goal with
  | |- context [flow_bind (?get ?p) _] =>
      moved Hi p;
      lazymatch type of Hi with
      | inside _ (be32 ?v ++ ?bs) ?r => destruct (inside_get32 (R := R) p v bs r Hi ltac:(done)) as [-> Hi']
      | inside _ (be32 ?v) ?r => destruct (inside_last32 (R := R) p v r Hi ltac:(done)) as [-> Hi']
      | inside _ (be24 ?v ++ ?bs) ?r => destruct (inside_get24 (R := R) p v bs r Hi ltac:(done)) as [-> Hi']
      | inside _ (be16 ?v ++ ?bs) ?r => destruct (inside_get16 (R := R) p v bs r Hi ltac:(done)) as [-> Hi']
      | inside _ (be16 ?v) ?r => destruct (inside_last16 (R := R) p v r Hi ltac:(done)) as [-> Hi']
      | inside _ ([?b] ++ ?bs) ?r => destruct (inside_get8 (R := R) p b bs r Hi) as [-> Hi']
      | inside _ ((?b :: ?bs') ++ ?bs) ?r => destruct (inside_get8 (R := R) p b (bs' ++ bs) r Hi) as [-> Hi']
      | inside _ (?b :: ?bs) ?r => destruct (inside_get8 (R := R) p b bs r Hi) as [-> Hi']
      end
  end; clear Hi; rename Hi' into Hi; cbn [flow_bind]; rewrite ?skip_plus in Hi |- *.

(** Comparisons of constants. *)
Ltac tests :=
  repeat match goal with
  | |- context [Z.eqb ?a ?b] =>
      let v := eval lazy in (Z.eqb a b) in
      lazymatch v with true => idtac | false => idtac end; change (Z.eqb a b) with v
  | |- context [Z.ltb ?a ?b] =>
      let v := eval lazy in (Z.ltb a b) in
      lazymatch v with true => idtac | false => idtac end; change (Z.ltb a b) with v
  | |- context [Z.leb ?a ?b] =>
      let v := eval lazy in (Z.leb a b) in
      lazymatch v with true => idtac | false => idtac end; change (Z.leb a b) with v
  end; cbn [orb andb negb]; cbv iota.

Ltac enter Hi Hl :=
  let q := fresh "q" in let He := fresh "He" in let Ht := fresh "Ht" in
  intros q Hi He Ht; apply inside_header in Hi as [Hi Hl]; unfold parse_block; cbn [rh_PT rh_IC]; tests.

Ltac left_in q :=
  repeat match goal with
  | |- context [block_left ?p] => lazymatch p with q => fail | _ => change (block_left p) with (block_left q) end
  end.

Lemma report_blocks_continue blocks p e r :
  inside p (concat (report_bytes <$> blocks)) r -> state_ p = State_ReportBlockItem -> numberOfBlocks_ p = Zlen blocks ->
  ptrRTCPBlockEnd_ p = e -> Zlen blocks < 32 -> Forall rb_ok blocks ->
  continues (R := R) p e (whole kRtcpReportBlockItemCode ∘ ReportBlockItem <$> blocks).
Proof.
  revert p. induction blocks as [|b blocks IH]; intros p Hi Hs Hn He Hl Hok.
  - apply continues_nil. subst e. eapply inside_done; [exact Hi|]. unfold counted. by rewrite Hs.
  - apply Forall_cons in Hok as [(B1 & B2 & B3 & B4 & B5 & B6 & B7) Hok]. pose proof (Zlen_nonneg blocks). rewrite Zlen_cons in *.
    assert (Hleft : block_left p = Zlen (report_bytes b ++ concat (report_bytes <$> blocks))) by apply Hi.
    rewrite Zlen_app in Hleft. change (Zlen (report_bytes b)) with 24 in Hleft. pose proof (Zlen_nonneg (concat (report_bytes <$> blocks))).
    cbn [fmap list_fmap concat] in Hi. unfold report_bytes at 1 in Hi. rewrite <- !app_assoc in Hi.
    eapply continues_item; [apply Hi|by rewrite Hs|done|]. eexists. unfold ParseReportBlockItem.
    change (block_left (set_type _ _)) with (block_left p). psimp. rewrite Hn.
    rewrite (proj2 (Z.ltb_ge _ _)), (proj2 (Z.leb_gt _ _)) by lia. cbn [orb]. do 7 iget Hi.
    split; [reflexivity|]. split; [done|]. split; [by destruct b|]. split; [done|].
    apply IH; [exact Hi|done| |done|lia|done]. psimp. rewrite Hn. rewrite u8_id; cint.
Qed.

Lemma RR_yields SSRC blocks : block_ok (RR_block SSRC blocks) -> yields (block_bytes (RR_block SSRC blocks)) (block_reports (RR_block SSRC blocks)).
Proof.
  intros (B1 & B2 & B3) p pos r Hs E. pose proof (Zlen_nonneg blocks).
  assert (HL : Zlen (be32 SSRC ++ concat (report_bytes <$> blocks)) = 4 + 24 * Zlen blocks)
    by (rewrite Zlen_app, (Zlen_concat _ _ 24) by done; done).
  eapply continues_block; [exact Hs|exact E|lia|rewrite HL; zdm|lia|done|]. enter Hi Hl. rewrite HL in Hl.
  eexists. unfold ParseRR. left_in q. rewrite (proj2 (Z.ltb_ge _ _)) by lia. iget Hi. split; [reflexivity|].
  split; [done|]. split; [done|]. split; [done|]. eapply report_blocks_continue; [exact Hi|done..].
Qed.

Lemma SR_yields sr blocks : block_ok (SR_block sr blocks) -> yields (block_bytes (SR_block sr blocks)) (block_reports (SR_block sr blocks)).
Proof.
  intros (B0 & B1 & B2 & B3 & B4 & B5 & B6 & B7 & B8) p pos r Hs E. pose proof (Zlen_nonneg blocks).
  assert (HL : Zlen (be32 (SR_SenderSSRC sr) ++ be32 (SR_NTPMostSignificant sr) ++ be32 (SR_NTPLeastSignificant sr)
    ++ be32 (SR_RTPTimestamp sr) ++ be32 (SR_SenderPacketCount sr) ++ be32 (SR_SenderOctetCount sr) ++ concat (report_bytes <$> blocks))
    = 24 + 24 * Zlen blocks) by (rewrite !Zlen_app, !Zlen_be32, (Zlen_concat _ _ 24) by done; lia).
  eapply continues_block; [exact Hs|exact E|lia|rewrite HL; zdm|lia|done|]. enter Hi Hl. rewrite HL in Hl.
  unfold ParseSR. left_in q. rewrite (proj2 (Z.ltb_ge _ _)) by lia. destruct blocks as [|b blocks]; eexists; do 6 iget Hi.
  - split; [reflexivity|]. split; [done|]. split; [by destruct sr; cbn in B0 |- *; rewrite B0|].
    split; [done|]. apply continues_nil, standing_top; [apply Hi|done|exact He|].
    destruct Hs as (_ & Hs & _). apply Z.add_nonneg_nonneg; [done|apply Zlen_nonneg].
  - match goal with |- context [negb (?n =? 0)] => change n with (Zlen (b :: blocks)) end. rewrite (proj2 (Z.eqb_neq (Zlen (b :: blocks)) 0)) by (rewrite Zlen_cons; pose proof (Zlen_nonneg blocks); lia). cbn [negb].
    split; [reflexivity|]. split; [done|]. split; [by destruct sr; cbn in B0 |- *; rewrite B0|].
    split; [done|]. eapply (report_blocks_continue (b :: blocks)); [exact Hi|reflexivity|reflexivity|exact He|exact B1|exact B8].
Qed.

(** The bytes left in the block. *)
Ltac left_of Hi :=
  match goal with
  | |- context [block_left ?p] => moved Hi p; rewrite (inside_left p _ _ Hi)
  end; tests.

(** A step of an item, and the block that it ends. *)
Ltac item Hi := eapply continues_item; [apply Hi|reflexivity|done|]; eexists.
Ltac ended r Hi := apply continues_nil; match goal with He : ptrRTCPBlockEnd_ _ = ?e |- standing _ ?e' => change e' with e; rewrite <- He end;
  lazymatch goal with |- standing ?p _ => moved Hi p; exact (inside_done p r Hi ltac:(first [exact I|reflexivity|unfold counted; gsimp; match goal with Ht : state_ _ = _ |- _ => rewrite Ht end; exact I])) end.

Lemma IJ_yields jitter : block_ok (IJ_block jitter) -> yields (block_bytes (IJ_block jitter)) (block_reports (IJ_block jitter)).
Proof.
  intros B1 p pos r Hs E. change (is_u32 jitter) in B1.
  eapply continues_block; [exact Hs|exact E|lia|done|done|done|]. enter Hi Hl.
  eexists. unfold ParseIJ. left_in q. rewrite Hl. tests. split; [reflexivity|]. do 3 (split; [done|]).
  assert (Hl' : block_left (skip q 4) = 4) by apply Hi.
  item Hi. unfold ParseIJItem. left_in (skip q 4). psimp. rewrite Hl'. tests. iget Hi. split; [reflexivity|]. do 3 (split; [done|]).
  ended r Hi.
Qed.

(** A feedback message up to its first item. *)
Ltac feedback Hi Hl fb q :=
  eexists; unfold ParseFBCommon; left_in q; rewrite Hl; cbn [rh_PT rh_IC]; tests; unfold fb_bytes in Hi; rewrite <- ?app_assoc in Hi; do 2 iget Hi;
  split; [reflexivity|]; split; [done|]; split; [by destruct fb|]; split; [done|].

Lemma PLI_yields fb : block_ok (PLI_block fb) -> yields (block_bytes (PLI_block fb)) (block_reports (PLI_block fb)).
Proof.
  intros [B1 B2] p pos r Hs E. eapply continues_block; [exact Hs|exact E|lia|done|done|done|]. enter Hi Hl.
  feedback Hi Hl fb q. ended r Hi.
Qed.

Lemma FIR_yields fb i : block_ok (FIR_block fb i) -> yields (block_bytes (FIR_block fb i)) (block_reports (FIR_block fb i)).
Proof.
  intros ([B1 B2] & B3) p pos r Hs E. eapply continues_block; [exact Hs|exact E|lia|done|done|done|]. enter Hi Hl.
  feedback Hi Hl fb q. item Hi. unfold ParseFIRItem. left_of Hi. do 2 iget Hi.
  split; [reflexivity|]. split; [done|]. split; [by destruct i|]. split; [done|].
  apply (inside_skip _ [0; 0; 0] [] r 3) in Hi; [|done]. rewrite ?skip_plus in Hi. ended r Hi.
Qed.

Lemma SLI_yields fb i : block_ok (SLI_block fb i) -> yields (block_bytes (SLI_block fb i)) (block_reports (SLI_block fb i)).
Proof.
  intros ([B1 B2] & B3 & B4 & B5) p pos r Hs E. eapply continues_block; [exact Hs|exact E|lia|done|done|done|]. enter Hi Hl.
  set (v := sli_FirstMB i * 2 ^ 19 + sli_NumberOfMB i * 2 ^ 6 + sli_PictureId i) in *. assert (B6 : is_u32 v) by (unfold is_u32; lia).
  feedback Hi Hl fb q. item Hi. unfold ParseSLIItem. left_of Hi. iget Hi.
  split; [reflexivity|]. split; [done|]. split; [|split; [done|ended r Hi]].
  unfold whole; cbn [packet_ set_packet]. destruct i as [first number pic]. cbn [sli_FirstMB sli_NumberOfMB sli_PictureId] in *. do 2 f_equal.
  - change 8191 with (Z.ones 13). rewrite Z.land_ones, Z.shiftr_div_pow2 by lia. subst v. cint.
  - change 8191 with (Z.ones 13). rewrite Z.land_ones, Z.shiftr_div_pow2 by lia. subst v. cint.
  - change 63 with (Z.ones 6). rewrite Z.land_ones by lia. subst v. cint.
Qed.

Lemma RPSI_yields fb padding pt native :
  block_ok (RPSI_block fb padding pt native) -> yields (block_bytes (RPSI_block fb padding pt native)) (block_reports (RPSI_block fb padding pt native)).
Proof.
  intros ([B1 B2] & [B3 B4] & B5 & B6) p pos r Hs E. unfold RTCP_RPSI_DATA_SIZE in *.
  assert (HL : Zlen (fb_bytes fb ++ [padding; pt] ++ native) = 10 + Zlen native) by (rewrite !Zlen_app; unfold fb_bytes; rewrite Zlen_app, !Zlen_be32; unfold Zlen at 1; cbn [length]; lia).
  eapply continues_block; [exact Hs|exact E|lia|rewrite HL; zdm|lia|done|]. enter Hi Hl. rewrite HL in Hl.
  eexists. unfold ParseFBCommon. left_in q. rewrite (proj2 (Z.ltb_ge (block_left q) 12)) by lia. cbn [rh_PT rh_IC]. tests.
  unfold fb_bytes in Hi. rewrite <- ?app_assoc in Hi. do 2 iget Hi.
  split; [reflexivity|]. split; [done|]. split; [by destruct fb|]. split; [done|].
  item Hi. unfold ParseRPSIItem. match goal with |- context [block_left ?p] => moved Hi p; rewrite (inside_left p _ _ Hi) end.
  change (Zlen ([padding; pt] ++ native)) with (Zlen (padding :: pt :: native)). rewrite !Zlen_cons. unfold RTCP_RPSI_DATA_SIZE. rewrite (proj2 (Z.ltb_ge _ 4)), (proj2 (Z.ltb_ge (2 + 30) _)) by lia.
  do 2 iget Hi. rewrite <- (app_nil_r native) in Hi.
  match goal with |- context [blk_get (rtcpData ?p) _ _] =>
    moved Hi p; destruct (inside_blk (R := R) p native [] r (1 + (1 + Zlen native) - 2) Hi ltac:(lia) ltac:(intros ->; rewrite (@Zlen_nil Z) in *; lia)) as [-> Hi'] end.
  cbn [flow_bind]. rewrite skip_plus. split; [reflexivity|]. split; [done|]. split.
  - cbn [packet_ set_packet]. do 3 f_equal. replace (1 + (1 + Zlen native) - 2) with (Zlen native) by lia.
    rewrite (u16_id (Zlen native)) by (unfold is_u16; lia). by rewrite u16_id by (unfold is_u16; lia).
  - split; [done|]. ended r Hi'.
Qed.

Lemma nack_items_continue items p e r :
  inside p (concat (nack_bytes <$> items)) r -> state_ p = State_RTPFB_NACKItem -> ptrRTCPBlockEnd_ p = e ->
  Forall (fun i => is_u16 (nack_PacketID i) /\ is_u16 (nack_BitMask i)) items ->
  continues (R := R) p e (whole kRtcpRtpfbNackItemCode ∘ NACKItem <$> items).
Proof.
  revert p. induction items as [|i items IH]; intros p Hi Hs He Hok.
  - apply continues_nil. subst e. eapply inside_done; [exact Hi|]. unfold counted. by rewrite Hs.
  - apply Forall_cons in Hok as [[B1 B2] Hok]. cbn [fmap list_fmap concat] in Hi. unfold nack_bytes at 1 in Hi. rewrite <- app_assoc in Hi.
    eapply continues_item; [apply Hi|by rewrite Hs|done|]. eexists. unfold ParseNACKItem.
    match goal with |- context [block_left ?p] => moved Hi p; rewrite (inside_left p _ _ Hi) end.
    rewrite !Zlen_app, !Zlen_be16, (proj2 (Z.ltb_ge _ _)) by (pose proof (Zlen_nonneg (concat (nack_bytes <$> items))); lia).
    do 2 iget Hi. split; [reflexivity|]. split; [done|]. split; [by destruct i|]. split; [done|].
    apply IH; [exact Hi|exact Hs|exact He|exact Hok].
Qed.

Lemma Zlen_fb fb : Zlen (fb_bytes fb) = 8.
Proof. reflexivity. Qed.

Lemma NACK_yields fb items : block_ok (NACK_block fb items) -> yields (block_bytes (NACK_block fb items)) (block_reports (NACK_block fb items)).
Proof.
  intros ([B1 B2] & B3 & B4) p pos r Hs E. pose proof (Zlen_nonneg items).
  assert (HL : Zlen (fb_bytes fb ++ concat (nack_bytes <$> items)) = 8 + 4 * Zlen items) by (by rewrite Zlen_app, Zlen_fb, (Zlen_concat _ _ 4)).
  eapply continues_block; [exact Hs|exact E|lia|rewrite HL; zdm|lia|done|]. enter Hi Hl. rewrite HL in Hl.
  eexists. unfold ParseFBCommon. left_in q. rewrite (proj2 (Z.ltb_ge _ 12)) by lia. cbn [rh_PT rh_IC]. tests.
  unfold fb_bytes in Hi. rewrite <- ?app_assoc in Hi. do 2 iget Hi.
  split; [reflexivity|]. split; [done|]. split; [by destruct fb|]. split; [done|].
  eapply nack_items_continue; [|reflexivity|exact He|exact B4]. match goal with |- inside ?p _ _ => moved Hi p end. exact Hi.
Qed.

(** An item of TMMBR and of TMMBN. *)
Lemma get_tmmbr_at p SSRC exp mantissa overhead bs r :
  inside p (tmmbr_bytes SSRC exp mantissa overhead ++ bs) r -> tmmbr_fits SSRC exp mantissa overhead ->
  get_tmmbr (R := R) p = Cont (tmmbr_item SSRC exp mantissa overhead, skip p 8) /\ inside (skip p 8) bs r.
Proof.
  intros Hi (B1 & B2 & B3 & B4). unfold get_tmmbr. unfold tmmbr_bytes in Hi. rewrite <- app_assoc in Hi. iget Hi.
  pose proof (inside_rd (R := R) _ _ r 0 _ Hi eq_refl) as E0. pose proof (inside_rd (R := R) _ _ r 1 _ Hi eq_refl) as E1.
  pose proof (inside_rd (R := R) _ _ r 2 _ Hi eq_refl) as E2. pose proof (inside_rd (R := R) _ _ r 3 _ Hi eq_refl) as E3.
  apply (inside_skip _ [_; _; _; _] bs r 4) in Hi; [|reflexivity]. rewrite ?skip_plus in Hi |- *.
  change (Z.of_nat 0) with 0 in E0. rewrite Z.add_0_r in E0. change (Z.of_nat 1) with 1 in E1. change (Z.of_nat 2) with 2 in E2. change (Z.of_nat 3) with 3 in E3.
  rewrite E0, E1, E2, E3. cbn [flow_bind]. split; [|exact Hi]. unfold tmmbr_item.
  set (b0 := exp * 4 + _). set (b2 := mantissa mod 2 ^ 7 * 2 + _).
  assert (F : Z.land (Z.shiftr b0 2) 63 = exp) by (change 63 with (Z.ones 6); rewrite Z.land_ones, Z.shiftr_div_pow2 by lia; subst b0; zdm).
  assert (F0 : Z.land b0 3 = mantissa / 2 ^ 15) by (change 3 with (Z.ones 2); rewrite Z.land_ones by lia; subst b0; zdm).
  assert (F1 : Z.land (Z.shiftr b2 1) 127 = mantissa mod 2 ^ 7) by (change 127 with (Z.ones 7); rewrite Z.land_ones, Z.shiftr_div_pow2 by lia; subst b2; zdm).
  assert (F2 : Z.land b2 1 = overhead / 256) by (change 1 with (Z.ones 1); rewrite Z.land_ones by lia; subst b2; zdm).
  rewrite F, F0, F1, F2, !Z.shiftl_mul_pow2 by lia.
  replace (u32 _) with mantissa by (unfold u32; zdm). replace (u32 _) with overhead by (unfold u32; zdm). done.
Qed.

Lemma TMMBR_yields fb SSRC exp mantissa overhead :
  block_ok (TMMBR_block fb SSRC exp mantissa overhead) ->
  yields (block_bytes (TMMBR_block fb SSRC exp mantissa overhead)) (block_reports (TMMBR_block fb SSRC exp mantissa overhead)).
Proof.
  intros [[B1 B2] B3] p pos r Hs E. eapply continues_block; [exact Hs|exact E|lia|done|done|done|]. enter Hi Hl.
  feedback Hi Hl fb q. item Hi. unfold ParseTMMBRItem. left_of Hi. rewrite <- (app_nil_r (tmmbr_bytes _ _ _ _)) in Hi.
  match goal with |- context [get_tmmbr ?p] => moved Hi p; destruct (get_tmmbr_at p _ _ _ _ _ _ Hi B3) as [-> Hi'] end. cbn [flow_bind].
  split; [reflexivity|]. split; [done|]. split; [done|]. split; [done|]. ended r Hi'.
Qed.

Lemma tmmbn_items_continue set p e r :
  inside p (concat (set_bytes <$> set)) r -> state_ p = State_RTPFB_TMMBNItem -> ptrRTCPBlockEnd_ p = e ->
  Forall (fun '(SSRC, exp, mantissa, overhead) => tmmbr_fits SSRC exp mantissa overhead) set ->
  continues (R := R) p e ((fun '(SSRC, exp, mantissa, overhead) =>
    whole kRtcpRtpfbTmmbnItemCode (TMMBNItem (tmmbr_item SSRC exp mantissa overhead))) <$> set).
Proof.
  revert p. induction set as [|[[[SSRC exp] mantissa] overhead] set IH]; intros p Hi Hs He Hok.
  - apply continues_nil. subst e. eapply inside_done; [exact Hi|]. unfold counted. by rewrite Hs.
  - apply Forall_cons in Hok as [B1 Hok]. cbn [fmap list_fmap concat set_bytes] in Hi.
    eapply continues_item; [apply Hi|by rewrite Hs|done|]. eexists. unfold ParseTMMBNItem.
    match goal with |- context [block_left ?p] => moved Hi p; rewrite (inside_left p _ _ Hi) end.
    rewrite Zlen_app. change (Zlen (tmmbr_bytes _ _ _ _)) with 8. rewrite (proj2 (Z.ltb_ge _ _)) by (pose proof (Zlen_nonneg (concat (set_bytes <$> set))); lia).
    match goal with |- context [get_tmmbr ?p] => moved Hi p; destruct (get_tmmbr_at p _ _ _ _ _ _ Hi B1) as [-> Hi'] end. cbn [flow_bind].
    split; [reflexivity|]. split; [done|]. split; [done|]. split; [done|].
    apply IH; [exact Hi'|exact Hs|exact He|exact Hok].
Qed.

Lemma TMMBN_yields fb set : block_ok (TMMBN_block fb set) -> yields (block_bytes (TMMBN_block fb set)) (block_reports (TMMBN_block fb set)).
Proof.
  intros ([B1 B2] & B3 & B4) p pos r Hs E. pose proof (Zlen_nonneg set).
  assert (HL : Zlen (fb_bytes fb ++ concat (set_bytes <$> set)) = 8 + 8 * Zlen set)
    by (rewrite Zlen_app, Zlen_fb, (Zlen_concat _ _ 8); [done|by intros [[[? ?] ?] ?] _]).
  eapply continues_block; [exact Hs|exact E|lia|rewrite HL; zdm|lia|done|]. enter Hi Hl. rewrite HL in Hl.
  eexists. unfold ParseFBCommon. left_in q. rewrite (proj2 (Z.ltb_ge _ 12)) by lia. cbn [rh_PT rh_IC]. tests.
  unfold fb_bytes in Hi. rewrite <- ?app_assoc in Hi. do 2 iget Hi.
  split; [reflexivity|]. split; [done|]. split; [by destruct fb|]. split; [done|].
  eapply tmmbn_items_continue; [|reflexivity|exact He|exact B4]. match goal with |- inside ?p _ _ => moved Hi p end. exact Hi.
Qed.

Lemma BYE_yields SSRC csrcs : block_ok (BYE_block SSRC csrcs) -> yields (block_bytes (BYE_block SSRC csrcs)) (block_reports (BYE_block SSRC csrcs)).
Proof.
  intros [B1 B2] p pos r Hs E. pose proof (Zlen_nonneg csrcs).
  assert (HC : Zlen (concat (be32 <$> csrcs)) = 4 * Zlen csrcs) by (by rewrite (Zlen_concat _ _ 4)).
  assert (HL : Zlen (be32 SSRC ++ concat (be32 <$> csrcs)) = 4 + 4 * Zlen csrcs) by (by rewrite Zlen_app, HC).
  eapply continues_block; [exact Hs|exact E|lia|rewrite HL; zdm|lia|done|]. enter Hi Hl. rewrite HL in Hl.
  eexists. unfold ParseBYE, ParseBYEItem. match goal with |- context [block_left ?p] => moved Hi p; rewrite (inside_left p _ _ Hi) end.
  rewrite HL, (proj2 (Z.ltb_ge _ 4)) by lia. change (numberOfBlocks_ (set_state _ _)) with (1 + Zlen csrcs).
  rewrite (proj2 (Z.eqb_neq (1 + Zlen csrcs) 0)) by lia. cbn [orb]. iget Hi.
  match goal with |- context [4 * ?n <=? _] => change n with (1 + Zlen csrcs) end.
  rewrite (proj2 (Z.leb_le _ _)) by lia. split; [reflexivity|]. split; [done|]. split; [done|]. split; [done|].
  rewrite <- (app_nil_r (concat _)) in Hi. apply (inside_skip _ (concat (be32 <$> csrcs)) [] r ((1 + Zlen csrcs - 1) * 4)) in Hi; [|lia]. ended r Hi.
Qed.

Lemma remb_ssrcs_at ssrcs p bs r acc :
  inside p (concat (be32 <$> ssrcs) ++ bs) r -> Forall is_u32 ssrcs -> Zlen acc + Zlen ssrcs <= MAX_NUMBER_OF_REMB_FEEDBACK_SSRCS ->
  remb_ssrcs (R := R) (length ssrcs) p acc = Cont (acc ++ ssrcs, skip p (4 * Zlen ssrcs)) /\ inside (skip p (4 * Zlen ssrcs)) bs r.
Proof.
  revert p acc. induction ssrcs as [|x ssrcs IH]; intros p acc Hi Hu Hl.
  - cbn [remb_ssrcs length]. rewrite app_nil_r. change (4 * Zlen []) with 0. replace (skip p 0) with p; [done|].
    destruct p. unfold skip. gsimp. by rewrite Z.add_0_r.
  - apply Forall_cons in Hu as [Hx Hu]. rewrite Zlen_cons in *. cbn [fmap list_fmap concat] in Hi. rewrite <- app_assoc in Hi.
    pose proof (Zlen_nonneg ssrcs). cbn [length remb_ssrcs]. iget Hi. rewrite (proj2 (Z.leb_gt _ _)) by lia.
    destruct (IH _ (acc ++ [x]) Hi Hu) as [-> Hi']; [rewrite Zlen_app; change (Zlen [x]) with 1; lia|].
    rewrite skip_plus, <- app_assoc in *. replace (4 * (1 + Zlen ssrcs)) with (4 + 4 * Zlen ssrcs) by lia. done.
Qed.

Lemma REMB_yields fb exp mantissa ssrcs :
  block_ok (REMB_block fb exp mantissa ssrcs) ->
  yields (block_bytes (REMB_block fb exp mantissa ssrcs)) (block_reports (REMB_block fb exp mantissa ssrcs)).
Proof.
  intros ([B1 B2] & B3 & B4 & B5 & B6) p pos r Hs E. pose proof (Zlen_nonneg ssrcs). unfold MAX_NUMBER_OF_REMB_FEEDBACK_SSRCS in B5.
  assert (HC : Zlen (concat (be32 <$> ssrcs)) = 4 * Zlen ssrcs) by (by rewrite (Zlen_concat _ _ 4)).
  assert (HL : forall b1 b2 b3, Zlen (fb_bytes fb ++ [82; 69; 77; 66] ++ [Zlen ssrcs; b1; b2; b3] ++ concat (be32 <$> ssrcs)) = 16 + 4 * Zlen ssrcs)
    by (intros; rewrite !Zlen_app, Zlen_fb, HC; unfold Zlen at 1 2; cbn [length]; lia).
  eapply continues_block; [exact Hs|exact E|lia|rewrite HL; zdm|rewrite HL; lia|done|]. enter Hi Hl. rewrite HL in Hl.
  eexists. unfold ParseFBCommon. left_in q. rewrite (proj2 (Z.ltb_ge _ 12)) by lia. cbn [rh_PT rh_IC]. tests.
  unfold fb_bytes in Hi. rewrite <- ?app_assoc in Hi. do 2 iget Hi.
  split; [reflexivity|]. split; [done|]. split; [by destruct fb|]. split; [done|].
  item Hi. unfold ParsePsfbAppItem. match goal with |- context [block_left ?p] => moved Hi p; rewrite (inside_left p _ _ Hi) end.
  rewrite !Zlen_app, HC, (proj2 (Z.ltb_ge _ 4)) by (unfold Zlen at 1 2; cbn [length]; lia). do 4 (iget Hi; tests).
  split; [reflexivity|]. split; [done|]. split; [done|]. split; [done|].
  item Hi. unfold ParsePsfbREMBItem. match goal with |- context [block_left ?p] => moved Hi p; rewrite (inside_left p _ _ Hi) end.
  rewrite !Zlen_app, HC, (proj2 (Z.ltb_ge _ 4)) by (unfold Zlen at 1; cbn [length]; lia).
  iget Hi. match goal with |- context [rd (rtcpData ?p) (ptrRTCPData_ ?p)] => moved Hi p;
    destruct (inside_rd3 (R := R) p _ _ _ (concat (be32 <$> ssrcs)) r Hi) as (-> & -> & -> & Hi') end. clear Hi. rename Hi' into Hi.
  cbn [flow_bind]. set (e := Z.land _ 63). set (m := u32 (_ + _)).
  assert (He' : e = exp) by (subst e; change 63 with (Z.ones 6); rewrite Z.land_ones, Z.shiftr_div_pow2 by lia; zdm).
  assert (Hm : m = mantissa).
  { subst m. change 3 with (Z.ones 2). rewrite Z.land_ones, !Z.shiftl_mul_pow2 by lia. unfold u32. zdm. }
  rewrite He', Hm. clearbody e m. subst e m.
  match goal with |- context [block_left ?p] => moved Hi p; rewrite (inside_left p _ _ Hi) end.
  rewrite HC, (proj2 (Z.ltb_ge _ _)) by lia. rewrite <- (app_nil_r (concat _)) in Hi. unfold Zlen at 1. rewrite Nat2Z.id.
  match goal with |- context [remb_ssrcs _ ?p _] => moved Hi p; destruct (remb_ssrcs_at ssrcs p [] r [] Hi B6) as [-> Hi'] end;
    [rewrite (@Zlen_nil Z); unfold MAX_NUMBER_OF_REMB_FEEDBACK_SSRCS; lia|]. cbn [flow_bind app].
  split; [reflexivity|]. split; [done|]. split; [done|]. split; [done|]. ended r Hi'.
Qed.


Lemma app_pieces_continue fuel data p e r :
  (length data <= fuel)%nat -> inside p data r -> state_ p = State_AppItem -> ptrRTCPBlockEnd_ p = e -> Zlen data mod 4 = 0 ->
  continues (R := R) p e ((fun d => (kRtcpAppItemCode, fun u => APP (app_header u) (Some d))) <$> app_pieces fuel data).
Proof.
  revert data p. induction fuel as [|fuel IH]; intros [|x data] p Hf Hi Hs He Hm; cbn [app_pieces fmap list_fmap];
    try (by apply continues_nil; subst e; eapply inside_done; [exact Hi|]; unfold counted; rewrite Hs); [cbn in Hf; lia|].
  set (l := x :: data) in *. assert (Hx : l <> []) by done. assert (Hlen : 4 <= Zlen l) by (subst l; rewrite Zlen_cons in *; pose proof (Zlen_nonneg data); zdm).
  remember (if kRtcpAppCode_DATA_SIZE <? Zlen l then kRtcpAppCode_DATA_SIZE else Zlen l) as n eqn:Heqn.
  assert (Hn : n = Zlen (ztake kRtcpAppCode_DATA_SIZE l) /\ 4 <= n <= Zlen l /\ (n = Zlen l \/ n = 128)).
  { subst n. unfold kRtcpAppCode_DATA_SIZE. destruct (Z.ltb_spec 128 (Zlen l)); [rewrite Zlen_ztake; lia|rewrite ztake_all; lia]. }
  destruct Hn as (En & Hn & Hn'). eapply continues_item; [apply Hi|by rewrite Hs|done|]. eexists. unfold ParseAPPItem.
  match goal with |- context [block_left ?p] => moved Hi p; rewrite (inside_left p _ _ Hi) end. rewrite (proj2 (Z.ltb_ge _ 4)), <- Heqn by lia.
  rewrite <- (ztake_zdrop kRtcpAppCode_DATA_SIZE l) in Hi.
  match goal with |- context [blk_get (rtcpData ?p) _ _] => moved Hi p; destruct (inside_blk (R := R) p _ _ r n Hi En) as [-> Hi'] end;
    [intros E0; rewrite E0, (@Zlen_nil Z) in En; lia|]. cbn [flow_bind].
  split; [reflexivity|]. split; [done|]. split; [done|]. split; [done|].
  assert (Hz : Zlen (zdrop kRtcpAppCode_DATA_SIZE l) = Zlen l - n).
  { rewrite <- (ztake_zdrop kRtcpAppCode_DATA_SIZE l) at 2. rewrite Zlen_app. lia. }
  match goal with |- continues ?p _ _ => moved Hi' p end. apply IH; [|exact Hi'|exact Hs|exact He|].
  - unfold Zlen in *. subst l. cbn [length] in *. lia.
  - rewrite Hz. destruct Hn' as [->| ->]; zdm.
Qed.

Lemma APP_yields subtype SSRC name data :
  block_ok (APP_block subtype SSRC name data) ->
  yields (block_bytes (APP_block subtype SSRC name data)) (block_reports (APP_block subtype SSRC name data)).
Proof.
  intros (B1 & B2 & B3 & B4 & B5) p pos r Hs E. pose proof (Zlen_nonneg data).
  assert (HL : Zlen (be32 SSRC ++ be32 name ++ data) = 8 + Zlen data) by (rewrite !Zlen_app, !Zlen_be32; lia).
  eapply continues_block; [exact Hs|exact E|lia|rewrite HL; zdm|lia|done|]. enter Hi Hl. rewrite HL in Hl.
  eexists. unfold ParseAPP. left_in q. rewrite (proj2 (Z.ltb_ge _ 12)) by lia. do 2 iget Hi.
  split; [reflexivity|]. split; [done|]. split; [done|]. split; [done|].
  match goal with |- continues ?p _ _ => moved Hi p end. eapply app_pieces_continue; [done|exact Hi|done|exact He|done].
Qed.

(** An extended report up to its block. *)
Ltac extended Hi Hl q r :=
  eexists; unfold ParseXr; left_in q; rewrite Hl; tests; iget Hi;
  split; [reflexivity|]; split; [done|]; split; [done|]; split; [done|];
  item Hi; unfold ParseXrItem; left_of Hi; iget Hi;
  apply (inside_skip _ [0] _ r 1) in Hi; [|done]; rewrite ?skip_plus in Hi; iget Hi; tests.

Lemma ReferenceTime_yields SSRC s f :
  block_ok (ReferenceTime_block SSRC s f) -> yields (block_bytes (ReferenceTime_block SSRC s f)) (block_reports (ReferenceTime_block SSRC s f)).
Proof.
  intros (B1 & B2 & B3) p pos r Hs E. eapply continues_block; [exact Hs|exact E|lia|done|done|done|]. enter Hi Hl.
  extended Hi Hl q r. unfold ParseXrReceiverReferenceTimeItem. left_of Hi. do 2 iget Hi.
  split; [reflexivity|]. split; [done|]. split; [done|]. split; [done|]. ended r Hi.
Qed.

Lemma DLRR_yields SSRC i : block_ok (DLRR_block SSRC i) -> yields (block_bytes (DLRR_block SSRC i)) (block_reports (DLRR_block SSRC i)).
Proof.
  intros (B1 & B2 & B3 & B4) p pos r Hs E. eapply continues_block; [exact Hs|exact E|lia|done|done|done|]. enter Hi Hl.
  extended Hi Hl q r. unfold ParseXrDlrr. tests.
  split; [reflexivity|]. split; [done|]. split; [done|]. split; [done|].
  item Hi. unfold ParseXrDlrrItem. change (numberOfBlocks_ (set_type _ kRtcpNotValidCode)) with 1. left_of Hi. do 3 iget Hi.
  split; [reflexivity|]. split; [done|]. split; [by destruct i|]. split; [done|]. ended r Hi.
Qed.

Lemma VoIP_yields SSRC m : block_ok (VoIP_block SSRC m) -> yields (block_bytes (VoIP_block SSRC m)) (block_reports (VoIP_block SSRC m)).
Proof.
  intros (B0 & B1 & B2 & B3 & B4 & B5 & B6 & B7 & B8) p pos r Hs E. eapply continues_block; [exact Hs|exact E|lia|done|done|done|]. enter Hi Hl.
  extended Hi Hl q r. unfold ParseXrVoipMetricItem. left_of Hi. unfold metric_bytes in Hi. do 18 iget Hi.
  apply (inside_skip _ [0] _ r 1) in Hi; [|done]. rewrite ?skip_plus in Hi. do 3 iget Hi.
  split; [reflexivity|]. split; [done|]. split; [by destruct m|]. split; [done|]. ended r Hi.
Qed.

(** ** Source descriptions *)

Lemma sdes_align_at fuel p n : (4 - n mod 4) mod 4 <= Z.of_nat fuel -> sdes_align fuel p n = skip p ((4 - n mod 4) mod 4).
Proof.
  assert (H0 : forall p, skip p 0 = p) by (intros []; unfold skip; gsimp; by rewrite Z.add_0_r).
  revert p n. induction fuel as [|fuel IH]; intros p n Hf; cbn [sdes_align].
  - replace ((4 - n mod 4) mod 4) with 0 by zdm. by rewrite H0.
  - destruct (Z.eqb_spec (n mod 4) 0) as [E|E]; [rewrite E; change ((4 - 0) mod 4) with 0; by rewrite H0|].
    rewrite IH, skip_plus by zdm. f_equal. zdm.
Qed.

Lemma cname_loop_at name acc p bs r :
  inside p (acc ++ name ++ bs) r -> Forall (fun c => cname_illegal c = false) name -> Zlen (acc ++ name) < RTCP_CNAME_SIZE ->
  cname_loop (R := R) (length name) p (Zlen acc) acc = Cont (true, acc ++ name).
Proof.
  revert acc. induction name as [|c name IH]; intros acc Hi Hc Hl; cbn [cname_loop length].
  - rewrite app_nil_r in *. by rewrite (proj2 (Z.leb_gt _ _)) by lia.
  - apply Forall_cons in Hc as [Hc Hcs]. pose proof (Zlen_nonneg acc). pose proof (Zlen_nonneg name).
    rewrite Zlen_app, Zlen_cons in Hl. unfold Zlen at 1.
    rewrite (inside_rd (R := R) p _ r (length acc) c Hi) by (rewrite lookup_app_r, Nat.sub_diag by lia; done). cbn [flow_bind].
    rewrite Hc. fold (Zlen acc). rewrite (proj2 (Z.leb_gt _ _)) by lia. replace (Zlen acc + 1) with (Zlen (acc ++ [c])) by (rewrite Zlen_app; change (Zlen [c]) with 1; lia).
    rewrite IH; [by rewrite <- app_assoc|rewrite <- app_assoc; exact Hi|done|].
    rewrite !Zlen_app. change (Zlen [c]) with 1. lia.
Qed.

Lemma ParseSDESItem_chunk fuel p name bs r :
  (2 <= fuel)%nat -> name_ok name -> inside p ([1; Zlen name] ++ name ++ replicate (Z.to_nat (chunk_padding name)) 0 ++ bs) r ->
  exists p1, ParseSDESItem (R := R) fuel p 0 false = Cont (true, p1) /\ inside p1 bs r /\ packet_ p1 = CName None name
    /\ packetType_ p1 = kRtcpSdesChunkCode /\ state_ p1 = state_ p /\ numberOfBlocks_ p1 = numberOfBlocks_ p
    /\ ptrRTCPBlockEnd_ p1 = ptrRTCPBlockEnd_ p /\ rtcpData p1 = rtcpData p.
Proof.
  intros Hf [Hc Hn] Hi. destruct fuel as [|[|fuel]]; [lia..|]. pose proof (Zlen_nonneg name). pose proof (Zlen_nonneg bs).
  assert (Hpad : 1 <= chunk_padding name <= 4) by (unfold chunk_padding; zdm). set (k := chunk_padding name) in *.
  assert (HR : Zlen (replicate (Z.to_nat k) 0) = k) by (apply Zlen_replicate; lia).
  assert (HB := inside_left _ _ _ Hi). rewrite !Zlen_app, HR in HB. change (Zlen [1; Zlen name]) with 2 in HB. unfold block_left in HB.
  cbn [ParseSDESItem]. rewrite (proj2 (Z.ltb_lt (ptrRTCPData_ p) _)) by lia. cbn [negb]. iget Hi. tests.
  gsimp. rewrite (proj2 (Z.ltb_lt _ _)) by lia. iget Hi. tests. gsimp. rewrite (proj2 (Z.leb_gt _ _)) by lia.
  assert (Hi0 := Hi). match goal with |- context [cname_loop _ ?p _ _] => moved Hi0 p;
    assert (HC := cname_loop_at name [] p _ r Hi0 Hc Hn) end.
  unfold Zlen at 1. rewrite Nat2Z.id. rewrite (@Zlen_nil Z) in HC. rewrite HC. cbn [flow_bind app negb].
  apply (inside_skip _ name _ r (Zlen name)) in Hi; [|done].
  replace (Z.to_nat k) with (S (Z.to_nat (k - 1))) in Hi by lia. cbn [replicate app] in Hi.
  gsimp. rewrite (proj2 (Z.ltb_lt _ _)) by lia. cbn [negb]. iget Hi. tests.
  assert (HA : (4 - (0 + 1 + 1 + Zlen name + 1) mod 4) mod 4 = k - 1) by (subst k; unfold chunk_padding in *; zdm).
  rewrite sdes_align_at, HA by lia. eexists. split; [reflexivity|].
  apply (inside_skip _ (replicate (Z.to_nat (k - 1)) 0) bs r (k - 1)) in Hi; [|rewrite Zlen_replicate; lia].
  split; [|done]. match goal with |- inside ?p _ _ => moved Hi p end. exact Hi.
Qed.

Lemma chunks_continue chunks p e r :
  inside p (concat (chunk_bytes <$> chunks)) r -> state_ p = State_SDESChunk -> numberOfBlocks_ p = Zlen chunks ->
  ptrRTCPBlockEnd_ p = e -> Zlen chunks < 32 -> Forall (fun c => is_u32 c.1 /\ name_ok c.2) chunks ->
  continues (R := R) p e ((fun c => whole kRtcpSdesChunkCode (CName (Some c.1) c.2)) <$> chunks).
Proof.
  revert p. induction chunks as [|[SSRC name] chunks IH]; intros p Hi Hs Hn He Hl Hok.
  - apply continues_nil. subst e. eapply inside_done; [exact Hi|]. unfold counted. rewrite Hs, Hn. done.
  - apply Forall_cons in Hok as [[B1 B2] Hok]. pose proof (Zlen_nonneg chunks). rewrite Zlen_cons in *.
    cbn [fmap list_fmap concat] in Hi. unfold chunk_bytes at 1 in Hi. cbn [fst snd] in *. rewrite <- !app_assoc in Hi.
    eapply continues_item; [apply Hi|by rewrite Hs|done|].
    assert (HL := inside_left _ _ _ Hi). rewrite !Zlen_app, Zlen_be32 in HL. change (Zlen [1; Zlen name]) with 2 in HL.
    pose proof (Zlen_nonneg name). pose proof (Zlen_nonneg (concat (chunk_bytes <$> chunks))). pose proof (Zlen_nonneg (replicate (Z.to_nat (chunk_padding name)) 0)).
    assert (HD := inside_len _ _ _ Hi ltac:(done)). rewrite !Zlen_app, Zlen_be32 in HD. change (Zlen [1; Zlen name]) with 2 in HD. pose proof (Zlen_nonneg r).
    assert (Hp : 0 <= ptrRTCPData_ p) by apply Hi.
    unfold ParseSDESChunk. change (numberOfBlocks_ (set_type p kRtcpNotValidCode)) with (numberOfBlocks_ p). rewrite Hn, (proj2 (Z.leb_gt _ _)) by lia.
    change (rtcpData (set_type p kRtcpNotValidCode)) with (rtcpData p). unfold Zlen in HD at 5. remember (length (rtcpData p)) as fuel eqn:Hfuel.
    destruct fuel as [|fuel]; [lia|]. cbn [sdes_chunks]. unfold block_left in *. gsimp. rewrite (proj2 (Z.ltb_lt _ _)), (proj2 (Z.ltb_ge _ 4)) by lia. cbn [negb].
    iget Hi. match goal with |- context [ParseSDESItem ?f ?p 0 false] =>
      moved Hi p; destruct (ParseSDESItem_chunk f p name _ r ltac:(cbn; unfold Zlen in *; lia) B2 Hi) as (p1 & -> & P1 & P2 & P3 & P4 & P5 & P6 & P7) end.
    cbn [flow_bind]. eexists. split; [reflexivity|]. split; [exact P3|]. split; [cbn [packet_ set_packet]; by rewrite P2|]. split; [exact P7|].
    apply IH; [|cbn [state_ set_packet]; rewrite P4; exact Hs| |cbn [ptrRTCPBlockEnd_ set_packet]; rewrite P6; exact He|lia|exact Hok].
    + match goal with |- inside ?p _ _ => moved P1 p end. exact P1.
    + cbn [numberOfBlocks_ set_packet]. rewrite P5. gsimp. rewrite u8_id; cint.
Qed.

Lemma Zlen_chunk c : Zlen (chunk_bytes c) = 6 + Zlen c.2 + chunk_padding c.2.
Proof.
  unfold chunk_bytes. rewrite !Zlen_app, Zlen_be32, Zlen_replicate by (unfold chunk_padding; zdm). change (Zlen [1; Zlen c.2]) with 2. lia.
Qed.

Lemma SDES_yields chunks : block_ok (SDES_block chunks) -> yields (block_bytes (SDES_block chunks)) (block_reports (SDES_block chunks)).
Proof.
  intros (B1 & B2 & B3) p pos r Hs E. pose proof (Zlen_nonneg chunks).
  assert (HL : Zlen (concat (chunk_bytes <$> chunks)) mod 4 = 0 /\ 8 * Zlen chunks <= Zlen (concat (chunk_bytes <$> chunks)) <= 268 * Zlen chunks).
  { clear - B3. induction B3 as [|[SSRC name] chunks [_ [_ C]] _ IH]; [done|]. cbn [fmap list_fmap concat]. rewrite Zlen_app, Zlen_cons.
    unfold RTCP_CNAME_SIZE in C. rewrite Zlen_chunk. cbn [snd] in *. pose proof (Zlen_nonneg name). unfold chunk_padding. destruct IH as [I1 I2]. split; zdm. }
  destruct HL as [HL1 HL2].
  eapply continues_block; [exact Hs|exact E|lia|exact HL1|lia|done|]. enter Hi Hl.
  eexists. unfold ParseSDES. left_in q. assert (0 < Zlen chunks) by (destruct chunks; [done|rewrite Zlen_cons; pose proof (Zlen_nonneg chunks); lia]).
  rewrite (proj2 (Z.ltb_ge _ 8)) by lia. split; [reflexivity|]. split; [done|]. split; [done|]. split; [done|].
  eapply chunks_continue; [|done|done|exact He|done|done]. match goal with |- inside ?p _ _ => moved Hi p end. exact Hi.
Qed.

(** Every block gives its reports, wherever it is in a packet. *)
Lemma block_yields b : block_ok b -> yields (block_bytes b) (block_reports b).
Proof.
  destruct b; [apply SR_yields|apply RR_yields|apply SDES_yields|apply IJ_yields|apply PLI_yields|apply FIR_yields|apply SLI_yields
    |apply RPSI_yields|apply REMB_yields|apply BYE_yields|apply APP_yields|apply TMMBR_yields|apply TMMBN_yields|apply NACK_yields
    |apply VoIP_yields|apply ReferenceTime_yields|apply DLRR_yields].
Qed.

Lemma yields_nil : yields [] [].
Proof. intros p pos r Hs _. rewrite (@Zlen_nil Z), Z.add_0_r. by apply continues_nil. Qed.

Lemma steps_app p l p1 l' p2 : steps (R := R) p l p1 -> steps (R := R) p1 l' p2 -> steps (R := R) p (l ++ l') p2.
Proof. induction 1 as [|p p1 l p' E Ht _ IH]; intros H2; [done|]. cbn. eapply steps_cons; eauto. Qed.

Lemma yields_app bs bs' es es' : yields bs es -> yields bs' es' -> yields (bs ++ bs') (es ++ es').
Proof.
  intros Y1 Y2 p pos r Hs E. rewrite <- app_assoc in E. destruct (Y1 p pos _ Hs E) as (p1 & S1 & T1 & D1 & U1).
  destruct Hs as (_ & H0 & _). pose proof (Zlen_nonneg bs).
  destruct (Y2 p1 (pos + Zlen bs) r T1) as (p2 & S2 & T2 & D2 & U2); [rewrite D1; by apply (zdrop_past _ _ bs)|].
  exists p2. rewrite run_app, final_app, <- U1, Zlen_app, Z.add_assoc, <- D1. split; [by eapply steps_app|done].
Qed.

Lemma blocks_yield bs : Forall block_ok bs -> yields (concat (block_bytes <$> bs)) (concat (block_reports <$> bs)).
Proof.
  induction 1 as [|b bs Hb _ IH]; [apply yields_nil|]. cbn [fmap list_fmap concat]. apply yields_app; [by apply block_yields|done].
Qed.

(** ** Whole packets *)

Lemma reports_steps fuel p l p' q :
  steps (R := R) p l p' -> packetType_ p <> kRtcpNotValidCode -> Iterate (R := R) p' = Cont q -> packetType_ q = kRtcpNotValidCode ->
  (length l < fuel)%nat -> reports (R := R) fuel p = Cont ((packetType_ p, packet_ p) :: l, q).
Proof.
  intros Hs. revert fuel. induction Hs as [p|p p1 l p' E Ht _ IH]; intros [|fuel] Hp Eq Tq Hf; cbn in Hf; try lia;
    cbn [reports]; unfold PacketType; rewrite decide_False by done.
  - rewrite Eq. cbn [flow_bind]. destruct fuel; cbn [reports]; unfold PacketType; by rewrite decide_True by done.
  - rewrite E. cbn [flow_bind]. rewrite IH by (done || lia). done.
Qed.

Lemma standing_end p : standing (R := R) p (Zlen (rtcpData p)) -> exists q, Iterate (R := R) p = Cont q /\ packetType_ q = kRtcpNotValidCode.
Proof.
  intros (Hv & _ & d & Hd & Hr). destruct (ready_iterate d p _ (length (rtcpData p) + 3) Hr ltac:(lia) Hv) as (q & Ei & Q1 & Q2 & Q3 & Q4 & Q5 & Q6).
  exists q. split; [|done]. unfold Iterate. rewrite Ei. unfold IterateTopLevel. rewrite Q3.
  assert (Hh : RTCPParseCommonHeader (R := R) (rtcpData q) (ptrRTCPData_ q) = Cont None)
    by (unfold RTCPParseCommonHeader; rewrite Q2, Q3, Z.sub_diag; done).
  destruct (length (rtcpData p)); cbn [top_level]; by rewrite Hh.
Qed.

Lemma block_reports_some b : block_reports b <> [].
Proof. by destruct b. Qed.

Lemma app_pieces_fit fuel data : Zlen data mod 4 = 0 -> 4 * Zlen (app_pieces fuel data) <= Zlen data.
Proof.
  revert data. induction fuel as [|fuel IH]; intros [|x data] Hm; cbn [app_pieces]; rewrite ?(@Zlen_nil (list Z)); try (pose proof (Zlen_nonneg (x :: data)); lia); [done..|].
  set (l := x :: data) in *. assert (4 <= Zlen l) by (subst l; rewrite Zlen_cons in *; pose proof (Zlen_nonneg data); zdm).
  rewrite Zlen_cons. assert (HZ : Zlen (zdrop kRtcpAppCode_DATA_SIZE l) = Z.max 0 (Zlen l - 128)).
  { unfold kRtcpAppCode_DATA_SIZE. destruct (Z.le_gt_cases 128 (Zlen l)); [rewrite Zlen_zdrop; lia|]. rewrite zdrop_all, (@Zlen_nil Z); lia. }
  assert (HI := IH (zdrop kRtcpAppCode_DATA_SIZE l)). rewrite HZ in HI. specialize (HI ltac:(zdm)). lia.
Qed.

Lemma chunks_fit chunks : 8 * Zlen chunks <= Zlen (concat (chunk_bytes <$> chunks)).
Proof.
  induction chunks as [|c chunks IH]; [done|]. cbn [fmap list_fmap concat]. rewrite Zlen_app, Zlen_cons, Zlen_chunk.
  pose proof (Zlen_nonneg c.2). unfold chunk_padding. zdm.
Qed.

Lemma reports_fit b : block_ok b -> 4 * Zlen (block_reports b) <= Zlen (block_bytes b).
Proof.
  assert (HZ : forall A B (f : A -> B) l, Zlen (f <$> l) = Zlen l) by (intros; unfold Zlen; by rewrite length_fmap).
  destruct b; intros Hok; cbn [block_reports block_bytes]; rewrite Zlen_header, ?(@Zlen_cons Report), ?HZ, ?(@Zlen_nil Report), ?Zlen_app, ?Zlen_fb, ?Zlen_be32, ?Zlen_be16;
    repeat match goal with |- context [Zlen (concat (be32 <$> ?l))] => rewrite (Zlen_concat be32 l 4) by done; pose proof (Zlen_nonneg l) end;
    try (rewrite (Zlen_concat report_bytes _ 24) by done; pose proof (Zlen_nonneg blocks); lia);
    try (rewrite (Zlen_concat nack_bytes _ 4) by done; pose proof (Zlen_nonneg items); lia);
    try (rewrite (Zlen_concat set_bytes _ 8) by (by intros [[[? ?] ?] ?] _); pose proof (Zlen_nonneg set); lia);
    try (unfold Zlen; cbn [length]; lia).
  - pose proof (chunks_fit chunks). destruct Hok as [Hne _]. assert (0 < Zlen chunks) by (destruct chunks; [done|rewrite Zlen_cons; pose proof (Zlen_nonneg chunks); lia]). lia.
  - destruct Hok as (_ & _ & _ & Hm & _). pose proof (app_pieces_fit (length data) data Hm). lia.
Qed.

Lemma header_type b0 pt tl h : RTCPParseCommonHeader (R := R) (b0 :: pt :: tl) 0 = Cont (Some h) -> rh_PT h = pt.
Proof.
  unfold RTCPParseCommonHeader. rewrite Z.sub_0_r. change (rd (b0 :: pt :: tl) 0) with (Cont (R := R) b0).
  change (rd (b0 :: pt :: tl) (0 + 1)) with (Cont (R := R) pt). cbn [flow_bind]. destruct (_ <? 4); [done|].
  destruct (rd _ _) as [b2| |]; cbn [flow_bind]; try done. destruct (rd _ _) as [b3| |]; cbn [flow_bind]; try done.
  destruct (_ =? 0); [done|]. destruct (negb _); [done|]. by intros [= <-].
Qed.

Lemma Zlen_run u es : Zlen (run u es) = Zlen es.
Proof. revert u. induction es as [|[t f] es IH]; intros u; [done|]. cbn. by rewrite !Zlen_cons, IH. Qed.

Lemma packet_reports bs reduced :
  bs <> [] -> Forall block_ok bs -> reduced = true \/ (exists sr l, head bs = Some (SR_block sr l)) \/ (exists s l, head bs = Some (RR_block s l)) ->
  exists q, parse_all (R := R) (concat (block_bytes <$> bs)) reduced = Cont (run NoPacket (concat (block_reports <$> bs)), q).
Proof.
  intros Hne Hok Hfirst. set (data := concat (block_bytes <$> bs)). set (es := concat (block_reports <$> bs)).
  set (p0 := mkRTCPParserV2 data reduced true 0 0 State_TopLevel 0 kRtcpNotValidCode NoPacket).
  destruct (blocks_yield bs Hok p0 0 []) as (p' & S1 & S2 & S3 & S4); [by apply standing_top|by rewrite app_nil_r|].
  fold es in S1. fold data in S2. rewrite Z.add_0_l in S2. change (packet_ p0) with NoPacket in S1.
  destruct (standing_end p') as (q & Eq & Tq); [by rewrite S3|]. exists q.
  assert (Hes : es <> []) by (subst es; destruct bs as [|b bs]; [done|]; cbn; intros [E _]%app_eq_nil; by apply block_reports_some in E).
  destruct (run NoPacket es) as [|x l] eqn:El; [by destruct es as [|[? ?] ?]|].
  inversion S1 as [|? p1 l' ? E1 T1 S1']; subst.
  assert (Hlen : 4 * (1 + Zlen l) <= Zlen data).
  { rewrite <- (Zlen_cons (packetType_ p1, packet_ p1)), <- El, Zlen_run. subst es data. clear - Hok.
    induction Hok as [|b bs Hb _ IH]; [done|]. cbn [fmap list_fmap concat]. rewrite !Zlen_app. pose proof (reports_fit b Hb). lia. }
  assert (Hc : (length l < length data)%nat) by (unfold Zlen in *; lia).
  assert (Hh : exists h, RTCPParseCommonHeader (R := R) data 0 = Cont (Some h) /\ (reduced || (rh_PT h =? PT_SR) || (rh_PT h =? PT_RR)) = true).
  { revert E1. unfold Iterate. rewrite Nat.add_comm. subst p0. cbn [iterate Nat.add IsValid]. gsimp. cbn [parse_of].
    unfold IterateTopLevel. gsimp. destruct (length data) as [|n]; [lia|]. cbn [top_level]. gsimp.
    destruct (RTCPParseCommonHeader data 0) as [[h|]| |] eqn:Eh; cbn [flow_bind]; try done; [|by intros [= <-]]. intros _. exists h. split; [done|].
    destruct Hfirst as [->|[(sr & k & Hb)|(s & k & Hb)]]; [done|..]; destruct bs as [|b bs]; try done; injection Hb as ->; subst data;
      cbn [fmap list_fmap concat block_bytes] in Eh; unfold header in Eh; cbn [app] in Eh; apply header_type in Eh; rewrite Eh; [by rewrite orb_true_r|by rewrite orb_comm]. }
  destruct Hh as (h & Hh & Hpt). unfold parse_all, new_RTCPParserV2, Validate. gsimp. rewrite Hh. cbn [flow_bind].
  replace (negb reduced && _ && _) with false by (destruct reduced, (rh_PT h =? PT_SR), (rh_PT h =? PT_RR); done).
  cbn [flow_bind]. unfold Begin. change (set_ptr (set_valid _) 0) with p0. rewrite E1. cbn [flow_bind].
  by apply (reports_steps _ _ _ p').
Qed.
End yields.
