(* ===== verification/RtcpBuild.v ===== *)
(** * What the builders of the RTCP sender write

    Every builder appends the bytes of one block ([block_bytes]) to the packet, or reports
    that there is no room. *)
From S2P Require Import Prelude RtpWire RtcpParser RtcpSteps RtcpBlocks StdMap RtcpSender.
Local Open Scope Z_scope.

(** ** A packet under construction *)

(** The bytes [a] are written at the start of the buffer [buf]. *)
Definition W (buf a : list Z) : Out := (put buf 0 a, Zlen a).

Definition bytes (bs : list Z) : list Z := u8 <$> bs.

Lemma bytes_id bs : Forall is_u8 bs -> bytes bs = bs.
Proof. induction 1 as [|b bs Hb _ IH]; [done|]. unfold bytes in *. cbn [fmap list_fmap]. rewrite u8_id by done. by f_equal. Qed.

Lemma Zlen_bytes bs : Zlen (bytes bs) = Zlen bs.
Proof. unfold Zlen, bytes. by rewrite length_fmap. Qed.

Lemma Zlen_two {A} (g : list A) : Zlen g = 2 -> exists x y, g = [x; y].
Proof. intros Hg. destruct g as [|x [|y [|z g]]]; try done; [by exists x, y|]. unfold Zlen in Hg. cbn [length] in Hg. lia. Qed.

Section writes.
Context {R : Type} (buf : list Z).
Implicit Types a bs : list Z.

Lemma out8_W bs a : Zlen a + Zlen bs <= Zlen buf -> out8 (R := R) (W buf a) bs = Cont (W buf (a ++ bytes bs)).
Proof.
  revert a. induction bs as [|b bs IH]; intros a Hl; cbn [out8 bytes fmap list_fmap]; [by rewrite app_nil_r|].
  rewrite Zlen_cons in Hl. pose proof (Zlen_nonneg a). pose proof (Zlen_nonneg bs). unfold W.
  rewrite put_step by (done || lia). cbn [flow_bind]. replace (Zlen a + 1) with (Zlen (a ++ [u8 b])) by (rewrite Zlen_app; done).
  change (put buf 0 (a ++ [u8 b]), Zlen (a ++ [u8 b])) with (W buf (a ++ [u8 b])).
  rewrite IH by (rewrite Zlen_app; change (Zlen [u8 b]) with 1; lia). by rewrite <- app_assoc.
Qed.

Lemma out32_W a v : Zlen a + 4 <= Zlen buf -> out32 (R := R) (W buf a) v = Cont (W buf (a ++ be32 v)).
Proof.
  intros Hl. pose proof (Zlen_nonneg a). unfold out32, W. rewrite AssignUWord32_step by (done || lia). cbn [flow_bind].
  by rewrite Zlen_app.
Qed.

Lemma out24_W a v : Zlen a + 3 <= Zlen buf -> out24 (R := R) (W buf a) v = Cont (W buf (a ++ be24 v)).
Proof.
  intros Hl. pose proof (Zlen_nonneg a). unfold out24, W. rewrite AssignUWord24_step by (done || lia). cbn [flow_bind].
  by rewrite Zlen_app.
Qed.

Lemma out16_W a v : Zlen a + 2 <= Zlen buf -> out16 (R := R) (W buf a) v = Cont (W buf (a ++ be16 v)).
Proof.
  intros Hl. pose proof (Zlen_nonneg a). unfold out16, W. rewrite AssignUWord16_step by (done || lia). cbn [flow_bind].
  by rewrite Zlen_app.
Qed.

Lemma out_copy_W a bs : Zlen a + Zlen bs <= Zlen buf -> out_copy (R := R) (W buf a) bs = Cont (W buf (a ++ bs)).
Proof.
  intros Hl. pose proof (Zlen_nonneg a). pose proof (Zlen_nonneg bs). unfold out_copy, W.
  rewrite blk_put_Cont by (rewrite ?Zlen_put; lia). cbn [flow_bind]. rewrite Zlen_app. do 2 f_equal.
  rewrite <- (put_put buf 0 a bs) by lia. done.
Qed.

(** Positions that are passed over keep what the buffer had. *)
Lemma out_skip_W a n : 0 <= n -> Zlen a + n <= Zlen buf -> exists g, Zlen g = n /\ out_skip (W buf a) n = W buf (a ++ g).
Proof.
  intros Hn Hl. pose proof (Zlen_nonneg a). exists (ztake n (zdrop (0 + Zlen a) buf)).
  assert (Hg : Zlen (ztake n (zdrop (0 + Zlen a) buf)) = n) by (apply Zlen_ztake; rewrite Zlen_zdrop; lia).
  split; [done|]. unfold out_skip, W. rewrite Zlen_app, Hg. f_equal. by apply put_extend; lia.
Qed.

(** A store over bytes that were written. *)
Lemma out16_back a g c v : Zlen g = 2 -> Zlen a + 2 + Zlen c <= Zlen buf ->
  out16 (R := R) ((W buf (a ++ g ++ c)).1, Zlen a) v = Cont (put buf 0 (a ++ be16 v ++ c), Zlen a + 2).
Proof.
  intros Hg Hl. pose proof (Zlen_nonneg a). pose proof (Zlen_nonneg c). unfold out16, W. cbn [fst].
  rewrite AssignUWord16_put by (rewrite ?Zlen_put; rewrite ?Zlen_app; lia). cbn [flow_bind].
  by rewrite (put_inside buf 0 a g) by (rewrite ?Zlen_be16; lia).
Qed.

Lemma wr_back a b b' c : Zlen a + 1 + Zlen c <= Zlen buf ->
  wr (R := R) (put buf 0 (a ++ [b] ++ c)) (Zlen a) b' = Cont (put buf 0 (a ++ [b'] ++ c)).
Proof.
  intros Hl. pose proof (Zlen_nonneg a). pose proof (Zlen_nonneg c).
  rewrite put_one by (rewrite Zlen_put; rewrite ?Zlen_app; change (Zlen [b]) with 1; lia).
  by rewrite (put_inside buf 0 a [b] [b'] c) by (done || (change (Zlen [b]) with 1; lia)).
Qed.

Lemma out_all_W {A} (put1 : Out -> A -> flow R Out) (enc : A -> list Z) l a :
  (forall x a, x ∈ l -> Zlen a + Zlen (enc x) <= Zlen buf -> put1 (W buf a) x = Cont (W buf (a ++ enc x))) ->
  Zlen a + Zlen (concat (enc <$> l)) <= Zlen buf -> out_all put1 (W buf a) l = Cont (W buf (a ++ concat (enc <$> l))).
Proof.
  revert a. induction l as [|x l IH]; intros a Hp Hl; cbn [out_all fmap list_fmap concat] in *; [by rewrite app_nil_r|].
  rewrite Zlen_app in Hl. pose proof (Zlen_nonneg (concat (enc <$> l))). rewrite Hp by (constructor || lia). cbn [flow_bind].
  rewrite IH, <- app_assoc; [done| |rewrite Zlen_app; lia]. intros y b Hy. apply Hp. by constructor.
Qed.
End writes.

(** The builder appends [b] when [need] bytes are left, and else has the code -2. *)
Definition appends {R : Type} (buf : list Z) (m : flow R (Z * RTCPSender * Out)) (self self' : RTCPSender) (a : list Z) (need : Z) (b : Block) : Prop :=
  m = if IP_PACKET_SIZE <=? Zlen a + need then Cont (-2, self, W buf a) else Cont (0, self', W buf (a ++ block_bytes b)).

Ltac wlen := rewrite ?Zlen_app, ?Zlen_bytes, ?Zlen_app, ?Zlen_be16, ?Zlen_be24, ?Zlen_be32, ?(@Zlen_cons Z), ?(@Zlen_nil Z); unfold IP_PACKET_SIZE in *; lia.
Ltac wstep :=
  match goal with
  | |- context [out8 (W ?buf ?a) ?bs] => rewrite (out8_W buf bs a) by wlen
  | |- context [out32 (W ?buf ?a) ?v] => rewrite (out32_W buf a v) by wlen
  | |- context [out24 (W ?buf ?a) ?v] => rewrite (out24_W buf a v) by wlen
  | |- context [out16 (W ?buf ?a) ?v] => rewrite (out16_W buf a v) by wlen
  | |- context [out_copy (W ?buf ?a) ?v] => rewrite (out_copy_W buf a v) by wlen
  end; cbn [flow_bind].
Ltac room a need := unfold appends; pose proof (Zlen_nonneg a); change (W _ a).2 with (Zlen a); destruct (Z.leb_spec IP_PACKET_SIZE (Zlen a + need)); [done|].
Ltac same_bytes := rewrite <- ?app_assoc; reflexivity.

Section builders.
Context `{Machine} {R : Type} (buf : list Z).
Hypothesis Hbuf : Zlen buf = IP_PACKET_SIZE.

Definition fb_of (self : RTCPSender) : RTCPPacketFB := mkFB (own_ssrc self) (remote_ssrc self).
Definition fb_to_none (self : RTCPSender) : RTCPPacketFB := mkFB (own_ssrc self) 0.

Lemma BuildPLI_W self a : appends (R := R) buf (BuildPLI self (W buf a)) self self a 12 (PLI_block (fb_of self)).
Proof. unfold BuildPLI. room a 12. do 3 wstep. same_bytes. Qed.

Definition fir_sender (self : RTCPSender) (repeat : bool) : RTCPSender :=
  if repeat then self else set_sequenceNumberFIR self (u8 (sequenceNumberFIR_ self + 1)).

Definition fir_block (self : RTCPSender) (repeat : bool) : Block :=
  FIR_block (fb_to_none self) (mkFIRItem (remote_ssrc self) (u8 (sequenceNumberFIR_ (fir_sender self repeat)))).

Lemma BuildFIR_W self a repeat : appends (R := R) buf (BuildFIR self (W buf a) repeat) self (fir_sender self repeat) a 20 (fir_block self repeat).
Proof.
  unfold BuildFIR. room a 20.
  fold (fir_sender self repeat). assert (E1 : own_ssrc (fir_sender self repeat) = own_ssrc self) by (by destruct repeat).
  assert (E2 : remote_ssrc (fir_sender self repeat) = remote_ssrc self) by (by destruct repeat). unfold fir_block. rewrite E1, E2.
  do 5 wstep. same_bytes.
Qed.

Lemma BuildExtendedJitterReport_W self a jitter :
  external_report_blocks_ self = [] -> appends (R := R) buf (BuildExtendedJitterReport self (W buf a) jitter) self self a 8 (IJ_block jitter).
Proof. intros He. unfold BuildExtendedJitterReport. rewrite He. change (0 <? Zlen []) with false. room a 8. do 2 wstep. same_bytes. Qed.

Definition sli_block (self : RTCPSender) (pictureID : Z) : Block := SLI_block (fb_of self) (mkSLIItem 0 8191 (Z.land 63 pictureID)).

Lemma BuildSLI_W self a pictureID : appends (R := R) buf (BuildSLI self (W buf a) pictureID) self self a 16 (sli_block self pictureID).
Proof. unfold BuildSLI. room a 16. do 4 wstep. same_bytes. Qed.

Definition sent_xr (self : RTCPSender) (ntp_sec ntp_frac : Z) : RTCPSender :=
  let d := xr_ self in
  let sent := if RTCP_NUMBER_OF_SR <=? Zlen (last_xr_rr_ d) then tail (last_xr_rr_ d) else last_xr_rr_ d in
  set_xr_data self (xrSendReceiverReferenceTimeEnabled_ d) (xrSendVoIPMetric_ d) (xrVoIPMetric_ d)
    (map_insert (MidNtp ntp_sec ntp_frac) (NtpToMs ntp_sec ntp_frac) sent).

Lemma BuildReceiverReferenceTime_W self a s f :
  appends (R := R) buf (BuildReceiverReferenceTime self (W buf a) s f) self (sent_xr self s f) a 20 (ReferenceTime_block (own_ssrc self) s f).
Proof. unfold BuildReceiverReferenceTime. room a 20. do 5 wstep. same_bytes. Qed.

Definition dlrr_block (self : RTCPSender) (info : RtcpReceiveTimeInfo) : Block :=
  DLRR_block (own_ssrc self) (mkDLRRItem (ti_sourceSSRC info) (ti_lastRR info) (ti_delaySinceLastRR info)).

Lemma BuildDlrr_W self a info : appends (R := R) buf (BuildDlrr self (W buf a) info) self self a 24 (dlrr_block self info).
Proof. unfold BuildDlrr. room a 24. do 6 wstep. same_bytes. Qed.

Definition metric_item (self : RTCPSender) : RTCPPacketXRVOIPMetricItem :=
  let m := xrVoIPMetric_ (xr_ self) in
  mkVOIPMetricItem (remote_ssrc self) (u8 (lossRate m)) (u8 (discardRate m)) (u8 (burstDensity m)) (u8 (gapDensity m)) (burstDuration m)
    (gapDuration m) (roundTripDelay m) (endSystemDelay m) (u8 (signalLevel m)) (u8 (noiseLevel m)) (u8 (RERL m)) (u8 (Gmin m))
    (u8 (Rfactor m)) (u8 (extRfactor m)) (u8 (MOSLQ m)) (u8 (MOSCQ m)) (u8 (RXconfig m)) (JBnominal m) (JBmax m) (JBabsMax m).

Lemma BuildVoIPMetric_W self a : appends (R := R) buf (BuildVoIPMetric self (W buf a)) self self a 44 (VoIP_block (own_ssrc self) (metric_item self)).
Proof.
  unfold BuildVoIPMetric. room a 44. wstep. destruct (out_skip_W buf (a ++ bytes [128; 207]) 2 ltac:(lia)) as (g & Hg & ->); [wlen|].
  do 9 wstep. destruct (Zlen_two g Hg) as (x & y & ->). rewrite <- !app_assoc.
  match goal with |- context [a ++ bytes [128; 207] ++ [x; y] ++ ?l] => set (c := l) end.
  assert (Hc : Zlen c = 40) by reflexivity.
  replace (a ++ bytes [128; 207] ++ [x; y] ++ c) with ((a ++ bytes [128; 207]) ++ [x] ++ [y] ++ c) by (by rewrite <- app_assoc).
  change (W buf (a ++ bytes [128; 207])).2 with (Zlen (a ++ bytes [128; 207])). change (W buf ?l).1 with (put buf 0 l).
  rewrite wr_back by wlen. cbn [flow_bind].
  replace ((a ++ bytes [128; 207]) ++ [0] ++ [y] ++ c) with ((a ++ bytes [128; 207; 0]) ++ [y] ++ c) by (by rewrite <- !app_assoc).
  replace (Zlen (a ++ bytes [128; 207]) + 1) with (Zlen (a ++ bytes [128; 207; 0])) by wlen.
  rewrite wr_back by wlen. cbn [flow_bind]. unfold W. cbn [snd].
  assert (E : (a ++ bytes [128; 207; 0]) ++ [10] ++ c = a ++ block_bytes (VoIP_block (own_ssrc self) (metric_item self)))
    by (subst c; rewrite <- !app_assoc; reflexivity).
  rewrite E. do 3 f_equal. rewrite <- E. wlen.
Qed.
End builders.
