(* ===== verification/RtcpLists.v ===== *)
(** * What the builders of blocks with lists write

    The blocks of the RTCP sender whose length depends on its state ([appends]). *)
From S2P Require Import Prelude RtpWire RtcpParser RtcpSteps RtcpBlocks StdMap RtcpSender RtcpBuild.
Local Open Scope Z_scope.

(** ** Headers *)

Lemma be16_small n : 0 <= n < 256 -> be16 n = [0; n].
Proof. intros Hn. unfold be16. rewrite Z.shiftr_div_pow2, Z.div_small by lia. change (u8 0) with 0. by rewrite u8_id by (unfold is_u8; lia). Qed.

(** A header with the number of words of the body. *)
Lemma header_words ic pt body n : Zlen body = 4 * n -> header ic pt body = [128 + ic; pt] ++ be16 n ++ body.
Proof. intros Hn. unfold header. rewrite Hn, Z.mul_comm, Z.div_mul by lia. done. Qed.

Lemma bytes_app a b : bytes (a ++ b) = bytes a ++ bytes b.
Proof. apply fmap_app. Qed.

Lemma bytes_u8 b bs : 0 <= b < 256 -> bytes (b :: bs) = b :: bytes bs.
Proof. intros Hb. unfold bytes. cbn [fmap list_fmap]. by rewrite u8_id by (unfold is_u8; lia). Qed.

(** ** Picture IDs *)

(** The bytes of a picture ID, of seven bits each. *)
Definition picture_bytes (pictureID : Z) : Z := 1 + Z.log2 pictureID / 7.

Fixpoint picture_high (i : nat) (pictureID : Z) : list Z :=
  match i with
  | O => []
  | S i' => Z.lor 128 (u8 (Z.shiftr pictureID (Z.of_nat i * 7))) :: picture_high i' pictureID
  end.

Definition rpsi_padding (pictureID : Z) : Z := - (2 + picture_bytes pictureID) mod 4.

Definition native_bits (pictureID : Z) : list Z :=
  bytes (picture_high (Z.to_nat (picture_bytes pictureID - 1)) pictureID ++ [u8 (Z.land pictureID 127)]
         ++ replicate (Z.to_nat (rpsi_padding pictureID)) 0).

Definition rpsi_block (self : RTCPSender) (pictureID payloadType : Z) : Block :=
  RPSI_block (fb_of self) (rpsi_padding pictureID * 8) (u8 payloadType) (native_bits pictureID).

Lemma length_picture_high i pictureID : length (picture_high i pictureID) = i.
Proof. induction i as [|i IH]; cbn; [done|]. by rewrite IH. Qed.

Lemma picture_bytes_range pictureID : 0 <= pictureID < 2 ^ 63 -> 1 <= picture_bytes pictureID <= 9.
Proof.
  intros Hp. unfold picture_bytes. assert (Z.log2 pictureID < 63).
  { destruct (Z.eq_dec pictureID 0) as [->|]; [done|]. apply Z.log2_lt_pow2; lia. }
  pose proof (Z.log2_nonneg pictureID). zdm.
Qed.

(** ** Bit rates *)

(** The exponent that the loop finds for a mantissa of [bits] bits, and the mantissa. *)
Definition exp_of `{Machine} (bits bitrate : Z) : Z := find_exp 64 0 bitrate (2 ^ bits - 1).
Definition mantissa_of `{Machine} (bits bitrate : Z) : Z := bitrate / 2 ^ exp_of bits bitrate.

Section rates.
Context `{Machine}.

Lemma find_exp_spec bits n i bitrate k :
  16 < bits < 32 -> 0 <= i -> k - i < Z.of_nat n -> i <= k -> k <= 32 - bits -> bitrate <= (2 ^ bits - 1) * 2 ^ k ->
  exists e, find_exp n i bitrate (2 ^ bits - 1) = e /\ i <= e <= k /\ bitrate <= (2 ^ bits - 1) * 2 ^ e.
Proof.
  intros Hb. revert i. induction n as [|n IH]; intros i Hi Hn Hik Hk Hr; [lia|]. cbn [find_exp].
  assert (Hp : 2 ^ bits * 2 ^ i <= 2 ^ 32) by (rewrite <- Z.pow_add_r by lia; apply Z.pow_le_mono_r; lia).
  assert (0 < 2 ^ i) by lia. assert (0 < 2 ^ bits) by lia.
  unfold shl32. rewrite (proj2 (Z.ltb_lt _ _)) by lia. rewrite Z.shiftl_mul_pow2 by lia. rewrite u32_id by (unfold is_u32; nia).
  destruct (Z.leb_spec bitrate ((2 ^ bits - 1) * 2 ^ i)); [by exists i|]. destruct (Z.eq_dec i k) as [->|]; [lia|].
  destruct (IH (i + 1)) as (e & -> & He & Hr'); try lia. exists e. split; [done|]. split; [lia|done].
Qed.

(** The largest rate that fits is that of the largest mantissa and exponent. *)
Definition rate_ok (bits bitrate : Z) : Prop := 0 <= bitrate <= (2 ^ bits - 1) * 2 ^ (32 - bits).

Lemma exp_of_range bits bitrate : 16 < bits < 32 -> rate_ok bits bitrate -> 0 <= exp_of bits bitrate <= 32 - bits.
Proof.
  intros Hb [_ Hr]. destruct (find_exp_spec bits 64 0 bitrate (32 - bits) Hb) as (e & E & He & _); try lia. unfold exp_of. rewrite E. lia.
Qed.

Lemma mantissa_of_range bits bitrate : 16 < bits < 32 -> rate_ok bits bitrate -> 0 <= mantissa_of bits bitrate < 2 ^ bits.
Proof.
  intros Hb [H0 Hr]. destruct (find_exp_spec bits 64 0 bitrate (32 - bits) Hb) as (e & E & He & He'); try lia. unfold mantissa_of, exp_of.
  rewrite E. assert (0 < 2 ^ e) by lia. split; [apply Z.div_pos; lia|]. apply Z.div_lt_upper_bound; [lia|]. nia.
Qed.

Lemma shr32_mantissa bits bitrate : 16 < bits < 32 -> rate_ok bits bitrate -> shr32 bitrate (find_exp 64 0 bitrate (2 ^ bits - 1)) = mantissa_of bits bitrate.
Proof.
  intros Hb Hr. pose proof (exp_of_range _ _ Hb Hr). fold (exp_of bits bitrate). unfold shr32. rewrite (proj2 (Z.ltb_lt _ _)) by lia.
  by rewrite Z.shiftr_div_pow2 by lia.
Qed.
End rates.

(** A need that depends on the state. *)
Ltac roomy a :=
  unfold appends; rewrite Z.add_assoc; pose proof (Zlen_nonneg a); change (W _ a).2 with (Zlen a);
  match goal with |- (if IP_PACKET_SIZE <=? ?x then _ else _) = _ => destruct (Z.leb_spec IP_PACKET_SIZE x); [done|] end.

(** Numbers of bytes that are known. *)
Ltac numerals :=
  repeat match goal with
  | |- context [Z.to_nat ?k] =>
      let v := eval vm_compute in (Z.to_nat k) in
      lazymatch v with O => idtac | S _ => idtac end; change (Z.to_nat k) with v
  end.

Section builders.
Context `{Machine} {R : Type} (buf : list Z).
Hypothesis Hbuf : Zlen buf = IP_PACKET_SIZE.

Lemma rpsi_bytes_count fuel pictureID k :
  0 <= pictureID < 2 ^ 63 -> 1 <= k <= picture_bytes pictureID -> 10 - k <= Z.of_nat fuel ->
  rpsi_bytes (R := R) fuel pictureID (7 * k) k = Cont (picture_bytes pictureID).
Proof.
  intros Hp. assert (Hr := picture_bytes_range _ Hp). revert k. induction fuel as [|fuel IH]; intros k Hk Hf; [lia|]. cbn [rpsi_bytes].
  unfold shr64. rewrite (proj2 (Z.ltb_lt _ _)) by lia. rewrite Z.shiftr_div_pow2 by lia. unfold picture_bytes in Hk.
  destruct (Z.leb_spec (pictureID / 2 ^ (7 * k)) 0) as [H0|H0].
  - f_equal. unfold picture_bytes. assert (Z.log2 pictureID / 7 < k); [|lia]. apply Z.div_lt_upper_bound; [done|].
    destruct (Z.eq_dec pictureID 0) as [->|]; [cbn; lia|]. apply Z.log2_lt_pow2; [lia|].
    destruct (Z.lt_ge_cases pictureID (2 ^ (7 * k))) as [|Hge]; [done|]. apply Z.div_le_mono with (c := 2 ^ (7 * k)) in Hge; [|lia].
    rewrite Z_div_same_full in Hge by lia. lia.
  - assert (Hge : 2 ^ (7 * k) <= pictureID).
    { destruct (Z.le_gt_cases (2 ^ (7 * k)) pictureID); [done|]. rewrite Z.div_small in H0; lia. }
    apply Z.log2_le_mono in Hge. rewrite Z.log2_pow2 in Hge by lia. assert (k <= Z.log2 pictureID / 7) by (apply Z.div_le_lower_bound; lia).
    rewrite u8_id by (unfold is_u8, picture_bytes in *; lia). replace (7 * k + 7) with (7 * (k + 1)) by lia. apply IH; unfold picture_bytes; lia.
Qed.

Lemma out_picture_W a i pictureID :
  Zlen a + Z.of_nat i <= Zlen buf -> out_picture (R := R) i (W buf a) pictureID = Cont (W buf (a ++ bytes (picture_high i pictureID))).
Proof.
  revert a. induction i as [|i IH]; intros a Hl; cbn [out_picture picture_high]; [by rewrite app_nil_r|].
  wstep. rewrite IH by (wlen). by rewrite <- app_assoc.
Qed.

Lemma BuildRPSI_W self a pictureID payloadType :
  0 <= pictureID < 2 ^ 63 ->
  appends (R := R) buf (BuildRPSI self (W buf a) pictureID payloadType) self self a 24 (rpsi_block self pictureID payloadType).
Proof.
  intros Hp. unfold BuildRPSI. room a 24. wstep. rewrite (rpsi_bytes_count 10 _ 1) by (pose proof (picture_bytes_range _ Hp); lia). cbn [flow_bind].
  pose proof (picture_bytes_range _ Hp) as Hr. unfold rpsi_block, native_bits, rpsi_padding. set (n := picture_bytes pictureID) in *.
  assert (Hn : n = 1 \/ n = 2 \/ n = 3 \/ n = 4 \/ n = 5 \/ n = 6 \/ n = 7 \/ n = 8 \/ n = 9) by lia. clearbody n. clear Hr.
  destruct Hn as [->|[->|[->|[->|[->|[->|[->|[->| ->]]]]]]]]; do 4 wstep;
    rewrite out_picture_W by wlen; cbn [flow_bind];
    numerals; cbn [picture_high replicate]; do 2 wstep; same_bytes.
Qed.

(** The words of an array up to a count. *)
Lemma out_words_W (l : list Z) n a :
  0 <= n <= Zlen l -> Zlen a + 4 * n <= Zlen buf ->
  for_up (R := R) (Z.to_nat n) 0 (fun i w => let! x := rd l i in out32 w x) (W buf a) = Cont (W buf (a ++ concat (be32 <$> ztake n l))).
Proof.
  intros Hn Hl. destruct (for_up_inv (R := R) (fun i w => 0 <= i <= n -> w = W buf (a ++ concat (be32 <$> ztake i l)))
    (fun i w => let! x := rd l i in out32 w x) (Z.to_nat n) 0 (W buf a)) as (w & E & Ew).
  - intros _. rewrite ztake_0 by lia. cbn. by rewrite app_nil_r.
  - intros i w Hi Hw. rewrite Z2Nat.id in Hi by lia. rewrite Hw by lia.
    assert (Hx := rd_total (R := R) l i ltac:(lia)). rewrite Hx. cbn [flow_bind].
    rewrite out32_W by (rewrite Zlen_app, (Zlen_concat be32 _ 4), Zlen_ztake by (done || lia); lia).
    eexists. split; [done|]. intros _. rewrite ztake_snoc by lia. rewrite fmap_app, concat_app. cbn [fmap list_fmap concat].
    by rewrite app_nil_r, <- app_assoc.
  - rewrite E, Ew; rewrite ?Z2Nat.id by lia; [done|lia].
Qed.

(** ** REMB, BYE and application data *)

Definition remb_block (self : RTCPSender) : Block :=
  let d := remb_ self in
  REMB_block (fb_to_none self) (exp_of 18 (rembBitrate_ d)) (mantissa_of 18 (rembBitrate_ d)) (ztake (lengthRembSSRC_ d) (rembSSRC_ d)).

Lemma u8_rate e m bits : 0 <= e < 64 -> 0 <= m < 2 ^ (bits + 2) -> 0 <= bits -> u8 (Z.shiftl e 2 + Z.land (Z.shiftr m bits) 3) = e * 4 + m / 2 ^ bits.
Proof.
  intros He Hm Hb. rewrite Z.shiftl_mul_pow2, Z.shiftr_div_pow2 by lia. rewrite (Z.land_ones _ 2) by lia.
  rewrite Z.pow_add_r in Hm by lia. assert (0 < 2 ^ bits) by lia.
  assert (0 <= m / 2 ^ bits < 4) by (split; [apply Z.div_pos; lia|apply Z.div_lt_upper_bound; lia]).
  rewrite Z.mod_small by lia. apply u8_id. unfold is_u8. lia.
Qed.

Lemma BuildREMB_W self a :
  let d := remb_ self in
  0 <= lengthRembSSRC_ d <= 251 -> lengthRembSSRC_ d <= Zlen (rembSSRC_ d) -> rate_ok 18 (rembBitrate_ d) ->
  appends (R := R) buf (BuildREMB self (W buf a)) self self a (20 + 4 * lengthRembSSRC_ d) (remb_block self).
Proof.
  cbv zeta. intros Hn Hs Hr. unfold BuildREMB. cbv zeta. roomy a.
  do 4 wstep. rewrite (shr32_mantissa 18) by (done || lia). change 262143 with (2 ^ 18 - 1). fold (exp_of 18 (rembBitrate_ (remb_ self))).
  pose proof (exp_of_range 18 _ ltac:(lia) Hr) as He. pose proof (mantissa_of_range 18 _ ltac:(lia) Hr) as Hm.
  wstep. rewrite out_words_W by (lia || wlen). cbn [flow_bind]. unfold remb_block. set (l := ztake _ _).
  assert (Hl : Zlen l = lengthRembSSRC_ (remb_ self)) by (subst l; apply Zlen_ztake; lia). cbn [block_bytes].
  rewrite (header_words _ _ _ (lengthRembSSRC_ (remb_ self) + 4)), be16_small;
    [|lia|rewrite !Zlen_app, (Zlen_concat be32 _ 4), Hl by done; unfold fb_bytes, Zlen; cbn [length be32 app]; lia].
  do 3 f_equal. rewrite <- !app_assoc. f_equal. unfold fb_bytes, fb_of, fb_to_none. cbn [fb_SenderSSRC fb_MediaSSRC]. rewrite Hl.
  unfold bytes. rewrite <- !app_assoc. cbn [fmap list_fmap]. rewrite (u8_rate _ _ 16) by (done || lia).
  rewrite (u8_id (lengthRembSSRC_ (remb_ self))), (u8_id (lengthRembSSRC_ (remb_ self) + 4)) by (unfold is_u8; lia).
  rewrite (Z.shiftr_div_pow2 _ 8) by lia. reflexivity.
Qed.

Definition bye_csrcs (self : RTCPSender) : list Z :=
  let s := sources_ self in if includeCSRCs_ s then ztake (CSRCs_ s) (CSRC_ s) else [].

Definition bye_block (self : RTCPSender) : Block := BYE_block (own_ssrc self) (bye_csrcs self).

(** Room is tested for the first source only. *)
Lemma BuildBYE_W self a :
  let s := sources_ self in
  0 <= CSRCs_ s <= kRtpCsrcSize -> CSRCs_ s <= Zlen (CSRC_ s) ->
  Zlen a + 8 < IP_PACKET_SIZE -> Zlen a + 8 + 4 * Zlen (bye_csrcs self) <= IP_PACKET_SIZE ->
  BuildBYE (R := R) self (W buf a) = Cont (0, self, W buf (a ++ block_bytes (bye_block self))).
Proof.
  cbv zeta. unfold kRtpCsrcSize. intros Hn Hs Ha Hl. unfold BuildBYE. cbv zeta. change (W buf a).2 with (Zlen a). rewrite (proj2 (Z.leb_gt _ _)) by lia.
  pose proof (Zlen_nonneg a). unfold bye_block, bye_csrcs in *. destruct (includeCSRCs_ (sources_ self)).
  - set (n := CSRCs_ (sources_ self)) in *. assert (HL : Zlen (ztake n (CSRC_ (sources_ self))) = n) by (apply Zlen_ztake; lia). rewrite HL in Hl.
    do 2 wstep. rewrite out_words_W by (lia || wlen). cbn [flow_bind block_bytes]. rewrite HL.
    rewrite (header_words _ _ _ (1 + n)), be16_small; [|lia|rewrite Zlen_app, Zlen_be32, (Zlen_concat be32 _ 4), HL by done; lia].
    do 3 f_equal. rewrite <- !app_assoc. unfold bytes. cbn [fmap list_fmap]. rewrite (u8_id (1 + n)), (u8_id (128 + 1 + n)), Z.add_assoc by (unfold is_u8; lia).
    reflexivity.
  - do 2 wstep. same_bytes.
Qed.

Definition app_block (self : RTCPSender) (data : list Z) : Block := APP_block (appSubType_ (app_ self)) (own_ssrc self) (appName_ (app_ self)) data.

Lemma BuildAPP_W self a data :
  let d := app_ self in
  appData_ d = Some data -> appLength_ d = Zlen data -> Zlen data mod 4 = 0 -> 0 <= appSubType_ d < 32 ->
  appends (R := R) buf (BuildAPP self (W buf a)) self self a (12 + Zlen data) (app_block self data).
Proof.
  cbv zeta. intros Hd Hn Hm Ht. unfold BuildAPP. rewrite Hd, Hn. roomy a. pose proof (Zlen_nonneg data).
  do 3 wstep. rewrite blk_get_Cont by lia. cbn [flow_bind]. rewrite zdrop_0, ztake_all by lia.
  wstep. unfold app_block. cbn [block_bytes]. assert (Hq : Zlen data = 4 * (Zlen data / 4)) by zdm.
  rewrite (header_words _ _ _ (Zlen data / 4 + 2)) by (rewrite !Zlen_app, !Zlen_be32; lia).
  rewrite (Z.shiftr_div_pow2 (Zlen data)) by lia. change (2 ^ 2) with 4.
  rewrite (u16_id (Zlen data / 4 + 2)) by (unfold is_u16, IP_PACKET_SIZE in *; zdm).
  do 3 f_equal. rewrite <- !app_assoc. unfold bytes. cbn [fmap list_fmap]. rewrite (u8_id (128 + _)) by (unfold is_u8; lia). reflexivity.
Qed.

Lemma packet_eq (l l' b : list Z) : l = b -> Zlen l' = Zlen l -> (put buf 0 l, Zlen l') = W buf b.
Proof. by intros -> ->. Qed.

(** ** TMMBR and TMMBN *)

Definition kbit (v : Z) : Z := u32 (v * 1000).

Definition tuple_bytes (SSRC bitrate overhead : Z) : list Z := tmmbr_bytes SSRC (exp_of 17 bitrate) (mantissa_of 17 bitrate) overhead.

Lemma out_tmmbr_W a SSRC bitrate overhead :
  rate_ok 17 bitrate -> 0 <= overhead < 512 -> Zlen a + 8 <= Zlen buf ->
  out_tmmbr (R := R) (W buf (a ++ be32 SSRC)) bitrate overhead = Cont (W buf (a ++ tuple_bytes SSRC bitrate overhead)).
Proof.
  intros Hr Ho Hl. pose proof (Zlen_nonneg a). unfold out_tmmbr. rewrite (shr32_mantissa 17) by (done || lia).
  change 131071 with (2 ^ 17 - 1). fold (exp_of 17 bitrate).
  pose proof (exp_of_range 17 _ ltac:(lia) Hr) as He. pose proof (mantissa_of_range 17 _ ltac:(lia) Hr) as Hm. wstep.
  unfold tuple_bytes, tmmbr_bytes. set (e := exp_of 17 bitrate) in *. set (m := mantissa_of 17 bitrate) in *.
  do 2 f_equal. rewrite <- app_assoc. unfold bytes. cbn [fmap list_fmap]. rewrite (u8_rate _ _ 15) by (done || lia).
  assert (E1 : u8 (Z.shiftl m 1 + Z.land (Z.shiftr overhead 8) 1) = m mod 2 ^ 7 * 2 + overhead / 256).
  { rewrite Z.shiftl_mul_pow2, Z.shiftr_div_pow2, (Z.land_ones _ 1) by lia. unfold u8. clearbody e m. zdm. }
  rewrite E1, Z.shiftr_div_pow2 by lia. reflexivity.
Qed.

Definition tmmbr_block (self : RTCPSender) : Block :=
  let d := tmmbr_ self in let rate := kbit (tmmbr_Send_ d) in
  TMMBR_block (fb_to_none self) (remote_ssrc self) (exp_of 17 rate) (mantissa_of 17 rate) (packetOH_Send_ d).

(** A tuple is sent. *)
Definition sends_tmmbr (self : RTCPSender) (env : Surroundings) (tmmbrOwner : bool) (candidateSet : list SetElement) : bool :=
  wants_tmmbr self env tmmbrOwner candidateSet && negb (tmmbr_Send_ (tmmbr_ self) =? 0).

Lemma BuildTMMBR_W self fs env owner candidates a :
  fs_module fs = Some (owner, candidates) -> rate_ok 17 (kbit (tmmbr_Send_ (tmmbr_ self))) -> 0 <= packetOH_Send_ (tmmbr_ self) < 512 ->
  if sends_tmmbr self env owner candidates
  then appends (R := R) buf (BuildTMMBR self fs env (W buf a)) self self a 20 (tmmbr_block self)
  else BuildTMMBR (R := R) self fs env (W buf a) = Cont (0, self, W buf a).
Proof.
  intros Hf Hr Ho. unfold sends_tmmbr, BuildTMMBR. rewrite Hf. destruct (wants_tmmbr self env owner candidates); cbn [andb negb]; [|done].
  destruct (tmmbr_Send_ (tmmbr_ self) =? 0); cbn [negb]; [done|]. room a 20. do 4 wstep.
  rewrite out_tmmbr_W by (done || wlen). cbn [flow_bind]. same_bytes.
Qed.

Definition tuple_of (e : SetElement) : Z * Z * Z * Z :=
  (el_ssrc e, exp_of 17 (kbit (el_tmmbr e)), mantissa_of 17 (kbit (el_tmmbr e)), el_packet_oh e).

Definition element_ok (e : SetElement) : Prop := is_u32 (el_ssrc e) /\ rate_ok 17 (kbit (el_tmmbr e)) /\ 0 <= el_packet_oh e < 512.

Definition positive (self : RTCPSender) : list SetElement := List.filter (fun e => 0 <? el_tmmbr e) (boundingSetToSend_ (tmmbr_ self)).

Definition tmmbn_block (self : RTCPSender) : Block := TMMBN_block (fb_to_none self) (tuple_of <$> positive self).

Lemma out_tmmbn_W e a : element_ok e -> Zlen a + 8 <= Zlen buf -> out_tmmbn (R := R) (W buf a) e = Cont (W buf (a ++ set_bytes (tuple_of e))).
Proof. intros (Hs & Hr & Ho) Hl. pose proof (Zlen_nonneg a). unfold out_tmmbn. wstep. by rewrite out_tmmbr_W. Qed.

Lemma Zlen_set x : Zlen (set_bytes x) = 8.
Proof. by destruct x as [[[? ?] ?] ?]. Qed.

Lemma Forall_filter_list {A} (P : A -> Prop) f (l : list A) : Forall P l -> Forall P (List.filter f l).
Proof. induction 1 as [|x l Hx _ IH]; cbn; [done|]. destruct (f x); [by constructor|done]. Qed.

Lemma BuildTMMBN_W self a :
  Forall element_ok (boundingSetToSend_ (tmmbr_ self)) ->
  appends (R := R) buf (BuildTMMBN self (W buf a)) self self a (12 + Zlen (boundingSetToSend_ (tmmbr_ self)) * 8) (tmmbn_block self).
Proof.
  intros Hok. unfold BuildTMMBN. roomy a. unfold tmmbn_block. fold (positive self).
  assert (Hn : Zlen (positive self) <= Zlen (boundingSetToSend_ (tmmbr_ self))) by (unfold Zlen, positive; pose proof (filter_length_le (fun e => 0 <? el_tmmbr e) (boundingSetToSend_ (tmmbr_ self))); lia).
  assert (Hp : Forall element_ok (positive self)) by (by apply Forall_filter_list).
  set (l := positive self) in *. clearbody l. pose proof (Zlen_nonneg l). wstep.
  destruct (out_skip_W buf (a ++ bytes [128 + 4; 205]) 2 ltac:(lia)) as (g & Hg & ->); [wlen|]. do 2 wstep.
  assert (HL : Zlen (concat (set_bytes ∘ tuple_of <$> l)) = 8 * Zlen l) by (rewrite (Zlen_concat _ _ 8); [done|by intros; apply Zlen_set]).
  rewrite (out_all_W buf out_tmmbn (set_bytes ∘ tuple_of)); [|intros e b He Hb; rewrite Forall_forall in Hp; apply out_tmmbn_W; [by apply Hp|unfold compose in Hb; rewrite Zlen_set in Hb; lia]|wlen].
  cbn [flow_bind]. change (W buf (a ++ bytes [128 + 4; 205])).2 with (Zlen (a ++ bytes [128 + 4; 205])). rewrite <- !app_assoc.
  rewrite (app_assoc a (bytes [128 + 4; 205])), out16_back by (done || wlen). cbn [flow_bind]. f_equal. f_equal.
  apply packet_eq; [|wlen]. cbn [block_bytes]. assert (HC : concat (set_bytes <$> (tuple_of <$> l)) = concat (set_bytes ∘ tuple_of <$> l)) by (by rewrite list_fmap_compose).
  rewrite (header_words _ _ _ (2 + 2 * Zlen l)) by (rewrite Zlen_app, HC, HL; unfold fb_bytes; rewrite Zlen_app, !Zlen_be32; lia).
  rewrite HC, u16_id by (unfold is_u16, IP_PACKET_SIZE in *; lia). rewrite <- !app_assoc. reflexivity.
Qed.

(** ** Negative acknowledgements *)

(** The items of a list of numbers, [max] at most. *)
Fixpoint nack_items (max : nat) (nackList : list Z) : list RTCPPacketRTPFBNACKItem :=
  match max, nackList with
  | S max, nack :: rest => let '(bitmask, rest) := nack_mask rest nack 0 in mkNACKItem nack bitmask :: nack_items max rest
  | _, _ => []
  end.

(** The most that there is room for behind [pos]. *)
Definition nack_room (pos : Z) : nat := Z.to_nat (Z.min kRtcpMaxNackFields (Z.quot (IP_PACKET_SIZE - (pos + 12)) 4)).

Definition nack_block (self : RTCPSender) (nackList : list Z) (pos : Z) : Block := NACK_block (fb_of self) (nack_items (nack_room pos) nackList).

Lemma length_nack_items max l : (length (nack_items max l) <= max)%nat.
Proof.
  revert l. induction max as [|max IH]; intros [|n l]; cbn [nack_items length]; [lia..|]. destruct (nack_mask l n 0) as [m r]. cbn [length]. specialize (IH r). lia.
Qed.

Lemma nack_fields_W max a l k :
  Zlen a + 4 * Z.of_nat max <= Zlen buf ->
  nack_fields (R := R) max (W buf a) l k = Cont (k + Zlen (nack_items max l), W buf (a ++ concat (nack_bytes <$> nack_items max l))).
Proof.
  revert a l k. induction max as [|max IH]; intros a [|n l] k Hl; cbn [nack_fields nack_items];
    try (rewrite app_nil_r, (@Zlen_nil RTCPPacketRTPFBNACKItem), Z.add_0_r; done).
  destruct (nack_mask l n 0) as [m r]. do 2 wstep. rewrite IH by wlen. rewrite Zlen_cons. cbn [fmap list_fmap concat nack_bytes]. unfold nack_bytes.
  cbn [nack_PacketID nack_BitMask]. f_equal. f_equal; [lia|]. by rewrite <- !app_assoc.
Qed.

Lemma BuildNACK_W self a nackList :
  appends (R := R) buf (BuildNACK self (W buf a) nackList) self self a 16 (nack_block self nackList (Zlen a)).
Proof.
  unfold BuildNACK. room a 16. wstep. change (W buf (a ++ bytes [128 + 1; 205; 0])).2 with (Zlen (a ++ bytes [128 + 1; 205; 0])). do 3 wstep.
  set (b := ((a ++ bytes [128 + 1; 205; 0]) ++ bytes [3]) ++ be32 (own_ssrc self) ++ be32 (remote_ssrc self)).
  rewrite <- (app_assoc _ (be32 (own_ssrc self))). fold b. change (W buf b).2 with (Zlen b).
  assert (Hb : Zlen b = Zlen a + 12) by (subst b; wlen). rewrite Hb. fold (nack_room (Zlen a)).
  assert (Hr : 0 <= Z.of_nat (nack_room (Zlen a)) <= 253 /\ 4 * Z.of_nat (nack_room (Zlen a)) <= IP_PACKET_SIZE - (Zlen a + 12)).
  { unfold nack_room, kRtcpMaxNackFields, IP_PACKET_SIZE in *. rewrite Z.quot_div_nonneg by lia. zdm. }
  rewrite nack_fields_W by lia. cbn [flow_bind]. unfold nack_block. pose proof (length_nack_items (nack_room (Zlen a)) nackList) as Hi.
  set (l := nack_items _ _) in *. assert (Hl : 0 <= Zlen l <= Z.of_nat (nack_room (Zlen a))) by (unfold Zlen at 1 2; lia).
  change (W buf ?l).1 with (put buf 0 l). subst b. rewrite <- !app_assoc, (app_assoc a (bytes [128 + 1; 205; 0])).
  change (bytes [3]) with [3]. rewrite wr_back by (rewrite !Zlen_app, (Zlen_concat nack_bytes _ 4) by done; wlen). cbn [flow_bind].
  f_equal. f_equal. apply packet_eq; [|wlen]. cbn [block_bytes].
  rewrite (header_words _ _ _ (2 + Zlen l)), be16_small;
    [|lia|rewrite Zlen_app, (Zlen_concat nack_bytes _ 4) by done; unfold fb_bytes; rewrite Zlen_app, !Zlen_be32; lia].
  rewrite Z.add_0_l, u8_id by (unfold is_u8; lia). rewrite <- !app_assoc. reflexivity.
Qed.
End builders.
