(* ===== verification/RtcpReports.v ===== *)
(** * What the builders of reports and descriptions write

    Sender reports and receiver reports stand at the start of a packet, and the description
    of the sources follows. *)
From S2P Require Import Prelude RtpWire RtcpParser RtcpSteps RtcpBlocks StdMap RtcpSender RtcpBuild RtcpLists.
Local Open Scope Z_scope.

(** The item of a report block. *)
Definition report_item (x : Z * RTCPReportBlock) : RTCPPacketReportBlockItem :=
  let '(ssrc, b) := x in
  mkReportBlockItem ssrc (u8 (fractionLost b)) (cumulativeLost b mod 2 ^ 24) (extendedHighSeqNum b) (jitter b) (lastSR b) (delaySinceLastSR b).

Lemma be24_mod v : be24 (v mod 2 ^ 24) = be24 v.
Proof.
  unfold be24, u8. rewrite !Z.shiftr_div_pow2 by lia.
  change (2 ^ 24) with 16777216. change (2 ^ 16) with 65536. change (2 ^ 8) with 256. f_equal; [zdm|f_equal; [zdm|f_equal; zdm]].
Qed.

(** All the blocks of the sender, in the order in which they are written. *)
Definition report_items (self : RTCPSender) : list RTCPPacketReportBlockItem :=
  report_item <$> internal_report_blocks_ self ++ external_report_blocks_ self.

Definition rr_block (self : RTCPSender) : Block := RR_block (own_ssrc self) (report_items self).

Definition rtp_time (self : RTCPSender) (fs : FeedbackState) (env : Surroundings) : Z :=
  let d := sr_ self in
  u32 (start_timestamp_ d + last_rtp_timestamp_ d + (now_ms_sr env - last_frame_capture_time_ms_ d) * (frequency_hz fs / 1000)).

Definition sr_block (self : RTCPSender) (fs : FeedbackState) (env : Surroundings) (NTPsec NTPfrac : Z) : Block :=
  SR_block (mkSR (own_ssrc self) (Zlen (report_items self)) NTPsec NTPfrac (rtp_time self fs env) (packets_sent fs) (media_bytes_sent fs))
    (report_items self).

(** The sender that has sent its report blocks, and the one that has sent a report. *)
Definition reported (self : RTCPSender) : RTCPSender := set_internal_report_blocks self [].

Definition sr_sent (self : RTCPSender) (NTPsec NTPfrac : Z) : RTCPSender :=
  let d := sr_ self in
  set_sr self (mkSrData (start_timestamp_ d) (last_rtp_timestamp_ d) (last_frame_capture_time_ms_ d)
    (shift_in (lastSendReport_ d) (u32 (u32 (Z.shiftl NTPsec 16) + Z.shiftr NTPfrac 16)))
    (shift_in (lastRTCPTime_ d) (u32 (NtpToMs NTPsec NTPfrac)))).

Definition sdes_chunks (self : RTCPSender) : list (Z * list Z) := (own_ssrc self, CNAME_ (sources_ self)) :: csrcCNAMEs_ (sources_ self).

Section builders.
Context {R : Type} (buf : list Z).
Hypothesis Hbuf : Zlen buf = IP_PACKET_SIZE.

(** ** Names *)

Lemma pad_zeros_W k fuel a p :
  (k <= fuel)%nat -> (k <= 3)%nat -> (Zlen a + Z.of_nat k) mod 4 = 0 -> Zlen a + Z.of_nat k <= Zlen buf -> 0 <= p -> p + Z.of_nat k < 65536 ->
  pad_zeros (R := R) fuel (W buf a) p = Cont (W buf (a ++ replicate k 0), p + Z.of_nat k).
Proof.
  revert fuel a p. induction k as [|k IH]; intros fuel a p Hf Hk Hm Hl Hp Hp'.
  - destruct fuel; cbn [pad_zeros]; change (W buf a).2 with (Zlen a); rewrite Z.add_0_r in *; rewrite Hm; cbn; by rewrite app_nil_r.
  - destruct fuel as [|fuel]; [lia|]. cbn [pad_zeros]. change (W buf a).2 with (Zlen a). rewrite (proj2 (Z.eqb_neq _ _)) by zdm.
    pose proof (Zlen_nonneg a). rewrite Nat2Z.inj_succ in *. wstep. rewrite u16_id by (unfold is_u16; lia).
    assert (HZ : Zlen (a ++ bytes [0]) = Zlen a + 1) by wlen. rewrite IH by (rewrite ?HZ; lia || zdm).
    rewrite <- app_assoc. cbn [replicate app bytes]. do 2 f_equal. lia.
Qed.

Lemma Zlen_chunk_bytes c : Zlen (chunk_bytes c) = 6 + Zlen c.2 + chunk_padding c.2.
Proof.
  unfold chunk_bytes. rewrite !Zlen_app, Zlen_be32. assert (0 <= chunk_padding c.2) by (unfold chunk_padding; zdm).
  replace (Zlen (replicate (Z.to_nat (chunk_padding c.2)) 0)) with (chunk_padding c.2) by (unfold Zlen; rewrite length_replicate; lia).
  change (Zlen [1; Zlen c.2]) with 2. lia.
Qed.

Lemma out_cname_W a SSRC name :
  Zlen a mod 4 = 0 -> Zlen name < 256 -> Zlen a + Zlen (chunk_bytes (SSRC, name)) <= Zlen buf ->
  out_cname (R := R) (W buf a) SSRC name = Cont (W buf (a ++ chunk_bytes (SSRC, name)), chunk_padding name).
Proof.
  intros Hm Hn Hl. rewrite Zlen_chunk_bytes in Hl. cbn [snd] in Hl. pose proof (Zlen_nonneg a). pose proof (Zlen_nonneg name).
  assert (Hc : 1 <= chunk_padding name <= 4) by (unfold chunk_padding; zdm). unfold out_cname. do 3 wstep.
  set (b := _ ++ name). assert (Hb : Zlen b = Zlen a + 6 + Zlen name) by (subst b; wlen). change (W buf b).2 with (Zlen b).
  assert (E : b ++ replicate (Z.to_nat (chunk_padding name)) 0 = a ++ chunk_bytes (SSRC, name)).
  { subst b. unfold chunk_bytes. cbn [fst snd]. rewrite <- !app_assoc. unfold bytes. cbn [fmap list_fmap]. rewrite (u8_id (Zlen name)) by (unfold is_u8; lia). done. }
  rewrite <- E. clearbody b. assert (Hp : chunk_padding name = 4 - Zlen b mod 4) by (unfold chunk_padding; zdm).
  destruct (Z.eqb_spec (Zlen b mod 4) 0) as [Hz|Hz].
  - wstep. rewrite (pad_zeros_W 3) by (lia || (rewrite ?Zlen_app, ?Zlen_bytes, ?(@Zlen_cons Z), ?(@Zlen_nil Z); zdm)).
    rewrite <- app_assoc. by replace (chunk_padding name) with 4 by lia.
  - cbn [flow_bind]. rewrite (pad_zeros_W (Z.to_nat (chunk_padding name))) by (lia || zdm). by rewrite Z2Nat.id, Z.add_0_l by lia.
Qed.

Lemma Zlen_chunk_mod c : Zlen (chunk_bytes c) mod 4 = 0.
Proof. rewrite Zlen_chunk_bytes. unfold chunk_padding. zdm. Qed.

Lemma out_cnames_W names a n :
  Zlen a mod 4 = 0 -> Forall (fun c => Zlen c.2 < 256) names -> Zlen a + Zlen (concat (chunk_bytes <$> names)) <= Zlen buf ->
  0 <= n -> n + Zlen (concat (chunk_bytes <$> names)) < 65536 ->
  out_cnames (R := R) (W buf a) n names = Cont (W buf (a ++ concat (chunk_bytes <$> names)), n + Zlen (concat (chunk_bytes <$> names))).
Proof.
  intros Hm Hok. revert a n Hm. induction Hok as [|[ssrc name] names Hn _ IH]; intros a n Hm Hl H0 Hs; cbn [out_cnames fmap list_fmap concat] in *.
  - by rewrite app_nil_r, (@Zlen_nil Z), Z.add_0_r.
  - rewrite Zlen_app in *. pose proof (Zlen_nonneg (concat (chunk_bytes <$> names))). pose proof (Zlen_chunk_mod (ssrc, name)).
    rewrite out_cname_W by (done || lia). cbn [flow_bind]. rewrite Zlen_chunk_bytes in *. cbn [snd] in *. pose proof (Zlen_nonneg name).
    assert (1 <= chunk_padding name) by (unfold chunk_padding; zdm).
    rewrite (u16_id (n + 6)), (u16_id (n + 6 + _)), u16_id by (unfold is_u16; lia).
    assert (HZ : Zlen (a ++ chunk_bytes (ssrc, name)) = Zlen a + (6 + Zlen name + chunk_padding name)) by (by rewrite Zlen_app, Zlen_chunk_bytes).
    rewrite IH by (rewrite ?HZ; lia || zdm). rewrite <- app_assoc. do 2 f_equal. lia.
Qed.

Lemma Zlen_chunks_mod names : Zlen (concat (chunk_bytes <$> names)) mod 4 = 0.
Proof.
  induction names as [|c names IH]; [done|]. cbn [fmap list_fmap concat]. rewrite Zlen_app. pose proof (Zlen_chunk_mod c). zdm.
Qed.

(** Room is tested for the own name only. *)
Lemma BuildSDEC_W self a :
  Zlen a mod 4 = 0 -> Forall (fun c => Zlen c.2 < 256) (sdes_chunks self) -> Zlen (csrcCNAMEs_ (sources_ self)) <= 15 ->
  Zlen a + 12 + Zlen (CNAME_ (sources_ self)) < IP_PACKET_SIZE ->
  Zlen a + Zlen (block_bytes (SDES_block (sdes_chunks self))) <= IP_PACKET_SIZE ->
  BuildSDEC (R := R) self (W buf a) = Cont (0, self, W buf (a ++ block_bytes (SDES_block (sdes_chunks self)))).
Proof.
  intros Hm Hok Hc Hr Hl. unfold BuildSDEC. change (W buf a).2 with (Zlen a). rewrite (proj2 (Z.leb_gt _ _)) by lia.
  cbn [block_bytes] in *. rewrite Zlen_header in Hl. pose proof (Zlen_chunks_mod (sdes_chunks self)) as HM.
  unfold sdes_chunks in *. set (s := sources_ self) in *. inversion Hok as [|x l Hn Hns]; subst x l. cbn [snd] in Hn.
  cbn [fmap list_fmap concat] in *. rewrite Zlen_app in Hl, HM. pose proof (Zlen_nonneg a). pose proof (Zlen_nonneg (csrcCNAMEs_ s)).
  set (c := chunk_bytes (own_ssrc self, CNAME_ s)) in *. set (cs := concat (chunk_bytes <$> csrcCNAMEs_ s)) in *.
  assert (HC : Zlen c = 6 + Zlen (CNAME_ s) + chunk_padding (CNAME_ s)) by apply Zlen_chunk_bytes.
  assert (1 <= chunk_padding (CNAME_ s)) by (unfold chunk_padding; zdm). pose proof (Zlen_nonneg (CNAME_ s)). pose proof (Zlen_nonneg cs).
  wstep. destruct (out_skip_W buf (a ++ bytes [128 + 1 + Zlen (csrcCNAMEs_ s); 202]) 2 ltac:(lia)) as (g & Hg & ->); [wlen|].
  set (p := a ++ bytes [128 + 1 + Zlen (csrcCNAMEs_ s); 202]). assert (Hp : Zlen p = Zlen a + 2) by (subst p; wlen).
  assert (Hpm : (Zlen p + 2) mod 4 = 0) by zdm. assert (Hcm : Zlen c mod 4 = 0) by apply Zlen_chunk_mod.
  rewrite out_cname_W by (fold c || idtac; rewrite ?Zlen_app, ?Hg; (done || (unfold IP_PACKET_SIZE in *; lia))). cbn [flow_bind]. fold c.
  unfold IP_PACKET_SIZE in *. rewrite !u16_id by (unfold is_u16; rewrite ?u16_id by (unfold is_u16; lia); lia).
  rewrite out_cnames_W by (fold cs || idtac; rewrite ?Zlen_app, ?Hg; (done || lia || zdm)). fold cs. cbn [flow_bind].
  change (W buf p).2 with (Zlen p). rewrite <- !app_assoc. rewrite out16_back by (rewrite ?Zlen_app; lia). cbn [flow_bind].
  f_equal. f_equal. apply packet_eq; [|rewrite !Zlen_app; rewrite Hg; wlen].
  rewrite (header_words _ _ _ ((10 + Zlen (CNAME_ s) + chunk_padding (CNAME_ s) + Zlen cs) / 4 - 1)) by (rewrite Zlen_app; zdm).
  rewrite u16_id by (unfold is_u16; zdm). subst p. rewrite <- app_assoc. unfold bytes. cbn [fmap list_fmap]. rewrite (@Zlen_cons (Z * list Z)).
  rewrite u8_id by (unfold is_u8; lia). by rewrite <- Z.add_assoc.
Qed.

(** ** Report blocks *)

Lemma Zlen_report b : Zlen (report_bytes b) = 24.
Proof. reflexivity. Qed.

Lemma WriteReportBlock_W x a :
  Zlen a + 24 <= Zlen buf -> WriteReportBlock (R := R) (W buf a) x = Cont (W buf (a ++ report_bytes (report_item x))).
Proof.
  intros Hl. destruct x as [ssrc b]. pose proof (Zlen_nonneg a). unfold WriteReportBlock. do 7 wstep.
  unfold report_bytes, report_item. cbn [rb_SSRC rb_FractionLost rb_CumulativeNumOfPacketsLost rb_ExtendedHighestSequenceNumber rb_Jitter rb_LastSR rb_DelayLastSR].
  rewrite be24_mod, <- !app_assoc. reflexivity.
Qed.

Lemma WriteReportBlocks_W l a :
  Zlen a + 24 * Zlen l <= Zlen buf ->
  WriteReportBlocksToBuffer (R := R) (W buf a) l = Cont (W buf (a ++ concat (report_bytes <$> (report_item <$> l)))).
Proof.
  intros Hl. unfold WriteReportBlocksToBuffer. rewrite <- list_fmap_compose. apply out_all_W.
  - intros x b _ Hb. apply WriteReportBlock_W. unfold compose in Hb. by rewrite Zlen_report in Hb.
  - rewrite (Zlen_concat _ _ 24); [lia|done].
Qed.

Lemma WriteAllReportBlocks_W self a :
  let n := Zlen (report_items self) in
  n <= 31 -> Zlen a <= 100 ->
  WriteAllReportBlocksToBuffer (R := R) self (W buf a) = Cont (n, reported self, Some (W buf (a ++ concat (report_bytes <$> report_items self)))).
Proof.
  cbv zeta. unfold report_items. intros Hn Ha. assert (HL : forall l : list (Z * RTCPReportBlock), Zlen (report_item <$> l) = Zlen l) by (intros; unfold Zlen; by rewrite length_fmap).
  rewrite HL in *. rewrite (@Zlen_app (Z * RTCPReportBlock)) in *. pose proof (Zlen_nonneg a).
  pose proof (Zlen_nonneg (internal_report_blocks_ self)). pose proof (Zlen_nonneg (external_report_blocks_ self)).
  unfold WriteAllReportBlocksToBuffer. change (W buf a).2 with (Zlen a).
  rewrite (u8_id (Zlen (external_report_blocks_ self))), u8_id by (unfold is_u8; lia). unfold IP_PACKET_SIZE in *.
  rewrite (proj2 (Z.leb_gt _ _)) by lia. rewrite WriteReportBlocks_W by lia. cbn [flow_bind].
  rewrite WriteReportBlocks_W by (rewrite Zlen_app, (Zlen_concat report_bytes _ 24), HL by done; cbn; lia). cbn [flow_bind].
  rewrite fmap_app, fmap_app, concat_app, <- app_assoc. by rewrite Z.add_comm.
Qed.

(** The number of blocks and the length of a report. *)
Lemma report_length_W pt g c n :
  Zlen g = 2 -> 0 <= n < 32 -> Zlen c mod 4 = 0 -> 4 + Zlen c <= Zlen buf ->
  report_length (R := R) (W buf ([128; pt] ++ g ++ c)) 0 n = Cont (W buf (header n pt c)).
Proof.
  intros Hg Hn Hm Hl. pose proof (Zlen_nonneg c). unfold report_length, W.
  rewrite (rd_put buf 0 _ 0 128) by (rewrite ?Zlen_app; change (Zlen [128; pt]) with 2; (done || lia)). cbn [flow_bind].
  rewrite u8_id by (unfold is_u8; lia). change ([128; pt] ++ g ++ c) with ([] ++ [128] ++ [pt] ++ g ++ c).
  assert (HW := wr_back (R := R) buf [] 128 (128 + n) ([pt] ++ g ++ c)). rewrite (@Zlen_nil Z) in HW.
  rewrite HW by (rewrite !Zlen_app; change (Zlen [pt]) with 1; lia). cbn [flow_bind].
  assert (HL : Zlen ([] ++ [128] ++ [pt] ++ g ++ c) = 4 + Zlen c) by (rewrite !Zlen_app; change (Zlen [pt]) with 1; change (Zlen [128]) with 1; rewrite (@Zlen_nil Z); lia).
  assert (HL' : Zlen ([] ++ [128 + n] ++ [pt] ++ g ++ c) = 4 + Zlen c) by (rewrite !Zlen_app; change (Zlen [pt]) with 1; change (Zlen [128 + n]) with 1; rewrite (@Zlen_nil Z); lia).
  rewrite HL, Z.quot_div_nonneg by lia. replace ((4 + Zlen c) / 4 - 1) with (Zlen c / 4) by zdm. rewrite u16_id by (unfold is_u16, IP_PACKET_SIZE in *; zdm).
  rewrite AssignUWord16_put by (rewrite ?Zlen_put; lia). cbn [flow_bind].
  change ([] ++ [128 + n] ++ [pt] ++ g ++ c) with ([128 + n; pt] ++ g ++ c).
  rewrite (put_inside buf 0 [128 + n; pt] g) by (rewrite ?Zlen_be16; change (Zlen [128 + n; pt]) with 2; lia). unfold header.
  rewrite !Zlen_app, Zlen_be16. change (Zlen [128 + n; pt]) with 2. f_equal. f_equal. lia.
Qed.

Lemma Zlen_report_items self : Zlen (concat (report_bytes <$> report_items self)) = 24 * Zlen (report_items self).
Proof. by rewrite (Zlen_concat _ _ 24). Qed.

Lemma BuildRR_W self :
  Zlen (report_items self) <= 31 -> BuildRR (R := R) self (W buf []) = Cont (0, reported self, W buf (block_bytes (rr_block self))).
Proof.
  intros Hn. unfold BuildRR. change (W buf []).2 with 0. change (IP_PACKET_SIZE <=? 0 + 32) with false. wstep.
  destruct (out_skip_W buf ([] ++ bytes [128; 201]) 2 ltac:(lia)) as (g & Hg & ->); [wlen|]. wstep.
  pose proof (Zlen_nonneg (report_items self)). rewrite WriteAllReportBlocks_W by wlen. cbn [flow_bind].
  cbn [app]. rewrite <- !app_assoc. change (bytes [128; 201]) with [128; 201].
  rewrite report_length_W by (rewrite ?Zlen_app, ?Zlen_report_items, ?Zlen_be32; (done || (unfold IP_PACKET_SIZE in *; lia) || zdm)).
  reflexivity.
Qed.

Lemma BuildSR_W self fs env NTPsec NTPfrac :
  Zlen (report_items self) <= 31 ->
  BuildSR (R := R) self fs env (W buf []) NTPsec NTPfrac
  = Cont (0, reported (sr_sent self NTPsec NTPfrac), W buf (block_bytes (sr_block self fs env NTPsec NTPfrac))).
Proof.
  intros Hn. unfold BuildSR. change (W buf []).2 with 0. change (IP_PACKET_SIZE <=? 0 + 52) with false. wstep.
  destruct (out_skip_W buf ([] ++ bytes [128; 200]) 2 ltac:(lia)) as (g & Hg & ->); [wlen|]. do 6 wstep. fold (sr_sent self NTPsec NTPfrac).
  pose proof (Zlen_nonneg (report_items self)). rewrite WriteAllReportBlocks_W by (done || wlen). cbn [flow_bind].
  cbn [app]. rewrite <- !app_assoc. change (bytes [128; 200]) with [128; 200]. change (report_items (sr_sent self NTPsec NTPfrac)) with (report_items self).
  rewrite report_length_W by (rewrite ?Zlen_app, ?Zlen_report_items, ?Zlen_be32; (done || (unfold IP_PACKET_SIZE in *; lia) || zdm)).
  cbn [flow_bind]. unfold sr_block. cbn [block_bytes]. unfold header. rewrite !Zlen_app, !Zlen_be32. reflexivity.
Qed.
End builders.
