(* ===== verification/RtcpPacket.v ===== *)
(** * The packet that the RTCP sender prepares

    The blocks that PrepareRTCP puts into a packet ([sent_blocks]), as a function of the state
    of the sender and of what it is asked for, and the proof that the packet is their bytes
    ([prepared_packet]). *)
From S2P Require Import Prelude RtpWire RtcpParser RtcpSteps RtcpBlocks StdMap RtcpSender RtcpBuild RtcpLists RtcpReports.
Local Open Scope Z_scope.

(** ** The blocks of a packet *)

(** What a packet depends on, beside the report blocks and the sequence number of FIR. *)
Definition media (self : RTCPSender) :=
  let t := tmmbr_ self in let d := app_ self in
  (sources_ self, remb_ self, (tmmbr_Send_ t, packetOH_Send_ t, boundingSetToSend_ t),
   (appSubType_ d, appName_ d, appData_ d, appLength_ d), xrVoIPMetric_ (xr_ self), external_report_blocks_ self).

(** A block with the room that is tested for it; it may depend on the position. *)
Definition Entry : Type := Z * (Z -> Block).

Definition due (c : bool) (need : Z) (b : Z -> Block) : list Entry := if c then [(need, b)] else [].

(** The first block that has no room ends the packet. *)
Fixpoint fitting (pos : Z) (l : list Entry) : list Block :=
  match l with
  | [] => []
  | (need, b) :: l => if IP_PACKET_SIZE <=? pos + need then [] else b pos :: fitting (pos + Zlen (block_bytes (b pos))) l
  end.

Section packet.
Context `{Machine}.

(** The flags, the sender and the time once the report blocks are prepared. *)
Definition front (self : RTCPSender) (fs : FeedbackState) (env : Surroundings) (packetTypeFlags : Z) : Z * RTCPSender * (Z * Z) :=
  let '(flags, self) := collect_flags self fs packetTypeFlags in
  let self := if has flags kRtcpRr || has flags kRtcpSr then schedule self fs env else self in
  let '(self, ntp) := if ShouldSendReportBlocks self flags then prepare_reports self fs (ntp_now env) (statisticians env) else (self, ntp_now env) in
  let flags := if ShouldSendReportBlocks self flags && negb (Zlen (statisticians env) =? 0) && IJ_ self
               then Z.lor flags kRtcpTransmissionTimeOffset else flags in
  (flags, self, ntp).

Section blocks.
Variables (self : RTCPSender) (fs : FeedbackState) (env : Surroundings) (flags : Z) (ntp : Z * Z).
Variables (nackList : list Z) (repeat : bool) (pictureID : Z).

Definition report_blocks : list Block :=
  if has flags kRtcpSr then [sr_block self fs env ntp.1 ntp.2; SDES_block (sdes_chunks self)]
  else if has flags kRtcpRr then
    rr_block self :: (if negb (Zlen (CNAME_ (sources_ self)) =? 0) then [SDES_block (sdes_chunks self)] else [])
  else [].

Definition tmmbr_due : bool :=
  match fs_module fs with Some (owner, candidates) => sends_tmmbr self env owner candidates | None => false end.

Definition entries : list Entry :=
  due (has flags kRtcpTransmissionTimeOffset && negb (0 <? Zlen (external_report_blocks_ self))) 8 (fun _ => IJ_block 0)
  ++ due (has flags kRtcpPli) 12 (fun _ => PLI_block (fb_of self))
  ++ due (has flags kRtcpFir) 20 (fun _ => fir_block self repeat)
  ++ due (has flags kRtcpSli) 16 (fun _ => sli_block self (u8 pictureID))
  ++ due (has flags kRtcpRpsi) 24 (fun _ => rpsi_block self pictureID (u8 (s8 (send_payload_type fs))))
  ++ due (has flags kRtcpRemb) (20 + 4 * lengthRembSSRC_ (remb_ self)) (fun _ => remb_block self)
  ++ due (has flags kRtcpBye) 8 (fun _ => bye_block self)
  ++ due (has flags kRtcpApp) (12 + appLength_ (app_ self)) (fun _ => app_block self (default [] (appData_ (app_ self))))
  ++ due (has flags kRtcpTmmbr && tmmbr_due) 20 (fun _ => tmmbr_block self)
  ++ due (has flags kRtcpTmmbn) (12 + Zlen (boundingSetToSend_ (tmmbr_ self)) * 8) (fun _ => tmmbn_block self)
  ++ due (has flags kRtcpNack) 16 (nack_block self nackList)
  ++ due (has flags kRtcpXrVoipMetric) 44 (fun _ => VoIP_block (own_ssrc self) (metric_item self))
  ++ due (has flags kRtcpXrReceiverReferenceTime) 20 (fun _ => ReferenceTime_block (own_ssrc self) ntp.1 ntp.2)
  ++ due (has flags kRtcpXrDlrrReportBlock) 24 (fun _ => dlrr_block self (last_xr_rr fs)).

Definition blocks_of : list Block :=
  report_blocks ++ fitting (Zlen (concat (block_bytes <$> report_blocks))) entries.
End blocks.

Definition sent_blocks (self : RTCPSender) (fs : FeedbackState) (env : Surroundings) (packetTypeFlags : Z) (nackList : list Z)
  (repeat : bool) (pictureID : Z) : list Block :=
  let '(flags, self, ntp) := front self fs env packetTypeFlags in blocks_of self fs env flags ntp nackList repeat pictureID.

(** ** Senders that can be asked *)

(** The limits of what the packets can carry, and what the codes [-1] ask for. *)
Record media_ok (self : RTCPSender) (fs : FeedbackState) (flags : Z) (nackList : list Z) (pictureID : Z) : Prop := {
  ok_ssrc : is_u32 (own_ssrc self) /\ is_u32 (remote_ssrc self);
  ok_names : Forall (fun c => is_u32 c.1 /\ name_ok c.2) (sdes_chunks self) /\ Zlen (csrcCNAMEs_ (sources_ self)) <= kRtpCsrcSize;
  ok_csrcs : 0 <= CSRCs_ (sources_ self) <= kRtpCsrcSize /\ CSRCs_ (sources_ self) <= Zlen (CSRC_ (sources_ self));
  ok_remb : 0 <= lengthRembSSRC_ (remb_ self) <= 251 /\ lengthRembSSRC_ (remb_ self) <= Zlen (rembSSRC_ (remb_ self))
    /\ Forall is_u32 (rembSSRC_ (remb_ self)) /\ rate_ok 18 (rembBitrate_ (remb_ self));
  ok_tmmbr : rate_ok 17 (kbit (tmmbr_Send_ (tmmbr_ self))) /\ 0 <= packetOH_Send_ (tmmbr_ self) < 512
    /\ Forall element_ok (boundingSetToSend_ (tmmbr_ self)) /\ (has flags kRtcpTmmbr = true -> fs_module fs <> None);
  ok_app : has flags kRtcpApp = true -> exists data, appData_ (app_ self) = Some data /\ appLength_ (app_ self) = Zlen data
    /\ Zlen data mod 4 = 0 /\ 0 <= appSubType_ (app_ self) < 32 /\ is_u32 (appName_ (app_ self));
  ok_metric : metric_ok (metric_item self);
  ok_picture : 0 <= pictureID < 2 ^ 63 /\ (has flags kRtcpRpsi = true -> s8 (send_payload_type fs) <> -1);
  ok_nack : Forall is_u16 nackList;
  ok_feedback : is_u32 (packets_sent fs) /\ is_u32 (media_bytes_sent fs) /\ is_u32 (ti_sourceSSRC (last_xr_rr fs))
    /\ is_u32 (ti_lastRR (last_xr_rr fs)) /\ is_u32 (ti_delaySinceLastRR (last_xr_rr fs))
}.
End packet.

(** ** One builder after another *)

Section sends.
Context `{Machine} (buf : list Z).
Hypothesis Hbuf : Zlen buf = IP_PACKET_SIZE.

(** From such a sender and a packet [a] on, the blocks of [l] that fit are appended. *)
Definition sends (same : RTCPSender -> Prop) (k : RTCPSender -> Out -> flow Prepared Prepared) (l : list Entry) : Prop :=
  forall self a, same self -> Zlen a + Zlen (concat (block_bytes <$> fitting (Zlen a) l)) <= IP_PACKET_SIZE ->
    let b := a ++ concat (block_bytes <$> fitting (Zlen a) l) in
    exists self', run_flow (k self (W buf a)) = Some (Zlen b, self', put buf 0 b).

Definition builds (same same' : RTCPSender -> Prop) (build : RTCPSender -> Out -> flow Prepared (Z * RTCPSender * Out)) (need : Z) (b : Z -> Block) : Prop :=
  forall self a, same self ->
    if IP_PACKET_SIZE <=? Zlen a + need then build self (W buf a) = Cont (-2, self, W buf a)
    else Zlen a + Zlen (block_bytes (b (Zlen a))) <= IP_PACKET_SIZE ->
         exists self', build self (W buf a) = Cont (0, self', W buf (a ++ block_bytes (b (Zlen a)))) /\ same' self'.

Lemma built_sends same same' c flag build count need b k l :
  (forall self, same self -> c = false -> same' self) -> flag = c ->
  (c = true -> builds same same' build need b) -> (forall self, same' self -> same' (count self)) -> sends same' k l ->
  sends same (fun self w => flow_bind (built flag self w build count) (fun x => let '(self, w) := x in k self w)) (due c need b ++ l).
Proof.
  intros Hs -> Hb Hc Hk self a Hself Hl. destruct c; cbn [due app built] in *; [|by apply Hk; [apply Hs|]].
  specialize (Hb eq_refl self a Hself). cbn [fitting] in *. destruct (Z.leb_spec IP_PACKET_SIZE (Zlen a + need)).
  - rewrite Hb. cbn [flow_bind]. change (-2 =? -1) with false. change (-2 =? -2) with true. cbv zeta iota. cbn [flow_bind run_flow]. exists self.
    cbn [fmap list_fmap concat]. by rewrite app_nil_r.
  - cbn [fmap list_fmap concat] in *. rewrite Zlen_app in Hl. set (bs := block_bytes (b (Zlen a))) in *.
    pose proof (Zlen_nonneg (concat (block_bytes <$> fitting (Zlen a + Zlen bs) l))).
    destruct Hb as (self' & -> & Hs'); [lia|]. cbn [flow_bind]. change (0 =? -1) with false. change (0 =? -2) with false. cbv iota. cbn [flow_bind].
    rewrite app_assoc.
    assert (HZ : Zlen a + Zlen bs = Zlen (a ++ bs)) by (by rewrite Zlen_app). rewrite HZ in *. apply Hk; [by apply Hc|]. lia.
Qed.

Lemma nothing_sends same flag build k l :
  (forall self a, same self -> build self (W buf a) = Cont (0, self, W buf a)) -> sends same k l ->
  sends same (fun self w => flow_bind (built flag self w build same_sender) (fun x => let '(self, w) := x in k self w)) l.
Proof. intros Hb Hk self a Hself Hl. destruct flag; cbn [built]; [rewrite Hb by done|]; cbn [flow_bind]; by apply Hk. Qed.

Lemma appends_builds (same same' : RTCPSender -> Prop) build need b next :
  (forall self a, same self -> appends buf (build self (W buf a)) self (next self) a need (b (Zlen a))) -> (forall self, same self -> same' (next self)) ->
  builds same same' build need b.
Proof.
  intros Hb Hs self a Hself. specialize (Hb self a Hself). unfold appends in Hb. destruct (_ <=? _); [done|]. intros _. exists (next self). auto.
Qed.

Lemma sends_end same : sends same (fun self w => Cont (w.2, self, w.1)) [].
Proof. intros self a _ _. exists self. cbn. by rewrite app_nil_r. Qed.
End sends.

(** ** Each block of a packet *)

Section stages.
Context `{Machine} (buf : list Z).
Hypothesis Hbuf : Zlen buf = IP_PACKET_SIZE.
Variables (self0 : RTCPSender) (fs : FeedbackState) (env : Surroundings) (flags : Z) (ntp : Z * Z).
Variables (nackList : list Z) (repeat : bool) (pictureID : Z).
Hypothesis Hok : media_ok self0 fs flags nackList pictureID.

Definition same (self : RTCPSender) : Prop := media self = media self0.

Ltac use_media Hm :=
  unfold same, media in Hm; injection Hm; intros;
  unfold own_ssrc, remote_ssrc, fb_of, fb_to_none, sdes_chunks, metric_item, positive, bye_csrcs, sends_tmmbr, wants_tmmbr, own_ssrc, remote_ssrc in *;
  repeat match goal with E : ?x = ?y |- context [?x] => rewrite E end; auto.

Lemma same_ok self : same self -> media_ok self fs flags nackList pictureID.
Proof.
  intros Hm. destruct Hok. split; use_media Hm.
Qed.

(** A builder whose need and block depend on the media only. *)
Lemma media_builds build (need : RTCPSender -> Z) (b : RTCPSender -> Z -> Block) next :
  (forall self a, media_ok self fs flags nackList pictureID -> appends buf (build self (W buf a)) self (next self) a (need self) (b self (Zlen a))) ->
  (forall self, same self -> need self = need self0 /\ b self = b self0 /\ same (next self)) ->
  builds buf same same build (need self0) (b self0).
Proof.
  intros Hb Hs. apply (appends_builds buf same same _ _ _ next); [|intros self Hm; by apply Hs].
  intros self a Hm. specialize (Hb self a (same_ok _ Hm)). destruct (Hs self Hm) as (<- & <- & _). done.
Qed.

(** Before FIR. *)
Definition same_fir (self : RTCPSender) : Prop := same self /\ sequenceNumberFIR_ self = sequenceNumberFIR_ self0.

Lemma pli_builds : builds buf same_fir same_fir BuildPLI 12 (fun _ => PLI_block (fb_of self0)).
Proof.
  apply (appends_builds buf _ _ _ _ _ id); [|done]. intros self a [Hm _].
  replace (fb_of self0) with (fb_of self) by use_media Hm. by apply BuildPLI_W.
Qed.

Lemma fir_builds : builds buf same_fir same (fun self w => BuildFIR self w repeat) 20 (fun _ => fir_block self0 repeat).
Proof.
  apply (appends_builds buf _ _ _ _ _ (fun self => fir_sender self repeat)).
  - intros self a [Hm E]. replace (fir_block self0 repeat) with (fir_block self repeat); [by apply BuildFIR_W|].
    unfold fir_block, fir_sender. destruct repeat; cbn [sequenceNumberFIR_ set_sequenceNumberFIR]; rewrite E; use_media Hm.
  - intros self [Hm _]. by destruct repeat.
Qed.

Lemma ij_sends k l :
  sends buf same_fir k l ->
  sends buf same_fir (fun self w => flow_bind (built (has flags kRtcpTransmissionTimeOffset) self w (fun self w => BuildExtendedJitterReport self w 0) same_sender)
    (fun x => let '(self, w) := x in k self w))
    (due (has flags kRtcpTransmissionTimeOffset && negb (0 <? Zlen (external_report_blocks_ self0))) 8 (fun _ => IJ_block 0) ++ l).
Proof.
  intros Hk. assert (He : forall self, same_fir self -> external_report_blocks_ self = external_report_blocks_ self0) by (intros self [Hm _]; use_media Hm).
  destruct (0 <? Zlen (external_report_blocks_ self0)) eqn:E; cbn [negb]; [rewrite andb_false_r|rewrite andb_true_r].
  - apply nothing_sends; [|done]. intros self a Hm. unfold BuildExtendedJitterReport. by rewrite (He _ Hm), E.
  - eapply built_sends; [done..| |done|done]. intros _. apply (appends_builds buf _ _ _ _ _ id); [|done].
    intros self a Hm. assert (Hx : external_report_blocks_ self = []); [|by apply BuildExtendedJitterReport_W]. rewrite (He _ Hm).
    destruct (external_report_blocks_ self0) as [|x xs]; [done|]. rewrite Zlen_cons in E. pose proof (Zlen_nonneg xs). lia.
Qed.

Lemma tmmbr_sends k l :
  sends buf same k l ->
  sends buf same (fun self w => flow_bind (built (has flags kRtcpTmmbr) self w (fun self w => BuildTMMBR self fs env w) same_sender)
    (fun x => let '(self, w) := x in k self w))
    (due (has flags kRtcpTmmbr && tmmbr_due self0 fs env) 20 (fun _ => tmmbr_block self0) ++ l).
Proof.
  intros Hk. destruct (has flags kRtcpTmmbr) eqn:Hf; cbn [andb]; [|by eapply built_sends].
  destruct (ok_tmmbr _ _ _ _ _ Hok) as (_ & _ & _ & Hmod). specialize (Hmod Hf). unfold tmmbr_due.
  destruct (fs_module fs) as [[owner candidates]|] eqn:Em; [|done].
  assert (Hb : forall self a, same self -> if sends_tmmbr self0 env owner candidates
    then appends buf (BuildTMMBR (R := Prepared) self fs env (W buf a)) self self a 20 (tmmbr_block self0)
    else BuildTMMBR (R := Prepared) self fs env (W buf a) = Cont (0, self, W buf a)).
  { intros self a Hm. replace (sends_tmmbr self0 env owner candidates) with (sends_tmmbr self env owner candidates) by (unfold sends_tmmbr; use_media Hm).
    replace (tmmbr_block self0) with (tmmbr_block self) by (unfold tmmbr_block; use_media Hm).
    destruct (ok_tmmbr _ _ _ _ _ (same_ok _ Hm)) as (? & ? & _). by apply BuildTMMBR_W. }
  destruct (sends_tmmbr self0 env owner candidates); [|by apply nothing_sends].
  eapply built_sends; [done..| |done|done]. intros _. by apply (appends_builds buf _ _ _ _ _ id).
Qed.

Lemma sli_builds : builds buf same same (fun self w => BuildSLI self w (u8 pictureID)) 16 (fun _ => sli_block self0 (u8 pictureID)).
Proof.
  apply (media_builds _ (fun _ => 16) (fun self _ => sli_block self (u8 pictureID)) id); [intros; by apply BuildSLI_W|].
  intros self Hm. unfold sli_block. use_media Hm.
Qed.

Lemma rpsi_builds : has flags kRtcpRpsi = true ->
  builds buf same same (fun self w => if s8 (send_payload_type fs) =? -1 then Cont (-1, self, w) else BuildRPSI self w pictureID (u8 (s8 (send_payload_type fs))))
    24 (fun _ => rpsi_block self0 pictureID (u8 (s8 (send_payload_type fs)))).
Proof.
  intros Hf. apply (media_builds _ (fun _ => 24) (fun self _ => rpsi_block self pictureID (u8 (s8 (send_payload_type fs)))) id).
  - intros self a Hm. destruct Hm as []. destruct ok_picture0 as [Hp Ht]. rewrite (proj2 (Z.eqb_neq _ _)) by auto. by apply BuildRPSI_W.
  - intros self Hm. unfold rpsi_block. use_media Hm.
Qed.

Lemma remb_builds : builds buf same same BuildREMB (20 + 4 * lengthRembSSRC_ (remb_ self0)) (fun _ => remb_block self0).
Proof.
  apply (media_builds _ (fun self => 20 + 4 * lengthRembSSRC_ (remb_ self)) (fun self _ => remb_block self) id).
  - intros self a Hm. destruct (ok_remb _ _ _ _ _ Hm) as (? & ? & ? & ?). by apply BuildREMB_W.
  - intros self Hm. unfold remb_block. use_media Hm.
Qed.

Lemma bye_builds : builds buf same same BuildBYE 8 (fun _ => bye_block self0).
Proof.
  intros self a Hm. destruct (Z.leb_spec IP_PACKET_SIZE (Zlen a + 8)) as [Hl|Hl].
  - unfold BuildBYE. change (W buf a).2 with (Zlen a). by rewrite (proj2 (Z.leb_le _ _)).
  - assert (E : bye_block self = bye_block self0) by (unfold bye_block; use_media Hm). rewrite <- E. intros Hs. exists self. split; [|done].
    pose proof (ok_csrcs _ _ _ _ _ (same_ok _ Hm)) as Hc. apply BuildBYE_W; try done; try apply Hc.
    unfold bye_block in Hs. cbn [block_bytes] in Hs. rewrite Zlen_header, Zlen_app, Zlen_be32, (Zlen_concat be32 _ 4) in Hs by done. lia.
Qed.

Lemma app_builds : has flags kRtcpApp = true ->
  builds buf same same BuildAPP (12 + appLength_ (app_ self0)) (fun _ => app_block self0 (default [] (appData_ (app_ self0)))).
Proof.
  intros Hf. apply (media_builds _ (fun self => 12 + appLength_ (app_ self)) (fun self _ => app_block self (default [] (appData_ (app_ self)))) id).
  - intros self a Hm. destruct (ok_app _ _ _ _ _ Hm Hf) as (data & Hd & Hl & Hm4 & Ht & _). rewrite Hd, Hl. cbn [default]. by apply BuildAPP_W.
  - intros self Hm. unfold app_block. use_media Hm.
Qed.

Lemma tmmbn_builds : builds buf same same BuildTMMBN (12 + Zlen (boundingSetToSend_ (tmmbr_ self0)) * 8) (fun _ => tmmbn_block self0).
Proof.
  apply (media_builds _ (fun self => 12 + Zlen (boundingSetToSend_ (tmmbr_ self)) * 8) (fun self _ => tmmbn_block self) id).
  - intros self a Hm. destruct (ok_tmmbr _ _ _ _ _ Hm) as (? & ? & ? & ?). by apply BuildTMMBN_W.
  - intros self Hm. unfold tmmbn_block. use_media Hm.
Qed.

Lemma nack_builds : builds buf same same (fun self w => BuildNACK self w nackList) 16 (nack_block self0 nackList).
Proof.
  apply (media_builds _ (fun _ => 16) (fun self => nack_block self nackList) id); [intros; by apply BuildNACK_W|].
  intros self Hm. unfold nack_block. use_media Hm.
Qed.

Lemma metric_builds : builds buf same same BuildVoIPMetric 44 (fun _ => VoIP_block (own_ssrc self0) (metric_item self0)).
Proof.
  apply (media_builds _ (fun _ => 44) (fun self _ => VoIP_block (own_ssrc self) (metric_item self)) id); [intros; by apply BuildVoIPMetric_W|].
  intros self Hm. use_media Hm.
Qed.

Lemma time_builds : builds buf same same (fun self w => BuildReceiverReferenceTime self w ntp.1 ntp.2) 20
  (fun _ => ReferenceTime_block (own_ssrc self0) ntp.1 ntp.2).
Proof.
  apply (media_builds _ (fun _ => 20) (fun self _ => ReferenceTime_block (own_ssrc self) ntp.1 ntp.2) (fun self => sent_xr self ntp.1 ntp.2));
    [intros; by apply BuildReceiverReferenceTime_W|]. intros self Hm. use_media Hm.
Qed.

Lemma dlrr_builds : builds buf same same (fun self w => BuildDlrr self w (last_xr_rr fs)) 24 (fun _ => dlrr_block self0 (last_xr_rr fs)).
Proof.
  apply (media_builds _ (fun _ => 24) (fun self _ => dlrr_block self (last_xr_rr fs)) id); [intros; by apply BuildDlrr_W|].
  intros self Hm. unfold dlrr_block. use_media Hm.
Qed.

(** What PrepareRTCP does behind the reports. *)
Lemma rest_sends :
  sends buf same_fir (fun self w =>
    let! (self, w) := built (has flags kRtcpTransmissionTimeOffset) self w (fun self w => BuildExtendedJitterReport self w 0) same_sender in
    let! (self, w) := built (has flags kRtcpPli) self w BuildPLI count_pli in
    let! (self, w) := built (has flags kRtcpFir) self w (fun self w => BuildFIR self w repeat) count_fir in
    let! (self, w) := built (has flags kRtcpSli) self w (fun self w => BuildSLI self w (u8 pictureID)) same_sender in
    let! (self, w) := built (has flags kRtcpRpsi) self w (fun self w =>
      if s8 (send_payload_type fs) =? -1 then Cont (-1, self, w)
      else BuildRPSI self w pictureID (u8 (s8 (send_payload_type fs)))) same_sender in
    let! (self, w) := built (has flags kRtcpRemb) self w BuildREMB same_sender in
    let! (self, w) := built (has flags kRtcpBye) self w BuildBYE same_sender in
    let! (self, w) := built (has flags kRtcpApp) self w BuildAPP same_sender in
    let! (self, w) := built (has flags kRtcpTmmbr) self w (fun self w => BuildTMMBR self fs env w) same_sender in
    let! (self, w) := built (has flags kRtcpTmmbn) self w BuildTMMBN same_sender in
    let! (self, w) := built (has flags kRtcpNack) self w (fun self w => BuildNACK self w nackList) count_nack in
    let! (self, w) := built (has flags kRtcpXrVoipMetric) self w BuildVoIPMetric same_sender in
    let! (self, w) := built (has flags kRtcpXrReceiverReferenceTime) self w
      (fun self w => BuildReceiverReferenceTime self w ntp.1 ntp.2) same_sender in
    let! (self, w) := built (has flags kRtcpXrDlrrReportBlock) self w (fun self w => BuildDlrr self w (last_xr_rr fs)) same_sender in
    Cont (w.2, self, w.1))
    (entries self0 fs env flags ntp nackList repeat pictureID).
Proof.
  unfold entries. apply ij_sends.
  apply (built_sends buf same_fir same_fir); [done|done|intros _; apply pli_builds|done|].
  apply (built_sends buf same_fir same); [by intros self [Hm _]|done|intros _; apply fir_builds|done|].
  apply (built_sends buf same same); [done|done|intros _; apply sli_builds|done|].
  apply (built_sends buf same same); [done|done|apply rpsi_builds|done|].
  apply (built_sends buf same same); [done|done|intros _; apply remb_builds|done|].
  apply (built_sends buf same same); [done|done|intros _; apply bye_builds|done|].
  apply (built_sends buf same same); [done|done|apply app_builds|done|].
  apply tmmbr_sends.
  apply (built_sends buf same same); [done|done|intros _; apply tmmbn_builds|done|].
  apply (built_sends buf same same); [done|done|intros _; apply nack_builds|done|].
  apply (built_sends buf same same); [done|done|intros _; apply metric_builds|done|].
  apply (built_sends buf same same); [done|done|intros _; apply time_builds|done|].
  rewrite <- (app_nil_r (due (has flags kRtcpXrDlrrReportBlock) _ _)).
  apply (built_sends buf same same); [done|done|intros _; apply dlrr_builds|done|].
  apply sends_end.
Qed.

(** ** The reports at the start *)

Hypothesis Hreports : Zlen (report_items self0) <= 31.

Lemma report_size ic pt body : Zlen body = 4 + 24 * Zlen (report_items self0) \/ Zlen body = 24 + 24 * Zlen (report_items self0) ->
  Zlen (header ic pt body) mod 4 = 0 /\ Zlen (header ic pt body) <= 772.
Proof. intros Hb. rewrite Zlen_header. pose proof (Zlen_nonneg (report_items self0)). split; [zdm|lia]. Qed.

Lemma sdes_follows self a :
  same self -> Zlen a mod 4 = 0 -> Zlen a <= 772 -> Zlen a + Zlen (block_bytes (SDES_block (sdes_chunks self0))) <= IP_PACKET_SIZE ->
  BuildSDEC (R := Prepared) self (W buf a) = Cont (0, self, W buf (a ++ block_bytes (SDES_block (sdes_chunks self0)))).
Proof.
  intros Hm Ha Hl Hs. replace (sdes_chunks self0) with (sdes_chunks self) in * by use_media Hm.
  destruct (ok_names _ _ _ _ _ (same_ok _ Hm)) as [Hn Hc].
  assert (Hn' : Forall (fun c => Zlen c.2 < 256) (sdes_chunks self)) by (eapply Forall_impl; [exact Hn|]; by intros c (_ & _ & ?)).
  apply BuildSDEC_W; try done. inversion Hn' as [|? ? H1 _]; subst. cbn [snd] in H1. unfold IP_PACKET_SIZE. lia.
Qed.

Lemma reports_built :
  let bs := concat (block_bytes <$> report_blocks self0 fs env flags ntp) in
  Zlen bs <= IP_PACKET_SIZE ->
  exists self', build_reports self0 fs env (W buf []) flags ntp = Cont (self', W buf bs) /\ same_fir self'.
Proof.
  cbv zeta. unfold report_blocks, build_reports. destruct (has flags kRtcpSr); [|destruct (has flags kRtcpRr)].
  - cbn [fmap list_fmap concat]. rewrite app_nil_r. unfold built. cbv beta iota. rewrite BuildSR_W by done. cbn [flow_bind].
    change (0 =? -1) with false. change (0 =? -2) with false. cbv iota. cbn [flow_bind]. rewrite Zlen_app. intros Hl. eexists.
    destruct (report_size (Zlen (report_items self0)) PT_SR (be32 (own_ssrc self0) ++ be32 ntp.1 ++ be32 ntp.2 ++ be32 (rtp_time self0 fs env)
      ++ be32 (packets_sent fs) ++ be32 (media_bytes_sent fs) ++ concat (report_bytes <$> report_items self0))) as [H1 H2];
      [right; rewrite !Zlen_app, !Zlen_be32, Zlen_report_items; lia|].
    rewrite sdes_follows by done. cbn [flow_bind]. change (0 =? -1) with false. change (0 =? -2) with false. cbv iota. done.
  - unfold built. cbv beta iota. rewrite BuildRR_W by done. cbn [flow_bind]. change (0 =? -1) with false. change (0 =? -2) with false. cbv iota. cbn [flow_bind].
    destruct (report_size (Zlen (report_items self0)) PT_RR (be32 (own_ssrc self0) ++ concat (report_bytes <$> report_items self0))) as [H1 H2];
      [left; rewrite !Zlen_app, !Zlen_be32, Zlen_report_items; lia|].
    change (CNAME_ (sources_ (same_sender (reported self0)))) with (CNAME_ (sources_ self0)).
    destruct (negb (Zlen (CNAME_ (sources_ self0)) =? 0)); cbn [fmap list_fmap concat built_or_not]; rewrite app_nil_r; intros Hl; [|by eexists].
    rewrite Zlen_app in Hl. eexists. rewrite sdes_follows by done. cbn [flow_bind]. change (0 =? -1) with false. cbv iota. done.
  - intros _. by exists self0.
Qed.
End stages.

Section prepare.
Context `{Machine}.
Variables (self : RTCPSender) (fs : FeedbackState) (env : Surroundings) (packetTypeFlags : Z) (nackList : list Z) (repeat : bool) (pictureID : Z).

(** The packet is the bytes of the blocks, when the tests of the builders were enough. *)
Lemma prepared_packet buf flags self0 ntp :
  Zlen buf = IP_PACKET_SIZE -> front self fs env packetTypeFlags = (flags, self0, ntp) -> media_ok self0 fs flags nackList pictureID ->
  Zlen (report_items self0) <= 31 ->
  let bs := concat (block_bytes <$> sent_blocks self fs env packetTypeFlags nackList repeat pictureID) in
  Zlen bs <= IP_PACKET_SIZE ->
  exists self', PrepareRTCP self fs env packetTypeFlags nackList repeat pictureID buf = Some (Zlen bs, self', put buf 0 bs).
Proof.
  cbv zeta. intros Hbuf Hf Hok Hr. unfold sent_blocks. rewrite Hf. unfold blocks_of. rewrite fmap_app, concat_app. intros Hl.
  unfold front in Hf. unfold PrepareRTCP. destruct (collect_flags self fs packetTypeFlags) as [flags1 self1].
  destruct (if ShouldSendReportBlocks _ flags1 then _ else _) as [self2 ntp2]. injection Hf as -> -> ->.
  change (buf, 0) with (W buf []). set (rs := concat (block_bytes <$> report_blocks self0 fs env flags ntp)) in *.
  rewrite Zlen_app in Hl. pose proof (Zlen_nonneg (concat (block_bytes <$> fitting (Zlen rs) (entries self0 fs env flags ntp nackList repeat pictureID)))).
  destruct (reports_built buf Hbuf self0 fs env flags ntp nackList pictureID Hok Hr) as (self' & E & Hs); [fold rs; lia|]. rewrite E. cbn [flow_bind].
  by apply (rest_sends buf Hbuf self0 fs env flags ntp nackList repeat pictureID Hok self' rs Hs).
Qed.
End prepare.
