(* ===== verification/RtcpRoundTrip.v ===== *)
(** * What is sent over RTCP is what is reported

    The packet of the RTCP sender, read by the RTCP parser, gives the reports of the blocks
    that the sender chose, in their order ([rtcp_round_trip]). *)
From S2P Require Import Prelude RtpWire RtcpParser RtcpSteps RtcpBlocks StdMap RtcpSender RtcpBuild RtcpLists RtcpReports RtcpPacket.
Local Open Scope Z_scope.

(** ** Flags *)

Lemma has_lor x f g : has (Z.lor x f) g = has x g || has f g.
Proof.
  unfold has. rewrite Z.land_lor_distr_l. destruct (Z.eqb_spec (Z.land x g) 0) as [->|Hx]; [by rewrite Z.lor_0_l|].
  destruct (Z.eqb_spec (Z.lor (Z.land x g) (Z.land f g)) 0) as [E|]; [|done]. by apply Z.lor_eq_0_iff in E as [? _].
Qed.

Lemma lor_16 a b : 0 <= a < 65536 -> 0 <= b < 65536 -> 0 <= Z.lor a b < 65536.
Proof.
  intros Ha Hb. assert (E : Z.lor a b = Z.land (Z.lor a b) (Z.ones 16))
    by (rewrite Z.land_lor_distr_l, !Z.land_ones, !Z.mod_small by (done || lia); done).
  rewrite E, Z.land_ones by done. by apply Z.mod_pos_bound.
Qed.

(** ** The blocks can be parsed *)

Definition raw_ok (x : Z * RTCPReportBlock) : Prop :=
  is_u32 x.1 /\ is_u32 (extendedHighSeqNum x.2) /\ is_u32 (jitter x.2) /\ is_u32 (lastSR x.2) /\ is_u32 (delaySinceLastSR x.2).

Lemma report_item_ok x : raw_ok x -> rb_ok (report_item x).
Proof.
  destruct x as [ssrc b]. intros (H1 & H2 & H3 & H4 & H5). cbn [fst snd] in *. unfold rb_ok, report_item.
  cbn [rb_SSRC rb_FractionLost rb_CumulativeNumOfPacketsLost rb_ExtendedHighestSequenceNumber rb_Jitter rb_LastSR rb_DelayLastSR].
  split; [done|]. split; [apply u8_range|]. split; [by apply Z.mod_pos_bound|]. done.
Qed.

Section blocks.
Context `{Machine}.
Variables (self : RTCPSender) (fs : FeedbackState) (env : Surroundings) (flags : Z) (ntp : Z * Z).
Variables (nackList : list Z) (repeat : bool) (pictureID : Z).
Hypothesis Hok : media_ok self fs flags nackList pictureID.
Hypothesis Hntp : is_u32 ntp.1 /\ is_u32 ntp.2.

Definition entry_ok (e : Entry) : Prop := forall pos, 0 <= pos -> pos + e.1 < IP_PACKET_SIZE -> block_ok (e.2 pos).

Lemma due_ok c need b : (c = true -> entry_ok (need, b)) -> Forall entry_ok (due c need b).
Proof. destruct c; cbn; [|constructor]. intros Hc. constructor; [by apply Hc|constructor]. Qed.

Lemma fb_of_ok : fb_ok (fb_of self) /\ fb_ok (fb_to_none self) /\ is_u32 (own_ssrc self) /\ is_u32 (remote_ssrc self).
Proof. destruct (ok_ssrc _ _ _ _ _ Hok) as [H1 H2]. repeat split; try apply H1; try apply H2; done. Qed.

Lemma native_bits_size : 0 <= pictureID < 2 ^ 63 -> Zlen (native_bits pictureID) = picture_bytes pictureID + rpsi_padding pictureID.
Proof.
  intros Hp. pose proof (picture_bytes_range _ Hp). assert (0 <= rpsi_padding pictureID) by (unfold rpsi_padding; zdm). unfold native_bits.
  rewrite Zlen_bytes, !Zlen_app. unfold Zlen. rewrite length_picture_high, length_replicate. cbn [length]. lia.
Qed.

Lemma rpsi_ok : block_ok (rpsi_block self pictureID (u8 (s8 (send_payload_type fs)))).
Proof.
  destruct (ok_picture _ _ _ _ _ Hok) as [Hp _]. pose proof (picture_bytes_range _ Hp) as Hr. pose proof (native_bits_size Hp) as Hs.
  assert (HP : 0 <= rpsi_padding pictureID < 4 /\ (2 + picture_bytes pictureID + rpsi_padding pictureID) mod 4 = 0) by (unfold rpsi_padding; zdm).
  cbn [rpsi_block block_ok]. rewrite Hs. unfold RTCP_RPSI_DATA_SIZE. split; [apply fb_of_ok|]. repeat split; try lia; [zdm|rewrite <- (proj2 HP); f_equal; lia].
Qed.

Lemma remb_ok : block_ok (remb_block self).
Proof.
  destruct (ok_remb _ _ _ _ _ Hok) as (Hn & Hl & Hs & Hr). cbn [remb_block block_ok]. split; [apply fb_of_ok|].
  pose proof (exp_of_range 18 _ ltac:(lia) Hr). pose proof (mantissa_of_range 18 _ ltac:(lia) Hr). split; [lia|]. split; [lia|].
  split; [rewrite Zlen_ztake by lia; unfold MAX_NUMBER_OF_REMB_FEEDBACK_SSRCS; lia|]. by apply Forall_take.
Qed.

Lemma tuple_fits ssrc rate overhead : is_u32 ssrc -> rate_ok 17 rate -> 0 <= overhead < 512 -> tmmbr_fits ssrc (exp_of 17 rate) (mantissa_of 17 rate) overhead.
Proof.
  intros Hs Hr Ho. pose proof (exp_of_range 17 _ ltac:(lia) Hr). pose proof (mantissa_of_range 17 _ ltac:(lia) Hr).
  split; [done|]. split; [lia|]. split; [done|]. done.
Qed.

Lemma tmmbn_ok : entry_ok (12 + Zlen (boundingSetToSend_ (tmmbr_ self)) * 8, fun _ => tmmbn_block self).
Proof.
  intros pos H0 Hl. cbn [fst snd] in *. destruct (ok_tmmbr _ _ _ _ _ Hok) as (_ & _ & He & _). cbn [tmmbn_block block_ok]. split; [apply fb_of_ok|].
  assert (Hn : Zlen (tuple_of <$> positive self) <= Zlen (boundingSetToSend_ (tmmbr_ self)))
    by (unfold Zlen, positive; rewrite length_fmap; pose proof (filter_length_le (fun e => 0 <? el_tmmbr e) (boundingSetToSend_ (tmmbr_ self))); lia).
  split; [unfold IP_PACKET_SIZE in *; lia|]. apply Forall_fmap, Forall_filter_list. eapply Forall_impl; [exact He|].
  intros e (H1 & H2 & H3). by apply tuple_fits.
Qed.

Lemma nack_mask_ok l n m : Forall is_u16 l -> is_u16 m -> is_u16 (nack_mask l n m).1 /\ Forall is_u16 (nack_mask l n m).2.
Proof.
  intros Hl. revert m. induction Hl as [|x l Hx Hl IH]; intros m Hm; cbn [nack_mask]; [done|].
  destruct ((0 <=? u16 (x - n) - 1) && (u16 (x - n) - 1 <=? 15)); [|by split; [|constructor]].
  apply IH. unfold is_u16 in *. pose proof (u16_range (Z.shiftl 1 (u16 (x - n) - 1))) as Hr. unfold is_u16 in Hr.
  by apply lor_16.
Qed.

Lemma nack_items_ok max l : Forall is_u16 l -> Forall (fun i => is_u16 (nack_PacketID i) /\ is_u16 (nack_BitMask i)) (nack_items max l).
Proof.
  revert l. induction max as [|max IH]; intros [|n l] Hl; cbn [nack_items]; try constructor. inversion Hl as [|? ? Hn Hl']; subst.
  destruct (nack_mask_ok l n 0 Hl' ltac:(done)) as [H1 H2]. destruct (nack_mask l n 0) as [m r]. constructor; [done|]. by apply IH.
Qed.

Lemma nack_ok pos : block_ok (nack_block self nackList pos).
Proof.
  cbn [nack_block block_ok]. split; [apply fb_of_ok|]. split; [|apply nack_items_ok, Hok].
  pose proof (length_nack_items (nack_room pos) nackList). unfold nack_room, kRtcpMaxNackFields, Zlen in *. lia.
Qed.

Lemma entries_ok : Forall entry_ok (entries self fs env flags ntp nackList repeat pictureID).
Proof.
  destruct fb_of_ok as (F1 & F2 & S1 & S2). destruct (ok_feedback _ _ _ _ _ Hok) as (_ & _ & D1 & D2 & D3).
  unfold entries. repeat (apply Forall_app; split); apply due_ok; intros Hf.
  - intros pos _ _. done.
  - intros pos _ _. exact F1.
  - intros pos _ _. cbn. split; [exact F2|exact S2].
  - intros pos _ _. cbn. split; [exact F1|]. split; [done|]. split; [done|]. change 63 with (Z.ones 6). rewrite Z.land_comm, Z.land_ones by done. by apply Z.mod_pos_bound.
  - intros pos _ _. exact rpsi_ok.
  - intros pos _ _. exact remb_ok.
  - intros pos _ _. cbn. split; [exact S1|]. destruct (ok_csrcs _ _ _ _ _ Hok) as [Hc Hl]. unfold kRtpCsrcSize in Hc. unfold bye_csrcs. destruct (includeCSRCs_ _); [rewrite Zlen_ztake; lia|done].
  - intros pos H0 Hp. destruct (ok_app _ _ _ _ _ Hok Hf) as (data & Hd & Hl & Hm & Ht & Hn). cbn [fst snd] in *. rewrite Hd. cbn [default app_block block_ok].
    rewrite Hl in Hp. unfold IP_PACKET_SIZE in Hp. split; [exact Ht|]. split; [exact S1|]. split; [exact Hn|]. split; [exact Hm|]. cbn. lia.
  - intros pos _ _. destruct (ok_tmmbr _ _ _ _ _ Hok) as (Hr & Ho & _ & _). cbn. split; [exact F2|]. by apply tuple_fits.
  - exact tmmbn_ok.
  - intros pos _ _. apply nack_ok.
  - intros pos _ _. cbn. split; [exact S1|]. apply Hok.
  - intros pos _ _. cbn. split; [exact S1|exact Hntp].
  - intros pos _ _. cbn. split; [exact S1|]. split; [exact D1|]. split; [exact D2|exact D3].
Qed.

Lemma fitting_ok l pos : 0 <= pos -> Forall entry_ok l -> Forall block_ok (fitting pos l).
Proof.
  intros H0 Hl. revert pos H0. induction Hl as [|[need b] l He _ IH]; intros pos H0; cbn [fitting]; [constructor|].
  destruct (Z.leb_spec IP_PACKET_SIZE (pos + need)); [constructor|]. constructor; [by apply He|]. apply IH. pose proof (Zlen_nonneg (block_bytes (b pos))). lia.
Qed.

Lemma report_blocks_ok : Forall rb_ok (report_items self) -> Zlen (report_items self) <= 31 -> Forall block_ok (report_blocks self fs env flags ntp).
Proof.
  intros Hr Hl. destruct fb_of_ok as (_ & _ & S1 & _). destruct (ok_feedback _ _ _ _ _ Hok) as (P1 & P2 & _). destruct (ok_names _ _ _ _ _ Hok) as [N1 N2].
  assert (Hsdes : block_ok (SDES_block (sdes_chunks self))).
  { split; [done|]. split; [|done]. unfold sdes_chunks. rewrite Zlen_cons. unfold kRtpCsrcSize in N2. lia. }
  unfold report_blocks. destruct (has flags kRtcpSr); [|destruct (has flags kRtcpRr)]; [| |constructor].
  - constructor; [|by constructor]. cbn [sr_block block_ok SR_NumberOfReportBlocks SR_SenderSSRC SR_NTPMostSignificant SR_NTPLeastSignificant SR_RTPTimestamp SR_SenderPacketCount SR_SenderOctetCount].
    split; [done|]. split; [lia|]. split; [done|]. split; [apply Hntp|]. split; [apply Hntp|]. split; [apply u32_range|]. done.
  - constructor; [|destruct (negb _); [by constructor|constructor]]. cbn [rr_block block_ok]. split; [done|]. split; [lia|done].
Qed.
End blocks.

(** ** The sender at the start of a packet *)

Section sender.
Context `{Machine}.

(** A statistician: its SSRC, what it answers and the time. *)
Definition stat_ok (x : Z * option RtcpStatistics * (Z * Z)) : Prop :=
  let '(ssrc, s, ntp) := x in
  is_u32 ssrc /\ is_u32 ntp.1 /\ is_u32 ntp.2
  /\ (forall st, s = Some st -> is_u32 (extended_max_sequence_number st) /\ is_u32 (stat_jitter st)).

Record reports_ok (self : RTCPSender) (fs : FeedbackState) (env : Surroundings) : Prop := {
  ok_internal : internal_report_blocks_ self = [];
  ok_external : Forall raw_ok (external_report_blocks_ self);
  ok_number : Zlen (external_report_blocks_ self) + Zlen (statisticians env) <= 31;
  ok_stats : Forall stat_ok (statisticians env);
  ok_times : is_u32 (remote_sr fs) /\ is_u32 (ntp_now env).1 /\ is_u32 (ntp_now env).2
}.

Lemma PrepareReport_ok ssrc fs st ntp :
  is_u32 ssrc -> is_u32 (remote_sr fs) -> is_u32 (extended_max_sequence_number st) -> is_u32 (stat_jitter st) -> raw_ok (ssrc, PrepareReport fs st ntp).
Proof.
  intros H1 H2 H3 H4. destruct ntp as [s f]. unfold PrepareReport, raw_ok. cbn [fst snd extendedHighSeqNum jitter lastSR delaySinceLastSR].
  split; [done|]. split; [done|]. split; [done|]. split; [done|]. destruct (_ || _); [apply u32_range|done].
Qed.

(** The media, the method and the external blocks stay, and the prepared blocks are added. *)
Definition prepared_from (self self' : RTCPSender) (n : Z) : Prop :=
  media self' = media self /\ Forall raw_ok (internal_report_blocks_ self') /\ Zlen (internal_report_blocks_ self') <= Zlen (internal_report_blocks_ self) + n.

Lemma prepare_reports_ok fs stats self ntp :
  Forall raw_ok (internal_report_blocks_ self) -> Forall stat_ok stats -> is_u32 (remote_sr fs) -> is_u32 ntp.1 /\ is_u32 ntp.2 ->
  let '(self', ntp') := prepare_reports self fs ntp stats in prepared_from self self' (Zlen stats) /\ is_u32 ntp'.1 /\ is_u32 ntp'.2.
Proof.
  intros Hi Hs Hr. revert self ntp Hi. induction Hs as [|[[ssrc s] ntp'] stats (H1 & H2 & H3 & H4) _ IH]; intros self ntp Hi Hn; cbn [prepare_reports].
  - split; [|done]. split; [done|]. split; [done|]. change (Zlen []) with 0. lia.
  - rewrite Zlen_cons. destruct s as [st|].
    + destruct (H4 st eq_refl) as [H5 H6]. unfold AddReportBlock. set (m := internal_report_blocks_ self) in *.
      assert (Hb := PrepareReport_ok ssrc fs st ntp' H1 Hr H5 H6). set (b := PrepareReport fs st ntp') in *.
      set (m' := (if RTCP_MAX_REPORT_BLOCKS <=? Zlen m then (-1, m) else (0, map_set ssrc b (map_erase ssrc m))).2).
      assert (Hm' : Forall raw_ok m' /\ Zlen m' <= Zlen m + 1).
      { subst m'. destruct (_ <=? _); cbn [snd]; [split; [done|lia]|]. split; [by apply Forall_map_set, Forall_map_erase|].
        unfold Zlen. pose proof (length_map_set ssrc b (map_erase ssrc m)). pose proof (length_map_erase ssrc m). lia. }
      specialize (IH (set_internal_report_blocks self m') ntp' (proj1 Hm') ltac:(done)). subst m'.
      destruct (RTCP_MAX_REPORT_BLOCKS <=? Zlen m); cbn [snd] in *; destruct (prepare_reports _ _ _ _) as [self' ntp''];
        destruct IH as ((M & I & L) & N); cbn [internal_report_blocks_ set_internal_report_blocks] in L; (split; [|done]); (split; [exact M|]); (split; [done|fold m; lia]).
    + specialize (IH self ntp Hi Hn). destruct (prepare_reports _ _ _ _) as [self' ntp'']. destruct IH as ((M & I & L) & N).
      split; [|done]. split; [done|]. split; [done|]. lia.
Qed.

Lemma collect_flags_media self fs flags flags' self' :
  collect_flags self fs flags = (flags', self') ->
  media self' = media self /\ internal_report_blocks_ self' = internal_report_blocks_ self
  /\ (method_ self = kRtcpCompound -> has flags' kRtcpSr || has flags' kRtcpRr = true).
Proof.
  unfold collect_flags. intros E.
  assert (Ha : exists f1 self1, (if appSend_ (app_ self) then (Z.lor (if TMMBR_ (tmmbr_ self) then Z.lor flags kRtcpTmmbr else flags) kRtcpApp, set_app_send self false)
      else (if TMMBR_ (tmmbr_ self) then Z.lor flags kRtcpTmmbr else flags, self)) = (f1, self1)
    /\ media self1 = media self /\ internal_report_blocks_ self1 = internal_report_blocks_ self /\ method_ self1 = method_ self)
    by (destruct (appSend_ (app_ self)); eexists _, _; done).
  destruct Ha as (f1 & self1 & Ea & M1 & I1 & K1). rewrite Ea in E. clear Ea. set (f2 := if REMB_ _ && _ then _ else f1) in E.
  assert (Hm : exists f3 self3, (if xrSendVoIPMetric_ (xr_ self1) then (Z.lor f2 kRtcpXrVoipMetric, set_send_metric self1 false) else (f2, self1)) = (f3, self3)
    /\ media self3 = media self1 /\ internal_report_blocks_ self3 = internal_report_blocks_ self1 /\ method_ self3 = method_ self1)
    by (destruct (xrSendVoIPMetric_ (xr_ self1)); eexists _, _; done).
  destruct Hm as (f3 & self3 & Em & M3 & I3 & K3). rewrite Em in E. clear Em.
  assert (Ht : exists f4 self4, (if sendTMMBN_ (tmmbr_ self3) then (Z.lor f3 kRtcpTmmbn, set_send_tmmbn self3 false) else (f3, self3)) = (f4, self4)
    /\ media self4 = media self3 /\ internal_report_blocks_ self4 = internal_report_blocks_ self3 /\ method_ self4 = method_ self3)
    by (destruct (sendTMMBN_ (tmmbr_ self3)); eexists _, _; done).
  destruct Ht as (f4 & self4 & Et & M4 & I4 & K4). rewrite Et in E. clear Et. cbv zeta in E.
  set (f5 := if has f4 kRtcpReport then _ else f4) in E. injection E as <- <-. split; [congruence|]. split; [congruence|]. intros Hc. rewrite K4, K3, K1, Hc.
  rewrite !has_lor. destruct (sending_ self4); [by rewrite orb_true_r|by rewrite !orb_true_r].
Qed.

Lemma front_ok self fs env packetTypeFlags flags self0 ntp :
  reports_ok self fs env -> front self fs env packetTypeFlags = (flags, self0, ntp) ->
  media self0 = media self /\ Forall rb_ok (report_items self0) /\ Zlen (report_items self0) <= 31 /\ (is_u32 ntp.1 /\ is_u32 ntp.2)
  /\ (method_ self = kRtcpCompound -> has flags kRtcpSr || has flags kRtcpRr = true).
Proof.
  intros Hr. destruct Hr as [Hi He Hn Hs (T1 & T2 & T3)]. unfold front. destruct (collect_flags self fs packetTypeFlags) as [f1 self1] eqn:Ec.
  destruct (collect_flags_media _ _ _ _ _ Ec) as (M1 & I1 & F1). rewrite Hi in I1.
  set (self2 := if has f1 kRtcpRr || has f1 kRtcpSr then schedule self1 fs env else self1).
  assert (H2 : media self2 = media self1 /\ internal_report_blocks_ self2 = internal_report_blocks_ self1) by (unfold self2; destruct (has f1 kRtcpRr || has f1 kRtcpSr); split; reflexivity).
  destruct H2 as [M2 I2]. rewrite I1 in I2.
  assert (H3 : let '(self', ntp') := if ShouldSendReportBlocks self2 f1 then prepare_reports self2 fs (ntp_now env) (statisticians env) else (self2, ntp_now env) in
    prepared_from self2 self' (Zlen (statisticians env)) /\ is_u32 ntp'.1 /\ is_u32 ntp'.2).
  { destruct (ShouldSendReportBlocks self2 f1); [apply (prepare_reports_ok fs _ self2); [by rewrite I2|done|done|done]|]. split; [|done]. split; [done|]. rewrite I2. split; [done|].
    pose proof (Zlen_nonneg (statisticians env)). lia. }
  destruct (if ShouldSendReportBlocks self2 f1 then _ else _) as [self3 ntp3]. destruct H3 as ((M3 & R3 & L3) & N3). intros [= <- <- <-].
  assert (He3 : external_report_blocks_ self3 = external_report_blocks_ self) by (assert (E := M3); rewrite M2, M1 in E; by injection E).
  split; [congruence|]. unfold report_items. rewrite He3. split; [|split; [|split; [done|]]].
  - apply Forall_fmap, Forall_app. split; (eapply Forall_impl; [eassumption|]; intros x Hx; by apply report_item_ok).
  - rewrite I2 in L3. change (Zlen []) with 0 in L3. unfold Zlen in *. rewrite length_fmap, length_app. lia.
  - intros Hc. specialize (F1 Hc). destruct (_ && _ && _); [|done]. rewrite !has_lor. apply orb_true_iff in F1 as [->| ->]; [done|by rewrite !orb_true_r].
Qed.

Variables (self : RTCPSender) (fs : FeedbackState) (env : Surroundings) (packetTypeFlags : Z) (nackList : list Z) (repeat : bool) (pictureID : Z).

(** The flags of the blocks that are looked at. *)
Definition packet_flags : Z := (front self fs env packetTypeFlags).1.1.

Lemma sent_blocks_ok :
  let blocks := sent_blocks self fs env packetTypeFlags nackList repeat pictureID in
  reports_ok self fs env -> media_ok self fs packet_flags nackList pictureID ->
  Forall block_ok blocks /\ (method_ self = kRtcpCompound -> (exists sr l, head blocks = Some (SR_block sr l)) \/ (exists s l, head blocks = Some (RR_block s l))).
Proof.
  intros blocks Hr Hm. unfold blocks, sent_blocks, packet_flags in *. destruct (front self fs env packetTypeFlags) as [[flags self0] ntp] eqn:Ef. cbn [fst] in Hm.
  destruct (front_ok _ _ _ _ _ _ _ Hr Ef) as (M & R & L & N & F). assert (Hm0 : media_ok self0 fs flags nackList pictureID) by (by eapply same_ok).
  split.
  - apply Forall_app. split; [by eapply report_blocks_ok|]. eapply fitting_ok; [apply Zlen_nonneg|]. by eapply entries_ok.
  - intros Hc. specialize (F Hc). unfold blocks_of, report_blocks. destruct (has flags kRtcpSr); [by left; eexists _, _|].
    cbn [orb] in F. rewrite F. right. by eexists _, _.
Qed.

(** C1: SendRTCP hands one packet to the transport, the bytes of the blocks that were asked
    for and fit, and the parser of the other side reads the packet to its end and reports
    these blocks, item by item and in their order.  The numbers of the sender have their
    widths, the blocks keep within the counts of their headers, and, as the builders of names
    and of BYE test less room than they take, the whole is no longer than the buffer. *)
Theorem rtcp_round_trip (send : list Z -> Z) (buffer : list Z) (reduced : bool) :
  let blocks := sent_blocks self fs env packetTypeFlags nackList repeat pictureID in
  reports_ok self fs env -> media_ok self fs packet_flags nackList pictureID -> Zlen buffer = IP_PACKET_SIZE ->
  method_ self <> kRtcpOff -> blocks <> [] -> reduced = true \/ method_ self = kRtcpCompound ->
  Zlen (concat (block_bytes <$> blocks)) <= IP_PACKET_SIZE ->
  exists ret self' packet q,
    SendRTCP self fs env (Some send) packetTypeFlags nackList repeat pictureID buffer = Some (ret, self', Some packet)
    /\ packet = concat (block_bytes <$> blocks)
    /\ parse_all (R := unit) packet reduced = Cont (run NoPacket (concat (block_reports <$> blocks)), q).
Proof.
  intros blocks Hr Hm Hbuf Hoff Hne Hred Hl. destruct (sent_blocks_ok Hr Hm) as [Hok Hhead]. set (bs := concat (block_bytes <$> blocks)) in *.
  assert (Hp : exists self', PrepareRTCP self fs env packetTypeFlags nackList repeat pictureID buffer = Some (Zlen bs, self', put buffer 0 bs)).
  { destruct (front self fs env packetTypeFlags) as [[flags self0] ntp] eqn:Ef. destruct (front_ok _ _ _ _ _ _ _ Hr Ef) as (M & R & L & N & F).
    unfold packet_flags in Hm. rewrite Ef in Hm. cbn [fst] in Hm. apply (prepared_packet _ _ _ _ _ _ _ buffer flags self0 ntp); try done. by eapply same_ok. }
  destruct Hp as (self' & Hp).
  destruct (packet_reports (R := unit) blocks reduced Hne Hok) as (q & Hq); [destruct Hred as [->|Hc]; [by left|right; by apply Hhead]|].
  assert (Hpos : 0 < Zlen bs). { subst bs. destruct blocks as [|b bl]; [done|]. cbn [fmap list_fmap concat]. rewrite Zlen_app. pose proof (reports_fit b).
    destruct b; cbn [block_bytes]; rewrite Zlen_header; pose proof (Zlen_nonneg (concat (block_bytes <$> bl))); match goal with |- context [4 + Zlen ?l] => pose proof (Zlen_nonneg l) end; lia. }
  unfold SendRTCP. rewrite decide_False by done. rewrite Hp. rewrite (proj2 (Z.ltb_ge _ _)), (proj2 (Z.eqb_neq _ _)) by lia. cbn [SendToNetwork].
  eexists _, self', bs, q. split; [|done]. rewrite u16_id by (unfold is_u16, IP_PACKET_SIZE in *; lia). rewrite put_0, ztake_app_le, ztake_all by lia. done.
Qed.
End sender.

(** ** A sender of video feedback *)

Definition example_sender : RTCPSender :=
  let self := SetRTCPStatus (new_RTCPSender false) 0 kRtcpCompound in
  let self := SetRemoteSSRC (SetSSRC self 0 4660) 22136 in
  let self := SetCNAME self [117; 115; 101; 114] in
  let self := set_remb self (mkRembData true true 1 1 [22136] 5000001) in
  SetRTCPVoIPMetrics self (mkVoIPMetric 1 2 3 4 5 6 7 8 9 10 11 12 13 14 15 16 17 18 19 20).

Definition example_state : FeedbackState := mkFeedbackState 96 90000 10 12000 300000 0 0 0 true (mkReceiveTimeInfo 22136 1 2) None.

Definition example_surroundings : Surroundings :=
  mkSurroundings 1000 7 (3000000000, 5) [(22136, Some (mkRtcpStatistics 3 4 70000 12), (3000000000, 6))] 1001 (fun _ => false).

Lemma example_reports `{Machine} : reports_ok example_sender example_state example_surroundings.
Proof.
  split; [done|apply Forall_nil_2|done| |repeat split; done].
  apply Forall_cons. split; [|apply Forall_nil_2]. cbn. unfold is_u32. split; [lia|]. split; [lia|]. split; [lia|]. intros ? [= <-]. cbn. lia.
Qed.

Lemma example_media `{Machine} : media_ok example_sender example_state (packet_flags example_sender example_state example_surroundings (kRtcpReport + kRtcpNack + kRtcpPli)) [100; 102; 117; 130] 0.
Proof.
  split; try (repeat split; done).
  - split; [|done]. apply Forall_cons. split; [|apply Forall_nil_2]. split; [done|]. split; [repeat constructor|done].
  - split; [done|]. split; [done|]. split; [by repeat constructor|done].
  - by repeat constructor.
Qed.

Definition example_packet `{Machine} : list Block :=
  sent_blocks example_sender example_state example_surroundings (kRtcpReport + kRtcpNack + kRtcpPli) [100; 102; 117; 130] false 0.

Lemma rtcp_round_trip_witness :
  let M := Build_Machine (fun _ _ => 0) (fun _ _ => 0) in
  length example_packet = 7%nat
  /\ exists ret self' packet q,
    SendRTCP example_sender example_state example_surroundings (Some Zlen) (kRtcpReport + kRtcpNack + kRtcpPli) [100; 102; 117; 130] false 0 (replicate 1500 7)
    = Some (ret, self', Some packet)
    /\ packet = concat (block_bytes <$> example_packet)
    /\ parse_all (R := unit) packet false = Cont (run NoPacket (concat (block_reports <$> example_packet)), q).
Proof.
  intros M. split; [by vm_compute|].
  refine (rtcp_round_trip example_sender example_state example_surroundings (kRtcpReport + kRtcpNack + kRtcpPli) [100; 102; 117; 130] false 0 Zlen (replicate 1500 7) false _ _ _ _ _ _ _).
  - exact example_reports.
  - exact example_media.
  - by vm_compute.
  - done.
  - by vm_compute.
  - by right.
  - by vm_compute.
Defined.
